(* ===== verification/_CoqProject ===== *)
-Q . S2P
Prelude.v
CecConsts.v
CecMsg.v
CecCodec.v
CecOperands.v
CecPayload.v
CecRouting.v
CecRecord.v
CecTimer.v
CecSystem.v
CecTuner.v
CecVendor.v
CecMenu.v
CecAudio.v
CecCdc.v
CecTables.v
CecProtocol.v
MediaInfo.v
Byteorder.v
Memory.v
Netlink.v
MaximSti.v
Vring.v
CLayout.v
Ioctl.v
AbiBase.v
AbiMedia.v
AbiDisplay.v
AbiCamera.v
AbiDrm.v
AbiSound.v
AbiStorage.v
AbiSystem.v
AbiNet.v
AbiKernel.v
AbiProto.v
AbiDevices.v
Abi.v
UsbDesc.v
OssSeq.v
Xtables.v
Words.v
Codes.v
ZorroIds.v
Views.v
BitSets.v
Handles.v
Fields.v
CConst.v
ConstBase.v
ConstMedia.v
ConstDisplay.v
ConstSound.v
ConstNetlink.v
ConstNet.v
ConstStorage.v
ConstSystem.v
ConstDevices.v
Consts.v
Tipc.v
Bfqio.v
RilWrapper.v
Text.v
Seemp.v
V4l2.v
LightDaemon.v
TriState.v
UsbHal.v
RecoveryUi.v
VideoTimings.v
Bitfields.v
Cpp.v
LibcCompat.v
Syscalls.v
