(* ===== verification/Prelude.v ===== *)
(** * Verification of the vendor tree's C code

    The repository is an Android vendor tree. Its C code is of two kinds: the
    exported kernel headers under [kernel-headers], whose structures, constants, ioctl
    commands, inline functions and macros are the interface between user space
    and the kernel, and small programs of its own: the libraries [libbfqio] and
    [libril-wrapper] in C, the daemons and services of [native_packages] and the
    menu of [recovery] in C++. This library models the functions of the headers,
    their structures and ioctl commands, the enumerations and blocks of macros,
    and each of the programs.

    ** Parts, and where they are modelled

    - HDMI-CEC, [linux/cec.h] and [linux/cec-funcs.h]. [CecConsts] has the
      constants, [CecMsg] the message structure and the helpers of [cec.h],
      [CecOperands] the operand structures and the digital service pair. One
      file per feature has its encoders ([cec_msg_X]) and decoders ([cec_ops_X]),
      under the names of the header and in its order: [CecRouting], [CecRecord],
      [CecTimer], [CecSystem], [CecTuner], [CecVendor], [CecMenu], [CecAudio],
      [CecCdc]. [CecCodec] has the contracts these functions are proved against,
      [CecPayload] the rules for strings and byte buffers, [CecTables] the lists
      of all functions with the proof that each meets its contract, and
      [CecProtocol] the theorems.
    - Video buffers, [media/msm_media_info.h]: [MediaInfo].
    - Byte order, [linux/swab.h], [linux/byteorder/little_endian.h] and
      [big_endian.h]: [Byteorder].
    - Byte memory with loads and stores in the byte order of the host: [Memory].
    - Records in a buffer. [Netlink] has the macros that step over netlink
      messages ([linux/netlink.h]), route attributes ([linux/rtnetlink.h]) and
      fanotify events ([linux/fanotify.h]) as three instances of one interface
      ([RecordFormat], [RecordLaws]); [MaximSti] the message builder of
      [linux/maxim_sti.h], which is built on them.
    - The structures and the ioctl interface. [CLayout] models C object types and their layout under
      three ABIs (LP64, ILP32, and ILP32 with 64-bit integers aligned to 4),
      access paths, and loads and stores through them; [Ioctl] the command
      encoding of [asm-generic/ioctl.h]. The files [AbiBase], [AbiMedia],
      [AbiDisplay], [AbiCamera], [AbiDrm], [AbiSound], [AbiStorage],
      [AbiSystem], [AbiNet], [AbiKernel], [AbiProto] and [AbiDevices] have one
      module per header with its structures and unions as types, its array bounds
      and its commands; small structures that stand in a row in the header are one
      block [structs_X] of named types. [Abi] has the tables of all of them and the
      theorems.
    - Structures with bit-fields that are declared per byte order, the headers of
      network packets and of SCSI sense data: [Bitfields].
    - USB endpoint and audio unit descriptors, [linux/usb/ch9.h] and
      [linux/usb/audio.h]: [UsbDesc].
    - The sequencer macros of [linux/soundcard.h] and [linux/ultrasound.h], which
      queue events in a buffer and write it to the device: [OssSeq].
    - Firewall tables: the iteration macros of [netfilter/x_tables.h] and
      [netfilter_bridge/ebtables.h] over rule sets in memory, for the entry types
      of the IPv4, IPv6, ARP and bridge tables (class [EntryType]), and the chunk
      bitmap of [netfilter/xt_sctp.h]: [Xtables].
    - Packed fields, names and address classes of small headers, one module per
      header: [Fields]. Words that macros pack and take apart again: [Codes] (device
      functions of PCI, system registers of ARM64, versions, keyboard symbols and
      others), words that macros only take apart: [Views], both on the algebra of
      [Words]. Sets of bits ([linux/mroute.h], [mroute6.h], [capability.h],
      [wireless.h], [netfilter/xt_TCPOPTSTRIP.h]): [BitSets]. The camera's handle,
      futex operations, ATM socket options, UUIDs, memory events: [Handles]. The boards
      of [linux/zorro_ids.h] and the identifiers of [zorro.h]: [ZorroIds]. The parser
      of names in [linux/seemp_param_id.h]: [Seemp].
    - Headers whose meaning is in their conditions. [Cpp] models the preprocessor,
      [Syscalls] the system call table of [asm-generic/unistd.h], [LibcCompat] the
      negotiation of [linux/libc-compat.h] between the C library and [linux/if.h],
      [in.h], [in6.h], [ipv6.h], [xattr.h].
    - Constants. [CConst] models constant expressions with their C types, macros
      and enumerations; [ConstBase], [ConstMedia], [ConstDisplay], [ConstSound],
      [ConstNetlink], [ConstNet], [ConstStorage], [ConstSystem] and
      [ConstDevices] have one module per header with its enumerations and its
      blocks of macros, each a list of declarations, and the header they make;
      [Consts] has the theorems.
    - Video timings, [linux/v4l2-dv-timings.h] and [video/msm_hdmi_modes.h], with
      the macros that compute frames and fill tables of modes: [VideoTimings].
    - Pixel formats of [linux/videodev2.h] and [drm/drm_fourcc.h], field orders,
      defaults of color spaces and television standards: [V4l2].
    - TIPC records and addresses, [linux/tipc_config.h] and [linux/tipc.h]:
      [Tipc].
    - Virtio rings, [linux/virtio_ring.h]: [Vring].
    - The control-group client [libbfqio/bfqio.c]: [Bfqio].
    - The RIL shim [libril-wrapper/ril-wrapper.c]: [RilWrapper].
    - Of [native_packages]: the light daemon [custom_light/main.cpp]
      ([LightDaemon]), the tri-state key daemon [tri-state-key_daemon] with its
      uevent listener ([TriState]), the USB service [usb/1.0-basic] ([UsbHal]); the
      menu of [recovery/recovery_ui.cpp] ([RecoveryUi]). [Text] has what they use of
      the C and C++ libraries' conversions between text and numbers.

    Calls between the parts: the CEC files among one another; [UsbDesc] uses the
    conversions of [Byteorder]; [MaximSti] the macros of [Netlink]; the commands
    of [Ioctl] and the files [Abi*] the sizes of [CLayout], and so does [Xtables],
    which reads entries through its access paths; [Abi] compares the record sizes
    of [Netlink] and [Vring] with the layouts; a header of [Const*] lists the
    headers whose constants it uses, which it includes or relies on the program to
    include, and [VideoTimings] names its timings by the
    constants of [ConstDisplay]; [ZorroIds] packs with a macro of [Codes]; [BitSets]
    shares the bit arrays of [Xtables]; [Syscalls] and [LibcCompat] are programs of
    [Cpp]; the C++ programs and [Seemp] use [Text]. What all share is in
    this file: machine words ([wrap], [in_word], [int_val]), checked byte arrays
    ([rd], [wr], [memcpy], [strlen]), the state monad [ST] with faults and its
    weakest preconditions ([wp]), and the lemmas on bits.

    ** How state and operations correspond to the code

    An unsigned word of [w] bits is a [Z] below [2 ^ w], every operation on it
    that can leave that range is wrapped; a signed overflow and an access
    outside an array have no result ([None]), so that a theorem that gives a
    result also says that the code has none of these faults. A CEC function
    that fills a [struct cec_msg] is a program of the monad [M] (state: one
    message); a function with several message pointers works on a heap, so that
    the pointers may be equal. Out-parameters are results; where the code
    leaves one unwritten or writes into a caller's buffer, the old value is an
    argument. A decoder that returns a pointer into the message returns the
    offset. A C union is the member last written. Records and descriptors live in
    a byte array, pointers are offsets; integer members are loaded and stored in
    the byte order of the host, a class parameter ([ByteOrder]). Virtio addresses
    are 64-bit words. A structure of the ioctl interface is a value of the type
    [cty] of C types, its members in order under their names, with the names of
    the scalar types of the headers; bit-fields that share a unit of storage are one
    member. A command is a [command], its number depends on the ABI through the size
    of the argument, and where an array's length is computed with [sizeof] so does
    the type of the argument. A macro is its expression, as the
    header writes it, and is evaluated where it is used, in the scope of its
    header; an enumeration is the list of its members, with the initialisers it
    writes. The function an iteration macro is given is a program of [ST] over
    any state, and so is the program's [seqbuf_dump]. System calls of [libbfqio],
    loader calls of the RIL shim, the files the light daemon opens, writes and
    closes and the commands the tri-state daemon runs are recorded in a trace. A C++
    exception that nothing catches ends the program with an outcome of its own,
    apart from a fault. The light daemon's buffers are a record [stack]; the
    listener's buffer is the argument [msg] of the tri-state daemon. The methods of
    the USB service are lists of instructions that threads run in any interleaving,
    a step relation on a [pool] of threads with the object, the mutex and what has
    been notified; the test of the callback and the call through it are two
    instructions, and a call through a null callback is a fault. A header modelled for its conditions is a list of directives
    ([line]), which run on the finite map of the macros that are defined; what a line
    that is no directive does is up to the header, an entry of the table or a
    declaration made. The C library's headers are a function of that state, of which
    [LibcCompat] assumes the rule that [libc-compat.h] states; which declarations
    they have under the features the program asks for is a parameter. In the files on
    wire formats a bit-field is its width; its place in the bytes follows from the
    byte order of the host.

    ** What the theorems show

    - Every CEC encoder builds a well-formed frame of the right opcode and
      addressing and touches nothing else ([encoders_build_frames]); every
      decoder accepts every received message without leaving the payload or the
      caller's buffer ([decoders_total]); decoding undoes encoding
      ([codecs_roundtrip]); requests announce their response
      ([requests_name_their_response]); replies are addressed to the sender
      ([set_reply_to_swaps], [reply_feature_abort_spec]). The remaining theorems
      of [CecProtocol] treat single functions: strings, vendor payloads, feature
      reports, device classes, status, and four places where encoder and decoder
      do not fit together ([channel_major_truncated],
      [hec_report_loses_enc_state], [hec_set_state_sends_inquiry],
      [report_features_pointers]).
    - The walks over received records end and stay in the buffer, whatever it
      holds ([record_walk_safe]); two tests that do not have this property are
      characterised ([unguarded_ok_tests]). The message builder refines appending
      to a list of attributes ([nl_add_attr_refines]), and what it builds is read
      back by the driver's macros and by those of rtnetlink
      ([nl_message_roundtrip]).
    - Of all ioctl commands of the tables: numbers fit 32 bits and decode to what
      they were made of ([commands_decode]), are distinct within a header
      ([numbers_distinct]), and where they do not depend on the word size neither
      does the argument ([same_number_same_layout]), each with the list of its
      exceptions; one of these is followed to the misread value
      ([send_args_misread]). Sizes and layouts the headers promise in comments
      hold, with the exceptions named ([documented_sizes], [promised_layouts]).
      Behind these are the general facts on C layouts, which hold of any type of the
      tables ([layouts_sound], [member_store_load], [same_layout_sound]). Bit-fields
      declared per byte order are one format on the wire ([same_on_wire]), the one
      the masks of TCP flags assume ([tcp_flags_are_fields]).
    - The tables of constants can be evaluated, without signed overflow and with one
      result for both ABIs but for the exceptions named ([constants_defined]; that a
      number is the right one is not stated there). Limits of attributes are limits
      ([attribute_limits]); the numbers of controls and of rtnetlink messages
      identify them ([controls_identified], [message_families]). The video timings
      are what their names and flags say ([timings_as_named], [modes_as_named]), and
      the tables filled from them hold the selected modes and no other
      ([table_filled]). The codes of pixel formats identify them
      ([formats_identified]), and the defaults of color spaces are the documented
      ones ([defaults_documented]), with the exceptions named.
    - What a program sends through the sequencer macros is a queue of whole events
      ([events_queued]), which the device reads back ([device_reads_events]). The
      iteration macros of x_tables visit every element in order
      ([xt_iterations]); those of ebtables also tell a rule set whose sizes do not
      add up ([ebt_iterations]); the sizes neither guards against make them run for
      ever ([stuck_iterations]). The chunk bitmap is a set of the numbers below
      2048, eight times as many as there are chunk types, so that a map of all chunk
      types is not all set ([chunkmap_is_set]). The lemmas of [Fields] give the fields
      of each packed word.
    - Packed codes are read back as they were packed, without overflow except where
      one of four codes runs into the sign ([codes_roundtrip]); the fields of a view are those of its bits, and determine
      the word if they cover it ([views_read]). Arrays of bits are sets
      ([arrays_are_sets], [vif_maps_are_sets]); the fields of a handle are independent
      ([handle_fields]); the parser of names finds exactly the names ([index_finds_name],
      [ids_roundtrip]); identifiers of boards are read back and distinct, with the
      exceptions named ([products_identified]).
    - For every architecture the system call table expands without a clash and fills
      each place at most once ([tables_sound]), and architectures with the same word
      agree on the numbers ([numbers_agree]). Whatever a program includes, in whatever
      order, nothing is declared twice, and a declaration of an included kernel header
      is missing exactly where the C library was left to make it and does not, for
      want of a feature the header does not ask about ([includes_declare]); two more
      places that are not what the comments promise are examples
      ([xattr_hides_in_addr], [alt_members_undeclared]).
    - Endpoints are classified exactly once ([endpoint_classified]); the
      accessors of audio units invert the descriptor formats of both class
      versions ([mixer_accessors], [processing_accessors]).
    - For dimensions up to 16384, within which the 32-bit computation cannot wrap,
      strides, planes and total size of a video buffer are those of the layouts that
      the comments of the header draw, for all ten formats, but for the deviations
      that [deviating] and [deviation] name ([buffer_size_refines]); and the geometry
      covers the picture.
    - Byte swaps reverse bytes and fixed byte orders do not depend on the host,
      on every platform whose own routines swap.
    - TIPC lists written with [TLV_SET] are walked back item by item; a step
      that makes no progress is characterised ([tlv_step_progress]).
    - Ring layouts are disjoint, aligned and of the computed size, and the
      notification test is membership in the window of indices just passed.
    - [libbfqio] never leaves its conversion buffer and closes what it opens;
      the RIL shim delivers every completion exactly once, to rild.
    - The light daemon, as it is written, overflows its one byte for the blinking
      unless the property for it is empty, and then sets the steady colours; with
      room for that property it sets each light to the part of the property that
      belongs to it ([lights_set]). The tri-state daemon answers exactly the events
      handed to it that are of the slider ([daemon_answers]); those are the events of
      the messages received, unless a message fills the buffer, which hands over the
      event before it once more ([overflow_repeats]). Concurrent calls of the USB
      service do not race, never notify through a null callback, do not deadlock and
      are serialised ([calls_atomic]); without the mutex they do race
      ([without_mutex]).

    ** Recursion and bounds

    Loops of the code are structural recursions: over the remaining iterations
    where the code bounds them ([st_for], the copy of 45 characters), over the
    buffer position or the string where it does not ([itoa], [charcount]), so
    running past the buffer is a fault and not an end. Fuel occurs in the walks
    over records and attributes: [tlv_walk] is given the number of items and is
    proved to end with the list empty; [walk] one more than the bytes left, which
    is enough because every record takes at least its header, and running out of
    it would be a fault; [nl_attrs] the number of attributes; the iteration macros
    of [Xtables] any number of steps, enough if it exceeds the number of elements,
    and the theorem on the endless loops is about every number; [frames] the
    number of bytes. The expansion of a macro is given the depth 40, which the
    evaluation of every constant shows to be enough, and a greater one gives the
    same value ([eval_more_fuel]); [invoke] needs one
    level, and any more give the same result. The loops of the uevent parser and of
    the tokeniser have the length of the message and of the property as fuel; each
    round consumes a byte, and running out would be a fault. Threads of the USB
    service run lists of instructions without loops. The statements about all headers
    are decided by evaluation of the tables ([X_checked] in [Abi] and [Consts])
    and lifted to the quantified statements. The conditions of a header depend on
    finitely many macros; each part of it is decided by evaluation for every choice of
    those it mentions, and the frame property of [Cpp] ([run_picked]) lifts the result
    to all states. A macro that stands for another is followed two levels deep, which
    suffices for the header; a deeper one would have no value, which [tables_sound]
    excludes.

    ** What is not modelled

    Of the kernel headers: single macros outside the blocks of [Const*], unless a
    modelled definition uses them; macros that are strings, or that cast or use
    [sizeof]; most structures with bit-fields that do not depend on the byte order
    and are no argument of a command, packed unions, members aligned beyond their
    type, members under a condition on the architecture, types of the C library
    other than [timeval] and [timespec]; the ioctl commands that [Abi] lists, whose
    macros take a parameter or whose argument the headers do not declare.
    [hippi_fp_hdr] of [linux/if_hippi.h], whose bit-fields are compiled out.

    Of the programs: logging; in the tri-state daemon opening the socket, of which
    the messages received are an argument; in the light daemon the failure of
    [malloc]; in the USB service binder and the remote callback; in the menu the
    base class, which is not in the repository. The property service, which files
    open, the content of the nodes, the headers of the C library, the architecture's swap routines, the kernel,
    the loader, [telephony/ril.h] and the vendor RIL are parameters. The RIL shim
    hands rild a pointer to an array after the scope of the array has ended; the model
    takes its bytes to be still there, as they are in the frame of the function. The Java, Go
    and XML parts and the build files are not C. *)
From Stdlib Require Export ZArith Lia Bool.
From stdpp Require Export prelude numbers list strings.

#[export] Set Default Goal Selector "!".
#[global] Open Scope Z_scope.

(** ** C operators *)

Declare Scope c_scope.
Delimit Scope c_scope with c.
Notation "x &&& y" := (Z.land x y) (at level 40, left associativity) : c_scope.
Notation "x ||| y" := (Z.lor x y) (at level 50, left associativity) : c_scope.
Notation "x ^^^ y" := (Z.lxor x y) (at level 45, left associativity) : c_scope.
#[global] Open Scope c_scope.

(** ** Machine words: a [w]-bit unsigned value is a [Z] in [0, 2^w). *)

Definition wrap (w x : Z) : Z := x mod 2 ^ w.
Abbreviation u8 := (wrap 8).
Abbreviation u16 := (wrap 16).
Abbreviation u32 := (wrap 32).
Abbreviation u64 := (wrap 64).

Definition in_word (w x : Z) : Prop := 0 <= x < 2 ^ w.
Abbreviation is_u8 := (in_word 8).
Abbreviation is_u16 := (in_word 16).
Abbreviation is_u32 := (in_word 32).
Abbreviation is_u64 := (in_word 64).

#[export] Instance in_word_dec w x : Decision (in_word w x).
Proof. unfold in_word. apply _. Defined.

(** Two's complement value of the low 32 bits. *)
Definition s32 (x : Z) : Z := (x + 2 ^ 31) mod 2 ^ 32 - 2 ^ 31.

Definition in_s32 (x : Z) : Prop := - 2 ^ 31 <= x < 2 ^ 31.
#[export] Instance in_s32_dec x : Decision (in_s32 x).
Proof. unfold in_s32. apply _. Defined.

(** The result of a signed [int] operation: overflow is undefined in C, so it
    has no value here. *)
Definition int_val (x : Z) : option Z :=
  if decide (in_s32 x) then Some x else None.

Lemma in_word_unfold w x : in_word w x <-> 0 <= x < 2 ^ w.
Proof. done. Qed.

Lemma wrap_range w x : 0 <= w -> in_word w (wrap w x).
Proof. intros. unfold in_word, wrap. apply Z.mod_pos_bound. lia. Qed.

Lemma wrap_small w x : in_word w x -> wrap w x = x.
Proof. unfold in_word, wrap. intros. by apply Z.mod_small. Qed.

Lemma wrap_wrap w x : wrap w (wrap w x) = wrap w x.
Proof. unfold wrap. by rewrite Zmod_mod. Qed.

Lemma int_val_Some x : in_s32 x -> int_val x = Some x.
Proof. intros. unfold int_val. by rewrite decide_True. Qed.

(** ** Byte arrays with checked accesses *)

Definition rd (l : list Z) (i : nat) : option Z := l !! i.
Definition wr (l : list Z) (i : nat) (v : Z) : option (list Z) :=
  if decide (i < length l)%nat then Some (<[i := v]> l) else None.

(** [memcpy (dst + off, src, n)]: both accesses are checked. *)
Definition memcpy (dst : list Z) (off : nat) (src : list Z) (n : nat) : option (list Z) :=
  if decide (off + n <= length dst /\ n <= length src)%nat
  then Some (take off dst ++ take n src ++ drop (off + n) dst)
  else None.

(** [strlen]: the index of the first NUL, if the region holds one. *)
Fixpoint strlen (s : list Z) : option nat :=
  match s with
  | [] => None
  | c :: s' => if decide (c = 0) then Some 0%nat else S <$> strlen s'
  end.

(** ** A state monad with faults

    [ST S A] is code that reads and writes a state [S] and returns an [A];
    [None] is a fault, an access the C standard leaves undefined. *)

Definition ST (S A : Type) : Type := S -> option (A * S).

#[export] Instance st_ret {S} : MRet (ST S) := fun A a s => Some (a, s).
#[export] Instance st_bind {S} : MBind (ST S) := fun A B k c s =>
  match c s with
  | Some (a, s') => k a s'
  | None => None
  end.

Definition st_get {S} : ST S S := fun s => Some (s, s).
Definition st_modify {S} (f : S -> S) : ST S unit := fun s => Some (tt, f s).
Definition st_lift {S A} (o : option A) : ST S A := fun s => (fun a => (a, s)) <$> o.

(** [for (i = 0; i < n; i++) body(i)] from index [i], [k] iterations left. *)
Fixpoint st_for {S} (k i : nat) (body : nat -> ST S unit) : ST S unit :=
  match k with
  | O => mret tt
  | Datatypes.S k' => body i;; st_for k' (Datatypes.S i) body
  end.

Section monad_laws.
Context {S A B C : Type}.
Implicit Types (c : ST S A) (f : A -> ST S B) (g : B -> ST S C).

Lemma st_bind_ret (a : A) f s : (mret a ≫= f) s = f a s.
Proof. done. Qed.

Lemma st_ret_bind c s : (c ≫= mret) s = c s.
Proof. unfold mbind, st_bind. by destruct (c s) as [[]|]. Qed.

Lemma st_bind_assoc c f g s : ((c ≫= f) ≫= g) s = (c ≫= (fun a => f a ≫= g)) s.
Proof. unfold mbind, st_bind. by destruct (c s) as [[]|]. Qed.
End monad_laws.

(** [wp c Q s]: [c] run from [s] does not fault and ends in [Q]. *)
Definition wp {S A} (c : ST S A) (Q : A -> S -> Prop) (s : S) : Prop :=
  match c s with
  | Some (a, s') => Q a s'
  | None => False
  end.

Section wp_rules.
Context {S : Type}.

Lemma wp_ret {A} (a : A) (Q : A -> S -> Prop) s : Q a s -> wp (mret a) Q s.
Proof. done. Qed.

Lemma wp_bind {A B} (c : ST S A) (k : A -> ST S B) Q s :
  wp c (fun a s' => wp (k a) Q s') s -> wp (c ≫= k) Q s.
Proof. unfold wp, mbind, st_bind. by destruct (c s) as [[]|]. Qed.

Lemma wp_mono {A} (c : ST S A) (P Q : A -> S -> Prop) s :
  wp c P s -> (forall a s', P a s' -> Q a s') -> wp c Q s.
Proof. unfold wp. destruct (c s) as [[]|]; eauto. Qed.

Lemma wp_get (Q : S -> S -> Prop) s : Q s s -> wp st_get Q s.
Proof. done. Qed.

Lemma wp_if {A} (b : bool) (c d : ST S A) Q s :
  (b = true -> wp c Q s) -> (b = false -> wp d Q s) -> wp (if b then c else d) Q s.
Proof. destruct b; auto. Qed.

(** Loop rule: an invariant of the index. *)
Lemma wp_for (I : nat -> S -> Prop) (body : nat -> ST S unit) k i s :
  I i s ->
  (forall j s', (i <= j < i + k)%nat -> I j s' ->
    wp (body j) (fun _ s'' => I (Datatypes.S j) s'') s') ->
  wp (st_for k i body) (fun _ s' => I (i + k)%nat s') s.
Proof.
  revert i s. induction k as [|k IH]; intros i s Hi Hstep; simpl.
  { by replace (i + 0)%nat with i by lia. }
  apply wp_bind. eapply wp_mono.
  { apply Hstep; [lia|done]. }
  intros [] s' Hs'. eapply wp_mono.
  { apply IH; [done|]. intros j s'' Hj. apply Hstep. lia. }
  intros [] s''. by replace (Datatypes.S i + k)%nat with (i + Datatypes.S k)%nat by lia.
Qed.

Lemma wp_Some {A} (c : ST S A) Q s : wp c Q s -> exists a s', c s = Some (a, s') /\ Q a s'.
Proof. unfold wp. destruct (c s) as [[a s']|]; [by eauto|done]. Qed.
End wp_rules.

(** ** Bit operations as arithmetic *)

Lemma shiftr_div x k : 0 <= k -> x ≫ k = x / 2 ^ k.
Proof. apply Z.shiftr_div_pow2. Qed.

Lemma shiftl_mul x k : 0 <= k -> x ≪ k = x * 2 ^ k.
Proof. apply Z.shiftl_mul_pow2. Qed.

Lemma testbit_high w x n : in_word w x -> 0 <= w <= n -> Z.testbit x n = false.
Proof.
  intros Hx Hn. rewrite <- (wrap_small w x) by done. unfold wrap.
  apply Z.mod_pow2_bits_high. lia.
Qed.

Lemma lor_disjoint hi lo k :
  0 <= k -> 0 <= lo < 2 ^ k -> (hi ≪ k) ||| lo = hi * 2 ^ k + lo.
Proof.
  intros Hk Hlo. rewrite <- Z.shiftl_mul_pow2, <- Z.add_lor_land by lia.
  enough (Z.land (hi ≪ k) lo = 0) as -> by lia.
  apply Z.bits_inj'. intros n Hn. rewrite Z.bits_0, Z.land_spec.
  destruct (decide (n < k)).
  - by rewrite Z.shiftl_spec_low by lia.
  - rewrite (testbit_high k lo) by (done || lia). apply andb_false_r.
Qed.

Lemma land_mask x k : 0 <= k -> x &&& (2 ^ k - 1) = x mod 2 ^ k.
Proof. intros. rewrite <- Z.land_ones, Z.ones_equiv by lia. done. Qed.

Lemma land_0x1 x : x &&& 1 = x mod 2.
Proof. by apply (land_mask x 1). Qed.
Lemma land_0x3 x : x &&& 3 = x mod 4.
Proof. by apply (land_mask x 2). Qed.
Lemma land_0xf x : x &&& 0xf = x mod 16.
Proof. by apply (land_mask x 4). Qed.
Lemma land_0x3f x : x &&& 0x3f = x mod 64.
Proof. by apply (land_mask x 6). Qed.
Lemma land_0x7f x : x &&& 0x7f = x mod 128.
Proof. by apply (land_mask x 7). Qed.
Lemma land_0xff x : x &&& 0xff = x mod 256.
Proof. by apply (land_mask x 8). Qed.

Create Rewrite HintDb bits.
#[export] Hint Rewrite land_0x1 land_0x3 land_0xf land_0x3f land_0x7f land_0xff : bits.
#[export] Hint Rewrite shiftr_div shiftl_mul using lia : bits.

(** [bits_lia] closes equations between words built from shifts, masks and
    divisions by constants, once every [|||] has been removed. *)
Ltac bits_lia :=
  unfold in_word, in_s32, wrap in *; autorewrite with bits in *;
  change (2 ^ 2) with 4 in *; change (2 ^ 4) with 16 in *; change (2 ^ 5) with 32 in *;
  change (2 ^ 6) with 64 in *; change (2 ^ 7) with 128 in *; change (2 ^ 8) with 256 in *;
  change (2 ^ 16) with 65536 in *; change (2 ^ 24) with 16777216 in *;
  change (2 ^ 31) with 2147483648 in *; change (2 ^ 32) with 4294967296 in *;
  Z.to_euclidean_division_equations; lia.

(** Exhaustive check of a decidable property of one byte. *)
Lemma forall_word_bool w (P : Z -> bool) :
  forallb P (seqZ 0 (2 ^ w)) = true -> forall x, in_word w x -> P x = true.
Proof.
  intros H x Hx. rewrite forallb_forall in H. apply H.
  apply list_elem_of_In, elem_of_seqZ. unfold in_word in Hx. lia.
Qed.

(** A word is bounded exactly when its high bits are clear. *)
Lemma in_word_testbit w x :
  0 <= w -> 0 <= x -> (forall n, w <= n -> Z.testbit x n = false) -> in_word w x.
Proof.
  intros Hw Hx H. split; [done|].
  enough (x mod 2 ^ w = x) as <- by (apply Z.mod_pos_bound; lia).
  apply Z.bits_inj'. intros n Hn. destruct (decide (n < w)).
  - by rewrite Z.mod_pow2_bits_low.
  - rewrite Z.mod_pow2_bits_high, H; [done|lia|lia].
Qed.

Lemma land_range w x y : 0 <= w -> in_word w x -> 0 <= y -> in_word w (x &&& y).
Proof.
  intros Hw Hx Hy. apply in_word_testbit; [done|apply Z.land_nonneg; lia|].
  intros n Hn. by rewrite Z.land_spec, (testbit_high w x).
Qed.

Lemma lor_range w x y : 0 <= w -> in_word w x -> in_word w y -> in_word w (x ||| y).
Proof.
  intros Hw Hx Hy. unfold in_word in Hx, Hy.
  apply in_word_testbit; [done|apply Z.lor_nonneg; lia|].
  intros n Hn. by rewrite Z.lor_spec, (testbit_high w x), (testbit_high w y).
Qed.

(** ** Array lemmas *)

Lemma wr_Some l i v : (i < length l)%nat -> wr l i v = Some (<[i := v]> l).
Proof. intros. unfold wr. by rewrite decide_True. Qed.

Lemma wr_length l i v l' : wr l i v = Some l' -> length l' = length l.
Proof. unfold wr. case_decide; [|done]. intros [= <-]. apply length_insert. Qed.

Lemma memcpy_length dst off src n d : memcpy dst off src n = Some d -> length d = length dst.
Proof.
  unfold memcpy. case_decide as H; [|done]. intros [= <-].
  rewrite !length_app, length_drop, !length_take. lia.
Qed.

Lemma memcpy_Some dst off src n :
  (off + n <= length dst)%nat -> (n <= length src)%nat ->
  memcpy dst off src n = Some (take off dst ++ take n src ++ drop (off + n) dst).
Proof. intros. unfold memcpy. by rewrite decide_True. Qed.

(** What a [memcpy] stored is what is read back from the destination. *)
Lemma memcpy_read dst off src n d :
  memcpy dst off src n = Some d -> take n (drop off d) = take n src.
Proof.
  unfold memcpy. case_decide as H; [|done]. intros [= <-].
  rewrite drop_app_ge by (rewrite length_take; lia).
  rewrite length_take, Nat.min_l, Nat.sub_diag, drop_0 by lia.
  rewrite take_app_le by (rewrite length_take; lia). rewrite take_take. f_equal. lia.
Qed.

Lemma strlen_spec s n :
  strlen s = Some n <-> s !! n = Some 0 /\ (forall i, (i < n)%nat -> exists c, s !! i = Some c /\ c <> 0).
Proof.
  revert n. induction s as [|c s IH]; intros n; simpl.
  { split; [done|]. by intros [? ?]. }
  case_decide as Hc.
  - split.
    + intros [= <-]. subst. split; [done|]. intros i Hi. lia.
    + intros [H0 H]. destruct n as [|n]; [done|].
      destruct (H 0%nat) as (c' & [= <-] & ?); [lia|done].
  - rewrite fmap_Some. split.
    + intros (n' & Hn' & ->). apply IH in Hn' as [H0 H]. split; [done|].
      intros [|i] Hi; simpl; [by eauto|]. apply H. lia.
    + intros [H0 H]. destruct n as [|n]; simpl in H0; [congruence|].
      exists n. split; [|done]. apply IH. split; [done|].
      intros i Hi. apply (H (S i)). lia.
Qed.

Lemma strlen_app s t : Forall (fun c => c <> 0) s -> strlen (s ++ 0 :: t) = Some (length s).
Proof.
  induction 1 as [|c s Hc Hs IH]; simpl; [done|].
  by rewrite decide_False, IH.
Qed.

(** ** Fields packed into bytes *)

Lemma u8_small x : is_u8 x -> u8 x = x.
Proof. apply wrap_small. Qed.

(** A 16-bit value stored high byte first. *)
Lemma be16_roundtrip x : is_u16 x -> u16 ((u8 (x ≫ 8) ≪ 8) ||| u8 (x &&& 0xff)) = x.
Proof. intros. rewrite lor_disjoint by (lia || apply wrap_range; lia). bits_lia. Qed.

(** A 24-bit value stored high byte first. *)
Lemma be24_roundtrip x :
  in_word 24 x ->
  u32 ((u8 (x ≫ 16) ≪ 16) ||| (u8 ((x ≫ 8) &&& 0xff) ≪ 8) ||| u8 (x &&& 0xff)) = x.
Proof.
  intros. pose proof (wrap_range 8 ((x ≫ 8) &&& 0xff)). pose proof (wrap_range 8 (x &&& 0xff)).
  rewrite <- Z.lor_assoc, (lor_disjoint _ (u8 (x &&& 0xff)) 8) by (unfold in_word in *; lia).
  rewrite lor_disjoint by (unfold in_word in *; lia). bits_lia.
Qed.

Lemma u8_land_0xff x : u8 (x &&& 0xff) = u8 x.
Proof. rewrite land_0xff. unfold wrap. by rewrite Zmod_mod. Qed.

Lemma be24_roundtrip_masked x :
  in_word 24 x ->
  u32 ((u8 ((x ≫ 16) &&& 0xff) ≪ 16) ||| (u8 ((x ≫ 8) &&& 0xff) ≪ 8) ||| u8 (x &&& 0xff)) = x.
Proof. rewrite (u8_land_0xff (x ≫ 16)). apply be24_roundtrip. Qed.

(** Two binary-coded decimal digits. The tens digit may take any value a nibble
    holds, so the range is [0, 160). *)
Definition bcd (x : Z) : Z := u8 (((x / 10) ≪ 4) ||| (x mod 10)).
Definition unbcd (b : Z) : Z := u8 ((b ≫ 4) * 10 + (b &&& 0xf)).

Lemma bcd_roundtrip x : 0 <= x < 160 -> unbcd (bcd x) = x.
Proof.
  intros. unfold unbcd, bcd.
  rewrite lor_disjoint by (pose proof (Z.mod_pos_bound x 10); lia). bits_lia.
Qed.

(** A byte split in a high and a low field of [k] bits. *)
Lemma pack_high hi lo k :
  0 <= k <= 8 -> in_word (8 - k) hi -> in_word k lo -> u8 ((hi ≪ k) ||| lo) ≫ k = hi.
Proof.
  intros Hk Hh Hl. unfold in_word in *.
  assert (2 ^ 8 = 2 ^ (8 - k) * 2 ^ k) as E by (rewrite <- Z.pow_add_r by lia; f_equal; lia).
  assert (0 < 2 ^ k) by (apply Z.pow_pos_nonneg; lia).
  rewrite lor_disjoint, wrap_small, Z.shiftr_div_pow2 by (unfold in_word; nia).
  rewrite Z.div_add_l, Z.div_small by lia. lia.
Qed.

Lemma pack_low hi lo k :
  0 <= k <= 8 -> in_word (8 - k) hi -> in_word k lo -> u8 ((hi ≪ k) ||| lo) &&& (2 ^ k - 1) = lo.
Proof.
  intros Hk Hh Hl. unfold in_word in *.
  assert (2 ^ 8 = 2 ^ (8 - k) * 2 ^ k) as E by (rewrite <- Z.pow_add_r by lia; f_equal; lia).
  assert (0 < 2 ^ k) by (apply Z.pow_pos_nonneg; lia).
  rewrite lor_disjoint, wrap_small, land_mask by (unfold in_word; nia).
  rewrite Z.add_comm, Z.mod_add, Z.mod_small by lia. done.
Qed.

(** Evaluates the closed powers of two in bounds, then [lia]. *)
Ltac word_lia :=
  unfold in_word in *;
  repeat match goal with
  | |- context [2 ^ ?e] => let v := eval vm_compute in (2 ^ e) in
      lazymatch v with Zpos _ => idtac end; change (2 ^ e) with v
  | H : context [2 ^ ?e] |- _ => let v := eval vm_compute in (2 ^ e) in
      lazymatch v with Zpos _ => idtac end; change (2 ^ e) with v in H
  end; lia.

(** The same facts in the spelling of the C expressions. *)
Lemma bcd_roundtrip_c x :
  0 <= x < 160 ->
  u8 ((u8 (((x / 10) ≪ 4) ||| (x mod 10)) ≫ 4) * 10 +
      (u8 (((x / 10) ≪ 4) ||| (x mod 10)) &&& 0xf)) = x.
Proof. apply bcd_roundtrip. Qed.

Lemma pack_low_2 hi lo : in_word 6 hi -> in_word 2 lo -> u8 ((hi ≪ 2) ||| lo) &&& 3 = lo.
Proof. by apply (pack_low hi lo 2). Qed.
Lemma pack_low_4 hi lo : in_word 4 hi -> in_word 4 lo -> u8 ((hi ≪ 4) ||| lo) &&& 0xf = lo.
Proof. by apply (pack_low hi lo 4). Qed.
Lemma pack_low_6 hi lo : in_word 2 hi -> in_word 6 lo -> u8 ((hi ≪ 6) ||| lo) &&& 0x3f = lo.
Proof. by apply (pack_low hi lo 6). Qed.
Lemma pack_low_7 hi lo : in_word 1 hi -> in_word 7 lo -> u8 ((hi ≪ 7) ||| lo) &&& 0x7f = lo.
Proof. by apply (pack_low hi lo 7). Qed.

(** Masking a value that fits the mask. *)
Lemma land_small_1 x : in_word 1 x -> x &&& 1 = x.
Proof. intros. rewrite land_0x1. by apply Z.mod_small. Qed.
Lemma land_small_6 x : in_word 6 x -> x &&& 0x3f = x.
Proof. intros. rewrite land_0x3f. by apply Z.mod_small. Qed.
Lemma land_small_7 x : in_word 7 x -> x &&& 0x7f = x.
Proof. intros. rewrite land_0x7f. by apply Z.mod_small. Qed.

Create Rewrite HintDb codec.
#[export] Hint Rewrite be16_roundtrip be24_roundtrip be24_roundtrip_masked u8_small bcd_roundtrip_c
  pack_high pack_low_2 pack_low_4 pack_low_6 pack_low_7
  land_small_1 land_small_6 land_small_7 using (assumption || word_lia) : codec.

(** The constant an application starts with. *)
Ltac head_of t := lazymatch t with ?f _ => head_of f | _ => t end.
