(* ===== verification/CecMsg.v ===== *)
(** * CEC messages

    [struct cec_msg] and the helper functions of
    [kernel-headers/linux/cec.h]: the frame header (initiator, destination,
    opcode), initialisation, reply addressing (with the aliasing of its two
    message pointers), the status test, the logical-address classes and the
    tests for special devices. The monad [M] of code that works on one message
    and its reasoning rules are here too. *)
From stdpp Require Import gmap.
From S2P Require Import Prelude.
From S2P Require Import CecConsts.

(** ** The message structure *)

Record cec_msg : Type := mk_cec_msg {
  tx_ts : Z;
  rx_ts : Z;
  len : Z;
  timeout : Z;
  sequence : Z;
  flags : Z;
  msg : list Z;
  reply : Z;
  rx_status : Z;
  tx_status : Z;
  tx_arb_lost_cnt : Z;
  tx_nack_cnt : Z;
  tx_low_drive_cnt : Z;
  tx_error_cnt : Z
}.

Definition upd_len (v : Z) (m : cec_msg) : cec_msg :=
  mk_cec_msg (tx_ts m) (rx_ts m) v (timeout m) (sequence m) (flags m) (msg m) (reply m)
    (rx_status m) (tx_status m) (tx_arb_lost_cnt m) (tx_nack_cnt m) (tx_low_drive_cnt m)
    (tx_error_cnt m).
Definition upd_timeout (v : Z) (m : cec_msg) : cec_msg :=
  mk_cec_msg (tx_ts m) (rx_ts m) (len m) v (sequence m) (flags m) (msg m) (reply m)
    (rx_status m) (tx_status m) (tx_arb_lost_cnt m) (tx_nack_cnt m) (tx_low_drive_cnt m)
    (tx_error_cnt m).
Definition upd_msg (v : list Z) (m : cec_msg) : cec_msg :=
  mk_cec_msg (tx_ts m) (rx_ts m) (len m) (timeout m) (sequence m) (flags m) v (reply m)
    (rx_status m) (tx_status m) (tx_arb_lost_cnt m) (tx_nack_cnt m) (tx_low_drive_cnt m)
    (tx_error_cnt m).
Definition upd_reply (v : Z) (m : cec_msg) : cec_msg :=
  mk_cec_msg (tx_ts m) (rx_ts m) (len m) (timeout m) (sequence m) (flags m) (msg m) v
    (rx_status m) (tx_status m) (tx_arb_lost_cnt m) (tx_nack_cnt m) (tx_low_drive_cnt m)
    (tx_error_cnt m).

(** A message in memory: a 16-byte payload of bytes, a 32-bit length. *)
Definition wf_msg (m : cec_msg) : Prop :=
  length (msg m) = CEC_MAX_MSG_SIZE /\ Forall is_u8 (msg m) /\ is_u32 (len m).

(** ** Code over one message: [struct cec_msg *msg] *)

Abbreviation M := (ST cec_msg).

Definition get_len : M Z := m ← st_get; mret (len m).
(** [msg->len = v] *)
Definition set_len (v : Z) : M unit := st_modify (upd_len (u32 v)).
(** [msg->len += n] *)
Definition add_len (n : Z) : M unit := l ← get_len; set_len (l + n).
(** [msg->reply = v] *)
Definition set_reply (v : Z) : M unit := st_modify (upd_reply (u8 v)).
Definition set_timeout (v : Z) : M unit := st_modify (upd_timeout (u32 v)).
(** [msg->msg[i]] *)
Definition get_byte (i : nat) : M Z := m ← st_get; st_lift (rd (msg m) i).
(** [msg->msg[i] = v] *)
Definition set_byte (i : nat) (v : Z) : M unit :=
  m ← st_get; l ← st_lift (wr (msg m) i (u8 v)); st_modify (upd_msg l).
(** [msg->msg[i] |= v] *)
Definition or_byte (i : nat) (v : Z) : M unit := b ← get_byte i; set_byte i (b ||| v).
(** [msg->msg[msg->len++] = v] *)
Definition push_byte (v : Z) : M unit := l ← get_len; set_len (l + 1);; set_byte (Z.to_nat l) v.
(** [memcpy (msg->msg + off, src, n)] *)
Definition set_bytes (off : nat) (src : list Z) (n : nat) : M unit :=
  m ← st_get; l ← st_lift (memcpy (msg m) off src n); st_modify (upd_msg l).

(** ** Message header *)

Definition cec_msg_initiator (m : cec_msg) : option Z :=
  b0 ← rd (msg m) 0; Some (b0 ≫ 4).

Definition cec_msg_destination (m : cec_msg) : option Z :=
  b0 ← rd (msg m) 0; Some (b0 &&& 0xf).

Definition cec_msg_opcode (m : cec_msg) : option Z :=
  if 1 <? len m then rd (msg m) 1 else Some (-1).

Definition cec_msg_is_broadcast (m : cec_msg) : option bool :=
  b0 ← rd (msg m) 0; Some ((b0 &&& 0xf) =? 0xf).

Definition cec_msg_zero : cec_msg :=
  mk_cec_msg 0 0 0 0 0 0 (replicate CEC_MAX_MSG_SIZE 0) 0 0 0 0 0 0 0.

Definition cec_msg_init (initiator destination : Z) : M unit :=
  st_modify (fun _ => cec_msg_zero);;
  set_byte 0 ((initiator ≪ 4) ||| destination);;
  set_len 1.

(** ** Replies: two message pointers that may be equal *)

Abbreviation heap := (gmap positive cec_msg).

(** Code over one message, run on the message a pointer designates. *)
Definition at_loc {A} (p : positive) (c : M A) : ST heap A := fun h =>
  m ← h !! p; '(a, m') ← c m; Some (a, <[p := m']> h).

Definition load {A} (p : positive) (f : cec_msg -> option A) : ST heap A :=
  h ← st_get; st_lift (h !! p ≫= f).

Definition cec_msg_set_reply_to (pmsg porig : positive) : ST heap unit :=
  dst ← load porig cec_msg_destination;
  ini ← load porig cec_msg_initiator;
  at_loc pmsg (set_byte 0 ((dst ≪ 4) ||| ini));;
  at_loc pmsg (set_timeout 0;; set_reply 0).

(** ** Status *)

Definition cec_msg_status_is_ok (m : cec_msg) : bool :=
  if negb (tx_status m =? 0) && ((tx_status m &&& CEC_TX_STATUS_OK) =? 0) then false
  else if negb (rx_status m =? 0) && ((rx_status m &&& CEC_RX_STATUS_OK) =? 0) then false
  else if (tx_status m =? 0) && (rx_status m =? 0) then false
  else (rx_status m &&& CEC_RX_STATUS_FEATURE_ABORT) =? 0.

(** ** Logical address classes *)

Definition cec_has_tv (log_addr_mask : Z) : bool :=
  negb ((log_addr_mask &&& CEC_LOG_ADDR_MASK_TV) =? 0).
Definition cec_has_record (log_addr_mask : Z) : bool :=
  negb ((log_addr_mask &&& CEC_LOG_ADDR_MASK_RECORD) =? 0).
Definition cec_has_tuner (log_addr_mask : Z) : bool :=
  negb ((log_addr_mask &&& CEC_LOG_ADDR_MASK_TUNER) =? 0).
Definition cec_has_playback (log_addr_mask : Z) : bool :=
  negb ((log_addr_mask &&& CEC_LOG_ADDR_MASK_PLAYBACK) =? 0).
Definition cec_has_audiosystem (log_addr_mask : Z) : bool :=
  negb ((log_addr_mask &&& CEC_LOG_ADDR_MASK_AUDIOSYSTEM) =? 0).
Definition cec_has_backup (log_addr_mask : Z) : bool :=
  negb ((log_addr_mask &&& CEC_LOG_ADDR_MASK_BACKUP) =? 0).
Definition cec_has_specific (log_addr_mask : Z) : bool :=
  negb ((log_addr_mask &&& CEC_LOG_ADDR_MASK_SPECIFIC) =? 0).
Definition cec_is_unregistered (log_addr_mask : Z) : bool :=
  negb ((log_addr_mask &&& CEC_LOG_ADDR_MASK_UNREGISTERED) =? 0).
Definition cec_is_unconfigured (log_addr_mask : Z) : bool := log_addr_mask =? 0.

(** ** Special devices *)

Record cec_log_addrs : Type := mk_cec_log_addrs {
  log_addr : list Z;
  log_addr_mask : Z;
  cec_version : Z;
  num_log_addrs : Z;
  vendor_id : Z;
  las_flags : Z;
  osd_name : list Z;
  primary_device_type : list Z;
  log_addr_type : list Z;
  all_device_types : list Z;
  features : list (list Z)
}.

Definition wf_log_addrs (las : cec_log_addrs) : Prop :=
  length (log_addr las) = CEC_MAX_LOG_ADDRS /\
  length (primary_device_type las) = CEC_MAX_LOG_ADDRS.

(** [a && b && c] reads its operands from left to right and stops early. *)
Definition and_then (a : bool) (b : option bool) : option bool :=
  if a then b else Some false.

Definition cec_is_2nd_tv (las : cec_log_addrs) : option bool :=
  and_then (negb (num_log_addrs las =? 0)) (
    la ← rd (log_addr las) 0;
    and_then (CEC_LOG_ADDR_SPECIFIC <=? la) (
      pd ← rd (primary_device_type las) 0;
      Some (pd =? CEC_OP_PRIM_DEVTYPE_TV))).

Definition cec_is_processor (las : cec_log_addrs) : option bool :=
  and_then (negb (num_log_addrs las =? 0)) (
    la ← rd (log_addr las) 0;
    and_then (CEC_LOG_ADDR_BACKUP_1 <=? la) (
      pd ← rd (primary_device_type las) 0;
      Some (pd =? CEC_OP_PRIM_DEVTYPE_PROCESSOR))).

Definition cec_is_switch (las : cec_log_addrs) : option bool :=
  and_then (num_log_addrs las =? 1) (
    la ← rd (log_addr las) 0;
    and_then (la =? CEC_LOG_ADDR_UNREGISTERED) (
      pd ← rd (primary_device_type las) 0;
      Some ((pd =? CEC_OP_PRIM_DEVTYPE_SWITCH) &&
            ((las_flags las &&& CEC_LOG_ADDRS_FL_CDC_ONLY) =? 0)))).

Definition cec_is_cdc_only (las : cec_log_addrs) : option bool :=
  and_then (num_log_addrs las =? 1) (
    la ← rd (log_addr las) 0;
    and_then (la =? CEC_LOG_ADDR_UNREGISTERED) (
      pd ← rd (primary_device_type las) 0;
      Some ((pd =? CEC_OP_PRIM_DEVTYPE_SWITCH) &&
            negb ((las_flags las &&& CEC_LOG_ADDRS_FL_CDC_ONLY) =? 0)))).

(** ** Reasoning rules for the primitives of [M] *)

Section wp_primitives.
Implicit Types (Q : unit -> cec_msg -> Prop) (m : cec_msg).

Lemma wp_get_len (Q : Z -> cec_msg -> Prop) m : Q (len m) m -> wp get_len Q m.
Proof. done. Qed.

Lemma wp_set_len v Q m : Q tt (upd_len (u32 v) m) -> wp (set_len v) Q m.
Proof. done. Qed.

Lemma wp_add_len n Q m : Q tt (upd_len (u32 (len m + n)) m) -> wp (add_len n) Q m.
Proof. done. Qed.

Lemma wp_set_reply v Q m : Q tt (upd_reply (u8 v) m) -> wp (set_reply v) Q m.
Proof. done. Qed.

Lemma wp_set_timeout v Q m : Q tt (upd_timeout (u32 v) m) -> wp (set_timeout v) Q m.
Proof. done. Qed.

Lemma wp_get_byte i b (Q : Z -> cec_msg -> Prop) m :
  rd (msg m) i = Some b -> Q b m -> wp (get_byte i) Q m.
Proof.
  intros Hb HQ. unfold get_byte. apply wp_bind, wp_get. unfold wp, st_lift.
  by rewrite Hb.
Qed.

Lemma wp_set_byte i v Q m :
  (i < length (msg m))%nat -> Q tt (upd_msg (<[i := u8 v]> (msg m)) m) ->
  wp (set_byte i v) Q m.
Proof.
  intros Hi HQ. unfold set_byte. apply wp_bind, wp_get, wp_bind. unfold wp, st_lift.
  by rewrite wr_Some.
Qed.

Lemma wp_or_byte i v b Q m :
  rd (msg m) i = Some b -> Q tt (upd_msg (<[i := u8 (b ||| v)]> (msg m)) m) ->
  wp (or_byte i v) Q m.
Proof.
  intros Hb HQ. unfold or_byte. apply wp_bind, (wp_get_byte _ b); [done|].
  apply wp_set_byte; [|done]. by apply lookup_lt_Some in Hb.
Qed.

Lemma wp_push_byte v Q m :
  (Z.to_nat (len m) < length (msg m))%nat ->
  Q tt (upd_msg (<[Z.to_nat (len m) := u8 v]> (msg m)) (upd_len (u32 (len m + 1)) m)) ->
  wp (push_byte v) Q m.
Proof.
  intros Hl HQ. unfold push_byte. apply wp_bind, wp_get_len, wp_bind, wp_set_len.
  by apply wp_set_byte.
Qed.

Lemma wp_set_bytes off src n Q m :
  (off + n <= length (msg m))%nat -> (n <= length src)%nat ->
  Q tt (upd_msg (take off (msg m) ++ take n src ++ drop (off + n) (msg m)) m) ->
  wp (set_bytes off src n) Q m.
Proof.
  intros Hl Hs HQ. unfold set_bytes. apply wp_bind, wp_get, wp_bind. unfold wp, st_lift.
  by rewrite memcpy_Some.
Qed.

Lemma wp_at_loc {A} p (c : M A) (Q : A -> heap -> Prop) (h : heap) m :
  h !! p = Some m -> wp c (fun a m' => Q a (<[p := m']> h)) m -> wp (at_loc p c) Q h.
Proof. intros Hp. unfold wp, at_loc. rewrite Hp. simpl. by destruct (c m) as [[]|]. Qed.

Lemma wp_load {A} p (f : cec_msg -> option A) a (Q : A -> heap -> Prop) (h : heap) m :
  h !! p = Some m -> f m = Some a -> Q a h -> wp (load p f) Q h.
Proof.
  intros Hp Hf HQ. unfold load. apply wp_bind, wp_get. unfold wp, st_lift. rewrite Hp. simpl.
  by rewrite Hf.
Qed.
End wp_primitives.
