(* ===== verification/CecCodec.v ===== *)
(** * What a CEC message function promises

    [cec-funcs.h] is a family of encoders [cec_msg_X] and decoders
    [cec_ops_X]. This file states, once, what such a function has to satisfy:
    [Encoder] is the contract of an encoder (no fault, a well-formed frame with
    the right opcode and addressing, nothing else touched), [Codec] packages an
    encoder with its decoder and [Lawful] is their round trip. The feature
    files give an instance per function; the theorems over the whole family
    are proved from these interfaces. The symbolic execution tactics that prove
    the instances are here too. *)
From S2P Require Import Prelude.
From S2P Require Import CecConsts.
From S2P Require Import CecMsg.

(** ** Contracts *)

(** The first byte of a frame addressed to everybody keeps its initiator. *)
Definition addr_byte (broadcast : bool) (b0 : Z) : Z :=
  if broadcast then b0 ||| 0xf else b0.

(** Everything of a message that no encoder may touch. *)
Definition same_status (m m' : cec_msg) : Prop :=
  tx_ts m' = tx_ts m /\ rx_ts m' = rx_ts m /\ timeout m' = timeout m /\
  sequence m' = sequence m /\ flags m' = flags m /\ rx_status m' = rx_status m /\
  tx_status m' = tx_status m /\ tx_arb_lost_cnt m' = tx_arb_lost_cnt m /\
  tx_nack_cnt m' = tx_nack_cnt m /\ tx_low_drive_cnt m' = tx_low_drive_cnt m /\
  tx_error_cnt m' = tx_error_cnt m.

(** [frame_of op bc m m']: [m'] holds a frame with opcode [op], built in [m]. *)
Definition frame_of (op : Z) (broadcast : bool) (m m' : cec_msg) : Prop :=
  wf_msg m' /\ 2 <= len m' <= 16 /\ cec_msg_opcode m' = Some op /\
  head (msg m') = addr_byte broadcast <$> head (msg m) /\ same_status m m'.

(** An encoder of a message whose opcode is [op]. *)
Class Encoder (c : M unit) (op : Z) (broadcast : bool) : Prop :=
  encoder_frame : forall m, wf_msg m -> wp c (fun _ m' => frame_of op broadcast m m') m.

Record codec : Type := Codec {
  operands : Type;
  encode : operands -> M unit;
  decode : cec_msg -> option operands;
  domain : operands -> Prop
}.

(** Decoding what was encoded gives the operands back, for operands in the
    codec's domain, whatever the message held before. *)
Class Lawful (C : codec) : Prop :=
  codec_roundtrip : forall x m, wf_msg m -> domain C x ->
    wp (encode C x) (fun _ m' => decode C m' = Some x) m.

(** ** Symbolic execution *)

#[global] Arguments wrap : simpl never.
#[global] Arguments Z.lor : simpl never.
#[global] Arguments Z.land : simpl never.
#[global] Arguments Z.shiftl : simpl never.
#[global] Arguments Z.shiftr : simpl never.
#[global] Arguments Z.div : simpl never.
#[global] Arguments Z.modulo : simpl never.
#[global] Arguments Z.add : simpl never.
#[global] Arguments Z.sub : simpl never.
#[global] Arguments Z.mul : simpl never.
#[global] Arguments Z.to_nat : simpl never.

(** Names the sixteen bytes of a well-formed message. *)
Ltac open_msg m :=
  let ts := fresh "ts" in let rs := fresh "rs" in let l := fresh "l" in
  let Hl := fresh "Hl" in let Hb := fresh "Hb" in
  destruct m as [ts rs ? ? ? ? l ? ? ? ? ? ? ?];
  match goal with H : wf_msg _ |- _ =>
    destruct H as (Hl & Hb & ?); simpl in Hl, Hb; unfold CEC_MAX_MSG_SIZE in Hl;
    do 16 (destruct l as [|? l]; [discriminate Hl|]);
    destruct l as [|? l]; [|discriminate Hl]; clear Hl;
    rewrite !Forall_cons in Hb; destruct_and! Hb
  end.

Ltac is_closed_Z n :=
  lazymatch n with
  | Zpos _ => idtac
  | Z0 => idtac
  | ?a + ?b => is_closed_Z a; is_closed_Z b
  | ?a - ?b => is_closed_Z a; is_closed_Z b
  | ?a * ?b => is_closed_Z a; is_closed_Z b
  | ?a / ?b => is_closed_Z a; is_closed_Z b
  end.

(** Replaces closed words by their value. *)
Ltac eval_words :=
  repeat match goal with
  | |- context [wrap 32 ?n] =>
      is_closed_Z n;
      let v := eval vm_compute in (wrap 32 n) in change (wrap 32 n) with v
  | |- context [Z.to_nat ?n] =>
      is_closed_Z n;
      let v := eval vm_compute in (Z.to_nat n) in change (Z.to_nat n) with v
  end.

(** The first closed [Z.to_nat] of a term, evaluated. *)
Ltac eval_nat t :=
  lazymatch t with
  | context C [Z.to_nat (Zpos ?p)] =>
      let v := eval vm_compute in (Z.to_nat (Zpos p)) in
      let t' := context C [v] in eval_nat t'
  | _ => t
  end.

(** Replaces bytes that hold a named constant by their value. *)
Ltac eval_consts :=
  repeat match goal with
  | |- context [wrap 8 ?n] =>
      is_const n; let v := eval vm_compute in (wrap 8 n) in change (wrap 8 n) with v
  end.

(** After a rule: normalises the new state and enters the continuation. *)
Ltac settle :=
  lazymatch goal with
  | |- ?Q ?a ?st =>
      let st' := eval cbv beta iota delta [upd_len upd_msg upd_reply upd_timeout tx_ts rx_ts
        len timeout sequence flags msg reply rx_status tx_status tx_arb_lost_cnt tx_nack_cnt
        tx_low_drive_cnt tx_error_cnt] in st in
      let st' := eval_nat st' in
      let st' := eval cbn [list_insert insert take drop app fmap list_fmap seq Nat.add Nat.mul] in st' in
      let a' := eval cbn [len msg reply] in a in
      change (Q a' st'); cbv beta; eval_words
  end.

(** Rules for called functions, extended by the files that define them. *)
Ltac wp_call := fail.

(** One primitive of the goal's program. *)
Ltac wp_step :=
  lazymatch goal with
  | |- wp (_ ≫= _) _ _ => apply wp_bind
  | |- wp (mret _) _ _ => apply wp_ret; settle
  | |- wp st_get _ _ => apply wp_get; settle
  | |- wp get_len _ _ => apply wp_get_len; settle
  | |- wp (set_len _) _ _ => apply wp_set_len; settle
  | |- wp (add_len _) _ _ => apply wp_add_len; settle
  | |- wp (set_reply _) _ _ => apply wp_set_reply; settle
  | |- wp (get_byte _) _ _ => eapply wp_get_byte; [reflexivity|]; settle
  | |- wp (set_byte _ _) _ _ => apply wp_set_byte; [simpl; lia|]; settle
  | |- wp (or_byte _ _) _ _ => eapply wp_or_byte; [reflexivity|]; settle
  | |- wp (push_byte _) _ _ =>
      apply wp_push_byte; [cbn [len msg]; eval_words; simpl; lia|]; settle
  | |- wp (set_bytes _ _ _) _ _ => fail (* left to the payload rules *)
  | |- wp (if ?b then ?c else ?d) ?Q ?s => first
      [ unify b true; change (wp c Q s)
      | unify b false; change (wp d Q s)
      | apply wp_if; intro ]
  | |- wp (match ?x with _ => _ end) _ _ => first
      [ is_var x; destruct x
      | let y := eval hnf in x in progress change x with y; cbv beta iota
      | destruct x ]
  | |- wp (st_lift (Some _)) _ _ => apply wp_ret; settle
  | |- wp ?c _ _ => first [wp_call | let h := head_of c in unfold h]
  end.

Ltac run := repeat wp_step.

(** ** Closing the contracts *)

(** The contracts of the encoders, found by the encoder's name. *)
Create HintDb encoders discriminated.
#[export] Hint Constants Opaque : encoders.
Create HintDb codecs discriminated.
#[export] Hint Constants Opaque : codecs.

Lemma or_nibble_byte b : is_u8 b -> u8 (b ||| 0xf) = b ||| 0xf.
Proof. intros. by apply wrap_small, lor_range. Qed.

Create HintDb words.
#[export] Hint Extern 0 (is_u8 (wrap 8 _)) => (apply wrap_range; lia) : words.
#[export] Hint Extern 0 (is_u32 (wrap 32 _)) => (apply wrap_range; lia) : words.
#[export] Hint Extern 0 (Forall _ []) => (apply Forall_nil_2) : words.
#[export] Hint Extern 1 (is_u8 (_ ||| 0xf)) => (apply lor_range; [lia| |split; lia]) : words.
#[export] Hint Extern 1 (in_word _ (Zpos _)) => (split; lia) : words.
#[export] Hint Extern 1 (in_word _ Z0) => (split; lia) : words.

Ltac solve_frame :=
  unfold frame_of, wf_msg, same_status, addr_byte, cec_msg_opcode; cbn;
  rewrite ?or_nibble_byte by assumption;
  split_and!; try reflexivity; try lia; repeat apply Forall_cons_2; auto with words nocore.

(** Solves [Encoder] goals. *)
Ltac solve_encoder :=
  let m := fresh "m" in let H := fresh "H" in
  intros m H; open_msg m; run; solve_frame.

(** Solves [Lawful] goals: runs the encoder, then the decoder on its result. *)
(** Called decoders, extended by the files that define them. *)
Ltac decode_call := idtac.
Ltac solve_decode :=
  cbn; try (lazymatch goal with |- ?d _ = _ => let h := head_of d in unfold h end);
  cbn; eval_consts; cbn; decode_call; autorewrite with codec; try reflexivity.
Ltac solve_codec :=
  let x := fresh "x" in let m := fresh "m" in let H := fresh "H" in let Hd := fresh "Hd" in
  lazymatch goal with |- Lawful ?C => let h := head_of C in unfold h end;
  intros x m H Hd; cbn [operands encode decode domain] in *;
  repeat match goal with x : (_ * _)%type |- _ => destruct x end;
  cbv beta iota in Hd |- *; destruct_and? Hd;
  open_msg m; run; solve_decode.

(** ** Tables of encoders *)

Record encoder_entry : Type := Enc {
  args : Type;
  build : args -> M unit;
  entry_opcode : Z;
  entry_broadcast : bool;
  entry_pre : args -> Prop
}.

Definition entry_ok (e : encoder_entry) : Prop :=
  forall a, entry_pre e a -> Encoder (build e a) (entry_opcode e) (entry_broadcast e).

(** An entry without a precondition. *)
Definition Enc' (A : Type) (f : A -> M unit) (op : Z) (bc : bool) : encoder_entry :=
  Enc A f op bc (fun _ => True).
