(* ===== verification/CecOperands.v ===== *)
(** * CEC operands: digital service identification

    The operand structures of [kernel-headers/linux/cec-funcs.h] and the pair
    [cec_set_digital_service_id] / [cec_get_digital_service_id] that stores and
    reads one. A C union is modelled by the member last written; reading a
    member is allowed when it is that member or shares its initial sequence
    with it, and is a fault otherwise. *)
From S2P Require Import Prelude.
From S2P Require Import CecConsts.
From S2P Require Import CecMsg.
From S2P Require Import CecCodec.

(** ** Structures *)

Record cec_op_arib_data : Type := Arib {
  arib_transport_id : Z; arib_service_id : Z; arib_orig_network_id : Z }.

Record cec_op_atsc_data : Type := Atsc {
  atsc_transport_id : Z; atsc_program_number : Z }.

Record cec_op_dvb_data : Type := Dvb {
  dvb_transport_id : Z; dvb_service_id : Z; dvb_orig_network_id : Z }.

Record cec_op_channel_data : Type := Channel {
  channel_number_fmt : Z; major : Z; minor : Z }.

Inductive digital_union : Type :=
| U_arib (d : cec_op_arib_data)
| U_atsc (d : cec_op_atsc_data)
| U_dvb (d : cec_op_dvb_data)
| U_channel (d : cec_op_channel_data).

Record cec_op_digital_service_id : Type := mk_digital {
  service_id_method : Z;
  dig_bcast_system : Z;
  service : digital_union }.

Definition channel (u : digital_union) : option cec_op_channel_data :=
  match u with U_channel d => Some d | _ => None end.

Definition atsc (u : digital_union) : option cec_op_atsc_data :=
  match u with
  | U_atsc d => Some d
  | U_arib (Arib t s _) | U_dvb (Dvb t s _) => Some (Atsc t s)
  | U_channel _ => None
  end.

Definition dvb (u : digital_union) : option cec_op_dvb_data :=
  match u with
  | U_dvb d => Some d
  | U_arib (Arib t s n) => Some (Dvb t s n)
  | _ => None
  end.

(** ** Storing and reading *)

(** The four [case] labels of the ATSC branch. *)
Definition is_atsc_system (s : Z) : bool :=
  (s =? CEC_OP_DIG_SERVICE_BCAST_SYSTEM_ATSC_GEN) ||
  (s =? CEC_OP_DIG_SERVICE_BCAST_SYSTEM_ATSC_CABLE) ||
  (s =? CEC_OP_DIG_SERVICE_BCAST_SYSTEM_ATSC_SAT) ||
  (s =? CEC_OP_DIG_SERVICE_BCAST_SYSTEM_ATSC_T).

(** [off] is the position of the pointer argument in the message payload. *)
Definition cec_set_digital_service_id (off : nat) (digital : cec_op_digital_service_id) : M unit :=
  set_byte off ((service_id_method digital ≪ 7) ||| dig_bcast_system digital);;
  if service_id_method digital =? CEC_OP_SERVICE_ID_METHOD_BY_CHANNEL then
    c ← st_lift (channel (service digital));
    set_byte (1 + off) ((channel_number_fmt c ≪ 2) ||| (major c ≫ 8));;
    set_byte (2 + off) (major c &&& 0xff);;
    set_byte (3 + off) (minor c ≫ 8);;
    set_byte (4 + off) (minor c &&& 0xff);;
    set_byte (5 + off) 0;;
    set_byte (6 + off) 0
  else if is_atsc_system (dig_bcast_system digital) then
    a ← st_lift (atsc (service digital));
    set_byte (1 + off) (atsc_transport_id a ≫ 8);;
    set_byte (2 + off) (atsc_transport_id a &&& 0xff);;
    set_byte (3 + off) (atsc_program_number a ≫ 8);;
    set_byte (4 + off) (atsc_program_number a &&& 0xff);;
    set_byte (5 + off) 0;;
    set_byte (6 + off) 0
  else
    d ← st_lift (dvb (service digital));
    set_byte (1 + off) (dvb_transport_id d ≫ 8);;
    set_byte (2 + off) (dvb_transport_id d &&& 0xff);;
    set_byte (3 + off) (dvb_service_id d ≫ 8);;
    set_byte (4 + off) (dvb_service_id d &&& 0xff);;
    set_byte (5 + off) (dvb_orig_network_id d ≫ 8);;
    set_byte (6 + off) (dvb_orig_network_id d &&& 0xff).

Definition cec_get_digital_service_id (l : list Z) (off : nat) : option cec_op_digital_service_id :=
  b0 ← rd l off;
  let method := u8 (b0 ≫ 7) in
  let system := u8 (b0 &&& 0x7f) in
  b1 ← rd l (1 + off); b2 ← rd l (2 + off); b3 ← rd l (3 + off); b4 ← rd l (4 + off);
  if method =? CEC_OP_SERVICE_ID_METHOD_BY_CHANNEL then
    Some (mk_digital method system (U_channel
      (Channel (u8 (b1 ≫ 2)) (u16 (((b1 &&& 3) ≪ 6) ||| b2)) (u16 ((b3 ≪ 8) ||| b4)))))
  else
    b5 ← rd l (5 + off); b6 ← rd l (6 + off);
    Some (mk_digital method system (U_dvb
      (Dvb (u16 ((b1 ≪ 8) ||| b2)) (u16 ((b3 ≪ 8) ||| b4)) (u16 ((b5 ≪ 8) ||| b6))))).

(** ** What the pair computes *)

(** The seven bytes of a service, before truncation to a byte each. *)
Definition digital_words (d : cec_op_digital_service_id) : list Z :=
  ((service_id_method d ≪ 7) ||| dig_bcast_system d) ::
  if service_id_method d =? CEC_OP_SERVICE_ID_METHOD_BY_CHANNEL then
    match channel (service d) with
    | Some (Channel f ma mi) => [(f ≪ 2) ||| (ma ≫ 8); ma &&& 0xff; mi ≫ 8; mi &&& 0xff; 0; 0]
    | None => []
    end
  else if is_atsc_system (dig_bcast_system d) then
    match atsc (service d) with
    | Some (Atsc t p) => [t ≫ 8; t &&& 0xff; p ≫ 8; p &&& 0xff; 0; 0]
    | None => []
    end
  else
    match dvb (service d) with
    | Some (Dvb t s n) => [t ≫ 8; t &&& 0xff; s ≫ 8; s &&& 0xff; n ≫ 8; n &&& 0xff]
    | None => []
    end.

Definition digital_byte (d : cec_op_digital_service_id) (i : nat) : Z :=
  u8 (nth i (digital_words d) 0).

(** The union member that the encoder reads is one that can be read. *)
Definition readable (d : cec_op_digital_service_id) : Prop :=
  if service_id_method d =? CEC_OP_SERVICE_ID_METHOD_BY_CHANNEL then is_Some (channel (service d))
  else if is_atsc_system (dig_bcast_system d) then is_Some (atsc (service d))
  else is_Some (dvb (service d)).

Definition dvb_range (d : cec_op_dvb_data) : Prop :=
  is_u16 (dvb_transport_id d) /\ is_u16 (dvb_service_id d) /\ is_u16 (dvb_orig_network_id d).

(** Services that the frame format represents: one-bit method, seven-bit
    system, six-bit channel format, ten-bit major and 16-bit minor number. *)
Definition representable (d : cec_op_digital_service_id) : Prop :=
  in_word 1 (service_id_method d) /\ in_word 7 (dig_bcast_system d) /\
  match service d with
  | U_channel c => in_word 6 (channel_number_fmt c) /\ in_word 10 (major c) /\ is_u16 (minor c)
  | U_atsc a => is_u16 (atsc_transport_id a) /\ is_u16 (atsc_program_number a)
  | U_dvb v => dvb_range v
  | U_arib (Arib t s n) => dvb_range (Dvb t s n)
  end.

(** What reading back gives: the channel's major number as the reader
    reassembles it; any other service as DVB data, an ATSC one with a zero
    network. *)
Definition reread (d : cec_op_digital_service_id) : cec_op_digital_service_id :=
  mk_digital (service_id_method d) (dig_bcast_system d)
    match service d with
    | U_channel (Channel f ma mi) => U_channel (Channel f (((ma ≫ 8) ≪ 6) ||| (ma &&& 0xff)) mi)
    | U_atsc (Atsc t p) => U_dvb (Dvb t p 0)
    | U_arib (Arib t s n) | U_dvb (Dvb t s n) =>
        U_dvb (Dvb t s (if is_atsc_system (dig_bcast_system d) then 0 else n))
    end.

#[global] Arguments digital_byte : simpl never.

Lemma digital_byte_range d i : is_u8 (digital_byte d i).
Proof. apply wrap_range. lia. Qed.
#[export] Hint Resolve digital_byte_range : words.

(** Seven consecutive array writes. *)
Lemma insert7 (l : list Z) off v0 v1 v2 v3 v4 v5 v6 :
  (off + 7 <= length l)%nat ->
  <[(6 + off)%nat := v6]> (<[(5 + off)%nat := v5]> (<[(4 + off)%nat := v4]>
    (<[(3 + off)%nat := v3]> (<[(2 + off)%nat := v2]> (<[(1 + off)%nat := v1]>
      (<[off := v0]> l)))))) =
  take off l ++ [v0; v1; v2; v3; v4; v5; v6] ++ drop (7 + off) l.
Proof.
  revert l. induction off as [|off IH]; intros l Hl.
  - do 7 (destruct l as [|? l]; [simpl in Hl; lia|]). done.
  - destruct l as [|x l]; [simpl in Hl; lia|]. simpl in Hl.
    rewrite <- !Nat.add_succ_comm. simpl. f_equal.
    rewrite <- IH by lia. done.
Qed.

Lemma wp_set_digital off d (Q : unit -> cec_msg -> Prop) m :
  readable d -> (off + 7 <= length (msg m))%nat ->
  Q tt (upd_msg (take off (msg m) ++ (digital_byte d <$> seq 0 7) ++ drop (7 + off) (msg m)) m) ->
  wp (cec_set_digital_service_id off d) Q m.
Proof.
  intros Hr Hl HQ. unfold cec_set_digital_service_id, readable in *.
  cbn [fmap list_fmap seq] in HQ. unfold digital_byte, digital_words in HQ.
  apply wp_bind, wp_set_byte; [lia|].
  destruct (service_id_method d =? _);
    [|destruct (is_atsc_system _)]; destruct Hr as [[] Hr]; rewrite Hr in HQ |- *;
    apply wp_bind; cbn [wp st_lift fmap option_fmap option_map];
    repeat (try apply wp_bind; apply wp_set_byte;
      [cbn [msg upd_msg]; rewrite ?length_insert; lia|]);
    cbn [msg upd_msg]; rewrite insert7 by done; exact HQ.
Qed.

(** The channel format and the ten-bit major number in the reader's hands. *)
Lemma channel_bytes f ma :
  in_word 6 f -> in_word 10 ma ->
  u8 (u8 ((f ≪ 2) ||| (ma ≫ 8)) ≫ 2) = f /\
  u16 (((u8 ((f ≪ 2) ||| (ma ≫ 8)) &&& 3) ≪ 6) ||| u8 (ma &&& 0xff)) =
    ((ma ≫ 8) ≪ 6) ||| (ma &&& 0xff).
Proof.
  intros Hf Hma.
  assert (in_word 2 (ma ≫ 8)) by (rewrite shiftr_div by lia; split; word_lia || bits_lia).
  assert (is_u8 (ma &&& 0xff)) by (rewrite land_0xff; apply Z.mod_pos_bound; lia).
  rewrite pack_high, pack_low_2 by (assumption || word_lia).
  split; [apply u8_small; word_lia|].
  rewrite (u8_small (ma &&& _)) by done.
  apply wrap_small, lor_range; [lia|rewrite shiftl_mul by lia|]; word_lia.
Qed.

(** Reading back the seven bytes of a service. *)
Lemma get_digital_bytes d l off :
  readable d -> representable d ->
  (forall i, (i < 7)%nat -> rd l (i + off) = Some (digital_byte d i)) ->
  cec_get_digital_service_id l off = Some (reread d).
Proof.
  intros Hr Hd Hl. unfold cec_get_digital_service_id.
  assert (rd l off = Some (digital_byte d 0)) as -> by (apply (Hl 0%nat); lia).
  rewrite !Hl by lia. unfold digital_byte, digital_words.
  destruct d as [me sy sv]. destruct Hd as (Hme & Hsy & Hsv).
  unfold readable, reread in *. cbn [service_id_method dig_bcast_system service] in *.
  cbn [nth mbind option_bind].
  autorewrite with codec.
  destruct (me =? _) eqn:Em; [|destruct (is_atsc_system sy) eqn:Es];
    destruct sv as [[t s n]|[t p]|[t s n]|[f ma mi]]; destruct Hr as [? [=]]; subst; cbn in *;
    unfold dvb_range in *; cbn in *; destruct_and? Hsv; autorewrite with codec; try done.
  by destruct (channel_bytes f ma) as [-> ->].
Qed.

(** Services that survive a round trip unchanged. *)
Definition digital_domain (d : cec_op_digital_service_id) : Prop :=
  readable d /\ representable d /\ reread d = d.

Lemma digital_domain_readable d : digital_domain d -> readable d.
Proof. by intros [? _]. Qed.

Ltac wp_call ::=
  lazymatch goal with
  | |- wp (cec_set_digital_service_id _ _) _ _ =>
      apply wp_set_digital; [first [assumption | eapply digital_domain_readable; eassumption]|simpl; lia|]; settle
  end.

Lemma get_digital_domain d l off :
  digital_domain d ->
  (forall i, (i < 7)%nat -> rd l (i + off) = Some (digital_byte d i)) ->
  cec_get_digital_service_id l off = Some d.
Proof.
  intros (Hr & Hp & He) Hl. rewrite <- He at 1. by apply get_digital_bytes.
Qed.

#[global] Arguments cec_get_digital_service_id : simpl never.

(** Reads the service back in a concrete payload. *)
Ltac get_digital :=
  erewrite get_digital_domain; cbn;
    [|eassumption|intros i ?; do 7 (destruct i as [|i]; [reflexivity|]); lia].

Ltac decode_call ::= try (get_digital; cbn).
