(* ===== verification/CecPayload.v ===== *)
(** * CEC: variable-length payloads

    Rules for the functions of [cec-funcs.h] that copy a string or a byte
    buffer into the tail of a frame ([memcpy] after a clamp of the length) and
    for their decoders, which copy the tail out and terminate it. *)
From S2P Require Import Prelude.
From S2P Require Import CecConsts.
From S2P Require Import CecMsg.
From S2P Require Import CecCodec.

(** [if (len > c) len = c;] *)
Lemma clamp_min c x : (if c <? x then c else x) = Z.min x c.
Proof. destruct (Z.ltb_spec c x); lia. Qed.

Lemma u32_of_nat_le n : 0 <= u32 (Z.of_nat n) <= Z.of_nat n.
Proof. unfold wrap. split; [apply Z.mod_pos_bound; lia|apply Z.mod_le; lia]. Qed.

Lemma u32_of_nat_small n : Z.of_nat n < 2 ^ 32 -> u32 (Z.of_nat n) = Z.of_nat n.
Proof. intros. apply wrap_small. split; lia. Qed.

Lemma strlen_lt s n : strlen s = Some n -> (n < length s)%nat.
Proof. intros [H _]%strlen_spec. by apply lookup_lt_Some in H. Qed.

(** The clamped length of a string: bounded by the clamp and by the region. *)
Lemma clamped_strlen s n c :
  strlen s = Some n -> 0 <= c ->
  0 <= Z.min (u32 (Z.of_nat n)) c <= c /\
  (Z.to_nat (Z.min (u32 (Z.of_nat n)) c) <= length s)%nat.
Proof.
  intros Hn%strlen_lt Hc. pose proof (u32_of_nat_le n). lia.
Qed.

(** A copy behind the opcode keeps a frame a frame. *)
Lemma wp_set_bytes_frame op bc m0 off src n m :
  frame_of op bc m0 m -> (2 <= off)%nat -> (off + n <= 16)%nat -> (n <= length src)%nat ->
  Forall is_u8 src ->
  wp (set_bytes off src n) (fun _ m' => frame_of op bc m0 m') m.
Proof.
  intros ((Hl & Hb & Hlen) & H2 & Hop & Hhd & Hs) Ho Hn Hsrc Hsb.
  unfold CEC_MAX_MSG_SIZE in Hl.
  apply wp_set_bytes; [lia|done|].
  destruct off as [|[|off]]; [lia|lia|].
  destruct m as [ts rs ln to sq fl l rp r1 r2 r3 r4 r5 r6]. cbn [msg len] in *.
  destruct l as [|b0 [|b1 l]]; [done|done|].
  unfold frame_of. split; [|exact (conj H2 (conj Hop (conj Hhd Hs)))].
  split; [|split; [|done]].
  - cbn. rewrite !length_app, length_drop, !length_take. simpl in Hl.
    unfold CEC_MAX_MSG_SIZE. lia.
  - cbn. apply Forall_cons in Hb as [Hb0 [Hb1 Hb]%Forall_cons].
    repeat apply Forall_cons_2; try done.
    apply Forall_app_2; [by apply Forall_take|].
    apply Forall_app_2; [by apply Forall_take|by apply Forall_drop].
Qed.

(** Copying out what was copied in, and terminating it. *)
Lemma copy_out out l off src n :
  (off + n <= length l)%nat -> (n <= length src)%nat -> (n < length out)%nat ->
  (memcpy out 0 (drop off (take off l ++ take n src ++ drop (off + n) l)) n
     ≫= fun d => wr d n 0) = Some (take n src ++ 0 :: drop (S n) out).
Proof.
  intros Hl Hs Ho.
  rewrite drop_app_ge by (rewrite length_take; lia).
  rewrite length_take, Nat.min_l, Nat.sub_diag, drop_0 by lia.
  rewrite memcpy_Some by (rewrite ?length_app, ?length_take; lia). cbn [mbind option_bind].
  rewrite take_0, app_nil_l, Nat.add_0_l, take_app_le by (rewrite length_take; lia).
  rewrite take_take, Nat.min_id, wr_Some by (rewrite length_app, length_take, length_drop; lia).
  f_equal. rewrite insert_app_r_alt by (rewrite length_take; lia). f_equal.
  rewrite length_take, Nat.min_l, Nat.sub_diag by lia.
  by destruct (drop n out) as [|x r] eqn:E;
    [apply (f_equal length) in E; rewrite length_drop in E; simpl in E; lia|];
    simpl; rewrite <- Nat.add_1_r, <- drop_drop, E.
Qed.

(** A decoder's copy from any message into a large enough buffer. *)
Lemma copy_out_safe out m off n :
  (off + n <= length (msg m))%nat -> (n < length out)%nat ->
  exists out', (memcpy out 0 (drop off (msg m)) n ≫= fun d => wr d n 0) = Some out' /\
    length out' = length out /\ out' !! n = Some 0 /\ take n out' = take n (drop off (msg m)) /\
    drop (S n) out' = drop (S n) out.
Proof.
  intros Hm Ho.
  rewrite memcpy_Some by (rewrite ?length_drop; lia). cbn [mbind option_bind].
  rewrite take_0, app_nil_l, Nat.add_0_l.
  assert (length (take n (drop off (msg m))) = n) as Hn
    by (rewrite length_take, length_drop; lia).
  rewrite wr_Some by (rewrite length_app, Hn, length_drop; lia).
  eexists. split; [done|]. split_and!.
  - rewrite length_insert, length_app, Hn, length_drop. lia.
  - apply list_lookup_insert_eq. rewrite length_app, Hn, length_drop. lia.
  - rewrite take_insert_ge by lia. by rewrite take_app_length'.
  - rewrite drop_insert_lt by lia. rewrite drop_app_ge by lia. rewrite Hn, drop_drop.
    f_equal. lia.
Qed.

(** A string as C stores it, and the strings a C string can hold. *)
Definition cstring (s : list Z) : list Z := s ++ [0].
Definition string_ok (s : list Z) : Prop := Forall is_u8 s /\ Forall (fun c => c <> 0) s.

Lemma cstring_strlen s : string_ok s -> strlen (cstring s) = Some (length s).
Proof. intros [_ H]. by apply strlen_app. Qed.

Lemma cstring_bytes s : string_ok s -> Forall is_u8 (cstring s).
Proof. intros [H _]. apply Forall_app_2; [done|]. repeat constructor; lia. Qed.

(** The string a NUL-terminated buffer holds. *)
Definition read_cstring (buf : list Z) : option (list Z) :=
  n ← strlen buf; Some (take n buf).

Lemma read_cstring_app s rest : string_ok s -> read_cstring (s ++ 0 :: rest) = Some s.
Proof.
  intros [_ H]. unfold read_cstring. rewrite strlen_app by done. cbn.
  by rewrite take_app_length.
Qed.

(** Steps of a program on a message that is not opened. *)
Ltac arr_len := cbn [msg upd_msg upd_len upd_reply]; rewrite ?length_insert; lia.
Ltac payload_step :=
  lazymatch goal with
  | |- wp (_ ≫= _) _ _ => apply wp_bind
  | |- wp (set_len _) _ _ => apply wp_set_len
  | |- wp (set_byte _ _) _ _ => apply wp_set_byte; [arr_len|]
  | |- wp (set_bytes _ _ _) _ _ => apply wp_set_bytes; [arr_len|lia|]
  end.

(** Closes a frame whose length is symbolic. *)
Ltac solve_payload_frame :=
  unfold frame_of, wf_msg, same_status, addr_byte, cec_msg_opcode; cbn;
  repeat match goal with
  | |- context [wrap 32 (?k + ?L)] => rewrite (wrap_small 32 (k + L)) by word_lia
  | |- context [1 <? ?x] => rewrite (proj2 (Z.ltb_lt 1 x)) by lia
  end;
  rewrite ?or_nibble_byte by assumption;
  split_and!; try reflexivity; try word_lia; repeat apply Forall_cons_2;
  auto with words nocore.

(** Solves [Encoder] goals of string messages, given the string's length. *)
Ltac solve_string_encoder Hn :=
  let m := fresh "m" in let H := fresh "H" in let L := fresh "L" in
  let HL := fresh "HL" in let Hs := fresh "Hs" in
  intros m H; open_msg m;
  lazymatch goal with |- wp ?c _ _ => let h := head_of c in unfold h end;
  apply wp_bind; rewrite Hn; apply wp_ret; cbv zeta; rewrite clamp_min;
  match goal with |- context [Z.min ?x ?c] =>
    destruct (clamped_strlen _ _ c Hn) as [HL Hs]; [lia|]; set (L := Z.min x c) in *
  end; clearbody L;
  run; (apply wp_set_bytes_frame; [|lia..|done]);
  solve_payload_frame.

(** The length a decoder recovers from a frame with [n] bytes behind [k]. *)
Lemma payload_len k n :
  0 <= k <= 5 -> 0 <= n <= 16 -> (if k <? k + n then u32 (k + n - k) else 0) = n.
Proof.
  intros. destruct (Z.ltb_spec k (k + n)); [|lia].
  replace (k + n - k) with n by lia. apply wrap_small. word_lia.
Qed.

(** Starts a [Lawful] goal of a string message: runs the encoder and brings the
    decoder's length computation to the length of the string. *)
Ltac open_string_codec :=
  let x := fresh "x" in let m := fresh "m" in let H := fresh "H" in
  let Hok := fresh "Hok" in let Hx := fresh "Hx" in
  lazymatch goal with |- Lawful ?C => let h := head_of C in unfold h end;
  intros x m H Hd; cbn [operands encode decode domain] in *;
  repeat match goal with x : (_ * _)%type |- _ => destruct x end;
  cbv beta iota in Hd |- *; destruct_and? Hd; destruct H as (Hl & Hb & Hlen);
  unfold CEC_MAX_MSG_SIZE in Hl;
  match goal with H : string_ok ?s |- _ => rename H into Hok; set (y := s) in *;
    assert (length (cstring y) = S (length y)) as Hx
      by (unfold cstring; rewrite length_app; simpl; lia) end;
  lazymatch goal with |- wp ?p _ _ => let h := head_of p in unfold h end;
  apply wp_bind; rewrite cstring_strlen by done; apply wp_ret; cbv zeta;
  rewrite clamp_min, u32_of_nat_small, Z.min_l, Nat2Z.id by lia;
  repeat payload_step;
  lazymatch goal with |- ?d _ ≫= _ = _ => let h := head_of d in unfold h end;
  cbn [len msg upd_len upd_msg];
  rewrite wrap_small by word_lia;
  rewrite payload_len by lia; rewrite clamp_min, Z.min_l, Nat2Z.id by lia; cbv zeta.

(** The copy of a whole C string, read back. *)
Lemma copy_out_cstring out l off y :
  string_ok y -> (off + length y <= length l)%nat -> (length y < length out)%nat ->
  (memcpy out 0 (drop off (take off l ++ take (length y) (cstring y) ++ drop (off + length y) l))
     (length y) ≫= fun d => wr d (length y) 0) = Some (y ++ 0 :: drop (S (length y)) out).
Proof.
  intros Hy Hl Ho. rewrite copy_out.
  - unfold cstring. by rewrite take_app_length.
  - done.
  - unfold cstring. rewrite length_app. lia.
  - done.
Qed.

(** The bytes in front of the copy. *)
Lemma rd_prefix l off i rest : (i < off <= length l)%nat -> rd (take off l ++ rest) i = rd l i.
Proof.
  intros. unfold rd. rewrite lookup_app_l by (rewrite length_take; lia).
  by rewrite lookup_take_lt by lia.
Qed.
Lemma rd_insert_eq l i v : (i < length l)%nat -> rd (<[i := v]> l) i = Some v.
Proof. apply list_lookup_insert_eq. Qed.
Lemma rd_insert_ne l i j v : i <> j -> rd (<[i := v]> l) j = rd l j.
Proof. apply list_lookup_insert_ne. Qed.

Ltac read_prefix :=
  rewrite ?rd_prefix by (split; [lia|arr_len]);
  repeat first [rewrite rd_insert_eq by arr_len | rewrite rd_insert_ne by lia].

(** Solves [Encoder] goals of messages that copy a sized buffer. *)
Ltac solve_buffer_encoder :=
  let m := fresh "m" in let H := fresh "H" in let L := fresh "L" in
  intros m H; open_msg m;
  lazymatch goal with |- wp ?c _ _ => let h := head_of c in unfold h end;
  cbv zeta; rewrite clamp_min;
  match goal with |- context [Z.min ?x ?c] =>
    assert (0 <= Z.min x c <= c) by lia; set (L := Z.min x c) in *
  end; clearbody L;
  run; (apply wp_set_bytes_frame; [|lia..|done]);
  solve_payload_frame.

(** Buffers of bytes that fit a frame unclamped. *)
Definition buffer_ok (c : nat) (b : list Z) : Prop := Forall is_u8 b /\ (length b <= c)%nat.

(** The bytes a returned (size, offset) pair designates. *)
Definition slice (m : cec_msg) (size : Z) (off : nat) : list Z :=
  take (Z.to_nat size) (drop off (msg m)).

(** A size argument and the region that backs it, up to the clamp [c]. *)
Definition backed (c size : Z) (b : list Z) : Prop :=
  0 <= size /\ (Z.to_nat (Z.min size c) <= length b)%nat /\ Forall is_u8 b.

(** The copy of a whole buffer, as a returned size and offset designate it. *)
Lemma copied_slice (l : list Z) off (src : list Z) :
  (off + length src <= length l)%nat ->
  take (length src) (drop off (take off l ++ take (length src) src ++ drop (off + length src) l)) = src.
Proof.
  intros. rewrite drop_app_ge by (rewrite length_take; lia).
  rewrite length_take, Nat.min_l, Nat.sub_diag, drop_0 by lia. rewrite (firstn_all src).
  by rewrite take_app_length.
Qed.

(** The size a decoder recovers. *)
Lemma payload_size k n :
  0 <= k <= 5 -> 0 <= n <= 16 -> u8 (u32 (u32 (k + n) - k)) = n.
Proof.
  intros. rewrite (wrap_small 32 (k + n)) by word_lia.
  replace (k + n - k) with n by lia.
  rewrite (wrap_small 32) by word_lia. apply wrap_small. word_lia.
Qed.

(** Starts a [Lawful] goal of a buffer message: runs the encoder. *)
Ltac open_buffer_codec :=
  let m := fresh "m" in let x := fresh "x" in let H := fresh "H" in let Hd := fresh "Hd" in
  lazymatch goal with |- Lawful ?C => let h := head_of C in unfold h end;
  intros x m H Hd; cbn [operands encode decode domain] in *;
  repeat match goal with x : (_ * _)%type |- _ => destruct x end;
  cbv beta iota in Hd |- *; unfold buffer_ok in Hd; destruct_and? Hd;
  destruct H as (Hl & Hb & Hlen); unfold CEC_MAX_MSG_SIZE in Hl;
  lazymatch goal with |- wp ?p _ _ => let h := head_of p in unfold h end;
  cbv zeta; rewrite clamp_min, Z.min_l, Nat2Z.id by lia;
  repeat payload_step.
