(* ===== verification/CecRouting.v ===== *)
(** * CEC: one touch play, routing control and standby

    The encoders and decoders of lines 41-155 of
    [kernel-headers/linux/cec-funcs.h]. *)
From S2P Require Import Prelude.
From S2P Require Import CecConsts.
From S2P Require Import CecMsg.
From S2P Require Import CecCodec.

(** ** One Touch Play Feature *)

Definition cec_msg_active_source (phys_addr : Z) : M unit :=
  set_len 4;;
  or_byte 0 0xf;;
  set_byte 1 CEC_MSG_ACTIVE_SOURCE;;
  set_byte 2 (phys_addr ≫ 8);;
  set_byte 3 (phys_addr &&& 0xff).

Definition cec_ops_active_source (m : cec_msg) : option Z :=
  b2 ← rd (msg m) 2; b3 ← rd (msg m) 3;
  Some (u16 ((b2 ≪ 8) ||| b3)).

Definition cec_msg_image_view_on : M unit :=
  set_len 2;;
  set_byte 1 CEC_MSG_IMAGE_VIEW_ON.

Definition cec_msg_text_view_on : M unit :=
  set_len 2;;
  set_byte 1 CEC_MSG_TEXT_VIEW_ON.

(** ** Routing Control Feature *)

Definition cec_msg_inactive_source (phys_addr : Z) : M unit :=
  set_len 4;;
  set_byte 1 CEC_MSG_INACTIVE_SOURCE;;
  set_byte 2 (phys_addr ≫ 8);;
  set_byte 3 (phys_addr &&& 0xff).

Definition cec_ops_inactive_source (m : cec_msg) : option Z :=
  b2 ← rd (msg m) 2; b3 ← rd (msg m) 3;
  Some (u16 ((b2 ≪ 8) ||| b3)).

Definition cec_msg_request_active_source (reply : bool) : M unit :=
  set_len 2;;
  or_byte 0 0xf;;
  set_byte 1 CEC_MSG_REQUEST_ACTIVE_SOURCE;;
  set_reply (if reply then CEC_MSG_ACTIVE_SOURCE else 0).

Definition cec_msg_routing_information (phys_addr : Z) : M unit :=
  set_len 4;;
  or_byte 0 0xf;;
  set_byte 1 CEC_MSG_ROUTING_INFORMATION;;
  set_byte 2 (phys_addr ≫ 8);;
  set_byte 3 (phys_addr &&& 0xff).

Definition cec_ops_routing_information (m : cec_msg) : option Z :=
  b2 ← rd (msg m) 2; b3 ← rd (msg m) 3;
  Some (u16 ((b2 ≪ 8) ||| b3)).

Definition cec_msg_routing_change (reply : bool) (orig_phys_addr new_phys_addr : Z) : M unit :=
  set_len 6;;
  or_byte 0 0xf;;
  set_byte 1 CEC_MSG_ROUTING_CHANGE;;
  set_byte 2 (orig_phys_addr ≫ 8);;
  set_byte 3 (orig_phys_addr &&& 0xff);;
  set_byte 4 (new_phys_addr ≫ 8);;
  set_byte 5 (new_phys_addr &&& 0xff);;
  set_reply (if reply then CEC_MSG_ROUTING_INFORMATION else 0).

Definition cec_ops_routing_change (m : cec_msg) : option (Z * Z) :=
  b2 ← rd (msg m) 2; b3 ← rd (msg m) 3; b4 ← rd (msg m) 4;
  b5 ← rd (msg m) 5;
  Some (u16 ((b2 ≪ 8) ||| b3), u16 ((b4 ≪ 8) ||| b5)).

Definition cec_msg_set_stream_path (phys_addr : Z) : M unit :=
  set_len 4;;
  or_byte 0 0xf;;
  set_byte 1 CEC_MSG_SET_STREAM_PATH;;
  set_byte 2 (phys_addr ≫ 8);;
  set_byte 3 (phys_addr &&& 0xff).

Definition cec_ops_set_stream_path (m : cec_msg) : option Z :=
  b2 ← rd (msg m) 2; b3 ← rd (msg m) 3;
  Some (u16 ((b2 ≪ 8) ||| b3)).

(** ** Standby Feature *)

Definition cec_msg_standby : M unit :=
  set_len 2;;
  set_byte 1 CEC_MSG_STANDBY.

(** ** Codecs *)

Definition active_source_codec : codec :=
  Codec (Z)
    (fun phys_addr =>
      cec_msg_active_source phys_addr)
    cec_ops_active_source
    (fun phys_addr =>
      is_u16 phys_addr).

Definition inactive_source_codec : codec :=
  Codec (Z)
    (fun phys_addr =>
      cec_msg_inactive_source phys_addr)
    cec_ops_inactive_source
    (fun phys_addr =>
      is_u16 phys_addr).

Definition routing_information_codec : codec :=
  Codec (Z)
    (fun phys_addr =>
      cec_msg_routing_information phys_addr)
    cec_ops_routing_information
    (fun phys_addr =>
      is_u16 phys_addr).

Definition routing_change_codec (reply : bool) : codec :=
  Codec (Z * Z)
    (fun '(orig_phys_addr, new_phys_addr) =>
      cec_msg_routing_change reply orig_phys_addr new_phys_addr)
    cec_ops_routing_change
    (fun '(orig_phys_addr, new_phys_addr) =>
      is_u16 orig_phys_addr /\ is_u16 new_phys_addr).

Definition set_stream_path_codec : codec :=
  Codec (Z)
    (fun phys_addr =>
      cec_msg_set_stream_path phys_addr)
    cec_ops_set_stream_path
    (fun phys_addr =>
      is_u16 phys_addr).

(** ** Encoder contracts *)

#[export] Instance cec_msg_active_source_encoder phys_addr :
  Encoder (cec_msg_active_source phys_addr)
    CEC_MSG_ACTIVE_SOURCE true.
Proof. solve_encoder. Qed.

#[export] Instance cec_msg_image_view_on_encoder :
  Encoder (cec_msg_image_view_on)
    CEC_MSG_IMAGE_VIEW_ON false.
Proof. solve_encoder. Qed.

#[export] Instance cec_msg_text_view_on_encoder :
  Encoder (cec_msg_text_view_on)
    CEC_MSG_TEXT_VIEW_ON false.
Proof. solve_encoder. Qed.

#[export] Instance cec_msg_inactive_source_encoder phys_addr :
  Encoder (cec_msg_inactive_source phys_addr)
    CEC_MSG_INACTIVE_SOURCE false.
Proof. solve_encoder. Qed.

#[export] Instance cec_msg_request_active_source_encoder reply :
  Encoder (cec_msg_request_active_source reply)
    CEC_MSG_REQUEST_ACTIVE_SOURCE true.
Proof. solve_encoder. Qed.

#[export] Instance cec_msg_routing_information_encoder phys_addr :
  Encoder (cec_msg_routing_information phys_addr)
    CEC_MSG_ROUTING_INFORMATION true.
Proof. solve_encoder. Qed.

#[export] Instance cec_msg_routing_change_encoder reply orig_phys_addr new_phys_addr :
  Encoder (cec_msg_routing_change reply orig_phys_addr new_phys_addr)
    CEC_MSG_ROUTING_CHANGE true.
Proof. solve_encoder. Qed.

#[export] Instance cec_msg_set_stream_path_encoder phys_addr :
  Encoder (cec_msg_set_stream_path phys_addr)
    CEC_MSG_SET_STREAM_PATH true.
Proof. solve_encoder. Qed.

#[export] Instance cec_msg_standby_encoder :
  Encoder (cec_msg_standby)
    CEC_MSG_STANDBY false.
Proof. solve_encoder. Qed.

#[export] Hint Resolve cec_msg_active_source_encoder cec_msg_image_view_on_encoder
  cec_msg_text_view_on_encoder cec_msg_inactive_source_encoder
  cec_msg_request_active_source_encoder cec_msg_routing_information_encoder
  cec_msg_routing_change_encoder cec_msg_set_stream_path_encoder cec_msg_standby_encoder : encoders.

(** ** Round trips *)

#[export] Instance active_source_codec_lawful : Lawful active_source_codec.
Proof. solve_codec. Qed.

#[export] Instance inactive_source_codec_lawful : Lawful inactive_source_codec.
Proof. solve_codec. Qed.

#[export] Instance routing_information_codec_lawful : Lawful routing_information_codec.
Proof. solve_codec. Qed.

#[export] Instance routing_change_codec_lawful reply : Lawful (routing_change_codec reply).
Proof. solve_codec. Qed.

#[export] Instance set_stream_path_codec_lawful : Lawful set_stream_path_codec.
Proof. solve_codec. Qed.

#[export] Hint Resolve active_source_codec_lawful inactive_source_codec_lawful
  routing_information_codec_lawful routing_change_codec_lawful set_stream_path_codec_lawful : codecs.
