(* ===== verification/CecRecord.v ===== *)
(** * CEC: one touch record

    The encoders and decoders of lines 157-393 of
    [kernel-headers/linux/cec-funcs.h]; the digital service pair they use is in
    [CecOperands]. *)
From S2P Require Import Prelude.
From S2P Require Import CecConsts.
From S2P Require Import CecMsg.
From S2P Require Import CecCodec.
From S2P Require Import CecOperands.

(** ** One Touch Record Feature *)

Definition cec_msg_record_off (reply : bool) : M unit :=
  set_len 2;;
  set_byte 1 CEC_MSG_RECORD_OFF;;
  set_reply (if reply then CEC_MSG_RECORD_STATUS else 0).

Definition cec_msg_record_on_own : M unit :=
  set_len 3;;
  set_byte 1 CEC_MSG_RECORD_ON;;
  set_byte 2 CEC_OP_RECORD_SRC_OWN.

Definition cec_msg_record_on_digital (digital : cec_op_digital_service_id) : M unit :=
  set_len 10;;
  set_byte 1 CEC_MSG_RECORD_ON;;
  set_byte 2 CEC_OP_RECORD_SRC_DIGITAL;;
  cec_set_digital_service_id 3 digital.

Definition cec_msg_record_on_analog (ana_bcast_type ana_freq bcast_system : Z) : M unit :=
  set_len 7;;
  set_byte 1 CEC_MSG_RECORD_ON;;
  set_byte 2 CEC_OP_RECORD_SRC_ANALOG;;
  set_byte 3 ana_bcast_type;;
  set_byte 4 (ana_freq ≫ 8);;
  set_byte 5 (ana_freq &&& 0xff);;
  set_byte 6 bcast_system.

Definition cec_msg_record_on_plug (plug : Z) : M unit :=
  set_len 4;;
  set_byte 1 CEC_MSG_RECORD_ON;;
  set_byte 2 CEC_OP_RECORD_SRC_EXT_PLUG;;
  set_byte 3 plug.

Definition cec_msg_record_on_phys_addr (phys_addr : Z) : M unit :=
  set_len 5;;
  set_byte 1 CEC_MSG_RECORD_ON;;
  set_byte 2 CEC_OP_RECORD_SRC_EXT_PHYS_ADDR;;
  set_byte 3 (phys_addr ≫ 8);;
  set_byte 4 (phys_addr &&& 0xff).

(** [struct cec_op_record_src]: the member last written into its union. *)
Inductive record_union : Type :=
| RS_digital (digital : cec_op_digital_service_id)
| RS_analog (ana_bcast_type ana_freq bcast_system : Z)
| RS_ext_plug (plug : Z)
| RS_ext_phys_addr (phys_addr : Z)
| RS_unset.

Record cec_op_record_src : Type := mk_record_src {
  src_type : Z;
  src : record_union
}.

(** Reading a member other than the one last written is a fault. *)
Definition cec_msg_record_on (reply : bool) (rec_src : cec_op_record_src) : M unit :=
  (if src_type rec_src =? CEC_OP_RECORD_SRC_OWN then cec_msg_record_on_own
   else if src_type rec_src =? CEC_OP_RECORD_SRC_DIGITAL then
     match src rec_src with
     | RS_digital digital => cec_msg_record_on_digital digital
     | _ => st_lift None
     end
   else if src_type rec_src =? CEC_OP_RECORD_SRC_ANALOG then
     match src rec_src with
     | RS_analog ana_bcast_type ana_freq bcast_system =>
         cec_msg_record_on_analog ana_bcast_type ana_freq bcast_system
     | _ => st_lift None
     end
   else if src_type rec_src =? CEC_OP_RECORD_SRC_EXT_PLUG then
     match src rec_src with
     | RS_ext_plug plug => cec_msg_record_on_plug plug
     | _ => st_lift None
     end
   else if src_type rec_src =? CEC_OP_RECORD_SRC_EXT_PHYS_ADDR then
     match src rec_src with
     | RS_ext_phys_addr phys_addr => cec_msg_record_on_phys_addr phys_addr
     | _ => st_lift None
     end
   else mret tt);;
  set_reply (if reply then CEC_MSG_RECORD_STATUS else 0).

(** [rec_src] is the caller's structure before the call: an unknown type and
    [CEC_OP_RECORD_SRC_OWN] leave its union alone. *)
Definition cec_ops_record_on (m : cec_msg) (rec_src : cec_op_record_src)
    : option cec_op_record_src :=
  type ← rd (msg m) 2;
  if type =? CEC_OP_RECORD_SRC_OWN then Some (mk_record_src type (src rec_src))
  else if type =? CEC_OP_RECORD_SRC_DIGITAL then
    digital ← cec_get_digital_service_id (msg m) 3;
    Some (mk_record_src type (RS_digital digital))
  else if type =? CEC_OP_RECORD_SRC_ANALOG then
    b3 ← rd (msg m) 3; b4 ← rd (msg m) 4; b5 ← rd (msg m) 5; b6 ← rd (msg m) 6;
    Some (mk_record_src type (RS_analog b3 (u16 ((b4 ≪ 8) ||| b5)) b6))
  else if type =? CEC_OP_RECORD_SRC_EXT_PLUG then
    b3 ← rd (msg m) 3;
    Some (mk_record_src type (RS_ext_plug b3))
  else if type =? CEC_OP_RECORD_SRC_EXT_PHYS_ADDR then
    b3 ← rd (msg m) 3; b4 ← rd (msg m) 4;
    Some (mk_record_src type (RS_ext_phys_addr (u16 ((b3 ≪ 8) ||| b4))))
  else Some (mk_record_src type (src rec_src)).

Definition cec_msg_record_status (rec_status : Z) : M unit :=
  set_len 3;;
  set_byte 1 CEC_MSG_RECORD_STATUS;;
  set_byte 2 rec_status.

Definition cec_ops_record_status (m : cec_msg) : option Z :=
  b2 ← rd (msg m) 2;
  Some b2.

Definition cec_msg_record_tv_screen (reply : bool) : M unit :=
  set_len 2;;
  set_byte 1 CEC_MSG_RECORD_TV_SCREEN;;
  set_reply (if reply then CEC_MSG_RECORD_ON else 0).

(** ** Codecs *)

Definition record_status_codec : codec :=
  Codec (Z)
    (fun rec_status =>
      cec_msg_record_status rec_status)
    cec_ops_record_status
    (fun rec_status =>
      is_u8 rec_status).

(** A source whose type names one of the five kinds and whose union holds the
    member of that kind. *)
Definition record_src_ok (r : cec_op_record_src) : Prop :=
  match src r with
  | RS_digital digital => src_type r = CEC_OP_RECORD_SRC_DIGITAL /\ readable digital
  | RS_analog _ _ _ => src_type r = CEC_OP_RECORD_SRC_ANALOG
  | RS_ext_plug _ => src_type r = CEC_OP_RECORD_SRC_EXT_PLUG
  | RS_ext_phys_addr _ => src_type r = CEC_OP_RECORD_SRC_EXT_PHYS_ADDR
  | RS_unset => src_type r = CEC_OP_RECORD_SRC_OWN
  end.

Definition record_src_domain (r : cec_op_record_src) : Prop :=
  record_src_ok r /\
  match src r with
  | RS_digital digital => digital_domain digital
  | RS_analog ana_bcast_type ana_freq bcast_system =>
      is_u8 ana_bcast_type /\ is_u16 ana_freq /\ is_u8 bcast_system
  | RS_ext_plug plug => is_u8 plug
  | RS_ext_phys_addr phys_addr => is_u16 phys_addr
  | RS_unset => True
  end.

(** Decodes into a structure whose union holds nothing yet. *)
Definition record_on_codec (reply : bool) : codec :=
  Codec cec_op_record_src
    (cec_msg_record_on reply)
    (fun m => cec_ops_record_on m (mk_record_src 0 RS_unset))
    record_src_domain.

(** ** Encoder contracts *)

#[export] Instance cec_msg_record_off_encoder reply :
  Encoder (cec_msg_record_off reply)
    CEC_MSG_RECORD_OFF false.
Proof. solve_encoder. Qed.

#[export] Instance cec_msg_record_on_own_encoder :
  Encoder (cec_msg_record_on_own)
    CEC_MSG_RECORD_ON false.
Proof. solve_encoder. Qed.

#[export] Instance cec_msg_record_on_digital_encoder digital :
  readable digital -> Encoder (cec_msg_record_on_digital digital)
    CEC_MSG_RECORD_ON false.
Proof. intro. solve_encoder. Qed.

#[export] Instance cec_msg_record_on_analog_encoder ana_bcast_type ana_freq bcast_system :
  Encoder (cec_msg_record_on_analog ana_bcast_type ana_freq bcast_system)
    CEC_MSG_RECORD_ON false.
Proof. solve_encoder. Qed.

#[export] Instance cec_msg_record_on_plug_encoder plug :
  Encoder (cec_msg_record_on_plug plug)
    CEC_MSG_RECORD_ON false.
Proof. solve_encoder. Qed.

#[export] Instance cec_msg_record_on_phys_addr_encoder phys_addr :
  Encoder (cec_msg_record_on_phys_addr phys_addr)
    CEC_MSG_RECORD_ON false.
Proof. solve_encoder. Qed.

#[export] Instance cec_msg_record_on_encoder reply rec_src :
  record_src_ok rec_src ->
  Encoder (cec_msg_record_on reply rec_src) CEC_MSG_RECORD_ON false.
Proof.
  destruct rec_src as [type sv]. unfold record_src_ok. simpl.
  destruct sv; [intros [-> ?]|intros ->..]; solve_encoder.
Qed.

#[export] Instance cec_msg_record_status_encoder rec_status :
  Encoder (cec_msg_record_status rec_status)
    CEC_MSG_RECORD_STATUS false.
Proof. solve_encoder. Qed.

#[export] Instance cec_msg_record_tv_screen_encoder reply :
  Encoder (cec_msg_record_tv_screen reply)
    CEC_MSG_RECORD_TV_SCREEN false.
Proof. solve_encoder. Qed.

#[export] Hint Resolve cec_msg_record_off_encoder cec_msg_record_on_own_encoder
  cec_msg_record_on_digital_encoder cec_msg_record_on_analog_encoder
  cec_msg_record_on_plug_encoder cec_msg_record_on_phys_addr_encoder
  cec_msg_record_on_encoder cec_msg_record_status_encoder cec_msg_record_tv_screen_encoder : encoders.

(** ** Round trips *)

#[export] Instance record_status_codec_lawful : Lawful record_status_codec.
Proof. solve_codec. Qed.

#[export] Instance record_on_codec_lawful reply : Lawful (record_on_codec reply).
Proof.
  intros [type sv] m H [Ht Hd]. unfold record_src_ok in *. cbn [record_on_codec encode decode src src_type] in *.
  destruct sv; destruct_and? Ht; subst type; destruct_and? Hd;
    open_msg m; run; solve_decode.
Qed.

#[export] Hint Resolve record_status_codec_lawful record_on_codec_lawful : codecs.
