(* ===== verification/CecTimer.v ===== *)
(** * CEC: timer programming

    The encoders and decoders of lines 396-794 of
    [kernel-headers/linux/cec-funcs.h]. *)
From S2P Require Import Prelude.
From S2P Require Import CecConsts.
From S2P Require Import CecMsg.
From S2P Require Import CecCodec.
From S2P Require Import CecOperands.
From S2P Require Import CecPayload.

(** ** Timer Programming Feature *)

Definition cec_msg_timer_status (timer_overlap_warning media_info prog_info prog_error
    duration_hr duration_min : Z) : M unit :=
  set_len 3;;
  set_byte 1 CEC_MSG_TIMER_STATUS;;
  set_byte 2 ((timer_overlap_warning ≪ 7) ||| (media_info ≪ 5) |||
    (if negb (prog_info =? 0) then 0x10 else 0) |||
    (if negb (prog_info =? 0) then prog_info else prog_error));;
  if (prog_info =? CEC_OP_PROG_INFO_NOT_ENOUGH_SPACE) ||
     (prog_info =? CEC_OP_PROG_INFO_MIGHT_NOT_BE_ENOUGH_SPACE) ||
     (prog_error =? CEC_OP_PROG_ERROR_DUPLICATE) then
    add_len 2;;
    set_byte 3 (((duration_hr / 10) ≪ 4) ||| (duration_hr mod 10));;
    set_byte 4 (((duration_min / 10) ≪ 4) ||| (duration_min mod 10))
  else mret tt.

(** Result: (timer_overlap_warning, media_info, prog_info, prog_error,
    duration_hr, duration_min). *)
Definition cec_ops_timer_status (m : cec_msg) : option (Z * Z * Z * Z * Z * Z) :=
  b2 ← rd (msg m) 2;
  let '(prog_info, prog_error) :=
    if negb ((b2 &&& 0x10) =? 0) then (u8 (b2 &&& 0xf), 0) else (0, u8 (b2 &&& 0xf)) in
  '(duration_hr, duration_min) ←
    (if (prog_info =? CEC_OP_PROG_INFO_NOT_ENOUGH_SPACE) ||
        (prog_info =? CEC_OP_PROG_INFO_MIGHT_NOT_BE_ENOUGH_SPACE) ||
        (prog_error =? CEC_OP_PROG_ERROR_DUPLICATE) then
       b3 ← rd (msg m) 3; b4 ← rd (msg m) 4;
       Some (u8 ((b3 ≫ 4) * 10 + (b3 &&& 0xf)), u8 ((b4 ≫ 4) * 10 + (b4 &&& 0xf)))
     else Some (0, 0));
  Some (u8 (b2 ≫ 7), u8 ((b2 ≫ 5) &&& 3), prog_info, prog_error, duration_hr, duration_min).

Definition cec_msg_timer_cleared_status (timer_cleared_status : Z) : M unit :=
  set_len 3;;
  set_byte 1 CEC_MSG_TIMER_CLEARED_STATUS;;
  set_byte 2 timer_cleared_status.

Definition cec_ops_timer_cleared_status (m : cec_msg) : option Z :=
  b2 ← rd (msg m) 2;
  Some b2.

Definition cec_msg_clear_analogue_timer (reply : bool)
    (day month start_hr start_min duration_hr duration_min recording_seq ana_bcast_type ana_freq bcast_system : Z) : M unit :=
  set_len 13;;
  set_byte 1 CEC_MSG_CLEAR_ANALOGUE_TIMER;;
  set_byte 2 day;;
  set_byte 3 month;;
  set_byte 4 (((start_hr / 10) ≪ 4) ||| (start_hr mod 10));;
  set_byte 5 (((start_min / 10) ≪ 4) ||| (start_min mod 10));;
  set_byte 6 (((duration_hr / 10) ≪ 4) ||| (duration_hr mod 10));;
  set_byte 7 (((duration_min / 10) ≪ 4) ||| (duration_min mod 10));;
  set_byte 8 recording_seq;;
  set_byte 9 ana_bcast_type;;
  set_byte 10 (ana_freq ≫ 8);;
  set_byte 11 (ana_freq &&& 0xff);;
  set_byte 12 bcast_system;;
  set_reply (if reply then CEC_MSG_TIMER_CLEARED_STATUS else 0).

Definition cec_ops_clear_analogue_timer (m : cec_msg) : option (Z * Z * Z * Z * Z * Z * Z * Z * Z * Z) :=
  b2 ← rd (msg m) 2; b3 ← rd (msg m) 3; b4 ← rd (msg m) 4;
  b5 ← rd (msg m) 5; b6 ← rd (msg m) 6; b7 ← rd (msg m) 7;
  b8 ← rd (msg m) 8; b9 ← rd (msg m) 9; b10 ← rd (msg m) 10;
  b11 ← rd (msg m) 11; b12 ← rd (msg m) 12;
  Some (b2,
        b3,
        u8 ((b4 ≫ 4) * 10 + (b4 &&& 0xf)),
        u8 ((b5 ≫ 4) * 10 + (b5 &&& 0xf)),
        u8 ((b6 ≫ 4) * 10 + (b6 &&& 0xf)),
        u8 ((b7 ≫ 4) * 10 + (b7 &&& 0xf)),
        b8,
        b9,
        u16 ((b10 ≪ 8) ||| b11),
        b12).

Definition cec_msg_clear_digital_timer (reply : bool)
    (day month start_hr start_min duration_hr duration_min recording_seq : Z)
    (digital : cec_op_digital_service_id) : M unit :=
  set_len 16;;
  set_reply (if reply then CEC_MSG_TIMER_CLEARED_STATUS else 0);;
  set_byte 1 CEC_MSG_CLEAR_DIGITAL_TIMER;;
  set_byte 2 day;;
  set_byte 3 month;;
  set_byte 4 (((start_hr / 10) ≪ 4) ||| (start_hr mod 10));;
  set_byte 5 (((start_min / 10) ≪ 4) ||| (start_min mod 10));;
  set_byte 6 (((duration_hr / 10) ≪ 4) ||| (duration_hr mod 10));;
  set_byte 7 (((duration_min / 10) ≪ 4) ||| (duration_min mod 10));;
  set_byte 8 recording_seq;;
  cec_set_digital_service_id 9 digital.

Definition cec_ops_clear_digital_timer (m : cec_msg) : option (Z * Z * Z * Z * Z * Z * Z * cec_op_digital_service_id) :=
  b2 ← rd (msg m) 2; b3 ← rd (msg m) 3; b4 ← rd (msg m) 4;
  b5 ← rd (msg m) 5; b6 ← rd (msg m) 6; b7 ← rd (msg m) 7;
  b8 ← rd (msg m) 8;
  d ← cec_get_digital_service_id (msg m) 9;
  Some (b2,
        b3,
        u8 ((b4 ≫ 4) * 10 + (b4 &&& 0xf)),
        u8 ((b5 ≫ 4) * 10 + (b5 &&& 0xf)),
        u8 ((b6 ≫ 4) * 10 + (b6 &&& 0xf)),
        u8 ((b7 ≫ 4) * 10 + (b7 &&& 0xf)),
        b8,
        d).

Definition cec_msg_clear_ext_timer (reply : bool)
    (day month start_hr start_min duration_hr duration_min recording_seq ext_src_spec plug phys_addr : Z) : M unit :=
  set_len 13;;
  set_byte 1 CEC_MSG_CLEAR_EXT_TIMER;;
  set_byte 2 day;;
  set_byte 3 month;;
  set_byte 4 (((start_hr / 10) ≪ 4) ||| (start_hr mod 10));;
  set_byte 5 (((start_min / 10) ≪ 4) ||| (start_min mod 10));;
  set_byte 6 (((duration_hr / 10) ≪ 4) ||| (duration_hr mod 10));;
  set_byte 7 (((duration_min / 10) ≪ 4) ||| (duration_min mod 10));;
  set_byte 8 recording_seq;;
  set_byte 9 ext_src_spec;;
  set_byte 10 plug;;
  set_byte 11 (phys_addr ≫ 8);;
  set_byte 12 (phys_addr &&& 0xff);;
  set_reply (if reply then CEC_MSG_TIMER_CLEARED_STATUS else 0).

Definition cec_ops_clear_ext_timer (m : cec_msg) : option (Z * Z * Z * Z * Z * Z * Z * Z * Z * Z) :=
  b2 ← rd (msg m) 2; b3 ← rd (msg m) 3; b4 ← rd (msg m) 4;
  b5 ← rd (msg m) 5; b6 ← rd (msg m) 6; b7 ← rd (msg m) 7;
  b8 ← rd (msg m) 8; b9 ← rd (msg m) 9; b10 ← rd (msg m) 10;
  b11 ← rd (msg m) 11; b12 ← rd (msg m) 12;
  Some (b2,
        b3,
        u8 ((b4 ≫ 4) * 10 + (b4 &&& 0xf)),
        u8 ((b5 ≫ 4) * 10 + (b5 &&& 0xf)),
        u8 ((b6 ≫ 4) * 10 + (b6 &&& 0xf)),
        u8 ((b7 ≫ 4) * 10 + (b7 &&& 0xf)),
        b8,
        b9,
        b10,
        u16 ((b11 ≪ 8) ||| b12)).

Definition cec_msg_set_analogue_timer (reply : bool)
    (day month start_hr start_min duration_hr duration_min recording_seq ana_bcast_type ana_freq bcast_system : Z) : M unit :=
  set_len 13;;
  set_byte 1 CEC_MSG_SET_ANALOGUE_TIMER;;
  set_byte 2 day;;
  set_byte 3 month;;
  set_byte 4 (((start_hr / 10) ≪ 4) ||| (start_hr mod 10));;
  set_byte 5 (((start_min / 10) ≪ 4) ||| (start_min mod 10));;
  set_byte 6 (((duration_hr / 10) ≪ 4) ||| (duration_hr mod 10));;
  set_byte 7 (((duration_min / 10) ≪ 4) ||| (duration_min mod 10));;
  set_byte 8 recording_seq;;
  set_byte 9 ana_bcast_type;;
  set_byte 10 (ana_freq ≫ 8);;
  set_byte 11 (ana_freq &&& 0xff);;
  set_byte 12 bcast_system;;
  set_reply (if reply then CEC_MSG_TIMER_STATUS else 0).

Definition cec_ops_set_analogue_timer (m : cec_msg) : option (Z * Z * Z * Z * Z * Z * Z * Z * Z * Z) :=
  b2 ← rd (msg m) 2; b3 ← rd (msg m) 3; b4 ← rd (msg m) 4;
  b5 ← rd (msg m) 5; b6 ← rd (msg m) 6; b7 ← rd (msg m) 7;
  b8 ← rd (msg m) 8; b9 ← rd (msg m) 9; b10 ← rd (msg m) 10;
  b11 ← rd (msg m) 11; b12 ← rd (msg m) 12;
  Some (b2,
        b3,
        u8 ((b4 ≫ 4) * 10 + (b4 &&& 0xf)),
        u8 ((b5 ≫ 4) * 10 + (b5 &&& 0xf)),
        u8 ((b6 ≫ 4) * 10 + (b6 &&& 0xf)),
        u8 ((b7 ≫ 4) * 10 + (b7 &&& 0xf)),
        b8,
        b9,
        u16 ((b10 ≪ 8) ||| b11),
        b12).

Definition cec_msg_set_digital_timer (reply : bool)
    (day month start_hr start_min duration_hr duration_min recording_seq : Z)
    (digital : cec_op_digital_service_id) : M unit :=
  set_len 16;;
  set_reply (if reply then CEC_MSG_TIMER_STATUS else 0);;
  set_byte 1 CEC_MSG_SET_DIGITAL_TIMER;;
  set_byte 2 day;;
  set_byte 3 month;;
  set_byte 4 (((start_hr / 10) ≪ 4) ||| (start_hr mod 10));;
  set_byte 5 (((start_min / 10) ≪ 4) ||| (start_min mod 10));;
  set_byte 6 (((duration_hr / 10) ≪ 4) ||| (duration_hr mod 10));;
  set_byte 7 (((duration_min / 10) ≪ 4) ||| (duration_min mod 10));;
  set_byte 8 recording_seq;;
  cec_set_digital_service_id 9 digital.

Definition cec_ops_set_digital_timer (m : cec_msg) : option (Z * Z * Z * Z * Z * Z * Z * cec_op_digital_service_id) :=
  b2 ← rd (msg m) 2; b3 ← rd (msg m) 3; b4 ← rd (msg m) 4;
  b5 ← rd (msg m) 5; b6 ← rd (msg m) 6; b7 ← rd (msg m) 7;
  b8 ← rd (msg m) 8;
  d ← cec_get_digital_service_id (msg m) 9;
  Some (b2,
        b3,
        u8 ((b4 ≫ 4) * 10 + (b4 &&& 0xf)),
        u8 ((b5 ≫ 4) * 10 + (b5 &&& 0xf)),
        u8 ((b6 ≫ 4) * 10 + (b6 &&& 0xf)),
        u8 ((b7 ≫ 4) * 10 + (b7 &&& 0xf)),
        b8,
        d).

Definition cec_msg_set_ext_timer (reply : bool)
    (day month start_hr start_min duration_hr duration_min recording_seq ext_src_spec plug phys_addr : Z) : M unit :=
  set_len 13;;
  set_byte 1 CEC_MSG_SET_EXT_TIMER;;
  set_byte 2 day;;
  set_byte 3 month;;
  set_byte 4 (((start_hr / 10) ≪ 4) ||| (start_hr mod 10));;
  set_byte 5 (((start_min / 10) ≪ 4) ||| (start_min mod 10));;
  set_byte 6 (((duration_hr / 10) ≪ 4) ||| (duration_hr mod 10));;
  set_byte 7 (((duration_min / 10) ≪ 4) ||| (duration_min mod 10));;
  set_byte 8 recording_seq;;
  set_byte 9 ext_src_spec;;
  set_byte 10 plug;;
  set_byte 11 (phys_addr ≫ 8);;
  set_byte 12 (phys_addr &&& 0xff);;
  set_reply (if reply then CEC_MSG_TIMER_STATUS else 0).

Definition cec_ops_set_ext_timer (m : cec_msg) : option (Z * Z * Z * Z * Z * Z * Z * Z * Z * Z) :=
  b2 ← rd (msg m) 2; b3 ← rd (msg m) 3; b4 ← rd (msg m) 4;
  b5 ← rd (msg m) 5; b6 ← rd (msg m) 6; b7 ← rd (msg m) 7;
  b8 ← rd (msg m) 8; b9 ← rd (msg m) 9; b10 ← rd (msg m) 10;
  b11 ← rd (msg m) 11; b12 ← rd (msg m) 12;
  Some (b2,
        b3,
        u8 ((b4 ≫ 4) * 10 + (b4 &&& 0xf)),
        u8 ((b5 ≫ 4) * 10 + (b5 &&& 0xf)),
        u8 ((b6 ≫ 4) * 10 + (b6 &&& 0xf)),
        u8 ((b7 ≫ 4) * 10 + (b7 &&& 0xf)),
        b8,
        b9,
        b10,
        u16 ((b11 ≪ 8) ||| b12)).

(** [prog_title] is the memory region the pointer designates. *)
Definition cec_msg_set_timer_program_title (prog_title : list Z) : M unit :=
  n ← st_lift (strlen prog_title);
  let len := u32 (Z.of_nat n) in
  let len := if 14 <? len then 14 else len in
  set_len (2 + len);;
  set_byte 1 CEC_MSG_SET_TIMER_PROGRAM_TITLE;;
  set_bytes 2 prog_title (Z.to_nat len).

(** [prog_title] is the caller's buffer, returned with the title and its NUL. *)
Definition cec_ops_set_timer_program_title (m : cec_msg) (prog_title : list Z)
    : option (list Z) :=
  let len := if 2 <? len m then u32 (len m - 2) else 0 in
  let len := if 14 <? len then 14 else len in
  prog_title ← memcpy prog_title 0 (drop 2 (msg m)) (Z.to_nat len);
  wr prog_title (Z.to_nat len) 0.

(** ** Codecs *)

Definition timer_cleared_status_codec : codec :=
  Codec (Z)
    (fun timer_cleared_status =>
      cec_msg_timer_cleared_status timer_cleared_status)
    cec_ops_timer_cleared_status
    (fun timer_cleared_status =>
      is_u8 timer_cleared_status).

Definition clear_analogue_timer_codec (reply : bool) : codec :=
  Codec (Z * Z * Z * Z * Z * Z * Z * Z * Z * Z)
    (fun '(day, month, start_hr, start_min, duration_hr, duration_min, recording_seq, ana_bcast_type, ana_freq, bcast_system) =>
      cec_msg_clear_analogue_timer reply day month start_hr start_min duration_hr duration_min recording_seq ana_bcast_type ana_freq bcast_system)
    cec_ops_clear_analogue_timer
    (fun '(day, month, start_hr, start_min, duration_hr, duration_min, recording_seq, ana_bcast_type, ana_freq, bcast_system) =>
      is_u8 day /\ is_u8 month /\ 0 <= start_hr < 160 /\ 0 <= start_min < 160 /\
    0 <= duration_hr < 160 /\ 0 <= duration_min < 160 /\ is_u8 recording_seq /\
    is_u8 ana_bcast_type /\ is_u16 ana_freq /\ is_u8 bcast_system).

Definition clear_digital_timer_codec (reply : bool) : codec :=
  Codec (Z * Z * Z * Z * Z * Z * Z * cec_op_digital_service_id)
    (fun '(day, month, start_hr, start_min, duration_hr, duration_min, recording_seq, digital) =>
      cec_msg_clear_digital_timer reply day month start_hr start_min duration_hr duration_min recording_seq digital)
    cec_ops_clear_digital_timer
    (fun '(day, month, start_hr, start_min, duration_hr, duration_min, recording_seq, digital) =>
      is_u8 day /\ is_u8 month /\ 0 <= start_hr < 160 /\ 0 <= start_min < 160 /\
    0 <= duration_hr < 160 /\ 0 <= duration_min < 160 /\ is_u8 recording_seq /\
    digital_domain digital).

Definition clear_ext_timer_codec (reply : bool) : codec :=
  Codec (Z * Z * Z * Z * Z * Z * Z * Z * Z * Z)
    (fun '(day, month, start_hr, start_min, duration_hr, duration_min, recording_seq, ext_src_spec, plug, phys_addr) =>
      cec_msg_clear_ext_timer reply day month start_hr start_min duration_hr duration_min recording_seq ext_src_spec plug phys_addr)
    cec_ops_clear_ext_timer
    (fun '(day, month, start_hr, start_min, duration_hr, duration_min, recording_seq, ext_src_spec, plug, phys_addr) =>
      is_u8 day /\ is_u8 month /\ 0 <= start_hr < 160 /\ 0 <= start_min < 160 /\
    0 <= duration_hr < 160 /\ 0 <= duration_min < 160 /\ is_u8 recording_seq /\
    is_u8 ext_src_spec /\ is_u8 plug /\ is_u16 phys_addr).

Definition set_analogue_timer_codec (reply : bool) : codec :=
  Codec (Z * Z * Z * Z * Z * Z * Z * Z * Z * Z)
    (fun '(day, month, start_hr, start_min, duration_hr, duration_min, recording_seq, ana_bcast_type, ana_freq, bcast_system) =>
      cec_msg_set_analogue_timer reply day month start_hr start_min duration_hr duration_min recording_seq ana_bcast_type ana_freq bcast_system)
    cec_ops_set_analogue_timer
    (fun '(day, month, start_hr, start_min, duration_hr, duration_min, recording_seq, ana_bcast_type, ana_freq, bcast_system) =>
      is_u8 day /\ is_u8 month /\ 0 <= start_hr < 160 /\ 0 <= start_min < 160 /\
    0 <= duration_hr < 160 /\ 0 <= duration_min < 160 /\ is_u8 recording_seq /\
    is_u8 ana_bcast_type /\ is_u16 ana_freq /\ is_u8 bcast_system).

Definition set_digital_timer_codec (reply : bool) : codec :=
  Codec (Z * Z * Z * Z * Z * Z * Z * cec_op_digital_service_id)
    (fun '(day, month, start_hr, start_min, duration_hr, duration_min, recording_seq, digital) =>
      cec_msg_set_digital_timer reply day month start_hr start_min duration_hr duration_min recording_seq digital)
    cec_ops_set_digital_timer
    (fun '(day, month, start_hr, start_min, duration_hr, duration_min, recording_seq, digital) =>
      is_u8 day /\ is_u8 month /\ 0 <= start_hr < 160 /\ 0 <= start_min < 160 /\
    0 <= duration_hr < 160 /\ 0 <= duration_min < 160 /\ is_u8 recording_seq /\
    digital_domain digital).

Definition set_ext_timer_codec (reply : bool) : codec :=
  Codec (Z * Z * Z * Z * Z * Z * Z * Z * Z * Z)
    (fun '(day, month, start_hr, start_min, duration_hr, duration_min, recording_seq, ext_src_spec, plug, phys_addr) =>
      cec_msg_set_ext_timer reply day month start_hr start_min duration_hr duration_min recording_seq ext_src_spec plug phys_addr)
    cec_ops_set_ext_timer
    (fun '(day, month, start_hr, start_min, duration_hr, duration_min, recording_seq, ext_src_spec, plug, phys_addr) =>
      is_u8 day /\ is_u8 month /\ 0 <= start_hr < 160 /\ 0 <= start_min < 160 /\
    0 <= duration_hr < 160 /\ 0 <= duration_min < 160 /\ is_u8 recording_seq /\
    is_u8 ext_src_spec /\ is_u8 plug /\ is_u16 phys_addr).

(** A title of at most fourteen bytes, through a fifteen-byte buffer. *)
Definition set_timer_program_title_codec : codec :=
  Codec (list Z)
    (fun title => cec_msg_set_timer_program_title (cstring title))
    (fun m => cec_ops_set_timer_program_title m (replicate 15 0) ≫= read_cstring)
    (fun title => string_ok title /\ (length title <= 14)%nat).

(** Durations are stored only with the two not-enough-space values and the
    duplicate error. *)
Definition has_duration (prog_info prog_error : Z) : bool :=
  (prog_info =? CEC_OP_PROG_INFO_NOT_ENOUGH_SPACE) ||
  (prog_info =? CEC_OP_PROG_INFO_MIGHT_NOT_BE_ENOUGH_SPACE) ||
  (prog_error =? CEC_OP_PROG_ERROR_DUPLICATE).

(** A status reports programme information or an error, not both. *)
Definition timer_status_codec : codec :=
  Codec (Z * Z * Z * Z * Z * Z)
    (fun '(tow, mi, pi, pe, hr, mn) => cec_msg_timer_status tow mi pi pe hr mn)
    cec_ops_timer_status
    (fun '(tow, mi, pi, pe, hr, mn) =>
      in_word 1 tow /\ in_word 2 mi /\ in_word 4 pi /\ in_word 4 pe /\
      (pi = 0 \/ pe = 0) /\
      (if has_duration pi pe then 0 <= hr < 160 /\ 0 <= mn < 160 else hr = 0 /\ mn = 0)).

(** The second byte of a timer status. *)
Definition timer_status_byte (tow mi pi pe : Z) : Z :=
  u8 ((tow ≪ 7) ||| (mi ≪ 5) ||| (if negb (pi =? 0) then 0x10 else 0) |||
      (if negb (pi =? 0) then pi else pe)).

Lemma timer_status_byte_fields tow mi pi pe :
  in_word 1 tow -> in_word 2 mi -> in_word 4 pi -> in_word 4 pe -> pi = 0 \/ pe = 0 ->
  let b := timer_status_byte tow mi pi pe in
  b ≫ 7 = tow /\ (b ≫ 5) &&& 3 = mi /\ b &&& 0xf = (if negb (pi =? 0) then pi else pe) /\
  negb ((b &&& 0x10) =? 0) = negb (pi =? 0).
Proof.
  intros H1 H2 H3 H4 Hp.
  pose (chk tow mi pi pe := let b := timer_status_byte tow mi pi pe in
    (b ≫ 7 =? tow) && ((b ≫ 5) &&& 3 =? mi) &&
    (b &&& 0xf =? (if negb (pi =? 0) then pi else pe)) &&
    eqb (negb ((b &&& 0x10) =? 0)) (negb (pi =? 0))).
  enough (chk tow mi pi pe = true) as H.
  { unfold chk in H. rewrite !andb_true_iff, !Z.eqb_eq, eqb_true_iff in H. cbv zeta. tauto. }
  assert (forallb (fun t => forallb (fun i => forallb (fun p => chk t i p 0 && chk t i 0 p)
    (seqZ 0 (2 ^ 4))) (seqZ 0 (2 ^ 2))) (seqZ 0 (2 ^ 1)) = true) as H by (vm_compute; reflexivity).
  pose proof (forall_word_bool _ _ H tow H1) as H'. cbv beta in H'.
  pose proof (forall_word_bool _ _ H' mi H2) as H''. cbv beta in H''.
  destruct Hp as [-> | ->].
  - pose proof (forall_word_bool _ _ H'' pe H4) as H5. cbv beta in H5.
    by apply andb_true_iff in H5 as [_ ?].
  - pose proof (forall_word_bool _ _ H'' pi H3) as H5. cbv beta in H5.
    by apply andb_true_iff in H5 as [? _].
Qed.

(** ** Encoder contracts *)

#[export] Instance cec_msg_timer_status_encoder timer_overlap_warning media_info prog_info prog_error duration_hr duration_min :
  Encoder (cec_msg_timer_status timer_overlap_warning media_info prog_info prog_error duration_hr duration_min)
    CEC_MSG_TIMER_STATUS false.
Proof. solve_encoder. Qed.

#[export] Instance cec_msg_timer_cleared_status_encoder timer_cleared_status :
  Encoder (cec_msg_timer_cleared_status timer_cleared_status)
    CEC_MSG_TIMER_CLEARED_STATUS false.
Proof. solve_encoder. Qed.

#[export] Instance cec_msg_clear_analogue_timer_encoder reply day month start_hr start_min duration_hr duration_min recording_seq ana_bcast_type ana_freq bcast_system :
  Encoder (cec_msg_clear_analogue_timer reply day month start_hr start_min duration_hr duration_min recording_seq ana_bcast_type ana_freq bcast_system)
    CEC_MSG_CLEAR_ANALOGUE_TIMER false.
Proof. solve_encoder. Qed.

#[export] Instance cec_msg_clear_digital_timer_encoder reply day month start_hr start_min duration_hr duration_min recording_seq digital :
  readable digital -> Encoder (cec_msg_clear_digital_timer reply day month start_hr start_min duration_hr duration_min recording_seq digital)
    CEC_MSG_CLEAR_DIGITAL_TIMER false.
Proof. intro. solve_encoder. Qed.

#[export] Instance cec_msg_clear_ext_timer_encoder reply day month start_hr start_min duration_hr duration_min recording_seq ext_src_spec plug phys_addr :
  Encoder (cec_msg_clear_ext_timer reply day month start_hr start_min duration_hr duration_min recording_seq ext_src_spec plug phys_addr)
    CEC_MSG_CLEAR_EXT_TIMER false.
Proof. solve_encoder. Qed.

#[export] Instance cec_msg_set_analogue_timer_encoder reply day month start_hr start_min duration_hr duration_min recording_seq ana_bcast_type ana_freq bcast_system :
  Encoder (cec_msg_set_analogue_timer reply day month start_hr start_min duration_hr duration_min recording_seq ana_bcast_type ana_freq bcast_system)
    CEC_MSG_SET_ANALOGUE_TIMER false.
Proof. solve_encoder. Qed.

#[export] Instance cec_msg_set_digital_timer_encoder reply day month start_hr start_min duration_hr duration_min recording_seq digital :
  readable digital -> Encoder (cec_msg_set_digital_timer reply day month start_hr start_min duration_hr duration_min recording_seq digital)
    CEC_MSG_SET_DIGITAL_TIMER false.
Proof. intro. solve_encoder. Qed.

#[export] Instance cec_msg_set_ext_timer_encoder reply day month start_hr start_min duration_hr duration_min recording_seq ext_src_spec plug phys_addr :
  Encoder (cec_msg_set_ext_timer reply day month start_hr start_min duration_hr duration_min recording_seq ext_src_spec plug phys_addr)
    CEC_MSG_SET_EXT_TIMER false.
Proof. solve_encoder. Qed.

#[export] Instance cec_msg_set_timer_program_title_encoder prog_title :
  is_Some (strlen prog_title) /\ Forall is_u8 prog_title ->
  Encoder (cec_msg_set_timer_program_title prog_title) CEC_MSG_SET_TIMER_PROGRAM_TITLE false.
Proof. intros [[n Hn] Hb]. solve_string_encoder Hn. Qed.

#[export] Hint Resolve cec_msg_timer_status_encoder cec_msg_timer_cleared_status_encoder
  cec_msg_clear_analogue_timer_encoder cec_msg_clear_digital_timer_encoder
  cec_msg_clear_ext_timer_encoder cec_msg_set_analogue_timer_encoder
  cec_msg_set_digital_timer_encoder cec_msg_set_ext_timer_encoder
  cec_msg_set_timer_program_title_encoder : encoders.

(** ** Round trips *)

#[export] Instance timer_cleared_status_codec_lawful : Lawful timer_cleared_status_codec.
Proof. solve_codec. Qed.

#[export] Instance clear_analogue_timer_codec_lawful reply : Lawful (clear_analogue_timer_codec reply).
Proof. solve_codec. Qed.

#[export] Instance clear_digital_timer_codec_lawful reply : Lawful (clear_digital_timer_codec reply).
Proof. solve_codec. Qed.

#[export] Instance clear_ext_timer_codec_lawful reply : Lawful (clear_ext_timer_codec reply).
Proof. solve_codec. Qed.

#[export] Instance set_analogue_timer_codec_lawful reply : Lawful (set_analogue_timer_codec reply).
Proof. solve_codec. Qed.

#[export] Instance set_digital_timer_codec_lawful reply : Lawful (set_digital_timer_codec reply).
Proof. solve_codec. Qed.

#[export] Instance set_ext_timer_codec_lawful reply : Lawful (set_ext_timer_codec reply).
Proof. solve_codec. Qed.

#[export] Instance set_timer_program_title_codec_lawful : Lawful set_timer_program_title_codec.
Proof. 
  open_string_codec. rewrite copy_out_cstring; [|done|rewrite ?length_insert; lia|simpl; lia].
  by apply read_cstring_app.
Qed.

#[export] Instance timer_status_codec_lawful : Lawful timer_status_codec.
Proof.
  intros [[[[[tow mi] pi] pe] hr] mn] m H (Ht & Hm & Hi & He & Hp & Hd).
  destruct (timer_status_byte_fields _ _ _ _ Ht Hm Hi He Hp) as (E1 & E2 & E3 & E4).
  unfold timer_status_byte in *. cbn [timer_status_codec operands encode] in *.
  cbv beta iota. open_msg m.
  assert (is_u8 (if negb (pi =? 0) then pi else pe))
    by (destruct (negb _); word_lia).
  run; cbn; rewrite ?E1, ?E2, ?E3, ?E4; clear E1 E2 E3 E4;
    match goal with E : _ || _ = _ |- _ => fold (has_duration pi pe) in E; rename E into Ed; rewrite Ed in Hd end;
    destruct Hd; subst; autorewrite with codec.
  all: destruct (Z.eqb_spec pi 0) as [->|Hne]; [|assert (pe = 0) as -> by tauto];
    cbn [negb]; cbv beta iota zeta; unfold has_duration in Ed; rewrite Ed; reflexivity.
Qed.

#[export] Hint Resolve timer_cleared_status_codec_lawful clear_analogue_timer_codec_lawful
  clear_digital_timer_codec_lawful clear_ext_timer_codec_lawful
  set_analogue_timer_codec_lawful set_digital_timer_codec_lawful set_ext_timer_codec_lawful
  set_timer_program_title_codec_lawful timer_status_codec_lawful : codecs.
