(* ===== verification/CecSystem.v ===== *)
(** * CEC: system information and deck control

    The encoders and decoders of lines 797-974 of
    [kernel-headers/linux/cec-funcs.h]. *)
From S2P Require Import Prelude.
From S2P Require Import CecConsts.
From S2P Require Import CecMsg.
From S2P Require Import CecCodec.
From S2P Require Import CecPayload.

(** ** System Information Feature *)

Definition cec_msg_cec_version (cec_version : Z) : M unit :=
  set_len 3;;
  set_byte 1 CEC_MSG_CEC_VERSION;;
  set_byte 2 cec_version.

Definition cec_ops_cec_version (m : cec_msg) : option Z :=
  b2 ← rd (msg m) 2;
  Some b2.

Definition cec_msg_get_cec_version (reply : bool) : M unit :=
  set_len 2;;
  set_byte 1 CEC_MSG_GET_CEC_VERSION;;
  set_reply (if reply then CEC_MSG_CEC_VERSION else 0).

Definition cec_msg_report_physical_addr (phys_addr prim_devtype : Z) : M unit :=
  set_len 5;;
  or_byte 0 0xf;;
  set_byte 1 CEC_MSG_REPORT_PHYSICAL_ADDR;;
  set_byte 2 (phys_addr ≫ 8);;
  set_byte 3 (phys_addr &&& 0xff);;
  set_byte 4 prim_devtype.

Definition cec_ops_report_physical_addr (m : cec_msg) : option (Z * Z) :=
  b2 ← rd (msg m) 2; b3 ← rd (msg m) 3; b4 ← rd (msg m) 4;
  Some (u16 ((b2 ≪ 8) ||| b3), b4).

Definition cec_msg_give_physical_addr (reply : bool) : M unit :=
  set_len 2;;
  set_byte 1 CEC_MSG_GIVE_PHYSICAL_ADDR;;
  set_reply (if reply then CEC_MSG_REPORT_PHYSICAL_ADDR else 0).

(** [language] is the memory region the pointer designates. *)
Definition cec_msg_set_menu_language (language : list Z) : M unit :=
  set_len 5;;
  or_byte 0 0xf;;
  set_byte 1 CEC_MSG_SET_MENU_LANGUAGE;;
  set_bytes 2 language 3.

(** [language] is the caller's buffer. *)
Definition cec_ops_set_menu_language (m : cec_msg) (language : list Z) : option (list Z) :=
  language ← memcpy language 0 (drop 2 (msg m)) 3;
  wr language 3 0.

Definition cec_msg_get_menu_language (reply : bool) : M unit :=
  set_len 2;;
  set_byte 1 CEC_MSG_GET_MENU_LANGUAGE;;
  set_reply (if reply then CEC_MSG_SET_MENU_LANGUAGE else 0).

Definition cec_msg_report_features (cec_version all_device_types rc_profile dev_features : Z) : M unit :=
  set_len 6;;
  or_byte 0 0xf;;
  set_byte 1 CEC_MSG_REPORT_FEATURES;;
  set_byte 2 cec_version;;
  set_byte 3 all_device_types;;
  set_byte 4 rc_profile;;
  set_byte 5 dev_features.

(** [while (p < lim && ( *p & CEC_OP_FEAT_EXT)) p++] with [k = lim - p]; [p] is
    an offset in the payload. *)
Fixpoint skip_ext (k : nat) (l : list Z) (p : nat) : option nat :=
  match k with
  | O => Some p
  | S k' =>
      b ← rd l p;
      if negb ((b &&& CEC_OP_FEAT_EXT) =? 0) then skip_ext k' l (S p) else Some p
  end.

(** Result: (cec_version, all_device_types, rc_profile, dev_features), the last
    two as offsets in the payload, [None] for a null pointer. *)
Definition cec_ops_report_features (m : cec_msg)
    : option (Z * Z * option nat * option nat) :=
  cec_version ← rd (msg m) 2;
  all_device_types ← rd (msg m) 3;
  p ← skip_ext (14 - 4) (msg m) 4;
  b ← rd (msg m) p;
  if (b &&& CEC_OP_FEAT_EXT) =? 0 then
    q ← skip_ext (15 - p) (msg m) p;
    b ← rd (msg m) q;
    if negb ((b &&& CEC_OP_FEAT_EXT) =? 0)
    then Some (cec_version, all_device_types, None, None)
    else Some (cec_version, all_device_types, Some 4%nat, Some (p + 1)%nat)
  else Some (cec_version, all_device_types, None, None).

Definition cec_msg_give_features (reply : bool) : M unit :=
  set_len 2;;
  set_byte 1 CEC_MSG_GIVE_FEATURES;;
  set_reply (if reply then CEC_MSG_REPORT_FEATURES else 0).

(** ** Deck Control Feature *)

Definition cec_msg_deck_control (deck_control_mode : Z) : M unit :=
  set_len 3;;
  set_byte 1 CEC_MSG_DECK_CONTROL;;
  set_byte 2 deck_control_mode.

Definition cec_ops_deck_control (m : cec_msg) : option Z :=
  b2 ← rd (msg m) 2;
  Some b2.

Definition cec_msg_deck_status (deck_info : Z) : M unit :=
  set_len 3;;
  set_byte 1 CEC_MSG_DECK_STATUS;;
  set_byte 2 deck_info.

Definition cec_ops_deck_status (m : cec_msg) : option Z :=
  b2 ← rd (msg m) 2;
  Some b2.

Definition cec_msg_give_deck_status (reply : bool) (status_req : Z) : M unit :=
  set_len 3;;
  set_byte 1 CEC_MSG_GIVE_DECK_STATUS;;
  set_byte 2 status_req;;
  set_reply (if reply then CEC_MSG_DECK_STATUS else 0).

Definition cec_ops_give_deck_status (m : cec_msg) : option Z :=
  b2 ← rd (msg m) 2;
  Some b2.

Definition cec_msg_play (play_mode : Z) : M unit :=
  set_len 3;;
  set_byte 1 CEC_MSG_PLAY;;
  set_byte 2 play_mode.

Definition cec_ops_play (m : cec_msg) : option Z :=
  b2 ← rd (msg m) 2;
  Some b2.

(** ** Codecs *)

Definition cec_version_codec : codec :=
  Codec (Z)
    (fun cec_version =>
      cec_msg_cec_version cec_version)
    cec_ops_cec_version
    (fun cec_version =>
      is_u8 cec_version).

Definition report_physical_addr_codec : codec :=
  Codec (Z * Z)
    (fun '(phys_addr, prim_devtype) =>
      cec_msg_report_physical_addr phys_addr prim_devtype)
    cec_ops_report_physical_addr
    (fun '(phys_addr, prim_devtype) =>
      is_u16 phys_addr /\ is_u8 prim_devtype).

Definition deck_control_codec : codec :=
  Codec (Z)
    (fun deck_control_mode =>
      cec_msg_deck_control deck_control_mode)
    cec_ops_deck_control
    (fun deck_control_mode =>
      is_u8 deck_control_mode).

Definition deck_status_codec : codec :=
  Codec (Z)
    (fun deck_info =>
      cec_msg_deck_status deck_info)
    cec_ops_deck_status
    (fun deck_info =>
      is_u8 deck_info).

Definition give_deck_status_codec (reply : bool) : codec :=
  Codec (Z)
    (fun status_req =>
      cec_msg_give_deck_status reply status_req)
    cec_ops_give_deck_status
    (fun status_req =>
      is_u8 status_req).

Definition play_codec : codec :=
  Codec (Z)
    (fun play_mode =>
      cec_msg_play play_mode)
    cec_ops_play
    (fun play_mode =>
      is_u8 play_mode).

(** A three-letter language code, through a four-byte buffer. *)
Definition set_menu_language_codec : codec :=
  Codec (list Z)
    (fun language => cec_msg_set_menu_language (cstring language))
    (fun m => cec_ops_set_menu_language m (replicate 4 0) ≫= read_cstring)
    (fun language => string_ok language /\ length language = 3%nat).

(** The bytes that the two pointers designate. *)
Definition report_features_codec : codec :=
  Codec (Z * Z * Z * Z)
    (fun '(cec_version, all_device_types, rc_profile, dev_features) =>
      cec_msg_report_features cec_version all_device_types rc_profile dev_features)
    (fun m =>
      '(v, t, rc, dev) ← cec_ops_report_features m;
      rc ← rc; dev ← dev; b ← rd (msg m) rc; d ← rd (msg m) dev;
      Some (v, t, b, d))
    (fun '(cec_version, all_device_types, rc_profile, dev_features) =>
      is_u8 cec_version /\ is_u8 all_device_types /\ in_word 7 rc_profile /\
      is_u8 dev_features).

(** ** Encoder contracts *)

#[export] Instance cec_msg_cec_version_encoder cec_version :
  Encoder (cec_msg_cec_version cec_version)
    CEC_MSG_CEC_VERSION false.
Proof. solve_encoder. Qed.

#[export] Instance cec_msg_get_cec_version_encoder reply :
  Encoder (cec_msg_get_cec_version reply)
    CEC_MSG_GET_CEC_VERSION false.
Proof. solve_encoder. Qed.

#[export] Instance cec_msg_report_physical_addr_encoder phys_addr prim_devtype :
  Encoder (cec_msg_report_physical_addr phys_addr prim_devtype)
    CEC_MSG_REPORT_PHYSICAL_ADDR true.
Proof. solve_encoder. Qed.

#[export] Instance cec_msg_give_physical_addr_encoder reply :
  Encoder (cec_msg_give_physical_addr reply)
    CEC_MSG_GIVE_PHYSICAL_ADDR false.
Proof. solve_encoder. Qed.

#[export] Instance cec_msg_set_menu_language_encoder language :
  (3 <= length language)%nat /\ Forall is_u8 language ->
  Encoder (cec_msg_set_menu_language language) CEC_MSG_SET_MENU_LANGUAGE true.
Proof.
  intros [Hl Hb] m H. open_msg m. run.
  apply wp_set_bytes_frame; [solve_frame|lia|lia|done|done].
Qed.

#[export] Instance cec_msg_get_menu_language_encoder reply :
  Encoder (cec_msg_get_menu_language reply)
    CEC_MSG_GET_MENU_LANGUAGE false.
Proof. solve_encoder. Qed.

#[export] Instance cec_msg_report_features_encoder cec_version all_device_types rc_profile dev_features :
  Encoder (cec_msg_report_features cec_version all_device_types rc_profile dev_features)
    CEC_MSG_REPORT_FEATURES true.
Proof. solve_encoder. Qed.

#[export] Instance cec_msg_give_features_encoder reply :
  Encoder (cec_msg_give_features reply)
    CEC_MSG_GIVE_FEATURES false.
Proof. solve_encoder. Qed.

#[export] Instance cec_msg_deck_control_encoder deck_control_mode :
  Encoder (cec_msg_deck_control deck_control_mode)
    CEC_MSG_DECK_CONTROL false.
Proof. solve_encoder. Qed.

#[export] Instance cec_msg_deck_status_encoder deck_info :
  Encoder (cec_msg_deck_status deck_info)
    CEC_MSG_DECK_STATUS false.
Proof. solve_encoder. Qed.

#[export] Instance cec_msg_give_deck_status_encoder reply status_req :
  Encoder (cec_msg_give_deck_status reply status_req)
    CEC_MSG_GIVE_DECK_STATUS false.
Proof. solve_encoder. Qed.

#[export] Instance cec_msg_play_encoder play_mode :
  Encoder (cec_msg_play play_mode)
    CEC_MSG_PLAY false.
Proof. solve_encoder. Qed.

#[export] Hint Resolve cec_msg_cec_version_encoder cec_msg_get_cec_version_encoder
  cec_msg_report_physical_addr_encoder cec_msg_give_physical_addr_encoder
  cec_msg_set_menu_language_encoder cec_msg_get_menu_language_encoder
  cec_msg_report_features_encoder cec_msg_give_features_encoder cec_msg_deck_control_encoder
  cec_msg_deck_status_encoder cec_msg_give_deck_status_encoder cec_msg_play_encoder : encoders.

(** ** Round trips *)

#[export] Instance cec_version_codec_lawful : Lawful cec_version_codec.
Proof. solve_codec. Qed.

#[export] Instance report_physical_addr_codec_lawful : Lawful report_physical_addr_codec.
Proof. solve_codec. Qed.

#[export] Instance deck_control_codec_lawful : Lawful deck_control_codec.
Proof. solve_codec. Qed.

#[export] Instance deck_status_codec_lawful : Lawful deck_status_codec.
Proof. solve_codec. Qed.

#[export] Instance give_deck_status_codec_lawful reply : Lawful (give_deck_status_codec reply).
Proof. solve_codec. Qed.

#[export] Instance play_codec_lawful : Lawful play_codec.
Proof. solve_codec. Qed.

#[export] Instance set_menu_language_codec_lawful : Lawful set_menu_language_codec.
Proof.
  intros s m H [Hs Hl]. cbn [set_menu_language_codec encode decode operands] in *. open_msg m. run.
  apply wp_set_bytes; [simpl; lia|unfold cstring; rewrite length_app; simpl; lia|].
  destruct s as [|x [|y [|z' [|? ?]]]]; try discriminate Hl.
  by apply (read_cstring_app [x; y; z'] []).
Qed.

#[export] Instance report_features_codec_lawful : Lawful report_features_codec.
Proof.
  intros [[[v t] rc] dev] m H (Hv & Ht & Hr & Hd).
  cbn [report_features_codec encode decode operands] in *. cbv beta iota. open_msg m. run.
  assert (u8 rc &&& CEC_OP_FEAT_EXT = 0) as E.
  { rewrite u8_small by word_lia. apply Z.bits_inj_0. intros n. rewrite Z.land_spec.
    destruct (decide (7 <= n)); [by rewrite (testbit_high 7 rc) by (done || lia)|].
    destruct (decide (n < 0)); [by rewrite Z.testbit_neg_r by lia|].
    assert (n = 0 \/ n = 1 \/ n = 2 \/ n = 3 \/ n = 4 \/ n = 5 \/ n = 6) by lia.
    destruct_or!; subst; apply andb_false_r. }
  unfold cec_ops_report_features. cbn. repeat (rewrite E; cbn).
  autorewrite with codec. reflexivity.
Qed.

#[export] Hint Resolve cec_version_codec_lawful report_physical_addr_codec_lawful
  deck_control_codec_lawful deck_status_codec_lawful give_deck_status_codec_lawful
  play_codec_lawful set_menu_language_codec_lawful report_features_codec_lawful : codecs.
