(* ===== verification/CecTuner.v ===== *)
(** * CEC: tuner control

    The encoders and decoders of lines 978-1113 of
    [kernel-headers/linux/cec-funcs.h]. *)
From S2P Require Import Prelude.
From S2P Require Import CecConsts.
From S2P Require Import CecMsg.
From S2P Require Import CecCodec.
From S2P Require Import CecOperands.

(** ** Tuner Control Feature *)

Definition cec_msg_tuner_device_status_analog
    (rec_flag tuner_display_info ana_bcast_type ana_freq bcast_system : Z) : M unit :=
  set_len 7;;
  set_byte 1 CEC_MSG_TUNER_DEVICE_STATUS;;
  set_byte 2 ((rec_flag ≪ 7) ||| tuner_display_info);;
  set_byte 3 ana_bcast_type;;
  set_byte 4 (ana_freq ≫ 8);;
  set_byte 5 (ana_freq &&& 0xff);;
  set_byte 6 bcast_system.

Definition cec_msg_tuner_device_status_digital (rec_flag tuner_display_info : Z)
    (digital : cec_op_digital_service_id) : M unit :=
  set_len 10;;
  set_byte 1 CEC_MSG_TUNER_DEVICE_STATUS;;
  set_byte 2 ((rec_flag ≪ 7) ||| tuner_display_info);;
  cec_set_digital_service_id 3 digital.

(** [struct cec_op_tuner_device_info]: the member last written into its union. *)
Inductive tuner_union : Type :=
| TU_digital (digital : cec_op_digital_service_id)
| TU_analog (ana_bcast_type ana_freq bcast_system : Z).

Record cec_op_tuner_device_info : Type := mk_tuner_info {
  rec_flag : Z;
  tuner_display_info : Z;
  is_analog : bool;
  tuner : tuner_union
}.

(** Reading a member other than the one last written is a fault. *)
Definition cec_msg_tuner_device_status (tuner_dev_info : cec_op_tuner_device_info) : M unit :=
  if is_analog tuner_dev_info then
    match tuner tuner_dev_info with
    | TU_analog ana_bcast_type ana_freq bcast_system =>
        cec_msg_tuner_device_status_analog (rec_flag tuner_dev_info)
          (tuner_display_info tuner_dev_info) ana_bcast_type ana_freq bcast_system
    | _ => st_lift None
    end
  else
    match tuner tuner_dev_info with
    | TU_digital digital =>
        cec_msg_tuner_device_status_digital (rec_flag tuner_dev_info)
          (tuner_display_info tuner_dev_info) digital
    | _ => st_lift None
    end.

Definition cec_ops_tuner_device_status (m : cec_msg) : option cec_op_tuner_device_info :=
  let is_analog := len m <? 10 in
  b2 ← rd (msg m) 2;
  if is_analog then
    b3 ← rd (msg m) 3; b4 ← rd (msg m) 4; b5 ← rd (msg m) 5; b6 ← rd (msg m) 6;
    Some (mk_tuner_info (u8 (b2 ≫ 7)) (u8 (b2 &&& 0x7f)) true
      (TU_analog b3 (u16 ((b4 ≪ 8) ||| b5)) b6))
  else
    digital ← cec_get_digital_service_id (msg m) 3;
    Some (mk_tuner_info (u8 (b2 ≫ 7)) (u8 (b2 &&& 0x7f)) false (TU_digital digital)).

Definition cec_msg_give_tuner_device_status (reply : bool) (status_req : Z) : M unit :=
  set_len 3;;
  set_byte 1 CEC_MSG_GIVE_TUNER_DEVICE_STATUS;;
  set_byte 2 status_req;;
  set_reply (if reply then CEC_MSG_TUNER_DEVICE_STATUS else 0).

Definition cec_ops_give_tuner_device_status (m : cec_msg) : option Z :=
  b2 ← rd (msg m) 2;
  Some b2.

Definition cec_msg_select_analogue_service (ana_bcast_type ana_freq bcast_system : Z) : M unit :=
  set_len 6;;
  set_byte 1 CEC_MSG_SELECT_ANALOGUE_SERVICE;;
  set_byte 2 ana_bcast_type;;
  set_byte 3 (ana_freq ≫ 8);;
  set_byte 4 (ana_freq &&& 0xff);;
  set_byte 5 bcast_system.

Definition cec_ops_select_analogue_service (m : cec_msg) : option (Z * Z * Z) :=
  b2 ← rd (msg m) 2; b3 ← rd (msg m) 3; b4 ← rd (msg m) 4;
  b5 ← rd (msg m) 5;
  Some (b2, u16 ((b3 ≪ 8) ||| b4), b5).

Definition cec_msg_select_digital_service (digital : cec_op_digital_service_id) : M unit :=
  set_len 9;;
  set_byte 1 CEC_MSG_SELECT_DIGITAL_SERVICE;;
  cec_set_digital_service_id 2 digital.

Definition cec_ops_select_digital_service (m : cec_msg) : option cec_op_digital_service_id :=
  cec_get_digital_service_id (msg m) 2.

Definition cec_msg_tuner_step_decrement : M unit :=
  set_len 2;;
  set_byte 1 CEC_MSG_TUNER_STEP_DECREMENT.

Definition cec_msg_tuner_step_increment : M unit :=
  set_len 2;;
  set_byte 1 CEC_MSG_TUNER_STEP_INCREMENT.

(** ** Codecs *)

Definition give_tuner_device_status_codec (reply : bool) : codec :=
  Codec (Z)
    (fun status_req =>
      cec_msg_give_tuner_device_status reply status_req)
    cec_ops_give_tuner_device_status
    (fun status_req =>
      is_u8 status_req).

Definition select_analogue_service_codec : codec :=
  Codec (Z * Z * Z)
    (fun '(ana_bcast_type, ana_freq, bcast_system) =>
      cec_msg_select_analogue_service ana_bcast_type ana_freq bcast_system)
    cec_ops_select_analogue_service
    (fun '(ana_bcast_type, ana_freq, bcast_system) =>
      is_u8 ana_bcast_type /\ is_u16 ana_freq /\ is_u8 bcast_system).

Definition select_digital_service_codec : codec :=
  Codec (cec_op_digital_service_id)
    (fun digital =>
      cec_msg_select_digital_service digital)
    cec_ops_select_digital_service
    (fun digital =>
      digital_domain digital).

(** The union holds the member that [is_analog] selects. *)
Definition tuner_info_ok (t : cec_op_tuner_device_info) : Prop :=
  match tuner t with
  | TU_analog _ _ _ => is_analog t = true
  | TU_digital digital => is_analog t = false /\ readable digital
  end.

Definition tuner_info_domain (t : cec_op_tuner_device_info) : Prop :=
  tuner_info_ok t /\ in_word 1 (rec_flag t) /\ in_word 7 (tuner_display_info t) /\
  match tuner t with
  | TU_analog ana_bcast_type ana_freq bcast_system =>
      is_u8 ana_bcast_type /\ is_u16 ana_freq /\ is_u8 bcast_system
  | TU_digital digital => digital_domain digital
  end.

Definition tuner_device_status_codec : codec :=
  Codec cec_op_tuner_device_info
    cec_msg_tuner_device_status cec_ops_tuner_device_status tuner_info_domain.

(** ** Encoder contracts *)

#[export] Instance cec_msg_tuner_device_status_analog_encoder rec_flag tuner_display_info ana_bcast_type ana_freq bcast_system :
  Encoder (cec_msg_tuner_device_status_analog rec_flag tuner_display_info ana_bcast_type ana_freq bcast_system)
    CEC_MSG_TUNER_DEVICE_STATUS false.
Proof. solve_encoder. Qed.

#[export] Instance cec_msg_tuner_device_status_digital_encoder rec_flag tuner_display_info digital :
  readable digital -> Encoder (cec_msg_tuner_device_status_digital rec_flag tuner_display_info digital)
    CEC_MSG_TUNER_DEVICE_STATUS false.
Proof. intro. solve_encoder. Qed.

#[export] Instance cec_msg_tuner_device_status_encoder tuner_dev_info :
  tuner_info_ok tuner_dev_info ->
  Encoder (cec_msg_tuner_device_status tuner_dev_info) CEC_MSG_TUNER_DEVICE_STATUS false.
Proof.
  destruct tuner_dev_info as [rf td ia tu]. unfold tuner_info_ok. simpl.
  destruct tu; [intros [-> ?]|intros ->]; solve_encoder.
Qed.

#[export] Instance cec_msg_give_tuner_device_status_encoder reply status_req :
  Encoder (cec_msg_give_tuner_device_status reply status_req)
    CEC_MSG_GIVE_TUNER_DEVICE_STATUS false.
Proof. solve_encoder. Qed.

#[export] Instance cec_msg_select_analogue_service_encoder ana_bcast_type ana_freq bcast_system :
  Encoder (cec_msg_select_analogue_service ana_bcast_type ana_freq bcast_system)
    CEC_MSG_SELECT_ANALOGUE_SERVICE false.
Proof. solve_encoder. Qed.

#[export] Instance cec_msg_select_digital_service_encoder digital :
  readable digital -> Encoder (cec_msg_select_digital_service digital)
    CEC_MSG_SELECT_DIGITAL_SERVICE false.
Proof. intro. solve_encoder. Qed.

#[export] Instance cec_msg_tuner_step_decrement_encoder :
  Encoder (cec_msg_tuner_step_decrement)
    CEC_MSG_TUNER_STEP_DECREMENT false.
Proof. solve_encoder. Qed.

#[export] Instance cec_msg_tuner_step_increment_encoder :
  Encoder (cec_msg_tuner_step_increment)
    CEC_MSG_TUNER_STEP_INCREMENT false.
Proof. solve_encoder. Qed.

#[export] Hint Resolve cec_msg_tuner_device_status_analog_encoder
  cec_msg_tuner_device_status_digital_encoder cec_msg_tuner_device_status_encoder
  cec_msg_give_tuner_device_status_encoder cec_msg_select_analogue_service_encoder
  cec_msg_select_digital_service_encoder cec_msg_tuner_step_decrement_encoder
  cec_msg_tuner_step_increment_encoder : encoders.

(** ** Round trips *)

#[export] Instance give_tuner_device_status_codec_lawful reply : Lawful (give_tuner_device_status_codec reply).
Proof. solve_codec. Qed.

#[export] Instance select_analogue_service_codec_lawful : Lawful select_analogue_service_codec.
Proof. solve_codec. Qed.

#[export] Instance select_digital_service_codec_lawful : Lawful select_digital_service_codec.
Proof. solve_codec. Qed.

#[export] Instance tuner_device_status_codec_lawful : Lawful tuner_device_status_codec.
Proof.
  intros [rf td ia tu] m H (Ht & Hr & Hi & Hd). unfold tuner_info_ok in *.
  cbn [tuner_device_status_codec encode decode operands is_analog rec_flag
    tuner_display_info tuner] in *.
  destruct tu; destruct_and? Ht; subst ia; destruct_and? Hd; open_msg m; run; solve_decode.
Qed.

#[export] Hint Resolve give_tuner_device_status_codec_lawful
  select_analogue_service_codec_lawful select_digital_service_codec_lawful
  tuner_device_status_codec_lawful : codecs.
