(* ===== verification/CecVendor.v ===== *)
(** * CEC: vendor commands and on-screen display

    The encoders and decoders of lines 1117-1275 of
    [kernel-headers/linux/cec-funcs.h]. *)
From S2P Require Import Prelude.
From S2P Require Import CecConsts.
From S2P Require Import CecMsg.
From S2P Require Import CecCodec.
From S2P Require Import CecPayload.

(** ** Vendor Specific Commands Feature *)

Definition cec_msg_device_vendor_id (vendor_id : Z) : M unit :=
  set_len 5;;
  or_byte 0 0xf;;
  set_byte 1 CEC_MSG_DEVICE_VENDOR_ID;;
  set_byte 2 (vendor_id ≫ 16);;
  set_byte 3 ((vendor_id ≫ 8) &&& 0xff);;
  set_byte 4 (vendor_id &&& 0xff).

Definition cec_ops_device_vendor_id (m : cec_msg) : option Z :=
  b2 ← rd (msg m) 2; b3 ← rd (msg m) 3; b4 ← rd (msg m) 4;
  Some (u32 ((b2 ≪ 16) ||| (b3 ≪ 8) ||| b4)).

Definition cec_msg_give_device_vendor_id (reply : bool) : M unit :=
  set_len 2;;
  set_byte 1 CEC_MSG_GIVE_DEVICE_VENDOR_ID;;
  set_reply (if reply then CEC_MSG_DEVICE_VENDOR_ID else 0).

(** [vendor_cmd] is the memory region the pointer designates. *)
Definition cec_msg_vendor_command (size : Z) (vendor_cmd : list Z) : M unit :=
  let size := if 14 <? size then 14 else size in
  set_len (2 + size);;
  set_byte 1 CEC_MSG_VENDOR_COMMAND;;
  set_bytes 2 vendor_cmd (Z.to_nat size).

(** Result: the size and the pointer, an offset in the payload. *)
Definition cec_ops_vendor_command (m : cec_msg) : Z * nat :=
  let size := u8 (u32 (len m - 2)) in
  let size := if 14 <? size then 14 else size in
  (size, 2%nat).

(** [vendor_cmd] is the memory region the pointer designates. *)
Definition cec_msg_vendor_command_with_id (vendor_id size : Z) (vendor_cmd : list Z) : M unit :=
  let size := if 11 <? size then 11 else size in
  set_len (5 + size);;
  set_byte 1 CEC_MSG_VENDOR_COMMAND_WITH_ID;;
  set_byte 2 (vendor_id ≫ 16);;
  set_byte 3 ((vendor_id ≫ 8) &&& 0xff);;
  set_byte 4 (vendor_id &&& 0xff);;
  set_bytes 5 vendor_cmd (Z.to_nat size).

(** Result: the vendor, the size and the pointer, an offset in the payload. *)
Definition cec_ops_vendor_command_with_id (m : cec_msg) : option (Z * Z * nat) :=
  let size := u8 (u32 (len m - 5)) in
  let size := if 11 <? size then 11 else size in
  b2 ← rd (msg m) 2; b3 ← rd (msg m) 3; b4 ← rd (msg m) 4;
  Some (u32 ((b2 ≪ 16) ||| (b3 ≪ 8) ||| b4), size, 5%nat).

(** [rc_code] is the memory region the pointer designates. *)
Definition cec_msg_vendor_remote_button_down (size : Z) (rc_code : list Z) : M unit :=
  let size := if 14 <? size then 14 else size in
  set_len (2 + size);;
  set_byte 1 CEC_MSG_VENDOR_REMOTE_BUTTON_DOWN;;
  set_bytes 2 rc_code (Z.to_nat size).

(** Result: the size and the pointer, an offset in the payload. *)
Definition cec_ops_vendor_remote_button_down (m : cec_msg) : Z * nat :=
  let size := u8 (u32 (len m - 2)) in
  let size := if 14 <? size then 14 else size in
  (size, 2%nat).

Definition cec_msg_vendor_remote_button_up : M unit :=
  set_len 2;;
  set_byte 1 CEC_MSG_VENDOR_REMOTE_BUTTON_UP.

(** ** OSD Display Feature *)

Definition cec_msg_set_osd_string (disp_ctl : Z) (osd : list Z) : M unit :=
  n ← st_lift (strlen osd);
  let len := u32 (Z.of_nat n) in
  let len := if 13 <? len then 13 else len in
  set_len (3 + len);;
  set_byte 1 CEC_MSG_SET_OSD_STRING;;
  set_byte 2 disp_ctl;;
  set_bytes 3 osd (Z.to_nat len).

(** Result: disp_ctl and the caller's buffer [osd] with the string and its NUL. *)
Definition cec_ops_set_osd_string (m : cec_msg) (osd : list Z) : option (Z * list Z) :=
  let len := if 3 <? len m then u32 (len m - 3) else 0 in
  disp_ctl ← rd (msg m) 2;
  let len := if 13 <? len then 13 else len in
  osd ← memcpy osd 0 (drop 3 (msg m)) (Z.to_nat len) ≫= (fun osd => wr osd (Z.to_nat len) 0);
  Some (disp_ctl, osd).

(** ** Device OSD Transfer Feature *)

Definition cec_msg_set_osd_name (name : list Z) : M unit :=
  n ← st_lift (strlen name);
  let len := u32 (Z.of_nat n) in
  let len := if 14 <? len then 14 else len in
  set_len (2 + len);;
  set_byte 1 CEC_MSG_SET_OSD_NAME;;
  set_bytes 2 name (Z.to_nat len).

(** [name] is the caller's buffer, returned with the name and its NUL. *)
Definition cec_ops_set_osd_name (m : cec_msg) (name : list Z) : option (list Z) :=
  let len := if 2 <? len m then u32 (len m - 2) else 0 in
  let len := if 14 <? len then 14 else len in
  name ← memcpy name 0 (drop 2 (msg m)) (Z.to_nat len);
  wr name (Z.to_nat len) 0.

Definition cec_msg_give_osd_name (reply : bool) : M unit :=
  set_len 2;;
  set_byte 1 CEC_MSG_GIVE_OSD_NAME;;
  set_reply (if reply then CEC_MSG_SET_OSD_NAME else 0).

(** ** Codecs *)

Definition device_vendor_id_codec : codec :=
  Codec (Z)
    (fun vendor_id =>
      cec_msg_device_vendor_id vendor_id)
    cec_ops_device_vendor_id
    (fun vendor_id =>
      in_word 24 vendor_id).

Definition vendor_command_codec : codec :=
  Codec (list Z)
    (fun cmd => cec_msg_vendor_command (Z.of_nat (length cmd)) cmd)
    (fun m => let '(size, p) := cec_ops_vendor_command m in Some (slice m size p))
    (buffer_ok 14).

Definition vendor_command_with_id_codec : codec :=
  Codec (Z * list Z)
    (fun '(vendor_id, cmd) =>
      cec_msg_vendor_command_with_id vendor_id (Z.of_nat (length cmd)) cmd)
    (fun m =>
      '(vendor_id, size, p) ← cec_ops_vendor_command_with_id m;
      Some (vendor_id, slice m size p))
    (fun '(vendor_id, cmd) => in_word 24 vendor_id /\ buffer_ok 11 cmd).

Definition vendor_remote_button_down_codec : codec :=
  Codec (list Z)
    (fun code => cec_msg_vendor_remote_button_down (Z.of_nat (length code)) code)
    (fun m => let '(size, p) := cec_ops_vendor_remote_button_down m in Some (slice m size p))
    (buffer_ok 14).

(** Strings through buffers of fourteen and fifteen bytes. *)
Definition set_osd_string_codec : codec :=
  Codec (Z * list Z)
    (fun '(disp_ctl, osd) => cec_msg_set_osd_string disp_ctl (cstring osd))
    (fun m =>
      '(disp_ctl, buf) ← cec_ops_set_osd_string m (replicate 14 0);
      osd ← read_cstring buf;
      Some (disp_ctl, osd))
    (fun '(disp_ctl, osd) => is_u8 disp_ctl /\ string_ok osd /\ (length osd <= 13)%nat).

Definition set_osd_name_codec : codec :=
  Codec (list Z)
    (fun name => cec_msg_set_osd_name (cstring name))
    (fun m => cec_ops_set_osd_name m (replicate 15 0) ≫= read_cstring)
    (fun name => string_ok name /\ (length name <= 14)%nat).

(** ** Encoder contracts *)

#[export] Instance cec_msg_device_vendor_id_encoder vendor_id :
  Encoder (cec_msg_device_vendor_id vendor_id)
    CEC_MSG_DEVICE_VENDOR_ID true.
Proof. solve_encoder. Qed.

#[export] Instance cec_msg_give_device_vendor_id_encoder reply :
  Encoder (cec_msg_give_device_vendor_id reply)
    CEC_MSG_GIVE_DEVICE_VENDOR_ID false.
Proof. solve_encoder. Qed.

#[export] Instance cec_msg_vendor_command_encoder size vendor_cmd :
  backed 14 size vendor_cmd -> Encoder (cec_msg_vendor_command size vendor_cmd) CEC_MSG_VENDOR_COMMAND false.
Proof. intros (Hs & Hl & Hb). solve_buffer_encoder. Qed.

#[export] Instance cec_msg_vendor_command_with_id_encoder vendor_id size vendor_cmd :
  backed 11 size vendor_cmd -> Encoder (cec_msg_vendor_command_with_id vendor_id size vendor_cmd) CEC_MSG_VENDOR_COMMAND_WITH_ID false.
Proof. intros (Hs & Hl & Hb). solve_buffer_encoder. Qed.

#[export] Instance cec_msg_vendor_remote_button_down_encoder size rc_code :
  backed 14 size rc_code -> Encoder (cec_msg_vendor_remote_button_down size rc_code) CEC_MSG_VENDOR_REMOTE_BUTTON_DOWN false.
Proof. intros (Hs & Hl & Hb). solve_buffer_encoder. Qed.

#[export] Instance cec_msg_vendor_remote_button_up_encoder :
  Encoder (cec_msg_vendor_remote_button_up)
    CEC_MSG_VENDOR_REMOTE_BUTTON_UP false.
Proof. solve_encoder. Qed.

#[export] Instance cec_msg_set_osd_string_encoder disp_ctl osd :
  is_Some (strlen osd) /\ Forall is_u8 osd ->
  Encoder (cec_msg_set_osd_string disp_ctl osd) CEC_MSG_SET_OSD_STRING false.
Proof. intros [[n Hn] Hb]. solve_string_encoder Hn. Qed.

#[export] Instance cec_msg_set_osd_name_encoder name :
  is_Some (strlen name) /\ Forall is_u8 name ->
  Encoder (cec_msg_set_osd_name name) CEC_MSG_SET_OSD_NAME false.
Proof. intros [[n Hn] Hb]. solve_string_encoder Hn. Qed.

#[export] Instance cec_msg_give_osd_name_encoder reply :
  Encoder (cec_msg_give_osd_name reply)
    CEC_MSG_GIVE_OSD_NAME false.
Proof. solve_encoder. Qed.

#[export] Hint Resolve cec_msg_device_vendor_id_encoder cec_msg_give_device_vendor_id_encoder
  cec_msg_vendor_command_encoder cec_msg_vendor_command_with_id_encoder
  cec_msg_vendor_remote_button_down_encoder cec_msg_vendor_remote_button_up_encoder
  cec_msg_set_osd_string_encoder cec_msg_set_osd_name_encoder cec_msg_give_osd_name_encoder : encoders.

(** ** Round trips *)

#[export] Instance device_vendor_id_codec_lawful : Lawful device_vendor_id_codec.
Proof. solve_codec. Qed.

#[export] Instance vendor_command_codec_lawful : Lawful vendor_command_codec.
Proof.
  open_buffer_codec. unfold cec_ops_vendor_command. cbn [msg len upd_msg upd_len].
  rewrite payload_size, clamp_min, Z.min_l by lia. cbv zeta. unfold slice. cbn [msg upd_msg].
  by rewrite Nat2Z.id, copied_slice by arr_len.
Qed.

#[export] Instance vendor_command_with_id_codec_lawful : Lawful vendor_command_with_id_codec.
Proof.
  open_buffer_codec. unfold cec_ops_vendor_command_with_id. cbn [msg len upd_msg upd_len].
  rewrite payload_size, clamp_min, Z.min_l by lia. cbv zeta. unfold slice. cbn [msg upd_msg].
  read_prefix. cbn [mbind option_bind]. rewrite Nat2Z.id, copied_slice by arr_len.
  by autorewrite with codec.
Qed.

#[export] Instance vendor_remote_button_down_codec_lawful :
  Lawful vendor_remote_button_down_codec.
Proof.
  open_buffer_codec. unfold cec_ops_vendor_remote_button_down. cbn [msg len upd_msg upd_len].
  rewrite payload_size, clamp_min, Z.min_l by lia. cbv zeta. unfold slice. cbn [msg upd_msg].
  by rewrite Nat2Z.id, copied_slice by arr_len.
Qed.

#[export] Instance set_osd_string_codec_lawful : Lawful set_osd_string_codec.
Proof.
  open_string_codec. rewrite copy_out_cstring; [|done|arr_len|simpl; lia].
  read_prefix. cbn [mbind option_bind]. rewrite read_cstring_app by done.
  by autorewrite with codec.
Qed.

#[export] Instance set_osd_name_codec_lawful : Lawful set_osd_name_codec.
Proof.
  open_string_codec. rewrite copy_out_cstring; [|done|rewrite ?length_insert; lia|simpl; lia].
  by apply read_cstring_app.
Qed.

#[export] Hint Resolve device_vendor_id_codec_lawful vendor_command_codec_lawful
  vendor_command_with_id_codec_lawful vendor_remote_button_down_codec_lawful
  set_osd_string_codec_lawful set_osd_name_codec_lawful : codecs.
