(* ===== verification/CecMenu.v ===== *)
(** * CEC: menus, user control and power status

    The encoders and decoders of lines 1279-1411 of
    [kernel-headers/linux/cec-funcs.h]. *)
From S2P Require Import Prelude.
From S2P Require Import CecConsts.
From S2P Require Import CecMsg.
From S2P Require Import CecCodec.
From S2P Require Import CecOperands.

(** ** Device Menu Control Feature *)

Definition cec_msg_menu_status (menu_state : Z) : M unit :=
  set_len 3;;
  set_byte 1 CEC_MSG_MENU_STATUS;;
  set_byte 2 menu_state.

Definition cec_ops_menu_status (m : cec_msg) : option Z :=
  b2 ← rd (msg m) 2;
  Some b2.

Definition cec_msg_menu_request (reply : bool) (menu_req : Z) : M unit :=
  set_len 3;;
  set_byte 1 CEC_MSG_MENU_REQUEST;;
  set_byte 2 menu_req;;
  set_reply (if reply then CEC_MSG_MENU_STATUS else 0).

Definition cec_ops_menu_request (m : cec_msg) : option Z :=
  b2 ← rd (msg m) 2;
  Some b2.

(** ** Remote Control Passthrough Feature *)

(** [struct cec_op_ui_command]: the member last written into its union; all
    members but the channel are one byte. *)
Inductive ui_union : Type :=
| UI_channel (channel_identifier : cec_op_channel_data)
| UI_byte (play_mode : Z)
| UI_unset.

Record cec_op_ui_command : Type := mk_ui_command {
  ui_cmd : Z;
  has_opt_arg : bool;
  ui_arg : ui_union
}.

(** The six [case] labels whose operand is one byte. *)
Definition ui_cmd_takes_byte (c : Z) : bool :=
  (c =? 0x56) || (c =? 0x57) || (c =? 0x60) || (c =? 0x68) || (c =? 0x69) || (c =? 0x6a).

Definition cec_msg_user_control_pressed (cmd : cec_op_ui_command) : M unit :=
  set_len 3;;
  set_byte 1 CEC_MSG_USER_CONTROL_PRESSED;;
  set_byte 2 (ui_cmd cmd);;
  if negb (has_opt_arg cmd) then mret tt
  else if ui_cmd_takes_byte (ui_cmd cmd) then
    match ui_arg cmd with
    | UI_byte play_mode => add_len 1;; set_byte 3 play_mode
    | _ => st_lift None
    end
  else if ui_cmd cmd =? 0x67 then
    match ui_arg cmd with
    | UI_channel c =>
        add_len 4;;
        set_byte 3 ((channel_number_fmt c ≪ 2) ||| (major c ≫ 8));;
        set_byte 4 (major c &&& 0xff);;
        set_byte 5 (minor c ≫ 8);;
        set_byte 6 (minor c &&& 0xff)
    | _ => st_lift None
    end
  else mret tt.

(** [cmd] is the caller's structure before the call; its union is only written
    together with [has_opt_arg]. *)
Definition cec_ops_user_control_pressed (m : cec_msg) (cmd : cec_op_ui_command)
    : option cec_op_ui_command :=
  c ← rd (msg m) 2;
  if len m =? 3 then Some (mk_ui_command c false (ui_arg cmd))
  else if ui_cmd_takes_byte c then
    b3 ← rd (msg m) 3;
    Some (mk_ui_command c true (UI_byte b3))
  else if c =? 0x67 then
    if len m <? 7 then Some (mk_ui_command c false (ui_arg cmd))
    else
      b3 ← rd (msg m) 3; b4 ← rd (msg m) 4; b5 ← rd (msg m) 5; b6 ← rd (msg m) 6;
      Some (mk_ui_command c true (UI_channel
        (Channel (u8 (b3 ≫ 2)) (u16 (((b3 &&& 3) ≪ 6) ||| b4)) (u16 ((b5 ≪ 8) ||| b6)))))
  else Some (mk_ui_command c false (ui_arg cmd)).

Definition cec_msg_user_control_released : M unit :=
  set_len 2;;
  set_byte 1 CEC_MSG_USER_CONTROL_RELEASED.

(** ** Power Status Feature *)

Definition cec_msg_report_power_status (pwr_state : Z) : M unit :=
  set_len 3;;
  set_byte 1 CEC_MSG_REPORT_POWER_STATUS;;
  set_byte 2 pwr_state.

Definition cec_ops_report_power_status (m : cec_msg) : option Z :=
  b2 ← rd (msg m) 2;
  Some b2.

Definition cec_msg_give_device_power_status (reply : bool) : M unit :=
  set_len 2;;
  set_byte 1 CEC_MSG_GIVE_DEVICE_POWER_STATUS;;
  set_reply (if reply then CEC_MSG_REPORT_POWER_STATUS else 0).

(** ** Codecs *)

Definition menu_status_codec : codec :=
  Codec (Z)
    (fun menu_state =>
      cec_msg_menu_status menu_state)
    cec_ops_menu_status
    (fun menu_state =>
      is_u8 menu_state).

Definition menu_request_codec (reply : bool) : codec :=
  Codec (Z)
    (fun menu_req =>
      cec_msg_menu_request reply menu_req)
    cec_ops_menu_request
    (fun menu_req =>
      is_u8 menu_req).

Definition report_power_status_codec : codec :=
  Codec (Z)
    (fun pwr_state =>
      cec_msg_report_power_status pwr_state)
    cec_ops_report_power_status
    (fun pwr_state =>
      is_u8 pwr_state).

(** With an operand, the union holds the member its command takes. *)
Definition ui_command_ok (cmd : cec_op_ui_command) : Prop :=
  has_opt_arg cmd = true ->
  if ui_cmd_takes_byte (ui_cmd cmd) then exists b, ui_arg cmd = UI_byte b
  else ui_cmd cmd = 0x67 -> exists c, ui_arg cmd = UI_channel c.

(** Commands that survive a round trip: the operand is present only where the
    command takes one, and a channel's major number fits eight bits. *)
Definition ui_command_domain (cmd : cec_op_ui_command) : Prop :=
  is_u8 (ui_cmd cmd) /\
  match ui_arg cmd with
  | UI_byte b => has_opt_arg cmd = true /\ ui_cmd_takes_byte (ui_cmd cmd) = true /\ is_u8 b
  | UI_channel c =>
      has_opt_arg cmd = true /\ ui_cmd cmd = 0x67 /\
      in_word 6 (channel_number_fmt c) /\ is_u8 (major c) /\ is_u16 (minor c)
  | UI_unset => has_opt_arg cmd = false
  end.

Definition user_control_pressed_codec : codec :=
  Codec cec_op_ui_command
    cec_msg_user_control_pressed
    (fun m => cec_ops_user_control_pressed m (mk_ui_command 0 false UI_unset))
    ui_command_domain.

(** A major number below 256 leaves the two high bits of the format byte clear. *)
Lemma small_channel_bytes f ma :
  in_word 6 f -> is_u8 ma ->
  u8 (u8 ((f ≪ 2) ||| (ma ≫ 8)) ≫ 2) = f /\
  u16 (((u8 ((f ≪ 2) ||| (ma ≫ 8)) &&& 3) ≪ 6) ||| u8 (ma &&& 0xff)) = ma.
Proof.
  intros Hf Hma. destruct (channel_bytes f ma) as [-> ->]; [done|word_lia|].
  split; [done|]. rewrite shiftr_div, Z.div_small by word_lia.
  rewrite Z.lor_0_l, land_0xff. apply Z.mod_small. word_lia.
Qed.

(** ** Encoder contracts *)

#[export] Instance cec_msg_menu_status_encoder menu_state :
  Encoder (cec_msg_menu_status menu_state)
    CEC_MSG_MENU_STATUS false.
Proof. solve_encoder. Qed.

#[export] Instance cec_msg_menu_request_encoder reply menu_req :
  Encoder (cec_msg_menu_request reply menu_req)
    CEC_MSG_MENU_REQUEST false.
Proof. solve_encoder. Qed.

#[export] Instance cec_msg_user_control_pressed_encoder cmd :
  ui_command_ok cmd ->
  Encoder (cec_msg_user_control_pressed cmd) CEC_MSG_USER_CONTROL_PRESSED false.
Proof.
  destruct cmd as [c [] a]; unfold ui_command_ok; cbn [has_opt_arg ui_cmd ui_arg];
    intros Ha; [specialize (Ha eq_refl)|clear Ha; solve_encoder].
  unfold cec_msg_user_control_pressed. cbn [has_opt_arg ui_cmd ui_arg].
  destruct (ui_cmd_takes_byte c); [destruct Ha as [b ->]; solve_encoder|].
  destruct (Z.eqb_spec c 0x67); [|solve_encoder].
  destruct Ha as [ch ->]; [done|]. solve_encoder.
Qed.

#[export] Instance cec_msg_user_control_released_encoder :
  Encoder (cec_msg_user_control_released)
    CEC_MSG_USER_CONTROL_RELEASED false.
Proof. solve_encoder. Qed.

#[export] Instance cec_msg_report_power_status_encoder pwr_state :
  Encoder (cec_msg_report_power_status pwr_state)
    CEC_MSG_REPORT_POWER_STATUS false.
Proof. solve_encoder. Qed.

#[export] Instance cec_msg_give_device_power_status_encoder reply :
  Encoder (cec_msg_give_device_power_status reply)
    CEC_MSG_GIVE_DEVICE_POWER_STATUS false.
Proof. solve_encoder. Qed.

#[export] Hint Resolve cec_msg_menu_status_encoder cec_msg_menu_request_encoder
  cec_msg_user_control_pressed_encoder cec_msg_user_control_released_encoder
  cec_msg_report_power_status_encoder cec_msg_give_device_power_status_encoder : encoders.

(** ** Round trips *)

#[export] Instance menu_status_codec_lawful : Lawful menu_status_codec.
Proof. solve_codec. Qed.

#[export] Instance menu_request_codec_lawful reply : Lawful (menu_request_codec reply).
Proof. solve_codec. Qed.

#[export] Instance report_power_status_codec_lawful : Lawful report_power_status_codec.
Proof. solve_codec. Qed.

#[export] Instance user_control_pressed_codec_lawful : Lawful user_control_pressed_codec.
Proof.
  intros [c o a] m H [Hc Hd].
  cbn [user_control_pressed_codec encode decode operands ui_cmd ui_arg has_opt_arg] in *.
  unfold cec_msg_user_control_pressed. cbn [has_opt_arg ui_cmd ui_arg].
  destruct a as [[f ma mi]|b|]; destruct_and? Hd; subst; cbn [channel_number_fmt major minor] in *.
  - open_msg m. run. solve_decode.
    destruct (small_channel_bytes f ma) as [-> ->]; [done..|]. done.
  - match goal with E : ui_cmd_takes_byte c = true |- _ => rename E into E1 end. rewrite E1.
    open_msg m. run. unfold cec_ops_user_control_pressed. cbn. rewrite (u8_small c), E1 by done.
    by rewrite u8_small.
  - open_msg m. run. solve_decode.
Qed.

#[export] Hint Resolve menu_status_codec_lawful menu_request_codec_lawful
  report_power_status_codec_lawful user_control_pressed_codec_lawful : codecs.
