(* ===== verification/CecAudio.v ===== *)
(** * CEC: general protocol messages, audio, ARC and lip sync

    The encoders and decoders of lines 1414-1713 of
    [kernel-headers/linux/cec-funcs.h]. *)
From S2P Require Import Prelude.
From S2P Require Import CecConsts.
From S2P Require Import CecMsg.
From S2P Require Import CecCodec.
From S2P Require Import CecPayload.

(** ** General Protocol Messages *)

Definition cec_msg_feature_abort (abort_msg reason : Z) : M unit :=
  set_len 4;;
  set_byte 1 CEC_MSG_FEATURE_ABORT;;
  set_byte 2 abort_msg;;
  set_byte 3 reason.

Definition cec_ops_feature_abort (m : cec_msg) : option (Z * Z) :=
  b2 ← rd (msg m) 2; b3 ← rd (msg m) 3;
  Some (b2, b3).

(** Changes the current message into a feature abort message. *)
Definition cec_msg_reply_feature_abort (pmsg : positive) (reason : Z) : ST heap unit :=
  cec_msg_set_reply_to pmsg pmsg;;
  at_loc pmsg (
    set_len 4;;
    b1 ← get_byte 1; set_byte 2 b1;;
    set_byte 3 reason;;
    set_byte 1 CEC_MSG_FEATURE_ABORT).

Definition cec_msg_abort : M unit :=
  set_len 2;;
  set_byte 1 CEC_MSG_ABORT.

(** ** System Audio Control Feature *)

Definition cec_msg_report_audio_status (aud_mute_status aud_vol_status : Z) : M unit :=
  set_len 3;;
  set_byte 1 CEC_MSG_REPORT_AUDIO_STATUS;;
  set_byte 2 ((aud_mute_status ≪ 7) ||| (aud_vol_status &&& 0x7f)).

Definition cec_ops_report_audio_status (m : cec_msg) : option (Z * Z) :=
  b2 ← rd (msg m) 2;
  Some (u8 (b2 ≫ 7), u8 (b2 &&& 0x7f)).

Definition cec_msg_give_audio_status (reply : bool) : M unit :=
  set_len 2;;
  set_byte 1 CEC_MSG_GIVE_AUDIO_STATUS;;
  set_reply (if reply then CEC_MSG_REPORT_AUDIO_STATUS else 0).

Definition cec_msg_set_system_audio_mode (sys_aud_status : Z) : M unit :=
  set_len 3;;
  set_byte 1 CEC_MSG_SET_SYSTEM_AUDIO_MODE;;
  set_byte 2 sys_aud_status.

Definition cec_ops_set_system_audio_mode (m : cec_msg) : option Z :=
  b2 ← rd (msg m) 2;
  Some b2.

Definition cec_msg_system_audio_mode_request (reply : bool) (phys_addr : Z) : M unit :=
  set_len (if phys_addr =? 0xffff then 2 else 4);;
  set_byte 1 CEC_MSG_SYSTEM_AUDIO_MODE_REQUEST;;
  set_byte 2 (phys_addr ≫ 8);;
  set_byte 3 (phys_addr &&& 0xff);;
  set_reply (if reply then CEC_MSG_SET_SYSTEM_AUDIO_MODE else 0).

Definition cec_ops_system_audio_mode_request (m : cec_msg) : option Z :=
  if len m <? 4 then Some 0xffff
  else
    b2 ← rd (msg m) 2; b3 ← rd (msg m) 3;
    Some (u16 ((b2 ≪ 8) ||| b3)).

Definition cec_msg_system_audio_mode_status (sys_aud_status : Z) : M unit :=
  set_len 3;;
  set_byte 1 CEC_MSG_SYSTEM_AUDIO_MODE_STATUS;;
  set_byte 2 sys_aud_status.

Definition cec_ops_system_audio_mode_status (m : cec_msg) : option Z :=
  b2 ← rd (msg m) 2;
  Some b2.

Definition cec_msg_give_system_audio_mode_status (reply : bool) : M unit :=
  set_len 2;;
  set_byte 1 CEC_MSG_GIVE_SYSTEM_AUDIO_MODE_STATUS;;
  set_reply (if reply then CEC_MSG_SYSTEM_AUDIO_MODE_STATUS else 0).

(** [descriptors] is the memory region the pointer designates. *)
Definition cec_msg_report_short_audio_descriptor (num_descriptors : Z) (descriptors : list Z)
    : M unit :=
  let num_descriptors := if 4 <? num_descriptors then 4 else num_descriptors in
  set_len (2 + num_descriptors * 3);;
  set_byte 1 CEC_MSG_REPORT_SHORT_AUDIO_DESCRIPTOR;;
  st_for (Z.to_nat num_descriptors) 0 (fun i =>
    d ← st_lift (rd descriptors i);
    set_byte (2 + i * 3) ((d ≫ 16) &&& 0xff);;
    set_byte (3 + i * 3) ((d ≫ 8) &&& 0xff);;
    set_byte (4 + i * 3) (d &&& 0xff)).

(** [a[i] = v] on an output array. *)
Definition put (i : nat) (v : Z) : ST (list Z) unit :=
  a ← st_get; a ← st_lift (wr a i v); st_modify (fun _ => a).

(** Result: num_descriptors and the caller's array [descriptors]. *)
Definition cec_ops_report_short_audio_descriptor (m : cec_msg) (descriptors : list Z)
    : option (Z * list Z) :=
  let num_descriptors := u8 (u32 (len m - 2) / 3) in
  let num_descriptors := if 4 <? num_descriptors then 4 else num_descriptors in
  '(_, descriptors) ← st_for (Z.to_nat num_descriptors) 0 (fun i =>
    b0 ← st_lift (rd (msg m) (2 + i * 3));
    b1 ← st_lift (rd (msg m) (3 + i * 3));
    b2 ← st_lift (rd (msg m) (4 + i * 3));
    put i (u32 ((b0 ≪ 16) ||| (b1 ≪ 8) ||| b2))) descriptors;
  Some (num_descriptors, descriptors).

Definition cec_msg_request_short_audio_descriptor (reply : bool) (num_descriptors : Z)
    (audio_format_id audio_format_code : list Z) : M unit :=
  let num_descriptors := if 4 <? num_descriptors then 4 else num_descriptors in
  set_len (2 + num_descriptors);;
  set_byte 1 CEC_MSG_REQUEST_SHORT_AUDIO_DESCRIPTOR;;
  set_reply (if reply then CEC_MSG_REPORT_SHORT_AUDIO_DESCRIPTOR else 0);;
  st_for (Z.to_nat num_descriptors) 0 (fun i =>
    id ← st_lift (rd audio_format_id i);
    code ← st_lift (rd audio_format_code i);
    set_byte (2 + i) ((id ≪ 6) ||| (code &&& 0x3f))).

(** Result: num_descriptors and the caller's two arrays. *)
Definition cec_ops_request_short_audio_descriptor (m : cec_msg)
    (audio_format_id audio_format_code : list Z) : option (Z * list Z * list Z) :=
  let num_descriptors := u8 (u32 (len m - 2)) in
  let num_descriptors := if 4 <? num_descriptors then 4 else num_descriptors in
  '(_, (audio_format_id, audio_format_code)) ←
    st_for (Z.to_nat num_descriptors) 0 (fun i '(id, code) =>
      b ← rd (msg m) (2 + i);
      id ← wr id i (u8 (b ≫ 6));
      code ← wr code i (u8 (b &&& 0x3f));
      Some (tt, (id, code))) (audio_format_id, audio_format_code);
  Some (num_descriptors, audio_format_id, audio_format_code).

(** ** Audio Rate Control Feature *)

Definition cec_msg_set_audio_rate (audio_rate : Z) : M unit :=
  set_len 3;;
  set_byte 1 CEC_MSG_SET_AUDIO_RATE;;
  set_byte 2 audio_rate.

Definition cec_ops_set_audio_rate (m : cec_msg) : option Z :=
  b2 ← rd (msg m) 2;
  Some b2.

(** ** Audio Return Channel Control Feature *)

Definition cec_msg_report_arc_initiated : M unit :=
  set_len 2;;
  set_byte 1 CEC_MSG_REPORT_ARC_INITIATED.

Definition cec_msg_initiate_arc (reply : bool) : M unit :=
  set_len 2;;
  set_byte 1 CEC_MSG_INITIATE_ARC;;
  set_reply (if reply then CEC_MSG_REPORT_ARC_INITIATED else 0).

Definition cec_msg_request_arc_initiation (reply : bool) : M unit :=
  set_len 2;;
  set_byte 1 CEC_MSG_REQUEST_ARC_INITIATION;;
  set_reply (if reply then CEC_MSG_INITIATE_ARC else 0).

Definition cec_msg_report_arc_terminated : M unit :=
  set_len 2;;
  set_byte 1 CEC_MSG_REPORT_ARC_TERMINATED.

Definition cec_msg_terminate_arc (reply : bool) : M unit :=
  set_len 2;;
  set_byte 1 CEC_MSG_TERMINATE_ARC;;
  set_reply (if reply then CEC_MSG_REPORT_ARC_TERMINATED else 0).

Definition cec_msg_request_arc_termination (reply : bool) : M unit :=
  set_len 2;;
  set_byte 1 CEC_MSG_REQUEST_ARC_TERMINATION;;
  set_reply (if reply then CEC_MSG_TERMINATE_ARC else 0).

(** ** Dynamic Audio Lipsync Feature *)

Definition cec_msg_report_current_latency (phys_addr video_latency low_latency_mode
    audio_out_compensated audio_out_delay : Z) : M unit :=
  set_len 6;;
  or_byte 0 0xf;;
  set_byte 1 CEC_MSG_REPORT_CURRENT_LATENCY;;
  set_byte 2 (phys_addr ≫ 8);;
  set_byte 3 (phys_addr &&& 0xff);;
  set_byte 4 video_latency;;
  set_byte 5 ((low_latency_mode ≪ 2) ||| audio_out_compensated);;
  if audio_out_compensated =? 3 then push_byte audio_out_delay else mret tt.

(** Result: (phys_addr, video_latency, low_latency_mode, audio_out_compensated,
    audio_out_delay). *)
Definition cec_ops_report_current_latency (m : cec_msg) : option (Z * Z * Z * Z * Z) :=
  b2 ← rd (msg m) 2; b3 ← rd (msg m) 3; b4 ← rd (msg m) 4; b5 ← rd (msg m) 5;
  audio_out_delay ←
    (if ((b5 &&& 3) =? 3) && (7 <=? len m) then rd (msg m) 6 else Some 0);
  Some (u16 ((b2 ≪ 8) ||| b3), b4, u8 ((b5 ≫ 2) &&& 1), u8 (b5 &&& 3), audio_out_delay).

Definition cec_msg_request_current_latency (reply : bool) (phys_addr : Z) : M unit :=
  set_len 4;;
  or_byte 0 0xf;;
  set_byte 1 CEC_MSG_REQUEST_CURRENT_LATENCY;;
  set_byte 2 (phys_addr ≫ 8);;
  set_byte 3 (phys_addr &&& 0xff);;
  set_reply (if reply then CEC_MSG_REPORT_CURRENT_LATENCY else 0).

Definition cec_ops_request_current_latency (m : cec_msg) : option Z :=
  b2 ← rd (msg m) 2; b3 ← rd (msg m) 3;
  Some (u16 ((b2 ≪ 8) ||| b3)).

(** ** Codecs *)

Definition feature_abort_codec : codec :=
  Codec (Z * Z)
    (fun '(abort_msg, reason) =>
      cec_msg_feature_abort abort_msg reason)
    cec_ops_feature_abort
    (fun '(abort_msg, reason) =>
      is_u8 abort_msg /\ is_u8 reason).

Definition report_audio_status_codec : codec :=
  Codec (Z * Z)
    (fun '(aud_mute_status, aud_vol_status) =>
      cec_msg_report_audio_status aud_mute_status aud_vol_status)
    cec_ops_report_audio_status
    (fun '(aud_mute_status, aud_vol_status) =>
      in_word 1 aud_mute_status /\ in_word 7 aud_vol_status).

Definition set_system_audio_mode_codec : codec :=
  Codec (Z)
    (fun sys_aud_status =>
      cec_msg_set_system_audio_mode sys_aud_status)
    cec_ops_set_system_audio_mode
    (fun sys_aud_status =>
      is_u8 sys_aud_status).

Definition system_audio_mode_status_codec : codec :=
  Codec (Z)
    (fun sys_aud_status =>
      cec_msg_system_audio_mode_status sys_aud_status)
    cec_ops_system_audio_mode_status
    (fun sys_aud_status =>
      is_u8 sys_aud_status).

Definition set_audio_rate_codec : codec :=
  Codec (Z)
    (fun audio_rate =>
      cec_msg_set_audio_rate audio_rate)
    cec_ops_set_audio_rate
    (fun audio_rate =>
      is_u8 audio_rate).

Definition request_current_latency_codec (reply : bool) : codec :=
  Codec (Z)
    (fun phys_addr =>
      cec_msg_request_current_latency reply phys_addr)
    cec_ops_request_current_latency
    (fun phys_addr =>
      is_u16 phys_addr).

Definition system_audio_mode_request_codec (reply : bool) : codec :=
  Codec Z
    (cec_msg_system_audio_mode_request reply) cec_ops_system_audio_mode_request
    is_u16.

(** Up to four 24-bit descriptors, through an array of four. *)
Definition report_short_audio_descriptor_codec : codec :=
  Codec (list Z)
    (fun ds => cec_msg_report_short_audio_descriptor (Z.of_nat (length ds)) ds)
    (fun m =>
      '(n, ds) ← cec_ops_report_short_audio_descriptor m (replicate 4 0);
      Some (take (Z.to_nat n) ds))
    (fun ds => (length ds <= 4)%nat /\ Forall (in_word 24) ds).

(** Up to four (format identifier, format code) pairs. *)
Definition request_short_audio_descriptor_codec (reply : bool) : codec :=
  Codec (list Z * list Z)
    (fun '(ids, codes) =>
      cec_msg_request_short_audio_descriptor reply (Z.of_nat (length ids)) ids codes)
    (fun m =>
      '(n, ids, codes) ←
        cec_ops_request_short_audio_descriptor m (replicate 4 0) (replicate 4 0);
      Some (take (Z.to_nat n) ids, take (Z.to_nat n) codes))
    (fun '(ids, codes) =>
      (length ids <= 4)%nat /\ length codes = length ids /\
      Forall (in_word 2) ids /\ Forall (in_word 6) codes).

(** The delay is only sent with the value 3 of [audio_out_compensated]. *)
Definition report_current_latency_codec : codec :=
  Codec (Z * Z * Z * Z * Z)
    (fun '(phys_addr, video_latency, low_latency_mode, compensated, delay) =>
      cec_msg_report_current_latency phys_addr video_latency low_latency_mode compensated delay)
    cec_ops_report_current_latency
    (fun '(phys_addr, video_latency, low_latency_mode, compensated, delay) =>
      is_u16 phys_addr /\ is_u8 video_latency /\ in_word 1 low_latency_mode /\
      in_word 2 compensated /\ (if compensated =? 3 then is_u8 delay else delay = 0)).

(** A clamped loop bound is one of five numbers. *)
Ltac cases_upto4 n :=
  let E := fresh "E" in
  assert (n = 0 \/ n = 1 \/ n = 2 \/ n = 3 \/ n = 4) as E by lia;
  destruct E as [E|[E|[E|[E|E]]]]; rewrite E in *.

(** The first four cells of an array, as far as its length is known. *)
Ltac cells l Hl :=
  do 4 (try (destruct l as [|? l]; [exfalso; cbn in Hl; lia|]; rewrite ?length_cons in Hl)).

(** Evaluates the length of a list of known cells. *)
Ltac eval_length :=
  repeat match goal with |- context [Z.of_nat (length ?l)] =>
    let v := eval vm_compute in (Z.of_nat (length l)) in change (Z.of_nat (length l)) with v
  end.

(** Runs a decoder's loop on a concrete frame. *)
Ltac read_loop dec :=
  unfold dec; cbn [len msg]; eval_words;
  repeat match goal with |- context [u8 ?n] =>
    is_closed_Z n; let v := eval vm_compute in (u8 n) in change (u8 n) with v end;
  cbn; eval_words; cbn;
  cbv beta iota delta [mbind st_bind option_bind st_lift put st_get st_modify mret st_ret];
  cbn; autorewrite with codec; try reflexivity.

(** Unrolls a loop with a constant bound and runs the program. *)
Ltac run_loop :=
  eval_words; cbn [st_for Nat.add Nat.mul rd lookup list_lookup]; run.

(** ** Encoder contracts *)

#[export] Instance cec_msg_feature_abort_encoder abort_msg reason :
  Encoder (cec_msg_feature_abort abort_msg reason)
    CEC_MSG_FEATURE_ABORT false.
Proof. solve_encoder. Qed.

#[export] Instance cec_msg_abort_encoder :
  Encoder (cec_msg_abort)
    CEC_MSG_ABORT false.
Proof. solve_encoder. Qed.

#[export] Instance cec_msg_report_audio_status_encoder aud_mute_status aud_vol_status :
  Encoder (cec_msg_report_audio_status aud_mute_status aud_vol_status)
    CEC_MSG_REPORT_AUDIO_STATUS false.
Proof. solve_encoder. Qed.

#[export] Instance cec_msg_give_audio_status_encoder reply :
  Encoder (cec_msg_give_audio_status reply)
    CEC_MSG_GIVE_AUDIO_STATUS false.
Proof. solve_encoder. Qed.

#[export] Instance cec_msg_set_system_audio_mode_encoder sys_aud_status :
  Encoder (cec_msg_set_system_audio_mode sys_aud_status)
    CEC_MSG_SET_SYSTEM_AUDIO_MODE false.
Proof. solve_encoder. Qed.

#[export] Instance cec_msg_system_audio_mode_request_encoder reply phys_addr :
  Encoder (cec_msg_system_audio_mode_request reply phys_addr)
    CEC_MSG_SYSTEM_AUDIO_MODE_REQUEST false.
Proof. unfold cec_msg_system_audio_mode_request. destruct (phys_addr =? _); solve_encoder. Qed.

#[export] Instance cec_msg_system_audio_mode_status_encoder sys_aud_status :
  Encoder (cec_msg_system_audio_mode_status sys_aud_status)
    CEC_MSG_SYSTEM_AUDIO_MODE_STATUS false.
Proof. solve_encoder. Qed.

#[export] Instance cec_msg_give_system_audio_mode_status_encoder reply :
  Encoder (cec_msg_give_system_audio_mode_status reply)
    CEC_MSG_GIVE_SYSTEM_AUDIO_MODE_STATUS false.
Proof. solve_encoder. Qed.

#[export] Instance cec_msg_report_short_audio_descriptor_encoder num_descriptors descriptors :
  0 <= num_descriptors /\ Z.min num_descriptors 4 <= Z.of_nat (length descriptors) ->
  Encoder (cec_msg_report_short_audio_descriptor num_descriptors descriptors)
    CEC_MSG_REPORT_SHORT_AUDIO_DESCRIPTOR false.
Proof.
  intros [Hn Hl] m H. open_msg m. unfold cec_msg_report_short_audio_descriptor.
  cbv zeta. rewrite clamp_min. 
  cases_upto4 (Z.min num_descriptors 4); cells descriptors Hl; run_loop; solve_frame.
Qed.

#[export] Instance cec_msg_request_short_audio_descriptor_encoder reply num_descriptors
    audio_format_id audio_format_code :
  0 <= num_descriptors /\ Z.min num_descriptors 4 <= Z.of_nat (length audio_format_id) /\
  Z.min num_descriptors 4 <= Z.of_nat (length audio_format_code) ->
  Encoder
    (cec_msg_request_short_audio_descriptor reply num_descriptors audio_format_id audio_format_code)
    CEC_MSG_REQUEST_SHORT_AUDIO_DESCRIPTOR false.
Proof.
  intros (Hn & Hl & Hl') m H. open_msg m. unfold cec_msg_request_short_audio_descriptor.
  cbv zeta. rewrite clamp_min. 
  cases_upto4 (Z.min num_descriptors 4); cells audio_format_id Hl; cells audio_format_code Hl';
    run_loop; solve_frame.
Qed.

#[export] Instance cec_msg_set_audio_rate_encoder audio_rate :
  Encoder (cec_msg_set_audio_rate audio_rate)
    CEC_MSG_SET_AUDIO_RATE false.
Proof. solve_encoder. Qed.

#[export] Instance cec_msg_report_arc_initiated_encoder :
  Encoder (cec_msg_report_arc_initiated)
    CEC_MSG_REPORT_ARC_INITIATED false.
Proof. solve_encoder. Qed.

#[export] Instance cec_msg_initiate_arc_encoder reply :
  Encoder (cec_msg_initiate_arc reply)
    CEC_MSG_INITIATE_ARC false.
Proof. solve_encoder. Qed.

#[export] Instance cec_msg_request_arc_initiation_encoder reply :
  Encoder (cec_msg_request_arc_initiation reply)
    CEC_MSG_REQUEST_ARC_INITIATION false.
Proof. solve_encoder. Qed.

#[export] Instance cec_msg_report_arc_terminated_encoder :
  Encoder (cec_msg_report_arc_terminated)
    CEC_MSG_REPORT_ARC_TERMINATED false.
Proof. solve_encoder. Qed.

#[export] Instance cec_msg_terminate_arc_encoder reply :
  Encoder (cec_msg_terminate_arc reply)
    CEC_MSG_TERMINATE_ARC false.
Proof. solve_encoder. Qed.

#[export] Instance cec_msg_request_arc_termination_encoder reply :
  Encoder (cec_msg_request_arc_termination reply)
    CEC_MSG_REQUEST_ARC_TERMINATION false.
Proof. solve_encoder. Qed.

#[export] Instance cec_msg_report_current_latency_encoder phys_addr video_latency low_latency_mode audio_out_compensated audio_out_delay :
  Encoder (cec_msg_report_current_latency phys_addr video_latency low_latency_mode audio_out_compensated audio_out_delay)
    CEC_MSG_REPORT_CURRENT_LATENCY true.
Proof. solve_encoder. Qed.

#[export] Instance cec_msg_request_current_latency_encoder reply phys_addr :
  Encoder (cec_msg_request_current_latency reply phys_addr)
    CEC_MSG_REQUEST_CURRENT_LATENCY true.
Proof. solve_encoder. Qed.

#[export] Hint Resolve cec_msg_feature_abort_encoder cec_msg_abort_encoder
  cec_msg_report_audio_status_encoder cec_msg_give_audio_status_encoder
  cec_msg_set_system_audio_mode_encoder cec_msg_system_audio_mode_request_encoder
  cec_msg_system_audio_mode_status_encoder cec_msg_give_system_audio_mode_status_encoder
  cec_msg_report_short_audio_descriptor_encoder
  cec_msg_request_short_audio_descriptor_encoder cec_msg_set_audio_rate_encoder
  cec_msg_report_arc_initiated_encoder cec_msg_initiate_arc_encoder
  cec_msg_request_arc_initiation_encoder cec_msg_report_arc_terminated_encoder
  cec_msg_terminate_arc_encoder cec_msg_request_arc_termination_encoder
  cec_msg_report_current_latency_encoder cec_msg_request_current_latency_encoder : encoders.

(** ** Round trips *)

#[export] Instance feature_abort_codec_lawful : Lawful feature_abort_codec.
Proof. solve_codec. Qed.

#[export] Instance report_audio_status_codec_lawful : Lawful report_audio_status_codec.
Proof. solve_codec. Qed.

#[export] Instance set_system_audio_mode_codec_lawful : Lawful set_system_audio_mode_codec.
Proof. solve_codec. Qed.

#[export] Instance system_audio_mode_status_codec_lawful : Lawful system_audio_mode_status_codec.
Proof. solve_codec. Qed.

#[export] Instance set_audio_rate_codec_lawful : Lawful set_audio_rate_codec.
Proof. solve_codec. Qed.

#[export] Instance request_current_latency_codec_lawful reply : Lawful (request_current_latency_codec reply).
Proof. solve_codec. Qed.

#[export] Instance report_short_audio_descriptor_codec_lawful :
  Lawful report_short_audio_descriptor_codec.
Proof.
  intros ds m H [Hl Hd].
  cbn [report_short_audio_descriptor_codec encode decode operands] in *.
  unfold cec_msg_report_short_audio_descriptor. cbv zeta. rewrite clamp_min, Z.min_l by lia.
  do 5 (try destruct ds as [|? ds]); try (exfalso; simpl in Hl; clear -Hl; lia).
  all: rewrite ?Forall_cons in Hd; destruct_and? Hd; eval_length; open_msg m; run_loop;
    read_loop cec_ops_report_short_audio_descriptor.
Qed.

#[export] Instance request_short_audio_descriptor_codec_lawful reply :
  Lawful (request_short_audio_descriptor_codec reply).
Proof.
  intros [ids codes] m H (Hl & Hc & Hi & Hd).
  cbn [request_short_audio_descriptor_codec encode decode operands] in *. cbv beta iota.
  unfold cec_msg_request_short_audio_descriptor. cbv zeta. rewrite clamp_min, Z.min_l by lia.
  do 5 (try destruct ids as [|? ids]); try (exfalso; simpl in Hl; clear -Hl; lia).
  all: repeat (destruct codes as [|? codes]; try discriminate Hc); rewrite ?Forall_cons in Hd, Hi;
    destruct_and? Hd; destruct_and? Hi; eval_length; open_msg m; run_loop;
    read_loop cec_ops_request_short_audio_descriptor.
Qed.

#[export] Instance system_audio_mode_request_codec_lawful reply :
  Lawful (system_audio_mode_request_codec reply).
Proof.
  intros p m H Hp. cbn [system_audio_mode_request_codec encode decode operands domain] in *.
  unfold cec_msg_system_audio_mode_request.
  destruct (Z.eqb_spec p 0xffff) as [->|]; open_msg m; run; solve_decode.
Qed.

#[export] Instance report_current_latency_codec_lawful : Lawful report_current_latency_codec.
Proof.
  intros [[[[pa vl] ll] ac] dl] m H (Hp & Hv & Hl & Ha & Hd).
  cbn [report_current_latency_codec encode decode operands] in *. cbv beta iota.
  unfold cec_msg_report_current_latency.
  assert (ll &&& 1 = ll) as El by (rewrite land_0x1; apply Z.mod_small; word_lia).
  destruct (Z.eqb_spec ac 3) as [->|]; open_msg m; run; solve_decode; rewrite ?El;
    autorewrite with codec; try done.
  subst dl. by rewrite (proj2 (Z.eqb_neq ac 3)).
Qed.

#[export] Hint Resolve feature_abort_codec_lawful report_audio_status_codec_lawful
  set_system_audio_mode_codec_lawful system_audio_mode_status_codec_lawful
  set_audio_rate_codec_lawful request_current_latency_codec_lawful
  report_short_audio_descriptor_codec_lawful request_short_audio_descriptor_codec_lawful
  system_audio_mode_request_codec_lawful report_current_latency_codec_lawful : codecs.
