(* ===== verification/CecCdc.v ===== *)
(** * CEC: capability discovery and control

    The encoders and decoders of lines 1715-1967 of
    [kernel-headers/linux/cec-funcs.h]. Bytes 2 and 3 of these frames, the
    initiator's physical address, are filled in by the CEC framework: encoders
    leave them alone and decoders return them first. *)
From S2P Require Import Prelude.
From S2P Require Import CecConsts.
From S2P Require Import CecMsg.
From S2P Require Import CecCodec.

(** ** Capability Discovery and Control Feature *)

Definition cec_msg_cdc_hec_inquire_state (phys_addr1 phys_addr2 : Z) : M unit :=
  set_len 9;;
  or_byte 0 0xf;;
  set_byte 1 CEC_MSG_CDC_MESSAGE;;
  set_byte 4 CEC_MSG_CDC_HEC_INQUIRE_STATE;;
  set_byte 5 (phys_addr1 ≫ 8);;
  set_byte 6 (phys_addr1 &&& 0xff);;
  set_byte 7 (phys_addr2 ≫ 8);;
  set_byte 8 (phys_addr2 &&& 0xff).

Definition cec_ops_cdc_hec_inquire_state (m : cec_msg) : option (Z * Z * Z) :=
  b2 ← rd (msg m) 2; b3 ← rd (msg m) 3; b5 ← rd (msg m) 5;
  b6 ← rd (msg m) 6; b7 ← rd (msg m) 7; b8 ← rd (msg m) 8;
  Some (u16 ((b2 ≪ 8) ||| b3), u16 ((b5 ≪ 8) ||| b6), u16 ((b7 ≪ 8) ||| b8)).

Definition cec_msg_cdc_hec_report_state (target_phys_addr hec_func_state host_func_state
    enc_func_state cdc_errcode has_field hec_field : Z) : M unit :=
  set_len (if negb (has_field =? 0) then 10 else 8);;
  or_byte 0 0xf;;
  set_byte 1 CEC_MSG_CDC_MESSAGE;;
  set_byte 4 CEC_MSG_CDC_HEC_REPORT_STATE;;
  set_byte 5 (target_phys_addr ≫ 8);;
  set_byte 6 (target_phys_addr &&& 0xff);;
  set_byte 7 ((hec_func_state ≪ 6) ||| (host_func_state ≪ 4) ||| (enc_func_state ≪ 2) |||
    cdc_errcode);;
  if negb (has_field =? 0) then
    set_byte 8 (hec_field ≫ 8);;
    set_byte 9 (hec_field &&& 0xff)
  else mret tt.

(** Result: (phys_addr, target_phys_addr, hec_func_state, host_func_state,
    enc_func_state, cdc_errcode, has_field, hec_field). *)
Definition cec_ops_cdc_hec_report_state (m : cec_msg)
    : option (Z * Z * Z * Z * Z * Z * Z * Z) :=
  b2 ← rd (msg m) 2; b3 ← rd (msg m) 3; b5 ← rd (msg m) 5; b6 ← rd (msg m) 6;
  b7 ← rd (msg m) 7;
  let has_field := if 10 <=? len m then 1 else 0 in
  hec_field ←
    (if negb (has_field =? 0) then
       b8 ← rd (msg m) 8; b9 ← rd (msg m) 9; Some (u16 ((b8 ≪ 8) ||| b9))
     else Some 0);
  Some (u16 ((b2 ≪ 8) ||| b3), u16 ((b5 ≪ 8) ||| b6), u8 (b7 ≫ 6), u8 ((b7 ≫ 4) &&& 3),
    u8 ((b7 ≫ 4) &&& 3), u8 (b7 &&& 3), has_field, hec_field).

Definition cec_msg_cdc_hec_set_state (phys_addr1 phys_addr2 hec_set_state phys_addr3
    phys_addr4 phys_addr5 : Z) : M unit :=
  set_len 10;;
  or_byte 0 0xf;;
  set_byte 1 CEC_MSG_CDC_MESSAGE;;
  set_byte 4 CEC_MSG_CDC_HEC_INQUIRE_STATE;;
  set_byte 5 (phys_addr1 ≫ 8);;
  set_byte 6 (phys_addr1 &&& 0xff);;
  set_byte 7 (phys_addr2 ≫ 8);;
  set_byte 8 (phys_addr2 &&& 0xff);;
  set_byte 9 hec_set_state;;
  if negb (phys_addr3 =? CEC_PHYS_ADDR_INVALID) then
    push_byte (phys_addr3 ≫ 8);;
    push_byte (phys_addr3 &&& 0xff);;
    if negb (phys_addr4 =? CEC_PHYS_ADDR_INVALID) then
      push_byte (phys_addr4 ≫ 8);;
      push_byte (phys_addr4 &&& 0xff);;
      if negb (phys_addr5 =? CEC_PHYS_ADDR_INVALID) then
        push_byte (phys_addr5 ≫ 8);;
        push_byte (phys_addr5 &&& 0xff)
      else mret tt
    else mret tt
  else mret tt.

(** Result: (phys_addr, phys_addr1, phys_addr2, hec_set_state, phys_addr3,
    phys_addr4, phys_addr5). *)
Definition cec_ops_cdc_hec_set_state (m : cec_msg) : option (Z * Z * Z * Z * Z * Z * Z) :=
  b2 ← rd (msg m) 2; b3 ← rd (msg m) 3; b5 ← rd (msg m) 5; b6 ← rd (msg m) 6;
  b7 ← rd (msg m) 7; b8 ← rd (msg m) 8; b9 ← rd (msg m) 9;
  phys_addr3 ←
    (if 12 <=? len m then
       b10 ← rd (msg m) 10; b11 ← rd (msg m) 11; Some (u16 ((b10 ≪ 8) ||| b11))
     else Some CEC_PHYS_ADDR_INVALID);
  phys_addr4 ←
    (if 14 <=? len m then
       b12 ← rd (msg m) 12; b13 ← rd (msg m) 13; Some (u16 ((b12 ≪ 8) ||| b13))
     else Some CEC_PHYS_ADDR_INVALID);
  phys_addr5 ←
    (if 16 <=? len m then
       b14 ← rd (msg m) 14; b15 ← rd (msg m) 15; Some (u16 ((b14 ≪ 8) ||| b15))
     else Some CEC_PHYS_ADDR_INVALID);
  Some (u16 ((b2 ≪ 8) ||| b3), u16 ((b5 ≪ 8) ||| b6), u16 ((b7 ≪ 8) ||| b8), b9,
    phys_addr3, phys_addr4, phys_addr5).

Definition cec_msg_cdc_hec_set_state_adjacent (phys_addr1 hec_set_state : Z) : M unit :=
  set_len 8;;
  or_byte 0 0xf;;
  set_byte 1 CEC_MSG_CDC_MESSAGE;;
  set_byte 4 CEC_MSG_CDC_HEC_SET_STATE_ADJACENT;;
  set_byte 5 (phys_addr1 ≫ 8);;
  set_byte 6 (phys_addr1 &&& 0xff);;
  set_byte 7 hec_set_state.

Definition cec_ops_cdc_hec_set_state_adjacent (m : cec_msg) : option (Z * Z * Z) :=
  b2 ← rd (msg m) 2; b3 ← rd (msg m) 3; b5 ← rd (msg m) 5;
  b6 ← rd (msg m) 6; b7 ← rd (msg m) 7;
  Some (u16 ((b2 ≪ 8) ||| b3), u16 ((b5 ≪ 8) ||| b6), b7).

Definition cec_msg_cdc_hec_request_deactivation (phys_addr1 phys_addr2 phys_addr3 : Z) : M unit :=
  set_len 11;;
  or_byte 0 0xf;;
  set_byte 1 CEC_MSG_CDC_MESSAGE;;
  set_byte 4 CEC_MSG_CDC_HEC_REQUEST_DEACTIVATION;;
  set_byte 5 (phys_addr1 ≫ 8);;
  set_byte 6 (phys_addr1 &&& 0xff);;
  set_byte 7 (phys_addr2 ≫ 8);;
  set_byte 8 (phys_addr2 &&& 0xff);;
  set_byte 9 (phys_addr3 ≫ 8);;
  set_byte 10 (phys_addr3 &&& 0xff).

Definition cec_ops_cdc_hec_request_deactivation (m : cec_msg) : option (Z * Z * Z * Z) :=
  b2 ← rd (msg m) 2; b3 ← rd (msg m) 3; b5 ← rd (msg m) 5;
  b6 ← rd (msg m) 6; b7 ← rd (msg m) 7; b8 ← rd (msg m) 8;
  b9 ← rd (msg m) 9; b10 ← rd (msg m) 10;
  Some (u16 ((b2 ≪ 8) ||| b3),
        u16 ((b5 ≪ 8) ||| b6),
        u16 ((b7 ≪ 8) ||| b8),
        u16 ((b9 ≪ 8) ||| b10)).

Definition cec_msg_cdc_hec_notify_alive : M unit :=
  set_len 5;;
  or_byte 0 0xf;;
  set_byte 1 CEC_MSG_CDC_MESSAGE;;
  set_byte 4 CEC_MSG_CDC_HEC_NOTIFY_ALIVE.

Definition cec_ops_cdc_hec_notify_alive (m : cec_msg) : option Z :=
  b2 ← rd (msg m) 2; b3 ← rd (msg m) 3;
  Some (u16 ((b2 ≪ 8) ||| b3)).

Definition cec_msg_cdc_hec_discover : M unit :=
  set_len 5;;
  or_byte 0 0xf;;
  set_byte 1 CEC_MSG_CDC_MESSAGE;;
  set_byte 4 CEC_MSG_CDC_HEC_DISCOVER.

Definition cec_ops_cdc_hec_discover (m : cec_msg) : option Z :=
  b2 ← rd (msg m) 2; b3 ← rd (msg m) 3;
  Some (u16 ((b2 ≪ 8) ||| b3)).

Definition cec_msg_cdc_hpd_set_state (input_port hpd_state : Z) : M unit :=
  set_len 6;;
  or_byte 0 0xf;;
  set_byte 1 CEC_MSG_CDC_MESSAGE;;
  set_byte 4 CEC_MSG_CDC_HPD_SET_STATE;;
  set_byte 5 ((input_port ≪ 4) ||| hpd_state).

Definition cec_ops_cdc_hpd_set_state (m : cec_msg) : option (Z * Z * Z) :=
  b2 ← rd (msg m) 2; b3 ← rd (msg m) 3; b5 ← rd (msg m) 5;
  Some (u16 ((b2 ≪ 8) ||| b3), u8 (b5 ≫ 4), u8 (b5 &&& 0xf)).

Definition cec_msg_cdc_hpd_report_state (hpd_state hpd_error : Z) : M unit :=
  set_len 6;;
  or_byte 0 0xf;;
  set_byte 1 CEC_MSG_CDC_MESSAGE;;
  set_byte 4 CEC_MSG_CDC_HPD_REPORT_STATE;;
  set_byte 5 ((hpd_state ≪ 4) ||| hpd_error).

Definition cec_ops_cdc_hpd_report_state (m : cec_msg) : option (Z * Z * Z) :=
  b2 ← rd (msg m) 2; b3 ← rd (msg m) 3; b5 ← rd (msg m) 5;
  Some (u16 ((b2 ≪ 8) ||| b3), u8 (b5 ≫ 4), u8 (b5 &&& 0xf)).

(** ** Codecs *)

Definition cdc_hec_inquire_state_codec : codec :=
  Codec (Z * Z)
    (fun '(phys_addr1, phys_addr2) =>
      cec_msg_cdc_hec_inquire_state phys_addr1 phys_addr2)
    (fun m => '(_, phys_addr1, phys_addr2) ← cec_ops_cdc_hec_inquire_state m; Some (phys_addr1, phys_addr2))
    (fun '(phys_addr1, phys_addr2) =>
      is_u16 phys_addr1 /\ is_u16 phys_addr2).

Definition cdc_hec_set_state_adjacent_codec : codec :=
  Codec (Z * Z)
    (fun '(phys_addr1, hec_set_state) =>
      cec_msg_cdc_hec_set_state_adjacent phys_addr1 hec_set_state)
    (fun m => '(_, phys_addr1, hec_set_state) ← cec_ops_cdc_hec_set_state_adjacent m; Some (phys_addr1, hec_set_state))
    (fun '(phys_addr1, hec_set_state) =>
      is_u16 phys_addr1 /\ is_u8 hec_set_state).

Definition cdc_hec_request_deactivation_codec : codec :=
  Codec (Z * Z * Z)
    (fun '(phys_addr1, phys_addr2, phys_addr3) =>
      cec_msg_cdc_hec_request_deactivation phys_addr1 phys_addr2 phys_addr3)
    (fun m => '(_, phys_addr1, phys_addr2, phys_addr3) ← cec_ops_cdc_hec_request_deactivation m; Some (phys_addr1, phys_addr2, phys_addr3))
    (fun '(phys_addr1, phys_addr2, phys_addr3) =>
      is_u16 phys_addr1 /\ is_u16 phys_addr2 /\ is_u16 phys_addr3).

Definition cdc_hpd_set_state_codec : codec :=
  Codec (Z * Z)
    (fun '(input_port, hpd_state) =>
      cec_msg_cdc_hpd_set_state input_port hpd_state)
    (fun m => '(_, input_port, hpd_state) ← cec_ops_cdc_hpd_set_state m; Some (input_port, hpd_state))
    (fun '(input_port, hpd_state) =>
      in_word 4 input_port /\ in_word 4 hpd_state).

Definition cdc_hpd_report_state_codec : codec :=
  Codec (Z * Z)
    (fun '(hpd_state, hpd_error) =>
      cec_msg_cdc_hpd_report_state hpd_state hpd_error)
    (fun m => '(_, hpd_state, hpd_error) ← cec_ops_cdc_hpd_report_state m; Some (hpd_state, hpd_error))
    (fun '(hpd_state, hpd_error) =>
      in_word 4 hpd_state /\ in_word 4 hpd_error).

(** The decoder reads the encryption state from the host state's bits, so the
    reports that are read back are those whose two states agree. *)
Definition cdc_hec_report_state_codec : codec :=
  Codec (Z * Z * Z * Z * Z * Z * Z)
    (fun '(target_phys_addr, hec_func_state, host_func_state, enc_func_state, cdc_errcode, has_field,
         hec_field) =>
      cec_msg_cdc_hec_report_state target_phys_addr hec_func_state host_func_state enc_func_state
        cdc_errcode has_field hec_field)
    (fun m =>
      '(_, target_phys_addr, hec_func_state, host_func_state, enc_func_state, cdc_errcode, has_field,
        hec_field) ← cec_ops_cdc_hec_report_state m;
      Some (target_phys_addr, hec_func_state, host_func_state, enc_func_state, cdc_errcode, has_field,
        hec_field))
    (fun '(target_phys_addr, hec_func_state, host_func_state, enc_func_state, cdc_errcode, has_field,
         hec_field) =>
      is_u16 target_phys_addr /\ in_word 2 hec_func_state /\ in_word 2 host_func_state /\
      enc_func_state = host_func_state /\ in_word 2 cdc_errcode /\ in_word 1 has_field /\
      (if has_field =? 0 then hec_field = 0 else is_u16 hec_field)).

(** Optional addresses are present from the left. *)
Definition cdc_hec_set_state_codec : codec :=
  Codec (Z * Z * Z * Z * Z * Z)
    (fun '(phys_addr1, phys_addr2, hec_set_state, phys_addr3, phys_addr4, phys_addr5) =>
      cec_msg_cdc_hec_set_state phys_addr1 phys_addr2 hec_set_state phys_addr3 phys_addr4
        phys_addr5)
    (fun m =>
      '(_, phys_addr1, phys_addr2, hec_set_state, phys_addr3, phys_addr4, phys_addr5) ←
        cec_ops_cdc_hec_set_state m;
      Some (phys_addr1, phys_addr2, hec_set_state, phys_addr3, phys_addr4, phys_addr5))
    (fun '(phys_addr1, phys_addr2, hec_set_state, phys_addr3, phys_addr4, phys_addr5) =>
      is_u16 phys_addr1 /\ is_u16 phys_addr2 /\ is_u8 hec_set_state /\
      is_u16 phys_addr3 /\ is_u16 phys_addr4 /\ is_u16 phys_addr5 /\
      (phys_addr3 = CEC_PHYS_ADDR_INVALID -> phys_addr4 = CEC_PHYS_ADDR_INVALID) /\
      (phys_addr4 = CEC_PHYS_ADDR_INVALID -> phys_addr5 = CEC_PHYS_ADDR_INVALID)).

(** The state byte of a report: four two-bit fields. *)
Definition hec_state_byte (hec host enc err : Z) : Z :=
  u8 ((hec ≪ 6) ||| (host ≪ 4) ||| (enc ≪ 2) ||| err).

Lemma hec_state_byte_fields hec host enc err :
  in_word 2 hec -> in_word 2 host -> in_word 2 enc -> in_word 2 err ->
  let b := hec_state_byte hec host enc err in
  b ≫ 6 = hec /\ (b ≫ 4) &&& 3 = host /\ (b ≫ 2) &&& 3 = enc /\ b &&& 3 = err.
Proof.
  intros H1 H2 H3 H4.
  pose (chk a b c d := let x := hec_state_byte a b c d in
    (x ≫ 6 =? a) && ((x ≫ 4) &&& 3 =? b) && ((x ≫ 2) &&& 3 =? c) && (x &&& 3 =? d)).
  enough (chk hec host enc err = true) as H.
  { unfold chk in H. rewrite !andb_true_iff, !Z.eqb_eq in H. cbv zeta. tauto. }
  assert (forallb (fun a => forallb (fun b => forallb (fun c => forallb (chk a b c)
    (seqZ 0 (2 ^ 2))) (seqZ 0 (2 ^ 2))) (seqZ 0 (2 ^ 2))) (seqZ 0 (2 ^ 2)) = true) as H
    by (vm_compute; reflexivity).
  pose proof (forall_word_bool _ _ H hec H1) as H'. cbv beta in H'.
  pose proof (forall_word_bool _ _ H' host H2) as H''. cbv beta in H''.
  pose proof (forall_word_bool _ _ H'' enc H3) as HH. cbv beta in HH.
  exact (forall_word_bool _ _ HH err H4).
Qed.

(** ** Encoder contracts *)

#[export] Instance cec_msg_cdc_hec_inquire_state_encoder phys_addr1 phys_addr2 :
  Encoder (cec_msg_cdc_hec_inquire_state phys_addr1 phys_addr2)
    CEC_MSG_CDC_MESSAGE true.
Proof. solve_encoder. Qed.

#[export] Instance cec_msg_cdc_hec_report_state_encoder target_phys_addr hec_func_state
    host_func_state enc_func_state cdc_errcode has_field hec_field :
  Encoder
    (cec_msg_cdc_hec_report_state target_phys_addr hec_func_state host_func_state
      enc_func_state cdc_errcode has_field hec_field)
    CEC_MSG_CDC_MESSAGE true.
Proof.
  unfold cec_msg_cdc_hec_report_state. destruct (has_field =? 0); cbn [negb]; solve_encoder.
Qed.

#[export] Instance cec_msg_cdc_hec_set_state_encoder phys_addr1 phys_addr2 hec_set_state phys_addr3 phys_addr4 phys_addr5 :
  Encoder (cec_msg_cdc_hec_set_state phys_addr1 phys_addr2 hec_set_state phys_addr3 phys_addr4 phys_addr5)
    CEC_MSG_CDC_MESSAGE true.
Proof. solve_encoder. Qed.

#[export] Instance cec_msg_cdc_hec_set_state_adjacent_encoder phys_addr1 hec_set_state :
  Encoder (cec_msg_cdc_hec_set_state_adjacent phys_addr1 hec_set_state)
    CEC_MSG_CDC_MESSAGE true.
Proof. solve_encoder. Qed.

#[export] Instance cec_msg_cdc_hec_request_deactivation_encoder phys_addr1 phys_addr2 phys_addr3 :
  Encoder (cec_msg_cdc_hec_request_deactivation phys_addr1 phys_addr2 phys_addr3)
    CEC_MSG_CDC_MESSAGE true.
Proof. solve_encoder. Qed.

#[export] Instance cec_msg_cdc_hec_notify_alive_encoder :
  Encoder (cec_msg_cdc_hec_notify_alive)
    CEC_MSG_CDC_MESSAGE true.
Proof. solve_encoder. Qed.

#[export] Instance cec_msg_cdc_hec_discover_encoder :
  Encoder (cec_msg_cdc_hec_discover)
    CEC_MSG_CDC_MESSAGE true.
Proof. solve_encoder. Qed.

#[export] Instance cec_msg_cdc_hpd_set_state_encoder input_port hpd_state :
  Encoder (cec_msg_cdc_hpd_set_state input_port hpd_state)
    CEC_MSG_CDC_MESSAGE true.
Proof. solve_encoder. Qed.

#[export] Instance cec_msg_cdc_hpd_report_state_encoder hpd_state hpd_error :
  Encoder (cec_msg_cdc_hpd_report_state hpd_state hpd_error)
    CEC_MSG_CDC_MESSAGE true.
Proof. solve_encoder. Qed.

#[export] Hint Resolve cec_msg_cdc_hec_inquire_state_encoder
  cec_msg_cdc_hec_report_state_encoder cec_msg_cdc_hec_set_state_encoder
  cec_msg_cdc_hec_set_state_adjacent_encoder cec_msg_cdc_hec_request_deactivation_encoder
  cec_msg_cdc_hec_notify_alive_encoder cec_msg_cdc_hec_discover_encoder
  cec_msg_cdc_hpd_set_state_encoder cec_msg_cdc_hpd_report_state_encoder : encoders.

(** ** Round trips *)

#[export] Instance cdc_hec_inquire_state_codec_lawful : Lawful cdc_hec_inquire_state_codec.
Proof. solve_codec. Qed.

#[export] Instance cdc_hec_set_state_adjacent_codec_lawful : Lawful cdc_hec_set_state_adjacent_codec.
Proof. solve_codec. Qed.

#[export] Instance cdc_hec_request_deactivation_codec_lawful : Lawful cdc_hec_request_deactivation_codec.
Proof. solve_codec. Qed.

#[export] Instance cdc_hpd_set_state_codec_lawful : Lawful cdc_hpd_set_state_codec.
Proof. solve_codec. Qed.

#[export] Instance cdc_hpd_report_state_codec_lawful : Lawful cdc_hpd_report_state_codec.
Proof. solve_codec. Qed.

#[export] Instance cdc_hec_report_state_codec_lawful : Lawful cdc_hec_report_state_codec.
Proof.
  intros [[[[[[pa hec] st] enc] err] hf] fld] m H (Hp & Hh & Hs & -> & He & Hf & Hd).
  cbn [cdc_hec_report_state_codec encode decode operands] in *. cbv beta iota.
  destruct (hec_state_byte_fields _ _ _ _ Hh Hs Hs He) as (E1 & E2 & _ & E4).
  unfold hec_state_byte in *. unfold cec_msg_cdc_hec_report_state.
  destruct (Z.eqb_spec hf 0) as [->|]; [|assert (hf = 1) as -> by word_lia];
    cbn [negb]; open_msg m; run; solve_decode; rewrite E1, E2, E4; autorewrite with codec;
    by subst.
Qed.

#[export] Instance cdc_hec_set_state_codec_lawful : Lawful cdc_hec_set_state_codec.
Proof.
  intros [[[[[p1 p2] st] p3] p4] p5] m H (H1 & H2 & Hs & H3 & H4 & H5 & Ha & Hb).
  cbn [cdc_hec_set_state_codec encode decode operands] in *. cbv beta iota.
  unfold cec_msg_cdc_hec_set_state.
  destruct (Z.eqb_spec p3 CEC_PHYS_ADDR_INVALID) as [->|];
    [rewrite (Hb (Ha eq_refl)), (Ha eq_refl)|
     destruct (Z.eqb_spec p4 CEC_PHYS_ADDR_INVALID) as [->|];
       [rewrite (Hb eq_refl)|destruct (Z.eqb_spec p5 CEC_PHYS_ADDR_INVALID) as [->|]]];
    cbn [negb]; open_msg m; run; solve_decode.
Qed.

#[export] Hint Resolve cdc_hec_inquire_state_codec_lawful
  cdc_hec_set_state_adjacent_codec_lawful cdc_hec_request_deactivation_codec_lawful
  cdc_hpd_set_state_codec_lawful cdc_hpd_report_state_codec_lawful
  cdc_hec_report_state_codec_lawful cdc_hec_set_state_codec_lawful : codecs.
