(* ===== verification/CecTables.v ===== *)
(** * CEC: tables of the protocol's functions

    The encoders, the requests, the codecs and the decoders of [cec-funcs.h] as
    lists, and that every entry satisfies its contract. *)
From stdpp Require Import gmap.
From S2P Require Import Prelude.
From S2P Require Import CecConsts.
From S2P Require Import CecMsg.
From S2P Require Import CecCodec.
From S2P Require Import CecOperands.
From S2P Require Import CecPayload.
From S2P Require Import CecRouting.
From S2P Require Import CecRecord.
From S2P Require Import CecTimer.
From S2P Require Import CecSystem.
From S2P Require Import CecTuner.
From S2P Require Import CecVendor.
From S2P Require Import CecMenu.
From S2P Require Import CecAudio.
From S2P Require Import CecCdc.

(** ** Tables *)

(** Every encoder with its operands, opcode, addressing and precondition. *)
Definition cec_encoders : list encoder_entry := [
  Enc' (Z) (fun phys_addr => cec_msg_active_source phys_addr) CEC_MSG_ACTIVE_SOURCE true;
  Enc' (unit) (fun _ => cec_msg_image_view_on) CEC_MSG_IMAGE_VIEW_ON false;
  Enc' (unit) (fun _ => cec_msg_text_view_on) CEC_MSG_TEXT_VIEW_ON false;
  Enc' (Z) (fun phys_addr => cec_msg_inactive_source phys_addr) CEC_MSG_INACTIVE_SOURCE false;
  Enc' (bool)
    (fun reply => cec_msg_request_active_source reply) CEC_MSG_REQUEST_ACTIVE_SOURCE true;
  Enc' (Z)
    (fun phys_addr => cec_msg_routing_information phys_addr) CEC_MSG_ROUTING_INFORMATION true;
  Enc' (bool * Z * Z)
    (fun '(reply, orig_phys_addr, new_phys_addr) => cec_msg_routing_change reply orig_phys_addr new_phys_addr) CEC_MSG_ROUTING_CHANGE true;
  Enc' (Z) (fun phys_addr => cec_msg_set_stream_path phys_addr) CEC_MSG_SET_STREAM_PATH true;
  Enc' (unit) (fun _ => cec_msg_standby) CEC_MSG_STANDBY false;
  Enc' (bool) (fun reply => cec_msg_record_off reply) CEC_MSG_RECORD_OFF false;
  Enc' (unit) (fun _ => cec_msg_record_on_own) CEC_MSG_RECORD_ON false;
  Enc (cec_op_digital_service_id)
    (fun digital => cec_msg_record_on_digital digital) CEC_MSG_RECORD_ON false
    (fun digital => readable digital);
  Enc' (Z * Z * Z)
    (fun '(ana_bcast_type, ana_freq, bcast_system) => cec_msg_record_on_analog ana_bcast_type ana_freq bcast_system) CEC_MSG_RECORD_ON false;
  Enc' (Z) (fun plug => cec_msg_record_on_plug plug) CEC_MSG_RECORD_ON false;
  Enc' (Z) (fun phys_addr => cec_msg_record_on_phys_addr phys_addr) CEC_MSG_RECORD_ON false;
  Enc (bool * cec_op_record_src)
    (fun '(reply, rec_src) => cec_msg_record_on reply rec_src) CEC_MSG_RECORD_ON false
    (fun '(_, rec_src) => record_src_ok rec_src);
  Enc' (Z) (fun rec_status => cec_msg_record_status rec_status) CEC_MSG_RECORD_STATUS false;
  Enc' (bool) (fun reply => cec_msg_record_tv_screen reply) CEC_MSG_RECORD_TV_SCREEN false;
  Enc' (Z * Z * Z * Z * Z * Z)
    (fun '(timer_overlap_warning, media_info, prog_info, prog_error, duration_hr, duration_min) => cec_msg_timer_status timer_overlap_warning media_info prog_info prog_error duration_hr duration_min) CEC_MSG_TIMER_STATUS false;
  Enc' (Z)
    (fun timer_cleared_status => cec_msg_timer_cleared_status timer_cleared_status) CEC_MSG_TIMER_CLEARED_STATUS false;
  Enc' (bool * Z * Z * Z * Z * Z * Z * Z * Z * Z * Z)
    (fun '(reply, day, month, start_hr, start_min, duration_hr, duration_min, recording_seq, ana_bcast_type, ana_freq, bcast_system) => cec_msg_clear_analogue_timer reply day month start_hr start_min duration_hr duration_min recording_seq ana_bcast_type ana_freq bcast_system) CEC_MSG_CLEAR_ANALOGUE_TIMER false;
  Enc (bool * Z * Z * Z * Z * Z * Z * Z * cec_op_digital_service_id)
    (fun '(reply, day, month, start_hr, start_min, duration_hr, duration_min, recording_seq, digital) => cec_msg_clear_digital_timer reply day month start_hr start_min duration_hr duration_min recording_seq digital) CEC_MSG_CLEAR_DIGITAL_TIMER false
    (fun '(_, _, _, _, _, _, _, _, digital) => readable digital);
  Enc' (bool * Z * Z * Z * Z * Z * Z * Z * Z * Z * Z)
    (fun '(reply, day, month, start_hr, start_min, duration_hr, duration_min, recording_seq, ext_src_spec, plug, phys_addr) => cec_msg_clear_ext_timer reply day month start_hr start_min duration_hr duration_min recording_seq ext_src_spec plug phys_addr) CEC_MSG_CLEAR_EXT_TIMER false;
  Enc' (bool * Z * Z * Z * Z * Z * Z * Z * Z * Z * Z)
    (fun '(reply, day, month, start_hr, start_min, duration_hr, duration_min, recording_seq, ana_bcast_type, ana_freq, bcast_system) => cec_msg_set_analogue_timer reply day month start_hr start_min duration_hr duration_min recording_seq ana_bcast_type ana_freq bcast_system) CEC_MSG_SET_ANALOGUE_TIMER false;
  Enc (bool * Z * Z * Z * Z * Z * Z * Z * cec_op_digital_service_id)
    (fun '(reply, day, month, start_hr, start_min, duration_hr, duration_min, recording_seq, digital) => cec_msg_set_digital_timer reply day month start_hr start_min duration_hr duration_min recording_seq digital) CEC_MSG_SET_DIGITAL_TIMER false
    (fun '(_, _, _, _, _, _, _, _, digital) => readable digital);
  Enc' (bool * Z * Z * Z * Z * Z * Z * Z * Z * Z * Z)
    (fun '(reply, day, month, start_hr, start_min, duration_hr, duration_min, recording_seq, ext_src_spec, plug, phys_addr) => cec_msg_set_ext_timer reply day month start_hr start_min duration_hr duration_min recording_seq ext_src_spec plug phys_addr) CEC_MSG_SET_EXT_TIMER false;
  Enc ((list Z))
    (fun prog_title => cec_msg_set_timer_program_title prog_title) CEC_MSG_SET_TIMER_PROGRAM_TITLE false
    (fun prog_title => is_Some (strlen prog_title) /\ Forall is_u8 prog_title);
  Enc' (Z) (fun cec_version => cec_msg_cec_version cec_version) CEC_MSG_CEC_VERSION false;
  Enc' (bool) (fun reply => cec_msg_get_cec_version reply) CEC_MSG_GET_CEC_VERSION false;
  Enc' (Z * Z)
    (fun '(phys_addr, prim_devtype) => cec_msg_report_physical_addr phys_addr prim_devtype) CEC_MSG_REPORT_PHYSICAL_ADDR true;
  Enc' (bool) (fun reply => cec_msg_give_physical_addr reply) CEC_MSG_GIVE_PHYSICAL_ADDR false;
  Enc ((list Z))
    (fun language => cec_msg_set_menu_language language) CEC_MSG_SET_MENU_LANGUAGE true
    (fun language => (3 <= length language)%nat /\ Forall is_u8 language);
  Enc' (bool) (fun reply => cec_msg_get_menu_language reply) CEC_MSG_GET_MENU_LANGUAGE false;
  Enc' (Z * Z * Z * Z)
    (fun '(cec_version, all_device_types, rc_profile, dev_features) => cec_msg_report_features cec_version all_device_types rc_profile dev_features) CEC_MSG_REPORT_FEATURES true;
  Enc' (bool) (fun reply => cec_msg_give_features reply) CEC_MSG_GIVE_FEATURES false;
  Enc' (Z)
    (fun deck_control_mode => cec_msg_deck_control deck_control_mode) CEC_MSG_DECK_CONTROL false;
  Enc' (Z) (fun deck_info => cec_msg_deck_status deck_info) CEC_MSG_DECK_STATUS false;
  Enc' (bool * Z)
    (fun '(reply, status_req) => cec_msg_give_deck_status reply status_req) CEC_MSG_GIVE_DECK_STATUS false;
  Enc' (Z) (fun play_mode => cec_msg_play play_mode) CEC_MSG_PLAY false;
  Enc' (Z * Z * Z * Z * Z)
    (fun '(rec_flag, tuner_display_info, ana_bcast_type, ana_freq, bcast_system) => cec_msg_tuner_device_status_analog rec_flag tuner_display_info ana_bcast_type ana_freq bcast_system) CEC_MSG_TUNER_DEVICE_STATUS false;
  Enc (Z * Z * cec_op_digital_service_id)
    (fun '(rec_flag, tuner_display_info, digital) => cec_msg_tuner_device_status_digital rec_flag tuner_display_info digital) CEC_MSG_TUNER_DEVICE_STATUS false
    (fun '(_, _, digital) => readable digital);
  Enc (cec_op_tuner_device_info)
    (fun tuner_dev_info => cec_msg_tuner_device_status tuner_dev_info) CEC_MSG_TUNER_DEVICE_STATUS false
    (fun tuner_dev_info => tuner_info_ok tuner_dev_info);
  Enc' (bool * Z)
    (fun '(reply, status_req) => cec_msg_give_tuner_device_status reply status_req) CEC_MSG_GIVE_TUNER_DEVICE_STATUS false;
  Enc' (Z * Z * Z)
    (fun '(ana_bcast_type, ana_freq, bcast_system) => cec_msg_select_analogue_service ana_bcast_type ana_freq bcast_system) CEC_MSG_SELECT_ANALOGUE_SERVICE false;
  Enc (cec_op_digital_service_id)
    (fun digital => cec_msg_select_digital_service digital) CEC_MSG_SELECT_DIGITAL_SERVICE false
    (fun digital => readable digital);
  Enc' (unit) (fun _ => cec_msg_tuner_step_decrement) CEC_MSG_TUNER_STEP_DECREMENT false;
  Enc' (unit) (fun _ => cec_msg_tuner_step_increment) CEC_MSG_TUNER_STEP_INCREMENT false;
  Enc' (Z) (fun vendor_id => cec_msg_device_vendor_id vendor_id) CEC_MSG_DEVICE_VENDOR_ID true;
  Enc' (bool)
    (fun reply => cec_msg_give_device_vendor_id reply) CEC_MSG_GIVE_DEVICE_VENDOR_ID false;
  Enc (Z * (list Z))
    (fun '(size, vendor_cmd) => cec_msg_vendor_command size vendor_cmd) CEC_MSG_VENDOR_COMMAND false
    (fun '(size, vendor_cmd) => backed 14 size vendor_cmd);
  Enc (Z * Z * (list Z))
    (fun '(vendor_id, size, vendor_cmd) => cec_msg_vendor_command_with_id vendor_id size vendor_cmd) CEC_MSG_VENDOR_COMMAND_WITH_ID false
    (fun '(_, size, vendor_cmd) => backed 11 size vendor_cmd);
  Enc (Z * (list Z))
    (fun '(size, rc_code) => cec_msg_vendor_remote_button_down size rc_code) CEC_MSG_VENDOR_REMOTE_BUTTON_DOWN false
    (fun '(size, rc_code) => backed 14 size rc_code);
  Enc' (unit) (fun _ => cec_msg_vendor_remote_button_up) CEC_MSG_VENDOR_REMOTE_BUTTON_UP false;
  Enc (Z * (list Z))
    (fun '(disp_ctl, osd) => cec_msg_set_osd_string disp_ctl osd) CEC_MSG_SET_OSD_STRING false
    (fun '(_, osd) => is_Some (strlen osd) /\ Forall is_u8 osd);
  Enc ((list Z))
    (fun name => cec_msg_set_osd_name name) CEC_MSG_SET_OSD_NAME false
    (fun name => is_Some (strlen name) /\ Forall is_u8 name);
  Enc' (bool) (fun reply => cec_msg_give_osd_name reply) CEC_MSG_GIVE_OSD_NAME false;
  Enc' (Z) (fun menu_state => cec_msg_menu_status menu_state) CEC_MSG_MENU_STATUS false;
  Enc' (bool * Z)
    (fun '(reply, menu_req) => cec_msg_menu_request reply menu_req) CEC_MSG_MENU_REQUEST false;
  Enc (cec_op_ui_command)
    (fun cmd => cec_msg_user_control_pressed cmd) CEC_MSG_USER_CONTROL_PRESSED false
    (fun cmd => ui_command_ok cmd);
  Enc' (unit) (fun _ => cec_msg_user_control_released) CEC_MSG_USER_CONTROL_RELEASED false;
  Enc' (Z)
    (fun pwr_state => cec_msg_report_power_status pwr_state) CEC_MSG_REPORT_POWER_STATUS false;
  Enc' (bool)
    (fun reply => cec_msg_give_device_power_status reply) CEC_MSG_GIVE_DEVICE_POWER_STATUS false;
  Enc' (Z * Z)
    (fun '(abort_msg, reason) => cec_msg_feature_abort abort_msg reason) CEC_MSG_FEATURE_ABORT false;
  Enc' (unit) (fun _ => cec_msg_abort) CEC_MSG_ABORT false;
  Enc' (Z * Z)
    (fun '(aud_mute_status, aud_vol_status) => cec_msg_report_audio_status aud_mute_status aud_vol_status) CEC_MSG_REPORT_AUDIO_STATUS false;
  Enc' (bool) (fun reply => cec_msg_give_audio_status reply) CEC_MSG_GIVE_AUDIO_STATUS false;
  Enc' (Z)
    (fun sys_aud_status => cec_msg_set_system_audio_mode sys_aud_status) CEC_MSG_SET_SYSTEM_AUDIO_MODE false;
  Enc' (bool * Z)
    (fun '(reply, phys_addr) => cec_msg_system_audio_mode_request reply phys_addr) CEC_MSG_SYSTEM_AUDIO_MODE_REQUEST false;
  Enc' (Z)
    (fun sys_aud_status => cec_msg_system_audio_mode_status sys_aud_status) CEC_MSG_SYSTEM_AUDIO_MODE_STATUS false;
  Enc' (bool)
    (fun reply => cec_msg_give_system_audio_mode_status reply) CEC_MSG_GIVE_SYSTEM_AUDIO_MODE_STATUS false;
  Enc (Z * (list Z))
    (fun '(num_descriptors, descriptors) => cec_msg_report_short_audio_descriptor num_descriptors descriptors) CEC_MSG_REPORT_SHORT_AUDIO_DESCRIPTOR false
    (fun '(num_descriptors, descriptors) => 0 <= num_descriptors /\ Z.min num_descriptors 4 <= Z.of_nat (length descriptors));
  Enc (bool * Z * (list Z) * (list Z))
    (fun '(reply, num_descriptors, audio_format_id, audio_format_code) => cec_msg_request_short_audio_descriptor reply num_descriptors audio_format_id audio_format_code) CEC_MSG_REQUEST_SHORT_AUDIO_DESCRIPTOR false
    (fun '(_, num_descriptors, audio_format_id, audio_format_code) => 0 <= num_descriptors /\ Z.min num_descriptors 4 <= Z.of_nat (length audio_format_id) /\ Z.min num_descriptors 4 <= Z.of_nat (length audio_format_code));
  Enc' (Z) (fun audio_rate => cec_msg_set_audio_rate audio_rate) CEC_MSG_SET_AUDIO_RATE false;
  Enc' (unit) (fun _ => cec_msg_report_arc_initiated) CEC_MSG_REPORT_ARC_INITIATED false;
  Enc' (bool) (fun reply => cec_msg_initiate_arc reply) CEC_MSG_INITIATE_ARC false;
  Enc' (bool)
    (fun reply => cec_msg_request_arc_initiation reply) CEC_MSG_REQUEST_ARC_INITIATION false;
  Enc' (unit) (fun _ => cec_msg_report_arc_terminated) CEC_MSG_REPORT_ARC_TERMINATED false;
  Enc' (bool) (fun reply => cec_msg_terminate_arc reply) CEC_MSG_TERMINATE_ARC false;
  Enc' (bool)
    (fun reply => cec_msg_request_arc_termination reply) CEC_MSG_REQUEST_ARC_TERMINATION false;
  Enc' (Z * Z * Z * Z * Z)
    (fun '(phys_addr, video_latency, low_latency_mode, audio_out_compensated, audio_out_delay) => cec_msg_report_current_latency phys_addr video_latency low_latency_mode audio_out_compensated audio_out_delay) CEC_MSG_REPORT_CURRENT_LATENCY true;
  Enc' (bool * Z)
    (fun '(reply, phys_addr) => cec_msg_request_current_latency reply phys_addr) CEC_MSG_REQUEST_CURRENT_LATENCY true;
  Enc' (Z * Z)
    (fun '(phys_addr1, phys_addr2) => cec_msg_cdc_hec_inquire_state phys_addr1 phys_addr2) CEC_MSG_CDC_MESSAGE true;
  Enc' (Z * Z * Z * Z * Z * Z * Z)
    (fun '(target_phys_addr, hec_func_state, host_func_state, enc_func_state, cdc_errcode, has_field, hec_field) => cec_msg_cdc_hec_report_state target_phys_addr hec_func_state host_func_state enc_func_state cdc_errcode has_field hec_field) CEC_MSG_CDC_MESSAGE true;
  Enc' (Z * Z * Z * Z * Z * Z)
    (fun '(phys_addr1, phys_addr2, hec_set_state, phys_addr3, phys_addr4, phys_addr5) => cec_msg_cdc_hec_set_state phys_addr1 phys_addr2 hec_set_state phys_addr3 phys_addr4 phys_addr5) CEC_MSG_CDC_MESSAGE true;
  Enc' (Z * Z)
    (fun '(phys_addr1, hec_set_state) => cec_msg_cdc_hec_set_state_adjacent phys_addr1 hec_set_state) CEC_MSG_CDC_MESSAGE true;
  Enc' (Z * Z * Z)
    (fun '(phys_addr1, phys_addr2, phys_addr3) => cec_msg_cdc_hec_request_deactivation phys_addr1 phys_addr2 phys_addr3) CEC_MSG_CDC_MESSAGE true;
  Enc' (unit) (fun _ => cec_msg_cdc_hec_notify_alive) CEC_MSG_CDC_MESSAGE true;
  Enc' (unit) (fun _ => cec_msg_cdc_hec_discover) CEC_MSG_CDC_MESSAGE true;
  Enc' (Z * Z)
    (fun '(input_port, hpd_state) => cec_msg_cdc_hpd_set_state input_port hpd_state) CEC_MSG_CDC_MESSAGE true;
  Enc' (Z * Z)
    (fun '(hpd_state, hpd_error) => cec_msg_cdc_hpd_report_state hpd_state hpd_error) CEC_MSG_CDC_MESSAGE true
].

(** An encoder that takes [reply], with the opcode of the response it asks for. *)
Record request_entry : Type := Req {
  req_args : Type;
  req_build : bool -> req_args -> M unit;
  req_response : Z;
  req_pre : req_args -> Prop
}.

Definition cec_requests : list request_entry := [
  Req (unit)
    (fun reply _ => cec_msg_request_active_source reply) CEC_MSG_ACTIVE_SOURCE (fun _ => True);
  Req (Z * Z)
    (fun reply '(orig_phys_addr, new_phys_addr) => cec_msg_routing_change reply orig_phys_addr new_phys_addr) CEC_MSG_ROUTING_INFORMATION (fun _ => True);
  Req (unit) (fun reply _ => cec_msg_record_off reply) CEC_MSG_RECORD_STATUS (fun _ => True);
  Req (cec_op_record_src)
    (fun reply rec_src => cec_msg_record_on reply rec_src) CEC_MSG_RECORD_STATUS (fun rec_src => record_src_ok rec_src);
  Req (unit) (fun reply _ => cec_msg_record_tv_screen reply) CEC_MSG_RECORD_ON (fun _ => True);
  Req (Z * Z * Z * Z * Z * Z * Z * Z * Z * Z)
    (fun reply '(day, month, start_hr, start_min, duration_hr, duration_min, recording_seq, ana_bcast_type, ana_freq, bcast_system) => cec_msg_clear_analogue_timer reply day month start_hr start_min duration_hr duration_min recording_seq ana_bcast_type ana_freq bcast_system) CEC_MSG_TIMER_CLEARED_STATUS (fun _ => True);
  Req (Z * Z * Z * Z * Z * Z * Z * cec_op_digital_service_id)
    (fun reply '(day, month, start_hr, start_min, duration_hr, duration_min, recording_seq, digital) => cec_msg_clear_digital_timer reply day month start_hr start_min duration_hr duration_min recording_seq digital) CEC_MSG_TIMER_CLEARED_STATUS (fun '(_, _, _, _, _, _, _, digital) => readable digital);
  Req (Z * Z * Z * Z * Z * Z * Z * Z * Z * Z)
    (fun reply '(day, month, start_hr, start_min, duration_hr, duration_min, recording_seq, ext_src_spec, plug, phys_addr) => cec_msg_clear_ext_timer reply day month start_hr start_min duration_hr duration_min recording_seq ext_src_spec plug phys_addr) CEC_MSG_TIMER_CLEARED_STATUS (fun _ => True);
  Req (Z * Z * Z * Z * Z * Z * Z * Z * Z * Z)
    (fun reply '(day, month, start_hr, start_min, duration_hr, duration_min, recording_seq, ana_bcast_type, ana_freq, bcast_system) => cec_msg_set_analogue_timer reply day month start_hr start_min duration_hr duration_min recording_seq ana_bcast_type ana_freq bcast_system) CEC_MSG_TIMER_STATUS (fun _ => True);
  Req (Z * Z * Z * Z * Z * Z * Z * cec_op_digital_service_id)
    (fun reply '(day, month, start_hr, start_min, duration_hr, duration_min, recording_seq, digital) => cec_msg_set_digital_timer reply day month start_hr start_min duration_hr duration_min recording_seq digital) CEC_MSG_TIMER_STATUS (fun '(_, _, _, _, _, _, _, digital) => readable digital);
  Req (Z * Z * Z * Z * Z * Z * Z * Z * Z * Z)
    (fun reply '(day, month, start_hr, start_min, duration_hr, duration_min, recording_seq, ext_src_spec, plug, phys_addr) => cec_msg_set_ext_timer reply day month start_hr start_min duration_hr duration_min recording_seq ext_src_spec plug phys_addr) CEC_MSG_TIMER_STATUS (fun _ => True);
  Req (unit) (fun reply _ => cec_msg_get_cec_version reply) CEC_MSG_CEC_VERSION (fun _ => True);
  Req (unit)
    (fun reply _ => cec_msg_give_physical_addr reply) CEC_MSG_REPORT_PHYSICAL_ADDR (fun _ => True);
  Req (unit)
    (fun reply _ => cec_msg_get_menu_language reply) CEC_MSG_SET_MENU_LANGUAGE (fun _ => True);
  Req (unit) (fun reply _ => cec_msg_give_features reply) CEC_MSG_REPORT_FEATURES (fun _ => True);
  Req (Z)
    (fun reply status_req => cec_msg_give_deck_status reply status_req) CEC_MSG_DECK_STATUS (fun _ => True);
  Req (Z)
    (fun reply status_req => cec_msg_give_tuner_device_status reply status_req) CEC_MSG_TUNER_DEVICE_STATUS (fun _ => True);
  Req (unit)
    (fun reply _ => cec_msg_give_device_vendor_id reply) CEC_MSG_DEVICE_VENDOR_ID (fun _ => True);
  Req (unit) (fun reply _ => cec_msg_give_osd_name reply) CEC_MSG_SET_OSD_NAME (fun _ => True);
  Req (Z)
    (fun reply menu_req => cec_msg_menu_request reply menu_req) CEC_MSG_MENU_STATUS (fun _ => True);
  Req (unit)
    (fun reply _ => cec_msg_give_device_power_status reply) CEC_MSG_REPORT_POWER_STATUS (fun _ => True);
  Req (unit)
    (fun reply _ => cec_msg_give_audio_status reply) CEC_MSG_REPORT_AUDIO_STATUS (fun _ => True);
  Req (Z)
    (fun reply phys_addr => cec_msg_system_audio_mode_request reply phys_addr) CEC_MSG_SET_SYSTEM_AUDIO_MODE (fun _ => True);
  Req (unit)
    (fun reply _ => cec_msg_give_system_audio_mode_status reply) CEC_MSG_SYSTEM_AUDIO_MODE_STATUS (fun _ => True);
  Req (Z * (list Z) * (list Z))
    (fun reply '(num_descriptors, audio_format_id, audio_format_code) => cec_msg_request_short_audio_descriptor reply num_descriptors audio_format_id audio_format_code) CEC_MSG_REPORT_SHORT_AUDIO_DESCRIPTOR (fun '(num_descriptors, audio_format_id, audio_format_code) => 0 <= num_descriptors /\ Z.min num_descriptors 4 <= Z.of_nat (length audio_format_id) /\ Z.min num_descriptors 4 <= Z.of_nat (length audio_format_code));
  Req (unit)
    (fun reply _ => cec_msg_initiate_arc reply) CEC_MSG_REPORT_ARC_INITIATED (fun _ => True);
  Req (unit)
    (fun reply _ => cec_msg_request_arc_initiation reply) CEC_MSG_INITIATE_ARC (fun _ => True);
  Req (unit)
    (fun reply _ => cec_msg_terminate_arc reply) CEC_MSG_REPORT_ARC_TERMINATED (fun _ => True);
  Req (unit)
    (fun reply _ => cec_msg_request_arc_termination reply) CEC_MSG_TERMINATE_ARC (fun _ => True);
  Req (Z)
    (fun reply phys_addr => cec_msg_request_current_latency reply phys_addr) CEC_MSG_REPORT_CURRENT_LATENCY (fun _ => True)
].

(** Every pair of an encoder and its decoder. *)
Definition cec_codecs : list codec := [
  active_source_codec;
  inactive_source_codec;
  routing_information_codec;
  routing_change_codec true;
  routing_change_codec false;
  set_stream_path_codec;
  record_status_codec;
  record_on_codec true;
  record_on_codec false;
  timer_cleared_status_codec;
  clear_analogue_timer_codec true;
  clear_analogue_timer_codec false;
  clear_digital_timer_codec true;
  clear_digital_timer_codec false;
  clear_ext_timer_codec true;
  clear_ext_timer_codec false;
  set_analogue_timer_codec true;
  set_analogue_timer_codec false;
  set_digital_timer_codec true;
  set_digital_timer_codec false;
  set_ext_timer_codec true;
  set_ext_timer_codec false;
  set_timer_program_title_codec;
  timer_status_codec;
  cec_version_codec;
  report_physical_addr_codec;
  deck_control_codec;
  deck_status_codec;
  give_deck_status_codec true;
  give_deck_status_codec false;
  play_codec;
  set_menu_language_codec;
  report_features_codec;
  give_tuner_device_status_codec true;
  give_tuner_device_status_codec false;
  select_analogue_service_codec;
  select_digital_service_codec;
  tuner_device_status_codec;
  device_vendor_id_codec;
  vendor_command_codec;
  vendor_command_with_id_codec;
  vendor_remote_button_down_codec;
  set_osd_string_codec;
  set_osd_name_codec;
  menu_status_codec;
  menu_request_codec true;
  menu_request_codec false;
  report_power_status_codec;
  user_control_pressed_codec;
  feature_abort_codec;
  report_audio_status_codec;
  set_system_audio_mode_codec;
  system_audio_mode_status_codec;
  set_audio_rate_codec;
  request_current_latency_codec true;
  request_current_latency_codec false;
  system_audio_mode_request_codec true;
  system_audio_mode_request_codec false;
  report_short_audio_descriptor_codec;
  request_short_audio_descriptor_codec true;
  request_short_audio_descriptor_codec false;
  report_current_latency_codec;
  cdc_hec_inquire_state_codec;
  cdc_hec_set_state_adjacent_codec;
  cdc_hec_request_deactivation_codec;
  cdc_hpd_set_state_codec;
  cdc_hpd_report_state_codec;
  cdc_hec_report_state_codec;
  cdc_hec_set_state_codec
].

(** A decoder with the caller's structure or buffer it writes into, and what it
    demands of that. *)
Record decoder_entry : Type := Dec {
  dec_args : Type;
  dec_result : Type;
  dec_run : dec_args -> cec_msg -> option dec_result;
  dec_pre : dec_args -> Prop
}.

Arguments Dec _ {_} _ _.

Definition Dec' {R} (f : cec_msg -> option R) : decoder_entry :=
  Dec unit (fun _ => f) (fun _ => True).

Definition cec_decoders : list decoder_entry := [
  Dec' cec_ops_active_source;
  Dec' cec_ops_inactive_source;
  Dec' cec_ops_routing_information;
  Dec' cec_ops_routing_change;
  Dec' cec_ops_set_stream_path;
  Dec _ (fun old m => cec_ops_record_on m old) (fun _ => True);
  Dec' cec_ops_record_status;
  Dec' cec_ops_timer_status;
  Dec' cec_ops_timer_cleared_status;
  Dec' cec_ops_clear_analogue_timer;
  Dec' cec_ops_clear_digital_timer;
  Dec' cec_ops_clear_ext_timer;
  Dec' cec_ops_set_analogue_timer;
  Dec' cec_ops_set_digital_timer;
  Dec' cec_ops_set_ext_timer;
  Dec (list Z) (fun buf m => cec_ops_set_timer_program_title m buf) (fun buf => (15 <= length buf)%nat);
  Dec' cec_ops_cec_version;
  Dec' cec_ops_report_physical_addr;
  Dec (list Z) (fun buf m => cec_ops_set_menu_language m buf) (fun buf => (4 <= length buf)%nat);
  Dec' cec_ops_report_features;
  Dec' cec_ops_deck_control;
  Dec' cec_ops_deck_status;
  Dec' cec_ops_give_deck_status;
  Dec' cec_ops_play;
  Dec' cec_ops_tuner_device_status;
  Dec' cec_ops_give_tuner_device_status;
  Dec' cec_ops_select_analogue_service;
  Dec' cec_ops_select_digital_service;
  Dec' cec_ops_device_vendor_id;
  Dec' (fun m => Some (cec_ops_vendor_command m));
  Dec' cec_ops_vendor_command_with_id;
  Dec' (fun m => Some (cec_ops_vendor_remote_button_down m));
  Dec (list Z) (fun buf m => cec_ops_set_osd_string m buf) (fun buf => (14 <= length buf)%nat);
  Dec (list Z) (fun buf m => cec_ops_set_osd_name m buf) (fun buf => (15 <= length buf)%nat);
  Dec' cec_ops_menu_status;
  Dec' cec_ops_menu_request;
  Dec _ (fun old m => cec_ops_user_control_pressed m old) (fun _ => True);
  Dec' cec_ops_report_power_status;
  Dec' cec_ops_feature_abort;
  Dec' cec_ops_report_audio_status;
  Dec' cec_ops_set_system_audio_mode;
  Dec' cec_ops_system_audio_mode_request;
  Dec' cec_ops_system_audio_mode_status;
  Dec (list Z) (fun buf m => cec_ops_report_short_audio_descriptor m buf) (fun buf => (4 <= length buf)%nat);
  Dec (list Z * list Z) (fun '(a, b) m => cec_ops_request_short_audio_descriptor m a b)
    (fun '(a, b) => (4 <= length a)%nat /\ (4 <= length b)%nat);
  Dec' cec_ops_set_audio_rate;
  Dec' cec_ops_report_current_latency;
  Dec' cec_ops_request_current_latency;
  Dec' cec_ops_cdc_hec_inquire_state;
  Dec' cec_ops_cdc_hec_report_state;
  Dec' cec_ops_cdc_hec_set_state;
  Dec' cec_ops_cdc_hec_set_state_adjacent;
  Dec' cec_ops_cdc_hec_request_deactivation;
  Dec' cec_ops_cdc_hec_notify_alive;
  Dec' cec_ops_cdc_hec_discover;
  Dec' cec_ops_cdc_hpd_set_state;
  Dec' cec_ops_cdc_hpd_report_state
].

(** ** The tables' entries satisfy their contracts *)

Ltac encoder_entry_ok :=
  unfold entry_ok; cbn [Enc' args build entry_opcode entry_broadcast entry_pre];
  intros a Ha; repeat match goal with x : (_ * _)%type |- _ => destruct x end;
  cbv beta iota in *; eauto with encoders nocore.

Lemma cec_encoders_ok : Forall entry_ok cec_encoders.
Proof.
  unfold cec_encoders. repeat apply Forall_cons_2; try apply Forall_nil_2.
  all: encoder_entry_ok.
Qed.

Lemma cec_codecs_lawful : Forall Lawful cec_codecs.
Proof.
  unfold cec_codecs. repeat apply Forall_cons_2; try apply Forall_nil_2;
    eauto with codecs nocore.
Qed.

Definition request_ok (e : request_entry) : Prop :=
  forall b a m, req_pre e a -> wf_msg m ->
    wp (req_build e b a) (fun _ m' => reply m' = if b then req_response e else 0) m.

(** The responses asked for are opcodes, one byte each. *)
Ltac request_entry_ok :=
  unfold request_ok; cbn [req_args req_build req_response req_pre];
  let b := fresh "b" in let a := fresh "a" in let m := fresh "m" in
  let Ha := fresh "Ha" in let H := fresh "H" in
  intros b a m Ha H; repeat match goal with x : (_ * _)%type |- _ => destruct x end;
  cbv beta iota in Ha |- *;
  lazymatch goal with |- wp ?c _ _ => let h := head_of c in unfold h end;
  open_msg m; run; cbn [reply]; destruct b; reflexivity.

Lemma record_on_request b r m :
  record_src_ok r -> wf_msg m ->
  wp (cec_msg_record_on b r) (fun _ m' => reply m' = if b then CEC_MSG_RECORD_STATUS else 0) m.
Proof.
  destruct r as [type sv]. unfold record_src_ok. cbn [src src_type]. intros Hr H.
  unfold cec_msg_record_on. cbn [src src_type].
  destruct sv; [destruct Hr as [-> ?]|subst type..];
    open_msg m; run; cbn [CecMsg.reply]; by destruct b.
Qed.

Lemma request_short_audio_descriptor_request b n ids codes m :
  0 <= n /\ Z.min n 4 <= Z.of_nat (length ids) /\ Z.min n 4 <= Z.of_nat (length codes) ->
  wf_msg m ->
  wp (cec_msg_request_short_audio_descriptor b n ids codes)
    (fun _ m' => reply m' = if b then CEC_MSG_REPORT_SHORT_AUDIO_DESCRIPTOR else 0) m.
Proof.
  intros (Hn & Hl & Hl') H. open_msg m. unfold cec_msg_request_short_audio_descriptor.
  cbv zeta. rewrite clamp_min.
  cases_upto4 (Z.min n 4); cells ids Hl; cells codes Hl'; run_loop; by destruct b.
Qed.

Lemma cec_requests_ok : Forall request_ok cec_requests.
Proof.
  unfold cec_requests. repeat apply Forall_cons_2; try apply Forall_nil_2.
  all: try request_entry_ok.
  - intros b r m. apply record_on_request.
  - intros b [[n ids] codes] m. apply request_short_audio_descriptor_request.
Qed.

(** ** Decoders never leave the payload *)

Definition decoder_ok (e : decoder_entry) : Prop :=
  forall a m, dec_pre e a -> wf_msg m -> is_Some (dec_run e a m).

Lemma get_digital_total l off :
  (off + 7 <= length l)%nat -> is_Some (cec_get_digital_service_id l off).
Proof.
  intros Hl. unfold cec_get_digital_service_id.
  assert (forall i, (i < 7)%nat -> is_Some (rd l (i + off))) as H
    by (intros i Hi; apply lookup_lt_is_Some; lia).
  destruct (H 0%nat ltac:(lia)) as [b0 E0], (H 1%nat ltac:(lia)) as [b1 E1],
    (H 2%nat ltac:(lia)) as [b2 E2], (H 3%nat ltac:(lia)) as [b3 E3],
    (H 4%nat ltac:(lia)) as [b4 E4], (H 5%nat ltac:(lia)) as [b5 E5],
    (H 6%nat ltac:(lia)) as [b6 E6].
  change (0 + off)%nat with off in E0. rewrite E0, E1, E2, E3, E4, E5, E6. cbn.
  case_match; eauto.
Qed.

(** The text length of a frame: what follows byte [k], at most [c] bytes. *)
Definition text_len (k c : Z) (m : cec_msg) : nat := Z.to_nat (Z.min (Z.max 0 (len m - k)) c).

Lemma text_len_c k c m :
  0 <= k -> is_u32 (len m) ->
  Z.to_nat (if c <? (if k <? len m then u32 (len m - k) else 0) then c
            else (if k <? len m then u32 (len m - k) else 0)) = text_len k c m.
Proof.
  intros Hk Hm. unfold text_len. rewrite clamp_min.
  destruct (Z.ltb_spec k (len m)); [|f_equal; lia].
  rewrite wrap_small by (unfold in_word in *; lia). f_equal. lia.
Qed.

(** What a string decoder leaves in the caller's buffer: the text, a NUL, and
    the rest of the buffer as it was. *)
Definition decoded_text (k c : Z) (m : cec_msg) (buf buf' : list Z) : Prop :=
  let n := text_len k c m in
  length buf' = length buf /\ take n buf' = take n (drop (Z.to_nat k) (msg m)) /\
  buf' !! n = Some 0 /\ drop (S n) buf' = drop (S n) buf.

Lemma string_decode k c m buf :
  wf_msg m -> 0 <= k -> k + c = 16 -> 0 <= c < Z.of_nat (length buf) ->
  exists buf',
    (memcpy buf 0 (drop (Z.to_nat k) (msg m)) (text_len k c m)
       ≫= fun d => wr d (text_len k c m) 0) = Some buf' /\
    decoded_text k c m buf buf'.
Proof.
  intros (Hl & _ & _) Hk Hc Hb. unfold CEC_MAX_MSG_SIZE in Hl.
  destruct (copy_out_safe buf m (Z.to_nat k) (text_len k c m)) as (buf' & E & ? & ? & ? & ?);
    [unfold text_len; lia..|].
  exists buf'. by repeat split.
Qed.

Lemma set_timer_program_title_decode m buf :
  wf_msg m -> (15 <= length buf)%nat ->
  exists buf', cec_ops_set_timer_program_title m buf = Some buf' /\ decoded_text 2 14 m buf buf'.
Proof.
  intros H Hb. unfold cec_ops_set_timer_program_title. cbv zeta.
  rewrite text_len_c by (lia || apply H). by apply (string_decode 2 14); [|lia..].
Qed.

Lemma set_osd_name_decode m buf :
  wf_msg m -> (15 <= length buf)%nat ->
  exists buf', cec_ops_set_osd_name m buf = Some buf' /\ decoded_text 2 14 m buf buf'.
Proof.
  intros H Hb. unfold cec_ops_set_osd_name. cbv zeta.
  rewrite text_len_c by (lia || apply H). by apply (string_decode 2 14); [|lia..].
Qed.

Lemma set_osd_string_decode m buf :
  wf_msg m -> (14 <= length buf)%nat ->
  exists d buf', cec_ops_set_osd_string m buf = Some (d, buf') /\ rd (msg m) 2 = Some d /\
    decoded_text 3 13 m buf buf'.
Proof.
  intros H Hb. unfold cec_ops_set_osd_string. cbv zeta.
  rewrite text_len_c by (lia || apply H).
  destruct (string_decode 3 13 m buf) as (buf' & E & Hd); [done|lia..|].
  destruct (lookup_lt_is_Some_2 (msg m) 2) as [d Ed].
  { destruct H as [-> _]. unfold CEC_MAX_MSG_SIZE. lia. }
  exists d, buf'. unfold rd. rewrite Ed. cbn [mbind option_bind].
  change (Z.to_nat 3) with 3%nat in E.
  cbn [mbind option_bind] in E. by rewrite E.
Qed.

Lemma set_menu_language_decode m buf :
  wf_msg m -> (4 <= length buf)%nat -> is_Some (cec_ops_set_menu_language m buf).
Proof.
  intros (Hl & _) Hb. unfold CEC_MAX_MSG_SIZE in Hl. unfold cec_ops_set_menu_language.
  destruct (copy_out_safe buf m 2 3) as (buf' & -> & _); [lia..|eauto].
Qed.

(** The scan over extended feature bytes stops at the first byte without the
    extension bit, or at its limit. *)
Lemma skip_ext_spec k l p :
  (p + k < length l)%nat ->
  exists q, skip_ext k l p = Some q /\ (p <= q <= p + k)%nat /\
    (forall i b, (p <= i < q)%nat -> l !! i = Some b -> b &&& CEC_OP_FEAT_EXT <> 0) /\
    (forall b, (q < p + k)%nat -> l !! q = Some b -> b &&& CEC_OP_FEAT_EXT = 0).
Proof.
  revert p. induction k as [|k IH]; intros p Hp; simpl.
  { exists p. split; [done|]. split; [lia|]. split; intros; lia. }
  destruct (lookup_lt_is_Some_2 l p) as [b Hb]; [lia|]. unfold rd. rewrite Hb. cbn.
  destruct (Z.eqb_spec (b &&& CEC_OP_FEAT_EXT) 0) as [E|E]; cbn.
  - exists p. split; [done|]. split; [lia|]. split; [intros; lia|]. congruence.
  - destruct (IH (S p)) as (q & Hq & Hr & H1 & H2); [lia|]. exists q.
    split; [done|]. split; [lia|]. split; [|intros; apply H2; [lia|done]].
    intros i b' Hi Hb'. destruct (decide (i = p)) as [->|]; [congruence|].
    apply (H1 i); [lia|done].
Qed.

(** The decoder of REPORT FEATURES: both pointers are null when bytes 4 to 14
    all carry the extension bit, and designate byte 4 and the byte behind the
    first one without it otherwise. *)
Lemma report_features_decode m :
  wf_msg m ->
  exists v t q b, cec_ops_report_features m =
      Some (if (b &&& CEC_OP_FEAT_EXT) =? 0
            then (v, t, Some 4%nat, Some (q + 1)%nat) else (v, t, None, None)) /\
    rd (msg m) 2 = Some v /\ rd (msg m) 3 = Some t /\ rd (msg m) q = Some b /\
    (4 <= q <= 14)%nat /\
    (forall i c, (4 <= i < q)%nat -> msg m !! i = Some c -> c &&& CEC_OP_FEAT_EXT <> 0) /\
    ((q < 14)%nat -> b &&& CEC_OP_FEAT_EXT = 0).
Proof.
  intros (Hl & _). unfold CEC_MAX_MSG_SIZE in Hl. unfold cec_ops_report_features.
  destruct (lookup_lt_is_Some_2 (msg m) 2) as [v Ev]; [lia|].
  destruct (lookup_lt_is_Some_2 (msg m) 3) as [t Et]; [lia|].
  destruct (skip_ext_spec 10 (msg m) 4) as (q & Eq & Hq & H1 & H2); [lia|].
  destruct (lookup_lt_is_Some_2 (msg m) q) as [b Eb]; [lia|].
  exists v, t, q, b. unfold rd. rewrite Ev, Et. cbn [mbind option_bind].
  change (14 - 4)%nat with 10%nat. rewrite Eq. cbn [mbind option_bind]. rewrite Eb.
  cbn [mbind option_bind].
  split; [|split; [done|split; [done|split; [done|split; [lia|split; [exact H1|]]]]]];
    [|intros; apply H2; [lia|done]].
  destruct (Z.eqb_spec (b &&& CEC_OP_FEAT_EXT) 0) as [E|E]; [|done].
  assert (skip_ext (15 - q) (msg m) q = Some q) as ->.
  { destruct (15 - q)%nat; [done|]. simpl. unfold rd. rewrite Eb. cbn. by rewrite E. }
  cbn [mbind option_bind]. rewrite Eb. cbn [mbind option_bind]. by rewrite E.
Qed.

(** Loops that fill an output array of at least four cells. *)
Lemma report_short_audio_descriptor_decode m ds :
  wf_msg m -> (4 <= length ds)%nat ->
  is_Some (cec_ops_report_short_audio_descriptor m ds).
Proof.
  intros (Hl & _) Hd. unfold CEC_MAX_MSG_SIZE in Hl.
  unfold cec_ops_report_short_audio_descriptor. cbv zeta. rewrite clamp_min.
  set (n := Z.min _ 4). match goal with |- context [st_for ?k ?i ?b ds] =>
    enough (wp (st_for k i b) (fun _ a => length a = length ds) ds) as H end.
  { apply wp_Some in H as ([] & a & -> & _). cbn. eauto. }
  eapply wp_mono; [apply (wp_for (fun _ a => length a = length ds)); [done|]|done].
  intros j a Hj Ha. assert (j < 4)%nat by (unfold n in Hj; lia).
  destruct (lookup_lt_is_Some_2 (msg m) (2 + j * 3)) as [b0 E0]; [lia|].
  destruct (lookup_lt_is_Some_2 (msg m) (3 + j * 3)) as [b1 E1]; [lia|].
  destruct (lookup_lt_is_Some_2 (msg m) (4 + j * 3)) as [b2 E2]; [lia|].
  unfold rd, put. rewrite E0, E1, E2.
  repeat (apply wp_bind; try apply wp_get; unfold wp at 1, st_lift; cbn [fmap option_fmap option_map]).
  rewrite wr_Some by lia. cbn. by rewrite length_insert.
Qed.

Lemma request_short_audio_descriptor_decode m ids codes :
  wf_msg m -> (4 <= length ids)%nat -> (4 <= length codes)%nat ->
  is_Some (cec_ops_request_short_audio_descriptor m ids codes).
Proof.
  intros (Hl & _) Hi Hc. unfold CEC_MAX_MSG_SIZE in Hl.
  unfold cec_ops_request_short_audio_descriptor. cbv zeta. rewrite clamp_min.
  set (n := Z.min _ 4). match goal with |- context [st_for ?k ?i ?b (ids, codes)] =>
    enough (wp (st_for k i b)
      (fun _ a => length a.1 = length ids /\ length a.2 = length codes) (ids, codes)) as H end.
  { apply wp_Some in H as ([] & [a b] & -> & _). cbn. eauto. }
  eapply wp_mono;
    [apply (wp_for (fun _ a => length a.1 = length ids /\ length a.2 = length codes));
      [done|]|done].
  intros j [a b] Hj [Ha Hb]. assert (j < 4)%nat by (unfold n in Hj; lia).
  destruct (lookup_lt_is_Some_2 (msg m) (2 + j)) as [b0 E0]; [lia|].
  unfold wp, rd. simpl in Ha, Hb. rewrite E0. cbn [mbind option_bind].
  rewrite !wr_Some by lia. cbn. by rewrite !length_insert.
Qed.

Ltac decoder_entry_ok :=
  unfold decoder_ok; cbn [dec_args dec_run dec_pre Dec'];
  let a := fresh "a" in let m := fresh "m" in let Ha := fresh "Ha" in let H := fresh "H" in
  intros a m Ha H; try (lazymatch goal with |- is_Some (?c) => let h := head_of c in unfold h end);
  open_msg m; cbn;
  repeat match goal with
  | |- context [cec_get_digital_service_id ?l ?o] =>
      destruct (get_digital_total l o) as [? ->]; [simpl; lia|]; cbn
  end;
  repeat case_match; cbn; eauto.

Lemma cec_decoders_ok : Forall decoder_ok cec_decoders.
Proof.
  unfold cec_decoders. repeat apply Forall_cons_2; try apply Forall_nil_2.
  all: try (decoder_entry_ok; fail).
  - intros buf m Hb H.
    destruct (set_timer_program_title_decode m buf) as (? & E & _); [done..|]. by exists x.
  - intros buf m Hb H. by apply set_menu_language_decode.
  - intros [] m _ H. destruct (report_features_decode m H) as (? & ? & ? & ? & E & _).
    cbn. rewrite E. eauto.
  - intros buf m Hb H.
    destruct (set_osd_string_decode m buf) as (? & ? & E & _); [done..|]. cbn. rewrite E. eauto.
  - intros buf m Hb H. destruct (set_osd_name_decode m buf) as (? & E & _); [done..|]. by exists x.
  - intros buf m Hb H. by apply report_short_audio_descriptor_decode.
  - intros [a b] m [Ha Hb] H. by apply request_short_audio_descriptor_decode.
Qed.
