(* ===== verification/CecProtocol.v ===== *)
(** * CEC: what the protocol functions guarantee

    The theorems over all encoders, requests, codecs and decoders, proved from
    the contracts collected in [CecTables], and the properties of single
    functions that those contracts do not cover: replies, status, device
    classes, the digital service pair, and where encoder and decoder disagree. *)
From stdpp Require Import gmap.
From S2P Require Import Prelude.
From S2P Require Import CecConsts.
From S2P Require Import CecMsg.
From S2P Require Import CecCodec.
From S2P Require Import CecOperands.
From S2P Require Import CecPayload.
From S2P Require Import CecRouting.
From S2P Require Import CecRecord.
From S2P Require Import CecTimer.
From S2P Require Import CecSystem.
From S2P Require Import CecTuner.
From S2P Require Import CecVendor.
From S2P Require Import CecMenu.
From S2P Require Import CecAudio.
From S2P Require Import CecCdc.
From S2P Require Import CecTables.

(** ** A concrete message for the witnesses *)

(** From device 4 to device 0, as [cec_msg_init] leaves it. *)
Definition sample_msg : cec_msg :=
  mk_cec_msg 0 0 1 0 0 0 (0x40 :: replicate 15 0) 0 0 0 0 0 0 0.

Lemma sample_wf : wf_msg sample_msg.
Proof. unfold sample_msg, wf_msg. split; [done|]. split; [|split; done]. by repeat constructor. Qed.

(** ** All functions *)

(** C2: every encoder, run on any well-formed message with operands that meet
    its precondition, writes inside the payload only, and leaves a well-formed
    frame of 2 to 16 bytes that carries the encoder's opcode, keeps the
    initiator, is addressed to everybody exactly when the message is a
    broadcast one, and touches no time stamp, status or counter. *)
Theorem encoders_build_frames e a m :
  e ∈ cec_encoders -> entry_pre e a -> wf_msg m ->
  exists m', build e a m = Some (tt, m') /\ frame_of (entry_opcode e) (entry_broadcast e) m m'.
Proof.
  intros He Ha Hm. pose proof (proj1 (Forall_forall _ _) cec_encoders_ok e He a Ha m Hm) as H.
  apply wp_Some in H as ([] & m' & E & H). eauto.
Qed.

Lemma encoders_build_frames_witness :
  exists m', cec_msg_active_source 0x1000 sample_msg = Some (tt, m') /\
    frame_of CEC_MSG_ACTIVE_SOURCE true sample_msg m'.
Proof.
  apply (encoders_build_frames
    (Enc' Z (fun phys_addr => cec_msg_active_source phys_addr) CEC_MSG_ACTIVE_SOURCE true)
    0x1000 sample_msg); [left; reflexivity|exact I|exact sample_wf].
Defined.

(** C1: for every message that has both an encoder and a decoder, decoding the
    frame built from operands in the message's domain gives those operands
    back, whatever the message buffer held before. *)
Theorem codecs_roundtrip C x m :
  C ∈ cec_codecs -> wf_msg m -> domain C x ->
  exists m', encode C x m = Some (tt, m') /\ decode C m' = Some x.
Proof.
  intros HC Hm Hx. pose proof (proj1 (Forall_forall _ _) cec_codecs_lawful C HC x m Hm Hx) as H.
  apply wp_Some in H as ([] & m' & E & H). eauto.
Qed.

Lemma codecs_roundtrip_witness :
  exists m', cec_msg_active_source 0x1234 sample_msg = Some (tt, m') /\
    cec_ops_active_source m' = Some 0x1234.
Proof.
  apply (codecs_roundtrip active_source_codec 0x1234 sample_msg);
    [left; reflexivity|exact sample_wf|split; vm_compute; congruence].
Defined.

(** C14: every request sets [msg->reply] to the opcode of the response it waits
    for when a reply is wanted, and to 0 otherwise. *)
Theorem requests_name_their_response e (b : bool) a m :
  e ∈ cec_requests -> req_pre e a -> wf_msg m ->
  exists m', req_build e b a m = Some (tt, m') /\ reply m' = if b then req_response e else 0.
Proof.
  intros He Ha Hm. pose proof (proj1 (Forall_forall _ _) cec_requests_ok e He b a m Ha Hm) as H.
  apply wp_Some in H as ([] & m' & E & H). eauto.
Qed.

Lemma requests_name_their_response_witness :
  exists m', cec_msg_request_active_source true sample_msg = Some (tt, m') /\
    reply m' = CEC_MSG_ACTIVE_SOURCE.
Proof.
  apply (requests_name_their_response
    (Req unit (fun reply _ => cec_msg_request_active_source reply) CEC_MSG_ACTIVE_SOURCE
      (fun _ => True)) true tt sample_msg); [left; reflexivity|exact I|exact sample_wf].
Defined.

(** C3: no decoder reads outside the payload or writes outside the caller's
    buffer, for any received message, whatever its length field says. *)
Theorem decoders_total e a m :
  e ∈ cec_decoders -> dec_pre e a -> wf_msg m -> is_Some (dec_run e a m).
Proof.
  intros He Ha Hm. exact (proj1 (Forall_forall _ _) cec_decoders_ok e He a m Ha Hm).
Qed.

Lemma decoders_total_witness : is_Some (cec_ops_active_source sample_msg).
Proof.
  apply (decoders_total (Dec' cec_ops_active_source) tt sample_msg);
    [left; reflexivity|exact I|exact sample_wf].
Defined.

(** ** Replies *)

Lemma header_byte b0 :
  is_u8 b0 ->
  u8 (((b0 &&& 0xf) ≪ 4) ||| (b0 ≫ 4)) ≫ 4 = b0 &&& 0xf /\
  u8 (((b0 &&& 0xf) ≪ 4) ||| (b0 ≫ 4)) &&& 0xf = b0 ≫ 4.
Proof.
  intros H. assert (in_word 4 (b0 &&& 0xf)) by (rewrite land_0xf; split; bits_lia).
  assert (in_word 4 (b0 ≫ 4)) by (rewrite shiftr_div by lia; split; bits_lia).
  rewrite pack_high, pack_low_4 by (done || word_lia). done.
Qed.

(** A reply to [mq] built in [mp]. *)
Definition reply_header (mq mp m' : cec_msg) : Prop :=
  cec_msg_initiator m' = cec_msg_destination mq /\
  cec_msg_destination m' = cec_msg_initiator mq /\
  reply m' = 0 /\ timeout m' = 0 /\ len m' = len mp /\ tail (msg m') = tail (msg mp) /\
  wf_msg m'.

Lemma set_reply_to_run p q (h : heap) mp mq :
  h !! p = Some mp -> h !! q = Some mq -> wf_msg mp -> wf_msg mq ->
  exists m', cec_msg_set_reply_to p q h = Some (tt, <[p := m']> h) /\ reply_header mq mp m'.
Proof.
  intros Hp Hq (Hlp & Hbp & Hnp) (Hlq & Hbq & _). unfold CEC_MAX_MSG_SIZE in *.
  destruct (msg mq) as [|b0 lq] eqn:Eq; [done|].
  destruct (msg mp) as [|c0 lp] eqn:Ep; [done|].
  apply Forall_cons in Hbq as [Hb0 _]. apply Forall_cons in Hbp as [Hc0 Hbp].
  set (b := u8 (((b0 &&& 0xf) ≪ 4) ||| (b0 ≫ 4))).
  exists (upd_reply 0 (upd_timeout 0 (upd_msg (b :: lp) mp))). split.
  - enough (wp (cec_msg_set_reply_to p q) (fun _ h' => h' =
      <[p := upd_reply 0 (upd_timeout 0 (upd_msg (b :: lp) mp))]> h) h) as H.
    { apply wp_Some in H as ([] & h' & E & ->). done. }
    unfold cec_msg_set_reply_to. apply wp_bind. eapply wp_load; [exact Hq| |].
    { unfold cec_msg_destination. rewrite Eq. reflexivity. }
    apply wp_bind. eapply wp_load; [exact Hq| |].
    { unfold cec_msg_initiator. rewrite Eq. reflexivity. }
    apply wp_bind. eapply wp_at_loc; [exact Hp|].
    apply wp_set_byte; [rewrite Ep; simpl; lia|]. rewrite Ep.
    eapply wp_at_loc; [apply lookup_insert_eq|].
    apply wp_bind, wp_set_timeout, wp_set_reply. by rewrite insert_insert_eq.
  - unfold reply_header, cec_msg_initiator, cec_msg_destination. rewrite Eq. cbn.
    destruct (header_byte b0 Hb0) as [E1 E2]. fold b in E1, E2.
    rewrite E1, E2, Ep. split_and!; try done.
    unfold wf_msg, CEC_MAX_MSG_SIZE. cbn. split; [done|]. split; [|done].
    apply Forall_cons. split; [apply wrap_range; lia|done].
Qed.

(** [cec_msg_set_reply_to] addresses a message to the originator of another
    one: initiator and destination are those of the original exchanged, the
    reply and timeout fields are cleared, the rest of the frame is untouched;
    this also holds when both pointers designate the same message, and no other
    message changes. *)
Theorem set_reply_to_swaps p q (h : heap) mp mq :
  h !! p = Some mp -> h !! q = Some mq -> wf_msg mp -> wf_msg mq ->
  exists m', cec_msg_set_reply_to p q h = Some (tt, <[p := m']> h) /\ reply_header mq mp m'.
Proof. apply set_reply_to_run. Qed.

Lemma set_reply_to_swaps_witness :
  exists m', cec_msg_set_reply_to 1 1 {[ 1%positive := sample_msg ]} =
      Some (tt, <[1%positive := m']> {[ 1%positive := sample_msg ]}) /\
    reply_header sample_msg sample_msg m'.
Proof.
  apply set_reply_to_swaps; [vm_compute; reflexivity|vm_compute; reflexivity|
    exact sample_wf|exact sample_wf].
Defined.

(** [cec_msg_reply_feature_abort] turns a received message into a FEATURE
    ABORT to its sender that names the aborted opcode and the reason. *)
Theorem reply_feature_abort_spec p (h : heap) m b1 reason :
  h !! p = Some m -> wf_msg m -> rd (msg m) 1 = Some b1 -> is_u8 reason ->
  exists m', cec_msg_reply_feature_abort p reason h = Some (tt, <[p := m']> h) /\
    cec_msg_opcode m' = Some CEC_MSG_FEATURE_ABORT /\ len m' = 4 /\
    cec_ops_feature_abort m' = Some (b1, reason) /\
    cec_msg_initiator m' = cec_msg_destination m /\
    cec_msg_destination m' = cec_msg_initiator m /\
    drop 4 (msg m') = drop 4 (msg m).
Proof.
  intros Hp Hm Hb1 Hr. destruct (set_reply_to_run p p h m m) as (m1 & E & Hh); [done..|].
  destruct Hh as (Hi & Hd & _ & _ & _ & Htl & Hl1 & Hb & _).
  assert (is_u8 b1) as Hb1'.
  { destruct Hm as (_ & Hbm & _). rewrite Forall_lookup in Hbm. by apply (Hbm 1%nat). }
  unfold CEC_MAX_MSG_SIZE in *.
  assert (rd (msg m1) 1 = Some b1) as Hb1m.
  { destruct (msg m1) as [|x l1]; [done|]. destruct (msg m) as [|y l]; [done|].
    simpl in Htl. by subst. }
  exists (upd_msg (<[1%nat := u8 CEC_MSG_FEATURE_ABORT]> (<[3%nat := reason]>
    (<[2%nat := b1]> (msg m1)))) (upd_len 4 m1)). split.
  - unfold cec_msg_reply_feature_abort. unfold mbind at 1, st_bind at 1. rewrite E.
    enough (wp (at_loc p (set_len 4;; b1 ← get_byte 1; set_byte 2 b1;; set_byte 3 reason;;
      set_byte 1 CEC_MSG_FEATURE_ABORT)) (fun _ h' => h' = <[p := upd_msg
        (<[1%nat := u8 CEC_MSG_FEATURE_ABORT]> (<[3%nat := reason]> (<[2%nat := b1]> (msg m1))))
        (upd_len 4 m1)]> h) (<[p := m1]> h)) as H.
    { apply wp_Some in H as ([] & h' & -> & ->). done. }
    eapply wp_at_loc; [apply lookup_insert_eq|].
    apply wp_bind, wp_set_len, wp_bind. eapply wp_get_byte; [exact Hb1m|].
    repeat (try apply wp_bind; apply wp_set_byte; [cbn; rewrite ?length_insert; lia|]).
    rewrite insert_insert_eq, !u8_small by done. reflexivity.
  - destruct (msg m1) as [|x0 [|x1 [|x2 [|x3 l1]]]] eqn:E1; try done.
    destruct (msg m) as [|y0 [|y1 [|y2 [|y3 l]]]] eqn:E0; try done.
    simpl in Htl. injection Htl as -> -> -> ->.
    unfold cec_msg_initiator, cec_msg_destination in *. rewrite E0, E1 in *. cbn in *.
    rewrite !u8_small by (done || word_lia). split_and!; try done.
Qed.

Lemma reply_feature_abort_spec_witness :
  exists m', cec_msg_reply_feature_abort 1 4 {[ 1%positive := sample_msg ]} =
      Some (tt, <[1%positive := m']> {[ 1%positive := sample_msg ]}) /\
    cec_msg_opcode m' = Some CEC_MSG_FEATURE_ABORT /\ len m' = 4 /\
    cec_ops_feature_abort m' = Some (0, 4) /\
    cec_msg_initiator m' = cec_msg_destination sample_msg /\
    cec_msg_destination m' = cec_msg_initiator sample_msg /\
    drop 4 (msg m') = drop 4 (msg sample_msg).
Proof.
  apply reply_feature_abort_spec; [vm_compute; reflexivity|exact sample_wf|reflexivity|
    split; vm_compute; congruence].
Defined.

(** ** Status and device classes *)

Lemma land_pow2_eqb x k : 0 <= k -> ((x &&& 2 ^ k) =? 0) = negb (Z.testbit x k).
Proof.
  intros Hk. destruct (Z.testbit x k) eqn:E; simpl.
  - apply Z.eqb_neq. intros H. apply (f_equal (fun y => Z.testbit y k)) in H.
    rewrite Z.land_spec, E, Z.pow2_bits_true, Z.bits_0 in H by done. done.
  - apply Z.eqb_eq, Z.bits_inj_0. intros n. rewrite Z.land_spec.
    destruct (decide (n = k)) as [->|]; [by rewrite E|].
    rewrite Z.pow2_bits_false by congruence. apply andb_false_r.
Qed.

(** [cec_msg_status_is_ok] accepts a message exactly when something was
    transmitted or received, every part that happened has its OK bit (bit 0),
    and no feature abort (bit 2) was received. *)
Theorem status_is_ok_iff m :
  cec_msg_status_is_ok m = true <->
  (tx_status m <> 0 \/ rx_status m <> 0) /\
  (tx_status m <> 0 -> Z.testbit (tx_status m) 0 = true) /\
  (rx_status m <> 0 -> Z.testbit (rx_status m) 0 = true) /\
  Z.testbit (rx_status m) 2 = false.
Proof.
  unfold cec_msg_status_is_ok.
  change CEC_TX_STATUS_OK with (2 ^ 0). change CEC_RX_STATUS_OK with (2 ^ 0).
  change CEC_RX_STATUS_FEATURE_ABORT with (2 ^ 2). rewrite !land_pow2_eqb by lia.
  destruct (Z.eqb_spec (tx_status m) 0) as [->|]; destruct (Z.eqb_spec (rx_status m) 0) as [->|];
    cbn [negb andb]; destruct (Z.testbit _ 0) eqn:E0; cbn [negb];
    try destruct (Z.testbit (rx_status m) 0) eqn:E1; cbn [negb];
    try destruct (Z.testbit (rx_status m) 2) eqn:E2; cbn [negb]; intuition congruence.
Qed.

Lemma land_eqb_0 x a b : ((x &&& a) =? 0) && ((x &&& b) =? 0) = ((x &&& (a ||| b)) =? 0).
Proof.
  rewrite Z.land_lor_distr_r. apply eq_bool_prop_intro. rewrite andb_True, !Is_true_true, !Z.eqb_eq.
  symmetry. apply Z.lor_eq_0_iff.
Qed.

Lemma land_0xffff x : x &&& 0xffff = x mod 65536.
Proof. by apply (land_mask x 16). Qed.

(** The eight classes of logical addresses, in the order of [cec.h]. *)
Definition cec_classes (mask : Z) : list bool :=
  [cec_has_tv mask; cec_has_record mask; cec_has_tuner mask; cec_has_playback mask;
   cec_has_audiosystem mask; cec_has_backup mask; cec_has_specific mask;
   cec_is_unregistered mask].

(** The address classes partition the sixteen logical addresses: the mask of
    a single address is in exactly one class, and a mask is unconfigured exactly
    when it is in no class. *)
Theorem log_addr_classes_partition :
  (forall la, 0 <= la < 16 -> count_occ bool_dec (cec_classes (1 ≪ la)) true = 1%nat) /\
  (forall mask, is_u16 mask -> cec_is_unconfigured mask = negb (existsb id (cec_classes mask))).
Proof.
  split.
  - intros la Hla. apply Nat.eqb_eq.
    apply (forall_word_bool 4 (fun la =>
      Nat.eqb (count_occ bool_dec (cec_classes (1 ≪ la)) true) 1)); [vm_compute; reflexivity|].
    split; lia.
  - intros mask Hm. cbn [existsb cec_classes id].
    rewrite orb_false_r, !negb_orb.
    unfold cec_has_tv, cec_has_record, cec_has_tuner, cec_has_playback, cec_has_audiosystem,
      cec_has_backup, cec_has_specific, cec_is_unregistered, cec_is_unconfigured, id.
    rewrite !negb_involutive, !land_eqb_0.
    match goal with |- context [mask &&& ?all] =>
      let v := eval vm_compute in all in change all with v end.
    by rewrite land_0xffff, Z.mod_small.
Qed.

(** The four tests for special devices have an answer for every well-formed
    address configuration, and at most one of them is positive: a device is not
    both a second TV, a processor, a switch or a CDC-only device. *)
Theorem special_devices_exclusive las :
  wf_log_addrs las ->
  exists tv proc sw cdc,
    cec_is_2nd_tv las = Some tv /\ cec_is_processor las = Some proc /\
    cec_is_switch las = Some sw /\ cec_is_cdc_only las = Some cdc /\
    (count_occ bool_dec [tv; proc; sw; cdc] true <= 1)%nat.
Proof.
  intros [Hl Hp]. unfold CEC_MAX_LOG_ADDRS in *.
  unfold cec_is_2nd_tv, cec_is_processor, cec_is_switch, cec_is_cdc_only.
  destruct (log_addr las) as [|la ?]; [done|].
  destruct (primary_device_type las) as [|pd ?]; [done|]. cbn [rd lookup list_lookup mbind option_bind].
  assert (forall a b, and_then a (Some b) = Some (a && b)) as Ha by (by intros [] []).
  rewrite !Ha. do 4 eexists. split_and!; try reflexivity.
  unfold CEC_OP_PRIM_DEVTYPE_TV, CEC_OP_PRIM_DEVTYPE_PROCESSOR, CEC_OP_PRIM_DEVTYPE_SWITCH.
  destruct (negb (num_log_addrs las =? 0)), (num_log_addrs las =? 1),
    (CEC_LOG_ADDR_SPECIFIC <=? la), (CEC_LOG_ADDR_BACKUP_1 <=? la),
    (la =? CEC_LOG_ADDR_UNREGISTERED), (_ &&& _ =? 0);
    cbn [andb negb]; destruct (Z.eqb_spec pd 0), (Z.eqb_spec pd 7), (Z.eqb_spec pd 6);
    subst; try discriminate; cbn; lia.
Qed.

(** The sole address of a device registered as a switch. *)
Definition sample_switch : cec_log_addrs :=
  mk_cec_log_addrs [15; 0; 0; 0] 0x8000 6 1 0 0 [] [6; 0; 0; 0] [0; 0; 0; 0] [0; 0; 0; 0] [].

Lemma special_devices_exclusive_witness :
  cec_is_switch sample_switch = Some true /\
  exists tv proc sw cdc,
    cec_is_2nd_tv sample_switch = Some tv /\ cec_is_processor sample_switch = Some proc /\
    cec_is_switch sample_switch = Some sw /\ cec_is_cdc_only sample_switch = Some cdc /\
    (count_occ bool_dec [tv; proc; sw; cdc] true <= 1)%nat.
Proof.
  split; [vm_compute; reflexivity|].
  apply special_devices_exclusive. split; reflexivity.
Defined.

(** ** Digital services *)

(** The services that come back unchanged: channels with a major number below
    256, and DVB services, without a network under an ATSC system. *)
Definition survives (d : cec_op_digital_service_id) : Prop :=
  match service d with
  | U_channel c => major c < 256
  | U_dvb v => is_atsc_system (dig_bcast_system d) = true -> dvb_orig_network_id v = 0
  | U_arib _ | U_atsc _ => False
  end.

Lemma major_reread_iff ma :
  in_word 10 ma -> (((ma ≫ 8) ≪ 6) ||| (ma &&& 0xff)) = ma <-> ma < 256.
Proof.
  intros Hma. rewrite <- Z.eqb_eq, <- Z.ltb_lt.
  enough (((((ma ≫ 8) ≪ 6) ||| (ma &&& 0xff)) =? ma) = (ma <? 256)) as -> by done.
  apply eqb_prop.
  apply (forall_word_bool 10 (fun ma =>
    eqb ((((ma ≫ 8) ≪ 6) ||| (ma &&& 0xff)) =? ma) (ma <? 256)));
    [vm_compute; reflexivity|done].
Qed.

Lemma reread_survives d : representable d -> reread d = d <-> survives d.
Proof.
  destruct d as [me sy [[t s n]|[t p]|[t s n]|[f ma mi]]]; unfold reread, survives; cbn.
  - intros _. split; [congruence|done].
  - intros _. split; [congruence|done].
  - intros _. destruct (is_atsc_system sy); split; intros H; [congruence| |congruence|done].
    by rewrite H.
  - intros (_ & _ & _ & Hma & _). cbn in Hma.
    rewrite <- (major_reread_iff ma) by done. split; [congruence|]. by intros ->.
Qed.

(** Storing a digital service at any place of the payload that has room
    for its seven bytes, and reading it back, gives the service with the losses
    that [reread] describes, none exactly when it [survives]; the bytes around
    the seven are untouched. *)
Theorem digital_service_roundtrip d off m :
  readable d -> representable d -> (off + 7 <= length (msg m))%nat ->
  exists m', cec_set_digital_service_id off d m = Some (tt, m') /\
    cec_get_digital_service_id (msg m') off = Some (reread d) /\
    (reread d = d <-> survives d) /\
    take off (msg m') = take off (msg m) /\ drop (7 + off) (msg m') = drop (7 + off) (msg m).
Proof.
  intros Hr Hd Hl.
  set (l := take off (msg m) ++ (digital_byte d <$> seq 0 7) ++ drop (7 + off) (msg m)).
  assert (wp (cec_set_digital_service_id off d) (fun _ m' => m' = upd_msg l m) m) as H
    by (by apply wp_set_digital).
  apply wp_Some in H as ([] & m' & E & ->). exists (upd_msg l m). split; [exact E|].
  assert (length (take off (msg m)) = off) as Ht by (rewrite length_take; lia).
  split_and!; [|by apply reread_survives| |]; cbn [msg upd_msg]; unfold l.
  - apply get_digital_bytes; [done..|]. intros i Hi. unfold rd.
    rewrite lookup_app_r by lia. rewrite Ht.
    replace (i + off - off)%nat with i by lia.
    rewrite lookup_app_l by (rewrite length_fmap, length_seq; lia).
    rewrite list_lookup_fmap, lookup_seq_lt by lia. done.
  - rewrite take_app_le by lia. by rewrite take_ge by lia.
  - rewrite drop_app_ge by lia. rewrite Ht. replace (7 + off - off)%nat with 7%nat by lia.
    by rewrite drop_app_ge by (rewrite length_fmap, length_seq; lia).
Qed.

(** Channel 5-1 in the ATSC terrestrial system. *)
Definition sample_service : cec_op_digital_service_id :=
  mk_digital CEC_OP_SERVICE_ID_METHOD_BY_CHANNEL CEC_OP_DIG_SERVICE_BCAST_SYSTEM_ATSC_T
    (U_channel (Channel 2 5 1)).

Lemma digital_service_roundtrip_witness :
  exists m', cec_set_digital_service_id 3 sample_service sample_msg = Some (tt, m') /\
    cec_get_digital_service_id (msg m') 3 = Some (reread sample_service) /\
    (reread sample_service = sample_service <-> survives sample_service) /\
    take 3 (msg m') = take 3 (msg sample_msg) /\ drop 10 (msg m') = drop 10 (msg sample_msg).
Proof.
  apply digital_service_roundtrip; [by eexists|..|vm_compute; lia].
  repeat split; vm_compute; congruence.
Defined.

(** The reader of a digital service never reports a major channel number
    above 255, though the frame has ten bits for it and the writer fills them:
    whatever the payload, larger channel numbers are lost. *)
Theorem channel_major_truncated l off d c :
  Forall is_u8 l -> cec_get_digital_service_id l off = Some d -> service d = U_channel c ->
  major c <= 255.
Proof.
  intros Hl. unfold cec_get_digital_service_id. intros H Hc.
  destruct (rd l off) as [b0|] eqn:E0; [|done]. cbn [mbind option_bind] in H.
  destruct (rd l (1 + off)) as [b1|] eqn:E1; [|done]. cbn [mbind option_bind] in H.
  destruct (rd l (2 + off)) as [b2|] eqn:E2; [|done]. cbn [mbind option_bind] in H.
  destruct (rd l (3 + off)) as [b3|]; [|done]. cbn [mbind option_bind] in H.
  destruct (rd l (4 + off)) as [b4|]; [|done]. cbn [mbind option_bind] in H.
  destruct (_ =? _).
  - injection H as <-. cbn in Hc. injection Hc as <-. cbn.
    assert (is_u8 b2) by (rewrite Forall_lookup in Hl; exact (Hl _ _ E2)).
    assert (is_u8 (((b1 &&& 3) ≪ 6) ||| b2)) as Hb.
    { apply lor_range; [lia| |done]. rewrite land_0x3, shiftl_mul by lia.
      pose proof (Z.mod_pos_bound b1 4). word_lia. }
    rewrite wrap_small by word_lia. word_lia.
  - destruct (rd l (5 + off)); [|done]. cbn [mbind option_bind] in H.
    destruct (rd l (6 + off)); [|done]. cbn [mbind option_bind] in H.
    injection H as <-. discriminate Hc.
Qed.

(** Channel 300: the reader returns 108. *)
Definition channel_300 : list Z := [0x92; 0x09; 0x2c; 0; 1; 0; 0].

Lemma channel_major_truncated_witness :
  cec_get_digital_service_id channel_300 0 =
    Some (mk_digital 1 0x12 (U_channel (Channel 2 108 1))) /\ 108 <= 255.
Proof.
  split; [vm_compute; reflexivity|].
  apply (channel_major_truncated channel_300 0 (mk_digital 1 0x12 (U_channel (Channel 2 108 1)))
    (Channel 2 108 1)); [|vm_compute; reflexivity|reflexivity].
  repeat (apply Forall_cons_2; [split; vm_compute; congruence|]). apply Forall_nil_2.
Defined.

(** ** Text *)

Lemma read_cstring_prefix n s rest :
  string_ok s -> read_cstring (take n (cstring s) ++ 0 :: rest) = Some (take n s).
Proof.
  intros [Hb Hs]. unfold cstring. destruct (decide (n <= length s)%nat).
  - rewrite take_app_le by done. apply read_cstring_app. split; by apply Forall_take.
  - rewrite (take_ge s), (take_ge (s ++ [0])) by (rewrite ?length_app; simpl; lia).
    rewrite <- app_assoc. by apply read_cstring_app.
Qed.

(** A string of any length, encoded behind [off] bytes and clamped at [c]. *)
Lemma text_roundtrip off c l s out :
  length l = 16%nat -> (off + c = 16)%nat -> string_ok s -> (c < length out)%nat ->
  let n := Nat.min (length s) c in
  (memcpy out 0 (drop off (take off l ++ take n (cstring s) ++ drop (off + n) l)) n
     ≫= fun d => wr d n 0) ≫= read_cstring = Some (take c s).
Proof.
  intros Hl Hc Hs Ho n. assert (length (cstring s) = S (length s)) as Hcs
    by (unfold cstring; rewrite length_app; simpl; lia).
  rewrite copy_out by lia. cbn [mbind option_bind]. rewrite read_cstring_prefix by done.
  f_equal. unfold n. destruct (decide (length s <= c)%nat).
  - by rewrite !take_ge by lia.
  - by rewrite Nat.min_r by lia.
Qed.

Lemma min_text_len n c : Z.to_nat (Z.min (Z.of_nat n) (Z.of_nat c)) = Nat.min n c.
Proof. lia. Qed.

(** [cec_msg_set_osd_name] and [cec_ops_set_osd_name] transport the first
    fourteen bytes of a name of any length, through any buffer of at least
    fifteen bytes. *)
Theorem osd_name_truncated s buf m :
  string_ok s -> Z.of_nat (length s) < 2 ^ 32 -> wf_msg m -> (15 <= length buf)%nat ->
  exists m', cec_msg_set_osd_name (cstring s) m = Some (tt, m') /\
    cec_ops_set_osd_name m' buf ≫= read_cstring = Some (take 14 s).
Proof.
  intros Hs Hlen (Hl & _ & _) Hb. unfold CEC_MAX_MSG_SIZE in Hl.
  enough (wp (cec_msg_set_osd_name (cstring s))
    (fun _ m' => cec_ops_set_osd_name m' buf ≫= read_cstring = Some (take 14 s)) m) as H.
  { apply wp_Some in H as ([] & m' & ? & ?). eauto. }
  assert (length (cstring s) = S (length s)) as Hcs
    by (unfold cstring; rewrite length_app; simpl; lia).
  unfold cec_msg_set_osd_name. apply wp_bind. rewrite cstring_strlen by done. apply wp_ret.
  cbv zeta. rewrite clamp_min, u32_of_nat_small, (min_text_len _ 14) by done.
  repeat payload_step. unfold cec_ops_set_osd_name. cbn [len msg upd_len upd_msg].
  rewrite wrap_small by word_lia.
  rewrite payload_len, clamp_min, Z.min_l, (min_text_len _ 14) by lia. cbv zeta.
  apply (text_roundtrip 2 14); [by rewrite length_insert|done|done|lia].
Qed.

Lemma osd_name_truncated_witness :
  exists m', cec_msg_set_osd_name (cstring (replicate 20 0x41)) sample_msg = Some (tt, m') /\
    cec_ops_set_osd_name m' (replicate 15 0) ≫= read_cstring = Some (replicate 14 0x41).
Proof.
  apply (osd_name_truncated (replicate 20 0x41) (replicate 15 0) sample_msg);
    [split; apply Forall_replicate; [split; vm_compute; congruence|discriminate]|
     vm_compute; reflexivity|exact sample_wf|vm_compute; lia].
Defined.

(** The three decoders that copy text out terminate it within the frame's
    clamp, copy exactly the frame's text, and leave the rest of the caller's
    buffer alone, for any received message. *)
Theorem text_decoders_bounded m buf :
  wf_msg m -> (15 <= length buf)%nat ->
  (exists b, cec_ops_set_timer_program_title m buf = Some b /\ decoded_text 2 14 m buf b) /\
  (exists b, cec_ops_set_osd_name m buf = Some b /\ decoded_text 2 14 m buf b) /\
  (exists d b, cec_ops_set_osd_string m buf = Some (d, b) /\ rd (msg m) 2 = Some d /\
    decoded_text 3 13 m buf b).
Proof.
  intros H Hb. split; [by apply set_timer_program_title_decode|].
  split; [by apply set_osd_name_decode|apply set_osd_string_decode; [done|lia]].
Qed.

Lemma text_decoders_bounded_witness :
  (exists b, cec_ops_set_timer_program_title sample_msg (replicate 15 0) = Some b /\
    decoded_text 2 14 sample_msg (replicate 15 0) b) /\
  (exists b, cec_ops_set_osd_name sample_msg (replicate 15 0) = Some b /\
    decoded_text 2 14 sample_msg (replicate 15 0) b) /\
  (exists d b, cec_ops_set_osd_string sample_msg (replicate 15 0) = Some (d, b) /\
    rd (msg sample_msg) 2 = Some d /\ decoded_text 3 13 sample_msg (replicate 15 0) b).
Proof. apply text_decoders_bounded; [exact sample_wf|vm_compute; lia]. Defined.

(** ** Returned pointers *)

(** The size a vendor decoder returns for a frame with [k] bytes in front. *)
Lemma vendor_size k c (m : cec_msg) :
  0 <= k <= 5 -> k + c = 16 -> is_u32 (len m) ->
  let size := (if c <? u8 (u32 (len m - k)) then c else u8 (u32 (len m - k))) in
  0 <= size <= c /\ (k <= len m <= 16 -> size = len m - k) /\ (len m < k -> size = c).
Proof.
  intros Hk Hc Hm. cbv zeta. rewrite clamp_min.
  pose proof (wrap_range 8 (u32 (len m - k)) ltac:(lia)) as H8.
  split; [word_lia|]. split; intros Hlen.
  - rewrite (wrap_small 32) by word_lia. rewrite (wrap_small 8) by word_lia. lia.
  - assert (u32 (len m - k) = 2 ^ 32 + (len m - k)) as ->
      by (unfold wrap; rewrite <- (Z.mod_add _ 1) by done; rewrite Z.mod_small; word_lia).
    assert (u8 (2 ^ 32 + (len m - k)) = 256 + (len m - k)) as ->; [|word_lia].
    unfold wrap. replace (2 ^ 32 + (len m - k)) with (256 + (len m - k) + (2 ^ 24 - 1) * 2 ^ 8)
      by (change (2 ^ 32) with 4294967296; change (2 ^ 24) with 16777216;
          change (2 ^ 8) with 256; lia).
    rewrite Z.mod_add by done. apply Z.mod_small. word_lia.
Qed.

(** The (size, pointer) results of the vendor decoders designate bytes of
    the payload for every received message; the size is the number of bytes
    behind the header, except that a frame shorter than its header is reported
    as full (the length computation wraps). *)
Theorem vendor_payload_bounded m :
  wf_msg m ->
  (let '(size, p) := cec_ops_vendor_command m in
   0 <= size /\ Z.of_nat p + size <= 16 /\
   (2 <= len m <= 16 -> size = len m - 2) /\ (len m < 2 -> size = 14)) /\
  (let '(size, p) := cec_ops_vendor_remote_button_down m in
   0 <= size /\ Z.of_nat p + size <= 16 /\
   (2 <= len m <= 16 -> size = len m - 2) /\ (len m < 2 -> size = 14)) /\
  exists id size p, cec_ops_vendor_command_with_id m = Some (id, size, p) /\
   0 <= size /\ Z.of_nat p + size <= 16 /\
   (5 <= len m <= 16 -> size = len m - 5) /\ (len m < 5 -> size = 11).
Proof.
  intros (Hl & _ & Hm). unfold CEC_MAX_MSG_SIZE in Hl.
  destruct (vendor_size 2 14 m) as (H1 & H2 & H3); [lia..|done|].
  destruct (vendor_size 5 11 m) as (H4 & H5 & H6); [lia..|done|].
  unfold cec_ops_vendor_command, cec_ops_vendor_remote_button_down, cec_ops_vendor_command_with_id.
  cbv zeta. split; [|split].
  - split_and!; [lia|lia|done|done].
  - split_and!; [lia|lia|done|done].
  - destruct (lookup_lt_is_Some_2 (msg m) 2) as [b2 E2]; [lia|].
    destruct (lookup_lt_is_Some_2 (msg m) 3) as [b3 E3]; [lia|].
    destruct (lookup_lt_is_Some_2 (msg m) 4) as [b4 E4]; [lia|].
    unfold rd. rewrite E2, E3, E4. cbn [mbind option_bind]. do 3 eexists.
    split; [reflexivity|]. split_and!; [lia|lia|done|done].
Qed.

Lemma vendor_payload_bounded_witness :
  cec_ops_vendor_command sample_msg = (14, 2%nat) /\ 0 <= 14 /\ 2 + 14 <= 16.
Proof.
  pose proof (vendor_payload_bounded sample_msg sample_wf) as [H _].
  split; [vm_compute; reflexivity|]. split; [apply H|apply H].
Defined.

(** The decoder of REPORT FEATURES returns two null pointers when bytes 4
    to 14 all carry the extension bit; otherwise the profile pointer designates
    byte 4 and the device-features pointer the byte behind the first one without
    that bit, so both stay in the payload. The extension bits of the
    device-features bytes themselves play no part. *)
Theorem report_features_pointers m :
  wf_msg m ->
  exists v t q b, cec_ops_report_features m =
      Some (if (b &&& CEC_OP_FEAT_EXT) =? 0
            then (v, t, Some 4%nat, Some (q + 1)%nat) else (v, t, None, None)) /\
    rd (msg m) 2 = Some v /\ rd (msg m) 3 = Some t /\ rd (msg m) q = Some b /\
    (4 <= q <= 14)%nat /\
    (forall i c, (4 <= i < q)%nat -> msg m !! i = Some c -> c &&& CEC_OP_FEAT_EXT <> 0) /\
    ((q < 14)%nat -> b &&& CEC_OP_FEAT_EXT = 0).
Proof. apply report_features_decode. Qed.

(** One profile byte and device features that never end: no null pointer. *)
Definition endless_features : cec_msg :=
  mk_cec_msg 0 0 16 0 0 0 (0x4f :: 0xa6 :: 6 :: 0x10 :: 0x02 :: replicate 11 0x80) 0 0 0 0 0 0 0.

Lemma report_features_pointers_witness :
  cec_ops_report_features endless_features = Some (6, 0x10, Some 4%nat, Some 5%nat) /\
  exists v t q b, cec_ops_report_features endless_features =
      Some (if (b &&& CEC_OP_FEAT_EXT) =? 0
            then (v, t, Some 4%nat, Some (q + 1)%nat) else (v, t, None, None)) /\
    rd (msg endless_features) 2 = Some v /\ rd (msg endless_features) 3 = Some t /\
    rd (msg endless_features) q = Some b /\ (4 <= q <= 14)%nat /\
    (forall i c, (4 <= i < q)%nat -> msg endless_features !! i = Some c ->
      c &&& CEC_OP_FEAT_EXT <> 0) /\
    ((q < 14)%nat -> b &&& CEC_OP_FEAT_EXT = 0).
Proof.
  split; [vm_compute; reflexivity|]. apply report_features_pointers.
  split; [reflexivity|]. split; [|split; vm_compute; congruence].
  repeat (apply Forall_cons_2; [split; vm_compute; congruence|]). apply Forall_nil_2.
Defined.

(** ** Where encoder and decoder disagree *)

(** A HEC state report loses the encryption function state: what the
    decoder returns for it is the host function state, for any two-bit states. *)
Theorem hec_report_loses_enc_state target hec host enc err hf fld m :
  is_u16 target -> in_word 2 hec -> in_word 2 host -> in_word 2 enc -> in_word 2 err ->
  wf_msg m ->
  exists m' pa fld', cec_msg_cdc_hec_report_state target hec host enc err hf fld m = Some (tt, m') /\
    cec_ops_cdc_hec_report_state m' =
      Some (pa, target, hec, host, host, err, (if hf =? 0 then 0 else 1), fld').
Proof.
  intros Ht Hh Ho He Hr H.
  enough (wp (cec_msg_cdc_hec_report_state target hec host enc err hf fld) (fun _ m' =>
    exists pa fld', cec_ops_cdc_hec_report_state m' =
      Some (pa, target, hec, host, host, err, (if hf =? 0 then 0 else 1), fld')) m) as W.
  { apply wp_Some in W as ([] & m' & E & pa & fld' & ?). eauto. }
  destruct (hec_state_byte_fields hec host enc err) as (E1 & E2 & _ & E4); [done..|].
  unfold hec_state_byte in *. unfold cec_msg_cdc_hec_report_state.
  destruct (hf =? 0); cbn [negb]; open_msg m; run; unfold cec_ops_cdc_hec_report_state; cbn;
    rewrite E1, E2, E4; autorewrite with codec; eauto.
Qed.

Lemma hec_report_loses_enc_state_witness :
  exists m' pa fld', cec_msg_cdc_hec_report_state 0x1000 1 2 3 0 0 0 sample_msg = Some (tt, m') /\
    cec_ops_cdc_hec_report_state m' = Some (pa, 0x1000, 1, 2, 2, 0, 0, fld').
Proof.
  apply (hec_report_loses_enc_state 0x1000 1 2 3 0 0 0 sample_msg);
    [split; vm_compute; congruence..|exact sample_wf].
Defined.

(** A HEC SET STATE message carries the sub-opcode of HEC INQUIRE STATE: the
    frame is indistinguishable, by sub-opcode, from an inquiry about its first
    two addresses, which is how its receiver decodes it. *)
Theorem hec_set_state_sends_inquiry p1 p2 st p3 p4 p5 m :
  is_u16 p1 -> is_u16 p2 -> wf_msg m ->
  exists m' pa, cec_msg_cdc_hec_set_state p1 p2 st p3 p4 p5 m = Some (tt, m') /\
    rd (msg m') 4 = Some CEC_MSG_CDC_HEC_INQUIRE_STATE /\
    CEC_MSG_CDC_HEC_INQUIRE_STATE <> CEC_MSG_CDC_HEC_SET_STATE /\
    cec_ops_cdc_hec_inquire_state m' = Some (pa, p1, p2).
Proof.
  intros H1 H2 H.
  enough (wp (cec_msg_cdc_hec_set_state p1 p2 st p3 p4 p5) (fun _ m' =>
    exists pa, rd (msg m') 4 = Some CEC_MSG_CDC_HEC_INQUIRE_STATE /\
      cec_ops_cdc_hec_inquire_state m' = Some (pa, p1, p2)) m) as W.
  { apply wp_Some in W as ([] & m' & E & pa & ? & ?). exists m', pa. by repeat split. }
  unfold cec_msg_cdc_hec_set_state.
  destruct (p3 =? CEC_PHYS_ADDR_INVALID), (p4 =? CEC_PHYS_ADDR_INVALID),
    (p5 =? CEC_PHYS_ADDR_INVALID); cbn [negb]; open_msg m; run; eexists; (split; [reflexivity|]);
    solve_decode.
Qed.

Lemma hec_set_state_sends_inquiry_witness :
  exists m' pa, cec_msg_cdc_hec_set_state 0x1000 0x2000 1 0xffff 0xffff 0xffff sample_msg =
      Some (tt, m') /\
    rd (msg m') 4 = Some CEC_MSG_CDC_HEC_INQUIRE_STATE /\
    CEC_MSG_CDC_HEC_INQUIRE_STATE <> CEC_MSG_CDC_HEC_SET_STATE /\
    cec_ops_cdc_hec_inquire_state m' = Some (pa, 0x1000, 0x2000).
Proof.
  apply hec_set_state_sends_inquiry; [split; vm_compute; congruence..|exact sample_wf].
Defined.
