(* ===== verification/MediaInfo.v ===== *)
(** * Video buffer geometry

    [kernel-headers/media/msm_media_info.h]: the strides, scan lines, plane
    sizes and total size of a Venus video buffer for each colour format. The C
    code mixes [int] and [unsigned int]: unsigned operations wrap modulo 2^32
    here, and a signed operation that overflows has no result ([None]). *)
From S2P Require Import Prelude.

(** ** Formats *)

Inductive color_fmts : Type :=
| COLOR_FMT_NV12 | COLOR_FMT_NV21 | COLOR_FMT_NV12_MVTB | COLOR_FMT_NV12_UBWC
| COLOR_FMT_NV12_BPP10_UBWC | COLOR_FMT_RGBA8888 | COLOR_FMT_RGBA8888_UBWC
| COLOR_FMT_RGBA1010102_UBWC | COLOR_FMT_RGB565_UBWC | COLOR_FMT_P010_UBWC.

#[export] Instance color_fmts_eq_dec : EqDecision color_fmts.
Proof. solve_decision. Defined.

(** The functions take the format as an [int]; [None] is any value that is not
    an enumerator. *)
Abbreviation fmt := (option color_fmts).

(** ** Macros, at their two operand types *)

(** [MSM_MEDIA_ALIGN] on [unsigned int]. *)
Definition MSM_MEDIA_ALIGN (sz align : Z) : Z :=
  if negb ((align &&& (align - 1)) =? 0)
  then u32 (u32 (u32 (sz + align) - 1) / align * align)
  else u32 (u32 (sz + align) - 1) &&& u32 (Z.lnot (align - 1)).

(** [MSM_MEDIA_ALIGN] on [int]. *)
Definition MSM_MEDIA_ALIGN_int (sz align : Z) : option Z :=
  t ← int_val (sz + align);
  t ← int_val (t - 1);
  if negb ((align &&& (align - 1)) =? 0)
  then int_val (Z.quot t align * align)
  else Some (t &&& Z.lnot (align - 1)).

(** [MSM_MEDIA_ROUNDUP] on [int]. *)
Definition MSM_MEDIA_ROUNDUP (sz r : Z) : option Z :=
  t ← int_val (sz + (r - 1));
  Some (Z.quot t r).

Definition MSM_MEDIA_MAX (a b : Z) : Z := if b <? a then a else b.

(** ** Strides and scan lines *)

Definition VENUS_EXTRADATA_SIZE (width height : Z) : Z := 16 * 1024.

Definition VENUS_Y_STRIDE (color_fmt : fmt) (width : Z) : option Z :=
  if width =? 0 then Some 0 else
  match color_fmt with
  | Some (COLOR_FMT_NV21 | COLOR_FMT_NV12 | COLOR_FMT_NV12_MVTB | COLOR_FMT_NV12_UBWC) =>
      Some (MSM_MEDIA_ALIGN (u32 width) 128)
  | Some COLOR_FMT_NV12_BPP10_UBWC =>
      stride ← MSM_MEDIA_ALIGN_int width 192;
      Some (MSM_MEDIA_ALIGN (u32 (u32 stride * 4) / 3) 256)
  | Some COLOR_FMT_P010_UBWC =>
      w ← int_val (width * 2);
      Some (MSM_MEDIA_ALIGN (u32 w) 256)
  | _ => Some 0
  end.

Definition VENUS_UV_STRIDE (color_fmt : fmt) (width : Z) : option Z :=
  if width =? 0 then Some 0 else
  match color_fmt with
  | Some (COLOR_FMT_NV21 | COLOR_FMT_NV12 | COLOR_FMT_NV12_MVTB | COLOR_FMT_NV12_UBWC) =>
      Some (MSM_MEDIA_ALIGN (u32 width) 128)
  | Some COLOR_FMT_NV12_BPP10_UBWC =>
      stride ← MSM_MEDIA_ALIGN_int width 192;
      Some (MSM_MEDIA_ALIGN (u32 (u32 stride * 4) / 3) 256)
  | Some COLOR_FMT_P010_UBWC =>
      w ← int_val (width * 2);
      Some (MSM_MEDIA_ALIGN (u32 w) 256)
  | _ => Some 0
  end.

Definition VENUS_Y_SCANLINES (color_fmt : fmt) (height : Z) : Z :=
  if height =? 0 then 0 else
  match color_fmt with
  | Some (COLOR_FMT_NV21 | COLOR_FMT_NV12 | COLOR_FMT_NV12_MVTB | COLOR_FMT_NV12_UBWC) =>
      MSM_MEDIA_ALIGN (u32 height) 32
  | Some (COLOR_FMT_NV12_BPP10_UBWC | COLOR_FMT_P010_UBWC) => MSM_MEDIA_ALIGN (u32 height) 16
  | _ => 0
  end.

Definition VENUS_UV_SCANLINES (color_fmt : fmt) (height : Z) : Z :=
  if height =? 0 then 0 else
  match color_fmt with
  | Some (COLOR_FMT_NV21 | COLOR_FMT_NV12 | COLOR_FMT_NV12_MVTB | COLOR_FMT_NV12_BPP10_UBWC
         | COLOR_FMT_P010_UBWC) => MSM_MEDIA_ALIGN (u32 (Z.quot height 2)) 16
  | Some COLOR_FMT_NV12_UBWC => MSM_MEDIA_ALIGN (u32 (Z.quot height 2)) 32
  | _ => 0
  end.

(** The common tail of the metadata functions: [ROUNDUP] by the tile size, then
    [ALIGN], in [int]; the [unsigned int] result. *)
Definition meta_dim (n tile align : Z) : option Z :=
  v ← MSM_MEDIA_ROUNDUP n tile;
  v ← MSM_MEDIA_ALIGN_int v align;
  Some (u32 v).

Definition VENUS_Y_META_STRIDE (color_fmt : fmt) (width : Z) : option Z :=
  if width =? 0 then Some 0 else
  match color_fmt with
  | Some (COLOR_FMT_NV12_UBWC | COLOR_FMT_P010_UBWC) => meta_dim width 32 64
  | Some COLOR_FMT_NV12_BPP10_UBWC => meta_dim width 48 64
  | _ => Some 0
  end.

Definition VENUS_Y_META_SCANLINES (color_fmt : fmt) (height : Z) : option Z :=
  if height =? 0 then Some 0 else
  match color_fmt with
  | Some COLOR_FMT_NV12_UBWC => meta_dim height 8 16
  | Some (COLOR_FMT_NV12_BPP10_UBWC | COLOR_FMT_P010_UBWC) => meta_dim height 4 16
  | _ => Some 0
  end.

Definition VENUS_UV_META_STRIDE (color_fmt : fmt) (width : Z) : option Z :=
  if width =? 0 then Some 0 else
  match color_fmt with
  | Some (COLOR_FMT_NV12_UBWC | COLOR_FMT_P010_UBWC) => meta_dim (Z.quot width 2) 16 64
  | Some COLOR_FMT_NV12_BPP10_UBWC => meta_dim (Z.quot width 2) 24 64
  | _ => Some 0
  end.

Definition VENUS_UV_META_SCANLINES (color_fmt : fmt) (height : Z) : option Z :=
  if height =? 0 then Some 0 else
  match color_fmt with
  | Some COLOR_FMT_NV12_UBWC => meta_dim (Z.quot height 2) 8 16
  | Some (COLOR_FMT_NV12_BPP10_UBWC | COLOR_FMT_P010_UBWC) => meta_dim (Z.quot height 2) 4 16
  | _ => Some 0
  end.

Definition VENUS_RGB_STRIDE (color_fmt : fmt) (width : Z) : Z :=
  if width =? 0 then 0 else
  match color_fmt with
  | Some COLOR_FMT_RGBA8888 => MSM_MEDIA_ALIGN (u32 (u32 width * 4)) 128
  | Some COLOR_FMT_RGB565_UBWC => MSM_MEDIA_ALIGN (u32 (u32 width * 2)) 128
  | Some (COLOR_FMT_RGBA8888_UBWC | COLOR_FMT_RGBA1010102_UBWC) =>
      MSM_MEDIA_ALIGN (u32 (u32 width * 4)) 256
  | _ => 0
  end.

Definition VENUS_RGB_SCANLINES (color_fmt : fmt) (height : Z) : Z :=
  if height =? 0 then 0 else
  match color_fmt with
  | Some COLOR_FMT_RGBA8888 => MSM_MEDIA_ALIGN (u32 height) 32
  | Some (COLOR_FMT_RGBA8888_UBWC | COLOR_FMT_RGBA1010102_UBWC | COLOR_FMT_RGB565_UBWC) =>
      MSM_MEDIA_ALIGN (u32 height) 16
  | _ => 0
  end.

Definition VENUS_RGB_META_STRIDE (color_fmt : fmt) (width : Z) : option Z :=
  if width =? 0 then Some 0 else
  match color_fmt with
  | Some (COLOR_FMT_RGBA8888_UBWC | COLOR_FMT_RGBA1010102_UBWC | COLOR_FMT_RGB565_UBWC) =>
      meta_dim width 16 64
  | _ => Some 0
  end.

Definition VENUS_RGB_META_SCANLINES (color_fmt : fmt) (height : Z) : option Z :=
  if height =? 0 then Some 0 else
  match color_fmt with
  | Some (COLOR_FMT_RGBA8888_UBWC | COLOR_FMT_RGBA1010102_UBWC | COLOR_FMT_RGB565_UBWC) =>
      meta_dim height 4 16
  | _ => Some 0
  end.

(** ** Buffers *)

Definition VENUS_BUFFER_SIZE (color_fmt : fmt) (width height : Z) : option Z :=
  let extra_size := VENUS_EXTRADATA_SIZE width height in
  if (width =? 0) || (height =? 0) then Some 0 else
  y_stride ← VENUS_Y_STRIDE color_fmt width;
  uv_stride ← VENUS_UV_STRIDE color_fmt width;
  let y_sclines := VENUS_Y_SCANLINES color_fmt height in
  let uv_sclines := VENUS_UV_SCANLINES color_fmt height in
  let rgb_stride := VENUS_RGB_STRIDE color_fmt width in
  let rgb_scanlines := VENUS_RGB_SCANLINES color_fmt height in
  match color_fmt with
  | Some (COLOR_FMT_NV21 | COLOR_FMT_NV12) =>
      let y_plane := u32 (y_stride * y_sclines) in
      let uv_plane := u32 (u32 (uv_stride * uv_sclines) + 4096) in
      let size := u32 (u32 (y_plane + uv_plane) +
                       MSM_MEDIA_MAX extra_size (u32 (8 * y_stride))) in
      Some (MSM_MEDIA_ALIGN size 4096)
  | Some COLOR_FMT_NV12_MVTB =>
      let y_plane := u32 (y_stride * y_sclines) in
      let uv_plane := u32 (u32 (uv_stride * uv_sclines) + 4096) in
      let size := u32 (y_plane + uv_plane) in
      let size := u32 (u32 (2 * size) + extra_size) in
      Some (MSM_MEDIA_ALIGN size 4096)
  | Some (COLOR_FMT_NV12_UBWC | COLOR_FMT_NV12_BPP10_UBWC) =>
      let y_ubwc_plane := MSM_MEDIA_ALIGN (u32 (y_stride * y_sclines)) 4096 in
      let uv_ubwc_plane := MSM_MEDIA_ALIGN (u32 (uv_stride * uv_sclines)) 4096 in
      y_meta_stride ← VENUS_Y_META_STRIDE color_fmt width;
      y_meta_scanlines ← VENUS_Y_META_SCANLINES color_fmt height;
      let y_meta_plane := MSM_MEDIA_ALIGN (u32 (y_meta_stride * y_meta_scanlines)) 4096 in
      uv_meta_stride ← VENUS_UV_META_STRIDE color_fmt width;
      uv_meta_scanlines ← VENUS_UV_META_SCANLINES color_fmt height;
      let uv_meta_plane := MSM_MEDIA_ALIGN (u32 (uv_meta_stride * uv_meta_scanlines)) 4096 in
      let size := u32 (u32 (u32 (u32 (y_ubwc_plane + uv_ubwc_plane) + y_meta_plane) +
                            uv_meta_plane) +
                       MSM_MEDIA_MAX extra_size (u32 (64 * y_stride))) in
      Some (MSM_MEDIA_ALIGN size 4096)
  | Some COLOR_FMT_P010_UBWC =>
      let y_ubwc_plane := MSM_MEDIA_ALIGN (u32 (y_stride * y_sclines)) 4096 in
      let uv_ubwc_plane := MSM_MEDIA_ALIGN (u32 (uv_stride * uv_sclines)) 4096 in
      y_meta_stride ← VENUS_Y_META_STRIDE color_fmt width;
      y_meta_scanlines ← VENUS_Y_META_SCANLINES color_fmt height;
      let y_meta_plane := MSM_MEDIA_ALIGN (u32 (y_meta_stride * y_meta_scanlines)) 4096 in
      uv_meta_stride ← VENUS_UV_META_STRIDE color_fmt width;
      uv_meta_scanlines ← VENUS_UV_META_SCANLINES color_fmt height;
      let uv_meta_plane := MSM_MEDIA_ALIGN (u32 (uv_meta_stride * uv_meta_scanlines)) 4096 in
      let size := u32 (u32 (u32 (y_ubwc_plane + uv_ubwc_plane) + y_meta_plane) +
                       uv_meta_plane) in
      Some (MSM_MEDIA_ALIGN size 4096)
  | Some COLOR_FMT_RGBA8888 =>
      let rgb_plane := MSM_MEDIA_ALIGN (u32 (rgb_stride * rgb_scanlines)) 4096 in
      Some (MSM_MEDIA_ALIGN rgb_plane 4096)
  | Some COLOR_FMT_RGBA8888_UBWC =>
      let rgb_ubwc_plane := MSM_MEDIA_ALIGN (u32 (rgb_stride * rgb_scanlines)) 4096 in
      rgb_meta_stride ← VENUS_RGB_META_STRIDE color_fmt width;
      rgb_meta_scanlines ← VENUS_RGB_META_SCANLINES color_fmt height;
      let rgb_meta_plane := MSM_MEDIA_ALIGN (u32 (rgb_meta_stride * rgb_meta_scanlines)) 4096 in
      let size := u32 (rgb_ubwc_plane + rgb_meta_plane) in
      Some (MSM_MEDIA_ALIGN size 4096)
  | _ => Some 0
  end.

Definition VENUS_VIEW2_OFFSET (color_fmt : fmt) (width height : Z) : option Z :=
  if (width =? 0) || (height =? 0) then Some 0 else
  y_stride ← VENUS_Y_STRIDE color_fmt width;
  uv_stride ← VENUS_UV_STRIDE color_fmt width;
  let y_sclines := VENUS_Y_SCANLINES color_fmt height in
  let uv_sclines := VENUS_UV_SCANLINES color_fmt height in
  match color_fmt with
  | Some COLOR_FMT_NV12_MVTB =>
      let y_plane := u32 (y_stride * y_sclines) in
      let uv_plane := u32 (uv_stride * uv_sclines) in
      Some (u32 (y_plane + uv_plane))
  | _ => Some 0
  end.

Example buffer_1080p : VENUS_BUFFER_SIZE (Some COLOR_FMT_NV12) 1920 1080 = Some 3153920.
Proof. vm_compute. reflexivity. Qed.

(** ** Alignment *)

(** A power of two, by the bit test of the macro. *)
Lemma pow2_test a : 0 < a -> (a &&& (a - 1) = 0 <-> a = 2 ^ Z.log2 a).
Proof.
  intros Ha. pose proof (Z.log2_spec a Ha) as [Hl Hu]. split.
  - intros H. destruct (decide (a = 2 ^ Z.log2 a)) as [|Hne]; [done|].
    assert (a <> 1) by (intros ->; by apply Hne).
    assert (Z.testbit (a &&& (a - 1)) (Z.log2 a) = true) as Hb.
    { rewrite Z.land_spec, Z.bit_log2 by done.
      replace (Z.log2 a) with (Z.log2 (a - 1)); [rewrite Z.bit_log2; [done|lia]|].
      apply Z.log2_unique; [apply Z.log2_nonneg|lia]. }
    by rewrite H, Z.bits_0 in Hb.
  - intros ->. set (k := Z.log2 a). rewrite land_mask by apply Z.log2_nonneg.
    apply Z.mod_same. pose proof (Z.pow_pos_nonneg 2 k). unfold k in *.
    pose proof (Z.log2_nonneg a). lia.
Qed.

(** Clearing the low [k] bits of a 32-bit word. *)
Lemma clear_low x k :
  0 <= k <= 32 -> is_u32 x -> x &&& u32 (Z.lnot (2 ^ k - 1)) = x / 2 ^ k * 2 ^ k.
Proof.
  intros Hk Hx. rewrite <- Z.shiftr_div_pow2, <- Z.shiftl_mul_pow2 by lia.
  apply Z.bits_inj'. intros n Hn. rewrite Z.land_spec.
  replace (2 ^ k - 1) with (Z.ones k) by (rewrite Z.ones_equiv; lia).
  destruct (decide (n < 32)).
  - unfold wrap. rewrite Z.mod_pow2_bits_low, Z.lnot_spec by lia.
    rewrite Z.testbit_ones_nonneg by lia. rewrite Z.shiftl_spec by lia.
    destruct (Z.ltb_spec n k); cbn [negb].
    + rewrite andb_false_r, Z.testbit_neg_r by lia. done.
    + rewrite andb_true_r, Z.shiftr_spec by lia. f_equal. lia.
  - rewrite (testbit_high 32 x), Z.shiftl_spec by (done || lia). cbn [andb]. symmetry.
    rewrite Z.shiftr_spec by lia. apply (testbit_high 32); [done|lia].
Qed.

(** Both branches of the macro compute the same function. *)
Lemma MSM_MEDIA_ALIGN_div sz al :
  0 < al < 2 ^ 32 -> MSM_MEDIA_ALIGN sz al = u32 (sz + al - 1) / al * al.
Proof.
  intros Hal. unfold MSM_MEDIA_ALIGN.
  replace (u32 (u32 (sz + al) - 1)) with (u32 (sz + al - 1))
    by (unfold wrap; by rewrite Zminus_mod_idemp_l).
  pose proof (wrap_range 32 (sz + al - 1) ltac:(lia)) as Hr.
  destruct (Z.eqb_spec (al &&& (al - 1)) 0) as [E|E]; cbn [negb].
  - apply pow2_test in E; [|lia]. pose proof (Z.log2_nonneg al).
    assert (Z.log2 al <= 32) by (apply Z.lt_le_incl, Z.log2_lt_pow2; lia).
    rewrite E. apply clear_low; [lia|]. by rewrite <- E.
  - apply wrap_small. unfold in_word in *.
    pose proof (Z.mul_div_le (u32 (sz + al - 1)) al). pose proof (Z.div_pos (u32 (sz + al - 1)) al).
    nia.
Qed.

Lemma align_div_bounds sz al :
  0 < al -> sz <= (sz + al - 1) / al * al < sz + al /\ (al | (sz + al - 1) / al * al).
Proof.
  intros. split; [|apply Z.divide_factor_r].
  pose proof (Z.div_mod (sz + al - 1) al). pose proof (Z.mod_pos_bound (sz + al - 1) al). lia.
Qed.

Lemma MSM_MEDIA_ALIGN_bounds sz al :
  0 < al < 2 ^ 32 -> 0 <= sz -> sz + al <= 2 ^ 32 ->
  sz <= MSM_MEDIA_ALIGN sz al < sz + al /\ (al | MSM_MEDIA_ALIGN sz al).
Proof.
  intros Hal Hs Hb. rewrite MSM_MEDIA_ALIGN_div by done.
  rewrite wrap_small by (unfold in_word; lia). apply align_div_bounds. lia.
Qed.

Lemma MSM_MEDIA_ALIGN_range sz al : 0 < al < 2 ^ 32 -> is_u32 (MSM_MEDIA_ALIGN sz al).
Proof.
  intros Hal. rewrite MSM_MEDIA_ALIGN_div by done.
  pose proof (wrap_range 32 (sz + al - 1) ltac:(lia)) as Hr. unfold in_word in *.
  pose proof (Z.mul_div_le (u32 (sz + al - 1)) al). pose proof (Z.div_pos (u32 (sz + al - 1)) al).
  nia.
Qed.

Lemma MSM_MEDIA_ALIGN_divide sz al : 0 < al < 2 ^ 32 -> (al | MSM_MEDIA_ALIGN sz al).
Proof. intros. rewrite MSM_MEDIA_ALIGN_div by done. apply Z.divide_factor_r. Qed.

Lemma MSM_MEDIA_ALIGN_int_div sz al :
  0 < al < 2 ^ 30 -> 0 <= sz < 2 ^ 30 ->
  MSM_MEDIA_ALIGN_int sz al = Some ((sz + al - 1) / al * al).
Proof.
  intros Ha Hs. unfold MSM_MEDIA_ALIGN_int.
  rewrite int_val_Some by (unfold in_s32; lia). cbn [mbind option_bind].
  rewrite int_val_Some by (unfold in_s32; lia). cbn [mbind option_bind].
  pose proof (align_div_bounds sz al ltac:(lia)) as [Hb _].
  destruct (Z.eqb_spec (al &&& (al - 1)) 0) as [E|E]; cbn [negb].
  - f_equal. apply pow2_test in E; [|lia]. pose proof (Z.log2_nonneg al). rewrite E.
    rewrite <- (wrap_small 32 (sz + _ - 1)) at 1 by (rewrite <- E; unfold in_word; lia).
    assert (Z.log2 al <= 32) by (apply Z.lt_le_incl, Z.log2_lt_pow2; lia).
    rewrite <- clear_low by (lia || rewrite <- E; unfold in_word; lia).
    rewrite wrap_small by (rewrite <- E; unfold in_word; lia).
    apply Z.bits_inj'. intros n Hn. rewrite !Z.land_spec.
    destruct (decide (n < 32)).
    + unfold wrap. by rewrite Z.mod_pow2_bits_low.
    + by rewrite (testbit_high 32 (sz + _ - 1)) by (rewrite <- ?E; unfold in_word; lia).
  - rewrite Z.quot_div_nonneg by lia. apply int_val_Some. unfold in_s32. lia.
Qed.

Lemma meta_dim_div n tile al :
  0 < tile < 2 ^ 10 -> 0 < al < 2 ^ 10 -> 0 <= n < 2 ^ 29 ->
  meta_dim n tile al = Some (((n + tile - 1) / tile + al - 1) / al * al).
Proof.
  intros Ht Ha Hn. unfold meta_dim, MSM_MEDIA_ROUNDUP.
  rewrite int_val_Some by (unfold in_s32; lia). cbn [mbind option_bind].
  rewrite Z.quot_div_nonneg by lia.
  replace (n + (tile - 1)) with (n + tile - 1) by lia.
  assert (0 <= (n + tile - 1) / tile < 2 ^ 30) as Hq.
  { split; [apply Z.div_pos; lia|]. apply Z.div_lt_upper_bound; lia. }
  rewrite MSM_MEDIA_ALIGN_int_div by lia. cbn [mbind option_bind]. f_equal.
  apply wrap_small. pose proof (align_div_bounds ((n + tile - 1) / tile) al ltac:(lia)) as [? _].
  unfold in_word. lia.
Qed.

(** ** The same geometry in unbounded arithmetic *)

Definition align_up (n a : Z) : Z := (n + a - 1) / a * a.

Definition spec_y_stride (f : color_fmts) (w : Z) : Z :=
  match f with
  | COLOR_FMT_NV21 | COLOR_FMT_NV12 | COLOR_FMT_NV12_MVTB | COLOR_FMT_NV12_UBWC => align_up w 128
  | COLOR_FMT_NV12_BPP10_UBWC => align_up (align_up w 192 * 4 / 3) 256
  | COLOR_FMT_P010_UBWC => align_up (w * 2) 256
  | _ => 0
  end.

Definition spec_y_sclines (f : color_fmts) (h : Z) : Z :=
  match f with
  | COLOR_FMT_NV21 | COLOR_FMT_NV12 | COLOR_FMT_NV12_MVTB | COLOR_FMT_NV12_UBWC => align_up h 32
  | COLOR_FMT_NV12_BPP10_UBWC | COLOR_FMT_P010_UBWC => align_up h 16
  | _ => 0
  end.

Definition spec_uv_sclines (f : color_fmts) (h : Z) : Z :=
  match f with
  | COLOR_FMT_NV12_UBWC => align_up (h / 2) 32
  | COLOR_FMT_NV21 | COLOR_FMT_NV12 | COLOR_FMT_NV12_MVTB | COLOR_FMT_NV12_BPP10_UBWC
  | COLOR_FMT_P010_UBWC => align_up (h / 2) 16
  | _ => 0
  end.

Definition spec_rgb_stride (f : color_fmts) (w : Z) : Z :=
  match f with
  | COLOR_FMT_RGBA8888 => align_up (w * 4) 128
  | COLOR_FMT_RGB565_UBWC => align_up (w * 2) 128
  | COLOR_FMT_RGBA8888_UBWC | COLOR_FMT_RGBA1010102_UBWC => align_up (w * 4) 256
  | _ => 0
  end.

Definition spec_rgb_scanlines (f : color_fmts) (h : Z) : Z :=
  match f with
  | COLOR_FMT_RGBA8888 => align_up h 32
  | COLOR_FMT_RGBA8888_UBWC | COLOR_FMT_RGBA1010102_UBWC | COLOR_FMT_RGB565_UBWC => align_up h 16
  | _ => 0
  end.

(** Tiles of a plane: width and height of a tile, and its metadata plane. *)
Definition tiles (n tile al : Z) : Z := align_up ((n + tile - 1) / tile) al.

Definition spec_y_meta (f : color_fmts) (w h : Z) : Z :=
  match f with
  | COLOR_FMT_NV12_UBWC => tiles w 32 64 * tiles h 8 16
  | COLOR_FMT_NV12_BPP10_UBWC => tiles w 48 64 * tiles h 4 16
  | COLOR_FMT_P010_UBWC => tiles w 32 64 * tiles h 4 16
  | _ => 0
  end.

Definition spec_uv_meta (f : color_fmts) (w h : Z) : Z :=
  match f with
  | COLOR_FMT_NV12_UBWC => tiles (w / 2) 16 64 * tiles (h / 2) 8 16
  | COLOR_FMT_NV12_BPP10_UBWC => tiles (w / 2) 24 64 * tiles (h / 2) 4 16
  | COLOR_FMT_P010_UBWC => tiles (w / 2) 16 64 * tiles (h / 2) 4 16
  | _ => 0
  end.

(** The bytes the code adds up before it rounds to pages. *)
Definition spec_need (f : color_fmts) (w h : Z) : Z :=
  let ys := spec_y_stride f w in
  let y := ys * spec_y_sclines f h in
  let uv := ys * spec_uv_sclines f h in
  let rgb := spec_rgb_stride f w * spec_rgb_scanlines f h in
  match f with
  | COLOR_FMT_NV21 | COLOR_FMT_NV12 => y + uv + 4096 + Z.max 16384 (8 * ys)
  | COLOR_FMT_NV12_MVTB => 2 * (y + uv + 4096) + 16384
  | COLOR_FMT_NV12_UBWC | COLOR_FMT_NV12_BPP10_UBWC =>
      align_up y 4096 + align_up uv 4096 + align_up (spec_y_meta f w h) 4096 +
      align_up (spec_uv_meta f w h) 4096 + Z.max 16384 (64 * ys)
  | COLOR_FMT_P010_UBWC =>
      align_up y 4096 + align_up uv 4096 + align_up (spec_y_meta f w h) 4096 +
      align_up (spec_uv_meta f w h) 4096
  | COLOR_FMT_RGBA8888 => align_up rgb 4096
  | COLOR_FMT_RGBA8888_UBWC =>
      align_up rgb 4096 + align_up (tiles w 16 64 * tiles h 4 16) 4096
  | COLOR_FMT_RGBA1010102_UBWC | COLOR_FMT_RGB565_UBWC => 0
  end.

(** Picture sizes for which no intermediate result wraps. *)
Definition dims_ok (w h : Z) : Prop := 0 < w <= 16384 /\ 0 < h <= 16384.

Lemma align_up_bounds n a : 0 < a -> n <= align_up n a < n + a /\ (a | align_up n a).
Proof. apply align_div_bounds. Qed.

Lemma MSM_MEDIA_ALIGN_exact sz al :
  0 < al < 2 ^ 32 -> 0 <= sz -> sz + al <= 2 ^ 32 -> MSM_MEDIA_ALIGN sz al = align_up sz al.
Proof.
  intros. rewrite MSM_MEDIA_ALIGN_div, wrap_small by (unfold in_word; lia). done.
Qed.

Lemma u32_exact x : 0 <= x < 2 ^ 32 -> u32 x = x.
Proof. apply wrap_small. Qed.

Lemma MAX_max a b : MSM_MEDIA_MAX a b = Z.max a b.
Proof. unfold MSM_MEDIA_MAX. destruct (Z.ltb_spec b a); lia. Qed.

(** Removes wraps and alignments whose arguments are in range. *)
Ltac unwrap :=
  repeat match goal with
  | |- context [u32 ?x] => rewrite (u32_exact x) by lia
  | |- context [MSM_MEDIA_ALIGN ?x ?a] => rewrite (MSM_MEDIA_ALIGN_exact x a) by lia
  end.

Lemma y_stride_exact f w :
  0 < w <= 16384 ->
  VENUS_Y_STRIDE (Some f) w = Some (spec_y_stride f w) /\ 0 <= spec_y_stride f w <= 32768.
Proof.
  intros Hw. unfold VENUS_Y_STRIDE, spec_y_stride. rewrite (proj2 (Z.eqb_neq w 0)) by lia.
  pose proof (align_up_bounds w 128 ltac:(lia)) as [H1 _].
  pose proof (align_up_bounds w 192 ltac:(lia)) as [H2 _].
  pose proof (align_up_bounds (align_up w 192 * 4 / 3) 256 ltac:(lia)) as [H3 _].
  pose proof (align_up_bounds (w * 2) 256 ltac:(lia)) as [H4 [k Hk]].
  destruct f; try (split; [done|lia]); unwrap; try (split; [done|lia]).
  - rewrite MSM_MEDIA_ALIGN_int_div by lia. cbn [mbind option_bind].
    fold (align_up w 192). unwrap.
    assert (0 <= align_up w 192 * 4 / 3 <= 22101)
      by (Z.to_euclidean_division_equations; lia).
    unwrap. split; [done|]. lia.
  - rewrite int_val_Some by (unfold in_s32; lia). cbn [mbind option_bind].
    unwrap. split; [done|]. lia.
Qed.

Lemma uv_stride_same f w : VENUS_UV_STRIDE f w = VENUS_Y_STRIDE f w.
Proof. done. Qed.

Lemma y_sclines_exact f h :
  0 < h <= 16384 ->
  VENUS_Y_SCANLINES (Some f) h = spec_y_sclines f h /\ 0 <= spec_y_sclines f h <= 16384 + 32.
Proof.
  intros Hh. unfold VENUS_Y_SCANLINES, spec_y_sclines. rewrite (proj2 (Z.eqb_neq h 0)) by lia.
  pose proof (align_up_bounds h 32 ltac:(lia)) as [H1 _].
  pose proof (align_up_bounds h 16 ltac:(lia)) as [H2 _].
  destruct f; unwrap; split; done || lia.
Qed.

Lemma uv_sclines_exact f h :
  0 < h <= 16384 ->
  VENUS_UV_SCANLINES (Some f) h = spec_uv_sclines f h /\ 0 <= spec_uv_sclines f h <= 8192 + 32.
Proof.
  intros Hh. unfold VENUS_UV_SCANLINES, spec_uv_sclines. rewrite (proj2 (Z.eqb_neq h 0)) by lia.
  rewrite Z.quot_div_nonneg by lia.
  assert (0 <= h / 2 <= 8192) by (Z.to_euclidean_division_equations; lia).
  pose proof (align_up_bounds (h / 2) 32 ltac:(lia)) as [H1 _].
  pose proof (align_up_bounds (h / 2) 16 ltac:(lia)) as [H2 _].
  destruct f; unwrap; split; done || lia.
Qed.

Lemma rgb_stride_exact f w :
  0 < w <= 16384 ->
  VENUS_RGB_STRIDE (Some f) w = spec_rgb_stride f w /\ 0 <= spec_rgb_stride f w <= 65536 + 256.
Proof.
  intros Hw. unfold VENUS_RGB_STRIDE, spec_rgb_stride. rewrite (proj2 (Z.eqb_neq w 0)) by lia.
  pose proof (align_up_bounds (w * 4) 128 ltac:(lia)) as [H1 _].
  pose proof (align_up_bounds (w * 2) 128 ltac:(lia)) as [H2 _].
  pose proof (align_up_bounds (w * 4) 256 ltac:(lia)) as [H3 _].
  destruct f; unwrap; split; done || lia.
Qed.

Lemma rgb_scanlines_exact f h :
  0 < h <= 16384 ->
  VENUS_RGB_SCANLINES (Some f) h = spec_rgb_scanlines f h /\
  0 <= spec_rgb_scanlines f h <= 16384 + 32.
Proof.
  intros Hh. unfold VENUS_RGB_SCANLINES, spec_rgb_scanlines.
  rewrite (proj2 (Z.eqb_neq h 0)) by lia.
  pose proof (align_up_bounds h 32 ltac:(lia)) as [H1 _].
  pose proof (align_up_bounds h 16 ltac:(lia)) as [H2 _].
  destruct f; unwrap; split; done || lia.
Qed.

Lemma tiles_exact n tile al :
  4 <= tile < 2 ^ 10 -> 0 < al <= 64 -> 0 <= n <= 16384 ->
  meta_dim n tile al = Some (tiles n tile al) /\ 0 <= tiles n tile al <= 4096 + 64.
Proof.
  intros Ht Ha Hn. rewrite meta_dim_div by lia. split; [done|]. unfold tiles.
  assert (0 <= (n + tile - 1) / tile <= 4096).
  { split; [apply Z.div_pos; lia|].
    apply Z.lt_succ_r, Z.div_lt_upper_bound; nia. }
  pose proof (align_up_bounds ((n + tile - 1) / tile) al ltac:(lia)) as [? _]. lia.
Qed.

(** ** Buffer sizes *)

(** Products of dimensions stay far below 2^32. *)
Lemma mul_bound a b A B : 0 <= a <= A -> 0 <= b <= B -> 0 <= a * b <= A * B.
Proof. nia. Qed.

(** Replaces the dimensions of a picture by their exact values and bounds. *)
Ltac exact_dims f w h :=
  let H := fresh in
  destruct (y_stride_exact f w) as [-> ?]; [lia|];
  destruct (y_sclines_exact f h) as [-> ?]; [lia|];
  destruct (uv_sclines_exact f h) as [-> ?]; [lia|];
  destruct (rgb_stride_exact f w) as [-> ?]; [lia|];
  destruct (rgb_scanlines_exact f h) as [-> ?]; [lia|].

Ltac exact_tiles :=
  repeat match goal with
  | |- context [meta_dim ?n ?t ?a] =>
      let E := fresh "E" in
      destruct (tiles_exact n t a) as [E ?]; [lia|lia|lia|]; rewrite E; clear E;
      cbn [mbind option_bind]
  end.

(** Bounds for every plane rounded to pages. *)
Ltac plane_bounds :=
  repeat match goal with
  | |- context [align_up ?x 4096] =>
      lazymatch goal with
      | _ : x <= align_up x 4096 < _ |- _ => fail
      | _ => pose proof (proj1 (align_up_bounds x 4096 ltac:(lia)))
      end
  end.

(** Bounds for every product and every alignment in the goal. *)
Ltac product_bounds :=
  repeat match goal with
  | H : 0 <= ?a <= ?A, H' : 0 <= ?b <= ?B |- context [?a * ?b] =>
      lazymatch goal with _ : 0 <= a * b <= _ |- _ => fail | _ => idtac end;
      pose proof (mul_bound a b A B H H')
  end.

Lemma buffer_size_exact f w h :
  dims_ok w h ->
  f <> COLOR_FMT_RGBA1010102_UBWC -> f <> COLOR_FMT_RGB565_UBWC ->
  VENUS_BUFFER_SIZE (Some f) w h = Some (align_up (spec_need f w h) 4096) /\
  0 <= spec_need f w h < 2 ^ 32 - 4096.
Proof.
  intros [Hw Hh] Hn1 Hn2. unfold VENUS_BUFFER_SIZE, VENUS_EXTRADATA_SIZE, spec_need.
  rewrite (proj2 (Z.eqb_neq w 0)), (proj2 (Z.eqb_neq h 0)), uv_stride_same by lia. cbn [orb].
  exact_dims f w h. cbn [mbind option_bind]. rewrite !MAX_max.
  assert (0 <= w / 2 <= 8192 /\ 0 <= h / 2 <= 8192) as [? ?]
    by (split; Z.to_euclidean_division_equations; lia).
  unfold VENUS_Y_META_STRIDE, VENUS_Y_META_SCANLINES, VENUS_UV_META_STRIDE,
    VENUS_UV_META_SCANLINES, VENUS_RGB_META_STRIDE, VENUS_RGB_META_SCANLINES.
  rewrite (proj2 (Z.eqb_neq w 0)), (proj2 (Z.eqb_neq h 0)), !Z.quot_div_nonneg by lia.
  destruct f; try done; unfold spec_y_meta, spec_uv_meta; exact_tiles; product_bounds;
    plane_bounds; unwrap; (split; [first [reflexivity | do 2 f_equal; lia]|lia]).
Qed.

(** ** The layouts of the comments

    The comment in front of each enumerator documents the strides, scan lines,
    metadata planes and total size of its format. The sizes of the tiles are not in
    the comments, and are taken from the code: a tile of chroma samples covers
    twice its width and height of the picture. *)

Record geometry : Type := mk_geometry {
  y_stride : Z; uv_stride : Z; y_scan : Z; uv_scan : Z;
  y_meta : Z * Z; uv_meta : Z * Z;
  rgb_stride : Z; rgb_scan : Z; rgb_meta : Z * Z }.

Definition yuv (ys uvs yl uvl : Z) (ym uvm : Z * Z) : geometry := mk_geometry ys uvs yl uvl ym uvm 0 0 (0, 0).
Definition rgb (st sc : Z) (m : Z * Z) : geometry := mk_geometry 0 0 0 0 (0, 0) (0, 0) st sc m.

(** The stride and the scan lines of the metadata of a picture in tiles. *)
Definition meta (w h tile_w tile_h : Z) : Z * Z := (tiles w tile_w 64, tiles h tile_h 16).

Definition documented (f : color_fmts) (w h : Z) : geometry :=
  match f with
  | COLOR_FMT_NV12 | COLOR_FMT_NV21 | COLOR_FMT_NV12_MVTB =>
      yuv (align_up w 128) (align_up w 128) (align_up h 32) (align_up (h / 2) 16) (0, 0) (0, 0)
  | COLOR_FMT_NV12_UBWC =>
      yuv (align_up w 128) (align_up w 128) (align_up h 32) (align_up (h / 2) 16) (meta w h 32 8) (meta w h 32 16)
  | COLOR_FMT_NV12_BPP10_UBWC =>
      yuv (align_up (w * 4 / 3) 128) (align_up (w * 4 / 3) 128) (align_up h 32) (align_up (h / 2) 16)
        (meta w h 48 4) (meta w h 48 8)
  | COLOR_FMT_RGBA8888 => rgb (align_up (w * 4) 128) (align_up h 32) (0, 0)
  | COLOR_FMT_RGBA8888_UBWC => rgb (align_up (w * 4) 128) (align_up h 32) (meta w h 16 4)
  | COLOR_FMT_RGBA1010102_UBWC => rgb (align_up (w * 4) 256) (align_up h 16) (meta w h 16 4)
  | COLOR_FMT_RGB565_UBWC => rgb (align_up (w * 2) 128) (align_up h 16) (meta w h 16 4)
  | COLOR_FMT_P010_UBWC =>
      yuv (align_up (w * 2) 256) (align_up (w * 2) 256) (align_up h 16) (align_up (h / 2) 16)
        (meta w h 32 4) (meta w h 32 8)
  end.

(** "Total size", for any strides, scan lines and metadata. *)
Definition page (n : Z) : Z := align_up n 4096.
Definition area (m : Z * Z) : Z := m.1 * m.2.
Definition documented_total (f : color_fmts) (g : geometry) : Z :=
  let y := y_stride g * y_scan g in
  let uv := uv_stride g * uv_scan g in
  let planes := page y + page uv + page (area (y_meta g)) + page (area (uv_meta g)) in
  let rgb_plane := page (rgb_stride g * rgb_scan g) in
  match f with
  | COLOR_FMT_NV12 | COLOR_FMT_NV21 =>
      page (y + uv + Z.max (VENUS_EXTRADATA_SIZE 0 0) (y_stride g * 8))
  | COLOR_FMT_NV12_MVTB => page (2 * y + 2 * uv + VENUS_EXTRADATA_SIZE 0 0)
  | COLOR_FMT_NV12_UBWC | COLOR_FMT_NV12_BPP10_UBWC => page (planes + Z.max (16 * 1024) (y_stride g * 64))
  | COLOR_FMT_RGBA8888 => page (rgb_plane + 8 * 1024)
  | COLOR_FMT_RGBA8888_UBWC | COLOR_FMT_RGBA1010102_UBWC | COLOR_FMT_RGB565_UBWC =>
      page (page (area (rgb_meta g)) + rgb_plane + 8 * 1024)
  | COLOR_FMT_P010_UBWC => page (planes + Z.max (8 * 1024) (y_stride g * 48))
  end.

(** ** The layouts of the code *)

(** What the functions of the header give for a picture. *)
Definition geometry_of (f : color_fmts) (w h : Z) : option geometry :=
  ys ← VENUS_Y_STRIDE (Some f) w;
  uvs ← VENUS_UV_STRIDE (Some f) w;
  ymw ← VENUS_Y_META_STRIDE (Some f) w;
  ymh ← VENUS_Y_META_SCANLINES (Some f) h;
  uvmw ← VENUS_UV_META_STRIDE (Some f) w;
  uvmh ← VENUS_UV_META_SCANLINES (Some f) h;
  rmw ← VENUS_RGB_META_STRIDE (Some f) w;
  rmh ← VENUS_RGB_META_SCANLINES (Some f) h;
  Some (mk_geometry ys uvs (VENUS_Y_SCANLINES (Some f) h) (VENUS_UV_SCANLINES (Some f) h)
    (ymw, ymh) (uvmw, uvmh) (VENUS_RGB_STRIDE (Some f) w) (VENUS_RGB_SCANLINES (Some f) h) (rmw, rmh)).

(** The documented layout with the code's deviations: it rounds the chroma scan
    lines of NV12 UBWC to 32, the strides of 10-bit UBWC to 256 behind 192 pixels and
    its luma scan lines to 16, and the stride and scan lines of RGBA8888 UBWC to 256
    and 16; and the chroma metadata is that of the halved picture. *)
Definition deviating (f : color_fmts) (w h : Z) : geometry :=
  let g := documented f w h in
  let stride := align_up (align_up w 192 * 4 / 3) 256 in
  match f with
  | COLOR_FMT_NV12_UBWC =>
      yuv (y_stride g) (uv_stride g) (y_scan g) (align_up (h / 2) 32) (y_meta g) (meta (w / 2) (h / 2) 16 8)
  | COLOR_FMT_NV12_BPP10_UBWC =>
      yuv stride stride (align_up h 16) (uv_scan g) (y_meta g) (meta (w / 2) (h / 2) 24 4)
  | COLOR_FMT_P010_UBWC =>
      yuv (y_stride g) (uv_stride g) (y_scan g) (uv_scan g) (y_meta g) (meta (w / 2) (h / 2) 16 4)
  | COLOR_FMT_RGBA8888_UBWC => rgb (align_up (w * 4) 256) (align_up h 16) (rgb_meta g)
  | _ => g
  end.

(** How far the size of the code is from the documented total of the same layout. *)
Definition deviation (f : color_fmts) (g : geometry) : Z :=
  match f with
  | COLOR_FMT_NV12 | COLOR_FMT_NV21 => 4096
  | COLOR_FMT_NV12_MVTB => 2 * 4096
  | COLOR_FMT_NV12_UBWC | COLOR_FMT_NV12_BPP10_UBWC => 0
  | COLOR_FMT_P010_UBWC => - page (Z.max (8 * 1024) (y_stride g * 48))
  | COLOR_FMT_RGBA8888 | COLOR_FMT_RGBA8888_UBWC => - (8 * 1024)
  | COLOR_FMT_RGBA1010102_UBWC | COLOR_FMT_RGB565_UBWC => - documented_total f g
  end.

Lemma page_add_r x k : page (x + k * 4096) = page x + k * 4096.
Proof.
  unfold page, align_up. replace (x + k * 4096 + 4096 - 1) with (x + 4096 - 1 + k * 4096) by lia.
  rewrite Z.div_add by lia. lia.
Qed.

Lemma page_add_l x k : page (k * 4096 + x) = k * 4096 + page x.
Proof. rewrite Z.add_comm, page_add_r. lia. Qed.

Lemma page_multiple k : page (k * 4096) = k * 4096.
Proof. pose proof (page_add_l 0 k) as E. rewrite Z.add_0_r in E. by rewrite E, Z.add_0_r. Qed.

Lemma page_eq x y k : x = y + k * 4096 -> page x = page y + k * 4096.
Proof. intros ->. apply page_add_r. Qed.

Lemma page_divide x : (4096 | page x).
Proof. apply Z.divide_factor_r. Qed.

Lemma page_without x m : (4096 | x) -> page x = page (x + m) + - page m.
Proof. intros [k ->]. rewrite page_multiple, page_add_l. lia. Qed.

(** Half the picture in tiles of half the size. *)
Lemma tiles_half n t al : 0 < t -> Z.Even n -> tiles (n / 2) t al = tiles n (2 * t) al.
Proof.
  intros Ht [k ->]. unfold tiles. rewrite (Z.mul_comm 2 k), Z.div_mul by lia. f_equal.
  apply (Z.div_unique_pos _ _ _ (2 * ((k + t - 1) mod t) + 1)).
  - pose proof (Z.mod_pos_bound (k + t - 1) t). lia.
  - pose proof (Z.div_mod (k + t - 1) t). lia.
Qed.

Lemma meta_half w h tw th : 0 < tw -> 0 < th -> Z.Even w -> Z.Even h ->
  meta (w / 2) (h / 2) tw th = meta w h (2 * tw) (2 * th).
Proof. intros. unfold meta. by rewrite !tiles_half. Qed.

Lemma meta_half_documented f w h : Z.Even w -> Z.Even h ->
  uv_meta (deviating f w h) = uv_meta (documented f w h).
Proof. intros Hw Hh. destruct f; try done; cbn; by rewrite meta_half. Qed.

Lemma geometry_exact f w h : dims_ok w h -> geometry_of f w h = Some (deviating f w h).
Proof.
  intros [Hw Hh]. unfold geometry_of. rewrite uv_stride_same. exact_dims f w h. cbn [mbind option_bind].
  assert (0 <= w / 2 <= 8192 /\ 0 <= h / 2 <= 8192) as [? ?]
    by (split; Z.to_euclidean_division_equations; lia).
  unfold VENUS_Y_META_STRIDE, VENUS_Y_META_SCANLINES, VENUS_UV_META_STRIDE,
    VENUS_UV_META_SCANLINES, VENUS_RGB_META_STRIDE, VENUS_RGB_META_SCANLINES.
  rewrite (proj2 (Z.eqb_neq w 0)), (proj2 (Z.eqb_neq h 0)), !Z.quot_div_nonneg by lia.
  destruct f; exact_tiles; reflexivity.
Qed.

Lemma size_zero f w h : f = COLOR_FMT_RGBA1010102_UBWC \/ f = COLOR_FMT_RGB565_UBWC ->
  VENUS_BUFFER_SIZE (Some f) w h = Some 0.
Proof.
  intros Hf. unfold VENUS_BUFFER_SIZE. destruct ((w =? 0) || (h =? 0)); [done|]. unfold VENUS_Y_STRIDE, VENUS_UV_STRIDE.
  destruct Hf as [-> | ->]; destruct (w =? 0); reflexivity.
Qed.

(** The sum of the code is the documented one, up to whole pages. *)
Lemma need_documented f w h : f <> COLOR_FMT_RGBA1010102_UBWC -> f <> COLOR_FMT_RGB565_UBWC ->
  let g := deviating f w h in
  align_up (spec_need f w h) 4096 = documented_total f g + deviation f g.
Proof.
  intros H1 H2. cbv zeta. change (align_up (spec_need f w h) 4096) with (page (spec_need f w h)).
  destruct f; try done; unfold spec_need, documented_total, deviation, VENUS_EXTRADATA_SIZE, area, spec_y_meta,
    spec_uv_meta, spec_y_stride, spec_y_sclines, spec_uv_sclines, spec_rgb_stride, spec_rgb_scanlines;
    cbn [deviating documented yuv rgb meta y_stride uv_stride y_scan uv_scan y_meta uv_meta rgb_stride rgb_scan
      rgb_meta fst snd];
    repeat match goal with |- context [align_up ?x 4096] => change (align_up x 4096) with (page x) end.
  - apply (page_eq _ _ 1). lia.
  - apply (page_eq _ _ 1). lia.
  - apply (page_eq _ _ 2). lia.
  - rewrite Z.add_0_r. f_equal. lia.
  - rewrite Z.add_0_r. f_equal. lia.
  - apply (page_eq _ _ (-2)). lia.
  - apply (page_eq _ _ (-2)). lia.
  - apply page_without; repeat apply Z.divide_add_r; apply page_divide.
Qed.

(** ** Properties *)

(** [MSM_MEDIA_ALIGN] gives the least multiple of the alignment that is not
    below the size, by whichever of its two branches it computes it, as long as
    size plus alignment does not pass 2^32. *)
Theorem media_align_least sz al :
  0 < al < 2 ^ 32 -> 0 <= sz -> sz + al <= 2 ^ 32 ->
  sz <= MSM_MEDIA_ALIGN sz al /\ (al | MSM_MEDIA_ALIGN sz al) /\
  forall k, sz <= k * al -> MSM_MEDIA_ALIGN sz al <= k * al.
Proof.
  intros Ha Hs Hb. destruct (MSM_MEDIA_ALIGN_bounds sz al Ha Hs Hb) as [[H1 H2] [j Hj]].
  split; [done|]. split; [by exists j|]. intros k Hk. rewrite Hj in H2 |- *.
  apply Z.mul_le_mono_nonneg_r; [lia|].
  apply Z.lt_succ_r, (Z.mul_lt_mono_pos_r al); lia.
Qed.

Lemma media_align_least_witness :
  1081 <= MSM_MEDIA_ALIGN 1081 192 /\ (192 | MSM_MEDIA_ALIGN 1081 192) /\
  forall k, 1081 <= k * 192 -> MSM_MEDIA_ALIGN 1081 192 <= k * 192.
Proof. apply media_align_least; [split; reflexivity|vm_compute; congruence..]. Defined.

(** The total size of a buffer is a multiple of the 4096-byte page and fits
    32 bits, for every format, known or not, and all dimensions for which the
    computation is defined, however large or negative. *)
Theorem buffer_size_page_aligned f w h s :
  VENUS_BUFFER_SIZE f w h = Some s -> is_u32 s /\ (4096 | s).
Proof.
  unfold VENUS_BUFFER_SIZE. intros H.
  assert (forall x, is_u32 (MSM_MEDIA_ALIGN x 4096) /\ (4096 | MSM_MEDIA_ALIGN x 4096)) as Ha
    by (intros; split; [apply MSM_MEDIA_ALIGN_range; lia|apply MSM_MEDIA_ALIGN_divide; lia]).
  destruct ((w =? 0) || (h =? 0)); [injection H as <-; split; [split; lia|by exists 0]|].
  unfold mbind, option_bind in H.
  destruct (VENUS_Y_STRIDE f w); [|done]. destruct (VENUS_UV_STRIDE f w); [|done].
  destruct f as [[]|]; repeat match type of H with
  | (match ?x with _ => _ end) = _ => destruct x; [|discriminate H]
  end; injection H as <-; try apply Ha; (split; [split; lia|by exists 0]).
Qed.

Lemma buffer_size_page_aligned_witness :
  VENUS_BUFFER_SIZE (Some COLOR_FMT_P010_UBWC) 1920 1080 = Some 6299648 /\
  is_u32 6299648 /\ (4096 | 6299648).
Proof.
  assert (VENUS_BUFFER_SIZE (Some COLOR_FMT_P010_UBWC) 1920 1080 = Some 6299648) as E
    by (vm_compute; reflexivity).
  split; [exact E|]. exact (buffer_size_page_aligned _ _ _ _ E).
Defined.

(** C15: up to 16384 by 16384 pixels no 32-bit operation of the header wraps. For
    all ten formats the strides, scan lines and metadata planes are those of the
    comments, but for the four deviations of [deviating] (the chroma metadata of a
    picture with even width and height is as documented), and [VENUS_BUFFER_SIZE] is
    the documented total of that layout, but for the difference of [deviation]: a
    page more for each view of NV12, NV21 and NV12_MVTB; no extradata for P010,
    RGBA8888 and RGBA8888_UBWC; and no size at all, 0, for RGBA1010102_UBWC and
    RGB565_UBWC. *)
Theorem buffer_size_refines f w h :
  dims_ok w h ->
  let g := deviating f w h in
  geometry_of f w h = Some g /\
  (Z.Even w -> Z.Even h -> uv_meta g = uv_meta (documented f w h)) /\
  VENUS_BUFFER_SIZE (Some f) w h = Some (documented_total f g + deviation f g) /\
  0 <= documented_total f g + deviation f g < 2 ^ 32.
Proof.
  intros Hd g. split; [by apply geometry_exact|]. split; [by apply meta_half_documented|].
  destruct (decide (f = COLOR_FMT_RGBA1010102_UBWC \/ f = COLOR_FMT_RGB565_UBWC)) as [Hf|Hf].
  { assert (documented_total f g + deviation f g = 0) as ->
      by (destruct Hf as [-> | ->]; unfold deviation; lia).
    split; [by apply size_zero|lia]. }
  destruct (buffer_size_exact f w h Hd) as [-> Hn]; [tauto..|].
  pose proof (align_up_bounds (spec_need f w h) 4096 ltac:(lia)) as [? _].
  assert (align_up (spec_need f w h) 4096 = documented_total f g + deviation f g) as <-; [|split; [done|lia]].
  apply need_documented; tauto.
Qed.

Lemma buffer_size_refines_witness :
  geometry_of COLOR_FMT_P010_UBWC 16384 16384 = Some (deviating COLOR_FMT_P010_UBWC 16384 16384) /\
  deviating COLOR_FMT_P010_UBWC 16384 16384 = documented COLOR_FMT_P010_UBWC 16384 16384 /\
  VENUS_BUFFER_SIZE (Some COLOR_FMT_P010_UBWC) 16384 16384 = Some 808452096.
Proof.
  assert (Hd : dims_ok 16384 16384) by (split; split; vm_compute; congruence).
  destruct (buffer_size_refines COLOR_FMT_P010_UBWC 16384 16384 Hd) as (E & Ev & S & _).
  split; [exact E|]. split; [vm_compute; reflexivity|]. rewrite S. vm_compute. reflexivity.
Defined.

(** In a two-view buffer the second view starts right behind the first one,
    and both fit the buffer. *)
Theorem second_view_fits w h :
  dims_ok w h ->
  exists off size, VENUS_VIEW2_OFFSET (Some COLOR_FMT_NV12_MVTB) w h = Some off /\
    VENUS_BUFFER_SIZE (Some COLOR_FMT_NV12_MVTB) w h = Some size /\
    off = spec_y_stride COLOR_FMT_NV12_MVTB w * spec_y_sclines COLOR_FMT_NV12_MVTB h +
          spec_y_stride COLOR_FMT_NV12_MVTB w * spec_uv_sclines COLOR_FMT_NV12_MVTB h /\
    w * h <= off /\ off + off <= size.
Proof.
  intros Hd. destruct (buffer_size_exact COLOR_FMT_NV12_MVTB w h Hd) as [Hs Hn]; [done..|].
  destruct Hd as [Hw Hh]. unfold VENUS_VIEW2_OFFSET. rewrite Hs, uv_stride_same.
  rewrite (proj2 (Z.eqb_neq w 0)), (proj2 (Z.eqb_neq h 0)) by lia. cbn [orb].
  destruct (y_stride_exact COLOR_FMT_NV12_MVTB w) as [-> ?]; [lia|].
  destruct (y_sclines_exact COLOR_FMT_NV12_MVTB h) as [-> ?]; [lia|].
  destruct (uv_sclines_exact COLOR_FMT_NV12_MVTB h) as [-> ?]; [lia|].
  cbn [mbind option_bind]. product_bounds. unwrap. do 2 eexists. split; [reflexivity|].
  split; [reflexivity|]. split; [done|].
  pose proof (align_up_bounds (spec_need COLOR_FMT_NV12_MVTB w h) 4096 ltac:(lia)) as [? _].
  unfold spec_need in *. split; [|lia].
  enough (w * h <= spec_y_stride COLOR_FMT_NV12_MVTB w * spec_y_sclines COLOR_FMT_NV12_MVTB h)
    by lia.
  unfold spec_y_stride, spec_y_sclines.
  pose proof (align_up_bounds w 128 ltac:(lia)) as [? _].
  pose proof (align_up_bounds h 32 ltac:(lia)) as [? _]. nia.
Qed.

Lemma second_view_fits_witness :
  exists off size, VENUS_VIEW2_OFFSET (Some COLOR_FMT_NV12_MVTB) 1920 1080 = Some off /\
    VENUS_BUFFER_SIZE (Some COLOR_FMT_NV12_MVTB) 1920 1080 = Some size /\
    off = spec_y_stride COLOR_FMT_NV12_MVTB 1920 * spec_y_sclines COLOR_FMT_NV12_MVTB 1080 +
          spec_y_stride COLOR_FMT_NV12_MVTB 1920 * spec_uv_sclines COLOR_FMT_NV12_MVTB 1080 /\
    1920 * 1080 <= off /\ off + off <= size.
Proof. apply second_view_fits. split; split; vm_compute; congruence. Defined.

(** A row of a picture fits its stride and its rows fit the scan lines: the
    luma stride covers the bytes of a row (8 bits a pixel, 4/3 byte for packed
    10 bit, two bytes for P010), is a multiple of 128, and the scan lines cover
    the height. *)
Theorem luma_geometry_covers f w h :
  dims_ok w h ->
  match f with
  | COLOR_FMT_RGBA8888 | COLOR_FMT_RGBA8888_UBWC | COLOR_FMT_RGBA1010102_UBWC
  | COLOR_FMT_RGB565_UBWC => VENUS_Y_STRIDE (Some f) w = Some 0
  | _ => exists stride, VENUS_Y_STRIDE (Some f) w = Some stride /\ (128 | stride) /\
      h <= VENUS_Y_SCANLINES (Some f) h /\
      match f with
      | COLOR_FMT_NV12_BPP10_UBWC => 4 * w <= 3 * stride
      | COLOR_FMT_P010_UBWC => 2 * w <= stride
      | _ => w <= stride
      end
  end.
Proof.
  intros [Hw Hh]. destruct (y_stride_exact f w Hw) as [E _].
  destruct (y_sclines_exact f h Hh) as [E' _].
  pose proof (align_up_bounds w 128 ltac:(lia)) as [H1 D1].
  pose proof (align_up_bounds w 192 ltac:(lia)) as [H2 [k Hk]].
  pose proof (align_up_bounds (align_up w 192 * 4 / 3) 256 ltac:(lia)) as [H3 [k3 D3]].
  pose proof (align_up_bounds (w * 2) 256 ltac:(lia)) as [H4 [k4 D4]].
  pose proof (align_up_bounds h 32 ltac:(lia)) as [H5 _].
  pose proof (align_up_bounds h 16 ltac:(lia)) as [H6 _].
  assert (align_up w 192 * 4 / 3 = k * 256) as Hq
    by (rewrite Hk; replace (k * 192 * 4) with (k * 256 * 3) by lia; by apply Z.div_mul).
  destruct f; unfold spec_y_stride, spec_y_sclines in *; try exact E; rewrite E';
    eexists; (split; [exact E|]); split_and!; try done; try lia.
  - exists (k3 * 2). lia.
  - exists (k4 * 2). lia.
Qed.

Lemma luma_geometry_covers_witness :
  exists stride, VENUS_Y_STRIDE (Some COLOR_FMT_P010_UBWC) 1920 = Some stride /\ (128 | stride) /\
    1080 <= VENUS_Y_SCANLINES (Some COLOR_FMT_P010_UBWC) 1080 /\ 2 * 1920 <= stride.
Proof.
  apply (luma_geometry_covers COLOR_FMT_P010_UBWC 1920 1080). split; split; vm_compute; congruence.
Defined.

(** The two compressed RGB formats RGBA1010102 and RGB565 have a stride, scan
    lines and metadata, but no buffer size: [VENUS_BUFFER_SIZE] is 0 for every
    picture. *)
Theorem rgb_formats_without_size f w h :
  f = COLOR_FMT_RGBA1010102_UBWC \/ f = COLOR_FMT_RGB565_UBWC -> dims_ok w h ->
  VENUS_BUFFER_SIZE (Some f) w h = Some 0 /\
  2 * w <= VENUS_RGB_STRIDE (Some f) w /\ h <= VENUS_RGB_SCANLINES (Some f) h /\
  exists n, VENUS_RGB_META_STRIDE (Some f) w = Some n /\ 0 < n.
Proof.
  intros Hf [Hw Hh]. unfold VENUS_BUFFER_SIZE.
  rewrite (proj2 (Z.eqb_neq w 0)), (proj2 (Z.eqb_neq h 0)), uv_stride_same by lia. cbn [orb].
  destruct (y_stride_exact f w) as [-> ?]; [lia|].
  destruct (rgb_stride_exact f w) as [-> ?]; [lia|].
  destruct (rgb_scanlines_exact f h) as [-> ?]; [lia|].
  unfold VENUS_RGB_META_STRIDE. rewrite (proj2 (Z.eqb_neq w 0)) by lia. cbn [mbind option_bind].
  pose proof (align_up_bounds (w * 2) 128 ltac:(lia)) as [? _].
  pose proof (align_up_bounds (w * 4) 256 ltac:(lia)) as [? _].
  pose proof (align_up_bounds h 16 ltac:(lia)) as [? _].
  assert (exists n, meta_dim w 16 64 = Some n /\ 0 < n) as Hm.
  { exists (tiles w 16 64). split; [apply (tiles_exact w 16 64); lia|]. unfold tiles.
    pose proof (align_up_bounds ((w + 16 - 1) / 16) 64 ltac:(lia)) as [? _].
    assert (0 < (w + 16 - 1) / 16) by (apply Z.div_str_pos; lia). lia. }
  destruct Hf as [-> | ->]; (split; [done|]); unfold spec_rgb_stride, spec_rgb_scanlines in *;
    (split; [lia|]); (split; [lia|done]).
Qed.

Lemma rgb_formats_without_size_witness :
  VENUS_BUFFER_SIZE (Some COLOR_FMT_RGB565_UBWC) 1920 1080 = Some 0 /\
  2 * 1920 <= VENUS_RGB_STRIDE (Some COLOR_FMT_RGB565_UBWC) 1920 /\
  1080 <= VENUS_RGB_SCANLINES (Some COLOR_FMT_RGB565_UBWC) 1080 /\
  exists n, VENUS_RGB_META_STRIDE (Some COLOR_FMT_RGB565_UBWC) 1920 = Some n /\ 0 < n.
Proof.
  apply rgb_formats_without_size; [right; reflexivity|split; split; vm_compute; congruence].
Defined.
