(* ===== verification/Byteorder.v ===== *)
(** * Byte order

    [kernel-headers/linux/swab.h] and the two byte-order headers
    [byteorder/little_endian.h] and [byteorder/big_endian.h]. The compiler's and
    the architecture's own swap routines, which the header prefers when they
    exist, are parameters ([SwabArch]); what is assumed of them ([SwabArchOk])
    is that they swap. *)
From S2P Require Import Prelude.

(** ** Constant folding versions *)

Definition ___constant_swab16 (x : Z) : Z :=
  u16 (((u16 x &&& 0x00ff) ≪ 8) ||| ((u16 x &&& 0xff00) ≫ 8)).

Definition ___constant_swab32 (x : Z) : Z :=
  u32 (u32 ((u32 x &&& 0x000000ff) ≪ 24) ||| u32 ((u32 x &&& 0x0000ff00) ≪ 8) |||
       ((u32 x &&& 0x00ff0000) ≫ 8) ||| ((u32 x &&& 0xff000000) ≫ 24)).

Definition ___constant_swab64 (x : Z) : Z :=
  u64 (u64 ((u64 x &&& 0x00000000000000ff) ≪ 56) ||| u64 ((u64 x &&& 0x000000000000ff00) ≪ 40) |||
       u64 ((u64 x &&& 0x0000000000ff0000) ≪ 24) ||| u64 ((u64 x &&& 0x00000000ff000000) ≪ 8) |||
       ((u64 x &&& 0x000000ff00000000) ≫ 8) ||| ((u64 x &&& 0x0000ff0000000000) ≫ 24) |||
       ((u64 x &&& 0x00ff000000000000) ≫ 40) ||| ((u64 x &&& 0xff00000000000000) ≫ 56)).

Definition ___constant_swahw32 (x : Z) : Z :=
  u32 (u32 ((u32 x &&& 0x0000ffff) ≪ 16) ||| ((u32 x &&& 0xffff0000) ≫ 16)).

Definition ___constant_swahb32 (x : Z) : Z :=
  u32 (u32 ((u32 x &&& 0x00ff00ff) ≪ 8) ||| ((u32 x &&& 0xff00ff00) ≫ 8)).

(** ** The platform's own routines *)

Inductive swab_hook : Type :=
| builtin_bswap16 | builtin_bswap32 | builtin_bswap64
| arch_swab16 | arch_swab32 | arch_swab64 | arch_swahw32 | arch_swahb32
| arch_swab16p | arch_swab32p | arch_swab64p | arch_swahw32p | arch_swahb32p
| arch_swab16s | arch_swab32s | arch_swab64s | arch_swahw32s | arch_swahb32s.

(** What the preprocessor and the compiler know: the routines that exist (those
    on pointers as functions of the value pointed to), whether [swab64] goes
    through [swab32], and whether the compiler sees a constant. *)
Class SwabArch : Type := {
  hook : swab_hook -> option (Z -> Z);
  swab_64_thru_32 : bool;
  constant_p : bool
}.

(** The value a routine is documented to return, and its width. *)
Definition hook_width (h : swab_hook) : Z :=
  match h with
  | builtin_bswap16 | arch_swab16 | arch_swab16p | arch_swab16s => 16
  | builtin_bswap64 | arch_swab64 | arch_swab64p | arch_swab64s => 64
  | _ => 32
  end.

Definition hook_spec (h : swab_hook) : Z -> Z :=
  match h with
  | builtin_bswap16 | arch_swab16 | arch_swab16p | arch_swab16s => ___constant_swab16
  | builtin_bswap32 | arch_swab32 | arch_swab32p | arch_swab32s => ___constant_swab32
  | builtin_bswap64 | arch_swab64 | arch_swab64p | arch_swab64s => ___constant_swab64
  | arch_swahw32 | arch_swahw32p | arch_swahw32s => ___constant_swahw32
  | arch_swahb32 | arch_swahb32p | arch_swahb32s => ___constant_swahb32
  end.

Class SwabArchOk (A : SwabArch) : Prop :=
  hook_ok : forall h f x, hook h = Some f -> in_word (hook_width h) x -> f x = hook_spec h x.

(** ** Functions *)

Section swab.
Context {A : SwabArch}.

(** [#ifdef hook ... #else ...] *)
Definition or_else (h : swab_hook) (f : Z -> Z) : Z -> Z :=
  match hook h with Some g => g | None => f end.

Definition __fswab16 (val : Z) : Z :=
  or_else builtin_bswap16 (or_else arch_swab16 ___constant_swab16) val.

Definition __fswab32 (val : Z) : Z :=
  or_else builtin_bswap32 (or_else arch_swab32 ___constant_swab32) val.

Definition __fswab64 (val : Z) : Z :=
  or_else builtin_bswap64 (or_else arch_swab64 (fun val =>
    if swab_64_thru_32 then
      let h := u32 (val ≫ 32) in
      let l := u32 (val &&& (u64 (1 ≪ 32) - 1)) in
      u64 (__fswab32 l ≪ 32) ||| __fswab32 h
    else ___constant_swab64 val)) val.

Definition __fswahw32 (val : Z) : Z := or_else arch_swahw32 ___constant_swahw32 val.
Definition __fswahb32 (val : Z) : Z := or_else arch_swahb32 ___constant_swahb32 val.

Definition __swab16 (x : Z) : Z :=
  if constant_p then ___constant_swab16 x else __fswab16 (u16 x).
Definition __swab32 (x : Z) : Z :=
  if constant_p then ___constant_swab32 x else __fswab32 (u32 x).
Definition __swab64 (x : Z) : Z :=
  if constant_p then ___constant_swab64 x else __fswab64 (u64 x).
Definition __swahw32 (x : Z) : Z :=
  if constant_p then ___constant_swahw32 x else __fswahw32 (u32 x).
Definition __swahb32 (x : Z) : Z :=
  if constant_p then ___constant_swahb32 x else __fswahb32 (u32 x).

(** On a pointer: [p] is the value it designates. *)
Definition __swab16p (p : Z) : Z := or_else arch_swab16p __swab16 p.
Definition __swab32p (p : Z) : Z := or_else arch_swab32p __swab32 p.
Definition __swab64p (p : Z) : Z := or_else arch_swab64p __swab64 p.
Definition __swahw32p (p : Z) : Z := or_else arch_swahw32p __swahw32 p.
Definition __swahb32p (p : Z) : Z := or_else arch_swahb32p __swahb32 p.

(** In place: the value stored back. *)
Definition __swab16s (p : Z) : Z := or_else arch_swab16s __swab16p p.
Definition __swab32s (p : Z) : Z := or_else arch_swab32s __swab32p p.
Definition __swab64s (p : Z) : Z := or_else arch_swab64s __swab64p p.
Definition __swahw32s (p : Z) : Z := or_else arch_swahw32s __swahw32p p.
Definition __swahb32s (p : Z) : Z := or_else arch_swahb32s __swahb32p p.
End swab.

(** ** Conversions on a little-endian and on a big-endian machine *)

Module LittleEndian.
Section le.
Context {A : SwabArch}.
Definition __constant_htonl (x : Z) : Z := ___constant_swab32 x.
Definition __constant_ntohl (x : Z) : Z := ___constant_swab32 (u32 x).
Definition __constant_htons (x : Z) : Z := ___constant_swab16 x.
Definition __constant_ntohs (x : Z) : Z := ___constant_swab16 (u16 x).
Definition __constant_cpu_to_le64 (x : Z) : Z := u64 x.
Definition __constant_le64_to_cpu (x : Z) : Z := u64 x.
Definition __constant_cpu_to_le32 (x : Z) : Z := u32 x.
Definition __constant_le32_to_cpu (x : Z) : Z := u32 x.
Definition __constant_cpu_to_le16 (x : Z) : Z := u16 x.
Definition __constant_le16_to_cpu (x : Z) : Z := u16 x.
Definition __constant_cpu_to_be64 (x : Z) : Z := ___constant_swab64 x.
Definition __constant_be64_to_cpu (x : Z) : Z := ___constant_swab64 (u64 x).
Definition __constant_cpu_to_be32 (x : Z) : Z := ___constant_swab32 x.
Definition __constant_be32_to_cpu (x : Z) : Z := ___constant_swab32 (u32 x).
Definition __constant_cpu_to_be16 (x : Z) : Z := ___constant_swab16 x.
Definition __constant_be16_to_cpu (x : Z) : Z := ___constant_swab16 (u16 x).
Definition __cpu_to_le64 (x : Z) : Z := u64 x.
Definition __le64_to_cpu (x : Z) : Z := u64 x.
Definition __cpu_to_le32 (x : Z) : Z := u32 x.
Definition __le32_to_cpu (x : Z) : Z := u32 x.
Definition __cpu_to_le16 (x : Z) : Z := u16 x.
Definition __le16_to_cpu (x : Z) : Z := u16 x.
Definition __cpu_to_be64 (x : Z) : Z := __swab64 x.
Definition __be64_to_cpu (x : Z) : Z := __swab64 (u64 x).
Definition __cpu_to_be32 (x : Z) : Z := __swab32 x.
Definition __be32_to_cpu (x : Z) : Z := __swab32 (u32 x).
Definition __cpu_to_be16 (x : Z) : Z := __swab16 x.
Definition __be16_to_cpu (x : Z) : Z := __swab16 (u16 x).
Definition __cpu_to_le64p (p : Z) : Z := p.
Definition __le64_to_cpup (p : Z) : Z := p.
Definition __cpu_to_le32p (p : Z) : Z := p.
Definition __le32_to_cpup (p : Z) : Z := p.
Definition __cpu_to_le16p (p : Z) : Z := p.
Definition __le16_to_cpup (p : Z) : Z := p.
Definition __cpu_to_be64p (p : Z) : Z := __swab64p p.
Definition __be64_to_cpup (p : Z) : Z := __swab64p p.
Definition __cpu_to_be32p (p : Z) : Z := __swab32p p.
Definition __be32_to_cpup (p : Z) : Z := __swab32p p.
Definition __cpu_to_be16p (p : Z) : Z := __swab16p p.
Definition __be16_to_cpup (p : Z) : Z := __swab16p p.
Definition __cpu_to_le64s (x : Z) : Z := x.
Definition __le64_to_cpus (x : Z) : Z := x.
Definition __cpu_to_le32s (x : Z) : Z := x.
Definition __le32_to_cpus (x : Z) : Z := x.
Definition __cpu_to_le16s (x : Z) : Z := x.
Definition __le16_to_cpus (x : Z) : Z := x.
Definition __cpu_to_be64s (x : Z) : Z := __swab64s x.
Definition __be64_to_cpus (x : Z) : Z := __swab64s x.
Definition __cpu_to_be32s (x : Z) : Z := __swab32s x.
Definition __be32_to_cpus (x : Z) : Z := __swab32s x.
Definition __cpu_to_be16s (x : Z) : Z := __swab16s x.
Definition __be16_to_cpus (x : Z) : Z := __swab16s x.

(** Width, run-time macro, and the constant, pointer and in-place versions of
    every conversion. *)
Definition variants : list (Z * (Z -> Z) * list (Z -> Z)) := [
  (64, __cpu_to_le64, [__constant_cpu_to_le64; __cpu_to_le64p; __cpu_to_le64s]);
  (64, __le64_to_cpu, [__constant_le64_to_cpu; __le64_to_cpup; __le64_to_cpus]);
  (32, __cpu_to_le32, [__constant_cpu_to_le32; __cpu_to_le32p; __cpu_to_le32s]);
  (32, __le32_to_cpu, [__constant_le32_to_cpu; __le32_to_cpup; __le32_to_cpus]);
  (16, __cpu_to_le16, [__constant_cpu_to_le16; __cpu_to_le16p; __cpu_to_le16s]);
  (16, __le16_to_cpu, [__constant_le16_to_cpu; __le16_to_cpup; __le16_to_cpus]);
  (64, __cpu_to_be64, [__constant_cpu_to_be64; __cpu_to_be64p; __cpu_to_be64s]);
  (64, __be64_to_cpu, [__constant_be64_to_cpu; __be64_to_cpup; __be64_to_cpus]);
  (32, __cpu_to_be32, [__constant_cpu_to_be32; __cpu_to_be32p; __cpu_to_be32s]);
  (32, __be32_to_cpu, [__constant_be32_to_cpu; __be32_to_cpup; __be32_to_cpus]);
  (16, __cpu_to_be16, [__constant_cpu_to_be16; __cpu_to_be16p; __cpu_to_be16s]);
  (16, __be16_to_cpu, [__constant_be16_to_cpu; __be16_to_cpup; __be16_to_cpus])
].
End le.
End LittleEndian.

Module BigEndian.
Section be.
Context {A : SwabArch}.
Definition __constant_htonl (x : Z) : Z := u32 x.
Definition __constant_ntohl (x : Z) : Z := u32 x.
Definition __constant_htons (x : Z) : Z := u16 x.
Definition __constant_ntohs (x : Z) : Z := u16 x.
Definition __constant_cpu_to_le64 (x : Z) : Z := ___constant_swab64 x.
Definition __constant_le64_to_cpu (x : Z) : Z := ___constant_swab64 (u64 x).
Definition __constant_cpu_to_le32 (x : Z) : Z := ___constant_swab32 x.
Definition __constant_le32_to_cpu (x : Z) : Z := ___constant_swab32 (u32 x).
Definition __constant_cpu_to_le16 (x : Z) : Z := ___constant_swab16 x.
Definition __constant_le16_to_cpu (x : Z) : Z := ___constant_swab16 (u16 x).
Definition __constant_cpu_to_be64 (x : Z) : Z := u64 x.
Definition __constant_be64_to_cpu (x : Z) : Z := u64 x.
Definition __constant_cpu_to_be32 (x : Z) : Z := u32 x.
Definition __constant_be32_to_cpu (x : Z) : Z := u32 x.
Definition __constant_cpu_to_be16 (x : Z) : Z := u16 x.
Definition __constant_be16_to_cpu (x : Z) : Z := u16 x.
Definition __cpu_to_le64 (x : Z) : Z := __swab64 x.
Definition __le64_to_cpu (x : Z) : Z := __swab64 (u64 x).
Definition __cpu_to_le32 (x : Z) : Z := __swab32 x.
Definition __le32_to_cpu (x : Z) : Z := __swab32 (u32 x).
Definition __cpu_to_le16 (x : Z) : Z := __swab16 x.
Definition __le16_to_cpu (x : Z) : Z := __swab16 (u16 x).
Definition __cpu_to_be64 (x : Z) : Z := u64 x.
Definition __be64_to_cpu (x : Z) : Z := u64 x.
Definition __cpu_to_be32 (x : Z) : Z := u32 x.
Definition __be32_to_cpu (x : Z) : Z := u32 x.
Definition __cpu_to_be16 (x : Z) : Z := u16 x.
Definition __be16_to_cpu (x : Z) : Z := u16 x.
Definition __cpu_to_le64p (p : Z) : Z := __swab64p p.
Definition __le64_to_cpup (p : Z) : Z := __swab64p p.
Definition __cpu_to_le32p (p : Z) : Z := __swab32p p.
Definition __le32_to_cpup (p : Z) : Z := __swab32p p.
Definition __cpu_to_le16p (p : Z) : Z := __swab16p p.
Definition __le16_to_cpup (p : Z) : Z := __swab16p p.
Definition __cpu_to_be64p (p : Z) : Z := p.
Definition __be64_to_cpup (p : Z) : Z := p.
Definition __cpu_to_be32p (p : Z) : Z := p.
Definition __be32_to_cpup (p : Z) : Z := p.
Definition __cpu_to_be16p (p : Z) : Z := p.
Definition __be16_to_cpup (p : Z) : Z := p.
Definition __cpu_to_le64s (x : Z) : Z := __swab64s x.
Definition __le64_to_cpus (x : Z) : Z := __swab64s x.
Definition __cpu_to_le32s (x : Z) : Z := __swab32s x.
Definition __le32_to_cpus (x : Z) : Z := __swab32s x.
Definition __cpu_to_le16s (x : Z) : Z := __swab16s x.
Definition __le16_to_cpus (x : Z) : Z := __swab16s x.
Definition __cpu_to_be64s (x : Z) : Z := x.
Definition __be64_to_cpus (x : Z) : Z := x.
Definition __cpu_to_be32s (x : Z) : Z := x.
Definition __be32_to_cpus (x : Z) : Z := x.
Definition __cpu_to_be16s (x : Z) : Z := x.
Definition __be16_to_cpus (x : Z) : Z := x.

(** Width, run-time macro, and the constant, pointer and in-place versions of
    every conversion. *)
Definition variants : list (Z * (Z -> Z) * list (Z -> Z)) := [
  (64, __cpu_to_le64, [__constant_cpu_to_le64; __cpu_to_le64p; __cpu_to_le64s]);
  (64, __le64_to_cpu, [__constant_le64_to_cpu; __le64_to_cpup; __le64_to_cpus]);
  (32, __cpu_to_le32, [__constant_cpu_to_le32; __cpu_to_le32p; __cpu_to_le32s]);
  (32, __le32_to_cpu, [__constant_le32_to_cpu; __le32_to_cpup; __le32_to_cpus]);
  (16, __cpu_to_le16, [__constant_cpu_to_le16; __cpu_to_le16p; __cpu_to_le16s]);
  (16, __le16_to_cpu, [__constant_le16_to_cpu; __le16_to_cpup; __le16_to_cpus]);
  (64, __cpu_to_be64, [__constant_cpu_to_be64; __cpu_to_be64p; __cpu_to_be64s]);
  (64, __be64_to_cpu, [__constant_be64_to_cpu; __be64_to_cpup; __be64_to_cpus]);
  (32, __cpu_to_be32, [__constant_cpu_to_be32; __cpu_to_be32p; __cpu_to_be32s]);
  (32, __be32_to_cpu, [__constant_be32_to_cpu; __be32_to_cpup; __be32_to_cpus]);
  (16, __cpu_to_be16, [__constant_cpu_to_be16; __cpu_to_be16p; __cpu_to_be16s]);
  (16, __be16_to_cpu, [__constant_be16_to_cpu; __be16_to_cpup; __be16_to_cpus])
].
End be.
End BigEndian.

(** ** Swapping, bit by bit *)

(** [y] is [x] with its [n] bytes in reverse order. *)
Definition swapped (n y x : Z) : Prop :=
  forall i, 0 <= i ->
    Z.testbit y i = (i <? 8 * n) && Z.testbit x (8 * (n - 1 - i / 8) + i mod 8).

(** Bits selected by a mask of consecutive bits. *)
Lemma field_bit x a len i :
  0 <= a -> 0 <= len -> 0 <= i ->
  Z.testbit (x &&& (Z.ones len ≪ a)) i = (a <=? i) && (i <? a + len) && Z.testbit x i.
Proof.
  intros. rewrite Z.land_spec, Z.shiftl_spec by lia.
  destruct (Z.leb_spec a i); cbn [andb].
  - rewrite Z.testbit_ones_nonneg by lia.
    destruct (Z.ltb_spec (i - a) len), (Z.ltb_spec i (a + len)); try lia;
      by rewrite ?andb_true_r, ?andb_false_r.
  - rewrite (Z.testbit_neg_r _ (i - a)) by lia. apply andb_false_r.
Qed.

Lemma wrap_bit w x i : 0 <= w -> 0 <= i -> Z.testbit (wrap w x) i = (i <? w) && Z.testbit x i.
Proof.
  intros. unfold wrap. destruct (Z.ltb_spec i w); cbn [andb].
  - by apply Z.mod_pow2_bits_low.
  - apply Z.mod_pow2_bits_high. lia.
Qed.

Lemma shl_field_bit x a len s i :
  0 <= a -> 0 <= len -> 0 <= s -> 0 <= i ->
  Z.testbit ((x &&& (Z.ones len ≪ a)) ≪ s) i =
    (a + s <=? i) && (i <? a + s + len) && Z.testbit x (i - s).
Proof.
  intros. rewrite Z.shiftl_spec by lia.
  destruct (Z.leb_spec (a + s) i); cbn [andb].
  - rewrite field_bit by lia. rewrite (proj2 (Z.leb_le a (i - s))) by lia. cbn [andb].
    f_equal. destruct (Z.ltb_spec (i - s) (a + len)), (Z.ltb_spec i (a + s + len)); lia || done.
  - destruct (decide (i < s)); [by rewrite Z.testbit_neg_r by lia|].
    rewrite field_bit by lia. by rewrite (proj2 (Z.leb_gt a (i - s))) by lia.
Qed.

Lemma shr_field_bit x a len s i :
  0 <= a -> 0 <= len -> 0 <= s -> 0 <= i ->
  Z.testbit ((x &&& (Z.ones len ≪ a)) ≫ s) i =
    (a - s <=? i) && (i <? a - s + len) && Z.testbit x (i + s).
Proof.
  intros. rewrite Z.shiftr_spec, field_bit by lia. f_equal. f_equal.
  - destruct (Z.leb_spec a (i + s)), (Z.leb_spec (a - s) i); lia || done.
  - destruct (Z.ltb_spec (i + s) (a + len)), (Z.ltb_spec i (a - s + len)); lia || done.
Qed.

(** Decides the comparisons of a goal. *)
Ltac decide_bounds :=
  repeat match goal with
  | |- context [?a <=? ?b] =>
      first [rewrite (proj2 (Z.leb_le a b)) by lia | rewrite (proj2 (Z.leb_gt a b)) by lia]
  | |- context [?a <? ?b] =>
      first [rewrite (proj2 (Z.ltb_lt a b)) by lia | rewrite (proj2 (Z.ltb_ge a b)) by lia]
  end; cbn [andb orb]; rewrite ?orb_false_r.

(** Removes masks, shifts and wraps under [Z.testbit]. *)
Ltac bit_specs :=
  rewrite ?Z.lor_spec;
  repeat match goal with
  | |- context [Z.testbit (wrap ?w ?x) ?i] => rewrite (wrap_bit w x i) by lia
  | |- context [Z.testbit (?x ||| ?y) ?i] => rewrite (Z.lor_spec x y i)
  | |- context [Z.testbit ((?x &&& (Z.ones ?l ≪ ?a)) ≪ ?s) ?i] =>
      rewrite (shl_field_bit x a l s i) by lia
  | |- context [Z.testbit ((?x &&& (Z.ones ?l ≪ ?a)) ≫ ?s) ?i] =>
      rewrite (shr_field_bit x a l s i) by lia
  end.

(** The case of byte [j] of bit [i]. *)
Ltac byte_case i j :=
  replace (i / 8) with j by (Z.to_euclidean_division_equations; lia);
  replace (i mod 8) with (i - 8 * j) by (Z.to_euclidean_division_equations; lia);
  bit_specs; decide_bounds; f_equal; lia.

Lemma constant_swab16_swapped x : is_u16 x -> swapped 2 (___constant_swab16 x) x.
Proof.
  intros Hx i Hi. unfold ___constant_swab16. rewrite (wrap_small 16 x) by done.
  change 0x00ff with (Z.ones 8 ≪ 0). change 0xff00 with (Z.ones 8 ≪ 8).
  assert (i < 8 \/ 8 <= i < 16 \/ 16 <= i) as [H|[H|H]] by lia.
  - byte_case i 0.
  - byte_case i 1.
  - bit_specs. by decide_bounds.
Qed.

Lemma constant_swab32_swapped x : is_u32 x -> swapped 4 (___constant_swab32 x) x.
Proof.
  intros Hx i Hi. unfold ___constant_swab32. rewrite (wrap_small 32 x) by done.
  change 0x000000ff with (Z.ones 8 ≪ 0). change 0x0000ff00 with (Z.ones 8 ≪ 8).
  change 0x00ff0000 with (Z.ones 8 ≪ 16). change 0xff000000 with (Z.ones 8 ≪ 24).
  assert (i < 8 \/ 8 <= i < 16 \/ 16 <= i < 24 \/ 24 <= i < 32 \/ 32 <= i) as H by lia.
  destruct H as [H|[H|[H|[H|H]]]];
    [byte_case i 0|byte_case i 1|byte_case i 2|byte_case i 3|bit_specs; by decide_bounds].
Qed.

Lemma constant_swab64_swapped x : is_u64 x -> swapped 8 (___constant_swab64 x) x.
Proof.
  intros Hx i Hi. unfold ___constant_swab64. rewrite (wrap_small 64 x) by done.
  change 0x00000000000000ff with (Z.ones 8 ≪ 0). change 0x000000000000ff00 with (Z.ones 8 ≪ 8).
  change 0x0000000000ff0000 with (Z.ones 8 ≪ 16). change 0x00000000ff000000 with (Z.ones 8 ≪ 24).
  change 0x000000ff00000000 with (Z.ones 8 ≪ 32). change 0x0000ff0000000000 with (Z.ones 8 ≪ 40).
  change 0x00ff000000000000 with (Z.ones 8 ≪ 48). change 0xff00000000000000 with (Z.ones 8 ≪ 56).
  assert (i < 8 \/ 8 <= i < 16 \/ 16 <= i < 24 \/ 24 <= i < 32 \/ 32 <= i < 40 \/
    40 <= i < 48 \/ 48 <= i < 56 \/ 56 <= i < 64 \/ 64 <= i) as H by lia.
  destruct H as [H|[H|[H|[H|[H|[H|[H|[H|H]]]]]]]];
    [byte_case i 0|byte_case i 1|byte_case i 2|byte_case i 3|byte_case i 4|byte_case i 5
    |byte_case i 6|byte_case i 7|bit_specs; by decide_bounds].
Qed.

(** ** Consequences of [swapped] *)

Lemma swapped_unique n y y' x : swapped n y x -> swapped n y' x -> y = y'.
Proof. intros H H'. apply Z.bits_inj'. intros i Hi. by rewrite (H i Hi), (H' i Hi). Qed.

Lemma swapped_range n y x : 0 <= n -> swapped n y x -> in_word (8 * n) y.
Proof.
  intros Hn H. enough (wrap (8 * n) y = y) as <- by (apply wrap_range; lia).
  apply Z.bits_inj'. intros i Hi. rewrite wrap_bit, (H i Hi) by lia.
  by destruct (i <? 8 * n).
Qed.

Lemma swapped_sym n y x : 0 <= n -> in_word (8 * n) x -> swapped n y x -> swapped n x y.
Proof.
  intros Hn Hx H i Hi. destruct (Z.ltb_spec i (8 * n)); cbn [andb].
  - assert (0 <= i / 8 < n) by (Z.to_euclidean_division_equations; lia).
    assert (0 <= i mod 8 < 8) by (apply Z.mod_pos_bound; lia).
    rewrite H by lia.
    assert ((8 * (n - 1 - i / 8) + i mod 8) / 8 = n - 1 - i / 8) as ->
      by (Z.to_euclidean_division_equations; lia).
    assert ((8 * (n - 1 - i / 8) + i mod 8) mod 8 = i mod 8) as ->
      by (Z.to_euclidean_division_equations; lia).
    rewrite (proj2 (Z.ltb_lt _ _)) by lia. cbn [andb]. f_equal.
    Z.to_euclidean_division_equations; lia.
  - apply (testbit_high (8 * n)); [done|lia].
Qed.

(** The bytes of a word from the low end, as a little-endian machine stores it. *)
Definition byte_of (x : Z) (j : nat) : Z := (x ≫ (8 * Z.of_nat j)) &&& 0xff.
Definition le_bytes (n : nat) (x : Z) : list Z := byte_of x <$> seq 0 n.
(** As a big-endian machine stores it. *)
Definition be_bytes (n : nat) (x : Z) : list Z := reverse (le_bytes n x).

Lemma swapped_byte n y x j :
  swapped (Z.of_nat n) y x -> (j < n)%nat -> byte_of y j = byte_of x (n - 1 - j).
Proof.
  intros H Hj. unfold byte_of. apply Z.bits_inj'. intros i Hi. rewrite !Z.land_spec.
  change 0xff with (Z.ones 8). rewrite Z.testbit_ones_nonneg by lia.
  destruct (Z.ltb_spec i 8); [|by rewrite !andb_false_r].
  rewrite !Z.shiftr_spec, H by lia. rewrite (proj2 (Z.ltb_lt _ _)) by lia. cbn [andb].
  f_equal. f_equal. Z.to_euclidean_division_equations. lia.
Qed.

Lemma swapped_bytes n y x :
  swapped (Z.of_nat n) y x -> le_bytes n y = reverse (le_bytes n x).
Proof.
  intros H. apply list_eq. intros j. unfold le_bytes. destruct (decide (j < n)%nat).
  - rewrite reverse_lookup by (rewrite length_fmap, length_seq; done).
    rewrite length_fmap, length_seq, !list_lookup_fmap, !lookup_seq_lt by lia. cbn. f_equal.
    rewrite (swapped_byte n y x) by done. f_equal. lia.
  - rewrite !lookup_ge_None_2; [done|rewrite length_reverse|]; rewrite length_fmap, length_seq; lia.
Qed.

(** ** The functions swap, on any platform whose own routines do *)

#[local] Opaque ___constant_swab16 ___constant_swab32 ___constant_swab64 ___constant_swahw32
  ___constant_swahb32.

Section correct.
Context {A : SwabArch} {HA : SwabArchOk A}.

Lemma or_else_spec h f x :
  in_word (hook_width h) x -> f x = hook_spec h x -> or_else h f x = hook_spec h x.
Proof. intros Hx Hf. unfold or_else. destruct (hook h) eqn:E; [by eapply hook_ok|done]. Qed.

Lemma fswab16_constant x : is_u16 x -> __fswab16 x = ___constant_swab16 x.
Proof. intros Hx. by apply (or_else_spec builtin_bswap16), (or_else_spec arch_swab16). Qed.

Lemma fswab32_constant x : is_u32 x -> __fswab32 x = ___constant_swab32 x.
Proof. intros Hx. by apply (or_else_spec builtin_bswap32), (or_else_spec arch_swab32). Qed.

(** The 64-bit swap through two 32-bit ones. *)
Lemma swab_64_thru_32_swapped x h l :
  is_u64 x -> swapped 4 h (u32 (x ≫ 32)) -> swapped 4 l (u32 (x &&& (u64 (1 ≪ 32) - 1))) ->
  swapped 8 (u64 (l ≪ 32) ||| h) x.
Proof.
  intros Hx Hh Hl i Hi. rewrite Z.lor_spec, wrap_bit, Z.shiftl_spec by lia.
  change (u64 (1 ≪ 32) - 1) with (Z.ones 32) in Hl.
  rewrite (Hh i Hi).
  destruct (decide (i < 32)).
  - rewrite (Z.testbit_neg_r l) by lia. rewrite andb_false_r. cbn [orb].
    assert (0 <= i / 8 < 4) by (Z.to_euclidean_division_equations; lia).
    assert (0 <= i mod 8 < 8) by (apply Z.mod_pos_bound; lia).
    rewrite wrap_bit, Z.shiftr_spec by lia. decide_bounds. f_equal. lia.
  - rewrite (proj2 (Z.ltb_ge i (8 * 4))) by lia. cbn [andb]. rewrite orb_false_r.
    destruct (Z.ltb_spec i 64); cbn [andb]; [|by decide_bounds].
    rewrite Hl by lia. change (8 * 8) with 64. decide_bounds.
    assert ((i - 32) / 8 = i / 8 - 4) as -> by (Z.to_euclidean_division_equations; lia).
    assert ((i - 32) mod 8 = i mod 8) as -> by (Z.to_euclidean_division_equations; lia).
    assert (4 <= i / 8 < 8) by (Z.to_euclidean_division_equations; lia).
    assert (0 <= i mod 8 < 8) by (apply Z.mod_pos_bound; lia).
    rewrite wrap_bit, Z.land_spec, Z.testbit_ones_nonneg by lia. decide_bounds.
    rewrite andb_true_r. f_equal. lia.
Qed.

Lemma fswab64_constant x : is_u64 x -> __fswab64 x = ___constant_swab64 x.
Proof.
  intros Hx. apply (or_else_spec builtin_bswap64), (or_else_spec arch_swab64); [done..|].
  destruct swab_64_thru_32; [|done]. cbv zeta.
  apply (swapped_unique 8 _ _ x); [|by apply constant_swab64_swapped].
  apply swab_64_thru_32_swapped; [done|..].
  - rewrite fswab32_constant by (apply wrap_range; lia).
    apply constant_swab32_swapped, wrap_range. lia.
  - rewrite fswab32_constant by (apply wrap_range; lia).
    apply constant_swab32_swapped, wrap_range. lia.
Qed.

Lemma swab16_constant x : is_u16 x -> __swab16 x = ___constant_swab16 x.
Proof.
  intros. unfold __swab16. destruct constant_p; [done|].
  rewrite wrap_small by done. by apply fswab16_constant.
Qed.
Lemma swab32_constant x : is_u32 x -> __swab32 x = ___constant_swab32 x.
Proof.
  intros. unfold __swab32. destruct constant_p; [done|].
  rewrite wrap_small by done. by apply fswab32_constant.
Qed.
Lemma swab64_constant x : is_u64 x -> __swab64 x = ___constant_swab64 x.
Proof.
  intros. unfold __swab64. destruct constant_p; [done|].
  rewrite wrap_small by done. by apply fswab64_constant.
Qed.
Lemma swahw32_constant x : is_u32 x -> __swahw32 x = ___constant_swahw32 x.
Proof.
  intros. unfold __swahw32. destruct constant_p; [done|].
  rewrite wrap_small by done. by apply (or_else_spec arch_swahw32).
Qed.
Lemma swahb32_constant x : is_u32 x -> __swahb32 x = ___constant_swahb32 x.
Proof.
  intros. unfold __swahb32. destruct constant_p; [done|].
  rewrite wrap_small by done. by apply (or_else_spec arch_swahb32).
Qed.

Lemma swab16_swapped x : is_u16 x -> swapped 2 (__swab16 x) x.
Proof. intros. rewrite swab16_constant by done. by apply constant_swab16_swapped. Qed.
Lemma swab32_swapped x : is_u32 x -> swapped 4 (__swab32 x) x.
Proof. intros. rewrite swab32_constant by done. by apply constant_swab32_swapped. Qed.
Lemma swab64_swapped x : is_u64 x -> swapped 8 (__swab64 x) x.
Proof. intros. rewrite swab64_constant by done. by apply constant_swab64_swapped. Qed.

(** Swapping what a pointer designates, and in place. *)
Lemma swab16p_same x : is_u16 x -> __swab16p x = __swab16 x.
Proof.
  intros. rewrite swab16_constant by done.
  apply (or_else_spec arch_swab16p); [done|by apply swab16_constant].
Qed.
Lemma swab32p_same x : is_u32 x -> __swab32p x = __swab32 x.
Proof.
  intros. rewrite swab32_constant by done.
  apply (or_else_spec arch_swab32p); [done|by apply swab32_constant].
Qed.
Lemma swab64p_same x : is_u64 x -> __swab64p x = __swab64 x.
Proof.
  intros. rewrite swab64_constant by done.
  apply (or_else_spec arch_swab64p); [done|by apply swab64_constant].
Qed.
Lemma swab16s_same x : is_u16 x -> __swab16s x = __swab16 x.
Proof.
  intros. rewrite <- (swab16p_same x), swab16p_same, swab16_constant by done.
  apply (or_else_spec arch_swab16s); [done|].
  by rewrite swab16p_same, swab16_constant.
Qed.
Lemma swab32s_same x : is_u32 x -> __swab32s x = __swab32 x.
Proof.
  intros. rewrite swab32_constant by done. apply (or_else_spec arch_swab32s); [done|].
  by rewrite swab32p_same, swab32_constant.
Qed.
Lemma swab64s_same x : is_u64 x -> __swab64s x = __swab64 x.
Proof.
  intros. rewrite swab64_constant by done. apply (or_else_spec arch_swab64s); [done|].
  by rewrite swab64p_same, swab64_constant.
Qed.
End correct.

(** ** Half-word swaps *)

#[local] Transparent ___constant_swahw32 ___constant_swahb32.

Lemma constant_swahw32_bit x i :
  is_u32 x -> 0 <= i ->
  Z.testbit (___constant_swahw32 x) i =
    (i <? 32) && Z.testbit x (if i <? 16 then i + 16 else i - 16).
Proof.
  intros Hx Hi. unfold ___constant_swahw32. rewrite (wrap_small 32 x) by done.
  change 0x0000ffff with (Z.ones 16 ≪ 0). change 0xffff0000 with (Z.ones 16 ≪ 16).
  assert (i < 16 \/ 16 <= i < 32 \/ 32 <= i) as [H|[H|H]] by lia; bit_specs; by decide_bounds.
Qed.

Lemma constant_swahb32_split x :
  is_u32 x ->
  ___constant_swahb32 x =
    u32 (u32 (((x &&& (Z.ones 8 ≪ 0)) ≪ 8) ||| ((x &&& (Z.ones 8 ≪ 16)) ≪ 8)) |||
         (((x &&& (Z.ones 8 ≪ 8)) ≫ 8) ||| ((x &&& (Z.ones 8 ≪ 24)) ≫ 8))).
Proof.
  intros Hx. unfold ___constant_swahb32. rewrite (wrap_small 32 x) by done.
  rewrite <- Z.shiftl_lor, <- Z.shiftr_lor, <- !Z.land_lor_distr_r. reflexivity.
Qed.

Lemma constant_swahb32_bit x i :
  is_u32 x -> 0 <= i ->
  Z.testbit (___constant_swahb32 x) i =
    (i <? 32) && Z.testbit x (if Z.even (i / 8) then i + 8 else i - 8).
Proof.
  intros Hx Hi. rewrite constant_swahb32_split by done.
  assert (i < 8 \/ 8 <= i < 16 \/ 16 <= i < 24 \/ 24 <= i < 32 \/ 32 <= i) as H by lia.
  destruct H as [H|[H|[H|[H|H]]]].
  - replace (i / 8) with 0 by (Z.to_euclidean_division_equations; lia).
    bit_specs. by decide_bounds.
  - replace (i / 8) with 1 by (Z.to_euclidean_division_equations; lia).
    bit_specs. by decide_bounds.
  - replace (i / 8) with 2 by (Z.to_euclidean_division_equations; lia).
    bit_specs. by decide_bounds.
  - replace (i / 8) with 3 by (Z.to_euclidean_division_equations; lia).
    bit_specs. by decide_bounds.
  - bit_specs. by decide_bounds.
Qed.

Lemma constant_swahw32_range x : is_u32 (___constant_swahw32 x).
Proof. apply wrap_range. lia. Qed.
Lemma constant_swahb32_range x : is_u32 (___constant_swahb32 x).
Proof. apply wrap_range. lia. Qed.

#[local] Opaque ___constant_swahw32 ___constant_swahb32.

(** A byte reversal undoes itself. *)
Lemma swapped_involutive n f x :
  0 <= n -> (forall y, in_word (8 * n) y -> swapped n (f y) y) -> in_word (8 * n) x -> f (f x) = x.
Proof.
  intros Hn Hf Hx. pose proof (Hf x Hx) as H. pose proof (swapped_range n _ _ Hn H).
  apply (swapped_unique n _ _ (f x)); [by apply Hf|by apply swapped_sym].
Qed.

Lemma constant_swahw32_involutive x :
  is_u32 x -> ___constant_swahw32 (___constant_swahw32 x) = x.
Proof.
  intros Hx. apply Z.bits_inj'. intros i Hi.
  rewrite !constant_swahw32_bit by (done || apply constant_swahw32_range).
  destruct (Z.ltb_spec i 32); [cbn [andb]|symmetry; by apply (testbit_high 32)].
  destruct (Z.ltb_spec i 16); rewrite constant_swahw32_bit by (done || lia);
    decide_bounds; f_equal; lia.
Qed.

Lemma constant_swahb32_involutive x :
  is_u32 x -> ___constant_swahb32 (___constant_swahb32 x) = x.
Proof.
  intros Hx. apply Z.bits_inj'. intros i Hi.
  rewrite !constant_swahb32_bit by (done || apply constant_swahb32_range).
  destruct (Z.ltb_spec i 32); [cbn [andb]|symmetry; by apply (testbit_high 32)].
  destruct (Z.even (i / 8)) eqn:E.
  - rewrite constant_swahb32_bit by (done || lia).
    replace ((i + 8) / 8) with (Z.succ (i / 8)) by (Z.to_euclidean_division_equations; lia).
    rewrite Z.even_succ, <- Z.negb_even, E. cbn [negb].
    assert (i < 24) by (assert (i / 8 <> 3) by (intros E'; by rewrite E' in E);
      Z.to_euclidean_division_equations; lia).
    decide_bounds. f_equal. lia.
  - assert (8 <= i) by (assert (i / 8 <> 0) by (intros E'; by rewrite E' in E);
      Z.to_euclidean_division_equations; lia).
    rewrite constant_swahb32_bit by (done || lia).
    replace ((i - 8) / 8) with (Z.pred (i / 8)) by (Z.to_euclidean_division_equations; lia).
    rewrite Z.even_pred, <- Z.negb_even, E. cbn [negb]. decide_bounds. f_equal. lia.
Qed.

Lemma constant_swab32_halves x :
  is_u32 x -> ___constant_swab32 x = ___constant_swahw32 (___constant_swahb32 x).
Proof.
  intros Hx. apply Z.bits_inj'. intros i Hi.
  rewrite (constant_swab32_swapped x), constant_swahw32_bit
    by (done || apply constant_swahb32_range).
  change (8 * 4) with 32. destruct (Z.ltb_spec i 32); cbn [andb]; [|done].
  assert (i < 8 \/ 8 <= i < 16 \/ 16 <= i < 24 \/ 24 <= i < 32) as Hb by lia.
  destruct (Z.ltb_spec i 16); rewrite constant_swahb32_bit by (done || lia); decide_bounds;
    f_equal; destruct Hb as [Hb|[Hb|[Hb|Hb]]]; try lia;
    match goal with |- context [Z.even (?a / 8)] =>
      first [ replace (a / 8) with 0 by (Z.to_euclidean_division_equations; lia)
            | replace (a / 8) with 1 by (Z.to_euclidean_division_equations; lia)
            | replace (a / 8) with 2 by (Z.to_euclidean_division_equations; lia)
            | replace (a / 8) with 3 by (Z.to_euclidean_division_equations; lia) ]
    end; cbn [Z.even]; Z.to_euclidean_division_equations; lia.
Qed.

(** ** Properties *)

(** A platform with a compiler builtin for 32 bits only, written independently
    of the header's own version, and [swab64] through it. *)
Definition bswap32_bytes (x : Z) : Z :=
  (byte_of x 0 ≪ 24) ||| (byte_of x 1 ≪ 16) ||| (byte_of x 2 ≪ 8) ||| byte_of x 3.

Definition sample_arch : SwabArch := {|
  hook h := match h with builtin_bswap32 => Some bswap32_bytes | _ => None end;
  swab_64_thru_32 := true;
  constant_p := false
|}.

Lemma bswap32_bytes_swapped x : is_u32 x -> swapped 4 (bswap32_bytes x) x.
Proof.
  intros Hx i Hi. unfold bswap32_bytes, byte_of.
  assert (forall j k, 0 <= k -> Z.testbit (((x ≫ j) &&& 0xff) ≪ k) i =
    (k <=? i) && (i <? k + 8) && Z.testbit (x ≫ j) (i - k)) as E.
  { intros j k Hk. change 0xff with (Z.ones 8 ≪ 0). rewrite shl_field_bit by lia. done. }
  rewrite !Z.lor_spec.
  replace (Z.testbit ((x ≫ (8 * Z.of_nat 3)) &&& 0xff) i)
    with (Z.testbit (((x ≫ (8 * Z.of_nat 3)) &&& 0xff) ≪ 0) i) by (by rewrite Z.shiftl_0_r).
  rewrite !E by lia.
  change (8 * Z.of_nat 0) with 0. change (8 * Z.of_nat 1) with 8.
  change (8 * Z.of_nat 2) with 16. change (8 * Z.of_nat 3) with 24.
  assert (i < 8 \/ 8 <= i < 16 \/ 16 <= i < 24 \/ 24 <= i < 32 \/ 32 <= i) as H by lia.
  destruct H as [H|[H|[H|[H|H]]]]; [| | | |by decide_bounds].
  - replace (i / 8) with 0 by (Z.to_euclidean_division_equations; lia).
    rewrite Z.mod_small by lia. decide_bounds. rewrite Z.shiftr_spec by lia. f_equal. lia.
  - replace (i / 8) with 1 by (Z.to_euclidean_division_equations; lia).
    replace (i mod 8) with (i - 8) by (Z.to_euclidean_division_equations; lia).
    decide_bounds. rewrite Z.shiftr_spec by lia. f_equal. lia.
  - replace (i / 8) with 2 by (Z.to_euclidean_division_equations; lia).
    replace (i mod 8) with (i - 16) by (Z.to_euclidean_division_equations; lia).
    decide_bounds. rewrite Z.shiftr_spec by lia. f_equal. lia.
  - replace (i / 8) with 3 by (Z.to_euclidean_division_equations; lia).
    replace (i mod 8) with (i - 24) by (Z.to_euclidean_division_equations; lia).
    decide_bounds. rewrite Z.shiftr_spec by lia. f_equal. lia.
Qed.

Lemma sample_arch_ok : SwabArchOk sample_arch.
Proof.
  intros [] f x; cbn; try discriminate. intros [= <-] Hx.
  apply (swapped_unique 4 _ _ x); [by apply bswap32_bytes_swapped|].
  by apply constant_swab32_swapped.
Qed.

(** On every platform whose own routines swap, the header's byte swaps
    reverse the bytes of a word, for 16, 32 and 64 bits, whether the value is
    given directly, through a pointer or swapped in place, and whichever of the
    builtin, the architecture's routine, the detour of [swab64] through 32 bits
    or the constant-folding macro is taken. *)
Theorem swab_reverses_bytes {A : SwabArch} (HA : SwabArchOk A) x :
  (is_u16 x -> le_bytes 2 (__swab16 x) = reverse (le_bytes 2 x) /\
    __swab16p x = __swab16 x /\ __swab16s x = __swab16 x) /\
  (is_u32 x -> le_bytes 4 (__swab32 x) = reverse (le_bytes 4 x) /\
    __swab32p x = __swab32 x /\ __swab32s x = __swab32 x) /\
  (is_u64 x -> le_bytes 8 (__swab64 x) = reverse (le_bytes 8 x) /\
    __swab64p x = __swab64 x /\ __swab64s x = __swab64 x).
Proof.
  split_and!; intros Hx; split_and!.
  - by apply swapped_bytes, swab16_swapped.
  - by apply swab16p_same.
  - by apply swab16s_same.
  - by apply swapped_bytes, swab32_swapped.
  - by apply swab32p_same.
  - by apply swab32s_same.
  - by apply swapped_bytes, swab64_swapped.
  - by apply swab64p_same.
  - by apply swab64s_same.
Qed.

Lemma swab_reverses_bytes_witness :
  @__swab64 sample_arch 0x0102030405060708 = 0x0807060504030201 /\
  le_bytes 8 (@__swab64 sample_arch 0x0102030405060708) =
    reverse (le_bytes 8 0x0102030405060708).
Proof.
  split; [vm_compute; reflexivity|].
  pose proof (swab_reverses_bytes sample_arch_ok 0x0102030405060708) as (_ & _ & H).
  apply H. split; vm_compute; congruence.
Defined.

(** All five swaps are their own inverses, and swapping the bytes of a
    32-bit word is swapping its half words after swapping the bytes in them. *)
Theorem swaps_involutive {A : SwabArch} (HA : SwabArchOk A) x :
  (is_u16 x -> __swab16 (__swab16 x) = x) /\
  (is_u32 x -> __swab32 (__swab32 x) = x) /\
  (is_u64 x -> __swab64 (__swab64 x) = x) /\
  (is_u32 x -> __swahw32 (__swahw32 x) = x) /\
  (is_u32 x -> __swahb32 (__swahb32 x) = x) /\
  (is_u32 x -> __swab32 x = __swahw32 (__swahb32 x)).
Proof.
  split_and!; intros Hx.
  - by apply (swapped_involutive 2), Hx; [|apply swab16_swapped].
  - by apply (swapped_involutive 4), Hx; [|apply swab32_swapped].
  - by apply (swapped_involutive 8), Hx; [|apply swab64_swapped].
  - rewrite (swahw32_constant x), swahw32_constant by (done || apply constant_swahw32_range).
    by apply constant_swahw32_involutive.
  - rewrite (swahb32_constant x), swahb32_constant by (done || apply constant_swahb32_range).
    by apply constant_swahb32_involutive.
  - rewrite swab32_constant, (swahb32_constant x), swahw32_constant
      by (done || apply constant_swahb32_range).
    by apply constant_swab32_halves.
Qed.

Lemma swaps_involutive_witness :
  @__swab64 sample_arch (@__swab64 sample_arch 0x0102030405060708) = 0x0102030405060708 /\
  @__swab32 sample_arch 0x12345678 = @__swahw32 sample_arch (@__swahb32 sample_arch 0x12345678).
Proof.
  split.
  - pose proof (swaps_involutive sample_arch_ok 0x0102030405060708) as (_ & _ & H & _).
    apply H. split; vm_compute; congruence.
  - pose proof (swaps_involutive sample_arch_ok 0x12345678) as (_ & _ & _ & _ & _ & H).
    apply H. split; vm_compute; congruence.
Defined.

(** C25: conversion to a fixed byte order is independent of the host: a value
    converted on a little-endian machine and one converted on a big-endian
    machine occupy the same bytes in memory, most significant first for [be] and
    least significant first for [le]; and each machine converts back. *)
Theorem fixed_order_host_independent {A B : SwabArch} (HA : SwabArchOk A) (HB : SwabArchOk B) x :
  (is_u16 x ->
    le_bytes 2 (@LittleEndian.__cpu_to_be16 A x) = be_bytes 2 (BigEndian.__cpu_to_be16 x) /\
    le_bytes 2 (LittleEndian.__cpu_to_le16 x) = be_bytes 2 (@BigEndian.__cpu_to_le16 B x) /\
    @LittleEndian.__be16_to_cpu A (@LittleEndian.__cpu_to_be16 A x) = x /\
    @BigEndian.__le16_to_cpu B (@BigEndian.__cpu_to_le16 B x) = x) /\
  (is_u32 x ->
    le_bytes 4 (@LittleEndian.__cpu_to_be32 A x) = be_bytes 4 (BigEndian.__cpu_to_be32 x) /\
    le_bytes 4 (LittleEndian.__cpu_to_le32 x) = be_bytes 4 (@BigEndian.__cpu_to_le32 B x) /\
    @LittleEndian.__be32_to_cpu A (@LittleEndian.__cpu_to_be32 A x) = x /\
    @BigEndian.__le32_to_cpu B (@BigEndian.__cpu_to_le32 B x) = x) /\
  (is_u64 x ->
    le_bytes 8 (@LittleEndian.__cpu_to_be64 A x) = be_bytes 8 (BigEndian.__cpu_to_be64 x) /\
    le_bytes 8 (LittleEndian.__cpu_to_le64 x) = be_bytes 8 (@BigEndian.__cpu_to_le64 B x) /\
    @LittleEndian.__be64_to_cpu A (@LittleEndian.__cpu_to_be64 A x) = x /\
    @BigEndian.__le64_to_cpu B (@BigEndian.__cpu_to_le64 B x) = x).
Proof.
  assert (forall (C : SwabArch), SwabArchOk C -> forall n f y,
    (forall z, in_word (8 * Z.of_nat n) z -> swapped (Z.of_nat n) (f z) z) ->
    in_word (8 * Z.of_nat n) y ->
    le_bytes n (f y) = be_bytes n y /\ le_bytes n y = be_bytes n (f y) /\
    f (wrap (8 * Z.of_nat n) (f y)) = y) as K.
  { intros C HC n f y Hf Hy. pose proof (Hf y Hy) as H.
    pose proof (swapped_range (Z.of_nat n) _ _ ltac:(lia) H) as Hr.
    pose proof (swapped_sym (Z.of_nat n) _ _ ltac:(lia) Hy H) as Hsym. unfold be_bytes. split_and!.
    - by apply swapped_bytes.
    - by apply swapped_bytes.
    - rewrite wrap_small by done. apply (swapped_unique (Z.of_nat n) _ _ (f y)); [by apply Hf|done]. }
  unfold LittleEndian.__cpu_to_be16, BigEndian.__cpu_to_be16, LittleEndian.__cpu_to_le16,
    BigEndian.__cpu_to_le16, LittleEndian.__be16_to_cpu, BigEndian.__le16_to_cpu,
    LittleEndian.__cpu_to_be32, BigEndian.__cpu_to_be32, LittleEndian.__cpu_to_le32,
    BigEndian.__cpu_to_le32, LittleEndian.__be32_to_cpu, BigEndian.__le32_to_cpu,
    LittleEndian.__cpu_to_be64, BigEndian.__cpu_to_be64, LittleEndian.__cpu_to_le64,
    BigEndian.__cpu_to_le64, LittleEndian.__be64_to_cpu, BigEndian.__le64_to_cpu.
  split_and!; intros Hx.
  - destruct (K A HA 2%nat (@__swab16 A) x (@swab16_swapped A HA) Hx) as (H1 & _ & H3).
    destruct (K B HB 2%nat (@__swab16 B) x (@swab16_swapped B HB) Hx) as (_ & H2 & H4).
    rewrite (wrap_small 16 x) by done. done.
  - destruct (K A HA 4%nat (@__swab32 A) x (@swab32_swapped A HA) Hx) as (H1 & _ & H3).
    destruct (K B HB 4%nat (@__swab32 B) x (@swab32_swapped B HB) Hx) as (_ & H2 & H4).
    rewrite (wrap_small 32 x) by done. done.
  - destruct (K A HA 8%nat (@__swab64 A) x (@swab64_swapped A HA) Hx) as (H1 & _ & H3).
    destruct (K B HB 8%nat (@__swab64 B) x (@swab64_swapped B HB) Hx) as (_ & H2 & H4).
    rewrite (wrap_small 64 x) by done. done.
Qed.

Lemma fixed_order_host_independent_witness :
  le_bytes 4 (@LittleEndian.__cpu_to_be32 sample_arch 0x12345678) =
    be_bytes 4 (BigEndian.__cpu_to_be32 0x12345678) /\
  le_bytes 4 (@LittleEndian.__cpu_to_be32 sample_arch 0x12345678) = [0x12; 0x34; 0x56; 0x78].
Proof.
  split; [|vm_compute; reflexivity].
  pose proof (fixed_order_host_independent sample_arch_ok sample_arch_ok 0x12345678) as (_ & H & _).
  apply H. split; vm_compute; congruence.
Defined.

(** Unfolds the two versions and drops conversions to the width. *)
Ltac variant_same :=
  lazymatch goal with |- ?g _ = ?f _ =>
    let hg := head_of g in let hf := head_of f in unfold hg, hf
  end;
  rewrite ?wrap_small by done;
  rewrite ?swab16s_same, ?swab32s_same, ?swab64s_same, ?swab16p_same, ?swab32p_same, ?swab64p_same
    by done;
  rewrite ?swab16_constant, ?swab32_constant, ?swab64_constant by done;
  reflexivity.

(** For every conversion of either byte-order header, the constant-folding
    macro, the version on a pointer and the version in place compute what the
    run-time macro computes, on every value of the conversion's width. *)
Theorem conversion_variants_agree {A : SwabArch} (HA : SwabArchOk A) w f gs g x :
  (w, f, gs) ∈ LittleEndian.variants ++ BigEndian.variants -> g ∈ gs -> in_word w x -> g x = f x.
Proof.
  intros Hf Hg Hx.
  enough (Forall (fun '(w, f, gs) => Forall (fun g => forall x, in_word w x -> g x = f x) gs)
    (LittleEndian.variants ++ BigEndian.variants)) as H.
  { rewrite Forall_forall in H. specialize (H _ Hf). cbn in H.
    rewrite Forall_forall in H. by apply H. }
  clear - HA. unfold LittleEndian.variants, BigEndian.variants. cbn [app].
  repeat apply Forall_cons_2; try apply Forall_nil_2; repeat apply Forall_cons_2;
    try apply Forall_nil_2; intros x Hx; variant_same.
Qed.

Lemma conversion_variants_agree_witness :
  @LittleEndian.__cpu_to_be32s sample_arch 0x12345678 =
    @LittleEndian.__cpu_to_be32 sample_arch 0x12345678.
Proof.
  apply (conversion_variants_agree sample_arch_ok 32 (@LittleEndian.__cpu_to_be32 sample_arch)
    [LittleEndian.__constant_cpu_to_be32; @LittleEndian.__cpu_to_be32p sample_arch;
     @LittleEndian.__cpu_to_be32s sample_arch]).
  - apply elem_of_app. left. unfold LittleEndian.variants.
    do 8 (apply elem_of_cons; right). apply elem_of_cons. left. reflexivity.
  - apply elem_of_cons; right. apply elem_of_cons; right. apply elem_of_cons. left. reflexivity.
  - split; vm_compute; congruence.
Defined.
