(* ===== verification/Memory.v ===== *)
(** * Byte memory with native integers

    A buffer is a list of bytes and a pointer into it an offset; a load or store
    that leaves the buffer is a fault ([None]). Integer fields are stored in the
    byte order of the host, which is a parameter ([ByteOrder]), so that what is
    proved holds on every host. The files that treat records in a buffer
    ([Netlink], [MaximSti], [UsbDesc]) share the lemmas here. *)
From S2P Require Import Prelude.

Abbreviation bytes := (list Z).

(** The byte order of the host: [true] when the high byte comes first. *)
Class ByteOrder : Type := big_endian : bool.

(** ** Little-endian byte strings *)

Fixpoint le_val (l : bytes) : Z :=
  match l with
  | [] => 0
  | b :: l => b + 256 * le_val l
  end.

Fixpoint le_bytes (n : nat) (v : Z) : bytes :=
  match n with
  | O => []
  | S n => u8 v :: le_bytes n (v / 256)
  end.

Lemma le_bytes_length n v : length (le_bytes n v) = n.
Proof. revert v. induction n as [|n IH]; intros v; simpl; auto. Qed.

Lemma pow_256 n : 2 ^ (8 * Z.of_nat n) = 256 ^ Z.of_nat n.
Proof. by rewrite Z.pow_mul_r by lia. Qed.

Lemma pow_256_S n : 256 ^ Z.of_nat (S n) = 256 * 256 ^ Z.of_nat n.
Proof. rewrite Nat2Z.inj_succ, Z.pow_succ_r by lia. done. Qed.

Lemma le_val_bytes n v : le_val (le_bytes n v) = wrap (8 * Z.of_nat n) v.
Proof.
  unfold wrap. rewrite pow_256. revert v.
  induction n as [|n IH]; intros v; simpl le_bytes; [by rewrite Z.mod_1_r|].
  simpl le_val. rewrite IH, pow_256_S. unfold wrap. change (2 ^ 8) with 256.
  rewrite Z.rem_mul_r by lia. done.
Qed.

Lemma le_bytes_u8 n v : Forall is_u8 (le_bytes n v).
Proof. revert v. induction n; intros v; constructor; auto. by apply wrap_range. Qed.

Lemma le_val_range l : Forall is_u8 l -> in_word (8 * Z.of_nat (length l)) (le_val l).
Proof.
  unfold in_word. rewrite pow_256. induction 1 as [|b l Hb Hl IH]; [done|].
  simpl length. simpl le_val. rewrite pow_256_S.
  destruct Hb as [? Hb]. change (2 ^ 8) with 256 in Hb. lia.
Qed.

Lemma le_val_app l k : le_val (l ++ k) = le_val l + 256 ^ Z.of_nat (length l) * le_val k.
Proof.
  induction l as [|b l IH]; [simpl; lia|]. simpl length. rewrite pow_256_S. simpl. rewrite IH. lia.
Qed.

(** ** Loads and stores *)

Section memory.
Context {BO : ByteOrder}.

Definition order (l : bytes) : bytes := if big_endian then reverse l else l.

(** [n] bytes at [p] as an unsigned integer. *)
Definition ld (n : nat) (m : bytes) (p : nat) : option Z :=
  if decide (p + n <= length m)%nat then Some (le_val (order (take n (drop p m)))) else None.

(** The low [n] bytes of [v] to [p]. *)
Definition st (n p : nat) (v : Z) (m : bytes) : option bytes :=
  memcpy m p (order (le_bytes n v)) n.

(** [m'] is [m] but for the [n] bytes at [p]. *)
Definition same_outside (p n : nat) (m m' : bytes) : Prop :=
  length m' = length m /\ forall i, (i < p \/ p + n <= i)%nat -> m' !! i = m !! i.

(** [d] stands at [p]. *)
Definition data_at (m : bytes) (p : nat) (d : bytes) : Prop :=
  forall i, (i < length d)%nat -> m !! (p + i)%nat = d !! i.

Lemma order_involutive l : order (order l) = l.
Proof. unfold order. destruct big_endian; [apply reverse_involutive|done]. Qed.

Lemma order_length l : length (order l) = length l.
Proof. unfold order. destruct big_endian; [apply length_reverse|done]. Qed.

Lemma order_u8 l : Forall is_u8 l -> Forall is_u8 (order l).
Proof. unfold order. destruct big_endian; [by rewrite Forall_reverse|done]. Qed.

Lemma same_outside_refl p n m : same_outside p n m m.
Proof. done. Qed.

Lemma same_outside_trans p n m1 m2 m3 :
  same_outside p n m1 m2 -> same_outside p n m2 m3 -> same_outside p n m1 m3.
Proof. intros [L1 E1] [L2 E2]. split; [lia|]. intros i Hi. rewrite E2, E1; auto. Qed.

Lemma same_outside_weaken p n p' n' m m' :
  same_outside p n m m' -> (p' <= p)%nat -> (p + n <= p' + n')%nat -> same_outside p' n' m m'.
Proof. intros [L E] ??. split; [done|]. intros i Hi. apply E. lia. Qed.

Lemma memcpy_same_outside m p s n m' : memcpy m p s n = Some m' -> same_outside p n m m'.
Proof.
  unfold memcpy. case_decide as Hb; [|done]. intros [= <-]. split.
  - rewrite !length_app, length_drop, !length_take. lia.
  - intros i Hi. destruct (decide (i < p)%nat).
    + rewrite lookup_app_l by (rewrite length_take; lia). by apply lookup_take_lt.
    + rewrite lookup_app_r, length_take by (rewrite length_take; lia).
      rewrite lookup_app_r, length_take by (rewrite length_take; lia).
      rewrite lookup_drop. f_equal. lia.
Qed.

Lemma memcpy_data_at m p s n m' : memcpy m p s n = Some m' -> data_at m' p (take n s).
Proof.
  intros Hc i Hi. rewrite length_take in Hi.
  pose proof (memcpy_read _ _ _ _ _ Hc) as Hr.
  rewrite <- lookup_drop. apply (f_equal (.!! i)) in Hr.
  by rewrite lookup_take_lt in Hr by lia.
Qed.

Lemma data_at_sub m p d k n : data_at m p d -> (k + n <= length d)%nat ->
  data_at m (p + k) (take n (drop k d)).
Proof.
  intros Hp Hk i Hi. rewrite length_take, length_drop in Hi.
  rewrite <- Nat.add_assoc, Hp by lia.
  rewrite lookup_take_lt, lookup_drop by lia. done.
Qed.

Lemma data_at_take m p d : (p + length d <= length m)%nat -> data_at m p d ->
  take (length d) (drop p m) = d.
Proof.
  intros Hl Hp. apply list_eq. intros i. destruct (decide (i < length d)%nat).
  - rewrite lookup_take_lt, lookup_drop by lia. by apply Hp.
  - rewrite !lookup_ge_None_2; [done|lia|]. rewrite length_take. lia.
Qed.

Lemma ld_data n m p l : (p + n <= length m)%nat -> length l = n -> data_at m p l ->
  ld n m p = Some (le_val (order l)).
Proof.
  intros Hb Hl Hp. unfold ld. rewrite decide_True by done.
  subst n. by rewrite data_at_take.
Qed.

Lemma ld_Some n m p : (p + n <= length m)%nat -> exists v, ld n m p = Some v.
Proof. intros. unfold ld. rewrite decide_True by done. by eexists. Qed.

Lemma ld_bound n m p v : ld n m p = Some v -> (p + n <= length m)%nat.
Proof. unfold ld. by case_decide. Qed.

Lemma ld_range n m p v : Forall is_u8 m -> ld n m p = Some v -> in_word (8 * Z.of_nat n) v.
Proof.
  unfold ld. case_decide; [|done]. intros Hm [= <-].
  replace n with (length (order (take n (drop p m)))) at 1.
  - apply le_val_range, order_u8, Forall_take, Forall_drop, Hm.
  - rewrite order_length, length_take, length_drop. lia.
Qed.

Lemma st_Some n p v m : (p + n <= length m)%nat -> exists m', st n p v m = Some m'.
Proof.
  intros. unfold st. rewrite memcpy_Some; [by eexists|done|].
  by rewrite order_length, le_bytes_length.
Qed.

Lemma st_outside n p v m m' : st n p v m = Some m' -> same_outside p n m m'.
Proof. apply memcpy_same_outside. Qed.

Lemma st_bound n p v m m' : st n p v m = Some m' -> (p + n <= length m)%nat.
Proof. unfold st, memcpy. by case_decide as Hb; [destruct Hb|]. Qed.

Lemma ld_st n p v m m' :
  st n p v m = Some m' -> ld n m' p = Some (wrap (8 * Z.of_nat n) v).
Proof.
  intros Hs. pose proof (st_bound _ _ _ _ _ Hs) as Hb.
  pose proof (st_outside _ _ _ _ _ Hs) as [Hl _].
  rewrite (ld_data _ _ _ (order (le_bytes n v))).
  - by rewrite order_involutive, le_val_bytes.
  - lia.
  - by rewrite order_length, le_bytes_length.
  - apply memcpy_data_at in Hs.
    by rewrite take_ge in Hs by (by rewrite order_length, le_bytes_length).
Qed.

(** [m'] is [m] on the bytes from [lo] to [hi]. *)
Definition agree_on (lo hi : nat) (m m' : bytes) : Prop :=
  length m' = length m /\ forall i, (lo <= i < hi)%nat -> m' !! i = m !! i.

Lemma agree_on_trans lo hi m1 m2 m3 :
  agree_on lo hi m1 m2 -> agree_on lo hi m2 m3 -> agree_on lo hi m1 m3.
Proof. intros [L1 E1] [L2 E2]. split; [lia|]. intros i Hi. rewrite E2, E1; auto. Qed.

Lemma agree_on_sub lo hi lo' hi' m m' :
  agree_on lo hi m m' -> (lo <= lo')%nat -> (hi' <= hi)%nat -> agree_on lo' hi' m m'.
Proof. intros [L E] ??. split; [done|]. intros i Hi. apply E. lia. Qed.

Lemma outside_agree p n lo hi m m' :
  same_outside p n m m' -> (hi <= p \/ p + n <= lo)%nat -> agree_on lo hi m m'.
Proof. intros [L E] Hd. split; [done|]. intros i Hi. apply E. lia. Qed.

Lemma ld_agree n q lo hi m m' :
  agree_on lo hi m m' -> (lo <= q)%nat -> (q + n <= hi)%nat -> ld n m' q = ld n m q.
Proof.
  intros [L E] ??. unfold ld. rewrite L. case_decide; [|done].
  do 3 f_equal. apply list_eq. intros i. destruct (decide (i < n)%nat).
  - rewrite !lookup_take_lt, !lookup_drop by lia. apply E. lia.
  - by rewrite !lookup_ge_None_2 by (rewrite length_take; lia).
Qed.

Lemma data_at_agree m m' p d lo hi :
  agree_on lo hi m m' -> (lo <= p)%nat -> (p + length d <= hi)%nat ->
  data_at m p d -> data_at m' p d.
Proof. intros [L E] ?? Hp i Hi. rewrite E by lia. by apply Hp. Qed.

Lemma ld_st_other n q k p v m m' :
  st k p v m = Some m' -> (q + n <= p \/ p + k <= q)%nat -> ld n m' q = ld n m q.
Proof.
  intros Hs Hd. apply (ld_agree n q q (q + n)); [|lia..].
  by apply (outside_agree p k); [apply (st_outside _ _ v)|].
Qed.

Lemma memcpy_u8 m p s n m' :
  Forall is_u8 m -> Forall is_u8 s -> memcpy m p s n = Some m' -> Forall is_u8 m'.
Proof.
  unfold memcpy. case_decide; [|done]. intros Hm Hs [= <-].
  repeat apply Forall_app_2; auto using Forall_take, Forall_drop.
Qed.

Lemma st_u8 n p v m m' : Forall is_u8 m -> st n p v m = Some m' -> Forall is_u8 m'.
Proof. intros Hm. apply memcpy_u8; [done|]. apply order_u8, le_bytes_u8. Qed.
End memory.

(** On a little-endian host a wide load is the narrow ones put together. *)
Lemma ld_split n k m p x y :
  ld (BO := false) n m p = Some x -> ld (BO := false) k m (p + n) = Some y ->
  ld (BO := false) (n + k) m p = Some (x + 256 ^ Z.of_nat n * y).
Proof.
  unfold ld, order. simpl. intros Hx Hy. case_decide; [|done]. case_decide; [|done].
  rewrite decide_True by lia. simplify_eq. f_equal.
  rewrite <- (take_drop n (take (n + k) (drop p m))), le_val_app, take_take, length_take, length_drop.
  replace (min n (n + k)) with n by lia. replace (min n (length m - p)) with n by lia.
  by rewrite skipn_firstn_comm, drop_drop, Nat.add_comm, Nat.add_sub.
Qed.

Abbreviation ld16 := (ld 2).
Abbreviation ld32 := (ld 4).
Abbreviation ld64 := (ld 8).
Abbreviation st16 := (st 2).
Abbreviation st32 := (st 4).
Abbreviation st64 := (st 8).

(** [memset (m + p, c, n)] *)
Definition memset (m : bytes) (p : nat) (c : Z) (n : nat) : option bytes :=
  memcpy m p (replicate n (u8 c)) n.

Lemma memset_Some m p c n : (p + n <= length m)%nat -> exists m', memset m p c n = Some m'.
Proof.
  intros. unfold memset. rewrite memcpy_Some; [by eexists|done|]. by rewrite length_replicate.
Qed.

(** ** Rounding up to a power of two *)

(** [(x + a - 1) & ~(a - 1)], in a word of [w] bits for [a = 2 ^ k]. *)
Definition align_up (w k x : Z) : Z := wrap w (x + 2 ^ k - 1) &&& wrap w (Z.lnot (2 ^ k - 1)).

Lemma land_lnot_ones w k x : 0 <= k <= w -> in_word w x ->
  x &&& wrap w (Z.lnot (2 ^ k - 1)) = x / 2 ^ k * 2 ^ k.
Proof.
  intros Hk Hx. unfold wrap. rewrite <- Z.land_ones by lia.
  rewrite (Z.land_comm (Z.lnot _)), Z.land_assoc, Z.land_ones by lia.
  fold (wrap w x). rewrite (wrap_small w x) by done.
  replace (2 ^ k - 1) with (Z.ones k) by (rewrite Z.ones_equiv; lia).
  rewrite <- Z.ldiff_land, Z.ldiff_ones_r by lia.
  by rewrite Z.shiftr_div_pow2, Z.shiftl_mul_pow2 by lia.
Qed.

Lemma align_up_eq w k x : 0 <= k <= w -> in_word w (x + 2 ^ k - 1) ->
  align_up w k x = (x + 2 ^ k - 1) / 2 ^ k * 2 ^ k.
Proof.
  intros Hk Hx. unfold align_up. rewrite (wrap_small w (x + _ - 1)) by done.
  by apply land_lnot_ones.
Qed.

Lemma align_up_spec w k x : 0 <= k <= w -> 0 <= x -> in_word w (x + 2 ^ k - 1) ->
  x <= align_up w k x < x + 2 ^ k /\ (2 ^ k | align_up w k x).
Proof.
  intros Hk Hx Hw. rewrite align_up_eq by done. split; [|apply Z.divide_factor_r].
  assert (0 < 2 ^ k) by (apply Z.pow_pos_nonneg; lia).
  Z.to_euclidean_division_equations. nia.
Qed.

Lemma align_up_id w k x : 0 <= k <= w -> 0 <= x -> in_word w (x + 2 ^ k - 1) -> (2 ^ k | x) ->
  align_up w k x = x.
Proof.
  intros Hk Hx Hw Hd. destruct (align_up_spec w k x) as [Hb Hd2]; [done..|].
  destruct Hd as [a ->], Hd2 as [b Hb2]. rewrite Hb2 in *. f_equal.
  assert (0 < 2 ^ k) by (apply Z.pow_pos_nonneg; lia). nia.
Qed.
