(* ===== verification/Netlink.v ===== *)
(** * Netlink messages and other records in a buffer

    The walking macros of [kernel-headers/linux/netlink.h], [rtnetlink.h],
    [fanotify.h] and [netfilter/nfnetlink_compat.h]. The first three formats are
    instances of one interface, [RecordFormat], against which the walk over a received buffer
    is proved safe. Sizes are those of a host with 64-bit [size_t]; the remaining
    length of a walk is an [int] for netlink and a [long] for fanotify. *)
From S2P Require Import Prelude.
From S2P Require Import Memory.

(** ** Walking a buffer of records *)

(** What the macros [X_OK] and [X_NEXT] of a format give: [rf_ok m p len] is the
    test for a record at [p] with [len] bytes left, [rf_next] the position and
    the length left after it, [rf_len] the length field. *)
Class RecordFormat : Type := {
  rf_hdr : Z;
  rf_range : Z -> Prop;
  rf_step : Z -> Z;
  rf_len : bytes -> nat -> option Z;
  rf_ok : bytes -> nat -> Z -> option bool;
  rf_next : bytes -> nat -> Z -> option (nat * Z) }.

(** What a walk relies on. [rf_range] is the type of the length left. *)
Class RecordLaws (F : RecordFormat) : Prop := {
  rf_hdr_pos : 0 < rf_hdr;
  rf_step_le l : 0 <= l -> l <= rf_step l;
  rf_ok_total m p len :
    rf_range len -> Z.of_nat p + len <= Z.of_nat (length m) -> exists b, rf_ok m p len = Some b;
  rf_ok_len m p len :
    rf_range len -> rf_ok m p len = Some true -> exists l, rf_len m p = Some l /\ rf_hdr <= l <= len;
  rf_next_eq m p len l :
    rf_range len -> rf_len m p = Some l -> rf_hdr <= l <= len ->
    rf_next m p len = Some ((p + Z.to_nat (rf_step l))%nat, len - rf_step l) /\
    rf_range (len - rf_step l) }.

(** [for (; X_OK (p, len); p = X_NEXT (p, len)) visit (p)]: the positions
    visited with their length fields. *)
Fixpoint walk {F : RecordFormat} (fuel : nat) (m : bytes) (p : nat) (len : Z)
    : option (list (nat * Z)) :=
  match fuel with
  | O => None
  | S fuel =>
      ok ← rf_ok m p len;
      if (ok : bool) then
        l ← rf_len m p;
        '(q, r) ← rf_next m p len;
        rest ← walk fuel m q r;
        Some ((p, l) :: rest)
      else Some []
  end.

(** The records lie one after another between [p] and [e]. *)
Fixpoint records_in (hdr : Z) (p e : Z) (rs : list (nat * Z)) : Prop :=
  match rs with
  | [] => True
  | (q, l) :: rs => p <= Z.of_nat q /\ hdr <= l /\ Z.of_nat q + l <= e /\
                    records_in hdr (Z.of_nat q + l) e rs
  end.

(** ** The formats *)

Section formats.
Context {BO : ByteOrder}.

Definition sizeof_nlmsghdr : Z := 16.
Definition sizeof_rtattr : Z := 4.

Definition nlmsg_len (m : bytes) (nlh : nat) : option Z := ld32 m nlh.
Definition nlmsg_type (m : bytes) (nlh : nat) : option Z := ld16 m (nlh + 4).
Definition nlmsg_flags (m : bytes) (nlh : nat) : option Z := ld16 m (nlh + 6).
Definition nlmsg_seq (m : bytes) (nlh : nat) : option Z := ld32 m (nlh + 8).

Definition NLMSG_ALIGNTO : Z := 4.
Definition NLMSG_ALIGN (len : Z) : Z :=
  u32 (len + NLMSG_ALIGNTO - 1) &&& u32 (Z.lnot (NLMSG_ALIGNTO - 1)).
Definition NLMSG_HDRLEN : Z := s32 (NLMSG_ALIGN sizeof_nlmsghdr).
Definition NLMSG_LENGTH (len : Z) : Z := u32 (len + NLMSG_HDRLEN).
Definition NLMSG_SPACE (len : Z) : Z := NLMSG_ALIGN (NLMSG_LENGTH len).
Definition NLMSG_DATA (nlh : nat) : nat := nlh + Z.to_nat (NLMSG_LENGTH 0).
Definition NLMSG_PAYLOAD (m : bytes) (nlh : nat) (len : Z) : option Z :=
  l ← nlmsg_len m nlh; Some (u32 (l - NLMSG_SPACE len)).

(** [len] is an [int] object: the difference is unsigned and converted back. *)
Definition NLMSG_NEXT (m : bytes) (nlh : nat) (len : Z) : option (nat * Z) :=
  l ← nlmsg_len m nlh;
  Some ((nlh + Z.to_nat (NLMSG_ALIGN l))%nat, s32 (len - NLMSG_ALIGN l)).

(** The second and third comparison are unsigned. *)
Definition NLMSG_OK (m : bytes) (nlh : nat) (len : Z) : option bool :=
  if sizeof_nlmsghdr <=? len then
    l ← nlmsg_len m nlh; Some ((sizeof_nlmsghdr <=? l) && (l <=? u32 len))
  else Some false.

Definition rta_len (m : bytes) (rta : nat) : option Z := ld16 m rta.
Definition rta_type (m : bytes) (rta : nat) : option Z := ld16 m (rta + 2).

Definition RTA_ALIGNTO : Z := 4.
Definition RTA_ALIGN (len : Z) : Z := u32 (len + RTA_ALIGNTO - 1) &&& u32 (Z.lnot (RTA_ALIGNTO - 1)).
Definition RTA_OK (m : bytes) (rta : nat) (len : Z) : option bool :=
  if sizeof_rtattr <=? len then
    l ← rta_len m rta; Some ((sizeof_rtattr <=? l) && (l <=? len))
  else Some false.
Definition RTA_NEXT (m : bytes) (rta : nat) (attrlen : Z) : option (nat * Z) :=
  l ← rta_len m rta;
  Some ((rta + Z.to_nat (RTA_ALIGN l))%nat, s32 (attrlen - RTA_ALIGN l)).
Definition RTA_LENGTH (len : Z) : Z := u64 (RTA_ALIGN sizeof_rtattr + len).
Definition RTA_SPACE (len : Z) : Z := RTA_ALIGN (RTA_LENGTH len).
Definition RTA_DATA (rta : nat) : nat := rta + Z.to_nat (RTA_LENGTH 0).
Definition RTA_PAYLOAD (m : bytes) (rta : nat) : option Z :=
  l ← rta_len m rta; Some (u64 (l - RTA_LENGTH 0)).

Definition FAN_EVENT_METADATA_LEN : Z := 24.
Definition event_len (m : bytes) (meta : nat) : option Z := ld32 m meta.
(** [len] is a [long]. *)
Definition FAN_EVENT_NEXT (m : bytes) (meta : nat) (len : Z) : option (nat * Z) :=
  l ← event_len m meta; Some ((meta + Z.to_nat l)%nat, len - l).
Definition FAN_EVENT_OK (m : bytes) (meta : nat) (len : Z) : option bool :=
  if FAN_EVENT_METADATA_LEN <=? len then
    l ← event_len m meta; Some ((FAN_EVENT_METADATA_LEN <=? l) && (l <=? len))
  else Some false.

(** Two formats whose test reads the record before it knows there is one. *)
Definition NFA_OK (m : bytes) (nfa : nat) (len : Z) : option bool :=
  if 0 <? len then
    l ← ld16 m nfa; Some ((4 <=? l) && (l <=? len))
  else Some false.
Definition sizeof_rtnexthop : Z := 8.
Definition RTNH_OK (m : bytes) (rtnh : nat) (len : Z) : option bool :=
  l ← ld16 m rtnh; Some ((sizeof_rtnexthop <=? l) && (l <=? len)).

Definition nlmsg_format : RecordFormat := {|
  rf_hdr := sizeof_nlmsghdr; rf_range := in_s32; rf_step := fun l => (l + 3) / 4 * 4;
  rf_len := nlmsg_len; rf_ok := NLMSG_OK; rf_next := NLMSG_NEXT |}.
Definition rtattr_format : RecordFormat := {|
  rf_hdr := sizeof_rtattr; rf_range := in_s32; rf_step := fun l => (l + 3) / 4 * 4;
  rf_len := rta_len; rf_ok := RTA_OK; rf_next := RTA_NEXT |}.
Definition fanotify_format : RecordFormat := {|
  rf_hdr := FAN_EVENT_METADATA_LEN; rf_range := fun len => - 2 ^ 63 <= len < 2 ^ 63;
  rf_step := fun l => l;
  rf_len := event_len; rf_ok := FAN_EVENT_OK; rf_next := FAN_EVENT_NEXT |}.
End formats.

(** ** The laws of the formats *)

Lemma s32_id x : in_s32 x -> s32 x = x.
Proof. unfold in_s32, s32. intros. rewrite Z.mod_small; lia. Qed.

Lemma NLMSG_ALIGN_align_up l : NLMSG_ALIGN l = align_up 32 2 l.
Proof. done. Qed.

Lemma NLMSG_ALIGN_eq l : 0 <= l < 2 ^ 32 - 3 -> NLMSG_ALIGN l = (l + 3) / 4 * 4.
Proof.
  intros Hl. rewrite NLMSG_ALIGN_align_up, align_up_eq by (unfold in_word; lia).
  change (2 ^ 2) with 4. by replace (l + 4 - 1) with (l + 3) by lia.
Qed.

Lemma align4_bounds l : l <= (l + 3) / 4 * 4 < l + 4.
Proof. Z.to_euclidean_division_equations; lia. Qed.

(** A test for the header's room, then a read of the length field. *)
Lemma guarded_ok_total (rdl : bytes -> nat -> option Z) n m p hdr len f :
  (forall q, (q + n <= length m)%nat -> exists l, rdl m q = Some l) ->
  Z.of_nat n <= hdr -> Z.of_nat p + len <= Z.of_nat (length m) ->
  exists b, (if hdr <=? len then l ← rdl m p; Some (f l) else Some false) = Some (b : bool).
Proof.
  intros Hrd Hn Hp. destruct (Z.leb_spec hdr len); [|by eexists].
  destruct (Hrd p) as [l ->]; [lia|]. by eexists.
Qed.

Lemma guarded_ok_true (o : option Z) (b : bool) f :
  (if b then l ← o; Some (f l) else Some false) = Some true ->
  b = true /\ exists l, o = Some l /\ f l = true.
Proof.
  destruct b; [|done]. destruct o as [l|]; [|done]. cbn [mbind option_bind].
  intros [= Hf]. eauto.
Qed.

(** Consuming a rounded 4-byte record from an [int] length. *)
Lemma consume_int l len hdr : 0 < hdr -> in_s32 len -> hdr <= l <= len ->
  NLMSG_ALIGN l = (l + 3) / 4 * 4 /\ in_s32 (len - (l + 3) / 4 * 4).
Proof.
  unfold in_s32. intros ? Hlen Hl. pose proof (align4_bounds l).
  split; [apply NLMSG_ALIGN_eq; lia|lia].
Qed.

Lemma next_int (o : option Z) p l len hdr : 0 < hdr -> in_s32 len ->
  o = Some l -> hdr <= l <= len ->
  (l ← o; Some ((p + Z.to_nat (NLMSG_ALIGN l))%nat, s32 (len - NLMSG_ALIGN l))) =
    Some ((p + Z.to_nat ((l + 3) / 4 * 4))%nat, len - (l + 3) / 4 * 4) /\
  in_s32 (len - (l + 3) / 4 * 4).
Proof.
  intros Hh Hlen -> Hl. destruct (consume_int l len hdr) as [E Hr]; [done..|].
  split; [|done]. cbn [mbind option_bind]. by rewrite E, s32_id.
Qed.

Section laws.
Context {BO : ByteOrder}.

#[global] Instance nlmsg_laws : RecordLaws nlmsg_format.
Proof.
  split; simpl.
  - done.
  - intros l _. apply align4_bounds.
  - intros m p len _ Hp. apply (guarded_ok_total _ 4); [|done|done]. intros. by apply ld_Some.
  - intros m p len Hlen [Hb (l & Hl & Hf)]%guarded_ok_true. exists l.
    apply Z.leb_le in Hb. apply andb_true_iff in Hf as [?%Z.leb_le H2%Z.leb_le].
    rewrite wrap_small in H2; [done|]. unfold in_s32, sizeof_nlmsghdr, in_word in *. lia.
  - intros m p len l Hlen Hl Hb. by apply (next_int _ _ _ _ sizeof_nlmsghdr).
Qed.

#[global] Instance rtattr_laws : RecordLaws rtattr_format.
Proof.
  split; simpl.
  - done.
  - intros l _. apply align4_bounds.
  - intros m p len _ Hp. apply (guarded_ok_total _ 2); [|done|done]. intros. by apply ld_Some.
  - intros m p len Hlen [Hb (l & Hl & Hf)]%guarded_ok_true. exists l.
    by apply andb_true_iff in Hf as [?%Z.leb_le H2%Z.leb_le].
  - intros m p len l Hlen Hl Hb. by apply (next_int _ _ _ _ sizeof_rtattr).
Qed.

#[global] Instance fanotify_laws : RecordLaws fanotify_format.
Proof.
  split; simpl.
  - done.
  - done.
  - intros m p len _ Hp. apply (guarded_ok_total _ 4); [|done|done]. intros. by apply ld_Some.
  - intros m p len Hlen [Hb (l & Hl & Hf)]%guarded_ok_true. exists l.
    by apply andb_true_iff in Hf as [?%Z.leb_le H2%Z.leb_le].
  - unfold FAN_EVENT_METADATA_LEN. intros m p len l Hlen Hl Hb.
    unfold FAN_EVENT_NEXT. rewrite Hl. split; [done|lia].
Qed.
End laws.

(** ** Every walk ends *)

Section walks.
Context {F : RecordFormat} {L : RecordLaws F}.

Lemma records_in_weaken hdr p p' e rs : p' <= p -> records_in hdr p e rs -> records_in hdr p' e rs.
Proof. destruct rs as [|[q l] rs]; simpl; [done|]. intros ? (?&?&?&?). split_and!; [lia|done..]. Qed.

Lemma walk_step m p len l fuel :
  rf_range len -> Z.of_nat p + len <= Z.of_nat (length m) ->
  rf_ok m p len = Some true -> rf_len m p = Some l ->
  walk (S fuel) m p len =
    rest ← walk fuel m (p + Z.to_nat (rf_step l)) (len - rf_step l); Some ((p, l) :: rest).
Proof.
  intros Hr Hp Hok Hl. cbn [walk]. rewrite Hok. cbn [mbind option_bind].
  destruct (rf_ok_len m p len) as (l' & Hl' & Hb); [done..|]. rewrite Hl in *. simplify_eq.
  cbn [mbind option_bind]. by destruct (rf_next_eq m p len l') as [-> _].
Qed.

Lemma walk_end m p len fuel : rf_ok m p len = Some false -> walk (S fuel) m p len = Some [].
Proof. intros Hok. cbn [walk]. by rewrite Hok. Qed.

Lemma walk_total m fuel : forall p len,
  rf_range len -> Z.of_nat p + len <= Z.of_nat (length m) -> (Z.to_nat len < fuel)%nat ->
  exists rs, walk fuel m p len = Some rs /\ records_in rf_hdr (Z.of_nat p) (Z.of_nat p + len) rs.
Proof.
  induction fuel as [|fuel IH]; intros p len Hr Hp Hf; [lia|].
  destruct (rf_ok_total m p len) as [[] Hok]; [done..| |].
  2: { exists []. split; [by apply walk_end|done]. }
  destruct (rf_ok_len m p len) as (l & Hl & Hb); [done..|].
  rewrite (walk_step _ _ _ l) by done.
  destruct (rf_next_eq m p len l) as [_ Hr']; [done..|].
  pose proof rf_hdr_pos. assert (l <= rf_step l) by (apply rf_step_le; lia).
  destruct (IH (p + Z.to_nat (rf_step l))%nat (len - rf_step l)) as (rs & -> & Hrs); [done|lia|lia|].
  exists ((p, l) :: rs). split; [done|]. simpl. split_and!; [lia|lia|lia|].
  eapply records_in_weaken; [|replace (Z.of_nat p + len) with
    (Z.of_nat (p + Z.to_nat (rf_step l))%nat + (len - rf_step l)) by lia; exact Hrs]. lia.
Qed.
End walks.

(** C6 Walking a received buffer with the OK and NEXT macros of netlink messages,
    of route attributes or of fanotify events: whatever bytes the buffer holds,
    the loop ends, no test reads outside the buffer, and the records visited lie
    one after another inside it, each at least as long as its header. *)
Theorem record_walk_safe `{ByteOrder} (F : RecordFormat) (m : bytes) (p : nat) (len : Z) :
  F = nlmsg_format \/ F = rtattr_format \/ F = fanotify_format ->
  rf_range len -> Z.of_nat p + len <= Z.of_nat (length m) ->
  exists rs, walk (S (Z.to_nat len)) m p len = Some rs /\
    records_in rf_hdr (Z.of_nat p) (Z.of_nat p + len) rs.
Proof. intros [-> | [-> | ->]] Hr Hp; (apply walk_total; [done|done|lia]). Qed.

Lemma record_walk_safe_witness :
  (let bo : ByteOrder := false in
   exists rs, walk (F := rtattr_format (BO := bo)) 15 [5;0;1;0;9;0;0;0; 4;0;2;0; 7;0] 0 14 = Some rs
     /\ records_in 4 0 14 rs)
  /\ (let bo : ByteOrder := false in
      walk (F := rtattr_format (BO := bo)) 15 [5;0;1;0;9;0;0;0; 4;0;2;0; 7;0] 0 14
      = Some [(0%nat, 5); (8%nat, 4)]).
Proof.
  split; [|by vm_compute].
  intros bo. apply (record_walk_safe (rtattr_format (BO := bo))
    [5;0;1;0;9;0;0;0; 4;0;2;0; 7;0] 0 14);
    [by right; left|by vm_compute; split; congruence|by vm_compute].
Defined.

(** The tests of nfnetlink_compat.h and of multipath next hops read the length
    field without room for it: with one byte left the first faults, with none
    left the second does, so the walk that ends exactly at the end of the buffer
    reads past it. *)
Theorem unguarded_ok_tests `{ByteOrder} (m : bytes) :
  RTNH_OK m (length m) 0 = None /\
  (forall p, S p = length m -> NFA_OK m p 1 = None) /\
  (forall p len, (p + 2 <= length m)%nat -> Z.of_nat p + len <= Z.of_nat (length m) ->
     is_Some (NFA_OK m p len) /\ is_Some (RTNH_OK m p len)).
Proof.
  unfold RTNH_OK, NFA_OK. split_and!.
  - unfold ld. by rewrite decide_False by lia.
  - intros p Hp. simpl. unfold ld. by rewrite decide_False by lia.
  - intros p len Hp Hl. destruct (ld_Some 2 m p) as [l ->]; [done|].
    cbn [mbind option_bind]. destruct (0 <? len); eauto.
Qed.
