(* ===== verification/MaximSti.v ===== *)
(** * The netlink messages of the Maxim touch driver

    The message builder and the attribute macros of
    [kernel-headers/linux/maxim_sti.h]. The memory is the message buffer, so the
    message starts at offset 0. *)
From S2P Require Import Prelude.
From S2P Require Import Memory.
From S2P Require Import Netlink.

Section maxim.
Context {BO : ByteOrder}.

Definition NL_BUF_SIZE : Z := 30720.
Definition NLM_F_REQUEST : Z := 1.
Definition NLMSG_MIN_TYPE : Z := 0x10.
Definition EPERM : Z := 1.
Definition sizeof_genlmsghdr : Z := 4.
Definition sizeof_nlattr : Z := 4.
Definition GENL_HDRLEN : Z := NLMSG_ALIGN sizeof_genlmsghdr.
Definition NLA_ALIGNTO : Z := 4.
(** The operand is an [int], at most 65535. *)
Definition NLA_ALIGN (len : Z) : Z := (len + NLA_ALIGNTO - 1) &&& Z.lnot (NLA_ALIGNTO - 1).
Definition NLA_HDRLEN : Z := NLA_ALIGN sizeof_nlattr.

Definition nla_len (m : bytes) (a : nat) : option Z := ld16 m a.
Definition nla_type (m : bytes) (a : nat) : option Z := ld16 m (a + 2).

Definition NL_ATTR_FIRST : nat := Z.to_nat (NLMSG_HDRLEN + GENL_HDRLEN).
Definition NL_SIZE (m : bytes) : option Z := l ← nlmsg_len m 0; Some (NLMSG_ALIGN l).
Definition NL_ATTR_LAST (m : bytes) : option nat := s ← NL_SIZE m; Some (Z.to_nat s).
Definition NL_TYPE (m : bytes) : option Z := nlmsg_type m 0.
Definition NL_SEQ (m : bytes) : option Z := nlmsg_seq m 0.
Definition NL_OK (m : bytes) : option bool := t ← NL_TYPE m; Some (NLMSG_MIN_TYPE <=? t).
Definition NL_ATTR_VAL (a : nat) : nat := a + Z.to_nat NLA_HDRLEN.
Definition NL_ATTR_NEXT (m : bytes) (a : nat) : option nat :=
  l ← nla_len m a; Some (a + Z.to_nat (NLA_ALIGN l))%nat.
Definition MSG_TYPE (m : bytes) : option Z := nla_type m NL_ATTR_FIRST.
Definition MSG_PAYLOAD : nat := NL_ATTR_VAL NL_ATTR_FIRST.

Definition nl_msg_init (family_id sequence dst : Z) (m : bytes) : option bytes :=
  m ← memset m 0 0 (Z.to_nat (NLMSG_HDRLEN + GENL_HDRLEN));
  m ← st16 4 family_id m;
  m ← st16 6 NLM_F_REQUEST m;
  m ← st32 8 sequence m;
  m ← st32 0 (NLMSG_HDRLEN + GENL_HDRLEN) m;
  st 1 (Z.to_nat NLMSG_HDRLEN) dst m.

(** The result is a null pointer or the position of the payload. *)
Definition nl_alloc_attr (type len : Z) (m : bytes) : option (option nat * bytes) :=
  attr ← NL_ATTR_LAST m;
  size ← NL_SIZE m;
  if NL_BUF_SIZE <? u32 (size + NLMSG_ALIGN (NLA_HDRLEN + len)) then Some (None, m)
  else
    m ← st16 (attr + 2) type m;
    m ← st16 attr (NLA_HDRLEN + len) m;
    al ← nla_len m attr;
    nl ← nlmsg_len m 0;
    m ← st32 0 (nl + NLMSG_ALIGN al) m;
    Some (Some (NL_ATTR_VAL attr), m).

Definition nl_add_attr (type : Z) (ptr : bytes) (len : Z) (m : bytes) : option (Z * bytes) :=
  '(a_ptr, m) ← nl_alloc_attr type len m;
  match a_ptr with
  | None => Some (- EPERM, m)
  | Some a => m ← memcpy m a ptr (Z.to_nat len); Some (0, m)
  end.

(** [for (a = NL_ATTR_FIRST; a != NL_ATTR_LAST; a = NL_ATTR_NEXT (a))], reading
    type and payload of each attribute. *)
Fixpoint nl_attrs (fuel : nat) (m : bytes) (a : nat) : option (list (Z * bytes)) :=
  last ← NL_ATTR_LAST m;
  if decide (a = last) then Some []
  else
    match fuel with
    | O => None
    | S fuel =>
        t ← nla_type m a;
        l ← nla_len m a;
        next ← NL_ATTR_NEXT m a;
        rest ← nl_attrs fuel m next;
        Some ((t, take (Z.to_nat (l - NLA_HDRLEN)) (drop (NL_ATTR_VAL a) m)) :: rest)
    end.

(** One call of [nl_add_attr] per attribute, up to the first failure. *)
Fixpoint nl_add_attrs (atts : list (Z * bytes)) (m : bytes) : option (Z * bytes) :=
  match atts with
  | [] => Some (0, m)
  | (t, d) :: atts =>
      '(rc, m) ← nl_add_attr t d (Z.of_nat (length d)) m;
      if rc =? 0 then nl_add_attrs atts m else Some (rc, m)
  end.

(** ** The message as a list of attributes *)

(** Bytes an attribute takes. *)
Definition attr_space (d : bytes) : Z := (4 + Z.of_nat (length d) + 3) / 4 * 4.
Definition attrs_space (atts : list (Z * bytes)) : Z :=
  foldr (fun a n => attr_space a.2 + n) 0 atts.

Definition attr_at (m : bytes) (p : nat) (a : Z * bytes) : Prop :=
  nla_len m p = Some (4 + Z.of_nat (length a.2)) /\ nla_type m p = Some a.1 /\
  data_at m (p + 4) a.2.

Fixpoint attrs_at (m : bytes) (p : nat) (atts : list (Z * bytes)) : Prop :=
  match atts with
  | [] => True
  | a :: atts => attr_at m p a /\ attrs_at m (p + Z.to_nat (attr_space a.2)) atts
  end.

(** The buffer holds a message of exactly these attributes. *)
Definition nl_view (m : bytes) (atts : list (Z * bytes)) : Prop :=
  NL_BUF_SIZE <= Z.of_nat (length m) /\ nlmsg_len m 0 = Some (20 + attrs_space atts) /\
  20 + attrs_space atts <= NL_BUF_SIZE /\ attrs_at m 20 atts.

(** The message header without the length. *)
Definition nl_header (m : bytes) : option (Z * Z * Z * Z) :=
  t ← nlmsg_type m 0; f ← nlmsg_flags m 0; s ← nlmsg_seq m 0; c ← ld 1 m 16; Some (t, f, s, c).
End maxim.

Lemma attr_space_bounds d :
  4 + Z.of_nat (length d) <= attr_space d < 8 + Z.of_nat (length d) /\ (4 | attr_space d).
Proof.
  unfold attr_space. split; [|apply Z.divide_factor_r].
  pose proof (align4_bounds (4 + Z.of_nat (length d))). lia.
Qed.

Lemma attrs_space_bounds atts : 0 <= attrs_space atts /\ (4 | attrs_space atts).
Proof.
  induction atts as [|a atts [? ?]]; simpl; [by split; [|exists 0]|].
  destruct (attr_space_bounds a.2). split; [lia|by apply Z.divide_add_r].
Qed.

Lemma attrs_space_app a1 a2 : attrs_space (a1 ++ a2) = attrs_space a1 + attrs_space a2.
Proof. induction a1 as [|a a1 IH]; simpl; [done|lia]. Qed.

Lemma NLMSG_ALIGN_attr d : Z.of_nat (length d) < 2 ^ 16 ->
  NLMSG_ALIGN (4 + Z.of_nat (length d)) = attr_space d.
Proof. intros. apply NLMSG_ALIGN_eq. lia. Qed.

Lemma NLA_ALIGN_attr d : NLA_ALIGN (4 + Z.of_nat (length d)) = attr_space d.
Proof.
  unfold NLA_ALIGN, NLA_ALIGNTO, attr_space.
  replace (_ + 4 - 1) with (4 + Z.of_nat (length d) + 3) by lia.
  change (4 - 1) with (Z.ones 2). rewrite <- Z.ldiff_land, Z.ldiff_ones_r by lia.
  by rewrite Z.shiftr_div_pow2, Z.shiftl_mul_pow2 by lia.
Qed.

Lemma NLMSG_ALIGN_total s : 0 <= s <= NL_BUF_SIZE -> (4 | s) -> NLMSG_ALIGN (20 + s) = 20 + s.
Proof.
  unfold NL_BUF_SIZE. intros Hs [k ->]. rewrite NLMSG_ALIGN_eq by lia.
  Z.to_euclidean_division_equations; lia.
Qed.

Section view.
Context {BO : ByteOrder}.

Lemma attrs_at_app m p a1 a2 :
  attrs_at m p (a1 ++ a2) <->
  attrs_at m p a1 /\ attrs_at m (p + Z.to_nat (attrs_space a1)) a2.
Proof.
  revert p. induction a1 as [|a a1 IH]; intros p; simpl.
  { rewrite Nat.add_0_r. tauto. }
  rewrite IH. replace (p + Z.to_nat (attr_space a.2 + attrs_space a1))%nat
    with (p + Z.to_nat (attr_space a.2) + Z.to_nat (attrs_space a1))%nat.
  { tauto. }
  destruct (attr_space_bounds a.2), (attrs_space_bounds a1). lia.
Qed.

Lemma attr_at_agree m m' p a :
  agree_on p (p + Z.to_nat (attr_space a.2)) m m' -> attr_at m p a -> attr_at m' p a.
Proof.
  intros Ha (Hl & Ht & Hd). destruct (attr_space_bounds a.2) as [? _].
  unfold attr_at, nla_len, nla_type. split_and!.
  - by rewrite (ld_agree 2 _ _ _ _ _ Ha) by lia.
  - by rewrite (ld_agree 2 _ _ _ _ _ Ha) by lia.
  - apply (data_at_agree _ _ _ _ _ _ Ha); [lia|lia|done].
Qed.

Lemma attrs_at_agree m m' p atts :
  agree_on p (p + Z.to_nat (attrs_space atts)) m m' -> attrs_at m p atts -> attrs_at m' p atts.
Proof.
  revert p. induction atts as [|a atts IH]; intros p; simpl; [done|]. intros Hag [Ha Hr].
  destruct (attr_space_bounds a.2), (attrs_space_bounds atts). split.
  - eapply attr_at_agree, Ha. eapply agree_on_sub; [done|lia|lia].
  - eapply IH, Hr. eapply agree_on_sub; [done|lia|lia].
Qed.

Lemma view_last m atts : nl_view m atts ->
  NL_SIZE m = Some (20 + attrs_space atts) /\
  NL_ATTR_LAST m = Some (Z.to_nat (20 + attrs_space atts)).
Proof.
  intros (_ & Hl & Hb & _). destruct (attrs_space_bounds atts).
  unfold NL_ATTR_LAST, NL_SIZE. rewrite Hl. cbn [mbind option_bind].
  by rewrite NLMSG_ALIGN_total by (done || lia).
Qed.
End view.

(** ** Building *)

Section build.
Context {BO : ByteOrder}.

Lemma nl_alloc_fits m atts t d :
  nl_view m atts -> is_u16 t -> Z.of_nat (length d) < 2 ^ 16 ->
  20 + attrs_space atts + attr_space d <= NL_BUF_SIZE ->
  let a := Z.to_nat (20 + attrs_space atts) in
  exists m', nl_alloc_attr t (Z.of_nat (length d)) m = Some (Some (a + 4)%nat, m') /\
    agree_on 4 a m m' /\ nlmsg_len m' 0 = Some (20 + attrs_space atts + attr_space d) /\
    nla_len m' a = Some (4 + Z.of_nat (length d)) /\ nla_type m' a = Some t.
Proof.
  intros Hv Ht Hd Hfit a. destruct (view_last _ _ Hv) as [Hsize Hlast].
  destruct Hv as (Hlen & Hnl & Hb & Hats).
  destruct (attrs_space_bounds atts) as [Hs0 _], (attr_space_bounds d) as [Hd1 _].
  unfold nl_alloc_attr, NL_BUF_SIZE in *. rewrite Hlast, Hsize. cbn [mbind option_bind].
  change NLA_HDRLEN with 4. rewrite NLMSG_ALIGN_attr by done.
  rewrite (wrap_small 32) by (unfold in_word; lia).
  rewrite (proj2 (Z.ltb_ge _ _)) by lia.
  fold a. assert (Ha : a = Z.to_nat (20 + attrs_space atts)) by done. clearbody a.
  destruct (st_Some 2 (a + 2) t m) as [m1 E1]; [lia|]. rewrite E1. cbn [mbind option_bind].
  destruct (st_outside _ _ _ _ _ E1) as [L1 _].
  destruct (st_Some 2 a (4 + Z.of_nat (length d)) m1) as [m2 E2]; [lia|].
  rewrite E2. cbn [mbind option_bind]. destruct (st_outside _ _ _ _ _ E2) as [L2 _].
  assert (Hal : nla_len m2 a = Some (4 + Z.of_nat (length d))).
  { unfold nla_len. rewrite (ld_st _ _ _ _ _ E2). f_equal. apply wrap_small. unfold in_word.
    change (8 * Z.of_nat 2) with 16. lia. }
  assert (Hnl2 : nlmsg_len m2 0 = Some (20 + attrs_space atts)).
  { unfold nlmsg_len. by rewrite (ld_st_other _ _ _ _ _ _ _ E2), (ld_st_other _ _ _ _ _ _ _ E1) by lia. }
  rewrite Hal, Hnl2. cbn [mbind option_bind]. rewrite NLMSG_ALIGN_attr by done.
  destruct (st_Some 4 0 (20 + attrs_space atts + attr_space d) m2) as [m3 E3]; [lia|].
  rewrite E3. exists m3. split_and!.
  - unfold NL_ATTR_VAL. done.
  - apply (agree_on_trans _ _ _ m2); [apply (agree_on_trans _ _ _ m1)|];
      (eapply outside_agree; [by eapply st_outside|lia]).
  - unfold nlmsg_len. rewrite (ld_st _ _ _ _ _ E3). f_equal. apply wrap_small. unfold in_word.
    change (8 * Z.of_nat 4) with 32. lia.
  - unfold nla_len. rewrite (ld_st_other _ _ _ _ _ _ _ E3) by lia. done.
  - unfold nla_type. rewrite (ld_st_other _ _ _ _ _ _ _ E3), (ld_st_other _ _ _ _ _ _ _ E2) by lia.
    rewrite (ld_st _ _ _ _ _ E1). f_equal. by apply wrap_small.
Qed.

Lemma nl_alloc_full m atts t d :
  nl_view m atts -> Z.of_nat (length d) < 2 ^ 16 ->
  NL_BUF_SIZE < 20 + attrs_space atts + attr_space d ->
  nl_alloc_attr t (Z.of_nat (length d)) m = Some (None, m).
Proof.
  intros Hv Hd Hfull. destruct (view_last _ _ Hv) as [Hsize Hlast].
  destruct Hv as (_ & _ & Hb & _).
  destruct (attrs_space_bounds atts) as [Hs0 _], (attr_space_bounds d) as [Hd1 _].
  unfold nl_alloc_attr. rewrite Hlast, Hsize. cbn [mbind option_bind].
  change NLA_HDRLEN with 4. rewrite NLMSG_ALIGN_attr by done.
  unfold NL_BUF_SIZE in *. rewrite (wrap_small 32) by (unfold in_word; lia).
  by rewrite (proj2 (Z.ltb_lt _ _)).
Qed.

Lemma nl_add_fits m atts t d :
  nl_view m atts -> is_u16 t -> Z.of_nat (length d) < 2 ^ 16 ->
  20 + attrs_space atts + attr_space d <= NL_BUF_SIZE ->
  exists m', nl_add_attr t d (Z.of_nat (length d)) m = Some (0, m') /\
    nl_view m' (atts ++ [(t, d)]) /\ agree_on 4 20 m m'.
Proof.
  intros Hv Ht Hd Hfit. destruct (nl_alloc_fits m atts t d) as (m1 & E & Hag & Hnl & Hal & Hat); [done..|].
  destruct Hv as (Hlen & _ & _ & Hats). 
  remember (Z.to_nat (20 + attrs_space atts)) as a eqn:Ha.
  destruct (attrs_space_bounds atts) as [Hs0 _], (attr_space_bounds d) as [Hd1 _].
  assert (L1 : length m1 = length m) by apply Hag.
  unfold nl_add_attr. rewrite E. cbn [mbind option_bind]. rewrite Nat2Z.id.
  unfold NL_BUF_SIZE in *.
  destruct (memcpy m1 (a + 4) d (length d)) as [m2|] eqn:E2.
  2: { rewrite memcpy_Some in E2 by lia. done. }
  pose proof (memcpy_same_outside _ _ _ _ _ E2) as Hout. assert (L2 : length m2 = length m1) by apply Hout.
  assert (Hag2 : agree_on 4 a m m2).
  { eapply agree_on_trans; [done|]. eapply outside_agree; [done|lia]. }
  exists m2. split_and!; [done| |].
  2: { eapply agree_on_sub; [done|lia..]. }
  unfold nl_view. rewrite attrs_space_app. simpl. rewrite Z.add_0_r. unfold NL_BUF_SIZE. split_and!.
  - lia.
  - unfold nlmsg_len in *. rewrite (ld_agree 4 0 0 4 m1 m2), Hnl; [f_equal; lia| |lia|lia].
    eapply outside_agree; [done|lia].
  - lia.
  - apply attrs_at_app. split.
    { eapply attrs_at_agree; [|done]. eapply agree_on_sub; [done|lia|lia]. }
    replace (20 + Z.to_nat (attrs_space atts))%nat with a by lia. simpl. split; [|done].
    assert (agree_on a (a + 4) m1 m2) by (eapply outside_agree; [done|lia]).
    unfold attr_at, nla_len, nla_type in *. simpl. split_and!.
    + by rewrite (ld_agree 2 a a (a + 4) m1) by (done || lia).
    + by rewrite (ld_agree 2 (a + 2) a (a + 4) m1) by (done || lia).
    + apply memcpy_data_at in E2. by rewrite take_ge in E2 by lia.
Qed.

Lemma nl_init_view family seq dst m :
  NL_BUF_SIZE <= Z.of_nat (length m) -> is_u16 family -> is_u32 seq -> is_u8 dst ->
  exists m', nl_msg_init family seq dst m = Some m' /\ nl_view m' [] /\
    nl_header m' = Some (family, NLM_F_REQUEST, seq, dst).
Proof.
  unfold NL_BUF_SIZE. intros Hlen Hf Hs Hd. unfold nl_msg_init. change (NLMSG_HDRLEN + GENL_HDRLEN) with 20.
  change (Z.to_nat 20) with 20%nat. change (Z.to_nat NLMSG_HDRLEN) with 16%nat.
  destruct (memset_Some m 0 0 20) as [m0 E0]; [lia|]. rewrite E0. cbn [mbind option_bind].
  destruct (memcpy_same_outside _ _ _ _ _ E0) as [L0 _].
  destruct (st_Some 2 4 family m0) as [m1 E1]; [lia|]. rewrite E1. cbn [mbind option_bind].
  destruct (st_outside _ _ _ _ _ E1) as [L1 _].
  destruct (st_Some 2 6 NLM_F_REQUEST m1) as [m2 E2]; [lia|]. rewrite E2. cbn [mbind option_bind].
  destruct (st_outside _ _ _ _ _ E2) as [L2 _].
  destruct (st_Some 4 8 seq m2) as [m3 E3]; [lia|]. rewrite E3. cbn [mbind option_bind].
  destruct (st_outside _ _ _ _ _ E3) as [L3 _].
  destruct (st_Some 4 0 20 m3) as [m4 E4]; [lia|]. rewrite E4. cbn [mbind option_bind].
  destruct (st_outside _ _ _ _ _ E4) as [L4 _].
  destruct (st_Some 1 16 dst m4) as [m5 E5]; [lia|]. rewrite E5.
  destruct (st_outside _ _ _ _ _ E5) as [L5 _].
  exists m5. split_and!; [done| |].
  - unfold nl_view, NL_BUF_SIZE. simpl. split_and!; [lia| |done|done].
    unfold nlmsg_len. by rewrite (ld_st_other _ _ _ _ _ _ _ E5), (ld_st _ _ _ _ _ E4) by lia.
  - unfold nl_header, nlmsg_type, nlmsg_flags, nlmsg_seq. simpl.
    rewrite (ld_st _ _ _ _ _ E5).
    rewrite !(ld_st_other _ _ _ _ _ _ _ E5), !(ld_st_other _ _ _ _ _ _ _ E4) by lia.
    rewrite (ld_st_other 2 4 _ _ _ _ _ E3), (ld_st_other 2 6 _ _ _ _ _ E3), (ld_st _ _ _ _ _ E3) by lia.
    rewrite (ld_st_other 2 4 _ _ _ _ _ E2), (ld_st _ _ _ _ _ E2), (ld_st _ _ _ _ _ E1) by lia.
    cbn [mbind option_bind]. by rewrite !wrap_small.
Qed.
End build.

(** ** Reading back *)

(** Type and payload of a route attribute, with the macros of rtnetlink.h. *)
Definition rta_read `{ByteOrder} (m : bytes) (rta : nat) : option (Z * bytes) :=
  t ← rta_type m rta;
  n ← RTA_PAYLOAD m rta;
  Some (t, take (Z.to_nat n) (drop (RTA_DATA rta) m)).

Definition attr_ok (a : Z * bytes) : Prop := is_u16 a.1 /\ Z.of_nat (length a.2) < 2 ^ 16.

#[export] Instance attr_ok_dec a : Decision (attr_ok a).
Proof. unfold attr_ok. apply _. Defined.

Section read.
Context {BO : ByteOrder}.

Lemma attr_payload m a d : (a + Z.to_nat (attr_space d) <= length m)%nat ->
  data_at m (a + 4) d ->
  take (Z.to_nat (4 + Z.of_nat (length d) - 4)) (drop (a + 4) m) = d.
Proof.
  intros Hb Hd. destruct (attr_space_bounds d) as [? _].
  replace (Z.to_nat _) with (length d) by lia. apply data_at_take; [lia|done].
Qed.

Lemma nl_attrs_read m fuel : forall a atts,
  attrs_at m a atts -> NL_ATTR_LAST m = Some (a + Z.to_nat (attrs_space atts))%nat ->
  (a + Z.to_nat (attrs_space atts) <= length m)%nat -> (length atts <= fuel)%nat ->
  nl_attrs fuel m a = Some atts.
Proof.
  induction fuel as [|fuel IH]; intros a [|[t d] atts] Hat Hlast Hb Hf; simpl in Hf; try lia;
    simpl nl_attrs; rewrite Hlast; cbn [mbind option_bind]; simpl in *.
  1,2: rewrite decide_True by lia; done.
  destruct (attr_space_bounds d) as [? _], (attrs_space_bounds atts) as [? _].
  rewrite decide_False by lia. destruct Hat as [(Hl & Ht & Hd) Hat]. simpl in *.
  unfold NL_ATTR_NEXT. rewrite Ht, Hl. cbn [mbind option_bind].
  rewrite NLA_ALIGN_attr, (IH _ atts); [|done| |lia|lia].
  - cbn [mbind option_bind]. change NLA_HDRLEN with 4. unfold NL_ATTR_VAL.
    change (Z.to_nat NLA_HDRLEN) with 4%nat. rewrite attr_payload by (done || lia). done.
  - rewrite Hlast. f_equal. lia.
Qed.

Lemma rta_attr_read m a t d : (a + Z.to_nat (attr_space d) <= length m)%nat ->
  Z.of_nat (length d) < 2 ^ 16 -> attr_at m a (t, d) -> rta_read m a = Some (t, d).
Proof.
  intros Hb Hs (Hl & Ht & Hd). simpl in *. unfold rta_read, RTA_PAYLOAD, rta_type, rta_len.
  unfold nla_type, nla_len in *. rewrite Ht, Hl. cbn [mbind option_bind].
  change (RTA_LENGTH 0) with 4. change (RTA_DATA a) with (a + 4)%nat.
  rewrite (wrap_small 64) by (unfold in_word; lia). by rewrite attr_payload.
Qed.

Lemma rta_walk_read m fuel : forall a atts,
  attrs_at m a atts -> Forall attr_ok atts -> attrs_space atts <= NL_BUF_SIZE ->
  (a + Z.to_nat (attrs_space atts) <= length m)%nat -> (length atts < fuel)%nat ->
  exists rs, walk (F := rtattr_format) fuel m a (attrs_space atts) = Some rs /\
    mapM (fun r => rta_read m r.1) rs = Some atts.
Proof.
  unfold NL_BUF_SIZE. induction fuel as [|fuel IH]; intros a [|[t d] atts] Hat Hok Hs Hb Hf;
    simpl in Hf; try lia.
  { exists []. split; [|done]. by apply (walk_end (F := rtattr_format)). }
  apply Forall_cons in Hok as [[Ht Hlen] Hok]. destruct Hat as [Ha Hat].
  change (attrs_space ((t, d) :: atts)) with (attr_space d + attrs_space atts) in *.
  destruct (attr_space_bounds d) as [? _], (attrs_space_bounds atts) as [? _].
  assert (Hl : rta_len m a = Some (4 + Z.of_nat (length d))) by apply Ha.
  rewrite (walk_step (F := rtattr_format) _ _ _ (4 + Z.of_nat (length d))); simpl.
  2: { unfold in_s32. lia. }
  2: { lia. }
  2: { unfold RTA_OK, sizeof_rtattr. rewrite (proj2 (Z.leb_le _ _)), Hl by lia.
       cbn [mbind option_bind]. f_equal. apply andb_true_iff. split; apply Z.leb_le; lia. }
  2: { exact Hl. }
  fold (attr_space d). replace (attr_space d + attrs_space atts - attr_space d)
    with (attrs_space atts) by lia.
  destruct (IH (a + Z.to_nat (attr_space d))%nat atts) as (rs & -> & Hrs); [done|done|lia|lia|lia|].
  eexists. split; [done|]. simpl. rewrite (rta_attr_read _ _ t d) by (done || lia).
  cbn [mbind option_bind]. by rewrite Hrs.
Qed.

Lemma nl_add_attrs_view m pre atts :
  nl_view m pre -> Forall attr_ok atts -> 20 + attrs_space (pre ++ atts) <= NL_BUF_SIZE ->
  exists m', nl_add_attrs atts m = Some (0, m') /\ nl_view m' (pre ++ atts) /\ agree_on 4 20 m m'.
Proof.
  intros Hv Hok. revert m pre Hv.
  induction Hok as [|[t d] atts [Ht Hd] Hok IH]; intros m pre Hv Hfit.
  { rewrite app_nil_r. by exists m. }
  rewrite attrs_space_app in Hfit. simpl in *. destruct (attrs_space_bounds atts) as [? _].
  destruct (nl_add_fits m pre t d) as (m1 & -> & Hv1 & Hag); [done..|lia|].
  cbn [mbind option_bind]. simpl. destruct (IH m1 (pre ++ [(t, d)])) as (m2 & -> & Hv2 & Hag2); [done| |].
  { rewrite !attrs_space_app. simpl. lia. }
  exists m2. rewrite <- app_assoc in Hv2. split_and!; [done|done|by eapply agree_on_trans].
Qed.

Lemma nl_header_agree m m' : agree_on 4 20 m m' -> nl_header m' = nl_header m.
Proof.
  intros Hag. unfold nl_header, nlmsg_type, nlmsg_flags, nlmsg_seq. simpl.
  rewrite (ld_agree 2 4 4 20 m m'), (ld_agree 2 6 4 20 m m'),
    (ld_agree 4 8 4 20 m m'), (ld_agree 1 16 4 20 m m') by (done || lia). done.
Qed.
End read.

(** ** Theorems *)

(** C4 [nl_add_attr] on a message, seen as its list of attributes, appends the
    attribute and leaves the header's type, flags, sequence number and command
    alone when the padded attribute fits in NL_BUF_SIZE, and otherwise returns
    -EPERM and changes nothing; it never writes outside the buffer. *)
Theorem nl_add_attr_refines `{ByteOrder} (m : bytes) (atts : list (Z * bytes)) (t : Z) (d : bytes) :
  nl_view m atts -> attr_ok (t, d) ->
  if decide (20 + attrs_space atts + attr_space d <= NL_BUF_SIZE) then
    exists m', nl_add_attr t d (Z.of_nat (length d)) m = Some (0, m') /\
      nl_view m' (atts ++ [(t, d)]) /\ nl_header m' = nl_header m
  else nl_add_attr t d (Z.of_nat (length d)) m = Some (- EPERM, m).
Proof.
  intros Hv [Ht Hd]. case_decide.
  - destruct (nl_add_fits m atts t d) as (m' & ? & ? & ?); [done..|].
    exists m'. split_and!; [done..|]. by apply nl_header_agree.
  - unfold nl_add_attr. by rewrite (nl_alloc_full m atts) by (done || lia).
Qed.

(** A buffer of the size the driver uses. *)
Definition nl_buf : bytes := replicate (Z.to_nat NL_BUF_SIZE) 0.
Lemma nl_buf_size : NL_BUF_SIZE <= Z.of_nat (length nl_buf).
Proof. unfold nl_buf. rewrite length_replicate. done. Qed.
#[local] Opaque nl_buf.

Lemma nl_add_attr_refines_witness :
  exists m, nl_msg_init (BO := false) 20 7 3 nl_buf = Some m /\
    exists m', nl_add_attr (BO := false) 5 [1;2;3] 3 m = Some (0, m') /\
      nl_view (BO := false) m' [(5, [1;2;3])] /\ nl_header (BO := false) m' = nl_header (BO := false) m.
Proof.
  destruct (nl_init_view (BO := false) 20 7 3 nl_buf nl_buf_size) as (m & E & Hv & _); [done..|].
  exists m. split; [done|].
  pose proof (nl_add_attr_refines (H := false) m [] 5 [1;2;3] Hv) as Hr.
  rewrite decide_True in Hr by (by vm_compute). by apply Hr.
Defined.

(** C5 A message built with [nl_msg_init] and [nl_add_attr] holds what was put
    in: the header macros give the family and sequence number, the attribute
    macros of the driver walk over exactly the attributes added, with their
    types and payloads, the generic test accepts the message, and the route
    attribute macros walk over the same attributes. *)
Theorem nl_message_roundtrip `{ByteOrder} (m : bytes) (family seq dst : Z)
    (atts : list (Z * bytes)) :
  NL_BUF_SIZE <= Z.of_nat (length m) -> is_u16 family -> is_u32 seq -> is_u8 dst ->
  Forall attr_ok atts -> 20 + attrs_space atts <= NL_BUF_SIZE ->
  exists m', (m ← nl_msg_init family seq dst m; nl_add_attrs atts m) = Some (0, m') /\
    NL_TYPE m' = Some family /\ NL_SEQ m' = Some seq /\
    nl_attrs (length atts) m' NL_ATTR_FIRST = Some atts /\
    NLMSG_OK m' 0 (20 + attrs_space atts) = Some true /\
    exists rs, walk (F := rtattr_format) (S (length atts)) m' NL_ATTR_FIRST (attrs_space atts) = Some rs /\
      mapM (fun r => rta_read m' r.1) rs = Some atts.
Proof.
  intros Hlen Hf Hs Hd Hok Hfit.
  destruct (nl_init_view family seq dst m) as (m1 & -> & Hv1 & Hh1); [done..|].
  destruct (nl_add_attrs_view m1 [] atts) as (m2 & E2 & Hv2 & Hag); [done..|].
  exists m2. split; [exact E2|]. apply nl_header_agree in Hag. rewrite Hh1 in Hag.
  pose proof (view_last _ _ Hv2) as [_ Hlast]. destruct Hv2 as (Hlen2 & Hnl & _ & Hat).
  destruct (attrs_space_bounds atts) as [Hs0 _]. rewrite app_nil_l in *.
  change NL_ATTR_FIRST with 20%nat. split_and!.
  1,2: unfold nl_header, nlmsg_flags, NL_TYPE, NL_SEQ in *;
    destruct (nlmsg_type m2 0), (ld16 m2 (0 + 6)), (nlmsg_seq m2 0), (ld 1 m2 16); by simplify_eq/=.
  - apply nl_attrs_read; [done| |lia|done]. rewrite Hlast. f_equal. lia.
  - unfold NLMSG_OK, sizeof_nlmsghdr. unfold NL_BUF_SIZE in *.
    rewrite (proj2 (Z.leb_le _ _)), Hnl by lia. cbn [mbind option_bind].
    rewrite wrap_small by (unfold in_word; lia). f_equal. apply andb_true_iff. split; apply Z.leb_le; lia.
  - apply rta_walk_read; [done|done|lia|lia|lia].
Qed.

Lemma nl_message_roundtrip_witness :
  let atts := [(1, [10;20;30]); (2, []); (3, [1;2;3;4])] in
  exists m', (m ← nl_msg_init (BO := false) 20 7 3 nl_buf; nl_add_attrs (BO := false) atts m) = Some (0, m') /\
    NL_TYPE (BO := false) m' = Some 20 /\ NL_SEQ (BO := false) m' = Some 7 /\
    nl_attrs (BO := false) 3 m' NL_ATTR_FIRST = Some atts /\
    NLMSG_OK (BO := false) m' 0 40 = Some true /\
    exists rs, walk (F := rtattr_format (BO := false)) 4 m' NL_ATTR_FIRST 20 = Some rs /\
      mapM (fun r => rta_read (H := false) m' r.1) rs = Some atts.
Proof.
  intros atts. apply (nl_message_roundtrip (H := false) nl_buf 20 7 3 atts nl_buf_size); try done.
  - apply (bool_decide_unpack _). by vm_compute.
Defined.
