(* ===== verification/Vring.v ===== *)
(** * Virtio rings

    [kernel-headers/linux/virtio_ring.h]: the layout of a ring in memory
    ([vring_init], [vring_size]) and the notification test
    ([vring_need_event]). Addresses and [unsigned long] values are 64-bit
    words, indices free-running 16-bit words. *)
From S2P Require Import Prelude.

(** Sizes of [struct vring_desc], [struct vring_used_elem] and [__virtio16]. *)
Definition sizeof_vring_desc : Z := 16.
Definition sizeof_vring_used_elem : Z := 8.
Definition sizeof_virtio16 : Z := 2.

(** [struct vring]: pointers are addresses. *)
Record vring : Type := mk_vring { num : Z; desc : Z; avail : Z; used : Z }.

(** Address of [vr->avail->ring[i]] and of [vr->used->ring[i]]. *)
Definition avail_ring (vr : vring) (i : Z) : Z := avail vr + 2 * sizeof_virtio16 + sizeof_virtio16 * i.
Definition used_ring (vr : vring) (i : Z) : Z :=
  used vr + 2 * sizeof_virtio16 + sizeof_vring_used_elem * i.

Definition vring_used_event (vr : vring) : Z := avail_ring vr (num vr).
Definition vring_avail_event (vr : vring) : Z := used_ring vr (num vr).

Definition vring_init (n p align : Z) : vring :=
  let avail := u64 (p + n * sizeof_vring_desc) in
  let used := u64 (u64 (avail + 2 * sizeof_virtio16 + sizeof_virtio16 * n) + sizeof_virtio16
                   + align - 1) &&& u64 (Z.lnot (u64 (align - 1))) in
  mk_vring n p avail used.

Definition vring_size (n align : Z) : Z :=
  u32 (u64 ((u64 (sizeof_vring_desc * n + sizeof_virtio16 * u32 (3 + n) + align - 1) &&&
             u64 (Z.lnot (u64 (align - 1))))
            + sizeof_virtio16 * 3 + sizeof_vring_used_elem * n)).

Definition vring_need_event (event_idx new_idx old : Z) : bool :=
  u16 (new_idx - event_idx - 1) <? u16 (new_idx - old).

(** ** Alignment of 64-bit words *)

Lemma clear_low64 x k :
  0 <= k < 64 -> is_u64 x -> x &&& u64 (Z.lnot (u64 (2 ^ k - 1))) = x / 2 ^ k * 2 ^ k.
Proof.
  intros Hk Hx. assert (2 ^ k < 2 ^ 64) by (apply Z.pow_lt_mono_r; lia).
  assert (0 < 2 ^ k) by (apply Z.pow_pos_nonneg; lia).
  rewrite (wrap_small 64 (2 ^ k - 1)) by (unfold in_word; lia).
  rewrite <- Z.shiftr_div_pow2, <- Z.shiftl_mul_pow2 by lia.
  apply Z.bits_inj'. intros n Hn. rewrite Z.land_spec.
  replace (2 ^ k - 1) with (Z.ones k) by (rewrite Z.ones_equiv; lia).
  rewrite Z.shiftl_spec by lia. destruct (decide (n < 64)).
  - unfold wrap. rewrite Z.mod_pow2_bits_low, Z.lnot_spec, Z.testbit_ones_nonneg by lia.
    destruct (Z.ltb_spec n k); cbn [negb].
    + rewrite andb_false_r, Z.testbit_neg_r by lia. done.
    + rewrite andb_true_r, Z.shiftr_spec by lia. f_equal. lia.
  - rewrite (testbit_high 64 x) by (done || lia). cbn [andb]. symmetry.
    rewrite Z.shiftr_spec by lia. apply (testbit_high 64); [done|lia].
Qed.

(** ** Properties *)

(** C29: [vring_size] is the exact extent of the layout [vring_init] makes at an
    aligned address: descriptors, available ring with its event index and used
    ring with its event index follow one another without overlap, the used ring
    is aligned, and the last field ends [vring_size] bytes behind the start. *)
Theorem vring_size_covers n p k :
  0 <= k <= 24 -> 0 < n <= 2 ^ 15 -> 0 <= p < 2 ^ 63 -> (2 ^ k | p) ->
  let vr := vring_init n p (2 ^ k) in
  desc vr = p /\ avail vr = p + sizeof_vring_desc * n /\
  vring_used_event vr + sizeof_virtio16 <= used vr /\
  used vr < vring_used_event vr + sizeof_virtio16 + 2 ^ k /\
  (2 ^ k | used vr) /\
  p + vring_size n (2 ^ k) = vring_avail_event vr + sizeof_virtio16.
Proof.
  intros Hk Hn Hp [j Hj]. set (a := 2 ^ k) in *.
  assert (0 < a) by (apply Z.pow_pos_nonneg; lia).
  assert (a <= 2 ^ 24) by (apply Z.pow_le_mono_r; lia).
  change (2 ^ 24) with 16777216 in *. change (2 ^ 15) with 32768 in *.
  change (2 ^ 63) with 9223372036854775808 in *.
  unfold vring_init, vring_used_event, vring_avail_event, avail_ring, used_ring, vring_size,
    sizeof_vring_desc, sizeof_virtio16, sizeof_vring_used_elem. cbn [desc avail used num].
  rewrite (wrap_small 64 (p + n * 16)) by word_lia.
  rewrite (wrap_small 64 (p + n * 16 + 2 * 2 + 2 * n)) by word_lia.
  rewrite (wrap_small 64 (p + n * 16 + 2 * 2 + 2 * n + 2 + a - 1)) by word_lia.
  rewrite (wrap_small 32 (3 + n)) by word_lia.
  rewrite (wrap_small 64 (16 * n + 2 * (3 + n) + a - 1)) by word_lia.
  assert (forall x, is_u64 x -> x &&& u64 (Z.lnot (u64 (a - 1))) = x / a * a) as Hc
    by (intros; apply clear_low64; [lia|done]).
  rewrite !Hc by word_lia.
  set (q := (16 * n + 2 * (3 + n) + a - 1) / a).
  replace (p + n * 16 + 2 * 2 + 2 * n + 2 + a - 1) with (16 * n + 2 * (3 + n) + a - 1 + j * a) by lia.
  rewrite Z.div_add by lia. fold q.
  pose proof (Z.div_mod (16 * n + 2 * (3 + n) + a - 1) a ltac:(lia)) as Hq. fold q in Hq.
  pose proof (Z.mod_pos_bound (16 * n + 2 * (3 + n) + a - 1) a ltac:(lia)).
  assert (0 <= q * a <= 16 * n + 2 * (3 + n) + a - 1) by nia.
  rewrite (wrap_small 64 (q * a + 2 * 3 + 8 * n)) by word_lia.
  rewrite (wrap_small 32 (q * a + 2 * 3 + 8 * n)) by word_lia.
  split_and!; try nia.
  by exists (q + j).
Qed.

Lemma vring_size_covers_witness :
  let vr := vring_init 256 0x10000 (2 ^ 12) in
  desc vr = 0x10000 /\ avail vr = 0x10000 + sizeof_vring_desc * 256 /\
  vring_used_event vr + sizeof_virtio16 <= used vr /\
  used vr < vring_used_event vr + sizeof_virtio16 + 2 ^ 12 /\
  (2 ^ 12 | used vr) /\
  0x10000 + vring_size 256 (2 ^ 12) = vring_avail_event vr + sizeof_virtio16.
Proof.
  apply vring_size_covers; [split; vm_compute; congruence|split; vm_compute; congruence|
    split; vm_compute; congruence|exists 16; vm_compute; reflexivity].
Defined.

(** C22. [vring_need_event] holds exactly when the index the other side waits for
    is one of those just passed: the free-running 16-bit indices from [old] up
    to, but not including, [new_idx], across the wrap-around. *)
Theorem need_event_iff event_idx new_idx old :
  is_u16 event_idx -> is_u16 new_idx -> is_u16 old ->
  vring_need_event event_idx new_idx old = true <->
  exists k, 0 <= k < (new_idx - old) mod 65536 /\ event_idx = (old + k) mod 65536.
Proof.
  intros He Hn Ho. unfold vring_need_event, wrap. rewrite Z.ltb_lt. unfold in_word in *.
  change (2 ^ 16) with 65536 in *. split.
  - intros H. exists ((event_idx - old) mod 65536).
    Z.to_euclidean_division_equations; lia.
  - intros (k & Hk & ->). Z.to_euclidean_division_equations; lia.
Qed.

Lemma need_event_iff_witness :
  vring_need_event 2 5 65534 = true <->
  exists k, 0 <= k < (5 - 65534) mod 65536 /\ 2 = (65534 + k) mod 65536.
Proof. apply need_event_iff; split; vm_compute; congruence. Defined.
