(* ===== verification/CLayout.v ===== *)
(** * Layout of C types

    Sizes, alignments and member offsets of the structures of the kernel headers,
    as the C ABI lays them out: each member at the next multiple of its
    alignment, the size rounded up to the largest alignment. The model has
    integers, words ([long], [size_t], pointers), arrays, structures and unions,
    with the attributes [packed] and [aligned]; enumerations and [float] are
    4-byte integers. The ABI is a parameter: the width of a word and the
    alignment of 64-bit integers. The files [Abi*] translate the structures of
    one header each. *)
From S2P Require Import Prelude.
From S2P Require Import Memory.

Record abi : Type := mk_abi { word_size : Z; align_64 : Z }.

(** 64-bit and 32-bit Arm, and a 32-bit ABI that aligns 64-bit integers to 4. *)
Definition lp64 : abi := mk_abi 8 8.
Definition ilp32 : abi := mk_abi 4 8.
Definition i386 : abi := mk_abi 4 4.

Definition abi_ok (A : abi) : Prop :=
  word_size A ∈ [4; 8] /\ align_64 A ∈ [4; 8].

#[warnings="-register-all"]
Inductive cty : Type :=
| Int (n : Z)
| Word
| Arr (n : Z) (t : cty)
| Aligned (a : Z) (t : cty)
| Struct (fs : list (string * cty))
| Packed (fs : list (string * cty))
| Union (fs : list (string * cty)).

(** The scalar types, under their C names. A name of two words is written as one,
    a name that is a keyword or taken has the prefix [c_]; [ptr] is any pointer. *)
Abbreviation char := (Int 1).
Abbreviation schar := (Int 1).
Abbreviation uchar := (Int 1).
Abbreviation c_bool := (Int 1).
Abbreviation __u8 := (Int 1).
Abbreviation __s8 := (Int 1).
Abbreviation uint8_t := (Int 1).
Abbreviation int8_t := (Int 1).
Abbreviation u_int8_t := (Int 1).
Abbreviation c_u8 := (Int 1).
Abbreviation c_s8 := (Int 1).
Abbreviation short := (Int 2).
Abbreviation ushort := (Int 2).
Abbreviation __u16 := (Int 2).
Abbreviation __s16 := (Int 2).
Abbreviation uint16_t := (Int 2).
Abbreviation int16_t := (Int 2).
Abbreviation u_int16_t := (Int 2).
Abbreviation __le16 := (Int 2).
Abbreviation __be16 := (Int 2).
Abbreviation __sum16 := (Int 2).
Abbreviation c_u16 := (Int 2).
Abbreviation c_s16 := (Int 2).
Abbreviation sa_family_t := (Int 2).
Abbreviation __kernel_sa_family_t := (Int 2).
Abbreviation int := (Int 4).
Abbreviation uint := (Int 4).
Abbreviation c_float := (Int 4).
Abbreviation __u32 := (Int 4).
Abbreviation __s32 := (Int 4).
Abbreviation uint32_t := (Int 4).
Abbreviation int32_t := (Int 4).
Abbreviation u_int32_t := (Int 4).
Abbreviation __le32 := (Int 4).
Abbreviation __be32 := (Int 4).
Abbreviation __wsum := (Int 4).
Abbreviation c_u32 := (Int 4).
Abbreviation c_s32 := (Int 4).
Abbreviation enum := (Int 4).
Abbreviation pid_t := (Int 4).
Abbreviation __kernel_pid_t := (Int 4).
Abbreviation uid_t := (Int 4).
Abbreviation gid_t := (Int 4).
Abbreviation __kernel_uid_t := (Int 4).
Abbreviation __kernel_gid_t := (Int 4).
Abbreviation __kernel_uid32_t := (Int 4).
Abbreviation __kernel_gid32_t := (Int 4).
Abbreviation __kernel_daddr_t := (Int 4).
Abbreviation __kernel_mode_t := (Int 4).
Abbreviation __kernel_ipc_pid_t := (Int 4).
Abbreviation __kernel_key_t := (Int 4).
Abbreviation llong := (Int 8).
Abbreviation ullong := (Int 8).
Abbreviation c_double := (Int 8).
Abbreviation __u64 := (Int 8).
Abbreviation __s64 := (Int 8).
Abbreviation uint64_t := (Int 8).
Abbreviation int64_t := (Int 8).
Abbreviation u_int64_t := (Int 8).
Abbreviation __le64 := (Int 8).
Abbreviation __be64 := (Int 8).
Abbreviation c_u64 := (Int 8).
Abbreviation c_s64 := (Int 8).
Abbreviation __kernel_loff_t := (Int 8).
Abbreviation long := Word.
Abbreviation ulong := Word.
Abbreviation ptr := Word.
Abbreviation size_t := Word.
Abbreviation ssize_t := Word.
Abbreviation off_t := Word.
Abbreviation time_t := Word.
Abbreviation uintptr_t := Word.
Abbreviation __kernel_size_t := Word.
Abbreviation __kernel_off_t := Word.
Abbreviation __kernel_time_t := Word.
Abbreviation __kernel_suseconds_t := Word.
Abbreviation __kernel_ulong_t := Word.
Abbreviation __kernel_long_t := Word.
Abbreviation __kernel_clock_t := Word.
Abbreviation __aligned_u64 := (Aligned 8 (Int 8)).

(** From the C library. *)
Definition timeval : cty := Struct [("tv_sec"%string, long); ("tv_usec"%string, long)].
Definition timespec : cty := Struct [("tv_sec"%string, long); ("tv_nsec"%string, long)].

(** A block of declarations is a list of types under their names; [type_in ds n] is
    the type declared as [n], which is only well typed if there is one. *)
Fixpoint declared (ds : list (string * cty)) (n : string) : option cty :=
  match ds with
  | [] => None
  | (m, t) :: ds => if String.eqb m n then Some t else declared ds n
  end.

Definition type_in (ds : list (string * cty)) (n : string) :
  match declared ds n with Some _ => cty | None => unit end :=
  match declared ds n as o return match o with Some _ => cty | None => unit end with
  | Some t => t
  | None => tt
  end.

(** Induction over a type and the types of its members. *)
Section cty_ind.
Context (P : cty -> Prop).
Context (HInt : forall n, P (Int n)) (HWord : P Word)
  (HArr : forall n t, P t -> P (Arr n t)) (HAligned : forall a t, P t -> P (Aligned a t))
  (HStruct : forall fs, Forall (fun f => P f.2) fs -> P (Struct fs))
  (HPacked : forall fs, Forall (fun f => P f.2) fs -> P (Packed fs))
  (HUnion : forall fs, Forall (fun f => P f.2) fs -> P (Union fs)).

Fixpoint cty_nested_ind (t : cty) : P t :=
  let members := fix members (fs : list (string * cty)) : Forall (fun f => P f.2) fs :=
    match fs with
    | [] => List.Forall_nil _
    | f :: fs => List.Forall_cons _ _ _ (cty_nested_ind f.2) (members fs)
    end in
  match t with
  | Int n => HInt n
  | Word => HWord
  | Arr n t => HArr n t (cty_nested_ind t)
  | Aligned a t => HAligned a t (cty_nested_ind t)
  | Struct fs => HStruct fs (members fs)
  | Packed fs => HPacked fs (members fs)
  | Union fs => HUnion fs (members fs)
  end.
End cty_ind.

(** ** Layout *)

(** Size and alignment. *)
Record lay : Type := mk_lay { lsize : Z; lalign : Z }.

#[export] Instance lay_eq_dec : EqDecision lay.
Proof. solve_decision. Defined.

(** The next multiple of [a]. *)
Definition align_to (a x : Z) : Z := (x + a - 1) / a * a.

(** Offsets of the members from position [pos] on. *)
Fixpoint offsets (pos : Z) (ls : list lay) : list Z :=
  match ls with
  | [] => []
  | l :: ls => let o := align_to (lalign l) pos in o :: offsets (o + lsize l) ls
  end.

(** The first position after the last member. *)
Fixpoint members_end (pos : Z) (ls : list lay) : Z :=
  match ls with
  | [] => pos
  | l :: ls => members_end (align_to (lalign l) pos + lsize l) ls
  end.

Definition max_of (f : lay -> Z) (ls : list lay) : Z := foldr (fun l n => Z.max (f l) n) 0 ls.

Definition struct_align (ls : list lay) : Z := Z.max 1 (max_of lalign ls).
Definition struct_lay (ls : list lay) : lay :=
  mk_lay (align_to (struct_align ls) (members_end 0 ls)) (struct_align ls).
Definition union_lay (ls : list lay) : lay :=
  mk_lay (align_to (struct_align ls) (max_of lsize ls)) (struct_align ls).
(** Members of a packed structure. *)
Definition unaligned (l : lay) : lay := mk_lay (lsize l) 1.

Section layout.
Context (A : abi).

Fixpoint layout (t : cty) : lay :=
  match t with
  | Int n => mk_lay n (if n =? 8 then align_64 A else n)
  | Word => mk_lay (word_size A) (word_size A)
  | Arr n t => let l := layout t in mk_lay (n * lsize l) (lalign l)
  | Aligned a t =>
      let l := layout t in mk_lay (align_to (Z.max a (lalign l)) (lsize l)) (Z.max a (lalign l))
  | Struct fs => struct_lay (map (fun f => layout f.2) fs)
  | Packed fs => struct_lay (map (fun f => unaligned (layout f.2)) fs)
  | Union fs => union_lay (map (fun f => layout f.2) fs)
  end.

Definition sizeof (t : cty) : Z := lsize (layout t).
Definition alignof (t : cty) : Z := lalign (layout t).

End layout.

(** An alignment attribute is transparent to member access. *)
Fixpoint strip (t : cty) : cty :=
  match t with
  | Aligned _ t => strip t
  | t => t
  end.

(** The members with their offsets. *)
Definition members (A : abi) (t : cty) : list (string * cty * Z) :=
  match strip t with
  | Struct fs => zip fs (offsets 0 (map (fun f => layout A f.2) fs))
  | Packed fs => zip fs (offsets 0 (map (fun f => unaligned (layout A f.2)) fs))
  | Union fs => zip fs (map (fun _ => 0) fs)
  | _ => []
  end.

(** An access path: [.m] by the position of the member, [ [i] ]. *)
Inductive step : Type := Mem (k : nat) | Idx (i : Z).

(** Offset and type of what a path denotes. *)
Fixpoint locate (A : abi) (t : cty) (p : list step) : option (Z * cty) :=
  match p with
  | [] => Some (0, t)
  | Mem k :: p =>
      '(f, o) ← members A t !! k;
      '(o', u) ← locate A f.2 p;
      Some (o + o', u)
  | Idx i :: p =>
      match strip t with
      | Arr n e =>
          if (0 <=? i) && (i <? n) then
            '(o', u) ← locate A e p; Some (i * sizeof A e + o', u)
          else None
      | _ => None
      end
  end.

(** Two paths that denote different objects: they part at different members of
    a structure or at different elements. *)
Fixpoint diverge (A : abi) (t : cty) (p q : list step) : bool :=
  match p, q with
  | Mem j :: p, Mem k :: q =>
      if decide (j = k) then
        match members A t !! j with
        | Some (f, _) => diverge A f.2 p q
        | None => false
        end
      else match strip t with Union _ => false | _ => true end
  | Idx i :: p, Idx j :: q =>
      if decide (i = j) then
        match strip t with
        | Arr _ e => diverge A e p q
        | _ => false
        end
      else true
  | _, _ => false
  end.

(** ** Well-formed types *)

Definition power2 (a : Z) : bool := bool_decide (a ∈ [1; 2; 4; 8; 16; 32; 64]).

Fixpoint wf_cty (t : cty) : bool :=
  match t with
  | Int n => bool_decide (n ∈ [1; 2; 4; 8])
  | Word => true
  | Arr n t => (0 <=? n) && wf_cty t
  | Aligned a t => power2 a && wf_cty t
  | Struct fs | Packed fs | Union fs => forallb (fun f => wf_cty f.2) fs
  end.

Fixpoint no_packed (t : cty) : bool :=
  match t with
  | Int _ | Word => true
  | Arr _ t | Aligned _ t => no_packed t
  | Packed _ => false
  | Struct fs | Union fs => forallb (fun f => no_packed f.2) fs
  end.

(** ** Equal layouts on two ABIs *)

(** The size and the offsets of all members agree; alignments may differ. *)
Fixpoint same_layout (A B : abi) (t : cty) : bool :=
  bool_decide (sizeof A t = sizeof B t) &&
  match t with
  | Int _ | Word => true
  | Arr _ t | Aligned _ t => same_layout A B t
  | Struct fs =>
      bool_decide (offsets 0 (map (fun f => layout A f.2) fs)
                   = offsets 0 (map (fun f => layout B f.2) fs)) &&
      forallb (fun f => same_layout A B f.2) fs
  | Packed fs =>
      bool_decide (offsets 0 (map (fun f => unaligned (layout A f.2)) fs)
                   = offsets 0 (map (fun f => unaligned (layout B f.2)) fs)) &&
      forallb (fun f => same_layout A B f.2) fs
  | Union fs => forallb (fun f => same_layout A B f.2) fs
  end.

(** ** Equal types *)

(** Two members, their types compared by [e]. *)
Definition member_eqb (e : cty -> cty -> bool) (f g : string * cty) : bool :=
  String.eqb f.1 g.1 && e f.2 g.2.

Fixpoint cty_eqb (t u : cty) {struct t} : bool :=
  let fields := fix fields (fs gs : list (string * cty)) {struct fs} : bool :=
    match fs, gs with
    | [], [] => true
    | f :: fs, g :: gs => member_eqb cty_eqb f g && fields fs gs
    | _, _ => false
    end in
  match t, u with
  | Int n, Int m => n =? m
  | Word, Word => true
  | Arr n t, Arr m u => (n =? m) && cty_eqb t u
  | Aligned a t, Aligned b u => (a =? b) && cty_eqb t u
  | Struct fs, Struct gs | Packed fs, Packed gs | Union fs, Union gs => fields fs gs
  | _, _ => false
  end.

Lemma cty_eqb_eq t u : cty_eqb t u = true -> t = u.
Proof.
  revert u. induction t as [n| |n t IH|a t IH|fs IH|fs IH|fs IH] using cty_nested_ind;
    intros u; destruct u as [m| |m u|b u|gs|gs|gs]; simpl; try done.
  1: by intros ->%Z.eqb_eq.
  1, 2: by intros [->%Z.eqb_eq ->%IH]%andb_true_iff.
  all: intros H; f_equal; revert gs H; induction IH as [|[f t] fs Hf Hfs IHfs]; intros [|[g u] gs];
    simpl; try done; intros [[Hn%String.eqb_eq Ht]%andb_true_iff ->%IHfs]%andb_true_iff;
    simpl in *; by rewrite Hn, (Hf u Ht).
Qed.

Lemma cty_eqb_refl t : cty_eqb t t = true.
Proof.
  induction t as [n| |n t IH|a t IH|fs IH|fs IH|fs IH] using cty_nested_ind; simpl;
    rewrite ?Z.eqb_refl; try done.
  all: induction IH as [|[f t] fs Hf Hfs IHfs]; [done|];
    simpl in Hf; simpl; unfold member_eqb at 1; simpl; rewrite String.eqb_refl, Hf; exact IHfs.
Qed.

(** ** Alignments are powers of two *)

Definition pow2 (a : Z) : Prop := exists k, 0 <= k /\ a = 2 ^ k.

Lemma power2_pow2 a : power2 a = true -> pow2 a.
Proof.
  unfold power2. rewrite bool_decide_eq_true, !elem_of_cons, elem_of_nil.
  intros Ha. exists (Z.log2 a). split; [apply Z.log2_nonneg|].
  by repeat destruct Ha as [->|Ha].
Qed.

Lemma pow2_pos a : pow2 a -> 0 < a.
Proof. intros (k & ? & ->). apply Z.pow_pos_nonneg; lia. Qed.

Lemma pow2_divide a b : pow2 a -> pow2 b -> a <= b -> (a | b).
Proof.
  intros (j & ? & ->) (k & ? & ->) Hle.
  exists (2 ^ (k - j)). rewrite <- Z.pow_add_r; [f_equal; lia| |done].
  apply Z.pow_le_mono_r_iff in Hle; lia.
Qed.

Lemma pow2_max a b : pow2 a -> pow2 b -> pow2 (Z.max a b).
Proof. intros. by destruct (Z.max_spec a b) as [[_ ->]|[_ ->]]. Qed.

Lemma pow2_1 : pow2 1.
Proof. by exists 0. Qed.

Lemma pow2_divide_max_l a b : pow2 a -> pow2 b -> (a | Z.max a b).
Proof. intros. apply pow2_divide; [done|by apply pow2_max|lia]. Qed.

Lemma align_to_spec a x : 0 < a -> x <= align_to a x < x + a /\ (a | align_to a x).
Proof.
  intros. unfold align_to. split; [|apply Z.divide_factor_r].
  Z.to_euclidean_division_equations. nia.
Qed.

(** ** Member offsets *)

Definition lay_ok (l : lay) : Prop := 0 <= lsize l /\ pow2 (lalign l) /\ (lalign l | lsize l).
(** Without the size being a multiple of the alignment. *)
Definition lay_pos (l : lay) : Prop := 0 <= lsize l /\ 0 < lalign l.

Lemma lay_ok_pos l : lay_ok l -> lay_pos l.
Proof. intros (? & ?%pow2_pos & ?). done. Qed.

Lemma members_end_ge pos ls : Forall lay_pos ls -> pos <= members_end pos ls.
Proof.
  intros Hls. revert pos. induction Hls as [|l ls [? ?] Hls IH]; intros pos; simpl; [lia|].
  specialize (IH (align_to (lalign l) pos + lsize l)).
  destruct (align_to_spec (lalign l) pos); [done|lia].
Qed.

Lemma offsets_length pos ls : length (offsets pos ls) = length ls.
Proof. revert pos. induction ls as [|l ls IH]; intros pos; simpl; auto. Qed.

Lemma offsets_spec pos ls k o l :
  Forall lay_pos ls -> offsets pos ls !! k = Some o -> ls !! k = Some l ->
  pos <= o /\ o + lsize l <= members_end pos ls /\ (lalign l | o).
Proof.
  intros Hls. revert pos k. induction Hls as [|l' ls Hl' Hls IH]; intros pos k; simpl; [done|].
  destruct Hl' as [Hs Ha]. destruct (align_to_spec (lalign l') pos Ha) as [Hb Hd].
  destruct k as [|k]; simpl.
  - intros [= <-] [= <-]. split_and!; [lia|by apply members_end_ge|done].
  - intros Ho Hl. destruct (IH _ _ Ho Hl) as (? & ? & ?). split_and!; [lia|done|done].
Qed.

Lemma offsets_ordered pos ls j k oj ok l :
  Forall lay_pos ls -> (j < k)%nat -> offsets pos ls !! j = Some oj ->
  offsets pos ls !! k = Some ok -> ls !! j = Some l -> oj + lsize l <= ok.
Proof.
  intros Hls. revert pos j k. induction Hls as [|l' ls Hl' Hls IH]; intros pos j k Hjk; simpl; [done|].
  destruct k as [|k]; [lia|]. destruct j as [|j]; simpl.
  - intros [= <-] Hk [= <-].
    destruct (lookup_lt_is_Some_2 ls k) as [lk Hlk].
    { rewrite <- (offsets_length (align_to (lalign l') pos + lsize l')). by eapply lookup_lt_Some. }
    by apply (offsets_spec _ _ _ _ _ Hls Hk Hlk).
  - apply IH. lia.
Qed.

Lemma max_of_ge f ls l : l ∈ ls -> f l <= max_of f ls.
Proof. induction 1; simpl; lia. Qed.

Lemma max_of_nonneg f ls : 0 <= max_of f ls.
Proof. induction ls; simpl; lia. Qed.

Lemma struct_align_pow2 ls : Forall (fun l => pow2 (lalign l)) ls -> pow2 (struct_align ls).
Proof.
  unfold struct_align. induction 1 as [|l ls Hl Hls IH]; simpl; [apply pow2_1|].
  rewrite Z.max_assoc, (Z.max_comm 1), <- Z.max_assoc. by apply pow2_max.
Qed.

Lemma struct_align_divide ls l :
  Forall (fun l => pow2 (lalign l)) ls -> l ∈ ls -> (lalign l | struct_align ls).
Proof.
  intros Hls Hl. apply pow2_divide.
  - rewrite Forall_forall in Hls. auto.
  - by apply struct_align_pow2.
  - pose proof (max_of_ge lalign ls l Hl). unfold struct_align. lia.
Qed.

Lemma struct_lay_ok ls : Forall lay_pos ls -> Forall (fun l => pow2 (lalign l)) ls ->
  lay_ok (struct_lay ls) /\ members_end 0 ls <= lsize (struct_lay ls).
Proof.
  intros Hp Ha. pose proof (struct_align_pow2 _ Ha) as Hs.
  destruct (align_to_spec (struct_align ls) (members_end 0 ls) (pow2_pos _ Hs)) as [? ?].
  pose proof (members_end_ge 0 ls Hp). split; [|simpl; lia]. split_and!; [simpl; lia|done|done].
Qed.

Lemma union_lay_ok ls : Forall (fun l => pow2 (lalign l)) ls -> lay_ok (union_lay ls) /\
  forall l, l ∈ ls -> lsize l <= lsize (union_lay ls).
Proof.
  intros Ha. pose proof (struct_align_pow2 _ Ha) as Hs.
  destruct (align_to_spec (struct_align ls) (max_of lsize ls) (pow2_pos _ Hs)) as [? ?].
  pose proof (max_of_nonneg lsize ls). split; [split_and!; [simpl; lia|done|done]|].
  intros l Hl. pose proof (max_of_ge lsize ls l Hl). simpl. lia.
Qed.

(** ** Well-formed types have sound layouts *)

Section sound.
Context (A : abi) (HA : abi_ok A).

Lemma lay_ok_int n : pow2 n -> lay_ok (mk_lay n n).
Proof. intros Hn. pose proof (pow2_pos _ Hn). split_and!; simpl; [lia|done|done]. Qed.

Lemma layouts_ok fs : Forall (fun f : string * cty => lay_ok (layout A f.2)) fs ->
  Forall lay_pos (map (fun f => layout A f.2) fs) /\
  Forall (fun l => pow2 (lalign l)) (map (fun f => layout A f.2) fs) /\
  Forall lay_pos (map (fun f => unaligned (layout A f.2)) fs) /\
  Forall (fun l => pow2 (lalign l)) (map (fun f => unaligned (layout A f.2)) fs).
Proof.
  rewrite !Forall_map, !Forall_forall. intros H. split_and!; intros f Hf; specialize (H f Hf);
    pose proof (lay_ok_pos _ H) as [? ?]; destruct H as (? & ? & ?);
    first [done | split; [done|reflexivity] | apply pow2_1].
Qed.

Lemma forallb_impl (w : cty -> bool) (P : cty -> Prop) (fs : list (string * cty)) :
  Forall (fun f => w f.2 = true -> P f.2) fs -> forallb (fun f => w f.2) fs = true ->
  Forall (fun f => P f.2) fs.
Proof.
  induction 1 as [|f fs Hf Hfs IH]; simpl; [done|].
  intros [Hw Hr]%andb_true_iff. constructor; auto.
Qed.

Lemma layout_int_ok n : n ∈ [1; 2; 4; 8] -> lay_ok (layout A (Int n)).
Proof.
  destruct HA as [_ H64]. rewrite !elem_of_cons, elem_of_nil in *.
  intros [->|[->|[->|[->|[]]]]]; simpl.
  - apply lay_ok_int, pow2_1.
  - apply lay_ok_int. by exists 1.
  - apply lay_ok_int. by exists 2.
  - split_and!; simpl; [done| |]; destruct H64 as [->|[->|[]]].
    1: by exists 2. 1: by exists 3. all: by apply Z.mod_divide.
Qed.

Lemma layout_word_ok : lay_ok (layout A Word).
Proof.
  destruct HA as [Hw _]. rewrite !elem_of_cons, elem_of_nil in Hw.
  destruct Hw as [Hw|[Hw|[]]]; simpl; rewrite Hw; apply lay_ok_int; [by exists 2|by exists 3].
Qed.

Lemma layout_ok t : wf_cty t = true -> lay_ok (layout A t).
Proof.
  induction t as [n| |n t IH|a t IH|fs IH|fs IH|fs IH] using cty_nested_ind; simpl.
  - rewrite bool_decide_eq_true. apply layout_int_ok.
  - intros _. apply layout_word_ok.
  - rewrite andb_true_iff, Z.leb_le. intros [Hn (Hs & Ha & Hd)%IH].
    split_and!; simpl; [by apply Z.mul_nonneg_nonneg|done|by apply Z.divide_mul_r].
  - rewrite andb_true_iff. intros [Ha%power2_pow2 (Hs & Hal & _)%IH].
    pose proof (pow2_max _ _ Ha Hal) as Hm.
    destruct (align_to_spec _ (lsize (layout A t)) (pow2_pos _ Hm)) as [? ?].
    split_and!; simpl; [lia|done|done].
  - intros Hfs%(forallb_impl _ (fun t => lay_ok (layout A t))); [|done].
    by apply struct_lay_ok; apply layouts_ok.
  - intros Hfs%(forallb_impl _ (fun t => lay_ok (layout A t))); [|done].
    by apply struct_lay_ok; apply layouts_ok.
  - intros Hfs%(forallb_impl _ (fun t => lay_ok (layout A t))); [|done].
    by apply union_lay_ok, layouts_ok.
Qed.

Lemma wf_layouts fs : forallb (fun f : string * cty => wf_cty f.2) fs = true ->
  Forall (fun f : string * cty => lay_ok (layout A f.2)) fs.
Proof.
  intros Hfs. apply (forallb_impl wf_cty (fun t => lay_ok (layout A t))); [|done].
  apply Forall_true. intros f. apply layout_ok.
Qed.

Lemma wf_strip t : wf_cty t = true -> wf_cty (strip t) = true.
Proof. induction t; simpl; try done. intros [_ ?]%andb_true_iff. auto. Qed.

(** An attribute only enlarges. *)
Lemma strip_le t : wf_cty t = true ->
  sizeof A (strip t) <= sizeof A t /\ (alignof A (strip t) | alignof A t).
Proof.
  unfold sizeof, alignof.
  induction t as [| | |a t IH| | |]; try (intros; split; [done|apply Z.divide_refl]).
  simpl. intros [Ha%power2_pow2 Hw]%andb_true_iff.
  destruct (IH Hw) as [Hs Hd]. pose proof (layout_ok _ Hw) as (_ & Hp & _).
  destruct (align_to_spec (Z.max a (lalign (layout A t))) (lsize (layout A t))) as [Hb _].
  { by apply pow2_pos, pow2_max. }
  split; [lia|]. etransitivity; [done|]. rewrite Z.max_comm. by apply pow2_divide_max_l.
Qed.

(** A member lies in its structure, at a multiple of its alignment. *)
Lemma member_bounds t k f o : wf_cty t = true -> members A t !! k = Some (f, o) ->
  wf_cty f.2 = true /\ 0 <= o /\ o + sizeof A f.2 <= sizeof A t /\
  (no_packed t = true ->
    no_packed f.2 = true /\ Z.divide (alignof A f.2) o /\ Z.divide (alignof A f.2) (alignof A t)).
Proof.
  intros Hw Hm. destruct (strip_le t Hw) as [Hs Hd]. apply wf_strip in Hw as Hws.
  assert (Hnp : no_packed t = true -> no_packed (strip t) = true).
  { clear. induction t; simpl; auto. }
  unfold members in Hm. unfold sizeof, alignof in *.
  destruct (strip t) as [| | | |fs|fs|fs]; try done; simpl in Hws;
    apply lookup_zip_Some in Hm as [Hf Ho]; simpl in *;
    pose proof (wf_layouts _ Hws) as Hok;
    assert (Hwf : wf_cty f.2 = true) by
      (rewrite forallb_forall in Hws; apply Hws, list_elem_of_In; by eapply list_elem_of_lookup_2);
    destruct (layouts_ok _ Hok) as (Hp1 & Ha1 & Hp2 & Ha2).
  - assert (Hl : map (fun f => layout A f.2) fs !! k = Some (layout A f.2)).
    { by rewrite list_lookup_fmap, Hf. }
    destruct (offsets_spec _ _ _ _ _ Hp1 Ho Hl) as (? & ? & ?).
    destruct (struct_lay_ok _ Hp1 Ha1) as [_ ?]. simpl in *.
    split_and!; [done|lia|lia|]. intros Hn%Hnp. split_and!; [|done|].
    + rewrite forallb_forall in Hn. apply Hn, list_elem_of_In. by eapply list_elem_of_lookup_2.
    + etransitivity; [|done]. apply struct_align_divide; [done|]. by eapply list_elem_of_lookup_2.
  - assert (Hl : map (fun f => unaligned (layout A f.2)) fs !! k = Some (unaligned (layout A f.2))).
    { by rewrite list_lookup_fmap, Hf. }
    destruct (offsets_spec _ _ _ _ _ Hp2 Ho Hl) as (? & ? & ?).
    destruct (struct_lay_ok _ Hp2 Ha2) as [_ ?]. simpl in *.
    split_and!; [done|lia|lia|]. intros Hn%Hnp. done.
  - assert (Hl : layout A f.2 ∈ map (fun f => layout A f.2) fs).
    { apply list_elem_of_In, in_map_iff. exists f. split; [done|].
      apply list_elem_of_In. by eapply list_elem_of_lookup_2. }
    destruct (union_lay_ok _ Ha1) as [_ Hu]. specialize (Hu _ Hl). simpl in *.
    rewrite list_lookup_fmap in Ho. apply fmap_Some in Ho as (? & _ & ->).
    split_and!; [done|done|lia|]. intros Hn%Hnp. split_and!; [|apply Z.divide_0_r|].
    + rewrite forallb_forall in Hn. apply Hn, list_elem_of_In. by eapply list_elem_of_lookup_2.
    + etransitivity; [|done]. by apply struct_align_divide.
Qed.
End sound.

(** ** Access paths *)

Section paths.
Context (A : abi) (HA : abi_ok A).

Lemma locate_mem t k p o u : locate A t (Mem k :: p) = Some (o, u) ->
  exists f o1 o2, members A t !! k = Some (f, o1) /\ locate A f.2 p = Some (o2, u) /\ o = o1 + o2.
Proof.
  simpl. destruct (members A t !! k) as [[f o1]|]; [|done]. cbn [mbind option_bind].
  destruct (locate A f.2 p) as [[o2 u']|] eqn:El; [|done]. simpl. intros [= <- <-]. by exists f, o1, o2.
Qed.

Lemma locate_idx t i p o u : locate A t (Idx i :: p) = Some (o, u) ->
  exists n e o2, strip t = Arr n e /\ 0 <= i < n /\ locate A e p = Some (o2, u) /\
    o = i * sizeof A e + o2.
Proof.
  simpl. destruct (strip t) as [| |n e| | | |]; try done.
  destruct (Z.leb_spec 0 i), (Z.ltb_spec i n); try done. simpl.
  destruct (locate A e p) as [[o2 u']|] eqn:El; [|done]. simpl. intros [= <- <-]. exists n, e, o2. done.
Qed.

Lemma element_bounds t n e i : wf_cty t = true -> strip t = Arr n e -> 0 <= i < n ->
  wf_cty e = true /\ 0 <= sizeof A e /\ i * sizeof A e + sizeof A e <= sizeof A t /\
  Z.divide (alignof A e) (i * sizeof A e) /\ Z.divide (alignof A e) (alignof A t).
Proof.
  intros Hw Hs Hi. destruct (strip_le A HA t Hw) as [Hsz Hal]. apply wf_strip in Hw.
  rewrite Hs in *. simpl in Hw. apply andb_true_iff in Hw as [_ Hw].
  destruct (layout_ok A HA e Hw) as (? & ? & Hd). unfold sizeof, alignof in *. simpl in *.
  split_and!; [done|done|nia|by apply Z.divide_mul_r|done].
Qed.

Lemma no_packed_strip t : no_packed t = no_packed (strip t).
Proof. induction t; simpl; auto. Qed.

Lemma locate_bounds p : forall t o u, wf_cty t = true -> locate A t p = Some (o, u) ->
  0 <= o /\ 0 <= sizeof A u /\ o + sizeof A u <= sizeof A t.
Proof.
  induction p as [|[k|i] p IH]; intros t o u Hw Hl.
  - injection Hl as <- <-. destruct (layout_ok A HA t Hw) as (? & _). unfold sizeof. lia.
  - apply locate_mem in Hl as (f & o1 & o2 & Hm & Hl & ->).
    destruct (member_bounds A HA _ _ _ _ Hw Hm) as (Hwf & ? & ? & _).
    destruct (IH _ _ _ Hwf Hl) as (? & ? & ?). lia.
  - apply locate_idx in Hl as (n & e & o2 & Hs & Hi & Hl & ->).
    destruct (element_bounds _ _ _ _ Hw Hs Hi) as (Hwe & ? & ? & _).
    destruct (IH _ _ _ Hwe Hl) as (? & ? & ?). nia.
Qed.

Lemma locate_aligned p : forall t o u, wf_cty t = true -> no_packed t = true ->
  locate A t p = Some (o, u) ->
  Z.divide (alignof A u) o /\ Z.divide (alignof A u) (alignof A t).
Proof.
  induction p as [|[k|i] p IH]; intros t o u Hw Hn Hl.
  - injection Hl as <- <-. split; [apply Z.divide_0_r|apply Z.divide_refl].
  - apply locate_mem in Hl as (f & o1 & o2 & Hm & Hl & ->).
    destruct (member_bounds A HA _ _ _ _ Hw Hm) as (Hwf & _ & _ & Ha).
    destruct (Ha Hn) as (Hnf & Hd1 & Hd2). destruct (IH _ _ _ Hwf Hnf Hl) as [Hd3 Hd4].
    split; [apply Z.divide_add_r; [|done]|]; by etransitivity.
  - apply locate_idx in Hl as (n & e & o2 & Hs & Hi & Hl & ->).
    destruct (element_bounds _ _ _ _ Hw Hs Hi) as (Hwe & _ & _ & Hd1 & Hd2).
    rewrite no_packed_strip, Hs in Hn. simpl in Hn.
    destruct (IH _ _ _ Hwe Hn Hl) as [Hd3 Hd4].
    split; [apply Z.divide_add_r; [|done]|]; by etransitivity.
Qed.

(** Different members of a structure do not overlap. *)
Lemma members_apart t j k fj fk oj ok : wf_cty t = true ->
  (match strip t with Union _ => false | _ => true end) = true -> j <> k ->
  members A t !! j = Some (fj, oj) -> members A t !! k = Some (fk, ok) ->
  oj + sizeof A fj.2 <= ok \/ ok + sizeof A fk.2 <= oj.
Proof.
  intros Hw Hu Hjk. apply wf_strip in Hw. unfold members, sizeof.
  destruct (strip t) as [| | | |fs|fs|fs]; try done; simpl in Hw;
    destruct (layouts_ok A _ (wf_layouts A HA _ Hw)) as (Hp1 & _ & Hp2 & _);
    intros [Hj Hoj]%lookup_zip_Some [Hk Hok]%lookup_zip_Some; simpl in *.
  all: destruct (Nat.lt_gt_cases j k) as [Hne _]; destruct (Hne Hjk) as [Hlt|Hlt]; [left|right].
  1: eapply (offsets_ordered 0 _ j k _ _ _ Hp1 Hlt Hoj Hok); by rewrite list_lookup_fmap, Hj.
  1: eapply (offsets_ordered 0 _ k j _ _ _ Hp1 Hlt Hok Hoj); by rewrite list_lookup_fmap, Hk.
  1: eapply (offsets_ordered 0 _ j k _ _ (unaligned (layout A fj.2)) Hp2 Hlt Hoj Hok);
       by rewrite list_lookup_fmap, Hj.
  1: eapply (offsets_ordered 0 _ k j _ _ (unaligned (layout A fk.2)) Hp2 Hlt Hok Hoj);
       by rewrite list_lookup_fmap, Hk.
Qed.

Lemma diverge_apart p : forall q t op u oq v, wf_cty t = true -> diverge A t p q = true ->
  locate A t p = Some (op, u) -> locate A t q = Some (oq, v) ->
  op + sizeof A u <= oq \/ oq + sizeof A v <= op.
Proof.
  induction p as [|[j|i] p IH]; intros [|[k|i'] q] t op u oq v Hw Hd Hp Hq; try done.
  - apply locate_mem in Hp as (fj & oj & o1 & Hj & Hp & ->).
    apply locate_mem in Hq as (fk & ok & o2 & Hk & Hq & ->).
    destruct (member_bounds A HA _ _ _ _ Hw Hj) as (Hwj & ? & ? & _).
    destruct (member_bounds A HA _ _ _ _ Hw Hk) as (Hwk & ? & ? & _).
    destruct (locate_bounds _ _ _ _ Hwj Hp) as (? & ? & ?), (locate_bounds _ _ _ _ Hwk Hq) as (? & ? & ?).
    simpl in Hd. case_decide as Hjk.
    + subst k. rewrite Hj in Hd, Hk. simplify_eq. destruct (IH _ _ _ _ _ _ Hwj Hd Hp Hq); lia.
    + destruct (members_apart t j k fj fk oj ok); [done..|lia|lia].
  - apply locate_idx in Hp as (n & e & o1 & Hs & Hi & Hp & ->).
    apply locate_idx in Hq as (n' & e' & o2 & Hs' & Hi' & Hq & ->).
    rewrite Hs in Hs'. simplify_eq.
    destruct (element_bounds _ _ _ _ Hw Hs Hi) as (Hwe & ? & _).
    destruct (locate_bounds _ _ _ _ Hwe Hp) as (? & ? & ?), (locate_bounds _ _ _ _ Hwe Hq) as (? & ? & ?).
    simpl in Hd. case_decide as Hii.
    + subst i'. rewrite Hs in Hd. destruct (IH _ _ _ _ _ _ Hwe Hd Hp Hq); lia.
    + nia.
Qed.
End paths.

(** ** Objects in memory *)

Section objects.
Context {BO : ByteOrder} (A : abi).

(** The value of a path in the object at [b], and an assignment to it. *)
Definition load_path (t : cty) (b : nat) (p : list step) (m : bytes) : option Z :=
  '(o, u) ← locate A t p; ld (Z.to_nat (sizeof A u)) m (b + Z.to_nat o).

Definition store_path (t : cty) (b : nat) (p : list step) (v : Z) (m : bytes) : option bytes :=
  '(o, u) ← locate A t p; st (Z.to_nat (sizeof A u)) (b + Z.to_nat o) v m.
End objects.

(** ** Equal layouts *)

Section same.
Context (A B : abi).

Lemma same_layout_sizeof t : same_layout A B t = true -> sizeof A t = sizeof B t.
Proof. destruct t; simpl; rewrite andb_true_iff, bool_decide_eq_true; by intros [? _]. Qed.

Lemma same_layout_strip t : same_layout A B t = true -> same_layout A B (strip t) = true.
Proof.
  induction t; try done. intros Hs. apply IHt. simpl in Hs. by apply andb_true_iff in Hs as [_ ?].
Qed.

Lemma members_same t : same_layout A B t = true ->
  members A t = members B t /\
  forall k f o, members A t !! k = Some (f, o) -> same_layout A B f.2 = true.
Proof.
  intros Hs%same_layout_strip. unfold members. destruct (strip t) as [| | | |fs|fs|fs]; try done;
    simpl in Hs; rewrite ?andb_true_iff, ?bool_decide_eq_true in Hs.
  1,2: destruct Hs as (_ & Ho & Hs); rewrite Ho.
  3: destruct Hs as [_ Hs].
  all: split; [done|intros k f o [Hf _]%lookup_zip_Some; rewrite forallb_forall in Hs;
                apply Hs, list_elem_of_In; by eapply list_elem_of_lookup_2].
Qed.

Lemma element_same t n e : same_layout A B t = true -> strip t = Arr n e -> same_layout A B e = true.
Proof.
  intros Hs%same_layout_strip E. rewrite E in Hs. simpl in Hs. by apply andb_true_iff in Hs as [_ ?].
Qed.

Lemma locate_same p : forall t, same_layout A B t = true ->
  locate A t p = locate B t p /\
  forall o u, locate A t p = Some (o, u) -> same_layout A B u = true.
Proof.
  induction p as [|[k|i] p IH]; intros t Hs; simpl.
  - split; [done|]. by intros o u [= <- <-].
  - destruct (members_same t Hs) as [Hm Hf]. rewrite <- Hm.
    destruct (members A t !! k) as [[f o]|] eqn:E; [|done]. cbn [mbind option_bind].
    destruct (IH f.2 (Hf _ _ _ E)) as [<- Hu]. split; [done|].
    destruct (locate A f.2 p) as [[o' u']|]; [|done]. simpl. intros o1 u1 [= <- <-]. by eapply Hu.
  - destruct (strip t) as [| |n e| | | |] eqn:E; try done.
    pose proof (element_same _ _ _ Hs E) as He. destruct (IH e He) as [<- Hu].
    destruct (_ && _); [|done]. rewrite (same_layout_sizeof e He). split; [done|].
    destruct (locate A e p) as [[o' u']|]; [|done]. simpl. intros o1 u1 [= <- <-]. by eapply Hu.
Qed.
End same.

Lemma same_layout_load (A B : abi) t (BO : ByteOrder) b p m : same_layout A B t = true ->
  load_path A t b p m = load_path B t b p m.
Proof.
  intros Hs. unfold load_path. destruct (locate_same A B p t Hs) as [<- Hu].
  destruct (locate A t p) as [[o u]|]; [|done]. cbn [mbind option_bind].
  by rewrite (same_layout_sizeof A B u (Hu _ _ eq_refl)).
Qed.

(** Members of a structure are independent. In an object of a well-formed
    type, under any of the ABIs, an assignment to a member or element stays
    inside the object, is read back (up to the member's width), and leaves every
    member that does not overlap it by construction, that is, any whose path
    parts at a structure or at an array index, as it was. *)
Theorem member_store_load `{ByteOrder} (A : abi) (t : cty) (b : nat) (p q : list step)
    (o : Z) (u : cty) (v : Z) (m : bytes) :
  abi_ok A -> wf_cty t = true -> diverge A t p q = true -> is_Some (locate A t q) ->
  locate A t p = Some (o, u) -> Z.of_nat b + sizeof A t <= Z.of_nat (length m) ->
  exists m', store_path A t b p v m = Some m' /\
    load_path A t b p m' = Some (wrap (8 * sizeof A u) v) /\
    load_path A t b q m' = load_path A t b q m /\
    same_outside b (Z.to_nat (sizeof A t)) m m'.
Proof.
  intros HA Hw Hd [[oq w] Hq] Hp Hb.
  destruct (locate_bounds A HA p t o u Hw Hp) as (? & ? & ?).
  destruct (locate_bounds A HA q t oq w Hw Hq) as (? & ? & ?).
  unfold store_path, load_path. rewrite Hp, Hq. cbn [mbind option_bind].
  destruct (st_Some (Z.to_nat (sizeof A u)) (b + Z.to_nat o) v m) as [m' E]; [lia|].
  exists m'. split_and!; [done| | |].
  - rewrite (ld_st _ _ _ _ _ E). by rewrite Z2Nat.id.
  - apply (ld_st_other _ _ _ _ _ _ _ E).
    destruct (diverge_apart A HA p q t o u oq w Hw Hd Hp Hq); lia.
  - eapply same_outside_weaken; [by eapply st_outside|lia|lia].
Qed.

Lemma member_store_load_witness :
  let t := Struct [("a"%string, Int 1); ("b"%string, Arr 3 (Int 4)); ("c"%string, Word)] in
  exists m', store_path (BO := false) lp64 t 2 [Mem 1; Idx 2] 0x1122334455 (replicate 40 7) = Some m' /\
    load_path (BO := false) lp64 t 2 [Mem 1; Idx 2] m' = Some 0x22334455 /\
    load_path (BO := false) lp64 t 2 [Mem 2] m' = load_path (BO := false) lp64 t 2 [Mem 2] (replicate 40 7) /\
    same_outside 2 24 (replicate 40 7) m'.
Proof.
  intros t. apply (member_store_load (H := false) lp64 t 2 [Mem 1; Idx 2] [Mem 2] 12 (Int 4)); try done.
  split; apply (bool_decide_unpack _); by vm_compute.
Defined.

(** A type that passes [same_layout] has one layout on both ABIs: the size is
    the same, every access path denotes the same bytes, and so a kernel of one
    ABI reads in an object what a program of the other has put there. *)
Theorem same_layout_sound (A B : abi) (t : cty) :
  same_layout A B t = true ->
  sizeof A t = sizeof B t /\ (forall p, locate A t p = locate B t p) /\
  forall (BO : ByteOrder) b p m, load_path A t b p m = load_path B t b p m.
Proof.
  intros Hs. split_and!.
  - by apply same_layout_sizeof.
  - intros p. by apply locate_same.
  - intros BO b p m. by apply same_layout_load.
Qed.

Lemma same_layout_sound_witness :
  let t := Struct [("a"%string, Int 4); ("b"%string, Arr 3 (Int 2)); ("c"%string, Int 8)] in
  sizeof ilp32 t = sizeof lp64 t /\ (forall p, locate ilp32 t p = locate lp64 t p) /\
  forall (BO : ByteOrder) b p m, load_path ilp32 t b p m = load_path lp64 t b p m.
Proof. intros t. apply (same_layout_sound ilp32 lp64 t). by vm_compute. Defined.
