(* ===== verification/Ioctl.v ===== *)
(** * Ioctl command numbers

    The encoding of [kernel-headers/asm-generic/ioctl.h]: direction, driver type,
    number and argument size packed into one word, and the commands the files
    [Abi*] declare with it. The word is as wide as the [sizeof] in it: that it fits
    the 32 bits of a command is a theorem about the commands, not part of the
    macro. *)
From S2P Require Import Prelude.
From S2P Require Import CLayout.

Definition _IOC_NRBITS : Z := 8.
Definition _IOC_TYPEBITS : Z := 8.
Definition _IOC_SIZEBITS : Z := 14.
Definition _IOC_DIRBITS : Z := 2.

Definition _IOC_NRMASK : Z := (1 ≪ _IOC_NRBITS) - 1.
Definition _IOC_TYPEMASK : Z := (1 ≪ _IOC_TYPEBITS) - 1.
Definition _IOC_SIZEMASK : Z := (1 ≪ _IOC_SIZEBITS) - 1.
Definition _IOC_DIRMASK : Z := (1 ≪ _IOC_DIRBITS) - 1.

Definition _IOC_NRSHIFT : Z := 0.
Definition _IOC_TYPESHIFT : Z := _IOC_NRSHIFT + _IOC_NRBITS.
Definition _IOC_SIZESHIFT : Z := _IOC_TYPESHIFT + _IOC_TYPEBITS.
Definition _IOC_DIRSHIFT : Z := _IOC_SIZESHIFT + _IOC_SIZEBITS.

Definition _IOC_NONE : Z := 0.
Definition _IOC_WRITE : Z := 1.
Definition _IOC_READ : Z := 2.

(** [dir] is unsigned, [type] and [nr] are constants of type [int], [size] is a
    [size_t], of [w] bits, and so is the result. *)
Definition _IOC (w dir type nr size : Z) : Z :=
  u32 (dir ≪ _IOC_DIRSHIFT) ||| (type ≪ _IOC_TYPESHIFT) ||| (nr ≪ _IOC_NRSHIFT)
  ||| wrap w (size ≪ _IOC_SIZESHIFT).

Definition _IOC_DIR (nr : Z) : Z := (nr ≫ _IOC_DIRSHIFT) &&& _IOC_DIRMASK.
Definition _IOC_TYPE (nr : Z) : Z := (nr ≫ _IOC_TYPESHIFT) &&& _IOC_TYPEMASK.
Definition _IOC_NR (nr : Z) : Z := (nr ≫ _IOC_NRSHIFT) &&& _IOC_NRMASK.
Definition _IOC_SIZE (nr : Z) : Z := (nr ≫ _IOC_SIZESHIFT) &&& _IOC_SIZEMASK.

(** ** Commands *)

(** A macro that names a command; the number depends on the ABI through the size
    of the argument, whose type itself may depend on it, by the length of an
    array. *)
Record command : Type := mk_command {
  cmd_name : string;
  cmd_dir : Z;
  cmd_type : Z;
  cmd_nr : Z;
  cmd_arg : abi -> option cty }.

Definition _IO (name : string) (type nr : Z) : command := mk_command name _IOC_NONE type nr (fun _ => None).
Definition _IOR (name : string) (type nr : Z) (t : cty) : command :=
  mk_command name _IOC_READ type nr (fun _ => Some t).
Definition _IOW (name : string) (type nr : Z) (t : cty) : command :=
  mk_command name _IOC_WRITE type nr (fun _ => Some t).
Definition _IOWR (name : string) (type nr : Z) (t : cty) : command :=
  mk_command name (_IOC_READ ||| _IOC_WRITE) type nr (fun _ => Some t).

(** [_IOC] itself with a direction and the size of a type. *)
Definition _IOC_of (name : string) (dir type nr : Z) (t : cty) : command :=
  mk_command name dir type nr (fun _ => Some t).
(** [_IOWR] and [_IOR] with a type that depends on the ABI. *)
Definition _IOWR_by (name : string) (type nr : Z) (t : abi -> cty) : command :=
  mk_command name (_IOC_READ ||| _IOC_WRITE) type nr (fun A => Some (t A)).
Definition _IOR_by (name : string) (type nr : Z) (t : abi -> cty) : command :=
  mk_command name _IOC_READ type nr (fun A => Some (t A)).

(** A character constant. *)
Definition chr (s : string) : Z :=
  match s with
  | String a _ => Z.of_nat (Ascii.nat_of_ascii a)
  | EmptyString => 0
  end.

Definition cmd_size (A : abi) (c : command) : Z :=
  match cmd_arg c A with Some t => sizeof A t | None => 0 end.
Definition number (A : abi) (c : command) : Z :=
  _IOC (8 * word_size A) (cmd_dir c) (cmd_type c) (cmd_nr c) (cmd_size A c).

(** The operands stay within their fields. *)
Definition fits (dir type nr size : Z) : bool :=
  (0 <=? dir) && (dir <? 4) && (0 <=? type) && (type <? 256) && (0 <=? nr) && (nr <? 256)
  && (0 <=? size) && (size <? 16384).
Definition cmd_fits (A : abi) (c : command) : bool :=
  fits (cmd_dir c) (cmd_type c) (cmd_nr c) (cmd_size A c).

(** ** Encoding *)

Lemma fits_spec d t n s :
  fits d t n s = true <-> 0 <= d < 4 /\ 0 <= t < 256 /\ 0 <= n < 256 /\ 0 <= s < 16384.
Proof. unfold fits. rewrite !andb_true_iff, !Z.leb_le, !Z.ltb_lt. lia. Qed.

Lemma lor_rotate a b c d : a ||| b ||| c ||| d = a ||| (d ||| (b ||| c)).
Proof. by rewrite (Z.lor_comm d), !Z.lor_assoc. Qed.

(** Within the fields the word is a sum. *)
Lemma _IOC_sum w d t n s : 32 <= w -> fits d t n s = true ->
  _IOC w d t n s = d * 2 ^ 30 + s * 2 ^ 16 + t * 2 ^ 8 + n.
Proof.
  intros Hw (Hd & Ht & Hn & Hs)%fits_spec. unfold _IOC.
  change _IOC_DIRSHIFT with 30. change _IOC_TYPESHIFT with 8.
  change _IOC_SIZESHIFT with 16. change _IOC_NRSHIFT with 0.
  assert (2 ^ 32 <= 2 ^ w) by (apply Z.pow_le_mono_r; lia).
  rewrite (wrap_small 32 (d ≪ 30)) by (rewrite shiftl_mul by lia; unfold in_word; lia).
  rewrite (wrap_small w (s ≪ 16)) by (rewrite shiftl_mul by lia; unfold in_word; lia).
  rewrite Z.shiftl_0_r, lor_rotate.
  rewrite (lor_disjoint t n 8), (lor_disjoint s _ 16), lor_disjoint by lia. lia.
Qed.

(** The decoding macros give the operands back. *)
Lemma _IOC_decode (w d t n s : Z) : 32 <= w -> fits d t n s = true ->
  is_u32 (_IOC w d t n s) /\
  _IOC_DIR (_IOC w d t n s) = d /\ _IOC_TYPE (_IOC w d t n s) = t /\
  _IOC_NR (_IOC w d t n s) = n /\ _IOC_SIZE (_IOC w d t n s) = s.
Proof.
  intros Hw Hf. rewrite (_IOC_sum w _ _ _ _ Hw Hf). apply fits_spec in Hf as (Hd & Ht & Hn & Hs).
  unfold _IOC_DIR, _IOC_TYPE, _IOC_NR, _IOC_SIZE.
  change _IOC_DIRMASK with (2 ^ 2 - 1). change _IOC_TYPEMASK with (2 ^ 8 - 1).
  change _IOC_NRMASK with (2 ^ 8 - 1). change _IOC_SIZEMASK with (2 ^ 14 - 1).
  change _IOC_DIRSHIFT with 30. change _IOC_TYPESHIFT with 8.
  change _IOC_SIZESHIFT with 16. change _IOC_NRSHIFT with 0.
  rewrite !land_mask, !shiftr_div by lia. unfold in_word.
  split_and!; try lia; Z.to_euclidean_division_equations; lia.
Qed.

(** Pairs of names with equal numbers, the earlier first. *)
Fixpoint clashes (l : list (string * Z)) : list (string * string) :=
  match l with
  | [] => []
  | (n, v) :: l =>
      (map (fun p => (n, p.1)) (List.filter (fun p => (v =? p.2)%Z) l) ++ clashes l)%list
  end.

Definition named (A : abi) (tbl : list command) : list (string * Z) :=
  map (fun c => (cmd_name c, number A c)) tbl.

Lemma clashes_spec l n m :
  (n, m) ∈ clashes l <->
  exists i j v, (i < j)%nat /\ l !! i = Some (n, v) /\ l !! j = Some (m, v).
Proof.
  induction l as [|[n' v'] l IH]; simpl.
  { rewrite elem_of_nil. split; [done|]. by intros (i & j & v & _ & Hi & _). }
  rewrite elem_of_app, IH. split.
  - intros [Hm|(i & j & v & Hij & Hi & Hj)].
    + apply list_elem_of_In, in_map_iff in Hm as ([m' w] & [= -> ->] & Hf).
      apply filter_In in Hf as [Hf ->%Z.eqb_eq]. apply list_elem_of_In, list_elem_of_lookup_1 in Hf as [k Hk].
      exists 0%nat, (S k), w. split_and!; [lia|done|done].
    + exists (S i), (S j), v. split_and!; [lia|done|done].
  - intros (i & j & v & Hij & Hi & Hj). destruct j as [|j]; [lia|]. destruct i as [|i]; simpl in *.
    + left. injection Hi as -> ->. apply list_elem_of_In, in_map_iff. exists (m, v). split; [done|].
      apply filter_In. split; [|apply Z.eqb_refl]. apply list_elem_of_In. by eapply list_elem_of_lookup_2.
    + right. exists i, j, v. split_and!; [lia|done|done].
Qed.

(** For a table of commands. *)
Lemma clashes_named A tbl n m :
  (n, m) ∈ clashes (named A tbl) <->
  exists i j c d, (i < j)%nat /\ tbl !! i = Some c /\ tbl !! j = Some d /\
    cmd_name c = n /\ cmd_name d = m /\ number A c = number A d.
Proof.
  rewrite clashes_spec. unfold named. split.
  - intros (i & j & v & Hij & Hi & Hj). rewrite list_lookup_fmap in Hi, Hj.
    apply fmap_Some in Hi as (c & Hc & [= -> ->]), Hj as (d & Hd & [= -> Hv]).
    by exists i, j, c, d.
  - intros (i & j & c & d & Hij & Hc & Hd & <- & <- & Hv). exists i, j, (number A c).
    rewrite !list_lookup_fmap, Hc, Hd. simpl. rewrite <- Hv. done.
Qed.
