(* ===== verification/AbiBase.v ===== *)
(** * ABI of Shared types

    The structures and unions of these headers of [kernel-headers], one module per
    header: the larger ones as types of their own, those that stand in a row as a
    block; and the ioctl commands with their arguments. *)
From S2P Require Import Prelude.
From S2P Require Import CLayout.
From S2P Require Import Ioctl.
#[local] Open Scope string_scope.

(** ** [asm-generic/termbits.h] *)

Module Asm_generic_termbits.
Definition NCCS : Z := 19.
Definition structs_cc_t : list (string * cty) :=
  [
  ("cc_t", uchar);
  ("speed_t", uint);
  ("tcflag_t", uint)].
Definition cc_t : cty := type_in structs_cc_t "cc_t".
Definition speed_t : cty := type_in structs_cc_t "speed_t".
Definition tcflag_t : cty := type_in structs_cc_t "tcflag_t".
Definition structs_termios : list (string * cty) :=
  [
  ("termios", Struct [("c_iflag", tcflag_t); ("c_oflag", tcflag_t); ("c_cflag", tcflag_t);
   ("c_lflag", tcflag_t); ("c_line", cc_t); ("c_cc", Arr NCCS cc_t)]);
  ("termios2", Struct [("c_iflag", tcflag_t); ("c_oflag", tcflag_t); ("c_cflag", tcflag_t);
   ("c_lflag", tcflag_t); ("c_line", cc_t); ("c_cc", Arr NCCS cc_t); ("c_ispeed", speed_t);
   ("c_ospeed", speed_t)]);
  ("ktermios", Struct [("c_iflag", tcflag_t); ("c_oflag", tcflag_t); ("c_cflag", tcflag_t);
   ("c_lflag", tcflag_t); ("c_line", cc_t); ("c_cc", Arr NCCS cc_t); ("c_ispeed", speed_t);
   ("c_ospeed", speed_t)])].
Definition termios2 : cty := type_in structs_termios "termios2".
Definition asm_generic_termbits_types : list (string * cty) :=
  (structs_cc_t ++ structs_termios)%list.
End Asm_generic_termbits.

(** ** [asm-generic/posix_types.h] *)

Module Asm_generic_posix_types.
Definition __kernel_old_dev_t : cty := uint.
Definition __kernel_fsid_t : cty := Struct [("val", Arr 2 int)].
Definition asm_generic_posix_types_types : list (string * cty) :=
  ([("__kernel_old_dev_t", __kernel_old_dev_t); ("__kernel_fsid_t", __kernel_fsid_t)])%list.
End Asm_generic_posix_types.

(** ** [asm/posix_types.h] *)

Module Asm_posix_types.
Definition __kernel_old_uid_t : cty := ushort.
Definition asm_posix_types_types : list (string * cty) := [("__kernel_old_uid_t", __kernel_old_uid_t)].
End Asm_posix_types.

(** ** [linux/atm.h] *)

Module Atm.
Definition structs_atmif_sioc : list (string * cty) :=
  [
  ("atmif_sioc", Struct [("number", int); ("length", int); ("arg", ptr)]);
  ("atm_backend_t", ushort)].
Definition atmif_sioc : cty := type_in structs_atmif_sioc "atmif_sioc".
Definition atm_backend_t : cty := type_in structs_atmif_sioc "atm_backend_t".
Definition atm_types : list (string * cty) := structs_atmif_sioc.
End Atm.

(** ** [linux/blktrace_api.h] *)

Module Blktrace_api.
Definition BLKTRACE_BDEV_SIZE : Z := 32.
Definition structs_blk_io_trace : list (string * cty) :=
  [
  ("blk_io_trace", Struct [("magic", __u32); ("sequence", __u32); ("time", __u64);
   ("sector", __u64); ("bytes", __u32); ("action", __u32); ("pid", __u32); ("device", __u32);
   ("cpu", __u32); ("error", __u16); ("pdu_len", __u16)]);
  ("blk_io_trace_remap", Struct [("device_from", __be32); ("device_to", __be32);
   ("sector_from", __be64)])].
Definition blk_user_trace_setup : cty :=
  Struct [("name", Arr BLKTRACE_BDEV_SIZE char); ("act_mask", __u16); ("buf_size", __u32);
   ("buf_nr", __u32); ("start_lba", __u64); ("end_lba", __u64); ("pid", __u32)].
Definition blktrace_api_types : list (string * cty) :=
  (structs_blk_io_trace ++ [("blk_user_trace_setup", blk_user_trace_setup)])%list.
End Blktrace_api.

(** ** [linux/dn.h] *)

Module Dn.
Definition DN_MAXADDL : Z := 2.
Definition DN_MAXOBJL : Z := 16.
Definition DN_MAXACCL : Z := 40.
Definition structs_dn_naddr : list (string * cty) :=
  let dn_naddr := Struct [("a_len", __le16); ("a_addr", Arr DN_MAXADDL __u8)] in
  [
  ("dn_naddr", dn_naddr);
  ("sockaddr_dn", Struct [("sdn_family", __u16); ("sdn_flags", __u8); ("sdn_objnum", __u8);
   ("sdn_objnamel", __le16); ("sdn_objname", Arr DN_MAXOBJL __u8); ("sdn_add", dn_naddr)])].
Definition dn_naddr : cty := type_in structs_dn_naddr "dn_naddr".
Definition structs_optdata_dn : list (string * cty) :=
  let etheraddress := Union [("dne_addr", Arr 6 __u8);
   ("dne_remote", Struct [("dne_hiord", Arr 4 __u8); ("dne_nodeaddr", Arr 2 __u8)])] in
  [
  ("optdata_dn", Struct [("opt_status", __le16); ("opt_optl", __le16); ("opt_data", Arr 16 __u8)]);
  ("accessdata_dn", Struct [("acc_accl", __u8); ("acc_acc", Arr DN_MAXACCL __u8);
   ("acc_passl", __u8); ("acc_pass", Arr DN_MAXACCL __u8); ("acc_userl", __u8);
   ("acc_user", Arr DN_MAXACCL __u8)]);
  ("linkinfo_dn", Struct [("idn_segsize", __u16); ("idn_linkstate", __u8)]);
  ("etheraddress", etheraddress);
  ("dn_addr", Struct [("dna_family", __le16); ("dna_netaddr", etheraddress)])].
Definition dn_types : list (string * cty) :=
  (structs_dn_naddr ++ structs_optdata_dn)%list.
Definition dn_ioctls : list command := [
  _IOW "SIOCSNETADDR" 0x89 224 dn_naddr;
  _IOR "SIOCGNETADDR" 0x89 225 dn_naddr;
  _IOW "OSIOCSNETADDR" 0x89 224 int;
  _IOR "OSIOCGNETADDR" 0x89 225 int].
End Dn.

(** ** [linux/fiemap.h] *)

Module Fiemap.
Definition structs_fiemap_extent : list (string * cty) :=
  let fiemap_extent := Struct [("fe_logical", __u64); ("fe_physical", __u64);
   ("fe_length", __u64); ("fe_reserved64", Arr 2 __u64); ("fe_flags", __u32);
   ("fe_reserved", Arr 3 __u32)] in
  [
  ("fiemap_extent", fiemap_extent);
  ("fiemap", Struct [("fm_start", __u64); ("fm_length", __u64); ("fm_flags", __u32);
   ("fm_mapped_extents", __u32); ("fm_extent_count", __u32); ("fm_reserved", __u32);
   ("fm_extents", Arr 0 fiemap_extent)])].
Definition fiemap : cty := type_in structs_fiemap_extent "fiemap".
Definition fiemap_types : list (string * cty) := structs_fiemap_extent.
End Fiemap.

(** ** [linux/filter.h] *)

Module Filter.
Definition structs_sock_filter : list (string * cty) :=
  [
  ("sock_filter", Struct [("code", __u16); ("jt", __u8); ("jf", __u8); ("k", __u32)]);
  ("sock_fprog", Struct [("len", ushort); ("filter", ptr)])].
Definition sock_fprog : cty := type_in structs_sock_filter "sock_fprog".
Definition filter_types : list (string * cty) := structs_sock_filter.
End Filter.

(** ** [linux/uuid.h] *)

Module Uuid.
Definition structs_uuid_le : list (string * cty) :=
  [
  ("uuid_le", Struct [("b", Arr 16 __u8)]);
  ("uuid_be", Struct [("b", Arr 16 __u8)])].
Definition uuid_le : cty := type_in structs_uuid_le "uuid_le".
Definition uuid_types : list (string * cty) := structs_uuid_le.
End Uuid.

(** ** [linux/ipx.h] *)

Module Ipx.
Definition IPX_NODE_LEN : Z := 6.
Definition sockaddr_ipx : cty :=
  Struct [("sipx_family", __kernel_sa_family_t); ("sipx_port", __be16); ("sipx_network", __be32);
   ("sipx_node", Arr IPX_NODE_LEN uchar); ("sipx_type", __u8); ("sipx_zero", uchar)].
Definition structs_ipx_route_definition : list (string * cty) :=
  [
  ("ipx_route_definition", Struct [("ipx_network", __be32); ("ipx_router_network", __be32);
   ("ipx_router_node", Arr IPX_NODE_LEN uchar)]);
  ("ipx_interface_definition", Struct [("ipx_network", __be32); ("ipx_device", Arr 16 uchar);
   ("ipx_dlink_type", uchar); ("ipx_special", uchar); ("ipx_node", Arr IPX_NODE_LEN uchar)]);
  ("ipx_config_data", Struct [("ipxcfg_auto_select_primary", uchar);
   ("ipxcfg_auto_create_interfaces", uchar)]);
  ("ipx_route_def", Struct [("ipx_network", __be32); ("ipx_router_network", __be32);
   ("ipx_router_node", Arr IPX_NODE_LEN uchar); ("ipx_device", Arr 16 uchar);
   ("ipx_flags", ushort)])].
Definition ipx_types : list (string * cty) :=
  ([("sockaddr_ipx", sockaddr_ipx)] ++ structs_ipx_route_definition)%list.
End Ipx.

(** ** [linux/mhi.h] *)

Module Mhi.
Definition structs_peripheral_ep_info : list (string * cty) :=
  let peripheral_ep_info := Struct [("ep_type", enum); ("peripheral_iface_id", __u32)] in
  let ipa_ep_pair := Struct [("cons_pipe_num", __u32); ("prod_pipe_num", __u32)] in
  [
  ("peripheral_ep_info", peripheral_ep_info);
  ("ipa_ep_pair", ipa_ep_pair);
  ("ep_info", Struct [("ph_ep_info", peripheral_ep_info); ("ipa_ep_pair", ipa_ep_pair)])].
Definition ep_info : cty := type_in structs_peripheral_ep_info "ep_info".
Definition mhi_types : list (string * cty) := structs_peripheral_ep_info.
Definition mhi_ioctls : list command := [
  _IOR "MHI_UCI_EP_LOOKUP" (chr "m") 2 ep_info].
End Mhi.

(** ** [linux/ppp_defs.h] *)

Module Ppp_defs.
Definition ext_accm : cty := Arr 8 __u32.
Definition structs_pppstat : list (string * cty) :=
  let pppstat := Struct [("ppp_discards", __u32); ("ppp_ibytes", __u32); ("ppp_ioctects", __u32);
   ("ppp_ipackets", __u32); ("ppp_ierrors", __u32); ("ppp_ilqrs", __u32); ("ppp_obytes", __u32);
   ("ppp_ooctects", __u32); ("ppp_opackets", __u32); ("ppp_oerrors", __u32);
   ("ppp_olqrs", __u32)] in
  let vjstat := Struct [("vjs_packets", __u32); ("vjs_compressed", __u32);
   ("vjs_searches", __u32); ("vjs_misses", __u32); ("vjs_uncompressedin", __u32);
   ("vjs_compressedin", __u32); ("vjs_errorin", __u32); ("vjs_tossed", __u32)] in
  let compstat := Struct [("unc_bytes", __u32); ("unc_packets", __u32); ("comp_bytes", __u32);
   ("comp_packets", __u32); ("inc_bytes", __u32); ("inc_packets", __u32); ("in_count", __u32);
   ("bytes_out", __u32); ("ratio", c_double)] in
  [
  ("pppstat", pppstat);
  ("vjstat", vjstat);
  ("compstat", compstat);
  ("ppp_stats", Struct [("p", pppstat); ("vj", vjstat)]);
  ("ppp_comp_stats", Struct [("c", compstat); ("d", compstat)]);
  ("ppp_idle", Struct [("xmit_idle", __kernel_time_t); ("recv_idle", __kernel_time_t)])].
Definition ppp_idle : cty := type_in structs_pppstat "ppp_idle".
Definition ppp_defs_types : list (string * cty) :=
  ([("ext_accm", ext_accm)] ++ structs_pppstat)%list.
End Ppp_defs.

(** ** [linux/usb/ch9.h] *)

Module Usb_ch9.
Definition usb_ctrlrequest : cty :=
  Packed [("bRequestType", __u8); ("bRequest", __u8); ("wValue", __le16); ("wIndex", __le16);
   ("wLength", __le16)].
Definition structs_usb_descriptor_header : list (string * cty) :=
  [
  ("usb_descriptor_header", Packed [("bLength", __u8); ("bDescriptorType", __u8)]);
  ("usb_device_descriptor", Packed [("bLength", __u8); ("bDescriptorType", __u8);
   ("bcdUSB", __le16); ("bDeviceClass", __u8); ("bDeviceSubClass", __u8);
   ("bDeviceProtocol", __u8); ("bMaxPacketSize0", __u8); ("idVendor", __le16);
   ("idProduct", __le16); ("bcdDevice", __le16); ("iManufacturer", __u8); ("iProduct", __u8);
   ("iSerialNumber", __u8); ("bNumConfigurations", __u8)])].
Definition usb_device_descriptor : cty := type_in structs_usb_descriptor_header "usb_device_descriptor".
Definition usb_config_descriptor : cty :=
  Packed [("bLength", __u8); ("bDescriptorType", __u8); ("wTotalLength", __le16);
   ("bNumInterfaces", __u8); ("bConfigurationValue", __u8); ("iConfiguration", __u8);
   ("bmAttributes", __u8); ("bMaxPower", __u8)].
Definition structs_usb_string_descriptor : list (string * cty) :=
  [
  ("usb_string_descriptor", Packed [("bLength", __u8); ("bDescriptorType", __u8);
   ("wData", Arr 1 __le16)]);
  ("usb_interface_descriptor", Packed [("bLength", __u8); ("bDescriptorType", __u8);
   ("bInterfaceNumber", __u8); ("bAlternateSetting", __u8); ("bNumEndpoints", __u8);
   ("bInterfaceClass", __u8); ("bInterfaceSubClass", __u8); ("bInterfaceProtocol", __u8);
   ("iInterface", __u8)])].
Definition usb_interface_descriptor : cty := type_in structs_usb_string_descriptor "usb_interface_descriptor".
Definition usb_endpoint_descriptor : cty :=
  Packed [("bLength", __u8); ("bDescriptorType", __u8); ("bEndpointAddress", __u8);
   ("bmAttributes", __u8); ("wMaxPacketSize", __le16); ("bInterval", __u8); ("bRefresh", __u8);
   ("bSynchAddress", __u8)].
Definition usb_ss_ep_comp_descriptor : cty :=
  Packed [("bLength", __u8); ("bDescriptorType", __u8); ("bMaxBurst", __u8);
   ("bmAttributes", __u8); ("wBytesPerInterval", __le16)].
Definition structs_usb_qualifier_descriptor : list (string * cty) :=
  [
  ("usb_qualifier_descriptor", Packed [("bLength", __u8); ("bDescriptorType", __u8);
   ("bcdUSB", __le16); ("bDeviceClass", __u8); ("bDeviceSubClass", __u8);
   ("bDeviceProtocol", __u8); ("bMaxPacketSize0", __u8); ("bNumConfigurations", __u8);
   ("bRESERVED", __u8)]);
  ("usb_otg_descriptor", Packed [("bLength", __u8); ("bDescriptorType", __u8);
   ("bmAttributes", __u8)]);
  ("usb_otg20_descriptor", Packed [("bLength", __u8); ("bDescriptorType", __u8);
   ("bmAttributes", __u8); ("bcdOTG", __le16)])].
Definition structs_usb_debug_descriptor : list (string * cty) :=
  [
  ("usb_debug_descriptor", Packed [("bLength", __u8); ("bDescriptorType", __u8);
   ("bDebugInEndpoint", __u8); ("bDebugOutEndpoint", __u8)]);
  ("usb_interface_assoc_descriptor", Packed [("bLength", __u8); ("bDescriptorType", __u8);
   ("bFirstInterface", __u8); ("bInterfaceCount", __u8); ("bFunctionClass", __u8);
   ("bFunctionSubClass", __u8); ("bFunctionProtocol", __u8); ("iFunction", __u8)])].
Definition usb_interface_assoc_descriptor : cty := type_in structs_usb_debug_descriptor "usb_interface_assoc_descriptor".
Definition structs_usb_security_descriptor : list (string * cty) :=
  [
  ("usb_security_descriptor", Packed [("bLength", __u8); ("bDescriptorType", __u8);
   ("wTotalLength", __le16); ("bNumEncryptionTypes", __u8)]);
  ("usb_key_descriptor", Packed [("bLength", __u8); ("bDescriptorType", __u8);
   ("tTKID", Arr 3 __u8); ("bReserved", __u8); ("bKeyData", Arr 0 __u8)]);
  ("usb_encryption_descriptor", Packed [("bLength", __u8); ("bDescriptorType", __u8);
   ("bEncryptionType", __u8); ("bEncryptionValue", __u8); ("bAuthKeyIndex", __u8)]);
  ("usb_bos_descriptor", Packed [("bLength", __u8); ("bDescriptorType", __u8);
   ("wTotalLength", __le16); ("bNumDeviceCaps", __u8)])].
Definition usb_bos_descriptor : cty := type_in structs_usb_security_descriptor "usb_bos_descriptor".
Definition usb_dev_cap_header : cty :=
  Packed [("bLength", __u8); ("bDescriptorType", __u8); ("bDevCapabilityType", __u8)].
Definition usb_wireless_cap_descriptor : cty :=
  Packed [("bLength", __u8); ("bDescriptorType", __u8); ("bDevCapabilityType", __u8);
   ("bmAttributes", __u8); ("wPHYRates", __le16); ("bmTFITXPowerInfo", __u8);
   ("bmFFITXPowerInfo", __u8); ("bmBandGroup", __le16); ("bReserved", __u8)].
Definition usb_ext_cap_descriptor : cty :=
  Packed [("bLength", __u8); ("bDescriptorType", __u8); ("bDevCapabilityType", __u8);
   ("bmAttributes", __le32)].
Definition usb_ss_cap_descriptor : cty :=
  Packed [("bLength", __u8); ("bDescriptorType", __u8); ("bDevCapabilityType", __u8);
   ("bmAttributes", __u8); ("wSpeedSupported", __le16); ("bFunctionalitySupport", __u8);
   ("bU1devExitLat", __u8); ("bU2DevExitLat", __le16)].
Definition usb_ss_container_id_descriptor : cty :=
  Packed [("bLength", __u8); ("bDescriptorType", __u8); ("bDevCapabilityType", __u8);
   ("bReserved", __u8); ("ContainerID", Arr 16 __u8)].
Definition usb_ssp_cap_descriptor : cty :=
  Packed [("bLength", __u8); ("bDescriptorType", __u8); ("bDevCapabilityType", __u8);
   ("bReserved", __u8); ("bmAttributes", __le32); ("wFunctionalitySupport", __u16);
   ("wReserved", __le16); ("bmSublinkSpeedAttr", Arr 1 __le32)].
Definition usb_ptm_cap_descriptor : cty :=
  Packed [("bLength", __u8); ("bDescriptorType", __u8); ("bDevCapabilityType", __u8)].
Definition structs_function_class_info : list (string * cty) :=
  let function_class_info := Struct [("bClass", __u8); ("bSubClass", __u8); ("bProtocol", __u8)] in
  [
  ("function_class_info", function_class_info);
  ("usb_config_summary_descriptor", Packed [("bLength", __u8); ("bDescriptorType", __u8);
   ("bDevCapabilityType", __u8); ("bcdVersion", __u16); ("bConfigurationValue", __u8);
   ("bMaxPower", __u8); ("bNumFunctions", __u8); ("cs_info", Arr 0 function_class_info)])].
Definition structs_usb_wireless_ep_comp_descriptor : list (string * cty) :=
  [
  ("usb_wireless_ep_comp_descriptor", Packed [("bLength", __u8); ("bDescriptorType", __u8);
   ("bMaxBurst", __u8); ("bMaxSequence", __u8); ("wMaxStreamDelay", __le16);
   ("wOverTheAirPacketSize", __le16); ("bOverTheAirInterval", __u8); ("bmCompAttributes", __u8)]);
  ("usb_handshake", Packed [("bMessageNumber", __u8); ("bStatus", __u8); ("tTKID", Arr 3 __u8);
   ("bReserved", __u8); ("CDID", Arr 16 __u8); ("nonce", Arr 16 __u8); ("MIC", Arr 8 __u8)]);
  ("usb_connection_context", Packed [("CHID", Arr 16 __u8); ("CDID", Arr 16 __u8);
   ("CK", Arr 16 __u8)])].
Definition usb_set_sel_req : cty :=
  Packed [("u1_sel", __u8); ("u1_pel", __u8); ("u2_sel", __le16); ("u2_pel", __le16)].
Definition usb_ch9_types : list (string * cty) :=
  ([("usb_ctrlrequest", usb_ctrlrequest)] ++ structs_usb_descriptor_header ++
   [("usb_config_descriptor", usb_config_descriptor)] ++ structs_usb_string_descriptor ++
   [("usb_endpoint_descriptor", usb_endpoint_descriptor); ("usb_ss_ep_comp_descriptor",
   usb_ss_ep_comp_descriptor)] ++ structs_usb_qualifier_descriptor ++
   structs_usb_debug_descriptor ++ structs_usb_security_descriptor ++ [("usb_dev_cap_header",
   usb_dev_cap_header); ("usb_wireless_cap_descriptor", usb_wireless_cap_descriptor);
   ("usb_ext_cap_descriptor", usb_ext_cap_descriptor); ("usb_ss_cap_descriptor",
   usb_ss_cap_descriptor); ("usb_ss_container_id_descriptor", usb_ss_container_id_descriptor);
   ("usb_ssp_cap_descriptor", usb_ssp_cap_descriptor); ("usb_ptm_cap_descriptor",
   usb_ptm_cap_descriptor)] ++ structs_function_class_info ++
   structs_usb_wireless_ep_comp_descriptor ++ [("usb_set_sel_req", usb_set_sel_req)])%list.
End Usb_ch9.
