(* ===== verification/AbiMedia.v ===== *)
(** * ABI of V4L2, media controller, DVB, CEC and video devices

    The structures and unions of these headers of [kernel-headers], one module per
    header: the larger ones as types of their own, those that stand in a row as a
    block; and the ioctl commands with their arguments. *)
From S2P Require Import Prelude.
From S2P Require Import CLayout.
From S2P Require Import Ioctl.
#[local] Open Scope string_scope.

(** ** [linux/am437x-vpfe.h] *)

Module Am437x_vpfe.
Definition structs_vpfe_ccdc_a_law : list (string * cty) :=
  let vpfe_ccdc_a_law := Struct [("enable", uchar); ("gamma_wd", enum)] in
  let vpfe_ccdc_black_clamp := Struct [("enable", uchar); ("sample_pixel", enum);
   ("sample_ln", enum); ("start_pixel", ushort); ("sgain", ushort); ("dc_sub", ushort)] in
  let vpfe_ccdc_black_compensation := Struct [("r", char); ("gr", char); ("b", char);
   ("gb", char)] in
  [
  ("vpfe_ccdc_a_law", vpfe_ccdc_a_law);
  ("vpfe_ccdc_black_clamp", vpfe_ccdc_black_clamp);
  ("vpfe_ccdc_black_compensation", vpfe_ccdc_black_compensation);
  ("vpfe_ccdc_config_params_raw", Struct [("data_sz", enum); ("alaw", vpfe_ccdc_a_law);
   ("blk_clamp", vpfe_ccdc_black_clamp); ("blk_comp", vpfe_ccdc_black_compensation)])].
Definition am437x_vpfe_types : list (string * cty) := structs_vpfe_ccdc_a_law.
Definition am437x_vpfe_ioctls : list command := [
  _IOW "VIDIOC_AM437X_CCDC_CFG" (chr "V") 193 ptr].
End Am437x_vpfe.

(** ** [linux/cec.h] *)

Module Cec.
Definition CEC_MAX_MSG_SIZE : Z := 16.
Definition CEC_MAX_LOG_ADDRS : Z := 4.
Definition cec_msg : cty :=
  Struct [("tx_ts", __u64); ("rx_ts", __u64); ("len", __u32); ("timeout", __u32);
   ("sequence", __u32); ("flags", __u32); ("msg", Arr CEC_MAX_MSG_SIZE __u8); ("reply", __u8);
   ("rx_status", __u8); ("tx_status", __u8); ("tx_arb_lost_cnt", __u8); ("tx_nack_cnt", __u8);
   ("tx_low_drive_cnt", __u8); ("tx_error_cnt", __u8)].
Definition structs_cec_caps : list (string * cty) :=
  [
  ("cec_caps", Struct [("driver", Arr 32 char); ("name", Arr 32 char);
   ("available_log_addrs", __u32); ("capabilities", __u32); ("version", __u32)]);
  ("cec_log_addrs", Struct [("log_addr", Arr CEC_MAX_LOG_ADDRS __u8); ("log_addr_mask", __u16);
   ("cec_version", __u8); ("num_log_addrs", __u8); ("vendor_id", __u32); ("flags", __u32);
   ("osd_name", Arr 15 char); ("primary_device_type", Arr CEC_MAX_LOG_ADDRS __u8);
   ("log_addr_type", Arr CEC_MAX_LOG_ADDRS __u8);
   ("all_device_types", Arr CEC_MAX_LOG_ADDRS __u8);
   ("features", Arr CEC_MAX_LOG_ADDRS (Arr 12 __u8))])].
Definition cec_caps : cty := type_in structs_cec_caps "cec_caps".
Definition cec_log_addrs : cty := type_in structs_cec_caps "cec_log_addrs".
Definition structs_cec_event_state_change : list (string * cty) :=
  let cec_event_state_change := Struct [("phys_addr", __u16); ("log_addr_mask", __u16)] in
  let cec_event_lost_msgs := Struct [("lost_msgs", __u32)] in
  [
  ("cec_event_state_change", cec_event_state_change);
  ("cec_event_lost_msgs", cec_event_lost_msgs);
  ("cec_event", Struct [("ts", __u64); ("event", __u32); ("flags", __u32);
   ("", Union [("state_change", cec_event_state_change); ("lost_msgs", cec_event_lost_msgs);
   ("raw", Arr 16 __u32)])])].
Definition cec_event : cty := type_in structs_cec_event_state_change "cec_event".
Definition cec_types : list (string * cty) :=
  ([("cec_msg", cec_msg)] ++ structs_cec_caps ++ structs_cec_event_state_change)%list.
Definition cec_ioctls_1 : list command := [
  _IOWR "CEC_ADAP_G_CAPS" (chr "a") 0 cec_caps].
Definition cec_ioctls_2 : list command := [
  _IOR "CEC_ADAP_G_PHYS_ADDR" (chr "a") 1 __u16;
  _IOW "CEC_ADAP_S_PHYS_ADDR" (chr "a") 2 __u16].
Definition cec_ioctls_3 : list command := [
  _IOR "CEC_ADAP_G_LOG_ADDRS" (chr "a") 3 cec_log_addrs;
  _IOWR "CEC_ADAP_S_LOG_ADDRS" (chr "a") 4 cec_log_addrs;
  _IOWR "CEC_TRANSMIT" (chr "a") 5 cec_msg;
  _IOWR "CEC_RECEIVE" (chr "a") 6 cec_msg;
  _IOWR "CEC_DQEVENT" (chr "a") 7 cec_event;
  _IOR "CEC_G_MODE" (chr "a") 8 __u32;
  _IOW "CEC_S_MODE" (chr "a") 9 __u32].
Definition cec_ioctls : list command :=
  (cec_ioctls_1 ++ cec_ioctls_2 ++ cec_ioctls_3)%list.
End Cec.

(** ** [linux/dvb/audio.h] *)

Module Dvb_audio.
Definition structs_audio_stream_source_t : list (string * cty) :=
  [
  ("audio_stream_source_t", enum);
  ("audio_play_state_t", enum);
  ("audio_channel_select_t", enum);
  ("audio_mixer", Struct [("volume_left", uint); ("volume_right", uint)])].
Definition audio_stream_source_t : cty := type_in structs_audio_stream_source_t "audio_stream_source_t".
Definition audio_play_state_t : cty := type_in structs_audio_stream_source_t "audio_play_state_t".
Definition audio_channel_select_t : cty := type_in structs_audio_stream_source_t "audio_channel_select_t".
Definition audio_mixer : cty := type_in structs_audio_stream_source_t "audio_mixer".
Definition structs_audio_mixer_t : list (string * cty) :=
  let audio_mixer_t := audio_mixer in
  [
  ("audio_mixer_t", audio_mixer_t);
  ("audio_status", Struct [("AV_sync_state", int); ("mute_state", int);
   ("play_state", audio_play_state_t); ("stream_source", audio_stream_source_t);
   ("channel_select", audio_channel_select_t); ("bypass_mode", int);
   ("mixer_state", audio_mixer_t)])].
Definition audio_mixer_t : cty := type_in structs_audio_mixer_t "audio_mixer_t".
Definition audio_status : cty := type_in structs_audio_mixer_t "audio_status".
Definition audio_status_t : cty := audio_status.
Definition audio_karaoke : cty := Struct [("vocal1", int); ("vocal2", int); ("melody", int)].
Definition audio_karaoke_t : cty := audio_karaoke.
Definition audio_attributes_t : cty := __u16.
Definition dvb_audio_types : list (string * cty) :=
  (structs_audio_stream_source_t ++ structs_audio_mixer_t ++ [("audio_status_t",
   audio_status_t); ("audio_karaoke", audio_karaoke); ("audio_karaoke_t", audio_karaoke_t);
   ("audio_attributes_t", audio_attributes_t)])%list.
Definition dvb_audio_ioctls_1 : list command := [
  _IO "AUDIO_STOP" (chr "o") 1;
  _IO "AUDIO_PLAY" (chr "o") 2;
  _IO "AUDIO_PAUSE" (chr "o") 3;
  _IO "AUDIO_CONTINUE" (chr "o") 4;
  _IO "AUDIO_SELECT_SOURCE" (chr "o") 5;
  _IO "AUDIO_SET_MUTE" (chr "o") 6;
  _IO "AUDIO_SET_AV_SYNC" (chr "o") 7;
  _IO "AUDIO_SET_BYPASS_MODE" (chr "o") 8;
  _IO "AUDIO_CHANNEL_SELECT" (chr "o") 9;
  _IOR "AUDIO_GET_STATUS" (chr "o") 10 audio_status_t;
  _IOR "AUDIO_GET_CAPABILITIES" (chr "o") 11 uint;
  _IO "AUDIO_CLEAR_BUFFER" (chr "o") 12;
  _IO "AUDIO_SET_ID" (chr "o") 13;
  _IOW "AUDIO_SET_MIXER" (chr "o") 14 audio_mixer_t;
  _IO "AUDIO_SET_STREAMTYPE" (chr "o") 15;
  _IO "AUDIO_SET_EXT_ID" (chr "o") 16;
  _IOW "AUDIO_SET_ATTRIBUTES" (chr "o") 17 audio_attributes_t;
  _IOW "AUDIO_SET_KARAOKE" (chr "o") 18 audio_karaoke_t].
Definition dvb_audio_ioctls_2 : list command := [
  _IOR "AUDIO_GET_PTS" (chr "o") 19 __u64;
  _IO "AUDIO_BILINGUAL_CHANNEL_SELECT" (chr "o") 20].
Definition dvb_audio_ioctls : list command :=
  (dvb_audio_ioctls_1 ++ dvb_audio_ioctls_2)%list.
End Dvb_audio.

(** ** [linux/dvb/ca.h] *)

Module Dvb_ca.
Definition ca_slot_info : cty := Struct [("num", int); ("type", int); ("flags", uint)].
Definition structs_ca_slot_info_t : list (string * cty) :=
  [
  ("ca_slot_info_t", ca_slot_info);
  ("ca_descr_info", Struct [("num", uint); ("type", uint)])].
Definition ca_slot_info_t : cty := type_in structs_ca_slot_info_t "ca_slot_info_t".
Definition ca_descr_info : cty := type_in structs_ca_slot_info_t "ca_descr_info".
Definition structs_ca_descr_info_t : list (string * cty) :=
  [
  ("ca_descr_info_t", ca_descr_info);
  ("ca_caps", Struct [("slot_num", uint); ("slot_type", uint); ("descr_num", uint);
   ("descr_type", uint)])].
Definition ca_descr_info_t : cty := type_in structs_ca_descr_info_t "ca_descr_info_t".
Definition ca_caps : cty := type_in structs_ca_descr_info_t "ca_caps".
Definition structs_ca_caps_t : list (string * cty) :=
  [
  ("ca_caps_t", ca_caps);
  ("ca_msg", Struct [("index", uint); ("type", uint); ("length", uint); ("msg", Arr 256 uchar)])].
Definition ca_caps_t : cty := type_in structs_ca_caps_t "ca_caps_t".
Definition ca_msg : cty := type_in structs_ca_caps_t "ca_msg".
Definition structs_ca_msg_t : list (string * cty) :=
  [
  ("ca_msg_t", ca_msg);
  ("ca_descr", Struct [("index", uint); ("parity", uint); ("cw", Arr 8 uchar)])].
Definition ca_msg_t : cty := type_in structs_ca_msg_t "ca_msg_t".
Definition ca_descr : cty := type_in structs_ca_msg_t "ca_descr".
Definition structs_ca_descr_t : list (string * cty) :=
  [
  ("ca_descr_t", ca_descr);
  ("ca_pid", Struct [("pid", uint); ("index", int)])].
Definition ca_descr_t : cty := type_in structs_ca_descr_t "ca_descr_t".
Definition ca_pid : cty := type_in structs_ca_descr_t "ca_pid".
Definition ca_pid_t : cty := ca_pid.
Definition dvb_ca_types : list (string * cty) :=
  ([("ca_slot_info", ca_slot_info)] ++ structs_ca_slot_info_t ++ structs_ca_descr_info_t ++
   structs_ca_caps_t ++ structs_ca_msg_t ++ structs_ca_descr_t ++ [("ca_pid_t",
   ca_pid_t)])%list.
Definition dvb_ca_ioctls : list command := [
  _IO "CA_RESET" (chr "o") 128;
  _IOR "CA_GET_CAP" (chr "o") 129 ca_caps_t;
  _IOR "CA_GET_SLOT_INFO" (chr "o") 130 ca_slot_info_t;
  _IOR "CA_GET_DESCR_INFO" (chr "o") 131 ca_descr_info_t;
  _IOR "CA_GET_MSG" (chr "o") 132 ca_msg_t;
  _IOW "CA_SEND_MSG" (chr "o") 133 ca_msg_t;
  _IOW "CA_SET_DESCR" (chr "o") 134 ca_descr_t;
  _IOW "CA_SET_PID" (chr "o") 135 ca_pid_t].
End Dvb_ca.

(** ** [linux/dvb/dmx.h] *)

Module Dvb_dmx.
Definition DMX_FILTER_SIZE : Z := 16.
Definition DMX_MAX_DECODER_BUFFER_NUM : Z := 32.
Definition DMX_MAX_CIPHER_OPERATIONS_COUNT : Z := 5.
Definition structs_dmx_output_t : list (string * cty) :=
  [
  ("dmx_output_t", enum);
  ("dmx_input_t", enum)].
Definition dmx_output_t : cty := type_in structs_dmx_output_t "dmx_output_t".
Definition dmx_input_t : cty := type_in structs_dmx_output_t "dmx_input_t".
Definition dmx_pes_type_t : cty := enum.
Definition dmx_filter : cty :=
  Struct [("filter", Arr DMX_FILTER_SIZE __u8); ("mask", Arr DMX_FILTER_SIZE __u8);
   ("mode", Arr DMX_FILTER_SIZE __u8)].
Definition structs_dmx_filter_t : list (string * cty) :=
  let dmx_filter_t := dmx_filter in
  [
  ("dmx_filter_t", dmx_filter_t);
  ("dmx_sct_filter_params", Struct [("pid", __u16); ("filter", dmx_filter_t); ("timeout", __u32);
   ("flags", __u32)])].
Definition dmx_sct_filter_params : cty := type_in structs_dmx_filter_t "dmx_sct_filter_params".
Definition structs_dmx_pes_filter_params : list (string * cty) :=
  [
  ("dmx_pes_filter_params", Struct [("pid", __u16); ("input", dmx_input_t);
   ("output", dmx_output_t); ("pes_type", dmx_pes_type_t); ("flags", __u32);
   ("rec_chunk_size", __u32); ("video_codec", enum)]);
  ("dmx_buffer_status", Struct [("size", uint); ("fullness", uint); ("free_bytes", uint);
   ("read_offset", uint); ("write_offset", uint); ("error", int)])].
Definition dmx_pes_filter_params : cty := type_in structs_dmx_pes_filter_params "dmx_pes_filter_params".
Definition dmx_buffer_status : cty := type_in structs_dmx_pes_filter_params "dmx_buffer_status".
Definition dmx_pes_event_info : cty :=
  Struct [("base_offset", __u32); ("start_offset", __u32); ("total_length", __u32);
   ("actual_length", __u32); ("stc", __u64); ("flags", __u32);
   ("transport_error_indicator_counter", __u32); ("continuity_error_counter", __u32);
   ("ts_packets_num", __u32)].
Definition structs_dmx_section_event_info : list (string * cty) :=
  [
  ("dmx_section_event_info", Struct [("base_offset", __u32); ("start_offset", __u32);
   ("total_length", __u32); ("actual_length", __u32); ("flags", __u32)]);
  ("dmx_rec_chunk_event_info", Struct [("offset", __u32); ("size", __u32)]);
  ("dmx_pcr_event_info", Struct [("stc", __u64); ("pcr", __u64); ("flags", __u32)])].
Definition dmx_section_event_info : cty := type_in structs_dmx_section_event_info "dmx_section_event_info".
Definition dmx_rec_chunk_event_info : cty := type_in structs_dmx_section_event_info "dmx_rec_chunk_event_info".
Definition dmx_pcr_event_info : cty := type_in structs_dmx_section_event_info "dmx_pcr_event_info".
Definition dmx_es_data_event_info : cty :=
  Struct [("buf_handle", int); ("cookie", int); ("offset", __u32); ("data_len", __u32);
   ("pts_valid", int); ("pts", __u64); ("dts_valid", int); ("dts", __u64); ("stc", __u64);
   ("transport_error_indicator_counter", __u32); ("continuity_error_counter", __u32);
   ("ts_packets_num", __u32); ("ts_dropped_bytes", __u32)].
Definition dmx_marker_event_info : cty := Struct [("id", __u64)].
Definition dmx_index_event_info : cty :=
  Struct [("type", __u64); ("pid", __u16); ("match_tsp_num", __u64);
   ("last_pusi_tsp_num", __u64); ("stc", __u64)].
Definition structs_dmx_scrambling_status_event_info : list (string * cty) :=
  let dmx_scrambling_status_event_info := Struct [("pid", __u16); ("old_value", __u8);
   ("new_value", __u8)] in
  [
  ("dmx_scrambling_status_event_info", dmx_scrambling_status_event_info);
  ("dmx_filter_event", Struct [("type", enum); ("params", Union [("pes", dmx_pes_event_info);
   ("section", dmx_section_event_info); ("recording_chunk", dmx_rec_chunk_event_info);
   ("pcr", dmx_pcr_event_info); ("es_data", dmx_es_data_event_info);
   ("marker", dmx_marker_event_info); ("index", dmx_index_event_info);
   ("scrambling_status", dmx_scrambling_status_event_info)])])].
Definition dmx_filter_event : cty := type_in structs_dmx_scrambling_status_event_info "dmx_filter_event".
Definition dmx_buffer_requirement : cty :=
  Struct [("size_alignment", __u32); ("max_size", __u32); ("max_buffer_num", __u32);
   ("flags", __u32)].
Definition dmx_oob_command : cty :=
  Struct [("type", enum); ("params", Union [("marker", dmx_marker_event_info)])].
Definition dmx_caps : cty :=
  Struct [("caps", __u32); ("num_decoders", int); ("num_demux_devices", int);
   ("num_pid_filters", int); ("num_section_filters", int); ("num_section_filters_per_pid", int);
   ("section_filter_length", int); ("num_demod_inputs", int); ("num_memory_inputs", int);
   ("max_bitrate", int); ("demod_input_max_bitrate", int); ("memory_input_max_bitrate", int);
   ("num_cipher_ops", int); ("max_stc", __u64); ("recording_max_video_pids_indexed", int);
   ("section", dmx_buffer_requirement); ("pes", dmx_buffer_requirement);
   ("decoder", dmx_buffer_requirement); ("recording_188_tsp", dmx_buffer_requirement);
   ("recording_192_tsp", dmx_buffer_requirement); ("playback_188_tsp", dmx_buffer_requirement);
   ("playback_192_tsp", dmx_buffer_requirement)].
Definition structs_dmx_caps_t : list (string * cty) :=
  [
  ("dmx_caps_t", dmx_caps);
  ("dmx_source_t", enum)].
Definition dmx_caps_t : cty := type_in structs_dmx_caps_t "dmx_caps_t".
Definition dmx_source_t : cty := type_in structs_dmx_caps_t "dmx_source_t".
Definition dmx_stc : cty := Struct [("num", uint); ("base", uint); ("stc", __u64)].
Definition structs_dmx_buffer : list (string * cty) :=
  [
  ("dmx_buffer", Struct [("size", uint); ("handle", int); ("is_protected", int)]);
  ("dmx_decoder_buffers", Struct [("is_linear", int); ("buffers_num", __u32);
   ("buffers_size", __u32); ("handles", Arr DMX_MAX_DECODER_BUFFER_NUM int)]);
  ("dmx_secure_mode", Struct [("is_secured", int)]);
  ("dmx_cipher_operation", Struct [("encrypt", int); ("key_ladder_id", __u32)])].
Definition dmx_buffer : cty := type_in structs_dmx_buffer "dmx_buffer".
Definition dmx_decoder_buffers : cty := type_in structs_dmx_buffer "dmx_decoder_buffers".
Definition dmx_secure_mode : cty := type_in structs_dmx_buffer "dmx_secure_mode".
Definition dmx_cipher_operation : cty := type_in structs_dmx_buffer "dmx_cipher_operation".
Definition dmx_cipher_operations : cty :=
  Struct [("pid", __u16); ("operations_count", __u8);
   ("operations", Arr DMX_MAX_CIPHER_OPERATIONS_COUNT dmx_cipher_operation)].
Definition dmx_events_mask : cty :=
  Struct [("disable_mask", __u32); ("no_wakeup_mask", __u32); ("wakeup_threshold", __u32)].
Definition dmx_indexing_params : cty :=
  Struct [("pid", __u16); ("enable", int); ("types", __u64)].
Definition dmx_set_ts_insertion : cty :=
  Struct [("identifier", __u32); ("repetition_time", __u32); ("ts_packets", ptr); ("size", size_t)].
Definition structs_dmx_abort_ts_insertion : list (string * cty) :=
  [
  ("dmx_abort_ts_insertion", Struct [("identifier", __u32)]);
  ("dmx_scrambling_bits", Struct [("pid", __u16); ("value", __u8)])].
Definition dmx_abort_ts_insertion : cty := type_in structs_dmx_abort_ts_insertion "dmx_abort_ts_insertion".
Definition dmx_scrambling_bits : cty := type_in structs_dmx_abort_ts_insertion "dmx_scrambling_bits".
Definition dvb_dmx_types : list (string * cty) :=
  (structs_dmx_output_t ++ [("dmx_pes_type_t", dmx_pes_type_t); ("dmx_filter", dmx_filter)] ++
   structs_dmx_filter_t ++ structs_dmx_pes_filter_params ++ [("dmx_pes_event_info",
   dmx_pes_event_info)] ++ structs_dmx_section_event_info ++ [("dmx_es_data_event_info",
   dmx_es_data_event_info); ("dmx_marker_event_info", dmx_marker_event_info);
   ("dmx_index_event_info", dmx_index_event_info)] ++ structs_dmx_scrambling_status_event_info
   ++ [("dmx_buffer_requirement", dmx_buffer_requirement); ("dmx_oob_command",
   dmx_oob_command); ("dmx_caps", dmx_caps)] ++ structs_dmx_caps_t ++ [("dmx_stc", dmx_stc)]
   ++ structs_dmx_buffer ++ [("dmx_cipher_operations", dmx_cipher_operations);
   ("dmx_events_mask", dmx_events_mask); ("dmx_indexing_params", dmx_indexing_params);
   ("dmx_set_ts_insertion", dmx_set_ts_insertion)] ++ structs_dmx_abort_ts_insertion)%list.
Definition dvb_dmx_ioctls : list command := [
  _IO "DMX_START" (chr "o") 41;
  _IO "DMX_STOP" (chr "o") 42;
  _IOW "DMX_SET_FILTER" (chr "o") 43 dmx_sct_filter_params;
  _IOW "DMX_SET_PES_FILTER" (chr "o") 44 dmx_pes_filter_params;
  _IO "DMX_SET_BUFFER_SIZE" (chr "o") 45;
  _IOR "DMX_GET_PES_PIDS" (chr "o") 47 (Arr 5 __u16);
  _IOR "DMX_GET_CAPS" (chr "o") 48 dmx_caps_t;
  _IOW "DMX_SET_SOURCE" (chr "o") 49 dmx_source_t;
  _IOWR "DMX_GET_STC" (chr "o") 50 dmx_stc;
  _IOW "DMX_ADD_PID" (chr "o") 51 __u16;
  _IOW "DMX_REMOVE_PID" (chr "o") 52 __u16;
  _IOW "DMX_SET_TS_PACKET_FORMAT" (chr "o") 53 enum;
  _IOW "DMX_SET_TS_OUT_FORMAT" (chr "o") 54 enum;
  _IO "DMX_SET_DECODER_BUFFER_SIZE" (chr "o") 55;
  _IOR "DMX_GET_BUFFER_STATUS" (chr "o") 56 dmx_buffer_status;
  _IO "DMX_RELEASE_DATA" (chr "o") 57;
  _IO "DMX_FEED_DATA" (chr "o") 58;
  _IOW "DMX_SET_PLAYBACK_MODE" (chr "o") 59 enum;
  _IOR "DMX_GET_EVENT" (chr "o") 60 dmx_filter_event;
  _IOW "DMX_SET_BUFFER_MODE" (chr "o") 61 enum;
  _IOW "DMX_SET_BUFFER" (chr "o") 62 dmx_buffer;
  _IOW "DMX_SET_DECODER_BUFFER" (chr "o") 63 dmx_decoder_buffers;
  _IO "DMX_REUSE_DECODER_BUFFER" (chr "o") 64;
  _IOW "DMX_SET_SECURE_MODE" (chr "o") 65 dmx_secure_mode;
  _IOW "DMX_SET_EVENTS_MASK" (chr "o") 66 dmx_events_mask;
  _IOR "DMX_GET_EVENTS_MASK" (chr "o") 67 dmx_events_mask;
  _IOW "DMX_PUSH_OOB_COMMAND" (chr "o") 68 dmx_oob_command;
  _IOW "DMX_SET_INDEXING_PARAMS" (chr "o") 69 dmx_indexing_params;
  _IOW "DMX_SET_TS_INSERTION" (chr "o") 70 dmx_set_ts_insertion;
  _IOW "DMX_ABORT_TS_INSERTION" (chr "o") 71 dmx_abort_ts_insertion;
  _IOWR "DMX_GET_SCRAMBLING_BITS" (chr "o") 72 dmx_scrambling_bits;
  _IOW "DMX_SET_CIPHER" (chr "o") 73 dmx_cipher_operations;
  _IO "DMX_FLUSH_BUFFER" (chr "o") 74].
End Dvb_dmx.

(** ** [linux/dvb/frontend.h] *)

Module Dvb_frontend.
Definition MAX_DTV_STATS : Z := 4.
Definition structs_dvb_frontend_info : list (string * cty) :=
  [
  ("dvb_frontend_info", Struct [("name", Arr 128 char); ("type", enum); ("frequency_min", __u32);
   ("frequency_max", __u32); ("frequency_stepsize", __u32); ("frequency_tolerance", __u32);
   ("symbol_rate_min", __u32); ("symbol_rate_max", __u32); ("symbol_rate_tolerance", __u32);
   ("notifier_delay", __u32); ("caps", enum)]);
  ("dvb_diseqc_master_cmd", Struct [("msg", Arr 6 __u8); ("msg_len", __u8)]);
  ("dvb_diseqc_slave_reply", Struct [("msg", Arr 4 __u8); ("msg_len", __u8); ("timeout", int)])].
Definition dvb_frontend_info : cty := type_in structs_dvb_frontend_info "dvb_frontend_info".
Definition dvb_diseqc_master_cmd : cty := type_in structs_dvb_frontend_info "dvb_diseqc_master_cmd".
Definition dvb_diseqc_slave_reply : cty := type_in structs_dvb_frontend_info "dvb_diseqc_slave_reply".
Definition dtv_stats : cty :=
  Packed [("scale", __u8); ("", Union [("uvalue", __u64); ("svalue", __s64)])].
Definition structs_dtv_fe_stats : list (string * cty) :=
  let dtv_fe_stats := Packed [("len", __u8); ("stat", Arr MAX_DTV_STATS dtv_stats)] in
  [
  ("dtv_fe_stats", dtv_fe_stats);
  ("dtv_property", Packed [("cmd", __u32); ("reserved", Arr 3 __u32);
   ("u", Union [("data", __u32); ("st", dtv_fe_stats); ("buffer", Struct [("data", Arr 32 __u8);
   ("len", __u32); ("reserved1", Arr 3 __u32); ("reserved2", ptr)])]); ("result", int)])].
Definition dtv_properties : cty := Struct [("num", __u32); ("props", ptr)].
Definition structs_fe_sec_voltage_t : list (string * cty) :=
  let fe_status_t := enum in
  let fe_spectral_inversion_t := enum in
  let fe_code_rate_t := enum in
  let fe_modulation_t := enum in
  let fe_transmit_mode_t := enum in
  let fe_bandwidth_t := enum in
  let fe_guard_interval_t := enum in
  let fe_hierarchy_t := enum in
  let dvb_qpsk_parameters := Struct [("symbol_rate", __u32); ("fec_inner", fe_code_rate_t)] in
  let dvb_qam_parameters := Struct [("symbol_rate", __u32); ("fec_inner", fe_code_rate_t);
   ("modulation", fe_modulation_t)] in
  let dvb_vsb_parameters := Struct [("modulation", fe_modulation_t)] in
  let dvb_ofdm_parameters := Struct [("bandwidth", fe_bandwidth_t);
   ("code_rate_HP", fe_code_rate_t); ("code_rate_LP", fe_code_rate_t);
   ("constellation", fe_modulation_t); ("transmission_mode", fe_transmit_mode_t);
   ("guard_interval", fe_guard_interval_t); ("hierarchy_information", fe_hierarchy_t)] in
  let dvb_frontend_parameters := Struct [("frequency", __u32);
   ("inversion", fe_spectral_inversion_t); ("u", Union [("qpsk", dvb_qpsk_parameters);
   ("qam", dvb_qam_parameters); ("ofdm", dvb_ofdm_parameters); ("vsb", dvb_vsb_parameters)])] in
  [
  ("fe_sec_voltage_t", enum);
  ("fe_caps_t", enum);
  ("fe_type_t", enum);
  ("fe_sec_tone_mode_t", enum);
  ("fe_sec_mini_cmd_t", enum);
  ("fe_status_t", fe_status_t);
  ("fe_spectral_inversion_t", fe_spectral_inversion_t);
  ("fe_code_rate_t", fe_code_rate_t);
  ("fe_modulation_t", fe_modulation_t);
  ("fe_transmit_mode_t", fe_transmit_mode_t);
  ("fe_bandwidth_t", fe_bandwidth_t);
  ("fe_guard_interval_t", fe_guard_interval_t);
  ("fe_hierarchy_t", fe_hierarchy_t);
  ("fe_pilot_t", enum);
  ("fe_rolloff_t", enum);
  ("fe_delivery_system_t", enum);
  ("dvb_qpsk_parameters", dvb_qpsk_parameters);
  ("dvb_qam_parameters", dvb_qam_parameters);
  ("dvb_vsb_parameters", dvb_vsb_parameters);
  ("dvb_ofdm_parameters", dvb_ofdm_parameters);
  ("dvb_frontend_parameters", dvb_frontend_parameters);
  ("dvb_frontend_event", Struct [("status", fe_status_t); ("parameters", dvb_frontend_parameters)])].
Definition fe_status_t : cty := type_in structs_fe_sec_voltage_t "fe_status_t".
Definition dvb_frontend_parameters : cty := type_in structs_fe_sec_voltage_t "dvb_frontend_parameters".
Definition dvb_frontend_event : cty := type_in structs_fe_sec_voltage_t "dvb_frontend_event".
Definition dvb_frontend_types : list (string * cty) :=
  (structs_dvb_frontend_info ++ [("dtv_stats", dtv_stats)] ++ structs_dtv_fe_stats ++
   [("dtv_properties", dtv_properties)] ++ structs_fe_sec_voltage_t)%list.
Definition dvb_frontend_ioctls_1 : list command := [
  _IOW "FE_SET_PROPERTY" (chr "o") 82 dtv_properties;
  _IOR "FE_GET_PROPERTY" (chr "o") 83 dtv_properties].
Definition dvb_frontend_ioctls_2 : list command := [
  _IOR "FE_GET_INFO" (chr "o") 61 dvb_frontend_info;
  _IO "FE_DISEQC_RESET_OVERLOAD" (chr "o") 62;
  _IOW "FE_DISEQC_SEND_MASTER_CMD" (chr "o") 63 dvb_diseqc_master_cmd;
  _IOR "FE_DISEQC_RECV_SLAVE_REPLY" (chr "o") 64 dvb_diseqc_slave_reply;
  _IO "FE_DISEQC_SEND_BURST" (chr "o") 65;
  _IO "FE_SET_TONE" (chr "o") 66;
  _IO "FE_SET_VOLTAGE" (chr "o") 67;
  _IO "FE_ENABLE_HIGH_LNB_VOLTAGE" (chr "o") 68;
  _IOR "FE_READ_STATUS" (chr "o") 69 fe_status_t;
  _IOR "FE_READ_BER" (chr "o") 70 __u32;
  _IOR "FE_READ_SIGNAL_STRENGTH" (chr "o") 71 __u16;
  _IOR "FE_READ_SNR" (chr "o") 72 __u16;
  _IOR "FE_READ_UNCORRECTED_BLOCKS" (chr "o") 73 __u32;
  _IOW "FE_SET_FRONTEND" (chr "o") 76 dvb_frontend_parameters;
  _IOR "FE_GET_FRONTEND" (chr "o") 77 dvb_frontend_parameters;
  _IO "FE_SET_FRONTEND_TUNE_MODE" (chr "o") 81;
  _IOR "FE_GET_EVENT" (chr "o") 78 dvb_frontend_event;
  _IO "FE_DISHNETWORK_SEND_LEGACY_CMD" (chr "o") 80].
Definition dvb_frontend_ioctls : list command :=
  (dvb_frontend_ioctls_1 ++ dvb_frontend_ioctls_2)%list.
End Dvb_frontend.

(** ** [linux/dvb/net.h] *)

Module Dvb_net.
Definition dvb_net_if : cty := Struct [("pid", __u16); ("if_num", __u16); ("feedtype", __u8)].
Definition __dvb_net_if_old : cty := Struct [("pid", __u16); ("if_num", __u16)].
Definition dvb_net_types : list (string * cty) :=
  ([("dvb_net_if", dvb_net_if); ("__dvb_net_if_old", __dvb_net_if_old)])%list.
Definition dvb_net_ioctls_1 : list command := [
  _IOWR "NET_ADD_IF" (chr "o") 52 dvb_net_if;
  _IO "NET_REMOVE_IF" (chr "o") 53;
  _IOWR "NET_GET_IF" (chr "o") 54 dvb_net_if].
Definition dvb_net_ioctls_2 : list command := [
  _IOWR "__NET_ADD_IF_OLD" (chr "o") 52 __dvb_net_if_old;
  _IOWR "__NET_GET_IF_OLD" (chr "o") 54 __dvb_net_if_old].
Definition dvb_net_ioctls : list command :=
  (dvb_net_ioctls_1 ++ dvb_net_ioctls_2)%list.
End Dvb_net.

(** ** [linux/dvb/osd.h] *)

Module Dvb_osd.
Definition OSD_Command : cty := enum.
Definition osd_cmd_s : cty :=
  Struct [("cmd", OSD_Command); ("x0", int); ("y0", int); ("x1", int); ("y1", int);
   ("color", int); ("data", ptr)].
Definition structs_osd_cmd_t : list (string * cty) :=
  [
  ("osd_cmd_t", osd_cmd_s);
  ("osd_raw_window_t", enum);
  ("osd_cap_s", Struct [("cmd", int); ("val", long)])].
Definition osd_cmd_t : cty := type_in structs_osd_cmd_t "osd_cmd_t".
Definition osd_cap_s : cty := type_in structs_osd_cmd_t "osd_cap_s".
Definition osd_cap_t : cty := osd_cap_s.
Definition dvb_osd_types : list (string * cty) :=
  ([("OSD_Command", OSD_Command); ("osd_cmd_s", osd_cmd_s)] ++ structs_osd_cmd_t ++
   [("osd_cap_t", osd_cap_t)])%list.
Definition dvb_osd_ioctls : list command := [
  _IOW "OSD_SEND_CMD" (chr "o") 160 osd_cmd_t;
  _IOR "OSD_GET_CAPABILITY" (chr "o") 161 osd_cap_t].
End Dvb_osd.

(** ** [linux/dvb/video.h] *)

Module Dvb_video.
Definition structs_video_format_t : list (string * cty) :=
  let video_format_t := enum in
  [
  ("video_format_t", video_format_t);
  ("video_system_t", enum);
  ("video_displayformat_t", enum);
  ("video_size_t", Struct [("w", int); ("h", int); ("aspect_ratio", video_format_t)]);
  ("video_stream_source_t", enum);
  ("video_play_state_t", enum)].
Definition video_format_t : cty := type_in structs_video_format_t "video_format_t".
Definition video_displayformat_t : cty := type_in structs_video_format_t "video_displayformat_t".
Definition video_size_t : cty := type_in structs_video_format_t "video_size_t".
Definition video_stream_source_t : cty := type_in structs_video_format_t "video_stream_source_t".
Definition video_play_state_t : cty := type_in structs_video_format_t "video_play_state_t".
Definition video_command : cty :=
  Struct [("cmd", __u32); ("flags", __u32); ("", Union [("stop", Struct [("pts", __u64)]);
   ("play", Struct [("speed", __s32); ("format", __u32)]);
   ("raw", Struct [("data", Arr 16 __u32)])])].
Definition structs_video_event : list (string * cty) :=
  [
  ("video_event", Struct [("type", __s32); ("timestamp", __kernel_time_t);
   ("u", Union [("size", video_size_t); ("frame_rate", uint); ("vsync_field", uchar)])]);
  ("video_status", Struct [("video_blank", int); ("play_state", video_play_state_t);
   ("stream_source", video_stream_source_t); ("video_format", video_format_t);
   ("display_format", video_displayformat_t)]);
  ("video_still_picture", Struct [("iFrame", ptr); ("size", __s32)])].
Definition video_event : cty := type_in structs_video_event "video_event".
Definition video_status : cty := type_in structs_video_event "video_status".
Definition video_still_picture : cty := type_in structs_video_event "video_still_picture".
Definition video_highlight : cty :=
  Struct [("active", int); ("contrast1", __u8); ("contrast2", __u8); ("color1", __u8);
   ("color2", __u8); ("ypos", __u32); ("xpos", __u32)].
Definition video_highlight_t : cty := video_highlight.
Definition video_spu : cty := Struct [("active", int); ("stream_id", int)].
Definition structs_video_spu_t : list (string * cty) :=
  [
  ("video_spu_t", video_spu);
  ("video_spu_palette", Struct [("length", int); ("palette", ptr)])].
Definition video_spu_t : cty := type_in structs_video_spu_t "video_spu_t".
Definition video_spu_palette : cty := type_in structs_video_spu_t "video_spu_palette".
Definition structs_video_spu_palette_t : list (string * cty) :=
  [
  ("video_spu_palette_t", video_spu_palette);
  ("video_navi_pack", Struct [("length", int); ("data", Arr 1024 __u8)])].
Definition video_spu_palette_t : cty := type_in structs_video_spu_palette_t "video_spu_palette_t".
Definition video_navi_pack : cty := type_in structs_video_spu_palette_t "video_navi_pack".
Definition structs_video_navi_pack_t : list (string * cty) :=
  [
  ("video_navi_pack_t", video_navi_pack);
  ("video_attributes_t", __u16)].
Definition video_navi_pack_t : cty := type_in structs_video_navi_pack_t "video_navi_pack_t".
Definition dvb_video_types : list (string * cty) :=
  (structs_video_format_t ++ [("video_command", video_command)] ++ structs_video_event ++
   [("video_highlight", video_highlight); ("video_highlight_t", video_highlight_t);
   ("video_spu", video_spu)] ++ structs_video_spu_t ++ structs_video_spu_palette_t ++
   structs_video_navi_pack_t)%list.
Definition dvb_video_ioctls_1 : list command := [
  _IO "VIDEO_STOP" (chr "o") 21;
  _IO "VIDEO_PLAY" (chr "o") 22;
  _IO "VIDEO_FREEZE" (chr "o") 23;
  _IO "VIDEO_CONTINUE" (chr "o") 24;
  _IO "VIDEO_SELECT_SOURCE" (chr "o") 25;
  _IO "VIDEO_SET_BLANK" (chr "o") 26;
  _IOR "VIDEO_GET_STATUS" (chr "o") 27 video_status;
  _IOR "VIDEO_GET_EVENT" (chr "o") 28 video_event;
  _IO "VIDEO_SET_DISPLAY_FORMAT" (chr "o") 29;
  _IOW "VIDEO_STILLPICTURE" (chr "o") 30 video_still_picture;
  _IO "VIDEO_FAST_FORWARD" (chr "o") 31;
  _IO "VIDEO_SLOWMOTION" (chr "o") 32;
  _IOR "VIDEO_GET_CAPABILITIES" (chr "o") 33 uint;
  _IO "VIDEO_CLEAR_BUFFER" (chr "o") 34;
  _IO "VIDEO_SET_ID" (chr "o") 35;
  _IO "VIDEO_SET_STREAMTYPE" (chr "o") 36;
  _IO "VIDEO_SET_FORMAT" (chr "o") 37;
  _IO "VIDEO_SET_SYSTEM" (chr "o") 38;
  _IOW "VIDEO_SET_HIGHLIGHT" (chr "o") 39 video_highlight_t;
  _IOW "VIDEO_SET_SPU" (chr "o") 50 video_spu_t;
  _IOW "VIDEO_SET_SPU_PALETTE" (chr "o") 51 video_spu_palette_t;
  _IOR "VIDEO_GET_NAVI" (chr "o") 52 video_navi_pack_t;
  _IO "VIDEO_SET_ATTRIBUTES" (chr "o") 53;
  _IOR "VIDEO_GET_SIZE" (chr "o") 55 video_size_t;
  _IOR "VIDEO_GET_FRAME_RATE" (chr "o") 56 uint].
Definition dvb_video_ioctls_2 : list command := [
  _IOR "VIDEO_GET_PTS" (chr "o") 57 __u64;
  _IOR "VIDEO_GET_FRAME_COUNT" (chr "o") 58 __u64;
  _IOWR "VIDEO_COMMAND" (chr "o") 59 video_command;
  _IOWR "VIDEO_TRY_COMMAND" (chr "o") 60 video_command].
Definition dvb_video_ioctls : list command :=
  (dvb_video_ioctls_1 ++ dvb_video_ioctls_2)%list.
End Dvb_video.

(** ** [linux/v4l2-common.h] *)

Module V4l2_common.
Definition v4l2_edid : cty :=
  Struct [("pad", __u32); ("start_block", __u32); ("blocks", __u32); ("reserved", Arr 5 __u32);
   ("edid", ptr)].
Definition v4l2_common_types : list (string * cty) := [("v4l2_edid", v4l2_edid)].
End V4l2_common.

(** ** [linux/videodev2.h] *)

Module Videodev2.
Definition VIDEO_MAX_PLANES : Z := 8.
Definition V4L2_CTRL_MAX_DIMS : Z := 4.
Definition V4L2_ENC_IDX_ENTRIES : Z := 64.
Definition structs_v4l2_rect : list (string * cty) :=
  [
  ("v4l2_rect", Struct [("left", __s32); ("top", __s32); ("width", __u32); ("height", __u32)]);
  ("v4l2_fract", Struct [("numerator", __u32); ("denominator", __u32)]);
  ("v4l2_capability", Struct [("driver", Arr 16 __u8); ("card", Arr 32 __u8);
   ("bus_info", Arr 32 __u8); ("version", __u32); ("capabilities", __u32);
   ("device_caps", __u32); ("reserved", Arr 3 __u32)])].
Definition v4l2_rect : cty := type_in structs_v4l2_rect "v4l2_rect".
Definition v4l2_fract : cty := type_in structs_v4l2_rect "v4l2_fract".
Definition v4l2_capability : cty := type_in structs_v4l2_rect "v4l2_capability".
Definition v4l2_pix_format : cty :=
  Struct [("width", __u32); ("height", __u32); ("pixelformat", __u32); ("field", __u32);
   ("bytesperline", __u32); ("sizeimage", __u32); ("colorspace", __u32); ("priv", __u32);
   ("flags", __u32); ("ycbcr_enc", __u32); ("quantization", __u32); ("xfer_func", __u32)].
Definition v4l2_fmtdesc : cty :=
  Struct [("index", __u32); ("type", __u32); ("flags", __u32); ("description", Arr 32 __u8);
   ("pixelformat", __u32); ("reserved", Arr 4 __u32)].
Definition structs_v4l2_frmsize_discrete : list (string * cty) :=
  let v4l2_frmsize_discrete := Struct [("width", __u32); ("height", __u32)] in
  let v4l2_frmsize_stepwise := Struct [("min_width", __u32); ("max_width", __u32);
   ("step_width", __u32); ("min_height", __u32); ("max_height", __u32);
   ("step_height", __u32)] in
  [
  ("v4l2_frmsize_discrete", v4l2_frmsize_discrete);
  ("v4l2_frmsize_stepwise", v4l2_frmsize_stepwise);
  ("v4l2_frmsizeenum", Struct [("index", __u32); ("pixel_format", __u32); ("type", __u32);
   ("", Union [("discrete", v4l2_frmsize_discrete); ("stepwise", v4l2_frmsize_stepwise)]);
   ("reserved", Arr 2 __u32)])].
Definition v4l2_frmsizeenum : cty := type_in structs_v4l2_frmsize_discrete "v4l2_frmsizeenum".
Definition structs_v4l2_frmival_stepwise : list (string * cty) :=
  let v4l2_frmival_stepwise := Struct [("min", v4l2_fract); ("max", v4l2_fract);
   ("step", v4l2_fract)] in
  [
  ("v4l2_frmival_stepwise", v4l2_frmival_stepwise);
  ("v4l2_frmivalenum", Struct [("index", __u32); ("pixel_format", __u32); ("width", __u32);
   ("height", __u32); ("type", __u32); ("", Union [("discrete", v4l2_fract);
   ("stepwise", v4l2_frmival_stepwise)]); ("reserved", Arr 2 __u32)]);
  ("v4l2_timecode", Struct [("type", __u32); ("flags", __u32); ("frames", __u8);
   ("seconds", __u8); ("minutes", __u8); ("hours", __u8); ("userbits", Arr 4 __u8)])].
Definition v4l2_frmivalenum : cty := type_in structs_v4l2_frmival_stepwise "v4l2_frmivalenum".
Definition v4l2_timecode : cty := type_in structs_v4l2_frmival_stepwise "v4l2_timecode".
Definition v4l2_jpegcompression : cty :=
  Struct [("quality", int); ("APPn", int); ("APP_len", int); ("APP_data", Arr 60 char);
   ("COM_len", int); ("COM_data", Arr 60 char); ("jpeg_markers", __u32)].
Definition structs_v4l2_requestbuffers : list (string * cty) :=
  [
  ("v4l2_requestbuffers", Struct [("count", __u32); ("type", __u32); ("memory", __u32);
   ("reserved", Arr 2 __u32)]);
  ("v4l2_plane", Struct [("bytesused", __u32); ("length", __u32);
   ("m", Union [("mem_offset", __u32); ("userptr", ulong); ("fd", __s32)]);
   ("data_offset", __u32); ("reserved", Arr 11 __u32)])].
Definition v4l2_requestbuffers : cty := type_in structs_v4l2_requestbuffers "v4l2_requestbuffers".
Definition v4l2_buffer : cty :=
  Struct [("index", __u32); ("type", __u32); ("bytesused", __u32); ("flags", __u32);
   ("field", __u32); ("timestamp", timeval); ("timecode", v4l2_timecode); ("sequence", __u32);
   ("memory", __u32); ("m", Union [("offset", __u32); ("userptr", ulong); ("planes", ptr);
   ("fd", __s32)]); ("length", __u32); ("reserved2", __u32); ("reserved", __u32)].
Definition structs_v4l2_exportbuffer : list (string * cty) :=
  [
  ("v4l2_exportbuffer", Struct [("type", __u32); ("index", __u32); ("plane", __u32);
   ("flags", __u32); ("fd", __s32); ("reserved", Arr 11 __u32)]);
  ("v4l2_framebuffer", Struct [("capability", __u32); ("flags", __u32); ("base", ptr);
   ("fmt", Struct [("width", __u32); ("height", __u32); ("pixelformat", __u32); ("field", __u32);
   ("bytesperline", __u32); ("sizeimage", __u32); ("colorspace", __u32); ("priv", __u32)])])].
Definition v4l2_exportbuffer : cty := type_in structs_v4l2_exportbuffer "v4l2_exportbuffer".
Definition v4l2_framebuffer : cty := type_in structs_v4l2_exportbuffer "v4l2_framebuffer".
Definition structs_v4l2_clip : list (string * cty) :=
  [
  ("v4l2_clip", Struct [("c", v4l2_rect); ("next", ptr)]);
  ("v4l2_window", Struct [("w", v4l2_rect); ("field", __u32); ("chromakey", __u32);
   ("clips", ptr); ("clipcount", __u32); ("bitmap", ptr); ("global_alpha", __u8)]);
  ("v4l2_captureparm", Struct [("capability", __u32); ("capturemode", __u32);
   ("timeperframe", v4l2_fract); ("extendedmode", __u32); ("readbuffers", __u32);
   ("reserved", Arr 4 __u32)])].
Definition v4l2_window : cty := type_in structs_v4l2_clip "v4l2_window".
Definition v4l2_captureparm : cty := type_in structs_v4l2_clip "v4l2_captureparm".
Definition structs_v4l2_qcom_frameskip : list (string * cty) :=
  [
  ("v4l2_qcom_frameskip", Struct [("maxframeinterval", __u64); ("fpsvariance", __u8)]);
  ("v4l2_outputparm", Struct [("capability", __u32); ("outputmode", __u32);
   ("timeperframe", v4l2_fract); ("extendedmode", __u32); ("writebuffers", __u32);
   ("reserved", Arr 4 __u32)]);
  ("v4l2_cropcap", Struct [("type", __u32); ("bounds", v4l2_rect); ("defrect", v4l2_rect);
   ("pixelaspect", v4l2_fract)]);
  ("v4l2_crop", Struct [("type", __u32); ("c", v4l2_rect)]);
  ("v4l2_selection", Struct [("type", __u32); ("target", __u32); ("flags", __u32);
   ("r", v4l2_rect); ("reserved", Arr 9 __u32)]);
  ("v4l2_std_id", __u64)].
Definition v4l2_outputparm : cty := type_in structs_v4l2_qcom_frameskip "v4l2_outputparm".
Definition v4l2_cropcap : cty := type_in structs_v4l2_qcom_frameskip "v4l2_cropcap".
Definition v4l2_crop : cty := type_in structs_v4l2_qcom_frameskip "v4l2_crop".
Definition v4l2_selection : cty := type_in structs_v4l2_qcom_frameskip "v4l2_selection".
Definition v4l2_std_id : cty := type_in structs_v4l2_qcom_frameskip "v4l2_std_id".
Definition structs_v4l2_standard : list (string * cty) :=
  [
  ("v4l2_standard", Struct [("index", __u32); ("id", v4l2_std_id); ("name", Arr 24 __u8);
   ("frameperiod", v4l2_fract); ("framelines", __u32); ("reserved", Arr 4 __u32)]);
  ("v4l2_bt_timings", Packed [("width", __u32); ("height", __u32); ("interlaced", __u32);
   ("polarities", __u32); ("pixelclock", __u64); ("hfrontporch", __u32); ("hsync", __u32);
   ("hbackporch", __u32); ("vfrontporch", __u32); ("vsync", __u32); ("vbackporch", __u32);
   ("il_vfrontporch", __u32); ("il_vsync", __u32); ("il_vbackporch", __u32);
   ("standards", __u32); ("flags", __u32); ("reserved", Arr 14 __u32)])].
Definition v4l2_standard : cty := type_in structs_v4l2_standard "v4l2_standard".
Definition v4l2_bt_timings : cty := type_in structs_v4l2_standard "v4l2_bt_timings".
Definition v4l2_dv_timings : cty :=
  Packed [("type", __u32); ("", Union [("bt", v4l2_bt_timings); ("reserved", Arr 32 __u32)])].
Definition structs_v4l2_enum_dv_timings : list (string * cty) :=
  [
  ("v4l2_enum_dv_timings", Struct [("index", __u32); ("pad", __u32); ("reserved", Arr 2 __u32);
   ("timings", v4l2_dv_timings)]);
  ("v4l2_bt_timings_cap", Packed [("min_width", __u32); ("max_width", __u32);
   ("min_height", __u32); ("max_height", __u32); ("min_pixelclock", __u64);
   ("max_pixelclock", __u64); ("standards", __u32); ("capabilities", __u32);
   ("reserved", Arr 16 __u32)])].
Definition v4l2_enum_dv_timings : cty := type_in structs_v4l2_enum_dv_timings "v4l2_enum_dv_timings".
Definition v4l2_bt_timings_cap : cty := type_in structs_v4l2_enum_dv_timings "v4l2_bt_timings_cap".
Definition structs_v4l2_dv_timings_cap : list (string * cty) :=
  [
  ("v4l2_dv_timings_cap", Struct [("type", __u32); ("pad", __u32); ("reserved", Arr 2 __u32);
   ("", Union [("bt", v4l2_bt_timings_cap); ("raw_data", Arr 32 __u32)])]);
  ("v4l2_input", Struct [("index", __u32); ("name", Arr 32 __u8); ("type", __u32);
   ("audioset", __u32); ("tuner", __u32); ("std", v4l2_std_id); ("status", __u32);
   ("capabilities", __u32); ("reserved", Arr 3 __u32)])].
Definition v4l2_dv_timings_cap : cty := type_in structs_v4l2_dv_timings_cap "v4l2_dv_timings_cap".
Definition v4l2_input : cty := type_in structs_v4l2_dv_timings_cap "v4l2_input".
Definition v4l2_output : cty :=
  Struct [("index", __u32); ("name", Arr 32 __u8); ("type", __u32); ("audioset", __u32);
   ("modulator", __u32); ("std", v4l2_std_id); ("capabilities", __u32);
   ("reserved", Arr 3 __u32)].
Definition structs_v4l2_control : list (string * cty) :=
  [
  ("v4l2_control", Struct [("id", __u32); ("value", __s32)]);
  ("v4l2_ext_control", Packed [("id", __u32); ("size", __u32); ("reserved2", Arr 1 __u32);
   ("", Union [("value", __s32); ("value64", __s64); ("string", ptr); ("p_u8", ptr);
   ("p_u16", ptr); ("p_u32", ptr); ("ptr", ptr)])]);
  ("v4l2_ext_controls", Struct [("ctrl_class", __u32); ("count", __u32); ("error_idx", __u32);
   ("reserved", Arr 2 __u32); ("controls", ptr)])].
Definition v4l2_control : cty := type_in structs_v4l2_control "v4l2_control".
Definition v4l2_ext_controls : cty := type_in structs_v4l2_control "v4l2_ext_controls".
Definition structs_v4l2_queryctrl : list (string * cty) :=
  [
  ("v4l2_queryctrl", Struct [("id", __u32); ("type", __u32); ("name", Arr 32 __u8);
   ("minimum", __s32); ("maximum", __s32); ("step", __s32); ("default_value", __s32);
   ("flags", __u32); ("reserved", Arr 2 __u32)]);
  ("v4l2_query_ext_ctrl", Struct [("id", __u32); ("type", __u32); ("name", Arr 32 char);
   ("minimum", __s64); ("maximum", __s64); ("step", __u64); ("default_value", __s64);
   ("flags", __u32); ("elem_size", __u32); ("elems", __u32); ("nr_of_dims", __u32);
   ("dims", Arr V4L2_CTRL_MAX_DIMS __u32); ("reserved", Arr 32 __u32)]);
  ("v4l2_querymenu", Packed [("id", __u32); ("index", __u32); ("", Union [("name", Arr 32 __u8);
   ("value", __s64)]); ("reserved", __u32)])].
Definition v4l2_queryctrl : cty := type_in structs_v4l2_queryctrl "v4l2_queryctrl".
Definition v4l2_query_ext_ctrl : cty := type_in structs_v4l2_queryctrl "v4l2_query_ext_ctrl".
Definition v4l2_querymenu : cty := type_in structs_v4l2_queryctrl "v4l2_querymenu".
Definition structs_v4l2_tuner : list (string * cty) :=
  [
  ("v4l2_tuner", Struct [("index", __u32); ("name", Arr 32 __u8); ("type", __u32);
   ("capability", __u32); ("rangelow", __u32); ("rangehigh", __u32); ("rxsubchans", __u32);
   ("audmode", __u32); ("signal", __s32); ("afc", __s32); ("reserved", Arr 4 __u32)]);
  ("v4l2_modulator", Struct [("index", __u32); ("name", Arr 32 __u8); ("capability", __u32);
   ("rangelow", __u32); ("rangehigh", __u32); ("txsubchans", __u32); ("type", __u32);
   ("reserved", Arr 3 __u32)])].
Definition v4l2_tuner : cty := type_in structs_v4l2_tuner "v4l2_tuner".
Definition v4l2_modulator : cty := type_in structs_v4l2_tuner "v4l2_modulator".
Definition v4l2_frequency : cty :=
  Struct [("tuner", __u32); ("type", __u32); ("frequency", __u32); ("reserved", Arr 8 __u32)].
Definition structs_v4l2_frequency_band : list (string * cty) :=
  [
  ("v4l2_frequency_band", Struct [("tuner", __u32); ("type", __u32); ("index", __u32);
   ("capability", __u32); ("rangelow", __u32); ("rangehigh", __u32); ("modulation", __u32);
   ("reserved", Arr 9 __u32)]);
  ("v4l2_hw_freq_seek", Struct [("tuner", __u32); ("type", __u32); ("seek_upward", __u32);
   ("wrap_around", __u32); ("spacing", __u32); ("rangelow", __u32); ("rangehigh", __u32);
   ("reserved", Arr 5 __u32)]);
  ("v4l2_rds_data", Packed [("lsb", __u8); ("msb", __u8); ("block", __u8)])].
Definition v4l2_frequency_band : cty := type_in structs_v4l2_frequency_band "v4l2_frequency_band".
Definition v4l2_hw_freq_seek : cty := type_in structs_v4l2_frequency_band "v4l2_hw_freq_seek".
Definition v4l2_audio : cty :=
  Struct [("index", __u32); ("name", Arr 32 __u8); ("capability", __u32); ("mode", __u32);
   ("reserved", Arr 2 __u32)].
Definition v4l2_audioout : cty :=
  Struct [("index", __u32); ("name", Arr 32 __u8); ("capability", __u32); ("mode", __u32);
   ("reserved", Arr 2 __u32)].
Definition v4l2_enc_idx_entry : cty :=
  Struct [("offset", __u64); ("pts", __u64); ("length", __u32); ("flags", __u32);
   ("reserved", Arr 2 __u32)].
Definition v4l2_enc_idx : cty :=
  Struct [("entries", __u32); ("entries_cap", __u32); ("reserved", Arr 4 __u32);
   ("entry", Arr V4L2_ENC_IDX_ENTRIES v4l2_enc_idx_entry)].
Definition v4l2_encoder_cmd : cty :=
  Struct [("cmd", __u32); ("flags", __u32); ("", Union [("raw", Struct [("data", Arr 8 __u32)])])].
Definition structs_v4l2_decoder_cmd : list (string * cty) :=
  [
  ("v4l2_decoder_cmd", Struct [("cmd", __u32); ("flags", __u32);
   ("", Union [("stop", Struct [("pts", __u64)]); ("start", Struct [("speed", __s32);
   ("format", __u32)]); ("raw", Struct [("data", Arr 16 __u32)])])]);
  ("v4l2_vbi_format", Struct [("sampling_rate", __u32); ("offset", __u32);
   ("samples_per_line", __u32); ("sample_format", __u32); ("start", Arr 2 __s32);
   ("count", Arr 2 __u32); ("flags", __u32); ("reserved", Arr 2 __u32)])].
Definition v4l2_decoder_cmd : cty := type_in structs_v4l2_decoder_cmd "v4l2_decoder_cmd".
Definition v4l2_vbi_format : cty := type_in structs_v4l2_decoder_cmd "v4l2_vbi_format".
Definition v4l2_sliced_vbi_format : cty :=
  Struct [("service_set", __u16); ("service_lines", Arr 2 (Arr 24 __u16)); ("io_size", __u32);
   ("reserved", Arr 2 __u32)].
Definition structs_v4l2_sliced_vbi_cap : list (string * cty) :=
  [
  ("v4l2_sliced_vbi_cap", Struct [("service_set", __u16);
   ("service_lines", Arr 2 (Arr 24 __u16)); ("type", __u32); ("reserved", Arr 3 __u32)]);
  ("v4l2_sliced_vbi_data", Struct [("id", __u32); ("field", __u32); ("line", __u32);
   ("reserved", __u32); ("data", Arr 48 __u8)])].
Definition v4l2_sliced_vbi_cap : cty := type_in structs_v4l2_sliced_vbi_cap "v4l2_sliced_vbi_cap".
Definition structs_v4l2_mpeg_vbi_itv0_line : list (string * cty) :=
  let v4l2_mpeg_vbi_itv0_line := Packed [("id", __u8); ("data", Arr 42 __u8)] in
  [
  ("v4l2_mpeg_vbi_itv0_line", v4l2_mpeg_vbi_itv0_line);
  ("v4l2_mpeg_vbi_itv0", Packed [("linemask", Arr 2 __le32);
   ("line", Arr 35 v4l2_mpeg_vbi_itv0_line)]);
  ("v4l2_mpeg_vbi_ITV0", Packed [("line", Arr 36 v4l2_mpeg_vbi_itv0_line)])].
Definition v4l2_mpeg_vbi_itv0 : cty := type_in structs_v4l2_mpeg_vbi_itv0_line "v4l2_mpeg_vbi_itv0".
Definition v4l2_mpeg_vbi_ITV0 : cty := type_in structs_v4l2_mpeg_vbi_itv0_line "v4l2_mpeg_vbi_ITV0".
Definition structs_v4l2_mpeg_vbi_fmt_ivtv : list (string * cty) :=
  let v4l2_plane_pix_format := Packed [("sizeimage", __u32); ("bytesperline", __u32);
   ("reserved", Arr 6 __u16)] in
  let v4l2_pix_format_mplane := Packed [("width", __u32); ("height", __u32);
   ("pixelformat", __u32); ("field", __u32); ("colorspace", __u32);
   ("plane_fmt", Arr VIDEO_MAX_PLANES v4l2_plane_pix_format); ("num_planes", __u8);
   ("flags", __u8); ("ycbcr_enc", __u8); ("quantization", __u8); ("xfer_func", __u8);
   ("reserved", Arr 7 __u8)] in
  let v4l2_sdr_format := Packed [("pixelformat", __u32); ("buffersize", __u32);
   ("reserved", Arr 24 __u8)] in
  [
  ("v4l2_mpeg_vbi_fmt_ivtv", Packed [("magic", Arr 4 __u8);
   ("", Union [("itv0", v4l2_mpeg_vbi_itv0); ("ITV0", v4l2_mpeg_vbi_ITV0)])]);
  ("v4l2_plane_pix_format", v4l2_plane_pix_format);
  ("v4l2_pix_format_mplane", v4l2_pix_format_mplane);
  ("v4l2_sdr_format", v4l2_sdr_format);
  ("v4l2_format", Struct [("type", __u32); ("fmt", Union [("pix", v4l2_pix_format);
   ("pix_mp", v4l2_pix_format_mplane); ("win", v4l2_window); ("vbi", v4l2_vbi_format);
   ("sliced", v4l2_sliced_vbi_format); ("sdr", v4l2_sdr_format); ("raw_data", Arr 200 __u8)])]);
  ("v4l2_streamparm", Struct [("type", __u32); ("parm", Union [("capture", v4l2_captureparm);
   ("output", v4l2_outputparm); ("raw_data", Arr 200 __u8)])])].
Definition v4l2_format : cty := type_in structs_v4l2_mpeg_vbi_fmt_ivtv "v4l2_format".
Definition v4l2_streamparm : cty := type_in structs_v4l2_mpeg_vbi_fmt_ivtv "v4l2_streamparm".
Definition v4l2_event_vsync : cty := Packed [("field", __u8)].
Definition structs_v4l2_event_ctrl : list (string * cty) :=
  [
  ("v4l2_event_ctrl", Struct [("changes", __u32); ("type", __u32); ("", Union [("value", __s32);
   ("value64", __s64)]); ("flags", __u32); ("minimum", __s32); ("maximum", __s32);
   ("step", __s32); ("default_value", __s32)]);
  ("v4l2_event_frame_sync", Struct [("frame_sequence", __u32)])].
Definition v4l2_event_ctrl : cty := type_in structs_v4l2_event_ctrl "v4l2_event_ctrl".
Definition v4l2_event_frame_sync : cty := type_in structs_v4l2_event_ctrl "v4l2_event_frame_sync".
Definition v4l2_event_src_change : cty := Struct [("changes", __u32)].
Definition structs_v4l2_event_motion_det : list (string * cty) :=
  let v4l2_event_motion_det := Struct [("flags", __u32); ("frame_sequence", __u32);
   ("region_mask", __u32)] in
  [
  ("v4l2_event_motion_det", v4l2_event_motion_det);
  ("v4l2_event", Struct [("type", __u32); ("u", Union [("vsync", v4l2_event_vsync);
   ("ctrl", v4l2_event_ctrl); ("frame_sync", v4l2_event_frame_sync);
   ("src_change", v4l2_event_src_change); ("motion_det", v4l2_event_motion_det);
   ("data", Arr 64 __u8)]); ("pending", __u32); ("sequence", __u32); ("timestamp", timespec);
   ("id", __u32); ("reserved", Arr 8 __u32)])].
Definition v4l2_event : cty := type_in structs_v4l2_event_motion_det "v4l2_event".
Definition v4l2_event_subscription : cty :=
  Struct [("type", __u32); ("id", __u32); ("flags", __u32); ("reserved", Arr 5 __u32)].
Definition structs_v4l2_dbg_match : list (string * cty) :=
  let v4l2_dbg_match := Packed [("type", __u32); ("", Union [("addr", __u32);
   ("name", Arr 32 char)])] in
  [
  ("v4l2_dbg_match", v4l2_dbg_match);
  ("v4l2_dbg_register", Packed [("match", v4l2_dbg_match); ("size", __u32); ("reg", __u64);
   ("val", __u64)])].
Definition v4l2_dbg_match : cty := type_in structs_v4l2_dbg_match "v4l2_dbg_match".
Definition v4l2_dbg_register : cty := type_in structs_v4l2_dbg_match "v4l2_dbg_register".
Definition structs_v4l2_dbg_chip_info : list (string * cty) :=
  [
  ("v4l2_dbg_chip_info", Packed [("match", v4l2_dbg_match); ("name", Arr 32 char);
   ("flags", __u32); ("reserved", Arr 32 __u32)]);
  ("v4l2_create_buffers", Struct [("index", __u32); ("count", __u32); ("memory", __u32);
   ("format", v4l2_format); ("reserved", Arr 8 __u32)])].
Definition v4l2_dbg_chip_info : cty := type_in structs_v4l2_dbg_chip_info "v4l2_dbg_chip_info".
Definition v4l2_create_buffers : cty := type_in structs_v4l2_dbg_chip_info "v4l2_create_buffers".
Definition videodev2_types : list (string * cty) :=
  (structs_v4l2_rect ++ [("v4l2_pix_format", v4l2_pix_format); ("v4l2_fmtdesc", v4l2_fmtdesc)]
   ++ structs_v4l2_frmsize_discrete ++ structs_v4l2_frmival_stepwise ++
   [("v4l2_jpegcompression", v4l2_jpegcompression)] ++ structs_v4l2_requestbuffers ++
   [("v4l2_buffer", v4l2_buffer)] ++ structs_v4l2_exportbuffer ++ structs_v4l2_clip ++
   structs_v4l2_qcom_frameskip ++ structs_v4l2_standard ++ [("v4l2_dv_timings",
   v4l2_dv_timings)] ++ structs_v4l2_enum_dv_timings ++ structs_v4l2_dv_timings_cap ++
   [("v4l2_output", v4l2_output)] ++ structs_v4l2_control ++ structs_v4l2_queryctrl ++
   structs_v4l2_tuner ++ [("v4l2_frequency", v4l2_frequency)] ++ structs_v4l2_frequency_band
   ++ [("v4l2_audio", v4l2_audio); ("v4l2_audioout", v4l2_audioout); ("v4l2_enc_idx_entry",
   v4l2_enc_idx_entry); ("v4l2_enc_idx", v4l2_enc_idx); ("v4l2_encoder_cmd",
   v4l2_encoder_cmd)] ++ structs_v4l2_decoder_cmd ++ [("v4l2_sliced_vbi_format",
   v4l2_sliced_vbi_format)] ++ structs_v4l2_sliced_vbi_cap ++ structs_v4l2_mpeg_vbi_itv0_line
   ++ structs_v4l2_mpeg_vbi_fmt_ivtv ++ [("v4l2_event_vsync", v4l2_event_vsync)] ++
   structs_v4l2_event_ctrl ++ [("v4l2_event_src_change", v4l2_event_src_change)] ++
   structs_v4l2_event_motion_det ++ [("v4l2_event_subscription", v4l2_event_subscription)] ++
   structs_v4l2_dbg_match ++ structs_v4l2_dbg_chip_info)%list.
Definition videodev2_ioctls_1 : list command := [
  _IOR "VIDIOC_QUERYCAP" (chr "V") 0 v4l2_capability;
  _IO "VIDIOC_RESERVED" (chr "V") 1;
  _IOWR "VIDIOC_ENUM_FMT" (chr "V") 2 v4l2_fmtdesc;
  _IOWR "VIDIOC_G_FMT" (chr "V") 4 v4l2_format;
  _IOWR "VIDIOC_S_FMT" (chr "V") 5 v4l2_format;
  _IOWR "VIDIOC_REQBUFS" (chr "V") 8 v4l2_requestbuffers;
  _IOWR "VIDIOC_QUERYBUF" (chr "V") 9 v4l2_buffer;
  _IOR "VIDIOC_G_FBUF" (chr "V") 10 v4l2_framebuffer;
  _IOW "VIDIOC_S_FBUF" (chr "V") 11 v4l2_framebuffer;
  _IOW "VIDIOC_OVERLAY" (chr "V") 14 int;
  _IOWR "VIDIOC_QBUF" (chr "V") 15 v4l2_buffer;
  _IOWR "VIDIOC_EXPBUF" (chr "V") 16 v4l2_exportbuffer;
  _IOWR "VIDIOC_DQBUF" (chr "V") 17 v4l2_buffer;
  _IOW "VIDIOC_STREAMON" (chr "V") 18 int;
  _IOW "VIDIOC_STREAMOFF" (chr "V") 19 int;
  _IOWR "VIDIOC_G_PARM" (chr "V") 21 v4l2_streamparm;
  _IOWR "VIDIOC_S_PARM" (chr "V") 22 v4l2_streamparm;
  _IOR "VIDIOC_G_STD" (chr "V") 23 v4l2_std_id;
  _IOW "VIDIOC_S_STD" (chr "V") 24 v4l2_std_id;
  _IOWR "VIDIOC_ENUMSTD" (chr "V") 25 v4l2_standard;
  _IOWR "VIDIOC_ENUMINPUT" (chr "V") 26 v4l2_input;
  _IOWR "VIDIOC_G_CTRL" (chr "V") 27 v4l2_control;
  _IOWR "VIDIOC_S_CTRL" (chr "V") 28 v4l2_control;
  _IOWR "VIDIOC_G_TUNER" (chr "V") 29 v4l2_tuner;
  _IOW "VIDIOC_S_TUNER" (chr "V") 30 v4l2_tuner;
  _IOR "VIDIOC_G_AUDIO" (chr "V") 33 v4l2_audio;
  _IOW "VIDIOC_S_AUDIO" (chr "V") 34 v4l2_audio;
  _IOWR "VIDIOC_QUERYCTRL" (chr "V") 36 v4l2_queryctrl;
  _IOWR "VIDIOC_QUERYMENU" (chr "V") 37 v4l2_querymenu;
  _IOR "VIDIOC_G_INPUT" (chr "V") 38 int;
  _IOWR "VIDIOC_S_INPUT" (chr "V") 39 int;
  _IOWR "VIDIOC_G_EDID" (chr "V") 40 V4l2_common.v4l2_edid;
  _IOWR "VIDIOC_S_EDID" (chr "V") 41 V4l2_common.v4l2_edid;
  _IOR "VIDIOC_G_OUTPUT" (chr "V") 46 int;
  _IOWR "VIDIOC_S_OUTPUT" (chr "V") 47 int;
  _IOWR "VIDIOC_ENUMOUTPUT" (chr "V") 48 v4l2_output;
  _IOR "VIDIOC_G_AUDOUT" (chr "V") 49 v4l2_audioout;
  _IOW "VIDIOC_S_AUDOUT" (chr "V") 50 v4l2_audioout;
  _IOWR "VIDIOC_G_MODULATOR" (chr "V") 54 v4l2_modulator;
  _IOW "VIDIOC_S_MODULATOR" (chr "V") 55 v4l2_modulator;
  _IOWR "VIDIOC_G_FREQUENCY" (chr "V") 56 v4l2_frequency;
  _IOW "VIDIOC_S_FREQUENCY" (chr "V") 57 v4l2_frequency;
  _IOWR "VIDIOC_CROPCAP" (chr "V") 58 v4l2_cropcap;
  _IOWR "VIDIOC_G_CROP" (chr "V") 59 v4l2_crop;
  _IOW "VIDIOC_S_CROP" (chr "V") 60 v4l2_crop;
  _IOR "VIDIOC_G_JPEGCOMP" (chr "V") 61 v4l2_jpegcompression;
  _IOW "VIDIOC_S_JPEGCOMP" (chr "V") 62 v4l2_jpegcompression;
  _IOR "VIDIOC_QUERYSTD" (chr "V") 63 v4l2_std_id;
  _IOWR "VIDIOC_TRY_FMT" (chr "V") 64 v4l2_format;
  _IOWR "VIDIOC_ENUMAUDIO" (chr "V") 65 v4l2_audio;
  _IOWR "VIDIOC_ENUMAUDOUT" (chr "V") 66 v4l2_audioout;
  _IOR "VIDIOC_G_PRIORITY" (chr "V") 67 __u32;
  _IOW "VIDIOC_S_PRIORITY" (chr "V") 68 __u32;
  _IOWR "VIDIOC_G_SLICED_VBI_CAP" (chr "V") 69 v4l2_sliced_vbi_cap;
  _IO "VIDIOC_LOG_STATUS" (chr "V") 70;
  _IOWR "VIDIOC_G_EXT_CTRLS" (chr "V") 71 v4l2_ext_controls;
  _IOWR "VIDIOC_S_EXT_CTRLS" (chr "V") 72 v4l2_ext_controls;
  _IOWR "VIDIOC_TRY_EXT_CTRLS" (chr "V") 73 v4l2_ext_controls;
  _IOWR "VIDIOC_ENUM_FRAMESIZES" (chr "V") 74 v4l2_frmsizeenum;
  _IOWR "VIDIOC_ENUM_FRAMEINTERVALS" (chr "V") 75 v4l2_frmivalenum;
  _IOR "VIDIOC_G_ENC_INDEX" (chr "V") 76 v4l2_enc_idx;
  _IOWR "VIDIOC_ENCODER_CMD" (chr "V") 77 v4l2_encoder_cmd;
  _IOWR "VIDIOC_TRY_ENCODER_CMD" (chr "V") 78 v4l2_encoder_cmd;
  _IOW "VIDIOC_DBG_S_REGISTER" (chr "V") 79 v4l2_dbg_register;
  _IOWR "VIDIOC_DBG_G_REGISTER" (chr "V") 80 v4l2_dbg_register;
  _IOW "VIDIOC_S_HW_FREQ_SEEK" (chr "V") 82 v4l2_hw_freq_seek;
  _IOWR "VIDIOC_S_DV_TIMINGS" (chr "V") 87 v4l2_dv_timings;
  _IOWR "VIDIOC_G_DV_TIMINGS" (chr "V") 88 v4l2_dv_timings;
  _IOR "VIDIOC_DQEVENT" (chr "V") 89 v4l2_event;
  _IOW "VIDIOC_SUBSCRIBE_EVENT" (chr "V") 90 v4l2_event_subscription;
  _IOW "VIDIOC_UNSUBSCRIBE_EVENT" (chr "V") 91 v4l2_event_subscription;
  _IOWR "VIDIOC_CREATE_BUFS" (chr "V") 92 v4l2_create_buffers;
  _IOWR "VIDIOC_PREPARE_BUF" (chr "V") 93 v4l2_buffer;
  _IOWR "VIDIOC_G_SELECTION" (chr "V") 94 v4l2_selection;
  _IOWR "VIDIOC_S_SELECTION" (chr "V") 95 v4l2_selection;
  _IOWR "VIDIOC_DECODER_CMD" (chr "V") 96 v4l2_decoder_cmd;
  _IOWR "VIDIOC_TRY_DECODER_CMD" (chr "V") 97 v4l2_decoder_cmd;
  _IOWR "VIDIOC_ENUM_DV_TIMINGS" (chr "V") 98 v4l2_enum_dv_timings;
  _IOR "VIDIOC_QUERY_DV_TIMINGS" (chr "V") 99 v4l2_dv_timings;
  _IOWR "VIDIOC_DV_TIMINGS_CAP" (chr "V") 100 v4l2_dv_timings_cap;
  _IOWR "VIDIOC_ENUM_FREQ_BANDS" (chr "V") 101 v4l2_frequency_band;
  _IOWR "VIDIOC_DBG_G_CHIP_INFO" (chr "V") 102 v4l2_dbg_chip_info;
  _IOWR "VIDIOC_QUERY_EXT_CTRL" (chr "V") 103 v4l2_query_ext_ctrl].
Definition videodev2_ioctls_2 : list command := [
  _IOW "VIDIOC_HDMI_RX_CEC_S_LOGICAL" (chr "V") 192 int;
  _IO "VIDIOC_HDMI_RX_CEC_CLEAR_LOGICAL" (chr "V") 193;
  _IOR "VIDIOC_HDMI_RX_CEC_G_PHYSICAL" (chr "V") 194 int;
  _IOR "VIDIOC_HDMI_RX_CEC_G_CONNECTED" (chr "V") 195 int;
  _IOR "VIDIOC_HDMI_RX_CEC_S_ENABLE" (chr "V") 196 int].
Definition videodev2_ioctls : list command :=
  (videodev2_ioctls_1 ++ videodev2_ioctls_2)%list.
End Videodev2.

(** ** [linux/ivtv.h] *)

Module Ivtv.
Definition ivtv_dma_frame : cty :=
  Struct [("type", enum); ("pixelformat", __u32); ("y_source", ptr); ("uv_source", ptr);
   ("src", Videodev2.v4l2_rect); ("dst", Videodev2.v4l2_rect); ("src_width", __u32);
   ("src_height", __u32)].
Definition ivtv_types : list (string * cty) := [("ivtv_dma_frame", ivtv_dma_frame)].
Definition ivtv_ioctls : list command := [
  _IOW "IVTV_IOC_DMA_FRAME" (chr "V") 192 ivtv_dma_frame;
  _IOW "IVTV_IOC_PASSTHROUGH_MODE" (chr "V") 193 int].
End Ivtv.

(** ** [linux/ivtvfb.h] *)

Module Ivtvfb.
Definition ivtvfb_dma_frame : cty :=
  Struct [("source", ptr); ("dest_offset", ulong); ("count", int)].
Definition ivtvfb_types : list (string * cty) := [("ivtvfb_dma_frame", ivtvfb_dma_frame)].
Definition ivtvfb_ioctls : list command := [
  _IOW "IVTVFB_IOC_DMA_FRAME" (chr "V") 192 ivtvfb_dma_frame].
End Ivtvfb.

(** ** [linux/media.h] *)

Module Media.
Definition media_device_info : cty :=
  Struct [("driver", Arr 16 char); ("model", Arr 32 char); ("serial", Arr 40 char);
   ("bus_info", Arr 32 char); ("media_version", __u32); ("hw_revision", __u32);
   ("driver_version", __u32); ("reserved", Arr 31 __u32)].
Definition media_entity_desc : cty :=
  Struct [("id", __u32); ("name", Arr 32 char); ("type", __u32); ("revision", __u32);
   ("flags", __u32); ("group_id", __u32); ("pads", __u16); ("links", __u16);
   ("reserved", Arr 4 __u32); ("", Union [("dev", Struct [("major", __u32); ("minor", __u32)]);
   ("alsa", Struct [("card", __u32); ("device", __u32); ("subdevice", __u32)]);
   ("v4l", Struct [("major", __u32); ("minor", __u32)]); ("fb", Struct [("major", __u32);
   ("minor", __u32)]); ("dvb", int); ("raw", Arr 184 __u8)])].
Definition media_pad_desc : cty :=
  Struct [("entity", __u32); ("index", __u16); ("flags", __u32); ("reserved", Arr 2 __u32)].
Definition structs_media_link_desc : list (string * cty) :=
  [
  ("media_link_desc", Struct [("source", media_pad_desc); ("sink", media_pad_desc);
   ("flags", __u32); ("reserved", Arr 2 __u32)]);
  ("media_links_enum", Struct [("entity", __u32); ("pads", ptr); ("links", ptr);
   ("reserved", Arr 4 __u32)])].
Definition media_link_desc : cty := type_in structs_media_link_desc "media_link_desc".
Definition media_links_enum : cty := type_in structs_media_link_desc "media_links_enum".
Definition media_types : list (string * cty) :=
  ([("media_device_info", media_device_info); ("media_entity_desc", media_entity_desc);
   ("media_pad_desc", media_pad_desc)] ++ structs_media_link_desc)%list.
Definition media_ioctls : list command := [
  _IOWR "MEDIA_IOC_DEVICE_INFO" (chr "|") 0 media_device_info;
  _IOWR "MEDIA_IOC_ENUM_ENTITIES" (chr "|") 1 media_entity_desc;
  _IOWR "MEDIA_IOC_ENUM_LINKS" (chr "|") 2 media_links_enum;
  _IOWR "MEDIA_IOC_SETUP_LINK" (chr "|") 3 media_link_desc].
End Media.

(** ** [linux/meye.h] *)

Module Meye.
Definition meye_params : cty :=
  Struct [("subsample", uchar); ("quality", uchar); ("sharpness", uchar); ("agc", uchar);
   ("picture", uchar); ("framerate", uchar)].
Definition meye_types : list (string * cty) := [("meye_params", meye_params)].
Definition meye_ioctls : list command := [
  _IOR "MEYEIOC_G_PARAMS" (chr "v") 192 meye_params;
  _IOW "MEYEIOC_S_PARAMS" (chr "v") 193 meye_params;
  _IOW "MEYEIOC_QBUF_CAPT" (chr "v") 194 int;
  _IOWR "MEYEIOC_SYNC" (chr "v") 195 int;
  _IO "MEYEIOC_STILLCAPT" (chr "v") 196;
  _IOR "MEYEIOC_STILLJCAPT" (chr "v") 197 int].
End Meye.

(** ** [linux/msm_vidc_dec.h] *)

Module Msm_vidc_dec.
Definition vdec_ioctl_msg : cty := Struct [("in", ptr); ("out", ptr)].
Definition structs_vdec_allocatorproperty : list (string * cty) :=
  let vdec_bufferpayload := Struct [("bufferaddr", ptr); ("buffer_len", size_t);
   ("pmem_fd", int); ("offset", size_t); ("mmaped_size", size_t)] in
  [
  ("vdec_allocatorproperty", Struct [("buffer_type", enum); ("mincount", uint32_t);
   ("maxcount", uint32_t); ("actualcount", uint32_t); ("buffer_size", size_t);
   ("alignment", uint32_t); ("buf_poolid", uint32_t); ("meta_buffer_size", size_t)]);
  ("vdec_bufferpayload", vdec_bufferpayload);
  ("vdec_setbuffer_cmd", Struct [("buffer_type", enum); ("buffer", vdec_bufferpayload)]);
  ("vdec_fillbuffer_cmd", Struct [("buffer", vdec_bufferpayload); ("client_data", ptr)])].
Definition vdec_profile_level : cty := Struct [("profiles", uint32_t); ("levels", uint32_t)].
Definition structs_vdec_picsize : list (string * cty) :=
  let vdec_picsize := Struct [("frame_width", uint32_t); ("frame_height", uint32_t);
   ("stride", uint32_t); ("scan_lines", uint32_t)] in
  let vdec_framesize := Struct [("left", uint32_t); ("top", uint32_t); ("right", uint32_t);
   ("bottom", uint32_t)] in
  let vdec_aspectratioinfo := Struct [("aspect_ratio", uint32_t); ("par_width", uint32_t);
   ("par_height", uint32_t)] in
  let vdec_sep_metadatainfo := Struct [("metabufaddr", ptr); ("size", uint32_t); ("fd", int);
   ("offset", int); ("buffer_size", uint32_t)] in
  let vdec_output_frameinfo := Struct [("bufferaddr", ptr); ("offset", size_t); ("len", size_t);
   ("flags", uint32_t); ("time_stamp", int64_t); ("pic_type", enum); ("client_data", ptr);
   ("input_frame_clientdata", ptr); ("picsize", vdec_picsize); ("framesize", vdec_framesize);
   ("interlaced_format", enum); ("aspect_ratio_info", vdec_aspectratioinfo);
   ("metadata_info", vdec_sep_metadatainfo)] in
  let vdec_msgdata := Union [("output_frame", vdec_output_frameinfo);
   ("input_frame_clientdata", ptr)] in
  [
  ("vdec_picsize", vdec_picsize);
  ("vdec_seqheader", Struct [("ptr_seqheader", ptr); ("seq_header_len", size_t);
   ("pmem_fd", int); ("pmem_offset", size_t)]);
  ("vdec_mberror", Struct [("ptr_errormap", ptr); ("err_mapsize", size_t)]);
  ("vdec_input_frameinfo", Struct [("bufferaddr", ptr); ("offset", size_t); ("datalen", size_t);
   ("flags", uint32_t); ("timestamp", int64_t); ("client_data", ptr); ("pmem_fd", int);
   ("pmem_offset", size_t); ("desc_addr", ptr); ("desc_size", uint32_t)]);
  ("vdec_framesize", vdec_framesize);
  ("vdec_aspectratioinfo", vdec_aspectratioinfo);
  ("vdec_sep_metadatainfo", vdec_sep_metadatainfo);
  ("vdec_output_frameinfo", vdec_output_frameinfo);
  ("vdec_msgdata", vdec_msgdata);
  ("vdec_msginfo", Struct [("status_code", uint32_t); ("msgcode", uint32_t);
   ("msgdata", vdec_msgdata); ("msgdatasize", size_t)]);
  ("vdec_framerate", Struct [("fps_denominator", ulong); ("fps_numerator", ulong)]);
  ("vdec_h264_mv", Struct [("size", size_t); ("count", int); ("pmem_fd", int); ("offset", int)]);
  ("vdec_mv_buff_size", Struct [("width", int); ("height", int); ("size", int);
   ("alignment", int)]);
  ("vdec_meta_buffers", Struct [("size", size_t); ("count", int); ("pmem_fd", int);
   ("pmem_fd_iommu", int); ("offset", int)])].
Definition msm_vidc_dec_types : list (string * cty) :=
  ([("vdec_ioctl_msg", vdec_ioctl_msg)] ++ structs_vdec_allocatorproperty ++
   [("vdec_profile_level", vdec_profile_level)] ++ structs_vdec_picsize)%list.
Definition msm_vidc_dec_ioctls_1 : list command := [
  _IOWR "VDEC_IOCTL_GET_PROFILE_LEVEL_SUPPORTED" (chr "v") 0 vdec_ioctl_msg;
  _IOR "VDEC_IOCTL_GET_INTERLACE_FORMAT" (chr "v") 1 vdec_ioctl_msg;
  _IOWR "VDEC_IOCTL_GET_CURRENT_PROFILE_LEVEL" (chr "v") 2 vdec_ioctl_msg;
  _IOWR "VDEC_IOCTL_SET_OUTPUT_FORMAT" (chr "v") 3 vdec_ioctl_msg;
  _IOWR "VDEC_IOCTL_GET_OUTPUT_FORMAT" (chr "v") 4 vdec_ioctl_msg;
  _IOW "VDEC_IOCTL_SET_CODEC" (chr "v") 5 vdec_ioctl_msg;
  _IOR "VDEC_IOCTL_GET_CODEC" (chr "v") 6 vdec_ioctl_msg;
  _IOW "VDEC_IOCTL_SET_PICRES" (chr "v") 7 vdec_ioctl_msg;
  _IOR "VDEC_IOCTL_GET_PICRES" (chr "v") 8 vdec_ioctl_msg;
  _IOW "VDEC_IOCTL_SET_EXTRADATA" (chr "v") 9 vdec_ioctl_msg;
  _IOR "VDEC_IOCTL_GET_EXTRADATA" (chr "v") 10 vdec_ioctl_msg;
  _IOW "VDEC_IOCTL_SET_SEQUENCE_HEADER" (chr "v") 11 vdec_ioctl_msg;
  _IOW "VDEC_IOCTL_SET_BUFFER_REQ" (chr "v") 12 vdec_ioctl_msg;
  _IOR "VDEC_IOCTL_GET_BUFFER_REQ" (chr "v") 13 vdec_ioctl_msg;
  _IOWR "VDEC_IOCTL_ALLOCATE_BUFFER" (chr "v") 14 vdec_ioctl_msg;
  _IOW "VDEC_IOCTL_FREE_BUFFER" (chr "v") 15 vdec_ioctl_msg;
  _IOW "VDEC_IOCTL_SET_BUFFER" (chr "v") 16 vdec_ioctl_msg;
  _IOW "VDEC_IOCTL_FILL_OUTPUT_BUFFER" (chr "v") 17 vdec_ioctl_msg;
  _IOW "VDEC_IOCTL_DECODE_FRAME" (chr "v") 18 vdec_ioctl_msg;
  _IO "VDEC_IOCTL_LOAD_RESOURCES" (chr "v") 19;
  _IO "VDEC_IOCTL_CMD_START" (chr "v") 20;
  _IO "VDEC_IOCTL_CMD_STOP" (chr "v") 21;
  _IO "VDEC_IOCTL_CMD_PAUSE" (chr "v") 22;
  _IO "VDEC_IOCTL_CMD_RESUME" (chr "v") 23;
  _IOW "VDEC_IOCTL_CMD_FLUSH" (chr "v") 24 vdec_ioctl_msg].
Definition msm_vidc_dec_ioctls_2 : list command := [
  _IOR "VDEC_IOCTL_GET_NEXT_MSG" (chr "v") 25 vdec_ioctl_msg;
  _IO "VDEC_IOCTL_STOP_NEXT_MSG" (chr "v") 26;
  _IOR "VDEC_IOCTL_GET_NUMBER_INSTANCES" (chr "v") 27 vdec_ioctl_msg;
  _IOW "VDEC_IOCTL_SET_PICTURE_ORDER" (chr "v") 28 vdec_ioctl_msg;
  _IOW "VDEC_IOCTL_SET_FRAME_RATE" (chr "v") 29 vdec_ioctl_msg;
  _IOW "VDEC_IOCTL_SET_H264_MV_BUFFER" (chr "v") 30 vdec_ioctl_msg;
  _IOW "VDEC_IOCTL_FREE_H264_MV_BUFFER" (chr "v") 31 vdec_ioctl_msg;
  _IOR "VDEC_IOCTL_GET_MV_BUFFER_SIZE" (chr "v") 32 vdec_ioctl_msg;
  _IO "VDEC_IOCTL_SET_IDR_ONLY_DECODING" (chr "v") 33;
  _IO "VDEC_IOCTL_SET_CONT_ON_RECONFIG" (chr "v") 34;
  _IOW "VDEC_IOCTL_SET_DISABLE_DMX" (chr "v") 35 vdec_ioctl_msg;
  _IOR "VDEC_IOCTL_GET_DISABLE_DMX" (chr "v") 36 vdec_ioctl_msg;
  _IOR "VDEC_IOCTL_GET_DISABLE_DMX_SUPPORT" (chr "v") 37 vdec_ioctl_msg;
  _IOR "VDEC_IOCTL_SET_PERF_CLK" (chr "v") 38 vdec_ioctl_msg;
  _IOW "VDEC_IOCTL_SET_META_BUFFERS" (chr "v") 39 vdec_ioctl_msg;
  _IO "VDEC_IOCTL_FREE_META_BUFFERS" (chr "v") 40].
Definition msm_vidc_dec_ioctls : list command :=
  (msm_vidc_dec_ioctls_1 ++ msm_vidc_dec_ioctls_2)%list.
End Msm_vidc_dec.

(** ** [linux/msm_vidc_enc.h] *)

Module Msm_vidc_enc.
Definition venc_ioctl_msg : cty := Struct [("in", ptr); ("out", ptr)].
Definition structs_venc_range : list (string * cty) :=
  [
  ("venc_range", Struct [("max", ulong); ("min", ulong); ("step_size", ulong)]);
  ("venc_switch", Struct [("status", uchar)]);
  ("venc_allocatorproperty", Struct [("mincount", ulong); ("maxcount", ulong);
   ("actualcount", ulong); ("datasize", ulong); ("suffixsize", ulong); ("alignment", ulong);
   ("bufpoolid", ulong)]);
  ("venc_bufferpayload", Struct [("pbuffer", ptr); ("sz", size_t); ("fd", int); ("offset", uint);
   ("maped_size", uint); ("filled_len", ulong)]);
  ("venc_buffer", Struct [("ptrbuffer", ptr); ("sz", ulong); ("len", ulong); ("offset", ulong);
   ("timestamp", llong); ("flags", ulong); ("clientdata", ptr)]);
  ("venc_basecfg", Struct [("input_width", ulong); ("input_height", ulong); ("dvs_width", ulong);
   ("dvs_height", ulong); ("codectype", ulong); ("fps_num", ulong); ("fps_den", ulong);
   ("targetbitrate", ulong); ("inputformat", ulong)]);
  ("venc_profile", Struct [("profile", ulong)]);
  ("ven_profilelevel", Struct [("level", ulong)]);
  ("venc_sessionqp", Struct [("iframeqp", ulong); ("pframqp", ulong)]);
  ("venc_qprange", Struct [("maxqp", ulong); ("minqp", ulong)]);
  ("venc_plusptype", Struct [("plusptype_enable", ulong)]);
  ("venc_intraperiod", Struct [("num_pframes", ulong); ("num_bframes", ulong)]);
  ("venc_seqheader", Struct [("hdrbufptr", ptr); ("bufsize", ulong); ("hdrlen", ulong)]);
  ("venc_capability", Struct [("codec_types", ulong); ("maxframe_width", ulong);
   ("maxframe_height", ulong); ("maxtarget_bitrate", ulong); ("maxframe_rate", ulong);
   ("input_formats", ulong); ("dvs", uchar)]);
  ("venc_entropycfg", Struct [("longentropysel", uint); ("cabacmodel", ulong)]);
  ("venc_dbcfg", Struct [("db_mode", ulong); ("slicealpha_offset", ulong);
   ("slicebeta_offset", ulong)]);
  ("venc_intrarefresh", Struct [("irmode", ulong); ("mbcount", ulong)]);
  ("venc_multiclicecfg", Struct [("mslice_mode", ulong); ("mslice_size", ulong)]);
  ("venc_bufferflush", Struct [("flush_mode", ulong)]);
  ("venc_ratectrlcfg", Struct [("rcmode", ulong)]);
  ("venc_voptimingcfg", Struct [("voptime_resolution", ulong)]);
  ("venc_framerate", Struct [("fps_denominator", ulong); ("fps_numerator", ulong)]);
  ("venc_targetbitrate", Struct [("target_bitrate", ulong)]);
  ("venc_rotation", Struct [("rotation", ulong)]);
  ("venc_timeout", Struct [("millisec", ulong)]);
  ("venc_headerextension", Struct [("header_extension", ulong)])].
Definition venc_buffer : cty := type_in structs_venc_range "venc_buffer".
Definition structs_venc_msg : list (string * cty) :=
  [
  ("venc_msg", Struct [("statuscode", ulong); ("msgcode", ulong); ("buf", venc_buffer);
   ("msgdata_size", ulong)]);
  ("venc_recon_addr", Struct [("pbuffer", ptr); ("buffer_size", ulong); ("pmem_fd", ulong);
   ("offset", ulong)]);
  ("venc_recon_buff_size", Struct [("width", int); ("height", int); ("size", int);
   ("alignment", int)]);
  ("venc_ltrmode", Struct [("ltr_mode", ulong)]);
  ("venc_ltrcount", Struct [("ltr_count", ulong)]);
  ("venc_ltrperiod", Struct [("ltr_period", ulong)]);
  ("venc_ltruse", Struct [("ltr_id", ulong); ("ltr_frames", ulong)])].
Definition msm_vidc_enc_types : list (string * cty) :=
  ([("venc_ioctl_msg", venc_ioctl_msg)] ++ structs_venc_range ++ structs_venc_msg)%list.
Definition msm_vidc_enc_ioctls_1 : list command := [
  _IOW "VEN_IOCTL_SET_INTF_VERSION" 0x800 0 venc_ioctl_msg;
  _IOWR "VEN_IOCTL_CMD_READ_NEXT_MSG" 0x800 1 venc_ioctl_msg;
  _IO "VEN_IOCTL_CMD_STOP_READ_MSG" 0x800 2;
  _IOW "VEN_IOCTL_SET_INPUT_BUFFER_REQ" 0x800 3 venc_ioctl_msg;
  _IOR "VEN_IOCTL_GET_INPUT_BUFFER_REQ" 0x800 4 venc_ioctl_msg;
  _IOW "VEN_IOCTL_CMD_ALLOC_INPUT_BUFFER" 0x800 5 venc_ioctl_msg;
  _IOW "VEN_IOCTL_SET_INPUT_BUFFER" 0x800 6 venc_ioctl_msg;
  _IOW "VEN_IOCTL_CMD_FREE_INPUT_BUFFER" 0x800 7 venc_ioctl_msg;
  _IOW "VEN_IOCTL_SET_OUTPUT_BUFFER_REQ" 0x800 8 venc_ioctl_msg;
  _IOR "VEN_IOCTL_GET_OUTPUT_BUFFER_REQ" 0x800 9 venc_ioctl_msg;
  _IOW "VEN_IOCTL_CMD_ALLOC_OUTPUT_BUFFER" 0x800 10 venc_ioctl_msg;
  _IOW "VEN_IOCTL_SET_OUTPUT_BUFFER" 0x800 11 venc_ioctl_msg;
  _IOW "VEN_IOCTL_CMD_FREE_OUTPUT_BUFFER" 0x800 12 venc_ioctl_msg;
  _IO "VEN_IOCTL_CMD_START" 0x800 13;
  _IOW "VEN_IOCTL_CMD_ENCODE_FRAME" 0x800 14 venc_ioctl_msg;
  _IOW "VEN_IOCTL_CMD_FILL_OUTPUT_BUFFER" 0x800 15 venc_ioctl_msg;
  _IOW "VEN_IOCTL_CMD_FLUSH" 0x800 16 venc_ioctl_msg;
  _IO "VEN_IOCTL_CMD_PAUSE" 0x800 17;
  _IO "VEN_IOCTL_CMD_RESUME" 0x800 18;
  _IO "VEN_IOCTL_CMD_STOP" 0x800 19;
  _IOW "VEN_IOCTL_SET_RECON_BUFFER" 0x800 20 venc_ioctl_msg;
  _IOW "VEN_IOCTL_FREE_RECON_BUFFER" 0x800 21 venc_ioctl_msg;
  _IOW "VEN_IOCTL_GET_RECON_BUFFER_SIZE" 0x800 22 venc_ioctl_msg].
Definition msm_vidc_enc_ioctls_2 : list command := [
  _IOW "VEN_IOCTL_SET_BASE_CFG" 0x850 1 venc_ioctl_msg;
  _IOR "VEN_IOCTL_GET_BASE_CFG" 0x850 2 venc_ioctl_msg;
  _IOW "VEN_IOCTL_SET_LIVE_MODE" 0x850 3 venc_ioctl_msg;
  _IOR "VEN_IOCTL_GET_LIVE_MODE" 0x850 4 venc_ioctl_msg;
  _IOW "VEN_IOCTL_SET_CODEC_PROFILE" 0x850 5 venc_ioctl_msg;
  _IOR "VEN_IOCTL_GET_CODEC_PROFILE" 0x850 6 venc_ioctl_msg;
  _IOW "VEN_IOCTL_SET_PROFILE_LEVEL" 0x850 7 venc_ioctl_msg;
  _IOR "VEN_IOCTL_GET_PROFILE_LEVEL" 0x850 8 venc_ioctl_msg;
  _IOW "VEN_IOCTL_SET_SHORT_HDR" 0x850 9 venc_ioctl_msg;
  _IOR "VEN_IOCTL_GET_SHORT_HDR" 0x850 10 venc_ioctl_msg;
  _IOW "VEN_IOCTL_SET_SESSION_QP" 0x850 11 venc_ioctl_msg;
  _IOR "VEN_IOCTL_GET_SESSION_QP" 0x850 12 venc_ioctl_msg;
  _IOW "VEN_IOCTL_SET_INTRA_PERIOD" 0x850 13 venc_ioctl_msg;
  _IOR "VEN_IOCTL_GET_INTRA_PERIOD" 0x850 14 venc_ioctl_msg;
  _IO "VEN_IOCTL_CMD_REQUEST_IFRAME" 0x850 15;
  _IOR "VEN_IOCTL_GET_CAPABILITY" 0x850 16 venc_ioctl_msg;
  _IOR "VEN_IOCTL_GET_SEQUENCE_HDR" 0x850 17 venc_ioctl_msg;
  _IOW "VEN_IOCTL_SET_ENTROPY_CFG" 0x850 18 venc_ioctl_msg;
  _IOR "VEN_IOCTL_GET_ENTROPY_CFG" 0x850 19 venc_ioctl_msg;
  _IOW "VEN_IOCTL_SET_DEBLOCKING_CFG" 0x850 20 venc_ioctl_msg;
  _IOR "VEN_IOCTL_GET_DEBLOCKING_CFG" 0x850 21 venc_ioctl_msg;
  _IOW "VEN_IOCTL_SET_INTRA_REFRESH" 0x850 22 venc_ioctl_msg;
  _IOR "VEN_IOCTL_GET_INTRA_REFRESH" 0x850 23 venc_ioctl_msg;
  _IOW "VEN_IOCTL_SET_MULTI_SLICE_CFG" 0x850 24 venc_ioctl_msg;
  _IOR "VEN_IOCTL_GET_MULTI_SLICE_CFG" 0x850 25 venc_ioctl_msg;
  _IOW "VEN_IOCTL_SET_RATE_CTRL_CFG" 0x850 26 venc_ioctl_msg;
  _IOR "VEN_IOCTL_GET_RATE_CTRL_CFG" 0x850 27 venc_ioctl_msg;
  _IOW "VEN_IOCTL_SET_VOP_TIMING_CFG" 0x850 28 venc_ioctl_msg;
  _IOR "VEN_IOCTL_GET_VOP_TIMING_CFG" 0x850 29 venc_ioctl_msg;
  _IOW "VEN_IOCTL_SET_FRAME_RATE" 0x850 30 venc_ioctl_msg;
  _IOR "VEN_IOCTL_GET_FRAME_RATE" 0x850 31 venc_ioctl_msg;
  _IOW "VEN_IOCTL_SET_TARGET_BITRATE" 0x850 32 venc_ioctl_msg;
  _IOR "VEN_IOCTL_GET_TARGET_BITRATE" 0x850 33 venc_ioctl_msg;
  _IOW "VEN_IOCTL_SET_ROTATION" 0x850 34 venc_ioctl_msg;
  _IOR "VEN_IOCTL_GET_ROTATION" 0x850 35 venc_ioctl_msg;
  _IOW "VEN_IOCTL_SET_HEC" 0x850 36 venc_ioctl_msg;
  _IOR "VEN_IOCTL_GET_HEC" 0x850 37 venc_ioctl_msg;
  _IOW "VEN_IOCTL_SET_DATA_PARTITION" 0x850 38 venc_ioctl_msg;
  _IOR "VEN_IOCTL_GET_DATA_PARTITION" 0x850 39 venc_ioctl_msg].
Definition msm_vidc_enc_ioctls_3 : list command := [
  _IOW "VEN_IOCTL_SET_RVLC" 0x850 40 venc_ioctl_msg;
  _IOR "VEN_IOCTL_GET_RVLC" 0x850 41 venc_ioctl_msg;
  _IOW "VEN_IOCTL_SET_AC_PREDICTION" 0x850 42 venc_ioctl_msg;
  _IOR "VEN_IOCTL_GET_AC_PREDICTION" 0x850 43 venc_ioctl_msg;
  _IOW "VEN_IOCTL_SET_QP_RANGE" 0x850 44 venc_ioctl_msg;
  _IOR "VEN_IOCTL_GET_QP_RANGE" 0x850 45 venc_ioctl_msg;
  _IOR "VEN_IOCTL_GET_NUMBER_INSTANCES" 0x850 46 venc_ioctl_msg;
  _IOW "VEN_IOCTL_SET_METABUFFER_MODE" 0x850 47 venc_ioctl_msg;
  _IOW "VEN_IOCTL_SET_EXTRADATA" 0x850 48 venc_ioctl_msg;
  _IOR "VEN_IOCTL_GET_EXTRADATA" 0x850 49 venc_ioctl_msg;
  _IO "VEN_IOCTL_SET_SLICE_DELIVERY_MODE" 0x850 50;
  _IOW "VEN_IOCTL_SET_H263_PLUSPTYPE" 0x850 51 venc_ioctl_msg;
  _IOW "VEN_IOCTL_SET_CAPABILITY_LTRCOUNT" 0x850 52 venc_ioctl_msg;
  _IOR "VEN_IOCTL_GET_CAPABILITY_LTRCOUNT" 0x850 53 venc_ioctl_msg;
  _IOW "VEN_IOCTL_SET_LTRMODE" 0x850 54 venc_ioctl_msg;
  _IOR "VEN_IOCTL_GET_LTRMODE" 0x850 55 venc_ioctl_msg;
  _IOW "VEN_IOCTL_SET_LTRCOUNT" 0x850 56 venc_ioctl_msg;
  _IOR "VEN_IOCTL_GET_LTRCOUNT" 0x850 57 venc_ioctl_msg;
  _IOW "VEN_IOCTL_SET_LTRPERIOD" 0x850 58 venc_ioctl_msg;
  _IOR "VEN_IOCTL_GET_LTRPERIOD" 0x850 59 venc_ioctl_msg;
  _IOW "VEN_IOCTL_SET_LTRUSE" 0x850 60 venc_ioctl_msg;
  _IOR "VEN_IOCTL_GET_LTRUSE" 0x850 61 venc_ioctl_msg;
  _IOW "VEN_IOCTL_SET_LTRMARK" 0x850 62 venc_ioctl_msg;
  _IOR "VEN_IOCTL_GET_LTRMARK" 0x850 63 venc_ioctl_msg;
  _IOW "VEN_IOCTL_SET_SPS_PPS_FOR_IDR" 0x850 64 venc_ioctl_msg].
Definition msm_vidc_enc_ioctls : list command :=
  (msm_vidc_enc_ioctls_1 ++ msm_vidc_enc_ioctls_2 ++ msm_vidc_enc_ioctls_3)%list.
End Msm_vidc_enc.

(** ** [linux/omap3isp.h] *)

Module Omap3isp.
Definition OMAP3ISP_HIST_MAX_REGIONS : Z := 4.
Definition OMAP3ISP_HIST_MAX_WG : Z := 4.
Definition OMAP3ISP_AF_NUM_COEF : Z := 11.
Definition OMAP3ISP_RGB_MAX : Z := 3.
Definition OMAP3ISP_PREV_NF_TBL_SIZE : Z := 64.
Definition OMAP3ISP_PREV_CFA_BLK_SIZE : Z := 144.
Definition OMAP3ISP_PREV_GAMMA_TBL_SIZE : Z := 1024.
Definition OMAP3ISP_PREV_YENH_TBL_SIZE : Z := 128.
Definition OMAP3ISP_PREV_DETECT_CORRECT_CHANNELS : Z := 4.
Definition omap3isp_stat_event_status : cty :=
  Struct [("frame_number", __u32); ("config_counter", __u16); ("buf_err", __u8)].
Definition structs_omap3isp_h3a_aewb_config : list (string * cty) :=
  [
  ("omap3isp_h3a_aewb_config", Struct [("buf_size", __u32); ("config_counter", __u16);
   ("saturation_limit", __u16); ("win_height", __u16); ("win_width", __u16);
   ("ver_win_count", __u16); ("hor_win_count", __u16); ("ver_win_start", __u16);
   ("hor_win_start", __u16); ("blk_ver_win_start", __u16); ("blk_win_height", __u16);
   ("subsample_ver_inc", __u16); ("subsample_hor_inc", __u16); ("alaw_enable", __u8)]);
  ("omap3isp_stat_data", Struct [("ts", timeval); ("buf", ptr); ("buf_size", __u32);
   ("frame_number", __u16); ("cur_frame", __u16); ("config_counter", __u16)])].
Definition omap3isp_h3a_aewb_config : cty := type_in structs_omap3isp_h3a_aewb_config "omap3isp_h3a_aewb_config".
Definition omap3isp_stat_data : cty := type_in structs_omap3isp_h3a_aewb_config "omap3isp_stat_data".
Definition structs_omap3isp_hist_region : list (string * cty) :=
  let omap3isp_hist_region := Struct [("h_start", __u16); ("h_end", __u16); ("v_start", __u16);
   ("v_end", __u16)] in
  [
  ("omap3isp_hist_region", omap3isp_hist_region);
  ("omap3isp_hist_config", Struct [("buf_size", __u32); ("config_counter", __u16);
   ("num_acc_frames", __u8); ("hist_bins", __u16); ("cfa", __u8);
   ("wg", Arr OMAP3ISP_HIST_MAX_WG __u8); ("num_regions", __u8);
   ("region", Arr OMAP3ISP_HIST_MAX_REGIONS omap3isp_hist_region)])].
Definition omap3isp_hist_config : cty := type_in structs_omap3isp_hist_region "omap3isp_hist_config".
Definition structs_omap3isp_h3a_af_hmf : list (string * cty) :=
  let omap3isp_h3a_af_hmf := Struct [("enable", __u8); ("threshold", __u8)] in
  let omap3isp_h3a_af_iir := Struct [("h_start", __u16);
   ("coeff_set0", Arr OMAP3ISP_AF_NUM_COEF __u16);
   ("coeff_set1", Arr OMAP3ISP_AF_NUM_COEF __u16)] in
  let omap3isp_h3a_af_paxel := Struct [("h_start", __u16); ("v_start", __u16); ("width", __u8);
   ("height", __u8); ("h_cnt", __u8); ("v_cnt", __u8); ("line_inc", __u8)] in
  [
  ("omap3isp_h3a_af_hmf", omap3isp_h3a_af_hmf);
  ("omap3isp_h3a_af_iir", omap3isp_h3a_af_iir);
  ("omap3isp_h3a_af_paxel", omap3isp_h3a_af_paxel);
  ("omap3isp_h3a_af_config", Struct [("buf_size", __u32); ("config_counter", __u16);
   ("hmf", omap3isp_h3a_af_hmf); ("iir", omap3isp_h3a_af_iir); ("paxel", omap3isp_h3a_af_paxel);
   ("rgb_pos", enum); ("fvmode", enum); ("alaw_enable", __u8)])].
Definition omap3isp_h3a_af_config : cty := type_in structs_omap3isp_h3a_af_hmf "omap3isp_h3a_af_config".
Definition structs_omap3isp_ccdc_lsc_config : list (string * cty) :=
  [
  ("omap3isp_ccdc_lsc_config", Struct [("offset", __u16); ("gain_mode_n", __u8);
   ("gain_mode_m", __u8); ("gain_format", __u8); ("fmtsph", __u16); ("fmtlnh", __u16);
   ("fmtslv", __u16); ("fmtlnv", __u16); ("initial_x", __u8); ("initial_y", __u8);
   ("size", __u32)]);
  ("omap3isp_ccdc_bclamp", Struct [("obgain", __u8); ("obstpixel", __u8); ("oblines", __u8);
   ("oblen", __u8); ("dcsubval", __u16)]);
  ("omap3isp_ccdc_fpc", Struct [("fpnum", __u16); ("fpcaddr", __u32)]);
  ("omap3isp_ccdc_blcomp", Struct [("b_mg", __u8); ("gb_g", __u8); ("gr_cy", __u8);
   ("r_ye", __u8)]);
  ("omap3isp_ccdc_culling", Struct [("v_pattern", __u8); ("h_odd", __u16); ("h_even", __u16)]);
  ("omap3isp_ccdc_update_config", Struct [("update", __u16); ("flag", __u16); ("alawip", enum);
   ("bclamp", ptr); ("blcomp", ptr); ("fpc", ptr); ("lsc_cfg", ptr); ("cull", ptr);
   ("lsc", ptr)])].
Definition omap3isp_ccdc_update_config : cty := type_in structs_omap3isp_ccdc_lsc_config "omap3isp_ccdc_update_config".
Definition omap3isp_prev_hmed : cty :=
  Struct [("odddist", __u8); ("evendist", __u8); ("thres", __u8)].
Definition structs_omap3isp_prev_cfa : list (string * cty) :=
  [
  ("omap3isp_prev_cfa", Struct [("format", enum); ("gradthrs_vert", __u8);
   ("gradthrs_horz", __u8); ("table", Arr 4 (Arr OMAP3ISP_PREV_CFA_BLK_SIZE __u32))]);
  ("omap3isp_prev_csup", Struct [("gain", __u8); ("thres", __u8); ("hypf_en", __u8)]);
  ("omap3isp_prev_wbal", Struct [("dgain", __u16); ("coef3", __u8); ("coef2", __u8);
   ("coef1", __u8); ("coef0", __u8)]);
  ("omap3isp_prev_blkadj", Struct [("red", __u8); ("green", __u8); ("blue", __u8)]);
  ("omap3isp_prev_rgbtorgb", Struct [("matrix", Arr OMAP3ISP_RGB_MAX (Arr OMAP3ISP_RGB_MAX __u16));
   ("offset", Arr OMAP3ISP_RGB_MAX __u16)]);
  ("omap3isp_prev_csc", Struct [("matrix", Arr OMAP3ISP_RGB_MAX (Arr OMAP3ISP_RGB_MAX __u16));
   ("offset", Arr OMAP3ISP_RGB_MAX __s16)]);
  ("omap3isp_prev_yclimit", Struct [("minC", __u8); ("maxC", __u8); ("minY", __u8);
   ("maxY", __u8)]);
  ("omap3isp_prev_dcor", Struct [("couplet_mode_en", __u8);
   ("detect_correct", Arr OMAP3ISP_PREV_DETECT_CORRECT_CHANNELS __u32)]);
  ("omap3isp_prev_nf", Struct [("spread", __u8); ("table", Arr OMAP3ISP_PREV_NF_TBL_SIZE __u32)]);
  ("omap3isp_prev_gtables", Struct [("red", Arr OMAP3ISP_PREV_GAMMA_TBL_SIZE __u32);
   ("green", Arr OMAP3ISP_PREV_GAMMA_TBL_SIZE __u32);
   ("blue", Arr OMAP3ISP_PREV_GAMMA_TBL_SIZE __u32)]);
  ("omap3isp_prev_luma", Struct [("table", Arr OMAP3ISP_PREV_YENH_TBL_SIZE __u32)])].
Definition omap3isp_prev_update_config : cty :=
  Struct [("update", __u32); ("flag", __u32); ("shading_shift", __u32); ("luma", ptr);
   ("hmed", ptr); ("cfa", ptr); ("csup", ptr); ("wbal", ptr); ("blkadj", ptr); ("rgb2rgb", ptr);
   ("csc", ptr); ("yclimit", ptr); ("dcor", ptr); ("nf", ptr); ("gamma", ptr)].
Definition omap3isp_types : list (string * cty) :=
  ([("omap3isp_stat_event_status", omap3isp_stat_event_status)] ++
   structs_omap3isp_h3a_aewb_config ++ structs_omap3isp_hist_region ++
   structs_omap3isp_h3a_af_hmf ++ structs_omap3isp_ccdc_lsc_config ++ [("omap3isp_prev_hmed",
   omap3isp_prev_hmed)] ++ structs_omap3isp_prev_cfa ++ [("omap3isp_prev_update_config",
   omap3isp_prev_update_config)])%list.
Definition omap3isp_ioctls : list command := [
  _IOWR "VIDIOC_OMAP3ISP_CCDC_CFG" (chr "V") 193 omap3isp_ccdc_update_config;
  _IOWR "VIDIOC_OMAP3ISP_PRV_CFG" (chr "V") 194 omap3isp_prev_update_config;
  _IOWR "VIDIOC_OMAP3ISP_AEWB_CFG" (chr "V") 195 omap3isp_h3a_aewb_config;
  _IOWR "VIDIOC_OMAP3ISP_HIST_CFG" (chr "V") 196 omap3isp_hist_config;
  _IOWR "VIDIOC_OMAP3ISP_AF_CFG" (chr "V") 197 omap3isp_h3a_af_config;
  _IOWR "VIDIOC_OMAP3ISP_STAT_REQ" (chr "V") 198 omap3isp_stat_data;
  _IOWR "VIDIOC_OMAP3ISP_STAT_EN" (chr "V") 199 ulong].
End Omap3isp.

(** ** [linux/uvcvideo.h] *)

Module Uvcvideo.
Definition structs_uvc_menu_info : list (string * cty) :=
  [
  ("uvc_menu_info", Struct [("value", __u32); ("name", Arr 32 __u8)]);
  ("uvc_xu_control_mapping", Struct [("id", __u32); ("name", Arr 32 __u8);
   ("entity", Arr 16 __u8); ("selector", __u8); ("size", __u8); ("offset", __u8);
   ("v4l2_type", __u32); ("data_type", __u32); ("menu_info", ptr); ("menu_count", __u32);
   ("reserved", Arr 4 __u32)]);
  ("uvc_xu_control_query", Struct [("unit", __u8); ("selector", __u8); ("query", __u8);
   ("size", __u16); ("data", ptr)])].
Definition uvc_xu_control_mapping : cty := type_in structs_uvc_menu_info "uvc_xu_control_mapping".
Definition uvc_xu_control_query : cty := type_in structs_uvc_menu_info "uvc_xu_control_query".
Definition uvcvideo_types : list (string * cty) := structs_uvc_menu_info.
Definition uvcvideo_ioctls : list command := [
  _IOWR "UVCIOC_CTRL_MAP" (chr "u") 32 uvc_xu_control_mapping;
  _IOWR "UVCIOC_CTRL_QUERY" (chr "u") 33 uvc_xu_control_query].
End Uvcvideo.

(** ** [linux/v4l2-mediabus.h] *)

Module V4l2_mediabus.
Definition v4l2_mbus_framefmt : cty :=
  Struct [("width", __u32); ("height", __u32); ("code", __u32); ("field", __u32);
   ("colorspace", __u32); ("ycbcr_enc", __u16); ("quantization", __u16); ("xfer_func", __u16);
   ("reserved", Arr 11 __u16)].
Definition v4l2_mediabus_types : list (string * cty) := [("v4l2_mbus_framefmt", v4l2_mbus_framefmt)].
End V4l2_mediabus.

(** ** [linux/v4l2-subdev.h] *)

Module V4l2_subdev.
Definition structs_v4l2_subdev_format : list (string * cty) :=
  [
  ("v4l2_subdev_format", Struct [("which", __u32); ("pad", __u32);
   ("format", V4l2_mediabus.v4l2_mbus_framefmt); ("reserved", Arr 8 __u32)]);
  ("v4l2_subdev_crop", Struct [("which", __u32); ("pad", __u32); ("rect", Videodev2.v4l2_rect);
   ("reserved", Arr 8 __u32)]);
  ("v4l2_subdev_mbus_code_enum", Struct [("pad", __u32); ("index", __u32); ("code", __u32);
   ("which", __u32); ("reserved", Arr 8 __u32)]);
  ("v4l2_subdev_frame_size_enum", Struct [("index", __u32); ("pad", __u32); ("code", __u32);
   ("min_width", __u32); ("max_width", __u32); ("min_height", __u32); ("max_height", __u32);
   ("which", __u32); ("reserved", Arr 8 __u32)]);
  ("v4l2_subdev_frame_interval", Struct [("pad", __u32); ("interval", Videodev2.v4l2_fract);
   ("reserved", Arr 9 __u32)]);
  ("v4l2_subdev_frame_interval_enum", Struct [("index", __u32); ("pad", __u32); ("code", __u32);
   ("width", __u32); ("height", __u32); ("interval", Videodev2.v4l2_fract); ("which", __u32);
   ("reserved", Arr 8 __u32)]);
  ("v4l2_subdev_selection", Struct [("which", __u32); ("pad", __u32); ("target", __u32);
   ("flags", __u32); ("r", Videodev2.v4l2_rect); ("reserved", Arr 8 __u32)])].
Definition v4l2_subdev_format : cty := type_in structs_v4l2_subdev_format "v4l2_subdev_format".
Definition v4l2_subdev_crop : cty := type_in structs_v4l2_subdev_format "v4l2_subdev_crop".
Definition v4l2_subdev_mbus_code_enum : cty := type_in structs_v4l2_subdev_format "v4l2_subdev_mbus_code_enum".
Definition v4l2_subdev_frame_size_enum : cty := type_in structs_v4l2_subdev_format "v4l2_subdev_frame_size_enum".
Definition v4l2_subdev_frame_interval : cty := type_in structs_v4l2_subdev_format "v4l2_subdev_frame_interval".
Definition v4l2_subdev_frame_interval_enum : cty := type_in structs_v4l2_subdev_format "v4l2_subdev_frame_interval_enum".
Definition v4l2_subdev_selection : cty := type_in structs_v4l2_subdev_format "v4l2_subdev_selection".
Definition v4l2_subdev_types : list (string * cty) := structs_v4l2_subdev_format.
Definition v4l2_subdev_ioctls : list command := [
  _IOWR "VIDIOC_SUBDEV_G_FMT" (chr "V") 4 v4l2_subdev_format;
  _IOWR "VIDIOC_SUBDEV_S_FMT" (chr "V") 5 v4l2_subdev_format;
  _IOWR "VIDIOC_SUBDEV_G_FRAME_INTERVAL" (chr "V") 21 v4l2_subdev_frame_interval;
  _IOWR "VIDIOC_SUBDEV_S_FRAME_INTERVAL" (chr "V") 22 v4l2_subdev_frame_interval;
  _IOWR "VIDIOC_SUBDEV_ENUM_MBUS_CODE" (chr "V") 2 v4l2_subdev_mbus_code_enum;
  _IOWR "VIDIOC_SUBDEV_ENUM_FRAME_SIZE" (chr "V") 74 v4l2_subdev_frame_size_enum;
  _IOWR "VIDIOC_SUBDEV_ENUM_FRAME_INTERVAL" (chr "V") 75 v4l2_subdev_frame_interval_enum;
  _IOWR "VIDIOC_SUBDEV_G_CROP" (chr "V") 59 v4l2_subdev_crop;
  _IOWR "VIDIOC_SUBDEV_S_CROP" (chr "V") 60 v4l2_subdev_crop;
  _IOWR "VIDIOC_SUBDEV_G_SELECTION" (chr "V") 61 v4l2_subdev_selection;
  _IOWR "VIDIOC_SUBDEV_S_SELECTION" (chr "V") 62 v4l2_subdev_selection;
  _IOWR "VIDIOC_SUBDEV_G_EDID" (chr "V") 40 V4l2_common.v4l2_edid;
  _IOWR "VIDIOC_SUBDEV_S_EDID" (chr "V") 41 V4l2_common.v4l2_edid;
  _IOWR "VIDIOC_SUBDEV_S_DV_TIMINGS" (chr "V") 87 Videodev2.v4l2_dv_timings;
  _IOWR "VIDIOC_SUBDEV_G_DV_TIMINGS" (chr "V") 88 Videodev2.v4l2_dv_timings;
  _IOWR "VIDIOC_SUBDEV_ENUM_DV_TIMINGS" (chr "V") 98 Videodev2.v4l2_enum_dv_timings;
  _IOR "VIDIOC_SUBDEV_QUERY_DV_TIMINGS" (chr "V") 99 Videodev2.v4l2_dv_timings;
  _IOWR "VIDIOC_SUBDEV_DV_TIMINGS_CAP" (chr "V") 100 Videodev2.v4l2_dv_timings_cap].
End V4l2_subdev.
