(* ===== verification/AbiDisplay.v ===== *)
(** * ABI of graphics memory, display and frame buffers

    The structures and unions of these headers of [kernel-headers], one module per
    header: the larger ones as types of their own, those that stand in a row as a
    block; and the ioctl commands with their arguments. *)
From S2P Require Import Prelude.
From S2P Require Import CLayout.
From S2P Require Import Ioctl.
#[local] Open Scope string_scope.

(** ** [linux/agpgart.h] *)

Module Agpgart.
Definition structs_agp_version : list (string * cty) :=
  let agp_version := Struct [("major", __u16); ("minor", __u16)] in
  [
  ("agp_version", agp_version);
  ("_agp_info", Struct [("version", agp_version); ("bridge_id", __u32); ("agp_mode", __u32);
   ("aper_base", ulong); ("aper_size", size_t); ("pg_total", size_t); ("pg_system", size_t);
   ("pg_used", size_t)])].
Definition _agp_info : cty := type_in structs_agp_version "_agp_info".
Definition structs_agp_info : list (string * cty) :=
  [
  ("agp_info", _agp_info);
  ("_agp_setup", Struct [("agp_mode", __u32)])].
Definition _agp_setup : cty := type_in structs_agp_info "_agp_setup".
Definition structs_agp_setup : list (string * cty) :=
  [
  ("agp_setup", _agp_setup);
  ("_agp_segment", Struct [("pg_start", __kernel_off_t); ("pg_count", __kernel_size_t);
   ("prot", int)])].
Definition _agp_segment : cty := type_in structs_agp_setup "_agp_segment".
Definition structs_agp_segment : list (string * cty) :=
  [
  ("agp_segment", _agp_segment);
  ("_agp_region", Struct [("pid", __kernel_pid_t); ("seg_count", __kernel_size_t);
   ("seg_list", ptr)])].
Definition _agp_region : cty := type_in structs_agp_segment "_agp_region".
Definition structs_agp_region : list (string * cty) :=
  [
  ("agp_region", _agp_region);
  ("_agp_allocate", Struct [("key", int); ("pg_count", __kernel_size_t); ("type", __u32);
   ("physical", __u32)])].
Definition _agp_allocate : cty := type_in structs_agp_region "_agp_allocate".
Definition structs_agp_allocate : list (string * cty) :=
  [
  ("agp_allocate", _agp_allocate);
  ("_agp_bind", Struct [("key", int); ("pg_start", __kernel_off_t)])].
Definition _agp_bind : cty := type_in structs_agp_allocate "_agp_bind".
Definition structs_agp_bind : list (string * cty) :=
  [
  ("agp_bind", _agp_bind);
  ("_agp_unbind", Struct [("key", int); ("priority", __u32)])].
Definition _agp_unbind : cty := type_in structs_agp_bind "_agp_unbind".
Definition agp_unbind : cty := _agp_unbind.
Definition agpgart_types : list (string * cty) :=
  (structs_agp_version ++ structs_agp_info ++ structs_agp_setup ++ structs_agp_segment ++
   structs_agp_region ++ structs_agp_allocate ++ structs_agp_bind ++ [("agp_unbind",
   agp_unbind)])%list.
Definition agpgart_ioctls : list command := [
  _IOR "AGPIOC_INFO" (chr "A") 0 ptr;
  _IO "AGPIOC_ACQUIRE" (chr "A") 1;
  _IO "AGPIOC_RELEASE" (chr "A") 2;
  _IOW "AGPIOC_SETUP" (chr "A") 3 ptr;
  _IOW "AGPIOC_RESERVE" (chr "A") 4 ptr;
  _IOW "AGPIOC_PROTECT" (chr "A") 5 ptr;
  _IOWR "AGPIOC_ALLOCATE" (chr "A") 6 ptr;
  _IOW "AGPIOC_DEALLOCATE" (chr "A") 7 int;
  _IOW "AGPIOC_BIND" (chr "A") 8 ptr;
  _IOW "AGPIOC_UNBIND" (chr "A") 9 ptr;
  _IO "AGPIOC_CHIPSET_FLUSH" (chr "A") 10].
End Agpgart.

(** ** [linux/android_pmem.h] *)

Module Android_pmem.
Definition structs_pmem_region : list (string * cty) :=
  [
  ("pmem_region", Struct [("offset", ulong); ("len", ulong)]);
  ("pmem_addr", Struct [("vaddr", ulong); ("offset", ulong); ("length", ulong)]);
  ("pmem_freespace", Struct [("total", ulong); ("largest", ulong)]);
  ("pmem_allocation", Struct [("size", ulong); ("align", uint)])].
Definition android_pmem_types : list (string * cty) := structs_pmem_region.
Definition android_pmem_ioctls : list command := [
  _IO "PMEM_KERNEL_TEST_NOMINAL_TEST_IOCTL" 0xc0 1;
  _IO "PMEM_KERNEL_TEST_ADVERSARIAL_TEST_IOCTL" 0xc0 2;
  _IO "PMEM_KERNEL_TEST_HUGE_ALLOCATION_TEST_IOCTL" 0xc0 3;
  _IO "PMEM_KERNEL_TEST_FREE_UNALLOCATED_TEST_IOCTL" 0xc0 4;
  _IO "PMEM_KERNEL_TEST_LARGE_REGION_NUMBER_TEST_IOCTL" 0xc0 5;
  _IOW "PMEM_GET_PHYS" (chr "p") 1 uint;
  _IOW "PMEM_MAP" (chr "p") 2 uint;
  _IOW "PMEM_GET_SIZE" (chr "p") 3 uint;
  _IOW "PMEM_UNMAP" (chr "p") 4 uint;
  _IOW "PMEM_ALLOCATE" (chr "p") 5 uint;
  _IOW "PMEM_CONNECT" (chr "p") 6 uint;
  _IOW "PMEM_GET_TOTAL_SIZE" (chr "p") 7 uint;
  _IOW "HW3D_REVOKE_GPU" (chr "p") 8 uint;
  _IOW "HW3D_GRANT_GPU" (chr "p") 9 uint;
  _IOW "HW3D_WAIT_FOR_INTERRUPT" (chr "p") 10 uint;
  _IOW "PMEM_CLEAN_INV_CACHES" (chr "p") 11 uint;
  _IOW "PMEM_CLEAN_CACHES" (chr "p") 12 uint;
  _IOW "PMEM_INV_CACHES" (chr "p") 13 uint;
  _IOW "PMEM_GET_FREE_SPACE" (chr "p") 14 uint;
  _IOW "PMEM_ALLOCATE_ALIGNED" (chr "p") 15 uint].
End Android_pmem.

(** ** [linux/arcfb.h] *)

Module Arcfb.
Definition arcfb_ioctls : list command := [
  _IO "FBIO_WAITEVENT" (chr "F") 136;
  _IOR "FBIO_GETCONTROL2" (chr "F") 137 size_t].
End Arcfb.

(** ** [linux/ashmem.h] *)

Module Ashmem.
Definition ASHMEM_NAME_LEN : Z := 256.
Definition ashmem_pin : cty := Struct [("offset", __u32); ("len", __u32)].
Definition ashmem_types : list (string * cty) := [("ashmem_pin", ashmem_pin)].
Definition ashmem_ioctls : list command := [
  _IOW "ASHMEM_SET_NAME" 0x77 1 (Arr ASHMEM_NAME_LEN char);
  _IOR "ASHMEM_GET_NAME" 0x77 2 (Arr ASHMEM_NAME_LEN char);
  _IOW "ASHMEM_SET_SIZE" 0x77 3 size_t;
  _IO "ASHMEM_GET_SIZE" 0x77 4;
  _IOW "ASHMEM_SET_PROT_MASK" 0x77 5 ulong;
  _IO "ASHMEM_GET_PROT_MASK" 0x77 6;
  _IOW "ASHMEM_PIN" 0x77 7 ashmem_pin;
  _IOW "ASHMEM_UNPIN" 0x77 8 ashmem_pin;
  _IO "ASHMEM_GET_PIN_STATUS" 0x77 9;
  _IO "ASHMEM_PURGE_ALL_CACHES" 0x77 10].
End Ashmem.

(** ** [linux/fb.h] *)

Module Fb.
Definition structs_fb_fix_screeninfo : list (string * cty) :=
  [
  ("fb_fix_screeninfo", Struct [("id", Arr 16 char); ("smem_start", ulong); ("smem_len", __u32);
   ("type", __u32); ("type_aux", __u32); ("visual", __u32); ("xpanstep", __u16);
   ("ypanstep", __u16); ("ywrapstep", __u16); ("line_length", __u32); ("mmio_start", ulong);
   ("mmio_len", __u32); ("accel", __u32); ("capabilities", __u16); ("reserved", Arr 2 __u16)]);
  ("fb_bitfield", Struct [("offset", __u32); ("length", __u32); ("msb_right", __u32)])].
Definition fb_bitfield : cty := type_in structs_fb_fix_screeninfo "fb_bitfield".
Definition fb_var_screeninfo : cty :=
  Struct [("xres", __u32); ("yres", __u32); ("xres_virtual", __u32); ("yres_virtual", __u32);
   ("xoffset", __u32); ("yoffset", __u32); ("bits_per_pixel", __u32); ("grayscale", __u32);
   ("red", fb_bitfield); ("green", fb_bitfield); ("blue", fb_bitfield); ("transp", fb_bitfield);
   ("nonstd", __u32); ("activate", __u32); ("height", __u32); ("width", __u32);
   ("accel_flags", __u32); ("pixclock", __u32); ("left_margin", __u32); ("right_margin", __u32);
   ("upper_margin", __u32); ("lower_margin", __u32); ("hsync_len", __u32); ("vsync_len", __u32);
   ("sync", __u32); ("vmode", __u32); ("rotate", __u32); ("colorspace", __u32);
   ("reserved", Arr 4 __u32)].
Definition structs_fb_cmap : list (string * cty) :=
  [
  ("fb_cmap", Struct [("start", __u32); ("len", __u32); ("red", ptr); ("green", ptr);
   ("blue", ptr); ("transp", ptr)]);
  ("fb_con2fbmap", Struct [("console", __u32); ("framebuffer", __u32)])].
Definition fb_cmap : cty := type_in structs_fb_cmap "fb_cmap".
Definition fb_vblank : cty :=
  Struct [("flags", __u32); ("count", __u32); ("vcount", __u32); ("hcount", __u32);
   ("reserved", Arr 4 __u32)].
Definition structs_fb_copyarea : list (string * cty) :=
  [
  ("fb_copyarea", Struct [("dx", __u32); ("dy", __u32); ("width", __u32); ("height", __u32);
   ("sx", __u32); ("sy", __u32)]);
  ("fb_fillrect", Struct [("dx", __u32); ("dy", __u32); ("width", __u32); ("height", __u32);
   ("color", __u32); ("rop", __u32)]);
  ("fb_image", Struct [("dx", __u32); ("dy", __u32); ("width", __u32); ("height", __u32);
   ("fg_color", __u32); ("bg_color", __u32); ("depth", __u8); ("data", ptr); ("cmap", fb_cmap)])].
Definition fb_image : cty := type_in structs_fb_copyarea "fb_image".
Definition structs_fbcurpos : list (string * cty) :=
  let fbcurpos := Struct [("x", __u16); ("y", __u16)] in
  [
  ("fbcurpos", fbcurpos);
  ("fb_cursor", Struct [("set", __u16); ("enable", __u16); ("rop", __u16); ("mask", ptr);
   ("hot", fbcurpos); ("image", fb_image)])].
Definition fb_cursor : cty := type_in structs_fbcurpos "fb_cursor".
Definition fb_types : list (string * cty) :=
  (structs_fb_fix_screeninfo ++ [("fb_var_screeninfo", fb_var_screeninfo)] ++ structs_fb_cmap
   ++ [("fb_vblank", fb_vblank)] ++ structs_fb_copyarea ++ structs_fbcurpos)%list.
Definition fb_ioctls_1 : list command := [
  _IOWR "FBIO_CURSOR" (chr "F") 8 fb_cursor].
Definition fb_ioctls_2 : list command := [
  _IOR "FBIOGET_VBLANK" (chr "F") 18 fb_vblank].
Definition fb_ioctls_3 : list command := [
  _IOW "FBIO_WAITFORVSYNC" (chr "F") 32 __u32].
Definition fb_ioctls : list command :=
  (fb_ioctls_1 ++ fb_ioctls_2 ++ fb_ioctls_3)%list.
End Fb.

(** ** [linux/ion.h] *)

Module Ion.
Definition ion_user_handle_t : cty := int.
Definition ion_allocation_data : cty :=
  Struct [("len", size_t); ("align", size_t); ("heap_id_mask", uint); ("flags", uint);
   ("handle", ion_user_handle_t)].
Definition structs_ion_fd_data : list (string * cty) :=
  [
  ("ion_fd_data", Struct [("handle", ion_user_handle_t); ("fd", int)]);
  ("ion_handle_data", Struct [("handle", ion_user_handle_t)]);
  ("ion_custom_data", Struct [("cmd", uint); ("arg", ulong)])].
Definition ion_fd_data : cty := type_in structs_ion_fd_data "ion_fd_data".
Definition ion_handle_data : cty := type_in structs_ion_fd_data "ion_handle_data".
Definition ion_custom_data : cty := type_in structs_ion_fd_data "ion_custom_data".
Definition ion_types : list (string * cty) :=
  ([("ion_user_handle_t", ion_user_handle_t); ("ion_allocation_data", ion_allocation_data)] ++
   structs_ion_fd_data)%list.
Definition ion_ioctls_1 : list command := [
  _IOWR "ION_IOC_ALLOC" (chr "I") 0 ion_allocation_data].
Definition ion_ioctls_2 : list command := [
  _IOWR "ION_IOC_FREE" (chr "I") 1 ion_handle_data].
Definition ion_ioctls_3 : list command := [
  _IOWR "ION_IOC_MAP" (chr "I") 2 ion_fd_data].
Definition ion_ioctls_4 : list command := [
  _IOWR "ION_IOC_SHARE" (chr "I") 4 ion_fd_data].
Definition ion_ioctls_5 : list command := [
  _IOWR "ION_IOC_IMPORT" (chr "I") 5 ion_fd_data].
Definition ion_ioctls_6 : list command := [
  _IOWR "ION_IOC_SYNC" (chr "I") 7 ion_fd_data].
Definition ion_ioctls_7 : list command := [
  _IOWR "ION_IOC_CUSTOM" (chr "I") 6 ion_custom_data].
Definition ion_ioctls : list command :=
  (ion_ioctls_1 ++ ion_ioctls_2 ++ ion_ioctls_3 ++ ion_ioctls_4 ++ ion_ioctls_5 ++
  ion_ioctls_6 ++ ion_ioctls_7)%list.
End Ion.

(** ** [linux/ion_test.h] *)

Module Ion_test.
Definition ion_test_rw_data : cty :=
  Struct [("ptr", __u64); ("offset", __u64); ("size", __u64); ("write", int); ("__padding", int)].
Definition ion_test_types : list (string * cty) := [("ion_test_rw_data", ion_test_rw_data)].
Definition ion_test_ioctls_1 : list command := [
  _IO "ION_IOC_TEST_SET_FD" (chr "I") 240].
Definition ion_test_ioctls_2 : list command := [
  _IOW "ION_IOC_TEST_DMA_MAPPING" (chr "I") 241 ion_test_rw_data].
Definition ion_test_ioctls_3 : list command := [
  _IOW "ION_IOC_TEST_KERNEL_MAPPING" (chr "I") 242 ion_test_rw_data].
Definition ion_test_ioctls : list command :=
  (ion_test_ioctls_1 ++ ion_test_ioctls_2 ++ ion_test_ioctls_3)%list.
End Ion_test.

(** ** [linux/matroxfb.h] *)

Module Matroxfb.
Definition matroxioc_output_mode : cty := Struct [("output", __u32); ("mode", __u32)].
Definition matroxfb_types : list (string * cty) := [("matroxioc_output_mode", matroxioc_output_mode)].
Definition matroxfb_ioctls_1 : list command := [
  _IOW "MATROXFB_SET_OUTPUT_MODE" (chr "n") 250 size_t;
  _IOWR "MATROXFB_GET_OUTPUT_MODE" (chr "n") 250 size_t].
Definition matroxfb_ioctls_2 : list command := [
  _IOW "MATROXFB_SET_OUTPUT_CONNECTION" (chr "n") 248 size_t;
  _IOR "MATROXFB_GET_OUTPUT_CONNECTION" (chr "n") 248 size_t;
  _IOR "MATROXFB_GET_AVAILABLE_OUTPUTS" (chr "n") 249 size_t;
  _IOR "MATROXFB_GET_ALL_OUTPUTS" (chr "n") 251 size_t].
Definition matroxfb_ioctls : list command :=
  (matroxfb_ioctls_1 ++ matroxfb_ioctls_2)%list.
End Matroxfb.

(** ** [linux/msm_mdp.h] *)

Module Msm_mdp.
Definition MDP_CCS_SIZE : Z := 9.
Definition MDP_BV_SIZE : Z := 3.
Definition MDP_CSC_MATRIX_COEFF_SIZE : Z := 9.
Definition MDP_CSC_CLAMP_SIZE : Z := 6.
Definition MDP_CSC_BIAS_SIZE : Z := 3.
Definition MAX_PLANES : Z := 4.
Definition MISR_CRC_BATCH_SIZE : Z := 32.
Definition MDP_DITHER_DATA_V1_7_SZ : Z := 16.
Definition MDP_GAMUT_TABLE_NUM : Z := 8.
Definition MDP_GAMUT_TABLE_NUM_V1_7 : Z := 4.
Definition MDP_GAMUT_SCALE_OFF_TABLE_NUM : Z := 3.
Definition MAX_PIPE_PER_MIXER : Z := 7.
Definition structs_mdp_rect : list (string * cty) :=
  [
  ("mdp_rect", Struct [("x", uint32_t); ("y", uint32_t); ("w", uint32_t); ("h", uint32_t)]);
  ("mdp_img", Struct [("width", uint32_t); ("height", uint32_t); ("format", uint32_t);
   ("offset", uint32_t); ("memory_id", int); ("priv", uint32_t)]);
  ("mult_factor", Struct [("numer", uint32_t); ("denom", uint32_t)])].
Definition mdp_rect : cty := type_in structs_mdp_rect "mdp_rect".
Definition mdp_img : cty := type_in structs_mdp_rect "mdp_img".
Definition mult_factor : cty := type_in structs_mdp_rect "mult_factor".
Definition structs_mdp_ccs : list (string * cty) :=
  [
  ("mdp_ccs", Struct [("direction", int); ("ccs", Arr MDP_CCS_SIZE uint16_t);
   ("bv", Arr MDP_BV_SIZE uint16_t)]);
  ("mdp_csc", Struct [("id", int); ("csc_mv", Arr 9 uint32_t); ("csc_pre_bv", Arr 3 uint32_t);
   ("csc_post_bv", Arr 3 uint32_t); ("csc_pre_lv", Arr 6 uint32_t);
   ("csc_post_lv", Arr 6 uint32_t)])].
Definition mdp_ccs : cty := type_in structs_mdp_ccs "mdp_ccs".
Definition structs_color : list (string * cty) :=
  let color := Struct [("r", uint32_t); ("g", uint32_t); ("b", uint32_t); ("alpha", uint32_t)] in
  let mdp_blit_req := Struct [("src", mdp_img); ("dst", mdp_img); ("src_rect", mdp_rect);
   ("dst_rect", mdp_rect); ("const_color", color); ("alpha", uint32_t);
   ("transp_mask", uint32_t); ("flags", uint32_t); ("sharpening_strength", int);
   ("color_space", uint8_t); ("fps", uint32_t)] in
  [
  ("color", color);
  ("mdp_blit_req", mdp_blit_req);
  ("mdp_blit_req_list", Struct [("count", uint32_t); ("req", Arr 0 mdp_blit_req)])].
Definition mdp_blit_req : cty := type_in structs_color "mdp_blit_req".
Definition msmfb_data : cty :=
  Struct [("offset", uint32_t); ("memory_id", int); ("id", int); ("flags", uint32_t);
   ("priv", uint32_t); ("iova", uint32_t)].
Definition structs_msmfb_overlay_data : list (string * cty) :=
  [
  ("msmfb_overlay_data", Struct [("id", uint32_t); ("data", msmfb_data);
   ("version_key", uint32_t); ("plane1_data", msmfb_data); ("plane2_data", msmfb_data);
   ("dst_data", msmfb_data)]);
  ("msmfb_img", Struct [("width", uint32_t); ("height", uint32_t); ("format", uint32_t)])].
Definition msmfb_overlay_data : cty := type_in structs_msmfb_overlay_data "msmfb_overlay_data".
Definition msmfb_img : cty := type_in structs_msmfb_overlay_data "msmfb_img".
Definition msmfb_writeback_data : cty := Struct [("buf_info", msmfb_data); ("img", msmfb_img)].
Definition structs_mdp_qseed_cfg : list (string * cty) :=
  let mdp_qseed_cfg := Struct [("table_num", uint32_t); ("ops", uint32_t); ("len", uint32_t);
   ("data", ptr)] in
  [
  ("mdp_qseed_cfg", mdp_qseed_cfg);
  ("mdp_sharp_cfg", Struct [("flags", uint32_t); ("strength", uint32_t); ("edge_thr", uint32_t);
   ("smooth_thr", uint32_t); ("noise_thr", uint32_t)]);
  ("mdp_qseed_cfg_data", Struct [("block", uint32_t); ("qseed_data", mdp_qseed_cfg)])].
Definition mdp_qseed_cfg : cty := type_in structs_mdp_qseed_cfg "mdp_qseed_cfg".
Definition mdp_sharp_cfg : cty := type_in structs_mdp_qseed_cfg "mdp_sharp_cfg".
Definition mdp_qseed_cfg_data : cty := type_in structs_mdp_qseed_cfg "mdp_qseed_cfg_data".
Definition structs_mdp_csc_cfg : list (string * cty) :=
  let mdp_csc_cfg := Struct [("flags", uint32_t);
   ("csc_mv", Arr MDP_CSC_MATRIX_COEFF_SIZE uint32_t);
   ("csc_pre_bv", Arr MDP_CSC_BIAS_SIZE uint32_t);
   ("csc_post_bv", Arr MDP_CSC_BIAS_SIZE uint32_t);
   ("csc_pre_lv", Arr MDP_CSC_CLAMP_SIZE uint32_t);
   ("csc_post_lv", Arr MDP_CSC_CLAMP_SIZE uint32_t)] in
  [
  ("mdp_csc_cfg", mdp_csc_cfg);
  ("mdp_csc_cfg_data", Struct [("block", uint32_t); ("csc_data", mdp_csc_cfg)]);
  ("mdp_pa_cfg", Struct [("flags", uint32_t); ("hue_adj", uint32_t); ("sat_adj", uint32_t);
   ("val_adj", uint32_t); ("cont_adj", uint32_t)]);
  ("mdp_pa_mem_col_cfg", Struct [("color_adjust_p0", uint32_t); ("color_adjust_p1", uint32_t);
   ("hue_region", uint32_t); ("sat_region", uint32_t); ("val_region", uint32_t)])].
Definition mdp_csc_cfg : cty := type_in structs_mdp_csc_cfg "mdp_csc_cfg".
Definition mdp_csc_cfg_data : cty := type_in structs_mdp_csc_cfg "mdp_csc_cfg_data".
Definition mdp_pa_cfg : cty := type_in structs_mdp_csc_cfg "mdp_pa_cfg".
Definition mdp_pa_mem_col_cfg : cty := type_in structs_mdp_csc_cfg "mdp_pa_mem_col_cfg".
Definition structs_mdp_pa_v2_data : list (string * cty) :=
  let mdp_pa_v2_data := Struct [("flags", uint32_t); ("global_hue_adj", uint32_t);
   ("global_sat_adj", uint32_t); ("global_val_adj", uint32_t); ("global_cont_adj", uint32_t);
   ("skin_cfg", mdp_pa_mem_col_cfg); ("sky_cfg", mdp_pa_mem_col_cfg);
   ("fol_cfg", mdp_pa_mem_col_cfg); ("six_zone_len", uint32_t); ("six_zone_thresh", uint32_t);
   ("six_zone_curve_p0", ptr); ("six_zone_curve_p1", ptr)] in
  let mdp_pa_mem_col_data_v1_7 := Struct [("color_adjust_p0", uint32_t);
   ("color_adjust_p1", uint32_t); ("color_adjust_p2", uint32_t); ("blend_gain", uint32_t);
   ("sat_hold", uint8_t); ("val_hold", uint8_t); ("hue_region", uint32_t);
   ("sat_region", uint32_t); ("val_region", uint32_t)] in
  [
  ("mdp_pa_v2_data", mdp_pa_v2_data);
  ("mdp_pa_mem_col_data_v1_7", mdp_pa_mem_col_data_v1_7);
  ("mdp_pa_data_v1_7", Struct [("mode", uint32_t); ("global_hue_adj", uint32_t);
   ("global_sat_adj", uint32_t); ("global_val_adj", uint32_t); ("global_cont_adj", uint32_t);
   ("skin_cfg", mdp_pa_mem_col_data_v1_7); ("sky_cfg", mdp_pa_mem_col_data_v1_7);
   ("fol_cfg", mdp_pa_mem_col_data_v1_7); ("six_zone_thresh", uint32_t);
   ("six_zone_adj_p0", uint32_t); ("six_zone_adj_p1", uint32_t); ("six_zone_sat_hold", uint8_t);
   ("six_zone_val_hold", uint8_t); ("six_zone_len", uint32_t); ("six_zone_curve_p0", ptr);
   ("six_zone_curve_p1", ptr)]);
  ("mdp_pa_v2_cfg_data", Struct [("version", uint32_t); ("block", uint32_t); ("flags", uint32_t);
   ("pa_v2_data", mdp_pa_v2_data); ("cfg_payload", ptr)])].
Definition mdp_pa_v2_data : cty := type_in structs_mdp_pa_v2_data "mdp_pa_v2_data".
Definition mdp_pa_v2_cfg_data : cty := type_in structs_mdp_pa_v2_data "mdp_pa_v2_cfg_data".
Definition structs_mdp_igc_lut_data : list (string * cty) :=
  let mdp_pcc_coeff := Struct [("c", uint32_t); ("r", uint32_t); ("g", uint32_t);
   ("b", uint32_t); ("rr", uint32_t); ("gg", uint32_t); ("bb", uint32_t); ("rg", uint32_t);
   ("gb", uint32_t); ("rb", uint32_t); ("rgb_0", uint32_t); ("rgb_1", uint32_t)] in
  let mdp_pcc_coeff_v1_7 := Struct [("c", uint32_t); ("r", uint32_t); ("g", uint32_t);
   ("b", uint32_t); ("rg", uint32_t); ("gb", uint32_t); ("rb", uint32_t); ("rgb", uint32_t)] in
  [
  ("mdp_igc_lut_data", Struct [("block", uint32_t); ("version", uint32_t); ("len", uint32_t);
   ("ops", uint32_t); ("c0_c1_data", ptr); ("c2_data", ptr); ("cfg_payload", ptr)]);
  ("mdp_igc_lut_data_v1_7", Struct [("table_fmt", uint32_t); ("len", uint32_t);
   ("c0_c1_data", ptr); ("c2_data", ptr)]);
  ("mdp_igc_lut_data_payload", Struct [("table_fmt", uint32_t); ("len", uint32_t);
   ("c0_c1_data", uint64_t); ("c2_data", uint64_t); ("strength", uint32_t)]);
  ("mdp_histogram_cfg", Struct [("ops", uint32_t); ("block", uint32_t); ("frame_cnt", uint8_t);
   ("bit_mask", uint8_t); ("num_bins", uint16_t)]);
  ("mdp_hist_lut_data_v1_7", Struct [("len", uint32_t); ("data", ptr)]);
  ("mdp_hist_lut_data", Struct [("block", uint32_t); ("version", uint32_t);
   ("hist_lut_first", uint32_t); ("ops", uint32_t); ("len", uint32_t); ("data", ptr);
   ("cfg_payload", ptr)]);
  ("mdp_pcc_coeff", mdp_pcc_coeff);
  ("mdp_pcc_coeff_v1_7", mdp_pcc_coeff_v1_7);
  ("mdp_pcc_data_v1_7", Struct [("r", mdp_pcc_coeff_v1_7); ("g", mdp_pcc_coeff_v1_7);
   ("b", mdp_pcc_coeff_v1_7)]);
  ("mdp_pcc_cfg_data", Struct [("version", uint32_t); ("block", uint32_t); ("ops", uint32_t);
   ("r", mdp_pcc_coeff); ("g", mdp_pcc_coeff); ("b", mdp_pcc_coeff); ("cfg_payload", ptr)])].
Definition mdp_igc_lut_data : cty := type_in structs_mdp_igc_lut_data "mdp_igc_lut_data".
Definition mdp_histogram_cfg : cty := type_in structs_mdp_igc_lut_data "mdp_histogram_cfg".
Definition mdp_hist_lut_data : cty := type_in structs_mdp_igc_lut_data "mdp_hist_lut_data".
Definition mdp_pcc_cfg_data : cty := type_in structs_mdp_igc_lut_data "mdp_pcc_cfg_data".
Definition mdp_overlay_pp_params : cty :=
  Struct [("config_ops", uint32_t); ("csc_cfg", mdp_csc_cfg); ("qseed_cfg", Arr 2 mdp_qseed_cfg);
   ("pa_cfg", mdp_pa_cfg); ("pa_v2_cfg", mdp_pa_v2_data); ("igc_cfg", mdp_igc_lut_data);
   ("sharp_cfg", mdp_sharp_cfg); ("hist_cfg", mdp_histogram_cfg);
   ("hist_lut_cfg", mdp_hist_lut_data); ("pa_v2_cfg_data", mdp_pa_v2_cfg_data);
   ("pcc_cfg_data", mdp_pcc_cfg_data)].
Definition mdp_scale_data : cty :=
  Struct [("enable_pxl_ext", uint8_t); ("init_phase_x", Arr MAX_PLANES int);
   ("phase_step_x", Arr MAX_PLANES int); ("init_phase_y", Arr MAX_PLANES int);
   ("phase_step_y", Arr MAX_PLANES int); ("num_ext_pxls_left", Arr MAX_PLANES int);
   ("num_ext_pxls_right", Arr MAX_PLANES int); ("num_ext_pxls_top", Arr MAX_PLANES int);
   ("num_ext_pxls_btm", Arr MAX_PLANES int); ("left_ftch", Arr MAX_PLANES int);
   ("left_rpt", Arr MAX_PLANES int); ("right_ftch", Arr MAX_PLANES int);
   ("right_rpt", Arr MAX_PLANES int); ("top_rpt", Arr MAX_PLANES int);
   ("btm_rpt", Arr MAX_PLANES int); ("top_ftch", Arr MAX_PLANES int);
   ("btm_ftch", Arr MAX_PLANES int); ("roi_w", Arr MAX_PLANES uint32_t)].
Definition structs_mdp_overlay : list (string * cty) :=
  [
  ("mdp_overlay", Struct [("src", msmfb_img); ("src_rect", mdp_rect); ("dst_rect", mdp_rect);
   ("z_order", uint32_t); ("is_fg", uint32_t); ("alpha", uint32_t); ("blend_op", uint32_t);
   ("transp_mask", uint32_t); ("flags", uint32_t); ("pipe_type", uint32_t); ("id", uint32_t);
   ("priority", uint8_t); ("user_data", Arr 6 uint32_t); ("bg_color", uint32_t);
   ("horz_deci", uint8_t); ("vert_deci", uint8_t); ("overlay_pp_cfg", mdp_overlay_pp_params);
   ("scale", mdp_scale_data); ("color_space", uint8_t); ("frame_rate", uint32_t)]);
  ("msmfb_overlay_3d", Struct [("is_3d", uint32_t); ("width", uint32_t); ("height", uint32_t)]);
  ("msmfb_overlay_blt", Struct [("enable", uint32_t); ("offset", uint32_t); ("width", uint32_t);
   ("height", uint32_t); ("bpp", uint32_t)]);
  ("mdp_histogram", Struct [("frame_cnt", uint32_t); ("bin_cnt", uint32_t); ("r", ptr);
   ("g", ptr); ("b", ptr)])].
Definition mdp_overlay : cty := type_in structs_mdp_overlay "mdp_overlay".
Definition msmfb_overlay_3d : cty := type_in structs_mdp_overlay "msmfb_overlay_3d".
Definition msmfb_overlay_blt : cty := type_in structs_mdp_overlay "msmfb_overlay_blt".
Definition mdp_misr : cty :=
  Struct [("block_id", uint32_t); ("frame_count", uint32_t); ("crc_op_mode", uint32_t);
   ("crc_value", Arr MISR_CRC_BATCH_SIZE uint32_t)].
Definition structs_mdp_histogram_start_req : list (string * cty) :=
  [
  ("mdp_histogram_start_req", Struct [("block", uint32_t); ("frame_cnt", uint8_t);
   ("bit_mask", uint8_t); ("num_bins", uint16_t)]);
  ("mdp_histogram_data", Struct [("block", uint32_t); ("bin_cnt", uint32_t); ("c0", ptr);
   ("c1", ptr); ("c2", ptr); ("extra_info", ptr)])].
Definition mdp_histogram_start_req : cty := type_in structs_mdp_histogram_start_req "mdp_histogram_start_req".
Definition mdp_histogram_data : cty := type_in structs_mdp_histogram_start_req "mdp_histogram_data".
Definition mdp_ar_gc_lut_data : cty :=
  Struct [("x_start", uint32_t); ("slope", uint32_t); ("offset", uint32_t)].
Definition mdp_pgc_lut_data : cty :=
  Struct [("version", uint32_t); ("block", uint32_t); ("flags", uint32_t);
   ("num_r_stages", uint8_t); ("num_g_stages", uint8_t); ("num_b_stages", uint8_t);
   ("r_data", ptr); ("g_data", ptr); ("b_data", ptr); ("cfg_payload", ptr)].
Definition structs_mdp_pgc_lut_data_v1_7 : list (string * cty) :=
  [
  ("mdp_pgc_lut_data_v1_7", Struct [("len", uint32_t); ("c0_data", ptr); ("c1_data", ptr);
   ("c2_data", ptr)]);
  ("mdp_rgb_lut_data", Struct [("flags", uint32_t); ("lut_type", uint32_t); ("cmap", Fb.fb_cmap)])].
Definition mdp_rgb_lut_data : cty := type_in structs_mdp_pgc_lut_data_v1_7 "mdp_rgb_lut_data".
Definition structs_mdp_lut_cfg_data : list (string * cty) :=
  [
  ("mdp_lut_cfg_data", Struct [("lut_type", uint32_t);
   ("data", Union [("igc_lut_data", mdp_igc_lut_data); ("pgc_lut_data", mdp_pgc_lut_data);
   ("hist_lut_data", mdp_hist_lut_data); ("rgb_lut_data", mdp_rgb_lut_data)])]);
  ("mdp_bl_scale_data", Struct [("min_lvl", uint32_t); ("scale", uint32_t)]);
  ("mdp_pa_cfg_data", Struct [("block", uint32_t); ("pa_data", mdp_pa_cfg)])].
Definition mdp_lut_cfg_data : cty := type_in structs_mdp_lut_cfg_data "mdp_lut_cfg_data".
Definition mdp_bl_scale_data : cty := type_in structs_mdp_lut_cfg_data "mdp_bl_scale_data".
Definition mdp_pa_cfg_data : cty := type_in structs_mdp_lut_cfg_data "mdp_pa_cfg_data".
Definition structs_mdp_dither_data_v1_7 : list (string * cty) :=
  [
  ("mdp_dither_data_v1_7", Struct [("g_y_depth", uint32_t); ("r_cr_depth", uint32_t);
   ("b_cb_depth", uint32_t); ("len", uint32_t); ("data", Arr MDP_DITHER_DATA_V1_7_SZ uint32_t);
   ("temporal_en", uint32_t)]);
  ("mdp_pa_dither_data", Struct [("data_flags", uint64_t); ("matrix_sz", uint32_t);
   ("matrix_data", uint64_t); ("strength", uint32_t); ("offset_en", uint32_t)]);
  ("mdp_dither_cfg_data", Struct [("version", uint32_t); ("block", uint32_t);
   ("flags", uint32_t); ("mode", uint32_t); ("g_y_depth", uint32_t); ("r_cr_depth", uint32_t);
   ("b_cb_depth", uint32_t); ("cfg_payload", ptr)])].
Definition mdp_dither_cfg_data : cty := type_in structs_mdp_dither_data_v1_7 "mdp_dither_cfg_data".
Definition mdp_gamut_cfg_data : cty :=
  Struct [("block", uint32_t); ("flags", uint32_t); ("version", uint32_t);
   ("gamut_first", uint32_t); ("tbl_size", Arr MDP_GAMUT_TABLE_NUM uint32_t);
   ("r_tbl", Arr MDP_GAMUT_TABLE_NUM ptr); ("g_tbl", Arr MDP_GAMUT_TABLE_NUM ptr);
   ("b_tbl", Arr MDP_GAMUT_TABLE_NUM ptr); ("cfg_payload", ptr)].
Definition structs_mdp_gamut_data_v1_7 : list (string * cty) :=
  [
  ("mdp_gamut_data_v1_7", Struct [("mode", uint32_t); ("map_en", uint32_t);
   ("tbl_size", Arr MDP_GAMUT_TABLE_NUM_V1_7 uint32_t);
   ("c0_data", Arr MDP_GAMUT_TABLE_NUM_V1_7 ptr);
   ("c1_c2_data", Arr MDP_GAMUT_TABLE_NUM_V1_7 ptr);
   ("tbl_scale_off_sz", Arr MDP_GAMUT_SCALE_OFF_TABLE_NUM uint32_t);
   ("scale_off_data", Arr MDP_GAMUT_SCALE_OFF_TABLE_NUM ptr)]);
  ("mdp_calib_config_data", Struct [("ops", uint32_t); ("addr", uint32_t); ("data", uint32_t)]);
  ("mdp_calib_config_buffer", Struct [("ops", uint32_t); ("size", uint32_t); ("buffer", ptr)]);
  ("mdp_calib_dcm_state", Struct [("ops", uint32_t); ("dcm_state", uint32_t)])].
Definition mdp_calib_config_data : cty := type_in structs_mdp_gamut_data_v1_7 "mdp_calib_config_data".
Definition mdp_calib_config_buffer : cty := type_in structs_mdp_gamut_data_v1_7 "mdp_calib_config_buffer".
Definition mdp_calib_dcm_state : cty := type_in structs_mdp_gamut_data_v1_7 "mdp_calib_dcm_state".
Definition mdss_ad_init : cty :=
  Struct [("asym_lut", Arr 33 uint32_t); ("color_corr_lut", Arr 33 uint32_t);
   ("i_control", Arr 2 uint8_t); ("black_lvl", uint16_t); ("white_lvl", uint16_t);
   ("var", uint8_t); ("limit_ampl", uint8_t); ("i_dither", uint8_t); ("slope_max", uint8_t);
   ("slope_min", uint8_t); ("dither_ctl", uint8_t); ("format", uint8_t); ("auto_size", uint8_t);
   ("frame_w", uint16_t); ("frame_h", uint16_t); ("logo_v", uint8_t); ("logo_h", uint8_t);
   ("alpha", uint32_t); ("alpha_base", uint32_t); ("al_thresh", uint32_t);
   ("bl_lin_len", uint32_t); ("bl_att_len", uint32_t); ("bl_lin", ptr); ("bl_lin_inv", ptr);
   ("bl_att_lut", ptr)].
Definition structs_mdss_ad_cfg : list (string * cty) :=
  let mdss_ad_cfg := Struct [("mode", uint32_t); ("al_calib_lut", Arr 33 uint32_t);
   ("backlight_min", uint16_t); ("backlight_max", uint16_t); ("backlight_scale", uint16_t);
   ("amb_light_min", uint16_t); ("filter", Arr 2 uint16_t); ("calib", Arr 4 uint16_t);
   ("strength_limit", uint8_t); ("t_filter_recursion", uint8_t); ("stab_itr", uint16_t);
   ("bl_ctrl_mode", uint32_t)] in
  [
  ("mdss_ad_cfg", mdss_ad_cfg);
  ("mdss_ad_bl_cfg", Struct [("bl_min_delta", uint32_t); ("bl_low_limit", uint32_t)]);
  ("mdss_ad_init_cfg", Struct [("ops", uint32_t); ("params", Union [("init", mdss_ad_init);
   ("cfg", mdss_ad_cfg)])]);
  ("mdss_ad_input", Struct [("mode", uint32_t); ("in", Union [("amb_light", uint32_t);
   ("strength", uint32_t); ("calib_bl", uint32_t)]); ("output", uint32_t)])].
Definition mdss_ad_bl_cfg : cty := type_in structs_mdss_ad_cfg "mdss_ad_bl_cfg".
Definition mdss_ad_init_cfg : cty := type_in structs_mdss_ad_cfg "mdss_ad_init_cfg".
Definition mdss_ad_input : cty := type_in structs_mdss_ad_cfg "mdss_ad_input".
Definition mdss_calib_cfg : cty := Struct [("ops", uint32_t); ("calib_mask", uint32_t)].
Definition msmfb_mdp_pp : cty :=
  Struct [("op", uint32_t); ("data", Union [("pcc_cfg_data", mdp_pcc_cfg_data);
   ("csc_cfg_data", mdp_csc_cfg_data); ("lut_cfg_data", mdp_lut_cfg_data);
   ("qseed_cfg_data", mdp_qseed_cfg_data); ("bl_scale_data", mdp_bl_scale_data);
   ("pa_cfg_data", mdp_pa_cfg_data); ("pa_v2_cfg_data", mdp_pa_v2_cfg_data);
   ("dither_cfg_data", mdp_dither_cfg_data); ("gamut_cfg_data", mdp_gamut_cfg_data);
   ("calib_cfg", mdp_calib_config_data); ("ad_init_cfg", mdss_ad_init_cfg);
   ("mdss_calib_cfg", mdss_calib_cfg); ("ad_input", mdss_ad_input);
   ("calib_buffer", mdp_calib_config_buffer); ("calib_dcm", mdp_calib_dcm_state);
   ("ad_bl_cfg", mdss_ad_bl_cfg)])].
Definition structs_mdp_blend_cfg : list (string * cty) :=
  let mdp_blend_cfg := Struct [("is_premultiplied", uint32_t)] in
  let mdp_mixer_cfg := Struct [("writeback_format", uint32_t); ("alpha", uint32_t)] in
  let mdss_hw_caps := Struct [("mdp_rev", uint32_t); ("rgb_pipes", uint8_t);
   ("vig_pipes", uint8_t); ("dma_pipes", uint8_t); ("max_smp_cnt", uint8_t);
   ("smp_per_pipe", uint8_t); ("features", uint32_t)] in
  [
  ("mdp_blend_cfg", mdp_blend_cfg);
  ("mdp_mixer_cfg", mdp_mixer_cfg);
  ("mdss_hw_caps", mdss_hw_caps);
  ("msmfb_metadata", Struct [("op", uint32_t); ("flags", uint32_t);
   ("data", Union [("misr_request", mdp_misr); ("blend_cfg", mdp_blend_cfg);
   ("mixer_cfg", mdp_mixer_cfg); ("panel_frame_rate", uint32_t); ("video_info_code", uint32_t);
   ("caps", mdss_hw_caps); ("secure_en", uint8_t); ("fbmem_ionfd", int)])])].
Definition msmfb_metadata : cty := type_in structs_mdp_blend_cfg "msmfb_metadata".
Definition structs_mdp_buf_sync : list (string * cty) :=
  let mdp_buf_sync := Struct [("flags", uint32_t); ("acq_fen_fd_cnt", uint32_t);
   ("session_id", uint32_t); ("acq_fen_fd", ptr); ("rel_fen_fd", ptr); ("retire_fen_fd", ptr)] in
  [
  ("mdp_buf_sync", mdp_buf_sync);
  ("mdp_async_blit_req_list", Struct [("sync", mdp_buf_sync); ("count", uint32_t);
   ("req", Arr 0 mdp_blit_req)])].
Definition mdp_buf_sync : cty := type_in structs_mdp_buf_sync "mdp_buf_sync".
Definition structs_mdp_display_commit : list (string * cty) :=
  [
  ("mdp_display_commit", Struct [("flags", uint32_t); ("wait_for_finish", uint32_t);
   ("var", Fb.fb_var_screeninfo); ("l_roi", mdp_rect); ("r_roi", mdp_rect)]);
  ("mdp_overlay_list", Struct [("num_overlays", uint32_t); ("overlay_list", ptr);
   ("flags", uint32_t); ("processed_overlays", uint32_t)]);
  ("mdp_page_protection", Struct [("page_protection", uint32_t)]);
  ("mdp_mixer_info", Struct [("pndx", int); ("pnum", int); ("ptype", int); ("mixer_num", int);
   ("z_order", int)])].
Definition mdp_display_commit : cty := type_in structs_mdp_display_commit "mdp_display_commit".
Definition mdp_overlay_list : cty := type_in structs_mdp_display_commit "mdp_overlay_list".
Definition mdp_page_protection : cty := type_in structs_mdp_display_commit "mdp_page_protection".
Definition mdp_mixer_info : cty := type_in structs_mdp_display_commit "mdp_mixer_info".
Definition msmfb_mixer_info_req : cty :=
  Struct [("mixer_num", int); ("cnt", int); ("info", Arr MAX_PIPE_PER_MIXER mdp_mixer_info)].
Definition mdp_pp_feature_version : cty :=
  Struct [("pp_feature", uint32_t); ("version_info", uint32_t)].
Definition msm_mdp_types : list (string * cty) :=
  (structs_mdp_rect ++ structs_mdp_ccs ++ structs_color ++ [("msmfb_data", msmfb_data)] ++
   structs_msmfb_overlay_data ++ [("msmfb_writeback_data", msmfb_writeback_data)] ++
   structs_mdp_qseed_cfg ++ structs_mdp_csc_cfg ++ structs_mdp_pa_v2_data ++
   structs_mdp_igc_lut_data ++ [("mdp_overlay_pp_params", mdp_overlay_pp_params);
   ("mdp_scale_data", mdp_scale_data)] ++ structs_mdp_overlay ++ [("mdp_misr", mdp_misr)] ++
   structs_mdp_histogram_start_req ++ [("mdp_ar_gc_lut_data", mdp_ar_gc_lut_data);
   ("mdp_pgc_lut_data", mdp_pgc_lut_data)] ++ structs_mdp_pgc_lut_data_v1_7 ++
   structs_mdp_lut_cfg_data ++ structs_mdp_dither_data_v1_7 ++ [("mdp_gamut_cfg_data",
   mdp_gamut_cfg_data)] ++ structs_mdp_gamut_data_v1_7 ++ [("mdss_ad_init", mdss_ad_init)] ++
   structs_mdss_ad_cfg ++ [("mdss_calib_cfg", mdss_calib_cfg); ("msmfb_mdp_pp", msmfb_mdp_pp)]
   ++ structs_mdp_blend_cfg ++ structs_mdp_buf_sync ++ structs_mdp_display_commit ++
   [("msmfb_mixer_info_req", msmfb_mixer_info_req); ("mdp_pp_feature_version",
   mdp_pp_feature_version)])%list.
Definition msm_mdp_ioctls : list command := [
  _IOW "MSMFB_GRP_DISP" (chr "m") 1 uint;
  _IOW "MSMFB_BLIT" (chr "m") 2 uint;
  _IOW "MSMFB_SUSPEND_SW_REFRESHER" (chr "m") 128 uint;
  _IOW "MSMFB_RESUME_SW_REFRESHER" (chr "m") 129 uint;
  _IOW "MSMFB_CURSOR" (chr "m") 130 Fb.fb_cursor;
  _IOW "MSMFB_SET_LUT" (chr "m") 131 Fb.fb_cmap;
  _IOWR "MSMFB_HISTOGRAM" (chr "m") 132 mdp_histogram_data;
  _IOWR "MSMFB_GET_CCS_MATRIX" (chr "m") 133 mdp_ccs;
  _IOW "MSMFB_SET_CCS_MATRIX" (chr "m") 134 mdp_ccs;
  _IOWR "MSMFB_OVERLAY_SET" (chr "m") 135 mdp_overlay;
  _IOW "MSMFB_OVERLAY_UNSET" (chr "m") 136 uint;
  _IOW "MSMFB_OVERLAY_PLAY" (chr "m") 137 msmfb_overlay_data;
  _IOR "MSMFB_GET_PAGE_PROTECTION" (chr "m") 138 mdp_page_protection;
  _IOW "MSMFB_SET_PAGE_PROTECTION" (chr "m") 139 mdp_page_protection;
  _IOR "MSMFB_OVERLAY_GET" (chr "m") 140 mdp_overlay;
  _IOW "MSMFB_OVERLAY_PLAY_ENABLE" (chr "m") 141 uint;
  _IOWR "MSMFB_OVERLAY_BLT" (chr "m") 142 msmfb_overlay_blt;
  _IOW "MSMFB_OVERLAY_BLT_OFFSET" (chr "m") 143 uint;
  _IOR "MSMFB_HISTOGRAM_START" (chr "m") 144 mdp_histogram_start_req;
  _IOR "MSMFB_HISTOGRAM_STOP" (chr "m") 145 uint;
  _IOWR "MSMFB_NOTIFY_UPDATE" (chr "m") 146 uint;
  _IOWR "MSMFB_OVERLAY_3D" (chr "m") 147 msmfb_overlay_3d;
  _IOWR "MSMFB_MIXER_INFO" (chr "m") 148 msmfb_mixer_info_req;
  _IOWR "MSMFB_OVERLAY_PLAY_WAIT" (chr "m") 149 msmfb_overlay_data;
  _IO "MSMFB_WRITEBACK_INIT" (chr "m") 150;
  _IO "MSMFB_WRITEBACK_START" (chr "m") 151;
  _IO "MSMFB_WRITEBACK_STOP" (chr "m") 152;
  _IOW "MSMFB_WRITEBACK_QUEUE_BUFFER" (chr "m") 153 msmfb_data;
  _IOW "MSMFB_WRITEBACK_DEQUEUE_BUFFER" (chr "m") 154 msmfb_data;
  _IO "MSMFB_WRITEBACK_TERMINATE" (chr "m") 155;
  _IOWR "MSMFB_MDP_PP" (chr "m") 156 msmfb_mdp_pp;
  _IOW "MSMFB_OVERLAY_VSYNC_CTRL" (chr "m") 160 uint;
  _IOW "MSMFB_VSYNC_CTRL" (chr "m") 161 uint;
  _IOW "MSMFB_BUFFER_SYNC" (chr "m") 162 mdp_buf_sync;
  _IO "MSMFB_OVERLAY_COMMIT" (chr "m") 163;
  _IOW "MSMFB_DISPLAY_COMMIT" (chr "m") 164 mdp_display_commit;
  _IOW "MSMFB_METADATA_SET" (chr "m") 165 msmfb_metadata;
  _IOW "MSMFB_METADATA_GET" (chr "m") 166 msmfb_metadata;
  _IOW "MSMFB_WRITEBACK_SET_MIRRORING_HINT" (chr "m") 167 uint;
  _IOW "MSMFB_ASYNC_BLIT" (chr "m") 168 uint;
  _IOWR "MSMFB_OVERLAY_PREPARE" (chr "m") 169 mdp_overlay_list;
  _IOWR "MSMFB_LPM_ENABLE" (chr "m") 170 uint;
  _IOWR "MSMFB_MDP_PP_GET_FEATURE_VERSION" (chr "m") 171 mdp_pp_feature_version].
End Msm_mdp.

(** ** [linux/msm_mdp_ext.h] *)

Module Msm_mdp_ext.
Definition MDP_LAYER_COMMIT_V1_PAD : Z := 3.
Definition MAX_DET_CURVES : Z := 3.
Definition HDR_PRIMARIES_COUNT : Z := 3.
Definition mdp_layer_plane : cty :=
  Struct [("fd", int); ("offset", uint32_t); ("stride", uint32_t)].
Definition mdp_layer_buffer : cty :=
  Struct [("width", uint32_t); ("height", uint32_t); ("format", uint32_t);
   ("planes", Arr 4 mdp_layer_plane); ("plane_count", uint32_t);
   ("comp_ratio", Msm_mdp.mult_factor); ("fence", int); ("reserved", uint32_t)].
Definition mdp_input_layer : cty :=
  Struct [("flags", uint32_t); ("pipe_ndx", uint32_t); ("horz_deci", uint8_t);
   ("vert_deci", uint8_t); ("alpha", uint8_t); ("z_order", uint16_t); ("transp_mask", uint32_t);
   ("bg_color", uint32_t); ("blend_op", enum); ("color_space", enum);
   ("src_rect", Msm_mdp.mdp_rect); ("dst_rect", Msm_mdp.mdp_rect); ("scale", ptr);
   ("buffer", mdp_layer_buffer); ("pp_info", ptr); ("error_code", int); ("rect_num", uint32_t);
   ("reserved", Arr 5 uint32_t)].
Definition mdp_output_layer : cty :=
  Struct [("flags", uint32_t); ("writeback_ndx", uint32_t); ("buffer", mdp_layer_buffer);
   ("color_space", enum); ("reserved", Arr 5 uint32_t)].
Definition mdp_destination_scaler_data : cty :=
  Struct [("flags", uint32_t); ("dest_scaler_ndx", uint32_t); ("lm_width", uint32_t);
   ("lm_height", uint32_t); ("scale", uint64_t); ("panel_roi", Msm_mdp.mdp_rect)].
Definition mdp_layer_commit_v1 : cty :=
  Struct [("flags", uint32_t); ("release_fence", int); ("left_roi", Msm_mdp.mdp_rect);
   ("right_roi", Msm_mdp.mdp_rect); ("input_layers", ptr); ("input_layer_cnt", uint32_t);
   ("output_layer", ptr); ("retire_fence", int); ("dest_scaler", ptr);
   ("dest_scaler_cnt", uint32_t); ("bl_level", uint32_t);
   ("reserved", Arr MDP_LAYER_COMMIT_V1_PAD uint32_t)].
Definition structs_mdp_layer_commit : list (string * cty) :=
  [
  ("mdp_layer_commit", Struct [("version", uint32_t);
   ("", Union [("commit_v1", mdp_layer_commit_v1)])]);
  ("mdp_point", Struct [("x", uint32_t); ("y", uint32_t)])].
Definition mdp_point : cty := type_in structs_mdp_layer_commit "mdp_point".
Definition mdp_async_layer : cty :=
  Struct [("flags", uint32_t); ("pipe_ndx", uint32_t); ("src", mdp_point); ("dst", mdp_point);
   ("error_code", int); ("reserved", Arr 3 uint32_t)].
Definition mdp_position_update : cty :=
  Struct [("input_layers", ptr); ("input_layer_cnt", uint32_t)].
Definition mdp_det_enhance_data : cty :=
  Struct [("enable", uint32_t); ("sharpen_level1", int16_t); ("sharpen_level2", int16_t);
   ("clip", uint16_t); ("limit", uint16_t); ("thr_quiet", uint16_t); ("thr_dieout", uint16_t);
   ("thr_low", uint16_t); ("thr_high", uint16_t); ("prec_shift", uint16_t);
   ("adjust_a", Arr MAX_DET_CURVES int16_t); ("adjust_b", Arr MAX_DET_CURVES int16_t);
   ("adjust_c", Arr MAX_DET_CURVES int16_t)].
Definition mdp_scale_data_v2 : cty :=
  Struct [("enable", uint32_t); ("init_phase_x", Arr 4 int32_t); ("phase_step_x", Arr 4 int32_t);
   ("init_phase_y", Arr 4 int32_t); ("phase_step_y", Arr 4 int32_t);
   ("num_ext_pxls_left", Arr 4 uint32_t); ("num_ext_pxls_right", Arr 4 uint32_t);
   ("num_ext_pxls_top", Arr 4 uint32_t); ("num_ext_pxls_btm", Arr 4 uint32_t);
   ("left_ftch", Arr 4 int32_t); ("left_rpt", Arr 4 int32_t); ("right_ftch", Arr 4 int32_t);
   ("right_rpt", Arr 4 int32_t); ("top_rpt", Arr 4 uint32_t); ("btm_rpt", Arr 4 uint32_t);
   ("top_ftch", Arr 4 uint32_t); ("btm_ftch", Arr 4 uint32_t); ("roi_w", Arr 4 uint32_t);
   ("preload_x", Arr 4 uint32_t); ("preload_y", Arr 4 uint32_t); ("src_width", Arr 4 uint32_t);
   ("src_height", Arr 4 uint32_t); ("dst_width", uint32_t); ("dst_height", uint32_t);
   ("y_rgb_filter_cfg", uint32_t); ("uv_filter_cfg", uint32_t); ("alpha_filter_cfg", uint32_t);
   ("blend_cfg", uint32_t); ("lut_flag", uint32_t); ("dir_lut_idx", uint32_t);
   ("y_rgb_cir_lut_idx", uint32_t); ("uv_cir_lut_idx", uint32_t);
   ("y_rgb_sep_lut_idx", uint32_t); ("uv_sep_lut_idx", uint32_t);
   ("detail_enhance", mdp_det_enhance_data); ("reserved", Arr 8 uint64_t)].
Definition mdp_scale_luts_info : cty :=
  Struct [("dir_lut", uint64_t); ("cir_lut", uint64_t); ("sep_lut", uint64_t);
   ("dir_lut_size", uint32_t); ("cir_lut_size", uint32_t); ("sep_lut_size", uint32_t)].
Definition mdp_set_cfg : cty :=
  Struct [("flags", uint64_t); ("len", uint32_t); ("payload", uint64_t)].
Definition mdp_hdr_stream : cty :=
  Struct [("eotf", uint32_t); ("display_primaries_x", Arr HDR_PRIMARIES_COUNT uint32_t);
   ("display_primaries_y", Arr HDR_PRIMARIES_COUNT uint32_t); ("white_point_x", uint32_t);
   ("white_point_y", uint32_t); ("max_luminance", uint32_t); ("min_luminance", uint32_t);
   ("max_content_light_level", uint32_t); ("max_average_light_level", uint32_t);
   ("pixel_encoding", uint32_t); ("colorimetry", uint32_t); ("range", uint32_t);
   ("bits_per_component", uint32_t); ("content_type", uint32_t); ("reserved", Arr 5 uint32_t)].
Definition mdp_hdr_stream_ctrl : cty :=
  Struct [("hdr_state", __u8); ("hdr_stream", mdp_hdr_stream)].
Definition msm_mdp_ext_types : list (string * cty) :=
  ([("mdp_layer_plane", mdp_layer_plane); ("mdp_layer_buffer", mdp_layer_buffer);
   ("mdp_input_layer", mdp_input_layer); ("mdp_output_layer", mdp_output_layer);
   ("mdp_destination_scaler_data", mdp_destination_scaler_data); ("mdp_layer_commit_v1",
   mdp_layer_commit_v1)] ++ structs_mdp_layer_commit ++ [("mdp_async_layer", mdp_async_layer);
   ("mdp_position_update", mdp_position_update); ("mdp_det_enhance_data",
   mdp_det_enhance_data); ("mdp_scale_data_v2", mdp_scale_data_v2); ("mdp_scale_luts_info",
   mdp_scale_luts_info); ("mdp_set_cfg", mdp_set_cfg); ("mdp_hdr_stream", mdp_hdr_stream);
   ("mdp_hdr_stream_ctrl", mdp_hdr_stream_ctrl)])%list.
Definition msm_mdp_ext_ioctls_1 : list command := [
  _IOWR "MSMFB_ATOMIC_COMMIT" (chr "S") 128 ptr].
Definition msm_mdp_ext_ioctls_2 : list command := [
  _IOWR "MSMFB_ASYNC_POSITION_UPDATE" (chr "S") 129 mdp_position_update;
  _IOW "MSMFB_MDP_SET_CFG" (chr "S") 130 mdp_set_cfg;
  _IOW "MSMFB_MDP_SET_PANEL_PPM" (chr "S") 131 int].
Definition msm_mdp_ext_ioctls : list command :=
  (msm_mdp_ext_ioctls_1 ++ msm_mdp_ext_ioctls_2)%list.
End Msm_mdp_ext.

(** ** [linux/mdss_rotator.h] *)

Module Mdss_rotator.
Definition structs_mdp_rotation_buf_info : list (string * cty) :=
  let mdp_rotation_buf_info := Struct [("width", uint32_t); ("height", uint32_t);
   ("format", uint32_t); ("comp_ratio", Msm_mdp.mult_factor)] in
  [
  ("mdp_rotation_buf_info", mdp_rotation_buf_info);
  ("mdp_rotation_config", Struct [("version", uint32_t); ("session_id", uint32_t);
   ("input", mdp_rotation_buf_info); ("output", mdp_rotation_buf_info); ("frame_rate", uint32_t);
   ("flags", uint32_t); ("reserved", Arr 6 uint32_t)])].
Definition mdp_rotation_item : cty :=
  Struct [("flags", uint32_t); ("src_rect", Msm_mdp.mdp_rect); ("dst_rect", Msm_mdp.mdp_rect);
   ("input", Msm_mdp_ext.mdp_layer_buffer); ("output", Msm_mdp_ext.mdp_layer_buffer);
   ("pipe_idx", uint32_t); ("wb_idx", uint32_t); ("session_id", uint32_t);
   ("reserved", Arr 6 uint32_t)].
Definition mdp_rotation_request : cty :=
  Struct [("version", uint32_t); ("flags", uint32_t); ("count", uint32_t); ("list", ptr);
   ("reserved", Arr 6 uint32_t)].
Definition mdss_rotator_types : list (string * cty) :=
  (structs_mdp_rotation_buf_info ++ [("mdp_rotation_item", mdp_rotation_item);
   ("mdp_rotation_request", mdp_rotation_request)])%list.
Definition mdss_rotator_ioctls : list command := [
  _IOWR "MDSS_ROTATION_OPEN" (chr "w") 1 ptr;
  _IOWR "MDSS_ROTATION_CONFIG" (chr "w") 2 ptr;
  _IOWR "MDSS_ROTATION_REQUEST" (chr "w") 3 ptr;
  _IOW "MDSS_ROTATION_CLOSE" (chr "w") 4 uint].
End Mdss_rotator.

(** ** [linux/msm_ion.h] *)

Module Msm_ion.
Definition structs_ion_flush_data : list (string * cty) :=
  [
  ("ion_flush_data", Struct [("handle", Ion.ion_user_handle_t); ("fd", int); ("vaddr", ptr);
   ("offset", uint); ("length", uint)]);
  ("ion_prefetch_regions", Struct [("vmid", uint); ("sizes", ptr); ("nr_sizes", uint)]);
  ("ion_prefetch_data", Struct [("heap_id", int); ("len", ulong); ("regions", ptr);
   ("nr_regions", uint)])].
Definition ion_flush_data : cty := type_in structs_ion_flush_data "ion_flush_data".
Definition ion_prefetch_data : cty := type_in structs_ion_flush_data "ion_prefetch_data".
Definition msm_ion_types : list (string * cty) := structs_ion_flush_data.
Definition msm_ion_ioctls : list command := [
  _IOWR "ION_IOC_CLEAN_CACHES" (chr "M") 0 ion_flush_data;
  _IOWR "ION_IOC_INV_CACHES" (chr "M") 1 ion_flush_data;
  _IOWR "ION_IOC_CLEAN_INV_CACHES" (chr "M") 2 ion_flush_data;
  _IOWR "ION_IOC_PREFETCH" (chr "M") 3 ion_prefetch_data;
  _IOWR "ION_IOC_DRAIN" (chr "M") 4 ion_prefetch_data].
End Msm_ion.

(** ** [linux/msm_kgsl.h] *)

Module Msm_kgsl.
Definition kgsl_devinfo : cty :=
  Struct [("device_id", uint); ("chip_id", uint); ("mmu_enabled", uint);
   ("gmem_gpubaseaddr", ulong); ("gpu_id", uint); ("gmem_sizebytes", size_t)].
Definition structs_kgsl_shadowprop : list (string * cty) :=
  [
  ("kgsl_shadowprop", Struct [("gpuaddr", ulong); ("size", size_t); ("flags", uint)]);
  ("kgsl_qdss_stm_prop", Struct [("gpuaddr", uint64_t); ("size", uint64_t)]);
  ("kgsl_qtimer_prop", Struct [("gpuaddr", uint64_t); ("size", uint64_t)]);
  ("kgsl_version", Struct [("drv_major", uint); ("drv_minor", uint); ("dev_major", uint);
   ("dev_minor", uint)]);
  ("kgsl_sp_generic_mem", Struct [("local", uint64_t); ("pvt", uint64_t)]);
  ("kgsl_ucode_version", Struct [("pfp", uint); ("pm4", uint)]);
  ("kgsl_gpmu_version", Struct [("major", uint); ("minor", uint); ("features", uint)])].
Definition structs_kgsl_ibdesc : list (string * cty) :=
  [
  ("kgsl_ibdesc", Struct [("gpuaddr", ulong); ("__pad", ulong); ("sizedwords", size_t);
   ("ctrl", uint)]);
  ("kgsl_cmdbatch_profiling_buffer", Struct [("wall_clock_s", uint64_t);
   ("wall_clock_ns", uint64_t); ("gpu_ticks_queued", uint64_t);
   ("gpu_ticks_submitted", uint64_t); ("gpu_ticks_retired", uint64_t)])].
Definition kgsl_device_getproperty : cty :=
  Struct [("type", uint); ("value", ptr); ("sizebytes", size_t)].
Definition kgsl_device_waittimestamp : cty := Struct [("timestamp", uint); ("timeout", uint)].
Definition kgsl_device_waittimestamp_ctxtid : cty :=
  Struct [("context_id", uint); ("timestamp", uint); ("timeout", uint)].
Definition kgsl_ringbuffer_issueibcmds : cty :=
  Struct [("drawctxt_id", uint); ("ibdesc_addr", ulong); ("numibs", uint); ("timestamp", uint);
   ("flags", uint)].
Definition kgsl_cmdstream_readtimestamp : cty := Struct [("type", uint); ("timestamp", uint)].
Definition kgsl_cmdstream_freememontimestamp : cty :=
  Struct [("gpuaddr", ulong); ("type", uint); ("timestamp", uint)].
Definition kgsl_drawctxt_create : cty := Struct [("flags", uint); ("drawctxt_id", uint)].
Definition kgsl_drawctxt_destroy : cty := Struct [("drawctxt_id", uint)].
Definition kgsl_map_user_mem : cty :=
  Struct [("fd", int); ("gpuaddr", ulong); ("len", size_t); ("offset", size_t);
   ("hostptr", ulong); ("memtype", enum); ("flags", uint)].
Definition kgsl_cmdstream_readtimestamp_ctxtid : cty :=
  Struct [("context_id", uint); ("type", uint); ("timestamp", uint)].
Definition kgsl_cmdstream_freememontimestamp_ctxtid : cty :=
  Struct [("context_id", uint); ("gpuaddr", ulong); ("type", uint); ("timestamp", uint)].
Definition kgsl_sharedmem_from_pmem : cty :=
  Struct [("pmem_fd", int); ("gpuaddr", ulong); ("len", uint); ("offset", uint)].
Definition kgsl_sharedmem_free : cty := Struct [("gpuaddr", ulong)].
Definition kgsl_cff_user_event : cty :=
  Struct [("cff_opcode", uchar); ("op1", uint); ("op2", uint); ("op3", uint); ("op4", uint);
   ("op5", uint); ("__pad", Arr 2 uint)].
Definition structs_kgsl_gmem_desc : list (string * cty) :=
  let kgsl_gmem_desc := Struct [("x", uint); ("y", uint); ("width", uint); ("height", uint);
   ("pitch", uint)] in
  let kgsl_buffer_desc := Struct [("hostptr", ptr); ("gpuaddr", ulong); ("size", int);
   ("format", uint); ("pitch", uint); ("enabled", uint)] in
  [
  ("kgsl_gmem_desc", kgsl_gmem_desc);
  ("kgsl_buffer_desc", kgsl_buffer_desc);
  ("kgsl_bind_gmem_shadow", Struct [("drawctxt_id", uint); ("gmem_desc", kgsl_gmem_desc);
   ("shadow_x", uint); ("shadow_y", uint); ("shadow_buffer", kgsl_buffer_desc);
   ("buffer_id", uint)])].
Definition kgsl_bind_gmem_shadow : cty := type_in structs_kgsl_gmem_desc "kgsl_bind_gmem_shadow".
Definition kgsl_sharedmem_from_vmalloc : cty :=
  Struct [("gpuaddr", ulong); ("hostptr", uint); ("flags", uint)].
Definition kgsl_drawctxt_set_bin_base_offset : cty :=
  Struct [("drawctxt_id", uint); ("offset", uint)].
Definition kgsl_cmdwindow_write : cty :=
  Struct [("target", enum); ("addr", uint); ("data", uint)].
Definition kgsl_gpumem_alloc : cty :=
  Struct [("gpuaddr", ulong); ("size", size_t); ("flags", uint)].
Definition kgsl_cff_syncmem : cty :=
  Struct [("gpuaddr", ulong); ("len", size_t); ("__pad", Arr 2 uint)].
Definition kgsl_timestamp_event : cty :=
  Struct [("type", int); ("timestamp", uint); ("context_id", uint); ("priv", ptr); ("len", size_t)].
Definition kgsl_timestamp_event_genlock : cty := Struct [("handle", int)].
Definition kgsl_timestamp_event_fence : cty := Struct [("fence_fd", int)].
Definition kgsl_gpumem_alloc_id : cty :=
  Struct [("id", uint); ("flags", uint); ("size", size_t); ("mmapsize", size_t);
   ("gpuaddr", ulong); ("__pad", Arr 2 ulong)].
Definition kgsl_gpumem_free_id : cty := Struct [("id", uint); ("__pad", uint)].
Definition kgsl_gpumem_get_info : cty :=
  Struct [("gpuaddr", ulong); ("id", uint); ("flags", uint); ("size", size_t);
   ("mmapsize", size_t); ("useraddr", ulong); ("__pad", Arr 4 ulong)].
Definition kgsl_gpumem_sync_cache : cty :=
  Struct [("gpuaddr", ulong); ("id", uint); ("op", uint); ("offset", size_t); ("length", size_t)].
Definition kgsl_perfcounter_get : cty :=
  Struct [("groupid", uint); ("countable", uint); ("offset", uint); ("offset_hi", uint);
   ("__pad", uint)].
Definition kgsl_perfcounter_put : cty :=
  Struct [("groupid", uint); ("countable", uint); ("__pad", Arr 2 uint)].
Definition kgsl_perfcounter_query : cty :=
  Struct [("groupid", uint); ("countables", ptr); ("count", uint); ("max_counters", uint);
   ("__pad", Arr 2 uint)].
Definition structs_kgsl_perfcounter_read_group : list (string * cty) :=
  [
  ("kgsl_perfcounter_read_group", Struct [("groupid", uint); ("countable", uint);
   ("value", ullong)]);
  ("kgsl_perfcounter_read", Struct [("reads", ptr); ("count", uint); ("__pad", Arr 2 uint)])].
Definition kgsl_perfcounter_read : cty := type_in structs_kgsl_perfcounter_read_group "kgsl_perfcounter_read".
Definition kgsl_gpumem_sync_cache_bulk : cty :=
  Struct [("id_list", ptr); ("count", uint); ("op", uint); ("__pad", Arr 2 uint)].
Definition structs_kgsl_cmd_syncpoint_timestamp : list (string * cty) :=
  [
  ("kgsl_cmd_syncpoint_timestamp", Struct [("context_id", uint); ("timestamp", uint)]);
  ("kgsl_cmd_syncpoint_fence", Struct [("fd", int)]);
  ("kgsl_cmd_syncpoint", Struct [("type", int); ("priv", ptr); ("size", size_t)])].
Definition kgsl_submit_commands : cty :=
  Struct [("context_id", uint); ("flags", uint); ("cmdlist", ptr); ("numcmds", uint);
   ("synclist", ptr); ("numsyncs", uint); ("timestamp", uint); ("__pad", Arr 4 uint)].
Definition kgsl_device_constraint : cty :=
  Struct [("type", uint); ("context_id", uint); ("data", ptr); ("size", size_t)].
Definition structs_kgsl_device_constraint_pwrlevel : list (string * cty) :=
  [
  ("kgsl_device_constraint_pwrlevel", Struct [("level", uint)]);
  ("kgsl_syncsource_create", Struct [("id", uint); ("__pad", Arr 3 uint)])].
Definition kgsl_syncsource_create : cty := type_in structs_kgsl_device_constraint_pwrlevel "kgsl_syncsource_create".
Definition kgsl_syncsource_destroy : cty := Struct [("id", uint); ("__pad", Arr 3 uint)].
Definition kgsl_syncsource_create_fence : cty :=
  Struct [("id", uint); ("fence_fd", int); ("__pad", Arr 4 uint)].
Definition kgsl_syncsource_signal_fence : cty :=
  Struct [("id", uint); ("fence_fd", int); ("__pad", Arr 4 uint)].
Definition kgsl_cff_sync_gpuobj : cty :=
  Struct [("offset", uint64_t); ("length", uint64_t); ("id", uint)].
Definition kgsl_gpuobj_alloc : cty :=
  Struct [("size", uint64_t); ("flags", uint64_t); ("va_len", uint64_t); ("mmapsize", uint64_t);
   ("id", uint); ("metadata_len", uint); ("metadata", uint64_t)].
Definition kgsl_gpuobj_free : cty :=
  Struct [("flags", uint64_t); ("priv", uint64_t); ("id", uint); ("type", uint); ("len", uint)].
Definition structs_kgsl_gpu_event_timestamp : list (string * cty) :=
  [
  ("kgsl_gpu_event_timestamp", Struct [("context_id", uint); ("timestamp", uint)]);
  ("kgsl_gpu_event_fence", Struct [("fd", int)])].
Definition kgsl_gpuobj_info : cty :=
  Struct [("gpuaddr", uint64_t); ("flags", uint64_t); ("size", uint64_t); ("va_len", uint64_t);
   ("va_addr", uint64_t); ("id", uint)].
Definition structs_kgsl_gpuobj_import : list (string * cty) :=
  [
  ("kgsl_gpuobj_import", Struct [("priv", uint64_t); ("priv_len", uint64_t); ("flags", uint64_t);
   ("type", uint); ("id", uint)]);
  ("kgsl_gpuobj_import_dma_buf", Struct [("fd", int)]);
  ("kgsl_gpuobj_import_useraddr", Struct [("virtaddr", uint64_t)])].
Definition kgsl_gpuobj_import : cty := type_in structs_kgsl_gpuobj_import "kgsl_gpuobj_import".
Definition structs_kgsl_gpuobj_sync_obj : list (string * cty) :=
  [
  ("kgsl_gpuobj_sync_obj", Struct [("offset", uint64_t); ("length", uint64_t); ("id", uint);
   ("op", uint)]);
  ("kgsl_gpuobj_sync", Struct [("objs", uint64_t); ("obj_len", uint); ("count", uint)])].
Definition kgsl_gpuobj_sync : cty := type_in structs_kgsl_gpuobj_sync_obj "kgsl_gpuobj_sync".
Definition structs_kgsl_command_object : list (string * cty) :=
  [
  ("kgsl_command_object", Struct [("offset", uint64_t); ("gpuaddr", uint64_t);
   ("size", uint64_t); ("flags", uint); ("id", uint)]);
  ("kgsl_command_syncpoint", Struct [("priv", uint64_t); ("size", uint64_t); ("type", uint)]);
  ("kgsl_gpu_command", Struct [("flags", uint64_t); ("cmdlist", uint64_t); ("cmdsize", uint);
   ("numcmds", uint); ("objlist", uint64_t); ("objsize", uint); ("numobjs", uint);
   ("synclist", uint64_t); ("syncsize", uint); ("numsyncs", uint); ("context_id", uint);
   ("timestamp", uint)])].
Definition kgsl_gpu_command : cty := type_in structs_kgsl_command_object "kgsl_gpu_command".
Definition kgsl_preemption_counters_query : cty :=
  Struct [("counters", uint64_t); ("size_user", uint); ("size_priority_level", uint);
   ("max_priority_level", uint)].
Definition kgsl_gpuobj_set_info : cty :=
  Struct [("flags", uint64_t); ("metadata", uint64_t); ("id", uint); ("metadata_len", uint);
   ("type", uint)].
Definition kgsl_sparse_phys_alloc : cty :=
  Struct [("size", uint64_t); ("pagesize", uint64_t); ("flags", uint64_t); ("id", uint)].
Definition kgsl_sparse_phys_free : cty := Struct [("id", uint)].
Definition kgsl_sparse_virt_alloc : cty :=
  Struct [("size", uint64_t); ("pagesize", uint64_t); ("flags", uint64_t); ("gpuaddr", uint64_t);
   ("id", uint)].
Definition kgsl_sparse_virt_free : cty := Struct [("id", uint)].
Definition structs_kgsl_sparse_binding_object : list (string * cty) :=
  [
  ("kgsl_sparse_binding_object", Struct [("virtoffset", uint64_t); ("physoffset", uint64_t);
   ("size", uint64_t); ("flags", uint64_t); ("id", uint)]);
  ("kgsl_sparse_bind", Struct [("list", uint64_t); ("id", uint); ("size", uint); ("count", uint)])].
Definition kgsl_sparse_bind : cty := type_in structs_kgsl_sparse_binding_object "kgsl_sparse_bind".
Definition kgsl_gpu_sparse_command : cty :=
  Struct [("flags", uint64_t); ("sparselist", uint64_t); ("synclist", uint64_t);
   ("sparsesize", uint); ("numsparse", uint); ("syncsize", uint); ("numsyncs", uint);
   ("context_id", uint); ("timestamp", uint); ("id", uint)].
Definition msm_kgsl_types : list (string * cty) :=
  ([("kgsl_devinfo", kgsl_devinfo)] ++ structs_kgsl_shadowprop ++ structs_kgsl_ibdesc ++
   [("kgsl_device_getproperty", kgsl_device_getproperty); ("kgsl_device_waittimestamp",
   kgsl_device_waittimestamp); ("kgsl_device_waittimestamp_ctxtid",
   kgsl_device_waittimestamp_ctxtid); ("kgsl_ringbuffer_issueibcmds",
   kgsl_ringbuffer_issueibcmds); ("kgsl_cmdstream_readtimestamp",
   kgsl_cmdstream_readtimestamp); ("kgsl_cmdstream_freememontimestamp",
   kgsl_cmdstream_freememontimestamp); ("kgsl_drawctxt_create", kgsl_drawctxt_create);
   ("kgsl_drawctxt_destroy", kgsl_drawctxt_destroy); ("kgsl_map_user_mem", kgsl_map_user_mem);
   ("kgsl_cmdstream_readtimestamp_ctxtid", kgsl_cmdstream_readtimestamp_ctxtid);
   ("kgsl_cmdstream_freememontimestamp_ctxtid", kgsl_cmdstream_freememontimestamp_ctxtid);
   ("kgsl_sharedmem_from_pmem", kgsl_sharedmem_from_pmem); ("kgsl_sharedmem_free",
   kgsl_sharedmem_free); ("kgsl_cff_user_event", kgsl_cff_user_event)] ++
   structs_kgsl_gmem_desc ++ [("kgsl_sharedmem_from_vmalloc", kgsl_sharedmem_from_vmalloc);
   ("kgsl_drawctxt_set_bin_base_offset", kgsl_drawctxt_set_bin_base_offset);
   ("kgsl_cmdwindow_write", kgsl_cmdwindow_write); ("kgsl_gpumem_alloc", kgsl_gpumem_alloc);
   ("kgsl_cff_syncmem", kgsl_cff_syncmem); ("kgsl_timestamp_event", kgsl_timestamp_event);
   ("kgsl_timestamp_event_genlock", kgsl_timestamp_event_genlock);
   ("kgsl_timestamp_event_fence", kgsl_timestamp_event_fence); ("kgsl_gpumem_alloc_id",
   kgsl_gpumem_alloc_id); ("kgsl_gpumem_free_id", kgsl_gpumem_free_id);
   ("kgsl_gpumem_get_info", kgsl_gpumem_get_info); ("kgsl_gpumem_sync_cache",
   kgsl_gpumem_sync_cache); ("kgsl_perfcounter_get", kgsl_perfcounter_get);
   ("kgsl_perfcounter_put", kgsl_perfcounter_put); ("kgsl_perfcounter_query",
   kgsl_perfcounter_query)] ++ structs_kgsl_perfcounter_read_group ++
   [("kgsl_gpumem_sync_cache_bulk", kgsl_gpumem_sync_cache_bulk)] ++
   structs_kgsl_cmd_syncpoint_timestamp ++ [("kgsl_submit_commands", kgsl_submit_commands);
   ("kgsl_device_constraint", kgsl_device_constraint)] ++
   structs_kgsl_device_constraint_pwrlevel ++ [("kgsl_syncsource_destroy",
   kgsl_syncsource_destroy); ("kgsl_syncsource_create_fence", kgsl_syncsource_create_fence);
   ("kgsl_syncsource_signal_fence", kgsl_syncsource_signal_fence); ("kgsl_cff_sync_gpuobj",
   kgsl_cff_sync_gpuobj); ("kgsl_gpuobj_alloc", kgsl_gpuobj_alloc); ("kgsl_gpuobj_free",
   kgsl_gpuobj_free)] ++ structs_kgsl_gpu_event_timestamp ++ [("kgsl_gpuobj_info",
   kgsl_gpuobj_info)] ++ structs_kgsl_gpuobj_import ++ structs_kgsl_gpuobj_sync_obj ++
   structs_kgsl_command_object ++ [("kgsl_preemption_counters_query",
   kgsl_preemption_counters_query); ("kgsl_gpuobj_set_info", kgsl_gpuobj_set_info);
   ("kgsl_sparse_phys_alloc", kgsl_sparse_phys_alloc); ("kgsl_sparse_phys_free",
   kgsl_sparse_phys_free); ("kgsl_sparse_virt_alloc", kgsl_sparse_virt_alloc);
   ("kgsl_sparse_virt_free", kgsl_sparse_virt_free)] ++ structs_kgsl_sparse_binding_object ++
   [("kgsl_gpu_sparse_command", kgsl_gpu_sparse_command)])%list.
Definition msm_kgsl_ioctls_1 : list command := [
  _IOWR "IOCTL_KGSL_DEVICE_GETPROPERTY" 0x9 2 kgsl_device_getproperty].
Definition msm_kgsl_ioctls_2 : list command := [
  _IOW "IOCTL_KGSL_DEVICE_WAITTIMESTAMP" 0x9 6 kgsl_device_waittimestamp].
Definition msm_kgsl_ioctls_3 : list command := [
  _IOW "IOCTL_KGSL_DEVICE_WAITTIMESTAMP_CTXTID" 0x9 7 kgsl_device_waittimestamp_ctxtid].
Definition msm_kgsl_ioctls_4 : list command := [
  _IOWR "IOCTL_KGSL_RINGBUFFER_ISSUEIBCMDS" 0x9 16 kgsl_ringbuffer_issueibcmds].
Definition msm_kgsl_ioctls_5 : list command := [
  _IOR "IOCTL_KGSL_CMDSTREAM_READTIMESTAMP_OLD" 0x9 17 kgsl_cmdstream_readtimestamp;
  _IOWR "IOCTL_KGSL_CMDSTREAM_READTIMESTAMP" 0x9 17 kgsl_cmdstream_readtimestamp].
Definition msm_kgsl_ioctls_6 : list command := [
  _IOW "IOCTL_KGSL_CMDSTREAM_FREEMEMONTIMESTAMP" 0x9 18 kgsl_cmdstream_freememontimestamp].
Definition msm_kgsl_ioctls_7 : list command := [
  _IOR "IOCTL_KGSL_CMDSTREAM_FREEMEMONTIMESTAMP_OLD" 0x9 18 kgsl_cmdstream_freememontimestamp].
Definition msm_kgsl_ioctls_8 : list command := [
  _IOWR "IOCTL_KGSL_DRAWCTXT_CREATE" 0x9 19 kgsl_drawctxt_create].
Definition msm_kgsl_ioctls_9 : list command := [
  _IOW "IOCTL_KGSL_DRAWCTXT_DESTROY" 0x9 20 kgsl_drawctxt_destroy].
Definition msm_kgsl_ioctls_10 : list command := [
  _IOWR "IOCTL_KGSL_MAP_USER_MEM" 0x9 21 kgsl_map_user_mem].
Definition msm_kgsl_ioctls_11 : list command := [
  _IOWR "IOCTL_KGSL_CMDSTREAM_READTIMESTAMP_CTXTID" 0x9 22 kgsl_cmdstream_readtimestamp_ctxtid].
Definition msm_kgsl_ioctls_12 : list command := [
  _IOW "IOCTL_KGSL_CMDSTREAM_FREEMEMONTIMESTAMP_CTXTID" 0x9 23 kgsl_cmdstream_freememontimestamp_ctxtid].
Definition msm_kgsl_ioctls_13 : list command := [
  _IOWR "IOCTL_KGSL_SHAREDMEM_FROM_PMEM" 0x9 32 kgsl_sharedmem_from_pmem].
Definition msm_kgsl_ioctls_14 : list command := [
  _IOW "IOCTL_KGSL_SHAREDMEM_FREE" 0x9 33 kgsl_sharedmem_free].
Definition msm_kgsl_ioctls_15 : list command := [
  _IOW "IOCTL_KGSL_CFF_USER_EVENT" 0x9 49 kgsl_cff_user_event].
Definition msm_kgsl_ioctls_16 : list command := [
  _IOW "IOCTL_KGSL_DRAWCTXT_BIND_GMEM_SHADOW" 0x9 34 kgsl_bind_gmem_shadow].
Definition msm_kgsl_ioctls_17 : list command := [
  _IOWR "IOCTL_KGSL_SHAREDMEM_FROM_VMALLOC" 0x9 35 kgsl_sharedmem_from_vmalloc].
Definition msm_kgsl_ioctls_18 : list command := [
  _IOW "IOCTL_KGSL_SHAREDMEM_FLUSH_CACHE" 0x9 36 kgsl_sharedmem_free].
Definition msm_kgsl_ioctls_19 : list command := [
  _IOW "IOCTL_KGSL_DRAWCTXT_SET_BIN_BASE_OFFSET" 0x9 37 kgsl_drawctxt_set_bin_base_offset].
Definition msm_kgsl_ioctls_20 : list command := [
  _IOW "IOCTL_KGSL_CMDWINDOW_WRITE" 0x9 46 kgsl_cmdwindow_write].
Definition msm_kgsl_ioctls_21 : list command := [
  _IOWR "IOCTL_KGSL_GPUMEM_ALLOC" 0x9 47 kgsl_gpumem_alloc].
Definition msm_kgsl_ioctls_22 : list command := [
  _IOW "IOCTL_KGSL_CFF_SYNCMEM" 0x9 48 kgsl_cff_syncmem].
Definition msm_kgsl_ioctls_23 : list command := [
  _IOW "IOCTL_KGSL_TIMESTAMP_EVENT_OLD" 0x9 49 kgsl_timestamp_event].
Definition msm_kgsl_ioctls_24 : list command := [
  _IOW "IOCTL_KGSL_SETPROPERTY" 0x9 50 kgsl_device_getproperty;
  _IOWR "IOCTL_KGSL_TIMESTAMP_EVENT" 0x9 51 kgsl_timestamp_event].
Definition msm_kgsl_ioctls_25 : list command := [
  _IOWR "IOCTL_KGSL_GPUMEM_ALLOC_ID" 0x9 52 kgsl_gpumem_alloc_id].
Definition msm_kgsl_ioctls_26 : list command := [
  _IOWR "IOCTL_KGSL_GPUMEM_FREE_ID" 0x9 53 kgsl_gpumem_free_id].
Definition msm_kgsl_ioctls_27 : list command := [
  _IOWR "IOCTL_KGSL_GPUMEM_GET_INFO" 0x9 54 kgsl_gpumem_get_info].
Definition msm_kgsl_ioctls_28 : list command := [
  _IOW "IOCTL_KGSL_GPUMEM_SYNC_CACHE" 0x9 55 kgsl_gpumem_sync_cache].
Definition msm_kgsl_ioctls_29 : list command := [
  _IOWR "IOCTL_KGSL_PERFCOUNTER_GET" 0x9 56 kgsl_perfcounter_get].
Definition msm_kgsl_ioctls_30 : list command := [
  _IOW "IOCTL_KGSL_PERFCOUNTER_PUT" 0x9 57 kgsl_perfcounter_put].
Definition msm_kgsl_ioctls_31 : list command := [
  _IOWR "IOCTL_KGSL_PERFCOUNTER_QUERY" 0x9 58 kgsl_perfcounter_query].
Definition msm_kgsl_ioctls_32 : list command := [
  _IOWR "IOCTL_KGSL_PERFCOUNTER_READ" 0x9 59 kgsl_perfcounter_read].
Definition msm_kgsl_ioctls_33 : list command := [
  _IOWR "IOCTL_KGSL_GPUMEM_SYNC_CACHE_BULK" 0x9 60 kgsl_gpumem_sync_cache_bulk].
Definition msm_kgsl_ioctls_34 : list command := [
  _IOWR "IOCTL_KGSL_SUBMIT_COMMANDS" 0x9 61 kgsl_submit_commands].
Definition msm_kgsl_ioctls_35 : list command := [
  _IOWR "IOCTL_KGSL_SYNCSOURCE_CREATE" 0x9 64 kgsl_syncsource_create].
Definition msm_kgsl_ioctls_36 : list command := [
  _IOWR "IOCTL_KGSL_SYNCSOURCE_DESTROY" 0x9 65 kgsl_syncsource_destroy].
Definition msm_kgsl_ioctls_37 : list command := [
  _IOWR "IOCTL_KGSL_SYNCSOURCE_CREATE_FENCE" 0x9 66 kgsl_syncsource_create_fence].
Definition msm_kgsl_ioctls_38 : list command := [
  _IOWR "IOCTL_KGSL_SYNCSOURCE_SIGNAL_FENCE" 0x9 67 kgsl_syncsource_signal_fence].
Definition msm_kgsl_ioctls_39 : list command := [
  _IOW "IOCTL_KGSL_CFF_SYNC_GPUOBJ" 0x9 68 kgsl_cff_sync_gpuobj].
Definition msm_kgsl_ioctls_40 : list command := [
  _IOWR "IOCTL_KGSL_GPUOBJ_ALLOC" 0x9 69 kgsl_gpuobj_alloc].
Definition msm_kgsl_ioctls_41 : list command := [
  _IOW "IOCTL_KGSL_GPUOBJ_FREE" 0x9 70 kgsl_gpuobj_free].
Definition msm_kgsl_ioctls_42 : list command := [
  _IOWR "IOCTL_KGSL_GPUOBJ_INFO" 0x9 71 kgsl_gpuobj_info].
Definition msm_kgsl_ioctls_43 : list command := [
  _IOWR "IOCTL_KGSL_GPUOBJ_IMPORT" 0x9 72 kgsl_gpuobj_import].
Definition msm_kgsl_ioctls_44 : list command := [
  _IOW "IOCTL_KGSL_GPUOBJ_SYNC" 0x9 73 kgsl_gpuobj_sync].
Definition msm_kgsl_ioctls_45 : list command := [
  _IOWR "IOCTL_KGSL_GPU_COMMAND" 0x9 74 kgsl_gpu_command].
Definition msm_kgsl_ioctls_46 : list command := [
  _IOWR "IOCTL_KGSL_PREEMPTIONCOUNTER_QUERY" 0x9 75 kgsl_preemption_counters_query].
Definition msm_kgsl_ioctls_47 : list command := [
  _IOW "IOCTL_KGSL_GPUOBJ_SET_INFO" 0x9 76 kgsl_gpuobj_set_info].
Definition msm_kgsl_ioctls_48 : list command := [
  _IOWR "IOCTL_KGSL_SPARSE_PHYS_ALLOC" 0x9 80 kgsl_sparse_phys_alloc].
Definition msm_kgsl_ioctls_49 : list command := [
  _IOW "IOCTL_KGSL_SPARSE_PHYS_FREE" 0x9 81 kgsl_sparse_phys_free].
Definition msm_kgsl_ioctls_50 : list command := [
  _IOWR "IOCTL_KGSL_SPARSE_VIRT_ALLOC" 0x9 82 kgsl_sparse_virt_alloc].
Definition msm_kgsl_ioctls_51 : list command := [
  _IOW "IOCTL_KGSL_SPARSE_VIRT_FREE" 0x9 83 kgsl_sparse_virt_free].
Definition msm_kgsl_ioctls_52 : list command := [
  _IOW "IOCTL_KGSL_SPARSE_BIND" 0x9 84 kgsl_sparse_bind].
Definition msm_kgsl_ioctls_53 : list command := [
  _IOWR "IOCTL_KGSL_GPU_SPARSE_COMMAND" 0x9 85 kgsl_gpu_sparse_command].
Definition msm_kgsl_ioctls : list command :=
  (msm_kgsl_ioctls_1 ++ msm_kgsl_ioctls_2 ++ msm_kgsl_ioctls_3 ++ msm_kgsl_ioctls_4 ++
  msm_kgsl_ioctls_5 ++ msm_kgsl_ioctls_6 ++ msm_kgsl_ioctls_7 ++ msm_kgsl_ioctls_8 ++
  msm_kgsl_ioctls_9 ++ msm_kgsl_ioctls_10 ++ msm_kgsl_ioctls_11 ++ msm_kgsl_ioctls_12 ++
  msm_kgsl_ioctls_13 ++ msm_kgsl_ioctls_14 ++ msm_kgsl_ioctls_15 ++ msm_kgsl_ioctls_16 ++
  msm_kgsl_ioctls_17 ++ msm_kgsl_ioctls_18 ++ msm_kgsl_ioctls_19 ++ msm_kgsl_ioctls_20 ++
  msm_kgsl_ioctls_21 ++ msm_kgsl_ioctls_22 ++ msm_kgsl_ioctls_23 ++ msm_kgsl_ioctls_24 ++
  msm_kgsl_ioctls_25 ++ msm_kgsl_ioctls_26 ++ msm_kgsl_ioctls_27 ++ msm_kgsl_ioctls_28 ++
  msm_kgsl_ioctls_29 ++ msm_kgsl_ioctls_30 ++ msm_kgsl_ioctls_31 ++ msm_kgsl_ioctls_32 ++
  msm_kgsl_ioctls_33 ++ msm_kgsl_ioctls_34 ++ msm_kgsl_ioctls_35 ++ msm_kgsl_ioctls_36 ++
  msm_kgsl_ioctls_37 ++ msm_kgsl_ioctls_38 ++ msm_kgsl_ioctls_39 ++ msm_kgsl_ioctls_40 ++
  msm_kgsl_ioctls_41 ++ msm_kgsl_ioctls_42 ++ msm_kgsl_ioctls_43 ++ msm_kgsl_ioctls_44 ++
  msm_kgsl_ioctls_45 ++ msm_kgsl_ioctls_46 ++ msm_kgsl_ioctls_47 ++ msm_kgsl_ioctls_48 ++
  msm_kgsl_ioctls_49 ++ msm_kgsl_ioctls_50 ++ msm_kgsl_ioctls_51 ++ msm_kgsl_ioctls_52 ++
  msm_kgsl_ioctls_53)%list.
End Msm_kgsl.

(** ** [linux/msm_rotator.h] *)

Module Msm_rotator.
Definition structs_msm_rotator_img_info : list (string * cty) :=
  [
  ("msm_rotator_img_info", Struct [("session_id", uint); ("src", Msm_mdp.msmfb_img);
   ("dst", Msm_mdp.msmfb_img); ("src_rect", Msm_mdp.mdp_rect); ("dst_x", uint); ("dst_y", uint);
   ("rotations", uchar); ("enable", int); ("downscale_ratio", uint); ("secure", uint)]);
  ("msm_rotator_data_info", Struct [("session_id", int); ("src", Msm_mdp.msmfb_data);
   ("dst", Msm_mdp.msmfb_data); ("version_key", uint); ("src_chroma", Msm_mdp.msmfb_data);
   ("dst_chroma", Msm_mdp.msmfb_data)]);
  ("msm_rot_clocks", Struct [("clk_name", ptr); ("clk_type", enum); ("clk_rate", uint)]);
  ("msm_rotator_platform_data", Struct [("number_of_clocks", uint);
   ("hardware_version_number", uint); ("rotator_clks", ptr); ("rot_iommu_split_domain", char)])].
Definition msm_rotator_img_info : cty := type_in structs_msm_rotator_img_info "msm_rotator_img_info".
Definition msm_rotator_data_info : cty := type_in structs_msm_rotator_img_info "msm_rotator_data_info".
Definition msm_rotator_types : list (string * cty) := structs_msm_rotator_img_info.
Definition msm_rotator_ioctls : list command := [
  _IOWR "MSM_ROTATOR_IOCTL_START" (chr "R") 1 msm_rotator_img_info;
  _IOW "MSM_ROTATOR_IOCTL_ROTATE" (chr "R") 2 msm_rotator_data_info;
  _IOW "MSM_ROTATOR_IOCTL_FINISH" (chr "R") 3 int].
End Msm_rotator.

(** ** [linux/omapfb.h] *)

Module Omapfb.
Definition structs_omapfb_update_window : list (string * cty) :=
  [
  ("omapfb_update_window", Struct [("x", __u32); ("y", __u32); ("width", __u32);
   ("height", __u32); ("format", __u32); ("out_x", __u32); ("out_y", __u32);
   ("out_width", __u32); ("out_height", __u32); ("reserved", Arr 8 __u32)]);
  ("omapfb_update_window_old", Struct [("x", __u32); ("y", __u32); ("width", __u32);
   ("height", __u32); ("format", __u32)])].
Definition omapfb_update_window : cty := type_in structs_omapfb_update_window "omapfb_update_window".
Definition omapfb_update_window_old : cty := type_in structs_omapfb_update_window "omapfb_update_window_old".
Definition structs_omapfb_plane_info : list (string * cty) :=
  [
  ("omapfb_plane_info", Struct [("pos_x", __u32); ("pos_y", __u32); ("enabled", __u8);
   ("channel_out", __u8); ("mirror", __u8); ("mem_idx", __u8); ("out_width", __u32);
   ("out_height", __u32); ("reserved2", Arr 12 __u32)]);
  ("omapfb_mem_info", Struct [("size", __u32); ("type", __u8); ("reserved", Arr 3 __u8)]);
  ("omapfb_caps", Struct [("ctrl", __u32); ("plane_color", __u32); ("wnd_color", __u32)])].
Definition omapfb_plane_info : cty := type_in structs_omapfb_plane_info "omapfb_plane_info".
Definition omapfb_mem_info : cty := type_in structs_omapfb_plane_info "omapfb_mem_info".
Definition omapfb_caps : cty := type_in structs_omapfb_plane_info "omapfb_caps".
Definition omapfb_color_key : cty :=
  Struct [("channel_out", __u8); ("background", __u32); ("trans_key", __u32); ("key_type", __u8)].
Definition structs_omapfb_memory_read : list (string * cty) :=
  [
  ("omapfb_memory_read", Struct [("x", __u16); ("y", __u16); ("w", __u16); ("h", __u16);
   ("buffer_size", size_t); ("buffer", ptr)]);
  ("omapfb_ovl_colormode", Struct [("overlay_idx", __u8); ("mode_idx", __u8);
   ("bits_per_pixel", __u32); ("nonstd", __u32); ("red", Fb.fb_bitfield);
   ("green", Fb.fb_bitfield); ("blue", Fb.fb_bitfield); ("transp", Fb.fb_bitfield)]);
  ("omapfb_vram_info", Struct [("total", __u32); ("free", __u32); ("largest_free_block", __u32);
   ("reserved", Arr 5 __u32)]);
  ("omapfb_tearsync_info", Struct [("enabled", __u8); ("reserved1", Arr 3 __u8); ("line", __u16);
   ("reserved2", __u16)]);
  ("omapfb_display_info", Struct [("xres", __u16); ("yres", __u16); ("width", __u32);
   ("height", __u32); ("reserved", Arr 5 __u32)])].
Definition omapfb_memory_read : cty := type_in structs_omapfb_memory_read "omapfb_memory_read".
Definition omapfb_ovl_colormode : cty := type_in structs_omapfb_memory_read "omapfb_ovl_colormode".
Definition omapfb_vram_info : cty := type_in structs_omapfb_memory_read "omapfb_vram_info".
Definition omapfb_tearsync_info : cty := type_in structs_omapfb_memory_read "omapfb_tearsync_info".
Definition omapfb_display_info : cty := type_in structs_omapfb_memory_read "omapfb_display_info".
Definition omapfb_types : list (string * cty) :=
  (structs_omapfb_update_window ++ structs_omapfb_plane_info ++ [("omapfb_color_key",
   omapfb_color_key)] ++ structs_omapfb_memory_read)%list.
Definition omapfb_ioctls : list command := [
  _IOW "OMAPFB_MIRROR" (chr "O") 31 int;
  _IO "OMAPFB_SYNC_GFX" (chr "O") 37;
  _IO "OMAPFB_VSYNC" (chr "O") 38;
  _IOW "OMAPFB_SET_UPDATE_MODE" (chr "O") 40 int;
  _IOR "OMAPFB_GET_CAPS" (chr "O") 42 omapfb_caps;
  _IOW "OMAPFB_GET_UPDATE_MODE" (chr "O") 43 int;
  _IOW "OMAPFB_LCD_TEST" (chr "O") 45 int;
  _IOW "OMAPFB_CTRL_TEST" (chr "O") 46 int;
  _IOW "OMAPFB_UPDATE_WINDOW_OLD" (chr "O") 47 omapfb_update_window_old;
  _IOW "OMAPFB_SET_COLOR_KEY" (chr "O") 50 omapfb_color_key;
  _IOW "OMAPFB_GET_COLOR_KEY" (chr "O") 51 omapfb_color_key;
  _IOW "OMAPFB_SETUP_PLANE" (chr "O") 52 omapfb_plane_info;
  _IOW "OMAPFB_QUERY_PLANE" (chr "O") 53 omapfb_plane_info;
  _IOW "OMAPFB_UPDATE_WINDOW" (chr "O") 54 omapfb_update_window;
  _IOW "OMAPFB_SETUP_MEM" (chr "O") 55 omapfb_mem_info;
  _IOW "OMAPFB_QUERY_MEM" (chr "O") 56 omapfb_mem_info;
  _IO "OMAPFB_WAITFORVSYNC" (chr "O") 57;
  _IOR "OMAPFB_MEMORY_READ" (chr "O") 58 omapfb_memory_read;
  _IOR "OMAPFB_GET_OVERLAY_COLORMODE" (chr "O") 59 omapfb_ovl_colormode;
  _IO "OMAPFB_WAITFORGO" (chr "O") 60;
  _IOR "OMAPFB_GET_VRAM_INFO" (chr "O") 61 omapfb_vram_info;
  _IOW "OMAPFB_SET_TEARSYNC" (chr "O") 62 omapfb_tearsync_info;
  _IOR "OMAPFB_GET_DISPLAY_INFO" (chr "O") 63 omapfb_display_info].
End Omapfb.

(** ** [linux/oneshot_sync.h] *)

Module Oneshot_sync.
Definition oneshot_sync_create_fence : cty := Struct [("name", Arr 32 char); ("fence_fd", int)].
Definition oneshot_sync_types : list (string * cty) := [("oneshot_sync_create_fence", oneshot_sync_create_fence)].
Definition oneshot_sync_ioctls_1 : list command := [
  _IOWR "ONESHOT_SYNC_IOC_CREATE_FENCE" (chr "1") 1 oneshot_sync_create_fence].
Definition oneshot_sync_ioctls_2 : list command := [
  _IOWR "ONESHOT_SYNC_IOC_SIGNAL_FENCE" (chr "1") 2 int].
Definition oneshot_sync_ioctls : list command :=
  (oneshot_sync_ioctls_1 ++ oneshot_sync_ioctls_2)%list.
End Oneshot_sync.

(** ** [linux/radeonfb.h] *)

Module Radeonfb.
Definition radeonfb_ioctls : list command := [
  _IOR "FBIO_RADEON_GET_MIRROR" (chr "@") 3 size_t;
  _IOW "FBIO_RADEON_SET_MIRROR" (chr "@") 4 size_t].
End Radeonfb.

(** ** [linux/sw_sync.h] *)

Module Sw_sync.
Definition sw_sync_create_fence_data : cty :=
  Struct [("value", __u32); ("name", Arr 32 char); ("fence", __s32)].
Definition sw_sync_types : list (string * cty) := [("sw_sync_create_fence_data", sw_sync_create_fence_data)].
Definition sw_sync_ioctls : list command := [
  _IOWR "SW_SYNC_IOC_CREATE_FENCE" (chr "W") 0 sw_sync_create_fence_data;
  _IOW "SW_SYNC_IOC_INC" (chr "W") 1 __u32].
End Sw_sync.

(** ** [linux/sync.h] *)

Module Sync.
Definition structs_sync_merge_data : list (string * cty) :=
  [
  ("sync_merge_data", Struct [("fd2", __s32); ("name", Arr 32 char); ("fence", __s32)]);
  ("sync_pt_info", Struct [("len", __u32); ("obj_name", Arr 32 char);
   ("driver_name", Arr 32 char); ("status", __s32); ("timestamp_ns", __u64);
   ("driver_data", Arr 0 __u8)]);
  ("sync_fence_info_data", Struct [("len", __u32); ("name", Arr 32 char); ("status", __s32);
   ("pt_info", Arr 0 __u8)])].
Definition sync_merge_data : cty := type_in structs_sync_merge_data "sync_merge_data".
Definition sync_fence_info_data : cty := type_in structs_sync_merge_data "sync_fence_info_data".
Definition sync_types : list (string * cty) := structs_sync_merge_data.
Definition sync_ioctls_1 : list command := [
  _IOW "SYNC_IOC_WAIT" (chr ">") 0 __s32].
Definition sync_ioctls_2 : list command := [
  _IOWR "SYNC_IOC_MERGE" (chr ">") 1 sync_merge_data].
Definition sync_ioctls_3 : list command := [
  _IOWR "SYNC_IOC_FENCE_INFO" (chr ">") 2 sync_fence_info_data].
Definition sync_ioctls : list command :=
  (sync_ioctls_1 ++ sync_ioctls_2 ++ sync_ioctls_3)%list.
End Sync.

(** ** [video/edid.h] *)

Module Video_edid.
Definition edid_info : cty := Struct [("dummy", Arr 128 uchar)].
Definition video_edid_types : list (string * cty) := [("edid_info", edid_info)].
End Video_edid.

(** ** [video/msm_hdmi_hdcp_mgr.h] *)

Module Video_msm_hdmi_hdcp_mgr.
Definition HDCP_V2V1_MSG_TOPOLOGY : cty :=
  Struct [("ds_type", uint32_t); ("bksv", Arr 5 uint8_t); ("dev_count", uint8_t);
   ("depth", uint8_t); ("ksv_list", Arr 635 uint8_t); ("max_cascade_exceeded", uint32_t);
   ("max_dev_exceeded", uint32_t)].
Definition video_msm_hdmi_hdcp_mgr_types : list (string * cty) := [("HDCP_V2V1_MSG_TOPOLOGY", HDCP_V2V1_MSG_TOPOLOGY)].
End Video_msm_hdmi_hdcp_mgr.

(** ** [video/msm_hdmi_modes.h] *)

Module Video_msm_hdmi_modes.
Definition msm_hdmi_mode_timing_info : cty :=
  Struct [("video_format", uint32_t); ("active_h", uint32_t); ("front_porch_h", uint32_t);
   ("pulse_width_h", uint32_t); ("back_porch_h", uint32_t); ("active_low_h", uint32_t);
   ("active_v", uint32_t); ("front_porch_v", uint32_t); ("pulse_width_v", uint32_t);
   ("back_porch_v", uint32_t); ("active_low_v", uint32_t); ("pixel_freq", uint32_t);
   ("refresh_rate", uint32_t); ("interlaced", uint32_t); ("supported", uint32_t); ("ar", enum);
   ("pixel_formats", uint32_t)].
Definition video_msm_hdmi_modes_types : list (string * cty) := [("msm_hdmi_mode_timing_info", msm_hdmi_mode_timing_info)].
End Video_msm_hdmi_modes.

(** ** [video/sisfb.h] *)

Module Video_sisfb.
Definition sisfb_info : cty :=
  Struct [("sisfb_id", __u32); ("chip_id", __u32); ("memory", __u32); ("heapstart", __u32);
   ("fbvidmode", __u8); ("sisfb_version", __u8); ("sisfb_revision", __u8);
   ("sisfb_patchlevel", __u8); ("sisfb_caps", __u8); ("sisfb_tqlen", __u32);
   ("sisfb_pcibus", __u32); ("sisfb_pcislot", __u32); ("sisfb_pcifunc", __u32);
   ("sisfb_lcdpdc", __u8); ("sisfb_lcda", __u8); ("sisfb_vbflags", __u32);
   ("sisfb_currentvbflags", __u32); ("sisfb_scalelcd", __u32); ("sisfb_specialtiming", __u32);
   ("sisfb_haveemi", __u8); ("sisfb_emi30", __u8); ("sisfb_emi31", __u8); ("sisfb_emi32", __u8);
   ("sisfb_emi33", __u8); ("sisfb_haveemilcd", __u8); ("sisfb_lcdpdca", __u8);
   ("sisfb_tvxpos", __u16); ("sisfb_tvypos", __u16); ("sisfb_heapsize", __u32);
   ("sisfb_videooffset", __u32); ("sisfb_curfstn", __u32); ("sisfb_curdstn", __u32);
   ("sisfb_pci_vendor", __u16); ("sisfb_vbflags2", __u32); ("sisfb_can_post", __u8);
   ("sisfb_card_posted", __u8); ("sisfb_was_boot_device", __u8); ("reserved", Arr 183 __u8)].
Definition sisfb_cmd : cty :=
  Struct [("sisfb_cmd", __u32); ("sisfb_arg", Arr 16 __u32); ("sisfb_result", Arr 4 __u32)].
Definition sis_memreq : cty := Struct [("offset", __u32); ("size", __u32)].
Definition video_sisfb_types : list (string * cty) :=
  ([("sisfb_info", sisfb_info); ("sisfb_cmd", sisfb_cmd); ("sis_memreq", sis_memreq)])%list.
Definition video_sisfb_ioctls_1 : list command := [
  _IOR "SISFB_GET_INFO_SIZE" 0xf3 0 __u32;
  _IOR "SISFB_GET_INFO" 0xf3 1 sisfb_info;
  _IOR "SISFB_GET_VBRSTATUS" 0xf3 2 __u32;
  _IOR "SISFB_GET_AUTOMAXIMIZE" 0xf3 3 __u32;
  _IOW "SISFB_SET_AUTOMAXIMIZE" 0xf3 3 __u32;
  _IOR "SISFB_GET_TVPOSOFFSET" 0xf3 4 __u32;
  _IOW "SISFB_SET_TVPOSOFFSET" 0xf3 4 __u32;
  _IOWR "SISFB_COMMAND" 0xf3 5 sisfb_cmd;
  _IOW "SISFB_SET_LOCK" 0xf3 6 __u32].
Definition video_sisfb_ioctls_2 : list command := [
  _IOR "SISFB_GET_INFO_OLD" (chr "n") 248 __u32;
  _IOR "SISFB_GET_VBRSTATUS_OLD" (chr "n") 249 __u32;
  _IOR "SISFB_GET_AUTOMAXIMIZE_OLD" (chr "n") 250 __u32;
  _IOW "SISFB_SET_AUTOMAXIMIZE_OLD" (chr "n") 250 __u32].
Definition video_sisfb_ioctls : list command :=
  (video_sisfb_ioctls_1 ++ video_sisfb_ioctls_2)%list.
End Video_sisfb.

(** ** [video/uvesafb.h] *)

Module Video_uvesafb.
Definition v86_regs : cty :=
  Struct [("ebx", __u32); ("ecx", __u32); ("edx", __u32); ("esi", __u32); ("edi", __u32);
   ("ebp", __u32); ("eax", __u32); ("eip", __u32); ("eflags", __u32); ("esp", __u32);
   ("cs", __u16); ("ss", __u16); ("es", __u16); ("ds", __u16); ("fs", __u16); ("gs", __u16)].
Definition uvesafb_task : cty := Struct [("flags", __u8); ("buf_len", int); ("regs", v86_regs)].
Definition vbe_ib : cty :=
  Packed [("vbe_signature", Arr 4 char); ("vbe_version", __u16); ("oem_string_ptr", __u32);
   ("capabilities", __u32); ("mode_list_ptr", __u32); ("total_memory", __u16);
   ("oem_software_rev", __u16); ("oem_vendor_name_ptr", __u32); ("oem_product_name_ptr", __u32);
   ("oem_product_rev_ptr", __u32); ("reserved", Arr 222 __u8); ("oem_data", Arr 256 char);
   ("misc_data", Arr 512 char)].
Definition video_uvesafb_types : list (string * cty) :=
  ([("v86_regs", v86_regs); ("uvesafb_task", uvesafb_task); ("vbe_ib", vbe_ib)])%list.
End Video_uvesafb.
