(* ===== verification/AbiCamera.v ===== *)
(** * ABI of the camera drivers

    The structures and unions of these headers of [kernel-headers], one module per
    header: the larger ones as types of their own, those that stand in a row as a
    block; and the ioctl commands with their arguments. *)
From S2P Require Import Prelude.
From S2P Require Import CLayout.
From S2P Require Import Ioctl.
From S2P Require Import AbiMedia.
From S2P Require Import AbiDisplay.
#[local] Open Scope string_scope.

(** ** [media/ais/msm_ais.h] *)

Module Media_ais_msm_ais.
Definition MSM_CAMERA_MAX_USER_BUFF_CNT : Z := 16.
Definition msm_v4l2_event_data : cty :=
  Struct [("command", uint); ("status", uint); ("session_id", uint); ("stream_id", uint);
   ("map_op", uint); ("map_buf_idx", uint); ("notify", uint); ("arg_value", uint);
   ("ret_value", uint); ("v4l2_event_type", uint); ("v4l2_event_id", uint); ("handle", uint);
   ("nop6", uint); ("nop7", uint); ("nop8", uint); ("nop9", uint)].
Definition msm_v4l2_format_data : cty :=
  Struct [("type", enum); ("width", uint); ("height", uint); ("pixelformat", uint);
   ("num_planes", uchar); ("plane_sizes", Arr 8 uint)].
Definition structs_msm_camera_smmu_attach_type : list (string * cty) :=
  [
  ("msm_camera_smmu_attach_type", Struct [("attach", enum)]);
  ("msm_camera_user_buf_cont_t", Struct [("buf_cnt", uint);
   ("buf_idx", Arr MSM_CAMERA_MAX_USER_BUFF_CNT uint)]);
  ("msm_camera_return_buf", Struct [("index", __u32); ("reserved", __u32)])].
Definition msm_camera_user_buf_cont_t : cty := type_in structs_msm_camera_smmu_attach_type "msm_camera_user_buf_cont_t".
Definition msm_camera_private_ioctl_arg : cty :=
  Struct [("id", __u32); ("size", __u32); ("result", __u32); ("reserved", __u32);
   ("ioctl_ptr", __u64)].
Definition media_ais_msm_ais_types : list (string * cty) :=
  ([("msm_v4l2_event_data", msm_v4l2_event_data); ("msm_v4l2_format_data",
   msm_v4l2_format_data)] ++ structs_msm_camera_smmu_attach_type ++
   [("msm_camera_private_ioctl_arg", msm_camera_private_ioctl_arg)])%list.
Definition media_ais_msm_ais_ioctls_1 : list command := [
  _IOW "MSM_CAM_V4L2_IOCTL_NOTIFY" (chr "V") 222 msm_v4l2_event_data;
  _IOW "MSM_CAM_V4L2_IOCTL_NOTIFY_META" (chr "V") 223 msm_v4l2_event_data;
  _IOW "MSM_CAM_V4L2_IOCTL_CMD_ACK" (chr "V") 224 msm_v4l2_event_data;
  _IOW "MSM_CAM_V4L2_IOCTL_NOTIFY_ERROR" (chr "V") 225 msm_v4l2_event_data;
  _IOW "MSM_CAM_V4L2_IOCTL_NOTIFY_DEBUG" (chr "V") 226 msm_v4l2_event_data;
  _IOW "MSM_CAM_V4L2_IOCTL_DAEMON_DISABLED" (chr "V") 227 msm_v4l2_event_data].
Definition media_ais_msm_ais_ioctls_2 : list command := [
  _IOWR "VIDIOC_MSM_CAMERA_PRIVATE_IOCTL_CMD" (chr "V") 192 msm_camera_private_ioctl_arg].
Definition media_ais_msm_ais_ioctls : list command :=
  (media_ais_msm_ais_ioctls_1 ++ media_ais_msm_ais_ioctls_2)%list.
End Media_ais_msm_ais.

(** ** [media/ais/msm_ais_buf_mgr.h] *)

Module Media_ais_msm_ais_buf_mgr.
Definition structs_msm_buf_mngr_info : list (string * cty) :=
  [
  ("msm_buf_mngr_info", Struct [("session_id", uint32_t); ("stream_id", uint32_t);
   ("frame_id", uint32_t); ("timestamp", timeval); ("index", uint32_t); ("reserved", uint32_t);
   ("type", enum); ("user_buf", Media_ais_msm_ais.msm_camera_user_buf_cont_t)]);
  ("msm_buf_mngr_main_cont_info", Struct [("session_id", uint32_t); ("stream_id", uint32_t);
   ("cmd", enum); ("cnt", uint32_t); ("cont_fd", int32_t)])].
Definition msm_buf_mngr_info : cty := type_in structs_msm_buf_mngr_info "msm_buf_mngr_info".
Definition msm_buf_mngr_main_cont_info : cty := type_in structs_msm_buf_mngr_info "msm_buf_mngr_main_cont_info".
Definition media_ais_msm_ais_buf_mgr_types : list (string * cty) := structs_msm_buf_mngr_info.
Definition media_ais_msm_ais_buf_mgr_ioctls : list command := [
  _IOWR "VIDIOC_MSM_BUF_MNGR_GET_BUF" (chr "V") 225 msm_buf_mngr_info;
  _IOWR "VIDIOC_MSM_BUF_MNGR_PUT_BUF" (chr "V") 226 msm_buf_mngr_info;
  _IOWR "VIDIOC_MSM_BUF_MNGR_BUF_DONE" (chr "V") 227 msm_buf_mngr_info;
  _IOWR "VIDIOC_MSM_BUF_MNGR_CONT_CMD" (chr "V") 228 msm_buf_mngr_main_cont_info;
  _IOWR "VIDIOC_MSM_BUF_MNGR_INIT" (chr "V") 229 msm_buf_mngr_info;
  _IOWR "VIDIOC_MSM_BUF_MNGR_DEINIT" (chr "V") 230 msm_buf_mngr_info;
  _IOWR "VIDIOC_MSM_BUF_MNGR_FLUSH" (chr "V") 231 msm_buf_mngr_info;
  _IOWR "VIDIOC_MSM_BUF_MNGR_IOCTL_CMD" (chr "V") 232 Media_ais_msm_ais.msm_camera_private_ioctl_arg].
End Media_ais_msm_ais_buf_mgr.

(** ** [media/ais/msm_ais_isp.h] *)

Module Media_ais_msm_ais_isp.
Definition MAX_PLANES_PER_STREAM : Z := 3.
Definition MS_NUM_SLAVE_MAX : Z := 1.
Definition msm_isp_sw_framskip : cty :=
  Struct [("stats_type_mask", uint32_t); ("stream_src_mask", uint32_t); ("skip_mode", enum);
   ("min_frame_id", uint32_t); ("max_frame_id", uint32_t)].
Definition msm_vfe_fetch_engine_cfg : cty :=
  Struct [("input_format", uint32_t); ("buf_width", uint32_t); ("buf_height", uint32_t);
   ("fetch_width", uint32_t); ("fetch_height", uint32_t); ("x_offset", uint32_t);
   ("y_offset", uint32_t); ("buf_stride", uint32_t)].
Definition msm_vfe_camif_subsample_cfg : cty :=
  Struct [("irq_subsample_period", uint32_t); ("irq_subsample_pattern", uint32_t);
   ("sof_counter_step", uint32_t); ("pixel_skip", uint32_t); ("line_skip", uint32_t);
   ("first_line", uint32_t); ("last_line", uint32_t); ("first_pixel", uint32_t);
   ("last_pixel", uint32_t); ("output_format", enum)].
Definition msm_vfe_camif_cfg : cty :=
  Struct [("lines_per_frame", uint32_t); ("pixels_per_line", uint32_t);
   ("first_pixel", uint32_t); ("last_pixel", uint32_t); ("first_line", uint32_t);
   ("last_line", uint32_t); ("epoch_line0", uint32_t); ("epoch_line1", uint32_t);
   ("is_split", uint32_t); ("vsync_edge", uint32_t); ("hsync_edge", uint32_t);
   ("sync_mode", uint32_t); ("vfe_subsample_en", uint32_t); ("bus_subsample_en", uint32_t);
   ("vfe_output_en", uint32_t); ("bus_output_en", uint32_t); ("binning_enable", uint32_t);
   ("irq_subsample_period", uint32_t); ("misr_en", uint32_t);
   ("irq_subsample_pattern", uint32_t); ("frame_based_en", uint32_t);
   ("frame_drop_Period", uint32_t); ("frame_drop_pattern", uint32_t);
   ("frame_drop_irq_en", uint32_t); ("camif_input", enum);
   ("subsample_cfg", msm_vfe_camif_subsample_cfg)].
Definition msm_vfe_testgen_cfg : cty :=
  Struct [("lines_per_frame", uint32_t); ("pixels_per_line", uint32_t); ("v_blank", uint32_t);
   ("h_blank", uint32_t); ("pixel_bayer_pattern", enum); ("rotate_period", uint32_t);
   ("color_bar_pattern", enum); ("burst_num_frame", uint32_t)].
Definition structs_msm_vfe_pix_cfg : list (string * cty) :=
  let msm_vfe_pix_cfg := Struct [("camif_cfg", msm_vfe_camif_cfg);
   ("testgen_cfg", msm_vfe_testgen_cfg); ("fetch_engine_cfg", msm_vfe_fetch_engine_cfg);
   ("input_mux", enum); ("pixel_pattern", enum); ("input_format", uint32_t); ("hvx_cmd", enum);
   ("is_split", uint32_t)] in
  let msm_vfe_rdi_cfg := Struct [("cid", uint8_t); ("frame_based", uint8_t)] in
  [
  ("msm_vfe_pix_cfg", msm_vfe_pix_cfg);
  ("msm_vfe_rdi_cfg", msm_vfe_rdi_cfg);
  ("msm_vfe_input_cfg", Struct [("d", Union [("pix_cfg", msm_vfe_pix_cfg);
   ("rdi_cfg", msm_vfe_rdi_cfg)]); ("input_src", enum); ("input_pix_clk", uint32_t)]);
  ("msm_vfe_fetch_eng_start", Struct [("session_id", uint32_t); ("stream_id", uint32_t);
   ("buf_idx", uint32_t); ("offline_mode", uint8_t); ("fd", uint32_t); ("buf_addr", uint32_t);
   ("frame_id", uint32_t)])].
Definition msm_vfe_input_cfg : cty := type_in structs_msm_vfe_pix_cfg "msm_vfe_input_cfg".
Definition msm_vfe_fetch_eng_start : cty := type_in structs_msm_vfe_pix_cfg "msm_vfe_fetch_eng_start".
Definition structs_msm_vfe_fetch_eng_multi_pass_start : list (string * cty) :=
  [
  ("msm_vfe_fetch_eng_multi_pass_start", Struct [("session_id", uint32_t);
   ("stream_id", uint32_t); ("buf_idx", uint32_t); ("offline_mode", uint8_t); ("fd", uint32_t);
   ("buf_addr", uint32_t); ("frame_id", uint32_t); ("output_buf_idx", uint32_t);
   ("input_buf_offset", uint32_t); ("offline_pass", enum); ("output_stream_id", uint32_t)]);
  ("msm_vfe_axi_plane_cfg", Struct [("output_width", uint32_t); ("output_height", uint32_t);
   ("output_stride", uint32_t); ("output_scan_lines", uint32_t);
   ("output_plane_format", uint32_t); ("plane_addr_offset", uint32_t); ("csid_src", uint8_t);
   ("rdi_cid", uint8_t)])].
Definition msm_vfe_fetch_eng_multi_pass_start : cty := type_in structs_msm_vfe_fetch_eng_multi_pass_start "msm_vfe_fetch_eng_multi_pass_start".
Definition msm_vfe_axi_plane_cfg : cty := type_in structs_msm_vfe_fetch_eng_multi_pass_start "msm_vfe_axi_plane_cfg".
Definition structs_msm_vfe_axi_stream_request_cmd : list (string * cty) :=
  [
  ("msm_vfe_axi_stream_request_cmd", Struct [("session_id", uint32_t); ("stream_id", uint32_t);
   ("vt_enable", uint32_t); ("output_format", uint32_t); ("stream_src", enum);
   ("plane_cfg", Arr MAX_PLANES_PER_STREAM msm_vfe_axi_plane_cfg); ("burst_count", uint32_t);
   ("hfr_mode", uint32_t); ("frame_base", uint8_t); ("init_frame_drop", uint32_t);
   ("frame_skip_pattern", enum); ("buf_divert", uint8_t); ("axi_stream_handle", uint32_t);
   ("controllable_output", uint32_t); ("burst_len", uint32_t); ("memory_input", enum)]);
  ("msm_vfe_axi_stream_release_cmd", Struct [("stream_handle", uint32_t)])].
Definition msm_vfe_axi_stream_request_cmd : cty := type_in structs_msm_vfe_axi_stream_request_cmd "msm_vfe_axi_stream_request_cmd".
Definition msm_vfe_axi_stream_release_cmd : cty := type_in structs_msm_vfe_axi_stream_request_cmd "msm_vfe_axi_stream_release_cmd".
Definition msm_vfe_axi_stream_cfg_cmd : cty :=
  Struct [("num_streams", uint8_t); ("stream_handle", Arr 9 uint32_t); ("cmd", enum);
   ("sync_frame_id_src", uint8_t); ("hw_state", enum)].
Definition structs_msm_vfe_axi_stream_cfg_update_info : list (string * cty) :=
  let msm_vfe_axi_stream_cfg_update_info := Struct [("stream_handle", uint32_t);
   ("output_format", uint32_t); ("user_stream_id", uint32_t); ("frame_id", uint32_t);
   ("skip_pattern", enum); ("plane_cfg", Arr MAX_PLANES_PER_STREAM msm_vfe_axi_plane_cfg);
   ("sw_skip_info", msm_isp_sw_framskip)] in
  let msm_vfe_axi_stream_cfg_update_info_req_frm := Struct [("stream_handle", uint32_t);
   ("user_stream_id", uint32_t); ("frame_id", uint32_t); ("buf_index", uint32_t)] in
  [
  ("msm_vfe_axi_stream_cfg_update_info", msm_vfe_axi_stream_cfg_update_info);
  ("msm_vfe_axi_stream_cfg_update_info_req_frm", msm_vfe_axi_stream_cfg_update_info_req_frm);
  ("msm_vfe_axi_halt_cmd", Struct [("stop_camif", uint32_t); ("overflow_detected", uint32_t);
   ("blocking_halt", uint32_t)]);
  ("msm_vfe_axi_reset_cmd", Struct [("blocking", uint32_t); ("frame_id", uint32_t)]);
  ("msm_vfe_axi_restart_cmd", Struct [("enable_camif", uint32_t)]);
  ("msm_vfe_axi_stream_update_cmd", Struct [("num_streams", uint32_t); ("update_type", enum);
   ("", Union [("update_info", Arr 15 msm_vfe_axi_stream_cfg_update_info);
   ("req_frm_ver2", msm_vfe_axi_stream_cfg_update_info_req_frm)])]);
  ("msm_vfe_smmu_attach_cmd", Struct [("security_mode", uint32_t);
   ("iommu_attach_mode", uint32_t)]);
  ("msm_vfe_stats_stream_request_cmd", Struct [("session_id", uint32_t); ("stream_id", uint32_t);
   ("stats_type", enum); ("composite_flag", uint32_t); ("framedrop_pattern", uint32_t);
   ("init_frame_drop", uint32_t); ("irq_subsample_pattern", uint32_t);
   ("buffer_offset", uint32_t); ("stream_handle", uint32_t)]);
  ("msm_vfe_stats_stream_release_cmd", Struct [("stream_handle", uint32_t)]);
  ("msm_vfe_stats_stream_cfg_cmd", Struct [("num_streams", uint8_t);
   ("stream_handle", Arr 15 uint32_t); ("enable", uint8_t); ("stats_burst_len", uint32_t)])].
Definition msm_vfe_axi_halt_cmd : cty := type_in structs_msm_vfe_axi_stream_cfg_update_info "msm_vfe_axi_halt_cmd".
Definition msm_vfe_axi_reset_cmd : cty := type_in structs_msm_vfe_axi_stream_cfg_update_info "msm_vfe_axi_reset_cmd".
Definition msm_vfe_axi_restart_cmd : cty := type_in structs_msm_vfe_axi_stream_cfg_update_info "msm_vfe_axi_restart_cmd".
Definition msm_vfe_axi_stream_update_cmd : cty := type_in structs_msm_vfe_axi_stream_cfg_update_info "msm_vfe_axi_stream_update_cmd".
Definition msm_vfe_smmu_attach_cmd : cty := type_in structs_msm_vfe_axi_stream_cfg_update_info "msm_vfe_smmu_attach_cmd".
Definition msm_vfe_stats_stream_request_cmd : cty := type_in structs_msm_vfe_axi_stream_cfg_update_info "msm_vfe_stats_stream_request_cmd".
Definition msm_vfe_stats_stream_release_cmd : cty := type_in structs_msm_vfe_axi_stream_cfg_update_info "msm_vfe_stats_stream_release_cmd".
Definition msm_vfe_stats_stream_cfg_cmd : cty := type_in structs_msm_vfe_axi_stream_cfg_update_info "msm_vfe_stats_stream_cfg_cmd".
Definition structs_msm_vfe_cfg_cmd2 : list (string * cty) :=
  let msm_vfe_cfg_cmd2 := Struct [("num_cfg", uint16_t); ("cmd_len", uint16_t);
   ("cfg_data", ptr); ("cfg_cmd", ptr)] in
  let msm_vfe_reg_rw_info := Struct [("reg_offset", uint32_t); ("cmd_data_offset", uint32_t);
   ("len", uint32_t)] in
  let msm_vfe_reg_mask_info := Struct [("reg_offset", uint32_t); ("mask", uint32_t);
   ("val", uint32_t)] in
  let msm_vfe_reg_dmi_info := Struct [("hi_tbl_offset", uint32_t); ("lo_tbl_offset", uint32_t);
   ("len", uint32_t)] in
  [
  ("msm_vfe_cfg_cmd2", msm_vfe_cfg_cmd2);
  ("msm_vfe_cfg_cmd_list", Struct [("cfg_cmd", msm_vfe_cfg_cmd2); ("next", ptr);
   ("next_size", uint32_t)]);
  ("msm_vfe_reg_rw_info", msm_vfe_reg_rw_info);
  ("msm_vfe_reg_mask_info", msm_vfe_reg_mask_info);
  ("msm_vfe_reg_dmi_info", msm_vfe_reg_dmi_info);
  ("msm_vfe_reg_cfg_cmd", Struct [("u", Union [("rw_info", msm_vfe_reg_rw_info);
   ("mask_info", msm_vfe_reg_mask_info); ("dmi_info", msm_vfe_reg_dmi_info)]);
   ("cmd_type", enum)])].
Definition msm_vfe_cfg_cmd2 : cty := type_in structs_msm_vfe_cfg_cmd2 "msm_vfe_cfg_cmd2".
Definition msm_vfe_cfg_cmd_list : cty := type_in structs_msm_vfe_cfg_cmd2 "msm_vfe_cfg_cmd_list".
Definition msm_isp_set_dual_hw_ms_cmd : cty :=
  Struct [("num_src", uint8_t); ("dual_hw_ms_type", enum); ("primary_intf", enum);
   ("input_src", Arr 4 enum); ("sof_delta_threshold", uint32_t)].
Definition structs_msm_isp_unmap_buf_req : list (string * cty) :=
  let msm_isp_qbuf_plane := Struct [("addr", uint32_t); ("offset", uint32_t);
   ("length", uint32_t)] in
  let msm_isp_qbuf_buffer := Struct [("planes", Arr MAX_PLANES_PER_STREAM msm_isp_qbuf_plane);
   ("num_planes", uint32_t)] in
  [
  ("msm_isp_unmap_buf_req", Struct [("fd", uint32_t)]);
  ("msm_isp_buf_request", Struct [("vfe_id", uint32_t); ("output_id", enum); ("flags", uint32_t);
   ("num_buf", uint8_t); ("handle", uint32_t); ("buf_type", enum)]);
  ("msm_isp_qbuf_plane", msm_isp_qbuf_plane);
  ("msm_isp_qbuf_buffer", msm_isp_qbuf_buffer);
  ("msm_isp_qbuf_info", Struct [("handle", uint32_t); ("buf_idx", int32_t);
   ("buffer", msm_isp_qbuf_buffer); ("dirty_buf", uint32_t)]);
  ("msm_isp_clk_rates", Struct [("svs_rate", uint32_t); ("nominal_rate", uint32_t);
   ("high_rate", uint32_t)]);
  ("msm_vfe_axi_src_state", Struct [("input_src", enum); ("src_active", uint32_t);
   ("src_frame_id", uint32_t)])].
Definition msm_isp_unmap_buf_req : cty := type_in structs_msm_isp_unmap_buf_req "msm_isp_unmap_buf_req".
Definition msm_isp_buf_request : cty := type_in structs_msm_isp_unmap_buf_req "msm_isp_buf_request".
Definition msm_isp_qbuf_info : cty := type_in structs_msm_isp_unmap_buf_req "msm_isp_qbuf_info".
Definition msm_vfe_axi_src_state : cty := type_in structs_msm_isp_unmap_buf_req "msm_vfe_axi_src_state".
Definition structs_msm_vfe_bufq_state : list (string * cty) :=
  let msm_vfe_bufq_state := Struct [("handle", uint32_t); ("nbufs", uint32_t);
   ("buf_state", ptr)] in
  [
  ("msm_vfe_bufq_state", msm_vfe_bufq_state);
  ("msm_vfe_cmd_ext", Struct [("type", enum);
   ("data", Union [("bufq_state", msm_vfe_bufq_state)])])].
Definition msm_vfe_cmd_ext : cty := type_in structs_msm_vfe_bufq_state "msm_vfe_cmd_ext".
Definition structs_msm_isp_buf_event : list (string * cty) :=
  [
  ("msm_isp_buf_event", Struct [("session_id", uint32_t); ("stream_id", uint32_t);
   ("handle", uint32_t); ("output_format", uint32_t); ("buf_idx", int8_t);
   ("field_type", uint8_t)]);
  ("msm_isp_fetch_eng_event", Struct [("session_id", uint32_t); ("stream_id", uint32_t);
   ("handle", uint32_t); ("fd", uint32_t); ("buf_idx", int8_t); ("offline_mode", int8_t)]);
  ("msm_isp_stats_event", Struct [("stats_mask", uint32_t); ("stats_buf_idxs", Arr 15 uint8_t)]);
  ("msm_isp_stream_ack", Struct [("session_id", uint32_t); ("stream_id", uint32_t);
   ("handle", uint32_t)])].
Definition msm_isp_buf_event : cty := type_in structs_msm_isp_buf_event "msm_isp_buf_event".
Definition msm_isp_fetch_eng_event : cty := type_in structs_msm_isp_buf_event "msm_isp_fetch_eng_event".
Definition msm_isp_stats_event : cty := type_in structs_msm_isp_buf_event "msm_isp_stats_event".
Definition structs_msm_isp_error_info : list (string * cty) :=
  let msm_isp_ms_delta_info := Struct [("num_delta_info", uint8_t);
   ("delta", Arr MS_NUM_SLAVE_MAX uint32_t)] in
  [
  ("msm_isp_error_info", Struct [("err_type", enum); ("session_id", uint32_t);
   ("stream_id", uint32_t); ("stream_id_mask", uint32_t)]);
  ("msm_isp_ms_delta_info", msm_isp_ms_delta_info);
  ("msm_isp_output_info", Struct [("regs_not_updated", uint8_t); ("output_err_mask", uint16_t);
   ("stream_framedrop_mask", uint8_t); ("stats_framedrop_mask", uint16_t)]);
  ("msm_isp_sof_info", Struct [("regs_not_updated", uint8_t); ("reg_update_fail_mask", uint16_t);
   ("stream_get_buf_fail_mask", uint32_t); ("stats_get_buf_fail_mask", uint16_t);
   ("ms_delta_info", msm_isp_ms_delta_info); ("axi_updating_mask", uint16_t);
   ("reg_update_fail_mask_ext", uint32_t)])].
Definition msm_isp_error_info : cty := type_in structs_msm_isp_error_info "msm_isp_error_info".
Definition msm_isp_output_info : cty := type_in structs_msm_isp_error_info "msm_isp_output_info".
Definition msm_isp_sof_info : cty := type_in structs_msm_isp_error_info "msm_isp_sof_info".
Definition msm_isp_event_data : cty :=
  Struct [("timestamp", timeval); ("mono_timestamp", timeval); ("frame_id", uint32_t);
   ("u", Union [("stats", msm_isp_stats_event); ("buf_done", msm_isp_buf_event);
   ("fetch_done", msm_isp_fetch_eng_event); ("error_info", msm_isp_error_info);
   ("output_info", msm_isp_output_info); ("sof_info", msm_isp_sof_info)])].
Definition msm_isp_ahb_clk_cfg : cty :=
  Struct [("vote", uint32_t); ("reserved", Arr 2 uint32_t)].
Definition structs_msm_vfe_operation_cfg : list (string * cty) :=
  let msm_vfe_axi_output_plane_cfg := Struct [("wmIndex", uint8_t); ("plane_fmt", enum);
   ("image_qwords_per_line", uint32_t); ("image_height", uint32_t); ("output_stride", uint32_t);
   ("output_scan_lines", uint32_t); ("output_plane_format", uint32_t);
   ("frame_increment", uint32_t)] in
  let msm_vfe_axi_output_path_cfg := Struct [("enable", uint8_t); ("format", uint32_t);
   ("raw_data_size", uint8_t); ("burst_count", uint32_t);
   ("plane_cfg", Arr MAX_PLANES_PER_STREAM msm_vfe_axi_output_plane_cfg);
   ("frame_based", uint8_t); ("frame_group", uint32_t); ("frame_interval", uint32_t);
   ("framedrop_period", uint8_t); ("framedrop_pattern", uint32_t); ("rdi_cid", uint8_t);
   ("rdi_frameskip_en", uint8_t); ("rdi_frameskip_pattern", uint32_t)] in
  [
  ("msm_vfe_operation_cfg", Struct [("camif_input", enum); ("dataSize", enum);
   ("input_mux", enum); ("pixel_pattern", enum); ("hvx_cmd", enum); ("yuv_cosited", uint8_t)]);
  ("msm_vfe_axi_output_plane_cfg", msm_vfe_axi_output_plane_cfg);
  ("msm_vfe_axi_framedrop_update", Struct [("stream_src", enum); ("framedrop_period", uint8_t);
   ("framedrop_pattern", uint32_t)]);
  ("msm_vfe_axi_output_path_cfg", msm_vfe_axi_output_path_cfg);
  ("msm_vfe_axi_output_cfg", Struct [("output_path_cfg", Arr 9 msm_vfe_axi_output_path_cfg)])].
Definition msm_vfe_operation_cfg : cty := type_in structs_msm_vfe_operation_cfg "msm_vfe_operation_cfg".
Definition msm_vfe_axi_output_cfg : cty := type_in structs_msm_vfe_operation_cfg "msm_vfe_axi_output_cfg".
Definition media_ais_msm_ais_isp_types : list (string * cty) :=
  ([("msm_isp_sw_framskip", msm_isp_sw_framskip); ("msm_vfe_fetch_engine_cfg",
   msm_vfe_fetch_engine_cfg); ("msm_vfe_camif_subsample_cfg", msm_vfe_camif_subsample_cfg);
   ("msm_vfe_camif_cfg", msm_vfe_camif_cfg); ("msm_vfe_testgen_cfg", msm_vfe_testgen_cfg)] ++
   structs_msm_vfe_pix_cfg ++ structs_msm_vfe_fetch_eng_multi_pass_start ++
   structs_msm_vfe_axi_stream_request_cmd ++ [("msm_vfe_axi_stream_cfg_cmd",
   msm_vfe_axi_stream_cfg_cmd)] ++ structs_msm_vfe_axi_stream_cfg_update_info ++
   structs_msm_vfe_cfg_cmd2 ++ [("msm_isp_set_dual_hw_ms_cmd", msm_isp_set_dual_hw_ms_cmd)] ++
   structs_msm_isp_unmap_buf_req ++ structs_msm_vfe_bufq_state ++ structs_msm_isp_buf_event ++
   structs_msm_isp_error_info ++ [("msm_isp_event_data", msm_isp_event_data);
   ("msm_isp_ahb_clk_cfg", msm_isp_ahb_clk_cfg)] ++ structs_msm_vfe_operation_cfg)%list.
Definition media_ais_msm_ais_isp_ioctls : list command := [
  _IOWR "VIDIOC_MSM_VFE_REG_CFG" (chr "V") 192 msm_vfe_cfg_cmd2;
  _IOWR "VIDIOC_MSM_ISP_REQUEST_BUFQ" (chr "V") 193 msm_isp_buf_request;
  _IOWR "VIDIOC_MSM_ISP_RELEASE_BUFQ" (chr "V") 194 msm_isp_buf_request;
  _IOWR "VIDIOC_MSM_ISP_ENQUEUE_BUF" (chr "V") 195 msm_isp_qbuf_info;
  _IOWR "VIDIOC_MSM_ISP_DEQUEUE_BUF" (chr "V") 196 msm_isp_qbuf_info;
  _IOWR "VIDIOC_MSM_ISP_REQUEST_STREAM" (chr "V") 197 msm_vfe_axi_stream_request_cmd;
  _IOWR "VIDIOC_MSM_ISP_CFG_STREAM" (chr "V") 198 msm_vfe_axi_stream_cfg_cmd;
  _IOWR "VIDIOC_MSM_ISP_RELEASE_STREAM" (chr "V") 199 msm_vfe_axi_stream_release_cmd;
  _IOWR "VIDIOC_MSM_ISP_INPUT_CFG" (chr "V") 200 msm_vfe_input_cfg;
  _IOWR "VIDIOC_MSM_ISP_SET_SRC_STATE" (chr "V") 201 msm_vfe_axi_src_state;
  _IOWR "VIDIOC_MSM_ISP_REQUEST_STATS_STREAM" (chr "V") 202 msm_vfe_stats_stream_request_cmd;
  _IOWR "VIDIOC_MSM_ISP_CFG_STATS_STREAM" (chr "V") 203 msm_vfe_stats_stream_cfg_cmd;
  _IOWR "VIDIOC_MSM_ISP_RELEASE_STATS_STREAM" (chr "V") 204 msm_vfe_stats_stream_release_cmd;
  _IOWR "VIDIOC_MSM_ISP_REG_UPDATE_CMD" (chr "V") 205 enum;
  _IOWR "VIDIOC_MSM_ISP_UPDATE_STREAM" (chr "V") 206 msm_vfe_axi_stream_update_cmd;
  _IOWR "VIDIOC_MSM_VFE_REG_LIST_CFG" (chr "V") 207 msm_vfe_cfg_cmd_list;
  _IOWR "VIDIOC_MSM_ISP_SMMU_ATTACH" (chr "V") 218 msm_vfe_smmu_attach_cmd;
  _IOWR "VIDIOC_MSM_ISP_UPDATE_STATS_STREAM" (chr "V") 208 msm_vfe_axi_stream_update_cmd;
  _IOWR "VIDIOC_MSM_ISP_AXI_HALT" (chr "V") 209 msm_vfe_axi_halt_cmd;
  _IOWR "VIDIOC_MSM_ISP_AXI_RESET" (chr "V") 210 msm_vfe_axi_reset_cmd;
  _IOWR "VIDIOC_MSM_ISP_AXI_RESTART" (chr "V") 211 msm_vfe_axi_restart_cmd;
  _IOWR "VIDIOC_MSM_ISP_FETCH_ENG_START" (chr "V") 212 msm_vfe_fetch_eng_start;
  _IOWR "VIDIOC_MSM_ISP_SET_DUAL_HW_MASTER_SLAVE" (chr "V") 213 msm_isp_set_dual_hw_ms_cmd;
  _IOWR "VIDIOC_MSM_ISP_MAP_BUF_START_FE" (chr "V") 214 msm_vfe_fetch_eng_start;
  _IOWR "VIDIOC_MSM_ISP_UNMAP_BUF" (chr "V") 219 msm_isp_unmap_buf_req;
  _IOWR "VIDIOC_MSM_ISP_AHB_CLK_CFG" (chr "V") 217 msm_isp_ahb_clk_cfg;
  _IOWR "VIDIOC_MSM_ISP_FETCH_ENG_MULTI_PASS_START" (chr "V") 215 msm_vfe_fetch_eng_multi_pass_start;
  _IOWR "VIDIOC_MSM_ISP_MAP_BUF_START_MULTI_PASS_FE" (chr "V") 216 msm_vfe_fetch_eng_multi_pass_start;
  _IOWR "VIDIOC_MSM_ISP_CFG_HW_STATE" (chr "V") 217 msm_vfe_axi_stream_cfg_cmd;
  _IOWR "VIDIOC_MSM_ISP_OPERATION_CFG" (chr "V") 220 msm_vfe_operation_cfg;
  _IOWR "VIDIOC_MSM_ISP_AXI_OUTPUT_CFG" (chr "V") 222 msm_vfe_axi_output_cfg;
  _IOWR "VIDIOC_MSM_ISP_FRAMEDROP_UPDATE" (chr "V") 227 msm_vfe_axi_output_cfg;
  _IOWR "VIDIOC_MSM_ISP_CAMIF_CFG" (chr "V") 221 msm_vfe_camif_cfg;
  _IOWR "VIDIOC_MSM_ISP_SET_CLK_STATUS" (chr "V") 225 uint;
  _IOWR "VIDIOC_MSM_ISP_CMD_EXT" (chr "V") 226 msm_vfe_cmd_ext].
End Media_ais_msm_ais_isp.

(** ** [media/ais/msm_ais_ispif.h] *)

Module Media_ais_msm_ais_ispif.
Definition MAX_PARAM_ENTRIES : Z := 10.
Definition MAX_CID_CH_v2 : Z := 4.
Definition structs_msm_ispif_pack_cfg : list (string * cty) :=
  let msm_ispif_pack_cfg := Struct [("pixel_swap_en", int); ("even_odd_sel", enum);
   ("pack_mode", enum)] in
  let msm_ispif_params_entry := Struct [("vfe_intf", enum); ("intftype", enum); ("csid", enum);
   ("num_cids", int); ("cids", Arr MAX_CID_CH_v2 enum); ("crop_enable", uint8_t);
   ("crop_start_pixel", uint16_t); ("crop_end_pixel", uint16_t);
   ("rdi_frameskip_enable", uint8_t); ("rdi_framedrop_period", uint32_t);
   ("rdi_framedrop_pattern", uint32_t)] in
  let msm_isp_info := Struct [("max_resolution", uint32_t); ("id", uint32_t); ("ver", uint32_t)] in
  [
  ("msm_ispif_pack_cfg", msm_ispif_pack_cfg);
  ("msm_ispif_params_entry", msm_ispif_params_entry);
  ("msm_ispif_param_data_ext", Struct [("num", uint32_t);
   ("entries", Arr MAX_PARAM_ENTRIES msm_ispif_params_entry);
   ("pack_cfg", Arr 16 msm_ispif_pack_cfg)]);
  ("msm_ispif_param_data", Struct [("num", uint32_t);
   ("entries", Arr MAX_PARAM_ENTRIES msm_ispif_params_entry)]);
  ("msm_isp_info", msm_isp_info);
  ("msm_ispif_vfe_info", Struct [("num_vfe", int); ("info", Arr 2 msm_isp_info)])].
Definition msm_ispif_param_data : cty := type_in structs_msm_ispif_pack_cfg "msm_ispif_param_data".
Definition msm_ispif_vfe_info : cty := type_in structs_msm_ispif_pack_cfg "msm_ispif_vfe_info".
Definition structs_ispif_cfg_data_ext : list (string * cty) :=
  [
  ("ispif_cfg_data_ext", Struct [("cfg_type", enum); ("data", ptr); ("size", uint32_t)]);
  ("ispif_cfg_data", Struct [("cfg_type", enum); ("", Union [("reg_dump", int);
   ("csid_version", uint32_t); ("vfe_info", msm_ispif_vfe_info);
   ("params", msm_ispif_param_data); ("reg_list", ptr)])])].
Definition ispif_cfg_data_ext : cty := type_in structs_ispif_cfg_data_ext "ispif_cfg_data_ext".
Definition ispif_cfg_data : cty := type_in structs_ispif_cfg_data_ext "ispif_cfg_data".
Definition media_ais_msm_ais_ispif_types : list (string * cty) :=
  (structs_msm_ispif_pack_cfg ++ structs_ispif_cfg_data_ext)%list.
Definition media_ais_msm_ais_ispif_ioctls : list command := [
  _IOWR "VIDIOC_MSM_ISPIF_CFG" (chr "V") 192 ispif_cfg_data;
  _IOWR "VIDIOC_MSM_ISPIF_CFG_EXT" (chr "V") 193 ispif_cfg_data_ext].
End Media_ais_msm_ais_ispif.

(** ** [media/ais/msm_ais_mgr.h] *)

Module Media_ais_msm_ais_mgr.
Definition VREGNAME_SIZE : Z := 32.
Definition CLKNAME_SIZE : Z := 32.
Definition structs_msm_camera_reg_list_cmd : list (string * cty) :=
  let msm_ais_diag_regulator_info_list_t := Struct [("infolist", ptr);
   ("regulator_num", uint32_t)] in
  let msm_ais_diag_bus_info_t := Struct [("ahb_clk_vote_state", enum);
   ("isp_bus_vector_idx", uint32_t); ("isp_ab", uint64_t); ("isp_ib", uint64_t)] in
  let msm_ais_diag_clk_list_t := Struct [("clk_info", ptr); ("clk_num", uint32_t)] in
  let msm_ais_diag_gpio_list_t := Struct [("gpio_idx_list", ptr); ("gpio_val_list", ptr);
   ("gpio_num", uint32_t)] in
  [
  ("msm_camera_reg_list_cmd", Struct [("value_list", ptr); ("regaddr_list", ptr);
   ("reg_num", uint32_t)]);
  ("msm_ais_diag_regulator_info_t", Struct [("enable", int);
   ("regulatorname", Arr VREGNAME_SIZE char)]);
  ("msm_ais_diag_regulator_info_list_t", msm_ais_diag_regulator_info_list_t);
  ("msm_ais_diag_bus_info_t", msm_ais_diag_bus_info_t);
  ("msm_ais_diag_clk_info_t", Struct [("clk_name", Arr CLKNAME_SIZE char); ("clk_rate", long);
   ("enable", uint8_t)]);
  ("msm_ais_diag_clk_list_t", msm_ais_diag_clk_list_t);
  ("msm_ais_diag_gpio_list_t", msm_ais_diag_gpio_list_t);
  ("clk_mgr_cfg_data_ext", Struct [("cfg_type", enum);
   ("data", Union [("vreg_infolist", msm_ais_diag_regulator_info_list_t);
   ("bus_info", msm_ais_diag_bus_info_t); ("clk_infolist", msm_ais_diag_clk_list_t);
   ("gpio_list", msm_ais_diag_gpio_list_t)])]);
  ("clk_mgr_cfg_data", Struct [("cfg_type", enum)])].
Definition clk_mgr_cfg_data_ext : cty := type_in structs_msm_camera_reg_list_cmd "clk_mgr_cfg_data_ext".
Definition clk_mgr_cfg_data : cty := type_in structs_msm_camera_reg_list_cmd "clk_mgr_cfg_data".
Definition media_ais_msm_ais_mgr_types : list (string * cty) := structs_msm_camera_reg_list_cmd.
Definition media_ais_msm_ais_mgr_ioctls : list command := [
  _IOWR "VIDIOC_MSM_AIS_CLK_CFG" (chr "V") 192 clk_mgr_cfg_data;
  _IOWR "VIDIOC_MSM_AIS_CLK_CFG_EXT" (chr "V") 193 clk_mgr_cfg_data_ext].
End Media_ais_msm_ais_mgr.

(** ** [media/ais/msm_ais_sensor_sdk.h] *)

Module Media_ais_msm_ais_sensor_sdk.
Definition MAX_POWER_CONFIG : Z := 12.
Definition MAX_CID : Z := 16.
Definition I2C_SEQ_REG_DATA_MAX : Z := 1024.
Definition MAX_I2C_REG_SET : Z := 12.
Definition MSM_EEPROM_MEMORY_MAP_MAX_SIZE : Z := 80.
Definition MSM_EEPROM_MAX_MEM_MAP_CNT : Z := 8.
Definition structs_msm_sensor_power_setting : list (string * cty) :=
  let msm_sensor_power_setting := Struct [("seq_type", enum); ("seq_val", ushort);
   ("config_val", long); ("delay", ushort); ("data", Arr 10 ptr)] in
  [
  ("msm_sensor_power_setting", msm_sensor_power_setting);
  ("msm_sensor_power_setting_array", Struct [("power_setting_a", Arr MAX_POWER_CONFIG msm_sensor_power_setting);
   ("power_setting", ptr); ("size", ushort);
   ("power_down_setting_a", Arr MAX_POWER_CONFIG msm_sensor_power_setting);
   ("power_down_setting", ptr); ("size_down", ushort)])].
Definition msm_sensor_power_setting_array : cty := type_in structs_msm_sensor_power_setting "msm_sensor_power_setting_array".
Definition structs_msm_sensor_i2c_sync_params : list (string * cty) :=
  let msm_camera_reg_settings_t := Struct [("reg_addr", uint16_t); ("addr_type", enum);
   ("reg_data", uint16_t); ("data_type", enum); ("i2c_operation", enum); ("delay", uint16_t)] in
  let msm_eeprom_mem_map_t := Struct [("slave_addr", int);
   ("mem_settings", Arr MSM_EEPROM_MEMORY_MAP_MAX_SIZE msm_camera_reg_settings_t);
   ("memory_map_size", int)] in
  let msm_sensor_init_params := Struct [("modes_supported", int); ("position", enum);
   ("sensor_mount_angle", uint)] in
  let msm_sensor_id_info_t := Struct [("sensor_id_reg_addr", ushort); ("sensor_id", ushort);
   ("sensor_id_mask", ushort)] in
  let msm_camera_sensor_gpio_intr_config := Struct [("gpio_num", int);
   ("gpio_trigger", uint32_t)] in
  let msm_camera_csid_vc_cfg := Struct [("cid", uchar); ("dt", uchar); ("decode_format", uchar)] in
  let msm_camera_csid_lut_params := Struct [("num_cid", uchar);
   ("vc_cfg_a", Arr MAX_CID msm_camera_csid_vc_cfg); ("vc_cfg", Arr MAX_CID ptr)] in
  [
  ("msm_sensor_i2c_sync_params", Struct [("cid", uint); ("csid", int); ("line", ushort);
   ("delay", ushort)]);
  ("msm_camera_reg_settings_t", msm_camera_reg_settings_t);
  ("msm_eeprom_mem_map_t", msm_eeprom_mem_map_t);
  ("msm_eeprom_memory_map_array", Struct [("memory_map", Arr MSM_EEPROM_MAX_MEM_MAP_CNT msm_eeprom_mem_map_t);
   ("msm_size_of_max_mappings", uint32_t)]);
  ("msm_sensor_init_params", msm_sensor_init_params);
  ("msm_sensor_id_info_t", msm_sensor_id_info_t);
  ("msm_camera_sensor_gpio_intr_config", msm_camera_sensor_gpio_intr_config);
  ("msm_camera_sensor_slave_info", Struct [("sensor_name", Arr 32 char);
   ("eeprom_name", Arr 32 char); ("actuator_name", Arr 32 char); ("ois_name", Arr 32 char);
   ("flash_name", Arr 32 char); ("camera_id", enum); ("slave_addr", ushort);
   ("i2c_freq_mode", enum); ("addr_type", enum); ("sensor_id_info", msm_sensor_id_info_t);
   ("power_setting_array", msm_sensor_power_setting_array); ("is_init_params_valid", uchar);
   ("sensor_init_params", msm_sensor_init_params); ("output_format", enum);
   ("gpio_intr_config", msm_camera_sensor_gpio_intr_config); ("camera_sensor_device_id", uint)]);
  ("msm_camera_i2c_reg_array", Struct [("reg_addr", ushort); ("reg_data", ushort);
   ("delay", uint)]);
  ("msm_camera_i2c_reg_setting", Struct [("reg_setting", ptr); ("size", ushort);
   ("addr_type", enum); ("data_type", enum); ("delay", ushort)]);
  ("msm_camera_csid_vc_cfg", msm_camera_csid_vc_cfg);
  ("msm_camera_csid_lut_params", msm_camera_csid_lut_params);
  ("msm_camera_csid_params", Struct [("lane_cnt", uchar); ("lane_assign", ushort);
   ("phy_sel", uchar); ("csi_clk", uint); ("lut_params", msm_camera_csid_lut_params);
   ("csi_3p_sel", uchar)]);
  ("msm_camera_csid_testmode_parms", Struct [("num_bytes_per_line", uint); ("num_lines", uint);
   ("h_blanking_count", uint); ("v_blanking_count", uint); ("payload_mode", uint)]);
  ("msm_camera_csiphy_params", Struct [("lane_cnt", uchar); ("settle_cnt", uchar);
   ("lane_mask", ushort); ("combo_mode", uchar); ("csid_core", uchar); ("csiphy_clk", uint);
   ("csi_3phase", uchar)]);
  ("msm_camera_i2c_seq_reg_array", Struct [("reg_addr", ushort);
   ("reg_data", Arr I2C_SEQ_REG_DATA_MAX uchar); ("reg_data_size", ushort)]);
  ("msm_camera_i2c_seq_reg_setting", Struct [("reg_setting", ptr); ("size", ushort);
   ("addr_type", enum); ("delay", ushort)]);
  ("msm_actuator_reg_params_t", Struct [("reg_write_type", enum); ("hw_mask", uint);
   ("reg_addr", ushort); ("hw_shift", ushort); ("data_shift", ushort); ("data_type", ushort);
   ("addr_type", ushort); ("reg_data", ushort); ("delay", ushort)])].
Definition msm_sensor_i2c_sync_params : cty := type_in structs_msm_sensor_i2c_sync_params "msm_sensor_i2c_sync_params".
Definition msm_sensor_init_params : cty := type_in structs_msm_sensor_i2c_sync_params "msm_sensor_init_params".
Definition msm_camera_i2c_reg_array : cty := type_in structs_msm_sensor_i2c_sync_params "msm_camera_i2c_reg_array".
Definition msm_camera_i2c_reg_setting : cty := type_in structs_msm_sensor_i2c_sync_params "msm_camera_i2c_reg_setting".
Definition msm_camera_csid_params : cty := type_in structs_msm_sensor_i2c_sync_params "msm_camera_csid_params".
Definition msm_camera_csiphy_params : cty := type_in structs_msm_sensor_i2c_sync_params "msm_camera_csiphy_params".
Definition structs_damping_params_t : list (string * cty) :=
  [
  ("damping_params_t", Struct [("damping_step", uint); ("damping_delay", uint);
   ("hw_params", uint)]);
  ("region_params_t", Struct [("step_bound", Arr 2 ushort); ("code_per_step", ushort);
   ("qvalue", uint)]);
  ("reg_settings_t", Struct [("reg_addr", ushort); ("addr_type", enum); ("reg_data", ushort);
   ("data_type", enum); ("i2c_operation", enum); ("delay", uint)]);
  ("msm_camera_i2c_reg_setting_array", Struct [("reg_setting_a", Arr MAX_I2C_REG_SET msm_camera_i2c_reg_array);
   ("size", ushort); ("addr_type", enum); ("data_type", enum); ("delay", ushort)])].
Definition media_ais_msm_ais_sensor_sdk_types : list (string * cty) :=
  (structs_msm_sensor_power_setting ++ structs_msm_sensor_i2c_sync_params ++
   structs_damping_params_t)%list.
End Media_ais_msm_ais_sensor_sdk.

(** ** [media/ais/msm_ais_sensor.h] *)

Module Media_ais_msm_ais_sensor.
Definition MAX_SENSOR_NAME : Z := 32.
Definition MAX_OIS_NAME_SIZE : Z := 32.
Definition MAX_NUMBER_OF_STEPS : Z := 47.
Definition msm_sensor_event_data : cty := Struct [("sensor_slave_addr", uint16_t)].
Definition msm_csid_event_data : cty :=
  Struct [("csid_id", uint8_t); ("error_status", uint32_t)].
Definition structs_msm_camera_i2c_array_write_config : list (string * cty) :=
  let msm_sensor_info_t := Struct [("sensor_name", Arr MAX_SENSOR_NAME char);
   ("session_id", uint32_t); ("subdev_id", Arr 14 int32_t); ("subdev_intf", Arr 14 int32_t);
   ("is_mount_angle_valid", uint8_t); ("sensor_mount_angle", uint32_t); ("modes_supported", int);
   ("position", enum)] in
  [
  ("msm_camera_i2c_array_write_config", Struct [("conf_array", Media_ais_msm_ais_sensor_sdk.msm_camera_i2c_reg_setting);
   ("slave_addr", uint16_t)]);
  ("msm_camera_i2c_read_config", Struct [("slave_addr", uint16_t); ("reg_addr", uint16_t);
   ("addr_type", enum); ("data_type", enum); ("data", uint16_t)]);
  ("msm_camera_csi2_params", Struct [("csid_params", Media_ais_msm_ais_sensor_sdk.msm_camera_csid_params);
   ("csiphy_params", Media_ais_msm_ais_sensor_sdk.msm_camera_csiphy_params);
   ("csi_clk_scale_enable", uint8_t)]);
  ("msm_camera_csi_lane_params", Struct [("csi_lane_assign", uint16_t);
   ("csi_lane_mask", uint16_t)]);
  ("csi_lane_params_t", Struct [("csi_lane_assign", uint16_t); ("csi_lane_mask", uint8_t);
   ("csi_if", uint8_t); ("csid_core", Arr 2 int8_t); ("csi_phy_sel", uint8_t)]);
  ("msm_sensor_info_t", msm_sensor_info_t);
  ("camera_vreg_t", Struct [("reg_name", ptr); ("min_voltage", int); ("max_voltage", int);
   ("op_mode", int); ("delay", uint32_t); ("custom_vreg_name", ptr); ("type", enum)]);
  ("sensorb_cfg_data", Struct [("cfgtype", int);
   ("cfg", Union [("sensor_info", msm_sensor_info_t);
   ("sensor_init_params", Media_ais_msm_ais_sensor_sdk.msm_sensor_init_params); ("setting", ptr);
   ("sensor_i2c_sync_params", Media_ais_msm_ais_sensor_sdk.msm_sensor_i2c_sync_params)])]);
  ("csid_cfg_data", Struct [("cfgtype", enum); ("cfg", Union [("csid_version", uint32_t);
   ("csid_params", ptr); ("csid_testmode_params", ptr); ("csid_cidmask", uint32_t);
   ("csid_reg_list_cmd", ptr)])]);
  ("csiphy_cfg_data", Struct [("cfgtype", enum); ("cfg", Union [("csiphy_params", ptr);
   ("csi_lane_params", ptr); ("csiphy_reg_list_cmd", ptr)])])].
Definition msm_sensor_info_t : cty := type_in structs_msm_camera_i2c_array_write_config "msm_sensor_info_t".
Definition sensorb_cfg_data : cty := type_in structs_msm_camera_i2c_array_write_config "sensorb_cfg_data".
Definition csid_cfg_data : cty := type_in structs_msm_camera_i2c_array_write_config "csid_cfg_data".
Definition csiphy_cfg_data : cty := type_in structs_msm_camera_i2c_array_write_config "csiphy_cfg_data".
Definition structs_eeprom_get_t : list (string * cty) :=
  let eeprom_get_t := Struct [("num_bytes", uint32_t)] in
  let eeprom_read_t := Struct [("dbuffer", ptr); ("num_bytes", uint32_t)] in
  let eeprom_write_t := Struct [("dbuffer", ptr); ("num_bytes", uint32_t)] in
  let eeprom_get_cmm_t := Struct [("cmm_support", uint32_t); ("cmm_compression", uint32_t);
   ("cmm_size", uint32_t)] in
  let msm_eeprom_info_t := Struct [("power_setting_array", ptr); ("i2c_freq_mode", enum);
   ("mem_map_array", ptr)] in
  [
  ("eeprom_get_t", eeprom_get_t);
  ("eeprom_read_t", eeprom_read_t);
  ("eeprom_write_t", eeprom_write_t);
  ("eeprom_get_cmm_t", eeprom_get_cmm_t);
  ("msm_eeprom_info_t", msm_eeprom_info_t);
  ("msm_ir_led_cfg_data_t", Struct [("cfg_type", enum); ("pwm_duty_on_ns", int32_t);
   ("pwm_period_ns", int32_t)]);
  ("msm_ir_cut_cfg_data_t", Struct [("cfg_type", enum)]);
  ("msm_eeprom_cfg_data", Struct [("cfgtype", enum); ("is_supported", uint8_t);
   ("cfg", Union [("eeprom_name", Arr MAX_SENSOR_NAME char); ("get_data", eeprom_get_t);
   ("read_data", eeprom_read_t); ("write_data", eeprom_write_t);
   ("get_cmm_data", eeprom_get_cmm_t); ("eeprom_info", msm_eeprom_info_t)])])].
Definition msm_ir_led_cfg_data_t : cty := type_in structs_eeprom_get_t "msm_ir_led_cfg_data_t".
Definition msm_ir_cut_cfg_data_t : cty := type_in structs_eeprom_get_t "msm_ir_cut_cfg_data_t".
Definition msm_eeprom_cfg_data : cty := type_in structs_eeprom_get_t "msm_eeprom_cfg_data".
Definition msm_ois_opcode : cty :=
  Struct [("prog", uint32_t); ("coeff", uint32_t); ("pheripheral", uint32_t); ("memory", uint32_t)].
Definition structs_reg_settings_ois_t : list (string * cty) :=
  let msm_ois_params_t := Struct [("data_size", uint16_t); ("setting_size", uint16_t);
   ("i2c_addr", uint32_t); ("i2c_freq_mode", enum); ("i2c_addr_type", enum);
   ("i2c_data_type", enum); ("settings", ptr)] in
  let msm_actuator_tuning_params_t := Struct [("initial_code", int16_t); ("pwd_step", uint16_t);
   ("region_size", uint16_t); ("total_steps", uint32_t); ("region_params", ptr)] in
  let park_lens_data_t := Struct [("damping_step", uint32_t); ("damping_delay", uint32_t);
   ("hw_params", uint32_t); ("max_step", uint32_t)] in
  let msm_actuator_params_t := Struct [("act_type", enum); ("reg_tbl_size", uint8_t);
   ("data_size", uint16_t); ("init_setting_size", uint16_t); ("i2c_addr", uint32_t);
   ("i2c_freq_mode", enum); ("i2c_addr_type", enum); ("i2c_data_type", enum);
   ("reg_tbl_params", ptr); ("init_settings", ptr); ("park_lens", park_lens_data_t)] in
  [
  ("reg_settings_ois_t", Struct [("reg_addr", uint16_t); ("addr_type", enum);
   ("reg_data", uint32_t); ("data_type", enum); ("i2c_operation", enum); ("delay", uint32_t)]);
  ("msm_ois_params_t", msm_ois_params_t);
  ("msm_ois_set_info_t", Struct [("ois_params", msm_ois_params_t)]);
  ("msm_actuator_move_params_t", Struct [("dir", int8_t); ("sign_dir", int8_t);
   ("dest_step_pos", int16_t); ("num_steps", int32_t); ("curr_lens_pos", uint16_t);
   ("ringing_params", ptr)]);
  ("msm_actuator_tuning_params_t", msm_actuator_tuning_params_t);
  ("park_lens_data_t", park_lens_data_t);
  ("msm_actuator_params_t", msm_actuator_params_t);
  ("msm_actuator_set_info_t", Struct [("actuator_params", msm_actuator_params_t);
   ("af_tuning_params", msm_actuator_tuning_params_t)]);
  ("msm_actuator_get_info_t", Struct [("focal_length_num", uint32_t);
   ("focal_length_den", uint32_t); ("f_number_num", uint32_t); ("f_number_den", uint32_t);
   ("f_pix_num", uint32_t); ("f_pix_den", uint32_t); ("total_f_dist_num", uint32_t);
   ("total_f_dist_den", uint32_t); ("hor_view_angle_num", uint32_t);
   ("hor_view_angle_den", uint32_t); ("ver_view_angle_num", uint32_t);
   ("ver_view_angle_den", uint32_t)])].
Definition msm_ois_set_info_t : cty := type_in structs_reg_settings_ois_t "msm_ois_set_info_t".
Definition msm_actuator_move_params_t : cty := type_in structs_reg_settings_ois_t "msm_actuator_move_params_t".
Definition msm_actuator_set_info_t : cty := type_in structs_reg_settings_ois_t "msm_actuator_set_info_t".
Definition msm_actuator_get_info_t : cty := type_in structs_reg_settings_ois_t "msm_actuator_get_info_t".
Definition structs_msm_ois_slave_info : list (string * cty) :=
  let msm_ois_slave_info := Struct [("ois_name", Arr MAX_OIS_NAME_SIZE char);
   ("i2c_addr", uint32_t); ("opcode", msm_ois_opcode)] in
  let msm_actuator_set_position_t := Struct [("number_of_steps", uint16_t);
   ("hw_params", uint32_t); ("pos", Arr MAX_NUMBER_OF_STEPS uint16_t);
   ("delay", Arr MAX_NUMBER_OF_STEPS uint16_t)] in
  [
  ("msm_ois_slave_info", msm_ois_slave_info);
  ("msm_ois_cfg_data", Struct [("cfgtype", int); ("cfg", Union [("set_info", msm_ois_set_info_t);
   ("settings", ptr)])]);
  ("msm_ois_cfg_download_data", Struct [("cfgtype", int); ("slave_info", msm_ois_slave_info)]);
  ("msm_actuator_set_position_t", msm_actuator_set_position_t);
  ("msm_actuator_cfg_data", Struct [("cfgtype", int); ("is_af_supported", uint8_t);
   ("cfg", Union [("move", msm_actuator_move_params_t); ("set_info", msm_actuator_set_info_t);
   ("get_info", msm_actuator_get_info_t); ("setpos", msm_actuator_set_position_t);
   ("cam_name", enum)])])].
Definition msm_ois_cfg_data : cty := type_in structs_msm_ois_slave_info "msm_ois_cfg_data".
Definition msm_ois_cfg_download_data : cty := type_in structs_msm_ois_slave_info "msm_ois_cfg_download_data".
Definition msm_actuator_cfg_data : cty := type_in structs_msm_ois_slave_info "msm_actuator_cfg_data".
Definition structs_msm_camera_led_cfg_t : list (string * cty) :=
  [
  ("msm_camera_led_cfg_t", Struct [("cfgtype", enum); ("torch_current", Arr 3 int32_t);
   ("flash_current", Arr 3 int32_t); ("flash_duration", Arr 3 int32_t)]);
  ("msm_flash_init_info_t", Struct [("flash_driver_type", enum); ("slave_addr", uint32_t);
   ("i2c_freq_mode", enum); ("power_setting_array", ptr); ("settings", ptr)]);
  ("msm_flash_cfg_data_t", Struct [("cfg_type", enum); ("flash_current", Arr 3 int32_t);
   ("flash_duration", Arr 3 int32_t); ("cfg", Union [("flash_init_info", ptr);
   ("settings", ptr)])])].
Definition msm_camera_led_cfg_t : cty := type_in structs_msm_camera_led_cfg_t "msm_camera_led_cfg_t".
Definition msm_flash_cfg_data_t : cty := type_in structs_msm_camera_led_cfg_t "msm_flash_cfg_data_t".
Definition sensor_init_cfg_data : cty :=
  Struct [("cfgtype", enum); ("probed_info", msm_sensor_info_t);
   ("entity_name", Arr MAX_SENSOR_NAME char); ("cfg", Union [("setting", ptr)])].
Definition media_ais_msm_ais_sensor_types : list (string * cty) :=
  ([("msm_sensor_event_data", msm_sensor_event_data); ("msm_csid_event_data",
   msm_csid_event_data)] ++ structs_msm_camera_i2c_array_write_config ++ structs_eeprom_get_t
   ++ [("msm_ois_opcode", msm_ois_opcode)] ++ structs_reg_settings_ois_t ++
   structs_msm_ois_slave_info ++ structs_msm_camera_led_cfg_t ++ [("sensor_init_cfg_data",
   sensor_init_cfg_data)])%list.
Definition media_ais_msm_ais_sensor_ioctls : list command := [
  _IOWR "VIDIOC_MSM_SENSOR_CFG" (chr "V") 193 sensorb_cfg_data;
  _IO "VIDIOC_MSM_SENSOR_RELEASE" (chr "V") 194;
  _IOWR "VIDIOC_MSM_SENSOR_GET_SUBDEV_ID" (chr "V") 195 uint32_t;
  _IOWR "VIDIOC_MSM_CSIPHY_IO_CFG" (chr "V") 196 csiphy_cfg_data;
  _IOWR "VIDIOC_MSM_CSID_IO_CFG" (chr "V") 197 csid_cfg_data;
  _IOWR "VIDIOC_MSM_ACTUATOR_CFG" (chr "V") 198 msm_actuator_cfg_data;
  _IOWR "VIDIOC_MSM_FLASH_LED_DATA_CFG" (chr "V") 199 msm_camera_led_cfg_t;
  _IOWR "VIDIOC_MSM_EEPROM_CFG" (chr "V") 200 msm_eeprom_cfg_data;
  _IOWR "VIDIOC_MSM_SENSOR_GET_AF_STATUS" (chr "V") 201 uint32_t;
  _IOWR "VIDIOC_MSM_SENSOR_INIT_CFG" (chr "V") 202 sensor_init_cfg_data;
  _IOWR "VIDIOC_MSM_OIS_CFG" (chr "V") 203 msm_ois_cfg_data;
  _IOWR "VIDIOC_MSM_FLASH_CFG" (chr "V") 205 msm_flash_cfg_data_t;
  _IOWR "VIDIOC_MSM_OIS_CFG_DOWNLOAD" (chr "V") 206 msm_ois_cfg_download_data;
  _IOWR "VIDIOC_MSM_IR_LED_CFG" (chr "V") 207 msm_ir_led_cfg_data_t;
  _IOWR "VIDIOC_MSM_IR_CUT_CFG" (chr "V") 207 msm_ir_cut_cfg_data_t].
End Media_ais_msm_ais_sensor.

(** ** [media/msm_ba.h] *)

Module Media_msm_ba.
Definition csi_ctrl_params : cty :=
  Struct [("settle_count", uint32_t); ("lane_count", uint32_t)].
Definition structs_avi_infoframe_params : list (string * cty) :=
  [
  ("avi_infoframe_params", Struct [("picture_aspect", enum); ("active_aspect", enum);
   ("video_code", uchar)]);
  ("field_info_params", Struct [("even_field", c_bool); ("field_ts", timeval)]);
  ("msm_ba_v4l2_ioctl_t", Struct [("len", size_t); ("ptr", ptr)])].
Definition msm_ba_v4l2_ioctl_t : cty := type_in structs_avi_infoframe_params "msm_ba_v4l2_ioctl_t".
Definition media_msm_ba_types : list (string * cty) :=
  ([("csi_ctrl_params", csi_ctrl_params)] ++ structs_avi_infoframe_params)%list.
Definition media_msm_ba_ioctls : list command := [
  _IOWR "VIDIOC_G_CSI_PARAMS" (chr "V") 192 msm_ba_v4l2_ioctl_t;
  _IOWR "VIDIOC_G_FIELD_INFO" (chr "V") 232 msm_ba_v4l2_ioctl_t;
  _IOWR "VIDIOC_G_AVI_INFOFRAME" (chr "V") 233 msm_ba_v4l2_ioctl_t].
End Media_msm_ba.

(** ** [media/msm_camsensor_sdk.h] *)

Module Media_msm_camsensor_sdk.
Definition MAX_POWER_CONFIG : Z := 12.
Definition MAX_CID : Z := 16.
Definition I2C_SEQ_REG_DATA_MAX : Z := 1024.
Definition MAX_I2C_REG_SET : Z := 12.
Definition MSM_EEPROM_MEMORY_MAP_MAX_SIZE : Z := 80.
Definition MSM_EEPROM_MAX_MEM_MAP_CNT : Z := 8.
Definition structs_msm_sensor_power_setting : list (string * cty) :=
  let msm_sensor_power_setting := Struct [("seq_type", enum); ("seq_val", ushort);
   ("config_val", long); ("delay", ushort); ("data", Arr 10 ptr)] in
  [
  ("msm_sensor_power_setting", msm_sensor_power_setting);
  ("msm_sensor_power_setting_array", Struct [("power_setting_a", Arr MAX_POWER_CONFIG msm_sensor_power_setting);
   ("power_setting", ptr); ("size", ushort);
   ("power_down_setting_a", Arr MAX_POWER_CONFIG msm_sensor_power_setting);
   ("power_down_setting", ptr); ("size_down", ushort)])].
Definition msm_sensor_power_setting_array : cty := type_in structs_msm_sensor_power_setting "msm_sensor_power_setting_array".
Definition structs_msm_sensor_i2c_sync_params : list (string * cty) :=
  let msm_camera_reg_settings_t := Struct [("reg_addr", uint16_t); ("addr_type", enum);
   ("reg_data", uint16_t); ("data_type", enum); ("i2c_operation", enum); ("delay", uint16_t)] in
  let msm_eeprom_mem_map_t := Struct [("slave_addr", int);
   ("mem_settings", Arr MSM_EEPROM_MEMORY_MAP_MAX_SIZE msm_camera_reg_settings_t);
   ("memory_map_size", int)] in
  let msm_sensor_init_params := Struct [("modes_supported", int); ("position", enum);
   ("sensor_mount_angle", uint)] in
  let msm_sensor_id_info_t := Struct [("sensor_id_reg_addr", ushort); ("sensor_id", ushort);
   ("sensor_id_mask", ushort)] in
  let msm_camera_csid_vc_cfg := Struct [("cid", uchar); ("dt", uchar); ("decode_format", uchar)] in
  let msm_camera_csid_lut_params := Struct [("num_cid", uchar);
   ("vc_cfg_a", Arr MAX_CID msm_camera_csid_vc_cfg); ("vc_cfg", Arr MAX_CID ptr)] in
  [
  ("msm_sensor_i2c_sync_params", Struct [("cid", uint); ("csid", int); ("line", ushort);
   ("delay", ushort)]);
  ("msm_camera_reg_settings_t", msm_camera_reg_settings_t);
  ("msm_eeprom_mem_map_t", msm_eeprom_mem_map_t);
  ("msm_eeprom_memory_map_array", Struct [("memory_map", Arr MSM_EEPROM_MAX_MEM_MAP_CNT msm_eeprom_mem_map_t);
   ("msm_size_of_max_mappings", uint32_t)]);
  ("msm_sensor_init_params", msm_sensor_init_params);
  ("msm_sensor_id_info_t", msm_sensor_id_info_t);
  ("msm_camera_sensor_slave_info", Struct [("sensor_name", Arr 32 char);
   ("eeprom_name", Arr 32 char); ("actuator_name", Arr 32 char); ("ois_name", Arr 32 char);
   ("flash_name", Arr 32 char); ("camera_id", enum); ("slave_addr", ushort);
   ("i2c_freq_mode", enum); ("addr_type", enum); ("sensor_id_info", msm_sensor_id_info_t);
   ("power_setting_array", msm_sensor_power_setting_array); ("is_init_params_valid", uchar);
   ("sensor_init_params", msm_sensor_init_params); ("output_format", enum);
   ("bypass_video_node_creation", uint8_t)]);
  ("msm_camera_i2c_reg_array", Struct [("reg_addr", ushort); ("reg_data", ushort);
   ("delay", uint)]);
  ("msm_camera_i2c_reg_setting", Struct [("reg_setting", ptr); ("size", ushort);
   ("addr_type", enum); ("data_type", enum); ("delay", ushort)]);
  ("msm_camera_csid_vc_cfg", msm_camera_csid_vc_cfg);
  ("msm_camera_csid_lut_params", msm_camera_csid_lut_params);
  ("msm_camera_csid_params", Struct [("lane_cnt", uchar); ("lane_assign", ushort);
   ("phy_sel", uchar); ("csi_clk", uint); ("lut_params", msm_camera_csid_lut_params);
   ("csi_3p_sel", uchar)]);
  ("msm_camera_csid_testmode_parms", Struct [("num_bytes_per_line", uint); ("num_lines", uint);
   ("h_blanking_count", uint); ("v_blanking_count", uint); ("payload_mode", uint)]);
  ("msm_camera_csiphy_params", Struct [("lane_cnt", uchar); ("settle_cnt", uchar);
   ("lane_mask", ushort); ("combo_mode", uchar); ("csid_core", uchar); ("csiphy_clk", uint);
   ("csi_3phase", uchar); ("data_rate", uint64_t)]);
  ("msm_camera_i2c_seq_reg_array", Struct [("reg_addr", ushort);
   ("reg_data", Arr I2C_SEQ_REG_DATA_MAX uchar); ("reg_data_size", ushort)]);
  ("msm_camera_i2c_seq_reg_setting", Struct [("reg_setting", ptr); ("size", ushort);
   ("addr_type", enum); ("delay", ushort)]);
  ("msm_actuator_reg_params_t", Struct [("reg_write_type", enum); ("hw_mask", uint);
   ("reg_addr", ushort); ("hw_shift", ushort); ("data_shift", ushort); ("data_type", ushort);
   ("addr_type", ushort); ("reg_data", ushort); ("delay", ushort)]);
  ("damping_params_t", Struct [("damping_step", uint); ("damping_delay", uint);
   ("hw_params", uint)])].
Definition msm_sensor_i2c_sync_params : cty := type_in structs_msm_sensor_i2c_sync_params "msm_sensor_i2c_sync_params".
Definition msm_sensor_init_params : cty := type_in structs_msm_sensor_i2c_sync_params "msm_sensor_init_params".
Definition msm_camera_i2c_reg_array : cty := type_in structs_msm_sensor_i2c_sync_params "msm_camera_i2c_reg_array".
Definition msm_camera_i2c_reg_setting : cty := type_in structs_msm_sensor_i2c_sync_params "msm_camera_i2c_reg_setting".
Definition msm_camera_csid_params : cty := type_in structs_msm_sensor_i2c_sync_params "msm_camera_csid_params".
Definition msm_camera_csiphy_params : cty := type_in structs_msm_sensor_i2c_sync_params "msm_camera_csiphy_params".
Definition structs_region_params_t : list (string * cty) :=
  [
  ("region_params_t", Struct [("step_bound", Arr 2 ushort); ("code_per_step", ushort);
   ("qvalue", uint)]);
  ("reg_settings_t", Struct [("reg_addr", ushort); ("addr_type", enum); ("reg_data", ushort);
   ("data_type", enum); ("i2c_operation", enum); ("delay", uint)]);
  ("msm_camera_i2c_reg_setting_array", Struct [("reg_setting_a", Arr MAX_I2C_REG_SET msm_camera_i2c_reg_array);
   ("size", ushort); ("addr_type", enum); ("data_type", enum); ("delay", ushort)])].
Definition media_msm_camsensor_sdk_types : list (string * cty) :=
  (structs_msm_sensor_power_setting ++ structs_msm_sensor_i2c_sync_params ++
   structs_region_params_t)%list.
End Media_msm_camsensor_sdk.

(** ** [media/msm_cam_sensor.h] *)

Module Media_msm_cam_sensor.
Definition MAX_SENSOR_NAME : Z := 32.
Definition MAX_OIS_NAME_SIZE : Z := 32.
Definition MAX_EEPROM_NAME : Z := 32.
Definition MAX_NUMBER_OF_STEPS : Z := 47.
Definition structs_msm_camera_i2c_array_write_config : list (string * cty) :=
  let msm_sensor_info_t := Struct [("sensor_name", Arr MAX_SENSOR_NAME char);
   ("session_id", uint32_t); ("subdev_id", Arr 15 int32_t); ("subdev_intf", Arr 15 int32_t);
   ("is_mount_angle_valid", uint8_t); ("sensor_mount_angle", uint32_t); ("modes_supported", int);
   ("position", enum)] in
  [
  ("msm_camera_i2c_array_write_config", Struct [("conf_array", Media_msm_camsensor_sdk.msm_camera_i2c_reg_setting);
   ("slave_addr", uint16_t)]);
  ("msm_camera_i2c_read_config", Struct [("slave_addr", uint16_t); ("reg_addr", uint16_t);
   ("addr_type", enum); ("data_type", enum); ("data", uint16_t)]);
  ("msm_camera_csi2_params", Struct [("csid_params", Media_msm_camsensor_sdk.msm_camera_csid_params);
   ("csiphy_params", Media_msm_camsensor_sdk.msm_camera_csiphy_params);
   ("csi_clk_scale_enable", uint8_t)]);
  ("msm_camera_csi_lane_params", Struct [("csi_lane_assign", uint16_t);
   ("csi_lane_mask", uint16_t)]);
  ("csi_lane_params_t", Struct [("csi_lane_assign", uint16_t); ("csi_lane_mask", uint8_t);
   ("csi_if", uint8_t); ("csid_core", Arr 2 int8_t); ("csi_phy_sel", uint8_t)]);
  ("msm_sensor_info_t", msm_sensor_info_t);
  ("camera_vreg_t", Struct [("reg_name", ptr); ("min_voltage", int); ("max_voltage", int);
   ("op_mode", int); ("delay", uint32_t); ("custom_vreg_name", ptr); ("type", enum)]);
  ("sensorb_cfg_data", Struct [("cfgtype", int);
   ("cfg", Union [("sensor_info", msm_sensor_info_t);
   ("sensor_init_params", Media_msm_camsensor_sdk.msm_sensor_init_params); ("setting", ptr);
   ("sensor_i2c_sync_params", Media_msm_camsensor_sdk.msm_sensor_i2c_sync_params)])]);
  ("csid_cfg_data", Struct [("cfgtype", enum); ("cfg", Union [("csid_version", uint32_t);
   ("csid_params", ptr); ("csid_testmode_params", ptr)])]);
  ("csiphy_cfg_data", Struct [("cfgtype", enum); ("cfg", Union [("csiphy_params", ptr);
   ("csi_lane_params", ptr)])])].
Definition msm_sensor_info_t : cty := type_in structs_msm_camera_i2c_array_write_config "msm_sensor_info_t".
Definition sensorb_cfg_data : cty := type_in structs_msm_camera_i2c_array_write_config "sensorb_cfg_data".
Definition csid_cfg_data : cty := type_in structs_msm_camera_i2c_array_write_config "csid_cfg_data".
Definition csiphy_cfg_data : cty := type_in structs_msm_camera_i2c_array_write_config "csiphy_cfg_data".
Definition structs_eeprom_get_t : list (string * cty) :=
  let eeprom_get_t := Struct [("num_bytes", uint32_t)] in
  let eeprom_read_t := Struct [("dbuffer", ptr); ("num_bytes", uint32_t)] in
  let eeprom_write_t := Struct [("dbuffer", ptr); ("num_bytes", uint32_t)] in
  let eeprom_get_cmm_t := Struct [("cmm_support", uint32_t); ("cmm_compression", uint32_t);
   ("cmm_size", uint32_t)] in
  let msm_eeprom_info_t := Struct [("power_setting_array", ptr); ("i2c_freq_mode", enum);
   ("mem_map_array", ptr)] in
  [
  ("eeprom_get_t", eeprom_get_t);
  ("eeprom_read_t", eeprom_read_t);
  ("eeprom_write_t", eeprom_write_t);
  ("eeprom_get_cmm_t", eeprom_get_cmm_t);
  ("msm_eeprom_info_t", msm_eeprom_info_t);
  ("msm_ir_led_cfg_data_t", Struct [("cfg_type", enum); ("pwm_duty_on_ns", int32_t);
   ("pwm_period_ns", int32_t)]);
  ("msm_ir_cut_cfg_data_t", Struct [("cfg_type", enum)]);
  ("msm_laser_led_cfg_data_t", Struct [("cfg_type", enum); ("setting", ptr); ("debug_reg", ptr);
   ("debug_reg_size", uint32_t); ("i2c_addr", uint16_t); ("i2c_freq_mode", enum)]);
  ("msm_eeprom_cfg_data", Struct [("cfgtype", enum); ("is_supported", uint8_t);
   ("cfg", Union [("eeprom_name", Arr MAX_EEPROM_NAME char); ("get_data", eeprom_get_t);
   ("read_data", eeprom_read_t); ("write_data", eeprom_write_t);
   ("get_cmm_data", eeprom_get_cmm_t); ("eeprom_info", msm_eeprom_info_t)])])].
Definition msm_ir_led_cfg_data_t : cty := type_in structs_eeprom_get_t "msm_ir_led_cfg_data_t".
Definition msm_ir_cut_cfg_data_t : cty := type_in structs_eeprom_get_t "msm_ir_cut_cfg_data_t".
Definition msm_laser_led_cfg_data_t : cty := type_in structs_eeprom_get_t "msm_laser_led_cfg_data_t".
Definition msm_eeprom_cfg_data : cty := type_in structs_eeprom_get_t "msm_eeprom_cfg_data".
Definition msm_ois_opcode : cty :=
  Struct [("prog", uint32_t); ("coeff", uint32_t); ("pheripheral", uint32_t); ("memory", uint32_t)].
Definition structs_reg_settings_ois_t : list (string * cty) :=
  let msm_ois_params_t := Struct [("data_size", uint16_t); ("setting_size", uint16_t);
   ("i2c_addr", uint32_t); ("i2c_freq_mode", enum); ("i2c_addr_type", enum);
   ("i2c_data_type", enum); ("settings", ptr)] in
  let msm_actuator_tuning_params_t := Struct [("initial_code", int16_t); ("pwd_step", uint16_t);
   ("region_size", uint16_t); ("total_steps", uint32_t); ("region_params", ptr)] in
  let park_lens_data_t := Struct [("damping_step", uint32_t); ("damping_delay", uint32_t);
   ("hw_params", uint32_t); ("max_step", uint32_t)] in
  let msm_actuator_params_t := Struct [("act_type", enum); ("reg_tbl_size", uint8_t);
   ("data_size", uint16_t); ("init_setting_size", uint16_t); ("i2c_addr", uint32_t);
   ("i2c_freq_mode", enum); ("i2c_addr_type", enum); ("i2c_data_type", enum);
   ("reg_tbl_params", ptr); ("init_settings", ptr); ("park_lens", park_lens_data_t)] in
  [
  ("reg_settings_ois_t", Struct [("reg_addr", uint16_t); ("addr_type", enum);
   ("reg_data", uint32_t); ("data_type", enum); ("i2c_operation", enum); ("delay", uint32_t)]);
  ("msm_ois_params_t", msm_ois_params_t);
  ("msm_ois_set_info_t", Struct [("ois_params", msm_ois_params_t)]);
  ("msm_actuator_move_params_t", Struct [("dir", int8_t); ("sign_dir", int8_t);
   ("dest_step_pos", int16_t); ("num_steps", int32_t); ("curr_lens_pos", uint16_t);
   ("ringing_params", ptr)]);
  ("msm_actuator_tuning_params_t", msm_actuator_tuning_params_t);
  ("park_lens_data_t", park_lens_data_t);
  ("msm_actuator_params_t", msm_actuator_params_t);
  ("msm_actuator_set_info_t", Struct [("actuator_params", msm_actuator_params_t);
   ("af_tuning_params", msm_actuator_tuning_params_t)]);
  ("msm_actuator_get_info_t", Struct [("focal_length_num", uint32_t);
   ("focal_length_den", uint32_t); ("f_number_num", uint32_t); ("f_number_den", uint32_t);
   ("f_pix_num", uint32_t); ("f_pix_den", uint32_t); ("total_f_dist_num", uint32_t);
   ("total_f_dist_den", uint32_t); ("hor_view_angle_num", uint32_t);
   ("hor_view_angle_den", uint32_t); ("ver_view_angle_num", uint32_t);
   ("ver_view_angle_den", uint32_t)])].
Definition msm_ois_set_info_t : cty := type_in structs_reg_settings_ois_t "msm_ois_set_info_t".
Definition msm_actuator_move_params_t : cty := type_in structs_reg_settings_ois_t "msm_actuator_move_params_t".
Definition msm_actuator_set_info_t : cty := type_in structs_reg_settings_ois_t "msm_actuator_set_info_t".
Definition msm_actuator_get_info_t : cty := type_in structs_reg_settings_ois_t "msm_actuator_get_info_t".
Definition structs_msm_ois_slave_info : list (string * cty) :=
  let msm_ois_slave_info := Struct [("ois_name", Arr MAX_OIS_NAME_SIZE char);
   ("i2c_addr", uint32_t); ("opcode", msm_ois_opcode)] in
  let msm_actuator_set_position_t := Struct [("number_of_steps", uint16_t);
   ("hw_params", uint32_t); ("pos", Arr MAX_NUMBER_OF_STEPS uint16_t);
   ("delay", Arr MAX_NUMBER_OF_STEPS uint16_t)] in
  [
  ("msm_ois_slave_info", msm_ois_slave_info);
  ("msm_ois_cfg_data", Struct [("cfgtype", int); ("cfg", Union [("set_info", msm_ois_set_info_t);
   ("settings", ptr)])]);
  ("msm_ois_cfg_download_data", Struct [("cfgtype", int); ("slave_info", msm_ois_slave_info)]);
  ("msm_actuator_set_position_t", msm_actuator_set_position_t);
  ("msm_actuator_cfg_data", Struct [("cfgtype", int); ("is_af_supported", uint8_t);
   ("cfg", Union [("move", msm_actuator_move_params_t); ("set_info", msm_actuator_set_info_t);
   ("get_info", msm_actuator_get_info_t); ("setpos", msm_actuator_set_position_t);
   ("cam_name", enum)])])].
Definition msm_ois_cfg_data : cty := type_in structs_msm_ois_slave_info "msm_ois_cfg_data".
Definition msm_ois_cfg_download_data : cty := type_in structs_msm_ois_slave_info "msm_ois_cfg_download_data".
Definition msm_actuator_cfg_data : cty := type_in structs_msm_ois_slave_info "msm_actuator_cfg_data".
Definition structs_msm_camera_led_cfg_t : list (string * cty) :=
  [
  ("msm_camera_led_cfg_t", Struct [("cfgtype", enum); ("torch_current", Arr 3 int32_t);
   ("flash_current", Arr 3 int32_t); ("flash_duration", Arr 3 int32_t)]);
  ("msm_flash_init_info_t", Struct [("flash_driver_type", enum); ("slave_addr", uint32_t);
   ("i2c_freq_mode", enum); ("power_setting_array", ptr); ("settings", ptr)]);
  ("msm_flash_cfg_data_t", Struct [("cfg_type", enum); ("flash_current", Arr 3 int32_t);
   ("flash_duration", Arr 3 int32_t); ("cfg", Union [("flash_init_info", ptr);
   ("settings", ptr)])]);
  ("msm_flash_query_data_t", Struct [("flags", int32_t); ("query_type", int32_t);
   ("max_avail_curr", int32_t)])].
Definition msm_camera_led_cfg_t : cty := type_in structs_msm_camera_led_cfg_t "msm_camera_led_cfg_t".
Definition msm_flash_cfg_data_t : cty := type_in structs_msm_camera_led_cfg_t "msm_flash_cfg_data_t".
Definition msm_flash_query_data_t : cty := type_in structs_msm_camera_led_cfg_t "msm_flash_query_data_t".
Definition sensor_init_cfg_data : cty :=
  Struct [("cfgtype", enum); ("probed_info", msm_sensor_info_t);
   ("entity_name", Arr MAX_SENSOR_NAME char); ("cfg", Union [("setting", ptr)])].
Definition media_msm_cam_sensor_types : list (string * cty) :=
  (structs_msm_camera_i2c_array_write_config ++ structs_eeprom_get_t ++ [("msm_ois_opcode",
   msm_ois_opcode)] ++ structs_reg_settings_ois_t ++ structs_msm_ois_slave_info ++
   structs_msm_camera_led_cfg_t ++ [("sensor_init_cfg_data", sensor_init_cfg_data)])%list.
Definition media_msm_cam_sensor_ioctls : list command := [
  _IOWR "VIDIOC_MSM_SENSOR_CFG" (chr "V") 193 sensorb_cfg_data;
  _IO "VIDIOC_MSM_SENSOR_RELEASE" (chr "V") 194;
  _IOWR "VIDIOC_MSM_SENSOR_GET_SUBDEV_ID" (chr "V") 195 uint32_t;
  _IOWR "VIDIOC_MSM_CSIPHY_IO_CFG" (chr "V") 196 csiphy_cfg_data;
  _IOWR "VIDIOC_MSM_CSID_IO_CFG" (chr "V") 197 csid_cfg_data;
  _IOWR "VIDIOC_MSM_ACTUATOR_CFG" (chr "V") 198 msm_actuator_cfg_data;
  _IOWR "VIDIOC_MSM_FLASH_LED_DATA_CFG" (chr "V") 199 msm_camera_led_cfg_t;
  _IOWR "VIDIOC_MSM_EEPROM_CFG" (chr "V") 200 msm_eeprom_cfg_data;
  _IOWR "VIDIOC_MSM_SENSOR_GET_AF_STATUS" (chr "V") 201 uint32_t;
  _IOWR "VIDIOC_MSM_SENSOR_INIT_CFG" (chr "V") 202 sensor_init_cfg_data;
  _IOWR "VIDIOC_MSM_OIS_CFG" (chr "V") 203 msm_ois_cfg_data;
  _IOWR "VIDIOC_MSM_FLASH_CFG" (chr "V") 205 msm_flash_cfg_data_t;
  _IOWR "VIDIOC_MSM_OIS_CFG_DOWNLOAD" (chr "V") 206 msm_ois_cfg_download_data;
  _IOWR "VIDIOC_MSM_FLASH_QUERY_DATA" (chr "V") 207 msm_flash_query_data_t;
  _IOWR "VIDIOC_MSM_IR_LED_CFG" (chr "V") 207 msm_ir_led_cfg_data_t;
  _IOWR "VIDIOC_MSM_IR_CUT_CFG" (chr "V") 207 msm_ir_cut_cfg_data_t;
  _IOWR "VIDIOC_MSM_LASER_LED_CFG" (chr "V") 208 msm_laser_led_cfg_data_t].
End Media_msm_cam_sensor.

(** ** [media/msm_camera.h] *)

Module Media_msm_camera.
Definition MSM_MAX_CAMERA_SENSORS : Z := 6.
Definition MAX_SENSOR_NAME : Z := 32.
Definition MSM_MAX_CAMERA_CONFIGS : Z := 2.
Definition MAX_PLANES : Z := 8.
Definition MAX_CAMERA_ENABLE_NAME_LEN : Z := 32.
Definition structs_v4l2_event_and_payload : list (string * cty) :=
  let msm_mctl_pp_cmd := Struct [("id", int32_t); ("length", uint16_t); ("value", ptr)] in
  [
  ("v4l2_event_and_payload", Struct [("evt", Videodev2.v4l2_event); ("payload_length", uint32_t);
   ("transaction_id", uint32_t); ("payload", ptr)]);
  ("msm_stats_reqbuf", Struct [("num_buf", int); ("stats_type", int)]);
  ("msm_stats_flush_bufq", Struct [("stats_type", int)]);
  ("msm_mctl_pp_cmd", msm_mctl_pp_cmd);
  ("msm_mctl_post_proc_cmd", Struct [("type", int32_t); ("cmd", msm_mctl_pp_cmd)])].
Definition v4l2_event_and_payload : cty := type_in structs_v4l2_event_and_payload "v4l2_event_and_payload".
Definition structs_msm_ctrl_cmd : list (string * cty) :=
  let msm_ctrl_cmd := Struct [("type", uint16_t); ("length", uint16_t); ("value", ptr);
   ("status", uint16_t); ("timeout_ms", uint32_t); ("resp_fd", int); ("vnode_id", int);
   ("queue_idx", int); ("evt_id", uint32_t); ("stream_type", uint32_t); ("config_ident", int)] in
  let msm_cam_evt_msg := Struct [("type", ushort); ("msg_id", ushort); ("len", uint);
   ("frame_id", uint32_t); ("data", ptr); ("timestamp", timespec)] in
  let msm_pp_frame_sp := Struct [("phy_addr", ulong); ("y_off", uint32_t);
   ("cbcr_off", uint32_t); ("length", uint32_t); ("fd", int32_t); ("addr_offset", uint32_t);
   ("vaddr", ulong)] in
  let msm_pp_frame_mp := Struct [("phy_addr", ulong); ("data_offset", uint32_t);
   ("length", uint32_t); ("fd", int32_t); ("addr_offset", uint32_t); ("vaddr", ulong)] in
  let msm_pp_frame := Struct [("handle", uint32_t); ("frame_id", uint32_t); ("buf_idx", ushort);
   ("path", int); ("image_type", ushort); ("num_planes", ushort); ("timestamp", timeval);
   ("", Union [("sp", msm_pp_frame_sp); ("mp", Arr MAX_PLANES msm_pp_frame_mp)]);
   ("node_type", int); ("inst_handle", uint32_t)] in
  let msm_pp_crop := Struct [("src_x", uint32_t); ("src_y", uint32_t); ("src_w", uint32_t);
   ("src_h", uint32_t); ("dst_x", uint32_t); ("dst_y", uint32_t); ("dst_w", uint32_t);
   ("dst_h", uint32_t); ("update_flag", uint8_t)] in
  let msm_cam_evt_divert_frame := Struct [("image_mode", ushort); ("op_mode", ushort);
   ("inst_idx", ushort); ("node_idx", ushort); ("frame", msm_pp_frame); ("do_pp", int)] in
  let msm_mctl_pp_cmd_ack_event := Struct [("cmd", uint32_t); ("status", int);
   ("cookie", uint32_t)] in
  let msm_mctl_pp_event_info := Struct [("event", int32_t);
   ("", Union [("ack", msm_mctl_pp_cmd_ack_event)])] in
  [
  ("msm_ctrl_cmd", msm_ctrl_cmd);
  ("msm_cam_evt_msg", msm_cam_evt_msg);
  ("msm_pp_frame_sp", msm_pp_frame_sp);
  ("msm_pp_frame_mp", msm_pp_frame_mp);
  ("msm_pp_frame", msm_pp_frame);
  ("msm_pp_crop", msm_pp_crop);
  ("msm_mctl_pp_frame_cmd", Struct [("cookie", uint32_t); ("vpe_output_action", uint8_t);
   ("src_frame", msm_pp_frame); ("dest_frame", msm_pp_frame); ("crop", msm_pp_crop);
   ("path", int)]);
  ("msm_cam_evt_divert_frame", msm_cam_evt_divert_frame);
  ("msm_mctl_pp_cmd_ack_event", msm_mctl_pp_cmd_ack_event);
  ("msm_mctl_pp_event_info", msm_mctl_pp_event_info);
  ("msm_isp_event_ctrl", Struct [("resptype", ushort);
   ("isp_data", Union [("isp_msg", msm_cam_evt_msg); ("ctrl", msm_ctrl_cmd);
   ("div_frame", msm_cam_evt_divert_frame); ("pp_event_info", msm_mctl_pp_event_info)])])].
Definition msm_ctrl_cmd : cty := type_in structs_msm_ctrl_cmd "msm_ctrl_cmd".
Definition msm_cam_evt_msg : cty := type_in structs_msm_ctrl_cmd "msm_cam_evt_msg".
Definition structs_msm_stats_event_ctrl : list (string * cty) :=
  [
  ("msm_stats_event_ctrl", Struct [("resptype", int); ("timeout_ms", int);
   ("ctrl_cmd", msm_ctrl_cmd); ("stats_event", msm_cam_evt_msg)]);
  ("msm_camera_cfg_cmd", Struct [("cfg_type", uint16_t); ("cmd_type", uint16_t);
   ("queue", uint16_t); ("length", uint16_t); ("value", ptr)])].
Definition structs_msm_vfe_cfg_cmd : list (string * cty) :=
  [
  ("msm_vfe_cfg_cmd", Struct [("cmd_type", int); ("length", uint16_t); ("value", ptr)]);
  ("msm_vpe_cfg_cmd", Struct [("cmd_type", int); ("length", uint16_t); ("value", ptr)])].
Definition msm_vpe_cfg_cmd : cty := type_in structs_msm_vfe_cfg_cmd "msm_vpe_cfg_cmd".
Definition camera_enable_cmd : cty := Struct [("name", Arr MAX_CAMERA_ENABLE_NAME_LEN char)].
Definition structs_msm_stats_buf_info : list (string * cty) :=
  [
  ("msm_stats_buf_info", Struct [("type", int); ("fd", int); ("vaddr", ptr);
   ("offset", uint32_t); ("len", uint32_t); ("y_off", uint32_t); ("cbcr_off", uint32_t);
   ("planar0_off", uint32_t); ("planar1_off", uint32_t); ("planar2_off", uint32_t);
   ("active", uint8_t); ("buf_idx", int)]);
  ("msm_pmem_info", Struct [("type", int); ("fd", int); ("vaddr", ptr); ("offset", uint32_t);
   ("len", uint32_t); ("y_off", uint32_t); ("cbcr_off", uint32_t); ("planar0_off", uint32_t);
   ("planar1_off", uint32_t); ("planar2_off", uint32_t); ("active", uint8_t)]);
  ("outputCfg", Struct [("height", uint32_t); ("width", uint32_t);
   ("window_height_firstline", uint32_t); ("window_height_lastline", uint32_t)])].
Definition structs_fd_roi_info : list (string * cty) :=
  [
  ("fd_roi_info", Struct [("info", ptr); ("info_len", int)]);
  ("msm_mem_map_info", Struct [("cookie", uint32_t); ("length", uint32_t); ("mem_type", uint32_t)])].
Definition fd_roi_info : cty := type_in structs_fd_roi_info "fd_roi_info".
Definition msm_frame : cty :=
  Struct [("ts", timespec); ("path", int); ("type", int); ("buffer", ulong);
   ("phy_offset", uint32_t); ("y_off", uint32_t); ("cbcr_off", uint32_t);
   ("planar0_off", uint32_t); ("planar1_off", uint32_t); ("planar2_off", uint32_t); ("fd", int);
   ("cropinfo", ptr); ("croplen", int); ("error_code", uint32_t); ("roi_info", fd_roi_info);
   ("frame_id", uint32_t); ("stcam_quality_ind", int); ("stcam_conv_value", uint32_t);
   ("ion_alloc", Ion.ion_allocation_data); ("fd_data", Ion.ion_fd_data); ("ion_dev_fd", int)].
Definition structs_msm_st_crop : list (string * cty) :=
  let msm_st_crop := Struct [("in_w", uint32_t); ("in_h", uint32_t); ("out_w", uint32_t);
   ("out_h", uint32_t)] in
  let msm_st_half := Struct [("buf_p0_off", uint32_t); ("buf_p1_off", uint32_t);
   ("buf_p0_stride", uint32_t); ("buf_p1_stride", uint32_t); ("pix_x_off", uint32_t);
   ("pix_y_off", uint32_t); ("stCropInfo", msm_st_crop)] in
  [
  ("msm_st_crop", msm_st_crop);
  ("msm_st_half", msm_st_half);
  ("msm_st_frame", Struct [("buf_info", msm_frame); ("type", int); ("packing", enum);
   ("L", msm_st_half); ("R", msm_st_half); ("frame_id", int)])].
Definition structs_stats_buff : list (string * cty) :=
  let stats_buff := Struct [("buff", ulong); ("fd", int)] in
  [
  ("stats_buff", stats_buff);
  ("msm_stats_buf", Struct [("awb_ymin", uint8_t); ("aec", stats_buff); ("awb", stats_buff);
   ("af", stats_buff); ("be", stats_buff); ("ihist", stats_buff); ("rs", stats_buff);
   ("cs", stats_buff); ("skin", stats_buff); ("type", int); ("status_bits", uint32_t);
   ("buffer", ulong); ("fd", int); ("length", int); ("handle", ptr); ("frame_id", uint32_t);
   ("buf_idx", int)])].
Definition structs_crop_info : list (string * cty) :=
  [
  ("crop_info", Struct [("info", ptr); ("len", int)]);
  ("msm_postproc", Struct [("ftnum", int); ("fthumnail", msm_frame); ("fmnum", int);
   ("fmain", msm_frame)]);
  ("msm_snapshot_pp_status", Struct [("status", ptr)])].
Definition structs_sensor_pict_fps : list (string * cty) :=
  [
  ("sensor_pict_fps", Struct [("prevfps", uint16_t); ("pictfps", uint16_t)]);
  ("exp_gain_cfg", Struct [("gain", uint16_t); ("line", uint32_t)]);
  ("focus_cfg", Struct [("steps", int32_t); ("dir", int)]);
  ("fps_cfg", Struct [("f_mult", uint16_t); ("fps_div", uint16_t); ("pict_fps_div", uint32_t)]);
  ("wb_info_cfg", Struct [("red_gain", uint16_t); ("green_gain", uint16_t);
   ("blue_gain", uint16_t)]);
  ("sensor_3d_exp_cfg", Struct [("gain", uint16_t); ("line", uint32_t); ("r_gain", uint16_t);
   ("b_gain", uint16_t); ("gr_gain", uint16_t); ("gb_gain", uint16_t);
   ("gain_adjust", uint16_t)])].
Definition sensor_pict_fps : cty := type_in structs_sensor_pict_fps "sensor_pict_fps".
Definition exp_gain_cfg : cty := type_in structs_sensor_pict_fps "exp_gain_cfg".
Definition focus_cfg : cty := type_in structs_sensor_pict_fps "focus_cfg".
Definition fps_cfg : cty := type_in structs_sensor_pict_fps "fps_cfg".
Definition wb_info_cfg : cty := type_in structs_sensor_pict_fps "wb_info_cfg".
Definition sensor_3d_exp_cfg : cty := type_in structs_sensor_pict_fps "sensor_3d_exp_cfg".
Definition sensor_3d_cali_data_t : cty :=
  Struct [("left_p_matrix", Arr 3 (Arr 4 (Arr 8 uchar)));
   ("right_p_matrix", Arr 3 (Arr 4 (Arr 8 uchar))); ("square_len", Arr 8 uchar);
   ("focal_len", Arr 8 uchar); ("pixel_pitch", Arr 8 uchar); ("left_r", uint16_t);
   ("left_b", uint16_t); ("left_gb", uint16_t); ("left_af_far", uint16_t);
   ("left_af_mid", uint16_t); ("left_af_short", uint16_t); ("left_af_5um", uint16_t);
   ("left_af_50up", uint16_t); ("left_af_50down", uint16_t); ("right_r", uint16_t);
   ("right_b", uint16_t); ("right_gb", uint16_t); ("right_af_far", uint16_t);
   ("right_af_mid", uint16_t); ("right_af_short", uint16_t); ("right_af_5um", uint16_t);
   ("right_af_50up", uint16_t); ("right_af_50down", uint16_t)].
Definition structs_sensor_init_cfg : list (string * cty) :=
  [
  ("sensor_init_cfg", Struct [("prev_res", uint8_t); ("pict_res", uint8_t)]);
  ("sensor_calib_data", Struct [("r_over_g", uint16_t); ("b_over_g", uint16_t);
   ("gr_over_gb", uint16_t); ("macro_2_inf", uint16_t); ("inf_2_macro", uint16_t);
   ("stroke_amt", uint16_t); ("af_pos_1m", uint16_t); ("af_pos_inf", uint16_t)])].
Definition sensor_init_cfg : cty := type_in structs_sensor_init_cfg "sensor_init_cfg".
Definition sensor_calib_data : cty := type_in structs_sensor_init_cfg "sensor_calib_data".
Definition structs_msm_sensor_output_info_t : list (string * cty) :=
  let msm_camera_csid_lut_params := Struct [("num_cid", uint8_t); ("vc_cfg", ptr)] in
  let msm_camera_csid_params := Struct [("lane_cnt", uint8_t); ("lane_assign", uint16_t);
   ("phy_sel", uint8_t); ("lut_params", msm_camera_csid_lut_params)] in
  let msm_camera_csiphy_params := Struct [("lane_cnt", uint8_t); ("settle_cnt", uint8_t);
   ("lane_mask", uint16_t); ("combo_mode", uint8_t); ("csid_core", uint8_t);
   ("data_rate", uint64_t)] in
  [
  ("msm_sensor_output_info_t", Struct [("x_output", uint16_t); ("y_output", uint16_t);
   ("line_length_pclk", uint16_t); ("frame_length_lines", uint16_t); ("vt_pixel_clk", uint32_t);
   ("op_pixel_clk", uint32_t); ("binning_factor", uint16_t)]);
  ("sensor_output_info_t", Struct [("output_info", ptr); ("num_info", uint16_t)]);
  ("msm_sensor_exp_gain_info_t", Struct [("coarse_int_time_addr", uint16_t);
   ("global_gain_addr", uint16_t); ("vert_offset", uint16_t)]);
  ("msm_sensor_output_reg_addr_t", Struct [("x_output", uint16_t); ("y_output", uint16_t);
   ("line_length_pclk", uint16_t); ("frame_length_lines", uint16_t)]);
  ("sensor_driver_params_type", Struct [("init_settings", ptr); ("init_settings_size", uint16_t);
   ("mode_settings", ptr); ("mode_settings_size", uint16_t); ("sensor_output_reg_addr", ptr);
   ("start_settings", ptr); ("stop_settings", ptr); ("groupon_settings", ptr);
   ("groupoff_settings", ptr); ("sensor_exp_gain_info", ptr); ("output_info", ptr)]);
  ("mirror_flip", Struct [("x_mirror", int32_t); ("y_flip", int32_t)]);
  ("cord", Struct [("x", uint32_t); ("y", uint32_t)]);
  ("msm_eeprom_data_t", Struct [("eeprom_data", ptr); ("index", uint16_t)]);
  ("msm_camera_csid_vc_cfg", Struct [("cid", uint8_t); ("dt", uint8_t);
   ("decode_format", uint8_t)]);
  ("csi_lane_params_t", Struct [("csi_lane_assign", uint16_t); ("csi_lane_mask", uint8_t);
   ("csi_if", uint8_t); ("csid_core", Arr 2 uint8_t); ("csi_phy_sel", uint8_t)]);
  ("msm_camera_csid_lut_params", msm_camera_csid_lut_params);
  ("msm_camera_csid_params", msm_camera_csid_params);
  ("msm_camera_csiphy_params", msm_camera_csiphy_params);
  ("msm_camera_csi2_params", Struct [("csid_params", msm_camera_csid_params);
   ("csiphy_params", msm_camera_csiphy_params)])].
Definition sensor_output_info_t : cty := type_in structs_msm_sensor_output_info_t "sensor_output_info_t".
Definition mirror_flip : cty := type_in structs_msm_sensor_output_info_t "mirror_flip".
Definition cord : cty := type_in structs_msm_sensor_output_info_t "cord".
Definition msm_eeprom_data_t : cty := type_in structs_msm_sensor_output_info_t "msm_eeprom_data_t".
Definition csi_lane_params_t : cty := type_in structs_msm_sensor_output_info_t "csi_lane_params_t".
Definition msm_camera_csi_params : cty :=
  Struct [("data_format", enum); ("lane_cnt", uint8_t); ("lane_assign", uint8_t);
   ("settle_cnt", uint8_t); ("dpcm_scheme", uint8_t)].
Definition csic_cfg_data : cty := Struct [("cfgtype", enum); ("csic_params", ptr)].
Definition csid_cfg_data : cty :=
  Struct [("cfgtype", enum); ("cfg", Union [("csid_version", uint32_t); ("csid_params", ptr)])].
Definition csiphy_cfg_data : cty := Struct [("cfgtype", enum); ("csiphy_params", ptr)].
Definition structs_msm_ispif_params : list (string * cty) :=
  let msm_ispif_params := Struct [("intftype", uint8_t); ("cid_mask", uint16_t);
   ("csid", uint8_t); ("vfe_intf", uint8_t)] in
  [
  ("msm_ispif_params", msm_ispif_params);
  ("msm_ispif_params_list", Struct [("len", uint32_t); ("params", Arr 4 msm_ispif_params)])].
Definition msm_ispif_params_list : cty := type_in structs_msm_ispif_params "msm_ispif_params_list".
Definition ispif_cfg_data : cty :=
  Struct [("cfgtype", enum); ("cfg", Union [("csid_version", uint32_t); ("cmd", int);
   ("ispif_params", msm_ispif_params_list)])].
Definition msm_camera_i2c_reg_array : cty :=
  Struct [("reg_addr", uint16_t); ("reg_data", uint16_t)].
Definition msm_camera_i2c_reg_setting : cty :=
  Struct [("reg_setting", ptr); ("size", uint16_t); ("addr_type", enum); ("data_type", enum);
   ("delay", uint16_t)].
Definition sensor_oem_setting : cty := Struct [("type", enum); ("data", ptr)].
Definition structs_msm_camera_csi_lane_params : list (string * cty) :=
  [
  ("msm_camera_csi_lane_params", Struct [("csi_lane_assign", uint16_t);
   ("csi_lane_mask", uint16_t)]);
  ("camera_vreg_t", Struct [("reg_name", ptr); ("min_voltage", int); ("max_voltage", int);
   ("op_mode", int); ("delay", uint32_t)]);
  ("msm_camera_vreg_setting", Struct [("cam_vreg", ptr); ("num_vreg", uint16_t);
   ("enable", uint8_t)]);
  ("msm_cam_clk_info", Struct [("clk_name", ptr); ("clk_rate", long); ("delay", uint32_t)]);
  ("msm_cam_clk_setting", Struct [("clk_info", ptr); ("num_clk_info", uint16_t);
   ("enable", uint8_t)])].
Definition sensor_cfg_data : cty :=
  Struct [("cfgtype", int); ("mode", int); ("rs", int); ("max_steps", uint8_t);
   ("cfg", Union [("effect", int8_t); ("lens_shading", uint8_t); ("prevl_pf", uint16_t);
   ("prevp_pl", uint16_t); ("pictl_pf", uint16_t); ("pictp_pl", uint16_t);
   ("pict_max_exp_lc", uint32_t); ("p_fps", uint16_t); ("iso_type", uint8_t);
   ("init_info", sensor_init_cfg); ("gfps", sensor_pict_fps); ("exp_gain", exp_gain_cfg);
   ("focus", focus_cfg); ("fps", fps_cfg); ("wb_info", wb_info_cfg);
   ("sensor_3d_exp", sensor_3d_exp_cfg); ("calib_info", sensor_calib_data);
   ("output_info", sensor_output_info_t); ("eeprom_data", msm_eeprom_data_t);
   ("csi_lane_params", csi_lane_params_t); ("antibanding", uint16_t); ("contrast", uint8_t);
   ("saturation", uint8_t); ("sharpness", uint8_t); ("brightness", int8_t); ("ae_mode", int);
   ("wb_val", uint8_t); ("exp_compensation", int8_t); ("pclk", uint32_t); ("aec_cord", cord);
   ("is_autoflash", int); ("mirror_flip", mirror_flip); ("setting", ptr)])].
Definition structs_msm_cam_gpio_operation : list (string * cty) :=
  [
  ("msm_cam_gpio_operation", Struct [("op_type", enum); ("address", uint); ("value", int);
   ("tag", ptr)]);
  ("damping_params_t", Struct [("damping_step", uint32_t); ("damping_delay", uint32_t);
   ("hw_params", uint32_t)])].
Definition structs_msm_actuator_reg_params_t : list (string * cty) :=
  let msm_actuator_tuning_params_t := Struct [("initial_code", int16_t); ("pwd_step", uint16_t);
   ("region_size", uint16_t); ("total_steps", uint32_t); ("region_params", ptr)] in
  let msm_actuator_params_t := Struct [("act_type", enum); ("reg_tbl_size", uint8_t);
   ("data_size", uint16_t); ("init_setting_size", uint16_t); ("i2c_addr", uint32_t);
   ("i2c_addr_type", enum); ("i2c_data_type", enum); ("reg_tbl_params", ptr);
   ("init_settings", ptr)] in
  [
  ("msm_actuator_reg_params_t", Struct [("reg_write_type", enum); ("hw_mask", uint32_t);
   ("reg_addr", uint16_t); ("hw_shift", uint16_t); ("data_type", uint16_t);
   ("addr_type", uint16_t); ("reg_data", uint16_t); ("delay", uint16_t)]);
  ("reg_settings_t", Struct [("reg_addr", uint16_t); ("reg_data", uint16_t)]);
  ("region_params_t", Struct [("step_bound", Arr 2 uint16_t); ("code_per_step", uint16_t)]);
  ("msm_actuator_move_params_t", Struct [("dir", int8_t); ("sign_dir", int8_t);
   ("dest_step_pos", int16_t); ("num_steps", int32_t); ("ringing_params", ptr)]);
  ("msm_actuator_tuning_params_t", msm_actuator_tuning_params_t);
  ("msm_actuator_params_t", msm_actuator_params_t);
  ("msm_actuator_set_info_t", Struct [("actuator_params", msm_actuator_params_t);
   ("af_tuning_params", msm_actuator_tuning_params_t)]);
  ("msm_actuator_get_info_t", Struct [("focal_length_num", uint32_t);
   ("focal_length_den", uint32_t); ("f_number_num", uint32_t); ("f_number_den", uint32_t);
   ("f_pix_num", uint32_t); ("f_pix_den", uint32_t); ("total_f_dist_num", uint32_t);
   ("total_f_dist_den", uint32_t); ("hor_view_angle_num", uint32_t);
   ("hor_view_angle_den", uint32_t); ("ver_view_angle_num", uint32_t);
   ("ver_view_angle_den", uint32_t)])].
Definition msm_actuator_move_params_t : cty := type_in structs_msm_actuator_reg_params_t "msm_actuator_move_params_t".
Definition msm_actuator_set_info_t : cty := type_in structs_msm_actuator_reg_params_t "msm_actuator_set_info_t".
Definition msm_actuator_get_info_t : cty := type_in structs_msm_actuator_reg_params_t "msm_actuator_get_info_t".
Definition structs_msm_actuator_cfg_data : list (string * cty) :=
  let msm_eeprom_support := Struct [("is_supported", uint16_t); ("size", uint16_t);
   ("index", uint16_t); ("qvalue", uint16_t)] in
  let pixel_t := Struct [("x", int); ("y", int)] in
  let msm_camera_eeprom_info_t := Struct [("af", msm_eeprom_support); ("wb", msm_eeprom_support);
   ("lsc", msm_eeprom_support); ("dpc", msm_eeprom_support); ("raw", msm_eeprom_support)] in
  [
  ("msm_actuator_cfg_data", Struct [("cfgtype", int); ("is_af_supported", uint8_t);
   ("cfg", Union [("move", msm_actuator_move_params_t); ("set_info", msm_actuator_set_info_t);
   ("get_info", msm_actuator_get_info_t); ("cam_name", enum)])]);
  ("msm_eeprom_support", msm_eeprom_support);
  ("msm_calib_wb", Struct [("r_over_g", uint16_t); ("b_over_g", uint16_t);
   ("gr_over_gb", uint16_t)]);
  ("msm_calib_af", Struct [("macro_dac", uint16_t); ("inf_dac", uint16_t);
   ("start_dac", uint16_t)]);
  ("msm_calib_lsc", Struct [("r_gain", Arr 221 uint16_t); ("b_gain", Arr 221 uint16_t);
   ("gr_gain", Arr 221 uint16_t); ("gb_gain", Arr 221 uint16_t)]);
  ("pixel_t", pixel_t);
  ("msm_calib_dpc", Struct [("validcount", uint16_t); ("snapshot_coord", Arr 128 pixel_t);
   ("preview_coord", Arr 128 pixel_t); ("video_coord", Arr 128 pixel_t)]);
  ("msm_calib_raw", Struct [("data", ptr); ("size", uint32_t)]);
  ("msm_camera_eeprom_info_t", msm_camera_eeprom_info_t);
  ("msm_eeprom_cfg_data", Struct [("cfgtype", int); ("is_eeprom_supported", uint8_t);
   ("cfg", Union [("get_data", msm_eeprom_data_t); ("get_info", msm_camera_eeprom_info_t)])]);
  ("sensor_large_data", Struct [("cfgtype", int);
   ("data", Union [("sensor_3d_cali_data", sensor_3d_cali_data_t)])])].
Definition structs_strobe_flash_ctrl_data : list (string * cty) :=
  let strobe_flash_ctrl_data := Struct [("type", enum); ("charge_en", int)] in
  [
  ("strobe_flash_ctrl_data", strobe_flash_ctrl_data);
  ("msm_camera_info", Struct [("num_cameras", int);
   ("has_3d_support", Arr MSM_MAX_CAMERA_SENSORS uint8_t);
   ("is_internal_cam", Arr MSM_MAX_CAMERA_SENSORS uint8_t);
   ("s_mount_angle", Arr MSM_MAX_CAMERA_SENSORS uint32_t);
   ("video_dev_name", Arr MSM_MAX_CAMERA_SENSORS ptr);
   ("sensor_type", Arr MSM_MAX_CAMERA_SENSORS enum)]);
  ("msm_cam_config_dev_info", Struct [("num_config_nodes", int);
   ("config_dev_name", Arr MSM_MAX_CAMERA_CONFIGS ptr);
   ("config_dev_id", Arr MSM_MAX_CAMERA_CONFIGS int)]);
  ("msm_mctl_node_info", Struct [("num_mctl_nodes", int);
   ("mctl_node_name", Arr MSM_MAX_CAMERA_SENSORS ptr)]);
  ("flash_ctrl_data", Struct [("flashtype", int); ("ctrl_data", Union [("led_state", int);
   ("strobe_ctrl", strobe_flash_ctrl_data)])])].
Definition msm_camsensor_info : cty :=
  Struct [("name", Arr MAX_SENSOR_NAME char); ("flash_enabled", uint8_t);
   ("strobe_flash_enabled", uint8_t); ("actuator_enabled", uint8_t);
   ("ispif_supported", uint8_t); ("total_steps", int8_t); ("support_3d", uint8_t);
   ("flashtype", enum); ("sensor_type", enum); ("pxlcode", uint32_t); ("camera_type", uint32_t);
   ("mount_angle", int); ("max_width", uint32_t); ("max_height", uint32_t)].
Definition structs_plane_data : list (string * cty) :=
  let plane_data := Struct [("plane_id", int); ("offset", uint32_t); ("size", ulong)] in
  [
  ("plane_data", plane_data);
  ("img_plane_info", Struct [("width", uint32_t); ("height", uint32_t);
   ("pixelformat", uint32_t); ("buffer_type", uint8_t); ("output_port", uint8_t);
   ("ext_mode", uint32_t); ("num_planes", uint8_t); ("plane", Arr MAX_PLANES plane_data);
   ("sp_y_offset", uint32_t); ("inst_handle", uint32_t)])].
Definition msm_mctl_set_sdev_data : cty := Struct [("revision", uint32_t); ("sdev_type", enum)].
Definition structs_msm_camera_v4l2_ioctl_t : list (string * cty) :=
  [
  ("msm_camera_v4l2_ioctl_t", Struct [("id", uint32_t); ("len", uint32_t);
   ("trans_code", uint32_t); ("ioctl_ptr", ptr)]);
  ("msm_camera_vfe_params_t", Struct [("operation_mode", uint32_t); ("capture_count", uint32_t);
   ("skip_reset", uint8_t); ("stop_immediately", uint8_t); ("port_info", uint16_t);
   ("inst_handle", uint32_t); ("cmd_type", uint16_t)])].
Definition msm_camera_v4l2_ioctl_t : cty := type_in structs_msm_camera_v4l2_ioctl_t "msm_camera_v4l2_ioctl_t".
Definition msm_camera_irq_cfg : cty :=
  Struct [("cam_hw_mask", uint32_t); ("irq_idx", uint8_t); ("num_hwcore", uint8_t)].
Definition structs_msm_cpp_frame_info_t : list (string * cty) :=
  [
  ("msm_cpp_frame_info_t", Struct [("frame_id", int32_t); ("inst_id", uint32_t);
   ("client_id", uint32_t); ("frame_type", enum); ("num_strips", uint32_t)]);
  ("msm_ver_num_info", Struct [("main", uint32_t); ("minor", uint32_t); ("rev", uint32_t)])].
Definition media_msm_camera_types : list (string * cty) :=
  (structs_v4l2_event_and_payload ++ structs_msm_ctrl_cmd ++ structs_msm_stats_event_ctrl ++
   structs_msm_vfe_cfg_cmd ++ [("camera_enable_cmd", camera_enable_cmd)] ++
   structs_msm_stats_buf_info ++ structs_fd_roi_info ++ [("msm_frame", msm_frame)] ++
   structs_msm_st_crop ++ structs_stats_buff ++ structs_crop_info ++ structs_sensor_pict_fps
   ++ [("sensor_3d_cali_data_t", sensor_3d_cali_data_t)] ++ structs_sensor_init_cfg ++
   structs_msm_sensor_output_info_t ++ [("msm_camera_csi_params", msm_camera_csi_params);
   ("csic_cfg_data", csic_cfg_data); ("csid_cfg_data", csid_cfg_data); ("csiphy_cfg_data",
   csiphy_cfg_data)] ++ structs_msm_ispif_params ++ [("ispif_cfg_data", ispif_cfg_data);
   ("msm_camera_i2c_reg_array", msm_camera_i2c_reg_array); ("msm_camera_i2c_reg_setting",
   msm_camera_i2c_reg_setting); ("sensor_oem_setting", sensor_oem_setting)] ++
   structs_msm_camera_csi_lane_params ++ [("sensor_cfg_data", sensor_cfg_data)] ++
   structs_msm_cam_gpio_operation ++ structs_msm_actuator_reg_params_t ++
   structs_msm_actuator_cfg_data ++ structs_strobe_flash_ctrl_data ++ [("msm_camsensor_info",
   msm_camsensor_info)] ++ structs_plane_data ++ [("msm_mctl_set_sdev_data",
   msm_mctl_set_sdev_data)] ++ structs_msm_camera_v4l2_ioctl_t ++ [("msm_camera_irq_cfg",
   msm_camera_irq_cfg)] ++ structs_msm_cpp_frame_info_t)%list.
Definition media_msm_camera_ioctls_1 : list command := [
  _IOR "MSM_CAM_IOCTL_GET_SENSOR_INFO" (chr "m") 1 ptr;
  _IOW "MSM_CAM_IOCTL_REGISTER_PMEM" (chr "m") 2 ptr;
  _IOW "MSM_CAM_IOCTL_UNREGISTER_PMEM" (chr "m") 3 uint;
  _IOW "MSM_CAM_IOCTL_CTRL_COMMAND" (chr "m") 4 ptr;
  _IOW "MSM_CAM_IOCTL_CONFIG_VFE" (chr "m") 5 ptr;
  _IOR "MSM_CAM_IOCTL_GET_STATS" (chr "m") 6 ptr;
  _IOR "MSM_CAM_IOCTL_GETFRAME" (chr "m") 7 ptr;
  _IOW "MSM_CAM_IOCTL_ENABLE_VFE" (chr "m") 8 ptr;
  _IOW "MSM_CAM_IOCTL_CTRL_CMD_DONE" (chr "m") 9 ptr;
  _IOW "MSM_CAM_IOCTL_CONFIG_CMD" (chr "m") 10 ptr;
  _IOW "MSM_CAM_IOCTL_DISABLE_VFE" (chr "m") 11 ptr;
  _IOW "MSM_CAM_IOCTL_PAD_REG_RESET2" (chr "m") 12 ptr;
  _IOW "MSM_CAM_IOCTL_VFE_APPS_RESET" (chr "m") 13 ptr;
  _IOW "MSM_CAM_IOCTL_RELEASE_FRAME_BUFFER" (chr "m") 14 ptr;
  _IOW "MSM_CAM_IOCTL_RELEASE_STATS_BUFFER" (chr "m") 15 ptr;
  _IOW "MSM_CAM_IOCTL_AXI_CONFIG" (chr "m") 16 ptr;
  _IOW "MSM_CAM_IOCTL_GET_PICTURE" (chr "m") 17 ptr;
  _IOW "MSM_CAM_IOCTL_SET_CROP" (chr "m") 18 ptr;
  _IOW "MSM_CAM_IOCTL_PICT_PP" (chr "m") 19 ptr;
  _IOW "MSM_CAM_IOCTL_PICT_PP_DONE" (chr "m") 20 ptr;
  _IOW "MSM_CAM_IOCTL_SENSOR_IO_CFG" (chr "m") 21 ptr;
  _IOW "MSM_CAM_IOCTL_FLASH_LED_CFG" (chr "m") 22 ptr;
  _IO "MSM_CAM_IOCTL_UNBLOCK_POLL_FRAME" (chr "m") 23;
  _IOW "MSM_CAM_IOCTL_CTRL_COMMAND_2" (chr "m") 24 ptr;
  _IOR "MSM_CAM_IOCTL_AF_CTRL" (chr "m") 25 ptr;
  _IOW "MSM_CAM_IOCTL_AF_CTRL_DONE" (chr "m") 26 ptr;
  _IOW "MSM_CAM_IOCTL_CONFIG_VPE" (chr "m") 27 ptr;
  _IOW "MSM_CAM_IOCTL_AXI_VPE_CONFIG" (chr "m") 28 ptr;
  _IOW "MSM_CAM_IOCTL_STROBE_FLASH_CFG" (chr "m") 29 ptr;
  _IOW "MSM_CAM_IOCTL_STROBE_FLASH_CHARGE" (chr "m") 30 ptr;
  _IO "MSM_CAM_IOCTL_STROBE_FLASH_RELEASE" (chr "m") 31;
  _IOW "MSM_CAM_IOCTL_FLASH_CTRL" (chr "m") 32 ptr;
  _IOW "MSM_CAM_IOCTL_ERROR_CONFIG" (chr "m") 33 ptr;
  _IO "MSM_CAM_IOCTL_ABORT_CAPTURE" (chr "m") 34;
  _IOW "MSM_CAM_IOCTL_SET_FD_ROI" (chr "m") 35 ptr;
  _IOR "MSM_CAM_IOCTL_GET_CAMERA_INFO" (chr "m") 36 ptr;
  _IO "MSM_CAM_IOCTL_UNBLOCK_POLL_PIC_FRAME" (chr "m") 37;
  _IOW "MSM_CAM_IOCTL_RELEASE_PIC_BUFFER" (chr "m") 38 ptr;
  _IOW "MSM_CAM_IOCTL_PUT_ST_FRAME" (chr "m") 39 ptr;
  _IOW "MSM_CAM_IOCTL_V4L2_EVT_NOTIFY" (chr "m") 40 v4l2_event_and_payload;
  _IOR "MSM_CAM_IOCTL_SET_MEM_MAP_INFO" (chr "m") 41 ptr;
  _IOW "MSM_CAM_IOCTL_ACTUATOR_IO_CFG" (chr "m") 42 ptr;
  _IOW "MSM_CAM_IOCTL_MCTL_POST_PROC" (chr "m") 43 ptr;
  _IOW "MSM_CAM_IOCTL_RESERVE_FREE_FRAME" (chr "m") 44 ptr;
  _IOR "MSM_CAM_IOCTL_RELEASE_FREE_FRAME" (chr "m") 45 ptr;
  _IOR "MSM_CAM_IOCTL_PICT_PP_DIVERT_DONE" (chr "m") 46 ptr;
  _IOR "MSM_CAM_IOCTL_SENSOR_V4l2_S_CTRL" (chr "m") 47 Videodev2.v4l2_control;
  _IOR "MSM_CAM_IOCTL_SENSOR_V4l2_QUERY_CTRL" (chr "m") 48 Videodev2.v4l2_queryctrl;
  _IOW "MSM_CAM_IOCTL_GET_KERNEL_SYSTEM_TIME" (chr "m") 49 ptr;
  _IOW "MSM_CAM_IOCTL_SET_VFE_OUTPUT_TYPE" (chr "m") 50 ptr].
Definition media_msm_camera_ioctls_2 : list command := [
  _IOR "MSM_CAM_IOCTL_MCTL_DIVERT_DONE" (chr "m") 51 ptr;
  _IOW "MSM_CAM_IOCTL_GET_ACTUATOR_INFO" (chr "m") 52 ptr;
  _IOW "MSM_CAM_IOCTL_EEPROM_IO_CFG" (chr "m") 53 ptr;
  _IOR "MSM_CAM_IOCTL_ISPIF_IO_CFG" (chr "m") 54 ptr;
  _IOR "MSM_CAM_IOCTL_STATS_REQBUF" (chr "m") 55 ptr;
  _IOR "MSM_CAM_IOCTL_STATS_ENQUEUEBUF" (chr "m") 56 ptr;
  _IOR "MSM_CAM_IOCTL_STATS_FLUSH_BUFQ" (chr "m") 57 ptr;
  _IOW "MSM_CAM_IOCTL_SET_MCTL_SDEV" (chr "m") 58 ptr;
  _IOW "MSM_CAM_IOCTL_UNSET_MCTL_SDEV" (chr "m") 59 ptr;
  _IOR "MSM_CAM_IOCTL_GET_INST_HANDLE" (chr "m") 60 ptr;
  _IOR "MSM_CAM_IOCTL_STATS_UNREG_BUF" (chr "m") 61 ptr;
  _IOWR "MSM_CAM_IOCTL_CSIC_IO_CFG" (chr "m") 62 ptr;
  _IOWR "MSM_CAM_IOCTL_CSID_IO_CFG" (chr "m") 63 ptr;
  _IOR "MSM_CAM_IOCTL_CSIPHY_IO_CFG" (chr "m") 64 ptr;
  _IOW "MSM_CAM_IOCTL_OEM" (chr "m") 65 ptr;
  _IOWR "MSM_CAM_IOCTL_AXI_INIT" (chr "m") 66 ptr;
  _IO "MSM_CAM_IOCTL_AXI_RELEASE" (chr "m") 67].
Definition media_msm_camera_ioctls_3 : list command := [
  _IOWR "MSM_CAM_V4L2_IOCTL_GET_CAMERA_INFO" (chr "V") 193 msm_camera_v4l2_ioctl_t;
  _IOWR "MSM_CAM_V4L2_IOCTL_GET_CONFIG_INFO" (chr "V") 194 msm_camera_v4l2_ioctl_t;
  _IOWR "MSM_CAM_V4L2_IOCTL_GET_MCTL_INFO" (chr "V") 195 msm_camera_v4l2_ioctl_t;
  _IOWR "MSM_CAM_V4L2_IOCTL_CTRL_CMD_DONE" (chr "V") 196 msm_camera_v4l2_ioctl_t;
  _IOWR "MSM_CAM_V4L2_IOCTL_GET_EVENT_PAYLOAD" (chr "V") 197 msm_camera_v4l2_ioctl_t;
  _IOWR "MSM_CAM_IOCTL_SEND_EVENT" (chr "V") 198 Videodev2.v4l2_event;
  _IOWR "MSM_CAM_V4L2_IOCTL_CFG_VPE" (chr "V") 199 msm_vpe_cfg_cmd;
  _IOWR "MSM_CAM_V4L2_IOCTL_PRIVATE_S_CTRL" (chr "V") 200 msm_camera_v4l2_ioctl_t;
  _IOWR "MSM_CAM_V4L2_IOCTL_PRIVATE_G_CTRL" (chr "V") 201 msm_camera_v4l2_ioctl_t;
  _IOW "MSM_CAM_V4L2_IOCTL_PRIVATE_GENERAL" (chr "V") 202 msm_camera_v4l2_ioctl_t;
  _IO "VIDIOC_MSM_VPE_INIT" (chr "V") 207;
  _IO "VIDIOC_MSM_VPE_RELEASE" (chr "V") 208;
  _IOWR "VIDIOC_MSM_VPE_CFG" (chr "V") 209 ptr;
  _IOWR "VIDIOC_MSM_AXI_INIT" (chr "V") 210 ptr;
  _IO "VIDIOC_MSM_AXI_RELEASE" (chr "V") 211;
  _IOWR "VIDIOC_MSM_AXI_CFG" (chr "V") 212 ptr;
  _IOWR "VIDIOC_MSM_AXI_IRQ" (chr "V") 213 ptr;
  _IOWR "VIDIOC_MSM_AXI_BUF_CFG" (chr "V") 214 ptr;
  _IOWR "VIDIOC_MSM_AXI_RDI_COUNT_UPDATE" (chr "V") 215 ptr;
  _IO "VIDIOC_MSM_VFE_INIT" (chr "V") 216;
  _IO "VIDIOC_MSM_VFE_RELEASE" (chr "V") 217].
Definition media_msm_camera_ioctls_4 : list command := [
  _IOWR "MSM_IRQROUTER_CFG_COMPIRQ" (chr "V") 192 ptr].
Definition media_msm_camera_ioctls_5 : list command := [
  _IOWR "VIDIOC_MSM_CPP_CFG" (chr "V") 192 msm_camera_v4l2_ioctl_t;
  _IOWR "VIDIOC_MSM_CPP_GET_EVENTPAYLOAD" (chr "V") 193 msm_camera_v4l2_ioctl_t;
  _IOWR "VIDIOC_MSM_CPP_GET_INST_INFO" (chr "V") 194 msm_camera_v4l2_ioctl_t].
Definition media_msm_camera_ioctls : list command :=
  (media_msm_camera_ioctls_1 ++ media_msm_camera_ioctls_2 ++ media_msm_camera_ioctls_3 ++
  media_msm_camera_ioctls_4 ++ media_msm_camera_ioctls_5)%list.
End Media_msm_camera.

(** ** [media/msm_fd.h] *)

Module Media_msm_fd.
Definition msm_fd_event : cty :=
  Struct [("buf_index", __u32); ("frame_id", __u32); ("face_cnt", __u32)].
Definition structs_msm_fd_face_data : list (string * cty) :=
  [
  ("msm_fd_face_data", Struct [("pose", __u32); ("angle", __u32); ("confidence", __u32);
   ("reserved", __u32); ("face", Videodev2.v4l2_rect)]);
  ("msm_fd_result", Struct [("frame_id", __u32); ("face_cnt", __u32); ("face_data", ptr)])].
Definition msm_fd_result : cty := type_in structs_msm_fd_face_data "msm_fd_result".
Definition media_msm_fd_types : list (string * cty) :=
  ([("msm_fd_event", msm_fd_event)] ++ structs_msm_fd_face_data)%list.
Definition media_msm_fd_ioctls : list command := [
  _IOWR "VIDIOC_MSM_FD_GET_RESULT" (chr "V") 192 msm_fd_result].
End Media_msm_fd.

(** ** [media/msm_gemini.h] *)

Module Media_msm_gemini.
Definition msm_gemini_ctrl_cmd : cty :=
  Struct [("type", uint32_t); ("len", uint32_t); ("value", ptr)].
Definition msm_gemini_buf : cty :=
  Struct [("type", uint32_t); ("fd", int); ("vaddr", ptr); ("y_off", uint32_t);
   ("y_len", uint32_t); ("framedone_len", uint32_t); ("cbcr_off", uint32_t);
   ("cbcr_len", uint32_t); ("num_of_mcu_rows", uint32_t); ("offset", uint32_t)].
Definition media_msm_gemini_types : list (string * cty) :=
  ([("msm_gemini_ctrl_cmd", msm_gemini_ctrl_cmd); ("msm_gemini_buf", msm_gemini_buf)])%list.
Definition media_msm_gemini_ioctls : list command := [
  _IOW "MSM_GMN_IOCTL_GET_HW_VERSION" (chr "g") 1 ptr;
  _IOW "MSM_GMN_IOCTL_RESET" (chr "g") 2 ptr;
  _IOW "MSM_GMN_IOCTL_STOP" (chr "g") 3 ptr;
  _IOW "MSM_GMN_IOCTL_START" (chr "g") 4 ptr;
  _IOW "MSM_GMN_IOCTL_INPUT_BUF_ENQUEUE" (chr "g") 5 ptr;
  _IOW "MSM_GMN_IOCTL_INPUT_GET" (chr "g") 6 ptr;
  _IOW "MSM_GMN_IOCTL_INPUT_GET_UNBLOCK" (chr "g") 7 int;
  _IOW "MSM_GMN_IOCTL_OUTPUT_BUF_ENQUEUE" (chr "g") 8 ptr;
  _IOW "MSM_GMN_IOCTL_OUTPUT_GET" (chr "g") 9 ptr;
  _IOW "MSM_GMN_IOCTL_OUTPUT_GET_UNBLOCK" (chr "g") 10 int;
  _IOW "MSM_GMN_IOCTL_EVT_GET" (chr "g") 11 ptr;
  _IOW "MSM_GMN_IOCTL_EVT_GET_UNBLOCK" (chr "g") 12 int;
  _IOW "MSM_GMN_IOCTL_HW_CMD" (chr "g") 13 ptr;
  _IOW "MSM_GMN_IOCTL_HW_CMDS" (chr "g") 14 ptr;
  _IOW "MSM_GMN_IOCTL_TEST_DUMP_REGION" (chr "g") 15 ulong;
  _IOW "MSM_GMN_IOCTL_SET_MODE" (chr "g") 16 enum].
End Media_msm_gemini.

(** ** [media/msm_gestures.h] *)

Module Media_msm_gestures.
Definition structs_msm_ges_ctrl_cmd : list (string * cty) :=
  [
  ("msm_ges_ctrl_cmd", Struct [("type", int); ("value", ptr); ("len", int); ("fd", int);
   ("cookie", uint32_t)]);
  ("msm_ges_evt", Struct [("evt_data", ptr); ("evt_len", int)])].
Definition msm_ges_evt : cty := type_in structs_msm_ges_ctrl_cmd "msm_ges_evt".
Definition media_msm_gestures_types : list (string * cty) := structs_msm_ges_ctrl_cmd.
Definition media_msm_gestures_ioctls : list command := [
  _IOW "MSM_GES_IOCTL_CTRL_COMMAND" (chr "V") 212 Videodev2.v4l2_control;
  _IOWR "VIDIOC_MSM_GESTURE_EVT" (chr "V") 213 Videodev2.v4l2_event;
  _IOW "MSM_GES_GET_EVT_PAYLOAD" (chr "V") 214 msm_ges_evt;
  _IOWR "VIDIOC_MSM_GESTURE_CAM_EVT" (chr "V") 215 int].
End Media_msm_gestures.

(** ** [media/msm_isp.h] *)

Module Media_msm_isp.
Definition VPE_OPERATION_MODE_CFG_LEN : Z := 4.
Definition VPE_INPUT_PLANE_CFG_LEN : Z := 24.
Definition VPE_OUTPUT_PLANE_CFG_LEN : Z := 20.
Definition VPE_INPUT_PLANE_UPDATE_LEN : Z := 12.
Definition VPE_SCALER_CONFIG_LEN : Z := 260.
Definition msm_isp_cmd : cty := Struct [("id", int32_t); ("length", uint16_t); ("value", ptr)].
Definition structs_msm_vpe_op_mode_cfg : list (string * cty) :=
  [
  ("msm_vpe_op_mode_cfg", Struct [("op_mode_cfg", Arr VPE_OPERATION_MODE_CFG_LEN uint8_t)]);
  ("msm_vpe_input_plane_cfg", Struct [("input_plane_cfg", Arr VPE_INPUT_PLANE_CFG_LEN uint8_t)]);
  ("msm_vpe_output_plane_cfg", Struct [("output_plane_cfg", Arr VPE_OUTPUT_PLANE_CFG_LEN uint8_t)]);
  ("msm_vpe_input_plane_update_cfg", Struct [("input_plane_update_cfg", Arr VPE_INPUT_PLANE_UPDATE_LEN uint8_t)]);
  ("msm_vpe_scaler_cfg", Struct [("scaler_cfg", Arr VPE_SCALER_CONFIG_LEN uint8_t)]);
  ("msm_vpe_flush_frame_buffer", Struct [("src_buf_handle", uint32_t);
   ("dest_buf_handle", uint32_t); ("path", int)]);
  ("msm_mctl_pp_frame_buffer", Struct [("buf_handle", uint32_t); ("path", int)]);
  ("msm_mctl_pp_divert_pp", Struct [("path", int); ("enable", int)]);
  ("msm_vpe_clock_rate", Struct [("rate", uint32_t)])].
Definition msm_frame_info : cty := Struct [("inst_handle", uint32_t); ("path", uint32_t)].
Definition media_msm_isp_types : list (string * cty) :=
  ([("msm_isp_cmd", msm_isp_cmd)] ++ structs_msm_vpe_op_mode_cfg ++ [("msm_frame_info",
   msm_frame_info)])%list.
End Media_msm_isp.

(** ** [media/msm_jpeg.h] *)

Module Media_msm_jpeg.
Definition msm_jpeg_ctrl_cmd : cty :=
  Struct [("type", uint32_t); ("len", uint32_t); ("value", ptr)].
Definition msm_jpeg_buf : cty :=
  Struct [("type", uint32_t); ("fd", int); ("vaddr", ptr); ("y_off", uint32_t);
   ("y_len", uint32_t); ("framedone_len", uint32_t); ("cbcr_off", uint32_t);
   ("cbcr_len", uint32_t); ("num_of_mcu_rows", uint32_t); ("offset", uint32_t);
   ("pln2_off", uint32_t); ("pln2_len", uint32_t)].
Definition msm_jpeg_hw_cmd : cty :=
  Struct [("type:4,n:12,offset:16", uint32_t); ("mask", uint32_t);
   ("", Union [("data", uint32_t); ("pdata", ptr)])].
Definition msm_jpeg_hw_cmds : cty := Struct [("m", uint32_t); ("hw_cmd", Arr 1 msm_jpeg_hw_cmd)].
Definition media_msm_jpeg_types : list (string * cty) :=
  ([("msm_jpeg_ctrl_cmd", msm_jpeg_ctrl_cmd); ("msm_jpeg_buf", msm_jpeg_buf)] ++
   [("msm_jpeg_hw_cmd", msm_jpeg_hw_cmd); ("msm_jpeg_hw_cmds", msm_jpeg_hw_cmds)])%list.
Definition media_msm_jpeg_ioctls_1 : list command := [
  _IOW "MSM_JPEG_IOCTL_GET_HW_VERSION" (chr "g") 1 msm_jpeg_hw_cmd;
  _IOW "MSM_JPEG_IOCTL_RESET" (chr "g") 2 msm_jpeg_ctrl_cmd;
  _IOW "MSM_JPEG_IOCTL_STOP" (chr "g") 3 msm_jpeg_hw_cmds;
  _IOW "MSM_JPEG_IOCTL_START" (chr "g") 4 msm_jpeg_hw_cmds].
Definition media_msm_jpeg_ioctls_2 : list command := [
  _IOW "MSM_JPEG_IOCTL_INPUT_BUF_ENQUEUE" (chr "g") 5 msm_jpeg_buf;
  _IOW "MSM_JPEG_IOCTL_INPUT_GET" (chr "g") 6 msm_jpeg_buf;
  _IOW "MSM_JPEG_IOCTL_INPUT_GET_UNBLOCK" (chr "g") 7 int;
  _IOW "MSM_JPEG_IOCTL_OUTPUT_BUF_ENQUEUE" (chr "g") 8 msm_jpeg_buf;
  _IOW "MSM_JPEG_IOCTL_OUTPUT_GET" (chr "g") 9 msm_jpeg_buf;
  _IOW "MSM_JPEG_IOCTL_OUTPUT_GET_UNBLOCK" (chr "g") 10 int;
  _IOW "MSM_JPEG_IOCTL_EVT_GET" (chr "g") 11 msm_jpeg_ctrl_cmd;
  _IOW "MSM_JPEG_IOCTL_EVT_GET_UNBLOCK" (chr "g") 12 int].
Definition media_msm_jpeg_ioctls_3 : list command := [
  _IOW "MSM_JPEG_IOCTL_HW_CMD" (chr "g") 13 msm_jpeg_hw_cmd;
  _IOW "MSM_JPEG_IOCTL_HW_CMDS" (chr "g") 14 msm_jpeg_hw_cmds;
  _IOW "MSM_JPEG_IOCTL_TEST_DUMP_REGION" (chr "g") 15 ulong;
  _IOW "MSM_JPEG_IOCTL_SET_CLK_RATE" (chr "g") 16 uint].
Definition media_msm_jpeg_ioctls : list command :=
  (media_msm_jpeg_ioctls_1 ++ media_msm_jpeg_ioctls_2 ++ media_msm_jpeg_ioctls_3)%list.
End Media_msm_jpeg.

(** ** [media/msm_jpeg_dma.h] *)

Module Media_msm_jpeg_dma.
Definition msm_jpeg_dma_buff : cty := Struct [("fd", int32_t); ("offset", uint32_t)].
Definition media_msm_jpeg_dma_types : list (string * cty) := [("msm_jpeg_dma_buff", msm_jpeg_dma_buff)].
End Media_msm_jpeg_dma.

(** ** [media/msm_mercury.h] *)

Module Media_msm_mercury.
Definition structs_msm_mercury_ctrl_cmd : list (string * cty) :=
  [
  ("msm_mercury_ctrl_cmd", Struct [("type", uint32_t); ("len", uint32_t); ("value", ptr)]);
  ("msm_mercury_buf", Struct [("type", uint32_t); ("fd", int); ("vaddr", ptr);
   ("y_off", uint32_t); ("y_len", uint32_t); ("framedone_len", uint32_t); ("cbcr_off", uint32_t);
   ("cbcr_len", uint32_t); ("num_of_mcu_rows", uint32_t); ("offset", uint32_t)])].
Definition media_msm_mercury_types : list (string * cty) := structs_msm_mercury_ctrl_cmd.
Definition media_msm_mercury_ioctls : list command := [
  _IOW "MSM_MCR_IOCTL_GET_HW_VERSION" (chr "g") 1 ptr;
  _IOW "MSM_MCR_IOCTL_RESET" (chr "g") 2 ptr;
  _IOW "MSM_MCR_IOCTL_STOP" (chr "g") 3 ptr;
  _IOW "MSM_MCR_IOCTL_START" (chr "g") 4 ptr;
  _IOW "MSM_MCR_IOCTL_INPUT_BUF_CFG" (chr "g") 5 ptr;
  _IOW "MSM_MCR_IOCTL_INPUT_GET" (chr "g") 6 ptr;
  _IOW "MSM_MCR_IOCTL_INPUT_GET_UNBLOCK" (chr "g") 7 int;
  _IOW "MSM_MCR_IOCTL_OUTPUT_BUF_CFG" (chr "g") 8 ptr;
  _IOW "MSM_MCR_IOCTL_OUTPUT_GET" (chr "g") 9 ptr;
  _IOW "MSM_MCR_IOCTL_OUTPUT_GET_UNBLOCK" (chr "g") 10 int;
  _IOW "MSM_MCR_IOCTL_EVT_GET" (chr "g") 11 ptr;
  _IOW "MSM_MCR_IOCTL_EVT_GET_UNBLOCK" (chr "g") 12 int;
  _IOW "MSM_MCR_IOCTL_HW_CMD" (chr "g") 13 ptr;
  _IOW "MSM_MCR_IOCTL_HW_CMDS" (chr "g") 14 ptr;
  _IOW "MSM_MCR_IOCTL_TEST_DUMP_REGION" (chr "g") 15 ulong].
End Media_msm_mercury.

(** ** [media/msm_sde_rotator.h] *)

Module Media_msm_sde_rotator.
Definition structs_msm_sde_rotator_fence : list (string * cty) :=
  [
  ("msm_sde_rotator_fence", Struct [("index", __u32); ("type", __u32); ("fd", __s32);
   ("reserved", Arr 5 __u32)]);
  ("msm_sde_rotator_comp_ratio", Struct [("index", __u32); ("type", __u32); ("numer", __u32);
   ("denom", __u32); ("reserved", Arr 4 __u32)])].
Definition msm_sde_rotator_fence : cty := type_in structs_msm_sde_rotator_fence "msm_sde_rotator_fence".
Definition msm_sde_rotator_comp_ratio : cty := type_in structs_msm_sde_rotator_fence "msm_sde_rotator_comp_ratio".
Definition media_msm_sde_rotator_types : list (string * cty) := structs_msm_sde_rotator_fence.
Definition media_msm_sde_rotator_ioctls : list command := [
  _IOWR "VIDIOC_G_SDE_ROTATOR_FENCE" (chr "V") 202 msm_sde_rotator_fence;
  _IOWR "VIDIOC_S_SDE_ROTATOR_FENCE" (chr "V") 203 msm_sde_rotator_fence;
  _IOWR "VIDIOC_G_SDE_ROTATOR_COMP_RATIO" (chr "V") 204 msm_sde_rotator_comp_ratio;
  _IOWR "VIDIOC_S_SDE_ROTATOR_COMP_RATIO" (chr "V") 205 msm_sde_rotator_comp_ratio].
End Media_msm_sde_rotator.

(** ** [media/msm_vidc.h] *)

Module Media_msm_vidc.
Definition structs_msm_vidc_interlace_payload : list (string * cty) :=
  let msm_vidc_aspect_ratio_payload := Struct [("size", uint); ("version", uint);
   ("port_index", uint); ("aspect_width", uint); ("aspect_height", uint)] in
  let msm_vidc_input_crop_payload := Struct [("size", uint); ("version", uint);
   ("port_index", uint); ("left", uint); ("top", uint); ("width", uint); ("height", uint)] in
  let msm_vidc_digital_zoom_payload := Struct [("size", uint); ("version", uint);
   ("port_index", uint); ("zoom_width", uint); ("zoom_height", uint)] in
  let msm_vidc_panscan_window := Struct [("panscan_height_offset", uint);
   ("panscan_width_offset", uint); ("panscan_window_width", uint);
   ("panscan_window_height", uint)] in
  [
  ("msm_vidc_interlace_payload", Struct [("format", uint); ("color_format", uint)]);
  ("msm_vidc_framerate_payload", Struct [("frame_rate", uint)]);
  ("msm_vidc_ts_payload", Struct [("timestamp_lo", uint); ("timestamp_hi", uint)]);
  ("msm_vidc_concealmb_payload", Struct [("num_mbs", uint)]);
  ("msm_vidc_recoverysei_payload", Struct [("flags", uint)]);
  ("msm_vidc_aspect_ratio_payload", msm_vidc_aspect_ratio_payload);
  ("msm_vidc_mpeg2_seqdisp_payload", Struct [("video_format", uint); ("color_descp", uint);
   ("color_primaries", uint); ("transfer_char", uint); ("matrix_coeffs", uint);
   ("disp_width", uint); ("disp_height", uint)]);
  ("msm_vidc_vc1_seqdisp_payload", Struct [("prog_seg_format", uint); ("uv_sampl_fmt", uint);
   ("color_format", uint); ("color_primaries", uint); ("transfer_char", uint);
   ("matrix_coeffs", uint); ("aspect_ratio", uint); ("aspect_horiz", uint);
   ("aspect_vert", uint)]);
  ("msm_vidc_input_crop_payload", msm_vidc_input_crop_payload);
  ("msm_vidc_output_crop_payload", Struct [("size", uint); ("version", uint);
   ("port_index", uint); ("left", uint); ("top", uint); ("display_width", uint);
   ("display_height", uint); ("width", uint); ("height", uint)]);
  ("msm_vidc_digital_zoom_payload", msm_vidc_digital_zoom_payload);
  ("msm_vidc_extradata_index", Struct [("type", uint);
   ("", Union [("input_crop", msm_vidc_input_crop_payload);
   ("digital_zoom", msm_vidc_digital_zoom_payload);
   ("aspect_ratio", msm_vidc_aspect_ratio_payload)])]);
  ("msm_vidc_panscan_window", msm_vidc_panscan_window);
  ("msm_vidc_panscan_window_payload", Struct [("num_panscan_windows", uint);
   ("wnd", Arr 1 msm_vidc_panscan_window)]);
  ("msm_vidc_stream_userdata_payload", Struct [("type", uint); ("data", Arr 1 uint)]);
  ("msm_vidc_frame_qp_payload", Struct [("frame_qp", uint)]);
  ("msm_vidc_frame_bits_info_payload", Struct [("frame_bits", uint); ("header_bits", uint)]);
  ("msm_vidc_s3d_frame_packing_payload", Struct [("fpa_id", uint); ("cancel_flag", uint);
   ("fpa_type", uint); ("quin_cunx_flag", uint); ("content_interprtation_type", uint);
   ("spatial_flipping_flag", uint); ("frame0_flipped_flag", uint); ("field_views_flag", uint);
   ("current_frame_is_frame0_flag", uint); ("frame0_self_contained_flag", uint);
   ("frame1_self_contained_flag", uint); ("frame0_graid_pos_x", uint);
   ("frame0_graid_pos_y", uint); ("frame1_graid_pos_x", uint); ("frame1_graid_pos_y", uint);
   ("fpa_reserved_byte", uint); ("fpa_repetition_period", uint); ("fpa_extension_flag", uint)]);
  ("msm_vidc_vqzip_sei_payload", Struct [("size", uint); ("data", Arr 1 uint)]);
  ("msm_vidc_yuv_stats_payload", Struct [("frame_qp", uint); ("texture", uint);
   ("luma_in_q16", uint); ("frame_difference", uint)])].
Definition structs_msm_vidc_vpx_colorspace_payload : list (string * cty) :=
  [
  ("msm_vidc_vpx_colorspace_payload", Struct [("color_space", uint); ("yuv_range_flag", uint);
   ("sumsampling_x", uint); ("sumsampling_y", uint)]);
  ("msm_vidc_roi_qp_payload", Struct [("upper_qp_offset", int); ("lower_qp_offset", int);
   ("b_roi_info", uint); ("mbi_info_size", int); ("data", Arr 1 uint)]);
  ("msm_vidc_mastering_display_colour_sei_payload", Struct [("nDisplayPrimariesX", Arr 3 uint);
   ("nDisplayPrimariesY", Arr 3 uint); ("nWhitePointX", uint); ("nWhitePointY", uint);
   ("nMaxDisplayMasteringLuminance", uint); ("nMinDisplayMasteringLuminance", uint)]);
  ("msm_vidc_content_light_level_sei_payload", Struct [("nMaxContentLight", uint);
   ("nMaxPicAverageLight", uint)]);
  ("msm_vidc_vui_display_info_payload", Struct [("video_signal_present_flag", uint);
   ("video_format", uint); ("bit_depth_y", uint); ("bit_depth_c", uint);
   ("video_full_range_flag", uint); ("color_description_present_flag", uint);
   ("color_primaries", uint); ("transfer_characteristics", uint); ("matrix_coefficients", uint);
   ("chroma_location_info_present_flag", uint); ("chroma_format_idc", uint);
   ("separate_color_plane_flag", uint); ("chroma_sample_loc_type_top_field", uint);
   ("chroma_sample_loc_type_bottom_field", uint)])].
Definition media_msm_vidc_types : list (string * cty) :=
  (structs_msm_vidc_interlace_payload ++ structs_msm_vidc_vpx_colorspace_payload)%list.
End Media_msm_vidc.

(** ** [media/msm_vpu.h] *)

Module Media_msm_vpu.
Definition VPU_ACTIVE_REGION_N_EXCLUSIONS : Z := 1.
Definition v4l2_format_vpu_extension : cty := Struct [("flag", __u8); ("gap_in_lines", __u8)].
Definition structs_vpu_ctrl_standard : list (string * cty) :=
  [
  ("vpu_ctrl_standard", Struct [("enable", __u32); ("value", __s32)]);
  ("vpu_ctrl_auto_manual", Struct [("enable", __u32); ("auto_mode", __u32); ("value", __s32)]);
  ("vpu_ctrl_range_mapping", Struct [("enable", __u32); ("y_range", __u32); ("uv_range", __u32)])].
Definition vpu_ctrl_standard : cty := type_in structs_vpu_ctrl_standard "vpu_ctrl_standard".
Definition vpu_ctrl_auto_manual : cty := type_in structs_vpu_ctrl_standard "vpu_ctrl_auto_manual".
Definition vpu_ctrl_range_mapping : cty := type_in structs_vpu_ctrl_standard "vpu_ctrl_range_mapping".
Definition structs_vpu_ctrl_active_region_param : list (string * cty) :=
  [
  ("vpu_ctrl_active_region_param", Struct [("enable", __u32); ("num_exclusions", __u32);
   ("detection_region", Videodev2.v4l2_rect);
   ("excluded_regions", Arr VPU_ACTIVE_REGION_N_EXCLUSIONS Videodev2.v4l2_rect)]);
  ("vpu_ctrl_deinterlacing_mode", Struct [("field_polarity", __u32); ("mvp_mode", __u32)]);
  ("vpu_ctrl_hqv", Struct [("enable", __u32); ("sharpen_strength", __u32);
   ("auto_nr_strength", __u32)]);
  ("vpu_info_frame_timestamp", Struct [("pts_low", __u32); ("pts_high", __u32);
   ("qtime_low", __u32); ("qtime_high", __u32)])].
Definition vpu_ctrl_active_region_param : cty := type_in structs_vpu_ctrl_active_region_param "vpu_ctrl_active_region_param".
Definition vpu_ctrl_deinterlacing_mode : cty := type_in structs_vpu_ctrl_active_region_param "vpu_ctrl_deinterlacing_mode".
Definition vpu_ctrl_hqv : cty := type_in structs_vpu_ctrl_active_region_param "vpu_ctrl_hqv".
Definition vpu_info_frame_timestamp : cty := type_in structs_vpu_ctrl_active_region_param "vpu_info_frame_timestamp".
Definition control_data : cty :=
  Union [("value", __s32); ("standard", vpu_ctrl_standard);
   ("auto_manual", vpu_ctrl_auto_manual); ("range_mapping", vpu_ctrl_range_mapping);
   ("active_region_param", vpu_ctrl_active_region_param);
   ("active_region_result", Videodev2.v4l2_rect);
   ("deinterlacing_mode", vpu_ctrl_deinterlacing_mode); ("hqv", vpu_ctrl_hqv);
   ("timestamp", vpu_info_frame_timestamp); ("reserved", Arr 124 __u8)].
Definition vpu_control : cty := Struct [("control_id", __u32); ("data", control_data)].
Definition vpu_control_extended : cty :=
  Struct [("type", __u32); ("data_len", __u32); ("data_ptr", ptr); ("buf_size", __u32);
   ("buf_ptr", ptr)].
Definition control_port_data : cty := Union [("framerate", __u32)].
Definition vpu_control_port : cty :=
  Struct [("control_id", __u32); ("port", __u32); ("data", control_port_data)].
Definition media_msm_vpu_types : list (string * cty) :=
  ([("v4l2_format_vpu_extension", v4l2_format_vpu_extension)] ++ structs_vpu_ctrl_standard ++
   structs_vpu_ctrl_active_region_param ++ [("control_data", control_data); ("vpu_control",
   vpu_control); ("vpu_control_extended", vpu_control_extended); ("control_port_data",
   control_port_data); ("vpu_control_port", vpu_control_port)])%list.
Definition media_msm_vpu_ioctls : list command := [
  _IOW "VPU_ATTACH_TO_SESSION" (chr "V") 193 int;
  _IOR "VPU_QUERY_SESSIONS" (chr "V") 192 int;
  _IOR "VPU_CREATE_SESSION" (chr "V") 194 int;
  _IOW "VPU_JOIN_SESSION" (chr "V") 195 int;
  _IO "VPU_CREATE_OUTPUT2" (chr "V") 197;
  _IO "VPU_COMMIT_CONFIGURATION" (chr "V") 202;
  _IOW "VPU_FLUSH_BUFS" (chr "V") 207 enum;
  _IOWR "VPU_G_CONTROL" (chr "V") 212 vpu_control;
  _IOW "VPU_S_CONTROL" (chr "V") 213 vpu_control;
  _IOWR "VPU_G_CONTROL_EXTENDED" (chr "V") 214 vpu_control_extended;
  _IOW "VPU_S_CONTROL_EXTENDED" (chr "V") 215 vpu_control_extended;
  _IOWR "VPU_G_CONTROL_PORT" (chr "V") 216 vpu_control_port;
  _IOW "VPU_S_CONTROL_PORT" (chr "V") 217 vpu_control_port].
End Media_msm_vpu.

(** ** [media/msmb_camera.h] *)

Module Media_msmb_camera.
Definition MSM_CAMERA_MAX_USER_BUFF_CNT : Z := 16.
Definition msm_v4l2_event_data : cty :=
  Struct [("command", uint); ("status", uint); ("session_id", uint); ("stream_id", uint);
   ("map_op", uint); ("map_buf_idx", uint); ("notify", uint); ("arg_value", uint);
   ("ret_value", uint); ("v4l2_event_type", uint); ("v4l2_event_id", uint); ("handle", uint);
   ("nop6", uint); ("nop7", uint); ("nop8", uint); ("nop9", uint)].
Definition msm_v4l2_format_data : cty :=
  Struct [("type", enum); ("width", uint); ("height", uint); ("pixelformat", uint);
   ("num_planes", uchar); ("plane_sizes", Arr 8 uint)].
Definition structs_msm_camera_smmu_attach_type : list (string * cty) :=
  [
  ("msm_camera_smmu_attach_type", Struct [("attach", enum)]);
  ("msm_camera_user_buf_cont_t", Struct [("buf_cnt", uint);
   ("buf_idx", Arr MSM_CAMERA_MAX_USER_BUFF_CNT uint)]);
  ("msm_camera_return_buf", Struct [("index", __u32); ("reserved", __u32)])].
Definition msm_camera_user_buf_cont_t : cty := type_in structs_msm_camera_smmu_attach_type "msm_camera_user_buf_cont_t".
Definition msm_camera_private_ioctl_arg : cty :=
  Struct [("id", __u32); ("size", __u32); ("result", __u32); ("reserved", __u32);
   ("ioctl_ptr", __u64)].
Definition media_msmb_camera_types : list (string * cty) :=
  ([("msm_v4l2_event_data", msm_v4l2_event_data); ("msm_v4l2_format_data",
   msm_v4l2_format_data)] ++ structs_msm_camera_smmu_attach_type ++
   [("msm_camera_private_ioctl_arg", msm_camera_private_ioctl_arg)])%list.
Definition media_msmb_camera_ioctls_1 : list command := [
  _IOW "MSM_CAM_V4L2_IOCTL_NOTIFY" (chr "V") 222 msm_v4l2_event_data;
  _IOW "MSM_CAM_V4L2_IOCTL_NOTIFY_META" (chr "V") 223 msm_v4l2_event_data;
  _IOW "MSM_CAM_V4L2_IOCTL_CMD_ACK" (chr "V") 224 msm_v4l2_event_data;
  _IOW "MSM_CAM_V4L2_IOCTL_NOTIFY_ERROR" (chr "V") 225 msm_v4l2_event_data;
  _IOW "MSM_CAM_V4L2_IOCTL_NOTIFY_DEBUG" (chr "V") 226 msm_v4l2_event_data;
  _IOW "MSM_CAM_V4L2_IOCTL_DAEMON_DISABLED" (chr "V") 227 msm_v4l2_event_data].
Definition media_msmb_camera_ioctls_2 : list command := [
  _IOWR "VIDIOC_MSM_CAMERA_PRIVATE_IOCTL_CMD" (chr "V") 192 msm_camera_private_ioctl_arg].
Definition media_msmb_camera_ioctls : list command :=
  (media_msmb_camera_ioctls_1 ++ media_msmb_camera_ioctls_2)%list.
End Media_msmb_camera.

(** ** [media/msmb_generic_buf_mgr.h] *)

Module Media_msmb_generic_buf_mgr.
Definition structs_msm_buf_mngr_info : list (string * cty) :=
  [
  ("msm_buf_mngr_info", Struct [("session_id", uint32_t); ("stream_id", uint32_t);
   ("frame_id", uint32_t); ("timestamp", timeval); ("index", uint32_t); ("reserved", uint32_t);
   ("type", enum); ("user_buf", Media_msmb_camera.msm_camera_user_buf_cont_t)]);
  ("msm_buf_mngr_main_cont_info", Struct [("session_id", uint32_t); ("stream_id", uint32_t);
   ("cmd", enum); ("cnt", uint32_t); ("cont_fd", int32_t)])].
Definition msm_buf_mngr_info : cty := type_in structs_msm_buf_mngr_info "msm_buf_mngr_info".
Definition msm_buf_mngr_main_cont_info : cty := type_in structs_msm_buf_mngr_info "msm_buf_mngr_main_cont_info".
Definition media_msmb_generic_buf_mgr_types : list (string * cty) := structs_msm_buf_mngr_info.
Definition media_msmb_generic_buf_mgr_ioctls : list command := [
  _IOWR "VIDIOC_MSM_BUF_MNGR_GET_BUF" (chr "V") 225 msm_buf_mngr_info;
  _IOWR "VIDIOC_MSM_BUF_MNGR_PUT_BUF" (chr "V") 226 msm_buf_mngr_info;
  _IOWR "VIDIOC_MSM_BUF_MNGR_BUF_DONE" (chr "V") 227 msm_buf_mngr_info;
  _IOWR "VIDIOC_MSM_BUF_MNGR_CONT_CMD" (chr "V") 228 msm_buf_mngr_main_cont_info;
  _IOWR "VIDIOC_MSM_BUF_MNGR_INIT" (chr "V") 229 msm_buf_mngr_info;
  _IOWR "VIDIOC_MSM_BUF_MNGR_DEINIT" (chr "V") 230 msm_buf_mngr_info;
  _IOWR "VIDIOC_MSM_BUF_MNGR_FLUSH" (chr "V") 231 msm_buf_mngr_info;
  _IOWR "VIDIOC_MSM_BUF_MNGR_IOCTL_CMD" (chr "V") 232 Media_msmb_camera.msm_camera_private_ioctl_arg;
  _IOWR "VIDIOC_MSM_BUF_MNGR_BUF_ERROR" (chr "V") 233 msm_buf_mngr_info].
End Media_msmb_generic_buf_mgr.

(** ** [media/msmb_isp.h] *)

Module Media_msmb_isp.
Definition MAX_PLANES_PER_STREAM : Z := 3.
Definition MS_NUM_SLAVE_MAX : Z := 1.
Definition isp_kstate : cty :=
  Struct [("kernel_sofid", uint32_t); ("drop_reconfig", uint32_t); ("vfeid", uint32_t)].
Definition msm_isp_sw_framskip : cty :=
  Struct [("stats_type_mask", uint32_t); ("stream_src_mask", uint32_t); ("skip_mode", enum);
   ("min_frame_id", uint32_t); ("max_frame_id", uint32_t)].
Definition msm_vfe_fetch_engine_cfg : cty :=
  Struct [("input_format", uint32_t); ("buf_width", uint32_t); ("buf_height", uint32_t);
   ("fetch_width", uint32_t); ("fetch_height", uint32_t); ("x_offset", uint32_t);
   ("y_offset", uint32_t); ("buf_stride", uint32_t)].
Definition structs_msm_vfe_camif_subsample_cfg : list (string * cty) :=
  let msm_vfe_camif_subsample_cfg := Struct [("irq_subsample_period", uint32_t);
   ("irq_subsample_pattern", uint32_t); ("sof_counter_step", uint32_t); ("pixel_skip", uint32_t);
   ("line_skip", uint32_t); ("first_line", uint32_t); ("last_line", uint32_t);
   ("first_pixel", uint32_t); ("last_pixel", uint32_t); ("output_format", enum)] in
  [
  ("msm_vfe_camif_subsample_cfg", msm_vfe_camif_subsample_cfg);
  ("msm_vfe_camif_cfg", Struct [("lines_per_frame", uint32_t); ("pixels_per_line", uint32_t);
   ("first_pixel", uint32_t); ("last_pixel", uint32_t); ("first_line", uint32_t);
   ("last_line", uint32_t); ("epoch_line0", uint32_t); ("epoch_line1", uint32_t);
   ("is_split", uint32_t); ("camif_input", enum);
   ("subsample_cfg", msm_vfe_camif_subsample_cfg)]);
  ("msm_vfe_testgen_cfg", Struct [("lines_per_frame", uint32_t); ("pixels_per_line", uint32_t);
   ("v_blank", uint32_t); ("h_blank", uint32_t); ("pixel_bayer_pattern", enum);
   ("rotate_period", uint32_t); ("color_bar_pattern", enum); ("burst_num_frame", uint32_t)])].
Definition msm_vfe_camif_cfg : cty := type_in structs_msm_vfe_camif_subsample_cfg "msm_vfe_camif_cfg".
Definition msm_vfe_testgen_cfg : cty := type_in structs_msm_vfe_camif_subsample_cfg "msm_vfe_testgen_cfg".
Definition structs_msm_vfe_pix_cfg : list (string * cty) :=
  let msm_vfe_pix_cfg := Struct [("camif_cfg", msm_vfe_camif_cfg);
   ("testgen_cfg", msm_vfe_testgen_cfg); ("fetch_engine_cfg", msm_vfe_fetch_engine_cfg);
   ("input_mux", enum); ("pixel_pattern", enum); ("input_format", uint32_t); ("hvx_cmd", enum);
   ("is_split", uint32_t)] in
  let msm_vfe_rdi_cfg := Struct [("cid", uint8_t); ("frame_based", uint8_t)] in
  [
  ("msm_vfe_pix_cfg", msm_vfe_pix_cfg);
  ("msm_vfe_rdi_cfg", msm_vfe_rdi_cfg);
  ("msm_vfe_input_cfg", Struct [("d", Union [("pix_cfg", msm_vfe_pix_cfg);
   ("rdi_cfg", msm_vfe_rdi_cfg)]); ("input_src", enum); ("input_pix_clk", uint32_t)]);
  ("msm_vfe_fetch_eng_start", Struct [("session_id", uint32_t); ("stream_id", uint32_t);
   ("buf_idx", uint32_t); ("offline_mode", uint8_t); ("fd", uint32_t); ("buf_addr", uint32_t);
   ("frame_id", uint32_t)])].
Definition msm_vfe_input_cfg : cty := type_in structs_msm_vfe_pix_cfg "msm_vfe_input_cfg".
Definition msm_vfe_fetch_eng_start : cty := type_in structs_msm_vfe_pix_cfg "msm_vfe_fetch_eng_start".
Definition structs_msm_vfe_fetch_eng_multi_pass_start : list (string * cty) :=
  [
  ("msm_vfe_fetch_eng_multi_pass_start", Struct [("session_id", uint32_t);
   ("stream_id", uint32_t); ("buf_idx", uint32_t); ("offline_mode", uint8_t); ("fd", uint32_t);
   ("buf_addr", uint32_t); ("frame_id", uint32_t); ("output_buf_idx", uint32_t);
   ("input_buf_offset", uint32_t); ("offline_pass", enum); ("output_stream_id", uint32_t)]);
  ("msm_vfe_axi_plane_cfg", Struct [("output_width", uint32_t); ("output_height", uint32_t);
   ("output_stride", uint32_t); ("output_scan_lines", uint32_t);
   ("output_plane_format", uint32_t); ("plane_addr_offset", uint32_t); ("csid_src", uint8_t);
   ("rdi_cid", uint8_t)])].
Definition msm_vfe_fetch_eng_multi_pass_start : cty := type_in structs_msm_vfe_fetch_eng_multi_pass_start "msm_vfe_fetch_eng_multi_pass_start".
Definition msm_vfe_axi_plane_cfg : cty := type_in structs_msm_vfe_fetch_eng_multi_pass_start "msm_vfe_axi_plane_cfg".
Definition structs_msm_vfe_axi_stream_request_cmd : list (string * cty) :=
  [
  ("msm_vfe_axi_stream_request_cmd", Struct [("session_id", uint32_t); ("stream_id", uint32_t);
   ("vt_enable", uint32_t); ("output_format", uint32_t); ("stream_src", enum);
   ("plane_cfg", Arr MAX_PLANES_PER_STREAM msm_vfe_axi_plane_cfg); ("burst_count", uint32_t);
   ("hfr_mode", uint32_t); ("frame_base", uint8_t); ("init_frame_drop", uint32_t);
   ("frame_skip_pattern", enum); ("buf_divert", uint8_t); ("axi_stream_handle", uint32_t);
   ("controllable_output", uint32_t); ("burst_len", uint32_t); ("rdi_input_type", enum)]);
  ("msm_vfe_axi_stream_release_cmd", Struct [("stream_handle", uint32_t)])].
Definition msm_vfe_axi_stream_request_cmd : cty := type_in structs_msm_vfe_axi_stream_request_cmd "msm_vfe_axi_stream_request_cmd".
Definition msm_vfe_axi_stream_release_cmd : cty := type_in structs_msm_vfe_axi_stream_request_cmd "msm_vfe_axi_stream_release_cmd".
Definition msm_vfe_axi_stream_cfg_cmd : cty :=
  Struct [("num_streams", uint8_t); ("stream_handle", Arr 8 uint32_t); ("cmd", enum);
   ("sync_frame_id_src", uint8_t)].
Definition structs_msm_vfe_axi_stream_cfg_update_info : list (string * cty) :=
  let msm_vfe_axi_stream_cfg_update_info := Struct [("stream_handle", uint32_t);
   ("output_format", uint32_t); ("user_stream_id", uint32_t); ("frame_id", uint32_t);
   ("skip_pattern", enum); ("plane_cfg", Arr MAX_PLANES_PER_STREAM msm_vfe_axi_plane_cfg);
   ("sw_skip_info", msm_isp_sw_framskip)] in
  let msm_vfe_axi_stream_cfg_update_info_req_frm := Struct [("stream_handle", uint32_t);
   ("user_stream_id", uint32_t); ("frame_id", uint32_t); ("buf_index", uint32_t)] in
  [
  ("msm_vfe_axi_stream_cfg_update_info", msm_vfe_axi_stream_cfg_update_info);
  ("msm_vfe_axi_stream_cfg_update_info_req_frm", msm_vfe_axi_stream_cfg_update_info_req_frm);
  ("msm_vfe_axi_halt_cmd", Struct [("stop_camif", uint32_t); ("overflow_detected", uint32_t);
   ("blocking_halt", uint32_t)]);
  ("msm_vfe_axi_reset_cmd", Struct [("blocking", uint32_t); ("frame_id", uint32_t)]);
  ("msm_vfe_axi_restart_cmd", Struct [("enable_camif", uint32_t)]);
  ("msm_vfe_axi_stream_update_cmd", Struct [("num_streams", uint32_t); ("update_type", enum);
   ("", Union [("update_info", Arr 15 msm_vfe_axi_stream_cfg_update_info);
   ("req_frm_ver2", msm_vfe_axi_stream_cfg_update_info_req_frm)])]);
  ("msm_vfe_smmu_attach_cmd", Struct [("security_mode", uint32_t);
   ("iommu_attach_mode", uint32_t)]);
  ("msm_vfe_stats_stream_request_cmd", Struct [("session_id", uint32_t); ("stream_id", uint32_t);
   ("stats_type", enum); ("composite_flag", uint32_t); ("framedrop_pattern", uint32_t);
   ("init_frame_drop", uint32_t); ("irq_subsample_pattern", uint32_t);
   ("buffer_offset", uint32_t); ("stream_handle", uint32_t)]);
  ("msm_vfe_stats_stream_release_cmd", Struct [("stream_handle", uint32_t)]);
  ("msm_vfe_stats_stream_cfg_cmd", Struct [("num_streams", uint8_t);
   ("stream_handle", Arr 15 uint32_t); ("enable", uint8_t); ("stats_burst_len", uint32_t)])].
Definition msm_vfe_axi_halt_cmd : cty := type_in structs_msm_vfe_axi_stream_cfg_update_info "msm_vfe_axi_halt_cmd".
Definition msm_vfe_axi_reset_cmd : cty := type_in structs_msm_vfe_axi_stream_cfg_update_info "msm_vfe_axi_reset_cmd".
Definition msm_vfe_axi_restart_cmd : cty := type_in structs_msm_vfe_axi_stream_cfg_update_info "msm_vfe_axi_restart_cmd".
Definition msm_vfe_axi_stream_update_cmd : cty := type_in structs_msm_vfe_axi_stream_cfg_update_info "msm_vfe_axi_stream_update_cmd".
Definition msm_vfe_smmu_attach_cmd : cty := type_in structs_msm_vfe_axi_stream_cfg_update_info "msm_vfe_smmu_attach_cmd".
Definition msm_vfe_stats_stream_request_cmd : cty := type_in structs_msm_vfe_axi_stream_cfg_update_info "msm_vfe_stats_stream_request_cmd".
Definition msm_vfe_stats_stream_release_cmd : cty := type_in structs_msm_vfe_axi_stream_cfg_update_info "msm_vfe_stats_stream_release_cmd".
Definition msm_vfe_stats_stream_cfg_cmd : cty := type_in structs_msm_vfe_axi_stream_cfg_update_info "msm_vfe_stats_stream_cfg_cmd".
Definition structs_msm_vfe_cfg_cmd2 : list (string * cty) :=
  let msm_vfe_cfg_cmd2 := Struct [("num_cfg", uint16_t); ("cmd_len", uint16_t);
   ("cfg_data", ptr); ("cfg_cmd", ptr)] in
  let msm_vfe_reg_rw_info := Struct [("reg_offset", uint32_t); ("cmd_data_offset", uint32_t);
   ("len", uint32_t)] in
  let msm_vfe_reg_mask_info := Struct [("reg_offset", uint32_t); ("mask", uint32_t);
   ("val", uint32_t)] in
  let msm_vfe_reg_dmi_info := Struct [("hi_tbl_offset", uint32_t); ("lo_tbl_offset", uint32_t);
   ("len", uint32_t)] in
  [
  ("msm_vfe_cfg_cmd2", msm_vfe_cfg_cmd2);
  ("msm_vfe_cfg_cmd_list", Struct [("cfg_cmd", msm_vfe_cfg_cmd2); ("next", ptr);
   ("next_size", uint32_t)]);
  ("msm_vfe_reg_rw_info", msm_vfe_reg_rw_info);
  ("msm_vfe_reg_mask_info", msm_vfe_reg_mask_info);
  ("msm_vfe_reg_dmi_info", msm_vfe_reg_dmi_info);
  ("msm_vfe_reg_cfg_cmd", Struct [("u", Union [("rw_info", msm_vfe_reg_rw_info);
   ("mask_info", msm_vfe_reg_mask_info); ("dmi_info", msm_vfe_reg_dmi_info)]);
   ("cmd_type", enum)])].
Definition msm_vfe_cfg_cmd2 : cty := type_in structs_msm_vfe_cfg_cmd2 "msm_vfe_cfg_cmd2".
Definition msm_vfe_cfg_cmd_list : cty := type_in structs_msm_vfe_cfg_cmd2 "msm_vfe_cfg_cmd_list".
Definition msm_isp_set_dual_hw_ms_cmd : cty :=
  Struct [("num_src", uint8_t); ("dual_hw_ms_type", enum); ("primary_intf", enum);
   ("input_src", Arr 4 enum); ("sof_delta_threshold", uint32_t)].
Definition structs_msm_isp_unmap_buf_req : list (string * cty) :=
  let msm_isp_qbuf_plane := Struct [("addr", uint32_t); ("offset", uint32_t);
   ("length", uint32_t)] in
  let msm_isp_qbuf_buffer := Struct [("planes", Arr MAX_PLANES_PER_STREAM msm_isp_qbuf_plane);
   ("num_planes", uint32_t)] in
  [
  ("msm_isp_unmap_buf_req", Struct [("fd", uint32_t)]);
  ("msm_isp_buf_request", Struct [("session_id", uint32_t); ("stream_id", uint32_t);
   ("num_buf", uint8_t); ("handle", uint32_t); ("buf_type", enum)]);
  ("msm_isp_buf_request_ver2", Struct [("session_id", uint32_t); ("stream_id", uint32_t);
   ("num_buf", uint8_t); ("handle", uint32_t); ("buf_type", enum); ("security_mode", enum);
   ("reserved", Arr 4 uint32_t)]);
  ("msm_isp_qbuf_plane", msm_isp_qbuf_plane);
  ("msm_isp_qbuf_buffer", msm_isp_qbuf_buffer);
  ("msm_isp_qbuf_info", Struct [("handle", uint32_t); ("buf_idx", int32_t);
   ("buffer", msm_isp_qbuf_buffer); ("dirty_buf", uint32_t)]);
  ("msm_isp_clk_rates", Struct [("svs_rate", uint32_t); ("nominal_rate", uint32_t);
   ("high_rate", uint32_t)]);
  ("msm_vfe_axi_src_state", Struct [("input_src", enum); ("src_active", uint32_t);
   ("src_frame_id", uint32_t)])].
Definition msm_isp_unmap_buf_req : cty := type_in structs_msm_isp_unmap_buf_req "msm_isp_unmap_buf_req".
Definition msm_isp_buf_request : cty := type_in structs_msm_isp_unmap_buf_req "msm_isp_buf_request".
Definition msm_isp_buf_request_ver2 : cty := type_in structs_msm_isp_unmap_buf_req "msm_isp_buf_request_ver2".
Definition msm_isp_qbuf_info : cty := type_in structs_msm_isp_unmap_buf_req "msm_isp_qbuf_info".
Definition msm_vfe_axi_src_state : cty := type_in structs_msm_isp_unmap_buf_req "msm_vfe_axi_src_state".
Definition structs_msm_isp_buf_event : list (string * cty) :=
  [
  ("msm_isp_buf_event", Struct [("session_id", uint32_t); ("stream_id", uint32_t);
   ("handle", uint32_t); ("output_format", uint32_t); ("buf_idx", int8_t)]);
  ("msm_isp_fetch_eng_event", Struct [("session_id", uint32_t); ("stream_id", uint32_t);
   ("handle", uint32_t); ("fd", uint32_t); ("buf_idx", int8_t); ("offline_mode", int8_t)]);
  ("msm_isp_stats_event", Struct [("stats_mask", uint32_t); ("stats_buf_idxs", Arr 15 uint8_t);
   ("pd_stats_idx", uint8_t)]);
  ("msm_isp_stream_ack", Struct [("session_id", uint32_t); ("stream_id", uint32_t);
   ("handle", uint32_t)])].
Definition msm_isp_buf_event : cty := type_in structs_msm_isp_buf_event "msm_isp_buf_event".
Definition msm_isp_fetch_eng_event : cty := type_in structs_msm_isp_buf_event "msm_isp_fetch_eng_event".
Definition msm_isp_stats_event : cty := type_in structs_msm_isp_buf_event "msm_isp_stats_event".
Definition structs_msm_isp_error_info : list (string * cty) :=
  let msm_isp_ms_delta_info := Struct [("num_delta_info", uint8_t);
   ("delta", Arr MS_NUM_SLAVE_MAX uint32_t)] in
  [
  ("msm_isp_error_info", Struct [("err_type", enum); ("session_id", uint32_t);
   ("stream_id", uint32_t); ("stream_id_mask", uint32_t)]);
  ("msm_isp_ms_delta_info", msm_isp_ms_delta_info);
  ("msm_isp_output_info", Struct [("regs_not_updated", uint8_t); ("output_err_mask", uint16_t);
   ("stream_framedrop_mask", uint8_t); ("stats_framedrop_mask", uint16_t)]);
  ("msm_isp_sof_info", Struct [("regs_not_updated", uint8_t); ("reg_update_fail_mask", uint16_t);
   ("stream_get_buf_fail_mask", uint32_t); ("stats_get_buf_fail_mask", uint16_t);
   ("ms_delta_info", msm_isp_ms_delta_info); ("axi_updating_mask", uint16_t);
   ("reg_update_fail_mask_ext", uint32_t)])].
Definition msm_isp_error_info : cty := type_in structs_msm_isp_error_info "msm_isp_error_info".
Definition msm_isp_output_info : cty := type_in structs_msm_isp_error_info "msm_isp_output_info".
Definition msm_isp_sof_info : cty := type_in structs_msm_isp_error_info "msm_isp_sof_info".
Definition msm_isp_event_data : cty :=
  Struct [("timestamp", timeval); ("mono_timestamp", timeval); ("frame_id", uint32_t);
   ("u", Union [("stats", msm_isp_stats_event); ("buf_done", msm_isp_buf_event);
   ("fetch_done", msm_isp_fetch_eng_event); ("error_info", msm_isp_error_info);
   ("output_info", msm_isp_output_info); ("sof_info", msm_isp_sof_info)])].
Definition msm_isp_ahb_clk_cfg : cty :=
  Struct [("vote", uint32_t); ("reserved", Arr 2 uint32_t)].
Definition structs_msm_isp_dual_hw_master_slave_sync : list (string * cty) :=
  [
  ("msm_isp_dual_hw_master_slave_sync", Struct [("sync_mode", uint32_t);
   ("reserved", Arr 2 uint32_t)]);
  ("msm_vfe_dual_lpm_mode", Struct [("stream_src", Arr 8 enum); ("num_src", uint32_t);
   ("lpm_mode", uint32_t)])].
Definition msm_isp_dual_hw_master_slave_sync : cty := type_in structs_msm_isp_dual_hw_master_slave_sync "msm_isp_dual_hw_master_slave_sync".
Definition msm_vfe_dual_lpm_mode : cty := type_in structs_msm_isp_dual_hw_master_slave_sync "msm_vfe_dual_lpm_mode".
Definition media_msmb_isp_types : list (string * cty) :=
  ([("isp_kstate", isp_kstate); ("msm_isp_sw_framskip", msm_isp_sw_framskip);
   ("msm_vfe_fetch_engine_cfg", msm_vfe_fetch_engine_cfg)] ++
   structs_msm_vfe_camif_subsample_cfg ++ structs_msm_vfe_pix_cfg ++
   structs_msm_vfe_fetch_eng_multi_pass_start ++ structs_msm_vfe_axi_stream_request_cmd ++
   [("msm_vfe_axi_stream_cfg_cmd", msm_vfe_axi_stream_cfg_cmd)] ++
   structs_msm_vfe_axi_stream_cfg_update_info ++ structs_msm_vfe_cfg_cmd2 ++
   [("msm_isp_set_dual_hw_ms_cmd", msm_isp_set_dual_hw_ms_cmd)] ++
   structs_msm_isp_unmap_buf_req ++ structs_msm_isp_buf_event ++ structs_msm_isp_error_info ++
   [("msm_isp_event_data", msm_isp_event_data); ("msm_isp_ahb_clk_cfg", msm_isp_ahb_clk_cfg)]
   ++ structs_msm_isp_dual_hw_master_slave_sync)%list.
Definition media_msmb_isp_ioctls : list command := [
  _IOWR "VIDIOC_MSM_VFE_REG_CFG" (chr "V") 192 msm_vfe_cfg_cmd2;
  _IOWR "VIDIOC_MSM_ISP_REQUEST_BUF" (chr "V") 193 msm_isp_buf_request;
  _IOWR "VIDIOC_MSM_ISP_ENQUEUE_BUF" (chr "V") 194 msm_isp_qbuf_info;
  _IOWR "VIDIOC_MSM_ISP_RELEASE_BUF" (chr "V") 195 msm_isp_buf_request;
  _IOWR "VIDIOC_MSM_ISP_REQUEST_STREAM" (chr "V") 196 msm_vfe_axi_stream_request_cmd;
  _IOWR "VIDIOC_MSM_ISP_CFG_STREAM" (chr "V") 197 msm_vfe_axi_stream_cfg_cmd;
  _IOWR "VIDIOC_MSM_ISP_RELEASE_STREAM" (chr "V") 198 msm_vfe_axi_stream_release_cmd;
  _IOWR "VIDIOC_MSM_ISP_INPUT_CFG" (chr "V") 199 msm_vfe_input_cfg;
  _IOWR "VIDIOC_MSM_ISP_SET_SRC_STATE" (chr "V") 200 msm_vfe_axi_src_state;
  _IOWR "VIDIOC_MSM_ISP_REQUEST_STATS_STREAM" (chr "V") 201 msm_vfe_stats_stream_request_cmd;
  _IOWR "VIDIOC_MSM_ISP_CFG_STATS_STREAM" (chr "V") 202 msm_vfe_stats_stream_cfg_cmd;
  _IOWR "VIDIOC_MSM_ISP_RELEASE_STATS_STREAM" (chr "V") 203 msm_vfe_stats_stream_release_cmd;
  _IOWR "VIDIOC_MSM_ISP_REG_UPDATE_CMD" (chr "V") 204 enum;
  _IOWR "VIDIOC_MSM_ISP_UPDATE_STREAM" (chr "V") 205 msm_vfe_axi_stream_update_cmd;
  _IOWR "VIDIOC_MSM_VFE_REG_LIST_CFG" (chr "V") 206 msm_vfe_cfg_cmd_list;
  _IOWR "VIDIOC_MSM_ISP_SMMU_ATTACH" (chr "V") 207 msm_vfe_smmu_attach_cmd;
  _IOWR "VIDIOC_MSM_ISP_UPDATE_STATS_STREAM" (chr "V") 208 msm_vfe_axi_stream_update_cmd;
  _IOWR "VIDIOC_MSM_ISP_AXI_HALT" (chr "V") 209 msm_vfe_axi_halt_cmd;
  _IOWR "VIDIOC_MSM_ISP_AXI_RESET" (chr "V") 210 msm_vfe_axi_reset_cmd;
  _IOWR "VIDIOC_MSM_ISP_AXI_RESTART" (chr "V") 211 msm_vfe_axi_restart_cmd;
  _IOWR "VIDIOC_MSM_ISP_FETCH_ENG_START" (chr "V") 212 msm_vfe_fetch_eng_start;
  _IOWR "VIDIOC_MSM_ISP_DEQUEUE_BUF" (chr "V") 213 msm_isp_qbuf_info;
  _IOWR "VIDIOC_MSM_ISP_SET_DUAL_HW_MASTER_SLAVE" (chr "V") 214 msm_isp_set_dual_hw_ms_cmd;
  _IOWR "VIDIOC_MSM_ISP_MAP_BUF_START_FE" (chr "V") 215 msm_vfe_fetch_eng_start;
  _IOWR "VIDIOC_MSM_ISP_UNMAP_BUF" (chr "V") 216 msm_isp_unmap_buf_req;
  _IOWR "VIDIOC_MSM_ISP_AHB_CLK_CFG" (chr "V") 217 msm_isp_ahb_clk_cfg;
  _IOWR "VIDIOC_MSM_ISP_DUAL_HW_MASTER_SLAVE_SYNC" (chr "V") 218 msm_isp_dual_hw_master_slave_sync;
  _IOWR "VIDIOC_MSM_ISP_FETCH_ENG_MULTI_PASS_START" (chr "V") 219 msm_vfe_fetch_eng_multi_pass_start;
  _IOWR "VIDIOC_MSM_ISP_MAP_BUF_START_MULTI_PASS_FE" (chr "V") 220 msm_vfe_fetch_eng_multi_pass_start;
  _IOWR "VIDIOC_MSM_ISP_REQUEST_BUF_VER2" (chr "V") 221 msm_isp_buf_request_ver2;
  _IOWR "VIDIOC_MSM_ISP_DUAL_HW_LPM_MODE" (chr "V") 222 msm_vfe_dual_lpm_mode].
End Media_msmb_isp.

(** ** [media/msmb_ispif.h] *)

Module Media_msmb_ispif.
Definition MAX_PARAM_ENTRIES : Z := 10.
Definition MAX_CID_CH_PARAM_ENTRY : Z := 3.
Definition structs_msm_ispif_pack_cfg : list (string * cty) :=
  let msm_ispif_pack_cfg := Struct [("pixel_swap_en", int); ("even_odd_sel", enum);
   ("pack_mode", enum)] in
  let msm_ispif_params_entry := Struct [("vfe_intf", enum); ("intftype", enum);
   ("num_cids", int); ("cids", Arr MAX_CID_CH_PARAM_ENTRY enum); ("csid", enum);
   ("crop_enable", int); ("crop_start_pixel", uint16_t); ("crop_end_pixel", uint16_t)] in
  let msm_ispif_right_param_entry := Struct [("cids", Arr MAX_CID_CH_PARAM_ENTRY enum);
   ("csid", enum)] in
  let msm_isp_info := Struct [("max_resolution", uint32_t); ("id", uint32_t); ("ver", uint32_t)] in
  [
  ("msm_ispif_pack_cfg", msm_ispif_pack_cfg);
  ("msm_ispif_params_entry", msm_ispif_params_entry);
  ("msm_ispif_right_param_entry", msm_ispif_right_param_entry);
  ("msm_ispif_param_data_ext", Struct [("num", uint32_t);
   ("entries", Arr MAX_PARAM_ENTRIES msm_ispif_params_entry);
   ("pack_cfg", Arr 16 msm_ispif_pack_cfg);
   ("right_entries", Arr MAX_PARAM_ENTRIES msm_ispif_right_param_entry);
   ("stereo_enable", uint32_t); ("line_width", Arr 2 uint16_t)]);
  ("msm_ispif_param_data", Struct [("num", uint32_t);
   ("entries", Arr MAX_PARAM_ENTRIES msm_ispif_params_entry)]);
  ("msm_isp_info", msm_isp_info);
  ("msm_ispif_vfe_info", Struct [("num_vfe", int); ("info", Arr 2 msm_isp_info)])].
Definition msm_ispif_param_data : cty := type_in structs_msm_ispif_pack_cfg "msm_ispif_param_data".
Definition msm_ispif_vfe_info : cty := type_in structs_msm_ispif_pack_cfg "msm_ispif_vfe_info".
Definition structs_ispif_cfg_data : list (string * cty) :=
  [
  ("ispif_cfg_data", Struct [("cfg_type", enum); ("", Union [("reg_dump", int);
   ("csid_version", uint32_t); ("vfe_info", msm_ispif_vfe_info);
   ("params", msm_ispif_param_data)])]);
  ("ispif_cfg_data_ext", Struct [("cfg_type", enum); ("data", ptr); ("size", uint32_t)])].
Definition ispif_cfg_data : cty := type_in structs_ispif_cfg_data "ispif_cfg_data".
Definition ispif_cfg_data_ext : cty := type_in structs_ispif_cfg_data "ispif_cfg_data_ext".
Definition media_msmb_ispif_types : list (string * cty) :=
  (structs_msm_ispif_pack_cfg ++ structs_ispif_cfg_data)%list.
Definition media_msmb_ispif_ioctls : list command := [
  _IOWR "VIDIOC_MSM_ISPIF_CFG" (chr "V") 192 ispif_cfg_data;
  _IOWR "VIDIOC_MSM_ISPIF_CFG_EXT" (chr "V") 193 ispif_cfg_data_ext].
End Media_msmb_ispif.

(** ** [media/msmb_pproc.h] *)

Module Media_msmb_pproc.
Definition MAX_PLANES : Z := 8.
Definition MAX_FREQ_TBL : Z := 10.
Definition MSM_OUTPUT_BUF_CNT : Z := 8.
Definition structs_msm_cpp_buffer_info_t : list (string * cty) :=
  [
  ("msm_cpp_buffer_info_t", Struct [("fd", int32_t); ("index", uint32_t); ("offset", uint32_t);
   ("native_buff", uint8_t); ("processed_divert", uint8_t); ("identity", uint32_t)]);
  ("msm_cpp_stream_buff_info_t", Struct [("identity", uint32_t); ("num_buffs", uint32_t);
   ("buffer_info", ptr)])].
Definition msm_cpp_buffer_info_t : cty := type_in structs_msm_cpp_buffer_info_t "msm_cpp_buffer_info_t".
Definition msm_cpp_batch_info_t : cty :=
  Struct [("batch_mode", enum); ("batch_size", uint32_t);
   ("intra_plane_offset", Arr MAX_PLANES uint32_t); ("pick_preview_idx", uint32_t);
   ("cont_idx", uint32_t)].
Definition msm_cpp_frame_info_t : cty :=
  Struct [("frame_id", int32_t); ("timestamp", timeval); ("inst_id", uint32_t);
   ("identity", uint32_t); ("client_id", uint32_t); ("frame_type", enum);
   ("num_strips", uint32_t); ("msg_len", uint32_t); ("cpp_cmd_msg", ptr); ("src_fd", int);
   ("dst_fd", int); ("in_time", timeval); ("out_time", timeval); ("cookie", ptr);
   ("status", ptr); ("duplicate_output", int32_t); ("duplicate_identity", uint32_t);
   ("feature_mask", uint32_t); ("we_disable", uint8_t);
   ("input_buffer_info", msm_cpp_buffer_info_t);
   ("output_buffer_info", Arr MSM_OUTPUT_BUF_CNT msm_cpp_buffer_info_t);
   ("duplicate_buffer_info", msm_cpp_buffer_info_t);
   ("tnr_scratch_buffer_info", Arr 2 msm_cpp_buffer_info_t); ("reserved", uint32_t);
   ("partial_frame_indicator", uint8_t); ("first_payload", uint8_t); ("last_payload", uint8_t);
   ("first_stripe_index", uint32_t); ("last_stripe_index", uint32_t);
   ("stripe_info_offset", uint32_t); ("stripe_info", uint32_t);
   ("batch_info", msm_cpp_batch_info_t)].
Definition structs_msm_cpp_pop_stream_info_t : list (string * cty) :=
  let msm_vpe_frame_strip_info := Struct [("src_w", uint32_t); ("src_h", uint32_t);
   ("dst_w", uint32_t); ("dst_h", uint32_t); ("src_x", uint32_t); ("src_y", uint32_t);
   ("phase_step_x", uint32_t); ("phase_step_y", uint32_t); ("phase_init_x", uint32_t);
   ("phase_init_y", uint32_t)] in
  let msm_vpe_buffer_info_t := Struct [("fd", int32_t); ("index", uint32_t);
   ("offset", uint32_t); ("native_buff", uint8_t); ("processed_divert", uint8_t)] in
  [
  ("msm_cpp_pop_stream_info_t", Struct [("frame_id", int32_t); ("identity", uint32_t)]);
  ("cpp_hw_info", Struct [("cpp_hw_version", uint32_t); ("cpp_hw_caps", uint32_t);
   ("freq_tbl", Arr MAX_FREQ_TBL ulong); ("freq_tbl_count", uint32_t)]);
  ("msm_vpe_frame_strip_info", msm_vpe_frame_strip_info);
  ("msm_vpe_buffer_info_t", msm_vpe_buffer_info_t);
  ("msm_vpe_stream_buff_info_t", Struct [("identity", uint32_t); ("num_buffs", uint32_t);
   ("buffer_info", ptr)]);
  ("msm_vpe_frame_info_t", Struct [("frame_id", int32_t); ("timestamp", timeval);
   ("inst_id", uint32_t); ("identity", uint32_t); ("client_id", uint32_t); ("frame_type", enum);
   ("strip_info", msm_vpe_frame_strip_info); ("src_fd", ulong); ("dst_fd", ulong);
   ("src_ion_handle", ptr); ("dest_ion_handle", ptr); ("src_phyaddr", ulong);
   ("dest_phyaddr", ulong); ("src_chroma_plane_offset", ulong);
   ("dest_chroma_plane_offset", ulong); ("in_time", timeval); ("out_time", timeval);
   ("cookie", ptr); ("input_buffer_info", msm_vpe_buffer_info_t);
   ("output_buffer_info", msm_vpe_buffer_info_t)]);
  ("msm_pproc_queue_buf_info", Struct [("buff_mgr_info", Media_msmb_generic_buf_mgr.msm_buf_mngr_info);
   ("is_buf_dirty", uint8_t)]);
  ("msm_cpp_clock_settings_t", Struct [("clock_rate", ulong); ("avg", uint64_t);
   ("inst", uint64_t)])].
Definition msm_camera_v4l2_ioctl_t : cty :=
  Struct [("id", uint32_t); ("len", size_t); ("trans_code", int32_t); ("ioctl_ptr", ptr)].
Definition media_msmb_pproc_types : list (string * cty) :=
  (structs_msm_cpp_buffer_info_t ++ [("msm_cpp_batch_info_t", msm_cpp_batch_info_t);
   ("msm_cpp_frame_info_t", msm_cpp_frame_info_t)] ++ structs_msm_cpp_pop_stream_info_t ++
   [("msm_camera_v4l2_ioctl_t", msm_camera_v4l2_ioctl_t)])%list.
Definition media_msmb_pproc_ioctls : list command := [
  _IOWR "VIDIOC_MSM_CPP_CFG" (chr "V") 192 msm_camera_v4l2_ioctl_t;
  _IOWR "VIDIOC_MSM_CPP_GET_EVENTPAYLOAD" (chr "V") 193 msm_camera_v4l2_ioctl_t;
  _IOWR "VIDIOC_MSM_CPP_GET_INST_INFO" (chr "V") 194 msm_camera_v4l2_ioctl_t;
  _IOWR "VIDIOC_MSM_CPP_LOAD_FIRMWARE" (chr "V") 195 msm_camera_v4l2_ioctl_t;
  _IOWR "VIDIOC_MSM_CPP_GET_HW_INFO" (chr "V") 196 msm_camera_v4l2_ioctl_t;
  _IOWR "VIDIOC_MSM_CPP_FLUSH_QUEUE" (chr "V") 197 msm_camera_v4l2_ioctl_t;
  _IOWR "VIDIOC_MSM_CPP_ENQUEUE_STREAM_BUFF_INFO" (chr "V") 198 msm_camera_v4l2_ioctl_t;
  _IOWR "VIDIOC_MSM_CPP_DEQUEUE_STREAM_BUFF_INFO" (chr "V") 199 msm_camera_v4l2_ioctl_t;
  _IOWR "VIDIOC_MSM_VPE_CFG" (chr "V") 200 msm_camera_v4l2_ioctl_t;
  _IOWR "VIDIOC_MSM_VPE_TRANSACTION_SETUP" (chr "V") 201 msm_camera_v4l2_ioctl_t;
  _IOWR "VIDIOC_MSM_VPE_GET_EVENTPAYLOAD" (chr "V") 202 msm_camera_v4l2_ioctl_t;
  _IOWR "VIDIOC_MSM_VPE_GET_INST_INFO" (chr "V") 203 msm_camera_v4l2_ioctl_t;
  _IOWR "VIDIOC_MSM_VPE_ENQUEUE_STREAM_BUFF_INFO" (chr "V") 204 msm_camera_v4l2_ioctl_t;
  _IOWR "VIDIOC_MSM_VPE_DEQUEUE_STREAM_BUFF_INFO" (chr "V") 205 msm_camera_v4l2_ioctl_t;
  _IOWR "VIDIOC_MSM_CPP_QUEUE_BUF" (chr "V") 206 msm_camera_v4l2_ioctl_t;
  _IOWR "VIDIOC_MSM_CPP_APPEND_STREAM_BUFF_INFO" (chr "V") 207 msm_camera_v4l2_ioctl_t;
  _IOWR "VIDIOC_MSM_CPP_SET_CLOCK" (chr "V") 208 msm_camera_v4l2_ioctl_t;
  _IOWR "VIDIOC_MSM_CPP_POP_STREAM_BUFFER" (chr "V") 209 msm_camera_v4l2_ioctl_t;
  _IOWR "VIDIOC_MSM_CPP_IOMMU_ATTACH" (chr "V") 210 msm_camera_v4l2_ioctl_t;
  _IOWR "VIDIOC_MSM_CPP_IOMMU_DETACH" (chr "V") 211 msm_camera_v4l2_ioctl_t;
  _IOWR "VIDIOC_MSM_CPP_DELETE_STREAM_BUFF" (chr "V") 212 msm_camera_v4l2_ioctl_t].
End Media_msmb_pproc.

(** ** [media/radio-iris.h] *)

Module Media_radio_iris.
Definition MAX_RIVA_PEEK_RSP_SIZE : Z := 251.
Definition DEFAULT_DATA_SIZE : Z := 249.
Definition FM_SPUR_TBL_SIZE : Z := 240.
Definition FM_AF_LIST_MAX_SIZE : Z := 200.
Definition MAX_BLEND_INDEX : Z := 49.
Definition TX_PS_DATA_LENGTH : Z := 108.
Definition TX_RT_DATA_LENGTH : Z := 64.
Definition MAX_RAW_RDS_GRPS : Z := 21.
Definition MAX_SPUR_FREQ_LIMIT : Z := 30.
Definition PROCS_CALIB_SIZE : Z := 23.
Definition DC_CALIB_SIZE : Z := 48.
Definition MAX_CALIB_SIZE : Z := 75.
Definition structs_radio_hci_command_hdr : list (string * cty) :=
  [
  ("radio_hci_command_hdr", Packed [("opcode", __le16); ("plen", __u8)]);
  ("radio_hci_event_hdr", Packed [("evt", __u8); ("plen", __u8)])].
Definition structs_hci_fm_recv_conf_req : list (string * cty) :=
  let hci_fm_search_station_req := Packed [("srch_mode", __u8); ("scan_time", __u8);
   ("srch_dir", __u8)] in
  let hci_fm_riva_data := Packed [("subopcode", __u8); ("start_addr", __u32); ("length", __u8)] in
  [
  ("hci_fm_recv_conf_req", Packed [("emphasis", __u8); ("ch_spacing", __u8); ("rds_std", __u8);
   ("hlsi", __u8); ("band_low_limit", __u32); ("band_high_limit", __u32)]);
  ("hci_fm_trans_conf_req_struct", Packed [("emphasis", __u8); ("rds_std", __u8);
   ("band_low_limit", __u32); ("band_high_limit", __u32)]);
  ("hci_fm_tx_ps", Packed [("ps_control", __u8); ("pi", __u16); ("pty", __u8);
   ("ps_repeatcount", __u8); ("ps_num", __u8); ("ps_data", Arr TX_PS_DATA_LENGTH __u8)]);
  ("hci_fm_tx_rt", Packed [("rt_control", __u8); ("pi", __u16); ("pty", __u8); ("rt_len", __u8);
   ("rt_data", Arr TX_RT_DATA_LENGTH __u8)]);
  ("hci_fm_mute_mode_req", Packed [("hard_mute", __u8); ("soft_mute", __u8)]);
  ("hci_fm_stereo_mode_req", Packed [("stereo_mode", __u8); ("sig_blend", __u8);
   ("intf_blend", __u8); ("most_switch", __u8)]);
  ("hci_fm_search_station_req", hci_fm_search_station_req);
  ("hci_fm_search_rds_station_req", Packed [("srch_station", hci_fm_search_station_req);
   ("srch_pty", __u8); ("srch_pi", __u16)]);
  ("hci_fm_search_station_list_req", Packed [("srch_list_mode", __u8); ("srch_list_dir", __u8);
   ("srch_list_max", __u32); ("srch_pty", __u8)]);
  ("hci_fm_rds_grp_req", Packed [("rds_grp_enable_mask", __u32); ("rds_buf_size", __u32);
   ("en_rds_change_filter", __u8)]);
  ("hci_fm_en_avd_ctrl_req", Packed [("no_freqs", __u8); ("freq_index", __u8); ("lo_shft", __u8);
   ("freq_min", __u16); ("freq_max", __u16)]);
  ("hci_fm_def_data_rd_req", Packed [("mode", __u8); ("length", __u8); ("param_len", __u8);
   ("param", __u8)]);
  ("hci_fm_def_data_wr_req", Packed [("mode", __u8); ("length", __u8);
   ("data", Arr DEFAULT_DATA_SIZE __u8)]);
  ("hci_fm_riva_data", hci_fm_riva_data);
  ("hci_fm_riva_poke", Packed [("cmd_params", hci_fm_riva_data);
   ("data", Arr MAX_RIVA_PEEK_RSP_SIZE __u8)]);
  ("hci_fm_ssbi_req", Packed [("start_addr", __u16); ("data", __u8)]);
  ("hci_fm_ssbi_peek", Packed [("start_address", __u16)]);
  ("hci_fm_ch_det_threshold", Packed [("sinr", char); ("sinr_samples", __u8); ("low_th", __u8);
   ("high_th", __u8)]);
  ("hci_fm_blend_table", Packed [("ucBlendType", __u8); ("ucBlendRampRateUp", __u8);
   ("ucBlendDebounceNumSampleUp", __u8); ("ucBlendDebounceIdxUp", __u8);
   ("ucBlendSinrIdxSkipStep", __u8); ("scBlendSinrHi", __u8); ("scBlendRmssiHi", __u8);
   ("ucBlendIndexHi", __u8); ("ucBlendIndex", Arr MAX_BLEND_INDEX __u8)])].
Definition hci_fm_recv_conf_req : cty := type_in structs_hci_fm_recv_conf_req "hci_fm_recv_conf_req".
Definition hci_fm_trans_conf_req_struct : cty := type_in structs_hci_fm_recv_conf_req "hci_fm_trans_conf_req_struct".
Definition structs_hci_ev_tune_status : list (string * cty) :=
  let hci_ev_tune_status := Packed [("sub_event", __u8); ("station_freq", __le32);
   ("serv_avble", __u8); ("rssi", char); ("stereo_prg", __u8); ("rds_sync_status", __u8);
   ("mute_mode", __u8); ("sinr", char); ("intf_det_th", __u8)] in
  let rds_blk_data := Packed [("rdsMsb", __u8); ("rdsLsb", __u8); ("blockStatus", __u8)] in
  let rds_grp_data := Packed [("rdsBlk", Arr 4 rds_blk_data)] in
  let hci_ev_prg_service := Packed [("pi_prg_id", __le16); ("pty_prg_type", __u8);
   ("ta_prg_code_type", __u8); ("ta_ann_code_flag", __u8); ("ms_switch_code_flag", __u8);
   ("dec_id_ctrl_code_flag", __u8); ("ps_num", __u8); ("prg_service_name", Arr 119 __u8)] in
  let hci_ev_radio_text := Packed [("pi_prg_id", __le16); ("pty_prg_type", __u8);
   ("ta_prg_code_type", __u8); ("txt_ab_flag", __u8); ("radio_txt", Arr 64 __u8)] in
  let hci_ev_af_list := Packed [("tune_freq", __le32); ("pi_code", __le16); ("af_size", __u8);
   ("af_list", Arr FM_AF_LIST_MAX_SIZE __u8)] in
  let hci_ev_rel_freq := Packed [("rel_freq_msb", __u8); ("rel_freq_lsb", __u8)] in
  [
  ("hci_ev_tune_status", hci_ev_tune_status);
  ("rds_blk_data", rds_blk_data);
  ("rds_grp_data", rds_grp_data);
  ("hci_ev_rds_rx_data", Packed [("num_rds_grps", __u8);
   ("rds_grp_data", Arr MAX_RAW_RDS_GRPS rds_grp_data)]);
  ("hci_ev_prg_service", hci_ev_prg_service);
  ("hci_ev_radio_text", hci_ev_radio_text);
  ("hci_ev_af_list", hci_ev_af_list);
  ("hci_ev_cmd_complete", Packed [("num_hci_cmd_pkts", __u8); ("cmd_opcode", __le16)]);
  ("hci_ev_cmd_status", Packed [("status", __u8); ("num_hci_cmd_pkts", __u8);
   ("status_opcode", __le16)]);
  ("hci_ev_srch_st", Packed [("station_freq", __le32); ("rds_cap", __u8); ("pty", __u8);
   ("status_opcode", __le16)]);
  ("hci_ev_rel_freq", hci_ev_rel_freq);
  ("hci_ev_srch_list_compl", Packed [("num_stations_found", __u8);
   ("rel_freq", Arr 20 hci_ev_rel_freq)]);
  ("hci_fm_conf_rsp", Packed [("status", __u8); ("recv_conf_rsp", hci_fm_recv_conf_req)]);
  ("hci_fm_get_trans_conf_rsp", Packed [("status", __u8);
   ("trans_conf_rsp", hci_fm_trans_conf_req_struct)]);
  ("hci_fm_sig_threshold_rsp", Packed [("status", __u8); ("sig_threshold", __u8)]);
  ("hci_fm_station_rsp", Packed [("station_rsp", hci_ev_tune_status)]);
  ("hci_fm_prgm_srv_rsp", Packed [("status", __u8); ("prg_srv", hci_ev_prg_service)]);
  ("hci_fm_radio_txt_rsp", Packed [("status", __u8); ("rd_txt", hci_ev_radio_text)]);
  ("hci_fm_af_list_rsp", Packed [("status", __u8); ("rd_txt", hci_ev_af_list)]);
  ("hci_fm_data_rd_rsp", Packed [("status", __u8); ("ret_data_len", __u8);
   ("data", Arr DEFAULT_DATA_SIZE __u8)]);
  ("hci_fm_feature_list_rsp", Packed [("status", __u8); ("feature_mask", __u8)]);
  ("hci_fm_dbg_param_rsp", Packed [("status", __u8); ("blend", __u8); ("soft_mute", __u8);
   ("inf_blend", __u8); ("inf_soft_mute", __u8); ("pilot_pil", __u8); ("io_verc", __u8);
   ("in_det_out", __u8)])].
Definition hci_fm_spur_data : cty :=
  Packed [("freq", Arr MAX_SPUR_FREQ_LIMIT __u32); ("rmssi", Arr MAX_SPUR_FREQ_LIMIT __s8);
   ("enable", Arr MAX_SPUR_FREQ_LIMIT __u8)].
Definition structs_hci_fm_set_cal_req_proc : list (string * cty) :=
  [
  ("hci_fm_set_cal_req_proc", Packed [("mode", __u8); ("data", Arr PROCS_CALIB_SIZE __u8)]);
  ("hci_fm_set_cal_req_dc", Packed [("mode", __u8); ("data", Arr DC_CALIB_SIZE __u8)]);
  ("hci_cc_do_calibration_rsp", Packed [("status", __u8); ("mode", __u8);
   ("data", Arr MAX_CALIB_SIZE __u8)]);
  ("hci_fm_set_spur_table_req", Packed [("mode", __u8); ("no_of_freqs_entries", __u8);
   ("spur_data", Arr FM_SPUR_TBL_SIZE __u8)])].
Definition media_radio_iris_types : list (string * cty) :=
  (structs_radio_hci_command_hdr ++ structs_hci_fm_recv_conf_req ++ structs_hci_ev_tune_status
   ++ [("hci_fm_spur_data", hci_fm_spur_data)] ++ structs_hci_fm_set_cal_req_proc)%list.
End Media_radio_iris.
