(* ===== verification/AbiDrm.v ===== *)
(** * ABI of the direct rendering drivers

    The structures and unions of these headers of [kernel-headers], one module per
    header: the larger ones as types of their own, those that stand in a row as a
    block; and the ioctl commands with their arguments. *)
From S2P Require Import Prelude.
From S2P Require Import CLayout.
From S2P Require Import Ioctl.
#[local] Open Scope string_scope.

(** ** [drm/drm_mode.h] *)

Module Drm_drm_mode.
Definition DRM_DISPLAY_MODE_LEN : Z := 32.
Definition DRM_PROP_NAME_LEN : Z := 32.
Definition structs_drm_mode_modeinfo : list (string * cty) :=
  let drm_mode_modeinfo := Struct [("clock", __u32); ("hdisplay", __u16); ("hsync_start", __u16);
   ("hsync_end", __u16); ("htotal", __u16); ("hskew", __u16); ("vdisplay", __u16);
   ("vsync_start", __u16); ("vsync_end", __u16); ("vtotal", __u16); ("vscan", __u16);
   ("vrefresh", __u32); ("flags", __u32); ("type", __u32);
   ("name", Arr DRM_DISPLAY_MODE_LEN char)] in
  [
  ("drm_mode_modeinfo", drm_mode_modeinfo);
  ("drm_mode_card_res", Struct [("fb_id_ptr", __u64); ("crtc_id_ptr", __u64);
   ("connector_id_ptr", __u64); ("encoder_id_ptr", __u64); ("count_fbs", __u32);
   ("count_crtcs", __u32); ("count_connectors", __u32); ("count_encoders", __u32);
   ("min_width", __u32); ("max_width", __u32); ("min_height", __u32); ("max_height", __u32)]);
  ("drm_mode_crtc", Struct [("set_connectors_ptr", __u64); ("count_connectors", __u32);
   ("crtc_id", __u32); ("fb_id", __u32); ("x", __u32); ("y", __u32); ("gamma_size", __u32);
   ("mode_valid", __u32); ("mode", drm_mode_modeinfo)])].
Definition drm_mode_modeinfo : cty := type_in structs_drm_mode_modeinfo "drm_mode_modeinfo".
Definition drm_mode_card_res : cty := type_in structs_drm_mode_modeinfo "drm_mode_card_res".
Definition drm_mode_crtc : cty := type_in structs_drm_mode_modeinfo "drm_mode_crtc".
Definition structs_drm_mode_set_plane : list (string * cty) :=
  [
  ("drm_mode_set_plane", Struct [("plane_id", __u32); ("crtc_id", __u32); ("fb_id", __u32);
   ("flags", __u32); ("crtc_x", __s32); ("crtc_y", __s32); ("crtc_w", __u32); ("crtc_h", __u32);
   ("src_x", __u32); ("src_y", __u32); ("src_h", __u32); ("src_w", __u32)]);
  ("drm_mode_get_plane", Struct [("plane_id", __u32); ("crtc_id", __u32); ("fb_id", __u32);
   ("possible_crtcs", __u32); ("gamma_size", __u32); ("count_format_types", __u32);
   ("format_type_ptr", __u64)]);
  ("drm_mode_get_plane_res", Struct [("plane_id_ptr", __u64); ("count_planes", __u32)])].
Definition drm_mode_set_plane : cty := type_in structs_drm_mode_set_plane "drm_mode_set_plane".
Definition drm_mode_get_plane : cty := type_in structs_drm_mode_set_plane "drm_mode_get_plane".
Definition drm_mode_get_plane_res : cty := type_in structs_drm_mode_set_plane "drm_mode_get_plane_res".
Definition drm_mode_get_encoder : cty :=
  Struct [("encoder_id", __u32); ("encoder_type", __u32); ("crtc_id", __u32);
   ("possible_crtcs", __u32); ("possible_clones", __u32)].
Definition drm_mode_get_connector : cty :=
  Struct [("encoders_ptr", __u64); ("modes_ptr", __u64); ("props_ptr", __u64);
   ("prop_values_ptr", __u64); ("count_modes", __u32); ("count_props", __u32);
   ("count_encoders", __u32); ("encoder_id", __u32); ("connector_id", __u32);
   ("connector_type", __u32); ("connector_type_id", __u32); ("connection", __u32);
   ("mm_width", __u32); ("mm_height", __u32); ("subpixel", __u32); ("pad", __u32)].
Definition structs_drm_mode_property_enum : list (string * cty) :=
  [
  ("drm_mode_property_enum", Struct [("value", __u64); ("name", Arr DRM_PROP_NAME_LEN char)]);
  ("drm_mode_get_property", Struct [("values_ptr", __u64); ("enum_blob_ptr", __u64);
   ("prop_id", __u32); ("flags", __u32); ("name", Arr DRM_PROP_NAME_LEN char);
   ("count_values", __u32); ("count_enum_blobs", __u32)]);
  ("drm_mode_connector_set_property", Struct [("value", __u64); ("prop_id", __u32);
   ("connector_id", __u32)]);
  ("drm_mode_obj_get_properties", Struct [("props_ptr", __u64); ("prop_values_ptr", __u64);
   ("count_props", __u32); ("obj_id", __u32); ("obj_type", __u32)]);
  ("drm_mode_obj_set_property", Struct [("value", __u64); ("prop_id", __u32); ("obj_id", __u32);
   ("obj_type", __u32)]);
  ("drm_mode_get_blob", Struct [("blob_id", __u32); ("length", __u32); ("data", __u64)]);
  ("drm_mode_fb_cmd", Struct [("fb_id", __u32); ("width", __u32); ("height", __u32);
   ("pitch", __u32); ("bpp", __u32); ("depth", __u32); ("handle", __u32)])].
Definition drm_mode_get_property : cty := type_in structs_drm_mode_property_enum "drm_mode_get_property".
Definition drm_mode_connector_set_property : cty := type_in structs_drm_mode_property_enum "drm_mode_connector_set_property".
Definition drm_mode_obj_get_properties : cty := type_in structs_drm_mode_property_enum "drm_mode_obj_get_properties".
Definition drm_mode_obj_set_property : cty := type_in structs_drm_mode_property_enum "drm_mode_obj_set_property".
Definition drm_mode_get_blob : cty := type_in structs_drm_mode_property_enum "drm_mode_get_blob".
Definition drm_mode_fb_cmd : cty := type_in structs_drm_mode_property_enum "drm_mode_fb_cmd".
Definition drm_mode_fb_cmd2 : cty :=
  Struct [("fb_id", __u32); ("width", __u32); ("height", __u32); ("pixel_format", __u32);
   ("flags", __u32); ("handles", Arr 4 __u32); ("pitches", Arr 4 __u32);
   ("offsets", Arr 4 __u32); ("modifier", Arr 4 __u64)].
Definition structs_drm_mode_fb_dirty_cmd : list (string * cty) :=
  [
  ("drm_mode_fb_dirty_cmd", Struct [("fb_id", __u32); ("flags", __u32); ("color", __u32);
   ("num_clips", __u32); ("clips_ptr", __u64)]);
  ("drm_mode_mode_cmd", Struct [("connector_id", __u32); ("mode", drm_mode_modeinfo)])].
Definition drm_mode_fb_dirty_cmd : cty := type_in structs_drm_mode_fb_dirty_cmd "drm_mode_fb_dirty_cmd".
Definition drm_mode_mode_cmd : cty := type_in structs_drm_mode_fb_dirty_cmd "drm_mode_mode_cmd".
Definition structs_drm_mode_cursor : list (string * cty) :=
  [
  ("drm_mode_cursor", Struct [("flags", __u32); ("crtc_id", __u32); ("x", __s32); ("y", __s32);
   ("width", __u32); ("height", __u32); ("handle", __u32)]);
  ("drm_mode_cursor2", Struct [("flags", __u32); ("crtc_id", __u32); ("x", __s32); ("y", __s32);
   ("width", __u32); ("height", __u32); ("handle", __u32); ("hot_x", __s32); ("hot_y", __s32)]);
  ("drm_mode_crtc_lut", Struct [("crtc_id", __u32); ("gamma_size", __u32); ("red", __u64);
   ("green", __u64); ("blue", __u64)])].
Definition drm_mode_cursor : cty := type_in structs_drm_mode_cursor "drm_mode_cursor".
Definition drm_mode_cursor2 : cty := type_in structs_drm_mode_cursor "drm_mode_cursor2".
Definition drm_mode_crtc_lut : cty := type_in structs_drm_mode_cursor "drm_mode_crtc_lut".
Definition structs_drm_mode_crtc_page_flip : list (string * cty) :=
  [
  ("drm_mode_crtc_page_flip", Struct [("crtc_id", __u32); ("fb_id", __u32); ("flags", __u32);
   ("reserved", __u32); ("user_data", __u64)]);
  ("drm_mode_create_dumb", Struct [("height", uint32_t); ("width", uint32_t); ("bpp", uint32_t);
   ("flags", uint32_t); ("handle", uint32_t); ("pitch", uint32_t); ("size", uint64_t)]);
  ("drm_mode_map_dumb", Struct [("handle", __u32); ("pad", __u32); ("offset", __u64)]);
  ("drm_mode_destroy_dumb", Struct [("handle", uint32_t)])].
Definition drm_mode_crtc_page_flip : cty := type_in structs_drm_mode_crtc_page_flip "drm_mode_crtc_page_flip".
Definition drm_mode_create_dumb : cty := type_in structs_drm_mode_crtc_page_flip "drm_mode_create_dumb".
Definition drm_mode_map_dumb : cty := type_in structs_drm_mode_crtc_page_flip "drm_mode_map_dumb".
Definition drm_mode_destroy_dumb : cty := type_in structs_drm_mode_crtc_page_flip "drm_mode_destroy_dumb".
Definition structs_drm_mode_atomic : list (string * cty) :=
  [
  ("drm_mode_atomic", Struct [("flags", __u32); ("count_objs", __u32); ("objs_ptr", __u64);
   ("count_props_ptr", __u64); ("props_ptr", __u64); ("prop_values_ptr", __u64);
   ("reserved", __u64); ("user_data", __u64)]);
  ("drm_mode_create_blob", Struct [("data", __u64); ("length", __u32); ("blob_id", __u32)]);
  ("drm_mode_destroy_blob", Struct [("blob_id", __u32)])].
Definition drm_mode_atomic : cty := type_in structs_drm_mode_atomic "drm_mode_atomic".
Definition drm_mode_create_blob : cty := type_in structs_drm_mode_atomic "drm_mode_create_blob".
Definition drm_mode_destroy_blob : cty := type_in structs_drm_mode_atomic "drm_mode_destroy_blob".
Definition drm_drm_mode_types : list (string * cty) :=
  (structs_drm_mode_modeinfo ++ structs_drm_mode_set_plane ++ [("drm_mode_get_encoder",
   drm_mode_get_encoder); ("drm_mode_get_connector", drm_mode_get_connector)] ++
   structs_drm_mode_property_enum ++ [("drm_mode_fb_cmd2", drm_mode_fb_cmd2)] ++
   structs_drm_mode_fb_dirty_cmd ++ structs_drm_mode_cursor ++ structs_drm_mode_crtc_page_flip
   ++ structs_drm_mode_atomic)%list.
End Drm_drm_mode.

(** ** [drm/drm.h] *)

Module Drm_drm.
Definition drm_handle_t : cty := uint.
Definition structs_drm_context_t : list (string * cty) :=
  [
  ("drm_context_t", uint);
  ("drm_drawable_t", uint);
  ("drm_magic_t", uint);
  ("drm_clip_rect", Struct [("x1", ushort); ("y1", ushort); ("x2", ushort); ("y2", ushort)]);
  ("drm_drawable_info", Struct [("num_rects", uint); ("rects", ptr)]);
  ("drm_tex_region", Struct [("next", uchar); ("prev", uchar); ("in_use", uchar);
   ("padding", uchar); ("age", uint)])].
Definition drm_context_t : cty := type_in structs_drm_context_t "drm_context_t".
Definition drm_drawable_t : cty := type_in structs_drm_context_t "drm_drawable_t".
Definition drm_magic_t : cty := type_in structs_drm_context_t "drm_magic_t".
Definition drm_clip_rect : cty := type_in structs_drm_context_t "drm_clip_rect".
Definition drm_drawable_info : cty := type_in structs_drm_context_t "drm_drawable_info".
Definition drm_tex_region : cty := type_in structs_drm_context_t "drm_tex_region".
Definition structs_drm_version : list (string * cty) :=
  [
  ("drm_version", Struct [("version_major", int); ("version_minor", int);
   ("version_patchlevel", int); ("name_len", size_t); ("name", ptr); ("date_len", size_t);
   ("date", ptr); ("desc_len", size_t); ("desc", ptr)]);
  ("drm_unique", Struct [("unique_len", size_t); ("unique", ptr)]);
  ("drm_list", Struct [("count", int); ("version", ptr)]);
  ("drm_block", Struct [("unused", int)]);
  ("drm_control", Struct [("func", enum); ("irq", int)])].
Definition drm_version : cty := type_in structs_drm_version "drm_version".
Definition drm_unique : cty := type_in structs_drm_version "drm_unique".
Definition drm_list : cty := type_in structs_drm_version "drm_list".
Definition drm_block : cty := type_in structs_drm_version "drm_block".
Definition drm_control : cty := type_in structs_drm_version "drm_control".
Definition structs_drm_ctx_priv_map : list (string * cty) :=
  [
  ("drm_ctx_priv_map", Struct [("ctx_id", uint); ("handle", ptr)]);
  ("drm_map", Struct [("offset", ulong); ("size", ulong); ("type", enum); ("flags", enum);
   ("handle", ptr); ("mtrr", int)]);
  ("drm_client", Struct [("idx", int); ("auth", int); ("pid", ulong); ("uid", ulong);
   ("magic", ulong); ("iocs", ulong)])].
Definition drm_ctx_priv_map : cty := type_in structs_drm_ctx_priv_map "drm_ctx_priv_map".
Definition drm_map : cty := type_in structs_drm_ctx_priv_map "drm_map".
Definition drm_client : cty := type_in structs_drm_ctx_priv_map "drm_client".
Definition drm_stats : cty :=
  Struct [("count", ulong); ("data", Arr 15 (Struct [("value", ulong); ("type", enum)]))].
Definition drm_lock : cty := Struct [("context", int); ("flags", enum)].
Definition structs_drm_buf_desc : list (string * cty) :=
  [
  ("drm_buf_desc", Struct [("count", int); ("size", int); ("low_mark", int); ("high_mark", int);
   ("flags", enum); ("agp_start", ulong)]);
  ("drm_buf_info", Struct [("count", int); ("list", ptr)]);
  ("drm_buf_free", Struct [("count", int); ("list", ptr)]);
  ("drm_buf_pub", Struct [("idx", int); ("total", int); ("used", int); ("address", ptr)]);
  ("drm_buf_map", Struct [("count", int); ("virtual", ptr); ("list", ptr)]);
  ("drm_dma", Struct [("context", int); ("send_count", int); ("send_indices", ptr);
   ("send_sizes", ptr); ("flags", enum); ("request_count", int); ("request_size", int);
   ("request_indices", ptr); ("request_sizes", ptr); ("granted_count", int)])].
Definition drm_buf_desc : cty := type_in structs_drm_buf_desc "drm_buf_desc".
Definition drm_buf_info : cty := type_in structs_drm_buf_desc "drm_buf_info".
Definition drm_buf_free : cty := type_in structs_drm_buf_desc "drm_buf_free".
Definition drm_buf_pub : cty := type_in structs_drm_buf_desc "drm_buf_pub".
Definition drm_buf_map : cty := type_in structs_drm_buf_desc "drm_buf_map".
Definition drm_dma : cty := type_in structs_drm_buf_desc "drm_dma".
Definition structs_drm_ctx : list (string * cty) :=
  [
  ("drm_ctx", Struct [("handle", drm_context_t); ("flags", enum)]);
  ("drm_ctx_res", Struct [("count", int); ("contexts", ptr)]);
  ("drm_draw", Struct [("handle", drm_drawable_t)]);
  ("drm_drawable_info_type_t", enum);
  ("drm_update_draw", Struct [("handle", drm_drawable_t); ("type", uint); ("num", uint);
   ("data", ullong)]);
  ("drm_auth", Struct [("magic", drm_magic_t)]);
  ("drm_irq_busid", Struct [("irq", int); ("busnum", int); ("devnum", int); ("funcnum", int)])].
Definition drm_ctx : cty := type_in structs_drm_ctx "drm_ctx".
Definition drm_ctx_res : cty := type_in structs_drm_ctx "drm_ctx_res".
Definition drm_draw : cty := type_in structs_drm_ctx "drm_draw".
Definition drm_update_draw : cty := type_in structs_drm_ctx "drm_update_draw".
Definition drm_auth : cty := type_in structs_drm_ctx "drm_auth".
Definition drm_irq_busid : cty := type_in structs_drm_ctx "drm_irq_busid".
Definition structs_drm_wait_vblank_request : list (string * cty) :=
  let drm_wait_vblank_request := Struct [("type", enum); ("sequence", uint); ("signal", ulong)] in
  let drm_wait_vblank_reply := Struct [("type", enum); ("sequence", uint); ("tval_sec", long);
   ("tval_usec", long)] in
  [
  ("drm_wait_vblank_request", drm_wait_vblank_request);
  ("drm_wait_vblank_reply", drm_wait_vblank_reply);
  ("drm_wait_vblank", Union [("request", drm_wait_vblank_request);
   ("reply", drm_wait_vblank_reply)])].
Definition drm_wait_vblank_reply : cty := type_in structs_drm_wait_vblank_request "drm_wait_vblank_reply".
Definition drm_wait_vblank : cty := type_in structs_drm_wait_vblank_request "drm_wait_vblank".
Definition structs_drm_modeset_ctl : list (string * cty) :=
  [
  ("drm_modeset_ctl", Struct [("crtc", __u32); ("cmd", __u32)]);
  ("drm_agp_mode", Struct [("mode", ulong)]);
  ("drm_agp_buffer", Struct [("size", ulong); ("handle", ulong); ("type", ulong);
   ("physical", ulong)]);
  ("drm_agp_binding", Struct [("handle", ulong); ("offset", ulong)]);
  ("drm_agp_info", Struct [("agp_version_major", int); ("agp_version_minor", int);
   ("mode", ulong); ("aperture_base", ulong); ("aperture_size", ulong);
   ("memory_allowed", ulong); ("memory_used", ulong); ("id_vendor", ushort);
   ("id_device", ushort)]);
  ("drm_scatter_gather", Struct [("size", ulong); ("handle", ulong)]);
  ("drm_set_version", Struct [("drm_di_major", int); ("drm_di_minor", int);
   ("drm_dd_major", int); ("drm_dd_minor", int)]);
  ("drm_gem_close", Struct [("handle", __u32); ("pad", __u32)]);
  ("drm_gem_flink", Struct [("handle", __u32); ("name", __u32)]);
  ("drm_gem_open", Struct [("name", __u32); ("handle", __u32); ("size", __u64)])].
Definition drm_modeset_ctl : cty := type_in structs_drm_modeset_ctl "drm_modeset_ctl".
Definition drm_agp_mode : cty := type_in structs_drm_modeset_ctl "drm_agp_mode".
Definition drm_agp_buffer : cty := type_in structs_drm_modeset_ctl "drm_agp_buffer".
Definition drm_agp_binding : cty := type_in structs_drm_modeset_ctl "drm_agp_binding".
Definition drm_agp_info : cty := type_in structs_drm_modeset_ctl "drm_agp_info".
Definition drm_scatter_gather : cty := type_in structs_drm_modeset_ctl "drm_scatter_gather".
Definition drm_set_version : cty := type_in structs_drm_modeset_ctl "drm_set_version".
Definition drm_gem_close : cty := type_in structs_drm_modeset_ctl "drm_gem_close".
Definition drm_gem_flink : cty := type_in structs_drm_modeset_ctl "drm_gem_flink".
Definition drm_gem_open : cty := type_in structs_drm_modeset_ctl "drm_gem_open".
Definition drm_get_cap : cty := Struct [("capability", __u64); ("value", __u64)].
Definition drm_set_client_cap : cty := Struct [("capability", __u64); ("value", __u64)].
Definition drm_prime_handle : cty := Struct [("handle", __u32); ("flags", __u32); ("fd", __s32)].
Definition drm_event : cty := Struct [("type", __u32); ("length", __u32)].
Definition structs_drm_event_vblank : list (string * cty) :=
  [
  ("drm_event_vblank", Struct [("base", drm_event); ("user_data", __u64); ("tv_sec", __u32);
   ("tv_usec", __u32); ("sequence", __u32); ("crtc_id", __u32)]);
  ("drm_clip_rect_t", drm_clip_rect);
  ("drm_drawable_info_t", drm_drawable_info);
  ("drm_tex_region_t", drm_tex_region)].
Definition structs_drm_version_t : list (string * cty) :=
  [
  ("drm_version_t", drm_version);
  ("drm_unique_t", drm_unique);
  ("drm_list_t", drm_list);
  ("drm_block_t", drm_block);
  ("drm_control_t", drm_control);
  ("drm_map_type_t", enum);
  ("drm_map_flags_t", enum);
  ("drm_ctx_priv_map_t", drm_ctx_priv_map);
  ("drm_map_t", drm_map);
  ("drm_client_t", drm_client);
  ("drm_stat_type_t", enum);
  ("drm_stats_t", drm_stats);
  ("drm_lock_flags_t", enum);
  ("drm_lock_t", drm_lock);
  ("drm_dma_flags_t", enum);
  ("drm_buf_desc_t", drm_buf_desc);
  ("drm_buf_info_t", drm_buf_info);
  ("drm_buf_free_t", drm_buf_free);
  ("drm_buf_pub_t", drm_buf_pub);
  ("drm_buf_map_t", drm_buf_map);
  ("drm_dma_t", drm_dma);
  ("drm_wait_vblank_t", drm_wait_vblank);
  ("drm_agp_mode_t", drm_agp_mode);
  ("drm_ctx_flags_t", enum);
  ("drm_ctx_t", drm_ctx);
  ("drm_ctx_res_t", drm_ctx_res);
  ("drm_draw_t", drm_draw);
  ("drm_update_draw_t", drm_update_draw);
  ("drm_auth_t", drm_auth);
  ("drm_irq_busid_t", drm_irq_busid);
  ("drm_vblank_seq_type_t", enum);
  ("drm_agp_buffer_t", drm_agp_buffer);
  ("drm_agp_binding_t", drm_agp_binding);
  ("drm_agp_info_t", drm_agp_info);
  ("drm_scatter_gather_t", drm_scatter_gather);
  ("drm_set_version_t", drm_set_version)].
Definition drm_drm_types : list (string * cty) :=
  ([("drm_handle_t", drm_handle_t)] ++ structs_drm_context_t ++ structs_drm_version ++
   structs_drm_ctx_priv_map ++ [("drm_stats", drm_stats); ("drm_lock", drm_lock)] ++
   structs_drm_buf_desc ++ structs_drm_ctx ++ structs_drm_wait_vblank_request ++
   structs_drm_modeset_ctl ++ [("drm_get_cap", drm_get_cap); ("drm_set_client_cap",
   drm_set_client_cap); ("drm_prime_handle", drm_prime_handle); ("drm_event", drm_event)] ++
   structs_drm_event_vblank ++ structs_drm_version_t)%list.
Definition drm_drm_ioctls : list command := [
  _IOWR "DRM_IOCTL_VERSION" (chr "d") 0 drm_version;
  _IOWR "DRM_IOCTL_GET_UNIQUE" (chr "d") 1 drm_unique;
  _IOR "DRM_IOCTL_GET_MAGIC" (chr "d") 2 drm_auth;
  _IOWR "DRM_IOCTL_IRQ_BUSID" (chr "d") 3 drm_irq_busid;
  _IOWR "DRM_IOCTL_GET_MAP" (chr "d") 4 drm_map;
  _IOWR "DRM_IOCTL_GET_CLIENT" (chr "d") 5 drm_client;
  _IOR "DRM_IOCTL_GET_STATS" (chr "d") 6 drm_stats;
  _IOWR "DRM_IOCTL_SET_VERSION" (chr "d") 7 drm_set_version;
  _IOW "DRM_IOCTL_MODESET_CTL" (chr "d") 8 drm_modeset_ctl;
  _IOW "DRM_IOCTL_GEM_CLOSE" (chr "d") 9 drm_gem_close;
  _IOWR "DRM_IOCTL_GEM_FLINK" (chr "d") 10 drm_gem_flink;
  _IOWR "DRM_IOCTL_GEM_OPEN" (chr "d") 11 drm_gem_open;
  _IOWR "DRM_IOCTL_GET_CAP" (chr "d") 12 drm_get_cap;
  _IOW "DRM_IOCTL_SET_CLIENT_CAP" (chr "d") 13 drm_set_client_cap;
  _IOW "DRM_IOCTL_SET_UNIQUE" (chr "d") 16 drm_unique;
  _IOW "DRM_IOCTL_AUTH_MAGIC" (chr "d") 17 drm_auth;
  _IOWR "DRM_IOCTL_BLOCK" (chr "d") 18 drm_block;
  _IOWR "DRM_IOCTL_UNBLOCK" (chr "d") 19 drm_block;
  _IOW "DRM_IOCTL_CONTROL" (chr "d") 20 drm_control;
  _IOWR "DRM_IOCTL_ADD_MAP" (chr "d") 21 drm_map;
  _IOWR "DRM_IOCTL_ADD_BUFS" (chr "d") 22 drm_buf_desc;
  _IOW "DRM_IOCTL_MARK_BUFS" (chr "d") 23 drm_buf_desc;
  _IOWR "DRM_IOCTL_INFO_BUFS" (chr "d") 24 drm_buf_info;
  _IOWR "DRM_IOCTL_MAP_BUFS" (chr "d") 25 drm_buf_map;
  _IOW "DRM_IOCTL_FREE_BUFS" (chr "d") 26 drm_buf_free;
  _IOW "DRM_IOCTL_RM_MAP" (chr "d") 27 drm_map;
  _IOW "DRM_IOCTL_SET_SAREA_CTX" (chr "d") 28 drm_ctx_priv_map;
  _IOWR "DRM_IOCTL_GET_SAREA_CTX" (chr "d") 29 drm_ctx_priv_map;
  _IO "DRM_IOCTL_SET_MASTER" (chr "d") 30;
  _IO "DRM_IOCTL_DROP_MASTER" (chr "d") 31;
  _IOWR "DRM_IOCTL_ADD_CTX" (chr "d") 32 drm_ctx;
  _IOWR "DRM_IOCTL_RM_CTX" (chr "d") 33 drm_ctx;
  _IOW "DRM_IOCTL_MOD_CTX" (chr "d") 34 drm_ctx;
  _IOWR "DRM_IOCTL_GET_CTX" (chr "d") 35 drm_ctx;
  _IOW "DRM_IOCTL_SWITCH_CTX" (chr "d") 36 drm_ctx;
  _IOW "DRM_IOCTL_NEW_CTX" (chr "d") 37 drm_ctx;
  _IOWR "DRM_IOCTL_RES_CTX" (chr "d") 38 drm_ctx_res;
  _IOWR "DRM_IOCTL_ADD_DRAW" (chr "d") 39 drm_draw;
  _IOWR "DRM_IOCTL_RM_DRAW" (chr "d") 40 drm_draw;
  _IOWR "DRM_IOCTL_DMA" (chr "d") 41 drm_dma;
  _IOW "DRM_IOCTL_LOCK" (chr "d") 42 drm_lock;
  _IOW "DRM_IOCTL_UNLOCK" (chr "d") 43 drm_lock;
  _IOW "DRM_IOCTL_FINISH" (chr "d") 44 drm_lock;
  _IOWR "DRM_IOCTL_PRIME_HANDLE_TO_FD" (chr "d") 45 drm_prime_handle;
  _IOWR "DRM_IOCTL_PRIME_FD_TO_HANDLE" (chr "d") 46 drm_prime_handle;
  _IO "DRM_IOCTL_AGP_ACQUIRE" (chr "d") 48;
  _IO "DRM_IOCTL_AGP_RELEASE" (chr "d") 49;
  _IOW "DRM_IOCTL_AGP_ENABLE" (chr "d") 50 drm_agp_mode;
  _IOR "DRM_IOCTL_AGP_INFO" (chr "d") 51 drm_agp_info;
  _IOWR "DRM_IOCTL_AGP_ALLOC" (chr "d") 52 drm_agp_buffer;
  _IOW "DRM_IOCTL_AGP_FREE" (chr "d") 53 drm_agp_buffer;
  _IOW "DRM_IOCTL_AGP_BIND" (chr "d") 54 drm_agp_binding;
  _IOW "DRM_IOCTL_AGP_UNBIND" (chr "d") 55 drm_agp_binding;
  _IOWR "DRM_IOCTL_SG_ALLOC" (chr "d") 56 drm_scatter_gather;
  _IOW "DRM_IOCTL_SG_FREE" (chr "d") 57 drm_scatter_gather;
  _IOWR "DRM_IOCTL_WAIT_VBLANK" (chr "d") 58 drm_wait_vblank;
  _IOW "DRM_IOCTL_UPDATE_DRAW" (chr "d") 63 drm_update_draw;
  _IOWR "DRM_IOCTL_MODE_GETRESOURCES" (chr "d") 160 Drm_drm_mode.drm_mode_card_res;
  _IOWR "DRM_IOCTL_MODE_GETCRTC" (chr "d") 161 Drm_drm_mode.drm_mode_crtc;
  _IOWR "DRM_IOCTL_MODE_SETCRTC" (chr "d") 162 Drm_drm_mode.drm_mode_crtc;
  _IOWR "DRM_IOCTL_MODE_CURSOR" (chr "d") 163 Drm_drm_mode.drm_mode_cursor;
  _IOWR "DRM_IOCTL_MODE_GETGAMMA" (chr "d") 164 Drm_drm_mode.drm_mode_crtc_lut;
  _IOWR "DRM_IOCTL_MODE_SETGAMMA" (chr "d") 165 Drm_drm_mode.drm_mode_crtc_lut;
  _IOWR "DRM_IOCTL_MODE_GETENCODER" (chr "d") 166 Drm_drm_mode.drm_mode_get_encoder;
  _IOWR "DRM_IOCTL_MODE_GETCONNECTOR" (chr "d") 167 Drm_drm_mode.drm_mode_get_connector;
  _IOWR "DRM_IOCTL_MODE_ATTACHMODE" (chr "d") 168 Drm_drm_mode.drm_mode_mode_cmd;
  _IOWR "DRM_IOCTL_MODE_DETACHMODE" (chr "d") 169 Drm_drm_mode.drm_mode_mode_cmd;
  _IOWR "DRM_IOCTL_MODE_GETPROPERTY" (chr "d") 170 Drm_drm_mode.drm_mode_get_property;
  _IOWR "DRM_IOCTL_MODE_SETPROPERTY" (chr "d") 171 Drm_drm_mode.drm_mode_connector_set_property;
  _IOWR "DRM_IOCTL_MODE_GETPROPBLOB" (chr "d") 172 Drm_drm_mode.drm_mode_get_blob;
  _IOWR "DRM_IOCTL_MODE_GETFB" (chr "d") 173 Drm_drm_mode.drm_mode_fb_cmd;
  _IOWR "DRM_IOCTL_MODE_ADDFB" (chr "d") 174 Drm_drm_mode.drm_mode_fb_cmd;
  _IOWR "DRM_IOCTL_MODE_RMFB" (chr "d") 175 uint;
  _IOWR "DRM_IOCTL_MODE_PAGE_FLIP" (chr "d") 176 Drm_drm_mode.drm_mode_crtc_page_flip;
  _IOWR "DRM_IOCTL_MODE_DIRTYFB" (chr "d") 177 Drm_drm_mode.drm_mode_fb_dirty_cmd;
  _IOWR "DRM_IOCTL_MODE_CREATE_DUMB" (chr "d") 178 Drm_drm_mode.drm_mode_create_dumb;
  _IOWR "DRM_IOCTL_MODE_MAP_DUMB" (chr "d") 179 Drm_drm_mode.drm_mode_map_dumb;
  _IOWR "DRM_IOCTL_MODE_DESTROY_DUMB" (chr "d") 180 Drm_drm_mode.drm_mode_destroy_dumb;
  _IOWR "DRM_IOCTL_MODE_GETPLANERESOURCES" (chr "d") 181 Drm_drm_mode.drm_mode_get_plane_res;
  _IOWR "DRM_IOCTL_MODE_GETPLANE" (chr "d") 182 Drm_drm_mode.drm_mode_get_plane;
  _IOWR "DRM_IOCTL_MODE_SETPLANE" (chr "d") 183 Drm_drm_mode.drm_mode_set_plane;
  _IOWR "DRM_IOCTL_MODE_ADDFB2" (chr "d") 184 Drm_drm_mode.drm_mode_fb_cmd2;
  _IOWR "DRM_IOCTL_MODE_OBJ_GETPROPERTIES" (chr "d") 185 Drm_drm_mode.drm_mode_obj_get_properties;
  _IOWR "DRM_IOCTL_MODE_OBJ_SETPROPERTY" (chr "d") 186 Drm_drm_mode.drm_mode_obj_set_property;
  _IOWR "DRM_IOCTL_MODE_CURSOR2" (chr "d") 187 Drm_drm_mode.drm_mode_cursor2;
  _IOWR "DRM_IOCTL_MODE_ATOMIC" (chr "d") 188 Drm_drm_mode.drm_mode_atomic;
  _IOWR "DRM_IOCTL_MODE_CREATEPROPBLOB" (chr "d") 189 Drm_drm_mode.drm_mode_create_blob;
  _IOWR "DRM_IOCTL_MODE_DESTROYPROPBLOB" (chr "d") 190 Drm_drm_mode.drm_mode_destroy_blob].
End Drm_drm.

(** ** [drm/drm_sarea.h] *)

Module Drm_drm_sarea.
Definition structs_drm_sarea_drawable : list (string * cty) :=
  [
  ("drm_sarea_drawable", Struct [("stamp", uint); ("flags", uint)]);
  ("drm_sarea_frame", Struct [("x", uint); ("y", uint); ("width", uint); ("height", uint);
   ("fullscreen", uint)])].
Definition drm_sarea_drawable : cty := type_in structs_drm_sarea_drawable "drm_sarea_drawable".
Definition drm_sarea_frame : cty := type_in structs_drm_sarea_drawable "drm_sarea_frame".
Definition structs_drm_sarea_drawable_t : list (string * cty) :=
  [
  ("drm_sarea_drawable_t", drm_sarea_drawable);
  ("drm_sarea_frame_t", drm_sarea_frame)].
Definition drm_drm_sarea_types : list (string * cty) :=
  (structs_drm_sarea_drawable ++ structs_drm_sarea_drawable_t)%list.
End Drm_drm_sarea.

(** ** [drm/exynos_drm.h] *)

Module Drm_exynos_drm.
Definition structs_drm_exynos_gem_create : list (string * cty) :=
  [
  ("drm_exynos_gem_create", Struct [("size", uint64_t); ("flags", uint); ("handle", uint)]);
  ("drm_exynos_gem_info", Struct [("handle", uint); ("flags", uint); ("size", uint64_t)]);
  ("drm_exynos_vidi_connection", Struct [("connection", uint); ("extensions", uint);
   ("edid", uint64_t)])].
Definition drm_exynos_gem_create : cty := type_in structs_drm_exynos_gem_create "drm_exynos_gem_create".
Definition drm_exynos_gem_info : cty := type_in structs_drm_exynos_gem_create "drm_exynos_gem_info".
Definition drm_exynos_vidi_connection : cty := type_in structs_drm_exynos_gem_create "drm_exynos_vidi_connection".
Definition structs_drm_exynos_g2d_get_ver : list (string * cty) :=
  [
  ("drm_exynos_g2d_get_ver", Struct [("major", __u32); ("minor", __u32)]);
  ("drm_exynos_g2d_cmd", Struct [("offset", __u32); ("data", __u32)])].
Definition drm_exynos_g2d_get_ver : cty := type_in structs_drm_exynos_g2d_get_ver "drm_exynos_g2d_get_ver".
Definition structs_drm_exynos_g2d_userptr : list (string * cty) :=
  [
  ("drm_exynos_g2d_userptr", Struct [("userptr", ulong); ("size", ulong)]);
  ("drm_exynos_g2d_set_cmdlist", Struct [("cmd", __u64); ("cmd_buf", __u64); ("cmd_nr", __u32);
   ("cmd_buf_nr", __u32); ("event_type", __u64); ("user_data", __u64)]);
  ("drm_exynos_g2d_exec", Struct [("async", __u64)])].
Definition drm_exynos_g2d_set_cmdlist : cty := type_in structs_drm_exynos_g2d_userptr "drm_exynos_g2d_set_cmdlist".
Definition drm_exynos_g2d_exec : cty := type_in structs_drm_exynos_g2d_userptr "drm_exynos_g2d_exec".
Definition structs_drm_exynos_sz : list (string * cty) :=
  [
  ("drm_exynos_sz", Struct [("hsize", __u32); ("vsize", __u32)]);
  ("drm_exynos_pos", Struct [("x", __u32); ("y", __u32); ("w", __u32); ("h", __u32)])].
Definition drm_exynos_sz : cty := type_in structs_drm_exynos_sz "drm_exynos_sz".
Definition drm_exynos_pos : cty := type_in structs_drm_exynos_sz "drm_exynos_pos".
Definition structs_drm_exynos_ipp_prop_list : list (string * cty) :=
  [
  ("drm_exynos_ipp_prop_list", Struct [("version", __u32); ("ipp_id", __u32); ("count", __u32);
   ("writeback", __u32); ("flip", __u32); ("degree", __u32); ("csc", __u32); ("crop", __u32);
   ("scale", __u32); ("refresh_min", __u32); ("refresh_max", __u32); ("reserved", __u32);
   ("crop_min", drm_exynos_sz); ("crop_max", drm_exynos_sz); ("scale_min", drm_exynos_sz);
   ("scale_max", drm_exynos_sz)]);
  ("drm_exynos_ipp_config", Struct [("ops_id", enum); ("flip", enum); ("degree", enum);
   ("fmt", __u32); ("sz", drm_exynos_sz); ("pos", drm_exynos_pos)])].
Definition drm_exynos_ipp_prop_list : cty := type_in structs_drm_exynos_ipp_prop_list "drm_exynos_ipp_prop_list".
Definition drm_exynos_ipp_config : cty := type_in structs_drm_exynos_ipp_prop_list "drm_exynos_ipp_config".
Definition drm_exynos_ipp_property : cty :=
  Struct [("config", Arr 2 drm_exynos_ipp_config); ("cmd", enum); ("ipp_id", __u32);
   ("prop_id", __u32); ("refresh_rate", __u32)].
Definition drm_exynos_ipp_queue_buf : cty :=
  Struct [("ops_id", enum); ("buf_type", enum); ("prop_id", __u32); ("buf_id", __u32);
   ("handle", Arr 3 __u32); ("reserved", __u32); ("user_data", __u64)].
Definition drm_exynos_ipp_cmd_ctrl : cty := Struct [("prop_id", __u32); ("ctrl", enum)].
Definition structs_drm_exynos_g2d_event : list (string * cty) :=
  [
  ("drm_exynos_g2d_event", Struct [("base", Drm_drm.drm_event); ("user_data", __u64);
   ("tv_sec", __u32); ("tv_usec", __u32); ("cmdlist_no", __u32); ("reserved", __u32)]);
  ("drm_exynos_ipp_event", Struct [("base", Drm_drm.drm_event); ("user_data", __u64);
   ("tv_sec", __u32); ("tv_usec", __u32); ("prop_id", __u32); ("reserved", __u32);
   ("buf_id", Arr 2 __u32)])].
Definition drm_exynos_drm_types : list (string * cty) :=
  (structs_drm_exynos_gem_create ++ structs_drm_exynos_g2d_get_ver ++
   structs_drm_exynos_g2d_userptr ++ structs_drm_exynos_sz ++ structs_drm_exynos_ipp_prop_list
   ++ [("drm_exynos_ipp_property", drm_exynos_ipp_property); ("drm_exynos_ipp_queue_buf",
   drm_exynos_ipp_queue_buf); ("drm_exynos_ipp_cmd_ctrl", drm_exynos_ipp_cmd_ctrl)] ++
   structs_drm_exynos_g2d_event)%list.
Definition drm_exynos_drm_ioctls : list command := [
  _IOWR "DRM_IOCTL_EXYNOS_GEM_CREATE" (chr "d") 64 drm_exynos_gem_create;
  _IOWR "DRM_IOCTL_EXYNOS_GEM_GET" (chr "d") 68 drm_exynos_gem_info;
  _IOWR "DRM_IOCTL_EXYNOS_VIDI_CONNECTION" (chr "d") 71 drm_exynos_vidi_connection;
  _IOWR "DRM_IOCTL_EXYNOS_G2D_GET_VER" (chr "d") 96 drm_exynos_g2d_get_ver;
  _IOWR "DRM_IOCTL_EXYNOS_G2D_SET_CMDLIST" (chr "d") 97 drm_exynos_g2d_set_cmdlist;
  _IOWR "DRM_IOCTL_EXYNOS_G2D_EXEC" (chr "d") 98 drm_exynos_g2d_exec;
  _IOWR "DRM_IOCTL_EXYNOS_IPP_GET_PROPERTY" (chr "d") 112 drm_exynos_ipp_prop_list;
  _IOWR "DRM_IOCTL_EXYNOS_IPP_SET_PROPERTY" (chr "d") 113 drm_exynos_ipp_property;
  _IOWR "DRM_IOCTL_EXYNOS_IPP_QUEUE_BUF" (chr "d") 114 drm_exynos_ipp_queue_buf;
  _IOWR "DRM_IOCTL_EXYNOS_IPP_CMD_CTRL" (chr "d") 115 drm_exynos_ipp_cmd_ctrl].
End Drm_exynos_drm.

(** ** [drm/i810_drm.h] *)

Module Drm_i810_drm.
Definition I810_NR_SAREA_CLIPRECTS : Z := 8.
Definition I810_DEST_SETUP_SIZE : Z := 10.
Definition I810_CTX_SETUP_SIZE : Z := 20.
Definition I810_TEX_SETUP_SIZE : Z := 8.
Definition structs_drm_i810_init_func_t : list (string * cty) :=
  let drm_i810_init_func_t := enum in
  [
  ("drm_i810_init_func_t", drm_i810_init_func_t);
  ("_drm_i810_init", Struct [("func", drm_i810_init_func_t); ("mmio_offset", uint);
   ("buffers_offset", uint); ("sarea_priv_offset", int); ("ring_start", uint);
   ("ring_end", uint); ("ring_size", uint); ("front_offset", uint); ("back_offset", uint);
   ("depth_offset", uint); ("overlay_offset", uint); ("overlay_physical", uint); ("w", uint);
   ("h", uint); ("pitch", uint); ("pitch_bits", uint)])].
Definition drm_i810_init_func_t : cty := type_in structs_drm_i810_init_func_t "drm_i810_init_func_t".
Definition _drm_i810_init : cty := type_in structs_drm_i810_init_func_t "_drm_i810_init".
Definition structs_drm_i810_init_t : list (string * cty) :=
  [
  ("drm_i810_init_t", _drm_i810_init);
  ("_drm_i810_pre12_init", Struct [("func", drm_i810_init_func_t); ("mmio_offset", uint);
   ("buffers_offset", uint); ("sarea_priv_offset", int); ("ring_start", uint);
   ("ring_end", uint); ("ring_size", uint); ("front_offset", uint); ("back_offset", uint);
   ("depth_offset", uint); ("w", uint); ("h", uint); ("pitch", uint); ("pitch_bits", uint)])].
Definition drm_i810_init_t : cty := type_in structs_drm_i810_init_t "drm_i810_init_t".
Definition _drm_i810_pre12_init : cty := type_in structs_drm_i810_init_t "_drm_i810_pre12_init".
Definition structs_drm_i810_pre12_init_t : list (string * cty) :=
  [
  ("drm_i810_pre12_init_t", _drm_i810_pre12_init);
  ("_drm_i810_tex_region", Struct [("next", uchar); ("prev", uchar); ("in_use", uchar);
   ("age", int)])].
Definition _drm_i810_tex_region : cty := type_in structs_drm_i810_pre12_init_t "_drm_i810_tex_region".
Definition drm_i810_tex_region_t : cty := _drm_i810_tex_region.
Definition _drm_i810_sarea : cty :=
  Struct [("ContextState", Arr I810_CTX_SETUP_SIZE uint);
   ("BufferState", Arr I810_DEST_SETUP_SIZE uint);
   ("TexState", Arr 2 (Arr I810_TEX_SETUP_SIZE uint)); ("dirty", uint); ("nbox", uint);
   ("boxes", Arr I810_NR_SAREA_CLIPRECTS Drm_drm.drm_clip_rect);
   ("texList", Arr 65 drm_i810_tex_region_t); ("texAge", int); ("last_enqueue", int);
   ("last_dispatch", int); ("last_quiescent", int); ("ctxOwner", int); ("vertex_prim", int);
   ("pf_enabled", int); ("pf_active", int); ("pf_current_page", int)].
Definition drm_i810_sarea_t : cty := _drm_i810_sarea.
Definition _drm_i810_clear : cty :=
  Struct [("clear_color", int); ("clear_depth", int); ("flags", int)].
Definition structs_drm_i810_clear_t : list (string * cty) :=
  [
  ("drm_i810_clear_t", _drm_i810_clear);
  ("_drm_i810_vertex", Struct [("idx", int); ("used", int); ("discard", int)])].
Definition drm_i810_clear_t : cty := type_in structs_drm_i810_clear_t "drm_i810_clear_t".
Definition _drm_i810_vertex : cty := type_in structs_drm_i810_clear_t "_drm_i810_vertex".
Definition structs_drm_i810_vertex_t : list (string * cty) :=
  [
  ("drm_i810_vertex_t", _drm_i810_vertex);
  ("_drm_i810_copy_t", Struct [("idx", int); ("used", int); ("address", ptr)])].
Definition drm_i810_vertex_t : cty := type_in structs_drm_i810_vertex_t "drm_i810_vertex_t".
Definition _drm_i810_copy_t : cty := type_in structs_drm_i810_vertex_t "_drm_i810_copy_t".
Definition drm_i810_copy_t : cty := _drm_i810_copy_t.
Definition drm_i810_dma : cty :=
  Struct [("virtual", ptr); ("request_idx", int); ("request_size", int); ("granted", int)].
Definition structs_drm_i810_dma_t : list (string * cty) :=
  [
  ("drm_i810_dma_t", drm_i810_dma);
  ("_drm_i810_overlay_t", Struct [("offset", uint); ("physical", uint)])].
Definition drm_i810_dma_t : cty := type_in structs_drm_i810_dma_t "drm_i810_dma_t".
Definition _drm_i810_overlay_t : cty := type_in structs_drm_i810_dma_t "_drm_i810_overlay_t".
Definition structs_drm_i810_overlay_t : list (string * cty) :=
  [
  ("drm_i810_overlay_t", _drm_i810_overlay_t);
  ("_drm_i810_mc", Struct [("idx", int); ("used", int); ("num_blocks", int); ("length", ptr);
   ("last_render", uint)])].
Definition drm_i810_overlay_t : cty := type_in structs_drm_i810_overlay_t "drm_i810_overlay_t".
Definition _drm_i810_mc : cty := type_in structs_drm_i810_overlay_t "_drm_i810_mc".
Definition drm_i810_mc_t : cty := _drm_i810_mc.
Definition drm_i810_drm_types : list (string * cty) :=
  (structs_drm_i810_init_func_t ++ structs_drm_i810_init_t ++ structs_drm_i810_pre12_init_t ++
   [("drm_i810_tex_region_t", drm_i810_tex_region_t); ("_drm_i810_sarea", _drm_i810_sarea);
   ("drm_i810_sarea_t", drm_i810_sarea_t); ("_drm_i810_clear", _drm_i810_clear)] ++
   structs_drm_i810_clear_t ++ structs_drm_i810_vertex_t ++ [("drm_i810_copy_t",
   drm_i810_copy_t); ("drm_i810_dma", drm_i810_dma)] ++ structs_drm_i810_dma_t ++
   structs_drm_i810_overlay_t ++ [("drm_i810_mc_t", drm_i810_mc_t)])%list.
Definition drm_i810_drm_ioctls : list command := [
  _IOW "DRM_IOCTL_I810_INIT" (chr "d") 64 drm_i810_init_t;
  _IOW "DRM_IOCTL_I810_VERTEX" (chr "d") 65 drm_i810_vertex_t;
  _IOW "DRM_IOCTL_I810_CLEAR" (chr "d") 66 drm_i810_clear_t;
  _IO "DRM_IOCTL_I810_FLUSH" (chr "d") 67;
  _IO "DRM_IOCTL_I810_GETAGE" (chr "d") 68;
  _IOWR "DRM_IOCTL_I810_GETBUF" (chr "d") 69 drm_i810_dma_t;
  _IO "DRM_IOCTL_I810_SWAP" (chr "d") 70;
  _IOW "DRM_IOCTL_I810_COPY" (chr "d") 71 drm_i810_copy_t;
  _IO "DRM_IOCTL_I810_DOCOPY" (chr "d") 72;
  _IOR "DRM_IOCTL_I810_OV0INFO" (chr "d") 73 drm_i810_overlay_t;
  _IO "DRM_IOCTL_I810_FSTATUS" (chr "d") 74;
  _IO "DRM_IOCTL_I810_OV0FLIP" (chr "d") 75;
  _IOW "DRM_IOCTL_I810_MC" (chr "d") 76 drm_i810_mc_t;
  _IO "DRM_IOCTL_I810_RSTATUS" (chr "d") 77;
  _IO "DRM_IOCTL_I810_FLIP" (chr "d") 78].
End Drm_i810_drm.

(** ** [drm/i915_drm.h] *)

Module Drm_i915_drm.
Definition _drm_i915_init : cty :=
  Struct [("func", enum); ("mmio_offset", uint); ("sarea_priv_offset", int);
   ("ring_start", uint); ("ring_end", uint); ("ring_size", uint); ("front_offset", uint);
   ("back_offset", uint); ("depth_offset", uint); ("w", uint); ("h", uint); ("pitch", uint);
   ("pitch_bits", uint); ("back_pitch", uint); ("depth_pitch", uint); ("cpp", uint);
   ("chipset", uint)].
Definition drm_i915_init_t : cty := _drm_i915_init.
Definition _drm_i915_sarea : cty :=
  Struct [("texList", Arr 256 Drm_drm.drm_tex_region); ("last_upload", int);
   ("last_enqueue", int); ("last_dispatch", int); ("ctxOwner", int); ("texAge", int);
   ("pf_enabled", int); ("pf_active", int); ("pf_current_page", int); ("perf_boxes", int);
   ("width", int); ("height", int); ("front_handle", Drm_drm.drm_handle_t);
   ("front_offset", int); ("front_size", int); ("back_handle", Drm_drm.drm_handle_t);
   ("back_offset", int); ("back_size", int); ("depth_handle", Drm_drm.drm_handle_t);
   ("depth_offset", int); ("depth_size", int); ("tex_handle", Drm_drm.drm_handle_t);
   ("tex_offset", int); ("tex_size", int); ("log_tex_granularity", int); ("pitch", int);
   ("rotation", int); ("rotated_offset", int); ("rotated_size", int); ("rotated_pitch", int);
   ("virtualX", int); ("virtualY", int); ("front_tiled", uint); ("back_tiled", uint);
   ("depth_tiled", uint); ("rotated_tiled", uint); ("rotated2_tiled", uint); ("pipeA_x", int);
   ("pipeA_y", int); ("pipeA_w", int); ("pipeA_h", int); ("pipeB_x", int); ("pipeB_y", int);
   ("pipeB_w", int); ("pipeB_h", int); ("unused_handle", Drm_drm.drm_handle_t);
   ("unused1", __u32); ("unused2", __u32); ("unused3", __u32); ("front_bo_handle", __u32);
   ("back_bo_handle", __u32); ("unused_bo_handle", __u32); ("depth_bo_handle", __u32)].
Definition drm_i915_sarea_t : cty := _drm_i915_sarea.
Definition drm_i915_batchbuffer : cty :=
  Struct [("start", int); ("used", int); ("DR1", int); ("DR4", int); ("num_cliprects", int);
   ("cliprects", ptr)].
Definition structs_drm_i915_batchbuffer_t : list (string * cty) :=
  [
  ("drm_i915_batchbuffer_t", drm_i915_batchbuffer);
  ("_drm_i915_cmdbuffer", Struct [("buf", ptr); ("sz", int); ("DR1", int); ("DR4", int);
   ("num_cliprects", int); ("cliprects", ptr)])].
Definition drm_i915_batchbuffer_t : cty := type_in structs_drm_i915_batchbuffer_t "drm_i915_batchbuffer_t".
Definition _drm_i915_cmdbuffer : cty := type_in structs_drm_i915_batchbuffer_t "_drm_i915_cmdbuffer".
Definition structs_drm_i915_cmdbuffer_t : list (string * cty) :=
  [
  ("drm_i915_cmdbuffer_t", _drm_i915_cmdbuffer);
  ("drm_i915_irq_emit", Struct [("irq_seq", ptr)])].
Definition drm_i915_cmdbuffer_t : cty := type_in structs_drm_i915_cmdbuffer_t "drm_i915_cmdbuffer_t".
Definition drm_i915_irq_emit : cty := type_in structs_drm_i915_cmdbuffer_t "drm_i915_irq_emit".
Definition structs_drm_i915_irq_emit_t : list (string * cty) :=
  [
  ("drm_i915_irq_emit_t", drm_i915_irq_emit);
  ("drm_i915_irq_wait", Struct [("irq_seq", int)])].
Definition drm_i915_irq_emit_t : cty := type_in structs_drm_i915_irq_emit_t "drm_i915_irq_emit_t".
Definition drm_i915_irq_wait : cty := type_in structs_drm_i915_irq_emit_t "drm_i915_irq_wait".
Definition drm_i915_irq_wait_t : cty := drm_i915_irq_wait.
Definition drm_i915_getparam : cty := Struct [("param", __s32); ("value", ptr)].
Definition drm_i915_getparam_t : cty := drm_i915_getparam.
Definition drm_i915_setparam : cty := Struct [("param", int); ("value", int)].
Definition drm_i915_setparam_t : cty := drm_i915_setparam.
Definition drm_i915_mem_alloc : cty :=
  Struct [("region", int); ("alignment", int); ("size", int); ("region_offset", ptr)].
Definition structs_drm_i915_mem_alloc_t : list (string * cty) :=
  [
  ("drm_i915_mem_alloc_t", drm_i915_mem_alloc);
  ("drm_i915_mem_free", Struct [("region", int); ("region_offset", int)])].
Definition drm_i915_mem_alloc_t : cty := type_in structs_drm_i915_mem_alloc_t "drm_i915_mem_alloc_t".
Definition drm_i915_mem_free : cty := type_in structs_drm_i915_mem_alloc_t "drm_i915_mem_free".
Definition structs_drm_i915_mem_free_t : list (string * cty) :=
  [
  ("drm_i915_mem_free_t", drm_i915_mem_free);
  ("drm_i915_mem_init_heap", Struct [("region", int); ("size", int); ("start", int)])].
Definition drm_i915_mem_free_t : cty := type_in structs_drm_i915_mem_free_t "drm_i915_mem_free_t".
Definition drm_i915_mem_init_heap : cty := type_in structs_drm_i915_mem_free_t "drm_i915_mem_init_heap".
Definition structs_drm_i915_mem_init_heap_t : list (string * cty) :=
  [
  ("drm_i915_mem_init_heap_t", drm_i915_mem_init_heap);
  ("drm_i915_mem_destroy_heap", Struct [("region", int)])].
Definition drm_i915_mem_init_heap_t : cty := type_in structs_drm_i915_mem_init_heap_t "drm_i915_mem_init_heap_t".
Definition drm_i915_mem_destroy_heap : cty := type_in structs_drm_i915_mem_init_heap_t "drm_i915_mem_destroy_heap".
Definition drm_i915_mem_destroy_heap_t : cty := drm_i915_mem_destroy_heap.
Definition drm_i915_vblank_pipe : cty := Struct [("pipe", int)].
Definition structs_drm_i915_vblank_pipe_t : list (string * cty) :=
  [
  ("drm_i915_vblank_pipe_t", drm_i915_vblank_pipe);
  ("drm_i915_vblank_swap", Struct [("drawable", Drm_drm.drm_drawable_t); ("seqtype", enum);
   ("sequence", uint)])].
Definition drm_i915_vblank_pipe_t : cty := type_in structs_drm_i915_vblank_pipe_t "drm_i915_vblank_pipe_t".
Definition drm_i915_vblank_swap : cty := type_in structs_drm_i915_vblank_pipe_t "drm_i915_vblank_swap".
Definition structs_drm_i915_vblank_swap_t : list (string * cty) :=
  [
  ("drm_i915_vblank_swap_t", drm_i915_vblank_swap);
  ("drm_i915_hws_addr", Struct [("addr", __u64)])].
Definition drm_i915_vblank_swap_t : cty := type_in structs_drm_i915_vblank_swap_t "drm_i915_vblank_swap_t".
Definition drm_i915_hws_addr : cty := type_in structs_drm_i915_vblank_swap_t "drm_i915_hws_addr".
Definition structs_drm_i915_hws_addr_t : list (string * cty) :=
  [
  ("drm_i915_hws_addr_t", drm_i915_hws_addr);
  ("drm_i915_gem_init", Struct [("gtt_start", __u64); ("gtt_end", __u64)]);
  ("drm_i915_gem_create", Struct [("size", __u64); ("handle", __u32); ("pad", __u32)]);
  ("drm_i915_gem_pread", Struct [("handle", __u32); ("pad", __u32); ("offset", __u64);
   ("size", __u64); ("data_ptr", __u64)]);
  ("drm_i915_gem_pwrite", Struct [("handle", __u32); ("pad", __u32); ("offset", __u64);
   ("size", __u64); ("data_ptr", __u64)])].
Definition drm_i915_gem_init : cty := type_in structs_drm_i915_hws_addr_t "drm_i915_gem_init".
Definition drm_i915_gem_create : cty := type_in structs_drm_i915_hws_addr_t "drm_i915_gem_create".
Definition drm_i915_gem_pread : cty := type_in structs_drm_i915_hws_addr_t "drm_i915_gem_pread".
Definition drm_i915_gem_pwrite : cty := type_in structs_drm_i915_hws_addr_t "drm_i915_gem_pwrite".
Definition drm_i915_gem_mmap : cty :=
  Struct [("handle", __u32); ("pad", __u32); ("offset", __u64); ("size", __u64);
   ("addr_ptr", __u64); ("flags", __u64)].
Definition structs_drm_i915_gem_mmap_gtt : list (string * cty) :=
  [
  ("drm_i915_gem_mmap_gtt", Struct [("handle", __u32); ("pad", __u32); ("offset", __u64)]);
  ("drm_i915_gem_set_domain", Struct [("handle", __u32); ("read_domains", __u32);
   ("write_domain", __u32)]);
  ("drm_i915_gem_sw_finish", Struct [("handle", __u32)])].
Definition drm_i915_gem_mmap_gtt : cty := type_in structs_drm_i915_gem_mmap_gtt "drm_i915_gem_mmap_gtt".
Definition drm_i915_gem_set_domain : cty := type_in structs_drm_i915_gem_mmap_gtt "drm_i915_gem_set_domain".
Definition drm_i915_gem_sw_finish : cty := type_in structs_drm_i915_gem_mmap_gtt "drm_i915_gem_sw_finish".
Definition drm_i915_gem_relocation_entry : cty :=
  Struct [("target_handle", __u32); ("delta", __u32); ("offset", __u64);
   ("presumed_offset", __u64); ("read_domains", __u32); ("write_domain", __u32)].
Definition structs_drm_i915_gem_exec_object : list (string * cty) :=
  [
  ("drm_i915_gem_exec_object", Struct [("handle", __u32); ("relocation_count", __u32);
   ("relocs_ptr", __u64); ("alignment", __u64); ("offset", __u64)]);
  ("drm_i915_gem_execbuffer", Struct [("buffers_ptr", __u64); ("buffer_count", __u32);
   ("batch_start_offset", __u32); ("batch_len", __u32); ("DR1", __u32); ("DR4", __u32);
   ("num_cliprects", __u32); ("cliprects_ptr", __u64)])].
Definition drm_i915_gem_execbuffer : cty := type_in structs_drm_i915_gem_exec_object "drm_i915_gem_execbuffer".
Definition drm_i915_gem_exec_object2 : cty :=
  Struct [("handle", __u32); ("relocation_count", __u32); ("relocs_ptr", __u64);
   ("alignment", __u64); ("offset", __u64); ("flags", __u64); ("rsvd1", __u64); ("rsvd2", __u64)].
Definition drm_i915_gem_execbuffer2 : cty :=
  Struct [("buffers_ptr", __u64); ("buffer_count", __u32); ("batch_start_offset", __u32);
   ("batch_len", __u32); ("DR1", __u32); ("DR4", __u32); ("num_cliprects", __u32);
   ("cliprects_ptr", __u64); ("flags", __u64); ("rsvd1", __u64); ("rsvd2", __u64)].
Definition structs_drm_i915_gem_pin : list (string * cty) :=
  [
  ("drm_i915_gem_pin", Struct [("handle", __u32); ("pad", __u32); ("alignment", __u64);
   ("offset", __u64)]);
  ("drm_i915_gem_unpin", Struct [("handle", __u32); ("pad", __u32)]);
  ("drm_i915_gem_busy", Struct [("handle", __u32); ("busy", __u32)])].
Definition drm_i915_gem_pin : cty := type_in structs_drm_i915_gem_pin "drm_i915_gem_pin".
Definition drm_i915_gem_unpin : cty := type_in structs_drm_i915_gem_pin "drm_i915_gem_unpin".
Definition drm_i915_gem_busy : cty := type_in structs_drm_i915_gem_pin "drm_i915_gem_busy".
Definition drm_i915_gem_caching : cty := Struct [("handle", __u32); ("caching", __u32)].
Definition drm_i915_gem_set_tiling : cty :=
  Struct [("handle", __u32); ("tiling_mode", __u32); ("stride", __u32); ("swizzle_mode", __u32)].
Definition structs_drm_i915_gem_get_tiling : list (string * cty) :=
  [
  ("drm_i915_gem_get_tiling", Struct [("handle", __u32); ("tiling_mode", __u32);
   ("swizzle_mode", __u32); ("phys_swizzle_mode", __u32)]);
  ("drm_i915_gem_get_aperture", Struct [("aper_size", __u64); ("aper_available_size", __u64)]);
  ("drm_i915_get_pipe_from_crtc_id", Struct [("crtc_id", __u32); ("pipe", __u32)])].
Definition drm_i915_gem_get_tiling : cty := type_in structs_drm_i915_gem_get_tiling "drm_i915_gem_get_tiling".
Definition drm_i915_gem_get_aperture : cty := type_in structs_drm_i915_gem_get_tiling "drm_i915_gem_get_aperture".
Definition drm_i915_get_pipe_from_crtc_id : cty := type_in structs_drm_i915_gem_get_tiling "drm_i915_get_pipe_from_crtc_id".
Definition drm_i915_gem_madvise : cty :=
  Struct [("handle", __u32); ("madv", __u32); ("retained", __u32)].
Definition drm_intel_overlay_put_image : cty :=
  Struct [("flags", __u32); ("bo_handle", __u32); ("stride_Y", __u16); ("stride_UV", __u16);
   ("offset_Y", __u32); ("offset_U", __u32); ("offset_V", __u32); ("src_width", __u16);
   ("src_height", __u16); ("src_scan_width", __u16); ("src_scan_height", __u16);
   ("crtc_id", __u32); ("dst_x", __u16); ("dst_y", __u16); ("dst_width", __u16);
   ("dst_height", __u16)].
Definition drm_intel_overlay_attrs : cty :=
  Struct [("flags", __u32); ("color_key", __u32); ("brightness", __s32); ("contrast", __u32);
   ("saturation", __u32); ("gamma0", __u32); ("gamma1", __u32); ("gamma2", __u32);
   ("gamma3", __u32); ("gamma4", __u32); ("gamma5", __u32)].
Definition structs_drm_intel_sprite_colorkey : list (string * cty) :=
  [
  ("drm_intel_sprite_colorkey", Struct [("plane_id", __u32); ("min_value", __u32);
   ("channel_mask", __u32); ("max_value", __u32); ("flags", __u32)]);
  ("drm_i915_gem_wait", Struct [("bo_handle", __u32); ("flags", __u32); ("timeout_ns", __s64)]);
  ("drm_i915_gem_context_create", Struct [("ctx_id", __u32); ("pad", __u32)]);
  ("drm_i915_gem_context_destroy", Struct [("ctx_id", __u32); ("pad", __u32)]);
  ("drm_i915_reg_read", Struct [("offset", __u64); ("val", __u64)]);
  ("drm_i915_reset_stats", Struct [("ctx_id", __u32); ("flags", __u32); ("reset_count", __u32);
   ("batch_active", __u32); ("batch_pending", __u32); ("pad", __u32)]);
  ("drm_i915_gem_userptr", Struct [("user_ptr", __u64); ("user_size", __u64); ("flags", __u32);
   ("handle", __u32)]);
  ("drm_i915_gem_context_param", Struct [("ctx_id", __u32); ("size", __u32); ("param", __u64);
   ("value", __u64)])].
Definition drm_intel_sprite_colorkey : cty := type_in structs_drm_intel_sprite_colorkey "drm_intel_sprite_colorkey".
Definition drm_i915_gem_wait : cty := type_in structs_drm_intel_sprite_colorkey "drm_i915_gem_wait".
Definition drm_i915_gem_context_create : cty := type_in structs_drm_intel_sprite_colorkey "drm_i915_gem_context_create".
Definition drm_i915_gem_context_destroy : cty := type_in structs_drm_intel_sprite_colorkey "drm_i915_gem_context_destroy".
Definition drm_i915_reg_read : cty := type_in structs_drm_intel_sprite_colorkey "drm_i915_reg_read".
Definition drm_i915_reset_stats : cty := type_in structs_drm_intel_sprite_colorkey "drm_i915_reset_stats".
Definition drm_i915_gem_userptr : cty := type_in structs_drm_intel_sprite_colorkey "drm_i915_gem_userptr".
Definition drm_i915_gem_context_param : cty := type_in structs_drm_intel_sprite_colorkey "drm_i915_gem_context_param".
Definition drm_i915_drm_types : list (string * cty) :=
  ([("_drm_i915_init", _drm_i915_init); ("drm_i915_init_t", drm_i915_init_t);
   ("_drm_i915_sarea", _drm_i915_sarea); ("drm_i915_sarea_t", drm_i915_sarea_t);
   ("drm_i915_batchbuffer", drm_i915_batchbuffer)] ++ structs_drm_i915_batchbuffer_t ++
   structs_drm_i915_cmdbuffer_t ++ structs_drm_i915_irq_emit_t ++ [("drm_i915_irq_wait_t",
   drm_i915_irq_wait_t); ("drm_i915_getparam", drm_i915_getparam); ("drm_i915_getparam_t",
   drm_i915_getparam_t); ("drm_i915_setparam", drm_i915_setparam); ("drm_i915_setparam_t",
   drm_i915_setparam_t); ("drm_i915_mem_alloc", drm_i915_mem_alloc)] ++
   structs_drm_i915_mem_alloc_t ++ structs_drm_i915_mem_free_t ++
   structs_drm_i915_mem_init_heap_t ++ [("drm_i915_mem_destroy_heap_t",
   drm_i915_mem_destroy_heap_t); ("drm_i915_vblank_pipe", drm_i915_vblank_pipe)] ++
   structs_drm_i915_vblank_pipe_t ++ structs_drm_i915_vblank_swap_t ++
   structs_drm_i915_hws_addr_t ++ [("drm_i915_gem_mmap", drm_i915_gem_mmap)] ++
   structs_drm_i915_gem_mmap_gtt ++ [("drm_i915_gem_relocation_entry",
   drm_i915_gem_relocation_entry)] ++ structs_drm_i915_gem_exec_object ++
   [("drm_i915_gem_exec_object2", drm_i915_gem_exec_object2); ("drm_i915_gem_execbuffer2",
   drm_i915_gem_execbuffer2)] ++ structs_drm_i915_gem_pin ++ [("drm_i915_gem_caching",
   drm_i915_gem_caching); ("drm_i915_gem_set_tiling", drm_i915_gem_set_tiling)] ++
   structs_drm_i915_gem_get_tiling ++ [("drm_i915_gem_madvise", drm_i915_gem_madvise);
   ("drm_intel_overlay_put_image", drm_intel_overlay_put_image); ("drm_intel_overlay_attrs",
   drm_intel_overlay_attrs)] ++ structs_drm_intel_sprite_colorkey)%list.
Definition drm_i915_drm_ioctls : list command := [
  _IOW "DRM_IOCTL_I915_INIT" (chr "d") 64 drm_i915_init_t;
  _IO "DRM_IOCTL_I915_FLUSH" (chr "d") 65;
  _IO "DRM_IOCTL_I915_FLIP" (chr "d") 66;
  _IOW "DRM_IOCTL_I915_BATCHBUFFER" (chr "d") 67 drm_i915_batchbuffer_t;
  _IOWR "DRM_IOCTL_I915_IRQ_EMIT" (chr "d") 68 drm_i915_irq_emit_t;
  _IOW "DRM_IOCTL_I915_IRQ_WAIT" (chr "d") 69 drm_i915_irq_wait_t;
  _IOWR "DRM_IOCTL_I915_GETPARAM" (chr "d") 70 drm_i915_getparam_t;
  _IOW "DRM_IOCTL_I915_SETPARAM" (chr "d") 71 drm_i915_setparam_t;
  _IOWR "DRM_IOCTL_I915_ALLOC" (chr "d") 72 drm_i915_mem_alloc_t;
  _IOW "DRM_IOCTL_I915_FREE" (chr "d") 73 drm_i915_mem_free_t;
  _IOW "DRM_IOCTL_I915_INIT_HEAP" (chr "d") 74 drm_i915_mem_init_heap_t;
  _IOW "DRM_IOCTL_I915_CMDBUFFER" (chr "d") 75 drm_i915_cmdbuffer_t;
  _IOW "DRM_IOCTL_I915_DESTROY_HEAP" (chr "d") 76 drm_i915_mem_destroy_heap_t;
  _IOW "DRM_IOCTL_I915_SET_VBLANK_PIPE" (chr "d") 77 drm_i915_vblank_pipe_t;
  _IOR "DRM_IOCTL_I915_GET_VBLANK_PIPE" (chr "d") 78 drm_i915_vblank_pipe_t;
  _IOWR "DRM_IOCTL_I915_VBLANK_SWAP" (chr "d") 79 drm_i915_vblank_swap_t;
  _IOW "DRM_IOCTL_I915_HWS_ADDR" (chr "d") 81 drm_i915_gem_init;
  _IOW "DRM_IOCTL_I915_GEM_INIT" (chr "d") 83 drm_i915_gem_init;
  _IOW "DRM_IOCTL_I915_GEM_EXECBUFFER" (chr "d") 84 drm_i915_gem_execbuffer;
  _IOW "DRM_IOCTL_I915_GEM_EXECBUFFER2" (chr "d") 105 drm_i915_gem_execbuffer2;
  _IOWR "DRM_IOCTL_I915_GEM_PIN" (chr "d") 85 drm_i915_gem_pin;
  _IOW "DRM_IOCTL_I915_GEM_UNPIN" (chr "d") 86 drm_i915_gem_unpin;
  _IOWR "DRM_IOCTL_I915_GEM_BUSY" (chr "d") 87 drm_i915_gem_busy;
  _IOW "DRM_IOCTL_I915_GEM_SET_CACHING" (chr "d") 111 drm_i915_gem_caching;
  _IOWR "DRM_IOCTL_I915_GEM_GET_CACHING" (chr "d") 112 drm_i915_gem_caching;
  _IO "DRM_IOCTL_I915_GEM_THROTTLE" (chr "d") 88;
  _IO "DRM_IOCTL_I915_GEM_ENTERVT" (chr "d") 89;
  _IO "DRM_IOCTL_I915_GEM_LEAVEVT" (chr "d") 90;
  _IOWR "DRM_IOCTL_I915_GEM_CREATE" (chr "d") 91 drm_i915_gem_create;
  _IOW "DRM_IOCTL_I915_GEM_PREAD" (chr "d") 92 drm_i915_gem_pread;
  _IOW "DRM_IOCTL_I915_GEM_PWRITE" (chr "d") 93 drm_i915_gem_pwrite;
  _IOWR "DRM_IOCTL_I915_GEM_MMAP" (chr "d") 94 drm_i915_gem_mmap;
  _IOWR "DRM_IOCTL_I915_GEM_MMAP_GTT" (chr "d") 100 drm_i915_gem_mmap_gtt;
  _IOW "DRM_IOCTL_I915_GEM_SET_DOMAIN" (chr "d") 95 drm_i915_gem_set_domain;
  _IOW "DRM_IOCTL_I915_GEM_SW_FINISH" (chr "d") 96 drm_i915_gem_sw_finish;
  _IOWR "DRM_IOCTL_I915_GEM_SET_TILING" (chr "d") 97 drm_i915_gem_set_tiling;
  _IOWR "DRM_IOCTL_I915_GEM_GET_TILING" (chr "d") 98 drm_i915_gem_get_tiling;
  _IOR "DRM_IOCTL_I915_GEM_GET_APERTURE" (chr "d") 99 drm_i915_gem_get_aperture;
  _IOWR "DRM_IOCTL_I915_GET_PIPE_FROM_CRTC_ID" (chr "d") 101 drm_i915_get_pipe_from_crtc_id;
  _IOWR "DRM_IOCTL_I915_GEM_MADVISE" (chr "d") 102 drm_i915_gem_madvise;
  _IOW "DRM_IOCTL_I915_OVERLAY_PUT_IMAGE" (chr "d") 103 drm_intel_overlay_put_image;
  _IOWR "DRM_IOCTL_I915_OVERLAY_ATTRS" (chr "d") 104 drm_intel_overlay_attrs;
  _IOWR "DRM_IOCTL_I915_SET_SPRITE_COLORKEY" (chr "d") 107 drm_intel_sprite_colorkey;
  _IOWR "DRM_IOCTL_I915_GET_SPRITE_COLORKEY" (chr "d") 106 drm_intel_sprite_colorkey;
  _IOWR "DRM_IOCTL_I915_GEM_WAIT" (chr "d") 108 drm_i915_gem_wait;
  _IOWR "DRM_IOCTL_I915_GEM_CONTEXT_CREATE" (chr "d") 109 drm_i915_gem_context_create;
  _IOW "DRM_IOCTL_I915_GEM_CONTEXT_DESTROY" (chr "d") 110 drm_i915_gem_context_destroy;
  _IOWR "DRM_IOCTL_I915_REG_READ" (chr "d") 113 drm_i915_reg_read;
  _IOWR "DRM_IOCTL_I915_GET_RESET_STATS" (chr "d") 114 drm_i915_reset_stats;
  _IOWR "DRM_IOCTL_I915_GEM_USERPTR" (chr "d") 115 drm_i915_gem_userptr;
  _IOWR "DRM_IOCTL_I915_GEM_CONTEXT_GETPARAM" (chr "d") 116 drm_i915_gem_context_param;
  _IOWR "DRM_IOCTL_I915_GEM_CONTEXT_SETPARAM" (chr "d") 117 drm_i915_gem_context_param].
End Drm_i915_drm.

(** ** [drm/mga_drm.h] *)

Module Drm_mga_drm.
Definition MGA_NR_SAREA_CLIPRECTS : Z := 8.
Definition MGA_NR_TEX_HEAPS : Z := 2.
Definition structs_drm_mga_context_regs_t : list (string * cty) :=
  [
  ("drm_mga_context_regs_t", Struct [("dstorg", uint); ("maccess", uint); ("plnwt", uint);
   ("dwgctl", uint); ("alphactrl", uint); ("fogcolor", uint); ("wflag", uint);
   ("tdualstage0", uint); ("tdualstage1", uint); ("fcol", uint); ("stencil", uint);
   ("stencilctl", uint)]);
  ("drm_mga_server_regs_t", Struct [("pitch", uint)]);
  ("drm_mga_texture_regs_t", Struct [("texctl", uint); ("texctl2", uint); ("texfilter", uint);
   ("texbordercol", uint); ("texorg", uint); ("texwidth", uint); ("texheight", uint);
   ("texorg1", uint); ("texorg2", uint); ("texorg3", uint); ("texorg4", uint)]);
  ("drm_mga_age_t", Struct [("head", uint); ("wrap", uint)])].
Definition drm_mga_context_regs_t : cty := type_in structs_drm_mga_context_regs_t "drm_mga_context_regs_t".
Definition drm_mga_server_regs_t : cty := type_in structs_drm_mga_context_regs_t "drm_mga_server_regs_t".
Definition drm_mga_texture_regs_t : cty := type_in structs_drm_mga_context_regs_t "drm_mga_texture_regs_t".
Definition drm_mga_age_t : cty := type_in structs_drm_mga_context_regs_t "drm_mga_age_t".
Definition _drm_mga_sarea : cty :=
  Struct [("context_state", drm_mga_context_regs_t); ("server_state", drm_mga_server_regs_t);
   ("tex_state", Arr 2 drm_mga_texture_regs_t); ("warp_pipe", uint); ("dirty", uint);
   ("vertsize", uint); ("boxes", Arr MGA_NR_SAREA_CLIPRECTS Drm_drm.drm_clip_rect);
   ("nbox", uint); ("req_drawable", uint); ("req_draw_buffer", uint);
   ("exported_drawable", uint); ("exported_index", uint); ("exported_stamp", uint);
   ("exported_buffers", uint); ("exported_nfront", uint); ("exported_nback", uint);
   ("exported_back_x", int); ("exported_front_x", int); ("exported_w", int);
   ("exported_back_y", int); ("exported_front_y", int); ("exported_h", int);
   ("exported_boxes", Arr MGA_NR_SAREA_CLIPRECTS Drm_drm.drm_clip_rect); ("status", Arr 4 uint);
   ("last_wrap", uint); ("last_frame", drm_mga_age_t); ("last_enqueue", uint);
   ("last_dispatch", uint); ("last_quiescent", uint);
   ("texList", Arr MGA_NR_TEX_HEAPS (Arr 17 Drm_drm.drm_tex_region));
   ("texAge", Arr MGA_NR_TEX_HEAPS uint); ("ctxOwner", int)].
Definition drm_mga_sarea_t : cty := _drm_mga_sarea.
Definition _drm_mga_warp_index : cty :=
  Struct [("installed", int); ("phys_addr", ulong); ("size", int)].
Definition drm_mga_warp_index_t : cty := _drm_mga_warp_index.
Definition drm_mga_init : cty :=
  Struct [("func", enum); ("sarea_priv_offset", ulong); ("chipset", int); ("sgram", int);
   ("maccess", uint); ("fb_cpp", uint); ("front_offset", uint); ("front_pitch", uint);
   ("back_offset", uint); ("back_pitch", uint); ("depth_cpp", uint); ("depth_offset", uint);
   ("depth_pitch", uint); ("texture_offset", Arr MGA_NR_TEX_HEAPS uint);
   ("texture_size", Arr MGA_NR_TEX_HEAPS uint); ("fb_offset", ulong); ("mmio_offset", ulong);
   ("status_offset", ulong); ("warp_offset", ulong); ("primary_offset", ulong);
   ("buffers_offset", ulong)].
Definition drm_mga_init_t : cty := drm_mga_init.
Definition drm_mga_dma_bootstrap : cty :=
  Struct [("texture_handle", ulong); ("texture_size", __u32); ("primary_size", __u32);
   ("secondary_bin_count", __u32); ("secondary_bin_size", __u32); ("agp_mode", __u32);
   ("agp_size", __u8)].
Definition structs_drm_mga_dma_bootstrap_t : list (string * cty) :=
  [
  ("drm_mga_dma_bootstrap_t", drm_mga_dma_bootstrap);
  ("drm_mga_clear", Struct [("flags", uint); ("clear_color", uint); ("clear_depth", uint);
   ("color_mask", uint); ("depth_mask", uint)])].
Definition drm_mga_dma_bootstrap_t : cty := type_in structs_drm_mga_dma_bootstrap_t "drm_mga_dma_bootstrap_t".
Definition drm_mga_clear : cty := type_in structs_drm_mga_dma_bootstrap_t "drm_mga_clear".
Definition structs_drm_mga_clear_t : list (string * cty) :=
  [
  ("drm_mga_clear_t", drm_mga_clear);
  ("drm_mga_vertex", Struct [("idx", int); ("used", int); ("discard", int)])].
Definition drm_mga_clear_t : cty := type_in structs_drm_mga_clear_t "drm_mga_clear_t".
Definition drm_mga_vertex : cty := type_in structs_drm_mga_clear_t "drm_mga_vertex".
Definition structs_drm_mga_vertex_t : list (string * cty) :=
  [
  ("drm_mga_vertex_t", drm_mga_vertex);
  ("drm_mga_indices", Struct [("idx", int); ("start", uint); ("end", uint); ("discard", int)])].
Definition drm_mga_vertex_t : cty := type_in structs_drm_mga_vertex_t "drm_mga_vertex_t".
Definition drm_mga_indices : cty := type_in structs_drm_mga_vertex_t "drm_mga_indices".
Definition structs_drm_mga_indices_t : list (string * cty) :=
  [
  ("drm_mga_indices_t", drm_mga_indices);
  ("drm_mga_iload", Struct [("idx", int); ("dstorg", uint); ("length", uint)])].
Definition drm_mga_indices_t : cty := type_in structs_drm_mga_indices_t "drm_mga_indices_t".
Definition drm_mga_iload : cty := type_in structs_drm_mga_indices_t "drm_mga_iload".
Definition structs_drm_mga_iload_t : list (string * cty) :=
  [
  ("drm_mga_iload_t", drm_mga_iload);
  ("_drm_mga_blit", Struct [("planemask", uint); ("srcorg", uint); ("dstorg", uint);
   ("src_pitch", int); ("dst_pitch", int); ("delta_sx", int); ("delta_sy", int);
   ("delta_dx", int); ("delta_dy", int); ("height", int); ("ydir", int); ("source_pitch", int);
   ("dest_pitch", int)])].
Definition drm_mga_iload_t : cty := type_in structs_drm_mga_iload_t "drm_mga_iload_t".
Definition _drm_mga_blit : cty := type_in structs_drm_mga_iload_t "_drm_mga_blit".
Definition drm_mga_blit_t : cty := _drm_mga_blit.
Definition drm_mga_getparam : cty := Struct [("param", int); ("value", ptr)].
Definition drm_mga_getparam_t : cty := drm_mga_getparam.
Definition drm_mga_drm_types : list (string * cty) :=
  (structs_drm_mga_context_regs_t ++ [("_drm_mga_sarea", _drm_mga_sarea); ("drm_mga_sarea_t",
   drm_mga_sarea_t); ("_drm_mga_warp_index", _drm_mga_warp_index); ("drm_mga_warp_index_t",
   drm_mga_warp_index_t); ("drm_mga_init", drm_mga_init); ("drm_mga_init_t", drm_mga_init_t);
   ("drm_mga_dma_bootstrap", drm_mga_dma_bootstrap)] ++ structs_drm_mga_dma_bootstrap_t ++
   structs_drm_mga_clear_t ++ structs_drm_mga_vertex_t ++ structs_drm_mga_indices_t ++
   structs_drm_mga_iload_t ++ [("drm_mga_blit_t", drm_mga_blit_t); ("drm_mga_getparam",
   drm_mga_getparam); ("drm_mga_getparam_t", drm_mga_getparam_t)])%list.
Definition drm_mga_drm_ioctls : list command := [
  _IOW "DRM_IOCTL_MGA_INIT" (chr "d") 64 drm_mga_init_t;
  _IOW "DRM_IOCTL_MGA_FLUSH" (chr "d") 65 Drm_drm.drm_lock;
  _IO "DRM_IOCTL_MGA_RESET" (chr "d") 66;
  _IO "DRM_IOCTL_MGA_SWAP" (chr "d") 67;
  _IOW "DRM_IOCTL_MGA_CLEAR" (chr "d") 68 drm_mga_clear_t;
  _IOW "DRM_IOCTL_MGA_VERTEX" (chr "d") 69 drm_mga_vertex_t;
  _IOW "DRM_IOCTL_MGA_INDICES" (chr "d") 70 drm_mga_indices_t;
  _IOW "DRM_IOCTL_MGA_ILOAD" (chr "d") 71 drm_mga_iload_t;
  _IOW "DRM_IOCTL_MGA_BLIT" (chr "d") 72 drm_mga_blit_t;
  _IOWR "DRM_IOCTL_MGA_GETPARAM" (chr "d") 73 drm_mga_getparam_t;
  _IOW "DRM_IOCTL_MGA_SET_FENCE" (chr "d") 74 __u32;
  _IOWR "DRM_IOCTL_MGA_WAIT_FENCE" (chr "d") 75 __u32;
  _IOWR "DRM_IOCTL_MGA_DMA_BOOTSTRAP" (chr "d") 76 drm_mga_dma_bootstrap_t].
End Drm_mga_drm.

(** ** [drm/sde_drm.h] *)

Module Drm_sde_drm.
Definition SDE_MAX_PLANES : Z := 4.
Definition SDE_MAX_DE_CURVES : Z := 3.
Definition SDE_CSC_MATRIX_COEFF_SIZE : Z := 9.
Definition SDE_CSC_CLAMP_SIZE : Z := 6.
Definition SDE_CSC_BIAS_SIZE : Z := 3.
Definition sde_drm_pix_ext_v1 : cty :=
  Struct [("num_ext_pxls_lr", Arr SDE_MAX_PLANES int32_t);
   ("num_ext_pxls_tb", Arr SDE_MAX_PLANES int32_t); ("left_ftch", Arr SDE_MAX_PLANES int32_t);
   ("right_ftch", Arr SDE_MAX_PLANES int32_t); ("top_ftch", Arr SDE_MAX_PLANES int32_t);
   ("btm_ftch", Arr SDE_MAX_PLANES int32_t); ("left_rpt", Arr SDE_MAX_PLANES int32_t);
   ("right_rpt", Arr SDE_MAX_PLANES int32_t); ("top_rpt", Arr SDE_MAX_PLANES int32_t);
   ("btm_rpt", Arr SDE_MAX_PLANES int32_t)].
Definition structs_sde_drm_scaler_v1 : list (string * cty) :=
  [
  ("sde_drm_scaler_v1", Struct [("pe", sde_drm_pix_ext_v1);
   ("init_phase_x", Arr SDE_MAX_PLANES int32_t); ("phase_step_x", Arr SDE_MAX_PLANES int32_t);
   ("init_phase_y", Arr SDE_MAX_PLANES int32_t); ("phase_step_y", Arr SDE_MAX_PLANES int32_t);
   ("horz_filter", Arr SDE_MAX_PLANES uint32_t); ("vert_filter", Arr SDE_MAX_PLANES uint32_t)]);
  ("sde_drm_de_v1", Struct [("enable", uint32_t); ("sharpen_level1", int16_t);
   ("sharpen_level2", int16_t); ("clip", uint16_t); ("limit", uint16_t); ("thr_quiet", uint16_t);
   ("thr_dieout", uint16_t); ("thr_low", uint16_t); ("thr_high", uint16_t);
   ("prec_shift", uint16_t); ("adjust_a", Arr SDE_MAX_DE_CURVES int16_t);
   ("adjust_b", Arr SDE_MAX_DE_CURVES int16_t); ("adjust_c", Arr SDE_MAX_DE_CURVES int16_t)])].
Definition sde_drm_de_v1 : cty := type_in structs_sde_drm_scaler_v1 "sde_drm_de_v1".
Definition sde_drm_scaler_v2 : cty :=
  Struct [("enable", uint32_t); ("dir_en", uint32_t); ("pe", sde_drm_pix_ext_v1);
   ("horz_decimate", uint32_t); ("vert_decimate", uint32_t);
   ("init_phase_x", Arr SDE_MAX_PLANES int32_t); ("phase_step_x", Arr SDE_MAX_PLANES int32_t);
   ("init_phase_y", Arr SDE_MAX_PLANES int32_t); ("phase_step_y", Arr SDE_MAX_PLANES int32_t);
   ("preload_x", Arr SDE_MAX_PLANES uint32_t); ("preload_y", Arr SDE_MAX_PLANES uint32_t);
   ("src_width", Arr SDE_MAX_PLANES uint32_t); ("src_height", Arr SDE_MAX_PLANES uint32_t);
   ("dst_width", uint32_t); ("dst_height", uint32_t); ("y_rgb_filter_cfg", uint32_t);
   ("uv_filter_cfg", uint32_t); ("alpha_filter_cfg", uint32_t); ("blend_cfg", uint32_t);
   ("lut_flag", uint32_t); ("dir_lut_idx", uint32_t); ("y_rgb_cir_lut_idx", uint32_t);
   ("uv_cir_lut_idx", uint32_t); ("y_rgb_sep_lut_idx", uint32_t); ("uv_sep_lut_idx", uint32_t);
   ("de", sde_drm_de_v1)].
Definition sde_drm_csc_v1 : cty :=
  Struct [("ctm_coeff", Arr SDE_CSC_MATRIX_COEFF_SIZE int64_t);
   ("pre_bias", Arr SDE_CSC_BIAS_SIZE uint32_t); ("post_bias", Arr SDE_CSC_BIAS_SIZE uint32_t);
   ("pre_clamp", Arr SDE_CSC_CLAMP_SIZE uint32_t);
   ("post_clamp", Arr SDE_CSC_CLAMP_SIZE uint32_t)].
Definition sde_drm_wb_cfg : cty :=
  Struct [("flags", uint32_t); ("connector_id", uint32_t); ("count_modes", uint32_t);
   ("modes", uint64_t)].
Definition drm_sde_drm_types : list (string * cty) :=
  ([("sde_drm_pix_ext_v1", sde_drm_pix_ext_v1)] ++ structs_sde_drm_scaler_v1 ++
   [("sde_drm_scaler_v2", sde_drm_scaler_v2); ("sde_drm_csc_v1", sde_drm_csc_v1);
   ("sde_drm_wb_cfg", sde_drm_wb_cfg)])%list.
End Drm_sde_drm.

(** ** [drm/msm_drm.h] *)

Module Drm_msm_drm.
Definition HDR_PRIMARIES_COUNT : Z := 3.
Definition drm_msm_timespec : cty := Struct [("tv_sec", __s64); ("tv_nsec", __s64)].
Definition drm_msm_ext_panel_hdr_metadata : cty :=
  Struct [("eotf", __u32); ("hdr_supported", __u32);
   ("display_primaries_x", Arr HDR_PRIMARIES_COUNT __u32);
   ("display_primaries_y", Arr HDR_PRIMARIES_COUNT __u32); ("white_point_x", __u32);
   ("white_point_y", __u32); ("max_luminance", __u32); ("min_luminance", __u32);
   ("max_content_light_level", __u32); ("max_average_light_level", __u32)].
Definition structs_drm_msm_ext_panel_hdr_ctrl : list (string * cty) :=
  [
  ("drm_msm_ext_panel_hdr_ctrl", Struct [("hdr_state", __u8);
   ("hdr_meta", drm_msm_ext_panel_hdr_metadata)]);
  ("drm_msm_ext_panel_hdr_properties", Struct [("hdr_metadata_type_one", __u8);
   ("hdr_supported", __u32); ("hdr_eotf", __u32); ("hdr_max_luminance", __u32);
   ("hdr_avg_luminance", __u32); ("hdr_min_luminance", __u32)])].
Definition drm_msm_param : cty := Struct [("pipe", __u32); ("param", __u32); ("value", __u64)].
Definition structs_drm_msm_gem_new : list (string * cty) :=
  [
  ("drm_msm_gem_new", Struct [("size", __u64); ("flags", __u32); ("handle", __u32)]);
  ("drm_msm_gem_svm_new", Struct [("hostptr", __u64); ("size", __u64); ("flags", __u32);
   ("handle", __u32)])].
Definition drm_msm_gem_new : cty := type_in structs_drm_msm_gem_new "drm_msm_gem_new".
Definition drm_msm_gem_svm_new : cty := type_in structs_drm_msm_gem_new "drm_msm_gem_svm_new".
Definition drm_msm_gem_info : cty :=
  Struct [("handle", __u32); ("flags", __u32); ("offset", __u64)].
Definition structs_drm_msm_gem_cpu_prep : list (string * cty) :=
  [
  ("drm_msm_gem_cpu_prep", Struct [("handle", __u32); ("op", __u32);
   ("timeout", drm_msm_timespec)]);
  ("drm_msm_gem_cpu_fini", Struct [("handle", __u32)]);
  ("drm_msm_gem_submit_reloc", Struct [("submit_offset", __u32); ("or", __u32); ("shift", __s32);
   ("reloc_idx", __u32); ("reloc_offset", __u64)])].
Definition drm_msm_gem_cpu_prep : cty := type_in structs_drm_msm_gem_cpu_prep "drm_msm_gem_cpu_prep".
Definition drm_msm_gem_cpu_fini : cty := type_in structs_drm_msm_gem_cpu_prep "drm_msm_gem_cpu_fini".
Definition drm_msm_gem_submit_cmd : cty :=
  Struct [("type", __u32); ("submit_idx", __u32); ("submit_offset", __u32); ("size", __u32);
   ("pad", __u32); ("nr_relocs", __u32); ("relocs", __u64)].
Definition drm_msm_gem_submit_bo : cty :=
  Struct [("flags", __u32); ("handle", __u32); ("presumed", __u64)].
Definition drm_msm_gem_submit : cty :=
  Struct [("flags", __u32); ("fence", __u32); ("nr_bos", __u32); ("nr_cmds", __u32);
   ("bos", __u64); ("cmds", __u64); ("fence_fd", __s32); ("queueid", __u32)].
Definition structs_drm_msm_gem_submit_profile_buffer : list (string * cty) :=
  let drm_msm_event_req := Struct [("object_id", __u32); ("object_type", __u32);
   ("event", __u32); ("client_context", __u64); ("index", __u32)] in
  [
  ("drm_msm_gem_submit_profile_buffer", Struct [("time", drm_msm_timespec);
   ("ticks_queued", __u64); ("ticks_submitted", __u64); ("ticks_retired", __u64)]);
  ("drm_msm_wait_fence", Struct [("fence", __u32); ("pad", __u32); ("timeout", drm_msm_timespec)]);
  ("drm_msm_event_req", drm_msm_event_req);
  ("drm_msm_event_resp", Struct [("base", Drm_drm.drm_event); ("info", drm_msm_event_req);
   ("data", Arr 0 __u8)])].
Definition drm_msm_wait_fence : cty := type_in structs_drm_msm_gem_submit_profile_buffer "drm_msm_wait_fence".
Definition drm_msm_event_req : cty := type_in structs_drm_msm_gem_submit_profile_buffer "drm_msm_event_req".
Definition structs_drm_msm_counter : list (string * cty) :=
  [
  ("drm_msm_counter", Struct [("groupid", __u32); ("counterid", int); ("countable", __u32);
   ("counter_lo", __u32); ("counter_hi", __u32)]);
  ("drm_msm_counter_read_op", Struct [("value", __u64); ("groupid", __u32); ("counterid", int)]);
  ("drm_msm_counter_read", Struct [("ops", __u64); ("nr_ops", __u32)])].
Definition drm_msm_counter : cty := type_in structs_drm_msm_counter "drm_msm_counter".
Definition drm_msm_counter_read : cty := type_in structs_drm_msm_counter "drm_msm_counter_read".
Definition structs_drm_msm_gem_syncop : list (string * cty) :=
  [
  ("drm_msm_gem_syncop", Struct [("handle", __u32); ("op", __u32)]);
  ("drm_msm_gem_sync", Struct [("nr_ops", __u32); ("ops", __u64)])].
Definition drm_msm_gem_sync : cty := type_in structs_drm_msm_gem_syncop "drm_msm_gem_sync".
Definition drm_msm_submitqueue : cty :=
  Struct [("flags", __u32); ("prio", __u32); ("id", __u32)].
Definition drm_msm_submitqueue_query : cty :=
  Struct [("data", __u64); ("id", __u32); ("param", __u32); ("len", __u32)].
Definition drm_msm_drm_types : list (string * cty) :=
  ([("drm_msm_timespec", drm_msm_timespec); ("drm_msm_ext_panel_hdr_metadata",
   drm_msm_ext_panel_hdr_metadata)] ++ structs_drm_msm_ext_panel_hdr_ctrl ++
   [("drm_msm_param", drm_msm_param)] ++ structs_drm_msm_gem_new ++ [("drm_msm_gem_info",
   drm_msm_gem_info)] ++ structs_drm_msm_gem_cpu_prep ++ [("drm_msm_gem_submit_cmd",
   drm_msm_gem_submit_cmd); ("drm_msm_gem_submit_bo", drm_msm_gem_submit_bo);
   ("drm_msm_gem_submit", drm_msm_gem_submit)] ++ structs_drm_msm_gem_submit_profile_buffer ++
   structs_drm_msm_counter ++ structs_drm_msm_gem_syncop ++ [("drm_msm_submitqueue",
   drm_msm_submitqueue); ("drm_msm_submitqueue_query", drm_msm_submitqueue_query)])%list.
Definition drm_msm_drm_ioctls : list command := [
  _IOWR "DRM_IOCTL_MSM_GET_PARAM" (chr "d") 64 drm_msm_param;
  _IOWR "DRM_IOCTL_MSM_GEM_NEW" (chr "d") 66 drm_msm_gem_new;
  _IOWR "DRM_IOCTL_MSM_GEM_INFO" (chr "d") 67 drm_msm_gem_info;
  _IOW "DRM_IOCTL_MSM_GEM_CPU_PREP" (chr "d") 68 drm_msm_gem_cpu_prep;
  _IOW "DRM_IOCTL_MSM_GEM_CPU_FINI" (chr "d") 69 drm_msm_gem_cpu_fini;
  _IOWR "DRM_IOCTL_MSM_GEM_SUBMIT" (chr "d") 70 drm_msm_gem_submit;
  _IOW "DRM_IOCTL_MSM_WAIT_FENCE" (chr "d") 71 drm_msm_wait_fence;
  _IOW "DRM_IOCTL_SDE_WB_CONFIG" (chr "d") 128 Drm_sde_drm.sde_drm_wb_cfg;
  _IOW "DRM_IOCTL_MSM_REGISTER_EVENT" (chr "d") 129 drm_msm_event_req;
  _IOW "DRM_IOCTL_MSM_DEREGISTER_EVENT" (chr "d") 130 drm_msm_event_req;
  _IOWR "DRM_IOCTL_MSM_COUNTER_GET" (chr "d") 131 drm_msm_counter;
  _IOW "DRM_IOCTL_MSM_COUNTER_PUT" (chr "d") 132 drm_msm_counter;
  _IOWR "DRM_IOCTL_MSM_COUNTER_READ" (chr "d") 133 drm_msm_counter_read;
  _IOW "DRM_IOCTL_MSM_GEM_SYNC" (chr "d") 134 drm_msm_gem_sync;
  _IOWR "DRM_IOCTL_MSM_GEM_SVM_NEW" (chr "d") 73 drm_msm_gem_svm_new;
  _IOWR "DRM_IOCTL_MSM_SUBMITQUEUE_NEW" (chr "d") 74 drm_msm_submitqueue;
  _IOW "DRM_IOCTL_MSM_SUBMITQUEUE_CLOSE" (chr "d") 75 drm_msm_submitqueue;
  _IOWR "DRM_IOCTL_MSM_SUBMITQUEUE_QUERY" (chr "d") 76 drm_msm_submitqueue_query;
  _IOW "DRM_IOCTL_MSM_RMFB2" (chr "d") 135 uint].
End Drm_msm_drm.

(** ** [drm/msm_drm_pp.h] *)

Module Drm_msm_drm_pp.
Definition PA_VLUT_SIZE : Z := 256.
Definition GAMUT_3D_MODE17_TBL_SZ : Z := 1229.
Definition GAMUT_3D_SCALE_OFF_SZ : Z := 16.
Definition GAMUT_3D_TBL_NUM : Z := 4.
Definition GAMUT_3D_SCALE_OFF_TBL_NUM : Z := 3.
Definition PGC_TBL_LEN : Z := 512.
Definition IGC_TBL_LEN : Z := 256.
Definition HIST_V_SIZE : Z := 256.
Definition structs_drm_msm_pcc_coeff : list (string * cty) :=
  let drm_msm_pcc_coeff := Struct [("c", __u32); ("r", __u32); ("g", __u32); ("b", __u32);
   ("rg", __u32); ("gb", __u32); ("rb", __u32); ("rgb", __u32)] in
  [
  ("drm_msm_pcc_coeff", drm_msm_pcc_coeff);
  ("drm_msm_pcc", Struct [("flags", __u64); ("r", drm_msm_pcc_coeff); ("g", drm_msm_pcc_coeff);
   ("b", drm_msm_pcc_coeff)])].
Definition drm_msm_pa_vlut : cty := Struct [("flags", __u64); ("val", Arr PA_VLUT_SIZE __u32)].
Definition drm_msm_pa_hsic : cty :=
  Struct [("flags", __u64); ("hue", __u32); ("saturation", __u32); ("value", __u32);
   ("contrast", __u32)].
Definition drm_msm_memcol : cty :=
  Struct [("prot_flags", __u64); ("color_adjust_p0", __u32); ("color_adjust_p1", __u32);
   ("color_adjust_p2", __u32); ("blend_gain", __u32); ("sat_hold", __u32); ("val_hold", __u32);
   ("hue_region", __u32); ("sat_region", __u32); ("val_region", __u32)].
Definition structs_drm_msm_3d_col : list (string * cty) :=
  let drm_msm_3d_col := Struct [("c2_c1", __u32); ("c0", __u32)] in
  [
  ("drm_msm_3d_col", drm_msm_3d_col);
  ("drm_msm_3d_gamut", Struct [("flags", __u64); ("mode", __u32);
   ("scale_off", Arr GAMUT_3D_SCALE_OFF_TBL_NUM (Arr GAMUT_3D_SCALE_OFF_SZ __u32));
   ("col", Arr GAMUT_3D_TBL_NUM (Arr GAMUT_3D_MODE17_TBL_SZ drm_msm_3d_col))])].
Definition drm_msm_pgc_lut : cty :=
  Struct [("flags", __u64); ("c0", Arr PGC_TBL_LEN __u32); ("c1", Arr PGC_TBL_LEN __u32);
   ("c2", Arr PGC_TBL_LEN __u32)].
Definition drm_msm_igc_lut : cty :=
  Struct [("flags", __u64); ("c0", Arr IGC_TBL_LEN __u32); ("c1", Arr IGC_TBL_LEN __u32);
   ("c2", Arr IGC_TBL_LEN __u32); ("strength", __u32)].
Definition drm_msm_hist : cty := Struct [("flags", __u64); ("data", Arr HIST_V_SIZE __u32)].
Definition drm_msm_drm_pp_types : list (string * cty) :=
  (structs_drm_msm_pcc_coeff ++ [("drm_msm_pa_vlut", drm_msm_pa_vlut); ("drm_msm_pa_hsic",
   drm_msm_pa_hsic); ("drm_msm_memcol", drm_msm_memcol)] ++ structs_drm_msm_3d_col ++
   [("drm_msm_pgc_lut", drm_msm_pgc_lut); ("drm_msm_igc_lut", drm_msm_igc_lut);
   ("drm_msm_hist", drm_msm_hist)])%list.
End Drm_msm_drm_pp.

(** ** [drm/nouveau_drm.h] *)

Module Drm_nouveau_drm.
Definition structs_drm_nouveau_gem_info : list (string * cty) :=
  let drm_nouveau_gem_info := Struct [("handle", uint32_t); ("domain", uint32_t);
   ("size", uint64_t); ("offset", uint64_t); ("map_handle", uint64_t); ("tile_mode", uint32_t);
   ("tile_flags", uint32_t)] in
  [
  ("drm_nouveau_gem_info", drm_nouveau_gem_info);
  ("drm_nouveau_gem_new", Struct [("info", drm_nouveau_gem_info); ("channel_hint", uint32_t);
   ("align", uint32_t)])].
Definition structs_drm_nouveau_gem_pushbuf_bo_presumed : list (string * cty) :=
  let drm_nouveau_gem_pushbuf_bo_presumed := Struct [("valid", uint32_t); ("domain", uint32_t);
   ("offset", uint64_t)] in
  [
  ("drm_nouveau_gem_pushbuf_bo_presumed", drm_nouveau_gem_pushbuf_bo_presumed);
  ("drm_nouveau_gem_pushbuf_bo", Struct [("user_priv", uint64_t); ("handle", uint32_t);
   ("read_domains", uint32_t); ("write_domains", uint32_t); ("valid_domains", uint32_t);
   ("presumed", drm_nouveau_gem_pushbuf_bo_presumed)])].
Definition drm_nouveau_gem_pushbuf_reloc : cty :=
  Struct [("reloc_bo_index", uint32_t); ("reloc_bo_offset", uint32_t); ("bo_index", uint32_t);
   ("flags", uint32_t); ("data", uint32_t); ("vor", uint32_t); ("tor", uint32_t)].
Definition structs_drm_nouveau_gem_pushbuf_push : list (string * cty) :=
  [
  ("drm_nouveau_gem_pushbuf_push", Struct [("bo_index", uint32_t); ("pad", uint32_t);
   ("offset", uint64_t); ("length", uint64_t)]);
  ("drm_nouveau_gem_pushbuf", Struct [("channel", uint32_t); ("nr_buffers", uint32_t);
   ("buffers", uint64_t); ("nr_relocs", uint32_t); ("nr_push", uint32_t); ("relocs", uint64_t);
   ("push", uint64_t); ("suffix0", uint32_t); ("suffix1", uint32_t);
   ("vram_available", uint64_t); ("gart_available", uint64_t)])].
Definition structs_drm_nouveau_gem_cpu_prep : list (string * cty) :=
  [
  ("drm_nouveau_gem_cpu_prep", Struct [("handle", uint32_t); ("flags", uint32_t)]);
  ("drm_nouveau_gem_cpu_fini", Struct [("handle", uint32_t)])].
Definition drm_nouveau_drm_types : list (string * cty) :=
  (structs_drm_nouveau_gem_info ++ structs_drm_nouveau_gem_pushbuf_bo_presumed ++
   [("drm_nouveau_gem_pushbuf_reloc", drm_nouveau_gem_pushbuf_reloc)] ++
   structs_drm_nouveau_gem_pushbuf_push ++ structs_drm_nouveau_gem_cpu_prep)%list.
Definition drm_nouveau_drm_ioctls : list command := [
  _IOWR "DRM_IOCTL_NOUVEAU_GEM_NEW" (chr "d") (0x40 + 0x40)
    (type_in structs_drm_nouveau_gem_info "drm_nouveau_gem_new");
  _IOWR "DRM_IOCTL_NOUVEAU_GEM_PUSHBUF" (chr "d") (0x40 + 0x41)
    (type_in structs_drm_nouveau_gem_pushbuf_push "drm_nouveau_gem_pushbuf");
  _IOW "DRM_IOCTL_NOUVEAU_GEM_CPU_PREP" (chr "d") (0x40 + 0x42)
    (type_in structs_drm_nouveau_gem_cpu_prep "drm_nouveau_gem_cpu_prep");
  _IOW "DRM_IOCTL_NOUVEAU_GEM_CPU_FINI" (chr "d") (0x40 + 0x43)
    (type_in structs_drm_nouveau_gem_cpu_prep "drm_nouveau_gem_cpu_fini");
  _IOWR "DRM_IOCTL_NOUVEAU_GEM_INFO" (chr "d") (0x40 + 0x44)
    (type_in structs_drm_nouveau_gem_info "drm_nouveau_gem_info")].
End Drm_nouveau_drm.

(** ** [drm/qxl_drm.h] *)

Module Drm_qxl_drm.
Definition structs_drm_qxl_alloc : list (string * cty) :=
  [
  ("drm_qxl_alloc", Struct [("size", uint32_t); ("handle", uint32_t)]);
  ("drm_qxl_map", Struct [("offset", uint64_t); ("handle", uint32_t); ("pad", uint32_t)])].
Definition drm_qxl_alloc : cty := type_in structs_drm_qxl_alloc "drm_qxl_alloc".
Definition drm_qxl_map : cty := type_in structs_drm_qxl_alloc "drm_qxl_map".
Definition structs_drm_qxl_reloc : list (string * cty) :=
  [
  ("drm_qxl_reloc", Struct [("src_offset", uint64_t); ("dst_offset", uint64_t);
   ("src_handle", uint32_t); ("dst_handle", uint32_t); ("reloc_type", uint32_t);
   ("pad", uint32_t)]);
  ("drm_qxl_command", Struct [("command", uint64_t); ("relocs", uint64_t); ("type", uint32_t);
   ("command_size", uint32_t); ("relocs_num", uint32_t); ("pad", uint32_t)]);
  ("drm_qxl_execbuffer", Struct [("flags", uint32_t); ("commands_num", uint32_t);
   ("commands", uint64_t)]);
  ("drm_qxl_update_area", Struct [("handle", uint32_t); ("top", uint32_t); ("left", uint32_t);
   ("bottom", uint32_t); ("right", uint32_t); ("pad", uint32_t)])].
Definition drm_qxl_execbuffer : cty := type_in structs_drm_qxl_reloc "drm_qxl_execbuffer".
Definition drm_qxl_update_area : cty := type_in structs_drm_qxl_reloc "drm_qxl_update_area".
Definition structs_drm_qxl_getparam : list (string * cty) :=
  [
  ("drm_qxl_getparam", Struct [("param", uint64_t); ("value", uint64_t)]);
  ("drm_qxl_clientcap", Struct [("index", uint32_t); ("pad", uint32_t)]);
  ("drm_qxl_alloc_surf", Struct [("format", uint32_t); ("width", uint32_t); ("height", uint32_t);
   ("stride", int32_t); ("handle", uint32_t); ("pad", uint32_t)])].
Definition drm_qxl_getparam : cty := type_in structs_drm_qxl_getparam "drm_qxl_getparam".
Definition drm_qxl_clientcap : cty := type_in structs_drm_qxl_getparam "drm_qxl_clientcap".
Definition drm_qxl_alloc_surf : cty := type_in structs_drm_qxl_getparam "drm_qxl_alloc_surf".
Definition drm_qxl_drm_types : list (string * cty) :=
  (structs_drm_qxl_alloc ++ structs_drm_qxl_reloc ++ structs_drm_qxl_getparam)%list.
Definition drm_qxl_drm_ioctls : list command := [
  _IOWR "DRM_IOCTL_QXL_ALLOC" (chr "d") 64 drm_qxl_alloc;
  _IOWR "DRM_IOCTL_QXL_MAP" (chr "d") 65 drm_qxl_map;
  _IOW "DRM_IOCTL_QXL_EXECBUFFER" (chr "d") 66 drm_qxl_execbuffer;
  _IOW "DRM_IOCTL_QXL_UPDATE_AREA" (chr "d") 67 drm_qxl_update_area;
  _IOWR "DRM_IOCTL_QXL_GETPARAM" (chr "d") 68 drm_qxl_getparam;
  _IOW "DRM_IOCTL_QXL_CLIENTCAP" (chr "d") 69 drm_qxl_clientcap;
  _IOWR "DRM_IOCTL_QXL_ALLOC_SURF" (chr "d") 70 drm_qxl_alloc_surf].
End Drm_qxl_drm.

(** ** [drm/r128_drm.h] *)

Module Drm_r128_drm.
Definition R128_NR_SAREA_CLIPRECTS : Z := 12.
Definition R128_NR_TEX_HEAPS : Z := 2.
Definition R128_MAX_TEXTURE_LEVELS : Z := 11.
Definition R128_MAX_TEXTURE_UNITS : Z := 2.
Definition drm_r128_context_regs_t : cty :=
  Struct [("dst_pitch_offset_c", uint); ("dp_gui_master_cntl_c", uint); ("sc_top_left_c", uint);
   ("sc_bottom_right_c", uint); ("z_offset_c", uint); ("z_pitch_c", uint);
   ("z_sten_cntl_c", uint); ("tex_cntl_c", uint); ("misc_3d_state_cntl_reg", uint);
   ("texture_clr_cmp_clr_c", uint); ("texture_clr_cmp_msk_c", uint); ("fog_color_c", uint);
   ("tex_size_pitch_c", uint); ("constant_color_c", uint); ("pm4_vc_fpu_setup", uint);
   ("setup_cntl", uint); ("dp_write_mask", uint); ("sten_ref_mask_c", uint);
   ("plane_3d_mask_c", uint); ("window_xy_offset", uint); ("scale_3d_cntl", uint)].
Definition drm_r128_texture_regs_t : cty :=
  Struct [("tex_cntl", uint); ("tex_combine_cntl", uint); ("tex_size_pitch", uint);
   ("tex_offset", Arr R128_MAX_TEXTURE_LEVELS uint); ("tex_border_color", uint)].
Definition drm_r128_sarea : cty :=
  Struct [("context_state", drm_r128_context_regs_t);
   ("tex_state", Arr R128_MAX_TEXTURE_UNITS drm_r128_texture_regs_t); ("dirty", uint);
   ("vertsize", uint); ("vc_format", uint);
   ("boxes", Arr R128_NR_SAREA_CLIPRECTS Drm_drm.drm_clip_rect); ("nbox", uint);
   ("last_frame", uint); ("last_dispatch", uint);
   ("tex_list", Arr R128_NR_TEX_HEAPS (Arr 65 Drm_drm.drm_tex_region));
   ("tex_age", Arr R128_NR_TEX_HEAPS uint); ("ctx_owner", int); ("pfAllowPageFlip", int);
   ("pfCurrentPage", int)].
Definition drm_r128_sarea_t : cty := drm_r128_sarea.
Definition drm_r128_init : cty :=
  Struct [("func", enum); ("sarea_priv_offset", ulong); ("is_pci", int); ("cce_mode", int);
   ("cce_secure", int); ("ring_size", int); ("usec_timeout", int); ("fb_bpp", uint);
   ("front_offset", uint); ("front_pitch", uint); ("back_offset", uint); ("back_pitch", uint);
   ("depth_bpp", uint); ("depth_offset", uint); ("depth_pitch", uint); ("span_offset", uint);
   ("fb_offset", ulong); ("mmio_offset", ulong); ("ring_offset", ulong);
   ("ring_rptr_offset", ulong); ("buffers_offset", ulong); ("agp_textures_offset", ulong)].
Definition structs_drm_r128_init_t : list (string * cty) :=
  [
  ("drm_r128_init_t", drm_r128_init);
  ("drm_r128_cce_stop", Struct [("flush", int); ("idle", int)])].
Definition drm_r128_init_t : cty := type_in structs_drm_r128_init_t "drm_r128_init_t".
Definition drm_r128_cce_stop : cty := type_in structs_drm_r128_init_t "drm_r128_cce_stop".
Definition structs_drm_r128_cce_stop_t : list (string * cty) :=
  [
  ("drm_r128_cce_stop_t", drm_r128_cce_stop);
  ("drm_r128_clear", Struct [("flags", uint); ("clear_color", uint); ("clear_depth", uint);
   ("color_mask", uint); ("depth_mask", uint)])].
Definition drm_r128_cce_stop_t : cty := type_in structs_drm_r128_cce_stop_t "drm_r128_cce_stop_t".
Definition drm_r128_clear : cty := type_in structs_drm_r128_cce_stop_t "drm_r128_clear".
Definition structs_drm_r128_clear_t : list (string * cty) :=
  [
  ("drm_r128_clear_t", drm_r128_clear);
  ("drm_r128_vertex", Struct [("prim", int); ("idx", int); ("count", int); ("discard", int)])].
Definition drm_r128_clear_t : cty := type_in structs_drm_r128_clear_t "drm_r128_clear_t".
Definition drm_r128_vertex : cty := type_in structs_drm_r128_clear_t "drm_r128_vertex".
Definition structs_drm_r128_vertex_t : list (string * cty) :=
  [
  ("drm_r128_vertex_t", drm_r128_vertex);
  ("drm_r128_indices", Struct [("prim", int); ("idx", int); ("start", int); ("end", int);
   ("discard", int)])].
Definition drm_r128_vertex_t : cty := type_in structs_drm_r128_vertex_t "drm_r128_vertex_t".
Definition drm_r128_indices : cty := type_in structs_drm_r128_vertex_t "drm_r128_indices".
Definition structs_drm_r128_indices_t : list (string * cty) :=
  [
  ("drm_r128_indices_t", drm_r128_indices);
  ("drm_r128_blit", Struct [("idx", int); ("pitch", int); ("offset", int); ("format", int);
   ("x", ushort); ("y", ushort); ("width", ushort); ("height", ushort)])].
Definition drm_r128_indices_t : cty := type_in structs_drm_r128_indices_t "drm_r128_indices_t".
Definition drm_r128_blit : cty := type_in structs_drm_r128_indices_t "drm_r128_blit".
Definition structs_drm_r128_blit_t : list (string * cty) :=
  [
  ("drm_r128_blit_t", drm_r128_blit);
  ("drm_r128_depth", Struct [("func", enum); ("n", int); ("x", ptr); ("y", ptr); ("buffer", ptr);
   ("mask", ptr)])].
Definition drm_r128_blit_t : cty := type_in structs_drm_r128_blit_t "drm_r128_blit_t".
Definition drm_r128_depth : cty := type_in structs_drm_r128_blit_t "drm_r128_depth".
Definition structs_drm_r128_depth_t : list (string * cty) :=
  [
  ("drm_r128_depth_t", drm_r128_depth);
  ("drm_r128_stipple", Struct [("mask", ptr)])].
Definition drm_r128_depth_t : cty := type_in structs_drm_r128_depth_t "drm_r128_depth_t".
Definition drm_r128_stipple : cty := type_in structs_drm_r128_depth_t "drm_r128_stipple".
Definition structs_drm_r128_stipple_t : list (string * cty) :=
  [
  ("drm_r128_stipple_t", drm_r128_stipple);
  ("drm_r128_indirect", Struct [("idx", int); ("start", int); ("end", int); ("discard", int)])].
Definition drm_r128_stipple_t : cty := type_in structs_drm_r128_stipple_t "drm_r128_stipple_t".
Definition drm_r128_indirect : cty := type_in structs_drm_r128_stipple_t "drm_r128_indirect".
Definition structs_drm_r128_indirect_t : list (string * cty) :=
  [
  ("drm_r128_indirect_t", drm_r128_indirect);
  ("drm_r128_fullscreen", Struct [("func", enum)])].
Definition drm_r128_indirect_t : cty := type_in structs_drm_r128_indirect_t "drm_r128_indirect_t".
Definition drm_r128_fullscreen : cty := type_in structs_drm_r128_indirect_t "drm_r128_fullscreen".
Definition drm_r128_fullscreen_t : cty := drm_r128_fullscreen.
Definition drm_r128_getparam : cty := Struct [("param", int); ("value", ptr)].
Definition drm_r128_getparam_t : cty := drm_r128_getparam.
Definition drm_r128_drm_types : list (string * cty) :=
  ([("drm_r128_context_regs_t", drm_r128_context_regs_t); ("drm_r128_texture_regs_t",
   drm_r128_texture_regs_t); ("drm_r128_sarea", drm_r128_sarea); ("drm_r128_sarea_t",
   drm_r128_sarea_t); ("drm_r128_init", drm_r128_init)] ++ structs_drm_r128_init_t ++
   structs_drm_r128_cce_stop_t ++ structs_drm_r128_clear_t ++ structs_drm_r128_vertex_t ++
   structs_drm_r128_indices_t ++ structs_drm_r128_blit_t ++ structs_drm_r128_depth_t ++
   structs_drm_r128_stipple_t ++ structs_drm_r128_indirect_t ++ [("drm_r128_fullscreen_t",
   drm_r128_fullscreen_t); ("drm_r128_getparam", drm_r128_getparam); ("drm_r128_getparam_t",
   drm_r128_getparam_t)])%list.
Definition drm_r128_drm_ioctls : list command := [
  _IOW "DRM_IOCTL_R128_INIT" (chr "d") 64 drm_r128_init_t;
  _IO "DRM_IOCTL_R128_CCE_START" (chr "d") 65;
  _IOW "DRM_IOCTL_R128_CCE_STOP" (chr "d") 66 drm_r128_cce_stop_t;
  _IO "DRM_IOCTL_R128_CCE_RESET" (chr "d") 67;
  _IO "DRM_IOCTL_R128_CCE_IDLE" (chr "d") 68;
  _IO "DRM_IOCTL_R128_RESET" (chr "d") 70;
  _IO "DRM_IOCTL_R128_SWAP" (chr "d") 71;
  _IOW "DRM_IOCTL_R128_CLEAR" (chr "d") 72 drm_r128_clear_t;
  _IOW "DRM_IOCTL_R128_VERTEX" (chr "d") 73 drm_r128_vertex_t;
  _IOW "DRM_IOCTL_R128_INDICES" (chr "d") 74 drm_r128_indices_t;
  _IOW "DRM_IOCTL_R128_BLIT" (chr "d") 75 drm_r128_blit_t;
  _IOW "DRM_IOCTL_R128_DEPTH" (chr "d") 76 drm_r128_depth_t;
  _IOW "DRM_IOCTL_R128_STIPPLE" (chr "d") 77 drm_r128_stipple_t;
  _IOWR "DRM_IOCTL_R128_INDIRECT" (chr "d") 79 drm_r128_indirect_t;
  _IOW "DRM_IOCTL_R128_FULLSCREEN" (chr "d") 80 drm_r128_fullscreen_t;
  _IOWR "DRM_IOCTL_R128_GETPARAM" (chr "d") 82 drm_r128_getparam_t;
  _IO "DRM_IOCTL_R128_FLIP" (chr "d") 83].
End Drm_r128_drm.

(** ** [drm/radeon_drm.h] *)

Module Drm_radeon_drm.
Definition RADEON_NR_SAREA_CLIPRECTS : Z := 12.
Definition RADEON_NR_TEX_HEAPS : Z := 2.
Definition RADEON_MAX_TEXTURE_UNITS : Z := 3.
Definition drm_radeon_cmd_header_t : cty :=
  Union [("i", int); ("header", Struct [("cmd_type", uchar); ("pad0", uchar); ("pad1", uchar);
   ("pad2", uchar)]); ("packet", Struct [("cmd_type", uchar); ("packet_id", uchar);
   ("pad0", uchar); ("pad1", uchar)]); ("scalars", Struct [("cmd_type", uchar);
   ("offset", uchar); ("stride", uchar); ("count", uchar)]);
   ("vectors", Struct [("cmd_type", uchar); ("offset", uchar); ("stride", uchar);
   ("count", uchar)]); ("veclinear", Struct [("cmd_type", uchar); ("addr_lo", uchar);
   ("addr_hi", uchar); ("count", uchar)]); ("dma", Struct [("cmd_type", uchar);
   ("buf_idx", uchar); ("pad0", uchar); ("pad1", uchar)]); ("wait", Struct [("cmd_type", uchar);
   ("flags", uchar); ("pad0", uchar); ("pad1", uchar)])].
Definition drm_r300_cmd_header_t : cty :=
  Union [("u", uint); ("header", Struct [("cmd_type", uchar); ("pad0", uchar); ("pad1", uchar);
   ("pad2", uchar)]); ("packet0", Struct [("cmd_type", uchar); ("count", uchar);
   ("reglo", uchar); ("reghi", uchar)]); ("vpu", Struct [("cmd_type", uchar); ("count", uchar);
   ("adrlo", uchar); ("adrhi", uchar)]); ("packet3", Struct [("cmd_type", uchar);
   ("packet", uchar); ("pad0", uchar); ("pad1", uchar)]); ("delay", Struct [("cmd_type", uchar);
   ("packet", uchar); ("count", ushort)]); ("dma", Struct [("cmd_type", uchar);
   ("buf_idx", uchar); ("pad0", uchar); ("pad1", uchar)]); ("wait", Struct [("cmd_type", uchar);
   ("flags", uchar); ("pad0", uchar); ("pad1", uchar)]); ("scratch", Struct [("cmd_type", uchar);
   ("reg", uchar); ("n_bufs", uchar); ("flags", uchar)]); ("r500fp", Struct [("cmd_type", uchar);
   ("count", uchar); ("adrlo", uchar); ("adrhi_flags", uchar)])].
Definition radeon_color_regs_t : cty :=
  Struct [("red", uint); ("green", uint); ("blue", uint); ("alpha", uint)].
Definition drm_radeon_context_regs_t : cty :=
  Struct [("pp_misc", uint); ("pp_fog_color", uint); ("re_solid_color", uint);
   ("rb3d_blendcntl", uint); ("rb3d_depthoffset", uint); ("rb3d_depthpitch", uint);
   ("rb3d_zstencilcntl", uint); ("pp_cntl", uint); ("rb3d_cntl", uint);
   ("rb3d_coloroffset", uint); ("re_width_height", uint); ("rb3d_colorpitch", uint);
   ("se_cntl", uint); ("se_coord_fmt", uint); ("re_line_pattern", uint); ("re_line_state", uint);
   ("se_line_width", uint); ("pp_lum_matrix", uint); ("pp_rot_matrix_0", uint);
   ("pp_rot_matrix_1", uint); ("rb3d_stencilrefmask", uint); ("rb3d_ropcntl", uint);
   ("rb3d_planemask", uint); ("se_vport_xscale", uint); ("se_vport_xoffset", uint);
   ("se_vport_yscale", uint); ("se_vport_yoffset", uint); ("se_vport_zscale", uint);
   ("se_vport_zoffset", uint); ("se_cntl_status", uint); ("re_top_left", uint);
   ("re_misc", uint)].
Definition structs_drm_radeon_context2_regs_t : list (string * cty) :=
  [
  ("drm_radeon_context2_regs_t", Struct [("se_zbias_factor", uint); ("se_zbias_constant", uint)]);
  ("drm_radeon_texture_regs_t", Struct [("pp_txfilter", uint); ("pp_txformat", uint);
   ("pp_txoffset", uint); ("pp_txcblend", uint); ("pp_txablend", uint); ("pp_tfactor", uint);
   ("pp_border_color", uint)])].
Definition drm_radeon_context2_regs_t : cty := type_in structs_drm_radeon_context2_regs_t "drm_radeon_context2_regs_t".
Definition drm_radeon_texture_regs_t : cty := type_in structs_drm_radeon_context2_regs_t "drm_radeon_texture_regs_t".
Definition drm_radeon_state_t : cty :=
  Struct [("context", drm_radeon_context_regs_t);
   ("tex", Arr RADEON_MAX_TEXTURE_UNITS drm_radeon_texture_regs_t);
   ("context2", drm_radeon_context2_regs_t); ("dirty", uint)].
Definition drm_radeon_sarea_t : cty :=
  Struct [("context_state", drm_radeon_context_regs_t);
   ("tex_state", Arr RADEON_MAX_TEXTURE_UNITS drm_radeon_texture_regs_t); ("dirty", uint);
   ("vertsize", uint); ("vc_format", uint);
   ("boxes", Arr RADEON_NR_SAREA_CLIPRECTS Drm_drm.drm_clip_rect); ("nbox", uint);
   ("last_frame", uint); ("last_dispatch", uint); ("last_clear", uint);
   ("tex_list", Arr RADEON_NR_TEX_HEAPS (Arr 65 Drm_drm.drm_tex_region));
   ("tex_age", Arr RADEON_NR_TEX_HEAPS uint); ("ctx_owner", int); ("pfState", int);
   ("pfCurrentPage", int); ("crtc2_base", int); ("tiling_enabled", int)].
Definition drm_radeon_init : cty :=
  Struct [("func", enum); ("sarea_priv_offset", ulong); ("is_pci", int); ("cp_mode", int);
   ("gart_size", int); ("ring_size", int); ("usec_timeout", int); ("fb_bpp", uint);
   ("front_offset", uint); ("front_pitch", uint); ("back_offset", uint); ("back_pitch", uint);
   ("depth_bpp", uint); ("depth_offset", uint); ("depth_pitch", uint); ("fb_offset", ulong);
   ("mmio_offset", ulong); ("ring_offset", ulong); ("ring_rptr_offset", ulong);
   ("buffers_offset", ulong); ("gart_textures_offset", ulong)].
Definition structs_drm_radeon_init_t : list (string * cty) :=
  [
  ("drm_radeon_init_t", drm_radeon_init);
  ("drm_radeon_cp_stop", Struct [("flush", int); ("idle", int)])].
Definition drm_radeon_init_t : cty := type_in structs_drm_radeon_init_t "drm_radeon_init_t".
Definition drm_radeon_cp_stop : cty := type_in structs_drm_radeon_init_t "drm_radeon_cp_stop".
Definition structs_drm_radeon_cp_stop_t : list (string * cty) :=
  [
  ("drm_radeon_cp_stop_t", drm_radeon_cp_stop);
  ("drm_radeon_fullscreen", Struct [("func", enum)])].
Definition drm_radeon_cp_stop_t : cty := type_in structs_drm_radeon_cp_stop_t "drm_radeon_cp_stop_t".
Definition drm_radeon_fullscreen : cty := type_in structs_drm_radeon_cp_stop_t "drm_radeon_fullscreen".
Definition drm_radeon_fullscreen_t : cty := drm_radeon_fullscreen.
Definition drm_radeon_clear_rect : cty := Union [("f", Arr 5 c_float); ("ui", Arr 5 uint)].
Definition structs_drm_radeon_clear_rect_t : list (string * cty) :=
  [
  ("drm_radeon_clear_rect_t", drm_radeon_clear_rect);
  ("drm_radeon_clear", Struct [("flags", uint); ("clear_color", uint); ("clear_depth", uint);
   ("color_mask", uint); ("depth_mask", uint); ("depth_boxes", ptr)])].
Definition drm_radeon_clear : cty := type_in structs_drm_radeon_clear_rect_t "drm_radeon_clear".
Definition structs_drm_radeon_clear_t : list (string * cty) :=
  [
  ("drm_radeon_clear_t", drm_radeon_clear);
  ("drm_radeon_vertex", Struct [("prim", int); ("idx", int); ("count", int); ("discard", int)])].
Definition drm_radeon_clear_t : cty := type_in structs_drm_radeon_clear_t "drm_radeon_clear_t".
Definition drm_radeon_vertex : cty := type_in structs_drm_radeon_clear_t "drm_radeon_vertex".
Definition structs_drm_radeon_vertex_t : list (string * cty) :=
  [
  ("drm_radeon_vertex_t", drm_radeon_vertex);
  ("drm_radeon_indices", Struct [("prim", int); ("idx", int); ("start", int); ("end", int);
   ("discard", int)])].
Definition drm_radeon_vertex_t : cty := type_in structs_drm_radeon_vertex_t "drm_radeon_vertex_t".
Definition drm_radeon_indices : cty := type_in structs_drm_radeon_vertex_t "drm_radeon_indices".
Definition structs_drm_radeon_indices_t : list (string * cty) :=
  [
  ("drm_radeon_indices_t", drm_radeon_indices);
  ("drm_radeon_vertex2", Struct [("idx", int); ("discard", int); ("nr_states", int);
   ("state", ptr); ("nr_prims", int); ("prim", ptr)])].
Definition drm_radeon_indices_t : cty := type_in structs_drm_radeon_indices_t "drm_radeon_indices_t".
Definition drm_radeon_vertex2 : cty := type_in structs_drm_radeon_indices_t "drm_radeon_vertex2".
Definition structs_drm_radeon_vertex2_t : list (string * cty) :=
  [
  ("drm_radeon_vertex2_t", drm_radeon_vertex2);
  ("drm_radeon_cmd_buffer", Struct [("bufsz", int); ("buf", ptr); ("nbox", int); ("boxes", ptr)])].
Definition drm_radeon_vertex2_t : cty := type_in structs_drm_radeon_vertex2_t "drm_radeon_vertex2_t".
Definition drm_radeon_cmd_buffer : cty := type_in structs_drm_radeon_vertex2_t "drm_radeon_cmd_buffer".
Definition structs_drm_radeon_cmd_buffer_t : list (string * cty) :=
  [
  ("drm_radeon_cmd_buffer_t", drm_radeon_cmd_buffer);
  ("drm_radeon_tex_image", Struct [("x", uint); ("y", uint); ("width", uint); ("height", uint);
   ("data", ptr)])].
Definition drm_radeon_cmd_buffer_t : cty := type_in structs_drm_radeon_cmd_buffer_t "drm_radeon_cmd_buffer_t".
Definition drm_radeon_tex_image : cty := type_in structs_drm_radeon_cmd_buffer_t "drm_radeon_tex_image".
Definition structs_drm_radeon_tex_image_t : list (string * cty) :=
  [
  ("drm_radeon_tex_image_t", drm_radeon_tex_image);
  ("drm_radeon_texture", Struct [("offset", uint); ("pitch", int); ("format", int);
   ("width", int); ("height", int); ("image", ptr)])].
Definition drm_radeon_texture : cty := type_in structs_drm_radeon_tex_image_t "drm_radeon_texture".
Definition structs_drm_radeon_texture_t : list (string * cty) :=
  [
  ("drm_radeon_texture_t", drm_radeon_texture);
  ("drm_radeon_stipple", Struct [("mask", ptr)])].
Definition drm_radeon_texture_t : cty := type_in structs_drm_radeon_texture_t "drm_radeon_texture_t".
Definition drm_radeon_stipple : cty := type_in structs_drm_radeon_texture_t "drm_radeon_stipple".
Definition structs_drm_radeon_stipple_t : list (string * cty) :=
  [
  ("drm_radeon_stipple_t", drm_radeon_stipple);
  ("drm_radeon_indirect", Struct [("idx", int); ("start", int); ("end", int); ("discard", int)])].
Definition drm_radeon_stipple_t : cty := type_in structs_drm_radeon_stipple_t "drm_radeon_stipple_t".
Definition drm_radeon_indirect : cty := type_in structs_drm_radeon_stipple_t "drm_radeon_indirect".
Definition drm_radeon_indirect_t : cty := drm_radeon_indirect.
Definition drm_radeon_getparam : cty := Struct [("param", int); ("value", ptr)].
Definition drm_radeon_getparam_t : cty := drm_radeon_getparam.
Definition drm_radeon_mem_alloc : cty :=
  Struct [("region", int); ("alignment", int); ("size", int); ("region_offset", ptr)].
Definition structs_drm_radeon_mem_alloc_t : list (string * cty) :=
  [
  ("drm_radeon_mem_alloc_t", drm_radeon_mem_alloc);
  ("drm_radeon_mem_free", Struct [("region", int); ("region_offset", int)])].
Definition drm_radeon_mem_alloc_t : cty := type_in structs_drm_radeon_mem_alloc_t "drm_radeon_mem_alloc_t".
Definition drm_radeon_mem_free : cty := type_in structs_drm_radeon_mem_alloc_t "drm_radeon_mem_free".
Definition structs_drm_radeon_mem_free_t : list (string * cty) :=
  [
  ("drm_radeon_mem_free_t", drm_radeon_mem_free);
  ("drm_radeon_mem_init_heap", Struct [("region", int); ("size", int); ("start", int)])].
Definition drm_radeon_mem_free_t : cty := type_in structs_drm_radeon_mem_free_t "drm_radeon_mem_free_t".
Definition drm_radeon_mem_init_heap : cty := type_in structs_drm_radeon_mem_free_t "drm_radeon_mem_init_heap".
Definition structs_drm_radeon_mem_init_heap_t : list (string * cty) :=
  [
  ("drm_radeon_mem_init_heap_t", drm_radeon_mem_init_heap);
  ("drm_radeon_irq_emit", Struct [("irq_seq", ptr)])].
Definition drm_radeon_mem_init_heap_t : cty := type_in structs_drm_radeon_mem_init_heap_t "drm_radeon_mem_init_heap_t".
Definition drm_radeon_irq_emit : cty := type_in structs_drm_radeon_mem_init_heap_t "drm_radeon_irq_emit".
Definition structs_drm_radeon_irq_emit_t : list (string * cty) :=
  [
  ("drm_radeon_irq_emit_t", drm_radeon_irq_emit);
  ("drm_radeon_irq_wait", Struct [("irq_seq", int)])].
Definition drm_radeon_irq_emit_t : cty := type_in structs_drm_radeon_irq_emit_t "drm_radeon_irq_emit_t".
Definition drm_radeon_irq_wait : cty := type_in structs_drm_radeon_irq_emit_t "drm_radeon_irq_wait".
Definition structs_drm_radeon_irq_wait_t : list (string * cty) :=
  [
  ("drm_radeon_irq_wait_t", drm_radeon_irq_wait);
  ("drm_radeon_setparam", Struct [("param", uint); ("value", __s64)])].
Definition drm_radeon_irq_wait_t : cty := type_in structs_drm_radeon_irq_wait_t "drm_radeon_irq_wait_t".
Definition drm_radeon_setparam : cty := type_in structs_drm_radeon_irq_wait_t "drm_radeon_setparam".
Definition drm_radeon_setparam_t : cty := drm_radeon_setparam.
Definition drm_radeon_surface_alloc : cty :=
  Struct [("address", uint); ("size", uint); ("flags", uint)].
Definition structs_drm_radeon_surface_alloc_t : list (string * cty) :=
  [
  ("drm_radeon_surface_alloc_t", drm_radeon_surface_alloc);
  ("drm_radeon_surface_free", Struct [("address", uint)])].
Definition drm_radeon_surface_alloc_t : cty := type_in structs_drm_radeon_surface_alloc_t "drm_radeon_surface_alloc_t".
Definition drm_radeon_surface_free : cty := type_in structs_drm_radeon_surface_alloc_t "drm_radeon_surface_free".
Definition drm_radeon_surface_free_t : cty := drm_radeon_surface_free.
Definition drm_radeon_gem_info : cty :=
  Struct [("gart_size", uint64_t); ("vram_size", uint64_t); ("vram_visible", uint64_t)].
Definition drm_radeon_gem_create : cty :=
  Struct [("size", uint64_t); ("alignment", uint64_t); ("handle", uint32_t);
   ("initial_domain", uint32_t); ("flags", uint32_t)].
Definition drm_radeon_gem_userptr : cty :=
  Struct [("addr", uint64_t); ("size", uint64_t); ("flags", uint32_t); ("handle", uint32_t)].
Definition structs_drm_radeon_gem_set_tiling : list (string * cty) :=
  [
  ("drm_radeon_gem_set_tiling", Struct [("handle", uint32_t); ("tiling_flags", uint32_t);
   ("pitch", uint32_t)]);
  ("drm_radeon_gem_get_tiling", Struct [("handle", uint32_t); ("tiling_flags", uint32_t);
   ("pitch", uint32_t)]);
  ("drm_radeon_gem_mmap", Struct [("handle", uint32_t); ("pad", uint32_t); ("offset", uint64_t);
   ("size", uint64_t); ("addr_ptr", uint64_t)]);
  ("drm_radeon_gem_set_domain", Struct [("handle", uint32_t); ("read_domains", uint32_t);
   ("write_domain", uint32_t)]);
  ("drm_radeon_gem_wait_idle", Struct [("handle", uint32_t); ("pad", uint32_t)]);
  ("drm_radeon_gem_busy", Struct [("handle", uint32_t); ("domain", uint32_t)]);
  ("drm_radeon_gem_pread", Struct [("handle", uint32_t); ("pad", uint32_t); ("offset", uint64_t);
   ("size", uint64_t); ("data_ptr", uint64_t)]);
  ("drm_radeon_gem_pwrite", Struct [("handle", uint32_t); ("pad", uint32_t);
   ("offset", uint64_t); ("size", uint64_t); ("data_ptr", uint64_t)]);
  ("drm_radeon_gem_op", Struct [("handle", uint32_t); ("op", uint32_t); ("value", uint64_t)])].
Definition drm_radeon_gem_set_tiling : cty := type_in structs_drm_radeon_gem_set_tiling "drm_radeon_gem_set_tiling".
Definition drm_radeon_gem_get_tiling : cty := type_in structs_drm_radeon_gem_set_tiling "drm_radeon_gem_get_tiling".
Definition drm_radeon_gem_mmap : cty := type_in structs_drm_radeon_gem_set_tiling "drm_radeon_gem_mmap".
Definition drm_radeon_gem_set_domain : cty := type_in structs_drm_radeon_gem_set_tiling "drm_radeon_gem_set_domain".
Definition drm_radeon_gem_wait_idle : cty := type_in structs_drm_radeon_gem_set_tiling "drm_radeon_gem_wait_idle".
Definition drm_radeon_gem_busy : cty := type_in structs_drm_radeon_gem_set_tiling "drm_radeon_gem_busy".
Definition drm_radeon_gem_pread : cty := type_in structs_drm_radeon_gem_set_tiling "drm_radeon_gem_pread".
Definition drm_radeon_gem_pwrite : cty := type_in structs_drm_radeon_gem_set_tiling "drm_radeon_gem_pwrite".
Definition drm_radeon_gem_op : cty := type_in structs_drm_radeon_gem_set_tiling "drm_radeon_gem_op".
Definition drm_radeon_gem_va : cty :=
  Struct [("handle", uint32_t); ("operation", uint32_t); ("vm_id", uint32_t);
   ("flags", uint32_t); ("offset", uint64_t)].
Definition drm_radeon_cs_chunk : cty :=
  Struct [("chunk_id", uint32_t); ("length_dw", uint32_t); ("chunk_data", uint64_t)].
Definition structs_drm_radeon_cs_reloc : list (string * cty) :=
  [
  ("drm_radeon_cs_reloc", Struct [("handle", uint32_t); ("read_domains", uint32_t);
   ("write_domain", uint32_t); ("flags", uint32_t)]);
  ("drm_radeon_cs", Struct [("num_chunks", uint32_t); ("cs_id", uint32_t); ("chunks", uint64_t);
   ("gart_limit", uint64_t); ("vram_limit", uint64_t)])].
Definition drm_radeon_cs : cty := type_in structs_drm_radeon_cs_reloc "drm_radeon_cs".
Definition drm_radeon_info : cty :=
  Struct [("request", uint32_t); ("pad", uint32_t); ("value", uint64_t)].
Definition drm_radeon_drm_types : list (string * cty) :=
  ([("drm_radeon_cmd_header_t", drm_radeon_cmd_header_t); ("drm_r300_cmd_header_t",
   drm_r300_cmd_header_t); ("radeon_color_regs_t", radeon_color_regs_t);
   ("drm_radeon_context_regs_t", drm_radeon_context_regs_t)] ++
   structs_drm_radeon_context2_regs_t ++ [("drm_radeon_state_t", drm_radeon_state_t);
   ("drm_radeon_sarea_t", drm_radeon_sarea_t); ("drm_radeon_init", drm_radeon_init)] ++
   structs_drm_radeon_init_t ++ structs_drm_radeon_cp_stop_t ++ [("drm_radeon_fullscreen_t",
   drm_radeon_fullscreen_t); ("drm_radeon_clear_rect", drm_radeon_clear_rect)] ++
   structs_drm_radeon_clear_rect_t ++ structs_drm_radeon_clear_t ++
   structs_drm_radeon_vertex_t ++ structs_drm_radeon_indices_t ++ structs_drm_radeon_vertex2_t
   ++ structs_drm_radeon_cmd_buffer_t ++ structs_drm_radeon_tex_image_t ++
   structs_drm_radeon_texture_t ++ structs_drm_radeon_stipple_t ++ [("drm_radeon_indirect_t",
   drm_radeon_indirect_t); ("drm_radeon_getparam", drm_radeon_getparam);
   ("drm_radeon_getparam_t", drm_radeon_getparam_t); ("drm_radeon_mem_alloc",
   drm_radeon_mem_alloc)] ++ structs_drm_radeon_mem_alloc_t ++ structs_drm_radeon_mem_free_t
   ++ structs_drm_radeon_mem_init_heap_t ++ structs_drm_radeon_irq_emit_t ++
   structs_drm_radeon_irq_wait_t ++ [("drm_radeon_setparam_t", drm_radeon_setparam_t);
   ("drm_radeon_surface_alloc", drm_radeon_surface_alloc)] ++
   structs_drm_radeon_surface_alloc_t ++ [("drm_radeon_surface_free_t",
   drm_radeon_surface_free_t); ("drm_radeon_gem_info", drm_radeon_gem_info);
   ("drm_radeon_gem_create", drm_radeon_gem_create); ("drm_radeon_gem_userptr",
   drm_radeon_gem_userptr)] ++ structs_drm_radeon_gem_set_tiling ++ [("drm_radeon_gem_va",
   drm_radeon_gem_va); ("drm_radeon_cs_chunk", drm_radeon_cs_chunk)] ++
   structs_drm_radeon_cs_reloc ++ [("drm_radeon_info", drm_radeon_info)])%list.
Definition drm_radeon_drm_ioctls : list command := [
  _IOW "DRM_IOCTL_RADEON_CP_INIT" (chr "d") 64 drm_radeon_init_t;
  _IO "DRM_IOCTL_RADEON_CP_START" (chr "d") 65;
  _IOW "DRM_IOCTL_RADEON_CP_STOP" (chr "d") 66 drm_radeon_cp_stop_t;
  _IO "DRM_IOCTL_RADEON_CP_RESET" (chr "d") 67;
  _IO "DRM_IOCTL_RADEON_CP_IDLE" (chr "d") 68;
  _IO "DRM_IOCTL_RADEON_RESET" (chr "d") 69;
  _IOW "DRM_IOCTL_RADEON_FULLSCREEN" (chr "d") 70 drm_radeon_fullscreen_t;
  _IO "DRM_IOCTL_RADEON_SWAP" (chr "d") 71;
  _IOW "DRM_IOCTL_RADEON_CLEAR" (chr "d") 72 drm_radeon_clear_t;
  _IOW "DRM_IOCTL_RADEON_VERTEX" (chr "d") 73 drm_radeon_vertex_t;
  _IOW "DRM_IOCTL_RADEON_INDICES" (chr "d") 74 drm_radeon_indices_t;
  _IOW "DRM_IOCTL_RADEON_STIPPLE" (chr "d") 76 drm_radeon_stipple_t;
  _IOWR "DRM_IOCTL_RADEON_INDIRECT" (chr "d") 77 drm_radeon_indirect_t;
  _IOWR "DRM_IOCTL_RADEON_TEXTURE" (chr "d") 78 drm_radeon_texture_t;
  _IOW "DRM_IOCTL_RADEON_VERTEX2" (chr "d") 79 drm_radeon_vertex2_t;
  _IOW "DRM_IOCTL_RADEON_CMDBUF" (chr "d") 80 drm_radeon_cmd_buffer_t;
  _IOWR "DRM_IOCTL_RADEON_GETPARAM" (chr "d") 81 drm_radeon_getparam_t;
  _IO "DRM_IOCTL_RADEON_FLIP" (chr "d") 82;
  _IOWR "DRM_IOCTL_RADEON_ALLOC" (chr "d") 83 drm_radeon_mem_alloc_t;
  _IOW "DRM_IOCTL_RADEON_FREE" (chr "d") 84 drm_radeon_mem_free_t;
  _IOW "DRM_IOCTL_RADEON_INIT_HEAP" (chr "d") 85 drm_radeon_mem_init_heap_t;
  _IOWR "DRM_IOCTL_RADEON_IRQ_EMIT" (chr "d") 86 drm_radeon_irq_emit_t;
  _IOW "DRM_IOCTL_RADEON_IRQ_WAIT" (chr "d") 87 drm_radeon_irq_wait_t;
  _IO "DRM_IOCTL_RADEON_CP_RESUME" (chr "d") 88;
  _IOW "DRM_IOCTL_RADEON_SETPARAM" (chr "d") 89 drm_radeon_setparam_t;
  _IOW "DRM_IOCTL_RADEON_SURF_ALLOC" (chr "d") 90 drm_radeon_surface_alloc_t;
  _IOW "DRM_IOCTL_RADEON_SURF_FREE" (chr "d") 91 drm_radeon_surface_free_t;
  _IOWR "DRM_IOCTL_RADEON_GEM_INFO" (chr "d") 92 drm_radeon_gem_info;
  _IOWR "DRM_IOCTL_RADEON_GEM_CREATE" (chr "d") 93 drm_radeon_gem_create;
  _IOWR "DRM_IOCTL_RADEON_GEM_MMAP" (chr "d") 94 drm_radeon_gem_mmap;
  _IOWR "DRM_IOCTL_RADEON_GEM_PREAD" (chr "d") 97 drm_radeon_gem_pread;
  _IOWR "DRM_IOCTL_RADEON_GEM_PWRITE" (chr "d") 98 drm_radeon_gem_pwrite;
  _IOWR "DRM_IOCTL_RADEON_GEM_SET_DOMAIN" (chr "d") 99 drm_radeon_gem_set_domain;
  _IOW "DRM_IOCTL_RADEON_GEM_WAIT_IDLE" (chr "d") 100 drm_radeon_gem_wait_idle;
  _IOWR "DRM_IOCTL_RADEON_CS" (chr "d") 102 drm_radeon_cs;
  _IOWR "DRM_IOCTL_RADEON_INFO" (chr "d") 103 drm_radeon_info;
  _IOWR "DRM_IOCTL_RADEON_GEM_SET_TILING" (chr "d") 104 drm_radeon_gem_set_tiling;
  _IOWR "DRM_IOCTL_RADEON_GEM_GET_TILING" (chr "d") 105 drm_radeon_gem_get_tiling;
  _IOWR "DRM_IOCTL_RADEON_GEM_BUSY" (chr "d") 106 drm_radeon_gem_busy;
  _IOWR "DRM_IOCTL_RADEON_GEM_VA" (chr "d") 107 drm_radeon_gem_va;
  _IOWR "DRM_IOCTL_RADEON_GEM_OP" (chr "d") 108 drm_radeon_gem_op;
  _IOWR "DRM_IOCTL_RADEON_GEM_USERPTR" (chr "d") 109 drm_radeon_gem_userptr].
End Drm_radeon_drm.

(** ** [drm/savage_drm.h] *)

Module Drm_savage_drm.
Definition SAVAGE_NR_TEX_HEAPS : Z := 2.
Definition _drm_savage_sarea : cty :=
  Struct [("texList", Arr SAVAGE_NR_TEX_HEAPS (Arr 17 Drm_drm.drm_tex_region));
   ("texAge", Arr SAVAGE_NR_TEX_HEAPS uint); ("ctxOwner", int)].
Definition drm_savage_sarea_ptr : cty := ptr.
Definition drm_savage_sarea_t : cty := _drm_savage_sarea.
Definition drm_savage_init : cty :=
  Struct [("func", enum); ("sarea_priv_offset", uint); ("cob_size", uint);
   ("bci_threshold_lo", uint); ("bci_threshold_hi", uint); ("dma_type", uint); ("fb_bpp", uint);
   ("front_offset", uint); ("front_pitch", uint); ("back_offset", uint); ("back_pitch", uint);
   ("depth_bpp", uint); ("depth_offset", uint); ("depth_pitch", uint); ("texture_offset", uint);
   ("texture_size", uint); ("status_offset", ulong); ("buffers_offset", ulong);
   ("agp_textures_offset", ulong); ("cmd_dma_offset", ulong)].
Definition drm_savage_init_t : cty := drm_savage_init.
Definition drm_savage_cmd_header : cty :=
  Union [("cmd", Struct [("cmd", uchar); ("pad0", uchar); ("pad1", ushort); ("pad2", ushort);
   ("pad3", ushort)]); ("state", Struct [("cmd", uchar); ("global", uchar); ("count", ushort);
   ("start", ushort); ("pad3", ushort)]); ("prim", Struct [("cmd", uchar); ("prim", uchar);
   ("skip", ushort); ("count", ushort); ("start", ushort)]); ("idx", Struct [("cmd", uchar);
   ("prim", uchar); ("skip", ushort); ("count", ushort); ("pad3", ushort)]);
   ("clear0", Struct [("cmd", uchar); ("pad0", uchar); ("pad1", ushort); ("flags", uint)]);
   ("clear1", Struct [("mask", uint); ("value", uint)])].
Definition drm_savage_cmd_header_t : cty := drm_savage_cmd_header.
Definition drm_savage_cmdbuf : cty :=
  Struct [("cmd_addr", ptr); ("size", uint); ("dma_idx", uint); ("discard", int);
   ("vb_addr", ptr); ("vb_size", uint); ("vb_stride", uint); ("box_addr", ptr); ("nbox", uint)].
Definition drm_savage_cmdbuf_t : cty := drm_savage_cmdbuf.
Definition drm_savage_event : cty := Struct [("count", uint); ("flags", uint)].
Definition drm_savage_event_emit_t : cty := drm_savage_event.
Definition drm_savage_event_wait_t : cty := drm_savage_event.
Definition drm_savage_drm_types : list (string * cty) :=
  ([("_drm_savage_sarea", _drm_savage_sarea); ("drm_savage_sarea_ptr", drm_savage_sarea_ptr);
   ("drm_savage_sarea_t", drm_savage_sarea_t); ("drm_savage_init", drm_savage_init);
   ("drm_savage_init_t", drm_savage_init_t); ("drm_savage_cmd_header", drm_savage_cmd_header);
   ("drm_savage_cmd_header_t", drm_savage_cmd_header_t); ("drm_savage_cmdbuf",
   drm_savage_cmdbuf); ("drm_savage_cmdbuf_t", drm_savage_cmdbuf_t); ("drm_savage_event",
   drm_savage_event); ("drm_savage_event_emit_t", drm_savage_event_emit_t);
   ("drm_savage_event_wait_t", drm_savage_event_wait_t)])%list.
Definition drm_savage_drm_ioctls : list command := [
  _IOW "DRM_IOCTL_SAVAGE_BCI_INIT" (chr "d") 64 drm_savage_init_t;
  _IOW "DRM_IOCTL_SAVAGE_BCI_CMDBUF" (chr "d") 65 drm_savage_cmdbuf_t;
  _IOWR "DRM_IOCTL_SAVAGE_BCI_EVENT_EMIT" (chr "d") 66 drm_savage_event_emit_t;
  _IOW "DRM_IOCTL_SAVAGE_BCI_EVENT_WAIT" (chr "d") 67 drm_savage_event_wait_t].
End Drm_savage_drm.

(** ** [drm/sis_drm.h] *)

Module Drm_sis_drm.
Definition structs_drm_sis_mem_t : list (string * cty) :=
  [
  ("drm_sis_mem_t", Struct [("context", int); ("offset", ulong); ("size", ulong); ("free", ulong)]);
  ("drm_sis_agp_t", Struct [("offset", ulong); ("size", ulong)]);
  ("drm_sis_fb_t", Struct [("offset", ulong); ("size", ulong)])].
Definition drm_sis_drm_types : list (string * cty) := structs_drm_sis_mem_t.
Definition drm_sis_mem_t : cty := type_in structs_drm_sis_mem_t "drm_sis_mem_t".
Definition drm_sis_drm_ioctls : list command := [
  _IOWR "DRM_IOCTL_SIS_FB_ALLOC" (chr "d") (0x40 + 0x04) drm_sis_mem_t;
  _IOW "DRM_IOCTL_SIS_FB_FREE" (chr "d") (0x40 + 0x05) drm_sis_mem_t;
  _IOWR "DRM_IOCTL_SIS_AGP_INIT" (chr "d") (0x40 + 0x13) (type_in structs_drm_sis_mem_t "drm_sis_agp_t");
  _IOWR "DRM_IOCTL_SIS_AGP_ALLOC" (chr "d") (0x40 + 0x14) drm_sis_mem_t;
  _IOW "DRM_IOCTL_SIS_AGP_FREE" (chr "d") (0x40 + 0x15) drm_sis_mem_t;
  _IOW "DRM_IOCTL_SIS_FB_INIT" (chr "d") (0x40 + 0x16) (type_in structs_drm_sis_mem_t "drm_sis_fb_t")].
End Drm_sis_drm.

(** ** [drm/tegra_drm.h] *)

Module Drm_tegra_drm.
Definition structs_drm_tegra_gem_create : list (string * cty) :=
  [
  ("drm_tegra_gem_create", Struct [("size", __u64); ("flags", __u32); ("handle", __u32)]);
  ("drm_tegra_gem_mmap", Struct [("handle", __u32); ("pad", __u32); ("offset", __u64)]);
  ("drm_tegra_syncpt_read", Struct [("id", __u32); ("value", __u32)]);
  ("drm_tegra_syncpt_incr", Struct [("id", __u32); ("pad", __u32)]);
  ("drm_tegra_syncpt_wait", Struct [("id", __u32); ("thresh", __u32); ("timeout", __u32);
   ("value", __u32)])].
Definition drm_tegra_gem_create : cty := type_in structs_drm_tegra_gem_create "drm_tegra_gem_create".
Definition drm_tegra_gem_mmap : cty := type_in structs_drm_tegra_gem_create "drm_tegra_gem_mmap".
Definition drm_tegra_syncpt_read : cty := type_in structs_drm_tegra_gem_create "drm_tegra_syncpt_read".
Definition drm_tegra_syncpt_incr : cty := type_in structs_drm_tegra_gem_create "drm_tegra_syncpt_incr".
Definition drm_tegra_syncpt_wait : cty := type_in structs_drm_tegra_gem_create "drm_tegra_syncpt_wait".
Definition structs_drm_tegra_open_channel : list (string * cty) :=
  [
  ("drm_tegra_open_channel", Struct [("client", __u32); ("pad", __u32); ("context", __u64)]);
  ("drm_tegra_close_channel", Struct [("context", __u64)]);
  ("drm_tegra_get_syncpt", Struct [("context", __u64); ("index", __u32); ("id", __u32)]);
  ("drm_tegra_get_syncpt_base", Struct [("context", __u64); ("syncpt", __u32); ("id", __u32)]);
  ("drm_tegra_syncpt", Struct [("id", __u32); ("incrs", __u32)]);
  ("drm_tegra_cmdbuf", Struct [("handle", __u32); ("offset", __u32); ("words", __u32);
   ("pad", __u32)]);
  ("drm_tegra_reloc", Struct [("cmdbuf", Struct [("handle", __u32); ("offset", __u32)]);
   ("target", Struct [("handle", __u32); ("offset", __u32)]); ("shift", __u32); ("pad", __u32)]);
  ("drm_tegra_waitchk", Struct [("handle", __u32); ("offset", __u32); ("syncpt", __u32);
   ("thresh", __u32)]);
  ("drm_tegra_submit", Struct [("context", __u64); ("num_syncpts", __u32);
   ("num_cmdbufs", __u32); ("num_relocs", __u32); ("num_waitchks", __u32);
   ("waitchk_mask", __u32); ("timeout", __u32); ("syncpts", __u64); ("cmdbufs", __u64);
   ("relocs", __u64); ("waitchks", __u64); ("fence", __u32); ("reserved", Arr 5 __u32)])].
Definition drm_tegra_open_channel : cty := type_in structs_drm_tegra_open_channel "drm_tegra_open_channel".
Definition drm_tegra_get_syncpt : cty := type_in structs_drm_tegra_open_channel "drm_tegra_get_syncpt".
Definition drm_tegra_get_syncpt_base : cty := type_in structs_drm_tegra_open_channel "drm_tegra_get_syncpt_base".
Definition drm_tegra_submit : cty := type_in structs_drm_tegra_open_channel "drm_tegra_submit".
Definition structs_drm_tegra_gem_set_tiling : list (string * cty) :=
  [
  ("drm_tegra_gem_set_tiling", Struct [("handle", __u32); ("mode", __u32); ("value", __u32);
   ("pad", __u32)]);
  ("drm_tegra_gem_get_tiling", Struct [("handle", __u32); ("mode", __u32); ("value", __u32);
   ("pad", __u32)])].
Definition drm_tegra_gem_set_tiling : cty := type_in structs_drm_tegra_gem_set_tiling "drm_tegra_gem_set_tiling".
Definition drm_tegra_gem_get_tiling : cty := type_in structs_drm_tegra_gem_set_tiling "drm_tegra_gem_get_tiling".
Definition structs_drm_tegra_gem_set_flags : list (string * cty) :=
  [
  ("drm_tegra_gem_set_flags", Struct [("handle", __u32); ("flags", __u32)]);
  ("drm_tegra_gem_get_flags", Struct [("handle", __u32); ("flags", __u32)])].
Definition drm_tegra_gem_set_flags : cty := type_in structs_drm_tegra_gem_set_flags "drm_tegra_gem_set_flags".
Definition drm_tegra_gem_get_flags : cty := type_in structs_drm_tegra_gem_set_flags "drm_tegra_gem_get_flags".
Definition drm_tegra_drm_types : list (string * cty) :=
  (structs_drm_tegra_gem_create ++ structs_drm_tegra_open_channel ++
   structs_drm_tegra_gem_set_tiling ++ structs_drm_tegra_gem_set_flags)%list.
Definition drm_tegra_drm_ioctls : list command := [
  _IOWR "DRM_IOCTL_TEGRA_GEM_CREATE" (chr "d") 64 drm_tegra_gem_create;
  _IOWR "DRM_IOCTL_TEGRA_GEM_MMAP" (chr "d") 65 drm_tegra_gem_mmap;
  _IOWR "DRM_IOCTL_TEGRA_SYNCPT_READ" (chr "d") 66 drm_tegra_syncpt_read;
  _IOWR "DRM_IOCTL_TEGRA_SYNCPT_INCR" (chr "d") 67 drm_tegra_syncpt_incr;
  _IOWR "DRM_IOCTL_TEGRA_SYNCPT_WAIT" (chr "d") 68 drm_tegra_syncpt_wait;
  _IOWR "DRM_IOCTL_TEGRA_OPEN_CHANNEL" (chr "d") 69 drm_tegra_open_channel;
  _IOWR "DRM_IOCTL_TEGRA_CLOSE_CHANNEL" (chr "d") 70 drm_tegra_open_channel;
  _IOWR "DRM_IOCTL_TEGRA_GET_SYNCPT" (chr "d") 71 drm_tegra_get_syncpt;
  _IOWR "DRM_IOCTL_TEGRA_SUBMIT" (chr "d") 72 drm_tegra_submit;
  _IOWR "DRM_IOCTL_TEGRA_GET_SYNCPT_BASE" (chr "d") 73 drm_tegra_get_syncpt_base;
  _IOWR "DRM_IOCTL_TEGRA_GEM_SET_TILING" (chr "d") 74 drm_tegra_gem_set_tiling;
  _IOWR "DRM_IOCTL_TEGRA_GEM_GET_TILING" (chr "d") 75 drm_tegra_gem_get_tiling;
  _IOWR "DRM_IOCTL_TEGRA_GEM_SET_FLAGS" (chr "d") 76 drm_tegra_gem_set_flags;
  _IOWR "DRM_IOCTL_TEGRA_GEM_GET_FLAGS" (chr "d") 77 drm_tegra_gem_get_flags].
End Drm_tegra_drm.

(** ** [drm/via_drm.h] *)

Module Drm_via_drm.
Definition VIA_NR_SAREA_CLIPRECTS : Z := 8.
Definition VIA_NR_XVMC_PORTS : Z := 10.
Definition structs_drm_via_agp_t : list (string * cty) :=
  [
  ("drm_via_agp_t", Struct [("offset", __u32); ("size", __u32)]);
  ("drm_via_fb_t", Struct [("offset", __u32); ("size", __u32)]);
  ("drm_via_mem_t", Struct [("context", __u32); ("type", __u32); ("size", __u32);
   ("index", ulong); ("offset", ulong)]);
  ("_drm_via_init", Struct [("func", enum); ("sarea_priv_offset", ulong); ("fb_offset", ulong);
   ("mmio_offset", ulong); ("agpAddr", ulong)])].
Definition drm_via_agp_t : cty := type_in structs_drm_via_agp_t "drm_via_agp_t".
Definition drm_via_fb_t : cty := type_in structs_drm_via_agp_t "drm_via_fb_t".
Definition drm_via_mem_t : cty := type_in structs_drm_via_agp_t "drm_via_mem_t".
Definition _drm_via_init : cty := type_in structs_drm_via_agp_t "_drm_via_init".
Definition structs_drm_via_init_t : list (string * cty) :=
  [
  ("drm_via_init_t", _drm_via_init);
  ("_drm_via_futex", Struct [("func", enum); ("ms", __u32); ("lock", __u32); ("val", __u32)])].
Definition drm_via_init_t : cty := type_in structs_drm_via_init_t "drm_via_init_t".
Definition _drm_via_futex : cty := type_in structs_drm_via_init_t "_drm_via_futex".
Definition structs_drm_via_futex_t : list (string * cty) :=
  [
  ("drm_via_futex_t", _drm_via_futex);
  ("_drm_via_dma_init", Struct [("func", enum); ("offset", ulong); ("size", ulong);
   ("reg_pause_addr", ulong)])].
Definition drm_via_futex_t : cty := type_in structs_drm_via_futex_t "drm_via_futex_t".
Definition _drm_via_dma_init : cty := type_in structs_drm_via_futex_t "_drm_via_dma_init".
Definition structs_drm_via_dma_init_t : list (string * cty) :=
  [
  ("drm_via_dma_init_t", _drm_via_dma_init);
  ("_drm_via_cmdbuffer", Struct [("buf", ptr); ("size", ulong)])].
Definition drm_via_dma_init_t : cty := type_in structs_drm_via_dma_init_t "drm_via_dma_init_t".
Definition _drm_via_cmdbuffer : cty := type_in structs_drm_via_dma_init_t "_drm_via_cmdbuffer".
Definition structs_drm_via_cmdbuffer_t : list (string * cty) :=
  [
  ("drm_via_cmdbuffer_t", _drm_via_cmdbuffer);
  ("_drm_via_tex_region", Struct [("next", uchar); ("prev", uchar); ("inUse", uchar);
   ("age", int)])].
Definition drm_via_cmdbuffer_t : cty := type_in structs_drm_via_cmdbuffer_t "drm_via_cmdbuffer_t".
Definition _drm_via_tex_region : cty := type_in structs_drm_via_cmdbuffer_t "_drm_via_tex_region".
Definition drm_via_tex_region_t : cty := _drm_via_tex_region.
Definition _drm_via_sarea : cty :=
  Struct [("dirty", uint); ("nbox", uint);
   ("boxes", Arr VIA_NR_SAREA_CLIPRECTS Drm_drm.drm_clip_rect);
   ("texList", Arr 65 drm_via_tex_region_t); ("texAge", int); ("ctxOwner", int);
   ("vertexPrim", int); ("XvMCLockArea", Arr 384 char);
   ("XvMCDisplaying", Arr VIA_NR_XVMC_PORTS uint); ("XvMCSubPicOn", Arr VIA_NR_XVMC_PORTS uint);
   ("XvMCCtxNoGrabbed", uint); ("pfCurrentOffset", uint)].
Definition structs_drm_via_sarea_t : list (string * cty) :=
  [
  ("drm_via_sarea_t", _drm_via_sarea);
  ("_drm_via_cmdbuf_size", Struct [("func", enum); ("wait", int); ("size", __u32)])].
Definition _drm_via_cmdbuf_size : cty := type_in structs_drm_via_sarea_t "_drm_via_cmdbuf_size".
Definition structs_drm_via_cmdbuf_size_t : list (string * cty) :=
  [
  ("drm_via_cmdbuf_size_t", _drm_via_cmdbuf_size);
  ("via_irq_seq_type_t", enum)].
Definition drm_via_cmdbuf_size_t : cty := type_in structs_drm_via_cmdbuf_size_t "drm_via_cmdbuf_size_t".
Definition via_irq_seq_type_t : cty := type_in structs_drm_via_cmdbuf_size_t "via_irq_seq_type_t".
Definition structs_drm_via_wait_irq_request : list (string * cty) :=
  let drm_via_wait_irq_request := Struct [("irq", uint); ("type", via_irq_seq_type_t);
   ("sequence", __u32); ("signal", __u32)] in
  [
  ("drm_via_wait_irq_request", drm_via_wait_irq_request);
  ("drm_via_irqwait", Union [("request", drm_via_wait_irq_request);
   ("reply", Drm_drm.drm_wait_vblank_reply)])].
Definition drm_via_irqwait : cty := type_in structs_drm_via_wait_irq_request "drm_via_irqwait".
Definition structs_drm_via_irqwait_t : list (string * cty) :=
  [
  ("drm_via_irqwait_t", drm_via_irqwait);
  ("drm_via_blitsync", Struct [("sync_handle", __u32); ("engine", uint)])].
Definition drm_via_irqwait_t : cty := type_in structs_drm_via_irqwait_t "drm_via_irqwait_t".
Definition drm_via_blitsync : cty := type_in structs_drm_via_irqwait_t "drm_via_blitsync".
Definition structs_drm_via_blitsync_t : list (string * cty) :=
  let drm_via_blitsync_t := drm_via_blitsync in
  [
  ("drm_via_blitsync_t", drm_via_blitsync_t);
  ("drm_via_dmablit", Struct [("num_lines", __u32); ("line_length", __u32); ("fb_addr", __u32);
   ("fb_stride", __u32); ("mem_addr", ptr); ("mem_stride", __u32); ("flags", __u32);
   ("to_fb", int); ("sync", drm_via_blitsync_t)])].
Definition drm_via_blitsync_t : cty := type_in structs_drm_via_blitsync_t "drm_via_blitsync_t".
Definition drm_via_dmablit : cty := type_in structs_drm_via_blitsync_t "drm_via_dmablit".
Definition drm_via_dmablit_t : cty := drm_via_dmablit.
Definition drm_via_drm_types : list (string * cty) :=
  (structs_drm_via_agp_t ++ structs_drm_via_init_t ++ structs_drm_via_futex_t ++
   structs_drm_via_dma_init_t ++ structs_drm_via_cmdbuffer_t ++ [("drm_via_tex_region_t",
   drm_via_tex_region_t); ("_drm_via_sarea", _drm_via_sarea)] ++ structs_drm_via_sarea_t ++
   structs_drm_via_cmdbuf_size_t ++ structs_drm_via_wait_irq_request ++
   structs_drm_via_irqwait_t ++ structs_drm_via_blitsync_t ++ [("drm_via_dmablit_t",
   drm_via_dmablit_t)])%list.
Definition drm_via_drm_ioctls : list command := [
  _IOWR "DRM_IOCTL_VIA_ALLOCMEM" (chr "d") 64 drm_via_mem_t;
  _IOW "DRM_IOCTL_VIA_FREEMEM" (chr "d") 65 drm_via_mem_t;
  _IOWR "DRM_IOCTL_VIA_AGP_INIT" (chr "d") 66 drm_via_agp_t;
  _IOWR "DRM_IOCTL_VIA_FB_INIT" (chr "d") 67 drm_via_fb_t;
  _IOWR "DRM_IOCTL_VIA_MAP_INIT" (chr "d") 68 drm_via_init_t;
  _IOW "DRM_IOCTL_VIA_DEC_FUTEX" (chr "d") 69 drm_via_futex_t;
  _IOWR "DRM_IOCTL_VIA_DMA_INIT" (chr "d") 71 drm_via_dma_init_t;
  _IOW "DRM_IOCTL_VIA_CMDBUFFER" (chr "d") 72 drm_via_cmdbuffer_t;
  _IO "DRM_IOCTL_VIA_FLUSH" (chr "d") 73;
  _IOW "DRM_IOCTL_VIA_PCICMD" (chr "d") 74 drm_via_cmdbuffer_t;
  _IOWR "DRM_IOCTL_VIA_CMDBUF_SIZE" (chr "d") 75 drm_via_cmdbuf_size_t;
  _IOWR "DRM_IOCTL_VIA_WAIT_IRQ" (chr "d") 77 drm_via_irqwait_t;
  _IOW "DRM_IOCTL_VIA_DMA_BLIT" (chr "d") 78 drm_via_dmablit_t;
  _IOW "DRM_IOCTL_VIA_BLIT_SYNC" (chr "d") 79 drm_via_blitsync_t].
End Drm_via_drm.

(** ** [drm/virtgpu_drm.h] *)

Module Drm_virtgpu_drm.
Definition structs_drm_virtgpu_map : list (string * cty) :=
  [
  ("drm_virtgpu_map", Struct [("offset", uint64_t); ("handle", uint32_t); ("pad", uint32_t)]);
  ("drm_virtgpu_execbuffer", Struct [("flags", uint32_t); ("size", uint32_t);
   ("command", uint64_t); ("bo_handles", uint64_t); ("num_bo_handles", uint32_t);
   ("pad", uint32_t)])].
Definition drm_virtgpu_map : cty := type_in structs_drm_virtgpu_map "drm_virtgpu_map".
Definition drm_virtgpu_execbuffer : cty := type_in structs_drm_virtgpu_map "drm_virtgpu_execbuffer".
Definition structs_drm_virtgpu_getparam : list (string * cty) :=
  let drm_virtgpu_3d_box := Struct [("x", uint32_t); ("y", uint32_t); ("z", uint32_t);
   ("w", uint32_t); ("h", uint32_t); ("d", uint32_t)] in
  [
  ("drm_virtgpu_getparam", Struct [("param", uint64_t); ("value", uint64_t)]);
  ("drm_virtgpu_resource_create", Struct [("target", uint32_t); ("format", uint32_t);
   ("bind", uint32_t); ("width", uint32_t); ("height", uint32_t); ("depth", uint32_t);
   ("array_size", uint32_t); ("last_level", uint32_t); ("nr_samples", uint32_t);
   ("flags", uint32_t); ("bo_handle", uint32_t); ("res_handle", uint32_t); ("size", uint32_t);
   ("stride", uint32_t)]);
  ("drm_virtgpu_resource_info", Struct [("bo_handle", uint32_t); ("res_handle", uint32_t);
   ("size", uint32_t); ("stride", uint32_t)]);
  ("drm_virtgpu_3d_box", drm_virtgpu_3d_box);
  ("drm_virtgpu_3d_transfer_to_host", Struct [("bo_handle", uint32_t);
   ("box", drm_virtgpu_3d_box); ("level", uint32_t); ("offset", uint32_t)]);
  ("drm_virtgpu_3d_transfer_from_host", Struct [("bo_handle", uint32_t);
   ("box", drm_virtgpu_3d_box); ("level", uint32_t); ("offset", uint32_t)])].
Definition drm_virtgpu_getparam : cty := type_in structs_drm_virtgpu_getparam "drm_virtgpu_getparam".
Definition drm_virtgpu_resource_create : cty := type_in structs_drm_virtgpu_getparam "drm_virtgpu_resource_create".
Definition drm_virtgpu_resource_info : cty := type_in structs_drm_virtgpu_getparam "drm_virtgpu_resource_info".
Definition drm_virtgpu_3d_transfer_to_host : cty := type_in structs_drm_virtgpu_getparam "drm_virtgpu_3d_transfer_to_host".
Definition drm_virtgpu_3d_transfer_from_host : cty := type_in structs_drm_virtgpu_getparam "drm_virtgpu_3d_transfer_from_host".
Definition structs_drm_virtgpu_3d_wait : list (string * cty) :=
  [
  ("drm_virtgpu_3d_wait", Struct [("handle", uint32_t); ("flags", uint32_t)]);
  ("drm_virtgpu_get_caps", Struct [("cap_set_id", uint32_t); ("cap_set_ver", uint32_t);
   ("addr", uint64_t); ("size", uint32_t); ("pad", uint32_t)])].
Definition drm_virtgpu_3d_wait : cty := type_in structs_drm_virtgpu_3d_wait "drm_virtgpu_3d_wait".
Definition drm_virtgpu_get_caps : cty := type_in structs_drm_virtgpu_3d_wait "drm_virtgpu_get_caps".
Definition drm_virtgpu_drm_types : list (string * cty) :=
  (structs_drm_virtgpu_map ++ structs_drm_virtgpu_getparam ++
   structs_drm_virtgpu_3d_wait)%list.
Definition drm_virtgpu_drm_ioctls : list command := [
  _IOWR "DRM_IOCTL_VIRTGPU_MAP" (chr "d") 65 drm_virtgpu_map;
  _IOW "DRM_IOCTL_VIRTGPU_EXECBUFFER" (chr "d") 66 drm_virtgpu_execbuffer;
  _IOWR "DRM_IOCTL_VIRTGPU_GETPARAM" (chr "d") 67 drm_virtgpu_getparam;
  _IOWR "DRM_IOCTL_VIRTGPU_RESOURCE_CREATE" (chr "d") 68 drm_virtgpu_resource_create;
  _IOWR "DRM_IOCTL_VIRTGPU_RESOURCE_INFO" (chr "d") 69 drm_virtgpu_resource_info;
  _IOWR "DRM_IOCTL_VIRTGPU_TRANSFER_FROM_HOST" (chr "d") 70 drm_virtgpu_3d_transfer_from_host;
  _IOWR "DRM_IOCTL_VIRTGPU_TRANSFER_TO_HOST" (chr "d") 71 drm_virtgpu_3d_transfer_to_host;
  _IOWR "DRM_IOCTL_VIRTGPU_WAIT" (chr "d") 72 drm_virtgpu_3d_wait;
  _IOWR "DRM_IOCTL_VIRTGPU_GET_CAPS" (chr "d") 73 drm_virtgpu_get_caps].
End Drm_virtgpu_drm.

(** ** [drm/vmwgfx_drm.h] *)

Module Drm_vmwgfx_drm.
Definition DRM_VMW_MAX_SURFACE_FACES : Z := 6.
Definition structs_drm_vmw_getparam_arg : list (string * cty) :=
  let drm_vmw_surface_create_req := Struct [("flags", uint32_t); ("format", uint32_t);
   ("mip_levels", Arr DRM_VMW_MAX_SURFACE_FACES uint32_t); ("size_addr", uint64_t);
   ("shareable", int32_t); ("scanout", int32_t)] in
  let drm_vmw_surface_arg := Struct [("sid", int32_t); ("handle_type", enum)] in
  [
  ("drm_vmw_getparam_arg", Struct [("value", uint64_t); ("param", uint32_t); ("pad64", uint32_t)]);
  ("drm_vmw_context_arg", Struct [("cid", int32_t); ("pad64", uint32_t)]);
  ("drm_vmw_surface_create_req", drm_vmw_surface_create_req);
  ("drm_vmw_surface_arg", drm_vmw_surface_arg);
  ("drm_vmw_size", Struct [("width", uint32_t); ("height", uint32_t); ("depth", uint32_t);
   ("pad64", uint32_t)]);
  ("drm_vmw_surface_create_arg", Union [("rep", drm_vmw_surface_arg);
   ("req", drm_vmw_surface_create_req)]);
  ("drm_vmw_surface_reference_arg", Union [("rep", drm_vmw_surface_create_req);
   ("req", drm_vmw_surface_arg)])].
Definition drm_vmw_context_arg : cty := type_in structs_drm_vmw_getparam_arg "drm_vmw_context_arg".
Definition drm_vmw_surface_arg : cty := type_in structs_drm_vmw_getparam_arg "drm_vmw_surface_arg".
Definition drm_vmw_size : cty := type_in structs_drm_vmw_getparam_arg "drm_vmw_size".
Definition structs_drm_vmw_execbuf_arg : list (string * cty) :=
  let drm_vmw_alloc_dmabuf_req := Struct [("size", uint32_t); ("pad64", uint32_t)] in
  let drm_vmw_dmabuf_rep := Struct [("map_handle", uint64_t); ("handle", uint32_t);
   ("cur_gmr_id", uint32_t); ("cur_gmr_offset", uint32_t); ("pad64", uint32_t)] in
  [
  ("drm_vmw_execbuf_arg", Struct [("commands", uint64_t); ("command_size", uint32_t);
   ("throttle_us", uint32_t); ("fence_rep", uint64_t); ("version", uint32_t);
   ("flags", uint32_t); ("context_handle", uint32_t); ("pad64", uint32_t)]);
  ("drm_vmw_fence_rep", Struct [("handle", uint32_t); ("mask", uint32_t); ("seqno", uint32_t);
   ("passed_seqno", uint32_t); ("pad64", uint32_t); ("error", int32_t)]);
  ("drm_vmw_alloc_dmabuf_req", drm_vmw_alloc_dmabuf_req);
  ("drm_vmw_dmabuf_rep", drm_vmw_dmabuf_rep);
  ("drm_vmw_alloc_dmabuf_arg", Union [("req", drm_vmw_alloc_dmabuf_req);
   ("rep", drm_vmw_dmabuf_rep)]);
  ("drm_vmw_unref_dmabuf_arg", Struct [("handle", uint32_t); ("pad64", uint32_t)])].
Definition structs_drm_vmw_rect : list (string * cty) :=
  let drm_vmw_rect := Struct [("x", int32_t); ("y", int32_t); ("w", uint32_t); ("h", uint32_t)] in
  [
  ("drm_vmw_rect", drm_vmw_rect);
  ("drm_vmw_control_stream_arg", Struct [("stream_id", uint32_t); ("enabled", uint32_t);
   ("flags", uint32_t); ("color_key", uint32_t); ("handle", uint32_t); ("offset", uint32_t);
   ("format", int32_t); ("size", uint32_t); ("width", uint32_t); ("height", uint32_t);
   ("pitch", Arr 3 uint32_t); ("pad64", uint32_t); ("src", drm_vmw_rect); ("dst", drm_vmw_rect)])].
Definition structs_drm_vmw_cursor_bypass_arg : list (string * cty) :=
  [
  ("drm_vmw_cursor_bypass_arg", Struct [("flags", uint32_t); ("crtc_id", uint32_t);
   ("xpos", int32_t); ("ypos", int32_t); ("xhot", int32_t); ("yhot", int32_t)]);
  ("drm_vmw_stream_arg", Struct [("stream_id", uint32_t); ("pad64", uint32_t)]);
  ("drm_vmw_get_3d_cap_arg", Struct [("buffer", uint64_t); ("max_size", uint32_t);
   ("pad64", uint32_t)])].
Definition structs_drm_vmw_fence_wait_arg : list (string * cty) :=
  [
  ("drm_vmw_fence_wait_arg", Struct [("handle", uint32_t); ("cookie_valid", int32_t);
   ("kernel_cookie", uint64_t); ("timeout_us", uint64_t); ("lazy", int32_t); ("flags", int32_t);
   ("wait_options", int32_t); ("pad64", int32_t)]);
  ("drm_vmw_fence_signaled_arg", Struct [("handle", uint32_t); ("flags", uint32_t);
   ("signaled", int32_t); ("passed_seqno", uint32_t); ("signaled_flags", uint32_t);
   ("pad64", uint32_t)]);
  ("drm_vmw_fence_arg", Struct [("handle", uint32_t); ("pad64", uint32_t)])].
Definition drm_vmw_event_fence : cty :=
  Struct [("base", Drm_drm.drm_event); ("user_data", uint64_t); ("tv_sec", uint32_t);
   ("tv_usec", uint32_t)].
Definition structs_drm_vmw_fence_event_arg : list (string * cty) :=
  [
  ("drm_vmw_fence_event_arg", Struct [("fence_rep", uint64_t); ("user_data", uint64_t);
   ("handle", uint32_t); ("flags", uint32_t)]);
  ("drm_vmw_present_arg", Struct [("fb_id", uint32_t); ("sid", uint32_t); ("dest_x", int32_t);
   ("dest_y", int32_t); ("clips_ptr", uint64_t); ("num_clips", uint32_t); ("pad64", uint32_t)]);
  ("drm_vmw_present_readback_arg", Struct [("fb_id", uint32_t); ("num_clips", uint32_t);
   ("clips_ptr", uint64_t); ("fence_rep", uint64_t)]);
  ("drm_vmw_update_layout_arg", Struct [("num_outputs", uint32_t); ("pad64", uint32_t);
   ("rects", uint64_t)])].
Definition structs_drm_vmw_shader_create_arg : list (string * cty) :=
  [
  ("drm_vmw_shader_create_arg", Struct [("shader_type", enum); ("size", uint32_t);
   ("buffer_handle", uint32_t); ("shader_handle", uint32_t); ("offset", uint64_t)]);
  ("drm_vmw_shader_arg", Struct [("handle", uint32_t); ("pad64", uint32_t)])].
Definition structs_drm_vmw_gb_surface_create_req : list (string * cty) :=
  let drm_vmw_gb_surface_create_req := Struct [("svga3d_flags", uint32_t); ("format", uint32_t);
   ("mip_levels", uint32_t); ("drm_surface_flags", enum); ("multisample_count", uint32_t);
   ("autogen_filter", uint32_t); ("buffer_handle", uint32_t); ("array_size", uint32_t);
   ("base_size", drm_vmw_size)] in
  let drm_vmw_gb_surface_create_rep := Struct [("handle", uint32_t); ("backup_size", uint32_t);
   ("buffer_handle", uint32_t); ("buffer_size", uint32_t); ("buffer_map_handle", uint64_t)] in
  let drm_vmw_gb_surface_ref_rep := Struct [("creq", drm_vmw_gb_surface_create_req);
   ("crep", drm_vmw_gb_surface_create_rep)] in
  [
  ("drm_vmw_gb_surface_create_req", drm_vmw_gb_surface_create_req);
  ("drm_vmw_gb_surface_create_rep", drm_vmw_gb_surface_create_rep);
  ("drm_vmw_gb_surface_create_arg", Union [("rep", drm_vmw_gb_surface_create_rep);
   ("req", drm_vmw_gb_surface_create_req)]);
  ("drm_vmw_gb_surface_ref_rep", drm_vmw_gb_surface_ref_rep);
  ("drm_vmw_gb_surface_reference_arg", Union [("rep", drm_vmw_gb_surface_ref_rep);
   ("req", drm_vmw_surface_arg)])].
Definition drm_vmw_synccpu_arg : cty :=
  Struct [("op", enum); ("flags", enum); ("handle", uint32_t); ("pad64", uint32_t)].
Definition drm_vmw_extended_context_arg : cty :=
  Union [("req", enum); ("rep", drm_vmw_context_arg)].
Definition drm_vmwgfx_drm_types : list (string * cty) :=
  (structs_drm_vmw_getparam_arg ++ structs_drm_vmw_execbuf_arg ++ structs_drm_vmw_rect ++
   structs_drm_vmw_cursor_bypass_arg ++ structs_drm_vmw_fence_wait_arg ++
   [("drm_vmw_event_fence", drm_vmw_event_fence)] ++ structs_drm_vmw_fence_event_arg ++
   structs_drm_vmw_shader_create_arg ++ structs_drm_vmw_gb_surface_create_req ++
   [("drm_vmw_synccpu_arg", drm_vmw_synccpu_arg); ("drm_vmw_extended_context_arg",
   drm_vmw_extended_context_arg)])%list.
End Drm_vmwgfx_drm.
