(* ===== verification/AbiSound.v ===== *)
(** * ABI of audio

    The structures and unions of these headers of [kernel-headers], one module per
    header: the larger ones as types of their own, those that stand in a row as a
    block; and the ioctl commands with their arguments. *)
From S2P Require Import Prelude.
From S2P Require Import CLayout.
From S2P Require Import Ioctl.
#[local] Open Scope string_scope.

(** ** [linux/avtimer.h] *)

Module Avtimer.
Definition avtimer_ioctls : list command := [
  _IOR "IOCTL_GET_AVTIMER_TICK" 0x64 0 uint64_t].
End Avtimer.

(** ** [linux/ixjuser.h] *)

Module Ixjuser.
Definition structs_IXJ_FILTER_FREQ : list (string * cty) :=
  let IXJ_FILTER_FREQ := enum in
  [
  ("IXJ_FILTER_FREQ", IXJ_FILTER_FREQ);
  ("IXJ_FILTER", Struct [("filter", uint); ("freq", IXJ_FILTER_FREQ); ("enable", char)]);
  ("IXJ_FILTER_CADENCE", Struct [("enable", char); ("en_filter", char); ("filter", uint);
   ("on1", uint); ("off1", uint); ("on2", uint); ("off2", uint); ("on3", uint); ("off3", uint)])].
Definition IXJ_FREQ : cty := enum.
Definition IXJ_NOTE : cty := enum.
Definition IXJ_TONE : cty :=
  Struct [("tone_index", int); ("freq0", int); ("gain0", int); ("freq1", int); ("gain1", int)].
Definition structs_IXJ_CADENCE_ELEMENT : list (string * cty) :=
  let IXJ_CADENCE_TERM := enum in
  [
  ("IXJ_CADENCE_ELEMENT", Struct [("index", int); ("tone_on_time", int); ("tone_off_time", int);
   ("freq0", int); ("gain0", int); ("freq1", int); ("gain1", int)]);
  ("IXJ_CADENCE_TERM", IXJ_CADENCE_TERM);
  ("IXJ_CADENCE", Struct [("elements_used", int); ("termination", IXJ_CADENCE_TERM); ("ce", ptr)])].
Definition structs_IXJ_SIGEVENT : list (string * cty) :=
  [
  ("IXJ_SIGEVENT", enum);
  ("IXJ_SIGDEF", Struct [("event", uint); ("signal", int)])].
Definition IXJ_FILTER_RAW : cty :=
  Struct [("filter", uint); ("enable", char); ("coeff", Arr 19 uint)].
Definition ixjuser_types : list (string * cty) :=
  (structs_IXJ_FILTER_FREQ ++ [("IXJ_FREQ", IXJ_FREQ); ("IXJ_NOTE", IXJ_NOTE); ("IXJ_TONE",
   IXJ_TONE)] ++ structs_IXJ_CADENCE_ELEMENT ++ structs_IXJ_SIGEVENT ++ [("IXJ_FILTER_RAW",
   IXJ_FILTER_RAW)])%list.
Definition ixjuser_ioctls_1 : list command := [
  _IO "IXJCTL_DSP_RESET" (chr "q") 192].
Definition ixjuser_ioctls_2 : list command := [
  _IOR "IXJCTL_CARDTYPE" (chr "q") 193 int;
  _IOR "IXJCTL_SERIAL" (chr "q") 194 int;
  _IOR "IXJCTL_DSP_TYPE" (chr "q") 195 int;
  _IOR "IXJCTL_DSP_VERSION" (chr "q") 196 int;
  _IOR "IXJCTL_VERSION" (chr "q") 218 ptr;
  _IO "IXJCTL_DSP_IDLE" (chr "q") 197;
  _IO "IXJCTL_TESTRAM" (chr "q") 198].
Definition ixjuser_ioctls_3 : list command := [
  _IOW "IXJCTL_SET_FILTER" (chr "q") 199 ptr;
  _IOW "IXJCTL_SET_FILTER_RAW" (chr "q") 221 ptr;
  _IOW "IXJCTL_GET_FILTER_HIST" (chr "q") 200 int;
  _IOW "IXJCTL_FILTER_CADENCE" (chr "q") 214 ptr;
  _IO "IXJCTL_PLAY_CID" (chr "q") 215].
Definition ixjuser_ioctls_4 : list command := [
  _IOW "IXJCTL_INIT_TONE" (chr "q") 201 ptr].
Definition ixjuser_ioctls_5 : list command := [
  _IOW "IXJCTL_TONE_CADENCE" (chr "q") 202 ptr].
Definition ixjuser_ioctls_6 : list command := [
  _IOW "IXJCTL_AEC_START" (chr "q") 203 int;
  _IO "IXJCTL_AEC_STOP" (chr "q") 204;
  _IO "IXJCTL_AEC_GET_LEVEL" (chr "q") 205].
Definition ixjuser_ioctls_7 : list command := [
  _IOW "IXJCTL_SET_LED" (chr "q") 206 int;
  _IOW "IXJCTL_MIXER" (chr "q") 207 int].
Definition ixjuser_ioctls_8 : list command := [
  _IOW "IXJCTL_DAA_COEFF_SET" (chr "q") 208 int].
Definition ixjuser_ioctls_9 : list command := [
  _IOW "IXJCTL_PORT" (chr "q") 209 int].
Definition ixjuser_ioctls_10 : list command := [
  _IOW "IXJCTL_DAA_AGAIN" (chr "q") 210 int].
Definition ixjuser_ioctls_11 : list command := [
  _IO "IXJCTL_PSTN_LINETEST" (chr "q") 211;
  _IOR "IXJCTL_CID" (chr "q") 212 ptr;
  _IOR "IXJCTL_VMWI" (chr "q") 216 int;
  _IOW "IXJCTL_CIDCW" (chr "q") 217 ptr].
Definition ixjuser_ioctls_12 : list command := [
  _IOW "IXJCTL_POTS_PSTN" (chr "q") 213 int].
Definition ixjuser_ioctls_13 : list command := [
  _IOW "IXJCTL_HZ" (chr "q") 224 int;
  _IOW "IXJCTL_RATE" (chr "q") 225 int;
  _IOR "IXJCTL_FRAMES_READ" (chr "q") 226 ulong;
  _IOR "IXJCTL_FRAMES_WRITTEN" (chr "q") 227 ulong;
  _IOR "IXJCTL_READ_WAIT" (chr "q") 228 ulong;
  _IOR "IXJCTL_WRITE_WAIT" (chr "q") 229 ulong;
  _IOR "IXJCTL_DRYBUFFER_READ" (chr "q") 230 ulong;
  _IO "IXJCTL_DRYBUFFER_CLEAR" (chr "q") 231;
  _IOW "IXJCTL_DTMF_PRESCALE" (chr "q") 232 int].
Definition ixjuser_ioctls_14 : list command := [
  _IOW "IXJCTL_SIGCTL" (chr "q") 233 ptr].
Definition ixjuser_ioctls_15 : list command := [
  _IOW "IXJCTL_SC_RXG" (chr "q") 234 int;
  _IOW "IXJCTL_SC_TXG" (chr "q") 235 int].
Definition ixjuser_ioctls_16 : list command := [
  _IOW "IXJCTL_INTERCOM_START" (chr "q") 253 int;
  _IOW "IXJCTL_INTERCOM_STOP" (chr "q") 254 int].
Definition ixjuser_ioctls : list command :=
  (ixjuser_ioctls_1 ++ ixjuser_ioctls_2 ++ ixjuser_ioctls_3 ++ ixjuser_ioctls_4 ++
  ixjuser_ioctls_5 ++ ixjuser_ioctls_6 ++ ixjuser_ioctls_7 ++ ixjuser_ioctls_8 ++
  ixjuser_ioctls_9 ++ ixjuser_ioctls_10 ++ ixjuser_ioctls_11 ++ ixjuser_ioctls_12 ++
  ixjuser_ioctls_13 ++ ixjuser_ioctls_14 ++ ixjuser_ioctls_15 ++ ixjuser_ioctls_16)%list.
End Ixjuser.

(** ** [linux/msm_adsp.h] *)

Module Msm_adsp.
Definition structs_adsp_command_t : list (string * cty) :=
  [
  ("adsp_command_t", Struct [("queue", uint16_t); ("len", uint32_t); ("data", ptr)]);
  ("adsp_event_t", Struct [("type", uint16_t); ("timeout_ms", uint32_t); ("msg_id", uint16_t);
   ("flags", uint16_t); ("len", uint32_t); ("data", ptr)])].
Definition msm_adsp_types : list (string * cty) := structs_adsp_command_t.
Definition msm_adsp_ioctls : list command := [
  _IOR "ADSP_IOCTL_ENABLE" (chr "q") 1 uint;
  _IOR "ADSP_IOCTL_DISABLE" (chr "q") 2 uint;
  _IOR "ADSP_IOCTL_DISABLE_ACK" (chr "q") 3 uint;
  _IOR "ADSP_IOCTL_WRITE_COMMAND" (chr "q") 4 ptr;
  _IOWR "ADSP_IOCTL_GET_EVENT" (chr "q") 5 ptr;
  _IOR "ADSP_IOCTL_SET_CLKRATE" (chr "q") 6 uint;
  _IOR "ADSP_IOCTL_DISABLE_EVENT_RSP" (chr "q") 10 uint;
  _IOW "ADSP_IOCTL_REGISTER_PMEM" (chr "q") 13 uint;
  _IOW "ADSP_IOCTL_UNREGISTER_PMEM" (chr "q") 14 uint;
  _IOW "ADSP_IOCTL_ABORT_EVENT_READ" (chr "q") 15 uint;
  _IOW "ADSP_IOCTL_LINK_TASK" (chr "q") 16 uint].
End Msm_adsp.

(** ** [linux/msm_audio.h] *)

Module Msm_audio.
Definition AUDIO_MAX_EQ_BANDS : Z := 12.
Definition structs_msm_audio_config : list (string * cty) :=
  [
  ("msm_audio_config", Struct [("buffer_size", uint32_t); ("buffer_count", uint32_t);
   ("channel_count", uint32_t); ("sample_rate", uint32_t); ("type", uint32_t);
   ("meta_field", uint32_t); ("bits", uint32_t); ("unused", Arr 3 uint32_t)]);
  ("msm_audio_stream_config", Struct [("buffer_size", uint32_t); ("buffer_count", uint32_t)]);
  ("msm_audio_buf_cfg", Struct [("meta_info_enable", uint32_t); ("frames_per_buf", uint32_t)]);
  ("msm_audio_stats", Struct [("byte_count", uint32_t); ("sample_count", uint32_t);
   ("unused", Arr 2 uint32_t)]);
  ("msm_audio_ion_info", Struct [("fd", int); ("vaddr", ptr)]);
  ("msm_audio_pmem_info", Struct [("fd", int); ("vaddr", ptr)]);
  ("msm_audio_aio_buf", Struct [("buf_addr", ptr); ("buf_len", uint32_t); ("data_len", uint32_t);
   ("private_data", ptr); ("mfield_sz", ushort)])].
Definition msm_audio_config : cty := type_in structs_msm_audio_config "msm_audio_config".
Definition msm_audio_stream_config : cty := type_in structs_msm_audio_config "msm_audio_stream_config".
Definition msm_audio_buf_cfg : cty := type_in structs_msm_audio_config "msm_audio_buf_cfg".
Definition msm_audio_stats : cty := type_in structs_msm_audio_config "msm_audio_stats".
Definition msm_audio_ion_info : cty := type_in structs_msm_audio_config "msm_audio_ion_info".
Definition msm_audio_aio_buf : cty := type_in structs_msm_audio_config "msm_audio_aio_buf".
Definition structs_msm_mute_info : list (string * cty) :=
  [
  ("msm_mute_info", Struct [("mute", uint32_t); ("path", uint32_t)]);
  ("msm_vol_info", Struct [("vol", uint32_t); ("path", uint32_t)]);
  ("msm_voicerec_mode", Struct [("rec_mode", uint32_t)]);
  ("msm_snd_device_config", Struct [("device", uint32_t); ("ear_mute", uint32_t);
   ("mic_mute", uint32_t)])].
Definition msm_vol_info : cty := type_in structs_msm_mute_info "msm_vol_info".
Definition msm_voicerec_mode : cty := type_in structs_msm_mute_info "msm_voicerec_mode".
Definition structs_cad_devices_type : list (string * cty) :=
  let cad_devices_type := Struct [("rx_device", uint32_t); ("tx_device", uint32_t);
   ("pathtype", enum)] in
  [
  ("cad_devices_type", cad_devices_type);
  ("msm_cad_device_config", Struct [("device", cad_devices_type); ("ear_mute", uint32_t);
   ("mic_mute", uint32_t)])].
Definition cad_devices_type : cty := type_in structs_cad_devices_type "cad_devices_type".
Definition msm_snd_volume_config : cty :=
  Struct [("device", uint32_t); ("method", uint32_t); ("volume", uint32_t)].
Definition msm_cad_volume_config : cty :=
  Struct [("device", cad_devices_type); ("method", uint32_t); ("volume", uint32_t)].
Definition msm_snd_endpoint : cty := Struct [("id", int); ("name", Arr 64 char)].
Definition msm_cad_endpoint : cty := Struct [("id", int); ("name", Arr 64 char)].
Definition msm_audio_pcm_config : cty :=
  Struct [("pcm_feedback", uint32_t); ("buffer_count", uint32_t); ("buffer_size", uint32_t)].
Definition structs_msm_audio_bitstream_info : list (string * cty) :=
  let msm_audio_bitstream_info := Struct [("codec_type", uint32_t); ("chan_info", uint32_t);
   ("sample_rate", uint32_t); ("bit_stream_info", uint32_t); ("bit_rate", uint32_t);
   ("unused", Arr 3 uint32_t)] in
  let msm_audio_bitstream_error_info := Struct [("dec_id", uint32_t);
   ("err_msg_indicator", uint32_t); ("err_type", uint32_t)] in
  let msm_audio_event_payload := Union [("aio_buf", msm_audio_aio_buf);
   ("stream_info", msm_audio_bitstream_info); ("error_info", msm_audio_bitstream_error_info);
   ("reserved", int)] in
  [
  ("msm_audio_bitstream_info", msm_audio_bitstream_info);
  ("msm_audio_bitstream_error_info", msm_audio_bitstream_error_info);
  ("msm_audio_event_payload", msm_audio_event_payload);
  ("msm_audio_event", Struct [("event_type", int); ("timeout_ms", int);
   ("event_payload", msm_audio_event_payload)])].
Definition msm_audio_bitstream_info : cty := type_in structs_msm_audio_bitstream_info "msm_audio_bitstream_info".
Definition msm_audio_bitstream_error_info : cty := type_in structs_msm_audio_bitstream_info "msm_audio_bitstream_error_info".
Definition msm_audio_event : cty := type_in structs_msm_audio_bitstream_info "msm_audio_event".
Definition structs_msm_snd_device_info : list (string * cty) :=
  [
  ("msm_snd_device_info", Struct [("dev_id", uint32_t); ("dev_cap", uint32_t);
   ("dev_name", Arr 64 char)]);
  ("msm_snd_device_list", Struct [("num_dev", uint32_t); ("list", ptr)]);
  ("msm_dtmf_config", Struct [("path", uint16_t); ("dtmf_hi", uint16_t); ("dtmf_low", uint16_t);
   ("duration", uint16_t); ("tx_gain", uint16_t); ("rx_gain", uint16_t); ("mixing", uint16_t)])].
Definition msm_snd_device_list : cty := type_in structs_msm_snd_device_info "msm_snd_device_list".
Definition msm_audio_route_config : cty :=
  Struct [("stream_type", uint32_t); ("stream_id", uint32_t); ("dev_id", uint32_t)].
Definition structs_msm_audio_eq_band : list (string * cty) :=
  let msm_audio_eq_band := Packed [("band_idx", uint16_t); ("filter_type", uint32_t);
   ("center_freq_hz", uint32_t); ("filter_gain", uint32_t); ("q_factor", uint32_t)] in
  let msm_hwacc_data_config := Struct [("buf_size", __u32); ("num_buf", __u32);
   ("num_channels", __u32); ("channel_map", Arr 8 __u8); ("sample_rate", __u32);
   ("bits_per_sample", __u32)] in
  let msm_hwacc_buf_cfg := Struct [("input_len", __u32); ("output_len", __u32)] in
  [
  ("msm_audio_eq_band", msm_audio_eq_band);
  ("msm_audio_eq_stream_config", Packed [("enable", uint32_t); ("num_bands", uint32_t);
   ("eq_bands", Arr AUDIO_MAX_EQ_BANDS msm_audio_eq_band)]);
  ("msm_acdb_cmd_device", Struct [("command_id", uint32_t); ("device_id", uint32_t);
   ("network_id", uint32_t); ("sample_rate_id", uint32_t); ("interface_id", uint32_t);
   ("algorithm_block_id", uint32_t); ("total_bytes", uint32_t); ("phys_buf", ptr)]);
  ("msm_hwacc_data_config", msm_hwacc_data_config);
  ("msm_hwacc_buf_cfg", msm_hwacc_buf_cfg);
  ("msm_hwacc_buf_avail", Struct [("input_num_avail", __u32); ("output_num_avail", __u32)]);
  ("msm_hwacc_effects_config", Struct [("input", msm_hwacc_data_config);
   ("output", msm_hwacc_data_config); ("buf_cfg", msm_hwacc_buf_cfg);
   ("meta_mode_enabled", __u32); ("overwrite_topology", __u32); ("topology", __s32)])].
Definition msm_acdb_cmd_device : cty := type_in structs_msm_audio_eq_band "msm_acdb_cmd_device".
Definition msm_hwacc_buf_cfg : cty := type_in structs_msm_audio_eq_band "msm_hwacc_buf_cfg".
Definition msm_hwacc_buf_avail : cty := type_in structs_msm_audio_eq_band "msm_hwacc_buf_avail".
Definition msm_hwacc_effects_config : cty := type_in structs_msm_audio_eq_band "msm_hwacc_effects_config".
Definition msm_adsp_event_data : cty :=
  Struct [("event_type", __u32); ("payload_len", __u32); ("payload", Arr 0 __u8)].
Definition msm_audio_types : list (string * cty) :=
  (structs_msm_audio_config ++ structs_msm_mute_info ++ structs_cad_devices_type ++
   [("msm_snd_volume_config", msm_snd_volume_config); ("msm_cad_volume_config",
   msm_cad_volume_config); ("msm_snd_endpoint", msm_snd_endpoint); ("msm_cad_endpoint",
   msm_cad_endpoint); ("msm_audio_pcm_config", msm_audio_pcm_config)] ++
   structs_msm_audio_bitstream_info ++ structs_msm_snd_device_info ++
   [("msm_audio_route_config", msm_audio_route_config)] ++ structs_msm_audio_eq_band ++
   [("msm_adsp_event_data", msm_adsp_event_data)])%list.
Definition msm_audio_ioctls_1 : list command := [
  _IOW "AUDIO_START" (chr "a") 0 uint;
  _IOW "AUDIO_STOP" (chr "a") 1 uint;
  _IOW "AUDIO_FLUSH" (chr "a") 2 uint;
  _IOR "AUDIO_GET_CONFIG" (chr "a") 3 msm_audio_config;
  _IOW "AUDIO_SET_CONFIG" (chr "a") 4 msm_audio_config;
  _IOR "AUDIO_GET_STATS" (chr "a") 5 msm_audio_stats;
  _IOW "AUDIO_ENABLE_AUDPP" (chr "a") 6 uint;
  _IOW "AUDIO_SET_ADRC" (chr "a") 7 uint;
  _IOW "AUDIO_SET_EQ" (chr "a") 8 uint;
  _IOW "AUDIO_SET_RX_IIR" (chr "a") 9 uint;
  _IOW "AUDIO_SET_VOLUME" (chr "a") 10 uint;
  _IOW "AUDIO_PAUSE" (chr "a") 11 uint;
  _IOW "AUDIO_PLAY_DTMF" (chr "a") 12 uint;
  _IOR "AUDIO_GET_EVENT" (chr "a") 13 msm_audio_event;
  _IOW "AUDIO_ABORT_GET_EVENT" (chr "a") 14 uint;
  _IOW "AUDIO_REGISTER_PMEM" (chr "a") 15 uint;
  _IOW "AUDIO_DEREGISTER_PMEM" (chr "a") 16 uint;
  _IOW "AUDIO_ASYNC_WRITE" (chr "a") 17 msm_audio_aio_buf;
  _IOW "AUDIO_ASYNC_READ" (chr "a") 18 msm_audio_aio_buf;
  _IOW "AUDIO_SET_INCALL" (chr "a") 19 msm_voicerec_mode;
  _IOR "AUDIO_GET_NUM_SND_DEVICE" (chr "a") 20 uint;
  _IOWR "AUDIO_GET_SND_DEVICES" (chr "a") 21 msm_snd_device_list;
  _IOW "AUDIO_ENABLE_SND_DEVICE" (chr "a") 22 uint;
  _IOW "AUDIO_DISABLE_SND_DEVICE" (chr "a") 23 uint;
  _IOW "AUDIO_ROUTE_STREAM" (chr "a") 24 msm_audio_route_config;
  _IOR "AUDIO_GET_PCM_CONFIG" (chr "a") 30 uint;
  _IOW "AUDIO_SET_PCM_CONFIG" (chr "a") 31 uint;
  _IOW "AUDIO_SWITCH_DEVICE" (chr "a") 32 uint;
  _IOW "AUDIO_SET_MUTE" (chr "a") 33 uint;
  _IOW "AUDIO_UPDATE_ACDB" (chr "a") 34 uint;
  _IOW "AUDIO_START_VOICE" (chr "a") 35 uint;
  _IOW "AUDIO_STOP_VOICE" (chr "a") 36 uint;
  _IOW "AUDIO_REINIT_ACDB" (chr "a") 39 uint;
  _IOW "AUDIO_OUTPORT_FLUSH" (chr "a") 40 ushort;
  _IOW "AUDIO_SET_ERR_THRESHOLD_VALUE" (chr "a") 41 ushort;
  _IOR "AUDIO_GET_BITSTREAM_ERROR_INFO" (chr "a") 42 msm_audio_bitstream_error_info;
  _IOW "AUDIO_SET_SRS_TRUMEDIA_PARAM" (chr "a") 43 uint;
  _IOW "AUDIO_SET_STREAM_CONFIG" (chr "a") 80 msm_audio_stream_config;
  _IOR "AUDIO_GET_STREAM_CONFIG" (chr "a") 81 msm_audio_stream_config;
  _IOR "AUDIO_GET_SESSION_ID" (chr "a") 82 ushort;
  _IOR "AUDIO_GET_STREAM_INFO" (chr "a") 83 msm_audio_bitstream_info;
  _IOW "AUDIO_SET_PAN" (chr "a") 84 uint;
  _IOW "AUDIO_SET_QCONCERT_PLUS" (chr "a") 85 uint;
  _IOW "AUDIO_SET_MBADRC" (chr "a") 86 uint;
  _IOW "AUDIO_SET_VOLUME_PATH" (chr "a") 87 msm_vol_info;
  _IOW "AUDIO_SET_MAX_VOL_ALL" (chr "a") 88 uint;
  _IOW "AUDIO_ENABLE_AUDPRE" (chr "a") 89 uint;
  _IOW "AUDIO_SET_AGC" (chr "a") 90 uint;
  _IOW "AUDIO_SET_NS" (chr "a") 91 uint;
  _IOW "AUDIO_SET_TX_IIR" (chr "a") 92 uint;
  _IOW "AUDIO_GET_BUF_CFG" (chr "a") 93 msm_audio_buf_cfg;
  _IOW "AUDIO_SET_BUF_CFG" (chr "a") 94 msm_audio_buf_cfg;
  _IOW "AUDIO_SET_ACDB_BLK" (chr "a") 95 msm_acdb_cmd_device;
  _IOW "AUDIO_GET_ACDB_BLK" (chr "a") 96 msm_acdb_cmd_device;
  _IOW "AUDIO_REGISTER_ION" (chr "a") 97 msm_audio_ion_info;
  _IOW "AUDIO_DEREGISTER_ION" (chr "a") 98 msm_audio_ion_info;
  _IOW "AUDIO_SET_EFFECTS_CONFIG" (chr "a") 99 msm_hwacc_effects_config;
  _IOW "AUDIO_EFFECTS_SET_BUF_LEN" (chr "a") 100 msm_hwacc_buf_cfg;
  _IOW "AUDIO_EFFECTS_GET_BUF_AVAIL" (chr "a") 101 msm_hwacc_buf_avail;
  _IOW "AUDIO_EFFECTS_WRITE" (chr "a") 102 ptr;
  _IOWR "AUDIO_EFFECTS_READ" (chr "a") 103 ptr;
  _IOW "AUDIO_EFFECTS_SET_PP_PARAMS" (chr "a") 104 ptr;
  _IOW "AUDIO_PM_AWAKE" (chr "a") 105 uint;
  _IOW "AUDIO_PM_RELAX" (chr "a") 106 uint].
Definition msm_audio_ioctls_2 : list command := [
  _IOW "SND_SET_DEVICE" (chr "s") 2 ptr].
Definition msm_audio_ioctls_3 : list command := [
  _IOW "CAD_SET_DEVICE" (chr "s") 2 ptr].
Definition msm_audio_ioctls_4 : list command := [
  _IOW "SND_SET_VOLUME" (chr "s") 3 ptr].
Definition msm_audio_ioctls_5 : list command := [
  _IOW "CAD_SET_VOLUME" (chr "s") 3 ptr;
  _IOR "SND_GET_NUM_ENDPOINTS" (chr "s") 4 ptr].
Definition msm_audio_ioctls_6 : list command := [
  _IOWR "SND_GET_ENDPOINT" (chr "s") 5 ptr;
  _IOW "SND_AVC_CTL" (chr "s") 6 ptr;
  _IOW "SND_AGC_CTL" (chr "s") 7 ptr;
  _IOR "CAD_GET_NUM_ENDPOINTS" (chr "s") 4 ptr].
Definition msm_audio_ioctls_7 : list command := [
  _IOWR "CAD_GET_ENDPOINT" (chr "s") 5 ptr].
Definition msm_audio_ioctls : list command :=
  (msm_audio_ioctls_1 ++ msm_audio_ioctls_2 ++ msm_audio_ioctls_3 ++ msm_audio_ioctls_4 ++
  msm_audio_ioctls_5 ++ msm_audio_ioctls_6 ++ msm_audio_ioctls_7)%list.
End Msm_audio.

(** ** [linux/msm_audio_aac.h] *)

Module Msm_audio_aac.
Definition structs_msm_audio_aac_config : list (string * cty) :=
  [
  ("msm_audio_aac_config", Struct [("format", short); ("audio_object", ushort);
   ("ep_config", ushort); ("aac_section_data_resilience_flag", ushort);
   ("aac_scalefactor_data_resilience_flag", ushort);
   ("aac_spectral_data_resilience_flag", ushort); ("sbr_on_flag", ushort);
   ("sbr_ps_on_flag", ushort); ("dual_mono_mode", ushort); ("channel_configuration", ushort);
   ("sample_rate", ushort)]);
  ("msm_audio_aac_enc_config", Struct [("channels", uint32_t); ("sample_rate", uint32_t);
   ("bit_rate", uint32_t); ("stream_format", uint32_t)])].
Definition msm_audio_aac_config : cty := type_in structs_msm_audio_aac_config "msm_audio_aac_config".
Definition msm_audio_aac_enc_config : cty := type_in structs_msm_audio_aac_config "msm_audio_aac_enc_config".
Definition msm_audio_aac_types : list (string * cty) := structs_msm_audio_aac_config.
Definition msm_audio_aac_ioctls : list command := [
  _IOW "AUDIO_SET_AAC_CONFIG" (chr "a") 107 msm_audio_aac_config;
  _IOR "AUDIO_GET_AAC_CONFIG" (chr "a") 108 msm_audio_aac_config;
  _IOW "AUDIO_SET_AAC_ENC_CONFIG" (chr "a") 110 msm_audio_aac_enc_config;
  _IOR "AUDIO_GET_AAC_ENC_CONFIG" (chr "a") 111 msm_audio_aac_enc_config;
  _IOR "AUDIO_SET_AAC_MIX_CONFIG" (chr "a") 112 uint32_t].
End Msm_audio_aac.

(** ** [linux/msm_audio_ac3.h] *)

Module Msm_audio_ac3.
Definition msm_audio_ac3_config : cty :=
  Struct [("numChans", ushort); ("wordSize", ushort); ("kCapableMode", ushort);
   ("compMode", ushort); ("outLfeOn", ushort); ("outputMode", ushort); ("stereoMode", ushort);
   ("dualMonoMode", ushort); ("fsCod", ushort); ("pcmScaleFac", ushort);
   ("dynRngScaleHi", ushort); ("dynRngScaleLow", ushort); ("user_downmix_flag", ushort);
   ("user_karaoke_flag", ushort); ("dm_address_high", ushort); ("dm_address_low", ushort);
   ("ko_address_high", ushort); ("ko_address_low", ushort); ("error_concealment", ushort);
   ("max_rep_count", ushort); ("channel_routing_mode", Arr 6 ushort)].
Definition msm_audio_ac3_types : list (string * cty) := [("msm_audio_ac3_config", msm_audio_ac3_config)].
Definition msm_audio_ac3_ioctls : list command := [
  _IOW "AUDIO_SET_AC3_CONFIG" (chr "a") 107 uint;
  _IOR "AUDIO_GET_AC3_CONFIG" (chr "a") 108 uint].
End Msm_audio_ac3.

(** ** [linux/msm_audio_alac.h] *)

Module Msm_audio_alac.
Definition msm_audio_alac_config : cty :=
  Struct [("frameLength", uint32_t); ("compatVersion", uint8_t); ("bitDepth", uint8_t);
   ("pb", uint8_t); ("mb", uint8_t); ("kb", uint8_t); ("channelCount", uint8_t);
   ("maxRun", uint16_t); ("maxSize", uint32_t); ("averageBitRate", uint32_t);
   ("sampleRate", uint32_t); ("channelLayout", uint32_t)].
Definition msm_audio_alac_types : list (string * cty) := [("msm_audio_alac_config", msm_audio_alac_config)].
Definition msm_audio_alac_ioctls : list command := [
  _IOR "AUDIO_GET_ALAC_CONFIG" 0x61 107 msm_audio_alac_config;
  _IOW "AUDIO_SET_ALAC_CONFIG" 0x61 108 msm_audio_alac_config].
End Msm_audio_alac.

(** ** [linux/msm_audio_amrnb.h] *)

Module Msm_audio_amrnb.
Definition structs_msm_audio_amrnb_enc_config : list (string * cty) :=
  [
  ("msm_audio_amrnb_enc_config", Struct [("voicememoencweight1", ushort);
   ("voicememoencweight2", ushort); ("voicememoencweight3", ushort);
   ("voicememoencweight4", ushort); ("dtx_mode_enable", ushort); ("test_mode_enable", ushort);
   ("enc_mode", ushort)]);
  ("msm_audio_amrnb_enc_config_v2", Struct [("band_mode", uint32_t); ("dtx_enable", uint32_t);
   ("frame_format", uint32_t)])].
Definition msm_audio_amrnb_enc_config_v2 : cty := type_in structs_msm_audio_amrnb_enc_config "msm_audio_amrnb_enc_config_v2".
Definition msm_audio_amrnb_types : list (string * cty) := structs_msm_audio_amrnb_enc_config.
Definition msm_audio_amrnb_ioctls : list command := [
  _IOW "AUDIO_GET_AMRNB_ENC_CONFIG" (chr "a") 107 uint;
  _IOR "AUDIO_SET_AMRNB_ENC_CONFIG" (chr "a") 108 uint;
  _IOW "AUDIO_GET_AMRNB_ENC_CONFIG_V2" (chr "a") 109 msm_audio_amrnb_enc_config_v2;
  _IOR "AUDIO_SET_AMRNB_ENC_CONFIG_V2" (chr "a") 110 msm_audio_amrnb_enc_config_v2].
End Msm_audio_amrnb.

(** ** [linux/msm_audio_amrwb.h] *)

Module Msm_audio_amrwb.
Definition msm_audio_amrwb_enc_config : cty :=
  Struct [("band_mode", uint32_t); ("dtx_enable", uint32_t); ("frame_format", uint32_t)].
Definition msm_audio_amrwb_types : list (string * cty) := [("msm_audio_amrwb_enc_config", msm_audio_amrwb_enc_config)].
Definition msm_audio_amrwb_ioctls : list command := [
  _IOW "AUDIO_GET_AMRWB_ENC_CONFIG" (chr "a") 107 msm_audio_amrwb_enc_config;
  _IOR "AUDIO_SET_AMRWB_ENC_CONFIG" (chr "a") 108 msm_audio_amrwb_enc_config].
End Msm_audio_amrwb.

(** ** [linux/msm_audio_amrwbplus.h] *)

Module Msm_audio_amrwbplus.
Definition msm_audio_amrwbplus_config_v2 : cty :=
  Struct [("size_bytes", uint); ("version", uint); ("num_channels", uint);
   ("amr_band_mode", uint); ("amr_dtx_mode", uint); ("amr_frame_fmt", uint);
   ("amr_lsf_idx", uint)].
Definition msm_audio_amrwbplus_types : list (string * cty) := [("msm_audio_amrwbplus_config_v2", msm_audio_amrwbplus_config_v2)].
Definition msm_audio_amrwbplus_ioctls : list command := [
  _IOR "AUDIO_GET_AMRWBPLUS_CONFIG_V2" 0x61 109 msm_audio_amrwbplus_config_v2;
  _IOW "AUDIO_SET_AMRWBPLUS_CONFIG_V2" 0x61 110 msm_audio_amrwbplus_config_v2].
End Msm_audio_amrwbplus.

(** ** [linux/msm_audio_anc.h] *)

Module Msm_audio_anc.
Definition ANC_CALIBRATION_PAYLOAD_SIZE_MAX : Z := 100.
Definition structs_audio_anc_header : list (string * cty) :=
  let audio_anc_header := Struct [("data_size", int32_t); ("version", int32_t);
   ("anc_cmd", int32_t); ("anc_cmd_size", int32_t)] in
  let audio_anc_rpm_info := Struct [("rpm", int32_t)] in
  let audio_anc_bypass_mode := Struct [("mode", int32_t)] in
  let audio_anc_algo_module_info := Struct [("module_id", int32_t)] in
  let audio_anc_algo_calibration_header := Struct [("module_id", uint32_t);
   ("param_id", uint32_t); ("payload_size", uint32_t)] in
  let audio_anc_algo_calibration_body := Struct [("payload", Arr ANC_CALIBRATION_PAYLOAD_SIZE_MAX int32_t)] in
  let audio_anc_algo_calibration_info := Struct [("cali_header", audio_anc_algo_calibration_header);
   ("cali_body", audio_anc_algo_calibration_body)] in
  let audio_anc_data := Union [("rpm_info", audio_anc_rpm_info);
   ("bypass_mode_info", audio_anc_bypass_mode); ("algo_info", audio_anc_algo_module_info);
   ("algo_cali_info", audio_anc_algo_calibration_info)] in
  [
  ("audio_anc_header", audio_anc_header);
  ("audio_anc_rpm_info", audio_anc_rpm_info);
  ("audio_anc_bypass_mode", audio_anc_bypass_mode);
  ("audio_anc_algo_module_info", audio_anc_algo_module_info);
  ("audio_anc_algo_calibration_header", audio_anc_algo_calibration_header);
  ("audio_anc_algo_calibration_body", audio_anc_algo_calibration_body);
  ("audio_anc_algo_calibration_info", audio_anc_algo_calibration_info);
  ("audio_anc_data", audio_anc_data);
  ("audio_anc_packet", Struct [("hdr", audio_anc_header); ("anc_data", audio_anc_data)])].
Definition msm_audio_anc_types : list (string * cty) := structs_audio_anc_header.
Definition msm_audio_anc_ioctls : list command := [
  _IOWR "AUDIO_ANC_SET_PARAM" (chr "a") 300 ptr;
  _IOWR "AUDIO_ANC_GET_PARAM" (chr "a") 301 ptr].
End Msm_audio_anc.

(** ** [linux/msm_audio_ape.h] *)

Module Msm_audio_ape.
Definition msm_audio_ape_config : cty :=
  Struct [("compatibleVersion", uint16_t); ("compressionLevel", uint16_t);
   ("formatFlags", uint32_t); ("blocksPerFrame", uint32_t); ("finalFrameBlocks", uint32_t);
   ("totalFrames", uint32_t); ("bitsPerSample", uint16_t); ("numChannels", uint16_t);
   ("sampleRate", uint32_t); ("seekTablePresent", uint32_t)].
Definition msm_audio_ape_types : list (string * cty) := [("msm_audio_ape_config", msm_audio_ape_config)].
Definition msm_audio_ape_ioctls : list command := [
  _IOR "AUDIO_GET_APE_CONFIG" 0x61 107 msm_audio_ape_config;
  _IOW "AUDIO_SET_APE_CONFIG" 0x61 108 msm_audio_ape_config].
End Msm_audio_ape.

(** ** [linux/msm_audio_calibration.h] *)

Module Msm_audio_calibration.
Definition MAX_HW_DELAY_ENTRIES : Z := 25.
Definition MAX_SIDETONE_IIR_DATA_SIZE : Z := 224.
Definition structs_audio_cal_header : list (string * cty) :=
  let audio_cal_header := Struct [("data_size", int32_t); ("version", int32_t);
   ("cal_type", int32_t); ("cal_type_size", int32_t)] in
  let audio_cal_type_header := Struct [("version", int32_t); ("buffer_number", int32_t)] in
  let audio_cal_data := Struct [("cal_size", int32_t); ("mem_handle", int32_t)] in
  let audio_cal_type_alloc := Struct [("cal_hdr", audio_cal_type_header);
   ("cal_data", audio_cal_data)] in
  let audio_cal_type_dealloc := Struct [("cal_hdr", audio_cal_type_header);
   ("cal_data", audio_cal_data)] in
  let audio_cal_type_prepare := Struct [("cal_hdr", audio_cal_type_header);
   ("cal_data", audio_cal_data)] in
  let audio_cal_type_post := Struct [("cal_hdr", audio_cal_type_header);
   ("cal_data", audio_cal_data)] in
  [
  ("audio_cal_header", audio_cal_header);
  ("audio_cal_type_header", audio_cal_type_header);
  ("audio_cal_data", audio_cal_data);
  ("audio_cal_type_alloc", audio_cal_type_alloc);
  ("audio_cal_alloc", Struct [("hdr", audio_cal_header); ("cal_type", audio_cal_type_alloc)]);
  ("audio_cal_type_dealloc", audio_cal_type_dealloc);
  ("audio_cal_dealloc", Struct [("hdr", audio_cal_header); ("cal_type", audio_cal_type_dealloc)]);
  ("audio_cal_type_prepare", audio_cal_type_prepare);
  ("audio_cal_prepare", Struct [("hdr", audio_cal_header); ("cal_type", audio_cal_type_prepare)]);
  ("audio_cal_type_post", audio_cal_type_post);
  ("audio_cal_post", Struct [("hdr", audio_cal_header); ("cal_type", audio_cal_type_post)]);
  ("audio_cal_info_metainfo", Struct [("nKey", uint32_t)])].
Definition audio_cal_header : cty := type_in structs_audio_cal_header "audio_cal_header".
Definition audio_cal_type_header : cty := type_in structs_audio_cal_header "audio_cal_type_header".
Definition audio_cal_data : cty := type_in structs_audio_cal_header "audio_cal_data".
Definition audio_cal_info_metainfo : cty := type_in structs_audio_cal_header "audio_cal_info_metainfo".
Definition structs_audio_cal_info_adm_top : list (string * cty) :=
  [
  ("audio_cal_info_adm_top", Struct [("topology", int32_t); ("acdb_id", int32_t);
   ("path", int32_t); ("app_type", int32_t); ("sample_rate", int32_t)]);
  ("audio_cal_info_audproc", Struct [("acdb_id", int32_t); ("path", int32_t);
   ("app_type", int32_t); ("sample_rate", int32_t)]);
  ("audio_cal_info_audvol", Struct [("acdb_id", int32_t); ("path", int32_t);
   ("app_type", int32_t); ("vol_index", int32_t)]);
  ("audio_cal_info_afe", Struct [("acdb_id", int32_t); ("path", int32_t);
   ("sample_rate", int32_t)]);
  ("audio_cal_info_afe_top", Struct [("topology", int32_t); ("acdb_id", int32_t);
   ("path", int32_t); ("sample_rate", int32_t)]);
  ("audio_cal_info_asm_top", Struct [("topology", int32_t); ("app_type", int32_t)]);
  ("audio_cal_info_audstrm", Struct [("app_type", int32_t)]);
  ("audio_cal_info_aanc", Struct [("acdb_id", int32_t)])].
Definition audio_cal_info_adm_top : cty := type_in structs_audio_cal_info_adm_top "audio_cal_info_adm_top".
Definition audio_cal_info_audproc : cty := type_in structs_audio_cal_info_adm_top "audio_cal_info_audproc".
Definition audio_cal_info_audvol : cty := type_in structs_audio_cal_info_adm_top "audio_cal_info_audvol".
Definition audio_cal_info_afe : cty := type_in structs_audio_cal_info_adm_top "audio_cal_info_afe".
Definition audio_cal_info_afe_top : cty := type_in structs_audio_cal_info_adm_top "audio_cal_info_afe_top".
Definition audio_cal_info_asm_top : cty := type_in structs_audio_cal_info_adm_top "audio_cal_info_asm_top".
Definition audio_cal_info_audstrm : cty := type_in structs_audio_cal_info_adm_top "audio_cal_info_audstrm".
Definition audio_cal_info_aanc : cty := type_in structs_audio_cal_info_adm_top "audio_cal_info_aanc".
Definition structs_audio_cal_hw_delay_entry : list (string * cty) :=
  let audio_cal_hw_delay_entry := Struct [("sample_rate", uint32_t); ("delay_usec", uint32_t)] in
  let audio_cal_hw_delay_data := Struct [("num_entries", uint32_t);
   ("entry", Arr MAX_HW_DELAY_ENTRIES audio_cal_hw_delay_entry)] in
  [
  ("audio_cal_hw_delay_entry", audio_cal_hw_delay_entry);
  ("audio_cal_hw_delay_data", audio_cal_hw_delay_data);
  ("audio_cal_info_hw_delay", Struct [("acdb_id", int32_t); ("path", int32_t);
   ("property_type", int32_t); ("data", audio_cal_hw_delay_data)])].
Definition audio_cal_info_hw_delay : cty := type_in structs_audio_cal_hw_delay_entry "audio_cal_info_hw_delay".
Definition structs_audio_cal_info_spk_prot_cfg : list (string * cty) :=
  [
  ("audio_cal_info_spk_prot_cfg", Struct [("r0", Arr 2 int32_t); ("t0", Arr 2 int32_t);
   ("quick_calib_flag", uint32_t); ("mode", uint32_t)]);
  ("audio_cal_info_sp_th_vi_ftm_cfg", Struct [("wait_time", Arr 2 uint32_t);
   ("ftm_time", Arr 2 uint32_t); ("mode", uint32_t)]);
  ("audio_cal_info_sp_ex_vi_ftm_cfg", Struct [("wait_time", Arr 2 uint32_t);
   ("ftm_time", Arr 2 uint32_t); ("mode", uint32_t)]);
  ("audio_cal_info_sp_ex_vi_param", Struct [("freq_q20", Arr 2 int32_t);
   ("resis_q24", Arr 2 int32_t); ("qmct_q24", Arr 2 int32_t); ("status", Arr 2 int32_t)]);
  ("audio_cal_info_sp_th_vi_param", Struct [("r_dc_q24", Arr 2 int32_t);
   ("temp_q22", Arr 2 int32_t); ("status", Arr 2 int32_t)]);
  ("audio_cal_info_msm_spk_prot_status", Struct [("r0", Arr 2 int32_t); ("status", int32_t)]);
  ("audio_cal_info_sidetone", Struct [("enable", uint16_t); ("gain", uint16_t);
   ("tx_acdb_id", int32_t); ("rx_acdb_id", int32_t); ("mid", int32_t); ("pid", int32_t)])].
Definition audio_cal_info_spk_prot_cfg : cty := type_in structs_audio_cal_info_spk_prot_cfg "audio_cal_info_spk_prot_cfg".
Definition audio_cal_info_sp_th_vi_ftm_cfg : cty := type_in structs_audio_cal_info_spk_prot_cfg "audio_cal_info_sp_th_vi_ftm_cfg".
Definition audio_cal_info_sp_ex_vi_ftm_cfg : cty := type_in structs_audio_cal_info_spk_prot_cfg "audio_cal_info_sp_ex_vi_ftm_cfg".
Definition audio_cal_info_sp_ex_vi_param : cty := type_in structs_audio_cal_info_spk_prot_cfg "audio_cal_info_sp_ex_vi_param".
Definition audio_cal_info_sp_th_vi_param : cty := type_in structs_audio_cal_info_spk_prot_cfg "audio_cal_info_sp_th_vi_param".
Definition audio_cal_info_msm_spk_prot_status : cty := type_in structs_audio_cal_info_spk_prot_cfg "audio_cal_info_msm_spk_prot_status".
Definition audio_cal_info_sidetone : cty := type_in structs_audio_cal_info_spk_prot_cfg "audio_cal_info_sidetone".
Definition structs_audio_cal_info_sidetone_iir : list (string * cty) :=
  [
  ("audio_cal_info_sidetone_iir", Struct [("iir_enable", uint16_t);
   ("num_biquad_stages", uint16_t); ("pregain", uint16_t); ("tx_acdb_id", int32_t);
   ("rx_acdb_id", int32_t); ("mid", int32_t); ("pid", int32_t);
   ("iir_config", Arr MAX_SIDETONE_IIR_DATA_SIZE uint8_t)]);
  ("audio_cal_info_lsm_top", Struct [("topology", int32_t); ("acdb_id", int32_t);
   ("app_type", int32_t)]);
  ("audio_cal_info_lsm", Struct [("acdb_id", int32_t); ("path", int32_t); ("app_type", int32_t)]);
  ("audio_cal_info_voc_top", Struct [("topology", int32_t); ("acdb_id", int32_t)]);
  ("audio_cal_info_vocproc", Struct [("tx_acdb_id", int32_t); ("rx_acdb_id", int32_t);
   ("tx_sample_rate", int32_t); ("rx_sample_rate", int32_t)])].
Definition audio_cal_info_sidetone_iir : cty := type_in structs_audio_cal_info_sidetone_iir "audio_cal_info_sidetone_iir".
Definition audio_cal_info_lsm_top : cty := type_in structs_audio_cal_info_sidetone_iir "audio_cal_info_lsm_top".
Definition audio_cal_info_lsm : cty := type_in structs_audio_cal_info_sidetone_iir "audio_cal_info_lsm".
Definition audio_cal_info_voc_top : cty := type_in structs_audio_cal_info_sidetone_iir "audio_cal_info_voc_top".
Definition audio_cal_info_vocproc : cty := type_in structs_audio_cal_info_sidetone_iir "audio_cal_info_vocproc".
Definition structs_audio_cal_info_vocvol : list (string * cty) :=
  [
  ("audio_cal_info_vocvol", Struct [("tx_acdb_id", int32_t); ("rx_acdb_id", int32_t);
   ("feature_set", int32_t)]);
  ("audio_cal_info_vocdev_cfg", Struct [("tx_acdb_id", int32_t); ("rx_acdb_id", int32_t)])].
Definition audio_cal_info_vocvol : cty := type_in structs_audio_cal_info_vocvol "audio_cal_info_vocvol".
Definition audio_cal_info_vocdev_cfg : cty := type_in structs_audio_cal_info_vocvol "audio_cal_info_vocdev_cfg".
Definition structs_audio_cal_type_basic : list (string * cty) :=
  let audio_cal_type_basic := Struct [("cal_hdr", audio_cal_type_header);
   ("cal_data", audio_cal_data)] in
  let audio_cal_type_adm_top := Struct [("cal_hdr", audio_cal_type_header);
   ("cal_data", audio_cal_data); ("cal_info", audio_cal_info_adm_top)] in
  let audio_cal_type_metainfo := Struct [("cal_hdr", audio_cal_type_header);
   ("cal_data", audio_cal_data); ("cal_info", audio_cal_info_metainfo)] in
  let audio_cal_type_audproc := Struct [("cal_hdr", audio_cal_type_header);
   ("cal_data", audio_cal_data); ("cal_info", audio_cal_info_audproc)] in
  let audio_cal_type_audvol := Struct [("cal_hdr", audio_cal_type_header);
   ("cal_data", audio_cal_data); ("cal_info", audio_cal_info_audvol)] in
  let audio_cal_type_asm_top := Struct [("cal_hdr", audio_cal_type_header);
   ("cal_data", audio_cal_data); ("cal_info", audio_cal_info_asm_top)] in
  let audio_cal_type_audstrm := Struct [("cal_hdr", audio_cal_type_header);
   ("cal_data", audio_cal_data); ("cal_info", audio_cal_info_audstrm)] in
  let audio_cal_type_afe := Struct [("cal_hdr", audio_cal_type_header);
   ("cal_data", audio_cal_data); ("cal_info", audio_cal_info_afe)] in
  let audio_cal_type_afe_top := Struct [("cal_hdr", audio_cal_type_header);
   ("cal_data", audio_cal_data); ("cal_info", audio_cal_info_afe_top)] in
  let audio_cal_type_aanc := Struct [("cal_hdr", audio_cal_type_header);
   ("cal_data", audio_cal_data); ("cal_info", audio_cal_info_aanc)] in
  let audio_cal_type_fb_spk_prot_cfg := Struct [("cal_hdr", audio_cal_type_header);
   ("cal_data", audio_cal_data); ("cal_info", audio_cal_info_spk_prot_cfg)] in
  let audio_cal_type_sp_th_vi_ftm_cfg := Struct [("cal_hdr", audio_cal_type_header);
   ("cal_data", audio_cal_data); ("cal_info", audio_cal_info_sp_th_vi_ftm_cfg)] in
  let audio_cal_type_sp_ex_vi_ftm_cfg := Struct [("cal_hdr", audio_cal_type_header);
   ("cal_data", audio_cal_data); ("cal_info", audio_cal_info_sp_ex_vi_ftm_cfg)] in
  [
  ("audio_cal_type_basic", audio_cal_type_basic);
  ("audio_cal_basic", Struct [("hdr", audio_cal_header); ("cal_type", audio_cal_type_basic)]);
  ("audio_cal_type_adm_top", audio_cal_type_adm_top);
  ("audio_cal_adm_top", Struct [("hdr", audio_cal_header); ("cal_type", audio_cal_type_adm_top)]);
  ("audio_cal_type_metainfo", audio_cal_type_metainfo);
  ("audio_core_metainfo", Struct [("hdr", audio_cal_header);
   ("cal_type", audio_cal_type_metainfo)]);
  ("audio_cal_type_audproc", audio_cal_type_audproc);
  ("audio_cal_audproc", Struct [("hdr", audio_cal_header); ("cal_type", audio_cal_type_audproc)]);
  ("audio_cal_type_audvol", audio_cal_type_audvol);
  ("audio_cal_audvol", Struct [("hdr", audio_cal_header); ("cal_type", audio_cal_type_audvol)]);
  ("audio_cal_type_asm_top", audio_cal_type_asm_top);
  ("audio_cal_asm_top", Struct [("hdr", audio_cal_header); ("cal_type", audio_cal_type_asm_top)]);
  ("audio_cal_type_audstrm", audio_cal_type_audstrm);
  ("audio_cal_audstrm", Struct [("hdr", audio_cal_header); ("cal_type", audio_cal_type_audstrm)]);
  ("audio_cal_type_afe", audio_cal_type_afe);
  ("audio_cal_afe", Struct [("hdr", audio_cal_header); ("cal_type", audio_cal_type_afe)]);
  ("audio_cal_type_afe_top", audio_cal_type_afe_top);
  ("audio_cal_afe_top", Struct [("hdr", audio_cal_header); ("cal_type", audio_cal_type_afe_top)]);
  ("audio_cal_type_aanc", audio_cal_type_aanc);
  ("audio_cal_aanc", Struct [("hdr", audio_cal_header); ("cal_type", audio_cal_type_aanc)]);
  ("audio_cal_type_fb_spk_prot_cfg", audio_cal_type_fb_spk_prot_cfg);
  ("audio_cal_fb_spk_prot_cfg", Struct [("hdr", audio_cal_header);
   ("cal_type", audio_cal_type_fb_spk_prot_cfg)]);
  ("audio_cal_type_sp_th_vi_ftm_cfg", audio_cal_type_sp_th_vi_ftm_cfg);
  ("audio_cal_sp_th_vi_ftm_cfg", Struct [("hdr", audio_cal_header);
   ("cal_type", audio_cal_type_sp_th_vi_ftm_cfg)]);
  ("audio_cal_type_sp_ex_vi_ftm_cfg", audio_cal_type_sp_ex_vi_ftm_cfg);
  ("audio_cal_sp_ex_vi_ftm_cfg", Struct [("hdr", audio_cal_header);
   ("cal_type", audio_cal_type_sp_ex_vi_ftm_cfg)]);
  ("audio_cal_type_hw_delay", Struct [("cal_hdr", audio_cal_type_header);
   ("cal_data", audio_cal_data); ("cal_info", audio_cal_info_hw_delay)])].
Definition audio_cal_type_hw_delay : cty := type_in structs_audio_cal_type_basic "audio_cal_type_hw_delay".
Definition structs_audio_cal_hw_delay : list (string * cty) :=
  let audio_cal_type_sidetone := Struct [("cal_hdr", audio_cal_type_header);
   ("cal_data", audio_cal_data); ("cal_info", audio_cal_info_sidetone)] in
  let audio_cal_type_sidetone_iir := Struct [("cal_hdr", audio_cal_type_header);
   ("cal_data", audio_cal_data); ("cal_info", audio_cal_info_sidetone_iir)] in
  let audio_cal_type_lsm_top := Struct [("cal_hdr", audio_cal_type_header);
   ("cal_data", audio_cal_data); ("cal_info", audio_cal_info_lsm_top)] in
  let audio_cal_type_lsm := Struct [("cal_hdr", audio_cal_type_header);
   ("cal_data", audio_cal_data); ("cal_info", audio_cal_info_lsm)] in
  let audio_cal_type_voc_top := Struct [("cal_hdr", audio_cal_type_header);
   ("cal_data", audio_cal_data); ("cal_info", audio_cal_info_voc_top)] in
  let audio_cal_type_vocproc := Struct [("cal_hdr", audio_cal_type_header);
   ("cal_data", audio_cal_data); ("cal_info", audio_cal_info_vocproc)] in
  let audio_cal_type_vocvol := Struct [("cal_hdr", audio_cal_type_header);
   ("cal_data", audio_cal_data); ("cal_info", audio_cal_info_vocvol)] in
  let audio_cal_type_vocdev_cfg := Struct [("cal_hdr", audio_cal_type_header);
   ("cal_data", audio_cal_data); ("cal_info", audio_cal_info_vocdev_cfg)] in
  [
  ("audio_cal_hw_delay", Struct [("hdr", audio_cal_header); ("cal_type", audio_cal_type_hw_delay)]);
  ("audio_cal_type_sidetone", audio_cal_type_sidetone);
  ("audio_cal_sidetone", Struct [("hdr", audio_cal_header); ("cal_type", audio_cal_type_sidetone)]);
  ("audio_cal_type_sidetone_iir", audio_cal_type_sidetone_iir);
  ("audio_cal_sidetone_iir", Struct [("hdr", audio_cal_header);
   ("cal_type", audio_cal_type_sidetone_iir)]);
  ("audio_cal_type_lsm_top", audio_cal_type_lsm_top);
  ("audio_cal_lsm_top", Struct [("hdr", audio_cal_header); ("cal_type", audio_cal_type_lsm_top)]);
  ("audio_cal_type_lsm", audio_cal_type_lsm);
  ("audio_cal_lsm", Struct [("hdr", audio_cal_header); ("cal_type", audio_cal_type_lsm)]);
  ("audio_cal_type_voc_top", audio_cal_type_voc_top);
  ("audio_cal_voc_top", Struct [("hdr", audio_cal_header); ("cal_type", audio_cal_type_voc_top)]);
  ("audio_cal_type_vocproc", audio_cal_type_vocproc);
  ("audio_cal_vocproc", Struct [("hdr", audio_cal_header); ("cal_type", audio_cal_type_vocproc)]);
  ("audio_cal_type_vocvol", audio_cal_type_vocvol);
  ("audio_cal_vocvol", Struct [("hdr", audio_cal_header); ("cal_type", audio_cal_type_vocvol)]);
  ("audio_cal_type_vocdev_cfg", audio_cal_type_vocdev_cfg);
  ("audio_cal_vocdev_cfg", Struct [("hdr", audio_cal_header);
   ("cal_type", audio_cal_type_vocdev_cfg)])].
Definition structs_audio_cal_type_fb_spk_prot_status : list (string * cty) :=
  let audio_cal_type_fb_spk_prot_status := Struct [("cal_hdr", audio_cal_type_header);
   ("cal_data", audio_cal_data); ("cal_info", audio_cal_info_msm_spk_prot_status)] in
  let audio_cal_type_sp_th_vi_param := Struct [("cal_hdr", audio_cal_type_header);
   ("cal_data", audio_cal_data); ("cal_info", audio_cal_info_sp_th_vi_param)] in
  let audio_cal_type_sp_ex_vi_param := Struct [("cal_hdr", audio_cal_type_header);
   ("cal_data", audio_cal_data); ("cal_info", audio_cal_info_sp_ex_vi_param)] in
  [
  ("audio_cal_type_fb_spk_prot_status", audio_cal_type_fb_spk_prot_status);
  ("audio_cal_fb_spk_prot_status", Struct [("hdr", audio_cal_header);
   ("cal_type", audio_cal_type_fb_spk_prot_status)]);
  ("audio_cal_type_sp_th_vi_param", audio_cal_type_sp_th_vi_param);
  ("audio_cal_sp_th_vi_param", Struct [("hdr", audio_cal_header);
   ("cal_type", audio_cal_type_sp_th_vi_param)]);
  ("audio_cal_type_sp_ex_vi_param", audio_cal_type_sp_ex_vi_param);
  ("audio_cal_sp_ex_vi_param", Struct [("hdr", audio_cal_header);
   ("cal_type", audio_cal_type_sp_ex_vi_param)])].
Definition msm_audio_calibration_types : list (string * cty) :=
  (structs_audio_cal_header ++ structs_audio_cal_info_adm_top ++
   structs_audio_cal_hw_delay_entry ++ structs_audio_cal_info_spk_prot_cfg ++
   structs_audio_cal_info_sidetone_iir ++ structs_audio_cal_info_vocvol ++
   structs_audio_cal_type_basic ++ structs_audio_cal_hw_delay ++
   structs_audio_cal_type_fb_spk_prot_status)%list.
Definition msm_audio_calibration_ioctls : list command := [
  _IOWR "AUDIO_ALLOCATE_CALIBRATION" (chr "a") 200 ptr;
  _IOWR "AUDIO_DEALLOCATE_CALIBRATION" (chr "a") 201 ptr;
  _IOWR "AUDIO_PREPARE_CALIBRATION" (chr "a") 202 ptr;
  _IOWR "AUDIO_SET_CALIBRATION" (chr "a") 203 ptr;
  _IOWR "AUDIO_GET_CALIBRATION" (chr "a") 204 ptr;
  _IOWR "AUDIO_POST_CALIBRATION" (chr "a") 205 ptr;
  _IOR "AUDIO_GET_RTAC_ADM_INFO" (chr "a") 207 ptr;
  _IOR "AUDIO_GET_RTAC_VOICE_INFO" (chr "a") 208 ptr;
  _IOWR "AUDIO_GET_RTAC_ADM_CAL" (chr "a") 209 ptr;
  _IOWR "AUDIO_SET_RTAC_ADM_CAL" (chr "a") 210 ptr;
  _IOWR "AUDIO_GET_RTAC_ASM_CAL" (chr "a") 211 ptr;
  _IOWR "AUDIO_SET_RTAC_ASM_CAL" (chr "a") 212 ptr;
  _IOWR "AUDIO_GET_RTAC_CVS_CAL" (chr "a") 213 ptr;
  _IOWR "AUDIO_SET_RTAC_CVS_CAL" (chr "a") 214 ptr;
  _IOWR "AUDIO_GET_RTAC_CVP_CAL" (chr "a") 215 ptr;
  _IOWR "AUDIO_SET_RTAC_CVP_CAL" (chr "a") 216 ptr;
  _IOWR "AUDIO_GET_RTAC_AFE_CAL" (chr "a") 217 ptr;
  _IOWR "AUDIO_SET_RTAC_AFE_CAL" (chr "a") 218 ptr].
End Msm_audio_calibration.

(** ** [linux/msm_audio_g711.h] *)

Module Msm_audio_g711.
Definition msm_audio_g711_enc_config : cty := Struct [("sample_rate", uint32_t)].
Definition msm_audio_g711_types : list (string * cty) := [("msm_audio_g711_enc_config", msm_audio_g711_enc_config)].
Definition msm_audio_g711_ioctls : list command := [
  _IOW "AUDIO_SET_G711_ENC_CONFIG" (chr "a") 107 msm_audio_g711_enc_config;
  _IOR "AUDIO_GET_G711_ENC_CONFIG" (chr "a") 108 msm_audio_g711_enc_config].
End Msm_audio_g711.

(** ** [linux/msm_audio_g711_dec.h] *)

Module Msm_audio_g711_dec.
Definition msm_audio_g711_dec_config : cty := Struct [("sample_rate", uint32_t)].
Definition msm_audio_g711_dec_types : list (string * cty) := [("msm_audio_g711_dec_config", msm_audio_g711_dec_config)].
Definition msm_audio_g711_dec_ioctls : list command := [
  _IOW "AUDIO_SET_G711_DEC_CONFIG" (chr "a") 107 msm_audio_g711_dec_config;
  _IOR "AUDIO_GET_G711_DEC_CONFIG" (chr "a") 108 msm_audio_g711_dec_config].
End Msm_audio_g711_dec.

(** ** [linux/msm_audio_mvs.h] *)

Module Msm_audio_mvs.
Definition MVS_MAX_VOC_PKT_SIZE : Z := 640.
Definition Q5V2_MVS_MAX_VOC_PKT_SIZE : Z := 320.
Definition structs_min_max_rate : list (string * cty) :=
  let min_max_rate := Struct [("min_rate", uint32_t); ("max_rate", uint32_t)] in
  [
  ("min_max_rate", min_max_rate);
  ("msm_audio_mvs_config", Struct [("mvs_mode", uint32_t); ("rate_type", uint32_t);
   ("min_max_rate", min_max_rate); ("dtx_mode", uint32_t)])].
Definition structs_gsm_header : list (string * cty) :=
  let gsm_header := Struct [("bfi", uint8_t); ("sid", uint8_t); ("taf", uint8_t);
   ("ufi", uint8_t)] in
  [
  ("gsm_header", gsm_header);
  ("q6_msm_audio_mvs_frame", Struct [("header", Union [("frame_type", uint32_t);
   ("packet_rate", uint32_t); ("gsm_frame_type", gsm_header)]); ("len", uint32_t);
   ("voc_pkt", Arr MVS_MAX_VOC_PKT_SIZE uint8_t)]);
  ("msm_audio_mvs_frame", Struct [("frame_type", uint32_t); ("len", uint32_t);
   ("voc_pkt", Arr MVS_MAX_VOC_PKT_SIZE uint8_t)])].
Definition q5v2_msm_audio_mvs_frame : cty :=
  Struct [("frame_type", uint32_t); ("len", uint32_t);
   ("voc_pkt", Arr Q5V2_MVS_MAX_VOC_PKT_SIZE uint8_t)].
Definition msm_audio_mvs_types : list (string * cty) :=
  (structs_min_max_rate ++ structs_gsm_header ++ [("q5v2_msm_audio_mvs_frame",
   q5v2_msm_audio_mvs_frame)])%list.
Definition msm_audio_mvs_ioctls : list command := [
  _IOW "AUDIO_GET_MVS_CONFIG" (chr "a") 107 uint;
  _IOR "AUDIO_SET_MVS_CONFIG" (chr "a") 108 uint].
End Msm_audio_mvs.

(** ** [linux/msm_audio_qcp.h] *)

Module Msm_audio_qcp.
Definition structs_msm_audio_qcelp_enc_config : list (string * cty) :=
  [
  ("msm_audio_qcelp_enc_config", Struct [("cdma_rate", uint32_t); ("min_bit_rate", uint32_t);
   ("max_bit_rate", uint32_t)]);
  ("msm_audio_evrc_enc_config", Struct [("cdma_rate", uint32_t); ("min_bit_rate", uint32_t);
   ("max_bit_rate", uint32_t)])].
Definition msm_audio_qcelp_enc_config : cty := type_in structs_msm_audio_qcelp_enc_config "msm_audio_qcelp_enc_config".
Definition msm_audio_evrc_enc_config : cty := type_in structs_msm_audio_qcelp_enc_config "msm_audio_evrc_enc_config".
Definition msm_audio_qcp_types : list (string * cty) := structs_msm_audio_qcelp_enc_config.
Definition msm_audio_qcp_ioctls : list command := [
  _IOW "AUDIO_SET_QCELP_ENC_CONFIG" (chr "a") 0 msm_audio_qcelp_enc_config;
  _IOR "AUDIO_GET_QCELP_ENC_CONFIG" (chr "a") 1 msm_audio_qcelp_enc_config;
  _IOW "AUDIO_SET_EVRC_ENC_CONFIG" (chr "a") 2 msm_audio_evrc_enc_config;
  _IOR "AUDIO_GET_EVRC_ENC_CONFIG" (chr "a") 3 msm_audio_evrc_enc_config].
End Msm_audio_qcp.

(** ** [linux/msm_audio_sbc.h] *)

Module Msm_audio_sbc.
Definition msm_audio_sbc_enc_config : cty :=
  Struct [("channels", uint32_t); ("sample_rate", uint32_t); ("bit_allocation", uint32_t);
   ("number_of_subbands", uint32_t); ("number_of_blocks", uint32_t); ("bit_rate", uint32_t);
   ("mode", uint32_t)].
Definition msm_audio_sbc_types : list (string * cty) := [("msm_audio_sbc_enc_config", msm_audio_sbc_enc_config)].
Definition msm_audio_sbc_ioctls : list command := [
  _IOW "AUDIO_SET_SBC_ENC_CONFIG" (chr "a") 107 msm_audio_sbc_enc_config;
  _IOR "AUDIO_GET_SBC_ENC_CONFIG" (chr "a") 108 msm_audio_sbc_enc_config].
End Msm_audio_sbc.

(** ** [linux/msm_audio_voicememo.h] *)

Module Msm_audio_voicememo.
Definition msm_audio_voicememo_config : cty :=
  Struct [("rec_type", uint32_t); ("rec_interval_ms", uint32_t); ("auto_stop_ms", uint32_t);
   ("capability", uint32_t); ("max_rate", uint32_t); ("min_rate", uint32_t);
   ("frame_format", uint32_t); ("dtx_enable", uint32_t); ("data_req_ms", uint32_t)].
Definition msm_audio_voicememo_types : list (string * cty) := [("msm_audio_voicememo_config", msm_audio_voicememo_config)].
Definition msm_audio_voicememo_ioctls : list command := [
  _IOW "AUDIO_GET_VOICEMEMO_CONFIG" (chr "a") 107 uint;
  _IOR "AUDIO_SET_VOICEMEMO_CONFIG" (chr "a") 108 uint].
End Msm_audio_voicememo.

(** ** [linux/msm_audio_wma.h] *)

Module Msm_audio_wma.
Definition structs_msm_audio_wma_config : list (string * cty) :=
  [
  ("msm_audio_wma_config", Struct [("armdatareqthr", ushort); ("channelsdecoded", ushort);
   ("wmabytespersec", ushort); ("wmasamplingfreq", ushort); ("wmaencoderopts", ushort)]);
  ("msm_audio_wma_config_v2", Struct [("format_tag", ushort); ("numchannels", ushort);
   ("samplingrate", uint32_t); ("avgbytespersecond", uint32_t); ("block_align", ushort);
   ("validbitspersample", ushort); ("channelmask", uint32_t); ("encodeopt", ushort)])].
Definition msm_audio_wma_config_v2 : cty := type_in structs_msm_audio_wma_config "msm_audio_wma_config_v2".
Definition msm_audio_wma_types : list (string * cty) := structs_msm_audio_wma_config.
Definition msm_audio_wma_ioctls : list command := [
  _IOR "AUDIO_GET_WMA_CONFIG" 0x61 107 uint;
  _IOW "AUDIO_SET_WMA_CONFIG" 0x61 108 uint;
  _IOR "AUDIO_GET_WMA_CONFIG_V2" 0x61 109 msm_audio_wma_config_v2;
  _IOW "AUDIO_SET_WMA_CONFIG_V2" 0x61 110 msm_audio_wma_config_v2].
End Msm_audio_wma.

(** ** [linux/msm_audio_wmapro.h] *)

Module Msm_audio_wmapro.
Definition msm_audio_wmapro_config : cty :=
  Struct [("armdatareqthr", ushort); ("validbitspersample", uint8_t); ("numchannels", uint8_t);
   ("formattag", ushort); ("samplingrate", uint32_t); ("avgbytespersecond", uint32_t);
   ("asfpacketlength", ushort); ("channelmask", uint32_t); ("encodeopt", ushort);
   ("advancedencodeopt", ushort); ("advancedencodeopt2", uint32_t)].
Definition msm_audio_wmapro_types : list (string * cty) := [("msm_audio_wmapro_config", msm_audio_wmapro_config)].
Definition msm_audio_wmapro_ioctls : list command := [
  _IOR "AUDIO_GET_WMAPRO_CONFIG" 0x61 107 msm_audio_wmapro_config;
  _IOW "AUDIO_SET_WMAPRO_CONFIG" 0x61 108 msm_audio_wmapro_config].
End Msm_audio_wmapro.

(** ** [linux/soundcard.h] *)

Module Soundcard.
Definition structs_synth_control : list (string * cty) :=
  [
  ("synth_control", Struct [("devno", int); ("data", Arr 4000 char)]);
  ("remove_sample", Struct [("devno", int); ("bankno", int); ("instrno", int)]);
  ("seq_event_rec", Struct [("arr", Arr 8 uchar)])].
Definition patch_info : cty :=
  Struct [("key", ushort); ("device_no", short); ("instr_no", short); ("mode", uint);
   ("len", int); ("loop_start", int); ("loop_end", int); ("base_freq", uint);
   ("base_note", uint); ("high_note", uint); ("low_note", uint); ("panning", int);
   ("detuning", int); ("env_rate", Arr 6 uchar); ("env_offset", Arr 6 uchar);
   ("tremolo_sweep", uchar); ("tremolo_rate", uchar); ("tremolo_depth", uchar);
   ("vibrato_sweep", uchar); ("vibrato_rate", uchar); ("vibrato_depth", uchar);
   ("scale_frequency", int); ("scale_factor", uint); ("volume", int); ("fractions", int);
   ("reserved1", int); ("spare", Arr 2 int); ("data", Arr 1 char)].
Definition sysex_info : cty :=
  Struct [("key", short); ("device_no", short); ("len", int); ("data", Arr 1 uchar)].
Definition structs_sbi_instr_data : list (string * cty) :=
  let sbi_instr_data := Arr 32 uchar in
  [
  ("sbi_instr_data", sbi_instr_data);
  ("sbi_instrument", Struct [("key", ushort); ("device", short); ("channel", int);
   ("operators", sbi_instr_data)])].
Definition synth_info : cty :=
  Struct [("name", Arr 30 char); ("device", int); ("synth_type", int); ("synth_subtype", int);
   ("perc_mode", int); ("nr_voices", int); ("nr_drums", int); ("instr_bank_size", int);
   ("capabilities", uint); ("dummies", Arr 19 int)].
Definition sound_timer_info : cty := Struct [("name", Arr 32 char); ("caps", int)].
Definition structs_midi_info : list (string * cty) :=
  [
  ("midi_info", Struct [("name", Arr 30 char); ("device", int); ("capabilities", uint);
   ("dev_type", int); ("dummies", Arr 18 int)]);
  ("mpu_command_rec", Struct [("cmd", uchar); ("nr_args", char); ("nr_returns", char);
   ("data", Arr 30 uchar)])].
Definition audio_buf_info : cty :=
  Struct [("fragments", int); ("fragstotal", int); ("fragsize", int); ("bytes", int)].
Definition count_info : cty := Struct [("bytes", int); ("blocks", int); ("ptr", int)].
Definition buffmem_desc : cty := Struct [("buffer", ptr); ("size", int)].
Definition structs_copr_buffer : list (string * cty) :=
  [
  ("copr_buffer", Struct [("command", int); ("flags", int); ("len", int); ("offs", int);
   ("data", Arr 4000 uchar)]);
  ("copr_debug_buf", Struct [("command", int); ("parm1", int); ("parm2", int); ("flags", int);
   ("len", int)]);
  ("copr_msg", Struct [("len", int); ("data", Arr 4000 uchar)])].
Definition structs_mixer_info : list (string * cty) :=
  [
  ("mixer_info", Struct [("id", Arr 16 char); ("name", Arr 32 char); ("modify_counter", int);
   ("fillers", Arr 10 int)]);
  ("_old_mixer_info", Struct [("id", Arr 16 char); ("name", Arr 32 char)])].
Definition mixer_record : cty := Arr 128 uchar.
Definition mixer_vol_table : cty :=
  Struct [("num", int); ("name", Arr 32 char); ("levels", Arr 32 int)].
Definition soundcard_types : list (string * cty) :=
  (structs_synth_control ++ [("patch_info", patch_info); ("sysex_info", sysex_info)] ++
   structs_sbi_instr_data ++ [("synth_info", synth_info); ("sound_timer_info",
   sound_timer_info)] ++ structs_midi_info ++ [("audio_buf_info", audio_buf_info);
   ("count_info", count_info); ("buffmem_desc", buffmem_desc)] ++ structs_copr_buffer ++
   structs_mixer_info ++ [("mixer_record", mixer_record); ("mixer_vol_table",
   mixer_vol_table)])%list.
End Soundcard.

(** ** [linux/telephony.h] *)

Module Telephony.
Definition structs_phone_cap : list (string * cty) :=
  let phone_cap := enum in
  [
  ("phone_cap", phone_cap);
  ("phone_capability", Struct [("desc", Arr 80 char); ("captype", phone_cap); ("cap", int);
   ("handle", int)]);
  ("phone_ports", enum)].
Definition PHONE_CID : cty :=
  Struct [("month", Arr 3 char); ("day", Arr 3 char); ("hour", Arr 3 char); ("min", Arr 3 char);
   ("numlen", int); ("number", Arr 11 char); ("namelen", int); ("name", Arr 80 char)].
Definition structs_phone_codec : list (string * cty) :=
  let phone_codec := enum in
  [
  ("phone_codec", phone_codec);
  ("phone_codec_data", Struct [("type", phone_codec); ("buf_min", ushort); ("buf_opt", ushort);
   ("buf_max", ushort)])].
Definition telephony_types : list (string * cty) :=
  (structs_phone_cap ++ [("PHONE_CID", PHONE_CID)] ++ structs_phone_codec)%list.
Definition telephony_ioctls_1 : list command := [
  _IO "PHONE_CAPABILITIES" (chr "q") 128;
  _IOR "PHONE_CAPABILITIES_LIST" (chr "q") 129 ptr;
  _IOW "PHONE_CAPABILITIES_CHECK" (chr "q") 130 ptr].
Definition telephony_ioctls_2 : list command := [
  _IO "PHONE_RING" (chr "q") 131;
  _IO "PHONE_HOOKSTATE" (chr "q") 132;
  _IOW "PHONE_MAXRINGS" (chr "q") 133 char;
  _IOW "PHONE_RING_CADENCE" (chr "q") 134 short;
  _IO "OLD_PHONE_RING_START" (chr "q") 135;
  _IOW "PHONE_RING_START" (chr "q") 135 ptr;
  _IO "PHONE_RING_STOP" (chr "q") 136;
  _IOW "PHONE_REC_CODEC" (chr "q") 137 int;
  _IO "PHONE_REC_START" (chr "q") 138;
  _IO "PHONE_REC_STOP" (chr "q") 139;
  _IOW "PHONE_REC_DEPTH" (chr "q") 140 int;
  _IOW "PHONE_FRAME" (chr "q") 141 int;
  _IOW "PHONE_REC_VOLUME" (chr "q") 142 int;
  _IOW "PHONE_REC_VOLUME_LINEAR" (chr "q") 219 int;
  _IO "PHONE_REC_LEVEL" (chr "q") 143;
  _IOW "PHONE_PLAY_CODEC" (chr "q") 144 int;
  _IO "PHONE_PLAY_START" (chr "q") 145;
  _IO "PHONE_PLAY_STOP" (chr "q") 146;
  _IOW "PHONE_PLAY_DEPTH" (chr "q") 147 int;
  _IOW "PHONE_PLAY_VOLUME" (chr "q") 148 int;
  _IOW "PHONE_PLAY_VOLUME_LINEAR" (chr "q") 220 int;
  _IO "PHONE_PLAY_LEVEL" (chr "q") 149;
  _IOR "PHONE_DTMF_READY" (chr "q") 150 int;
  _IOR "PHONE_GET_DTMF" (chr "q") 151 int;
  _IOR "PHONE_GET_DTMF_ASCII" (chr "q") 152 int;
  _IOW "PHONE_DTMF_OOB" (chr "q") 153 int;
  _IOR "PHONE_EXCEPTION" (chr "q") 154 int;
  _IOW "PHONE_PLAY_TONE" (chr "q") 155 char;
  _IOW "PHONE_SET_TONE_ON_TIME" (chr "q") 156 int;
  _IOW "PHONE_SET_TONE_OFF_TIME" (chr "q") 157 int;
  _IO "PHONE_GET_TONE_ON_TIME" (chr "q") 158;
  _IO "PHONE_GET_TONE_OFF_TIME" (chr "q") 159;
  _IO "PHONE_GET_TONE_STATE" (chr "q") 160;
  _IO "PHONE_BUSY" (chr "q") 161;
  _IO "PHONE_RINGBACK" (chr "q") 162;
  _IO "PHONE_DIALTONE" (chr "q") 163;
  _IO "PHONE_CPT_STOP" (chr "q") 164;
  _IOW "PHONE_PSTN_SET_STATE" (chr "q") 164 int;
  _IO "PHONE_PSTN_GET_STATE" (chr "q") 165].
Definition telephony_ioctls_3 : list command := [
  _IOW "PHONE_WINK_DURATION" (chr "q") 166 int;
  _IOW "PHONE_WINK" (chr "q") 170 int].
Definition telephony_ioctls_4 : list command := [
  _IOWR "PHONE_QUERY_CODEC" (chr "q") 167 ptr;
  _IO "PHONE_PSTN_LINETEST" (chr "q") 168].
Definition telephony_ioctls_5 : list command := [
  _IOW "PHONE_VAD" (chr "q") 169 int].
Definition telephony_ioctls : list command :=
  (telephony_ioctls_1 ++ telephony_ioctls_2 ++ telephony_ioctls_3 ++ telephony_ioctls_4 ++
  telephony_ioctls_5)%list.
End Telephony.

(** ** [sound/asound.h] *)

Module Sound_asound.
Definition SNDRV_CTL_ELEM_ID_NAME_MAXLEN : Z := 44.
Definition structs_snd_aes_iec958 : list (string * cty) :=
  [
  ("snd_aes_iec958", Struct [("status", Arr 24 uchar); ("subcode", Arr 147 uchar);
   ("pad", uchar); ("dig_subframe", Arr 4 uchar)]);
  ("snd_cea_861_aud_if", Struct [("db1_ct_cc", uchar); ("db2_sf_ss", uchar); ("db3", uchar);
   ("db4_ca", uchar); ("db5_dminh_lsv", uchar)])].
Definition structs_snd_hwdep_info : list (string * cty) :=
  [
  ("snd_hwdep_info", Struct [("device", uint); ("card", int); ("id", Arr 64 uchar);
   ("name", Arr 80 uchar); ("iface", int); ("reserved", Arr 64 uchar)]);
  ("snd_hwdep_dsp_status", Struct [("version", uint); ("id", Arr 32 uchar); ("num_dsps", uint);
   ("dsp_loaded", uint); ("chip_ready", uint); ("reserved", Arr 16 uchar)]);
  ("snd_hwdep_dsp_image", Struct [("index", uint); ("name", Arr 64 uchar); ("image", ptr);
   ("length", size_t); ("driver_data", ulong)])].
Definition snd_hwdep_info : cty := type_in structs_snd_hwdep_info "snd_hwdep_info".
Definition snd_hwdep_dsp_status : cty := type_in structs_snd_hwdep_info "snd_hwdep_dsp_status".
Definition snd_hwdep_dsp_image : cty := type_in structs_snd_hwdep_info "snd_hwdep_dsp_image".
Definition structs_snd_pcm_uframes_t : list (string * cty) :=
  [
  ("snd_pcm_uframes_t", ulong);
  ("snd_pcm_sframes_t", long)].
Definition snd_pcm_uframes_t : cty := type_in structs_snd_pcm_uframes_t "snd_pcm_uframes_t".
Definition snd_pcm_sframes_t : cty := type_in structs_snd_pcm_uframes_t "snd_pcm_sframes_t".
Definition snd_pcm_access_t : cty := int.
Definition snd_pcm_format_t : cty := int.
Definition snd_pcm_subformat_t : cty := int.
Definition snd_pcm_state_t : cty := int.
Definition structs_snd_pcm_sync_id : list (string * cty) :=
  let snd_pcm_sync_id := Union [("id", Arr 16 uchar); ("id16", Arr 8 ushort);
   ("id32", Arr 4 uint)] in
  [
  ("snd_pcm_sync_id", snd_pcm_sync_id);
  ("snd_pcm_info", Struct [("device", uint); ("subdevice", uint); ("stream", int); ("card", int);
   ("id", Arr 64 uchar); ("name", Arr 80 uchar); ("subname", Arr 32 uchar); ("dev_class", int);
   ("dev_subclass", int); ("subdevices_count", uint); ("subdevices_avail", uint);
   ("sync", snd_pcm_sync_id); ("reserved", Arr 64 uchar)]);
  ("snd_pcm_hw_param_t", int)].
Definition snd_pcm_info : cty := type_in structs_snd_pcm_sync_id "snd_pcm_info".
Definition snd_mask : cty := Struct [("bits", Arr 8 __u32)].
Definition structs_snd_pcm_sw_params : list (string * cty) :=
  [
  ("snd_pcm_sw_params", Struct [("tstamp_mode", int); ("period_step", uint); ("sleep_min", uint);
   ("avail_min", snd_pcm_uframes_t); ("xfer_align", snd_pcm_uframes_t);
   ("start_threshold", snd_pcm_uframes_t); ("stop_threshold", snd_pcm_uframes_t);
   ("silence_threshold", snd_pcm_uframes_t); ("silence_size", snd_pcm_uframes_t);
   ("boundary", snd_pcm_uframes_t); ("proto", uint); ("tstamp_type", uint);
   ("reserved", Arr 56 uchar)]);
  ("snd_pcm_channel_info", Struct [("channel", uint); ("offset", __kernel_off_t);
   ("first", uint); ("step", uint)])].
Definition snd_pcm_sw_params : cty := type_in structs_snd_pcm_sw_params "snd_pcm_sw_params".
Definition snd_pcm_channel_info : cty := type_in structs_snd_pcm_sw_params "snd_pcm_channel_info".
Definition structs_snd_pcm_mmap_status : list (string * cty) :=
  [
  ("snd_pcm_mmap_status", Struct [("state", snd_pcm_state_t); ("pad1", int);
   ("hw_ptr", snd_pcm_uframes_t); ("tstamp", timespec); ("suspended_state", snd_pcm_state_t);
   ("audio_tstamp", timespec)]);
  ("snd_pcm_mmap_control", Struct [("appl_ptr", snd_pcm_uframes_t);
   ("avail_min", snd_pcm_uframes_t)])].
Definition snd_pcm_mmap_status : cty := type_in structs_snd_pcm_mmap_status "snd_pcm_mmap_status".
Definition snd_pcm_mmap_control : cty := type_in structs_snd_pcm_mmap_status "snd_pcm_mmap_control".
Definition structs_snd_pcm_sync_ptr : list (string * cty) :=
  [
  ("snd_pcm_sync_ptr", Struct [("flags", uint); ("s", Union [("status", snd_pcm_mmap_status);
   ("reserved", Arr 64 uchar)]); ("c", Union [("control", snd_pcm_mmap_control);
   ("reserved", Arr 64 uchar)])]);
  ("snd_xferi", Struct [("result", snd_pcm_sframes_t); ("buf", ptr);
   ("frames", snd_pcm_uframes_t)]);
  ("snd_xfern", Struct [("result", snd_pcm_sframes_t); ("bufs", ptr);
   ("frames", snd_pcm_uframes_t)])].
Definition snd_pcm_sync_ptr : cty := type_in structs_snd_pcm_sync_ptr "snd_pcm_sync_ptr".
Definition snd_xferi : cty := type_in structs_snd_pcm_sync_ptr "snd_xferi".
Definition snd_xfern : cty := type_in structs_snd_pcm_sync_ptr "snd_xfern".
Definition snd_rawmidi_info : cty :=
  Struct [("device", uint); ("subdevice", uint); ("stream", int); ("card", int); ("flags", uint);
   ("id", Arr 64 uchar); ("name", Arr 80 uchar); ("subname", Arr 32 uchar);
   ("subdevices_count", uint); ("subdevices_avail", uint); ("reserved", Arr 64 uchar)].
Definition snd_rawmidi_status : cty :=
  Struct [("stream", int); ("tstamp", timespec); ("avail", size_t); ("xruns", size_t);
   ("reserved", Arr 16 uchar)].
Definition structs_snd_timer_id : list (string * cty) :=
  let snd_timer_id := Struct [("dev_class", int); ("dev_sclass", int); ("card", int);
   ("device", int); ("subdevice", int)] in
  [
  ("snd_timer_id", snd_timer_id);
  ("snd_timer_ginfo", Struct [("tid", snd_timer_id); ("flags", uint); ("card", int);
   ("id", Arr 64 uchar); ("name", Arr 80 uchar); ("reserved0", ulong); ("resolution", ulong);
   ("resolution_min", ulong); ("resolution_max", ulong); ("clients", uint);
   ("reserved", Arr 32 uchar)]);
  ("snd_timer_gparams", Struct [("tid", snd_timer_id); ("period_num", ulong);
   ("period_den", ulong); ("reserved", Arr 32 uchar)]);
  ("snd_timer_gstatus", Struct [("tid", snd_timer_id); ("resolution", ulong);
   ("resolution_num", ulong); ("resolution_den", ulong); ("reserved", Arr 32 uchar)]);
  ("snd_timer_select", Struct [("id", snd_timer_id); ("reserved", Arr 32 uchar)]);
  ("snd_timer_info", Struct [("flags", uint); ("card", int); ("id", Arr 64 uchar);
   ("name", Arr 80 uchar); ("reserved0", ulong); ("resolution", ulong);
   ("reserved", Arr 64 uchar)])].
Definition snd_timer_id : cty := type_in structs_snd_timer_id "snd_timer_id".
Definition snd_timer_ginfo : cty := type_in structs_snd_timer_id "snd_timer_ginfo".
Definition snd_timer_gparams : cty := type_in structs_snd_timer_id "snd_timer_gparams".
Definition snd_timer_gstatus : cty := type_in structs_snd_timer_id "snd_timer_gstatus".
Definition snd_timer_select : cty := type_in structs_snd_timer_id "snd_timer_select".
Definition snd_timer_info : cty := type_in structs_snd_timer_id "snd_timer_info".
Definition structs_snd_timer_params : list (string * cty) :=
  [
  ("snd_timer_params", Struct [("flags", uint); ("ticks", uint); ("queue_size", uint);
   ("reserved0", uint); ("filter", uint); ("reserved", Arr 60 uchar)]);
  ("snd_timer_status", Struct [("tstamp", timespec); ("resolution", uint); ("lost", uint);
   ("overrun", uint); ("queue", uint); ("reserved", Arr 64 uchar)])].
Definition snd_timer_params : cty := type_in structs_snd_timer_params "snd_timer_params".
Definition snd_timer_status : cty := type_in structs_snd_timer_params "snd_timer_status".
Definition snd_timer_read : cty := Struct [("resolution", uint); ("ticks", uint)].
Definition snd_timer_tread : cty := Struct [("event", int); ("tstamp", timespec); ("val", uint)].
Definition structs_snd_ctl_card_info : list (string * cty) :=
  [
  ("snd_ctl_card_info", Struct [("card", int); ("pad", int); ("id", Arr 16 uchar);
   ("driver", Arr 16 uchar); ("name", Arr 32 uchar); ("longname", Arr 80 uchar);
   ("reserved_", Arr 16 uchar); ("mixername", Arr 80 uchar); ("components", Arr 128 uchar)]);
  ("snd_ctl_elem_type_t", int)].
Definition snd_ctl_card_info : cty := type_in structs_snd_ctl_card_info "snd_ctl_card_info".
Definition snd_ctl_elem_type_t : cty := type_in structs_snd_ctl_card_info "snd_ctl_elem_type_t".
Definition snd_ctl_elem_iface_t : cty := int.
Definition structs_snd_ctl_elem_id : list (string * cty) :=
  [
  ("snd_ctl_elem_id", Struct [("numid", uint); ("iface", snd_ctl_elem_iface_t); ("device", uint);
   ("subdevice", uint); ("name", Arr SNDRV_CTL_ELEM_ID_NAME_MAXLEN uchar); ("index", uint)]);
  ("snd_ctl_elem_list", Struct [("offset", uint); ("space", uint); ("used", uint);
   ("count", uint); ("pids", ptr); ("reserved", Arr 50 uchar)])].
Definition snd_ctl_elem_id : cty := type_in structs_snd_ctl_elem_id "snd_ctl_elem_id".
Definition snd_ctl_elem_list : cty := type_in structs_snd_ctl_elem_id "snd_ctl_elem_list".
Definition snd_ctl_elem_info : cty :=
  Struct [("id", snd_ctl_elem_id); ("type", snd_ctl_elem_type_t); ("access", uint);
   ("count", uint); ("owner", __kernel_pid_t);
   ("value", Union [("integer", Struct [("min", long); ("max", long); ("step", long)]);
   ("integer64", Struct [("min", llong); ("max", llong); ("step", llong)]);
   ("enumerated", Struct [("items", uint); ("item", uint); ("name", Arr 64 char);
   ("names_ptr", __u64); ("names_length", uint)]); ("reserved", Arr 128 uchar)]);
   ("dimen", Union [("d", Arr 4 ushort); ("d_ptr", ptr)]);
   ("reserved", Arr (64 - 4 * sizeof lp64 ushort) uchar)].
Definition snd_ctl_tlv : cty := Struct [("numid", uint); ("length", uint); ("tlv", Arr 0 uint)].
Definition snd_ctl_event : cty :=
  Struct [("type", int); ("data", Union [("elem", Struct [("mask", uint);
   ("id", snd_ctl_elem_id)]); ("data8", Arr 60 uchar)])].
Definition snd_interval : cty :=
  Struct [("min", uint); ("max", uint); ("openmin:1,openmax:1,integer:1,empty:1", uchar)].
Definition snd_pcm_hw_params : cty :=
  Struct [("flags", uint); ("masks", Arr (2 - 0 + 1) snd_mask); ("mres", Arr 5 snd_mask);
   ("intervals", Arr (19 - 8 + 1) snd_interval); ("ires", Arr 9 snd_interval); ("rmask", uint);
   ("cmask", uint); ("info", uint); ("msbits", uint); ("rate_num", uint); ("rate_den", uint);
   ("fifo_size", snd_pcm_uframes_t); ("reserved", Arr 64 uchar)].
(** The length of the padding depends on the ABI. *)
Definition snd_pcm_status (A : abi) : cty :=
  Struct [("state", snd_pcm_state_t); ("trigger_tstamp", timespec); ("tstamp", timespec);
   ("appl_ptr", snd_pcm_uframes_t); ("hw_ptr", snd_pcm_uframes_t); ("delay", snd_pcm_sframes_t);
   ("avail", snd_pcm_uframes_t); ("avail_max", snd_pcm_uframes_t);
   ("overrange", snd_pcm_uframes_t); ("suspended_state", snd_pcm_state_t);
   ("audio_tstamp_data", __u32); ("audio_tstamp", timespec); ("driver_tstamp", timespec);
   ("audio_tstamp_accuracy", __u32); ("reserved", Arr (52 - 2 * sizeof A timespec) uchar)].
Definition snd_rawmidi_params : cty :=
  Struct [("stream", int); ("buffer_size", size_t); ("avail_min", size_t);
   ("no_active_sensing:1", uchar); ("reserved", Arr 16 uchar)].
Definition snd_ctl_elem_value (A : abi) : cty :=
  Struct [("id", snd_ctl_elem_id); ("indirect:1", uchar); ("value", Union [
   ("integer", Union [("value", Arr 128 long); ("value_ptr", ptr)]);
   ("integer64", Union [("value", Arr 64 llong); ("value_ptr", ptr)]);
   ("enumerated", Union [("item", Arr 128 uint); ("item_ptr", ptr)]);
   ("bytes", Union [("data", Arr 512 uchar); ("data_ptr", ptr)]);
   ("iec958", type_in structs_snd_aes_iec958 "snd_aes_iec958")]);
   ("tstamp", timespec); ("reserved", Arr (128 - sizeof A timespec) uchar)].
Definition sound_asound_types : list (string * cty) :=
  (structs_snd_aes_iec958 ++ structs_snd_hwdep_info ++ structs_snd_pcm_uframes_t ++
   [("snd_pcm_access_t", snd_pcm_access_t); ("snd_pcm_format_t", snd_pcm_format_t);
   ("snd_pcm_subformat_t", snd_pcm_subformat_t); ("snd_pcm_state_t", snd_pcm_state_t)] ++
   structs_snd_pcm_sync_id ++ [("snd_mask", snd_mask)] ++ structs_snd_pcm_sw_params ++
   structs_snd_pcm_mmap_status ++ structs_snd_pcm_sync_ptr ++ [("snd_rawmidi_info",
   snd_rawmidi_info); ("snd_rawmidi_status", snd_rawmidi_status)] ++ structs_snd_timer_id ++
   structs_snd_timer_params ++ [("snd_timer_read", snd_timer_read); ("snd_timer_tread",
   snd_timer_tread)] ++ structs_snd_ctl_card_info ++ [("snd_ctl_elem_iface_t",
   snd_ctl_elem_iface_t)] ++ structs_snd_ctl_elem_id ++ [("snd_ctl_elem_info",
   snd_ctl_elem_info); ("snd_ctl_tlv", snd_ctl_tlv); ("snd_ctl_event", snd_ctl_event)] ++
   [("snd_interval", snd_interval); ("snd_pcm_hw_params", snd_pcm_hw_params); ("snd_rawmidi_params", snd_rawmidi_params)])%list.
Definition sound_asound_ioctls_1 : list command := [
  _IOR "SNDRV_HWDEP_IOCTL_PVERSION" (chr "H") 0 int;
  _IOR "SNDRV_HWDEP_IOCTL_INFO" (chr "H") 1 snd_hwdep_info;
  _IOR "SNDRV_HWDEP_IOCTL_DSP_STATUS" (chr "H") 2 snd_hwdep_dsp_status;
  _IOW "SNDRV_HWDEP_IOCTL_DSP_LOAD" (chr "H") 3 snd_hwdep_dsp_image].
Definition sound_asound_ioctls_2 : list command := [
  _IOR "SNDRV_PCM_IOCTL_PVERSION" (chr "A") 0 int;
  _IOR "SNDRV_PCM_IOCTL_INFO" (chr "A") 1 snd_pcm_info;
  _IOW "SNDRV_PCM_IOCTL_TSTAMP" (chr "A") 2 int;
  _IOW "SNDRV_PCM_IOCTL_TTSTAMP" (chr "A") 3 int;
  _IOWR "SNDRV_PCM_IOCTL_HW_REFINE" (chr "A") 16 snd_pcm_hw_params;
  _IOWR "SNDRV_PCM_IOCTL_HW_PARAMS" (chr "A") 17 snd_pcm_hw_params;
  _IO "SNDRV_PCM_IOCTL_HW_FREE" (chr "A") 18;
  _IOWR "SNDRV_PCM_IOCTL_SW_PARAMS" (chr "A") 19 snd_pcm_sw_params;
  _IOR_by "SNDRV_PCM_IOCTL_STATUS" (chr "A") 32 snd_pcm_status;
  _IOR "SNDRV_PCM_IOCTL_DELAY" (chr "A") 33 snd_pcm_sframes_t;
  _IO "SNDRV_PCM_IOCTL_HWSYNC" (chr "A") 34;
  _IOWR "SNDRV_PCM_IOCTL_SYNC_PTR" (chr "A") 35 snd_pcm_sync_ptr;
  _IOWR_by "SNDRV_PCM_IOCTL_STATUS_EXT" (chr "A") 36 snd_pcm_status;
  _IOR "SNDRV_PCM_IOCTL_CHANNEL_INFO" (chr "A") 50 snd_pcm_channel_info;
  _IO "SNDRV_PCM_IOCTL_PREPARE" (chr "A") 64;
  _IO "SNDRV_PCM_IOCTL_RESET" (chr "A") 65;
  _IO "SNDRV_PCM_IOCTL_START" (chr "A") 66;
  _IO "SNDRV_PCM_IOCTL_DROP" (chr "A") 67;
  _IO "SNDRV_PCM_IOCTL_DRAIN" (chr "A") 68;
  _IOW "SNDRV_PCM_IOCTL_PAUSE" (chr "A") 69 int;
  _IOW "SNDRV_PCM_IOCTL_REWIND" (chr "A") 70 snd_pcm_uframes_t;
  _IO "SNDRV_PCM_IOCTL_RESUME" (chr "A") 71;
  _IO "SNDRV_PCM_IOCTL_XRUN" (chr "A") 72;
  _IOW "SNDRV_PCM_IOCTL_FORWARD" (chr "A") 73 snd_pcm_uframes_t;
  _IOW "SNDRV_PCM_IOCTL_WRITEI_FRAMES" (chr "A") 80 snd_xferi;
  _IOR "SNDRV_PCM_IOCTL_READI_FRAMES" (chr "A") 81 snd_xferi;
  _IOW "SNDRV_PCM_IOCTL_WRITEN_FRAMES" (chr "A") 82 snd_xfern;
  _IOR "SNDRV_PCM_IOCTL_READN_FRAMES" (chr "A") 83 snd_xfern;
  _IOW "SNDRV_PCM_IOCTL_LINK" (chr "A") 96 int;
  _IO "SNDRV_PCM_IOCTL_UNLINK" (chr "A") 97].
Definition sound_asound_ioctls_3 : list command := [
  _IOR "SNDRV_RAWMIDI_IOCTL_PVERSION" (chr "W") 0 int;
  _IOR "SNDRV_RAWMIDI_IOCTL_INFO" (chr "W") 1 snd_rawmidi_info;
  _IOWR "SNDRV_RAWMIDI_IOCTL_PARAMS" (chr "W") 16 snd_rawmidi_params;
  _IOWR "SNDRV_RAWMIDI_IOCTL_STATUS" (chr "W") 32 snd_rawmidi_status;
  _IOW "SNDRV_RAWMIDI_IOCTL_DROP" (chr "W") 48 int;
  _IOW "SNDRV_RAWMIDI_IOCTL_DRAIN" (chr "W") 49 int].
Definition sound_asound_ioctls_4 : list command := [
  _IOR "SNDRV_TIMER_IOCTL_PVERSION" (chr "T") 0 int;
  _IOWR "SNDRV_TIMER_IOCTL_NEXT_DEVICE" (chr "T") 1 snd_timer_id;
  _IOW "SNDRV_TIMER_IOCTL_TREAD" (chr "T") 2 int;
  _IOWR "SNDRV_TIMER_IOCTL_GINFO" (chr "T") 3 snd_timer_ginfo;
  _IOW "SNDRV_TIMER_IOCTL_GPARAMS" (chr "T") 4 snd_timer_gparams;
  _IOWR "SNDRV_TIMER_IOCTL_GSTATUS" (chr "T") 5 snd_timer_gstatus;
  _IOW "SNDRV_TIMER_IOCTL_SELECT" (chr "T") 16 snd_timer_select;
  _IOR "SNDRV_TIMER_IOCTL_INFO" (chr "T") 17 snd_timer_info;
  _IOW "SNDRV_TIMER_IOCTL_PARAMS" (chr "T") 18 snd_timer_params;
  _IOR "SNDRV_TIMER_IOCTL_STATUS" (chr "T") 20 snd_timer_status;
  _IO "SNDRV_TIMER_IOCTL_START" (chr "T") 160;
  _IO "SNDRV_TIMER_IOCTL_STOP" (chr "T") 161;
  _IO "SNDRV_TIMER_IOCTL_CONTINUE" (chr "T") 162;
  _IO "SNDRV_TIMER_IOCTL_PAUSE" (chr "T") 163].
Definition sound_asound_ioctls_5 : list command := [
  _IOR "SNDRV_CTL_IOCTL_PVERSION" (chr "U") 0 int;
  _IOR "SNDRV_CTL_IOCTL_CARD_INFO" (chr "U") 1 snd_ctl_card_info;
  _IOWR "SNDRV_CTL_IOCTL_ELEM_LIST" (chr "U") 16 snd_ctl_elem_list;
  _IOWR "SNDRV_CTL_IOCTL_ELEM_INFO" (chr "U") 17 snd_ctl_elem_info;
  _IOWR_by "SNDRV_CTL_IOCTL_ELEM_READ" (chr "U") 18 snd_ctl_elem_value;
  _IOWR_by "SNDRV_CTL_IOCTL_ELEM_WRITE" (chr "U") 19 snd_ctl_elem_value;
  _IOW "SNDRV_CTL_IOCTL_ELEM_LOCK" (chr "U") 20 snd_ctl_elem_id;
  _IOW "SNDRV_CTL_IOCTL_ELEM_UNLOCK" (chr "U") 21 snd_ctl_elem_id;
  _IOWR "SNDRV_CTL_IOCTL_SUBSCRIBE_EVENTS" (chr "U") 22 int;
  _IOWR "SNDRV_CTL_IOCTL_ELEM_ADD" (chr "U") 23 snd_ctl_elem_info;
  _IOWR "SNDRV_CTL_IOCTL_ELEM_REPLACE" (chr "U") 24 snd_ctl_elem_info;
  _IOWR "SNDRV_CTL_IOCTL_ELEM_REMOVE" (chr "U") 25 snd_ctl_elem_id;
  _IOWR "SNDRV_CTL_IOCTL_TLV_READ" (chr "U") 26 snd_ctl_tlv;
  _IOWR "SNDRV_CTL_IOCTL_TLV_WRITE" (chr "U") 27 snd_ctl_tlv;
  _IOWR "SNDRV_CTL_IOCTL_TLV_COMMAND" (chr "U") 28 snd_ctl_tlv;
  _IOWR "SNDRV_CTL_IOCTL_HWDEP_NEXT_DEVICE" (chr "U") 32 int;
  _IOR "SNDRV_CTL_IOCTL_HWDEP_INFO" (chr "U") 33 snd_hwdep_info;
  _IOR "SNDRV_CTL_IOCTL_PCM_NEXT_DEVICE" (chr "U") 48 int;
  _IOWR "SNDRV_CTL_IOCTL_PCM_INFO" (chr "U") 49 snd_pcm_info;
  _IOW "SNDRV_CTL_IOCTL_PCM_PREFER_SUBDEVICE" (chr "U") 50 int;
  _IOWR "SNDRV_CTL_IOCTL_RAWMIDI_NEXT_DEVICE" (chr "U") 64 int;
  _IOWR "SNDRV_CTL_IOCTL_RAWMIDI_INFO" (chr "U") 65 snd_rawmidi_info;
  _IOW "SNDRV_CTL_IOCTL_RAWMIDI_PREFER_SUBDEVICE" (chr "U") 66 int;
  _IOWR "SNDRV_CTL_IOCTL_POWER" (chr "U") 208 int;
  _IOR "SNDRV_CTL_IOCTL_POWER_STATE" (chr "U") 209 int].
Definition sound_asound_ioctls : list command :=
  (sound_asound_ioctls_1 ++ sound_asound_ioctls_2 ++ sound_asound_ioctls_3 ++
  sound_asound_ioctls_4 ++ sound_asound_ioctls_5)%list.
End Sound_asound.

(** ** [sound/asequencer.h] *)

Module Sound_asequencer.
Definition structs_snd_seq_event_type_t : list (string * cty) :=
  let snd_seq_addr := Struct [("client", uchar); ("port", uchar)] in
  [
  ("snd_seq_event_type_t", uchar);
  ("snd_seq_addr", snd_seq_addr);
  ("snd_seq_connect", Struct [("sender", snd_seq_addr); ("dest", snd_seq_addr)])].
Definition snd_seq_event_type_t : cty := type_in structs_snd_seq_event_type_t "snd_seq_event_type_t".
Definition snd_seq_addr : cty := type_in structs_snd_seq_event_type_t "snd_seq_addr".
Definition snd_seq_connect : cty := type_in structs_snd_seq_event_type_t "snd_seq_connect".
Definition structs_snd_seq_ev_note : list (string * cty) :=
  let snd_seq_real_time := Struct [("tv_sec", uint); ("tv_nsec", uint)] in
  let snd_seq_tick_time_t := uint in
  let snd_seq_timestamp := Union [("tick", snd_seq_tick_time_t); ("time", snd_seq_real_time)] in
  let snd_seq_queue_skew := Struct [("value", uint); ("base", uint)] in
  [
  ("snd_seq_ev_note", Struct [("channel", uchar); ("note", uchar); ("velocity", uchar);
   ("off_velocity", uchar); ("duration", uint)]);
  ("snd_seq_ev_ctrl", Struct [("channel", uchar); ("unused1", uchar); ("unused2", uchar);
   ("unused3", uchar); ("param", uint); ("value", int)]);
  ("snd_seq_ev_raw8", Struct [("d", Arr 12 uchar)]);
  ("snd_seq_ev_raw32", Struct [("d", Arr 3 uint)]);
  ("snd_seq_ev_ext", Packed [("len", uint); ("ptr", ptr)]);
  ("snd_seq_result", Struct [("event", int); ("result", int)]);
  ("snd_seq_real_time", snd_seq_real_time);
  ("snd_seq_tick_time_t", snd_seq_tick_time_t);
  ("snd_seq_timestamp", snd_seq_timestamp);
  ("snd_seq_queue_skew", snd_seq_queue_skew);
  ("snd_seq_ev_queue_control", Struct [("queue", uchar); ("pad", Arr 3 uchar);
   ("param", Union [("value", int); ("time", snd_seq_timestamp); ("position", uint);
   ("skew", snd_seq_queue_skew); ("d32", Arr 2 uint); ("d8", Arr 8 uchar)])]);
  ("snd_seq_ev_quote", Packed [("origin", snd_seq_addr); ("value", ushort); ("event", ptr)])].
Definition snd_seq_ev_note : cty := type_in structs_snd_seq_ev_note "snd_seq_ev_note".
Definition snd_seq_ev_ctrl : cty := type_in structs_snd_seq_ev_note "snd_seq_ev_ctrl".
Definition snd_seq_ev_raw8 : cty := type_in structs_snd_seq_ev_note "snd_seq_ev_raw8".
Definition snd_seq_ev_raw32 : cty := type_in structs_snd_seq_ev_note "snd_seq_ev_raw32".
Definition snd_seq_ev_ext : cty := type_in structs_snd_seq_ev_note "snd_seq_ev_ext".
Definition snd_seq_result : cty := type_in structs_snd_seq_ev_note "snd_seq_result".
Definition snd_seq_real_time : cty := type_in structs_snd_seq_ev_note "snd_seq_real_time".
Definition snd_seq_tick_time_t : cty := type_in structs_snd_seq_ev_note "snd_seq_tick_time_t".
Definition snd_seq_timestamp : cty := type_in structs_snd_seq_ev_note "snd_seq_timestamp".
Definition snd_seq_ev_queue_control : cty := type_in structs_snd_seq_ev_note "snd_seq_ev_queue_control".
Definition snd_seq_ev_quote : cty := type_in structs_snd_seq_ev_note "snd_seq_ev_quote".
Definition snd_seq_event : cty :=
  Struct [("type", snd_seq_event_type_t); ("flags", uchar); ("tag", char); ("queue", uchar);
   ("time", snd_seq_timestamp); ("source", snd_seq_addr); ("dest", snd_seq_addr);
   ("data", Union [("note", snd_seq_ev_note); ("control", snd_seq_ev_ctrl);
   ("raw8", snd_seq_ev_raw8); ("raw32", snd_seq_ev_raw32); ("ext", snd_seq_ev_ext);
   ("queue", snd_seq_ev_queue_control); ("time", snd_seq_timestamp); ("addr", snd_seq_addr);
   ("connect", snd_seq_connect); ("result", snd_seq_result); ("quote", snd_seq_ev_quote)])].
Definition structs_snd_seq_event_bounce : list (string * cty) :=
  [
  ("snd_seq_event_bounce", Struct [("err", int); ("event", snd_seq_event)]);
  ("snd_seq_system_info", Struct [("queues", int); ("clients", int); ("ports", int);
   ("channels", int); ("cur_clients", int); ("cur_queues", int); ("reserved", Arr 24 char)]);
  ("snd_seq_running_info", Struct [("client", uchar); ("big_endian", uchar); ("cpu_mode", uchar);
   ("pad", uchar); ("reserved", Arr 12 uchar)])].
Definition snd_seq_system_info : cty := type_in structs_snd_seq_event_bounce "snd_seq_system_info".
Definition snd_seq_running_info : cty := type_in structs_snd_seq_event_bounce "snd_seq_running_info".
Definition snd_seq_client_type_t : cty := int.
Definition structs_snd_seq_client_info : list (string * cty) :=
  [
  ("snd_seq_client_info", Struct [("client", int); ("type", snd_seq_client_type_t);
   ("name", Arr 64 char); ("filter", uint); ("multicast_filter", Arr 8 uchar);
   ("event_filter", Arr 32 uchar); ("num_ports", int); ("event_lost", int);
   ("reserved", Arr 64 char)]);
  ("snd_seq_client_pool", Struct [("client", int); ("output_pool", int); ("input_pool", int);
   ("output_room", int); ("output_free", int); ("input_free", int); ("reserved", Arr 64 char)])].
Definition snd_seq_client_info : cty := type_in structs_snd_seq_client_info "snd_seq_client_info".
Definition snd_seq_client_pool : cty := type_in structs_snd_seq_client_info "snd_seq_client_pool".
Definition snd_seq_remove_events : cty :=
  Struct [("remove_mode", uint); ("time", snd_seq_timestamp); ("queue", uchar);
   ("dest", snd_seq_addr); ("channel", uchar); ("type", int); ("tag", char);
   ("reserved", Arr 10 int)].
Definition snd_seq_port_info : cty :=
  Struct [("addr", snd_seq_addr); ("name", Arr 64 char); ("capability", uint); ("type", uint);
   ("midi_channels", int); ("midi_voices", int); ("synth_voices", int); ("read_use", int);
   ("write_use", int); ("kernel", ptr); ("flags", uint); ("time_queue", uchar);
   ("reserved", Arr 59 char)].
Definition structs_snd_seq_queue_status : list (string * cty) :=
  [
  ("snd_seq_queue_status", Struct [("queue", int); ("events", int);
   ("tick", snd_seq_tick_time_t); ("time", snd_seq_real_time); ("running", int); ("flags", int);
   ("reserved", Arr 64 char)]);
  ("snd_seq_queue_tempo", Struct [("queue", int); ("tempo", uint); ("ppq", int);
   ("skew_value", uint); ("skew_base", uint); ("reserved", Arr 24 char)])].
Definition snd_seq_queue_status : cty := type_in structs_snd_seq_queue_status "snd_seq_queue_status".
Definition snd_seq_queue_tempo : cty := type_in structs_snd_seq_queue_status "snd_seq_queue_tempo".
Definition structs_snd_seq_queue_timer : list (string * cty) :=
  [
  ("snd_seq_queue_timer", Struct [("queue", int); ("type", int);
   ("u", Union [("alsa", Struct [("id", Sound_asound.snd_timer_id); ("resolution", uint)])]);
   ("reserved", Arr 64 char)]);
  ("snd_seq_queue_client", Struct [("queue", int); ("client", int); ("used", int);
   ("reserved", Arr 64 char)])].
Definition snd_seq_queue_timer : cty := type_in structs_snd_seq_queue_timer "snd_seq_queue_timer".
Definition snd_seq_queue_client : cty := type_in structs_snd_seq_queue_timer "snd_seq_queue_client".
Definition snd_seq_port_subscribe : cty :=
  Struct [("sender", snd_seq_addr); ("dest", snd_seq_addr); ("voices", uint); ("flags", uint);
   ("queue", uchar); ("pad", Arr 3 uchar); ("reserved", Arr 64 char)].
Definition snd_seq_query_subs : cty :=
  Struct [("root", snd_seq_addr); ("type", int); ("index", int); ("num_subs", int);
   ("addr", snd_seq_addr); ("queue", uchar); ("flags", uint); ("reserved", Arr 64 char)].
(** The bit-field takes one byte, the name starts at the next. *)
Definition snd_seq_queue_info : cty :=
  Struct [("queue", int); ("owner", int); ("locked:1", uchar); ("name", Arr 64 char);
   ("flags", uint); ("reserved", Arr 60 char)].
Definition sound_asequencer_types : list (string * cty) :=
  (structs_snd_seq_event_type_t ++ structs_snd_seq_ev_note ++ [("snd_seq_event",
   snd_seq_event)] ++ structs_snd_seq_event_bounce ++ [("snd_seq_client_type_t",
   snd_seq_client_type_t)] ++ structs_snd_seq_client_info ++ [("snd_seq_remove_events",
   snd_seq_remove_events); ("snd_seq_port_info", snd_seq_port_info)] ++
   structs_snd_seq_queue_status ++ structs_snd_seq_queue_timer ++ [("snd_seq_port_subscribe",
   snd_seq_port_subscribe); ("snd_seq_query_subs", snd_seq_query_subs)] ++
   [("snd_seq_queue_info", snd_seq_queue_info)])%list.
Definition sound_asequencer_ioctls_1 : list command := [
  _IOR "SNDRV_SEQ_IOCTL_PVERSION" (chr "S") 0 int;
  _IOR "SNDRV_SEQ_IOCTL_CLIENT_ID" (chr "S") 1 int;
  _IOWR "SNDRV_SEQ_IOCTL_SYSTEM_INFO" (chr "S") 2 snd_seq_system_info;
  _IOWR "SNDRV_SEQ_IOCTL_RUNNING_MODE" (chr "S") 3 snd_seq_running_info;
  _IOWR "SNDRV_SEQ_IOCTL_GET_CLIENT_INFO" (chr "S") 16 snd_seq_client_info;
  _IOW "SNDRV_SEQ_IOCTL_SET_CLIENT_INFO" (chr "S") 17 snd_seq_client_info;
  _IOWR "SNDRV_SEQ_IOCTL_CREATE_PORT" (chr "S") 32 snd_seq_port_info;
  _IOW "SNDRV_SEQ_IOCTL_DELETE_PORT" (chr "S") 33 snd_seq_port_info;
  _IOWR "SNDRV_SEQ_IOCTL_GET_PORT_INFO" (chr "S") 34 snd_seq_port_info;
  _IOW "SNDRV_SEQ_IOCTL_SET_PORT_INFO" (chr "S") 35 snd_seq_port_info;
  _IOW "SNDRV_SEQ_IOCTL_SUBSCRIBE_PORT" (chr "S") 48 snd_seq_port_subscribe;
  _IOW "SNDRV_SEQ_IOCTL_UNSUBSCRIBE_PORT" (chr "S") 49 snd_seq_port_subscribe].
Definition sound_asequencer_ioctls_2 : list command := [
  _IOWR "SNDRV_SEQ_IOCTL_CREATE_QUEUE" (chr "S") 0x32 snd_seq_queue_info;
  _IOW "SNDRV_SEQ_IOCTL_DELETE_QUEUE" (chr "S") 0x33 snd_seq_queue_info;
  _IOWR "SNDRV_SEQ_IOCTL_GET_QUEUE_INFO" (chr "S") 0x34 snd_seq_queue_info;
  _IOWR "SNDRV_SEQ_IOCTL_SET_QUEUE_INFO" (chr "S") 0x35 snd_seq_queue_info;
  _IOWR "SNDRV_SEQ_IOCTL_GET_NAMED_QUEUE" (chr "S") 0x36 snd_seq_queue_info;
  _IOWR "SNDRV_SEQ_IOCTL_GET_QUEUE_STATUS" (chr "S") 64 snd_seq_queue_status;
  _IOWR "SNDRV_SEQ_IOCTL_GET_QUEUE_TEMPO" (chr "S") 65 snd_seq_queue_tempo;
  _IOW "SNDRV_SEQ_IOCTL_SET_QUEUE_TEMPO" (chr "S") 66 snd_seq_queue_tempo;
  _IOWR "SNDRV_SEQ_IOCTL_GET_QUEUE_TIMER" (chr "S") 69 snd_seq_queue_timer;
  _IOW "SNDRV_SEQ_IOCTL_SET_QUEUE_TIMER" (chr "S") 70 snd_seq_queue_timer;
  _IOWR "SNDRV_SEQ_IOCTL_GET_QUEUE_CLIENT" (chr "S") 73 snd_seq_queue_client;
  _IOW "SNDRV_SEQ_IOCTL_SET_QUEUE_CLIENT" (chr "S") 74 snd_seq_queue_client;
  _IOWR "SNDRV_SEQ_IOCTL_GET_CLIENT_POOL" (chr "S") 75 snd_seq_client_pool;
  _IOW "SNDRV_SEQ_IOCTL_SET_CLIENT_POOL" (chr "S") 76 snd_seq_client_pool;
  _IOW "SNDRV_SEQ_IOCTL_REMOVE_EVENTS" (chr "S") 78 snd_seq_remove_events;
  _IOWR "SNDRV_SEQ_IOCTL_QUERY_SUBS" (chr "S") 79 snd_seq_query_subs;
  _IOWR "SNDRV_SEQ_IOCTL_GET_SUBSCRIPTION" (chr "S") 80 snd_seq_port_subscribe;
  _IOWR "SNDRV_SEQ_IOCTL_QUERY_NEXT_CLIENT" (chr "S") 81 snd_seq_client_info;
  _IOWR "SNDRV_SEQ_IOCTL_QUERY_NEXT_PORT" (chr "S") 82 snd_seq_port_info].
Definition sound_asequencer_ioctls : list command :=
  (sound_asequencer_ioctls_1 ++ sound_asequencer_ioctls_2)%list.
End Sound_asequencer.

(** ** [sound/asound_fm.h] *)

Module Sound_asound_fm.
Definition structs_snd_dm_fm_info : list (string * cty) :=
  [
  ("snd_dm_fm_info", Struct [("fm_mode", uchar); ("rhythm", uchar)]);
  ("snd_dm_fm_voice", Struct [("op", uchar); ("voice", uchar); ("am", uchar); ("vibrato", uchar);
   ("do_sustain", uchar); ("kbd_scale", uchar); ("harmonic", uchar); ("scale_level", uchar);
   ("volume", uchar); ("attack", uchar); ("decay", uchar); ("sustain", uchar);
   ("release", uchar); ("feedback", uchar); ("connection", uchar); ("left", uchar);
   ("right", uchar); ("waveform", uchar)]);
  ("snd_dm_fm_note", Struct [("voice", uchar); ("octave", uchar); ("fnum", uint);
   ("key_on", uchar)]);
  ("snd_dm_fm_params", Struct [("am_depth", uchar); ("vib_depth", uchar); ("kbd_split", uchar);
   ("rhythm", uchar); ("bass", uchar); ("snare", uchar); ("tomtom", uchar); ("cymbal", uchar);
   ("hihat", uchar)])].
Definition snd_dm_fm_info : cty := type_in structs_snd_dm_fm_info "snd_dm_fm_info".
Definition snd_dm_fm_voice : cty := type_in structs_snd_dm_fm_info "snd_dm_fm_voice".
Definition snd_dm_fm_note : cty := type_in structs_snd_dm_fm_info "snd_dm_fm_note".
Definition snd_dm_fm_params : cty := type_in structs_snd_dm_fm_info "snd_dm_fm_params".
Definition sbi_patch : cty :=
  Struct [("prog", uchar); ("bank", uchar); ("key", Arr 4 char); ("name", Arr 25 char);
   ("extension", Arr 7 char); ("data", Arr 32 uchar)].
Definition sound_asound_fm_types : list (string * cty) :=
  (structs_snd_dm_fm_info ++ [("sbi_patch", sbi_patch)])%list.
Definition sound_asound_fm_ioctls : list command := [
  _IOR "SNDRV_DM_FM_IOCTL_INFO" (chr "H") 32 snd_dm_fm_info;
  _IO "SNDRV_DM_FM_IOCTL_RESET" (chr "H") 33;
  _IOW "SNDRV_DM_FM_IOCTL_PLAY_NOTE" (chr "H") 34 snd_dm_fm_note;
  _IOW "SNDRV_DM_FM_IOCTL_SET_VOICE" (chr "H") 35 snd_dm_fm_voice;
  _IOW "SNDRV_DM_FM_IOCTL_SET_PARAMS" (chr "H") 36 snd_dm_fm_params;
  _IOW "SNDRV_DM_FM_IOCTL_SET_MODE" (chr "H") 37 int;
  _IOW "SNDRV_DM_FM_IOCTL_SET_CONNECTION" (chr "H") 38 int;
  _IO "SNDRV_DM_FM_IOCTL_CLEAR_PATCHES" (chr "H") 64].
End Sound_asound_fm.

(** ** [sound/audio_effects.h] *)

Module Sound_audio_effects.
Definition MAX_EQ_BANDS : Z := 12.
Definition virtualizer_params : cty :=
  Struct [("device", uint32_t); ("enable_flag", uint32_t); ("strength", uint32_t);
   ("out_type", uint32_t); ("gain_adjust", int32_t)].
Definition reverb_params : cty :=
  Struct [("device", uint32_t); ("enable_flag", uint32_t); ("mode", uint32_t);
   ("preset", uint32_t); ("wet_mix", uint32_t); ("gain_adjust", int32_t);
   ("room_level", int32_t); ("room_hf_level", int32_t); ("decay_time", uint32_t);
   ("decay_hf_ratio", uint32_t); ("reflections_level", int32_t); ("reflections_delay", uint32_t);
   ("level", int32_t); ("delay", uint32_t); ("diffusion", uint32_t); ("density", uint32_t)].
Definition bass_boost_params : cty :=
  Struct [("device", uint32_t); ("enable_flag", uint32_t); ("mode", uint32_t);
   ("strength", uint32_t)].
Definition structs_eq_config_t : list (string * cty) :=
  let eq_config_t := Struct [("eq_pregain", int32_t); ("preset_id", int32_t);
   ("num_bands", uint32_t)] in
  let eq_per_band_config_t := Struct [("band_idx", int32_t); ("filter_type", uint32_t);
   ("freq_millihertz", uint32_t); ("gain_millibels", int32_t); ("quality_factor", uint32_t)] in
  let eq_per_band_freq_range_t := Struct [("band_index", uint32_t);
   ("min_freq_millihertz", uint32_t); ("max_freq_millihertz", uint32_t)] in
  [
  ("eq_config_t", eq_config_t);
  ("eq_per_band_config_t", eq_per_band_config_t);
  ("eq_per_band_freq_range_t", eq_per_band_freq_range_t);
  ("eq_params", Struct [("device", uint32_t); ("enable_flag", uint32_t); ("config", eq_config_t);
   ("per_band_cfg", Arr MAX_EQ_BANDS eq_per_band_config_t);
   ("per_band_freq_range", Arr MAX_EQ_BANDS eq_per_band_freq_range_t); ("band_index", uint32_t);
   ("freq_millihertz", uint32_t)])].
Definition eq_params : cty := type_in structs_eq_config_t "eq_params".
Definition pbe_config_t : cty :=
  Packed [("real_bass_mix", int16_t); ("bass_color_control", int16_t);
   ("main_chain_delay", uint16_t); ("xover_filter_order", uint16_t);
   ("bandpass_filter_order", uint16_t); ("drc_delay", int16_t); ("rms_tav", uint16_t);
   ("exp_threshold", int16_t); ("exp_slope", uint16_t); ("comp_threshold", int16_t);
   ("comp_slope", uint16_t); ("makeup_gain", uint16_t); ("comp_attack", uint32_t);
   ("comp_release", uint32_t); ("exp_attack", uint32_t); ("exp_release", uint32_t);
   ("limiter_bass_threshold", int16_t); ("limiter_high_threshold", int16_t);
   ("limiter_bass_makeup_gain", int16_t); ("limiter_high_makeup_gain", int16_t);
   ("limiter_bass_gc", int16_t); ("limiter_high_gc", int16_t); ("limiter_delay", int16_t);
   ("reserved", uint16_t); ("p1LowPassCoeffs", Arr 10 int32_t);
   ("p1HighPassCoeffs", Arr 10 int32_t); ("p1BandPassCoeffs", Arr 15 int32_t);
   ("p1BassShelfCoeffs", Arr 5 int32_t); ("p1TrebleShelfCoeffs", Arr 5 int32_t)].
Definition pbe_params : cty :=
  Struct [("device", uint32_t); ("enable_flag", uint32_t); ("cfg_len", uint32_t);
   ("config", pbe_config_t)].
Definition structs_soft_volume_params : list (string * cty) :=
  let soft_volume_params := Struct [("device", uint32_t); ("enable_flag", uint32_t);
   ("master_gain", uint32_t); ("left_gain", uint32_t); ("right_gain", uint32_t)] in
  [
  ("soft_volume_params", soft_volume_params);
  ("msm_nt_eff_all_config", Struct [("bass_boost", bass_boost_params); ("pbe", pbe_params);
   ("virtualizer", virtualizer_params); ("reverb", reverb_params); ("equalizer", eq_params);
   ("saplus_vol", soft_volume_params); ("topo_switch_vol", soft_volume_params)])].
Definition sound_audio_effects_types : list (string * cty) :=
  ([("virtualizer_params", virtualizer_params); ("reverb_params", reverb_params);
   ("bass_boost_params", bass_boost_params)] ++ structs_eq_config_t ++ [("pbe_config_t",
   pbe_config_t); ("pbe_params", pbe_params)] ++ structs_soft_volume_params)%list.
End Sound_audio_effects.

(** ** [sound/audio_slimslave.h] *)

Module Sound_audio_slimslave.
Definition sound_audio_slimslave_ioctls : list command := [
  _IO "AUDIO_SLIMSLAVE_IOCTL_UNVOTE" (chr "S") 0;
  _IO "AUDIO_SLIMSLAVE_IOCTL_VOTE" (chr "S") 1].
End Sound_audio_slimslave.

(** ** [sound/compress_params.h] *)

Module Sound_compress_params.
Definition SND_DEC_DDP_MAX_PARAMS : Z := 18.
Definition MAX_NUM_BITRATES : Z := 32.
Definition MAX_NUM_SAMPLE_RATES : Z := 32.
Definition structs_snd_enc_wma : list (string * cty) :=
  let snd_enc_wma := Struct [("super_block_align", __u32); ("bits_per_sample", __u32);
   ("channelmask", __u32); ("encodeopt", __u32); ("encodeopt1", __u32); ("encodeopt2", __u32);
   ("avg_bit_rate", __u32)] in
  let snd_enc_vorbis := Aligned 4 (Packed [("quality", __s32); ("managed", __u32);
   ("max_bit_rate", __u32); ("min_bit_rate", __u32); ("downmix", __u32)]) in
  let snd_enc_real := Aligned 4 (Packed [("quant_bits", __u32); ("start_region", __u32);
   ("num_regions", __u32)]) in
  let snd_enc_flac := Aligned 4 (Packed [("num", __u32); ("gain", __u32)]) in
  let snd_enc_generic := Aligned 4 (Packed [("bw", __u32); ("reserved", Arr 15 __s32)]) in
  let snd_dec_ddp := Aligned 4 (Packed [("params_length", __u32);
   ("params_id", Arr SND_DEC_DDP_MAX_PARAMS __u32);
   ("params_value", Arr SND_DEC_DDP_MAX_PARAMS __u32)]) in
  let snd_dec_flac := Aligned 4 (Packed [("sample_size", __u16); ("min_blk_size", __u16);
   ("max_blk_size", __u16); ("min_frame_size", __u16); ("max_frame_size", __u16)]) in
  let snd_dec_vorbis := Struct [("bit_stream_fmt", __u32)] in
  let snd_dec_alac := Struct [("frame_length", __u32); ("compatible_version", __u8);
   ("bit_depth", __u8); ("pb", __u8); ("mb", __u8); ("kb", __u8); ("num_channels", __u8);
   ("max_run", __u16); ("max_frame_bytes", __u32); ("avg_bit_rate", __u32);
   ("sample_rate", __u32); ("channel_layout_tag", __u32)] in
  let snd_dec_ape := Struct [("compatible_version", __u16); ("compression_level", __u16);
   ("format_flags", __u32); ("blocks_per_frame", __u32); ("final_frame_blocks", __u32);
   ("total_frames", __u32); ("bits_per_sample", __u16); ("num_channels", __u16);
   ("sample_rate", __u32); ("seek_table_present", __u32)] in
  let snd_dec_aptx := Struct [("lap", __u32); ("uap", __u32); ("nap", __u32)] in
  [
  ("snd_enc_wma", snd_enc_wma);
  ("snd_enc_vorbis", snd_enc_vorbis);
  ("snd_enc_real", snd_enc_real);
  ("snd_enc_flac", snd_enc_flac);
  ("snd_enc_generic", snd_enc_generic);
  ("snd_dec_ddp", snd_dec_ddp);
  ("snd_dec_flac", snd_dec_flac);
  ("snd_dec_vorbis", snd_dec_vorbis);
  ("snd_dec_alac", snd_dec_alac);
  ("snd_dec_ape", snd_dec_ape);
  ("snd_dec_aptx", snd_dec_aptx);
  ("snd_codec_options", Union [("wma", snd_enc_wma); ("vorbis", snd_enc_vorbis);
   ("real", snd_enc_real); ("flac", snd_enc_flac); ("generic", snd_enc_generic);
   ("ddp", snd_dec_ddp); ("flac_dec", snd_dec_flac); ("vorbis_dec", snd_dec_vorbis);
   ("alac", snd_dec_alac); ("ape", snd_dec_ape); ("aptx_dec", snd_dec_aptx)])].
Definition snd_codec_options : cty := type_in structs_snd_enc_wma "snd_codec_options".
Definition structs_snd_codec_desc : list (string * cty) :=
  [
  ("snd_codec_desc", Aligned 4 (Packed [("max_ch", __u32);
   ("sample_rates", Arr MAX_NUM_SAMPLE_RATES __u32); ("num_sample_rates", __u32);
   ("bit_rate", Arr MAX_NUM_BITRATES __u32); ("num_bitrates", __u32); ("rate_control", __u32);
   ("profiles", __u32); ("modes", __u32); ("formats", __u32); ("min_buffer", __u32);
   ("reserved", Arr 15 __u32)]));
  ("snd_codec", Aligned 4 (Packed [("id", __u32); ("ch_in", __u32); ("ch_out", __u32);
   ("sample_rate", __u32); ("bit_rate", __u32); ("rate_control", __u32); ("profile", __u32);
   ("level", __u32); ("ch_mode", __u32); ("format", __u32); ("align", __u32);
   ("compr_passthr", __u32); ("options", snd_codec_options); ("flags", __u32);
   ("reserved", Arr 2 __u32)]));
  ("snd_codec_metadata", Struct [("length", __u32); ("offset", __u32); ("timestamp", __u64);
   ("reserved", Arr 4 __u32)])].
Definition snd_codec_desc : cty := type_in structs_snd_codec_desc "snd_codec_desc".
Definition snd_codec : cty := type_in structs_snd_codec_desc "snd_codec".
Definition sound_compress_params_types : list (string * cty) :=
  (structs_snd_enc_wma ++ structs_snd_codec_desc)%list.
End Sound_compress_params.

(** ** [sound/compress_offload.h] *)

Module Sound_compress_offload.
Definition structs_snd_compressed_buffer : list (string * cty) :=
  let snd_compressed_buffer := Aligned 4 (Packed [("fragment_size", __u32);
   ("fragments", __u32)]) in
  let snd_compr_tstamp := Aligned 4 (Packed [("byte_offset", __u32); ("copied_total", __u64);
   ("pcm_frames", __u32); ("pcm_io_frames", __u32); ("sampling_rate", __u32);
   ("timestamp", __u64)]) in
  [
  ("snd_compressed_buffer", snd_compressed_buffer);
  ("snd_compr_params", Aligned 4 (Packed [("buffer", snd_compressed_buffer);
   ("codec", Sound_compress_params.snd_codec); ("no_wake_mode", __u8)]));
  ("snd_compr_tstamp", snd_compr_tstamp);
  ("snd_compr_avail", Aligned 4 (Packed [("avail", __u64); ("tstamp", snd_compr_tstamp)]))].
Definition snd_compr_params : cty := type_in structs_snd_compressed_buffer "snd_compr_params".
Definition snd_compr_tstamp : cty := type_in structs_snd_compressed_buffer "snd_compr_tstamp".
Definition snd_compr_avail : cty := type_in structs_snd_compressed_buffer "snd_compr_avail".
Definition structs_snd_compr_caps : list (string * cty) :=
  [
  ("snd_compr_caps", Aligned 4 (Packed [("num_codecs", __u32); ("direction", __u32);
   ("min_fragment_size", __u32); ("max_fragment_size", __u32); ("min_fragments", __u32);
   ("max_fragments", __u32); ("codecs", Arr 32 __u32); ("reserved", Arr 11 __u32)]));
  ("snd_compr_codec_caps", Aligned 4 (Packed [("codec", __u32); ("num_descriptors", __u32);
   ("descriptor", Arr 32 Sound_compress_params.snd_codec_desc)]));
  ("snd_compr_audio_info", Aligned 4 (Packed [("frame_size", __u32); ("reserved", Arr 15 __u32)]))].
Definition snd_compr_caps : cty := type_in structs_snd_compr_caps "snd_compr_caps".
Definition snd_compr_codec_caps : cty := type_in structs_snd_compr_caps "snd_compr_codec_caps".
Definition snd_compr_metadata : cty :=
  Aligned 4 (Packed [("key", __u32); ("value", Arr 8 __u32)]).
Definition sound_compress_offload_types : list (string * cty) :=
  (structs_snd_compressed_buffer ++ structs_snd_compr_caps ++ [("snd_compr_metadata",
   snd_compr_metadata)])%list.
Definition sound_compress_offload_ioctls : list command := [
  _IOR "SNDRV_COMPRESS_IOCTL_VERSION" (chr "C") 0 int;
  _IOWR "SNDRV_COMPRESS_GET_CAPS" (chr "C") 16 snd_compr_caps;
  _IOWR "SNDRV_COMPRESS_GET_CODEC_CAPS" (chr "C") 17 snd_compr_codec_caps;
  _IOW "SNDRV_COMPRESS_SET_PARAMS" (chr "C") 18 snd_compr_params;
  _IOR "SNDRV_COMPRESS_GET_PARAMS" (chr "C") 19 Sound_compress_params.snd_codec;
  _IOW "SNDRV_COMPRESS_SET_METADATA" (chr "C") 20 snd_compr_metadata;
  _IOWR "SNDRV_COMPRESS_GET_METADATA" (chr "C") 21 snd_compr_metadata;
  _IOR "SNDRV_COMPRESS_TSTAMP" (chr "C") 32 snd_compr_tstamp;
  _IOR "SNDRV_COMPRESS_AVAIL" (chr "C") 33 snd_compr_avail;
  _IO "SNDRV_COMPRESS_PAUSE" (chr "C") 48;
  _IO "SNDRV_COMPRESS_RESUME" (chr "C") 49;
  _IO "SNDRV_COMPRESS_START" (chr "C") 50;
  _IO "SNDRV_COMPRESS_STOP" (chr "C") 51;
  _IO "SNDRV_COMPRESS_DRAIN" (chr "C") 52;
  _IO "SNDRV_COMPRESS_NEXT_TRACK" (chr "C") 53;
  _IO "SNDRV_COMPRESS_PARTIAL_DRAIN" (chr "C") 54;
  _IOW "SNDRV_COMPRESS_SET_NEXT_TRACK_PARAM" (chr "C") 128 Sound_compress_params.snd_codec_options].
End Sound_compress_offload.

(** ** [sound/devdep_params.h] *)

Module Sound_devdep_params.
Definition structs_dolby_param_data : list (string * cty) :=
  [
  ("dolby_param_data", Struct [("version", int32_t); ("device_id", int32_t); ("be_id", int32_t);
   ("param_id", int32_t); ("length", int32_t); ("data", ptr)]);
  ("dolby_param_license", Struct [("dmid", int32_t); ("license_key", int32_t)])].
Definition dolby_param_data : cty := type_in structs_dolby_param_data "dolby_param_data".
Definition dolby_param_license : cty := type_in structs_dolby_param_data "dolby_param_license".
Definition dts_eagle_param_desc : cty :=
  Packed [("id", uint32_t); ("size", uint32_t); ("offset", int32_t); ("device", uint32_t)].
Definition snd_pcm_mmap_fd : cty :=
  Struct [("dir", int32_t); ("fd", int32_t); ("size", int32_t); ("actual_size", int32_t)].
Definition sound_devdep_params_types : list (string * cty) :=
  (structs_dolby_param_data ++ [("dts_eagle_param_desc", dts_eagle_param_desc);
   ("snd_pcm_mmap_fd", snd_pcm_mmap_fd)])%list.
Definition sound_devdep_params_ioctls_1 : list command := [
  _IOWR "SNDRV_DEVDEP_DAP_IOCTL_SET_PARAM" (chr "U") 16 dolby_param_data;
  _IOR "SNDRV_DEVDEP_DAP_IOCTL_GET_PARAM" (chr "U") 17 dolby_param_data;
  _IOWR "SNDRV_DEVDEP_DAP_IOCTL_DAP_COMMAND" (chr "U") 19 dolby_param_data;
  _IOWR "SNDRV_DEVDEP_DAP_IOCTL_DAP_LICENSE" (chr "U") 20 dolby_param_license;
  _IOR "SNDRV_DEVDEP_DAP_IOCTL_GET_VISUALIZER" (chr "U") 21 dolby_param_data;
  _IOR "DTS_EAGLE_IOCTL_GET_CACHE_SIZE" 0xf2 0 int;
  _IOW "DTS_EAGLE_IOCTL_SET_CACHE_SIZE" 0xf2 1 int;
  _IOR "DTS_EAGLE_IOCTL_GET_PARAM" 0xf2 2 ptr;
  _IOW "DTS_EAGLE_IOCTL_SET_PARAM" 0xf2 3 ptr;
  _IOW "DTS_EAGLE_IOCTL_SET_CACHE_BLOCK" 0xf2 4 ptr;
  _IOW "DTS_EAGLE_IOCTL_SET_ACTIVE_DEVICE" 0xf2 5 ptr;
  _IOR "DTS_EAGLE_IOCTL_GET_LICENSE" 0xf2 6 ptr;
  _IOW "DTS_EAGLE_IOCTL_SET_LICENSE" 0xf2 7 ptr;
  _IOW "DTS_EAGLE_IOCTL_SEND_LICENSE" 0xf2 8 int;
  _IOW "DTS_EAGLE_IOCTL_SET_VOLUME_COMMANDS" 0xf2 9 ptr].
Definition sound_devdep_params_ioctls_2 : list command := [
  _IOWR "SNDRV_PCM_IOCTL_MMAP_DATA_FD" (chr "U") 210 snd_pcm_mmap_fd].
Definition sound_devdep_params_ioctls : list command :=
  (sound_devdep_params_ioctls_1 ++ sound_devdep_params_ioctls_2)%list.
End Sound_devdep_params.

(** ** [sound/emu10k1.h] *)

Module Sound_emu10k1.
Definition snd_emu10k1_fx8010_info : cty :=
  Struct [("internal_tram_size", uint); ("external_tram_size", uint);
   ("fxbus_names", Arr 16 (Arr 32 char)); ("extin_names", Arr 16 (Arr 32 char));
   ("extout_names", Arr 32 (Arr 32 char)); ("gpr_controls", uint)].
Definition structs_snd_emu10k1_fx8010_control_gpr : list (string * cty) :=
  [
  ("snd_emu10k1_fx8010_control_gpr", Struct [("id", Sound_asound.snd_ctl_elem_id);
   ("vcount", uint); ("count", uint); ("gpr", Arr 32 ushort); ("value", Arr 32 uint);
   ("min", uint); ("max", uint); ("translation", uint); ("tlv", ptr)]);
  ("snd_emu10k1_fx8010_control_old_gpr", Struct [("id", Sound_asound.snd_ctl_elem_id);
   ("vcount", uint); ("count", uint); ("gpr", Arr 32 ushort); ("value", Arr 32 uint);
   ("min", uint); ("max", uint); ("translation", uint)])].
Definition snd_emu10k1_fx8010_control_gpr : cty := type_in structs_snd_emu10k1_fx8010_control_gpr "snd_emu10k1_fx8010_control_gpr".
Definition structs_snd_emu10k1_fx8010_tram : list (string * cty) :=
  [
  ("snd_emu10k1_fx8010_tram", Struct [("address", uint); ("size", uint); ("samples", ptr)]);
  ("snd_emu10k1_fx8010_pcm_rec", Struct [("substream", uint); ("res1", uint); ("channels", uint);
   ("tram_start", uint); ("buffer_size", uint); ("gpr_size", ushort); ("gpr_ptr", ushort);
   ("gpr_count", ushort); ("gpr_tmpcount", ushort); ("gpr_trigger", ushort);
   ("gpr_running", ushort); ("pad", uchar); ("etram", Arr 32 uchar); ("res2", uint)])].
Definition snd_emu10k1_fx8010_tram : cty := type_in structs_snd_emu10k1_fx8010_tram "snd_emu10k1_fx8010_tram".
Definition snd_emu10k1_fx8010_pcm_rec : cty := type_in structs_snd_emu10k1_fx8010_tram "snd_emu10k1_fx8010_pcm_rec".
Definition structs_emu10k1_fx8010_info_t : list (string * cty) :=
  [
  ("emu10k1_fx8010_info_t", snd_emu10k1_fx8010_info);
  ("emu10k1_fx8010_control_gpr_t", snd_emu10k1_fx8010_control_gpr)].
Definition structs_emu10k1_fx8010_tram_t : list (string * cty) :=
  [
  ("emu10k1_fx8010_tram_t", snd_emu10k1_fx8010_tram);
  ("emu10k1_fx8010_pcm_t", snd_emu10k1_fx8010_pcm_rec)].
(** The lengths of the bit maps depend on the ABI. *)
Definition __EMU10K1_DECLARE_BITMAP (A : abi) (bits : Z) : cty := Arr (bits / (sizeof A ulong * 8)) ulong.
Definition snd_emu10k1_fx8010_code (A : abi) : cty :=
  Struct [("name", Arr 128 char); ("gpr_valid", __EMU10K1_DECLARE_BITMAP A 0x200); ("gpr_map", ptr);
   ("gpr_add_control_count", uint); ("gpr_add_controls", ptr); ("gpr_del_control_count", uint);
   ("gpr_del_controls", ptr); ("gpr_list_control_count", uint); ("gpr_list_control_total", uint);
   ("gpr_list_controls", ptr); ("tram_valid", __EMU10K1_DECLARE_BITMAP A 0x100);
   ("tram_data_map", ptr); ("tram_addr_map", ptr); ("code_valid", __EMU10K1_DECLARE_BITMAP A 1024);
   ("code", ptr)].
Definition sound_emu10k1_types : list (string * cty) :=
  ([("snd_emu10k1_fx8010_info", snd_emu10k1_fx8010_info)] ++
   structs_snd_emu10k1_fx8010_control_gpr ++ structs_snd_emu10k1_fx8010_tram ++
   structs_emu10k1_fx8010_info_t ++ structs_emu10k1_fx8010_tram_t)%list.
Definition sound_emu10k1_ioctls : list command := [
  _IOR "SNDRV_EMU10K1_IOCTL_INFO" (chr "H") 16 snd_emu10k1_fx8010_info;
  mk_command "SNDRV_EMU10K1_IOCTL_CODE_POKE" _IOC_WRITE (chr "H") 17
    (fun A => Some (snd_emu10k1_fx8010_code A));
  _IOWR_by "SNDRV_EMU10K1_IOCTL_CODE_PEEK" (chr "H") 18 snd_emu10k1_fx8010_code;
  _IOW "SNDRV_EMU10K1_IOCTL_TRAM_SETUP" (chr "H") 32 int;
  _IOW "SNDRV_EMU10K1_IOCTL_TRAM_POKE" (chr "H") 33 snd_emu10k1_fx8010_tram;
  _IOWR "SNDRV_EMU10K1_IOCTL_TRAM_PEEK" (chr "H") 34 snd_emu10k1_fx8010_tram;
  _IOW "SNDRV_EMU10K1_IOCTL_PCM_POKE" (chr "H") 48 snd_emu10k1_fx8010_pcm_rec;
  _IOWR "SNDRV_EMU10K1_IOCTL_PCM_PEEK" (chr "H") 49 snd_emu10k1_fx8010_pcm_rec;
  _IOR "SNDRV_EMU10K1_IOCTL_PVERSION" (chr "H") 64 int;
  _IO "SNDRV_EMU10K1_IOCTL_STOP" (chr "H") 128;
  _IO "SNDRV_EMU10K1_IOCTL_CONTINUE" (chr "H") 129;
  _IO "SNDRV_EMU10K1_IOCTL_ZERO_TRAM_COUNTER" (chr "H") 130;
  _IOW "SNDRV_EMU10K1_IOCTL_SINGLE_STEP" (chr "H") 131 int;
  _IOR "SNDRV_EMU10K1_IOCTL_DBG_READ" (chr "H") 132 int].
End Sound_emu10k1.

(** ** [sound/firewire.h] *)

Module Sound_firewire.
Definition structs_snd_firewire_event_common : list (string * cty) :=
  [
  ("snd_firewire_event_common", Struct [("type", uint)]);
  ("snd_firewire_event_lock_status", Struct [("type", uint); ("status", uint)]);
  ("snd_firewire_event_dice_notification", Struct [("type", uint); ("notification", uint)])].
Definition snd_firewire_event_common : cty := type_in structs_snd_firewire_event_common "snd_firewire_event_common".
Definition snd_firewire_event_lock_status : cty := type_in structs_snd_firewire_event_common "snd_firewire_event_lock_status".
Definition snd_firewire_event_dice_notification : cty := type_in structs_snd_firewire_event_common "snd_firewire_event_dice_notification".
Definition structs_snd_efw_transaction : list (string * cty) :=
  let snd_firewire_event_efw_response := Struct [("type", uint); ("response", Arr 0 __be32)] in
  let snd_firewire_event_digi00x_message := Struct [("type", uint); ("message", __u32)] in
  [
  ("snd_efw_transaction", Struct [("length", __be32); ("version", __be32); ("seqnum", __be32);
   ("category", __be32); ("command", __be32); ("status", __be32); ("params", Arr 0 __be32)]);
  ("snd_firewire_event_efw_response", snd_firewire_event_efw_response);
  ("snd_firewire_event_digi00x_message", snd_firewire_event_digi00x_message);
  ("snd_firewire_event", Union [("common", snd_firewire_event_common);
   ("lock_status", snd_firewire_event_lock_status);
   ("dice_notification", snd_firewire_event_dice_notification);
   ("efw_response", snd_firewire_event_efw_response);
   ("digi00x_message", snd_firewire_event_digi00x_message)])].
Definition snd_firewire_get_info : cty :=
  Struct [("type", uint); ("card", uint); ("guid", Arr 8 uchar); ("device_name", Arr 16 char)].
Definition sound_firewire_types : list (string * cty) :=
  (structs_snd_firewire_event_common ++ structs_snd_efw_transaction ++
   [("snd_firewire_get_info", snd_firewire_get_info)])%list.
Definition sound_firewire_ioctls : list command := [
  _IOR "SNDRV_FIREWIRE_IOCTL_GET_INFO" (chr "H") 248 snd_firewire_get_info;
  _IO "SNDRV_FIREWIRE_IOCTL_LOCK" (chr "H") 249;
  _IO "SNDRV_FIREWIRE_IOCTL_UNLOCK" (chr "H") 250].
End Sound_firewire.

(** ** [sound/hdsp.h] *)

Module Sound_hdsp.
Definition HDSP_MATRIX_MIXER_SIZE : Z := 2048.
Definition hdsp_peak_rms : cty :=
  Struct [("input_peaks", Arr 26 __u32); ("playback_peaks", Arr 26 __u32);
   ("output_peaks", Arr 28 __u32); ("input_rms", Arr 26 __u64); ("playback_rms", Arr 26 __u64);
   ("output_rms", Arr 26 __u64)].
Definition hdsp_config_info : cty :=
  Struct [("pref_sync_ref", uchar); ("wordclock_sync_check", uchar); ("spdif_sync_check", uchar);
   ("adatsync_sync_check", uchar); ("adat_sync_check", Arr 3 uchar); ("spdif_in", uchar);
   ("spdif_out", uchar); ("spdif_professional", uchar); ("spdif_emphasis", uchar);
   ("spdif_nonaudio", uchar); ("spdif_sample_rate", uint); ("system_sample_rate", uint);
   ("autosync_sample_rate", uint); ("system_clock_mode", uchar); ("clock_source", uchar);
   ("autosync_ref", uchar); ("line_out", uchar); ("passthru", uchar); ("da_gain", uchar);
   ("ad_gain", uchar); ("phone_gain", uchar); ("xlr_breakout_cable", uchar);
   ("analog_extension_board", uchar)].
Definition hdsp_firmware : cty := Struct [("firmware_data", ptr)].
Definition hdsp_version : cty := Struct [("io_type", enum); ("firmware_rev", ushort)].
Definition hdsp_mixer : cty := Struct [("matrix", Arr HDSP_MATRIX_MIXER_SIZE ushort)].
Definition hdsp_9632_aeb : cty := Struct [("aebi", int); ("aebo", int)].
Definition structs_HDSP_IO_Type : list (string * cty) :=
  [
  ("HDSP_IO_Type", enum);
  ("hdsp_peak_rms_t", hdsp_peak_rms);
  ("hdsp_config_info_t", hdsp_config_info);
  ("hdsp_firmware_t", hdsp_firmware);
  ("hdsp_version_t", hdsp_version);
  ("hdsp_mixer_t", hdsp_mixer);
  ("hdsp_9632_aeb_t", hdsp_9632_aeb)].
Definition sound_hdsp_types : list (string * cty) :=
  ([("hdsp_peak_rms", hdsp_peak_rms); ("hdsp_config_info", hdsp_config_info);
   ("hdsp_firmware", hdsp_firmware); ("hdsp_version", hdsp_version); ("hdsp_mixer",
   hdsp_mixer); ("hdsp_9632_aeb", hdsp_9632_aeb)] ++ structs_HDSP_IO_Type)%list.
Definition sound_hdsp_ioctls_1 : list command := [
  _IOR "SNDRV_HDSP_IOCTL_GET_PEAK_RMS" (chr "H") 64 hdsp_peak_rms].
Definition sound_hdsp_ioctls_2 : list command := [
  _IOR "SNDRV_HDSP_IOCTL_GET_CONFIG_INFO" (chr "H") 65 hdsp_config_info;
  _IOW "SNDRV_HDSP_IOCTL_UPLOAD_FIRMWARE" (chr "H") 66 hdsp_firmware].
Definition sound_hdsp_ioctls_3 : list command := [
  _IOR "SNDRV_HDSP_IOCTL_GET_VERSION" (chr "H") 67 hdsp_version;
  _IOR "SNDRV_HDSP_IOCTL_GET_MIXER" (chr "H") 68 hdsp_mixer].
Definition sound_hdsp_ioctls_4 : list command := [
  _IOR "SNDRV_HDSP_IOCTL_GET_9632_AEB" (chr "H") 69 hdsp_9632_aeb].
Definition sound_hdsp_ioctls : list command :=
  (sound_hdsp_ioctls_1 ++ sound_hdsp_ioctls_2 ++ sound_hdsp_ioctls_3 ++
  sound_hdsp_ioctls_4)%list.
End Sound_hdsp.

(** ** [sound/hdspm.h] *)

Module Sound_hdspm.
Definition HDSPM_MIXER_CHANNELS : Z := 64.
Definition hdspm_peak_rms : cty :=
  Struct [("input_peaks", Arr 64 __u32); ("playback_peaks", Arr 64 __u32);
   ("output_peaks", Arr 64 __u32); ("input_rms", Arr 64 __u64); ("playback_rms", Arr 64 __u64);
   ("output_rms", Arr 64 __u64); ("speed", __u8); ("status2", int)].
Definition hdspm_config : cty :=
  Struct [("pref_sync_ref", uchar); ("wordclock_sync_check", uchar); ("madi_sync_check", uchar);
   ("system_sample_rate", uint); ("autosync_sample_rate", uint); ("system_clock_mode", uchar);
   ("clock_source", uchar); ("autosync_ref", uchar); ("line_out", uchar); ("passthru", uint);
   ("analog_out", uint)].
Definition hdspm_ltc : cty :=
  Struct [("ltc", uint); ("format", enum); ("frame", enum); ("input_format", enum)].
Definition hdspm_status : cty :=
  Struct [("card_type", __u8); ("autosync_source", enum); ("card_clock", __u64);
   ("master_period", __u32); ("card_specific", Union [("madi", Struct [("sync_wc", __u8);
   ("sync_madi", __u8); ("sync_tco", __u8); ("sync_in", __u8); ("madi_input", __u8);
   ("channel_format", __u8); ("frame_format", __u8)])])].
Definition hdspm_version : cty :=
  Struct [("card_type", __u8); ("cardname", Arr 20 char); ("serial", uint);
   ("firmware_rev", ushort); ("addons", int)].
Definition structs_hdspm_channelfader : list (string * cty) :=
  let hdspm_channelfader := Struct [("in", Arr HDSPM_MIXER_CHANNELS uint);
   ("pb", Arr HDSPM_MIXER_CHANNELS uint)] in
  [
  ("hdspm_channelfader", hdspm_channelfader);
  ("hdspm_mixer", Struct [("ch", Arr HDSPM_MIXER_CHANNELS hdspm_channelfader)]);
  ("hdspm_mixer_ioctl", Struct [("mixer", ptr)])].
Definition hdspm_channelfader : cty := type_in structs_hdspm_channelfader "hdspm_channelfader".
Definition hdspm_mixer : cty := type_in structs_hdspm_channelfader "hdspm_mixer".
Definition hdspm_mixer_ioctl : cty := type_in structs_hdspm_channelfader "hdspm_mixer_ioctl".
Definition hdspm_peak_rms_t : cty := hdspm_peak_rms.
Definition structs_hdspm_version_t : list (string * cty) :=
  [
  ("hdspm_version_t", hdspm_version);
  ("snd_hdspm_channelfader_t", hdspm_channelfader);
  ("hdspm_mixer_t", hdspm_mixer)].
Definition sound_hdspm_types : list (string * cty) :=
  ([("hdspm_peak_rms", hdspm_peak_rms); ("hdspm_config", hdspm_config); ("hdspm_ltc",
   hdspm_ltc); ("hdspm_status", hdspm_status); ("hdspm_version", hdspm_version)] ++
   structs_hdspm_channelfader ++ [("hdspm_peak_rms_t", hdspm_peak_rms_t)] ++
   structs_hdspm_version_t)%list.
Definition sound_hdspm_ioctls_1 : list command := [
  _IOR "SNDRV_HDSPM_IOCTL_GET_PEAK_RMS" (chr "H") 66 hdspm_peak_rms].
Definition sound_hdspm_ioctls_2 : list command := [
  _IOR "SNDRV_HDSPM_IOCTL_GET_CONFIG" (chr "H") 65 hdspm_config].
Definition sound_hdspm_ioctls_3 : list command := [
  _IOR "SNDRV_HDSPM_IOCTL_GET_LTC" (chr "H") 70 hdspm_ltc].
Definition sound_hdspm_ioctls_4 : list command := [
  _IOR "SNDRV_HDSPM_IOCTL_GET_STATUS" (chr "H") 71 hdspm_status].
Definition sound_hdspm_ioctls_5 : list command := [
  _IOR "SNDRV_HDSPM_IOCTL_GET_VERSION" (chr "H") 72 hdspm_version].
Definition sound_hdspm_ioctls_6 : list command := [
  _IOR "SNDRV_HDSPM_IOCTL_GET_MIXER" (chr "H") 68 hdspm_mixer_ioctl].
Definition sound_hdspm_ioctls : list command :=
  (sound_hdspm_ioctls_1 ++ sound_hdspm_ioctls_2 ++ sound_hdspm_ioctls_3 ++
  sound_hdspm_ioctls_4 ++ sound_hdspm_ioctls_5 ++ sound_hdspm_ioctls_6)%list.
End Sound_hdspm.

(** ** [sound/lsm_params.h] *)

Module Sound_lsm_params.
Definition structs_snd_lsm_ep_det_thres : list (string * cty) :=
  [
  ("snd_lsm_ep_det_thres", Struct [("epd_begin", __u32); ("epd_end", __u32)]);
  ("snd_lsm_detect_mode", Struct [("mode", enum); ("detect_failure", c_bool)]);
  ("snd_lsm_gain", Struct [("gain", __u16)]);
  ("snd_lsm_poll_enable", Struct [("poll_en", c_bool)]);
  ("snd_lsm_sound_model_v2", Struct [("data", ptr); ("confidence_level", ptr);
   ("data_size", __u32); ("detection_mode", enum); ("num_confidence_levels", __u8);
   ("detect_failure", c_bool)]);
  ("snd_lsm_session_data", Struct [("app_id", enum)]);
  ("snd_lsm_event_status", Struct [("status", __u16); ("payload_size", __u16);
   ("payload", Arr 0 __u8)]);
  ("snd_lsm_event_status_v3", Struct [("timestamp_lsw", __u32); ("timestamp_msw", __u32);
   ("status", __u16); ("payload_size", __u16); ("payload", Arr 0 __u8)]);
  ("snd_lsm_detection_params", Struct [("conf_level", ptr); ("detect_mode", enum);
   ("num_confidence_levels", __u8); ("detect_failure", c_bool); ("poll_enable", c_bool)]);
  ("lsm_params_info", Struct [("module_id", __u32); ("param_id", __u32); ("param_size", __u32);
   ("param_data", ptr); ("param_type", uint32_t)]);
  ("snd_lsm_module_params", Struct [("params", ptr); ("num_params", __u32); ("data_size", __u32)]);
  ("snd_lsm_output_format_cfg", Struct [("format", __u8); ("packing", __u8); ("events", __u8);
   ("mode", __u8)])].
Definition snd_lsm_sound_model_v2 : cty := type_in structs_snd_lsm_ep_det_thres "snd_lsm_sound_model_v2".
Definition snd_lsm_session_data : cty := type_in structs_snd_lsm_ep_det_thres "snd_lsm_session_data".
Definition snd_lsm_event_status : cty := type_in structs_snd_lsm_ep_det_thres "snd_lsm_event_status".
Definition snd_lsm_event_status_v3 : cty := type_in structs_snd_lsm_ep_det_thres "snd_lsm_event_status_v3".
Definition snd_lsm_detection_params : cty := type_in structs_snd_lsm_ep_det_thres "snd_lsm_detection_params".
Definition snd_lsm_module_params : cty := type_in structs_snd_lsm_ep_det_thres "snd_lsm_module_params".
Definition snd_lsm_output_format_cfg : cty := type_in structs_snd_lsm_ep_det_thres "snd_lsm_output_format_cfg".
Definition sound_lsm_params_types : list (string * cty) := structs_snd_lsm_ep_det_thres.
Definition sound_lsm_params_ioctls : list command := [
  _IOW "SNDRV_LSM_DEREG_SND_MODEL" (chr "U") 1 int;
  _IOW "SNDRV_LSM_EVENT_STATUS" (chr "U") 2 snd_lsm_event_status;
  _IOW "SNDRV_LSM_ABORT_EVENT" (chr "U") 3 int;
  _IOW "SNDRV_LSM_START" (chr "U") 4 int;
  _IOW "SNDRV_LSM_STOP" (chr "U") 5 int;
  _IOW "SNDRV_LSM_SET_SESSION_DATA" (chr "U") 6 snd_lsm_session_data;
  _IOW "SNDRV_LSM_REG_SND_MODEL_V2" (chr "U") 7 snd_lsm_sound_model_v2;
  _IOW "SNDRV_LSM_LAB_CONTROL" (chr "U") 8 uint32_t;
  _IO "SNDRV_LSM_STOP_LAB" (chr "U") 9;
  _IOW "SNDRV_LSM_SET_PARAMS" (chr "U") 10 snd_lsm_detection_params;
  _IOW "SNDRV_LSM_SET_MODULE_PARAMS" (chr "U") 11 snd_lsm_module_params;
  _IOW "SNDRV_LSM_OUT_FORMAT_CFG" (chr "U") 12 snd_lsm_output_format_cfg;
  _IO "SNDRV_LSM_SET_PORT" (chr "U") 13;
  _IOW "SNDRV_LSM_SET_FWK_MODE_CONFIG" (chr "U") 14 uint32_t;
  _IOW "SNDRV_LSM_EVENT_STATUS_V3" (chr "U") 15 snd_lsm_event_status_v3].
End Sound_lsm_params.

(** ** [sound/msmcal-hwdep.h] *)

Module Sound_msmcal_hwdep.
Definition wcdcal_ioctl_buffer : cty :=
  Struct [("size", __u32); ("buffer", ptr); ("cal_type", enum)].
Definition sound_msmcal_hwdep_types : list (string * cty) := [("wcdcal_ioctl_buffer", wcdcal_ioctl_buffer)].
Definition sound_msmcal_hwdep_ioctls : list command := [
  _IOW "SNDRV_CTL_IOCTL_HWDEP_CAL_TYPE" (chr "U") 1 wcdcal_ioctl_buffer].
End Sound_msmcal_hwdep.

(** ** [sound/sb16_csp.h] *)

Module Sound_sb16_csp.
Definition SNDRV_SB_CSP_MAX_MICROCODE_FILE_SIZE : Z := 12288.
Definition structs_snd_sb_csp_mc_header : list (string * cty) :=
  let snd_sb_csp_mc_header := Struct [("codec_name", Arr 16 char); ("func_req", ushort)] in
  [
  ("snd_sb_csp_mc_header", snd_sb_csp_mc_header);
  ("snd_sb_csp_microcode", Struct [("info", snd_sb_csp_mc_header);
   ("data", Arr SNDRV_SB_CSP_MAX_MICROCODE_FILE_SIZE uchar)]);
  ("snd_sb_csp_start", Struct [("sample_width", int); ("channels", int)]);
  ("snd_sb_csp_info", Struct [("codec_name", Arr 16 char); ("func_nr", ushort);
   ("acc_format", uint); ("acc_channels", ushort); ("acc_width", ushort); ("acc_rates", ushort);
   ("csp_mode", ushort); ("run_channels", ushort); ("run_width", ushort); ("version", ushort);
   ("state", ushort)])].
Definition snd_sb_csp_start : cty := type_in structs_snd_sb_csp_mc_header "snd_sb_csp_start".
Definition snd_sb_csp_info : cty := type_in structs_snd_sb_csp_mc_header "snd_sb_csp_info".
Definition sound_sb16_csp_types : list (string * cty) := structs_snd_sb_csp_mc_header.
Definition sound_sb16_csp_ioctls_1 : list command := [
  _IOR "SNDRV_SB_CSP_IOCTL_INFO" (chr "H") 16 snd_sb_csp_info;
  _IOC_of "SNDRV_SB_CSP_IOCTL_LOAD_CODE" _IOC_WRITE (chr "H") 17
    (type_in structs_snd_sb_csp_mc_header "snd_sb_csp_microcode")].
Definition sound_sb16_csp_ioctls_2 : list command := [
  _IO "SNDRV_SB_CSP_IOCTL_UNLOAD_CODE" (chr "H") 18;
  _IOW "SNDRV_SB_CSP_IOCTL_START" (chr "H") 19 snd_sb_csp_start;
  _IO "SNDRV_SB_CSP_IOCTL_STOP" (chr "H") 20;
  _IO "SNDRV_SB_CSP_IOCTL_PAUSE" (chr "H") 21;
  _IO "SNDRV_SB_CSP_IOCTL_RESTART" (chr "H") 22].
Definition sound_sb16_csp_ioctls : list command :=
  (sound_sb16_csp_ioctls_1 ++ sound_sb16_csp_ioctls_2)%list.
End Sound_sb16_csp.

(** ** [sound/sfnt_info.h] *)

Module Sound_sfnt_info.
Definition SNDRV_SFNT_PATCH_NAME_LEN : Z := 32.
Definition soundfont_patch_info : cty :=
  Struct [("key", ushort); ("device_no", short); ("sf_id", ushort); ("optarg", short);
   ("len", int); ("type", short); ("reserved", short)].
Definition structs_soundfont_open_parm : list (string * cty) :=
  [
  ("soundfont_open_parm", Struct [("type", ushort); ("reserved", short);
   ("name", Arr SNDRV_SFNT_PATCH_NAME_LEN char)]);
  ("soundfont_voice_parm", Struct [("moddelay", ushort); ("modatkhld", ushort);
   ("moddcysus", ushort); ("modrelease", ushort); ("modkeyhold", short); ("modkeydecay", short);
   ("voldelay", ushort); ("volatkhld", ushort); ("voldcysus", ushort); ("volrelease", ushort);
   ("volkeyhold", short); ("volkeydecay", short); ("lfo1delay", ushort); ("lfo2delay", ushort);
   ("pefe", ushort); ("fmmod", ushort); ("tremfrq", ushort); ("fm2frq2", ushort);
   ("cutoff", uchar); ("filterQ", uchar); ("chorus", uchar); ("reverb", uchar);
   ("reserved", Arr 4 ushort)])].
Definition soundfont_voice_parm : cty := type_in structs_soundfont_open_parm "soundfont_voice_parm".
Definition soundfont_voice_info : cty :=
  Struct [("sf_id", ushort); ("sample", ushort); ("start", int); ("end", int);
   ("loopstart", int); ("loopend", int); ("rate_offset", short); ("mode", ushort);
   ("root", short); ("tune", short); ("low", uchar); ("high", uchar); ("vellow", uchar);
   ("velhigh", uchar); ("fixkey", schar); ("fixvel", schar); ("pan", schar); ("fixpan", schar);
   ("exclusiveClass", short); ("amplitude", uchar); ("attenuation", uchar);
   ("scaleTuning", short); ("parm", soundfont_voice_parm); ("sample_mode", ushort)].
Definition structs_soundfont_voice_rec_hdr : list (string * cty) :=
  [
  ("soundfont_voice_rec_hdr", Struct [("bank", uchar); ("instr", uchar); ("nvoices", char);
   ("write_mode", char)]);
  ("soundfont_sample_info", Struct [("sf_id", ushort); ("sample", ushort); ("start", int);
   ("end", int); ("loopstart", int); ("loopend", int); ("size", int); ("dummy", short);
   ("mode_flags", ushort); ("truesize", uint)]);
  ("soundfont_voice_map", Struct [("map_bank", int); ("map_instr", int); ("map_key", int);
   ("src_bank", int); ("src_instr", int); ("src_key", int)])].
Definition snd_emux_misc_mode : cty :=
  Struct [("port", int); ("mode", int); ("value", int); ("value2", int)].
Definition sound_sfnt_info_types : list (string * cty) :=
  ([("soundfont_patch_info", soundfont_patch_info)] ++ structs_soundfont_open_parm ++
   [("soundfont_voice_info", soundfont_voice_info)] ++ structs_soundfont_voice_rec_hdr ++
   [("snd_emux_misc_mode", snd_emux_misc_mode)])%list.
Definition sound_sfnt_info_ioctls : list command := [
  _IOR "SNDRV_EMUX_IOCTL_VERSION" (chr "H") 128 uint;
  _IOWR "SNDRV_EMUX_IOCTL_LOAD_PATCH" (chr "H") 129 soundfont_patch_info;
  _IO "SNDRV_EMUX_IOCTL_RESET_SAMPLES" (chr "H") 130;
  _IO "SNDRV_EMUX_IOCTL_REMOVE_LAST_SAMPLES" (chr "H") 131;
  _IOW "SNDRV_EMUX_IOCTL_MEM_AVAIL" (chr "H") 132 int;
  _IOWR "SNDRV_EMUX_IOCTL_MISC_MODE" (chr "H") 132 snd_emux_misc_mode].
End Sound_sfnt_info.

(** ** [sound/voice_params.h] *)

Module Sound_voice_params.
Definition sound_voice_params_ioctls : list command := [
  _IOW "SNDRV_VOICE_IOCTL_LCH" (chr "U") 0 enum].
End Sound_voice_params.

(** ** [sound/voice_svc.h] *)

Module Sound_voice_svc.
Definition MAX_APR_SERVICE_NAME_LEN : Z := 64.
Definition structs_voice_svc_write_msg : list (string * cty) :=
  [
  ("voice_svc_write_msg", Struct [("msg_type", __u32); ("payload", Arr 0 __u8)]);
  ("voice_svc_register", Struct [("svc_name", Arr MAX_APR_SERVICE_NAME_LEN char);
   ("src_port", __u32); ("reg_flag", __u8)]);
  ("voice_svc_cmd_response", Struct [("src_port", __u32); ("dest_port", __u32); ("token", __u32);
   ("opcode", __u32); ("payload_size", __u32); ("payload", Arr 0 __u8)]);
  ("voice_svc_cmd_request", Struct [("svc_name", Arr MAX_APR_SERVICE_NAME_LEN char);
   ("src_port", __u32); ("dest_port", __u32); ("token", __u32); ("opcode", __u32);
   ("payload_size", __u32); ("payload", Arr 0 __u8)])].
Definition sound_voice_svc_types : list (string * cty) := structs_voice_svc_write_msg.
End Sound_voice_svc.

(** ** [sound/wcd-dsp-glink.h] *)

Module Sound_wcd_dsp_glink.
Definition WDSP_CH_NAME_MAX_LEN : Z := 50.
Definition structs_wdsp_reg_pkt : list (string * cty) :=
  [
  ("wdsp_reg_pkt", Struct [("no_of_channels", __u8); ("payload", Arr 0 __u8)]);
  ("wdsp_cmd_pkt", Struct [("ch_name", Arr WDSP_CH_NAME_MAX_LEN char); ("payload_size", __u32);
   ("payload", Arr 0 __u8)]);
  ("wdsp_write_pkt", Struct [("pkt_type", __u8); ("payload", Arr 0 __u8)]);
  ("wdsp_glink_ch_cfg", Struct [("name", Arr WDSP_CH_NAME_MAX_LEN char);
   ("latency_in_us", __u32); ("no_of_intents", __u32); ("intents_size", Arr 0 __u32)])].
Definition sound_wcd_dsp_glink_types : list (string * cty) := structs_wdsp_reg_pkt.
End Sound_wcd_dsp_glink.
