(* ===== verification/AbiStorage.v ===== *)
(** * ABI of file systems and storage

    The structures and unions of these headers of [kernel-headers], one module per
    header: the larger ones as types of their own, those that stand in a row as a
    block; and the ioctl commands with their arguments. *)
From S2P Require Import Prelude.
From S2P Require Import CLayout.
From S2P Require Import Ioctl.
From S2P Require Import AbiBase.
#[local] Open Scope string_scope.

(** ** [linux/affs_hardblocks.h] *)

Module Affs_hardblocks.
Definition RigidDiskBlock : cty :=
  Struct [("rdb_ID", __u32); ("rdb_SummedLongs", __be32); ("rdb_ChkSum", __s32);
   ("rdb_HostID", __u32); ("rdb_BlockBytes", __be32); ("rdb_Flags", __u32);
   ("rdb_BadBlockList", __u32); ("rdb_PartitionList", __be32); ("rdb_FileSysHeaderList", __u32);
   ("rdb_DriveInit", __u32); ("rdb_Reserved1", Arr 6 __u32); ("rdb_Cylinders", __u32);
   ("rdb_Sectors", __u32); ("rdb_Heads", __u32); ("rdb_Interleave", __u32); ("rdb_Park", __u32);
   ("rdb_Reserved2", Arr 3 __u32); ("rdb_WritePreComp", __u32); ("rdb_ReducedWrite", __u32);
   ("rdb_StepRate", __u32); ("rdb_Reserved3", Arr 5 __u32); ("rdb_RDBBlocksLo", __u32);
   ("rdb_RDBBlocksHi", __u32); ("rdb_LoCylinder", __u32); ("rdb_HiCylinder", __u32);
   ("rdb_CylBlocks", __u32); ("rdb_AutoParkSeconds", __u32); ("rdb_HighRDSKBlock", __u32);
   ("rdb_Reserved4", __u32); ("rdb_DiskVendor", Arr 8 char); ("rdb_DiskProduct", Arr 16 char);
   ("rdb_DiskRevision", Arr 4 char); ("rdb_ControllerVendor", Arr 8 char);
   ("rdb_ControllerProduct", Arr 16 char); ("rdb_ControllerRevision", Arr 4 char);
   ("rdb_Reserved5", Arr 10 __u32)].
Definition PartitionBlock : cty :=
  Struct [("pb_ID", __be32); ("pb_SummedLongs", __be32); ("pb_ChkSum", __s32);
   ("pb_HostID", __u32); ("pb_Next", __be32); ("pb_Flags", __u32); ("pb_Reserved1", Arr 2 __u32);
   ("pb_DevFlags", __u32); ("pb_DriveName", Arr 32 __u8); ("pb_Reserved2", Arr 15 __u32);
   ("pb_Environment", Arr 17 __be32); ("pb_EReserved", Arr 15 __u32)].
Definition affs_hardblocks_types : list (string * cty) :=
  ([("RigidDiskBlock", RigidDiskBlock); ("PartitionBlock", PartitionBlock)])%list.
End Affs_hardblocks.

(** ** [linux/auto_fs.h] *)

Module Auto_fs.
Definition autofs_wqt_t : cty := uint.
Definition structs_autofs_packet_hdr : list (string * cty) :=
  let autofs_packet_hdr := Struct [("proto_version", int); ("type", int)] in
  [
  ("autofs_packet_hdr", autofs_packet_hdr);
  ("autofs_packet_missing", Struct [("hdr", autofs_packet_hdr);
   ("wait_queue_token", autofs_wqt_t); ("len", int); ("name", Arr 256 char)]);
  ("autofs_packet_expire", Struct [("hdr", autofs_packet_hdr); ("len", int);
   ("name", Arr 256 char)])].
Definition autofs_packet_hdr : cty := type_in structs_autofs_packet_hdr "autofs_packet_hdr".
Definition autofs_packet_missing : cty := type_in structs_autofs_packet_hdr "autofs_packet_missing".
Definition autofs_packet_expire : cty := type_in structs_autofs_packet_hdr "autofs_packet_expire".
Definition auto_fs_types : list (string * cty) :=
  ([("autofs_wqt_t", autofs_wqt_t)] ++ structs_autofs_packet_hdr)%list.
Definition auto_fs_ioctls : list command := [
  _IO "AUTOFS_IOC_READY" 0x93 96;
  _IO "AUTOFS_IOC_FAIL" 0x93 97;
  _IO "AUTOFS_IOC_CATATONIC" 0x93 98;
  _IOR "AUTOFS_IOC_PROTOVER" 0x93 99 int;
  _IOWR "AUTOFS_IOC_SETTIMEOUT" 0x93 100 ulong;
  _IOR "AUTOFS_IOC_EXPIRE" 0x93 101 autofs_packet_expire].
End Auto_fs.

(** ** [linux/auto_fs4.h] *)

Module Auto_fs4.
Definition structs_autofs_packet_expire_multi : list (string * cty) :=
  let autofs_packet_expire_multi := Struct [("hdr", Auto_fs.autofs_packet_hdr);
   ("wait_queue_token", Auto_fs.autofs_wqt_t); ("len", int); ("name", Arr 256 char)] in
  let autofs_v5_packet := Struct [("hdr", Auto_fs.autofs_packet_hdr);
   ("wait_queue_token", Auto_fs.autofs_wqt_t); ("dev", __u32); ("ino", __u64); ("uid", __u32);
   ("gid", __u32); ("pid", __u32); ("tgid", __u32); ("len", __u32); ("name", Arr 256 char)] in
  let autofs_packet_missing_indirect_t := autofs_v5_packet in
  let autofs_packet_expire_indirect_t := autofs_v5_packet in
  let autofs_packet_missing_direct_t := autofs_v5_packet in
  let autofs_packet_expire_direct_t := autofs_v5_packet in
  [
  ("autofs_packet_expire_multi", autofs_packet_expire_multi);
  ("autofs_packet_union", Union [("hdr", Auto_fs.autofs_packet_hdr);
   ("missing", Auto_fs.autofs_packet_missing); ("expire", Auto_fs.autofs_packet_expire);
   ("expire_multi", autofs_packet_expire_multi)]);
  ("autofs_v5_packet", autofs_v5_packet);
  ("autofs_packet_missing_indirect_t", autofs_packet_missing_indirect_t);
  ("autofs_packet_expire_indirect_t", autofs_packet_expire_indirect_t);
  ("autofs_packet_missing_direct_t", autofs_packet_missing_direct_t);
  ("autofs_packet_expire_direct_t", autofs_packet_expire_direct_t);
  ("autofs_v5_packet_union", Union [("hdr", Auto_fs.autofs_packet_hdr);
   ("v5_packet", autofs_v5_packet); ("missing_indirect", autofs_packet_missing_indirect_t);
   ("expire_indirect", autofs_packet_expire_indirect_t);
   ("missing_direct", autofs_packet_missing_direct_t);
   ("expire_direct", autofs_packet_expire_direct_t)])].
Definition auto_fs4_types : list (string * cty) := structs_autofs_packet_expire_multi.
Definition auto_fs4_ioctls : list command := [
  _IOW "AUTOFS_IOC_EXPIRE_MULTI" 0x93 102 int;
  _IOR "AUTOFS_IOC_PROTOSUBVER" 0x93 103 int;
  _IOR "AUTOFS_IOC_ASKUMOUNT" 0x93 112 int].
End Auto_fs4.

(** ** [linux/bfs_fs.h] *)

Module Bfs_fs.
Definition BFS_NAMELEN : Z := 14.
Definition bfs_inode : cty :=
  Struct [("i_ino", __le16); ("i_unused", __u16); ("i_sblock", __le32); ("i_eblock", __le32);
   ("i_eoffset", __le32); ("i_vtype", __le32); ("i_mode", __le32); ("i_uid", __le32);
   ("i_gid", __le32); ("i_nlink", __le32); ("i_atime", __le32); ("i_mtime", __le32);
   ("i_ctime", __le32); ("i_padding", Arr 4 __u32)].
Definition structs_bfs_dirent : list (string * cty) :=
  [
  ("bfs_dirent", Struct [("ino", __le16); ("name", Arr BFS_NAMELEN char)]);
  ("bfs_super_block", Struct [("s_magic", __le32); ("s_start", __le32); ("s_end", __le32);
   ("s_from", __le32); ("s_to", __le32); ("s_bfrom", __s32); ("s_bto", __s32);
   ("s_fsname", Arr 6 char); ("s_volume", Arr 6 char); ("s_padding", Arr 118 __u32)])].
Definition bfs_fs_types : list (string * cty) :=
  ([("bfs_inode", bfs_inode)] ++ structs_bfs_dirent)%list.
End Bfs_fs.

(** ** [linux/blkpg.h] *)

Module Blkpg.
Definition BLKPG_DEVNAMELTH : Z := 64.
Definition BLKPG_VOLNAMELTH : Z := 64.
Definition blkpg_ioctl_arg : cty :=
  Struct [("op", int); ("flags", int); ("datalen", int); ("data", ptr)].
Definition blkpg_partition : cty :=
  Struct [("start", llong); ("length", llong); ("pno", int);
   ("devname", Arr BLKPG_DEVNAMELTH char); ("volname", Arr BLKPG_VOLNAMELTH char)].
Definition blkpg_types : list (string * cty) :=
  ([("blkpg_ioctl_arg", blkpg_ioctl_arg); ("blkpg_partition", blkpg_partition)])%list.
Definition blkpg_ioctls : list command := [
  _IO "BLKPG" 0x12 105].
End Blkpg.

(** ** [linux/btrfs.h] *)

Module Btrfs.
Definition BTRFS_DEVICE_PATH_NAME_MAX : Z := 1024.
Definition BTRFS_FSID_SIZE : Z := 16.
Definition BTRFS_UUID_SIZE : Z := 16.
Definition BTRFS_INO_LOOKUP_PATH_MAX : Z := 4080.
Definition BTRFS_SEARCH_ARGS_BUFSIZE : Z := 3992.
Definition btrfs_ioctl_vol_args : cty := Struct [("fd", __s64); ("name", Arr 4088 char)].
Definition structs_btrfs_qgroup_limit : list (string * cty) :=
  let btrfs_qgroup_limit := Struct [("flags", __u64); ("max_rfer", __u64); ("max_excl", __u64);
   ("rsv_rfer", __u64); ("rsv_excl", __u64)] in
  [
  ("btrfs_qgroup_limit", btrfs_qgroup_limit);
  ("btrfs_qgroup_inherit", Struct [("flags", __u64); ("num_qgroups", __u64);
   ("num_ref_copies", __u64); ("num_excl_copies", __u64); ("lim", btrfs_qgroup_limit);
   ("qgroups", Arr 0 __u64)]);
  ("btrfs_ioctl_qgroup_limit_args", Struct [("qgroupid", __u64); ("lim", btrfs_qgroup_limit)])].
Definition btrfs_ioctl_qgroup_limit_args : cty := type_in structs_btrfs_qgroup_limit "btrfs_ioctl_qgroup_limit_args".
Definition btrfs_ioctl_vol_args_v2 : cty :=
  Struct [("fd", __s64); ("transid", __u64); ("flags", __u64);
   ("", Union [("", Struct [("size", __u64); ("qgroup_inherit", ptr)]);
   ("unused", Arr 4 __u64)]); ("name", Arr 4040 char)].
Definition btrfs_scrub_progress : cty :=
  Struct [("data_extents_scrubbed", __u64); ("tree_extents_scrubbed", __u64);
   ("data_bytes_scrubbed", __u64); ("tree_bytes_scrubbed", __u64); ("read_errors", __u64);
   ("csum_errors", __u64); ("verify_errors", __u64); ("no_csum", __u64);
   ("csum_discards", __u64); ("super_errors", __u64); ("malloc_errors", __u64);
   ("uncorrectable_errors", __u64); ("corrected_errors", __u64); ("last_physical", __u64);
   ("unverified_errors", __u64)].
Definition btrfs_ioctl_scrub_args : cty :=
  Struct [("devid", __u64); ("start", __u64); ("end", __u64); ("flags", __u64);
   ("progress", btrfs_scrub_progress);
   ("unused", Arr (( 1024 - 32 - sizeof lp64 btrfs_scrub_progress ) / 8) __u64)].
Definition btrfs_ioctl_dev_replace_start_params : cty :=
  Struct [("srcdevid", __u64); ("cont_reading_from_srcdev_mode", __u64);
   ("srcdev_name", Arr 1025 __u8); ("tgtdev_name", Arr 1025 __u8)].
Definition btrfs_ioctl_dev_replace_status_params : cty :=
  Struct [("replace_state", __u64); ("progress_1000", __u64); ("time_started", __u64);
   ("time_stopped", __u64); ("num_write_errors", __u64);
   ("num_uncorrectable_read_errors", __u64)].
Definition structs_btrfs_ioctl_dev_replace_args : list (string * cty) :=
  [
  ("btrfs_ioctl_dev_replace_args", Struct [("cmd", __u64); ("result", __u64);
   ("", Union [("start", btrfs_ioctl_dev_replace_start_params);
   ("status", btrfs_ioctl_dev_replace_status_params)]); ("spare", Arr 64 __u64)]);
  ("btrfs_ioctl_dev_info_args", Struct [("devid", __u64); ("uuid", Arr BTRFS_UUID_SIZE __u8);
   ("bytes_used", __u64); ("total_bytes", __u64); ("unused", Arr 379 __u64);
   ("path", Arr BTRFS_DEVICE_PATH_NAME_MAX __u8)]);
  ("btrfs_ioctl_fs_info_args", Struct [("max_id", __u64); ("num_devices", __u64);
   ("fsid", Arr BTRFS_FSID_SIZE __u8); ("nodesize", __u32); ("sectorsize", __u32);
   ("clone_alignment", __u32); ("reserved32", __u32); ("reserved", Arr 122 __u64)]);
  ("btrfs_ioctl_feature_flags", Struct [("compat_flags", __u64); ("compat_ro_flags", __u64);
   ("incompat_flags", __u64)])].
Definition btrfs_ioctl_dev_replace_args : cty := type_in structs_btrfs_ioctl_dev_replace_args "btrfs_ioctl_dev_replace_args".
Definition btrfs_ioctl_dev_info_args : cty := type_in structs_btrfs_ioctl_dev_replace_args "btrfs_ioctl_dev_info_args".
Definition btrfs_ioctl_fs_info_args : cty := type_in structs_btrfs_ioctl_dev_replace_args "btrfs_ioctl_fs_info_args".
Definition btrfs_ioctl_feature_flags : cty := type_in structs_btrfs_ioctl_dev_replace_args "btrfs_ioctl_feature_flags".
Definition btrfs_balance_args : cty :=
  Packed [("profiles", __u64); ("", Union [("usage", __le64); ("", Struct [("usage_min", __le32);
   ("usage_max", __le32)])]); ("devid", __u64); ("pstart", __u64); ("pend", __u64);
   ("vstart", __u64); ("vend", __u64); ("target", __u64); ("flags", __u64);
   ("", Union [("limit", __u64); ("", Struct [("limit_min", __u32); ("limit_max", __u32)])]);
   ("stripes_min", __le32); ("stripes_max", __le32); ("unused", Arr 6 __u64)].
Definition btrfs_balance_progress : cty :=
  Struct [("expected", __u64); ("considered", __u64); ("completed", __u64)].
Definition btrfs_ioctl_balance_args : cty :=
  Struct [("flags", __u64); ("state", __u64); ("data", btrfs_balance_args);
   ("meta", btrfs_balance_args); ("sys", btrfs_balance_args); ("stat", btrfs_balance_progress);
   ("unused", Arr 72 __u64)].
Definition btrfs_ioctl_ino_lookup_args : cty :=
  Struct [("treeid", __u64); ("objectid", __u64); ("name", Arr BTRFS_INO_LOOKUP_PATH_MAX char)].
Definition btrfs_ioctl_search_key : cty :=
  Struct [("tree_id", __u64); ("min_objectid", __u64); ("max_objectid", __u64);
   ("min_offset", __u64); ("max_offset", __u64); ("min_transid", __u64); ("max_transid", __u64);
   ("min_type", __u32); ("max_type", __u32); ("nr_items", __u32); ("unused", __u32);
   ("unused1", __u64); ("unused2", __u64); ("unused3", __u64); ("unused4", __u64)].
Definition btrfs_ioctl_search_header : cty :=
  Struct [("transid", __u64); ("objectid", __u64); ("offset", __u64); ("type", __u32);
   ("len", __u32)].
Definition structs_btrfs_ioctl_search_args : list (string * cty) :=
  [
  ("btrfs_ioctl_search_args", Struct [("key", btrfs_ioctl_search_key);
   ("buf", Arr BTRFS_SEARCH_ARGS_BUFSIZE char)]);
  ("btrfs_ioctl_search_args_v2", Struct [("key", btrfs_ioctl_search_key); ("buf_size", __u64);
   ("buf", Arr 0 __u64)]);
  ("btrfs_ioctl_clone_range_args", Struct [("src_fd", __s64); ("src_offset", __u64);
   ("src_length", __u64); ("dest_offset", __u64)])].
Definition btrfs_ioctl_search_args : cty := type_in structs_btrfs_ioctl_search_args "btrfs_ioctl_search_args".
Definition btrfs_ioctl_search_args_v2 : cty := type_in structs_btrfs_ioctl_search_args "btrfs_ioctl_search_args_v2".
Definition btrfs_ioctl_clone_range_args : cty := type_in structs_btrfs_ioctl_search_args "btrfs_ioctl_clone_range_args".
Definition structs_btrfs_ioctl_same_extent_info : list (string * cty) :=
  let btrfs_ioctl_same_extent_info := Struct [("fd", __s64); ("logical_offset", __u64);
   ("bytes_deduped", __u64); ("status", __s32); ("reserved", __u32)] in
  let btrfs_ioctl_space_info := Struct [("flags", __u64); ("total_bytes", __u64);
   ("used_bytes", __u64)] in
  [
  ("btrfs_ioctl_same_extent_info", btrfs_ioctl_same_extent_info);
  ("btrfs_ioctl_same_args", Struct [("logical_offset", __u64); ("length", __u64);
   ("dest_count", __u16); ("reserved1", __u16); ("reserved2", __u32);
   ("info", Arr 0 btrfs_ioctl_same_extent_info)]);
  ("btrfs_ioctl_space_info", btrfs_ioctl_space_info);
  ("btrfs_ioctl_space_args", Struct [("space_slots", __u64); ("total_spaces", __u64);
   ("spaces", Arr 0 btrfs_ioctl_space_info)]);
  ("btrfs_data_container", Struct [("bytes_left", __u32); ("bytes_missing", __u32);
   ("elem_cnt", __u32); ("elem_missed", __u32); ("val", Arr 0 __u64)]);
  ("btrfs_ioctl_ino_path_args", Struct [("inum", __u64); ("size", __u64);
   ("reserved", Arr 4 __u64); ("fspath", __u64)]);
  ("btrfs_ioctl_logical_ino_args", Struct [("logical", __u64); ("size", __u64);
   ("reserved", Arr 4 __u64); ("inodes", __u64)])].
Definition btrfs_ioctl_same_args : cty := type_in structs_btrfs_ioctl_same_extent_info "btrfs_ioctl_same_args".
Definition btrfs_ioctl_space_args : cty := type_in structs_btrfs_ioctl_same_extent_info "btrfs_ioctl_space_args".
Definition btrfs_ioctl_ino_path_args : cty := type_in structs_btrfs_ioctl_same_extent_info "btrfs_ioctl_ino_path_args".
Definition btrfs_ioctl_get_dev_stats : cty :=
  Struct [("devid", __u64); ("nr_items", __u64); ("flags", __u64); ("values", Arr 5 __u64);
   ("unused", Arr 121 __u64)].
Definition structs_btrfs_ioctl_quota_ctl_args : list (string * cty) :=
  let btrfs_ioctl_timespec := Struct [("sec", __u64); ("nsec", __u32)] in
  [
  ("btrfs_ioctl_quota_ctl_args", Struct [("cmd", __u64); ("status", __u64)]);
  ("btrfs_ioctl_quota_rescan_args", Struct [("flags", __u64); ("progress", __u64);
   ("reserved", Arr 6 __u64)]);
  ("btrfs_ioctl_qgroup_assign_args", Struct [("assign", __u64); ("src", __u64); ("dst", __u64)]);
  ("btrfs_ioctl_qgroup_create_args", Struct [("create", __u64); ("qgroupid", __u64)]);
  ("btrfs_ioctl_timespec", btrfs_ioctl_timespec);
  ("btrfs_ioctl_received_subvol_args", Struct [("uuid", Arr BTRFS_UUID_SIZE char);
   ("stransid", __u64); ("rtransid", __u64); ("stime", btrfs_ioctl_timespec);
   ("rtime", btrfs_ioctl_timespec); ("flags", __u64); ("reserved", Arr 16 __u64)])].
Definition btrfs_ioctl_quota_ctl_args : cty := type_in structs_btrfs_ioctl_quota_ctl_args "btrfs_ioctl_quota_ctl_args".
Definition btrfs_ioctl_quota_rescan_args : cty := type_in structs_btrfs_ioctl_quota_ctl_args "btrfs_ioctl_quota_rescan_args".
Definition btrfs_ioctl_qgroup_assign_args : cty := type_in structs_btrfs_ioctl_quota_ctl_args "btrfs_ioctl_qgroup_assign_args".
Definition btrfs_ioctl_qgroup_create_args : cty := type_in structs_btrfs_ioctl_quota_ctl_args "btrfs_ioctl_qgroup_create_args".
Definition btrfs_ioctl_received_subvol_args : cty := type_in structs_btrfs_ioctl_quota_ctl_args "btrfs_ioctl_received_subvol_args".
Definition btrfs_ioctl_send_args : cty :=
  Struct [("send_fd", __s64); ("clone_sources_count", __u64); ("clone_sources", ptr);
   ("parent_root", __u64); ("flags", __u64); ("reserved", Arr 4 __u64)].
Definition btrfs_types : list (string * cty) :=
  ([("btrfs_ioctl_vol_args", btrfs_ioctl_vol_args)] ++ structs_btrfs_qgroup_limit ++
   [("btrfs_ioctl_vol_args_v2", btrfs_ioctl_vol_args_v2); ("btrfs_scrub_progress",
   btrfs_scrub_progress); ("btrfs_ioctl_scrub_args", btrfs_ioctl_scrub_args);
   ("btrfs_ioctl_dev_replace_start_params", btrfs_ioctl_dev_replace_start_params);
   ("btrfs_ioctl_dev_replace_status_params", btrfs_ioctl_dev_replace_status_params)] ++
   structs_btrfs_ioctl_dev_replace_args ++ [("btrfs_balance_args", btrfs_balance_args);
   ("btrfs_balance_progress", btrfs_balance_progress); ("btrfs_ioctl_balance_args",
   btrfs_ioctl_balance_args); ("btrfs_ioctl_ino_lookup_args", btrfs_ioctl_ino_lookup_args);
   ("btrfs_ioctl_search_key", btrfs_ioctl_search_key); ("btrfs_ioctl_search_header",
   btrfs_ioctl_search_header)] ++ structs_btrfs_ioctl_search_args ++
   structs_btrfs_ioctl_same_extent_info ++ [("btrfs_ioctl_get_dev_stats",
   btrfs_ioctl_get_dev_stats)] ++ structs_btrfs_ioctl_quota_ctl_args ++
   [("btrfs_ioctl_send_args", btrfs_ioctl_send_args)])%list.
Definition btrfs_ioctls : list command := [
  _IOW "BTRFS_IOC_SNAP_CREATE" 0x94 1 btrfs_ioctl_vol_args;
  _IOW "BTRFS_IOC_DEFRAG" 0x94 2 btrfs_ioctl_vol_args;
  _IOW "BTRFS_IOC_RESIZE" 0x94 3 btrfs_ioctl_vol_args;
  _IOW "BTRFS_IOC_SCAN_DEV" 0x94 4 btrfs_ioctl_vol_args;
  _IO "BTRFS_IOC_TRANS_START" 0x94 6;
  _IO "BTRFS_IOC_TRANS_END" 0x94 7;
  _IO "BTRFS_IOC_SYNC" 0x94 8;
  _IOW "BTRFS_IOC_CLONE" 0x94 9 int;
  _IOW "BTRFS_IOC_ADD_DEV" 0x94 10 btrfs_ioctl_vol_args;
  _IOW "BTRFS_IOC_RM_DEV" 0x94 11 btrfs_ioctl_vol_args;
  _IOW "BTRFS_IOC_BALANCE" 0x94 12 btrfs_ioctl_vol_args;
  _IOW "BTRFS_IOC_CLONE_RANGE" 0x94 13 btrfs_ioctl_clone_range_args;
  _IOW "BTRFS_IOC_SUBVOL_CREATE" 0x94 14 btrfs_ioctl_vol_args;
  _IOW "BTRFS_IOC_SNAP_DESTROY" 0x94 15 btrfs_ioctl_vol_args;
  _IOWR "BTRFS_IOC_TREE_SEARCH" 0x94 17 btrfs_ioctl_search_args;
  _IOWR "BTRFS_IOC_TREE_SEARCH_V2" 0x94 17 btrfs_ioctl_search_args_v2;
  _IOWR "BTRFS_IOC_INO_LOOKUP" 0x94 18 btrfs_ioctl_ino_lookup_args;
  _IOW "BTRFS_IOC_DEFAULT_SUBVOL" 0x94 19 __u64;
  _IOWR "BTRFS_IOC_SPACE_INFO" 0x94 20 btrfs_ioctl_space_args;
  _IOR "BTRFS_IOC_START_SYNC" 0x94 24 __u64;
  _IOW "BTRFS_IOC_WAIT_SYNC" 0x94 22 __u64;
  _IOW "BTRFS_IOC_SNAP_CREATE_V2" 0x94 23 btrfs_ioctl_vol_args_v2;
  _IOW "BTRFS_IOC_SUBVOL_CREATE_V2" 0x94 24 btrfs_ioctl_vol_args_v2;
  _IOR "BTRFS_IOC_SUBVOL_GETFLAGS" 0x94 25 __u64;
  _IOW "BTRFS_IOC_SUBVOL_SETFLAGS" 0x94 26 __u64;
  _IOWR "BTRFS_IOC_SCRUB" 0x94 27 btrfs_ioctl_scrub_args;
  _IO "BTRFS_IOC_SCRUB_CANCEL" 0x94 28;
  _IOWR "BTRFS_IOC_SCRUB_PROGRESS" 0x94 29 btrfs_ioctl_scrub_args;
  _IOWR "BTRFS_IOC_DEV_INFO" 0x94 30 btrfs_ioctl_dev_info_args;
  _IOR "BTRFS_IOC_FS_INFO" 0x94 31 btrfs_ioctl_fs_info_args;
  _IOWR "BTRFS_IOC_BALANCE_V2" 0x94 32 btrfs_ioctl_balance_args;
  _IOW "BTRFS_IOC_BALANCE_CTL" 0x94 33 int;
  _IOR "BTRFS_IOC_BALANCE_PROGRESS" 0x94 34 btrfs_ioctl_balance_args;
  _IOWR "BTRFS_IOC_INO_PATHS" 0x94 35 btrfs_ioctl_ino_path_args;
  _IOWR "BTRFS_IOC_LOGICAL_INO" 0x94 36 btrfs_ioctl_ino_path_args;
  _IOWR "BTRFS_IOC_SET_RECEIVED_SUBVOL" 0x94 37 btrfs_ioctl_received_subvol_args;
  _IOW "BTRFS_IOC_SEND" 0x94 38 btrfs_ioctl_send_args;
  _IOR "BTRFS_IOC_DEVICES_READY" 0x94 39 btrfs_ioctl_vol_args;
  _IOWR "BTRFS_IOC_QUOTA_CTL" 0x94 40 btrfs_ioctl_quota_ctl_args;
  _IOW "BTRFS_IOC_QGROUP_ASSIGN" 0x94 41 btrfs_ioctl_qgroup_assign_args;
  _IOW "BTRFS_IOC_QGROUP_CREATE" 0x94 42 btrfs_ioctl_qgroup_create_args;
  _IOR "BTRFS_IOC_QGROUP_LIMIT" 0x94 43 btrfs_ioctl_qgroup_limit_args;
  _IOW "BTRFS_IOC_QUOTA_RESCAN" 0x94 44 btrfs_ioctl_quota_rescan_args;
  _IOR "BTRFS_IOC_QUOTA_RESCAN_STATUS" 0x94 45 btrfs_ioctl_quota_rescan_args;
  _IO "BTRFS_IOC_QUOTA_RESCAN_WAIT" 0x94 46;
  _IOWR "BTRFS_IOC_GET_DEV_STATS" 0x94 52 btrfs_ioctl_get_dev_stats;
  _IOWR "BTRFS_IOC_DEV_REPLACE" 0x94 53 btrfs_ioctl_dev_replace_args;
  _IOWR "BTRFS_IOC_FILE_EXTENT_SAME" 0x94 54 btrfs_ioctl_same_args;
  _IOR "BTRFS_IOC_GET_FEATURES" 0x94 57 btrfs_ioctl_feature_flags;
  _IOW "BTRFS_IOC_SET_FEATURES" 0x94 57 (Arr 2 btrfs_ioctl_feature_flags);
  _IOR "BTRFS_IOC_GET_SUPPORTED_FEATURES" 0x94 57 (Arr 3 btrfs_ioctl_feature_flags)].
End Btrfs.

(** ** [linux/cciss_defs.h] *)

(** Declared under [#pragma pack(1)]. Bit-fields that share a unit are one member. *)
Module Cciss_defs.
Definition structs_SCSI3Addr_struct : list (string * cty) :=
  let SCSI3Addr_struct := Union [("PeripDev", Packed [("Dev", __u8); ("Bus:6,Mode:2", __u8)]);
   ("LogDev", Packed [("DevLSB", __u8); ("DevMSB:6,Mode:2", __u8)]);
   ("LogUnit", Packed [("Dev:5,Bus:3", __u8); ("Targ:6,Mode:2", __u8)])] in
  let PhysDevAddr_struct := Packed [("TargetId:24,Bus:6,Mode:2", __u32);
   ("Target", Arr 2 SCSI3Addr_struct)] in
  let LogDevAddr_struct := Packed [("VolId:30,Mode:2", __u32); ("reserved", Arr 4 __u8)] in
  [
  ("SCSI3Addr_struct", SCSI3Addr_struct);
  ("PhysDevAddr_struct", PhysDevAddr_struct);
  ("LogDevAddr_struct", LogDevAddr_struct);
  ("LUNAddr_struct", Union [("LunAddrBytes", Arr 8 __u8); ("SCSI3Lun", Arr 4 SCSI3Addr_struct);
   ("PhysDev", PhysDevAddr_struct); ("LogDev", LogDevAddr_struct)])].
Definition LUNAddr_struct : cty := type_in structs_SCSI3Addr_struct "LUNAddr_struct".
Definition RequestBlock_struct : cty :=
  Packed [("CDBLen", __u8); ("Type", Packed [("Type:3,Attribute:3,Direction:2", __u8)]);
   ("Timeout", __u16); ("CDB", Arr 16 __u8)].
Definition structs_MoreErrInfo_struct : list (string * cty) :=
  let MoreErrInfo_struct := Union [("Common_Info", Packed [("Reserved", Arr 3 __u8);
   ("Type", __u8); ("ErrorInfo", __u32)]); ("Invalid_Cmd", Packed [("Reserved", Arr 2 __u8);
   ("offense_size", __u8); ("offense_num", __u8); ("offense_value", __u32)])] in
  [
  ("MoreErrInfo_struct", MoreErrInfo_struct);
  ("ErrorInfo_struct", Packed [("ScsiStatus", __u8); ("SenseLen", __u8); ("CommandStatus", __u16);
   ("ResidualCnt", __u32); ("MoreErrInfo", MoreErrInfo_struct); ("SenseInfo", Arr 32 __u8)])].
Definition ErrorInfo_struct : cty := type_in structs_MoreErrInfo_struct "ErrorInfo_struct".
Definition cciss_defs_types : list (string * cty) :=
  (structs_SCSI3Addr_struct ++ [("RequestBlock_struct", RequestBlock_struct)] ++
   structs_MoreErrInfo_struct)%list.
End Cciss_defs.

(** ** [linux/cciss_ioctl.h] *)

Module Cciss_ioctl.
Definition _cciss_pci_info_struct : cty :=
  Struct [("bus", uchar); ("dev_fn", uchar); ("domain", ushort); ("board_id", __u32)].
Definition structs_cciss_pci_info_struct : list (string * cty) :=
  [
  ("cciss_pci_info_struct", _cciss_pci_info_struct);
  ("_cciss_coalint_struct", Struct [("delay", __u32); ("count", __u32)])].
Definition cciss_pci_info_struct : cty := type_in structs_cciss_pci_info_struct "cciss_pci_info_struct".
Definition _cciss_coalint_struct : cty := type_in structs_cciss_pci_info_struct "_cciss_coalint_struct".
Definition structs_cciss_coalint_struct : list (string * cty) :=
  [
  ("cciss_coalint_struct", _cciss_coalint_struct);
  ("NodeName_type", Arr 16 char);
  ("Heartbeat_type", __u32)].
Definition cciss_coalint_struct : cty := type_in structs_cciss_coalint_struct "cciss_coalint_struct".
Definition NodeName_type : cty := type_in structs_cciss_coalint_struct "NodeName_type".
Definition Heartbeat_type : cty := type_in structs_cciss_coalint_struct "Heartbeat_type".
Definition structs_BusTypes_type : list (string * cty) :=
  [
  ("BusTypes_type", __u32);
  ("FirmwareVer_type", Arr 4 char);
  ("DriverVer_type", __u32)].
Definition BusTypes_type : cty := type_in structs_BusTypes_type "BusTypes_type".
Definition FirmwareVer_type : cty := type_in structs_BusTypes_type "FirmwareVer_type".
Definition DriverVer_type : cty := type_in structs_BusTypes_type "DriverVer_type".
Definition _LogvolInfo_struct : cty :=
  Struct [("LunID", __u32); ("num_opens", int); ("num_parts", int)].
Definition LogvolInfo_struct : cty := _LogvolInfo_struct.
Definition IOCTL_Command_struct : cty :=
  Struct [("LUN_info", Cciss_defs.LUNAddr_struct); ("Request", Cciss_defs.RequestBlock_struct);
   ("error_info", Cciss_defs.ErrorInfo_struct); ("buf_size", __u16); ("buf", ptr)].
Definition BIG_IOCTL_Command_struct : cty :=
  Struct [("LUN_info", Cciss_defs.LUNAddr_struct); ("Request", Cciss_defs.RequestBlock_struct);
   ("error_info", Cciss_defs.ErrorInfo_struct); ("malloc_size", __u32); ("buf_size", __u32);
   ("buf", ptr)].
Definition cciss_ioctl_types : list (string * cty) :=
  ([("_cciss_pci_info_struct", _cciss_pci_info_struct)] ++ structs_cciss_pci_info_struct ++
   structs_cciss_coalint_struct ++ structs_BusTypes_type ++ [("_LogvolInfo_struct",
   _LogvolInfo_struct); ("LogvolInfo_struct", LogvolInfo_struct)] ++
   [("IOCTL_Command_struct", IOCTL_Command_struct); ("BIG_IOCTL_Command_struct", BIG_IOCTL_Command_struct)])%list.
Definition cciss_ioctl_ioctls : list command := [
  _IOR "CCISS_GETPCIINFO" (chr "B") 1 cciss_pci_info_struct;
  _IOR "CCISS_GETINTINFO" (chr "B") 2 cciss_coalint_struct;
  _IOW "CCISS_SETINTINFO" (chr "B") 3 cciss_coalint_struct;
  _IOR "CCISS_GETNODENAME" (chr "B") 4 NodeName_type;
  _IOW "CCISS_SETNODENAME" (chr "B") 5 NodeName_type;
  _IOR "CCISS_GETHEARTBEAT" (chr "B") 6 Heartbeat_type;
  _IOR "CCISS_GETBUSTYPES" (chr "B") 7 BusTypes_type;
  _IOR "CCISS_GETFIRMVER" (chr "B") 8 FirmwareVer_type;
  _IOR "CCISS_GETDRIVVER" (chr "B") 9 DriverVer_type;
  _IO "CCISS_REVALIDVOLS" (chr "B") 10;
  _IOWR "CCISS_PASSTHRU" (chr "B") 11 IOCTL_Command_struct;
  _IO "CCISS_DEREGDISK" (chr "B") 12;
  _IOW "CCISS_REGNEWDISK" (chr "B") 13 int;
  _IO "CCISS_REGNEWD" (chr "B") 14;
  _IO "CCISS_RESCANDISK" (chr "B") 16;
  _IOR "CCISS_GETLUNINFO" (chr "B") 17 LogvolInfo_struct;
  _IOWR "CCISS_BIG_PASSTHRU" (chr "B") 18 BIG_IOCTL_Command_struct].
End Cciss_ioctl.

(** ** [linux/cdrom.h] *)

Module Cdrom.
Definition CDROM_PACKET_SIZE : Z := 12.
Definition structs_cdrom_msf0 : list (string * cty) :=
  let cdrom_msf0 := Struct [("minute", __u8); ("second", __u8); ("frame", __u8)] in
  [
  ("cdrom_msf0", cdrom_msf0);
  ("cdrom_addr", Union [("msf", cdrom_msf0); ("lba", int)]);
  ("cdrom_msf", Struct [("cdmsf_min0", __u8); ("cdmsf_sec0", __u8); ("cdmsf_frame0", __u8);
   ("cdmsf_min1", __u8); ("cdmsf_sec1", __u8); ("cdmsf_frame1", __u8)]);
  ("cdrom_ti", Struct [("cdti_trk0", __u8); ("cdti_ind0", __u8); ("cdti_trk1", __u8);
   ("cdti_ind1", __u8)]);
  ("cdrom_tochdr", Struct [("cdth_trk0", __u8); ("cdth_trk1", __u8)]);
  ("cdrom_volctrl", Struct [("channel0", __u8); ("channel1", __u8); ("channel2", __u8);
   ("channel3", __u8)])].
Definition cdrom_addr : cty := type_in structs_cdrom_msf0 "cdrom_addr".
Definition structs_cdrom_read : list (string * cty) :=
  [
  ("cdrom_read", Struct [("cdread_lba", int); ("cdread_bufaddr", ptr); ("cdread_buflen", int)]);
  ("cdrom_read_audio", Struct [("addr", cdrom_addr); ("addr_format", __u8); ("nframes", int);
   ("buf", ptr)]);
  ("cdrom_multisession", Struct [("addr", cdrom_addr); ("xa_flag", __u8); ("addr_format", __u8)]);
  ("cdrom_mcn", Struct [("medium_catalog_number", Arr 14 __u8)]);
  ("cdrom_blk", Struct [("from", uint); ("len", ushort)])].
Definition cdrom_generic_command : cty :=
  Struct [("cmd", Arr CDROM_PACKET_SIZE uchar); ("buffer", ptr); ("buflen", uint); ("stat", int);
   ("sense", ptr); ("data_direction", uchar); ("quiet", int); ("timeout", int);
   ("reserved", Arr 1 ptr)].
Definition dvd_copyright : cty :=
  Struct [("type", __u8); ("layer_num", __u8); ("cpst", __u8); ("rmi", __u8)].
Definition structs_dvd_bca : list (string * cty) :=
  [
  ("dvd_bca", Struct [("type", __u8); ("len", int); ("value", Arr 188 __u8)]);
  ("dvd_manufact", Struct [("type", __u8); ("layer_num", __u8); ("len", int);
   ("value", Arr 2048 __u8)])].
Definition structs_dvd_key : list (string * cty) :=
  [
  ("dvd_key", Arr 5 __u8);
  ("dvd_challenge", Arr 10 __u8)].
Definition dvd_host_send_rpcstate : cty := Struct [("type", __u8); ("pdrc", __u8)].
Definition structs_feature_header : list (string * cty) :=
  [
  ("feature_header", Struct [("data_len", __u32); ("reserved1", __u8); ("reserved2", __u8);
   ("curr_profile", __u16)]);
  ("mode_page_header", Struct [("mode_data_length", __be16); ("medium_type", __u8);
   ("reserved1", __u8); ("reserved2", __u8); ("reserved3", __u8); ("desc_length", __be16)])].
Definition cdrom_types : list (string * cty) :=
  (structs_cdrom_msf0 ++ structs_cdrom_read ++ [("cdrom_generic_command",
   cdrom_generic_command); ("dvd_copyright", dvd_copyright)] ++ structs_dvd_bca ++
   structs_dvd_key ++ [("dvd_host_send_rpcstate", dvd_host_send_rpcstate)] ++
   structs_feature_header)%list.
End Cdrom.

(** ** [linux/chio.h] *)

Module Chio.
Definition structs_changer_params : list (string * cty) :=
  [
  ("changer_params", Struct [("cp_curpicker", int); ("cp_npickers", int); ("cp_nslots", int);
   ("cp_nportals", int); ("cp_ndrives", int)]);
  ("changer_vendor_params", Struct [("cvp_n1", int); ("cvp_label1", Arr 16 char);
   ("cvp_n2", int); ("cvp_label2", Arr 16 char); ("cvp_n3", int); ("cvp_label3", Arr 16 char);
   ("cvp_n4", int); ("cvp_label4", Arr 16 char); ("reserved", Arr 8 int)]);
  ("changer_move", Struct [("cm_fromtype", int); ("cm_fromunit", int); ("cm_totype", int);
   ("cm_tounit", int); ("cm_flags", int)])].
Definition changer_params : cty := type_in structs_changer_params "changer_params".
Definition changer_vendor_params : cty := type_in structs_changer_params "changer_vendor_params".
Definition changer_move : cty := type_in structs_changer_params "changer_move".
Definition changer_exchange : cty :=
  Struct [("ce_srctype", int); ("ce_srcunit", int); ("ce_fdsttype", int); ("ce_fdstunit", int);
   ("ce_sdsttype", int); ("ce_sdstunit", int); ("ce_flags", int)].
Definition changer_position : cty :=
  Struct [("cp_type", int); ("cp_unit", int); ("cp_flags", int)].
Definition changer_element_status : cty := Struct [("ces_type", int); ("ces_data", ptr)].
Definition changer_get_element : cty :=
  Struct [("cge_type", int); ("cge_unit", int); ("cge_status", int); ("cge_errno", int);
   ("cge_srctype", int); ("cge_srcunit", int); ("cge_id", int); ("cge_lun", int);
   ("cge_pvoltag", Arr 36 char); ("cge_avoltag", Arr 36 char); ("cge_flags", int)].
Definition changer_set_voltag : cty :=
  Struct [("csv_type", int); ("csv_unit", int); ("csv_voltag", Arr 36 char); ("csv_flags", int)].
Definition chio_types : list (string * cty) :=
  (structs_changer_params ++ [("changer_exchange", changer_exchange); ("changer_position",
   changer_position); ("changer_element_status", changer_element_status);
   ("changer_get_element", changer_get_element); ("changer_set_voltag",
   changer_set_voltag)])%list.
Definition chio_ioctls : list command := [
  _IOW "CHIOMOVE" (chr "c") 1 changer_move;
  _IOW "CHIOEXCHANGE" (chr "c") 2 changer_exchange;
  _IOW "CHIOPOSITION" (chr "c") 3 changer_position;
  _IOR "CHIOGPICKER" (chr "c") 4 int;
  _IOW "CHIOSPICKER" (chr "c") 5 int;
  _IOR "CHIOGPARAMS" (chr "c") 6 changer_params;
  _IOW "CHIOGSTATUS" (chr "c") 8 changer_element_status;
  _IOW "CHIOGELEM" (chr "c") 16 changer_get_element;
  _IO "CHIOINITELEM" (chr "c") 17;
  _IOW "CHIOSVOLTAG" (chr "c") 18 changer_set_voltag;
  _IOR "CHIOGVPARAMS" (chr "c") 19 changer_vendor_params].
End Chio.

(** ** [linux/coda.h] *)

Module Coda.
Definition u_quad_t : cty := ullong.
Definition structs_int8_t : list (string * cty) :=
  [
  ("int8_t", schar);
  ("u_int8_t", uchar);
  ("int16_t", short);
  ("u_int16_t", ushort);
  ("int32_t", int);
  ("u_int32_t", uint)].
Definition venus_dirent : cty :=
  Struct [("d_fileno", u_int32_t); ("d_reclen", u_int16_t); ("d_type", u_int8_t);
   ("d_namlen", u_int8_t); ("d_name", Arr 256 char)].
Definition structs_vuid_t : list (string * cty) :=
  [
  ("vuid_t", u_int32_t);
  ("vgid_t", u_int32_t);
  ("CodaFid", Struct [("opaque", Arr 4 u_int32_t)])].
Definition vuid_t : cty := type_in structs_vuid_t "vuid_t".
Definition CodaFid : cty := type_in structs_vuid_t "CodaFid".
Definition coda_statfs : cty :=
  Struct [("f_blocks", int32_t); ("f_bfree", int32_t); ("f_bavail", int32_t);
   ("f_files", int32_t); ("f_ffree", int32_t)].
Definition structs_coda_in_hdr : list (string * cty) :=
  let coda_in_hdr := Struct [("opcode", u_int32_t); ("unique", u_int32_t); ("pid", pid_t);
   ("pgid", pid_t); ("uid", vuid_t)] in
  let coda_out_hdr := Struct [("opcode", u_int32_t); ("unique", u_int32_t);
   ("result", u_int32_t)] in
  [
  ("coda_in_hdr", coda_in_hdr);
  ("coda_out_hdr", coda_out_hdr);
  ("coda_root_out", Struct [("oh", coda_out_hdr); ("VFid", CodaFid)]);
  ("coda_root_in", Struct [("in", coda_in_hdr)]);
  ("coda_open_in", Struct [("ih", coda_in_hdr); ("VFid", CodaFid); ("flags", int)])].
Definition coda_in_hdr : cty := type_in structs_coda_in_hdr "coda_in_hdr".
Definition coda_out_hdr : cty := type_in structs_coda_in_hdr "coda_out_hdr".
Definition structs_coda_store_in : list (string * cty) :=
  [
  ("coda_store_in", Struct [("ih", coda_in_hdr); ("VFid", CodaFid); ("flags", int)]);
  ("coda_store_out", Struct [("out", coda_out_hdr)]);
  ("coda_release_in", Struct [("ih", coda_in_hdr); ("VFid", CodaFid); ("flags", int)]);
  ("coda_release_out", Struct [("out", coda_out_hdr)]);
  ("coda_close_in", Struct [("ih", coda_in_hdr); ("VFid", CodaFid); ("flags", int)]);
  ("coda_close_out", Struct [("out", coda_out_hdr)]);
  ("coda_ioctl_in", Struct [("ih", coda_in_hdr); ("VFid", CodaFid); ("cmd", int); ("len", int);
   ("rwflag", int); ("data", ptr)])].
Definition coda_getattr_in : cty := Struct [("ih", coda_in_hdr); ("VFid", CodaFid)].
Definition structs_coda_setattr_out : list (string * cty) :=
  [
  ("coda_setattr_out", Struct [("out", coda_out_hdr)]);
  ("coda_access_in", Struct [("ih", coda_in_hdr); ("VFid", CodaFid); ("flags", int)]);
  ("coda_access_out", Struct [("out", coda_out_hdr)])].
Definition structs_coda_lookup_in : list (string * cty) :=
  [
  ("coda_lookup_in", Struct [("ih", coda_in_hdr); ("VFid", CodaFid); ("name", int);
   ("flags", int)]);
  ("coda_lookup_out", Struct [("oh", coda_out_hdr); ("VFid", CodaFid); ("vtype", int)])].
Definition structs_coda_remove_in : list (string * cty) :=
  [
  ("coda_remove_in", Struct [("ih", coda_in_hdr); ("VFid", CodaFid); ("name", int)]);
  ("coda_remove_out", Struct [("out", coda_out_hdr)]);
  ("coda_link_in", Struct [("ih", coda_in_hdr); ("sourceFid", CodaFid); ("destFid", CodaFid);
   ("tname", int)]);
  ("coda_link_out", Struct [("out", coda_out_hdr)]);
  ("coda_rename_in", Struct [("ih", coda_in_hdr); ("sourceFid", CodaFid); ("srcname", int);
   ("destFid", CodaFid); ("destname", int)]);
  ("coda_rename_out", Struct [("out", coda_out_hdr)])].
Definition structs_coda_rmdir_in : list (string * cty) :=
  [
  ("coda_rmdir_in", Struct [("ih", coda_in_hdr); ("VFid", CodaFid); ("name", int)]);
  ("coda_rmdir_out", Struct [("out", coda_out_hdr)])].
Definition structs_coda_symlink_out : list (string * cty) :=
  [
  ("coda_symlink_out", Struct [("out", coda_out_hdr)]);
  ("coda_readlink_in", Struct [("ih", coda_in_hdr); ("VFid", CodaFid)])].
Definition structs_coda_fsync_in : list (string * cty) :=
  [
  ("coda_fsync_in", Struct [("ih", coda_in_hdr); ("VFid", CodaFid)]);
  ("coda_fsync_out", Struct [("out", coda_out_hdr)]);
  ("coda_vget_in", Struct [("ih", coda_in_hdr); ("VFid", CodaFid)]);
  ("coda_vget_out", Struct [("oh", coda_out_hdr); ("VFid", CodaFid); ("vtype", int)]);
  ("coda_purgeuser_out", Struct [("oh", coda_out_hdr); ("uid", vuid_t)]);
  ("coda_zapfile_out", Struct [("oh", coda_out_hdr); ("CodaFid", CodaFid)]);
  ("coda_zapdir_out", Struct [("oh", coda_out_hdr); ("CodaFid", CodaFid)]);
  ("coda_purgefid_out", Struct [("oh", coda_out_hdr); ("CodaFid", CodaFid)]);
  ("coda_replace_out", Struct [("oh", coda_out_hdr); ("NewFid", CodaFid); ("OldFid", CodaFid)]);
  ("coda_open_by_fd_in", Struct [("ih", coda_in_hdr); ("VFid", CodaFid); ("flags", int)]);
  ("coda_open_by_fd_out", Struct [("oh", coda_out_hdr); ("fd", int)]);
  ("coda_open_by_path_in", Struct [("ih", coda_in_hdr); ("VFid", CodaFid); ("flags", int)]);
  ("coda_open_by_path_out", Struct [("oh", coda_out_hdr); ("path", int)]);
  ("coda_statfs_in", Struct [("in", coda_in_hdr)]);
  ("coda_statfs_out", Struct [("oh", coda_out_hdr); ("stat", coda_statfs)])].
Definition coda_purgeuser_out : cty := type_in structs_coda_fsync_in "coda_purgeuser_out".
Definition coda_zapfile_out : cty := type_in structs_coda_fsync_in "coda_zapfile_out".
Definition coda_zapdir_out : cty := type_in structs_coda_fsync_in "coda_zapdir_out".
Definition coda_purgefid_out : cty := type_in structs_coda_fsync_in "coda_purgefid_out".
Definition coda_replace_out : cty := type_in structs_coda_fsync_in "coda_replace_out".
Definition coda_downcalls : cty :=
  Union [("purgeuser", coda_purgeuser_out); ("zapfile", coda_zapfile_out);
   ("zapdir", coda_zapdir_out); ("purgefid", coda_purgefid_out); ("replace", coda_replace_out)].
Definition coda_mount_data : cty := Struct [("version", int); ("fd", int)].
Definition coda_types : list (string * cty) :=
  ([("u_quad_t", u_quad_t)] ++ structs_int8_t ++ [("venus_dirent", venus_dirent)] ++
   structs_vuid_t ++ [("coda_statfs", coda_statfs)] ++ structs_coda_in_hdr ++
   structs_coda_store_in ++ [("coda_getattr_in", coda_getattr_in)] ++ structs_coda_setattr_out
   ++ structs_coda_lookup_in ++ structs_coda_remove_in ++ structs_coda_rmdir_in ++
   structs_coda_symlink_out ++ structs_coda_fsync_in ++ [("coda_downcalls", coda_downcalls);
   ("coda_mount_data", coda_mount_data)])%list.
Definition coda_ioctls : list command := [
  _IOWR "CIOC_KERNEL_VERSION" (chr "c") 10 size_t].
End Coda.

(** ** [linux/cramfs_fs.h] *)

Module Cramfs_fs.
Definition cramfs_info : cty :=
  Struct [("crc", __u32); ("edition", __u32); ("blocks", __u32); ("files", __u32)].
Definition cramfs_fs_types : list (string * cty) := [("cramfs_info", cramfs_info)].
End Cramfs_fs.

(** ** [linux/dlm.h] *)

Module Dlm.
Definition dlm_lksb : cty :=
  Struct [("sb_status", int); ("sb_lkid", __u32); ("sb_flags", char); ("sb_lvbptr", ptr)].
Definition dlm_types : list (string * cty) := [("dlm_lksb", dlm_lksb)].
End Dlm.

(** ** [linux/dlm_device.h] *)

Module Dlm_device.
Definition DLM_USER_LVB_LEN : Z := 32.
Definition structs_dlm_lock_params : list (string * cty) :=
  let dlm_lock_params := Struct [("mode", __u8); ("namelen", __u8); ("unused", __u16);
   ("flags", __u32); ("lkid", __u32); ("parent", __u32); ("xid", __u64); ("timeout", __u64);
   ("castparam", ptr); ("castaddr", ptr); ("bastparam", ptr); ("bastaddr", ptr); ("lksb", ptr);
   ("lvb", Arr DLM_USER_LVB_LEN char); ("name", Arr 0 char)] in
  let dlm_lspace_params := Struct [("flags", __u32); ("minor", __u32); ("name", Arr 0 char)] in
  let dlm_purge_params := Struct [("nodeid", __u32); ("pid", __u32)] in
  [
  ("dlm_lock_params", dlm_lock_params);
  ("dlm_lspace_params", dlm_lspace_params);
  ("dlm_purge_params", dlm_purge_params);
  ("dlm_write_request", Struct [("version", Arr 3 __u32); ("cmd", __u8); ("is64bit", __u8);
   ("unused", Arr 2 __u8); ("i", Union [("lock", dlm_lock_params); ("lspace", dlm_lspace_params);
   ("purge", dlm_purge_params)])]);
  ("dlm_device_version", Struct [("version", Arr 3 __u32)]);
  ("dlm_lock_result", Struct [("version", Arr 3 __u32); ("length", __u32); ("user_astaddr", ptr);
   ("user_astparam", ptr); ("user_lksb", ptr); ("lksb", Dlm.dlm_lksb); ("bast_mode", __u8);
   ("unused", Arr 3 __u8); ("lvb_offset", __u32)])].
Definition dlm_device_types : list (string * cty) := structs_dlm_lock_params.
End Dlm_device.

(** ** [linux/dlm_netlink.h] *)

Module Dlm_netlink.
Definition dlm_lock_data : cty :=
  Struct [("version", __u16); ("lockspace_id", __u32); ("nodeid", int); ("ownpid", int);
   ("id", __u32); ("remid", __u32); ("xid", __u64); ("status", __s8); ("grmode", __s8);
   ("rqmode", __s8); ("timestamp", ulong); ("resource_namelen", int);
   ("resource_name", Arr 64 char)].
Definition dlm_netlink_types : list (string * cty) := [("dlm_lock_data", dlm_lock_data)].
End Dlm_netlink.

(** ** [linux/dlm_plock.h] *)

Module Dlm_plock.
Definition dlm_plock_info : cty :=
  Struct [("version", Arr 3 __u32); ("optype", __u8); ("ex", __u8); ("wait", __u8);
   ("flags", __u8); ("pid", __u32); ("nodeid", __s32); ("rv", __s32); ("fsid", __u32);
   ("number", __u64); ("start", __u64); ("end", __u64); ("owner", __u64)].
Definition dlm_plock_types : list (string * cty) := [("dlm_plock_info", dlm_plock_info)].
End Dlm_plock.

(** ** [linux/dm-ioctl.h] *)

Module Dm_ioctl.
Definition DM_MAX_TYPE_NAME : Z := 16.
Definition DM_NAME_LEN : Z := 128.
Definition DM_UUID_LEN : Z := 129.
Definition dm_ioctl : cty :=
  Struct [("version", Arr 3 __u32); ("data_size", __u32); ("data_start", __u32);
   ("target_count", __u32); ("open_count", __s32); ("flags", __u32); ("event_nr", __u32);
   ("padding", __u32); ("dev", __u64); ("name", Arr DM_NAME_LEN char);
   ("uuid", Arr DM_UUID_LEN char); ("data", Arr 7 char)].
Definition dm_target_spec : cty :=
  Struct [("sector_start", __u64); ("length", __u64); ("status", __s32); ("next", __u32);
   ("target_type", Arr DM_MAX_TYPE_NAME char)].
Definition structs_dm_target_deps : list (string * cty) :=
  [
  ("dm_target_deps", Struct [("count", __u32); ("padding", __u32); ("dev", Arr 0 __u64)]);
  ("dm_name_list", Struct [("dev", __u64); ("next", __u32); ("name", Arr 0 char)]);
  ("dm_target_versions", Struct [("next", __u32); ("version", Arr 3 __u32); ("name", Arr 0 char)]);
  ("dm_target_msg", Struct [("sector", __u64); ("message", Arr 0 char)])].
Definition dm_ioctl_types : list (string * cty) :=
  ([("dm_ioctl", dm_ioctl); ("dm_target_spec", dm_target_spec)] ++
   structs_dm_target_deps)%list.
Definition dm_ioctl_ioctls : list command := [
  _IOWR "DM_VERSION" 0xfd 0 dm_ioctl;
  _IOWR "DM_REMOVE_ALL" 0xfd 1 dm_ioctl;
  _IOWR "DM_LIST_DEVICES" 0xfd 2 dm_ioctl;
  _IOWR "DM_DEV_CREATE" 0xfd 3 dm_ioctl;
  _IOWR "DM_DEV_REMOVE" 0xfd 4 dm_ioctl;
  _IOWR "DM_DEV_RENAME" 0xfd 5 dm_ioctl;
  _IOWR "DM_DEV_SUSPEND" 0xfd 6 dm_ioctl;
  _IOWR "DM_DEV_STATUS" 0xfd 7 dm_ioctl;
  _IOWR "DM_DEV_WAIT" 0xfd 8 dm_ioctl;
  _IOWR "DM_TABLE_LOAD" 0xfd 9 dm_ioctl;
  _IOWR "DM_TABLE_CLEAR" 0xfd 10 dm_ioctl;
  _IOWR "DM_TABLE_DEPS" 0xfd 11 dm_ioctl;
  _IOWR "DM_TABLE_STATUS" 0xfd 12 dm_ioctl;
  _IOWR "DM_LIST_VERSIONS" 0xfd 13 dm_ioctl;
  _IOWR "DM_TARGET_MSG" 0xfd 14 dm_ioctl;
  _IOWR "DM_DEV_SET_GEOMETRY" 0xfd 15 dm_ioctl].
End Dm_ioctl.

(** ** [linux/dm-log-userspace.h] *)

Module Dm_log_userspace.
Definition dm_ulog_request : cty :=
  Struct [("luid", uint64_t); ("uuid", Arr 129 char); ("padding", Arr 3 char);
   ("version", uint32_t); ("error", int32_t); ("seq", uint32_t); ("request_type", uint32_t);
   ("data_size", uint32_t); ("data", Arr 0 char)].
Definition dm_log_userspace_types : list (string * cty) := [("dm_ulog_request", dm_ulog_request)].
End Dm_log_userspace.

(** ** [linux/dqblk_xfs.h] *)

Module Dqblk_xfs.
Definition fs_disk_quota : cty :=
  Struct [("d_version", __s8); ("d_flags", __s8); ("d_fieldmask", __u16); ("d_id", __u32);
   ("d_blk_hardlimit", __u64); ("d_blk_softlimit", __u64); ("d_ino_hardlimit", __u64);
   ("d_ino_softlimit", __u64); ("d_bcount", __u64); ("d_icount", __u64); ("d_itimer", __s32);
   ("d_btimer", __s32); ("d_iwarns", __u16); ("d_bwarns", __u16); ("d_padding2", __s32);
   ("d_rtb_hardlimit", __u64); ("d_rtb_softlimit", __u64); ("d_rtbcount", __u64);
   ("d_rtbtimer", __s32); ("d_rtbwarns", __u16); ("d_padding3", __s16);
   ("d_padding4", Arr 8 char)].
Definition fs_disk_quota_t : cty := fs_disk_quota.
Definition fs_qfilestat : cty :=
  Struct [("qfs_ino", __u64); ("qfs_nblks", __u64); ("qfs_nextents", __u32)].
Definition structs_fs_qfilestat_t : list (string * cty) :=
  let fs_qfilestat_t := fs_qfilestat in
  [
  ("fs_qfilestat_t", fs_qfilestat_t);
  ("fs_quota_stat", Struct [("qs_version", __s8); ("qs_flags", __u16); ("qs_pad", __s8);
   ("qs_uquota", fs_qfilestat_t); ("qs_gquota", fs_qfilestat_t); ("qs_incoredqs", __u32);
   ("qs_btimelimit", __s32); ("qs_itimelimit", __s32); ("qs_rtbtimelimit", __s32);
   ("qs_bwarnlimit", __u16); ("qs_iwarnlimit", __u16)])].
Definition fs_quota_stat : cty := type_in structs_fs_qfilestat_t "fs_quota_stat".
Definition fs_quota_stat_t : cty := fs_quota_stat.
Definition structs_fs_qfilestatv : list (string * cty) :=
  let fs_qfilestatv := Struct [("qfs_ino", __u64); ("qfs_nblks", __u64); ("qfs_nextents", __u32);
   ("qfs_pad", __u32)] in
  [
  ("fs_qfilestatv", fs_qfilestatv);
  ("fs_quota_statv", Struct [("qs_version", __s8); ("qs_pad1", __u8); ("qs_flags", __u16);
   ("qs_incoredqs", __u32); ("qs_uquota", fs_qfilestatv); ("qs_gquota", fs_qfilestatv);
   ("qs_pquota", fs_qfilestatv); ("qs_btimelimit", __s32); ("qs_itimelimit", __s32);
   ("qs_rtbtimelimit", __s32); ("qs_bwarnlimit", __u16); ("qs_iwarnlimit", __u16);
   ("qs_pad2", Arr 8 __u64)])].
Definition dqblk_xfs_types : list (string * cty) :=
  ([("fs_disk_quota", fs_disk_quota); ("fs_disk_quota_t", fs_disk_quota_t); ("fs_qfilestat",
   fs_qfilestat)] ++ structs_fs_qfilestat_t ++ [("fs_quota_stat_t", fs_quota_stat_t)] ++
   structs_fs_qfilestatv)%list.
End Dqblk_xfs.

(** ** [linux/edd.h] *)

Module Edd.
Definition EDDMAXNR : Z := 6.
Definition EDD_MBR_SIG_MAX : Z := 16.
Definition edd_device_params : cty :=
  Packed [("length", __u16); ("info_flags", __u16); ("num_default_cylinders", __u32);
   ("num_default_heads", __u32); ("sectors_per_track", __u32); ("number_of_sectors", __u64);
   ("bytes_per_sector", __u16); ("dpte_ptr", __u32); ("key", __u16);
   ("device_path_info_length", __u8); ("reserved2", __u8); ("reserved3", __u16);
   ("host_bus_type", Arr 4 __u8); ("interface_type", Arr 8 __u8);
   ("interface_path", Union [("isa", Packed [("base_address", __u16); ("reserved1", __u16);
   ("reserved2", __u32)]); ("pci", Packed [("bus", __u8); ("slot", __u8); ("function", __u8);
   ("channel", __u8); ("reserved", __u32)]); ("ibnd", Packed [("reserved", __u64)]);
   ("xprs", Packed [("reserved", __u64)]); ("htpt", Packed [("reserved", __u64)]);
   ("unknown", Packed [("reserved", __u64)])]);
   ("device_path", Union [("ata", Packed [("device", __u8); ("reserved1", __u8);
   ("reserved2", __u16); ("reserved3", __u32); ("reserved4", __u64)]);
   ("atapi", Packed [("device", __u8); ("lun", __u8); ("reserved1", __u8); ("reserved2", __u8);
   ("reserved3", __u32); ("reserved4", __u64)]); ("scsi", Packed [("id", __u16); ("lun", __u64);
   ("reserved1", __u16); ("reserved2", __u32)]); ("usb", Packed [("serial_number", __u64);
   ("reserved", __u64)]); ("i1394", Packed [("eui", __u64); ("reserved", __u64)]);
   ("fibre", Packed [("wwid", __u64); ("lun", __u64)]); ("i2o", Packed [("identity_tag", __u64);
   ("reserved", __u64)]); ("raid", Packed [("array_number", __u32); ("reserved1", __u32);
   ("reserved2", __u64)]); ("sata", Packed [("device", __u8); ("reserved1", __u8);
   ("reserved2", __u16); ("reserved3", __u32); ("reserved4", __u64)]);
   ("unknown", Packed [("reserved1", __u64); ("reserved2", __u64)])]); ("reserved4", __u8);
   ("checksum", __u8)].
Definition structs_edd_info : list (string * cty) :=
  let edd_info := Packed [("device", __u8); ("version", __u8); ("interface_support", __u16);
   ("legacy_max_cylinder", __u16); ("legacy_max_head", __u8); ("legacy_sectors_per_track", __u8);
   ("params", edd_device_params)] in
  [
  ("edd_info", edd_info);
  ("edd", Struct [("mbr_signature", Arr EDD_MBR_SIG_MAX uint);
   ("edd_info", Arr EDDMAXNR edd_info); ("mbr_signature_nr", uchar); ("edd_info_nr", uchar)])].
Definition edd_types : list (string * cty) :=
  ([("edd_device_params", edd_device_params)] ++ structs_edd_info)%list.
End Edd.

(** ** [linux/efs_fs_sb.h] *)

Module Efs_fs_sb.
Definition structs_efs_super : list (string * cty) :=
  [
  ("efs_super", Struct [("fs_size", __be32); ("fs_firstcg", __be32); ("fs_cgfsize", __be32);
   ("fs_cgisize", __be16); ("fs_sectors", __be16); ("fs_heads", __be16); ("fs_ncg", __be16);
   ("fs_dirty", __be16); ("fs_time", __be32); ("fs_magic", __be32); ("fs_fname", Arr 6 char);
   ("fs_fpack", Arr 6 char); ("fs_bmsize", __be32); ("fs_tfree", __be32); ("fs_tinode", __be32);
   ("fs_bmblock", __be32); ("fs_replsb", __be32); ("fs_lastialloc", __be32);
   ("fs_spare", Arr 20 char); ("fs_checksum", __be32)]);
  ("efs_sb_info", Struct [("fs_magic", __u32); ("fs_start", __u32); ("first_block", __u32);
   ("total_blocks", __u32); ("group_size", __u32); ("data_free", __u32); ("inode_free", __u32);
   ("inode_blocks", __u16); ("total_groups", __u16)])].
Definition efs_fs_sb_types : list (string * cty) := structs_efs_super.
End Efs_fs_sb.

(** ** [linux/fd.h] *)

Module Fd.
Definition floppy_struct : cty :=
  Struct [("size", uint); ("sect", uint); ("head", uint); ("track", uint); ("stretch", uint);
   ("gap", uchar); ("rate", uchar); ("spec1", uchar); ("fmt_gap", uchar); ("name", ptr)].
Definition format_descr : cty := Struct [("device", uint); ("head", uint); ("track", uint)].
Definition floppy_max_errors : cty :=
  Struct [("abort", uint); ("read_track", uint); ("reset", uint); ("recal", uint);
   ("reporting", uint)].
Definition floppy_drive_name : cty := Arr 16 char.
Definition floppy_drive_params : cty :=
  Struct [("cmos", schar); ("max_dtr", ulong); ("hlt", ulong); ("hut", ulong); ("srt", ulong);
   ("spinup", ulong); ("spindown", ulong); ("spindown_offset", uchar); ("select_delay", uchar);
   ("rps", uchar); ("tracks", uchar); ("timeout", ulong); ("interleave_sect", uchar);
   ("max_errors", floppy_max_errors); ("flags", char); ("read_track", char);
   ("autodetect", Arr 8 short); ("checkfreq", int); ("native_format", int)].
Definition floppy_drive_struct : cty :=
  Struct [("flags", ulong); ("spinup_date", ulong); ("select_date", ulong);
   ("first_read_date", ulong); ("probed_format", short); ("track", short); ("maxblock", short);
   ("maxtrack", short); ("generation", int); ("keep_data", int); ("fd_ref", int);
   ("fd_device", int); ("last_checked", ulong); ("dmabuf", ptr); ("bufblocks", int)].
Definition floppy_write_errors : cty :=
  Struct [("write_errors", uint); ("first_error_sector", ulong); ("first_error_generation", int);
   ("last_error_sector", ulong); ("last_error_generation", int); ("badness", uint)].
Definition floppy_raw_cmd : cty :=
  Struct [("flags", uint); ("data", ptr); ("kernel_data", ptr); ("next", ptr); ("length", long);
   ("phys_length", long); ("buffer_length", int); ("rate", uchar); ("cmd_count", uchar);
   ("cmd", Arr 16 uchar); ("reply_count", uchar); ("reply", Arr 16 uchar); ("track", int);
   ("resultcode", int); ("reserved1", int); ("reserved2", int)].
(** The bit-fields take one byte. *)
Definition floppy_fdc_state : cty :=
  Struct [("spec1", int); ("spec2", int); ("dtr", int); ("version", uchar); ("dor", uchar);
   ("address", ulong); ("rawcmd:2,reset:1,need_configure:1,perp_mode:2,has_fifo:1", uchar);
   ("driver_version", uint); ("track", Arr 4 uchar)].
Definition fd_types : list (string * cty) :=
  ([("floppy_struct", floppy_struct); ("format_descr", format_descr); ("floppy_max_errors",
   floppy_max_errors); ("floppy_drive_name", floppy_drive_name); ("floppy_drive_params",
   floppy_drive_params); ("floppy_drive_struct", floppy_drive_struct); ("floppy_write_errors",
   floppy_write_errors); ("floppy_raw_cmd", floppy_raw_cmd)] ++
   [("floppy_fdc_state", floppy_fdc_state)])%list.
Definition fd_ioctls_1 : list command := [
  _IO "FDCLRPRM" 0x2 65;
  _IOW "FDSETPRM" 0x2 66 floppy_struct;
  _IOW "FDDEFPRM" 0x2 67 floppy_struct;
  _IOR "FDGETPRM" 0x2 4 floppy_struct;
  _IO "FDMSGON" 0x2 69;
  _IO "FDMSGOFF" 0x2 70].
Definition fd_ioctls_2 : list command := [
  _IO "FDFMTBEG" 0x2 71;
  _IOW "FDFMTTRK" 0x2 72 format_descr;
  _IO "FDFMTEND" 0x2 73].
Definition fd_ioctls_3 : list command := [
  _IO "FDSETEMSGTRESH" 0x2 74;
  _IO "FDFLUSH" 0x2 75;
  _IOW "FDSETMAXERRS" 0x2 76 floppy_max_errors;
  _IOR "FDGETMAXERRS" 0x2 14 floppy_max_errors;
  _IOR "FDGETDRVTYP" 0x2 15 floppy_drive_name].
Definition fd_ioctls_4 : list command := [
  _IOW "FDSETDRVPRM" 0x2 144 floppy_drive_params;
  _IOR "FDGETDRVPRM" 0x2 17 floppy_drive_params].
Definition fd_ioctls_5 : list command := [
  _IOR "FDGETDRVSTAT" 0x2 18 floppy_drive_struct;
  _IOR "FDPOLLDRVSTAT" 0x2 19 floppy_drive_struct].
Definition fd_ioctls_6 : list command := [
  _IO "FDRESET" 0x2 84;
  _IOR "FDGETFDCSTAT" 0x2 0x15 floppy_fdc_state].
Definition fd_ioctls_7 : list command := [
  _IO "FDWERRORCLR" 0x2 86;
  _IOR "FDWERRORGET" 0x2 23 floppy_write_errors].
Definition fd_ioctls_8 : list command := [
  _IO "FDRAWCMD" 0x2 88;
  _IO "FDTWADDLE" 0x2 89;
  _IO "FDEJECT" 0x2 90].
Definition fd_ioctls : list command :=
  (fd_ioctls_1 ++ fd_ioctls_2 ++ fd_ioctls_3 ++ fd_ioctls_4 ++ fd_ioctls_5 ++ fd_ioctls_6 ++
  fd_ioctls_7 ++ fd_ioctls_8)%list.
End Fd.

(** ** [linux/fs.h] *)

Module Fs.
Definition FS_KEY_DESCRIPTOR_SIZE : Z := 8.
Definition FS_MAX_KEY_SIZE : Z := 64.
Definition structs_fstrim_range : list (string * cty) :=
  [
  ("fstrim_range", Struct [("start", __u64); ("len", __u64); ("minlen", __u64)]);
  ("files_stat_struct", Struct [("nr_files", ulong); ("nr_free_files", ulong);
   ("max_files", ulong)]);
  ("inodes_stat_t", Struct [("nr_inodes", long); ("nr_unused", long); ("dummy", Arr 5 long)])].
Definition fstrim_range : cty := type_in structs_fstrim_range "fstrim_range".
Definition fscrypt_policy : cty :=
  Packed [("version", __u8); ("contents_encryption_mode", __u8);
   ("filenames_encryption_mode", __u8); ("flags", __u8);
   ("master_key_descriptor", Arr FS_KEY_DESCRIPTOR_SIZE __u8)].
Definition fscrypt_key : cty :=
  Struct [("mode", __u32); ("raw", Arr FS_MAX_KEY_SIZE __u8); ("size", __u32)].
Definition fs_types : list (string * cty) :=
  (structs_fstrim_range ++ [("fscrypt_policy", fscrypt_policy); ("fscrypt_key",
   fscrypt_key)])%list.
Definition fs_ioctls_1 : list command := [
  _IO "BLKROSET" 0x12 93;
  _IO "BLKROGET" 0x12 94;
  _IO "BLKRRPART" 0x12 95;
  _IO "BLKGETSIZE" 0x12 96;
  _IO "BLKFLSBUF" 0x12 97;
  _IO "BLKRASET" 0x12 98;
  _IO "BLKRAGET" 0x12 99;
  _IO "BLKFRASET" 0x12 100;
  _IO "BLKFRAGET" 0x12 101;
  _IO "BLKSECTSET" 0x12 102;
  _IO "BLKSECTGET" 0x12 103;
  _IO "BLKSSZGET" 0x12 104].
Definition fs_ioctls_2 : list command := [
  _IOR "BLKBSZGET" 0x12 112 size_t;
  _IOW "BLKBSZSET" 0x12 113 size_t;
  _IOR "BLKGETSIZE64" 0x12 114 size_t;
  _IOWR "BLKTRACESETUP" 0x12 115 Blktrace_api.blk_user_trace_setup;
  _IO "BLKTRACESTART" 0x12 116;
  _IO "BLKTRACESTOP" 0x12 117;
  _IO "BLKTRACETEARDOWN" 0x12 118;
  _IO "BLKDISCARD" 0x12 119;
  _IO "BLKIOMIN" 0x12 120;
  _IO "BLKIOOPT" 0x12 121;
  _IO "BLKALIGNOFF" 0x12 122;
  _IO "BLKPBSZGET" 0x12 123;
  _IO "BLKDISCARDZEROES" 0x12 124;
  _IO "BLKSECDISCARD" 0x12 125;
  _IO "BLKROTATIONAL" 0x12 126;
  _IO "BLKZEROOUT" 0x12 127;
  _IO "FIBMAP" 0x0 1;
  _IO "FIGETBSZ" 0x0 2;
  _IOWR "FIFREEZE" (chr "X") 119 int;
  _IOWR "FITHAW" (chr "X") 120 int;
  _IOWR "FITRIM" (chr "X") 121 fstrim_range;
  _IOWR "FIDTRIM" (chr "f") 128 fstrim_range;
  _IOR "FS_IOC_GETFLAGS" (chr "f") 1 long;
  _IOW "FS_IOC_SETFLAGS" (chr "f") 2 long;
  _IOR "FS_IOC_GETVERSION" (chr "v") 1 long;
  _IOW "FS_IOC_SETVERSION" (chr "v") 2 long;
  _IOWR "FS_IOC_FIEMAP" (chr "f") 11 Fiemap.fiemap;
  _IOR "FS_IOC32_GETFLAGS" (chr "f") 1 int;
  _IOW "FS_IOC32_SETFLAGS" (chr "f") 2 int;
  _IOR "FS_IOC32_GETVERSION" (chr "v") 1 int;
  _IOW "FS_IOC32_SETVERSION" (chr "v") 2 int].
Definition fs_ioctls_3 : list command := [
  _IOR "FS_IOC_SET_ENCRYPTION_POLICY" (chr "f") 19 fscrypt_policy;
  _IOW "FS_IOC_GET_ENCRYPTION_PWSALT" (chr "f") 20 (Arr 16 __u8);
  _IOW "FS_IOC_GET_ENCRYPTION_POLICY" (chr "f") 21 fscrypt_policy].
Definition fs_ioctls : list command :=
  (fs_ioctls_1 ++ fs_ioctls_2 ++ fs_ioctls_3)%list.
End Fs.

(** ** [linux/fuse.h] *)

Module Fuse.
Definition fuse_attr : cty :=
  Struct [("ino", uint64_t); ("size", uint64_t); ("blocks", uint64_t); ("atime", uint64_t);
   ("mtime", uint64_t); ("ctime", uint64_t); ("atimensec", uint32_t); ("mtimensec", uint32_t);
   ("ctimensec", uint32_t); ("mode", uint32_t); ("nlink", uint32_t); ("uid", uint32_t);
   ("gid", uint32_t); ("rdev", uint32_t); ("blksize", uint32_t); ("padding", uint32_t)].
Definition structs_fuse_kstatfs : list (string * cty) :=
  [
  ("fuse_kstatfs", Struct [("blocks", uint64_t); ("bfree", uint64_t); ("bavail", uint64_t);
   ("files", uint64_t); ("ffree", uint64_t); ("bsize", uint32_t); ("namelen", uint32_t);
   ("frsize", uint32_t); ("padding", uint32_t); ("spare", Arr 6 uint32_t)]);
  ("fuse_file_lock", Struct [("start", uint64_t); ("end", uint64_t); ("type", uint32_t);
   ("pid", uint32_t)])].
Definition fuse_kstatfs : cty := type_in structs_fuse_kstatfs "fuse_kstatfs".
Definition fuse_file_lock : cty := type_in structs_fuse_kstatfs "fuse_file_lock".
Definition structs_fuse_entry_out : list (string * cty) :=
  [
  ("fuse_entry_out", Struct [("nodeid", uint64_t); ("generation", uint64_t);
   ("entry_valid", uint64_t); ("attr_valid", uint64_t); ("entry_valid_nsec", uint32_t);
   ("attr_valid_nsec", uint32_t); ("attr", fuse_attr)]);
  ("fuse_forget_in", Struct [("nlookup", uint64_t)]);
  ("fuse_forget_one", Struct [("nodeid", uint64_t); ("nlookup", uint64_t)]);
  ("fuse_batch_forget_in", Struct [("count", uint32_t); ("dummy", uint32_t)]);
  ("fuse_getattr_in", Struct [("getattr_flags", uint32_t); ("dummy", uint32_t); ("fh", uint64_t)])].
Definition fuse_entry_out : cty := type_in structs_fuse_entry_out "fuse_entry_out".
Definition fuse_attr_out : cty :=
  Struct [("attr_valid", uint64_t); ("attr_valid_nsec", uint32_t); ("dummy", uint32_t);
   ("attr", fuse_attr)].
Definition structs_fuse_mknod_in : list (string * cty) :=
  [
  ("fuse_mknod_in", Struct [("mode", uint32_t); ("rdev", uint32_t); ("umask", uint32_t);
   ("padding", uint32_t)]);
  ("fuse_mkdir_in", Struct [("mode", uint32_t); ("umask", uint32_t)]);
  ("fuse_rename_in", Struct [("newdir", uint64_t)]);
  ("fuse_rename2_in", Struct [("newdir", uint64_t); ("flags", uint32_t); ("padding", uint32_t)]);
  ("fuse_link_in", Struct [("oldnodeid", uint64_t)]);
  ("fuse_setattr_in", Struct [("valid", uint32_t); ("padding", uint32_t); ("fh", uint64_t);
   ("size", uint64_t); ("lock_owner", uint64_t); ("atime", uint64_t); ("mtime", uint64_t);
   ("ctime", uint64_t); ("atimensec", uint32_t); ("mtimensec", uint32_t);
   ("ctimensec", uint32_t); ("mode", uint32_t); ("unused4", uint32_t); ("uid", uint32_t);
   ("gid", uint32_t); ("unused5", uint32_t)]);
  ("fuse_open_in", Struct [("flags", uint32_t); ("unused", uint32_t)]);
  ("fuse_create_in", Struct [("flags", uint32_t); ("mode", uint32_t); ("umask", uint32_t);
   ("padding", uint32_t)]);
  ("fuse_open_out", Struct [("fh", uint64_t); ("open_flags", uint32_t);
   ("passthrough_fd", int32_t)]);
  ("fuse_release_in", Struct [("fh", uint64_t); ("flags", uint32_t); ("release_flags", uint32_t);
   ("lock_owner", uint64_t)]);
  ("fuse_flush_in", Struct [("fh", uint64_t); ("unused", uint32_t); ("padding", uint32_t);
   ("lock_owner", uint64_t)]);
  ("fuse_read_in", Struct [("fh", uint64_t); ("offset", uint64_t); ("size", uint32_t);
   ("read_flags", uint32_t); ("lock_owner", uint64_t); ("flags", uint32_t);
   ("padding", uint32_t)])].
Definition structs_fuse_write_in : list (string * cty) :=
  [
  ("fuse_write_in", Struct [("fh", uint64_t); ("offset", uint64_t); ("size", uint32_t);
   ("write_flags", uint32_t); ("lock_owner", uint64_t); ("flags", uint32_t);
   ("padding", uint32_t)]);
  ("fuse_write_out", Struct [("size", uint32_t); ("padding", uint32_t)])].
Definition structs_fuse_statfs_out : list (string * cty) :=
  [
  ("fuse_statfs_out", Struct [("st", fuse_kstatfs)]);
  ("fuse_fsync_in", Struct [("fh", uint64_t); ("fsync_flags", uint32_t); ("padding", uint32_t)]);
  ("fuse_setxattr_in", Struct [("size", uint32_t); ("flags", uint32_t)]);
  ("fuse_getxattr_in", Struct [("size", uint32_t); ("padding", uint32_t)]);
  ("fuse_getxattr_out", Struct [("size", uint32_t); ("padding", uint32_t)]);
  ("fuse_lk_in", Struct [("fh", uint64_t); ("owner", uint64_t); ("lk", fuse_file_lock);
   ("lk_flags", uint32_t); ("padding", uint32_t)]);
  ("fuse_lk_out", Struct [("lk", fuse_file_lock)]);
  ("fuse_access_in", Struct [("mask", uint32_t); ("padding", uint32_t)]);
  ("fuse_init_in", Struct [("major", uint32_t); ("minor", uint32_t); ("max_readahead", uint32_t);
   ("flags", uint32_t)])].
Definition fuse_init_out : cty :=
  Struct [("major", uint32_t); ("minor", uint32_t); ("max_readahead", uint32_t);
   ("flags", uint32_t); ("max_background", uint16_t); ("congestion_threshold", uint16_t);
   ("max_write", uint32_t); ("time_gran", uint32_t); ("unused", Arr 9 uint32_t)].
Definition structs_cuse_init_in : list (string * cty) :=
  [
  ("cuse_init_in", Struct [("major", uint32_t); ("minor", uint32_t); ("unused", uint32_t);
   ("flags", uint32_t)]);
  ("cuse_init_out", Struct [("major", uint32_t); ("minor", uint32_t); ("unused", uint32_t);
   ("flags", uint32_t); ("max_read", uint32_t); ("max_write", uint32_t); ("dev_major", uint32_t);
   ("dev_minor", uint32_t); ("spare", Arr 10 uint32_t)]);
  ("fuse_interrupt_in", Struct [("unique", uint64_t)]);
  ("fuse_bmap_in", Struct [("block", uint64_t); ("blocksize", uint32_t); ("padding", uint32_t)]);
  ("fuse_bmap_out", Struct [("block", uint64_t)]);
  ("fuse_ioctl_in", Struct [("fh", uint64_t); ("flags", uint32_t); ("cmd", uint32_t);
   ("arg", uint64_t); ("in_size", uint32_t); ("out_size", uint32_t)]);
  ("fuse_ioctl_iovec", Struct [("base", uint64_t); ("len", uint64_t)]);
  ("fuse_ioctl_out", Struct [("result", int32_t); ("flags", uint32_t); ("in_iovs", uint32_t);
   ("out_iovs", uint32_t)]);
  ("fuse_poll_in", Struct [("fh", uint64_t); ("kh", uint64_t); ("flags", uint32_t);
   ("events", uint32_t)]);
  ("fuse_poll_out", Struct [("revents", uint32_t); ("padding", uint32_t)]);
  ("fuse_notify_poll_wakeup_out", Struct [("kh", uint64_t)]);
  ("fuse_fallocate_in", Struct [("fh", uint64_t); ("offset", uint64_t); ("length", uint64_t);
   ("mode", uint32_t); ("padding", uint32_t)]);
  ("fuse_in_header", Struct [("len", uint32_t); ("opcode", uint32_t); ("unique", uint64_t);
   ("nodeid", uint64_t); ("uid", uint32_t); ("gid", uint32_t); ("pid", uint32_t);
   ("padding", uint32_t)]);
  ("fuse_out_header", Struct [("len", uint32_t); ("error", int32_t); ("unique", uint64_t)]);
  ("fuse_dirent", Struct [("ino", uint64_t); ("off", uint64_t); ("namelen", uint32_t);
   ("type", uint32_t); ("name", Arr 0 char)])].
Definition fuse_dirent : cty := type_in structs_cuse_init_in "fuse_dirent".
Definition fuse_direntplus : cty :=
  Struct [("entry_out", fuse_entry_out); ("dirent", fuse_dirent)].
Definition structs_fuse_notify_inval_inode_out : list (string * cty) :=
  [
  ("fuse_notify_inval_inode_out", Struct [("ino", uint64_t); ("off", int64_t); ("len", int64_t)]);
  ("fuse_notify_inval_entry_out", Struct [("parent", uint64_t); ("namelen", uint32_t);
   ("padding", uint32_t)]);
  ("fuse_notify_delete_out", Struct [("parent", uint64_t); ("child", uint64_t);
   ("namelen", uint32_t); ("padding", uint32_t)]);
  ("fuse_notify_store_out", Struct [("nodeid", uint64_t); ("offset", uint64_t);
   ("size", uint32_t); ("padding", uint32_t)]);
  ("fuse_notify_retrieve_out", Struct [("notify_unique", uint64_t); ("nodeid", uint64_t);
   ("offset", uint64_t); ("size", uint32_t); ("padding", uint32_t)]);
  ("fuse_notify_retrieve_in", Struct [("dummy1", uint64_t); ("offset", uint64_t);
   ("size", uint32_t); ("dummy2", uint32_t); ("dummy3", uint64_t); ("dummy4", uint64_t)])].
Definition fuse_types : list (string * cty) :=
  ([("fuse_attr", fuse_attr)] ++ structs_fuse_kstatfs ++ structs_fuse_entry_out ++
   [("fuse_attr_out", fuse_attr_out)] ++ structs_fuse_mknod_in ++ structs_fuse_write_in ++
   structs_fuse_statfs_out ++ [("fuse_init_out", fuse_init_out)] ++ structs_cuse_init_in ++
   [("fuse_direntplus", fuse_direntplus)] ++ structs_fuse_notify_inval_inode_out)%list.
Definition fuse_ioctls : list command := [
  _IOR "FUSE_DEV_IOC_CLONE" 0xe5 0 uint32_t].
End Fuse.

(** ** [linux/gfs2_ondisk.h] *)

Module Gfs2_ondisk.
Definition GFS2_LOCKNAME_LEN : Z := 64.
Definition gfs2_inum : cty := Struct [("no_formal_ino", __be64); ("no_addr", __be64)].
Definition gfs2_meta_header : cty :=
  Struct [("mh_magic", __be32); ("mh_type", __be32); ("__pad0", __be64); ("mh_format", __be32);
   ("", Union [("mh_jid", __be32); ("__pad1", __be32)])].
Definition structs_gfs2_sb : list (string * cty) :=
  [
  ("gfs2_sb", Struct [("sb_header", gfs2_meta_header); ("sb_fs_format", __be32);
   ("sb_multihost_format", __be32); ("__pad0", __u32); ("sb_bsize", __be32);
   ("sb_bsize_shift", __be32); ("__pad1", __u32); ("sb_master_dir", gfs2_inum);
   ("__pad2", gfs2_inum); ("sb_root_dir", gfs2_inum);
   ("sb_lockproto", Arr GFS2_LOCKNAME_LEN char); ("sb_locktable", Arr GFS2_LOCKNAME_LEN char);
   ("__pad3", gfs2_inum); ("__pad4", gfs2_inum); ("sb_uuid", Arr 16 __u8)]);
  ("gfs2_rindex", Struct [("ri_addr", __be64); ("ri_length", __be32); ("__pad", __u32);
   ("ri_data0", __be64); ("ri_data", __be32); ("ri_bitbytes", __be32);
   ("ri_reserved", Arr 64 __u8)])].
Definition structs_gfs2_rgrp_lvb : list (string * cty) :=
  [
  ("gfs2_rgrp_lvb", Struct [("rl_magic", __be32); ("rl_flags", __be32); ("rl_free", __be32);
   ("rl_dinodes", __be32); ("rl_igeneration", __be64); ("rl_unlinked", __be32);
   ("__pad", __be32)]);
  ("gfs2_rgrp", Struct [("rg_header", gfs2_meta_header); ("rg_flags", __be32);
   ("rg_free", __be32); ("rg_dinodes", __be32); ("__pad", __be32); ("rg_igeneration", __be64);
   ("rg_reserved", Arr 80 __u8)]);
  ("gfs2_quota", Struct [("qu_limit", __be64); ("qu_warn", __be64); ("qu_value", __be64);
   ("qu_reserved", Arr 64 __u8)])].
Definition gfs2_dinode : cty :=
  Struct [("di_header", gfs2_meta_header); ("di_num", gfs2_inum); ("di_mode", __be32);
   ("di_uid", __be32); ("di_gid", __be32); ("di_nlink", __be32); ("di_size", __be64);
   ("di_blocks", __be64); ("di_atime", __be64); ("di_mtime", __be64); ("di_ctime", __be64);
   ("di_major", __be32); ("di_minor", __be32); ("di_goal_meta", __be64);
   ("di_goal_data", __be64); ("di_generation", __be64); ("di_flags", __be32);
   ("di_payload_format", __be32); ("__pad1", __u16); ("di_height", __be16); ("__pad2", __u32);
   ("__pad3", __u16); ("di_depth", __be16); ("di_entries", __be32); ("__pad4", gfs2_inum);
   ("di_eattr", __be64); ("di_atime_nsec", __be32); ("di_mtime_nsec", __be32);
   ("di_ctime_nsec", __be32); ("di_reserved", Arr 44 __u8)].
Definition structs_gfs2_dirent : list (string * cty) :=
  [
  ("gfs2_dirent", Struct [("de_inum", gfs2_inum); ("de_hash", __be32); ("de_rec_len", __be16);
   ("de_name_len", __be16); ("de_type", __be16); ("", Union [("__pad", Arr 14 __u8);
   ("", Struct [("de_rahead", __be16); ("pad2", Arr 12 __u8)])])]);
  ("gfs2_leaf", Struct [("lf_header", gfs2_meta_header); ("lf_depth", __be16);
   ("lf_entries", __be16); ("lf_dirent_format", __be32); ("lf_next", __be64);
   ("", Union [("lf_reserved", Arr 64 __u8); ("", Struct [("lf_inode", __be64);
   ("lf_dist", __be32); ("lf_nsec", __be32); ("lf_sec", __be64);
   ("lf_reserved2", Arr 40 __u8)])])])].
Definition gfs2_ea_header : cty :=
  Struct [("ea_rec_len", __be32); ("ea_data_len", __be32); ("ea_name_len", __u8);
   ("ea_type", __u8); ("ea_flags", __u8); ("ea_num_ptrs", __u8); ("__pad", __u32)].
Definition gfs2_log_header : cty :=
  Struct [("lh_header", gfs2_meta_header); ("lh_sequence", __be64); ("lh_flags", __be32);
   ("lh_tail", __be32); ("lh_blkno", __be32); ("lh_hash", __be32)].
Definition gfs2_log_descriptor : cty :=
  Struct [("ld_header", gfs2_meta_header); ("ld_type", __be32); ("ld_length", __be32);
   ("ld_data1", __be32); ("ld_data2", __be32); ("ld_reserved", Arr 32 __u8)].
Definition structs_gfs2_inum_range : list (string * cty) :=
  [
  ("gfs2_inum_range", Struct [("ir_start", __be64); ("ir_length", __be64)]);
  ("gfs2_statfs_change", Struct [("sc_total", __be64); ("sc_free", __be64);
   ("sc_dinodes", __be64)])].
Definition structs_gfs2_quota_change : list (string * cty) :=
  [
  ("gfs2_quota_change", Struct [("qc_change", __be64); ("qc_flags", __be32); ("qc_id", __be32)]);
  ("gfs2_quota_lvb", Struct [("qb_magic", __be32); ("__pad", __u32); ("qb_limit", __be64);
   ("qb_warn", __be64); ("qb_value", __be64)])].
Definition gfs2_ondisk_types : list (string * cty) :=
  ([("gfs2_inum", gfs2_inum); ("gfs2_meta_header", gfs2_meta_header)] ++ structs_gfs2_sb ++
   structs_gfs2_rgrp_lvb ++ [("gfs2_dinode", gfs2_dinode)] ++ structs_gfs2_dirent ++
   [("gfs2_ea_header", gfs2_ea_header); ("gfs2_log_header", gfs2_log_header);
   ("gfs2_log_descriptor", gfs2_log_descriptor)] ++ structs_gfs2_inum_range ++
   structs_gfs2_quota_change)%list.
End Gfs2_ondisk.

(** ** [linux/hdreg.h] *)

Module Hdreg.
Definition structs_task_ioreg_t : list (string * cty) :=
  [
  ("task_ioreg_t", uchar);
  ("sata_ioreg_t", ulong)].
Definition ide_ioctl_request_s : cty :=
  Struct [("task_request", ptr); ("out_buffer", ptr); ("in_buffer", ptr)].
Definition structs_ide_ioctl_request_t : list (string * cty) :=
  [
  ("ide_ioctl_request_t", ide_ioctl_request_s);
  ("hd_drive_cmd_hdr", Struct [("command", __u8); ("sector_number", __u8); ("feature", __u8);
   ("sector_count", __u8)]);
  ("hd_drive_task_hdr", Struct [("data", __u8); ("feature", __u8); ("sector_count", __u8);
   ("sector_number", __u8); ("low_cylinder", __u8); ("high_cylinder", __u8);
   ("device_head", __u8); ("command", __u8)])].
Definition hd_drive_task_hdr : cty := type_in structs_ide_ioctl_request_t "hd_drive_task_hdr".
Definition structs_task_struct_t : list (string * cty) :=
  [
  ("task_struct_t", hd_drive_task_hdr);
  ("hd_drive_hob_hdr", Struct [("data", __u8); ("feature", __u8); ("sector_count", __u8);
   ("sector_number", __u8); ("low_cylinder", __u8); ("high_cylinder", __u8);
   ("device_head", __u8); ("control", __u8)])].
Definition hd_drive_hob_hdr : cty := type_in structs_task_struct_t "hd_drive_hob_hdr".
Definition hob_struct_t : cty := hd_drive_hob_hdr.
Definition hd_geometry : cty :=
  Struct [("heads", uchar); ("sectors", uchar); ("cylinders", ushort); ("start", ulong)].
Definition hd_driveid_1 : list (string * cty) := [
    ("config", ushort); ("cyls", ushort); ("reserved2", ushort); ("heads", ushort);
    ("track_bytes", ushort); ("sector_bytes", ushort); ("sectors", ushort); ("vendor0", ushort);
    ("vendor1", ushort); ("vendor2", ushort); ("serial_no", Arr 20 uchar); ("buf_type", ushort);
    ("buf_size", ushort); ("ecc_bytes", ushort); ("fw_rev", Arr 8 uchar); ("model", Arr 40 uchar);
    ("max_multsect", uchar); ("vendor3", uchar); ("dword_io", ushort); ("vendor4", uchar);
    ("capability", uchar); ("reserved50", ushort); ("vendor5", uchar); ("tPIO", uchar);
    ("vendor6", uchar); ("tDMA", uchar); ("field_valid", ushort); ("cur_cyls", ushort);
    ("cur_heads", ushort); ("cur_sectors", ushort); ("cur_capacity0", ushort);
    ("cur_capacity1", ushort); ("multsect", uchar); ("multsect_valid", uchar);
    ("lba_capacity", uint); ("dma_1word", ushort); ("dma_mword", ushort);
    ("eide_pio_modes", ushort); ("eide_dma_min", ushort); ("eide_dma_time", ushort);
    ("eide_pio", ushort); ("eide_pio_iordy", ushort); ("words69_70", Arr 2 ushort);
    ("words71_74", Arr 4 ushort); ("queue_depth", ushort); ("words76_79", Arr 4 ushort);
    ("major_rev_num", ushort); ("minor_rev_num", ushort); ("command_set_1", ushort);
    ("command_set_2", ushort); ("cfsse", ushort); ("cfs_enable_1", ushort);
    ("cfs_enable_2", ushort)].
Definition hd_driveid_2 : list (string * cty) := [
    ("csf_default", ushort); ("dma_ultra", ushort); ("trseuc", ushort); ("trsEuc", ushort);
    ("CurAPMvalues", ushort); ("mprc", ushort); ("hw_config", ushort); ("acoustic", ushort);
    ("msrqs", ushort); ("sxfert", ushort); ("sal", ushort); ("spg", uint);
    ("lba_capacity_2", ullong); ("words104_125", Arr 22 ushort); ("last_lun", ushort);
    ("word127", ushort); ("dlf", ushort); ("csfo", ushort); ("words130_155", Arr 26 ushort);
    ("word156", ushort); ("words157_159", Arr 3 ushort); ("cfa_power", ushort);
    ("words161_175", Arr 15 ushort); ("words176_205", Arr 30 ushort);
    ("words206_254", Arr 49 ushort); ("integrity_word", ushort)].
Definition hd_driveid : cty := Struct (hd_driveid_1 ++ hd_driveid_2)%list.
Definition hdreg_types : list (string * cty) :=
  (structs_task_ioreg_t ++ [("ide_ioctl_request_s", ide_ioctl_request_s)] ++
   structs_ide_ioctl_request_t ++ structs_task_struct_t ++ [("hob_struct_t", hob_struct_t);
   ("hd_geometry", hd_geometry); ("hd_driveid", hd_driveid)])%list.
End Hdreg.

(** ** [linux/i2o-dev.h] *)

Module I2o_dev.
Definition MAX_I2O_CONTROLLERS : Z := 32.
Definition I2O_EVT_DATA_SIZE : Z := 88.
Definition structs_i2o_cmd_passthru32 : list (string * cty) :=
  [
  ("i2o_cmd_passthru32", Struct [("iop", uint); ("msg", __u32)]);
  ("i2o_cmd_passthru", Struct [("iop", uint); ("msg", ptr)]);
  ("i2o_cmd_hrtlct", Struct [("iop", uint); ("resbuf", ptr); ("reslen", ptr)]);
  ("i2o_cmd_psetget", Struct [("iop", uint); ("tid", uint); ("opbuf", ptr); ("oplen", uint);
   ("resbuf", ptr); ("reslen", ptr)]);
  ("i2o_sw_xfer", Struct [("iop", uint); ("flags", uchar); ("sw_type", uchar); ("sw_id", uint);
   ("buf", ptr); ("swlen", ptr); ("maxfrag", ptr); ("curfrag", ptr)]);
  ("i2o_html", Struct [("iop", uint); ("tid", uint); ("page", uint); ("resbuf", ptr);
   ("reslen", ptr); ("qbuf", ptr); ("qlen", uint)])].
Definition i2o_cmd_passthru32 : cty := type_in structs_i2o_cmd_passthru32 "i2o_cmd_passthru32".
Definition i2o_cmd_passthru : cty := type_in structs_i2o_cmd_passthru32 "i2o_cmd_passthru".
Definition i2o_cmd_hrtlct : cty := type_in structs_i2o_cmd_passthru32 "i2o_cmd_hrtlct".
Definition i2o_cmd_psetget : cty := type_in structs_i2o_cmd_passthru32 "i2o_cmd_psetget".
Definition i2o_sw_xfer : cty := type_in structs_i2o_cmd_passthru32 "i2o_sw_xfer".
Definition i2o_html : cty := type_in structs_i2o_cmd_passthru32 "i2o_html".
Definition i2o_evt_id : cty := Struct [("iop", uint); ("tid", uint); ("evt_mask", uint)].
Definition structs_i2o_evt_info : list (string * cty) :=
  let i2o_evt_info := Struct [("id", i2o_evt_id); ("evt_data", Arr I2O_EVT_DATA_SIZE uchar);
   ("data_size", uint)] in
  [
  ("i2o_evt_info", i2o_evt_info);
  ("i2o_evt_get", Struct [("info", i2o_evt_info); ("pending", int); ("lost", int)]);
  ("i2o_sg_io_hdr", Struct [("flags", uint)])].
Definition i2o_evt_info : cty := type_in structs_i2o_evt_info "i2o_evt_info".
Definition i2o_sg_io_hdr : cty := type_in structs_i2o_evt_info "i2o_sg_io_hdr".
Definition i2o_sg_io_hdr_t : cty := i2o_sg_io_hdr.
Definition _i2o_pci_bus : cty :=
  Struct [("PciFunctionNumber", __u8); ("PciDeviceNumber", __u8); ("PciBusNumber", __u8);
   ("reserved", __u8); ("PciVendorID", __u16); ("PciDeviceID", __u16)].
Definition structs_i2o_pci_bus : list (string * cty) :=
  [
  ("i2o_pci_bus", _i2o_pci_bus);
  ("_i2o_local_bus", Struct [("LbBaseIOPort", __u16); ("reserved", __u16);
   ("LbBaseMemoryAddress", __u32)])].
Definition _i2o_local_bus : cty := type_in structs_i2o_pci_bus "_i2o_local_bus".
Definition structs_i2o_local_bus : list (string * cty) :=
  [
  ("i2o_local_bus", _i2o_local_bus);
  ("_i2o_isa_bus", Struct [("IsaBaseIOPort", __u16); ("CSN", __u8); ("reserved", __u8);
   ("IsaBaseMemoryAddress", __u32)])].
Definition _i2o_isa_bus : cty := type_in structs_i2o_local_bus "_i2o_isa_bus".
Definition structs_i2o_isa_bus : list (string * cty) :=
  [
  ("i2o_isa_bus", _i2o_isa_bus);
  ("_i2o_eisa_bus_info", Struct [("EisaBaseIOPort", __u16); ("reserved", __u8);
   ("EisaSlotNumber", __u8); ("EisaBaseMemoryAddress", __u32)])].
Definition _i2o_eisa_bus_info : cty := type_in structs_i2o_isa_bus "_i2o_eisa_bus_info".
Definition structs_i2o_eisa_bus : list (string * cty) :=
  [
  ("i2o_eisa_bus", _i2o_eisa_bus_info);
  ("_i2o_mca_bus", Struct [("McaBaseIOPort", __u16); ("reserved", __u8); ("McaSlotNumber", __u8);
   ("McaBaseMemoryAddress", __u32)])].
Definition _i2o_mca_bus : cty := type_in structs_i2o_eisa_bus "_i2o_mca_bus".
Definition structs_i2o_mca_bus : list (string * cty) :=
  [
  ("i2o_mca_bus", _i2o_mca_bus);
  ("_i2o_other_bus", Struct [("BaseIOPort", __u16); ("reserved", __u16);
   ("BaseMemoryAddress", __u32)])].
Definition _i2o_other_bus : cty := type_in structs_i2o_mca_bus "_i2o_other_bus".
Definition i2o_other_bus : cty := _i2o_other_bus.
Definition i2o_dev_types : list (string * cty) :=
  (structs_i2o_cmd_passthru32 ++ [("i2o_evt_id", i2o_evt_id)] ++ structs_i2o_evt_info ++
   [("i2o_sg_io_hdr_t", i2o_sg_io_hdr_t); ("_i2o_pci_bus", _i2o_pci_bus)] ++
   structs_i2o_pci_bus ++ structs_i2o_local_bus ++ structs_i2o_isa_bus ++ structs_i2o_eisa_bus
   ++ structs_i2o_mca_bus ++ [("i2o_other_bus", i2o_other_bus)])%list.
Definition i2o_dev_ioctls : list command := [
  _IOR "I2OGETIOPS" (chr "i") 0 (Arr MAX_I2O_CONTROLLERS __u8);
  _IOWR "I2OHRTGET" (chr "i") 1 i2o_cmd_hrtlct;
  _IOWR "I2OLCTGET" (chr "i") 2 i2o_cmd_hrtlct;
  _IOWR "I2OPARMSET" (chr "i") 3 i2o_cmd_psetget;
  _IOWR "I2OPARMGET" (chr "i") 4 i2o_cmd_psetget;
  _IOWR "I2OSWDL" (chr "i") 5 i2o_sw_xfer;
  _IOWR "I2OSWUL" (chr "i") 6 i2o_sw_xfer;
  _IOWR "I2OSWDEL" (chr "i") 7 i2o_sw_xfer;
  _IOR "I2OVALIDATE" (chr "i") 8 __u32;
  _IOWR "I2OHTML" (chr "i") 9 i2o_html;
  _IOW "I2OEVTREG" (chr "i") 10 i2o_evt_id;
  _IOR "I2OEVTGET" (chr "i") 11 i2o_evt_info;
  _IOR "I2OPASSTHRU" (chr "i") 12 i2o_cmd_passthru;
  _IOR "I2OPASSTHRU32" (chr "i") 12 i2o_cmd_passthru32].
End I2o_dev.

(** ** [linux/iso_fs.h] *)

Module Iso_fs.
Definition iso_volume_descriptor : cty :=
  Struct [("type", Arr 1 char); ("id", Arr 5 char); ("version", Arr 1 char);
   ("data", Arr 2041 char)].
Definition iso_primary_descriptor : cty :=
  Struct [("type", Arr 1 char); ("id", Arr 5 char); ("version", Arr 1 char);
   ("unused1", Arr 1 char); ("system_id", Arr 32 char); ("volume_id", Arr 32 char);
   ("unused2", Arr 8 char); ("volume_space_size", Arr 8 char); ("unused3", Arr 32 char);
   ("volume_set_size", Arr 4 char); ("volume_sequence_number", Arr 4 char);
   ("logical_block_size", Arr 4 char); ("path_table_size", Arr 8 char);
   ("type_l_path_table", Arr 4 char); ("opt_type_l_path_table", Arr 4 char);
   ("type_m_path_table", Arr 4 char); ("opt_type_m_path_table", Arr 4 char);
   ("root_directory_record", Arr 34 char); ("volume_set_id", Arr 128 char);
   ("publisher_id", Arr 128 char); ("preparer_id", Arr 128 char);
   ("application_id", Arr 128 char); ("copyright_file_id", Arr 37 char);
   ("abstract_file_id", Arr 37 char); ("bibliographic_file_id", Arr 37 char);
   ("creation_date", Arr 17 char); ("modification_date", Arr 17 char);
   ("expiration_date", Arr 17 char); ("effective_date", Arr 17 char);
   ("file_structure_version", Arr 1 char); ("unused4", Arr 1 char);
   ("application_data", Arr 512 char); ("unused5", Arr 653 char)].
Definition iso_supplementary_descriptor : cty :=
  Struct [("type", Arr 1 char); ("id", Arr 5 char); ("version", Arr 1 char);
   ("flags", Arr 1 char); ("system_id", Arr 32 char); ("volume_id", Arr 32 char);
   ("unused2", Arr 8 char); ("volume_space_size", Arr 8 char); ("escape", Arr 32 char);
   ("volume_set_size", Arr 4 char); ("volume_sequence_number", Arr 4 char);
   ("logical_block_size", Arr 4 char); ("path_table_size", Arr 8 char);
   ("type_l_path_table", Arr 4 char); ("opt_type_l_path_table", Arr 4 char);
   ("type_m_path_table", Arr 4 char); ("opt_type_m_path_table", Arr 4 char);
   ("root_directory_record", Arr 34 char); ("volume_set_id", Arr 128 char);
   ("publisher_id", Arr 128 char); ("preparer_id", Arr 128 char);
   ("application_id", Arr 128 char); ("copyright_file_id", Arr 37 char);
   ("abstract_file_id", Arr 37 char); ("bibliographic_file_id", Arr 37 char);
   ("creation_date", Arr 17 char); ("modification_date", Arr 17 char);
   ("expiration_date", Arr 17 char); ("effective_date", Arr 17 char);
   ("file_structure_version", Arr 1 char); ("unused4", Arr 1 char);
   ("application_data", Arr 512 char); ("unused5", Arr 653 char)].
Definition structs_hs_volume_descriptor : list (string * cty) :=
  [
  ("hs_volume_descriptor", Struct [("foo", Arr 8 char); ("type", Arr 1 char); ("id", Arr 5 char);
   ("version", Arr 1 char); ("data", Arr 2033 char)]);
  ("hs_primary_descriptor", Struct [("foo", Arr 8 char); ("type", Arr 1 char);
   ("id", Arr 5 char); ("version", Arr 1 char); ("unused1", Arr 1 char);
   ("system_id", Arr 32 char); ("volume_id", Arr 32 char); ("unused2", Arr 8 char);
   ("volume_space_size", Arr 8 char); ("unused3", Arr 32 char); ("volume_set_size", Arr 4 char);
   ("volume_sequence_number", Arr 4 char); ("logical_block_size", Arr 4 char);
   ("path_table_size", Arr 8 char); ("type_l_path_table", Arr 4 char); ("unused4", Arr 28 char);
   ("root_directory_record", Arr 34 char)]);
  ("iso_path_table", Packed [("name_len", Arr 2 uchar); ("extent", Arr 4 char);
   ("parent", Arr 2 char); ("name", Arr 0 char)]);
  ("iso_directory_record", Packed [("length", Arr 1 char); ("ext_attr_length", Arr 1 char);
   ("extent", Arr 8 char); ("size", Arr 8 char); ("date", Arr 7 char); ("flags", Arr 1 char);
   ("file_unit_size", Arr 1 char); ("interleave", Arr 1 char);
   ("volume_sequence_number", Arr 4 char); ("name_len", Arr 1 uchar); ("name", Arr 0 char)])].
Definition iso_fs_types : list (string * cty) :=
  ([("iso_volume_descriptor", iso_volume_descriptor); ("iso_primary_descriptor",
   iso_primary_descriptor); ("iso_supplementary_descriptor", iso_supplementary_descriptor)] ++
   structs_hs_volume_descriptor)%list.
End Iso_fs.

(** ** [linux/jffs2.h] *)

Module Jffs2.
Definition structs_jint32_t : list (string * cty) :=
  let jint32_t := Packed [("v32", __u32)] in
  let jint16_t := Packed [("v16", __u16)] in
  [
  ("jint32_t", jint32_t);
  ("jmode_t", Packed [("m", __u32)]);
  ("jint16_t", jint16_t);
  ("jffs2_unknown_node", Struct [("magic", jint16_t); ("nodetype", jint16_t);
   ("totlen", jint32_t); ("hdr_crc", jint32_t)]);
  ("jffs2_raw_dirent", Struct [("magic", jint16_t); ("nodetype", jint16_t); ("totlen", jint32_t);
   ("hdr_crc", jint32_t); ("pino", jint32_t); ("version", jint32_t); ("ino", jint32_t);
   ("mctime", jint32_t); ("nsize", __u8); ("type", __u8); ("unused", Arr 2 __u8);
   ("node_crc", jint32_t); ("name_crc", jint32_t); ("name", Arr 0 __u8)])].
Definition jint32_t : cty := type_in structs_jint32_t "jint32_t".
Definition jmode_t : cty := type_in structs_jint32_t "jmode_t".
Definition jint16_t : cty := type_in structs_jint32_t "jint16_t".
Definition jffs2_unknown_node : cty := type_in structs_jint32_t "jffs2_unknown_node".
Definition jffs2_raw_dirent : cty := type_in structs_jint32_t "jffs2_raw_dirent".
Definition jffs2_raw_inode : cty :=
  Struct [("magic", jint16_t); ("nodetype", jint16_t); ("totlen", jint32_t);
   ("hdr_crc", jint32_t); ("ino", jint32_t); ("version", jint32_t); ("mode", jmode_t);
   ("uid", jint16_t); ("gid", jint16_t); ("isize", jint32_t); ("atime", jint32_t);
   ("mtime", jint32_t); ("ctime", jint32_t); ("offset", jint32_t); ("csize", jint32_t);
   ("dsize", jint32_t); ("compr", __u8); ("usercompr", __u8); ("flags", jint16_t);
   ("data_crc", jint32_t); ("node_crc", jint32_t); ("data", Arr 0 __u8)].
Definition structs_jffs2_raw_xattr : list (string * cty) :=
  let jffs2_raw_xattr := Packed [("magic", jint16_t); ("nodetype", jint16_t);
   ("totlen", jint32_t); ("hdr_crc", jint32_t); ("xid", jint32_t); ("version", jint32_t);
   ("xprefix", __u8); ("name_len", __u8); ("value_len", jint16_t); ("data_crc", jint32_t);
   ("node_crc", jint32_t); ("data", Arr 0 __u8)] in
  let jffs2_raw_xref := Packed [("magic", jint16_t); ("nodetype", jint16_t);
   ("totlen", jint32_t); ("hdr_crc", jint32_t); ("ino", jint32_t); ("xid", jint32_t);
   ("xseqno", jint32_t); ("node_crc", jint32_t)] in
  let jffs2_raw_summary := Struct [("magic", jint16_t); ("nodetype", jint16_t);
   ("totlen", jint32_t); ("hdr_crc", jint32_t); ("sum_num", jint32_t); ("cln_mkr", jint32_t);
   ("padded", jint32_t); ("sum_crc", jint32_t); ("node_crc", jint32_t);
   ("sum", Arr 0 jint32_t)] in
  [
  ("jffs2_raw_xattr", jffs2_raw_xattr);
  ("jffs2_raw_xref", jffs2_raw_xref);
  ("jffs2_raw_summary", jffs2_raw_summary);
  ("jffs2_node_union", Union [("i", jffs2_raw_inode); ("d", jffs2_raw_dirent);
   ("x", jffs2_raw_xattr); ("r", jffs2_raw_xref); ("s", jffs2_raw_summary);
   ("u", jffs2_unknown_node)]);
  ("jffs2_device_node", Union [("old_id", jint16_t); ("new_id", jint32_t)])].
Definition jffs2_types : list (string * cty) :=
  (structs_jint32_t ++ [("jffs2_raw_inode", jffs2_raw_inode)] ++
   structs_jffs2_raw_xattr)%list.
End Jffs2.

(** ** [linux/loop.h] *)

Module Loop.
Definition LO_NAME_SIZE : Z := 64.
Definition LO_KEY_SIZE : Z := 32.
Definition structs_loop_info : list (string * cty) :=
  [
  ("loop_info", Struct [("lo_number", int);
   ("lo_device", Asm_generic_posix_types.__kernel_old_dev_t); ("lo_inode", ulong);
   ("lo_rdevice", Asm_generic_posix_types.__kernel_old_dev_t); ("lo_offset", int);
   ("lo_encrypt_type", int); ("lo_encrypt_key_size", int); ("lo_flags", int);
   ("lo_name", Arr LO_NAME_SIZE char); ("lo_encrypt_key", Arr LO_KEY_SIZE uchar);
   ("lo_init", Arr 2 ulong); ("reserved", Arr 4 char)]);
  ("loop_info64", Struct [("lo_device", __u64); ("lo_inode", __u64); ("lo_rdevice", __u64);
   ("lo_offset", __u64); ("lo_sizelimit", __u64); ("lo_number", __u32);
   ("lo_encrypt_type", __u32); ("lo_encrypt_key_size", __u32); ("lo_flags", __u32);
   ("lo_file_name", Arr LO_NAME_SIZE __u8); ("lo_crypt_name", Arr LO_NAME_SIZE __u8);
   ("lo_encrypt_key", Arr LO_KEY_SIZE __u8); ("lo_init", Arr 2 __u64)])].
Definition loop_types : list (string * cty) := structs_loop_info.
End Loop.

(** ** [linux/minix_fs.h] *)

Module Minix_fs.
Definition structs_minix_inode : list (string * cty) :=
  [
  ("minix_inode", Struct [("i_mode", __u16); ("i_uid", __u16); ("i_size", __u32);
   ("i_time", __u32); ("i_gid", __u8); ("i_nlinks", __u8); ("i_zone", Arr 9 __u16)]);
  ("minix2_inode", Struct [("i_mode", __u16); ("i_nlinks", __u16); ("i_uid", __u16);
   ("i_gid", __u16); ("i_size", __u32); ("i_atime", __u32); ("i_mtime", __u32);
   ("i_ctime", __u32); ("i_zone", Arr 10 __u32)]);
  ("minix_super_block", Struct [("s_ninodes", __u16); ("s_nzones", __u16);
   ("s_imap_blocks", __u16); ("s_zmap_blocks", __u16); ("s_firstdatazone", __u16);
   ("s_log_zone_size", __u16); ("s_max_size", __u32); ("s_magic", __u16); ("s_state", __u16);
   ("s_zones", __u32)]);
  ("minix3_super_block", Struct [("s_ninodes", __u32); ("s_pad0", __u16);
   ("s_imap_blocks", __u16); ("s_zmap_blocks", __u16); ("s_firstdatazone", __u16);
   ("s_log_zone_size", __u16); ("s_pad1", __u16); ("s_max_size", __u32); ("s_zones", __u32);
   ("s_magic", __u16); ("s_pad2", __u16); ("s_blocksize", __u16); ("s_disk_version", __u8)]);
  ("minix_dir_entry", Struct [("inode", __u16); ("name", Arr 0 char)]);
  ("minix3_dir_entry", Struct [("inode", __u32); ("name", Arr 0 char)])].
Definition minix_fs_types : list (string * cty) := structs_minix_inode.
End Minix_fs.

(** ** [linux/mmc/ioctl.h] *)

Module Mmc_ioctl.
Definition MMC_IOC_MAX_RPMB_CMD : Z := 3.
Definition mmc_ioc_cmd : cty :=
  Struct [("write_flag", int); ("is_acmd", int); ("opcode", __u32); ("arg", __u32);
   ("response", Arr 4 __u32); ("flags", uint); ("blksz", uint); ("blocks", uint);
   ("postsleep_min_us", uint); ("postsleep_max_us", uint); ("data_timeout_ns", uint);
   ("cmd_timeout_ms", uint); ("__pad", __u32); ("data_ptr", __u64)].
Definition mmc_ioc_multi_cmd : cty :=
  Struct [("num_of_cmds", __u64); ("cmds", Arr 0 mmc_ioc_cmd)].
Definition mmc_ioc_rpmb : cty := Struct [("cmds", Arr MMC_IOC_MAX_RPMB_CMD mmc_ioc_cmd)].
Definition mmc_ioctl_types : list (string * cty) :=
  ([("mmc_ioc_cmd", mmc_ioc_cmd); ("mmc_ioc_multi_cmd", mmc_ioc_multi_cmd); ("mmc_ioc_rpmb",
   mmc_ioc_rpmb)])%list.
Definition mmc_ioctl_ioctls_1 : list command := [
  _IOWR "MMC_IOC_CMD" 0xb3 0 mmc_ioc_cmd;
  _IOWR "MMC_IOC_MULTI_CMD" 0xb3 1 mmc_ioc_multi_cmd].
Definition mmc_ioctl_ioctls_2 : list command := [
  _IOWR "MMC_IOC_RPMB_CMD" 0xb3 0 mmc_ioc_rpmb].
Definition mmc_ioctl_ioctls : list command :=
  (mmc_ioctl_ioctls_1 ++ mmc_ioctl_ioctls_2)%list.
End Mmc_ioctl.

(** ** [linux/msdos_fs.h] *)

Module Msdos_fs.
Definition MSDOS_NAME : Z := 11.
Definition __fat_dirent : cty :=
  Struct [("d_ino", long); ("d_off", __kernel_off_t); ("d_reclen", ushort);
   ("d_name", Arr 256 char)].
Definition fat_boot_sector : cty :=
  Struct [("ignored", Arr 3 __u8); ("system_id", Arr 8 __u8); ("sector_size", Arr 2 __u8);
   ("sec_per_clus", __u8); ("reserved", __le16); ("fats", __u8); ("dir_entries", Arr 2 __u8);
   ("sectors", Arr 2 __u8); ("media", __u8); ("fat_length", __le16); ("secs_track", __le16);
   ("heads", __le16); ("hidden", __le32); ("total_sect", __le32);
   ("", Union [("fat16", Struct [("drive_number", __u8); ("state", __u8); ("signature", __u8);
   ("vol_id", Arr 4 __u8); ("vol_label", Arr 11 __u8); ("fs_type", Arr 8 __u8)]);
   ("fat32", Struct [("length", __le32); ("flags", __le16); ("version", Arr 2 __u8);
   ("root_cluster", __le32); ("info_sector", __le16); ("backup_boot", __le16);
   ("reserved2", Arr 6 __le16); ("drive_number", __u8); ("state", __u8); ("signature", __u8);
   ("vol_id", Arr 4 __u8); ("vol_label", Arr 11 __u8); ("fs_type", Arr 8 __u8)])])].
Definition structs_fat_boot_fsinfo : list (string * cty) :=
  [
  ("fat_boot_fsinfo", Struct [("signature1", __le32); ("reserved1", Arr 120 __le32);
   ("signature2", __le32); ("free_clusters", __le32); ("next_cluster", __le32);
   ("reserved2", Arr 4 __le32)]);
  ("msdos_dir_entry", Struct [("name", Arr MSDOS_NAME __u8); ("attr", __u8); ("lcase", __u8);
   ("ctime_cs", __u8); ("ctime", __le16); ("cdate", __le16); ("adate", __le16);
   ("starthi", __le16); ("time", __le16); ("date", __le16); ("start", __le16); ("size", __le32)]);
  ("msdos_dir_slot", Struct [("id", __u8); ("name0_4", Arr 10 __u8); ("attr", __u8);
   ("reserved", __u8); ("alias_checksum", __u8); ("name5_10", Arr 12 __u8); ("start", __le16);
   ("name11_12", Arr 4 __u8)])].
Definition msdos_fs_types : list (string * cty) :=
  ([("__fat_dirent", __fat_dirent); ("fat_boot_sector", fat_boot_sector)] ++
   structs_fat_boot_fsinfo)%list.
Definition msdos_fs_ioctls : list command := [
  _IOR "VFAT_IOCTL_READDIR_BOTH" (chr "r") 1 (Arr 2 __fat_dirent);
  _IOR "VFAT_IOCTL_READDIR_SHORT" (chr "r") 2 (Arr 2 __fat_dirent);
  _IOR "FAT_IOCTL_GET_ATTRIBUTES" (chr "r") 16 __u32;
  _IOW "FAT_IOCTL_SET_ATTRIBUTES" (chr "r") 17 __u32;
  _IOR "FAT_IOCTL_GET_VOLUME_ID" (chr "r") 19 __u32].
End Msdos_fs.

(** ** [linux/mtio.h] *)

Module Mtio.
Definition mtop : cty := Struct [("mt_op", short); ("mt_count", int)].
Definition mtget : cty :=
  Struct [("mt_type", long); ("mt_resid", long); ("mt_dsreg", long); ("mt_gstat", long);
   ("mt_erreg", long); ("mt_fileno", __kernel_daddr_t); ("mt_blkno", __kernel_daddr_t)].
Definition mtpos : cty := Struct [("mt_blkno", long)].
Definition mtio_types : list (string * cty) :=
  ([("mtop", mtop); ("mtget", mtget); ("mtpos", mtpos)])%list.
Definition mtio_ioctls : list command := [
  _IOW "MTIOCTOP" (chr "m") 1 mtop;
  _IOR "MTIOCGET" (chr "m") 2 mtget;
  _IOR "MTIOCPOS" (chr "m") 3 mtpos].
End Mtio.

(** ** [linux/nbd.h] *)

Module Nbd.
Definition structs_nbd_request : list (string * cty) :=
  [
  ("nbd_request", Packed [("magic", __be32); ("type", __be32); ("handle", Arr 8 char);
   ("from", __be64); ("len", __be32)]);
  ("nbd_reply", Struct [("magic", __be32); ("error", __be32); ("handle", Arr 8 char)])].
Definition nbd_types : list (string * cty) := structs_nbd_request.
Definition nbd_ioctls : list command := [
  _IO "NBD_SET_SOCK" 0xab 0;
  _IO "NBD_SET_BLKSIZE" 0xab 1;
  _IO "NBD_SET_SIZE" 0xab 2;
  _IO "NBD_DO_IT" 0xab 3;
  _IO "NBD_CLEAR_SOCK" 0xab 4;
  _IO "NBD_CLEAR_QUE" 0xab 5;
  _IO "NBD_PRINT_DEBUG" 0xab 6;
  _IO "NBD_SET_SIZE_BLOCKS" 0xab 7;
  _IO "NBD_DISCONNECT" 0xab 8;
  _IO "NBD_SET_TIMEOUT" 0xab 9;
  _IO "NBD_SET_FLAGS" 0xab 10].
End Nbd.

(** ** [linux/ncp.h] *)

Module Ncp.
Definition ncp_request_header : cty :=
  Packed [("type", __u16); ("sequence", __u8); ("conn_low", __u8); ("task", __u8);
   ("conn_high", __u8); ("function", __u8); ("data", Arr 0 __u8)].
Definition ncp_reply_header : cty :=
  Packed [("type", __u16); ("sequence", __u8); ("conn_low", __u8); ("task", __u8);
   ("conn_high", __u8); ("completion_code", __u8); ("connection_state", __u8);
   ("data", Arr 0 __u8)].
Definition ncp_volume_info : cty :=
  Struct [("total_blocks", __u32); ("free_blocks", __u32); ("purgeable_blocks", __u32);
   ("not_yet_purgeable_blocks", __u32); ("total_dir_entries", __u32);
   ("available_dir_entries", __u32); ("sectors_per_block", __u8); ("volume_name", Arr 17 char)].
Definition nw_nfs_info : cty := Struct [("mode", __u32); ("rdev", __u32)].
Definition nw_info_struct : cty :=
  Packed [("spaceAlloc", __u32); ("attributes", __le32); ("flags", __u16);
   ("dataStreamSize", __le32); ("totalStreamSize", __le32); ("numberOfStreams", __u16);
   ("creationTime", __le16); ("creationDate", __le16); ("creatorID", __u32);
   ("modifyTime", __le16); ("modifyDate", __le16); ("modifierID", __u32);
   ("lastAccessDate", __le16); ("archiveTime", __u16); ("archiveDate", __u16);
   ("archiverID", __u32); ("inheritedRightsMask", __u16); ("dirEntNum", __le32);
   ("DosDirNum", __le32); ("volNumber", __u32); ("EADataSize", __u32); ("EAKeyCount", __u32);
   ("EAKeySize", __u32); ("NSCreator", __u32); ("nameLen", __u8); ("entryName", Arr 256 __u8)].
Definition structs_nw_modify_dos_info : list (string * cty) :=
  [
  ("nw_modify_dos_info", Packed [("attributes", __le32); ("creationDate", __le16);
   ("creationTime", __le16); ("creatorID", __u32); ("modifyDate", __le16);
   ("modifyTime", __le16); ("modifierID", __u32); ("archiveDate", __u16); ("archiveTime", __u16);
   ("archiverID", __u32); ("lastAccessDate", __le16); ("inheritanceGrantMask", __u16);
   ("inheritanceRevokeMask", __u16); ("maximumSpace", __u32)]);
  ("nw_search_sequence", Packed [("volNumber", __u8); ("dirBase", __u32); ("sequence", __u32)])].
Definition ncp_types : list (string * cty) :=
  ([("ncp_request_header", ncp_request_header); ("ncp_reply_header", ncp_reply_header);
   ("ncp_volume_info", ncp_volume_info); ("nw_nfs_info", nw_nfs_info); ("nw_info_struct",
   nw_info_struct)] ++ structs_nw_modify_dos_info)%list.
End Ncp.

(** ** [linux/ncp_fs.h] *)

Module Ncp_fs.
Definition structs_ncp_ioctl_request : list (string * cty) :=
  [
  ("ncp_ioctl_request", Struct [("function", uint); ("size", uint); ("data", ptr)]);
  ("ncp_fs_info", Struct [("version", int); ("addr", Ipx.sockaddr_ipx);
   ("mounted_uid", __kernel_uid_t); ("connection", int); ("buffer_size", int);
   ("volume_number", int); ("directory_id", __le32)]);
  ("ncp_fs_info_v2", Struct [("version", int); ("mounted_uid", ulong); ("connection", uint);
   ("buffer_size", uint); ("volume_number", uint); ("directory_id", __le32); ("dummy1", __u32);
   ("dummy2", __u32); ("dummy3", __u32)]);
  ("ncp_sign_init", Struct [("sign_root", Arr 8 char); ("sign_last", Arr 16 char)]);
  ("ncp_lock_ioctl", Struct [("cmd", int); ("origin", int); ("offset", uint); ("length", uint);
   ("timeout", int)]);
  ("ncp_setroot_ioctl", Struct [("volNumber", int); ("namespace", int); ("dirEntNum", __le32)]);
  ("ncp_objectname_ioctl", Struct [("auth_type", int); ("object_name_len", size_t);
   ("object_name", ptr)]);
  ("ncp_privatedata_ioctl", Struct [("len", size_t); ("data", ptr)])].
Definition ncp_ioctl_request : cty := type_in structs_ncp_ioctl_request "ncp_ioctl_request".
Definition ncp_fs_info : cty := type_in structs_ncp_ioctl_request "ncp_fs_info".
Definition ncp_fs_info_v2 : cty := type_in structs_ncp_ioctl_request "ncp_fs_info_v2".
Definition ncp_sign_init : cty := type_in structs_ncp_ioctl_request "ncp_sign_init".
Definition ncp_lock_ioctl : cty := type_in structs_ncp_ioctl_request "ncp_lock_ioctl".
Definition ncp_setroot_ioctl : cty := type_in structs_ncp_ioctl_request "ncp_setroot_ioctl".
Definition ncp_objectname_ioctl : cty := type_in structs_ncp_ioctl_request "ncp_objectname_ioctl".
Definition ncp_privatedata_ioctl : cty := type_in structs_ncp_ioctl_request "ncp_privatedata_ioctl".
Definition ncp_nls_ioctl : cty :=
  Struct [("codepage", Arr 21 uchar); ("iocharset", Arr 21 uchar)].
Definition ncp_fs_types : list (string * cty) :=
  (structs_ncp_ioctl_request ++ [("ncp_nls_ioctl", ncp_nls_ioctl)])%list.
Definition ncp_fs_ioctls : list command := [
  _IOR "NCP_IOC_NCPREQUEST" (chr "n") 1 ncp_ioctl_request;
  _IOW "NCP_IOC_GETMOUNTUID" (chr "n") 2 Asm_posix_types.__kernel_old_uid_t;
  _IOW "NCP_IOC_GETMOUNTUID2" (chr "n") 2 ulong;
  _IO "NCP_IOC_CONN_LOGGED_IN" (chr "n") 3;
  _IOWR "NCP_IOC_GET_FS_INFO" (chr "n") 4 ncp_fs_info;
  _IOWR "NCP_IOC_GET_FS_INFO_V2" (chr "n") 4 ncp_fs_info_v2;
  _IOR "NCP_IOC_SIGN_INIT" (chr "n") 5 ncp_sign_init;
  _IOR "NCP_IOC_SIGN_WANTED" (chr "n") 6 int;
  _IOW "NCP_IOC_SET_SIGN_WANTED" (chr "n") 6 int;
  _IOR "NCP_IOC_LOCKUNLOCK" (chr "n") 7 ncp_lock_ioctl;
  _IOW "NCP_IOC_GETROOT" (chr "n") 8 ncp_setroot_ioctl;
  _IOR "NCP_IOC_SETROOT" (chr "n") 8 ncp_setroot_ioctl;
  _IOWR "NCP_IOC_GETOBJECTNAME" (chr "n") 9 ncp_objectname_ioctl;
  _IOR "NCP_IOC_SETOBJECTNAME" (chr "n") 9 ncp_objectname_ioctl;
  _IOWR "NCP_IOC_GETPRIVATEDATA" (chr "n") 10 ncp_privatedata_ioctl;
  _IOR "NCP_IOC_SETPRIVATEDATA" (chr "n") 10 ncp_privatedata_ioctl;
  _IOWR "NCP_IOC_GETCHARSETS" (chr "n") 11 ncp_nls_ioctl;
  _IOR "NCP_IOC_SETCHARSETS" (chr "n") 11 ncp_nls_ioctl;
  _IOW "NCP_IOC_GETDENTRYTTL" (chr "n") 12 __u32;
  _IOR "NCP_IOC_SETDENTRYTTL" (chr "n") 12 __u32].
End Ncp_fs.

(** ** [linux/ncp_mount.h] *)

Module Ncp_mount.
Definition ncp_mount_data : cty :=
  Struct [("version", int); ("ncp_fd", uint); ("mounted_uid", __kernel_uid_t);
   ("wdog_pid", __kernel_pid_t); ("mounted_vol", Arr 17 uchar); ("time_out", uint);
   ("retry_count", uint); ("flags", uint); ("uid", __kernel_uid_t); ("gid", __kernel_gid_t);
   ("file_mode", __kernel_mode_t); ("dir_mode", __kernel_mode_t)].
Definition ncp_mount_data_v4 : cty :=
  Struct [("version", int); ("flags", ulong); ("mounted_uid", ulong); ("wdog_pid", long);
   ("ncp_fd", uint); ("time_out", uint); ("retry_count", uint); ("uid", ulong); ("gid", ulong);
   ("file_mode", ulong); ("dir_mode", ulong)].
Definition ncp_mount_types : list (string * cty) :=
  ([("ncp_mount_data", ncp_mount_data); ("ncp_mount_data_v4", ncp_mount_data_v4)])%list.
End Ncp_mount.

(** ** [linux/ndctl.h] *)

Module Ndctl.
Definition structs_nd_cmd_smart : list (string * cty) :=
  [
  ("nd_cmd_smart", Packed [("status", __u32); ("data", Arr 128 __u8)]);
  ("nd_cmd_smart_threshold", Packed [("status", __u32); ("data", Arr 8 __u8)]);
  ("nd_cmd_dimm_flags", Packed [("status", __u32); ("flags", __u32)]);
  ("nd_cmd_get_config_size", Packed [("status", __u32); ("config_size", __u32);
   ("max_xfer", __u32)]);
  ("nd_cmd_get_config_data_hdr", Packed [("in_offset", __u32); ("in_length", __u32);
   ("status", __u32); ("out_buf", Arr 0 __u8)]);
  ("nd_cmd_set_config_hdr", Packed [("in_offset", __u32); ("in_length", __u32);
   ("in_buf", Arr 0 __u8)]);
  ("nd_cmd_vendor_hdr", Packed [("opcode", __u32); ("in_length", __u32); ("in_buf", Arr 0 __u8)]);
  ("nd_cmd_vendor_tail", Packed [("status", __u32); ("out_length", __u32);
   ("out_buf", Arr 0 __u8)]);
  ("nd_cmd_ars_cap", Packed [("address", __u64); ("length", __u64); ("status", __u32);
   ("max_ars_out", __u32)]);
  ("nd_cmd_ars_start", Packed [("address", __u64); ("length", __u64); ("type", __u16);
   ("reserved", Arr 6 __u8); ("status", __u32)])].
Definition nd_cmd_smart : cty := type_in structs_nd_cmd_smart "nd_cmd_smart".
Definition nd_cmd_smart_threshold : cty := type_in structs_nd_cmd_smart "nd_cmd_smart_threshold".
Definition nd_cmd_dimm_flags : cty := type_in structs_nd_cmd_smart "nd_cmd_dimm_flags".
Definition nd_cmd_get_config_size : cty := type_in structs_nd_cmd_smart "nd_cmd_get_config_size".
Definition nd_cmd_get_config_data_hdr : cty := type_in structs_nd_cmd_smart "nd_cmd_get_config_data_hdr".
Definition nd_cmd_set_config_hdr : cty := type_in structs_nd_cmd_smart "nd_cmd_set_config_hdr".
Definition nd_cmd_vendor_hdr : cty := type_in structs_nd_cmd_smart "nd_cmd_vendor_hdr".
Definition nd_cmd_ars_cap : cty := type_in structs_nd_cmd_smart "nd_cmd_ars_cap".
Definition nd_cmd_ars_start : cty := type_in structs_nd_cmd_smart "nd_cmd_ars_start".
Definition nd_ars_record : cty :=
  Packed [("handle", __u32); ("flags", __u32); ("err_address", __u64); ("length", __u64)].
Definition nd_cmd_ars_status : cty :=
  Packed [("status", __u32); ("out_length", __u32); ("address", __u64); ("length", __u64);
   ("type", __u16); ("num_records", __u32); ("records", Arr 0 nd_ars_record)].
Definition ndctl_types : list (string * cty) :=
  (structs_nd_cmd_smart ++ [("nd_ars_record", nd_ars_record); ("nd_cmd_ars_status",
   nd_cmd_ars_status)])%list.
Definition ndctl_ioctls : list command := [
  _IOWR "ND_IOCTL_SMART" (chr "N") 1 nd_cmd_smart;
  _IOWR "ND_IOCTL_SMART_THRESHOLD" (chr "N") 2 nd_cmd_smart_threshold;
  _IOWR "ND_IOCTL_DIMM_FLAGS" (chr "N") 3 nd_cmd_dimm_flags;
  _IOWR "ND_IOCTL_GET_CONFIG_SIZE" (chr "N") 4 nd_cmd_get_config_size;
  _IOWR "ND_IOCTL_GET_CONFIG_DATA" (chr "N") 5 nd_cmd_get_config_data_hdr;
  _IOWR "ND_IOCTL_SET_CONFIG_DATA" (chr "N") 6 nd_cmd_set_config_hdr;
  _IOWR "ND_IOCTL_VENDOR" (chr "N") 9 nd_cmd_vendor_hdr;
  _IOWR "ND_IOCTL_ARS_CAP" (chr "N") 1 nd_cmd_ars_cap;
  _IOWR "ND_IOCTL_ARS_START" (chr "N") 2 nd_cmd_ars_start;
  _IOWR "ND_IOCTL_ARS_STATUS" (chr "N") 3 nd_cmd_ars_status].
End Ndctl.

(** ** [linux/nfs2.h] *)

Module Nfs2.
Definition NFS2_FHSIZE : Z := 32.
Definition nfs2_fh : cty := Struct [("data", Arr NFS2_FHSIZE char)].
Definition nfs2_types : list (string * cty) := [("nfs2_fh", nfs2_fh)].
End Nfs2.

(** ** [linux/nfs3.h] *)

Module Nfs3.
Definition NFS3_FHSIZE : Z := 64.
Definition nfs3_fh : cty := Struct [("size", ushort); ("data", Arr NFS3_FHSIZE uchar)].
Definition nfs3_types : list (string * cty) := [("nfs3_fh", nfs3_fh)].
End Nfs3.

(** ** [linux/nfs4_mount.h] *)

Module Nfs4_mount.
Definition nfs_string : cty := Struct [("len", uint); ("data", ptr)].
Definition nfs4_mount_data : cty :=
  Struct [("version", int); ("flags", int); ("rsize", int); ("wsize", int); ("timeo", int);
   ("retrans", int); ("acregmin", int); ("acregmax", int); ("acdirmin", int); ("acdirmax", int);
   ("client_addr", nfs_string); ("mnt_path", nfs_string); ("hostname", nfs_string);
   ("host_addrlen", uint); ("host_addr", ptr); ("proto", int); ("auth_flavourlen", int);
   ("auth_flavours", ptr)].
Definition nfs4_mount_types : list (string * cty) :=
  ([("nfs_string", nfs_string); ("nfs4_mount_data", nfs4_mount_data)])%list.
End Nfs4_mount.

(** ** [linux/nfs_idmap.h] *)

Module Nfs_idmap.
Definition IDMAP_NAMESZ : Z := 128.
Definition idmap_msg : cty :=
  Struct [("im_type", __u8); ("im_conv", __u8); ("im_name", Arr IDMAP_NAMESZ char);
   ("im_id", __u32); ("im_status", __u8)].
Definition nfs_idmap_types : list (string * cty) := [("idmap_msg", idmap_msg)].
End Nfs_idmap.

(** ** [linux/nfsd/cld.h] *)

Module Nfsd_cld.
Definition NFS4_OPAQUE_LIMIT : Z := 1024.
Definition cld_name : cty :=
  Packed [("cn_len", uint16_t); ("cn_id", Arr NFS4_OPAQUE_LIMIT uchar)].
Definition nfsd_cld_types : list (string * cty) := [("cld_name", cld_name)].
End Nfsd_cld.

(** ** [linux/nfsd/nfsfh.h] *)

Module Nfsd_nfsfh.
Definition structs_nfs_fhbase_old : list (string * cty) :=
  let nfs_fhbase_old := Struct [("fb_dcookie", __u32); ("fb_ino", __u32); ("fb_dirino", __u32);
   ("fb_dev", __u32); ("fb_xdev", __u32); ("fb_xino", __u32); ("fb_generation", __u32)] in
  let nfs_fhbase_new := Struct [("fb_version", __u8); ("fb_auth_type", __u8);
   ("fb_fsid_type", __u8); ("fb_fileid_type", __u8); ("fb_auth", Arr 1 __u32)] in
  [
  ("nfs_fhbase_old", nfs_fhbase_old);
  ("nfs_fhbase_new", nfs_fhbase_new);
  ("knfsd_fh", Struct [("fh_size", uint); ("fh_base", Union [("fh_old", nfs_fhbase_old);
   ("fh_pad", Arr 32 __u32); ("fh_new", nfs_fhbase_new)])])].
Definition nfsd_nfsfh_types : list (string * cty) := structs_nfs_fhbase_old.
End Nfsd_nfsfh.

(** ** [linux/nvme_ioctl.h] *)

Module Nvme_ioctl.
Definition structs_nvme_user_io : list (string * cty) :=
  [
  ("nvme_user_io", Struct [("opcode", __u8); ("flags", __u8); ("control", __u16);
   ("nblocks", __u16); ("rsvd", __u16); ("metadata", __u64); ("addr", __u64); ("slba", __u64);
   ("dsmgmt", __u32); ("reftag", __u32); ("apptag", __u16); ("appmask", __u16)]);
  ("nvme_passthru_cmd", Struct [("opcode", __u8); ("flags", __u8); ("rsvd1", __u16);
   ("nsid", __u32); ("cdw2", __u32); ("cdw3", __u32); ("metadata", __u64); ("addr", __u64);
   ("metadata_len", __u32); ("data_len", __u32); ("cdw10", __u32); ("cdw11", __u32);
   ("cdw12", __u32); ("cdw13", __u32); ("cdw14", __u32); ("cdw15", __u32); ("timeout_ms", __u32);
   ("result", __u32)])].
Definition nvme_user_io : cty := type_in structs_nvme_user_io "nvme_user_io".
Definition nvme_passthru_cmd : cty := type_in structs_nvme_user_io "nvme_passthru_cmd".
Definition nvme_ioctl_types : list (string * cty) := structs_nvme_user_io.
Definition nvme_ioctl_ioctls : list command := [
  _IO "NVME_IOCTL_ID" (chr "N") 64;
  _IOWR "NVME_IOCTL_ADMIN_CMD" (chr "N") 65 nvme_passthru_cmd;
  _IOW "NVME_IOCTL_SUBMIT_IO" (chr "N") 66 nvme_user_io;
  _IOWR "NVME_IOCTL_IO_CMD" (chr "N") 67 nvme_passthru_cmd;
  _IO "NVME_IOCTL_RESET" (chr "N") 68;
  _IO "NVME_IOCTL_SUBSYS_RESET" (chr "N") 69].
End Nvme_ioctl.

(** ** [linux/pg.h] *)

Module Pg.
Definition structs_pg_write_hdr : list (string * cty) :=
  [
  ("pg_write_hdr", Struct [("magic", char); ("func", char); ("dlen", int); ("timeout", int);
   ("packet", Arr 12 char)]);
  ("pg_read_hdr", Struct [("magic", char); ("scsi", char); ("dlen", int); ("duration", int);
   ("pad", Arr 12 char)])].
Definition pg_types : list (string * cty) := structs_pg_write_hdr.
End Pg.

(** ** [linux/pktcdvd.h] *)

Module Pktcdvd.
Definition pkt_ctrl_command : cty :=
  Struct [("command", __u32); ("dev_index", __u32); ("dev", __u32); ("pkt_dev", __u32);
   ("num_devices", __u32); ("padding", __u32)].
Definition pktcdvd_types : list (string * cty) := [("pkt_ctrl_command", pkt_ctrl_command)].
Definition pktcdvd_ioctls : list command := [
  _IOWR "PACKET_CTRL_CMD" (chr "X") 1 pkt_ctrl_command].
End Pktcdvd.

(** ** [linux/qnxtypes.h] *)

Module Qnxtypes.
Definition structs_qnx4_nxtnt_t : list (string * cty) :=
  [
  ("qnx4_nxtnt_t", __le16);
  ("qnx4_ftype_t", __u8);
  ("qnx4_xtnt_t", Struct [("xtnt_blk", __le32); ("xtnt_size", __le32)]);
  ("qnx4_mode_t", __le16);
  ("qnx4_muid_t", __le16);
  ("qnx4_mgid_t", __le16);
  ("qnx4_off_t", __le32);
  ("qnx4_nlink_t", __le16)].
Definition qnx4_nxtnt_t : cty := type_in structs_qnx4_nxtnt_t "qnx4_nxtnt_t".
Definition qnx4_ftype_t : cty := type_in structs_qnx4_nxtnt_t "qnx4_ftype_t".
Definition qnx4_xtnt_t : cty := type_in structs_qnx4_nxtnt_t "qnx4_xtnt_t".
Definition qnx4_mode_t : cty := type_in structs_qnx4_nxtnt_t "qnx4_mode_t".
Definition qnx4_muid_t : cty := type_in structs_qnx4_nxtnt_t "qnx4_muid_t".
Definition qnx4_mgid_t : cty := type_in structs_qnx4_nxtnt_t "qnx4_mgid_t".
Definition qnx4_off_t : cty := type_in structs_qnx4_nxtnt_t "qnx4_off_t".
Definition qnx4_nlink_t : cty := type_in structs_qnx4_nxtnt_t "qnx4_nlink_t".
Definition qnxtypes_types : list (string * cty) := structs_qnx4_nxtnt_t.
End Qnxtypes.

(** ** [linux/qnx4_fs.h] *)

Module Qnx4_fs.
Definition QNX4_MAX_XTNTS_PER_XBLK : Z := 60.
Definition QNX4_SHORT_NAME_MAX : Z := 16.
Definition QNX4_NAME_MAX : Z := 48.
Definition structs_qnx4_inode_entry : list (string * cty) :=
  let qnx4_inode_entry := Struct [("di_fname", Arr QNX4_SHORT_NAME_MAX char);
   ("di_size", Qnxtypes.qnx4_off_t); ("di_first_xtnt", Qnxtypes.qnx4_xtnt_t);
   ("di_xblk", __le32); ("di_ftime", __le32); ("di_mtime", __le32); ("di_atime", __le32);
   ("di_ctime", __le32); ("di_num_xtnts", Qnxtypes.qnx4_nxtnt_t);
   ("di_mode", Qnxtypes.qnx4_mode_t); ("di_uid", Qnxtypes.qnx4_muid_t);
   ("di_gid", Qnxtypes.qnx4_mgid_t); ("di_nlink", Qnxtypes.qnx4_nlink_t);
   ("di_zero", Arr 4 __u8); ("di_type", Qnxtypes.qnx4_ftype_t); ("di_status", __u8)] in
  [
  ("qnx4_inode_entry", qnx4_inode_entry);
  ("qnx4_link_info", Struct [("dl_fname", Arr QNX4_NAME_MAX char); ("dl_inode_blk", __le32);
   ("dl_inode_ndx", __u8); ("dl_spare", Arr 10 __u8); ("dl_status", __u8)]);
  ("qnx4_xblk", Struct [("xblk_next_xblk", __le32); ("xblk_prev_xblk", __le32);
   ("xblk_num_xtnts", __u8); ("xblk_spare", Arr 3 __u8); ("xblk_num_blocks", __le32);
   ("xblk_xtnts", Arr QNX4_MAX_XTNTS_PER_XBLK Qnxtypes.qnx4_xtnt_t);
   ("xblk_signature", Arr 8 char); ("xblk_first_xtnt", Qnxtypes.qnx4_xtnt_t)]);
  ("qnx4_super_block", Struct [("RootDir", qnx4_inode_entry); ("Inode", qnx4_inode_entry);
   ("Boot", qnx4_inode_entry); ("AltBoot", qnx4_inode_entry)])].
Definition qnx4_fs_types : list (string * cty) := structs_qnx4_inode_entry.
End Qnx4_fs.

(** ** [linux/quota.h] *)

Module Quota.
Definition if_dqblk : cty :=
  Struct [("dqb_bhardlimit", __u64); ("dqb_bsoftlimit", __u64); ("dqb_curspace", __u64);
   ("dqb_ihardlimit", __u64); ("dqb_isoftlimit", __u64); ("dqb_curinodes", __u64);
   ("dqb_btime", __u64); ("dqb_itime", __u64); ("dqb_valid", __u32)].
Definition if_dqinfo : cty :=
  Struct [("dqi_bgrace", __u64); ("dqi_igrace", __u64); ("dqi_flags", __u32); ("dqi_valid", __u32)].
Definition quota_types : list (string * cty) :=
  ([("if_dqblk", if_dqblk); ("if_dqinfo", if_dqinfo)])%list.
End Quota.

(** ** [linux/raid/md_p.h] *)

Module Raid_md_p.
Definition mdp_device_descriptor_s : cty :=
  Struct [("number", __u32); ("major", __u32); ("minor", __u32); ("raid_disk", __u32);
   ("state", __u32); ("reserved", Arr 27 __u32)].
Definition mdp_disk_t : cty := mdp_device_descriptor_s.
Definition mdp_superblock_1 : cty :=
  Struct [("magic", __le32); ("major_version", __le32); ("feature_map", __le32);
   ("pad0", __le32); ("set_uuid", Arr 16 __u8); ("set_name", Arr 32 char); ("ctime", __le64);
   ("level", __le32); ("layout", __le32); ("size", __le64); ("chunksize", __le32);
   ("raid_disks", __le32); ("bitmap_offset", __le32); ("new_level", __le32);
   ("reshape_position", __le64); ("delta_disks", __le32); ("new_layout", __le32);
   ("new_chunk", __le32); ("new_offset", __le32); ("data_offset", __le64); ("data_size", __le64);
   ("super_offset", __le64); ("", Union [("recovery_offset", __le64); ("journal_tail", __le64)]);
   ("dev_number", __le32); ("cnt_corrected_read", __le32); ("device_uuid", Arr 16 __u8);
   ("devflags", __u8); ("bblog_shift", __u8); ("bblog_size", __le16); ("bblog_offset", __le32);
   ("utime", __le64); ("events", __le64); ("resync_offset", __le64); ("sb_csum", __le32);
   ("max_dev", __le32); ("pad3", Arr 32 __u8); ("dev_roles", Arr 0 __le16)].
Definition r5l_payload_header : cty := Packed [("type", __le16); ("flags", __le16)].
Definition r5l_payload_data_parity : cty :=
  Packed [("header", r5l_payload_header); ("size", __le32); ("location", __le64);
   ("checksum", Arr 0 __le32)].
Definition r5l_payload_flush : cty :=
  Packed [("header", r5l_payload_header); ("size", __le32); ("flush_stripes", Arr 0 __le64)].
Definition r5l_meta_block : cty :=
  Packed [("magic", __le32); ("checksum", __le32); ("version", __u8); ("__zero_pading_1", __u8);
   ("__zero_pading_2", __le16); ("meta_size", __le32); ("seq", __le64); ("position", __le64);
   ("payloads", Arr 0 r5l_payload_header)].
Definition raid_md_p_types : list (string * cty) :=
  ([("mdp_device_descriptor_s", mdp_device_descriptor_s); ("mdp_disk_t", mdp_disk_t);
   ("mdp_superblock_1", mdp_superblock_1); ("r5l_payload_header", r5l_payload_header);
   ("r5l_payload_data_parity", r5l_payload_data_parity); ("r5l_payload_flush",
   r5l_payload_flush); ("r5l_meta_block", r5l_meta_block)])%list.
End Raid_md_p.

(** ** [linux/raid/md_u.h] *)

Module Raid_md_u.
Definition mdu_version_s : cty := Struct [("major", int); ("minor", int); ("patchlevel", int)].
Definition mdu_version_t : cty := mdu_version_s.
Definition mdu_array_info_s : cty :=
  Struct [("major_version", int); ("minor_version", int); ("patch_version", int); ("ctime", int);
   ("level", int); ("size", int); ("nr_disks", int); ("raid_disks", int); ("md_minor", int);
   ("not_persistent", int); ("utime", int); ("state", int); ("active_disks", int);
   ("working_disks", int); ("failed_disks", int); ("spare_disks", int); ("layout", int);
   ("chunk_size", int)].
Definition mdu_array_info_t : cty := mdu_array_info_s.
Definition mdu_disk_info_s : cty :=
  Struct [("number", int); ("major", int); ("minor", int); ("raid_disk", int); ("state", int)].
Definition structs_mdu_disk_info_t : list (string * cty) :=
  [
  ("mdu_disk_info_t", mdu_disk_info_s);
  ("mdu_start_info_s", Struct [("major", int); ("minor", int); ("raid_disk", int); ("state", int)])].
Definition mdu_disk_info_t : cty := type_in structs_mdu_disk_info_t "mdu_disk_info_t".
Definition mdu_start_info_s : cty := type_in structs_mdu_disk_info_t "mdu_start_info_s".
Definition structs_mdu_start_info_t : list (string * cty) :=
  [
  ("mdu_start_info_t", mdu_start_info_s);
  ("mdu_bitmap_file_s", Struct [("pathname", Arr 4096 char)])].
Definition mdu_bitmap_file_s : cty := type_in structs_mdu_start_info_t "mdu_bitmap_file_s".
Definition structs_mdu_bitmap_file_t : list (string * cty) :=
  [
  ("mdu_bitmap_file_t", mdu_bitmap_file_s);
  ("mdu_param_s", Struct [("personality", int); ("chunk_size", int); ("max_fault", int)])].
Definition mdu_bitmap_file_t : cty := type_in structs_mdu_bitmap_file_t "mdu_bitmap_file_t".
Definition mdu_param_s : cty := type_in structs_mdu_bitmap_file_t "mdu_param_s".
Definition mdu_param_t : cty := mdu_param_s.
Definition raid_md_u_types : list (string * cty) :=
  ([("mdu_version_s", mdu_version_s); ("mdu_version_t", mdu_version_t); ("mdu_array_info_s",
   mdu_array_info_s); ("mdu_array_info_t", mdu_array_info_t); ("mdu_disk_info_s",
   mdu_disk_info_s)] ++ structs_mdu_disk_info_t ++ structs_mdu_start_info_t ++
   structs_mdu_bitmap_file_t ++ [("mdu_param_t", mdu_param_t)])%list.
Definition raid_md_u_ioctls : list command := [
  _IOR "RAID_VERSION" 0x9 16 mdu_version_t;
  _IOR "GET_ARRAY_INFO" 0x9 17 mdu_array_info_t;
  _IOR "GET_DISK_INFO" 0x9 18 mdu_disk_info_t;
  _IO "RAID_AUTORUN" 0x9 20;
  _IOR "GET_BITMAP_FILE" 0x9 21 mdu_bitmap_file_t;
  _IO "CLEAR_ARRAY" 0x9 32;
  _IOW "ADD_NEW_DISK" 0x9 33 mdu_disk_info_t;
  _IO "HOT_REMOVE_DISK" 0x9 34;
  _IOW "SET_ARRAY_INFO" 0x9 35 mdu_array_info_t;
  _IO "SET_DISK_INFO" 0x9 36;
  _IO "WRITE_RAID_INFO" 0x9 37;
  _IO "UNPROTECT_ARRAY" 0x9 38;
  _IO "PROTECT_ARRAY" 0x9 39;
  _IO "HOT_ADD_DISK" 0x9 40;
  _IO "SET_DISK_FAULTY" 0x9 41;
  _IO "HOT_GENERATE_ERROR" 0x9 42;
  _IOW "SET_BITMAP_FILE" 0x9 43 int;
  _IOW "RUN_ARRAY" 0x9 48 mdu_param_t;
  _IO "STOP_ARRAY" 0x9 50;
  _IO "STOP_ARRAY_RO" 0x9 51;
  _IO "RESTART_ARRAY_RW" 0x9 52;
  _IO "CLUSTERED_DISK_NACK" 0x9 53].
End Raid_md_u.

(** ** [linux/raw.h] *)

Module Raw.
Definition raw_config_request : cty :=
  Struct [("raw_minor", int); ("block_major", __u64); ("block_minor", __u64)].
Definition raw_types : list (string * cty) := [("raw_config_request", raw_config_request)].
Definition raw_ioctls : list command := [
  _IO "RAW_SETBIND" 0xac 0;
  _IO "RAW_GETBIND" 0xac 1].
End Raw.

(** ** [linux/reiserfs_fs.h] *)

Module Reiserfs_fs.
Definition reiserfs_fs_ioctls : list command := [
  _IOW "REISERFS_IOC_UNPACK" 0xcd 1 long].
End Reiserfs_fs.

(** ** [linux/reiserfs_xattr.h] *)

Module Reiserfs_xattr.
Definition structs_reiserfs_xattr_header : list (string * cty) :=
  [
  ("reiserfs_xattr_header", Struct [("h_magic", __le32); ("h_hash", __le32)]);
  ("reiserfs_security_handle", Struct [("name", ptr); ("value", ptr); ("length", size_t)])].
Definition reiserfs_xattr_types : list (string * cty) := structs_reiserfs_xattr_header.
End Reiserfs_xattr.

(** ** [linux/romfs_fs.h] *)

Module Romfs_fs.
Definition structs_romfs_super_block : list (string * cty) :=
  [
  ("romfs_super_block", Struct [("word0", __be32); ("word1", __be32); ("size", __be32);
   ("checksum", __be32); ("name", Arr 0 char)]);
  ("romfs_inode", Struct [("next", __be32); ("spec", __be32); ("size", __be32);
   ("checksum", __be32); ("name", Arr 0 char)])].
Definition romfs_fs_types : list (string * cty) := structs_romfs_super_block.
End Romfs_fs.

(** ** [linux/udf_fs_i.h] *)

Module Udf_fs_i.
Definition udf_fs_i_ioctls : list command := [
  _IOR "UDF_GETEASIZE" (chr "l") 64 int;
  _IOR "UDF_GETEABLOCK" (chr "l") 65 ptr;
  _IOR "UDF_GETVOLIDENT" (chr "l") 66 ptr;
  _IOWR "UDF_RELOCATE_BLOCKS" (chr "l") 67 long].
End Udf_fs_i.

(** ** [mtd/inftl-user.h] *)

Module Mtd_inftl_user.
Definition structs_inftl_bci : list (string * cty) :=
  let inftl_bci := Packed [("ECCsig", Arr 6 __u8); ("Status", __u8); ("Status1", __u8)] in
  let inftl_unithead1 := Packed [("virtualUnitNo", __u16); ("prevUnitNo", __u16); ("ANAC", __u8);
   ("NACs", __u8); ("parityPerField", __u8); ("discarded", __u8)] in
  let inftl_unithead2 := Packed [("parityPerField", __u8); ("ANAC", __u8); ("prevUnitNo", __u16);
   ("virtualUnitNo", __u16); ("NACs", __u8); ("discarded", __u8)] in
  let inftl_unittail := Packed [("Reserved", Arr 4 __u8); ("EraseMark", __u16);
   ("EraseMark1", __u16)] in
  let inftl_uci := Union [("a", inftl_unithead1); ("b", inftl_unithead2); ("c", inftl_unittail)] in
  let INFTLPartition := Packed [("virtualUnits", __u32); ("firstUnit", __u32);
   ("lastUnit", __u32); ("flags", __u32); ("spareUnits", __u32); ("Reserved0", __u32);
   ("Reserved1", __u32)] in
  [
  ("inftl_bci", inftl_bci);
  ("inftl_unithead1", inftl_unithead1);
  ("inftl_unithead2", inftl_unithead2);
  ("inftl_unittail", inftl_unittail);
  ("inftl_uci", inftl_uci);
  ("inftl_oob", Struct [("b", inftl_bci); ("u", inftl_uci)]);
  ("INFTLPartition", INFTLPartition);
  ("INFTLMediaHeader", Packed [("bootRecordID", Arr 8 char); ("NoOfBootImageBlocks", __u32);
   ("NoOfBinaryPartitions", __u32); ("NoOfBDTLPartitions", __u32);
   ("BlockMultiplierBits", __u32); ("FormatFlags", __u32); ("OsakVersion", __u32);
   ("PercentUsed", __u32); ("Partitions", Arr 4 INFTLPartition)])].
Definition mtd_inftl_user_types : list (string * cty) := structs_inftl_bci.
End Mtd_inftl_user.

(** ** [mtd/mtd-abi.h] *)

Module Mtd_mtd_abi.
Definition MTD_MAX_OOBFREE_ENTRIES : Z := 8.
Definition MTD_MAX_ECCPOS_ENTRIES : Z := 64.
Definition structs_erase_info_user : list (string * cty) :=
  [
  ("erase_info_user", Struct [("start", __u32); ("length", __u32)]);
  ("erase_info_user64", Struct [("start", __u64); ("length", __u64)]);
  ("mtd_oob_buf", Struct [("start", __u32); ("length", __u32); ("ptr", ptr)]);
  ("mtd_oob_buf64", Struct [("start", __u64); ("pad", __u32); ("length", __u32);
   ("usr_ptr", __u64)])].
Definition erase_info_user : cty := type_in structs_erase_info_user "erase_info_user".
Definition erase_info_user64 : cty := type_in structs_erase_info_user "erase_info_user64".
Definition mtd_oob_buf : cty := type_in structs_erase_info_user "mtd_oob_buf".
Definition mtd_oob_buf64 : cty := type_in structs_erase_info_user "mtd_oob_buf64".
Definition mtd_write_req : cty :=
  Struct [("start", __u64); ("len", __u64); ("ooblen", __u64); ("usr_data", __u64);
   ("usr_oob", __u64); ("mode", __u8); ("padding", Arr 7 __u8)].
Definition structs_mtd_info_user : list (string * cty) :=
  [
  ("mtd_info_user", Struct [("type", __u8); ("flags", __u32); ("size", __u32);
   ("erasesize", __u32); ("writesize", __u32); ("oobsize", __u32); ("padding", __u64)]);
  ("region_info_user", Struct [("offset", __u32); ("erasesize", __u32); ("numblocks", __u32);
   ("regionindex", __u32)]);
  ("otp_info", Struct [("start", __u32); ("length", __u32); ("locked", __u32)])].
Definition mtd_info_user : cty := type_in structs_mtd_info_user "mtd_info_user".
Definition region_info_user : cty := type_in structs_mtd_info_user "region_info_user".
Definition otp_info : cty := type_in structs_mtd_info_user "otp_info".
Definition structs_nand_oobinfo : list (string * cty) :=
  [
  ("nand_oobinfo", Struct [("useecc", __u32); ("eccbytes", __u32);
   ("oobfree", Arr 8 (Arr 2 __u32)); ("eccpos", Arr 32 __u32)]);
  ("nand_oobfree", Struct [("offset", __u32); ("length", __u32)])].
Definition nand_oobinfo : cty := type_in structs_nand_oobinfo "nand_oobinfo".
Definition nand_oobfree : cty := type_in structs_nand_oobinfo "nand_oobfree".
Definition structs_nand_ecclayout_user : list (string * cty) :=
  [
  ("nand_ecclayout_user", Struct [("eccbytes", __u32);
   ("eccpos", Arr MTD_MAX_ECCPOS_ENTRIES __u32); ("oobavail", __u32);
   ("oobfree", Arr MTD_MAX_OOBFREE_ENTRIES nand_oobfree)]);
  ("mtd_ecc_stats", Struct [("corrected", __u32); ("failed", __u32); ("badblocks", __u32);
   ("bbtblocks", __u32)])].
Definition nand_ecclayout_user : cty := type_in structs_nand_ecclayout_user "nand_ecclayout_user".
Definition mtd_ecc_stats : cty := type_in structs_nand_ecclayout_user "mtd_ecc_stats".
Definition mtd_mtd_abi_types : list (string * cty) :=
  (structs_erase_info_user ++ [("mtd_write_req", mtd_write_req)] ++ structs_mtd_info_user ++
   structs_nand_oobinfo ++ structs_nand_ecclayout_user)%list.
Definition mtd_mtd_abi_ioctls : list command := [
  _IOR "MEMGETINFO" (chr "M") 1 mtd_info_user;
  _IOW "MEMERASE" (chr "M") 2 erase_info_user;
  _IOWR "MEMWRITEOOB" (chr "M") 3 mtd_oob_buf;
  _IOWR "MEMREADOOB" (chr "M") 4 mtd_oob_buf;
  _IOW "MEMLOCK" (chr "M") 5 erase_info_user;
  _IOW "MEMUNLOCK" (chr "M") 6 erase_info_user;
  _IOR "MEMGETREGIONCOUNT" (chr "M") 7 int;
  _IOWR "MEMGETREGIONINFO" (chr "M") 8 region_info_user;
  _IOR "MEMGETOOBSEL" (chr "M") 10 nand_oobinfo;
  _IOW "MEMGETBADBLOCK" (chr "M") 11 __kernel_loff_t;
  _IOW "MEMSETBADBLOCK" (chr "M") 12 __kernel_loff_t;
  _IOR "OTPSELECT" (chr "M") 13 int;
  _IOW "OTPGETREGIONCOUNT" (chr "M") 14 int;
  _IOW "OTPGETREGIONINFO" (chr "M") 15 otp_info;
  _IOR "OTPLOCK" (chr "M") 16 otp_info;
  _IOR "ECCGETLAYOUT" (chr "M") 17 nand_ecclayout_user;
  _IOR "ECCGETSTATS" (chr "M") 18 mtd_ecc_stats;
  _IO "MTDFILEMODE" (chr "M") 19;
  _IOW "MEMERASE64" (chr "M") 20 erase_info_user64;
  _IOWR "MEMWRITEOOB64" (chr "M") 21 mtd_oob_buf64;
  _IOWR "MEMREADOOB64" (chr "M") 22 mtd_oob_buf64;
  _IOR "MEMISLOCKED" (chr "M") 23 erase_info_user;
  _IOWR "MEMWRITE" (chr "M") 24 mtd_write_req].
End Mtd_mtd_abi.

(** ** [mtd/mtd-user.h] *)

Module Mtd_mtd_user.
Definition structs_mtd_info_t : list (string * cty) :=
  [
  ("mtd_info_t", Mtd_mtd_abi.mtd_info_user);
  ("erase_info_t", Mtd_mtd_abi.erase_info_user);
  ("region_info_t", Mtd_mtd_abi.region_info_user);
  ("nand_oobinfo_t", Mtd_mtd_abi.nand_oobinfo);
  ("nand_ecclayout_t", Mtd_mtd_abi.nand_ecclayout_user)].
Definition mtd_mtd_user_types : list (string * cty) := structs_mtd_info_t.
End Mtd_mtd_user.

(** ** [mtd/nftl-user.h] *)

Module Mtd_nftl_user.
Definition structs_nftl_bci : list (string * cty) :=
  let nftl_bci := Packed [("ECCSig", Arr 6 uchar); ("Status", __u8); ("Status1", __u8)] in
  let nftl_uci0 := Packed [("VirtUnitNum", __u16); ("ReplUnitNum", __u16);
   ("SpareVirtUnitNum", __u16); ("SpareReplUnitNum", __u16)] in
  let nftl_uci1 := Packed [("WearInfo", __u32); ("EraseMark", __u16); ("EraseMark1", __u16)] in
  let nftl_uci2 := Packed [("FoldMark", __u16); ("FoldMark1", __u16); ("unused", __u32)] in
  let nftl_uci := Union [("a", nftl_uci0); ("b", nftl_uci1); ("c", nftl_uci2)] in
  [
  ("nftl_bci", nftl_bci);
  ("nftl_uci0", nftl_uci0);
  ("nftl_uci1", nftl_uci1);
  ("nftl_uci2", nftl_uci2);
  ("nftl_uci", nftl_uci);
  ("nftl_oob", Struct [("b", nftl_bci); ("u", nftl_uci)]);
  ("NFTLMediaHeader", Packed [("DataOrgID", Arr 6 char); ("NumEraseUnits", __u16);
   ("FirstPhysicalEUN", __u16); ("FormattedSize", __u32); ("UnitSizeFactor", uchar)])].
Definition mtd_nftl_user_types : list (string * cty) := structs_nftl_bci.
End Mtd_nftl_user.

(** ** [mtd/ubi-user.h] *)

Module Mtd_ubi_user.
Definition UBI_MAX_RNVOL : Z := 32.
Definition structs_ubi_attach_req : list (string * cty) :=
  [
  ("ubi_attach_req", Struct [("ubi_num", __s32); ("mtd_num", __s32); ("vid_hdr_offset", __s32);
   ("max_beb_per1024", __s16); ("padding", Arr 10 __s8)]);
  ("ubi_mkvol_req", Packed [("vol_id", __s32); ("alignment", __s32); ("bytes", __s64);
   ("vol_type", __s8); ("padding1", __s8); ("name_len", __s16); ("padding2", Arr 4 __s8);
   ("name", Arr 128 char)]);
  ("ubi_rsvol_req", Packed [("bytes", __s64); ("vol_id", __s32)]);
  ("ubi_rnvol_req", Packed [("count", __s32); ("padding1", Arr 12 __s8);
   ("ents", Arr UBI_MAX_RNVOL (Struct [("vol_id", __s32); ("name_len", __s16);
   ("padding2", Arr 2 __s8); ("name", Arr 128 char)]))]);
  ("ubi_leb_change_req", Packed [("lnum", __s32); ("bytes", __s32); ("dtype", __s8);
   ("padding", Arr 7 __s8)]);
  ("ubi_map_req", Packed [("lnum", __s32); ("dtype", __s8); ("padding", Arr 3 __s8)])].
Definition ubi_attach_req : cty := type_in structs_ubi_attach_req "ubi_attach_req".
Definition ubi_mkvol_req : cty := type_in structs_ubi_attach_req "ubi_mkvol_req".
Definition ubi_rsvol_req : cty := type_in structs_ubi_attach_req "ubi_rsvol_req".
Definition ubi_rnvol_req : cty := type_in structs_ubi_attach_req "ubi_rnvol_req".
Definition ubi_map_req : cty := type_in structs_ubi_attach_req "ubi_map_req".
Definition structs_ubi_set_vol_prop_req : list (string * cty) :=
  [
  ("ubi_set_vol_prop_req", Packed [("property", __u8); ("padding", Arr 7 __u8); ("value", __u64)]);
  ("ubi_blkcreate_req", Packed [("padding", Arr 128 __s8)])].
Definition ubi_set_vol_prop_req : cty := type_in structs_ubi_set_vol_prop_req "ubi_set_vol_prop_req".
Definition ubi_blkcreate_req : cty := type_in structs_ubi_set_vol_prop_req "ubi_blkcreate_req".
Definition mtd_ubi_user_types : list (string * cty) :=
  (structs_ubi_attach_req ++ structs_ubi_set_vol_prop_req)%list.
Definition mtd_ubi_user_ioctls_1 : list command := [
  _IOW "UBI_IOCMKVOL" (chr "o") 0 ubi_mkvol_req;
  _IOW "UBI_IOCRMVOL" (chr "o") 1 __s32;
  _IOW "UBI_IOCRSVOL" (chr "o") 2 ubi_rsvol_req;
  _IOW "UBI_IOCRNVOL" (chr "o") 3 ubi_rnvol_req].
Definition mtd_ubi_user_ioctls_2 : list command := [
  _IOW "UBI_IOCATT" (chr "o") 64 ubi_attach_req;
  _IOW "UBI_IOCDET" (chr "o") 65 __s32].
Definition mtd_ubi_user_ioctls_3 : list command := [
  _IOW "UBI_IOCVOLUP" (chr "O") 0 __s64;
  _IOW "UBI_IOCEBER" (chr "O") 1 __s32;
  _IOW "UBI_IOCEBCH" (chr "O") 2 __s32;
  _IOW "UBI_IOCEBMAP" (chr "O") 3 ubi_map_req;
  _IOW "UBI_IOCEBUNMAP" (chr "O") 4 __s32;
  _IOR "UBI_IOCEBISMAP" (chr "O") 5 __s32;
  _IOW "UBI_IOCSETVOLPROP" (chr "O") 6 ubi_set_vol_prop_req;
  _IOW "UBI_IOCVOLCRBLK" (chr "O") 7 ubi_blkcreate_req;
  _IO "UBI_IOCVOLRMBLK" (chr "O") 8].
Definition mtd_ubi_user_ioctls : list command :=
  (mtd_ubi_user_ioctls_1 ++ mtd_ubi_user_ioctls_2 ++ mtd_ubi_user_ioctls_3)%list.
End Mtd_ubi_user.

(** ** [scsi/cxlflash_ioctl.h] *)

Module Scsi_cxlflash_ioctl.
Definition DK_CXLFLASH_VERIFY_SENSE_LEN : Z := 18.
Definition DK_CXLFLASH_MANAGE_LUN_WWID_LEN : Z := 16.
Definition dk_cxlflash_hdr : cty :=
  Struct [("version", __u16); ("rsvd", Arr 3 __u16); ("flags", __u64); ("return_flags", __u64)].
Definition structs_dk_cxlflash_attach : list (string * cty) :=
  [
  ("dk_cxlflash_attach", Struct [("hdr", dk_cxlflash_hdr); ("num_interrupts", __u64);
   ("context_id", __u64); ("mmio_size", __u64); ("block_size", __u64); ("adap_fd", __u64);
   ("last_lba", __u64); ("max_xfer", __u64); ("reserved", Arr 8 __u64)]);
  ("dk_cxlflash_detach", Struct [("hdr", dk_cxlflash_hdr); ("context_id", __u64);
   ("reserved", Arr 8 __u64)]);
  ("dk_cxlflash_udirect", Struct [("hdr", dk_cxlflash_hdr); ("context_id", __u64);
   ("rsrc_handle", __u64); ("last_lba", __u64); ("reserved", Arr 8 __u64)])].
Definition dk_cxlflash_attach : cty := type_in structs_dk_cxlflash_attach "dk_cxlflash_attach".
Definition dk_cxlflash_detach : cty := type_in structs_dk_cxlflash_attach "dk_cxlflash_detach".
Definition dk_cxlflash_udirect : cty := type_in structs_dk_cxlflash_attach "dk_cxlflash_udirect".
Definition structs_dk_cxlflash_uvirtual : list (string * cty) :=
  [
  ("dk_cxlflash_uvirtual", Struct [("hdr", dk_cxlflash_hdr); ("context_id", __u64);
   ("lun_size", __u64); ("rsrc_handle", __u64); ("last_lba", __u64); ("reserved", Arr 8 __u64)]);
  ("dk_cxlflash_release", Struct [("hdr", dk_cxlflash_hdr); ("context_id", __u64);
   ("rsrc_handle", __u64); ("reserved", Arr 8 __u64)]);
  ("dk_cxlflash_resize", Struct [("hdr", dk_cxlflash_hdr); ("context_id", __u64);
   ("rsrc_handle", __u64); ("req_size", __u64); ("last_lba", __u64); ("reserved", Arr 8 __u64)]);
  ("dk_cxlflash_clone", Struct [("hdr", dk_cxlflash_hdr); ("context_id_src", __u64);
   ("context_id_dst", __u64); ("adap_fd_src", __u64); ("reserved", Arr 8 __u64)])].
Definition dk_cxlflash_uvirtual : cty := type_in structs_dk_cxlflash_uvirtual "dk_cxlflash_uvirtual".
Definition dk_cxlflash_release : cty := type_in structs_dk_cxlflash_uvirtual "dk_cxlflash_release".
Definition dk_cxlflash_resize : cty := type_in structs_dk_cxlflash_uvirtual "dk_cxlflash_resize".
Definition dk_cxlflash_clone : cty := type_in structs_dk_cxlflash_uvirtual "dk_cxlflash_clone".
Definition dk_cxlflash_verify : cty :=
  Struct [("hdr", dk_cxlflash_hdr); ("context_id", __u64); ("rsrc_handle", __u64);
   ("hint", __u64); ("last_lba", __u64); ("sense_data", Arr DK_CXLFLASH_VERIFY_SENSE_LEN __u8);
   ("pad", Arr 6 __u8); ("reserved", Arr 8 __u64)].
Definition dk_cxlflash_recover_afu : cty :=
  Struct [("hdr", dk_cxlflash_hdr); ("reason", __u64); ("context_id", __u64);
   ("mmio_size", __u64); ("adap_fd", __u64); ("reserved", Arr 8 __u64)].
Definition structs_dk_cxlflash_manage_lun : list (string * cty) :=
  let dk_cxlflash_manage_lun := Struct [("hdr", dk_cxlflash_hdr);
   ("wwid", Arr DK_CXLFLASH_MANAGE_LUN_WWID_LEN __u8); ("reserved", Arr 8 __u64)] in
  [
  ("dk_cxlflash_manage_lun", dk_cxlflash_manage_lun);
  ("cxlflash_ioctls", Union [("attach", dk_cxlflash_attach); ("detach", dk_cxlflash_detach);
   ("udirect", dk_cxlflash_udirect); ("uvirtual", dk_cxlflash_uvirtual);
   ("release", dk_cxlflash_release); ("resize", dk_cxlflash_resize);
   ("clone", dk_cxlflash_clone); ("verify", dk_cxlflash_verify);
   ("recover_afu", dk_cxlflash_recover_afu); ("manage_lun", dk_cxlflash_manage_lun)])].
Definition dk_cxlflash_manage_lun : cty := type_in structs_dk_cxlflash_manage_lun "dk_cxlflash_manage_lun".
Definition scsi_cxlflash_ioctl_types : list (string * cty) :=
  ([("dk_cxlflash_hdr", dk_cxlflash_hdr)] ++ structs_dk_cxlflash_attach ++
   structs_dk_cxlflash_uvirtual ++ [("dk_cxlflash_verify", dk_cxlflash_verify);
   ("dk_cxlflash_recover_afu", dk_cxlflash_recover_afu)] ++
   structs_dk_cxlflash_manage_lun)%list.
Definition scsi_cxlflash_ioctl_ioctls : list command := [
  _IOWR "DK_CXLFLASH_ATTACH" 0xca 128 dk_cxlflash_attach;
  _IOWR "DK_CXLFLASH_USER_DIRECT" 0xca 129 dk_cxlflash_udirect;
  _IOWR "DK_CXLFLASH_RELEASE" 0xca 130 dk_cxlflash_release;
  _IOWR "DK_CXLFLASH_DETACH" 0xca 131 dk_cxlflash_detach;
  _IOWR "DK_CXLFLASH_VERIFY" 0xca 132 dk_cxlflash_verify;
  _IOWR "DK_CXLFLASH_RECOVER_AFU" 0xca 133 dk_cxlflash_recover_afu;
  _IOWR "DK_CXLFLASH_MANAGE_LUN" 0xca 134 dk_cxlflash_manage_lun;
  _IOWR "DK_CXLFLASH_USER_VIRTUAL" 0xca 135 dk_cxlflash_uvirtual;
  _IOWR "DK_CXLFLASH_VLUN_RESIZE" 0xca 136 dk_cxlflash_resize;
  _IOWR "DK_CXLFLASH_VLUN_CLONE" 0xca 137 dk_cxlflash_clone].
End Scsi_cxlflash_ioctl.

(** ** [scsi/fc/fc_els.h] *)

Module Scsi_fc_fc_els.
Definition structs_fc_els_ls_acc : list (string * cty) :=
  [
  ("fc_els_ls_acc", Struct [("la_cmd", __u8); ("la_resv", Arr 3 __u8)]);
  ("fc_els_ls_rjt", Struct [("er_cmd", __u8); ("er_resv", Arr 4 __u8); ("er_reason", __u8);
   ("er_explan", __u8); ("er_vendor", __u8)])].
Definition fc_els_csp : cty :=
  Struct [("sp_hi_ver", __u8); ("sp_lo_ver", __u8); ("sp_bb_cred", __be16);
   ("sp_features", __be16); ("sp_bb_data", __be16);
   ("sp_u", Union [("sp_plogi", Struct [("_sp_tot_seq", __be16); ("_sp_rel_off", __be16)]);
   ("sp_flogi_acc", Struct [("_sp_r_a_tov", __be32)])]); ("sp_e_d_tov", __be32)].
Definition fc_els_cssp : cty :=
  Struct [("cp_class", __be16); ("cp_init", __be16); ("cp_recip", __be16); ("cp_rdfs", __be16);
   ("cp_con_seq", __be16); ("cp_ee_cred", __be16); ("cp_resv1", __u8); ("cp_open_seq", __u8);
   ("_cp_resv2", Arr 2 __u8)].
Definition structs_fc_els_flogi : list (string * cty) :=
  [
  ("fc_els_flogi", Packed [("fl_cmd", __u8); ("_fl_resvd", Arr 3 __u8); ("fl_csp", fc_els_csp);
   ("fl_wwpn", __be64); ("fl_wwnn", __be64); ("fl_cssp", Arr 4 fc_els_cssp);
   ("fl_vend", Arr 16 __u8)]);
  ("fc_els_spp", Struct [("spp_type", __u8); ("spp_type_ext", __u8); ("spp_flags", __u8);
   ("_spp_resvd", __u8); ("spp_orig_pa", __be32); ("spp_resp_pa", __be32);
   ("spp_params", __be32)])].
Definition structs_fc_els_rrq : list (string * cty) :=
  [
  ("fc_els_rrq", Struct [("rrq_cmd", __u8); ("rrq_zero", Arr 3 __u8); ("rrq_resvd", __u8);
   ("rrq_s_id", Arr 3 __u8); ("rrq_ox_id", __be16); ("rrq_rx_id", __be16)]);
  ("fc_els_rec", Struct [("rec_cmd", __u8); ("rec_zero", Arr 3 __u8); ("rec_resvd", __u8);
   ("rec_s_id", Arr 3 __u8); ("rec_ox_id", __be16); ("rec_rx_id", __be16)]);
  ("fc_els_rec_acc", Struct [("reca_cmd", __u8); ("reca_zero", Arr 3 __u8);
   ("reca_ox_id", __be16); ("reca_rx_id", __be16); ("reca_resvd1", __u8);
   ("reca_ofid", Arr 3 __u8); ("reca_resvd2", __u8); ("reca_rfid", Arr 3 __u8);
   ("reca_fc4value", __be32); ("reca_e_stat", __be32)]);
  ("fc_els_prli", Struct [("prli_cmd", __u8); ("prli_spp_len", __u8); ("prli_len", __be16)]);
  ("fc_els_prlo", Struct [("prlo_cmd", __u8); ("prlo_obs", __u8); ("prlo_len", __be16)]);
  ("fc_els_adisc", Packed [("adisc_cmd", __u8); ("adisc_resv", Arr 3 __u8);
   ("adisc_resv1", __u8); ("adisc_hard_addr", Arr 3 __u8); ("adisc_wwpn", __be64);
   ("adisc_wwnn", __be64); ("adisc_resv2", __u8); ("adisc_port_id", Arr 3 __u8)]);
  ("fc_els_logo", Struct [("fl_cmd", __u8); ("fl_zero", Arr 3 __u8); ("fl_resvd", __u8);
   ("fl_n_port_id", Arr 3 __u8); ("fl_n_port_wwn", __be64)]);
  ("fc_els_rtv", Struct [("rtv_cmd", __u8); ("rtv_zero", Arr 3 __u8)]);
  ("fc_els_rtv_acc", Struct [("rtv_cmd", __u8); ("rtv_zero", Arr 3 __u8);
   ("rtv_r_a_tov", __be32); ("rtv_e_d_tov", __be32); ("rtv_toq", __be32)])].
Definition fc_els_scr : cty :=
  Struct [("scr_cmd", __u8); ("scr_resv", Arr 6 __u8); ("scr_reg_func", __u8)].
Definition structs_fc_els_rscn : list (string * cty) :=
  [
  ("fc_els_rscn", Struct [("rscn_cmd", __u8); ("rscn_page_len", __u8); ("rscn_plen", __be16)]);
  ("fc_els_rscn_page", Struct [("rscn_page_flags", __u8); ("rscn_fid", Arr 3 __u8)])].
Definition fc_els_rnid : cty :=
  Struct [("rnid_cmd", __u8); ("rnid_resv", Arr 3 __u8); ("rnid_fmt", __u8);
   ("rnid_resv2", Arr 3 __u8)].
Definition structs_fc_els_rnid_resp : list (string * cty) :=
  [
  ("fc_els_rnid_resp", Struct [("rnid_cmd", __u8); ("rnid_resv", Arr 3 __u8); ("rnid_fmt", __u8);
   ("rnid_cid_len", __u8); ("rnid_resv2", __u8); ("rnid_sid_len", __u8)]);
  ("fc_els_rnid_cid", Struct [("rnid_wwpn", __be64); ("rnid_wwnn", __be64)]);
  ("fc_els_rnid_gen", Struct [("rnid_vend_id", Arr 16 __u8); ("rnid_atype", __be32);
   ("rnid_phys_port", __be32); ("rnid_att_nodes", __be32); ("rnid_node_mgmt", __u8);
   ("rnid_ip_ver", __u8); ("rnid_prot_port", __be16); ("rnid_ip_addr", Arr 4 __be32);
   ("rnid_resvd", Arr 2 __u8); ("rnid_vend_spec", __be16)])].
Definition structs_fc_els_rpl : list (string * cty) :=
  let fc_els_pnb := Struct [("pnb_phys_pn", __be32); ("pnb_resv", __u8);
   ("pnb_port_id", Arr 3 __u8); ("pnb_wwpn", __be64)] in
  [
  ("fc_els_rpl", Struct [("rpl_cmd", __u8); ("rpl_resv", Arr 5 __u8); ("rpl_max_size", __be16);
   ("rpl_resv1", __u8); ("rpl_index", Arr 3 __u8)]);
  ("fc_els_pnb", fc_els_pnb);
  ("fc_els_rpl_resp", Struct [("rpl_cmd", __u8); ("rpl_resv1", __u8); ("rpl_plen", __be16);
   ("rpl_resv2", __u8); ("rpl_llen", Arr 3 __u8); ("rpl_resv3", __u8); ("rpl_index", Arr 3 __u8);
   ("rpl_pnb", Arr 1 fc_els_pnb)]);
  ("fc_els_lesb", Struct [("lesb_link_fail", __be32); ("lesb_sync_loss", __be32);
   ("lesb_sig_loss", __be32); ("lesb_prim_err", __be32); ("lesb_inv_word", __be32);
   ("lesb_inv_crc", __be32)]);
  ("fc_els_rps", Struct [("rps_cmd", __u8); ("rps_resv", Arr 2 __u8); ("rps_flag", __u8);
   ("rps_port_spec", __be64)])].
Definition fc_els_lesb : cty := type_in structs_fc_els_rpl "fc_els_lesb".
Definition fc_els_rps_resp : cty :=
  Struct [("rps_cmd", __u8); ("rps_resv", Arr 2 __u8); ("rps_flag", __u8);
   ("rps_resv2", Arr 2 __u8); ("rps_status", __be16); ("rps_lesb", fc_els_lesb)].
Definition fc_els_lirr : cty :=
  Struct [("lirr_cmd", __u8); ("lirr_resv", Arr 3 __u8); ("lirr_func", __u8); ("lirr_fmt", __u8);
   ("lirr_resv2", Arr 2 __u8)].
Definition fc_els_srl : cty :=
  Struct [("srl_cmd", __u8); ("srl_resv", Arr 3 __u8); ("srl_flag", __u8);
   ("srl_flag_param", Arr 3 __u8)].
Definition structs_fc_els_rls : list (string * cty) :=
  [
  ("fc_els_rls", Struct [("rls_cmd", __u8); ("rls_resv", Arr 4 __u8); ("rls_port_id", Arr 3 __u8)]);
  ("fc_els_rls_resp", Struct [("rls_cmd", __u8); ("rls_resv", Arr 3 __u8);
   ("rls_lesb", fc_els_lesb)]);
  ("fc_els_rlir", Struct [("rlir_cmd", __u8); ("rlir_resv", Arr 3 __u8); ("rlir_fmt", __u8);
   ("rlir_clr_len", __u8); ("rlir_cld_len", __u8); ("rlir_slr_len", __u8)]);
  ("fc_els_clir", Struct [("clir_wwpn", __be64); ("clir_wwnn", __be64); ("clir_port_type", __u8);
   ("clir_port_id", Arr 3 __u8); ("clir_conn_wwpn", __be64); ("clir_conn_wwnn", __be64);
   ("clir_fab_name", __be64); ("clir_phys_port", __be32); ("clir_trans_id", __be32);
   ("clir_resv", Arr 3 __u8); ("clir_ts_fmt", __u8); ("clir_timestamp", __be64)])].
Definition fc_els_clid : cty :=
  Struct [("clid_iq", __u8); ("clid_ic", __u8); ("clid_epai", __be16)].
Definition scsi_fc_fc_els_types : list (string * cty) :=
  (structs_fc_els_ls_acc ++ [("fc_els_csp", fc_els_csp); ("fc_els_cssp", fc_els_cssp)] ++
   structs_fc_els_flogi ++ structs_fc_els_rrq ++ [("fc_els_scr", fc_els_scr)] ++
   structs_fc_els_rscn ++ [("fc_els_rnid", fc_els_rnid)] ++ structs_fc_els_rnid_resp ++
   structs_fc_els_rpl ++ [("fc_els_rps_resp", fc_els_rps_resp); ("fc_els_lirr", fc_els_lirr);
   ("fc_els_srl", fc_els_srl)] ++ structs_fc_els_rls ++ [("fc_els_clid", fc_els_clid)])%list.
End Scsi_fc_fc_els.

(** ** [scsi/fc/fc_fs.h] *)

Module Scsi_fc_fc_fs.
Definition fc_frame_header : cty :=
  Struct [("fh_r_ctl", __u8); ("fh_d_id", Arr 3 __u8); ("fh_cs_ctl", __u8);
   ("fh_s_id", Arr 3 __u8); ("fh_type", __u8); ("fh_f_ctl", Arr 3 __u8); ("fh_seq_id", __u8);
   ("fh_df_ctl", __u8); ("fh_seq_cnt", __be16); ("fh_ox_id", __be16); ("fh_rx_id", __be16);
   ("fh_parm_offset", __be32)].
Definition structs_fc_ba_acc : list (string * cty) :=
  [
  ("fc_ba_acc", Struct [("ba_seq_id_val", __u8); ("ba_seq_id", __u8); ("ba_resvd", Arr 2 __u8);
   ("ba_ox_id", __be16); ("ba_rx_id", __be16); ("ba_low_seq_cnt", __be16);
   ("ba_high_seq_cnt", __be16)]);
  ("fc_ba_rjt", Struct [("br_resvd", __u8); ("br_reason", __u8); ("br_explan", __u8);
   ("br_vendor", __u8)])].
Definition fc_pf_rjt : cty :=
  Struct [("rj_action", __u8); ("rj_reason", __u8); ("rj_resvd", __u8); ("rj_vendor", __u8)].
Definition scsi_fc_fc_fs_types : list (string * cty) :=
  ([("fc_frame_header", fc_frame_header)] ++ structs_fc_ba_acc ++ [("fc_pf_rjt",
   fc_pf_rjt)])%list.
End Scsi_fc_fc_fs.

(** ** [scsi/fc/fc_gs.h] *)

Module Scsi_fc_fc_gs.
Definition fc_ct_hdr : cty :=
  Struct [("ct_rev", __u8); ("ct_in_id", Arr 3 __u8); ("ct_fs_type", __u8);
   ("ct_fs_subtype", __u8); ("ct_options", __u8); ("_ct_resvd1", __u8); ("ct_cmd", __be16);
   ("ct_mr_size", __be16); ("_ct_resvd2", __u8); ("ct_reason", __u8); ("ct_explan", __u8);
   ("ct_vendor", __u8)].
Definition scsi_fc_fc_gs_types : list (string * cty) := [("fc_ct_hdr", fc_ct_hdr)].
End Scsi_fc_fc_gs.

(** ** [scsi/fc/fc_ns.h] *)

Module Scsi_fc_fc_ns.
Definition structs_fc_ns_pt_obj : list (string * cty) :=
  [
  ("fc_ns_pt_obj", Struct [("pt_type", __u8)]);
  ("fc_ns_fid", Struct [("fp_flags", __u8); ("fp_fid", Arr 3 __u8)])].
Definition fc_ns_fid : cty := type_in structs_fc_ns_pt_obj "fc_ns_fid".
Definition structs_fc_ns_fts : list (string * cty) :=
  let fc_ns_fts := Struct [("ff_type_map", Arr 8 __be32)] in
  [
  ("fc_ns_fts", fc_ns_fts);
  ("fc_ns_ff", Struct [("fd_feat", Arr 32 __be32)]);
  ("fc_ns_gid_pt", Struct [("fn_pt_type", __u8); ("fn_domain_id_scope", __u8);
   ("fn_area_id_scope", __u8); ("fn_resvd", __u8)]);
  ("fc_ns_gid_ft", Struct [("fn_resvd", __u8); ("fn_domain_id_scope", __u8);
   ("fn_area_id_scope", __u8); ("fn_fc4_type", __u8)]);
  ("fc_gpn_ft_resp", Struct [("fp_flags", __u8); ("fp_fid", Arr 3 __u8); ("fp_resvd", __be32);
   ("fp_wwpn", __be64)]);
  ("fc_ns_gid_pn", Struct [("fn_wwpn", __be64)]);
  ("fc_gid_pn_resp", Struct [("fp_resvd", __u8); ("fp_fid", Arr 3 __u8)]);
  ("fc_gspn_resp", Struct [("fp_name_len", __u8); ("fp_name", Arr 0 char)]);
  ("fc_ns_rft_id", Struct [("fr_fid", fc_ns_fid); ("fr_fts", fc_ns_fts)]);
  ("fc_ns_rn_id", Packed [("fr_fid", fc_ns_fid); ("fr_wwn", __be64)]);
  ("fc_ns_rsnn", Packed [("fr_wwn", __be64); ("fr_name_len", __u8); ("fr_name", Arr 0 char)]);
  ("fc_ns_rspn", Packed [("fr_fid", fc_ns_fid); ("fr_name_len", __u8); ("fr_name", Arr 0 char)]);
  ("fc_ns_rff_id", Packed [("fr_fid", fc_ns_fid); ("fr_resvd", Arr 2 __u8); ("fr_feat", __u8);
   ("fr_type", __u8)])].
Definition scsi_fc_fc_ns_types : list (string * cty) :=
  (structs_fc_ns_pt_obj ++ structs_fc_ns_fts)%list.
End Scsi_fc_fc_ns.

(** ** [scsi/scsi_bsg_fc.h] *)

Module Scsi_scsi_bsg_fc.
Definition structs_fc_bsg_host_add_rport : list (string * cty) :=
  [
  ("fc_bsg_host_add_rport", Struct [("reserved", uint8_t); ("port_id", Arr 3 uint8_t)]);
  ("fc_bsg_host_del_rport", Struct [("reserved", uint8_t); ("port_id", Arr 3 uint8_t)]);
  ("fc_bsg_host_els", Struct [("command_code", uint8_t); ("port_id", Arr 3 uint8_t)])].
Definition fc_bsg_host_add_rport : cty := type_in structs_fc_bsg_host_add_rport "fc_bsg_host_add_rport".
Definition fc_bsg_host_del_rport : cty := type_in structs_fc_bsg_host_add_rport "fc_bsg_host_del_rport".
Definition fc_bsg_host_els : cty := type_in structs_fc_bsg_host_add_rport "fc_bsg_host_els".
Definition fc_bsg_ctels_reply : cty :=
  Struct [("status", uint32_t); ("rjt_data", Struct [("action", uint8_t);
   ("reason_code", uint8_t); ("reason_explanation", uint8_t); ("vendor_unique", uint8_t)])].
Definition structs_fc_bsg_host_ct : list (string * cty) :=
  let fc_bsg_host_ct := Struct [("reserved", uint8_t); ("port_id", Arr 3 uint8_t);
   ("preamble_word0", uint32_t); ("preamble_word1", uint32_t); ("preamble_word2", uint32_t)] in
  let fc_bsg_host_vendor := Struct [("vendor_id", uint64_t); ("vendor_cmd", Arr 0 uint32_t)] in
  let fc_bsg_host_vendor_reply := Struct [("vendor_rsp", Arr 0 uint32_t)] in
  let fc_bsg_rport_els := Struct [("els_code", uint8_t)] in
  let fc_bsg_rport_ct := Struct [("preamble_word0", uint32_t); ("preamble_word1", uint32_t);
   ("preamble_word2", uint32_t)] in
  [
  ("fc_bsg_host_ct", fc_bsg_host_ct);
  ("fc_bsg_host_vendor", fc_bsg_host_vendor);
  ("fc_bsg_host_vendor_reply", fc_bsg_host_vendor_reply);
  ("fc_bsg_rport_els", fc_bsg_rport_els);
  ("fc_bsg_rport_ct", fc_bsg_rport_ct);
  ("fc_bsg_request", Packed [("msgcode", uint32_t);
   ("rqst_data", Union [("h_addrport", fc_bsg_host_add_rport);
   ("h_delrport", fc_bsg_host_del_rport); ("h_els", fc_bsg_host_els); ("h_ct", fc_bsg_host_ct);
   ("h_vendor", fc_bsg_host_vendor); ("r_els", fc_bsg_rport_els); ("r_ct", fc_bsg_rport_ct)])]);
  ("fc_bsg_reply", Struct [("result", uint32_t); ("reply_payload_rcv_len", uint32_t);
   ("reply_data", Union [("vendor_reply", fc_bsg_host_vendor_reply);
   ("ctels_reply", fc_bsg_ctels_reply)])])].
Definition scsi_scsi_bsg_fc_types : list (string * cty) :=
  (structs_fc_bsg_host_add_rport ++ [("fc_bsg_ctels_reply", fc_bsg_ctels_reply)] ++
   structs_fc_bsg_host_ct)%list.
End Scsi_scsi_bsg_fc.

(** ** [scsi/scsi_ioctl.h] *)

Module Scsi_scsi_ioctl.
Definition scsi_ioctl_command : cty :=
  Struct [("inlen", uint); ("outlen", uint); ("data", Arr 0 uchar)].
Definition Scsi_Ioctl_Command : cty := scsi_ioctl_command.
Definition scsi_idlun : cty := Struct [("dev_id", __u32); ("host_unique_id", __u32)].
Definition Scsi_Idlun : cty := scsi_idlun.
Definition scsi_fctargaddress : cty :=
  Struct [("host_port_id", __u32); ("host_wwn", Arr 8 uchar)].
Definition Scsi_FCTargAddress : cty := scsi_fctargaddress.
Definition scsi_scsi_ioctl_types : list (string * cty) :=
  ([("scsi_ioctl_command", scsi_ioctl_command); ("Scsi_Ioctl_Command", Scsi_Ioctl_Command);
   ("scsi_idlun", scsi_idlun); ("Scsi_Idlun", Scsi_Idlun); ("scsi_fctargaddress",
   scsi_fctargaddress); ("Scsi_FCTargAddress", Scsi_FCTargAddress)])%list.
End Scsi_scsi_ioctl.

(** ** [scsi/scsi_netlink.h] *)

Module Scsi_scsi_netlink.
Definition scsi_nl_hdr : cty :=
  Aligned 8 (Struct [("version", uint8_t); ("transport", uint8_t); ("magic", uint16_t);
   ("msgtype", uint16_t); ("msglen", uint16_t)]).
Definition scsi_nl_host_vendor_msg : cty :=
  Aligned 8 (Struct [("snlh", scsi_nl_hdr); ("vendor_id", uint64_t); ("host_no", uint16_t);
   ("vmsg_datalen", uint16_t)]).
Definition scsi_scsi_netlink_types : list (string * cty) :=
  ([("scsi_nl_hdr", scsi_nl_hdr); ("scsi_nl_host_vendor_msg", scsi_nl_host_vendor_msg)])%list.
End Scsi_scsi_netlink.

(** ** [scsi/scsi_netlink_fc.h] *)

Module Scsi_scsi_netlink_fc.
Definition fc_nl_event : cty :=
  Aligned 8 (Struct [("snlh", Scsi_scsi_netlink.scsi_nl_hdr); ("seconds", uint64_t);
   ("vendor_id", uint64_t); ("host_no", uint16_t); ("event_datalen", uint16_t);
   ("event_num", uint32_t); ("event_code", uint32_t); ("event_data", uint32_t)]).
Definition scsi_scsi_netlink_fc_types : list (string * cty) := [("fc_nl_event", fc_nl_event)].
End Scsi_scsi_netlink_fc.

(** ** [scsi/sg.h] *)

Module Scsi_sg.
Definition sg_iovec : cty := Struct [("iov_base", ptr); ("iov_len", size_t)].
Definition sg_iovec_t : cty := sg_iovec.
Definition sg_io_hdr : cty :=
  Struct [("interface_id", int); ("dxfer_direction", int); ("cmd_len", uchar);
   ("mx_sb_len", uchar); ("iovec_count", ushort); ("dxfer_len", uint); ("dxferp", ptr);
   ("cmdp", ptr); ("sbp", ptr); ("timeout", uint); ("flags", uint); ("pack_id", int);
   ("usr_ptr", ptr); ("status", uchar); ("masked_status", uchar); ("msg_status", uchar);
   ("sb_len_wr", uchar); ("host_status", ushort); ("driver_status", ushort); ("resid", int);
   ("duration", uint); ("info", uint)].
Definition sg_io_hdr_t : cty := sg_io_hdr.
Definition sg_scsi_id : cty :=
  Struct [("host_no", int); ("channel", int); ("scsi_id", int); ("lun", int); ("scsi_type", int);
   ("h_cmd_per_lun", short); ("d_queue_depth", short); ("unused", Arr 2 int)].
Definition structs_sg_scsi_id_t : list (string * cty) :=
  [
  ("sg_scsi_id_t", sg_scsi_id);
  ("sg_req_info", Struct [("req_state", char); ("orphan", char); ("sg_io_owned", char);
   ("problem", char); ("pack_id", int); ("usr_ptr", ptr); ("duration", uint); ("unused", int)])].
Definition sg_req_info : cty := type_in structs_sg_scsi_id_t "sg_req_info".
Definition sg_req_info_t : cty := sg_req_info.
Definition Sg_io_hdr : cty := sg_io_hdr.
Definition structs_Sg_scsi_id : list (string * cty) :=
  [
  ("Sg_scsi_id", sg_scsi_id);
  ("Sg_req_info", sg_req_info)].
Definition scsi_sg_types : list (string * cty) :=
  ([("sg_iovec", sg_iovec); ("sg_iovec_t", sg_iovec_t); ("sg_io_hdr", sg_io_hdr);
   ("sg_io_hdr_t", sg_io_hdr_t); ("sg_scsi_id", sg_scsi_id)] ++ structs_sg_scsi_id_t ++
   [("sg_req_info_t", sg_req_info_t); ("Sg_io_hdr", Sg_io_hdr)] ++ structs_Sg_scsi_id)%list.
End Scsi_sg.

(** ** [scsi/ufs/ioctl.h] *)

Module Scsi_ufs_ioctl.
Definition ufs_ioctl_query_data : cty :=
  Struct [("opcode", __u32); ("idn", __u8); ("buf_size", __u16); ("buffer", Arr 0 __u8)].
Definition scsi_ufs_ioctl_types : list (string * cty) := [("ufs_ioctl_query_data", ufs_ioctl_query_data)].
End Scsi_ufs_ioctl.
