(* ===== verification/AbiSystem.v ===== *)
(** * ABI of virtualisation, security, power and buses

    The structures and unions of these headers of [kernel-headers], one module per
    header: the larger ones as types of their own, those that stand in a row as a
    block; and the ioctl commands with their arguments. *)
From S2P Require Import Prelude.
From S2P Require Import CLayout.
From S2P Require Import Ioctl.
From S2P Require Import AbiBase.
#[local] Open Scope string_scope.

(** ** [asm/kvm.h] *)

Module Asm_kvm.
Definition KVM_ARM_MAX_DBG_REGS : Z := 16.
Definition structs_kvm_vcpu_init : list (string * cty) :=
  [
  ("kvm_vcpu_init", Struct [("target", __u32); ("features", Arr 7 __u32)]);
  ("kvm_sregs", Struct []);
  ("kvm_fpu", Struct [])].
Definition kvm_vcpu_init : cty := type_in structs_kvm_vcpu_init "kvm_vcpu_init".
Definition kvm_sregs : cty := type_in structs_kvm_vcpu_init "kvm_sregs".
Definition kvm_fpu : cty := type_in structs_kvm_vcpu_init "kvm_fpu".
Definition structs_kvm_guest_debug_arch : list (string * cty) :=
  [
  ("kvm_guest_debug_arch", Struct [("dbg_bcr", Arr KVM_ARM_MAX_DBG_REGS __u64);
   ("dbg_bvr", Arr KVM_ARM_MAX_DBG_REGS __u64); ("dbg_wcr", Arr KVM_ARM_MAX_DBG_REGS __u64);
   ("dbg_wvr", Arr KVM_ARM_MAX_DBG_REGS __u64)]);
  ("kvm_debug_exit_arch", Struct [("hsr", __u32); ("far", __u64)])].
Definition kvm_guest_debug_arch : cty := type_in structs_kvm_guest_debug_arch "kvm_guest_debug_arch".
Definition kvm_debug_exit_arch : cty := type_in structs_kvm_guest_debug_arch "kvm_debug_exit_arch".
Definition structs_kvm_sync_regs : list (string * cty) :=
  [
  ("kvm_sync_regs", Struct []);
  ("kvm_arch_memory_slot", Struct [])].
Definition kvm_sync_regs : cty := type_in structs_kvm_sync_regs "kvm_sync_regs".
Definition asm_kvm_types : list (string * cty) :=
  (structs_kvm_vcpu_init ++ structs_kvm_guest_debug_arch ++ structs_kvm_sync_regs)%list.
End Asm_kvm.

(** ** [linux/android/binder.h] *)

Module Android_binder.
Definition structs_binder_size_t : list (string * cty) :=
  let binder_size_t := __u64 in
  let binder_uintptr_t := __u64 in
  let binder_object_header := Struct [("type", __u32)] in
  [
  ("binder_size_t", binder_size_t);
  ("binder_uintptr_t", binder_uintptr_t);
  ("binder_object_header", binder_object_header);
  ("flat_binder_object", Struct [("hdr", binder_object_header); ("flags", __u32);
   ("", Union [("binder", binder_uintptr_t); ("handle", __u32)]); ("cookie", binder_uintptr_t)]);
  ("binder_fd_object", Struct [("hdr", binder_object_header); ("pad_flags", __u32);
   ("", Union [("pad_binder", binder_uintptr_t); ("fd", __u32)]); ("cookie", binder_uintptr_t)]);
  ("binder_buffer_object", Struct [("hdr", binder_object_header); ("flags", __u32);
   ("buffer", binder_uintptr_t); ("length", binder_size_t); ("parent", binder_size_t);
   ("parent_offset", binder_size_t)])].
Definition binder_size_t : cty := type_in structs_binder_size_t "binder_size_t".
Definition binder_uintptr_t : cty := type_in structs_binder_size_t "binder_uintptr_t".
Definition binder_object_header : cty := type_in structs_binder_size_t "binder_object_header".
Definition flat_binder_object : cty := type_in structs_binder_size_t "flat_binder_object".
Definition structs_binder_fd_array_object : list (string * cty) :=
  [
  ("binder_fd_array_object", Struct [("hdr", binder_object_header); ("pad", __u32);
   ("num_fds", binder_size_t); ("parent", binder_size_t); ("parent_offset", binder_size_t)]);
  ("binder_write_read", Struct [("write_size", binder_size_t); ("write_consumed", binder_size_t);
   ("write_buffer", binder_uintptr_t); ("read_size", binder_size_t);
   ("read_consumed", binder_size_t); ("read_buffer", binder_uintptr_t)]);
  ("binder_version", Struct [("protocol_version", __s32)])].
Definition binder_write_read : cty := type_in structs_binder_fd_array_object "binder_write_read".
Definition binder_version : cty := type_in structs_binder_fd_array_object "binder_version".
Definition structs_binder_node_debug_info : list (string * cty) :=
  [
  ("binder_node_debug_info", Struct [("ptr", binder_uintptr_t); ("cookie", binder_uintptr_t);
   ("has_strong_ref", __u32); ("has_weak_ref", __u32)]);
  ("binder_node_info_for_ref", Struct [("handle", __u32); ("strong_count", __u32);
   ("weak_count", __u32); ("reserved1", __u32); ("reserved2", __u32); ("reserved3", __u32)])].
Definition binder_node_debug_info : cty := type_in structs_binder_node_debug_info "binder_node_debug_info".
Definition binder_node_info_for_ref : cty := type_in structs_binder_node_debug_info "binder_node_info_for_ref".
Definition binder_transaction_data : cty :=
  Struct [("target", Union [("handle", __u32); ("ptr", binder_uintptr_t)]);
   ("cookie", binder_uintptr_t); ("code", __u32); ("flags", __u32); ("sender_pid", pid_t);
   ("sender_euid", uid_t); ("data_size", binder_size_t); ("offsets_size", binder_size_t);
   ("data", Union [("ptr", Struct [("buffer", binder_uintptr_t); ("offsets", binder_uintptr_t)]);
   ("buf", Arr 8 __u8)])].
Definition structs_binder_transaction_data_secctx : list (string * cty) :=
  [
  ("binder_transaction_data_secctx", Struct [("transaction_data", binder_transaction_data);
   ("secctx", binder_uintptr_t)]);
  ("binder_transaction_data_sg", Struct [("transaction_data", binder_transaction_data);
   ("buffers_size", binder_size_t)]);
  ("binder_ptr_cookie", Struct [("ptr", binder_uintptr_t); ("cookie", binder_uintptr_t)]);
  ("binder_handle_cookie", Packed [("handle", __u32); ("cookie", binder_uintptr_t)]);
  ("binder_pri_desc", Struct [("priority", __s32); ("desc", __u32)]);
  ("binder_pri_ptr_cookie", Struct [("priority", __s32); ("ptr", binder_uintptr_t);
   ("cookie", binder_uintptr_t)])].
Definition android_binder_types : list (string * cty) :=
  (structs_binder_size_t ++ structs_binder_fd_array_object ++ structs_binder_node_debug_info
   ++ [("binder_transaction_data", binder_transaction_data)] ++
   structs_binder_transaction_data_secctx)%list.
Definition android_binder_ioctls : list command := [
  _IOWR "BINDER_WRITE_READ" (chr "b") 1 binder_write_read;
  _IOW "BINDER_SET_IDLE_TIMEOUT" (chr "b") 3 __s64;
  _IOW "BINDER_SET_MAX_THREADS" (chr "b") 5 __u32;
  _IOW "BINDER_SET_IDLE_PRIORITY" (chr "b") 6 __s32;
  _IOW "BINDER_SET_CONTEXT_MGR" (chr "b") 7 __s32;
  _IOW "BINDER_THREAD_EXIT" (chr "b") 8 __s32;
  _IOWR "BINDER_VERSION" (chr "b") 9 binder_version;
  _IOWR "BINDER_GET_NODE_DEBUG_INFO" (chr "b") 11 binder_node_debug_info;
  _IOWR "BINDER_GET_NODE_INFO_FOR_REF" (chr "b") 12 binder_node_info_for_ref;
  _IOW "BINDER_SET_CONTEXT_MGR_EXT" (chr "b") 13 flat_binder_object].
End Android_binder.

(** ** [linux/batterydata-interface.h] *)

Module Batterydata_interface.
Definition battery_params : cty :=
  Struct [("soc", int); ("ocv_uv", int); ("rbatt_sf", int); ("batt_temp", int); ("slope", int);
   ("fcc_mah", int)].
Definition batterydata_interface_types : list (string * cty) := [("battery_params", battery_params)].
Definition batterydata_interface_ioctls : list command := [
  _IOWR "BPIOCXSOC" (chr "B") 1 battery_params;
  _IOWR "BPIOCXRBATT" (chr "B") 2 battery_params;
  _IOWR "BPIOCXSLOPE" (chr "B") 3 battery_params;
  _IOWR "BPIOCXFCC" (chr "B") 4 battery_params].
End Batterydata_interface.

(** ** [linux/epm_adc.h] *)

Module Epm_adc.
Definition structs_epm_chan_request : list (string * cty) :=
  let result_buffer := Struct [("channel", uint32_t); ("avg_buffer_sample", uint32_t);
   ("result", uint32_t)] in
  [
  ("epm_chan_request", Struct [("device_idx", uint32_t); ("channel_idx", uint32_t);
   ("physical", int32_t)]);
  ("epm_psoc_init_resp", Struct [("cmd", uint8_t); ("version", uint8_t);
   ("compatible_ver", uint8_t); ("firm_ver", Arr 3 uint8_t); ("num_dev", uint8_t);
   ("num_channel", uint8_t)]);
  ("epm_psoc_channel_configure", Struct [("cmd", uint8_t); ("device_num", uint8_t);
   ("channel_num", uint32_t)]);
  ("epm_psoc_set_avg", Struct [("cmd", uint8_t); ("avg_period", uint8_t);
   ("return_code", uint8_t)]);
  ("epm_psoc_get_data", Struct [("cmd", uint8_t); ("dev_num", uint8_t); ("chan_num", uint8_t);
   ("timestamp_resp_value", uint32_t); ("reading_raw", int16_t); ("reading_value", int32_t)]);
  ("epm_psoc_get_buffered_data", Struct [("cmd", uint8_t); ("dev_num", uint8_t);
   ("status_mask", uint8_t); ("chan_idx", uint8_t); ("chan_mask", uint32_t);
   ("timestamp_start", uint32_t); ("timestamp_end", uint32_t); ("buff_data", Arr 48 uint8_t)]);
  ("epm_psoc_system_time_stamp", Struct [("cmd", uint8_t); ("timestamp", uint32_t)]);
  ("epm_psoc_set_channel", Struct [("cmd", uint8_t); ("dev_num", uint8_t);
   ("channel_mask", uint32_t)]);
  ("result_buffer", result_buffer);
  ("epm_psoc_get_avg_buffered_switch_data", Struct [("cmd", uint8_t); ("status", uint8_t);
   ("timestamp_start", uint32_t); ("channel_mask", uint32_t); ("avg_data", Arr 54 uint8_t);
   ("data", Arr 54 result_buffer)]);
  ("epm_psoc_set_channel_switch", Struct [("cmd", uint8_t); ("dev", uint8_t); ("delay", uint32_t)]);
  ("epm_psoc_set_vadc", Struct [("cmd", uint8_t); ("vadc_dev", uint8_t);
   ("vadc_voltage", uint32_t)]);
  ("epm_chan_properties", Struct [("resistorvalue", uint32_t); ("gain", uint32_t)]);
  ("epm_marker_level", Struct [("level", uint8_t)]);
  ("epm_gpio_buffer_request", Struct [("cmd", uint8_t); ("bitmask_monitor_pin", uint8_t);
   ("status", uint8_t)]);
  ("epm_get_gpio_buffer_resp", Struct [("cmd", uint8_t); ("status", uint8_t);
   ("bitmask_monitor_pin", uint8_t); ("timestamp", uint32_t)]);
  ("epm_get_high_res_avg_data", Struct [("cmd", uint8_t); ("status", uint8_t);
   ("channel_mask", uint32_t); ("timestamp", uint32_t); ("buf_data", Arr 54 uint8_t)]);
  ("epm_generic_request", Struct [("buf", Arr 64 uint8_t)])].
Definition epm_chan_request : cty := type_in structs_epm_chan_request "epm_chan_request".
Definition epm_psoc_init_resp : cty := type_in structs_epm_chan_request "epm_psoc_init_resp".
Definition epm_psoc_channel_configure : cty := type_in structs_epm_chan_request "epm_psoc_channel_configure".
Definition epm_psoc_set_avg : cty := type_in structs_epm_chan_request "epm_psoc_set_avg".
Definition epm_psoc_get_data : cty := type_in structs_epm_chan_request "epm_psoc_get_data".
Definition epm_psoc_get_buffered_data : cty := type_in structs_epm_chan_request "epm_psoc_get_buffered_data".
Definition epm_psoc_system_time_stamp : cty := type_in structs_epm_chan_request "epm_psoc_system_time_stamp".
Definition epm_psoc_get_avg_buffered_switch_data : cty := type_in structs_epm_chan_request "epm_psoc_get_avg_buffered_switch_data".
Definition epm_psoc_set_channel_switch : cty := type_in structs_epm_chan_request "epm_psoc_set_channel_switch".
Definition epm_psoc_set_vadc : cty := type_in structs_epm_chan_request "epm_psoc_set_vadc".
Definition epm_gpio_buffer_request : cty := type_in structs_epm_chan_request "epm_gpio_buffer_request".
Definition epm_get_gpio_buffer_resp : cty := type_in structs_epm_chan_request "epm_get_gpio_buffer_resp".
Definition epm_get_high_res_avg_data : cty := type_in structs_epm_chan_request "epm_get_high_res_avg_data".
Definition epm_generic_request : cty := type_in structs_epm_chan_request "epm_generic_request".
Definition epm_adc_types : list (string * cty) := structs_epm_chan_request.
Definition epm_adc_ioctls : list command := [
  _IOWR "EPM_ADC_REQUEST" 0x91 1 epm_chan_request;
  _IOR "EPM_ADC_INIT" 0x91 2 uint32_t;
  _IOR "EPM_ADC_DEINIT" 0x91 3 uint32_t;
  _IOR "EPM_MARKER1_REQUEST" 0x91 90 uint32_t;
  _IOR "EPM_MARKER1_RELEASE" 0x91 91 uint32_t;
  _IOWR "EPM_MARKER1_SET_LEVEL" 0x91 92 uint32_t;
  _IOR "EPM_MARKER2_REQUEST" 0x91 93 uint32_t;
  _IOWR "EPM_MARKER2_SET_LEVEL" 0x91 94 uint32_t;
  _IOR "EPM_MARKER2_RELEASE" 0x91 95 uint32_t;
  _IOWR "EPM_PSOC_ADC_INIT" 0x91 4 epm_psoc_init_resp;
  _IOWR "EPM_PSOC_ADC_CHANNEL_ENABLE" 0x91 5 epm_psoc_channel_configure;
  _IOWR "EPM_PSOC_ADC_CHANNEL_DISABLE" 0x91 6 epm_psoc_channel_configure;
  _IOWR "EPM_PSOC_ADC_SET_AVERAGING" 0x91 7 epm_psoc_set_avg;
  _IOWR "EPM_PSOC_ADC_GET_LAST_MEASUREMENT" 0x91 8 epm_psoc_get_data;
  _IOWR "EPM_PSOC_ADC_GET_BUFFERED_DATA" 0x91 9 epm_psoc_get_buffered_data;
  _IOWR "EPM_PSOC_ADC_GET_SYSTEM_TIMESTAMP" 0x91 10 epm_psoc_system_time_stamp;
  _IOWR "EPM_PSOC_ADC_SET_SYSTEM_TIMESTAMP" 0x91 11 epm_psoc_system_time_stamp;
  _IOWR "EPM_PSOC_ADC_GET_AVERAGE_DATA" 0x91 12 epm_psoc_get_avg_buffered_switch_data;
  _IOWR "EPM_PSOC_SET_CHANNEL_SWITCH" 0x91 13 epm_psoc_set_channel_switch;
  _IOWR "EPM_PSOC_CLEAR_BUFFER" 0x91 14 uint32_t;
  _IOWR "EPM_PSOC_ADC_SET_VADC_REFERENCE" 0x91 15 epm_psoc_set_vadc;
  _IOWR "EPM_PSOC_ADC_DEINIT" 0x91 16 uint32_t;
  _IOWR "EPM_PSOC_GPIO_BUFFER_REQUEST" 0x91 17 epm_gpio_buffer_request;
  _IOWR "EPM_PSOC_GET_GPIO_BUFFER_DATA" 0x91 18 epm_get_gpio_buffer_resp;
  _IOWR "EPM_PSOC_PAUSE_CONVERSION_REQUEST" 0x91 19 uint32_t;
  _IOWR "EPM_PSOC_UNPAUSE_CONVERSION_REQUEST" 0x91 20 uint32_t;
  _IOWR "EPM_PSOC_16_BIT_AVERAGED_REQUEST" 0x91 21 epm_get_high_res_avg_data;
  _IOWR "EPM_PSOC_GENERIC_REQUEST" 0x91 22 epm_generic_request].
End Epm_adc.

(** ** [linux/esoc_ctrl.h] *)

Module Esoc_ctrl.
Definition esoc_ctrl_ioctls : list command := [
  _IOW "ESOC_CMD_EXE" 0xcc 1 uint;
  _IOR "ESOC_WAIT_FOR_REQ" 0xcc 2 uint;
  _IOW "ESOC_NOTIFY" 0xcc 3 uint;
  _IOR "ESOC_GET_STATUS" 0xcc 4 uint;
  _IOR "ESOC_GET_ERR_FATAL" 0xcc 5 uint;
  _IOR "ESOC_WAIT_FOR_CRASH" 0xcc 6 uint;
  _IO "ESOC_REG_REQ_ENG" 0xcc 7;
  _IO "ESOC_REG_CMD_ENG" 0xcc 8].
End Esoc_ctrl.

(** ** [linux/fsl_hypervisor.h] *)

Module Fsl_hypervisor.
Definition structs_fsl_hv_ioctl_restart : list (string * cty) :=
  [
  ("fsl_hv_ioctl_restart", Struct [("ret", __u32); ("partition", __u32)]);
  ("fsl_hv_ioctl_status", Struct [("ret", __u32); ("partition", __u32); ("status", __u32)]);
  ("fsl_hv_ioctl_start", Struct [("ret", __u32); ("partition", __u32); ("entry_point", __u32);
   ("load", __u32)]);
  ("fsl_hv_ioctl_stop", Struct [("ret", __u32); ("partition", __u32)]);
  ("fsl_hv_ioctl_memcpy", Struct [("ret", __u32); ("source", __u32); ("target", __u32);
   ("reserved", __u32); ("local_vaddr", __u64); ("remote_paddr", __u64); ("count", __u64)]);
  ("fsl_hv_ioctl_doorbell", Struct [("ret", __u32); ("doorbell", __u32)]);
  ("fsl_hv_ioctl_prop", Struct [("ret", __u32); ("handle", __u32); ("path", __u64);
   ("propname", __u64); ("propval", __u64); ("proplen", __u32); ("reserved", __u32)])].
Definition fsl_hv_ioctl_restart : cty := type_in structs_fsl_hv_ioctl_restart "fsl_hv_ioctl_restart".
Definition fsl_hv_ioctl_status : cty := type_in structs_fsl_hv_ioctl_restart "fsl_hv_ioctl_status".
Definition fsl_hv_ioctl_start : cty := type_in structs_fsl_hv_ioctl_restart "fsl_hv_ioctl_start".
Definition fsl_hv_ioctl_stop : cty := type_in structs_fsl_hv_ioctl_restart "fsl_hv_ioctl_stop".
Definition fsl_hv_ioctl_memcpy : cty := type_in structs_fsl_hv_ioctl_restart "fsl_hv_ioctl_memcpy".
Definition fsl_hv_ioctl_doorbell : cty := type_in structs_fsl_hv_ioctl_restart "fsl_hv_ioctl_doorbell".
Definition fsl_hv_ioctl_prop : cty := type_in structs_fsl_hv_ioctl_restart "fsl_hv_ioctl_prop".
Definition fsl_hypervisor_types : list (string * cty) := structs_fsl_hv_ioctl_restart.
Definition fsl_hypervisor_ioctls : list command := [
  _IOWR "FSL_HV_IOCTL_PARTITION_RESTART" 0xaf 1 fsl_hv_ioctl_restart;
  _IOWR "FSL_HV_IOCTL_PARTITION_GET_STATUS" 0xaf 2 fsl_hv_ioctl_status;
  _IOWR "FSL_HV_IOCTL_PARTITION_START" 0xaf 3 fsl_hv_ioctl_start;
  _IOWR "FSL_HV_IOCTL_PARTITION_STOP" 0xaf 4 fsl_hv_ioctl_stop;
  _IOWR "FSL_HV_IOCTL_MEMCPY" 0xaf 5 fsl_hv_ioctl_memcpy;
  _IOWR "FSL_HV_IOCTL_DOORBELL" 0xaf 6 fsl_hv_ioctl_doorbell;
  _IOWR "FSL_HV_IOCTL_GETPROP" 0xaf 7 fsl_hv_ioctl_prop;
  _IOWR "FSL_HV_IOCTL_SETPROP" 0xaf 8 fsl_hv_ioctl_prop].
End Fsl_hypervisor.

(** ** [linux/hab_ioctl.h] *)

Module Hab_ioctl.
Definition structs_hab_send : list (string * cty) :=
  [
  ("hab_send", Struct [("data", __u64); ("vcid", __s32); ("sizebytes", __u32); ("flags", __u32)]);
  ("hab_recv", Struct [("data", __u64); ("vcid", __s32); ("sizebytes", __u32); ("flags", __u32)]);
  ("hab_open", Struct [("vcid", __s32); ("mmid", __u32); ("timeout", __u32); ("flags", __u32)]);
  ("hab_close", Struct [("vcid", __s32); ("flags", __u32)]);
  ("hab_export", Struct [("buffer", __u64); ("vcid", __s32); ("sizebytes", __u32);
   ("exportid", __u32); ("flags", __u32)]);
  ("hab_import", Struct [("index", __u64); ("kva", __u64); ("vcid", __s32); ("sizebytes", __u32);
   ("exportid", __u32); ("flags", __u32)]);
  ("hab_unexport", Struct [("vcid", __s32); ("exportid", __u32); ("flags", __u32)]);
  ("hab_unimport", Struct [("vcid", __s32); ("exportid", __u32); ("kva", __u64); ("flags", __u32)]);
  ("hab_info", Struct [("vcid", __s32); ("ids", __u64); ("names", __u64); ("namesize", __u32);
   ("flags", __u32)])].
Definition hab_send : cty := type_in structs_hab_send "hab_send".
Definition hab_recv : cty := type_in structs_hab_send "hab_recv".
Definition hab_open : cty := type_in structs_hab_send "hab_open".
Definition hab_close : cty := type_in structs_hab_send "hab_close".
Definition hab_export : cty := type_in structs_hab_send "hab_export".
Definition hab_import : cty := type_in structs_hab_send "hab_import".
Definition hab_unexport : cty := type_in structs_hab_send "hab_unexport".
Definition hab_unimport : cty := type_in structs_hab_send "hab_unimport".
Definition hab_info : cty := type_in structs_hab_send "hab_info".
Definition hab_ioctl_types : list (string * cty) := structs_hab_send.
Definition hab_ioctl_ioctls : list command := [
  _IOW "IOCTL_HAB_SEND" 0xa 2 hab_send;
  _IOWR "IOCTL_HAB_RECV" 0xa 3 hab_recv;
  _IOWR "IOCTL_HAB_VC_OPEN" 0xa 4 hab_open;
  _IOW "IOCTL_HAB_VC_CLOSE" 0xa 5 hab_close;
  _IOWR "IOCTL_HAB_VC_EXPORT" 0xa 6 hab_export;
  _IOWR "IOCTL_HAB_VC_IMPORT" 0xa 7 hab_import;
  _IOW "IOCTL_HAB_VC_UNEXPORT" 0xa 8 hab_unexport;
  _IOW "IOCTL_HAB_VC_UNIMPORT" 0xa 9 hab_unimport;
  _IOWR "IOCTL_HAB_VC_QUERY" 0xa 10 hab_info].
End Hab_ioctl.

(** ** [linux/ipa_qmi_service_v01.h] *)

Module Ipa_qmi_service_v01.
Definition QMI_IPA_IPFLTR_NUM_IHL_RANGE_16_EQNS_V01 : Z := 2.
Definition QMI_IPA_IPFLTR_NUM_MEQ_32_EQNS_V01 : Z := 2.
Definition QMI_IPA_IPFLTR_NUM_IHL_MEQ_32_EQNS_V01 : Z := 2.
Definition QMI_IPA_IPFLTR_NUM_MEQ_128_EQNS_V01 : Z := 2.
Definition QMI_IPA_MAX_FILTERS_V01 : Z := 64.
Definition QMI_IPA_MAX_FILTERS_EX_V01 : Z := 128.
Definition QMI_IPA_MAX_PIPES_V01 : Z := 20.
Definition QMI_IPA_MAX_APN_V01 : Z := 8.
Definition QMI_IPA_MAX_PER_CLIENTS_V01 : Z := 64.
Definition QMI_IPA_MAX_CLIENT_DST_PIPES_V01 : Z := 8.
Definition QMI_IPA_MAX_UL_FIREWALL_RULES_V01 : Z := 64.
Definition ipa_qmi_response_type_v01 : cty := Struct [("result", enum); ("error", enum)].
Definition structs_ipa_hdr_tbl_info_type_v01 : list (string * cty) :=
  [
  ("ipa_hdr_tbl_info_type_v01", Struct [("modem_offset_start", uint32_t);
   ("modem_offset_end", uint32_t)]);
  ("ipa_route_tbl_info_type_v01", Struct [("route_tbl_start_addr", uint32_t);
   ("num_indices", uint32_t)]);
  ("ipa_modem_mem_info_type_v01", Struct [("block_start_addr", uint32_t); ("size", uint32_t)]);
  ("ipa_hdr_proc_ctx_tbl_info_type_v01", Struct [("modem_offset_start", uint32_t);
   ("modem_offset_end", uint32_t)]);
  ("ipa_zip_tbl_info_type_v01", Struct [("modem_offset_start", uint32_t);
   ("modem_offset_end", uint32_t)])].
Definition ipa_hdr_tbl_info_type_v01 : cty := type_in structs_ipa_hdr_tbl_info_type_v01 "ipa_hdr_tbl_info_type_v01".
Definition ipa_route_tbl_info_type_v01 : cty := type_in structs_ipa_hdr_tbl_info_type_v01 "ipa_route_tbl_info_type_v01".
Definition ipa_modem_mem_info_type_v01 : cty := type_in structs_ipa_hdr_tbl_info_type_v01 "ipa_modem_mem_info_type_v01".
Definition ipa_hdr_proc_ctx_tbl_info_type_v01 : cty := type_in structs_ipa_hdr_tbl_info_type_v01 "ipa_hdr_proc_ctx_tbl_info_type_v01".
Definition ipa_zip_tbl_info_type_v01 : cty := type_in structs_ipa_hdr_tbl_info_type_v01 "ipa_zip_tbl_info_type_v01".
Definition ipa_init_modem_driver_req_msg_v01 : cty :=
  Struct [("platform_type_valid", uint8_t); ("platform_type", enum);
   ("hdr_tbl_info_valid", uint8_t); ("hdr_tbl_info", ipa_hdr_tbl_info_type_v01);
   ("v4_route_tbl_info_valid", uint8_t); ("v4_route_tbl_info", ipa_route_tbl_info_type_v01);
   ("v6_route_tbl_info_valid", uint8_t); ("v6_route_tbl_info", ipa_route_tbl_info_type_v01);
   ("v4_filter_tbl_start_addr_valid", uint8_t); ("v4_filter_tbl_start_addr", uint32_t);
   ("v6_filter_tbl_start_addr_valid", uint8_t); ("v6_filter_tbl_start_addr", uint32_t);
   ("modem_mem_info_valid", uint8_t); ("modem_mem_info", ipa_modem_mem_info_type_v01);
   ("ctrl_comm_dest_end_pt_valid", uint8_t); ("ctrl_comm_dest_end_pt", uint32_t);
   ("is_ssr_bootup_valid", uint8_t); ("is_ssr_bootup", uint8_t);
   ("hdr_proc_ctx_tbl_info_valid", uint8_t);
   ("hdr_proc_ctx_tbl_info", ipa_hdr_proc_ctx_tbl_info_type_v01);
   ("zip_tbl_info_valid", uint8_t); ("zip_tbl_info", ipa_zip_tbl_info_type_v01);
   ("v4_hash_route_tbl_info_valid", uint8_t);
   ("v4_hash_route_tbl_info", ipa_route_tbl_info_type_v01);
   ("v6_hash_route_tbl_info_valid", uint8_t);
   ("v6_hash_route_tbl_info", ipa_route_tbl_info_type_v01);
   ("v4_hash_filter_tbl_start_addr_valid", uint8_t); ("v4_hash_filter_tbl_start_addr", uint32_t);
   ("v6_hash_filter_tbl_start_addr_valid", uint8_t); ("v6_hash_filter_tbl_start_addr", uint32_t)].
Definition ipa_init_modem_driver_resp_msg_v01 : cty :=
  Struct [("resp", ipa_qmi_response_type_v01); ("ctrl_comm_dest_end_pt_valid", uint8_t);
   ("ctrl_comm_dest_end_pt", uint32_t); ("default_end_pt_valid", uint8_t);
   ("default_end_pt", uint32_t); ("modem_driver_init_pending_valid", uint8_t);
   ("modem_driver_init_pending", uint8_t)].
Definition structs_ipa_init_modem_driver_cmplt_req_msg_v01 : list (string * cty) :=
  [
  ("ipa_init_modem_driver_cmplt_req_msg_v01", Struct [("status", uint8_t)]);
  ("ipa_init_modem_driver_cmplt_resp_msg_v01", Struct [("resp", ipa_qmi_response_type_v01)])].
Definition ipa_indication_reg_req_msg_v01 : cty :=
  Struct [("master_driver_init_complete_valid", uint8_t);
   ("master_driver_init_complete", uint8_t); ("data_usage_quota_reached_valid", uint8_t);
   ("data_usage_quota_reached", uint8_t)].
Definition structs_ipa_indication_reg_resp_msg_v01 : list (string * cty) :=
  [
  ("ipa_indication_reg_resp_msg_v01", Struct [("resp", ipa_qmi_response_type_v01)]);
  ("ipa_master_driver_init_complt_ind_msg_v01", Struct [("master_driver_init_status", ipa_qmi_response_type_v01)]);
  ("ipa_ipfltr_range_eq_16_type_v01", Struct [("offset", uint8_t); ("range_low", uint16_t);
   ("range_high", uint16_t)]);
  ("ipa_ipfltr_mask_eq_32_type_v01", Struct [("offset", uint8_t); ("mask", uint32_t);
   ("value", uint32_t)]);
  ("ipa_ipfltr_eq_16_type_v01", Struct [("offset", uint8_t); ("value", uint16_t)]);
  ("ipa_ipfltr_eq_32_type_v01", Struct [("offset", uint8_t); ("value", uint32_t)]);
  ("ipa_ipfltr_mask_eq_128_type_v01", Struct [("offset", uint8_t); ("mask", Arr 16 uint8_t);
   ("value", Arr 16 uint8_t)])].
Definition ipa_ipfltr_range_eq_16_type_v01 : cty := type_in structs_ipa_indication_reg_resp_msg_v01 "ipa_ipfltr_range_eq_16_type_v01".
Definition ipa_ipfltr_mask_eq_32_type_v01 : cty := type_in structs_ipa_indication_reg_resp_msg_v01 "ipa_ipfltr_mask_eq_32_type_v01".
Definition ipa_ipfltr_eq_16_type_v01 : cty := type_in structs_ipa_indication_reg_resp_msg_v01 "ipa_ipfltr_eq_16_type_v01".
Definition ipa_ipfltr_eq_32_type_v01 : cty := type_in structs_ipa_indication_reg_resp_msg_v01 "ipa_ipfltr_eq_32_type_v01".
Definition ipa_ipfltr_mask_eq_128_type_v01 : cty := type_in structs_ipa_indication_reg_resp_msg_v01 "ipa_ipfltr_mask_eq_128_type_v01".
Definition ipa_filter_rule_type_v01 : cty :=
  Struct [("rule_eq_bitmap", uint16_t); ("tos_eq_present", uint8_t); ("tos_eq", uint8_t);
   ("protocol_eq_present", uint8_t); ("protocol_eq", uint8_t);
   ("num_ihl_offset_range_16", uint8_t);
   ("ihl_offset_range_16", Arr QMI_IPA_IPFLTR_NUM_IHL_RANGE_16_EQNS_V01 ipa_ipfltr_range_eq_16_type_v01);
   ("num_offset_meq_32", uint8_t);
   ("offset_meq_32", Arr QMI_IPA_IPFLTR_NUM_MEQ_32_EQNS_V01 ipa_ipfltr_mask_eq_32_type_v01);
   ("tc_eq_present", uint8_t); ("tc_eq", uint8_t); ("flow_eq_present", uint8_t);
   ("flow_eq", uint32_t); ("ihl_offset_eq_16_present", uint8_t);
   ("ihl_offset_eq_16", ipa_ipfltr_eq_16_type_v01); ("ihl_offset_eq_32_present", uint8_t);
   ("ihl_offset_eq_32", ipa_ipfltr_eq_32_type_v01); ("num_ihl_offset_meq_32", uint8_t);
   ("ihl_offset_meq_32", Arr QMI_IPA_IPFLTR_NUM_IHL_MEQ_32_EQNS_V01 ipa_ipfltr_mask_eq_32_type_v01);
   ("num_offset_meq_128", uint8_t);
   ("offset_meq_128", Arr QMI_IPA_IPFLTR_NUM_MEQ_128_EQNS_V01 ipa_ipfltr_mask_eq_128_type_v01);
   ("metadata_meq32_present", uint8_t); ("metadata_meq32", ipa_ipfltr_mask_eq_32_type_v01);
   ("ipv4_frag_eq_present", uint8_t)].
Definition ipa_filter_spec_type_v01 : cty :=
  Struct [("filter_spec_identifier", uint32_t); ("ip_type", enum);
   ("filter_rule", ipa_filter_rule_type_v01); ("filter_action", enum);
   ("is_routing_table_index_valid", uint8_t); ("route_table_index", uint32_t);
   ("is_mux_id_valid", uint8_t); ("mux_id", uint32_t)].
Definition ipa_filter_spec_ex_type_v01 : cty :=
  Struct [("ip_type", enum); ("filter_rule", ipa_filter_rule_type_v01); ("filter_action", enum);
   ("is_routing_table_index_valid", uint8_t); ("route_table_index", uint32_t);
   ("is_mux_id_valid", uint8_t); ("mux_id", uint32_t); ("rule_id", uint32_t);
   ("is_rule_hashable", uint8_t)].
Definition ipa_install_fltr_rule_req_msg_v01 : cty :=
  Struct [("filter_spec_list_valid", uint8_t); ("filter_spec_list_len", uint32_t);
   ("filter_spec_list", Arr QMI_IPA_MAX_FILTERS_V01 ipa_filter_spec_type_v01);
   ("source_pipe_index_valid", uint8_t); ("source_pipe_index", uint32_t);
   ("num_ipv4_filters_valid", uint8_t); ("num_ipv4_filters", uint32_t);
   ("num_ipv6_filters_valid", uint8_t); ("num_ipv6_filters", uint32_t);
   ("xlat_filter_indices_list_valid", uint8_t); ("xlat_filter_indices_list_len", uint32_t);
   ("xlat_filter_indices_list", Arr QMI_IPA_MAX_FILTERS_V01 uint32_t);
   ("filter_spec_ex_list_valid", uint8_t); ("filter_spec_ex_list_len", uint32_t);
   ("filter_spec_ex_list", Arr QMI_IPA_MAX_FILTERS_V01 ipa_filter_spec_ex_type_v01)].
Definition ipa_filter_rule_identifier_to_handle_map_v01 : cty :=
  Struct [("filter_spec_identifier", uint32_t); ("filter_handle", uint32_t)].
Definition ipa_install_fltr_rule_resp_msg_v01 : cty :=
  Struct [("resp", ipa_qmi_response_type_v01); ("filter_handle_list_valid", uint8_t);
   ("filter_handle_list_len", uint32_t);
   ("filter_handle_list", Arr QMI_IPA_MAX_FILTERS_V01 ipa_filter_rule_identifier_to_handle_map_v01);
   ("rule_id_valid", uint8_t); ("rule_id_len", uint32_t);
   ("rule_id", Arr QMI_IPA_MAX_FILTERS_V01 uint32_t)].
Definition ipa_filter_handle_to_index_map_v01 : cty :=
  Struct [("filter_handle", uint32_t); ("filter_index", uint32_t)].
Definition ipa_fltr_installed_notif_req_msg_v01 : cty :=
  Struct [("source_pipe_index", uint32_t); ("install_status", enum);
   ("filter_index_list_len", uint32_t);
   ("filter_index_list", Arr QMI_IPA_MAX_FILTERS_V01 ipa_filter_handle_to_index_map_v01);
   ("embedded_pipe_index_valid", uint8_t); ("embedded_pipe_index", uint32_t);
   ("retain_header_valid", uint8_t); ("retain_header", uint8_t);
   ("embedded_call_mux_id_valid", uint8_t); ("embedded_call_mux_id", uint32_t);
   ("num_ipv4_filters_valid", uint8_t); ("num_ipv4_filters", uint32_t);
   ("num_ipv6_filters_valid", uint8_t); ("num_ipv6_filters", uint32_t);
   ("start_ipv4_filter_idx_valid", uint8_t); ("start_ipv4_filter_idx", uint32_t);
   ("start_ipv6_filter_idx_valid", uint8_t); ("start_ipv6_filter_idx", uint32_t);
   ("rule_id_valid", uint8_t); ("rule_id_len", uint32_t);
   ("rule_id", Arr QMI_IPA_MAX_FILTERS_V01 uint32_t); ("dst_pipe_id_valid", uint8_t);
   ("dst_pipe_id_len", uint32_t); ("dst_pipe_id", Arr QMI_IPA_MAX_CLIENT_DST_PIPES_V01 uint32_t)].
Definition ipa_fltr_installed_notif_resp_msg_v01 : cty :=
  Struct [("resp", ipa_qmi_response_type_v01)].
Definition ipa_enable_force_clear_datapath_req_msg_v01 : cty :=
  Struct [("source_pipe_bitmask", uint32_t); ("request_id", uint32_t);
   ("throttle_source_valid", uint8_t); ("throttle_source", uint8_t)].
Definition structs_ipa_enable_force_clear_datapath_resp_msg_v01 : list (string * cty) :=
  [
  ("ipa_enable_force_clear_datapath_resp_msg_v01", Struct [("resp", ipa_qmi_response_type_v01)]);
  ("ipa_disable_force_clear_datapath_req_msg_v01", Struct [("request_id", uint32_t)]);
  ("ipa_disable_force_clear_datapath_resp_msg_v01", Struct [("resp", ipa_qmi_response_type_v01)])].
Definition ipa_config_req_msg_v01_1 : list (string * cty) := [
    ("peripheral_type_valid", uint8_t); ("peripheral_type", enum);
    ("hw_deaggr_supported_valid", uint8_t); ("hw_deaggr_supported", uint8_t);
    ("max_aggr_frame_size_valid", uint8_t); ("max_aggr_frame_size", uint32_t);
    ("ipa_ingress_pipe_mode_valid", uint8_t); ("ipa_ingress_pipe_mode", enum);
    ("peripheral_speed_info_valid", uint8_t); ("peripheral_speed_info", enum);
    ("dl_accumulation_time_limit_valid", uint8_t); ("dl_accumulation_time_limit", uint32_t);
    ("dl_accumulation_pkt_limit_valid", uint8_t); ("dl_accumulation_pkt_limit", uint32_t);
    ("dl_accumulation_byte_limit_valid", uint8_t); ("dl_accumulation_byte_limit", uint32_t);
    ("ul_accumulation_time_limit_valid", uint8_t); ("ul_accumulation_time_limit", uint32_t);
    ("hw_control_flags_valid", uint8_t); ("hw_control_flags", uint32_t);
    ("ul_msi_event_threshold_valid", uint8_t); ("ul_msi_event_threshold", uint32_t);
    ("dl_msi_event_threshold_valid", uint8_t); ("dl_msi_event_threshold", uint32_t)].
Definition ipa_config_req_msg_v01_2 : list (string * cty) := [
    ("ul_fifo_size_valid", uint8_t); ("ul_fifo_size", uint32_t); ("dl_fifo_size_valid", uint8_t);
    ("dl_fifo_size", uint32_t); ("dl_buf_size_valid", uint8_t); ("dl_buf_size", uint32_t)].
Definition ipa_config_req_msg_v01 : cty := Struct (ipa_config_req_msg_v01_1 ++ ipa_config_req_msg_v01_2)%list.
Definition ipa_config_resp_msg_v01 : cty := Struct [("resp", ipa_qmi_response_type_v01)].
Definition structs_ipa_pipe_stats_info_type_v01 : list (string * cty) :=
  [
  ("ipa_pipe_stats_info_type_v01", Struct [("pipe_index", uint32_t);
   ("num_ipv4_packets", uint64_t); ("num_ipv4_bytes", uint64_t); ("num_ipv6_packets", uint64_t);
   ("num_ipv6_bytes", uint64_t)]);
  ("ipa_stats_type_filter_rule_v01", Struct [("filter_rule_index", uint32_t);
   ("num_packets", uint64_t)]);
  ("ipa_get_data_stats_req_msg_v01", Struct [("ipa_stats_type", enum);
   ("reset_stats_valid", uint8_t); ("reset_stats", uint8_t)])].
Definition ipa_pipe_stats_info_type_v01 : cty := type_in structs_ipa_pipe_stats_info_type_v01 "ipa_pipe_stats_info_type_v01".
Definition ipa_stats_type_filter_rule_v01 : cty := type_in structs_ipa_pipe_stats_info_type_v01 "ipa_stats_type_filter_rule_v01".
Definition ipa_get_data_stats_resp_msg_v01 : cty :=
  Struct [("resp", ipa_qmi_response_type_v01); ("ipa_stats_type_valid", uint8_t);
   ("ipa_stats_type", enum); ("ul_src_pipe_stats_list_valid", uint8_t);
   ("ul_src_pipe_stats_list_len", uint32_t);
   ("ul_src_pipe_stats_list", Arr QMI_IPA_MAX_PIPES_V01 ipa_pipe_stats_info_type_v01);
   ("dl_dst_pipe_stats_list_valid", uint8_t); ("dl_dst_pipe_stats_list_len", uint32_t);
   ("dl_dst_pipe_stats_list", Arr QMI_IPA_MAX_PIPES_V01 ipa_pipe_stats_info_type_v01);
   ("dl_filter_rule_stats_list_valid", uint8_t); ("dl_filter_rule_stats_list_len", uint32_t);
   ("dl_filter_rule_stats_list", Arr QMI_IPA_MAX_FILTERS_V01 ipa_stats_type_filter_rule_v01)].
Definition ipa_apn_data_stats_info_type_v01 : cty :=
  Struct [("mux_id", uint32_t); ("num_ul_packets", uint64_t); ("num_ul_bytes", uint64_t);
   ("num_dl_packets", uint64_t); ("num_dl_bytes", uint64_t)].
Definition structs_ipa_get_apn_data_stats_req_msg_v01 : list (string * cty) :=
  let ipa_data_usage_quota_info_type_v01 := Struct [("mux_id", uint32_t);
   ("num_Mbytes", uint64_t)] in
  [
  ("ipa_get_apn_data_stats_req_msg_v01", Struct [("mux_id_list_valid", uint8_t);
   ("mux_id_list_len", uint32_t); ("mux_id_list", Arr QMI_IPA_MAX_APN_V01 uint32_t)]);
  ("ipa_get_apn_data_stats_resp_msg_v01", Struct [("resp", ipa_qmi_response_type_v01);
   ("apn_data_stats_list_valid", uint8_t); ("apn_data_stats_list_len", uint32_t);
   ("apn_data_stats_list", Arr QMI_IPA_MAX_APN_V01 ipa_apn_data_stats_info_type_v01)]);
  ("ipa_data_usage_quota_info_type_v01", ipa_data_usage_quota_info_type_v01);
  ("ipa_set_data_usage_quota_req_msg_v01", Struct [("apn_quota_list_valid", uint8_t);
   ("apn_quota_list_len", uint32_t);
   ("apn_quota_list", Arr QMI_IPA_MAX_APN_V01 ipa_data_usage_quota_info_type_v01)]);
  ("ipa_set_data_usage_quota_resp_msg_v01", Struct [("resp", ipa_qmi_response_type_v01)]);
  ("ipa_data_usage_quota_reached_ind_msg_v01", Struct [("apn", ipa_data_usage_quota_info_type_v01)]);
  ("ipa_stop_data_usage_quota_req_msg_v01", Struct [("__placeholder", char)]);
  ("ipa_stop_data_usage_quota_resp_msg_v01", Struct [("resp", ipa_qmi_response_type_v01)])].
Definition ipa_install_fltr_rule_req_ex_msg_v01 : cty :=
  Struct [("filter_spec_ex_list_valid", uint8_t); ("filter_spec_ex_list_len", uint32_t);
   ("filter_spec_ex_list", Arr QMI_IPA_MAX_FILTERS_EX_V01 ipa_filter_spec_ex_type_v01);
   ("source_pipe_index_valid", uint8_t); ("source_pipe_index", uint32_t);
   ("num_ipv4_filters_valid", uint8_t); ("num_ipv4_filters", uint32_t);
   ("num_ipv6_filters_valid", uint8_t); ("num_ipv6_filters", uint32_t);
   ("xlat_filter_indices_list_valid", uint8_t); ("xlat_filter_indices_list_len", uint32_t);
   ("xlat_filter_indices_list", Arr QMI_IPA_MAX_FILTERS_EX_V01 uint32_t)].
Definition structs_ipa_install_fltr_rule_resp_ex_msg_v01 : list (string * cty) :=
  [
  ("ipa_install_fltr_rule_resp_ex_msg_v01", Struct [("resp", ipa_qmi_response_type_v01);
   ("rule_id_valid", uint8_t); ("rule_id_len", uint32_t);
   ("rule_id", Arr QMI_IPA_MAX_FILTERS_EX_V01 uint32_t)]);
  ("ipa_enable_per_client_stats_req_msg_v01", Struct [("enable_per_client_stats", uint8_t)]);
  ("ipa_enable_per_client_stats_resp_msg_v01", Struct [("resp", ipa_qmi_response_type_v01)])].
Definition ipa_per_client_stats_info_type_v01 : cty :=
  Struct [("client_id", uint32_t); ("src_pipe_id", uint32_t); ("num_ul_ipv4_bytes", uint64_t);
   ("num_ul_ipv6_bytes", uint64_t); ("num_dl_ipv4_bytes", uint64_t);
   ("num_dl_ipv6_bytes", uint64_t); ("num_ul_ipv4_pkts", uint32_t);
   ("num_ul_ipv6_pkts", uint32_t); ("num_dl_ipv4_pkts", uint32_t);
   ("num_dl_ipv6_pkts", uint32_t)].
Definition ipa_get_stats_per_client_req_msg_v01 : cty :=
  Struct [("client_id", uint32_t); ("src_pipe_id", uint32_t); ("reset_stats_valid", uint8_t);
   ("reset_stats", uint8_t)].
Definition structs_ipa_get_stats_per_client_resp_msg_v01 : list (string * cty) :=
  [
  ("ipa_get_stats_per_client_resp_msg_v01", Struct [("resp", ipa_qmi_response_type_v01);
   ("per_client_stats_list_valid", uint8_t); ("per_client_stats_list_len", uint32_t);
   ("per_client_stats_list", Arr QMI_IPA_MAX_PER_CLIENTS_V01 ipa_per_client_stats_info_type_v01)]);
  ("ipa_ul_firewall_rule_type_v01", Struct [("ip_type", enum);
   ("filter_rule", ipa_filter_rule_type_v01)])].
Definition ipa_ul_firewall_rule_type_v01 : cty := type_in structs_ipa_get_stats_per_client_resp_msg_v01 "ipa_ul_firewall_rule_type_v01".
Definition ipa_configure_ul_firewall_rules_req_msg_v01 : cty :=
  Struct [("firewall_rules_list_len", uint32_t);
   ("firewall_rules_list", Arr QMI_IPA_MAX_UL_FIREWALL_RULES_V01 ipa_ul_firewall_rule_type_v01);
   ("mux_id", uint32_t); ("disable_valid", uint8_t); ("disable", uint8_t);
   ("are_blacklist_filters_valid", uint8_t); ("are_blacklist_filters", uint8_t)].
Definition ipa_configure_ul_firewall_rules_resp_msg_v01 : cty :=
  Struct [("resp", ipa_qmi_response_type_v01)].
Definition structs_ipa_ul_firewall_config_result_type_v01 : list (string * cty) :=
  let ipa_ul_firewall_config_result_type_v01 := Struct [("is_success", enum);
   ("mux_id", uint32_t)] in
  [
  ("ipa_ul_firewall_config_result_type_v01", ipa_ul_firewall_config_result_type_v01);
  ("ipa_configure_ul_firewall_rules_ind_msg_v01", Struct [("result", ipa_ul_firewall_config_result_type_v01)])].
Definition ipa_qmi_service_v01_types : list (string * cty) :=
  ([("ipa_qmi_response_type_v01", ipa_qmi_response_type_v01)] ++
   structs_ipa_hdr_tbl_info_type_v01 ++ [("ipa_init_modem_driver_req_msg_v01",
   ipa_init_modem_driver_req_msg_v01); ("ipa_init_modem_driver_resp_msg_v01",
   ipa_init_modem_driver_resp_msg_v01)] ++ structs_ipa_init_modem_driver_cmplt_req_msg_v01 ++
   [("ipa_indication_reg_req_msg_v01", ipa_indication_reg_req_msg_v01)] ++
   structs_ipa_indication_reg_resp_msg_v01 ++ [("ipa_filter_rule_type_v01",
   ipa_filter_rule_type_v01); ("ipa_filter_spec_type_v01", ipa_filter_spec_type_v01);
   ("ipa_filter_spec_ex_type_v01", ipa_filter_spec_ex_type_v01);
   ("ipa_install_fltr_rule_req_msg_v01", ipa_install_fltr_rule_req_msg_v01);
   ("ipa_filter_rule_identifier_to_handle_map_v01",
   ipa_filter_rule_identifier_to_handle_map_v01); ("ipa_install_fltr_rule_resp_msg_v01",
   ipa_install_fltr_rule_resp_msg_v01); ("ipa_filter_handle_to_index_map_v01",
   ipa_filter_handle_to_index_map_v01); ("ipa_fltr_installed_notif_req_msg_v01",
   ipa_fltr_installed_notif_req_msg_v01); ("ipa_fltr_installed_notif_resp_msg_v01",
   ipa_fltr_installed_notif_resp_msg_v01); ("ipa_enable_force_clear_datapath_req_msg_v01",
   ipa_enable_force_clear_datapath_req_msg_v01)] ++
   structs_ipa_enable_force_clear_datapath_resp_msg_v01 ++ [("ipa_config_req_msg_v01",
   ipa_config_req_msg_v01); ("ipa_config_resp_msg_v01", ipa_config_resp_msg_v01)] ++
   structs_ipa_pipe_stats_info_type_v01 ++ [("ipa_get_data_stats_resp_msg_v01",
   ipa_get_data_stats_resp_msg_v01); ("ipa_apn_data_stats_info_type_v01",
   ipa_apn_data_stats_info_type_v01)] ++ structs_ipa_get_apn_data_stats_req_msg_v01 ++
   [("ipa_install_fltr_rule_req_ex_msg_v01", ipa_install_fltr_rule_req_ex_msg_v01)] ++
   structs_ipa_install_fltr_rule_resp_ex_msg_v01 ++ [("ipa_per_client_stats_info_type_v01",
   ipa_per_client_stats_info_type_v01); ("ipa_get_stats_per_client_req_msg_v01",
   ipa_get_stats_per_client_req_msg_v01)] ++ structs_ipa_get_stats_per_client_resp_msg_v01 ++
   [("ipa_configure_ul_firewall_rules_req_msg_v01",
   ipa_configure_ul_firewall_rules_req_msg_v01);
   ("ipa_configure_ul_firewall_rules_resp_msg_v01",
   ipa_configure_ul_firewall_rules_resp_msg_v01)] ++
   structs_ipa_ul_firewall_config_result_type_v01)%list.
End Ipa_qmi_service_v01.

(** ** [linux/kvm.h] *)

Module Kvm.
Definition KVM_PPC_PAGE_SIZES_MAX_SZ : Z := 8.
Definition kvm_user_trace_setup : cty := Struct [("buf_size", __u32); ("buf_nr", __u32)].
Definition structs_kvm_breakpoint : list (string * cty) :=
  let kvm_breakpoint := Struct [("enabled", __u32); ("padding", __u32); ("address", __u64)] in
  [
  ("kvm_breakpoint", kvm_breakpoint);
  ("kvm_debug_guest", Struct [("enabled", __u32); ("pad", __u32);
   ("breakpoints", Arr 4 kvm_breakpoint); ("singlestep", __u32)])].
Definition kvm_debug_guest : cty := type_in structs_kvm_breakpoint "kvm_debug_guest".
Definition structs_kvm_memory_region : list (string * cty) :=
  [
  ("kvm_memory_region", Struct [("slot", __u32); ("flags", __u32); ("guest_phys_addr", __u64);
   ("memory_size", __u64)]);
  ("kvm_userspace_memory_region", Struct [("slot", __u32); ("flags", __u32);
   ("guest_phys_addr", __u64); ("memory_size", __u64); ("userspace_addr", __u64)])].
Definition kvm_memory_region : cty := type_in structs_kvm_memory_region "kvm_memory_region".
Definition kvm_userspace_memory_region : cty := type_in structs_kvm_memory_region "kvm_userspace_memory_region".
Definition structs_kvm_irq_level : list (string * cty) :=
  [
  ("kvm_irq_level", Struct [("", Union [("irq", __u32); ("status", __s32)]); ("level", __u32)]);
  ("kvm_irqchip", Struct [("chip_id", __u32); ("pad", __u32);
   ("chip", Union [("dummy", Arr 512 char)])]);
  ("kvm_pit_config", Struct [("flags", __u32); ("pad", Arr 15 __u32)])].
Definition kvm_irq_level : cty := type_in structs_kvm_irq_level "kvm_irq_level".
Definition kvm_irqchip : cty := type_in structs_kvm_irq_level "kvm_irqchip".
Definition kvm_pit_config : cty := type_in structs_kvm_irq_level "kvm_pit_config".
Definition kvm_s390_skeys : cty :=
  Struct [("start_gfn", __u64); ("count", __u64); ("skeydata_addr", __u64); ("flags", __u32);
   ("reserved", Arr 9 __u32)].
Definition kvm_run : cty :=
  Struct [("request_interrupt_window", __u8); ("padding1", Arr 7 __u8); ("exit_reason", __u32);
   ("ready_for_interrupt_injection", __u8); ("if_flag", __u8); ("flags", __u16); ("cr8", __u64);
   ("apic_base", __u64); ("", Union [("hw", Struct [("hardware_exit_reason", __u64)]);
   ("fail_entry", Struct [("hardware_entry_failure_reason", __u64)]);
   ("ex", Struct [("exception", __u32); ("error_code", __u32)]);
   ("io", Struct [("direction", __u8); ("size", __u8); ("port", __u16); ("count", __u32);
   ("data_offset", __u64)]); ("debug", Struct [("arch", Asm_kvm.kvm_debug_exit_arch)]);
   ("mmio", Struct [("phys_addr", __u64); ("data", Arr 8 __u8); ("len", __u32);
   ("is_write", __u8)]); ("hypercall", Struct [("nr", __u64); ("args", Arr 6 __u64);
   ("ret", __u64); ("longmode", __u32); ("pad", __u32)]); ("tpr_access", Struct [("rip", __u64);
   ("is_write", __u32); ("pad", __u32)]); ("s390_sieic", Struct [("icptcode", __u8);
   ("ipa", __u16); ("ipb", __u32)]); ("s390_reset_flags", __u64);
   ("s390_ucontrol", Struct [("trans_exc_code", __u64); ("pgm_code", __u32)]);
   ("dcr", Struct [("dcrn", __u32); ("data", __u32); ("is_write", __u8)]);
   ("internal", Struct [("suberror", __u32); ("ndata", __u32); ("data", Arr 16 __u64)]);
   ("osi", Struct [("gprs", Arr 32 __u64)]); ("papr_hcall", Struct [("nr", __u64);
   ("ret", __u64); ("args", Arr 9 __u64)]); ("s390_tsch", Struct [("subchannel_id", __u16);
   ("subchannel_nr", __u16); ("io_int_parm", __u32); ("io_int_word", __u32); ("ipb", __u32);
   ("dequeued", __u8)]); ("epr", Struct [("epr", __u32)]);
   ("system_event", Struct [("type", __u32); ("flags", __u64)]);
   ("s390_stsi", Struct [("addr", __u64); ("ar", __u8); ("reserved", __u8); ("fc", __u8);
   ("sel1", __u8); ("sel2", __u16)]); ("eoi", Struct [("vector", __u8)]);
   ("padding", Arr 256 char)]); ("kvm_valid_regs", __u64); ("kvm_dirty_regs", __u64);
   ("s", Union [("regs", Asm_kvm.kvm_sync_regs); ("padding", Arr 2048 char)])].
Definition structs_kvm_coalesced_mmio_zone : list (string * cty) :=
  let kvm_coalesced_mmio := Struct [("phys_addr", __u64); ("len", __u32); ("pad", __u32);
   ("data", Arr 8 __u8)] in
  [
  ("kvm_coalesced_mmio_zone", Struct [("addr", __u64); ("size", __u32); ("pad", __u32)]);
  ("kvm_coalesced_mmio", kvm_coalesced_mmio);
  ("kvm_coalesced_mmio_ring", Struct [("first", __u32); ("last", __u32);
   ("coalesced_mmio", Arr 0 kvm_coalesced_mmio)])].
Definition kvm_coalesced_mmio_zone : cty := type_in structs_kvm_coalesced_mmio_zone "kvm_coalesced_mmio_zone".
Definition structs_kvm_translation : list (string * cty) :=
  [
  ("kvm_translation", Struct [("linear_address", __u64); ("physical_address", __u64);
   ("valid", __u8); ("writeable", __u8); ("usermode", __u8); ("pad", Arr 5 __u8)]);
  ("kvm_s390_mem_op", Struct [("gaddr", __u64); ("flags", __u64); ("size", __u32); ("op", __u32);
   ("buf", __u64); ("ar", __u8); ("reserved", Arr 31 __u8)])].
Definition kvm_translation : cty := type_in structs_kvm_translation "kvm_translation".
Definition kvm_s390_mem_op : cty := type_in structs_kvm_translation "kvm_s390_mem_op".
Definition structs_kvm_interrupt : list (string * cty) :=
  [
  ("kvm_interrupt", Struct [("irq", __u32)]);
  ("kvm_dirty_log", Struct [("slot", __u32); ("padding1", __u32);
   ("", Union [("dirty_bitmap", ptr); ("padding2", __u64)])]);
  ("kvm_signal_mask", Struct [("len", __u32); ("sigset", Arr 0 __u8)]);
  ("kvm_tpr_access_ctl", Struct [("enabled", __u32); ("flags", __u32); ("reserved", Arr 8 __u32)]);
  ("kvm_vapic_addr", Struct [("vapic_addr", __u64)])].
Definition kvm_interrupt : cty := type_in structs_kvm_interrupt "kvm_interrupt".
Definition kvm_dirty_log : cty := type_in structs_kvm_interrupt "kvm_dirty_log".
Definition kvm_signal_mask : cty := type_in structs_kvm_interrupt "kvm_signal_mask".
Definition kvm_tpr_access_ctl : cty := type_in structs_kvm_interrupt "kvm_tpr_access_ctl".
Definition kvm_vapic_addr : cty := type_in structs_kvm_interrupt "kvm_vapic_addr".
Definition structs_kvm_mp_state : list (string * cty) :=
  [
  ("kvm_mp_state", Struct [("mp_state", __u32)]);
  ("kvm_s390_psw", Struct [("mask", __u64); ("addr", __u64)])].
Definition kvm_mp_state : cty := type_in structs_kvm_mp_state "kvm_mp_state".
Definition kvm_s390_psw : cty := type_in structs_kvm_mp_state "kvm_s390_psw".
Definition structs_kvm_s390_interrupt : list (string * cty) :=
  [
  ("kvm_s390_interrupt", Struct [("type", __u32); ("parm", __u32); ("parm64", __u64)]);
  ("kvm_s390_io_info", Struct [("subchannel_id", __u16); ("subchannel_nr", __u16);
   ("io_int_parm", __u32); ("io_int_word", __u32)]);
  ("kvm_s390_ext_info", Struct [("ext_params", __u32); ("pad", __u32); ("ext_params2", __u64)]);
  ("kvm_s390_pgm_info", Struct [("trans_exc_code", __u64); ("mon_code", __u64);
   ("per_address", __u64); ("data_exc_code", __u32); ("code", __u16); ("mon_class_nr", __u16);
   ("per_code", __u8); ("per_atmid", __u8); ("exc_access_id", __u8); ("per_access_id", __u8);
   ("op_access_id", __u8); ("pad", Arr 3 __u8)]);
  ("kvm_s390_prefix_info", Struct [("address", __u32)]);
  ("kvm_s390_extcall_info", Struct [("code", __u16)]);
  ("kvm_s390_emerg_info", Struct [("code", __u16)])].
Definition kvm_s390_interrupt : cty := type_in structs_kvm_s390_interrupt "kvm_s390_interrupt".
Definition kvm_s390_io_info : cty := type_in structs_kvm_s390_interrupt "kvm_s390_io_info".
Definition kvm_s390_ext_info : cty := type_in structs_kvm_s390_interrupt "kvm_s390_ext_info".
Definition kvm_s390_pgm_info : cty := type_in structs_kvm_s390_interrupt "kvm_s390_pgm_info".
Definition kvm_s390_prefix_info : cty := type_in structs_kvm_s390_interrupt "kvm_s390_prefix_info".
Definition kvm_s390_extcall_info : cty := type_in structs_kvm_s390_interrupt "kvm_s390_extcall_info".
Definition kvm_s390_emerg_info : cty := type_in structs_kvm_s390_interrupt "kvm_s390_emerg_info".
Definition structs_kvm_s390_stop_info : list (string * cty) :=
  let kvm_s390_stop_info := Struct [("flags", __u32)] in
  let kvm_s390_mchk_info := Struct [("cr14", __u64); ("mcic", __u64);
   ("failing_storage_address", __u64); ("ext_damage_code", __u32); ("pad", __u32);
   ("fixed_logout", Arr 16 __u8)] in
  [
  ("kvm_s390_stop_info", kvm_s390_stop_info);
  ("kvm_s390_mchk_info", kvm_s390_mchk_info);
  ("kvm_s390_irq", Struct [("type", __u64); ("u", Union [("io", kvm_s390_io_info);
   ("ext", kvm_s390_ext_info); ("pgm", kvm_s390_pgm_info); ("emerg", kvm_s390_emerg_info);
   ("extcall", kvm_s390_extcall_info); ("prefix", kvm_s390_prefix_info);
   ("stop", kvm_s390_stop_info); ("mchk", kvm_s390_mchk_info); ("reserved", Arr 64 char)])]);
  ("kvm_s390_irq_state", Struct [("buf", __u64); ("flags", __u32); ("len", __u32);
   ("reserved", Arr 4 __u32)])].
Definition kvm_s390_irq : cty := type_in structs_kvm_s390_stop_info "kvm_s390_irq".
Definition kvm_s390_irq_state : cty := type_in structs_kvm_s390_stop_info "kvm_s390_irq_state".
Definition kvm_guest_debug : cty :=
  Struct [("control", __u32); ("pad", __u32); ("arch", Asm_kvm.kvm_guest_debug_arch)].
Definition structs_kvm_ioeventfd : list (string * cty) :=
  [
  ("kvm_ioeventfd", Struct [("datamatch", __u64); ("addr", __u64); ("len", __u32); ("fd", __s32);
   ("flags", __u32); ("pad", Arr 36 __u8)]);
  ("kvm_enable_cap", Struct [("cap", __u32); ("flags", __u32); ("args", Arr 4 __u64);
   ("pad", Arr 64 __u8)]);
  ("kvm_ppc_pvinfo", Struct [("flags", __u32); ("hcall", Arr 4 __u32); ("pad", Arr 108 __u8)])].
Definition kvm_ioeventfd : cty := type_in structs_kvm_ioeventfd "kvm_ioeventfd".
Definition kvm_enable_cap : cty := type_in structs_kvm_ioeventfd "kvm_enable_cap".
Definition kvm_ppc_pvinfo : cty := type_in structs_kvm_ioeventfd "kvm_ppc_pvinfo".
Definition structs_kvm_ppc_one_page_size : list (string * cty) :=
  let kvm_ppc_one_page_size := Struct [("page_shift", __u32); ("pte_enc", __u32)] in
  [
  ("kvm_ppc_one_page_size", kvm_ppc_one_page_size);
  ("kvm_ppc_one_seg_page_size", Struct [("page_shift", __u32); ("slb_enc", __u32);
   ("enc", Arr KVM_PPC_PAGE_SIZES_MAX_SZ kvm_ppc_one_page_size)])].
Definition kvm_ppc_one_seg_page_size : cty := type_in structs_kvm_ppc_one_page_size "kvm_ppc_one_seg_page_size".
Definition kvm_ppc_smmu_info : cty :=
  Struct [("flags", __u64); ("slb_size", __u32); ("pad", __u32);
   ("sps", Arr KVM_PPC_PAGE_SIZES_MAX_SZ kvm_ppc_one_seg_page_size)].
Definition structs_kvm_irq_routing_irqchip : list (string * cty) :=
  [
  ("kvm_irq_routing_irqchip", Struct [("irqchip", __u32); ("pin", __u32)]);
  ("kvm_irq_routing_msi", Struct [("address_lo", __u32); ("address_hi", __u32); ("data", __u32);
   ("pad", __u32)]);
  ("kvm_irq_routing_s390_adapter", Struct [("ind_addr", __u64); ("summary_addr", __u64);
   ("ind_offset", __u64); ("summary_offset", __u32); ("adapter_id", __u32)])].
Definition kvm_irq_routing_irqchip : cty := type_in structs_kvm_irq_routing_irqchip "kvm_irq_routing_irqchip".
Definition kvm_irq_routing_msi : cty := type_in structs_kvm_irq_routing_irqchip "kvm_irq_routing_msi".
Definition kvm_irq_routing_s390_adapter : cty := type_in structs_kvm_irq_routing_irqchip "kvm_irq_routing_s390_adapter".
Definition structs_kvm_irq_routing_entry : list (string * cty) :=
  let kvm_irq_routing_entry := Struct [("gsi", __u32); ("type", __u32); ("flags", __u32);
   ("pad", __u32); ("u", Union [("irqchip", kvm_irq_routing_irqchip);
   ("msi", kvm_irq_routing_msi); ("adapter", kvm_irq_routing_s390_adapter);
   ("pad", Arr 8 __u32)])] in
  [
  ("kvm_irq_routing_entry", kvm_irq_routing_entry);
  ("kvm_irq_routing", Struct [("nr", __u32); ("flags", __u32);
   ("entries", Arr 0 kvm_irq_routing_entry)])].
Definition kvm_irq_routing : cty := type_in structs_kvm_irq_routing_entry "kvm_irq_routing".
Definition structs_kvm_irqfd : list (string * cty) :=
  [
  ("kvm_irqfd", Struct [("fd", __u32); ("gsi", __u32); ("flags", __u32); ("resamplefd", __u32);
   ("pad", Arr 16 __u8)]);
  ("kvm_clock_data", Struct [("clock", __u64); ("flags", __u32); ("pad", Arr 9 __u32)])].
Definition kvm_irqfd : cty := type_in structs_kvm_irqfd "kvm_irqfd".
Definition kvm_clock_data : cty := type_in structs_kvm_irqfd "kvm_clock_data".
Definition structs_kvm_config_tlb : list (string * cty) :=
  [
  ("kvm_config_tlb", Struct [("params", __u64); ("array", __u64); ("mmu_type", __u32);
   ("array_len", __u32)]);
  ("kvm_dirty_tlb", Struct [("bitmap", __u64); ("num_dirty", __u32)])].
Definition kvm_dirty_tlb : cty := type_in structs_kvm_config_tlb "kvm_dirty_tlb".
Definition structs_kvm_reg_list : list (string * cty) :=
  [
  ("kvm_reg_list", Struct [("n", __u64); ("reg", Arr 0 __u64)]);
  ("kvm_one_reg", Struct [("id", __u64); ("addr", __u64)]);
  ("kvm_msi", Struct [("address_lo", __u32); ("address_hi", __u32); ("data", __u32);
   ("flags", __u32); ("pad", Arr 16 __u8)]);
  ("kvm_arm_device_addr", Struct [("id", __u64); ("addr", __u64)])].
Definition kvm_reg_list : cty := type_in structs_kvm_reg_list "kvm_reg_list".
Definition kvm_one_reg : cty := type_in structs_kvm_reg_list "kvm_one_reg".
Definition kvm_msi : cty := type_in structs_kvm_reg_list "kvm_msi".
Definition kvm_arm_device_addr : cty := type_in structs_kvm_reg_list "kvm_arm_device_addr".
Definition structs_kvm_create_device : list (string * cty) :=
  [
  ("kvm_create_device", Struct [("type", __u32); ("fd", __u32); ("flags", __u32)]);
  ("kvm_device_attr", Struct [("flags", __u32); ("group", __u32); ("attr", __u64);
   ("addr", __u64)])].
Definition kvm_create_device : cty := type_in structs_kvm_create_device "kvm_create_device".
Definition kvm_device_attr : cty := type_in structs_kvm_create_device "kvm_device_attr".
Definition kvm_s390_ucas_mapping : cty :=
  Struct [("user_addr", __u64); ("vcpu_addr", __u64); ("length", __u64)].
Definition kvm_assigned_pci_dev : cty :=
  Struct [("assigned_dev_id", __u32); ("busnr", __u32); ("devfn", __u32); ("flags", __u32);
   ("segnr", __u32); ("", Union [("reserved", Arr 11 __u32)])].
Definition structs_kvm_assigned_irq : list (string * cty) :=
  [
  ("kvm_assigned_irq", Struct [("assigned_dev_id", __u32); ("host_irq", __u32);
   ("guest_irq", __u32); ("flags", __u32); ("", Union [("reserved", Arr 12 __u32)])]);
  ("kvm_assigned_msix_nr", Struct [("assigned_dev_id", __u32); ("entry_nr", __u16);
   ("padding", __u16)])].
Definition kvm_assigned_irq : cty := type_in structs_kvm_assigned_irq "kvm_assigned_irq".
Definition kvm_assigned_msix_nr : cty := type_in structs_kvm_assigned_irq "kvm_assigned_msix_nr".
Definition kvm_assigned_msix_entry : cty :=
  Struct [("assigned_dev_id", __u32); ("gsi", __u32); ("entry", __u16); ("padding", Arr 3 __u16)].
Definition kvm_types : list (string * cty) :=
  ([("kvm_user_trace_setup", kvm_user_trace_setup)] ++ structs_kvm_breakpoint ++
   structs_kvm_memory_region ++ structs_kvm_irq_level ++ [("kvm_s390_skeys", kvm_s390_skeys);
   ("kvm_run", kvm_run)] ++ structs_kvm_coalesced_mmio_zone ++ structs_kvm_translation ++
   structs_kvm_interrupt ++ structs_kvm_mp_state ++ structs_kvm_s390_interrupt ++
   structs_kvm_s390_stop_info ++ [("kvm_guest_debug", kvm_guest_debug)] ++
   structs_kvm_ioeventfd ++ structs_kvm_ppc_one_page_size ++ [("kvm_ppc_smmu_info",
   kvm_ppc_smmu_info)] ++ structs_kvm_irq_routing_irqchip ++ structs_kvm_irq_routing_entry ++
   structs_kvm_irqfd ++ structs_kvm_config_tlb ++ structs_kvm_reg_list ++
   structs_kvm_create_device ++ [("kvm_s390_ucas_mapping", kvm_s390_ucas_mapping);
   ("kvm_assigned_pci_dev", kvm_assigned_pci_dev)] ++ structs_kvm_assigned_irq ++
   [("kvm_assigned_msix_entry", kvm_assigned_msix_entry)])%list.
Definition kvm_ioctls_1 : list command := [
  _IOW "__KVM_DEPRECATED_MAIN_W_0x06" 0xae 6 kvm_user_trace_setup;
  _IO "__KVM_DEPRECATED_MAIN_0x07" 0xae 7;
  _IO "__KVM_DEPRECATED_MAIN_0x08" 0xae 8;
  _IOR "__KVM_DEPRECATED_VM_R_0x70" 0xae 112 kvm_assigned_irq].
Definition kvm_ioctls_2 : list command := [
  _IOW "__KVM_DEPRECATED_VCPU_W_0x87" 0xae 135 kvm_debug_guest].
Definition kvm_ioctls_3 : list command := [
  _IO "KVM_GET_API_VERSION" 0xae 0;
  _IO "KVM_CREATE_VM" 0xae 1;
  _IO "KVM_S390_ENABLE_SIE" 0xae 6;
  _IO "KVM_CHECK_EXTENSION" 0xae 3;
  _IO "KVM_GET_VCPU_MMAP_SIZE" 0xae 4].
Definition kvm_ioctls_4 : list command := [
  _IOW "KVM_SET_MEMORY_REGION" 0xae 64 kvm_memory_region;
  _IO "KVM_CREATE_VCPU" 0xae 65;
  _IOW "KVM_GET_DIRTY_LOG" 0xae 66 kvm_dirty_log;
  _IO "KVM_SET_NR_MMU_PAGES" 0xae 68;
  _IO "KVM_GET_NR_MMU_PAGES" 0xae 69;
  _IOW "KVM_SET_USER_MEMORY_REGION" 0xae 70 kvm_userspace_memory_region;
  _IO "KVM_SET_TSS_ADDR" 0xae 71;
  _IOW "KVM_SET_IDENTITY_MAP_ADDR" 0xae 72 __u64].
Definition kvm_ioctls_5 : list command := [
  _IOW "KVM_S390_UCAS_MAP" 0xae 80 kvm_s390_ucas_mapping;
  _IOW "KVM_S390_UCAS_UNMAP" 0xae 81 kvm_s390_ucas_mapping;
  _IOW "KVM_S390_VCPU_FAULT" 0xae 82 ulong;
  _IO "KVM_CREATE_IRQCHIP" 0xae 96;
  _IOW "KVM_IRQ_LINE" 0xae 97 kvm_irq_level;
  _IOWR "KVM_GET_IRQCHIP" 0xae 98 kvm_irqchip;
  _IOR "KVM_SET_IRQCHIP" 0xae 99 kvm_irqchip;
  _IO "KVM_CREATE_PIT" 0xae 100;
  _IOWR "KVM_IRQ_LINE_STATUS" 0xae 103 kvm_irq_level;
  _IOW "KVM_REGISTER_COALESCED_MMIO" 0xae 103 kvm_coalesced_mmio_zone;
  _IOW "KVM_UNREGISTER_COALESCED_MMIO" 0xae 104 kvm_coalesced_mmio_zone;
  _IOR "KVM_ASSIGN_PCI_DEVICE" 0xae 105 kvm_assigned_pci_dev;
  _IOW "KVM_SET_GSI_ROUTING" 0xae 106 kvm_irq_routing;
  _IOW "KVM_ASSIGN_DEV_IRQ" 0xae 112 kvm_assigned_irq;
  _IO "KVM_REINJECT_CONTROL" 0xae 113;
  _IOW "KVM_DEASSIGN_PCI_DEVICE" 0xae 114 kvm_assigned_pci_dev;
  _IOW "KVM_ASSIGN_SET_MSIX_NR" 0xae 115 kvm_assigned_msix_nr;
  _IOW "KVM_ASSIGN_SET_MSIX_ENTRY" 0xae 116 kvm_assigned_msix_entry;
  _IOW "KVM_DEASSIGN_DEV_IRQ" 0xae 117 kvm_assigned_irq;
  _IOW "KVM_IRQFD" 0xae 118 kvm_irqfd;
  _IOW "KVM_CREATE_PIT2" 0xae 119 kvm_pit_config;
  _IO "KVM_SET_BOOT_CPU_ID" 0xae 120;
  _IOW "KVM_IOEVENTFD" 0xae 121 kvm_ioeventfd;
  _IOW "KVM_SET_CLOCK" 0xae 123 kvm_clock_data;
  _IOR "KVM_GET_CLOCK" 0xae 124 kvm_clock_data;
  _IOW "KVM_PPC_GET_PVINFO" 0xae 161 kvm_ppc_pvinfo;
  _IO "KVM_SET_TSC_KHZ" 0xae 162;
  _IO "KVM_GET_TSC_KHZ" 0xae 163;
  _IOW "KVM_ASSIGN_SET_INTX_MASK" 0xae 164 kvm_assigned_pci_dev;
  _IOW "KVM_SIGNAL_MSI" 0xae 165 kvm_msi;
  _IOR "KVM_PPC_GET_SMMU_INFO" 0xae 166 kvm_ppc_smmu_info;
  _IOWR "KVM_PPC_ALLOCATE_HTAB" 0xae 167 __u32].
Definition kvm_ioctls_6 : list command := [
  _IOW "KVM_ARM_SET_DEVICE_ADDR" 0xae 171 kvm_arm_device_addr;
  _IOWR "KVM_CREATE_DEVICE" 0xae 224 kvm_create_device;
  _IOW "KVM_SET_DEVICE_ATTR" 0xae 225 kvm_device_attr;
  _IOW "KVM_GET_DEVICE_ATTR" 0xae 226 kvm_device_attr;
  _IOW "KVM_HAS_DEVICE_ATTR" 0xae 227 kvm_device_attr;
  _IO "KVM_RUN" 0xae 128;
  _IOR "KVM_GET_SREGS" 0xae 131 Asm_kvm.kvm_sregs;
  _IOW "KVM_SET_SREGS" 0xae 132 Asm_kvm.kvm_sregs;
  _IOWR "KVM_TRANSLATE" 0xae 133 kvm_translation;
  _IOW "KVM_INTERRUPT" 0xae 134 kvm_interrupt;
  _IOW "KVM_SET_SIGNAL_MASK" 0xae 139 kvm_signal_mask;
  _IOR "KVM_GET_FPU" 0xae 140 Asm_kvm.kvm_fpu;
  _IOW "KVM_SET_FPU" 0xae 141 Asm_kvm.kvm_fpu;
  _IOWR "KVM_TPR_ACCESS_REPORTING" 0xae 146 kvm_tpr_access_ctl;
  _IOW "KVM_SET_VAPIC_ADDR" 0xae 147 kvm_vapic_addr;
  _IOW "KVM_S390_INTERRUPT" 0xae 148 kvm_s390_interrupt;
  _IOW "KVM_S390_STORE_STATUS" 0xae 149 ulong;
  _IOW "KVM_S390_SET_INITIAL_PSW" 0xae 150 kvm_s390_psw;
  _IO "KVM_S390_INITIAL_RESET" 0xae 151;
  _IOR "KVM_GET_MP_STATE" 0xae 152 kvm_mp_state;
  _IOW "KVM_SET_MP_STATE" 0xae 153 kvm_mp_state;
  _IO "KVM_NMI" 0xae 154;
  _IOW "KVM_SET_GUEST_DEBUG" 0xae 155 kvm_guest_debug;
  _IOW "KVM_X86_SETUP_MCE" 0xae 156 __u64;
  _IOR "KVM_X86_GET_MCE_CAP_SUPPORTED" 0xae 157 __u64].
Definition kvm_ioctls_7 : list command := [
  _IOW "KVM_ENABLE_CAP" 0xae 163 kvm_enable_cap].
Definition kvm_ioctls_8 : list command := [
  _IOW "KVM_DIRTY_TLB" 0xae 170 kvm_dirty_tlb;
  _IOW "KVM_GET_ONE_REG" 0xae 171 kvm_one_reg;
  _IOW "KVM_SET_ONE_REG" 0xae 172 kvm_one_reg;
  _IO "KVM_KVMCLOCK_CTRL" 0xae 173;
  _IOW "KVM_ARM_VCPU_INIT" 0xae 174 Asm_kvm.kvm_vcpu_init;
  _IOR "KVM_ARM_PREFERRED_TARGET" 0xae 175 Asm_kvm.kvm_vcpu_init;
  _IOWR "KVM_GET_REG_LIST" 0xae 176 kvm_reg_list;
  _IOW "KVM_S390_MEM_OP" 0xae 177 kvm_s390_mem_op;
  _IOW "KVM_S390_GET_SKEYS" 0xae 178 kvm_s390_skeys;
  _IOW "KVM_S390_SET_SKEYS" 0xae 179 kvm_s390_skeys;
  _IOW "KVM_S390_IRQ" 0xae 180 kvm_s390_irq;
  _IOW "KVM_S390_SET_IRQ_STATE" 0xae 181 kvm_s390_irq_state;
  _IOW "KVM_S390_GET_IRQ_STATE" 0xae 182 kvm_s390_irq_state;
  _IO "KVM_SMI" 0xae 183].
Definition kvm_ioctls : list command :=
  (kvm_ioctls_1 ++ kvm_ioctls_2 ++ kvm_ioctls_3 ++ kvm_ioctls_4 ++ kvm_ioctls_5 ++
  kvm_ioctls_6 ++ kvm_ioctls_7 ++ kvm_ioctls_8)%list.
End Kvm.

(** ** [linux/mei.h] *)

Module Mei.
Definition structs_mei_client : list (string * cty) :=
  let mei_client := Struct [("max_msg_length", __u32); ("protocol_version", __u8);
   ("reserved", Arr 3 __u8)] in
  [
  ("mei_client", mei_client);
  ("mei_connect_client_data", Struct [("", Union [("in_client_uuid", Uuid.uuid_le);
   ("out_client_properties", mei_client)])])].
Definition mei_connect_client_data : cty := type_in structs_mei_client "mei_connect_client_data".
Definition mei_types : list (string * cty) := structs_mei_client.
Definition mei_ioctls_1 : list command := [
  _IOWR "IOCTL_MEI_CONNECT_CLIENT" (chr "H") 1 mei_connect_client_data].
Definition mei_ioctls_2 : list command := [
  _IOW "IOCTL_MEI_NOTIFY_SET" (chr "H") 2 __u32].
Definition mei_ioctls_3 : list command := [
  _IOR "IOCTL_MEI_NOTIFY_GET" (chr "H") 3 __u32].
Definition mei_ioctls : list command :=
  (mei_ioctls_1 ++ mei_ioctls_2 ++ mei_ioctls_3)%list.
End Mei.

(** ** [linux/mic_ioctl.h] *)

Module Mic_ioctl.
Definition mic_copy_desc : cty :=
  Struct [("iov", ptr); ("iovcnt", __u32); ("vr_idx", __u8); ("update_used", __u8);
   ("out_len", __u32)].
Definition mic_ioctl_types : list (string * cty) := [("mic_copy_desc", mic_copy_desc)].
Definition mic_ioctl_ioctls_1 : list command := [
  _IOWR "MIC_VIRTIO_ADD_DEVICE" (chr "s") 1 ptr;
  _IOWR "MIC_VIRTIO_COPY_DESC" (chr "s") 2 ptr].
Definition mic_ioctl_ioctls_2 : list command := [
  _IOWR "MIC_VIRTIO_CONFIG_CHANGE" (chr "s") 5 ptr].
Definition mic_ioctl_ioctls : list command :=
  (mic_ioctl_ioctls_1 ++ mic_ioctl_ioctls_2)%list.
End Mic_ioctl.

(** ** [linux/msm-core-interface.h] *)

Module Msm_core_interface.
Definition TEMP_DATA_POINTS : Z := 13.
Definition MAX_NUM_FREQ : Z := 200.
Definition sched_params : cty :=
  Struct [("cpumask", uint32_t); ("cluster", uint32_t);
   ("power", Arr TEMP_DATA_POINTS (Arr MAX_NUM_FREQ uint32_t));
   ("voltage", Arr MAX_NUM_FREQ uint32_t); ("freq", Arr MAX_NUM_FREQ uint32_t)].
Definition msm_core_interface_types : list (string * cty) := [("sched_params", sched_params)].
Definition msm_core_interface_ioctls : list command := [
  _IOWR "EA_LEAKAGE" 0x9d 0 sched_params;
  _IOWR "EA_VOLT" 0x9d 1 sched_params].
End Msm_core_interface.

(** ** [linux/msm_dsps.h] *)

Module Msm_dsps.
Definition msm_dsps_ioctls : list command := [
  _IO "DSPS_IOCTL_ON" (chr "d") 1;
  _IO "DSPS_IOCTL_OFF" (chr "d") 2;
  _IOR "DSPS_IOCTL_READ_SLOW_TIMER" (chr "d") 3 ptr;
  _IOR "DSPS_IOCTL_READ_FAST_TIMER" (chr "d") 4 ptr;
  _IO "DSPS_IOCTL_RESET" (chr "d") 5].
End Msm_dsps.

(** ** [linux/msm_ipa.h] *)

Module Msm_ipa.
Definition IPA_HDR_MAX_SIZE : Z := 64.
Definition IPA_RESOURCE_NAME_MAX : Z := 32.
Definition IPA_MAC_ADDR_SIZE : Z := 6.
Definition IPA_WAN_MSG_IPv6_ADDR_GW_LEN : Z := 4.
Definition IPA_MAX_NUM_HW_PATH_CLIENTS : Z := 16.
Definition IPA_IPFLTR_NUM_MEQ_32_EQNS : Z := 2.
Definition IPA_IPFLTR_NUM_IHL_MEQ_32_EQNS : Z := 2.
Definition IPA_IPFLTR_NUM_MEQ_128_EQNS : Z := 2.
Definition IPA_IPFLTR_NUM_IHL_RANGE_16_EQNS : Z := 2.
Definition ipa_rule_attrib : cty :=
  Struct [("attrib_mask", uint32_t); ("src_port_lo", uint16_t); ("src_port_hi", uint16_t);
   ("dst_port_lo", uint16_t); ("dst_port_hi", uint16_t); ("type", uint8_t); ("code", uint8_t);
   ("tos_value", uint8_t); ("tos_mask", uint8_t); ("spi", uint32_t); ("src_port", uint16_t);
   ("dst_port", uint16_t); ("meta_data", uint32_t); ("meta_data_mask", uint32_t);
   ("src_mac_addr", Arr 6 uint8_t); ("src_mac_addr_mask", Arr 6 uint8_t);
   ("dst_mac_addr", Arr 6 uint8_t); ("dst_mac_addr_mask", Arr 6 uint8_t);
   ("ether_type", uint16_t); ("u", Union [("v4", Struct [("tos", uint8_t); ("protocol", uint8_t);
   ("src_addr", uint32_t); ("src_addr_mask", uint32_t); ("dst_addr", uint32_t);
   ("dst_addr_mask", uint32_t)]); ("v6", Struct [("tc", uint8_t); ("flow_label", uint32_t);
   ("next_hdr", uint8_t); ("src_addr", Arr 4 uint32_t); ("src_addr_mask", Arr 4 uint32_t);
   ("dst_addr", Arr 4 uint32_t); ("dst_addr_mask", Arr 4 uint32_t)])])].
Definition structs_ipa_ipfltr_eq_16 : list (string * cty) :=
  [
  ("ipa_ipfltr_eq_16", Struct [("offset", int8_t); ("value", uint16_t)]);
  ("ipa_ipfltr_eq_32", Struct [("offset", int8_t); ("value", uint32_t)]);
  ("ipa_ipfltr_mask_eq_128", Struct [("offset", int8_t); ("mask", Arr 16 uint8_t);
   ("value", Arr 16 uint8_t)]);
  ("ipa_ipfltr_mask_eq_32", Struct [("offset", int8_t); ("mask", uint32_t); ("value", uint32_t)]);
  ("ipa_ipfltr_range_eq_16", Struct [("offset", int8_t); ("range_low", uint16_t);
   ("range_high", uint16_t)])].
Definition ipa_ipfltr_eq_16 : cty := type_in structs_ipa_ipfltr_eq_16 "ipa_ipfltr_eq_16".
Definition ipa_ipfltr_eq_32 : cty := type_in structs_ipa_ipfltr_eq_16 "ipa_ipfltr_eq_32".
Definition ipa_ipfltr_mask_eq_128 : cty := type_in structs_ipa_ipfltr_eq_16 "ipa_ipfltr_mask_eq_128".
Definition ipa_ipfltr_mask_eq_32 : cty := type_in structs_ipa_ipfltr_eq_16 "ipa_ipfltr_mask_eq_32".
Definition ipa_ipfltr_range_eq_16 : cty := type_in structs_ipa_ipfltr_eq_16 "ipa_ipfltr_range_eq_16".
Definition ipa_ipfltri_rule_eq : cty :=
  Struct [("rule_eq_bitmap", uint16_t); ("tos_eq_present", uint8_t); ("tos_eq", uint8_t);
   ("protocol_eq_present", uint8_t); ("protocol_eq", uint8_t);
   ("num_ihl_offset_range_16", uint8_t);
   ("ihl_offset_range_16", Arr IPA_IPFLTR_NUM_IHL_RANGE_16_EQNS ipa_ipfltr_range_eq_16);
   ("num_offset_meq_32", uint8_t);
   ("offset_meq_32", Arr IPA_IPFLTR_NUM_MEQ_32_EQNS ipa_ipfltr_mask_eq_32);
   ("tc_eq_present", uint8_t); ("tc_eq", uint8_t); ("fl_eq_present", uint8_t);
   ("fl_eq", uint32_t); ("ihl_offset_eq_16_present", uint8_t);
   ("ihl_offset_eq_16", ipa_ipfltr_eq_16); ("ihl_offset_eq_32_present", uint8_t);
   ("ihl_offset_eq_32", ipa_ipfltr_eq_32); ("num_ihl_offset_meq_32", uint8_t);
   ("ihl_offset_meq_32", Arr IPA_IPFLTR_NUM_IHL_MEQ_32_EQNS ipa_ipfltr_mask_eq_32);
   ("num_offset_meq_128", uint8_t);
   ("offset_meq_128", Arr IPA_IPFLTR_NUM_MEQ_128_EQNS ipa_ipfltr_mask_eq_128);
   ("metadata_meq32_present", uint8_t); ("metadata_meq32", ipa_ipfltr_mask_eq_32);
   ("ipv4_frag_eq_present", uint8_t)].
Definition ipa_flt_rule : cty :=
  Struct [("retain_hdr", uint8_t); ("to_uc", uint8_t); ("action", enum);
   ("rt_tbl_hdl", uint32_t); ("attrib", ipa_rule_attrib); ("eq_attrib", ipa_ipfltri_rule_eq);
   ("rt_tbl_idx", uint32_t); ("eq_attrib_type", uint8_t); ("max_prio", uint8_t);
   ("hashable", uint8_t); ("rule_id", uint16_t); ("set_metadata", uint8_t); ("pdn_idx", uint8_t)].
Definition structs_ipa_rt_rule : list (string * cty) :=
  let ipa_hdr_add := Struct [("name", Arr IPA_RESOURCE_NAME_MAX char);
   ("hdr", Arr IPA_HDR_MAX_SIZE uint8_t); ("hdr_len", uint8_t); ("type", enum);
   ("is_partial", uint8_t); ("hdr_hdl", uint32_t); ("status", int);
   ("is_eth2_ofst_valid", uint8_t); ("eth2_ofst", uint16_t)] in
  let ipa_hdr_proc_ctx_add := Struct [("type", enum); ("hdr_hdl", uint32_t);
   ("proc_ctx_hdl", uint32_t); ("status", int)] in
  let ipa_hdr_del := Struct [("hdl", uint32_t); ("status", int)] in
  [
  ("ipa_rt_rule", Struct [("dst", enum); ("hdr_hdl", uint32_t); ("hdr_proc_ctx_hdl", uint32_t);
   ("attrib", ipa_rule_attrib); ("max_prio", uint8_t); ("hashable", uint8_t);
   ("retain_hdr", uint8_t)]);
  ("ipa_hdr_add", ipa_hdr_add);
  ("ipa_ioc_add_hdr", Struct [("commit", uint8_t); ("num_hdrs", uint8_t);
   ("hdr", Arr 0 ipa_hdr_add)]);
  ("ipa_hdr_proc_ctx_add", ipa_hdr_proc_ctx_add);
  ("ipa_ioc_add_hdr_proc_ctx", Struct [("commit", uint8_t); ("num_proc_ctxs", uint8_t);
   ("proc_ctx", Arr 0 ipa_hdr_proc_ctx_add)]);
  ("ipa_ioc_copy_hdr", Struct [("name", Arr IPA_RESOURCE_NAME_MAX char);
   ("hdr", Arr IPA_HDR_MAX_SIZE uint8_t); ("hdr_len", uint8_t); ("type", enum);
   ("is_partial", uint8_t); ("is_eth2_ofst_valid", uint8_t); ("eth2_ofst", uint16_t)]);
  ("ipa_ioc_get_hdr", Struct [("name", Arr IPA_RESOURCE_NAME_MAX char); ("hdl", uint32_t)]);
  ("ipa_hdr_del", ipa_hdr_del);
  ("ipa_ioc_del_hdr", Struct [("commit", uint8_t); ("num_hdls", uint8_t);
   ("hdl", Arr 0 ipa_hdr_del)])].
Definition ipa_rt_rule : cty := type_in structs_ipa_rt_rule "ipa_rt_rule".
Definition structs_ipa_hdr_proc_ctx_del : list (string * cty) :=
  let ipa_hdr_proc_ctx_del := Struct [("hdl", uint32_t); ("status", int)] in
  let ipa_rt_rule_add := Struct [("rule", ipa_rt_rule); ("at_rear", uint8_t);
   ("rt_rule_hdl", uint32_t); ("status", int)] in
  let ipa_rt_rule_mdfy := Struct [("rule", ipa_rt_rule); ("rt_rule_hdl", uint32_t);
   ("status", int)] in
  [
  ("ipa_hdr_proc_ctx_del", ipa_hdr_proc_ctx_del);
  ("ipa_ioc_del_hdr_proc_ctx", Struct [("commit", uint8_t); ("num_hdls", uint8_t);
   ("hdl", Arr 0 ipa_hdr_proc_ctx_del)]);
  ("ipa_rt_rule_add", ipa_rt_rule_add);
  ("ipa_ioc_add_rt_rule", Struct [("commit", uint8_t); ("ip", enum);
   ("rt_tbl_name", Arr IPA_RESOURCE_NAME_MAX char); ("num_rules", uint8_t);
   ("rules", Arr 0 ipa_rt_rule_add)]);
  ("ipa_ioc_add_rt_rule_after", Struct [("commit", uint8_t); ("ip", enum);
   ("rt_tbl_name", Arr IPA_RESOURCE_NAME_MAX char); ("num_rules", uint8_t);
   ("add_after_hdl", uint32_t); ("rules", Arr 0 ipa_rt_rule_add)]);
  ("ipa_rt_rule_mdfy", ipa_rt_rule_mdfy);
  ("ipa_ioc_mdfy_rt_rule", Struct [("commit", uint8_t); ("ip", enum); ("num_rules", uint8_t);
   ("rules", Arr 0 ipa_rt_rule_mdfy)]);
  ("ipa_rt_rule_del", Struct [("hdl", uint32_t); ("status", int)]);
  ("ipa_rt_rule_add_ext", Struct [("rule", ipa_rt_rule); ("at_rear", uint8_t);
   ("rt_rule_hdl", uint32_t); ("status", int); ("rule_id", uint16_t)])].
Definition ipa_rt_rule_del : cty := type_in structs_ipa_hdr_proc_ctx_del "ipa_rt_rule_del".
Definition ipa_rt_rule_add_ext : cty := type_in structs_ipa_hdr_proc_ctx_del "ipa_rt_rule_add_ext".
Definition structs_ipa_ioc_add_rt_rule_ext : list (string * cty) :=
  let ipa_flt_rule_add := Struct [("rule", ipa_flt_rule); ("at_rear", uint8_t);
   ("flt_rule_hdl", uint32_t); ("status", int)] in
  let ipa_flt_rule_mdfy := Struct [("rule", ipa_flt_rule); ("rule_hdl", uint32_t);
   ("status", int)] in
  [
  ("ipa_ioc_add_rt_rule_ext", Struct [("commit", uint8_t); ("ip", enum);
   ("rt_tbl_name", Arr IPA_RESOURCE_NAME_MAX char); ("num_rules", uint8_t);
   ("rules", Arr 0 ipa_rt_rule_add_ext)]);
  ("ipa_ioc_del_rt_rule", Struct [("commit", uint8_t); ("ip", enum); ("num_hdls", uint8_t);
   ("hdl", Arr 0 ipa_rt_rule_del)]);
  ("ipa_ioc_get_rt_tbl_indx", Struct [("ip", enum); ("name", Arr IPA_RESOURCE_NAME_MAX char);
   ("idx", uint32_t)]);
  ("ipa_flt_rule_add", ipa_flt_rule_add);
  ("ipa_ioc_add_flt_rule", Struct [("commit", uint8_t); ("ip", enum); ("ep", enum);
   ("global", uint8_t); ("num_rules", uint8_t); ("rules", Arr 0 ipa_flt_rule_add)]);
  ("ipa_ioc_add_flt_rule_after", Struct [("commit", uint8_t); ("ip", enum); ("ep", enum);
   ("num_rules", uint8_t); ("add_after_hdl", uint32_t); ("rules", Arr 0 ipa_flt_rule_add)]);
  ("ipa_flt_rule_mdfy", ipa_flt_rule_mdfy);
  ("ipa_ioc_mdfy_flt_rule", Struct [("commit", uint8_t); ("ip", enum); ("num_rules", uint8_t);
   ("rules", Arr 0 ipa_flt_rule_mdfy)]);
  ("ipa_flt_rule_del", Struct [("hdl", uint32_t); ("status", int)])].
Definition ipa_flt_rule_del : cty := type_in structs_ipa_ioc_add_rt_rule_ext "ipa_flt_rule_del".
Definition structs_ipa_ioc_del_flt_rule : list (string * cty) :=
  let ipa_ioc_tx_intf_prop := Struct [("ip", enum); ("attrib", ipa_rule_attrib);
   ("dst_pipe", enum); ("alt_dst_pipe", enum); ("hdr_name", Arr IPA_RESOURCE_NAME_MAX char);
   ("hdr_l2_type", enum)] in
  let ipa_ioc_ext_intf_prop := Struct [("ip", enum); ("eq_attrib", ipa_ipfltri_rule_eq);
   ("action", enum); ("rt_tbl_idx", uint32_t); ("mux_id", uint8_t); ("filter_hdl", uint32_t);
   ("is_xlat_rule", uint8_t); ("rule_id", uint32_t); ("is_rule_hashable", uint8_t)] in
  let ipa_ioc_rx_intf_prop := Struct [("ip", enum); ("attrib", ipa_rule_attrib);
   ("src_pipe", enum); ("hdr_l2_type", enum)] in
  [
  ("ipa_ioc_del_flt_rule", Struct [("commit", uint8_t); ("ip", enum); ("num_hdls", uint8_t);
   ("hdl", Arr 0 ipa_flt_rule_del)]);
  ("ipa_ioc_get_rt_tbl", Struct [("ip", enum); ("name", Arr IPA_RESOURCE_NAME_MAX char);
   ("hdl", uint32_t)]);
  ("ipa_ioc_query_intf", Struct [("name", Arr IPA_RESOURCE_NAME_MAX char);
   ("num_tx_props", uint32_t); ("num_rx_props", uint32_t); ("num_ext_props", uint32_t);
   ("excp_pipe", enum)]);
  ("ipa_ioc_tx_intf_prop", ipa_ioc_tx_intf_prop);
  ("ipa_ioc_query_intf_tx_props", Struct [("name", Arr IPA_RESOURCE_NAME_MAX char);
   ("num_tx_props", uint32_t); ("tx", Arr 0 ipa_ioc_tx_intf_prop)]);
  ("ipa_ioc_ext_intf_prop", ipa_ioc_ext_intf_prop);
  ("ipa_ioc_query_intf_ext_props", Struct [("name", Arr IPA_RESOURCE_NAME_MAX char);
   ("num_ext_props", uint32_t); ("ext", Arr 0 ipa_ioc_ext_intf_prop)]);
  ("ipa_ioc_rx_intf_prop", ipa_ioc_rx_intf_prop);
  ("ipa_ioc_query_intf_rx_props", Struct [("name", Arr IPA_RESOURCE_NAME_MAX char);
   ("num_rx_props", uint32_t); ("rx", Arr 0 ipa_ioc_rx_intf_prop)]);
  ("ipa_ioc_nat_alloc_mem", Struct [("dev_name", Arr IPA_RESOURCE_NAME_MAX char);
   ("size", size_t); ("offset", off_t)])].
Definition structs_ipa_ioc_nat_ipv6ct_table_alloc : list (string * cty) :=
  let ipa_ioc_nat_dma_one := Struct [("table_index", uint8_t); ("base_addr", uint8_t);
   ("offset", uint32_t); ("data", uint16_t)] in
  [
  ("ipa_ioc_nat_ipv6ct_table_alloc", Struct [("size", size_t); ("offset", off_t)]);
  ("ipa_ioc_v4_nat_init", Struct [("tbl_index", uint8_t); ("ipv4_rules_offset", uint32_t);
   ("expn_rules_offset", uint32_t); ("index_offset", uint32_t); ("index_expn_offset", uint32_t);
   ("table_entries", uint16_t); ("expn_table_entries", uint16_t); ("ip_addr", uint32_t)]);
  ("ipa_ioc_ipv6ct_init", Struct [("tbl_index", uint8_t); ("base_table_offset", uint32_t);
   ("expn_table_offset", uint32_t); ("table_entries", uint16_t);
   ("expn_table_entries", uint16_t)]);
  ("ipa_ioc_v4_nat_del", Struct [("table_index", uint8_t); ("public_ip_addr", uint32_t)]);
  ("ipa_ioc_nat_ipv6ct_table_del", Struct [("table_index", uint8_t)]);
  ("ipa_ioc_nat_dma_one", ipa_ioc_nat_dma_one);
  ("ipa_ioc_nat_dma_cmd", Struct [("entries", uint8_t); ("dma", Arr 0 ipa_ioc_nat_dma_one)]);
  ("ipa_ioc_nat_pdn_entry", Struct [("pdn_index", uint8_t); ("public_ip", uint32_t);
   ("src_metadata", uint32_t); ("dst_metadata", uint32_t)]);
  ("ipa_ioc_vlan_iface_info", Struct [("name", Arr IPA_RESOURCE_NAME_MAX char);
   ("vlan_id", uint8_t)]);
  ("ipa_ioc_l2tp_vlan_mapping_info", Struct [("iptype", enum);
   ("l2tp_iface_name", Arr IPA_RESOURCE_NAME_MAX char); ("l2tp_session_id", uint8_t);
   ("vlan_iface_name", Arr IPA_RESOURCE_NAME_MAX char)])].
Definition structs_ipa_msg_meta : list (string * cty) :=
  [
  ("ipa_msg_meta", Struct [("msg_type", uint8_t); ("rsvd", uint8_t); ("msg_len", uint16_t)]);
  ("ipa_wlan_msg", Struct [("name", Arr IPA_RESOURCE_NAME_MAX char);
   ("mac_addr", Arr IPA_MAC_ADDR_SIZE uint8_t)])].
Definition structs_ipa_wlan_hdr_attrib_val : list (string * cty) :=
  let ipa_wlan_hdr_attrib_val := Struct [("attrib_type", enum); ("offset", uint8_t);
   ("u", Union [("mac_addr", Arr IPA_MAC_ADDR_SIZE uint8_t); ("sta_id", uint8_t)])] in
  [
  ("ipa_wlan_hdr_attrib_val", ipa_wlan_hdr_attrib_val);
  ("ipa_wlan_msg_ex", Struct [("name", Arr IPA_RESOURCE_NAME_MAX char);
   ("num_of_attribs", uint8_t); ("attribs", Arr 0 ipa_wlan_hdr_attrib_val)]);
  ("ipa_ecm_msg", Struct [("name", Arr IPA_RESOURCE_NAME_MAX char); ("ifindex", int)]);
  ("ipa_wan_msg", Struct [("upstream_ifname", Arr IPA_RESOURCE_NAME_MAX char);
   ("tethered_ifname", Arr IPA_RESOURCE_NAME_MAX char); ("ip", enum); ("ipv4_addr_gw", uint32_t);
   ("ipv6_addr_gw", Arr IPA_WAN_MSG_IPv6_ADDR_GW_LEN uint32_t)]);
  ("ipa_ioc_rm_dependency", Struct [("resource_name", enum); ("depends_on_name", enum)]);
  ("ipa_ioc_generate_flt_eq", Struct [("ip", enum); ("attrib", ipa_rule_attrib);
   ("eq_attrib", ipa_ipfltri_rule_eq)]);
  ("ipa_ioc_write_qmapid", Struct [("client", enum); ("qmap_id", uint8_t)])].
Definition structs_ipa_lan_client_msg : list (string * cty) :=
  let ipa_lan_client := Struct [("mac", Arr IPA_MAC_ADDR_SIZE uint8_t); ("client_idx", int8_t);
   ("inited", uint8_t)] in
  [
  ("ipa_lan_client_msg", Struct [("lanIface", Arr IPA_RESOURCE_NAME_MAX char);
   ("mac", Arr IPA_MAC_ADDR_SIZE uint8_t)]);
  ("ipa_lan_client", ipa_lan_client);
  ("ipa_tether_device_info", Struct [("ul_src_pipe", int32_t); ("hdr_len", uint8_t);
   ("num_clients", uint32_t); ("lan_client", Arr IPA_MAX_NUM_HW_PATH_CLIENTS ipa_lan_client)])].
Definition ipa_lan_client_msg : cty := type_in structs_ipa_lan_client_msg "ipa_lan_client_msg".
Definition structs_teth_aggr_params_link : list (string * cty) :=
  let teth_aggr_params_link := Struct [("aggr_prot", enum); ("max_transfer_size_byte", uint32_t);
   ("max_datagrams", uint32_t)] in
  let teth_aggr_params := Struct [("ul", teth_aggr_params_link); ("dl", teth_aggr_params_link)] in
  [
  ("teth_aggr_params_link", teth_aggr_params_link);
  ("teth_aggr_params", teth_aggr_params);
  ("teth_aggr_capabilities", Struct [("num_protocols", uint16_t);
   ("prot_caps", Arr 0 teth_aggr_params_link)]);
  ("teth_ioc_set_bridge_mode", Struct [("link_protocol", enum); ("lcid", uint16_t)]);
  ("teth_ioc_aggr_params", Struct [("aggr_params", teth_aggr_params); ("lcid", uint16_t)])].
Definition msm_ipa_types : list (string * cty) :=
  ([("ipa_rule_attrib", ipa_rule_attrib)] ++ structs_ipa_ipfltr_eq_16 ++
   [("ipa_ipfltri_rule_eq", ipa_ipfltri_rule_eq); ("ipa_flt_rule", ipa_flt_rule)] ++
   structs_ipa_rt_rule ++ structs_ipa_hdr_proc_ctx_del ++ structs_ipa_ioc_add_rt_rule_ext ++
   structs_ipa_ioc_del_flt_rule ++ structs_ipa_ioc_nat_ipv6ct_table_alloc ++
   structs_ipa_msg_meta ++ structs_ipa_wlan_hdr_attrib_val ++ structs_ipa_lan_client_msg ++
   structs_teth_aggr_params_link)%list.
Definition msm_ipa_ioctls_1 : list command := [
  _IOWR "IPA_IOC_ADD_HDR" 0xcf 0 ptr;
  _IOWR "IPA_IOC_DEL_HDR" 0xcf 1 ptr;
  _IOWR "IPA_IOC_ADD_RT_RULE" 0xcf 2 ptr;
  _IOWR "IPA_IOC_ADD_RT_RULE_EXT" 0xcf 46 ptr;
  _IOWR "IPA_IOC_ADD_RT_RULE_AFTER" 0xcf 43 ptr;
  _IOWR "IPA_IOC_DEL_RT_RULE" 0xcf 3 ptr;
  _IOWR "IPA_IOC_ADD_FLT_RULE" 0xcf 4 ptr;
  _IOWR "IPA_IOC_ADD_FLT_RULE_AFTER" 0xcf 44 ptr;
  _IOWR "IPA_IOC_DEL_FLT_RULE" 0xcf 5 ptr;
  _IO "IPA_IOC_COMMIT_HDR" 0xcf 6;
  _IO "IPA_IOC_RESET_HDR" 0xcf 7;
  _IOW "IPA_IOC_COMMIT_RT" 0xcf 8 enum;
  _IOW "IPA_IOC_RESET_RT" 0xcf 9 enum;
  _IOW "IPA_IOC_COMMIT_FLT" 0xcf 10 enum;
  _IOW "IPA_IOC_RESET_FLT" 0xcf 11 enum;
  _IO "IPA_IOC_DUMP" 0xcf 12;
  _IOWR "IPA_IOC_GET_RT_TBL" 0xcf 13 ptr;
  _IOW "IPA_IOC_PUT_RT_TBL" 0xcf 14 uint32_t;
  _IOWR "IPA_IOC_COPY_HDR" 0xcf 15 ptr;
  _IOWR "IPA_IOC_QUERY_INTF" 0xcf 16 ptr;
  _IOWR "IPA_IOC_QUERY_INTF_TX_PROPS" 0xcf 17 ptr;
  _IOWR "IPA_IOC_QUERY_INTF_RX_PROPS" 0xcf 18 ptr;
  _IOWR "IPA_IOC_QUERY_INTF_EXT_PROPS" 0xcf 32 ptr;
  _IOWR "IPA_IOC_GET_HDR" 0xcf 19 ptr;
  _IOW "IPA_IOC_PUT_HDR" 0xcf 20 uint32_t;
  _IOWR "IPA_IOC_ALLOC_NAT_MEM" 0xcf 22 ptr;
  _IOWR "IPA_IOC_ALLOC_NAT_TABLE" 0xcf 48 ptr;
  _IOWR "IPA_IOC_ALLOC_IPV6CT_TABLE" 0xcf 49 ptr;
  _IOWR "IPA_IOC_V4_INIT_NAT" 0xcf 23 ptr;
  _IOWR "IPA_IOC_INIT_IPV6CT_TABLE" 0xcf 25 ptr;
  _IOWR "IPA_IOC_NAT_DMA" 0xcf 24 ptr;
  _IOWR "IPA_IOC_TABLE_DMA_CMD" 0xcf 24 ptr;
  _IOWR "IPA_IOC_V4_DEL_NAT" 0xcf 26 ptr;
  _IOWR "IPA_IOC_DEL_NAT_TABLE" 0xcf 50 ptr;
  _IOWR "IPA_IOC_DEL_IPV6CT_TABLE" 0xcf 51 ptr;
  _IOWR "IPA_IOC_GET_NAT_OFFSET" 0xcf 28 ptr;
  _IOWR "IPA_IOC_NAT_MODIFY_PDN" 0xcf 47 ptr;
  _IOW "IPA_IOC_SET_FLT" 0xcf 21 uint32_t;
  _IOWR "IPA_IOC_PULL_MSG" 0xcf 27 ptr;
  _IOWR "IPA_IOC_RM_ADD_DEPENDENCY" 0xcf 29 ptr;
  _IOWR "IPA_IOC_RM_DEL_DEPENDENCY" 0xcf 30 ptr;
  _IOWR "IPA_IOC_GENERATE_FLT_EQ" 0xcf 31 ptr;
  _IOR "IPA_IOC_QUERY_EP_MAPPING" 0xcf 33 uint32_t;
  _IOWR "IPA_IOC_QUERY_RT_TBL_INDEX" 0xcf 34 ptr;
  _IOWR "IPA_IOC_WRITE_QMAPID" 0xcf 35 ptr;
  _IOWR "IPA_IOC_MDFY_FLT_RULE" 0xcf 36 ptr;
  _IOWR "IPA_IOC_MDFY_RT_RULE" 0xcf 42 ptr;
  _IOWR "IPA_IOC_NOTIFY_WAN_UPSTREAM_ROUTE_ADD" 0xcf 37 ptr;
  _IOWR "IPA_IOC_NOTIFY_WAN_UPSTREAM_ROUTE_DEL" 0xcf 38 ptr;
  _IOWR "IPA_IOC_NOTIFY_WAN_EMBMS_CONNECTED" 0xcf 39 ptr].
Definition msm_ipa_ioctls_2 : list command := [
  _IOWR "IPA_IOC_ADD_HDR_PROC_CTX" 0xcf 40 ptr;
  _IOWR "IPA_IOC_DEL_HDR_PROC_CTX" 0xcf 41 ptr;
  _IOWR "IPA_IOC_GET_HW_VERSION" 0xcf 45 ptr;
  _IOWR "IPA_IOC_ADD_VLAN_IFACE" 0xcf 52 ptr;
  _IOWR "IPA_IOC_DEL_VLAN_IFACE" 0xcf 53 ptr;
  _IOWR "IPA_IOC_ADD_L2TP_VLAN_MAPPING" 0xcf 54 ptr;
  _IOWR "IPA_IOC_DEL_L2TP_VLAN_MAPPING" 0xcf 55 ptr;
  _IO "IPA_IOC_CLEANUP" 0xcf 56;
  _IO "IPA_IOC_QUERY_WLAN_CLIENT" 0xcf 57].
Definition msm_ipa_ioctls_3 : list command := [
  _IOW "TETH_BRIDGE_IOC_SET_BRIDGE_MODE" 0xce 0 ptr;
  _IOW "TETH_BRIDGE_IOC_SET_AGGR_PARAMS" 0xce 1 ptr;
  _IOR "TETH_BRIDGE_IOC_GET_AGGR_PARAMS" 0xce 2 ptr;
  _IOWR "TETH_BRIDGE_IOC_GET_AGGR_CAPABILITIES" 0xce 3 ptr].
Definition msm_ipa_ioctls_4 : list command := [
  _IOW "ODU_BRIDGE_IOC_SET_MODE" 0xcd 0 enum;
  _IOW "ODU_BRIDGE_IOC_SET_LLV6_ADDR" 0xcd 1 ptr].
Definition msm_ipa_ioctls : list command :=
  (msm_ipa_ioctls_1 ++ msm_ipa_ioctls_2 ++ msm_ipa_ioctls_3 ++ msm_ipa_ioctls_4)%list.
End Msm_ipa.

(** ** [linux/msm_ipc.h] *)

Module Msm_ipc.
Definition structs_msm_ipc_port_addr : list (string * cty) :=
  let msm_ipc_port_addr := Struct [("node_id", uint32_t); ("port_id", uint32_t)] in
  let msm_ipc_port_name := Struct [("service", uint32_t); ("instance", uint32_t)] in
  [
  ("msm_ipc_port_addr", msm_ipc_port_addr);
  ("msm_ipc_port_name", msm_ipc_port_name);
  ("msm_ipc_addr", Struct [("addrtype", uchar); ("addr", Union [("port_addr", msm_ipc_port_addr);
   ("port_name", msm_ipc_port_name)])])].
Definition msm_ipc_port_name : cty := type_in structs_msm_ipc_port_addr "msm_ipc_port_name".
Definition msm_ipc_addr : cty := type_in structs_msm_ipc_port_addr "msm_ipc_addr".
Definition structs_sockaddr_msm_ipc : list (string * cty) :=
  [
  ("sockaddr_msm_ipc", Struct [("family", ushort); ("address", msm_ipc_addr); ("reserved", uchar)]);
  ("config_sec_rules_args", Struct [("num_group_info", int); ("service_id", uint32_t);
   ("instance_id", uint32_t); ("reserved", uint); ("group_id", Arr 0 gid_t)])].
Definition sockaddr_msm_ipc : cty := type_in structs_sockaddr_msm_ipc "sockaddr_msm_ipc".
Definition config_sec_rules_args : cty := type_in structs_sockaddr_msm_ipc "config_sec_rules_args".
Definition structs_msm_ipc_server_info : list (string * cty) :=
  let msm_ipc_server_info := Struct [("node_id", uint32_t); ("port_id", uint32_t);
   ("service", uint32_t); ("instance", uint32_t)] in
  [
  ("msm_ipc_server_info", msm_ipc_server_info);
  ("server_lookup_args", Struct [("port_name", msm_ipc_port_name); ("num_entries_in_array", int);
   ("num_entries_found", int); ("lookup_mask", uint32_t);
   ("srv_info", Arr 0 msm_ipc_server_info)])].
Definition msm_ipc_types : list (string * cty) :=
  (structs_msm_ipc_port_addr ++ structs_sockaddr_msm_ipc ++ structs_msm_ipc_server_info)%list.
Definition msm_ipc_ioctls : list command := [
  _IOR "IPC_ROUTER_IOCTL_GET_VERSION" 0xc3 0 uint;
  _IOR "IPC_ROUTER_IOCTL_GET_MTU" 0xc3 1 uint;
  _IOWR "IPC_ROUTER_IOCTL_LOOKUP_SERVER" 0xc3 2 sockaddr_msm_ipc;
  _IOR "IPC_ROUTER_IOCTL_GET_CURR_PKT_SIZE" 0xc3 3 uint;
  _IOR "IPC_ROUTER_IOCTL_BIND_CONTROL_PORT" 0xc3 4 uint;
  _IOR "IPC_ROUTER_IOCTL_CONFIG_SEC_RULES" 0xc3 5 config_sec_rules_args].
End Msm_ipc.

(** ** [linux/msm_thermal_ioctl.h] *)

Module Msm_thermal_ioctl.
Definition MSM_IOCTL_FREQ_SIZE : Z := 16.
Definition cpu_freq_arg : cty := Packed [("cpu_num", uint32_t); ("freq_req", uint32_t)].
Definition clock_plan_arg : cty :=
  Packed [("cluster_num", uint32_t); ("freq_table_len", uint32_t); ("set_idx", uint32_t);
   ("freq_table", Arr MSM_IOCTL_FREQ_SIZE uint)].
Definition structs_voltage_plan_arg : list (string * cty) :=
  let voltage_plan_arg := Packed [("cluster_num", uint32_t); ("voltage_table_len", uint32_t);
   ("set_idx", uint32_t); ("voltage_table", Arr MSM_IOCTL_FREQ_SIZE uint32_t)] in
  [
  ("voltage_plan_arg", voltage_plan_arg);
  ("msm_thermal_ioctl", Packed [("size", uint32_t); ("", Union [("cpu_freq", cpu_freq_arg);
   ("clock_freq", clock_plan_arg); ("voltage", voltage_plan_arg)])])].
Definition msm_thermal_ioctl : cty := type_in structs_voltage_plan_arg "msm_thermal_ioctl".
Definition msm_thermal_ioctl_types : list (string * cty) :=
  ([("cpu_freq_arg", cpu_freq_arg); ("clock_plan_arg", clock_plan_arg)] ++
   structs_voltage_plan_arg)%list.
Definition msm_thermal_ioctl_ioctls : list command := [
  _IOW "MSM_THERMAL_SET_CPU_MAX_FREQUENCY" 0xca 0 msm_thermal_ioctl;
  _IOW "MSM_THERMAL_SET_CPU_MIN_FREQUENCY" 0xca 1 msm_thermal_ioctl;
  _IOW "MSM_THERMAL_SET_CLUSTER_MAX_FREQUENCY" 0xca 2 msm_thermal_ioctl;
  _IOW "MSM_THERMAL_SET_CLUSTER_MIN_FREQUENCY" 0xca 3 msm_thermal_ioctl;
  _IOR "MSM_THERMAL_GET_CLUSTER_FREQUENCY_PLAN" 0xca 4 msm_thermal_ioctl;
  _IOR "MSM_THERMAL_GET_CLUSTER_VOLTAGE_PLAN" 0xca 5 msm_thermal_ioctl].
End Msm_thermal_ioctl.

(** ** [linux/nfc/nfcinfo.h] *)

Module Nfc_nfcinfo.
Definition structs_nqx_devinfo : list (string * cty) :=
  let nqx_devinfo := Struct [("chip_type", uchar); ("rom_version", uchar); ("fw_major", uchar);
   ("fw_minor", uchar)] in
  [
  ("nqx_devinfo", nqx_devinfo);
  ("nqx_uinfo", Union [("i", uint); ("info", nqx_devinfo)])].
Definition nfc_nfcinfo_types : list (string * cty) := structs_nqx_devinfo.
Definition nfc_nfcinfo_ioctls : list command := [
  _IOW "NFCC_GET_INFO" 0xe9 9 uint].
End Nfc_nfcinfo.

(** ** [linux/perf_event.h] *)

Module Perf_event.
Definition perf_event_header : cty := Struct [("type", __u32); ("misc", __u16); ("size", __u16)].
Definition perf_event_types : list (string * cty) := [("perf_event_header", perf_event_header)].
Definition perf_event_ioctls : list command := [
  _IO "PERF_EVENT_IOC_ENABLE" (chr "$") 0;
  _IO "PERF_EVENT_IOC_DISABLE" (chr "$") 1;
  _IO "PERF_EVENT_IOC_REFRESH" (chr "$") 2;
  _IO "PERF_EVENT_IOC_RESET" (chr "$") 3;
  _IOW "PERF_EVENT_IOC_PERIOD" (chr "$") 4 __u64;
  _IO "PERF_EVENT_IOC_SET_OUTPUT" (chr "$") 5;
  _IOW "PERF_EVENT_IOC_SET_FILTER" (chr "$") 6 ptr;
  _IOR "PERF_EVENT_IOC_ID" (chr "$") 7 ptr;
  _IOW "PERF_EVENT_IOC_SET_BPF" (chr "$") 8 __u32;
  _IOW "PERF_EVENT_IOC_SET_DRV_CONFIGS" (chr "$") 10 ptr].
End Perf_event.

(** ** [linux/qcedev.h] *)

Module Qcedev.
Definition QCEDEV_MAX_KEY_SIZE : Z := 64.
Definition QCEDEV_MAX_IV_SIZE : Z := 32.
Definition QCEDEV_MAX_BUFFERS : Z := 16.
Definition QCEDEV_MAX_SHA_DIGEST : Z := 32.
Definition structs_buf_info : list (string * cty) :=
  let buf_info := Struct [("", Union [("offset", uint32_t); ("vaddr", ptr)]); ("len", uint32_t)] in
  let qcedev_vbuf_info := Struct [("src", Arr QCEDEV_MAX_BUFFERS buf_info);
   ("dst", Arr QCEDEV_MAX_BUFFERS buf_info)] in
  let qcedev_pmem_info := Struct [("fd_src", int); ("src", Arr QCEDEV_MAX_BUFFERS buf_info);
   ("fd_dst", int); ("dst", Arr QCEDEV_MAX_BUFFERS buf_info)] in
  [
  ("buf_info", buf_info);
  ("qcedev_vbuf_info", qcedev_vbuf_info);
  ("qcedev_pmem_info", qcedev_pmem_info);
  ("qcedev_cipher_op_req", Struct [("use_pmem", uint8_t); ("", Union [("pmem", qcedev_pmem_info);
   ("vbuf", qcedev_vbuf_info)]); ("entries", uint32_t); ("data_len", uint32_t);
   ("in_place_op", uint8_t); ("enckey", Arr QCEDEV_MAX_KEY_SIZE uint8_t); ("encklen", uint32_t);
   ("iv", Arr QCEDEV_MAX_IV_SIZE uint8_t); ("ivlen", uint32_t); ("byteoffset", uint32_t);
   ("alg", enum); ("mode", enum); ("op", enum)]);
  ("qcedev_sha_op_req", Struct [("data", Arr QCEDEV_MAX_BUFFERS buf_info); ("entries", uint32_t);
   ("data_len", uint32_t); ("digest", Arr QCEDEV_MAX_SHA_DIGEST uint8_t); ("diglen", uint32_t);
   ("authkey", ptr); ("authklen", uint32_t); ("alg", enum)]);
  ("qfips_verify_t", Struct [("kernel_size", uint); ("kernel", ptr)])].
Definition qcedev_cipher_op_req : cty := type_in structs_buf_info "qcedev_cipher_op_req".
Definition qcedev_sha_op_req : cty := type_in structs_buf_info "qcedev_sha_op_req".
Definition qcedev_types : list (string * cty) := structs_buf_info.
Definition qcedev_ioctls : list command := [
  _IOWR "QCEDEV_IOCTL_ENC_REQ" 0x87 1 qcedev_cipher_op_req;
  _IOWR "QCEDEV_IOCTL_DEC_REQ" 0x87 2 qcedev_cipher_op_req;
  _IOWR "QCEDEV_IOCTL_SHA_INIT_REQ" 0x87 3 qcedev_sha_op_req;
  _IOWR "QCEDEV_IOCTL_SHA_UPDATE_REQ" 0x87 4 qcedev_sha_op_req;
  _IOWR "QCEDEV_IOCTL_SHA_FINAL_REQ" 0x87 5 qcedev_sha_op_req;
  _IOWR "QCEDEV_IOCTL_GET_SHA_REQ" 0x87 6 qcedev_sha_op_req;
  _IO "QCEDEV_IOCTL_LOCK_CE" 0x87 7;
  _IO "QCEDEV_IOCTL_UNLOCK_CE" 0x87 8;
  _IOWR "QCEDEV_IOCTL_GET_CMAC_REQ" 0x87 9 qcedev_sha_op_req;
  _IOWR "QCEDEV_IOCTL_UPDATE_FIPS_STATUS" 0x87 10 enum;
  _IOR "QCEDEV_IOCTL_QUERY_FIPS_STATUS" 0x87 11 enum].
End Qcedev.

(** ** [linux/qcota.h] *)

Module Qcota.
Definition OTA_KEY_SIZE : Z := 16.
Definition MAX_NUM_V_MULTI_PKT : Z := 20.
Definition structs_qce_f8_req : list (string * cty) :=
  let qce_f8_req := Struct [("data_in", ptr); ("data_out", ptr); ("data_len", uint16_t);
   ("count_c", uint32_t); ("bearer", uint8_t); ("ckey", Arr OTA_KEY_SIZE uint8_t);
   ("direction", enum); ("algorithm", enum)] in
  [
  ("qce_f8_req", qce_f8_req);
  ("qce_f8_multi_pkt_req", Struct [("num_pkt", uint16_t); ("cipher_start", uint16_t);
   ("cipher_size", uint16_t); ("qce_f8_req", qce_f8_req)])].
Definition qce_f8_req : cty := type_in structs_qce_f8_req "qce_f8_req".
Definition qce_f8_multi_pkt_req : cty := type_in structs_qce_f8_req "qce_f8_multi_pkt_req".
Definition structs_cipher_iov : list (string * cty) :=
  let cipher_iov := Struct [("addr", ptr); ("size", ushort)] in
  [
  ("cipher_iov", cipher_iov);
  ("qce_f8_varible_multi_pkt_req", Struct [("num_pkt", ushort);
   ("cipher_iov", Arr MAX_NUM_V_MULTI_PKT cipher_iov); ("qce_f8_req", qce_f8_req)]);
  ("qce_f9_req", Struct [("message", ptr); ("msize", uint16_t); ("last_bits", uint8_t);
   ("mac_i", uint32_t); ("fresh", uint32_t); ("count_i", uint32_t); ("direction", enum);
   ("ikey", Arr OTA_KEY_SIZE uint8_t); ("algorithm", enum)])].
Definition qce_f8_varible_multi_pkt_req : cty := type_in structs_cipher_iov "qce_f8_varible_multi_pkt_req".
Definition qce_f9_req : cty := type_in structs_cipher_iov "qce_f9_req".
Definition qcota_types : list (string * cty) :=
  (structs_qce_f8_req ++ structs_cipher_iov)%list.
Definition qcota_ioctls : list command := [
  _IOWR "QCOTA_F8_REQ" 0x85 1 qce_f8_req;
  _IOWR "QCOTA_F8_MPKT_REQ" 0x85 2 qce_f8_multi_pkt_req;
  _IOWR "QCOTA_F9_REQ" 0x85 3 qce_f9_req;
  _IOWR "QCOTA_F8_V_MPKT_REQ" 0x85 4 qce_f8_varible_multi_pkt_req].
End Qcota.

(** ** [linux/qrng.h] *)

Module Qrng.
Definition qrng_ioctls : list command := [
  _IO "QRNG_IOCTL_RESET_BUS_BANDWIDTH" 0x100 1].
End Qrng.

(** ** [linux/qseecom.h] *)

Module Qseecom.
Definition MAX_ION_FD : Z := 4.
Definition MAX_APP_NAME_SIZE : Z := 64.
Definition QSEECOM_HASH_SIZE : Z := 32.
Definition SHA256_DIGEST_LENGTH : Z := 32.
Definition MAX_CE_PIPE_PAIR_PER_UNIT : Z := 3.
Definition MAX_CE_INFO_HANDLE_SIZE : Z := 32.
Definition structs_qseecom_register_listener_req : list (string * cty) :=
  let qseecom_ion_fd_info := Struct [("fd", int32_t); ("cmd_buf_offset", uint32_t)] in
  [
  ("qseecom_register_listener_req", Struct [("listener_id", uint32_t); ("ifd_data_fd", int32_t);
   ("virt_sb_base", ptr); ("sb_size", uint32_t)]);
  ("qseecom_send_cmd_req", Struct [("cmd_req_buf", ptr); ("cmd_req_len", uint);
   ("resp_buf", ptr); ("resp_len", uint)]);
  ("qseecom_ion_fd_info", qseecom_ion_fd_info);
  ("qseecom_send_modfd_cmd_req", Struct [("cmd_req_buf", ptr); ("cmd_req_len", uint);
   ("resp_buf", ptr); ("resp_len", uint); ("ifd_data", Arr MAX_ION_FD qseecom_ion_fd_info)]);
  ("qseecom_send_resp_req", Struct [("resp_buf", ptr); ("resp_len", uint)]);
  ("qseecom_load_img_req", Struct [("mdt_len", uint32_t); ("img_len", uint32_t);
   ("ifd_data_fd", int32_t); ("img_name", Arr MAX_APP_NAME_SIZE char); ("app_arch", uint32_t);
   ("app_id", uint32_t)]);
  ("qseecom_set_sb_mem_param_req", Struct [("ifd_data_fd", int32_t); ("virt_sb_base", ptr);
   ("sb_len", uint32_t)]);
  ("qseecom_qseos_version_req", Struct [("qseos_version", uint)]);
  ("qseecom_qseos_app_load_query", Struct [("app_name", Arr MAX_APP_NAME_SIZE char);
   ("app_id", uint32_t); ("app_arch", uint32_t)]);
  ("qseecom_send_svc_cmd_req", Struct [("cmd_id", uint32_t); ("cmd_req_buf", ptr);
   ("cmd_req_len", uint); ("resp_buf", ptr); ("resp_len", uint)])].
Definition qseecom_register_listener_req : cty := type_in structs_qseecom_register_listener_req "qseecom_register_listener_req".
Definition qseecom_send_cmd_req : cty := type_in structs_qseecom_register_listener_req "qseecom_send_cmd_req".
Definition qseecom_ion_fd_info : cty := type_in structs_qseecom_register_listener_req "qseecom_ion_fd_info".
Definition qseecom_send_modfd_cmd_req : cty := type_in structs_qseecom_register_listener_req "qseecom_send_modfd_cmd_req".
Definition qseecom_load_img_req : cty := type_in structs_qseecom_register_listener_req "qseecom_load_img_req".
Definition qseecom_set_sb_mem_param_req : cty := type_in structs_qseecom_register_listener_req "qseecom_set_sb_mem_param_req".
Definition qseecom_qseos_version_req : cty := type_in structs_qseecom_register_listener_req "qseecom_qseos_version_req".
Definition qseecom_qseos_app_load_query : cty := type_in structs_qseecom_register_listener_req "qseecom_qseos_app_load_query".
Definition qseecom_send_svc_cmd_req : cty := type_in structs_qseecom_register_listener_req "qseecom_send_svc_cmd_req".
Definition structs_qseecom_create_key_req : list (string * cty) :=
  [
  ("qseecom_create_key_req", Struct [("hash32", Arr QSEECOM_HASH_SIZE uchar); ("usage", enum)]);
  ("qseecom_wipe_key_req", Struct [("usage", enum); ("wipe_key_flag", int)]);
  ("qseecom_update_key_userinfo_req", Struct [("current_hash32", Arr QSEECOM_HASH_SIZE uchar);
   ("new_hash32", Arr QSEECOM_HASH_SIZE uchar); ("usage", enum)])].
Definition qseecom_create_key_req : cty := type_in structs_qseecom_create_key_req "qseecom_create_key_req".
Definition qseecom_wipe_key_req : cty := type_in structs_qseecom_create_key_req "qseecom_wipe_key_req".
Definition qseecom_update_key_userinfo_req : cty := type_in structs_qseecom_create_key_req "qseecom_update_key_userinfo_req".
Definition structs_qseecom_save_partition_hash_req : list (string * cty) :=
  [
  ("qseecom_save_partition_hash_req", Struct [("partition_id", int);
   ("digest", Arr SHA256_DIGEST_LENGTH char)]);
  ("qseecom_is_es_activated_req", Struct [("is_activated", int)]);
  ("qseecom_mdtp_cipher_dip_req", Struct [("in_buf", ptr); ("in_buf_size", uint32_t);
   ("out_buf", ptr); ("out_buf_size", uint32_t); ("direction", uint32_t)])].
Definition qseecom_save_partition_hash_req : cty := type_in structs_qseecom_save_partition_hash_req "qseecom_save_partition_hash_req".
Definition qseecom_is_es_activated_req : cty := type_in structs_qseecom_save_partition_hash_req "qseecom_is_es_activated_req".
Definition qseecom_mdtp_cipher_dip_req : cty := type_in structs_qseecom_save_partition_hash_req "qseecom_mdtp_cipher_dip_req".
Definition structs_qseecom_send_modfd_listener_resp : list (string * cty) :=
  [
  ("qseecom_send_modfd_listener_resp", Struct [("resp_buf_ptr", ptr); ("resp_len", uint);
   ("ifd_data", Arr MAX_ION_FD qseecom_ion_fd_info)]);
  ("qseecom_qteec_req", Struct [("req_ptr", ptr); ("req_len", uint32_t); ("resp_ptr", ptr);
   ("resp_len", uint32_t)]);
  ("qseecom_qteec_modfd_req", Struct [("req_ptr", ptr); ("req_len", uint32_t); ("resp_ptr", ptr);
   ("resp_len", uint32_t); ("ifd_data", Arr MAX_ION_FD qseecom_ion_fd_info)]);
  ("qseecom_sg_entry", Struct [("phys_addr", uint32_t); ("len", uint32_t)]);
  ("qseecom_sg_entry_64bit", Packed [("phys_addr", uint64_t); ("len", uint32_t)])].
Definition qseecom_send_modfd_listener_resp : cty := type_in structs_qseecom_send_modfd_listener_resp "qseecom_send_modfd_listener_resp".
Definition qseecom_qteec_req : cty := type_in structs_qseecom_send_modfd_listener_resp "qseecom_qteec_req".
Definition qseecom_qteec_modfd_req : cty := type_in structs_qseecom_send_modfd_listener_resp "qseecom_qteec_modfd_req".
Definition qseecom_sg_entry_64bit : cty := type_in structs_qseecom_send_modfd_listener_resp "qseecom_sg_entry_64bit".
Definition qseecom_sg_list_buf_hdr_64bit : cty :=
  Packed [("blank_entry", qseecom_sg_entry_64bit); ("version", uint32_t);
   ("new_buf_phys_addr", uint64_t); ("nents_total", uint32_t)].
Definition qseecom_ce_pipe_entry : cty :=
  Struct [("valid", int); ("ce_num", uint); ("ce_pipe_pair", uint)].
Definition qseecom_ce_info_req : cty :=
  Struct [("handle", Arr MAX_CE_INFO_HANDLE_SIZE uchar); ("usage", uint); ("unit_num", uint);
   ("num_ce_pipe_entries", uint);
   ("ce_pipe_entry", Arr MAX_CE_PIPE_PAIR_PER_UNIT qseecom_ce_pipe_entry)].
Definition qseecom_types : list (string * cty) :=
  (structs_qseecom_register_listener_req ++ structs_qseecom_create_key_req ++
   structs_qseecom_save_partition_hash_req ++ structs_qseecom_send_modfd_listener_resp ++
   [("qseecom_sg_list_buf_hdr_64bit", qseecom_sg_list_buf_hdr_64bit);
   ("qseecom_ce_pipe_entry", qseecom_ce_pipe_entry); ("qseecom_ce_info_req",
   qseecom_ce_info_req)])%list.
Definition qseecom_ioctls : list command := [
  _IOWR "QSEECOM_IOCTL_REGISTER_LISTENER_REQ" 0x97 1 qseecom_register_listener_req;
  _IO "QSEECOM_IOCTL_UNREGISTER_LISTENER_REQ" 0x97 2;
  _IOWR "QSEECOM_IOCTL_SEND_CMD_REQ" 0x97 3 qseecom_send_cmd_req;
  _IOWR "QSEECOM_IOCTL_SEND_MODFD_CMD_REQ" 0x97 4 qseecom_send_modfd_cmd_req;
  _IO "QSEECOM_IOCTL_RECEIVE_REQ" 0x97 5;
  _IO "QSEECOM_IOCTL_SEND_RESP_REQ" 0x97 6;
  _IOWR "QSEECOM_IOCTL_LOAD_APP_REQ" 0x97 7 qseecom_load_img_req;
  _IOWR "QSEECOM_IOCTL_SET_MEM_PARAM_REQ" 0x97 8 qseecom_set_sb_mem_param_req;
  _IO "QSEECOM_IOCTL_UNLOAD_APP_REQ" 0x97 9;
  _IOWR "QSEECOM_IOCTL_GET_QSEOS_VERSION_REQ" 0x97 10 qseecom_qseos_version_req;
  _IO "QSEECOM_IOCTL_PERF_ENABLE_REQ" 0x97 11;
  _IO "QSEECOM_IOCTL_PERF_DISABLE_REQ" 0x97 12;
  _IOWR "QSEECOM_IOCTL_LOAD_EXTERNAL_ELF_REQ" 0x97 13 qseecom_load_img_req;
  _IO "QSEECOM_IOCTL_UNLOAD_EXTERNAL_ELF_REQ" 0x97 14;
  _IOWR "QSEECOM_IOCTL_APP_LOADED_QUERY_REQ" 0x97 15 qseecom_qseos_app_load_query;
  _IOWR "QSEECOM_IOCTL_SEND_CMD_SERVICE_REQ" 0x97 16 qseecom_send_svc_cmd_req;
  _IOWR "QSEECOM_IOCTL_CREATE_KEY_REQ" 0x97 17 qseecom_create_key_req;
  _IOWR "QSEECOM_IOCTL_WIPE_KEY_REQ" 0x97 18 qseecom_wipe_key_req;
  _IOWR "QSEECOM_IOCTL_SAVE_PARTITION_HASH_REQ" 0x97 19 qseecom_save_partition_hash_req;
  _IOWR "QSEECOM_IOCTL_IS_ES_ACTIVATED_REQ" 0x97 20 qseecom_is_es_activated_req;
  _IOWR "QSEECOM_IOCTL_SEND_MODFD_RESP" 0x97 21 qseecom_send_modfd_listener_resp;
  _IOWR "QSEECOM_IOCTL_SET_BUS_SCALING_REQ" 0x97 23 int;
  _IOWR "QSEECOM_IOCTL_UPDATE_KEY_USER_INFO_REQ" 0x97 24 qseecom_update_key_userinfo_req;
  _IOWR "QSEECOM_QTEEC_IOCTL_OPEN_SESSION_REQ" 0x97 30 qseecom_qteec_modfd_req;
  _IOWR "QSEECOM_QTEEC_IOCTL_CLOSE_SESSION_REQ" 0x97 31 qseecom_qteec_req;
  _IOWR "QSEECOM_QTEEC_IOCTL_INVOKE_MODFD_CMD_REQ" 0x97 32 qseecom_qteec_modfd_req;
  _IOWR "QSEECOM_QTEEC_IOCTL_REQUEST_CANCELLATION_REQ" 0x97 33 qseecom_qteec_modfd_req;
  _IOWR "QSEECOM_IOCTL_MDTP_CIPHER_DIP_REQ" 0x97 34 qseecom_mdtp_cipher_dip_req;
  _IOWR "QSEECOM_IOCTL_SEND_MODFD_CMD_64_REQ" 0x97 35 qseecom_send_modfd_cmd_req;
  _IOWR "QSEECOM_IOCTL_SEND_MODFD_RESP_64" 0x97 36 qseecom_send_modfd_listener_resp;
  _IOWR "QSEECOM_IOCTL_GET_CE_PIPE_INFO" 0x97 40 qseecom_ce_info_req;
  _IOWR "QSEECOM_IOCTL_FREE_CE_PIPE_INFO" 0x97 41 qseecom_ce_info_req;
  _IOWR "QSEECOM_IOCTL_QUERY_CE_PIPE_INFO" 0x97 42 qseecom_ce_info_req].
End Qseecom.

(** ** [linux/rmnet_ipa_fd_ioctl.h] *)

Module Rmnet_ipa_fd_ioctl.
Definition IFNAMSIZ : Z := 16.
Definition structs_wan_ioctl_poll_tethering_stats : list (string * cty) :=
  let wan_ioctl_per_client_info := Struct [("mac", Arr 6 uint8_t); ("ipv4_tx_bytes", uint64_t);
   ("ipv4_rx_bytes", uint64_t); ("ipv6_tx_bytes", uint64_t); ("ipv6_rx_bytes", uint64_t)] in
  [
  ("wan_ioctl_poll_tethering_stats", Struct [("polling_interval_secs", uint64_t);
   ("reset_stats", uint8_t)]);
  ("wan_ioctl_set_data_quota", Struct [("interface_name", Arr IFNAMSIZ char);
   ("quota_mbytes", uint64_t); ("set_quota", uint8_t)]);
  ("wan_ioctl_set_tether_client_pipe", Struct [("ipa_client", enum); ("reset_client", uint8_t);
   ("ul_src_pipe_len", uint32_t); ("ul_src_pipe_list", Arr 20 uint32_t);
   ("dl_dst_pipe_len", uint32_t); ("dl_dst_pipe_list", Arr 20 uint32_t)]);
  ("wan_ioctl_query_tether_stats", Struct [("upstreamIface", Arr IFNAMSIZ char);
   ("tetherIface", Arr IFNAMSIZ char); ("ipa_client", enum); ("ipv4_tx_packets", uint64_t);
   ("ipv4_tx_bytes", uint64_t); ("ipv4_rx_packets", uint64_t); ("ipv4_rx_bytes", uint64_t);
   ("ipv6_tx_packets", uint64_t); ("ipv6_tx_bytes", uint64_t); ("ipv6_rx_packets", uint64_t);
   ("ipv6_rx_bytes", uint64_t)]);
  ("wan_ioctl_query_tether_stats_all", Struct [("upstreamIface", Arr IFNAMSIZ char);
   ("ipa_client", enum); ("reset_stats", uint8_t); ("tx_bytes", uint64_t);
   ("rx_bytes", uint64_t)]);
  ("wan_ioctl_reset_tether_stats", Struct [("upstreamIface", Arr IFNAMSIZ char);
   ("reset_stats", uint8_t)]);
  ("wan_ioctl_query_dl_filter_stats", Struct [("reset_stats", uint8_t);
   ("stats_resp", Ipa_qmi_service_v01.ipa_get_data_stats_resp_msg_v01); ("index", uint32_t)]);
  ("wan_ioctl_send_lan_client_msg", Struct [("lan_client", Msm_ipa.ipa_lan_client_msg);
   ("client_event", enum)]);
  ("wan_ioctl_lan_client_info", Struct [("device_type", enum); ("mac", Arr 6 uint8_t);
   ("client_init", uint8_t); ("client_idx", int8_t); ("hdr_len", uint8_t);
   ("ul_src_pipe", enum)]);
  ("wan_ioctl_per_client_info", wan_ioctl_per_client_info);
  ("wan_ioctl_query_per_client_stats", Struct [("device_type", enum); ("reset_stats", uint8_t);
   ("disconnect_clnt", uint8_t); ("num_clients", uint8_t);
   ("client_info", Arr 16 wan_ioctl_per_client_info)])].
Definition rmnet_ipa_fd_ioctl_types : list (string * cty) := structs_wan_ioctl_poll_tethering_stats.
Definition rmnet_ipa_fd_ioctl_ioctls : list command := [
  _IOWR "WAN_IOC_ADD_FLT_RULE" 0x69 0 ptr;
  _IOWR "WAN_IOC_ADD_FLT_RULE_INDEX" 0x69 1 ptr;
  _IOWR "WAN_IOC_VOTE_FOR_BW_MBPS" 0x69 2 ptr;
  _IOWR "WAN_IOC_POLL_TETHERING_STATS" 0x69 3 ptr;
  _IOWR "WAN_IOC_SET_DATA_QUOTA" 0x69 4 ptr;
  _IOWR "WAN_IOC_SET_TETHER_CLIENT_PIPE" 0x69 5 ptr;
  _IOWR "WAN_IOC_QUERY_TETHER_STATS" 0x69 6 ptr;
  _IOWR "WAN_IOC_RESET_TETHER_STATS" 0x69 7 ptr;
  _IOWR "WAN_IOC_QUERY_DL_FILTER_STATS" 0x69 8 ptr;
  _IOWR "WAN_IOC_ADD_FLT_RULE_EX" 0x69 9 ptr;
  _IOWR "WAN_IOC_QUERY_TETHER_STATS_ALL" 0x69 10 ptr;
  _IOWR "WAN_IOC_ADD_UL_FLT_RULE" 0x69 11 ptr;
  _IOWR "WAN_IOC_ENABLE_PER_CLIENT_STATS" 0x69 12 ptr;
  _IOWR "WAN_IOC_QUERY_PER_CLIENT_STATS" 0x69 13 ptr;
  _IOWR "WAN_IOC_SET_LAN_CLIENT_INFO" 0x69 14 ptr;
  _IOWR "WAN_IOC_SEND_LAN_CLIENT_MSG" 0x69 16 ptr;
  _IOWR "WAN_IOC_CLEAR_LAN_CLIENT_INFO" 0x69 15 ptr].
End Rmnet_ipa_fd_ioctl.

(** ** [linux/scif_ioctl.h] *)

Module Scif_ioctl.
Definition structs_scif_port_id : list (string * cty) :=
  let scif_port_id := Struct [("node", __u16); ("port", __u16)] in
  [
  ("scif_port_id", scif_port_id);
  ("scifioctl_connect", Struct [("self", scif_port_id); ("peer", scif_port_id)]);
  ("scifioctl_accept", Struct [("flags", __s32); ("peer", scif_port_id); ("endpt", __u64)]);
  ("scifioctl_msg", Struct [("msg", __u64); ("len", __s32); ("flags", __s32); ("out_len", __s32)]);
  ("scifioctl_reg", Struct [("addr", __u64); ("len", __u64); ("offset", __s64); ("prot", __s32);
   ("flags", __s32); ("out_offset", __s64)]);
  ("scifioctl_unreg", Struct [("offset", __s64); ("len", __u64)]);
  ("scifioctl_copy", Struct [("loffset", __s64); ("len", __u64); ("roffset", __s64);
   ("addr", __u64); ("flags", __s32)]);
  ("scifioctl_fence_mark", Struct [("flags", __s32); ("mark", __u64)]);
  ("scifioctl_fence_signal", Struct [("loff", __s64); ("lval", __u64); ("roff", __s64);
   ("rval", __u64); ("flags", __s32)]);
  ("scifioctl_node_ids", Struct [("nodes", __u64); ("self", __u64); ("len", __s32)])].
Definition scifioctl_connect : cty := type_in structs_scif_port_id "scifioctl_connect".
Definition scifioctl_accept : cty := type_in structs_scif_port_id "scifioctl_accept".
Definition scifioctl_msg : cty := type_in structs_scif_port_id "scifioctl_msg".
Definition scifioctl_reg : cty := type_in structs_scif_port_id "scifioctl_reg".
Definition scifioctl_unreg : cty := type_in structs_scif_port_id "scifioctl_unreg".
Definition scifioctl_copy : cty := type_in structs_scif_port_id "scifioctl_copy".
Definition scifioctl_fence_mark : cty := type_in structs_scif_port_id "scifioctl_fence_mark".
Definition scifioctl_fence_signal : cty := type_in structs_scif_port_id "scifioctl_fence_signal".
Definition scifioctl_node_ids : cty := type_in structs_scif_port_id "scifioctl_node_ids".
Definition scif_ioctl_types : list (string * cty) := structs_scif_port_id.
Definition scif_ioctl_ioctls : list command := [
  _IOWR "SCIF_BIND" (chr "s") 1 __u64;
  _IOW "SCIF_LISTEN" (chr "s") 2 __s32;
  _IOWR "SCIF_CONNECT" (chr "s") 3 scifioctl_connect;
  _IOWR "SCIF_ACCEPTREQ" (chr "s") 4 scifioctl_accept;
  _IOWR "SCIF_ACCEPTREG" (chr "s") 5 __u64;
  _IOWR "SCIF_SEND" (chr "s") 6 scifioctl_msg;
  _IOWR "SCIF_RECV" (chr "s") 7 scifioctl_msg;
  _IOWR "SCIF_REG" (chr "s") 8 scifioctl_reg;
  _IOWR "SCIF_UNREG" (chr "s") 9 scifioctl_unreg;
  _IOWR "SCIF_READFROM" (chr "s") 10 scifioctl_copy;
  _IOWR "SCIF_WRITETO" (chr "s") 11 scifioctl_copy;
  _IOWR "SCIF_VREADFROM" (chr "s") 12 scifioctl_copy;
  _IOWR "SCIF_VWRITETO" (chr "s") 13 scifioctl_copy;
  _IOWR "SCIF_GET_NODEIDS" (chr "s") 14 scifioctl_node_ids;
  _IOWR "SCIF_FENCE_MARK" (chr "s") 15 scifioctl_fence_mark;
  _IOWR "SCIF_FENCE_WAIT" (chr "s") 16 __s32;
  _IOWR "SCIF_FENCE_SIGNAL" (chr "s") 17 scifioctl_fence_signal].
End Scif_ioctl.

(** ** [linux/smcinvoke.h] *)

Module Smcinvoke.
Definition structs_smcinvoke_buf : list (string * cty) :=
  let smcinvoke_buf := Struct [("addr", uint64_t); ("size", uint64_t)] in
  let smcinvoke_obj := Struct [("fd", int64_t); ("reserved", int64_t)] in
  [
  ("smcinvoke_buf", smcinvoke_buf);
  ("smcinvoke_obj", smcinvoke_obj);
  ("smcinvoke_arg", Union [("b", smcinvoke_buf); ("o", smcinvoke_obj)]);
  ("smcinvoke_cmd_req", Struct [("op", uint32_t); ("counts", uint32_t); ("result", int32_t);
   ("argsize", uint32_t); ("args", uint64_t)])].
Definition smcinvoke_cmd_req : cty := type_in structs_smcinvoke_buf "smcinvoke_cmd_req".
Definition smcinvoke_types : list (string * cty) := structs_smcinvoke_buf.
Definition smcinvoke_ioctls : list command := [
  _IOWR "SMCINVOKE_IOCTL_INVOKE_REQ" 0x98 1 smcinvoke_cmd_req].
End Smcinvoke.

(** ** [linux/suspend_ioctls.h] *)

Module Suspend_ioctls.
Definition resume_swap_area : cty := Packed [("offset", __kernel_loff_t); ("dev", __u32)].
Definition suspend_ioctls_types : list (string * cty) := [("resume_swap_area", resume_swap_area)].
Definition suspend_ioctls_ioctls : list command := [
  _IO "SNAPSHOT_FREEZE" (chr "3") 1;
  _IO "SNAPSHOT_UNFREEZE" (chr "3") 2;
  _IO "SNAPSHOT_ATOMIC_RESTORE" (chr "3") 4;
  _IO "SNAPSHOT_FREE" (chr "3") 5;
  _IO "SNAPSHOT_FREE_SWAP_PAGES" (chr "3") 9;
  _IO "SNAPSHOT_S2RAM" (chr "3") 11;
  _IOW "SNAPSHOT_SET_SWAP_AREA" (chr "3") 13 resume_swap_area;
  _IOR "SNAPSHOT_GET_IMAGE_SIZE" (chr "3") 14 __kernel_loff_t;
  _IO "SNAPSHOT_PLATFORM_SUPPORT" (chr "3") 15;
  _IO "SNAPSHOT_POWER_OFF" (chr "3") 16;
  _IOW "SNAPSHOT_CREATE_IMAGE" (chr "3") 17 int;
  _IO "SNAPSHOT_PREF_IMAGE_SIZE" (chr "3") 18;
  _IOR "SNAPSHOT_AVAIL_SWAP_SIZE" (chr "3") 19 __kernel_loff_t;
  _IOR "SNAPSHOT_ALLOC_SWAP_PAGE" (chr "3") 20 __kernel_loff_t].
End Suspend_ioctls.

(** ** [linux/usb/usb_ctrl_qti.h] *)

Module Usb_usb_ctrl_qti.
Definition structs_peripheral_ep_info : list (string * cty) :=
  let peripheral_ep_info := Struct [("ep_type", enum); ("peripheral_iface_id", __u32)] in
  let ipa_ep_pair := Struct [("cons_pipe_num", __u32); ("prod_pipe_num", __u32)] in
  [
  ("peripheral_ep_info", peripheral_ep_info);
  ("ipa_ep_pair", ipa_ep_pair);
  ("ep_info", Struct [("ph_ep_info", peripheral_ep_info); ("ipa_ep_pair", ipa_ep_pair)])].
Definition ep_info : cty := type_in structs_peripheral_ep_info "ep_info".
Definition usb_usb_ctrl_qti_types : list (string * cty) := structs_peripheral_ep_info.
Definition usb_usb_ctrl_qti_ioctls : list command := [
  _IOR "QTI_CTRL_GET_LINE_STATE" (chr "r") 2 int;
  _IOR "QTI_CTRL_EP_LOOKUP" (chr "r") 3 ep_info;
  _IO "QTI_CTRL_MODEM_OFFLINE" (chr "r") 4;
  _IO "QTI_CTRL_MODEM_ONLINE" (chr "r") 5].
End Usb_usb_ctrl_qti.

(** ** [linux/userfaultfd.h] *)

Module Userfaultfd.
Definition uffd_msg : cty :=
  Packed [("event", __u8); ("reserved1", __u8); ("reserved2", __u16); ("reserved3", __u32);
   ("arg", Union [("pagefault", Struct [("flags", __u64); ("address", __u64)]);
   ("reserved", Struct [("reserved1", __u64); ("reserved2", __u64); ("reserved3", __u64)])])].
Definition structs_uffdio_api : list (string * cty) :=
  let uffdio_range := Struct [("start", __u64); ("len", __u64)] in
  [
  ("uffdio_api", Struct [("api", __u64); ("features", __u64); ("ioctls", __u64)]);
  ("uffdio_range", uffdio_range);
  ("uffdio_register", Struct [("range", uffdio_range); ("mode", __u64); ("ioctls", __u64)]);
  ("uffdio_copy", Struct [("dst", __u64); ("src", __u64); ("len", __u64); ("mode", __u64);
   ("copy", __s64)]);
  ("uffdio_zeropage", Struct [("range", uffdio_range); ("mode", __u64); ("zeropage", __s64)])].
Definition uffdio_api : cty := type_in structs_uffdio_api "uffdio_api".
Definition uffdio_range : cty := type_in structs_uffdio_api "uffdio_range".
Definition uffdio_register : cty := type_in structs_uffdio_api "uffdio_register".
Definition uffdio_copy : cty := type_in structs_uffdio_api "uffdio_copy".
Definition uffdio_zeropage : cty := type_in structs_uffdio_api "uffdio_zeropage".
Definition userfaultfd_types : list (string * cty) :=
  ([("uffd_msg", uffd_msg)] ++ structs_uffdio_api)%list.
Definition userfaultfd_ioctls : list command := [
  _IOWR "UFFDIO_API" 0xaa 63 uffdio_api;
  _IOWR "UFFDIO_REGISTER" 0xaa 0 uffdio_register;
  _IOR "UFFDIO_UNREGISTER" 0xaa 1 uffdio_range;
  _IOR "UFFDIO_WAKE" 0xaa 2 uffdio_range;
  _IOWR "UFFDIO_COPY" 0xaa 3 uffdio_copy;
  _IOWR "UFFDIO_ZEROPAGE" 0xaa 4 uffdio_zeropage].
End Userfaultfd.

(** ** [linux/vfio.h] *)

Module Vfio.
Definition vfio_group_status : cty := Struct [("argsz", __u32); ("flags", __u32)].
Definition vfio_device_info : cty :=
  Struct [("argsz", __u32); ("flags", __u32); ("num_regions", __u32); ("num_irqs", __u32)].
Definition vfio_region_info : cty :=
  Struct [("argsz", __u32); ("flags", __u32); ("index", __u32); ("resv", __u32); ("size", __u64);
   ("offset", __u64)].
Definition vfio_irq_info : cty :=
  Struct [("argsz", __u32); ("flags", __u32); ("index", __u32); ("count", __u32)].
Definition vfio_irq_set : cty :=
  Struct [("argsz", __u32); ("flags", __u32); ("index", __u32); ("start", __u32);
   ("count", __u32); ("data", Arr 0 __u8)].
Definition structs_vfio_pci_dependent_device : list (string * cty) :=
  let vfio_pci_dependent_device := Struct [("group_id", __u32); ("segment", __u16);
   ("bus", __u8); ("devfn", __u8)] in
  [
  ("vfio_pci_dependent_device", vfio_pci_dependent_device);
  ("vfio_pci_hot_reset_info", Struct [("argsz", __u32); ("flags", __u32); ("count", __u32);
   ("devices", Arr 0 vfio_pci_dependent_device)])].
Definition vfio_pci_hot_reset : cty :=
  Struct [("argsz", __u32); ("flags", __u32); ("count", __u32); ("group_fds", Arr 0 __s32)].
Definition vfio_iommu_type1_info : cty :=
  Struct [("argsz", __u32); ("flags", __u32); ("iova_pgsizes", __u64)].
Definition vfio_iommu_type1_dma_map : cty :=
  Struct [("argsz", __u32); ("flags", __u32); ("vaddr", __u64); ("iova", __u64); ("size", __u64)].
Definition vfio_iommu_type1_dma_unmap : cty :=
  Struct [("argsz", __u32); ("flags", __u32); ("iova", __u64); ("size", __u64)].
Definition structs_vfio_iommu_spapr_tce_ddw_info : list (string * cty) :=
  let vfio_iommu_spapr_tce_ddw_info := Struct [("pgsizes", __u64);
   ("max_dynamic_windows_supported", __u32); ("levels", __u32)] in
  [
  ("vfio_iommu_spapr_tce_ddw_info", vfio_iommu_spapr_tce_ddw_info);
  ("vfio_iommu_spapr_tce_info", Struct [("argsz", __u32); ("flags", __u32);
   ("dma32_window_start", __u32); ("dma32_window_size", __u32);
   ("ddw", vfio_iommu_spapr_tce_ddw_info)])].
Definition structs_vfio_eeh_pe_err : list (string * cty) :=
  let vfio_eeh_pe_err := Struct [("type", __u32); ("func", __u32); ("addr", __u64);
   ("mask", __u64)] in
  [
  ("vfio_eeh_pe_err", vfio_eeh_pe_err);
  ("vfio_eeh_pe_op", Struct [("argsz", __u32); ("flags", __u32); ("op", __u32);
   ("", Union [("err", vfio_eeh_pe_err)])])].
Definition vfio_iommu_spapr_register_memory : cty :=
  Struct [("argsz", __u32); ("flags", __u32); ("vaddr", __u64); ("size", __u64)].
Definition vfio_iommu_spapr_tce_create : cty :=
  Struct [("argsz", __u32); ("flags", __u32); ("page_shift", __u32); ("window_size", __u64);
   ("levels", __u32); ("start_addr", __u64)].
Definition vfio_iommu_spapr_tce_remove : cty :=
  Struct [("argsz", __u32); ("flags", __u32); ("start_addr", __u64)].
Definition vfio_types : list (string * cty) :=
  ([("vfio_group_status", vfio_group_status); ("vfio_device_info", vfio_device_info);
   ("vfio_region_info", vfio_region_info); ("vfio_irq_info", vfio_irq_info); ("vfio_irq_set",
   vfio_irq_set)] ++ structs_vfio_pci_dependent_device ++ [("vfio_pci_hot_reset",
   vfio_pci_hot_reset); ("vfio_iommu_type1_info", vfio_iommu_type1_info);
   ("vfio_iommu_type1_dma_map", vfio_iommu_type1_dma_map); ("vfio_iommu_type1_dma_unmap",
   vfio_iommu_type1_dma_unmap)] ++ structs_vfio_iommu_spapr_tce_ddw_info ++
   structs_vfio_eeh_pe_err ++ [("vfio_iommu_spapr_register_memory",
   vfio_iommu_spapr_register_memory); ("vfio_iommu_spapr_tce_create",
   vfio_iommu_spapr_tce_create); ("vfio_iommu_spapr_tce_remove",
   vfio_iommu_spapr_tce_remove)])%list.
Definition vfio_ioctls_1 : list command := [
  _IO "VFIO_GET_API_VERSION" (chr ";") 100].
Definition vfio_ioctls_2 : list command := [
  _IO "VFIO_CHECK_EXTENSION" (chr ";") 101].
Definition vfio_ioctls_3 : list command := [
  _IO "VFIO_SET_IOMMU" (chr ";") 102].
Definition vfio_ioctls_4 : list command := [
  _IO "VFIO_GROUP_GET_STATUS" (chr ";") 103].
Definition vfio_ioctls_5 : list command := [
  _IO "VFIO_GROUP_SET_CONTAINER" (chr ";") 104].
Definition vfio_ioctls_6 : list command := [
  _IO "VFIO_GROUP_UNSET_CONTAINER" (chr ";") 105].
Definition vfio_ioctls_7 : list command := [
  _IO "VFIO_GROUP_GET_DEVICE_FD" (chr ";") 106].
Definition vfio_ioctls_8 : list command := [
  _IO "VFIO_DEVICE_GET_INFO" (chr ";") 107].
Definition vfio_ioctls_9 : list command := [
  _IO "VFIO_DEVICE_GET_REGION_INFO" (chr ";") 108].
Definition vfio_ioctls_10 : list command := [
  _IO "VFIO_DEVICE_GET_IRQ_INFO" (chr ";") 109].
Definition vfio_ioctls_11 : list command := [
  _IO "VFIO_DEVICE_SET_IRQS" (chr ";") 110].
Definition vfio_ioctls_12 : list command := [
  _IO "VFIO_DEVICE_RESET" (chr ";") 111].
Definition vfio_ioctls_13 : list command := [
  _IO "VFIO_DEVICE_GET_PCI_HOT_RESET_INFO" (chr ";") 112].
Definition vfio_ioctls_14 : list command := [
  _IO "VFIO_DEVICE_PCI_HOT_RESET" (chr ";") 113].
Definition vfio_ioctls_15 : list command := [
  _IO "VFIO_IOMMU_GET_INFO" (chr ";") 112].
Definition vfio_ioctls_16 : list command := [
  _IO "VFIO_IOMMU_MAP_DMA" (chr ";") 113].
Definition vfio_ioctls_17 : list command := [
  _IO "VFIO_IOMMU_UNMAP_DMA" (chr ";") 114;
  _IO "VFIO_IOMMU_ENABLE" (chr ";") 115;
  _IO "VFIO_IOMMU_DISABLE" (chr ";") 116].
Definition vfio_ioctls_18 : list command := [
  _IO "VFIO_IOMMU_SPAPR_TCE_GET_INFO" (chr ";") 112].
Definition vfio_ioctls_19 : list command := [
  _IO "VFIO_EEH_PE_OP" (chr ";") 121].
Definition vfio_ioctls_20 : list command := [
  _IO "VFIO_IOMMU_SPAPR_REGISTER_MEMORY" (chr ";") 117].
Definition vfio_ioctls_21 : list command := [
  _IO "VFIO_IOMMU_SPAPR_UNREGISTER_MEMORY" (chr ";") 118].
Definition vfio_ioctls_22 : list command := [
  _IO "VFIO_IOMMU_SPAPR_TCE_CREATE" (chr ";") 119].
Definition vfio_ioctls_23 : list command := [
  _IO "VFIO_IOMMU_SPAPR_TCE_REMOVE" (chr ";") 120].
Definition vfio_ioctls : list command :=
  (vfio_ioctls_1 ++ vfio_ioctls_2 ++ vfio_ioctls_3 ++ vfio_ioctls_4 ++ vfio_ioctls_5 ++
  vfio_ioctls_6 ++ vfio_ioctls_7 ++ vfio_ioctls_8 ++ vfio_ioctls_9 ++ vfio_ioctls_10 ++
  vfio_ioctls_11 ++ vfio_ioctls_12 ++ vfio_ioctls_13 ++ vfio_ioctls_14 ++ vfio_ioctls_15 ++
  vfio_ioctls_16 ++ vfio_ioctls_17 ++ vfio_ioctls_18 ++ vfio_ioctls_19 ++ vfio_ioctls_20 ++
  vfio_ioctls_21 ++ vfio_ioctls_22 ++ vfio_ioctls_23)%list.
End Vfio.

(** ** [linux/vhost.h] *)

Module Vhost.
Definition structs_vhost_vring_state : list (string * cty) :=
  [
  ("vhost_vring_state", Struct [("index", uint); ("num", uint)]);
  ("vhost_vring_file", Struct [("index", uint); ("fd", int)]);
  ("vhost_vring_addr", Struct [("index", uint); ("flags", uint); ("desc_user_addr", __u64);
   ("used_user_addr", __u64); ("avail_user_addr", __u64); ("log_guest_addr", __u64)]);
  ("vhost_iotlb_msg", Struct [("iova", __u64); ("size", __u64); ("uaddr", __u64); ("perm", __u8);
   ("type", __u8)])].
Definition vhost_vring_state : cty := type_in structs_vhost_vring_state "vhost_vring_state".
Definition vhost_vring_file : cty := type_in structs_vhost_vring_state "vhost_vring_file".
Definition vhost_vring_addr : cty := type_in structs_vhost_vring_state "vhost_vring_addr".
Definition vhost_iotlb_msg : cty := type_in structs_vhost_vring_state "vhost_iotlb_msg".
Definition structs_vhost_msg : list (string * cty) :=
  [
  ("vhost_msg", Struct [("type", int); ("", Union [("iotlb", vhost_iotlb_msg);
   ("padding", Arr 64 __u8)])]);
  ("vhost_memory_region", Struct [("guest_phys_addr", __u64); ("memory_size", __u64);
   ("userspace_addr", __u64); ("flags_padding", __u64)])].
Definition vhost_memory_region : cty := type_in structs_vhost_msg "vhost_memory_region".
Definition vhost_memory : cty :=
  Struct [("nregions", __u32); ("padding", __u32); ("regions", Arr 0 vhost_memory_region)].
Definition vhost_scsi_target : cty :=
  Struct [("abi_version", int); ("vhost_wwpn", Arr 224 char); ("vhost_tpgt", ushort);
   ("reserved", ushort)].
Definition vhost_types : list (string * cty) :=
  (structs_vhost_vring_state ++ structs_vhost_msg ++ [("vhost_memory", vhost_memory);
   ("vhost_scsi_target", vhost_scsi_target)])%list.
Definition vhost_ioctls_1 : list command := [
  _IOR "VHOST_GET_FEATURES" 0xaf 0 __u64;
  _IOW "VHOST_SET_FEATURES" 0xaf 0 __u64;
  _IO "VHOST_SET_OWNER" 0xaf 1;
  _IO "VHOST_RESET_OWNER" 0xaf 2;
  _IOW "VHOST_SET_MEM_TABLE" 0xaf 3 vhost_memory].
Definition vhost_ioctls_2 : list command := [
  _IOW "VHOST_SET_LOG_BASE" 0xaf 4 __u64;
  _IOW "VHOST_SET_LOG_FD" 0xaf 7 int;
  _IOW "VHOST_SET_VRING_NUM" 0xaf 16 vhost_vring_state;
  _IOW "VHOST_SET_VRING_ADDR" 0xaf 17 vhost_vring_addr;
  _IOW "VHOST_SET_VRING_BASE" 0xaf 18 vhost_vring_state;
  _IOWR "VHOST_GET_VRING_BASE" 0xaf 18 vhost_vring_state].
Definition vhost_ioctls_3 : list command := [
  _IOW "VHOST_SET_VRING_ENDIAN" 0xaf 19 vhost_vring_state;
  _IOW "VHOST_GET_VRING_ENDIAN" 0xaf 20 vhost_vring_state;
  _IOW "VHOST_SET_VRING_KICK" 0xaf 32 vhost_vring_file;
  _IOW "VHOST_SET_VRING_CALL" 0xaf 33 vhost_vring_file;
  _IOW "VHOST_SET_VRING_ERR" 0xaf 34 vhost_vring_file;
  _IOW "VHOST_SET_VRING_BUSYLOOP_TIMEOUT" 0xaf 35 vhost_vring_state;
  _IOW "VHOST_GET_VRING_BUSYLOOP_TIMEOUT" 0xaf 36 vhost_vring_state].
Definition vhost_ioctls_4 : list command := [
  _IOW "VHOST_NET_SET_BACKEND" 0xaf 48 vhost_vring_file].
Definition vhost_ioctls_5 : list command := [
  _IOW "VHOST_SCSI_SET_ENDPOINT" 0xaf 64 vhost_scsi_target;
  _IOW "VHOST_SCSI_CLEAR_ENDPOINT" 0xaf 65 vhost_scsi_target;
  _IOW "VHOST_SCSI_GET_ABI_VERSION" 0xaf 66 int;
  _IOW "VHOST_SCSI_SET_EVENTS_MISSED" 0xaf 67 __u32;
  _IOW "VHOST_SCSI_GET_EVENTS_MISSED" 0xaf 68 __u32;
  _IOW "VHOST_VSOCK_SET_GUEST_CID" 0xaf 96 __u64;
  _IOW "VHOST_VSOCK_SET_RUNNING" 0xaf 97 int].
Definition vhost_ioctls : list command :=
  (vhost_ioctls_1 ++ vhost_ioctls_2 ++ vhost_ioctls_3 ++ vhost_ioctls_4 ++
  vhost_ioctls_5)%list.
End Vhost.

(** ** [misc/cxl.h] *)

Module Misc_cxl.
Definition cxl_ioctl_start_work : cty :=
  Struct [("flags", __u64); ("work_element_descriptor", __u64); ("amr", __u64);
   ("num_interrupts", __s16); ("reserved1", __s16); ("reserved2", __s32); ("reserved3", __u64);
   ("reserved4", __u64); ("reserved5", __u64); ("reserved6", __u64)].
Definition cxl_afu_id : cty :=
  Struct [("flags", __u64); ("card_id", __u32); ("afu_offset", __u32); ("afu_mode", __u32);
   ("reserved1", __u32); ("reserved2", __u64); ("reserved3", __u64); ("reserved4", __u64);
   ("reserved5", __u64); ("reserved6", __u64)].
Definition structs_cxl_event_header : list (string * cty) :=
  let cxl_event_header := Struct [("type", __u16); ("size", __u16); ("process_element", __u16);
   ("reserved1", __u16)] in
  let cxl_event_afu_interrupt := Struct [("flags", __u16); ("irq", __u16); ("reserved1", __u32)] in
  let cxl_event_data_storage := Struct [("flags", __u16); ("reserved1", __u16);
   ("reserved2", __u32); ("addr", __u64); ("dsisr", __u64); ("reserved3", __u64)] in
  let cxl_event_afu_error := Struct [("flags", __u16); ("reserved1", __u16);
   ("reserved2", __u32); ("error", __u64)] in
  [
  ("cxl_event_header", cxl_event_header);
  ("cxl_event_afu_interrupt", cxl_event_afu_interrupt);
  ("cxl_event_data_storage", cxl_event_data_storage);
  ("cxl_event_afu_error", cxl_event_afu_error);
  ("cxl_event", Struct [("header", cxl_event_header);
   ("", Union [("irq", cxl_event_afu_interrupt); ("fault", cxl_event_data_storage);
   ("afu_error", cxl_event_afu_error)])])].
Definition misc_cxl_types : list (string * cty) :=
  ([("cxl_ioctl_start_work", cxl_ioctl_start_work); ("cxl_afu_id", cxl_afu_id)] ++
   structs_cxl_event_header)%list.
Definition misc_cxl_ioctls : list command := [
  _IOW "CXL_IOCTL_START_WORK" 0xca 0 cxl_ioctl_start_work;
  _IOR "CXL_IOCTL_GET_PROCESS_ELEMENT" 0xca 1 __u32;
  _IOR "CXL_IOCTL_GET_AFU_ID" 0xca 2 cxl_afu_id].
End Misc_cxl.
