(* ===== verification/AbiNet.v ===== *)
(** * ABI of networking and RDMA

    The structures and unions of these headers of [kernel-headers], one module per
    header: the larger ones as types of their own, those that stand in a row as a
    block; and the ioctl commands with their arguments. *)
From S2P Require Import Prelude.
From S2P Require Import CLayout.
From S2P Require Import Ioctl.
From S2P Require Import AbiBase.
#[local] Open Scope string_scope.

(** ** [linux/atm_eni.h] *)

Module Atm_eni.
Definition eni_multipliers : cty := Struct [("tx", int); ("rx", int)].
Definition atm_eni_types : list (string * cty) := [("eni_multipliers", eni_multipliers)].
Definition atm_eni_ioctls : list command := [
  _IOW "ENI_MEMDUMP" (chr "a") 96 Atm.atmif_sioc;
  _IOW "ENI_SETMULT" (chr "a") 103 Atm.atmif_sioc].
End Atm_eni.

(** ** [linux/atm_he.h] *)

Module Atm_he.
Definition he_ioctl_reg : cty := Struct [("addr", uint); ("val", uint); ("type", char)].
Definition atm_he_types : list (string * cty) := [("he_ioctl_reg", he_ioctl_reg)].
Definition atm_he_ioctls : list command := [
  _IOW "HE_GET_REG" (chr "a") 96 Atm.atmif_sioc].
End Atm_he.

(** ** [linux/atm_idt77105.h] *)

Module Atm_idt77105.
Definition idt77105_stats : cty :=
  Struct [("symbol_errors", __u32); ("tx_cells", __u32); ("rx_cells", __u32);
   ("rx_hec_errors", __u32)].
Definition atm_idt77105_types : list (string * cty) := [("idt77105_stats", idt77105_stats)].
Definition atm_idt77105_ioctls : list command := [
  _IOW "IDT77105_GETSTAT" (chr "a") 50 Atm.atmif_sioc;
  _IOW "IDT77105_GETSTATZ" (chr "a") 51 Atm.atmif_sioc].
End Atm_idt77105.

(** ** [linux/atm_nicstar.h] *)

Module Atm_nicstar.
Definition structs_buf_nr : list (string * cty) :=
  let buf_nr := Struct [("min", uint); ("init", uint); ("max", uint)] in
  [
  ("buf_nr", buf_nr);
  ("pool_levels", Struct [("buftype", int); ("count", int); ("level", buf_nr)])].
Definition atm_nicstar_types : list (string * cty) := structs_buf_nr.
Definition atm_nicstar_ioctls : list command := [
  _IOWR "NS_GETPSTAT" (chr "a") 97 Atm.atmif_sioc;
  _IOW "NS_SETBUFLEV" (chr "a") 98 Atm.atmif_sioc;
  _IO "NS_ADJBUFLEV" (chr "a") 99].
End Atm_nicstar.

(** ** [linux/atm_tcp.h] *)

Module Atm_tcp.
Definition atmtcp_hdr : cty := Struct [("vpi", __u16); ("vci", __u16); ("length", __u32)].
Definition atm_tcp_types : list (string * cty) := [("atmtcp_hdr", atmtcp_hdr)].
Definition atm_tcp_ioctls : list command := [
  _IO "SIOCSIFATMTCP" (chr "a") 128;
  _IO "ATMTCP_CREATE" (chr "a") 142;
  _IO "ATMTCP_REMOVE" (chr "a") 143].
End Atm_tcp.

(** ** [linux/atm_zatm.h] *)

Module Atm_zatm.
Definition structs_zatm_pool_info : list (string * cty) :=
  let zatm_pool_info := Struct [("ref_count", int); ("low_water", int); ("high_water", int);
   ("rqa_count", int); ("rqu_count", int); ("offset", int); ("next_off", int); ("next_cnt", int);
   ("next_thres", int)] in
  [
  ("zatm_pool_info", zatm_pool_info);
  ("zatm_pool_req", Struct [("pool_num", int); ("info", zatm_pool_info)])].
Definition atm_zatm_types : list (string * cty) := structs_zatm_pool_info.
Definition atm_zatm_ioctls : list command := [
  _IOW "ZATM_GETPOOL" (chr "a") 97 Atm.atmif_sioc;
  _IOW "ZATM_GETPOOLZ" (chr "a") 98 Atm.atmif_sioc;
  _IOW "ZATM_SETPOOL" (chr "a") 99 Atm.atmif_sioc].
End Atm_zatm.

(** ** [linux/atmarp.h] *)

Module Atmarp.
Definition atmarp_ctrl : cty := Struct [("type", enum); ("itf_num", int); ("ip", __be32)].
Definition atmarp_types : list (string * cty) := [("atmarp_ctrl", atmarp_ctrl)].
Definition atmarp_ioctls : list command := [
  _IO "ATMARPD_CTRL" (chr "a") 225;
  _IO "ATMARP_MKIP" (chr "a") 226;
  _IO "ATMARP_SETENTRY" (chr "a") 227;
  _IO "ATMARP_ENCAP" (chr "a") 229].
End Atmarp.

(** ** [linux/atmbr2684.h] *)

Module Atmbr2684.
Definition atm_newif_br2684 : cty :=
  Struct [("backend_num", Atm.atm_backend_t); ("media", int); ("ifname", Arr 16 char);
   ("mtu", int)].
Definition structs_br2684_if_spec : list (string * cty) :=
  let br2684_if_spec := Struct [("method", int); ("spec", Union [("ifname", Arr 16 char);
   ("devnum", int)])] in
  let br2684_filter := Struct [("prefix", __be32); ("netmask", __be32)] in
  [
  ("br2684_if_spec", br2684_if_spec);
  ("atm_backend_br2684", Struct [("backend_num", Atm.atm_backend_t); ("ifspec", br2684_if_spec);
   ("fcs_in", int); ("fcs_out", int); ("fcs_auto", int); ("encaps", int); ("has_vpiid", int);
   ("vpn_id", Arr 7 __u8); ("send_padding", int); ("min_size", int)]);
  ("br2684_filter", br2684_filter);
  ("br2684_filter_set", Struct [("ifspec", br2684_if_spec); ("filter", br2684_filter)])].
Definition br2684_filter_set : cty := type_in structs_br2684_if_spec "br2684_filter_set".
Definition atmbr2684_types : list (string * cty) :=
  ([("atm_newif_br2684", atm_newif_br2684)] ++ structs_br2684_if_spec)%list.
Definition atmbr2684_ioctls : list command := [
  _IOW "BR2684_SETFILT" (chr "a") 144 br2684_filter_set].
End Atmbr2684.

(** ** [linux/atmclip.h] *)

Module Atmclip.
Definition atmclip_ioctls : list command := [
  _IO "SIOCMKCLIP" (chr "a") 224].
End Atmclip.

(** ** [linux/atmdev.h] *)

Module Atmdev.
Definition atm_iobuf : cty := Struct [("length", int); ("buffer", ptr)].
Definition atm_cirange : cty := Struct [("vpi_bits", schar); ("vci_bits", schar)].
Definition atmdev_types : list (string * cty) :=
  ([("atm_iobuf", atm_iobuf); ("atm_cirange", atm_cirange)])%list.
Definition atmdev_ioctls : list command := [
  _IOW "ATM_GETLINKRATE" (chr "a") 129 Atm.atmif_sioc;
  _IOW "ATM_GETNAMES" (chr "a") 131 atm_iobuf;
  _IOW "ATM_GETTYPE" (chr "a") 132 Atm.atmif_sioc;
  _IOW "ATM_GETESI" (chr "a") 133 Atm.atmif_sioc;
  _IOW "ATM_GETADDR" (chr "a") 134 Atm.atmif_sioc;
  _IOW "ATM_RSTADDR" (chr "a") 135 Atm.atmif_sioc;
  _IOW "ATM_ADDADDR" (chr "a") 136 Atm.atmif_sioc;
  _IOW "ATM_DELADDR" (chr "a") 137 Atm.atmif_sioc;
  _IOW "ATM_GETCIRANGE" (chr "a") 138 Atm.atmif_sioc;
  _IOW "ATM_SETCIRANGE" (chr "a") 139 Atm.atmif_sioc;
  _IOW "ATM_SETESI" (chr "a") 140 Atm.atmif_sioc;
  _IOW "ATM_SETESIF" (chr "a") 141 Atm.atmif_sioc;
  _IOW "ATM_ADDLECSADDR" (chr "a") 142 Atm.atmif_sioc;
  _IOW "ATM_DELLECSADDR" (chr "a") 143 Atm.atmif_sioc;
  _IOW "ATM_GETLECSADDR" (chr "a") 144 Atm.atmif_sioc;
  _IOW "ATM_GETSTAT" (chr "a") 80 Atm.atmif_sioc;
  _IOW "ATM_GETSTATZ" (chr "a") 81 Atm.atmif_sioc;
  _IOW "ATM_GETLOOP" (chr "a") 82 Atm.atmif_sioc;
  _IOW "ATM_SETLOOP" (chr "a") 83 Atm.atmif_sioc;
  _IOW "ATM_QUERYLOOP" (chr "a") 84 Atm.atmif_sioc;
  _IOW "ATM_SETSC" (chr "a") 241 int;
  _IOW "ATM_SETBACKEND" (chr "a") 242 Atm.atm_backend_t;
  _IOW "ATM_NEWBACKENDIF" (chr "a") 243 Atm.atm_backend_t;
  _IOW "ATM_ADDPARTY" (chr "a") 244 atm_iobuf;
  _IOW "ATM_DROPPARTY" (chr "a") 245 int].
End Atmdev.

(** ** [linux/atmlec.h] *)

Module Atmlec.
Definition atmlec_msg_type : cty := enum.
Definition atmlec_config_msg : cty :=
  Struct [("maximum_unknown_frame_count", uint); ("max_unknown_frame_time", uint);
   ("max_retry_count", ushort); ("aging_time", uint); ("forward_delay_time", uint);
   ("arp_response_time", uint); ("flush_timeout", uint); ("path_switching_delay", uint);
   ("lane_version", uint); ("mtu", int); ("is_proxy", int)].
Definition atmlec_msg : cty :=
  Struct [("type", atmlec_msg_type); ("sizeoftlvs", int);
   ("content", Union [("normal", Struct [("mac_addr", Arr 6 uchar); ("atm_addr", Arr 20 uchar);
   ("flag", uint); ("targetless_le_arp", uint); ("no_source_le_narp", uint)]);
   ("config", atmlec_config_msg); ("proxy", Struct [("lec_id", __u16); ("tran_id", __u32);
   ("mac_addr", Arr 6 uchar); ("atm_addr", Arr 20 uchar)])])].
Definition atmlec_ioc : cty :=
  Struct [("dev_num", int); ("atm_addr", Arr 20 uchar); ("receive", uchar)].
Definition atmlec_types : list (string * cty) :=
  ([("atmlec_msg_type", atmlec_msg_type); ("atmlec_config_msg", atmlec_config_msg);
   ("atmlec_msg", atmlec_msg); ("atmlec_ioc", atmlec_ioc)])%list.
Definition atmlec_ioctls : list command := [
  _IO "ATMLEC_CTRL" (chr "a") 208;
  _IO "ATMLEC_DATA" (chr "a") 209;
  _IO "ATMLEC_MCAST" (chr "a") 210].
End Atmlec.

(** ** [linux/atmmpc.h] *)

Module Atmmpc.
Definition structs_atmmpc_ioc : list (string * cty) :=
  [
  ("atmmpc_ioc", Struct [("dev_num", int); ("ipaddr", __be32); ("type", int)]);
  ("in_ctrl_info", Struct [("Last_NHRP_CIE_code", __u8); ("Last_Q2931_cause_value", __u8);
   ("eg_MPC_ATM_addr", Arr 20 __u8); ("tag", __be32); ("in_dst_ip", __be32);
   ("holding_time", __u16); ("request_id", __u32)]);
  ("eg_ctrl_info", Struct [("DLL_header", Arr 256 __u8); ("DH_length", __u8);
   ("cache_id", __be32); ("tag", __be32); ("mps_ip", __be32); ("eg_dst_ip", __be32);
   ("in_MPC_data_ATM_addr", Arr 20 __u8); ("holding_time", __u16)]);
  ("mpc_parameters", Struct [("mpc_p1", __u16); ("mpc_p2", __u16); ("mpc_p3", Arr 8 __u8);
   ("mpc_p4", __u16); ("mpc_p5", __u16); ("mpc_p6", __u16)])].
Definition llc_snap_hdr : cty :=
  Struct [("dsap", __u8); ("ssap", __u8); ("ui", __u8); ("org", Arr 3 __u8); ("type", Arr 2 __u8)].
Definition atmmpc_types : list (string * cty) :=
  (structs_atmmpc_ioc ++ [("llc_snap_hdr", llc_snap_hdr)])%list.
Definition atmmpc_ioctls : list command := [
  _IO "ATMMPC_CTRL" (chr "a") 216;
  _IO "ATMMPC_DATA" (chr "a") 217].
End Atmmpc.

(** ** [linux/atmppp.h] *)

Module Atmppp.
Definition atm_backend_ppp : cty := Struct [("backend_num", Atm.atm_backend_t); ("encaps", int)].
Definition atmppp_types : list (string * cty) := [("atm_backend_ppp", atm_backend_ppp)].
End Atmppp.

(** ** [linux/atmsap.h] *)

Module Atmsap.
Definition ATM_MAX_HLI : Z := 8.
Definition atm_blli : cty :=
  Struct [("l2_proto", uchar); ("l2", Union [("itu", Struct [("mode", uchar);
   ("window", uchar)]); ("user", uchar)]); ("l3_proto", uchar);
   ("l3", Union [("itu", Struct [("mode", uchar); ("def_size", uchar); ("window", uchar)]);
   ("user", uchar); ("h310", Struct [("term_type", uchar); ("fw_mpx_cap", uchar);
   ("bw_mpx_cap", uchar)]); ("tr9577", Struct [("ipi", uchar); ("snap", Arr 5 uchar)])])].
Definition atm_bhli : cty :=
  Struct [("hl_type", uchar); ("hl_length", uchar); ("hl_info", Arr ATM_MAX_HLI uchar)].
Definition atmsap_types : list (string * cty) :=
  ([("atm_blli", atm_blli); ("atm_bhli", atm_bhli)])%list.
End Atmsap.

(** ** [linux/atmsvc.h] *)

Module Atmsvc.
Definition atmsvc_ioctls : list command := [
  _IO "ATMSIGD_CTRL" (chr "a") 240].
End Atmsvc.

(** ** [linux/capi.h] *)

Module Capi.
Definition CAPI_MANUFACTURER_LEN : Z := 64.
Definition CAPI_SERIAL_LEN : Z := 8.
Definition capi_register_params : cty :=
  Struct [("level3cnt", __u32); ("datablkcnt", __u32); ("datablklen", __u32)].
Definition capi_version : cty :=
  Struct [("majorversion", __u32); ("minorversion", __u32); ("majormanuversion", __u32);
   ("minormanuversion", __u32)].
Definition capi_profile : cty :=
  Struct [("ncontroller", __u16); ("nbchannel", __u16); ("goptions", __u32); ("support1", __u32);
   ("support2", __u32); ("support3", __u32); ("reserved", Arr 6 __u32); ("manu", Arr 5 __u32)].
Definition capi_manufacturer_cmd : cty := Struct [("cmd", ulong); ("data", ptr)].
Definition capi_ioctl_struct : cty :=
  Union [("contr", __u32); ("rparams", capi_register_params);
   ("manufacturer", Arr CAPI_MANUFACTURER_LEN __u8); ("version", capi_version);
   ("serial", Arr CAPI_SERIAL_LEN __u8); ("profile", capi_profile);
   ("cmd", capi_manufacturer_cmd); ("errcode", __u16)].
Definition capi_types : list (string * cty) :=
  ([("capi_register_params", capi_register_params); ("capi_version", capi_version);
   ("capi_profile", capi_profile); ("capi_manufacturer_cmd", capi_manufacturer_cmd);
   ("capi_ioctl_struct", capi_ioctl_struct)])%list.
Definition capi_ioctls_1 : list command := [
  _IOW "CAPI_REGISTER" (chr "C") 1 capi_register_params].
Definition capi_ioctls_2 : list command := [
  _IOWR "CAPI_GET_MANUFACTURER" (chr "C") 6 int].
Definition capi_ioctls_3 : list command := [
  _IOWR "CAPI_GET_VERSION" (chr "C") 7 capi_version].
Definition capi_ioctls_4 : list command := [
  _IOWR "CAPI_GET_SERIAL" (chr "C") 8 int].
Definition capi_ioctls_5 : list command := [
  _IOWR "CAPI_GET_PROFILE" (chr "C") 9 capi_profile].
Definition capi_ioctls_6 : list command := [
  _IOWR "CAPI_MANUFACTURER_CMD" (chr "C") 32 capi_manufacturer_cmd].
Definition capi_ioctls_7 : list command := [
  _IOR "CAPI_GET_ERRCODE" (chr "C") 33 __u16;
  _IOR "CAPI_INSTALLED" (chr "C") 34 __u16].
Definition capi_ioctls_8 : list command := [
  _IOR "CAPI_GET_FLAGS" (chr "C") 35 uint;
  _IOR "CAPI_SET_FLAGS" (chr "C") 36 uint;
  _IOR "CAPI_CLR_FLAGS" (chr "C") 37 uint;
  _IOR "CAPI_NCCI_OPENCOUNT" (chr "C") 38 uint;
  _IOR "CAPI_NCCI_GETUNIT" (chr "C") 39 uint].
Definition capi_ioctls : list command :=
  (capi_ioctls_1 ++ capi_ioctls_2 ++ capi_ioctls_3 ++ capi_ioctls_4 ++ capi_ioctls_5 ++
  capi_ioctls_6 ++ capi_ioctls_7 ++ capi_ioctls_8)%list.
End Capi.

(** ** [linux/if_ether.h] *)

Module If_ether.
Definition ETH_ALEN : Z := 6.
Definition ethhdr : cty :=
  Packed [("h_dest", Arr ETH_ALEN uchar); ("h_source", Arr ETH_ALEN uchar); ("h_proto", __be16)].
Definition if_ether_types : list (string * cty) := [("ethhdr", ethhdr)].
End If_ether.

(** ** [linux/ethtool.h] *)

Module Ethtool.
Definition ETHTOOL_FWVERS_LEN : Z := 32.
Definition ETHTOOL_BUSINFO_LEN : Z := 32.
Definition ETHTOOL_EROMVERS_LEN : Z := 32.
Definition SOPASS_MAX : Z := 6.
Definition ETHTOOL_FLASH_MAX_FILENAME : Z := 128.
Definition ethtool_cmd : cty :=
  Struct [("cmd", __u32); ("supported", __u32); ("advertising", __u32); ("speed", __u16);
   ("duplex", __u8); ("port", __u8); ("phy_address", __u8); ("transceiver", __u8);
   ("autoneg", __u8); ("mdio_support", __u8); ("maxtxpkt", __u32); ("maxrxpkt", __u32);
   ("speed_hi", __u16); ("eth_tp_mdix", __u8); ("eth_tp_mdix_ctrl", __u8);
   ("lp_advertising", __u32); ("reserved", Arr 2 __u32)].
Definition ethtool_drvinfo : cty :=
  Struct [("cmd", __u32); ("driver", Arr 32 char); ("version", Arr 32 char);
   ("fw_version", Arr ETHTOOL_FWVERS_LEN char); ("bus_info", Arr ETHTOOL_BUSINFO_LEN char);
   ("erom_version", Arr ETHTOOL_EROMVERS_LEN char); ("reserved2", Arr 12 char);
   ("n_priv_flags", __u32); ("n_stats", __u32); ("testinfo_len", __u32); ("eedump_len", __u32);
   ("regdump_len", __u32)].
Definition structs_ethtool_wolinfo : list (string * cty) :=
  [
  ("ethtool_wolinfo", Struct [("cmd", __u32); ("supported", __u32); ("wolopts", __u32);
   ("sopass", Arr SOPASS_MAX __u8)]);
  ("ethtool_value", Struct [("cmd", __u32); ("data", __u32)])].
Definition structs_ethtool_tunable : list (string * cty) :=
  [
  ("ethtool_tunable", Struct [("cmd", __u32); ("id", __u32); ("type_id", __u32); ("len", __u32);
   ("data", Arr 0 ptr)]);
  ("ethtool_regs", Struct [("cmd", __u32); ("version", __u32); ("len", __u32);
   ("data", Arr 0 __u8)]);
  ("ethtool_eeprom", Struct [("cmd", __u32); ("magic", __u32); ("offset", __u32); ("len", __u32);
   ("data", Arr 0 __u8)]);
  ("ethtool_eee", Struct [("cmd", __u32); ("supported", __u32); ("advertised", __u32);
   ("lp_advertised", __u32); ("eee_active", __u32); ("eee_enabled", __u32);
   ("tx_lpi_enabled", __u32); ("tx_lpi_timer", __u32); ("reserved", Arr 2 __u32)]);
  ("ethtool_modinfo", Struct [("cmd", __u32); ("type", __u32); ("eeprom_len", __u32);
   ("reserved", Arr 8 __u32)])].
Definition ethtool_coalesce : cty :=
  Struct [("cmd", __u32); ("rx_coalesce_usecs", __u32); ("rx_max_coalesced_frames", __u32);
   ("rx_coalesce_usecs_irq", __u32); ("rx_max_coalesced_frames_irq", __u32);
   ("tx_coalesce_usecs", __u32); ("tx_max_coalesced_frames", __u32);
   ("tx_coalesce_usecs_irq", __u32); ("tx_max_coalesced_frames_irq", __u32);
   ("stats_block_coalesce_usecs", __u32); ("use_adaptive_rx_coalesce", __u32);
   ("use_adaptive_tx_coalesce", __u32); ("pkt_rate_low", __u32);
   ("rx_coalesce_usecs_low", __u32); ("rx_max_coalesced_frames_low", __u32);
   ("tx_coalesce_usecs_low", __u32); ("tx_max_coalesced_frames_low", __u32);
   ("pkt_rate_high", __u32); ("rx_coalesce_usecs_high", __u32);
   ("rx_max_coalesced_frames_high", __u32); ("tx_coalesce_usecs_high", __u32);
   ("tx_max_coalesced_frames_high", __u32); ("rate_sample_interval", __u32)].
Definition structs_ethtool_ringparam : list (string * cty) :=
  [
  ("ethtool_ringparam", Struct [("cmd", __u32); ("rx_max_pending", __u32);
   ("rx_mini_max_pending", __u32); ("rx_jumbo_max_pending", __u32); ("tx_max_pending", __u32);
   ("rx_pending", __u32); ("rx_mini_pending", __u32); ("rx_jumbo_pending", __u32);
   ("tx_pending", __u32)]);
  ("ethtool_channels", Struct [("cmd", __u32); ("max_rx", __u32); ("max_tx", __u32);
   ("max_other", __u32); ("max_combined", __u32); ("rx_count", __u32); ("tx_count", __u32);
   ("other_count", __u32); ("combined_count", __u32)]);
  ("ethtool_pauseparam", Struct [("cmd", __u32); ("autoneg", __u32); ("rx_pause", __u32);
   ("tx_pause", __u32)])].
Definition structs_ethtool_gstrings : list (string * cty) :=
  [
  ("ethtool_gstrings", Struct [("cmd", __u32); ("string_set", __u32); ("len", __u32);
   ("data", Arr 0 __u8)]);
  ("ethtool_sset_info", Struct [("cmd", __u32); ("reserved", __u32); ("sset_mask", __u64);
   ("data", Arr 0 __u32)])].
Definition structs_ethtool_test : list (string * cty) :=
  [
  ("ethtool_test", Struct [("cmd", __u32); ("flags", __u32); ("reserved", __u32); ("len", __u32);
   ("data", Arr 0 __u64)]);
  ("ethtool_stats", Struct [("cmd", __u32); ("n_stats", __u32); ("data", Arr 0 __u64)]);
  ("ethtool_perm_addr", Struct [("cmd", __u32); ("size", __u32); ("data", Arr 0 __u8)])].
Definition structs_ethtool_tcpip4_spec : list (string * cty) :=
  [
  ("ethtool_tcpip4_spec", Struct [("ip4src", __be32); ("ip4dst", __be32); ("psrc", __be16);
   ("pdst", __be16); ("tos", __u8)]);
  ("ethtool_ah_espip4_spec", Struct [("ip4src", __be32); ("ip4dst", __be32); ("spi", __be32);
   ("tos", __u8)])].
Definition ethtool_tcpip4_spec : cty := type_in structs_ethtool_tcpip4_spec "ethtool_tcpip4_spec".
Definition ethtool_ah_espip4_spec : cty := type_in structs_ethtool_tcpip4_spec "ethtool_ah_espip4_spec".
Definition structs_ethtool_usrip4_spec : list (string * cty) :=
  let ethtool_usrip4_spec := Struct [("ip4src", __be32); ("ip4dst", __be32);
   ("l4_4_bytes", __be32); ("tos", __u8); ("ip_ver", __u8); ("proto", __u8)] in
  let ethtool_flow_union := Union [("tcp_ip4_spec", ethtool_tcpip4_spec);
   ("udp_ip4_spec", ethtool_tcpip4_spec); ("sctp_ip4_spec", ethtool_tcpip4_spec);
   ("ah_ip4_spec", ethtool_ah_espip4_spec); ("esp_ip4_spec", ethtool_ah_espip4_spec);
   ("usr_ip4_spec", ethtool_usrip4_spec); ("ether_spec", If_ether.ethhdr);
   ("hdata", Arr 52 __u8)] in
  let ethtool_flow_ext := Struct [("padding", Arr 2 __u8); ("h_dest", Arr 6 uchar);
   ("vlan_etype", __be16); ("vlan_tci", __be16); ("data", Arr 2 __be32)] in
  [
  ("ethtool_usrip4_spec", ethtool_usrip4_spec);
  ("ethtool_flow_union", ethtool_flow_union);
  ("ethtool_flow_ext", ethtool_flow_ext);
  ("ethtool_rx_flow_spec", Struct [("flow_type", __u32); ("h_u", ethtool_flow_union);
   ("h_ext", ethtool_flow_ext); ("m_u", ethtool_flow_union); ("m_ext", ethtool_flow_ext);
   ("ring_cookie", __u64); ("location", __u32)])].
Definition ethtool_usrip4_spec : cty := type_in structs_ethtool_usrip4_spec "ethtool_usrip4_spec".
Definition ethtool_rx_flow_spec : cty := type_in structs_ethtool_usrip4_spec "ethtool_rx_flow_spec".
Definition structs_ethtool_rxnfc : list (string * cty) :=
  [
  ("ethtool_rxnfc", Struct [("cmd", __u32); ("flow_type", __u32); ("data", __u64);
   ("fs", ethtool_rx_flow_spec); ("rule_cnt", __u32); ("rule_locs", Arr 0 __u32)]);
  ("ethtool_rxfh_indir", Struct [("cmd", __u32); ("size", __u32); ("ring_index", Arr 0 __u32)]);
  ("ethtool_rxfh", Struct [("cmd", __u32); ("rss_context", __u32); ("indir_size", __u32);
   ("key_size", __u32); ("hfunc", __u8); ("rsvd8", Arr 3 __u8); ("rsvd32", __u32);
   ("rss_config", Arr 0 __u32)])].
Definition structs_ethtool_rx_ntuple_flow_spec : list (string * cty) :=
  let ethtool_rx_ntuple_flow_spec := Struct [("flow_type", __u32);
   ("h_u", Union [("tcp_ip4_spec", ethtool_tcpip4_spec); ("udp_ip4_spec", ethtool_tcpip4_spec);
   ("sctp_ip4_spec", ethtool_tcpip4_spec); ("ah_ip4_spec", ethtool_ah_espip4_spec);
   ("esp_ip4_spec", ethtool_ah_espip4_spec); ("usr_ip4_spec", ethtool_usrip4_spec);
   ("ether_spec", If_ether.ethhdr); ("hdata", Arr 72 __u8)]);
   ("m_u", Union [("tcp_ip4_spec", ethtool_tcpip4_spec); ("udp_ip4_spec", ethtool_tcpip4_spec);
   ("sctp_ip4_spec", ethtool_tcpip4_spec); ("ah_ip4_spec", ethtool_ah_espip4_spec);
   ("esp_ip4_spec", ethtool_ah_espip4_spec); ("usr_ip4_spec", ethtool_usrip4_spec);
   ("ether_spec", If_ether.ethhdr); ("hdata", Arr 72 __u8)]); ("vlan_tag", __u16);
   ("vlan_tag_mask", __u16); ("data", __u64); ("data_mask", __u64); ("action", __s32)] in
  [
  ("ethtool_rx_ntuple_flow_spec", ethtool_rx_ntuple_flow_spec);
  ("ethtool_rx_ntuple", Struct [("cmd", __u32); ("fs", ethtool_rx_ntuple_flow_spec)])].
Definition structs_ethtool_flash : list (string * cty) :=
  [
  ("ethtool_flash", Struct [("cmd", __u32); ("region", __u32);
   ("data", Arr ETHTOOL_FLASH_MAX_FILENAME char)]);
  ("ethtool_dump", Struct [("cmd", __u32); ("version", __u32); ("flag", __u32); ("len", __u32);
   ("data", Arr 0 __u8)])].
Definition structs_ethtool_get_features_block : list (string * cty) :=
  let ethtool_get_features_block := Struct [("available", __u32); ("requested", __u32);
   ("active", __u32); ("never_changed", __u32)] in
  let ethtool_set_features_block := Struct [("valid", __u32); ("requested", __u32)] in
  [
  ("ethtool_get_features_block", ethtool_get_features_block);
  ("ethtool_gfeatures", Struct [("cmd", __u32); ("size", __u32);
   ("features", Arr 0 ethtool_get_features_block)]);
  ("ethtool_set_features_block", ethtool_set_features_block);
  ("ethtool_sfeatures", Struct [("cmd", __u32); ("size", __u32);
   ("features", Arr 0 ethtool_set_features_block)]);
  ("ethtool_ts_info", Struct [("cmd", __u32); ("so_timestamping", __u32); ("phc_index", __s32);
   ("tx_types", __u32); ("tx_reserved", Arr 3 __u32); ("rx_filters", __u32);
   ("rx_reserved", Arr 3 __u32)])].
Definition ethtool_types : list (string * cty) :=
  ([("ethtool_cmd", ethtool_cmd); ("ethtool_drvinfo", ethtool_drvinfo)] ++
   structs_ethtool_wolinfo ++ structs_ethtool_tunable ++ [("ethtool_coalesce",
   ethtool_coalesce)] ++ structs_ethtool_ringparam ++ structs_ethtool_gstrings ++
   structs_ethtool_test ++ structs_ethtool_tcpip4_spec ++ structs_ethtool_usrip4_spec ++
   structs_ethtool_rxnfc ++ structs_ethtool_rx_ntuple_flow_spec ++ structs_ethtool_flash ++
   structs_ethtool_get_features_block)%list.
End Ethtool.

(** ** [linux/gigaset_dev.h] *)

Module Gigaset_dev.
Definition gigaset_dev_ioctls : list command := [
  _IOWR "GIGASET_REDIR" 0x47 0 int;
  _IOWR "GIGASET_CONFIG" 0x47 1 int;
  _IOW "GIGASET_BRKCHARS" 0x47 2 (Arr 6 uchar);
  _IOWR "GIGASET_VERSION" 0x47 3 (Arr 4 uint)].
End Gigaset_dev.

(** ** [linux/gsmmux.h] *)

Module Gsmmux.
Definition gsm_config : cty :=
  Struct [("adaption", uint); ("encapsulation", uint); ("initiator", uint); ("t1", uint);
   ("t2", uint); ("t3", uint); ("n2", uint); ("mru", uint); ("mtu", uint); ("k", uint);
   ("i", uint); ("unused", Arr 8 uint)].
Definition gsm_netconfig : cty :=
  Struct [("adaption", uint); ("protocol", ushort); ("unused2", ushort);
   ("if_name", Arr 16 char); ("unused", Arr 28 __u8)].
Definition gsmmux_types : list (string * cty) :=
  ([("gsm_config", gsm_config); ("gsm_netconfig", gsm_netconfig)])%list.
Definition gsmmux_ioctls_1 : list command := [
  _IOR "GSMIOC_GETCONF" (chr "G") 0 gsm_config;
  _IOW "GSMIOC_SETCONF" (chr "G") 1 gsm_config].
Definition gsmmux_ioctls_2 : list command := [
  _IOW "GSMIOC_ENABLE_NET" (chr "G") 2 gsm_netconfig;
  _IO "GSMIOC_DISABLE_NET" (chr "G") 3].
Definition gsmmux_ioctls : list command :=
  (gsmmux_ioctls_1 ++ gsmmux_ioctls_2)%list.
End Gsmmux.

(** ** [linux/hsi/cs-protocol.h] *)

Module Hsi_cs_protocol.
Definition CS_MAX_BUFFERS : Z := 16.
Definition structs_cs_buffer_config : list (string * cty) :=
  let cs_timestamp := Struct [("tv_sec", __u32); ("tv_nsec", __u32)] in
  [
  ("cs_buffer_config", Struct [("rx_bufs", __u32); ("tx_bufs", __u32); ("buf_size", __u32);
   ("flags", __u32); ("reserved", Arr 4 __u32)]);
  ("cs_timestamp", cs_timestamp);
  ("cs_mmap_config_block", Struct [("reserved1", __u32); ("buf_size", __u32); ("rx_bufs", __u32);
   ("tx_bufs", __u32); ("reserved2", __u32); ("rx_offsets", Arr CS_MAX_BUFFERS __u32);
   ("tx_offsets", Arr CS_MAX_BUFFERS __u32); ("rx_ptr", __u32); ("rx_ptr_boundary", __u32);
   ("reserved3", Arr 2 __u32); ("tstamp_rx_ctrl", cs_timestamp)])].
Definition cs_buffer_config : cty := type_in structs_cs_buffer_config "cs_buffer_config".
Definition hsi_cs_protocol_types : list (string * cty) := structs_cs_buffer_config.
Definition hsi_cs_protocol_ioctls : list command := [
  _IOR "CS_GET_STATE" (chr "C") 21 uint;
  _IOW "CS_SET_WAKELINE" (chr "C") 23 uint;
  _IOR "CS_GET_IF_VERSION" (chr "C") 30 uint;
  _IOW "CS_CONFIG_BUFS" (chr "C") 31 cs_buffer_config].
End Hsi_cs_protocol.

(** ** [linux/hsi/hsi_char.h] *)

Module Hsi_hsi_char.
Definition structs_hsc_rx_config : list (string * cty) :=
  [
  ("hsc_rx_config", Struct [("mode", uint32_t); ("flow", uint32_t); ("channels", uint32_t)]);
  ("hsc_tx_config", Struct [("mode", uint32_t); ("channels", uint32_t); ("speed", uint32_t);
   ("arb_mode", uint32_t)])].
Definition hsc_rx_config : cty := type_in structs_hsc_rx_config "hsc_rx_config".
Definition hsc_tx_config : cty := type_in structs_hsc_rx_config "hsc_tx_config".
Definition hsi_hsi_char_types : list (string * cty) := structs_hsc_rx_config.
Definition hsi_hsi_char_ioctls : list command := [
  _IO "HSC_RESET" (chr "k") 16;
  _IO "HSC_SET_PM" (chr "k") 17;
  _IO "HSC_SEND_BREAK" (chr "k") 18;
  _IOW "HSC_SET_RX" (chr "k") 19 hsc_rx_config;
  _IOW "HSC_GET_RX" (chr "k") 20 hsc_rx_config;
  _IOW "HSC_SET_TX" (chr "k") 21 hsc_tx_config;
  _IOW "HSC_GET_TX" (chr "k") 22 hsc_tx_config].
End Hsi_hsi_char.

(** ** [linux/in6.h] *)

Module In6.
Definition structs_in6_addr : list (string * cty) :=
  let in6_addr := Struct [("in6_u", Union [("u6_addr8", Arr 16 __u8);
   ("u6_addr16", Arr 8 __be16); ("u6_addr32", Arr 4 __be32)])] in
  [
  ("in6_addr", in6_addr);
  ("sockaddr_in6", Struct [("sin6_family", ushort); ("sin6_port", __be16);
   ("sin6_flowinfo", __be32); ("sin6_addr", in6_addr); ("sin6_scope_id", __u32)]);
  ("ipv6_mreq", Struct [("ipv6mr_multiaddr", in6_addr); ("ipv6mr_ifindex", int)])].
Definition in6_addr : cty := type_in structs_in6_addr "in6_addr".
Definition sockaddr_in6 : cty := type_in structs_in6_addr "sockaddr_in6".
Definition in6_flowlabel_req : cty :=
  Struct [("flr_dst", in6_addr); ("flr_label", __be32); ("flr_action", __u8);
   ("flr_share", __u8); ("flr_flags", __u16); ("flr_expires", __u16); ("flr_linger", __u16);
   ("__flr_pad", __u32)].
Definition in6_types : list (string * cty) :=
  (structs_in6_addr ++ [("in6_flowlabel_req", in6_flowlabel_req)])%list.
End In6.

(** ** [linux/in.h] *)

Module In.
Definition structs_in_addr : list (string * cty) :=
  [
  ("in_addr", Struct [("s_addr", __be32)]);
  ("in_addr_t", uint32_t)].
Definition in_addr : cty := type_in structs_in_addr "in_addr".
Definition structs_ip_mreq : list (string * cty) :=
  [
  ("ip_mreq", Struct [("imr_multiaddr", in_addr); ("imr_interface", in_addr)]);
  ("ip_mreqn", Struct [("imr_multiaddr", in_addr); ("imr_address", in_addr); ("imr_ifindex", int)]);
  ("ip_mreq_source", Struct [("imr_multiaddr", __be32); ("imr_interface", __be32);
   ("imr_sourceaddr", __be32)]);
  ("ip_msfilter", Struct [("imsf_multiaddr", __be32); ("imsf_interface", __be32);
   ("imsf_fmode", __u32); ("imsf_numsrc", __u32); ("imsf_slist", Arr 1 __be32)])].
Definition in_pktinfo : cty :=
  Struct [("ipi_ifindex", int); ("ipi_spec_dst", in_addr); ("ipi_addr", in_addr)].
Definition sockaddr_in : cty :=
  Struct [("sin_family", __kernel_sa_family_t); ("sin_port", __be16); ("sin_addr", in_addr);
   ("__pad", Arr (16 - sizeof lp64 short - sizeof lp64 ushort - sizeof lp64 in_addr) uchar)].
Definition in_types : list (string * cty) :=
  (structs_in_addr ++ structs_ip_mreq ++ [("in_pktinfo", in_pktinfo); ("sockaddr_in",
   sockaddr_in)])%list.
End In.

(** ** [linux/if_pppol2tp.h] *)

Module If_pppol2tp.
Definition structs_pppol2tp_addr : list (string * cty) :=
  [
  ("pppol2tp_addr", Struct [("pid", __kernel_pid_t); ("fd", int); ("addr", In.sockaddr_in);
   ("s_tunnel", __u16); ("s_session", __u16); ("d_tunnel", __u16); ("d_session", __u16)]);
  ("pppol2tpin6_addr", Struct [("pid", __kernel_pid_t); ("fd", int); ("s_tunnel", __u16);
   ("s_session", __u16); ("d_tunnel", __u16); ("d_session", __u16); ("addr", In6.sockaddr_in6)]);
  ("pppol2tpv3_addr", Struct [("pid", __kernel_pid_t); ("fd", int); ("addr", In.sockaddr_in);
   ("s_tunnel", __u32); ("s_session", __u32); ("d_tunnel", __u32); ("d_session", __u32)]);
  ("pppol2tpv3in6_addr", Struct [("pid", __kernel_pid_t); ("fd", int); ("s_tunnel", __u32);
   ("s_session", __u32); ("d_tunnel", __u32); ("d_session", __u32); ("addr", In6.sockaddr_in6)])].
Definition pppol2tp_addr : cty := type_in structs_pppol2tp_addr "pppol2tp_addr".
Definition pppol2tpin6_addr : cty := type_in structs_pppol2tp_addr "pppol2tpin6_addr".
Definition pppol2tpv3_addr : cty := type_in structs_pppol2tp_addr "pppol2tpv3_addr".
Definition pppol2tpv3in6_addr : cty := type_in structs_pppol2tp_addr "pppol2tpv3in6_addr".
Definition if_pppol2tp_types : list (string * cty) := structs_pppol2tp_addr.
End If_pppol2tp.

(** ** [linux/if_pppox.h] *)

Module If_pppox.
Definition structs_sid_t : list (string * cty) :=
  let sid_t := __be16 in
  [
  ("sid_t", sid_t);
  ("pppoe_addr", Struct [("sid", sid_t); ("remote", Arr 6 uchar); ("dev", Arr 16 char)]);
  ("pptp_addr", Struct [("call_id", __u16); ("sin_addr", In.in_addr)])].
Definition pppoe_addr : cty := type_in structs_sid_t "pppoe_addr".
Definition pptp_addr : cty := type_in structs_sid_t "pptp_addr".
Definition structs_sockaddr_pppox : list (string * cty) :=
  [
  ("sockaddr_pppox", Packed [("sa_family", __kernel_sa_family_t); ("sa_protocol", uint);
   ("sa_addr", Union [("pppoe", pppoe_addr); ("pptp", pptp_addr)])]);
  ("sockaddr_pppol2tp", Packed [("sa_family", __kernel_sa_family_t); ("sa_protocol", uint);
   ("pppol2tp", If_pppol2tp.pppol2tp_addr)]);
  ("sockaddr_pppol2tpin6", Packed [("sa_family", __kernel_sa_family_t); ("sa_protocol", uint);
   ("pppol2tp", If_pppol2tp.pppol2tpin6_addr)]);
  ("sockaddr_pppol2tpv3", Packed [("sa_family", __kernel_sa_family_t); ("sa_protocol", uint);
   ("pppol2tp", If_pppol2tp.pppol2tpv3_addr)]);
  ("sockaddr_pppol2tpv3in6", Packed [("sa_family", __kernel_sa_family_t); ("sa_protocol", uint);
   ("pppol2tp", If_pppol2tp.pppol2tpv3in6_addr)])].
Definition pppoe_tag : cty :=
  Packed [("tag_type", __be16); ("tag_len", __be16); ("tag_data", Arr 0 char)].
Definition if_pppox_types : list (string * cty) :=
  (structs_sid_t ++ structs_sockaddr_pppox ++ [("pppoe_tag", pppoe_tag)])%list.
Definition if_pppox_ioctls : list command := [
  _IOW "PPPOEIOCSFWD" 0xb1 0 size_t;
  _IO "PPPOEIOCDFWD" 0xb1 1].
End If_pppox.

(** ** [linux/if_tun.h] *)

Module If_tun.
Definition tun_pi : cty := Struct [("flags", __u16); ("proto", __be16)].
Definition tun_filter : cty :=
  Struct [("flags", __u16); ("count", __u16); ("addr", Arr 0 (Arr 6 __u8))].
Definition if_tun_types : list (string * cty) :=
  ([("tun_pi", tun_pi); ("tun_filter", tun_filter)])%list.
Definition if_tun_ioctls : list command := [
  _IOW "TUNSETNOCSUM" (chr "T") 200 int;
  _IOW "TUNSETDEBUG" (chr "T") 201 int;
  _IOW "TUNSETIFF" (chr "T") 202 int;
  _IOW "TUNSETPERSIST" (chr "T") 203 int;
  _IOW "TUNSETOWNER" (chr "T") 204 int;
  _IOW "TUNSETLINK" (chr "T") 205 int;
  _IOW "TUNSETGROUP" (chr "T") 206 int;
  _IOR "TUNGETFEATURES" (chr "T") 207 uint;
  _IOW "TUNSETOFFLOAD" (chr "T") 208 uint;
  _IOW "TUNSETTXFILTER" (chr "T") 209 uint;
  _IOR "TUNGETIFF" (chr "T") 210 uint;
  _IOR "TUNGETSNDBUF" (chr "T") 211 int;
  _IOW "TUNSETSNDBUF" (chr "T") 212 int;
  _IOW "TUNATTACHFILTER" (chr "T") 213 Filter.sock_fprog;
  _IOW "TUNDETACHFILTER" (chr "T") 214 Filter.sock_fprog;
  _IOR "TUNGETVNETHDRSZ" (chr "T") 215 int;
  _IOW "TUNSETVNETHDRSZ" (chr "T") 216 int;
  _IOW "TUNSETQUEUE" (chr "T") 217 int;
  _IOW "TUNSETIFINDEX" (chr "T") 218 uint;
  _IOR "TUNGETFILTER" (chr "T") 219 Filter.sock_fprog;
  _IOW "TUNSETVNETLE" (chr "T") 220 int;
  _IOR "TUNGETVNETLE" (chr "T") 221 int;
  _IOW "TUNSETVNETBE" (chr "T") 222 int;
  _IOR "TUNGETVNETBE" (chr "T") 223 int].
End If_tun.

(** ** [linux/isdn.h] *)

Module Isdn.
Definition ISDN_MSNLEN : Z := 32.
Definition structs_isdn_ioctl_struct : list (string * cty) :=
  [
  ("isdn_ioctl_struct", Struct [("drvid", Arr 25 char); ("arg", ulong)]);
  ("isdn_net_ioctl_phone", Struct [("name", Arr 10 char); ("phone", Arr ISDN_MSNLEN char);
   ("outgoing", int)])].
Definition isdn_net_ioctl_cfg : cty :=
  Struct [("name", Arr 10 char); ("master", Arr 10 char); ("slave", Arr 10 char);
   ("eaz", Arr 256 char); ("drvid", Arr 25 char); ("onhtime", int); ("charge", int);
   ("l2_proto", int); ("l3_proto", int); ("p_encap", int); ("exclusive", int); ("dialmax", int);
   ("slavedelay", int); ("cbdelay", int); ("chargehup", int); ("ihup", int); ("secure", int);
   ("callback", int); ("cbhup", int); ("pppbind", int); ("chargeint", int); ("triggercps", int);
   ("dialtimeout", int); ("dialwait", int); ("dialmode", int)].
Definition isdn_types : list (string * cty) :=
  (structs_isdn_ioctl_struct ++ [("isdn_net_ioctl_cfg", isdn_net_ioctl_cfg)])%list.
Definition isdn_ioctls : list command := [
  _IO "IIOCNETAIF" (chr "I") 1;
  _IO "IIOCNETDIF" (chr "I") 2;
  _IO "IIOCNETSCF" (chr "I") 3;
  _IO "IIOCNETGCF" (chr "I") 4;
  _IO "IIOCNETANM" (chr "I") 5;
  _IO "IIOCNETDNM" (chr "I") 6;
  _IO "IIOCNETGNM" (chr "I") 7;
  _IO "IIOCGETSET" (chr "I") 8;
  _IO "IIOCSETSET" (chr "I") 9;
  _IO "IIOCSETVER" (chr "I") 10;
  _IO "IIOCNETHUP" (chr "I") 11;
  _IO "IIOCSETGST" (chr "I") 12;
  _IO "IIOCSETBRJ" (chr "I") 13;
  _IO "IIOCSIGPRF" (chr "I") 14;
  _IO "IIOCGETPRF" (chr "I") 15;
  _IO "IIOCSETPRF" (chr "I") 16;
  _IO "IIOCGETMAP" (chr "I") 17;
  _IO "IIOCSETMAP" (chr "I") 18;
  _IO "IIOCNETASL" (chr "I") 19;
  _IO "IIOCNETDIL" (chr "I") 20;
  _IO "IIOCGETCPS" (chr "I") 21;
  _IO "IIOCGETDVR" (chr "I") 22;
  _IO "IIOCNETLCR" (chr "I") 23;
  _IO "IIOCNETDWRSET" (chr "I") 24;
  _IO "IIOCNETALN" (chr "I") 32;
  _IO "IIOCNETDLN" (chr "I") 33;
  _IO "IIOCNETGPN" (chr "I") 34;
  _IO "IIOCDBGVAR" (chr "I") 127;
  _IO "IIOCDRVCTL" (chr "I") 128].
End Isdn.

(** ** [linux/isdn_ppp.h] *)

Module Isdn_ppp.
Definition ISDN_PPP_COMP_MAX_OPTIONS : Z := 16.
Definition pppcallinfo : cty :=
  Struct [("calltype", int); ("local_num", Arr 64 uchar); ("remote_num", Arr 64 uchar);
   ("charge_units", int)].
Definition isdn_ppp_comp_data : cty :=
  Struct [("num", int); ("options", Arr ISDN_PPP_COMP_MAX_OPTIONS uchar); ("optlen", int);
   ("flags", int)].
Definition isdn_ppp_types : list (string * cty) :=
  ([("pppcallinfo", pppcallinfo); ("isdn_ppp_comp_data", isdn_ppp_comp_data)])%list.
Definition isdn_ppp_ioctls : list command := [
  _IOWR "PPPIOCGCALLINFO" (chr "t") 128 pppcallinfo;
  _IOW "PPPIOCBUNDLE" (chr "t") 129 int;
  _IOR "PPPIOCGMPFLAGS" (chr "t") 130 int;
  _IOW "PPPIOCSMPFLAGS" (chr "t") 131 int;
  _IOW "PPPIOCSMPMTU" (chr "t") 132 int;
  _IOW "PPPIOCSMPMRU" (chr "t") 133 int;
  _IOR "PPPIOCGCOMPRESSORS" (chr "t") 134 (Arr 8 ulong);
  _IOW "PPPIOCSCOMPRESSOR" (chr "t") 135 int;
  _IOR "PPPIOCGIFNAME" (chr "t") 136 (Arr 16 char)].
End Isdn_ppp.

(** ** [linux/pfkeyv2.h] *)

Module Pfkeyv2.
Definition structs_sadb_msg : list (string * cty) :=
  [
  ("sadb_msg", Packed [("sadb_msg_version", __u8); ("sadb_msg_type", __u8);
   ("sadb_msg_errno", __u8); ("sadb_msg_satype", __u8); ("sadb_msg_len", __u16);
   ("sadb_msg_reserved", __u16); ("sadb_msg_seq", __u32); ("sadb_msg_pid", __u32)]);
  ("sadb_ext", Packed [("sadb_ext_len", __u16); ("sadb_ext_type", __u16)]);
  ("sadb_sa", Packed [("sadb_sa_len", __u16); ("sadb_sa_exttype", __u16);
   ("sadb_sa_spi", __be32); ("sadb_sa_replay", __u8); ("sadb_sa_state", __u8);
   ("sadb_sa_auth", __u8); ("sadb_sa_encrypt", __u8); ("sadb_sa_flags", __u32)]);
  ("sadb_lifetime", Packed [("sadb_lifetime_len", __u16); ("sadb_lifetime_exttype", __u16);
   ("sadb_lifetime_allocations", __u32); ("sadb_lifetime_bytes", __u64);
   ("sadb_lifetime_addtime", __u64); ("sadb_lifetime_usetime", __u64)]);
  ("sadb_address", Packed [("sadb_address_len", __u16); ("sadb_address_exttype", __u16);
   ("sadb_address_proto", __u8); ("sadb_address_prefixlen", __u8);
   ("sadb_address_reserved", __u16)]);
  ("sadb_key", Packed [("sadb_key_len", __u16); ("sadb_key_exttype", __u16);
   ("sadb_key_bits", __u16); ("sadb_key_reserved", __u16)]);
  ("sadb_ident", Packed [("sadb_ident_len", __u16); ("sadb_ident_exttype", __u16);
   ("sadb_ident_type", __u16); ("sadb_ident_reserved", __u16); ("sadb_ident_id", __u64)]);
  ("sadb_sens", Packed [("sadb_sens_len", __u16); ("sadb_sens_exttype", __u16);
   ("sadb_sens_dpd", __u32); ("sadb_sens_sens_level", __u8); ("sadb_sens_sens_len", __u8);
   ("sadb_sens_integ_level", __u8); ("sadb_sens_integ_len", __u8);
   ("sadb_sens_reserved", __u32)]);
  ("sadb_prop", Packed [("sadb_prop_len", __u16); ("sadb_prop_exttype", __u16);
   ("sadb_prop_replay", __u8); ("sadb_prop_reserved", Arr 3 __u8)]);
  ("sadb_comb", Packed [("sadb_comb_auth", __u8); ("sadb_comb_encrypt", __u8);
   ("sadb_comb_flags", __u16); ("sadb_comb_auth_minbits", __u16);
   ("sadb_comb_auth_maxbits", __u16); ("sadb_comb_encrypt_minbits", __u16);
   ("sadb_comb_encrypt_maxbits", __u16); ("sadb_comb_reserved", __u32);
   ("sadb_comb_soft_allocations", __u32); ("sadb_comb_hard_allocations", __u32);
   ("sadb_comb_soft_bytes", __u64); ("sadb_comb_hard_bytes", __u64);
   ("sadb_comb_soft_addtime", __u64); ("sadb_comb_hard_addtime", __u64);
   ("sadb_comb_soft_usetime", __u64); ("sadb_comb_hard_usetime", __u64)]);
  ("sadb_supported", Packed [("sadb_supported_len", __u16); ("sadb_supported_exttype", __u16);
   ("sadb_supported_reserved", __u32)]);
  ("sadb_alg", Packed [("sadb_alg_id", __u8); ("sadb_alg_ivlen", __u8);
   ("sadb_alg_minbits", __u16); ("sadb_alg_maxbits", __u16); ("sadb_alg_reserved", __u16)]);
  ("sadb_spirange", Packed [("sadb_spirange_len", __u16); ("sadb_spirange_exttype", __u16);
   ("sadb_spirange_min", __u32); ("sadb_spirange_max", __u32);
   ("sadb_spirange_reserved", __u32)]);
  ("sadb_x_kmprivate", Packed [("sadb_x_kmprivate_len", __u16);
   ("sadb_x_kmprivate_exttype", __u16); ("sadb_x_kmprivate_reserved", __u32)])].
Definition sadb_msg : cty := type_in structs_sadb_msg "sadb_msg".
Definition sadb_ext : cty := type_in structs_sadb_msg "sadb_ext".
Definition sadb_sa : cty := type_in structs_sadb_msg "sadb_sa".
Definition sadb_lifetime : cty := type_in structs_sadb_msg "sadb_lifetime".
Definition sadb_address : cty := type_in structs_sadb_msg "sadb_address".
Definition sadb_key : cty := type_in structs_sadb_msg "sadb_key".
Definition sadb_ident : cty := type_in structs_sadb_msg "sadb_ident".
Definition sadb_sens : cty := type_in structs_sadb_msg "sadb_sens".
Definition sadb_prop : cty := type_in structs_sadb_msg "sadb_prop".
Definition sadb_comb : cty := type_in structs_sadb_msg "sadb_comb".
Definition sadb_supported : cty := type_in structs_sadb_msg "sadb_supported".
Definition sadb_alg : cty := type_in structs_sadb_msg "sadb_alg".
Definition sadb_spirange : cty := type_in structs_sadb_msg "sadb_spirange".
Definition sadb_x_kmprivate : cty := type_in structs_sadb_msg "sadb_x_kmprivate".
Definition structs_sadb_x_sa2 : list (string * cty) :=
  [
  ("sadb_x_sa2", Packed [("sadb_x_sa2_len", __u16); ("sadb_x_sa2_exttype", __u16);
   ("sadb_x_sa2_mode", __u8); ("sadb_x_sa2_reserved1", __u8); ("sadb_x_sa2_reserved2", __u16);
   ("sadb_x_sa2_sequence", __u32); ("sadb_x_sa2_reqid", __u32)]);
  ("sadb_x_policy", Packed [("sadb_x_policy_len", __u16); ("sadb_x_policy_exttype", __u16);
   ("sadb_x_policy_type", __u16); ("sadb_x_policy_dir", __u8); ("sadb_x_policy_reserved", __u8);
   ("sadb_x_policy_id", __u32); ("sadb_x_policy_priority", __u32)]);
  ("sadb_x_ipsecrequest", Packed [("sadb_x_ipsecrequest_len", __u16);
   ("sadb_x_ipsecrequest_proto", __u16); ("sadb_x_ipsecrequest_mode", __u8);
   ("sadb_x_ipsecrequest_level", __u8); ("sadb_x_ipsecrequest_reserved1", __u16);
   ("sadb_x_ipsecrequest_reqid", __u32); ("sadb_x_ipsecrequest_reserved2", __u32)]);
  ("sadb_x_nat_t_type", Packed [("sadb_x_nat_t_type_len", __u16);
   ("sadb_x_nat_t_type_exttype", __u16); ("sadb_x_nat_t_type_type", __u8);
   ("sadb_x_nat_t_type_reserved", Arr 3 __u8)]);
  ("sadb_x_nat_t_port", Packed [("sadb_x_nat_t_port_len", __u16);
   ("sadb_x_nat_t_port_exttype", __u16); ("sadb_x_nat_t_port_port", __be16);
   ("sadb_x_nat_t_port_reserved", __u16)]);
  ("sadb_x_sec_ctx", Packed [("sadb_x_sec_len", __u16); ("sadb_x_sec_exttype", __u16);
   ("sadb_x_ctx_alg", __u8); ("sadb_x_ctx_doi", __u8); ("sadb_x_ctx_len", __u16)]);
  ("sadb_x_kmaddress", Packed [("sadb_x_kmaddress_len", __u16);
   ("sadb_x_kmaddress_exttype", __u16); ("sadb_x_kmaddress_reserved", __u32)]);
  ("sadb_x_filter", Packed [("sadb_x_filter_len", __u16); ("sadb_x_filter_exttype", __u16);
   ("sadb_x_filter_saddr", Arr 4 __u32); ("sadb_x_filter_daddr", Arr 4 __u32);
   ("sadb_x_filter_family", __u16); ("sadb_x_filter_splen", __u8);
   ("sadb_x_filter_dplen", __u8)])].
Definition sadb_x_sa2 : cty := type_in structs_sadb_x_sa2 "sadb_x_sa2".
Definition sadb_x_policy : cty := type_in structs_sadb_x_sa2 "sadb_x_policy".
Definition sadb_x_ipsecrequest : cty := type_in structs_sadb_x_sa2 "sadb_x_ipsecrequest".
Definition sadb_x_nat_t_type : cty := type_in structs_sadb_x_sa2 "sadb_x_nat_t_type".
Definition sadb_x_nat_t_port : cty := type_in structs_sadb_x_sa2 "sadb_x_nat_t_port".
Definition sadb_x_sec_ctx : cty := type_in structs_sadb_x_sa2 "sadb_x_sec_ctx".
Definition sadb_x_kmaddress : cty := type_in structs_sadb_x_sa2 "sadb_x_kmaddress".
Definition sadb_x_filter : cty := type_in structs_sadb_x_sa2 "sadb_x_filter".
Definition pfkeyv2_types : list (string * cty) :=
  (structs_sadb_msg ++ structs_sadb_x_sa2)%list.
End Pfkeyv2.

(** ** [linux/ppp-ioctl.h] *)

Module Ppp_ioctl.
Definition structs_npioctl : list (string * cty) :=
  [
  ("npioctl", Struct [("protocol", int); ("mode", enum)]);
  ("ppp_option_data", Struct [("ptr", ptr); ("length", __u32); ("transmit", int)])].
Definition npioctl : cty := type_in structs_npioctl "npioctl".
Definition ppp_option_data : cty := type_in structs_npioctl "ppp_option_data".
Definition pppol2tp_ioc_stats : cty :=
  Struct [("tunnel_id", __u16); ("session_id", __u16); ("using_ipsec:1", __u32);
   ("tx_packets", __aligned_u64); ("tx_bytes", __aligned_u64); ("tx_errors", __aligned_u64);
   ("rx_packets", __aligned_u64); ("rx_bytes", __aligned_u64); ("rx_seq_discards", __aligned_u64);
   ("rx_oos_packets", __aligned_u64); ("rx_errors", __aligned_u64)].
Definition ppp_ioctl_types : list (string * cty) :=
  (structs_npioctl ++ [("pppol2tp_ioc_stats", pppol2tp_ioc_stats)])%list.
Definition ppp_ioctl_ioctls : list command := [
  _IOR "PPPIOCGFLAGS" (chr "t") 90 int;
  _IOW "PPPIOCSFLAGS" (chr "t") 89 int;
  _IOR "PPPIOCGASYNCMAP" (chr "t") 88 int;
  _IOW "PPPIOCSASYNCMAP" (chr "t") 87 int;
  _IOR "PPPIOCGUNIT" (chr "t") 86 int;
  _IOR "PPPIOCGRASYNCMAP" (chr "t") 85 int;
  _IOW "PPPIOCSRASYNCMAP" (chr "t") 84 int;
  _IOR "PPPIOCGMRU" (chr "t") 83 int;
  _IOW "PPPIOCSMRU" (chr "t") 82 int;
  _IOW "PPPIOCSMAXCID" (chr "t") 81 int;
  _IOR "PPPIOCGXASYNCMAP" (chr "t") 80 Ppp_defs.ext_accm;
  _IOW "PPPIOCSXASYNCMAP" (chr "t") 79 Ppp_defs.ext_accm;
  _IO "PPPIOCXFERUNIT" (chr "t") 78;
  _IOW "PPPIOCSCOMPRESS" (chr "t") 77 ppp_option_data;
  _IOWR "PPPIOCGNPMODE" (chr "t") 76 npioctl;
  _IOW "PPPIOCSNPMODE" (chr "t") 75 npioctl;
  _IOW "PPPIOCSPASS" (chr "t") 71 Filter.sock_fprog;
  _IOW "PPPIOCSACTIVE" (chr "t") 70 Filter.sock_fprog;
  _IOR "PPPIOCGDEBUG" (chr "t") 65 int;
  _IOW "PPPIOCSDEBUG" (chr "t") 64 int;
  _IOR "PPPIOCGIDLE" (chr "t") 63 Ppp_defs.ppp_idle;
  _IOWR "PPPIOCNEWUNIT" (chr "t") 62 int;
  _IOW "PPPIOCATTACH" (chr "t") 61 int;
  _IOW "PPPIOCDETACH" (chr "t") 60 int;
  _IOW "PPPIOCSMRRU" (chr "t") 59 int;
  _IOW "PPPIOCCONNECT" (chr "t") 58 int;
  _IO "PPPIOCDISCONN" (chr "t") 57;
  _IOW "PPPIOCATTCHAN" (chr "t") 56 int;
  _IOR "PPPIOCGCHAN" (chr "t") 55 int;
  _IOR "PPPIOCGL2TPSTATS" (chr "t") 54 pppol2tp_ioc_stats].
End Ppp_ioctl.

(** ** [linux/socket.h] *)

Module Socket.
Definition __kernel_sa_family_t : cty := ushort.
Definition socket_types : list (string * cty) := [("__kernel_sa_family_t", __kernel_sa_family_t)].
End Socket.

(** ** [linux/sonet.h] *)

Module Sonet.
Definition SONET_FRSENSE_SIZE : Z := 6.
Definition sonet_stats : cty :=
  Packed [("section_bip", int); ("line_bip", int); ("path_bip", int); ("line_febe", int);
   ("path_febe", int); ("corr_hcs", int); ("uncorr_hcs", int); ("tx_cells", int); ("rx_cells", int)].
Definition sonet_ioctls : list command := [
  _IOR "SONET_GETSTAT" (chr "a") 16 sonet_stats;
  _IOR "SONET_GETSTATZ" (chr "a") 17 sonet_stats;
  _IOWR "SONET_SETDIAG" (chr "a") 18 int;
  _IOWR "SONET_CLRDIAG" (chr "a") 19 int;
  _IOR "SONET_GETDIAG" (chr "a") 20 int;
  _IOW "SONET_SETFRAMING" (chr "a") 21 int;
  _IOR "SONET_GETFRAMING" (chr "a") 22 int;
  _IOR "SONET_GETFRSENSE" (chr "a") 23 (Arr SONET_FRSENSE_SIZE uchar)].
Definition sonet_types : list (string * cty) := [("sonet_stats", sonet_stats)].
End Sonet.

(** ** [linux/usb/audio.h] *)

Module Usb_audio.
Definition uac1_ac_header_descriptor : cty :=
  Packed [("bLength", __u8); ("bDescriptorType", __u8); ("bDescriptorSubtype", __u8);
   ("bcdADC", __le16); ("wTotalLength", __le16); ("bInCollection", __u8);
   ("baInterfaceNr", Arr 0 __u8)].
Definition uac_input_terminal_descriptor : cty :=
  Packed [("bLength", __u8); ("bDescriptorType", __u8); ("bDescriptorSubtype", __u8);
   ("bTerminalID", __u8); ("wTerminalType", __le16); ("bAssocTerminal", __u8);
   ("bNrChannels", __u8); ("wChannelConfig", __le16); ("iChannelNames", __u8);
   ("iTerminal", __u8)].
Definition uac1_output_terminal_descriptor : cty :=
  Packed [("bLength", __u8); ("bDescriptorType", __u8); ("bDescriptorSubtype", __u8);
   ("bTerminalID", __u8); ("wTerminalType", __le16); ("bAssocTerminal", __u8);
   ("bSourceID", __u8); ("iTerminal", __u8)].
Definition uac_mixer_unit_descriptor : cty :=
  Packed [("bLength", __u8); ("bDescriptorType", __u8); ("bDescriptorSubtype", __u8);
   ("bUnitID", __u8); ("bNrInPins", __u8); ("baSourceID", Arr 0 __u8)].
Definition uac_selector_unit_descriptor : cty :=
  Packed [("bLength", __u8); ("bDescriptorType", __u8); ("bDescriptorSubtype", __u8);
   ("bUintID", __u8); ("bNrInPins", __u8); ("baSourceID", Arr 0 __u8)].
Definition uac_feature_unit_descriptor : cty :=
  Packed [("bLength", __u8); ("bDescriptorType", __u8); ("bDescriptorSubtype", __u8);
   ("bUnitID", __u8); ("bSourceID", __u8); ("bControlSize", __u8); ("bmaControls", Arr 0 __u8)].
Definition uac_processing_unit_descriptor : cty :=
  Packed [("bLength", __u8); ("bDescriptorType", __u8); ("bDescriptorSubtype", __u8);
   ("bUnitID", __u8); ("wProcessType", __u16); ("bNrInPins", __u8); ("baSourceID", Arr 0 __u8)].
Definition uac1_as_header_descriptor : cty :=
  Packed [("bLength", __u8); ("bDescriptorType", __u8); ("bDescriptorSubtype", __u8);
   ("bTerminalLink", __u8); ("bDelay", __u8); ("wFormatTag", __le16)].
Definition uac_format_type_i_continuous_descriptor : cty :=
  Packed [("bLength", __u8); ("bDescriptorType", __u8); ("bDescriptorSubtype", __u8);
   ("bFormatType", __u8); ("bNrChannels", __u8); ("bSubframeSize", __u8);
   ("bBitResolution", __u8); ("bSamFreqType", __u8); ("tLowerSamFreq", Arr 3 __u8);
   ("tUpperSamFreq", Arr 3 __u8)].
Definition uac_format_type_i_discrete_descriptor : cty :=
  Packed [("bLength", __u8); ("bDescriptorType", __u8); ("bDescriptorSubtype", __u8);
   ("bFormatType", __u8); ("bNrChannels", __u8); ("bSubframeSize", __u8);
   ("bBitResolution", __u8); ("bSamFreqType", __u8); ("tSamFreq", Arr 0 (Arr 3 __u8))].
Definition uac_format_type_i_ext_descriptor : cty :=
  Packed [("bLength", __u8); ("bDescriptorType", __u8); ("bDescriptorSubtype", __u8);
   ("bFormatType", __u8); ("bSubslotSize", __u8); ("bBitResolution", __u8);
   ("bHeaderLength", __u8); ("bControlSize", __u8); ("bSideBandProtocol", __u8)].
Definition structs_uac_format_type_ii_discrete_descriptor : list (string * cty) :=
  [
  ("uac_format_type_ii_discrete_descriptor", Packed [("bLength", __u8);
   ("bDescriptorType", __u8); ("bDescriptorSubtype", __u8); ("bFormatType", __u8);
   ("wMaxBitRate", __le16); ("wSamplesPerFrame", __le16); ("bSamFreqType", __u8);
   ("tSamFreq", Arr 0 (Arr 3 __u8))]);
  ("uac_format_type_ii_ext_descriptor", Packed [("bLength", __u8); ("bDescriptorType", __u8);
   ("bDescriptorSubtype", __u8); ("bFormatType", __u8); ("wMaxBitRate", __u16);
   ("wSamplesPerFrame", __u16); ("bHeaderLength", __u8); ("bSideBandProtocol", __u8)])].
Definition uac_iso_endpoint_descriptor : cty :=
  Packed [("bLength", __u8); ("bDescriptorType", __u8); ("bDescriptorSubtype", __u8);
   ("bmAttributes", __u8); ("bLockDelayUnits", __u8); ("wLockDelay", __le16)].
Definition uac1_status_word : cty := Packed [("bStatusType", __u8); ("bOriginator", __u8)].
Definition usb_audio_types : list (string * cty) :=
  ([("uac1_ac_header_descriptor", uac1_ac_header_descriptor);
   ("uac_input_terminal_descriptor", uac_input_terminal_descriptor);
   ("uac1_output_terminal_descriptor", uac1_output_terminal_descriptor);
   ("uac_mixer_unit_descriptor", uac_mixer_unit_descriptor); ("uac_selector_unit_descriptor",
   uac_selector_unit_descriptor); ("uac_feature_unit_descriptor",
   uac_feature_unit_descriptor); ("uac_processing_unit_descriptor",
   uac_processing_unit_descriptor); ("uac1_as_header_descriptor", uac1_as_header_descriptor);
   ("uac_format_type_i_continuous_descriptor", uac_format_type_i_continuous_descriptor);
   ("uac_format_type_i_discrete_descriptor", uac_format_type_i_discrete_descriptor);
   ("uac_format_type_i_ext_descriptor", uac_format_type_i_ext_descriptor)] ++
   structs_uac_format_type_ii_discrete_descriptor ++ [("uac_iso_endpoint_descriptor",
   uac_iso_endpoint_descriptor); ("uac1_status_word", uac1_status_word)])%list.
End Usb_audio.

(** ** [linux/usb/cdc-wdm.h] *)

Module Usb_cdc_wdm.
Definition usb_cdc_wdm_ioctls : list command := [
  _IOR "IOCTL_WDM_MAX_COMMAND" (chr "H") 160 __u16].
End Usb_cdc_wdm.

(** ** [linux/usb/cdc.h] *)

Module Usb_cdc.
Definition structs_usb_cdc_header_desc : list (string * cty) :=
  [
  ("usb_cdc_header_desc", Packed [("bLength", __u8); ("bDescriptorType", __u8);
   ("bDescriptorSubType", __u8); ("bcdCDC", __le16)]);
  ("usb_cdc_call_mgmt_descriptor", Packed [("bLength", __u8); ("bDescriptorType", __u8);
   ("bDescriptorSubType", __u8); ("bmCapabilities", __u8); ("bDataInterface", __u8)]);
  ("usb_cdc_acm_descriptor", Packed [("bLength", __u8); ("bDescriptorType", __u8);
   ("bDescriptorSubType", __u8); ("bmCapabilities", __u8)])].
Definition structs_usb_cdc_union_desc : list (string * cty) :=
  [
  ("usb_cdc_union_desc", Packed [("bLength", __u8); ("bDescriptorType", __u8);
   ("bDescriptorSubType", __u8); ("bMasterInterface0", __u8); ("bSlaveInterface0", __u8)]);
  ("usb_cdc_country_functional_desc", Packed [("bLength", __u8); ("bDescriptorType", __u8);
   ("bDescriptorSubType", __u8); ("iCountryCodeRelDate", __u8); ("wCountyCode0", __le16)]);
  ("usb_cdc_network_terminal_desc", Packed [("bLength", __u8); ("bDescriptorType", __u8);
   ("bDescriptorSubType", __u8); ("bEntityId", __u8); ("iName", __u8); ("bChannelIndex", __u8);
   ("bPhysicalInterface", __u8)]);
  ("usb_cdc_ether_desc", Packed [("bLength", __u8); ("bDescriptorType", __u8);
   ("bDescriptorSubType", __u8); ("iMACAddress", __u8); ("bmEthernetStatistics", __le32);
   ("wMaxSegmentSize", __le16); ("wNumberMCFilters", __le16); ("bNumberPowerFilters", __u8)]);
  ("usb_cdc_dmm_desc", Packed [("bFunctionLength", __u8); ("bDescriptorType", __u8);
   ("bDescriptorSubtype", __u8); ("bcdVersion", __u16); ("wMaxCommand", __le16)]);
  ("usb_cdc_mdlm_desc", Packed [("bLength", __u8); ("bDescriptorType", __u8);
   ("bDescriptorSubType", __u8); ("bcdVersion", __le16); ("bGUID", Arr 16 __u8)]);
  ("usb_cdc_mdlm_detail_desc", Packed [("bLength", __u8); ("bDescriptorType", __u8);
   ("bDescriptorSubType", __u8); ("bGuidDescriptorType", __u8); ("bDetailData", Arr 0 __u8)]);
  ("usb_cdc_obex_desc", Packed [("bLength", __u8); ("bDescriptorType", __u8);
   ("bDescriptorSubType", __u8); ("bcdVersion", __le16)]);
  ("usb_cdc_ncm_desc", Packed [("bLength", __u8); ("bDescriptorType", __u8);
   ("bDescriptorSubType", __u8); ("bcdNcmVersion", __le16); ("bmNetworkCapabilities", __u8)]);
  ("usb_cdc_mbim_desc", Packed [("bLength", __u8); ("bDescriptorType", __u8);
   ("bDescriptorSubType", __u8); ("bcdMBIMVersion", __le16); ("wMaxControlMessage", __le16);
   ("bNumberFilters", __u8); ("bMaxFilterSize", __u8); ("wMaxSegmentSize", __le16);
   ("bmNetworkCapabilities", __u8)]);
  ("usb_cdc_mbim_extended_desc", Packed [("bLength", __u8); ("bDescriptorType", __u8);
   ("bDescriptorSubType", __u8); ("bcdMBIMExtendedVersion", __le16);
   ("bMaxOutstandingCommandMessages", __u8); ("wMTU", __le16)])].
Definition usb_cdc_line_coding : cty :=
  Packed [("dwDTERate", __le32); ("bCharFormat", __u8); ("bParityType", __u8); ("bDataBits", __u8)].
Definition structs_usb_cdc_notification : list (string * cty) :=
  [
  ("usb_cdc_notification", Packed [("bmRequestType", __u8); ("bNotificationType", __u8);
   ("wValue", __le16); ("wIndex", __le16); ("wLength", __le16)]);
  ("usb_cdc_speed_change", Packed [("DLBitRRate", __le32); ("ULBitRate", __le32)]);
  ("usb_cdc_ncm_ntb_parameters", Packed [("wLength", __le16); ("bmNtbFormatsSupported", __le16);
   ("dwNtbInMaxSize", __le32); ("wNdpInDivisor", __le16); ("wNdpInPayloadRemainder", __le16);
   ("wNdpInAlignment", __le16); ("wPadding1", __le16); ("dwNtbOutMaxSize", __le32);
   ("wNdpOutDivisor", __le16); ("wNdpOutPayloadRemainder", __le16); ("wNdpOutAlignment", __le16);
   ("wNtbOutMaxDatagrams", __le16)])].
Definition structs_usb_cdc_ncm_nth16 : list (string * cty) :=
  [
  ("usb_cdc_ncm_nth16", Packed [("dwSignature", __le32); ("wHeaderLength", __le16);
   ("wSequence", __le16); ("wBlockLength", __le16); ("wNdpIndex", __le16)]);
  ("usb_cdc_ncm_nth32", Packed [("dwSignature", __le32); ("wHeaderLength", __le16);
   ("wSequence", __le16); ("dwBlockLength", __le32); ("dwNdpIndex", __le32)])].
Definition structs_usb_cdc_ncm_dpe16 : list (string * cty) :=
  let usb_cdc_ncm_dpe16 := Packed [("wDatagramIndex", __le16); ("wDatagramLength", __le16)] in
  let usb_cdc_ncm_dpe32 := Packed [("dwDatagramIndex", __le32); ("dwDatagramLength", __le32)] in
  [
  ("usb_cdc_ncm_dpe16", usb_cdc_ncm_dpe16);
  ("usb_cdc_ncm_ndp16", Packed [("dwSignature", __le32); ("wLength", __le16);
   ("wNextNdpIndex", __le16); ("dpe16", Arr 0 usb_cdc_ncm_dpe16)]);
  ("usb_cdc_ncm_dpe32", usb_cdc_ncm_dpe32);
  ("usb_cdc_ncm_ndp32", Packed [("dwSignature", __le32); ("wLength", __le16);
   ("wReserved6", __le16); ("dwNextNdpIndex", __le32); ("dwReserved12", __le32);
   ("dpe32", Arr 0 usb_cdc_ncm_dpe32)])].
Definition usb_cdc_ncm_ndp_input_size : cty :=
  Packed [("dwNtbInMaxSize", __le32); ("wNtbInMaxDatagrams", __le16); ("wReserved", __le16)].
Definition usb_cdc_types : list (string * cty) :=
  (structs_usb_cdc_header_desc ++ structs_usb_cdc_union_desc ++ [("usb_cdc_line_coding",
   usb_cdc_line_coding)] ++ structs_usb_cdc_notification ++ structs_usb_cdc_ncm_nth16 ++
   structs_usb_cdc_ncm_dpe16 ++ [("usb_cdc_ncm_ndp_input_size",
   usb_cdc_ncm_ndp_input_size)])%list.
End Usb_cdc.

(** ** [linux/usb/ch11.h] *)

Module Usb_ch11.
Definition usb_port_status : cty := Packed [("wPortStatus", __le16); ("wPortChange", __le16)].
Definition usb_hub_status : cty := Packed [("wHubStatus", __le16); ("wHubChange", __le16)].
Definition usb_hub_descriptor : cty :=
  Packed [("bDescLength", __u8); ("bDescriptorType", __u8); ("bNbrPorts", __u8);
   ("wHubCharacteristics", __le16); ("bPwrOn2PwrGood", __u8); ("bHubContrCurrent", __u8);
   ("u", Union [("hs", Packed [("DeviceRemovable", Arr 4 __u8);
   ("PortPwrCtrlMask", Arr 4 __u8)]); ("ss", Packed [("bHubHdrDecLat", __u8);
   ("wHubDelay", __le16); ("DeviceRemovable", __le16)])])].
Definition usb_ch11_types : list (string * cty) :=
  ([("usb_port_status", usb_port_status); ("usb_hub_status", usb_hub_status);
   ("usb_hub_descriptor", usb_hub_descriptor)])%list.
End Usb_ch11.

(** ** [linux/usb/functionfs.h] *)

Module Usb_functionfs.
Definition structs_usb_endpoint_descriptor_no_audio : list (string * cty) :=
  [
  ("usb_endpoint_descriptor_no_audio", Packed [("bLength", __u8); ("bDescriptorType", __u8);
   ("bEndpointAddress", __u8); ("bmAttributes", __u8); ("wMaxPacketSize", __le16);
   ("bInterval", __u8)]);
  ("usb_functionfs_descs_head_v2", Packed [("magic", __le32); ("length", __le32);
   ("flags", __le32)]);
  ("usb_functionfs_descs_head", Packed [("magic", __le32); ("length", __le32);
   ("fs_count", __le32); ("hs_count", __le32)]);
  ("usb_os_desc_header", Packed [("interface", __u8); ("dwLength", __le32);
   ("bcdVersion", __le16); ("wIndex", __le16); ("", Union [("", Struct [("bCount", __u8);
   ("Reserved", __u8)]); ("wCount", __le16)])]);
  ("usb_ext_compat_desc", Struct [("bFirstInterfaceNumber", __u8); ("Reserved1", __u8);
   ("CompatibleID", Arr 8 __u8); ("SubCompatibleID", Arr 8 __u8); ("Reserved2", Arr 6 __u8)]);
  ("usb_ext_prop_desc", Packed [("dwSize", __le32); ("dwPropertyDataType", __le32);
   ("wPropertyNameLength", __le16)])].
Definition usb_functionfs_strings_head : cty :=
  Packed [("magic", __le32); ("length", __le32); ("str_count", __le32); ("lang_count", __le32)].
Definition usb_functionfs_types : list (string * cty) :=
  (structs_usb_endpoint_descriptor_no_audio ++ [("usb_functionfs_strings_head",
   usb_functionfs_strings_head)])%list.
Definition usb_functionfs_ioctls_1 : list command := [
  _IO "FUNCTIONFS_FIFO_STATUS" (chr "g") 1;
  _IO "FUNCTIONFS_FIFO_FLUSH" (chr "g") 2;
  _IO "FUNCTIONFS_CLEAR_HALT" (chr "g") 3].
Definition usb_functionfs_ioctls_2 : list command := [
  _IO "FUNCTIONFS_INTERFACE_REVMAP" (chr "g") 128;
  _IO "FUNCTIONFS_ENDPOINT_REVMAP" (chr "g") 129;
  _IOR "FUNCTIONFS_ENDPOINT_DESC" (chr "g") 130 Usb_ch9.usb_endpoint_descriptor].
Definition usb_functionfs_ioctls : list command :=
  (usb_functionfs_ioctls_1 ++ usb_functionfs_ioctls_2)%list.
End Usb_functionfs.

(** ** [linux/usb/g_printer.h] *)

Module Usb_g_printer.
Definition usb_g_printer_ioctls : list command := [
  _IOR "GADGET_GET_PRINTER_STATUS" (chr "g") 33 uchar;
  _IOWR "GADGET_SET_PRINTER_STATUS" (chr "g") 34 uchar].
End Usb_g_printer.

(** ** [linux/usb/gadgetfs.h] *)

Module Usb_gadgetfs.
Definition usb_gadgetfs_event : cty :=
  Struct [("u", Union [("speed", enum); ("setup", Usb_ch9.usb_ctrlrequest)]); ("type", enum)].
Definition usb_gadgetfs_types : list (string * cty) := [("usb_gadgetfs_event", usb_gadgetfs_event)].
Definition usb_gadgetfs_ioctls : list command := [
  _IO "GADGETFS_FIFO_STATUS" (chr "g") 1;
  _IO "GADGETFS_FIFO_FLUSH" (chr "g") 2;
  _IO "GADGETFS_CLEAR_HALT" (chr "g") 3].
End Usb_gadgetfs.

(** ** [linux/usb/midi.h] *)

Module Usb_midi.
Definition usb_ms_header_descriptor : cty :=
  Packed [("bLength", __u8); ("bDescriptorType", __u8); ("bDescriptorSubtype", __u8);
   ("bcdMSC", __le16); ("wTotalLength", __le16)].
Definition usb_midi_in_jack_descriptor : cty :=
  Packed [("bLength", __u8); ("bDescriptorType", __u8); ("bDescriptorSubtype", __u8);
   ("bJackType", __u8); ("bJackID", __u8); ("iJack", __u8)].
Definition structs_usb_midi_source_pin : list (string * cty) :=
  let usb_midi_source_pin := Packed [("baSourceID", __u8); ("baSourcePin", __u8)] in
  [
  ("usb_midi_source_pin", usb_midi_source_pin);
  ("usb_midi_out_jack_descriptor", Packed [("bLength", __u8); ("bDescriptorType", __u8);
   ("bDescriptorSubtype", __u8); ("bJackType", __u8); ("bJackID", __u8); ("bNrInputPins", __u8);
   ("pins", Arr 0 usb_midi_source_pin)])].
Definition usb_ms_endpoint_descriptor : cty :=
  Packed [("bLength", __u8); ("bDescriptorType", __u8); ("bDescriptorSubtype", __u8);
   ("bNumEmbMIDIJack", __u8); ("baAssocJackID", Arr 0 __u8)].
Definition usb_midi_types : list (string * cty) :=
  ([("usb_ms_header_descriptor", usb_ms_header_descriptor); ("usb_midi_in_jack_descriptor",
   usb_midi_in_jack_descriptor)] ++ structs_usb_midi_source_pin ++
   [("usb_ms_endpoint_descriptor", usb_ms_endpoint_descriptor)])%list.
End Usb_midi.

(** ** [linux/usb/tmc.h] *)

Module Usb_tmc.
Definition usb_tmc_ioctls : list command := [
  _IO "USBTMC_IOCTL_INDICATOR_PULSE" 0x5b 1;
  _IO "USBTMC_IOCTL_CLEAR" 0x5b 2;
  _IO "USBTMC_IOCTL_ABORT_BULK_OUT" 0x5b 3;
  _IO "USBTMC_IOCTL_ABORT_BULK_IN" 0x5b 4;
  _IO "USBTMC_IOCTL_CLEAR_OUT_HALT" 0x5b 6;
  _IO "USBTMC_IOCTL_CLEAR_IN_HALT" 0x5b 7].
End Usb_tmc.

(** ** [linux/usb/video.h] *)

Module Usb_video.
Definition structs_uvc_descriptor_header : list (string * cty) :=
  [
  ("uvc_descriptor_header", Packed [("bLength", __u8); ("bDescriptorType", __u8);
   ("bDescriptorSubType", __u8)]);
  ("uvc_header_descriptor", Packed [("bLength", __u8); ("bDescriptorType", __u8);
   ("bDescriptorSubType", __u8); ("bcdUVC", __u16); ("wTotalLength", __u16);
   ("dwClockFrequency", __u32); ("bInCollection", __u8); ("baInterfaceNr", Arr 0 __u8)])].
Definition uvc_input_terminal_descriptor : cty :=
  Packed [("bLength", __u8); ("bDescriptorType", __u8); ("bDescriptorSubType", __u8);
   ("bTerminalID", __u8); ("wTerminalType", __u16); ("bAssocTerminal", __u8);
   ("iTerminal", __u8)].
Definition uvc_output_terminal_descriptor : cty :=
  Packed [("bLength", __u8); ("bDescriptorType", __u8); ("bDescriptorSubType", __u8);
   ("bTerminalID", __u8); ("wTerminalType", __u16); ("bAssocTerminal", __u8);
   ("bSourceID", __u8); ("iTerminal", __u8)].
Definition uvc_camera_terminal_descriptor : cty :=
  Packed [("bLength", __u8); ("bDescriptorType", __u8); ("bDescriptorSubType", __u8);
   ("bTerminalID", __u8); ("wTerminalType", __u16); ("bAssocTerminal", __u8);
   ("iTerminal", __u8); ("wObjectiveFocalLengthMin", __u16); ("wObjectiveFocalLengthMax", __u16);
   ("wOcularFocalLength", __u16); ("bControlSize", __u8); ("bmControls", Arr 3 __u8)].
Definition uvc_selector_unit_descriptor : cty :=
  Packed [("bLength", __u8); ("bDescriptorType", __u8); ("bDescriptorSubType", __u8);
   ("bUnitID", __u8); ("bNrInPins", __u8); ("baSourceID", Arr 0 __u8); ("iSelector", __u8)].
Definition uvc_processing_unit_descriptor : cty :=
  Packed [("bLength", __u8); ("bDescriptorType", __u8); ("bDescriptorSubType", __u8);
   ("bUnitID", __u8); ("bSourceID", __u8); ("wMaxMultiplier", __u16); ("bControlSize", __u8);
   ("bmControls", Arr 2 __u8); ("iProcessing", __u8)].
Definition uvc_extension_unit_descriptor : cty :=
  Packed [("bLength", __u8); ("bDescriptorType", __u8); ("bDescriptorSubType", __u8);
   ("bUnitID", __u8); ("guidExtensionCode", Arr 16 __u8); ("bNumControls", __u8);
   ("bNrInPins", __u8); ("baSourceID", Arr 0 __u8); ("bControlSize", __u8);
   ("bmControls", Arr 0 __u8); ("iExtension", __u8)].
Definition uvc_control_endpoint_descriptor : cty :=
  Packed [("bLength", __u8); ("bDescriptorType", __u8); ("bDescriptorSubType", __u8);
   ("wMaxTransferSize", __u16)].
Definition uvc_input_header_descriptor : cty :=
  Packed [("bLength", __u8); ("bDescriptorType", __u8); ("bDescriptorSubType", __u8);
   ("bNumFormats", __u8); ("wTotalLength", __u16); ("bEndpointAddress", __u8); ("bmInfo", __u8);
   ("bTerminalLink", __u8); ("bStillCaptureMethod", __u8); ("bTriggerSupport", __u8);
   ("bTriggerUsage", __u8); ("bControlSize", __u8); ("bmaControls", Arr 0 __u8)].
Definition uvc_output_header_descriptor : cty :=
  Packed [("bLength", __u8); ("bDescriptorType", __u8); ("bDescriptorSubType", __u8);
   ("bNumFormats", __u8); ("wTotalLength", __u16); ("bEndpointAddress", __u8);
   ("bTerminalLink", __u8); ("bControlSize", __u8); ("bmaControls", Arr 0 __u8)].
Definition uvc_color_matching_descriptor : cty :=
  Packed [("bLength", __u8); ("bDescriptorType", __u8); ("bDescriptorSubType", __u8);
   ("bColorPrimaries", __u8); ("bTransferCharacteristics", __u8); ("bMatrixCoefficients", __u8)].
Definition structs_uvc_streaming_control : list (string * cty) :=
  [
  ("uvc_streaming_control", Packed [("bmHint", __u16); ("bFormatIndex", __u8);
   ("bFrameIndex", __u8); ("dwFrameInterval", __u32); ("wKeyFrameRate", __u16);
   ("wPFrameRate", __u16); ("wCompQuality", __u16); ("wCompWindowSize", __u16);
   ("wDelay", __u16); ("dwMaxVideoFrameSize", __u32); ("dwMaxPayloadTransferSize", __u32);
   ("dwClockFrequency", __u32); ("bmFramingInfo", __u8); ("bPreferedVersion", __u8);
   ("bMinVersion", __u8); ("bMaxVersion", __u8)]);
  ("uvc_format_uncompressed", Packed [("bLength", __u8); ("bDescriptorType", __u8);
   ("bDescriptorSubType", __u8); ("bFormatIndex", __u8); ("bNumFrameDescriptors", __u8);
   ("guidFormat", Arr 16 __u8); ("bBitsPerPixel", __u8); ("bDefaultFrameIndex", __u8);
   ("bAspectRatioX", __u8); ("bAspectRatioY", __u8); ("bmInterfaceFlags", __u8);
   ("bCopyProtect", __u8)])].
Definition uvc_format_uncompressed : cty := type_in structs_uvc_streaming_control "uvc_format_uncompressed".
Definition uvc_frame_uncompressed : cty :=
  Packed [("bLength", __u8); ("bDescriptorType", __u8); ("bDescriptorSubType", __u8);
   ("bFrameIndex", __u8); ("bmCapabilities", __u8); ("wWidth", __u16); ("wHeight", __u16);
   ("dwMinBitRate", __u32); ("dwMaxBitRate", __u32); ("dwMaxVideoFrameBufferSize", __u32);
   ("dwDefaultFrameInterval", __u32); ("bFrameIntervalType", __u8);
   ("dwFrameInterval", Arr 0 __u32)].
Definition uvc_format_mjpeg : cty :=
  Packed [("bLength", __u8); ("bDescriptorType", __u8); ("bDescriptorSubType", __u8);
   ("bFormatIndex", __u8); ("bNumFrameDescriptors", __u8); ("bmFlags", __u8);
   ("bDefaultFrameIndex", __u8); ("bAspectRatioX", __u8); ("bAspectRatioY", __u8);
   ("bmInterfaceFlags", __u8); ("bCopyProtect", __u8)].
Definition uvc_frame_mjpeg : cty :=
  Packed [("bLength", __u8); ("bDescriptorType", __u8); ("bDescriptorSubType", __u8);
   ("bFrameIndex", __u8); ("bmCapabilities", __u8); ("wWidth", __u16); ("wHeight", __u16);
   ("dwMinBitRate", __u32); ("dwMaxBitRate", __u32); ("dwMaxVideoFrameBufferSize", __u32);
   ("dwDefaultFrameInterval", __u32); ("bFrameIntervalType", __u8);
   ("dwFrameInterval", Arr 0 __u32)].
Definition usb_video_types : list (string * cty) :=
  (structs_uvc_descriptor_header ++ [("uvc_input_terminal_descriptor",
   uvc_input_terminal_descriptor); ("uvc_output_terminal_descriptor",
   uvc_output_terminal_descriptor); ("uvc_camera_terminal_descriptor",
   uvc_camera_terminal_descriptor); ("uvc_selector_unit_descriptor",
   uvc_selector_unit_descriptor); ("uvc_processing_unit_descriptor",
   uvc_processing_unit_descriptor); ("uvc_extension_unit_descriptor",
   uvc_extension_unit_descriptor); ("uvc_control_endpoint_descriptor",
   uvc_control_endpoint_descriptor); ("uvc_input_header_descriptor",
   uvc_input_header_descriptor); ("uvc_output_header_descriptor",
   uvc_output_header_descriptor); ("uvc_color_matching_descriptor",
   uvc_color_matching_descriptor)] ++ structs_uvc_streaming_control ++
   [("uvc_frame_uncompressed", uvc_frame_uncompressed); ("uvc_format_mjpeg",
   uvc_format_mjpeg); ("uvc_frame_mjpeg", uvc_frame_mjpeg)])%list.
End Usb_video.

(** ** [linux/vm_sockets.h] *)

Module Vm_sockets.
Definition vm_sockets_ioctls : list command := [
  _IO "IOCTL_VM_SOCKETS_GET_LOCAL_CID" 0x7 185].
End Vm_sockets.

(** ** [rdma/hfi/hfi1_user.h] *)

Module Rdma_hfi_hfi1_user.
Definition structs_hfi1_user_info : list (string * cty) :=
  [
  ("hfi1_user_info", Struct [("userversion", __u32); ("pad", __u16); ("hfi1_alg", __u16);
   ("subctxt_cnt", __u16); ("subctxt_id", __u16); ("uuid", Arr 16 __u8)]);
  ("hfi1_ctxt_info", Struct [("runtime_flags", __u64); ("rcvegr_size", __u32);
   ("num_active", __u16); ("unit", __u16); ("ctxt", __u16); ("subctxt", __u16);
   ("rcvtids", __u16); ("credits", __u16); ("numa_node", __u16); ("rec_cpu", __u16);
   ("send_ctxt", __u16); ("egrtids", __u16); ("rcvhdrq_cnt", __u16); ("rcvhdrq_entsize", __u16);
   ("sdma_ring_size", __u16)]);
  ("hfi1_tid_info", Struct [("vaddr", __u64); ("tidlist", __u64); ("tidcnt", __u32);
   ("length", __u32); ("tidmap", __u64)]);
  ("hfi1_cmd", Struct [("type", __u32); ("len", __u32); ("addr", __u64)])].
Definition structs_hfi1_sdma_comp_entry : list (string * cty) :=
  [
  ("hfi1_sdma_comp_entry", Struct [("status", __u32); ("errcode", __u32)]);
  ("hfi1_status", Struct [("dev", __u64); ("port", __u64); ("freezemsg", Arr 0 char)])].
Definition hfi1_base_info : cty :=
  Struct [("hw_version", __u32); ("sw_version", __u32); ("jkey", __u16); ("padding1", __u16);
   ("bthqp", __u32); ("sc_credits_addr", __u64); ("pio_bufbase_sop", __u64);
   ("pio_bufbase", __u64); ("rcvhdr_bufbase", __u64); ("rcvegr_bufbase", __u64);
   ("sdma_comp_bufbase", __u64); ("user_regbase", __u64); ("events_bufbase", __u64);
   ("status_bufbase", __u64); ("rcvhdrtail_base", __u64); ("subctxt_uregbase", __u64);
   ("subctxt_rcvegrbuf", __u64); ("subctxt_rcvhdrbuf", __u64)].
Definition sdma_req_info : cty :=
  Packed [("ctrl", __u16); ("npkts", __u16); ("fragsize", __u16); ("comp_idx", __u16)].
Definition structs_hfi1_kdeth_header : list (string * cty) :=
  let hfi1_kdeth_header := Packed [("ver_tid_offset", __le32); ("jkey", __le16);
   ("hcrc", __le16); ("swdata", Arr 7 __le32)] in
  [
  ("hfi1_kdeth_header", hfi1_kdeth_header);
  ("hfi1_pkt_header", Packed [("pbc", Arr 4 __le16); ("lrh", Arr 4 __be16);
   ("bth", Arr 3 __be32); ("kdeth", hfi1_kdeth_header)])].
Definition rdma_hfi_hfi1_user_types : list (string * cty) :=
  (structs_hfi1_user_info ++ structs_hfi1_sdma_comp_entry ++ [("hfi1_base_info",
   hfi1_base_info); ("sdma_req_info", sdma_req_info)] ++ structs_hfi1_kdeth_header)%list.
End Rdma_hfi_hfi1_user.

(** ** [rdma/ib_user_sa.h] *)

Module Rdma_ib_user_sa.
Definition structs_ib_path_rec_data : list (string * cty) :=
  [
  ("ib_path_rec_data", Struct [("flags", __u32); ("reserved", __u32); ("path_rec", Arr 16 __u32)]);
  ("ib_user_path_rec", Struct [("dgid", Arr 16 __u8); ("sgid", Arr 16 __u8); ("dlid", __be16);
   ("slid", __be16); ("raw_traffic", __u32); ("flow_label", __be32); ("reversible", __u32);
   ("mtu", __u32); ("pkey", __be16); ("hop_limit", __u8); ("traffic_class", __u8);
   ("numb_path", __u8); ("sl", __u8); ("mtu_selector", __u8); ("rate_selector", __u8);
   ("rate", __u8); ("packet_life_time_selector", __u8); ("packet_life_time", __u8);
   ("preference", __u8)])].
Definition ib_path_rec_data : cty := type_in structs_ib_path_rec_data "ib_path_rec_data".
Definition ib_user_path_rec : cty := type_in structs_ib_path_rec_data "ib_user_path_rec".
Definition rdma_ib_user_sa_types : list (string * cty) := structs_ib_path_rec_data.
End Rdma_ib_user_sa.

(** ** [rdma/ib_user_cm.h] *)

Module Rdma_ib_user_cm.
Definition structs_ib_ucm_cmd_hdr : list (string * cty) :=
  [
  ("ib_ucm_cmd_hdr", Struct [("cmd", __u32); ("in", __u16); ("out", __u16)]);
  ("ib_ucm_create_id", Struct [("uid", __u64); ("response", __u64)]);
  ("ib_ucm_create_id_resp", Struct [("id", __u32)]);
  ("ib_ucm_destroy_id", Struct [("response", __u64); ("id", __u32); ("reserved", __u32)]);
  ("ib_ucm_destroy_id_resp", Struct [("events_reported", __u32)]);
  ("ib_ucm_attr_id", Struct [("response", __u64); ("id", __u32); ("reserved", __u32)]);
  ("ib_ucm_attr_id_resp", Struct [("service_id", __be64); ("service_mask", __be64);
   ("local_id", __be32); ("remote_id", __be32)]);
  ("ib_ucm_init_qp_attr", Struct [("response", __u64); ("id", __u32); ("qp_state", __u32)]);
  ("ib_ucm_listen", Struct [("service_id", __be64); ("service_mask", __be64); ("id", __u32);
   ("reserved", __u32)]);
  ("ib_ucm_notify", Struct [("id", __u32); ("event", __u32)]);
  ("ib_ucm_private_data", Struct [("data", __u64); ("id", __u32); ("len", __u8);
   ("reserved", Arr 3 __u8)]);
  ("ib_ucm_req", Struct [("id", __u32); ("qpn", __u32); ("qp_type", __u32); ("psn", __u32);
   ("sid", __be64); ("data", __u64); ("primary_path", __u64); ("alternate_path", __u64);
   ("len", __u8); ("peer_to_peer", __u8); ("responder_resources", __u8);
   ("initiator_depth", __u8); ("remote_cm_response_timeout", __u8); ("flow_control", __u8);
   ("local_cm_response_timeout", __u8); ("retry_count", __u8); ("rnr_retry_count", __u8);
   ("max_cm_retries", __u8); ("srq", __u8); ("reserved", Arr 5 __u8)]);
  ("ib_ucm_rep", Struct [("uid", __u64); ("data", __u64); ("id", __u32); ("qpn", __u32);
   ("psn", __u32); ("len", __u8); ("responder_resources", __u8); ("initiator_depth", __u8);
   ("target_ack_delay", __u8); ("failover_accepted", __u8); ("flow_control", __u8);
   ("rnr_retry_count", __u8); ("srq", __u8); ("reserved", Arr 4 __u8)]);
  ("ib_ucm_info", Struct [("id", __u32); ("status", __u32); ("info", __u64); ("data", __u64);
   ("info_len", __u8); ("data_len", __u8); ("reserved", Arr 6 __u8)]);
  ("ib_ucm_mra", Struct [("data", __u64); ("id", __u32); ("len", __u8); ("timeout", __u8);
   ("reserved", Arr 2 __u8)]);
  ("ib_ucm_lap", Struct [("path", __u64); ("data", __u64); ("id", __u32); ("len", __u8);
   ("reserved", Arr 3 __u8)]);
  ("ib_ucm_sidr_req", Struct [("id", __u32); ("timeout", __u32); ("sid", __be64);
   ("data", __u64); ("path", __u64); ("reserved_pkey", __u16); ("len", __u8);
   ("max_cm_retries", __u8); ("reserved", Arr 4 __u8)])].
Definition structs_ib_ucm_sidr_rep : list (string * cty) :=
  [
  ("ib_ucm_sidr_rep", Struct [("id", __u32); ("qpn", __u32); ("qkey", __u32); ("status", __u32);
   ("info", __u64); ("data", __u64); ("info_len", __u8); ("data_len", __u8);
   ("reserved", Arr 6 __u8)]);
  ("ib_ucm_event_get", Struct [("response", __u64); ("data", __u64); ("info", __u64);
   ("data_len", __u8); ("info_len", __u8); ("reserved", Arr 6 __u8)]);
  ("ib_ucm_req_event_resp", Struct [("primary_path", Rdma_ib_user_sa.ib_user_path_rec);
   ("alternate_path", Rdma_ib_user_sa.ib_user_path_rec); ("remote_ca_guid", __be64);
   ("remote_qkey", __u32); ("remote_qpn", __u32); ("qp_type", __u32); ("starting_psn", __u32);
   ("responder_resources", __u8); ("initiator_depth", __u8); ("local_cm_response_timeout", __u8);
   ("flow_control", __u8); ("remote_cm_response_timeout", __u8); ("retry_count", __u8);
   ("rnr_retry_count", __u8); ("srq", __u8); ("port", __u8); ("reserved", Arr 7 __u8)]);
  ("ib_ucm_rep_event_resp", Struct [("remote_ca_guid", __be64); ("remote_qkey", __u32);
   ("remote_qpn", __u32); ("starting_psn", __u32); ("responder_resources", __u8);
   ("initiator_depth", __u8); ("target_ack_delay", __u8); ("failover_accepted", __u8);
   ("flow_control", __u8); ("rnr_retry_count", __u8); ("srq", __u8); ("reserved", Arr 5 __u8)]);
  ("ib_ucm_rej_event_resp", Struct [("reason", __u32)]);
  ("ib_ucm_mra_event_resp", Struct [("timeout", __u8); ("reserved", Arr 3 __u8)]);
  ("ib_ucm_lap_event_resp", Struct [("path", Rdma_ib_user_sa.ib_user_path_rec)]);
  ("ib_ucm_apr_event_resp", Struct [("status", __u32)]);
  ("ib_ucm_sidr_req_event_resp", Struct [("pkey", __u16); ("port", __u8); ("reserved", __u8)]);
  ("ib_ucm_sidr_rep_event_resp", Struct [("status", __u32); ("qkey", __u32); ("qpn", __u32)])].
Definition ib_ucm_req_event_resp : cty := type_in structs_ib_ucm_sidr_rep "ib_ucm_req_event_resp".
Definition ib_ucm_rep_event_resp : cty := type_in structs_ib_ucm_sidr_rep "ib_ucm_rep_event_resp".
Definition ib_ucm_rej_event_resp : cty := type_in structs_ib_ucm_sidr_rep "ib_ucm_rej_event_resp".
Definition ib_ucm_mra_event_resp : cty := type_in structs_ib_ucm_sidr_rep "ib_ucm_mra_event_resp".
Definition ib_ucm_lap_event_resp : cty := type_in structs_ib_ucm_sidr_rep "ib_ucm_lap_event_resp".
Definition ib_ucm_apr_event_resp : cty := type_in structs_ib_ucm_sidr_rep "ib_ucm_apr_event_resp".
Definition ib_ucm_sidr_req_event_resp : cty := type_in structs_ib_ucm_sidr_rep "ib_ucm_sidr_req_event_resp".
Definition ib_ucm_sidr_rep_event_resp : cty := type_in structs_ib_ucm_sidr_rep "ib_ucm_sidr_rep_event_resp".
Definition ib_ucm_event_resp : cty :=
  Struct [("uid", __u64); ("id", __u32); ("event", __u32); ("present", __u32);
   ("reserved", __u32); ("u", Union [("req_resp", ib_ucm_req_event_resp);
   ("rep_resp", ib_ucm_rep_event_resp); ("rej_resp", ib_ucm_rej_event_resp);
   ("mra_resp", ib_ucm_mra_event_resp); ("lap_resp", ib_ucm_lap_event_resp);
   ("apr_resp", ib_ucm_apr_event_resp); ("sidr_req_resp", ib_ucm_sidr_req_event_resp);
   ("sidr_rep_resp", ib_ucm_sidr_rep_event_resp); ("send_status", __u32)])].
Definition rdma_ib_user_cm_types : list (string * cty) :=
  (structs_ib_ucm_cmd_hdr ++ structs_ib_ucm_sidr_rep ++ [("ib_ucm_event_resp",
   ib_ucm_event_resp)])%list.
End Rdma_ib_user_cm.

(** ** [rdma/ib_user_mad.h] *)

Module Rdma_ib_user_mad.
Definition structs_ib_user_mad_hdr_old : list (string * cty) :=
  let ib_user_mad_hdr := Struct [("id", __u32); ("status", __u32); ("timeout_ms", __u32);
   ("retries", __u32); ("length", __u32); ("qpn", __be32); ("qkey", __be32); ("lid", __be16);
   ("sl", __u8); ("path_bits", __u8); ("grh_present", __u8); ("gid_index", __u8);
   ("hop_limit", __u8); ("traffic_class", __u8); ("gid", Arr 16 __u8); ("flow_label", __be32);
   ("pkey_index", __u16); ("reserved", Arr 6 __u8)] in
  [
  ("ib_user_mad_hdr_old", Struct [("id", __u32); ("status", __u32); ("timeout_ms", __u32);
   ("retries", __u32); ("length", __u32); ("qpn", __be32); ("qkey", __be32); ("lid", __be16);
   ("sl", __u8); ("path_bits", __u8); ("grh_present", __u8); ("gid_index", __u8);
   ("hop_limit", __u8); ("traffic_class", __u8); ("gid", Arr 16 __u8); ("flow_label", __be32)]);
  ("ib_user_mad_hdr", ib_user_mad_hdr);
  ("ib_user_mad", Struct [("hdr", ib_user_mad_hdr); ("data", Arr 0 __u64)])].
Definition ib_user_mad_reg_req2 : cty :=
  Struct [("id", __u32); ("qpn", __u32); ("mgmt_class", __u8); ("mgmt_class_version", __u8);
   ("res", __u16); ("flags", __u32); ("method_mask", Arr 2 __u64); ("oui", __u32);
   ("rmpp_version", __u8); ("reserved", Arr 3 __u8)].
Definition rdma_ib_user_mad_types : list (string * cty) :=
  (structs_ib_user_mad_hdr_old ++ [("ib_user_mad_reg_req2", ib_user_mad_reg_req2)])%list.
(** A [long] whose alignment is lowered to 4. *)
Definition packed_ulong : cty := Aligned 4 (Packed [("", ulong)]).
Definition IB_USER_MAD_LONGS_PER_METHOD_MASK (A : abi) : Z := 128 / (8 * sizeof A long).
(** The length of the mask depends on the ABI. *)
Definition ib_user_mad_reg_req (A : abi) : cty :=
  Struct [("id", __u32); ("method_mask", Arr (IB_USER_MAD_LONGS_PER_METHOD_MASK A) packed_ulong);
   ("qpn", __u8); ("mgmt_class", __u8); ("mgmt_class_version", __u8); ("oui", Arr 3 __u8);
   ("rmpp_version", __u8)].
Definition rdma_ib_user_mad_ioctls : list command := [
  _IOWR_by "IB_USER_MAD_REGISTER_AGENT" 0x1b 1 ib_user_mad_reg_req;
  _IOW "IB_USER_MAD_UNREGISTER_AGENT" 0x1b 2 __u32;
  _IO "IB_USER_MAD_ENABLE_PKEY" 0x1b 3;
  _IOWR "IB_USER_MAD_REGISTER_AGENT2" 0x1b 4 ib_user_mad_reg_req2].
End Rdma_ib_user_mad.

(** ** [rdma/ib_user_verbs.h] *)

Module Rdma_ib_user_verbs.
Definition structs_ib_uverbs_async_event_desc : list (string * cty) :=
  [
  ("ib_uverbs_async_event_desc", Struct [("element", __u64); ("event_type", __u32);
   ("reserved", __u32)]);
  ("ib_uverbs_comp_event_desc", Struct [("cq_handle", __u64)])].
Definition structs_ib_uverbs_cmd_hdr : list (string * cty) :=
  [
  ("ib_uverbs_cmd_hdr", Struct [("command", __u32); ("in_words", __u16); ("out_words", __u16)]);
  ("ib_uverbs_ex_cmd_hdr", Struct [("response", __u64); ("provider_in_words", __u16);
   ("provider_out_words", __u16); ("cmd_hdr_reserved", __u32)]);
  ("ib_uverbs_get_context", Struct [("response", __u64); ("driver_data", Arr 0 __u64)]);
  ("ib_uverbs_get_context_resp", Struct [("async_fd", __u32); ("num_comp_vectors", __u32)]);
  ("ib_uverbs_query_device", Struct [("response", __u64); ("driver_data", Arr 0 __u64)])].
Definition ib_uverbs_query_device_resp : cty :=
  Struct [("fw_ver", __u64); ("node_guid", __be64); ("sys_image_guid", __be64);
   ("max_mr_size", __u64); ("page_size_cap", __u64); ("vendor_id", __u32);
   ("vendor_part_id", __u32); ("hw_ver", __u32); ("max_qp", __u32); ("max_qp_wr", __u32);
   ("device_cap_flags", __u32); ("max_sge", __u32); ("max_sge_rd", __u32); ("max_cq", __u32);
   ("max_cqe", __u32); ("max_mr", __u32); ("max_pd", __u32); ("max_qp_rd_atom", __u32);
   ("max_ee_rd_atom", __u32); ("max_res_rd_atom", __u32); ("max_qp_init_rd_atom", __u32);
   ("max_ee_init_rd_atom", __u32); ("atomic_cap", __u32); ("max_ee", __u32); ("max_rdd", __u32);
   ("max_mw", __u32); ("max_raw_ipv6_qp", __u32); ("max_raw_ethy_qp", __u32);
   ("max_mcast_grp", __u32); ("max_mcast_qp_attach", __u32);
   ("max_total_mcast_qp_attach", __u32); ("max_ah", __u32); ("max_fmr", __u32);
   ("max_map_per_fmr", __u32); ("max_srq", __u32); ("max_srq_wr", __u32); ("max_srq_sge", __u32);
   ("max_pkeys", __u16); ("local_ca_ack_delay", __u8); ("phys_port_cnt", __u8);
   ("reserved", Arr 4 __u8)].
Definition structs_ib_uverbs_ex_query_device : list (string * cty) :=
  let ib_uverbs_odp_caps := Struct [("general_caps", __u64);
   ("per_transport_caps", Struct [("rc_odp_caps", __u32); ("uc_odp_caps", __u32);
   ("ud_odp_caps", __u32)]); ("reserved", __u32)] in
  [
  ("ib_uverbs_ex_query_device", Struct [("comp_mask", __u32); ("reserved", __u32)]);
  ("ib_uverbs_odp_caps", ib_uverbs_odp_caps);
  ("ib_uverbs_ex_query_device_resp", Struct [("base", ib_uverbs_query_device_resp);
   ("comp_mask", __u32); ("response_length", __u32); ("odp_caps", ib_uverbs_odp_caps);
   ("timestamp_mask", __u64); ("hca_core_clock", __u64)]);
  ("ib_uverbs_query_port", Struct [("response", __u64); ("port_num", __u8);
   ("reserved", Arr 7 __u8); ("driver_data", Arr 0 __u64)]);
  ("ib_uverbs_query_port_resp", Struct [("port_cap_flags", __u32); ("max_msg_sz", __u32);
   ("bad_pkey_cntr", __u32); ("qkey_viol_cntr", __u32); ("gid_tbl_len", __u32);
   ("pkey_tbl_len", __u16); ("lid", __u16); ("sm_lid", __u16); ("state", __u8);
   ("max_mtu", __u8); ("active_mtu", __u8); ("lmc", __u8); ("max_vl_num", __u8); ("sm_sl", __u8);
   ("subnet_timeout", __u8); ("init_type_reply", __u8); ("active_width", __u8);
   ("active_speed", __u8); ("phys_state", __u8); ("link_layer", __u8); ("reserved", Arr 2 __u8)]);
  ("ib_uverbs_alloc_pd", Struct [("response", __u64); ("driver_data", Arr 0 __u64)]);
  ("ib_uverbs_alloc_pd_resp", Struct [("pd_handle", __u32)]);
  ("ib_uverbs_dealloc_pd", Struct [("pd_handle", __u32)]);
  ("ib_uverbs_open_xrcd", Struct [("response", __u64); ("fd", __u32); ("oflags", __u32);
   ("driver_data", Arr 0 __u64)]);
  ("ib_uverbs_open_xrcd_resp", Struct [("xrcd_handle", __u32)]);
  ("ib_uverbs_close_xrcd", Struct [("xrcd_handle", __u32)]);
  ("ib_uverbs_reg_mr", Struct [("response", __u64); ("start", __u64); ("length", __u64);
   ("hca_va", __u64); ("pd_handle", __u32); ("access_flags", __u32);
   ("driver_data", Arr 0 __u64)]);
  ("ib_uverbs_reg_mr_resp", Struct [("mr_handle", __u32); ("lkey", __u32); ("rkey", __u32)]);
  ("ib_uverbs_rereg_mr", Struct [("response", __u64); ("mr_handle", __u32); ("flags", __u32);
   ("start", __u64); ("length", __u64); ("hca_va", __u64); ("pd_handle", __u32);
   ("access_flags", __u32)]);
  ("ib_uverbs_rereg_mr_resp", Struct [("lkey", __u32); ("rkey", __u32)]);
  ("ib_uverbs_dereg_mr", Struct [("mr_handle", __u32)]);
  ("ib_uverbs_alloc_mw", Struct [("response", __u64); ("pd_handle", __u32); ("mw_type", __u8);
   ("reserved", Arr 3 __u8)]);
  ("ib_uverbs_alloc_mw_resp", Struct [("mw_handle", __u32); ("rkey", __u32)]);
  ("ib_uverbs_dealloc_mw", Struct [("mw_handle", __u32)]);
  ("ib_uverbs_create_comp_channel", Struct [("response", __u64)]);
  ("ib_uverbs_create_comp_channel_resp", Struct [("fd", __u32)])].
Definition structs_ib_uverbs_create_cq : list (string * cty) :=
  let ib_uverbs_create_cq_resp := Struct [("cq_handle", __u32); ("cqe", __u32)] in
  let ib_uverbs_wc := Struct [("wr_id", __u64); ("status", __u32); ("opcode", __u32);
   ("vendor_err", __u32); ("byte_len", __u32); ("ex", Union [("imm_data", __u32);
   ("invalidate_rkey", __u32)]); ("qp_num", __u32); ("src_qp", __u32); ("wc_flags", __u32);
   ("pkey_index", __u16); ("slid", __u16); ("sl", __u8); ("dlid_path_bits", __u8);
   ("port_num", __u8); ("reserved", __u8)] in
  let ib_uverbs_global_route := Struct [("dgid", Arr 16 __u8); ("flow_label", __u32);
   ("sgid_index", __u8); ("hop_limit", __u8); ("traffic_class", __u8); ("reserved", __u8)] in
  [
  ("ib_uverbs_create_cq", Struct [("response", __u64); ("user_handle", __u64); ("cqe", __u32);
   ("comp_vector", __u32); ("comp_channel", __s32); ("reserved", __u32);
   ("driver_data", Arr 0 __u64)]);
  ("ib_uverbs_ex_create_cq", Struct [("user_handle", __u64); ("cqe", __u32);
   ("comp_vector", __u32); ("comp_channel", __s32); ("comp_mask", __u32); ("flags", __u32);
   ("reserved", __u32)]);
  ("ib_uverbs_create_cq_resp", ib_uverbs_create_cq_resp);
  ("ib_uverbs_ex_create_cq_resp", Struct [("base", ib_uverbs_create_cq_resp);
   ("comp_mask", __u32); ("response_length", __u32)]);
  ("ib_uverbs_resize_cq", Struct [("response", __u64); ("cq_handle", __u32); ("cqe", __u32);
   ("driver_data", Arr 0 __u64)]);
  ("ib_uverbs_resize_cq_resp", Struct [("cqe", __u32); ("reserved", __u32);
   ("driver_data", Arr 0 __u64)]);
  ("ib_uverbs_poll_cq", Struct [("response", __u64); ("cq_handle", __u32); ("ne", __u32)]);
  ("ib_uverbs_wc", ib_uverbs_wc);
  ("ib_uverbs_poll_cq_resp", Struct [("count", __u32); ("reserved", __u32);
   ("wc", Arr 0 ib_uverbs_wc)]);
  ("ib_uverbs_req_notify_cq", Struct [("cq_handle", __u32); ("solicited_only", __u32)]);
  ("ib_uverbs_destroy_cq", Struct [("response", __u64); ("cq_handle", __u32); ("reserved", __u32)]);
  ("ib_uverbs_destroy_cq_resp", Struct [("comp_events_reported", __u32);
   ("async_events_reported", __u32)]);
  ("ib_uverbs_global_route", ib_uverbs_global_route);
  ("ib_uverbs_ah_attr", Struct [("grh", ib_uverbs_global_route); ("dlid", __u16); ("sl", __u8);
   ("src_path_bits", __u8); ("static_rate", __u8); ("is_global", __u8); ("port_num", __u8);
   ("reserved", __u8)])].
Definition ib_uverbs_ah_attr : cty := type_in structs_ib_uverbs_create_cq "ib_uverbs_ah_attr".
Definition ib_uverbs_qp_attr : cty :=
  Struct [("qp_attr_mask", __u32); ("qp_state", __u32); ("cur_qp_state", __u32);
   ("path_mtu", __u32); ("path_mig_state", __u32); ("qkey", __u32); ("rq_psn", __u32);
   ("sq_psn", __u32); ("dest_qp_num", __u32); ("qp_access_flags", __u32);
   ("ah_attr", ib_uverbs_ah_attr); ("alt_ah_attr", ib_uverbs_ah_attr); ("max_send_wr", __u32);
   ("max_recv_wr", __u32); ("max_send_sge", __u32); ("max_recv_sge", __u32);
   ("max_inline_data", __u32); ("pkey_index", __u16); ("alt_pkey_index", __u16);
   ("en_sqd_async_notify", __u8); ("sq_draining", __u8); ("max_rd_atomic", __u8);
   ("max_dest_rd_atomic", __u8); ("min_rnr_timer", __u8); ("port_num", __u8); ("timeout", __u8);
   ("retry_cnt", __u8); ("rnr_retry", __u8); ("alt_port_num", __u8); ("alt_timeout", __u8);
   ("reserved", Arr 5 __u8)].
Definition structs_ib_uverbs_create_qp : list (string * cty) :=
  let ib_uverbs_create_qp_resp := Struct [("qp_handle", __u32); ("qpn", __u32);
   ("max_send_wr", __u32); ("max_recv_wr", __u32); ("max_send_sge", __u32);
   ("max_recv_sge", __u32); ("max_inline_data", __u32); ("reserved", __u32)] in
  [
  ("ib_uverbs_create_qp", Struct [("response", __u64); ("user_handle", __u64);
   ("pd_handle", __u32); ("send_cq_handle", __u32); ("recv_cq_handle", __u32);
   ("srq_handle", __u32); ("max_send_wr", __u32); ("max_recv_wr", __u32);
   ("max_send_sge", __u32); ("max_recv_sge", __u32); ("max_inline_data", __u32);
   ("sq_sig_all", __u8); ("qp_type", __u8); ("is_srq", __u8); ("reserved", __u8);
   ("driver_data", Arr 0 __u64)]);
  ("ib_uverbs_ex_create_qp", Struct [("user_handle", __u64); ("pd_handle", __u32);
   ("send_cq_handle", __u32); ("recv_cq_handle", __u32); ("srq_handle", __u32);
   ("max_send_wr", __u32); ("max_recv_wr", __u32); ("max_send_sge", __u32);
   ("max_recv_sge", __u32); ("max_inline_data", __u32); ("sq_sig_all", __u8); ("qp_type", __u8);
   ("is_srq", __u8); ("reserved", __u8); ("comp_mask", __u32); ("create_flags", __u32)]);
  ("ib_uverbs_open_qp", Struct [("response", __u64); ("user_handle", __u64);
   ("pd_handle", __u32); ("qpn", __u32); ("qp_type", __u8); ("reserved", Arr 7 __u8);
   ("driver_data", Arr 0 __u64)]);
  ("ib_uverbs_create_qp_resp", ib_uverbs_create_qp_resp);
  ("ib_uverbs_ex_create_qp_resp", Struct [("base", ib_uverbs_create_qp_resp);
   ("comp_mask", __u32); ("response_length", __u32)]);
  ("ib_uverbs_qp_dest", Struct [("dgid", Arr 16 __u8); ("flow_label", __u32); ("dlid", __u16);
   ("reserved", __u16); ("sgid_index", __u8); ("hop_limit", __u8); ("traffic_class", __u8);
   ("sl", __u8); ("src_path_bits", __u8); ("static_rate", __u8); ("is_global", __u8);
   ("port_num", __u8)]);
  ("ib_uverbs_query_qp", Struct [("response", __u64); ("qp_handle", __u32); ("attr_mask", __u32);
   ("driver_data", Arr 0 __u64)])].
Definition ib_uverbs_qp_dest : cty := type_in structs_ib_uverbs_create_qp "ib_uverbs_qp_dest".
Definition ib_uverbs_query_qp_resp : cty :=
  Struct [("dest", ib_uverbs_qp_dest); ("alt_dest", ib_uverbs_qp_dest); ("max_send_wr", __u32);
   ("max_recv_wr", __u32); ("max_send_sge", __u32); ("max_recv_sge", __u32);
   ("max_inline_data", __u32); ("qkey", __u32); ("rq_psn", __u32); ("sq_psn", __u32);
   ("dest_qp_num", __u32); ("qp_access_flags", __u32); ("pkey_index", __u16);
   ("alt_pkey_index", __u16); ("qp_state", __u8); ("cur_qp_state", __u8); ("path_mtu", __u8);
   ("path_mig_state", __u8); ("sq_draining", __u8); ("max_rd_atomic", __u8);
   ("max_dest_rd_atomic", __u8); ("min_rnr_timer", __u8); ("port_num", __u8); ("timeout", __u8);
   ("retry_cnt", __u8); ("rnr_retry", __u8); ("alt_port_num", __u8); ("alt_timeout", __u8);
   ("sq_sig_all", __u8); ("reserved", Arr 5 __u8); ("driver_data", Arr 0 __u64)].
Definition ib_uverbs_modify_qp : cty :=
  Struct [("dest", ib_uverbs_qp_dest); ("alt_dest", ib_uverbs_qp_dest); ("qp_handle", __u32);
   ("attr_mask", __u32); ("qkey", __u32); ("rq_psn", __u32); ("sq_psn", __u32);
   ("dest_qp_num", __u32); ("qp_access_flags", __u32); ("pkey_index", __u16);
   ("alt_pkey_index", __u16); ("qp_state", __u8); ("cur_qp_state", __u8); ("path_mtu", __u8);
   ("path_mig_state", __u8); ("en_sqd_async_notify", __u8); ("max_rd_atomic", __u8);
   ("max_dest_rd_atomic", __u8); ("min_rnr_timer", __u8); ("port_num", __u8); ("timeout", __u8);
   ("retry_cnt", __u8); ("rnr_retry", __u8); ("alt_port_num", __u8); ("alt_timeout", __u8);
   ("reserved", Arr 2 __u8); ("driver_data", Arr 0 __u64)].
Definition structs_ib_uverbs_modify_qp_resp : list (string * cty) :=
  [
  ("ib_uverbs_modify_qp_resp", Struct []);
  ("ib_uverbs_destroy_qp", Struct [("response", __u64); ("qp_handle", __u32); ("reserved", __u32)]);
  ("ib_uverbs_destroy_qp_resp", Struct [("events_reported", __u32)]);
  ("ib_uverbs_sge", Struct [("addr", __u64); ("length", __u32); ("lkey", __u32)])].
Definition ib_uverbs_send_wr : cty :=
  Struct [("wr_id", __u64); ("num_sge", __u32); ("opcode", __u32); ("send_flags", __u32);
   ("ex", Union [("imm_data", __u32); ("invalidate_rkey", __u32)]);
   ("wr", Union [("rdma", Struct [("remote_addr", __u64); ("rkey", __u32); ("reserved", __u32)]);
   ("atomic", Struct [("remote_addr", __u64); ("compare_add", __u64); ("swap", __u64);
   ("rkey", __u32); ("reserved", __u32)]); ("ud", Struct [("ah", __u32); ("remote_qpn", __u32);
   ("remote_qkey", __u32); ("reserved", __u32)])])].
Definition structs_ib_uverbs_post_send : list (string * cty) :=
  let ib_uverbs_recv_wr := Struct [("wr_id", __u64); ("num_sge", __u32); ("reserved", __u32)] in
  let ib_uverbs_flow_spec_hdr := Struct [("type", __u32); ("size", __u16); ("reserved", __u16);
   ("flow_spec_data", Arr 0 __u64)] in
  let ib_uverbs_flow_eth_filter := Struct [("dst_mac", Arr 6 __u8); ("src_mac", Arr 6 __u8);
   ("ether_type", __be16); ("vlan_tag", __be16)] in
  let ib_uverbs_flow_ipv4_filter := Struct [("src_ip", __be32); ("dst_ip", __be32)] in
  let ib_uverbs_flow_tcp_udp_filter := Struct [("dst_port", __be16); ("src_port", __be16)] in
  [
  ("ib_uverbs_post_send", Struct [("response", __u64); ("qp_handle", __u32); ("wr_count", __u32);
   ("sge_count", __u32); ("wqe_size", __u32); ("send_wr", Arr 0 ib_uverbs_send_wr)]);
  ("ib_uverbs_post_send_resp", Struct [("bad_wr", __u32)]);
  ("ib_uverbs_recv_wr", ib_uverbs_recv_wr);
  ("ib_uverbs_post_recv", Struct [("response", __u64); ("qp_handle", __u32); ("wr_count", __u32);
   ("sge_count", __u32); ("wqe_size", __u32); ("recv_wr", Arr 0 ib_uverbs_recv_wr)]);
  ("ib_uverbs_post_recv_resp", Struct [("bad_wr", __u32)]);
  ("ib_uverbs_post_srq_recv", Struct [("response", __u64); ("srq_handle", __u32);
   ("wr_count", __u32); ("sge_count", __u32); ("wqe_size", __u32);
   ("recv", Arr 0 ib_uverbs_recv_wr)]);
  ("ib_uverbs_post_srq_recv_resp", Struct [("bad_wr", __u32)]);
  ("ib_uverbs_create_ah", Struct [("response", __u64); ("user_handle", __u64);
   ("pd_handle", __u32); ("reserved", __u32); ("attr", ib_uverbs_ah_attr)]);
  ("ib_uverbs_create_ah_resp", Struct [("ah_handle", __u32)]);
  ("ib_uverbs_destroy_ah", Struct [("ah_handle", __u32)]);
  ("ib_uverbs_attach_mcast", Struct [("gid", Arr 16 __u8); ("qp_handle", __u32); ("mlid", __u16);
   ("reserved", __u16); ("driver_data", Arr 0 __u64)]);
  ("ib_uverbs_detach_mcast", Struct [("gid", Arr 16 __u8); ("qp_handle", __u32); ("mlid", __u16);
   ("reserved", __u16); ("driver_data", Arr 0 __u64)]);
  ("ib_uverbs_flow_spec_hdr", ib_uverbs_flow_spec_hdr);
  ("ib_uverbs_flow_eth_filter", ib_uverbs_flow_eth_filter);
  ("ib_uverbs_flow_spec_eth", Struct [("", Union [("hdr", ib_uverbs_flow_spec_hdr);
   ("", Struct [("type", __u32); ("size", __u16); ("reserved", __u16)])]);
   ("val", ib_uverbs_flow_eth_filter); ("mask", ib_uverbs_flow_eth_filter)]);
  ("ib_uverbs_flow_ipv4_filter", ib_uverbs_flow_ipv4_filter);
  ("ib_uverbs_flow_spec_ipv4", Struct [("", Union [("hdr", ib_uverbs_flow_spec_hdr);
   ("", Struct [("type", __u32); ("size", __u16); ("reserved", __u16)])]);
   ("val", ib_uverbs_flow_ipv4_filter); ("mask", ib_uverbs_flow_ipv4_filter)]);
  ("ib_uverbs_flow_tcp_udp_filter", ib_uverbs_flow_tcp_udp_filter);
  ("ib_uverbs_flow_spec_tcp_udp", Struct [("", Union [("hdr", ib_uverbs_flow_spec_hdr);
   ("", Struct [("type", __u32); ("size", __u16); ("reserved", __u16)])]);
   ("val", ib_uverbs_flow_tcp_udp_filter); ("mask", ib_uverbs_flow_tcp_udp_filter)])].
Definition ib_uverbs_flow_spec_hdr : cty := type_in structs_ib_uverbs_post_send "ib_uverbs_flow_spec_hdr".
Definition structs_ib_uverbs_flow_attr : list (string * cty) :=
  let ib_uverbs_flow_attr := Struct [("type", __u32); ("size", __u16); ("priority", __u16);
   ("num_of_specs", __u8); ("reserved", Arr 2 __u8); ("port", __u8); ("flags", __u32);
   ("flow_specs", Arr 0 ib_uverbs_flow_spec_hdr)] in
  [
  ("ib_uverbs_flow_attr", ib_uverbs_flow_attr);
  ("ib_uverbs_create_flow", Struct [("comp_mask", __u32); ("qp_handle", __u32);
   ("flow_attr", ib_uverbs_flow_attr)]);
  ("ib_uverbs_create_flow_resp", Struct [("comp_mask", __u32); ("flow_handle", __u32)]);
  ("ib_uverbs_destroy_flow", Struct [("comp_mask", __u32); ("flow_handle", __u32)]);
  ("ib_uverbs_create_srq", Struct [("response", __u64); ("user_handle", __u64);
   ("pd_handle", __u32); ("max_wr", __u32); ("max_sge", __u32); ("srq_limit", __u32);
   ("driver_data", Arr 0 __u64)]);
  ("ib_uverbs_create_xsrq", Struct [("response", __u64); ("user_handle", __u64);
   ("srq_type", __u32); ("pd_handle", __u32); ("max_wr", __u32); ("max_sge", __u32);
   ("srq_limit", __u32); ("reserved", __u32); ("xrcd_handle", __u32); ("cq_handle", __u32);
   ("driver_data", Arr 0 __u64)]);
  ("ib_uverbs_create_srq_resp", Struct [("srq_handle", __u32); ("max_wr", __u32);
   ("max_sge", __u32); ("srqn", __u32)]);
  ("ib_uverbs_modify_srq", Struct [("srq_handle", __u32); ("attr_mask", __u32);
   ("max_wr", __u32); ("srq_limit", __u32); ("driver_data", Arr 0 __u64)]);
  ("ib_uverbs_query_srq", Struct [("response", __u64); ("srq_handle", __u32);
   ("reserved", __u32); ("driver_data", Arr 0 __u64)]);
  ("ib_uverbs_query_srq_resp", Struct [("max_wr", __u32); ("max_sge", __u32);
   ("srq_limit", __u32); ("reserved", __u32)]);
  ("ib_uverbs_destroy_srq", Struct [("response", __u64); ("srq_handle", __u32);
   ("reserved", __u32)]);
  ("ib_uverbs_destroy_srq_resp", Struct [("events_reported", __u32)])].
Definition rdma_ib_user_verbs_types : list (string * cty) :=
  (structs_ib_uverbs_async_event_desc ++ structs_ib_uverbs_cmd_hdr ++
   [("ib_uverbs_query_device_resp", ib_uverbs_query_device_resp)] ++
   structs_ib_uverbs_ex_query_device ++ structs_ib_uverbs_create_cq ++ [("ib_uverbs_qp_attr",
   ib_uverbs_qp_attr)] ++ structs_ib_uverbs_create_qp ++ [("ib_uverbs_query_qp_resp",
   ib_uverbs_query_qp_resp); ("ib_uverbs_modify_qp", ib_uverbs_modify_qp)] ++
   structs_ib_uverbs_modify_qp_resp ++ [("ib_uverbs_send_wr", ib_uverbs_send_wr)] ++
   structs_ib_uverbs_post_send ++ structs_ib_uverbs_flow_attr)%list.
End Rdma_ib_user_verbs.

(** ** [rdma/rdma_netlink.h] *)

Module Rdma_rdma_netlink.
Definition LS_DEVICE_NAME_MAX : Z := 64.
Definition rdma_cm_id_stats : cty :=
  Struct [("qp_num", __u32); ("bound_dev_if", __u32); ("port_space", __u32); ("pid", __s32);
   ("cm_state", __u8); ("node_type", __u8); ("port_num", __u8); ("qp_type", __u8)].
Definition rdma_ls_resolve_header : cty :=
  Struct [("device_name", Arr LS_DEVICE_NAME_MAX __u8); ("port_num", __u8); ("path_use", __u8)].
Definition rdma_nla_ls_gid : cty := Struct [("gid", Arr 16 __u8)].
Definition rdma_rdma_netlink_types : list (string * cty) :=
  ([("rdma_cm_id_stats", rdma_cm_id_stats); ("rdma_ls_resolve_header",
   rdma_ls_resolve_header); ("rdma_nla_ls_gid", rdma_nla_ls_gid)])%list.
End Rdma_rdma_netlink.

(** ** [rdma/rdma_user_cm.h] *)

Module Rdma_rdma_user_cm.
Definition RDMA_MAX_PRIVATE_DATA : Z := 256.
Definition structs_rdma_ucm_cmd_hdr : list (string * cty) :=
  [
  ("rdma_ucm_cmd_hdr", Struct [("cmd", __u32); ("in", __u16); ("out", __u16)]);
  ("rdma_ucm_create_id", Struct [("uid", __u64); ("response", __u64); ("ps", __u16);
   ("qp_type", __u8); ("reserved", Arr 5 __u8)]);
  ("rdma_ucm_create_id_resp", Struct [("id", __u32)]);
  ("rdma_ucm_destroy_id", Struct [("response", __u64); ("id", __u32); ("reserved", __u32)]);
  ("rdma_ucm_destroy_id_resp", Struct [("events_reported", __u32)]);
  ("rdma_ucm_bind_ip", Struct [("response", __u64); ("addr", In6.sockaddr_in6); ("id", __u32)])].
Definition rdma_ucm_resolve_ip : cty :=
  Struct [("src_addr", In6.sockaddr_in6); ("dst_addr", In6.sockaddr_in6); ("id", __u32);
   ("timeout_ms", __u32)].
Definition rdma_ucm_resolve_route : cty := Struct [("id", __u32); ("timeout_ms", __u32)].
Definition structs_rdma_ucm_query : list (string * cty) :=
  [
  ("rdma_ucm_query", Struct [("response", __u64); ("id", __u32); ("option", __u32)]);
  ("rdma_ucm_query_route_resp", Struct [("node_guid", __u64);
   ("ib_route", Arr 2 Rdma_ib_user_sa.ib_user_path_rec); ("src_addr", In6.sockaddr_in6);
   ("dst_addr", In6.sockaddr_in6); ("num_paths", __u32); ("port_num", __u8);
   ("reserved", Arr 3 __u8)])].
Definition structs_rdma_ucm_query_path_resp : list (string * cty) :=
  let rdma_ucm_conn_param := Struct [("qp_num", __u32); ("qkey", __u32);
   ("private_data", Arr RDMA_MAX_PRIVATE_DATA __u8); ("private_data_len", __u8); ("srq", __u8);
   ("responder_resources", __u8); ("initiator_depth", __u8); ("flow_control", __u8);
   ("retry_count", __u8); ("rnr_retry_count", __u8); ("valid", __u8)] in
  [
  ("rdma_ucm_query_path_resp", Struct [("num_paths", __u32); ("reserved", __u32);
   ("path_data", Arr 0 Rdma_ib_user_sa.ib_path_rec_data)]);
  ("rdma_ucm_conn_param", rdma_ucm_conn_param);
  ("rdma_ucm_ud_param", Struct [("qp_num", __u32); ("qkey", __u32);
   ("ah_attr", Rdma_ib_user_verbs.ib_uverbs_ah_attr);
   ("private_data", Arr RDMA_MAX_PRIVATE_DATA __u8); ("private_data_len", __u8);
   ("reserved", Arr 7 __u8)]);
  ("rdma_ucm_connect", Struct [("conn_param", rdma_ucm_conn_param); ("id", __u32);
   ("reserved", __u32)]);
  ("rdma_ucm_listen", Struct [("id", __u32); ("backlog", __u32)]);
  ("rdma_ucm_accept", Struct [("uid", __u64); ("conn_param", rdma_ucm_conn_param); ("id", __u32);
   ("reserved", __u32)]);
  ("rdma_ucm_reject", Struct [("id", __u32); ("private_data_len", __u8);
   ("reserved", Arr 3 __u8); ("private_data", Arr RDMA_MAX_PRIVATE_DATA __u8)]);
  ("rdma_ucm_disconnect", Struct [("id", __u32)]);
  ("rdma_ucm_init_qp_attr", Struct [("response", __u64); ("id", __u32); ("qp_state", __u32)]);
  ("rdma_ucm_notify", Struct [("id", __u32); ("event", __u32)]);
  ("rdma_ucm_join_ip_mcast", Struct [("response", __u64); ("uid", __u64);
   ("addr", In6.sockaddr_in6); ("id", __u32)])].
Definition rdma_ucm_conn_param : cty := type_in structs_rdma_ucm_query_path_resp "rdma_ucm_conn_param".
Definition rdma_ucm_ud_param : cty := type_in structs_rdma_ucm_query_path_resp "rdma_ucm_ud_param".
Definition structs_rdma_ucm_get_event : list (string * cty) :=
  [
  ("rdma_ucm_get_event", Struct [("response", __u64)]);
  ("rdma_ucm_event_resp", Struct [("uid", __u64); ("id", __u32); ("event", __u32);
   ("status", __u32); ("param", Union [("conn", rdma_ucm_conn_param);
   ("ud", rdma_ucm_ud_param)])])].
Definition structs_rdma_ucm_set_option : list (string * cty) :=
  [
  ("rdma_ucm_set_option", Struct [("optval", __u64); ("id", __u32); ("level", __u32);
   ("optname", __u32); ("optlen", __u32)]);
  ("rdma_ucm_migrate_id", Struct [("response", __u64); ("id", __u32); ("fd", __u32)]);
  ("rdma_ucm_migrate_resp", Struct [("events_reported", __u32)])].
Definition rdma_rdma_user_cm_types : list (string * cty) :=
  (structs_rdma_ucm_cmd_hdr ++ [("rdma_ucm_resolve_ip", rdma_ucm_resolve_ip);
   ("rdma_ucm_resolve_route", rdma_ucm_resolve_route)] ++ structs_rdma_ucm_query ++
   structs_rdma_ucm_query_path_resp ++ structs_rdma_ucm_get_event ++
   structs_rdma_ucm_set_option)%list.
End Rdma_rdma_user_cm.
