(* ===== verification/AbiKernel.v ===== *)
(** * ABI of the kernel, executables and virtual machines

    The structures and unions of these headers of [kernel-headers], one module per
    header: the larger ones as types of their own, those that stand in a row as a
    block; and the ioctl commands with their arguments. *)
From S2P Require Import Prelude.
From S2P Require Import CLayout.
From S2P Require Import Ioctl.
From S2P Require Import AbiBase.
#[local] Open Scope string_scope.

(** ** [asm-generic/fcntl.h] *)

Module Asm_generic_fcntl.
Definition f_owner_ex : cty := Struct [("type", int); ("pid", __kernel_pid_t)].
Definition asm_generic_fcntl_types : list (string * cty) := [("f_owner_ex", f_owner_ex)].
End Asm_generic_fcntl.

(** ** [asm-generic/ioctls.h] *)

Module Asm_generic_ioctls.
Definition asm_generic_ioctls_ioctls : list command := [
  _IOR "TCGETS2" (chr "T") 42 Asm_generic_termbits.termios2;
  _IOW "TCSETS2" (chr "T") 43 Asm_generic_termbits.termios2;
  _IOW "TCSETSW2" (chr "T") 44 Asm_generic_termbits.termios2;
  _IOW "TCSETSF2" (chr "T") 45 Asm_generic_termbits.termios2;
  _IOR "TIOCGPTN" (chr "T") 48 uint;
  _IOW "TIOCSPTLCK" (chr "T") 49 int;
  _IOR "TIOCGDEV" (chr "T") 50 uint;
  _IOW "TIOCSIG" (chr "T") 54 int;
  _IOR "TIOCGPKT" (chr "T") 56 int;
  _IOR "TIOCGPTLCK" (chr "T") 57 int;
  _IOR "TIOCGEXCL" (chr "T") 64 int].
End Asm_generic_ioctls.

(** ** [asm-generic/ipcbuf.h] *)

Module Asm_generic_ipcbuf.
Definition ipc64_perm : cty :=
  Struct [("key", __kernel_key_t); ("uid", __kernel_uid32_t); ("gid", __kernel_gid32_t);
   ("cuid", __kernel_uid32_t); ("cgid", __kernel_gid32_t); ("mode", __kernel_mode_t);
   ("__pad1", Arr (4 - sizeof lp64 __kernel_mode_t) uchar); ("seq", ushort); ("__pad2", ushort);
   ("__unused1", __kernel_ulong_t); ("__unused2", __kernel_ulong_t)].
Definition asm_generic_ipcbuf_types : list (string * cty) := [("ipc64_perm", ipc64_perm)].
End Asm_generic_ipcbuf.

(** ** [asm-generic/poll.h] *)

Module Asm_generic_poll.
Definition pollfd : cty := Struct [("fd", int); ("events", short); ("revents", short)].
Definition asm_generic_poll_types : list (string * cty) := [("pollfd", pollfd)].
End Asm_generic_poll.

(** ** [asm-generic/siginfo.h] *)

Module Asm_generic_siginfo.
Definition sigval : cty := Union [("sival_int", int); ("sival_ptr", ptr)].
Definition sigval_t : cty := sigval.
Definition asm_generic_siginfo_types : list (string * cty) :=
  ([("sigval", sigval); ("sigval_t", sigval_t)])%list.
End Asm_generic_siginfo.

(** ** [asm-generic/stat.h] *)

Module Asm_generic_stat.
Definition stat : cty :=
  Struct [("st_dev", ulong); ("st_ino", ulong); ("st_mode", uint); ("st_nlink", uint);
   ("st_uid", uint); ("st_gid", uint); ("st_rdev", ulong); ("__pad1", ulong); ("st_size", long);
   ("st_blksize", int); ("__pad2", int); ("st_blocks", long); ("st_atime", long);
   ("st_atime_nsec", ulong); ("st_mtime", long); ("st_mtime_nsec", ulong); ("st_ctime", long);
   ("st_ctime_nsec", ulong); ("__unused4", uint); ("__unused5", uint)].
Definition asm_generic_stat_types : list (string * cty) := [("stat", stat)].
End Asm_generic_stat.

(** ** [asm-generic/statfs.h] *)

Module Asm_generic_statfs.
Definition compat_statfs64 : cty :=
  Struct [("f_type", __u32); ("f_bsize", __u32); ("f_blocks", __u64); ("f_bfree", __u64);
   ("f_bavail", __u64); ("f_files", __u64); ("f_ffree", __u64);
   ("f_fsid", Asm_generic_posix_types.__kernel_fsid_t); ("f_namelen", __u32);
   ("f_frsize", __u32); ("f_flags", __u32); ("f_spare", Arr 4 __u32)].
Definition asm_generic_statfs_types : list (string * cty) := [("compat_statfs64", compat_statfs64)].
End Asm_generic_statfs.

(** ** [asm-generic/termios.h] *)

Module Asm_generic_termios.
Definition NCC : Z := 8.
Definition winsize : cty :=
  Struct [("ws_row", ushort); ("ws_col", ushort); ("ws_xpixel", ushort); ("ws_ypixel", ushort)].
Definition termio : cty :=
  Struct [("c_iflag", ushort); ("c_oflag", ushort); ("c_cflag", ushort); ("c_lflag", ushort);
   ("c_line", uchar); ("c_cc", Arr NCC uchar)].
Definition asm_generic_termios_types : list (string * cty) :=
  ([("winsize", winsize); ("termio", termio)])%list.
End Asm_generic_termios.

(** ** [asm/ptrace.h] *)

Module Asm_ptrace.
Definition user_pt_regs : cty :=
  Struct [("regs", Arr 31 __u64); ("sp", __u64); ("pc", __u64); ("pstate", __u64)].
Definition user_hwdebug_state : cty :=
  Struct [("dbg_info", __u32); ("pad", __u32); ("dbg_regs", Arr 16 (Struct [("addr", __u64);
   ("ctrl", __u32); ("pad", __u32)]))].
Definition asm_ptrace_types : list (string * cty) :=
  ([("user_pt_regs", user_pt_regs); ("user_hwdebug_state", user_hwdebug_state)])%list.
End Asm_ptrace.

(** ** [asm/sigcontext.h] *)

Module Asm_sigcontext.
Definition sigcontext : cty :=
  Struct [("trap_no", ulong); ("error_code", ulong); ("oldmask", ulong); ("arm_r0", ulong);
   ("arm_r1", ulong); ("arm_r2", ulong); ("arm_r3", ulong); ("arm_r4", ulong); ("arm_r5", ulong);
   ("arm_r6", ulong); ("arm_r7", ulong); ("arm_r8", ulong); ("arm_r9", ulong);
   ("arm_r10", ulong); ("arm_fp", ulong); ("arm_ip", ulong); ("arm_sp", ulong);
   ("arm_lr", ulong); ("arm_pc", ulong); ("arm_cpsr", ulong); ("fault_address", ulong)].
Definition asm_sigcontext_types : list (string * cty) := [("sigcontext", sigcontext)].
End Asm_sigcontext.

(** ** [linux/acct.h] *)

Module Acct.
Definition ACCT_COMM : Z := 16.
Definition structs_comp_t : list (string * cty) :=
  [
  ("comp_t", __u16);
  ("comp2_t", __u32)].
Definition comp_t : cty := type_in structs_comp_t "comp_t".
Definition acct : cty :=
  Struct [("ac_flag", char); ("ac_version", char); ("ac_uid16", __u16); ("ac_gid16", __u16);
   ("ac_tty", __u16); ("ac_btime", __u32); ("ac_utime", comp_t); ("ac_stime", comp_t);
   ("ac_etime", comp_t); ("ac_mem", comp_t); ("ac_io", comp_t); ("ac_rw", comp_t);
   ("ac_minflt", comp_t); ("ac_majflt", comp_t); ("ac_swaps", comp_t); ("ac_ahz", __u16);
   ("ac_exitcode", __u32); ("ac_comm", Arr 17 char); ("ac_etime_hi", __u8);
   ("ac_etime_lo", __u16); ("ac_uid", __u32); ("ac_gid", __u32)].
Definition acct_v3 : cty :=
  Struct [("ac_flag", char); ("ac_version", char); ("ac_tty", __u16); ("ac_exitcode", __u32);
   ("ac_uid", __u32); ("ac_gid", __u32); ("ac_pid", __u32); ("ac_ppid", __u32);
   ("ac_btime", __u32); ("ac_etime", c_float); ("ac_utime", comp_t); ("ac_stime", comp_t);
   ("ac_mem", comp_t); ("ac_io", comp_t); ("ac_rw", comp_t); ("ac_minflt", comp_t);
   ("ac_majflt", comp_t); ("ac_swaps", comp_t); ("ac_comm", Arr ACCT_COMM char)].
Definition acct_types : list (string * cty) :=
  (structs_comp_t ++ [("acct", acct); ("acct_v3", acct_v3)])%list.
End Acct.

(** ** [linux/aio_abi.h] *)

Module Aio_abi.
Definition aio_context_t : cty := __kernel_ulong_t.
Definition io_event : cty :=
  Struct [("data", __u64); ("obj", __u64); ("res", __s64); ("res2", __s64)].
Definition aio_abi_types : list (string * cty) :=
  ([("aio_context_t", aio_context_t); ("io_event", io_event)])%list.
End Aio_abi.

(** ** [linux/audit.h] *)

Module Audit.
Definition AUDIT_MAX_FIELDS : Z := 64.
Definition AUDIT_BITMASK_SIZE : Z := 64.
Definition structs_audit_status : list (string * cty) :=
  [
  ("audit_status", Struct [("mask", __u32); ("enabled", __u32); ("failure", __u32);
   ("pid", __u32); ("rate_limit", __u32); ("backlog_limit", __u32); ("lost", __u32);
   ("backlog", __u32); ("", Union [("version", __u32); ("feature_bitmap", __u32)]);
   ("backlog_wait_time", __u32)]);
  ("audit_features", Struct [("vers", __u32); ("mask", __u32); ("features", __u32);
   ("lock", __u32)])].
Definition audit_tty_status : cty := Struct [("enabled", __u32); ("log_passwd", __u32)].
Definition audit_rule_data : cty :=
  Struct [("flags", __u32); ("action", __u32); ("field_count", __u32);
   ("mask", Arr AUDIT_BITMASK_SIZE __u32); ("fields", Arr AUDIT_MAX_FIELDS __u32);
   ("values", Arr AUDIT_MAX_FIELDS __u32); ("fieldflags", Arr AUDIT_MAX_FIELDS __u32);
   ("buflen", __u32); ("buf", Arr 0 char)].
Definition audit_types : list (string * cty) :=
  (structs_audit_status ++ [("audit_tty_status", audit_tty_status); ("audit_rule_data",
   audit_rule_data)])%list.
End Audit.

(** ** [linux/bpf.h] *)

Module Bpf.
Definition bpf_attr : cty :=
  Aligned 8 (Union [("", Struct [("map_type", __u32); ("key_size", __u32); ("value_size", __u32);
   ("max_entries", __u32)]); ("", Struct [("map_fd", __u32); ("key", __aligned_u64);
   ("", Union [("value", __aligned_u64); ("next_key", __aligned_u64)]); ("flags", __u64)]);
   ("", Struct [("prog_type", __u32); ("insn_cnt", __u32); ("insns", __aligned_u64);
   ("license", __aligned_u64); ("log_level", __u32); ("log_size", __u32);
   ("log_buf", __aligned_u64); ("kern_version", __u32)]);
   ("", Struct [("pathname", __aligned_u64); ("bpf_fd", __u32)])]).
Definition structs___sk_buff : list (string * cty) :=
  [
  ("__sk_buff", Struct [("len", __u32); ("pkt_type", __u32); ("mark", __u32);
   ("queue_mapping", __u32); ("protocol", __u32); ("vlan_present", __u32); ("vlan_tci", __u32);
   ("vlan_proto", __u32); ("priority", __u32); ("ingress_ifindex", __u32); ("ifindex", __u32);
   ("tc_index", __u32); ("cb", Arr 5 __u32); ("hash", __u32); ("tc_classid", __u32)]);
  ("bpf_tunnel_key", Struct [("tunnel_id", __u32); ("remote_ipv4", __u32)])].
Definition bpf_types : list (string * cty) :=
  ([("bpf_attr", bpf_attr)] ++ structs___sk_buff)%list.
End Bpf.

(** ** [linux/bsg.h] *)

Module Bsg.
Definition sg_io_v4 : cty :=
  Struct [("guard", __s32); ("protocol", __u32); ("subprotocol", __u32); ("request_len", __u32);
   ("request", __u64); ("request_tag", __u64); ("request_attr", __u32);
   ("request_priority", __u32); ("request_extra", __u32); ("max_response_len", __u32);
   ("response", __u64); ("dout_iovec_count", __u32); ("dout_xfer_len", __u32);
   ("din_iovec_count", __u32); ("din_xfer_len", __u32); ("dout_xferp", __u64);
   ("din_xferp", __u64); ("timeout", __u32); ("flags", __u32); ("usr_ptr", __u64);
   ("spare_in", __u32); ("driver_status", __u32); ("transport_status", __u32);
   ("device_status", __u32); ("retry_delay", __u32); ("info", __u32); ("duration", __u32);
   ("response_len", __u32); ("din_resid", __s32); ("dout_resid", __s32);
   ("generated_tag", __u64); ("spare_out", __u32); ("padding", __u32)].
Definition bsg_types : list (string * cty) := [("sg_io_v4", sg_io_v4)].
End Bsg.

(** ** [linux/capability.h] *)

Module Capability.
Definition VFS_CAP_U32 : Z := 2.
Definition __user_cap_header_struct : cty := Struct [("version", __u32); ("pid", int)].
Definition structs_cap_user_header_t : list (string * cty) :=
  [
  ("cap_user_header_t", ptr);
  ("__user_cap_data_struct", Struct [("effective", __u32); ("permitted", __u32);
   ("inheritable", __u32)])].
Definition cap_user_data_t : cty := ptr.
Definition vfs_cap_data : cty :=
  Struct [("magic_etc", __le32); ("data", Arr VFS_CAP_U32 (Struct [("permitted", __le32);
   ("inheritable", __le32)]))].
Definition capability_types : list (string * cty) :=
  ([("__user_cap_header_struct", __user_cap_header_struct)] ++ structs_cap_user_header_t ++
   [("cap_user_data_t", cap_user_data_t); ("vfs_cap_data", vfs_cap_data)])%list.
End Capability.

(** ** [linux/cgroupstats.h] *)

Module Cgroupstats.
Definition cgroupstats : cty :=
  Struct [("nr_sleeping", __u64); ("nr_running", __u64); ("nr_stopped", __u64);
   ("nr_uninterruptible", __u64); ("nr_io_wait", __u64)].
Definition cgroupstats_types : list (string * cty) := [("cgroupstats", cgroupstats)].
End Cgroupstats.

(** ** [linux/cn_proc.h] *)

Module Cn_proc.
Definition structs_fork_proc_event : list (string * cty) :=
  [
  ("fork_proc_event", Struct [("parent_pid", __kernel_pid_t); ("parent_tgid", __kernel_pid_t);
   ("child_pid", __kernel_pid_t); ("child_tgid", __kernel_pid_t)]);
  ("exec_proc_event", Struct [("process_pid", __kernel_pid_t); ("process_tgid", __kernel_pid_t)]);
  ("id_proc_event", Struct [("process_pid", __kernel_pid_t); ("process_tgid", __kernel_pid_t);
   ("r", Union [("ruid", __u32); ("rgid", __u32)]); ("e", Union [("euid", __u32);
   ("egid", __u32)])]);
  ("sid_proc_event", Struct [("process_pid", __kernel_pid_t); ("process_tgid", __kernel_pid_t)]);
  ("ptrace_proc_event", Struct [("process_pid", __kernel_pid_t);
   ("process_tgid", __kernel_pid_t); ("tracer_pid", __kernel_pid_t);
   ("tracer_tgid", __kernel_pid_t)]);
  ("comm_proc_event", Struct [("process_pid", __kernel_pid_t); ("process_tgid", __kernel_pid_t);
   ("comm", Arr 16 char)]);
  ("coredump_proc_event", Struct [("process_pid", __kernel_pid_t);
   ("process_tgid", __kernel_pid_t)]);
  ("exit_proc_event", Struct [("process_pid", __kernel_pid_t); ("process_tgid", __kernel_pid_t);
   ("exit_code", __u32); ("exit_signal", __u32)])].
Definition cn_proc_types : list (string * cty) := structs_fork_proc_event.
End Cn_proc.

(** ** [linux/coff.h] *)

Module Coff.
Definition E_SYMNMLEN : Z := 8.
Definition E_FILNMLEN : Z := 14.
Definition E_DIMNUM : Z := 4.
Definition COFF_filehdr : cty :=
  Struct [("f_magic", Arr 2 char); ("f_nscns", Arr 2 char); ("f_timdat", Arr 4 char);
   ("f_symptr", Arr 4 char); ("f_nsyms", Arr 4 char); ("f_opthdr", Arr 2 char);
   ("f_flags", Arr 2 char)].
Definition COFF_AOUTHDR : cty :=
  Struct [("magic", Arr 2 char); ("vstamp", Arr 2 char); ("tsize", Arr 4 char);
   ("dsize", Arr 4 char); ("bsize", Arr 4 char); ("entry", Arr 4 char);
   ("text_start", Arr 4 char); ("data_start", Arr 4 char)].
Definition COFF_scnhdr : cty :=
  Struct [("s_name", Arr 8 char); ("s_paddr", Arr 4 char); ("s_vaddr", Arr 4 char);
   ("s_size", Arr 4 char); ("s_scnptr", Arr 4 char); ("s_relptr", Arr 4 char);
   ("s_lnnoptr", Arr 4 char); ("s_nreloc", Arr 2 char); ("s_nlnno", Arr 2 char);
   ("s_flags", Arr 4 char)].
Definition COFF_slib : cty := Struct [("sl_entsz", Arr 4 char); ("sl_pathndx", Arr 4 char)].
Definition COFF_lineno : cty :=
  Struct [("l_addr", Union [("l_symndx", Arr 4 char); ("l_paddr", Arr 4 char)]);
   ("l_lnno", Arr 2 char)].
Definition COFF_syment : cty :=
  Struct [("e", Union [("e_name", Arr E_SYMNMLEN char); ("e", Struct [("e_zeroes", Arr 4 char);
   ("e_offset", Arr 4 char)])]); ("e_value", Arr 4 char); ("e_scnum", Arr 2 char);
   ("e_type", Arr 2 char); ("e_sclass", Arr 1 char); ("e_numaux", Arr 1 char)].
Definition COFF_auxent : cty :=
  Union [("x_sym", Struct [("x_tagndx", Arr 4 char);
   ("x_misc", Union [("x_lnsz", Struct [("x_lnno", Arr 2 char); ("x_size", Arr 2 char)]);
   ("x_fsize", Arr 4 char)]); ("x_fcnary", Union [("x_fcn", Struct [("x_lnnoptr", Arr 4 char);
   ("x_endndx", Arr 4 char)]); ("x_ary", Struct [("x_dimen", Arr E_DIMNUM (Arr 2 char))])]);
   ("x_tvndx", Arr 2 char)]); ("x_file", Union [("x_fname", Arr E_FILNMLEN char);
   ("x_n", Struct [("x_zeroes", Arr 4 char); ("x_offset", Arr 4 char)])]);
   ("x_scn", Struct [("x_scnlen", Arr 4 char); ("x_nreloc", Arr 2 char);
   ("x_nlinno", Arr 2 char)]); ("x_tv", Struct [("x_tvfill", Arr 4 char);
   ("x_tvlen", Arr 2 char); ("x_tvran", Arr 2 (Arr 2 char))])].
Definition COFF_reloc : cty :=
  Struct [("r_vaddr", Arr 4 char); ("r_symndx", Arr 4 char); ("r_type", Arr 2 char)].
Definition coff_types : list (string * cty) :=
  ([("COFF_filehdr", COFF_filehdr); ("COFF_AOUTHDR", COFF_AOUTHDR); ("COFF_scnhdr",
   COFF_scnhdr); ("COFF_slib", COFF_slib); ("COFF_lineno", COFF_lineno); ("COFF_syment",
   COFF_syment); ("COFF_auxent", COFF_auxent); ("COFF_reloc", COFF_reloc)])%list.
End Coff.

(** ** [linux/connector.h] *)

Module Connector.
Definition structs_cb_id : list (string * cty) :=
  let cb_id := Struct [("idx", __u32); ("val", __u32)] in
  [
  ("cb_id", cb_id);
  ("cn_msg", Struct [("id", cb_id); ("seq", __u32); ("ack", __u32); ("len", __u16);
   ("flags", __u16); ("data", Arr 0 __u8)])].
Definition connector_types : list (string * cty) := structs_cb_id.
End Connector.

(** ** [linux/elf.h] *)

Module Elf.
Definition EI_NIDENT : Z := 16.
Definition structs_Elf32_Addr : list (string * cty) :=
  [
  ("Elf32_Addr", __u32);
  ("Elf32_Half", __u16);
  ("Elf32_Off", __u32);
  ("Elf32_Sword", __s32);
  ("Elf32_Word", __u32);
  ("Elf64_Addr", __u64);
  ("Elf64_Half", __u16);
  ("Elf64_SHalf", __s16);
  ("Elf64_Off", __u64);
  ("Elf64_Sword", __s32);
  ("Elf64_Word", __u32);
  ("Elf64_Xword", __u64);
  ("Elf64_Sxword", __s64)].
Definition Elf32_Addr : cty := type_in structs_Elf32_Addr "Elf32_Addr".
Definition Elf32_Half : cty := type_in structs_Elf32_Addr "Elf32_Half".
Definition Elf32_Off : cty := type_in structs_Elf32_Addr "Elf32_Off".
Definition Elf32_Sword : cty := type_in structs_Elf32_Addr "Elf32_Sword".
Definition Elf32_Word : cty := type_in structs_Elf32_Addr "Elf32_Word".
Definition Elf64_Addr : cty := type_in structs_Elf32_Addr "Elf64_Addr".
Definition Elf64_Half : cty := type_in structs_Elf32_Addr "Elf64_Half".
Definition Elf64_Off : cty := type_in structs_Elf32_Addr "Elf64_Off".
Definition Elf64_Word : cty := type_in structs_Elf32_Addr "Elf64_Word".
Definition Elf64_Xword : cty := type_in structs_Elf32_Addr "Elf64_Xword".
Definition Elf64_Sxword : cty := type_in structs_Elf32_Addr "Elf64_Sxword".
Definition dynamic : cty :=
  Struct [("d_tag", Elf32_Sword); ("d_un", Union [("d_val", Elf32_Sword); ("d_ptr", Elf32_Addr)])].
Definition Elf32_Dyn : cty := dynamic.
Definition Elf64_Dyn : cty :=
  Struct [("d_tag", Elf64_Sxword); ("d_un", Union [("d_val", Elf64_Xword); ("d_ptr", Elf64_Addr)])].
Definition elf32_rel : cty := Struct [("r_offset", Elf32_Addr); ("r_info", Elf32_Word)].
Definition Elf32_Rel : cty := elf32_rel.
Definition elf64_rel : cty := Struct [("r_offset", Elf64_Addr); ("r_info", Elf64_Xword)].
Definition Elf64_Rel : cty := elf64_rel.
Definition elf32_rela : cty :=
  Struct [("r_offset", Elf32_Addr); ("r_info", Elf32_Word); ("r_addend", Elf32_Sword)].
Definition Elf32_Rela : cty := elf32_rela.
Definition elf64_rela : cty :=
  Struct [("r_offset", Elf64_Addr); ("r_info", Elf64_Xword); ("r_addend", Elf64_Sxword)].
Definition Elf64_Rela : cty := elf64_rela.
Definition elf32_sym : cty :=
  Struct [("st_name", Elf32_Word); ("st_value", Elf32_Addr); ("st_size", Elf32_Word);
   ("st_info", uchar); ("st_other", uchar); ("st_shndx", Elf32_Half)].
Definition Elf32_Sym : cty := elf32_sym.
Definition elf64_sym : cty :=
  Struct [("st_name", Elf64_Word); ("st_info", uchar); ("st_other", uchar);
   ("st_shndx", Elf64_Half); ("st_value", Elf64_Addr); ("st_size", Elf64_Xword)].
Definition Elf64_Sym : cty := elf64_sym.
Definition elf32_hdr : cty :=
  Struct [("e_ident", Arr EI_NIDENT uchar); ("e_type", Elf32_Half); ("e_machine", Elf32_Half);
   ("e_version", Elf32_Word); ("e_entry", Elf32_Addr); ("e_phoff", Elf32_Off);
   ("e_shoff", Elf32_Off); ("e_flags", Elf32_Word); ("e_ehsize", Elf32_Half);
   ("e_phentsize", Elf32_Half); ("e_phnum", Elf32_Half); ("e_shentsize", Elf32_Half);
   ("e_shnum", Elf32_Half); ("e_shstrndx", Elf32_Half)].
Definition Elf32_Ehdr : cty := elf32_hdr.
Definition elf64_hdr : cty :=
  Struct [("e_ident", Arr EI_NIDENT uchar); ("e_type", Elf64_Half); ("e_machine", Elf64_Half);
   ("e_version", Elf64_Word); ("e_entry", Elf64_Addr); ("e_phoff", Elf64_Off);
   ("e_shoff", Elf64_Off); ("e_flags", Elf64_Word); ("e_ehsize", Elf64_Half);
   ("e_phentsize", Elf64_Half); ("e_phnum", Elf64_Half); ("e_shentsize", Elf64_Half);
   ("e_shnum", Elf64_Half); ("e_shstrndx", Elf64_Half)].
Definition Elf64_Ehdr : cty := elf64_hdr.
Definition elf32_phdr : cty :=
  Struct [("p_type", Elf32_Word); ("p_offset", Elf32_Off); ("p_vaddr", Elf32_Addr);
   ("p_paddr", Elf32_Addr); ("p_filesz", Elf32_Word); ("p_memsz", Elf32_Word);
   ("p_flags", Elf32_Word); ("p_align", Elf32_Word)].
Definition Elf32_Phdr : cty := elf32_phdr.
Definition elf64_phdr : cty :=
  Struct [("p_type", Elf64_Word); ("p_flags", Elf64_Word); ("p_offset", Elf64_Off);
   ("p_vaddr", Elf64_Addr); ("p_paddr", Elf64_Addr); ("p_filesz", Elf64_Xword);
   ("p_memsz", Elf64_Xword); ("p_align", Elf64_Xword)].
Definition Elf64_Phdr : cty := elf64_phdr.
Definition elf32_shdr : cty :=
  Struct [("sh_name", Elf32_Word); ("sh_type", Elf32_Word); ("sh_flags", Elf32_Word);
   ("sh_addr", Elf32_Addr); ("sh_offset", Elf32_Off); ("sh_size", Elf32_Word);
   ("sh_link", Elf32_Word); ("sh_info", Elf32_Word); ("sh_addralign", Elf32_Word);
   ("sh_entsize", Elf32_Word)].
Definition Elf32_Shdr : cty := elf32_shdr.
Definition elf64_shdr : cty :=
  Struct [("sh_name", Elf64_Word); ("sh_type", Elf64_Word); ("sh_flags", Elf64_Xword);
   ("sh_addr", Elf64_Addr); ("sh_offset", Elf64_Off); ("sh_size", Elf64_Xword);
   ("sh_link", Elf64_Word); ("sh_info", Elf64_Word); ("sh_addralign", Elf64_Xword);
   ("sh_entsize", Elf64_Xword)].
Definition Elf64_Shdr : cty := elf64_shdr.
Definition elf32_note : cty :=
  Struct [("n_namesz", Elf32_Word); ("n_descsz", Elf32_Word); ("n_type", Elf32_Word)].
Definition Elf32_Nhdr : cty := elf32_note.
Definition elf64_note : cty :=
  Struct [("n_namesz", Elf64_Word); ("n_descsz", Elf64_Word); ("n_type", Elf64_Word)].
Definition Elf64_Nhdr : cty := elf64_note.
Definition elf_types : list (string * cty) :=
  (structs_Elf32_Addr ++ [("dynamic", dynamic); ("Elf32_Dyn", Elf32_Dyn); ("Elf64_Dyn",
   Elf64_Dyn); ("elf32_rel", elf32_rel); ("Elf32_Rel", Elf32_Rel); ("elf64_rel", elf64_rel);
   ("Elf64_Rel", Elf64_Rel); ("elf32_rela", elf32_rela); ("Elf32_Rela", Elf32_Rela);
   ("elf64_rela", elf64_rela); ("Elf64_Rela", Elf64_Rela); ("elf32_sym", elf32_sym);
   ("Elf32_Sym", Elf32_Sym); ("elf64_sym", elf64_sym); ("Elf64_Sym", Elf64_Sym); ("elf32_hdr",
   elf32_hdr); ("Elf32_Ehdr", Elf32_Ehdr); ("elf64_hdr", elf64_hdr); ("Elf64_Ehdr",
   Elf64_Ehdr); ("elf32_phdr", elf32_phdr); ("Elf32_Phdr", Elf32_Phdr); ("elf64_phdr",
   elf64_phdr); ("Elf64_Phdr", Elf64_Phdr); ("elf32_shdr", elf32_shdr); ("Elf32_Shdr",
   Elf32_Shdr); ("elf64_shdr", elf64_shdr); ("Elf64_Shdr", Elf64_Shdr); ("elf32_note",
   elf32_note); ("Elf32_Nhdr", Elf32_Nhdr); ("elf64_note", elf64_note); ("Elf64_Nhdr",
   Elf64_Nhdr)])%list.
End Elf.

(** ** [linux/elf-fdpic.h] *)

Module Elf_fdpic.
Definition structs_elf32_fdpic_loadseg : list (string * cty) :=
  let elf32_fdpic_loadseg := Struct [("addr", Elf.Elf32_Addr); ("p_vaddr", Elf.Elf32_Addr);
   ("p_memsz", Elf.Elf32_Word)] in
  [
  ("elf32_fdpic_loadseg", elf32_fdpic_loadseg);
  ("elf32_fdpic_loadmap", Struct [("version", Elf.Elf32_Half); ("nsegs", Elf.Elf32_Half);
   ("segs", Arr 0 elf32_fdpic_loadseg)])].
Definition elf_fdpic_types : list (string * cty) := structs_elf32_fdpic_loadseg.
End Elf_fdpic.

(** ** [linux/errqueue.h] *)

Module Errqueue.
Definition sock_extended_err : cty :=
  Struct [("ee_errno", __u32); ("ee_origin", __u8); ("ee_type", __u8); ("ee_code", __u8);
   ("ee_pad", __u8); ("ee_info", __u32); ("ee_data", __u32)].
Definition scm_timestamping : cty := Struct [("ts", Arr 3 timespec)].
Definition errqueue_types : list (string * cty) :=
  ([("sock_extended_err", sock_extended_err); ("scm_timestamping", scm_timestamping)])%list.
End Errqueue.

(** ** [linux/fanotify.h] *)

Module Fanotify.
Definition structs_fanotify_event_metadata : list (string * cty) :=
  [
  ("fanotify_event_metadata", Struct [("event_len", __u32); ("vers", __u8); ("reserved", __u8);
   ("metadata_len", __u16); ("mask", __aligned_u64); ("fd", __s32); ("pid", __s32)]);
  ("fanotify_response", Struct [("fd", __s32); ("response", __u32)])].
Definition fanotify_types : list (string * cty) := structs_fanotify_event_metadata.
End Fanotify.

(** ** [linux/flat.h] *)

Module Flat.
Definition flat_hdr : cty :=
  Struct [("magic", Arr 4 char); ("rev", ulong); ("entry", ulong); ("data_start", ulong);
   ("data_end", ulong); ("bss_end", ulong); ("stack_size", ulong); ("reloc_start", ulong);
   ("reloc_count", ulong); ("flags", ulong); ("build_date", ulong); ("filler", Arr 5 ulong)].
Definition flat_types : list (string * cty) := [("flat_hdr", flat_hdr)].
End Flat.

(** ** [linux/futex.h] *)

Module Futex.
Definition robust_list : cty := Struct [("next", ptr)].
Definition robust_list_head : cty :=
  Struct [("list", robust_list); ("futex_offset", long); ("list_op_pending", ptr)].
Definition futex_types : list (string * cty) :=
  ([("robust_list", robust_list); ("robust_list_head", robust_list_head)])%list.
End Futex.

(** ** [linux/hyperv.h] *)

Module Hyperv.
Definition W_MAX_PATH : Z := 260.
Definition DATA_FRAGMENT : Z := 6144.
Definition HV_KVP_EXCHANGE_MAX_VALUE_SIZE : Z := 2048.
Definition HV_KVP_EXCHANGE_MAX_KEY_SIZE : Z := 512.
Definition MAX_ADAPTER_ID_SIZE : Z := 128.
Definition MAX_IP_ADDR_SIZE : Z := 1024.
Definition MAX_GATEWAY_SIZE : Z := 512.
Definition hv_vss_hdr : cty := Packed [("operation", __u8); ("reserved", Arr 7 __u8)].
Definition structs_hv_vss_check_feature : list (string * cty) :=
  let hv_vss_check_feature := Packed [("flags", __u32)] in
  let hv_vss_check_dm_info := Packed [("flags", __u32)] in
  [
  ("hv_vss_check_feature", hv_vss_check_feature);
  ("hv_vss_check_dm_info", hv_vss_check_dm_info);
  ("hv_vss_msg", Packed [("", Union [("vss_hdr", hv_vss_hdr); ("error", int)]);
   ("", Union [("vss_cf", hv_vss_check_feature); ("dm_info", hv_vss_check_dm_info)])])].
Definition hv_fcopy_hdr : cty :=
  Packed [("operation", __u32); ("service_id0", Uuid.uuid_le); ("service_id1", Uuid.uuid_le)].
Definition hv_start_fcopy : cty :=
  Packed [("hdr", hv_fcopy_hdr); ("file_name", Arr W_MAX_PATH __u16);
   ("path_name", Arr W_MAX_PATH __u16); ("copy_flags", __u32); ("file_size", __u64)].
Definition hv_do_fcopy : cty :=
  Packed [("hdr", hv_fcopy_hdr); ("pad", __u32); ("offset", __u64); ("size", __u32);
   ("data", Arr DATA_FRAGMENT __u8)].
Definition structs_hv_kvp_ipaddr_value : list (string * cty) :=
  let hv_kvp_ipaddr_value := Packed [("adapter_id", Arr MAX_ADAPTER_ID_SIZE __u16);
   ("addr_family", __u8); ("dhcp_enabled", __u8); ("ip_addr", Arr MAX_IP_ADDR_SIZE __u16);
   ("sub_net", Arr MAX_IP_ADDR_SIZE __u16); ("gate_way", Arr MAX_GATEWAY_SIZE __u16);
   ("dns_addr", Arr MAX_IP_ADDR_SIZE __u16)] in
  let hv_kvp_hdr := Packed [("operation", __u8); ("pool", __u8); ("pad", __u16)] in
  let hv_kvp_exchg_msg_value := Packed [("value_type", __u32); ("key_size", __u32);
   ("value_size", __u32); ("key", Arr HV_KVP_EXCHANGE_MAX_KEY_SIZE __u8);
   ("", Union [("value", Arr HV_KVP_EXCHANGE_MAX_VALUE_SIZE __u8); ("value_u32", __u32);
   ("value_u64", __u64)])] in
  let hv_kvp_msg_enumerate := Packed [("index", __u32); ("data", hv_kvp_exchg_msg_value)] in
  let hv_kvp_msg_get := Struct [("data", hv_kvp_exchg_msg_value)] in
  let hv_kvp_msg_set := Struct [("data", hv_kvp_exchg_msg_value)] in
  let hv_kvp_msg_delete := Struct [("key_size", __u32);
   ("key", Arr HV_KVP_EXCHANGE_MAX_KEY_SIZE __u8)] in
  let hv_kvp_register := Struct [("version", Arr HV_KVP_EXCHANGE_MAX_KEY_SIZE __u8)] in
  [
  ("hv_kvp_ipaddr_value", hv_kvp_ipaddr_value);
  ("hv_kvp_hdr", hv_kvp_hdr);
  ("hv_kvp_exchg_msg_value", hv_kvp_exchg_msg_value);
  ("hv_kvp_msg_enumerate", hv_kvp_msg_enumerate);
  ("hv_kvp_msg_get", hv_kvp_msg_get);
  ("hv_kvp_msg_set", hv_kvp_msg_set);
  ("hv_kvp_msg_delete", hv_kvp_msg_delete);
  ("hv_kvp_register", hv_kvp_register);
  ("hv_kvp_msg", Packed [("", Union [("kvp_hdr", hv_kvp_hdr); ("error", int)]);
   ("body", Union [("kvp_get", hv_kvp_msg_get); ("kvp_set", hv_kvp_msg_set);
   ("kvp_delete", hv_kvp_msg_delete); ("kvp_enum_data", hv_kvp_msg_enumerate);
   ("kvp_ip_val", hv_kvp_ipaddr_value); ("kvp_register", hv_kvp_register)])]);
  ("hv_kvp_ip_msg", Packed [("operation", __u8); ("pool", __u8);
   ("kvp_ip_val", hv_kvp_ipaddr_value)])].
Definition hyperv_types : list (string * cty) :=
  ([("hv_vss_hdr", hv_vss_hdr)] ++ structs_hv_vss_check_feature ++ [("hv_fcopy_hdr",
   hv_fcopy_hdr); ("hv_start_fcopy", hv_start_fcopy); ("hv_do_fcopy", hv_do_fcopy)] ++
   structs_hv_kvp_ipaddr_value)%list.
End Hyperv.

(** ** [linux/inotify.h] *)

Module Inotify.
Definition inotify_event : cty :=
  Struct [("wd", __s32); ("mask", __u32); ("cookie", __u32); ("len", __u32); ("name", Arr 0 char)].
Definition inotify_types : list (string * cty) := [("inotify_event", inotify_event)].
End Inotify.

(** ** [linux/ipc.h] *)

Module Ipc.
Definition ipc_perm : cty :=
  Struct [("key", __kernel_key_t); ("uid", __kernel_uid_t); ("gid", __kernel_gid_t);
   ("cuid", __kernel_uid_t); ("cgid", __kernel_gid_t); ("mode", __kernel_mode_t);
   ("seq", ushort)].
Definition ipc_kludge : cty := Struct [("msgp", ptr); ("msgtyp", long)].
Definition ipc_types : list (string * cty) :=
  ([("ipc_perm", ipc_perm); ("ipc_kludge", ipc_kludge)])%list.
End Ipc.

(** ** [linux/kexec.h] *)

Module Kexec.
Definition kexec_segment : cty :=
  Struct [("buf", ptr); ("bufsz", size_t); ("mem", ptr); ("memsz", size_t)].
Definition kexec_types : list (string * cty) := [("kexec_segment", kexec_segment)].
End Kexec.

(** ** [linux/virtio_types.h] *)

Module Virtio_types.
Definition structs___virtio16 : list (string * cty) :=
  [
  ("__virtio16", __u16);
  ("__virtio32", __u32);
  ("__virtio64", __u64)].
Definition __virtio16 : cty := type_in structs___virtio16 "__virtio16".
Definition __virtio32 : cty := type_in structs___virtio16 "__virtio32".
Definition __virtio64 : cty := type_in structs___virtio16 "__virtio64".
Definition virtio_types_types : list (string * cty) := structs___virtio16.
End Virtio_types.

(** ** [linux/virtio_ring.h] *)

Module Virtio_ring.
Definition structs_vring_desc : list (string * cty) :=
  let vring_used_elem := Struct [("id", Virtio_types.__virtio32);
   ("len", Virtio_types.__virtio32)] in
  [
  ("vring_desc", Struct [("addr", Virtio_types.__virtio64); ("len", Virtio_types.__virtio32);
   ("flags", Virtio_types.__virtio16); ("next", Virtio_types.__virtio16)]);
  ("vring_avail", Struct [("flags", Virtio_types.__virtio16); ("idx", Virtio_types.__virtio16);
   ("ring", Arr 0 Virtio_types.__virtio16)]);
  ("vring_used_elem", vring_used_elem);
  ("vring_used", Struct [("flags", Virtio_types.__virtio16); ("idx", Virtio_types.__virtio16);
   ("ring", Arr 0 vring_used_elem)]);
  ("vring", Struct [("num", uint); ("desc", ptr); ("avail", ptr); ("used", ptr)])].
Definition vring : cty := type_in structs_vring_desc "vring".
Definition virtio_ring_types : list (string * cty) := structs_vring_desc.
End Virtio_ring.

(** ** [linux/mic_common.h] *)

Module Mic_common.
Definition structs_mic_device_desc : list (string * cty) :=
  let mic_device_desc := Aligned 8 (Struct [("type", __s8); ("num_vq", __u8);
   ("feature_len", __u8); ("config_len", __u8); ("status", __u8); ("config", Arr 0 __le64)]) in
  let mic_bootparam := Aligned 8 (Struct [("magic", __le32); ("h2c_config_db", __s8);
   ("node_id", __u8); ("h2c_scif_db", __u8); ("c2h_scif_db", __u8);
   ("scif_host_dma_addr", __u64); ("scif_card_dma_addr", __u64)]) in
  [
  ("mic_device_desc", mic_device_desc);
  ("mic_device_ctrl", Aligned 8 (Struct [("vdev", __le64); ("config_change", __u8);
   ("vdev_reset", __u8); ("guest_ack", __u8); ("host_ack", __u8); ("used_address_updated", __u8);
   ("c2h_vdev_db", __s8); ("h2c_vdev_db", __s8)]));
  ("mic_bootparam", mic_bootparam);
  ("mic_device_page", Struct [("bootparam", mic_bootparam); ("desc", Arr 0 mic_device_desc)]);
  ("mic_vqconfig", Aligned 8 (Struct [("address", __le64); ("used_address", __le64);
   ("num", __le16)]))].
Definition structs__mic_vring_info : list (string * cty) :=
  [
  ("_mic_vring_info", Struct [("avail_idx", __u16); ("magic", __le32)]);
  ("mic_vring", Struct [("vr", Virtio_ring.vring); ("info", ptr); ("va", ptr); ("len", int)])].
Definition mic_common_types : list (string * cty) :=
  (structs_mic_device_desc ++ structs__mic_vring_info)%list.
End Mic_common.

(** ** [linux/mqueue.h] *)

Module Mqueue.
Definition mq_attr : cty :=
  Struct [("mq_flags", __kernel_long_t); ("mq_maxmsg", __kernel_long_t);
   ("mq_msgsize", __kernel_long_t); ("mq_curmsgs", __kernel_long_t);
   ("__reserved", Arr 4 __kernel_long_t)].
Definition mqueue_types : list (string * cty) := [("mq_attr", mq_attr)].
End Mqueue.

(** ** [linux/msg.h] *)

Module Msg.
Definition structs_msqid_ds : list (string * cty) :=
  [
  ("msqid_ds", Struct [("msg_perm", Ipc.ipc_perm); ("msg_first", ptr); ("msg_last", ptr);
   ("msg_stime", __kernel_time_t); ("msg_rtime", __kernel_time_t);
   ("msg_ctime", __kernel_time_t); ("msg_lcbytes", ulong); ("msg_lqbytes", ulong);
   ("msg_cbytes", ushort); ("msg_qnum", ushort); ("msg_qbytes", ushort);
   ("msg_lspid", __kernel_ipc_pid_t); ("msg_lrpid", __kernel_ipc_pid_t)]);
  ("msgbuf", Struct [("mtype", __kernel_long_t); ("mtext", Arr 1 char)]);
  ("msginfo", Struct [("msgpool", int); ("msgmap", int); ("msgmax", int); ("msgmnb", int);
   ("msgmni", int); ("msgssz", int); ("msgtql", int); ("msgseg", ushort)])].
Definition msg_types : list (string * cty) := structs_msqid_ds.
End Msg.

(** ** [linux/prctl.h] *)

Module Prctl.
Definition prctl_mm_map : cty :=
  Struct [("start_code", __u64); ("end_code", __u64); ("start_data", __u64); ("end_data", __u64);
   ("start_brk", __u64); ("brk", __u64); ("start_stack", __u64); ("arg_start", __u64);
   ("arg_end", __u64); ("env_start", __u64); ("env_end", __u64); ("auxv", ptr);
   ("auxv_size", __u32); ("exe_fd", __u32)].
Definition prctl_types : list (string * cty) := [("prctl_mm_map", prctl_mm_map)].
End Prctl.

(** ** [linux/ptrace.h] *)

Module Ptrace.
Definition ptrace_peeksiginfo_args : cty :=
  Struct [("off", __u64); ("flags", __u32); ("nr", __s32)].
Definition ptrace_types : list (string * cty) := [("ptrace_peeksiginfo_args", ptrace_peeksiginfo_args)].
End Ptrace.

(** ** [linux/resource.h] *)

Module Resource.
Definition structs_rusage : list (string * cty) :=
  [
  ("rusage", Struct [("ru_utime", timeval); ("ru_stime", timeval);
   ("ru_maxrss", __kernel_long_t); ("ru_ixrss", __kernel_long_t); ("ru_idrss", __kernel_long_t);
   ("ru_isrss", __kernel_long_t); ("ru_minflt", __kernel_long_t); ("ru_majflt", __kernel_long_t);
   ("ru_nswap", __kernel_long_t); ("ru_inblock", __kernel_long_t);
   ("ru_oublock", __kernel_long_t); ("ru_msgsnd", __kernel_long_t);
   ("ru_msgrcv", __kernel_long_t); ("ru_nsignals", __kernel_long_t);
   ("ru_nvcsw", __kernel_long_t); ("ru_nivcsw", __kernel_long_t)]);
  ("rlimit", Struct [("rlim_cur", __kernel_ulong_t); ("rlim_max", __kernel_ulong_t)])].
Definition rlimit64 : cty := Struct [("rlim_cur", __u64); ("rlim_max", __u64)].
Definition resource_types : list (string * cty) :=
  (structs_rusage ++ [("rlimit64", rlimit64)])%list.
End Resource.

(** ** [linux/screen_info.h] *)

Module Screen_info.
Definition screen_info : cty :=
  Packed [("orig_x", __u8); ("orig_y", __u8); ("ext_mem_k", __u16); ("orig_video_page", __u16);
   ("orig_video_mode", __u8); ("orig_video_cols", __u8); ("flags", __u8); ("unused2", __u8);
   ("orig_video_ega_bx", __u16); ("unused3", __u16); ("orig_video_lines", __u8);
   ("orig_video_isVGA", __u8); ("orig_video_points", __u16); ("lfb_width", __u16);
   ("lfb_height", __u16); ("lfb_depth", __u16); ("lfb_base", __u32); ("lfb_size", __u32);
   ("cl_magic", __u16); ("cl_offset", __u16); ("lfb_linelength", __u16); ("red_size", __u8);
   ("red_pos", __u8); ("green_size", __u8); ("green_pos", __u8); ("blue_size", __u8);
   ("blue_pos", __u8); ("rsvd_size", __u8); ("rsvd_pos", __u8); ("vesapm_seg", __u16);
   ("vesapm_off", __u16); ("pages", __u16); ("vesa_attributes", __u16); ("capabilities", __u32);
   ("ext_lfb_base", __u32); ("_reserved", Arr 2 __u8)].
Definition screen_info_types : list (string * cty) := [("screen_info", screen_info)].
End Screen_info.

(** ** [linux/seccomp.h] *)

Module Seccomp.
Definition seccomp_data : cty :=
  Struct [("nr", int); ("arch", __u32); ("instruction_pointer", __u64); ("args", Arr 6 __u64)].
Definition seccomp_types : list (string * cty) := [("seccomp_data", seccomp_data)].
End Seccomp.

(** ** [linux/selinux_netlink.h] *)

Module Selinux_netlink.
Definition structs_selnl_msg_setenforce : list (string * cty) :=
  [
  ("selnl_msg_setenforce", Struct [("val", __s32)]);
  ("selnl_msg_policyload", Struct [("seqno", __u32)])].
Definition selinux_netlink_types : list (string * cty) := structs_selnl_msg_setenforce.
End Selinux_netlink.

(** ** [linux/sem.h] *)

Module Sem.
Definition structs_semid_ds : list (string * cty) :=
  [
  ("semid_ds", Struct [("sem_perm", Ipc.ipc_perm); ("sem_otime", __kernel_time_t);
   ("sem_ctime", __kernel_time_t); ("sem_base", ptr); ("sem_pending", ptr);
   ("sem_pending_last", ptr); ("undo", ptr); ("sem_nsems", ushort)]);
  ("sembuf", Struct [("sem_num", ushort); ("sem_op", short); ("sem_flg", short)]);
  ("semun", Union [("val", int); ("buf", ptr); ("array", ptr); ("__buf", ptr); ("__pad", ptr)]);
  ("seminfo", Struct [("semmap", int); ("semmni", int); ("semmns", int); ("semmnu", int);
   ("semmsl", int); ("semopm", int); ("semume", int); ("semusz", int); ("semvmx", int);
   ("semaem", int)])].
Definition sem_types : list (string * cty) := structs_semid_ds.
End Sem.

(** ** [linux/shm.h] *)

Module Shm.
Definition shmid_ds : cty :=
  Struct [("shm_perm", Ipc.ipc_perm); ("shm_segsz", int); ("shm_atime", __kernel_time_t);
   ("shm_dtime", __kernel_time_t); ("shm_ctime", __kernel_time_t);
   ("shm_cpid", __kernel_ipc_pid_t); ("shm_lpid", __kernel_ipc_pid_t); ("shm_nattch", ushort);
   ("shm_unused", ushort); ("shm_unused2", ptr); ("shm_unused3", ptr)].
Definition structs_shminfo : list (string * cty) :=
  [
  ("shminfo", Struct [("shmmax", int); ("shmmin", int); ("shmmni", int); ("shmseg", int);
   ("shmall", int)]);
  ("shm_info", Struct [("used_ids", int); ("shm_tot", __kernel_ulong_t);
   ("shm_rss", __kernel_ulong_t); ("shm_swp", __kernel_ulong_t);
   ("swap_attempts", __kernel_ulong_t); ("swap_successes", __kernel_ulong_t)])].
Definition shm_types : list (string * cty) :=
  ([("shmid_ds", shmid_ds)] ++ structs_shminfo)%list.
End Shm.

(** ** [linux/signalfd.h] *)

Module Signalfd.
Definition signalfd_siginfo : cty :=
  Struct [("ssi_signo", __u32); ("ssi_errno", __s32); ("ssi_code", __s32); ("ssi_pid", __u32);
   ("ssi_uid", __u32); ("ssi_fd", __s32); ("ssi_tid", __u32); ("ssi_band", __u32);
   ("ssi_overrun", __u32); ("ssi_trapno", __u32); ("ssi_status", __s32); ("ssi_int", __s32);
   ("ssi_ptr", __u64); ("ssi_utime", __u64); ("ssi_stime", __u64); ("ssi_addr", __u64);
   ("ssi_addr_lsb", __u16); ("__pad", Arr 46 __u8)].
Definition signalfd_types : list (string * cty) := [("signalfd_siginfo", signalfd_siginfo)].
End Signalfd.

(** ** [linux/sysctl.h] *)

Module Sysctl.
Definition __sysctl_args : cty :=
  Struct [("name", ptr); ("nlen", int); ("oldval", ptr); ("oldlenp", ptr); ("newval", ptr);
   ("newlen", size_t); ("__unused", Arr 4 ulong)].
Definition sysctl_types : list (string * cty) := [("__sysctl_args", __sysctl_args)].
End Sysctl.

(** ** [linux/uio.h] *)

Module Uio.
Definition iovec : cty := Struct [("iov_base", ptr); ("iov_len", __kernel_size_t)].
Definition uio_types : list (string * cty) := [("iovec", iovec)].
End Uio.

(** ** [linux/target_core_user.h] *)

Module Target_core_user.
Definition TCMU_SENSE_BUFFERSIZE : Z := 96.
Definition tcmu_cmd_entry_hdr : cty :=
  Packed [("len_op", __u32); ("cmd_id", __u16); ("kflags", __u8); ("uflags", __u8)].
Definition tcmu_cmd_entry : cty :=
  Packed [("hdr", tcmu_cmd_entry_hdr); ("", Union [("req", Struct [("iov_cnt", uint32_t);
   ("iov_bidi_cnt", uint32_t); ("iov_dif_cnt", uint32_t); ("cdb_off", uint64_t);
   ("__pad1", uint64_t); ("__pad2", uint64_t); ("iov", Arr 0 Uio.iovec)]);
   ("rsp", Struct [("scsi_status", uint8_t); ("__pad1", uint8_t); ("__pad2", uint16_t);
   ("__pad3", uint32_t); ("sense_buffer", Arr TCMU_SENSE_BUFFERSIZE char)])])].
Definition target_core_user_types : list (string * cty) :=
  ([("tcmu_cmd_entry_hdr", tcmu_cmd_entry_hdr); ("tcmu_cmd_entry", tcmu_cmd_entry)])%list.
End Target_core_user.

(** ** [linux/termios.h] *)

Module Termios.
Definition NFF : Z := 5.
Definition termiox : cty :=
  Struct [("x_hflag", __u16); ("x_cflag", __u16); ("x_rflag", Arr NFF __u16); ("x_sflag", __u16)].
Definition termios_types : list (string * cty) := [("termiox", termiox)].
End Termios.

(** ** [linux/time.h] *)

Module Time.
Definition structs_timespec : list (string * cty) :=
  [
  ("timespec", Struct [("tv_sec", __kernel_time_t); ("tv_nsec", long)]);
  ("timeval", Struct [("tv_sec", __kernel_time_t); ("tv_usec", __kernel_suseconds_t)]);
  ("timezone", Struct [("tz_minuteswest", int); ("tz_dsttime", int)])].
Definition structs_itimerspec : list (string * cty) :=
  [
  ("itimerspec", Struct [("it_interval", timespec); ("it_value", timespec)]);
  ("itimerval", Struct [("it_interval", timeval); ("it_value", timeval)])].
Definition time_types : list (string * cty) :=
  (structs_timespec ++ structs_itimerspec)%list.
End Time.

(** ** [linux/times.h] *)

Module Times.
Definition tms : cty :=
  Struct [("tms_utime", __kernel_clock_t); ("tms_stime", __kernel_clock_t);
   ("tms_cutime", __kernel_clock_t); ("tms_cstime", __kernel_clock_t)].
Definition times_types : list (string * cty) := [("tms", tms)].
End Times.

(** ** [linux/utime.h] *)

Module Utime.
Definition utimbuf : cty := Struct [("actime", __kernel_time_t); ("modtime", __kernel_time_t)].
Definition utime_types : list (string * cty) := [("utimbuf", utimbuf)].
End Utime.

(** ** [linux/utsname.h] *)

Module Utsname.
Definition oldold_utsname : cty :=
  Struct [("sysname", Arr 9 char); ("nodename", Arr 9 char); ("release", Arr 9 char);
   ("version", Arr 9 char); ("machine", Arr 9 char)].
Definition structs_old_utsname : list (string * cty) :=
  [
  ("old_utsname", Struct [("sysname", Arr 65 char); ("nodename", Arr 65 char);
   ("release", Arr 65 char); ("version", Arr 65 char); ("machine", Arr 65 char)]);
  ("new_utsname", Struct [("sysname", Arr 65 char); ("nodename", Arr 65 char);
   ("release", Arr 65 char); ("version", Arr 65 char); ("machine", Arr 65 char);
   ("domainname", Arr 65 char)])].
Definition utsname_types : list (string * cty) :=
  ([("oldold_utsname", oldold_utsname)] ++ structs_old_utsname)%list.
End Utsname.

(** ** [linux/virtio_9p.h] *)

Module Virtio_9p.
Definition virtio_9p_config : cty := Packed [("tag_len", __u16); ("tag", Arr 0 __u8)].
Definition virtio_9p_types : list (string * cty) := [("virtio_9p_config", virtio_9p_config)].
End Virtio_9p.

(** ** [linux/virtio_balloon.h] *)

Module Virtio_balloon.
Definition virtio_balloon_config : cty := Struct [("num_pages", __u32); ("actual", __u32)].
Definition virtio_balloon_stat : cty :=
  Packed [("tag", Virtio_types.__virtio16); ("val", Virtio_types.__virtio64)].
Definition virtio_balloon_types : list (string * cty) :=
  ([("virtio_balloon_config", virtio_balloon_config); ("virtio_balloon_stat",
   virtio_balloon_stat)])%list.
End Virtio_balloon.

(** ** [linux/virtio_blk.h] *)

Module Virtio_blk.
Definition virtio_blk_geometry : cty :=
  Struct [("cylinders", __u16); ("heads", __u8); ("sectors", __u8)].
Definition virtio_blk_config : cty :=
  Packed [("capacity", __u64); ("size_max", __u32); ("seg_max", __u32);
   ("geometry", virtio_blk_geometry); ("blk_size", __u32); ("physical_block_exp", __u8);
   ("alignment_offset", __u8); ("min_io_size", __u16); ("opt_io_size", __u32); ("wce", __u8);
   ("unused", __u8); ("num_queues", __u16)].
Definition structs_virtio_blk_outhdr : list (string * cty) :=
  [
  ("virtio_blk_outhdr", Struct [("type", Virtio_types.__virtio32);
   ("ioprio", Virtio_types.__virtio32); ("sector", Virtio_types.__virtio64)]);
  ("virtio_scsi_inhdr", Struct [("errors", Virtio_types.__virtio32);
   ("data_len", Virtio_types.__virtio32); ("sense_len", Virtio_types.__virtio32);
   ("residual", Virtio_types.__virtio32)])].
Definition virtio_blk_types : list (string * cty) :=
  ([("virtio_blk_geometry", virtio_blk_geometry); ("virtio_blk_config", virtio_blk_config)] ++
   structs_virtio_blk_outhdr)%list.
End Virtio_blk.

(** ** [linux/virtio_console.h] *)

Module Virtio_console.
Definition structs_virtio_console_config : list (string * cty) :=
  [
  ("virtio_console_config", Packed [("cols", __u16); ("rows", __u16); ("max_nr_ports", __u32);
   ("emerg_wr", __u32)]);
  ("virtio_console_control", Struct [("id", Virtio_types.__virtio32);
   ("event", Virtio_types.__virtio16); ("value", Virtio_types.__virtio16)])].
Definition virtio_console_types : list (string * cty) := structs_virtio_console_config.
End Virtio_console.

(** ** [linux/virtio_gpu.h] *)

Module Virtio_gpu.
Definition VIRTIO_GPU_MAX_SCANOUTS : Z := 16.
Definition structs_virtio_gpu_ctrl_hdr : list (string * cty) :=
  let virtio_gpu_ctrl_hdr := Struct [("type", __le32); ("flags", __le32); ("fence_id", __le64);
   ("ctx_id", __le32); ("padding", __le32)] in
  let virtio_gpu_cursor_pos := Struct [("scanout_id", __le32); ("x", __le32); ("y", __le32);
   ("padding", __le32)] in
  let virtio_gpu_rect := Struct [("x", __le32); ("y", __le32); ("width", __le32);
   ("height", __le32)] in
  [
  ("virtio_gpu_ctrl_hdr", virtio_gpu_ctrl_hdr);
  ("virtio_gpu_cursor_pos", virtio_gpu_cursor_pos);
  ("virtio_gpu_update_cursor", Struct [("hdr", virtio_gpu_ctrl_hdr);
   ("pos", virtio_gpu_cursor_pos); ("resource_id", __le32); ("hot_x", __le32); ("hot_y", __le32);
   ("padding", __le32)]);
  ("virtio_gpu_rect", virtio_gpu_rect);
  ("virtio_gpu_resource_unref", Struct [("hdr", virtio_gpu_ctrl_hdr); ("resource_id", __le32);
   ("padding", __le32)]);
  ("virtio_gpu_resource_create_2d", Struct [("hdr", virtio_gpu_ctrl_hdr);
   ("resource_id", __le32); ("format", __le32); ("width", __le32); ("height", __le32)]);
  ("virtio_gpu_set_scanout", Struct [("hdr", virtio_gpu_ctrl_hdr); ("r", virtio_gpu_rect);
   ("scanout_id", __le32); ("resource_id", __le32)]);
  ("virtio_gpu_resource_flush", Struct [("hdr", virtio_gpu_ctrl_hdr); ("r", virtio_gpu_rect);
   ("resource_id", __le32); ("padding", __le32)]);
  ("virtio_gpu_transfer_to_host_2d", Struct [("hdr", virtio_gpu_ctrl_hdr);
   ("r", virtio_gpu_rect); ("offset", __le64); ("resource_id", __le32); ("padding", __le32)]);
  ("virtio_gpu_mem_entry", Struct [("addr", __le64); ("length", __le32); ("padding", __le32)]);
  ("virtio_gpu_resource_attach_backing", Struct [("hdr", virtio_gpu_ctrl_hdr);
   ("resource_id", __le32); ("nr_entries", __le32)]);
  ("virtio_gpu_resource_detach_backing", Struct [("hdr", virtio_gpu_ctrl_hdr);
   ("resource_id", __le32); ("padding", __le32)])].
Definition virtio_gpu_ctrl_hdr : cty := type_in structs_virtio_gpu_ctrl_hdr "virtio_gpu_ctrl_hdr".
Definition virtio_gpu_rect : cty := type_in structs_virtio_gpu_ctrl_hdr "virtio_gpu_rect".
Definition virtio_gpu_display_one : cty :=
  Struct [("r", virtio_gpu_rect); ("enabled", __le32); ("flags", __le32)].
Definition virtio_gpu_resp_display_info : cty :=
  Struct [("hdr", virtio_gpu_ctrl_hdr);
   ("pmodes", Arr VIRTIO_GPU_MAX_SCANOUTS virtio_gpu_display_one)].
Definition structs_virtio_gpu_box : list (string * cty) :=
  let virtio_gpu_box := Struct [("x", __le32); ("y", __le32); ("z", __le32); ("w", __le32);
   ("h", __le32); ("d", __le32)] in
  [
  ("virtio_gpu_box", virtio_gpu_box);
  ("virtio_gpu_transfer_host_3d", Struct [("hdr", virtio_gpu_ctrl_hdr); ("box", virtio_gpu_box);
   ("offset", __le64); ("resource_id", __le32); ("level", __le32); ("stride", __le32);
   ("layer_stride", __le32)])].
Definition structs_virtio_gpu_resource_create_3d : list (string * cty) :=
  [
  ("virtio_gpu_resource_create_3d", Struct [("hdr", virtio_gpu_ctrl_hdr);
   ("resource_id", __le32); ("target", __le32); ("format", __le32); ("bind", __le32);
   ("width", __le32); ("height", __le32); ("depth", __le32); ("array_size", __le32);
   ("last_level", __le32); ("nr_samples", __le32); ("flags", __le32); ("padding", __le32)]);
  ("virtio_gpu_ctx_create", Struct [("hdr", virtio_gpu_ctrl_hdr); ("nlen", __le32);
   ("padding", __le32); ("debug_name", Arr 64 char)]);
  ("virtio_gpu_ctx_destroy", Struct [("hdr", virtio_gpu_ctrl_hdr)]);
  ("virtio_gpu_ctx_resource", Struct [("hdr", virtio_gpu_ctrl_hdr); ("resource_id", __le32);
   ("padding", __le32)]);
  ("virtio_gpu_cmd_submit", Struct [("hdr", virtio_gpu_ctrl_hdr); ("size", __le32);
   ("padding", __le32)])].
Definition structs_virtio_gpu_get_capset_info : list (string * cty) :=
  [
  ("virtio_gpu_get_capset_info", Struct [("hdr", virtio_gpu_ctrl_hdr); ("capset_index", __le32);
   ("padding", __le32)]);
  ("virtio_gpu_resp_capset_info", Struct [("hdr", virtio_gpu_ctrl_hdr); ("capset_id", __le32);
   ("capset_max_version", __le32); ("capset_max_size", __le32); ("padding", __le32)]);
  ("virtio_gpu_get_capset", Struct [("hdr", virtio_gpu_ctrl_hdr); ("capset_id", __le32);
   ("capset_version", __le32)]);
  ("virtio_gpu_resp_capset", Struct [("hdr", virtio_gpu_ctrl_hdr); ("capset_data", Arr 0 uint8_t)])].
Definition virtio_gpu_config : cty :=
  Struct [("events_read", __u32); ("events_clear", __u32); ("num_scanouts", __u32);
   ("num_capsets", __u32)].
Definition virtio_gpu_types : list (string * cty) :=
  (structs_virtio_gpu_ctrl_hdr ++ [("virtio_gpu_display_one", virtio_gpu_display_one);
   ("virtio_gpu_resp_display_info", virtio_gpu_resp_display_info)] ++ structs_virtio_gpu_box
   ++ structs_virtio_gpu_resource_create_3d ++ structs_virtio_gpu_get_capset_info ++
   [("virtio_gpu_config", virtio_gpu_config)])%list.
End Virtio_gpu.

(** ** [linux/virtio_input.h] *)

Module Virtio_input.
Definition structs_virtio_input_absinfo : list (string * cty) :=
  let virtio_input_absinfo := Struct [("min", __u32); ("max", __u32); ("fuzz", __u32);
   ("flat", __u32); ("res", __u32)] in
  let virtio_input_devids := Struct [("bustype", __u16); ("vendor", __u16); ("product", __u16);
   ("version", __u16)] in
  [
  ("virtio_input_absinfo", virtio_input_absinfo);
  ("virtio_input_devids", virtio_input_devids);
  ("virtio_input_config", Struct [("select", __u8); ("subsel", __u8); ("size", __u8);
   ("reserved", Arr 5 __u8); ("u", Union [("string", Arr 128 char); ("bitmap", Arr 128 __u8);
   ("abs", virtio_input_absinfo); ("ids", virtio_input_devids)])]);
  ("virtio_input_event", Struct [("type", __le16); ("code", __le16); ("value", __le32)])].
Definition virtio_input_types : list (string * cty) := structs_virtio_input_absinfo.
End Virtio_input.

(** ** [linux/virtio_net.h] *)

Module Virtio_net.
Definition structs_virtio_net_config : list (string * cty) :=
  let virtio_net_hdr := Struct [("flags", __u8); ("gso_type", __u8);
   ("hdr_len", Virtio_types.__virtio16); ("gso_size", Virtio_types.__virtio16);
   ("csum_start", Virtio_types.__virtio16); ("csum_offset", Virtio_types.__virtio16)] in
  [
  ("virtio_net_config", Packed [("mac", Arr 6 __u8); ("status", __u16);
   ("max_virtqueue_pairs", __u16)]);
  ("virtio_net_hdr_v1", Struct [("flags", __u8); ("gso_type", __u8);
   ("hdr_len", Virtio_types.__virtio16); ("gso_size", Virtio_types.__virtio16);
   ("csum_start", Virtio_types.__virtio16); ("csum_offset", Virtio_types.__virtio16);
   ("num_buffers", Virtio_types.__virtio16)]);
  ("virtio_net_hdr", virtio_net_hdr);
  ("virtio_net_hdr_mrg_rxbuf", Struct [("hdr", virtio_net_hdr);
   ("num_buffers", Virtio_types.__virtio16)]);
  ("virtio_net_ctrl_hdr", Packed [("class", __u8); ("cmd", __u8)]);
  ("virtio_net_ctrl_ack", __u8)].
Definition virtio_net_ctrl_mac : cty :=
  Packed [("entries", Virtio_types.__virtio32); ("macs", Arr 0 (Arr 6 __u8))].
Definition virtio_net_ctrl_mq : cty := Struct [("virtqueue_pairs", Virtio_types.__virtio16)].
Definition virtio_net_types : list (string * cty) :=
  (structs_virtio_net_config ++ [("virtio_net_ctrl_mac", virtio_net_ctrl_mac);
   ("virtio_net_ctrl_mq", virtio_net_ctrl_mq)])%list.
End Virtio_net.

(** ** [linux/virtio_pci.h] *)

Module Virtio_pci.
Definition structs_virtio_pci_cap : list (string * cty) :=
  let virtio_pci_cap := Struct [("cap_vndr", __u8); ("cap_next", __u8); ("cap_len", __u8);
   ("cfg_type", __u8); ("bar", __u8); ("padding", Arr 3 __u8); ("offset", __le32);
   ("length", __le32)] in
  [
  ("virtio_pci_cap", virtio_pci_cap);
  ("virtio_pci_notify_cap", Struct [("cap", virtio_pci_cap); ("notify_off_multiplier", __le32)]);
  ("virtio_pci_common_cfg", Struct [("device_feature_select", __le32);
   ("device_feature", __le32); ("guest_feature_select", __le32); ("guest_feature", __le32);
   ("msix_config", __le16); ("num_queues", __le16); ("device_status", __u8);
   ("config_generation", __u8); ("queue_select", __le16); ("queue_size", __le16);
   ("queue_msix_vector", __le16); ("queue_enable", __le16); ("queue_notify_off", __le16);
   ("queue_desc_lo", __le32); ("queue_desc_hi", __le32); ("queue_avail_lo", __le32);
   ("queue_avail_hi", __le32); ("queue_used_lo", __le32); ("queue_used_hi", __le32)]);
  ("virtio_pci_cfg_cap", Struct [("cap", virtio_pci_cap); ("pci_cfg_data", Arr 4 __u8)])].
Definition virtio_pci_types : list (string * cty) := structs_virtio_pci_cap.
End Virtio_pci.

(** ** [linux/virtio_scsi.h] *)

Module Virtio_scsi.
Definition VIRTIO_SCSI_CDB_SIZE : Z := 32.
Definition VIRTIO_SCSI_SENSE_SIZE : Z := 96.
Definition structs_virtio_scsi_cmd_req : list (string * cty) :=
  [
  ("virtio_scsi_cmd_req", Packed [("lun", Arr 8 __u8); ("tag", Virtio_types.__virtio64);
   ("task_attr", __u8); ("prio", __u8); ("crn", __u8); ("cdb", Arr VIRTIO_SCSI_CDB_SIZE __u8)]);
  ("virtio_scsi_cmd_req_pi", Packed [("lun", Arr 8 __u8); ("tag", Virtio_types.__virtio64);
   ("task_attr", __u8); ("prio", __u8); ("crn", __u8); ("pi_bytesout", Virtio_types.__virtio32);
   ("pi_bytesin", Virtio_types.__virtio32); ("cdb", Arr VIRTIO_SCSI_CDB_SIZE __u8)]);
  ("virtio_scsi_cmd_resp", Packed [("sense_len", Virtio_types.__virtio32);
   ("resid", Virtio_types.__virtio32); ("status_qualifier", Virtio_types.__virtio16);
   ("status", __u8); ("response", __u8); ("sense", Arr VIRTIO_SCSI_SENSE_SIZE __u8)]);
  ("virtio_scsi_ctrl_tmf_req", Packed [("type", Virtio_types.__virtio32);
   ("subtype", Virtio_types.__virtio32); ("lun", Arr 8 __u8); ("tag", Virtio_types.__virtio64)]);
  ("virtio_scsi_ctrl_tmf_resp", Packed [("response", __u8)]);
  ("virtio_scsi_ctrl_an_req", Packed [("type", Virtio_types.__virtio32); ("lun", Arr 8 __u8);
   ("event_requested", Virtio_types.__virtio32)]);
  ("virtio_scsi_ctrl_an_resp", Packed [("event_actual", Virtio_types.__virtio32);
   ("response", __u8)]);
  ("virtio_scsi_event", Packed [("event", Virtio_types.__virtio32); ("lun", Arr 8 __u8);
   ("reason", Virtio_types.__virtio32)]);
  ("virtio_scsi_config", Packed [("num_queues", __u32); ("seg_max", __u32);
   ("max_sectors", __u32); ("cmd_per_lun", __u32); ("event_info_size", __u32);
   ("sense_size", __u32); ("cdb_size", __u32); ("max_channel", __u16); ("max_target", __u16);
   ("max_lun", __u32)])].
Definition virtio_scsi_types : list (string * cty) := structs_virtio_scsi_cmd_req.
End Virtio_scsi.

(** ** [linux/virtio_vsock.h] *)

Module Virtio_vsock.
Definition virtio_vsock_config : cty := Packed [("guest_cid", __le64)].
Definition structs_virtio_vsock_event : list (string * cty) :=
  [
  ("virtio_vsock_event", Packed [("id", __le32)]);
  ("virtio_vsock_hdr", Packed [("src_cid", __le64); ("dst_cid", __le64); ("src_port", __le32);
   ("dst_port", __le32); ("len", __le32); ("type", __le16); ("op", __le16); ("flags", __le32);
   ("buf_alloc", __le32); ("fwd_cnt", __le32)])].
Definition virtio_vsock_types : list (string * cty) :=
  ([("virtio_vsock_config", virtio_vsock_config)] ++ structs_virtio_vsock_event)%list.
End Virtio_vsock.

(** ** [xen/evtchn.h] *)

Module Xen_evtchn.
Definition ioctl_evtchn_bind_virq : cty := Struct [("virq", uint)].
Definition ioctl_evtchn_bind_interdomain : cty :=
  Struct [("remote_domain", uint); ("remote_port", uint)].
Definition ioctl_evtchn_bind_unbound_port : cty := Struct [("remote_domain", uint)].
Definition ioctl_evtchn_unbind : cty := Struct [("port", uint)].
Definition ioctl_evtchn_notify : cty := Struct [("port", uint)].
Definition xen_evtchn_types : list (string * cty) :=
  ([("ioctl_evtchn_bind_virq", ioctl_evtchn_bind_virq); ("ioctl_evtchn_bind_interdomain",
   ioctl_evtchn_bind_interdomain); ("ioctl_evtchn_bind_unbound_port",
   ioctl_evtchn_bind_unbound_port); ("ioctl_evtchn_unbind", ioctl_evtchn_unbind);
   ("ioctl_evtchn_notify", ioctl_evtchn_notify)])%list.
Definition xen_evtchn_ioctls : list command := [
  _IOC_of "IOCTL_EVTCHN_BIND_VIRQ" _IOC_NONE (chr "E") 0 ioctl_evtchn_bind_virq;
  _IOC_of "IOCTL_EVTCHN_BIND_INTERDOMAIN" _IOC_NONE (chr "E") 1 ioctl_evtchn_bind_interdomain;
  _IOC_of "IOCTL_EVTCHN_BIND_UNBOUND_PORT" _IOC_NONE (chr "E") 2 ioctl_evtchn_bind_unbound_port;
  _IOC_of "IOCTL_EVTCHN_UNBIND" _IOC_NONE (chr "E") 3 ioctl_evtchn_unbind;
  _IOC_of "IOCTL_EVTCHN_NOTIFY" _IOC_NONE (chr "E") 4 ioctl_evtchn_notify;
  _IO "IOCTL_EVTCHN_RESET" (chr "E") 5].
End Xen_evtchn.

(** ** [xen/gntalloc.h] *)

Module Xen_gntalloc.
Definition ioctl_gntalloc_alloc_gref : cty :=
  Struct [("domid", __u16); ("flags", __u16); ("count", __u32); ("index", __u64);
   ("gref_ids", Arr 1 __u32)].
Definition ioctl_gntalloc_dealloc_gref : cty := Struct [("index", __u64); ("count", __u32)].
Definition ioctl_gntalloc_unmap_notify : cty :=
  Struct [("index", __u64); ("action", __u32); ("event_channel_port", __u32)].
Definition xen_gntalloc_types : list (string * cty) :=
  ([("ioctl_gntalloc_alloc_gref", ioctl_gntalloc_alloc_gref); ("ioctl_gntalloc_dealloc_gref",
   ioctl_gntalloc_dealloc_gref); ("ioctl_gntalloc_unmap_notify",
   ioctl_gntalloc_unmap_notify)])%list.
Definition xen_gntalloc_ioctls : list command := [
  _IOC_of "IOCTL_GNTALLOC_ALLOC_GREF" _IOC_NONE (chr "G") 5 ioctl_gntalloc_alloc_gref;
  _IOC_of "IOCTL_GNTALLOC_DEALLOC_GREF" _IOC_NONE (chr "G") 6 ioctl_gntalloc_dealloc_gref;
  _IOC_of "IOCTL_GNTALLOC_SET_UNMAP_NOTIFY" _IOC_NONE (chr "G") 7 ioctl_gntalloc_unmap_notify].
End Xen_gntalloc.

(** ** [xen/gntdev.h] *)

Module Xen_gntdev.
Definition ioctl_gntdev_grant_ref : cty := Struct [("domid", __u32); ("ref", __u32)].
Definition ioctl_gntdev_map_grant_ref : cty :=
  Struct [("count", __u32); ("pad", __u32); ("index", __u64);
   ("refs", Arr 1 ioctl_gntdev_grant_ref)].
Definition ioctl_gntdev_unmap_grant_ref : cty :=
  Struct [("index", __u64); ("count", __u32); ("pad", __u32)].
Definition ioctl_gntdev_get_offset_for_vaddr : cty :=
  Struct [("vaddr", __u64); ("offset", __u64); ("count", __u32); ("pad", __u32)].
Definition ioctl_gntdev_set_max_grants : cty := Struct [("count", __u32)].
Definition ioctl_gntdev_unmap_notify : cty :=
  Struct [("index", __u64); ("action", __u32); ("event_channel_port", __u32)].
Definition xen_gntdev_types : list (string * cty) :=
  ([("ioctl_gntdev_grant_ref", ioctl_gntdev_grant_ref); ("ioctl_gntdev_map_grant_ref",
   ioctl_gntdev_map_grant_ref); ("ioctl_gntdev_unmap_grant_ref",
   ioctl_gntdev_unmap_grant_ref); ("ioctl_gntdev_get_offset_for_vaddr",
   ioctl_gntdev_get_offset_for_vaddr); ("ioctl_gntdev_set_max_grants",
   ioctl_gntdev_set_max_grants); ("ioctl_gntdev_unmap_notify",
   ioctl_gntdev_unmap_notify)])%list.
Definition xen_gntdev_ioctls : list command := [
  _IOC_of "IOCTL_GNTDEV_MAP_GRANT_REF" _IOC_NONE (chr "G") 0 ioctl_gntdev_map_grant_ref;
  _IOC_of "IOCTL_GNTDEV_UNMAP_GRANT_REF" _IOC_NONE (chr "G") 1 ioctl_gntdev_unmap_grant_ref;
  _IOC_of "IOCTL_GNTDEV_GET_OFFSET_FOR_VADDR" _IOC_NONE (chr "G") 2 ioctl_gntdev_get_offset_for_vaddr;
  _IOC_of "IOCTL_GNTDEV_SET_MAX_GRANTS" _IOC_NONE (chr "G") 3 ioctl_gntdev_set_max_grants;
  _IOC_of "IOCTL_GNTDEV_SET_UNMAP_NOTIFY" _IOC_NONE (chr "G") 7 ioctl_gntdev_unmap_notify].
End Xen_gntdev.

(** ** [xen/privcmd.h] *)

Module Xen_privcmd.
Definition structs_privcmd_hypercall : list (string * cty) :=
  [
  ("privcmd_hypercall", Struct [("op", __u64); ("arg", Arr 5 __u64)]);
  ("privcmd_mmap_entry", Struct [("va", __u64); ("mfn", __u64); ("npages", __u64)])].
Definition xen_privcmd_types : list (string * cty) := structs_privcmd_hypercall.
Definition xen_privcmd_ioctls : list command := [
  _IOC_of "IOCTL_PRIVCMD_HYPERCALL" _IOC_NONE (chr "P") 0 (type_in structs_privcmd_hypercall "privcmd_hypercall")].
End Xen_privcmd.
