(* ===== verification/AbiProto.v ===== *)
(** * ABI of network protocols and packet filters

    The structures and unions of these headers of [kernel-headers], one module per
    header: the larger ones as types of their own, those that stand in a row as a
    block; and the ioctl commands with their arguments. *)
From S2P Require Import Prelude.
From S2P Require Import CLayout.
From S2P Require Import Ioctl.
From S2P Require Import AbiStorage.
From S2P Require Import AbiNet.
#[local] Open Scope string_scope.

(** ** [linux/atalk.h] *)

Module Atalk.
Definition structs_atalk_addr : list (string * cty) :=
  let atalk_addr := Struct [("s_net", __be16); ("s_node", __u8)] in
  [
  ("atalk_addr", atalk_addr);
  ("sockaddr_at", Struct [("sat_family", __kernel_sa_family_t); ("sat_port", __u8);
   ("sat_addr", atalk_addr); ("sat_zero", Arr 8 char)]);
  ("atalk_netrange", Struct [("nr_phase", __u8); ("nr_firstnet", __be16); ("nr_lastnet", __be16)])].
Definition atalk_types : list (string * cty) := structs_atalk_addr.
End Atalk.

(** ** [linux/ax25.h] *)

Module Ax25.
Definition AX25_MAX_DIGIS : Z := 8.
Definition structs_ax25_address : list (string * cty) :=
  let ax25_address := Struct [("ax25_call", Arr 7 char)] in
  [
  ("ax25_address", ax25_address);
  ("sockaddr_ax25", Struct [("sax25_family", __kernel_sa_family_t); ("sax25_call", ax25_address);
   ("sax25_ndigis", int)])].
Definition ax25_address : cty := type_in structs_ax25_address "ax25_address".
Definition sockaddr_ax25 : cty := type_in structs_ax25_address "sockaddr_ax25".
Definition structs_full_sockaddr_ax25 : list (string * cty) :=
  [
  ("full_sockaddr_ax25", Struct [("fsa_ax25", sockaddr_ax25);
   ("fsa_digipeater", Arr AX25_MAX_DIGIS ax25_address)]);
  ("ax25_routes_struct", Struct [("port_addr", ax25_address); ("dest_addr", ax25_address);
   ("digi_count", uchar); ("digi_addr", Arr AX25_MAX_DIGIS ax25_address)]);
  ("ax25_route_opt_struct", Struct [("port_addr", ax25_address); ("dest_addr", ax25_address);
   ("cmd", int); ("arg", int)]);
  ("ax25_ctl_struct", Struct [("port_addr", ax25_address); ("source_addr", ax25_address);
   ("dest_addr", ax25_address); ("cmd", uint); ("arg", ulong); ("digi_count", uchar);
   ("digi_addr", Arr AX25_MAX_DIGIS ax25_address)]);
  ("ax25_info_struct_deprecated", Struct [("n2", uint); ("n2count", uint); ("t1", uint);
   ("t1timer", uint); ("t2", uint); ("t2timer", uint); ("t3", uint); ("t3timer", uint);
   ("idle", uint); ("idletimer", uint); ("state", uint); ("rcv_q", uint); ("snd_q", uint)]);
  ("ax25_info_struct", Struct [("n2", uint); ("n2count", uint); ("t1", uint); ("t1timer", uint);
   ("t2", uint); ("t2timer", uint); ("t3", uint); ("t3timer", uint); ("idle", uint);
   ("idletimer", uint); ("state", uint); ("rcv_q", uint); ("snd_q", uint); ("vs", uint);
   ("vr", uint); ("va", uint); ("vs_max", uint); ("paclen", uint); ("window", uint)]);
  ("ax25_fwd_struct", Struct [("port_from", ax25_address); ("port_to", ax25_address)])].
Definition ax25_types : list (string * cty) :=
  (structs_ax25_address ++ structs_full_sockaddr_ax25)%list.
End Ax25.

(** ** [linux/b1lli.h] *)

Module B1lli.
Definition structs_avmb1_t4file : list (string * cty) :=
  let avmb1_t4file := Struct [("len", int); ("data", ptr)] in
  [
  ("avmb1_t4file", avmb1_t4file);
  ("avmb1_loaddef", Struct [("contr", int); ("t4file", avmb1_t4file)]);
  ("avmb1_loadandconfigdef", Struct [("contr", int); ("t4file", avmb1_t4file);
   ("t4config", avmb1_t4file)]);
  ("avmb1_resetdef", Struct [("contr", int)]);
  ("avmb1_getdef", Struct [("contr", int); ("cardtype", int); ("cardstate", int)]);
  ("avmb1_carddef", Struct [("port", int); ("irq", int)])].
Definition avmb1_extcarddef : cty :=
  Struct [("port", int); ("irq", int); ("cardtype", int); ("cardnr", int)].
Definition b1lli_types : list (string * cty) :=
  (structs_avmb1_t4file ++ [("avmb1_extcarddef", avmb1_extcarddef)])%list.
End B1lli.

(** ** [linux/baycom.h] *)

Module Baycom.
Definition structs_baycom_debug_data : list (string * cty) :=
  let baycom_debug_data := Struct [("debug1", ulong); ("debug2", ulong); ("debug3", long)] in
  [
  ("baycom_debug_data", baycom_debug_data);
  ("baycom_ioctl", Struct [("cmd", int); ("data", Union [("dbg", baycom_debug_data)])])].
Definition baycom_types : list (string * cty) := structs_baycom_debug_data.
End Baycom.

(** ** [linux/bcm933xx_hcs.h] *)

Module Bcm933xx_hcs.
Definition bcm_hcs : cty :=
  Struct [("magic", __u16); ("control", __u16); ("rev_maj", __u16); ("rev_min", __u16);
   ("build_date", __u32); ("filelen", __u32); ("ldaddress", __u32); ("filename", Arr 64 char);
   ("hcs", __u16); ("her_znaet_chto", __u16); ("crc", __u32)].
Definition bcm933xx_hcs_types : list (string * cty) := [("bcm_hcs", bcm_hcs)].
End Bcm933xx_hcs.

(** ** [linux/bpqether.h] *)

Module Bpqether.
Definition bpq_ethaddr : cty := Struct [("destination", Arr 6 uchar); ("accept", Arr 6 uchar)].
Definition bpq_req : cty :=
  Struct [("cmd", int); ("speed", int); ("clockmode", int); ("txdelay", int); ("persist", uchar);
   ("slotime", int); ("squeldelay", int); ("dmachan", int); ("irq", int)].
Definition bpqether_types : list (string * cty) :=
  ([("bpq_ethaddr", bpq_ethaddr); ("bpq_req", bpq_req)])%list.
End Bpqether.

(** ** [linux/caif/caif_socket.h] *)

Module Caif_caif_socket.
Definition sockaddr_caif : cty :=
  Struct [("family", __kernel_sa_family_t); ("u", Union [("at", Struct [("type", __u8)]);
   ("util", Struct [("service", Arr 16 char)]); ("dgm", Union [("connection_id", __u32);
   ("nsapi", __u8)]); ("rfm", Struct [("connection_id", __u32); ("volume", Arr 16 char)]);
   ("dbg", Struct [("type", __u8); ("service", __u8)])])].
Definition caif_caif_socket_types : list (string * cty) := [("sockaddr_caif", sockaddr_caif)].
End Caif_caif_socket.

(** ** [linux/can.h] *)

Module Can.
Definition CAN_MAX_DLEN : Z := 8.
Definition CANFD_MAX_DLEN : Z := 64.
Definition canid_t : cty := __u32.
Definition can_err_mask_t : cty := __u32.
Definition can_frame : cty :=
  Struct [("can_id", canid_t); ("can_dlc", __u8); ("__pad", __u8); ("__res0", __u8);
   ("__res1", __u8); ("data", Aligned 8 (Arr CAN_MAX_DLEN __u8))].
Definition canfd_frame : cty :=
  Struct [("can_id", canid_t); ("len", __u8); ("flags", __u8); ("__res0", __u8);
   ("__res1", __u8); ("data", Aligned 8 (Arr CANFD_MAX_DLEN __u8))].
Definition structs_sockaddr_can : list (string * cty) :=
  [
  ("sockaddr_can", Struct [("can_family", __kernel_sa_family_t); ("can_ifindex", int);
   ("can_addr", Union [("tp", Struct [("rx_id", canid_t); ("tx_id", canid_t)])])]);
  ("can_filter", Struct [("can_id", canid_t); ("can_mask", canid_t)])].
Definition can_types : list (string * cty) :=
  ([("canid_t", canid_t); ("can_err_mask_t", can_err_mask_t); ("can_frame", can_frame);
   ("canfd_frame", canfd_frame)] ++ structs_sockaddr_can)%list.
End Can.

(** ** [linux/can/bcm.h] *)

Module Can_bcm.
Definition structs_bcm_timeval : list (string * cty) :=
  let bcm_timeval := Struct [("tv_sec", long); ("tv_usec", long)] in
  [
  ("bcm_timeval", bcm_timeval);
  ("bcm_msg_head", Struct [("opcode", __u32); ("flags", __u32); ("count", __u32);
   ("ival1", bcm_timeval); ("ival2", bcm_timeval); ("can_id", Can.canid_t); ("nframes", __u32);
   ("frames", Arr 0 Can.can_frame)])].
Definition can_bcm_types : list (string * cty) := structs_bcm_timeval.
End Can_bcm.

(** ** [linux/can/gw.h] *)

Module Can_gw.
Definition rtcanmsg : cty := Struct [("can_family", __u8); ("gwtype", __u8); ("flags", __u16)].
Definition cgw_frame_mod : cty := Packed [("cf", Can.can_frame); ("modtype", __u8)].
Definition structs_cgw_csum_xor : list (string * cty) :=
  [
  ("cgw_csum_xor", Packed [("from_idx", __s8); ("to_idx", __s8); ("result_idx", __s8);
   ("init_xor_val", __u8)]);
  ("cgw_csum_crc8", Packed [("from_idx", __s8); ("to_idx", __s8); ("result_idx", __s8);
   ("init_crc_val", __u8); ("final_xor_val", __u8); ("crctab", Arr 256 __u8); ("profile", __u8);
   ("profile_data", Arr 20 __u8)])].
Definition can_gw_types : list (string * cty) :=
  ([("rtcanmsg", rtcanmsg); ("cgw_frame_mod", cgw_frame_mod)] ++ structs_cgw_csum_xor)%list.
End Can_gw.

(** ** [linux/can/netlink.h] *)

Module Can_netlink.
Definition structs_can_bittiming : list (string * cty) :=
  [
  ("can_bittiming", Struct [("bitrate", __u32); ("sample_point", __u32); ("tq", __u32);
   ("prop_seg", __u32); ("phase_seg1", __u32); ("phase_seg2", __u32); ("sjw", __u32);
   ("brp", __u32)]);
  ("can_bittiming_const", Struct [("name", Arr 16 char); ("tseg1_min", __u32);
   ("tseg1_max", __u32); ("tseg2_min", __u32); ("tseg2_max", __u32); ("sjw_max", __u32);
   ("brp_min", __u32); ("brp_max", __u32); ("brp_inc", __u32)]);
  ("can_clock", Struct [("freq", __u32)])].
Definition structs_can_berr_counter : list (string * cty) :=
  [
  ("can_berr_counter", Struct [("txerr", __u16); ("rxerr", __u16)]);
  ("can_ctrlmode", Struct [("mask", __u32); ("flags", __u32)])].
Definition can_device_stats : cty :=
  Struct [("bus_error", __u32); ("error_warning", __u32); ("error_passive", __u32);
   ("bus_off", __u32); ("arbitration_lost", __u32); ("restarts", __u32)].
Definition can_netlink_types : list (string * cty) :=
  (structs_can_bittiming ++ structs_can_berr_counter ++ [("can_device_stats",
   can_device_stats)])%list.
End Can_netlink.

(** ** [linux/cycx_cfm.h] *)

Module Cycx_cfm.
Definition CFM_DESCR_LEN : Z := 256.
Definition CFM_MAX_CYCX : Z := 1.
Definition structs_cycx_fw_info : list (string * cty) :=
  let cycx_fw_info := Struct [("codeid", ushort); ("version", ushort);
   ("adapter", Arr CFM_MAX_CYCX ushort); ("memsize", ulong); ("reserved", Arr 2 ushort);
   ("startoffs", ushort); ("winoffs", ushort); ("codeoffs", ushort); ("codesize", ulong);
   ("dataoffs", ushort); ("datasize", ulong)] in
  [
  ("cycx_fw_info", cycx_fw_info);
  ("cycx_firmware", Struct [("signature", Arr 80 char); ("version", ushort);
   ("checksum", ushort); ("reserved", Arr 6 ushort); ("descr", Arr CFM_DESCR_LEN char);
   ("info", cycx_fw_info); ("image", Arr 0 uchar)]);
  ("cycx_fw_header", Struct [("reset_size", ulong); ("data_size", ulong); ("code_size", ulong)])].
Definition cycx_cfm_types : list (string * cty) := structs_cycx_fw_info.
End Cycx_cfm.

(** ** [linux/dcbnl.h] *)

Module Dcbnl.
Definition IEEE_8021QAZ_MAX_TCS : Z := 8.
Definition CEE_DCBX_MAX_PGS : Z := 8.
Definition structs_ieee_ets : list (string * cty) :=
  [
  ("ieee_ets", Struct [("willing", __u8); ("ets_cap", __u8); ("cbs", __u8);
   ("tc_tx_bw", Arr IEEE_8021QAZ_MAX_TCS __u8); ("tc_rx_bw", Arr IEEE_8021QAZ_MAX_TCS __u8);
   ("tc_tsa", Arr IEEE_8021QAZ_MAX_TCS __u8); ("prio_tc", Arr IEEE_8021QAZ_MAX_TCS __u8);
   ("tc_reco_bw", Arr IEEE_8021QAZ_MAX_TCS __u8); ("tc_reco_tsa", Arr IEEE_8021QAZ_MAX_TCS __u8);
   ("reco_prio_tc", Arr IEEE_8021QAZ_MAX_TCS __u8)]);
  ("ieee_maxrate", Struct [("tc_maxrate", Arr IEEE_8021QAZ_MAX_TCS __u64)])].
Definition structs_ieee_qcn : list (string * cty) :=
  [
  ("ieee_qcn", Struct [("rpg_enable", Arr IEEE_8021QAZ_MAX_TCS __u8);
   ("rppp_max_rps", Arr IEEE_8021QAZ_MAX_TCS __u32);
   ("rpg_time_reset", Arr IEEE_8021QAZ_MAX_TCS __u32);
   ("rpg_byte_reset", Arr IEEE_8021QAZ_MAX_TCS __u32);
   ("rpg_threshold", Arr IEEE_8021QAZ_MAX_TCS __u32);
   ("rpg_max_rate", Arr IEEE_8021QAZ_MAX_TCS __u32);
   ("rpg_ai_rate", Arr IEEE_8021QAZ_MAX_TCS __u32);
   ("rpg_hai_rate", Arr IEEE_8021QAZ_MAX_TCS __u32); ("rpg_gd", Arr IEEE_8021QAZ_MAX_TCS __u32);
   ("rpg_min_dec_fac", Arr IEEE_8021QAZ_MAX_TCS __u32);
   ("rpg_min_rate", Arr IEEE_8021QAZ_MAX_TCS __u32);
   ("cndd_state_machine", Arr IEEE_8021QAZ_MAX_TCS __u32)]);
  ("ieee_qcn_stats", Struct [("rppp_rp_centiseconds", Arr IEEE_8021QAZ_MAX_TCS __u64);
   ("rppp_created_rps", Arr IEEE_8021QAZ_MAX_TCS __u32)]);
  ("ieee_pfc", Struct [("pfc_cap", __u8); ("pfc_en", __u8); ("mbc", __u8); ("delay", __u16);
   ("requests", Arr IEEE_8021QAZ_MAX_TCS __u64);
   ("indications", Arr IEEE_8021QAZ_MAX_TCS __u64)])].
Definition structs_cee_pg : list (string * cty) :=
  [
  ("cee_pg", Struct [("willing", __u8); ("error", __u8); ("pg_en", __u8);
   ("tcs_supported", __u8); ("pg_bw", Arr CEE_DCBX_MAX_PGS __u8);
   ("prio_pg", Arr CEE_DCBX_MAX_PGS __u8)]);
  ("cee_pfc", Struct [("willing", __u8); ("error", __u8); ("pfc_en", __u8);
   ("tcs_supported", __u8)])].
Definition structs_dcb_app : list (string * cty) :=
  [
  ("dcb_app", Struct [("selector", __u8); ("priority", __u8); ("protocol", __u16)]);
  ("dcb_peer_app_info", Struct [("willing", __u8); ("error", __u8)]);
  ("dcbmsg", Struct [("dcb_family", __u8); ("cmd", __u8); ("dcb_pad", __u16)])].
Definition dcbnl_types : list (string * cty) :=
  (structs_ieee_ets ++ structs_ieee_qcn ++ structs_cee_pg ++ structs_dcb_app)%list.
End Dcbnl.

(** ** [linux/dccp.h] *)

Module Dccp.
Definition structs_dccp_hdr_ext : list (string * cty) :=
  let dccp_hdr_ack_bits := Struct [("dccph_reserved1", __be16); ("dccph_ack_nr_high", __be16);
   ("dccph_ack_nr_low", __be32)] in
  [
  ("dccp_hdr_ext", Struct [("dccph_seq_low", __be32)]);
  ("dccp_hdr_request", Struct [("dccph_req_service", __be32)]);
  ("dccp_hdr_ack_bits", dccp_hdr_ack_bits);
  ("dccp_hdr_response", Struct [("dccph_resp_ack", dccp_hdr_ack_bits);
   ("dccph_resp_service", __be32)]);
  ("dccp_hdr_reset", Struct [("dccph_reset_ack", dccp_hdr_ack_bits); ("dccph_reset_code", __u8);
   ("dccph_reset_data", Arr 3 __u8)])].
Definition dccp_types : list (string * cty) := structs_dccp_hdr_ext.
End Dccp.

(** ** [linux/fib_rules.h] *)

Module Fib_rules.
Definition structs_fib_rule_hdr : list (string * cty) :=
  [
  ("fib_rule_hdr", Struct [("family", __u8); ("dst_len", __u8); ("src_len", __u8); ("tos", __u8);
   ("table", __u8); ("res1", __u8); ("res2", __u8); ("action", __u8); ("flags", __u32)]);
  ("fib_rule_uid_range", Struct [("start", __u32); ("end", __u32)])].
Definition fib_rules_types : list (string * cty) := structs_fib_rule_hdr.
End Fib_rules.

(** ** [linux/gen_stats.h] *)

Module Gen_stats.
Definition structs_gnet_stats_basic : list (string * cty) :=
  [
  ("gnet_stats_basic", Struct [("bytes", __u64); ("packets", __u32)]);
  ("gnet_stats_basic_packed", Packed [("bytes", __u64); ("packets", __u32)]);
  ("gnet_stats_rate_est", Struct [("bps", __u32); ("pps", __u32)]);
  ("gnet_stats_rate_est64", Struct [("bps", __u64); ("pps", __u64)]);
  ("gnet_stats_queue", Struct [("qlen", __u32); ("backlog", __u32); ("drops", __u32);
   ("requeues", __u32); ("overlimits", __u32)]);
  ("gnet_estimator", Struct [("interval", schar); ("ewma_log", uchar)])].
Definition gen_stats_types : list (string * cty) := structs_gnet_stats_basic.
End Gen_stats.

(** ** [linux/genetlink.h] *)

Module Genetlink.
Definition genlmsghdr : cty := Struct [("cmd", __u8); ("version", __u8); ("reserved", __u16)].
Definition genetlink_types : list (string * cty) := [("genlmsghdr", genlmsghdr)].
End Genetlink.

(** ** [linux/hdlc/ioctl.h] *)

Module Hdlc_ioctl.
Definition structs_sync_serial_settings : list (string * cty) :=
  [
  ("sync_serial_settings", Struct [("clock_rate", uint); ("clock_type", uint);
   ("loopback", ushort)]);
  ("te1_settings", Struct [("clock_rate", uint); ("clock_type", uint); ("loopback", ushort);
   ("slot_map", uint)]);
  ("raw_hdlc_proto", Struct [("encoding", ushort); ("parity", ushort)]);
  ("fr_proto", Struct [("t391", uint); ("t392", uint); ("n391", uint); ("n392", uint);
   ("n393", uint); ("lmi", ushort); ("dce", ushort)]);
  ("fr_proto_pvc", Struct [("dlci", uint)]);
  ("fr_proto_pvc_info", Struct [("dlci", uint); ("master", Arr 16 char)]);
  ("cisco_proto", Struct [("interval", uint); ("timeout", uint)])].
Definition hdlc_ioctl_types : list (string * cty) := structs_sync_serial_settings.
End Hdlc_ioctl.

(** ** [linux/hdlcdrv.h] *)

Module Hdlcdrv.
Definition structs_hdlcdrv_params : list (string * cty) :=
  let hdlcdrv_params := Struct [("iobase", int); ("irq", int); ("dma", int); ("dma2", int);
   ("seriobase", int); ("pariobase", int); ("midiiobase", int)] in
  let hdlcdrv_channel_params := Struct [("tx_delay", int); ("tx_tail", int); ("slottime", int);
   ("ppersist", int); ("fulldup", int)] in
  let hdlcdrv_old_channel_state := Struct [("ptt", int); ("dcd", int); ("ptt_keyed", int)] in
  let hdlcdrv_channel_state := Struct [("ptt", int); ("dcd", int); ("ptt_keyed", int);
   ("tx_packets", ulong); ("tx_errors", ulong); ("rx_packets", ulong); ("rx_errors", ulong)] in
  [
  ("hdlcdrv_params", hdlcdrv_params);
  ("hdlcdrv_channel_params", hdlcdrv_channel_params);
  ("hdlcdrv_old_channel_state", hdlcdrv_old_channel_state);
  ("hdlcdrv_channel_state", hdlcdrv_channel_state);
  ("hdlcdrv_ioctl", Struct [("cmd", int); ("data", Union [("mp", hdlcdrv_params);
   ("cp", hdlcdrv_channel_params); ("cs", hdlcdrv_channel_state);
   ("ocs", hdlcdrv_old_channel_state); ("calibrate", uint); ("bits", uchar);
   ("modename", Arr 128 char); ("drivername", Arr 32 char)])])].
Definition hdlcdrv_types : list (string * cty) := structs_hdlcdrv_params.
End Hdlcdrv.

(** ** [linux/icmp.h] *)

Module Icmp.
Definition icmphdr : cty :=
  Struct [("type", __u8); ("code", __u8); ("checksum", __sum16);
   ("un", Union [("echo", Struct [("id", __be16); ("sequence", __be16)]); ("gateway", __be32);
   ("frag", Struct [("__unused", __be16); ("mtu", __be16)])])].
Definition icmp_filter : cty := Struct [("data", __u32)].
Definition icmp_types : list (string * cty) :=
  ([("icmphdr", icmphdr); ("icmp_filter", icmp_filter)])%list.
End Icmp.

(** ** [linux/icmpv6.h] *)

Module Icmpv6.
Definition icmpv6_echo : cty := Struct [("identifier", __be16); ("sequence", __be16)].
Definition icmp6_filter : cty := Struct [("data", Arr 8 __u32)].
Definition icmpv6_types : list (string * cty) :=
  ([("icmpv6_echo", icmpv6_echo); ("icmp6_filter", icmp6_filter)])%list.
End Icmpv6.

(** ** [linux/if.h] *)

Module If.
Definition structs_ifmap : list (string * cty) :=
  [
  ("ifmap", Struct [("mem_start", ulong); ("mem_end", ulong); ("base_addr", ushort);
   ("irq", uchar); ("dma", uchar); ("port", uchar)]);
  ("if_settings", Struct [("type", uint); ("size", uint); ("ifs_ifsu", Union [("raw_hdlc", ptr);
   ("cisco", ptr); ("fr", ptr); ("fr_pvc", ptr); ("fr_pvc_info", ptr); ("sync", ptr);
   ("te1", ptr)])])].
Definition ifconf : cty :=
  Struct [("ifc_len", int); ("ifc_ifcu", Union [("ifcu_buf", ptr); ("ifcu_req", ptr)])].
Definition if_types : list (string * cty) :=
  (structs_ifmap ++ [("ifconf", ifconf)])%list.
End If.

(** ** [linux/if_addr.h] *)

Module If_addr.
Definition ifaddrmsg : cty :=
  Struct [("ifa_family", __u8); ("ifa_prefixlen", __u8); ("ifa_flags", __u8);
   ("ifa_scope", __u8); ("ifa_index", __u32)].
Definition ifa_cacheinfo : cty :=
  Struct [("ifa_prefered", __u32); ("ifa_valid", __u32); ("cstamp", __u32); ("tstamp", __u32)].
Definition if_addr_types : list (string * cty) :=
  ([("ifaddrmsg", ifaddrmsg); ("ifa_cacheinfo", ifa_cacheinfo)])%list.
End If_addr.

(** ** [linux/if_addrlabel.h] *)

Module If_addrlabel.
Definition ifaddrlblmsg : cty :=
  Struct [("ifal_family", __u8); ("__ifal_reserved", __u8); ("ifal_prefixlen", __u8);
   ("ifal_flags", __u8); ("ifal_index", __u32); ("ifal_seq", __u32)].
Definition if_addrlabel_types : list (string * cty) := [("ifaddrlblmsg", ifaddrlblmsg)].
End If_addrlabel.

(** ** [linux/if_alg.h] *)

Module If_alg.
Definition structs_sockaddr_alg : list (string * cty) :=
  [
  ("sockaddr_alg", Struct [("salg_family", __u16); ("salg_type", Arr 14 __u8);
   ("salg_feat", __u32); ("salg_mask", __u32); ("salg_name", Arr 64 __u8)]);
  ("af_alg_iv", Struct [("ivlen", __u32); ("iv", Arr 0 __u8)])].
Definition if_alg_types : list (string * cty) := structs_sockaddr_alg.
End If_alg.

(** ** [linux/if_arcnet.h] *)

Module If_arcnet.
Definition arc_rfc1201 : cty :=
  Struct [("proto", __u8); ("split_flag", __u8); ("sequence", __be16); ("payload", Arr 0 __u8)].
Definition arc_rfc1051 : cty := Struct [("proto", __u8); ("payload", Arr 0 __u8)].
Definition arc_eth_encap : cty :=
  Struct [("proto", __u8); ("eth", If_ether.ethhdr); ("payload", Arr 0 __u8)].
Definition structs_arc_cap : list (string * cty) :=
  [
  ("arc_cap", Struct [("proto", __u8); ("cookie", Arr (sizeof lp64 int) __u8);
   ("mes", Union [("ack", __u8); ("raw", Arr 0 __u8)])]);
  ("arc_hardware", Struct [("source", __u8); ("dest", __u8); ("offset", Arr 2 __u8)])].
Definition arc_cap : cty := type_in structs_arc_cap "arc_cap".
Definition arc_hardware : cty := type_in structs_arc_cap "arc_hardware".
Definition archdr : cty :=
  Struct [("hard", arc_hardware); ("soft", Union [("rfc1201", arc_rfc1201);
   ("rfc1051", arc_rfc1051); ("eth_encap", arc_eth_encap); ("cap", arc_cap);
   ("raw", Arr 0 __u8)])].
Definition if_arcnet_types : list (string * cty) :=
  ([("arc_rfc1201", arc_rfc1201); ("arc_rfc1051", arc_rfc1051); ("arc_eth_encap",
   arc_eth_encap)] ++ structs_arc_cap ++ [("archdr", archdr)])%list.
End If_arcnet.

(** ** [linux/if_bonding.h] *)

Module If_bonding.
Definition structs_ifbond : list (string * cty) :=
  [
  ("ifbond", Struct [("bond_mode", __s32); ("num_slaves", __s32); ("miimon", __s32)]);
  ("ifslave", Struct [("slave_id", __s32); ("slave_name", Arr 16 char); ("link", __s8);
   ("state", __s8); ("link_failure_count", __u32)]);
  ("ad_info", Struct [("aggregator_id", __u16); ("ports", __u16); ("actor_key", __u16);
   ("partner_key", __u16); ("partner_system", Arr 6 __u8)])].
Definition if_bonding_types : list (string * cty) := structs_ifbond.
End If_bonding.

(** ** [linux/if_bridge.h] *)

Module If_bridge.
Definition structs___bridge_info : list (string * cty) :=
  [
  ("__bridge_info", Struct [("designated_root", __u64); ("bridge_id", __u64);
   ("root_path_cost", __u32); ("max_age", __u32); ("hello_time", __u32);
   ("forward_delay", __u32); ("bridge_max_age", __u32); ("bridge_hello_time", __u32);
   ("bridge_forward_delay", __u32); ("topology_change", __u8);
   ("topology_change_detected", __u8); ("root_port", __u8); ("stp_enabled", __u8);
   ("ageing_time", __u32); ("gc_interval", __u32); ("hello_timer_value", __u32);
   ("tcn_timer_value", __u32); ("topology_change_timer_value", __u32);
   ("gc_timer_value", __u32)]);
  ("__port_info", Struct [("designated_root", __u64); ("designated_bridge", __u64);
   ("port_id", __u16); ("designated_port", __u16); ("path_cost", __u32);
   ("designated_cost", __u32); ("state", __u8); ("top_change_ack", __u8);
   ("config_pending", __u8); ("unused0", __u8); ("message_age_timer_value", __u32);
   ("forward_delay_timer_value", __u32); ("hold_timer_value", __u32)]);
  ("__fdb_entry", Struct [("mac_addr", Arr 6 __u8); ("port_no", __u8); ("is_local", __u8);
   ("ageing_timer_value", __u32); ("port_hi", __u8); ("pad0", __u8); ("unused", __u16)])].
Definition bridge_vlan_info : cty := Struct [("flags", __u16); ("vid", __u16)].
Definition structs_br_port_msg : list (string * cty) :=
  [
  ("br_port_msg", Struct [("family", __u8); ("ifindex", __u32)]);
  ("br_mdb_entry", Struct [("ifindex", __u32); ("state", __u8); ("vid", __u16);
   ("addr", Struct [("u", Union [("ip4", __be32); ("ip6", In6.in6_addr)]); ("proto", __be16)])])].
Definition if_bridge_types : list (string * cty) :=
  (structs___bridge_info ++ [("bridge_vlan_info", bridge_vlan_info)] ++
   structs_br_port_msg)%list.
End If_bridge.

(** ** [linux/if_eql.h] *)

Module If_eql.
Definition master_config : cty :=
  Struct [("master_name", Arr 16 char); ("max_slaves", int); ("min_slaves", int)].
Definition structs_master_config_t : list (string * cty) :=
  [
  ("master_config_t", master_config);
  ("slave_config", Struct [("slave_name", Arr 16 char); ("priority", long)])].
Definition slave_config : cty := type_in structs_master_config_t "slave_config".
Definition structs_slave_config_t : list (string * cty) :=
  [
  ("slave_config_t", slave_config);
  ("slaving_request", Struct [("slave_name", Arr 16 char); ("priority", long)])].
Definition slaving_request : cty := type_in structs_slave_config_t "slaving_request".
Definition slaving_request_t : cty := slaving_request.
Definition if_eql_types : list (string * cty) :=
  ([("master_config", master_config)] ++ structs_master_config_t ++ structs_slave_config_t ++
   [("slaving_request_t", slaving_request_t)])%list.
End If_eql.

(** ** [linux/if_fc.h] *)

Module If_fc.
Definition FC_ALEN : Z := 6.
Definition structs_fch_hdr : list (string * cty) :=
  [
  ("fch_hdr", Struct [("daddr", Arr FC_ALEN __u8); ("saddr", Arr FC_ALEN __u8)]);
  ("fcllc", Struct [("dsap", __u8); ("ssap", __u8); ("llc", __u8); ("protid", Arr 3 __u8);
   ("ethertype", __be16)])].
Definition if_fc_types : list (string * cty) := structs_fch_hdr.
End If_fc.

(** ** [linux/if_fddi.h] *)

Module If_fddi.
Definition FDDI_K_ALEN : Z := 6.
Definition FDDI_K_OUI_LEN : Z := 3.
Definition structs_fddi_8022_1_hdr : list (string * cty) :=
  let fddi_8022_1_hdr := Packed [("dsap", __u8); ("ssap", __u8); ("ctrl", __u8)] in
  let fddi_8022_2_hdr := Packed [("dsap", __u8); ("ssap", __u8); ("ctrl_1", __u8);
   ("ctrl_2", __u8)] in
  let fddi_snap_hdr := Packed [("dsap", __u8); ("ssap", __u8); ("ctrl", __u8);
   ("oui", Arr FDDI_K_OUI_LEN __u8); ("ethertype", __be16)] in
  [
  ("fddi_8022_1_hdr", fddi_8022_1_hdr);
  ("fddi_8022_2_hdr", fddi_8022_2_hdr);
  ("fddi_snap_hdr", fddi_snap_hdr);
  ("fddihdr", Packed [("fc", __u8); ("daddr", Arr FDDI_K_ALEN __u8);
   ("saddr", Arr FDDI_K_ALEN __u8); ("hdr", Union [("llc_8022_1", fddi_8022_1_hdr);
   ("llc_8022_2", fddi_8022_2_hdr); ("llc_snap", fddi_snap_hdr)])])].
Definition if_fddi_types : list (string * cty) := structs_fddi_8022_1_hdr.
End If_fddi.

(** ** [linux/if_frad.h] *)

Module If_frad.
Definition dlci_add : cty := Struct [("devname", Arr 16 char); ("dlci", short)].
Definition dlci_conf : cty :=
  Struct [("flags", short); ("CIR_fwd", short); ("Bc_fwd", short); ("Be_fwd", short);
   ("CIR_bwd", short); ("Bc_bwd", short); ("Be_bwd", short); ("Tc_fwd", short);
   ("Tc_bwd", short); ("Tf_max", short); ("Tb_max", short)].
Definition frad_conf : cty :=
  Struct [("station", short); ("flags", short); ("kbaud", short); ("clocking", short);
   ("mtu", short); ("T391", short); ("T392", short); ("N391", short); ("N392", short);
   ("N393", short); ("CIR_fwd", short); ("Bc_fwd", short); ("Be_fwd", short); ("CIR_bwd", short);
   ("Bc_bwd", short); ("Be_bwd", short)].
Definition if_frad_types : list (string * cty) :=
  ([("dlci_add", dlci_add); ("dlci_conf", dlci_conf); ("frad_conf", frad_conf)])%list.
End If_frad.

(** ** [linux/if_hippi.h] *)

Module If_hippi.
Definition HIPPI_OUI_LEN : Z := 3.
Definition hipnet_statistics : cty :=
  Struct [("rx_packets", int); ("tx_packets", int); ("rx_errors", int); ("tx_errors", int);
   ("rx_dropped", int); ("tx_dropped", int); ("rx_length_errors", int); ("rx_over_errors", int);
   ("rx_crc_errors", int); ("rx_frame_errors", int); ("rx_fifo_errors", int);
   ("rx_missed_errors", int); ("tx_aborted_errors", int); ("tx_carrier_errors", int);
   ("tx_fifo_errors", int); ("tx_heartbeat_errors", int); ("tx_window_errors", int)].
Definition hippi_snap_hdr : cty :=
  Packed [("dsap", __u8); ("ssap", __u8); ("ctrl", __u8); ("oui", Arr HIPPI_OUI_LEN __u8);
   ("ethertype", __be16)].
Definition if_hippi_types : list (string * cty) :=
  ([("hipnet_statistics", hipnet_statistics); ("hippi_snap_hdr", hippi_snap_hdr)])%list.
End If_hippi.

(** ** [linux/if_link.h] *)

Module If_link.
Definition rtnl_link_stats : cty :=
  Struct [("rx_packets", __u32); ("tx_packets", __u32); ("rx_bytes", __u32); ("tx_bytes", __u32);
   ("rx_errors", __u32); ("tx_errors", __u32); ("rx_dropped", __u32); ("tx_dropped", __u32);
   ("multicast", __u32); ("collisions", __u32); ("rx_length_errors", __u32);
   ("rx_over_errors", __u32); ("rx_crc_errors", __u32); ("rx_frame_errors", __u32);
   ("rx_fifo_errors", __u32); ("rx_missed_errors", __u32); ("tx_aborted_errors", __u32);
   ("tx_carrier_errors", __u32); ("tx_fifo_errors", __u32); ("tx_heartbeat_errors", __u32);
   ("tx_window_errors", __u32); ("rx_compressed", __u32); ("tx_compressed", __u32)].
Definition rtnl_link_stats64 : cty :=
  Struct [("rx_packets", __u64); ("tx_packets", __u64); ("rx_bytes", __u64); ("tx_bytes", __u64);
   ("rx_errors", __u64); ("tx_errors", __u64); ("rx_dropped", __u64); ("tx_dropped", __u64);
   ("multicast", __u64); ("collisions", __u64); ("rx_length_errors", __u64);
   ("rx_over_errors", __u64); ("rx_crc_errors", __u64); ("rx_frame_errors", __u64);
   ("rx_fifo_errors", __u64); ("rx_missed_errors", __u64); ("tx_aborted_errors", __u64);
   ("tx_carrier_errors", __u64); ("tx_fifo_errors", __u64); ("tx_heartbeat_errors", __u64);
   ("tx_window_errors", __u64); ("rx_compressed", __u64); ("tx_compressed", __u64)].
Definition rtnl_link_ifmap : cty :=
  Struct [("mem_start", __u64); ("mem_end", __u64); ("base_addr", __u64); ("irq", __u16);
   ("dma", __u8); ("port", __u8)].
Definition ifla_bridge_id : cty := Struct [("prio", Arr 2 __u8); ("addr", Arr 6 __u8)].
Definition ifla_cacheinfo : cty :=
  Struct [("max_reasm_len", __u32); ("tstamp", __u32); ("reachable_time", __u32);
   ("retrans_time", __u32)].
Definition ifla_vlan_flags : cty := Struct [("flags", __u32); ("mask", __u32)].
Definition ifla_vlan_qos_mapping : cty := Struct [("from", __u32); ("to", __u32)].
Definition ifla_vxlan_port_range : cty := Struct [("low", __be16); ("high", __be16)].
Definition structs_ifla_vf_mac : list (string * cty) :=
  [
  ("ifla_vf_mac", Struct [("vf", __u32); ("mac", Arr 32 __u8)]);
  ("ifla_vf_vlan", Struct [("vf", __u32); ("vlan", __u32); ("qos", __u32)]);
  ("ifla_vf_tx_rate", Struct [("vf", __u32); ("rate", __u32)]);
  ("ifla_vf_rate", Struct [("vf", __u32); ("min_tx_rate", __u32); ("max_tx_rate", __u32)]);
  ("ifla_vf_spoofchk", Struct [("vf", __u32); ("setting", __u32)])].
Definition structs_ifla_vf_link_state : list (string * cty) :=
  [
  ("ifla_vf_link_state", Struct [("vf", __u32); ("link_state", __u32)]);
  ("ifla_vf_rss_query_en", Struct [("vf", __u32); ("setting", __u32)])].
Definition ifla_vf_trust : cty := Struct [("vf", __u32); ("setting", __u32)].
Definition ifla_port_vsi : cty :=
  Struct [("vsi_mgr_id", __u8); ("vsi_type_id", Arr 3 __u8); ("vsi_type_version", __u8);
   ("pad", Arr 3 __u8)].
Definition if_link_types : list (string * cty) :=
  ([("rtnl_link_stats", rtnl_link_stats); ("rtnl_link_stats64", rtnl_link_stats64);
   ("rtnl_link_ifmap", rtnl_link_ifmap); ("ifla_bridge_id", ifla_bridge_id);
   ("ifla_cacheinfo", ifla_cacheinfo); ("ifla_vlan_flags", ifla_vlan_flags);
   ("ifla_vlan_qos_mapping", ifla_vlan_qos_mapping); ("ifla_vxlan_port_range",
   ifla_vxlan_port_range)] ++ structs_ifla_vf_mac ++ structs_ifla_vf_link_state ++
   [("ifla_vf_trust", ifla_vf_trust); ("ifla_port_vsi", ifla_port_vsi)])%list.
End If_link.

(** ** [linux/if_packet.h] *)

Module If_packet.
Definition structs_sockaddr_pkt : list (string * cty) :=
  [
  ("sockaddr_pkt", Struct [("spkt_family", ushort); ("spkt_device", Arr 14 uchar);
   ("spkt_protocol", __be16)]);
  ("sockaddr_ll", Struct [("sll_family", ushort); ("sll_protocol", __be16); ("sll_ifindex", int);
   ("sll_hatype", ushort); ("sll_pkttype", uchar); ("sll_halen", uchar);
   ("sll_addr", Arr 8 uchar)])].
Definition structs_tpacket_stats : list (string * cty) :=
  let tpacket_stats := Struct [("tp_packets", uint); ("tp_drops", uint)] in
  let tpacket_stats_v3 := Struct [("tp_packets", uint); ("tp_drops", uint);
   ("tp_freeze_q_cnt", uint)] in
  [
  ("tpacket_stats", tpacket_stats);
  ("tpacket_stats_v3", tpacket_stats_v3);
  ("tpacket_rollover_stats", Struct [("tp_all", __aligned_u64); ("tp_huge", __aligned_u64);
   ("tp_failed", __aligned_u64)]);
  ("tpacket_stats_u", Union [("stats1", tpacket_stats); ("stats3", tpacket_stats_v3)]);
  ("tpacket_auxdata", Struct [("tp_status", __u32); ("tp_len", __u32); ("tp_snaplen", __u32);
   ("tp_mac", __u16); ("tp_net", __u16); ("tp_vlan_tci", __u16); ("tp_vlan_tpid", __u16)])].
Definition tpacket_hdr : cty :=
  Struct [("tp_status", ulong); ("tp_len", uint); ("tp_snaplen", uint); ("tp_mac", ushort);
   ("tp_net", ushort); ("tp_sec", uint); ("tp_usec", uint)].
Definition structs_tpacket2_hdr : list (string * cty) :=
  let tpacket_hdr_variant1 := Struct [("tp_rxhash", __u32); ("tp_vlan_tci", __u32);
   ("tp_vlan_tpid", __u16); ("tp_padding", __u16)] in
  [
  ("tpacket2_hdr", Struct [("tp_status", __u32); ("tp_len", __u32); ("tp_snaplen", __u32);
   ("tp_mac", __u16); ("tp_net", __u16); ("tp_sec", __u32); ("tp_nsec", __u32);
   ("tp_vlan_tci", __u16); ("tp_vlan_tpid", __u16); ("tp_padding", Arr 4 __u8)]);
  ("tpacket_hdr_variant1", tpacket_hdr_variant1);
  ("tpacket3_hdr", Struct [("tp_next_offset", __u32); ("tp_sec", __u32); ("tp_nsec", __u32);
   ("tp_snaplen", __u32); ("tp_len", __u32); ("tp_status", __u32); ("tp_mac", __u16);
   ("tp_net", __u16); ("", Union [("hv1", tpacket_hdr_variant1)]); ("tp_padding", Arr 8 __u8)]);
  ("tpacket_bd_ts", Struct [("ts_sec", uint); ("", Union [("ts_usec", uint); ("ts_nsec", uint)])])].
Definition tpacket_bd_ts : cty := type_in structs_tpacket2_hdr "tpacket_bd_ts".
Definition tpacket_hdr_v1 : cty :=
  Struct [("block_status", __u32); ("num_pkts", __u32); ("offset_to_first_pkt", __u32);
   ("blk_len", __u32); ("seq_num", __aligned_u64); ("ts_first_pkt", tpacket_bd_ts);
   ("ts_last_pkt", tpacket_bd_ts)].
Definition structs_tpacket_bd_header_u : list (string * cty) :=
  let tpacket_bd_header_u := Union [("bh1", tpacket_hdr_v1)] in
  [
  ("tpacket_bd_header_u", tpacket_bd_header_u);
  ("tpacket_block_desc", Struct [("version", __u32); ("offset_to_priv", __u32);
   ("hdr", tpacket_bd_header_u)])].
Definition structs_tpacket_req : list (string * cty) :=
  let tpacket_req := Struct [("tp_block_size", uint); ("tp_block_nr", uint);
   ("tp_frame_size", uint); ("tp_frame_nr", uint)] in
  let tpacket_req3 := Struct [("tp_block_size", uint); ("tp_block_nr", uint);
   ("tp_frame_size", uint); ("tp_frame_nr", uint); ("tp_retire_blk_tov", uint);
   ("tp_sizeof_priv", uint); ("tp_feature_req_word", uint)] in
  [
  ("tpacket_req", tpacket_req);
  ("tpacket_req3", tpacket_req3);
  ("tpacket_req_u", Union [("req", tpacket_req); ("req3", tpacket_req3)]);
  ("packet_mreq", Struct [("mr_ifindex", int); ("mr_type", ushort); ("mr_alen", ushort);
   ("mr_address", Arr 8 uchar)])].
Definition if_packet_types : list (string * cty) :=
  (structs_sockaddr_pkt ++ structs_tpacket_stats ++ [("tpacket_hdr", tpacket_hdr)] ++
   structs_tpacket2_hdr ++ [("tpacket_hdr_v1", tpacket_hdr_v1)] ++ structs_tpacket_bd_header_u
   ++ structs_tpacket_req)%list.
End If_packet.

(** ** [linux/if_plip.h] *)

Module If_plip.
Definition plipconf : cty := Struct [("pcmd", ushort); ("nibble", ulong); ("trigger", ulong)].
Definition if_plip_types : list (string * cty) := [("plipconf", plipconf)].
End If_plip.

(** ** [linux/if_pppolac.h] *)

Module If_pppolac.
Definition sockaddr_pppolac : cty :=
  Packed [("sa_family", sa_family_t); ("sa_protocol", uint); ("udp_socket", int);
   ("local", Packed [("tunnel", __u16); ("session", __u16)]);
   ("remote", Packed [("tunnel", __u16); ("session", __u16)])].
Definition if_pppolac_types : list (string * cty) := [("sockaddr_pppolac", sockaddr_pppolac)].
End If_pppolac.

(** ** [linux/if_pppopns.h] *)

Module If_pppopns.
Definition sockaddr_pppopns : cty :=
  Packed [("sa_family", sa_family_t); ("sa_protocol", uint); ("tcp_socket", int);
   ("local", __u16); ("remote", __u16)].
Definition if_pppopns_types : list (string * cty) := [("sockaddr_pppopns", sockaddr_pppopns)].
End If_pppopns.

(** ** [linux/if_tunnel.h] *)

Module If_tunnel.
Definition ip_tunnel_prl : cty :=
  Struct [("addr", __be32); ("flags", __u16); ("__reserved", __u16); ("datalen", __u32);
   ("__reserved2", __u32)].
Definition ip_tunnel_6rd : cty :=
  Struct [("prefix", In6.in6_addr); ("relay_prefix", __be32); ("prefixlen", __u16);
   ("relay_prefixlen", __u16)].
Definition if_tunnel_types : list (string * cty) :=
  ([("ip_tunnel_prl", ip_tunnel_prl); ("ip_tunnel_6rd", ip_tunnel_6rd)])%list.
End If_tunnel.

(** ** [linux/if_vlan.h] *)

Module If_vlan.
Definition vlan_ioctl_args : cty :=
  Struct [("cmd", int); ("device1", Arr 24 char); ("u", Union [("device2", Arr 24 char);
   ("VID", int); ("skb_priority", uint); ("name_type", uint); ("bind_type", uint);
   ("flag", uint)]); ("vlan_qos", short)].
Definition if_vlan_types : list (string * cty) := [("vlan_ioctl_args", vlan_ioctl_args)].
End If_vlan.

(** ** [linux/igmp.h] *)

Module Igmp.
Definition igmphdr : cty :=
  Struct [("type", __u8); ("code", __u8); ("csum", __sum16); ("group", __be32)].
Definition structs_igmpv3_grec : list (string * cty) :=
  let igmpv3_grec := Struct [("grec_type", __u8); ("grec_auxwords", __u8);
   ("grec_nsrcs", __be16); ("grec_mca", __be32); ("grec_src", Arr 0 __be32)] in
  [
  ("igmpv3_grec", igmpv3_grec);
  ("igmpv3_report", Struct [("type", __u8); ("resv1", __u8); ("csum", __be16); ("resv2", __be16);
   ("ngrec", __be16); ("grec", Arr 0 igmpv3_grec)])].
Definition igmp_types : list (string * cty) :=
  ([("igmphdr", igmphdr)] ++ structs_igmpv3_grec)%list.
End Igmp.

(** ** [linux/inaddr.h] *)

Module Inaddr.
Definition in_addr_t : cty := uint32_t.
Definition inaddr_types : list (string * cty) := [("in_addr_t", in_addr_t)].
End Inaddr.

(** ** [linux/inet_diag.h] *)

Module Inet_diag.
Definition structs_inet_diag_sockid : list (string * cty) :=
  let inet_diag_sockid := Struct [("idiag_sport", __be16); ("idiag_dport", __be16);
   ("idiag_src", Arr 4 __be32); ("idiag_dst", Arr 4 __be32); ("idiag_if", __u32);
   ("idiag_cookie", Arr 2 __u32)] in
  [
  ("inet_diag_sockid", inet_diag_sockid);
  ("inet_diag_req", Struct [("idiag_family", __u8); ("idiag_src_len", __u8);
   ("idiag_dst_len", __u8); ("idiag_ext", __u8); ("id", inet_diag_sockid);
   ("idiag_states", __u32); ("idiag_dbs", __u32)]);
  ("inet_diag_req_v2", Struct [("sdiag_family", __u8); ("sdiag_protocol", __u8);
   ("idiag_ext", __u8); ("pad", __u8); ("idiag_states", __u32); ("id", inet_diag_sockid)])].
Definition inet_diag_sockid : cty := type_in structs_inet_diag_sockid "inet_diag_sockid".
Definition inet_diag_bc_op : cty := Struct [("code", uchar); ("yes", uchar); ("no", ushort)].
Definition structs_inet_diag_hostcond : list (string * cty) :=
  [
  ("inet_diag_hostcond", Struct [("family", __u8); ("prefix_len", __u8); ("port", int);
   ("addr", Arr 0 __be32)]);
  ("inet_diag_markcond", Struct [("mark", __u32); ("mask", __u32)]);
  ("inet_diag_msg", Struct [("idiag_family", __u8); ("idiag_state", __u8); ("idiag_timer", __u8);
   ("idiag_retrans", __u8); ("id", inet_diag_sockid); ("idiag_expires", __u32);
   ("idiag_rqueue", __u32); ("idiag_wqueue", __u32); ("idiag_uid", __u32);
   ("idiag_inode", __u32)])].
Definition structs_inet_diag_meminfo : list (string * cty) :=
  let tcpvegas_info := Struct [("tcpv_enabled", __u32); ("tcpv_rttcnt", __u32);
   ("tcpv_rtt", __u32); ("tcpv_minrtt", __u32)] in
  let tcp_dctcp_info := Struct [("dctcp_enabled", __u16); ("dctcp_ce_state", __u16);
   ("dctcp_alpha", __u32); ("dctcp_ab_ecn", __u32); ("dctcp_ab_tot", __u32)] in
  [
  ("inet_diag_meminfo", Struct [("idiag_rmem", __u32); ("idiag_wmem", __u32);
   ("idiag_fmem", __u32); ("idiag_tmem", __u32)]);
  ("tcpvegas_info", tcpvegas_info);
  ("tcp_dctcp_info", tcp_dctcp_info);
  ("tcp_cc_info", Union [("vegas", tcpvegas_info); ("dctcp", tcp_dctcp_info)])].
Definition inet_diag_types : list (string * cty) :=
  (structs_inet_diag_sockid ++ [("inet_diag_bc_op", inet_diag_bc_op)] ++
   structs_inet_diag_hostcond ++ structs_inet_diag_meminfo)%list.
End Inet_diag.

(** ** [linux/ip.h] *)

Module Ip.
Definition structs_ip_auth_hdr : list (string * cty) :=
  [
  ("ip_auth_hdr", Struct [("nexthdr", __u8); ("hdrlen", __u8); ("reserved", __be16);
   ("spi", __be32); ("seq_no", __be32); ("auth_data", Arr 0 __u8)]);
  ("ip_esp_hdr", Struct [("spi", __be32); ("seq_no", __be32); ("enc_data", Arr 0 __u8)]);
  ("ip_comp_hdr", Struct [("nexthdr", __u8); ("flags", __u8); ("cpi", __be16)]);
  ("ip_beet_phdr", Struct [("nexthdr", __u8); ("hdrlen", __u8); ("padlen", __u8);
   ("reserved", __u8)])].
Definition ip_types : list (string * cty) := structs_ip_auth_hdr.
End Ip.

(** ** [linux/ip6_tunnel.h] *)

Module Ip6_tunnel.
Definition structs_ip6_tnl_parm : list (string * cty) :=
  [
  ("ip6_tnl_parm", Struct [("name", Arr 16 char); ("link", int); ("proto", __u8);
   ("encap_limit", __u8); ("hop_limit", __u8); ("flowinfo", __be32); ("flags", __u32);
   ("laddr", In6.in6_addr); ("raddr", In6.in6_addr)]);
  ("ip6_tnl_parm2", Struct [("name", Arr 16 char); ("link", int); ("proto", __u8);
   ("encap_limit", __u8); ("hop_limit", __u8); ("flowinfo", __be32); ("flags", __u32);
   ("laddr", In6.in6_addr); ("raddr", In6.in6_addr); ("i_flags", __be16); ("o_flags", __be16);
   ("i_key", __be32); ("o_key", __be32)])].
Definition ip6_tunnel_types : list (string * cty) := structs_ip6_tnl_parm.
End Ip6_tunnel.

(** ** [linux/ip_vs.h] *)

Module Ip_vs.
Definition IP_VS_SCHEDNAME_MAXLEN : Z := 16.
Definition IP_VS_IFNAME_MAXLEN : Z := 16.
Definition structs_ip_vs_service_user : list (string * cty) :=
  let ip_vs_stats_user := Struct [("conns", __u32); ("inpkts", __u32); ("outpkts", __u32);
   ("inbytes", __u64); ("outbytes", __u64); ("cps", __u32); ("inpps", __u32); ("outpps", __u32);
   ("inbps", __u32); ("outbps", __u32)] in
  let ip_vs_service_entry := Struct [("protocol", __u16); ("addr", __be32); ("port", __be16);
   ("fwmark", __u32); ("sched_name", Arr IP_VS_SCHEDNAME_MAXLEN char); ("flags", uint);
   ("timeout", uint); ("netmask", __be32); ("num_dests", uint); ("stats", ip_vs_stats_user)] in
  let ip_vs_dest_entry := Struct [("addr", __be32); ("port", __be16); ("conn_flags", uint);
   ("weight", int); ("u_threshold", __u32); ("l_threshold", __u32); ("activeconns", __u32);
   ("inactconns", __u32); ("persistconns", __u32); ("stats", ip_vs_stats_user)] in
  [
  ("ip_vs_service_user", Struct [("protocol", __u16); ("addr", __be32); ("port", __be16);
   ("fwmark", __u32); ("sched_name", Arr IP_VS_SCHEDNAME_MAXLEN char); ("flags", uint);
   ("timeout", uint); ("netmask", __be32)]);
  ("ip_vs_dest_user", Struct [("addr", __be32); ("port", __be16); ("conn_flags", uint);
   ("weight", int); ("u_threshold", __u32); ("l_threshold", __u32)]);
  ("ip_vs_stats_user", ip_vs_stats_user);
  ("ip_vs_getinfo", Struct [("version", uint); ("size", uint); ("num_services", uint)]);
  ("ip_vs_service_entry", ip_vs_service_entry);
  ("ip_vs_dest_entry", ip_vs_dest_entry);
  ("ip_vs_get_dests", Struct [("protocol", __u16); ("addr", __be32); ("port", __be16);
   ("fwmark", __u32); ("num_dests", uint); ("entrytable", Arr 0 ip_vs_dest_entry)]);
  ("ip_vs_get_services", Struct [("num_services", uint);
   ("entrytable", Arr 0 ip_vs_service_entry)]);
  ("ip_vs_timeout_user", Struct [("tcp_timeout", int); ("tcp_fin_timeout", int);
   ("udp_timeout", int)]);
  ("ip_vs_daemon_user", Struct [("state", int); ("mcast_ifn", Arr IP_VS_IFNAME_MAXLEN char);
   ("syncid", int)])].
Definition ip_vs_flags : cty := Struct [("flags", __u32); ("mask", __u32)].
Definition ip_vs_types : list (string * cty) :=
  (structs_ip_vs_service_user ++ [("ip_vs_flags", ip_vs_flags)])%list.
End Ip_vs.

(** ** [linux/ipv6.h] *)

Module Ipv6.
Definition structs_in6_pktinfo : list (string * cty) :=
  [
  ("in6_pktinfo", Struct [("ipi6_addr", In6.in6_addr); ("ipi6_ifindex", int)]);
  ("ip6_mtuinfo", Struct [("ip6m_addr", In6.sockaddr_in6); ("ip6m_mtu", __u32)]);
  ("in6_ifreq", Struct [("ifr6_addr", In6.in6_addr); ("ifr6_prefixlen", __u32);
   ("ifr6_ifindex", int)])].
Definition structs_ipv6_rt_hdr : list (string * cty) :=
  [
  ("ipv6_rt_hdr", Struct [("nexthdr", __u8); ("hdrlen", __u8); ("type", __u8);
   ("segments_left", __u8)]);
  ("ipv6_opt_hdr", Packed [("nexthdr", __u8); ("hdrlen", __u8)])].
Definition ipv6_rt_hdr : cty := type_in structs_ipv6_rt_hdr "ipv6_rt_hdr".
Definition structs_rt0_hdr : list (string * cty) :=
  [
  ("rt0_hdr", Struct [("rt_hdr", ipv6_rt_hdr); ("reserved", __u32); ("addr", Arr 0 In6.in6_addr)]);
  ("rt2_hdr", Struct [("rt_hdr", ipv6_rt_hdr); ("reserved", __u32); ("addr", In6.in6_addr)]);
  ("ipv6_destopt_hao", Packed [("type", __u8); ("length", __u8); ("addr", In6.in6_addr)])].
Definition ipv6_types : list (string * cty) :=
  (structs_in6_pktinfo ++ structs_ipv6_rt_hdr ++ structs_rt0_hdr)%list.
End Ipv6.

(** ** [linux/ipv6_route.h] *)

Module Ipv6_route.
Definition in6_rtmsg : cty :=
  Struct [("rtmsg_dst", In6.in6_addr); ("rtmsg_src", In6.in6_addr);
   ("rtmsg_gateway", In6.in6_addr); ("rtmsg_type", __u32); ("rtmsg_dst_len", __u16);
   ("rtmsg_src_len", __u16); ("rtmsg_metric", __u32); ("rtmsg_info", ulong);
   ("rtmsg_flags", __u32); ("rtmsg_ifindex", int)].
Definition ipv6_route_types : list (string * cty) := [("in6_rtmsg", in6_rtmsg)].
End Ipv6_route.

(** ** [linux/irda.h] *)

Module Irda.
Definition IAS_MAX_STRING : Z := 256.
Definition IAS_MAX_OCTET_STRING : Z := 1024.
Definition IAS_EXPORT_CLASSNAME : Z := 64.
Definition IAS_EXPORT_ATTRIBNAME : Z := 256.
Definition IRNAMSIZ : Z := 16.
Definition IRDA_DONGLE : cty := enum.
Definition structs_sockaddr_irda : list (string * cty) :=
  let irda_device_info := Struct [("saddr", __u32); ("daddr", __u32); ("info", Arr 22 char);
   ("charset", __u8); ("hints", Arr 2 __u8)] in
  [
  ("sockaddr_irda", Struct [("sir_family", __kernel_sa_family_t); ("sir_lsap_sel", __u8);
   ("sir_addr", __u32); ("sir_name", Arr 25 char)]);
  ("irda_device_info", irda_device_info);
  ("irda_device_list", Struct [("len", __u32); ("dev", Arr 1 irda_device_info)]);
  ("irda_ias_set", Struct [("irda_class_name", Arr IAS_EXPORT_CLASSNAME char);
   ("irda_attrib_name", Arr IAS_EXPORT_ATTRIBNAME char); ("irda_attrib_type", uint);
   ("attribute", Union [("irda_attrib_int", uint);
   ("irda_attrib_octet_seq", Struct [("len", ushort);
   ("octet_seq", Arr IAS_MAX_OCTET_STRING __u8)]); ("irda_attrib_string", Struct [("len", __u8);
   ("charset", __u8); ("string", Arr IAS_MAX_STRING __u8)])]); ("daddr", __u32)])].
Definition structs_if_irda_qos : list (string * cty) :=
  let if_irda_qos := Struct [("baudrate", ulong); ("data_size", ushort); ("window_size", ushort);
   ("min_turn_time", ushort); ("max_turn_time", ushort); ("add_bofs", uchar);
   ("link_disc", uchar)] in
  let if_irda_line := Struct [("dtr", __u8); ("rts", __u8)] in
  [
  ("if_irda_qos", if_irda_qos);
  ("if_irda_line", if_irda_line);
  ("if_irda_req", Struct [("ifr_ifrn", Union [("ifrn_name", Arr IRNAMSIZ char)]);
   ("ifr_ifru", Union [("ifru_line", if_irda_line); ("ifru_qos", if_irda_qos);
   ("ifru_flags", ushort); ("ifru_receiving", uint); ("ifru_mode", uint);
   ("ifru_dongle", uint)])])].
Definition irda_types : list (string * cty) :=
  ([("IRDA_DONGLE", IRDA_DONGLE)] ++ structs_sockaddr_irda ++ structs_if_irda_qos)%list.
End Irda.

(** ** [linux/kernelcapi.h] *)

Module Kernelcapi.
Definition structs_kcapi_flagdef : list (string * cty) :=
  [
  ("kcapi_flagdef", Struct [("contr", int); ("flag", int)]);
  ("kcapi_carddef", Struct [("driver", Arr 32 char); ("port", uint); ("irq", uint);
   ("membase", uint); ("cardnr", int)])].
Definition kernelcapi_types : list (string * cty) := structs_kcapi_flagdef.
End Kernelcapi.

(** ** [linux/l2tp.h] *)

Module L2tp.
Definition structs_sockaddr_l2tpip : list (string * cty) :=
  [
  ("sockaddr_l2tpip", Struct [("l2tp_family", __kernel_sa_family_t); ("l2tp_unused", __be16);
   ("l2tp_addr", In.in_addr); ("l2tp_conn_id", __u32);
   ("__pad", Arr (16 - sizeof lp64 __kernel_sa_family_t - sizeof lp64 __be16 - sizeof lp64 In.in_addr - sizeof lp64 __u32) uchar)]);
  ("sockaddr_l2tpip6", Struct [("l2tp_family", __kernel_sa_family_t); ("l2tp_unused", __be16);
   ("l2tp_flowinfo", __be32); ("l2tp_addr", In6.in6_addr); ("l2tp_scope_id", __u32);
   ("l2tp_conn_id", __u32)])].
Definition l2tp_types : list (string * cty) := structs_sockaddr_l2tpip.
End L2tp.

(** ** [linux/llc.h] *)

Module Llc.
Definition sockaddr_llc : cty :=
  Struct [("sllc_family", __kernel_sa_family_t); ("sllc_arphrd", __kernel_sa_family_t);
   ("sllc_test", uchar); ("sllc_xid", uchar); ("sllc_ua", uchar); ("sllc_sap", uchar);
   ("sllc_mac", Arr 6 uchar);
   ("__pad", Arr (16 - sizeof lp64 __kernel_sa_family_t * 2 - sizeof lp64 uchar * 4 - 6) uchar)].
Definition llc_pktinfo : cty :=
  Struct [("lpi_ifindex", int); ("lpi_sap", uchar); ("lpi_mac", Arr 6 uchar)].
Definition llc_types : list (string * cty) :=
  ([("sockaddr_llc", sockaddr_llc); ("llc_pktinfo", llc_pktinfo)])%list.
End Llc.

(** ** [linux/mpls.h] *)

Module Mpls.
Definition mpls_label : cty := Struct [("entry", __be32)].
Definition mpls_types : list (string * cty) := [("mpls_label", mpls_label)].
End Mpls.

(** ** [linux/mroute.h] *)

Module Mroute.
Definition MAXVIFS : Z := 32.
Definition structs_vifbitmap_t : list (string * cty) :=
  [
  ("vifbitmap_t", ulong);
  ("vifi_t", ushort)].
Definition vifi_t : cty := type_in structs_vifbitmap_t "vifi_t".
Definition vifctl : cty :=
  Struct [("vifc_vifi", vifi_t); ("vifc_flags", uchar); ("vifc_threshold", uchar);
   ("vifc_rate_limit", uint); ("", Union [("vifc_lcl_addr", In.in_addr);
   ("vifc_lcl_ifindex", int)]); ("vifc_rmt_addr", In.in_addr)].
Definition structs_mfcctl : list (string * cty) :=
  [
  ("mfcctl", Struct [("mfcc_origin", In.in_addr); ("mfcc_mcastgrp", In.in_addr);
   ("mfcc_parent", vifi_t); ("mfcc_ttls", Arr MAXVIFS uchar); ("mfcc_pkt_cnt", uint);
   ("mfcc_byte_cnt", uint); ("mfcc_wrong_if", uint); ("mfcc_expire", int)]);
  ("sioc_sg_req", Struct [("src", In.in_addr); ("grp", In.in_addr); ("pktcnt", ulong);
   ("bytecnt", ulong); ("wrong_if", ulong)]);
  ("sioc_vif_req", Struct [("vifi", vifi_t); ("icount", ulong); ("ocount", ulong);
   ("ibytes", ulong); ("obytes", ulong)]);
  ("igmpmsg", Struct [("unused1", __u32); ("unused2", __u32); ("im_msgtype", uchar);
   ("im_mbz", uchar); ("im_vif", uchar); ("unused3", uchar); ("im_src", In.in_addr);
   ("im_dst", In.in_addr)])].
Definition mroute_types : list (string * cty) :=
  (structs_vifbitmap_t ++ [("vifctl", vifctl)] ++ structs_mfcctl)%list.
End Mroute.

(** ** [linux/mroute6.h] *)

Module Mroute6.
Definition structs_mifbitmap_t : list (string * cty) :=
  [
  ("mifbitmap_t", ulong);
  ("mifi_t", ushort)].
Definition mifi_t : cty := type_in structs_mifbitmap_t "mifi_t".
Definition if_mask : cty := __u32.
Definition if_set : cty := Struct [("ifs_bits", Arr 8 if_mask)].
Definition mif6ctl : cty :=
  Struct [("mif6c_mifi", mifi_t); ("mif6c_flags", uchar); ("vifc_threshold", uchar);
   ("mif6c_pifi", __u16); ("vifc_rate_limit", uint)].
Definition structs_mf6cctl : list (string * cty) :=
  [
  ("mf6cctl", Struct [("mf6cc_origin", In6.sockaddr_in6); ("mf6cc_mcastgrp", In6.sockaddr_in6);
   ("mf6cc_parent", mifi_t); ("mf6cc_ifset", if_set)]);
  ("sioc_sg_req6", Struct [("src", In6.sockaddr_in6); ("grp", In6.sockaddr_in6);
   ("pktcnt", ulong); ("bytecnt", ulong); ("wrong_if", ulong)]);
  ("sioc_mif_req6", Struct [("mifi", mifi_t); ("icount", ulong); ("ocount", ulong);
   ("ibytes", ulong); ("obytes", ulong)]);
  ("mrt6msg", Struct [("im6_mbz", __u8); ("im6_msgtype", __u8); ("im6_mif", __u16);
   ("im6_pad", __u32); ("im6_src", In6.in6_addr); ("im6_dst", In6.in6_addr)])].
Definition mroute6_types : list (string * cty) :=
  (structs_mifbitmap_t ++ [("if_mask", if_mask); ("if_set", if_set); ("mif6ctl", mif6ctl)] ++
   structs_mf6cctl)%list.
End Mroute6.

(** ** [linux/msm_rmnet.h] *)

Module Msm_rmnet.
Definition IFNAMSIZ : Z := 16.
Definition rmnet_ioctl_extended_s : cty :=
  Struct [("extended_ioctl", uint32_t); ("u", Union [("data", uint32_t);
   ("if_name", Arr IFNAMSIZ int8_t); ("rmnet_mux_val", Struct [("mux_id", uint32_t);
   ("vchannel_name", Arr IFNAMSIZ int8_t)]);
   ("flow_control_prop", Struct [("flow_mode", uint8_t); ("mux_id", uint8_t)]);
   ("ipa_ep_pair", Struct [("consumer_pipe_num", uint32_t); ("producer_pipe_num", uint32_t)]);
   ("ingress_format", Struct [("__data", uint32_t); ("agg_size", uint32_t);
   ("agg_count", uint32_t)])])].
Definition rmnet_ioctl_data_s : cty :=
  Struct [("u", Union [("operation_mode", uint32_t); ("tcm_handle", uint32_t)])].
Definition msm_rmnet_types : list (string * cty) :=
  ([("rmnet_ioctl_extended_s", rmnet_ioctl_extended_s); ("rmnet_ioctl_data_s",
   rmnet_ioctl_data_s)])%list.
End Msm_rmnet.

(** ** [linux/n_r3964.h] *)

Module N_r3964.
Definition r3964_client_message : cty :=
  Struct [("msg_id", int); ("arg", int); ("error_code", int)].
Definition n_r3964_types : list (string * cty) := [("r3964_client_message", r3964_client_message)].
End N_r3964.

(** ** [linux/neighbour.h] *)

Module Neighbour.
Definition ndmsg : cty :=
  Struct [("ndm_family", __u8); ("ndm_pad1", __u8); ("ndm_pad2", __u16); ("ndm_ifindex", __s32);
   ("ndm_state", __u16); ("ndm_flags", __u8); ("ndm_type", __u8)].
Definition structs_nda_cacheinfo : list (string * cty) :=
  [
  ("nda_cacheinfo", Struct [("ndm_confirmed", __u32); ("ndm_used", __u32);
   ("ndm_updated", __u32); ("ndm_refcnt", __u32)]);
  ("ndt_stats", Struct [("ndts_allocs", __u64); ("ndts_destroys", __u64);
   ("ndts_hash_grows", __u64); ("ndts_res_failed", __u64); ("ndts_lookups", __u64);
   ("ndts_hits", __u64); ("ndts_rcv_probes_mcast", __u64); ("ndts_rcv_probes_ucast", __u64);
   ("ndts_periodic_gc_runs", __u64); ("ndts_forced_gc_runs", __u64);
   ("ndts_table_fulls", __u64)])].
Definition structs_ndtmsg : list (string * cty) :=
  [
  ("ndtmsg", Struct [("ndtm_family", __u8); ("ndtm_pad1", __u8); ("ndtm_pad2", __u16)]);
  ("ndt_config", Struct [("ndtc_key_len", __u16); ("ndtc_entry_size", __u16);
   ("ndtc_entries", __u32); ("ndtc_last_flush", __u32); ("ndtc_last_rand", __u32);
   ("ndtc_hash_rnd", __u32); ("ndtc_hash_mask", __u32); ("ndtc_hash_chain_gc", __u32);
   ("ndtc_proxy_qlen", __u32)])].
Definition neighbour_types : list (string * cty) :=
  ([("ndmsg", ndmsg)] ++ structs_nda_cacheinfo ++ structs_ndtmsg)%list.
End Neighbour.

(** ** [linux/net.h] *)

Module Net.
Definition socket_state : cty := enum.
Definition net_types : list (string * cty) := [("socket_state", socket_state)].
End Net.

(** ** [linux/net_dropmon.h] *)

Module Net_dropmon.
Definition net_dm_drop_point : cty := Struct [("pc", Arr 8 __u8); ("count", __u32)].
Definition structs_net_dm_config_entry : list (string * cty) :=
  let net_dm_config_entry := Struct [("type", __u32); ("data", Aligned 8 __u64)] in
  let net_dm_config_msg := Struct [("entries", __u32); ("options", Arr 0 net_dm_config_entry)] in
  let net_dm_alert_msg := Struct [("entries", __u32); ("points", Arr 0 net_dm_drop_point)] in
  [
  ("net_dm_config_entry", net_dm_config_entry);
  ("net_dm_config_msg", net_dm_config_msg);
  ("net_dm_alert_msg", net_dm_alert_msg);
  ("net_dm_user_msg", Struct [("u", Union [("user", net_dm_config_msg);
   ("alert", net_dm_alert_msg)])])].
Definition net_dropmon_types : list (string * cty) :=
  ([("net_dm_drop_point", net_dm_drop_point)] ++ structs_net_dm_config_entry)%list.
End Net_dropmon.

(** ** [linux/net_tstamp.h] *)

Module Net_tstamp.
Definition hwtstamp_config : cty :=
  Struct [("flags", int); ("tx_type", int); ("rx_filter", int)].
Definition net_tstamp_types : list (string * cty) := [("hwtstamp_config", hwtstamp_config)].
End Net_tstamp.

(** ** [linux/netconf.h] *)

Module Netconf.
Definition netconfmsg : cty := Struct [("ncm_family", __u8)].
Definition netconf_types : list (string * cty) := [("netconfmsg", netconfmsg)].
End Netconf.

(** ** [linux/netfilter.h] *)

Module Netfilter.
Definition nf_inet_addr : cty :=
  Union [("all", Arr 4 __u32); ("ip", __be32); ("ip6", Arr 4 __be32); ("in", In.in_addr);
   ("in6", In6.in6_addr)].
Definition netfilter_types : list (string * cty) := [("nf_inet_addr", nf_inet_addr)].
End Netfilter.

(** ** [linux/netfilter/ipset/ip_set.h] *)

Module Netfilter_ipset_ip_set.
Definition IPSET_MAXNAMELEN : Z := 32.
Definition ip_set_id_t : cty := __u16.
Definition structs_ip_set_counter_match0 : list (string * cty) :=
  [
  ("ip_set_counter_match0", Struct [("op", __u8); ("value", __u64)]);
  ("ip_set_counter_match", Struct [("value", __aligned_u64); ("op", __u8)])].
Definition ip_set_counter_match0 : cty := type_in structs_ip_set_counter_match0 "ip_set_counter_match0".
Definition ip_set_counter_match : cty := type_in structs_ip_set_counter_match0 "ip_set_counter_match".
Definition ip_set_name_index : cty :=
  Union [("name", Arr IPSET_MAXNAMELEN char); ("index", ip_set_id_t)].
Definition ip_set_req_get_set : cty :=
  Struct [("op", uint); ("version", uint); ("set", ip_set_name_index)].
Definition ip_set_req_get_set_family : cty :=
  Struct [("op", uint); ("version", uint); ("family", uint); ("set", ip_set_name_index)].
Definition ip_set_req_version : cty := Struct [("op", uint); ("version", uint)].
Definition netfilter_ipset_ip_set_types : list (string * cty) :=
  ([("ip_set_id_t", ip_set_id_t)] ++ structs_ip_set_counter_match0 ++ [("ip_set_name_index",
   ip_set_name_index); ("ip_set_req_get_set", ip_set_req_get_set);
   ("ip_set_req_get_set_family", ip_set_req_get_set_family); ("ip_set_req_version",
   ip_set_req_version)])%list.
End Netfilter_ipset_ip_set.

(** ** [linux/netfilter/nf_conntrack_sctp.h] *)

Module Netfilter_nf_conntrack_sctp.
Definition ip_ct_sctp : cty := Struct [("state", enum); ("vtag", Arr 2 __be32)].
Definition netfilter_nf_conntrack_sctp_types : list (string * cty) := [("ip_ct_sctp", ip_ct_sctp)].
End Netfilter_nf_conntrack_sctp.

(** ** [linux/netfilter/nf_conntrack_tcp.h] *)

Module Netfilter_nf_conntrack_tcp.
Definition nf_ct_tcp_flags : cty := Struct [("flags", __u8); ("mask", __u8)].
Definition netfilter_nf_conntrack_tcp_types : list (string * cty) := [("nf_ct_tcp_flags", nf_ct_tcp_flags)].
End Netfilter_nf_conntrack_tcp.

(** ** [linux/netfilter/nf_conntrack_tuple_common.h] *)

Module Netfilter_nf_conntrack_tuple_common.
Definition nf_conntrack_man_proto : cty :=
  Union [("all", __be16); ("tcp", Struct [("port", __be16)]); ("udp", Struct [("port", __be16)]);
   ("icmp", Struct [("id", __be16)]); ("dccp", Struct [("port", __be16)]);
   ("sctp", Struct [("port", __be16)]); ("gre", Struct [("key", __be16)])].
Definition netfilter_nf_conntrack_tuple_common_types : list (string * cty) := [("nf_conntrack_man_proto", nf_conntrack_man_proto)].
End Netfilter_nf_conntrack_tuple_common.

(** ** [linux/netfilter/nf_nat.h] *)

Module Netfilter_nf_nat.
Definition structs_nf_nat_ipv4_range : list (string * cty) :=
  let nf_nat_ipv4_range := Struct [("flags", uint); ("min_ip", __be32); ("max_ip", __be32);
   ("min", Netfilter_nf_conntrack_tuple_common.nf_conntrack_man_proto);
   ("max", Netfilter_nf_conntrack_tuple_common.nf_conntrack_man_proto)] in
  [
  ("nf_nat_ipv4_range", nf_nat_ipv4_range);
  ("nf_nat_ipv4_multi_range_compat", Struct [("rangesize", uint);
   ("range", Arr 1 nf_nat_ipv4_range)]);
  ("nf_nat_range", Struct [("flags", uint); ("min_addr", Netfilter.nf_inet_addr);
   ("max_addr", Netfilter.nf_inet_addr);
   ("min_proto", Netfilter_nf_conntrack_tuple_common.nf_conntrack_man_proto);
   ("max_proto", Netfilter_nf_conntrack_tuple_common.nf_conntrack_man_proto)])].
Definition netfilter_nf_nat_types : list (string * cty) := structs_nf_nat_ipv4_range.
End Netfilter_nf_nat.

(** ** [linux/netfilter/nfnetlink.h] *)

Module Netfilter_nfnetlink.
Definition nfgenmsg : cty :=
  Struct [("nfgen_family", __u8); ("version", __u8); ("res_id", __be16)].
Definition netfilter_nfnetlink_types : list (string * cty) := [("nfgenmsg", nfgenmsg)].
End Netfilter_nfnetlink.

(** ** [linux/netfilter/nfnetlink_compat.h] *)

Module Netfilter_nfnetlink_compat.
Definition nfattr : cty := Struct [("nfa_len", __u16); ("nfa_type", __u16)].
Definition netfilter_nfnetlink_compat_types : list (string * cty) := [("nfattr", nfattr)].
End Netfilter_nfnetlink_compat.

(** ** [linux/netfilter/nfnetlink_log.h] *)

Module Netfilter_nfnetlink_log.
Definition structs_nfulnl_msg_packet_hdr : list (string * cty) :=
  [
  ("nfulnl_msg_packet_hdr", Struct [("hw_protocol", __be16); ("hook", __u8); ("_pad", __u8)]);
  ("nfulnl_msg_packet_hw", Struct [("hw_addrlen", __be16); ("_pad", __u16);
   ("hw_addr", Arr 8 __u8)]);
  ("nfulnl_msg_packet_timestamp", Struct [("sec", __aligned_u64); ("usec", __aligned_u64)])].
Definition structs_nfulnl_msg_config_cmd : list (string * cty) :=
  [
  ("nfulnl_msg_config_cmd", Packed [("command", __u8)]);
  ("nfulnl_msg_config_mode", Packed [("copy_range", __be32); ("copy_mode", __u8); ("_pad", __u8)])].
Definition netfilter_nfnetlink_log_types : list (string * cty) :=
  (structs_nfulnl_msg_packet_hdr ++ structs_nfulnl_msg_config_cmd)%list.
End Netfilter_nfnetlink_log.

(** ** [linux/netfilter/nfnetlink_queue.h] *)

Module Netfilter_nfnetlink_queue.
Definition structs_nfqnl_msg_packet_hdr : list (string * cty) :=
  [
  ("nfqnl_msg_packet_hdr", Packed [("packet_id", __be32); ("hw_protocol", __be16); ("hook", __u8)]);
  ("nfqnl_msg_packet_hw", Struct [("hw_addrlen", __be16); ("_pad", __u16);
   ("hw_addr", Arr 8 __u8)]);
  ("nfqnl_msg_packet_timestamp", Struct [("sec", __aligned_u64); ("usec", __aligned_u64)])].
Definition nfqnl_msg_verdict_hdr : cty := Struct [("verdict", __be32); ("id", __be32)].
Definition nfqnl_msg_config_cmd : cty :=
  Struct [("command", __u8); ("_pad", __u8); ("pf", __be16)].
Definition nfqnl_msg_config_params : cty := Packed [("copy_range", __be32); ("copy_mode", __u8)].
Definition netfilter_nfnetlink_queue_types : list (string * cty) :=
  (structs_nfqnl_msg_packet_hdr ++ [("nfqnl_msg_verdict_hdr", nfqnl_msg_verdict_hdr);
   ("nfqnl_msg_config_cmd", nfqnl_msg_config_cmd); ("nfqnl_msg_config_params",
   nfqnl_msg_config_params)])%list.
End Netfilter_nfnetlink_queue.

(** ** [linux/netfilter/x_tables.h] *)

Module Netfilter_x_tables.
Definition XT_FUNCTION_MAXNAMELEN : Z := 30.
Definition XT_EXTENSION_MAXNAMELEN : Z := 29.
Definition XT_TABLE_MAXNAMELEN : Z := 32.
Definition structs_xt_entry_match : list (string * cty) :=
  [
  ("xt_entry_match", Struct [("u", Union [("user", Struct [("match_size", __u16);
   ("name", Arr XT_EXTENSION_MAXNAMELEN char); ("revision", __u8)]);
   ("kernel", Struct [("match_size", __u16); ("match", ptr)]); ("match_size", __u16)]);
   ("data", Arr 0 uchar)]);
  ("xt_entry_target", Struct [("u", Union [("user", Struct [("target_size", __u16);
   ("name", Arr XT_EXTENSION_MAXNAMELEN char); ("revision", __u8)]);
   ("kernel", Struct [("target_size", __u16); ("target", ptr)]); ("target_size", __u16)]);
   ("data", Arr 0 uchar)])].
Definition xt_entry_target : cty := type_in structs_xt_entry_match "xt_entry_target".
Definition structs_xt_standard_target : list (string * cty) :=
  [
  ("xt_standard_target", Struct [("target", xt_entry_target); ("verdict", int)]);
  ("xt_error_target", Struct [("target", xt_entry_target);
   ("errorname", Arr XT_FUNCTION_MAXNAMELEN char)]);
  ("xt_get_revision", Struct [("name", Arr XT_EXTENSION_MAXNAMELEN char); ("revision", __u8)])].
Definition xt_standard_target : cty := type_in structs_xt_standard_target "xt_standard_target".
Definition xt_error_target : cty := type_in structs_xt_standard_target "xt_error_target".
Definition _xt_align : cty :=
  Struct [("u8", __u8); ("u16", __u16); ("u32", __u32); ("u64", __u64)].
Definition structs_xt_counters : list (string * cty) :=
  let xt_counters := Struct [("pcnt", __u64); ("bcnt", __u64)] in
  [
  ("xt_counters", xt_counters);
  ("xt_counters_info", Struct [("name", Arr XT_TABLE_MAXNAMELEN char); ("num_counters", uint);
   ("counters", Arr 0 xt_counters)])].
Definition xt_counters : cty := type_in structs_xt_counters "xt_counters".
Definition netfilter_x_tables_types : list (string * cty) :=
  (structs_xt_entry_match ++ structs_xt_standard_target ++ [("_xt_align", _xt_align)] ++
   structs_xt_counters)%list.
End Netfilter_x_tables.

(** ** [linux/netfilter/xt_AUDIT.h] *)

Module Netfilter_xt_AUDIT.
Definition xt_audit_info : cty := Struct [("type", __u8)].
Definition netfilter_xt_AUDIT_types : list (string * cty) := [("xt_audit_info", xt_audit_info)].
End Netfilter_xt_AUDIT.

(** ** [linux/netfilter/xt_CHECKSUM.h] *)

Module Netfilter_xt_CHECKSUM.
Definition xt_CHECKSUM_info : cty := Struct [("operation", __u8)].
Definition netfilter_xt_CHECKSUM_types : list (string * cty) := [("xt_CHECKSUM_info", xt_CHECKSUM_info)].
End Netfilter_xt_CHECKSUM.

(** ** [linux/netfilter/xt_CLASSIFY.h] *)

Module Netfilter_xt_CLASSIFY.
Definition xt_classify_target_info : cty := Struct [("priority", __u32)].
Definition netfilter_xt_CLASSIFY_types : list (string * cty) := [("xt_classify_target_info", xt_classify_target_info)].
End Netfilter_xt_CLASSIFY.

(** ** [linux/netfilter/xt_CONNSECMARK.h] *)

Module Netfilter_xt_CONNSECMARK.
Definition xt_connsecmark_target_info : cty := Struct [("mode", __u8)].
Definition netfilter_xt_CONNSECMARK_types : list (string * cty) := [("xt_connsecmark_target_info", xt_connsecmark_target_info)].
End Netfilter_xt_CONNSECMARK.

(** ** [linux/netfilter/xt_DSCP.h] *)

Module Netfilter_xt_DSCP.
Definition structs_xt_DSCP_info : list (string * cty) :=
  [
  ("xt_DSCP_info", Struct [("dscp", __u8)]);
  ("xt_tos_target_info", Struct [("tos_value", __u8); ("tos_mask", __u8)])].
Definition netfilter_xt_DSCP_types : list (string * cty) := structs_xt_DSCP_info.
End Netfilter_xt_DSCP.

(** ** [linux/netfilter/xt_HMARK.h] *)

Module Netfilter_xt_HMARK.
Definition structs_hmark_ports : list (string * cty) :=
  let hmark_ports := Union [("p16", Struct [("src", __u16); ("dst", __u16)]);
   ("b16", Struct [("src", __be16); ("dst", __be16)]); ("v32", __u32); ("b32", __be32)] in
  [
  ("hmark_ports", hmark_ports);
  ("xt_hmark_info", Struct [("src_mask", Netfilter.nf_inet_addr);
   ("dst_mask", Netfilter.nf_inet_addr); ("port_mask", hmark_ports); ("port_set", hmark_ports);
   ("flags", __u32); ("proto_mask", __u16); ("hashrnd", __u32); ("hmodulus", __u32);
   ("hoffset", __u32)])].
Definition netfilter_xt_HMARK_types : list (string * cty) := structs_hmark_ports.
End Netfilter_xt_HMARK.

(** ** [linux/netfilter/xt_LOG.h] *)

Module Netfilter_xt_LOG.
Definition xt_log_info : cty :=
  Struct [("level", uchar); ("logflags", uchar); ("prefix", Arr 30 char)].
Definition netfilter_xt_LOG_types : list (string * cty) := [("xt_log_info", xt_log_info)].
End Netfilter_xt_LOG.

(** ** [linux/netfilter/xt_NFLOG.h] *)

Module Netfilter_xt_NFLOG.
Definition xt_nflog_info : cty :=
  Struct [("len", __u32); ("group", __u16); ("threshold", __u16); ("flags", __u16);
   ("pad", __u16); ("prefix", Arr 64 char)].
Definition netfilter_xt_NFLOG_types : list (string * cty) := [("xt_nflog_info", xt_nflog_info)].
End Netfilter_xt_NFLOG.

(** ** [linux/netfilter/xt_NFQUEUE.h] *)

Module Netfilter_xt_NFQUEUE.
Definition structs_xt_NFQ_info : list (string * cty) :=
  [
  ("xt_NFQ_info", Struct [("queuenum", __u16)]);
  ("xt_NFQ_info_v1", Struct [("queuenum", __u16); ("queues_total", __u16)]);
  ("xt_NFQ_info_v2", Struct [("queuenum", __u16); ("queues_total", __u16); ("bypass", __u16)]);
  ("xt_NFQ_info_v3", Struct [("queuenum", __u16); ("queues_total", __u16); ("flags", __u16)])].
Definition netfilter_xt_NFQUEUE_types : list (string * cty) := structs_xt_NFQ_info.
End Netfilter_xt_NFQUEUE.

(** ** [linux/netfilter/xt_SECMARK.h] *)

Module Netfilter_xt_SECMARK.
Definition SECMARK_SECCTX_MAX : Z := 256.
Definition xt_secmark_target_info : cty :=
  Struct [("mode", __u8); ("secid", __u32); ("secctx", Arr SECMARK_SECCTX_MAX char)].
Definition netfilter_xt_SECMARK_types : list (string * cty) := [("xt_secmark_target_info", xt_secmark_target_info)].
End Netfilter_xt_SECMARK.

(** ** [linux/netfilter/xt_TCPMSS.h] *)

Module Netfilter_xt_TCPMSS.
Definition xt_tcpmss_info : cty := Struct [("mss", __u16)].
Definition netfilter_xt_TCPMSS_types : list (string * cty) := [("xt_tcpmss_info", xt_tcpmss_info)].
End Netfilter_xt_TCPMSS.

(** ** [linux/netfilter/xt_TCPOPTSTRIP.h] *)

Module Netfilter_xt_TCPOPTSTRIP.
Definition xt_tcpoptstrip_target_info : cty := Struct [("strip_bmap", Arr 8 __u32)].
Definition netfilter_xt_TCPOPTSTRIP_types : list (string * cty) := [("xt_tcpoptstrip_target_info", xt_tcpoptstrip_target_info)].
End Netfilter_xt_TCPOPTSTRIP.

(** ** [linux/netfilter/xt_TPROXY.h] *)

Module Netfilter_xt_TPROXY.
Definition structs_xt_tproxy_target_info : list (string * cty) :=
  [
  ("xt_tproxy_target_info", Struct [("mark_mask", __u32); ("mark_value", __u32);
   ("laddr", __be32); ("lport", __be16)]);
  ("xt_tproxy_target_info_v1", Struct [("mark_mask", __u32); ("mark_value", __u32);
   ("laddr", Netfilter.nf_inet_addr); ("lport", __be16)])].
Definition netfilter_xt_TPROXY_types : list (string * cty) := structs_xt_tproxy_target_info.
End Netfilter_xt_TPROXY.

(** ** [linux/netfilter/xt_addrtype.h] *)

Module Netfilter_xt_addrtype.
Definition structs_xt_addrtype_info_v1 : list (string * cty) :=
  [
  ("xt_addrtype_info_v1", Struct [("source", __u16); ("dest", __u16); ("flags", __u32)]);
  ("xt_addrtype_info", Struct [("source", __u16); ("dest", __u16); ("invert_source", __u32);
   ("invert_dest", __u32)])].
Definition netfilter_xt_addrtype_types : list (string * cty) := structs_xt_addrtype_info_v1.
End Netfilter_xt_addrtype.

(** ** [linux/netfilter/xt_cgroup.h] *)

Module Netfilter_xt_cgroup.
Definition xt_cgroup_info : cty := Struct [("id", __u32); ("invert", __u32)].
Definition netfilter_xt_cgroup_types : list (string * cty) := [("xt_cgroup_info", xt_cgroup_info)].
End Netfilter_xt_cgroup.

(** ** [linux/netfilter/xt_cluster.h] *)

Module Netfilter_xt_cluster.
Definition xt_cluster_match_info : cty :=
  Struct [("total_nodes", __u32); ("node_mask", __u32); ("hash_seed", __u32); ("flags", __u32)].
Definition netfilter_xt_cluster_types : list (string * cty) := [("xt_cluster_match_info", xt_cluster_match_info)].
End Netfilter_xt_cluster.

(** ** [linux/netfilter/xt_comment.h] *)

Module Netfilter_xt_comment.
Definition XT_MAX_COMMENT_LEN : Z := 256.
Definition xt_comment_info : cty := Struct [("comment", Arr XT_MAX_COMMENT_LEN char)].
Definition netfilter_xt_comment_types : list (string * cty) := [("xt_comment_info", xt_comment_info)].
End Netfilter_xt_comment.

(** ** [linux/netfilter/xt_connbytes.h] *)

Module Netfilter_xt_connbytes.
Definition xt_connbytes_info : cty :=
  Struct [("count", Struct [("from", __aligned_u64); ("to", __aligned_u64)]); ("what", __u8);
   ("direction", __u8)].
Definition netfilter_xt_connbytes_types : list (string * cty) := [("xt_connbytes_info", xt_connbytes_info)].
End Netfilter_xt_connbytes.

(** ** [linux/netfilter/xt_connlabel.h] *)

Module Netfilter_xt_connlabel.
Definition xt_connlabel_mtinfo : cty := Struct [("bit", __u16); ("options", __u16)].
Definition netfilter_xt_connlabel_types : list (string * cty) := [("xt_connlabel_mtinfo", xt_connlabel_mtinfo)].
End Netfilter_xt_connlabel.

(** ** [linux/netfilter/xt_connmark.h] *)

Module Netfilter_xt_connmark.
Definition structs_xt_connmark_tginfo1 : list (string * cty) :=
  [
  ("xt_connmark_tginfo1", Struct [("ctmark", __u32); ("ctmask", __u32); ("nfmask", __u32);
   ("mode", __u8)]);
  ("xt_connmark_mtinfo1", Struct [("mark", __u32); ("mask", __u32); ("invert", __u8)])].
Definition netfilter_xt_connmark_types : list (string * cty) := structs_xt_connmark_tginfo1.
End Netfilter_xt_connmark.

(** ** [linux/netfilter/xt_conntrack.h] *)

Module Netfilter_xt_conntrack.
Definition structs_xt_conntrack_mtinfo1 : list (string * cty) :=
  [
  ("xt_conntrack_mtinfo1", Struct [("origsrc_addr", Netfilter.nf_inet_addr);
   ("origsrc_mask", Netfilter.nf_inet_addr); ("origdst_addr", Netfilter.nf_inet_addr);
   ("origdst_mask", Netfilter.nf_inet_addr); ("replsrc_addr", Netfilter.nf_inet_addr);
   ("replsrc_mask", Netfilter.nf_inet_addr); ("repldst_addr", Netfilter.nf_inet_addr);
   ("repldst_mask", Netfilter.nf_inet_addr); ("expires_min", __u32); ("expires_max", __u32);
   ("l4proto", __u16); ("origsrc_port", __be16); ("origdst_port", __be16);
   ("replsrc_port", __be16); ("repldst_port", __be16); ("match_flags", __u16);
   ("invert_flags", __u16); ("state_mask", __u8); ("status_mask", __u8)]);
  ("xt_conntrack_mtinfo2", Struct [("origsrc_addr", Netfilter.nf_inet_addr);
   ("origsrc_mask", Netfilter.nf_inet_addr); ("origdst_addr", Netfilter.nf_inet_addr);
   ("origdst_mask", Netfilter.nf_inet_addr); ("replsrc_addr", Netfilter.nf_inet_addr);
   ("replsrc_mask", Netfilter.nf_inet_addr); ("repldst_addr", Netfilter.nf_inet_addr);
   ("repldst_mask", Netfilter.nf_inet_addr); ("expires_min", __u32); ("expires_max", __u32);
   ("l4proto", __u16); ("origsrc_port", __be16); ("origdst_port", __be16);
   ("replsrc_port", __be16); ("repldst_port", __be16); ("match_flags", __u16);
   ("invert_flags", __u16); ("state_mask", __u16); ("status_mask", __u16)]);
  ("xt_conntrack_mtinfo3", Struct [("origsrc_addr", Netfilter.nf_inet_addr);
   ("origsrc_mask", Netfilter.nf_inet_addr); ("origdst_addr", Netfilter.nf_inet_addr);
   ("origdst_mask", Netfilter.nf_inet_addr); ("replsrc_addr", Netfilter.nf_inet_addr);
   ("replsrc_mask", Netfilter.nf_inet_addr); ("repldst_addr", Netfilter.nf_inet_addr);
   ("repldst_mask", Netfilter.nf_inet_addr); ("expires_min", __u32); ("expires_max", __u32);
   ("l4proto", __u16); ("origsrc_port", __u16); ("origdst_port", __u16); ("replsrc_port", __u16);
   ("repldst_port", __u16); ("match_flags", __u16); ("invert_flags", __u16);
   ("state_mask", __u16); ("status_mask", __u16); ("origsrc_port_high", __u16);
   ("origdst_port_high", __u16); ("replsrc_port_high", __u16); ("repldst_port_high", __u16)])].
Definition netfilter_xt_conntrack_types : list (string * cty) := structs_xt_conntrack_mtinfo1.
End Netfilter_xt_conntrack.

(** ** [linux/netfilter/xt_cpu.h] *)

Module Netfilter_xt_cpu.
Definition xt_cpu_info : cty := Struct [("cpu", __u32); ("invert", __u32)].
Definition netfilter_xt_cpu_types : list (string * cty) := [("xt_cpu_info", xt_cpu_info)].
End Netfilter_xt_cpu.

(** ** [linux/netfilter/xt_dccp.h] *)

Module Netfilter_xt_dccp.
Definition xt_dccp_info : cty :=
  Struct [("dpts", Arr 2 __u16); ("spts", Arr 2 __u16); ("flags", __u16); ("invflags", __u16);
   ("typemask", __u16); ("option", __u8)].
Definition netfilter_xt_dccp_types : list (string * cty) := [("xt_dccp_info", xt_dccp_info)].
End Netfilter_xt_dccp.

(** ** [linux/netfilter/xt_devgroup.h] *)

Module Netfilter_xt_devgroup.
Definition xt_devgroup_info : cty :=
  Struct [("flags", __u32); ("src_group", __u32); ("src_mask", __u32); ("dst_group", __u32);
   ("dst_mask", __u32)].
Definition netfilter_xt_devgroup_types : list (string * cty) := [("xt_devgroup_info", xt_devgroup_info)].
End Netfilter_xt_devgroup.

(** ** [linux/netfilter/xt_dscp.h] *)

Module Netfilter_xt_dscp.
Definition structs_xt_dscp_info : list (string * cty) :=
  [
  ("xt_dscp_info", Struct [("dscp", __u8); ("invert", __u8)]);
  ("xt_tos_match_info", Struct [("tos_mask", __u8); ("tos_value", __u8); ("invert", __u8)])].
Definition netfilter_xt_dscp_types : list (string * cty) := structs_xt_dscp_info.
End Netfilter_xt_dscp.

(** ** [linux/netfilter/xt_ecn.h] *)

Module Netfilter_xt_ecn.
Definition xt_ecn_info : cty :=
  Struct [("operation", __u8); ("invert", __u8); ("ip_ect", __u8);
   ("proto", Union [("tcp", Struct [("ect", __u8)])])].
Definition netfilter_xt_ecn_types : list (string * cty) := [("xt_ecn_info", xt_ecn_info)].
End Netfilter_xt_ecn.

(** ** [linux/netfilter/xt_esp.h] *)

Module Netfilter_xt_esp.
Definition xt_esp : cty := Struct [("spis", Arr 2 __u32); ("invflags", __u8)].
Definition netfilter_xt_esp_types : list (string * cty) := [("xt_esp", xt_esp)].
End Netfilter_xt_esp.

(** ** [linux/netfilter/xt_hashlimit.h] *)

Module Netfilter_xt_hashlimit.
Definition structs_hashlimit_cfg : list (string * cty) :=
  let hashlimit_cfg := Struct [("mode", __u32); ("avg", __u32); ("burst", __u32);
   ("size", __u32); ("max", __u32); ("gc_interval", __u32); ("expire", __u32)] in
  [
  ("hashlimit_cfg", hashlimit_cfg);
  ("xt_hashlimit_info", Struct [("name", Arr 16 char); ("cfg", hashlimit_cfg); ("hinfo", ptr);
   ("u", Union [("ptr", ptr); ("master", ptr)])]);
  ("hashlimit_cfg1", Struct [("mode", __u32); ("avg", __u32); ("burst", __u32); ("size", __u32);
   ("max", __u32); ("gc_interval", __u32); ("expire", __u32); ("srcmask", __u8);
   ("dstmask", __u8)])].
Definition netfilter_xt_hashlimit_types : list (string * cty) := structs_hashlimit_cfg.
End Netfilter_xt_hashlimit.

(** ** [linux/netfilter/xt_helper.h] *)

Module Netfilter_xt_helper.
Definition xt_helper_info : cty := Struct [("invert", int); ("name", Arr 30 char)].
Definition netfilter_xt_helper_types : list (string * cty) := [("xt_helper_info", xt_helper_info)].
End Netfilter_xt_helper.

(** ** [linux/netfilter/xt_ipcomp.h] *)

Module Netfilter_xt_ipcomp.
Definition xt_ipcomp : cty :=
  Struct [("spis", Arr 2 __u32); ("invflags", __u8); ("hdrres", __u8)].
Definition netfilter_xt_ipcomp_types : list (string * cty) := [("xt_ipcomp", xt_ipcomp)].
End Netfilter_xt_ipcomp.

(** ** [linux/netfilter/xt_iprange.h] *)

Module Netfilter_xt_iprange.
Definition xt_iprange_mtinfo : cty :=
  Struct [("src_min", Netfilter.nf_inet_addr); ("src_max", Netfilter.nf_inet_addr);
   ("dst_min", Netfilter.nf_inet_addr); ("dst_max", Netfilter.nf_inet_addr); ("flags", __u8)].
Definition netfilter_xt_iprange_types : list (string * cty) := [("xt_iprange_mtinfo", xt_iprange_mtinfo)].
End Netfilter_xt_iprange.

(** ** [linux/netfilter/xt_ipvs.h] *)

Module Netfilter_xt_ipvs.
Definition xt_ipvs_mtinfo : cty :=
  Struct [("vaddr", Netfilter.nf_inet_addr); ("vmask", Netfilter.nf_inet_addr);
   ("vport", __be16); ("l4proto", __u8); ("fwd_method", __u8); ("vportctl", __be16);
   ("invert", __u8); ("bitmask", __u8)].
Definition netfilter_xt_ipvs_types : list (string * cty) := [("xt_ipvs_mtinfo", xt_ipvs_mtinfo)].
End Netfilter_xt_ipvs.

(** ** [linux/netfilter/xt_l2tp.h] *)

Module Netfilter_xt_l2tp.
Definition xt_l2tp_info : cty :=
  Struct [("tid", __u32); ("sid", __u32); ("version", __u8); ("type", __u8); ("flags", __u8)].
Definition netfilter_xt_l2tp_types : list (string * cty) := [("xt_l2tp_info", xt_l2tp_info)].
End Netfilter_xt_l2tp.

(** ** [linux/netfilter/xt_length.h] *)

Module Netfilter_xt_length.
Definition xt_length_info : cty := Struct [("min", __u16); ("max", __u16); ("invert", __u8)].
Definition netfilter_xt_length_types : list (string * cty) := [("xt_length_info", xt_length_info)].
End Netfilter_xt_length.

(** ** [linux/netfilter/xt_limit.h] *)

Module Netfilter_xt_limit.
Definition xt_rateinfo : cty :=
  Struct [("avg", __u32); ("burst", __u32); ("prev", ulong); ("credit", __u32);
   ("credit_cap", __u32); ("cost", __u32); ("master", ptr)].
Definition netfilter_xt_limit_types : list (string * cty) := [("xt_rateinfo", xt_rateinfo)].
End Netfilter_xt_limit.

(** ** [linux/netfilter/xt_mac.h] *)

Module Netfilter_xt_mac.
Definition xt_mac_info : cty := Struct [("srcaddr", Arr 6 uchar); ("invert", int)].
Definition netfilter_xt_mac_types : list (string * cty) := [("xt_mac_info", xt_mac_info)].
End Netfilter_xt_mac.

(** ** [linux/netfilter/xt_mark.h] *)

Module Netfilter_xt_mark.
Definition structs_xt_mark_tginfo2 : list (string * cty) :=
  [
  ("xt_mark_tginfo2", Struct [("mark", __u32); ("mask", __u32)]);
  ("xt_mark_mtinfo1", Struct [("mark", __u32); ("mask", __u32); ("invert", __u8)])].
Definition netfilter_xt_mark_types : list (string * cty) := structs_xt_mark_tginfo2.
End Netfilter_xt_mark.

(** ** [linux/netfilter/xt_multiport.h] *)

Module Netfilter_xt_multiport.
Definition XT_MULTI_PORTS : Z := 15.
Definition structs_xt_multiport : list (string * cty) :=
  [
  ("xt_multiport", Struct [("flags", __u8); ("count", __u8); ("ports", Arr XT_MULTI_PORTS __u16)]);
  ("xt_multiport_v1", Struct [("flags", __u8); ("count", __u8);
   ("ports", Arr XT_MULTI_PORTS __u16); ("pflags", Arr XT_MULTI_PORTS __u8); ("invert", __u8)])].
Definition netfilter_xt_multiport_types : list (string * cty) := structs_xt_multiport.
End Netfilter_xt_multiport.

(** ** [linux/netfilter/xt_nfacct.h] *)

Module Netfilter_xt_nfacct.
Definition xt_nfacct_match_info : cty := Struct [("name", Arr 32 char); ("nfacct", ptr)].
Definition netfilter_xt_nfacct_types : list (string * cty) := [("xt_nfacct_match_info", xt_nfacct_match_info)].
End Netfilter_xt_nfacct.

(** ** [linux/netfilter/xt_osf.h] *)

Module Netfilter_xt_osf.
Definition MAXGENRELEN : Z := 32.
Definition structs_xt_osf_info : list (string * cty) :=
  let xt_osf_wc := Struct [("wc", __u32); ("val", __u32)] in
  let xt_osf_opt := Struct [("kind", __u16); ("length", __u16); ("wc", xt_osf_wc)] in
  [
  ("xt_osf_info", Struct [("genre", Arr MAXGENRELEN char); ("len", __u32); ("flags", __u32);
   ("loglevel", __u32); ("ttl", __u32)]);
  ("xt_osf_wc", xt_osf_wc);
  ("xt_osf_opt", xt_osf_opt);
  ("xt_osf_user_finger", Struct [("wss", xt_osf_wc); ("ttl", __u8); ("df", __u8); ("ss", __u16);
   ("mss", __u16); ("opt_num", __u16); ("genre", Arr MAXGENRELEN char);
   ("version", Arr MAXGENRELEN char); ("subtype", Arr MAXGENRELEN char);
   ("opt", Arr 40 xt_osf_opt)])].
Definition netfilter_xt_osf_types : list (string * cty) := structs_xt_osf_info.
End Netfilter_xt_osf.

(** ** [linux/netfilter/xt_owner.h] *)

Module Netfilter_xt_owner.
Definition xt_owner_match_info : cty :=
  Struct [("uid_min", __u32); ("uid_max", __u32); ("gid_min", __u32); ("gid_max", __u32);
   ("match", __u8); ("invert", __u8)].
Definition netfilter_xt_owner_types : list (string * cty) := [("xt_owner_match_info", xt_owner_match_info)].
End Netfilter_xt_owner.

(** ** [linux/netfilter/xt_physdev.h] *)

Module Netfilter_xt_physdev.
Definition xt_physdev_info : cty :=
  Struct [("physindev", Arr 16 char); ("in_mask", Arr 16 char); ("physoutdev", Arr 16 char);
   ("out_mask", Arr 16 char); ("invert", __u8); ("bitmask", __u8)].
Definition netfilter_xt_physdev_types : list (string * cty) := [("xt_physdev_info", xt_physdev_info)].
End Netfilter_xt_physdev.

(** ** [linux/netfilter/xt_pkttype.h] *)

Module Netfilter_xt_pkttype.
Definition xt_pkttype_info : cty := Struct [("pkttype", int); ("invert", int)].
Definition netfilter_xt_pkttype_types : list (string * cty) := [("xt_pkttype_info", xt_pkttype_info)].
End Netfilter_xt_pkttype.

(** ** [linux/netfilter/xt_policy.h] *)

Module Netfilter_xt_policy.
Definition xt_policy_addr : cty := Union [("a4", In.in_addr); ("a6", In6.in6_addr)].
Definition netfilter_xt_policy_types : list (string * cty) := [("xt_policy_addr", xt_policy_addr)].
End Netfilter_xt_policy.

(** ** [linux/netfilter/xt_quota.h] *)

Module Netfilter_xt_quota.
Definition xt_quota_info : cty :=
  Struct [("flags", __u32); ("pad", __u32); ("quota", __aligned_u64); ("master", ptr)].
Definition netfilter_xt_quota_types : list (string * cty) := [("xt_quota_info", xt_quota_info)].
End Netfilter_xt_quota.

(** ** [linux/netfilter/xt_realm.h] *)

Module Netfilter_xt_realm.
Definition xt_realm_info : cty := Struct [("id", __u32); ("mask", __u32); ("invert", __u8)].
Definition netfilter_xt_realm_types : list (string * cty) := [("xt_realm_info", xt_realm_info)].
End Netfilter_xt_realm.

(** ** [linux/netfilter/xt_recent.h] *)

Module Netfilter_xt_recent.
Definition structs_xt_recent_mtinfo : list (string * cty) :=
  [
  ("xt_recent_mtinfo", Struct [("seconds", __u32); ("hit_count", __u32); ("check_set", __u8);
   ("invert", __u8); ("name", Arr 200 char); ("side", __u8)]);
  ("xt_recent_mtinfo_v1", Struct [("seconds", __u32); ("hit_count", __u32); ("check_set", __u8);
   ("invert", __u8); ("name", Arr 200 char); ("side", __u8); ("mask", Netfilter.nf_inet_addr)])].
Definition netfilter_xt_recent_types : list (string * cty) := structs_xt_recent_mtinfo.
End Netfilter_xt_recent.

(** ** [linux/netfilter/xt_rpfilter.h] *)

Module Netfilter_xt_rpfilter.
Definition xt_rpfilter_info : cty := Struct [("flags", __u8)].
Definition netfilter_xt_rpfilter_types : list (string * cty) := [("xt_rpfilter_info", xt_rpfilter_info)].
End Netfilter_xt_rpfilter.

(** ** [linux/netfilter/xt_sctp.h] *)

Module Netfilter_xt_sctp.
Definition XT_NUM_SCTP_FLAGS : Z := 4.
Definition xt_sctp_flag_info : cty :=
  Struct [("chunktype", __u8); ("flag", __u8); ("flag_mask", __u8)].
Definition xt_sctp_info : cty :=
  Struct [("dpts", Arr 2 __u16); ("spts", Arr 2 __u16);
   ("chunkmap", Arr (256 / sizeof lp64 __u32) __u32); ("chunk_match_type", __u32);
   ("flag_info", Arr XT_NUM_SCTP_FLAGS xt_sctp_flag_info); ("flag_count", int); ("flags", __u32);
   ("invflags", __u32)].
Definition netfilter_xt_sctp_types : list (string * cty) :=
  ([("xt_sctp_flag_info", xt_sctp_flag_info); ("xt_sctp_info", xt_sctp_info)])%list.
End Netfilter_xt_sctp.

(** ** [linux/netfilter/xt_set.h] *)

Module Netfilter_xt_set.
Definition structs_xt_set_info_v0 : list (string * cty) :=
  let xt_set_info_v0 := Struct [("index", Netfilter_ipset_ip_set.ip_set_id_t);
   ("u", Union [("flags", Arr 7 __u32); ("compat", Struct [("__flags", Arr 6 __u32);
   ("dim", __u8); ("flags", __u8)])])] in
  let xt_set_info := Struct [("index", Netfilter_ipset_ip_set.ip_set_id_t); ("dim", __u8);
   ("flags", __u8)] in
  [
  ("xt_set_info_v0", xt_set_info_v0);
  ("xt_set_info_match_v0", Struct [("match_set", xt_set_info_v0)]);
  ("xt_set_info_target_v0", Struct [("add_set", xt_set_info_v0); ("del_set", xt_set_info_v0)]);
  ("xt_set_info", xt_set_info);
  ("xt_set_info_match_v1", Struct [("match_set", xt_set_info)]);
  ("xt_set_info_target_v1", Struct [("add_set", xt_set_info); ("del_set", xt_set_info)]);
  ("xt_set_info_target_v2", Struct [("add_set", xt_set_info); ("del_set", xt_set_info);
   ("flags", __u32); ("timeout", __u32)]);
  ("xt_set_info_match_v3", Struct [("match_set", xt_set_info);
   ("packets", Netfilter_ipset_ip_set.ip_set_counter_match0);
   ("bytes", Netfilter_ipset_ip_set.ip_set_counter_match0); ("flags", __u32)]);
  ("xt_set_info_target_v3", Struct [("add_set", xt_set_info); ("del_set", xt_set_info);
   ("map_set", xt_set_info); ("flags", __u32); ("timeout", __u32)]);
  ("xt_set_info_match_v4", Struct [("match_set", xt_set_info);
   ("packets", Netfilter_ipset_ip_set.ip_set_counter_match);
   ("bytes", Netfilter_ipset_ip_set.ip_set_counter_match); ("flags", __u32)])].
Definition netfilter_xt_set_types : list (string * cty) := structs_xt_set_info_v0.
End Netfilter_xt_set.

(** ** [linux/netfilter/xt_socket.h] *)

Module Netfilter_xt_socket.
Definition xt_socket_mtinfo1 : cty := Struct [("flags", __u8)].
Definition xt_socket_mtinfo2 : cty := Struct [("flags", __u8)].
Definition xt_socket_mtinfo3 : cty := Struct [("flags", __u8)].
Definition netfilter_xt_socket_types : list (string * cty) :=
  ([("xt_socket_mtinfo1", xt_socket_mtinfo1); ("xt_socket_mtinfo2", xt_socket_mtinfo2);
   ("xt_socket_mtinfo3", xt_socket_mtinfo3)])%list.
End Netfilter_xt_socket.

(** ** [linux/netfilter/xt_state.h] *)

Module Netfilter_xt_state.
Definition xt_state_info : cty := Struct [("statemask", uint)].
Definition netfilter_xt_state_types : list (string * cty) := [("xt_state_info", xt_state_info)].
End Netfilter_xt_state.

(** ** [linux/netfilter/xt_tcpmss.h] *)

Module Netfilter_xt_tcpmss.
Definition xt_tcpmss_match_info : cty :=
  Struct [("mss_min", __u16); ("mss_max", __u16); ("invert", __u8)].
Definition netfilter_xt_tcpmss_types : list (string * cty) := [("xt_tcpmss_match_info", xt_tcpmss_match_info)].
End Netfilter_xt_tcpmss.

(** ** [linux/netfilter/xt_tcpudp.h] *)

Module Netfilter_xt_tcpudp.
Definition xt_tcp : cty :=
  Struct [("spts", Arr 2 __u16); ("dpts", Arr 2 __u16); ("option", __u8); ("flg_mask", __u8);
   ("flg_cmp", __u8); ("invflags", __u8)].
Definition xt_udp : cty :=
  Struct [("spts", Arr 2 __u16); ("dpts", Arr 2 __u16); ("invflags", __u8)].
Definition netfilter_xt_tcpudp_types : list (string * cty) :=
  ([("xt_tcp", xt_tcp); ("xt_udp", xt_udp)])%list.
End Netfilter_xt_tcpudp.

(** ** [linux/netfilter/xt_time.h] *)

Module Netfilter_xt_time.
Definition xt_time_info : cty :=
  Struct [("date_start", __u32); ("date_stop", __u32); ("daytime_start", __u32);
   ("daytime_stop", __u32); ("monthdays_match", __u32); ("weekdays_match", __u8);
   ("flags", __u8)].
Definition netfilter_xt_time_types : list (string * cty) := [("xt_time_info", xt_time_info)].
End Netfilter_xt_time.

(** ** [linux/netfilter/xt_u32.h] *)

Module Netfilter_xt_u32.
Definition structs_xt_u32_location_element : list (string * cty) :=
  [
  ("xt_u32_location_element", Struct [("number", __u32); ("nextop", __u8)]);
  ("xt_u32_value_element", Struct [("min", __u32); ("max", __u32)])].
Definition xt_u32_location_element : cty := type_in structs_xt_u32_location_element "xt_u32_location_element".
Definition xt_u32_value_element : cty := type_in structs_xt_u32_location_element "xt_u32_value_element".
Definition structs_xt_u32_test : list (string * cty) :=
  let xt_u32_test := Struct [("location", Arr 11 xt_u32_location_element);
   ("value", Arr 11 xt_u32_value_element); ("nnums", __u8); ("nvalues", __u8)] in
  [
  ("xt_u32_test", xt_u32_test);
  ("xt_u32", Struct [("tests", Arr 11 xt_u32_test); ("ntests", __u8); ("invert", __u8)])].
Definition netfilter_xt_u32_types : list (string * cty) :=
  (structs_xt_u32_location_element ++ structs_xt_u32_test)%list.
End Netfilter_xt_u32.

(** ** [linux/netfilter_arp/arp_tables.h] *)

Module Netfilter_arp_arp_tables.
Definition ARPT_DEV_ADDR_LEN_MAX : Z := 16.
Definition arpt_devaddr_info : cty :=
  Struct [("addr", Arr ARPT_DEV_ADDR_LEN_MAX char); ("mask", Arr ARPT_DEV_ADDR_LEN_MAX char)].
Definition arpt_arp : cty :=
  Struct [("src", In.in_addr); ("tgt", In.in_addr); ("smsk", In.in_addr); ("tmsk", In.in_addr);
   ("arhln", __u8); ("arhln_mask", __u8); ("src_devaddr", arpt_devaddr_info);
   ("tgt_devaddr", arpt_devaddr_info); ("arpop", __be16); ("arpop_mask", __be16);
   ("arhrd", __be16); ("arhrd_mask", __be16); ("arpro", __be16); ("arpro_mask", __be16);
   ("iniface", Arr 16 char); ("outiface", Arr 16 char); ("iniface_mask", Arr 16 uchar);
   ("outiface_mask", Arr 16 uchar); ("flags", __u8); ("invflags", __u16)].
Definition arpt_entry : cty :=
  Struct [("arp", arpt_arp); ("target_offset", __u16); ("next_offset", __u16);
   ("comefrom", uint); ("counters", Netfilter_x_tables.xt_counters); ("elems", Arr 0 uchar)].
Definition arpt_getinfo : cty :=
  Struct [("name", Arr 32 char); ("valid_hooks", uint); ("hook_entry", Arr 3 uint);
   ("underflow", Arr 3 uint); ("num_entries", uint); ("size", uint)].
Definition arpt_replace : cty :=
  Struct [("name", Arr 32 char); ("valid_hooks", uint); ("num_entries", uint); ("size", uint);
   ("hook_entry", Arr 3 uint); ("underflow", Arr 3 uint); ("num_counters", uint);
   ("counters", ptr); ("entries", Arr 0 arpt_entry)].
Definition arpt_get_entries : cty :=
  Struct [("name", Arr 32 char); ("size", uint); ("entrytable", Arr 0 arpt_entry)].
Definition netfilter_arp_arp_tables_types : list (string * cty) :=
  ([("arpt_devaddr_info", arpt_devaddr_info); ("arpt_arp", arpt_arp); ("arpt_entry",
   arpt_entry); ("arpt_getinfo", arpt_getinfo); ("arpt_replace", arpt_replace);
   ("arpt_get_entries", arpt_get_entries)])%list.
End Netfilter_arp_arp_tables.

(** ** [linux/netfilter_arp/arpt_mangle.h] *)

Module Netfilter_arp_arpt_mangle.
Definition arpt_mangle : cty :=
  Struct [("src_devaddr", Arr 16 char); ("tgt_devaddr", Arr 16 char);
   ("u_s", Union [("src_ip", In.in_addr)]); ("u_t", Union [("tgt_ip", In.in_addr)]);
   ("flags", __u8); ("target", int)].
Definition netfilter_arp_arpt_mangle_types : list (string * cty) := [("arpt_mangle", arpt_mangle)].
End Netfilter_arp_arpt_mangle.

(** ** [linux/netfilter_bridge/ebt_802_3.h] *)

Module Netfilter_bridge_ebt_802_3.
Definition structs_hdr_ui : list (string * cty) :=
  let hdr_ui := Struct [("dsap", __u8); ("ssap", __u8); ("ctrl", __u8); ("orig", Arr 3 __u8);
   ("type", __be16)] in
  let hdr_ni := Struct [("dsap", __u8); ("ssap", __u8); ("ctrl", __be16); ("orig", Arr 3 __u8);
   ("type", __be16)] in
  [
  ("hdr_ui", hdr_ui);
  ("hdr_ni", hdr_ni);
  ("ebt_802_3_hdr", Struct [("daddr", Arr 6 __u8); ("saddr", Arr 6 __u8); ("len", __be16);
   ("llc", Union [("ui", hdr_ui); ("ni", hdr_ni)])]);
  ("ebt_802_3_info", Struct [("sap", __u8); ("type", __be16); ("bitmask", __u8);
   ("invflags", __u8)])].
Definition netfilter_bridge_ebt_802_3_types : list (string * cty) := structs_hdr_ui.
End Netfilter_bridge_ebt_802_3.

(** ** [linux/netfilter_bridge/ebt_among.h] *)

Module Netfilter_bridge_ebt_among.
Definition structs_ebt_mac_wormhash_tuple : list (string * cty) :=
  let ebt_mac_wormhash_tuple := Struct [("cmp", Arr 2 __u32); ("ip", __be32)] in
  [
  ("ebt_mac_wormhash_tuple", ebt_mac_wormhash_tuple);
  ("ebt_mac_wormhash", Struct [("table", Arr 257 int); ("poolsize", int);
   ("pool", Arr 0 ebt_mac_wormhash_tuple)])].
Definition ebt_among_info : cty :=
  Struct [("wh_dst_ofs", int); ("wh_src_ofs", int); ("bitmask", int)].
Definition netfilter_bridge_ebt_among_types : list (string * cty) :=
  (structs_ebt_mac_wormhash_tuple ++ [("ebt_among_info", ebt_among_info)])%list.
End Netfilter_bridge_ebt_among.

(** ** [linux/netfilter_bridge/ebt_arp.h] *)

Module Netfilter_bridge_ebt_arp.
Definition ebt_arp_info : cty :=
  Struct [("htype", __be16); ("ptype", __be16); ("opcode", __be16); ("saddr", __be32);
   ("smsk", __be32); ("daddr", __be32); ("dmsk", __be32); ("smaddr", Arr 6 uchar);
   ("smmsk", Arr 6 uchar); ("dmaddr", Arr 6 uchar); ("dmmsk", Arr 6 uchar); ("bitmask", __u8);
   ("invflags", __u8)].
Definition netfilter_bridge_ebt_arp_types : list (string * cty) := [("ebt_arp_info", ebt_arp_info)].
End Netfilter_bridge_ebt_arp.

(** ** [linux/netfilter_bridge/ebt_arpreply.h] *)

Module Netfilter_bridge_ebt_arpreply.
Definition ebt_arpreply_info : cty := Struct [("mac", Arr 6 uchar); ("target", int)].
Definition netfilter_bridge_ebt_arpreply_types : list (string * cty) := [("ebt_arpreply_info", ebt_arpreply_info)].
End Netfilter_bridge_ebt_arpreply.

(** ** [linux/netfilter_bridge/ebt_ip.h] *)

Module Netfilter_bridge_ebt_ip.
Definition ebt_ip_info : cty :=
  Struct [("saddr", __be32); ("daddr", __be32); ("smsk", __be32); ("dmsk", __be32);
   ("tos", __u8); ("protocol", __u8); ("bitmask", __u8); ("invflags", __u8);
   ("sport", Arr 2 __u16); ("dport", Arr 2 __u16)].
Definition netfilter_bridge_ebt_ip_types : list (string * cty) := [("ebt_ip_info", ebt_ip_info)].
End Netfilter_bridge_ebt_ip.

(** ** [linux/netfilter_bridge/ebt_ip6.h] *)

Module Netfilter_bridge_ebt_ip6.
Definition ebt_ip6_info : cty :=
  Struct [("saddr", In6.in6_addr); ("daddr", In6.in6_addr); ("smsk", In6.in6_addr);
   ("dmsk", In6.in6_addr); ("tclass", __u8); ("protocol", __u8); ("bitmask", __u8);
   ("invflags", __u8); ("", Union [("sport", Arr 2 __u16); ("icmpv6_type", Arr 2 __u8)]);
   ("", Union [("dport", Arr 2 __u16); ("icmpv6_code", Arr 2 __u8)])].
Definition netfilter_bridge_ebt_ip6_types : list (string * cty) := [("ebt_ip6_info", ebt_ip6_info)].
End Netfilter_bridge_ebt_ip6.

(** ** [linux/netfilter_bridge/ebt_limit.h] *)

Module Netfilter_bridge_ebt_limit.
Definition ebt_limit_info : cty :=
  Struct [("avg", __u32); ("burst", __u32); ("prev", ulong); ("credit", __u32);
   ("credit_cap", __u32); ("cost", __u32)].
Definition netfilter_bridge_ebt_limit_types : list (string * cty) := [("ebt_limit_info", ebt_limit_info)].
End Netfilter_bridge_ebt_limit.

(** ** [linux/netfilter_bridge/ebt_log.h] *)

Module Netfilter_bridge_ebt_log.
Definition EBT_LOG_PREFIX_SIZE : Z := 30.
Definition ebt_log_info : cty :=
  Struct [("loglevel", __u8); ("prefix", Arr EBT_LOG_PREFIX_SIZE __u8); ("bitmask", __u32)].
Definition netfilter_bridge_ebt_log_types : list (string * cty) := [("ebt_log_info", ebt_log_info)].
End Netfilter_bridge_ebt_log.

(** ** [linux/netfilter_bridge/ebt_mark_m.h] *)

Module Netfilter_bridge_ebt_mark_m.
Definition ebt_mark_m_info : cty :=
  Struct [("mark", ulong); ("mask", ulong); ("invert", __u8); ("bitmask", __u8)].
Definition netfilter_bridge_ebt_mark_m_types : list (string * cty) := [("ebt_mark_m_info", ebt_mark_m_info)].
End Netfilter_bridge_ebt_mark_m.

(** ** [linux/netfilter_bridge/ebt_mark_t.h] *)

Module Netfilter_bridge_ebt_mark_t.
Definition ebt_mark_t_info : cty := Struct [("mark", ulong); ("target", int)].
Definition netfilter_bridge_ebt_mark_t_types : list (string * cty) := [("ebt_mark_t_info", ebt_mark_t_info)].
End Netfilter_bridge_ebt_mark_t.

(** ** [linux/netfilter_bridge/ebt_nat.h] *)

Module Netfilter_bridge_ebt_nat.
Definition ebt_nat_info : cty := Struct [("mac", Arr 6 uchar); ("target", int)].
Definition netfilter_bridge_ebt_nat_types : list (string * cty) := [("ebt_nat_info", ebt_nat_info)].
End Netfilter_bridge_ebt_nat.

(** ** [linux/netfilter_bridge/ebt_nflog.h] *)

Module Netfilter_bridge_ebt_nflog.
Definition EBT_NFLOG_PREFIX_SIZE : Z := 64.
Definition ebt_nflog_info : cty :=
  Struct [("len", __u32); ("group", __u16); ("threshold", __u16); ("flags", __u16);
   ("pad", __u16); ("prefix", Arr EBT_NFLOG_PREFIX_SIZE char)].
Definition netfilter_bridge_ebt_nflog_types : list (string * cty) := [("ebt_nflog_info", ebt_nflog_info)].
End Netfilter_bridge_ebt_nflog.

(** ** [linux/netfilter_bridge/ebt_pkttype.h] *)

Module Netfilter_bridge_ebt_pkttype.
Definition ebt_pkttype_info : cty := Struct [("pkt_type", __u8); ("invert", __u8)].
Definition netfilter_bridge_ebt_pkttype_types : list (string * cty) := [("ebt_pkttype_info", ebt_pkttype_info)].
End Netfilter_bridge_ebt_pkttype.

(** ** [linux/netfilter_bridge/ebt_redirect.h] *)

Module Netfilter_bridge_ebt_redirect.
Definition ebt_redirect_info : cty := Struct [("target", int)].
Definition netfilter_bridge_ebt_redirect_types : list (string * cty) := [("ebt_redirect_info", ebt_redirect_info)].
End Netfilter_bridge_ebt_redirect.

(** ** [linux/netfilter_bridge/ebt_stp.h] *)

Module Netfilter_bridge_ebt_stp.
Definition structs_ebt_stp_config_info : list (string * cty) :=
  let ebt_stp_config_info := Struct [("flags", __u8); ("root_priol", __u16);
   ("root_priou", __u16); ("root_addr", Arr 6 char); ("root_addrmsk", Arr 6 char);
   ("root_costl", __u32); ("root_costu", __u32); ("sender_priol", __u16);
   ("sender_priou", __u16); ("sender_addr", Arr 6 char); ("sender_addrmsk", Arr 6 char);
   ("portl", __u16); ("portu", __u16); ("msg_agel", __u16); ("msg_ageu", __u16);
   ("max_agel", __u16); ("max_ageu", __u16); ("hello_timel", __u16); ("hello_timeu", __u16);
   ("forward_delayl", __u16); ("forward_delayu", __u16)] in
  [
  ("ebt_stp_config_info", ebt_stp_config_info);
  ("ebt_stp_info", Struct [("type", __u8); ("config", ebt_stp_config_info); ("bitmask", __u16);
   ("invflags", __u16)])].
Definition netfilter_bridge_ebt_stp_types : list (string * cty) := structs_ebt_stp_config_info.
End Netfilter_bridge_ebt_stp.

(** ** [linux/netfilter_bridge/ebt_vlan.h] *)

Module Netfilter_bridge_ebt_vlan.
Definition ebt_vlan_info : cty :=
  Struct [("id", __u16); ("prio", __u8); ("encap", __be16); ("bitmask", __u8); ("invflags", __u8)].
Definition netfilter_bridge_ebt_vlan_types : list (string * cty) := [("ebt_vlan_info", ebt_vlan_info)].
End Netfilter_bridge_ebt_vlan.

(** ** [linux/netfilter_bridge/ebtables.h] *)

Module Netfilter_bridge_ebtables.
Definition EBT_TABLE_MAXNAMELEN : Z := 32.
Definition structs_ebt_counter : list (string * cty) :=
  [
  ("ebt_counter", Struct [("pcnt", uint64_t); ("bcnt", uint64_t)]);
  ("ebt_replace", Struct [("name", Arr EBT_TABLE_MAXNAMELEN char); ("valid_hooks", uint);
   ("nentries", uint); ("entries_size", uint); ("hook_entry", Arr 6 ptr); ("num_counters", uint);
   ("counters", ptr); ("entries", ptr)]);
  ("ebt_replace_kernel", Struct [("name", Arr EBT_TABLE_MAXNAMELEN char); ("valid_hooks", uint);
   ("nentries", uint); ("entries_size", uint); ("hook_entry", Arr 6 ptr); ("num_counters", uint);
   ("counters", ptr); ("entries", ptr)])].
Definition netfilter_bridge_ebtables_types : list (string * cty) := structs_ebt_counter.
End Netfilter_bridge_ebtables.

(** ** [linux/netfilter_decnet.h] *)

Module Netfilter_decnet.
Definition nf_dn_rtmsg : cty := Struct [("nfdn_ifindex", int)].
Definition netfilter_decnet_types : list (string * cty) := [("nf_dn_rtmsg", nf_dn_rtmsg)].
End Netfilter_decnet.

(** ** [linux/netfilter_ipv4/ip_tables.h] *)

Module Netfilter_ipv4_ip_tables.
Definition ipt_ip : cty :=
  Struct [("src", In.in_addr); ("dst", In.in_addr); ("smsk", In.in_addr); ("dmsk", In.in_addr);
   ("iniface", Arr 16 char); ("outiface", Arr 16 char); ("iniface_mask", Arr 16 uchar);
   ("outiface_mask", Arr 16 uchar); ("proto", __u16); ("flags", __u8); ("invflags", __u8)].
Definition ipt_entry : cty :=
  Struct [("ip", ipt_ip); ("nfcache", uint); ("target_offset", __u16); ("next_offset", __u16);
   ("comefrom", uint); ("counters", Netfilter_x_tables.xt_counters); ("elems", Arr 0 uchar)].
Definition ipt_icmp : cty := Struct [("type", __u8); ("code", Arr 2 __u8); ("invflags", __u8)].
Definition ipt_getinfo : cty :=
  Struct [("name", Arr 32 char); ("valid_hooks", uint); ("hook_entry", Arr 5 uint);
   ("underflow", Arr 5 uint); ("num_entries", uint); ("size", uint)].
Definition ipt_replace : cty :=
  Struct [("name", Arr 32 char); ("valid_hooks", uint); ("num_entries", uint); ("size", uint);
   ("hook_entry", Arr 5 uint); ("underflow", Arr 5 uint); ("num_counters", uint);
   ("counters", ptr); ("entries", Arr 0 ipt_entry)].
Definition ipt_get_entries : cty :=
  Struct [("name", Arr 32 char); ("size", uint); ("entrytable", Arr 0 ipt_entry)].
Definition netfilter_ipv4_ip_tables_types : list (string * cty) :=
  ([("ipt_ip", ipt_ip); ("ipt_entry", ipt_entry); ("ipt_icmp", ipt_icmp); ("ipt_getinfo",
   ipt_getinfo); ("ipt_replace", ipt_replace); ("ipt_get_entries", ipt_get_entries)])%list.
End Netfilter_ipv4_ip_tables.

(** ** [linux/netfilter_ipv4/ipt_CLUSTERIP.h] *)

Module Netfilter_ipv4_ipt_CLUSTERIP.
Definition CLUSTERIP_MAX_NODES : Z := 16.
Definition ipt_clusterip_tgt_info : cty :=
  Struct [("flags", __u32); ("clustermac", Arr 6 __u8); ("num_total_nodes", __u16);
   ("num_local_nodes", __u16); ("local_nodes", Arr CLUSTERIP_MAX_NODES __u16);
   ("hash_mode", __u32); ("hash_initval", __u32); ("config", ptr)].
Definition netfilter_ipv4_ipt_CLUSTERIP_types : list (string * cty) := [("ipt_clusterip_tgt_info", ipt_clusterip_tgt_info)].
End Netfilter_ipv4_ipt_CLUSTERIP.

(** ** [linux/netfilter_ipv4/ipt_LOG.h] *)

Module Netfilter_ipv4_ipt_LOG.
Definition ipt_log_info : cty :=
  Struct [("level", uchar); ("logflags", uchar); ("prefix", Arr 30 char)].
Definition netfilter_ipv4_ipt_LOG_types : list (string * cty) := [("ipt_log_info", ipt_log_info)].
End Netfilter_ipv4_ipt_LOG.

(** ** [linux/netfilter_ipv4/ipt_REJECT.h] *)

Module Netfilter_ipv4_ipt_REJECT.
Definition ipt_reject_info : cty := Struct [("with", enum)].
Definition netfilter_ipv4_ipt_REJECT_types : list (string * cty) := [("ipt_reject_info", ipt_reject_info)].
End Netfilter_ipv4_ipt_REJECT.

(** ** [linux/netfilter_ipv4/ipt_TTL.h] *)

Module Netfilter_ipv4_ipt_TTL.
Definition ipt_TTL_info : cty := Struct [("mode", __u8); ("ttl", __u8)].
Definition netfilter_ipv4_ipt_TTL_types : list (string * cty) := [("ipt_TTL_info", ipt_TTL_info)].
End Netfilter_ipv4_ipt_TTL.

(** ** [linux/netfilter_ipv4/ipt_ah.h] *)

Module Netfilter_ipv4_ipt_ah.
Definition ipt_ah : cty := Struct [("spis", Arr 2 __u32); ("invflags", __u8)].
Definition netfilter_ipv4_ipt_ah_types : list (string * cty) := [("ipt_ah", ipt_ah)].
End Netfilter_ipv4_ipt_ah.

(** ** [linux/netfilter_ipv4/ipt_ttl.h] *)

Module Netfilter_ipv4_ipt_ttl.
Definition ipt_ttl_info : cty := Struct [("mode", __u8); ("ttl", __u8)].
Definition netfilter_ipv4_ipt_ttl_types : list (string * cty) := [("ipt_ttl_info", ipt_ttl_info)].
End Netfilter_ipv4_ipt_ttl.

(** ** [linux/netfilter_ipv6/ip6_tables.h] *)

Module Netfilter_ipv6_ip6_tables.
Definition ip6t_ip6 : cty :=
  Struct [("src", In6.in6_addr); ("dst", In6.in6_addr); ("smsk", In6.in6_addr);
   ("dmsk", In6.in6_addr); ("iniface", Arr 16 char); ("outiface", Arr 16 char);
   ("iniface_mask", Arr 16 uchar); ("outiface_mask", Arr 16 uchar); ("proto", __u16);
   ("tos", __u8); ("flags", __u8); ("invflags", __u8)].
Definition structs_ip6t_entry : list (string * cty) :=
  let ip6t_entry := Struct [("ipv6", ip6t_ip6); ("nfcache", uint); ("target_offset", __u16);
   ("next_offset", __u16); ("comefrom", uint); ("counters", Netfilter_x_tables.xt_counters);
   ("elems", Arr 0 uchar)] in
  [
  ("ip6t_entry", ip6t_entry);
  ("ip6t_standard", Struct [("entry", ip6t_entry);
   ("target", Netfilter_x_tables.xt_standard_target)]);
  ("ip6t_error", Struct [("entry", ip6t_entry); ("target", Netfilter_x_tables.xt_error_target)])].
Definition ip6t_entry : cty := type_in structs_ip6t_entry "ip6t_entry".
Definition ip6t_icmp : cty := Struct [("type", __u8); ("code", Arr 2 __u8); ("invflags", __u8)].
Definition ip6t_getinfo : cty :=
  Struct [("name", Arr 32 char); ("valid_hooks", uint); ("hook_entry", Arr 5 uint);
   ("underflow", Arr 5 uint); ("num_entries", uint); ("size", uint)].
Definition ip6t_replace : cty :=
  Struct [("name", Arr 32 char); ("valid_hooks", uint); ("num_entries", uint); ("size", uint);
   ("hook_entry", Arr 5 uint); ("underflow", Arr 5 uint); ("num_counters", uint);
   ("counters", ptr); ("entries", Arr 0 ip6t_entry)].
Definition ip6t_get_entries : cty :=
  Struct [("name", Arr 32 char); ("size", uint); ("entrytable", Arr 0 ip6t_entry)].
Definition netfilter_ipv6_ip6_tables_types : list (string * cty) :=
  ([("ip6t_ip6", ip6t_ip6)] ++ structs_ip6t_entry ++ [("ip6t_icmp", ip6t_icmp);
   ("ip6t_getinfo", ip6t_getinfo); ("ip6t_replace", ip6t_replace); ("ip6t_get_entries",
   ip6t_get_entries)])%list.
End Netfilter_ipv6_ip6_tables.

(** ** [linux/netfilter_ipv6/ip6t_HL.h] *)

Module Netfilter_ipv6_ip6t_HL.
Definition ip6t_HL_info : cty := Struct [("mode", __u8); ("hop_limit", __u8)].
Definition netfilter_ipv6_ip6t_HL_types : list (string * cty) := [("ip6t_HL_info", ip6t_HL_info)].
End Netfilter_ipv6_ip6t_HL.

(** ** [linux/netfilter_ipv6/ip6t_LOG.h] *)

Module Netfilter_ipv6_ip6t_LOG.
Definition ip6t_log_info : cty :=
  Struct [("level", uchar); ("logflags", uchar); ("prefix", Arr 30 char)].
Definition netfilter_ipv6_ip6t_LOG_types : list (string * cty) := [("ip6t_log_info", ip6t_log_info)].
End Netfilter_ipv6_ip6t_LOG.

(** ** [linux/netfilter_ipv6/ip6t_NPT.h] *)

Module Netfilter_ipv6_ip6t_NPT.
Definition ip6t_npt_tginfo : cty :=
  Struct [("src_pfx", Netfilter.nf_inet_addr); ("dst_pfx", Netfilter.nf_inet_addr);
   ("src_pfx_len", __u8); ("dst_pfx_len", __u8); ("adjustment", __sum16)].
Definition netfilter_ipv6_ip6t_NPT_types : list (string * cty) := [("ip6t_npt_tginfo", ip6t_npt_tginfo)].
End Netfilter_ipv6_ip6t_NPT.

(** ** [linux/netfilter_ipv6/ip6t_REJECT.h] *)

Module Netfilter_ipv6_ip6t_REJECT.
Definition ip6t_reject_info : cty := Struct [("with", __u32)].
Definition netfilter_ipv6_ip6t_REJECT_types : list (string * cty) := [("ip6t_reject_info", ip6t_reject_info)].
End Netfilter_ipv6_ip6t_REJECT.

(** ** [linux/netfilter_ipv6/ip6t_ah.h] *)

Module Netfilter_ipv6_ip6t_ah.
Definition ip6t_ah : cty :=
  Struct [("spis", Arr 2 __u32); ("hdrlen", __u32); ("hdrres", __u8); ("invflags", __u8)].
Definition netfilter_ipv6_ip6t_ah_types : list (string * cty) := [("ip6t_ah", ip6t_ah)].
End Netfilter_ipv6_ip6t_ah.

(** ** [linux/netfilter_ipv6/ip6t_frag.h] *)

Module Netfilter_ipv6_ip6t_frag.
Definition ip6t_frag : cty :=
  Struct [("ids", Arr 2 __u32); ("hdrlen", __u32); ("flags", __u8); ("invflags", __u8)].
Definition netfilter_ipv6_ip6t_frag_types : list (string * cty) := [("ip6t_frag", ip6t_frag)].
End Netfilter_ipv6_ip6t_frag.

(** ** [linux/netfilter_ipv6/ip6t_hl.h] *)

Module Netfilter_ipv6_ip6t_hl.
Definition ip6t_hl_info : cty := Struct [("mode", __u8); ("hop_limit", __u8)].
Definition netfilter_ipv6_ip6t_hl_types : list (string * cty) := [("ip6t_hl_info", ip6t_hl_info)].
End Netfilter_ipv6_ip6t_hl.

(** ** [linux/netfilter_ipv6/ip6t_ipv6header.h] *)

Module Netfilter_ipv6_ip6t_ipv6header.
Definition ip6t_ipv6header_info : cty :=
  Struct [("matchflags", __u8); ("invflags", __u8); ("modeflag", __u8)].
Definition netfilter_ipv6_ip6t_ipv6header_types : list (string * cty) := [("ip6t_ipv6header_info", ip6t_ipv6header_info)].
End Netfilter_ipv6_ip6t_ipv6header.

(** ** [linux/netfilter_ipv6/ip6t_mh.h] *)

Module Netfilter_ipv6_ip6t_mh.
Definition ip6t_mh : cty := Struct [("types", Arr 2 __u8); ("invflags", __u8)].
Definition netfilter_ipv6_ip6t_mh_types : list (string * cty) := [("ip6t_mh", ip6t_mh)].
End Netfilter_ipv6_ip6t_mh.

(** ** [linux/netfilter_ipv6/ip6t_opts.h] *)

Module Netfilter_ipv6_ip6t_opts.
Definition IP6T_OPTS_OPTSNR : Z := 16.
Definition ip6t_opts : cty :=
  Struct [("hdrlen", __u32); ("flags", __u8); ("invflags", __u8);
   ("opts", Arr IP6T_OPTS_OPTSNR __u16); ("optsnr", __u8)].
Definition netfilter_ipv6_ip6t_opts_types : list (string * cty) := [("ip6t_opts", ip6t_opts)].
End Netfilter_ipv6_ip6t_opts.

(** ** [linux/netfilter_ipv6/ip6t_rt.h] *)

Module Netfilter_ipv6_ip6t_rt.
Definition IP6T_RT_HOPS : Z := 16.
Definition ip6t_rt : cty :=
  Struct [("rt_type", __u32); ("segsleft", Arr 2 __u32); ("hdrlen", __u32); ("flags", __u8);
   ("invflags", __u8); ("addrs", Arr IP6T_RT_HOPS In6.in6_addr); ("addrnr", __u8)].
Definition netfilter_ipv6_ip6t_rt_types : list (string * cty) := [("ip6t_rt", ip6t_rt)].
End Netfilter_ipv6_ip6t_rt.

(** ** [linux/netlink.h] *)

Module Netlink.
Definition structs_sockaddr_nl : list (string * cty) :=
  [
  ("sockaddr_nl", Struct [("nl_family", __kernel_sa_family_t); ("nl_pad", ushort);
   ("nl_pid", __u32); ("nl_groups", __u32)]);
  ("nlmsghdr", Struct [("nlmsg_len", __u32); ("nlmsg_type", __u16); ("nlmsg_flags", __u16);
   ("nlmsg_seq", __u32); ("nlmsg_pid", __u32)])].
Definition nlmsghdr : cty := type_in structs_sockaddr_nl "nlmsghdr".
Definition nlmsgerr : cty := Struct [("error", int); ("msg", nlmsghdr)].
Definition structs_nl_pktinfo : list (string * cty) :=
  [
  ("nl_pktinfo", Struct [("group", __u32)]);
  ("nl_mmap_req", Struct [("nm_block_size", uint); ("nm_block_nr", uint);
   ("nm_frame_size", uint); ("nm_frame_nr", uint)]);
  ("nl_mmap_hdr", Struct [("nm_status", uint); ("nm_len", uint); ("nm_group", __u32);
   ("nm_pid", __u32); ("nm_uid", __u32); ("nm_gid", __u32)])].
Definition nlattr : cty := Struct [("nla_len", __u16); ("nla_type", __u16)].
Definition netlink_types : list (string * cty) :=
  (structs_sockaddr_nl ++ [("nlmsgerr", nlmsgerr)] ++ structs_nl_pktinfo ++ [("nlattr",
   nlattr)])%list.
End Netlink.

(** ** [linux/netlink_diag.h] *)

Module Netlink_diag.
Definition structs_netlink_diag_req : list (string * cty) :=
  [
  ("netlink_diag_req", Struct [("sdiag_family", __u8); ("sdiag_protocol", __u8); ("pad", __u16);
   ("ndiag_ino", __u32); ("ndiag_show", __u32); ("ndiag_cookie", Arr 2 __u32)]);
  ("netlink_diag_msg", Struct [("ndiag_family", __u8); ("ndiag_type", __u8);
   ("ndiag_protocol", __u8); ("ndiag_state", __u8); ("ndiag_portid", __u32);
   ("ndiag_dst_portid", __u32); ("ndiag_dst_group", __u32); ("ndiag_ino", __u32);
   ("ndiag_cookie", Arr 2 __u32)]);
  ("netlink_diag_ring", Struct [("ndr_block_size", __u32); ("ndr_block_nr", __u32);
   ("ndr_frame_size", __u32); ("ndr_frame_nr", __u32)])].
Definition netlink_diag_types : list (string * cty) := structs_netlink_diag_req.
End Netlink_diag.

(** ** [linux/netrom.h] *)

Module Netrom.
Definition nr_route_struct : cty :=
  Struct [("type", int); ("callsign", Ax25.ax25_address); ("device", Arr 16 char);
   ("quality", uint); ("mnemonic", Arr 7 char); ("neighbour", Ax25.ax25_address);
   ("obs_count", uint); ("ndigis", uint); ("digipeaters", Arr 8 Ax25.ax25_address)].
Definition netrom_types : list (string * cty) := [("nr_route_struct", nr_route_struct)].
End Netrom.

(** ** [linux/nfc.h] *)

Module Nfc.
Definition NFC_LLCP_MAX_SERVICE_NAME : Z := 63.
Definition sockaddr_nfc : cty :=
  Struct [("sa_family", sa_family_t); ("dev_idx", __u32); ("target_idx", __u32);
   ("nfc_protocol", __u32)].
Definition sockaddr_nfc_llcp : cty :=
  Struct [("sa_family", sa_family_t); ("dev_idx", __u32); ("target_idx", __u32);
   ("nfc_protocol", __u32); ("dsap", __u8); ("ssap", __u8);
   ("service_name", Arr NFC_LLCP_MAX_SERVICE_NAME char); ("service_name_len", size_t)].
Definition nfc_types : list (string * cty) :=
  ([("sockaddr_nfc", sockaddr_nfc); ("sockaddr_nfc_llcp", sockaddr_nfc_llcp)])%list.
End Nfc.

(** ** [linux/nfs_mount.h] *)

Module Nfs_mount.
Definition nfs_mount_data : cty :=
  Struct [("version", int); ("fd", int); ("old_root", Nfs2.nfs2_fh); ("flags", int);
   ("rsize", int); ("wsize", int); ("timeo", int); ("retrans", int); ("acregmin", int);
   ("acregmax", int); ("acdirmin", int); ("acdirmax", int); ("addr", In.sockaddr_in);
   ("hostname", Arr 256 char); ("namlen", int); ("bsize", uint); ("root", Nfs3.nfs3_fh);
   ("pseudoflavor", int); ("context", Arr 257 char)].
Definition nfs_mount_types : list (string * cty) := [("nfs_mount_data", nfs_mount_data)].
End Nfs_mount.

(** ** [linux/nl80211.h] *)

Module Nl80211.
Definition NL80211_VHT_NSS_MAX : Z := 8.
Definition nl80211_sta_flag_update : cty := Packed [("mask", __u32); ("set", __u32)].
Definition nl80211_txrate_vht : cty := Struct [("mcs", Arr NL80211_VHT_NSS_MAX __u16)].
Definition nl80211_pattern_support : cty :=
  Packed [("max_patterns", __u32); ("min_pattern_len", __u32); ("max_pattern_len", __u32);
   ("max_pkt_offset", __u32)].
Definition structs_nl80211_wowlan_tcp_data_seq : list (string * cty) :=
  [
  ("nl80211_wowlan_tcp_data_seq", Struct [("start", __u32); ("offset", __u32); ("len", __u32)]);
  ("nl80211_wowlan_tcp_data_token", Struct [("offset", __u32); ("len", __u32);
   ("token_stream", Arr 0 __u8)]);
  ("nl80211_wowlan_tcp_data_token_feature", Struct [("min_len", __u32); ("max_len", __u32);
   ("bufsize", __u32)])].
Definition nl80211_coalesce_rule_support : cty :=
  Packed [("max_rules", __u32); ("pat", nl80211_pattern_support); ("max_delay", __u32)].
Definition nl80211_vendor_cmd_info : cty := Struct [("vendor_id", __u32); ("subcmd", __u32)].
Definition nl80211_bss_select_rssi_adjust : cty := Packed [("band", __u8); ("delta", __s8)].
Definition nl80211_types : list (string * cty) :=
  ([("nl80211_sta_flag_update", nl80211_sta_flag_update); ("nl80211_txrate_vht",
   nl80211_txrate_vht); ("nl80211_pattern_support", nl80211_pattern_support)] ++
   structs_nl80211_wowlan_tcp_data_seq ++ [("nl80211_coalesce_rule_support",
   nl80211_coalesce_rule_support); ("nl80211_vendor_cmd_info", nl80211_vendor_cmd_info);
   ("nl80211_bss_select_rssi_adjust", nl80211_bss_select_rssi_adjust)])%list.
End Nl80211.

(** ** [linux/openvswitch.h] *)

Module Openvswitch.
Definition OVS_CT_LABELS_LEN : Z := 16.
Definition ovs_header : cty := Struct [("dp_ifindex", int)].
Definition structs_ovs_dp_stats : list (string * cty) :=
  [
  ("ovs_dp_stats", Struct [("n_hit", __u64); ("n_missed", __u64); ("n_lost", __u64);
   ("n_flows", __u64)]);
  ("ovs_dp_megaflow_stats", Struct [("n_mask_hit", __u64); ("n_masks", __u32); ("pad0", __u32);
   ("pad1", __u64); ("pad2", __u64)]);
  ("ovs_vport_stats", Struct [("rx_packets", __u64); ("tx_packets", __u64); ("rx_bytes", __u64);
   ("tx_bytes", __u64); ("rx_errors", __u64); ("tx_errors", __u64); ("rx_dropped", __u64);
   ("tx_dropped", __u64)])].
Definition ovs_flow_stats : cty := Struct [("n_packets", __u64); ("n_bytes", __u64)].
Definition structs_ovs_key_ethernet : list (string * cty) :=
  [
  ("ovs_key_ethernet", Struct [("eth_src", Arr 6 __u8); ("eth_dst", Arr 6 __u8)]);
  ("ovs_key_mpls", Struct [("mpls_lse", __be32)]);
  ("ovs_key_ipv4", Struct [("ipv4_src", __be32); ("ipv4_dst", __be32); ("ipv4_proto", __u8);
   ("ipv4_tos", __u8); ("ipv4_ttl", __u8); ("ipv4_frag", __u8)]);
  ("ovs_key_ipv6", Struct [("ipv6_src", Arr 4 __be32); ("ipv6_dst", Arr 4 __be32);
   ("ipv6_label", __be32); ("ipv6_proto", __u8); ("ipv6_tclass", __u8); ("ipv6_hlimit", __u8);
   ("ipv6_frag", __u8)]);
  ("ovs_key_tcp", Struct [("tcp_src", __be16); ("tcp_dst", __be16)]);
  ("ovs_key_udp", Struct [("udp_src", __be16); ("udp_dst", __be16)]);
  ("ovs_key_sctp", Struct [("sctp_src", __be16); ("sctp_dst", __be16)]);
  ("ovs_key_icmp", Struct [("icmp_type", __u8); ("icmp_code", __u8)]);
  ("ovs_key_icmpv6", Struct [("icmpv6_type", __u8); ("icmpv6_code", __u8)]);
  ("ovs_key_arp", Struct [("arp_sip", __be32); ("arp_tip", __be32); ("arp_op", __be16);
   ("arp_sha", Arr 6 __u8); ("arp_tha", Arr 6 __u8)]);
  ("ovs_key_nd", Struct [("nd_target", Arr 4 __be32); ("nd_sll", Arr 6 __u8);
   ("nd_tll", Arr 6 __u8)])].
Definition ovs_key_ct_labels : cty := Struct [("ct_labels", Arr OVS_CT_LABELS_LEN __u8)].
Definition structs_ovs_action_push_mpls : list (string * cty) :=
  [
  ("ovs_action_push_mpls", Struct [("mpls_lse", __be32); ("mpls_ethertype", __be16)]);
  ("ovs_action_push_vlan", Struct [("vlan_tpid", __be16); ("vlan_tci", __be16)])].
Definition ovs_action_hash : cty := Struct [("hash_alg", uint32_t); ("hash_basis", uint32_t)].
Definition openvswitch_types : list (string * cty) :=
  ([("ovs_header", ovs_header)] ++ structs_ovs_dp_stats ++ [("ovs_flow_stats",
   ovs_flow_stats)] ++ structs_ovs_key_ethernet ++ [("ovs_key_ct_labels", ovs_key_ct_labels)]
   ++ structs_ovs_action_push_mpls ++ [("ovs_action_hash", ovs_action_hash)])%list.
End Openvswitch.

(** ** [linux/packet_diag.h] *)

Module Packet_diag.
Definition packet_diag_req : cty :=
  Struct [("sdiag_family", __u8); ("sdiag_protocol", __u8); ("pad", __u16); ("pdiag_ino", __u32);
   ("pdiag_show", __u32); ("pdiag_cookie", Arr 2 __u32)].
Definition packet_diag_msg : cty :=
  Struct [("pdiag_family", __u8); ("pdiag_type", __u8); ("pdiag_num", __u16);
   ("pdiag_ino", __u32); ("pdiag_cookie", Arr 2 __u32)].
Definition structs_packet_diag_info : list (string * cty) :=
  [
  ("packet_diag_info", Struct [("pdi_index", __u32); ("pdi_version", __u32);
   ("pdi_reserve", __u32); ("pdi_copy_thresh", __u32); ("pdi_tstamp", __u32);
   ("pdi_flags", __u32)]);
  ("packet_diag_mclist", Struct [("pdmc_index", __u32); ("pdmc_count", __u32);
   ("pdmc_type", __u16); ("pdmc_alen", __u16); ("pdmc_addr", Arr 32 __u8)]);
  ("packet_diag_ring", Struct [("pdr_block_size", __u32); ("pdr_block_nr", __u32);
   ("pdr_frame_size", __u32); ("pdr_frame_nr", __u32); ("pdr_retire_tmo", __u32);
   ("pdr_sizeof_priv", __u32); ("pdr_features", __u32)])].
Definition packet_diag_types : list (string * cty) :=
  ([("packet_diag_req", packet_diag_req); ("packet_diag_msg", packet_diag_msg)] ++
   structs_packet_diag_info)%list.
End Packet_diag.

(** ** [linux/phonet.h] *)

Module Phonet.
Definition structs_phonethdr : list (string * cty) :=
  [
  ("phonethdr", Packed [("pn_rdev", __u8); ("pn_sdev", __u8); ("pn_res", __u8);
   ("pn_length", __be16); ("pn_robj", __u8); ("pn_sobj", __u8)]);
  ("phonetmsg", Struct [("pn_trans_id", __u8); ("pn_msg_id", __u8);
   ("pn_msg_u", Union [("base", Struct [("pn_submsg_id", __u8); ("pn_data", Arr 5 __u8)]);
   ("ext", Struct [("pn_e_res_id", __u16); ("pn_e_submsg_id", __u8);
   ("pn_e_data", Arr 3 __u8)])])])].
Definition phonet_types : list (string * cty) := structs_phonethdr.
End Phonet.

(** ** [linux/pkt_sched.h] *)

Module Pkt_sched.
Definition TC_QOPT_MAX_QUEUE : Z := 16.
Definition structs_tc_stats : list (string * cty) :=
  [
  ("tc_stats", Struct [("bytes", __u64); ("packets", __u32); ("drops", __u32);
   ("overlimits", __u32); ("bps", __u32); ("pps", __u32); ("qlen", __u32); ("backlog", __u32)]);
  ("tc_estimator", Struct [("interval", schar); ("ewma_log", uchar)])].
Definition tc_ratespec : cty :=
  Struct [("cell_log", uchar); ("linklayer", __u8); ("overhead", ushort); ("cell_align", short);
   ("mpu", ushort); ("rate", __u32)].
Definition tc_sizespec : cty :=
  Struct [("cell_log", uchar); ("size_log", uchar); ("cell_align", short); ("overhead", int);
   ("linklayer", uint); ("mpu", uint); ("mtu", uint); ("tsize", uint)].
Definition tc_fifo_qopt : cty := Struct [("limit", __u32)].
Definition structs_tc_prio_qopt : list (string * cty) :=
  [
  ("tc_prio_qopt", Struct [("bands", int); ("priomap", Arr 16 __u8); ("enable_flow", __u8)]);
  ("tc_multiq_qopt", Struct [("bands", __u16); ("max_bands", __u16)])].
Definition structs_tc_plug_qopt : list (string * cty) :=
  [
  ("tc_plug_qopt", Struct [("action", int); ("limit", __u32)]);
  ("tc_tbf_qopt", Struct [("rate", tc_ratespec); ("peakrate", tc_ratespec); ("limit", __u32);
   ("buffer", __u32); ("mtu", __u32)])].
Definition structs_tc_sfq_qopt : list (string * cty) :=
  let tc_sfq_qopt := Struct [("quantum", uint); ("perturb_period", int); ("limit", __u32);
   ("divisor", uint); ("flows", uint)] in
  let tc_sfqred_stats := Struct [("prob_drop", __u32); ("forced_drop", __u32);
   ("prob_mark", __u32); ("forced_mark", __u32); ("prob_mark_head", __u32);
   ("forced_mark_head", __u32)] in
  [
  ("tc_sfq_qopt", tc_sfq_qopt);
  ("tc_sfqred_stats", tc_sfqred_stats);
  ("tc_sfq_qopt_v1", Struct [("v0", tc_sfq_qopt); ("depth", uint); ("headdrop", uint);
   ("limit", __u32); ("qth_min", __u32); ("qth_max", __u32); ("Wlog", uchar); ("Plog", uchar);
   ("Scell_log", uchar); ("flags", uchar); ("max_P", __u32); ("stats", tc_sfqred_stats)]);
  ("tc_sfq_xstats", Struct [("allot", __s32)])].
Definition structs_tc_red_qopt : list (string * cty) :=
  [
  ("tc_red_qopt", Struct [("limit", __u32); ("qth_min", __u32); ("qth_max", __u32);
   ("Wlog", uchar); ("Plog", uchar); ("Scell_log", uchar); ("flags", uchar)]);
  ("tc_red_xstats", Struct [("early", __u32); ("pdrop", __u32); ("other", __u32);
   ("marked", __u32)])].
Definition structs_tc_gred_qopt : list (string * cty) :=
  [
  ("tc_gred_qopt", Struct [("limit", __u32); ("qth_min", __u32); ("qth_max", __u32);
   ("DP", __u32); ("backlog", __u32); ("qave", __u32); ("forced", __u32); ("early", __u32);
   ("other", __u32); ("pdrop", __u32); ("Wlog", __u8); ("Plog", __u8); ("Scell_log", __u8);
   ("prio", __u8); ("packets", __u32); ("bytesin", __u32)]);
  ("tc_gred_sopt", Struct [("DPs", __u32); ("def_DP", __u32); ("grio", __u8); ("flags", __u8);
   ("pad1", __u16)])].
Definition structs_tc_choke_qopt : list (string * cty) :=
  [
  ("tc_choke_qopt", Struct [("limit", __u32); ("qth_min", __u32); ("qth_max", __u32);
   ("Wlog", uchar); ("Plog", uchar); ("Scell_log", uchar); ("flags", uchar)]);
  ("tc_choke_xstats", Struct [("early", __u32); ("pdrop", __u32); ("other", __u32);
   ("marked", __u32); ("matched", __u32)])].
Definition structs_tc_htb_opt : list (string * cty) :=
  [
  ("tc_htb_opt", Struct [("rate", tc_ratespec); ("ceil", tc_ratespec); ("buffer", __u32);
   ("cbuffer", __u32); ("quantum", __u32); ("level", __u32); ("prio", __u32)]);
  ("tc_htb_glob", Struct [("version", __u32); ("rate2quantum", __u32); ("defcls", __u32);
   ("debug", __u32); ("direct_pkts", __u32)])].
Definition structs_tc_htb_xstats : list (string * cty) :=
  [
  ("tc_htb_xstats", Struct [("lends", __u32); ("borrows", __u32); ("giants", __u32);
   ("tokens", __u32); ("ctokens", __u32)]);
  ("tc_hfsc_qopt", Struct [("defcls", __u16)]);
  ("tc_service_curve", Struct [("m1", __u32); ("d", __u32); ("m2", __u32)]);
  ("tc_hfsc_stats", Struct [("work", __u64); ("rtwork", __u64); ("period", __u32);
   ("level", __u32)])].
Definition structs_tc_cbq_lssopt : list (string * cty) :=
  [
  ("tc_cbq_lssopt", Struct [("change", uchar); ("flags", uchar); ("ewma_log", uchar);
   ("level", uchar); ("maxidle", __u32); ("minidle", __u32); ("offtime", __u32);
   ("avpkt", __u32)]);
  ("tc_cbq_wrropt", Struct [("flags", uchar); ("priority", uchar); ("cpriority", uchar);
   ("__reserved", uchar); ("allot", __u32); ("weight", __u32)]);
  ("tc_cbq_ovl", Struct [("strategy", uchar); ("priority2", uchar); ("pad", __u16);
   ("penalty", __u32)]);
  ("tc_cbq_police", Struct [("police", uchar); ("__res1", uchar); ("__res2", ushort)]);
  ("tc_cbq_fopt", Struct [("split", __u32); ("defmap", __u32); ("defchange", __u32)]);
  ("tc_cbq_xstats", Struct [("borrows", __u32); ("overactions", __u32); ("avgidle", __s32);
   ("undertime", __s32)])].
Definition structs_tc_netem_qopt : list (string * cty) :=
  [
  ("tc_netem_qopt", Struct [("latency", __u32); ("limit", __u32); ("loss", __u32);
   ("gap", __u32); ("duplicate", __u32); ("jitter", __u32)]);
  ("tc_netem_corr", Struct [("delay_corr", __u32); ("loss_corr", __u32); ("dup_corr", __u32)]);
  ("tc_netem_reorder", Struct [("probability", __u32); ("correlation", __u32)]);
  ("tc_netem_corrupt", Struct [("probability", __u32); ("correlation", __u32)]);
  ("tc_netem_rate", Struct [("rate", __u32); ("packet_overhead", __s32); ("cell_size", __u32);
   ("cell_overhead", __s32)])].
Definition structs_tc_netem_gimodel : list (string * cty) :=
  [
  ("tc_netem_gimodel", Struct [("p13", __u32); ("p31", __u32); ("p32", __u32); ("p14", __u32);
   ("p23", __u32)]);
  ("tc_netem_gemodel", Struct [("p", __u32); ("r", __u32); ("h", __u32); ("k1", __u32)])].
Definition tc_drr_stats : cty := Struct [("deficit", __u32)].
Definition tc_mqprio_qopt : cty :=
  Struct [("num_tc", __u8); ("prio_tc_map", Arr 16 __u8); ("hw", __u8);
   ("count", Arr TC_QOPT_MAX_QUEUE __u16); ("offset", Arr TC_QOPT_MAX_QUEUE __u16)].
Definition structs_tc_sfb_qopt : list (string * cty) :=
  [
  ("tc_sfb_qopt", Struct [("rehash_interval", __u32); ("warmup_time", __u32); ("max", __u32);
   ("bin_size", __u32); ("increment", __u32); ("decrement", __u32); ("limit", __u32);
   ("penalty_rate", __u32); ("penalty_burst", __u32)]);
  ("tc_sfb_xstats", Struct [("earlydrop", __u32); ("penaltydrop", __u32); ("bucketdrop", __u32);
   ("queuedrop", __u32); ("childdrop", __u32); ("marked", __u32); ("maxqlen", __u32);
   ("maxprob", __u32); ("avgprob", __u32)])].
Definition tc_qfq_stats : cty := Struct [("weight", __u32); ("lmax", __u32)].
Definition tc_codel_xstats : cty :=
  Struct [("maxpacket", __u32); ("count", __u32); ("lastcount", __u32); ("ldelay", __u32);
   ("drop_next", __s32); ("drop_overlimit", __u32); ("ecn_mark", __u32); ("dropping", __u32);
   ("ce_mark", __u32)].
Definition structs_tc_fq_codel_qd_stats : list (string * cty) :=
  let tc_fq_codel_qd_stats := Struct [("maxpacket", __u32); ("drop_overlimit", __u32);
   ("ecn_mark", __u32); ("new_flow_count", __u32); ("new_flows_len", __u32);
   ("old_flows_len", __u32); ("ce_mark", __u32)] in
  let tc_fq_codel_cl_stats := Struct [("deficit", __s32); ("ldelay", __u32); ("count", __u32);
   ("lastcount", __u32); ("dropping", __u32); ("drop_next", __s32)] in
  [
  ("tc_fq_codel_qd_stats", tc_fq_codel_qd_stats);
  ("tc_fq_codel_cl_stats", tc_fq_codel_cl_stats);
  ("tc_fq_codel_xstats", Struct [("type", __u32);
   ("", Union [("qdisc_stats", tc_fq_codel_qd_stats); ("class_stats", tc_fq_codel_cl_stats)])])].
Definition tc_fq_qd_stats : cty :=
  Struct [("gc_flows", __u64); ("highprio_packets", __u64); ("tcp_retrans", __u64);
   ("throttled", __u64); ("flows_plimit", __u64); ("pkts_too_long", __u64);
   ("allocation_errors", __u64); ("time_next_delayed_flow", __s64); ("flows", __u32);
   ("inactive_flows", __u32); ("throttled_flows", __u32); ("pad", __u32)].
Definition tc_hhf_xstats : cty :=
  Struct [("drop_overlimit", __u32); ("hh_overlimit", __u32); ("hh_tot_count", __u32);
   ("hh_cur_count", __u32)].
Definition tc_pie_xstats : cty :=
  Struct [("prob", __u32); ("delay", __u32); ("avg_dq_rate", __u32); ("packets_in", __u32);
   ("dropped", __u32); ("overlimit", __u32); ("maxq", __u32); ("ecn_mark", __u32)].
Definition pkt_sched_types : list (string * cty) :=
  (structs_tc_stats ++ [("tc_ratespec", tc_ratespec); ("tc_sizespec", tc_sizespec);
   ("tc_fifo_qopt", tc_fifo_qopt)] ++ structs_tc_prio_qopt ++ structs_tc_plug_qopt ++
   structs_tc_sfq_qopt ++ structs_tc_red_qopt ++ structs_tc_gred_qopt ++ structs_tc_choke_qopt
   ++ structs_tc_htb_opt ++ structs_tc_htb_xstats ++ structs_tc_cbq_lssopt ++
   structs_tc_netem_qopt ++ structs_tc_netem_gimodel ++ [("tc_drr_stats", tc_drr_stats);
   ("tc_mqprio_qopt", tc_mqprio_qopt)] ++ structs_tc_sfb_qopt ++ [("tc_qfq_stats",
   tc_qfq_stats); ("tc_codel_xstats", tc_codel_xstats)] ++ structs_tc_fq_codel_qd_stats ++
   [("tc_fq_qd_stats", tc_fq_qd_stats); ("tc_hhf_xstats", tc_hhf_xstats); ("tc_pie_xstats",
   tc_pie_xstats)])%list.
End Pkt_sched.

(** ** [linux/pkt_cls.h] *)

Module Pkt_cls.
Definition structs_tc_police : list (string * cty) :=
  [
  ("tc_police", Struct [("index", __u32); ("action", int); ("limit", __u32); ("burst", __u32);
   ("mtu", __u32); ("rate", Pkt_sched.tc_ratespec); ("peakrate", Pkt_sched.tc_ratespec);
   ("refcnt", int); ("bindcnt", int); ("capab", __u32)]);
  ("tcf_t", Struct [("install", __u64); ("lastuse", __u64); ("expires", __u64)]);
  ("tc_cnt", Struct [("refcnt", int); ("bindcnt", int)])].
Definition structs_tc_u32_key : list (string * cty) :=
  let tc_u32_key := Struct [("mask", __be32); ("val", __be32); ("off", int); ("offmask", int)] in
  [
  ("tc_u32_key", tc_u32_key);
  ("tc_u32_sel", Struct [("flags", uchar); ("offshift", uchar); ("nkeys", uchar);
   ("offmask", __be16); ("off", __u16); ("offoff", short); ("hoff", short); ("hmask", __be32);
   ("keys", Arr 0 tc_u32_key)]);
  ("tc_u32_mark", Struct [("val", __u32); ("mask", __u32); ("success", __u32)]);
  ("tc_u32_pcnt", Struct [("rcnt", __u64); ("rhit", __u64); ("kcnts", Arr 0 __u64)])].
Definition structs_tc_rsvp_gpi : list (string * cty) :=
  let tc_rsvp_gpi := Struct [("key", __u32); ("mask", __u32); ("offset", int)] in
  [
  ("tc_rsvp_gpi", tc_rsvp_gpi);
  ("tc_rsvp_pinfo", Struct [("dpi", tc_rsvp_gpi); ("spi", tc_rsvp_gpi); ("protocol", __u8);
   ("tunnelid", __u8); ("tunnelhdr", __u8); ("pad", __u8)])].
Definition tcf_ematch_tree_hdr : cty := Struct [("nmatches", __u16); ("progid", __u16)].
Definition tcf_ematch_hdr : cty :=
  Struct [("matchid", __u16); ("kind", __u16); ("flags", __u16); ("pad", __u16)].
Definition pkt_cls_types : list (string * cty) :=
  (structs_tc_police ++ structs_tc_u32_key ++ structs_tc_rsvp_gpi ++ [("tcf_ematch_tree_hdr",
   tcf_ematch_tree_hdr); ("tcf_ematch_hdr", tcf_ematch_hdr)])%list.
End Pkt_cls.

(** ** [linux/rds.h] *)

Module Rds.
Definition TRANSNAMSIZ : Z := 16.
Definition RDS_IB_GID_LEN : Z := 16.
Definition rds_info_counter : cty := Packed [("name", Arr 32 __u8); ("value", __u64)].
Definition rds_info_connection : cty :=
  Packed [("next_tx_seq", __u64); ("next_rx_seq", __u64); ("laddr", __be32); ("faddr", __be32);
   ("transport", Arr TRANSNAMSIZ __u8); ("flags", __u8)].
Definition structs_rds_info_message : list (string * cty) :=
  [
  ("rds_info_message", Packed [("seq", __u64); ("len", __u32); ("laddr", __be32);
   ("faddr", __be32); ("lport", __be16); ("fport", __be16); ("flags", __u8)]);
  ("rds_info_socket", Packed [("sndbuf", __u32); ("bound_addr", __be32);
   ("connected_addr", __be32); ("bound_port", __be16); ("connected_port", __be16);
   ("rcvbuf", __u32); ("inum", __u64)]);
  ("rds_info_tcp_socket", Packed [("local_addr", __be32); ("local_port", __be16);
   ("peer_addr", __be32); ("peer_port", __be16); ("hdr_rem", __u64); ("data_rem", __u64);
   ("last_sent_nxt", __u32); ("last_expected_una", __u32); ("last_seen_una", __u32)])].
Definition rds_info_rdma_connection : cty :=
  Struct [("src_addr", __be32); ("dst_addr", __be32); ("src_gid", Arr RDS_IB_GID_LEN __u8);
   ("dst_gid", Arr RDS_IB_GID_LEN __u8); ("max_send_wr", __u32); ("max_recv_wr", __u32);
   ("max_send_sge", __u32); ("rdma_mr_max", __u32); ("rdma_mr_size", __u32)].
Definition structs_rds_rdma_cookie_t : list (string * cty) :=
  let rds_iovec := Struct [("addr", __u64); ("bytes", __u64)] in
  [
  ("rds_rdma_cookie_t", __u64);
  ("rds_iovec", rds_iovec);
  ("rds_get_mr_args", Struct [("vec", rds_iovec); ("cookie_addr", __u64); ("flags", __u64)])].
Definition rds_rdma_cookie_t : cty := type_in structs_rds_rdma_cookie_t "rds_rdma_cookie_t".
Definition rds_iovec : cty := type_in structs_rds_rdma_cookie_t "rds_iovec".
Definition structs_rds_free_mr_args : list (string * cty) :=
  [
  ("rds_free_mr_args", Struct [("cookie", rds_rdma_cookie_t); ("flags", __u64)]);
  ("rds_rdma_args", Struct [("cookie", rds_rdma_cookie_t); ("remote_vec", rds_iovec);
   ("local_vec_addr", __u64); ("nr_local", __u64); ("flags", __u64); ("user_token", __u64)])].
Definition rds_atomic_args : cty :=
  Struct [("cookie", rds_rdma_cookie_t); ("local_addr", __u64); ("remote_addr", __u64);
   ("", Union [("cswp", Struct [("compare", __u64); ("swap", __u64)]);
   ("fadd", Struct [("add", __u64)]); ("m_cswp", Struct [("compare", __u64); ("swap", __u64);
   ("compare_mask", __u64); ("swap_mask", __u64)]); ("m_fadd", Struct [("add", __u64);
   ("nocarry_mask", __u64)])]); ("flags", __u64); ("user_token", __u64)].
Definition rds_rdma_notify : cty := Struct [("user_token", __u64); ("status", __s32)].
Definition rds_types : list (string * cty) :=
  ([("rds_info_counter", rds_info_counter); ("rds_info_connection", rds_info_connection)] ++
   structs_rds_info_message ++ [("rds_info_rdma_connection", rds_info_rdma_connection)] ++
   structs_rds_rdma_cookie_t ++ structs_rds_free_mr_args ++ [("rds_atomic_args",
   rds_atomic_args); ("rds_rdma_notify", rds_rdma_notify)])%list.
End Rds.

(** ** [linux/rose.h] *)

Module Rose.
Definition ROSE_MAX_DIGIS : Z := 6.
Definition structs_rose_address : list (string * cty) :=
  let rose_address := Struct [("rose_addr", Arr 5 char)] in
  [
  ("rose_address", rose_address);
  ("sockaddr_rose", Struct [("srose_family", __kernel_sa_family_t); ("srose_addr", rose_address);
   ("srose_call", Ax25.ax25_address); ("srose_ndigis", int); ("srose_digi", Ax25.ax25_address)]);
  ("full_sockaddr_rose", Struct [("srose_family", __kernel_sa_family_t);
   ("srose_addr", rose_address); ("srose_call", Ax25.ax25_address); ("srose_ndigis", uint);
   ("srose_digis", Arr ROSE_MAX_DIGIS Ax25.ax25_address)]);
  ("rose_route_struct", Struct [("address", rose_address); ("mask", ushort);
   ("neighbour", Ax25.ax25_address); ("device", Arr 16 char); ("ndigis", uchar);
   ("digipeaters", Arr 8 Ax25.ax25_address)]);
  ("rose_cause_struct", Struct [("cause", uchar); ("diagnostic", uchar)]);
  ("rose_facilities_struct", Struct [("source_addr", rose_address); ("dest_addr", rose_address);
   ("source_call", Ax25.ax25_address); ("dest_call", Ax25.ax25_address);
   ("source_ndigis", uchar); ("dest_ndigis", uchar);
   ("source_digis", Arr ROSE_MAX_DIGIS Ax25.ax25_address);
   ("dest_digis", Arr ROSE_MAX_DIGIS Ax25.ax25_address); ("rand", uint);
   ("fail_addr", rose_address); ("fail_call", Ax25.ax25_address)])].
Definition rose_types : list (string * cty) := structs_rose_address.
End Rose.

(** ** [linux/rtnetlink.h] *)

Module Rtnetlink.
Definition rtattr : cty := Struct [("rta_len", ushort); ("rta_type", ushort)].
Definition rtmsg : cty :=
  Struct [("rtm_family", uchar); ("rtm_dst_len", uchar); ("rtm_src_len", uchar);
   ("rtm_tos", uchar); ("rtm_table", uchar); ("rtm_protocol", uchar); ("rtm_scope", uchar);
   ("rtm_type", uchar); ("rtm_flags", uint)].
Definition rtnexthop : cty :=
  Struct [("rtnh_len", ushort); ("rtnh_flags", uchar); ("rtnh_hops", uchar); ("rtnh_ifindex", int)].
Definition structs_rtvia : list (string * cty) :=
  [
  ("rtvia", Struct [("rtvia_family", __kernel_sa_family_t); ("rtvia_addr", Arr 0 __u8)]);
  ("rta_cacheinfo", Struct [("rta_clntref", __u32); ("rta_lastuse", __u32);
   ("rta_expires", __s32); ("rta_error", __u32); ("rta_used", __u32); ("rta_id", __u32);
   ("rta_ts", __u32); ("rta_tsage", __u32)])].
Definition structs_rta_session : list (string * cty) :=
  [
  ("rta_session", Struct [("proto", __u8); ("pad1", __u8); ("pad2", __u16);
   ("u", Union [("ports", Struct [("sport", __u16); ("dport", __u16)]);
   ("icmpt", Struct [("type", __u8); ("code", __u8); ("ident", __u16)]); ("spi", __u32)])]);
  ("rta_mfc_stats", Struct [("mfcs_packets", __u64); ("mfcs_bytes", __u64);
   ("mfcs_wrong_if", __u64)]);
  ("rtgenmsg", Struct [("rtgen_family", uchar)]);
  ("ifinfomsg", Struct [("ifi_family", uchar); ("__ifi_pad", uchar); ("ifi_type", ushort);
   ("ifi_index", int); ("ifi_flags", uint); ("ifi_change", uint)]);
  ("prefixmsg", Struct [("prefix_family", uchar); ("prefix_pad1", uchar);
   ("prefix_pad2", ushort); ("prefix_ifindex", int); ("prefix_type", uchar);
   ("prefix_len", uchar); ("prefix_flags", uchar); ("prefix_pad3", uchar)])].
Definition structs_prefix_cacheinfo : list (string * cty) :=
  [
  ("prefix_cacheinfo", Struct [("preferred_time", __u32); ("valid_time", __u32)]);
  ("tcmsg", Struct [("tcm_family", uchar); ("tcm__pad1", uchar); ("tcm__pad2", ushort);
   ("tcm_ifindex", int); ("tcm_handle", __u32); ("tcm_parent", __u32); ("tcm_info", __u32)])].
Definition nduseroptmsg : cty :=
  Struct [("nduseropt_family", uchar); ("nduseropt_pad1", uchar); ("nduseropt_opts_len", ushort);
   ("nduseropt_ifindex", int); ("nduseropt_icmp_type", __u8); ("nduseropt_icmp_code", __u8);
   ("nduseropt_pad2", ushort); ("nduseropt_pad3", uint)].
Definition tcamsg : cty :=
  Struct [("tca_family", uchar); ("tca__pad1", uchar); ("tca__pad2", ushort)].
Definition rtnetlink_types : list (string * cty) :=
  ([("rtattr", rtattr); ("rtmsg", rtmsg); ("rtnexthop", rtnexthop)] ++ structs_rtvia ++
   structs_rta_session ++ structs_prefix_cacheinfo ++ [("nduseroptmsg", nduseroptmsg);
   ("tcamsg", tcamsg)])%list.
End Rtnetlink.

(** ** [linux/scc.h] *)

Module Scc.
Definition structs_io_port : list (string * cty) :=
  let io_port := ulong in
  [
  ("io_port", io_port);
  ("scc_stat", Struct [("rxints", long); ("txints", long); ("exints", long); ("spints", long);
   ("txframes", long); ("rxframes", long); ("rxerrs", long); ("txerrs", long); ("nospace", uint);
   ("rx_over", uint); ("tx_under", uint); ("tx_state", uint); ("tx_queued", int);
   ("maxqueue", uint); ("bufsize", uint)]);
  ("scc_modem", Struct [("speed", long); ("clocksrc", char); ("nrz", char)]);
  ("scc_kiss_cmd", Struct [("command", int); ("param", uint)]);
  ("scc_hw_config", Struct [("data_a", io_port); ("ctrl_a", io_port); ("data_b", io_port);
   ("ctrl_b", io_port); ("vector_latch", io_port); ("special", io_port); ("irq", int);
   ("clock", long); ("option", char); ("brand", char); ("escc", char)]);
  ("scc_mem_config", Struct [("dummy", uint); ("bufsize", uint)]);
  ("scc_calibrate", Struct [("time", uint); ("pattern", uchar)])].
Definition scc_types : list (string * cty) := structs_io_port.
End Scc.

(** ** [linux/sctp.h] *)

Module Sctp.
Definition sctp_assoc_t : cty := __s32.
Definition structs_sctp_initmsg : list (string * cty) :=
  [
  ("sctp_initmsg", Struct [("sinit_num_ostreams", __u16); ("sinit_max_instreams", __u16);
   ("sinit_max_attempts", __u16); ("sinit_max_init_timeo", __u16)]);
  ("sctp_sndrcvinfo", Struct [("sinfo_stream", __u16); ("sinfo_ssn", __u16);
   ("sinfo_flags", __u16); ("sinfo_ppid", __u32); ("sinfo_context", __u32);
   ("sinfo_timetolive", __u32); ("sinfo_tsn", __u32); ("sinfo_cumtsn", __u32);
   ("sinfo_assoc_id", sctp_assoc_t)]);
  ("sctp_sndinfo", Struct [("snd_sid", __u16); ("snd_flags", __u16); ("snd_ppid", __u32);
   ("snd_context", __u32); ("snd_assoc_id", sctp_assoc_t)]);
  ("sctp_rcvinfo", Struct [("rcv_sid", __u16); ("rcv_ssn", __u16); ("rcv_flags", __u16);
   ("rcv_ppid", __u32); ("rcv_tsn", __u32); ("rcv_cumtsn", __u32); ("rcv_context", __u32);
   ("rcv_assoc_id", sctp_assoc_t)]);
  ("sctp_nxtinfo", Struct [("nxt_sid", __u16); ("nxt_flags", __u16); ("nxt_ppid", __u32);
   ("nxt_length", __u32); ("nxt_assoc_id", sctp_assoc_t)])].
Definition sctp_initmsg : cty := type_in structs_sctp_initmsg "sctp_initmsg".
Definition sctp_sndrcvinfo : cty := type_in structs_sctp_initmsg "sctp_sndrcvinfo".
Definition structs_sctp_cmsg_data_t : list (string * cty) :=
  [
  ("sctp_cmsg_data_t", Union [("raw", __u8); ("init", sctp_initmsg); ("sndrcv", sctp_sndrcvinfo)]);
  ("sctp_cmsg_t", enum);
  ("sctp_assoc_change", Struct [("sac_type", __u16); ("sac_flags", __u16); ("sac_length", __u32);
   ("sac_state", __u16); ("sac_error", __u16); ("sac_outbound_streams", __u16);
   ("sac_inbound_streams", __u16); ("sac_assoc_id", sctp_assoc_t); ("sac_info", Arr 0 __u8)])].
Definition structs_sctp_remote_error : list (string * cty) :=
  [
  ("sctp_remote_error", Struct [("sre_type", __u16); ("sre_flags", __u16); ("sre_length", __u32);
   ("sre_error", __u16); ("sre_assoc_id", sctp_assoc_t); ("sre_data", Arr 0 __u8)]);
  ("sctp_send_failed", Struct [("ssf_type", __u16); ("ssf_flags", __u16); ("ssf_length", __u32);
   ("ssf_error", __u32); ("ssf_info", sctp_sndrcvinfo); ("ssf_assoc_id", sctp_assoc_t);
   ("ssf_data", Arr 0 __u8)])].
Definition structs_sctp_shutdown_event : list (string * cty) :=
  [
  ("sctp_shutdown_event", Struct [("sse_type", __u16); ("sse_flags", __u16);
   ("sse_length", __u32); ("sse_assoc_id", sctp_assoc_t)]);
  ("sctp_adaptation_event", Struct [("sai_type", __u16); ("sai_flags", __u16);
   ("sai_length", __u32); ("sai_adaptation_ind", __u32); ("sai_assoc_id", sctp_assoc_t)]);
  ("sctp_pdapi_event", Struct [("pdapi_type", __u16); ("pdapi_flags", __u16);
   ("pdapi_length", __u32); ("pdapi_indication", __u32); ("pdapi_assoc_id", sctp_assoc_t)])].
Definition sctp_authkey_event : cty :=
  Struct [("auth_type", __u16); ("auth_flags", __u16); ("auth_length", __u32);
   ("auth_keynumber", __u16); ("auth_altkeynumber", __u16); ("auth_indication", __u32);
   ("auth_assoc_id", sctp_assoc_t)].
Definition structs_sctp_sender_dry_event : list (string * cty) :=
  [
  ("sctp_sender_dry_event", Struct [("sender_dry_type", __u16); ("sender_dry_flags", __u16);
   ("sender_dry_length", __u32); ("sender_dry_assoc_id", sctp_assoc_t)]);
  ("sctp_event_subscribe", Struct [("sctp_data_io_event", __u8);
   ("sctp_association_event", __u8); ("sctp_address_event", __u8);
   ("sctp_send_failure_event", __u8); ("sctp_peer_error_event", __u8);
   ("sctp_shutdown_event", __u8); ("sctp_partial_delivery_event", __u8);
   ("sctp_adaptation_layer_event", __u8); ("sctp_authentication_event", __u8);
   ("sctp_sender_dry_event", __u8)])].
Definition structs_sctp_sn_error_t : list (string * cty) :=
  [
  ("sctp_sn_error_t", enum);
  ("sctp_rtoinfo", Struct [("srto_assoc_id", sctp_assoc_t); ("srto_initial", __u32);
   ("srto_max", __u32); ("srto_min", __u32)]);
  ("sctp_assocparams", Struct [("sasoc_assoc_id", sctp_assoc_t); ("sasoc_asocmaxrxt", __u16);
   ("sasoc_number_peer_destinations", __u16); ("sasoc_peer_rwnd", __u32);
   ("sasoc_local_rwnd", __u32); ("sasoc_cookie_life", __u32)])].
Definition sctp_setadaptation : cty := Struct [("ssb_adaptation_ind", __u32)].
Definition sctp_authchunk : cty := Struct [("sauth_chunk", __u8)].
Definition sctp_hmacalgo : cty :=
  Struct [("shmac_num_idents", __u32); ("shmac_idents", Arr 0 __u16)].
Definition structs_sctp_authkey : list (string * cty) :=
  [
  ("sctp_authkey", Struct [("sca_assoc_id", sctp_assoc_t); ("sca_keynumber", __u16);
   ("sca_keylength", __u16); ("sca_key", Arr 0 __u8)]);
  ("sctp_authkeyid", Struct [("scact_assoc_id", sctp_assoc_t); ("scact_keynumber", __u16)]);
  ("sctp_sack_info", Struct [("sack_assoc_id", sctp_assoc_t); ("sack_delay", uint32_t);
   ("sack_freq", uint32_t)]);
  ("sctp_assoc_value", Struct [("assoc_id", sctp_assoc_t); ("assoc_value", uint32_t)])].
Definition sctp_authchunks : cty :=
  Struct [("gauth_assoc_id", sctp_assoc_t); ("gauth_number_of_chunks", __u32);
   ("gauth_chunks", Arr 0 uint8_t)].
Definition structs_sctp_assoc_ids : list (string * cty) :=
  [
  ("sctp_assoc_ids", Struct [("gaids_number_of_ids", __u32);
   ("gaids_assoc_id", Arr 0 sctp_assoc_t)]);
  ("sctp_getaddrs_old", Struct [("assoc_id", sctp_assoc_t); ("addr_num", int); ("addrs", ptr)]);
  ("sctp_getaddrs", Struct [("assoc_id", sctp_assoc_t); ("addr_num", __u32);
   ("addrs", Arr 0 __u8)])].
Definition sctp_peeloff_arg_t : cty := Struct [("associd", sctp_assoc_t); ("sd", int)].
Definition sctp_types : list (string * cty) :=
  ([("sctp_assoc_t", sctp_assoc_t)] ++ structs_sctp_initmsg ++ structs_sctp_cmsg_data_t ++
   structs_sctp_remote_error ++ structs_sctp_shutdown_event ++ [("sctp_authkey_event",
   sctp_authkey_event)] ++ structs_sctp_sender_dry_event ++ structs_sctp_sn_error_t ++
   [("sctp_setadaptation", sctp_setadaptation); ("sctp_authchunk", sctp_authchunk);
   ("sctp_hmacalgo", sctp_hmacalgo)] ++ structs_sctp_authkey ++ [("sctp_authchunks",
   sctp_authchunks)] ++ structs_sctp_assoc_ids ++ [("sctp_peeloff_arg_t",
   sctp_peeloff_arg_t)])%list.
End Sctp.

(** ** [linux/sdla.h] *)

Module Sdla.
Definition sdla_mem : cty := Struct [("addr", int); ("len", int); ("data", ptr)].
Definition structs_sdla_conf : list (string * cty) :=
  [
  ("sdla_conf", Struct [("station", short); ("config", short); ("kbaud", short);
   ("clocking", short); ("max_frm", short); ("T391", short); ("T392", short); ("N391", short);
   ("N392", short); ("N393", short); ("CIR_fwd", short); ("Bc_fwd", short); ("Be_fwd", short);
   ("CIR_bwd", short); ("Bc_bwd", short); ("Be_bwd", short)]);
  ("sdla_dlci_conf", Struct [("config", short); ("CIR_fwd", short); ("Bc_fwd", short);
   ("Be_fwd", short); ("CIR_bwd", short); ("Bc_bwd", short); ("Be_bwd", short);
   ("Tc_fwd", short); ("Tc_bwd", short); ("Tf_max", short); ("Tb_max", short)])].
Definition sdla_types : list (string * cty) :=
  ([("sdla_mem", sdla_mem)] ++ structs_sdla_conf)%list.
End Sdla.

(** ** [linux/sock_diag.h] *)

Module Sock_diag.
Definition sock_diag_req : cty := Struct [("sdiag_family", __u8); ("sdiag_protocol", __u8)].
Definition sock_diag_types : list (string * cty) := [("sock_diag_req", sock_diag_req)].
End Sock_diag.

(** ** [linux/sockev.h] *)

Module Sockev.
Definition SOCKEV_STR_MAX : Z := 32.
Definition sknlsockevmsg : cty :=
  Struct [("event", Arr SOCKEV_STR_MAX __u8); ("pid", __u32); ("skfamily", __u16);
   ("skstate", __u8); ("skprotocol", __u8); ("sktype", __u16); ("skflags", __u64)].
Definition sockev_types : list (string * cty) := [("sknlsockevmsg", sknlsockevmsg)].
End Sockev.

(** ** [linux/tc_act/tc_gact.h] *)

Module Tc_act_tc_gact.
Definition tc_gact_p : cty := Struct [("ptype", __u16); ("pval", __u16); ("paction", int)].
Definition tc_act_tc_gact_types : list (string * cty) := [("tc_gact_p", tc_gact_p)].
End Tc_act_tc_gact.

(** ** [linux/tc_act/tc_pedit.h] *)

Module Tc_act_tc_pedit.
Definition tc_pedit_key : cty :=
  Struct [("mask", __u32); ("val", __u32); ("off", __u32); ("at", __u32); ("offmask", __u32);
   ("shift", __u32)].
Definition tc_act_tc_pedit_types : list (string * cty) := [("tc_pedit_key", tc_pedit_key)].
End Tc_act_tc_pedit.

(** ** [linux/tc_ematch/tc_em_meta.h] *)

Module Tc_ematch_tc_em_meta.
Definition tcf_meta_val : cty := Struct [("kind", __u16); ("shift", __u8); ("op", __u8)].
Definition tcf_meta_hdr : cty := Struct [("left", tcf_meta_val); ("right", tcf_meta_val)].
Definition tc_ematch_tc_em_meta_types : list (string * cty) :=
  ([("tcf_meta_val", tcf_meta_val); ("tcf_meta_hdr", tcf_meta_hdr)])%list.
End Tc_ematch_tc_em_meta.

(** ** [linux/tcp.h] *)

Module Tcp.
Definition tcp_repair_opt : cty := Struct [("opt_code", __u32); ("opt_val", __u32)].
Definition tcp_types : list (string * cty) := [("tcp_repair_opt", tcp_repair_opt)].
End Tcp.

(** ** [linux/tipc.h] *)

Module Tipc.
Definition TIPC_MAX_LINK_NAME : Z := 60.
Definition structs_tipc_portid : list (string * cty) :=
  [
  ("tipc_portid", Struct [("ref", __u32); ("node", __u32)]);
  ("tipc_name", Struct [("type", __u32); ("instance", __u32)]);
  ("tipc_name_seq", Struct [("type", __u32); ("lower", __u32); ("upper", __u32)])].
Definition tipc_portid : cty := type_in structs_tipc_portid "tipc_portid".
Definition tipc_name : cty := type_in structs_tipc_portid "tipc_name".
Definition tipc_name_seq : cty := type_in structs_tipc_portid "tipc_name_seq".
Definition tipc_subscr : cty :=
  Struct [("seq", tipc_name_seq); ("timeout", __u32); ("filter", __u32);
   ("usr_handle", Arr 8 char)].
Definition tipc_event : cty :=
  Struct [("event", __u32); ("found_lower", __u32); ("found_upper", __u32);
   ("port", tipc_portid); ("s", tipc_subscr)].
Definition sockaddr_tipc : cty :=
  Struct [("family", ushort); ("addrtype", uchar); ("scope", schar);
   ("addr", Union [("id", tipc_portid); ("nameseq", tipc_name_seq);
   ("name", Struct [("name", tipc_name); ("domain", __u32)])])].
Definition tipc_sioc_ln_req : cty :=
  Struct [("peer", __u32); ("bearer_id", __u32); ("linkname", Arr TIPC_MAX_LINK_NAME char)].
Definition tipc_types : list (string * cty) :=
  (structs_tipc_portid ++ [("tipc_subscr", tipc_subscr); ("tipc_event", tipc_event);
   ("sockaddr_tipc", sockaddr_tipc); ("tipc_sioc_ln_req", tipc_sioc_ln_req)])%list.
End Tipc.

(** ** [linux/tipc_config.h] *)

Module Tipc_config.
Definition structs_tipc_node_info : list (string * cty) :=
  [
  ("tipc_node_info", Struct [("addr", __be32); ("up", __be32)]);
  ("tipc_link_info", Struct [("dest", __be32); ("up", __be32); ("str", Arr 60 char)]);
  ("tipc_bearer_config", Struct [("priority", __be32); ("disc_domain", __be32);
   ("name", Arr 32 char)]);
  ("tipc_link_config", Struct [("value", __be32); ("name", Arr 60 char)])].
Definition tipc_name_table_query : cty :=
  Struct [("depth", __be32); ("type", __be32); ("lowbound", __be32); ("upbound", __be32)].
Definition tlv_desc : cty := Struct [("tlv_len", __be16); ("tlv_type", __be16)].
Definition tlv_list_desc : cty := Struct [("tlv_ptr", ptr); ("tlv_space", __u32)].
Definition tipc_genlmsghdr : cty :=
  Struct [("dest", __u32); ("cmd", __u16); ("reserved", __u16)].
Definition tipc_cfg_msg_hdr : cty :=
  Struct [("tcm_len", __be32); ("tcm_type", __be16); ("tcm_flags", __be16);
   ("tcm_reserved", Arr 8 char)].
Definition tipc_config_types : list (string * cty) :=
  (structs_tipc_node_info ++ [("tipc_name_table_query", tipc_name_table_query); ("tlv_desc",
   tlv_desc); ("tlv_list_desc", tlv_list_desc); ("tipc_genlmsghdr", tipc_genlmsghdr);
   ("tipc_cfg_msg_hdr", tipc_cfg_msg_hdr)])%list.
End Tipc_config.

(** ** [linux/un.h] *)

Module Un.
Definition UNIX_PATH_MAX : Z := 108.
Definition sockaddr_un : cty :=
  Struct [("sun_family", __kernel_sa_family_t); ("sun_path", Arr UNIX_PATH_MAX char)].
Definition un_types : list (string * cty) := [("sockaddr_un", sockaddr_un)].
End Un.

(** ** [linux/unix_diag.h] *)

Module Unix_diag.
Definition unix_diag_req : cty :=
  Struct [("sdiag_family", __u8); ("sdiag_protocol", __u8); ("pad", __u16);
   ("udiag_states", __u32); ("udiag_ino", __u32); ("udiag_show", __u32);
   ("udiag_cookie", Arr 2 __u32)].
Definition unix_diag_msg : cty :=
  Struct [("udiag_family", __u8); ("udiag_type", __u8); ("udiag_state", __u8); ("pad", __u8);
   ("udiag_ino", __u32); ("udiag_cookie", Arr 2 __u32)].
Definition structs_unix_diag_vfs : list (string * cty) :=
  [
  ("unix_diag_vfs", Struct [("udiag_vfs_ino", __u32); ("udiag_vfs_dev", __u32)]);
  ("unix_diag_rqlen", Struct [("udiag_rqueue", __u32); ("udiag_wqueue", __u32)])].
Definition unix_diag_types : list (string * cty) :=
  ([("unix_diag_req", unix_diag_req); ("unix_diag_msg", unix_diag_msg)] ++
   structs_unix_diag_vfs)%list.
End Unix_diag.

(** ** [linux/wimax/i2400m.h] *)

Module Wimax_i2400m.
Definition i2400m_bcf_hdr : cty :=
  Packed [("module_type", __le32); ("header_len", __le32); ("header_version", __le32);
   ("module_id", __le32); ("module_vendor", __le32); ("date", __le32); ("size", __le32);
   ("key_size", __le32); ("modulus_size", __le32); ("exponent_size", __le32);
   ("reserved", Arr 88 __u8)].
Definition i2400m_bootrom_header : cty :=
  Packed [("command", __le32); ("target_addr", __le32); ("data_size", __le32);
   ("block_checksum", __le32); ("payload", Arr 0 char)].
Definition structs_i2400m_pl_data_hdr : list (string * cty) :=
  [
  ("i2400m_pl_data_hdr", Packed [("reserved", __le32)]);
  ("i2400m_pl_edata_hdr", Packed [("reorder", __le32); ("cs", __u8); ("reserved", Arr 11 __u8)])].
Definition i2400m_pld : cty := Packed [("val", __le32)].
Definition i2400m_msg_hdr : cty :=
  Packed [("", Union [("barker", __le32); ("size", __u32)]); ("", Union [("sequence", __le32);
   ("offset", __u32)]); ("num_pls", __le16); ("rsv1", __le16); ("padding", __le16);
   ("rsv2", __le16); ("pld", Arr 0 i2400m_pld)].
Definition structs_i2400m_tlv_hdr : list (string * cty) :=
  let i2400m_tlv_hdr := Packed [("type", __le16); ("length", __le16); ("pl", Arr 0 __u8)] in
  [
  ("i2400m_tlv_hdr", i2400m_tlv_hdr);
  ("i2400m_l3l4_hdr", Packed [("type", __le16); ("length", __le16); ("version", __le16);
   ("resv1", __le16); ("status", __le16); ("resv2", __le16); ("pl", Arr 0 i2400m_tlv_hdr)])].
Definition i2400m_tlv_hdr : cty := type_in structs_i2400m_tlv_hdr "i2400m_tlv_hdr".
Definition structs_i2400m_tlv_system_state : list (string * cty) :=
  [
  ("i2400m_tlv_system_state", Packed [("hdr", i2400m_tlv_hdr); ("state", __le32)]);
  ("i2400m_tlv_l4_message_versions", Packed [("hdr", i2400m_tlv_hdr); ("major", __le16);
   ("minor", __le16); ("branch", __le16); ("reserved", __le16)]);
  ("i2400m_tlv_detailed_device_info", Packed [("hdr", i2400m_tlv_hdr);
   ("reserved1", Arr 400 __u8); ("mac_address", Arr 6 __u8); ("reserved2", Arr 2 __u8)])].
Definition i2400m_tlv_rf_switches_status : cty :=
  Packed [("hdr", i2400m_tlv_hdr); ("sw_rf_switch", __u8); ("hw_rf_switch", __u8);
   ("reserved", Arr 2 __u8)].
Definition i2400m_tlv_rf_operation : cty := Packed [("hdr", i2400m_tlv_hdr); ("status", __le32)].
Definition structs_i2400m_tlv_device_reset_type : list (string * cty) :=
  [
  ("i2400m_tlv_device_reset_type", Packed [("hdr", i2400m_tlv_hdr); ("reset_type", __le32)]);
  ("i2400m_tlv_config_idle_parameters", Packed [("hdr", i2400m_tlv_hdr);
   ("idle_timeout", __le32); ("idle_paging_interval", __le32)])].
Definition structs_i2400m_tlv_media_status : list (string * cty) :=
  [
  ("i2400m_tlv_media_status", Packed [("hdr", i2400m_tlv_hdr); ("media_status", __le32)]);
  ("i2400m_tlv_config_idle_timeout", Packed [("hdr", i2400m_tlv_hdr); ("timeout", __le32)]);
  ("i2400m_tlv_config_d2h_data_format", Packed [("hdr", i2400m_tlv_hdr); ("format", __u8);
   ("reserved", Arr 3 __u8)]);
  ("i2400m_tlv_config_dl_host_reorder", Packed [("hdr", i2400m_tlv_hdr); ("reorder", __u8);
   ("reserved", Arr 3 __u8)])].
Definition wimax_i2400m_types : list (string * cty) :=
  ([("i2400m_bcf_hdr", i2400m_bcf_hdr); ("i2400m_bootrom_header", i2400m_bootrom_header)] ++
   structs_i2400m_pl_data_hdr ++ [("i2400m_pld", i2400m_pld); ("i2400m_msg_hdr",
   i2400m_msg_hdr)] ++ structs_i2400m_tlv_hdr ++ structs_i2400m_tlv_system_state ++
   [("i2400m_tlv_rf_switches_status", i2400m_tlv_rf_switches_status);
   ("i2400m_tlv_rf_operation", i2400m_tlv_rf_operation)] ++
   structs_i2400m_tlv_device_reset_type ++ structs_i2400m_tlv_media_status)%list.
End Wimax_i2400m.

(** ** [linux/wireless.h] *)

Module Wireless.
Definition IW_MAX_FREQUENCIES : Z := 32.
Definition IW_MAX_BITRATES : Z := 32.
Definition IW_MAX_TXPOWER : Z := 8.
Definition IW_MAX_ENCODING_SIZES : Z := 8.
Definition structs_iw_param : list (string * cty) :=
  [
  ("iw_param", Struct [("value", __s32); ("fixed", __u8); ("disabled", __u8); ("flags", __u16)]);
  ("iw_point", Struct [("pointer", ptr); ("length", __u16); ("flags", __u16)]);
  ("iw_freq", Struct [("m", __s32); ("e", __s16); ("i", __u8); ("flags", __u8)]);
  ("iw_quality", Struct [("qual", __u8); ("level", __u8); ("noise", __u8); ("updated", __u8)]);
  ("iw_discarded", Struct [("nwid", __u32); ("code", __u32); ("fragment", __u32);
   ("retries", __u32); ("misc", __u32)]);
  ("iw_missed", Struct [("beacon", __u32)])].
Definition iw_freq : cty := type_in structs_iw_param "iw_freq".
Definition iw_quality : cty := type_in structs_iw_param "iw_quality".
Definition iw_discarded : cty := type_in structs_iw_param "iw_discarded".
Definition iw_missed : cty := type_in structs_iw_param "iw_missed".
Definition iw_statistics : cty :=
  Struct [("status", __u16); ("qual", iw_quality); ("discard", iw_discarded); ("miss", iw_missed)].
Definition iw_range : cty :=
  Struct [("throughput", __u32); ("min_nwid", __u32); ("max_nwid", __u32);
   ("old_num_channels", __u16); ("old_num_frequency", __u8); ("scan_capa", __u8);
   ("event_capa", Arr 6 __u32); ("sensitivity", __s32); ("max_qual", iw_quality);
   ("avg_qual", iw_quality); ("num_bitrates", __u8); ("bitrate", Arr IW_MAX_BITRATES __s32);
   ("min_rts", __s32); ("max_rts", __s32); ("min_frag", __s32); ("max_frag", __s32);
   ("min_pmp", __s32); ("max_pmp", __s32); ("min_pmt", __s32); ("max_pmt", __s32);
   ("pmp_flags", __u16); ("pmt_flags", __u16); ("pm_capa", __u16);
   ("encoding_size", Arr IW_MAX_ENCODING_SIZES __u16); ("num_encoding_sizes", __u8);
   ("max_encoding_tokens", __u8); ("encoding_login_index", __u8); ("txpower_capa", __u16);
   ("num_txpower", __u8); ("txpower", Arr IW_MAX_TXPOWER __s32); ("we_version_compiled", __u8);
   ("we_version_source", __u8); ("retry_capa", __u16); ("retry_flags", __u16);
   ("r_time_flags", __u16); ("min_retry", __s32); ("max_retry", __s32); ("min_r_time", __s32);
   ("max_r_time", __s32); ("num_channels", __u16); ("num_frequency", __u8);
   ("freq", Arr IW_MAX_FREQUENCIES iw_freq); ("enc_capa", __u32)].
Definition iw_priv_args : cty :=
  Struct [("cmd", __u32); ("set_args", __u16); ("get_args", __u16); ("name", Arr 16 char)].
Definition wireless_types : list (string * cty) :=
  (structs_iw_param ++ [("iw_statistics", iw_statistics); ("iw_range", iw_range);
   ("iw_priv_args", iw_priv_args)])%list.
End Wireless.

(** ** [linux/x25.h] *)

Module X25.
Definition structs_x25_address : list (string * cty) :=
  let x25_address := Struct [("x25_addr", Arr 16 char)] in
  [
  ("x25_address", x25_address);
  ("sockaddr_x25", Struct [("sx25_family", __kernel_sa_family_t); ("sx25_addr", x25_address)])].
Definition x25_address : cty := type_in structs_x25_address "x25_address".
Definition structs_x25_route_struct : list (string * cty) :=
  [
  ("x25_route_struct", Struct [("address", x25_address); ("sigdigits", uint);
   ("device", Arr 200 char)]);
  ("x25_facilities", Struct [("winsize_in", uint); ("winsize_out", uint); ("pacsize_in", uint);
   ("pacsize_out", uint); ("throughput", uint); ("reverse", uint)]);
  ("x25_dte_facilities", Struct [("delay_cumul", __u16); ("delay_target", __u16);
   ("delay_max", __u16); ("min_throughput", __u8); ("expedited", __u8); ("calling_len", __u8);
   ("called_len", __u8); ("calling_ae", Arr 20 __u8); ("called_ae", Arr 20 __u8)]);
  ("x25_calluserdata", Struct [("cudlength", uint); ("cuddata", Arr 128 uchar)]);
  ("x25_causediag", Struct [("cause", uchar); ("diagnostic", uchar)]);
  ("x25_subaddr", Struct [("cudmatchlength", uint)])].
Definition x25_types : list (string * cty) :=
  (structs_x25_address ++ structs_x25_route_struct)%list.
End X25.

(** ** [linux/xfrm.h] *)

Module Xfrm.
Definition structs_xfrm_address_t : list (string * cty) :=
  let xfrm_address_t := Union [("a4", __be32); ("a6", Arr 4 __be32); ("in6", In6.in6_addr)] in
  [
  ("xfrm_address_t", xfrm_address_t);
  ("xfrm_id", Struct [("daddr", xfrm_address_t); ("spi", __be32); ("proto", __u8)]);
  ("xfrm_sec_ctx", Struct [("ctx_doi", __u8); ("ctx_alg", __u8); ("ctx_len", __u16);
   ("ctx_sid", __u32); ("ctx_str", Arr 0 char)])].
Definition xfrm_address_t : cty := type_in structs_xfrm_address_t "xfrm_address_t".
Definition xfrm_id : cty := type_in structs_xfrm_address_t "xfrm_id".
Definition xfrm_selector : cty :=
  Struct [("daddr", xfrm_address_t); ("saddr", xfrm_address_t); ("dport", __be16);
   ("dport_mask", __be16); ("sport", __be16); ("sport_mask", __be16); ("family", __u16);
   ("prefixlen_d", __u8); ("prefixlen_s", __u8); ("proto", __u8); ("ifindex", int);
   ("user", __kernel_uid32_t)].
Definition structs_xfrm_lifetime_cfg : list (string * cty) :=
  [
  ("xfrm_lifetime_cfg", Struct [("soft_byte_limit", __u64); ("hard_byte_limit", __u64);
   ("soft_packet_limit", __u64); ("hard_packet_limit", __u64);
   ("soft_add_expires_seconds", __u64); ("hard_add_expires_seconds", __u64);
   ("soft_use_expires_seconds", __u64); ("hard_use_expires_seconds", __u64)]);
  ("xfrm_lifetime_cur", Struct [("bytes", __u64); ("packets", __u64); ("add_time", __u64);
   ("use_time", __u64)]);
  ("xfrm_replay_state", Struct [("oseq", __u32); ("seq", __u32); ("bitmap", __u32)])].
Definition xfrm_lifetime_cfg : cty := type_in structs_xfrm_lifetime_cfg "xfrm_lifetime_cfg".
Definition xfrm_lifetime_cur : cty := type_in structs_xfrm_lifetime_cfg "xfrm_lifetime_cur".
Definition structs_xfrm_replay_state_esn : list (string * cty) :=
  [
  ("xfrm_replay_state_esn", Struct [("bmp_len", uint); ("oseq", __u32); ("seq", __u32);
   ("oseq_hi", __u32); ("seq_hi", __u32); ("replay_window", __u32); ("bmp", Arr 0 __u32)]);
  ("xfrm_algo", Struct [("alg_name", Arr 64 char); ("alg_key_len", uint); ("alg_key", Arr 0 char)]);
  ("xfrm_algo_auth", Struct [("alg_name", Arr 64 char); ("alg_key_len", uint);
   ("alg_trunc_len", uint); ("alg_key", Arr 0 char)]);
  ("xfrm_algo_aead", Struct [("alg_name", Arr 64 char); ("alg_key_len", uint);
   ("alg_icv_len", uint); ("alg_key", Arr 0 char)]);
  ("xfrm_stats", Struct [("replay_window", __u32); ("replay", __u32); ("integrity_failed", __u32)])].
Definition xfrm_stats : cty := type_in structs_xfrm_replay_state_esn "xfrm_stats".
Definition structs_xfrm_user_sec_ctx : list (string * cty) :=
  [
  ("xfrm_user_sec_ctx", Struct [("len", __u16); ("exttype", __u16); ("ctx_alg", __u8);
   ("ctx_doi", __u8); ("ctx_len", __u16)]);
  ("xfrm_user_tmpl", Struct [("id", xfrm_id); ("family", __u16); ("saddr", xfrm_address_t);
   ("reqid", __u32); ("mode", __u8); ("share", __u8); ("optional", __u8); ("aalgos", __u32);
   ("ealgos", __u32); ("calgos", __u32)]);
  ("xfrm_encap_tmpl", Struct [("encap_type", __u16); ("encap_sport", __be16);
   ("encap_dport", __be16); ("encap_oa", xfrm_address_t)])].
Definition xfrm_userpolicy_type : cty :=
  Struct [("type", __u8); ("reserved1", __u16); ("reserved2", __u8)].
Definition xfrm_mark : cty := Struct [("v", __u32); ("m", __u32)].
Definition xfrmu_sadhinfo : cty := Struct [("sadhcnt", __u32); ("sadhmcnt", __u32)].
Definition structs_xfrmu_spdinfo : list (string * cty) :=
  [
  ("xfrmu_spdinfo", Struct [("incnt", __u32); ("outcnt", __u32); ("fwdcnt", __u32);
   ("inscnt", __u32); ("outscnt", __u32); ("fwdscnt", __u32)]);
  ("xfrmu_spdhinfo", Struct [("spdhcnt", __u32); ("spdhmcnt", __u32)]);
  ("xfrmu_spdhthresh", Struct [("lbits", __u8); ("rbits", __u8)]);
  ("xfrm_usersa_info", Struct [("sel", xfrm_selector); ("id", xfrm_id);
   ("saddr", xfrm_address_t); ("lft", xfrm_lifetime_cfg); ("curlft", xfrm_lifetime_cur);
   ("stats", xfrm_stats); ("seq", __u32); ("reqid", __u32); ("family", __u16); ("mode", __u8);
   ("replay_window", __u8); ("flags", __u8)])].
Definition xfrm_usersa_info : cty := type_in structs_xfrmu_spdinfo "xfrm_usersa_info".
Definition structs_xfrm_usersa_id : list (string * cty) :=
  let xfrm_usersa_id := Struct [("daddr", xfrm_address_t); ("spi", __be32); ("family", __u16);
   ("proto", __u8)] in
  let xfrm_userpolicy_info := Struct [("sel", xfrm_selector); ("lft", xfrm_lifetime_cfg);
   ("curlft", xfrm_lifetime_cur); ("priority", __u32); ("index", __u32); ("dir", __u8);
   ("action", __u8); ("flags", __u8); ("share", __u8)] in
  [
  ("xfrm_usersa_id", xfrm_usersa_id);
  ("xfrm_aevent_id", Struct [("sa_id", xfrm_usersa_id); ("saddr", xfrm_address_t);
   ("flags", __u32); ("reqid", __u32)]);
  ("xfrm_userspi_info", Struct [("info", xfrm_usersa_info); ("min", __u32); ("max", __u32)]);
  ("xfrm_userpolicy_info", xfrm_userpolicy_info);
  ("xfrm_userpolicy_id", Struct [("sel", xfrm_selector); ("index", __u32); ("dir", __u8)]);
  ("xfrm_user_acquire", Struct [("id", xfrm_id); ("saddr", xfrm_address_t);
   ("sel", xfrm_selector); ("policy", xfrm_userpolicy_info); ("aalgos", __u32);
   ("ealgos", __u32); ("calgos", __u32); ("seq", __u32)]);
  ("xfrm_user_expire", Struct [("state", xfrm_usersa_info); ("hard", __u8)]);
  ("xfrm_user_polexpire", Struct [("pol", xfrm_userpolicy_info); ("hard", __u8)]);
  ("xfrm_usersa_flush", Struct [("proto", __u8)]);
  ("xfrm_user_report", Struct [("proto", __u8); ("sel", xfrm_selector)]);
  ("xfrm_user_kmaddress", Struct [("local", xfrm_address_t); ("remote", xfrm_address_t);
   ("reserved", __u32); ("family", __u16)]);
  ("xfrm_user_migrate", Struct [("old_daddr", xfrm_address_t); ("old_saddr", xfrm_address_t);
   ("new_daddr", xfrm_address_t); ("new_saddr", xfrm_address_t); ("proto", __u8); ("mode", __u8);
   ("reserved", __u16); ("reqid", __u32); ("old_family", __u16); ("new_family", __u16)]);
  ("xfrm_user_mapping", Struct [("id", xfrm_usersa_id); ("reqid", __u32);
   ("old_saddr", xfrm_address_t); ("new_saddr", xfrm_address_t); ("old_sport", __be16);
   ("new_sport", __be16)]);
  ("xfrm_address_filter", Struct [("saddr", xfrm_address_t); ("daddr", xfrm_address_t);
   ("family", __u16); ("splen", __u8); ("dplen", __u8)])].
Definition xfrm_types : list (string * cty) :=
  (structs_xfrm_address_t ++ [("xfrm_selector", xfrm_selector)] ++ structs_xfrm_lifetime_cfg
   ++ structs_xfrm_replay_state_esn ++ structs_xfrm_user_sec_ctx ++ [("xfrm_userpolicy_type",
   xfrm_userpolicy_type); ("xfrm_mark", xfrm_mark); ("xfrmu_sadhinfo", xfrmu_sadhinfo)] ++
   structs_xfrmu_spdinfo ++ structs_xfrm_usersa_id)%list.
End Xfrm.
