(* ===== verification/AbiDevices.v ===== *)
(** * ABI of input and other devices

    The structures and unions of these headers of [kernel-headers], one module per
    header: the larger ones as types of their own, those that stand in a row as a
    block; and the ioctl commands with their arguments. *)
From S2P Require Import Prelude.
From S2P Require Import CLayout.
From S2P Require Import Ioctl.
#[local] Open Scope string_scope.

(** ** [linux/apm_bios.h] *)

Module Apm_bios.
Definition structs_apm_event_t : list (string * cty) :=
  [
  ("apm_event_t", ushort);
  ("apm_eventinfo_t", ushort);
  ("apm_bios_info", Struct [("version", __u16); ("cseg", __u16); ("offset", __u32);
   ("cseg_16", __u16); ("dseg", __u16); ("flags", __u16); ("cseg_len", __u16);
   ("cseg_16_len", __u16); ("dseg_len", __u16)])].
Definition apm_bios_types : list (string * cty) := structs_apm_event_t.
Definition apm_bios_ioctls : list command := [
  _IO "APM_IOC_STANDBY" (chr "A") 1;
  _IO "APM_IOC_SUSPEND" (chr "A") 2].
End Apm_bios.

(** ** [linux/cm4000_cs.h] *)

Module Cm4000_cs.
Definition atreq : cty :=
  Struct [("atr_len", __s32); ("atr", Arr 64 uchar); ("power_act", __s32); ("bIFSD", uchar);
   ("bIFSC", uchar)].
Definition structs_atreq_t : list (string * cty) :=
  [
  ("atreq_t", atreq);
  ("ptsreq", Struct [("protocol", __u32); ("flags", uchar); ("pts1", uchar); ("pts2", uchar);
   ("pts3", uchar)])].
Definition ptsreq : cty := type_in structs_atreq_t "ptsreq".
Definition ptsreq_t : cty := ptsreq.
Definition cm4000_cs_types : list (string * cty) :=
  ([("atreq", atreq)] ++ structs_atreq_t ++ [("ptsreq_t", ptsreq_t)])%list.
Definition cm4000_cs_ioctls : list command := [
  _IOR "CM_IOCGSTATUS" (chr "c") 0 ptr;
  _IOWR "CM_IOCGATR" (chr "c") 1 ptr;
  _IOW "CM_IOCSPTS" (chr "c") 2 ptr;
  _IO "CM_IOCSRDR" (chr "c") 3;
  _IO "CM_IOCARDOFF" (chr "c") 4;
  _IOW "CM_IOSDBGLVL" (chr "c") 250 ptr].
End Cm4000_cs.

(** ** [linux/cyclades.h] *)

Module Cyclades.
Definition MAX_BOARD : Z := 4.
Definition CYZ_BOOT_NWORDS : Z := 256.
Definition MAX_CHAN : Z := 64.
Definition QUEUE_SIZE : Z := 640.
Definition structs_cyclades_monitor : list (string * cty) :=
  [
  ("cyclades_monitor", Struct [("int_count", ulong); ("char_count", ulong); ("char_max", ulong);
   ("char_last", ulong)]);
  ("cyclades_idle_stats", Struct [("in_use", __kernel_time_t); ("recv_idle", __kernel_time_t);
   ("xmit_idle", __kernel_time_t); ("recv_bytes", ulong); ("xmit_bytes", ulong);
   ("overruns", ulong); ("frame_errs", ulong); ("parity_errs", ulong)])].
Definition CYZ_BOOT_CTRL : cty :=
  Struct [("nboard", ushort); ("status", Arr MAX_BOARD int); ("nchannel", Arr MAX_BOARD int);
   ("fw_rev", Arr MAX_BOARD int); ("offset", ulong); ("data", Arr CYZ_BOOT_NWORDS ulong)].
Definition CUSTOM_REG : cty :=
  Struct [("fpga_id", __u32); ("fpga_version", __u32); ("cpu_start", __u32); ("cpu_stop", __u32);
   ("misc_reg", __u32); ("idt_mode", __u32); ("uart_irq_status", __u32);
   ("clear_timer0_irq", __u32); ("clear_timer1_irq", __u32); ("clear_timer2_irq", __u32);
   ("test_register", __u32); ("test_count", __u32); ("timer_select", __u32);
   ("pr_uart_irq_status", __u32); ("ram_wait_state", __u32); ("uart_wait_state", __u32);
   ("timer_wait_state", __u32); ("ack_wait_state", __u32)].
Definition RUNTIME_9060 : cty :=
  Struct [("loc_addr_range", __u32); ("loc_addr_base", __u32); ("loc_arbitr", __u32);
   ("endian_descr", __u32); ("loc_rom_range", __u32); ("loc_rom_base", __u32);
   ("loc_bus_descr", __u32); ("loc_range_mst", __u32); ("loc_base_mst", __u32);
   ("loc_range_io", __u32); ("pci_base_mst", __u32); ("pci_conf_io", __u32); ("filler1", __u32);
   ("filler2", __u32); ("filler3", __u32); ("filler4", __u32); ("mail_box_0", __u32);
   ("mail_box_1", __u32); ("mail_box_2", __u32); ("mail_box_3", __u32); ("filler5", __u32);
   ("filler6", __u32); ("filler7", __u32); ("filler8", __u32); ("pci_doorbell", __u32);
   ("loc_doorbell", __u32); ("intr_ctrl_stat", __u32); ("init_ctrl", __u32)].
Definition FIRM_ID : cty := Struct [("signature", __u32); ("zfwctrl_addr", __u32)].
Definition structs_CH_CTRL : list (string * cty) :=
  [
  ("CH_CTRL", Struct [("op_mode", __u32); ("intr_enable", __u32); ("sw_flow", __u32);
   ("flow_status", __u32); ("comm_baud", __u32); ("comm_parity", __u32); ("comm_data_l", __u32);
   ("comm_flags", __u32); ("hw_flow", __u32); ("rs_control", __u32); ("rs_status", __u32);
   ("flow_xon", __u32); ("flow_xoff", __u32); ("hw_overflow", __u32); ("sw_overflow", __u32);
   ("comm_error", __u32); ("ichar", __u32); ("filler", Arr 7 __u32)]);
  ("BUF_CTRL", Struct [("flag_dma", __u32); ("tx_bufaddr", __u32); ("tx_bufsize", __u32);
   ("tx_threshold", __u32); ("tx_get", __u32); ("tx_put", __u32); ("rx_bufaddr", __u32);
   ("rx_bufsize", __u32); ("rx_threshold", __u32); ("rx_get", __u32); ("rx_put", __u32);
   ("filler", Arr 5 __u32)])].
Definition CH_CTRL : cty := type_in structs_CH_CTRL "CH_CTRL".
Definition BUF_CTRL : cty := type_in structs_CH_CTRL "BUF_CTRL".
Definition BOARD_CTRL : cty :=
  Struct [("n_channel", __u32); ("fw_version", __u32); ("op_system", __u32);
   ("dr_version", __u32); ("inactivity", __u32); ("hcmd_channel", __u32); ("hcmd_param", __u32);
   ("fwcmd_channel", __u32); ("fwcmd_param", __u32); ("zf_int_queue_addr", __u32);
   ("filler", Arr 6 __u32)].
Definition structs_INT_QUEUE : list (string * cty) :=
  [
  ("INT_QUEUE", Struct [("intr_code", Arr QUEUE_SIZE uchar); ("channel", Arr QUEUE_SIZE ulong);
   ("param", Arr QUEUE_SIZE ulong); ("put", ulong); ("get", ulong)]);
  ("ZFW_CTRL", Struct [("board_ctrl", BOARD_CTRL); ("ch_ctrl", Arr MAX_CHAN CH_CTRL);
   ("buf_ctrl", Arr MAX_CHAN BUF_CTRL)])].
Definition cyclades_types : list (string * cty) :=
  (structs_cyclades_monitor ++ [("CYZ_BOOT_CTRL", CYZ_BOOT_CTRL); ("CUSTOM_REG", CUSTOM_REG);
   ("RUNTIME_9060", RUNTIME_9060); ("FIRM_ID", FIRM_ID)] ++ structs_CH_CTRL ++ [("BOARD_CTRL",
   BOARD_CTRL)] ++ structs_INT_QUEUE)%list.
End Cyclades.

(** ** [linux/firewire-cdev.h] *)

Module Firewire_cdev.
Definition structs_fw_cdev_event_common : list (string * cty) :=
  [
  ("fw_cdev_event_common", Struct [("closure", __u64); ("type", __u32)]);
  ("fw_cdev_event_bus_reset", Struct [("closure", __u64); ("type", __u32); ("node_id", __u32);
   ("local_node_id", __u32); ("bm_node_id", __u32); ("irm_node_id", __u32);
   ("root_node_id", __u32); ("generation", __u32)]);
  ("fw_cdev_event_response", Struct [("closure", __u64); ("type", __u32); ("rcode", __u32);
   ("length", __u32); ("data", Arr 0 __u32)]);
  ("fw_cdev_event_request", Struct [("closure", __u64); ("type", __u32); ("tcode", __u32);
   ("offset", __u64); ("handle", __u32); ("length", __u32); ("data", Arr 0 __u32)]);
  ("fw_cdev_event_request2", Struct [("closure", __u64); ("type", __u32); ("tcode", __u32);
   ("offset", __u64); ("source_node_id", __u32); ("destination_node_id", __u32); ("card", __u32);
   ("generation", __u32); ("handle", __u32); ("length", __u32); ("data", Arr 0 __u32)])].
Definition fw_cdev_event_common : cty := type_in structs_fw_cdev_event_common "fw_cdev_event_common".
Definition fw_cdev_event_bus_reset : cty := type_in structs_fw_cdev_event_common "fw_cdev_event_bus_reset".
Definition fw_cdev_event_response : cty := type_in structs_fw_cdev_event_common "fw_cdev_event_response".
Definition fw_cdev_event_request : cty := type_in structs_fw_cdev_event_common "fw_cdev_event_request".
Definition fw_cdev_event_request2 : cty := type_in structs_fw_cdev_event_common "fw_cdev_event_request2".
Definition structs_fw_cdev_event_iso_interrupt : list (string * cty) :=
  let fw_cdev_event_iso_interrupt := Struct [("closure", __u64); ("type", __u32);
   ("cycle", __u32); ("header_length", __u32); ("header", Arr 0 __u32)] in
  let fw_cdev_event_iso_interrupt_mc := Struct [("closure", __u64); ("type", __u32);
   ("completed", __u32)] in
  let fw_cdev_event_iso_resource := Struct [("closure", __u64); ("type", __u32);
   ("handle", __u32); ("channel", __s32); ("bandwidth", __s32)] in
  let fw_cdev_event_phy_packet := Struct [("closure", __u64); ("type", __u32); ("rcode", __u32);
   ("length", __u32); ("data", Arr 0 __u32)] in
  [
  ("fw_cdev_event_iso_interrupt", fw_cdev_event_iso_interrupt);
  ("fw_cdev_event_iso_interrupt_mc", fw_cdev_event_iso_interrupt_mc);
  ("fw_cdev_event_iso_resource", fw_cdev_event_iso_resource);
  ("fw_cdev_event_phy_packet", fw_cdev_event_phy_packet);
  ("fw_cdev_event", Union [("common", fw_cdev_event_common);
   ("bus_reset", fw_cdev_event_bus_reset); ("response", fw_cdev_event_response);
   ("request", fw_cdev_event_request); ("request2", fw_cdev_event_request2);
   ("iso_interrupt", fw_cdev_event_iso_interrupt);
   ("iso_interrupt_mc", fw_cdev_event_iso_interrupt_mc);
   ("iso_resource", fw_cdev_event_iso_resource); ("phy_packet", fw_cdev_event_phy_packet)])].
Definition structs_fw_cdev_get_info : list (string * cty) :=
  [
  ("fw_cdev_get_info", Struct [("version", __u32); ("rom_length", __u32); ("rom", __u64);
   ("bus_reset", __u64); ("bus_reset_closure", __u64); ("card", __u32)]);
  ("fw_cdev_send_request", Struct [("tcode", __u32); ("length", __u32); ("offset", __u64);
   ("closure", __u64); ("data", __u64); ("generation", __u32)]);
  ("fw_cdev_send_response", Struct [("rcode", __u32); ("length", __u32); ("data", __u64);
   ("handle", __u32)]);
  ("fw_cdev_allocate", Struct [("offset", __u64); ("closure", __u64); ("length", __u32);
   ("handle", __u32); ("region_end", __u64)]);
  ("fw_cdev_deallocate", Struct [("handle", __u32)])].
Definition fw_cdev_get_info : cty := type_in structs_fw_cdev_get_info "fw_cdev_get_info".
Definition fw_cdev_send_request : cty := type_in structs_fw_cdev_get_info "fw_cdev_send_request".
Definition fw_cdev_send_response : cty := type_in structs_fw_cdev_get_info "fw_cdev_send_response".
Definition fw_cdev_allocate : cty := type_in structs_fw_cdev_get_info "fw_cdev_allocate".
Definition fw_cdev_deallocate : cty := type_in structs_fw_cdev_get_info "fw_cdev_deallocate".
Definition structs_fw_cdev_initiate_bus_reset : list (string * cty) :=
  [
  ("fw_cdev_initiate_bus_reset", Struct [("type", __u32)]);
  ("fw_cdev_add_descriptor", Struct [("immediate", __u32); ("key", __u32); ("data", __u64);
   ("length", __u32); ("handle", __u32)]);
  ("fw_cdev_remove_descriptor", Struct [("handle", __u32)])].
Definition fw_cdev_initiate_bus_reset : cty := type_in structs_fw_cdev_initiate_bus_reset "fw_cdev_initiate_bus_reset".
Definition fw_cdev_add_descriptor : cty := type_in structs_fw_cdev_initiate_bus_reset "fw_cdev_add_descriptor".
Definition fw_cdev_remove_descriptor : cty := type_in structs_fw_cdev_initiate_bus_reset "fw_cdev_remove_descriptor".
Definition structs_fw_cdev_create_iso_context : list (string * cty) :=
  [
  ("fw_cdev_create_iso_context", Struct [("type", __u32); ("header_size", __u32);
   ("channel", __u32); ("speed", __u32); ("closure", __u64); ("handle", __u32)]);
  ("fw_cdev_set_iso_channels", Struct [("channels", __u64); ("handle", __u32)])].
Definition fw_cdev_create_iso_context : cty := type_in structs_fw_cdev_create_iso_context "fw_cdev_create_iso_context".
Definition fw_cdev_set_iso_channels : cty := type_in structs_fw_cdev_create_iso_context "fw_cdev_set_iso_channels".
Definition structs_fw_cdev_iso_packet : list (string * cty) :=
  [
  ("fw_cdev_iso_packet", Struct [("control", __u32); ("header", Arr 0 __u32)]);
  ("fw_cdev_queue_iso", Struct [("packets", __u64); ("data", __u64); ("size", __u32);
   ("handle", __u32)])].
Definition fw_cdev_queue_iso : cty := type_in structs_fw_cdev_iso_packet "fw_cdev_queue_iso".
Definition structs_fw_cdev_start_iso : list (string * cty) :=
  [
  ("fw_cdev_start_iso", Struct [("cycle", __s32); ("sync", __u32); ("tags", __u32);
   ("handle", __u32)]);
  ("fw_cdev_stop_iso", Struct [("handle", __u32)]);
  ("fw_cdev_flush_iso", Struct [("handle", __u32)]);
  ("fw_cdev_get_cycle_timer", Struct [("local_time", __u64); ("cycle_timer", __u32)]);
  ("fw_cdev_get_cycle_timer2", Struct [("tv_sec", __s64); ("tv_nsec", __s32); ("clk_id", __s32);
   ("cycle_timer", __u32)]);
  ("fw_cdev_allocate_iso_resource", Struct [("closure", __u64); ("channels", __u64);
   ("bandwidth", __u32); ("handle", __u32)])].
Definition fw_cdev_start_iso : cty := type_in structs_fw_cdev_start_iso "fw_cdev_start_iso".
Definition fw_cdev_stop_iso : cty := type_in structs_fw_cdev_start_iso "fw_cdev_stop_iso".
Definition fw_cdev_flush_iso : cty := type_in structs_fw_cdev_start_iso "fw_cdev_flush_iso".
Definition fw_cdev_get_cycle_timer : cty := type_in structs_fw_cdev_start_iso "fw_cdev_get_cycle_timer".
Definition fw_cdev_get_cycle_timer2 : cty := type_in structs_fw_cdev_start_iso "fw_cdev_get_cycle_timer2".
Definition fw_cdev_allocate_iso_resource : cty := type_in structs_fw_cdev_start_iso "fw_cdev_allocate_iso_resource".
Definition structs_fw_cdev_send_stream_packet : list (string * cty) :=
  [
  ("fw_cdev_send_stream_packet", Struct [("length", __u32); ("tag", __u32); ("channel", __u32);
   ("sy", __u32); ("closure", __u64); ("data", __u64); ("generation", __u32); ("speed", __u32)]);
  ("fw_cdev_send_phy_packet", Struct [("closure", __u64); ("data", Arr 2 __u32);
   ("generation", __u32)]);
  ("fw_cdev_receive_phy_packets", Struct [("closure", __u64)])].
Definition fw_cdev_send_stream_packet : cty := type_in structs_fw_cdev_send_stream_packet "fw_cdev_send_stream_packet".
Definition fw_cdev_send_phy_packet : cty := type_in structs_fw_cdev_send_stream_packet "fw_cdev_send_phy_packet".
Definition fw_cdev_receive_phy_packets : cty := type_in structs_fw_cdev_send_stream_packet "fw_cdev_receive_phy_packets".
Definition firewire_cdev_types : list (string * cty) :=
  (structs_fw_cdev_event_common ++ structs_fw_cdev_event_iso_interrupt ++
   structs_fw_cdev_get_info ++ structs_fw_cdev_initiate_bus_reset ++
   structs_fw_cdev_create_iso_context ++ structs_fw_cdev_iso_packet ++
   structs_fw_cdev_start_iso ++ structs_fw_cdev_send_stream_packet)%list.
Definition firewire_cdev_ioctls : list command := [
  _IOWR "FW_CDEV_IOC_GET_INFO" (chr "#") 0 fw_cdev_get_info;
  _IOW "FW_CDEV_IOC_SEND_REQUEST" (chr "#") 1 fw_cdev_send_request;
  _IOWR "FW_CDEV_IOC_ALLOCATE" (chr "#") 2 fw_cdev_allocate;
  _IOW "FW_CDEV_IOC_DEALLOCATE" (chr "#") 3 fw_cdev_deallocate;
  _IOW "FW_CDEV_IOC_SEND_RESPONSE" (chr "#") 4 fw_cdev_send_response;
  _IOW "FW_CDEV_IOC_INITIATE_BUS_RESET" (chr "#") 5 fw_cdev_initiate_bus_reset;
  _IOWR "FW_CDEV_IOC_ADD_DESCRIPTOR" (chr "#") 6 fw_cdev_add_descriptor;
  _IOW "FW_CDEV_IOC_REMOVE_DESCRIPTOR" (chr "#") 7 fw_cdev_remove_descriptor;
  _IOWR "FW_CDEV_IOC_CREATE_ISO_CONTEXT" (chr "#") 8 fw_cdev_create_iso_context;
  _IOWR "FW_CDEV_IOC_QUEUE_ISO" (chr "#") 9 fw_cdev_queue_iso;
  _IOW "FW_CDEV_IOC_START_ISO" (chr "#") 10 fw_cdev_start_iso;
  _IOW "FW_CDEV_IOC_STOP_ISO" (chr "#") 11 fw_cdev_stop_iso;
  _IOR "FW_CDEV_IOC_GET_CYCLE_TIMER" (chr "#") 12 fw_cdev_get_cycle_timer;
  _IOWR "FW_CDEV_IOC_ALLOCATE_ISO_RESOURCE" (chr "#") 13 fw_cdev_allocate_iso_resource;
  _IOW "FW_CDEV_IOC_DEALLOCATE_ISO_RESOURCE" (chr "#") 14 fw_cdev_deallocate;
  _IOW "FW_CDEV_IOC_ALLOCATE_ISO_RESOURCE_ONCE" (chr "#") 15 fw_cdev_allocate_iso_resource;
  _IOW "FW_CDEV_IOC_DEALLOCATE_ISO_RESOURCE_ONCE" (chr "#") 16 fw_cdev_allocate_iso_resource;
  _IO "FW_CDEV_IOC_GET_SPEED" (chr "#") 17;
  _IOW "FW_CDEV_IOC_SEND_BROADCAST_REQUEST" (chr "#") 18 fw_cdev_send_request;
  _IOW "FW_CDEV_IOC_SEND_STREAM_PACKET" (chr "#") 19 fw_cdev_send_stream_packet;
  _IOWR "FW_CDEV_IOC_GET_CYCLE_TIMER2" (chr "#") 20 fw_cdev_get_cycle_timer2;
  _IOWR "FW_CDEV_IOC_SEND_PHY_PACKET" (chr "#") 21 fw_cdev_send_phy_packet;
  _IOW "FW_CDEV_IOC_RECEIVE_PHY_PACKETS" (chr "#") 22 fw_cdev_receive_phy_packets;
  _IOW "FW_CDEV_IOC_SET_ISO_CHANNELS" (chr "#") 23 fw_cdev_set_iso_channels;
  _IOW "FW_CDEV_IOC_FLUSH_ISO" (chr "#") 24 fw_cdev_flush_iso].
End Firewire_cdev.

(** ** [linux/hbtp_input.h] *)

Module Hbtp_input.
Definition HBTP_MAX_FINGER : Z := 20.
Definition MAX_ROI_SIZE : Z := 144.
Definition MAX_ACCEL_SIZE : Z := 128.
Definition structs_hbtp_input_touch : list (string * cty) :=
  let hbtp_input_touch := Struct [("active", c_bool); ("tool", __s32); ("x", __s32);
   ("y", __s32); ("pressure", __s32); ("major", __s32); ("minor", __s32);
   ("orientation", __s32)] in
  [
  ("hbtp_input_touch", hbtp_input_touch);
  ("hbtp_sensor_data", Struct [("accelBuffer", Arr MAX_ACCEL_SIZE __s16);
   ("ROI", Arr MAX_ROI_SIZE __s16)]);
  ("hbtp_input_mt", Struct [("num_touches", __s32);
   ("touches", Arr HBTP_MAX_FINGER hbtp_input_touch); ("time_val", timeval)]);
  ("hbtp_input_absinfo", Struct [("active", c_bool); ("code", __u16); ("minimum", __s32);
   ("maximum", __s32)])].
Definition hbtp_sensor_data : cty := type_in structs_hbtp_input_touch "hbtp_sensor_data".
Definition hbtp_input_mt : cty := type_in structs_hbtp_input_touch "hbtp_input_mt".
Definition hbtp_input_key : cty := Struct [("code", __u32); ("value", __s32)].
Definition hbtp_input_types : list (string * cty) :=
  (structs_hbtp_input_touch ++ [("hbtp_input_key", hbtp_input_key)])%list.
Definition hbtp_input_ioctls : list command := [
  _IOW "HBTP_SET_ABSPARAM" (chr "T") 201 ptr;
  _IOW "HBTP_SET_TOUCHDATA" (chr "T") 202 hbtp_input_mt;
  _IOW "HBTP_SET_POWERSTATE" (chr "T") 203 enum;
  _IOW "HBTP_SET_KEYDATA" (chr "T") 204 hbtp_input_key;
  _IOW "HBTP_SET_SYNCSIGNAL" (chr "T") 205 enum;
  _IOW "HBTP_SET_POWER_CTRL" (chr "T") 206 enum;
  _IOW "HBTP_SET_SENSORDATA" (chr "T") 207 hbtp_sensor_data].
End Hbtp_input.

(** ** [linux/hbtp_vm.h] *)

Module Hbtp_vm.
Definition hbtp_vm_click : cty := Struct [("x", int); ("y", int); ("mask", int)].
Definition hbtp_vm_types : list (string * cty) := [("hbtp_vm_click", hbtp_vm_click)].
Definition hbtp_vm_ioctls : list command := [
  _IO "HBTP_VM_ENABLE" (chr "V") 200;
  _IO "HBTP_VM_DISABLE" (chr "V") 201;
  _IOW "HBTP_VM_SET_TOUCHDATA" 0x54 202 Hbtp_input.hbtp_input_mt;
  _IOW "HBTP_VM_SEND_CLICK" 0x54 203 hbtp_vm_click].
End Hbtp_vm.

(** ** [linux/hiddev.h] *)

Module Hiddev.
Definition HID_STRING_SIZE : Z := 256.
Definition HID_MAX_MULTI_USAGES : Z := 1024.
Definition structs_hiddev_event : list (string * cty) :=
  [
  ("hiddev_event", Struct [("hid", uint); ("value", int)]);
  ("hiddev_devinfo", Struct [("bustype", __u32); ("busnum", __u32); ("devnum", __u32);
   ("ifnum", __u32); ("vendor", __s16); ("product", __s16); ("version", __s16);
   ("num_applications", __u32)]);
  ("hiddev_collection_info", Struct [("index", __u32); ("type", __u32); ("usage", __u32);
   ("level", __u32)])].
Definition hiddev_devinfo : cty := type_in structs_hiddev_event "hiddev_devinfo".
Definition hiddev_collection_info : cty := type_in structs_hiddev_event "hiddev_collection_info".
Definition structs_hiddev_string_descriptor : list (string * cty) :=
  [
  ("hiddev_string_descriptor", Struct [("index", __s32); ("value", Arr HID_STRING_SIZE char)]);
  ("hiddev_report_info", Struct [("report_type", __u32); ("report_id", __u32);
   ("num_fields", __u32)])].
Definition hiddev_string_descriptor : cty := type_in structs_hiddev_string_descriptor "hiddev_string_descriptor".
Definition hiddev_report_info : cty := type_in structs_hiddev_string_descriptor "hiddev_report_info".
Definition hiddev_field_info : cty :=
  Struct [("report_type", __u32); ("report_id", __u32); ("field_index", __u32);
   ("maxusage", __u32); ("flags", __u32); ("physical", __u32); ("logical", __u32);
   ("application", __u32); ("logical_minimum", __s32); ("logical_maximum", __s32);
   ("physical_minimum", __s32); ("physical_maximum", __s32); ("unit_exponent", __u32);
   ("unit", __u32)].
Definition hiddev_usage_ref : cty :=
  Struct [("report_type", __u32); ("report_id", __u32); ("field_index", __u32);
   ("usage_index", __u32); ("usage_code", __u32); ("value", __s32)].
Definition hiddev_usage_ref_multi : cty :=
  Struct [("uref", hiddev_usage_ref); ("num_values", __u32);
   ("values", Arr HID_MAX_MULTI_USAGES __s32)].
Definition hiddev_types : list (string * cty) :=
  (structs_hiddev_event ++ structs_hiddev_string_descriptor ++ [("hiddev_field_info",
   hiddev_field_info); ("hiddev_usage_ref", hiddev_usage_ref); ("hiddev_usage_ref_multi",
   hiddev_usage_ref_multi)])%list.
Definition hiddev_ioctls : list command := [
  _IOR "HIDIOCGVERSION" (chr "H") 1 int;
  _IO "HIDIOCAPPLICATION" (chr "H") 2;
  _IOR "HIDIOCGDEVINFO" (chr "H") 3 hiddev_devinfo;
  _IOR "HIDIOCGSTRING" (chr "H") 4 hiddev_string_descriptor;
  _IO "HIDIOCINITREPORT" (chr "H") 5;
  _IOW "HIDIOCGREPORT" (chr "H") 7 hiddev_report_info;
  _IOW "HIDIOCSREPORT" (chr "H") 8 hiddev_report_info;
  _IOWR "HIDIOCGREPORTINFO" (chr "H") 9 hiddev_report_info;
  _IOWR "HIDIOCGFIELDINFO" (chr "H") 10 hiddev_field_info;
  _IOWR "HIDIOCGUSAGE" (chr "H") 11 hiddev_usage_ref;
  _IOW "HIDIOCSUSAGE" (chr "H") 12 hiddev_usage_ref;
  _IOWR "HIDIOCGUCODE" (chr "H") 13 hiddev_usage_ref;
  _IOR "HIDIOCGFLAG" (chr "H") 14 int;
  _IOW "HIDIOCSFLAG" (chr "H") 15 int;
  _IOW "HIDIOCGCOLLECTIONINDEX" (chr "H") 16 hiddev_usage_ref;
  _IOWR "HIDIOCGCOLLECTIONINFO" (chr "H") 17 hiddev_collection_info;
  _IOWR "HIDIOCGUSAGES" (chr "H") 19 hiddev_usage_ref_multi;
  _IOW "HIDIOCSUSAGES" (chr "H") 20 hiddev_usage_ref_multi].
End Hiddev.

(** ** [linux/hidraw.h] *)

Module Hidraw.
Definition structs_hidraw_report_descriptor : list (string * cty) :=
  [
  ("hidraw_report_descriptor", Struct [("size", __u32); ("value", Arr 4096 __u8)]);
  ("hidraw_devinfo", Struct [("bustype", __u32); ("vendor", __s16); ("product", __s16)])].
Definition hidraw_report_descriptor : cty := type_in structs_hidraw_report_descriptor "hidraw_report_descriptor".
Definition hidraw_devinfo : cty := type_in structs_hidraw_report_descriptor "hidraw_devinfo".
Definition hidraw_types : list (string * cty) := structs_hidraw_report_descriptor.
Definition hidraw_ioctls : list command := [
  _IOR "HIDIOCGRDESCSIZE" (chr "H") 1 int;
  _IOR "HIDIOCGRDESC" (chr "H") 2 hidraw_report_descriptor;
  _IOR "HIDIOCGRAWINFO" (chr "H") 3 hidraw_devinfo].
End Hidraw.

(** ** [linux/hpet.h] *)

Module Hpet.
Definition hpet_info : cty :=
  Struct [("hi_ireqfreq", ulong); ("hi_flags", ulong); ("hi_hpet", ushort); ("hi_timer", ushort)].
Definition hpet_types : list (string * cty) := [("hpet_info", hpet_info)].
Definition hpet_ioctls : list command := [
  _IO "HPET_IE_ON" (chr "h") 1;
  _IO "HPET_IE_OFF" (chr "h") 2;
  _IOR "HPET_INFO" (chr "h") 3 hpet_info;
  _IO "HPET_EPI" (chr "h") 4;
  _IO "HPET_DPI" (chr "h") 5;
  _IOW "HPET_IRQFREQ" (chr "h") 6 ulong].
End Hpet.

(** ** [linux/i2c-dev.h] *)

Module I2c_dev.
Definition structs_i2c_smbus_ioctl_data : list (string * cty) :=
  [
  ("i2c_smbus_ioctl_data", Struct [("read_write", __u8); ("command", __u8); ("size", __u32);
   ("data", ptr)]);
  ("i2c_rdwr_ioctl_data", Struct [("msgs", ptr); ("nmsgs", __u32)])].
Definition i2c_dev_types : list (string * cty) := structs_i2c_smbus_ioctl_data.
End I2c_dev.

(** ** [linux/i2c.h] *)

Module I2c.
Definition i2c_msg : cty :=
  Struct [("addr", __u16); ("flags", __u16); ("len", __u16); ("buf", ptr)].
Definition i2c_smbus_data : cty :=
  Union [("byte", __u8); ("word", __u16); ("block", Arr 34 __u8)].
Definition i2c_types : list (string * cty) :=
  ([("i2c_msg", i2c_msg); ("i2c_smbus_data", i2c_smbus_data)])%list.
End I2c.

(** ** [linux/i8k.h] *)

Module I8k.
Definition i8k_ioctls : list command := [
  _IOR "I8K_BIOS_VERSION" (chr "i") 128 int;
  _IOR "I8K_MACHINE_ID" (chr "i") 129 int;
  _IOR "I8K_POWER_STATUS" (chr "i") 130 size_t;
  _IOR "I8K_FN_STATUS" (chr "i") 131 size_t;
  _IOR "I8K_GET_TEMP" (chr "i") 132 size_t;
  _IOWR "I8K_GET_SPEED" (chr "i") 133 size_t;
  _IOWR "I8K_GET_FAN" (chr "i") 134 size_t;
  _IOWR "I8K_SET_FAN" (chr "i") 135 size_t].
End I8k.

(** ** [linux/iio/events.h] *)

Module Iio_events.
Definition iio_event_data : cty := Struct [("id", __u64); ("timestamp", __s64)].
Definition iio_events_types : list (string * cty) := [("iio_event_data", iio_event_data)].
Definition iio_events_ioctls : list command := [
  _IOR "IIO_GET_EVENT_FD_IOCTL" (chr "i") 144 int].
End Iio_events.

(** ** [linux/input.h] *)

Module Input.
Definition input_event : cty :=
  Struct [("time", timeval); ("type", __u16); ("code", __u16); ("value", __s32)].
Definition structs_input_id : list (string * cty) :=
  [
  ("input_id", Struct [("bustype", __u16); ("vendor", __u16); ("product", __u16);
   ("version", __u16)]);
  ("input_absinfo", Struct [("value", __s32); ("minimum", __s32); ("maximum", __s32);
   ("fuzz", __s32); ("flat", __s32); ("resolution", __s32)]);
  ("input_keymap_entry", Struct [("flags", __u8); ("len", __u8); ("index", __u16);
   ("keycode", __u32); ("scancode", Arr 32 __u8)]);
  ("input_mask", Struct [("type", __u32); ("codes_size", __u32); ("codes_ptr", __u64)])].
Definition input_id : cty := type_in structs_input_id "input_id".
Definition input_keymap_entry : cty := type_in structs_input_id "input_keymap_entry".
Definition input_mask : cty := type_in structs_input_id "input_mask".
Definition structs_ff_replay : list (string * cty) :=
  let ff_envelope := Struct [("attack_length", __u16); ("attack_level", __u16);
   ("fade_length", __u16); ("fade_level", __u16)] in
  [
  ("ff_replay", Struct [("length", __u16); ("delay", __u16)]);
  ("ff_trigger", Struct [("button", __u16); ("interval", __u16)]);
  ("ff_envelope", ff_envelope);
  ("ff_constant_effect", Struct [("level", __s16); ("envelope", ff_envelope)]);
  ("ff_ramp_effect", Struct [("start_level", __s16); ("end_level", __s16);
   ("envelope", ff_envelope)]);
  ("ff_condition_effect", Struct [("right_saturation", __u16); ("left_saturation", __u16);
   ("right_coeff", __s16); ("left_coeff", __s16); ("deadband", __u16); ("center", __s16)]);
  ("ff_periodic_effect", Struct [("waveform", __u16); ("period", __u16); ("magnitude", __s16);
   ("offset", __s16); ("phase", __u16); ("envelope", ff_envelope); ("custom_len", __u32);
   ("custom_data", ptr)]);
  ("ff_rumble_effect", Struct [("strong_magnitude", __u16); ("weak_magnitude", __u16)])].
Definition ff_replay : cty := type_in structs_ff_replay "ff_replay".
Definition ff_trigger : cty := type_in structs_ff_replay "ff_trigger".
Definition ff_constant_effect : cty := type_in structs_ff_replay "ff_constant_effect".
Definition ff_ramp_effect : cty := type_in structs_ff_replay "ff_ramp_effect".
Definition ff_condition_effect : cty := type_in structs_ff_replay "ff_condition_effect".
Definition ff_periodic_effect : cty := type_in structs_ff_replay "ff_periodic_effect".
Definition ff_rumble_effect : cty := type_in structs_ff_replay "ff_rumble_effect".
Definition ff_effect : cty :=
  Struct [("type", __u16); ("id", __s16); ("direction", __u16); ("trigger", ff_trigger);
   ("replay", ff_replay); ("u", Union [("constant", ff_constant_effect);
   ("ramp", ff_ramp_effect); ("periodic", ff_periodic_effect);
   ("condition", Arr 2 ff_condition_effect); ("rumble", ff_rumble_effect)])].
Definition input_types : list (string * cty) :=
  ([("input_event", input_event)] ++ structs_input_id ++ structs_ff_replay ++ [("ff_effect",
   ff_effect)])%list.
Definition input_ioctls_1 : list command := [
  _IOR "EVIOCGVERSION" (chr "E") 1 int;
  _IOR "EVIOCGID" (chr "E") 2 input_id;
  _IOR "EVIOCGREP" (chr "E") 3 (Arr 2 uint);
  _IOW "EVIOCSREP" (chr "E") 3 (Arr 2 uint);
  _IOR "EVIOCGKEYCODE" (chr "E") 4 (Arr 2 uint);
  _IOR "EVIOCGKEYCODE_V2" (chr "E") 4 input_keymap_entry;
  _IOW "EVIOCSKEYCODE" (chr "E") 4 (Arr 2 uint);
  _IOW "EVIOCSKEYCODE_V2" (chr "E") 4 input_keymap_entry].
Definition input_ioctls_2 : list command := [
  _IOW "EVIOCSFF" (chr "E") 128 ff_effect;
  _IOW "EVIOCRMFF" (chr "E") 129 int;
  _IOR "EVIOCGEFFECTS" (chr "E") 132 int;
  _IOW "EVIOCGRAB" (chr "E") 144 int;
  _IOW "EVIOCREVOKE" (chr "E") 145 int].
Definition input_ioctls_3 : list command := [
  _IOR "EVIOCGMASK" (chr "E") 146 input_mask].
Definition input_ioctls_4 : list command := [
  _IOW "EVIOCSMASK" (chr "E") 147 input_mask;
  _IOW "EVIOCSCLOCKID" (chr "E") 160 int].
Definition input_ioctls : list command :=
  (input_ioctls_1 ++ input_ioctls_2 ++ input_ioctls_3 ++ input_ioctls_4)%list.
End Input.

(** ** [linux/ipmi.h] *)

Module Ipmi.
Definition IPMI_MAX_ADDR_SIZE : Z := 32.
Definition ipmi_addr : cty :=
  Struct [("addr_type", int); ("channel", short); ("data", Arr IPMI_MAX_ADDR_SIZE char)].
Definition ipmi_system_interface_addr : cty :=
  Struct [("addr_type", int); ("channel", short); ("lun", uchar)].
Definition ipmi_ipmb_addr : cty :=
  Struct [("addr_type", int); ("channel", short); ("slave_addr", uchar); ("lun", uchar)].
Definition ipmi_lan_addr : cty :=
  Struct [("addr_type", int); ("channel", short); ("privilege", uchar);
   ("session_handle", uchar); ("remote_SWID", uchar); ("local_SWID", uchar); ("lun", uchar)].
Definition structs_ipmi_msg : list (string * cty) :=
  [
  ("ipmi_msg", Struct [("netfn", uchar); ("cmd", uchar); ("data_len", ushort); ("data", ptr)]);
  ("kernel_ipmi_msg", Struct [("netfn", uchar); ("cmd", uchar); ("data_len", ushort);
   ("data", ptr)])].
Definition ipmi_msg : cty := type_in structs_ipmi_msg "ipmi_msg".
Definition ipmi_req : cty :=
  Struct [("addr", ptr); ("addr_len", uint); ("msgid", long); ("msg", ipmi_msg)].
Definition ipmi_req_settime : cty :=
  Struct [("req", ipmi_req); ("retries", int); ("retry_time_ms", uint)].
Definition ipmi_recv : cty :=
  Struct [("recv_type", int); ("addr", ptr); ("addr_len", uint); ("msgid", long);
   ("msg", ipmi_msg)].
Definition ipmi_cmdspec : cty := Struct [("netfn", uchar); ("cmd", uchar)].
Definition ipmi_cmdspec_chans : cty := Struct [("netfn", uint); ("cmd", uint); ("chans", uint)].
Definition ipmi_channel_lun_address_set : cty := Struct [("channel", ushort); ("value", uchar)].
Definition ipmi_timing_parms : cty := Struct [("retries", int); ("retry_time_ms", uint)].
Definition ipmi_types : list (string * cty) :=
  ([("ipmi_addr", ipmi_addr); ("ipmi_system_interface_addr", ipmi_system_interface_addr);
   ("ipmi_ipmb_addr", ipmi_ipmb_addr); ("ipmi_lan_addr", ipmi_lan_addr)] ++ structs_ipmi_msg
   ++ [("ipmi_req", ipmi_req); ("ipmi_req_settime", ipmi_req_settime); ("ipmi_recv",
   ipmi_recv); ("ipmi_cmdspec", ipmi_cmdspec); ("ipmi_cmdspec_chans", ipmi_cmdspec_chans);
   ("ipmi_channel_lun_address_set", ipmi_channel_lun_address_set); ("ipmi_timing_parms",
   ipmi_timing_parms)])%list.
Definition ipmi_ioctls_1 : list command := [
  _IOR "IPMICTL_SEND_COMMAND" (chr "i") 13 ipmi_req].
Definition ipmi_ioctls_2 : list command := [
  _IOR "IPMICTL_SEND_COMMAND_SETTIME" (chr "i") 21 ipmi_req_settime].
Definition ipmi_ioctls_3 : list command := [
  _IOWR "IPMICTL_RECEIVE_MSG" (chr "i") 12 ipmi_recv].
Definition ipmi_ioctls_4 : list command := [
  _IOWR "IPMICTL_RECEIVE_MSG_TRUNC" (chr "i") 11 ipmi_recv].
Definition ipmi_ioctls_5 : list command := [
  _IOR "IPMICTL_REGISTER_FOR_CMD" (chr "i") 14 ipmi_cmdspec;
  _IOR "IPMICTL_UNREGISTER_FOR_CMD" (chr "i") 15 ipmi_cmdspec].
Definition ipmi_ioctls_6 : list command := [
  _IOR "IPMICTL_REGISTER_FOR_CMD_CHANS" (chr "i") 28 ipmi_cmdspec_chans;
  _IOR "IPMICTL_UNREGISTER_FOR_CMD_CHANS" (chr "i") 29 ipmi_cmdspec_chans].
Definition ipmi_ioctls_7 : list command := [
  _IOR "IPMICTL_SET_GETS_EVENTS_CMD" (chr "i") 16 int].
Definition ipmi_ioctls_8 : list command := [
  _IOR "IPMICTL_SET_MY_CHANNEL_ADDRESS_CMD" (chr "i") 24 ipmi_channel_lun_address_set;
  _IOR "IPMICTL_GET_MY_CHANNEL_ADDRESS_CMD" (chr "i") 25 ipmi_channel_lun_address_set;
  _IOR "IPMICTL_SET_MY_CHANNEL_LUN_CMD" (chr "i") 26 ipmi_channel_lun_address_set;
  _IOR "IPMICTL_GET_MY_CHANNEL_LUN_CMD" (chr "i") 27 ipmi_channel_lun_address_set;
  _IOR "IPMICTL_SET_MY_ADDRESS_CMD" (chr "i") 17 uint;
  _IOR "IPMICTL_GET_MY_ADDRESS_CMD" (chr "i") 18 uint;
  _IOR "IPMICTL_SET_MY_LUN_CMD" (chr "i") 19 uint;
  _IOR "IPMICTL_GET_MY_LUN_CMD" (chr "i") 20 uint].
Definition ipmi_ioctls_9 : list command := [
  _IOR "IPMICTL_SET_TIMING_PARMS_CMD" (chr "i") 22 ipmi_timing_parms;
  _IOR "IPMICTL_GET_TIMING_PARMS_CMD" (chr "i") 23 ipmi_timing_parms;
  _IOR "IPMICTL_GET_MAINTENANCE_MODE_CMD" (chr "i") 30 int;
  _IOW "IPMICTL_SET_MAINTENANCE_MODE_CMD" (chr "i") 31 int].
Definition ipmi_ioctls : list command :=
  (ipmi_ioctls_1 ++ ipmi_ioctls_2 ++ ipmi_ioctls_3 ++ ipmi_ioctls_4 ++ ipmi_ioctls_5 ++
  ipmi_ioctls_6 ++ ipmi_ioctls_7 ++ ipmi_ioctls_8 ++ ipmi_ioctls_9)%list.
End Ipmi.

(** ** [linux/joystick.h] *)

Module Joystick.
Definition js_event : cty :=
  Struct [("time", __u32); ("value", __s16); ("type", __u8); ("number", __u8)].
Definition js_corr : cty := Struct [("coef", Arr 8 __s32); ("prec", __s16); ("type", __u16)].
Definition structs_JS_DATA_TYPE : list (string * cty) :=
  let JS_DATA_TYPE := Struct [("buttons", __s32); ("x", __s32); ("y", __s32)] in
  [
  ("JS_DATA_TYPE", JS_DATA_TYPE);
  ("JS_DATA_SAVE_TYPE_32", Struct [("JS_TIMEOUT", __s32); ("BUSY", __s32);
   ("JS_EXPIRETIME", __s32); ("JS_TIMELIMIT", __s32); ("JS_SAVE", JS_DATA_TYPE);
   ("JS_CORR", JS_DATA_TYPE)]);
  ("JS_DATA_SAVE_TYPE_64", Struct [("JS_TIMEOUT", __s32); ("BUSY", __s32);
   ("JS_EXPIRETIME", __s64); ("JS_TIMELIMIT", __s64); ("JS_SAVE", JS_DATA_TYPE);
   ("JS_CORR", JS_DATA_TYPE)])].
Definition joystick_types : list (string * cty) :=
  ([("js_event", js_event); ("js_corr", js_corr)] ++ structs_JS_DATA_TYPE)%list.
Definition joystick_ioctls : list command := [
  _IOR "JSIOCGVERSION" (chr "j") 1 __u32;
  _IOR "JSIOCGAXES" (chr "j") 17 __u8;
  _IOR "JSIOCGBUTTONS" (chr "j") 18 __u8;
  _IOW "JSIOCSCORR" (chr "j") 33 js_corr;
  _IOR "JSIOCGCORR" (chr "j") 34 js_corr;
  _IOW "JSIOCSAXMAP" (chr "j") 49 (Arr 64 __u8);
  _IOR "JSIOCGAXMAP" (chr "j") 50 (Arr 64 __u8);
  _IOW "JSIOCSBTNMAP" (chr "j") 51 (Arr 512 __u16);
  _IOR "JSIOCGBTNMAP" (chr "j") 52 (Arr 512 __u16)].
End Joystick.

(** ** [linux/kd.h] *)

Module Kd.
Definition consolefontdesc : cty :=
  Struct [("charcount", ushort); ("charheight", ushort); ("chardata", ptr)].
Definition scrnmap_t : cty := char.
Definition structs_unipair : list (string * cty) :=
  [
  ("unipair", Struct [("unicode", ushort); ("fontpos", ushort)]);
  ("unimapdesc", Struct [("entry_ct", ushort); ("entries", ptr)])].
Definition unimapinit : cty :=
  Struct [("advised_hashsize", ushort); ("advised_hashstep", ushort);
   ("advised_hashlevel", ushort)].
Definition kbentry : cty :=
  Struct [("kb_table", uchar); ("kb_index", uchar); ("kb_value", ushort)].
Definition kbsentry : cty := Struct [("kb_func", uchar); ("kb_string", Arr 512 uchar)].
Definition structs_kbdiacr : list (string * cty) :=
  let kbdiacr := Struct [("diacr", uchar); ("base", uchar); ("result", uchar)] in
  [
  ("kbdiacr", kbdiacr);
  ("kbdiacrs", Struct [("kb_cnt", uint); ("kbdiacr", Arr 256 kbdiacr)])].
Definition structs_kbdiacruc : list (string * cty) :=
  let kbdiacruc := Struct [("diacr", uint); ("base", uint); ("result", uint)] in
  [
  ("kbdiacruc", kbdiacruc);
  ("kbdiacrsuc", Struct [("kb_cnt", uint); ("kbdiacruc", Arr 256 kbdiacruc)])].
Definition kbkeycode : cty := Struct [("scancode", uint); ("keycode", uint)].
Definition kbd_repeat : cty := Struct [("delay", int); ("period", int)].
Definition structs_console_font_op : list (string * cty) :=
  [
  ("console_font_op", Struct [("op", uint); ("flags", uint); ("width", uint); ("height", uint);
   ("charcount", uint); ("data", ptr)]);
  ("console_font", Struct [("width", uint); ("height", uint); ("charcount", uint); ("data", ptr)])].
Definition kd_types : list (string * cty) :=
  ([("consolefontdesc", consolefontdesc); ("scrnmap_t", scrnmap_t)] ++ structs_unipair ++
   [("unimapinit", unimapinit); ("kbentry", kbentry); ("kbsentry", kbsentry)] ++
   structs_kbdiacr ++ structs_kbdiacruc ++ [("kbkeycode", kbkeycode); ("kbd_repeat",
   kbd_repeat)] ++ structs_console_font_op)%list.
End Kd.

(** ** [linux/map_to_7segment.h] *)

Module Map_to_7segment.
Definition seg7_conversion_map : cty := Struct [("table", Arr 128 uchar)].
Definition map_to_7segment_types : list (string * cty) := [("seg7_conversion_map", seg7_conversion_map)].
End Map_to_7segment.

(** ** [linux/maxim_sti.h] *)

Module Maxim_sti.
Definition MAX_IRQ_PARAMS : Z := 37.
Definition MAX_INPUT_EVENTS : Z := 10.
Definition structs_dr_add_mc_group : list (string * cty) :=
  [
  ("dr_add_mc_group", Packed [("number", __u8); ("name", Arr 16 char)]);
  ("dr_echo_request", Packed [("cookie", __u32)]);
  ("dr_chip_read", Packed [("address", __u16); ("length", __u16)]);
  ("dr_chip_write", Packed [("address", __u16); ("length", __u16); ("data", Arr 0 __u8)]);
  ("dr_chip_reset", Packed [("state", __u8)]);
  ("dr_delay", Packed [("period", __u32)]);
  ("dr_chip_access_method", Packed [("method", __u8)])].
Definition structs_dr_config_irq : list (string * cty) :=
  [
  ("dr_config_irq", Packed [("irq_method", __u8); ("irq_edge", __u8); ("irq_params", __u8);
   ("irq_param", Arr MAX_IRQ_PARAMS __u16)]);
  ("dr_config_input", Packed [("x_range", __u16); ("y_range", __u16)]);
  ("dr_config_watchdog", Packed [("pid", __u32)]);
  ("dr_input_event", Packed [("id", __u8); ("tool_type", __u8); ("x", __u16); ("y", __u16);
   ("z", __u8)])].
Definition dr_input_event : cty := type_in structs_dr_config_irq "dr_input_event".
Definition structs_dr_input : list (string * cty) :=
  [
  ("dr_input", Packed [("event", Arr MAX_INPUT_EVENTS dr_input_event); ("events", __u8)]);
  ("dr_legacy_acceleration", Packed [("enable", __u8)]);
  ("dr_handshake", Packed [("tf_ver", __u16); ("chip_id", __u16)])].
Definition structs_dr_sysfs_ack : list (string * cty) :=
  [
  ("dr_sysfs_ack", Packed [("type", __u32)]);
  ("dr_config_fw", Packed [("fw_ver", __u16); ("fw_protocol", __u16)]);
  ("dr_idle", Packed [("idle", __u8)])].
Definition dr_tf_status : cty := Packed [("tf_status", __u32)].
Definition structs_fu_echo_response : list (string * cty) :=
  [
  ("fu_echo_response", Packed [("cookie", __u32); ("driver_state", __u8)]);
  ("fu_chip_read_result", Packed [("address", __u16); ("length", __u16); ("data", Arr 0 __u8)]);
  ("fu_irqline_status", Packed [("status", __u8)]);
  ("fu_async_data", Packed [("address", __u16); ("length", __u16); ("status", __u16);
   ("data", Arr 0 __u8)]);
  ("fu_handshake_response", Packed [("driver_ver", __u16); ("panel_id", __u16);
   ("driver_protocol", __u16)]);
  ("fu_sysfs_info", Packed [("type", __u8); ("glove_value", __u16); ("charger_value", __u16);
   ("lcd_fps_value", __u16)])].
Definition maxim_sti_types : list (string * cty) :=
  (structs_dr_add_mc_group ++ structs_dr_config_irq ++ structs_dr_input ++
   structs_dr_sysfs_ack ++ [("dr_tf_status", dr_tf_status)] ++ structs_fu_echo_response)%list.
End Maxim_sti.

(** ** [linux/mfd/msm-adie-codec.h] *)

Module Mfd_msm_adie_codec.
Definition structs_adie_codec_action_unit : list (string * cty) :=
  [
  ("adie_codec_action_unit", Struct [("type", c_u32); ("action", c_u32)]);
  ("adie_codec_hwsetting_entry", Struct [("actions", ptr); ("action_sz", c_u32);
   ("freq_plan", c_u32); ("osr", c_u32)]);
  ("adie_codec_dev_profile", Struct [("path_type", c_u32); ("setting_sz", c_u32);
   ("settings", ptr)]);
  ("adie_codec_register", Struct [("reg", c_u8); ("mask", c_u8); ("val", c_u8)]);
  ("adie_codec_register_image", Struct [("regs", ptr); ("img_sz", c_u32)])].
Definition adie_codec_anc_data : cty := Struct [("size", c_u32); ("writes", Arr 0 c_u32)].
Definition adie_codec_operations : cty :=
  Struct [("codec_id", int); ("codec_open", ptr); ("codec_close", ptr); ("codec_setpath", ptr);
   ("codec_proceed_stage", ptr); ("codec_freq_supported", ptr); ("codec_enable_sidetone", ptr);
   ("codec_enable_anc", ptr); ("codec_set_device_digital_volume", ptr);
   ("codec_set_device_analog_volume", ptr); ("codec_set_master_mode", ptr)].
Definition mfd_msm_adie_codec_types : list (string * cty) :=
  (structs_adie_codec_action_unit ++ [("adie_codec_anc_data", adie_codec_anc_data);
   ("adie_codec_operations", adie_codec_operations)])%list.
End Mfd_msm_adie_codec.

(** ** [linux/mii.h] *)

Module Mii.
Definition mii_ioctl_data : cty :=
  Struct [("phy_id", __u16); ("reg_num", __u16); ("val_in", __u16); ("val_out", __u16)].
Definition mii_types : list (string * cty) := [("mii_ioctl_data", mii_ioctl_data)].
End Mii.

(** ** [linux/mmtimer.h] *)

Module Mmtimer.
Definition mmtimer_ioctls : list command := [
  _IO "MMTIMER_GETOFFSET" (chr "m") 0;
  _IOR "MMTIMER_GETRES" (chr "m") 1 ulong;
  _IOR "MMTIMER_GETFREQ" (chr "m") 2 ulong;
  _IO "MMTIMER_GETBITS" (chr "m") 4;
  _IO "MMTIMER_MMAPAVAIL" (chr "m") 6;
  _IOR "MMTIMER_GETCOUNTER" (chr "m") 9 ulong].
End Mmtimer.

(** ** [linux/msm_pft.h] *)

Module Msm_pft.
Definition structs_pft_command_response : list (string * cty) :=
  [
  ("pft_command_response", Struct [("command_id", __u32); ("error_code", __u32)]);
  ("pft_command", Struct [("opcode", __u32);
   ("", Union [("set_state", Struct [("state", __u32)]);
   ("update_app_list", Struct [("items_count", __u32); ("table", Arr 0 uid_t)]);
   ("preform_in_place_file_enc", Struct [("file_descriptor", __u32)])])])].
Definition msm_pft_types : list (string * cty) := structs_pft_command_response.
End Msm_pft.

(** ** [linux/nubus.h] *)

Module Nubus.
Definition structs_nubus_dir : list (string * cty) :=
  [
  ("nubus_dir", Struct [("base", ptr); ("ptr", ptr); ("done", int); ("mask", int)]);
  ("nubus_dirent", Struct [("base", ptr); ("type", uchar); ("data", __u32); ("mask", int)])].
Definition nubus_types : list (string * cty) := structs_nubus_dir.
End Nubus.

(** ** [linux/nvram.h] *)

Module Nvram.
Definition nvram_ioctls : list command := [
  _IO "NVRAM_INIT" (chr "p") 64;
  _IO "NVRAM_SETCKS" (chr "p") 65].
End Nvram.

(** ** [linux/parport.h] *)

Module Parport.
Definition parport_device_class : cty := enum.
Definition parport_types : list (string * cty) := [("parport_device_class", parport_device_class)].
End Parport.

(** ** [linux/phantom.h] *)

Module Phantom.
Definition structs_phm_reg : list (string * cty) :=
  [
  ("phm_reg", Struct [("reg", __u32); ("value", __u32)]);
  ("phm_regs", Struct [("count", __u32); ("mask", __u32); ("values", Arr 8 __u32)])].
Definition phm_reg : cty := type_in structs_phm_reg "phm_reg".
Definition phm_regs : cty := type_in structs_phm_reg "phm_regs".
Definition phantom_types : list (string * cty) := structs_phm_reg.
Definition phantom_ioctls : list command := [
  _IOWR "PHN_GET_REG" (chr "p") 0 ptr;
  _IOW "PHN_SET_REG" (chr "p") 1 ptr;
  _IOWR "PHN_GET_REGS" (chr "p") 2 ptr;
  _IOW "PHN_SET_REGS" (chr "p") 3 ptr;
  _IO "PHN_NOT_OH" (chr "p") 4;
  _IOWR "PHN_GETREG" (chr "p") 5 phm_reg;
  _IOW "PHN_SETREG" (chr "p") 6 phm_reg;
  _IOWR "PHN_GETREGS" (chr "p") 7 phm_regs;
  _IOW "PHN_SETREGS" (chr "p") 8 phm_regs].
End Phantom.

(** ** [linux/pmu.h] *)

Module Pmu.
Definition pmu_ioctls : list command := [
  _IO "PMU_IOC_SLEEP" (chr "B") 0;
  _IOR "PMU_IOC_GET_BACKLIGHT" (chr "B") 1 size_t;
  _IOW "PMU_IOC_SET_BACKLIGHT" (chr "B") 2 size_t;
  _IOR "PMU_IOC_GET_MODEL" (chr "B") 3 size_t;
  _IOR "PMU_IOC_HAS_ADB" (chr "B") 4 size_t;
  _IOR "PMU_IOC_CAN_SLEEP" (chr "B") 5 size_t;
  _IOR "PMU_IOC_GRAB_BACKLIGHT" (chr "B") 6 size_t].
End Pmu.

(** ** [linux/ppdev.h] *)

Module Ppdev.
Definition ppdev_frob_struct : cty := Struct [("mask", uchar); ("val", uchar)].
Definition ppdev_types : list (string * cty) := [("ppdev_frob_struct", ppdev_frob_struct)].
Definition ppdev_ioctls_1 : list command := [
  _IOW "PPSETMODE" (chr "p") 128 int;
  _IOR "PPRSTATUS" (chr "p") 129 uchar;
  _IOR "PPRCONTROL" (chr "p") 131 uchar;
  _IOW "PPWCONTROL" (chr "p") 132 uchar;
  _IOW "PPFCONTROL" (chr "p") 142 ppdev_frob_struct;
  _IOR "PPRDATA" (chr "p") 133 uchar;
  _IOW "PPWDATA" (chr "p") 134 uchar].
Definition ppdev_ioctls_2 : list command := [
  _IO "PPCLAIM" (chr "p") 139;
  _IO "PPRELEASE" (chr "p") 140;
  _IO "PPYIELD" (chr "p") 141;
  _IO "PPEXCL" (chr "p") 143;
  _IOW "PPDATADIR" (chr "p") 144 int;
  _IOW "PPNEGOT" (chr "p") 145 int;
  _IOW "PPWCTLONIRQ" (chr "p") 146 uchar;
  _IOR "PPCLRIRQ" (chr "p") 147 int;
  _IOW "PPSETPHASE" (chr "p") 148 int;
  _IOR "PPGETTIME" (chr "p") 149 timeval;
  _IOW "PPSETTIME" (chr "p") 150 timeval;
  _IOR "PPGETMODES" (chr "p") 151 uint;
  _IOR "PPGETMODE" (chr "p") 152 int;
  _IOR "PPGETPHASE" (chr "p") 153 int;
  _IOR "PPGETFLAGS" (chr "p") 154 int;
  _IOW "PPSETFLAGS" (chr "p") 155 int].
Definition ppdev_ioctls : list command :=
  (ppdev_ioctls_1 ++ ppdev_ioctls_2)%list.
End Ppdev.

(** ** [linux/pps.h] *)

Module Pps.
Definition pps_ktime : cty := Struct [("sec", __s64); ("nsec", __s32); ("flags", __u32)].
Definition structs_pps_kinfo : list (string * cty) :=
  [
  ("pps_kinfo", Struct [("assert_sequence", __u32); ("clear_sequence", __u32);
   ("assert_tu", pps_ktime); ("clear_tu", pps_ktime); ("current_mode", int)]);
  ("pps_kparams", Struct [("api_version", int); ("mode", int); ("assert_off_tu", pps_ktime);
   ("clear_off_tu", pps_ktime)])].
Definition pps_kinfo : cty := type_in structs_pps_kinfo "pps_kinfo".
Definition structs_pps_fdata : list (string * cty) :=
  [
  ("pps_fdata", Struct [("info", pps_kinfo); ("timeout", pps_ktime)]);
  ("pps_bind_args", Struct [("tsformat", int); ("edge", int); ("consumer", int)])].
Definition pps_types : list (string * cty) :=
  ([("pps_ktime", pps_ktime)] ++ structs_pps_kinfo ++ structs_pps_fdata)%list.
Definition pps_ioctls : list command := [
  _IOR "PPS_GETPARAMS" (chr "p") 161 ptr;
  _IOW "PPS_SETPARAMS" (chr "p") 162 ptr;
  _IOR "PPS_GETCAP" (chr "p") 163 ptr;
  _IOWR "PPS_FETCH" (chr "p") 164 ptr;
  _IOW "PPS_KC_BIND" (chr "p") 165 ptr].
End Pps.

(** ** [linux/ptp_clock.h] *)

Module Ptp_clock.
Definition structs_ptp_clock_time : list (string * cty) :=
  let ptp_clock_time := Struct [("sec", __s64); ("nsec", __u32); ("reserved", __u32)] in
  [
  ("ptp_clock_time", ptp_clock_time);
  ("ptp_clock_caps", Struct [("max_adj", int); ("n_alarm", int); ("n_ext_ts", int);
   ("n_per_out", int); ("pps", int); ("n_pins", int); ("rsv", Arr 14 int)]);
  ("ptp_extts_request", Struct [("index", uint); ("flags", uint); ("rsv", Arr 2 uint)]);
  ("ptp_perout_request", Struct [("start", ptp_clock_time); ("period", ptp_clock_time);
   ("index", uint); ("flags", uint); ("rsv", Arr 4 uint)])].
Definition ptp_clock_time : cty := type_in structs_ptp_clock_time "ptp_clock_time".
Definition ptp_clock_caps : cty := type_in structs_ptp_clock_time "ptp_clock_caps".
Definition ptp_extts_request : cty := type_in structs_ptp_clock_time "ptp_extts_request".
Definition ptp_perout_request : cty := type_in structs_ptp_clock_time "ptp_perout_request".
Definition ptp_sys_offset : cty :=
  Struct [("n_samples", uint); ("rsv", Arr 3 uint); ("ts", Arr 51 ptp_clock_time)].
Definition ptp_pin_desc : cty :=
  Struct [("name", Arr 64 char); ("index", uint); ("func", uint); ("chan", uint);
   ("rsv", Arr 5 uint)].
Definition ptp_extts_event : cty :=
  Struct [("t", ptp_clock_time); ("index", uint); ("flags", uint); ("rsv", Arr 2 uint)].
Definition ptp_clock_types : list (string * cty) :=
  (structs_ptp_clock_time ++ [("ptp_sys_offset", ptp_sys_offset); ("ptp_pin_desc",
   ptp_pin_desc); ("ptp_extts_event", ptp_extts_event)])%list.
Definition ptp_clock_ioctls : list command := [
  _IOR "PTP_CLOCK_GETCAPS" (chr "=") 1 ptp_clock_caps;
  _IOW "PTP_EXTTS_REQUEST" (chr "=") 2 ptp_extts_request;
  _IOW "PTP_PEROUT_REQUEST" (chr "=") 3 ptp_perout_request;
  _IOW "PTP_ENABLE_PPS" (chr "=") 4 int;
  _IOW "PTP_SYS_OFFSET" (chr "=") 5 ptp_sys_offset;
  _IOWR "PTP_PIN_GETFUNC" (chr "=") 6 ptp_pin_desc;
  _IOW "PTP_PIN_SETFUNC" (chr "=") 7 ptp_pin_desc].
End Ptp_clock.

(** ** [linux/qbt1000.h] *)

Module Qbt1000.
Definition MAX_NAME_SIZE : Z := 32.
Definition structs_qbt1000_app : list (string * cty) :=
  [
  ("qbt1000_app", Struct [("app_handle", ptr); ("name", Arr MAX_NAME_SIZE char);
   ("size", uint32_t); ("high_band_width", uint8_t)]);
  ("qbt1000_send_tz_cmd", Struct [("app_handle", ptr); ("req_buf", ptr);
   ("req_buf_len", uint32_t); ("rsp_buf", ptr); ("rsp_buf_len", uint32_t)]);
  ("qbt1000_erie_event", Struct [("buf", ptr); ("buf_len", uint32_t)]);
  ("qbt1000_set_finger_detect_key", Struct [("key_code", uint)]);
  ("qbt1000_configure_power_key", Struct [("enable", uint)])].
Definition qbt1000_types : list (string * cty) := structs_qbt1000_app.
End Qbt1000.

(** ** [linux/random.h] *)

Module Random.
Definition rand_pool_info : cty :=
  Struct [("entropy_count", int); ("buf_size", int); ("buf", Arr 0 __u32)].
Definition random_types : list (string * cty) := [("rand_pool_info", rand_pool_info)].
Definition random_ioctls : list command := [
  _IOR "RNDGETENTCNT" (chr "R") 0 int;
  _IOW "RNDADDTOENTCNT" (chr "R") 1 int;
  _IOR "RNDGETPOOL" (chr "R") 2 (Arr 2 int);
  _IOW "RNDADDENTROPY" (chr "R") 3 (Arr 2 int);
  _IO "RNDZAPENTCNT" (chr "R") 4;
  _IO "RNDCLEARPOOL" (chr "R") 6].
End Random.

(** ** [linux/rfkill.h] *)

Module Rfkill.
Definition rfkill_event : cty :=
  Packed [("idx", __u32); ("type", __u8); ("op", __u8); ("soft", __u8); ("hard", __u8)].
Definition rfkill_types : list (string * cty) := [("rfkill_event", rfkill_event)].
Definition rfkill_ioctls : list command := [
  _IO "RFKILL_IOCTL_NOINPUT" (chr "R") 1].
End Rfkill.

(** ** [linux/rtc.h] *)

Module Rtc.
Definition structs_rtc_time : list (string * cty) :=
  let rtc_time := Struct [("tm_sec", int); ("tm_min", int); ("tm_hour", int); ("tm_mday", int);
   ("tm_mon", int); ("tm_year", int); ("tm_wday", int); ("tm_yday", int); ("tm_isdst", int)] in
  [
  ("rtc_time", rtc_time);
  ("rtc_wkalrm", Struct [("enabled", uchar); ("pending", uchar); ("time", rtc_time)]);
  ("rtc_pll_info", Struct [("pll_ctrl", int); ("pll_value", int); ("pll_max", int);
   ("pll_min", int); ("pll_posmult", int); ("pll_negmult", int); ("pll_clock", long)])].
Definition rtc_time : cty := type_in structs_rtc_time "rtc_time".
Definition rtc_wkalrm : cty := type_in structs_rtc_time "rtc_wkalrm".
Definition rtc_pll_info : cty := type_in structs_rtc_time "rtc_pll_info".
Definition rtc_types : list (string * cty) := structs_rtc_time.
Definition rtc_ioctls : list command := [
  _IO "RTC_AIE_ON" (chr "p") 1;
  _IO "RTC_AIE_OFF" (chr "p") 2;
  _IO "RTC_UIE_ON" (chr "p") 3;
  _IO "RTC_UIE_OFF" (chr "p") 4;
  _IO "RTC_PIE_ON" (chr "p") 5;
  _IO "RTC_PIE_OFF" (chr "p") 6;
  _IO "RTC_WIE_ON" (chr "p") 15;
  _IO "RTC_WIE_OFF" (chr "p") 16;
  _IOW "RTC_ALM_SET" (chr "p") 7 rtc_time;
  _IOR "RTC_ALM_READ" (chr "p") 8 rtc_time;
  _IOR "RTC_RD_TIME" (chr "p") 9 rtc_time;
  _IOW "RTC_SET_TIME" (chr "p") 10 rtc_time;
  _IOR "RTC_IRQP_READ" (chr "p") 11 ulong;
  _IOW "RTC_IRQP_SET" (chr "p") 12 ulong;
  _IOR "RTC_EPOCH_READ" (chr "p") 13 ulong;
  _IOW "RTC_EPOCH_SET" (chr "p") 14 ulong;
  _IOW "RTC_WKALM_SET" (chr "p") 15 rtc_wkalrm;
  _IOR "RTC_WKALM_RD" (chr "p") 16 rtc_wkalrm;
  _IOR "RTC_PLL_GET" (chr "p") 17 rtc_pll_info;
  _IOW "RTC_PLL_SET" (chr "p") 18 rtc_pll_info;
  _IOR "RTC_VL_READ" (chr "p") 19 int;
  _IO "RTC_VL_CLR" (chr "p") 20].
End Rtc.

(** ** [linux/serial.h] *)

Module Serial.
Definition serial_struct : cty :=
  Struct [("type", int); ("line", int); ("port", uint); ("irq", int); ("flags", int);
   ("xmit_fifo_size", int); ("custom_divisor", int); ("baud_base", int); ("close_delay", ushort);
   ("io_type", char); ("reserved_char", Arr 1 char); ("hub6", int); ("closing_wait", ushort);
   ("closing_wait2", ushort); ("iomem_base", ptr); ("iomem_reg_shift", ushort);
   ("port_high", uint); ("iomap_base", ulong)].
Definition structs_serial_multiport_struct : list (string * cty) :=
  [
  ("serial_multiport_struct", Struct [("irq", int); ("port1", int); ("mask1", uchar);
   ("match1", uchar); ("port2", int); ("mask2", uchar); ("match2", uchar); ("port3", int);
   ("mask3", uchar); ("match3", uchar); ("port4", int); ("mask4", uchar); ("match4", uchar);
   ("port_monitor", int); ("reserved", Arr 32 int)]);
  ("serial_icounter_struct", Struct [("cts", int); ("dsr", int); ("rng", int); ("dcd", int);
   ("rx", int); ("tx", int); ("frame", int); ("overrun", int); ("parity", int); ("brk", int);
   ("buf_overrun", int); ("reserved", Arr 9 int)]);
  ("serial_rs485", Struct [("flags", __u32); ("delay_rts_before_send", __u32);
   ("delay_rts_after_send", __u32); ("padding", Arr 5 __u32)])].
Definition serial_types : list (string * cty) :=
  ([("serial_struct", serial_struct)] ++ structs_serial_multiport_struct)%list.
End Serial.

(** ** [linux/serio.h] *)

Module Serio.
Definition serio_ioctls : list command := [
  _IOW "SPIOCSTYPE" (chr "q") 1 ulong].
End Serio.

(** ** [linux/sonypi.h] *)

Module Sonypi.
Definition sonypi_ioctls : list command := [
  _IOR "SONYPI_IOCGBRT" (chr "v") 0 __u8;
  _IOW "SONYPI_IOCSBRT" (chr "v") 0 __u8;
  _IOR "SONYPI_IOCGBAT1CAP" (chr "v") 2 __u16;
  _IOR "SONYPI_IOCGBAT1REM" (chr "v") 3 __u16;
  _IOR "SONYPI_IOCGBAT2CAP" (chr "v") 4 __u16;
  _IOR "SONYPI_IOCGBAT2REM" (chr "v") 5 __u16;
  _IOR "SONYPI_IOCGBATFLAGS" (chr "v") 7 __u8;
  _IOR "SONYPI_IOCGBLUE" (chr "v") 8 __u8;
  _IOW "SONYPI_IOCSBLUE" (chr "v") 9 __u8;
  _IOR "SONYPI_IOCGFAN" (chr "v") 10 __u8;
  _IOW "SONYPI_IOCSFAN" (chr "v") 11 __u8;
  _IOR "SONYPI_IOCGTEMP" (chr "v") 12 __u8].
End Sonypi.

(** ** [linux/spcom.h] *)

Module Spcom.
Definition SPCOM_CHANNEL_NAME_SIZE : Z := 32.
Definition SPCOM_MAX_ION_BUF : Z := 4.
Definition structs_spcom_user_command : list (string * cty) :=
  [
  ("spcom_user_command", Packed [("cmd_id", enum); ("arg", uint32_t)]);
  ("spcom_send_command", Packed [("cmd_id", enum); ("timeout_msec", uint32_t);
   ("buf_size", uint32_t); ("buf", Arr 0 char)]);
  ("spcom_user_create_channel_command", Packed [("cmd_id", enum);
   ("ch_name", Arr SPCOM_CHANNEL_NAME_SIZE char)])].
Definition spcom_ion_info : cty := Struct [("fd", int32_t); ("buf_offset", uint32_t)].
Definition structs_spcom_ion_handle : list (string * cty) :=
  [
  ("spcom_ion_handle", Struct [("fd", int32_t)]);
  ("spcom_user_send_modified_command", Packed [("cmd_id", enum);
   ("ion_info", Arr SPCOM_MAX_ION_BUF spcom_ion_info); ("timeout_msec", uint32_t);
   ("buf_size", uint32_t); ("buf", Arr 0 char)])].
Definition spcom_types : list (string * cty) :=
  (structs_spcom_user_command ++ [("spcom_ion_info", spcom_ion_info)] ++
   structs_spcom_ion_handle)%list.
End Spcom.

(** ** [linux/spi/spidev.h] *)

Module Spi_spidev.
Definition spi_ioc_transfer : cty :=
  Struct [("tx_buf", __u64); ("rx_buf", __u64); ("len", __u32); ("speed_hz", __u32);
   ("delay_usecs", __u16); ("bits_per_word", __u8); ("cs_change", __u8); ("tx_nbits", __u8);
   ("rx_nbits", __u8); ("pad", __u16)].
Definition spi_spidev_types : list (string * cty) := [("spi_ioc_transfer", spi_ioc_transfer)].
Definition spi_spidev_ioctls : list command := [
  _IOR "SPI_IOC_RD_MODE" (chr "k") 1 __u8;
  _IOW "SPI_IOC_WR_MODE" (chr "k") 1 __u8;
  _IOR "SPI_IOC_RD_LSB_FIRST" (chr "k") 2 __u8;
  _IOW "SPI_IOC_WR_LSB_FIRST" (chr "k") 2 __u8;
  _IOR "SPI_IOC_RD_BITS_PER_WORD" (chr "k") 3 __u8;
  _IOW "SPI_IOC_WR_BITS_PER_WORD" (chr "k") 3 __u8;
  _IOR "SPI_IOC_RD_MAX_SPEED_HZ" (chr "k") 4 __u32;
  _IOW "SPI_IOC_WR_MAX_SPEED_HZ" (chr "k") 4 __u32;
  _IOR "SPI_IOC_RD_MODE32" (chr "k") 5 __u32;
  _IOW "SPI_IOC_WR_MODE32" (chr "k") 5 __u32].
End Spi_spidev.

(** ** [linux/synclink.h] *)

Module Synclink.
Definition _MGSL_PARAMS : cty :=
  Struct [("mode", ulong); ("loopback", uchar); ("flags", ushort); ("encoding", uchar);
   ("clock_speed", ulong); ("addr_filter", uchar); ("crc_type", ushort);
   ("preamble_length", uchar); ("preamble", uchar); ("data_rate", ulong); ("data_bits", uchar);
   ("stop_bits", uchar); ("parity", uchar)].
Definition MGSL_PARAMS : cty := _MGSL_PARAMS.
Definition PMGSL_PARAMS : cty := ptr.
Definition structs_mgsl_icount : list (string * cty) :=
  [
  ("mgsl_icount", Struct [("cts", __u32); ("dsr", __u32); ("rng", __u32); ("dcd", __u32);
   ("tx", __u32); ("rx", __u32); ("frame", __u32); ("parity", __u32); ("overrun", __u32);
   ("brk", __u32); ("buf_overrun", __u32); ("txok", __u32); ("txunder", __u32);
   ("txabort", __u32); ("txtimeout", __u32); ("rxshort", __u32); ("rxlong", __u32);
   ("rxabort", __u32); ("rxover", __u32); ("rxcrc", __u32); ("rxok", __u32); ("exithunt", __u32);
   ("rxidle", __u32)]);
  ("gpio_desc", Struct [("state", __u32); ("smask", __u32); ("dir", __u32); ("dmask", __u32)])].
Definition gpio_desc : cty := type_in structs_mgsl_icount "gpio_desc".
Definition synclink_types : list (string * cty) :=
  ([("_MGSL_PARAMS", _MGSL_PARAMS); ("MGSL_PARAMS", MGSL_PARAMS); ("PMGSL_PARAMS",
   PMGSL_PARAMS)] ++ structs_mgsl_icount)%list.
Definition synclink_ioctls : list command := [
  _IOW "MGSL_IOCSPARAMS" (chr "m") 0 _MGSL_PARAMS;
  _IOR "MGSL_IOCGPARAMS" (chr "m") 1 _MGSL_PARAMS;
  _IO "MGSL_IOCSTXIDLE" (chr "m") 2;
  _IO "MGSL_IOCGTXIDLE" (chr "m") 3;
  _IO "MGSL_IOCTXENABLE" (chr "m") 4;
  _IO "MGSL_IOCRXENABLE" (chr "m") 5;
  _IO "MGSL_IOCTXABORT" (chr "m") 6;
  _IO "MGSL_IOCGSTATS" (chr "m") 7;
  _IOWR "MGSL_IOCWAITEVENT" (chr "m") 8 int;
  _IO "MGSL_IOCCLRMODCOUNT" (chr "m") 15;
  _IO "MGSL_IOCLOOPTXDONE" (chr "m") 9;
  _IO "MGSL_IOCSIF" (chr "m") 10;
  _IO "MGSL_IOCGIF" (chr "m") 11;
  _IOW "MGSL_IOCSGPIO" (chr "m") 16 gpio_desc;
  _IOR "MGSL_IOCGGPIO" (chr "m") 17 gpio_desc;
  _IOWR "MGSL_IOCWAITGPIO" (chr "m") 18 gpio_desc;
  _IO "MGSL_IOCSXSYNC" (chr "m") 19;
  _IO "MGSL_IOCGXSYNC" (chr "m") 20;
  _IO "MGSL_IOCSXCTRL" (chr "m") 21;
  _IO "MGSL_IOCGXCTRL" (chr "m") 22].
End Synclink.

(** ** [linux/tiocl.h] *)

Module Tiocl.
Definition tiocl_selection : cty :=
  Struct [("xs", ushort); ("ys", ushort); ("xe", ushort); ("ye", ushort); ("sel_mode", ushort)].
Definition tiocl_types : list (string * cty) := [("tiocl_selection", tiocl_selection)].
End Tiocl.

(** ** [linux/toshiba.h] *)

(** The attribute [packed] of the later members moves none of them. *)
Module Toshiba.
Definition SMMRegisters : cty :=
  Struct [("eax", uint); ("ebx", uint); ("ecx", uint); ("edx", uint); ("esi", uint); ("edi", uint)].
Definition toshiba_types : list (string * cty) := [("SMMRegisters", SMMRegisters)].
Definition toshiba_ioctls : list command := [
  _IOWR "TOSH_SMM" (chr "t") 0x90 SMMRegisters;
  _IOWR "TOSHIBA_ACPI_SCI" (chr "t") 0x91 SMMRegisters].
End Toshiba.

(** ** [linux/uhid.h] *)

Module Uhid.
Definition UHID_DATA_MAX : Z := 4096.
Definition uhid_create2_req : cty :=
  Packed [("name", Arr 128 __u8); ("phys", Arr 64 __u8); ("uniq", Arr 64 __u8);
   ("rd_size", __u16); ("bus", __u16); ("vendor", __u32); ("product", __u32); ("version", __u32);
   ("country", __u32); ("rd_data", Arr 4096 __u8)].
Definition uhid_start_req : cty := Struct [("dev_flags", __u64)].
Definition structs_uhid_input2_req : list (string * cty) :=
  [
  ("uhid_input2_req", Packed [("size", __u16); ("data", Arr UHID_DATA_MAX __u8)]);
  ("uhid_output_req", Packed [("data", Arr UHID_DATA_MAX __u8); ("size", __u16); ("rtype", __u8)]);
  ("uhid_get_report_req", Packed [("id", __u32); ("rnum", __u8); ("rtype", __u8)]);
  ("uhid_get_report_reply_req", Packed [("id", __u32); ("err", __u16); ("size", __u16);
   ("data", Arr UHID_DATA_MAX __u8)]);
  ("uhid_set_report_req", Packed [("id", __u32); ("rnum", __u8); ("rtype", __u8);
   ("size", __u16); ("data", Arr UHID_DATA_MAX __u8)]);
  ("uhid_set_report_reply_req", Packed [("id", __u32); ("err", __u16)])].
Definition uhid_input2_req : cty := type_in structs_uhid_input2_req "uhid_input2_req".
Definition uhid_output_req : cty := type_in structs_uhid_input2_req "uhid_output_req".
Definition uhid_get_report_req : cty := type_in structs_uhid_input2_req "uhid_get_report_req".
Definition uhid_get_report_reply_req : cty := type_in structs_uhid_input2_req "uhid_get_report_reply_req".
Definition uhid_set_report_req : cty := type_in structs_uhid_input2_req "uhid_set_report_req".
Definition uhid_set_report_reply_req : cty := type_in structs_uhid_input2_req "uhid_set_report_reply_req".
Definition structs_uhid_create_req : list (string * cty) :=
  let uhid_create_req := Packed [("name", Arr 128 __u8); ("phys", Arr 64 __u8);
   ("uniq", Arr 64 __u8); ("rd_data", ptr); ("rd_size", __u16); ("bus", __u16);
   ("vendor", __u32); ("product", __u32); ("version", __u32); ("country", __u32)] in
  let uhid_input_req := Packed [("data", Arr UHID_DATA_MAX __u8); ("size", __u16)] in
  let uhid_output_ev_req := Packed [("type", __u16); ("code", __u16); ("value", __s32)] in
  let uhid_feature_req := Packed [("id", __u32); ("rnum", __u8); ("rtype", __u8)] in
  let uhid_feature_answer_req := Packed [("id", __u32); ("err", __u16); ("size", __u16);
   ("data", Arr UHID_DATA_MAX __u8)] in
  [
  ("uhid_create_req", uhid_create_req);
  ("uhid_input_req", uhid_input_req);
  ("uhid_output_ev_req", uhid_output_ev_req);
  ("uhid_feature_req", uhid_feature_req);
  ("uhid_feature_answer_req", uhid_feature_answer_req);
  ("uhid_event", Packed [("type", __u32); ("u", Union [("create", uhid_create_req);
   ("input", uhid_input_req); ("output", uhid_output_req); ("output_ev", uhid_output_ev_req);
   ("feature", uhid_feature_req); ("get_report", uhid_get_report_req);
   ("feature_answer", uhid_feature_answer_req); ("get_report_reply", uhid_get_report_reply_req);
   ("create2", uhid_create2_req); ("input2", uhid_input2_req);
   ("set_report", uhid_set_report_req); ("set_report_reply", uhid_set_report_reply_req);
   ("start", uhid_start_req)])])].
Definition uhid_types : list (string * cty) :=
  ([("uhid_create2_req", uhid_create2_req); ("uhid_start_req", uhid_start_req)] ++
   structs_uhid_input2_req ++ structs_uhid_create_req)%list.
End Uhid.

(** ** [linux/uinput.h] *)

Module Uinput.
Definition UINPUT_MAX_NAME_SIZE : Z := 80.
Definition structs_uinput_ff_upload : list (string * cty) :=
  [
  ("uinput_ff_upload", Struct [("request_id", __u32); ("retval", __s32);
   ("effect", Input.ff_effect); ("old", Input.ff_effect)]);
  ("uinput_ff_erase", Struct [("request_id", __u32); ("retval", __s32); ("effect_id", __u32)])].
Definition uinput_ff_upload : cty := type_in structs_uinput_ff_upload "uinput_ff_upload".
Definition uinput_ff_erase : cty := type_in structs_uinput_ff_upload "uinput_ff_erase".
Definition uinput_user_dev : cty :=
  Struct [("name", Arr UINPUT_MAX_NAME_SIZE char); ("id", Input.input_id);
   ("ff_effects_max", __u32); ("absmax", Arr 64 __s32); ("absmin", Arr 64 __s32);
   ("absfuzz", Arr 64 __s32); ("absflat", Arr 64 __s32)].
Definition uinput_types : list (string * cty) :=
  (structs_uinput_ff_upload ++ [("uinput_user_dev", uinput_user_dev)])%list.
Definition uinput_ioctls_1 : list command := [
  _IO "UI_DEV_CREATE" (chr "U") 1;
  _IO "UI_DEV_DESTROY" (chr "U") 2;
  _IOW "UI_SET_EVBIT" (chr "U") 100 int;
  _IOW "UI_SET_KEYBIT" (chr "U") 101 int;
  _IOW "UI_SET_RELBIT" (chr "U") 102 int;
  _IOW "UI_SET_ABSBIT" (chr "U") 103 int;
  _IOW "UI_SET_MSCBIT" (chr "U") 104 int;
  _IOW "UI_SET_LEDBIT" (chr "U") 105 int;
  _IOW "UI_SET_SNDBIT" (chr "U") 106 int;
  _IOW "UI_SET_FFBIT" (chr "U") 107 int;
  _IOW "UI_SET_PHYS" (chr "U") 108 ptr;
  _IOW "UI_SET_SWBIT" (chr "U") 109 int;
  _IOW "UI_SET_PROPBIT" (chr "U") 110 int;
  _IOWR "UI_BEGIN_FF_UPLOAD" (chr "U") 200 uinput_ff_upload;
  _IOW "UI_END_FF_UPLOAD" (chr "U") 201 uinput_ff_upload;
  _IOWR "UI_BEGIN_FF_ERASE" (chr "U") 202 uinput_ff_erase;
  _IOW "UI_END_FF_ERASE" (chr "U") 203 uinput_ff_erase].
Definition uinput_ioctls_2 : list command := [
  _IOR "UI_GET_VERSION" (chr "U") 45 uint].
Definition uinput_ioctls : list command :=
  (uinput_ioctls_1 ++ uinput_ioctls_2)%list.
End Uinput.

(** ** [linux/usbdevice_fs.h] *)

Module Usbdevice_fs.
Definition structs_usbdevfs_ctrltransfer : list (string * cty) :=
  [
  ("usbdevfs_ctrltransfer", Struct [("bRequestType", __u8); ("bRequest", __u8);
   ("wValue", __u16); ("wIndex", __u16); ("wLength", __u16); ("timeout", __u32); ("data", ptr)]);
  ("usbdevfs_bulktransfer", Struct [("ep", uint); ("len", uint); ("timeout", uint); ("data", ptr)]);
  ("usbdevfs_setinterface", Struct [("interface", uint); ("altsetting", uint)]);
  ("usbdevfs_disconnectsignal", Struct [("signr", uint); ("context", ptr)])].
Definition usbdevfs_ctrltransfer : cty := type_in structs_usbdevfs_ctrltransfer "usbdevfs_ctrltransfer".
Definition usbdevfs_bulktransfer : cty := type_in structs_usbdevfs_ctrltransfer "usbdevfs_bulktransfer".
Definition usbdevfs_setinterface : cty := type_in structs_usbdevfs_ctrltransfer "usbdevfs_setinterface".
Definition usbdevfs_disconnectsignal : cty := type_in structs_usbdevfs_ctrltransfer "usbdevfs_disconnectsignal".
Definition structs_usbdevfs_getdriver : list (string * cty) :=
  [
  ("usbdevfs_getdriver", Struct [("interface", uint); ("driver", Arr 256 char)]);
  ("usbdevfs_connectinfo", Struct [("devnum", uint); ("slow", uchar)])].
Definition usbdevfs_getdriver : cty := type_in structs_usbdevfs_getdriver "usbdevfs_getdriver".
Definition usbdevfs_connectinfo : cty := type_in structs_usbdevfs_getdriver "usbdevfs_connectinfo".
Definition structs_usbdevfs_iso_packet_desc : list (string * cty) :=
  let usbdevfs_iso_packet_desc := Struct [("length", uint); ("actual_length", uint);
   ("status", uint)] in
  [
  ("usbdevfs_iso_packet_desc", usbdevfs_iso_packet_desc);
  ("usbdevfs_urb", Struct [("type", uchar); ("endpoint", uchar); ("status", int);
   ("flags", uint); ("buffer", ptr); ("buffer_length", int); ("actual_length", int);
   ("start_frame", int); ("", Union [("number_of_packets", int); ("stream_id", uint)]);
   ("error_count", int); ("signr", uint); ("usercontext", ptr);
   ("iso_frame_desc", Arr 0 usbdevfs_iso_packet_desc)]);
  ("usbdevfs_ioctl", Struct [("ifno", int); ("ioctl_code", int); ("data", ptr)]);
  ("usbdevfs_hub_portinfo", Struct [("nports", char); ("port", Arr 127 char)])].
Definition usbdevfs_urb : cty := type_in structs_usbdevfs_iso_packet_desc "usbdevfs_urb".
Definition usbdevfs_ioctl : cty := type_in structs_usbdevfs_iso_packet_desc "usbdevfs_ioctl".
Definition usbdevfs_hub_portinfo : cty := type_in structs_usbdevfs_iso_packet_desc "usbdevfs_hub_portinfo".
Definition structs_usbdevfs_disconnect_claim : list (string * cty) :=
  [
  ("usbdevfs_disconnect_claim", Struct [("interface", uint); ("flags", uint);
   ("driver", Arr 256 char)]);
  ("usbdevfs_streams", Struct [("num_streams", uint); ("num_eps", uint); ("eps", Arr 0 uchar)])].
Definition usbdevfs_disconnect_claim : cty := type_in structs_usbdevfs_disconnect_claim "usbdevfs_disconnect_claim".
Definition usbdevfs_streams : cty := type_in structs_usbdevfs_disconnect_claim "usbdevfs_streams".
Definition usbdevice_fs_types : list (string * cty) :=
  (structs_usbdevfs_ctrltransfer ++ structs_usbdevfs_getdriver ++
   structs_usbdevfs_iso_packet_desc ++ structs_usbdevfs_disconnect_claim)%list.
Definition usbdevice_fs_ioctls : list command := [
  _IOWR "USBDEVFS_CONTROL" (chr "U") 0 usbdevfs_ctrltransfer;
  _IOWR "USBDEVFS_BULK" (chr "U") 2 usbdevfs_bulktransfer;
  _IOR "USBDEVFS_RESETEP" (chr "U") 3 uint;
  _IOR "USBDEVFS_SETINTERFACE" (chr "U") 4 usbdevfs_setinterface;
  _IOR "USBDEVFS_SETCONFIGURATION" (chr "U") 5 uint;
  _IOW "USBDEVFS_GETDRIVER" (chr "U") 8 usbdevfs_getdriver;
  _IOR "USBDEVFS_SUBMITURB" (chr "U") 10 usbdevfs_urb;
  _IO "USBDEVFS_DISCARDURB" (chr "U") 11;
  _IOW "USBDEVFS_REAPURB" (chr "U") 12 ptr;
  _IOW "USBDEVFS_REAPURB32" (chr "U") 12 __u32;
  _IOW "USBDEVFS_REAPURBNDELAY" (chr "U") 13 ptr;
  _IOW "USBDEVFS_REAPURBNDELAY32" (chr "U") 13 __u32;
  _IOR "USBDEVFS_DISCSIGNAL" (chr "U") 14 usbdevfs_disconnectsignal;
  _IOR "USBDEVFS_CLAIMINTERFACE" (chr "U") 15 uint;
  _IOR "USBDEVFS_RELEASEINTERFACE" (chr "U") 16 uint;
  _IOW "USBDEVFS_CONNECTINFO" (chr "U") 17 usbdevfs_connectinfo;
  _IOWR "USBDEVFS_IOCTL" (chr "U") 18 usbdevfs_ioctl;
  _IOR "USBDEVFS_HUB_PORTINFO" (chr "U") 19 usbdevfs_hub_portinfo;
  _IO "USBDEVFS_RESET" (chr "U") 20;
  _IOR "USBDEVFS_CLEAR_HALT" (chr "U") 21 uint;
  _IO "USBDEVFS_DISCONNECT" (chr "U") 22;
  _IO "USBDEVFS_CONNECT" (chr "U") 23;
  _IOR "USBDEVFS_CLAIM_PORT" (chr "U") 24 uint;
  _IOR "USBDEVFS_RELEASE_PORT" (chr "U") 25 uint;
  _IOR "USBDEVFS_GET_CAPABILITIES" (chr "U") 26 __u32;
  _IOR "USBDEVFS_DISCONNECT_CLAIM" (chr "U") 27 usbdevfs_disconnect_claim;
  _IOR "USBDEVFS_ALLOC_STREAMS" (chr "U") 28 usbdevfs_streams;
  _IOR "USBDEVFS_FREE_STREAMS" (chr "U") 29 usbdevfs_streams].
End Usbdevice_fs.

(** ** [linux/vt.h] *)

Module Vt.
Definition vt_mode : cty :=
  Struct [("mode", char); ("waitv", char); ("relsig", short); ("acqsig", short); ("frsig", short)].
Definition vt_stat : cty :=
  Struct [("v_active", ushort); ("v_signal", ushort); ("v_state", ushort)].
Definition vt_sizes : cty :=
  Struct [("v_rows", ushort); ("v_cols", ushort); ("v_scrollsize", ushort)].
Definition vt_consize : cty :=
  Struct [("v_rows", ushort); ("v_cols", ushort); ("v_vlin", ushort); ("v_clin", ushort);
   ("v_vcol", ushort); ("v_ccol", ushort)].
Definition vt_event : cty :=
  Struct [("event", uint); ("oldev", uint); ("newev", uint); ("pad", Arr 4 uint)].
Definition vt_setactivate : cty := Struct [("console", uint); ("mode", vt_mode)].
Definition vt_types : list (string * cty) :=
  ([("vt_mode", vt_mode); ("vt_stat", vt_stat); ("vt_sizes", vt_sizes); ("vt_consize",
   vt_consize); ("vt_event", vt_event); ("vt_setactivate", vt_setactivate)])%list.
End Vt.

(** ** [linux/watchdog.h] *)

Module Watchdog.
Definition watchdog_info : cty :=
  Struct [("options", __u32); ("firmware_version", __u32); ("identity", Arr 32 __u8)].
Definition watchdog_types : list (string * cty) := [("watchdog_info", watchdog_info)].
Definition watchdog_ioctls : list command := [
  _IOR "WDIOC_GETSUPPORT" (chr "W") 0 watchdog_info;
  _IOR "WDIOC_GETSTATUS" (chr "W") 1 int;
  _IOR "WDIOC_GETBOOTSTATUS" (chr "W") 2 int;
  _IOR "WDIOC_GETTEMP" (chr "W") 3 int;
  _IOR "WDIOC_SETOPTIONS" (chr "W") 4 int;
  _IOR "WDIOC_KEEPALIVE" (chr "W") 5 int;
  _IOWR "WDIOC_SETTIMEOUT" (chr "W") 6 int;
  _IOR "WDIOC_GETTIMEOUT" (chr "W") 7 int;
  _IOWR "WDIOC_SETPRETIMEOUT" (chr "W") 8 int;
  _IOR "WDIOC_GETPRETIMEOUT" (chr "W") 9 int;
  _IOR "WDIOC_GETTIMELEFT" (chr "W") 10 int].
End Watchdog.

(** ** [linux/zorro.h] *)

Module Zorro.
Definition zorro_id : cty := __u32.
Definition structs_Node : list (string * cty) :=
  [
  ("Node", Packed [("ln_Succ", __be32); ("ln_Pred", __be32); ("ln_Type", __u8); ("ln_Pri", __s8);
   ("ln_Name", __be32)]);
  ("ExpansionRom", Packed [("er_Type", __u8); ("er_Product", __u8); ("er_Flags", __u8);
   ("er_Reserved03", __u8); ("er_Manufacturer", __be16); ("er_SerialNumber", __be32);
   ("er_InitDiagVec", __be16); ("er_Reserved0c", __u8); ("er_Reserved0d", __u8);
   ("er_Reserved0e", __u8); ("er_Reserved0f", __u8)])].
Definition Node : cty := type_in structs_Node "Node".
Definition ExpansionRom : cty := type_in structs_Node "ExpansionRom".
Definition ConfigDev : cty :=
  Packed [("cd_Node", Node); ("cd_Flags", __u8); ("cd_Pad", __u8); ("cd_Rom", ExpansionRom);
   ("cd_BoardAddr", __be32); ("cd_BoardSize", __be32); ("cd_SlotAddr", __be16);
   ("cd_SlotSize", __be16); ("cd_Driver", __be32); ("cd_NextCD", __be32);
   ("cd_Unused", Arr 4 __be32)].
Definition zorro_types : list (string * cty) :=
  ([("zorro_id", zorro_id)] ++ structs_Node ++ [("ConfigDev", ConfigDev)])%list.
End Zorro.
