(* ===== verification/Abi.v ===== *)
(** * The ioctl interface as a whole

    The commands and types of all the headers, one table per header, and what
    holds of them: commands are encoded without loss, numbers are distinct within
    a header, where a 32-bit and a 64-bit program use the same number they agree
    on the layout of the argument, and structures have the sizes and the layouts
    their headers promise. Every statement names its exceptions.

    The tables have every command whose macro takes no parameter and whose argument
    has a type that the headers declare, except the commands in a comment or behind
    [#if 0]. So these are not in them: macros with a parameter
    ([EVIOCGNAME(len)], [EVIOCGABS(abs)], [SPI_IOC_MESSAGE(N)]); arguments of
    types that only the kernel or another architecture declares (the [compat]
    types, [xen_pfn_t] and [domid_t], most registers and tables of [kvm.h]) or
    nobody ([drm_r128_clear2_t], [btrfs_ioctl_defrag_range_args],
    [BTRFS_LABEL_SIZE], [snd_seq_queue_owner], [snd_seq_queue_sync]); KVM_GET_REGS
    and KVM_SET_REGS, whose argument has 128-bit integers and exists on 64-bit Arm
    only; and the obsolete commands of [ppdev.h], made by a macro that nobody
    defines. *)
From S2P Require Import Prelude.
From S2P Require Import Memory.
From S2P Require Import Netlink.
From S2P Require Import Vring.
From S2P Require Import CLayout.
From S2P Require Import Ioctl.
From S2P Require Import AbiBase.
From S2P Require Import AbiMedia.
From S2P Require Import AbiDisplay.
From S2P Require Import AbiCamera.
From S2P Require Import AbiDrm.
From S2P Require Import AbiSound.
From S2P Require Import AbiStorage.
From S2P Require Import AbiSystem.
From S2P Require Import AbiNet.
From S2P Require Import AbiKernel.
From S2P Require Import AbiProto.
From S2P Require Import AbiDevices.
#[local] Open Scope string_scope.

Definition abiBase_tables : list (string * list command) := [
  ("linux/dn.h", Dn.dn_ioctls);
  ("linux/mhi.h", Mhi.mhi_ioctls)].
Definition abiMedia_tables : list (string * list command) := [
  ("linux/am437x-vpfe.h", Am437x_vpfe.am437x_vpfe_ioctls);
  ("linux/cec.h", Cec.cec_ioctls);
  ("linux/dvb/audio.h", Dvb_audio.dvb_audio_ioctls);
  ("linux/dvb/ca.h", Dvb_ca.dvb_ca_ioctls);
  ("linux/dvb/dmx.h", Dvb_dmx.dvb_dmx_ioctls);
  ("linux/dvb/frontend.h", Dvb_frontend.dvb_frontend_ioctls);
  ("linux/dvb/net.h", Dvb_net.dvb_net_ioctls);
  ("linux/dvb/osd.h", Dvb_osd.dvb_osd_ioctls);
  ("linux/dvb/video.h", Dvb_video.dvb_video_ioctls);
  ("linux/videodev2.h", Videodev2.videodev2_ioctls);
  ("linux/ivtv.h", Ivtv.ivtv_ioctls);
  ("linux/ivtvfb.h", Ivtvfb.ivtvfb_ioctls);
  ("linux/media.h", Media.media_ioctls);
  ("linux/meye.h", Meye.meye_ioctls);
  ("linux/msm_vidc_dec.h", Msm_vidc_dec.msm_vidc_dec_ioctls);
  ("linux/msm_vidc_enc.h", Msm_vidc_enc.msm_vidc_enc_ioctls);
  ("linux/omap3isp.h", Omap3isp.omap3isp_ioctls);
  ("linux/uvcvideo.h", Uvcvideo.uvcvideo_ioctls);
  ("linux/v4l2-subdev.h", V4l2_subdev.v4l2_subdev_ioctls)].
Definition abiDisplay_tables : list (string * list command) := [
  ("linux/agpgart.h", Agpgart.agpgart_ioctls);
  ("linux/android_pmem.h", Android_pmem.android_pmem_ioctls);
  ("linux/arcfb.h", Arcfb.arcfb_ioctls);
  ("linux/ashmem.h", Ashmem.ashmem_ioctls);
  ("linux/fb.h", Fb.fb_ioctls);
  ("linux/ion.h", Ion.ion_ioctls);
  ("linux/ion_test.h", Ion_test.ion_test_ioctls);
  ("linux/matroxfb.h", Matroxfb.matroxfb_ioctls);
  ("linux/msm_mdp.h", Msm_mdp.msm_mdp_ioctls);
  ("linux/msm_mdp_ext.h", Msm_mdp_ext.msm_mdp_ext_ioctls);
  ("linux/mdss_rotator.h", Mdss_rotator.mdss_rotator_ioctls);
  ("linux/msm_ion.h", Msm_ion.msm_ion_ioctls);
  ("linux/msm_kgsl.h", Msm_kgsl.msm_kgsl_ioctls);
  ("linux/msm_rotator.h", Msm_rotator.msm_rotator_ioctls);
  ("linux/omapfb.h", Omapfb.omapfb_ioctls);
  ("linux/oneshot_sync.h", Oneshot_sync.oneshot_sync_ioctls);
  ("linux/radeonfb.h", Radeonfb.radeonfb_ioctls);
  ("linux/sw_sync.h", Sw_sync.sw_sync_ioctls);
  ("linux/sync.h", Sync.sync_ioctls);
  ("video/sisfb.h", Video_sisfb.video_sisfb_ioctls)].
Definition abiCamera_tables : list (string * list command) := [
  ("media/ais/msm_ais.h", Media_ais_msm_ais.media_ais_msm_ais_ioctls);
  ("media/ais/msm_ais_buf_mgr.h", Media_ais_msm_ais_buf_mgr.media_ais_msm_ais_buf_mgr_ioctls);
  ("media/ais/msm_ais_isp.h", Media_ais_msm_ais_isp.media_ais_msm_ais_isp_ioctls);
  ("media/ais/msm_ais_ispif.h", Media_ais_msm_ais_ispif.media_ais_msm_ais_ispif_ioctls);
  ("media/ais/msm_ais_mgr.h", Media_ais_msm_ais_mgr.media_ais_msm_ais_mgr_ioctls);
  ("media/ais/msm_ais_sensor.h", Media_ais_msm_ais_sensor.media_ais_msm_ais_sensor_ioctls);
  ("media/msm_ba.h", Media_msm_ba.media_msm_ba_ioctls);
  ("media/msm_cam_sensor.h", Media_msm_cam_sensor.media_msm_cam_sensor_ioctls);
  ("media/msm_camera.h", Media_msm_camera.media_msm_camera_ioctls);
  ("media/msm_fd.h", Media_msm_fd.media_msm_fd_ioctls);
  ("media/msm_gemini.h", Media_msm_gemini.media_msm_gemini_ioctls);
  ("media/msm_gestures.h", Media_msm_gestures.media_msm_gestures_ioctls);
  ("media/msm_jpeg.h", Media_msm_jpeg.media_msm_jpeg_ioctls);
  ("media/msm_mercury.h", Media_msm_mercury.media_msm_mercury_ioctls);
  ("media/msm_sde_rotator.h", Media_msm_sde_rotator.media_msm_sde_rotator_ioctls);
  ("media/msm_vpu.h", Media_msm_vpu.media_msm_vpu_ioctls);
  ("media/msmb_camera.h", Media_msmb_camera.media_msmb_camera_ioctls);
  ("media/msmb_generic_buf_mgr.h", Media_msmb_generic_buf_mgr.media_msmb_generic_buf_mgr_ioctls);
  ("media/msmb_isp.h", Media_msmb_isp.media_msmb_isp_ioctls);
  ("media/msmb_ispif.h", Media_msmb_ispif.media_msmb_ispif_ioctls);
  ("media/msmb_pproc.h", Media_msmb_pproc.media_msmb_pproc_ioctls)].
Definition abiDrm_tables : list (string * list command) := [
  ("drm/drm.h", Drm_drm.drm_drm_ioctls);
  ("drm/exynos_drm.h", Drm_exynos_drm.drm_exynos_drm_ioctls);
  ("drm/i810_drm.h", Drm_i810_drm.drm_i810_drm_ioctls);
  ("drm/i915_drm.h", Drm_i915_drm.drm_i915_drm_ioctls);
  ("drm/mga_drm.h", Drm_mga_drm.drm_mga_drm_ioctls);
  ("drm/msm_drm.h", Drm_msm_drm.drm_msm_drm_ioctls);
  ("drm/nouveau_drm.h", Drm_nouveau_drm.drm_nouveau_drm_ioctls);
  ("drm/qxl_drm.h", Drm_qxl_drm.drm_qxl_drm_ioctls);
  ("drm/r128_drm.h", Drm_r128_drm.drm_r128_drm_ioctls);
  ("drm/radeon_drm.h", Drm_radeon_drm.drm_radeon_drm_ioctls);
  ("drm/savage_drm.h", Drm_savage_drm.drm_savage_drm_ioctls);
  ("drm/sis_drm.h", Drm_sis_drm.drm_sis_drm_ioctls);
  ("drm/tegra_drm.h", Drm_tegra_drm.drm_tegra_drm_ioctls);
  ("drm/via_drm.h", Drm_via_drm.drm_via_drm_ioctls);
  ("drm/virtgpu_drm.h", Drm_virtgpu_drm.drm_virtgpu_drm_ioctls)].
Definition abiSound_tables : list (string * list command) := [
  ("linux/avtimer.h", Avtimer.avtimer_ioctls);
  ("linux/ixjuser.h", Ixjuser.ixjuser_ioctls);
  ("linux/msm_adsp.h", Msm_adsp.msm_adsp_ioctls);
  ("linux/msm_audio.h", Msm_audio.msm_audio_ioctls);
  ("linux/msm_audio_aac.h", Msm_audio_aac.msm_audio_aac_ioctls);
  ("linux/msm_audio_ac3.h", Msm_audio_ac3.msm_audio_ac3_ioctls);
  ("linux/msm_audio_alac.h", Msm_audio_alac.msm_audio_alac_ioctls);
  ("linux/msm_audio_amrnb.h", Msm_audio_amrnb.msm_audio_amrnb_ioctls);
  ("linux/msm_audio_amrwb.h", Msm_audio_amrwb.msm_audio_amrwb_ioctls);
  ("linux/msm_audio_amrwbplus.h", Msm_audio_amrwbplus.msm_audio_amrwbplus_ioctls);
  ("linux/msm_audio_anc.h", Msm_audio_anc.msm_audio_anc_ioctls);
  ("linux/msm_audio_ape.h", Msm_audio_ape.msm_audio_ape_ioctls);
  ("linux/msm_audio_calibration.h", Msm_audio_calibration.msm_audio_calibration_ioctls);
  ("linux/msm_audio_g711.h", Msm_audio_g711.msm_audio_g711_ioctls);
  ("linux/msm_audio_g711_dec.h", Msm_audio_g711_dec.msm_audio_g711_dec_ioctls);
  ("linux/msm_audio_mvs.h", Msm_audio_mvs.msm_audio_mvs_ioctls);
  ("linux/msm_audio_qcp.h", Msm_audio_qcp.msm_audio_qcp_ioctls);
  ("linux/msm_audio_sbc.h", Msm_audio_sbc.msm_audio_sbc_ioctls);
  ("linux/msm_audio_voicememo.h", Msm_audio_voicememo.msm_audio_voicememo_ioctls);
  ("linux/msm_audio_wma.h", Msm_audio_wma.msm_audio_wma_ioctls);
  ("linux/msm_audio_wmapro.h", Msm_audio_wmapro.msm_audio_wmapro_ioctls);
  ("linux/telephony.h", Telephony.telephony_ioctls);
  ("sound/asound.h", Sound_asound.sound_asound_ioctls);
  ("sound/asequencer.h", Sound_asequencer.sound_asequencer_ioctls);
  ("sound/asound_fm.h", Sound_asound_fm.sound_asound_fm_ioctls);
  ("sound/audio_slimslave.h", Sound_audio_slimslave.sound_audio_slimslave_ioctls);
  ("sound/compress_offload.h", Sound_compress_offload.sound_compress_offload_ioctls);
  ("sound/devdep_params.h", Sound_devdep_params.sound_devdep_params_ioctls);
  ("sound/emu10k1.h", Sound_emu10k1.sound_emu10k1_ioctls);
  ("sound/firewire.h", Sound_firewire.sound_firewire_ioctls);
  ("sound/hdsp.h", Sound_hdsp.sound_hdsp_ioctls);
  ("sound/hdspm.h", Sound_hdspm.sound_hdspm_ioctls);
  ("sound/lsm_params.h", Sound_lsm_params.sound_lsm_params_ioctls);
  ("sound/msmcal-hwdep.h", Sound_msmcal_hwdep.sound_msmcal_hwdep_ioctls);
  ("sound/sb16_csp.h", Sound_sb16_csp.sound_sb16_csp_ioctls);
  ("sound/sfnt_info.h", Sound_sfnt_info.sound_sfnt_info_ioctls);
  ("sound/voice_params.h", Sound_voice_params.sound_voice_params_ioctls)].
Definition abiStorage_tables : list (string * list command) := [
  ("linux/auto_fs.h", Auto_fs.auto_fs_ioctls);
  ("linux/auto_fs4.h", Auto_fs4.auto_fs4_ioctls);
  ("linux/blkpg.h", Blkpg.blkpg_ioctls);
  ("linux/btrfs.h", Btrfs.btrfs_ioctls);
  ("linux/cciss_ioctl.h", Cciss_ioctl.cciss_ioctl_ioctls);
  ("linux/chio.h", Chio.chio_ioctls);
  ("linux/coda.h", Coda.coda_ioctls);
  ("linux/dm-ioctl.h", Dm_ioctl.dm_ioctl_ioctls);
  ("linux/fd.h", Fd.fd_ioctls);
  ("linux/fs.h", Fs.fs_ioctls);
  ("linux/fuse.h", Fuse.fuse_ioctls);
  ("linux/i2o-dev.h", I2o_dev.i2o_dev_ioctls);
  ("linux/mmc/ioctl.h", Mmc_ioctl.mmc_ioctl_ioctls);
  ("linux/msdos_fs.h", Msdos_fs.msdos_fs_ioctls);
  ("linux/mtio.h", Mtio.mtio_ioctls);
  ("linux/nbd.h", Nbd.nbd_ioctls);
  ("linux/ncp_fs.h", Ncp_fs.ncp_fs_ioctls);
  ("linux/ndctl.h", Ndctl.ndctl_ioctls);
  ("linux/nvme_ioctl.h", Nvme_ioctl.nvme_ioctl_ioctls);
  ("linux/pktcdvd.h", Pktcdvd.pktcdvd_ioctls);
  ("linux/raid/md_u.h", Raid_md_u.raid_md_u_ioctls);
  ("linux/raw.h", Raw.raw_ioctls);
  ("linux/reiserfs_fs.h", Reiserfs_fs.reiserfs_fs_ioctls);
  ("linux/udf_fs_i.h", Udf_fs_i.udf_fs_i_ioctls);
  ("mtd/mtd-abi.h", Mtd_mtd_abi.mtd_mtd_abi_ioctls);
  ("mtd/ubi-user.h", Mtd_ubi_user.mtd_ubi_user_ioctls);
  ("scsi/cxlflash_ioctl.h", Scsi_cxlflash_ioctl.scsi_cxlflash_ioctl_ioctls)].
Definition abiSystem_tables : list (string * list command) := [
  ("linux/android/binder.h", Android_binder.android_binder_ioctls);
  ("linux/batterydata-interface.h", Batterydata_interface.batterydata_interface_ioctls);
  ("linux/epm_adc.h", Epm_adc.epm_adc_ioctls);
  ("linux/esoc_ctrl.h", Esoc_ctrl.esoc_ctrl_ioctls);
  ("linux/fsl_hypervisor.h", Fsl_hypervisor.fsl_hypervisor_ioctls);
  ("linux/hab_ioctl.h", Hab_ioctl.hab_ioctl_ioctls);
  ("linux/kvm.h", Kvm.kvm_ioctls);
  ("linux/mei.h", Mei.mei_ioctls);
  ("linux/mic_ioctl.h", Mic_ioctl.mic_ioctl_ioctls);
  ("linux/msm-core-interface.h", Msm_core_interface.msm_core_interface_ioctls);
  ("linux/msm_dsps.h", Msm_dsps.msm_dsps_ioctls);
  ("linux/msm_ipa.h", Msm_ipa.msm_ipa_ioctls);
  ("linux/msm_ipc.h", Msm_ipc.msm_ipc_ioctls);
  ("linux/msm_thermal_ioctl.h", Msm_thermal_ioctl.msm_thermal_ioctl_ioctls);
  ("linux/nfc/nfcinfo.h", Nfc_nfcinfo.nfc_nfcinfo_ioctls);
  ("linux/perf_event.h", Perf_event.perf_event_ioctls);
  ("linux/qcedev.h", Qcedev.qcedev_ioctls);
  ("linux/qcota.h", Qcota.qcota_ioctls);
  ("linux/qrng.h", Qrng.qrng_ioctls);
  ("linux/qseecom.h", Qseecom.qseecom_ioctls);
  ("linux/rmnet_ipa_fd_ioctl.h", Rmnet_ipa_fd_ioctl.rmnet_ipa_fd_ioctl_ioctls);
  ("linux/scif_ioctl.h", Scif_ioctl.scif_ioctl_ioctls);
  ("linux/smcinvoke.h", Smcinvoke.smcinvoke_ioctls);
  ("linux/suspend_ioctls.h", Suspend_ioctls.suspend_ioctls_ioctls);
  ("linux/usb/usb_ctrl_qti.h", Usb_usb_ctrl_qti.usb_usb_ctrl_qti_ioctls);
  ("linux/userfaultfd.h", Userfaultfd.userfaultfd_ioctls);
  ("linux/vfio.h", Vfio.vfio_ioctls);
  ("linux/vhost.h", Vhost.vhost_ioctls);
  ("misc/cxl.h", Misc_cxl.misc_cxl_ioctls)].
Definition abiNet_tables : list (string * list command) := [
  ("linux/atm_eni.h", Atm_eni.atm_eni_ioctls);
  ("linux/atm_he.h", Atm_he.atm_he_ioctls);
  ("linux/atm_idt77105.h", Atm_idt77105.atm_idt77105_ioctls);
  ("linux/atm_nicstar.h", Atm_nicstar.atm_nicstar_ioctls);
  ("linux/atm_tcp.h", Atm_tcp.atm_tcp_ioctls);
  ("linux/atm_zatm.h", Atm_zatm.atm_zatm_ioctls);
  ("linux/atmarp.h", Atmarp.atmarp_ioctls);
  ("linux/atmbr2684.h", Atmbr2684.atmbr2684_ioctls);
  ("linux/atmclip.h", Atmclip.atmclip_ioctls);
  ("linux/atmdev.h", Atmdev.atmdev_ioctls);
  ("linux/atmlec.h", Atmlec.atmlec_ioctls);
  ("linux/atmmpc.h", Atmmpc.atmmpc_ioctls);
  ("linux/atmsvc.h", Atmsvc.atmsvc_ioctls);
  ("linux/capi.h", Capi.capi_ioctls);
  ("linux/gigaset_dev.h", Gigaset_dev.gigaset_dev_ioctls);
  ("linux/gsmmux.h", Gsmmux.gsmmux_ioctls);
  ("linux/hsi/cs-protocol.h", Hsi_cs_protocol.hsi_cs_protocol_ioctls);
  ("linux/hsi/hsi_char.h", Hsi_hsi_char.hsi_hsi_char_ioctls);
  ("linux/if_pppox.h", If_pppox.if_pppox_ioctls);
  ("linux/if_tun.h", If_tun.if_tun_ioctls);
  ("linux/isdn.h", Isdn.isdn_ioctls);
  ("linux/isdn_ppp.h", Isdn_ppp.isdn_ppp_ioctls);
  ("linux/ppp-ioctl.h", Ppp_ioctl.ppp_ioctl_ioctls);
  ("linux/sonet.h", Sonet.sonet_ioctls);
  ("linux/usb/cdc-wdm.h", Usb_cdc_wdm.usb_cdc_wdm_ioctls);
  ("linux/usb/functionfs.h", Usb_functionfs.usb_functionfs_ioctls);
  ("linux/usb/g_printer.h", Usb_g_printer.usb_g_printer_ioctls);
  ("linux/usb/gadgetfs.h", Usb_gadgetfs.usb_gadgetfs_ioctls);
  ("linux/usb/tmc.h", Usb_tmc.usb_tmc_ioctls);
  ("linux/vm_sockets.h", Vm_sockets.vm_sockets_ioctls);
  ("rdma/ib_user_mad.h", Rdma_ib_user_mad.rdma_ib_user_mad_ioctls)].
Definition abiKernel_tables : list (string * list command) := [
  ("asm-generic/ioctls.h", Asm_generic_ioctls.asm_generic_ioctls_ioctls);
  ("xen/evtchn.h", Xen_evtchn.xen_evtchn_ioctls);
  ("xen/gntalloc.h", Xen_gntalloc.xen_gntalloc_ioctls);
  ("xen/gntdev.h", Xen_gntdev.xen_gntdev_ioctls);
  ("xen/privcmd.h", Xen_privcmd.xen_privcmd_ioctls)].
Definition abiDevices_tables : list (string * list command) := [
  ("linux/apm_bios.h", Apm_bios.apm_bios_ioctls);
  ("linux/cm4000_cs.h", Cm4000_cs.cm4000_cs_ioctls);
  ("linux/firewire-cdev.h", Firewire_cdev.firewire_cdev_ioctls);
  ("linux/hbtp_input.h", Hbtp_input.hbtp_input_ioctls);
  ("linux/hbtp_vm.h", Hbtp_vm.hbtp_vm_ioctls);
  ("linux/hiddev.h", Hiddev.hiddev_ioctls);
  ("linux/hidraw.h", Hidraw.hidraw_ioctls);
  ("linux/hpet.h", Hpet.hpet_ioctls);
  ("linux/i8k.h", I8k.i8k_ioctls);
  ("linux/iio/events.h", Iio_events.iio_events_ioctls);
  ("linux/input.h", Input.input_ioctls);
  ("linux/ipmi.h", Ipmi.ipmi_ioctls);
  ("linux/joystick.h", Joystick.joystick_ioctls);
  ("linux/mmtimer.h", Mmtimer.mmtimer_ioctls);
  ("linux/nvram.h", Nvram.nvram_ioctls);
  ("linux/phantom.h", Phantom.phantom_ioctls);
  ("linux/pmu.h", Pmu.pmu_ioctls);
  ("linux/ppdev.h", Ppdev.ppdev_ioctls);
  ("linux/pps.h", Pps.pps_ioctls);
  ("linux/ptp_clock.h", Ptp_clock.ptp_clock_ioctls);
  ("linux/random.h", Random.random_ioctls);
  ("linux/rfkill.h", Rfkill.rfkill_ioctls);
  ("linux/rtc.h", Rtc.rtc_ioctls);
  ("linux/serio.h", Serio.serio_ioctls);
  ("linux/sonypi.h", Sonypi.sonypi_ioctls);
  ("linux/spi/spidev.h", Spi_spidev.spi_spidev_ioctls);
  ("linux/synclink.h", Synclink.synclink_ioctls);
  ("linux/toshiba.h", Toshiba.toshiba_ioctls);
  ("linux/uinput.h", Uinput.uinput_ioctls);
  ("linux/usbdevice_fs.h", Usbdevice_fs.usbdevice_fs_ioctls);
  ("linux/watchdog.h", Watchdog.watchdog_ioctls)].

Definition tables : list (string * list command) :=
  (abiBase_tables ++ abiMedia_tables ++ abiDisplay_tables ++ abiCamera_tables ++ abiDrm_tables
  ++ abiSound_tables ++ abiStorage_tables ++ abiSystem_tables ++ abiNet_tables ++
  abiKernel_tables ++ abiDevices_tables)%list.

Definition abiBase_types : list (string * list (string * cty)) := [
  ("asm-generic/termbits.h", Asm_generic_termbits.asm_generic_termbits_types);
  ("asm-generic/posix_types.h", Asm_generic_posix_types.asm_generic_posix_types_types);
  ("asm/posix_types.h", Asm_posix_types.asm_posix_types_types);
  ("linux/atm.h", Atm.atm_types);
  ("linux/blktrace_api.h", Blktrace_api.blktrace_api_types);
  ("linux/dn.h", Dn.dn_types);
  ("linux/fiemap.h", Fiemap.fiemap_types);
  ("linux/filter.h", Filter.filter_types);
  ("linux/uuid.h", Uuid.uuid_types);
  ("linux/ipx.h", Ipx.ipx_types);
  ("linux/mhi.h", Mhi.mhi_types);
  ("linux/ppp_defs.h", Ppp_defs.ppp_defs_types);
  ("linux/usb/ch9.h", Usb_ch9.usb_ch9_types)].
Definition abiMedia_types : list (string * list (string * cty)) := [
  ("linux/am437x-vpfe.h", Am437x_vpfe.am437x_vpfe_types);
  ("linux/cec.h", Cec.cec_types);
  ("linux/dvb/audio.h", Dvb_audio.dvb_audio_types);
  ("linux/dvb/ca.h", Dvb_ca.dvb_ca_types);
  ("linux/dvb/dmx.h", Dvb_dmx.dvb_dmx_types);
  ("linux/dvb/frontend.h", Dvb_frontend.dvb_frontend_types);
  ("linux/dvb/net.h", Dvb_net.dvb_net_types);
  ("linux/dvb/osd.h", Dvb_osd.dvb_osd_types);
  ("linux/dvb/video.h", Dvb_video.dvb_video_types);
  ("linux/v4l2-common.h", V4l2_common.v4l2_common_types);
  ("linux/videodev2.h", Videodev2.videodev2_types);
  ("linux/ivtv.h", Ivtv.ivtv_types);
  ("linux/ivtvfb.h", Ivtvfb.ivtvfb_types);
  ("linux/media.h", Media.media_types);
  ("linux/meye.h", Meye.meye_types);
  ("linux/msm_vidc_dec.h", Msm_vidc_dec.msm_vidc_dec_types);
  ("linux/msm_vidc_enc.h", Msm_vidc_enc.msm_vidc_enc_types);
  ("linux/omap3isp.h", Omap3isp.omap3isp_types);
  ("linux/uvcvideo.h", Uvcvideo.uvcvideo_types);
  ("linux/v4l2-mediabus.h", V4l2_mediabus.v4l2_mediabus_types);
  ("linux/v4l2-subdev.h", V4l2_subdev.v4l2_subdev_types)].
Definition abiDisplay_types : list (string * list (string * cty)) := [
  ("linux/agpgart.h", Agpgart.agpgart_types);
  ("linux/android_pmem.h", Android_pmem.android_pmem_types);
  ("linux/ashmem.h", Ashmem.ashmem_types);
  ("linux/fb.h", Fb.fb_types);
  ("linux/ion.h", Ion.ion_types);
  ("linux/ion_test.h", Ion_test.ion_test_types);
  ("linux/matroxfb.h", Matroxfb.matroxfb_types);
  ("linux/msm_mdp.h", Msm_mdp.msm_mdp_types);
  ("linux/msm_mdp_ext.h", Msm_mdp_ext.msm_mdp_ext_types);
  ("linux/mdss_rotator.h", Mdss_rotator.mdss_rotator_types);
  ("linux/msm_ion.h", Msm_ion.msm_ion_types);
  ("linux/msm_kgsl.h", Msm_kgsl.msm_kgsl_types);
  ("linux/msm_rotator.h", Msm_rotator.msm_rotator_types);
  ("linux/omapfb.h", Omapfb.omapfb_types);
  ("linux/oneshot_sync.h", Oneshot_sync.oneshot_sync_types);
  ("linux/sw_sync.h", Sw_sync.sw_sync_types);
  ("linux/sync.h", Sync.sync_types);
  ("video/edid.h", Video_edid.video_edid_types);
  ("video/msm_hdmi_hdcp_mgr.h", Video_msm_hdmi_hdcp_mgr.video_msm_hdmi_hdcp_mgr_types);
  ("video/msm_hdmi_modes.h", Video_msm_hdmi_modes.video_msm_hdmi_modes_types);
  ("video/sisfb.h", Video_sisfb.video_sisfb_types);
  ("video/uvesafb.h", Video_uvesafb.video_uvesafb_types)].
Definition abiCamera_types : list (string * list (string * cty)) := [
  ("media/ais/msm_ais.h", Media_ais_msm_ais.media_ais_msm_ais_types);
  ("media/ais/msm_ais_buf_mgr.h", Media_ais_msm_ais_buf_mgr.media_ais_msm_ais_buf_mgr_types);
  ("media/ais/msm_ais_isp.h", Media_ais_msm_ais_isp.media_ais_msm_ais_isp_types);
  ("media/ais/msm_ais_ispif.h", Media_ais_msm_ais_ispif.media_ais_msm_ais_ispif_types);
  ("media/ais/msm_ais_mgr.h", Media_ais_msm_ais_mgr.media_ais_msm_ais_mgr_types);
  ("media/ais/msm_ais_sensor_sdk.h", Media_ais_msm_ais_sensor_sdk.media_ais_msm_ais_sensor_sdk_types);
  ("media/ais/msm_ais_sensor.h", Media_ais_msm_ais_sensor.media_ais_msm_ais_sensor_types);
  ("media/msm_ba.h", Media_msm_ba.media_msm_ba_types);
  ("media/msm_camsensor_sdk.h", Media_msm_camsensor_sdk.media_msm_camsensor_sdk_types);
  ("media/msm_cam_sensor.h", Media_msm_cam_sensor.media_msm_cam_sensor_types);
  ("media/msm_camera.h", Media_msm_camera.media_msm_camera_types);
  ("media/msm_fd.h", Media_msm_fd.media_msm_fd_types);
  ("media/msm_gemini.h", Media_msm_gemini.media_msm_gemini_types);
  ("media/msm_gestures.h", Media_msm_gestures.media_msm_gestures_types);
  ("media/msm_isp.h", Media_msm_isp.media_msm_isp_types);
  ("media/msm_jpeg.h", Media_msm_jpeg.media_msm_jpeg_types);
  ("media/msm_jpeg_dma.h", Media_msm_jpeg_dma.media_msm_jpeg_dma_types);
  ("media/msm_mercury.h", Media_msm_mercury.media_msm_mercury_types);
  ("media/msm_sde_rotator.h", Media_msm_sde_rotator.media_msm_sde_rotator_types);
  ("media/msm_vidc.h", Media_msm_vidc.media_msm_vidc_types);
  ("media/msm_vpu.h", Media_msm_vpu.media_msm_vpu_types);
  ("media/msmb_camera.h", Media_msmb_camera.media_msmb_camera_types);
  ("media/msmb_generic_buf_mgr.h", Media_msmb_generic_buf_mgr.media_msmb_generic_buf_mgr_types);
  ("media/msmb_isp.h", Media_msmb_isp.media_msmb_isp_types);
  ("media/msmb_ispif.h", Media_msmb_ispif.media_msmb_ispif_types);
  ("media/msmb_pproc.h", Media_msmb_pproc.media_msmb_pproc_types);
  ("media/radio-iris.h", Media_radio_iris.media_radio_iris_types)].
Definition abiDrm_types : list (string * list (string * cty)) := [
  ("drm/drm_mode.h", Drm_drm_mode.drm_drm_mode_types);
  ("drm/drm.h", Drm_drm.drm_drm_types);
  ("drm/drm_sarea.h", Drm_drm_sarea.drm_drm_sarea_types);
  ("drm/exynos_drm.h", Drm_exynos_drm.drm_exynos_drm_types);
  ("drm/i810_drm.h", Drm_i810_drm.drm_i810_drm_types);
  ("drm/i915_drm.h", Drm_i915_drm.drm_i915_drm_types);
  ("drm/mga_drm.h", Drm_mga_drm.drm_mga_drm_types);
  ("drm/sde_drm.h", Drm_sde_drm.drm_sde_drm_types);
  ("drm/msm_drm.h", Drm_msm_drm.drm_msm_drm_types);
  ("drm/msm_drm_pp.h", Drm_msm_drm_pp.drm_msm_drm_pp_types);
  ("drm/nouveau_drm.h", Drm_nouveau_drm.drm_nouveau_drm_types);
  ("drm/qxl_drm.h", Drm_qxl_drm.drm_qxl_drm_types);
  ("drm/r128_drm.h", Drm_r128_drm.drm_r128_drm_types);
  ("drm/radeon_drm.h", Drm_radeon_drm.drm_radeon_drm_types);
  ("drm/savage_drm.h", Drm_savage_drm.drm_savage_drm_types);
  ("drm/sis_drm.h", Drm_sis_drm.drm_sis_drm_types);
  ("drm/tegra_drm.h", Drm_tegra_drm.drm_tegra_drm_types);
  ("drm/via_drm.h", Drm_via_drm.drm_via_drm_types);
  ("drm/virtgpu_drm.h", Drm_virtgpu_drm.drm_virtgpu_drm_types);
  ("drm/vmwgfx_drm.h", Drm_vmwgfx_drm.drm_vmwgfx_drm_types)].
Definition abiSound_types : list (string * list (string * cty)) := [
  ("linux/ixjuser.h", Ixjuser.ixjuser_types);
  ("linux/msm_adsp.h", Msm_adsp.msm_adsp_types);
  ("linux/msm_audio.h", Msm_audio.msm_audio_types);
  ("linux/msm_audio_aac.h", Msm_audio_aac.msm_audio_aac_types);
  ("linux/msm_audio_ac3.h", Msm_audio_ac3.msm_audio_ac3_types);
  ("linux/msm_audio_alac.h", Msm_audio_alac.msm_audio_alac_types);
  ("linux/msm_audio_amrnb.h", Msm_audio_amrnb.msm_audio_amrnb_types);
  ("linux/msm_audio_amrwb.h", Msm_audio_amrwb.msm_audio_amrwb_types);
  ("linux/msm_audio_amrwbplus.h", Msm_audio_amrwbplus.msm_audio_amrwbplus_types);
  ("linux/msm_audio_anc.h", Msm_audio_anc.msm_audio_anc_types);
  ("linux/msm_audio_ape.h", Msm_audio_ape.msm_audio_ape_types);
  ("linux/msm_audio_calibration.h", Msm_audio_calibration.msm_audio_calibration_types);
  ("linux/msm_audio_g711.h", Msm_audio_g711.msm_audio_g711_types);
  ("linux/msm_audio_g711_dec.h", Msm_audio_g711_dec.msm_audio_g711_dec_types);
  ("linux/msm_audio_mvs.h", Msm_audio_mvs.msm_audio_mvs_types);
  ("linux/msm_audio_qcp.h", Msm_audio_qcp.msm_audio_qcp_types);
  ("linux/msm_audio_sbc.h", Msm_audio_sbc.msm_audio_sbc_types);
  ("linux/msm_audio_voicememo.h", Msm_audio_voicememo.msm_audio_voicememo_types);
  ("linux/msm_audio_wma.h", Msm_audio_wma.msm_audio_wma_types);
  ("linux/msm_audio_wmapro.h", Msm_audio_wmapro.msm_audio_wmapro_types);
  ("linux/soundcard.h", Soundcard.soundcard_types);
  ("linux/telephony.h", Telephony.telephony_types);
  ("sound/asound.h", Sound_asound.sound_asound_types);
  ("sound/asequencer.h", Sound_asequencer.sound_asequencer_types);
  ("sound/asound_fm.h", Sound_asound_fm.sound_asound_fm_types);
  ("sound/audio_effects.h", Sound_audio_effects.sound_audio_effects_types);
  ("sound/compress_params.h", Sound_compress_params.sound_compress_params_types);
  ("sound/compress_offload.h", Sound_compress_offload.sound_compress_offload_types);
  ("sound/devdep_params.h", Sound_devdep_params.sound_devdep_params_types);
  ("sound/emu10k1.h", Sound_emu10k1.sound_emu10k1_types);
  ("sound/firewire.h", Sound_firewire.sound_firewire_types);
  ("sound/hdsp.h", Sound_hdsp.sound_hdsp_types);
  ("sound/hdspm.h", Sound_hdspm.sound_hdspm_types);
  ("sound/lsm_params.h", Sound_lsm_params.sound_lsm_params_types);
  ("sound/msmcal-hwdep.h", Sound_msmcal_hwdep.sound_msmcal_hwdep_types);
  ("sound/sb16_csp.h", Sound_sb16_csp.sound_sb16_csp_types);
  ("sound/sfnt_info.h", Sound_sfnt_info.sound_sfnt_info_types);
  ("sound/voice_svc.h", Sound_voice_svc.sound_voice_svc_types);
  ("sound/wcd-dsp-glink.h", Sound_wcd_dsp_glink.sound_wcd_dsp_glink_types)].
Definition abiStorage_types : list (string * list (string * cty)) := [
  ("linux/affs_hardblocks.h", Affs_hardblocks.affs_hardblocks_types);
  ("linux/auto_fs.h", Auto_fs.auto_fs_types);
  ("linux/auto_fs4.h", Auto_fs4.auto_fs4_types);
  ("linux/bfs_fs.h", Bfs_fs.bfs_fs_types);
  ("linux/blkpg.h", Blkpg.blkpg_types);
  ("linux/btrfs.h", Btrfs.btrfs_types);
  ("linux/cciss_defs.h", Cciss_defs.cciss_defs_types);
  ("linux/cciss_ioctl.h", Cciss_ioctl.cciss_ioctl_types);
  ("linux/cdrom.h", Cdrom.cdrom_types);
  ("linux/chio.h", Chio.chio_types);
  ("linux/coda.h", Coda.coda_types);
  ("linux/cramfs_fs.h", Cramfs_fs.cramfs_fs_types);
  ("linux/dlm.h", Dlm.dlm_types);
  ("linux/dlm_device.h", Dlm_device.dlm_device_types);
  ("linux/dlm_netlink.h", Dlm_netlink.dlm_netlink_types);
  ("linux/dlm_plock.h", Dlm_plock.dlm_plock_types);
  ("linux/dm-ioctl.h", Dm_ioctl.dm_ioctl_types);
  ("linux/dm-log-userspace.h", Dm_log_userspace.dm_log_userspace_types);
  ("linux/dqblk_xfs.h", Dqblk_xfs.dqblk_xfs_types);
  ("linux/edd.h", Edd.edd_types);
  ("linux/efs_fs_sb.h", Efs_fs_sb.efs_fs_sb_types);
  ("linux/fd.h", Fd.fd_types);
  ("linux/fs.h", Fs.fs_types);
  ("linux/fuse.h", Fuse.fuse_types);
  ("linux/gfs2_ondisk.h", Gfs2_ondisk.gfs2_ondisk_types);
  ("linux/hdreg.h", Hdreg.hdreg_types);
  ("linux/i2o-dev.h", I2o_dev.i2o_dev_types);
  ("linux/iso_fs.h", Iso_fs.iso_fs_types);
  ("linux/jffs2.h", Jffs2.jffs2_types);
  ("linux/loop.h", Loop.loop_types);
  ("linux/minix_fs.h", Minix_fs.minix_fs_types);
  ("linux/mmc/ioctl.h", Mmc_ioctl.mmc_ioctl_types);
  ("linux/msdos_fs.h", Msdos_fs.msdos_fs_types);
  ("linux/mtio.h", Mtio.mtio_types);
  ("linux/nbd.h", Nbd.nbd_types);
  ("linux/ncp.h", Ncp.ncp_types);
  ("linux/ncp_fs.h", Ncp_fs.ncp_fs_types);
  ("linux/ncp_mount.h", Ncp_mount.ncp_mount_types);
  ("linux/ndctl.h", Ndctl.ndctl_types);
  ("linux/nfs2.h", Nfs2.nfs2_types);
  ("linux/nfs3.h", Nfs3.nfs3_types);
  ("linux/nfs4_mount.h", Nfs4_mount.nfs4_mount_types);
  ("linux/nfs_idmap.h", Nfs_idmap.nfs_idmap_types);
  ("linux/nfsd/cld.h", Nfsd_cld.nfsd_cld_types);
  ("linux/nfsd/nfsfh.h", Nfsd_nfsfh.nfsd_nfsfh_types);
  ("linux/nvme_ioctl.h", Nvme_ioctl.nvme_ioctl_types);
  ("linux/pg.h", Pg.pg_types);
  ("linux/pktcdvd.h", Pktcdvd.pktcdvd_types);
  ("linux/qnxtypes.h", Qnxtypes.qnxtypes_types);
  ("linux/qnx4_fs.h", Qnx4_fs.qnx4_fs_types);
  ("linux/quota.h", Quota.quota_types);
  ("linux/raid/md_p.h", Raid_md_p.raid_md_p_types);
  ("linux/raid/md_u.h", Raid_md_u.raid_md_u_types);
  ("linux/raw.h", Raw.raw_types);
  ("linux/reiserfs_xattr.h", Reiserfs_xattr.reiserfs_xattr_types);
  ("linux/romfs_fs.h", Romfs_fs.romfs_fs_types);
  ("mtd/inftl-user.h", Mtd_inftl_user.mtd_inftl_user_types);
  ("mtd/mtd-abi.h", Mtd_mtd_abi.mtd_mtd_abi_types);
  ("mtd/mtd-user.h", Mtd_mtd_user.mtd_mtd_user_types);
  ("mtd/nftl-user.h", Mtd_nftl_user.mtd_nftl_user_types);
  ("mtd/ubi-user.h", Mtd_ubi_user.mtd_ubi_user_types);
  ("scsi/cxlflash_ioctl.h", Scsi_cxlflash_ioctl.scsi_cxlflash_ioctl_types);
  ("scsi/fc/fc_els.h", Scsi_fc_fc_els.scsi_fc_fc_els_types);
  ("scsi/fc/fc_fs.h", Scsi_fc_fc_fs.scsi_fc_fc_fs_types);
  ("scsi/fc/fc_gs.h", Scsi_fc_fc_gs.scsi_fc_fc_gs_types);
  ("scsi/fc/fc_ns.h", Scsi_fc_fc_ns.scsi_fc_fc_ns_types);
  ("scsi/scsi_bsg_fc.h", Scsi_scsi_bsg_fc.scsi_scsi_bsg_fc_types);
  ("scsi/scsi_ioctl.h", Scsi_scsi_ioctl.scsi_scsi_ioctl_types);
  ("scsi/scsi_netlink.h", Scsi_scsi_netlink.scsi_scsi_netlink_types);
  ("scsi/scsi_netlink_fc.h", Scsi_scsi_netlink_fc.scsi_scsi_netlink_fc_types);
  ("scsi/sg.h", Scsi_sg.scsi_sg_types);
  ("scsi/ufs/ioctl.h", Scsi_ufs_ioctl.scsi_ufs_ioctl_types)].
Definition abiSystem_types : list (string * list (string * cty)) := [
  ("asm/kvm.h", Asm_kvm.asm_kvm_types);
  ("linux/android/binder.h", Android_binder.android_binder_types);
  ("linux/batterydata-interface.h", Batterydata_interface.batterydata_interface_types);
  ("linux/epm_adc.h", Epm_adc.epm_adc_types);
  ("linux/fsl_hypervisor.h", Fsl_hypervisor.fsl_hypervisor_types);
  ("linux/hab_ioctl.h", Hab_ioctl.hab_ioctl_types);
  ("linux/ipa_qmi_service_v01.h", Ipa_qmi_service_v01.ipa_qmi_service_v01_types);
  ("linux/kvm.h", Kvm.kvm_types);
  ("linux/mei.h", Mei.mei_types);
  ("linux/mic_ioctl.h", Mic_ioctl.mic_ioctl_types);
  ("linux/msm-core-interface.h", Msm_core_interface.msm_core_interface_types);
  ("linux/msm_ipa.h", Msm_ipa.msm_ipa_types);
  ("linux/msm_ipc.h", Msm_ipc.msm_ipc_types);
  ("linux/msm_thermal_ioctl.h", Msm_thermal_ioctl.msm_thermal_ioctl_types);
  ("linux/nfc/nfcinfo.h", Nfc_nfcinfo.nfc_nfcinfo_types);
  ("linux/perf_event.h", Perf_event.perf_event_types);
  ("linux/qcedev.h", Qcedev.qcedev_types);
  ("linux/qcota.h", Qcota.qcota_types);
  ("linux/qseecom.h", Qseecom.qseecom_types);
  ("linux/rmnet_ipa_fd_ioctl.h", Rmnet_ipa_fd_ioctl.rmnet_ipa_fd_ioctl_types);
  ("linux/scif_ioctl.h", Scif_ioctl.scif_ioctl_types);
  ("linux/smcinvoke.h", Smcinvoke.smcinvoke_types);
  ("linux/suspend_ioctls.h", Suspend_ioctls.suspend_ioctls_types);
  ("linux/usb/usb_ctrl_qti.h", Usb_usb_ctrl_qti.usb_usb_ctrl_qti_types);
  ("linux/userfaultfd.h", Userfaultfd.userfaultfd_types);
  ("linux/vfio.h", Vfio.vfio_types);
  ("linux/vhost.h", Vhost.vhost_types);
  ("misc/cxl.h", Misc_cxl.misc_cxl_types)].
Definition abiNet_types : list (string * list (string * cty)) := [
  ("linux/atm_eni.h", Atm_eni.atm_eni_types);
  ("linux/atm_he.h", Atm_he.atm_he_types);
  ("linux/atm_idt77105.h", Atm_idt77105.atm_idt77105_types);
  ("linux/atm_nicstar.h", Atm_nicstar.atm_nicstar_types);
  ("linux/atm_tcp.h", Atm_tcp.atm_tcp_types);
  ("linux/atm_zatm.h", Atm_zatm.atm_zatm_types);
  ("linux/atmarp.h", Atmarp.atmarp_types);
  ("linux/atmbr2684.h", Atmbr2684.atmbr2684_types);
  ("linux/atmdev.h", Atmdev.atmdev_types);
  ("linux/atmlec.h", Atmlec.atmlec_types);
  ("linux/atmmpc.h", Atmmpc.atmmpc_types);
  ("linux/atmppp.h", Atmppp.atmppp_types);
  ("linux/atmsap.h", Atmsap.atmsap_types);
  ("linux/capi.h", Capi.capi_types);
  ("linux/if_ether.h", If_ether.if_ether_types);
  ("linux/ethtool.h", Ethtool.ethtool_types);
  ("linux/gsmmux.h", Gsmmux.gsmmux_types);
  ("linux/hsi/cs-protocol.h", Hsi_cs_protocol.hsi_cs_protocol_types);
  ("linux/hsi/hsi_char.h", Hsi_hsi_char.hsi_hsi_char_types);
  ("linux/in6.h", In6.in6_types);
  ("linux/in.h", In.in_types);
  ("linux/if_pppol2tp.h", If_pppol2tp.if_pppol2tp_types);
  ("linux/if_pppox.h", If_pppox.if_pppox_types);
  ("linux/if_tun.h", If_tun.if_tun_types);
  ("linux/isdn.h", Isdn.isdn_types);
  ("linux/isdn_ppp.h", Isdn_ppp.isdn_ppp_types);
  ("linux/pfkeyv2.h", Pfkeyv2.pfkeyv2_types);
  ("linux/ppp-ioctl.h", Ppp_ioctl.ppp_ioctl_types);
  ("linux/sonet.h", Sonet.sonet_types);
  ("linux/socket.h", Socket.socket_types);
  ("linux/usb/audio.h", Usb_audio.usb_audio_types);
  ("linux/usb/cdc.h", Usb_cdc.usb_cdc_types);
  ("linux/usb/ch11.h", Usb_ch11.usb_ch11_types);
  ("linux/usb/functionfs.h", Usb_functionfs.usb_functionfs_types);
  ("linux/usb/gadgetfs.h", Usb_gadgetfs.usb_gadgetfs_types);
  ("linux/usb/midi.h", Usb_midi.usb_midi_types);
  ("linux/usb/video.h", Usb_video.usb_video_types);
  ("rdma/hfi/hfi1_user.h", Rdma_hfi_hfi1_user.rdma_hfi_hfi1_user_types);
  ("rdma/ib_user_sa.h", Rdma_ib_user_sa.rdma_ib_user_sa_types);
  ("rdma/ib_user_cm.h", Rdma_ib_user_cm.rdma_ib_user_cm_types);
  ("rdma/ib_user_mad.h", Rdma_ib_user_mad.rdma_ib_user_mad_types);
  ("rdma/ib_user_verbs.h", Rdma_ib_user_verbs.rdma_ib_user_verbs_types);
  ("rdma/rdma_netlink.h", Rdma_rdma_netlink.rdma_rdma_netlink_types);
  ("rdma/rdma_user_cm.h", Rdma_rdma_user_cm.rdma_rdma_user_cm_types)].
Definition abiKernel_types : list (string * list (string * cty)) := [
  ("asm-generic/fcntl.h", Asm_generic_fcntl.asm_generic_fcntl_types);
  ("asm-generic/ipcbuf.h", Asm_generic_ipcbuf.asm_generic_ipcbuf_types);
  ("asm-generic/poll.h", Asm_generic_poll.asm_generic_poll_types);
  ("asm-generic/siginfo.h", Asm_generic_siginfo.asm_generic_siginfo_types);
  ("asm-generic/stat.h", Asm_generic_stat.asm_generic_stat_types);
  ("asm-generic/statfs.h", Asm_generic_statfs.asm_generic_statfs_types);
  ("asm-generic/termios.h", Asm_generic_termios.asm_generic_termios_types);
  ("asm/ptrace.h", Asm_ptrace.asm_ptrace_types);
  ("asm/sigcontext.h", Asm_sigcontext.asm_sigcontext_types);
  ("linux/acct.h", Acct.acct_types);
  ("linux/aio_abi.h", Aio_abi.aio_abi_types);
  ("linux/audit.h", Audit.audit_types);
  ("linux/bpf.h", Bpf.bpf_types);
  ("linux/bsg.h", Bsg.bsg_types);
  ("linux/capability.h", Capability.capability_types);
  ("linux/cgroupstats.h", Cgroupstats.cgroupstats_types);
  ("linux/cn_proc.h", Cn_proc.cn_proc_types);
  ("linux/coff.h", Coff.coff_types);
  ("linux/connector.h", Connector.connector_types);
  ("linux/elf.h", Elf.elf_types);
  ("linux/elf-fdpic.h", Elf_fdpic.elf_fdpic_types);
  ("linux/errqueue.h", Errqueue.errqueue_types);
  ("linux/fanotify.h", Fanotify.fanotify_types);
  ("linux/flat.h", Flat.flat_types);
  ("linux/futex.h", Futex.futex_types);
  ("linux/hyperv.h", Hyperv.hyperv_types);
  ("linux/inotify.h", Inotify.inotify_types);
  ("linux/ipc.h", Ipc.ipc_types);
  ("linux/kexec.h", Kexec.kexec_types);
  ("linux/virtio_types.h", Virtio_types.virtio_types_types);
  ("linux/virtio_ring.h", Virtio_ring.virtio_ring_types);
  ("linux/mic_common.h", Mic_common.mic_common_types);
  ("linux/mqueue.h", Mqueue.mqueue_types);
  ("linux/msg.h", Msg.msg_types);
  ("linux/prctl.h", Prctl.prctl_types);
  ("linux/ptrace.h", Ptrace.ptrace_types);
  ("linux/resource.h", Resource.resource_types);
  ("linux/screen_info.h", Screen_info.screen_info_types);
  ("linux/seccomp.h", Seccomp.seccomp_types);
  ("linux/selinux_netlink.h", Selinux_netlink.selinux_netlink_types);
  ("linux/sem.h", Sem.sem_types);
  ("linux/shm.h", Shm.shm_types);
  ("linux/signalfd.h", Signalfd.signalfd_types);
  ("linux/sysctl.h", Sysctl.sysctl_types);
  ("linux/uio.h", Uio.uio_types);
  ("linux/target_core_user.h", Target_core_user.target_core_user_types);
  ("linux/termios.h", Termios.termios_types);
  ("linux/time.h", Time.time_types);
  ("linux/times.h", Times.times_types);
  ("linux/utime.h", Utime.utime_types);
  ("linux/utsname.h", Utsname.utsname_types);
  ("linux/virtio_9p.h", Virtio_9p.virtio_9p_types);
  ("linux/virtio_balloon.h", Virtio_balloon.virtio_balloon_types);
  ("linux/virtio_blk.h", Virtio_blk.virtio_blk_types);
  ("linux/virtio_console.h", Virtio_console.virtio_console_types);
  ("linux/virtio_gpu.h", Virtio_gpu.virtio_gpu_types);
  ("linux/virtio_input.h", Virtio_input.virtio_input_types);
  ("linux/virtio_net.h", Virtio_net.virtio_net_types);
  ("linux/virtio_pci.h", Virtio_pci.virtio_pci_types);
  ("linux/virtio_scsi.h", Virtio_scsi.virtio_scsi_types);
  ("linux/virtio_vsock.h", Virtio_vsock.virtio_vsock_types);
  ("xen/evtchn.h", Xen_evtchn.xen_evtchn_types);
  ("xen/gntalloc.h", Xen_gntalloc.xen_gntalloc_types);
  ("xen/gntdev.h", Xen_gntdev.xen_gntdev_types);
  ("xen/privcmd.h", Xen_privcmd.xen_privcmd_types)].
Definition abiProto_types : list (string * list (string * cty)) := [
  ("linux/atalk.h", Atalk.atalk_types);
  ("linux/ax25.h", Ax25.ax25_types);
  ("linux/b1lli.h", B1lli.b1lli_types);
  ("linux/baycom.h", Baycom.baycom_types);
  ("linux/bcm933xx_hcs.h", Bcm933xx_hcs.bcm933xx_hcs_types);
  ("linux/bpqether.h", Bpqether.bpqether_types);
  ("linux/caif/caif_socket.h", Caif_caif_socket.caif_caif_socket_types);
  ("linux/can.h", Can.can_types);
  ("linux/can/bcm.h", Can_bcm.can_bcm_types);
  ("linux/can/gw.h", Can_gw.can_gw_types);
  ("linux/can/netlink.h", Can_netlink.can_netlink_types);
  ("linux/cycx_cfm.h", Cycx_cfm.cycx_cfm_types);
  ("linux/dcbnl.h", Dcbnl.dcbnl_types);
  ("linux/dccp.h", Dccp.dccp_types);
  ("linux/fib_rules.h", Fib_rules.fib_rules_types);
  ("linux/gen_stats.h", Gen_stats.gen_stats_types);
  ("linux/genetlink.h", Genetlink.genetlink_types);
  ("linux/hdlc/ioctl.h", Hdlc_ioctl.hdlc_ioctl_types);
  ("linux/hdlcdrv.h", Hdlcdrv.hdlcdrv_types);
  ("linux/icmp.h", Icmp.icmp_types);
  ("linux/icmpv6.h", Icmpv6.icmpv6_types);
  ("linux/if.h", If.if_types);
  ("linux/if_addr.h", If_addr.if_addr_types);
  ("linux/if_addrlabel.h", If_addrlabel.if_addrlabel_types);
  ("linux/if_alg.h", If_alg.if_alg_types);
  ("linux/if_arcnet.h", If_arcnet.if_arcnet_types);
  ("linux/if_bonding.h", If_bonding.if_bonding_types);
  ("linux/if_bridge.h", If_bridge.if_bridge_types);
  ("linux/if_eql.h", If_eql.if_eql_types);
  ("linux/if_fc.h", If_fc.if_fc_types);
  ("linux/if_fddi.h", If_fddi.if_fddi_types);
  ("linux/if_frad.h", If_frad.if_frad_types);
  ("linux/if_hippi.h", If_hippi.if_hippi_types);
  ("linux/if_link.h", If_link.if_link_types);
  ("linux/if_packet.h", If_packet.if_packet_types);
  ("linux/if_plip.h", If_plip.if_plip_types);
  ("linux/if_pppolac.h", If_pppolac.if_pppolac_types);
  ("linux/if_pppopns.h", If_pppopns.if_pppopns_types);
  ("linux/if_tunnel.h", If_tunnel.if_tunnel_types);
  ("linux/if_vlan.h", If_vlan.if_vlan_types);
  ("linux/igmp.h", Igmp.igmp_types);
  ("linux/inaddr.h", Inaddr.inaddr_types);
  ("linux/inet_diag.h", Inet_diag.inet_diag_types);
  ("linux/ip.h", Ip.ip_types);
  ("linux/ip6_tunnel.h", Ip6_tunnel.ip6_tunnel_types);
  ("linux/ip_vs.h", Ip_vs.ip_vs_types);
  ("linux/ipv6.h", Ipv6.ipv6_types);
  ("linux/ipv6_route.h", Ipv6_route.ipv6_route_types);
  ("linux/irda.h", Irda.irda_types);
  ("linux/kernelcapi.h", Kernelcapi.kernelcapi_types);
  ("linux/l2tp.h", L2tp.l2tp_types);
  ("linux/llc.h", Llc.llc_types);
  ("linux/mpls.h", Mpls.mpls_types);
  ("linux/mroute.h", Mroute.mroute_types);
  ("linux/mroute6.h", Mroute6.mroute6_types);
  ("linux/msm_rmnet.h", Msm_rmnet.msm_rmnet_types);
  ("linux/n_r3964.h", N_r3964.n_r3964_types);
  ("linux/neighbour.h", Neighbour.neighbour_types);
  ("linux/net.h", Net.net_types);
  ("linux/net_dropmon.h", Net_dropmon.net_dropmon_types);
  ("linux/net_tstamp.h", Net_tstamp.net_tstamp_types);
  ("linux/netconf.h", Netconf.netconf_types);
  ("linux/netfilter.h", Netfilter.netfilter_types);
  ("linux/netfilter/ipset/ip_set.h", Netfilter_ipset_ip_set.netfilter_ipset_ip_set_types);
  ("linux/netfilter/nf_conntrack_sctp.h", Netfilter_nf_conntrack_sctp.netfilter_nf_conntrack_sctp_types);
  ("linux/netfilter/nf_conntrack_tcp.h", Netfilter_nf_conntrack_tcp.netfilter_nf_conntrack_tcp_types);
  ("linux/netfilter/nf_conntrack_tuple_common.h", Netfilter_nf_conntrack_tuple_common.netfilter_nf_conntrack_tuple_common_types);
  ("linux/netfilter/nf_nat.h", Netfilter_nf_nat.netfilter_nf_nat_types);
  ("linux/netfilter/nfnetlink.h", Netfilter_nfnetlink.netfilter_nfnetlink_types);
  ("linux/netfilter/nfnetlink_compat.h", Netfilter_nfnetlink_compat.netfilter_nfnetlink_compat_types);
  ("linux/netfilter/nfnetlink_log.h", Netfilter_nfnetlink_log.netfilter_nfnetlink_log_types);
  ("linux/netfilter/nfnetlink_queue.h", Netfilter_nfnetlink_queue.netfilter_nfnetlink_queue_types);
  ("linux/netfilter/x_tables.h", Netfilter_x_tables.netfilter_x_tables_types);
  ("linux/netfilter/xt_AUDIT.h", Netfilter_xt_AUDIT.netfilter_xt_AUDIT_types);
  ("linux/netfilter/xt_CHECKSUM.h", Netfilter_xt_CHECKSUM.netfilter_xt_CHECKSUM_types);
  ("linux/netfilter/xt_CLASSIFY.h", Netfilter_xt_CLASSIFY.netfilter_xt_CLASSIFY_types);
  ("linux/netfilter/xt_CONNSECMARK.h", Netfilter_xt_CONNSECMARK.netfilter_xt_CONNSECMARK_types);
  ("linux/netfilter/xt_DSCP.h", Netfilter_xt_DSCP.netfilter_xt_DSCP_types);
  ("linux/netfilter/xt_HMARK.h", Netfilter_xt_HMARK.netfilter_xt_HMARK_types);
  ("linux/netfilter/xt_LOG.h", Netfilter_xt_LOG.netfilter_xt_LOG_types);
  ("linux/netfilter/xt_NFLOG.h", Netfilter_xt_NFLOG.netfilter_xt_NFLOG_types);
  ("linux/netfilter/xt_NFQUEUE.h", Netfilter_xt_NFQUEUE.netfilter_xt_NFQUEUE_types);
  ("linux/netfilter/xt_SECMARK.h", Netfilter_xt_SECMARK.netfilter_xt_SECMARK_types);
  ("linux/netfilter/xt_TCPMSS.h", Netfilter_xt_TCPMSS.netfilter_xt_TCPMSS_types);
  ("linux/netfilter/xt_TCPOPTSTRIP.h", Netfilter_xt_TCPOPTSTRIP.netfilter_xt_TCPOPTSTRIP_types);
  ("linux/netfilter/xt_TPROXY.h", Netfilter_xt_TPROXY.netfilter_xt_TPROXY_types);
  ("linux/netfilter/xt_addrtype.h", Netfilter_xt_addrtype.netfilter_xt_addrtype_types);
  ("linux/netfilter/xt_cgroup.h", Netfilter_xt_cgroup.netfilter_xt_cgroup_types);
  ("linux/netfilter/xt_cluster.h", Netfilter_xt_cluster.netfilter_xt_cluster_types);
  ("linux/netfilter/xt_comment.h", Netfilter_xt_comment.netfilter_xt_comment_types);
  ("linux/netfilter/xt_connbytes.h", Netfilter_xt_connbytes.netfilter_xt_connbytes_types);
  ("linux/netfilter/xt_connlabel.h", Netfilter_xt_connlabel.netfilter_xt_connlabel_types);
  ("linux/netfilter/xt_connmark.h", Netfilter_xt_connmark.netfilter_xt_connmark_types);
  ("linux/netfilter/xt_conntrack.h", Netfilter_xt_conntrack.netfilter_xt_conntrack_types);
  ("linux/netfilter/xt_cpu.h", Netfilter_xt_cpu.netfilter_xt_cpu_types);
  ("linux/netfilter/xt_dccp.h", Netfilter_xt_dccp.netfilter_xt_dccp_types);
  ("linux/netfilter/xt_devgroup.h", Netfilter_xt_devgroup.netfilter_xt_devgroup_types);
  ("linux/netfilter/xt_dscp.h", Netfilter_xt_dscp.netfilter_xt_dscp_types);
  ("linux/netfilter/xt_ecn.h", Netfilter_xt_ecn.netfilter_xt_ecn_types);
  ("linux/netfilter/xt_esp.h", Netfilter_xt_esp.netfilter_xt_esp_types);
  ("linux/netfilter/xt_hashlimit.h", Netfilter_xt_hashlimit.netfilter_xt_hashlimit_types);
  ("linux/netfilter/xt_helper.h", Netfilter_xt_helper.netfilter_xt_helper_types);
  ("linux/netfilter/xt_ipcomp.h", Netfilter_xt_ipcomp.netfilter_xt_ipcomp_types);
  ("linux/netfilter/xt_iprange.h", Netfilter_xt_iprange.netfilter_xt_iprange_types);
  ("linux/netfilter/xt_ipvs.h", Netfilter_xt_ipvs.netfilter_xt_ipvs_types);
  ("linux/netfilter/xt_l2tp.h", Netfilter_xt_l2tp.netfilter_xt_l2tp_types);
  ("linux/netfilter/xt_length.h", Netfilter_xt_length.netfilter_xt_length_types);
  ("linux/netfilter/xt_limit.h", Netfilter_xt_limit.netfilter_xt_limit_types);
  ("linux/netfilter/xt_mac.h", Netfilter_xt_mac.netfilter_xt_mac_types);
  ("linux/netfilter/xt_mark.h", Netfilter_xt_mark.netfilter_xt_mark_types);
  ("linux/netfilter/xt_multiport.h", Netfilter_xt_multiport.netfilter_xt_multiport_types);
  ("linux/netfilter/xt_nfacct.h", Netfilter_xt_nfacct.netfilter_xt_nfacct_types);
  ("linux/netfilter/xt_osf.h", Netfilter_xt_osf.netfilter_xt_osf_types);
  ("linux/netfilter/xt_owner.h", Netfilter_xt_owner.netfilter_xt_owner_types);
  ("linux/netfilter/xt_physdev.h", Netfilter_xt_physdev.netfilter_xt_physdev_types);
  ("linux/netfilter/xt_pkttype.h", Netfilter_xt_pkttype.netfilter_xt_pkttype_types);
  ("linux/netfilter/xt_policy.h", Netfilter_xt_policy.netfilter_xt_policy_types);
  ("linux/netfilter/xt_quota.h", Netfilter_xt_quota.netfilter_xt_quota_types);
  ("linux/netfilter/xt_realm.h", Netfilter_xt_realm.netfilter_xt_realm_types);
  ("linux/netfilter/xt_recent.h", Netfilter_xt_recent.netfilter_xt_recent_types);
  ("linux/netfilter/xt_rpfilter.h", Netfilter_xt_rpfilter.netfilter_xt_rpfilter_types);
  ("linux/netfilter/xt_sctp.h", Netfilter_xt_sctp.netfilter_xt_sctp_types);
  ("linux/netfilter/xt_set.h", Netfilter_xt_set.netfilter_xt_set_types);
  ("linux/netfilter/xt_socket.h", Netfilter_xt_socket.netfilter_xt_socket_types);
  ("linux/netfilter/xt_state.h", Netfilter_xt_state.netfilter_xt_state_types);
  ("linux/netfilter/xt_tcpmss.h", Netfilter_xt_tcpmss.netfilter_xt_tcpmss_types);
  ("linux/netfilter/xt_tcpudp.h", Netfilter_xt_tcpudp.netfilter_xt_tcpudp_types);
  ("linux/netfilter/xt_time.h", Netfilter_xt_time.netfilter_xt_time_types);
  ("linux/netfilter/xt_u32.h", Netfilter_xt_u32.netfilter_xt_u32_types);
  ("linux/netfilter_arp/arp_tables.h", Netfilter_arp_arp_tables.netfilter_arp_arp_tables_types);
  ("linux/netfilter_arp/arpt_mangle.h", Netfilter_arp_arpt_mangle.netfilter_arp_arpt_mangle_types);
  ("linux/netfilter_bridge/ebt_802_3.h", Netfilter_bridge_ebt_802_3.netfilter_bridge_ebt_802_3_types);
  ("linux/netfilter_bridge/ebt_among.h", Netfilter_bridge_ebt_among.netfilter_bridge_ebt_among_types);
  ("linux/netfilter_bridge/ebt_arp.h", Netfilter_bridge_ebt_arp.netfilter_bridge_ebt_arp_types);
  ("linux/netfilter_bridge/ebt_arpreply.h", Netfilter_bridge_ebt_arpreply.netfilter_bridge_ebt_arpreply_types);
  ("linux/netfilter_bridge/ebt_ip.h", Netfilter_bridge_ebt_ip.netfilter_bridge_ebt_ip_types);
  ("linux/netfilter_bridge/ebt_ip6.h", Netfilter_bridge_ebt_ip6.netfilter_bridge_ebt_ip6_types);
  ("linux/netfilter_bridge/ebt_limit.h", Netfilter_bridge_ebt_limit.netfilter_bridge_ebt_limit_types);
  ("linux/netfilter_bridge/ebt_log.h", Netfilter_bridge_ebt_log.netfilter_bridge_ebt_log_types);
  ("linux/netfilter_bridge/ebt_mark_m.h", Netfilter_bridge_ebt_mark_m.netfilter_bridge_ebt_mark_m_types);
  ("linux/netfilter_bridge/ebt_mark_t.h", Netfilter_bridge_ebt_mark_t.netfilter_bridge_ebt_mark_t_types);
  ("linux/netfilter_bridge/ebt_nat.h", Netfilter_bridge_ebt_nat.netfilter_bridge_ebt_nat_types);
  ("linux/netfilter_bridge/ebt_nflog.h", Netfilter_bridge_ebt_nflog.netfilter_bridge_ebt_nflog_types);
  ("linux/netfilter_bridge/ebt_pkttype.h", Netfilter_bridge_ebt_pkttype.netfilter_bridge_ebt_pkttype_types);
  ("linux/netfilter_bridge/ebt_redirect.h", Netfilter_bridge_ebt_redirect.netfilter_bridge_ebt_redirect_types);
  ("linux/netfilter_bridge/ebt_stp.h", Netfilter_bridge_ebt_stp.netfilter_bridge_ebt_stp_types);
  ("linux/netfilter_bridge/ebt_vlan.h", Netfilter_bridge_ebt_vlan.netfilter_bridge_ebt_vlan_types);
  ("linux/netfilter_bridge/ebtables.h", Netfilter_bridge_ebtables.netfilter_bridge_ebtables_types);
  ("linux/netfilter_decnet.h", Netfilter_decnet.netfilter_decnet_types);
  ("linux/netfilter_ipv4/ip_tables.h", Netfilter_ipv4_ip_tables.netfilter_ipv4_ip_tables_types);
  ("linux/netfilter_ipv4/ipt_CLUSTERIP.h", Netfilter_ipv4_ipt_CLUSTERIP.netfilter_ipv4_ipt_CLUSTERIP_types);
  ("linux/netfilter_ipv4/ipt_LOG.h", Netfilter_ipv4_ipt_LOG.netfilter_ipv4_ipt_LOG_types);
  ("linux/netfilter_ipv4/ipt_REJECT.h", Netfilter_ipv4_ipt_REJECT.netfilter_ipv4_ipt_REJECT_types);
  ("linux/netfilter_ipv4/ipt_TTL.h", Netfilter_ipv4_ipt_TTL.netfilter_ipv4_ipt_TTL_types);
  ("linux/netfilter_ipv4/ipt_ah.h", Netfilter_ipv4_ipt_ah.netfilter_ipv4_ipt_ah_types);
  ("linux/netfilter_ipv4/ipt_ttl.h", Netfilter_ipv4_ipt_ttl.netfilter_ipv4_ipt_ttl_types);
  ("linux/netfilter_ipv6/ip6_tables.h", Netfilter_ipv6_ip6_tables.netfilter_ipv6_ip6_tables_types);
  ("linux/netfilter_ipv6/ip6t_HL.h", Netfilter_ipv6_ip6t_HL.netfilter_ipv6_ip6t_HL_types);
  ("linux/netfilter_ipv6/ip6t_LOG.h", Netfilter_ipv6_ip6t_LOG.netfilter_ipv6_ip6t_LOG_types);
  ("linux/netfilter_ipv6/ip6t_NPT.h", Netfilter_ipv6_ip6t_NPT.netfilter_ipv6_ip6t_NPT_types);
  ("linux/netfilter_ipv6/ip6t_REJECT.h", Netfilter_ipv6_ip6t_REJECT.netfilter_ipv6_ip6t_REJECT_types);
  ("linux/netfilter_ipv6/ip6t_ah.h", Netfilter_ipv6_ip6t_ah.netfilter_ipv6_ip6t_ah_types);
  ("linux/netfilter_ipv6/ip6t_frag.h", Netfilter_ipv6_ip6t_frag.netfilter_ipv6_ip6t_frag_types);
  ("linux/netfilter_ipv6/ip6t_hl.h", Netfilter_ipv6_ip6t_hl.netfilter_ipv6_ip6t_hl_types);
  ("linux/netfilter_ipv6/ip6t_ipv6header.h", Netfilter_ipv6_ip6t_ipv6header.netfilter_ipv6_ip6t_ipv6header_types);
  ("linux/netfilter_ipv6/ip6t_mh.h", Netfilter_ipv6_ip6t_mh.netfilter_ipv6_ip6t_mh_types);
  ("linux/netfilter_ipv6/ip6t_opts.h", Netfilter_ipv6_ip6t_opts.netfilter_ipv6_ip6t_opts_types);
  ("linux/netfilter_ipv6/ip6t_rt.h", Netfilter_ipv6_ip6t_rt.netfilter_ipv6_ip6t_rt_types);
  ("linux/netlink.h", Netlink.netlink_types);
  ("linux/netlink_diag.h", Netlink_diag.netlink_diag_types);
  ("linux/netrom.h", Netrom.netrom_types);
  ("linux/nfc.h", Nfc.nfc_types);
  ("linux/nfs_mount.h", Nfs_mount.nfs_mount_types);
  ("linux/nl80211.h", Nl80211.nl80211_types);
  ("linux/openvswitch.h", Openvswitch.openvswitch_types);
  ("linux/packet_diag.h", Packet_diag.packet_diag_types);
  ("linux/phonet.h", Phonet.phonet_types);
  ("linux/pkt_sched.h", Pkt_sched.pkt_sched_types);
  ("linux/pkt_cls.h", Pkt_cls.pkt_cls_types);
  ("linux/rds.h", Rds.rds_types);
  ("linux/rose.h", Rose.rose_types);
  ("linux/rtnetlink.h", Rtnetlink.rtnetlink_types);
  ("linux/scc.h", Scc.scc_types);
  ("linux/sctp.h", Sctp.sctp_types);
  ("linux/sdla.h", Sdla.sdla_types);
  ("linux/sock_diag.h", Sock_diag.sock_diag_types);
  ("linux/sockev.h", Sockev.sockev_types);
  ("linux/tc_act/tc_gact.h", Tc_act_tc_gact.tc_act_tc_gact_types);
  ("linux/tc_act/tc_pedit.h", Tc_act_tc_pedit.tc_act_tc_pedit_types);
  ("linux/tc_ematch/tc_em_meta.h", Tc_ematch_tc_em_meta.tc_ematch_tc_em_meta_types);
  ("linux/tcp.h", Tcp.tcp_types);
  ("linux/tipc.h", Tipc.tipc_types);
  ("linux/tipc_config.h", Tipc_config.tipc_config_types);
  ("linux/un.h", Un.un_types);
  ("linux/unix_diag.h", Unix_diag.unix_diag_types);
  ("linux/wimax/i2400m.h", Wimax_i2400m.wimax_i2400m_types);
  ("linux/wireless.h", Wireless.wireless_types);
  ("linux/x25.h", X25.x25_types);
  ("linux/xfrm.h", Xfrm.xfrm_types)].
Definition abiDevices_types : list (string * list (string * cty)) := [
  ("linux/apm_bios.h", Apm_bios.apm_bios_types);
  ("linux/cm4000_cs.h", Cm4000_cs.cm4000_cs_types);
  ("linux/cyclades.h", Cyclades.cyclades_types);
  ("linux/firewire-cdev.h", Firewire_cdev.firewire_cdev_types);
  ("linux/hbtp_input.h", Hbtp_input.hbtp_input_types);
  ("linux/hbtp_vm.h", Hbtp_vm.hbtp_vm_types);
  ("linux/hiddev.h", Hiddev.hiddev_types);
  ("linux/hidraw.h", Hidraw.hidraw_types);
  ("linux/hpet.h", Hpet.hpet_types);
  ("linux/i2c-dev.h", I2c_dev.i2c_dev_types);
  ("linux/i2c.h", I2c.i2c_types);
  ("linux/iio/events.h", Iio_events.iio_events_types);
  ("linux/input.h", Input.input_types);
  ("linux/ipmi.h", Ipmi.ipmi_types);
  ("linux/joystick.h", Joystick.joystick_types);
  ("linux/kd.h", Kd.kd_types);
  ("linux/map_to_7segment.h", Map_to_7segment.map_to_7segment_types);
  ("linux/maxim_sti.h", Maxim_sti.maxim_sti_types);
  ("linux/mfd/msm-adie-codec.h", Mfd_msm_adie_codec.mfd_msm_adie_codec_types);
  ("linux/mii.h", Mii.mii_types);
  ("linux/msm_pft.h", Msm_pft.msm_pft_types);
  ("linux/nubus.h", Nubus.nubus_types);
  ("linux/parport.h", Parport.parport_types);
  ("linux/phantom.h", Phantom.phantom_types);
  ("linux/ppdev.h", Ppdev.ppdev_types);
  ("linux/pps.h", Pps.pps_types);
  ("linux/ptp_clock.h", Ptp_clock.ptp_clock_types);
  ("linux/qbt1000.h", Qbt1000.qbt1000_types);
  ("linux/random.h", Random.random_types);
  ("linux/rfkill.h", Rfkill.rfkill_types);
  ("linux/rtc.h", Rtc.rtc_types);
  ("linux/serial.h", Serial.serial_types);
  ("linux/spcom.h", Spcom.spcom_types);
  ("linux/spi/spidev.h", Spi_spidev.spi_spidev_types);
  ("linux/synclink.h", Synclink.synclink_types);
  ("linux/toshiba.h", Toshiba.toshiba_types);
  ("linux/tiocl.h", Tiocl.tiocl_types);
  ("linux/uhid.h", Uhid.uhid_types);
  ("linux/uinput.h", Uinput.uinput_types);
  ("linux/usbdevice_fs.h", Usbdevice_fs.usbdevice_fs_types);
  ("linux/vt.h", Vt.vt_types);
  ("linux/watchdog.h", Watchdog.watchdog_types);
  ("linux/zorro.h", Zorro.zorro_types)].

Definition type_tables : list (string * list (string * cty)) :=
  (abiBase_types ++ abiMedia_types ++ abiDisplay_types ++ abiCamera_types ++ abiDrm_types ++
  abiSound_types ++ abiStorage_types ++ abiSystem_types ++ abiNet_types ++ abiKernel_types ++
  abiProto_types ++ abiDevices_types)%list.

Definition commands : list command := concat (map snd tables).

(** ** Exceptions *)

(** Headers with a type or number that does not fit its eight bits. *)
Definition misfit_headers : list string :=
  ["linux/msm_vidc_enc.h"; "linux/msm_audio_anc.h"; "linux/qrng.h"].

(** Equal numbers within a header, on both ABIs. *)
Definition common_clashes : list (string * string) := [
  ("VIDIOC_MSM_FLASH_QUERY_DATA", "VIDIOC_MSM_IR_LED_CFG");
  ("MSM_CAM_V4L2_IOCTL_GET_CAMERA_INFO", "VIDIOC_MSM_CPP_GET_EVENTPAYLOAD");
  ("MSM_CAM_V4L2_IOCTL_GET_CONFIG_INFO", "VIDIOC_MSM_CPP_GET_INST_INFO");
  ("SIOCSNETADDR", "OSIOCSNETADDR"); ("SIOCGNETADDR", "OSIOCGNETADDR");
  ("SND_SET_DEVICE", "CAD_SET_DEVICE"); ("SND_SET_VOLUME", "CAD_SET_VOLUME");
  ("SND_GET_NUM_ENDPOINTS", "CAD_GET_NUM_ENDPOINTS"); ("SND_GET_ENDPOINT", "CAD_GET_ENDPOINT");
  ("KVM_ARM_SET_DEVICE_ADDR", "KVM_GET_ONE_REG"); ("IPA_IOC_NAT_DMA", "IPA_IOC_TABLE_DMA_CMD");
  ("VFIO_DEVICE_GET_PCI_HOT_RESET_INFO", "VFIO_IOMMU_GET_INFO");
  ("VFIO_DEVICE_GET_PCI_HOT_RESET_INFO", "VFIO_IOMMU_SPAPR_TCE_GET_INFO");
  ("VFIO_DEVICE_PCI_HOT_RESET", "VFIO_IOMMU_MAP_DMA");
  ("VFIO_IOMMU_GET_INFO", "VFIO_IOMMU_SPAPR_TCE_GET_INFO")].

(** On a 64-bit ABI only. *)
Definition clashes_64 : list (string * string) := [
  ("IOCTL_KGSL_CFF_USER_EVENT", "IOCTL_KGSL_TIMESTAMP_EVENT_OLD")].

(** On a 32-bit ABI only: each is the 32-bit name of the other. *)
Definition clashes_32 : list (string * string) := [
  ("FS_IOC_GETFLAGS", "FS_IOC32_GETFLAGS"); ("FS_IOC_SETFLAGS", "FS_IOC32_SETFLAGS");
  ("FS_IOC_GETVERSION", "FS_IOC32_GETVERSION"); ("FS_IOC_SETVERSION", "FS_IOC32_SETVERSION");
  ("I2OPASSTHRU", "I2OPASSTHRU32"); ("USBDEVFS_REAPURB", "USBDEVFS_REAPURB32");
  ("USBDEVFS_REAPURBNDELAY", "USBDEVFS_REAPURBNDELAY32")].

Definition known_clashes (A : abi) : list (string * string) :=
  (common_clashes ++ (if word_size A =? 8 then clashes_64 else clashes_32)%Z)%list.

(** Commands with one number and two layouts: a pointer or long stands where the
    other ABI has one and padding. *)
Definition two_layouts : list string := [
  "VIDIOC_MSM_AIS_CLK_CFG_EXT"; "VIDIOC_MSM_EEPROM_CFG"; "AUDIO_GET_EVENT";
  "SNDRV_CTL_IOCTL_ELEM_INFO"; "SNDRV_CTL_IOCTL_ELEM_ADD"; "SNDRV_CTL_IOCTL_ELEM_REPLACE";
  "BTRFS_IOC_SNAP_CREATE_V2"; "BTRFS_IOC_SUBVOL_CREATE_V2"; "BTRFS_IOC_SEND";
  "KVM_GET_DIRTY_LOG"; "IB_USER_MAD_REGISTER_AGENT"].

(** ** Sizes and layouts the headers promise *)

(** Descriptor sizes, [linux/usb/ch9.h], [audio.h] and [video.h]. *)
Definition USB_DT_DEVICE_SIZE : Z := 18.
Definition USB_DT_CONFIG_SIZE : Z := 9.
Definition USB_DT_INTERFACE_SIZE : Z := 9.
Definition USB_DT_ENDPOINT_AUDIO_SIZE : Z := 9.
Definition USB_DT_SS_EP_COMP_SIZE : Z := 6.
Definition USB_DT_INTERFACE_ASSOCIATION_SIZE : Z := 8.
Definition USB_DT_BOS_SIZE : Z := 5.
Definition USB_DT_USB_WIRELESS_CAP_SIZE : Z := 11.
Definition USB_DT_USB_EXT_CAP_SIZE : Z := 7.
Definition USB_DT_USB_SS_CAP_SIZE : Z := 10.
Definition USB_DT_USB_SS_CONTN_ID_SIZE : Z := 20.
Definition USB_DT_USB_PTM_ID_SIZE : Z := 3.
Definition UAC_DT_INPUT_TERMINAL_SIZE : Z := 12.
Definition UAC_DT_OUTPUT_TERMINAL_SIZE : Z := 9.
Definition UAC_DT_AS_HEADER_SIZE : Z := 7.
Definition UVC_DT_INPUT_TERMINAL_SIZE : Z := 8.
Definition UVC_DT_OUTPUT_TERMINAL_SIZE : Z := 9.
Definition UVC_DT_CONTROL_ENDPOINT_SIZE : Z := 5.
Definition UVC_DT_COLOR_MATCHING_SIZE : Z := 6.
Definition UVC_DT_FORMAT_UNCOMPRESSED_SIZE : Z := 27.
Definition UVC_DT_FORMAT_MJPEG_SIZE : Z := 11.

Definition descriptor_sizes : list (string * cty * Z) := [
  ("usb_device_descriptor", Usb_ch9.usb_device_descriptor, USB_DT_DEVICE_SIZE);
  ("usb_config_descriptor", Usb_ch9.usb_config_descriptor, USB_DT_CONFIG_SIZE);
  ("usb_interface_descriptor", Usb_ch9.usb_interface_descriptor, USB_DT_INTERFACE_SIZE);
  ("usb_endpoint_descriptor", Usb_ch9.usb_endpoint_descriptor, USB_DT_ENDPOINT_AUDIO_SIZE);
  ("usb_ss_ep_comp_descriptor", Usb_ch9.usb_ss_ep_comp_descriptor, USB_DT_SS_EP_COMP_SIZE);
  ("usb_interface_assoc_descriptor", Usb_ch9.usb_interface_assoc_descriptor, USB_DT_INTERFACE_ASSOCIATION_SIZE);
  ("usb_bos_descriptor", Usb_ch9.usb_bos_descriptor, USB_DT_BOS_SIZE);
  ("usb_wireless_cap_descriptor", Usb_ch9.usb_wireless_cap_descriptor, USB_DT_USB_WIRELESS_CAP_SIZE);
  ("usb_ext_cap_descriptor", Usb_ch9.usb_ext_cap_descriptor, USB_DT_USB_EXT_CAP_SIZE);
  ("usb_ss_cap_descriptor", Usb_ch9.usb_ss_cap_descriptor, USB_DT_USB_SS_CAP_SIZE);
  ("usb_ss_container_id_descriptor", Usb_ch9.usb_ss_container_id_descriptor, USB_DT_USB_SS_CONTN_ID_SIZE);
  ("usb_ptm_cap_descriptor", Usb_ch9.usb_ptm_cap_descriptor, USB_DT_USB_PTM_ID_SIZE);
  ("uac_input_terminal_descriptor", Usb_audio.uac_input_terminal_descriptor, UAC_DT_INPUT_TERMINAL_SIZE);
  ("uac1_output_terminal_descriptor", Usb_audio.uac1_output_terminal_descriptor, UAC_DT_OUTPUT_TERMINAL_SIZE);
  ("uac1_as_header_descriptor", Usb_audio.uac1_as_header_descriptor, UAC_DT_AS_HEADER_SIZE);
  ("uvc_input_terminal_descriptor", Usb_video.uvc_input_terminal_descriptor, UVC_DT_INPUT_TERMINAL_SIZE);
  ("uvc_output_terminal_descriptor", Usb_video.uvc_output_terminal_descriptor, UVC_DT_OUTPUT_TERMINAL_SIZE);
  ("uvc_control_endpoint_descriptor", Usb_video.uvc_control_endpoint_descriptor, UVC_DT_CONTROL_ENDPOINT_SIZE);
  ("uvc_color_matching_descriptor", Usb_video.uvc_color_matching_descriptor, UVC_DT_COLOR_MATCHING_SIZE);
  ("uvc_format_uncompressed", Usb_video.uvc_format_uncompressed, UVC_DT_FORMAT_UNCOMPRESSED_SIZE);
  ("uvc_format_mjpeg", Usb_video.uvc_format_mjpeg, UVC_DT_FORMAT_MJPEG_SIZE)].

(** Each message of [linux/pfkeyv2.h] is followed by a comment with its size. *)
Definition pfkeyv2_sizes : list (string * cty * Z) := [
  ("sadb_msg", Pfkeyv2.sadb_msg, 16);
  ("sadb_ext", Pfkeyv2.sadb_ext, 4);
  ("sadb_sa", Pfkeyv2.sadb_sa, 16);
  ("sadb_lifetime", Pfkeyv2.sadb_lifetime, 32);
  ("sadb_address", Pfkeyv2.sadb_address, 8);
  ("sadb_key", Pfkeyv2.sadb_key, 8);
  ("sadb_ident", Pfkeyv2.sadb_ident, 16);
  ("sadb_sens", Pfkeyv2.sadb_sens, 16);
  ("sadb_prop", Pfkeyv2.sadb_prop, 8);
  ("sadb_comb", Pfkeyv2.sadb_comb, 72);
  ("sadb_supported", Pfkeyv2.sadb_supported, 8);
  ("sadb_alg", Pfkeyv2.sadb_alg, 8);
  ("sadb_spirange", Pfkeyv2.sadb_spirange, 16);
  ("sadb_x_kmprivate", Pfkeyv2.sadb_x_kmprivate, 8);
  ("sadb_x_sa2", Pfkeyv2.sadb_x_sa2, 16);
  ("sadb_x_policy", Pfkeyv2.sadb_x_policy, 16);
  ("sadb_x_ipsecrequest", Pfkeyv2.sadb_x_ipsecrequest, 16);
  ("sadb_x_nat_t_type", Pfkeyv2.sadb_x_nat_t_type, 8);
  ("sadb_x_nat_t_port", Pfkeyv2.sadb_x_nat_t_port, 8);
  ("sadb_sec_ctx", Pfkeyv2.sadb_x_sec_ctx, 8);
  ("sadb_x_kmaddress", Pfkeyv2.sadb_x_kmaddress, 8);
  ("sadb_x_filter", Pfkeyv2.sadb_x_filter, 40)].

(** Arguments padded to a size that a comment of [linux/btrfs.h] gives. *)
Definition btrfs_sizes : list (string * cty * Z) := [
  ("btrfs_ioctl_scrub_args", Btrfs.btrfs_ioctl_scrub_args, 1024);
  ("btrfs_ioctl_dev_info_args", Btrfs.btrfs_ioctl_dev_info_args, 4096);
  ("btrfs_ioctl_fs_info_args", Btrfs.btrfs_ioctl_fs_info_args, 1024);
  ("btrfs_ioctl_balance_args", Btrfs.btrfs_ioctl_balance_args, 1024);
  ("btrfs_ioctl_get_dev_stats", Btrfs.btrfs_ioctl_get_dev_stats, 1024)].

(** Headers whose comments say that their structures have one layout for 32-bit
    and 64-bit programs. *)
Definition promising_headers : list string := [
  "rdma/ib_user_verbs.h"; "rdma/ib_user_mad.h"; "linux/fuse.h"; "linux/ethtool.h";
  "drm/msm_drm.h"; "drm/qxl_drm.h"; "drm/virtgpu_drm.h"; "linux/spi/spidev.h"; "linux/pps.h";
  "linux/usb/functionfs.h"; "linux/usb/gadgetfs.h"].

(** Where that fails: one array of pointers, and on the ABI that aligns 64-bit
    integers to 4 the structures that rely on their being aligned to 8. *)
Definition broken_promises (A : abi) : list string :=
  "ethtool_tunable" ::
  (if (align_64 A =? 8)%Z then [] else [
    "ethtool_rx_flow_spec"; "ethtool_rxnfc"; "ethtool_rx_ntuple_flow_spec"; "ethtool_rx_ntuple";
    "drm_msm_event_req"; "drm_msm_event_resp"; "drm_msm_counter_read"; "drm_msm_gem_sync";
    "drm_msm_submitqueue_query"; "pps_kinfo"; "pps_fdata"]).

Definition types : list (string * string * cty) :=
  concat (map (fun h => map (fun n => (h.1, n.1, n.2)) h.2) type_tables).

(** ** The tables, checked *)

Definition pair_in (l : list (string * string)) (p : string * string) : bool :=
  existsb (fun q => (p.1 =? q.1) && (p.2 =? q.2)) l.
Definition name_in (l : list string) (n : string) : bool := existsb (String.eqb n) l.

Lemma pair_in_spec l p : pair_in l p = true <-> p ∈ l.
Proof.
  unfold pair_in. rewrite existsb_exists, list_elem_of_In. split.
  - intros ([a b] & Hq & [Ha%String.eqb_eq Hb%String.eqb_eq]%andb_true_iff). destruct p.
    simpl in *. by subst.
  - intros Hp. exists p. by rewrite !String.eqb_refl.
Qed.

Lemma name_in_spec l n : name_in l n = true <-> n ∈ l.
Proof.
  unfold name_in. rewrite existsb_exists, list_elem_of_In. split.
  - by intros (m & Hm & ->%String.eqb_eq).
  - intros Hn. exists n. by rewrite String.eqb_refl.
Qed.

Definition types_checked : bool :=
  forallb (fun c => forallb (fun A => match cmd_arg c A with Some t => wf_cty t | None => true end)
                      [lp64; ilp32]) commands.
Definition fits_checked (A : abi) : bool :=
  forallb (fun tbl => if name_in misfit_headers tbl.1 then forallb (fun c => negb (cmd_fits A c)) tbl.2
                      else forallb (cmd_fits A) tbl.2) tables.
Definition clashes_checked (A : abi) : bool :=
  let found := concat (map (fun tbl => clashes (named A tbl.2)) tables) in
  forallb (pair_in (known_clashes A)) found && forallb (pair_in found) (known_clashes A).
Definition layouts_checked : bool :=
  forallb (fun c => match cmd_arg c lp64, cmd_arg c ilp32 with
                    | Some t, Some u =>
                        implb (number lp64 c =? number ilp32 c)%Z
                          (Bool.eqb (cty_eqb t u && same_layout lp64 ilp32 t)
                             (negb (name_in two_layouts (cmd_name c))))
                    | _, _ => true
                    end) commands.

(** Documented sizes, with the name of the exception. *)
Definition sizes_checked (A : abi) : bool :=
  forallb (fun r => Bool.eqb (sizeof A r.1.2 =? r.2)%Z (negb (r.1.1 =? "btrfs_ioctl_get_dev_stats")))
    (descriptor_sizes ++ pfkeyv2_sizes ++ btrfs_sizes)%list.
Definition promises_checked (A : abi) : bool :=
  forallb (fun r => implb (name_in promising_headers r.1.1)
                      (Bool.eqb (same_layout lp64 A r.2) (negb (name_in (broken_promises A) r.1.2)))) types.

(** Unfold these before the loops they contain. *)
#[local] Strategy expand [types_checked fits_checked clashes_checked layouts_checked sizes_checked promises_checked].

Lemma types_check : types_checked = true.
Proof. by vm_compute. Qed.

Lemma fits_check A : A ∈ [lp64; ilp32] -> fits_checked A = true.
Proof. rewrite !elem_of_cons, elem_of_nil. intros [->|[->|[]]]; by vm_compute. Qed.

Lemma clashes_check A : A ∈ [lp64; ilp32] -> clashes_checked A = true.
Proof. rewrite !elem_of_cons, elem_of_nil. intros [->|[->|[]]]; by vm_compute. Qed.

Lemma layouts_check : layouts_checked = true.
Proof. by vm_compute. Qed.

Lemma wf_check : forallb (fun r => wf_cty r.2) types = true.
Proof. by vm_compute. Qed.

Lemma sizes_check A : A ∈ [lp64; ilp32; i386] -> sizes_checked A = true.
Proof. rewrite !elem_of_cons, elem_of_nil. intros [->|[->|[->|[]]]]; by vm_compute. Qed.

Lemma promises_check A : A ∈ [ilp32; i386] -> promises_checked A = true.
Proof. rewrite !elem_of_cons, elem_of_nil. intros [->|[->|[]]]; by vm_compute. Qed.

Lemma commands_lookup tbl c : tbl ∈ tables -> c ∈ tbl.2 -> c ∈ commands.
Proof.
  intros Ht Hc. apply list_elem_of_In, in_concat. exists tbl.2.
  split; [|by apply list_elem_of_In]. apply in_map, list_elem_of_In, Ht.
Qed.

Lemma arg_wf A c t :
  A ∈ [lp64; ilp32] -> c ∈ commands -> cmd_arg c A = Some t -> wf_cty t = true.
Proof.
  intros HA%list_elem_of_In Hc%list_elem_of_In Ht. pose proof types_check as Hk.
  unfold types_checked in Hk. rewrite forallb_forall in Hk. specialize (Hk c Hc).
  rewrite forallb_forall in Hk. specialize (Hk A HA). by rewrite Ht in Hk.
Qed.

(** ** Theorems *)

Lemma ion_in_tables : ("linux/ion.h", Ion.ion_ioctls) ∈ tables.
Proof. by apply (list_elem_of_lookup_2 _ 26%nat). Qed.
Lemma btrfs_in_tables : ("linux/btrfs.h", Btrfs.btrfs_ioctls) ∈ tables.
Proof. by apply (list_elem_of_lookup_2 _ 117%nat). Qed.

Lemma types_lookup i j h l n t :
  type_tables !! i = Some (h, l) -> l !! j = Some (n, t) -> (h, n, t) ∈ types.
Proof.
  intros Hi%list_elem_of_lookup_2%list_elem_of_In Hj%list_elem_of_lookup_2%list_elem_of_In.
  apply list_elem_of_In, in_concat. exists (map (fun n => (h, n.1, n.2)) l).
  split; apply in_map_iff; [by exists (h, l)|by exists (n, t)].
Qed.

Lemma fuse_type : ("linux/fuse.h", "fuse_attr", Fuse.fuse_attr) ∈ types.
Proof. by eapply (types_lookup 165 0). Qed.

(** The record sizes with which the walks of [Netlink] and the rings of [Vring]
    step are the sizes of the structures the headers declare. *)
Lemma record_sizes_agree (A : abi) : A ∈ [lp64; ilp32; i386] ->
  Forall (fun r => sizeof A <$> declared r.1.1 r.1.2 = Some r.2) [
    (AbiProto.Netlink.netlink_types, "nlmsghdr", sizeof_nlmsghdr);
    (AbiProto.Rtnetlink.rtnetlink_types, "rtattr", sizeof_rtattr);
    (AbiProto.Rtnetlink.rtnetlink_types, "rtnexthop", sizeof_rtnexthop);
    (Fanotify.fanotify_types, "fanotify_event_metadata", FAN_EVENT_METADATA_LEN);
    (Virtio_ring.virtio_ring_types, "vring_desc", sizeof_vring_desc);
    (Virtio_ring.virtio_ring_types, "vring_used_elem", sizeof_vring_used_elem)].
Proof. rewrite !elem_of_cons, elem_of_nil. intros [->|[->|[->|[]]]]; by repeat constructor. Qed.

#[local] Opaque tables types.



(** C17. Within a header, two commands have the same number exactly for the pairs
    listed: everywhere else a driver that switches on the number tells its
    commands apart, on both ABIs. *)
Theorem numbers_distinct (A : abi) (n m : string) :
  A ∈ [lp64; ilp32] ->
  (n, m) ∈ known_clashes A <->
  exists tbl i j c d, tbl ∈ tables /\ (i < j)%nat /\ tbl.2 !! i = Some c /\ tbl.2 !! j = Some d /\
    cmd_name c = n /\ cmd_name d = m /\ number A c = number A d.
Proof.
  intros HA. pose proof (clashes_check A HA) as [H1 H2]%andb_true_iff.
  rewrite forallb_forall in H1, H2. split.
  - intros Hk%list_elem_of_In%H2%pair_in_spec%list_elem_of_In%in_concat.
    destruct Hk as (l & (tbl & <- & Ht)%in_map_iff & Hp%list_elem_of_In%clashes_named).
    destruct Hp as (i & j & c & d & Hp). exists tbl, i, j, c, d. split; [by apply list_elem_of_In|done].
  - intros (tbl & i & j & c & d & Ht & Hp). apply pair_in_spec, H1, in_concat.
    exists (clashes (named A tbl.2)). split.
    + apply in_map_iff. exists tbl. split; [done|by apply list_elem_of_In].
    + apply list_elem_of_In, clashes_named. by exists i, j, c, d.
Qed.

Lemma numbers_distinct_witness :
  (("SND_SET_DEVICE", "CAD_SET_DEVICE") ∈ known_clashes lp64 <->
   exists tbl i j c d, tbl ∈ tables /\ (i < j)%nat /\ tbl.2 !! i = Some c /\ tbl.2 !! j = Some d /\
     cmd_name c = "SND_SET_DEVICE" /\ cmd_name d = "CAD_SET_DEVICE" /\ number lp64 c = number lp64 d) /\
  pair_in (known_clashes lp64) ("SND_SET_DEVICE", "CAD_SET_DEVICE") = true.
Proof.
  split; [|by vm_compute].
  apply (numbers_distinct lp64 "SND_SET_DEVICE" "CAD_SET_DEVICE").
  by apply (list_elem_of_lookup_2 _ 0%nat).
Defined.

(** C24 A 64-bit kernel may serve a command of a 32-bit program without
    translation when the numbers agree: the argument is then of the same type with
    the same layout on both sides, every member is read where it was written,
    except for the commands listed, whose number agrees although a member changes
    its width. Among those is IB_USER_MAD_REGISTER_AGENT, whose mask of 128 bits is
    an array of two words on one side and of four on the other. *)
Theorem same_number_same_layout (c : command) (t u : cty) :
  c ∈ commands -> cmd_arg c lp64 = Some t -> cmd_arg c ilp32 = Some u ->
  number lp64 c = number ilp32 c ->
  if decide (cmd_name c ∈ two_layouts) then t <> u \/ same_layout lp64 ilp32 t = false
  else t = u /\ sizeof lp64 t = sizeof ilp32 u /\
       forall (BO : ByteOrder) b p m, load_path lp64 t b p m = load_path ilp32 u b p m.
Proof.
  intros Hc%list_elem_of_In Ht Hu Hn. pose proof layouts_check as Hk. unfold layouts_checked in Hk.
  rewrite forallb_forall in Hk. specialize (Hk c Hc). rewrite Ht, Hu, Hn, Z.eqb_refl in Hk. unfold implb in Hk.
  apply Bool.eqb_prop in Hk. case_decide as Hm.
  - apply name_in_spec in Hm. rewrite Hm in Hk. apply andb_false_iff in Hk as [Hk|Hk]; [left|by right].
    intros <-. by rewrite cty_eqb_refl in Hk.
  - destruct (name_in two_layouts (cmd_name c)) eqn:E; [by apply name_in_spec in E|].
    apply andb_true_iff in Hk as [<-%cty_eqb_eq Hk].
    split_and!; [done|by apply same_layout_sizeof|]. intros BO b p m. by apply same_layout_load.
Qed.

Lemma same_number_same_layout_witness :
  number lp64 (_IOW "BTRFS_IOC_CLONE_RANGE" 0x94 13 Btrfs.btrfs_ioctl_clone_range_args)
  = number ilp32 (_IOW "BTRFS_IOC_CLONE_RANGE" 0x94 13 Btrfs.btrfs_ioctl_clone_range_args) /\
  Btrfs.btrfs_ioctl_clone_range_args = Btrfs.btrfs_ioctl_clone_range_args /\
  sizeof lp64 Btrfs.btrfs_ioctl_clone_range_args = sizeof ilp32 Btrfs.btrfs_ioctl_clone_range_args /\
  forall (BO : ByteOrder) b p m,
    load_path lp64 Btrfs.btrfs_ioctl_clone_range_args b p m
    = load_path ilp32 Btrfs.btrfs_ioctl_clone_range_args b p m.
Proof.
  split; [by vm_compute|].
  pose proof (same_number_same_layout
    (_IOW "BTRFS_IOC_CLONE_RANGE" 0x94 13 Btrfs.btrfs_ioctl_clone_range_args)
    Btrfs.btrfs_ioctl_clone_range_args Btrfs.btrfs_ioctl_clone_range_args) as Hs.
  rewrite decide_False in Hs by (apply (bool_decide_unpack _); by vm_compute).
  apply Hs; [|done|done|by vm_compute]. apply (commands_lookup ("linux/btrfs.h", Btrfs.btrfs_ioctls)).
  - apply btrfs_in_tables.
  - by apply (list_elem_of_lookup_2 _ 11%nat).
Defined.

(** What the agreement of two layouts guards against. BTRFS_IOC_SEND has one
    number on both ABIs, so a 64-bit kernel takes a 32-bit program's argument as
    it is; the pointer to the clone sources it reads has the program's pointer in
    its low half and the structure's padding in its high half. *)
Theorem send_args_misread (m : bytes) (b : nat) (ptr32 padding : Z) :
  ld (BO := false) 4 m (b + 16) = Some ptr32 -> ld (BO := false) 4 m (b + 20) = Some padding ->
  let send := _IOW "BTRFS_IOC_SEND" 0x94 38 Btrfs.btrfs_ioctl_send_args in
  number lp64 send = number ilp32 send /\
  load_path (BO := false) ilp32 Btrfs.btrfs_ioctl_send_args b [Mem 2] m = Some ptr32 /\
  load_path (BO := false) lp64 Btrfs.btrfs_ioctl_send_args b [Mem 2] m = Some (ptr32 + 2 ^ 32 * padding).
Proof.
  intros Hx Hy send. split; [by vm_compute|]. unfold load_path.
  change (locate ilp32 Btrfs.btrfs_ioctl_send_args [Mem 2]) with (Some (16, Word)).
  change (locate lp64 Btrfs.btrfs_ioctl_send_args [Mem 2]) with (Some (16, Word)).
  split; [exact Hx|]. apply (ld_split 4 4 m (b + 16)); [exact Hx|].
  by rewrite <- Nat.add_assoc.
Qed.

Lemma send_args_misread_witness :
  let send := _IOW "BTRFS_IOC_SEND" 0x94 38 Btrfs.btrfs_ioctl_send_args in
  number lp64 send = number ilp32 send /\
  load_path (BO := false) ilp32 Btrfs.btrfs_ioctl_send_args 0 [Mem 2] (replicate 72 1) = Some 0x01010101 /\
  load_path (BO := false) lp64 Btrfs.btrfs_ioctl_send_args 0 [Mem 2] (replicate 72 1)
  = Some (0x01010101 + 2 ^ 32 * 0x01010101).
Proof. by apply (send_args_misread (replicate 72 1) 0 0x01010101 0x01010101). Defined.

(** The general facts on layouts hold of the types of the tables, which are well
    formed: what an access path denotes lies inside the object and, unless the type
    has a packed part, at a multiple of its alignment. This does not depend on the
    members a structure has. *)
Theorem layouts_sound (A : abi) (h n : string) (t : cty) (p : list step) (o : Z) (u : cty) :
  abi_ok A -> (h, n, t) ∈ types -> locate A t p = Some (o, u) ->
  0 <= o /\ 0 <= sizeof A u /\ o + sizeof A u <= sizeof A t /\ Z.divide (alignof A t) (sizeof A t) /\
  (no_packed t = true -> Z.divide (alignof A u) o /\ Z.divide (alignof A u) (alignof A t)).
Proof.
  intros HA Ht%list_elem_of_In Hl. pose proof wf_check as Hw. rewrite forallb_forall in Hw.
  specialize (Hw _ Ht). cbn [fst snd] in Hw. destruct (locate_bounds A HA p t o u Hw Hl) as (? & ? & ?).
  split_and!; [done..|apply (layout_ok A HA t Hw)|]. intros Hn. by apply (locate_aligned A HA p t).
Qed.

Lemma layouts_sound_witness :
  0 <= 48 /\ 0 <= 4 /\ 48 + 4 <= sizeof lp64 Fuse.fuse_attr /\
  Z.divide (alignof lp64 Fuse.fuse_attr) (sizeof lp64 Fuse.fuse_attr) /\
  (no_packed Fuse.fuse_attr = true -> Z.divide 4 48 /\ Z.divide 4 (alignof lp64 Fuse.fuse_attr)).
Proof.
  apply (layouts_sound lp64 "linux/fuse.h" "fuse_attr" Fuse.fuse_attr [Mem 6] 48 (Int 4)).
  - split; apply (bool_decide_unpack _); by vm_compute.
  - apply fuse_type.
  - by vm_compute.
Defined.

(** The sizes the headers state are the sizes of the structures, on every
    ABI: the USB, audio and video descriptor lengths, the PF_KEY messages and
    the padded btrfs arguments, except [btrfs_ioctl_get_dev_stats], which is 1032
    bytes and not the kilobyte its comment says. *)
Theorem documented_sizes (A : abi) (n : string) (t : cty) (size : Z) :
  A ∈ [lp64; ilp32; i386] ->
  (n, t, size) ∈ (descriptor_sizes ++ pfkeyv2_sizes ++ btrfs_sizes)%list ->
  sizeof A t = size <-> n <> "btrfs_ioctl_get_dev_stats".
Proof.
  intros HA Ht%list_elem_of_In. pose proof (sizes_check A HA) as Hk. unfold sizes_checked in Hk.
  rewrite forallb_forall in Hk. specialize (Hk _ Ht). cbn [fst snd] in Hk.
  apply Bool.eqb_prop in Hk. rewrite <- Z.eqb_eq, Hk, negb_true_iff, String.eqb_neq. done.
Qed.

Lemma documented_sizes_witness :
  (sizeof lp64 Usb_ch9.usb_endpoint_descriptor = 9 <->
   "usb_endpoint_descriptor" <> "btrfs_ioctl_get_dev_stats").
Proof.
  apply (documented_sizes lp64 "usb_endpoint_descriptor" Usb_ch9.usb_endpoint_descriptor 9).
  - by apply (list_elem_of_lookup_2 _ 0%nat).
  - by apply (list_elem_of_lookup_2 _ 3%nat).
Defined.

(** Every structure of the headers that promise one layout for 32-bit and
    64-bit programs has it, for 32-bit Arm and for an ABI that aligns 64-bit
    integers to 4: each member is read where it was written. The structures
    listed break the promise. *)
Theorem promised_layouts (A : abi) (h n : string) (t : cty) :
  A ∈ [ilp32; i386] -> (h, n, t) ∈ types -> h ∈ promising_headers ->
  if decide (n ∈ broken_promises A) then same_layout lp64 A t = false
  else sizeof lp64 t = sizeof A t /\
       forall (BO : ByteOrder) b p m, load_path lp64 t b p m = load_path A t b p m.
Proof.
  intros HA Ht%list_elem_of_In Hh. pose proof (promises_check A HA) as Hk. unfold promises_checked in Hk.
  rewrite forallb_forall in Hk. specialize (Hk _ Ht). cbn [fst snd] in Hk.
  rewrite (proj2 (name_in_spec _ _) Hh) in Hk. unfold implb in Hk. apply Bool.eqb_prop in Hk.
  case_decide as Hm.
  - apply name_in_spec in Hm. by rewrite Hm in Hk.
  - destruct (name_in (broken_promises A) n) eqn:E; [by apply name_in_spec in E|].
    split; [by apply same_layout_sizeof|]. intros BO b p m. by apply same_layout_load.
Qed.

Lemma promised_layouts_witness :
  sizeof lp64 Fuse.fuse_attr = sizeof i386 Fuse.fuse_attr /\
  forall (BO : ByteOrder) b p m,
    load_path lp64 Fuse.fuse_attr b p m = load_path i386 Fuse.fuse_attr b p m.
Proof.
  pose proof (promised_layouts i386 "linux/fuse.h" "fuse_attr" Fuse.fuse_attr) as Hp.
  rewrite decide_False in Hp by (apply (bool_decide_unpack _); by vm_compute).
  apply Hp; [by apply (list_elem_of_lookup_2 _ 1%nat)|apply fuse_type|].
  by apply (list_elem_of_lookup_2 _ 2%nat).
Defined.
