(* ===== verification/UsbDesc.v ===== *)
(** * USB descriptors

    The accessors of endpoint descriptors of [kernel-headers/linux/usb/ch9.h] and
    of the audio control units of [kernel-headers/linux/usb/audio.h]. A
    descriptor is the list of its bytes, from the structure's first; every read
    is checked. A shift of an [int] into or past the sign bit has no value. The
    descriptor layouts of the audio class, in both versions, are given by the
    encoders [mixer_bytes] and [processing_bytes], which the accessors invert. *)
From S2P Require Import Prelude.
From S2P Require Import Byteorder.
From S2P Require Import Memory.

(** ** Endpoints *)

Definition USB_DIR_OUT : Z := 0.
Definition USB_DIR_IN : Z := 0x80.
Definition USB_ENDPOINT_NUMBER_MASK : Z := 0x0f.
Definition USB_ENDPOINT_DIR_MASK : Z := 0x80.
Definition USB_ENDPOINT_XFERTYPE_MASK : Z := 0x03.
Definition USB_ENDPOINT_XFER_CONTROL : Z := 0.
Definition USB_ENDPOINT_XFER_ISOC : Z := 1.
Definition USB_ENDPOINT_XFER_BULK : Z := 2.
Definition USB_ENDPOINT_XFER_INT : Z := 3.
Definition USB_ENDPOINT_INTRTYPE : Z := 0x30.

(** Members of [struct usb_endpoint_descriptor]. *)
Definition bEndpointAddress (epd : bytes) : option Z := rd epd 2.
Definition bmAttributes (epd : bytes) : option Z := rd epd 3.

Definition usb_endpoint_num (epd : bytes) : option Z :=
  a ← bEndpointAddress epd; Some (a &&& USB_ENDPOINT_NUMBER_MASK).
Definition usb_endpoint_type (epd : bytes) : option Z :=
  a ← bmAttributes epd; Some (a &&& USB_ENDPOINT_XFERTYPE_MASK).
Definition usb_endpoint_dir_in (epd : bytes) : option bool :=
  a ← bEndpointAddress epd; Some ((a &&& USB_ENDPOINT_DIR_MASK) =? USB_DIR_IN).
Definition usb_endpoint_dir_out (epd : bytes) : option bool :=
  a ← bEndpointAddress epd; Some ((a &&& USB_ENDPOINT_DIR_MASK) =? USB_DIR_OUT).
Definition usb_endpoint_xfer_bulk (epd : bytes) : option bool :=
  a ← bmAttributes epd; Some ((a &&& USB_ENDPOINT_XFERTYPE_MASK) =? USB_ENDPOINT_XFER_BULK).
Definition usb_endpoint_xfer_control (epd : bytes) : option bool :=
  a ← bmAttributes epd; Some ((a &&& USB_ENDPOINT_XFERTYPE_MASK) =? USB_ENDPOINT_XFER_CONTROL).
Definition usb_endpoint_xfer_int (epd : bytes) : option bool :=
  a ← bmAttributes epd; Some ((a &&& USB_ENDPOINT_XFERTYPE_MASK) =? USB_ENDPOINT_XFER_INT).
Definition usb_endpoint_xfer_isoc (epd : bytes) : option bool :=
  a ← bmAttributes epd; Some ((a &&& USB_ENDPOINT_XFERTYPE_MASK) =? USB_ENDPOINT_XFER_ISOC).

(** [a && b], [b] evaluated only when [a] holds. *)
Definition and_then (a b : option bool) : option bool :=
  x ← a; if (x : bool) then b else Some false.

Definition usb_endpoint_is_bulk_in (epd : bytes) : option bool :=
  and_then (usb_endpoint_xfer_bulk epd) (usb_endpoint_dir_in epd).
Definition usb_endpoint_is_bulk_out (epd : bytes) : option bool :=
  and_then (usb_endpoint_xfer_bulk epd) (usb_endpoint_dir_out epd).
Definition usb_endpoint_is_int_in (epd : bytes) : option bool :=
  and_then (usb_endpoint_xfer_int epd) (usb_endpoint_dir_in epd).
Definition usb_endpoint_is_int_out (epd : bytes) : option bool :=
  and_then (usb_endpoint_xfer_int epd) (usb_endpoint_dir_out epd).
Definition usb_endpoint_is_isoc_in (epd : bytes) : option bool :=
  and_then (usb_endpoint_xfer_isoc epd) (usb_endpoint_dir_in epd).
Definition usb_endpoint_is_isoc_out (epd : bytes) : option bool :=
  and_then (usb_endpoint_xfer_isoc epd) (usb_endpoint_dir_out epd).
Definition usb_endpoint_interrupt_type (epd : bytes) : option Z :=
  a ← bmAttributes epd; Some (a &&& USB_ENDPOINT_INTRTYPE).

(** The member is loaded in the order of the host, whose conversion is the one
    of its byte order header. *)
Definition usb_endpoint_maxp `{ByteOrder, SwabArch} (epd : bytes) : option Z :=
  w ← ld16 epd 4;
  Some (if big_endian then BigEndian.__le16_to_cpu w else LittleEndian.__le16_to_cpu w).

(** [comp] is [None] for a null pointer. *)
Definition usb_ss_max_streams (comp : option bytes) : option Z :=
  match comp with
  | None => Some 0
  | Some comp =>
      a ← rd comp 3;
      let max_streams := a &&& 0x1f in
      if max_streams =? 0 then Some 0 else int_val (1 ≪ max_streams)
  end.

Definition USB_SS_MULT (p : Z) : Z := 1 + (p &&& 0x3).

(** ** Audio units *)

Definition UAC_VERSION_1 : Z := 0x00.
Definition UAC_VERSION_2 : Z := 0x20.

(** [p[i]], a negative index lies outside. *)
Definition rdz (d : bytes) (i : Z) : option Z := if i <? 0 then None else rd d (Z.to_nat i).

(** Offset of [baSourceID] in the two unit descriptors, and of [bNrInPins]. *)
Definition mixer_sources : Z := 5.
Definition mixer_pins : Z := 4.
Definition processing_sources : Z := 7.
Definition processing_pins : Z := 6.

(** [desc->baSourceID[desc->bNrInPins + k]] *)
Definition after_sources (pins sources : Z) (d : bytes) (k : Z) : option Z :=
  n ← rdz d pins; rdz d (sources + n + k).

(** The [int] expression of both [wChannelConfig] accessors. *)
Definition channel_config (pins sources : Z) (d : bytes) (protocol : Z) : option Z :=
  let at_ k := after_sources pins sources d k in
  if protocol =? UAC_VERSION_1 then
    b2 ← at_ 2; b1 ← at_ 1; Some (u32 ((b2 ≪ 8) ||| b1))
  else
    b4 ← at_ 4; h ← int_val (b4 ≪ 24);
    b3 ← at_ 3; b2 ← at_ 2; b1 ← at_ 1;
    Some (u32 (h ||| (b3 ≪ 16) ||| (b2 ≪ 8) ||| b1)).

Definition uac_mixer_unit_bNrChannels (d : bytes) : option Z :=
  after_sources mixer_pins mixer_sources d 0.
Definition uac_mixer_unit_wChannelConfig (d : bytes) (protocol : Z) : option Z :=
  channel_config mixer_pins mixer_sources d protocol.
Definition uac_mixer_unit_iChannelNames (d : bytes) (protocol : Z) : option Z :=
  after_sources mixer_pins mixer_sources d (if protocol =? UAC_VERSION_1 then 3 else 5).
(** A pointer is the offset in the descriptor. *)
Definition uac_mixer_unit_bmControls (d : bytes) (protocol : Z) : option Z :=
  n ← rdz d mixer_pins;
  Some (mixer_sources + n + (if protocol =? UAC_VERSION_1 then 4 else 6)).
Definition uac_mixer_unit_iMixer (d : bytes) : option Z :=
  l ← rdz d 0; rdz d (l - 1).

Definition uac_selector_unit_iSelector (d : bytes) : option Z :=
  l ← rdz d 0; rdz d (l - 1).
Definition uac_feature_unit_iFeature (d : bytes) : option Z :=
  l ← rdz d 0; rdz d (l - 1).
Definition UAC_DT_FEATURE_UNIT_SIZE (ch : Z) : Z := 7 + (ch + 1) * 2.

Definition uac_processing_unit_bNrChannels (d : bytes) : option Z :=
  after_sources processing_pins processing_sources d 0.
Definition uac_processing_unit_wChannelConfig (d : bytes) (protocol : Z) : option Z :=
  channel_config processing_pins processing_sources d protocol.
Definition uac_processing_unit_iChannelNames (d : bytes) (protocol : Z) : option Z :=
  after_sources processing_pins processing_sources d (if protocol =? UAC_VERSION_1 then 3 else 5).
Definition uac_processing_unit_bControlSize (d : bytes) (protocol : Z) : option Z :=
  if protocol =? UAC_VERSION_1 then after_sources processing_pins processing_sources d 4
  else Some 2.
Definition uac_processing_unit_bmControls (d : bytes) (protocol : Z) : option Z :=
  n ← rdz d processing_pins;
  Some (processing_sources + n + (if protocol =? UAC_VERSION_1 then 5 else 6)).
Definition uac_processing_unit_iProcessing (d : bytes) (protocol : Z) : option Z :=
  control_size ← uac_processing_unit_bControlSize d protocol;
  p ← uac_processing_unit_bmControls d protocol;
  rdz d (p + control_size).
Definition uac_processing_unit_specific (d : bytes) (protocol : Z) : option Z :=
  control_size ← uac_processing_unit_bControlSize d protocol;
  p ← uac_processing_unit_bmControls d protocol;
  Some (p + control_size + 1).

(** ** The descriptors the audio class defines

    Lengths and counts are bytes, which the descriptors hold modulo 256. *)

Record mixer_unit : Type := mk_mixer {
  mu_id : Z; mu_sources : list Z; mu_channels : Z; mu_config : Z; mu_names : Z;
  mu_controls : list Z; mu_string : Z }.

Record processing_unit : Type := mk_processing {
  pu_id : Z; pu_type : Z; pu_sources : list Z; pu_channels : Z; pu_config : Z; pu_names : Z;
  pu_controls : list Z; pu_string : Z; pu_specific : list Z }.

(** The channel cluster: number of channels, their positions in 2 or 4 bytes,
    and the index of their names. *)
Definition cluster_bytes (protocol channels config names : Z) : bytes :=
  channels :: Memory.le_bytes (if protocol =? UAC_VERSION_1 then 2 else 4) config ++ [names].

Definition mixer_bytes (protocol : Z) (u : mixer_unit) : bytes :=
  let body := [mu_id u; u8 (Z.of_nat (length (mu_sources u)))] ++ mu_sources u ++
    cluster_bytes protocol (mu_channels u) (mu_config u) (mu_names u) ++
    mu_controls u ++ [mu_string u] in
  [u8 (Z.of_nat (length body + 3)); 0x24; 0x04] ++ body.

(** Only version 1 has a byte for the size of the control bitmap. *)
Definition processing_bytes (protocol : Z) (u : processing_unit) : bytes :=
  let body := [pu_id u] ++ Memory.le_bytes 2 (pu_type u) ++
    [u8 (Z.of_nat (length (pu_sources u)))] ++ pu_sources u ++
    cluster_bytes protocol (pu_channels u) (pu_config u) (pu_names u) ++
    (if protocol =? UAC_VERSION_1 then [u8 (Z.of_nat (length (pu_controls u)))] else []) ++
    pu_controls u ++ [pu_string u] ++ pu_specific u in
  [u8 (Z.of_nat (length body + 3)); 0x24; 0x07] ++ body.

(** ** Endpoints: lemmas and theorem *)

Lemma dir_bit a : is_u8 a ->
  ((a &&& USB_ENDPOINT_DIR_MASK) =? USB_DIR_IN) = (128 <=? a) /\
  ((a &&& USB_ENDPOINT_DIR_MASK) =? USB_DIR_OUT) = (a <? 128).
Proof.
  intros Ha.
  pose proof (forall_word_bool 8 (fun a =>
    Bool.eqb ((a &&& USB_ENDPOINT_DIR_MASK) =? USB_DIR_IN) (128 <=? a) &&
    Bool.eqb ((a &&& USB_ENDPOINT_DIR_MASK) =? USB_DIR_OUT) (a <? 128))) as Hall.
  assert (Hc : forallb (fun a =>
    Bool.eqb ((a &&& USB_ENDPOINT_DIR_MASK) =? USB_DIR_IN) (128 <=? a) &&
    Bool.eqb ((a &&& USB_ENDPOINT_DIR_MASK) =? USB_DIR_OUT) (a <? 128)) (seqZ 0 (2 ^ 8)) = true)
    by by vm_compute.
  specialize (Hall Hc a Ha). apply andb_true_iff in Hall as [H1 H2]. by split; apply Bool.eqb_prop.
Qed.

Lemma constant_swab16_eq x : is_u16 x -> ___constant_swab16 x = 256 * (x mod 256) + x / 256.
Proof.
  unfold in_word. intros Hx. unfold ___constant_swab16. rewrite (wrap_small 16 x) by done.
  rewrite Z.shiftr_land. change (0xff00 ≫ 8) with 0xff. rewrite !land_0xff, lor_disjoint.
  - rewrite shiftr_div by lia. rewrite wrap_small; unfold in_word; change (2 ^ 8) with 256;
      change (2 ^ 16) with 65536 in *; Z.to_euclidean_division_equations; lia.
  - lia.
  - apply Z.mod_pos_bound. lia.
Qed.

(** The two bytes of a little-endian member, whatever the host's order. *)
Lemma le16_member {BO : ByteOrder} {A : SwabArch} {HA : SwabArchOk A} (m : bytes) p b0 b1 :
  m !! p = Some b0 -> m !! (p + 1)%nat = Some b1 -> is_u8 b0 -> is_u8 b1 ->
  exists w, ld16 m p = Some w /\
    (if big_endian then BigEndian.__le16_to_cpu w else LittleEndian.__le16_to_cpu w) = b0 + 256 * b1.
Proof.
  intros H0 H1 R0 R1. unfold in_word in R0, R1.
  assert (Hl : (p + 2 <= length m)%nat) by (apply lookup_lt_Some in H1; lia).
  assert (Ht : take 2 (drop p m) = [b0; b1]).
  { rewrite (drop_S m b0 p H0), (drop_S m b1 (S p)) by (by rewrite <- Nat.add_1_r). done. }
  unfold ld, order. rewrite decide_True, Ht by done. destruct big_endian; eexists; (split; [done|]).
  - unfold BigEndian.__le16_to_cpu. simpl (le_val _).
    rewrite (wrap_small 16), swab16_constant by (unfold in_word; lia).
    rewrite constant_swab16_eq by (unfold in_word; lia).
    Z.to_euclidean_division_equations; lia.
  - unfold LittleEndian.__le16_to_cpu. simpl (le_val _). rewrite wrap_small by (unfold in_word; lia). lia.
Qed.

(** Exactly one of these holds of an endpoint. *)
Definition endpoint_classes : list (bytes -> option bool) :=
  [usb_endpoint_xfer_control; usb_endpoint_is_bulk_in; usb_endpoint_is_bulk_out;
   usb_endpoint_is_int_in; usb_endpoint_is_int_out;
   usb_endpoint_is_isoc_in; usb_endpoint_is_isoc_out].

Lemma endpoint_classes_eq epd addr attr :
  bEndpointAddress epd = Some addr -> bmAttributes epd = Some attr -> is_u8 addr -> is_u8 attr ->
  map (fun f => f epd) endpoint_classes =
    let t := attr mod 4 in let i := 128 <=? addr in
    map Some [t =? 0; (t =? 2) && i; (t =? 2) && negb i; (t =? 3) && i; (t =? 3) && negb i;
              (t =? 1) && i; (t =? 1) && negb i].
Proof.
  intros Ha Hb Ra Rb. destruct (dir_bit addr Ra) as [Hin Hout].
  unfold endpoint_classes. cbn [map].
  unfold usb_endpoint_is_bulk_in, usb_endpoint_is_bulk_out, usb_endpoint_is_int_in,
    usb_endpoint_is_int_out, usb_endpoint_is_isoc_in, usb_endpoint_is_isoc_out,
    usb_endpoint_xfer_bulk, usb_endpoint_xfer_control, usb_endpoint_xfer_int, usb_endpoint_xfer_isoc,
    usb_endpoint_dir_in, usb_endpoint_dir_out, and_then.
  rewrite Ha, Hb. cbn [mbind option_bind]. rewrite Hin, Hout.
  unfold USB_ENDPOINT_XFERTYPE_MASK, USB_ENDPOINT_XFER_CONTROL, USB_ENDPOINT_XFER_ISOC,
    USB_ENDPOINT_XFER_BULK, USB_ENDPOINT_XFER_INT. rewrite land_0x3.
  assert ((addr <? 128) = negb (128 <=? addr)) as -> by (by rewrite Z.leb_antisym, negb_involutive).
  by destruct (attr mod 4 =? 0), (attr mod 4 =? 1), (attr mod 4 =? 2), (attr mod 4 =? 3).
Qed.

(** Every endpoint descriptor, whatever its bytes, is classified: none of the
    accessors faults, number, type and direction are the bits they are defined
    as, the packet size is the little-endian member on hosts of both byte orders,
    and exactly one of control, bulk in, bulk out, interrupt in, interrupt out,
    isochronous in and isochronous out holds. *)
Theorem endpoint_classified {BO : ByteOrder} {A : SwabArch} (HA : SwabArchOk A)
    (len dt addr attr w0 w1 interval : Z) (rest : bytes) :
  is_u8 addr -> is_u8 attr -> is_u8 w0 -> is_u8 w1 ->
  let epd := [len; dt; addr; attr; w0; w1; interval] ++ rest in
  usb_endpoint_num epd = Some (addr mod 16) /\ usb_endpoint_type epd = Some (attr mod 4) /\
  usb_endpoint_dir_in epd = Some (128 <=? addr) /\ usb_endpoint_dir_out epd = Some (addr <? 128) /\
  usb_endpoint_maxp epd = Some (w0 + 256 * w1) /\
  usb_endpoint_interrupt_type epd = Some (attr &&& 0x30) /\
  Forall (fun r => is_Some r) (map (fun f => f epd) endpoint_classes) /\
  count_occ option_eq_dec (map (fun f => f epd) endpoint_classes) (Some true) = 1%nat.
Proof.
  intros Ha Hb H0 H1 epd. destruct (dir_bit addr Ha) as [Hin Hout].
  destruct (le16_member epd 4 w0 w1) as (w & Hw & Hmaxp); [done..|].
  rewrite (endpoint_classes_eq epd addr attr) by done.
  split_and!.
  - cbn. by rewrite <- land_0xf.
  - cbn. by rewrite <- land_0x3.
  - cbn. by rewrite <- Hin.
  - cbn. by rewrite <- Hout.
  - unfold usb_endpoint_maxp. rewrite Hw. cbn [mbind option_bind]. by rewrite Hmaxp.
  - done.
  - repeat constructor; done.
  - assert (Ht : 0 <= attr mod 4 < 4) by (apply Z.mod_pos_bound; lia).
    assert (attr mod 4 = 0 \/ attr mod 4 = 1 \/ attr mod 4 = 2 \/ attr mod 4 = 3) as Hc by lia.
    destruct Hc as [-> | [-> | [-> | ->]]], (128 <=? addr); reflexivity.
Qed.

Lemma endpoint_classified_witness :
  let epd := [7; 5; 0x81; 2; 0; 2; 0] ++ [] in
  let _ : ByteOrder := true in let _ : SwabArch := sample_arch in
  usb_endpoint_num epd = Some (0x81 mod 16) /\ usb_endpoint_type epd = Some (2 mod 4) /\
  usb_endpoint_dir_in epd = Some (128 <=? 0x81) /\ usb_endpoint_dir_out epd = Some (0x81 <? 128) /\
  usb_endpoint_maxp epd = Some (0 + 256 * 2) /\
  usb_endpoint_interrupt_type epd = Some (2 &&& 0x30) /\
  Forall (fun r => is_Some r) (map (fun f => f epd) endpoint_classes) /\
  count_occ option_eq_dec (map (fun f => f epd) endpoint_classes) (Some true) = 1%nat.
Proof. by apply (endpoint_classified (BO := true) sample_arch_ok 7 5 0x81 2 0 2 0 []). Defined.

(** ** Audio units: lemmas *)

Lemma rdz_app pre rest k : 0 <= k -> rdz (pre ++ rest) (Z.of_nat (length pre) + k) = rdz rest k.
Proof.
  intros Hk. unfold rdz, rd. rewrite !(proj2 (Z.ltb_ge _ _)) by lia.
  rewrite lookup_app_r by lia. f_equal. lia.
Qed.

Lemma after_sources_eq pins sources pre rest n k :
  rdz (pre ++ rest) pins = Some n -> Z.of_nat (length pre) = sources + n -> 0 <= k ->
  after_sources pins sources (pre ++ rest) k = rdz rest k.
Proof.
  intros Hn Hl Hk. unfold after_sources. rewrite Hn. cbn [mbind option_bind].
  rewrite <- Hl. by apply rdz_app.
Qed.

Lemma config16 c : is_u16 c -> u32 ((u8 (c / 256) ≪ 8) ||| u8 c) = c.
Proof.
  unfold in_word. intros Hc. pose proof (wrap_range 8 c). unfold in_word in *.
  rewrite lor_disjoint by lia. unfold wrap.
  change (2 ^ 8) with 256. change (2 ^ 16) with 65536 in Hc. change (2 ^ 32) with 4294967296.
  Z.to_euclidean_division_equations; lia.
Qed.

Lemma or_bytes b3 b2 b1 b0 : is_u8 b2 -> is_u8 b1 -> is_u8 b0 ->
  (b3 ≪ 24) ||| (b2 ≪ 16) ||| (b1 ≪ 8) ||| b0 = b3 * 2 ^ 24 + (b2 * 2 ^ 16 + (b1 * 2 ^ 8 + b0)).
Proof.
  unfold in_word. intros H2 H1 H0. rewrite <- !Z.lor_assoc, (lor_disjoint b1 b0 8) by lia.
  rewrite (lor_disjoint b2 _ 16) by lia. by rewrite (lor_disjoint b3 _ 24) by lia.
Qed.

Lemma config32 c : 0 <= c < 2 ^ 31 ->
  u32 ((u8 (c / 256 / 256 / 256) ≪ 24) ||| (u8 (c / 256 / 256) ≪ 16) ||| (u8 (c / 256) ≪ 8) ||| u8 c) = c.
Proof.
  intros Hc. rewrite or_bytes by (apply wrap_range; lia). unfold wrap.
  change (2 ^ 8) with 256. change (2 ^ 16) with 65536. change (2 ^ 24) with 16777216.
  change (2 ^ 31) with 2147483648 in Hc. change (2 ^ 32) with 4294967296.
  Z.to_euclidean_division_equations; lia.
Qed.

(** The top byte shifted into the sign bit. *)
Lemma config_top c : is_u32 c ->
  int_val (u8 (c / 256 / 256 / 256) ≪ 24)
  = if c <? 2 ^ 31 then Some (u8 (c / 256 / 256 / 256) ≪ 24) else None.
Proof.
  unfold in_word. intros Hc. unfold int_val, wrap, in_s32. rewrite shiftl_mul by lia.
  change (2 ^ 8) with 256. change (2 ^ 24) with 16777216. change (2 ^ 31) with 2147483648 in *.
  change (2 ^ 32) with 4294967296 in Hc.
  destruct (Z.ltb_spec c 2147483648); case_decide as Hd; [done| | |done]; exfalso;
    Z.to_euclidean_division_equations; lia.
Qed.

Definition config_ok (protocol c : Z) : Prop :=
  if protocol =? UAC_VERSION_1 then is_u16 c else is_u32 c.

(** What [wChannelConfig] gives: version 2 has no value when bit 31 is set. *)
Definition config_read (protocol c : Z) : option Z :=
  if protocol =? UAC_VERSION_1 then Some c else if c <? 2 ^ 31 then Some c else None.

(** The small constant indices of a read. *)
Local Ltac small_index :=
  change (Z.to_nat 1) with 1%nat; change (Z.to_nat 2) with 2%nat; change (Z.to_nat 3) with 3%nat;
  change (Z.to_nat 4) with 4%nat; change (Z.to_nat 5) with 5%nat; change (Z.to_nat 0) with 0%nat;
  cbn -[Z.shiftl Z.lor int_val wrap Z.div].

Lemma channel_config_eq pins sources pre n protocol ch c nm tail :
  rdz (pre ++ cluster_bytes protocol ch c nm ++ tail) pins = Some n ->
  Z.of_nat (length pre) = sources + n -> config_ok protocol c ->
  channel_config pins sources (pre ++ cluster_bytes protocol ch c nm ++ tail) protocol
  = config_read protocol c.
Proof.
  intros Hn Hl Hc. unfold channel_config, config_read, config_ok in *.
  rewrite !(after_sources_eq pins sources pre _ n) by (done || lia). unfold cluster_bytes.
  destruct (protocol =? UAC_VERSION_1); cbn -[Z.shiftl Z.lor int_val wrap Z.div]; small_index.
  - by rewrite config16.
  - rewrite config_top by done. destruct (Z.ltb_spec c (2 ^ 31)); [|done].
    small_index. unfold in_word in Hc. by rewrite config32 by lia.
Qed.

(** The bytes of the cluster before and behind the channel configuration. *)
Lemma cluster_ends protocol ch c nm tail :
  rdz (cluster_bytes protocol ch c nm ++ tail) 0 = Some ch /\
  rdz (cluster_bytes protocol ch c nm ++ tail) (if protocol =? UAC_VERSION_1 then 3 else 5) = Some nm.
Proof. by unfold cluster_bytes; destruct (protocol =? UAC_VERSION_1). Qed.

Definition cluster_size (protocol : Z) : Z := if protocol =? UAC_VERSION_1 then 4 else 6.

Lemma cluster_length protocol ch c nm :
  Z.of_nat (length (cluster_bytes protocol ch c nm)) = cluster_size protocol.
Proof. by unfold cluster_bytes, cluster_size; destruct (protocol =? UAC_VERSION_1). Qed.

(** The last byte of a block, behind which other bytes may follow. *)
Lemma rdz_last pre x rest k : k = Z.of_nat (length pre) -> rdz (pre ++ x :: rest) k = Some x.
Proof. intros ->. rewrite <- (Z.add_0_r (Z.of_nat _)), rdz_app by lia. done. Qed.

Lemma u8_length {T : Type} (l : list T) n : (length l <= n)%nat -> Z.of_nat n < 256 ->
  u8 (Z.of_nat (length l)) = Z.of_nat (length l).
Proof. intros. apply wrap_small. unfold in_word. lia. Qed.

(** The bytes of a mixer unit up to its cluster. *)
Definition mixer_head (protocol : Z) (u : mixer_unit) : bytes :=
  [Z.of_nat (length (mixer_bytes protocol u)); 0x24; 0x04; mu_id u; Z.of_nat (length (mu_sources u))]
  ++ mu_sources u.

Lemma mixer_shape protocol u : Z.of_nat (length (mixer_bytes protocol u)) < 256 ->
  mixer_bytes protocol u = mixer_head protocol u ++
    cluster_bytes protocol (mu_channels u) (mu_config u) (mu_names u) ++
    mu_controls u ++ [mu_string u].
Proof.
  intros Hl. unfold mixer_head. rewrite <- app_assoc.
  assert (Hs : (length (mu_sources u) <= length (mixer_bytes protocol u))%nat).
  { unfold mixer_bytes. rewrite !length_app. lia. }
  rewrite <- (u8_length _ _ Hs Hl). rewrite <- (wrap_small 8 (Z.of_nat (length (mixer_bytes _ _)))).
  - unfold mixer_bytes at 1. cbn [app]. do 2 f_equal. unfold mixer_bytes. cbn [app length]. f_equal. lia.
  - unfold in_word. change (2 ^ 8) with 256. lia.
Qed.

Lemma mixer_reads protocol u rest :
  Z.of_nat (length (mixer_bytes protocol u)) < 256 ->
  let d := mixer_bytes protocol u ++ rest in
  let n := Z.of_nat (length (mu_sources u)) in
  let tail := mu_controls u ++ [mu_string u] ++ rest in
  d = mixer_head protocol u
      ++ cluster_bytes protocol (mu_channels u) (mu_config u) (mu_names u) ++ tail /\
  rdz d mixer_pins = Some n /\ rdz d 0 = Some (Z.of_nat (length (mixer_bytes protocol u))) /\
  Z.of_nat (length (mixer_head protocol u)) = mixer_sources + n.
Proof.
  intros Hl d n tail.
  assert (Hd : d = mixer_head protocol u
    ++ cluster_bytes protocol (mu_channels u) (mu_config u) (mu_names u) ++ tail).
  { subst d tail. rewrite (mixer_shape protocol u Hl) at 1. by rewrite <- !app_assoc. }
  split_and!; [done|by rewrite Hd|by rewrite Hd|].
  unfold mixer_head, mixer_sources. cbn [app length]. lia.
Qed.

(** The accessors of a mixer unit give back what the audio class, in either
    version, says the descriptor holds: channels, names, controls and string of
    any mixer with any number of sources, and the channel configuration unless
    its bit 31 is set in version 2, when the expression overflows an [int]. *)
Theorem mixer_accessors (protocol : Z) (u : mixer_unit) (rest : bytes) :
  config_ok protocol (mu_config u) -> Z.of_nat (length (mixer_bytes protocol u)) < 256 ->
  let d := mixer_bytes protocol u ++ rest in
  uac_mixer_unit_bNrChannels d = Some (mu_channels u) /\
  uac_mixer_unit_wChannelConfig d protocol = config_read protocol (mu_config u) /\
  uac_mixer_unit_iChannelNames d protocol = Some (mu_names u) /\
  (exists k, uac_mixer_unit_bmControls d protocol = Some (Z.of_nat k) /\
    drop k d = mu_controls u ++ [mu_string u] ++ rest) /\
  uac_mixer_unit_iMixer d = Some (mu_string u).
Proof.
  intros Hc Hl. destruct (mixer_reads protocol u rest Hl) as (Hd & Hn & H0 & Hh).
  pose proof (mixer_shape protocol u Hl) as Hs. set (d := mixer_bytes protocol u ++ rest) in *.
  destruct (cluster_ends protocol (mu_channels u) (mu_config u) (mu_names u)
    (mu_controls u ++ [mu_string u] ++ rest)) as [Hch Hnm].
  cbn zeta. unfold uac_mixer_unit_bNrChannels, uac_mixer_unit_wChannelConfig,
    uac_mixer_unit_iChannelNames, uac_mixer_unit_bmControls, uac_mixer_unit_iMixer.
  rewrite Hn, H0. cbn [mbind option_bind]. rewrite Hd in Hn |- *. split_and!.
  - by rewrite (after_sources_eq _ _ _ _ _ 0 Hn Hh).
  - by rewrite (channel_config_eq _ _ _ _ _ _ _ _ _ Hn Hh).
  - rewrite (after_sources_eq _ _ _ _ _ _ Hn Hh) by (by destruct (protocol =? _)). done.
  - exists (length (mixer_head protocol u ++ cluster_bytes protocol (mu_channels u) (mu_config u) (mu_names u))).
    rewrite app_assoc, drop_app_length, length_app, Nat2Z.inj_add, Hh, cluster_length. done.
  - rewrite Hs, !app_assoc. rewrite <- (app_assoc _ [mu_string u] rest). cbn [app].
    apply rdz_last. rewrite !length_app. cbn [length]. lia.
Qed.

Lemma mixer_accessors_witness :
  let u := mk_mixer 9 [1; 2; 3] 2 0x80000003 7 [0xf0; 0x0f] 5 in
  config_ok UAC_VERSION_2 0x80000003 /\
  let d := mixer_bytes UAC_VERSION_2 u ++ [0xee] in
  uac_mixer_unit_bNrChannels d = Some 2 /\
  uac_mixer_unit_wChannelConfig d UAC_VERSION_2 = None /\
  uac_mixer_unit_iChannelNames d UAC_VERSION_2 = Some 7 /\
  (exists k, uac_mixer_unit_bmControls d UAC_VERSION_2 = Some (Z.of_nat k) /\
    drop k d = [0xf0; 0x0f; 5; 0xee]) /\
  uac_mixer_unit_iMixer d = Some 5.
Proof.
  split; [by vm_compute|].
  apply (mixer_accessors UAC_VERSION_2 (mk_mixer 9 [1; 2; 3] 2 0x80000003 7 [0xf0; 0x0f] 5) [0xee]);
    by vm_compute.
Defined.

(** The bytes of a processing unit up to its cluster. *)
Definition processing_head (protocol : Z) (u : processing_unit) : bytes :=
  [Z.of_nat (length (processing_bytes protocol u)); 0x24; 0x07; pu_id u]
  ++ Memory.le_bytes 2 (pu_type u) ++ [Z.of_nat (length (pu_sources u))] ++ pu_sources u.

(** The byte for the size of the controls, which version 1 has. *)
Definition control_size_byte (protocol : Z) (u : processing_unit) : bytes :=
  if protocol =? UAC_VERSION_1 then [Z.of_nat (length (pu_controls u))] else [].

Lemma processing_shape protocol u : Z.of_nat (length (processing_bytes protocol u)) < 256 ->
  processing_bytes protocol u = processing_head protocol u ++
    cluster_bytes protocol (pu_channels u) (pu_config u) (pu_names u) ++
    control_size_byte protocol u ++ pu_controls u ++ [pu_string u] ++ pu_specific u.
Proof.
  intros Hl. unfold processing_head, control_size_byte. rewrite <- !app_assoc.
  assert (Hs : (length (pu_sources u) <= length (processing_bytes protocol u))%nat /\
    (length (pu_controls u) <= length (processing_bytes protocol u))%nat).
  { unfold processing_bytes. rewrite !length_app. lia. }
  destruct Hs as [Hs Hk]. rewrite <- (u8_length _ _ Hs Hl), <- (u8_length _ _ Hk Hl).
  rewrite <- (wrap_small 8 (Z.of_nat (length (processing_bytes _ _)))).
  - unfold processing_bytes at 1. cbn [app]. do 2 f_equal. unfold processing_bytes.
    cbn [app length]. f_equal. lia.
  - unfold in_word. change (2 ^ 8) with 256. lia.
Qed.

(** The offset of the controls, behind [baSourceID]'s end. *)
Definition controls_offset (protocol : Z) : Z := if protocol =? UAC_VERSION_1 then 5 else 6.

Lemma control_size_length protocol u :
  cluster_size protocol + Z.of_nat (length (control_size_byte protocol u)) = controls_offset protocol.
Proof. by unfold cluster_size, control_size_byte, controls_offset; destruct (protocol =? UAC_VERSION_1). Qed.

(** The bytes up to the controls. *)
Definition processing_front (protocol : Z) (u : processing_unit) : bytes :=
  processing_head protocol u ++ cluster_bytes protocol (pu_channels u) (pu_config u) (pu_names u)
  ++ control_size_byte protocol u.

Lemma processing_reads protocol u rest :
  Z.of_nat (length (processing_bytes protocol u)) < 256 ->
  let d := processing_bytes protocol u ++ rest in
  let n := Z.of_nat (length (pu_sources u)) in
  let tail := pu_controls u ++ [pu_string u] ++ pu_specific u ++ rest in
  d = processing_head protocol u
      ++ cluster_bytes protocol (pu_channels u) (pu_config u) (pu_names u)
      ++ control_size_byte protocol u ++ tail /\
  d = processing_front protocol u ++ tail /\
  rdz d processing_pins = Some n /\
  Z.of_nat (length (processing_head protocol u)) = processing_sources + n /\
  Z.of_nat (length (processing_front protocol u)) = processing_sources + n + controls_offset protocol.
Proof.
  intros Hl d n tail.
  assert (Hd : d = processing_head protocol u
    ++ cluster_bytes protocol (pu_channels u) (pu_config u) (pu_names u)
    ++ control_size_byte protocol u ++ tail).
  { subst d tail. rewrite (processing_shape protocol u Hl) at 1. by rewrite <- !app_assoc. }
  assert (Hh : Z.of_nat (length (processing_head protocol u)) = processing_sources + n).
  { unfold processing_head, processing_sources. cbn [app length Memory.le_bytes]. lia. }
  split_and!; [done|by rewrite Hd; unfold processing_front; rewrite <- !app_assoc|by rewrite Hd|done|].
  unfold processing_front. rewrite !length_app, !Nat2Z.inj_add, Hh, cluster_length.
  rewrite <- (control_size_length protocol u). lia.
Qed.

(** Version 2 fixes the size of the controls. *)
Definition controls_ok (protocol : Z) (u : processing_unit) : Prop :=
  (protocol =? UAC_VERSION_1) = true \/ length (pu_controls u) = 2%nat.

Lemma processing_control_size protocol u rest :
  Z.of_nat (length (processing_bytes protocol u)) < 256 -> controls_ok protocol u ->
  uac_processing_unit_bControlSize (processing_bytes protocol u ++ rest) protocol
  = Some (Z.of_nat (length (pu_controls u))).
Proof.
  intros Hl Hk. destruct (processing_reads protocol u rest Hl) as (Hd & _ & Hn & Hh & _).
  unfold uac_processing_unit_bControlSize. rewrite Hd in Hn |- *.
  rewrite (after_sources_eq _ _ _ _ _ _ Hn Hh) by lia.
  unfold controls_ok, control_size_byte, cluster_bytes in *.
  destruct (protocol =? UAC_VERSION_1); [done|]. destruct Hk as [Hk | ->]; done.
Qed.

(** The accessors of a processing unit give back what the descriptor holds in
    either version of the audio class, for any number of sources, any controls
    and any process specific bytes: channels, configuration, names, the size of
    the controls, the controls, the string and the specific part. *)
Theorem processing_accessors (protocol : Z) (u : processing_unit) (rest : bytes) :
  config_ok protocol (pu_config u) -> controls_ok protocol u ->
  Z.of_nat (length (processing_bytes protocol u)) < 256 ->
  let d := processing_bytes protocol u ++ rest in
  uac_processing_unit_bNrChannels d = Some (pu_channels u) /\
  uac_processing_unit_wChannelConfig d protocol = config_read protocol (pu_config u) /\
  uac_processing_unit_iChannelNames d protocol = Some (pu_names u) /\
  uac_processing_unit_bControlSize d protocol = Some (Z.of_nat (length (pu_controls u))) /\
  (exists k, uac_processing_unit_bmControls d protocol = Some (Z.of_nat k) /\
    drop k d = pu_controls u ++ [pu_string u] ++ pu_specific u ++ rest) /\
  uac_processing_unit_iProcessing d protocol = Some (pu_string u) /\
  (exists k, uac_processing_unit_specific d protocol = Some (Z.of_nat k) /\
    drop k d = pu_specific u ++ rest).
Proof.
  intros Hc Hk Hl. destruct (processing_reads protocol u rest Hl) as (Hd & Hf & Hn & Hh & Hfl).
  pose proof (processing_control_size protocol u rest Hl Hk) as Hsize.
  set (d := processing_bytes protocol u ++ rest) in *. set (n := length (pu_sources u)) in *.
  assert (Hctl : uac_processing_unit_bmControls d protocol
    = Some (Z.of_nat (length (processing_front protocol u)))).
  { unfold uac_processing_unit_bmControls. rewrite Hn, Hfl. done. }
  cbn zeta. unfold uac_processing_unit_iProcessing, uac_processing_unit_specific.
  rewrite Hsize, Hctl. cbn [mbind option_bind]. split_and!; [| | |done| | |].
  - rewrite Hd in Hn |- *. by apply (after_sources_eq _ _ _ _ _ 0 Hn Hh).
  - rewrite Hd in Hn |- *. by apply (channel_config_eq _ _ _ _ _ _ _ _ _ Hn Hh).
  - unfold uac_processing_unit_iChannelNames. rewrite Hd in Hn |- *.
    rewrite (after_sources_eq _ _ _ _ _ _ Hn Hh) by (by destruct (protocol =? _)).
    apply (cluster_ends protocol).
  - eexists. split; [done|]. by rewrite Hf, drop_app_length.
  - rewrite Hf, app_assoc. apply rdz_last. by rewrite length_app, Nat2Z.inj_add.
  - exists (length ((processing_front protocol u ++ pu_controls u) ++ [pu_string u])).
    split; [rewrite !length_app; cbn [length]; do 2 f_equal; lia|].
    rewrite Hf, !app_assoc, <- (app_assoc _ (pu_specific u)). by rewrite drop_app_length.
Qed.

Lemma processing_accessors_witness :
  let u := mk_processing 4 0x0102 [8; 9] 1 0x0102 3 [1; 2; 3] 6 [0xaa; 0xbb] in
  config_ok UAC_VERSION_1 0x0102 /\
  let d := processing_bytes UAC_VERSION_1 u ++ [] in
  uac_processing_unit_bNrChannels d = Some 1 /\
  uac_processing_unit_wChannelConfig d UAC_VERSION_1 = Some 0x0102 /\
  uac_processing_unit_iChannelNames d UAC_VERSION_1 = Some 3 /\
  uac_processing_unit_bControlSize d UAC_VERSION_1 = Some 3 /\
  (exists k, uac_processing_unit_bmControls d UAC_VERSION_1 = Some (Z.of_nat k) /\
    drop k d = [1; 2; 3; 6; 0xaa; 0xbb]) /\
  uac_processing_unit_iProcessing d UAC_VERSION_1 = Some 6 /\
  (exists k, uac_processing_unit_specific d UAC_VERSION_1 = Some (Z.of_nat k) /\
    drop k d = [0xaa; 0xbb]).
Proof.
  split; [by vm_compute|].
  apply (processing_accessors UAC_VERSION_1
    (mk_processing 4 0x0102 [8; 9] 1 0x0102 3 [1; 2; 3] 6 [0xaa; 0xbb]) []);
    [by vm_compute|by left|by vm_compute].
Defined.

(** ** Bulk streams *)

(** A companion descriptor grants a power of two streams; for the attribute 31
    the shift overflows, and the function has no value. *)
Lemma max_streams_spec (comp : bytes) attr :
  rd comp 3 = Some attr ->
  usb_ss_max_streams (Some comp) =
    (let k := attr mod 32 in
     if k =? 0 then Some 0 else if k =? 31 then None else Some (2 ^ k)).
Proof.
  intros Ha. unfold usb_ss_max_streams. rewrite Ha. cbn [mbind option_bind].
  assert ((attr &&& 0x1f) = attr mod 32) as -> by exact (Z.land_ones attr 5 ltac:(lia)).
  pose proof (Z.mod_pos_bound attr 32 ltac:(lia)). cbn zeta.
  destruct (Z.eqb_spec (attr mod 32) 0); [done|]. rewrite shiftl_mul, Z.mul_1_l by lia.
  unfold int_val, in_s32. destruct (Z.eqb_spec (attr mod 32) 31) as [-> | Hn]; [done|].
  rewrite decide_True; [done|]. pose proof (Z.pow_pos_nonneg 2 (attr mod 32) ltac:(lia) ltac:(lia)).
  pose proof (Z.pow_lt_mono_r 2 (attr mod 32) 31 ltac:(lia) ltac:(lia) ltac:(lia)). lia.
Qed.
