(* ===== verification/OssSeq.v ===== *)
(** * Sequencer events of the OSS interface

    The event macros of [kernel-headers/linux/soundcard.h], which queue MIDI,
    timer and control events in a buffer of the program and have the program's
    [seqbuf_dump] write it to the device when it is full, and those of
    [linux/ultrasound.h], which queue commands to a Gravis Ultrasound there. The state is the
    buffer with its length and its index, and the contents of the writes made so
    far. The macros are programs of the monad [ST]; an access outside the buffer
    is a fault. [seqbuf_dump] is a parameter: the header says what it does and
    gives a sample, [sample_dump]. Arguments are values of type [int]; the
    variant [USE_SIMPLE_MACROS], whose buffer macros the program defines, is left
    out. *)
From S2P Require Import Prelude.
From S2P Require Import Memory.

(** ** Constants *)

Definition SEQ_MIDIPUTC : Z := 5.
Definition SEQ_CONTROLLER : Z := 10.
Definition SEQ_VOLMODE : Z := 12.
Definition SEQ_PRIVATE : Z := 0xfe.
Definition SEQ_EXTENDED : Z := 0xff.
Definition CTL_MAIN_VOLUME : Z := 0x07.
Definition CTL_PAN : Z := 0x0a.
Definition CTL_EXPRESSION : Z := 0x0b.
Definition CTRL_PITCH_BENDER : Z := 255.
Definition CTRL_PITCH_BENDER_RANGE : Z := 254.
Definition EV_SEQ_LOCAL : Z := 0x80.
Definition EV_TIMING : Z := 0x81.
Definition EV_CHN_COMMON : Z := 0x92.
Definition EV_CHN_VOICE : Z := 0x93.
Definition EV_SYSEX : Z := 0x94.
Definition MIDI_NOTEOFF : Z := 0x80.
Definition MIDI_NOTEON : Z := 0x90.
Definition MIDI_KEY_PRESSURE : Z := 0xA0.
Definition MIDI_CTL_CHANGE : Z := 0xB0.
Definition MIDI_PGM_CHANGE : Z := 0xC0.
Definition MIDI_CHN_PRESSURE : Z := 0xD0.
Definition MIDI_PITCH_BEND : Z := 0xE0.
Definition TMR_WAIT_REL : Z := 1.
Definition TMR_WAIT_ABS : Z := 2.
Definition TMR_STOP : Z := 3.
Definition TMR_START : Z := 4.
Definition TMR_CONTINUE : Z := 5.
Definition TMR_TEMPO : Z := 6.
Definition TMR_ECHO : Z := 8.
Definition TMR_SPP : Z := 10.
Definition TMR_TIMESIG : Z := 11.
Definition LOCL_STARTAUDIO : Z := 1.

(** Commands of [ultrasound.h] *)
Definition _GUS_NUMVOICES : Z := 0x00.
Definition _GUS_VOICESAMPLE : Z := 0x01.
Definition _GUS_VOICEON : Z := 0x02.
Definition _GUS_VOICEOFF : Z := 0x03.
Definition _GUS_VOICEMODE : Z := 0x04.
Definition _GUS_VOICEBALA : Z := 0x05.
Definition _GUS_VOICEFREQ : Z := 0x06.
Definition _GUS_VOICEVOL : Z := 0x07.
Definition _GUS_RAMPRANGE : Z := 0x08.
Definition _GUS_RAMPRATE : Z := 0x09.
Definition _GUS_RAMPMODE : Z := 0x0a.
Definition _GUS_RAMPON : Z := 0x0b.
Definition _GUS_RAMPOFF : Z := 0x0c.
Definition _GUS_VOICEFADE : Z := 0x0d.
Definition _GUS_VOLUME_SCALE : Z := 0x0e.
Definition _GUS_VOICEVOL2 : Z := 0x0f.
Definition _GUS_VOICE_POS : Z := 0x10.

(** ** State *)

Record seq : Type := mk_seq {
  _seqbuf : bytes;
  _seqbuflen : Z;
  _seqbufptr : Z;
  writes : list bytes }.

Definition set_buf (b : bytes) (s : seq) : seq := mk_seq b (_seqbuflen s) (_seqbufptr s) (writes s).
Definition set_ptr (p : Z) (s : seq) : seq := mk_seq (_seqbuf s) (_seqbuflen s) p (writes s).

(** [SEQ_DEFINEBUF (len)]: the array is static, hence zero. *)
Definition SEQ_DEFINEBUF (len : nat) : seq := mk_seq (replicate len 0) (Z.of_nat len) 0 [].

(** The bytes queued. *)
Definition queued (s : seq) : bytes := take (Z.to_nat (_seqbufptr s)) (_seqbuf s).

(** The program's function, and what the macros rely on: it writes what is
    queued, with one write if that is anything, and resets the index. *)
Class SeqDump : Type := seqbuf_dump : ST seq unit.
Class SeqDumpOk (D : SeqDump) : Prop :=
  seqbuf_dump_spec s : 0 <= _seqbufptr s <= Z.of_nat (length (_seqbuf s)) ->
    exists b, seqbuf_dump s = Some (tt, mk_seq b (_seqbuflen s) 0
      (writes s ++ (if _seqbufptr s =? 0 then [] else [queued s]))%list) /\
    length b = length (_seqbuf s).

(** The header's sample, for writes that do not fail. *)
Definition sample_dump : SeqDump := fun s =>
  Some (tt, mk_seq (_seqbuf s) (_seqbuflen s) 0
    (writes s ++ (if _seqbufptr s =? 0 then [] else [queued s]))%list).

#[export] Instance sample_dump_ok : SeqDumpOk sample_dump.
Proof. intros s _. by exists (_seqbuf s). Qed.

(** ** The macros *)

Section macros.
Context {BO : ByteOrder} {D : SeqDump}.

Definition _SEQ_NEEDBUF (len : Z) : ST seq unit :=
  s ← st_get; if _seqbuflen s <? _seqbufptr s + len then seqbuf_dump else mret tt.
Definition _SEQ_ADVBUF (len : Z) : ST seq unit := st_modify (fun s => set_ptr (_seqbufptr s + len) s).

(** [_seqbuf[_seqbufptr + k] = v], and through pointers to [short] and [int]. *)
Definition put (k v : Z) : ST seq unit := fun s =>
  let i := _seqbufptr s + k in
  if i <? 0 then None else
  b ← wr (_seqbuf s) (Z.to_nat i) (u8 v); Some (tt, set_buf b s).
Definition put_wide (n : nat) (k v : Z) : ST seq unit := fun s =>
  let i := _seqbufptr s + k in
  if i <? 0 then None else
  b ← st n (Z.to_nat i) v (_seqbuf s); Some (tt, set_buf b s).

Definition SEQ_VOLUME_MODE (dev mode : Z) : ST seq unit :=
  _SEQ_NEEDBUF 8;;
  put 0 SEQ_EXTENDED;; put 1 SEQ_VOLMODE;; put 2 dev;; put 3 mode;;
  put 4 0;; put 5 0;; put 6 0;; put 7 0;;
  _SEQ_ADVBUF 8.

Definition _CHN_VOICE (dev event chn note parm : Z) : ST seq unit :=
  _SEQ_NEEDBUF 8;;
  put 0 EV_CHN_VOICE;; put 1 dev;; put 2 event;; put 3 chn;;
  put 4 note;; put 5 parm;; put 6 0;; put 7 0;;
  _SEQ_ADVBUF 8.

Definition SEQ_START_NOTE (dev chn note vol : Z) := _CHN_VOICE dev MIDI_NOTEON chn note vol.
Definition SEQ_STOP_NOTE (dev chn note vol : Z) := _CHN_VOICE dev MIDI_NOTEOFF chn note vol.
Definition SEQ_KEY_PRESSURE (dev chn note pressure : Z) :=
  _CHN_VOICE dev MIDI_KEY_PRESSURE chn note pressure.

Definition _CHN_COMMON (dev event chn p1 p2 w14 : Z) : ST seq unit :=
  _SEQ_NEEDBUF 8;;
  put 0 EV_CHN_COMMON;; put 1 dev;; put 2 event;; put 3 chn;;
  put 4 p1;; put 5 p2;; put_wide 2 6 w14;;
  _SEQ_ADVBUF 8.

(** The first loop reads the caller's bytes. *)
Definition SEQ_SYSEX (dev : Z) (buf : bytes) (len : Z) : ST seq unit :=
  let ll := if 6 <? len then 6 else len in
  _SEQ_NEEDBUF 8;;
  put 0 EV_SYSEX;; put 1 dev;;
  st_for (Z.to_nat ll) 0 (fun ii => b ← st_lift (rd buf ii); put (Z.of_nat ii + 2) b);;
  st_for (Z.to_nat (6 - ll)) 0 (fun j => put (ll + Z.of_nat j + 2) 0xff);;
  _SEQ_ADVBUF 8.

Definition SEQ_CHN_PRESSURE (dev chn pressure : Z) :=
  _CHN_COMMON dev MIDI_CHN_PRESSURE chn pressure 0 0.
Definition SEQ_PGM_CHANGE (dev chn patch : Z) := _CHN_COMMON dev MIDI_PGM_CHANGE chn patch 0 0.
Definition SEQ_CONTROL (dev chn controller value : Z) :=
  _CHN_COMMON dev MIDI_CTL_CHANGE chn controller 0 value.
Definition SEQ_BENDER (dev chn value : Z) := _CHN_COMMON dev MIDI_PITCH_BEND chn 0 0 value.

Definition SEQ_V2_X_CONTROL (dev voice controller value : Z) : ST seq unit :=
  _SEQ_NEEDBUF 8;;
  put 0 SEQ_EXTENDED;; put 1 SEQ_CONTROLLER;; put 2 dev;; put 3 voice;;
  put 4 controller;; put 5 (value &&& 0xff);; put 6 ((value ≫ 8) &&& 0xff);; put 7 0;;
  _SEQ_ADVBUF 8.

Definition SEQ_PITCHBEND (dev voice value : Z) := SEQ_V2_X_CONTROL dev voice CTRL_PITCH_BENDER value.
Definition SEQ_BENDER_RANGE (dev voice value : Z) :=
  SEQ_V2_X_CONTROL dev voice CTRL_PITCH_BENDER_RANGE value.
Definition SEQ_EXPRESSION (dev voice value : Z) : ST seq unit :=
  v ← st_lift (int_val (value * 128)); SEQ_CONTROL dev voice CTL_EXPRESSION v.
Definition SEQ_MAIN_VOLUME (dev voice value : Z) : ST seq unit :=
  v ← st_lift (int_val (value * 16383)); SEQ_CONTROL dev voice CTL_MAIN_VOLUME (Z.quot v 100).
Definition SEQ_PANNING (dev voice pos : Z) : ST seq unit :=
  v ← st_lift (int_val (pos + 128)); SEQ_CONTROL dev voice CTL_PAN (Z.quot v 2).

Definition _TIMER_EVENT (ev parm : Z) : ST seq unit :=
  _SEQ_NEEDBUF 8;;
  put 0 EV_TIMING;; put 1 ev;; put 2 0;; put 3 0;; put_wide 4 4 parm;;
  _SEQ_ADVBUF 8.

Definition SEQ_START_TIMER := _TIMER_EVENT TMR_START 0.
Definition SEQ_STOP_TIMER := _TIMER_EVENT TMR_STOP 0.
Definition SEQ_CONTINUE_TIMER := _TIMER_EVENT TMR_CONTINUE 0.
Definition SEQ_WAIT_TIME (ticks : Z) := _TIMER_EVENT TMR_WAIT_ABS ticks.
Definition SEQ_DELTA_TIME (ticks : Z) := _TIMER_EVENT TMR_WAIT_REL ticks.
Definition SEQ_ECHO_BACK (key : Z) := _TIMER_EVENT TMR_ECHO key.
Definition SEQ_SET_TEMPO (value : Z) := _TIMER_EVENT TMR_TEMPO value.
Definition SEQ_SONGPOS (pos : Z) := _TIMER_EVENT TMR_SPP pos.
Definition SEQ_TIME_SIGNATURE (sig : Z) := _TIMER_EVENT TMR_TIMESIG sig.

Definition _LOCAL_EVENT (ev parm : Z) : ST seq unit :=
  _SEQ_NEEDBUF 8;;
  put 0 EV_SEQ_LOCAL;; put 1 ev;; put 2 0;; put 3 0;; put_wide 4 4 parm;;
  _SEQ_ADVBUF 8.

Definition SEQ_PLAYAUDIO (devmask : Z) := _LOCAL_EVENT LOCL_STARTAUDIO devmask.

Definition SEQ_MIDIOUT (device byte : Z) : ST seq unit :=
  _SEQ_NEEDBUF 4;;
  put 0 SEQ_MIDIPUTC;; put 1 byte;; put 2 device;; put 3 0;;
  _SEQ_ADVBUF 4.

(** A patch is written by itself, behind what is queued. *)
Definition SEQ_WRPATCH (patchx : bytes) (len : nat) : ST seq unit :=
  s ← st_get;
  (if _seqbufptr s =? 0 then mret tt else seqbuf_dump);;
  d ← st_lift (if decide (len <= length patchx)%nat then Some (take len patchx) else None);
  st_modify (fun s => mk_seq (_seqbuf s) (_seqbuflen s) (_seqbufptr s) (writes s ++ [d])%list).

(** *** [ultrasound.h] *)

Definition _GUS_CMD (chn voice cmd p1 p2 : Z) : ST seq unit :=
  _SEQ_NEEDBUF 8;;
  put 0 SEQ_PRIVATE;; put 1 chn;; put 2 cmd;; put 3 voice;;
  put_wide 2 4 p1;; put_wide 2 6 p2;;
  _SEQ_ADVBUF 8.

Definition GUS_NUMVOICES (chn p1 : Z) := _GUS_CMD chn 0 _GUS_NUMVOICES p1 0.
Definition GUS_VOICESAMPLE (chn voice p1 : Z) := _GUS_CMD chn voice _GUS_VOICESAMPLE p1 0.
Definition GUS_VOICEON (chn voice p1 : Z) := _GUS_CMD chn voice _GUS_VOICEON p1 0.
Definition GUS_VOICEOFF (chn voice : Z) := _GUS_CMD chn voice _GUS_VOICEOFF 0 0.
Definition GUS_VOICEFADE (chn voice : Z) := _GUS_CMD chn voice _GUS_VOICEFADE 0 0.
Definition GUS_VOICEMODE (chn voice p1 : Z) := _GUS_CMD chn voice _GUS_VOICEMODE p1 0.
Definition GUS_VOICEBALA (chn voice p1 : Z) := _GUS_CMD chn voice _GUS_VOICEBALA p1 0.
Definition GUS_VOICEFREQ (chn voice p : Z) :=
  _GUS_CMD chn voice _GUS_VOICEFREQ (p &&& 0xffff) ((p ≫ 16) &&& 0xffff).
Definition GUS_VOICEVOL (chn voice p1 : Z) := _GUS_CMD chn voice _GUS_VOICEVOL p1 0.
Definition GUS_VOICEVOL2 (chn voice p1 : Z) := _GUS_CMD chn voice _GUS_VOICEVOL2 p1 0.
Definition GUS_RAMPRANGE (chn voice low high : Z) := _GUS_CMD chn voice _GUS_RAMPRANGE low high.
Definition GUS_RAMPRATE (chn voice p1 p2 : Z) := _GUS_CMD chn voice _GUS_RAMPRATE p1 p2.
Definition GUS_RAMPMODE (chn voice p1 : Z) := _GUS_CMD chn voice _GUS_RAMPMODE p1 0.
Definition GUS_RAMPON (chn voice p1 : Z) := _GUS_CMD chn voice _GUS_RAMPON p1 0.
Definition GUS_RAMPOFF (chn voice : Z) := _GUS_CMD chn voice _GUS_RAMPOFF 0 0.
Definition GUS_VOLUME_SCALE (chn voice p1 p2 : Z) := _GUS_CMD chn voice _GUS_VOLUME_SCALE p1 p2.
Definition GUS_VOICE_POS (chn voice p : Z) :=
  _GUS_CMD chn voice _GUS_VOICE_POS (p &&& 0xffff) ((p ≫ 16) &&& 0xffff).

(** ** Events *)

(** The macros the others expand to. *)
Inductive event : Type :=
  | Volume_mode (dev mode : Z)
  | Chn_voice (dev ev chn note parm : Z)
  | Chn_common (dev ev chn p1 p2 w14 : Z)
  | Sysex (dev : Z) (buf : bytes) (len : Z)
  | X_control (dev voice controller value : Z)
  | Timer (ev parm : Z)
  | Local_event (ev parm : Z)
  | Midiout (device byte : Z)
  | Gus (chn voice cmd p1 p2 : Z).

Definition send (e : event) : ST seq unit :=
  match e with
  | Volume_mode dev mode => SEQ_VOLUME_MODE dev mode
  | Chn_voice dev ev chn note parm => _CHN_VOICE dev ev chn note parm
  | Chn_common dev ev chn p1 p2 w14 => _CHN_COMMON dev ev chn p1 p2 w14
  | Sysex dev buf len => SEQ_SYSEX dev buf len
  | X_control dev voice controller value => SEQ_V2_X_CONTROL dev voice controller value
  | Timer ev parm => _TIMER_EVENT ev parm
  | Local_event ev parm => _LOCAL_EVENT ev parm
  | Midiout device byte => SEQ_MIDIOUT device byte
  | Gus chn voice cmd p1 p2 => _GUS_CMD chn voice cmd p1 p2
  end.

Fixpoint send_all (es : list event) : ST seq unit :=
  match es with
  | [] => mret tt
  | e :: es => send e;; send_all es
  end.

(** The record an event is: 8 bytes, or 4 for a MIDI byte. *)
Definition event_bytes (e : event) : bytes :=
  match e with
  | Volume_mode dev mode => [0xff; 12; u8 dev; u8 mode; 0; 0; 0; 0]
  | Chn_voice dev ev chn note parm => [0x93; u8 dev; u8 ev; u8 chn; u8 note; u8 parm; 0; 0]
  | Chn_common dev ev chn p1 p2 w14 =>
      [0x92; u8 dev; u8 ev; u8 chn; u8 p1; u8 p2] ++ order (le_bytes 2 w14)
  | Sysex dev buf len =>
      let d := map u8 (take (Z.to_nat (Z.min len 6)) buf) in
      [0x94; u8 dev] ++ d ++ replicate (6 - length d) 0xff
  | X_control dev voice controller value =>
      [0xff; 10; u8 dev; u8 voice; u8 controller; u8 value; u8 (value ≫ 8); 0]
  | Timer ev parm => [0x81; u8 ev; 0; 0] ++ order (le_bytes 4 parm)
  | Local_event ev parm => [0x80; u8 ev; 0; 0] ++ order (le_bytes 4 parm)
  | Midiout device byte => [5; u8 byte; u8 device; 0]
  | Gus chn voice cmd p1 p2 =>
      [0xfe; u8 chn; u8 cmd; u8 voice] ++ order (le_bytes 2 p1) ++ order (le_bytes 2 p2)
  end.

Definition stream (es : list event) : bytes := concat (map event_bytes es).

(** The caller's message has the length given. *)
Definition event_ok (e : event) : Prop :=
  match e with
  | Sysex _ buf len => 0 <= len /\ (Z.to_nat (Z.min len 6) <= length buf)%nat
  | _ => True
  end.

(** The state of a program that has sent the events [sent] in whole writes and
    holds [held]. *)
Definition seq_view (s : seq) (sent : list (list event)) (held : list event) : Prop :=
  8 <= _seqbuflen s /\ _seqbuflen s = Z.of_nat (length (_seqbuf s)) /\
  0 <= _seqbufptr s <= _seqbuflen s /\ writes s = map stream sent /\ queued s = stream held.

(** ** Reading the device

    "If you receive any event having first byte >= 128, it's a 8 byte event." *)
Fixpoint frames (fuel : nat) (d : bytes) : option (list bytes) :=
  match d, fuel with
  | [], _ => Some []
  | c :: _, S fuel =>
      let n := if 128 <=? c then 8%nat else 4%nat in
      if decide (n <= length d)%nat then
        rest ← frames fuel (drop n d); Some (take n d :: rest)
      else None
  | _, O => None
  end.
End macros.

(** ** Filling a record *)

Section filling.
Context {BO : ByteOrder} {D : SeqDump}.

Definition in_bounds (s : seq) : Prop := 0 <= _seqbufptr s <= Z.of_nat (length (_seqbuf s)).

(** [s] is [s0] with the bytes [d] behind what is queued. *)
Definition filled (s0 : seq) (d : bytes) (s : seq) : Prop :=
  in_bounds s0 /\ exists rest, s = set_buf (queued s0 ++ d ++ rest) s0 /\
    length (queued s0 ++ d ++ rest) = length (_seqbuf s0).

Lemma queued_length s : in_bounds s -> Z.of_nat (length (queued s)) = _seqbufptr s.
Proof. unfold in_bounds, queued. intros. rewrite length_take. lia. Qed.

Lemma filled_start s : in_bounds s -> filled s [] s.
Proof.
  intros Hs. split; [done|]. exists (drop (Z.to_nat (_seqbufptr s)) (_seqbuf s)).
  unfold queued. rewrite app_nil_l, take_drop. by destruct s.
Qed.

Lemma set_buf_twice a b s : set_buf a (set_buf b s) = set_buf a s.
Proof. done. Qed.

Lemma memcpy_middle (pre mid rest d : bytes) : length mid = length d ->
  memcpy (pre ++ mid ++ rest) (length pre) d (length d) = Some (pre ++ d ++ rest).
Proof.
  intros Hl. unfold memcpy. rewrite decide_True by (rewrite !length_app; lia).
  rewrite take_app_length, take_ge, <- drop_drop, drop_app_length by lia.
  by rewrite <- Hl, drop_app_length.
Qed.

Lemma filled_next s0 d s n : filled s0 d s ->
  _seqbufptr s0 + Z.of_nat (length d) + Z.of_nat n <= Z.of_nat (length (_seqbuf s0)) ->
  exists mid rest, length mid = n /\ s = set_buf ((queued s0 ++ d) ++ mid ++ rest) s0 /\
    Z.of_nat (length (queued s0 ++ d)) = _seqbufptr s0 + Z.of_nat (length d) /\
    forall e, length e = n -> filled s0 (d ++ e) (set_buf ((queued s0 ++ d) ++ e ++ rest) s0).
Proof.
  intros [Hs (rest & -> & Hl)] Hn. pose proof (queued_length s0 Hs) as Hq.
  rewrite !length_app in Hl. exists (take n rest), (drop n rest).
  rewrite take_drop, length_take, length_app, <- app_assoc. split_and!; [lia|done|lia|].
  intros e He. split; [done|]. exists (drop n rest). rewrite <- !app_assoc. split; [done|].
  rewrite !length_app, length_drop. lia.
Qed.

(** One byte more, and [n] bytes more. *)
Lemma wp_put s0 d s k v Q : filled s0 d s -> k = Z.of_nat (length d) ->
  _seqbufptr s0 + k + 1 <= Z.of_nat (length (_seqbuf s0)) ->
  (forall s', filled s0 (d ++ [u8 v]) s' -> Q tt s') -> wp (put k v) Q s.
Proof.
  intros Hf -> Hn HQ. destruct (filled_next _ _ _ 1 Hf) as (mid & rest & Hm & -> & Hq & He); [lia|].
  unfold wp, put. cbn [_seqbufptr set_buf _seqbuf]. rewrite <- Hq, (proj2 (Z.ltb_ge _ _)) by lia.
  rewrite Nat2Z.id, wr_Some by (rewrite !length_app; lia). cbn [mbind option_bind].
  rewrite set_buf_twice. apply HQ. destruct mid as [|x [|]]; [done| |done].
  rewrite insert_app_r_alt, Nat.sub_diag by lia. cbn [app]. by apply (He [u8 v]).
Qed.

Lemma wp_put_wide n s0 d s k v Q : filled s0 d s -> k = Z.of_nat (length d) ->
  _seqbufptr s0 + k + Z.of_nat n <= Z.of_nat (length (_seqbuf s0)) ->
  (forall s', filled s0 (d ++ order (le_bytes n v)) s' -> Q tt s') -> wp (put_wide n k v) Q s.
Proof.
  intros Hf -> Hn HQ. destruct (filled_next _ _ _ n Hf) as (mid & rest & Hm & -> & Hq & He); [lia|].
  assert (Hb : length (order (le_bytes n v)) = n) by (by rewrite order_length, le_bytes_length).
  unfold wp, put_wide. cbn [_seqbufptr set_buf _seqbuf]. rewrite <- Hq, (proj2 (Z.ltb_ge _ _)) by lia.
  pose proof (memcpy_middle (queued s0 ++ d) mid rest (order (le_bytes n v))) as Hc.
  rewrite Hb in Hc. unfold st. rewrite Nat2Z.id, (Hc Hm).
  cbn [mbind option_bind]. rewrite set_buf_twice. by apply HQ, He.
Qed.

Lemma wp_adv s0 d s n Q : filled s0 d s -> n = Z.of_nat (length d) ->
  (forall s', _seqbuflen s' = _seqbuflen s0 -> length (_seqbuf s') = length (_seqbuf s0) ->
     _seqbufptr s' = _seqbufptr s0 + n -> writes s' = writes s0 -> in_bounds s' ->
     queued s' = queued s0 ++ d -> Q tt s') -> wp (_SEQ_ADVBUF n) Q s.
Proof.
  intros [Hs (rest & -> & Hl)] -> HQ. pose proof (queued_length s0 Hs) as Hq.
  unfold wp, _SEQ_ADVBUF, st_modify. apply HQ; try done; cbn.
  - rewrite !length_app in Hl. unfold in_bounds, set_ptr, set_buf in *. cbn. rewrite !length_app. lia.
  - unfold queued at 1. cbn. rewrite app_assoc, <- Hq, <- Nat2Z.inj_add, Nat2Z.id, <- length_app.
    by rewrite take_app_length.
Qed.
End filling.

(** ** Sending events *)

Section sending.
Context {BO : ByteOrder} {D : SeqDump} {DOk : SeqDumpOk D}.

(** After one event more. *)
Definition sent_one (sent : list (list event)) (held : list event) (e : event) (_ : unit) (s : seq) : Prop :=
  exists sent' held', seq_view s sent' held' /\ concat sent' ++ held' = concat sent ++ held ++ [e].

Lemma view_in_bounds s sent held : seq_view s sent held -> in_bounds s.
Proof. intros (_ & Hl & Hp & _). unfold in_bounds. lia. Qed.

Lemma wp_needbuf n s sent held Q : seq_view s sent held -> 0 < n <= 8 ->
  (forall s' sent' held', seq_view s' sent' held' ->
     concat sent' ++ held' = concat sent ++ held ->
     _seqbufptr s' + n <= Z.of_nat (length (_seqbuf s')) -> Q tt s') ->
  wp (_SEQ_NEEDBUF n) Q s.
Proof.
  intros Hv Hn HQ. pose proof (view_in_bounds _ _ _ Hv) as Hb. pose proof Hv as (H8 & Hl & Hp & Hw & Hq).
  unfold _SEQ_NEEDBUF. apply wp_bind, wp_get, wp_if; intros Hc.
  - apply Z.ltb_lt in Hc. destruct (seqbuf_dump_spec s Hb) as (b & E & Hlb).
    rewrite (proj2 (Z.eqb_neq _ 0)) in E by lia. unfold wp. rewrite E.
    apply (HQ _ (sent ++ [held]) []); cbn.
    + unfold seq_view. cbn. rewrite Hw, Hq, map_app. split_and!; [lia..|done|done].
    + by rewrite concat_app, concat_cons, concat_nil, !app_nil_r.
    + lia.
  - apply Z.ltb_ge in Hc. apply (HQ s sent held); [done|done|lia].
Qed.

Definition event_size (e : event) : Z := if e is Midiout _ _ then 4 else 8.

Lemma event_length e : Z.of_nat (length (event_bytes e)) = event_size e.
Proof.
  destruct e; cbn -[replicate take le_bytes]; rewrite ?length_app, ?order_length, ?le_bytes_length; try done.
  rewrite length_replicate, length_map, length_take. lia.
Qed.

Lemma wp_finish s0 sent held e d s n sent' held' : filled s0 d s -> d = event_bytes e ->
  n = event_size e -> seq_view s0 sent' held' ->
  concat sent' ++ held' = concat sent ++ held -> wp (_SEQ_ADVBUF n) (sent_one sent held e) s.
Proof.
  intros Hf -> Hn (H8 & Hl & Hp & Hw & Hq) Hc. rewrite <- event_length in Hn.
  eapply wp_adv; [done..|].
  intros s' E1 E2 E3 E4 Hb E5. exists sent', (held' ++ [e]). split.
  - unfold in_bounds in Hb. unfold seq_view. rewrite E1, E2, E4, E5, Hq. split_and!; [lia..|done|].
    unfold stream. by rewrite map_app, concat_app; cbn; rewrite app_nil_r.
  - by rewrite app_assoc, Hc, app_assoc.
Qed.

(** Store after store, then the step of the index. *)
Local Ltac fill :=
  repeat (apply wp_bind; first
    [ eapply wp_put; [eassumption|done|lia|]
    | eapply wp_put_wide; [eassumption|by rewrite ?length_app, ?order_length, ?le_bytes_length|lia|] ]; intros ? ?);
  eapply wp_finish; [eassumption|cbn -[le_bytes]; by rewrite ?u8_land_0xff|done..].

Lemma wp_event n body s sent held e : seq_view s sent held -> 0 < n <= 8 ->
  (forall s0 sent' held', seq_view s0 sent' held' -> concat sent' ++ held' = concat sent ++ held ->
     _seqbufptr s0 + n <= Z.of_nat (length (_seqbuf s0)) -> filled s0 [] s0 ->
     wp body (sent_one sent held e) s0) ->
  wp (_SEQ_NEEDBUF n;; body) (sent_one sent held e) s.
Proof.
  intros Hv Hn Hbody. apply wp_bind. apply (wp_needbuf n s sent held); [done..|].
  intros s0 sent' held' Hv0 Hc Hr. eapply Hbody; [done..|].
  by eapply filled_start, view_in_bounds.
Qed.

Lemma wp_send_plain s sent held e : seq_view s sent held ->
  (forall dev buf len, e <> Sysex dev buf len) -> wp (send e) (sent_one sent held e) s.
Proof.
  intros Hv Hns. destruct e as [| | |dev buf len| | | | |]; [..|by destruct (Hns dev buf len)| | | | |];
    cbn [send]; (apply wp_event; [done|lia|intros s0 sent' held' Hv0 Hc Hr Hf; fill]).
Qed.
Lemma sysex_copy s0 s dev buf ll : (ll <= 6)%nat -> (ll <= length buf)%nat ->
  _seqbufptr s0 + 8 <= Z.of_nat (length (_seqbuf s0)) -> filled s0 [u8 EV_SYSEX; u8 dev] s ->
  wp (st_for ll 0 (fun ii => b ← st_lift (rd buf ii); put (Z.of_nat ii + 2) b))
     (fun _ => filled s0 ([u8 EV_SYSEX; u8 dev] ++ map u8 (take ll buf))) s.
Proof.
  intros Hl Hb Hr Hf.
  apply (wp_for (fun i => filled s0 ([u8 EV_SYSEX; u8 dev] ++ map u8 (take i buf)))).
  { done. }
  intros j s' Hj Hfj. destruct (lookup_lt_is_Some_2 buf j) as [b Hbj]; [lia|].
  apply wp_bind. unfold wp at 1, st_lift, rd. rewrite Hbj. cbn [fmap option_fmap option_map].
  eapply wp_put; [exact Hfj| |lia|].
  - rewrite length_app, length_map, length_take. cbn [length]. lia.
  - intros s'' Hs. by rewrite (take_S_r _ _ b), map_app, app_assoc.
Qed.

Lemma sysex_fill s0 s d ll k : Z.of_nat (length d) = ll + 2 -> 0 <= ll -> ll + Z.of_nat k <= 6 ->
  _seqbufptr s0 + 8 <= Z.of_nat (length (_seqbuf s0)) -> filled s0 d s ->
  wp (st_for k 0 (fun j => put (ll + Z.of_nat j + 2) 0xff))
     (fun _ => filled s0 (d ++ replicate k 0xff)) s.
Proof.
  intros Hd Hl Hk Hr Hf. apply (wp_for (fun i => filled s0 (d ++ replicate i 0xff))).
  { by rewrite app_nil_r. }
  intros j s' Hj Hfj. eapply wp_put; [exact Hfj| |lia|].
  - rewrite length_app, length_replicate. lia.
  - intros s'' Hs. by rewrite replicate_S_end, app_assoc.
Qed.

Lemma wp_send_sysex s sent held dev buf len : seq_view s sent held -> event_ok (Sysex dev buf len) ->
  wp (send (Sysex dev buf len)) (sent_one sent held (Sysex dev buf len)) s.
Proof.
  intros Hv [Hlen Hbuf]. cbn [send]. unfold SEQ_SYSEX.
  assert ((if 6 <? len then 6 else len) = Z.min len 6) as -> by (destruct (Z.ltb_spec 6 len); lia).
  apply wp_event; [done|lia|]. intros s0 sent' held' Hv0 Hc Hr Hf.
  do 2 (apply wp_bind; eapply wp_put; [eassumption|done|lia|]; intros ? ?).
  apply wp_bind. eapply wp_mono; [by apply (sysex_copy s0 _ dev); [lia|done..]|]. intros [] s1 H1.
  apply wp_bind. eapply wp_mono; [eapply (sysex_fill s0); [|lia|lia|done|exact H1]|].
  { rewrite length_app, length_map, length_take. cbn [length]. lia. }
  intros [] s2 H2. eapply wp_finish; [exact H2| |done..].
  cbn [event_bytes]. rewrite <- app_assoc, length_map, length_take. do 3 f_equal. lia.
Qed.

Lemma wp_send s sent held e : seq_view s sent held -> event_ok e ->
  wp (send e) (sent_one sent held e) s.
Proof.
  intros Hv He. destruct e as [| | |dev buf len| | | | |]; [..|by apply wp_send_sysex| | | | |];
    by apply wp_send_plain.
Qed.

Lemma wp_send_all es : forall s sent held, seq_view s sent held -> Forall event_ok es ->
  wp (send_all es) (fun _ s' => exists sent' held', seq_view s' sent' held' /\
    concat sent' ++ held' = concat sent ++ held ++ es) s.
Proof.
  induction es as [|e es IH]; intros s sent held Hv Hok; cbn [send_all].
  - apply wp_ret. exists sent, held. by rewrite app_nil_r.
  - apply Forall_cons in Hok as [He Hok]. apply wp_bind.
    eapply wp_mono; [by apply wp_send|]. intros [] s1 (sent1 & held1 & Hv1 & Hc1).
    eapply wp_mono; [by apply (IH s1 sent1 held1)|]. intros [] s2 (sent2 & held2 & Hv2 & Hc2).
    exists sent2, held2. split; [done|]. rewrite Hc2, app_assoc, Hc1, <- !app_assoc. done.
Qed.
End sending.

(** ** Reading events *)

Section reading.
Context {BO : ByteOrder}.

(** The first byte of an event tells its size. *)
Lemma event_head e : exists c d, event_bytes e = c :: d /\
  event_size e = if 128 <=? c then 8 else 4.
Proof. destruct e; (eexists _, _; split; [reflexivity|done]). Qed.

Lemma event_nat_length e : length (event_bytes e) = Z.to_nat (event_size e).
Proof. rewrite <- event_length. lia. Qed.

Lemma event_frame e (rest : bytes) : exists c d, event_bytes e ++ rest = c :: d /\
  (if 128 <=? c then 8%nat else 4%nat) = length (event_bytes e).
Proof.
  destruct (event_head e) as (c & d & Hcd & Hs). exists c, (d ++ rest).
  rewrite event_nat_length, Hs, Hcd. split; [done|]. by destruct (128 <=? c).
Qed.

Lemma frames_stream es : forall fuel, (length (stream es) <= fuel)%nat ->
  frames fuel (stream es) = Some (map event_bytes es).
Proof.
  induction es as [|e es IH]; intros fuel Hf; [by destruct fuel|].
  unfold stream in *. cbn [map concat] in *. rewrite length_app in Hf.
  assert (0 < length (event_bytes e))%nat by (rewrite event_nat_length; destruct e; cbn; lia).
  destruct (event_frame e (concat (map event_bytes es))) as (c & d & Hcd & Hn).
  destruct fuel as [|fuel]; [lia|]. rewrite Hcd. cbn [frames]. rewrite Hn, <- Hcd.
  rewrite decide_True by (rewrite length_app; lia).
  by rewrite drop_app_length, take_app_length, IH by lia.
Qed.

Lemma mapM_frames ess :
  mapM (fun d => frames (length d) d) (map stream ess) = Some (map (map event_bytes) ess).
Proof.
  induction ess as [|es ess IH]; [done|]. cbn [map mapM].
  rewrite frames_stream by done. cbn [mbind option_bind]. by rewrite IH.
Qed.

Lemma stream_nil es : [] = stream es -> es = [].
Proof.
  destruct es as [|e es]; [done|]. unfold stream. cbn.
  destruct (event_head e) as (c & d & -> & _). done.
Qed.

(** The events of the last write. *)
Definition last_write (s : seq) (held : list event) : list (list event) :=
  if _seqbufptr s =? 0 then [] else [held].
End reading.

(** C11 The macros keep a queue of whole events. From any state of the buffer in
    which some events have been written to the device and others are held, any
    sequence of macros runs without leaving the buffer and ends in a state in
    which the same events and the new ones have been written or are held, in
    their order, every write consisting of whole events. The program's dump
    function is any that writes what is queued and resets the index. *)
Theorem events_queued `{ByteOrder} {D : SeqDump} {DOk : SeqDumpOk D} (s : seq)
    (sent : list (list event)) (held es : list event) :
  seq_view s sent held -> Forall event_ok es ->
  exists s' sent' held', send_all es s = Some (tt, s') /\ seq_view s' sent' held' /\
    concat sent' ++ held' = concat sent ++ held ++ es.
Proof.
  intros Hv Hok. destruct (wp_Some _ _ _ (wp_send_all es s sent held Hv Hok))
    as ([] & s' & E & sent' & held' & ? & ?). by exists s', sent', held'.
Qed.

Lemma seq_start `{ByteOrder} len : (8 <= len)%nat -> seq_view (SEQ_DEFINEBUF len) [] [].
Proof.
  intros Hl. unfold seq_view, SEQ_DEFINEBUF, queued. cbn. rewrite length_replicate.
  split_and!; try done; lia.
Qed.

Lemma events_queued_witness :
  let es := [Chn_voice 0 MIDI_NOTEON 1 60 64; Midiout 2 0x90; Timer TMR_WAIT_REL 96;
             Sysex 0 [0xf0; 0x7e; 0xf7] 3] in
  exists s' sent' held',
    send_all (BO := false) (D := sample_dump) es (SEQ_DEFINEBUF 16) = Some (tt, s') /\
    seq_view (BO := false) s' sent' held' /\ concat sent' ++ held' = es.
Proof.
  intros es. apply (events_queued (H := false) (D := sample_dump) (SEQ_DEFINEBUF 16) [] [] es).
  - apply seq_start. lia.
  - repeat constructor; by vm_compute.
Defined.

(** C27 What the device reads. After any sequence of macros from a fresh buffer of
    at least eight bytes and a final dump, splitting every write by the rule of
    the header (a record has eight bytes if its first byte is 128 or more, four
    otherwise) gives exactly the events sent, in order; no event is split over
    two writes. *)
Theorem device_reads_events `{ByteOrder} {D : SeqDump} {DOk : SeqDumpOk D} (len : nat)
    (es : list event) :
  (8 <= len)%nat -> Forall event_ok es ->
  exists s' fs, (send_all es;; seqbuf_dump) (SEQ_DEFINEBUF len) = Some (tt, s') /\
    mapM (fun d => frames (length d) d) (writes s') = Some fs /\ concat fs = map event_bytes es.
Proof.
  intros Hl Hok. destruct (wp_Some _ _ _ (wp_send_all es _ [] [] (seq_start len Hl) Hok))
    as ([] & s1 & E & sent & held & Hv & Hc).
  destruct (seqbuf_dump_spec s1 (view_in_bounds _ _ _ Hv)) as (b & Ed & _).
  destruct Hv as (_ & _ & Hp & Hw & Hq).
  exists (mk_seq b (_seqbuflen s1) 0 (map stream (sent ++ last_write s1 held))),
    (map (map event_bytes) (sent ++ last_write s1 held)).
  split_and!.
  - unfold mbind, st_bind. rewrite E, Ed, Hw, Hq, map_app. unfold last_write.
    by destruct (_seqbufptr s1 =? 0).
  - cbn [writes]. apply mapM_frames.
  - rewrite <- concat_map, concat_app. f_equal. cbn in Hc. rewrite <- Hc. f_equal.
    unfold last_write. destruct (Z.eqb_spec (_seqbufptr s1) 0) as [E0|]; [|by rewrite concat_cons, app_nil_r].
    unfold queued in Hq. rewrite E0 in Hq. symmetry. by apply stream_nil.
Qed.

Lemma device_reads_events_witness :
  let es := [Chn_common 1 MIDI_PITCH_BEND 0 0 0 0x2000; Midiout 2 0x90; Timer TMR_WAIT_ABS 96] in
  exists s' fs,
    (send_all (BO := true) (D := sample_dump) es;; sample_dump) (SEQ_DEFINEBUF 12) = Some (tt, s') /\
    mapM (fun d => frames (length d) d) (writes s') = Some fs /\
    concat fs = [[0x92; 1; 0xe0; 0; 0; 0; 0x20; 0]; [5; 0x90; 2; 0]; [0x81; 2; 0; 0; 0; 0; 0; 96]].
Proof.
  intros es. apply (device_reads_events (H := true) (D := sample_dump) 12 es).
  - lia.
  - repeat constructor.
Defined.
