(* ===== verification/Xtables.v ===== *)
(** * Firewall tables

    The iteration macros of [kernel-headers/linux/netfilter/x_tables.h] and
    [netfilter_bridge/ebtables.h] over the entries of a table and over the
    matches and watchers of an entry, with the structures they step over
    ([netfilter_ipv4/ip_tables.h], [netfilter_ipv6/ip6_tables.h],
    [netfilter_arp/arp_tables.h]), and the chunk bitmap of
    [netfilter/xt_sctp.h]. A table is a byte buffer; an entry is the offset of its
    first byte; members are read through the paths of [CLayout]. The function a
    macro is given is a program on a state of its own, called with the offset of
    the element; it does not change the table. The loops take fuel, and without
    enough of it they have no result. *)
From S2P Require Import Prelude.
From S2P Require Import Memory.
From stdpp Require Import gmap.
From S2P Require Import CLayout.
#[local] Open Scope string_scope.

(** ** Structures *)

Definition IFNAMSIZ : Z := 16.
Definition XT_EXTENSION_MAXNAMELEN : Z := 29.
Definition EBT_TABLE_MAXNAMELEN : Z := 32.
Definition ETH_ALEN : Z := 6.
Definition ARPT_DEV_ADDR_LEN_MAX : Z := 16.
Definition EINVAL : Z := 22.

Definition xt_entry_match : cty :=
  Struct [("u", Union [
     ("user", Struct [("match_size", __u16); ("name", Arr XT_EXTENSION_MAXNAMELEN char);
                      ("revision", __u8)]);
     ("kernel", Struct [("match_size", __u16); ("match", ptr)]);
     ("match_size", __u16)]);
   ("data", Arr 0 uchar)].

Definition xt_entry_target : cty :=
  Struct [("u", Union [
     ("user", Struct [("target_size", __u16); ("name", Arr XT_EXTENSION_MAXNAMELEN char);
                      ("revision", __u8)]);
     ("kernel", Struct [("target_size", __u16); ("target", ptr)]);
     ("target_size", __u16)]);
   ("data", Arr 0 uchar)].

Definition xt_counters : cty := Struct [("pcnt", __u64); ("bcnt", __u64)].

Definition in_addr : cty := Struct [("s_addr", __be32)].
Definition in6_addr : cty :=
  Struct [("in6_u", Union [("u6_addr8", Arr 16 __u8); ("u6_addr16", Arr 8 __be16);
                           ("u6_addr32", Arr 4 __be32)])].

Definition ipt_ip : cty :=
  Struct [("src", in_addr); ("dst", in_addr); ("smsk", in_addr); ("dmsk", in_addr);
   ("iniface", Arr IFNAMSIZ char); ("outiface", Arr IFNAMSIZ char);
   ("iniface_mask", Arr IFNAMSIZ uchar); ("outiface_mask", Arr IFNAMSIZ uchar);
   ("proto", __u16); ("flags", __u8); ("invflags", __u8)].
Definition ipt_entry : cty :=
  Struct [("ip", ipt_ip); ("nfcache", uint); ("target_offset", __u16); ("next_offset", __u16);
   ("comefrom", uint); ("counters", xt_counters); ("elems", Arr 0 uchar)].

Definition ip6t_ip6 : cty :=
  Struct [("src", in6_addr); ("dst", in6_addr); ("smsk", in6_addr); ("dmsk", in6_addr);
   ("iniface", Arr IFNAMSIZ char); ("outiface", Arr IFNAMSIZ char);
   ("iniface_mask", Arr IFNAMSIZ uchar); ("outiface_mask", Arr IFNAMSIZ uchar);
   ("proto", __u16); ("tos", __u8); ("flags", __u8); ("invflags", __u8)].
Definition ip6t_entry : cty :=
  Struct [("ipv6", ip6t_ip6); ("nfcache", uint); ("target_offset", __u16); ("next_offset", __u16);
   ("comefrom", uint); ("counters", xt_counters); ("elems", Arr 0 uchar)].

Definition arpt_devaddr_info : cty :=
  Struct [("addr", Arr ARPT_DEV_ADDR_LEN_MAX char); ("mask", Arr ARPT_DEV_ADDR_LEN_MAX char)].
Definition arpt_arp : cty :=
  Struct [("src", in_addr); ("tgt", in_addr); ("smsk", in_addr); ("tmsk", in_addr);
   ("arhln", __u8); ("arhln_mask", __u8);
   ("src_devaddr", arpt_devaddr_info); ("tgt_devaddr", arpt_devaddr_info);
   ("arpop", __be16); ("arpop_mask", __be16); ("arhrd", __be16); ("arhrd_mask", __be16);
   ("arpro", __be16); ("arpro_mask", __be16);
   ("iniface", Arr IFNAMSIZ char); ("outiface", Arr IFNAMSIZ char);
   ("iniface_mask", Arr IFNAMSIZ uchar); ("outiface_mask", Arr IFNAMSIZ uchar);
   ("flags", __u8); ("invflags", __u16)].
Definition arpt_entry : cty :=
  Struct [("arp", arpt_arp); ("target_offset", __u16); ("next_offset", __u16);
   ("comefrom", uint); ("counters", xt_counters); ("elems", Arr 0 uchar)].

(** The last members of the bridge structures are aligned as [struct
    ebt_replace], that is, as its pointers. *)
Definition ebt_entry_match : cty :=
  Struct [("u", Union [("name", Arr EBT_TABLE_MAXNAMELEN char); ("match", ptr)]);
   ("match_size", uint); ("data", Arr 0 ptr)].
Definition ebt_entry_watcher : cty :=
  Struct [("u", Union [("name", Arr EBT_TABLE_MAXNAMELEN char); ("watcher", ptr)]);
   ("watcher_size", uint); ("data", Arr 0 ptr)].
Definition ebt_entries : cty :=
  Struct [("distinguisher", uint); ("name", Arr EBT_TABLE_MAXNAMELEN char);
   ("counter_offset", uint); ("policy", int); ("nentries", uint); ("data", Arr 0 ptr)].
Definition ebt_entry : cty :=
  Struct [("bitmask", uint); ("invflags", uint); ("ethproto", __be16);
   ("in", Arr IFNAMSIZ char); ("logical_in", Arr IFNAMSIZ char);
   ("out", Arr IFNAMSIZ char); ("logical_out", Arr IFNAMSIZ char);
   ("sourcemac", Arr ETH_ALEN uchar); ("sourcemsk", Arr ETH_ALEN uchar);
   ("destmac", Arr ETH_ALEN uchar); ("destmsk", Arr ETH_ALEN uchar);
   ("watchers_offset", uint); ("target_offset", uint); ("next_offset", uint);
   ("elems", Arr 0 ptr)].

#[local] Close Scope string_scope.
#[local] Open Scope Z_scope.
#[local] Open Scope c_scope.

(** What the macros need of their parameter [type]. *)
Class EntryType : Type := {
  et_type : cty;
  et_target_offset : list step;
  et_next_offset : list step }.

#[export] Instance ipt : EntryType :=
  {| et_type := ipt_entry; et_target_offset := [Mem 2]; et_next_offset := [Mem 3] |}.
Definition ip6t : EntryType :=
  {| et_type := ip6t_entry; et_target_offset := [Mem 2]; et_next_offset := [Mem 3] |}.
Definition arpt : EntryType :=
  {| et_type := arpt_entry; et_target_offset := [Mem 1]; et_next_offset := [Mem 2] |}.

(** ** The loops *)

Section loops.
Context {BO : ByteOrder} (A : abi) {St : Type}.

(** [for (__i = i, __n = n; __i < limit; __i += step, __n++) { __ret = body; if
    (__ret != 0) break; }] with the values of [__ret] and [__i] behind it. The
    body comes before the size of the element is read. *)
Fixpoint loop (limit : option Z) (step_at : Z -> option Z) (body : Z -> Z -> ST St Z)
    (fuel : nat) (i n : Z) : ST St (Z * Z) :=
  match fuel with
  | O => fun _ => None
  | S fuel =>
      l ← st_lift limit;
      if i <? l then
        ret ← body i n;
        if ret =? 0 then
          k ← st_lift (step_at i); loop limit step_at body fuel (u32 (i + k)) (u32 (n + 1))
        else mret (ret, i)
      else mret (0, i)
  end.

Definition at_offset (e : nat) (i : Z) : nat := e + Z.to_nat i.

Definition match_size (m : bytes) (p : nat) : option Z := load_path A xt_entry_match p [Mem 0; Mem 2] m.
Definition target_offset {T : EntryType} (m : bytes) (e : nat) : option Z :=
  load_path A et_type e et_target_offset m.
Definition next_offset {T : EntryType} (m : bytes) (e : nat) : option Z :=
  load_path A et_type e et_next_offset m.

Definition XT_MATCH_ITERATE {T : EntryType} (m : bytes) (e : nat) (fn : nat -> ST St Z)
    (fuel : nat) : ST St Z :=
  r ← loop (target_offset m e) (fun i => match_size m (at_offset e i))
        (fun i _ => fn (at_offset e i)) fuel (sizeof A et_type) 0;
  mret r.1.

(** The first [n] entries are passed over. *)
Definition XT_ENTRY_ITERATE_CONTINUE {T : EntryType} (m : bytes) (entries : nat) (size n : Z)
    (fn : nat -> ST St Z) (fuel : nat) : ST St Z :=
  r ← loop (Some size) (fun i => next_offset m (at_offset entries i))
        (fun i __n => if __n <? n then mret 0 else fn (at_offset entries i)) fuel 0 0;
  mret r.1.

Definition XT_ENTRY_ITERATE {T : EntryType} (m : bytes) (entries : nat) (size : Z)
    (fn : nat -> ST St Z) (fuel : nat) : ST St Z :=
  XT_ENTRY_ITERATE_CONTINUE m entries size 0 fn fuel.

(** Common to the target accessors of the three families. *)
Definition get_target {T : EntryType} (m : bytes) (e : nat) : option nat :=
  o ← target_offset m e; Some (at_offset e o).

Definition watchers_offset (m : bytes) (e : nat) : option Z := load_path A ebt_entry e [Mem 11] m.
Definition ebt_target_offset (m : bytes) (e : nat) : option Z := load_path A ebt_entry e [Mem 12] m.
Definition ebt_next_offset (m : bytes) (e : nat) : option Z := load_path A ebt_entry e [Mem 13] m.
Definition bitmask (m : bytes) (e : nat) : option Z := load_path A ebt_entry e [Mem 0] m.
Definition ebt_match_size (m : bytes) (p : nat) : option Z := load_path A ebt_entry_match p [Mem 1] m.
Definition watcher_size (m : bytes) (p : nat) : option Z := load_path A ebt_entry_watcher p [Mem 1] m.

(** [if (__ret == 0) { if (__i != limit) __ret = -EINVAL; }] *)
Definition exact (limit : option Z) (r : Z * Z) : ST St Z :=
  if r.1 =? 0 then
    l ← st_lift limit; mret (if r.2 =? l then 0 else - EINVAL)
  else mret r.1.

Definition EBT_MATCH_ITERATE (m : bytes) (e : nat) (fn : nat -> ST St Z) (fuel : nat) : ST St Z :=
  r ← loop (watchers_offset m e)
        (fun i => s ← ebt_match_size m (at_offset e i); Some (s + sizeof A ebt_entry_match))
        (fun i _ => fn (at_offset e i)) fuel (sizeof A ebt_entry) 0;
  exact (watchers_offset m e) r.

Definition EBT_WATCHER_ITERATE (m : bytes) (e : nat) (fn : nat -> ST St Z) (fuel : nat) : ST St Z :=
  start ← st_lift (watchers_offset m e);
  r ← loop (ebt_target_offset m e)
        (fun i => s ← watcher_size m (at_offset e i); Some (s + sizeof A ebt_entry_watcher))
        (fun i _ => fn (at_offset e i)) fuel start 0;
  exact (ebt_target_offset m e) r.

(** A chain header is told from an entry by its first member, which is 0. *)
Definition EBT_ENTRY_ITERATE (m : bytes) (entries : nat) (size : Z) (fn : nat -> ST St Z)
    (fuel : nat) : ST St Z :=
  r ← loop (Some size)
        (fun i => b ← bitmask m (at_offset entries i);
                  if b =? 0 then Some (sizeof A ebt_entries) else ebt_next_offset m (at_offset entries i))
        (fun i _ => fn (at_offset entries i)) fuel 0 0;
  exact (Some size) r.
End loops.

(** ** The chunk bitmap *)

Abbreviation chunkmap := (list Z).

Definition word_of (type : Z) : nat := Z.to_nat (type / 32).
Definition bit_of (type : Z) : Z := u32 (1 ≪ (type mod 32)).

Definition SCTP_CHUNKMAP_SET (m : chunkmap) (type : Z) : option chunkmap :=
  w ← rd m (word_of type); wr m (word_of type) (w ||| bit_of type).
Definition SCTP_CHUNKMAP_CLEAR (m : chunkmap) (type : Z) : option chunkmap :=
  w ← rd m (word_of type); wr m (word_of type) (w &&& u32 (Z.lnot (bit_of type))).
Definition SCTP_CHUNKMAP_IS_SET (m : chunkmap) (type : Z) : option bool :=
  w ← rd m (word_of type); Some (negb ((w &&& bit_of type) =? 0)).
Definition SCTP_CHUNKMAP_RESET (m : chunkmap) : chunkmap := replicate (length m) 0.
Definition SCTP_CHUNKMAP_SET_ALL (m : chunkmap) : chunkmap := replicate (length m) (u32 (Z.lnot 0)).

(** [for (i = 0; i < n; ++i) if (chunkmap[i] != x) return false; return true;] *)
Fixpoint all_words (m : chunkmap) (n i : nat) (x : Z) : option bool :=
  match n with
  | O => Some true
  | S n => w ← rd m i; if w =? x then all_words m n (S i) x else Some false
  end.

Definition __sctp_chunkmap_is_clear (m : chunkmap) (n : nat) : option bool := all_words m n 0 0.
Definition __sctp_chunkmap_is_all_set (m : chunkmap) (n : nat) : option bool :=
  all_words m n 0 (u32 (Z.lnot 0)).
Definition SCTP_CHUNKMAP_IS_CLEAR (m : chunkmap) : option bool := __sctp_chunkmap_is_clear m (length m).
Definition SCTP_CHUNKMAP_IS_ALL_SET (m : chunkmap) : option bool :=
  __sctp_chunkmap_is_all_set m (length m).

(** ** What a loop visits *)

(** The elements at [ps], one behind the other from [i], fill the space up to
    [limit]; the last one ends at [j]. *)
Fixpoint chain (step_at : Z -> option Z) (limit i : Z) (ps : list Z) (j : Z) : Prop :=
  match ps with
  | [] => i = j /\ limit <= i
  | p :: ps => p = i /\ i < limit /\ exists k, step_at i = Some k /\ 0 < k /\ i + k < 2 ^ 32 /\
                 chain step_at limit (i + k) ps j
  end.

Section visits.
Context {St : Type}.

(** The calls of [fn] up to the first that does not return 0. *)
Fixpoint for_each (fn : nat -> ST St Z) (ps : list nat) : ST St Z :=
  match ps with
  | [] => mret 0
  | p :: ps => ret ← fn p; if ret =? 0 then for_each fn ps else mret ret
  end.

Fixpoint visit (body : Z -> Z -> ST St Z) (ps : list Z) (j n : Z) : ST St (Z * Z) :=
  match ps with
  | [] => mret (0, j)
  | p :: ps => ret ← body p n; if ret =? 0 then visit body ps j (n + 1) else mret (ret, p)
  end.

Lemma st_bind_ext {S A B} (c : ST S A) (f g : A -> ST S B) s :
  (forall a s', f a s' = g a s') -> (c ≫= f) s = (c ≫= g) s.
Proof. intros E. unfold mbind, st_bind. destruct (c s) as [[]|]; [apply E|done]. Qed.

Lemma chain_bound step_at limit ps : forall i j, 0 <= i < 2 ^ 32 -> chain step_at limit i ps j ->
  i + Z.of_nat (length ps) <= j /\ j < 2 ^ 32.
Proof.
  induction ps as [|p ps IH]; intros i j Hi; cbn [chain length]; [by intros [-> _]; lia|].
  intros (-> & _ & k & _ & Hk & Hw & Hc). destruct (IH (i + k) j); [lia|done|lia].
Qed.

Lemma loop_chain limit step_at body l ps : limit = Some l -> forall fuel i j n s,
  0 <= i < 2 ^ 32 -> 0 <= n -> n + Z.of_nat (length ps) < 2 ^ 32 ->
  chain step_at l i ps j -> (length ps < fuel)%nat ->
  loop limit step_at body fuel i n s = visit body ps j n s.
Proof.
  intros ->. induction ps as [|p ps IH]; intros [|fuel] i j n s Hi Hn Hl; cbn [length] in *; try lia;
    cbn [chain loop visit]; unfold mbind at 1, st_bind at 1, st_lift at 1; cbn [fmap option_fmap option_map].
  - intros [<- Hle] _. by rewrite (proj2 (Z.ltb_ge _ _)) by done.
  - intros (-> & Hlt & k & Hk & Hpos & Hw & Hc) Hf. rewrite (proj2 (Z.ltb_lt _ _)) by done.
    apply st_bind_ext. intros ret s'. destruct (ret =? 0); [|done].
    unfold mbind, st_bind, st_lift. rewrite Hk. cbn [fmap option_fmap option_map].
    rewrite !wrap_small by (unfold in_word; lia). apply IH; [lia..|done|lia].
Qed.

Lemma visit_for_each fn e ps j n s :
  (r ← visit (fun i _ => fn (at_offset e i)) ps j n; mret r.1) s
  = for_each fn (map (at_offset e) ps) s.
Proof.
  revert n s. induction ps as [|p ps IH]; intros n s; [done|]. cbn [visit map for_each].
  rewrite st_bind_assoc. apply st_bind_ext. intros ret s'. destruct (ret =? 0); [apply IH|done].
Qed.

Lemma visit_exact fn e l ps j n s :
  (r ← visit (fun i _ => fn (at_offset e i)) ps j n; exact (Some l) r) s
  = (ret ← for_each fn (map (at_offset e) ps);
     mret (if ret =? 0 then if j =? l then 0 else - EINVAL else ret)) s.
Proof.
  revert n s. induction ps as [|p ps IH]; intros n s; [done|]. cbn [visit map for_each].
  rewrite !st_bind_assoc. apply st_bind_ext. intros ret s'.
  destruct (ret =? 0) eqn:E; [apply IH|].
  rewrite !st_bind_ret. unfold exact. cbn [fst]. by rewrite E.
Qed.

Lemma visit_skip fn e ps : forall k j n s,
  (r ← visit (fun i __n => if __n <? k then mret 0 else fn (at_offset e i)) ps j n; mret r.1) s
  = for_each fn (drop (Z.to_nat (k - n)) (map (at_offset e) ps)) s.
Proof.
  induction ps as [|p ps IH]; intros k j n s; cbn [visit map]; [by rewrite drop_nil|].
  rewrite st_bind_assoc. destruct (Z.ltb_spec n k) as [Hk|Hk].
  - rewrite st_bind_ret. cbn [Z.eqb]. rewrite IH.
    replace (Z.to_nat (k - n)) with (S (Z.to_nat (k - (n + 1)))) by lia. done.
  - replace (Z.to_nat (k - n)) with 0%nat by lia. cbn [drop for_each]. apply st_bind_ext.
    intros ret s'. destruct (ret =? 0); [|done]. rewrite IH.
    by replace (Z.to_nat (k - (n + 1))) with 0%nat by lia.
Qed.
End visits.

(** ** The macros *)

Section macros.
Context {BO : ByteOrder} (A : abi) {St : Type} (fn : nat -> ST St Z).

Lemma chain_fits step_at l i ps j : 0 <= i < 2 ^ 32 -> chain step_at l i ps j ->
  0 + Z.of_nat (length ps) < 2 ^ 32.
Proof. intros Hi Hc. destruct (chain_bound _ _ _ _ _ Hi Hc). lia. Qed.

(** The loop of every macro, as the first step of a program. *)
Lemma run_chain {B} limit step_at body l ps fuel i j (k : Z * Z -> ST St B) s :
  limit = Some l -> 0 <= i < 2 ^ 32 -> chain step_at l i ps j -> (length ps < fuel)%nat ->
  (loop limit step_at body fuel i 0 ≫= k) s = (visit body ps j 0 ≫= k) s.
Proof.
  intros Hl Hi Hc Hf. unfold mbind, st_bind.
  by rewrite (loop_chain _ _ _ _ _ Hl _ _ j) by (done || lia || by eapply chain_fits).
Qed.

Lemma exact_same (limit : option Z) l r s : limit = Some l -> exact (St := St) limit r s = exact (Some l) r s.
Proof. by intros ->. Qed.

Lemma run_exact limit step_at e l ps fuel i j s :
  limit = Some l -> 0 <= i < 2 ^ 32 -> chain step_at l i ps j -> (length ps < fuel)%nat ->
  (r ← loop limit step_at (fun i _ => fn (at_offset e i)) fuel i 0; exact limit r) s
  = (ret ← for_each fn (map (at_offset e) ps);
     mret (if ret =? 0 then if j =? l then 0 else - EINVAL else ret)) s.
Proof.
  intros Hl Hi Hc Hf. rewrite (run_chain _ _ _ l ps _ _ j) by done.
  rewrite <- (visit_exact fn e l ps j 0). apply st_bind_ext. intros r s'. by apply exact_same.
Qed.

(** A step that comes back to the same element. *)
Lemma loop_stuck limit step_at (body : Z -> Z -> ST St Z) l i k fuel : limit = Some l -> 0 <= i < 2 ^ 32 -> i < l ->
  step_at i = Some k -> u32 (i + k) = i -> (forall n s, exists s', body i n s = Some (0, s')) ->
  forall n s, loop limit step_at body fuel i n s = None.
Proof.
  intros -> Hi Hlt Hk Hw Hb. induction fuel as [|fuel IH]; intros n s; [done|].
  cbn [loop]. unfold mbind, st_bind, st_lift. cbn [fmap option_fmap option_map].
  rewrite (proj2 (Z.ltb_lt _ _)) by done. destruct (Hb n s) as [s' ->].
  cbn [Z.eqb]. rewrite Hk. cbn [fmap option_fmap option_map]. rewrite Hw. apply IH.
Qed.

(** Elements of positive size that do not reach past the last 32-bit offset form
    a chain, so the loops over them end. *)
Lemma chain_exists step_at l : (forall i, 0 <= i < l -> exists k, step_at i = Some k /\ 0 < k /\ i + k < 2 ^ 32) ->
  forall i, 0 <= i -> exists ps j, chain step_at l i ps j.
Proof.
  intros Hs i Hi. remember (Z.to_nat (l - i)) as d eqn:Hd. revert i Hi Hd.
  induction d as [d IH] using lt_wf_ind. intros i Hi Hd. destruct (decide (i < l)) as [Hlt|Hge].
  - destruct (Hs i) as (k & Hk & Hpos & Hw); [lia|].
    destruct (IH (Z.to_nat (l - (i + k))) ltac:(lia) (i + k) ltac:(lia) eq_refl) as (ps & j & Hc).
    exists (i :: ps), j. cbn [chain]. split_and!; [done|done|]. by exists k.
  - exists [], i. cbn [chain]. split; [done|lia].
Qed.
End macros.

(** C12 The iteration macros of x_tables call the function on every element, in
    order, up to the first result that is not 0, which they return. This holds
    whenever the matches of an entry (or the entries of a table) follow one
    another up to the target (or the end of the table); [n] entries are passed
    over by the continuing variant. The last element may reach beyond that end: the
    macros do not tell, unlike those of ebtables. The fuel is one more than the
    elements. *)
Theorem xt_iterations `{ByteOrder} {T : EntryType} {St : Type} (A : abi) (fn : nat -> ST St Z)
    (m : bytes) (p : nat) (l : Z) (ps : list Z) (j : Z) (fuel : nat) (s : St) :
  (length ps < fuel)%nat ->
  (target_offset A m p = Some l -> in_word 32 (sizeof A et_type) ->
   chain (fun i => match_size A m (at_offset p i)) l (sizeof A et_type) ps j ->
   XT_MATCH_ITERATE A m p fn fuel s = for_each fn (map (at_offset p) ps) s) /\
  (chain (fun i => next_offset A m (at_offset p i)) l 0 ps j -> forall n,
   XT_ENTRY_ITERATE_CONTINUE A m p l n fn fuel s
   = for_each fn (drop (Z.to_nat n) (map (at_offset p) ps)) s).
Proof.
  intros Hf. split.
  - intros Hl Hz Hc. unfold XT_MATCH_ITERATE. rewrite (run_chain _ _ _ l ps _ _ j) by done.
    apply visit_for_each.
  - intros Hc n. unfold XT_ENTRY_ITERATE_CONTINUE. rewrite (run_chain _ _ _ l ps _ _ j) by done.
    by rewrite visit_skip, Z.sub_0_r.
Qed.

(** An entry with two matches, of 40 and 48 bytes, and a 40 byte target. *)
Definition sample_entry : bytes :=
  replicate 88 0 ++ [200; 0; 240; 0] ++ replicate 20 0
  ++ ([40; 0] ++ replicate 38 0) ++ ([48; 0] ++ replicate 46 0) ++ replicate 40 0.

(** Records what it is called with. *)
Definition note : nat -> ST (list nat) Z := fun p s => Some (0, (s ++ [p])%list).

(** One element of a chain, its size found by evaluation. *)
Local Ltac element :=
  split; [reflexivity|split; [vm_compute; reflexivity|]];
  eexists; split; [vm_compute; reflexivity|split; [reflexivity|split; [reflexivity|]]].
Local Ltac no_more := split; [reflexivity|vm_compute; congruence].

Lemma xt_iterations_witness :
  let _ : ByteOrder := false in
  XT_MATCH_ITERATE (T := ipt) lp64 sample_entry 0 note 3 [] = Some (0, [112; 152]%nat) /\
  XT_ENTRY_ITERATE_CONTINUE (T := ipt) lp64 (sample_entry ++ sample_entry) 0 480 1 note 3 []
    = Some (0, [240%nat]).
Proof.
  intros bo. split.
  - refine (eq_trans (proj1 (xt_iterations (H := bo) (T := ipt) lp64 note sample_entry 0 200
      [112; 152] 200 3 [] _) _ _ _) _); [cbn; lia|by vm_compute|by vm_compute| |by vm_compute].
    element. element. no_more.
  - refine (eq_trans (proj2 (xt_iterations (H := bo) (T := ipt) lp64 note (sample_entry ++ sample_entry)
      0 480 [0; 240] 480 3 [] _) _ 1) _); [cbn; lia| |by vm_compute].
    element. element. no_more.
Defined.

(** C20. The iteration macros of ebtables call the function on every match (every
    watcher, every entry or chain header), in order, up to the first result that
    is not 0, which they return; if there is none, they return 0 when the
    elements end exactly where the next part of the entry begins (or at the end
    of the table), and [-EINVAL] when the last one reaches beyond. *)
Theorem ebt_iterations `{ByteOrder} {St : Type} (A : abi) (fn : nat -> ST St Z)
    (m : bytes) (p : nat) (l : Z) (ps : list Z) (j : Z) (fuel : nat) (s : St) :
  (length ps < fuel)%nat -> in_word 32 (sizeof A ebt_entry) ->
  let result := (ret ← for_each fn (map (at_offset p) ps);
                 mret (if ret =? 0 then if j =? l then 0 else - EINVAL else ret)) s in
  (watchers_offset A m p = Some l ->
   chain (fun i => s ← ebt_match_size A m (at_offset p i); Some (s + sizeof A ebt_entry_match)) l
     (sizeof A ebt_entry) ps j ->
   EBT_MATCH_ITERATE A m p fn fuel s = result) /\
  (forall w, watchers_offset A m p = Some w -> in_word 32 w -> ebt_target_offset A m p = Some l ->
   chain (fun i => s ← watcher_size A m (at_offset p i); Some (s + sizeof A ebt_entry_watcher)) l
     w ps j ->
   EBT_WATCHER_ITERATE A m p fn fuel s = result) /\
  (chain (fun i => b ← bitmask A m (at_offset p i);
                   if b =? 0 then Some (sizeof A ebt_entries) else ebt_next_offset A m (at_offset p i))
     l 0 ps j ->
   EBT_ENTRY_ITERATE A m p l fn fuel s = result).
Proof.
  intros Hf Hz result. split_and!.
  - intros Hl Hc. by apply run_exact.
  - intros w Hw Hr Hl Hc. unfold EBT_WATCHER_ITERATE. rewrite Hw.
    unfold mbind at 1, st_bind at 1, st_lift. cbn [fmap option_fmap option_map]. by apply run_exact.
  - intros Hc. by apply run_exact.
Qed.

(** An entry with one match of 8 bytes of data, no watchers and a target. *)
Definition sample_ebt : bytes :=
  [1; 0; 0; 0] ++ replicate 96 0 ++ [160; 0; 0; 0] ++ [160; 0; 0; 0] ++ [200; 0; 0; 0]
  ++ (replicate 32 0 ++ [8; 0; 0; 0] ++ replicate 12 0) ++ replicate 40 0.

Lemma ebt_iterations_witness :
  let _ : ByteOrder := false in
  EBT_MATCH_ITERATE lp64 sample_ebt 0 note 2 [] = Some (0, [112%nat]) /\
  EBT_WATCHER_ITERATE lp64 sample_ebt 0 note 1 [] = Some (0, []) /\
  EBT_ENTRY_ITERATE lp64 sample_ebt 0 180 note 2 [] = Some (- EINVAL, [0%nat]).
Proof.
  intros bo.
  pose proof (fun l ps j fuel => ebt_iterations (H := bo) lp64 note sample_ebt 0 l ps j fuel []) as E.
  split_and!.
  - refine (eq_trans (proj1 (E 160 [112] 160 2%nat _ _) _ _) _);
      [cbn; lia|by vm_compute|by vm_compute| |by vm_compute]. element. no_more.
  - refine (eq_trans (proj1 (proj2 (E 160 [] 160 1%nat _ _)) 160 _ _ _ _) _);
      [cbn; lia|by vm_compute..|no_more|by vm_compute].
  - refine (eq_trans (proj2 (proj2 (E 180 [0] 200 2%nat _ _)) _) _);
      [cbn; lia|by vm_compute| |by vm_compute]. element. no_more.
Defined.

(** C13 Sizes the macros do not guard against. A match of size 0 keeps
    [XT_MATCH_ITERATE] on it for ever, and so does, in [EBT_MATCH_ITERATE], a
    match whose size and header together are 2^32, because the offset is a 32-bit
    word: with a function that always returns 0 neither has a result for any
    number of steps. Elements of positive size that stay below the last 32-bit
    offset always form a chain, over which the loops end. *)
Theorem stuck_iterations `{ByteOrder} {T : EntryType} {St : Type} (A : abi) (fn : nat -> ST St Z)
    (m : bytes) (e : nat) (l : Z) :
  (forall p s, exists s', fn p s = Some (0, s')) ->
  (in_word 32 (sizeof A et_type) -> target_offset A m e = Some l -> sizeof A et_type < l ->
   match_size A m (at_offset e (sizeof A et_type)) = Some 0 ->
   forall fuel s, XT_MATCH_ITERATE A m e fn fuel s = None) /\
  (in_word 32 (sizeof A ebt_entry) -> watchers_offset A m e = Some l -> sizeof A ebt_entry < l ->
   ebt_match_size A m (at_offset e (sizeof A ebt_entry)) = Some (2 ^ 32 - sizeof A ebt_entry_match) ->
   forall fuel s, EBT_MATCH_ITERATE A m e fn fuel s = None) /\
  (forall step_at, (forall i, 0 <= i < l -> exists k, step_at i = Some k /\ 0 < k /\ i + k < 2 ^ 32) ->
   forall i, 0 <= i -> exists ps j, chain step_at l i ps j).
Proof.
  intros Hfn. split_and!.
  - intros Hz Hl Hlt Hs fuel s. unfold XT_MATCH_ITERATE, mbind, st_bind.
    by rewrite (loop_stuck _ _ _ l _ 0) by (done || rewrite Z.add_0_r; by apply wrap_small).
  - intros Hz Hl Hlt Hs fuel s. unfold EBT_MATCH_ITERATE, mbind at 1, st_bind.
    rewrite (loop_stuck _ _ _ l _ (2 ^ 32)); try done.
    + rewrite Hs. cbn [mbind option_bind]. f_equal. lia.
    + unfold wrap. rewrite <- (Z.mul_1_l (2 ^ 32)) at 1. rewrite Z_mod_plus_full. by apply wrap_small.
  - intros step_at Hs i Hi. by apply chain_exists.
Qed.

Lemma stuck_iterations_witness :
  let _ : ByteOrder := false in
  let m := replicate 88 0 ++ [200; 0; 240; 0] ++ replicate 148 0 in
  let b := replicate 100 0 ++ [200; 0; 0; 0] ++ replicate 40 0 ++ [0xd8; 0xff; 0xff; 0xff] ++ replicate 52 0 in
  (forall fuel s, XT_MATCH_ITERATE (T := ipt) lp64 m 0 note fuel s = None) /\
  (forall fuel s, EBT_MATCH_ITERATE lp64 b 0 note fuel s = None) /\
  exists ps j, chain (fun i => Some 8) 100 0 ps j.
Proof.
  intros bo m b. assert (Hn : forall p s, exists s', note p s = Some (0, s')) by (intros; by eexists).
  pose proof (fun m l => stuck_iterations (H := bo) (T := ipt) lp64 note m 0 l Hn) as E.
  split_and!.
  - apply (E m 200); by vm_compute.
  - apply (E b 200); by vm_compute.
  - apply (E m 100); [|lia]. intros i Hi. exists 8. split; [done|lia].
Defined.

(** ** The chunk bitmap as a set *)

(** The numbers with a bit in an array of [words] words. *)
Definition numbers (words : nat) : gset Z := list_to_set (seqZ 0 (32 * Z.of_nat words)).

(** The numbers whose bit is set. *)
Definition chunk_set (m : chunkmap) : gset Z :=
  list_to_set (List.filter (fun t => bool_decide (SCTP_CHUNKMAP_IS_SET m t = Some true))
    (seqZ 0 (32 * Z.of_nat (length m)))).

(** The chunk types of SCTP are bytes. *)
Definition chunk_types : gset Z := list_to_set (seqZ 0 256).

(** An array of [words] 32-bit words. *)
Definition chunkmap_ok (words : nat) (m : chunkmap) : Prop := length m = words /\ Forall is_u32 m.

Lemma elem_of_numbers words t : t ∈ numbers words <-> 0 <= t < 32 * Z.of_nat words.
Proof. unfold numbers. rewrite elem_of_list_to_set, elem_of_seqZ. lia. Qed.

Lemma elem_of_chunk_set m t :
  t ∈ chunk_set m <-> 0 <= t < 32 * Z.of_nat (length m) /\ SCTP_CHUNKMAP_IS_SET m t = Some true.
Proof.
  unfold chunk_set. rewrite elem_of_list_to_set, list_elem_of_In, filter_In, <- list_elem_of_In,
    elem_of_seqZ, bool_decide_eq_true. split; intros [? ?]; (split; [lia|done]).
Qed.

Section words.
Context (words : nat).
Abbreviation range t := (0 <= t < 32 * Z.of_nat words).

Lemma elem_of_ok m t : chunkmap_ok words m ->
  t ∈ chunk_set m <-> range t /\ SCTP_CHUNKMAP_IS_SET m t = Some true.
Proof. intros [<- _]. apply elem_of_chunk_set. Qed.

Lemma word_of_lt t : range t -> (word_of t < words)%nat.
Proof. intros. unfold word_of. Z.to_euclidean_division_equations. lia. Qed.

Lemma bit_of_pow t : 0 <= t -> bit_of t = 2 ^ (t mod 32).
Proof.
  intros Ht. unfold bit_of. rewrite shiftl_mul, Z.mul_1_l by (apply Z.mod_pos_bound; lia).
  pose proof (Z.mod_pos_bound t 32). apply wrap_small. split; [apply Z.pow_nonneg; lia|].
  apply Z.pow_lt_mono_r; lia.
Qed.

(** The test looks at one bit of one word. *)
Lemma is_set_testbit m t w : 0 <= t -> m !! word_of t = Some w ->
  SCTP_CHUNKMAP_IS_SET m t = Some (Z.testbit w (t mod 32)).
Proof.
  intros Ht Hw. unfold SCTP_CHUNKMAP_IS_SET, rd. rewrite Hw. cbn [mbind option_bind]. f_equal.
  pose proof (Z.mod_pos_bound t 32). rewrite bit_of_pow by done. rewrite Z.land_comm.
  destruct (Z.testbit w (t mod 32)) eqn:E.
  - apply negb_true_iff, Z.eqb_neq. intros E0. apply (f_equal (fun x => Z.testbit x (t mod 32))) in E0.
    rewrite Z.land_spec, Z.pow2_bits_true, E, Z.bits_0 in E0 by lia. done.
  - apply negb_false_iff, Z.eqb_eq, Z.bits_inj'. intros n Hn.
    rewrite Z.land_spec, Z.bits_0. destruct (decide (n = t mod 32)) as [->|Hne].
    + by rewrite E, andb_false_r.
    + by rewrite Z.pow2_bits_false by done.
Qed.

Lemma same_type t u : 0 <= t -> 0 <= u -> word_of t = word_of u -> t mod 32 = u mod 32 -> t = u.
Proof.
  unfold word_of. intros Ht Hu Hw Hm. apply Z2Nat.inj in Hw; try (apply Z.div_pos; lia).
  rewrite (Z.div_mod t 32), (Z.div_mod u 32) by lia. by rewrite Hw, Hm.
Qed.

(** Changing a word. *)
Lemma update_word m u w w' : range u -> chunkmap_ok words m -> m !! word_of u = Some w -> is_u32 w' ->
  exists m', wr m (word_of u) w' = Some m' /\ chunkmap_ok words m' /\
    forall t, range t -> SCTP_CHUNKMAP_IS_SET m' t =
      if decide (word_of t = word_of u) then Some (Z.testbit w' (t mod 32)) else SCTP_CHUNKMAP_IS_SET m t.
Proof.
  intros Hu [Hl Hm] Hw Hw'. pose proof (lookup_lt_Some _ _ _ Hw) as Hlt.
  exists (<[word_of u := w']> m). rewrite wr_Some by done. split_and!; [done| |].
  - split; [by rewrite length_insert|by apply Forall_insert].
  - intros t Ht. case_decide as E.
    + apply is_set_testbit; [lia|]. rewrite E. by apply list_lookup_insert_eq.
    + unfold SCTP_CHUNKMAP_IS_SET, rd. by rewrite list_lookup_insert_ne by congruence.
Qed.

Lemma word_at m t : range t -> chunkmap_ok words m ->
  exists w, m !! word_of t = Some w /\ is_u32 w /\ SCTP_CHUNKMAP_IS_SET m t = Some (Z.testbit w (t mod 32)).
Proof.
  intros Ht [Hl Hm]. destruct (lookup_lt_is_Some_2 m (word_of t)) as [w Hw].
  { rewrite Hl. by apply word_of_lt. }
  exists w. split_and!; [done|by eapply Forall_lookup_1|]. by apply is_set_testbit; [lia|].
Qed.

Lemma bit_range u : 0 <= u -> is_u32 (bit_of u).
Proof. intros. by apply wrap_range. Qed.

Lemma chunk_set_insert m u : range u -> chunkmap_ok words m -> exists m',
  SCTP_CHUNKMAP_SET m u = Some m' /\ chunkmap_ok words m' /\ chunk_set m' = {[u]} ∪ chunk_set m.
Proof.
  intros Hu Hok. destruct (word_at m u Hu Hok) as (w & Hw & Rw & _).
  destruct (update_word m u w (w ||| bit_of u) Hu Hok Hw) as (m' & E & Hok' & Ht).
  { apply lor_range; [lia|done|apply bit_range; lia]. }
  exists m'. unfold SCTP_CHUNKMAP_SET, rd. rewrite Hw. cbn [mbind option_bind]. split_and!; [done|done|].
  apply set_eq. intros t. rewrite elem_of_union, elem_of_singleton, !elem_of_ok by done.
  destruct (decide (range t)) as [Hr|Hr]; [|split; [tauto|intros [-> |]; tauto]].
  rewrite Ht by done. case_decide as Ew.
  - destruct (word_at m t Hr Hok) as (w2 & Hw2 & _ & ->). rewrite Ew, Hw in Hw2. simplify_eq.
    rewrite Z.lor_spec, bit_of_pow by lia. destruct (decide (t mod 32 = u mod 32)) as [Em|Em].
    + rewrite Em, Z.pow2_bits_true, orb_true_r by (apply Z.mod_pos_bound; lia).
      split; [intros _; left; apply same_type; lia|done].
    + rewrite Z.pow2_bits_false, orb_false_r by congruence. split; [tauto|]. intros [-> |]; [done|tauto].
  - split; [tauto|]. intros [-> |]; [done|tauto].
Qed.

Lemma chunk_set_delete m u : range u -> chunkmap_ok words m -> exists m',
  SCTP_CHUNKMAP_CLEAR m u = Some m' /\ chunkmap_ok words m' /\ chunk_set m' = chunk_set m ∖ {[u]}.
Proof.
  intros Hu Hok. destruct (word_at m u Hu Hok) as (w & Hw & Rw & _).
  destruct (update_word m u w (w &&& u32 (Z.lnot (bit_of u))) Hu Hok Hw) as (m' & E & Hok' & Ht).
  { apply land_range; [lia|done|]. apply wrap_range. lia. }
  exists m'. unfold SCTP_CHUNKMAP_CLEAR, rd. rewrite Hw. cbn [mbind option_bind]. split_and!; [done|done|].
  apply set_eq. intros t. rewrite elem_of_difference, elem_of_singleton, !elem_of_ok by done.
  destruct (decide (range t)) as [Hr|Hr]; [|tauto].
  rewrite Ht by done. case_decide as Ew.
  - destruct (word_at m t Hr Hok) as (w2 & Hw2 & _ & ->). rewrite Ew, Hw in Hw2. simplify_eq.
    pose proof (Z.mod_pos_bound t 32 ltac:(lia)) as Hb.
    rewrite Z.land_spec. unfold wrap. rewrite Z.mod_pow2_bits_low by lia.
    rewrite Z.lnot_spec, bit_of_pow by lia. destruct (decide (t mod 32 = u mod 32)) as [Em|Em].
    + rewrite Em, Z.pow2_bits_true, andb_false_r by (rewrite <- Em; lia).
      split; [by intros [_ ?]|intros [_ Hne]; destruct Hne; apply same_type; lia].
    + rewrite Z.pow2_bits_false, andb_true_r by congruence.
      split; [|tauto]. intros [? ?]. split; [done|]. by intros ->.
  - split; [|tauto]. intros [? ?]. split; [done|]. by intros ->.
Qed.

(** A map is determined by its set. *)
Lemma chunk_set_inj m1 m2 : chunkmap_ok words m1 -> chunkmap_ok words m2 -> chunk_set m1 = chunk_set m2 -> m1 = m2.
Proof.
  intros H1 H2 E. pose proof H1 as [L1 _]. pose proof H2 as [L2 _].
  apply (list_eq_same_length _ _ words L2 L1). intros k w1 w2 Hk Hw1 Hw2.
  assert (R1 : is_u32 w1) by (destruct H1; by eapply Forall_lookup_1).
  assert (R2 : is_u32 w2) by (destruct H2; by eapply Forall_lookup_1).
  apply Z.bits_inj'. intros n Hn. destruct (decide (n < 32)) as [Hlt|]; [|by rewrite !(testbit_high 32) by (done || lia)].
  set (t := 32 * Z.of_nat k + n).
  assert (Hk' : word_of t = k) by (unfold word_of, t; Z.to_euclidean_division_equations; lia).
  assert (Hm' : t mod 32 = n) by (unfold t; Z.to_euclidean_division_equations; lia).
  assert (Ht : range t) by (apply lookup_lt_Some in Hw1; unfold t; lia).
  pose proof (is_set_testbit m1 t w1) as T1. pose proof (is_set_testbit m2 t w2) as T2.
  rewrite Hk', Hm' in T1, T2. specialize (T1 (proj1 Ht) Hw1). specialize (T2 (proj1 Ht) Hw2).
  pose proof (elem_of_ok m1 t H1) as M1. pose proof (elem_of_ok m2 t H2) as M2.
  rewrite E, T1 in M1. rewrite T2 in M2. destruct (Z.testbit w1 n), (Z.testbit w2 n); try done.
  - exfalso. destruct (proj1 M2 (proj2 M1 (conj Ht eq_refl))). done.
  - exfalso. destruct (proj1 M1 (proj2 M2 (conj Ht eq_refl))). done.
Qed.

Lemma all_words_eq x n : forall m i, (i + n = length m)%nat ->
  all_words m n i x = Some (bool_decide (drop i m = replicate n x)).
Proof.
  induction n as [|n IH]; intros m i Hl; cbn [all_words replicate].
  { rewrite drop_ge by lia. by rewrite bool_decide_eq_true_2. }
  destruct (lookup_lt_is_Some_2 m i) as [w Hw]; [lia|]. unfold rd. rewrite Hw. cbn [mbind option_bind].
  rewrite (drop_S _ _ _ Hw). destruct (Z.eqb_spec w x) as [->|Hne].
  - rewrite IH by lia. f_equal. apply bool_decide_ext. split; [by intros ->|by intros [=]].
  - rewrite bool_decide_eq_false_2 by congruence. done.
Qed.

Lemma replicate_ok x : is_u32 x -> chunkmap_ok words (replicate words x).
Proof. intros Hx. split; [apply length_replicate|by apply Forall_replicate]. Qed.

Lemma is_set_replicate x t : range t ->
  SCTP_CHUNKMAP_IS_SET (replicate words x) t = Some (Z.testbit x (t mod 32)).
Proof. intros Ht. apply is_set_testbit; [lia|]. by apply lookup_replicate_2, word_of_lt. Qed.

Lemma no_bits_set : chunk_set (replicate words 0) = ∅.
Proof.
  apply set_eq. intros t. rewrite elem_of_chunk_set, length_replicate. split; [|set_solver].
  intros [Ht E]. by rewrite is_set_replicate, Z.bits_0 in E.
Qed.

Lemma all_bits_set : chunk_set (replicate words (u32 (Z.lnot 0))) = numbers words.
Proof.
  apply set_eq. intros t. rewrite elem_of_chunk_set, elem_of_numbers, length_replicate.
  split; [tauto|]. intros Ht. split; [done|]. rewrite is_set_replicate by done. f_equal.
  pose proof (Z.mod_pos_bound t 32). unfold wrap. by rewrite Z.mod_pow2_bits_low, Z.lnot_spec, Z.bits_0 by lia.
Qed.

(** The test of a bit is membership. *)
Lemma is_set_elem m t : range t -> chunkmap_ok words m ->
  SCTP_CHUNKMAP_IS_SET m t = Some (bool_decide (t ∈ chunk_set m)).
Proof.
  intros Ht Hok. destruct (word_at m t Ht Hok) as (w & _ & _ & E). pose proof Hok as [Hl _].
  rewrite E. f_equal. symmetry. destruct (Z.testbit w (t mod 32)).
  - apply bool_decide_eq_true, elem_of_chunk_set. by rewrite Hl.
  - apply bool_decide_eq_false. rewrite elem_of_chunk_set, E. by intros [_ ?].
Qed.

(** The test of all words is equality with the set of a constant array. *)
Lemma all_words_set m x : is_u32 x -> chunkmap_ok words m ->
  all_words m (length m) 0 x = Some (bool_decide (chunk_set m = chunk_set (replicate words x))).
Proof.
  intros Hx Hok. rewrite all_words_eq by done. f_equal. apply bool_decide_ext.
  rewrite drop_0, (proj1 Hok). split; [by intros ->|].
  apply chunk_set_inj; [done|by apply replicate_ok].
Qed.

Lemma set_outside m t : chunkmap_ok words m -> 32 * Z.of_nat words <= t -> SCTP_CHUNKMAP_SET m t = None.
Proof.
  intros [Hl _] Ht. unfold SCTP_CHUNKMAP_SET, rd. rewrite lookup_ge_None_2; [done|].
  rewrite Hl. unfold word_of. Z.to_euclidean_division_equations. lia.
Qed.
End words.

(** [chunkmap] of [struct xt_sctp_info]: [256 / sizeof (__u32)] words. *)
Definition chunkmap_words : nat := Z.to_nat (256 / 4).

(** C28 The chunk bitmap of the rule, an array of 64 words, is a set of the
    numbers below 2048: setting and clearing a number insert and delete it, the set
    is empty after a reset and full after setting all, and the two tests say
    whether it is; a number of 2048 or more is outside the array. The 256 chunk
    types take only an eighth of it: the numbers from 256 on, which are no chunk
    types, stay inside the array, and a map that has all the chunk types, and
    nothing else, is not all set. *)
Theorem chunkmap_is_set (m : chunkmap) : chunkmap_ok chunkmap_words m ->
  (forall t, 0 <= t < 2048 ->
     SCTP_CHUNKMAP_IS_SET m t = Some (bool_decide (t ∈ chunk_set m)) /\
     (exists m', SCTP_CHUNKMAP_SET m t = Some m' /\ chunkmap_ok chunkmap_words m' /\
        chunk_set m' = {[t]} ∪ chunk_set m) /\
     (exists m', SCTP_CHUNKMAP_CLEAR m t = Some m' /\ chunkmap_ok chunkmap_words m' /\
        chunk_set m' = chunk_set m ∖ {[t]})) /\
  chunk_set (SCTP_CHUNKMAP_RESET m) = ∅ /\
  (forall t, t ∈ chunk_set (SCTP_CHUNKMAP_SET_ALL m) <-> 0 <= t < 2048) /\
  SCTP_CHUNKMAP_IS_CLEAR m = Some (bool_decide (chunk_set m = ∅)) /\
  SCTP_CHUNKMAP_IS_ALL_SET m = Some (bool_decide (chunk_set m = numbers chunkmap_words)) /\
  (forall t, 2048 <= t -> SCTP_CHUNKMAP_SET m t = None) /\
  (chunk_set m ⊆ chunk_types -> SCTP_CHUNKMAP_IS_ALL_SET m = Some false).
Proof.
  intros Hok. pose proof Hok as [Hl _].
  assert (Hall : SCTP_CHUNKMAP_IS_ALL_SET m = Some (bool_decide (chunk_set m = numbers chunkmap_words))).
  { rewrite <- all_bits_set. by apply all_words_set. }
  split_and!; [| | | |exact Hall| |].
  - intros t Ht. split_and!; [by apply (is_set_elem chunkmap_words)|by apply chunk_set_insert|by apply chunk_set_delete].
  - unfold SCTP_CHUNKMAP_RESET. rewrite Hl. apply no_bits_set.
  - intros t. unfold SCTP_CHUNKMAP_SET_ALL. rewrite Hl, all_bits_set, elem_of_numbers. done.
  - rewrite <- (no_bits_set chunkmap_words). by apply all_words_set.
  - intros t Ht. by apply (set_outside chunkmap_words).
  - intros Hsub. rewrite Hall. f_equal. apply bool_decide_eq_false. intros E.
    assert (H : 256 ∈ chunk_types); [apply Hsub; rewrite E; by apply elem_of_numbers|].
    unfold chunk_types in H. apply elem_of_list_to_set, elem_of_seqZ in H. lia.
Qed.

(** A map with exactly the 256 chunk types. *)
Definition all_chunk_types : chunkmap := replicate 8 0xffffffff ++ replicate 56 0.

Lemma chunkmap_is_set_witness :
  chunkmap_ok chunkmap_words all_chunk_types /\ SCTP_CHUNKMAP_IS_SET all_chunk_types 255 = Some true /\
  SCTP_CHUNKMAP_IS_ALL_SET all_chunk_types = Some false.
Proof.
  assert (Hok : chunkmap_ok chunkmap_words all_chunk_types).
  { split; [done|]. apply Forall_app. split; apply Forall_replicate; done. }
  split_and!; [done|reflexivity|]. apply (chunkmap_is_set all_chunk_types Hok).
  intros t [Ht E]%elem_of_chunk_set. unfold chunk_types. apply elem_of_list_to_set, elem_of_seqZ.
  split; [lia|]. destruct (decide (t < 256)) as [|Hge]; [lia|exfalso].
  assert (Hw : all_chunk_types !! word_of t = Some 0).
  { unfold all_chunk_types. change (length _) with 64%nat in Ht.
    rewrite lookup_app_r by (unfold word_of; cbn; Z.to_euclidean_division_equations; lia).
    apply lookup_replicate_2. unfold word_of. cbn. Z.to_euclidean_division_equations. lia. }
  rewrite (is_set_testbit _ _ _ (proj1 Ht) Hw), Z.bits_0 in E. done.
Defined.
