(* ===== verification/Words.v ===== *)
(** * Words made of fields

    The algebra of words that macros put together from fields and take apart: a
    shift of an [int] with its undefined cases, masks of any position, and two
    descriptions of packed words that the files of packed codes and sets use: a
    [code] packs operands and gives them back, a [view] names the fields of a word
    from bit 0 upward. *)
From S2P Require Import Prelude.

(** ** Arithmetic of [int] operands *)

(** [x << k] on [int]: no value if [x] is negative or the result does not fit. *)
Definition int_shl (x k : Z) : option Z := if decide (0 <= x) then int_val (x ≪ k) else None.

Lemma int_shl_Some x k : 0 <= k -> 0 <= x -> x * 2 ^ k < 2 ^ 31 -> int_shl x k = Some (x ≪ k).
Proof.
  intros Hk Hx H. unfold int_shl. rewrite decide_True by done. apply int_val_Some.
  rewrite Z.shiftl_mul_pow2 by done. unfold in_s32. pose proof (Z.pow_nonneg 2 k). nia.
Qed.

Lemma int_shl_None x k : 0 <= k -> 0 <= x -> 2 ^ 31 <= x * 2 ^ k -> int_shl x k = None.
Proof.
  intros Hk Hx H. unfold int_shl. rewrite decide_True by done. unfold int_val.
  rewrite decide_False; [done|]. rewrite Z.shiftl_mul_pow2 by done. unfold in_s32. lia.
Qed.

(** ** Masks and disjoint sums *)

(** A mask whose low [k] bits are clear. *)
Lemma land_shifted k c x : 0 <= k -> x &&& (c ≪ k) = ((x ≫ k) &&& c) ≪ k.
Proof.
  intros Hk. apply Z.bits_inj'. intros n Hn. rewrite Z.land_spec. destruct (decide (n < k)).
  - by rewrite !Z.shiftl_spec_low, andb_false_r by lia.
  - rewrite !Z.shiftl_spec, Z.land_spec, Z.shiftr_spec by lia. do 2 f_equal. lia.
Qed.

(** A mask of the [w] bits from bit [k]. *)
Lemma land_field k w x : 0 <= k -> 0 <= w -> x &&& ((2 ^ w - 1) ≪ k) = x / 2 ^ k mod 2 ^ w * 2 ^ k.
Proof. intros Hk Hw. by rewrite land_shifted, land_mask, shiftl_mul, shiftr_div. Qed.

Lemma lor_plus k x y : 0 <= k -> 0 <= y < 2 ^ k -> x mod 2 ^ k = 0 -> x ||| y = x + y.
Proof.
  intros Hk Hy Hx. pose proof (Z.div_mod x (2 ^ k) ltac:(lia)) as Hd.
  replace x with ((x / 2 ^ k) ≪ k) at 1 by (rewrite shiftl_mul; lia). rewrite lor_disjoint by done. lia.
Qed.

Lemma lor_plus_rev k x y : 0 <= k -> 0 <= y < 2 ^ k -> x mod 2 ^ k = 0 -> y ||| x = y + x.
Proof. intros. rewrite Z.lor_comm, (lor_plus k) by done. lia. Qed.

(** Every mask by a constant becomes a remainder, every shift a product or a
    quotient, and every sum of disjoint words an addition. *)
Ltac closed_pos c := lazymatch c with xH => idtac | xO ?d => closed_pos d | xI ?d => closed_pos d end.
Ltac unmask :=
  repeat match goal with
  | |- context [?x &&& Zpos ?c] =>
    closed_pos c;
    let k := eval vm_compute in (Z.log2 (Z.land (Zpos c) (Z.opp (Zpos c)))) in
    let w := eval vm_compute in (Z.log2 (Zpos c + 2 ^ k) - k) in
    let v := eval vm_compute in ((2 ^ w - 1) ≪ k) in
    lazymatch v with Zpos c => idtac end;
    lazymatch k with
    | 0 => change (x &&& Zpos c) with (x &&& (2 ^ w - 1)); rewrite (land_mask x w) by done
    | _ => change (x &&& Zpos c) with (x &&& ((2 ^ w - 1) ≪ k)); rewrite (land_field k w x) by done
    end
  end.
Ltac unshift := rewrite ?shiftl_mul, ?shiftr_div by done.
Ltac pow_const :=
  repeat match goal with
  | |- context [2 ^ ?e] => let v := eval vm_compute in (2 ^ e) in
      lazymatch v with Zpos ?p => closed_pos p end; change (2 ^ e) with v
  | H : context [2 ^ ?e] |- _ => let v := eval vm_compute in (2 ^ e) in
      lazymatch v with Zpos ?p => closed_pos p end; change (2 ^ e) with v in H
  end.
Ltac word_arith := unfold in_word, wrap in *; pow_const; Z.to_euclidean_division_equations; lia.

(** ** Codes *)

(** Operands packed into a word of [code_bits] bits and the macros that give them
    back, one per operand. [code_operands] says what each operand may be; where the
    first operand may reach bit 31 of an [int], [code_limit] is the value from which
    on it does. *)
Record code : Type := Code {
  code_name : string;
  code_operands : list (Z -> Prop);
  code_limit : option Z;
  code_pack : list Z -> option Z;
  code_fields : list (Z -> Z);
  code_bits : Z }.

Definition pack1 (f : Z -> option Z) (vs : list Z) : option Z :=
  match vs with [a] => f a | _ => None end.
Definition pack2 (f : Z -> Z -> option Z) (vs : list Z) : option Z :=
  match vs with [a; b] => f a b | _ => None end.
Definition pack3 (f : Z -> Z -> Z -> option Z) (vs : list Z) : option Z :=
  match vs with [a; b; c] => f a b c | _ => None end.
Definition pack5 (f : Z -> Z -> Z -> Z -> Z -> option Z) (vs : list Z) : option Z :=
  match vs with [a; b; c; d; e] => f a b c d e | _ => None end.

Definition overflows (c : code) (vs : list Z) : bool :=
  match code_limit c, vs with Some l, v :: _ => l <=? v | _, _ => false end.

Definition code_ok (c : code) : Prop :=
  forall vs, Forall2 (fun P v => P v) (code_operands c) vs ->
  if overflows c vs then code_pack c vs = None
  else exists x, code_pack c vs = Some x /\ in_word (code_bits c) x /\ map (fun f => f x) (code_fields c) = vs.

(** ** Views *)

(** How a macro hands out its field: shifted down, in place, as a number of 4-byte
    units in bytes, or shifted down with the sign of its top bit. *)
Inductive look : Type := Down | Inplace | Quads | Signed.

(** The fields of a word from bit 0 upward; a segment without a macro is a gap. *)
Record view : Type := View {
  view_name : string;
  view_segs : list (Z * option (look * (Z -> Z))) }.

Definition signed (w v : Z) : Z := if v <? 2 ^ (w - 1) then v else v - 2 ^ w.
Definition seen (l : look) (o w x : Z) : Z :=
  let v := x / 2 ^ o mod 2 ^ w in
  match l with Down => v | Inplace => v * 2 ^ o | Quads => v * 4 | Signed => signed w v end.

Fixpoint segs_read (o : Z) (segs : list (Z * option (look * (Z -> Z)))) (x : Z) : Prop :=
  match segs with
  | [] => True
  | (w, None) :: r => segs_read (o + w) r x
  | (w, Some (l, f)) :: r => f x = seen l o w x /\ segs_read (o + w) r x
  end.
Definition view_bits (v : view) : Z := foldr Z.add 0 (map fst (view_segs v)).

(** Every macro reads exactly its segment, for every word of the size of the view. *)
Definition view_ok (v : view) : Prop :=
  Forall (fun s => 0 < fst s) (view_segs v) /\
  forall x, in_word (view_bits v) x -> segs_read 0 (view_segs v) x.

(** A view without gaps determines the word. *)
Definition full (v : view) : bool := forallb (fun s => match snd s with Some _ => true | None => false end) (view_segs v).
Definition view_fields (v : view) (x : Z) : list Z :=
  omap (fun s => match snd s with Some (_, f) => Some (f x) | None => None end) (view_segs v).

Lemma seen_inj l o w x y : 0 <= o -> 0 < w -> seen l o w x = seen l o w y ->
  x / 2 ^ o mod 2 ^ w = y / 2 ^ o mod 2 ^ w.
Proof.
  intros Ho Hw. unfold seen, signed. pose proof (Z.pow_pos_nonneg 2 o).
  pose proof (Z.mod_pos_bound (x / 2 ^ o) (2 ^ w)). pose proof (Z.mod_pos_bound (y / 2 ^ o) (2 ^ w)).
  destruct l; intros E; [done|nia|lia|]. revert E. case_match eqn:E1; case_match eqn:E2; lia.
Qed.

Lemma mod_pow_split x y o w : 0 <= o -> 0 <= w -> x mod 2 ^ o = y mod 2 ^ o ->
  x / 2 ^ o mod 2 ^ w = y / 2 ^ o mod 2 ^ w -> x mod 2 ^ (o + w) = y mod 2 ^ (o + w).
Proof.
  intros Ho Hw H1 H2. pose proof (Z.pow_pos_nonneg 2 o). pose proof (Z.pow_pos_nonneg 2 w).
  rewrite Z.pow_add_r, !Z.rem_mul_r by lia. by rewrite H1, H2.
Qed.

Lemma segs_agree segs o x y : 0 <= o -> Forall (fun s => 0 < fst s) segs ->
  forallb (fun s => match snd s with Some _ => true | None => false end) segs = true ->
  segs_read o segs x -> segs_read o segs y ->
  omap (fun s : Z * option (look * (Z -> Z)) => match snd s with Some (_, f) => Some (f x) | None => None end) segs =
  omap (fun s : Z * option (look * (Z -> Z)) => match snd s with Some (_, f) => Some (f y) | None => None end) segs ->
  x mod 2 ^ o = y mod 2 ^ o ->
  x mod 2 ^ (o + foldr Z.add 0 (map fst segs)) = y mod 2 ^ (o + foldr Z.add 0 (map fst segs)).
Proof.
  revert o. induction segs as [|[w [[l f]|]] r IH]; intros o Ho Hp Hf Hx Hy E H0; cbn in *; [by rewrite Z.add_0_r| |done].
  apply Forall_cons in Hp as [Hw Hp]. cbn in Hw. destruct Hx as [Ex Hx], Hy as [Ey Hy].
  injection E as Ef E. rewrite Z.add_assoc. apply IH; try done; [lia|].
  apply mod_pow_split; try done; [lia|]. apply (seen_inj l); [done..|congruence].
Qed.

Lemma view_determines v x y : view_ok v -> full v = true ->
  in_word (view_bits v) x -> in_word (view_bits v) y -> view_fields v x = view_fields v y -> x = y.
Proof.
  intros [Hp H] Hf Hx Hy E. unfold in_word in Hx, Hy.
  rewrite <- (Z.mod_small x (2 ^ view_bits v)), <- (Z.mod_small y (2 ^ view_bits v)) by done.
  change (view_bits v) with (0 + view_bits v). apply (segs_agree (view_segs v) 0); try done; [by apply H..|].
  by rewrite !Z.mod_1_r.
Qed.
