(* ===== verification/Codes.v ===== *)
(** * Packed codes

    Macros of [kernel-headers] that pack small numbers into one word and take them
    out again, one module per header. Operands are of type [int] unless noted, so
    shifting a bit into the sign has no value, whatever a compiler makes of it.
    Every pair of packing and unpacking macros below is a [code] of [codes], with
    operands as wide as the masks of the macros or the comments of the header. *)
From Stdlib Require Import Btauto.
From S2P Require Import Prelude.
From S2P Require Import Words.

(** ** [sound/asound.h]: protocol versions *)

Module Asound.
Definition SNDRV_PROTOCOL_VERSION (major minor subminor : Z) : option Z :=
  a ← int_shl major 16; b ← int_shl minor 8; Some (a ||| b ||| subminor).
Definition SNDRV_PROTOCOL_MAJOR (version : Z) : Z := (version ≫ 16) &&& 0xffff.
Definition SNDRV_PROTOCOL_MINOR (version : Z) : Z := (version ≫ 8) &&& 0xff.
Definition SNDRV_PROTOCOL_MICRO (version : Z) : Z := version &&& 0xff.
Definition SNDRV_PROTOCOL_INCOMPATIBLE (kversion uversion : Z) : bool :=
  negb (SNDRV_PROTOCOL_MAJOR kversion =? SNDRV_PROTOCOL_MAJOR uversion) ||
  ((SNDRV_PROTOCOL_MAJOR kversion =? SNDRV_PROTOCOL_MAJOR uversion) &&
   negb (SNDRV_PROTOCOL_MINOR kversion =? SNDRV_PROTOCOL_MINOR uversion)).
Definition version : code := Code "SNDRV_PROTOCOL_VERSION" [in_word 16; in_word 8; in_word 8] (Some (2 ^ 15))
  (pack3 SNDRV_PROTOCOL_VERSION) [SNDRV_PROTOCOL_MAJOR; SNDRV_PROTOCOL_MINOR; SNDRV_PROTOCOL_MICRO] 31.
End Asound.

(** ** [media/radio-iris.h]: opcodes of the FM host controller interface *)

Module Radio_iris.
Definition HCI_OGF_FM_RECV_CTRL_CMD_REQ : Z := 0x0013.
Definition HCI_OGF_FM_TRANS_CTRL_CMD_REQ : Z := 0x0014.
Definition HCI_OGF_FM_COMMON_CTRL_CMD_REQ : Z := 0x0015.
Definition HCI_OGF_FM_STATUS_PARAMETERS_CMD_REQ : Z := 0x0016.
Definition HCI_OGF_FM_DIAGNOSTIC_CMD_REQ : Z := 0x003f.
Definition hci_opcode_pack (ogf ocf : Z) : option Z :=
  a ← int_shl ogf 10; Some (u16 ((ocf &&& 0x03ff) ||| a)).
Definition hci_opcode_ogf (op : Z) : Z := op ≫ 10.
Definition hci_opcode_ocf (op : Z) : Z := op &&& 0x03ff.
Definition hci_recv_ctrl_cmd_op_pack (ocf : Z) : option Z := u16 <$> hci_opcode_pack HCI_OGF_FM_RECV_CTRL_CMD_REQ ocf.
Definition hci_trans_ctrl_cmd_op_pack (ocf : Z) : option Z := u16 <$> hci_opcode_pack HCI_OGF_FM_TRANS_CTRL_CMD_REQ ocf.
Definition hci_common_cmd_op_pack (ocf : Z) : option Z := u16 <$> hci_opcode_pack HCI_OGF_FM_COMMON_CTRL_CMD_REQ ocf.
Definition hci_status_param_op_pack (ocf : Z) : option Z :=
  u16 <$> hci_opcode_pack HCI_OGF_FM_STATUS_PARAMETERS_CMD_REQ ocf.
Definition hci_diagnostic_cmd_op_pack (ocf : Z) : option Z := u16 <$> hci_opcode_pack HCI_OGF_FM_DIAGNOSTIC_CMD_REQ ocf.
Definition AID (lsb msb : Z) : option Z := a ← int_shl msb 8; Some (a ||| lsb).
Definition GET_MSB (x : Z) : Z := (x ≫ 8) &&& 0xFF.
Definition GET_LSB (x : Z) : Z := x &&& 0xFF.
Definition opcode : code := Code "hci_opcode_pack" [in_word 6; in_word 10] None
  (pack2 hci_opcode_pack) [hci_opcode_ogf; hci_opcode_ocf] 16.
Definition aid : code := Code "AID" [in_word 8; in_word 8] None (pack2 AID) [GET_LSB; GET_MSB] 16.
End Radio_iris.

(** ** [linux/pci.h]: slots and functions *)

Module Pci.
Definition PCI_DEVFN (slot func : Z) : option Z :=
  a ← int_shl (slot &&& 0x1f) 3; Some (a ||| (func &&& 0x07)).
Definition PCI_SLOT (devfn : Z) : Z := (devfn ≫ 3) &&& 0x1f.
Definition PCI_FUNC (devfn : Z) : Z := devfn &&& 0x07.
Definition devfn : code := Code "PCI_DEVFN" [in_word 5; in_word 3] None (pack2 PCI_DEVFN) [PCI_SLOT; PCI_FUNC] 8.
End Pci.

(** ** [linux/keyboard.h]: key symbols *)

Module Keyboard.
Definition K (t v : Z) : option Z := a ← int_shl t 8; Some (a ||| v).
Definition KTYP (x : Z) : Z := x ≫ 8.
Definition KVAL (x : Z) : Z := x &&& 0xff.
Definition keysym : code := Code "K" [in_word 8; in_word 8] None (pack2 K) [KTYP; KVAL] 16.
End Keyboard.

(** ** [rdma/rdma_netlink.h]: message types *)

Module Rdma_netlink.
Definition RDMA_NL_GET_CLIENT (type : Z) : Z := (type &&& (((1 ≪ 6) - 1) ≪ 10)) ≫ 10.
Definition RDMA_NL_GET_OP (type : Z) : Z := type &&& ((1 ≪ 10) - 1).
Definition RDMA_NL_GET_TYPE (client op : Z) : option Z := a ← int_shl client 10; Some (a + op).
Definition type : code := Code "RDMA_NL_GET_TYPE" [in_word 6; in_word 10] None
  (pack2 RDMA_NL_GET_TYPE) [RDMA_NL_GET_CLIENT; RDMA_NL_GET_OP] 16.
End Rdma_netlink.

(** ** [linux/ppp-comp.h]: compression options *)

Module Ppp_comp.
Definition BSD_NBITS (x : Z) : Z := x &&& 0x1F.
Definition BSD_VERSION (x : Z) : Z := x ≫ 5.
Definition BSD_MAKE_OPT (v n : Z) : option Z := a ← int_shl v 5; Some (a ||| n).
Definition bsd : code := Code "BSD_MAKE_OPT" [in_word 3; in_word 5] None (pack2 BSD_MAKE_OPT) [BSD_VERSION; BSD_NBITS] 8.

Definition DEFLATE_MIN_SIZE : Z := 9.
Definition DEFLATE_MAX_SIZE : Z := 15.
Definition DEFLATE_METHOD_VAL : Z := 8.
Definition DEFLATE_SIZE (x : Z) : Z := (x ≫ 4) + 8.
Definition DEFLATE_METHOD (x : Z) : Z := x &&& 0x0F.
Definition DEFLATE_MAKE_OPT (w : Z) : option Z := a ← int_shl (w - 8) 4; Some (a + DEFLATE_METHOD_VAL).
(** The method is no operand: it is the one of the header. *)
Definition deflate : code := Code "DEFLATE_MAKE_OPT" [fun w => DEFLATE_MIN_SIZE <= w <= DEFLATE_MAX_SIZE; eq DEFLATE_METHOD_VAL]
  None (pack2 (fun w _ => DEFLATE_MAKE_OPT w)) [DEFLATE_SIZE; DEFLATE_METHOD] 8.
End Ppp_comp.

(** ** [linux/mfd]: register writes of the codecs *)

Module Codecs.
Definition ADIE_CODEC_PACK_ENTRY (reg mask val : Z) : option Z :=
  m ← int_shl mask 8; r ← int_shl reg 16; Some (val ||| m ||| r).
(** The three assignments of the macro: [reg], [mask] and [val]. *)
Definition ADIE_CODEC_UNPACK_ENTRY (packed : Z) : Z * Z * Z :=
  ((packed ≫ 16) &&& 0xff, (packed ≫ 8) &&& 0xff, packed &&& 0xff).
Definition adie : code := Code "ADIE_CODEC_PACK_ENTRY" [in_word 8; in_word 8; in_word 8] None
  (pack3 ADIE_CODEC_PACK_ENTRY) [fun p => fst (fst (ADIE_CODEC_UNPACK_ENTRY p)); fun p => snd (fst (ADIE_CODEC_UNPACK_ENTRY p));
   fun p => snd (ADIE_CODEC_UNPACK_ENTRY p)] 24.

Definition TAIKO_CODEC_PACK_ENTRY (reg mask val : Z) : option Z :=
  m ← int_shl (mask &&& 0xff) 8; r ← int_shl (reg &&& 0xffff) 16; Some ((val &&& 0xff) ||| m ||| r).
Definition TAIKO_CODEC_UNPACK_ENTRY (packed : Z) : Z * Z * Z :=
  ((packed ≫ 16) &&& 0xffff, (packed ≫ 8) &&& 0xff, packed &&& 0xff).
Definition taiko : code := Code "TAIKO_CODEC_PACK_ENTRY" [in_word 16; in_word 8; in_word 8] (Some (2 ^ 15))
  (pack3 TAIKO_CODEC_PACK_ENTRY) [fun p => fst (fst (TAIKO_CODEC_UNPACK_ENTRY p)); fun p => snd (fst (TAIKO_CODEC_UNPACK_ENTRY p));
   fun p => snd (TAIKO_CODEC_UNPACK_ENTRY p)] 31.
End Codecs.

(** ** [linux/msm_mdp.h]: hardware revisions and post-processing blocks *)

Module Msm_mdp.
Definition MDSS_GET_MAJOR (rev : Z) : Z := rev ≫ 28.
Definition MDSS_GET_MINOR (rev : Z) : Z := (rev ≫ 16) &&& 0xFFF.
Definition MDSS_GET_STEP (rev : Z) : Z := rev &&& 0xFFFF.
Definition MDSS_GET_MAJOR_MINOR (rev : Z) : Z := rev ≫ 16.
Definition IS_MDSS_MAJOR_MINOR_SAME (rev1 rev2 : Z) : bool := MDSS_GET_MAJOR_MINOR rev1 =? MDSS_GET_MAJOR_MINOR rev2.
Definition MDSS_MDP_REV (major minor step : Z) : option Z :=
  a ← int_shl (major &&& 0x000F) 28; b ← int_shl (minor &&& 0x0FFF) 16; Some (a ||| b ||| (step &&& 0xFFFF)).
Definition rev : code := Code "MDSS_MDP_REV" [in_word 4; in_word 12; in_word 16] (Some (2 ^ 3))
  (pack3 MDSS_MDP_REV) [MDSS_GET_MAJOR; MDSS_GET_MINOR; MDSS_GET_STEP] 31.
End Msm_mdp.

(** ** [linux/zorro.h]: board identifiers *)

Module Zorro.
Definition ZORRO_MANUF (id : Z) : Z := id ≫ 16.
Definition ZORRO_PROD (id : Z) : Z := (id ≫ 8) &&& 0xff.
Definition ZORRO_EPC (id : Z) : Z := id &&& 0xff.
Definition ZORRO_ID (manuf prod epc : Z) : option Z :=
  a ← int_shl manuf 16; b ← int_shl prod 8; Some (a ||| b ||| epc).
Definition id : code := Code "ZORRO_ID" [in_word 16; in_word 8; in_word 8] (Some (2 ^ 15))
  (pack3 ZORRO_ID) [ZORRO_MANUF; ZORRO_PROD; ZORRO_EPC] 31.
End Zorro.

(** ** [linux/atmdev.h]: loopback modes *)

Module Atmdev.
Definition __ATM_LM_MKLOC (n : Z) : Z := n.
Definition __ATM_LM_MKRMT (n : Z) : option Z := int_shl n 8.
Definition __ATM_LM_XTLOC (n : Z) : Z := n &&& 0xff.
Definition __ATM_LM_XTRMT (n : Z) : Z := (n ≫ 8) &&& 0xff.
(** A mode with a local and a remote part, like those of the header. *)
Definition mode (loc rmt : Z) : option Z := r ← __ATM_LM_MKRMT rmt; Some (__ATM_LM_MKLOC loc ||| r).
Definition loopback : code := Code "__ATM_LM_MKRMT" [in_word 8; in_word 8] None
  (pack2 mode) [__ATM_LM_XTLOC; __ATM_LM_XTRMT] 16.
End Atmdev.

(** ** [linux/version.h] and [linux/ip_vs.h]: versions *)

Module Version.
Definition KERNEL_VERSION (a b c : Z) : option Z :=
  x ← int_shl a 16; y ← int_shl b 8; int_val (x + y + c).
(** The three expressions of [NVERSION]. *)
Definition NVERSION (version : Z) : Z * Z * Z :=
  ((version ≫ 16) &&& 0xFF, (version ≫ 8) &&& 0xFF, version &&& 0xFF).
Definition kernel : code := Code "KERNEL_VERSION" [in_word 8; in_word 8; in_word 8] None
  (pack3 KERNEL_VERSION) [fun v => fst (fst (NVERSION v)); fun v => snd (fst (NVERSION v)); fun v => snd (NVERSION v)] 24.
End Version.

(** ** [linux/coda.h] and [linux/gfs2_ondisk.h]: file types *)

Module File_types.
Definition S_IFMT : Z := 0xf000.
Definition IFTOCDT (mode : Z) : Z := (mode &&& 0xf000) ≫ 12.
Definition CDTTOIF (dirtype : Z) : option Z := int_shl dirtype 12.
Definition coda : code := Code "CDTTOIF" [in_word 4] None (pack1 CDTTOIF) [IFTOCDT] 16.
Definition DT2IF (dt : Z) : option Z := a ← int_shl dt 12; Some (a &&& S_IFMT).
Definition IF2DT (sif : Z) : Z := (sif &&& S_IFMT) ≫ 12.
Definition gfs2 : code := Code "DT2IF" [in_word 4] None (pack1 DT2IF) [IF2DT] 16.
End File_types.

(** ** [asm/kvm.h]: identifiers of AArch64 system registers *)

Module Kvm.
Definition KVM_REG_ARM64 : Z := 0x6000000000000000.
Definition KVM_REG_SIZE_SHIFT : Z := 52.
Definition KVM_REG_SIZE_MASK : Z := 0x00f0000000000000.
Definition KVM_REG_SIZE_U64 : Z := 0x0030000000000000.
Definition KVM_REG_SIZE (id : Z) : Z := u32 (1 ≪ ((id &&& KVM_REG_SIZE_MASK) ≫ KVM_REG_SIZE_SHIFT)).
Definition KVM_REG_ARM_COPROC_SHIFT : Z := 16.
Definition KVM_REG_ARM64_SYSREG : Z := 0x0013 ≪ KVM_REG_ARM_COPROC_SHIFT.
(** The mask and the shift of a part of the identifier. *)
Definition OP0 : Z * Z := (0x000000000000c000, 14).
Definition OP1 : Z * Z := (0x0000000000003800, 11).
Definition CRN : Z * Z := (0x0000000000000780, 7).
Definition CRM : Z * Z := (0x0000000000000078, 3).
Definition OP2 : Z * Z := (0x0000000000000007, 0).
Definition ARM64_SYS_REG_SHIFT_MASK (x : Z) (n : Z * Z) : option Z := a ← int_shl x (snd n); Some (a &&& fst n).
Definition __ARM64_SYS_REG (op0 op1 crn crm op2 : Z) : option Z :=
  a ← ARM64_SYS_REG_SHIFT_MASK op0 OP0; b ← ARM64_SYS_REG_SHIFT_MASK op1 OP1;
  c ← ARM64_SYS_REG_SHIFT_MASK crn CRN; d ← ARM64_SYS_REG_SHIFT_MASK crm CRM;
  e ← ARM64_SYS_REG_SHIFT_MASK op2 OP2;
  Some (KVM_REG_ARM64 ||| KVM_REG_ARM64_SYSREG ||| a ||| b ||| c ||| d ||| e).
Definition ARM64_SYS_REG (op0 op1 crn crm op2 : Z) : option Z :=
  r ← __ARM64_SYS_REG op0 op1 crn crm op2; Some (r ||| KVM_REG_SIZE_U64).
(** "If you need to interpret the index values, here is the key". *)
Definition part (n : Z * Z) (id : Z) : Z := (id &&& fst n) ≫ snd n.
Definition sys_reg : code := Code "ARM64_SYS_REG" [in_word 2; in_word 3; in_word 4; in_word 4; in_word 3] None
  (pack5 ARM64_SYS_REG) [part OP0; part OP1; part CRN; part CRM; part OP2] 63.
End Kvm.

Definition codes : list code := [
  Asound.version; Radio_iris.opcode; Radio_iris.aid; Pci.devfn; Keyboard.keysym; Rdma_netlink.type;
  Ppp_comp.bsd; Ppp_comp.deflate; Codecs.adie; Codecs.taiko; Msm_mdp.rev; Zorro.id; Atmdev.loopback; Version.kernel;
  File_types.coda; File_types.gfs2; Kvm.sys_reg].

(** Additions instead of the sums of disjoint words. *)
Ltac lor_add :=
  rewrite <- ?Z.lor_assoc;
  repeat match goal with
  | |- context [(?x * 2 ^ ?k) ||| ?y] => rewrite (lor_plus k (x * 2 ^ k) y) by word_arith
  | |- context [?y ||| (?x * 2 ^ ?k)] => rewrite (lor_plus_rev k (x * 2 ^ k) y) by word_arith
  | |- context [?y ||| (?x * 2 ^ ?k + ?z)] => rewrite (lor_plus_rev k (x * 2 ^ k + z) y) by word_arith
  | |- context [?y ||| Zpos ?c] =>
      let k := eval vm_compute in (Z.log2 (Z.land (Zpos c) (Z.opp (Zpos c)))) in
      rewrite (lor_plus_rev k (Zpos c) y) by word_arith
  | |- context [Zpos ?c ||| ?y] =>
      let k := eval vm_compute in (Z.log2 (Z.land (Zpos c) (Z.opp (Zpos c)))) in
      rewrite (lor_plus k (Zpos c) y) by word_arith
  end.

(** The operands of a code as variables with their bounds. *)
Ltac operands :=
  intros vs Hvs; cbn in Hvs;
  repeat match goal with
  | H : Forall2 _ (_ :: _) _ |- _ => apply Forall2_cons_inv_l in H as (?v & ? & ? & H & ->)
  | H : Forall2 _ [] _ |- _ => apply Forall2_nil_inv_l in H as ->
  end.

(** Closed shifts and differences of the masks. *)
Ltac closed_masks :=
  repeat match goal with
  | |- context [Zpos ?a ≪ Zpos ?b] => closed_pos a; closed_pos b;
      let v := eval vm_compute in (Zpos a ≪ Zpos b) in change (Zpos a ≪ Zpos b) with v
  | |- context [Zpos ?a - Zpos ?b] => closed_pos a; closed_pos b;
      let v := eval vm_compute in (Zpos a - Zpos b) in change (Zpos a - Zpos b) with v
  end.

Ltac words := closed_masks; unmask; unshift; rewrite ?Z.div_mul by done.
Ltac code_step :=
  match goal with
  | |- context [int_shl ?x ?k] => progress (rewrite (int_shl_Some x k) by (words; word_arith))
  | |- context [int_val ?x] => progress (rewrite (int_val_Some x) by (unfold in_s32; words; word_arith))
  end; cbn [mbind option_bind].

(** The code of operands below the limit. *)
Ltac code_value :=
  repeat code_step; eexists; split; [reflexivity|]; words; lor_add;
  split; [word_arith|]; repeat f_equal; word_arith.
(** The shift of an operand from the limit on. *)
Ltac code_none :=
  repeat first
    [ code_step
    | match goal with |- context [int_shl ?x ?k] =>
        rewrite (int_shl_None x k) by (words; word_arith); reflexivity end ].

Ltac code_solve :=
  operands;
  cbv -[Z.land Z.lor Z.shiftl Z.shiftr int_shl int_val Z.pow Z.mul Z.add Z.sub Z.leb Z.le wrap in_word mbind option_bind] in *;
  subst; lazymatch goal with
  | |- if ?l <=? ?v then _ else _ => destruct (Z.leb_spec l v); [code_none|code_value]
  | _ => code_value
  end.

Lemma sys_reg_value op0 op1 crn crm op2 :
  in_word 2 op0 -> in_word 3 op1 -> in_word 4 crn -> in_word 4 crm -> in_word 3 op2 ->
  Kvm.ARM64_SYS_REG op0 op1 crn crm op2 =
  Some (0x6030000000130000 + (op0 * 2 ^ 14 + (op1 * 2 ^ 11 + (crn * 2 ^ 7 + (crm * 2 ^ 3 + op2))))).
Proof.
  intros. cbv -[Z.land Z.lor Z.shiftl Z.shiftr int_shl int_val Z.pow Z.mul Z.add Z.sub wrap in_word mbind option_bind].
  repeat code_step. f_equal. words.
  match goal with |- 6917529027641081856 ||| 1245184 ||| ?a ||| ?b ||| ?c ||| ?d ||| ?e ||| ?s = _ =>
    transitivity ((6917529027641081856 ||| 1245184 ||| s) ||| (a ||| (b ||| (c ||| (d ||| e)))))
  end.
  - apply Z.bits_inj'. intros n _. rewrite !Z.lor_spec. btauto.
  - change (6917529027641081856 ||| 1245184 ||| 13510798882111488) with 0x6030000000130000. lor_add. word_arith.
Qed.

Lemma sys_reg_ok : code_ok Kvm.sys_reg.
Proof.
  operands. cbn [Kvm.sys_reg overflows code_limit code_pack pack5]. rewrite sys_reg_value by done.
  eexists. split; [reflexivity|].
  cbv -[Z.land Z.shiftr Z.pow Z.mul Z.add in_word]. words. split; [word_arith|]. repeat f_equal; word_arith.
Qed.

(** C37. For every packing macro and all operands that its fields have room for, the
    code has a value of the stated size, from which the unpacking macros give the
    operands back; except that in four codes the first field, the major number of
    SNDRV_PROTOCOL_VERSION and MDSS_MDP_REV, the register of
    TAIKO_CODEC_PACK_ENTRY and the manufacturer of ZORRO_ID, reaches bit 31 of an
    [int]: exactly for the operands with that bit the packing overflows and has no
    value. *)
Theorem codes_roundtrip :
  Forall code_ok codes /\
  map (fun c => (code_name c, code_limit c)) (List.filter (fun c => bool_decide (is_Some (code_limit c))) codes) =
    [("SNDRV_PROTOCOL_VERSION", Some (2 ^ 15)); ("TAIKO_CODEC_PACK_ENTRY", Some (2 ^ 15));
     ("MDSS_MDP_REV", Some (2 ^ 3)); ("ZORRO_ID", Some (2 ^ 15))]%string.
Proof.
  split; [|by vm_compute].
  unfold codes. repeat (apply Forall_cons; split); first [exact sys_reg_ok | done | code_solve].
Qed.
