(* ===== verification/ZorroIds.v ===== *)
(** * Zorro boards

    The table of [kernel-headers/linux/zorro_ids.h]: manufacturers, products, and the
    identifiers [ZORRO_ID] of [linux/zorro.h] pastes together from them. *)
From S2P Require Import Prelude.
From S2P Require Import Words.
From S2P Require Import Codes.
#[local] Open Scope string_scope.
#[local] Open Scope list_scope.
#[local] Open Scope Z_scope.

(** [ZORRO_MANUF_name] with its number, and [ZORRO_PROD_name] with the arguments of
    its [ZORRO_ID]. *)
Inductive entry : Type :=
| Manuf (name : string) (number : Z)
| Prod (name manuf : string) (prod epc : Z).

Definition zorro_ids_1 : list entry := [
  Manuf "PACIFIC_PERIPHERALS" 0x00D3;
  Prod "PACIFIC_PERIPHERALS_SE_2000_A500" "PACIFIC_PERIPHERALS" 0x00 0;
  Prod "PACIFIC_PERIPHERALS_SCSI" "PACIFIC_PERIPHERALS" 0x0A 0; Manuf "MACROSYSTEMS_USA_2" 0x0100;
  Prod "MACROSYSTEMS_WARP_ENGINE" "MACROSYSTEMS_USA_2" 0x13 0; Manuf "KUPKE_1" 0x00DD;
  Prod "KUPKE_GOLEM_RAM_BOX_2MB" "KUPKE_1" 0x00 0; Manuf "MEMPHIS" 0x0100;
  Prod "MEMPHIS_STORMBRINGER" "MEMPHIS" 0x00 0; Manuf "3_STATE" 0x0200;
  Prod "3_STATE_MEGAMIX_2000" "3_STATE" 0x02 0; Manuf "COMMODORE_BRAUNSCHWEIG" 0x0201;
  Prod "CBM_A2088_A2286" "COMMODORE_BRAUNSCHWEIG" 0x01 0;
  Prod "CBM_A2286" "COMMODORE_BRAUNSCHWEIG" 0x02 0;
  Prod "CBM_A4091_1" "COMMODORE_BRAUNSCHWEIG" 0x54 0;
  Prod "CBM_A2386SX_1" "COMMODORE_BRAUNSCHWEIG" 0x67 0; Manuf "COMMODORE_WEST_CHESTER_1" 0x0202;
  Prod "CBM_A2090A" "COMMODORE_WEST_CHESTER_1" 0x01 0;
  Prod "CBM_A590_A2091_1" "COMMODORE_WEST_CHESTER_1" 0x02 0;
  Prod "CBM_A590_A2091_2" "COMMODORE_WEST_CHESTER_1" 0x03 0;
  Prod "CBM_A2090B" "COMMODORE_WEST_CHESTER_1" 0x04 0;
  Prod "CBM_A2060" "COMMODORE_WEST_CHESTER_1" 0x09 0;
  Prod "CBM_A590_A2052_A2058_A2091" "COMMODORE_WEST_CHESTER_1" 0x0A 0;
  Prod "CBM_A560_RAM" "COMMODORE_WEST_CHESTER_1" 0x20 0;
  Prod "CBM_A2232_PROTOTYPE" "COMMODORE_WEST_CHESTER_1" 0x45 0;
  Prod "CBM_A2232" "COMMODORE_WEST_CHESTER_1" 0x46 0;
  Prod "CBM_A2620" "COMMODORE_WEST_CHESTER_1" 0x50 0;
  Prod "CBM_A2630" "COMMODORE_WEST_CHESTER_1" 0x51 0;
  Prod "CBM_A4091_2" "COMMODORE_WEST_CHESTER_1" 0x54 0;
  Prod "CBM_A2065_1" "COMMODORE_WEST_CHESTER_1" 0x5A 0;
  Prod "CBM_ROMULATOR" "COMMODORE_WEST_CHESTER_1" 0x60 0;
  Prod "CBM_A3000_TEST_FIXTURE" "COMMODORE_WEST_CHESTER_1" 0x61 0;
  Prod "CBM_A2386SX_2" "COMMODORE_WEST_CHESTER_1" 0x67 0;
  Prod "CBM_A2065_2" "COMMODORE_WEST_CHESTER_1" 0x70 0; Manuf "COMMODORE_WEST_CHESTER_2" 0x0203;
  Prod "CBM_A2090A_CM" "COMMODORE_WEST_CHESTER_2" 0x03 0;
  Manuf "PROGRESSIVE_PERIPHERALS_AND_SYSTEMS_2" 0x02F4;
  Prod "PPS_EXP8000" "PROGRESSIVE_PERIPHERALS_AND_SYSTEMS_2" 0x02 0;
  Manuf "KOLFF_COMPUTER_SUPPLIES" 0x02FF;
  Prod "KCS_POWER_PC_BOARD" "KOLFF_COMPUTER_SUPPLIES" 0x00 0; Manuf "CARDCO_1" 0x03EC;
  Prod "CARDCO_KRONOS_2000_1" "CARDCO_1" 0x04 0; Prod "CARDCO_A1000_1" "CARDCO_1" 0x0C 0;
  Prod "CARDCO_ESCORT" "CARDCO_1" 0x0E 0; Prod "CARDCO_A2410" "CARDCO_1" 0xF5 0;
  Manuf "A_SQUARED" 0x03ED; Prod "A_SQUARED_LIVE_2000" "A_SQUARED" 0x01 0;
  Manuf "COMSPEC_COMMUNICATIONS" 0x03EE;
  Prod "COMSPEC_COMMUNICATIONS_AX2000" "COMSPEC_COMMUNICATIONS" 0x01 0;
  Manuf "ANAKIN_RESEARCH" 0x03F1; Prod "ANAKIN_RESEARCH_EASYL" "ANAKIN_RESEARCH" 0x01 0;
  Manuf "MICROBOTICS" 0x03F2; Prod "MICROBOTICS_STARBOARD_II" "MICROBOTICS" 0x00 0;
  Prod "MICROBOTICS_STARDRIVE" "MICROBOTICS" 0x02 0;
  Prod "MICROBOTICS_8_UP_A" "MICROBOTICS" 0x03 0; Prod "MICROBOTICS_8_UP_Z" "MICROBOTICS" 0x04 0;
  Prod "MICROBOTICS_DELTA_RAM" "MICROBOTICS" 0x20 0;
  Prod "MICROBOTICS_8_STAR_RAM" "MICROBOTICS" 0x40 0;
  Prod "MICROBOTICS_8_STAR" "MICROBOTICS" 0x41 0;
  Prod "MICROBOTICS_VXL_RAM_32" "MICROBOTICS" 0x44 0;
  Prod "MICROBOTICS_VXL_68030" "MICROBOTICS" 0x45 0; Prod "MICROBOTICS_DELTA" "MICROBOTICS" 0x60 0;
  Prod "MICROBOTICS_MBX_1200_1200Z_RAM" "MICROBOTICS" 0x81 0;
  Prod "MICROBOTICS_HARDFRAME_2000_1" "MICROBOTICS" 0x96 0;
  Prod "MICROBOTICS_HARDFRAME_2000_2" "MICROBOTICS" 0x9E 0;
  Prod "MICROBOTICS_MBX_1200_1200Z" "MICROBOTICS" 0xC1 0; Manuf "ACCESS_ASSOCIATES_ALEGRA" 0x03F4;
  Manuf "EXPANSION_TECHNOLOGIES" 0x03F6; Manuf "ASDG" 0x03FF; Prod "ASDG_MEMORY_1" "ASDG" 0x01 0;
  Prod "ASDG_MEMORY_2" "ASDG" 0x02 0; Prod "ASDG_EB920_LAN_ROVER" "ASDG" 0xFE 0;
  Prod "ASDG_GPIB_DUALIEEE488_TWIN_X" "ASDG" 0xFF 0; Manuf "IMTRONICS_1" 0x0404;
  Prod "IMTRONICS_HURRICANE_2800_1" "IMTRONICS_1" 0x39 0;
  Prod "IMTRONICS_HURRICANE_2800_2" "IMTRONICS_1" 0x57 0; Manuf "CBM_UNIVERSITY_OF_LOWELL" 0x0406;
  Prod "CBM_A2410" "CBM_UNIVERSITY_OF_LOWELL" 0x00 0; Manuf "AMERISTAR" 0x041D;
  Prod "AMERISTAR_A2065" "AMERISTAR" 0x01 0; Prod "AMERISTAR_A560" "AMERISTAR" 0x09 0;
  Prod "AMERISTAR_A4066" "AMERISTAR" 0x0A 0; Manuf "SUPRA" 0x0420;
  Prod "SUPRA_SUPRADRIVE_4x4" "SUPRA" 0x01 0; Prod "SUPRA_1000_RAM" "SUPRA" 0x02 0;
  Prod "SUPRA_2000_DMA" "SUPRA" 0x03 0; Prod "SUPRA_500" "SUPRA" 0x05 0;
  Prod "SUPRA_500_SCSI" "SUPRA" 0x08 0; Prod "SUPRA_500XP_2000_RAM" "SUPRA" 0x09 0;
  Prod "SUPRA_500RX_2000_RAM" "SUPRA" 0x0A 0; Prod "SUPRA_2400ZI" "SUPRA" 0x0B 0;
  Prod "SUPRA_500XP_SUPRADRIVE_WORDSYNC" "SUPRA" 0x0C 0;
  Prod "SUPRA_SUPRADRIVE_WORDSYNC_II" "SUPRA" 0x0D 0; Prod "SUPRA_2400ZIPLUS" "SUPRA" 0x10 0;
  Manuf "COMPUTER_SYSTEMS_ASSOCIATES" 0x0422;
  Prod "CSA_MAGNUM" "COMPUTER_SYSTEMS_ASSOCIATES" 0x11 0;
  Prod "CSA_12_GAUGE" "COMPUTER_SYSTEMS_ASSOCIATES" 0x15 0; Manuf "MARC_MICHAEL_GROTH" 0x0439;
  Manuf "M_TECH" 0x0502; Prod "MTEC_AT500_1" "M_TECH" 0x03 0;
  Manuf "GREAT_VALLEY_PRODUCTS_1" 0x06E1;
  Prod "GVP_IMPACT_SERIES_I" "GREAT_VALLEY_PRODUCTS_1" 0x08 0; Manuf "BYTEBOX" 0x07DA;
  Prod "BYTEBOX_A500" "BYTEBOX" 0x00 0; Manuf "DKB_POWER_COMPUTING" 0x07DC;
  Prod "DKB_POWER_COMPUTING_SECUREKEY" "DKB_POWER_COMPUTING" 0x09 0;
  Prod "DKB_POWER_COMPUTING_DKM_3128" "DKB_POWER_COMPUTING" 0x0E 0;
  Prod "DKB_POWER_COMPUTING_RAPID_FIRE" "DKB_POWER_COMPUTING" 0x0F 0;
  Prod "DKB_POWER_COMPUTING_DKM_1202" "DKB_POWER_COMPUTING" 0x10 0;
  Prod "DKB_POWER_COMPUTING_COBRA_VIPER_II_68EC030" "DKB_POWER_COMPUTING" 0x12 0;
  Prod "DKB_POWER_COMPUTING_WILDFIRE_060_1" "DKB_POWER_COMPUTING" 0x17 0;
  Prod "DKB_POWER_COMPUTING_WILDFIRE_060_2" "DKB_POWER_COMPUTING" 0xFF 0].

Definition zorro_ids_2 : list entry := [
  Manuf "GREAT_VALLEY_PRODUCTS_2" 0x07E1;
  Prod "GVP_IMPACT_SERIES_I_4K" "GREAT_VALLEY_PRODUCTS_2" 0x01 0;
  Prod "GVP_IMPACT_SERIES_I_16K_2" "GREAT_VALLEY_PRODUCTS_2" 0x02 0;
  Prod "GVP_IMPACT_SERIES_I_16K_3" "GREAT_VALLEY_PRODUCTS_2" 0x03 0;
  Prod "GVP_IMPACT_3001_IDE_1" "GREAT_VALLEY_PRODUCTS_2" 0x08 0;
  Prod "GVP_IMPACT_3001_RAM" "GREAT_VALLEY_PRODUCTS_2" 0x09 0;
  Prod "GVP_IMPACT_SERIES_II_RAM_1" "GREAT_VALLEY_PRODUCTS_2" 0x0A 0;
  Prod "GVP_EPC_BASE" "GREAT_VALLEY_PRODUCTS_2" 0x0B 0;
  Prod "GVP_GFORCE_040_1" "GREAT_VALLEY_PRODUCTS_2" 0x0B 0x20;
  Prod "GVP_GFORCE_040_SCSI_1" "GREAT_VALLEY_PRODUCTS_2" 0x0B 0x30;
  Prod "GVP_A1291" "GREAT_VALLEY_PRODUCTS_2" 0x0B 0x40;
  Prod "GVP_COMBO_030_R4" "GREAT_VALLEY_PRODUCTS_2" 0x0B 0x60;
  Prod "GVP_COMBO_030_R4_SCSI" "GREAT_VALLEY_PRODUCTS_2" 0x0B 0x70;
  Prod "GVP_PHONEPAK" "GREAT_VALLEY_PRODUCTS_2" 0x0B 0x78;
  Prod "GVP_IO_EXTENDER" "GREAT_VALLEY_PRODUCTS_2" 0x0B 0x98;
  Prod "GVP_GFORCE_030" "GREAT_VALLEY_PRODUCTS_2" 0x0B 0xa0;
  Prod "GVP_GFORCE_030_SCSI" "GREAT_VALLEY_PRODUCTS_2" 0x0B 0xb0;
  Prod "GVP_A530" "GREAT_VALLEY_PRODUCTS_2" 0x0B 0xc0;
  Prod "GVP_A530_SCSI" "GREAT_VALLEY_PRODUCTS_2" 0x0B 0xd0;
  Prod "GVP_COMBO_030_R3" "GREAT_VALLEY_PRODUCTS_2" 0x0B 0xe0;
  Prod "GVP_COMBO_030_R3_SCSI" "GREAT_VALLEY_PRODUCTS_2" 0x0B 0xf0;
  Prod "GVP_SERIES_II" "GREAT_VALLEY_PRODUCTS_2" 0x0B 0xf8;
  Prod "GVP_IMPACT_3001_IDE_2" "GREAT_VALLEY_PRODUCTS_2" 0x0D 0;
  Prod "GVP_GFORCE_040_060" "GREAT_VALLEY_PRODUCTS_2" 0x16 0;
  Prod "GVP_IMPACT_VISION_24" "GREAT_VALLEY_PRODUCTS_2" 0x20 0;
  Prod "GVP_GFORCE_040_2" "GREAT_VALLEY_PRODUCTS_2" 0xFF 0;
  Manuf "CALIFORNIA_ACCESS_SYNERGY" 0x07E5;
  Prod "CALIFORNIA_ACCESS_SYNERGY_MALIBU" "CALIFORNIA_ACCESS_SYNERGY" 0x01 0; Manuf "XETEC" 0x07E6;
  Prod "XETEC_FASTCARD" "XETEC" 0x01 0; Prod "XETEC_FASTCARD_RAM" "XETEC" 0x02 0;
  Prod "XETEC_FASTCARD_PLUS" "XETEC" 0x03 0; Manuf "PROGRESSIVE_PERIPHERALS_AND_SYSTEMS" 0x07EA;
  Prod "PPS_MERCURY" "PROGRESSIVE_PERIPHERALS_AND_SYSTEMS" 0x00 0;
  Prod "PPS_A3000_68040" "PROGRESSIVE_PERIPHERALS_AND_SYSTEMS" 0x01 0;
  Prod "PPS_A2000_68040" "PROGRESSIVE_PERIPHERALS_AND_SYSTEMS" 0x69 0;
  Prod "PPS_ZEUS" "PROGRESSIVE_PERIPHERALS_AND_SYSTEMS" 0x96 0;
  Prod "PPS_A500_68040" "PROGRESSIVE_PERIPHERALS_AND_SYSTEMS" 0xBB 0; Manuf "XEBEC" 0x07EC;
  Manuf "SPIRIT_TECHNOLOGY" 0x07F2;
  Prod "SPIRIT_TECHNOLOGY_INSIDER_IN1000" "SPIRIT_TECHNOLOGY" 0x01 0;
  Prod "SPIRIT_TECHNOLOGY_INSIDER_IN500" "SPIRIT_TECHNOLOGY" 0x02 0;
  Prod "SPIRIT_TECHNOLOGY_SIN500" "SPIRIT_TECHNOLOGY" 0x03 0;
  Prod "SPIRIT_TECHNOLOGY_HDA_506" "SPIRIT_TECHNOLOGY" 0x04 0;
  Prod "SPIRIT_TECHNOLOGY_AX_S" "SPIRIT_TECHNOLOGY" 0x05 0;
  Prod "SPIRIT_TECHNOLOGY_OCTABYTE" "SPIRIT_TECHNOLOGY" 0x06 0;
  Prod "SPIRIT_TECHNOLOGY_INMATE" "SPIRIT_TECHNOLOGY" 0x08 0; Manuf "SPIRIT_TECHNOLOGY_2" 0x07F3;
  Manuf "BSC_ALFADATA_1" 0x07FE; Prod "BSC_ALF_3_1" "BSC_ALFADATA_1" 0x03 0;
  Manuf "BSC_ALFADATA_2" 0x0801; Prod "BSC_ALF_2_1" "BSC_ALFADATA_2" 0x01 0;
  Prod "BSC_ALF_2_2" "BSC_ALFADATA_2" 0x02 0; Prod "BSC_ALF_3_2" "BSC_ALFADATA_2" 0x03 0;
  Manuf "CARDCO_2" 0x0802; Prod "CARDCO_KRONOS_2000_2" "CARDCO_2" 0x04 0;
  Prod "CARDCO_A1000_2" "CARDCO_2" 0x0C 0; Manuf "JOCHHEIM" 0x0804;
  Prod "JOCHHEIM_RAM" "JOCHHEIM" 0x01 0; Manuf "CHECKPOINT_TECHNOLOGIES" 0x0807;
  Prod "CHECKPOINT_TECHNOLOGIES_SERIAL_SOLUTION" "CHECKPOINT_TECHNOLOGIES" 0x00 0;
  Manuf "EDOTRONIK" 0x0810; Prod "EDOTRONIK_IEEE_488" "EDOTRONIK" 0x01 0;
  Prod "EDOTRONIK_8032" "EDOTRONIK" 0x02 0; Prod "EDOTRONIK_MULTISERIAL" "EDOTRONIK" 0x03 0;
  Prod "EDOTRONIK_VIDEODIGITIZER" "EDOTRONIK" 0x04 0;
  Prod "EDOTRONIK_PARALLEL_IO" "EDOTRONIK" 0x05 0;
  Prod "EDOTRONIK_PIC_PROTOYPING" "EDOTRONIK" 0x06 0; Prod "EDOTRONIK_ADC" "EDOTRONIK" 0x07 0;
  Prod "EDOTRONIK_VME" "EDOTRONIK" 0x08 0; Prod "EDOTRONIK_DSP96000" "EDOTRONIK" 0x09 0;
  Manuf "NES_INC" 0x0813; Prod "NES_INC_RAM" "NES_INC" 0x00 0; Manuf "ICD" 0x0817;
  Prod "ICD_ADVANTAGE_2000_SCSI" "ICD" 0x01 0; Prod "ICD_ADVANTAGE_IDE" "ICD" 0x03 0;
  Prod "ICD_ADVANTAGE_2080_RAM" "ICD" 0x04 0; Manuf "KUPKE_2" 0x0819;
  Prod "KUPKE_OMTI" "KUPKE_2" 0x01 0; Prod "KUPKE_SCSI_II" "KUPKE_2" 0x02 0;
  Prod "KUPKE_GOLEM_BOX" "KUPKE_2" 0x03 0; Prod "KUPKE_030_882" "KUPKE_2" 0x04 0;
  Prod "KUPKE_SCSI_AT" "KUPKE_2" 0x05 0; Manuf "GREAT_VALLEY_PRODUCTS_3" 0x081D;
  Prod "GVP_A2000_RAM8" "GREAT_VALLEY_PRODUCTS_3" 0x09 0;
  Prod "GVP_IMPACT_SERIES_II_RAM_2" "GREAT_VALLEY_PRODUCTS_3" 0x0A 0;
  Manuf "INTERWORKS_NETWORK" 0x081E; Manuf "HARDITAL_SYNTHESIS" 0x0820;
  Prod "HARDITAL_SYNTHESIS_TQM_68030_68882" "HARDITAL_SYNTHESIS" 0x14 0;
  Manuf "APPLIED_ENGINEERING" 0x0828;
  Prod "APPLIED_ENGINEERING_DL2000" "APPLIED_ENGINEERING" 0x10 0;
  Prod "APPLIED_ENGINEERING_RAM_WORKS" "APPLIED_ENGINEERING" 0xE0 0; Manuf "BSC_ALFADATA_3" 0x082C;
  Prod "BSC_OKTAGON_2008" "BSC_ALFADATA_3" 0x05 0;
  Prod "BSC_TANDEM_AT_2008_508" "BSC_ALFADATA_3" 0x06 0;
  Prod "BSC_ALFA_RAM_1200" "BSC_ALFADATA_3" 0x07 0;
  Prod "BSC_OKTAGON_2008_RAM" "BSC_ALFADATA_3" 0x08 0;
  Prod "BSC_MULTIFACE_I" "BSC_ALFADATA_3" 0x10 0; Prod "BSC_MULTIFACE_II" "BSC_ALFADATA_3" 0x11 0;
  Prod "BSC_MULTIFACE_III" "BSC_ALFADATA_3" 0x12 0;
  Prod "BSC_FRAMEMASTER_II" "BSC_ALFADATA_3" 0x20 0;
  Prod "BSC_GRAFFITI_RAM" "BSC_ALFADATA_3" 0x21 0; Prod "BSC_GRAFFITI_REG" "BSC_ALFADATA_3" 0x22 0;
  Prod "BSC_ISDN_MASTERCARD" "BSC_ALFADATA_3" 0x40 0;
  Prod "BSC_ISDN_MASTERCARD_II" "BSC_ALFADATA_3" 0x41 0; Manuf "PHOENIX" 0x0835;
  Prod "PHOENIX_ST506" "PHOENIX" 0x21 0; Prod "PHOENIX_SCSI" "PHOENIX" 0x22 0;
  Prod "PHOENIX_RAM" "PHOENIX" 0xBE 0; Manuf "ADVANCED_STORAGE_SYSTEMS" 0x0836;
  Prod "ADVANCED_STORAGE_SYSTEMS_NEXUS" "ADVANCED_STORAGE_SYSTEMS" 0x01 0;
  Prod "ADVANCED_STORAGE_SYSTEMS_NEXUS_RAM" "ADVANCED_STORAGE_SYSTEMS" 0x08 0;
  Manuf "IMPULSE" 0x0838; Prod "IMPULSE_FIRECRACKER_24" "IMPULSE" 0x00 0].

Definition zorro_ids_3 : list entry := [
  Manuf "IVS" 0x0840; Prod "IVS_GRANDSLAM_PIC_2" "IVS" 0x02 0;
  Prod "IVS_GRANDSLAM_PIC_1" "IVS" 0x04 0; Prod "IVS_OVERDRIVE" "IVS" 0x10 0;
  Prod "IVS_TRUMPCARD_CLASSIC" "IVS" 0x30 0; Prod "IVS_TRUMPCARD_PRO_GRANDSLAM" "IVS" 0x34 0;
  Prod "IVS_META_4" "IVS" 0x40 0; Prod "IVS_WAVETOOLS" "IVS" 0xBF 0;
  Prod "IVS_VECTOR_1" "IVS" 0xF3 0; Prod "IVS_VECTOR_2" "IVS" 0xF4 0; Manuf "VECTOR_1" 0x0841;
  Prod "VECTOR_CONNECTION_1" "VECTOR_1" 0xE3 0; Manuf "XPERT_PRODEV" 0x0845;
  Prod "XPERT_PRODEV_VISIONA_RAM" "XPERT_PRODEV" 0x01 0;
  Prod "XPERT_PRODEV_VISIONA_REG" "XPERT_PRODEV" 0x02 0;
  Prod "XPERT_PRODEV_MERLIN_RAM" "XPERT_PRODEV" 0x03 0;
  Prod "XPERT_PRODEV_MERLIN_REG_1" "XPERT_PRODEV" 0x04 0;
  Prod "XPERT_PRODEV_MERLIN_REG_2" "XPERT_PRODEV" 0xC9 0; Manuf "HYDRA_SYSTEMS" 0x0849;
  Prod "HYDRA_SYSTEMS_AMIGANET" "HYDRA_SYSTEMS" 0x01 0; Manuf "SUNRIZE_INDUSTRIES" 0x084F;
  Prod "SUNRIZE_INDUSTRIES_AD1012" "SUNRIZE_INDUSTRIES" 0x01 0;
  Prod "SUNRIZE_INDUSTRIES_AD516" "SUNRIZE_INDUSTRIES" 0x02 0;
  Prod "SUNRIZE_INDUSTRIES_DD512" "SUNRIZE_INDUSTRIES" 0x03 0; Manuf "TRICERATOPS" 0x0850;
  Prod "TRICERATOPS_MULTI_IO" "TRICERATOPS" 0x01 0; Manuf "APPLIED_MAGIC" 0x0851;
  Prod "APPLIED_MAGIC_DMI_RESOLVER" "APPLIED_MAGIC" 0x01 0;
  Prod "APPLIED_MAGIC_DIGITAL_BROADCASTER" "APPLIED_MAGIC" 0x06 0; Manuf "GFX_BASE" 0x085E;
  Prod "GFX_BASE_GDA_1_VRAM" "GFX_BASE" 0x00 0; Prod "GFX_BASE_GDA_1" "GFX_BASE" 0x01 0;
  Manuf "ROCTEC" 0x0860; Prod "ROCTEC_RH_800C" "ROCTEC" 0x01 0;
  Prod "ROCTEC_RH_800C_RAM" "ROCTEC" 0x01 0; Manuf "KATO" 0x0861; Prod "KATO_MELODY" "KATO" 0x80 0;
  Manuf "HELFRICH_1" 0x0861; Prod "HELFRICH_RAINBOW_II" "HELFRICH_1" 0x20 0;
  Prod "HELFRICH_RAINBOW_III" "HELFRICH_1" 0x21 0; Manuf "ATLANTIS" 0x0862; Manuf "PROTAR" 0x0864;
  Manuf "ACS" 0x0865; Manuf "SOFTWARE_RESULTS_ENTERPRISES" 0x0866;
  Prod "SOFTWARE_RESULTS_ENTERPRISES_GOLDEN_GATE_2_BUS_PLUS" "SOFTWARE_RESULTS_ENTERPRISES" 0x01 0;
  Manuf "MASOBOSHI" 0x086D; Prod "MASOBOSHI_MASTER_CARD_SC201" "MASOBOSHI" 0x03 0;
  Prod "MASOBOSHI_MASTER_CARD_MC702" "MASOBOSHI" 0x04 0;
  Prod "MASOBOSHI_MVD_819" "MASOBOSHI" 0x07 0; Manuf "MAINHATTAN_DATA" 0x086F;
  Prod "MAINHATTAN_DATA_IDE" "MAINHATTAN_DATA" 0x01 0; Manuf "VILLAGE_TRONIC" 0x0877;
  Prod "VILLAGE_TRONIC_DOMINO_RAM" "VILLAGE_TRONIC" 0x01 0;
  Prod "VILLAGE_TRONIC_DOMINO_REG" "VILLAGE_TRONIC" 0x02 0;
  Prod "VILLAGE_TRONIC_DOMINO_16M_PROTOTYPE" "VILLAGE_TRONIC" 0x03 0;
  Prod "VILLAGE_TRONIC_PICASSO_II_II_PLUS_RAM" "VILLAGE_TRONIC" 0x0B 0;
  Prod "VILLAGE_TRONIC_PICASSO_II_II_PLUS_REG" "VILLAGE_TRONIC" 0x0C 0;
  Prod "VILLAGE_TRONIC_PICASSO_II_II_PLUS_SEGMENTED_MODE" "VILLAGE_TRONIC" 0x0D 0;
  Prod "VILLAGE_TRONIC_PICASSO_IV_Z2_RAM1" "VILLAGE_TRONIC" 0x15 0;
  Prod "VILLAGE_TRONIC_PICASSO_IV_Z2_RAM2" "VILLAGE_TRONIC" 0x16 0;
  Prod "VILLAGE_TRONIC_PICASSO_IV_Z2_REG" "VILLAGE_TRONIC" 0x17 0;
  Prod "VILLAGE_TRONIC_PICASSO_IV_Z3" "VILLAGE_TRONIC" 0x18 0;
  Prod "VILLAGE_TRONIC_ARIADNE" "VILLAGE_TRONIC" 0xC9 0;
  Prod "VILLAGE_TRONIC_ARIADNE2" "VILLAGE_TRONIC" 0xCA 0; Manuf "UTILITIES_UNLIMITED" 0x087B;
  Prod "UTILITIES_UNLIMITED_EMPLANT_DELUXE" "UTILITIES_UNLIMITED" 0x15 0;
  Prod "UTILITIES_UNLIMITED_EMPLANT_DELUXE2" "UTILITIES_UNLIMITED" 0x20 0; Manuf "AMITRIX" 0x0880;
  Prod "AMITRIX_MULTI_IO" "AMITRIX" 0x01 0; Prod "AMITRIX_CD_RAM" "AMITRIX" 0x02 0;
  Manuf "ARMAX" 0x0885; Prod "ARMAX_OMNIBUS" "ARMAX" 0x00 0; Manuf "ZEUS" 0x088D;
  Prod "ZEUS_SPIDER" "ZEUS" 0x04 0; Manuf "NEWTEK" 0x088F;
  Prod "NEWTEK_VIDEOTOASTER" "NEWTEK" 0x00 0; Manuf "M_TECH_GERMANY" 0x0890;
  Prod "MTEC_AT500_2" "M_TECH_GERMANY" 0x01 0; Prod "MTEC_68030" "M_TECH_GERMANY" 0x03 0;
  Prod "MTEC_68020I" "M_TECH_GERMANY" 0x06 0; Prod "MTEC_A1200_T68030_RTC" "M_TECH_GERMANY" 0x20 0;
  Prod "MTEC_VIPER_MK_V_E_MATRIX_530" "M_TECH_GERMANY" 0x21 0;
  Prod "MTEC_8_MB_RAM" "M_TECH_GERMANY" 0x22 0;
  Prod "MTEC_VIPER_MK_V_E_MATRIX_530_SCSI_IDE" "M_TECH_GERMANY" 0x24 0;
  Manuf "GREAT_VALLEY_PRODUCTS_4" 0x0891;
  Prod "GVP_EGS_28_24_SPECTRUM_RAM" "GREAT_VALLEY_PRODUCTS_4" 0x01 0;
  Prod "GVP_EGS_28_24_SPECTRUM_REG" "GREAT_VALLEY_PRODUCTS_4" 0x02 0; Manuf "APOLLO_1" 0x0892;
  Prod "APOLLO_A1200" "APOLLO_1" 0x01 0; Manuf "HELFRICH_2" 0x0893;
  Prod "HELFRICH_PICCOLO_RAM" "HELFRICH_2" 0x05 0; Prod "HELFRICH_PICCOLO_REG" "HELFRICH_2" 0x06 0;
  Prod "HELFRICH_PEGGY_PLUS_MPEG" "HELFRICH_2" 0x07 0;
  Prod "HELFRICH_VIDEOCRUNCHER" "HELFRICH_2" 0x08 0; Prod "HELFRICH_SD64_RAM" "HELFRICH_2" 0x0A 0;
  Prod "HELFRICH_SD64_REG" "HELFRICH_2" 0x0B 0; Manuf "MACROSYSTEMS_USA" 0x089B;
  Prod "MACROSYSTEMS_WARP_ENGINE_40xx" "MACROSYSTEMS_USA" 0x13 0; Manuf "ELBOX_COMPUTER" 0x089E;
  Prod "ELBOX_COMPUTER_1200_4" "ELBOX_COMPUTER" 0x06 0; Manuf "HARMS_PROFESSIONAL" 0x0A00;
  Prod "HARMS_PROFESSIONAL_030_PLUS" "HARMS_PROFESSIONAL" 0x10 0;
  Prod "HARMS_PROFESSIONAL_3500" "HARMS_PROFESSIONAL" 0xD0 0; Manuf "MICRONIK" 0x0A50;
  Prod "MICRONIK_RCA_120" "MICRONIK" 0x0A 0; Manuf "MICRONIK2" 0x0F0F;
  Prod "MICRONIK2_Z3I" "MICRONIK2" 0x01 0; Manuf "MEGAMICRO" 0x1000;
  Prod "MEGAMICRO_SCRAM_500" "MEGAMICRO" 0x03 0; Prod "MEGAMICRO_SCRAM_500_RAM" "MEGAMICRO" 0x04 0].

Definition zorro_ids_4 : list entry := [
  Manuf "IMTRONICS_2" 0x1028; Prod "IMTRONICS_HURRICANE_2800_3" "IMTRONICS_2" 0x39 0;
  Prod "IMTRONICS_HURRICANE_2800_4" "IMTRONICS_2" 0x57 0; Manuf "INDIVIDUAL_COMPUTERS" 0x1212;
  Prod "INDIVIDUAL_COMPUTERS_BUDDHA" "INDIVIDUAL_COMPUTERS" 0x00 0;
  Prod "INDIVIDUAL_COMPUTERS_X_SURF" "INDIVIDUAL_COMPUTERS" 0x17 0;
  Prod "INDIVIDUAL_COMPUTERS_CATWEASEL" "INDIVIDUAL_COMPUTERS" 0x2A 0; Manuf "KUPKE_3" 0x1248;
  Prod "KUPKE_GOLEM_HD_3000" "KUPKE_3" 0x01 0; Manuf "ITH" 0x1388;
  Prod "ITH_ISDN_MASTER_II" "ITH" 0x01 0; Manuf "VMC" 0x1389;
  Prod "VMC_ISDN_BLASTER_Z2" "VMC" 0x01 0; Prod "VMC_HYPERCOM_4" "VMC" 0x02 0;
  Manuf "INFORMATION" 0x157C; Prod "INFORMATION_ISDN_ENGINE_I" "INFORMATION" 0x64 0;
  Manuf "VORTEX" 0x2017; Prod "VORTEX_GOLDEN_GATE_80386SX" "VORTEX" 0x07 0;
  Prod "VORTEX_GOLDEN_GATE_RAM" "VORTEX" 0x08 0; Prod "VORTEX_GOLDEN_GATE_80486" "VORTEX" 0x09 0;
  Manuf "EXPANSION_SYSTEMS" 0x2062;
  Prod "EXPANSION_SYSTEMS_DATAFLYER_4000SX" "EXPANSION_SYSTEMS" 0x01 0;
  Prod "EXPANSION_SYSTEMS_DATAFLYER_4000SX_RAM" "EXPANSION_SYSTEMS" 0x02 0;
  Manuf "READYSOFT" 0x2100; Prod "READYSOFT_AMAX_II_IV" "READYSOFT" 0x01 0; Manuf "PHASE5" 0x2140;
  Prod "PHASE5_BLIZZARD_RAM" "PHASE5" 0x01 0; Prod "PHASE5_BLIZZARD" "PHASE5" 0x02 0;
  Prod "PHASE5_BLIZZARD_1220_IV" "PHASE5" 0x06 0; Prod "PHASE5_FASTLANE_Z3_RAM" "PHASE5" 0x0A 0;
  Prod "PHASE5_BLIZZARD_1230_II_FASTLANE_Z3_CYBERSCSI_CYBERSTORM060" "PHASE5" 0x0B 0;
  Prod "PHASE5_BLIZZARD_1220_CYBERSTORM" "PHASE5" 0x0C 0;
  Prod "PHASE5_BLIZZARD_1230" "PHASE5" 0x0D 0; Prod "PHASE5_BLIZZARD_1230_IV_1260" "PHASE5" 0x11 0;
  Prod "PHASE5_BLIZZARD_2060" "PHASE5" 0x18 0; Prod "PHASE5_CYBERSTORM_MK_II" "PHASE5" 0x19 0;
  Prod "PHASE5_CYBERVISION64" "PHASE5" 0x22 0;
  Prod "PHASE5_CYBERVISION64_3D_PROTOTYPE" "PHASE5" 0x32 0;
  Prod "PHASE5_CYBERVISION64_3D" "PHASE5" 0x43 0; Prod "PHASE5_CYBERSTORM_MK_III" "PHASE5" 0x64 0;
  Prod "PHASE5_BLIZZARD_603E_PLUS" "PHASE5" 0x6e 0; Manuf "DPS" 0x2169;
  Prod "DPS_PERSONAL_ANIMATION_RECORDER" "DPS" 0x01 0; Manuf "APOLLO_2" 0x2200;
  Prod "APOLLO_A620_68020_1" "APOLLO_2" 0x00 0; Prod "APOLLO_A620_68020_2" "APOLLO_2" 0x01 0;
  Manuf "APOLLO_3" 0x2222; Prod "APOLLO_AT_APOLLO" "APOLLO_3" 0x22 0;
  Prod "APOLLO_1230_1240_1260_2030_4040_4060" "APOLLO_3" 0x23 0; Manuf "PETSOFF_LP" 0x38A5;
  Prod "PETSOFF_LP_DELFINA" "PETSOFF_LP" 0x00 0;
  Prod "PETSOFF_LP_DELFINA_LITE" "PETSOFF_LP" 0x01 0; Manuf "UWE_GERLACH" 0x3FF7;
  Prod "UWE_GERLACH_RAM_ROM" "UWE_GERLACH" 0xd4 0; Manuf "ACT" 0x4231;
  Prod "ACT_PRELUDE" "ACT" 0x01 0; Manuf "MACROSYSTEMS_GERMANY" 0x4754;
  Prod "MACROSYSTEMS_MAESTRO" "MACROSYSTEMS_GERMANY" 0x03 0;
  Prod "MACROSYSTEMS_VLAB" "MACROSYSTEMS_GERMANY" 0x04 0;
  Prod "MACROSYSTEMS_MAESTRO_PRO" "MACROSYSTEMS_GERMANY" 0x05 0;
  Prod "MACROSYSTEMS_RETINA" "MACROSYSTEMS_GERMANY" 0x06 0;
  Prod "MACROSYSTEMS_MULTI_EVOLUTION" "MACROSYSTEMS_GERMANY" 0x08 0;
  Prod "MACROSYSTEMS_TOCCATA" "MACROSYSTEMS_GERMANY" 0x0C 0;
  Prod "MACROSYSTEMS_RETINA_Z3" "MACROSYSTEMS_GERMANY" 0x10 0;
  Prod "MACROSYSTEMS_VLAB_MOTION" "MACROSYSTEMS_GERMANY" 0x12 0;
  Prod "MACROSYSTEMS_ALTAIS" "MACROSYSTEMS_GERMANY" 0x13 0;
  Prod "MACROSYSTEMS_FALCON_040" "MACROSYSTEMS_GERMANY" 0xFD 0; Manuf "COMBITEC" 0x6766;
  Manuf "SKI_PERIPHERALS" 0x8000; Prod "SKI_PERIPHERALS_MAST_FIREBALL" "SKI_PERIPHERALS" 0x08 0;
  Prod "SKI_PERIPHERALS_SCSI_DUAL_SERIAL" "SKI_PERIPHERALS" 0x80 0; Manuf "REIS_WARE_2" 0xA9AD;
  Prod "REIS_WARE_SCAN_KING" "REIS_WARE_2" 0x11 0; Manuf "CAMERON" 0xAA01;
  Prod "CAMERON_PERSONAL_A4" "CAMERON" 0x10 0; Manuf "REIS_WARE" 0xAA11;
  Prod "REIS_WARE_HANDYSCANNER" "REIS_WARE" 0x11 0; Manuf "PHOENIX_2" 0xB5A8;
  Prod "PHOENIX_ST506_2" "PHOENIX_2" 0x21 0; Prod "PHOENIX_SCSI_2" "PHOENIX_2" 0x22 0;
  Prod "PHOENIX_RAM_2" "PHOENIX_2" 0xBE 0; Manuf "COMBITEC_2" 0xC008;
  Prod "COMBITEC_HD" "COMBITEC_2" 0x2A 0; Prod "COMBITEC_SRAM" "COMBITEC_2" 0x2B 0;
  Manuf "HACKER" 0x07DB; Prod "GENERAL_PROTOTYPE" "HACKER" 0x00 0;
  Prod "HACKER_SCSI" "HACKER" 0x01 0;
  Prod "RESOURCE_MANAGEMENT_FORCE_QUICKNET_QN2000" "HACKER" 0x02 0;
  Prod "VECTOR_CONNECTION_2" "HACKER" 0xE0 0; Prod "VECTOR_CONNECTION_3" "HACKER" 0xE1 0;
  Prod "VECTOR_CONNECTION_4" "HACKER" 0xE2 0; Prod "VECTOR_CONNECTION_5" "HACKER" 0xE3 0].

Definition zorro_ids : list entry := zorro_ids_1 ++ zorro_ids_2 ++ zorro_ids_3 ++ zorro_ids_4.

(** ** Identifiers *)

(** [ZORRO_MANUF_##manuf] *)
Fixpoint number_in (l : list entry) (manuf : string) : option Z :=
  match l with
  | [] => None
  | Manuf name number :: l => if (name =? manuf)%string then Some number else number_in l manuf
  | Prod _ _ _ _ :: l => number_in l manuf
  end.
Definition manufacturer : string -> option Z := number_in zorro_ids.

(** [ZORRO_ID(manuf, prod, epc)] as an expression of the type [int]. *)
Definition zorro_id (manuf : string) (prod epc : Z) : option Z :=
  n ← manufacturer manuf; Zorro.ZORRO_ID n prod epc.

(** The manufacturers whose number does not fit the upper half of an [int]. *)
Definition beyond_int : list string :=
  ["SKI_PERIPHERALS"; "REIS_WARE_2"; "CAMERON"; "REIS_WARE"; "PHOENIX_2"; "COMBITEC_2"].

(** Two names of one board. *)
Definition same_board : list string := ["ROCTEC_RH_800C"; "ROCTEC_RH_800C_RAM"].

Definition macro_name (e : entry) : string * string :=
  match e with Manuf name _ => ("ZORRO_MANUF_", name) | Prod name _ _ _ => ("ZORRO_PROD_", name) end.

#[export] Instance entry_eq_dec : EqDecision entry.
Proof. solve_decision. Defined.

(** *** Decisions over the table *)

Definition among (l : list string) (x : string) : bool := existsb (String.eqb x) l.

Lemma among_elem l x : among l x = true <-> x ∈ l.
Proof.
  unfold among. rewrite existsb_exists. setoid_rewrite <- list_elem_of_In. split.
  - intros (y & Hy & ->%String.eqb_eq). assumption.
  - intros Hx. exists x. split; [assumption | apply String.eqb_refl].
Qed.

Definition check_product (e : entry) : bool :=
  match e with
  | Manuf _ number => (0 <=? number) && (number <? 2 ^ 16)
  | Prod _ manuf prod epc =>
      match manufacturer manuf with
      | Some n =>
          match Zorro.ZORRO_ID n prod epc with
          | Some id =>
              (Zorro.ZORRO_MANUF id =? n) && (Zorro.ZORRO_PROD id =? prod) && (Zorro.ZORRO_EPC id =? epc) &&
              (n <? 2 ^ 15) && negb (among beyond_int manuf)
          | None => (2 ^ 15 <=? n) && among beyond_int manuf
          end
      | None => false
      end
  end.

Lemma products_checked : forallb check_product zorro_ids = true.
Proof. vm_compute. reflexivity. Qed.

(** The parts of an identifier with the product's name. *)
Definition parts (e : entry) : list (string * (Z * Z * Z)) :=
  match e with
  | Manuf _ _ => []
  | Prod name manuf prod epc =>
      match manufacturer manuf with Some n => [(name, (n, prod, epc))] | None => [] end
  end.

Definition same_parts (a b : Z * Z * Z) : bool :=
  (a.1.1 =? b.1.1) && (a.1.2 =? b.1.2) && (a.2 =? b.2).

Definition check_distinct (l : list (string * (Z * Z * Z))) : bool :=
  forallb (fun a => forallb (fun b => negb (same_parts a.2 b.2) || (a.1 =? b.1)%string ||
                                      (among same_board a.1 && among same_board b.1)) l) l.

Lemma distinct_checked : check_distinct (flat_map parts zorro_ids) = true.
Proof. vm_compute. reflexivity. Qed.

Lemma parts_in name manuf prod epc n :
  Prod name manuf prod epc ∈ zorro_ids -> manufacturer manuf = Some n ->
  In (name, (n, prod, epc)) (flat_map parts zorro_ids).
Proof.
  intros H E. apply in_flat_map. exists (Prod name manuf prod epc). rewrite <- list_elem_of_In.
  split; [assumption|]. unfold parts. rewrite E. left. reflexivity.
Qed.

Lemma check_distinct_sound l name name' p : check_distinct l = true ->
  In (name, p) l -> In (name', p) l -> name' = name \/ name ∈ same_board /\ name' ∈ same_board.
Proof.
  intros C H H'. unfold check_distinct in C. rewrite forallb_forall in C.
  apply C in H. rewrite forallb_forall in H. apply H in H'. cbn [fst snd] in H'.
  unfold same_parts in H'. rewrite !Z.eqb_refl in H'. cbn [andb negb orb] in H'.
  rewrite orb_true_iff, andb_true_iff, !among_elem, String.eqb_eq in H'. destruct H' as [-> | H']; auto.
Qed.

(** *** Theorems *)

Lemma product_read name manuf prod epc :
  Prod name manuf prod epc ∈ zorro_ids ->
  exists n, manufacturer manuf = Some n /\
    match Zorro.ZORRO_ID n prod epc with
    | Some id => Zorro.ZORRO_MANUF id = n /\ Zorro.ZORRO_PROD id = prod /\ Zorro.ZORRO_EPC id = epc /\ manuf ∉ beyond_int
    | None => manuf ∈ beyond_int
    end.
Proof.
  intros H. pose proof products_checked as C. rewrite forallb_forall in C.
  apply list_elem_of_In, C in H. cbn [check_product] in H.
  destruct (manufacturer manuf) as [n|]; [|discriminate]. exists n. split; [reflexivity|].
  destruct (Zorro.ZORRO_ID n prod epc) as [id|].
  - rewrite !andb_true_iff, negb_true_iff, !Z.eqb_eq in H. destruct H as [[[[H1 H2] H3] _] H4].
    split_and!; try assumption. intros Hin%among_elem. congruence.
  - apply andb_true_iff in H as [_ H]. apply among_elem, H.
Qed.

(** C36 The identifier of every product in the table is computed without signed overflow,
    unless its manufacturer is one of six, and read back into the numbers of manufacturer
    and product; two products have the same identifier only if they are the two names of
    one board. *)
Theorem products_identified (name manuf : string) (prod epc : Z) :
  Prod name manuf prod epc ∈ zorro_ids ->
  (zorro_id manuf prod epc = None <-> manuf ∈ beyond_int) /\
  forall id, zorro_id manuf prod epc = Some id ->
    manufacturer manuf = Some (Zorro.ZORRO_MANUF id) /\ Zorro.ZORRO_PROD id = prod /\ Zorro.ZORRO_EPC id = epc /\
    forall name' manuf' prod' epc', Prod name' manuf' prod' epc' ∈ zorro_ids -> zorro_id manuf' prod' epc' = Some id ->
      name' = name \/ name ∈ same_board /\ name' ∈ same_board.
Proof.
  intros H. destruct (product_read _ _ _ _ H) as (n & En & Hr). unfold zorro_id. rewrite En. cbn [mbind option_bind].
  destruct (Zorro.ZORRO_ID n prod epc) as [id|] eqn:Ei.
  - destruct Hr as (Hm & Hp & He & Hb). split; [split; [discriminate | contradiction]|].
    intros id' [= <-]. split_and!; [congruence | assumption.. |].
    intros name' manuf' prod' epc' H'. destruct (product_read _ _ _ _ H') as (n' & En' & Hr').
    rewrite En'. cbn [mbind option_bind]. intros Ei'. rewrite Ei' in Hr'. destruct Hr' as (<- & <- & <- & _).
    subst n prod epc. apply (check_distinct_sound _ _ _ _ distinct_checked (parts_in _ _ _ _ _ H En)), (parts_in _ _ _ _ _ H' En').
  - split; [tauto|]. intros id [=].
Qed.

Lemma products_identified_witness :
  zorro_id "ROCTEC" 1 0 = Some 0x08600100 /\ Zorro.ZORRO_PROD 0x08600100 = 1.
Proof.
  assert (Prod "ROCTEC_RH_800C" "ROCTEC" 0x01 0 ∈ zorro_ids) as H by (apply (bool_decide_unpack _); vm_compute; exact I).
  assert (zorro_id "ROCTEC" 1 0 = Some 0x08600100) as E by (vm_compute; reflexivity).
  split; [exact E|]. apply (products_identified _ _ _ _ H), E.
Defined.
