(* ===== verification/Views.v ===== *)
(** * Words that are only taken apart

    Macros of [kernel-headers] that read the fields of registers, identifiers and
    instructions, one module per header: each [view] lists them from bit 0 upward,
    with the gaps no macro reads. *)
From S2P Require Import Prelude.
From S2P Require Import Words.

(** ** [linux/iio/events.h]: identifiers of events, of type [__u64] *)

Module Iio_events.
(** The conversion to [__s16]. *)
Definition s16 (x : Z) : Z := (x + 2 ^ 15) mod 2 ^ 16 - 2 ^ 15.
Definition IIO_EVENT_CODE_EXTRACT_TYPE (mask : Z) : Z := (mask ≫ 56) &&& 0xFF.
Definition IIO_EVENT_CODE_EXTRACT_DIR (mask : Z) : Z := (mask ≫ 48) &&& 0x7F.
Definition IIO_EVENT_CODE_EXTRACT_CHAN_TYPE (mask : Z) : Z := (mask ≫ 32) &&& 0xFF.
Definition IIO_EVENT_CODE_EXTRACT_CHAN (mask : Z) : Z := s16 (mask &&& 0xFFFF).
Definition IIO_EVENT_CODE_EXTRACT_CHAN2 (mask : Z) : Z := s16 ((mask ≫ 16) &&& 0xFFFF).
Definition IIO_EVENT_CODE_EXTRACT_MODIFIER (mask : Z) : Z := (mask ≫ 40) &&& 0xFF.
Definition IIO_EVENT_CODE_EXTRACT_DIFF (mask : Z) : Z := (mask ≫ 55) &&& 0x1.
Definition event_code : view := View "IIO_EVENT_CODE" [
  (16, Some (Signed, IIO_EVENT_CODE_EXTRACT_CHAN)); (16, Some (Signed, IIO_EVENT_CODE_EXTRACT_CHAN2));
  (8, Some (Down, IIO_EVENT_CODE_EXTRACT_CHAN_TYPE)); (8, Some (Down, IIO_EVENT_CODE_EXTRACT_MODIFIER));
  (7, Some (Down, IIO_EVENT_CODE_EXTRACT_DIR)); (1, Some (Down, IIO_EVENT_CODE_EXTRACT_DIFF));
  (8, Some (Down, IIO_EVENT_CODE_EXTRACT_TYPE))].
End Iio_events.

(** ** [linux/psci.h] and [linux/vm_sockets.h]: versions *)

Module Versions.
Definition PSCI_VERSION_MAJOR_SHIFT : Z := 16.
Definition PSCI_VERSION_MINOR_MASK : Z := (1 ≪ PSCI_VERSION_MAJOR_SHIFT) - 1.
Definition PSCI_VERSION_MAJOR_MASK : Z := u32 (Z.lnot PSCI_VERSION_MINOR_MASK).
Definition PSCI_VERSION_MAJOR (ver : Z) : Z := (ver &&& PSCI_VERSION_MAJOR_MASK) ≫ PSCI_VERSION_MAJOR_SHIFT.
Definition PSCI_VERSION_MINOR (ver : Z) : Z := ver &&& PSCI_VERSION_MINOR_MASK.
Definition psci_version : view := View "PSCI_VERSION" [
  (16, Some (Down, PSCI_VERSION_MINOR)); (16, Some (Down, PSCI_VERSION_MAJOR))].

Definition VM_SOCKETS_VERSION_EPOCH (_v : Z) : Z := (_v &&& 0xFF000000) ≫ 24.
Definition VM_SOCKETS_VERSION_MAJOR (_v : Z) : Z := (_v &&& 0x00FF0000) ≫ 16.
Definition VM_SOCKETS_VERSION_MINOR (_v : Z) : Z := _v &&& 0x0000FFFF.
Definition vm_sockets_version : view := View "VM_SOCKETS_VERSION" [
  (16, Some (Down, VM_SOCKETS_VERSION_MINOR)); (8, Some (Down, VM_SOCKETS_VERSION_MAJOR));
  (8, Some (Down, VM_SOCKETS_VERSION_EPOCH))].
End Versions.

(** ** [linux/pci_regs.h]: registers of extended capabilities *)

Module Pci_regs.
Definition PCI_EXT_CAP_ID (header : Z) : Z := header &&& 0x0000ffff.
Definition PCI_EXT_CAP_VER (header : Z) : Z := (header ≫ 16) &&& 0xf.
Definition PCI_EXT_CAP_NEXT (header : Z) : Z := (header ≫ 20) &&& 0xffc.
(** The offset of the next capability is a multiple of 4: the macro drops its two
    low bits. *)
Definition ext_cap : view := View "PCI_EXT_CAP" [
  (16, Some (Down, PCI_EXT_CAP_ID)); (4, Some (Down, PCI_EXT_CAP_VER)); (2, None);
  (10, Some (Quads, PCI_EXT_CAP_NEXT))].

Definition PCI_PWR_DATA_BASE (x : Z) : Z := x &&& 0xff.
Definition PCI_PWR_DATA_SCALE (x : Z) : Z := (x ≫ 8) &&& 3.
Definition PCI_PWR_DATA_PM_SUB (x : Z) : Z := (x ≫ 10) &&& 7.
Definition PCI_PWR_DATA_PM_STATE (x : Z) : Z := (x ≫ 13) &&& 3.
Definition PCI_PWR_DATA_TYPE (x : Z) : Z := (x ≫ 15) &&& 7.
Definition PCI_PWR_DATA_RAIL (x : Z) : Z := (x ≫ 18) &&& 7.
Definition PCI_PWR_CAP_BUDGET (x : Z) : Z := x &&& 1.
Definition power_budget : view := View "PCI_PWR_DATA" [
  (8, Some (Down, PCI_PWR_DATA_BASE)); (2, Some (Down, PCI_PWR_DATA_SCALE));
  (3, Some (Down, PCI_PWR_DATA_PM_SUB)); (2, Some (Down, PCI_PWR_DATA_PM_STATE));
  (3, Some (Down, PCI_PWR_DATA_TYPE)); (3, Some (Down, PCI_PWR_DATA_RAIL)); (11, None)].

Definition PCI_VNDR_HEADER_ID (x : Z) : Z := x &&& 0xffff.
Definition PCI_VNDR_HEADER_REV (x : Z) : Z := (x ≫ 16) &&& 0xf.
Definition PCI_VNDR_HEADER_LEN (x : Z) : Z := (x ≫ 20) &&& 0xfff.
Definition vendor : view := View "PCI_VNDR_HEADER" [
  (16, Some (Down, PCI_VNDR_HEADER_ID)); (4, Some (Down, PCI_VNDR_HEADER_REV));
  (12, Some (Down, PCI_VNDR_HEADER_LEN))].
End Pci_regs.

(** ** [linux/tc_ematch/tc_em_meta.h], [linux/netfilter/nfnetlink.h], [linux/pkt_cls.h]
    and [linux/pkt_sched.h]: kinds, message types and handles *)

Module Net.
Definition TCF_META_TYPE_MASK : Z := 0xf ≪ 12.
Definition TCF_META_TYPE (kind : Z) : Z := (kind &&& TCF_META_TYPE_MASK) ≫ 12.
Definition TCF_META_ID_MASK : Z := 0x7ff.
Definition TCF_META_ID (kind : Z) : Z := kind &&& TCF_META_ID_MASK.
Definition meta_kind : view := View "TCF_META" [
  (11, Some (Down, TCF_META_ID)); (1, None); (4, Some (Down, TCF_META_TYPE))].

Definition NFNL_SUBSYS_ID (x : Z) : Z := (x &&& 0xff00) ≫ 8.
Definition NFNL_MSG_TYPE (x : Z) : Z := x &&& 0x00ff.
Definition nfnl_type : view := View "NFNL" [(8, Some (Down, NFNL_MSG_TYPE)); (8, Some (Down, NFNL_SUBSYS_ID))].

Definition TC_U32_HTID (h : Z) : Z := h &&& 0xFFF00000.
Definition TC_U32_USERHTID (h : Z) : Z := TC_U32_HTID h ≫ 20.
Definition TC_U32_HASH (h : Z) : Z := (h ≫ 12) &&& 0xFF.
Definition TC_U32_NODE (h : Z) : Z := h &&& 0xFFF.
Definition TC_U32_KEY (h : Z) : Z := h &&& 0xFFFFF.
Definition u32_handle : view := View "TC_U32" [
  (12, Some (Down, TC_U32_NODE)); (8, Some (Down, TC_U32_HASH)); (12, Some (Down, TC_U32_USERHTID))].
Definition u32_key : view := View "TC_U32_KEY" [(20, Some (Down, TC_U32_KEY)); (12, Some (Inplace, TC_U32_HTID))].

Definition TC_H_MAJ_MASK : Z := 0xFFFF0000.
Definition TC_H_MIN_MASK : Z := 0x0000FFFF.
Definition TC_H_MAJ (h : Z) : Z := h &&& TC_H_MAJ_MASK.
Definition TC_H_MIN (h : Z) : Z := h &&& TC_H_MIN_MASK.
Definition TC_H_MAKE (maj min : Z) : Z := (maj &&& TC_H_MAJ_MASK) ||| (min &&& TC_H_MIN_MASK).
Definition qdisc_handle : view := View "TC_H" [(16, Some (Inplace, TC_H_MIN)); (16, Some (Inplace, TC_H_MAJ))].
End Net.

(** ** [linux/ip.h]: type of service and options *)

Module Ip.
Definition IPTOS_TOS_MASK : Z := 0x1E.
Definition IPTOS_TOS (tos : Z) : Z := tos &&& IPTOS_TOS_MASK.
Definition IPTOS_PREC_MASK : Z := 0xE0.
Definition IPTOS_PREC (tos : Z) : Z := tos &&& IPTOS_PREC_MASK.
Definition tos : view := View "IPTOS" [(1, None); (4, Some (Inplace, IPTOS_TOS)); (3, Some (Inplace, IPTOS_PREC))].

Definition IPOPT_COPY : Z := 0x80.
Definition IPOPT_CLASS_MASK : Z := 0x60.
Definition IPOPT_NUMBER_MASK : Z := 0x1f.
Definition IPOPT_COPIED (o : Z) : Z := o &&& IPOPT_COPY.
Definition IPOPT_CLASS (o : Z) : Z := o &&& IPOPT_CLASS_MASK.
Definition IPOPT_NUMBER (o : Z) : Z := o &&& IPOPT_NUMBER_MASK.
Definition option_type : view := View "IPOPT" [
  (5, Some (Inplace, IPOPT_NUMBER)); (2, Some (Inplace, IPOPT_CLASS)); (1, Some (Inplace, IPOPT_COPIED))].
End Ip.

(** ** [linux/elf.h]: symbols and relocations *)

Module Elf.
Definition ELF_ST_BIND (x : Z) : Z := x ≫ 4.
Definition ELF_ST_TYPE (x : Z) : Z := u32 x &&& 0xf.
Definition symbol : view := View "ELF_ST" [(4, Some (Down, ELF_ST_TYPE)); (4, Some (Down, ELF_ST_BIND))].
Definition ELF32_R_SYM (x : Z) : Z := x ≫ 8.
Definition ELF32_R_TYPE (x : Z) : Z := x &&& 0xff.
Definition relocation32 : view := View "ELF32_R" [(8, Some (Down, ELF32_R_TYPE)); (24, Some (Down, ELF32_R_SYM))].
Definition ELF64_R_SYM (i : Z) : Z := i ≫ 32.
Definition ELF64_R_TYPE (i : Z) : Z := i &&& 0xffffffff.
Definition relocation64 : view := View "ELF64_R" [(32, Some (Down, ELF64_R_TYPE)); (32, Some (Down, ELF64_R_SYM))].
End Elf.

(** ** [linux/bpf_common.h] and [linux/filter.h]: instruction codes *)

Module Bpf.
Definition BPF_CLASS (code : Z) : Z := code &&& 0x07.
Definition BPF_SIZE (code : Z) : Z := code &&& 0x18.
Definition BPF_MODE (code : Z) : Z := code &&& 0xe0.
Definition load : view := View "BPF_LD" [
  (3, Some (Inplace, BPF_CLASS)); (2, Some (Inplace, BPF_SIZE)); (3, Some (Inplace, BPF_MODE))].
Definition BPF_OP (code : Z) : Z := code &&& 0xf0.
Definition BPF_SRC (code : Z) : Z := code &&& 0x08.
Definition alu : view := View "BPF_ALU" [
  (3, Some (Inplace, BPF_CLASS)); (1, Some (Inplace, BPF_SRC)); (4, Some (Inplace, BPF_OP))].
Definition BPF_RVAL (code : Z) : Z := code &&& 0x18.
Definition ret : view := View "BPF_RET" [(3, Some (Inplace, BPF_CLASS)); (2, Some (Inplace, BPF_RVAL)); (3, None)].
Definition BPF_MISCOP (code : Z) : Z := code &&& 0xf8.
Definition misc : view := View "BPF_MISC" [(3, Some (Inplace, BPF_CLASS)); (5, Some (Inplace, BPF_MISCOP))].
End Bpf.

(** ** [linux/mtio.h]: generic tape status *)

Module Mtio.
Definition GMT_EOF (x : Z) : Z := x &&& 0x80000000.
Definition GMT_BOT (x : Z) : Z := x &&& 0x40000000.
Definition GMT_EOT (x : Z) : Z := x &&& 0x20000000.
Definition GMT_SM (x : Z) : Z := x &&& 0x10000000.
Definition GMT_EOD (x : Z) : Z := x &&& 0x08000000.
Definition GMT_WR_PROT (x : Z) : Z := x &&& 0x04000000.
Definition GMT_ONLINE (x : Z) : Z := x &&& 0x01000000.
Definition GMT_D_6250 (x : Z) : Z := x &&& 0x00800000.
Definition GMT_D_1600 (x : Z) : Z := x &&& 0x00400000.
Definition GMT_D_800 (x : Z) : Z := x &&& 0x00200000.
Definition GMT_DR_OPEN (x : Z) : Z := x &&& 0x00040000.
Definition GMT_IM_REP_EN (x : Z) : Z := x &&& 0x00010000.
Definition GMT_CLN (x : Z) : Z := x &&& 0x00008000.
Definition status : view := View "GMT" [
  (15, None); (1, Some (Inplace, GMT_CLN)); (1, Some (Inplace, GMT_IM_REP_EN)); (1, None);
  (1, Some (Inplace, GMT_DR_OPEN)); (2, None); (1, Some (Inplace, GMT_D_800)); (1, Some (Inplace, GMT_D_1600));
  (1, Some (Inplace, GMT_D_6250)); (1, Some (Inplace, GMT_ONLINE)); (1, None); (1, Some (Inplace, GMT_WR_PROT));
  (1, Some (Inplace, GMT_EOD)); (1, Some (Inplace, GMT_SM)); (1, Some (Inplace, GMT_EOT));
  (1, Some (Inplace, GMT_BOT)); (1, Some (Inplace, GMT_EOF))].
End Mtio.

(** ** [drm/drm.h], [drm/msm_drm.h] and [linux/msm_mdp.h]: locks, pipes, blocks *)

Module Drm.
Definition _DRM_LOCK_HELD : Z := 0x80000000.
Definition _DRM_LOCK_CONT : Z := 0x40000000.
Definition _DRM_LOCK_IS_HELD (lock : Z) : Z := lock &&& _DRM_LOCK_HELD.
Definition _DRM_LOCK_IS_CONT (lock : Z) : Z := lock &&& _DRM_LOCK_CONT.
Definition _DRM_LOCKING_CONTEXT (lock : Z) : Z := lock &&& u32 (Z.lnot (_DRM_LOCK_HELD ||| _DRM_LOCK_CONT)).
Definition lock : view := View "_DRM_LOCK" [
  (30, Some (Inplace, _DRM_LOCKING_CONTEXT)); (1, Some (Inplace, _DRM_LOCK_IS_CONT));
  (1, Some (Inplace, _DRM_LOCK_IS_HELD))].

Definition MSM_PIPE_ID_MASK : Z := 0xffff.
Definition MSM_PIPE_ID (x : Z) : Z := x &&& MSM_PIPE_ID_MASK.
Definition MSM_PIPE_FLAGS (x : Z) : Z := x &&& u32 (Z.lnot MSM_PIPE_ID_MASK).
Definition pipe : view := View "MSM_PIPE" [(16, Some (Inplace, MSM_PIPE_ID)); (16, Some (Inplace, MSM_PIPE_FLAGS))].

Definition MDSS_PP_ARG_SHIFT : Z := 10.
Definition MDSS_PP_LOCATION_MASK : Z := 0x0300.
Definition MDSS_PP_LOGICAL_MASK : Z := 0x00FF.
Definition PP_ARG (x var : Z) : Z := var &&& (0x1 ≪ (MDSS_PP_ARG_SHIFT + x)).
Definition PP_LOCAT (var : Z) : Z := var &&& MDSS_PP_LOCATION_MASK.
Definition PP_BLOCK (var : Z) : Z := var &&& MDSS_PP_LOGICAL_MASK.
Definition pp_block : view := View "MDSS_PP" [
  (8, Some (Inplace, PP_BLOCK)); (2, Some (Inplace, PP_LOCAT)); (1, Some (Inplace, PP_ARG 0));
  (1, Some (Inplace, PP_ARG 1)); (1, Some (Inplace, PP_ARG 2)); (1, Some (Inplace, PP_ARG 3)); (18, None)].
End Drm.

Definition views : list view := [
  Iio_events.event_code; Versions.psci_version; Versions.vm_sockets_version; Pci_regs.ext_cap;
  Pci_regs.power_budget; Pci_regs.vendor; Net.meta_kind; Net.nfnl_type; Net.u32_handle; Net.u32_key;
  Net.qdisc_handle; Ip.tos; Ip.option_type; Elf.symbol; Elf.relocation32; Elf.relocation64;
  Bpf.load; Bpf.alu; Bpf.ret; Bpf.misc; Mtio.status; Drm.lock; Drm.pipe; Drm.pp_block].

(** Closed masks as constants. *)
Ltac mask_const t :=
  let v := eval vm_compute in t in lazymatch v with Zpos ?p => closed_pos p end; change t with v.
Ltac closed_masks :=
  repeat match goal with
  | |- context [u32 (Z.lnot ?m)] => mask_const (u32 (Z.lnot m))
  | |- context [Zpos ?a ||| Zpos ?b] => mask_const (Zpos a ||| Zpos b)
  | |- context [Zpos ?a ≪ ?b] => mask_const (Zpos a ≪ b)
  | |- context [Zpos ?a - Zpos ?b] => mask_const (Zpos a - Zpos b)
  end.

(** One segment: the macro and the segment as quotients and remainders. *)
Ltac segment_solve :=
  match goal with |- ?f _ = _ => let h := head_of f in try unfold h end;
  cbv -[Z.land Z.lor Z.shiftl Z.shiftr Z.pow Z.mul Z.add Z.sub Z.div Z.modulo Z.ltb in_word wrap Z.lnot];
  closed_masks; unmask; unshift; pow_const; try case_match; word_arith.

Ltac view_solve :=
  split; [repeat constructor|]; intros x Hx;
  match goal with |- segs_read 0 (view_segs ?v) _ =>
    let n := eval vm_compute in (view_bits v) in
    change (view_bits v) with n in Hx; unfold v; cbn [view_segs segs_read]
  end;
  repeat match goal with |- _ /\ _ => split | |- True => exact I end; segment_solve.

Lemma views_ok : Forall view_ok views.
Proof. unfold views. repeat (apply Forall_cons; split); first [done | view_solve]. Qed.

(** Every macro that takes a word apart reads exactly the bits of its field, with
    the documented position, width and sign, for every word; the fields of one word
    do not overlap; and where they leave no gap they determine the word. *)
Theorem views_read : Forall (fun v => view_ok v /\
  (full v = true -> forall x y, in_word (view_bits v) x -> in_word (view_bits v) y ->
   view_fields v x = view_fields v y -> x = y)) views.
Proof.
  eapply Forall_impl; [exact views_ok|]. intros v Hv. split; [done|].
  intros Hf x y Hx Hy E. by apply (view_determines v).
Qed.

(** A queueing handle is its major and its minor part. *)
Lemma tc_handle maj min : is_u32 maj -> is_u32 min ->
  Net.TC_H_MAJ (Net.TC_H_MAKE maj min) = Net.TC_H_MAJ maj /\
  Net.TC_H_MIN (Net.TC_H_MAKE maj min) = Net.TC_H_MIN min /\
  Net.TC_H_MAKE (Net.TC_H_MAJ maj) (Net.TC_H_MIN maj) = maj.
Proof.
  intros Hj Hn. unfold Net.TC_H_MAKE, Net.TC_H_MAJ, Net.TC_H_MIN, Net.TC_H_MAJ_MASK, Net.TC_H_MIN_MASK.
  unmask. rewrite !(lor_plus 16) by word_arith. repeat split; word_arith.
Qed.
