(* ===== verification/BitSets.v ===== *)
(** * Sets of bits

    The interface sets of multicast routing ([kernel-headers/linux/mroute.h],
    [mroute6.h]), the option set of [netfilter/xt_TCPOPTSTRIP.h], the capability
    sets of [capability.h] and the event sets of [wireless.h]. A set is a word or an
    array of 32-bit words; reading or writing outside the array faults. A shift of
    1 into the sign of an [int], which C leaves undefined, is taken as the compilers
    have it; on a 64-bit host the result is extended by its sign when it meets an
    [unsigned long]. *)
From stdpp Require Import gmap.
From S2P Require Import Prelude.
From S2P Require Import Words.
From S2P Require Import Xtables.

(** [1 << n] as an [int]. *)
Definition int_bit (n : Z) : Z := s32 (1 ≪ n).

(** ** [linux/mroute6.h]: interface sets *)

Module Mroute6.
Definition IF_SETSIZE : Z := 256.
Definition NIFBITS : Z := 32.
Definition DIV_ROUND_UP (x y : Z) : Z := (x + (y - 1)) / y.
(** [ifs_bits] of an [if_set]. *)
Abbreviation if_set := (list Z).
Definition words : nat := Z.to_nat (DIV_ROUND_UP IF_SETSIZE NIFBITS).
Definition IF_SET (n : Z) (p : if_set) : option if_set :=
  w ← rd p (Z.to_nat (n / NIFBITS)); wr p (Z.to_nat (n / NIFBITS)) (w ||| u32 (int_bit (n mod NIFBITS))).
Definition IF_CLR (n : Z) (p : if_set) : option if_set :=
  w ← rd p (Z.to_nat (n / NIFBITS)); wr p (Z.to_nat (n / NIFBITS)) (w &&& u32 (Z.lnot (int_bit (n mod NIFBITS)))).
Definition IF_ISSET (n : Z) (p : if_set) : option Z :=
  w ← rd p (Z.to_nat (n / NIFBITS)); Some (w &&& u32 (int_bit (n mod NIFBITS))).
Definition IF_COPY (f t : if_set) : if_set := f.
Definition IF_ZERO (p : if_set) : if_set := replicate (length p) 0.
End Mroute6.

(** ** [linux/netfilter/xt_TCPOPTSTRIP.h]: TCP options *)

Module Tcpoptstrip.
(** [strip_bmap] of [struct xt_tcpoptstrip_target_info]. *)
Definition words : nat := 8.
Definition tcpoptstrip_set_bit (bmap : list Z) (idx : Z) : option (list Z) :=
  w ← rd bmap (Z.to_nat (idx ≫ 5)); wr bmap (Z.to_nat (idx ≫ 5)) (w ||| u32 (1 ≪ (idx &&& 31))).
Definition tcpoptstrip_test_bit (bmap : list Z) (idx : Z) : option bool :=
  w ← rd bmap (Z.to_nat (idx ≫ 5)); Some (negb ((u32 (1 ≪ (idx &&& 31)) &&& w) =? 0)).
End Tcpoptstrip.

(** ** [linux/mroute.h]: virtual interfaces, a word of [w] bits *)

Module Mroute.
Definition MAXVIFS : Z := 32.
Section vifbitmap.
Context (w : Z).
(** [(vifbitmap_t) (1 << n)] *)
Definition vif_bit (n : Z) : Z := wrap w (int_bit n).
Definition VIFM_SET (n m : Z) : Z := m ||| vif_bit n.
Definition VIFM_CLR (n m : Z) : Z := m &&& wrap w (Z.lnot (int_bit n)).
Definition VIFM_ISSET (n m : Z) : Z := m &&& vif_bit n.
Definition VIFM_CLRALL (m : Z) : Z := 0.
Definition VIFM_COPY (mfrom mto : Z) : Z := mfrom.
Definition VIFM_SAME (m1 m2 : Z) : bool := m1 =? m2.
End vifbitmap.
End Mroute.

(** ** [linux/capability.h]: capabilities *)

Module Capability.
Definition CAP_LAST_CAP : Z := 37.
Definition _LINUX_CAPABILITY_U32S_1 : Z := 1.
Definition _LINUX_CAPABILITY_U32S_3 : Z := 2.
Definition cap_valid (x : Z) : bool := (0 <=? x) && (x <=? CAP_LAST_CAP).
Definition CAP_TO_INDEX (x : Z) : Z := x ≫ 5.
Definition CAP_TO_MASK (x : Z) : Z := int_bit (x &&& 31).
End Capability.

(** ** [linux/wireless.h]: event capabilities *)

Module Wireless.
Definition SIOCIWFIRST : Z := 0x8B00.
Definition SIOCIWFIRSTPRIV : Z := 0x8BE0.
Definition IW_EVENT_CAPA_BASE (cmd : Z) : Z :=
  if SIOCIWFIRSTPRIV <=? cmd then cmd - SIOCIWFIRSTPRIV + 0x60 else cmd - SIOCIWFIRST.
Definition IW_EVENT_CAPA_INDEX (cmd : Z) : Z := IW_EVENT_CAPA_BASE cmd ≫ 5.
Definition IW_EVENT_CAPA_MASK (cmd : Z) : Z := int_bit (IW_EVENT_CAPA_BASE cmd &&& 0x1F).
Definition IW_EVENT_CAPA_K_0 : Z :=
  IW_EVENT_CAPA_MASK 0x8B04 ||| IW_EVENT_CAPA_MASK 0x8B06 ||| IW_EVENT_CAPA_MASK 0x8B1A.
Definition IW_EVENT_CAPA_K_1 : Z := IW_EVENT_CAPA_MASK 0x8B2A.
Definition IW_EVENT_CAPA_SET (event_capa : list Z) (cmd : Z) : option (list Z) :=
  w ← rd event_capa (Z.to_nat (IW_EVENT_CAPA_INDEX cmd));
  wr event_capa (Z.to_nat (IW_EVENT_CAPA_INDEX cmd)) (w ||| u32 (IW_EVENT_CAPA_MASK cmd)).
Definition IW_EVENT_CAPA_SET_KERNEL (event_capa : list Z) : option (list Z) :=
  w ← rd event_capa 0; e ← wr event_capa 0 (w ||| u32 IW_EVENT_CAPA_K_0);
  w ← rd e 1; wr e 1 (w ||| u32 IW_EVENT_CAPA_K_1).
End Wireless.

(** ** Bits of sign-extended words *)

Lemma s32_u32 x : u32 (s32 x) = u32 x.
Proof. unfold s32, wrap. rewrite Zminus_mod, Zmod_mod, <- Zminus_mod. f_equal. lia. Qed.

Lemma s32_cases x : let y := u32 x in s32 x = if decide (y < 2 ^ 31) then y else y - 2 ^ 32.
Proof.
  cbv zeta. unfold s32, wrap. pose proof (Z.mod_pos_bound x (2 ^ 32) ltac:(lia)) as Hb.
  rewrite (Z.add_mod x) by lia. change (2 ^ 31 mod 2 ^ 32) with (2 ^ 31). case_decide; word_arith.
Qed.

(** The bits of an [int] converted to a wider unsigned word: those above repeat bit
    31. *)
Lemma testbit_sext w x i : 32 <= w -> 0 <= i < w -> Z.testbit (wrap w (s32 x)) i = Z.testbit x (Z.min i 31).
Proof.
  intros Hw Hi. unfold wrap at 1. rewrite Z.mod_pow2_bits_low by lia.
  assert (E : forall j, 0 <= j < 32 -> Z.testbit (u32 x) j = Z.testbit x j).
  { intros j Hj. unfold wrap. by rewrite Z.mod_pow2_bits_low by lia. }
  rewrite s32_cases. pose proof (wrap_range 32 x ltac:(lia)) as Hy.
  rewrite <- E by lia. set (y := u32 x) in *. clearbody y. clear E x.
  case_decide as Hs.
  - destruct (decide (i < 31)); [by rewrite Z.min_l by lia|].
    rewrite Z.min_r by lia. by rewrite !(testbit_high 31 y) by (unfold in_word in *; lia).
  - replace (y - 2 ^ 32) with (Z.lnot (2 ^ 32 - 1 - y)) by (unfold Z.lnot; lia).
    set (z := 2 ^ 32 - 1 - y). assert (Hz : in_word 31 z) by (unfold in_word, z in *; lia).
    rewrite Z.lnot_spec by lia.
    assert (E : forall j, 0 <= j < 32 -> Z.testbit y j = negb (Z.testbit z j)).
    { intros j Hj. rewrite <- Z.lnot_spec by lia.
      replace y with (Z.lnot z mod 2 ^ 32); [by rewrite Z.mod_pow2_bits_low by lia|].
      unfold Z.lnot, z. replace (Z.pred (- (2 ^ 32 - 1 - y))) with (y + -1 * 2 ^ 32) by lia.
      rewrite Z.mod_add by lia. by apply Z.mod_small. }
    destruct (decide (i < 31)); [by rewrite Z.min_l, E by lia|].
    rewrite Z.min_r, E by lia. by rewrite !(testbit_high 31 z) by (done || lia).
Qed.

Lemma int_bit_u32 n : 0 <= n < 32 -> u32 (int_bit n) = 2 ^ n.
Proof.
  intros Hn. unfold int_bit. rewrite s32_u32, Z.shiftl_1_l. apply wrap_small.
  split; [apply Z.pow_nonneg; lia|]. apply Z.pow_lt_mono_r; lia.
Qed.

Lemma lnot_u32 a b : u32 a = u32 b -> u32 (Z.lnot a) = u32 (Z.lnot b).
Proof.
  unfold wrap, Z.lnot. intros E. replace (Z.pred (- a)) with (-1 - a) by lia. replace (Z.pred (- b)) with (-1 - b) by lia.
  by rewrite Zminus_mod, E, <- Zminus_mod.
Qed.

(** ** Arrays of words *)

(** The operations on interface sets and TCP options are those on the chunk bitmap
    of [Xtables], which has as many words. *)
Lemma if_bit n : 0 <= n -> u32 (int_bit (n mod 32)) = bit_of n.
Proof. intros. rewrite int_bit_u32, bit_of_pow by (done || apply Z.mod_pos_bound; lia). done. Qed.

Lemma if_set_chunk n p : 0 <= n -> Mroute6.IF_SET n p = SCTP_CHUNKMAP_SET p n.
Proof. intros. unfold Mroute6.IF_SET, Mroute6.NIFBITS, SCTP_CHUNKMAP_SET, word_of. by rewrite if_bit. Qed.

Lemma if_clr_chunk n p : 0 <= n -> Mroute6.IF_CLR n p = SCTP_CHUNKMAP_CLEAR p n.
Proof.
  intros. unfold Mroute6.IF_CLR, Mroute6.NIFBITS, SCTP_CHUNKMAP_CLEAR, word_of.
  rewrite (lnot_u32 _ (bit_of n)); [done|]. by rewrite if_bit, bit_of_pow, <- bit_of_pow, (wrap_small 32 (bit_of n)) by (done || by apply bit_range).
Qed.

Lemma if_isset_chunk n p : 0 <= n ->
  (fun v => negb (v =? 0)) <$> Mroute6.IF_ISSET n p = SCTP_CHUNKMAP_IS_SET p n.
Proof.
  intros. unfold Mroute6.IF_ISSET, Mroute6.NIFBITS, SCTP_CHUNKMAP_IS_SET, word_of. rewrite if_bit by done.
  by destruct (rd p _).
Qed.

Lemma tcpopt_set_chunk idx p : 0 <= idx -> Tcpoptstrip.tcpoptstrip_set_bit p idx = SCTP_CHUNKMAP_SET p idx.
Proof.
  intros. unfold Tcpoptstrip.tcpoptstrip_set_bit, SCTP_CHUNKMAP_SET, word_of, bit_of.
  rewrite shiftr_div by done. by unmask.
Qed.

Lemma tcpopt_test_chunk idx p : 0 <= idx -> Tcpoptstrip.tcpoptstrip_test_bit p idx = SCTP_CHUNKMAP_IS_SET p idx.
Proof.
  intros. unfold Tcpoptstrip.tcpoptstrip_test_bit, SCTP_CHUNKMAP_IS_SET, word_of, bit_of.
  rewrite shiftr_div by done. unmask. change (2 ^ 5) with 32.
  destruct (rd p _); [|done]. cbn [mbind option_bind]. by rewrite Z.land_comm.
Qed.

(** Contents of an array of eight words, as interfaces or option numbers. *)
Abbreviation members := chunk_set.
Abbreviation array_ok := (chunkmap_ok 8).

(** C38. The interface sets of multicast routing and the option set of TCPOPTSTRIP are
    sets of the numbers 0 to 255: each macro is the set operation, and above the
    last number it leaves the array. *)
Theorem arrays_are_sets (p : list Z) : array_ok p ->
  (forall n, 0 <= n < Mroute6.IF_SETSIZE ->
     (fun v => negb (v =? 0)) <$> Mroute6.IF_ISSET n p = Some (bool_decide (n ∈ members p)) /\
     Tcpoptstrip.tcpoptstrip_test_bit p n = Some (bool_decide (n ∈ members p)) /\
     (exists q, Mroute6.IF_SET n p = Some q /\ Tcpoptstrip.tcpoptstrip_set_bit p n = Some q /\
        array_ok q /\ members q = {[n]} ∪ members p) /\
     (exists q, Mroute6.IF_CLR n p = Some q /\ array_ok q /\ members q = members p ∖ {[n]})) /\
  members (Mroute6.IF_ZERO p) = ∅ /\ length p = Mroute6.words /\
  (forall n, Mroute6.IF_SETSIZE <= n -> Mroute6.IF_SET n p = None /\ Tcpoptstrip.tcpoptstrip_set_bit p n = None).
Proof.
  intros Hok. pose proof Hok as [Hl _]. split_and!; [|by unfold Mroute6.IF_ZERO; rewrite Hl; by vm_compute|by rewrite Hl|].
  - intros n Hn. change Mroute6.IF_SETSIZE with 256 in Hn.
    rewrite if_isset_chunk, tcpopt_test_chunk, if_set_chunk, tcpopt_set_chunk, if_clr_chunk by lia.
    pose proof (is_set_elem 8 p n Hn Hok) as E.
    split_and!; [done|done| |by apply chunk_set_delete].
    destruct (chunk_set_insert 8 p n Hn Hok) as (q & ? & ? & ?). by exists q.
  - intros n Hn. change Mroute6.IF_SETSIZE with 256 in Hn. rewrite if_set_chunk, tcpopt_set_chunk by lia.
    by rewrite (set_outside 8 p n Hok Hn).
Qed.

(** ** Virtual interfaces *)

(** The bits above 31 repeat bit 31. *)
Definition vifs_ok (w m : Z) : Prop :=
  in_word w m /\ forall i, 31 <= i < w -> Z.testbit m i = Z.testbit m 31.
Definition vif_numbers : list Z := seqZ 0 Mroute.MAXVIFS.
Definition vifs (m : Z) : gset Z := list_to_set (List.filter (Z.testbit m) vif_numbers).

Lemma elem_of_vifs m n : n ∈ vifs m <-> 0 <= n < 32 /\ Z.testbit m n = true.
Proof.
  unfold vifs, vif_numbers. rewrite elem_of_list_to_set, list_elem_of_In, filter_In, <- list_elem_of_In, elem_of_seqZ.
  change (0 + Mroute.MAXVIFS) with 32. tauto.
Qed.

Lemma vif_bit_testbit w n i : 32 <= w -> 0 <= n < 32 -> 0 <= i < w ->
  Z.testbit (Mroute.vif_bit w n) i = (n =? Z.min i 31).
Proof.
  intros Hw Hn Hi. unfold Mroute.vif_bit, int_bit. rewrite testbit_sext, Z.shiftl_1_l by lia.
  apply Z.pow2_bits_eqb. lia.
Qed.

Lemma vif_mask_testbit w n i : 32 <= w -> 0 <= n < 32 -> 0 <= i < w ->
  Z.testbit (wrap w (Z.lnot (int_bit n))) i = negb (n =? Z.min i 31).
Proof.
  intros Hw Hn Hi. rewrite <- vif_bit_testbit with (w := w) by done. unfold Mroute.vif_bit, wrap.
  by rewrite !Z.mod_pow2_bits_low, Z.lnot_spec by lia.
Qed.

Lemma vifs_inj w m1 m2 : 32 <= w -> vifs_ok w m1 -> vifs_ok w m2 -> vifs m1 = vifs m2 -> m1 = m2.
Proof.
  intros Hw [R1 H1] [R2 H2] E. apply Z.bits_inj'. intros n Hn.
  assert (L : forall i, 0 <= i < 32 -> Z.testbit m1 i = Z.testbit m2 i).
  { intros i Hi. apply eq_iff_eq_true. pose proof (elem_of_vifs m1 i). pose proof (elem_of_vifs m2 i).
    rewrite E in *. tauto. }
  destruct (decide (n < 32)); [by apply L|]. destruct (decide (n < w)).
  - rewrite H1, H2 by lia. apply L. lia.
  - by rewrite !(testbit_high w) by (done || lia).
Qed.

Lemma vif_isset w n m : 32 <= w -> vifs_ok w m -> 0 <= n < 32 ->
  negb (Mroute.VIFM_ISSET w n m =? 0) = bool_decide (n ∈ vifs m).
Proof.
  intros Hw [R H] Hn. unfold Mroute.VIFM_ISSET. case_bool_decide as E; rewrite elem_of_vifs in E.
  - apply negb_true_iff, Z.eqb_neq. intros E0. apply (f_equal (fun x => Z.testbit x n)) in E0.
    rewrite Z.land_spec, vif_bit_testbit, Z.bits_0 in E0 by lia. rewrite Z.min_l in E0 by lia.
    rewrite Z.eqb_refl in E0. destruct E as [_ E]. by rewrite E in E0.
  - apply negb_false_iff, Z.eqb_eq, Z.bits_inj'. intros i Hi. rewrite Z.land_spec, Z.bits_0.
    destruct (decide (i < w)); [|by rewrite (testbit_high w m) by (done || lia)].
    rewrite vif_bit_testbit by lia. destruct (Z.eqb_spec n (Z.min i 31)); [|apply andb_false_r].
    destruct (Z.testbit m i) eqn:Ei; [|done]. destruct E. split; [done|].
    destruct (decide (i < 31)); [by replace n with i by lia|]. replace n with 31 by lia. by rewrite <- (H i) by lia.
Qed.

Lemma vif_set w n m : 32 <= w -> vifs_ok w m -> 0 <= n < 32 ->
  vifs_ok w (Mroute.VIFM_SET w n m) /\ vifs (Mroute.VIFM_SET w n m) = {[n]} ∪ vifs m.
Proof.
  intros Hw [R H] Hn. unfold Mroute.VIFM_SET.
  assert (B : forall i, 0 <= i < w -> Z.testbit (m ||| Mroute.vif_bit w n) i = Z.testbit m i || (n =? Z.min i 31)).
  { intros i Hi. by rewrite Z.lor_spec, vif_bit_testbit by lia. }
  split; [split; [apply lor_range; [lia|done|by apply wrap_range; lia]|]|].
  - intros i Hi. by rewrite !B, H, !(Z.min_r _ 31) by lia.
  - apply set_eq. intros i. rewrite elem_of_union, elem_of_singleton, !elem_of_vifs.
    destruct (decide (0 <= i < 32)) as [Hi|Hi]; [|split; [tauto|intros [-> |]; tauto]].
    rewrite B, Z.min_l, orb_true_iff, Z.eqb_eq by lia. intuition congruence.
Qed.

Lemma vif_clr w n m : 32 <= w -> vifs_ok w m -> 0 <= n < 32 ->
  vifs_ok w (Mroute.VIFM_CLR w n m) /\ vifs (Mroute.VIFM_CLR w n m) = vifs m ∖ {[n]}.
Proof.
  intros Hw [R H] Hn. unfold Mroute.VIFM_CLR.
  assert (B : forall i, 0 <= i < w -> Z.testbit (m &&& wrap w (Z.lnot (int_bit n))) i =
                                   Z.testbit m i && negb (n =? Z.min i 31)).
  { intros i Hi. by rewrite Z.land_spec, vif_mask_testbit by lia. }
  split; [split; [apply land_range; [lia|done|apply wrap_range; lia]|]|].
  - intros i Hi. by rewrite !B, H, !(Z.min_r _ 31) by lia.
  - apply set_eq. intros i. rewrite elem_of_difference, elem_of_singleton, !elem_of_vifs.
    destruct (decide (0 <= i < 32)) as [Hi|Hi]; [|tauto].
    rewrite B, Z.min_l, andb_true_iff, negb_true_iff, Z.eqb_neq by lia. intuition congruence.
Qed.

(** On hosts with 32-bit and 64-bit words, the macros on [vifbitmap_t] are the
    operations of a set of the interfaces 0 to 31, comparison included, although the
    bit of interface 31 spreads to the upper half of a 64-bit word. *)
Theorem vif_maps_are_sets (w m m2 : Z) : w = 32 \/ w = 64 -> vifs_ok w m -> vifs_ok w m2 ->
  (forall n, 0 <= n < Mroute.MAXVIFS ->
     negb (Mroute.VIFM_ISSET w n m =? 0) = bool_decide (n ∈ vifs m) /\
     vifs_ok w (Mroute.VIFM_SET w n m) /\ vifs (Mroute.VIFM_SET w n m) = {[n]} ∪ vifs m /\
     vifs_ok w (Mroute.VIFM_CLR w n m) /\ vifs (Mroute.VIFM_CLR w n m) = vifs m ∖ {[n]}) /\
  vifs_ok w (Mroute.VIFM_CLRALL m) /\ vifs (Mroute.VIFM_CLRALL m) = ∅ /\
  Mroute.VIFM_COPY m m2 = m /\ Mroute.VIFM_SAME m m2 = bool_decide (vifs m = vifs m2).
Proof.
  intros Hw H1 H2. assert (32 <= w) by lia. split_and!.
  - intros n Hn. change Mroute.MAXVIFS with 32 in Hn.
    destruct (vif_set w n m) as [? ?]; try done. destruct (vif_clr w n m) as [? ?]; try done.
    split_and!; try done. by apply vif_isset.
  - split; [split; [done|apply Z.pow_pos_nonneg; lia]|]. intros. by rewrite !Z.bits_0.
  - by vm_compute.
  - done.
  - unfold Mroute.VIFM_SAME. case_bool_decide as E.
    + by apply Z.eqb_eq, (vifs_inj w).
    + apply Z.eqb_neq. by intros ->.
Qed.

Lemma vif_maps_are_sets_witness :
  let m := Mroute.VIFM_SET 64 31 (Mroute.VIFM_SET 64 3 0) in
  m = 0xffffffff80000008 /\ vifs_ok 64 m /\ Mroute.VIFM_SAME m (Mroute.VIFM_CLR 64 5 m) = true /\
  Mroute.VIFM_CLR 64 31 m = 8.
Proof.
  intros m. assert (H0 : vifs_ok 64 0).
  { split; [by vm_compute|]. intros. by rewrite !Z.bits_0. }
  assert (H3 : vifs_ok 64 (Mroute.VIFM_SET 64 3 0)).
  { apply (vif_maps_are_sets 64 0 0); [by right|done|done|by vm_compute]. }
  assert (Hm : vifs_ok 64 m).
  { apply (vif_maps_are_sets 64 (Mroute.VIFM_SET 64 3 0) 0); [by right|done|done|by vm_compute]. }
  split_and!; [by vm_compute|done|by vm_compute|by vm_compute].
Defined.

Lemma arrays_are_sets_witness :
  let p := replicate 8 0 in
  array_ok p /\ members (Mroute6.IF_ZERO p) = ∅ /\
  Mroute6.IF_SET 255 p = Some (replicate 7 0 ++ [2 ^ 31]) /\ Mroute6.IF_SET 256 p = None.
Proof.
  intros p. assert (Hok : array_ok p) by (split; [done|repeat constructor; by vm_compute]).
  split; [done|]. split; [by apply (arrays_are_sets p Hok)|]. split; [by vm_compute|].
  by apply (arrays_are_sets p Hok).
Defined.

(** ** Capabilities and events *)

(** Every valid capability has its own bit of the two words of version 3; those up
    to 31 have it in the one word of version 1. *)
Lemma capabilities_in_words x : Capability.cap_valid x = true ->
  0 <= Capability.CAP_TO_INDEX x < Capability._LINUX_CAPABILITY_U32S_3 /\
  (Capability.CAP_TO_INDEX x < Capability._LINUX_CAPABILITY_U32S_1 <-> x < 32) /\
  u32 (Capability.CAP_TO_MASK x) = 2 ^ (x - 32 * Capability.CAP_TO_INDEX x).
Proof.
  unfold Capability.cap_valid, Capability.CAP_LAST_CAP. intros H. apply andb_true_iff in H as [H1 H2].
  unfold Capability.CAP_TO_INDEX, Capability.CAP_TO_MASK, Capability._LINUX_CAPABILITY_U32S_3, Capability._LINUX_CAPABILITY_U32S_1.
  unmask. unshift. rewrite int_bit_u32 by (apply Z.mod_pos_bound; lia). change (2 ^ 5) with 32.
  split_and!; [..|f_equal]; Z.to_euclidean_division_equations; lia.
Qed.

(** The commands of [wireless.h] with a place in [event_capa]: the standard ones, and
    the private ones with the events. *)
Definition event_cmd (cmd : Z) : Prop := 0x8B00 <= cmd < 0x8B60 \/ 0x8BE0 <= cmd < 0x8C40.

Lemma event_capa_bits cmd : event_cmd cmd ->
  let b := Wireless.IW_EVENT_CAPA_BASE cmd in
  0 <= b < 192 /\ Wireless.IW_EVENT_CAPA_INDEX cmd = b / 32 /\ u32 (Wireless.IW_EVENT_CAPA_MASK cmd) = 2 ^ (b mod 32).
Proof.
  intros Hc b. assert (Hb : 0 <= b < 192).
  { unfold b, Wireless.IW_EVENT_CAPA_BASE, Wireless.SIOCIWFIRSTPRIV, Wireless.SIOCIWFIRST, event_cmd in *.
    case_match eqn:E; lia. }
  unfold Wireless.IW_EVENT_CAPA_INDEX, Wireless.IW_EVENT_CAPA_MASK. fold b. unmask. unshift.
  rewrite int_bit_u32 by (apply Z.mod_pos_bound; lia). done.
Qed.

Lemma event_capa_distinct c1 c2 : event_cmd c1 -> event_cmd c2 ->
  Wireless.IW_EVENT_CAPA_INDEX c1 = Wireless.IW_EVENT_CAPA_INDEX c2 ->
  Wireless.IW_EVENT_CAPA_MASK c1 = Wireless.IW_EVENT_CAPA_MASK c2 -> c1 = c2.
Proof.
  intros H1 H2 Ei Em. destruct (event_capa_bits c1 H1) as (B1 & I1 & M1), (event_capa_bits c2 H2) as (B2 & I2 & M2).
  rewrite I1, I2 in Ei. rewrite Em, M2 in M1. apply Z.pow_inj_r in M1; [|lia|apply Z.mod_pos_bound; lia..].
  assert (E : Wireless.IW_EVENT_CAPA_BASE c1 = Wireless.IW_EVENT_CAPA_BASE c2).
  { rewrite (Z.div_mod (Wireless.IW_EVENT_CAPA_BASE c1) 32), (Z.div_mod (Wireless.IW_EVENT_CAPA_BASE c2) 32) by lia.
    by rewrite Ei, M1. }
  unfold Wireless.IW_EVENT_CAPA_BASE, Wireless.SIOCIWFIRSTPRIV, Wireless.SIOCIWFIRST, event_cmd in *.
  repeat case_match; lia.
Qed.

(** [IW_EVENT_CAPA_SET_KERNEL] is [IW_EVENT_CAPA_SET] for each event the kernel
    generates itself. *)
Lemma event_capa_kernel e : (2 <= length e)%nat ->
  Wireless.IW_EVENT_CAPA_SET_KERNEL e =
  (e ← Wireless.IW_EVENT_CAPA_SET e 0x8B04; e ← Wireless.IW_EVENT_CAPA_SET e 0x8B06;
   e ← Wireless.IW_EVENT_CAPA_SET e 0x8B1A; Wireless.IW_EVENT_CAPA_SET e 0x8B2A).
Proof.
  intros Hl. destruct e as [|a [|b e]]; [cbn in Hl; lia..|].
  assert (U : forall i l (v : Z), (i < length l)%nat -> (w ← rd l i; wr l i (w ||| v)) =
    Some (<[i := l !!! i ||| v]> l)).
  { intros i l v Hi. unfold rd. rewrite (list_lookup_lookup_total_lt l i) by done. cbn [mbind option_bind].
    by apply wr_Some. }
  unfold Wireless.IW_EVENT_CAPA_SET_KERNEL, Wireless.IW_EVENT_CAPA_SET.
  change (Z.to_nat (Wireless.IW_EVENT_CAPA_INDEX 0x8B04)) with 0%nat.
  change (Z.to_nat (Wireless.IW_EVENT_CAPA_INDEX 0x8B06)) with 0%nat.
  change (Z.to_nat (Wireless.IW_EVENT_CAPA_INDEX 0x8B1A)) with 0%nat.
  change (Z.to_nat (Wireless.IW_EVENT_CAPA_INDEX 0x8B2A)) with 1%nat.
  repeat (cbn [mbind option_bind]; rewrite ?U by (cbn; lia)).
  cbn -[Z.lor wrap Wireless.IW_EVENT_CAPA_MASK Wireless.IW_EVENT_CAPA_K_0 Wireless.IW_EVENT_CAPA_K_1].
  rewrite <- !Z.lor_assoc. done.
Qed.
