(* ===== verification/Handles.v ===== *)
(** * Handles and identifiers

    The instance handle of the camera ([kernel-headers/media/msm_camera.h]), whose
    fields macros clear, set and read one by one, and identifiers with more than one
    reader or none: operations of [linux/futex.h], socket options of [linux/atm.h],
    UUIDs of [linux/uuid.h], memory events of [linux/perf_event.h]. In a handle a
    shift of 1 into the sign of an [int] is taken as the compilers have it. *)
From S2P Require Import Prelude.
From S2P Require Import Words.

(** ** [media/msm_camera.h]: the instance handle *)

Module Msm_camera.
Definition CLR_DEVID_MODE (handle : Z) : Z := handle &&& 0x00FFFFFF.
Definition SET_DEVID_MODE (handle data : Z) : Z :=
  handle ||| u32 (s32 (0x1 ≪ 31) ||| ((data &&& 0x7F) ≪ 24)).
Definition GET_DEVID_MODE (handle : Z) : Z :=
  if decide (handle &&& 0x80000000 = 0) then 0xFF else (handle &&& 0x7F000000) ≫ 24.

Definition CLR_IMG_MODE (handle : Z) : Z := handle &&& 0xFF00FFFF.
Definition SET_IMG_MODE (handle data : Z) : Z := handle ||| u32 ((0x1 ≪ 23) ||| ((data &&& 0x7F) ≪ 16)).
Definition GET_IMG_MODE (handle : Z) : Z :=
  if decide (handle &&& 0x800000 = 0) then 0xFF else (handle &&& 0x7F0000) ≫ 16.

Definition CLR_MCTLPP_INST_IDX (handle : Z) : Z := handle &&& 0xFFFF00FF.
Definition SET_MCTLPP_INST_IDX (handle data : Z) : Z :=
  handle ||| u32 ((0x1 ≪ 15) ||| ((data &&& 0x7F) ≪ 8)).
Definition GET_MCTLPP_INST_IDX (handle : Z) : Z :=
  if decide (handle &&& 0x8000 = 0) then 0xFF else (handle &&& 0x7F00) ≫ 8.

Definition CLR_VIDEO_INST_IDX (handle : Z) : Z := handle &&& 0xFFFFFF00.
Definition SET_VIDEO_INST_IDX (handle data : Z) : Z := handle ||| u32 ((0x1 ≪ 7) ||| (data &&& 0x7F)).
Definition GET_VIDEO_INST_IDX (handle : Z) : Z :=
  if decide (handle &&& 0x80 = 0) then 0xFF else handle &&& 0x7F.

(** The three operations of the field in byte [j] of the handle. *)
Record field : Type := mk_field { CLR : Z -> Z; SET : Z -> Z -> Z; GET : Z -> Z }.
Definition fields : list field := [
  mk_field CLR_VIDEO_INST_IDX SET_VIDEO_INST_IDX GET_VIDEO_INST_IDX;
  mk_field CLR_MCTLPP_INST_IDX SET_MCTLPP_INST_IDX GET_MCTLPP_INST_IDX;
  mk_field CLR_IMG_MODE SET_IMG_MODE GET_IMG_MODE;
  mk_field CLR_DEVID_MODE SET_DEVID_MODE GET_DEVID_MODE].

(** Byte [j] of a handle. *)
Definition byte_of (j h : Z) : Z := u8 (h ≫ (8 * j)).

Lemma byte_bit j h n : 0 <= j -> 0 <= n ->
  Z.testbit (byte_of j h) n = (n <? 8) && Z.testbit h (n + 8 * j).
Proof.
  intros Hj Hn. unfold byte_of, wrap. destruct (Z.ltb_spec n 8).
  - rewrite Z.mod_pow2_bits_low, Z.shiftr_spec by lia. done.
  - by rewrite Z.mod_pow2_bits_high by lia.
Qed.

(** What the macros do to the bytes. *)
Definition fill (data : Z) : Z := 0x80 ||| (data &&& 0x7f).

Lemma fill_u8 d : is_u8 (fill d).
Proof. apply lor_range; [lia|done|]. rewrite land_0x7f. unfold in_word. pose proof (Z.mod_pos_bound d 128). lia. Qed.

Lemma lor_byte i j h v : 0 <= i -> 0 <= j -> is_u8 v ->
  byte_of i (h ||| (v ≪ (8 * j))) = if decide (i = j) then byte_of i h ||| v else byte_of i h.
Proof.
  intros Hi Hj Hv. apply Z.bits_inj'. intros n Hn.
  rewrite byte_bit, Z.lor_spec, Z.shiftl_spec by lia. case_decide as E.
  - subst j. rewrite Z.lor_spec, byte_bit by done. replace (n + 8 * i - 8 * i) with n by lia.
    destruct (Z.ltb_spec n 8); [done|]. by rewrite (testbit_high 8 v).
  - rewrite byte_bit by done. destruct (Z.ltb_spec n 8); [|done]. cbn [andb].
    destruct (decide (n + 8 * i - 8 * j < 0)).
    + by rewrite (Z.testbit_neg_r v), orb_false_r by lia.
    + by rewrite (testbit_high 8 v), orb_false_r by (done || lia).
Qed.

Lemma clear_byte i j h : 0 <= i -> 0 <= j ->
  byte_of i (h &&& Z.lnot (255 ≪ (8 * j))) = if decide (i = j) then 0 else byte_of i h.
Proof.
  intros Hi Hj. apply Z.bits_inj'. intros n Hn.
  rewrite byte_bit, Z.land_spec, Z.lnot_spec, Z.shiftl_spec by lia.
  change 255 with (Z.ones 8). case_decide as E.
  - subst j. rewrite Z.bits_0. replace (n + 8 * i - 8 * i) with n by lia.
    destruct (Z.ltb_spec n 8); [|done]. rewrite Z.ones_spec_low by lia. by rewrite !andb_false_r.
  - rewrite byte_bit by done. destruct (Z.ltb_spec n 8); [|done]. cbn [andb].
    assert (Z.testbit (Z.ones 8) (n + 8 * i - 8 * j) = false) as ->; [|by rewrite andb_true_r].
    destruct (decide (n + 8 * i - 8 * j < 0)); [by apply Z.testbit_neg_r|].
    apply Z.ones_spec_high. lia.
Qed.

(** Value of a field from its byte: unset when bit 7 is clear. *)
Definition value (b : Z) : Z := if decide (b < 128) then 0xff else b - 128.

Lemma get_value j f h : fields !! Z.to_nat j = Some f -> 0 <= j -> is_u32 h -> GET f h = value (byte_of j h).
Proof.
  intros Hf Hj Hh. assert (j < 4) as Hj4 by (apply lookup_lt_Some in Hf; cbn in Hf; lia).
  assert (byte_of j h = h / 2 ^ (8 * j) mod 256) as ->.
  { unfold byte_of, wrap. by rewrite shiftr_div by lia. }
  assert (j = 0 \/ j = 1 \/ j = 2 \/ j = 3) as [-> | [-> | [-> | ->]]] by lia;
    cbn in Hf; injection Hf as <-; cbn [GET];
    unfold GET_VIDEO_INST_IDX, GET_MCTLPP_INST_IDX, GET_IMG_MODE, GET_DEVID_MODE, value;
    unmask; unshift; rewrite ?Z.div_mul by done; repeat case_decide; word_arith.
Qed.

Lemma clr_byte j f h : fields !! Z.to_nat j = Some f -> 0 <= j -> is_u32 h ->
  is_u32 (CLR f h) /\ forall i, 0 <= i < 4 -> byte_of i (CLR f h) = if decide (i = j) then 0 else byte_of i h.
Proof.
  intros Hf Hj Hh. assert (j < 4) as Hj4 by (apply lookup_lt_Some in Hf; cbn in Hf; lia).
  assert (E : CLR f h = h &&& Z.lnot (255 ≪ (8 * j))).
  { transitivity (h &&& (Z.lnot (255 ≪ (8 * j)) &&& Z.ones 32)).
    - assert (j = 0 \/ j = 1 \/ j = 2 \/ j = 3) as [-> | [-> | [-> | ->]]] by lia; cbn in Hf; injection Hf as <-; done.
    - rewrite Z.land_assoc, Z.land_ones by done. apply wrap_small.
      apply in_word_testbit; [done|apply Z.land_nonneg; left; apply Hh|].
      intros n Hn. by rewrite Z.land_spec, (testbit_high 32 h) by (done || lia). }
  rewrite E. split; [|intros; apply clear_byte; lia].
  apply in_word_testbit; [done|apply Z.land_nonneg; left; apply Hh|].
  intros n Hn. by rewrite Z.land_spec, (testbit_high 32 h) by (done || lia).
Qed.

Lemma set_byte j f h d : fields !! Z.to_nat j = Some f -> 0 <= j -> is_u32 h ->
  is_u32 (SET f h d) /\
  forall i, 0 <= i < 4 -> byte_of i (SET f h d) = if decide (i = j) then byte_of i h ||| fill d else byte_of i h.
Proof.
  intros Hf Hj Hh. assert (j < 4) as Hj4 by (apply lookup_lt_Some in Hf; cbn in Hf; lia).
  pose proof (fill_u8 d) as Hd.
  assert (E : SET f h d = h ||| (fill d ≪ (8 * j))).
  { assert (j = 0 \/ j = 1 \/ j = 2 \/ j = 3) as [-> | [-> | [-> | ->]]] by lia; cbn in Hf; injection Hf as <-; cbn [SET];
      unfold SET_VIDEO_INST_IDX, SET_MCTLPP_INST_IDX, SET_IMG_MODE, SET_DEVID_MODE, fill;
      set (e := d &&& 0x7f); assert (He : in_word 7 e) by (unfold e, in_word; rewrite land_0x7f; apply Z.mod_pos_bound; lia);
      clearbody e; f_equal.
    all: rewrite (lor_plus 7 0x80 e) by (done || apply He); rewrite ?shiftl_mul by done.
    - rewrite (lor_plus 7) by (done || apply He). word_arith.
    - rewrite (lor_plus 15) by word_arith. word_arith.
    - rewrite (lor_plus 23) by word_arith. word_arith.
    - change (s32 (1 * 2 ^ 31)) with (- 2 ^ 31). rewrite (lor_plus 31) by word_arith. word_arith. }
  rewrite E. split; [|intros; apply lor_byte; (done || lia)].
  apply lor_range; [done|done|]. rewrite shiftl_mul by lia.
  assert (j = 0 \/ j = 1 \/ j = 2 \/ j = 3) as [-> | [-> | [-> | ->]]] by lia; word_arith.
Qed.

Lemma value_fill d : value (fill d) = d mod 128.
Proof.
  unfold value, fill. rewrite land_0x7f, (lor_plus 7) by word_arith. case_decide; word_arith.
Qed.

(** The instance handle has four independent fields: clearing and setting one leaves
    the others alone; a field reads as 255 after it is cleared, and as the seven low
    bits it was set to after it is cleared and set, whatever the handle held. *)
Theorem handle_fields (h d : Z) (j : nat) (f : field) : is_u32 h -> fields !! j = Some f ->
  GET f (CLR f h) = 0xFF /\ GET f (SET f (CLR f h) d) = d mod 128 /\
  is_u32 (CLR f h) /\ is_u32 (SET f h d) /\
  forall k g, fields !! k = Some g -> k <> j -> GET g (CLR f h) = GET g h /\ GET g (SET f h d) = GET g h.
Proof.
  intros Hh Hf. assert (Hj : Z.to_nat (Z.of_nat j) = j) by lia. rewrite <- Hj in Hf.
  assert (j < 4)%nat as Hj4 by (apply lookup_lt_Some in Hf; cbn in Hf; lia).
  destruct (clr_byte _ f h Hf ltac:(lia) Hh) as [Rc Bc], (set_byte _ f h d Hf ltac:(lia) Hh) as [Rs Bs].
  destruct (set_byte _ f (CLR f h) d Hf ltac:(lia) Rc) as [Rcs Bcs].
  split_and!; [| |done|done|].
  - rewrite (get_value _ f _ Hf), Bc, decide_True by (done || lia). done.
  - rewrite (get_value _ f _ Hf), Bcs, Bc, !decide_True, Z.lor_0_l by (done || lia). apply value_fill.
  - intros k g Hg Hk. assert (Hk' : Z.to_nat (Z.of_nat k) = k) by lia. rewrite <- Hk' in Hg.
    assert (k < 4)%nat as Hk4 by (apply lookup_lt_Some in Hg; cbn in Hg; lia).
    by rewrite !(get_value _ g _ Hg), Bc, Bs, !decide_False by (done || lia).
Qed.

Lemma handle_fields_witness :
  let h := 0x12345678 in
  is_u32 h /\ GET_IMG_MODE (SET_IMG_MODE (CLR_IMG_MODE h) 0x85) = 5 /\
  GET_DEVID_MODE (SET_DEVID_MODE h 3) = 0x13 /\ GET_VIDEO_INST_IDX (SET_DEVID_MODE h 3) = 0xFF.
Proof.
  intros h. assert (Hh : is_u32 h) by by vm_compute. split; [done|].
  split; [apply (handle_fields h 0x85 2 (mk_field CLR_IMG_MODE SET_IMG_MODE GET_IMG_MODE)); done|].
  split; by vm_compute.
Defined.
End Msm_camera.

(** ** [linux/futex.h]: operations of [FUTEX_WAKE_OP] *)

Module Futex.
Definition FUTEX_OP_OPARG_SHIFT : Z := 8.
Definition FUTEX_OP (op oparg cmp cmparg : Z) : option Z :=
  a ← int_shl (op &&& 0xf) 28; b ← int_shl (cmp &&& 0xf) 24; c ← int_shl (oparg &&& 0xfff) 12;
  Some (a ||| b ||| c ||| (cmparg &&& 0xfff)).

(** With [FUTEX_OP_OPARG_SHIFT] in the operation the shift reaches the sign. *)
Lemma futex_op op oparg cmp cmparg : in_word 4 op -> in_word 12 oparg -> in_word 4 cmp -> in_word 12 cmparg ->
  FUTEX_OP op oparg cmp cmparg =
  if op <? FUTEX_OP_OPARG_SHIFT
  then Some (op * 2 ^ 28 + (cmp * 2 ^ 24 + (oparg * 2 ^ 12 + cmparg))) else None.
Proof.
  intros Ho Ha Hc Hb. unfold FUTEX_OP, FUTEX_OP_OPARG_SHIFT. unmask. rewrite !Z.mod_small by word_arith.
  destruct (Z.ltb_spec op 8) as [Hlt|Hge].
  - rewrite !int_shl_Some by word_arith. cbn [mbind option_bind]. unshift. rewrite <- !Z.lor_assoc.
    by rewrite (lor_plus 12 (oparg * 2 ^ 12)), (lor_plus 24 (cmp * 2 ^ 24)), (lor_plus 28 (op * 2 ^ 28)) by word_arith.
  - assert (int_shl op 28 = None) as ->; [|done].
    unfold int_shl, int_val. rewrite decide_True by (unfold in_word in Ho; lia).
    apply decide_False. unfold in_s32. unshift. word_arith.
Qed.
End Futex.

(** ** [linux/atm.h]: socket options, of type [unsigned long] *)

Module Atm.
(** [size] is the size of the type. *)
Definition __SO_ENCODE (l n size : Z) : option Z :=
  a ← int_shl (l &&& 0x1FF) 22; b ← int_shl n 16; Some (a ||| b ||| size).
Definition __SO_LEVEL_MATCH (c m : Z) : bool := (c ≫ 22) =? (m &&& 0x1FF).
Definition __SO_NUMBER (c : Z) : Z := (c ≫ 16) &&& 0x3f.
Definition __SO_SIZE (c : Z) : Z := c &&& 0x3fff.

(** An option gives its number and size back, and matches the levels that agree with
    its own in nine bits. *)
Lemma so_fields l n size m : 0 <= l -> 0 <= m -> in_word 6 n -> in_word 14 size ->
  exists c, __SO_ENCODE l n size = Some c /\ __SO_NUMBER c = n /\ __SO_SIZE c = size /\
    __SO_LEVEL_MATCH c m = (l mod 2 ^ 9 =? m mod 2 ^ 9).
Proof.
  intros Hl Hm Hn Hs. unfold __SO_ENCODE, __SO_NUMBER, __SO_SIZE, __SO_LEVEL_MATCH. unmask.
  rewrite !int_shl_Some by word_arith. cbn [mbind option_bind]. eexists. split; [reflexivity|].
  unshift. rewrite <- Z.lor_assoc, (lor_plus 16 (n * 2 ^ 16)), (lor_plus 22) by word_arith.
  unmask. split_and!; [word_arith|word_arith|]. f_equal. word_arith.
Qed.
End Atm.

(** ** [linux/uuid.h] *)

Module Uuid.
Definition UUID_LE (a b c : Z) (d : list Z) : list Z :=
  [a &&& 0xff; (a ≫ 8) &&& 0xff; (a ≫ 16) &&& 0xff; (a ≫ 24) &&& 0xff;
   b &&& 0xff; (b ≫ 8) &&& 0xff; c &&& 0xff; (c ≫ 8) &&& 0xff] ++ d.
Definition UUID_BE (a b c : Z) (d : list Z) : list Z :=
  [(a ≫ 24) &&& 0xff; (a ≫ 16) &&& 0xff; (a ≫ 8) &&& 0xff; a &&& 0xff;
   (b ≫ 8) &&& 0xff; b &&& 0xff; (c ≫ 8) &&& 0xff; c &&& 0xff] ++ d.
Definition NULL_UUID_LE : list Z := UUID_LE 0 0 0 (replicate 8 0).
Definition NULL_UUID_BE : list Z := UUID_BE 0 0 0 (replicate 8 0).

(** Both orders hold the same parts: each is the other with its three numbers
    reversed, and equal identifiers have equal parts. *)
Lemma uuid_orders a b c d :
  UUID_BE a b c d = reverse (take 4 (UUID_LE a b c d)) ++ reverse (take 2 (drop 4 (UUID_LE a b c d))) ++
    reverse (take 2 (drop 6 (UUID_LE a b c d))) ++ drop 8 (UUID_LE a b c d).
Proof. done. Qed.

Lemma uuid_le_inj a b c d a' b' c' d' : is_u32 a -> is_u16 b -> is_u16 c -> is_u32 a' -> is_u16 b' -> is_u16 c' ->
  UUID_LE a b c d = UUID_LE a' b' c' d' -> a = a' /\ b = b' /\ c = c' /\ d = d'.
Proof.
  intros Ha Hb Hc Ha' Hb' Hc' E. unfold UUID_LE in E. cbn [app] in E.
  injection E as E1 E2 E3 E4 E5 E6 E7 E8 E9. revert E1 E2 E3 E4 E5 E6 E7 E8. unmask. unshift. intros.
  split_and!; [word_arith..|done].
Qed.
End Uuid.

(** ** [linux/perf_event.h]: sources of memory events *)

Module Perf_mem.
Definition PERF_MEM_OP_SHIFT : Z := 0.
Definition PERF_MEM_LVL_SHIFT : Z := 5.
Definition PERF_MEM_SNOOP_SHIFT : Z := 19.
Definition PERF_MEM_LOCK_SHIFT : Z := 24.
Definition PERF_MEM_TLB_SHIFT : Z := 26.
(** [PERF_MEM_S], given the shift and the constant. *)
Definition PERF_MEM_S (shift s : Z) : Z := u64 (s ≪ shift).
(** The bit-fields of [union perf_mem_data_src], and the constants for each. *)
Definition widths : list Z := [5; 14; 5; 2; 7; 31].
Definition shifts : list Z := [PERF_MEM_OP_SHIFT; PERF_MEM_LVL_SHIFT; PERF_MEM_SNOOP_SHIFT; PERF_MEM_LOCK_SHIFT; PERF_MEM_TLB_SHIFT].
Definition values : list (list Z) := [
  [0x01; 0x02; 0x04; 0x08; 0x10];
  [0x01; 0x02; 0x04; 0x08; 0x10; 0x20; 0x40; 0x80; 0x100; 0x200; 0x400; 0x800; 0x1000; 0x2000];
  [0x01; 0x02; 0x04; 0x08; 0x10]; [0x01; 0x02]; [0x01; 0x02; 0x04; 0x08; 0x10; 0x20; 0x40]].

(** Every constant is one bit of its bit-field, every bit of a bit-field but the
    reserved ones has a constant, and the shifts are the positions a little-endian
    compiler gives the bit-fields. *)
Lemma mem_bits :
  foldr Z.add 0 widths = 64 /\
  (forall i : nat, (i < 5)%nat -> shifts !! i = Some (foldr Z.add 0 (take i widths)) /\
    values !! i = Some (map (Z.pow 2) (seqZ 0 (default 0 (widths !! i))))).
Proof.
  split; [done|]. intros i Hi. do 5 (destruct i as [|i]; [by vm_compute|]). lia.
Qed.
End Perf_mem.
