(* ===== verification/Fields.v ===== *)
(** * Packed fields

    Small accessors of the kernel headers, one module per header: fields packed
    into words, and tables of names. Out-parameters and structures are passed and
    returned; an [int] expression that overflows has no value. *)
From S2P Require Import Prelude.
From S2P Require Import Memory.
From S2P Require Import CLayout.

(** ** [linux/phonet.h] *)

Module Phonet.
Definition pn_object (addr port : Z) : Z := u16 ((addr ≪ 8) ||| (port &&& 0x3ff)).
Definition pn_obj (handle : Z) : Z := u8 (handle &&& 0xff).
Definition pn_dev (handle : Z) : Z := u8 (handle ≫ 8).
Definition pn_port (handle : Z) : Z := u16 (handle &&& 0x3ff).
Definition pn_addr (handle : Z) : Z := u8 ((handle ≫ 8) &&& 0xfc).

Record sockaddr_pn : Type := mk_sockaddr { spn_obj : Z; spn_dev : Z; spn_resource : Z }.

Definition pn_sockaddr_set_addr (spn : sockaddr_pn) (addr : Z) : sockaddr_pn :=
  let dev := spn_dev spn &&& 0x03 in
  mk_sockaddr (spn_obj spn) (u8 (dev ||| (addr &&& 0xfc))) (spn_resource spn).
Definition pn_sockaddr_set_port (spn : sockaddr_pn) (port : Z) : sockaddr_pn :=
  let dev := spn_dev spn &&& 0xfc in
  mk_sockaddr (u8 (port &&& 0xff)) (u8 (dev ||| ((port ≫ 8) &&& 0x03))) (spn_resource spn).
Definition pn_sockaddr_set_object (spn : sockaddr_pn) (handle : Z) : sockaddr_pn :=
  mk_sockaddr (pn_obj handle) (pn_dev handle) (spn_resource spn).
Definition pn_sockaddr_set_resource (spn : sockaddr_pn) (resource : Z) : sockaddr_pn :=
  mk_sockaddr (spn_obj spn) (spn_dev spn) resource.
Definition pn_sockaddr_get_addr (spn : sockaddr_pn) : Z := u8 (spn_dev spn &&& 0xfc).
Definition pn_sockaddr_get_port (spn : sockaddr_pn) : Z :=
  u16 (((spn_dev spn &&& 0x03) ≪ 8) ||| spn_obj spn).
Definition pn_sockaddr_get_object (spn : sockaddr_pn) : Z := pn_object (spn_dev spn) (spn_obj spn).
Definition pn_sockaddr_get_resource (spn : sockaddr_pn) : Z := spn_resource spn.

Definition sockaddr_ok (spn : sockaddr_pn) : Prop :=
  is_u8 (spn_obj spn) /\ is_u8 (spn_dev spn) /\ is_u8 (spn_resource spn).

Lemma land_0xfc x : is_u8 x -> (x &&& 0xfc) = x / 4 * 4.
Proof.
  intros Hx. apply Z.eqb_eq.
  exact (forall_word_bool 8 (fun x => (x &&& 0xfc) =? x / 4 * 4) ltac:(by vm_compute) x Hx).
Qed.

(** A device byte is the address bits and the high port bits. *)
Lemma lor_dev a b : is_u8 a -> is_u8 b -> ((a &&& 0x03) ||| (b &&& 0xfc)) = b / 4 * 4 + a mod 4.
Proof.
  intros Ha Hb. rewrite Z.lor_comm, land_0x3, land_0xfc by done.
  replace (b / 4 * 4) with ((b / 4) ≪ 2) by (rewrite shiftl_mul by lia; done).
  rewrite lor_disjoint by (lia || apply (Z.mod_pos_bound a 4); lia). rewrite shiftl_mul by lia. done.
Qed.

Lemma land_0x3ff x : x &&& 0x3ff = x mod 1024.
Proof. exact (land_mask x 10 ltac:(lia)). Qed.

Lemma pn_object_eq a p : is_u8 a -> p mod 1024 < 256 -> pn_object a p = a * 256 + p mod 1024.
Proof.
  unfold in_word. intros Ha Hp. unfold pn_object. rewrite land_0x3ff.
  pose proof (Z.mod_pos_bound p 1024 ltac:(lia)). change (2 ^ 8) with 256 in Ha.
  rewrite lor_disjoint by lia. apply wrap_small. unfold in_word. lia.
Qed.
(** The fields of an address, from its bytes. *)
Lemma get_addr_eq spn : sockaddr_ok spn -> pn_sockaddr_get_addr spn = spn_dev spn / 4 * 4.
Proof.
  intros (_ & Hd & _). unfold pn_sockaddr_get_addr. rewrite land_0xfc by done. apply wrap_small.
  unfold in_word in *. change (2 ^ 8) with 256 in *. Z.to_euclidean_division_equations. lia.
Qed.

Lemma get_port_eq spn : sockaddr_ok spn ->
  pn_sockaddr_get_port spn = spn_dev spn mod 4 * 256 + spn_obj spn.
Proof.
  intros (Ho & Hd & _). unfold in_word in *. change (2 ^ 8) with 256 in *. unfold pn_sockaddr_get_port.
  rewrite land_0x3, lor_disjoint by lia. apply wrap_small. unfold in_word.
  pose proof (Z.mod_pos_bound (spn_dev spn) 4 ltac:(lia)). change (2 ^ 16) with 65536. lia.
Qed.

Lemma get_object_eq spn : sockaddr_ok spn ->
  pn_sockaddr_get_object spn = spn_dev spn * 256 + spn_obj spn.
Proof.
  intros (Ho & Hd & _). unfold pn_sockaddr_get_object. unfold in_word in Ho. change (2 ^ 8) with 256 in Ho.
  assert (spn_obj spn mod 1024 = spn_obj spn) as E by (apply Z.mod_small; lia).
  rewrite pn_object_eq by (done || rewrite E; lia). by rewrite E.
Qed.

Lemma set_addr_eq spn a : sockaddr_ok spn -> is_u8 a -> pn_sockaddr_set_addr spn a =
  mk_sockaddr (spn_obj spn) (a / 4 * 4 + spn_dev spn mod 4) (spn_resource spn).
Proof.
  intros (_ & Hd & _) Ha. unfold pn_sockaddr_set_addr. f_equal. rewrite lor_dev by done.
  apply wrap_small. unfold in_word in *. change (2 ^ 8) with 256 in *.
  Z.to_euclidean_division_equations. lia.
Qed.

Lemma set_port_eq spn p : sockaddr_ok spn -> is_u16 p -> pn_sockaddr_set_port spn p =
  mk_sockaddr (p mod 256) (spn_dev spn / 4 * 4 + p / 256 mod 4) (spn_resource spn).
Proof.
  intros (_ & Hd & _) Hp. unfold pn_sockaddr_set_port. rewrite land_0xff. f_equal.
  - apply wrap_small. unfold in_word. apply Z.mod_pos_bound. lia.
  - rewrite shiftr_div by lia. change (2 ^ 8) with 256. unfold in_word in *.
    change (2 ^ 8) with 256 in *. change (2 ^ 16) with 65536 in *.
    rewrite Z.lor_comm, lor_dev by (unfold in_word; change (2 ^ 8) with 256;
      Z.to_euclidean_division_equations; lia).
    apply wrap_small. unfold in_word. change (2 ^ 8) with 256. Z.to_euclidean_division_equations. lia.
Qed.

(** A Phonet socket address holds a six-bit device address and a ten-bit port,
    which share a byte. Setting one of them, or the whole object, or the
    resource, is read back and leaves the others as they were, and the object is
    the address and the port put together. *)
Theorem sockaddr_fields (spn : sockaddr_pn) (addr port handle resource : Z) :
  sockaddr_ok spn -> is_u8 addr -> is_u16 port -> is_u16 handle -> is_u8 resource ->
  let a := pn_sockaddr_set_addr spn addr in
  let p := pn_sockaddr_set_port spn port in
  let o := pn_sockaddr_set_object spn handle in
  let r := pn_sockaddr_set_resource spn resource in
  Forall sockaddr_ok [a; p; o; r] /\
  pn_sockaddr_get_addr a = addr / 4 * 4 /\ pn_sockaddr_get_port a = pn_sockaddr_get_port spn /\
  pn_sockaddr_get_port p = port mod 1024 /\ pn_sockaddr_get_addr p = pn_sockaddr_get_addr spn /\
  pn_sockaddr_get_object o = handle /\ pn_sockaddr_get_object r = pn_sockaddr_get_object spn /\
  map pn_sockaddr_get_resource [a; p; o; r] = [spn_resource spn; spn_resource spn; spn_resource spn; resource] /\
  pn_sockaddr_get_object spn = pn_sockaddr_get_addr spn * 256 + pn_sockaddr_get_port spn.
Proof.
  intros Hs Ha Hp Hh Hr a p o r. pose proof Hs as (Ho & Hd & Hc).
  assert (Hok : sockaddr_ok a /\ sockaddr_ok p /\ sockaddr_ok o /\ sockaddr_ok r).
  { subst a p o r. rewrite set_addr_eq, set_port_eq by done.
    unfold sockaddr_ok, pn_sockaddr_set_object, pn_obj, pn_dev, in_word in *. cbn.
    change (2 ^ 8) with 256 in *. change (2 ^ 16) with 65536 in *. unfold wrap.
    Z.to_euclidean_division_equations. lia. }
  destruct Hok as (Oa & Op & Oo & Or).
  rewrite !get_addr_eq, !get_port_eq, !get_object_eq by done. split_and!.
  - by rewrite !Forall_cons, Forall_nil.
  - subst a. rewrite set_addr_eq by done. cbn. Z.to_euclidean_division_equations. lia.
  - subst a. rewrite set_addr_eq by done. cbn. Z.to_euclidean_division_equations. lia.
  - subst p. rewrite set_port_eq by done. cbn. Z.to_euclidean_division_equations. lia.
  - subst p. rewrite set_port_eq by done. cbn. Z.to_euclidean_division_equations. lia.
  - subst o. unfold pn_sockaddr_set_object, pn_obj, pn_dev. cbn. rewrite land_0xff. bits_lia.
  - done.
  - done.
  - Z.to_euclidean_division_equations. lia.
Qed.

Lemma sockaddr_fields_witness :
  let spn := mk_sockaddr 0x34 0x6d 0x10 in
  pn_sockaddr_get_addr (pn_sockaddr_set_addr spn 0x13) = 0x10 /\
  pn_sockaddr_get_port (pn_sockaddr_set_port spn 0xfabc) = 0x2bc /\
  pn_sockaddr_get_object (pn_sockaddr_set_object spn 0xbeef) = 0xbeef.
Proof.
  intros spn.
  destruct (sockaddr_fields spn 0x13 0xfabc 0xbeef 0) as (_ & Ha & _ & Hp & _ & Ho & _);
    [by vm_compute|by vm_compute..|]. done.
Defined.
End Phonet.

(** ** [linux/target_core_user.h] *)

Module Tcmu.
Definition TCMU_OP_MASK : Z := 0x7.
Definition tcmu_hdr_get_op (len_op : Z) : Z := len_op &&& TCMU_OP_MASK.
Definition tcmu_hdr_set_op (len_op op : Z) : Z :=
  let len_op := len_op &&& u32 (Z.lnot TCMU_OP_MASK) in
  u32 (len_op ||| (op &&& TCMU_OP_MASK)).
Definition tcmu_hdr_get_len (len_op : Z) : Z := len_op &&& u32 (Z.lnot TCMU_OP_MASK).
Definition tcmu_hdr_set_len (len_op len : Z) : Z :=
  let len_op := len_op &&& TCMU_OP_MASK in
  u32 (len_op ||| len).

Lemma get_op_eq x : tcmu_hdr_get_op x = x mod 8.
Proof. exact (land_mask x 3 ltac:(lia)). Qed.

Lemma get_len_eq x : is_u32 x -> tcmu_hdr_get_len x = x / 8 * 8.
Proof. intros Hx. exact (land_lnot_ones 32 3 x ltac:(lia) Hx). Qed.

(** A header word is a length, a multiple of 8, and an operation below 8. *)
Lemma hdr_fields x op len : is_u32 x -> 0 <= op -> is_u32 len -> (8 | len) ->
  tcmu_hdr_get_op (tcmu_hdr_set_op x op) = op mod 8 /\
  tcmu_hdr_get_len (tcmu_hdr_set_op x op) = tcmu_hdr_get_len x /\
  tcmu_hdr_get_len (tcmu_hdr_set_len x len) = len /\
  tcmu_hdr_get_op (tcmu_hdr_set_len x len) = tcmu_hdr_get_op x.
Proof.
  intros Hx Hop Hlen [k ->].
  assert (H1 : tcmu_hdr_set_op x op = x / 8 * 8 + op mod 8).
  { unfold tcmu_hdr_set_op. fold (tcmu_hdr_get_len x) (tcmu_hdr_get_op op). rewrite get_len_eq, get_op_eq by done.
    replace (x / 8 * 8) with ((x / 8) ≪ 3) by (rewrite shiftl_mul by lia; done).
    rewrite lor_disjoint by (lia || apply (Z.mod_pos_bound op 8); lia). rewrite shiftl_mul by lia.
    apply wrap_small. unfold in_word in *. change (2 ^ 32) with 4294967296 in *. change (2 ^ 3) with 8.
    Z.to_euclidean_division_equations. lia. }
  assert (H2 : tcmu_hdr_set_len x (k * 8) = k * 8 + x mod 8).
  { unfold tcmu_hdr_set_len. fold (tcmu_hdr_get_op x). rewrite get_op_eq, Z.lor_comm.
    replace (k * 8) with (k ≪ 3) by (rewrite shiftl_mul by lia; done).
    rewrite lor_disjoint by (lia || apply (Z.mod_pos_bound x 8); lia). rewrite shiftl_mul by lia.
    apply wrap_small. unfold in_word in *. change (2 ^ 32) with 4294967296 in *. change (2 ^ 3) with 8.
    Z.to_euclidean_division_equations. lia. }
  unfold in_word in *. change (2 ^ 32) with 4294967296 in *.
  rewrite H1, H2, !get_op_eq, !get_len_eq by (unfold in_word; change (2 ^ 32) with 4294967296;
    Z.to_euclidean_division_equations; lia).
  split_and!; Z.to_euclidean_division_equations; lia.
Qed.
End Tcmu.

(** ** [linux/mdio.h] *)

Module Mdio.
Definition MDIO_PHY_ID_C45 : Z := 0x8000.
Definition MDIO_PHY_ID_PRTAD : Z := 0x03e0.
Definition MDIO_PHY_ID_DEVAD : Z := 0x001f.
Definition mdio_phy_id_c45 (prtad devad : Z) : option Z :=
  p ← int_val (prtad ≪ 5); Some (u16 (MDIO_PHY_ID_C45 ||| p ||| devad)).

(** Addresses of five bits are read back under the masks. *)
Lemma phy_id_fields prtad devad : 0 <= prtad < 32 -> 0 <= devad < 32 ->
  exists id, mdio_phy_id_c45 prtad devad = Some id /\ (id &&& MDIO_PHY_ID_C45) = MDIO_PHY_ID_C45 /\
    (id &&& MDIO_PHY_ID_PRTAD) = prtad ≪ 5 /\ (id &&& MDIO_PHY_ID_DEVAD) = devad.
Proof.
  intros Hp Hd.
  pose (ok := fun x => match mdio_phy_id_c45 (x / 32) (x mod 32) with
    | Some id => ((id &&& MDIO_PHY_ID_C45) =? MDIO_PHY_ID_C45) &&
        ((id &&& MDIO_PHY_ID_PRTAD) =? (x / 32) ≪ 5) && ((id &&& MDIO_PHY_ID_DEVAD) =? x mod 32)
    | None => false end).
  assert (H : ok (prtad * 32 + devad) = true).
  { apply (forall_word_bool 10); [by vm_compute|]. unfold in_word. lia. }
  unfold ok in H.
  replace ((prtad * 32 + devad) / 32) with prtad in H by (Z.to_euclidean_division_equations; lia).
  replace ((prtad * 32 + devad) mod 32) with devad in H by (Z.to_euclidean_division_equations; lia).
  destruct (mdio_phy_id_c45 prtad devad) as [id|]; [|done]. exists id.
  rewrite !andb_true_iff, !Z.eqb_eq in H. tauto.
Qed.
End Mdio.

(** ** [linux/ethtool.h] *)

Module Ethtool_cmd.
Record ethtool_cmd : Type := mk_cmd { speed : Z; speed_hi : Z }.
Definition ethtool_cmd_speed_set (ep : ethtool_cmd) (s : Z) : ethtool_cmd :=
  mk_cmd (u16 s) (u16 (s ≫ 16)).
(** [speed_hi] is promoted to [int] before the shift. *)
Definition ethtool_cmd_speed (ep : ethtool_cmd) : option Z :=
  h ← int_val (speed_hi ep ≪ 16); Some (u32 (h ||| speed ep)).

Definition SPEED_UNKNOWN : Z := u32 (- 1).

Definition ETHTOOL_RX_FLOW_SPEC_RING : Z := 0x00000000FFFFFFFF.
Definition ETHTOOL_RX_FLOW_SPEC_RING_VF : Z := 0x000000FF00000000.
Definition ETHTOOL_RX_FLOW_SPEC_RING_VF_OFF : Z := 32.
Definition ethtool_get_flow_spec_ring (ring_cookie : Z) : Z := ETHTOOL_RX_FLOW_SPEC_RING &&& ring_cookie.
Definition ethtool_get_flow_spec_ring_vf (ring_cookie : Z) : Z :=
  (ETHTOOL_RX_FLOW_SPEC_RING_VF &&& ring_cookie) ≫ ETHTOOL_RX_FLOW_SPEC_RING_VF_OFF.

(** A link speed set is read back if it is below 2^31; for a greater one, and
    so for [SPEED_UNKNOWN], reading it overflows an [int]. *)
Theorem speed_roundtrip (ep : ethtool_cmd) (s : Z) : is_u32 s ->
  ethtool_cmd_speed (ethtool_cmd_speed_set ep s) = (if s <? 2 ^ 31 then Some s else None) /\
  ethtool_cmd_speed (ethtool_cmd_speed_set ep SPEED_UNKNOWN) = None.
Proof.
  intros Hs. split; [|by vm_compute]. unfold ethtool_cmd_speed, ethtool_cmd_speed_set. cbn [speed speed_hi].
  pose proof (wrap_range 16 s ltac:(lia)) as Hlo. unfold in_word in *.
  assert (Hhi : u16 (s ≫ 16) = s / 65536).
  { rewrite shiftr_div by lia. apply wrap_small. unfold in_word. change (2 ^ 16) with 65536.
    change (2 ^ 32) with 4294967296 in Hs. Z.to_euclidean_division_equations. lia. }
  rewrite Hhi. unfold int_val, in_s32. rewrite shiftl_mul by lia.
  change (2 ^ 16) with 65536 in *. change (2 ^ 31) with 2147483648. change (2 ^ 32) with 4294967296 in Hs.
  destruct (Z.ltb_spec s 2147483648) as [Hlt|Hge].
  - rewrite decide_True by (Z.to_euclidean_division_equations; lia). cbn [mbind option_bind]. f_equal.
    change 65536 with (2 ^ 16) at 2. rewrite <- shiftl_mul, lor_disjoint by lia.
    rewrite wrap_small; unfold in_word, wrap; change (2 ^ 16) with 65536; change (2 ^ 32) with 4294967296;
      Z.to_euclidean_division_equations; lia.
  - by rewrite decide_False by (Z.to_euclidean_division_equations; lia).
Qed.

Lemma speed_roundtrip_witness :
  ethtool_cmd_speed (ethtool_cmd_speed_set (mk_cmd 0 0) 100000) = Some 100000 /\
  ethtool_cmd_speed (ethtool_cmd_speed_set (mk_cmd 0 0) SPEED_UNKNOWN) = None.
Proof. apply (speed_roundtrip (mk_cmd 0 0) 100000). by vm_compute. Defined.
End Ethtool_cmd.

(** ** [linux/map_to_7segment.h] *)

Module Seg7.
Definition EINVAL : Z := 22.
Definition BIT_SEG7_A : Z := 0.
Definition BIT_SEG7_B : Z := 1.
Definition BIT_SEG7_C : Z := 2.
Definition BIT_SEG7_D : Z := 3.
Definition BIT_SEG7_E : Z := 4.
Definition BIT_SEG7_F : Z := 5.
Definition BIT_SEG7_G : Z := 6.
(** The character [l] is a comment. *)
Definition _SEG7 (a b c d e f g : Z) : Z :=
  (a ≪ BIT_SEG7_A) ||| (b ≪ BIT_SEG7_B) ||| (c ≪ BIT_SEG7_C) ||| (d ≪ BIT_SEG7_D)
  ||| (e ≪ BIT_SEG7_E) ||| (f ≪ BIT_SEG7_F) ||| (g ≪ BIT_SEG7_G).

Definition _MAP_0_32_ASCII_SEG7_NON_PRINTABLE : list Z := replicate 33 0.
Definition _MAP_33_47_ASCII_SEG7_SYMBOL : list Z := [
  _SEG7 0 0 0 0 1 1 0; _SEG7 0 1 0 0 0 1 0; _SEG7 0 1 1 0 1 1 0; _SEG7 1 0 1 1 0 1 1;
  _SEG7 0 0 1 0 0 1 0; _SEG7 1 0 1 1 1 1 1; _SEG7 0 0 0 0 0 1 0; _SEG7 1 0 0 1 1 1 0;
  _SEG7 1 1 1 1 0 0 0; _SEG7 0 1 1 0 1 1 1; _SEG7 0 1 1 0 0 0 1; _SEG7 0 0 0 0 1 0 0;
  _SEG7 0 0 0 0 0 0 1; _SEG7 0 0 0 0 1 0 0; _SEG7 0 1 0 0 1 0 1].
Definition _MAP_48_57_ASCII_SEG7_NUMERIC : list Z := [
  _SEG7 1 1 1 1 1 1 0; _SEG7 0 1 1 0 0 0 0; _SEG7 1 1 0 1 1 0 1; _SEG7 1 1 1 1 0 0 1;
  _SEG7 0 1 1 0 0 1 1; _SEG7 1 0 1 1 0 1 1; _SEG7 1 0 1 1 1 1 1; _SEG7 1 1 1 0 0 0 0;
  _SEG7 1 1 1 1 1 1 1; _SEG7 1 1 1 1 0 1 1].
Definition _MAP_58_64_ASCII_SEG7_SYMBOL : list Z := [
  _SEG7 0 0 0 1 0 0 1; _SEG7 0 0 0 1 0 0 1; _SEG7 1 0 0 0 0 1 1; _SEG7 0 0 0 1 0 0 1;
  _SEG7 1 1 0 0 0 0 1; _SEG7 1 1 1 0 0 1 0; _SEG7 1 1 0 1 1 1 1].
Definition _MAP_65_90_ASCII_SEG7_ALPHA_UPPR : list Z := [
  _SEG7 1 1 1 0 1 1 1; _SEG7 1 1 1 1 1 1 1; _SEG7 1 0 0 1 1 1 0; _SEG7 1 1 1 1 1 1 0;
  _SEG7 1 0 0 1 1 1 1; _SEG7 1 0 0 0 1 1 1; _SEG7 1 1 1 1 0 1 1; _SEG7 0 1 1 0 1 1 1;
  _SEG7 0 1 1 0 0 0 0; _SEG7 0 1 1 1 0 0 0; _SEG7 0 1 1 0 1 1 1; _SEG7 0 0 0 1 1 1 0;
  _SEG7 1 1 1 0 1 1 0; _SEG7 1 1 1 0 1 1 0; _SEG7 1 1 1 1 1 1 0; _SEG7 1 1 0 0 1 1 1;
  _SEG7 1 1 1 1 1 1 0; _SEG7 1 1 1 0 1 1 1; _SEG7 1 0 1 1 0 1 1; _SEG7 0 0 0 1 1 1 1;
  _SEG7 0 1 1 1 1 1 0; _SEG7 0 1 1 1 1 1 0; _SEG7 0 1 1 1 1 1 1; _SEG7 0 1 1 0 1 1 1;
  _SEG7 0 1 1 0 0 1 1; _SEG7 1 1 0 1 1 0 1].
Definition _MAP_91_96_ASCII_SEG7_SYMBOL : list Z := [
  _SEG7 1 0 0 1 1 1 0; _SEG7 0 0 1 0 0 1 1; _SEG7 1 1 1 1 0 0 0; _SEG7 1 1 0 0 0 1 0;
  _SEG7 0 0 0 1 0 0 0; _SEG7 0 1 0 0 0 0 0].
Definition _MAP_97_122_ASCII_SEG7_ALPHA_LOWER : list Z := [
  _SEG7 1 1 1 0 1 1 1; _SEG7 0 0 1 1 1 1 1; _SEG7 0 0 0 1 1 0 1; _SEG7 0 1 1 1 1 0 1;
  _SEG7 1 0 0 1 1 1 1; _SEG7 1 0 0 0 1 1 1; _SEG7 1 1 1 1 0 1 1; _SEG7 0 0 1 0 1 1 1;
  _SEG7 0 0 1 0 0 0 0; _SEG7 0 0 1 1 0 0 0; _SEG7 0 0 1 0 1 1 1; _SEG7 0 0 0 1 1 1 0;
  _SEG7 1 1 1 0 1 1 0; _SEG7 0 0 1 0 1 0 1; _SEG7 0 0 1 1 1 0 1; _SEG7 1 1 0 0 1 1 1;
  _SEG7 1 1 1 0 0 1 1; _SEG7 0 0 0 0 1 0 1; _SEG7 1 0 1 1 0 1 1; _SEG7 0 0 0 1 1 1 1;
  _SEG7 0 0 1 1 1 0 0; _SEG7 0 0 1 1 1 0 0; _SEG7 0 1 1 1 1 1 1; _SEG7 0 1 1 0 1 1 1;
  _SEG7 0 1 1 1 0 1 1; _SEG7 1 1 0 1 1 0 1].
Definition _MAP_123_126_ASCII_SEG7_SYMBOL : list Z := [
  _SEG7 1 0 0 1 1 1 0; _SEG7 0 0 0 0 1 1 0; _SEG7 1 1 1 1 0 0 0; _SEG7 1 0 0 0 0 0 0].

Definition MAP_ASCII7SEG_ALPHANUM : list Z :=
  _MAP_0_32_ASCII_SEG7_NON_PRINTABLE ++ _MAP_33_47_ASCII_SEG7_SYMBOL ++ _MAP_48_57_ASCII_SEG7_NUMERIC
  ++ _MAP_58_64_ASCII_SEG7_SYMBOL ++ _MAP_65_90_ASCII_SEG7_ALPHA_UPPR ++ _MAP_91_96_ASCII_SEG7_SYMBOL
  ++ _MAP_97_122_ASCII_SEG7_ALPHA_LOWER ++ _MAP_123_126_ASCII_SEG7_SYMBOL.
Definition MAP_ASCII7SEG_ALPHANUM_LC : list Z :=
  _MAP_0_32_ASCII_SEG7_NON_PRINTABLE ++ _MAP_33_47_ASCII_SEG7_SYMBOL ++ _MAP_48_57_ASCII_SEG7_NUMERIC
  ++ _MAP_58_64_ASCII_SEG7_SYMBOL ++ _MAP_97_122_ASCII_SEG7_ALPHA_LOWER ++ _MAP_91_96_ASCII_SEG7_SYMBOL
  ++ _MAP_97_122_ASCII_SEG7_ALPHA_LOWER ++ _MAP_123_126_ASCII_SEG7_SYMBOL.

(** An array of 128 bytes; the initialisers leave the rest 0. *)
Definition SEG7_CONVERSION_MAP (_map : list Z) : list Z := take 128 (map u8 _map ++ replicate 128 0).

Definition map_to_seg7 (table : list Z) (c : Z) : option Z :=
  if (0 <=? c) && (c <? Z.of_nat (length table)) then rd table (Z.to_nat c) else Some (- EINVAL).

(** Of any character the function gives a pattern of seven segments or an error. *)
Lemma map_to_seg7_spec (t : list Z) c : t ∈ [MAP_ASCII7SEG_ALPHANUM; MAP_ASCII7SEG_ALPHANUM_LC] ->
  exists r, map_to_seg7 (SEG7_CONVERSION_MAP t) c = Some r /\
    if decide (0 <= c < 128) then 0 <= r < 128 else r = - EINVAL.
Proof.
  intros Ht. assert (Hall : length (SEG7_CONVERSION_MAP t) = 128%nat /\
    forallb (fun r => (0 <=? r) && (r <? 128)) (SEG7_CONVERSION_MAP t) = true).
  { rewrite !elem_of_cons, elem_of_nil in Ht. destruct Ht as [-> | [-> | []]]; by vm_compute. }
  destruct Hall as [Hl Hall]. unfold map_to_seg7. rewrite Hl. case_decide as Hc.
  - rewrite (proj2 (Z.leb_le _ _)), (proj2 (Z.ltb_lt _ _)) by lia. cbn [andb].
    destruct (lookup_lt_is_Some_2 (SEG7_CONVERSION_MAP t) (Z.to_nat c)) as [r Hr]; [lia|].
    exists r. split; [done|]. rewrite forallb_forall in Hall.
    specialize (Hall r). rewrite andb_true_iff, Z.leb_le, Z.ltb_lt in Hall.
    apply Hall, list_elem_of_In. by eapply list_elem_of_lookup_2.
  - exists (- EINVAL). split; [|done]. destruct (Z.leb_spec 0 c), (Z.ltb_spec c (Z.of_nat 128)); try done. lia.
Qed.

(** Characters as codes. *)
Definition digits : list Z := seqZ 48 10.
Definition hex_upper : list Z := digits ++ seqZ 65 6.
Definition patterns (t : list Z) (cs : list Z) : list (option Z) := map (map_to_seg7 (SEG7_CONVERSION_MAP t)) cs.

(** The lower case map tells the hexadecimal digits apart, also when they are
    given as capitals, as its comment says; the other one shows 8 and B, and 0
    and D, alike. Every printable character lights a segment in both. *)
Lemma hex_digits_shown :
  NoDup (patterns MAP_ASCII7SEG_ALPHANUM_LC hex_upper) /\ NoDup (patterns MAP_ASCII7SEG_ALPHANUM digits) /\
  patterns MAP_ASCII7SEG_ALPHANUM [56; 48] = patterns MAP_ASCII7SEG_ALPHANUM [66; 68] /\
  Forall (fun t => Forall (fun r => r <> Some 0) (patterns t (seqZ 33 94)))
    [MAP_ASCII7SEG_ALPHANUM; MAP_ASCII7SEG_ALPHANUM_LC].
Proof.
  split_and!; [apply (bool_decide_unpack _); by vm_compute..|done|].
  repeat constructor; apply (bool_decide_unpack _); by vm_compute.
Qed.
End Seg7.

(** ** [linux/auto_fs4.h] *)

Module Auto_fs4.
Definition AUTOFS_TYPE_ANY : Z := 0.
Definition AUTOFS_TYPE_INDIRECT : Z := 1.
Definition AUTOFS_TYPE_DIRECT : Z := 2.
Definition AUTOFS_TYPE_OFFSET : Z := 4.
(** The setters store to their argument, whatever it held. *)
Definition set_autofs_type_indirect (type : Z) : Z := AUTOFS_TYPE_INDIRECT.
Definition autofs_type_indirect (type : Z) : bool := type =? AUTOFS_TYPE_INDIRECT.
Definition set_autofs_type_direct (type : Z) : Z := AUTOFS_TYPE_DIRECT.
Definition autofs_type_direct (type : Z) : bool := type =? AUTOFS_TYPE_DIRECT.
Definition set_autofs_type_offset (type : Z) : Z := AUTOFS_TYPE_OFFSET.
Definition autofs_type_offset (type : Z) : bool := type =? AUTOFS_TYPE_OFFSET.
Definition autofs_type_trigger (type : Z) : bool :=
  (type =? AUTOFS_TYPE_DIRECT) || (type =? AUTOFS_TYPE_OFFSET).
Definition set_autofs_type_any (type : Z) : Z := AUTOFS_TYPE_ANY.
Definition autofs_type_any (type : Z) : bool := type =? AUTOFS_TYPE_ANY.

Definition setters : list (Z -> Z) :=
  [set_autofs_type_any; set_autofs_type_indirect; set_autofs_type_direct; set_autofs_type_offset].
Definition tests : list (Z -> bool) :=
  [autofs_type_any; autofs_type_indirect; autofs_type_direct; autofs_type_offset].

(** Each setter makes its own test hold and no other. *)
Lemma types_exclusive t i j f g : setters !! i = Some f -> tests !! j = Some g ->
  g (f t) = bool_decide (i = j).
Proof. destruct i as [|[|[|[|]]]], j as [|[|[|[|]]]]; try done; intros [= <-] [= <-]; done. Qed.
End Auto_fs4.

(** ** [linux/dccp.h] *)

Module Dccp.
Definition DCCP_PKT_REQUEST : Z := 0.
Definition DCCP_PKT_RESPONSE : Z := 1.
Definition DCCP_PKT_DATA : Z := 2.
Definition DCCP_PKT_ACK : Z := 3.
Definition DCCP_PKT_DATAACK : Z := 4.
Definition DCCP_PKT_CLOSEREQ : Z := 5.
Definition DCCP_PKT_CLOSE : Z := 6.
Definition DCCP_PKT_SYNC : Z := 8.
Definition DCCP_PKT_SYNCACK : Z := 9.
Definition dccp_hdr_request : cty := Struct [("dccph_req_service"%string, __be32)].
Definition dccp_hdr_ack_bits : cty :=
  Struct [("dccph_reserved1"%string, __be16); ("dccph_ack_nr_high"%string, __be16);
   ("dccph_ack_nr_low"%string, __be32)].
Definition dccp_hdr_response : cty :=
  Struct [("dccph_resp_ack"%string, dccp_hdr_ack_bits); ("dccph_resp_service"%string, __be32)].
Definition dccp_hdr_reset : cty :=
  Struct [("dccph_reset_ack"%string, dccp_hdr_ack_bits); ("dccph_reset_code"%string, __u8);
   ("dccph_reset_data"%string, Arr 3 __u8)].

Definition dccp_packet_hdr_len (A : abi) (type : Z) : Z :=
  if type =? DCCP_PKT_DATA then 0
  else if (type =? DCCP_PKT_DATAACK) || (type =? DCCP_PKT_ACK) || (type =? DCCP_PKT_SYNC)
       || (type =? DCCP_PKT_SYNCACK) || (type =? DCCP_PKT_CLOSE) || (type =? DCCP_PKT_CLOSEREQ)
  then sizeof A dccp_hdr_ack_bits
  else if type =? DCCP_PKT_REQUEST then sizeof A dccp_hdr_request
  else if type =? DCCP_PKT_RESPONSE then sizeof A dccp_hdr_response
  else sizeof A dccp_hdr_reset.

(** RFC 4340: the additional fields of the packet types, in bytes; they do not
    depend on the ABI. An invalid type counts as a reset. *)
Lemma hdr_len_rfc A : A ∈ [lp64; ilp32; i386] ->
  map (dccp_packet_hdr_len A) (seqZ 0 11) = [4; 12; 0; 8; 8; 8; 8; 12; 8; 8; 12].
Proof. rewrite !elem_of_cons, elem_of_nil. by intros [-> | [-> | [-> | []]]]. Qed.
End Dccp.

(** ** [linux/raid/md_p.h] *)

Module Md_p.
(** The two words of the update counter start at [sb]; the structure declares
    them in the order of the host. *)
Definition events_hi `{ByteOrder} (m : bytes) (sb : nat) : option Z :=
  ld32 m (if big_endian then sb else sb + 4).
Definition events_lo `{ByteOrder} (m : bytes) (sb : nat) : option Z :=
  ld32 m (if big_endian then sb + 4 else sb).
Definition md_event `{ByteOrder} (m : bytes) (sb : nat) : option Z :=
  ev ← events_hi m sb; lo ← events_lo m sb; Some (u64 (ev ≪ 32) ||| lo).

(** On a big-endian host the first of two words is the high one. *)
Lemma ld_split_big n k m p x y :
  ld (BO := true) n m p = Some x -> ld (BO := true) k m (p + n) = Some y ->
  ld (BO := true) (n + k) m p = Some (y + 256 ^ Z.of_nat k * x).
Proof.
  unfold ld, order. simpl. intros Hx Hy. case_decide; [|done]. case_decide; [|done].
  rewrite decide_True by lia. simplify_eq. f_equal.
  rewrite <- (take_drop n (take (n + k) (drop p m))), reverse_app, le_val_app, length_reverse,
    length_drop, take_take, length_take, length_drop.
  replace (min n (n + k)) with n by lia. replace (min (n + k) (length m - p) - n)%nat with k by lia.
  by rewrite skipn_firstn_comm, drop_drop, Nat.add_comm, Nat.add_sub.
Qed.

(** The counter is the 64-bit integer a host of either order has there. *)
Lemma md_event_native `{ByteOrder} (m : bytes) (sb : nat) :
  Forall is_u8 m -> (sb + 8 <= length m)%nat -> md_event m sb = ld64 m sb.
Proof.
  intros Hm Hl. destruct (ld_Some 4 m sb ltac:(lia)) as [x Hx], (ld_Some 4 m (sb + 4) ltac:(lia)) as [y Hy].
  pose proof (ld_range _ _ _ _ Hm Hx) as Rx. pose proof (ld_range _ _ _ _ Hm Hy) as Ry.
  change (8 * Z.of_nat 4) with 32 in *. unfold in_word in *.
  assert (Hor : forall hi lo, 0 <= hi < 2 ^ 32 -> 0 <= lo < 2 ^ 32 ->
    u64 (hi ≪ 32) ||| lo = lo + 256 ^ Z.of_nat 4 * hi).
  { intros hi lo Hh Hlo. rewrite (wrap_small 64) by (rewrite shiftl_mul by lia; unfold in_word; lia).
    rewrite lor_disjoint by lia. change (256 ^ Z.of_nat 4) with (2 ^ 32). lia. }
  unfold md_event, events_hi, events_lo. destruct H; unfold big_endian; rewrite Hx, Hy; cbn [mbind option_bind];
    rewrite Hor by done; symmetry; change 8%nat with (4 + 4)%nat; [by apply ld_split_big|by apply ld_split].
Qed.
End Md_p.

(** ** [linux/mic_common.h] *)

Module Mic.
(** The lengths in a device descriptor, which starts at the address [desc]. *)
Record mic_device_desc : Type := mk_desc { num_vq : Z; feature_len : Z; config_len : Z }.
Definition sizeof_desc : Z := 8.
Definition sizeof_vqconfig : Z := 24.
Definition sizeof_ctrl : Z := 16.

Definition __mic_align (a x : Z) : Z := (a + x - 1) &&& Z.lnot (x - 1).
Definition mic_desc_size (d : mic_device_desc) : Z :=
  u32 (sizeof_desc + num_vq d * sizeof_vqconfig + feature_len d * 2 + config_len d).
Definition mic_aligned_desc_size (d : mic_device_desc) : Z := __mic_align (mic_desc_size d) 8.
Definition mic_vq_config (desc : Z) : Z := desc + sizeof_desc.
Definition mic_vq_features (desc : Z) (d : mic_device_desc) : Z :=
  mic_vq_config desc + num_vq d * sizeof_vqconfig.
Definition mic_vq_configspace (desc : Z) (d : mic_device_desc) : Z :=
  mic_vq_features desc d + feature_len d * 2.
Definition mic_total_desc_size (d : mic_device_desc) : Z := u32 (mic_aligned_desc_size d + sizeof_ctrl).

Definition desc_ok (d : mic_device_desc) : Prop :=
  is_u8 (num_vq d) /\ is_u8 (feature_len d) /\ is_u8 (config_len d).

(** The parts of a descriptor follow one another and end at its size; the control
    structure begins at the next multiple of 8 and ends at the total size. *)
Lemma desc_parts (desc : Z) (d : mic_device_desc) : desc_ok d ->
  desc < mic_vq_config desc <= mic_vq_features desc d /\
  mic_vq_features desc d <= mic_vq_configspace desc d /\
  mic_vq_configspace desc d + config_len d = desc + mic_desc_size d /\
  mic_aligned_desc_size d mod 8 = 0 /\
  mic_desc_size d <= mic_aligned_desc_size d < mic_desc_size d + 8 /\
  mic_total_desc_size d = mic_aligned_desc_size d + sizeof_ctrl.
Proof.
  intros (Hn & Hf & Hc). unfold in_word in *. change (2 ^ 8) with 256 in *.
  unfold mic_total_desc_size, mic_aligned_desc_size, __mic_align, mic_desc_size, mic_vq_configspace,
    mic_vq_features, mic_vq_config, sizeof_desc, sizeof_vqconfig, sizeof_ctrl.
  rewrite !(wrap_small 32 (8 + _ + _ + _)) by (unfold in_word; lia).
  set (s := 8 + num_vq d * 24 + feature_len d * 2 + config_len d).
  assert (Ha : (s + 8 - 1) &&& Z.lnot (8 - 1) = (s + 7) / 8 * 8).
  { change (Z.lnot (8 - 1)) with (Z.lnot (Z.ones 3)).
    rewrite <- Z.ldiff_land, Z.ldiff_ones_r, shiftl_mul, shiftr_div by lia.
    change (2 ^ 3) with 8. f_equal. f_equal. lia. }
  rewrite Ha. rewrite (wrap_small 32) by (unfold in_word; Z.to_euclidean_division_equations; lia).
  rewrite Z.mod_mul by lia. repeat split; Z.to_euclidean_division_equations; lia.
Qed.
End Mic.

(** ** [linux/kdev_t.h] *)

Module Kdev_t.
Definition MAJOR (dev : Z) : Z := dev ≫ 8.
Definition MINOR (dev : Z) : Z := dev &&& 0xff.
Definition MKDEV (ma mi : Z) : Z := (ma ≪ 8) ||| mi.

Lemma mkdev_fields ma mi : 0 <= ma -> is_u8 mi -> MAJOR (MKDEV ma mi) = ma /\ MINOR (MKDEV ma mi) = mi.
Proof.
  unfold in_word. intros Hma Hmi. unfold MAJOR, MINOR, MKDEV.
  rewrite lor_disjoint, shiftr_div, land_0xff by lia. change (2 ^ 8) with 256 in *.
  split; Z.to_euclidean_division_equations; lia.
Qed.
End Kdev_t.

(** ** [linux/in.h] *)

Module In_class.
(** A 64-bit [long]. *)
Definition IN_CLASSA (a : Z) : bool := (a &&& 0x80000000) =? 0.
Definition IN_CLASSB (a : Z) : bool := (a &&& 0xc0000000) =? 0x80000000.
Definition IN_CLASSC (a : Z) : bool := (a &&& 0xe0000000) =? 0xc0000000.
Definition IN_CLASSD (a : Z) : bool := (a &&& 0xf0000000) =? 0xe0000000.
Definition IN_MULTICAST (a : Z) : bool := IN_CLASSD a.
Definition IN_EXPERIMENTAL (a : Z) : bool := (a &&& 0xf0000000) =? 0xf0000000.
Definition IN_BADCLASS (a : Z) : bool := IN_EXPERIMENTAL a.
Definition IN_LOOPBACK (a : Z) : bool := (a &&& 0xff000000) =? 0x7f000000.

Lemma land_top k c x : 0 <= k -> (x &&& (c ≪ k)) = ((x ≫ k) &&& c) ≪ k.
Proof.
  intros Hk. apply Z.bits_inj'. intros n Hn. rewrite Z.land_spec.
  destruct (decide (n < k)).
  - by rewrite !Z.shiftl_spec_low, andb_false_r by lia.
  - rewrite !Z.shiftl_spec, Z.land_spec, Z.shiftr_spec by lia. f_equal. f_equal. lia.
Qed.

Lemma top_test k c d x : 0 <= k -> ((x &&& (c ≪ k)) =? (d ≪ k)) = ((x / 2 ^ k &&& c) =? d).
Proof.
  intros Hk. rewrite land_top, !shiftl_mul, shiftr_div by lia.
  pose proof (Z.pow_pos_nonneg 2 k). apply Bool.eq_iff_eq_true. rewrite !Z.eqb_eq. nia.
Qed.

(** The classes are the address ranges of the first byte, and every address is
    in exactly one of A, B, C, D and the experimental one. *)
Lemma classes_by_range a : is_u32 a -> let b := a / 2 ^ 24 in
  IN_CLASSA a = (b <? 128) /\ IN_CLASSB a = (128 <=? b) && (b <? 192) /\
  IN_CLASSC a = (192 <=? b) && (b <? 224) /\ IN_CLASSD a = (224 <=? b) && (b <? 240) /\
  IN_EXPERIMENTAL a = (240 <=? b) /\ IN_LOOPBACK a = (b =? 127).
Proof.
  intros Ha b. unfold IN_CLASSA, IN_CLASSB, IN_CLASSC, IN_CLASSD, IN_EXPERIMENTAL, IN_LOOPBACK.
  rewrite !(top_test 24 0x80 0), (top_test 24 0xc0 0x80), (top_test 24 0xe0 0xc0), (top_test 24 0xf0 0xe0),
    (top_test 24 0xf0 0xf0), (top_test 24 0xff 0x7f) by lia. fold b.
  assert (Hb : is_u8 b).
  { unfold in_word, b in *. change (2 ^ 32) with (2 ^ 24 * 256) in Ha. change (2 ^ 8) with 256.
    Z.to_euclidean_division_equations. lia. }
  clearbody b. clear Ha.
  pose (ok := fun b => Bool.eqb ((b &&& 128) =? 0) (b <? 128) &&
    Bool.eqb ((b &&& 192) =? 128) ((128 <=? b) && (b <? 192)) &&
    Bool.eqb ((b &&& 224) =? 192) ((192 <=? b) && (b <? 224)) &&
    Bool.eqb ((b &&& 240) =? 224) ((224 <=? b) && (b <? 240)) &&
    Bool.eqb ((b &&& 240) =? 240) (240 <=? b) && Bool.eqb ((b &&& 255) =? 127) (b =? 127)).
  assert (H : ok b = true) by (apply (forall_word_bool 8); [by vm_compute|done]).
  unfold ok in H. rewrite !andb_true_iff, !Bool.eqb_true_iff in H. tauto.
Qed.
End In_class.

(** ** [linux/ndctl.h] and [linux/btrfs.h]: names of commands and errors *)

Module Names.
Local Open Scope string_scope.

(** An array with a null pointer where no name is given. *)
Definition bus_names : list (option string) :=
  [None; Some "ars_cap"; Some "ars_start"; Some "ars_status"].
Definition dimm_names : list (option string) :=
  [None; Some "smart"; Some "smart_thresh"; Some "flags"; Some "get_size"; Some "get_data";
   Some "set_data"; Some "effect_size"; Some "effect_log"; Some "vendor"].

Definition name_of (names : list (option string)) (cmd : Z) : string :=
  if (cmd <? Z.of_nat (length names))%Z then default "unknown" (mjoin (names !! Z.to_nat cmd)) else "unknown".
Definition nvdimm_bus_cmd_name (cmd : Z) : string := name_of bus_names cmd.
Definition nvdimm_cmd_name (cmd : Z) : string := name_of dimm_names cmd.

Definition btrfs_err_str (err_code : Z) : option string :=
  match err_code with
  | 1 => Some "unable to go below two devices on raid1"
  | 2 => Some "unable to go below four devices on raid10"
  | 3 => Some "unable to go below two devices on raid5"
  | 4 => Some "unable to go below three devices on raid6"
  | 5 => Some "unable to remove the dev_replace target dev"
  | 6 => Some "no missing devices found to remove"
  | 7 => Some "unable to remove the only writeable device"
  | 8 => Some "add/delete/balance/replace/resize operation in progress"
  | _ => None
  end%Z.

(** Commands outside the table, and 0, are unknown; the others have names of
    their own. *)
Lemma cmd_names (cmd : Z) : (0 <= cmd)%Z ->
  (nvdimm_cmd_name cmd = "unknown" <-> ~ (1 <= cmd <= 9)%Z) /\
  (nvdimm_bus_cmd_name cmd = "unknown" <-> ~ (1 <= cmd <= 3)%Z) /\
  (btrfs_err_str cmd = None <-> ~ (1 <= cmd <= 8)%Z).
Proof.
  intros H. destruct (decide (cmd < 10)%Z) as [Hlt|Hge].
  - assert (Hc : (cmd = 0 \/ cmd = 1 \/ cmd = 2 \/ cmd = 3 \/ cmd = 4 \/ cmd = 5 \/ cmd = 6 \/ cmd = 7 \/
      cmd = 8 \/ cmd = 9)%Z) by lia.
    repeat destruct Hc as [-> | Hc]; [..|rewrite Hc];
      (split_and!; (split; [intros E; try lia; by vm_compute in E|intros E; try reflexivity; exfalso; lia])).
  - unfold nvdimm_cmd_name, nvdimm_bus_cmd_name, name_of.
    rewrite !(proj2 (Z.ltb_ge _ _)) by (cbn; lia). split_and!; [split; [lia|done]..|].
    split; [lia|]. intros _. unfold btrfs_err_str.
    destruct cmd as [|[[[[p|p|]|[p|p|]|]|[[p|p|]|[p|p|]|]|]|[[[p|p|]|[p|p|]|]|[[p|p|]|[p|p|]|]|]|]|p]; done || lia.
Qed.
End Names.

(** ** [mtd/mtd-abi.h], [linux/atm.h], [linux/atmsap.h], [linux/nubus.h] *)

Module Misc.
Definition MTD_NANDFLASH : Z := 4.
Definition MTD_MLCNANDFLASH : Z := 8.
Definition mtd_type_is_nand_user (type : Z) : bool :=
  (type =? MTD_NANDFLASH) || (type =? MTD_MLCNANDFLASH).

(** First bytes of the private and the public address. *)
Definition atmsvc_addr_in_use (prv pub : bytes) : option bool :=
  a ← rd prv 0; if a =? 0 then b ← rd pub 0; Some (negb (b =? 0)) else Some true.
Definition atmpvc_addr_in_use (itf vpi vci : Z) : bool :=
  negb (itf =? 0) || negb (vpi =? 0) || negb (vci =? 0).
Definition blli_in_use (l2_proto l3_proto : Z) : bool := negb (l2_proto =? 0) || negb (l3_proto =? 0).

Definition nubus_slot_addr (slot : Z) : option Z :=
  s ← int_val (slot ≪ 24); Some (u32 (0xF0000000 ||| s)).

(** Of the sixteen slots each has the 16 MiB that its number names. *)
Lemma slot_addr slot : 0 <= slot < 16 -> nubus_slot_addr slot = Some (0xF0000000 + slot * 2 ^ 24).
Proof.
  intros Hs. unfold nubus_slot_addr. rewrite shiftl_mul, int_val_Some by (unfold in_s32; lia).
  cbn [mbind option_bind]. f_equal. change 0xF0000000 with (0xF ≪ 28) at 1. rewrite lor_disjoint by lia.
  rewrite wrap_small by (unfold in_word; lia). lia.
Qed.
End Misc.
