(* ===== verification/CConst.v ===== *)
(** * Constants of the C headers

    Object-like macros and enumerations as the compiler reads them: integer
    constant expressions, typed and converted as C has them, on an ABI that fixes
    the width of [long]; macros, which are expanded where they are used;
    enumerations, whose members count on from the one before. A signed operation
    that overflows wraps, as the compilers the headers are written for have it,
    and the value is marked as not [exact]. The files [Const*] translate the
    headers. *)
From S2P Require Import Prelude.
From S2P Require Import Memory.
From S2P Require Import CLayout.
#[local] Close Scope string_scope.

(** ** Integer types *)

Inductive ity : Type := C_int | C_uint | C_long | C_ulong | C_llong | C_ullong.
#[export] Instance ity_eq_dec : EqDecision ity.
Proof. solve_decision. Defined.

Definition rank (t : ity) : Z :=
  match t with C_int | C_uint => 0 | C_long | C_ulong => 1 | C_llong | C_ullong => 2 end.
Definition is_signed (t : ity) : bool :=
  match t with C_int | C_long | C_llong => true | _ => false end.
Definition unsigned_of (t : ity) : ity :=
  match t with C_int => C_uint | C_long => C_ulong | C_llong => C_ullong | t => t end.

(** [2 ^ n], as it is computed. *)
Definition pow2 (n : Z) : Z := 1 ≪ n.
Lemma pow2_spec n : pow2 n = 2 ^ n.
Proof. apply Z.shiftl_1_l. Qed.

Section types.
Context (A : abi).

Definition width (t : ity) : Z :=
  match rank t with 0 => 32 | 1 => 8 * word_size A | _ => 64 end.
Definition min_val (t : ity) : Z := if is_signed t then - pow2 (width t - 1) else 0.
Definition max_val (t : ity) : Z := pow2 (if is_signed t then width t - 1 else width t) - 1.
Definition fits (t : ity) (z : Z) : bool := (min_val t <=? z) && (z <=? max_val t).
Definition to_type (t : ity) (z : Z) : Z :=
  if is_signed t then (z + pow2 (width t - 1)) mod pow2 (width t) - pow2 (width t - 1)
  else z mod pow2 (width t).

(** The usual arithmetic conversions. *)
Definition common (t u : ity) : ity :=
  if decide (t = u) then t
  else if eqb (is_signed t) (is_signed u) then if rank u <=? rank t then t else u
  else
    let '(s, n) := if is_signed t then (t, u) else (u, t) in
    if rank s <=? rank n then n
    else if width n <? width s then s
    else unsigned_of s.

(** The first of its candidate types that holds a literal. *)
Definition literal_types (decimal u : bool) (l : nat) : list ity :=
  let ts := match l with
    | 0 => [C_int; C_uint; C_long; C_ulong; C_llong; C_ullong]
    | 1 => [C_long; C_ulong; C_llong; C_ullong]
    | _ => [C_llong; C_ullong]
    end%nat in
  List.filter (fun t => if u then negb (is_signed t) else negb decimal || is_signed t) ts.
Definition literal_type (decimal u : bool) (l : nat) (z : Z) : option ity :=
  List.find (fun t => fits t z) (literal_types decimal u l).
End types.

(** ** Expressions *)

Inductive binop : Type := B_or | B_xor | B_and | B_shl | B_shr | B_add | B_sub | B_mul | B_div | B_rem.

#[warnings="-register-all"]
Inductive cexp : Type :=
| Lit (decimal u : bool) (l : nat) (z : Z)
| Id (n : string)
| Neg (e : cexp)
| Not (e : cexp)
| Bin (o : binop) (e f : cexp)
| App (n : string) (args : list cexp).

(** Literals by base and suffix. *)
Abbreviation dec := (Lit true false 0).
Abbreviation decU := (Lit true true 0).
Abbreviation decL := (Lit true false 1).
Abbreviation decUL := (Lit true true 1).
Abbreviation decLL := (Lit true false 2).
Abbreviation decULL := (Lit true true 2).
Abbreviation hex := (Lit false false 0).
Abbreviation hexU := (Lit false true 0).
Abbreviation hexL := (Lit false false 1).
Abbreviation hexUL := (Lit false true 1).
Abbreviation hexLL := (Lit false false 2).
Abbreviation hexULL := (Lit false true 2).
Abbreviation oct := (Lit false false 0).
Abbreviation chr := (Lit true false 0).
Abbreviation Or := (Bin B_or).
Abbreviation Xor := (Bin B_xor).
Abbreviation And := (Bin B_and).
Abbreviation Shl := (Bin B_shl).
Abbreviation Shr := (Bin B_shr).
Abbreviation Add := (Bin B_add).
Abbreviation Sub := (Bin B_sub).
Abbreviation Mul := (Bin B_mul).
Abbreviation Div := (Bin B_div).
Abbreviation Rem := (Bin B_rem).

Record cval : Type := mk_cval { ty : ity; num : Z; exact : bool }.

(** What a name stands for: the text of a macro, a macro with parameters, or a
    value (an enumerator, or the argument of a macro). *)
Inductive binding : Type :=
| Macro (e : cexp)
| Function (params : list string) (e : cexp)
| Value (v : cval).
Definition scope : Type := list (string * binding).

Fixpoint find (n : string) (sc : scope) : option binding :=
  match sc with
  | [] => None
  | (m, b) :: sc => if String.eqb n m then Some b else find n sc
  end.

Section evaluation.
Context (A : abi).

(** The result of an operation in type [t]. *)
Definition arith (t : ity) (z : Z) (ex : bool) : cval :=
  mk_cval t (to_type A t z) (ex && (negb (is_signed t) || fits A t z)).

Definition convert (t : ity) (v : cval) : cval := mk_cval t (to_type A t (num v)) (exact v).

Definition shift (o : binop) (v w : cval) : option cval :=
  let ex := exact v && exact w in
  if negb ((0 <=? num w) && (num w <? width A (ty v))) then None
  else match o with
  | B_shl => Some (arith (ty v) (num v ≪ num w) (ex && (0 <=? num v)))
  | _ => Some (mk_cval (ty v) (num v ≫ num w) ex)
  end.

Definition binary (o : binop) (v w : cval) : option cval :=
  match o with
  | B_shl | B_shr => shift o v w
  | _ =>
    let t := common A (ty v) (ty w) in
    let a := num (convert t v) in
    let b := num (convert t w) in
    let ex := exact v && exact w in
    match o with
    | B_or => Some (mk_cval t (to_type A t (a ||| b)) ex)
    | B_xor => Some (mk_cval t (to_type A t (a ^^^ b)) ex)
    | B_and => Some (mk_cval t (to_type A t (a &&& b)) ex)
    | B_add => Some (arith t (a + b) ex)
    | B_sub => Some (arith t (a - b) ex)
    | B_mul => Some (arith t (a * b) ex)
    | B_div => if b =? 0 then None else Some (arith t (Z.quot a b) ex)
    | B_rem => if b =? 0 then None else Some (arith t (Z.rem a b) ex)
    | _ => None
    end
  end.

Fixpoint eval (fuel : nat) (sc : scope) (e : cexp) : option cval :=
  match fuel with
  | O => None
  | S fuel =>
    match e with
    | Lit d u l z => t ← literal_type A d u l z; Some (mk_cval t z true)
    | Id n =>
        match find n sc with
        | Some (Macro e) => eval fuel sc e
        | Some (Value v) => Some v
        | _ => None
        end
    | Neg e => v ← eval fuel sc e; Some (arith (ty v) (- num v) (exact v))
    | Not e => v ← eval fuel sc e; Some (mk_cval (ty v) (to_type A (ty v) (Z.lnot (num v))) (exact v))
    | Bin o e f => v ← eval fuel sc e; w ← eval fuel sc f; binary o v w
    | App n args =>
        match find n sc with
        | Some (Function ps body) =>
            vs ← mapM (eval fuel sc) args;
            if (length ps =? length vs)%nat
            then eval fuel (zip ps (map Value vs) ++ sc) body
            else None
        | _ => None
        end
    end
  end.

(** Macros of the headers expand to a depth below 40. *)
Definition FUEL : nat := 40.

(** ** Enumerations *)

(** The next member is one more; a member that fits in [int] has that type. *)
Definition succ (v : cval) : cval := arith (ty v) (num v + 1) (exact v).
Definition enumerator (v : cval) : cval :=
  if fits A C_int (num v) then mk_cval C_int (num v) (exact v) else v.

Definition enumeration : Type := list (string * option cexp).

Fixpoint enumerate (sc : scope) (next : cval) (es : enumeration) : list (string * option cval) * scope :=
  match es with
  | [] => ([], sc)
  | (n, init) :: es =>
    let v := match init with Some e => eval FUEL sc e | None => Some next end in
    let c := option_map enumerator v in
    let sc' := match c with Some w => (n, Value w) :: sc | None => sc end in
    let '(r, sc'') := enumerate sc' (match v with Some w => succ w | None => next end) es in
    ((n, c) :: r, sc'')
  end.

Definition first : cval := mk_cval C_int 0 true.
End evaluation.

(** ** Headers *)

Inductive decl : Type :=
| Defines (ms : list (string * cexp))
| Define_fun (n : string) (params : list string) (e : cexp)
| Enum (es : enumeration).

(** A header, the headers whose constants its own mention, and its declarations.
    The list [uses] is not the list of the [#include]s: headers that are included
    but not needed are left out, and in 27 places the source does not include the
    header needed and leaves it to the program to do so, before a constant is
    expanded ([linux/hid.h] for [linux/usb/ch9.h], say, and many headers for
    [linux/sockios.h]). A value in this model is the value in a program that has
    included the headers used. *)
#[warnings="-register-all"]
Inductive header : Type := Header (path : string) (uses : list header) (ds : list decl).

Definition path (h : header) : string := let 'Header p _ _ := h in p.
Definition decls (h : header) : list decl := let 'Header _ _ ds := h in ds.

Section headers.
Context (A : abi).

Definition declare (sc : scope) (d : decl) : scope :=
  match d with
  | Defines ms => (rev (map (fun '(n, e) => (n, Macro e)) ms) ++ sc)%list
  | Define_fun n ps e => (n, Function ps e) :: sc
  | Enum es => snd (enumerate A sc first es)
  end.

Fixpoint header_scope (h : header) : scope :=
  let 'Header _ uses ds := h in
  fold_left declare ds (concat (map header_scope uses)).
Definition used_scope (h : header) : scope :=
  let 'Header _ uses _ := h in concat (map header_scope uses).

(** The values of the constants a header declares: macros as they expand behind
    it, enumerators where they stand. *)
Fixpoint decl_values (all sc : scope) (ds : list decl) : list (string * option cval) :=
  match ds with
  | [] => []
  | d :: ds =>
    (match d with
     | Defines ms => map (fun '(n, e) => (n, eval A FUEL all e)) ms
     | Define_fun _ _ _ => []
     | Enum es => fst (enumerate A sc first es)
     end ++ decl_values all (declare sc d) ds)%list
  end.
Definition values (h : header) : list (string * option cval) :=
  decl_values (header_scope h) (used_scope h) (decls h).
End headers.

(** ** Values fit their types *)

Section soundness.
Context (A : abi) (HA : abi_ok A).

Lemma width_pos t : 32 <= width A t.
Proof.
  unfold width. destruct HA as [Hw _]. rewrite !elem_of_cons, elem_of_nil in Hw.
  destruct t; cbn; lia.
Qed.

Lemma fits_iff t z : fits A t z = true <-> min_val A t <= z <= max_val A t.
Proof. unfold fits. rewrite andb_true_iff, !Z.leb_le. done. Qed.

Lemma half_width t : 2 ^ width A t = 2 * 2 ^ (width A t - 1) /\ 0 < 2 ^ (width A t - 1).
Proof.
  pose proof (width_pos t). rewrite <- Z.pow_succ_r by lia. split; [f_equal; lia|].
  apply Z.pow_pos_nonneg; lia.
Qed.

Lemma to_type_fits t z : fits A t (to_type A t z) = true.
Proof.
  apply fits_iff. destruct (half_width t) as [Hh Hp].
  unfold min_val, max_val, to_type. rewrite !pow2_spec, Hh.
  destruct (is_signed t); rewrite ?pow2_spec.
  - pose proof (Z.mod_pos_bound (z + 2 ^ (width A t - 1)) (2 * 2 ^ (width A t - 1))). lia.
  - rewrite Hh. pose proof (Z.mod_pos_bound z (2 * 2 ^ (width A t - 1))). lia.
Qed.

Lemma fits_to_type t z : fits A t z = true -> to_type A t z = z.
Proof.
  rewrite fits_iff. destruct (half_width t) as [Hh Hp].
  unfold min_val, max_val, to_type. rewrite !pow2_spec, Hh.
  destruct (is_signed t); rewrite ?pow2_spec, ?Hh; intros H; rewrite Z.mod_small; lia.
Qed.

Definition val_ok (v : cval) : Prop := fits A (ty v) (num v) = true.
Definition binding_ok (b : binding) : Prop := match b with Value v => val_ok v | _ => True end.
Definition scope_ok (sc : scope) : Prop := Forall (fun p => binding_ok (snd p)) sc.

Lemma arith_ok t z ex : val_ok (arith A t z ex).
Proof. apply to_type_fits. Qed.

Lemma find_ok n sc b : scope_ok sc -> find n sc = Some b -> binding_ok b.
Proof.
  unfold scope_ok. induction 1 as [|[m c] sc Hc _ IH]; cbn [find]; [done|].
  destruct (String.eqb n m); [|done]. by intros [= <-].
Qed.

Lemma literal_ok d u l z t : literal_type A d u l z = Some t -> fits A t z = true.
Proof. unfold literal_type. intros H. by apply find_some in H as [_ H]. Qed.

Lemma shiftr_fits t z n : 0 <= n -> fits A t z = true -> fits A t (z ≫ n) = true.
Proof.
  intros Hn. rewrite !fits_iff, shiftr_div by lia.
  assert (1 <= 2 ^ n) by (apply (Z.pow_le_mono_r 2 0 n); lia).
  destruct (half_width t) as [_ Hp]. unfold min_val, max_val. rewrite !pow2_spec.
  pose proof (width_pos t). assert (0 < 2 ^ width A t) by (apply Z.pow_pos_nonneg; lia).
  intros [Hlo Hhi]. destruct (is_signed t); split; try (apply Z.div_le_lower_bound; nia);
    apply Z.div_le_upper_bound; nia.
Qed.

Lemma shift_ok o v w r : val_ok v -> shift A o v w = Some r -> val_ok r.
Proof.
  intros Hv. unfold shift. destruct (negb _) eqn:E; [done|].
  apply negb_false_iff, andb_true_iff in E as [E _].
  destruct o; intros [= <-]; first [apply arith_ok | apply shiftr_fits; [lia|done]].
Qed.

Lemma binary_ok o v w r : val_ok v -> binary A o v w = Some r -> val_ok r.
Proof.
  intros Hv. destruct o; cbn [binary]; try by apply shift_ok.
  all: repeat case_match; intros [= <-]; apply to_type_fits.
Qed.

Lemma scope_ok_args ps vs sc : Forall val_ok vs -> scope_ok sc -> scope_ok (zip ps (map Value vs) ++ sc).
Proof.
  intros Hvs Hsc. apply Forall_app. split; [|done]. clear Hsc.
  revert ps. induction Hvs as [|v vs Hv _ IH]; intros [|p ps]; constructor; [done|apply IH].
Qed.

Theorem eval_ok fuel sc e v : scope_ok sc -> eval A fuel sc e = Some v -> val_ok v.
Proof.
  revert sc e v. induction fuel as [|fuel IH]; intros sc e v Hsc; cbn [eval]; [done|].
  destruct e as [d u l z|n|e|e|o e f|n args]; intros H.
  - apply bind_Some in H as (t & Ht & [= <-]). by eapply literal_ok.
  - destruct (find n sc) as [[e|ps e|w]|] eqn:Hf; try done; [by eapply IH|].
    apply (find_ok _ _ _ Hsc) in Hf. by injection H as <-.
  - apply bind_Some in H as (w & _ & [= <-]). apply arith_ok.
  - apply bind_Some in H as (w & _ & [= <-]). apply to_type_fits.
  - apply bind_Some in H as (w & H1 & H). apply bind_Some in H as (x & H2 & H).
    eapply binary_ok; [|done]. by eapply IH.
  - destruct (find n sc) as [[|ps body|]|]; try done.
    apply bind_Some in H as (vs & Hvs & H). case_match; [|done].
    eapply IH; [|done]. apply scope_ok_args; [|done].
    apply mapM_Some_1 in Hvs. clear - IH Hsc Hvs.
    induction Hvs as [|a w args vs Ha _ IHvs]; constructor; [by apply (IH _ _ _ Hsc Ha)|done].
Qed.

(** A value found with some fuel is found with more. *)
Theorem eval_more_fuel fuel fuel' sc e v :
  (fuel <= fuel')%nat -> eval A fuel sc e = Some v -> eval A fuel' sc e = Some v.
Proof.
  revert fuel' sc e v. induction fuel as [|fuel IH]; intros [|fuel'] sc e v Hle; cbn [eval]; [done..|lia|].
  apply le_S_n in Hle. destruct e as [d u l z|n|e|e|o e f|n args]; intros H.
  - done.
  - destruct (find n sc) as [[e|ps e|w]|]; try done. by apply IH.
  - apply bind_Some in H as (w & Hw & H). rewrite (IH _ _ _ _ Hle Hw). done.
  - apply bind_Some in H as (w & Hw & H). rewrite (IH _ _ _ _ Hle Hw). done.
  - apply bind_Some in H as (w & H1 & H). apply bind_Some in H as (x & H2 & H).
    by rewrite (IH _ _ _ _ Hle H1); cbn [mbind option_bind]; rewrite (IH _ _ _ _ Hle H2).
  - destruct (find n sc) as [[|ps body|]|]; try done.
    apply bind_Some in H as (vs & Hvs & H).
    assert (mapM (eval A fuel' sc) args = Some vs) as ->.
    { apply mapM_Some_2. apply mapM_Some_1 in Hvs. eapply Forall2_impl; [done|]. intros. by apply IH. }
    cbn [mbind option_bind]. case_match; [|done]. by apply IH.
Qed.

Lemma enumerator_ok v : val_ok v -> val_ok (enumerator A v).
Proof. unfold enumerator. intros Hv. case_match; done. Qed.

Definition results_ok (r : list (string * option cval)) : Prop :=
  Forall (fun p => match snd p with Some v => val_ok v | None => True end) r.

Lemma enumerate_ok es : forall sc next, scope_ok sc -> val_ok next ->
  results_ok (fst (enumerate A sc next es)) /\ scope_ok (snd (enumerate A sc next es)).
Proof.
  induction es as [|[n init] es IH]; intros sc next Hsc Hn; cbn [enumerate]; [by repeat constructor|].
  set (v := match init with Some e => eval A FUEL sc e | None => Some next end).
  assert (Hv : match v with Some w => val_ok w | None => True end).
  { subst v. destruct init as [e|]; [|done]. destruct (eval A FUEL sc e) eqn:E; [|done]. by eapply eval_ok. }
  destruct v as [w|]; cbn [option_map].
  - pose proof (enumerator_ok _ Hv) as Hw.
    destruct (IH ((n, Value (enumerator A w)) :: sc) (succ A w)) as [H1 H2];
      [by constructor|apply arith_ok|].
    destruct (enumerate _ _ _ es). split; [by constructor|done].
  - destruct (IH sc next Hsc Hn) as [H1 H2]. destruct (enumerate _ _ _ es). split; [by constructor|done].
Qed.

Lemma first_ok : val_ok first.
Proof. reflexivity. Qed.

Lemma declare_ok sc d : scope_ok sc -> scope_ok (declare A sc d).
Proof.
  intros Hsc. destruct d as [ms|n ps e|es]; cbn [declare].
  - apply Forall_app. split; [|done]. apply Forall_rev, Forall_forall.
    intros p ([n e] & -> & _)%list_elem_of_fmap. done.
  - by constructor.
  - apply enumerate_ok; [done|apply first_ok].
Qed.

Lemma declares_ok ds sc : scope_ok sc -> scope_ok (fold_left (declare A) ds sc).
Proof. revert sc. induction ds as [|d ds IH]; intros sc Hsc; [done|]. by apply IH, declare_ok. Qed.

Lemma header_scope_ok : forall h, scope_ok (header_scope A h).
Proof.
  fix IH 1. intros [p uses ds]. cbn [header_scope]. apply declares_ok.
  induction uses as [|u uses IHu]; [constructor|]. cbn [map concat]. apply Forall_app. split; [apply IH|done].
Qed.

Lemma decl_values_ok all ds : scope_ok all -> forall sc, scope_ok sc -> results_ok (decl_values A all sc ds).
Proof.
  intros Ha. induction ds as [|d ds IH]; intros sc Hsc; cbn [decl_values]; [constructor|].
  apply Forall_app. split; [|by apply IH, declare_ok].
  destruct d as [ms|n ps e|es].
  - apply Forall_forall. intros p ([n e] & -> & _)%list_elem_of_fmap. cbn [snd].
    destruct (eval A FUEL all e) as [v|] eqn:E; [|done]. exact (eval_ok _ _ _ _ Ha E).
  - constructor.
  - apply enumerate_ok; [done|apply first_ok].
Qed.

Lemma used_scope_ok h : scope_ok (used_scope A h).
Proof.
  destruct h as [p uses ds]. cbn [used_scope].
  induction uses as [|u uses IH]; [constructor|]. cbn [map concat].
  apply Forall_app. split; [apply header_scope_ok|done].
Qed.

Theorem values_ok h n v : (n, Some v) ∈ values A h -> val_ok v.
Proof.
  intros Hin. pose proof (decl_values_ok _ (decls h) (header_scope_ok h) _ (used_scope_ok h)) as H.
  by apply (proj1 (Forall_forall _ _) H (n, Some v)).
Qed.
End soundness.

(** ** Enumerations without initialisers *)

Section implicit.
Context (A : abi) (HA : abi_ok A).

Lemma int_bounds : min_val A C_int = - 2 ^ 31 /\ max_val A C_int = 2 ^ 31 - 1.
Proof. done. Qed.

Lemma fits_int z : fits A C_int z = true <-> - 2 ^ 31 <= z < 2 ^ 31.
Proof. rewrite fits_iff. destruct int_bounds as [-> ->]. lia. Qed.

Lemma succ_int z : - 2 ^ 31 <= z < 2 ^ 31 - 1 ->
  succ A (mk_cval C_int z true) = mk_cval C_int (z + 1) true.
Proof.
  intros Hz. assert (Hf : fits A C_int (z + 1) = true) by (apply fits_int; lia).
  unfold succ, arith. cbn [ty num exact]. by rewrite (fits_to_type A HA), Hf.
Qed.

(** Members without initialisers count on from the one before. *)
Lemma implicit_members names : forall sc z, - 2 ^ 31 <= z -> z + Z.of_nat (length names) < 2 ^ 31 ->
  fst (enumerate A sc (mk_cval C_int z true) (map (fun n => (n, None)) names)) =
  imap (fun i n => (n, Some (mk_cval C_int (z + Z.of_nat i) true))) names.
Proof.
  induction names as [|n names IH]; intros sc z Hlo Hhi; [done|].
  rewrite length_cons in Hhi. cbn [map enumerate option_map].
  assert (Hz : enumerator A (mk_cval C_int z true) = mk_cval C_int z true).
  { unfold enumerator. cbn [num exact]. by rewrite (proj2 (fits_int z)) by lia. }
  rewrite Hz, succ_int by lia.
  specialize (IH ((n, Value (mk_cval C_int z true)) :: sc) (z + 1)).
  destruct (enumerate A _ _ _) as [r sc'']. cbn [fst] in *. rewrite IH by lia.
  cbn [imap]. f_equal; [by rewrite Z.add_0_r|]. apply imap_ext. intros i m _. cbn. do 3 f_equal. lia.
Qed.
End implicit.
