(* ===== verification/ConstBase.v ===== *)
(** * Constants that several headers share

    Macros and enumerations of these headers of [kernel-headers], one module per
    header: each table holds the consecutive definitions of one place. *)
From S2P Require Import Prelude.
From S2P Require Import CConst.
#[local] Open Scope string_scope.

(** ** [asm-generic/errno-base.h] *)

Module Asm_generic_errno_base.
Definition defs_EPERM : list decl := [
  Defines [
    ("EPERM", dec 1); ("ENOENT", dec 2); ("ESRCH", dec 3); ("EINTR", dec 4); ("EIO", dec 5);
    ("ENXIO", dec 6); ("E2BIG", dec 7); ("ENOEXEC", dec 8); ("EBADF", dec 9); ("ECHILD", dec 10);
    ("EAGAIN", dec 11); ("ENOMEM", dec 12); ("EACCES", dec 13); ("EFAULT", dec 14);
    ("ENOTBLK", dec 15); ("EBUSY", dec 16); ("EEXIST", dec 17); ("EXDEV", dec 18);
    ("ENODEV", dec 19); ("ENOTDIR", dec 20); ("EISDIR", dec 21); ("EINVAL", dec 22);
    ("ENFILE", dec 23); ("EMFILE", dec 24); ("ENOTTY", dec 25); ("ETXTBSY", dec 26);
    ("EFBIG", dec 27); ("ENOSPC", dec 28); ("ESPIPE", dec 29); ("EROFS", dec 30);
    ("EMLINK", dec 31); ("EPIPE", dec 32); ("EDOM", dec 33); ("ERANGE", dec 34)]].
Definition header : header :=
  Header "asm-generic/errno-base.h" [] (concat [
    defs_EPERM]).
End Asm_generic_errno_base.

(** ** [asm-generic/errno.h] *)

Module Asm_generic_errno.
Definition defs_EDEADLK : list decl := [
  Defines [
    ("EDEADLK", dec 35); ("ENAMETOOLONG", dec 36); ("ENOLCK", dec 37)];
  Defines [
    ("ENOSYS", dec 38); ("ENOTEMPTY", dec 39); ("ELOOP", dec 40); ("EWOULDBLOCK", Id "EAGAIN");
    ("ENOMSG", dec 42); ("EIDRM", dec 43); ("ECHRNG", dec 44); ("EL2NSYNC", dec 45);
    ("EL3HLT", dec 46); ("EL3RST", dec 47); ("ELNRNG", dec 48); ("EUNATCH", dec 49);
    ("ENOCSI", dec 50); ("EL2HLT", dec 51); ("EBADE", dec 52); ("EBADR", dec 53);
    ("EXFULL", dec 54); ("ENOANO", dec 55); ("EBADRQC", dec 56); ("EBADSLT", dec 57);
    ("EDEADLOCK", Id "EDEADLK"); ("EBFONT", dec 59); ("ENOSTR", dec 60); ("ENODATA", dec 61);
    ("ETIME", dec 62); ("ENOSR", dec 63); ("ENONET", dec 64); ("ENOPKG", dec 65);
    ("EREMOTE", dec 66); ("ENOLINK", dec 67); ("EADV", dec 68); ("ESRMNT", dec 69);
    ("ECOMM", dec 70); ("EPROTO", dec 71); ("EMULTIHOP", dec 72); ("EDOTDOT", dec 73);
    ("EBADMSG", dec 74); ("EOVERFLOW", dec 75); ("ENOTUNIQ", dec 76); ("EBADFD", dec 77);
    ("EREMCHG", dec 78); ("ELIBACC", dec 79); ("ELIBBAD", dec 80); ("ELIBSCN", dec 81);
    ("ELIBMAX", dec 82); ("ELIBEXEC", dec 83); ("EILSEQ", dec 84); ("ERESTART", dec 85);
    ("ESTRPIPE", dec 86); ("EUSERS", dec 87); ("ENOTSOCK", dec 88); ("EDESTADDRREQ", dec 89);
    ("EMSGSIZE", dec 90); ("EPROTOTYPE", dec 91); ("ENOPROTOOPT", dec 92);
    ("EPROTONOSUPPORT", dec 93); ("ESOCKTNOSUPPORT", dec 94); ("EOPNOTSUPP", dec 95);
    ("EPFNOSUPPORT", dec 96); ("EAFNOSUPPORT", dec 97); ("EADDRINUSE", dec 98);
    ("EADDRNOTAVAIL", dec 99); ("ENETDOWN", dec 100); ("ENETUNREACH", dec 101);
    ("ENETRESET", dec 102); ("ECONNABORTED", dec 103); ("ECONNRESET", dec 104);
    ("ENOBUFS", dec 105); ("EISCONN", dec 106); ("ENOTCONN", dec 107); ("ESHUTDOWN", dec 108);
    ("ETOOMANYREFS", dec 109); ("ETIMEDOUT", dec 110); ("ECONNREFUSED", dec 111);
    ("EHOSTDOWN", dec 112); ("EHOSTUNREACH", dec 113); ("EALREADY", dec 114);
    ("EINPROGRESS", dec 115); ("ESTALE", dec 116); ("EUCLEAN", dec 117); ("ENOTNAM", dec 118);
    ("ENAVAIL", dec 119); ("EISNAM", dec 120); ("EREMOTEIO", dec 121); ("EDQUOT", dec 122);
    ("ENOMEDIUM", dec 123); ("EMEDIUMTYPE", dec 124); ("ECANCELED", dec 125);
    ("ENOKEY", dec 126); ("EKEYEXPIRED", dec 127); ("EKEYREVOKED", dec 128);
    ("EKEYREJECTED", dec 129); ("EOWNERDEAD", dec 130); ("ENOTRECOVERABLE", dec 131);
    ("ERFKILL", dec 132); ("EHWPOISON", dec 133)]].
Definition header : header :=
  Header "asm-generic/errno.h" [Asm_generic_errno_base.header] (concat [
    defs_EDEADLK]).
End Asm_generic_errno.

(** ** [asm-generic/fcntl.h] *)

Module Asm_generic_fcntl.
Definition defs_O_ACCMODE : list decl := [
  Defines [
    ("O_ACCMODE", oct 3); ("O_RDONLY", oct 0); ("O_WRONLY", oct 1); ("O_RDWR", oct 2)]].
Definition defs_O_CLOEXEC : list decl := [
  Defines [
    ("O_CLOEXEC", oct 524288)]].
Definition defs_F_DUPFD : list decl := [
  Defines [
    ("F_DUPFD", dec 0); ("F_GETFD", dec 1); ("F_SETFD", dec 2); ("F_GETFL", dec 3);
    ("F_SETFL", dec 4)]].
Definition defs_F_OFD_GETLK : list decl := [
  Defines [
    ("F_OFD_GETLK", dec 36); ("F_OFD_SETLK", dec 37); ("F_OFD_SETLKW", dec 38);
    ("F_OWNER_TID", dec 0); ("F_OWNER_PID", dec 1); ("F_OWNER_PGRP", dec 2)]].
Definition defs_LOCK_SH : list decl := [
  Defines [
    ("LOCK_SH", dec 1); ("LOCK_EX", dec 2); ("LOCK_NB", dec 4); ("LOCK_UN", dec 8);
    ("LOCK_MAND", dec 32); ("LOCK_READ", dec 64); ("LOCK_WRITE", dec 128); ("LOCK_RW", dec 192);
    ("F_LINUX_SPECIFIC_BASE", dec 1024)]].
Definition header : header :=
  Header "asm-generic/fcntl.h" [] (concat [
    defs_O_ACCMODE; defs_O_CLOEXEC; defs_F_DUPFD; defs_F_OFD_GETLK; defs_LOCK_SH]).
End Asm_generic_fcntl.

(** ** [asm-generic/ioctl.h] *)

Module Asm_generic_ioctl.
Definition defs__IOC_NRBITS : list decl := [
  Defines [
    ("_IOC_NRBITS", dec 8); ("_IOC_TYPEBITS", dec 8)];
  Defines [
    ("_IOC_SIZEBITS", dec 14)];
  Defines [
    ("_IOC_DIRBITS", dec 2)];
  Defines [
    ("_IOC_NRMASK", Sub (Shl (dec 1) (Id "_IOC_NRBITS")) (dec 1));
    ("_IOC_TYPEMASK", Sub (Shl (dec 1) (Id "_IOC_TYPEBITS")) (dec 1));
    ("_IOC_SIZEMASK", Sub (Shl (dec 1) (Id "_IOC_SIZEBITS")) (dec 1));
    ("_IOC_DIRMASK", Sub (Shl (dec 1) (Id "_IOC_DIRBITS")) (dec 1)); ("_IOC_NRSHIFT", dec 0);
    ("_IOC_TYPESHIFT", Add (Id "_IOC_NRSHIFT") (Id "_IOC_NRBITS"));
    ("_IOC_SIZESHIFT", Add (Id "_IOC_TYPESHIFT") (Id "_IOC_TYPEBITS"));
    ("_IOC_DIRSHIFT", Add (Id "_IOC_SIZESHIFT") (Id "_IOC_SIZEBITS"))]].
Definition defs__IOC_WRITE : list decl := [
  Defines [
    ("_IOC_WRITE", decU 1)];
  Defines [
    ("_IOC_READ", decU 2)]].
Definition defs_IOC_IN : list decl := [
  Defines [
    ("IOC_IN", Shl (Id "_IOC_WRITE") (Id "_IOC_DIRSHIFT"));
    ("IOC_OUT", Shl (Id "_IOC_READ") (Id "_IOC_DIRSHIFT"));
    ("IOC_INOUT", Shl (Or (Id "_IOC_WRITE") (Id "_IOC_READ")) (Id "_IOC_DIRSHIFT"));
    ("IOCSIZE_MASK", Shl (Id "_IOC_SIZEMASK") (Id "_IOC_SIZESHIFT"));
    ("IOCSIZE_SHIFT", Id "_IOC_SIZESHIFT")]].
Definition header : header :=
  Header "asm-generic/ioctl.h" [] (concat [
    defs__IOC_NRBITS; defs__IOC_WRITE; defs_IOC_IN]).
End Asm_generic_ioctl.

(** ** [asm-generic/ioctls.h] *)

Module Asm_generic_ioctls.
Definition defs_TCGETS : list decl := [
  Defines [
    ("TCGETS", hex 0x5401); ("TCSETS", hex 0x5402); ("TCSETSW", hex 0x5403);
    ("TCSETSF", hex 0x5404); ("TCGETA", hex 0x5405); ("TCSETA", hex 0x5406);
    ("TCSETAW", hex 0x5407); ("TCSETAF", hex 0x5408); ("TCSBRK", hex 0x5409);
    ("TCXONC", hex 0x540A); ("TCFLSH", hex 0x540B); ("TIOCEXCL", hex 0x540C);
    ("TIOCNXCL", hex 0x540D); ("TIOCSCTTY", hex 0x540E); ("TIOCGPGRP", hex 0x540F);
    ("TIOCSPGRP", hex 0x5410); ("TIOCOUTQ", hex 0x5411); ("TIOCSTI", hex 0x5412);
    ("TIOCGWINSZ", hex 0x5413); ("TIOCSWINSZ", hex 0x5414); ("TIOCMGET", hex 0x5415);
    ("TIOCMBIS", hex 0x5416); ("TIOCMBIC", hex 0x5417); ("TIOCMSET", hex 0x5418);
    ("TIOCGSOFTCAR", hex 0x5419); ("TIOCSSOFTCAR", hex 0x541A); ("FIONREAD", hex 0x541B);
    ("TIOCINQ", Id "FIONREAD"); ("TIOCLINUX", hex 0x541C); ("TIOCCONS", hex 0x541D);
    ("TIOCGSERIAL", hex 0x541E); ("TIOCSSERIAL", hex 0x541F); ("TIOCPKT", hex 0x5420);
    ("FIONBIO", hex 0x5421); ("TIOCNOTTY", hex 0x5422); ("TIOCSETD", hex 0x5423);
    ("TIOCGETD", hex 0x5424); ("TCSBRKP", hex 0x5425); ("TIOCSBRK", hex 0x5427);
    ("TIOCCBRK", hex 0x5428); ("TIOCGSID", hex 0x5429)]].
Definition defs_TCGETX : list decl := [
  Defines [
    ("TCGETX", hex 0x5432); ("TCSETX", hex 0x5433); ("TCSETXF", hex 0x5434);
    ("TCSETXW", hex 0x5435)]].
Definition defs_TIOCPMGET : list decl := [
  Defines [
    ("TIOCPMGET", hex 0x5441); ("TIOCPMPUT", hex 0x5442); ("TIOCPMACT", hex 0x5443);
    ("FIONCLEX", hex 0x5450); ("FIOCLEX", hex 0x5451); ("FIOASYNC", hex 0x5452);
    ("TIOCSERCONFIG", hex 0x5453); ("TIOCSERGWILD", hex 0x5454); ("TIOCSERSWILD", hex 0x5455);
    ("TIOCGLCKTRMIOS", hex 0x5456); ("TIOCSLCKTRMIOS", hex 0x5457);
    ("TIOCSERGSTRUCT", hex 0x5458); ("TIOCSERGETLSR", hex 0x5459);
    ("TIOCSERGETMULTI", hex 0x545A); ("TIOCSERSETMULTI", hex 0x545B); ("TIOCMIWAIT", hex 0x545C);
    ("TIOCGICOUNT", hex 0x545D)]].
Definition defs_TIOCPKT_DATA : list decl := [
  Defines [
    ("TIOCPKT_DATA", dec 0); ("TIOCPKT_FLUSHREAD", dec 1); ("TIOCPKT_FLUSHWRITE", dec 2);
    ("TIOCPKT_STOP", dec 4); ("TIOCPKT_START", dec 8); ("TIOCPKT_NOSTOP", dec 16);
    ("TIOCPKT_DOSTOP", dec 32); ("TIOCPKT_IOCTL", dec 64); ("TIOCSER_TEMT", hex 0x01)]].
Definition header : header :=
  Header "asm-generic/ioctls.h" [] (concat [
    defs_TCGETS; defs_TCGETX; defs_TIOCPMGET; defs_TIOCPKT_DATA]).
End Asm_generic_ioctls.

(** ** [asm-generic/mman-common.h] *)

Module Asm_generic_mman_common.
Definition defs_PROT_READ : list decl := [
  Defines [
    ("PROT_READ", hex 0x1); ("PROT_WRITE", hex 0x2); ("PROT_EXEC", hex 0x4);
    ("PROT_SEM", hex 0x8); ("PROT_NONE", hex 0x0); ("PROT_GROWSDOWN", hex 0x01000000);
    ("PROT_GROWSUP", hex 0x02000000); ("MAP_SHARED", hex 0x01); ("MAP_PRIVATE", hex 0x02);
    ("MAP_TYPE", hex 0x0f); ("MAP_FIXED", hex 0x10); ("MAP_ANONYMOUS", hex 0x20)]].
Definition defs_MLOCK_ONFAULT : list decl := [
  Defines [
    ("MLOCK_ONFAULT", hex 0x01); ("MS_ASYNC", dec 1); ("MS_INVALIDATE", dec 2);
    ("MS_SYNC", dec 4); ("MADV_NORMAL", dec 0); ("MADV_RANDOM", dec 1);
    ("MADV_SEQUENTIAL", dec 2); ("MADV_WILLNEED", dec 3); ("MADV_DONTNEED", dec 4);
    ("MADV_REMOVE", dec 9); ("MADV_DONTFORK", dec 10); ("MADV_DOFORK", dec 11);
    ("MADV_HWPOISON", dec 100); ("MADV_SOFT_OFFLINE", dec 101); ("MADV_MERGEABLE", dec 12);
    ("MADV_UNMERGEABLE", dec 13); ("MADV_HUGEPAGE", dec 14); ("MADV_NOHUGEPAGE", dec 15);
    ("MADV_DONTDUMP", dec 16); ("MADV_DODUMP", dec 17); ("MAP_FILE", dec 0)]].
Definition header : header :=
  Header "asm-generic/mman-common.h" [] (concat [
    defs_PROT_READ; defs_MLOCK_ONFAULT]).
End Asm_generic_mman_common.

(** ** [asm-generic/mman.h] *)

Module Asm_generic_mman.
Definition defs_MAP_GROWSDOWN : list decl := [
  Defines [
    ("MAP_GROWSDOWN", hex 0x0100); ("MAP_DENYWRITE", hex 0x0800); ("MAP_EXECUTABLE", hex 0x1000);
    ("MAP_LOCKED", hex 0x2000); ("MAP_NORESERVE", hex 0x4000); ("MAP_POPULATE", hex 0x8000);
    ("MAP_NONBLOCK", hex 0x10000); ("MAP_STACK", hex 0x20000); ("MAP_HUGETLB", hex 0x40000);
    ("MCL_CURRENT", dec 1); ("MCL_FUTURE", dec 2); ("MCL_ONFAULT", dec 4)]].
Definition header : header :=
  Header "asm-generic/mman.h" [] (concat [
    defs_MAP_GROWSDOWN]).
End Asm_generic_mman.

(** ** [asm-generic/param.h] *)

Module Asm_generic_param.
Definition defs_HZ : list decl := [
  Defines [
    ("HZ", dec 100)]].
Definition header : header :=
  Header "asm-generic/param.h" [] (concat [
    defs_HZ]).
End Asm_generic_param.

(** ** [asm-generic/poll.h] *)

Module Asm_generic_poll.
Definition defs_POLLIN : list decl := [
  Defines [
    ("POLLIN", hex 0x0001); ("POLLPRI", hex 0x0002); ("POLLOUT", hex 0x0004);
    ("POLLERR", hex 0x0008); ("POLLHUP", hex 0x0010); ("POLLNVAL", hex 0x0020);
    ("POLLRDNORM", hex 0x0040); ("POLLRDBAND", hex 0x0080)]].
Definition header : header :=
  Header "asm-generic/poll.h" [] (concat [
    defs_POLLIN]).
End Asm_generic_poll.

(** ** [asm-generic/resource.h] *)

Module Asm_generic_resource.
Definition defs_RLIMIT_CPU : list decl := [
  Defines [
    ("RLIMIT_CPU", dec 0); ("RLIMIT_FSIZE", dec 1); ("RLIMIT_DATA", dec 2);
    ("RLIMIT_STACK", dec 3); ("RLIMIT_CORE", dec 4)]].
Definition defs_RLIMIT_LOCKS : list decl := [
  Defines [
    ("RLIMIT_LOCKS", dec 10); ("RLIMIT_SIGPENDING", dec 11); ("RLIMIT_MSGQUEUE", dec 12);
    ("RLIMIT_NICE", dec 13); ("RLIMIT_RTPRIO", dec 14); ("RLIMIT_RTTIME", dec 15);
    ("RLIM_NLIMITS", dec 16)]].
Definition header : header :=
  Header "asm-generic/resource.h" [] (concat [
    defs_RLIMIT_CPU; defs_RLIMIT_LOCKS]).
End Asm_generic_resource.

(** ** [asm-generic/siginfo.h] *)

Module Asm_generic_siginfo.
Definition defs___SI_KILL : list decl := [
  Defines [
    ("__SI_KILL", dec 0); ("__SI_TIMER", dec 0); ("__SI_POLL", dec 0); ("__SI_FAULT", dec 0);
    ("__SI_CHLD", dec 0); ("__SI_RT", dec 0); ("__SI_MESGQ", dec 0); ("__SI_SYS", dec 0)];
  Define_fun "__SI_CODE" ["T"; "N"] (Id "N");
  Defines [
    ("SI_USER", dec 0); ("SI_KERNEL", hex 0x80); ("SI_QUEUE", Neg (dec 1));
    ("SI_TIMER", App "__SI_CODE" [Id "__SI_TIMER"; Neg (dec 2)]);
    ("SI_MESGQ", App "__SI_CODE" [Id "__SI_MESGQ"; Neg (dec 3)]); ("SI_ASYNCIO", Neg (dec 4));
    ("SI_SIGIO", Neg (dec 5)); ("SI_TKILL", Neg (dec 6)); ("SI_DETHREAD", Neg (dec 7))]].
Definition defs_ILL_ILLOPC : list decl := [
  Defines [
    ("ILL_ILLOPC", Or (Id "__SI_FAULT") (dec 1)); ("ILL_ILLOPN", Or (Id "__SI_FAULT") (dec 2));
    ("ILL_ILLADR", Or (Id "__SI_FAULT") (dec 3)); ("ILL_ILLTRP", Or (Id "__SI_FAULT") (dec 4));
    ("ILL_PRVOPC", Or (Id "__SI_FAULT") (dec 5)); ("ILL_PRVREG", Or (Id "__SI_FAULT") (dec 6));
    ("ILL_COPROC", Or (Id "__SI_FAULT") (dec 7)); ("ILL_BADSTK", Or (Id "__SI_FAULT") (dec 8));
    ("NSIGILL", dec 8)];
  Defines [
    ("FPE_INTDIV", Or (Id "__SI_FAULT") (dec 1)); ("FPE_INTOVF", Or (Id "__SI_FAULT") (dec 2));
    ("FPE_FLTDIV", Or (Id "__SI_FAULT") (dec 3)); ("FPE_FLTOVF", Or (Id "__SI_FAULT") (dec 4));
    ("FPE_FLTUND", Or (Id "__SI_FAULT") (dec 5)); ("FPE_FLTRES", Or (Id "__SI_FAULT") (dec 6));
    ("FPE_FLTINV", Or (Id "__SI_FAULT") (dec 7)); ("FPE_FLTSUB", Or (Id "__SI_FAULT") (dec 8));
    ("NSIGFPE", dec 8)];
  Defines [
    ("SEGV_MAPERR", Or (Id "__SI_FAULT") (dec 1)); ("SEGV_ACCERR", Or (Id "__SI_FAULT") (dec 2));
    ("SEGV_BNDERR", Or (Id "__SI_FAULT") (dec 3)); ("NSIGSEGV", dec 3)];
  Defines [
    ("BUS_ADRALN", Or (Id "__SI_FAULT") (dec 1)); ("BUS_ADRERR", Or (Id "__SI_FAULT") (dec 2));
    ("BUS_OBJERR", Or (Id "__SI_FAULT") (dec 3));
    ("BUS_MCEERR_AR", Or (Id "__SI_FAULT") (dec 4));
    ("BUS_MCEERR_AO", Or (Id "__SI_FAULT") (dec 5)); ("NSIGBUS", dec 5)];
  Defines [
    ("TRAP_BRKPT", Or (Id "__SI_FAULT") (dec 1)); ("TRAP_TRACE", Or (Id "__SI_FAULT") (dec 2));
    ("TRAP_BRANCH", Or (Id "__SI_FAULT") (dec 3)); ("TRAP_HWBKPT", Or (Id "__SI_FAULT") (dec 4));
    ("NSIGTRAP", dec 4)];
  Defines [
    ("CLD_EXITED", Or (Id "__SI_CHLD") (dec 1)); ("CLD_KILLED", Or (Id "__SI_CHLD") (dec 2));
    ("CLD_DUMPED", Or (Id "__SI_CHLD") (dec 3)); ("CLD_TRAPPED", Or (Id "__SI_CHLD") (dec 4));
    ("CLD_STOPPED", Or (Id "__SI_CHLD") (dec 5)); ("CLD_CONTINUED", Or (Id "__SI_CHLD") (dec 6));
    ("NSIGCHLD", dec 6)];
  Defines [
    ("POLL_IN", Or (Id "__SI_POLL") (dec 1)); ("POLL_OUT", Or (Id "__SI_POLL") (dec 2));
    ("POLL_MSG", Or (Id "__SI_POLL") (dec 3)); ("POLL_ERR", Or (Id "__SI_POLL") (dec 4));
    ("POLL_PRI", Or (Id "__SI_POLL") (dec 5)); ("POLL_HUP", Or (Id "__SI_POLL") (dec 6));
    ("NSIGPOLL", dec 6)]].
Definition defs_SIGEV_SIGNAL : list decl := [
  Defines [
    ("SIGEV_SIGNAL", dec 0); ("SIGEV_NONE", dec 1); ("SIGEV_THREAD", dec 2);
    ("SIGEV_THREAD_ID", dec 4)]].
Definition header : header :=
  Header "asm-generic/siginfo.h" [] (concat [
    defs___SI_KILL; defs_ILL_ILLOPC; defs_SIGEV_SIGNAL]).
End Asm_generic_siginfo.

(** ** [asm/bitsperlong.h] *)

Module Asm_bitsperlong.
Definition defs___BITS_PER_LONG : list decl := [
  Defines [
    ("__BITS_PER_LONG", dec 64)]].
Definition header : header :=
  Header "asm/bitsperlong.h" [] (concat [
    defs___BITS_PER_LONG]).
End Asm_bitsperlong.

(** ** [asm-generic/signal.h] *)

Module Asm_generic_signal.
Definition defs__NSIG : list decl := [
  Defines [
    ("_NSIG", dec 64); ("_NSIG_BPW", Id "__BITS_PER_LONG");
    ("_NSIG_WORDS", Div (Id "_NSIG") (Id "_NSIG_BPW")); ("SIGHUP", dec 1); ("SIGINT", dec 2);
    ("SIGQUIT", dec 3); ("SIGILL", dec 4); ("SIGTRAP", dec 5); ("SIGABRT", dec 6);
    ("SIGIOT", dec 6); ("SIGBUS", dec 7); ("SIGFPE", dec 8); ("SIGKILL", dec 9);
    ("SIGUSR1", dec 10); ("SIGSEGV", dec 11); ("SIGUSR2", dec 12); ("SIGPIPE", dec 13);
    ("SIGALRM", dec 14); ("SIGTERM", dec 15); ("SIGSTKFLT", dec 16); ("SIGCHLD", dec 17);
    ("SIGCONT", dec 18); ("SIGSTOP", dec 19); ("SIGTSTP", dec 20); ("SIGTTIN", dec 21);
    ("SIGTTOU", dec 22); ("SIGURG", dec 23); ("SIGXCPU", dec 24); ("SIGXFSZ", dec 25);
    ("SIGVTALRM", dec 26); ("SIGPROF", dec 27); ("SIGWINCH", dec 28); ("SIGIO", dec 29);
    ("SIGPOLL", Id "SIGIO"); ("SIGPWR", dec 30); ("SIGSYS", dec 31); ("SIGUNUSED", dec 31);
    ("SIGRTMIN", dec 32)]].
Definition defs_SA_NOCLDSTOP : list decl := [
  Defines [
    ("SA_NOCLDSTOP", hex 0x00000001); ("SA_NOCLDWAIT", hex 0x00000002);
    ("SA_SIGINFO", hex 0x00000004); ("SA_ONSTACK", hex 0x08000000);
    ("SA_RESTART", hex 0x10000000); ("SA_NODEFER", hex 0x40000000);
    ("SA_RESETHAND", hex 0x80000000); ("SA_NOMASK", Id "SA_NODEFER");
    ("SA_ONESHOT", Id "SA_RESETHAND")]].
Definition header : header :=
  Header "asm-generic/signal.h" [Asm_bitsperlong.header] (concat [
    defs__NSIG; defs_SA_NOCLDSTOP]).
End Asm_generic_signal.

(** ** [asm-generic/socket.h] *)

Module Asm_generic_socket.
Definition defs_SOL_SOCKET : list decl := [
  Defines [
    ("SOL_SOCKET", dec 1); ("SO_DEBUG", dec 1); ("SO_REUSEADDR", dec 2); ("SO_TYPE", dec 3);
    ("SO_ERROR", dec 4); ("SO_DONTROUTE", dec 5); ("SO_BROADCAST", dec 6); ("SO_SNDBUF", dec 7);
    ("SO_RCVBUF", dec 8); ("SO_SNDBUFFORCE", dec 32); ("SO_RCVBUFFORCE", dec 33);
    ("SO_KEEPALIVE", dec 9); ("SO_OOBINLINE", dec 10); ("SO_NO_CHECK", dec 11);
    ("SO_PRIORITY", dec 12); ("SO_LINGER", dec 13); ("SO_BSDCOMPAT", dec 14);
    ("SO_REUSEPORT", dec 15)];
  Defines [
    ("SO_PASSCRED", dec 16); ("SO_PEERCRED", dec 17); ("SO_RCVLOWAT", dec 18);
    ("SO_SNDLOWAT", dec 19); ("SO_RCVTIMEO", dec 20); ("SO_SNDTIMEO", dec 21)];
  Defines [
    ("SO_SECURITY_AUTHENTICATION", dec 22); ("SO_SECURITY_ENCRYPTION_TRANSPORT", dec 23);
    ("SO_SECURITY_ENCRYPTION_NETWORK", dec 24); ("SO_BINDTODEVICE", dec 25);
    ("SO_ATTACH_FILTER", dec 26); ("SO_DETACH_FILTER", dec 27);
    ("SO_GET_FILTER", Id "SO_ATTACH_FILTER"); ("SO_PEERNAME", dec 28); ("SO_TIMESTAMP", dec 29);
    ("SCM_TIMESTAMP", Id "SO_TIMESTAMP"); ("SO_ACCEPTCONN", dec 30); ("SO_PEERSEC", dec 31);
    ("SO_PASSSEC", dec 34); ("SO_TIMESTAMPNS", dec 35); ("SCM_TIMESTAMPNS", Id "SO_TIMESTAMPNS");
    ("SO_MARK", dec 36); ("SO_TIMESTAMPING", dec 37); ("SCM_TIMESTAMPING", Id "SO_TIMESTAMPING");
    ("SO_PROTOCOL", dec 38); ("SO_DOMAIN", dec 39); ("SO_RXQ_OVFL", dec 40);
    ("SO_WIFI_STATUS", dec 41); ("SCM_WIFI_STATUS", Id "SO_WIFI_STATUS");
    ("SO_PEEK_OFF", dec 42); ("SO_NOFCS", dec 43); ("SO_LOCK_FILTER", dec 44);
    ("SO_SELECT_ERR_QUEUE", dec 45); ("SO_BUSY_POLL", dec 46); ("SO_MAX_PACING_RATE", dec 47);
    ("SO_BPF_EXTENSIONS", dec 48); ("SO_INCOMING_CPU", dec 49); ("SO_ATTACH_BPF", dec 50);
    ("SO_DETACH_BPF", Id "SO_DETACH_FILTER")]].
Definition header : header :=
  Header "asm-generic/socket.h" [] (concat [
    defs_SOL_SOCKET]).
End Asm_generic_socket.

(** ** [asm-generic/sockios.h] *)

Module Asm_generic_sockios.
Definition defs_FIOSETOWN : list decl := [
  Defines [
    ("FIOSETOWN", hex 0x8901); ("SIOCSPGRP", hex 0x8902); ("FIOGETOWN", hex 0x8903);
    ("SIOCGPGRP", hex 0x8904); ("SIOCATMARK", hex 0x8905); ("SIOCGSTAMP", hex 0x8906);
    ("SIOCGSTAMPNS", hex 0x8907)]].
Definition header : header :=
  Header "asm-generic/sockios.h" [] (concat [
    defs_FIOSETOWN]).
End Asm_generic_sockios.

(** ** [asm-generic/termbits.h] *)

Module Asm_generic_termbits.
Definition defs_VINTR : list decl := [
  Defines [
    ("VINTR", dec 0); ("VQUIT", dec 1); ("VERASE", dec 2); ("VKILL", dec 3); ("VEOF", dec 4);
    ("VTIME", dec 5); ("VMIN", dec 6); ("VSWTC", dec 7); ("VSTART", dec 8); ("VSTOP", dec 9);
    ("VSUSP", dec 10); ("VEOL", dec 11); ("VREPRINT", dec 12); ("VDISCARD", dec 13);
    ("VWERASE", dec 14); ("VLNEXT", dec 15); ("VEOL2", dec 16); ("IGNBRK", oct 1);
    ("BRKINT", oct 2); ("IGNPAR", oct 4); ("PARMRK", oct 8); ("INPCK", oct 16);
    ("ISTRIP", oct 32); ("INLCR", oct 64); ("IGNCR", oct 128); ("ICRNL", oct 256);
    ("IUCLC", oct 512); ("IXON", oct 1024); ("IXANY", oct 2048); ("IXOFF", oct 4096);
    ("IMAXBEL", oct 8192); ("IUTF8", oct 16384); ("OPOST", oct 1); ("OLCUC", oct 2);
    ("ONLCR", oct 4); ("OCRNL", oct 8); ("ONOCR", oct 16); ("ONLRET", oct 32); ("OFILL", oct 64);
    ("OFDEL", oct 128); ("NLDLY", oct 256); ("NL0", oct 0); ("NL1", oct 256);
    ("CRDLY", oct 1536); ("CR0", oct 0); ("CR1", oct 512); ("CR2", oct 1024); ("CR3", oct 1536);
    ("TABDLY", oct 6144); ("TAB0", oct 0); ("TAB1", oct 2048); ("TAB2", oct 4096);
    ("TAB3", oct 6144); ("XTABS", oct 6144); ("BSDLY", oct 8192); ("BS0", oct 0);
    ("BS1", oct 8192); ("VTDLY", oct 16384); ("VT0", oct 0); ("VT1", oct 16384);
    ("FFDLY", oct 32768); ("FF0", oct 0); ("FF1", oct 32768); ("CBAUD", oct 4111); ("B0", oct 0);
    ("B50", oct 1); ("B75", oct 2); ("B110", oct 3); ("B134", oct 4); ("B150", oct 5);
    ("B200", oct 6); ("B300", oct 7); ("B600", oct 8); ("B1200", oct 9); ("B1800", oct 10);
    ("B2400", oct 11); ("B4800", oct 12); ("B9600", oct 13); ("B19200", oct 14);
    ("B38400", oct 15); ("EXTA", Id "B19200"); ("EXTB", Id "B38400"); ("CSIZE", oct 48);
    ("CS5", oct 0); ("CS6", oct 16); ("CS7", oct 32); ("CS8", oct 48); ("CSTOPB", oct 64);
    ("CREAD", oct 128); ("PARENB", oct 256); ("PARODD", oct 512); ("HUPCL", oct 1024);
    ("CLOCAL", oct 2048); ("CBAUDEX", oct 4096); ("BOTHER", oct 4096); ("B57600", oct 4097);
    ("B115200", oct 4098); ("B230400", oct 4099); ("B460800", oct 4100); ("B500000", oct 4101);
    ("B576000", oct 4102); ("B921600", oct 4103); ("B1000000", oct 4104); ("B1152000", oct 4105);
    ("B1500000", oct 4106); ("B2000000", oct 4107); ("B2500000", oct 4108);
    ("B3000000", oct 4109); ("B3500000", oct 4110); ("B4000000", oct 4111);
    ("CIBAUD", oct 269418496); ("CMSPAR", oct 1073741824); ("CRTSCTS", oct 2147483648);
    ("IBSHIFT", dec 16); ("ISIG", oct 1); ("ICANON", oct 2); ("XCASE", oct 4); ("ECHO", oct 8);
    ("ECHOE", oct 16); ("ECHOK", oct 32); ("ECHONL", oct 64); ("NOFLSH", oct 128);
    ("TOSTOP", oct 256); ("ECHOCTL", oct 512); ("ECHOPRT", oct 1024); ("ECHOKE", oct 2048);
    ("FLUSHO", oct 4096); ("PENDIN", oct 16384); ("IEXTEN", oct 32768); ("EXTPROC", oct 65536);
    ("TCOOFF", dec 0); ("TCOON", dec 1); ("TCIOFF", dec 2); ("TCION", dec 3);
    ("TCIFLUSH", dec 0); ("TCOFLUSH", dec 1); ("TCIOFLUSH", dec 2)]].
Definition header : header :=
  Header "asm-generic/termbits.h" [] (concat [
    defs_VINTR]).
End Asm_generic_termbits.

(** ** [asm-generic/termios.h] *)

Module Asm_generic_termios.
Definition defs_TIOCM_LE : list decl := [
  Defines [
    ("TIOCM_LE", hex 0x001); ("TIOCM_DTR", hex 0x002); ("TIOCM_RTS", hex 0x004);
    ("TIOCM_ST", hex 0x008); ("TIOCM_SR", hex 0x010); ("TIOCM_CTS", hex 0x020);
    ("TIOCM_CAR", hex 0x040); ("TIOCM_RNG", hex 0x080); ("TIOCM_DSR", hex 0x100);
    ("TIOCM_CD", Id "TIOCM_CAR"); ("TIOCM_RI", Id "TIOCM_RNG"); ("TIOCM_OUT1", hex 0x2000);
    ("TIOCM_OUT2", hex 0x4000); ("TIOCM_LOOP", hex 0x8000)]].
Definition header : header :=
  Header "asm-generic/termios.h" [] (concat [
    defs_TIOCM_LE]).
End Asm_generic_termios.

(** ** [asm-generic/unistd.h] *)

Module Asm_generic_unistd.
Definition defs___NR_io_setup : list decl := [
  Defines [
    ("__NR_io_setup", dec 0); ("__NR_io_destroy", dec 1); ("__NR_io_submit", dec 2);
    ("__NR_io_cancel", dec 3); ("__NR_io_getevents", dec 4); ("__NR_setxattr", dec 5);
    ("__NR_lsetxattr", dec 6); ("__NR_fsetxattr", dec 7); ("__NR_getxattr", dec 8);
    ("__NR_lgetxattr", dec 9); ("__NR_fgetxattr", dec 10); ("__NR_listxattr", dec 11);
    ("__NR_llistxattr", dec 12); ("__NR_flistxattr", dec 13); ("__NR_removexattr", dec 14);
    ("__NR_lremovexattr", dec 15); ("__NR_fremovexattr", dec 16); ("__NR_getcwd", dec 17);
    ("__NR_lookup_dcookie", dec 18); ("__NR_eventfd2", dec 19); ("__NR_epoll_create1", dec 20);
    ("__NR_epoll_ctl", dec 21); ("__NR_epoll_pwait", dec 22); ("__NR_dup", dec 23);
    ("__NR_dup3", dec 24); ("__NR3264_fcntl", dec 25); ("__NR_inotify_init1", dec 26);
    ("__NR_inotify_add_watch", dec 27); ("__NR_inotify_rm_watch", dec 28);
    ("__NR_ioctl", dec 29); ("__NR_ioprio_set", dec 30); ("__NR_ioprio_get", dec 31);
    ("__NR_flock", dec 32); ("__NR_mknodat", dec 33); ("__NR_mkdirat", dec 34);
    ("__NR_unlinkat", dec 35); ("__NR_symlinkat", dec 36); ("__NR_linkat", dec 37);
    ("__NR_renameat", dec 38); ("__NR_umount2", dec 39); ("__NR_mount", dec 40);
    ("__NR_pivot_root", dec 41); ("__NR_nfsservctl", dec 42); ("__NR3264_statfs", dec 43);
    ("__NR3264_fstatfs", dec 44); ("__NR3264_truncate", dec 45); ("__NR3264_ftruncate", dec 46);
    ("__NR_fallocate", dec 47); ("__NR_faccessat", dec 48); ("__NR_chdir", dec 49);
    ("__NR_fchdir", dec 50); ("__NR_chroot", dec 51); ("__NR_fchmod", dec 52);
    ("__NR_fchmodat", dec 53); ("__NR_fchownat", dec 54); ("__NR_fchown", dec 55);
    ("__NR_openat", dec 56); ("__NR_close", dec 57); ("__NR_vhangup", dec 58)]].
Definition defs___NR3264_lseek : list decl := [
  Defines [
    ("__NR3264_lseek", dec 62); ("__NR_read", dec 63); ("__NR_write", dec 64);
    ("__NR_readv", dec 65); ("__NR_writev", dec 66); ("__NR_pread64", dec 67);
    ("__NR_pwrite64", dec 68); ("__NR_preadv", dec 69); ("__NR_pwritev", dec 70);
    ("__NR3264_sendfile", dec 71); ("__NR_pselect6", dec 72); ("__NR_ppoll", dec 73);
    ("__NR_signalfd4", dec 74); ("__NR_vmsplice", dec 75); ("__NR_splice", dec 76);
    ("__NR_tee", dec 77); ("__NR_readlinkat", dec 78); ("__NR3264_fstatat", dec 79);
    ("__NR3264_fstat", dec 80); ("__NR_sync", dec 81); ("__NR_fsync", dec 82);
    ("__NR_fdatasync", dec 83)]].
Definition defs___NR_utimensat : list decl := [
  Defines [
    ("__NR_utimensat", dec 88); ("__NR_acct", dec 89); ("__NR_capget", dec 90);
    ("__NR_capset", dec 91); ("__NR_personality", dec 92); ("__NR_exit", dec 93);
    ("__NR_exit_group", dec 94); ("__NR_waitid", dec 95); ("__NR_set_tid_address", dec 96);
    ("__NR_unshare", dec 97); ("__NR_futex", dec 98); ("__NR_set_robust_list", dec 99);
    ("__NR_get_robust_list", dec 100)]].
Definition defs___NR_nanosleep : list decl := [
  Defines [
    ("__NR_nanosleep", dec 101); ("__NR_getitimer", dec 102); ("__NR_setitimer", dec 103);
    ("__NR_kexec_load", dec 104); ("__NR_init_module", dec 105); ("__NR_delete_module", dec 106);
    ("__NR_timer_create", dec 107); ("__NR_timer_gettime", dec 108);
    ("__NR_timer_getoverrun", dec 109); ("__NR_timer_settime", dec 110);
    ("__NR_timer_delete", dec 111); ("__NR_clock_settime", dec 112);
    ("__NR_clock_gettime", dec 113); ("__NR_clock_getres", dec 114);
    ("__NR_clock_nanosleep", dec 115)]].
Definition defs___NR_syslog : list decl := [
  Defines [
    ("__NR_syslog", dec 116); ("__NR_ptrace", dec 117); ("__NR_sched_setparam", dec 118);
    ("__NR_sched_setscheduler", dec 119); ("__NR_sched_getscheduler", dec 120);
    ("__NR_sched_getparam", dec 121); ("__NR_sched_setaffinity", dec 122);
    ("__NR_sched_getaffinity", dec 123); ("__NR_sched_yield", dec 124);
    ("__NR_sched_get_priority_max", dec 125); ("__NR_sched_get_priority_min", dec 126);
    ("__NR_sched_rr_get_interval", dec 127)]].
Definition defs___NR_restart_syscall : list decl := [
  Defines [
    ("__NR_restart_syscall", dec 128); ("__NR_kill", dec 129); ("__NR_tkill", dec 130);
    ("__NR_tgkill", dec 131); ("__NR_sigaltstack", dec 132); ("__NR_rt_sigsuspend", dec 133);
    ("__NR_rt_sigaction", dec 134); ("__NR_rt_sigprocmask", dec 135);
    ("__NR_rt_sigpending", dec 136); ("__NR_rt_sigtimedwait", dec 137);
    ("__NR_rt_sigqueueinfo", dec 138); ("__NR_rt_sigreturn", dec 139);
    ("__NR_setpriority", dec 140); ("__NR_getpriority", dec 141); ("__NR_reboot", dec 142);
    ("__NR_setregid", dec 143); ("__NR_setgid", dec 144); ("__NR_setreuid", dec 145);
    ("__NR_setuid", dec 146); ("__NR_setresuid", dec 147); ("__NR_getresuid", dec 148);
    ("__NR_setresgid", dec 149); ("__NR_getresgid", dec 150); ("__NR_setfsuid", dec 151);
    ("__NR_setfsgid", dec 152); ("__NR_times", dec 153); ("__NR_setpgid", dec 154);
    ("__NR_getpgid", dec 155); ("__NR_getsid", dec 156); ("__NR_setsid", dec 157);
    ("__NR_getgroups", dec 158); ("__NR_setgroups", dec 159); ("__NR_uname", dec 160);
    ("__NR_sethostname", dec 161); ("__NR_setdomainname", dec 162); ("__NR_getrlimit", dec 163);
    ("__NR_setrlimit", dec 164); ("__NR_getrusage", dec 165); ("__NR_umask", dec 166);
    ("__NR_prctl", dec 167); ("__NR_getcpu", dec 168); ("__NR_gettimeofday", dec 169);
    ("__NR_settimeofday", dec 170); ("__NR_adjtimex", dec 171); ("__NR_getpid", dec 172);
    ("__NR_getppid", dec 173); ("__NR_getuid", dec 174); ("__NR_geteuid", dec 175);
    ("__NR_getgid", dec 176); ("__NR_getegid", dec 177); ("__NR_gettid", dec 178);
    ("__NR_sysinfo", dec 179); ("__NR_mq_open", dec 180); ("__NR_mq_unlink", dec 181);
    ("__NR_mq_timedsend", dec 182); ("__NR_mq_timedreceive", dec 183);
    ("__NR_mq_notify", dec 184); ("__NR_mq_getsetattr", dec 185); ("__NR_msgget", dec 186);
    ("__NR_msgctl", dec 187); ("__NR_msgrcv", dec 188); ("__NR_msgsnd", dec 189);
    ("__NR_semget", dec 190); ("__NR_semctl", dec 191); ("__NR_semtimedop", dec 192);
    ("__NR_semop", dec 193); ("__NR_shmget", dec 194)]].
Definition defs___NR_shmctl : list decl := [
  Defines [
    ("__NR_shmctl", dec 195); ("__NR_shmat", dec 196); ("__NR_shmdt", dec 197);
    ("__NR_socket", dec 198); ("__NR_socketpair", dec 199); ("__NR_bind", dec 200);
    ("__NR_listen", dec 201); ("__NR_accept", dec 202); ("__NR_connect", dec 203);
    ("__NR_getsockname", dec 204); ("__NR_getpeername", dec 205); ("__NR_sendto", dec 206);
    ("__NR_recvfrom", dec 207); ("__NR_setsockopt", dec 208); ("__NR_getsockopt", dec 209);
    ("__NR_shutdown", dec 210); ("__NR_sendmsg", dec 211); ("__NR_recvmsg", dec 212);
    ("__NR_readahead", dec 213); ("__NR_brk", dec 214); ("__NR_munmap", dec 215);
    ("__NR_mremap", dec 216); ("__NR_add_key", dec 217); ("__NR_request_key", dec 218);
    ("__NR_keyctl", dec 219); ("__NR_clone", dec 220); ("__NR_execve", dec 221);
    ("__NR3264_mmap", dec 222); ("__NR3264_fadvise64", dec 223)]].
Definition defs___NR_swapon : list decl := [
  Defines [
    ("__NR_swapon", dec 224); ("__NR_swapoff", dec 225); ("__NR_mprotect", dec 226);
    ("__NR_msync", dec 227); ("__NR_mlock", dec 228); ("__NR_munlock", dec 229);
    ("__NR_mlockall", dec 230); ("__NR_munlockall", dec 231); ("__NR_mincore", dec 232);
    ("__NR_madvise", dec 233); ("__NR_remap_file_pages", dec 234); ("__NR_mbind", dec 235);
    ("__NR_get_mempolicy", dec 236); ("__NR_set_mempolicy", dec 237);
    ("__NR_migrate_pages", dec 238); ("__NR_move_pages", dec 239)]].
Definition defs___NR_rt_tgsigqueueinfo : list decl := [
  Defines [
    ("__NR_rt_tgsigqueueinfo", dec 240); ("__NR_perf_event_open", dec 241);
    ("__NR_accept4", dec 242); ("__NR_recvmmsg", dec 243)]].
Definition defs___NR_arch_specific_syscall : list decl := [
  Defines [
    ("__NR_arch_specific_syscall", dec 244); ("__NR_wait4", dec 260);
    ("__NR_prlimit64", dec 261); ("__NR_fanotify_init", dec 262);
    ("__NR_fanotify_mark", dec 263); ("__NR_name_to_handle_at", dec 264);
    ("__NR_open_by_handle_at", dec 265); ("__NR_clock_adjtime", dec 266);
    ("__NR_syncfs", dec 267); ("__NR_setns", dec 268); ("__NR_sendmmsg", dec 269);
    ("__NR_process_vm_readv", dec 270); ("__NR_process_vm_writev", dec 271);
    ("__NR_kcmp", dec 272); ("__NR_finit_module", dec 273); ("__NR_sched_setattr", dec 274);
    ("__NR_sched_getattr", dec 275); ("__NR_renameat2", dec 276); ("__NR_seccomp", dec 277);
    ("__NR_getrandom", dec 278); ("__NR_memfd_create", dec 279); ("__NR_bpf", dec 280);
    ("__NR_execveat", dec 281); ("__NR_userfaultfd", dec 282); ("__NR_membarrier", dec 283);
    ("__NR_mlock2", dec 284)]].
Definition header : header :=
  Header "asm-generic/unistd.h" [] (concat [
    defs___NR_io_setup; defs___NR3264_lseek; defs___NR_utimensat; defs___NR_nanosleep;
    defs___NR_syslog; defs___NR_restart_syscall; defs___NR_shmctl; defs___NR_swapon;
    defs___NR_rt_tgsigqueueinfo; defs___NR_arch_specific_syscall]).
End Asm_generic_unistd.

(** ** [asm/fcntl.h] *)

Module Asm_fcntl.
Definition defs_O_DIRECTORY : list decl := [
  Defines [
    ("O_DIRECTORY", oct 16384); ("O_NOFOLLOW", oct 32768); ("O_DIRECT", oct 65536);
    ("O_LARGEFILE", oct 131072)]].
Definition header : header :=
  Header "asm/fcntl.h" [] (concat [
    defs_O_DIRECTORY]).
End Asm_fcntl.

(** ** [asm/hwcap.h] *)

Module Asm_hwcap.
Definition defs_HWCAP_FP : list decl := [
  Defines [
    ("HWCAP_FP", Shl (dec 1) (dec 0)); ("HWCAP_ASIMD", Shl (dec 1) (dec 1));
    ("HWCAP_EVTSTRM", Shl (dec 1) (dec 2)); ("HWCAP_AES", Shl (dec 1) (dec 3));
    ("HWCAP_PMULL", Shl (dec 1) (dec 4)); ("HWCAP_SHA1", Shl (dec 1) (dec 5));
    ("HWCAP_SHA2", Shl (dec 1) (dec 6)); ("HWCAP_CRC32", Shl (dec 1) (dec 7));
    ("HWCAP_ATOMICS", Shl (dec 1) (dec 8))]].
Definition header : header :=
  Header "asm/hwcap.h" [] (concat [
    defs_HWCAP_FP]).
End Asm_hwcap.

(** ** [linux/psci.h] *)

Module Psci.
Definition defs_PSCI_0_2_FN_BASE : list decl := [
  Defines [
    ("PSCI_0_2_FN_BASE", hex 0x84000000); ("PSCI_0_2_64BIT", hex 0x40000000);
    ("PSCI_0_2_FN64_BASE", Add (Id "PSCI_0_2_FN_BASE") (Id "PSCI_0_2_64BIT"));
    ("PSCI_0_2_FN_PSCI_VERSION", App "PSCI_0_2_FN" [dec 0]);
    ("PSCI_0_2_FN_CPU_SUSPEND", App "PSCI_0_2_FN" [dec 1]);
    ("PSCI_0_2_FN_CPU_OFF", App "PSCI_0_2_FN" [dec 2]);
    ("PSCI_0_2_FN_CPU_ON", App "PSCI_0_2_FN" [dec 3]);
    ("PSCI_0_2_FN_AFFINITY_INFO", App "PSCI_0_2_FN" [dec 4]);
    ("PSCI_0_2_FN_MIGRATE", App "PSCI_0_2_FN" [dec 5]);
    ("PSCI_0_2_FN_MIGRATE_INFO_TYPE", App "PSCI_0_2_FN" [dec 6]);
    ("PSCI_0_2_FN_MIGRATE_INFO_UP_CPU", App "PSCI_0_2_FN" [dec 7]);
    ("PSCI_0_2_FN_SYSTEM_OFF", App "PSCI_0_2_FN" [dec 8]);
    ("PSCI_0_2_FN_SYSTEM_RESET", App "PSCI_0_2_FN" [dec 9]);
    ("PSCI_0_2_FN64_CPU_SUSPEND", App "PSCI_0_2_FN64" [dec 1]);
    ("PSCI_0_2_FN64_CPU_ON", App "PSCI_0_2_FN64" [dec 3]);
    ("PSCI_0_2_FN64_AFFINITY_INFO", App "PSCI_0_2_FN64" [dec 4]);
    ("PSCI_0_2_FN64_MIGRATE", App "PSCI_0_2_FN64" [dec 5]);
    ("PSCI_0_2_FN64_MIGRATE_INFO_UP_CPU", App "PSCI_0_2_FN64" [dec 7]);
    ("PSCI_1_0_FN_PSCI_FEATURES", App "PSCI_0_2_FN" [dec 10]);
    ("PSCI_1_0_FN_SYSTEM_SUSPEND", App "PSCI_0_2_FN" [dec 14]);
    ("PSCI_1_0_FN64_SYSTEM_SUSPEND", App "PSCI_0_2_FN64" [dec 14]);
    ("PSCI_0_2_POWER_STATE_ID_MASK", hex 0xffff); ("PSCI_0_2_POWER_STATE_ID_SHIFT", dec 0);
    ("PSCI_0_2_POWER_STATE_TYPE_SHIFT", dec 16);
    ("PSCI_0_2_POWER_STATE_TYPE_MASK", Shl (hex 0x1) (Id "PSCI_0_2_POWER_STATE_TYPE_SHIFT"));
    ("PSCI_0_2_POWER_STATE_AFFL_SHIFT", dec 24);
    ("PSCI_0_2_POWER_STATE_AFFL_MASK", Shl (hex 0x3) (Id "PSCI_0_2_POWER_STATE_AFFL_SHIFT"));
    ("PSCI_1_0_EXT_POWER_STATE_ID_MASK", hex 0xfffffff);
    ("PSCI_1_0_EXT_POWER_STATE_ID_SHIFT", dec 0);
    ("PSCI_1_0_EXT_POWER_STATE_TYPE_SHIFT", dec 30);
    ("PSCI_1_0_EXT_POWER_STATE_TYPE_MASK", Shl (hex 0x1) (Id "PSCI_1_0_EXT_POWER_STATE_TYPE_SHIFT"));
    ("PSCI_0_2_AFFINITY_LEVEL_ON", dec 0); ("PSCI_0_2_AFFINITY_LEVEL_OFF", dec 1);
    ("PSCI_0_2_AFFINITY_LEVEL_ON_PENDING", dec 2); ("PSCI_0_2_TOS_UP_MIGRATE", dec 0);
    ("PSCI_0_2_TOS_UP_NO_MIGRATE", dec 1); ("PSCI_0_2_TOS_MP", dec 2);
    ("PSCI_VERSION_MAJOR_SHIFT", dec 16);
    ("PSCI_VERSION_MINOR_MASK", Sub (Shl (decU 1) (Id "PSCI_VERSION_MAJOR_SHIFT")) (dec 1));
    ("PSCI_VERSION_MAJOR_MASK", Not (Id "PSCI_VERSION_MINOR_MASK"))]].
Definition macro_PSCI_0_2_FN : list decl := [
  Define_fun "PSCI_0_2_FN" ["n"] (Add (Id "PSCI_0_2_FN_BASE") (Id "n"))].
Definition macro_PSCI_0_2_FN64 : list decl := [
  Define_fun "PSCI_0_2_FN64" ["n"] (Add (Id "PSCI_0_2_FN64_BASE") (Id "n"))].
Definition defs_PSCI_1_0_FEATURES_CPU_SUSPEND_PF_SHIFT : list decl := [
  Defines [
    ("PSCI_1_0_FEATURES_CPU_SUSPEND_PF_SHIFT", dec 1);
    ("PSCI_1_0_FEATURES_CPU_SUSPEND_PF_MASK", Shl (hex 0x1) (Id "PSCI_1_0_FEATURES_CPU_SUSPEND_PF_SHIFT"));
    ("PSCI_RET_SUCCESS", dec 0); ("PSCI_RET_NOT_SUPPORTED", Neg (dec 1));
    ("PSCI_RET_INVALID_PARAMS", Neg (dec 2)); ("PSCI_RET_DENIED", Neg (dec 3));
    ("PSCI_RET_ALREADY_ON", Neg (dec 4)); ("PSCI_RET_ON_PENDING", Neg (dec 5));
    ("PSCI_RET_INTERNAL_FAILURE", Neg (dec 6)); ("PSCI_RET_NOT_PRESENT", Neg (dec 7));
    ("PSCI_RET_DISABLED", Neg (dec 8)); ("PSCI_RET_INVALID_ADDRESS", Neg (dec 9))]].
Definition header : header :=
  Header "linux/psci.h" [] (concat [
    defs_PSCI_0_2_FN_BASE; macro_PSCI_0_2_FN; macro_PSCI_0_2_FN64;
    defs_PSCI_1_0_FEATURES_CPU_SUSPEND_PF_SHIFT]).
End Psci.

(** ** [asm/kvm.h] *)

Module Asm_kvm.
Definition defs_KVM_SPSR_EL1 : list decl := [
  Defines [
    ("KVM_SPSR_EL1", dec 0); ("KVM_SPSR_SVC", Id "KVM_SPSR_EL1"); ("KVM_SPSR_ABT", dec 1);
    ("KVM_SPSR_UND", dec 2); ("KVM_SPSR_IRQ", dec 3); ("KVM_SPSR_FIQ", dec 4);
    ("KVM_NR_SPSR", dec 5)]].
Definition defs_KVM_ARM_TARGET_AEM_V8 : list decl := [
  Defines [
    ("KVM_ARM_TARGET_AEM_V8", dec 0); ("KVM_ARM_TARGET_FOUNDATION_V8", dec 1);
    ("KVM_ARM_TARGET_CORTEX_A57", dec 2); ("KVM_ARM_TARGET_XGENE_POTENZA", dec 3);
    ("KVM_ARM_TARGET_CORTEX_A53", dec 4); ("KVM_ARM_TARGET_GENERIC_V8", dec 5);
    ("KVM_ARM_NUM_TARGETS", dec 6); ("KVM_ARM_DEVICE_TYPE_SHIFT", dec 0);
    ("KVM_ARM_DEVICE_TYPE_MASK", Shl (hex 0xffff) (Id "KVM_ARM_DEVICE_TYPE_SHIFT"));
    ("KVM_ARM_DEVICE_ID_SHIFT", dec 16);
    ("KVM_ARM_DEVICE_ID_MASK", Shl (hex 0xffff) (Id "KVM_ARM_DEVICE_ID_SHIFT"));
    ("KVM_ARM_DEVICE_VGIC_V2", dec 0); ("KVM_VGIC_V2_ADDR_TYPE_DIST", dec 0);
    ("KVM_VGIC_V2_ADDR_TYPE_CPU", dec 1); ("KVM_VGIC_V2_DIST_SIZE", hex 0x1000);
    ("KVM_VGIC_V2_CPU_SIZE", hex 0x2000); ("KVM_VGIC_V3_ADDR_TYPE_DIST", dec 2);
    ("KVM_VGIC_V3_ADDR_TYPE_REDIST", dec 3)]].
Definition defs_KVM_REG_ARM_COPROC_MASK : list decl := [
  Defines [
    ("KVM_REG_ARM_COPROC_MASK", hex 0x000000000FFF0000); ("KVM_REG_ARM_COPROC_SHIFT", dec 16);
    ("KVM_REG_ARM_CORE", Shl (hex 0x0010) (Id "KVM_REG_ARM_COPROC_SHIFT"));
    ("KVM_REG_ARM_DEMUX", Shl (hex 0x0011) (Id "KVM_REG_ARM_COPROC_SHIFT"));
    ("KVM_REG_ARM_DEMUX_ID_MASK", hex 0x000000000000FF00); ("KVM_REG_ARM_DEMUX_ID_SHIFT", dec 8);
    ("KVM_REG_ARM_DEMUX_ID_CCSIDR", Shl (hex 0x00) (Id "KVM_REG_ARM_DEMUX_ID_SHIFT"));
    ("KVM_REG_ARM_DEMUX_VAL_MASK", hex 0x00000000000000FF);
    ("KVM_REG_ARM_DEMUX_VAL_SHIFT", dec 0);
    ("KVM_REG_ARM64_SYSREG", Shl (hex 0x0013) (Id "KVM_REG_ARM_COPROC_SHIFT"));
    ("KVM_REG_ARM64_SYSREG_OP0_MASK", hex 0x000000000000c000);
    ("KVM_REG_ARM64_SYSREG_OP0_SHIFT", dec 14);
    ("KVM_REG_ARM64_SYSREG_OP1_MASK", hex 0x0000000000003800);
    ("KVM_REG_ARM64_SYSREG_OP1_SHIFT", dec 11);
    ("KVM_REG_ARM64_SYSREG_CRN_MASK", hex 0x0000000000000780);
    ("KVM_REG_ARM64_SYSREG_CRN_SHIFT", dec 7);
    ("KVM_REG_ARM64_SYSREG_CRM_MASK", hex 0x0000000000000078);
    ("KVM_REG_ARM64_SYSREG_CRM_SHIFT", dec 3);
    ("KVM_REG_ARM64_SYSREG_OP2_MASK", hex 0x0000000000000007);
    ("KVM_REG_ARM64_SYSREG_OP2_SHIFT", dec 0)]].
Definition defs_KVM_DEV_ARM_VGIC_GRP_ADDR : list decl := [
  Defines [
    ("KVM_DEV_ARM_VGIC_GRP_ADDR", dec 0); ("KVM_DEV_ARM_VGIC_GRP_DIST_REGS", dec 1);
    ("KVM_DEV_ARM_VGIC_GRP_CPU_REGS", dec 2); ("KVM_DEV_ARM_VGIC_CPUID_SHIFT", dec 32);
    ("KVM_DEV_ARM_VGIC_CPUID_MASK", Shl (hexULL 0xff) (Id "KVM_DEV_ARM_VGIC_CPUID_SHIFT"));
    ("KVM_DEV_ARM_VGIC_OFFSET_SHIFT", dec 0);
    ("KVM_DEV_ARM_VGIC_OFFSET_MASK", Shl (hexULL 0xffffffff) (Id "KVM_DEV_ARM_VGIC_OFFSET_SHIFT"));
    ("KVM_DEV_ARM_VGIC_GRP_NR_IRQS", dec 3); ("KVM_DEV_ARM_VGIC_GRP_CTRL", dec 4);
    ("KVM_DEV_ARM_VGIC_CTRL_INIT", dec 0); ("KVM_ARM_IRQ_TYPE_SHIFT", dec 24);
    ("KVM_ARM_IRQ_TYPE_MASK", hex 0xff); ("KVM_ARM_IRQ_VCPU_SHIFT", dec 16);
    ("KVM_ARM_IRQ_VCPU_MASK", hex 0xff); ("KVM_ARM_IRQ_NUM_SHIFT", dec 0);
    ("KVM_ARM_IRQ_NUM_MASK", hex 0xffff); ("KVM_ARM_IRQ_TYPE_CPU", dec 0);
    ("KVM_ARM_IRQ_TYPE_SPI", dec 1); ("KVM_ARM_IRQ_TYPE_PPI", dec 2);
    ("KVM_ARM_IRQ_CPU_IRQ", dec 0); ("KVM_ARM_IRQ_CPU_FIQ", dec 1)];
  Defines [
    ("KVM_ARM_IRQ_GIC_MAX", dec 127); ("KVM_NR_IRQCHIPS", dec 1);
    ("KVM_PSCI_FN_BASE", hex 0x95c1ba5e); ("KVM_PSCI_FN_CPU_SUSPEND", App "KVM_PSCI_FN" [dec 0]);
    ("KVM_PSCI_FN_CPU_OFF", App "KVM_PSCI_FN" [dec 1]);
    ("KVM_PSCI_FN_CPU_ON", App "KVM_PSCI_FN" [dec 2]);
    ("KVM_PSCI_FN_MIGRATE", App "KVM_PSCI_FN" [dec 3]);
    ("KVM_PSCI_RET_SUCCESS", Id "PSCI_RET_SUCCESS");
    ("KVM_PSCI_RET_NI", Id "PSCI_RET_NOT_SUPPORTED");
    ("KVM_PSCI_RET_INVAL", Id "PSCI_RET_INVALID_PARAMS");
    ("KVM_PSCI_RET_DENIED", Id "PSCI_RET_DENIED")]].
Definition macro_KVM_PSCI_FN : list decl := [
  Define_fun "KVM_PSCI_FN" ["n"] (Add (Id "KVM_PSCI_FN_BASE") (Id "n"))].
Definition header : header :=
  Header "asm/kvm.h" [Psci.header] (concat [
    defs_KVM_SPSR_EL1; defs_KVM_ARM_TARGET_AEM_V8; defs_KVM_REG_ARM_COPROC_MASK;
    defs_KVM_DEV_ARM_VGIC_GRP_ADDR; macro_KVM_PSCI_FN]).
End Asm_kvm.

(** ** [asm/perf_regs.h] *)

Module Asm_perf_regs.
Definition enum_perf_event_arm_regs : list decl := [
  Enum [
    ("PERF_REG_ARM64_X0", None); ("PERF_REG_ARM64_X1", None); ("PERF_REG_ARM64_X2", None);
    ("PERF_REG_ARM64_X3", None); ("PERF_REG_ARM64_X4", None); ("PERF_REG_ARM64_X5", None);
    ("PERF_REG_ARM64_X6", None); ("PERF_REG_ARM64_X7", None); ("PERF_REG_ARM64_X8", None);
    ("PERF_REG_ARM64_X9", None); ("PERF_REG_ARM64_X10", None); ("PERF_REG_ARM64_X11", None);
    ("PERF_REG_ARM64_X12", None); ("PERF_REG_ARM64_X13", None); ("PERF_REG_ARM64_X14", None);
    ("PERF_REG_ARM64_X15", None); ("PERF_REG_ARM64_X16", None); ("PERF_REG_ARM64_X17", None);
    ("PERF_REG_ARM64_X18", None); ("PERF_REG_ARM64_X19", None); ("PERF_REG_ARM64_X20", None);
    ("PERF_REG_ARM64_X21", None); ("PERF_REG_ARM64_X22", None); ("PERF_REG_ARM64_X23", None);
    ("PERF_REG_ARM64_X24", None); ("PERF_REG_ARM64_X25", None); ("PERF_REG_ARM64_X26", None);
    ("PERF_REG_ARM64_X27", None); ("PERF_REG_ARM64_X28", None); ("PERF_REG_ARM64_X29", None);
    ("PERF_REG_ARM64_LR", None); ("PERF_REG_ARM64_SP", None); ("PERF_REG_ARM64_PC", None);
    ("PERF_REG_ARM64_MAX", None)]].
Definition header : header :=
  Header "asm/perf_regs.h" [] (concat [
    enum_perf_event_arm_regs]).
End Asm_perf_regs.

(** ** [asm/ptrace.h] *)

Module Asm_ptrace.
Definition defs_PSR_MODE_EL0t : list decl := [
  Defines [
    ("PSR_MODE_EL0t", hex 0x00000000); ("PSR_MODE_EL1t", hex 0x00000004);
    ("PSR_MODE_EL1h", hex 0x00000005); ("PSR_MODE_EL2t", hex 0x00000008);
    ("PSR_MODE_EL2h", hex 0x00000009); ("PSR_MODE_EL3t", hex 0x0000000c);
    ("PSR_MODE_EL3h", hex 0x0000000d); ("PSR_MODE_MASK", hex 0x0000000f);
    ("PSR_MODE32_BIT", hex 0x00000010); ("PSR_F_BIT", hex 0x00000040);
    ("PSR_I_BIT", hex 0x00000080); ("PSR_A_BIT", hex 0x00000100); ("PSR_D_BIT", hex 0x00000200);
    ("PSR_PAN_BIT", hex 0x00400000); ("PSR_UAO_BIT", hex 0x00800000);
    ("PSR_Q_BIT", hex 0x08000000); ("PSR_V_BIT", hex 0x10000000); ("PSR_C_BIT", hex 0x20000000);
    ("PSR_Z_BIT", hex 0x40000000); ("PSR_N_BIT", hex 0x80000000)];
  Defines [
    ("PSR_f", hex 0xff000000); ("PSR_s", hex 0x00ff0000); ("PSR_x", hex 0x0000ff00);
    ("PSR_c", hex 0x000000ff)]].
Definition header : header :=
  Header "asm/ptrace.h" [] (concat [
    defs_PSR_MODE_EL0t]).
End Asm_ptrace.

(** ** [linux/elf-em.h] *)

Module Elf_em.
Definition defs_EM_NONE : list decl := [
  Defines [
    ("EM_NONE", dec 0); ("EM_M32", dec 1); ("EM_SPARC", dec 2); ("EM_386", dec 3);
    ("EM_68K", dec 4); ("EM_88K", dec 5); ("EM_486", dec 6); ("EM_860", dec 7);
    ("EM_MIPS", dec 8); ("EM_MIPS_RS3_LE", dec 10); ("EM_MIPS_RS4_BE", dec 10);
    ("EM_PARISC", dec 15); ("EM_SPARC32PLUS", dec 18); ("EM_PPC", dec 20); ("EM_PPC64", dec 21);
    ("EM_SPU", dec 23); ("EM_ARM", dec 40); ("EM_SH", dec 42); ("EM_SPARCV9", dec 43);
    ("EM_H8_300", dec 46); ("EM_IA_64", dec 50); ("EM_X86_64", dec 62); ("EM_S390", dec 22);
    ("EM_CRIS", dec 76); ("EM_V850", dec 87); ("EM_M32R", dec 88); ("EM_MN10300", dec 89);
    ("EM_OPENRISC", dec 92); ("EM_BLACKFIN", dec 106); ("EM_ALTERA_NIOS2", dec 113);
    ("EM_TI_C6000", dec 140); ("EM_AARCH64", dec 183); ("EM_TILEPRO", dec 188);
    ("EM_MICROBLAZE", dec 189); ("EM_TILEGX", dec 191); ("EM_FRV", hex 0x5441);
    ("EM_AVR32", hex 0x18ad)];
  Defines [
    ("EM_ALPHA", hex 0x9026); ("EM_CYGNUS_V850", hex 0x9080); ("EM_CYGNUS_M32R", hex 0x9041);
    ("EM_S390_OLD", hex 0xA390); ("EM_CYGNUS_MN10300", hex 0xbeef)]].
Definition header : header :=
  Header "linux/elf-em.h" [] (concat [
    defs_EM_NONE]).
End Elf_em.

(** ** [linux/sockios.h] *)

Module Sockios.
Definition defs_SIOCINQ : list decl := [
  Defines [
    ("SIOCINQ", Id "FIONREAD"); ("SIOCOUTQ", Id "TIOCOUTQ"); ("SIOCADDRT", hex 0x890B);
    ("SIOCDELRT", hex 0x890C); ("SIOCRTMSG", hex 0x890D); ("SIOCGIFNAME", hex 0x8910);
    ("SIOCSIFLINK", hex 0x8911); ("SIOCGIFCONF", hex 0x8912); ("SIOCGIFFLAGS", hex 0x8913);
    ("SIOCSIFFLAGS", hex 0x8914); ("SIOCGIFADDR", hex 0x8915); ("SIOCSIFADDR", hex 0x8916);
    ("SIOCGIFDSTADDR", hex 0x8917); ("SIOCSIFDSTADDR", hex 0x8918);
    ("SIOCGIFBRDADDR", hex 0x8919); ("SIOCSIFBRDADDR", hex 0x891a);
    ("SIOCGIFNETMASK", hex 0x891b); ("SIOCSIFNETMASK", hex 0x891c);
    ("SIOCGIFMETRIC", hex 0x891d); ("SIOCSIFMETRIC", hex 0x891e); ("SIOCGIFMEM", hex 0x891f);
    ("SIOCSIFMEM", hex 0x8920); ("SIOCGIFMTU", hex 0x8921); ("SIOCSIFMTU", hex 0x8922);
    ("SIOCSIFNAME", hex 0x8923); ("SIOCSIFHWADDR", hex 0x8924); ("SIOCGIFENCAP", hex 0x8925);
    ("SIOCSIFENCAP", hex 0x8926); ("SIOCGIFHWADDR", hex 0x8927); ("SIOCGIFSLAVE", hex 0x8929);
    ("SIOCSIFSLAVE", hex 0x8930); ("SIOCADDMULTI", hex 0x8931); ("SIOCDELMULTI", hex 0x8932);
    ("SIOCGIFINDEX", hex 0x8933); ("SIOGIFINDEX", Id "SIOCGIFINDEX");
    ("SIOCSIFPFLAGS", hex 0x8934); ("SIOCGIFPFLAGS", hex 0x8935); ("SIOCDIFADDR", hex 0x8936);
    ("SIOCSIFHWBROADCAST", hex 0x8937); ("SIOCGIFCOUNT", hex 0x8938);
    ("SIOCKILLADDR", hex 0x8939); ("SIOCGIFBR", hex 0x8940); ("SIOCSIFBR", hex 0x8941);
    ("SIOCGIFTXQLEN", hex 0x8942); ("SIOCSIFTXQLEN", hex 0x8943)];
  Defines [
    ("SIOCETHTOOL", hex 0x8946); ("SIOCGMIIPHY", hex 0x8947); ("SIOCGMIIREG", hex 0x8948);
    ("SIOCSMIIREG", hex 0x8949); ("SIOCWANDEV", hex 0x894A); ("SIOCOUTQNSD", hex 0x894B);
    ("SIOCDARP", hex 0x8953); ("SIOCGARP", hex 0x8954); ("SIOCSARP", hex 0x8955);
    ("SIOCDRARP", hex 0x8960); ("SIOCGRARP", hex 0x8961); ("SIOCSRARP", hex 0x8962);
    ("SIOCGIFMAP", hex 0x8970); ("SIOCSIFMAP", hex 0x8971); ("SIOCADDDLCI", hex 0x8980);
    ("SIOCDELDLCI", hex 0x8981); ("SIOCGIFVLAN", hex 0x8982); ("SIOCSIFVLAN", hex 0x8983);
    ("SIOCBONDENSLAVE", hex 0x8990); ("SIOCBONDRELEASE", hex 0x8991);
    ("SIOCBONDSETHWADDR", hex 0x8992); ("SIOCBONDSLAVEINFOQUERY", hex 0x8993);
    ("SIOCBONDINFOQUERY", hex 0x8994); ("SIOCBONDCHANGEACTIVE", hex 0x8995);
    ("SIOCBRADDBR", hex 0x89a0); ("SIOCBRDELBR", hex 0x89a1); ("SIOCBRADDIF", hex 0x89a2);
    ("SIOCBRDELIF", hex 0x89a3); ("SIOCSHWTSTAMP", hex 0x89b0); ("SIOCGHWTSTAMP", hex 0x89b1)];
  Defines [
    ("SIOCDEVPRIVATE", hex 0x89F0)];
  Defines [
    ("SIOCPROTOPRIVATE", hex 0x89E0)]].
Definition header : header :=
  Header "linux/sockios.h" [Asm_generic_ioctls.header] (concat [
    defs_SIOCINQ]).
End Sockios.

(** ** [linux/netlink.h] *)

Module Netlink.
Definition defs_NETLINK_ROUTE : list decl := [
  Defines [
    ("NETLINK_ROUTE", dec 0); ("NETLINK_UNUSED", dec 1); ("NETLINK_USERSOCK", dec 2);
    ("NETLINK_FIREWALL", dec 3); ("NETLINK_SOCK_DIAG", dec 4); ("NETLINK_NFLOG", dec 5);
    ("NETLINK_XFRM", dec 6); ("NETLINK_SELINUX", dec 7); ("NETLINK_ISCSI", dec 8);
    ("NETLINK_AUDIT", dec 9); ("NETLINK_FIB_LOOKUP", dec 10); ("NETLINK_CONNECTOR", dec 11);
    ("NETLINK_NETFILTER", dec 12); ("NETLINK_IP6_FW", dec 13); ("NETLINK_DNRTMSG", dec 14);
    ("NETLINK_KOBJECT_UEVENT", dec 15); ("NETLINK_GENERIC", dec 16);
    ("NETLINK_SCSITRANSPORT", dec 18); ("NETLINK_ECRYPTFS", dec 19); ("NETLINK_RDMA", dec 20);
    ("NETLINK_CRYPTO", dec 21); ("NETLINK_SOCKEV", dec 22);
    ("NETLINK_INET_DIAG", Id "NETLINK_SOCK_DIAG"); ("NETLINK_ADB", dec 23); ("MAX_LINKS", dec 32)]].
Definition defs_NLM_F_REQUEST : list decl := [
  Defines [
    ("NLM_F_REQUEST", dec 1); ("NLM_F_MULTI", dec 2); ("NLM_F_ACK", dec 4);
    ("NLM_F_ECHO", dec 8); ("NLM_F_DUMP_INTR", dec 16); ("NLM_F_DUMP_FILTERED", dec 32);
    ("NLM_F_ROOT", hex 0x100); ("NLM_F_MATCH", hex 0x200); ("NLM_F_ATOMIC", hex 0x400);
    ("NLM_F_DUMP", Or (Id "NLM_F_ROOT") (Id "NLM_F_MATCH")); ("NLM_F_REPLACE", hex 0x100);
    ("NLM_F_EXCL", hex 0x200); ("NLM_F_CREATE", hex 0x400); ("NLM_F_APPEND", hex 0x800)];
  Defines [
    ("NLMSG_ALIGNTO", decU 4)]].
Definition defs_NLMSG_NOOP : list decl := [
  Defines [
    ("NLMSG_NOOP", hex 0x1); ("NLMSG_ERROR", hex 0x2); ("NLMSG_DONE", hex 0x3);
    ("NLMSG_OVERRUN", hex 0x4); ("NLMSG_MIN_TYPE", hex 0x10)]].
Definition defs_NETLINK_ADD_MEMBERSHIP : list decl := [
  Defines [
    ("NETLINK_ADD_MEMBERSHIP", dec 1); ("NETLINK_DROP_MEMBERSHIP", dec 2);
    ("NETLINK_PKTINFO", dec 3); ("NETLINK_BROADCAST_ERROR", dec 4);
    ("NETLINK_NO_ENOBUFS", dec 5); ("NETLINK_RX_RING", dec 6); ("NETLINK_TX_RING", dec 7);
    ("NETLINK_LISTEN_ALL_NSID", dec 8); ("NETLINK_LIST_MEMBERSHIPS", dec 9);
    ("NETLINK_CAP_ACK", dec 10)]].
Definition enum_nl_mmap_status : list decl := [
  Enum [
    ("NL_MMAP_STATUS_UNUSED", None); ("NL_MMAP_STATUS_RESERVED", None);
    ("NL_MMAP_STATUS_VALID", None); ("NL_MMAP_STATUS_COPY", None); ("NL_MMAP_STATUS_SKIP", None)];
  Defines [
    ("NL_MMAP_MSG_ALIGNMENT", Id "NLMSG_ALIGNTO")]].
Definition defs_NLA_F_NESTED : list decl := [
  Defines [
    ("NLA_F_NESTED", Shl (dec 1) (dec 15)); ("NLA_F_NET_BYTEORDER", Shl (dec 1) (dec 14));
    ("NLA_TYPE_MASK", Not (Or (Id "NLA_F_NESTED") (Id "NLA_F_NET_BYTEORDER")));
    ("NLA_ALIGNTO", dec 4)]].
Definition header : header :=
  Header "linux/netlink.h" [] (concat [
    defs_NETLINK_ROUTE; defs_NLM_F_REQUEST; defs_NLMSG_NOOP; defs_NETLINK_ADD_MEMBERSHIP;
    enum_nl_mmap_status; defs_NLA_F_NESTED]).
End Netlink.

(** ** [linux/if_frad.h] *)

Module If_frad.
Definition defs_DLCI_GET_SLAVE : list decl := [
  Defines [
    ("DLCI_GET_SLAVE", Add (Id "SIOCDEVPRIVATE") (dec 4)); ("DLCI_IGNORE_CIR_OUT", hex 0x0001);
    ("DLCI_ACCOUNT_CIR_IN", hex 0x0002); ("DLCI_BUFFER_IF", hex 0x0008);
    ("DLCI_VALID_FLAGS", hex 0x000B); ("FRAD_GET_CONF", Id "SIOCDEVPRIVATE");
    ("FRAD_SET_CONF", Add (Id "SIOCDEVPRIVATE") (dec 1)); ("FRAD_LAST_IOCTL", Id "FRAD_SET_CONF")]].
Definition defs_FRAD_STATION_CPE : list decl := [
  Defines [
    ("FRAD_STATION_CPE", hex 0x0000); ("FRAD_STATION_NODE", hex 0x0001);
    ("FRAD_TX_IGNORE_CIR", hex 0x0001); ("FRAD_RX_ACCOUNT_CIR", hex 0x0002);
    ("FRAD_DROP_ABORTED", hex 0x0004); ("FRAD_BUFFERIF", hex 0x0008); ("FRAD_STATS", hex 0x0010);
    ("FRAD_MCI", hex 0x0100); ("FRAD_AUTODLCI", hex 0x8000); ("FRAD_VALID_FLAGS", hex 0x811F);
    ("FRAD_CLOCK_INT", hex 0x0001); ("FRAD_CLOCK_EXT", hex 0x0000)]].
Definition header : header :=
  Header "linux/if_frad.h" [Sockios.header] (concat [
    defs_DLCI_GET_SLAVE; defs_FRAD_STATION_CPE]).
End If_frad.

(** ** [linux/ion.h] *)

Module Ion.
Definition enum_ion_heap_type : list decl := [
  Enum [
    ("ION_HEAP_TYPE_SYSTEM", None); ("ION_HEAP_TYPE_SYSTEM_CONTIG", None);
    ("ION_HEAP_TYPE_CARVEOUT", None); ("ION_HEAP_TYPE_CHUNK", None); ("ION_HEAP_TYPE_DMA", None);
    ("ION_HEAP_TYPE_CUSTOM", None); ("ION_NUM_HEAPS", Some (dec 16))];
  Defines [
    ("ION_HEAP_SYSTEM_MASK", Shl (dec 1) (Id "ION_HEAP_TYPE_SYSTEM"));
    ("ION_HEAP_SYSTEM_CONTIG_MASK", Shl (dec 1) (Id "ION_HEAP_TYPE_SYSTEM_CONTIG"));
    ("ION_HEAP_CARVEOUT_MASK", Shl (dec 1) (Id "ION_HEAP_TYPE_CARVEOUT"));
    ("ION_HEAP_TYPE_DMA_MASK", Shl (dec 1) (Id "ION_HEAP_TYPE_DMA"))]].
Definition header : header :=
  Header "linux/ion.h" [] (concat [
    enum_ion_heap_type]).
End Ion.

(** ** [linux/videodev2.h] *)

Module Videodev2.
Definition defs_VIDEO_MAX_FRAME : list decl := [
  Defines [
    ("VIDEO_MAX_FRAME", dec 64); ("VIDEO_MAX_PLANES", dec 8)]].
Definition enum_v4l2_field : list decl := [
  Enum [
    ("V4L2_FIELD_ANY", Some (dec 0)); ("V4L2_FIELD_NONE", Some (dec 1));
    ("V4L2_FIELD_TOP", Some (dec 2)); ("V4L2_FIELD_BOTTOM", Some (dec 3));
    ("V4L2_FIELD_INTERLACED", Some (dec 4)); ("V4L2_FIELD_SEQ_TB", Some (dec 5));
    ("V4L2_FIELD_SEQ_BT", Some (dec 6)); ("V4L2_FIELD_ALTERNATE", Some (dec 7));
    ("V4L2_FIELD_INTERLACED_TB", Some (dec 8)); ("V4L2_FIELD_INTERLACED_BT", Some (dec 9))]].
Definition enum_v4l2_buf_type : list decl := [
  Enum [
    ("V4L2_BUF_TYPE_VIDEO_CAPTURE", Some (dec 1)); ("V4L2_BUF_TYPE_VIDEO_OUTPUT", Some (dec 2));
    ("V4L2_BUF_TYPE_VIDEO_OVERLAY", Some (dec 3)); ("V4L2_BUF_TYPE_VBI_CAPTURE", Some (dec 4));
    ("V4L2_BUF_TYPE_VBI_OUTPUT", Some (dec 5));
    ("V4L2_BUF_TYPE_SLICED_VBI_CAPTURE", Some (dec 6));
    ("V4L2_BUF_TYPE_SLICED_VBI_OUTPUT", Some (dec 7));
    ("V4L2_BUF_TYPE_VIDEO_OUTPUT_OVERLAY", Some (dec 8));
    ("V4L2_BUF_TYPE_VIDEO_CAPTURE_MPLANE", Some (dec 9));
    ("V4L2_BUF_TYPE_VIDEO_OUTPUT_MPLANE", Some (dec 10));
    ("V4L2_BUF_TYPE_SDR_CAPTURE", Some (dec 11)); ("V4L2_BUF_TYPE_SDR_OUTPUT", Some (dec 12));
    ("V4L2_BUF_TYPE_PRIVATE", Some (hex 0x80))]].
Definition enum_v4l2_tuner_type : list decl := [
  Enum [
    ("V4L2_TUNER_RADIO", Some (dec 1)); ("V4L2_TUNER_ANALOG_TV", Some (dec 2));
    ("V4L2_TUNER_DIGITAL_TV", Some (dec 3)); ("V4L2_TUNER_SDR", Some (dec 4));
    ("V4L2_TUNER_RF", Some (dec 5))];
  Defines [
    ("V4L2_TUNER_ADC", Id "V4L2_TUNER_SDR")];
  Enum [
    ("V4L2_MEMORY_MMAP", Some (dec 1)); ("V4L2_MEMORY_USERPTR", Some (dec 2));
    ("V4L2_MEMORY_OVERLAY", Some (dec 3)); ("V4L2_MEMORY_DMABUF", Some (dec 4))];
  Enum [
    ("V4L2_COLORSPACE_DEFAULT", Some (dec 0)); ("V4L2_COLORSPACE_SMPTE170M", Some (dec 1));
    ("V4L2_COLORSPACE_SMPTE240M", Some (dec 2)); ("V4L2_COLORSPACE_REC709", Some (dec 3));
    ("V4L2_COLORSPACE_BT878", Some (dec 4)); ("V4L2_COLORSPACE_470_SYSTEM_M", Some (dec 5));
    ("V4L2_COLORSPACE_470_SYSTEM_BG", Some (dec 6)); ("V4L2_COLORSPACE_JPEG", Some (dec 7));
    ("V4L2_COLORSPACE_SRGB", Some (dec 8)); ("V4L2_COLORSPACE_ADOBERGB", Some (dec 9));
    ("V4L2_COLORSPACE_BT2020", Some (dec 10)); ("V4L2_COLORSPACE_RAW", Some (dec 11));
    ("V4L2_COLORSPACE_DCI_P3", Some (dec 12))]].
Definition enum_v4l2_xfer_func : list decl := [
  Enum [
    ("V4L2_XFER_FUNC_DEFAULT", Some (dec 0)); ("V4L2_XFER_FUNC_709", Some (dec 1));
    ("V4L2_XFER_FUNC_SRGB", Some (dec 2)); ("V4L2_XFER_FUNC_ADOBERGB", Some (dec 3));
    ("V4L2_XFER_FUNC_SMPTE240M", Some (dec 4)); ("V4L2_XFER_FUNC_NONE", Some (dec 5));
    ("V4L2_XFER_FUNC_DCI_P3", Some (dec 6)); ("V4L2_XFER_FUNC_SMPTE2084", Some (dec 7))]].
Definition enum_v4l2_ycbcr_encoding : list decl := [
  Enum [
    ("V4L2_YCBCR_ENC_DEFAULT", Some (dec 0)); ("V4L2_YCBCR_ENC_601", Some (dec 1));
    ("V4L2_YCBCR_ENC_709", Some (dec 2)); ("V4L2_YCBCR_ENC_XV601", Some (dec 3));
    ("V4L2_YCBCR_ENC_XV709", Some (dec 4)); ("V4L2_YCBCR_ENC_SYCC", Some (dec 5));
    ("V4L2_YCBCR_ENC_BT2020", Some (dec 6)); ("V4L2_YCBCR_ENC_BT2020_CONST_LUM", Some (dec 7));
    ("V4L2_YCBCR_ENC_SMPTE240M", Some (dec 8))]].
Definition enum_v4l2_quantization : list decl := [
  Enum [
    ("V4L2_QUANTIZATION_DEFAULT", Some (dec 0)); ("V4L2_QUANTIZATION_FULL_RANGE", Some (dec 1));
    ("V4L2_QUANTIZATION_LIM_RANGE", Some (dec 2))]].
Definition enum_v4l2_priority : list decl := [
  Enum [
    ("V4L2_PRIORITY_UNSET", Some (dec 0)); ("V4L2_PRIORITY_BACKGROUND", Some (dec 1));
    ("V4L2_PRIORITY_INTERACTIVE", Some (dec 2)); ("V4L2_PRIORITY_RECORD", Some (dec 3));
    ("V4L2_PRIORITY_DEFAULT", Some (Id "V4L2_PRIORITY_INTERACTIVE"))]].
Definition defs_V4L2_CAP_VIDEO_CAPTURE : list decl := [
  Defines [
    ("V4L2_CAP_VIDEO_CAPTURE", hex 0x00000001); ("V4L2_CAP_VIDEO_OUTPUT", hex 0x00000002);
    ("V4L2_CAP_VIDEO_OVERLAY", hex 0x00000004); ("V4L2_CAP_VBI_CAPTURE", hex 0x00000010);
    ("V4L2_CAP_VBI_OUTPUT", hex 0x00000020); ("V4L2_CAP_SLICED_VBI_CAPTURE", hex 0x00000040);
    ("V4L2_CAP_SLICED_VBI_OUTPUT", hex 0x00000080); ("V4L2_CAP_RDS_CAPTURE", hex 0x00000100);
    ("V4L2_CAP_VIDEO_OUTPUT_OVERLAY", hex 0x00000200); ("V4L2_CAP_HW_FREQ_SEEK", hex 0x00000400);
    ("V4L2_CAP_RDS_OUTPUT", hex 0x00000800); ("V4L2_CAP_VIDEO_CAPTURE_MPLANE", hex 0x00001000);
    ("V4L2_CAP_VIDEO_OUTPUT_MPLANE", hex 0x00002000);
    ("V4L2_CAP_VIDEO_M2M_MPLANE", hex 0x00004000); ("V4L2_CAP_VIDEO_M2M", hex 0x00008000);
    ("V4L2_CAP_TUNER", hex 0x00010000); ("V4L2_CAP_AUDIO", hex 0x00020000);
    ("V4L2_CAP_RADIO", hex 0x00040000); ("V4L2_CAP_MODULATOR", hex 0x00080000);
    ("V4L2_CAP_SDR_CAPTURE", hex 0x00100000); ("V4L2_CAP_EXT_PIX_FORMAT", hex 0x00200000);
    ("V4L2_CAP_SDR_OUTPUT", hex 0x00400000); ("V4L2_CAP_READWRITE", hex 0x01000000);
    ("V4L2_CAP_ASYNCIO", hex 0x02000000); ("V4L2_CAP_STREAMING", hex 0x04000000);
    ("V4L2_CAP_DEVICE_CAPS", hex 0x80000000)]].
Definition enum_v4l2_frmsizetypes : list decl := [
  Enum [
    ("V4L2_FRMSIZE_TYPE_DISCRETE", Some (dec 1)); ("V4L2_FRMSIZE_TYPE_CONTINUOUS", Some (dec 2));
    ("V4L2_FRMSIZE_TYPE_STEPWISE", Some (dec 3))]].
Definition enum_v4l2_frmivaltypes : list decl := [
  Enum [
    ("V4L2_FRMIVAL_TYPE_DISCRETE", Some (dec 1)); ("V4L2_FRMIVAL_TYPE_CONTINUOUS", Some (dec 2));
    ("V4L2_FRMIVAL_TYPE_STEPWISE", Some (dec 3))]].
Definition defs_V4L2_TC_TYPE_24FPS : list decl := [
  Defines [
    ("V4L2_TC_TYPE_24FPS", dec 1); ("V4L2_TC_TYPE_25FPS", dec 2); ("V4L2_TC_TYPE_30FPS", dec 3);
    ("V4L2_TC_TYPE_50FPS", dec 4); ("V4L2_TC_TYPE_60FPS", dec 5);
    ("V4L2_TC_FLAG_DROPFRAME", hex 0x0001); ("V4L2_TC_FLAG_COLORFRAME", hex 0x0002);
    ("V4L2_TC_USERBITS_field", hex 0x000C); ("V4L2_TC_USERBITS_USERDEFINED", hex 0x0000);
    ("V4L2_TC_USERBITS_8BITCHARS", hex 0x0008)]].
Definition defs_V4L2_BUF_FLAG_MAPPED : list decl := [
  Defines [
    ("V4L2_BUF_FLAG_MAPPED", hex 0x00000001); ("V4L2_BUF_FLAG_QUEUED", hex 0x00000002);
    ("V4L2_BUF_FLAG_DONE", hex 0x00000004); ("V4L2_BUF_FLAG_KEYFRAME", hex 0x00000008);
    ("V4L2_BUF_FLAG_PFRAME", hex 0x00000010); ("V4L2_BUF_FLAG_BFRAME", hex 0x00000020);
    ("V4L2_BUF_FLAG_ERROR", hex 0x00000040); ("V4L2_BUF_FLAG_TIMECODE", hex 0x00000100);
    ("V4L2_BUF_FLAG_PREPARED", hex 0x00000400);
    ("V4L2_BUF_FLAG_NO_CACHE_INVALIDATE", hex 0x00000800);
    ("V4L2_BUF_FLAG_NO_CACHE_CLEAN", hex 0x00001000);
    ("V4L2_BUF_FLAG_TIMESTAMP_MASK", hex 0x0000e000);
    ("V4L2_BUF_FLAG_TIMESTAMP_UNKNOWN", hex 0x00000000);
    ("V4L2_BUF_FLAG_TIMESTAMP_MONOTONIC", hex 0x00002000);
    ("V4L2_BUF_FLAG_TIMESTAMP_COPY", hex 0x00004000);
    ("V4L2_BUF_FLAG_TSTAMP_SRC_MASK", hex 0x00070000);
    ("V4L2_BUF_FLAG_TSTAMP_SRC_EOF", hex 0x00000000);
    ("V4L2_BUF_FLAG_TSTAMP_SRC_SOE", hex 0x00010000); ("V4L2_BUF_FLAG_LAST", hex 0x00100000);
    ("V4L2_QCOM_BUF_FLAG_CODECCONFIG", hex 0x00020000);
    ("V4L2_QCOM_BUF_FLAG_EOSEQ", hex 0x00040000);
    ("V4L2_QCOM_BUF_TIMESTAMP_INVALID", hex 0x00080000);
    ("V4L2_QCOM_BUF_FLAG_DECODEONLY", hex 0x00200000);
    ("V4L2_QCOM_BUF_DATA_CORRUPT", hex 0x00400000); ("V4L2_QCOM_BUF_DROP_FRAME", hex 0x00800000);
    ("V4L2_QCOM_BUF_INPUT_UNSUPPORTED", hex 0x01000000);
    ("V4L2_QCOM_BUF_FLAG_EOS", hex 0x02000000); ("V4L2_QCOM_BUF_FLAG_READONLY", hex 0x04000000);
    ("V4L2_MSM_VIDC_BUF_START_CODE_NOT_FOUND", hex 0x08000000);
    ("V4L2_MSM_BUF_FLAG_YUV_601_709_CLAMP", hex 0x10000000);
    ("V4L2_MSM_BUF_FLAG_MBAFF", hex 0x20000000); ("V4L2_MSM_BUF_FLAG_DEFER", hex 0x40000000);
    ("V4L2_QCOM_BUF_FLAG_IDRFRAME", hex 0x80000000)]].
Definition defs_V4L2_FBUF_CAP_EXTERNOVERLAY : list decl := [
  Defines [
    ("V4L2_FBUF_CAP_EXTERNOVERLAY", hex 0x0001); ("V4L2_FBUF_CAP_CHROMAKEY", hex 0x0002);
    ("V4L2_FBUF_CAP_LIST_CLIPPING", hex 0x0004); ("V4L2_FBUF_CAP_BITMAP_CLIPPING", hex 0x0008);
    ("V4L2_FBUF_CAP_LOCAL_ALPHA", hex 0x0010); ("V4L2_FBUF_CAP_GLOBAL_ALPHA", hex 0x0020);
    ("V4L2_FBUF_CAP_LOCAL_INV_ALPHA", hex 0x0040); ("V4L2_FBUF_CAP_SRC_CHROMAKEY", hex 0x0080);
    ("V4L2_FBUF_FLAG_PRIMARY", hex 0x0001); ("V4L2_FBUF_FLAG_OVERLAY", hex 0x0002);
    ("V4L2_FBUF_FLAG_CHROMAKEY", hex 0x0004); ("V4L2_FBUF_FLAG_LOCAL_ALPHA", hex 0x0008);
    ("V4L2_FBUF_FLAG_GLOBAL_ALPHA", hex 0x0010); ("V4L2_FBUF_FLAG_LOCAL_INV_ALPHA", hex 0x0020);
    ("V4L2_FBUF_FLAG_SRC_CHROMAKEY", hex 0x0040)]].
Definition defs_V4L2_DV_PROGRESSIVE : list decl := [
  Defines [
    ("V4L2_DV_PROGRESSIVE", dec 0); ("V4L2_DV_INTERLACED", dec 1);
    ("V4L2_DV_VSYNC_POS_POL", hex 0x00000001); ("V4L2_DV_HSYNC_POS_POL", hex 0x00000002);
    ("V4L2_DV_BT_STD_CEA861", Shl (dec 1) (dec 0)); ("V4L2_DV_BT_STD_DMT", Shl (dec 1) (dec 1));
    ("V4L2_DV_BT_STD_CVT", Shl (dec 1) (dec 2)); ("V4L2_DV_BT_STD_GTF", Shl (dec 1) (dec 3))]].
Definition defs_V4L2_DV_BT_CAP_INTERLACED : list decl := [
  Defines [
    ("V4L2_DV_BT_CAP_INTERLACED", Shl (dec 1) (dec 0));
    ("V4L2_DV_BT_CAP_PROGRESSIVE", Shl (dec 1) (dec 1));
    ("V4L2_DV_BT_CAP_REDUCED_BLANKING", Shl (dec 1) (dec 2));
    ("V4L2_DV_BT_CAP_CUSTOM", Shl (dec 1) (dec 3))]].
Definition defs_V4L2_INPUT_TYPE_TUNER : list decl := [
  Defines [
    ("V4L2_INPUT_TYPE_TUNER", dec 1); ("V4L2_INPUT_TYPE_CAMERA", dec 2);
    ("V4L2_IN_ST_NO_POWER", hex 0x00000001); ("V4L2_IN_ST_NO_SIGNAL", hex 0x00000002);
    ("V4L2_IN_ST_NO_COLOR", hex 0x00000004); ("V4L2_IN_ST_HFLIP", hex 0x00000010);
    ("V4L2_IN_ST_VFLIP", hex 0x00000020); ("V4L2_IN_ST_NO_H_LOCK", hex 0x00000100);
    ("V4L2_IN_ST_COLOR_KILL", hex 0x00000200); ("V4L2_IN_ST_NO_SYNC", hex 0x00010000);
    ("V4L2_IN_ST_NO_EQU", hex 0x00020000); ("V4L2_IN_ST_NO_CARRIER", hex 0x00040000);
    ("V4L2_IN_ST_MACROVISION", hex 0x01000000); ("V4L2_IN_ST_NO_ACCESS", hex 0x02000000);
    ("V4L2_IN_ST_VTR", hex 0x04000000); ("V4L2_IN_CAP_DV_TIMINGS", hex 0x00000002);
    ("V4L2_IN_CAP_CUSTOM_TIMINGS", Id "V4L2_IN_CAP_DV_TIMINGS");
    ("V4L2_IN_CAP_STD", hex 0x00000004); ("V4L2_IN_CAP_NATIVE_SIZE", hex 0x00000008)]].
Definition defs_V4L2_OUTPUT_TYPE_MODULATOR : list decl := [
  Defines [
    ("V4L2_OUTPUT_TYPE_MODULATOR", dec 1); ("V4L2_OUTPUT_TYPE_ANALOG", dec 2);
    ("V4L2_OUTPUT_TYPE_ANALOGVGAOVERLAY", dec 3); ("V4L2_OUT_CAP_DV_TIMINGS", hex 0x00000002);
    ("V4L2_OUT_CAP_CUSTOM_TIMINGS", Id "V4L2_OUT_CAP_DV_TIMINGS");
    ("V4L2_OUT_CAP_STD", hex 0x00000004); ("V4L2_OUT_CAP_NATIVE_SIZE", hex 0x00000008)]].
Definition enum_v4l2_ctrl_type : list decl := [
  Enum [
    ("V4L2_CTRL_TYPE_INTEGER", Some (dec 1)); ("V4L2_CTRL_TYPE_BOOLEAN", Some (dec 2));
    ("V4L2_CTRL_TYPE_MENU", Some (dec 3)); ("V4L2_CTRL_TYPE_BUTTON", Some (dec 4));
    ("V4L2_CTRL_TYPE_INTEGER64", Some (dec 5)); ("V4L2_CTRL_TYPE_CTRL_CLASS", Some (dec 6));
    ("V4L2_CTRL_TYPE_STRING", Some (dec 7)); ("V4L2_CTRL_TYPE_BITMASK", Some (dec 8));
    ("V4L2_CTRL_TYPE_INTEGER_MENU", Some (dec 9));
    ("V4L2_CTRL_COMPOUND_TYPES", Some (hex 0x0100)); ("V4L2_CTRL_TYPE_U8", Some (hex 0x0100));
    ("V4L2_CTRL_TYPE_U16", Some (hex 0x0101)); ("V4L2_CTRL_TYPE_U32", Some (hex 0x0102))]].
Definition defs_V4L2_CTRL_FLAG_DISABLED : list decl := [
  Defines [
    ("V4L2_CTRL_FLAG_DISABLED", hex 0x0001); ("V4L2_CTRL_FLAG_GRABBED", hex 0x0002);
    ("V4L2_CTRL_FLAG_READ_ONLY", hex 0x0004); ("V4L2_CTRL_FLAG_UPDATE", hex 0x0008);
    ("V4L2_CTRL_FLAG_INACTIVE", hex 0x0010); ("V4L2_CTRL_FLAG_SLIDER", hex 0x0020);
    ("V4L2_CTRL_FLAG_WRITE_ONLY", hex 0x0040); ("V4L2_CTRL_FLAG_VOLATILE", hex 0x0080);
    ("V4L2_CTRL_FLAG_HAS_PAYLOAD", hex 0x0100); ("V4L2_CTRL_FLAG_EXECUTE_ON_WRITE", hex 0x0200);
    ("V4L2_CTRL_FLAG_MODIFY_LAYOUT", hex 0x0400); ("V4L2_CTRL_FLAG_NEXT_CTRL", hex 0x80000000);
    ("V4L2_CTRL_FLAG_NEXT_COMPOUND", hex 0x40000000); ("V4L2_CID_MAX_CTRLS", dec 1024);
    ("V4L2_CID_PRIVATE_BASE", hex 0x08000000)]].
Definition defs_V4L2_TUNER_CAP_LOW : list decl := [
  Defines [
    ("V4L2_TUNER_CAP_LOW", hex 0x0001); ("V4L2_TUNER_CAP_NORM", hex 0x0002);
    ("V4L2_TUNER_CAP_HWSEEK_BOUNDED", hex 0x0004); ("V4L2_TUNER_CAP_HWSEEK_WRAP", hex 0x0008);
    ("V4L2_TUNER_CAP_STEREO", hex 0x0010); ("V4L2_TUNER_CAP_LANG2", hex 0x0020);
    ("V4L2_TUNER_CAP_SAP", hex 0x0020); ("V4L2_TUNER_CAP_LANG1", hex 0x0040);
    ("V4L2_TUNER_CAP_RDS", hex 0x0080); ("V4L2_TUNER_CAP_RDS_BLOCK_IO", hex 0x0100);
    ("V4L2_TUNER_CAP_RDS_CONTROLS", hex 0x0200); ("V4L2_TUNER_CAP_FREQ_BANDS", hex 0x0400);
    ("V4L2_TUNER_CAP_HWSEEK_PROG_LIM", hex 0x0800); ("V4L2_TUNER_CAP_1HZ", hex 0x1000);
    ("V4L2_TUNER_SUB_MONO", hex 0x0001); ("V4L2_TUNER_SUB_STEREO", hex 0x0002);
    ("V4L2_TUNER_SUB_LANG2", hex 0x0004); ("V4L2_TUNER_SUB_SAP", hex 0x0004);
    ("V4L2_TUNER_SUB_LANG1", hex 0x0008); ("V4L2_TUNER_SUB_RDS", hex 0x0010);
    ("V4L2_TUNER_MODE_MONO", hex 0x0000); ("V4L2_TUNER_MODE_STEREO", hex 0x0001);
    ("V4L2_TUNER_MODE_LANG2", hex 0x0002); ("V4L2_TUNER_MODE_SAP", hex 0x0002);
    ("V4L2_TUNER_MODE_LANG1", hex 0x0003); ("V4L2_TUNER_MODE_LANG1_LANG2", hex 0x0004)]].
Definition defs_V4L2_RDS_BLOCK_MSK : list decl := [
  Defines [
    ("V4L2_RDS_BLOCK_MSK", hex 0x7); ("V4L2_RDS_BLOCK_A", dec 0); ("V4L2_RDS_BLOCK_B", dec 1);
    ("V4L2_RDS_BLOCK_C", dec 2); ("V4L2_RDS_BLOCK_D", dec 3); ("V4L2_RDS_BLOCK_C_ALT", dec 4);
    ("V4L2_RDS_BLOCK_INVALID", dec 7); ("V4L2_RDS_BLOCK_CORRECTED", hex 0x40);
    ("V4L2_RDS_BLOCK_ERROR", hex 0x80)]].
Definition defs_V4L2_ENC_IDX_FRAME_I : list decl := [
  Defines [
    ("V4L2_ENC_IDX_FRAME_I", dec 0); ("V4L2_ENC_IDX_FRAME_P", dec 1);
    ("V4L2_ENC_IDX_FRAME_B", dec 2); ("V4L2_ENC_IDX_FRAME_MASK", hex 0xf)]].
Definition defs_V4L2_ENC_CMD_START : list decl := [
  Defines [
    ("V4L2_ENC_CMD_START", dec 0); ("V4L2_ENC_CMD_STOP", dec 1); ("V4L2_ENC_CMD_PAUSE", dec 2);
    ("V4L2_ENC_CMD_RESUME", dec 3); ("V4L2_ENC_QCOM_CMD_FLUSH", dec 4);
    ("V4L2_ENC_CMD_STOP_AT_GOP_END", Shl (dec 1) (dec 0))]].
Definition defs_V4L2_DEC_CMD_START : list decl := [
  Defines [
    ("V4L2_DEC_CMD_START", dec 0); ("V4L2_DEC_CMD_STOP", dec 1); ("V4L2_DEC_CMD_PAUSE", dec 2);
    ("V4L2_DEC_CMD_RESUME", dec 3); ("V4L2_DEC_QCOM_CMD_FLUSH", dec 4);
    ("V4L2_DEC_QCOM_CMD_RECONFIG_HINT", dec 5);
    ("V4L2_DEC_CMD_START_MUTE_AUDIO", Shl (dec 1) (dec 0));
    ("V4L2_DEC_CMD_PAUSE_TO_BLACK", Shl (dec 1) (dec 0));
    ("V4L2_DEC_CMD_STOP_TO_BLACK", Shl (dec 1) (dec 0));
    ("V4L2_DEC_CMD_STOP_IMMEDIATELY", Shl (dec 1) (dec 1));
    ("V4L2_DEC_QCOM_CMD_FLUSH_OUTPUT", Shl (dec 1) (dec 0));
    ("V4L2_DEC_QCOM_CMD_FLUSH_CAPTURE", Shl (dec 1) (dec 1));
    ("V4L2_QCOM_CMD_FLUSH_OUTPUT", Shl (dec 1) (dec 0));
    ("V4L2_QCOM_CMD_FLUSH_CAPTURE", Shl (dec 1) (dec 1))]].
Definition defs_V4L2_VBI_UNSYNC : list decl := [
  Defines [
    ("V4L2_VBI_UNSYNC", Shl (dec 1) (dec 0)); ("V4L2_VBI_INTERLACED", Shl (dec 1) (dec 1));
    ("V4L2_VBI_ITU_525_F1_START", dec 1); ("V4L2_VBI_ITU_525_F2_START", dec 264);
    ("V4L2_VBI_ITU_625_F1_START", dec 1); ("V4L2_VBI_ITU_625_F2_START", dec 314)]].
Definition defs_V4L2_SLICED_TELETEXT_B : list decl := [
  Defines [
    ("V4L2_SLICED_TELETEXT_B", hex 0x0001); ("V4L2_SLICED_VPS", hex 0x0400);
    ("V4L2_SLICED_CAPTION_525", hex 0x1000); ("V4L2_SLICED_WSS_625", hex 0x4000);
    ("V4L2_SLICED_VBI_525", Id "V4L2_SLICED_CAPTION_525");
    ("V4L2_SLICED_VBI_625", Or (Or (Id "V4L2_SLICED_TELETEXT_B") (Id "V4L2_SLICED_VPS")) (Id "V4L2_SLICED_WSS_625"))]].
Definition defs_V4L2_MPEG_VBI_IVTV_TELETEXT_B : list decl := [
  Defines [
    ("V4L2_MPEG_VBI_IVTV_TELETEXT_B", dec 1); ("V4L2_MPEG_VBI_IVTV_CAPTION_525", dec 4);
    ("V4L2_MPEG_VBI_IVTV_WSS_625", dec 5); ("V4L2_MPEG_VBI_IVTV_VPS", dec 7)]].
Definition defs_V4L2_EVENT_ALL : list decl := [
  Defines [
    ("V4L2_EVENT_ALL", dec 0); ("V4L2_EVENT_VSYNC", dec 1); ("V4L2_EVENT_EOS", dec 2);
    ("V4L2_EVENT_CTRL", dec 3); ("V4L2_EVENT_FRAME_SYNC", dec 4);
    ("V4L2_EVENT_SOURCE_CHANGE", dec 5); ("V4L2_EVENT_MOTION_DET", dec 6);
    ("V4L2_EVENT_PRIVATE_START", hex 0x08000000); ("V4L2_EVENT_BITDEPTH_FLAG", hex 0x1);
    ("V4L2_EVENT_PICSTRUCT_FLAG", hex 0x2); ("V4L2_EVENT_COLOUR_SPACE_FLAG", hex 0x4);
    ("V4L2_EVENT_MSM_VIDC_START", Add (Id "V4L2_EVENT_PRIVATE_START") (hex 0x00001000));
    ("V4L2_EVENT_MSM_VIDC_FLUSH_DONE", Add (Id "V4L2_EVENT_MSM_VIDC_START") (dec 1));
    ("V4L2_EVENT_MSM_VIDC_PORT_SETTINGS_CHANGED_SUFFICIENT", Add (Id "V4L2_EVENT_MSM_VIDC_START") (dec 2));
    ("V4L2_EVENT_MSM_VIDC_PORT_SETTINGS_CHANGED_INSUFFICIENT", Add (Id "V4L2_EVENT_MSM_VIDC_START") (dec 3))];
  Defines [
    ("V4L2_EVENT_MSM_VIDC_PORT_SETTINGS_BITDEPTH_CHANGED_INSUFFICIENT", Add (Id "V4L2_EVENT_MSM_VIDC_START") (dec 4));
    ("V4L2_EVENT_MSM_VIDC_SYS_ERROR", Add (Id "V4L2_EVENT_MSM_VIDC_START") (dec 5));
    ("V4L2_EVENT_MSM_VIDC_RELEASE_BUFFER_REFERENCE", Add (Id "V4L2_EVENT_MSM_VIDC_START") (dec 6));
    ("V4L2_EVENT_MSM_VIDC_RELEASE_UNQUEUED_BUFFER", Add (Id "V4L2_EVENT_MSM_VIDC_START") (dec 7));
    ("V4L2_EVENT_MSM_VIDC_HW_OVERLOAD", Add (Id "V4L2_EVENT_MSM_VIDC_START") (dec 8));
    ("V4L2_EVENT_MSM_VIDC_MAX_CLIENTS", Add (Id "V4L2_EVENT_MSM_VIDC_START") (dec 9));
    ("V4L2_EVENT_MSM_VIDC_HW_UNSUPPORTED", Add (Id "V4L2_EVENT_MSM_VIDC_START") (dec 10));
    ("V4L2_EVENT_MSM_BA_PRIVATE_EVENT_BASE", Add (Id "V4L2_EVENT_PRIVATE_START") (hex 0x00005000));
    ("V4L2_EVENT_MSM_BA_START", Id "V4L2_EVENT_MSM_BA_PRIVATE_EVENT_BASE");
    ("V4L2_EVENT_MSM_BA_DEVICE_AVAILABLE", Add (Id "V4L2_EVENT_MSM_BA_START") (dec 1));
    ("V4L2_EVENT_MSM_BA_DEVICE_UNAVAILABLE", Add (Id "V4L2_EVENT_MSM_BA_START") (dec 2));
    ("V4L2_EVENT_MSM_BA_PORT_SETTINGS_CHANGED", Add (Id "V4L2_EVENT_MSM_BA_START") (dec 3));
    ("V4L2_EVENT_MSM_BA_SIGNAL_IN_LOCK", Add (Id "V4L2_EVENT_MSM_BA_START") (dec 4));
    ("V4L2_EVENT_MSM_BA_SIGNAL_LOST_LOCK", Add (Id "V4L2_EVENT_MSM_BA_START") (dec 5));
    ("V4L2_EVENT_MSM_BA_SOURCE_CHANGE", Add (Id "V4L2_EVENT_MSM_BA_START") (dec 6));
    ("V4L2_EVENT_MSM_BA_HDMI_HPD", Add (Id "V4L2_EVENT_MSM_BA_START") (dec 7));
    ("V4L2_EVENT_MSM_BA_HDMI_CEC_MESSAGE", Add (Id "V4L2_EVENT_MSM_BA_START") (dec 8));
    ("V4L2_EVENT_MSM_BA_CP", Add (Id "V4L2_EVENT_MSM_BA_START") (dec 9));
    ("V4L2_EVENT_MSM_BA_CABLE_DETECT", Add (Id "V4L2_EVENT_MSM_BA_START") (dec 10));
    ("V4L2_EVENT_MSM_BA_ERROR", Add (Id "V4L2_EVENT_MSM_BA_START") (dec 11))]].
Definition defs_V4L2_CHIP_MATCH_BRIDGE : list decl := [
  Defines [
    ("V4L2_CHIP_MATCH_BRIDGE", dec 0); ("V4L2_CHIP_MATCH_SUBDEV", dec 4);
    ("V4L2_CHIP_MATCH_HOST", Id "V4L2_CHIP_MATCH_BRIDGE"); ("V4L2_CHIP_MATCH_I2C_DRIVER", dec 1);
    ("V4L2_CHIP_MATCH_I2C_ADDR", dec 2); ("V4L2_CHIP_MATCH_AC97", dec 3)]].
Definition defs_BASE_VIDIOC_PRIVATE : list decl := [
  Defines [
    ("BASE_VIDIOC_PRIVATE", dec 192)]].
Definition header : header :=
  Header "linux/videodev2.h" [] (concat [
    defs_VIDEO_MAX_FRAME; enum_v4l2_field; enum_v4l2_buf_type; enum_v4l2_tuner_type;
    enum_v4l2_xfer_func; enum_v4l2_ycbcr_encoding; enum_v4l2_quantization; enum_v4l2_priority;
    defs_V4L2_CAP_VIDEO_CAPTURE; enum_v4l2_frmsizetypes; enum_v4l2_frmivaltypes;
    defs_V4L2_TC_TYPE_24FPS; defs_V4L2_BUF_FLAG_MAPPED; defs_V4L2_FBUF_CAP_EXTERNOVERLAY;
    defs_V4L2_DV_PROGRESSIVE; defs_V4L2_DV_BT_CAP_INTERLACED; defs_V4L2_INPUT_TYPE_TUNER;
    defs_V4L2_OUTPUT_TYPE_MODULATOR; enum_v4l2_ctrl_type; defs_V4L2_CTRL_FLAG_DISABLED;
    defs_V4L2_TUNER_CAP_LOW; defs_V4L2_RDS_BLOCK_MSK; defs_V4L2_ENC_IDX_FRAME_I;
    defs_V4L2_ENC_CMD_START; defs_V4L2_DEC_CMD_START; defs_V4L2_VBI_UNSYNC;
    defs_V4L2_SLICED_TELETEXT_B; defs_V4L2_MPEG_VBI_IVTV_TELETEXT_B; defs_V4L2_EVENT_ALL;
    defs_V4L2_CHIP_MATCH_BRIDGE; defs_BASE_VIDIOC_PRIVATE]).
End Videodev2.

(** ** [linux/limits.h] *)

Module Limits.
Definition defs_NR_OPEN : list decl := [
  Defines [
    ("NR_OPEN", dec 1024); ("NGROUPS_MAX", dec 65536); ("ARG_MAX", dec 131072);
    ("LINK_MAX", dec 127); ("MAX_CANON", dec 255); ("MAX_INPUT", dec 255); ("NAME_MAX", dec 255);
    ("PATH_MAX", dec 4096); ("PIPE_BUF", dec 4096); ("XATTR_NAME_MAX", dec 255);
    ("XATTR_SIZE_MAX", dec 65536); ("XATTR_LIST_MAX", dec 65536); ("RTSIG_MAX", dec 32)]].
Definition header : header :=
  Header "linux/limits.h" [] (concat [
    defs_NR_OPEN]).
End Limits.

(** ** [linux/mii.h] *)

Module Mii.
Definition defs_MII_BMCR : list decl := [
  Defines [
    ("MII_BMCR", hex 0x00); ("MII_BMSR", hex 0x01); ("MII_PHYSID1", hex 0x02);
    ("MII_PHYSID2", hex 0x03); ("MII_ADVERTISE", hex 0x04); ("MII_LPA", hex 0x05);
    ("MII_EXPANSION", hex 0x06); ("MII_CTRL1000", hex 0x09); ("MII_STAT1000", hex 0x0a);
    ("MII_MMD_CTRL", hex 0x0d); ("MII_MMD_DATA", hex 0x0e); ("MII_ESTATUS", hex 0x0f);
    ("MII_DCOUNTER", hex 0x12); ("MII_FCSCOUNTER", hex 0x13); ("MII_NWAYTEST", hex 0x14);
    ("MII_RERRCOUNTER", hex 0x15); ("MII_SREVISION", hex 0x16); ("MII_RESV1", hex 0x17);
    ("MII_LBRERROR", hex 0x18); ("MII_PHYADDR", hex 0x19); ("MII_RESV2", hex 0x1a);
    ("MII_TPISTATUS", hex 0x1b); ("MII_NCONFIG", hex 0x1c); ("BMCR_RESV", hex 0x003f);
    ("BMCR_SPEED1000", hex 0x0040); ("BMCR_CTST", hex 0x0080); ("BMCR_FULLDPLX", hex 0x0100);
    ("BMCR_ANRESTART", hex 0x0200); ("BMCR_ISOLATE", hex 0x0400); ("BMCR_PDOWN", hex 0x0800);
    ("BMCR_ANENABLE", hex 0x1000); ("BMCR_SPEED100", hex 0x2000); ("BMCR_LOOPBACK", hex 0x4000);
    ("BMCR_RESET", hex 0x8000); ("BMSR_ERCAP", hex 0x0001); ("BMSR_JCD", hex 0x0002);
    ("BMSR_LSTATUS", hex 0x0004); ("BMSR_ANEGCAPABLE", hex 0x0008); ("BMSR_RFAULT", hex 0x0010);
    ("BMSR_ANEGCOMPLETE", hex 0x0020); ("BMSR_RESV", hex 0x00c0); ("BMSR_ESTATEN", hex 0x0100);
    ("BMSR_100HALF2", hex 0x0200); ("BMSR_100FULL2", hex 0x0400); ("BMSR_10HALF", hex 0x0800);
    ("BMSR_10FULL", hex 0x1000); ("BMSR_100HALF", hex 0x2000); ("BMSR_100FULL", hex 0x4000);
    ("BMSR_100BASE4", hex 0x8000); ("ADVERTISE_SLCT", hex 0x001f);
    ("ADVERTISE_CSMA", hex 0x0001); ("ADVERTISE_10HALF", hex 0x0020);
    ("ADVERTISE_1000XFULL", hex 0x0020); ("ADVERTISE_10FULL", hex 0x0040);
    ("ADVERTISE_1000XHALF", hex 0x0040); ("ADVERTISE_100HALF", hex 0x0080);
    ("ADVERTISE_1000XPAUSE", hex 0x0080); ("ADVERTISE_100FULL", hex 0x0100);
    ("ADVERTISE_1000XPSE_ASYM", hex 0x0100); ("ADVERTISE_100BASE4", hex 0x0200);
    ("ADVERTISE_PAUSE_CAP", hex 0x0400); ("ADVERTISE_PAUSE_ASYM", hex 0x0800);
    ("ADVERTISE_RESV", hex 0x1000); ("ADVERTISE_RFAULT", hex 0x2000);
    ("ADVERTISE_LPACK", hex 0x4000); ("ADVERTISE_NPAGE", hex 0x8000);
    ("ADVERTISE_FULL", Or (Or (Id "ADVERTISE_100FULL") (Id "ADVERTISE_10FULL")) (Id "ADVERTISE_CSMA"));
    ("ADVERTISE_ALL", Or (Or (Or (Id "ADVERTISE_10HALF") (Id "ADVERTISE_10FULL")) (Id "ADVERTISE_100HALF")) (Id "ADVERTISE_100FULL"));
    ("LPA_SLCT", hex 0x001f); ("LPA_10HALF", hex 0x0020); ("LPA_1000XFULL", hex 0x0020);
    ("LPA_10FULL", hex 0x0040); ("LPA_1000XHALF", hex 0x0040); ("LPA_100HALF", hex 0x0080);
    ("LPA_1000XPAUSE", hex 0x0080); ("LPA_100FULL", hex 0x0100);
    ("LPA_1000XPAUSE_ASYM", hex 0x0100); ("LPA_100BASE4", hex 0x0200);
    ("LPA_PAUSE_CAP", hex 0x0400); ("LPA_PAUSE_ASYM", hex 0x0800); ("LPA_RESV", hex 0x1000);
    ("LPA_RFAULT", hex 0x2000); ("LPA_LPACK", hex 0x4000); ("LPA_NPAGE", hex 0x8000);
    ("LPA_DUPLEX", Or (Id "LPA_10FULL") (Id "LPA_100FULL"));
    ("LPA_100", Or (Or (Id "LPA_100FULL") (Id "LPA_100HALF")) (Id "LPA_100BASE4"));
    ("EXPANSION_NWAY", hex 0x0001); ("EXPANSION_LCWP", hex 0x0002);
    ("EXPANSION_ENABLENPAGE", hex 0x0004); ("EXPANSION_NPCAPABLE", hex 0x0008);
    ("EXPANSION_MFAULTS", hex 0x0010); ("EXPANSION_RESV", hex 0xffe0);
    ("ESTATUS_1000_TFULL", hex 0x2000); ("ESTATUS_1000_THALF", hex 0x1000);
    ("NWAYTEST_RESV1", hex 0x00ff); ("NWAYTEST_LOOPBACK", hex 0x0100);
    ("NWAYTEST_RESV2", hex 0xfe00); ("ADVERTISE_1000FULL", hex 0x0200);
    ("ADVERTISE_1000HALF", hex 0x0100); ("CTL1000_AS_MASTER", hex 0x0800);
    ("CTL1000_ENABLE_MASTER", hex 0x1000); ("LPA_1000LOCALRXOK", hex 0x2000);
    ("LPA_1000REMRXOK", hex 0x1000); ("LPA_1000FULL", hex 0x0800); ("LPA_1000HALF", hex 0x0400);
    ("FLOW_CTRL_TX", hex 0x01); ("FLOW_CTRL_RX", hex 0x02);
    ("MII_MMD_CTRL_DEVAD_MASK", hex 0x1f); ("MII_MMD_CTRL_ADDR", hex 0x0000);
    ("MII_MMD_CTRL_NOINCR", hex 0x4000); ("MII_MMD_CTRL_INCR_RDWT", hex 0x8000);
    ("MII_MMD_CTRL_INCR_ON_WT", hex 0xC000)]].
Definition header : header :=
  Header "linux/mii.h" [] (concat [
    defs_MII_BMCR]).
End Mii.

(** ** [linux/mfd/wcd9xxx/wcd9xxx_registers.h] *)

Module Mfd_wcd9xxx_wcd9xxx_registers.
Definition defs_WCD9XXX_A_CHIP_CTL : list decl := [
  Defines [
    ("WCD9XXX_A_CHIP_CTL", hex 0x00); ("WCD9XXX_A_CHIP_CTL__POR", hex 0x00000000);
    ("WCD9XXX_A_CHIP_STATUS", hex 0x01); ("WCD9XXX_A_CHIP_STATUS__POR", hex 0x00000000);
    ("WCD9XXX_A_CHIP_ID_BYTE_0", hex 0x04); ("WCD9XXX_A_CHIP_ID_BYTE_0__POR", hex 0x00000000);
    ("WCD9XXX_A_CHIP_ID_BYTE_1", hex 0x05); ("WCD9XXX_A_CHIP_ID_BYTE_1__POR", hex 0x00000000);
    ("WCD9XXX_A_CHIP_ID_BYTE_2", hex 0x06); ("WCD9XXX_A_CHIP_ID_BYTE_2__POR", hex 0x00000000);
    ("WCD9XXX_A_CHIP_ID_BYTE_3", hex 0x07); ("WCD9XXX_A_CHIP_ID_BYTE_3__POR", hex 0x00000001);
    ("WCD9XXX_A_CHIP_VERSION", hex 0x08); ("WCD9XXX_A_CHIP_VERSION__POR", hex 0x00000020);
    ("WCD9XXX_A_SB_VERSION", hex 0x09); ("WCD9XXX_A_SB_VERSION__POR", hex 0x00000010);
    ("WCD9XXX_A_SLAVE_ID_1", hex 0x0C); ("WCD9XXX_A_SLAVE_ID_1__POR", hex 0x00000077);
    ("WCD9XXX_A_SLAVE_ID_2", hex 0x0D); ("WCD9XXX_A_SLAVE_ID_2__POR", hex 0x00000066);
    ("WCD9XXX_A_SLAVE_ID_3", hex 0x0E); ("WCD9XXX_A_SLAVE_ID_3__POR", hex 0x00000055);
    ("WCD9XXX_A_CDC_CTL", hex 0x80); ("WCD9XXX_A_CDC_CTL__POR", hex 0x00000000);
    ("WCD9XXX_A_LEAKAGE_CTL", hex 0x88); ("WCD9XXX_A_LEAKAGE_CTL__POR", hex 0x00000004);
    ("WCD9XXX_A_INTR_MODE", hex 0x90); ("WCD9XXX_A_INTR_MASK0", hex 0x94);
    ("WCD9XXX_A_INTR_STATUS0", hex 0x98); ("WCD9XXX_A_INTR_CLEAR0", hex 0x9C);
    ("WCD9XXX_A_INTR_LEVEL0", hex 0xA0); ("WCD9XXX_A_INTR_LEVEL1", hex 0xA1);
    ("WCD9XXX_A_INTR_LEVEL2", hex 0xA2); ("WCD9XXX_A_RX_HPH_CNP_EN", hex 0x1AB);
    ("WCD9XXX_A_RX_HPH_CNP_EN__POR", hex 0x80); ("WCD9XXX_A_BIAS_CENTRAL_BG_CTL", hex 0x101);
    ("WCD9XXX_A_BIAS_CENTRAL_BG_CTL__POR", hex 0x50); ("WCD9XXX_A_CLK_BUFF_EN1", hex 0x108);
    ("WCD9XXX_A_CLK_BUFF_EN1__POR", hex 0x04); ("WCD9XXX_A_CLK_BUFF_EN2", hex 0x109);
    ("WCD9XXX_A_CLK_BUFF_EN2__POR", hex 0x02); ("WCD9XXX_A_RX_COM_BIAS", hex 0x1A2);
    ("WCD9XXX_A_RX_COM_BIAS__POR", hex 0x00); ("WCD9XXX_A_RC_OSC_FREQ", hex 0x1FA);
    ("WCD9XXX_A_RC_OSC_FREQ__POR", hex 0x46); ("WCD9XXX_A_BIAS_OSC_BG_CTL", hex 0x105);
    ("WCD9XXX_A_BIAS_OSC_BG_CTL__POR", hex 0x16); ("WCD9XXX_A_RC_OSC_TEST", hex 0x1FB);
    ("WCD9XXX_A_RC_OSC_TEST__POR", hex 0x0A); ("WCD9XXX_A_CDC_CLK_MCLK_CTL", hex 0x311);
    ("WCD9XXX_A_CDC_CLK_MCLK_CTL__POR", hex 0x00); ("WCD9XXX_A_CDC_MBHC_EN_CTL", hex 0x3C0);
    ("WCD9XXX_A_CDC_MBHC_EN_CTL__POR", hex 0x00); ("WCD9XXX_A_CDC_MBHC_FIR_B1_CFG", hex 0x3C1);
    ("WCD9XXX_A_CDC_MBHC_FIR_B1_CFG__POR", hex 0x00);
    ("WCD9XXX_A_CDC_MBHC_FIR_B2_CFG", hex 0x3C2);
    ("WCD9XXX_A_CDC_MBHC_FIR_B2_CFG__POR", hex 0x06);
    ("WCD9XXX_A_CDC_MBHC_TIMER_B1_CTL", hex 0x3C3);
    ("WCD9XXX_A_CDC_MBHC_TIMER_B1_CTL__POR", hex 0x03);
    ("WCD9XXX_A_CDC_MBHC_TIMER_B2_CTL", hex 0x3C4);
    ("WCD9XXX_A_CDC_MBHC_TIMER_B2_CTL__POR", hex 0x09);
    ("WCD9XXX_A_CDC_MBHC_TIMER_B3_CTL", hex 0x3C5);
    ("WCD9XXX_A_CDC_MBHC_TIMER_B3_CTL__POR", hex 0x1E);
    ("WCD9XXX_A_CDC_MBHC_TIMER_B4_CTL", hex 0x3C6);
    ("WCD9XXX_A_CDC_MBHC_TIMER_B4_CTL__POR", hex 0x45);
    ("WCD9XXX_A_CDC_MBHC_TIMER_B5_CTL", hex 0x3C7);
    ("WCD9XXX_A_CDC_MBHC_TIMER_B5_CTL__POR", hex 0x04);
    ("WCD9XXX_A_CDC_MBHC_TIMER_B6_CTL", hex 0x3C8);
    ("WCD9XXX_A_CDC_MBHC_TIMER_B6_CTL__POR", hex 0x78);
    ("WCD9XXX_A_CDC_MBHC_B1_STATUS", hex 0x3C9); ("WCD9XXX_A_CDC_MBHC_B1_STATUS__POR", hex 0x00);
    ("WCD9XXX_A_CDC_MBHC_B2_STATUS", hex 0x3CA); ("WCD9XXX_A_CDC_MBHC_B2_STATUS__POR", hex 0x00);
    ("WCD9XXX_A_CDC_MBHC_B3_STATUS", hex 0x3CB); ("WCD9XXX_A_CDC_MBHC_B3_STATUS__POR", hex 0x00);
    ("WCD9XXX_A_CDC_MBHC_B4_STATUS", hex 0x3CC); ("WCD9XXX_A_CDC_MBHC_B4_STATUS__POR", hex 0x00);
    ("WCD9XXX_A_CDC_MBHC_B5_STATUS", hex 0x3CD); ("WCD9XXX_A_CDC_MBHC_B5_STATUS__POR", hex 0x00);
    ("WCD9XXX_A_CDC_MBHC_B1_CTL", hex 0x3CE); ("WCD9XXX_A_CDC_MBHC_B1_CTL__POR", hex 0xC0);
    ("WCD9XXX_A_CDC_MBHC_B2_CTL", hex 0x3CF); ("WCD9XXX_A_CDC_MBHC_B2_CTL__POR", hex 0x5D);
    ("WCD9XXX_A_CDC_MBHC_VOLT_B1_CTL", hex 0x3D0);
    ("WCD9XXX_A_CDC_MBHC_VOLT_B1_CTL__POR", hex 0x00);
    ("WCD9XXX_A_CDC_MBHC_VOLT_B2_CTL", hex 0x3D1);
    ("WCD9XXX_A_CDC_MBHC_VOLT_B2_CTL__POR", hex 0x00);
    ("WCD9XXX_A_CDC_MBHC_VOLT_B3_CTL", hex 0x3D2);
    ("WCD9XXX_A_CDC_MBHC_VOLT_B3_CTL__POR", hex 0x00);
    ("WCD9XXX_A_CDC_MBHC_VOLT_B4_CTL", hex 0x3D3);
    ("WCD9XXX_A_CDC_MBHC_VOLT_B4_CTL__POR", hex 0x00);
    ("WCD9XXX_A_CDC_MBHC_VOLT_B5_CTL", hex 0x3D4);
    ("WCD9XXX_A_CDC_MBHC_VOLT_B5_CTL__POR", hex 0x00);
    ("WCD9XXX_A_CDC_MBHC_VOLT_B6_CTL", hex 0x3D5);
    ("WCD9XXX_A_CDC_MBHC_VOLT_B6_CTL__POR", hex 0x00);
    ("WCD9XXX_A_CDC_MBHC_VOLT_B7_CTL", hex 0x3D6);
    ("WCD9XXX_A_CDC_MBHC_VOLT_B7_CTL__POR", hex 0xFF);
    ("WCD9XXX_A_CDC_MBHC_VOLT_B8_CTL", hex 0x3D7);
    ("WCD9XXX_A_CDC_MBHC_VOLT_B8_CTL__POR", hex 0x07);
    ("WCD9XXX_A_CDC_MBHC_VOLT_B9_CTL", hex 0x3D8);
    ("WCD9XXX_A_CDC_MBHC_VOLT_B9_CTL__POR", hex 0xFF);
    ("WCD9XXX_A_CDC_MBHC_VOLT_B10_CTL", hex 0x3D9);
    ("WCD9XXX_A_CDC_MBHC_VOLT_B10_CTL__POR", hex 0x7F);
    ("WCD9XXX_A_CDC_MBHC_VOLT_B11_CTL", hex 0x3DA);
    ("WCD9XXX_A_CDC_MBHC_VOLT_B11_CTL__POR", hex 0x00);
    ("WCD9XXX_A_CDC_MBHC_VOLT_B12_CTL", hex 0x3DB);
    ("WCD9XXX_A_CDC_MBHC_VOLT_B12_CTL__POR", hex 0x80);
    ("WCD9XXX_A_CDC_MBHC_CLK_CTL", hex 0x3DC); ("WCD9XXX_A_CDC_MBHC_CLK_CTL__POR", hex 0x00);
    ("WCD9XXX_A_CDC_MBHC_INT_CTL", hex 0x3DD); ("WCD9XXX_A_CDC_MBHC_INT_CTL__POR", hex 0x00);
    ("WCD9XXX_A_CDC_MBHC_DEBUG_CTL", hex 0x3DE); ("WCD9XXX_A_CDC_MBHC_DEBUG_CTL__POR", hex 0x00);
    ("WCD9XXX_A_CDC_MBHC_SPARE", hex 0x3DF); ("WCD9XXX_A_CDC_MBHC_SPARE__POR", hex 0x00);
    ("WCD9XXX_A_MBHC_SCALING_MUX_1", hex 0x14E); ("WCD9XXX_A_MBHC_SCALING_MUX_1__POR", hex 0x00);
    ("WCD9XXX_A_RX_HPH_OCP_CTL", hex 0x1AA); ("WCD9XXX_A_RX_HPH_OCP_CTL__POR", hex 0x68);
    ("WCD9XXX_A_MICB_1_CTL", hex 0x12B); ("WCD9XXX_A_MICB_1_CTL__POR", hex 0x16);
    ("WCD9XXX_A_MICB_1_INT_RBIAS", hex 0x12C); ("WCD9XXX_A_MICB_1_INT_RBIAS__POR", hex 0x24);
    ("WCD9XXX_A_MICB_1_MBHC", hex 0x12D); ("WCD9XXX_A_MICB_1_MBHC__POR", hex 0x01);
    ("WCD9XXX_A_MICB_CFILT_2_CTL", hex 0x12E); ("WCD9XXX_A_MICB_CFILT_2_CTL__POR", hex 0x40);
    ("WCD9XXX_A_MICB_CFILT_2_VAL", hex 0x12F); ("WCD9XXX_A_MICB_CFILT_2_VAL__POR", hex 0x80);
    ("WCD9XXX_A_MICB_CFILT_2_PRECHRG", hex 0x130);
    ("WCD9XXX_A_MICB_CFILT_2_PRECHRG__POR", hex 0x38); ("WCD9XXX_A_MICB_2_CTL", hex 0x131);
    ("WCD9XXX_A_MICB_2_CTL__POR", hex 0x16); ("WCD9XXX_A_MICB_2_INT_RBIAS", hex 0x132);
    ("WCD9XXX_A_MICB_2_INT_RBIAS__POR", hex 0x24); ("WCD9XXX_A_MICB_2_MBHC", hex 0x133);
    ("WCD9XXX_A_MICB_2_MBHC__POR", hex 0x02); ("WCD9XXX_A_MICB_CFILT_3_CTL", hex 0x134);
    ("WCD9XXX_A_MICB_CFILT_3_CTL__POR", hex 0x40); ("WCD9XXX_A_MICB_CFILT_3_VAL", hex 0x135);
    ("WCD9XXX_A_MICB_CFILT_3_VAL__POR", hex 0x80); ("WCD9XXX_A_MICB_CFILT_3_PRECHRG", hex 0x136);
    ("WCD9XXX_A_MICB_CFILT_3_PRECHRG__POR", hex 0x38); ("WCD9XXX_A_MICB_3_CTL", hex 0x137);
    ("WCD9XXX_A_MICB_3_CTL__POR", hex 0x16); ("WCD9XXX_A_MICB_3_INT_RBIAS", hex 0x138);
    ("WCD9XXX_A_MICB_3_INT_RBIAS__POR", hex 0x24)]].
Definition defs_WCD9XXX_A_MICB_3_MBHC : list decl := [
  Defines [
    ("WCD9XXX_A_MICB_3_MBHC", hex 0x139); ("WCD9XXX_A_MICB_3_MBHC__POR", hex 0x00);
    ("WCD9XXX_A_MICB_4_CTL", hex 0x13D); ("WCD9XXX_A_MICB_4_CTL__POR", hex 0x16);
    ("WCD9XXX_A_MICB_4_INT_RBIAS", hex 0x13E); ("WCD9XXX_A_MICB_4_INT_RBIAS__POR", hex 0x24);
    ("WCD9XXX_A_MICB_4_MBHC", hex 0x13F); ("WCD9XXX_A_MICB_4_MBHC__POR", hex 0x01);
    ("WCD9XXX_A_MICB_CFILT_1_VAL", hex 0x129); ("WCD9XXX_A_MICB_CFILT_1_VAL__POR", hex 0x80);
    ("WCD9XXX_A_RX_HPH_L_STATUS", hex 0x1B3); ("WCD9XXX_A_RX_HPH_L_STATUS__POR", hex 0x00);
    ("WCD9XXX_A_MBHC_HPH", hex 0x1FE); ("WCD9XXX_A_MBHC_HPH__POR", hex 0x44);
    ("WCD9XXX_A_RX_HPH_CNP_WG_TIME", hex 0x1AD); ("WCD9XXX_A_RX_HPH_CNP_WG_TIME__POR", hex 0x2A);
    ("WCD9XXX_A_RX_HPH_R_DAC_CTL", hex 0x1B7); ("WCD9XXX_A_RX_HPH_R_DAC_CTL__POR", hex 0x00);
    ("WCD9XXX_A_RX_HPH_L_DAC_CTL", hex 0x1B1); ("WCD9XXX_A_RX_HPH_L_DAC_CTL__POR", hex 0x00);
    ("WCD9XXX_A_TX_7_MBHC_EN", hex 0x171); ("WCD9XXX_A_TX_7_MBHC_EN__POR", hex 0x0C);
    ("WCD9XXX_A_PIN_CTL_OE0", hex 0x010); ("WCD9XXX_A_PIN_CTL_OE0__POR", hex 0x00);
    ("WCD9XXX_A_PIN_CTL_OE1", hex 0x011); ("WCD9XXX_A_PIN_CTL_OE1__POR", hex 0x00);
    ("WCD9XXX_A_MICB_CFILT_1_CTL", hex 0x128); ("WCD9XXX_A_LDO_H_MODE_1", hex 0x110);
    ("WCD9XXX_A_LDO_H_MODE_1__POR", hex 0x65); ("WCD9XXX_A_MICB_CFILT_1_CTL__POR", hex 0x40);
    ("WCD9XXX_A_TX_7_MBHC_TEST_CTL", hex 0x174); ("WCD9XXX_A_TX_7_MBHC_TEST_CTL__POR", hex 0x38);
    ("WCD9XXX_A_MBHC_SCALING_MUX_2", hex 0x14F); ("WCD9XXX_A_MBHC_SCALING_MUX_2__POR", hex 0x80);
    ("WCD9XXX_A_TX_COM_BIAS", hex 0x14C); ("WCD9XXX_A_TX_COM_BIAS__POR", hex 0xF0);
    ("WCD9XXX_A_MBHC_INSERT_DETECT", hex 0x14A); ("WCD9XXX_A_MBHC_INSERT_DETECT__POR", hex 0x00);
    ("WCD9XXX_A_MBHC_INSERT_DET_STATUS", hex 0x14B);
    ("WCD9XXX_A_MBHC_INSERT_DET_STATUS__POR", hex 0x00); ("WCD9XXX_A_MAD_ANA_CTRL", hex 0x150);
    ("WCD9XXX_A_MAD_ANA_CTRL__POR", hex 0xF1); ("WCD9XXX_A_CDC_CLK_OTHR_CTL", hex 0x30C);
    ("WCD9XXX_A_CDC_CLK_OTHR_CTL__POR", hex 0x00); ("WCD9XXX_A_BUCK_MODE_1", hex 0x181);
    ("WCD9XXX_A_BUCK_MODE_1__POR", hex 0x21); ("WCD9XXX_A_BUCK_MODE_2", hex 0x182);
    ("WCD9XXX_A_BUCK_MODE_2__POR", hex 0xFF); ("WCD9XXX_A_BUCK_MODE_3", hex 0x183);
    ("WCD9XXX_A_BUCK_MODE_3__POR", hex 0xCC); ("WCD9XXX_A_BUCK_MODE_4", hex 0x184);
    ("WCD9XXX_A_BUCK_MODE_4__POR", hex 0x3A); ("WCD9XXX_A_BUCK_MODE_5", hex 0x185);
    ("WCD9XXX_A_BUCK_MODE_5__POR", hex 0x00); ("WCD9XXX_A_BUCK_CTRL_VCL_1", hex 0x186);
    ("WCD9XXX_A_BUCK_CTRL_VCL_1__POR", hex 0x48); ("WCD9XXX_A_BUCK_CTRL_VCL_2", hex 0x187);
    ("WCD9XXX_A_BUCK_CTRL_VCL_2__POR", hex 0xA3); ("WCD9XXX_A_BUCK_CTRL_VCL_3", hex 0x188);
    ("WCD9XXX_A_BUCK_CTRL_VCL_3__POR", hex 0x82); ("WCD9XXX_A_BUCK_CTRL_CCL_1", hex 0x189);
    ("WCD9XXX_A_BUCK_CTRL_CCL_1__POR", hex 0xAB); ("WCD9XXX_A_BUCK_CTRL_CCL_2", hex 0x18A);
    ("WCD9XXX_A_BUCK_CTRL_CCL_2__POR", hex 0xDC); ("WCD9XXX_A_BUCK_CTRL_CCL_3", hex 0x18B);
    ("WCD9XXX_A_BUCK_CTRL_CCL_3__POR", hex 0x6A); ("WCD9XXX_A_BUCK_CTRL_CCL_4", hex 0x18C);
    ("WCD9XXX_A_BUCK_CTRL_CCL_4__POR", hex 0x58); ("WCD9XXX_A_BUCK_CTRL_PWM_DRVR_1", hex 0x18D);
    ("WCD9XXX_A_BUCK_CTRL_PWM_DRVR_1__POR", hex 0x50);
    ("WCD9XXX_A_BUCK_CTRL_PWM_DRVR_2", hex 0x18E);
    ("WCD9XXX_A_BUCK_CTRL_PWM_DRVR_2__POR", hex 0x64);
    ("WCD9XXX_A_BUCK_CTRL_PWM_DRVR_3", hex 0x18F);
    ("WCD9XXX_A_BUCK_CTRL_PWM_DRVR_3__POR", hex 0x77); ("WCD9XXX_A_BUCK_TMUX_A_D", hex 0x190);
    ("WCD9XXX_A_BUCK_TMUX_A_D__POR", hex 0x00); ("WCD9XXX_A_NCP_EN", hex 0x192);
    ("WCD9XXX_A_NCP_EN__POR", hex 0xFE); ("WCD9XXX_A_NCP_STATIC", hex 0x194);
    ("WCD9XXX_A_NCP_STATIC__POR", hex 0x28); ("WCD9XXX_A_NCP_BUCKREF", hex 0x191);
    ("WCD9XXX_A_NCP_BUCKREF__POR", hex 0x00); ("WCD9XXX_A_CDC_CLSH_B1_CTL", hex 0x320);
    ("WCD9XXX_A_CDC_CLSH_B1_CTL__POR", hex 0xE4); ("WCD9XXX_A_CDC_CLSH_B2_CTL", hex 0x321);
    ("WCD9XXX_A_CDC_CLSH_B2_CTL__POR", hex 0x00); ("WCD9XXX_A_CDC_CLSH_B3_CTL", hex 0x322);
    ("WCD9XXX_A_CDC_CLSH_B3_CTL__POR", hex 0x00);
    ("WCD9XXX_A_CDC_CLSH_BUCK_NCP_VARS", hex 0x323);
    ("WCD9XXX_A_CDC_CLSH_BUCK_NCP_VARS__POR", hex 0x00);
    ("WCD9XXX_A_CDC_CLSH_IDLE_HPH_THSD", hex 0x324);
    ("WCD9XXX_A_CDC_CLSH_IDLE_HPH_THSD__POR", hex 0x12);
    ("WCD9XXX_A_CDC_CLSH_IDLE_EAR_THSD", hex 0x325);
    ("WCD9XXX_A_CDC_CLSH_IDLE_EAR_THSD__POR", hex 0x0C);
    ("WCD9XXX_A_CDC_CLSH_FCLKONLY_HPH_THSD", hex 0x326);
    ("WCD9XXX_A_CDC_CLSH_FCLKONLY_HPH_THSD__POR", hex 0x18);
    ("WCD9XXX_A_CDC_CLSH_FCLKONLY_EAR_THSD", hex 0x327);
    ("WCD9XXX_A_CDC_CLSH_FCLKONLY_EAR_THSD__POR", hex 0x23);
    ("WCD9XXX_A_CDC_CLSH_K_ADDR", hex 0x328); ("WCD9XXX_A_CDC_CLSH_K_ADDR__POR", hex 0x00);
    ("WCD9XXX_A_CDC_CLSH_K_DATA", hex 0x329); ("WCD9XXX_A_CDC_CLSH_K_DATA__POR", hex 0xA4);
    ("WCD9XXX_A_CDC_CLSH_I_PA_FACT_HPH_L", hex 0x32A);
    ("WCD9XXX_A_CDC_CLSH_I_PA_FACT_HPH_L__POR", hex 0xD7);
    ("WCD9XXX_A_CDC_CLSH_I_PA_FACT_HPH_U", hex 0x32B);
    ("WCD9XXX_A_CDC_CLSH_I_PA_FACT_HPH_U__POR", hex 0x05);
    ("WCD9XXX_A_CDC_CLSH_I_PA_FACT_EAR_L", hex 0x32C);
    ("WCD9XXX_A_CDC_CLSH_I_PA_FACT_EAR_L__POR", hex 0x60);
    ("WCD9XXX_A_CDC_CLSH_I_PA_FACT_EAR_U", hex 0x32D);
    ("WCD9XXX_A_CDC_CLSH_I_PA_FACT_EAR_U__POR", hex 0x09);
    ("WCD9XXX_A_CDC_CLSH_V_PA_HD_EAR", hex 0x32E);
    ("WCD9XXX_A_CDC_CLSH_V_PA_HD_EAR__POR", hex 0x00);
    ("WCD9XXX_A_CDC_CLSH_V_PA_HD_HPH", hex 0x32F);
    ("WCD9XXX_A_CDC_CLSH_V_PA_HD_HPH__POR", hex 0x00);
    ("WCD9XXX_A_CDC_CLSH_V_PA_MIN_EAR", hex 0x330);
    ("WCD9XXX_A_CDC_CLSH_V_PA_MIN_EAR__POR", hex 0x00);
    ("WCD9XXX_A_CDC_CLSH_V_PA_MIN_HPH", hex 0x331);
    ("WCD9XXX_A_CDC_CLSH_V_PA_MIN_HPH__POR", hex 0x00); ("WCD9XXX_A_CDC_RX1_B6_CTL", hex 0x2B5);
    ("WCD9XXX_A_CDC_RX1_B6_CTL__POR", hex 0x80); ("WCD9XXX_A_CDC_RX2_B6_CTL", hex 0x2BD);
    ("WCD9XXX_A_CDC_RX2_B6_CTL__POR", hex 0x80); ("WCD9XXX_A_RX_HPH_L_GAIN", hex 0x1AE);
    ("WCD9XXX_A_RX_HPH_L_GAIN__POR", hex 0x00); ("WCD9XXX_A_RX_HPH_R_GAIN", hex 0x1B4);
    ("WCD9XXX_A_RX_HPH_R_GAIN__POR", hex 0x00); ("WCD9XXX_A_RX_HPH_CHOP_CTL", hex 0x1A5);
    ("WCD9XXX_A_RX_HPH_CHOP_CTL__POR", hex 0xB4); ("WCD9XXX_A_RX_HPH_BIAS_PA", hex 0x1A6);
    ("WCD9XXX_A_RX_HPH_BIAS_PA__POR", hex 0x7A); ("WCD9XXX_A_RX_HPH_L_TEST", hex 0x1AF);
    ("WCD9XXX_A_RX_HPH_L_TEST__POR", hex 0x00); ("WCD9XXX_A_RX_HPH_R_TEST", hex 0x1B5);
    ("WCD9XXX_A_RX_HPH_R_TEST__POR", hex 0x00); ("WCD9XXX_A_CDC_CLK_RX_B1_CTL", hex 0x30F);
    ("WCD9XXX_A_CDC_CLK_RX_B1_CTL__POR", hex 0x00); ("WCD9XXX_A_NCP_CLK", hex 0x193);
    ("WCD9XXX_A_NCP_CLK__POR", hex 0x94); ("WCD9XXX_A_RX_HPH_BIAS_WG_OCP", hex 0x1A9);
    ("WCD9XXX_A_RX_HPH_BIAS_WG_OCP__POR", hex 0x2A); ("WCD9XXX_A_RX_HPH_CNP_WG_CTL", hex 0x1AC);
    ("WCD9XXX_A_RX_HPH_CNP_WG_CTL__POR", hex 0xDE); ("WCD9XXX_A_RX_HPH_L_PA_CTL", hex 0x1B0);
    ("WCD9XXX_A_RX_HPH_L_PA_CTL__POR", hex 0x42)]].
Definition defs_WCD9XXX_A_RX_HPH_R_PA_CTL : list decl := [
  Defines [
    ("WCD9XXX_A_RX_HPH_R_PA_CTL", hex 0x1B6); ("WCD9XXX_A_RX_HPH_R_PA_CTL__POR", hex 0x42);
    ("WCD9XXX_A_CDC_CONN_RX2_B1_CTL", hex 0x383);
    ("WCD9XXX_A_CDC_CONN_RX2_B1_CTL__POR", hex 0x00);
    ("WCD9XXX_A_CDC_PA_RAMP_B1_CTL", hex 0x361); ("WCD9XXX_A_CDC_PA_RAMP_B1_CTL__POR", hex 0x00);
    ("WCD9XXX_A_CDC_PA_RAMP_B2_CTL", hex 0x362); ("WCD9XXX_A_CDC_PA_RAMP_B2_CTL__POR", hex 0x00);
    ("WCD9XXX_A_CDC_PA_RAMP_B3_CTL", hex 0x363); ("WCD9XXX_A_CDC_PA_RAMP_B3_CTL__POR", hex 0x00);
    ("WCD9XXX_A_CDC_PA_RAMP_B4_CTL", hex 0x364); ("WCD9XXX_A_CDC_PA_RAMP_B4_CTL__POR", hex 0x00);
    ("WCD9330_A_LEAKAGE_CTL", hex 0x03C); ("WCD9330_A_LEAKAGE_CTL__POR", hex 0x04);
    ("WCD9330_A_CDC_CTL", hex 0x034); ("WCD9330_A_CDC_CTL__POR", hex 0x00);
    ("WCD9XXX_A_CDC_RX0_RX_PATH_CFG0", hex 0xB42); ("WCD9XXX_A_CDC_RX1_RX_PATH_CFG0", hex 0xB56);
    ("WCD9XXX_A_CDC_RX2_RX_PATH_CFG0", hex 0xB6A); ("WCD9XXX_A_CDC_CLSH_K1_MSB", hex 0xC08);
    ("WCD9XXX_A_CDC_CLSH_K1_LSB", hex 0xC09); ("WCD9XXX_A_ANA_RX_SUPPLIES", hex 0x608);
    ("WCD9XXX_A_ANA_HPH", hex 0x609); ("WCD9XXX_A_CDC_CLSH_CRC", hex 0xC01);
    ("WCD9XXX_FLYBACK_EN", hex 0x6A4); ("WCD9XXX_FLYBACK_VNEG_CTRL_1", hex 0x6A5);
    ("WCD9XXX_FLYBACK_VNEGDAC_CTRL_2", hex 0x6AF); ("WCD9XXX_RX_BIAS_FLYB_BUFF", hex 0x6C7);
    ("WCD9XXX_HPH_L_EN", hex 0x6D3); ("WCD9XXX_HPH_R_EN", hex 0x6D6);
    ("WCD9XXX_HPH_REFBUFF_UHQA_CTL", hex 0x6DD); ("WCD9XXX_CLASSH_CTRL_VCL_2", hex 0x69B);
    ("WCD9XXX_CDC_CLSH_HPH_V_PA", hex 0xC04); ("WCD9XXX_CDC_RX0_RX_PATH_SEC0", hex 0xB49);
    ("WCD9XXX_CDC_RX1_RX_PATH_CTL", hex 0xB55); ("WCD9XXX_CDC_RX2_RX_PATH_CTL", hex 0xB69);
    ("WCD9XXX_CDC_CLK_RST_CTRL_MCLK_CONTROL", hex 0xD41);
    ("WCD9XXX_CLASSH_CTRL_CCL_1", hex 0x69C); ("WCD9XXX_CDC_RX1_RX_VOL_CTL", hex 0xB59);
    ("WCD9XXX_CDC_RX1_RX_VOL_MIX_CTL", hex 0xB5C); ("WCD9XXX_CDC_RX1_RX_PATH_SEC1", hex 0xB5E);
    ("WCD9XXX_CDC_RX2_RX_VOL_CTL", hex 0xB6D); ("WCD9XXX_CDC_RX2_RX_VOL_MIX_CTL", hex 0xB70);
    ("WCD9XXX_CDC_RX2_RX_PATH_SEC1", hex 0xB72); ("WCD9XXX_HPH_CNP_WG_CTL", hex 0x06cc);
    ("WCD9XXX_FLYBACK_VNEG_CTRL_4", hex 0x06a8); ("WCD9XXX_HPH_NEW_INT_PA_MISC2", hex 0x0738);
    ("WCD9XXX_RX_BIAS_HPH_LOWPOWER", hex 0x06bf); ("WCD9XXX_HPH_PA_CTL1", hex 0x06d1)]].
Definition header : header :=
  Header "linux/mfd/wcd9xxx/wcd9xxx_registers.h" [] (concat [
    defs_WCD9XXX_A_CHIP_CTL; defs_WCD9XXX_A_MICB_3_MBHC; defs_WCD9XXX_A_RX_HPH_R_PA_CTL]).
End Mfd_wcd9xxx_wcd9xxx_registers.

(** ** [linux/netfilter/ipset/ip_set.h] *)

Module Netfilter_ipset_ip_set.
Definition enum_ipset_cmd : list decl := [
  Enum [
    ("IPSET_CMD_NONE", None); ("IPSET_CMD_PROTOCOL", None); ("IPSET_CMD_CREATE", None);
    ("IPSET_CMD_DESTROY", None); ("IPSET_CMD_FLUSH", None); ("IPSET_CMD_RENAME", None);
    ("IPSET_CMD_SWAP", None); ("IPSET_CMD_LIST", None); ("IPSET_CMD_SAVE", None);
    ("IPSET_CMD_ADD", None); ("IPSET_CMD_DEL", None); ("IPSET_CMD_TEST", None);
    ("IPSET_CMD_HEADER", None); ("IPSET_CMD_TYPE", None); ("IPSET_MSG_MAX", None);
    ("IPSET_CMD_RESTORE", Some (Id "IPSET_MSG_MAX")); ("IPSET_CMD_HELP", None);
    ("IPSET_CMD_VERSION", None); ("IPSET_CMD_QUIT", None); ("IPSET_CMD_MAX", None);
    ("IPSET_CMD_COMMIT", Some (Id "IPSET_CMD_MAX"))];
  Enum [
    ("IPSET_ATTR_UNSPEC", None); ("IPSET_ATTR_PROTOCOL", None); ("IPSET_ATTR_SETNAME", None);
    ("IPSET_ATTR_TYPENAME", None); ("IPSET_ATTR_SETNAME2", Some (Id "IPSET_ATTR_TYPENAME"));
    ("IPSET_ATTR_REVISION", None); ("IPSET_ATTR_FAMILY", None); ("IPSET_ATTR_FLAGS", None);
    ("IPSET_ATTR_DATA", None); ("IPSET_ATTR_ADT", None); ("IPSET_ATTR_LINENO", None);
    ("IPSET_ATTR_PROTOCOL_MIN", None);
    ("IPSET_ATTR_REVISION_MIN", Some (Id "IPSET_ATTR_PROTOCOL_MIN"));
    ("__IPSET_ATTR_CMD_MAX", None)];
  Defines [
    ("IPSET_ATTR_CMD_MAX", Sub (Id "__IPSET_ATTR_CMD_MAX") (dec 1))];
  Enum [
    ("IPSET_ATTR_IP", Some (Add (Id "IPSET_ATTR_UNSPEC") (dec 1)));
    ("IPSET_ATTR_IP_FROM", Some (Id "IPSET_ATTR_IP")); ("IPSET_ATTR_IP_TO", None);
    ("IPSET_ATTR_CIDR", None); ("IPSET_ATTR_PORT", None);
    ("IPSET_ATTR_PORT_FROM", Some (Id "IPSET_ATTR_PORT")); ("IPSET_ATTR_PORT_TO", None);
    ("IPSET_ATTR_TIMEOUT", None); ("IPSET_ATTR_PROTO", None); ("IPSET_ATTR_CADT_FLAGS", None);
    ("IPSET_ATTR_CADT_LINENO", Some (Id "IPSET_ATTR_LINENO")); ("IPSET_ATTR_MARK", None);
    ("IPSET_ATTR_MARKMASK", None); ("IPSET_ATTR_CADT_MAX", Some (dec 16));
    ("IPSET_ATTR_GC", None); ("IPSET_ATTR_HASHSIZE", None); ("IPSET_ATTR_MAXELEM", None);
    ("IPSET_ATTR_NETMASK", None); ("IPSET_ATTR_PROBES", None); ("IPSET_ATTR_RESIZE", None);
    ("IPSET_ATTR_SIZE", None); ("IPSET_ATTR_ELEMENTS", None); ("IPSET_ATTR_REFERENCES", None);
    ("IPSET_ATTR_MEMSIZE", None); ("__IPSET_ATTR_CREATE_MAX", None)];
  Defines [
    ("IPSET_ATTR_CREATE_MAX", Sub (Id "__IPSET_ATTR_CREATE_MAX") (dec 1))];
  Enum [
    ("IPSET_ATTR_ETHER", Some (Add (Id "IPSET_ATTR_CADT_MAX") (dec 1)));
    ("IPSET_ATTR_NAME", None); ("IPSET_ATTR_NAMEREF", None); ("IPSET_ATTR_IP2", None);
    ("IPSET_ATTR_CIDR2", None); ("IPSET_ATTR_IP2_TO", None); ("IPSET_ATTR_IFACE", None);
    ("IPSET_ATTR_BYTES", None); ("IPSET_ATTR_PACKETS", None); ("IPSET_ATTR_COMMENT", None);
    ("IPSET_ATTR_SKBMARK", None); ("IPSET_ATTR_SKBPRIO", None); ("IPSET_ATTR_SKBQUEUE", None);
    ("__IPSET_ATTR_ADT_MAX", None)];
  Defines [
    ("IPSET_ATTR_ADT_MAX", Sub (Id "__IPSET_ATTR_ADT_MAX") (dec 1))];
  Enum [
    ("IPSET_ATTR_IPADDR_IPV4", Some (Add (Id "IPSET_ATTR_UNSPEC") (dec 1)));
    ("IPSET_ATTR_IPADDR_IPV6", None); ("__IPSET_ATTR_IPADDR_MAX", None)];
  Defines [
    ("IPSET_ATTR_IPADDR_MAX", Sub (Id "__IPSET_ATTR_IPADDR_MAX") (dec 1))];
  Enum [
    ("IPSET_ERR_PRIVATE", Some (dec 4096)); ("IPSET_ERR_PROTOCOL", None);
    ("IPSET_ERR_FIND_TYPE", None); ("IPSET_ERR_MAX_SETS", None); ("IPSET_ERR_BUSY", None);
    ("IPSET_ERR_EXIST_SETNAME2", None); ("IPSET_ERR_TYPE_MISMATCH", None);
    ("IPSET_ERR_EXIST", None); ("IPSET_ERR_INVALID_CIDR", None);
    ("IPSET_ERR_INVALID_NETMASK", None); ("IPSET_ERR_INVALID_FAMILY", None);
    ("IPSET_ERR_TIMEOUT", None); ("IPSET_ERR_REFERENCED", None); ("IPSET_ERR_IPADDR_IPV4", None);
    ("IPSET_ERR_IPADDR_IPV6", None); ("IPSET_ERR_COUNTER", None); ("IPSET_ERR_COMMENT", None);
    ("IPSET_ERR_INVALID_MARKMASK", None); ("IPSET_ERR_SKBINFO", None);
    ("IPSET_ERR_TYPE_SPECIFIC", Some (dec 4352))]].
Definition enum_ipset_cmd_flags : list decl := [
  Enum [
    ("IPSET_FLAG_BIT_EXIST", Some (dec 0));
    ("IPSET_FLAG_EXIST", Some (Shl (dec 1) (Id "IPSET_FLAG_BIT_EXIST")));
    ("IPSET_FLAG_BIT_LIST_SETNAME", Some (dec 1));
    ("IPSET_FLAG_LIST_SETNAME", Some (Shl (dec 1) (Id "IPSET_FLAG_BIT_LIST_SETNAME")));
    ("IPSET_FLAG_BIT_LIST_HEADER", Some (dec 2));
    ("IPSET_FLAG_LIST_HEADER", Some (Shl (dec 1) (Id "IPSET_FLAG_BIT_LIST_HEADER")));
    ("IPSET_FLAG_BIT_SKIP_COUNTER_UPDATE", Some (dec 3));
    ("IPSET_FLAG_SKIP_COUNTER_UPDATE", Some (Shl (dec 1) (Id "IPSET_FLAG_BIT_SKIP_COUNTER_UPDATE")));
    ("IPSET_FLAG_BIT_SKIP_SUBCOUNTER_UPDATE", Some (dec 4));
    ("IPSET_FLAG_SKIP_SUBCOUNTER_UPDATE", Some (Shl (dec 1) (Id "IPSET_FLAG_BIT_SKIP_SUBCOUNTER_UPDATE")));
    ("IPSET_FLAG_BIT_MATCH_COUNTERS", Some (dec 5));
    ("IPSET_FLAG_MATCH_COUNTERS", Some (Shl (dec 1) (Id "IPSET_FLAG_BIT_MATCH_COUNTERS")));
    ("IPSET_FLAG_BIT_RETURN_NOMATCH", Some (dec 7));
    ("IPSET_FLAG_RETURN_NOMATCH", Some (Shl (dec 1) (Id "IPSET_FLAG_BIT_RETURN_NOMATCH")));
    ("IPSET_FLAG_BIT_MAP_SKBMARK", Some (dec 8));
    ("IPSET_FLAG_MAP_SKBMARK", Some (Shl (dec 1) (Id "IPSET_FLAG_BIT_MAP_SKBMARK")));
    ("IPSET_FLAG_BIT_MAP_SKBPRIO", Some (dec 9));
    ("IPSET_FLAG_MAP_SKBPRIO", Some (Shl (dec 1) (Id "IPSET_FLAG_BIT_MAP_SKBPRIO")));
    ("IPSET_FLAG_BIT_MAP_SKBQUEUE", Some (dec 10));
    ("IPSET_FLAG_MAP_SKBQUEUE", Some (Shl (dec 1) (Id "IPSET_FLAG_BIT_MAP_SKBQUEUE")));
    ("IPSET_FLAG_CMD_MAX", Some (dec 15))];
  Enum [
    ("IPSET_FLAG_BIT_BEFORE", Some (dec 0));
    ("IPSET_FLAG_BEFORE", Some (Shl (dec 1) (Id "IPSET_FLAG_BIT_BEFORE")));
    ("IPSET_FLAG_BIT_PHYSDEV", Some (dec 1));
    ("IPSET_FLAG_PHYSDEV", Some (Shl (dec 1) (Id "IPSET_FLAG_BIT_PHYSDEV")));
    ("IPSET_FLAG_BIT_NOMATCH", Some (dec 2));
    ("IPSET_FLAG_NOMATCH", Some (Shl (dec 1) (Id "IPSET_FLAG_BIT_NOMATCH")));
    ("IPSET_FLAG_BIT_WITH_COUNTERS", Some (dec 3));
    ("IPSET_FLAG_WITH_COUNTERS", Some (Shl (dec 1) (Id "IPSET_FLAG_BIT_WITH_COUNTERS")));
    ("IPSET_FLAG_BIT_WITH_COMMENT", Some (dec 4));
    ("IPSET_FLAG_WITH_COMMENT", Some (Shl (dec 1) (Id "IPSET_FLAG_BIT_WITH_COMMENT")));
    ("IPSET_FLAG_BIT_WITH_FORCEADD", Some (dec 5));
    ("IPSET_FLAG_WITH_FORCEADD", Some (Shl (dec 1) (Id "IPSET_FLAG_BIT_WITH_FORCEADD")));
    ("IPSET_FLAG_BIT_WITH_SKBINFO", Some (dec 6));
    ("IPSET_FLAG_WITH_SKBINFO", Some (Shl (dec 1) (Id "IPSET_FLAG_BIT_WITH_SKBINFO")));
    ("IPSET_FLAG_CADT_MAX", Some (dec 15))];
  Enum [
    ("IPSET_CREATE_FLAG_BIT_FORCEADD", Some (dec 0));
    ("IPSET_CREATE_FLAG_FORCEADD", Some (Shl (dec 1) (Id "IPSET_CREATE_FLAG_BIT_FORCEADD")));
    ("IPSET_CREATE_FLAG_BIT_MAX", Some (dec 7))];
  Enum [
    ("IPSET_ADD", None); ("IPSET_DEL", None); ("IPSET_TEST", None); ("IPSET_ADT_MAX", None);
    ("IPSET_CREATE", Some (Id "IPSET_ADT_MAX")); ("IPSET_CADT_MAX", None)]].
Definition enum_ip_set_dim : list decl := [
  Enum [
    ("IPSET_DIM_ZERO", Some (dec 0)); ("IPSET_DIM_ONE", None); ("IPSET_DIM_TWO", None);
    ("IPSET_DIM_THREE", None); ("IPSET_DIM_MAX", Some (dec 6));
    ("IPSET_BIT_RETURN_NOMATCH", Some (dec 7))];
  Enum [
    ("IPSET_INV_MATCH", Some (Shl (dec 1) (Id "IPSET_DIM_ZERO")));
    ("IPSET_DIM_ONE_SRC", Some (Shl (dec 1) (Id "IPSET_DIM_ONE")));
    ("IPSET_DIM_TWO_SRC", Some (Shl (dec 1) (Id "IPSET_DIM_TWO")));
    ("IPSET_DIM_THREE_SRC", Some (Shl (dec 1) (Id "IPSET_DIM_THREE")));
    ("IPSET_RETURN_NOMATCH", Some (Shl (dec 1) (Id "IPSET_BIT_RETURN_NOMATCH")))];
  Enum [
    ("IPSET_COUNTER_NONE", Some (dec 0)); ("IPSET_COUNTER_EQ", None); ("IPSET_COUNTER_NE", None);
    ("IPSET_COUNTER_LT", None); ("IPSET_COUNTER_GT", None)]].
Definition header : header :=
  Header "linux/netfilter/ipset/ip_set.h" [] (concat [
    enum_ipset_cmd; enum_ipset_cmd_flags; enum_ip_set_dim]).
End Netfilter_ipset_ip_set.

(** ** [linux/netfilter/x_tables.h] *)

Module Netfilter_x_tables.
Definition defs_XT_INV_PROTO : list decl := [
  Defines [
    ("XT_INV_PROTO", hex 0x40)]].
Definition header : header :=
  Header "linux/netfilter/x_tables.h" [] (concat [
    defs_XT_INV_PROTO]).
End Netfilter_x_tables.

(** ** [linux/v4l2-controls.h] *)

Module V4l2_controls.
Definition defs_V4L2_CTRL_CLASS_USER : list decl := [
  Defines [
    ("V4L2_CTRL_CLASS_USER", hex 0x00980000); ("V4L2_CTRL_CLASS_MPEG", hex 0x00990000);
    ("V4L2_CTRL_CLASS_CAMERA", hex 0x009a0000); ("V4L2_CTRL_CLASS_FM_TX", hex 0x009b0000);
    ("V4L2_CTRL_CLASS_FLASH", hex 0x009c0000); ("V4L2_CTRL_CLASS_JPEG", hex 0x009d0000);
    ("V4L2_CTRL_CLASS_IMAGE_SOURCE", hex 0x009e0000);
    ("V4L2_CTRL_CLASS_IMAGE_PROC", hex 0x009f0000); ("V4L2_CTRL_CLASS_DV", hex 0x00a00000);
    ("V4L2_CTRL_CLASS_FM_RX", hex 0x00a10000); ("V4L2_CTRL_CLASS_RF_TUNER", hex 0x00a20000);
    ("V4L2_CTRL_CLASS_DETECT", hex 0x00a30000);
    ("V4L2_CID_BASE", Or (Id "V4L2_CTRL_CLASS_USER") (hex 0x900));
    ("V4L2_CID_USER_BASE", Id "V4L2_CID_BASE");
    ("V4L2_CID_USER_CLASS", Or (Id "V4L2_CTRL_CLASS_USER") (dec 1));
    ("V4L2_CID_BRIGHTNESS", Add (Id "V4L2_CID_BASE") (dec 0));
    ("V4L2_CID_CONTRAST", Add (Id "V4L2_CID_BASE") (dec 1));
    ("V4L2_CID_SATURATION", Add (Id "V4L2_CID_BASE") (dec 2));
    ("V4L2_CID_HUE", Add (Id "V4L2_CID_BASE") (dec 3));
    ("V4L2_CID_AUDIO_VOLUME", Add (Id "V4L2_CID_BASE") (dec 5));
    ("V4L2_CID_AUDIO_BALANCE", Add (Id "V4L2_CID_BASE") (dec 6));
    ("V4L2_CID_AUDIO_BASS", Add (Id "V4L2_CID_BASE") (dec 7));
    ("V4L2_CID_AUDIO_TREBLE", Add (Id "V4L2_CID_BASE") (dec 8));
    ("V4L2_CID_AUDIO_MUTE", Add (Id "V4L2_CID_BASE") (dec 9));
    ("V4L2_CID_AUDIO_LOUDNESS", Add (Id "V4L2_CID_BASE") (dec 10));
    ("V4L2_CID_BLACK_LEVEL", Add (Id "V4L2_CID_BASE") (dec 11));
    ("V4L2_CID_AUTO_WHITE_BALANCE", Add (Id "V4L2_CID_BASE") (dec 12));
    ("V4L2_CID_DO_WHITE_BALANCE", Add (Id "V4L2_CID_BASE") (dec 13));
    ("V4L2_CID_RED_BALANCE", Add (Id "V4L2_CID_BASE") (dec 14));
    ("V4L2_CID_BLUE_BALANCE", Add (Id "V4L2_CID_BASE") (dec 15));
    ("V4L2_CID_GAMMA", Add (Id "V4L2_CID_BASE") (dec 16));
    ("V4L2_CID_WHITENESS", Id "V4L2_CID_GAMMA");
    ("V4L2_CID_EXPOSURE", Add (Id "V4L2_CID_BASE") (dec 17));
    ("V4L2_CID_AUTOGAIN", Add (Id "V4L2_CID_BASE") (dec 18));
    ("V4L2_CID_GAIN", Add (Id "V4L2_CID_BASE") (dec 19));
    ("V4L2_CID_HFLIP", Add (Id "V4L2_CID_BASE") (dec 20));
    ("V4L2_CID_VFLIP", Add (Id "V4L2_CID_BASE") (dec 21));
    ("V4L2_CID_POWER_LINE_FREQUENCY", Add (Id "V4L2_CID_BASE") (dec 24))];
  Enum [
    ("V4L2_CID_POWER_LINE_FREQUENCY_DISABLED", Some (dec 0));
    ("V4L2_CID_POWER_LINE_FREQUENCY_50HZ", Some (dec 1));
    ("V4L2_CID_POWER_LINE_FREQUENCY_60HZ", Some (dec 2));
    ("V4L2_CID_POWER_LINE_FREQUENCY_AUTO", Some (dec 3))];
  Defines [
    ("V4L2_CID_HUE_AUTO", Add (Id "V4L2_CID_BASE") (dec 25));
    ("V4L2_CID_WHITE_BALANCE_TEMPERATURE", Add (Id "V4L2_CID_BASE") (dec 26));
    ("V4L2_CID_SHARPNESS", Add (Id "V4L2_CID_BASE") (dec 27));
    ("V4L2_CID_BACKLIGHT_COMPENSATION", Add (Id "V4L2_CID_BASE") (dec 28));
    ("V4L2_CID_CHROMA_AGC", Add (Id "V4L2_CID_BASE") (dec 29));
    ("V4L2_CID_COLOR_KILLER", Add (Id "V4L2_CID_BASE") (dec 30));
    ("V4L2_CID_COLORFX", Add (Id "V4L2_CID_BASE") (dec 31))];
  Enum [
    ("V4L2_COLORFX_NONE", Some (dec 0)); ("V4L2_COLORFX_BW", Some (dec 1));
    ("V4L2_COLORFX_SEPIA", Some (dec 2)); ("V4L2_COLORFX_NEGATIVE", Some (dec 3));
    ("V4L2_COLORFX_EMBOSS", Some (dec 4)); ("V4L2_COLORFX_SKETCH", Some (dec 5));
    ("V4L2_COLORFX_SKY_BLUE", Some (dec 6)); ("V4L2_COLORFX_GRASS_GREEN", Some (dec 7));
    ("V4L2_COLORFX_SKIN_WHITEN", Some (dec 8)); ("V4L2_COLORFX_VIVID", Some (dec 9));
    ("V4L2_COLORFX_AQUA", Some (dec 10)); ("V4L2_COLORFX_ART_FREEZE", Some (dec 11));
    ("V4L2_COLORFX_SILHOUETTE", Some (dec 12)); ("V4L2_COLORFX_SOLARIZATION", Some (dec 13));
    ("V4L2_COLORFX_ANTIQUE", Some (dec 14)); ("V4L2_COLORFX_SET_CBCR", Some (dec 15))];
  Defines [
    ("V4L2_CID_AUTOBRIGHTNESS", Add (Id "V4L2_CID_BASE") (dec 32));
    ("V4L2_CID_BAND_STOP_FILTER", Add (Id "V4L2_CID_BASE") (dec 33));
    ("V4L2_CID_ROTATE", Add (Id "V4L2_CID_BASE") (dec 34));
    ("V4L2_CID_BG_COLOR", Add (Id "V4L2_CID_BASE") (dec 35));
    ("V4L2_CID_CHROMA_GAIN", Add (Id "V4L2_CID_BASE") (dec 36));
    ("V4L2_CID_ILLUMINATORS_1", Add (Id "V4L2_CID_BASE") (dec 37));
    ("V4L2_CID_ILLUMINATORS_2", Add (Id "V4L2_CID_BASE") (dec 38));
    ("V4L2_CID_MIN_BUFFERS_FOR_CAPTURE", Add (Id "V4L2_CID_BASE") (dec 39));
    ("V4L2_CID_MIN_BUFFERS_FOR_OUTPUT", Add (Id "V4L2_CID_BASE") (dec 40));
    ("V4L2_CID_ALPHA_COMPONENT", Add (Id "V4L2_CID_BASE") (dec 41));
    ("V4L2_CID_COLORFX_CBCR", Add (Id "V4L2_CID_BASE") (dec 42));
    ("V4L2_CID_LASTP1", Add (Id "V4L2_CID_BASE") (dec 43))]].
Definition defs_V4L2_CID_USER_S2255_BASE : list decl := [
  Defines [
    ("V4L2_CID_USER_S2255_BASE", Add (Id "V4L2_CID_USER_BASE") (hex 0x1030));
    ("V4L2_CID_USER_SI476X_BASE", Add (Id "V4L2_CID_USER_BASE") (hex 0x1040));
    ("V4L2_CID_USER_TI_VPE_BASE", Add (Id "V4L2_CID_USER_BASE") (hex 0x1050));
    ("V4L2_CID_USER_SAA7134_BASE", Add (Id "V4L2_CID_USER_BASE") (hex 0x1060));
    ("V4L2_CID_USER_ADV7180_BASE", Add (Id "V4L2_CID_USER_BASE") (hex 0x1070));
    ("V4L2_CID_USER_TC358743_BASE", Add (Id "V4L2_CID_USER_BASE") (hex 0x1080))];
  Defines [
    ("V4L2_CID_MPEG_BASE", Or (Id "V4L2_CTRL_CLASS_MPEG") (hex 0x900));
    ("V4L2_CID_MPEG_CLASS", Or (Id "V4L2_CTRL_CLASS_MPEG") (dec 1));
    ("V4L2_CID_MPEG_STREAM_TYPE", Add (Id "V4L2_CID_MPEG_BASE") (dec 0))];
  Enum [
    ("V4L2_MPEG_STREAM_TYPE_MPEG2_PS", Some (dec 0));
    ("V4L2_MPEG_STREAM_TYPE_MPEG2_TS", Some (dec 1));
    ("V4L2_MPEG_STREAM_TYPE_MPEG1_SS", Some (dec 2));
    ("V4L2_MPEG_STREAM_TYPE_MPEG2_DVD", Some (dec 3));
    ("V4L2_MPEG_STREAM_TYPE_MPEG1_VCD", Some (dec 4));
    ("V4L2_MPEG_STREAM_TYPE_MPEG2_SVCD", Some (dec 5))];
  Defines [
    ("V4L2_CID_MPEG_STREAM_PID_PMT", Add (Id "V4L2_CID_MPEG_BASE") (dec 1));
    ("V4L2_CID_MPEG_STREAM_PID_AUDIO", Add (Id "V4L2_CID_MPEG_BASE") (dec 2));
    ("V4L2_CID_MPEG_STREAM_PID_VIDEO", Add (Id "V4L2_CID_MPEG_BASE") (dec 3));
    ("V4L2_CID_MPEG_STREAM_PID_PCR", Add (Id "V4L2_CID_MPEG_BASE") (dec 4));
    ("V4L2_CID_MPEG_STREAM_PES_ID_AUDIO", Add (Id "V4L2_CID_MPEG_BASE") (dec 5));
    ("V4L2_CID_MPEG_STREAM_PES_ID_VIDEO", Add (Id "V4L2_CID_MPEG_BASE") (dec 6));
    ("V4L2_CID_MPEG_STREAM_VBI_FMT", Add (Id "V4L2_CID_MPEG_BASE") (dec 7))]].
Definition enum_v4l2_mpeg_audio_sampling_freq : list decl := [
  Enum [
    ("V4L2_MPEG_AUDIO_SAMPLING_FREQ_44100", Some (dec 0));
    ("V4L2_MPEG_AUDIO_SAMPLING_FREQ_48000", Some (dec 1));
    ("V4L2_MPEG_AUDIO_SAMPLING_FREQ_32000", Some (dec 2))];
  Defines [
    ("V4L2_CID_MPEG_AUDIO_ENCODING", Add (Id "V4L2_CID_MPEG_BASE") (dec 101))];
  Enum [
    ("V4L2_MPEG_AUDIO_ENCODING_LAYER_1", Some (dec 0));
    ("V4L2_MPEG_AUDIO_ENCODING_LAYER_2", Some (dec 1));
    ("V4L2_MPEG_AUDIO_ENCODING_LAYER_3", Some (dec 2));
    ("V4L2_MPEG_AUDIO_ENCODING_AAC", Some (dec 3));
    ("V4L2_MPEG_AUDIO_ENCODING_AC3", Some (dec 4))];
  Defines [
    ("V4L2_CID_MPEG_AUDIO_L1_BITRATE", Add (Id "V4L2_CID_MPEG_BASE") (dec 102))];
  Enum [
    ("V4L2_MPEG_AUDIO_L1_BITRATE_32K", Some (dec 0));
    ("V4L2_MPEG_AUDIO_L1_BITRATE_64K", Some (dec 1));
    ("V4L2_MPEG_AUDIO_L1_BITRATE_96K", Some (dec 2));
    ("V4L2_MPEG_AUDIO_L1_BITRATE_128K", Some (dec 3));
    ("V4L2_MPEG_AUDIO_L1_BITRATE_160K", Some (dec 4));
    ("V4L2_MPEG_AUDIO_L1_BITRATE_192K", Some (dec 5));
    ("V4L2_MPEG_AUDIO_L1_BITRATE_224K", Some (dec 6));
    ("V4L2_MPEG_AUDIO_L1_BITRATE_256K", Some (dec 7));
    ("V4L2_MPEG_AUDIO_L1_BITRATE_288K", Some (dec 8));
    ("V4L2_MPEG_AUDIO_L1_BITRATE_320K", Some (dec 9));
    ("V4L2_MPEG_AUDIO_L1_BITRATE_352K", Some (dec 10));
    ("V4L2_MPEG_AUDIO_L1_BITRATE_384K", Some (dec 11));
    ("V4L2_MPEG_AUDIO_L1_BITRATE_416K", Some (dec 12));
    ("V4L2_MPEG_AUDIO_L1_BITRATE_448K", Some (dec 13))];
  Defines [
    ("V4L2_CID_MPEG_AUDIO_L2_BITRATE", Add (Id "V4L2_CID_MPEG_BASE") (dec 103))];
  Enum [
    ("V4L2_MPEG_AUDIO_L2_BITRATE_32K", Some (dec 0));
    ("V4L2_MPEG_AUDIO_L2_BITRATE_48K", Some (dec 1));
    ("V4L2_MPEG_AUDIO_L2_BITRATE_56K", Some (dec 2));
    ("V4L2_MPEG_AUDIO_L2_BITRATE_64K", Some (dec 3));
    ("V4L2_MPEG_AUDIO_L2_BITRATE_80K", Some (dec 4));
    ("V4L2_MPEG_AUDIO_L2_BITRATE_96K", Some (dec 5));
    ("V4L2_MPEG_AUDIO_L2_BITRATE_112K", Some (dec 6));
    ("V4L2_MPEG_AUDIO_L2_BITRATE_128K", Some (dec 7));
    ("V4L2_MPEG_AUDIO_L2_BITRATE_160K", Some (dec 8));
    ("V4L2_MPEG_AUDIO_L2_BITRATE_192K", Some (dec 9));
    ("V4L2_MPEG_AUDIO_L2_BITRATE_224K", Some (dec 10));
    ("V4L2_MPEG_AUDIO_L2_BITRATE_256K", Some (dec 11));
    ("V4L2_MPEG_AUDIO_L2_BITRATE_320K", Some (dec 12));
    ("V4L2_MPEG_AUDIO_L2_BITRATE_384K", Some (dec 13))];
  Defines [
    ("V4L2_CID_MPEG_AUDIO_L3_BITRATE", Add (Id "V4L2_CID_MPEG_BASE") (dec 104))];
  Enum [
    ("V4L2_MPEG_AUDIO_L3_BITRATE_32K", Some (dec 0));
    ("V4L2_MPEG_AUDIO_L3_BITRATE_40K", Some (dec 1));
    ("V4L2_MPEG_AUDIO_L3_BITRATE_48K", Some (dec 2));
    ("V4L2_MPEG_AUDIO_L3_BITRATE_56K", Some (dec 3));
    ("V4L2_MPEG_AUDIO_L3_BITRATE_64K", Some (dec 4));
    ("V4L2_MPEG_AUDIO_L3_BITRATE_80K", Some (dec 5));
    ("V4L2_MPEG_AUDIO_L3_BITRATE_96K", Some (dec 6));
    ("V4L2_MPEG_AUDIO_L3_BITRATE_112K", Some (dec 7));
    ("V4L2_MPEG_AUDIO_L3_BITRATE_128K", Some (dec 8));
    ("V4L2_MPEG_AUDIO_L3_BITRATE_160K", Some (dec 9));
    ("V4L2_MPEG_AUDIO_L3_BITRATE_192K", Some (dec 10));
    ("V4L2_MPEG_AUDIO_L3_BITRATE_224K", Some (dec 11));
    ("V4L2_MPEG_AUDIO_L3_BITRATE_256K", Some (dec 12));
    ("V4L2_MPEG_AUDIO_L3_BITRATE_320K", Some (dec 13))];
  Defines [
    ("V4L2_CID_MPEG_AUDIO_MODE", Add (Id "V4L2_CID_MPEG_BASE") (dec 105))];
  Enum [
    ("V4L2_MPEG_AUDIO_MODE_STEREO", Some (dec 0));
    ("V4L2_MPEG_AUDIO_MODE_JOINT_STEREO", Some (dec 1));
    ("V4L2_MPEG_AUDIO_MODE_DUAL", Some (dec 2)); ("V4L2_MPEG_AUDIO_MODE_MONO", Some (dec 3))];
  Defines [
    ("V4L2_CID_MPEG_AUDIO_MODE_EXTENSION", Add (Id "V4L2_CID_MPEG_BASE") (dec 106))];
  Enum [
    ("V4L2_MPEG_AUDIO_MODE_EXTENSION_BOUND_4", Some (dec 0));
    ("V4L2_MPEG_AUDIO_MODE_EXTENSION_BOUND_8", Some (dec 1));
    ("V4L2_MPEG_AUDIO_MODE_EXTENSION_BOUND_12", Some (dec 2));
    ("V4L2_MPEG_AUDIO_MODE_EXTENSION_BOUND_16", Some (dec 3))];
  Defines [
    ("V4L2_CID_MPEG_AUDIO_EMPHASIS", Add (Id "V4L2_CID_MPEG_BASE") (dec 107))];
  Enum [
    ("V4L2_MPEG_AUDIO_EMPHASIS_NONE", Some (dec 0));
    ("V4L2_MPEG_AUDIO_EMPHASIS_50_DIV_15_uS", Some (dec 1));
    ("V4L2_MPEG_AUDIO_EMPHASIS_CCITT_J17", Some (dec 2))];
  Defines [
    ("V4L2_CID_MPEG_AUDIO_CRC", Add (Id "V4L2_CID_MPEG_BASE") (dec 108))]].
Definition enum_v4l2_mpeg_audio_ac3_bitrate : list decl := [
  Enum [
    ("V4L2_MPEG_AUDIO_AC3_BITRATE_32K", Some (dec 0));
    ("V4L2_MPEG_AUDIO_AC3_BITRATE_40K", Some (dec 1));
    ("V4L2_MPEG_AUDIO_AC3_BITRATE_48K", Some (dec 2));
    ("V4L2_MPEG_AUDIO_AC3_BITRATE_56K", Some (dec 3));
    ("V4L2_MPEG_AUDIO_AC3_BITRATE_64K", Some (dec 4));
    ("V4L2_MPEG_AUDIO_AC3_BITRATE_80K", Some (dec 5));
    ("V4L2_MPEG_AUDIO_AC3_BITRATE_96K", Some (dec 6));
    ("V4L2_MPEG_AUDIO_AC3_BITRATE_112K", Some (dec 7));
    ("V4L2_MPEG_AUDIO_AC3_BITRATE_128K", Some (dec 8));
    ("V4L2_MPEG_AUDIO_AC3_BITRATE_160K", Some (dec 9));
    ("V4L2_MPEG_AUDIO_AC3_BITRATE_192K", Some (dec 10));
    ("V4L2_MPEG_AUDIO_AC3_BITRATE_224K", Some (dec 11));
    ("V4L2_MPEG_AUDIO_AC3_BITRATE_256K", Some (dec 12));
    ("V4L2_MPEG_AUDIO_AC3_BITRATE_320K", Some (dec 13));
    ("V4L2_MPEG_AUDIO_AC3_BITRATE_384K", Some (dec 14));
    ("V4L2_MPEG_AUDIO_AC3_BITRATE_448K", Some (dec 15));
    ("V4L2_MPEG_AUDIO_AC3_BITRATE_512K", Some (dec 16));
    ("V4L2_MPEG_AUDIO_AC3_BITRATE_576K", Some (dec 17));
    ("V4L2_MPEG_AUDIO_AC3_BITRATE_640K", Some (dec 18))];
  Defines [
    ("V4L2_CID_MPEG_AUDIO_DEC_PLAYBACK", Add (Id "V4L2_CID_MPEG_BASE") (dec 112))];
  Enum [
    ("V4L2_MPEG_AUDIO_DEC_PLAYBACK_AUTO", Some (dec 0));
    ("V4L2_MPEG_AUDIO_DEC_PLAYBACK_STEREO", Some (dec 1));
    ("V4L2_MPEG_AUDIO_DEC_PLAYBACK_LEFT", Some (dec 2));
    ("V4L2_MPEG_AUDIO_DEC_PLAYBACK_RIGHT", Some (dec 3));
    ("V4L2_MPEG_AUDIO_DEC_PLAYBACK_MONO", Some (dec 4));
    ("V4L2_MPEG_AUDIO_DEC_PLAYBACK_SWAPPED_STEREO", Some (dec 5))];
  Defines [
    ("V4L2_CID_MPEG_AUDIO_DEC_MULTILINGUAL_PLAYBACK", Add (Id "V4L2_CID_MPEG_BASE") (dec 113));
    ("V4L2_CID_MPEG_VIDEO_ENCODING", Add (Id "V4L2_CID_MPEG_BASE") (dec 200))];
  Enum [
    ("V4L2_MPEG_VIDEO_ENCODING_MPEG_1", Some (dec 0));
    ("V4L2_MPEG_VIDEO_ENCODING_MPEG_2", Some (dec 1));
    ("V4L2_MPEG_VIDEO_ENCODING_MPEG_4_AVC", Some (dec 2))];
  Defines [
    ("V4L2_CID_MPEG_VIDEO_ASPECT", Add (Id "V4L2_CID_MPEG_BASE") (dec 201))];
  Enum [
    ("V4L2_MPEG_VIDEO_ASPECT_1x1", Some (dec 0)); ("V4L2_MPEG_VIDEO_ASPECT_4x3", Some (dec 1));
    ("V4L2_MPEG_VIDEO_ASPECT_16x9", Some (dec 2));
    ("V4L2_MPEG_VIDEO_ASPECT_221x100", Some (dec 3))];
  Defines [
    ("V4L2_CID_MPEG_VIDEO_B_FRAMES", Add (Id "V4L2_CID_MPEG_BASE") (dec 202));
    ("V4L2_CID_MPEG_VIDEO_GOP_SIZE", Add (Id "V4L2_CID_MPEG_BASE") (dec 203));
    ("V4L2_CID_MPEG_VIDEO_GOP_CLOSURE", Add (Id "V4L2_CID_MPEG_BASE") (dec 204));
    ("V4L2_CID_MPEG_VIDEO_PULLDOWN", Add (Id "V4L2_CID_MPEG_BASE") (dec 205));
    ("V4L2_CID_MPEG_VIDEO_BITRATE_MODE", Add (Id "V4L2_CID_MPEG_BASE") (dec 206))]].
Definition defs_V4L2_CID_MPEG_VIDEO_BITRATE : list decl := [
  Defines [
    ("V4L2_CID_MPEG_VIDEO_BITRATE", Add (Id "V4L2_CID_MPEG_BASE") (dec 207));
    ("V4L2_CID_MPEG_VIDEO_BITRATE_PEAK", Add (Id "V4L2_CID_MPEG_BASE") (dec 208));
    ("V4L2_CID_MPEG_VIDEO_TEMPORAL_DECIMATION", Add (Id "V4L2_CID_MPEG_BASE") (dec 209));
    ("V4L2_CID_MPEG_VIDEO_MUTE", Add (Id "V4L2_CID_MPEG_BASE") (dec 210));
    ("V4L2_CID_MPEG_VIDEO_MUTE_YUV", Add (Id "V4L2_CID_MPEG_BASE") (dec 211));
    ("V4L2_CID_MPEG_VIDEO_DECODER_SLICE_INTERFACE", Add (Id "V4L2_CID_MPEG_BASE") (dec 212));
    ("V4L2_CID_MPEG_VIDEO_DECODER_MPEG4_DEBLOCK_FILTER", Add (Id "V4L2_CID_MPEG_BASE") (dec 213));
    ("V4L2_CID_MPEG_VIDEO_CYCLIC_INTRA_REFRESH_MB", Add (Id "V4L2_CID_MPEG_BASE") (dec 214));
    ("V4L2_CID_MPEG_VIDEO_FRAME_RC_ENABLE", Add (Id "V4L2_CID_MPEG_BASE") (dec 215));
    ("V4L2_CID_MPEG_VIDEO_HEADER_MODE", Add (Id "V4L2_CID_MPEG_BASE") (dec 216))];
  Enum [
    ("V4L2_MPEG_VIDEO_HEADER_MODE_SEPARATE", Some (dec 0));
    ("V4L2_MPEG_VIDEO_HEADER_MODE_JOINED_WITH_1ST_FRAME", Some (dec 1));
    ("V4L2_MPEG_VIDEO_HEADER_MODE_JOINED_WITH_I_FRAME", Some (dec 2))];
  Defines [
    ("V4L2_CID_MPEG_VIDEO_MAX_REF_PIC", Add (Id "V4L2_CID_MPEG_BASE") (dec 217));
    ("V4L2_CID_MPEG_VIDEO_MB_RC_ENABLE", Add (Id "V4L2_CID_MPEG_BASE") (dec 218));
    ("V4L2_CID_MPEG_VIDEO_MULTI_SLICE_MAX_BYTES", Add (Id "V4L2_CID_MPEG_BASE") (dec 219));
    ("V4L2_CID_MPEG_VIDEO_MULTI_SLICE_MAX_MB", Add (Id "V4L2_CID_MPEG_BASE") (dec 220));
    ("V4L2_CID_MPEG_VIDEO_MULTI_SLICE_MODE", Add (Id "V4L2_CID_MPEG_BASE") (dec 221))];
  Enum [
    ("V4L2_MPEG_VIDEO_MULTI_SLICE_MODE_SINGLE", Some (dec 0));
    ("V4L2_MPEG_VIDEO_MULTI_SICE_MODE_MAX_MB", Some (dec 1));
    ("V4L2_MPEG_VIDEO_MULTI_SICE_MODE_MAX_BYTES", Some (dec 2));
    ("V4L2_MPEG_VIDEO_MULTI_SLICE_GOB", Some (dec 3))];
  Defines [
    ("V4L2_CID_MPEG_VIDEO_VBV_SIZE", Add (Id "V4L2_CID_MPEG_BASE") (dec 222));
    ("V4L2_CID_MPEG_VIDEO_DEC_PTS", Add (Id "V4L2_CID_MPEG_BASE") (dec 223));
    ("V4L2_CID_MPEG_VIDEO_DEC_FRAME", Add (Id "V4L2_CID_MPEG_BASE") (dec 224));
    ("V4L2_CID_MPEG_VIDEO_VBV_DELAY", Add (Id "V4L2_CID_MPEG_BASE") (dec 225));
    ("V4L2_CID_MPEG_VIDEO_REPEAT_SEQ_HEADER", Add (Id "V4L2_CID_MPEG_BASE") (dec 226));
    ("V4L2_CID_MPEG_VIDEO_MV_H_SEARCH_RANGE", Add (Id "V4L2_CID_MPEG_BASE") (dec 227));
    ("V4L2_CID_MPEG_VIDEO_MV_V_SEARCH_RANGE", Add (Id "V4L2_CID_MPEG_BASE") (dec 228));
    ("V4L2_CID_MPEG_VIDEO_H263_I_FRAME_QP", Add (Id "V4L2_CID_MPEG_BASE") (dec 300));
    ("V4L2_CID_MPEG_VIDEO_H263_P_FRAME_QP", Add (Id "V4L2_CID_MPEG_BASE") (dec 301));
    ("V4L2_CID_MPEG_VIDEO_H263_B_FRAME_QP", Add (Id "V4L2_CID_MPEG_BASE") (dec 302));
    ("V4L2_CID_MPEG_VIDEO_H263_MIN_QP", Add (Id "V4L2_CID_MPEG_BASE") (dec 303));
    ("V4L2_CID_MPEG_VIDEO_H263_MAX_QP", Add (Id "V4L2_CID_MPEG_BASE") (dec 304));
    ("V4L2_CID_MPEG_VIDEO_H264_I_FRAME_QP", Add (Id "V4L2_CID_MPEG_BASE") (dec 350));
    ("V4L2_CID_MPEG_VIDEO_H264_P_FRAME_QP", Add (Id "V4L2_CID_MPEG_BASE") (dec 351));
    ("V4L2_CID_MPEG_VIDEO_H264_B_FRAME_QP", Add (Id "V4L2_CID_MPEG_BASE") (dec 352));
    ("V4L2_CID_MPEG_VIDEO_H264_MIN_QP", Add (Id "V4L2_CID_MPEG_BASE") (dec 353));
    ("V4L2_CID_MPEG_VIDEO_H264_MAX_QP", Add (Id "V4L2_CID_MPEG_BASE") (dec 354));
    ("V4L2_CID_MPEG_VIDEO_H264_8X8_TRANSFORM", Add (Id "V4L2_CID_MPEG_BASE") (dec 355));
    ("V4L2_CID_MPEG_VIDEO_H264_CPB_SIZE", Add (Id "V4L2_CID_MPEG_BASE") (dec 356));
    ("V4L2_CID_MPEG_VIDEO_H264_ENTROPY_MODE", Add (Id "V4L2_CID_MPEG_BASE") (dec 357))]].
Definition enum_v4l2_mpeg_video_h264_level : list decl := [
  Enum [
    ("V4L2_MPEG_VIDEO_H264_LEVEL_1_0", Some (dec 0));
    ("V4L2_MPEG_VIDEO_H264_LEVEL_1B", Some (dec 1));
    ("V4L2_MPEG_VIDEO_H264_LEVEL_1_1", Some (dec 2));
    ("V4L2_MPEG_VIDEO_H264_LEVEL_1_2", Some (dec 3));
    ("V4L2_MPEG_VIDEO_H264_LEVEL_1_3", Some (dec 4));
    ("V4L2_MPEG_VIDEO_H264_LEVEL_2_0", Some (dec 5));
    ("V4L2_MPEG_VIDEO_H264_LEVEL_2_1", Some (dec 6));
    ("V4L2_MPEG_VIDEO_H264_LEVEL_2_2", Some (dec 7));
    ("V4L2_MPEG_VIDEO_H264_LEVEL_3_0", Some (dec 8));
    ("V4L2_MPEG_VIDEO_H264_LEVEL_3_1", Some (dec 9));
    ("V4L2_MPEG_VIDEO_H264_LEVEL_3_2", Some (dec 10));
    ("V4L2_MPEG_VIDEO_H264_LEVEL_4_0", Some (dec 11));
    ("V4L2_MPEG_VIDEO_H264_LEVEL_4_1", Some (dec 12));
    ("V4L2_MPEG_VIDEO_H264_LEVEL_4_2", Some (dec 13));
    ("V4L2_MPEG_VIDEO_H264_LEVEL_5_0", Some (dec 14));
    ("V4L2_MPEG_VIDEO_H264_LEVEL_5_1", Some (dec 15));
    ("V4L2_MPEG_VIDEO_H264_LEVEL_5_2", Some (dec 16))];
  Defines [
    ("V4L2_CID_MPEG_VIDEO_H264_LOOP_FILTER_ALPHA", Add (Id "V4L2_CID_MPEG_BASE") (dec 360));
    ("V4L2_CID_MPEG_VIDEO_H264_LOOP_FILTER_BETA", Add (Id "V4L2_CID_MPEG_BASE") (dec 361));
    ("V4L2_CID_MPEG_VIDEO_H264_LOOP_FILTER_MODE", Add (Id "V4L2_CID_MPEG_BASE") (dec 362))];
  Enum [
    ("V4L2_MPEG_VIDEO_H264_LOOP_FILTER_MODE_ENABLED", Some (dec 0));
    ("V4L2_MPEG_VIDEO_H264_LOOP_FILTER_MODE_DISABLED", Some (dec 1));
    ("V4L2_MPEG_VIDEO_H264_LOOP_FILTER_MODE_DISABLED_AT_SLICE_BOUNDARY", Some (dec 2))];
  Defines [
    ("V4L2_CID_MPEG_VIDEO_H264_PROFILE", Add (Id "V4L2_CID_MPEG_BASE") (dec 363))];
  Enum [
    ("V4L2_MPEG_VIDEO_H264_PROFILE_BASELINE", Some (dec 0));
    ("V4L2_MPEG_VIDEO_H264_PROFILE_CONSTRAINED_BASELINE", Some (dec 1));
    ("V4L2_MPEG_VIDEO_H264_PROFILE_MAIN", Some (dec 2));
    ("V4L2_MPEG_VIDEO_H264_PROFILE_EXTENDED", Some (dec 3));
    ("V4L2_MPEG_VIDEO_H264_PROFILE_HIGH", Some (dec 4));
    ("V4L2_MPEG_VIDEO_H264_PROFILE_HIGH_10", Some (dec 5));
    ("V4L2_MPEG_VIDEO_H264_PROFILE_HIGH_422", Some (dec 6));
    ("V4L2_MPEG_VIDEO_H264_PROFILE_HIGH_444_PREDICTIVE", Some (dec 7));
    ("V4L2_MPEG_VIDEO_H264_PROFILE_HIGH_10_INTRA", Some (dec 8));
    ("V4L2_MPEG_VIDEO_H264_PROFILE_HIGH_422_INTRA", Some (dec 9));
    ("V4L2_MPEG_VIDEO_H264_PROFILE_HIGH_444_INTRA", Some (dec 10));
    ("V4L2_MPEG_VIDEO_H264_PROFILE_CAVLC_444_INTRA", Some (dec 11));
    ("V4L2_MPEG_VIDEO_H264_PROFILE_SCALABLE_BASELINE", Some (dec 12));
    ("V4L2_MPEG_VIDEO_H264_PROFILE_SCALABLE_HIGH", Some (dec 13));
    ("V4L2_MPEG_VIDEO_H264_PROFILE_SCALABLE_HIGH_INTRA", Some (dec 14));
    ("V4L2_MPEG_VIDEO_H264_PROFILE_STEREO_HIGH", Some (dec 15));
    ("V4L2_MPEG_VIDEO_H264_PROFILE_MULTIVIEW_HIGH", Some (dec 16));
    ("V4L2_MPEG_VIDEO_H264_PROFILE_CONSTRAINED_HIGH", Some (dec 17))];
  Defines [
    ("V4L2_CID_MPEG_VIDEO_H264_VUI_EXT_SAR_HEIGHT", Add (Id "V4L2_CID_MPEG_BASE") (dec 364));
    ("V4L2_CID_MPEG_VIDEO_H264_VUI_EXT_SAR_WIDTH", Add (Id "V4L2_CID_MPEG_BASE") (dec 365));
    ("V4L2_CID_MPEG_VIDEO_H264_VUI_SAR_ENABLE", Add (Id "V4L2_CID_MPEG_BASE") (dec 366));
    ("V4L2_CID_MPEG_VIDEO_H264_VUI_SAR_IDC", Add (Id "V4L2_CID_MPEG_BASE") (dec 367))];
  Enum [
    ("V4L2_MPEG_VIDEO_H264_VUI_SAR_IDC_UNSPECIFIED", Some (dec 0));
    ("V4L2_MPEG_VIDEO_H264_VUI_SAR_IDC_1x1", Some (dec 1));
    ("V4L2_MPEG_VIDEO_H264_VUI_SAR_IDC_12x11", Some (dec 2));
    ("V4L2_MPEG_VIDEO_H264_VUI_SAR_IDC_10x11", Some (dec 3));
    ("V4L2_MPEG_VIDEO_H264_VUI_SAR_IDC_16x11", Some (dec 4));
    ("V4L2_MPEG_VIDEO_H264_VUI_SAR_IDC_40x33", Some (dec 5));
    ("V4L2_MPEG_VIDEO_H264_VUI_SAR_IDC_24x11", Some (dec 6));
    ("V4L2_MPEG_VIDEO_H264_VUI_SAR_IDC_20x11", Some (dec 7));
    ("V4L2_MPEG_VIDEO_H264_VUI_SAR_IDC_32x11", Some (dec 8));
    ("V4L2_MPEG_VIDEO_H264_VUI_SAR_IDC_80x33", Some (dec 9));
    ("V4L2_MPEG_VIDEO_H264_VUI_SAR_IDC_18x11", Some (dec 10));
    ("V4L2_MPEG_VIDEO_H264_VUI_SAR_IDC_15x11", Some (dec 11));
    ("V4L2_MPEG_VIDEO_H264_VUI_SAR_IDC_64x33", Some (dec 12));
    ("V4L2_MPEG_VIDEO_H264_VUI_SAR_IDC_160x99", Some (dec 13));
    ("V4L2_MPEG_VIDEO_H264_VUI_SAR_IDC_4x3", Some (dec 14));
    ("V4L2_MPEG_VIDEO_H264_VUI_SAR_IDC_3x2", Some (dec 15));
    ("V4L2_MPEG_VIDEO_H264_VUI_SAR_IDC_2x1", Some (dec 16));
    ("V4L2_MPEG_VIDEO_H264_VUI_SAR_IDC_EXTENDED", Some (dec 17))];
  Defines [
    ("V4L2_CID_MPEG_VIDEO_H264_SEI_FRAME_PACKING", Add (Id "V4L2_CID_MPEG_BASE") (dec 368));
    ("V4L2_CID_MPEG_VIDEO_H264_SEI_FP_CURRENT_FRAME_0", Add (Id "V4L2_CID_MPEG_BASE") (dec 369));
    ("V4L2_CID_MPEG_VIDEO_H264_SEI_FP_ARRANGEMENT_TYPE", Add (Id "V4L2_CID_MPEG_BASE") (dec 370))];
  Enum [
    ("V4L2_MPEG_VIDEO_H264_SEI_FP_ARRANGEMENT_TYPE_CHECKERBOARD", Some (dec 0));
    ("V4L2_MPEG_VIDEO_H264_SEI_FP_ARRANGEMENT_TYPE_COLUMN", Some (dec 1));
    ("V4L2_MPEG_VIDEO_H264_SEI_FP_ARRANGEMENT_TYPE_ROW", Some (dec 2));
    ("V4L2_MPEG_VIDEO_H264_SEI_FP_ARRANGEMENT_TYPE_SIDE_BY_SIDE", Some (dec 3));
    ("V4L2_MPEG_VIDEO_H264_SEI_FP_ARRANGEMENT_TYPE_TOP_BOTTOM", Some (dec 4));
    ("V4L2_MPEG_VIDEO_H264_SEI_FP_ARRANGEMENT_TYPE_TEMPORAL", Some (dec 5))];
  Defines [
    ("V4L2_CID_MPEG_VIDEO_H264_FMO", Add (Id "V4L2_CID_MPEG_BASE") (dec 371));
    ("V4L2_CID_MPEG_VIDEO_H264_FMO_MAP_TYPE", Add (Id "V4L2_CID_MPEG_BASE") (dec 372))];
  Enum [
    ("V4L2_MPEG_VIDEO_H264_FMO_MAP_TYPE_INTERLEAVED_SLICES", Some (dec 0));
    ("V4L2_MPEG_VIDEO_H264_FMO_MAP_TYPE_SCATTERED_SLICES", Some (dec 1));
    ("V4L2_MPEG_VIDEO_H264_FMO_MAP_TYPE_FOREGROUND_WITH_LEFT_OVER", Some (dec 2));
    ("V4L2_MPEG_VIDEO_H264_FMO_MAP_TYPE_BOX_OUT", Some (dec 3));
    ("V4L2_MPEG_VIDEO_H264_FMO_MAP_TYPE_RASTER_SCAN", Some (dec 4));
    ("V4L2_MPEG_VIDEO_H264_FMO_MAP_TYPE_WIPE_SCAN", Some (dec 5));
    ("V4L2_MPEG_VIDEO_H264_FMO_MAP_TYPE_EXPLICIT", Some (dec 6))];
  Defines [
    ("V4L2_CID_MPEG_VIDEO_H264_FMO_SLICE_GROUP", Add (Id "V4L2_CID_MPEG_BASE") (dec 373));
    ("V4L2_CID_MPEG_VIDEO_H264_FMO_CHANGE_DIRECTION", Add (Id "V4L2_CID_MPEG_BASE") (dec 374))]].
Definition defs_V4L2_CID_MPEG_VIDEO_H264_FMO_CHANGE_RATE : list decl := [
  Defines [
    ("V4L2_CID_MPEG_VIDEO_H264_FMO_CHANGE_RATE", Add (Id "V4L2_CID_MPEG_BASE") (dec 375));
    ("V4L2_CID_MPEG_VIDEO_H264_FMO_RUN_LENGTH", Add (Id "V4L2_CID_MPEG_BASE") (dec 376));
    ("V4L2_CID_MPEG_VIDEO_H264_ASO", Add (Id "V4L2_CID_MPEG_BASE") (dec 377));
    ("V4L2_CID_MPEG_VIDEO_H264_ASO_SLICE_ORDER", Add (Id "V4L2_CID_MPEG_BASE") (dec 378));
    ("V4L2_CID_MPEG_VIDEO_H264_HIERARCHICAL_CODING", Add (Id "V4L2_CID_MPEG_BASE") (dec 379));
    ("V4L2_CID_MPEG_VIDEO_H264_HIERARCHICAL_CODING_TYPE", Add (Id "V4L2_CID_MPEG_BASE") (dec 380))]].
Definition defs_V4L2_CID_MPEG_VIDEO_H264_HIERARCHICAL_CODING_LAYER : list decl := [
  Defines [
    ("V4L2_CID_MPEG_VIDEO_H264_HIERARCHICAL_CODING_LAYER", Add (Id "V4L2_CID_MPEG_BASE") (dec 381));
    ("V4L2_CID_MPEG_VIDEO_H264_HIERARCHICAL_CODING_LAYER_QP", Add (Id "V4L2_CID_MPEG_BASE") (dec 382));
    ("V4L2_CID_MPEG_VIDEO_MPEG4_I_FRAME_QP", Add (Id "V4L2_CID_MPEG_BASE") (dec 400));
    ("V4L2_CID_MPEG_VIDEO_MPEG4_P_FRAME_QP", Add (Id "V4L2_CID_MPEG_BASE") (dec 401));
    ("V4L2_CID_MPEG_VIDEO_MPEG4_B_FRAME_QP", Add (Id "V4L2_CID_MPEG_BASE") (dec 402));
    ("V4L2_CID_MPEG_VIDEO_MPEG4_MIN_QP", Add (Id "V4L2_CID_MPEG_BASE") (dec 403));
    ("V4L2_CID_MPEG_VIDEO_MPEG4_MAX_QP", Add (Id "V4L2_CID_MPEG_BASE") (dec 404));
    ("V4L2_CID_MPEG_VIDEO_MPEG4_LEVEL", Add (Id "V4L2_CID_MPEG_BASE") (dec 405))];
  Enum [
    ("V4L2_MPEG_VIDEO_MPEG4_LEVEL_0", Some (dec 0));
    ("V4L2_MPEG_VIDEO_MPEG4_LEVEL_0B", Some (dec 1));
    ("V4L2_MPEG_VIDEO_MPEG4_LEVEL_1", Some (dec 2));
    ("V4L2_MPEG_VIDEO_MPEG4_LEVEL_2", Some (dec 3));
    ("V4L2_MPEG_VIDEO_MPEG4_LEVEL_3", Some (dec 4));
    ("V4L2_MPEG_VIDEO_MPEG4_LEVEL_3B", Some (dec 5));
    ("V4L2_MPEG_VIDEO_MPEG4_LEVEL_4", Some (dec 6));
    ("V4L2_MPEG_VIDEO_MPEG4_LEVEL_5", Some (dec 7))];
  Defines [
    ("V4L2_CID_MPEG_VIDEO_MPEG4_PROFILE", Add (Id "V4L2_CID_MPEG_BASE") (dec 406))];
  Enum [
    ("V4L2_MPEG_VIDEO_MPEG4_PROFILE_SIMPLE", Some (dec 0));
    ("V4L2_MPEG_VIDEO_MPEG4_PROFILE_ADVANCED_SIMPLE", Some (dec 1));
    ("V4L2_MPEG_VIDEO_MPEG4_PROFILE_CORE", Some (dec 2));
    ("V4L2_MPEG_VIDEO_MPEG4_PROFILE_SIMPLE_SCALABLE", Some (dec 3));
    ("V4L2_MPEG_VIDEO_MPEG4_PROFILE_ADVANCED_CODING_EFFICIENCY", Some (dec 4))];
  Defines [
    ("V4L2_CID_MPEG_VIDEO_MPEG4_QPEL", Add (Id "V4L2_CID_MPEG_BASE") (dec 407))]].
Definition enum_v4l2_vp8_num_partitions : list decl := [
  Enum [
    ("V4L2_CID_MPEG_VIDEO_VPX_1_PARTITION", Some (dec 0));
    ("V4L2_CID_MPEG_VIDEO_VPX_2_PARTITIONS", Some (dec 1));
    ("V4L2_CID_MPEG_VIDEO_VPX_4_PARTITIONS", Some (dec 2));
    ("V4L2_CID_MPEG_VIDEO_VPX_8_PARTITIONS", Some (dec 3))];
  Defines [
    ("V4L2_CID_MPEG_VIDEO_VPX_IMD_DISABLE_4X4", Add (Id "V4L2_CID_MPEG_BASE") (dec 501));
    ("V4L2_CID_MPEG_VIDEO_VPX_NUM_REF_FRAMES", Add (Id "V4L2_CID_MPEG_BASE") (dec 502))];
  Enum [
    ("V4L2_CID_MPEG_VIDEO_VPX_1_REF_FRAME", Some (dec 0));
    ("V4L2_CID_MPEG_VIDEO_VPX_2_REF_FRAME", Some (dec 1));
    ("V4L2_CID_MPEG_VIDEO_VPX_3_REF_FRAME", Some (dec 2))];
  Defines [
    ("V4L2_CID_MPEG_VIDEO_VPX_FILTER_LEVEL", Add (Id "V4L2_CID_MPEG_BASE") (dec 503));
    ("V4L2_CID_MPEG_VIDEO_VPX_FILTER_SHARPNESS", Add (Id "V4L2_CID_MPEG_BASE") (dec 504));
    ("V4L2_CID_MPEG_VIDEO_VPX_GOLDEN_FRAME_REF_PERIOD", Add (Id "V4L2_CID_MPEG_BASE") (dec 505));
    ("V4L2_CID_MPEG_VIDEO_VPX_GOLDEN_FRAME_SEL", Add (Id "V4L2_CID_MPEG_BASE") (dec 506))]].
Definition defs_V4L2_CID_MPEG_VIDEO_VPX_MIN_QP : list decl := [
  Defines [
    ("V4L2_CID_MPEG_VIDEO_VPX_MIN_QP", Add (Id "V4L2_CID_MPEG_BASE") (dec 507));
    ("V4L2_CID_MPEG_VIDEO_VPX_MAX_QP", Add (Id "V4L2_CID_MPEG_BASE") (dec 508));
    ("V4L2_CID_MPEG_VIDEO_VPX_I_FRAME_QP", Add (Id "V4L2_CID_MPEG_BASE") (dec 509));
    ("V4L2_CID_MPEG_VIDEO_VPX_P_FRAME_QP", Add (Id "V4L2_CID_MPEG_BASE") (dec 510));
    ("V4L2_CID_MPEG_VIDEO_VPX_PROFILE", Add (Id "V4L2_CID_MPEG_BASE") (dec 511));
    ("V4L2_CID_MPEG_CX2341X_BASE", Or (Id "V4L2_CTRL_CLASS_MPEG") (hex 0x1000));
    ("V4L2_CID_MPEG_CX2341X_VIDEO_SPATIAL_FILTER_MODE", Add (Id "V4L2_CID_MPEG_CX2341X_BASE") (dec 0))]].
Definition enum_v4l2_mpeg_cx2341x_video_luma_spatial_filter_type : list decl := [
  Enum [
    ("V4L2_MPEG_CX2341X_VIDEO_LUMA_SPATIAL_FILTER_TYPE_OFF", Some (dec 0));
    ("V4L2_MPEG_CX2341X_VIDEO_LUMA_SPATIAL_FILTER_TYPE_1D_HOR", Some (dec 1));
    ("V4L2_MPEG_CX2341X_VIDEO_LUMA_SPATIAL_FILTER_TYPE_1D_VERT", Some (dec 2));
    ("V4L2_MPEG_CX2341X_VIDEO_LUMA_SPATIAL_FILTER_TYPE_2D_HV_SEPARABLE", Some (dec 3));
    ("V4L2_MPEG_CX2341X_VIDEO_LUMA_SPATIAL_FILTER_TYPE_2D_SYM_NON_SEPARABLE", Some (dec 4))];
  Defines [
    ("V4L2_CID_MPEG_CX2341X_VIDEO_CHROMA_SPATIAL_FILTER_TYPE", Add (Id "V4L2_CID_MPEG_CX2341X_BASE") (dec 3))]].
Definition enum_v4l2_mpeg_cx2341x_video_median_filter_type : list decl := [
  Enum [
    ("V4L2_MPEG_CX2341X_VIDEO_MEDIAN_FILTER_TYPE_OFF", Some (dec 0));
    ("V4L2_MPEG_CX2341X_VIDEO_MEDIAN_FILTER_TYPE_HOR", Some (dec 1));
    ("V4L2_MPEG_CX2341X_VIDEO_MEDIAN_FILTER_TYPE_VERT", Some (dec 2));
    ("V4L2_MPEG_CX2341X_VIDEO_MEDIAN_FILTER_TYPE_HOR_VERT", Some (dec 3));
    ("V4L2_MPEG_CX2341X_VIDEO_MEDIAN_FILTER_TYPE_DIAG", Some (dec 4))];
  Defines [
    ("V4L2_CID_MPEG_CX2341X_VIDEO_LUMA_MEDIAN_FILTER_BOTTOM", Add (Id "V4L2_CID_MPEG_CX2341X_BASE") (dec 7));
    ("V4L2_CID_MPEG_CX2341X_VIDEO_LUMA_MEDIAN_FILTER_TOP", Add (Id "V4L2_CID_MPEG_CX2341X_BASE") (dec 8));
    ("V4L2_CID_MPEG_CX2341X_VIDEO_CHROMA_MEDIAN_FILTER_BOTTOM", Add (Id "V4L2_CID_MPEG_CX2341X_BASE") (dec 9));
    ("V4L2_CID_MPEG_CX2341X_VIDEO_CHROMA_MEDIAN_FILTER_TOP", Add (Id "V4L2_CID_MPEG_CX2341X_BASE") (dec 10));
    ("V4L2_CID_MPEG_CX2341X_STREAM_INSERT_NAV_PACKETS", Add (Id "V4L2_CID_MPEG_CX2341X_BASE") (dec 11));
    ("V4L2_CID_MPEG_MFC51_BASE", Or (Id "V4L2_CTRL_CLASS_MPEG") (hex 0x1100));
    ("V4L2_CID_MPEG_MFC51_VIDEO_DECODER_H264_DISPLAY_DELAY", Add (Id "V4L2_CID_MPEG_MFC51_BASE") (dec 0));
    ("V4L2_CID_MPEG_MFC51_VIDEO_DECODER_H264_DISPLAY_DELAY_ENABLE", Add (Id "V4L2_CID_MPEG_MFC51_BASE") (dec 1));
    ("V4L2_CID_MPEG_MFC51_VIDEO_FRAME_SKIP_MODE", Add (Id "V4L2_CID_MPEG_MFC51_BASE") (dec 2))];
  Enum [
    ("V4L2_MPEG_MFC51_VIDEO_FRAME_SKIP_MODE_DISABLED", Some (dec 0));
    ("V4L2_MPEG_MFC51_VIDEO_FRAME_SKIP_MODE_LEVEL_LIMIT", Some (dec 1));
    ("V4L2_MPEG_MFC51_VIDEO_FRAME_SKIP_MODE_BUF_LIMIT", Some (dec 2))];
  Defines [
    ("V4L2_CID_MPEG_MFC51_VIDEO_FORCE_FRAME_TYPE", Add (Id "V4L2_CID_MPEG_MFC51_BASE") (dec 3))];
  Enum [
    ("V4L2_MPEG_MFC51_VIDEO_FORCE_FRAME_TYPE_DISABLED", Some (dec 0));
    ("V4L2_MPEG_MFC51_VIDEO_FORCE_FRAME_TYPE_I_FRAME", Some (dec 1));
    ("V4L2_MPEG_MFC51_VIDEO_FORCE_FRAME_TYPE_NOT_CODED", Some (dec 2))];
  Defines [
    ("V4L2_CID_MPEG_MFC51_VIDEO_PADDING", Add (Id "V4L2_CID_MPEG_MFC51_BASE") (dec 4));
    ("V4L2_CID_MPEG_MFC51_VIDEO_PADDING_YUV", Add (Id "V4L2_CID_MPEG_MFC51_BASE") (dec 5));
    ("V4L2_CID_MPEG_MFC51_VIDEO_RC_FIXED_TARGET_BIT", Add (Id "V4L2_CID_MPEG_MFC51_BASE") (dec 6));
    ("V4L2_CID_MPEG_MFC51_VIDEO_RC_REACTION_COEFF", Add (Id "V4L2_CID_MPEG_MFC51_BASE") (dec 7));
    ("V4L2_CID_MPEG_MFC51_VIDEO_H264_ADAPTIVE_RC_ACTIVITY", Add (Id "V4L2_CID_MPEG_MFC51_BASE") (dec 50));
    ("V4L2_CID_MPEG_MFC51_VIDEO_H264_ADAPTIVE_RC_DARK", Add (Id "V4L2_CID_MPEG_MFC51_BASE") (dec 51));
    ("V4L2_CID_MPEG_MFC51_VIDEO_H264_ADAPTIVE_RC_SMOOTH", Add (Id "V4L2_CID_MPEG_MFC51_BASE") (dec 52));
    ("V4L2_CID_MPEG_MFC51_VIDEO_H264_ADAPTIVE_RC_STATIC", Add (Id "V4L2_CID_MPEG_MFC51_BASE") (dec 53));
    ("V4L2_CID_MPEG_MFC51_VIDEO_H264_NUM_REF_PIC_FOR_P", Add (Id "V4L2_CID_MPEG_MFC51_BASE") (dec 54));
    ("V4L2_CID_MPEG_MSM_VIDC_BASE", Or (Id "V4L2_CTRL_CLASS_MPEG") (hex 0x2000));
    ("V4L2_CID_MPEG_VIDC_VIDEO_PICTYPE_DEC_MODE", Add (Id "V4L2_CID_MPEG_MSM_VIDC_BASE") (dec 0))]].
Definition enum_v4l2_mpeg_vidc_video_divx_format_type : list decl := [
  Enum [
    ("V4L2_MPEG_VIDC_VIDEO_DIVX_FORMAT_4", Some (dec 0));
    ("V4L2_MPEG_VIDC_VIDEO_DIVX_FORMAT_5", Some (dec 1));
    ("V4L2_MPEG_VIDC_VIDEO_DIVX_FORMAT_6", Some (dec 2))];
  Defines [
    ("V4L2_CID_MPEG_VIDC_VIDEO_MB_ERROR_MAP_REPORTING", Add (Id "V4L2_CID_MPEG_MSM_VIDC_BASE") (dec 4));
    ("V4L2_CID_MPEG_VIDC_VIDEO_CONTINUE_DATA_TRANSFER", Add (Id "V4L2_CID_MPEG_MSM_VIDC_BASE") (dec 5));
    ("V4L2_CID_MPEG_VIDC_VIDEO_STREAM_FORMAT", Add (Id "V4L2_CID_MPEG_MSM_VIDC_BASE") (dec 6))];
  Enum [
    ("V4L2_MPEG_VIDC_VIDEO_NAL_FORMAT_STARTCODES", Some (dec 0));
    ("V4L2_MPEG_VIDC_VIDEO_NAL_FORMAT_ONE_NAL_PER_BUFFER", Some (dec 1));
    ("V4L2_MPEG_VIDC_VIDEO_NAL_FORMAT_ONE_BYTE_LENGTH", Some (dec 2));
    ("V4L2_MPEG_VIDC_VIDEO_NAL_FORMAT_TWO_BYTE_LENGTH", Some (dec 3));
    ("V4L2_MPEG_VIDC_VIDEO_NAL_FORMAT_FOUR_BYTE_LENGTH", Some (dec 4))];
  Defines [
    ("V4L2_CID_MPEG_VIDC_VIDEO_OUTPUT_ORDER", Add (Id "V4L2_CID_MPEG_MSM_VIDC_BASE") (dec 7))]].
Definition defs_V4L2_CID_MPEG_VIDC_VIDEO_FRAME_RATE : list decl := [
  Defines [
    ("V4L2_CID_MPEG_VIDC_VIDEO_FRAME_RATE", Add (Id "V4L2_CID_MPEG_MSM_VIDC_BASE") (dec 8));
    ("V4L2_CID_MPEG_VIDC_VIDEO_IDR_PERIOD", Add (Id "V4L2_CID_MPEG_MSM_VIDC_BASE") (dec 9));
    ("V4L2_CID_MPEG_VIDC_VIDEO_NUM_P_FRAMES", Add (Id "V4L2_CID_MPEG_MSM_VIDC_BASE") (dec 10));
    ("V4L2_CID_MPEG_VIDC_VIDEO_NUM_B_FRAMES", Add (Id "V4L2_CID_MPEG_MSM_VIDC_BASE") (dec 11));
    ("V4L2_CID_MPEG_VIDC_VIDEO_REQUEST_IFRAME", Add (Id "V4L2_CID_MPEG_MSM_VIDC_BASE") (dec 12));
    ("V4L2_CID_MPEG_VIDC_VIDEO_RATE_CONTROL", Add (Id "V4L2_CID_MPEG_MSM_VIDC_BASE") (dec 13))];
  Enum [
    ("V4L2_CID_MPEG_VIDC_VIDEO_RATE_CONTROL_OFF", Some (dec 0));
    ("V4L2_CID_MPEG_VIDC_VIDEO_RATE_CONTROL_VBR_VFR", Some (dec 1));
    ("V4L2_CID_MPEG_VIDC_VIDEO_RATE_CONTROL_VBR_CFR", Some (dec 2));
    ("V4L2_CID_MPEG_VIDC_VIDEO_RATE_CONTROL_CBR_VFR", Some (dec 3));
    ("V4L2_CID_MPEG_VIDC_VIDEO_RATE_CONTROL_CBR_CFR", Some (dec 4));
    ("V4L2_CID_MPEG_VIDC_VIDEO_RATE_CONTROL_MBR_CFR", Some (dec 5));
    ("V4L2_CID_MPEG_VIDC_VIDEO_RATE_CONTROL_MBR_VFR", Some (dec 6))]].
Definition enum_v4l2_mpeg_vidc_video_rotation : list decl := [
  Enum [
    ("V4L2_CID_MPEG_VIDC_VIDEO_ROTATION_NONE", Some (dec 0));
    ("V4L2_CID_MPEG_VIDC_VIDEO_ROTATION_90", Some (dec 1));
    ("V4L2_CID_MPEG_VIDC_VIDEO_ROTATION_180", Some (dec 2));
    ("V4L2_CID_MPEG_VIDC_VIDEO_ROTATION_270", Some (dec 3))];
  Defines [
    ("MSM_VIDC_BASE", Id "V4L2_CID_MPEG_MSM_VIDC_BASE");
    ("V4L2_CID_MPEG_VIDC_VIDEO_H264_CABAC_MODEL", Add (Id "MSM_VIDC_BASE") (dec 15))];
  Enum [
    ("V4L2_CID_MPEG_VIDC_VIDEO_H264_CABAC_MODEL_0", Some (dec 0));
    ("V4L2_CID_MPEG_VIDC_VIDEO_H264_CABAC_MODEL_1", Some (dec 1));
    ("V4L2_CID_MPEG_VIDC_VIDEO_H264_CABAC_MODEL_2", Some (dec 2))];
  Defines [
    ("V4L2_CID_MPEG_VIDC_VIDEO_INTRA_REFRESH_MODE", Add (Id "MSM_VIDC_BASE") (dec 16))];
  Enum [
    ("V4L2_CID_MPEG_VIDC_VIDEO_INTRA_REFRESH_NONE", Some (dec 0));
    ("V4L2_CID_MPEG_VIDC_VIDEO_INTRA_REFRESH_CYCLIC", Some (dec 1));
    ("V4L2_CID_MPEG_VIDC_VIDEO_INTRA_REFRESH_ADAPTIVE", Some (dec 2));
    ("V4L2_CID_MPEG_VIDC_VIDEO_INTRA_REFRESH_CYCLIC_ADAPTIVE", Some (dec 3));
    ("V4L2_CID_MPEG_VIDC_VIDEO_INTRA_REFRESH_RANDOM", Some (dec 4))];
  Defines [
    ("V4L2_CID_MPEG_VIDC_VIDEO_AIR_MBS", Add (Id "V4L2_CID_MPEG_MSM_VIDC_BASE") (dec 17));
    ("V4L2_CID_MPEG_VIDC_VIDEO_AIR_REF", Add (Id "V4L2_CID_MPEG_MSM_VIDC_BASE") (dec 18));
    ("V4L2_CID_MPEG_VIDC_VIDEO_CIR_MBS", Add (Id "V4L2_CID_MPEG_MSM_VIDC_BASE") (dec 19));
    ("V4L2_CID_MPEG_VIDC_VIDEO_H263_PROFILE", Add (Id "V4L2_CID_MPEG_MSM_VIDC_BASE") (dec 20))];
  Enum [
    ("V4L2_MPEG_VIDC_VIDEO_H263_PROFILE_BASELINE", Some (dec 0));
    ("V4L2_MPEG_VIDC_VIDEO_H263_PROFILE_H320CODING", Some (dec 1));
    ("V4L2_MPEG_VIDC_VIDEO_H263_PROFILE_BACKWARDCOMPATIBLE", Some (dec 2));
    ("V4L2_MPEG_VIDC_VIDEO_H263_PROFILE_ISWV2", Some (dec 3));
    ("V4L2_MPEG_VIDC_VIDEO_H263_PROFILE_ISWV3", Some (dec 4));
    ("V4L2_MPEG_VIDC_VIDEO_H263_PROFILE_HIGHCOMPRESSION", Some (dec 5));
    ("V4L2_MPEG_VIDC_VIDEO_H263_PROFILE_INTERNET", Some (dec 6));
    ("V4L2_MPEG_VIDC_VIDEO_H263_PROFILE_INTERLACE", Some (dec 7));
    ("V4L2_MPEG_VIDC_VIDEO_H263_PROFILE_HIGHLATENCY", Some (dec 8))];
  Defines [
    ("V4L2_CID_MPEG_VIDC_VIDEO_H263_LEVEL", Add (Id "V4L2_CID_MPEG_MSM_VIDC_BASE") (dec 21))];
  Enum [
    ("V4L2_MPEG_VIDC_VIDEO_H263_LEVEL_1_0", Some (dec 0));
    ("V4L2_MPEG_VIDC_VIDEO_H263_LEVEL_2_0", Some (dec 1));
    ("V4L2_MPEG_VIDC_VIDEO_H263_LEVEL_3_0", Some (dec 2));
    ("V4L2_MPEG_VIDC_VIDEO_H263_LEVEL_4_0", Some (dec 3));
    ("V4L2_MPEG_VIDC_VIDEO_H263_LEVEL_4_5", Some (dec 4));
    ("V4L2_MPEG_VIDC_VIDEO_H263_LEVEL_5_0", Some (dec 5));
    ("V4L2_MPEG_VIDC_VIDEO_H263_LEVEL_6_0", Some (dec 6));
    ("V4L2_MPEG_VIDC_VIDEO_H263_LEVEL_7_0", Some (dec 7))];
  Defines [
    ("V4L2_CID_MPEG_VIDC_VIDEO_H264_AU_DELIMITER", Add (Id "V4L2_CID_MPEG_MSM_VIDC_BASE") (dec 22))]].
Definition enum_v4l2_mpeg_vidc_extradata : list decl := [
  Enum [
    ("V4L2_MPEG_VIDC_EXTRADATA_NONE", Some (dec 0));
    ("V4L2_MPEG_VIDC_EXTRADATA_MB_QUANTIZATION", Some (dec 1));
    ("V4L2_MPEG_VIDC_EXTRADATA_INTERLACE_VIDEO", Some (dec 2));
    ("V4L2_MPEG_VIDC_EXTRADATA_VC1_FRAMEDISP", Some (dec 3));
    ("V4L2_MPEG_VIDC_EXTRADATA_VC1_SEQDISP", Some (dec 4));
    ("V4L2_MPEG_VIDC_EXTRADATA_TIMESTAMP", Some (dec 5));
    ("V4L2_MPEG_VIDC_EXTRADATA_S3D_FRAME_PACKING", Some (dec 6));
    ("V4L2_MPEG_VIDC_EXTRADATA_FRAME_RATE", Some (dec 7));
    ("V4L2_MPEG_VIDC_EXTRADATA_PANSCAN_WINDOW", Some (dec 8));
    ("V4L2_MPEG_VIDC_EXTRADATA_RECOVERY_POINT_SEI", Some (dec 9));
    ("V4L2_MPEG_VIDC_EXTRADATA_MULTISLICE_INFO", Some (dec 10));
    ("V4L2_MPEG_VIDC_EXTRADATA_NUM_CONCEALED_MB", Some (dec 11));
    ("V4L2_MPEG_VIDC_EXTRADATA_METADATA_FILLER", Some (dec 12));
    ("V4L2_MPEG_VIDC_EXTRADATA_INPUT_CROP", Some (dec 13));
    ("V4L2_MPEG_VIDC_EXTRADATA_DIGITAL_ZOOM", Some (dec 14));
    ("V4L2_MPEG_VIDC_EXTRADATA_ASPECT_RATIO", Some (dec 15));
    ("V4L2_MPEG_VIDC_EXTRADATA_MPEG2_SEQDISP", Some (dec 16));
    ("V4L2_MPEG_VIDC_EXTRADATA_STREAM_USERDATA", Some (dec 17));
    ("V4L2_MPEG_VIDC_EXTRADATA_FRAME_QP", Some (dec 18));
    ("V4L2_MPEG_VIDC_EXTRADATA_FRAME_BITS_INFO", Some (dec 19));
    ("V4L2_MPEG_VIDC_EXTRADATA_LTR", Some (dec 20));
    ("V4L2_MPEG_VIDC_EXTRADATA_METADATA_MBI", Some (dec 21));
    ("V4L2_MPEG_VIDC_EXTRADATA_VQZIP_SEI", Some (dec 22));
    ("V4L2_MPEG_VIDC_EXTRADATA_YUV_STATS", Some (dec 23));
    ("V4L2_MPEG_VIDC_EXTRADATA_ROI_QP", Some (dec 24));
    ("V4L2_MPEG_VIDC_EXTRADATA_OUTPUT_CROP", Some (dec 25));
    ("V4L2_MPEG_VIDC_EXTRADATA_DISPLAY_COLOUR_SEI", Some (dec 26));
    ("V4L2_MPEG_VIDC_EXTRADATA_CONTENT_LIGHT_LEVEL_SEI", Some (dec 27));
    ("V4L2_MPEG_VIDC_EXTRADATA_PQ_INFO", Some (dec 28));
    ("V4L2_MPEG_VIDC_EXTRADATA_VUI_DISPLAY", Some (dec 29));
    ("V4L2_MPEG_VIDC_EXTRADATA_VPX_COLORSPACE", Some (dec 30))];
  Defines [
    ("V4L2_CID_MPEG_VIDC_SET_PERF_LEVEL", Add (Id "V4L2_CID_MPEG_MSM_VIDC_BASE") (dec 26))];
  Enum [
    ("V4L2_CID_MPEG_VIDC_PERF_LEVEL_NOMINAL", Some (dec 0));
    ("V4L2_CID_MPEG_VIDC_PERF_LEVEL_PERFORMANCE", Some (dec 1));
    ("V4L2_CID_MPEG_VIDC_PERF_LEVEL_TURBO", Some (dec 2))];
  Defines [
    ("V4L2_CID_MPEG_VIDEO_MULTI_SLICE_GOB", Add (Id "V4L2_CID_MPEG_MSM_VIDC_BASE") (dec 27));
    ("V4L2_CID_MPEG_VIDEO_MULTI_SLICE_DELIVERY_MODE", Add (Id "V4L2_CID_MPEG_MSM_VIDC_BASE") (dec 28));
    ("V4L2_CID_MPEG_VIDC_VIDEO_H264_VUI_TIMING_INFO", Add (Id "V4L2_CID_MPEG_MSM_VIDC_BASE") (dec 29))]].
Definition enum_v4l2_mpeg_vidc_video_alloc_mode_type : list decl := [
  Enum [
    ("V4L2_MPEG_VIDC_VIDEO_STATIC", Some (dec 0)); ("V4L2_MPEG_VIDC_VIDEO_RING", Some (dec 1));
    ("V4L2_MPEG_VIDC_VIDEO_DYNAMIC", Some (dec 2))];
  Defines [
    ("V4L2_CID_MPEG_VIDC_VIDEO_FRAME_ASSEMBLY", Add (Id "V4L2_CID_MPEG_MSM_VIDC_BASE") (dec 32))]].
Definition enum_v4l2_mpeg_vidc_video_vp8_profile_level : list decl := [
  Enum [
    ("V4L2_MPEG_VIDC_VIDEO_VP8_UNUSED", None); ("V4L2_MPEG_VIDC_VIDEO_VP8_VERSION_0", None);
    ("V4L2_MPEG_VIDC_VIDEO_VP8_VERSION_1", None); ("V4L2_MPEG_VIDC_VIDEO_VP8_VERSION_2", None);
    ("V4L2_MPEG_VIDC_VIDEO_VP8_VERSION_3", None)];
  Defines [
    ("V4L2_CID_MPEG_VIDC_VIDEO_H264_VUI_BITSTREAM_RESTRICT", Add (Id "V4L2_CID_MPEG_MSM_VIDC_BASE") (dec 34))]].
Definition enum_v4l2_mpeg_vidc_video_mpeg2_level : list decl := [
  Enum [
    ("V4L2_MPEG_VIDC_VIDEO_MPEG2_LEVEL_0", Some (dec 0));
    ("V4L2_MPEG_VIDC_VIDEO_MPEG2_LEVEL_1", Some (dec 1));
    ("V4L2_MPEG_VIDC_VIDEO_MPEG2_LEVEL_2", Some (dec 2));
    ("V4L2_MPEG_VIDC_VIDEO_MPEG2_LEVEL_3", Some (dec 3))];
  Defines [
    ("V4L2_CID_MPEG_VIDC_VIDEO_MPEG2_PROFILE", Add (Id "V4L2_CID_MPEG_MSM_VIDC_BASE") (dec 41))];
  Enum [
    ("V4L2_MPEG_VIDC_VIDEO_MPEG2_PROFILE_SIMPLE", Some (dec 0));
    ("V4L2_MPEG_VIDC_VIDEO_MPEG2_PROFILE_MAIN", Some (dec 1));
    ("V4L2_MPEG_VIDC_VIDEO_MPEG2_PROFILE_422", Some (dec 2));
    ("V4L2_MPEG_VIDC_VIDEO_MPEG2_PROFILE_SNR_SCALABLE", Some (dec 3));
    ("V4L2_MPEG_VIDC_VIDEO_MPEG2_PROFILE_SPATIAL_SCALABLE", Some (dec 4));
    ("V4L2_MPEG_VIDC_VIDEO_MPEG2_PROFILE_HIGH", Some (dec 5))];
  Defines [
    ("V4L2_CID_MPEG_VIDC_VIDEO_REQUEST_SEQ_HEADER", Add (Id "V4L2_CID_MPEG_MSM_VIDC_BASE") (dec 42));
    ("V4L2_CID_MPEG_VIDC_VIDEO_MVC_BUFFER_LAYOUT", Add (Id "V4L2_CID_MPEG_MSM_VIDC_BASE") (dec 43))]].
Definition defs_V4L2_CID_MPEG_VIDC_VIDEO_VP8_MIN_QP : list decl := [
  Defines [
    ("V4L2_CID_MPEG_VIDC_VIDEO_VP8_MIN_QP", Add (Id "V4L2_CID_MPEG_MSM_VIDC_BASE") (dec 44));
    ("V4L2_CID_MPEG_VIDC_VIDEO_VP8_MAX_QP", Add (Id "V4L2_CID_MPEG_MSM_VIDC_BASE") (dec 45));
    ("V4L2_CID_MPEG_VIDC_VIDEO_CONCEAL_COLOR", Add (Id "V4L2_CID_MPEG_MSM_VIDC_BASE") (dec 46));
    ("V4L2_CID_MPEG_VIDC_VIDEO_LTRMODE", Add (Id "V4L2_CID_MPEG_MSM_VIDC_BASE") (dec 47))];
  Enum [
    ("V4L2_MPEG_VIDC_VIDEO_LTR_MODE_DISABLE", Some (dec 0));
    ("V4L2_MPEG_VIDC_VIDEO_LTR_MODE_MANUAL", Some (dec 1));
    ("V4L2_MPEG_VIDC_VIDEO_LTR_MODE_PERIODIC", Some (dec 2))];
  Defines [
    ("V4L2_CID_MPEG_VIDC_VIDEO_LTRCOUNT", Add (Id "V4L2_CID_MPEG_MSM_VIDC_BASE") (dec 48));
    ("V4L2_CID_MPEG_VIDC_VIDEO_USELTRFRAME", Add (Id "V4L2_CID_MPEG_MSM_VIDC_BASE") (dec 49));
    ("V4L2_CID_MPEG_VIDC_VIDEO_MARKLTRFRAME", Add (Id "V4L2_CID_MPEG_MSM_VIDC_BASE") (dec 50));
    ("V4L2_CID_MPEG_VIDC_VIDEO_HIER_P_NUM_LAYERS", Add (Id "V4L2_CID_MPEG_MSM_VIDC_BASE") (dec 51));
    ("V4L2_CID_MPEG_VIDC_VIDEO_RATE_CONTROL_TIMESTAMP_MODE", Add (Id "V4L2_CID_MPEG_MSM_VIDC_BASE") (dec 52))]].
Definition enum_vl42_mpeg_vidc_video_enable_initial_qp : list decl := [
  Enum [
    ("V4L2_CID_MPEG_VIDC_VIDEO_ENABLE_INITIAL_QP_IFRAME", Some (hex 0x1));
    ("V4L2_CID_MPEG_VIDC_VIDEO_ENABLE_INITIAL_QP_PFRAME", Some (hex 0x2));
    ("V4L2_CID_MPEG_VIDC_VIDEO_ENABLE_INITIAL_QP_BFRAME", Some (hex 0x4))];
  Defines [
    ("V4L2_CID_MPEG_VIDC_VIDEO_INITIAL_I_FRAME_QP", Add (Id "V4L2_CID_MPEG_MSM_VIDC_BASE") (dec 54));
    ("V4L2_CID_MPEG_VIDC_VIDEO_INITIAL_P_FRAME_QP", Add (Id "V4L2_CID_MPEG_MSM_VIDC_BASE") (dec 55));
    ("V4L2_CID_MPEG_VIDC_VIDEO_INITIAL_B_FRAME_QP", Add (Id "V4L2_CID_MPEG_MSM_VIDC_BASE") (dec 56));
    ("V4L2_CID_MPEG_VIDC_VIDEO_IFRAME_X_RANGE", Add (Id "V4L2_CID_MPEG_MSM_VIDC_BASE") (dec 57));
    ("V4L2_CID_MPEG_VIDC_VIDEO_PFRAME_X_RANGE", Add (Id "V4L2_CID_MPEG_MSM_VIDC_BASE") (dec 58));
    ("V4L2_CID_MPEG_VIDC_VIDEO_BFRAME_X_RANGE", Add (Id "V4L2_CID_MPEG_MSM_VIDC_BASE") (dec 59));
    ("V4L2_CID_MPEG_VIDC_VIDEO_IFRAME_Y_RANGE", Add (Id "V4L2_CID_MPEG_MSM_VIDC_BASE") (dec 60));
    ("V4L2_CID_MPEG_VIDC_VIDEO_PFRAME_Y_RANGE", Add (Id "V4L2_CID_MPEG_MSM_VIDC_BASE") (dec 61));
    ("V4L2_CID_MPEG_VIDC_VIDEO_BFRAME_Y_RANGE", Add (Id "V4L2_CID_MPEG_MSM_VIDC_BASE") (dec 62));
    ("V4L2_CID_MPEG_VIDC_VIDEO_VPX_ERROR_RESILIENCE", Add (Id "V4L2_CID_MPEG_MSM_VIDC_BASE") (dec 63));
    ("V4L2_CID_MPEG_VIDC_VIDEO_BUFFER_SIZE_LIMIT", Add (Id "V4L2_CID_MPEG_MSM_VIDC_BASE") (dec 64))]].
Definition enum_v4l2_mpeg_video_hevc_profile : list decl := [
  Enum [
    ("V4L2_MPEG_VIDC_VIDEO_HEVC_PROFILE_MAIN", Some (dec 0));
    ("V4L2_MPEG_VIDC_VIDEO_HEVC_PROFILE_MAIN10", Some (dec 1));
    ("V4L2_MPEG_VIDC_VIDEO_HEVC_PROFILE_MAIN_STILL_PIC", Some (dec 2))];
  Defines [
    ("V4L2_CID_MPEG_VIDC_VIDEO_HEVC_TIER_LEVEL", Add (Id "V4L2_CID_MPEG_MSM_VIDC_BASE") (dec 66))];
  Enum [
    ("V4L2_MPEG_VIDC_VIDEO_HEVC_LEVEL_MAIN_TIER_LEVEL_1", Some (dec 0));
    ("V4L2_MPEG_VIDC_VIDEO_HEVC_LEVEL_HIGH_TIER_LEVEL_1", Some (dec 1));
    ("V4L2_MPEG_VIDC_VIDEO_HEVC_LEVEL_MAIN_TIER_LEVEL_2", Some (dec 2));
    ("V4L2_MPEG_VIDC_VIDEO_HEVC_LEVEL_HIGH_TIER_LEVEL_2", Some (dec 3));
    ("V4L2_MPEG_VIDC_VIDEO_HEVC_LEVEL_MAIN_TIER_LEVEL_2_1", Some (dec 4));
    ("V4L2_MPEG_VIDC_VIDEO_HEVC_LEVEL_HIGH_TIER_LEVEL_2_1", Some (dec 5));
    ("V4L2_MPEG_VIDC_VIDEO_HEVC_LEVEL_MAIN_TIER_LEVEL_3", Some (dec 6));
    ("V4L2_MPEG_VIDC_VIDEO_HEVC_LEVEL_HIGH_TIER_LEVEL_3", Some (dec 7));
    ("V4L2_MPEG_VIDC_VIDEO_HEVC_LEVEL_MAIN_TIER_LEVEL_3_1", Some (dec 8));
    ("V4L2_MPEG_VIDC_VIDEO_HEVC_LEVEL_HIGH_TIER_LEVEL_3_1", Some (dec 9));
    ("V4L2_MPEG_VIDC_VIDEO_HEVC_LEVEL_MAIN_TIER_LEVEL_4", Some (dec 10));
    ("V4L2_MPEG_VIDC_VIDEO_HEVC_LEVEL_HIGH_TIER_LEVEL_4", Some (dec 11));
    ("V4L2_MPEG_VIDC_VIDEO_HEVC_LEVEL_MAIN_TIER_LEVEL_4_1", Some (dec 12));
    ("V4L2_MPEG_VIDC_VIDEO_HEVC_LEVEL_HIGH_TIER_LEVEL_4_1", Some (dec 13));
    ("V4L2_MPEG_VIDC_VIDEO_HEVC_LEVEL_MAIN_TIER_LEVEL_5", Some (dec 14));
    ("V4L2_MPEG_VIDC_VIDEO_HEVC_LEVEL_HIGH_TIER_LEVEL_5", Some (dec 15));
    ("V4L2_MPEG_VIDC_VIDEO_HEVC_LEVEL_MAIN_TIER_LEVEL_5_1", Some (dec 16));
    ("V4L2_MPEG_VIDC_VIDEO_HEVC_LEVEL_HIGH_TIER_LEVEL_5_1", Some (dec 17));
    ("V4L2_MPEG_VIDC_VIDEO_HEVC_LEVEL_MAIN_TIER_LEVEL_5_2", Some (dec 18));
    ("V4L2_MPEG_VIDC_VIDEO_HEVC_LEVEL_HIGH_TIER_LEVEL_5_2", Some (dec 19));
    ("V4L2_MPEG_VIDC_VIDEO_HEVC_LEVEL_MAIN_TIER_LEVEL_6", Some (dec 20));
    ("V4L2_MPEG_VIDC_VIDEO_HEVC_LEVEL_HIGH_TIER_LEVEL_6", Some (dec 21));
    ("V4L2_MPEG_VIDC_VIDEO_HEVC_LEVEL_MAIN_TIER_LEVEL_6_1", Some (dec 22));
    ("V4L2_MPEG_VIDC_VIDEO_HEVC_LEVEL_HIGH_TIER_LEVEL_6_1", Some (dec 23));
    ("V4L2_MPEG_VIDC_VIDEO_HEVC_LEVEL_MAIN_TIER_LEVEL_6_2", Some (dec 24));
    ("V4L2_MPEG_VIDC_VIDEO_HEVC_LEVEL_HIGH_TIER_LEVEL_6_2", Some (dec 25))];
  Defines [
    ("V4L2_CID_MPEG_VIDC_VIDEO_H264_NAL_SVC", Add (Id "V4L2_CID_MPEG_MSM_VIDC_BASE") (dec 67))]].
Definition enum_v4l2_mpeg_vidc_video_perf_mode : list decl := [
  Enum [
    ("V4L2_MPEG_VIDC_VIDEO_PERF_UNINIT", Some (dec 0));
    ("V4L2_MPEG_VIDC_VIDEO_PERF_MAX_QUALITY", Some (dec 1));
    ("V4L2_MPEG_VIDC_VIDEO_PERF_POWER_SAVE", Some (dec 2))];
  Defines [
    ("V4L2_CID_MPEG_VIDC_VIDEO_HIER_B_NUM_LAYERS", Add (Id "V4L2_CID_MPEG_MSM_VIDC_BASE") (dec 69));
    ("V4L2_CID_MPEG_VIDC_VIDEO_SECURE_SCALING_THRESHOLD", Add (Id "V4L2_CID_MPEG_MSM_VIDC_BASE") (dec 70));
    ("V4L2_CID_MPEG_VIDC_VIDEO_NON_SECURE_OUTPUT2", Add (Id "V4L2_CID_MPEG_MSM_VIDC_BASE") (dec 71));
    ("V4L2_CID_MPEG_VIDC_VIDEO_HYBRID_HIERP_MODE", Add (Id "V4L2_CID_MPEG_MSM_VIDC_BASE") (dec 72));
    ("V4L2_CID_MPEG_VIDC_VIDEO_DPB_COLOR_FORMAT", Add (Id "V4L2_CID_MPEG_MSM_VIDC_BASE") (dec 73))];
  Enum [
    ("V4L2_MPEG_VIDC_VIDEO_DPB_COLOR_FMT_NONE", Some (dec 0));
    ("V4L2_MPEG_VIDC_VIDEO_DPB_COLOR_FMT_UBWC", Some (dec 1));
    ("V4L2_MPEG_VIDC_VIDEO_DPB_COLOR_FMT_TP10_UBWC", Some (dec 2))];
  Defines [
    ("V4L2_CID_MPEG_VIDC_VIDEO_MBI_STATISTICS_MODE", Add (Id "V4L2_CID_MPEG_MSM_VIDC_BASE") (dec 74))];
  Enum [
    ("V4L2_CID_MPEG_VIDC_VIDEO_MBI_MODE_DEFAULT", Some (dec 0));
    ("V4L2_CID_MPEG_VIDC_VIDEO_MBI_MODE_1", Some (dec 1));
    ("V4L2_CID_MPEG_VIDC_VIDEO_MBI_MODE_2", Some (dec 2));
    ("V4L2_CID_MPEG_VIDC_VIDEO_MBI_MODE_3", Some (dec 3))];
  Defines [
    ("V4L2_CID_VIDC_QBUF_MODE", Add (Id "V4L2_CID_MPEG_MSM_VIDC_BASE") (dec 75))]].
Definition defs_V4L2_CID_MPEG_VIDC_VIDEO_MAX_HIERP_LAYERS : list decl := [
  Defines [
    ("V4L2_CID_MPEG_VIDC_VIDEO_MAX_HIERP_LAYERS", Add (Id "V4L2_CID_MPEG_MSM_VIDC_BASE") (dec 76));
    ("V4L2_CID_MPEG_VIDC_VIDEO_BASELAYER_ID", Add (Id "V4L2_CID_MPEG_MSM_VIDC_BASE") (dec 77));
    ("V4L2_CID_MPEG_VIDC_VIDEO_CONFIG_QP", Add (Id "V4L2_CID_MPEG_MSM_VIDC_BASE") (dec 78));
    ("V4L2_CID_MPEG_VIDC_VENC_PARAM_SAR_WIDTH", Add (Id "V4L2_CID_MPEG_MSM_VIDC_BASE") (dec 79));
    ("V4L2_CID_MPEG_VIDC_VENC_PARAM_SAR_HEIGHT", Add (Id "V4L2_CID_MPEG_MSM_VIDC_BASE") (dec 80));
    ("V4L2_CID_MPEG_VIDC_VIDEO_VQZIP_SEI", Add (Id "V4L2_CID_MPEG_MSM_VIDC_BASE") (dec 81))]].
Definition defs_V4L2_CID_MPEG_VIDC_VIDEO_BLUR_WIDTH : list decl := [
  Defines [
    ("V4L2_CID_MPEG_VIDC_VIDEO_BLUR_WIDTH", Add (Id "V4L2_CID_MPEG_MSM_VIDC_BASE") (dec 89));
    ("V4L2_CID_MPEG_VIDC_VIDEO_BLUR_HEIGHT", Add (Id "V4L2_CID_MPEG_MSM_VIDC_BASE") (dec 90));
    ("V4L2_CID_MPEG_VIDEO_MIN_QP_PACKED", Add (Id "V4L2_CID_MPEG_MSM_VIDC_BASE") (dec 91));
    ("V4L2_CID_MPEG_VIDEO_MAX_QP_PACKED", Add (Id "V4L2_CID_MPEG_MSM_VIDC_BASE") (dec 92));
    ("V4L2_CID_MPEG_VIDC_VIDEO_H264_TRANSFORM_8x8", Add (Id "V4L2_CID_MPEG_MSM_VIDC_BASE") (dec 93))]].
Definition enum_v4l2_mpeg_vidc_video_venc_iframesize_type : list decl := [
  Enum [
    ("V4L2_CID_MPEG_VIDC_VIDEO_IFRAME_SIZE_DEFAULT", None);
    ("V4L2_CID_MPEG_VIDC_VIDEO_IFRAME_SIZE_MEDIUM", None);
    ("V4L2_CID_MPEG_VIDC_VIDEO_IFRAME_SIZE_HUGE", None);
    ("V4L2_CID_MPEG_VIDC_VIDEO_IFRAME_SIZE_UNLIMITED", None)];
  Defines [
    ("V4L2_CID_MPEG_VIDC_VIDEO_I_FRAME_QP", Add (Id "V4L2_CID_MPEG_MSM_VIDC_BASE") (dec 99));
    ("V4L2_CID_MPEG_VIDC_VIDEO_P_FRAME_QP", Add (Id "V4L2_CID_MPEG_MSM_VIDC_BASE") (dec 100));
    ("V4L2_CID_MPEG_VIDC_VIDEO_B_FRAME_QP", Add (Id "V4L2_CID_MPEG_MSM_VIDC_BASE") (dec 101));
    ("V4L2_CID_MPEG_VIDC_VIDEO_AU_DELIMITER", Add (Id "V4L2_CID_MPEG_MSM_VIDC_BASE") (dec 102))]].
Definition defs_V4L2_CID_CAMERA_CLASS_BASE : list decl := [
  Defines [
    ("V4L2_CID_CAMERA_CLASS_BASE", Or (Id "V4L2_CTRL_CLASS_CAMERA") (hex 0x900));
    ("V4L2_CID_CAMERA_CLASS", Or (Id "V4L2_CTRL_CLASS_CAMERA") (dec 1));
    ("V4L2_CID_EXPOSURE_AUTO", Add (Id "V4L2_CID_CAMERA_CLASS_BASE") (dec 1))];
  Enum [
    ("V4L2_EXPOSURE_AUTO", Some (dec 0)); ("V4L2_EXPOSURE_MANUAL", Some (dec 1));
    ("V4L2_EXPOSURE_SHUTTER_PRIORITY", Some (dec 2));
    ("V4L2_EXPOSURE_APERTURE_PRIORITY", Some (dec 3))];
  Defines [
    ("V4L2_CID_EXPOSURE_ABSOLUTE", Add (Id "V4L2_CID_CAMERA_CLASS_BASE") (dec 2));
    ("V4L2_CID_EXPOSURE_AUTO_PRIORITY", Add (Id "V4L2_CID_CAMERA_CLASS_BASE") (dec 3));
    ("V4L2_CID_PAN_RELATIVE", Add (Id "V4L2_CID_CAMERA_CLASS_BASE") (dec 4));
    ("V4L2_CID_TILT_RELATIVE", Add (Id "V4L2_CID_CAMERA_CLASS_BASE") (dec 5));
    ("V4L2_CID_PAN_RESET", Add (Id "V4L2_CID_CAMERA_CLASS_BASE") (dec 6));
    ("V4L2_CID_TILT_RESET", Add (Id "V4L2_CID_CAMERA_CLASS_BASE") (dec 7));
    ("V4L2_CID_PAN_ABSOLUTE", Add (Id "V4L2_CID_CAMERA_CLASS_BASE") (dec 8));
    ("V4L2_CID_TILT_ABSOLUTE", Add (Id "V4L2_CID_CAMERA_CLASS_BASE") (dec 9));
    ("V4L2_CID_FOCUS_ABSOLUTE", Add (Id "V4L2_CID_CAMERA_CLASS_BASE") (dec 10));
    ("V4L2_CID_FOCUS_RELATIVE", Add (Id "V4L2_CID_CAMERA_CLASS_BASE") (dec 11));
    ("V4L2_CID_FOCUS_AUTO", Add (Id "V4L2_CID_CAMERA_CLASS_BASE") (dec 12));
    ("V4L2_CID_ZOOM_ABSOLUTE", Add (Id "V4L2_CID_CAMERA_CLASS_BASE") (dec 13));
    ("V4L2_CID_ZOOM_RELATIVE", Add (Id "V4L2_CID_CAMERA_CLASS_BASE") (dec 14));
    ("V4L2_CID_ZOOM_CONTINUOUS", Add (Id "V4L2_CID_CAMERA_CLASS_BASE") (dec 15));
    ("V4L2_CID_PRIVACY", Add (Id "V4L2_CID_CAMERA_CLASS_BASE") (dec 16));
    ("V4L2_CID_IRIS_ABSOLUTE", Add (Id "V4L2_CID_CAMERA_CLASS_BASE") (dec 17));
    ("V4L2_CID_IRIS_RELATIVE", Add (Id "V4L2_CID_CAMERA_CLASS_BASE") (dec 18));
    ("V4L2_CID_AUTO_EXPOSURE_BIAS", Add (Id "V4L2_CID_CAMERA_CLASS_BASE") (dec 19));
    ("V4L2_CID_AUTO_N_PRESET_WHITE_BALANCE", Add (Id "V4L2_CID_CAMERA_CLASS_BASE") (dec 20))];
  Enum [
    ("V4L2_WHITE_BALANCE_MANUAL", Some (dec 0)); ("V4L2_WHITE_BALANCE_AUTO", Some (dec 1));
    ("V4L2_WHITE_BALANCE_INCANDESCENT", Some (dec 2));
    ("V4L2_WHITE_BALANCE_FLUORESCENT", Some (dec 3));
    ("V4L2_WHITE_BALANCE_FLUORESCENT_H", Some (dec 4));
    ("V4L2_WHITE_BALANCE_HORIZON", Some (dec 5)); ("V4L2_WHITE_BALANCE_DAYLIGHT", Some (dec 6));
    ("V4L2_WHITE_BALANCE_FLASH", Some (dec 7)); ("V4L2_WHITE_BALANCE_CLOUDY", Some (dec 8));
    ("V4L2_WHITE_BALANCE_SHADE", Some (dec 9))];
  Defines [
    ("V4L2_CID_WIDE_DYNAMIC_RANGE", Add (Id "V4L2_CID_CAMERA_CLASS_BASE") (dec 21));
    ("V4L2_CID_IMAGE_STABILIZATION", Add (Id "V4L2_CID_CAMERA_CLASS_BASE") (dec 22));
    ("V4L2_CID_ISO_SENSITIVITY", Add (Id "V4L2_CID_CAMERA_CLASS_BASE") (dec 23));
    ("V4L2_CID_ISO_SENSITIVITY_AUTO", Add (Id "V4L2_CID_CAMERA_CLASS_BASE") (dec 24))]].
Definition enum_v4l2_exposure_metering : list decl := [
  Enum [
    ("V4L2_EXPOSURE_METERING_AVERAGE", Some (dec 0));
    ("V4L2_EXPOSURE_METERING_CENTER_WEIGHTED", Some (dec 1));
    ("V4L2_EXPOSURE_METERING_SPOT", Some (dec 2));
    ("V4L2_EXPOSURE_METERING_MATRIX", Some (dec 3))];
  Defines [
    ("V4L2_CID_SCENE_MODE", Add (Id "V4L2_CID_CAMERA_CLASS_BASE") (dec 26))];
  Enum [
    ("V4L2_SCENE_MODE_NONE", Some (dec 0)); ("V4L2_SCENE_MODE_BACKLIGHT", Some (dec 1));
    ("V4L2_SCENE_MODE_BEACH_SNOW", Some (dec 2)); ("V4L2_SCENE_MODE_CANDLE_LIGHT", Some (dec 3));
    ("V4L2_SCENE_MODE_DAWN_DUSK", Some (dec 4)); ("V4L2_SCENE_MODE_FALL_COLORS", Some (dec 5));
    ("V4L2_SCENE_MODE_FIREWORKS", Some (dec 6)); ("V4L2_SCENE_MODE_LANDSCAPE", Some (dec 7));
    ("V4L2_SCENE_MODE_NIGHT", Some (dec 8)); ("V4L2_SCENE_MODE_PARTY_INDOOR", Some (dec 9));
    ("V4L2_SCENE_MODE_PORTRAIT", Some (dec 10)); ("V4L2_SCENE_MODE_SPORTS", Some (dec 11));
    ("V4L2_SCENE_MODE_SUNSET", Some (dec 12)); ("V4L2_SCENE_MODE_TEXT", Some (dec 13))];
  Defines [
    ("V4L2_CID_3A_LOCK", Add (Id "V4L2_CID_CAMERA_CLASS_BASE") (dec 27));
    ("V4L2_LOCK_EXPOSURE", Shl (dec 1) (dec 0));
    ("V4L2_LOCK_WHITE_BALANCE", Shl (dec 1) (dec 1)); ("V4L2_LOCK_FOCUS", Shl (dec 1) (dec 2));
    ("V4L2_CID_AUTO_FOCUS_START", Add (Id "V4L2_CID_CAMERA_CLASS_BASE") (dec 28));
    ("V4L2_CID_AUTO_FOCUS_STOP", Add (Id "V4L2_CID_CAMERA_CLASS_BASE") (dec 29));
    ("V4L2_CID_AUTO_FOCUS_STATUS", Add (Id "V4L2_CID_CAMERA_CLASS_BASE") (dec 30));
    ("V4L2_AUTO_FOCUS_STATUS_IDLE", Shl (dec 0) (dec 0));
    ("V4L2_AUTO_FOCUS_STATUS_BUSY", Shl (dec 1) (dec 0));
    ("V4L2_AUTO_FOCUS_STATUS_REACHED", Shl (dec 1) (dec 1));
    ("V4L2_AUTO_FOCUS_STATUS_FAILED", Shl (dec 1) (dec 2));
    ("V4L2_CID_AUTO_FOCUS_RANGE", Add (Id "V4L2_CID_CAMERA_CLASS_BASE") (dec 31))];
  Enum [
    ("V4L2_AUTO_FOCUS_RANGE_AUTO", Some (dec 0)); ("V4L2_AUTO_FOCUS_RANGE_NORMAL", Some (dec 1));
    ("V4L2_AUTO_FOCUS_RANGE_MACRO", Some (dec 2));
    ("V4L2_AUTO_FOCUS_RANGE_INFINITY", Some (dec 3))];
  Defines [
    ("V4L2_CID_PAN_SPEED", Add (Id "V4L2_CID_CAMERA_CLASS_BASE") (dec 32));
    ("V4L2_CID_TILT_SPEED", Add (Id "V4L2_CID_CAMERA_CLASS_BASE") (dec 33));
    ("MSM_BA_PRIV_BASE_START", Or (Id "V4L2_CID_USER_BASE") (hex 0x7000));
    ("MSM_BA_PRIV_SD_NODE_ADDR", Add (Id "MSM_BA_PRIV_BASE_START") (dec 1));
    ("MSM_BA_PRIV_FPS", Add (Id "MSM_BA_PRIV_BASE_START") (dec 2));
    ("V4L2_CID_FM_TX_CLASS_BASE", Or (Id "V4L2_CTRL_CLASS_FM_TX") (hex 0x900));
    ("V4L2_CID_FM_TX_CLASS", Or (Id "V4L2_CTRL_CLASS_FM_TX") (dec 1));
    ("V4L2_CID_RDS_TX_DEVIATION", Add (Id "V4L2_CID_FM_TX_CLASS_BASE") (dec 1));
    ("V4L2_CID_RDS_TX_PI", Add (Id "V4L2_CID_FM_TX_CLASS_BASE") (dec 2));
    ("V4L2_CID_RDS_TX_PTY", Add (Id "V4L2_CID_FM_TX_CLASS_BASE") (dec 3));
    ("V4L2_CID_RDS_TX_PS_NAME", Add (Id "V4L2_CID_FM_TX_CLASS_BASE") (dec 5));
    ("V4L2_CID_RDS_TX_RADIO_TEXT", Add (Id "V4L2_CID_FM_TX_CLASS_BASE") (dec 6));
    ("V4L2_CID_RDS_TX_MONO_STEREO", Add (Id "V4L2_CID_FM_TX_CLASS_BASE") (dec 7));
    ("V4L2_CID_RDS_TX_ARTIFICIAL_HEAD", Add (Id "V4L2_CID_FM_TX_CLASS_BASE") (dec 8));
    ("V4L2_CID_RDS_TX_COMPRESSED", Add (Id "V4L2_CID_FM_TX_CLASS_BASE") (dec 9));
    ("V4L2_CID_RDS_TX_DYNAMIC_PTY", Add (Id "V4L2_CID_FM_TX_CLASS_BASE") (dec 10));
    ("V4L2_CID_RDS_TX_TRAFFIC_ANNOUNCEMENT", Add (Id "V4L2_CID_FM_TX_CLASS_BASE") (dec 11));
    ("V4L2_CID_RDS_TX_TRAFFIC_PROGRAM", Add (Id "V4L2_CID_FM_TX_CLASS_BASE") (dec 12));
    ("V4L2_CID_RDS_TX_MUSIC_SPEECH", Add (Id "V4L2_CID_FM_TX_CLASS_BASE") (dec 13));
    ("V4L2_CID_RDS_TX_ALT_FREQS_ENABLE", Add (Id "V4L2_CID_FM_TX_CLASS_BASE") (dec 14));
    ("V4L2_CID_RDS_TX_ALT_FREQS", Add (Id "V4L2_CID_FM_TX_CLASS_BASE") (dec 15));
    ("V4L2_CID_AUDIO_LIMITER_ENABLED", Add (Id "V4L2_CID_FM_TX_CLASS_BASE") (dec 64));
    ("V4L2_CID_AUDIO_LIMITER_RELEASE_TIME", Add (Id "V4L2_CID_FM_TX_CLASS_BASE") (dec 65));
    ("V4L2_CID_AUDIO_LIMITER_DEVIATION", Add (Id "V4L2_CID_FM_TX_CLASS_BASE") (dec 66));
    ("V4L2_CID_AUDIO_COMPRESSION_ENABLED", Add (Id "V4L2_CID_FM_TX_CLASS_BASE") (dec 80));
    ("V4L2_CID_AUDIO_COMPRESSION_GAIN", Add (Id "V4L2_CID_FM_TX_CLASS_BASE") (dec 81));
    ("V4L2_CID_AUDIO_COMPRESSION_THRESHOLD", Add (Id "V4L2_CID_FM_TX_CLASS_BASE") (dec 82));
    ("V4L2_CID_AUDIO_COMPRESSION_ATTACK_TIME", Add (Id "V4L2_CID_FM_TX_CLASS_BASE") (dec 83));
    ("V4L2_CID_AUDIO_COMPRESSION_RELEASE_TIME", Add (Id "V4L2_CID_FM_TX_CLASS_BASE") (dec 84));
    ("V4L2_CID_PILOT_TONE_ENABLED", Add (Id "V4L2_CID_FM_TX_CLASS_BASE") (dec 96));
    ("V4L2_CID_PILOT_TONE_DEVIATION", Add (Id "V4L2_CID_FM_TX_CLASS_BASE") (dec 97));
    ("V4L2_CID_PILOT_TONE_FREQUENCY", Add (Id "V4L2_CID_FM_TX_CLASS_BASE") (dec 98));
    ("V4L2_CID_TUNE_PREEMPHASIS", Add (Id "V4L2_CID_FM_TX_CLASS_BASE") (dec 112))];
  Enum [
    ("V4L2_PREEMPHASIS_DISABLED", Some (dec 0)); ("V4L2_PREEMPHASIS_50_uS", Some (dec 1));
    ("V4L2_PREEMPHASIS_75_uS", Some (dec 2))];
  Defines [
    ("V4L2_CID_TUNE_POWER_LEVEL", Add (Id "V4L2_CID_FM_TX_CLASS_BASE") (dec 113));
    ("V4L2_CID_TUNE_ANTENNA_CAPACITOR", Add (Id "V4L2_CID_FM_TX_CLASS_BASE") (dec 114))];
  Defines [
    ("V4L2_CID_FLASH_CLASS_BASE", Or (Id "V4L2_CTRL_CLASS_FLASH") (hex 0x900));
    ("V4L2_CID_FLASH_CLASS", Or (Id "V4L2_CTRL_CLASS_FLASH") (dec 1));
    ("V4L2_CID_FLASH_LED_MODE", Add (Id "V4L2_CID_FLASH_CLASS_BASE") (dec 1))];
  Enum [
    ("V4L2_FLASH_LED_MODE_NONE", None); ("V4L2_FLASH_LED_MODE_FLASH", None);
    ("V4L2_FLASH_LED_MODE_TORCH", None)];
  Defines [
    ("V4L2_CID_FLASH_STROBE_SOURCE", Add (Id "V4L2_CID_FLASH_CLASS_BASE") (dec 2))]].
Definition defs_V4L2_CID_FLASH_STROBE : list decl := [
  Defines [
    ("V4L2_CID_FLASH_STROBE", Add (Id "V4L2_CID_FLASH_CLASS_BASE") (dec 3));
    ("V4L2_CID_FLASH_STROBE_STOP", Add (Id "V4L2_CID_FLASH_CLASS_BASE") (dec 4));
    ("V4L2_CID_FLASH_STROBE_STATUS", Add (Id "V4L2_CID_FLASH_CLASS_BASE") (dec 5));
    ("V4L2_CID_FLASH_TIMEOUT", Add (Id "V4L2_CID_FLASH_CLASS_BASE") (dec 6));
    ("V4L2_CID_FLASH_INTENSITY", Add (Id "V4L2_CID_FLASH_CLASS_BASE") (dec 7));
    ("V4L2_CID_FLASH_TORCH_INTENSITY", Add (Id "V4L2_CID_FLASH_CLASS_BASE") (dec 8));
    ("V4L2_CID_FLASH_INDICATOR_INTENSITY", Add (Id "V4L2_CID_FLASH_CLASS_BASE") (dec 9));
    ("V4L2_CID_FLASH_FAULT", Add (Id "V4L2_CID_FLASH_CLASS_BASE") (dec 10));
    ("V4L2_FLASH_FAULT_OVER_VOLTAGE", Shl (dec 1) (dec 0));
    ("V4L2_FLASH_FAULT_TIMEOUT", Shl (dec 1) (dec 1));
    ("V4L2_FLASH_FAULT_OVER_TEMPERATURE", Shl (dec 1) (dec 2));
    ("V4L2_FLASH_FAULT_SHORT_CIRCUIT", Shl (dec 1) (dec 3));
    ("V4L2_FLASH_FAULT_OVER_CURRENT", Shl (dec 1) (dec 4));
    ("V4L2_FLASH_FAULT_INDICATOR", Shl (dec 1) (dec 5));
    ("V4L2_FLASH_FAULT_UNDER_VOLTAGE", Shl (dec 1) (dec 6));
    ("V4L2_FLASH_FAULT_INPUT_VOLTAGE", Shl (dec 1) (dec 7));
    ("V4L2_FLASH_FAULT_LED_OVER_TEMPERATURE", Shl (dec 1) (dec 8));
    ("V4L2_CID_FLASH_CHARGE", Add (Id "V4L2_CID_FLASH_CLASS_BASE") (dec 11));
    ("V4L2_CID_FLASH_READY", Add (Id "V4L2_CID_FLASH_CLASS_BASE") (dec 12))];
  Defines [
    ("V4L2_CID_JPEG_CLASS_BASE", Or (Id "V4L2_CTRL_CLASS_JPEG") (hex 0x900));
    ("V4L2_CID_JPEG_CLASS", Or (Id "V4L2_CTRL_CLASS_JPEG") (dec 1));
    ("V4L2_CID_JPEG_CHROMA_SUBSAMPLING", Add (Id "V4L2_CID_JPEG_CLASS_BASE") (dec 1))];
  Enum [
    ("V4L2_JPEG_CHROMA_SUBSAMPLING_444", Some (dec 0));
    ("V4L2_JPEG_CHROMA_SUBSAMPLING_422", Some (dec 1));
    ("V4L2_JPEG_CHROMA_SUBSAMPLING_420", Some (dec 2));
    ("V4L2_JPEG_CHROMA_SUBSAMPLING_411", Some (dec 3));
    ("V4L2_JPEG_CHROMA_SUBSAMPLING_410", Some (dec 4));
    ("V4L2_JPEG_CHROMA_SUBSAMPLING_GRAY", Some (dec 5))];
  Defines [
    ("V4L2_CID_JPEG_RESTART_INTERVAL", Add (Id "V4L2_CID_JPEG_CLASS_BASE") (dec 2));
    ("V4L2_CID_JPEG_COMPRESSION_QUALITY", Add (Id "V4L2_CID_JPEG_CLASS_BASE") (dec 3));
    ("V4L2_CID_JPEG_ACTIVE_MARKER", Add (Id "V4L2_CID_JPEG_CLASS_BASE") (dec 4));
    ("V4L2_JPEG_ACTIVE_MARKER_APP0", Shl (dec 1) (dec 0));
    ("V4L2_JPEG_ACTIVE_MARKER_APP1", Shl (dec 1) (dec 1));
    ("V4L2_JPEG_ACTIVE_MARKER_COM", Shl (dec 1) (dec 16));
    ("V4L2_JPEG_ACTIVE_MARKER_DQT", Shl (dec 1) (dec 17));
    ("V4L2_JPEG_ACTIVE_MARKER_DHT", Shl (dec 1) (dec 18));
    ("V4L2_CID_IMAGE_SOURCE_CLASS_BASE", Or (Id "V4L2_CTRL_CLASS_IMAGE_SOURCE") (hex 0x900));
    ("V4L2_CID_IMAGE_SOURCE_CLASS", Or (Id "V4L2_CTRL_CLASS_IMAGE_SOURCE") (dec 1));
    ("V4L2_CID_VBLANK", Add (Id "V4L2_CID_IMAGE_SOURCE_CLASS_BASE") (dec 1));
    ("V4L2_CID_HBLANK", Add (Id "V4L2_CID_IMAGE_SOURCE_CLASS_BASE") (dec 2));
    ("V4L2_CID_ANALOGUE_GAIN", Add (Id "V4L2_CID_IMAGE_SOURCE_CLASS_BASE") (dec 3));
    ("V4L2_CID_TEST_PATTERN_RED", Add (Id "V4L2_CID_IMAGE_SOURCE_CLASS_BASE") (dec 4));
    ("V4L2_CID_TEST_PATTERN_GREENR", Add (Id "V4L2_CID_IMAGE_SOURCE_CLASS_BASE") (dec 5));
    ("V4L2_CID_TEST_PATTERN_BLUE", Add (Id "V4L2_CID_IMAGE_SOURCE_CLASS_BASE") (dec 6));
    ("V4L2_CID_TEST_PATTERN_GREENB", Add (Id "V4L2_CID_IMAGE_SOURCE_CLASS_BASE") (dec 7))];
  Defines [
    ("V4L2_CID_IMAGE_PROC_CLASS_BASE", Or (Id "V4L2_CTRL_CLASS_IMAGE_PROC") (hex 0x900));
    ("V4L2_CID_IMAGE_PROC_CLASS", Or (Id "V4L2_CTRL_CLASS_IMAGE_PROC") (dec 1));
    ("V4L2_CID_LINK_FREQ", Add (Id "V4L2_CID_IMAGE_PROC_CLASS_BASE") (dec 1));
    ("V4L2_CID_PIXEL_RATE", Add (Id "V4L2_CID_IMAGE_PROC_CLASS_BASE") (dec 2));
    ("V4L2_CID_TEST_PATTERN", Add (Id "V4L2_CID_IMAGE_PROC_CLASS_BASE") (dec 3));
    ("V4L2_CID_DV_CLASS_BASE", Or (Id "V4L2_CTRL_CLASS_DV") (hex 0x900));
    ("V4L2_CID_DV_CLASS", Or (Id "V4L2_CTRL_CLASS_DV") (dec 1));
    ("V4L2_CID_DV_TX_HOTPLUG", Add (Id "V4L2_CID_DV_CLASS_BASE") (dec 1));
    ("V4L2_CID_DV_TX_RXSENSE", Add (Id "V4L2_CID_DV_CLASS_BASE") (dec 2));
    ("V4L2_CID_DV_TX_EDID_PRESENT", Add (Id "V4L2_CID_DV_CLASS_BASE") (dec 3));
    ("V4L2_CID_DV_TX_MODE", Add (Id "V4L2_CID_DV_CLASS_BASE") (dec 4))]].
Definition enum_v4l2_dv_rgb_range : list decl := [
  Enum [
    ("V4L2_DV_RGB_RANGE_AUTO", Some (dec 0)); ("V4L2_DV_RGB_RANGE_LIMITED", Some (dec 1));
    ("V4L2_DV_RGB_RANGE_FULL", Some (dec 2))];
  Defines [
    ("V4L2_CID_DV_RX_POWER_PRESENT", Add (Id "V4L2_CID_DV_CLASS_BASE") (dec 100));
    ("V4L2_CID_DV_RX_RGB_RANGE", Add (Id "V4L2_CID_DV_CLASS_BASE") (dec 101));
    ("V4L2_CID_FM_RX_CLASS_BASE", Or (Id "V4L2_CTRL_CLASS_FM_RX") (hex 0x900));
    ("V4L2_CID_FM_RX_CLASS", Or (Id "V4L2_CTRL_CLASS_FM_RX") (dec 1));
    ("V4L2_CID_TUNE_DEEMPHASIS", Add (Id "V4L2_CID_FM_RX_CLASS_BASE") (dec 1))];
  Enum [
    ("V4L2_DEEMPHASIS_DISABLED", Some (Id "V4L2_PREEMPHASIS_DISABLED"));
    ("V4L2_DEEMPHASIS_50_uS", Some (Id "V4L2_PREEMPHASIS_50_uS"));
    ("V4L2_DEEMPHASIS_75_uS", Some (Id "V4L2_PREEMPHASIS_75_uS"))];
  Defines [
    ("V4L2_CID_RDS_RECEPTION", Add (Id "V4L2_CID_FM_RX_CLASS_BASE") (dec 2));
    ("V4L2_CID_RDS_RX_PTY", Add (Id "V4L2_CID_FM_RX_CLASS_BASE") (dec 3));
    ("V4L2_CID_RDS_RX_PS_NAME", Add (Id "V4L2_CID_FM_RX_CLASS_BASE") (dec 4));
    ("V4L2_CID_RDS_RX_RADIO_TEXT", Add (Id "V4L2_CID_FM_RX_CLASS_BASE") (dec 5));
    ("V4L2_CID_RDS_RX_TRAFFIC_ANNOUNCEMENT", Add (Id "V4L2_CID_FM_RX_CLASS_BASE") (dec 6));
    ("V4L2_CID_RDS_RX_TRAFFIC_PROGRAM", Add (Id "V4L2_CID_FM_RX_CLASS_BASE") (dec 7));
    ("V4L2_CID_RDS_RX_MUSIC_SPEECH", Add (Id "V4L2_CID_FM_RX_CLASS_BASE") (dec 8));
    ("V4L2_CID_RF_TUNER_CLASS_BASE", Or (Id "V4L2_CTRL_CLASS_RF_TUNER") (hex 0x900));
    ("V4L2_CID_RF_TUNER_CLASS", Or (Id "V4L2_CTRL_CLASS_RF_TUNER") (dec 1));
    ("V4L2_CID_RF_TUNER_BANDWIDTH_AUTO", Add (Id "V4L2_CID_RF_TUNER_CLASS_BASE") (dec 11));
    ("V4L2_CID_RF_TUNER_BANDWIDTH", Add (Id "V4L2_CID_RF_TUNER_CLASS_BASE") (dec 12));
    ("V4L2_CID_RF_TUNER_RF_GAIN", Add (Id "V4L2_CID_RF_TUNER_CLASS_BASE") (dec 32));
    ("V4L2_CID_RF_TUNER_LNA_GAIN_AUTO", Add (Id "V4L2_CID_RF_TUNER_CLASS_BASE") (dec 41));
    ("V4L2_CID_RF_TUNER_LNA_GAIN", Add (Id "V4L2_CID_RF_TUNER_CLASS_BASE") (dec 42));
    ("V4L2_CID_RF_TUNER_MIXER_GAIN_AUTO", Add (Id "V4L2_CID_RF_TUNER_CLASS_BASE") (dec 51));
    ("V4L2_CID_RF_TUNER_MIXER_GAIN", Add (Id "V4L2_CID_RF_TUNER_CLASS_BASE") (dec 52));
    ("V4L2_CID_RF_TUNER_IF_GAIN_AUTO", Add (Id "V4L2_CID_RF_TUNER_CLASS_BASE") (dec 61));
    ("V4L2_CID_RF_TUNER_IF_GAIN", Add (Id "V4L2_CID_RF_TUNER_CLASS_BASE") (dec 62));
    ("V4L2_CID_RF_TUNER_PLL_LOCK", Add (Id "V4L2_CID_RF_TUNER_CLASS_BASE") (dec 91));
    ("V4L2_CID_DETECT_CLASS_BASE", Or (Id "V4L2_CTRL_CLASS_DETECT") (hex 0x900));
    ("V4L2_CID_DETECT_CLASS", Or (Id "V4L2_CTRL_CLASS_DETECT") (dec 1));
    ("V4L2_CID_DETECT_MD_MODE", Add (Id "V4L2_CID_DETECT_CLASS_BASE") (dec 1))];
  Enum [
    ("V4L2_DETECT_MD_MODE_DISABLED", Some (dec 0)); ("V4L2_DETECT_MD_MODE_GLOBAL", Some (dec 1));
    ("V4L2_DETECT_MD_MODE_THRESHOLD_GRID", Some (dec 2));
    ("V4L2_DETECT_MD_MODE_REGION_GRID", Some (dec 3))];
  Defines [
    ("V4L2_CID_DETECT_MD_GLOBAL_THRESHOLD", Add (Id "V4L2_CID_DETECT_CLASS_BASE") (dec 2));
    ("V4L2_CID_DETECT_MD_THRESHOLD_GRID", Add (Id "V4L2_CID_DETECT_CLASS_BASE") (dec 3));
    ("V4L2_CID_DETECT_MD_REGION_GRID", Add (Id "V4L2_CID_DETECT_CLASS_BASE") (dec 4))]].
Definition header : header :=
  Header "linux/v4l2-controls.h" [] (concat [
    defs_V4L2_CTRL_CLASS_USER; defs_V4L2_CID_USER_S2255_BASE; enum_v4l2_mpeg_audio_sampling_freq;
    enum_v4l2_mpeg_audio_ac3_bitrate; defs_V4L2_CID_MPEG_VIDEO_BITRATE;
    enum_v4l2_mpeg_video_h264_level; defs_V4L2_CID_MPEG_VIDEO_H264_FMO_CHANGE_RATE;
    defs_V4L2_CID_MPEG_VIDEO_H264_HIERARCHICAL_CODING_LAYER; enum_v4l2_vp8_num_partitions;
    defs_V4L2_CID_MPEG_VIDEO_VPX_MIN_QP; enum_v4l2_mpeg_cx2341x_video_luma_spatial_filter_type;
    enum_v4l2_mpeg_cx2341x_video_median_filter_type; enum_v4l2_mpeg_vidc_video_divx_format_type;
    defs_V4L2_CID_MPEG_VIDC_VIDEO_FRAME_RATE; enum_v4l2_mpeg_vidc_video_rotation;
    enum_v4l2_mpeg_vidc_extradata; enum_v4l2_mpeg_vidc_video_alloc_mode_type;
    enum_v4l2_mpeg_vidc_video_vp8_profile_level; enum_v4l2_mpeg_vidc_video_mpeg2_level;
    defs_V4L2_CID_MPEG_VIDC_VIDEO_VP8_MIN_QP; enum_vl42_mpeg_vidc_video_enable_initial_qp;
    enum_v4l2_mpeg_video_hevc_profile; enum_v4l2_mpeg_vidc_video_perf_mode;
    defs_V4L2_CID_MPEG_VIDC_VIDEO_MAX_HIERP_LAYERS; defs_V4L2_CID_MPEG_VIDC_VIDEO_BLUR_WIDTH;
    enum_v4l2_mpeg_vidc_video_venc_iframesize_type; defs_V4L2_CID_CAMERA_CLASS_BASE;
    enum_v4l2_exposure_metering; defs_V4L2_CID_FLASH_STROBE; enum_v4l2_dv_rgb_range]).
End V4l2_controls.
