(* ===== verification/ConstMedia.v ===== *)
(** * Constants of video, DVB and the camera

    Macros and enumerations of these headers of [kernel-headers], one module per
    header: each table holds the consecutive definitions of one place. *)
From S2P Require Import Prelude.
From S2P Require Import CConst.
From S2P Require Import ConstBase.
#[local] Open Scope string_scope.

(** ** [linux/dvb/audio.h] *)

Module Dvb_audio.
Definition enum_AUDIO_STOPPED : list decl := [
  Enum [
    ("AUDIO_STOPPED", None); ("AUDIO_PLAYING", None); ("AUDIO_PAUSED", None)];
  Enum [
    ("AUDIO_STEREO", None); ("AUDIO_MONO_LEFT", None); ("AUDIO_MONO_RIGHT", None);
    ("AUDIO_MONO", None); ("AUDIO_STEREO_SWAPPED", None)]].
Definition defs_AUDIO_CAP_DTS : list decl := [
  Defines [
    ("AUDIO_CAP_DTS", dec 1); ("AUDIO_CAP_LPCM", dec 2); ("AUDIO_CAP_MP1", dec 4);
    ("AUDIO_CAP_MP2", dec 8); ("AUDIO_CAP_MP3", dec 16); ("AUDIO_CAP_AAC", dec 32);
    ("AUDIO_CAP_OGG", dec 64); ("AUDIO_CAP_SDDS", dec 128); ("AUDIO_CAP_AC3", dec 256)]].
Definition header : header :=
  Header "linux/dvb/audio.h" [] (concat [
    enum_AUDIO_STOPPED; defs_AUDIO_CAP_DTS]).
End Dvb_audio.

(** ** [linux/dvb/dmx.h] *)

Module Dvb_dmx.
Definition enum_dmx_output : list decl := [
  Enum [
    ("DMX_OUT_DECODER", None); ("DMX_OUT_TAP", None); ("DMX_OUT_TS_TAP", None);
    ("DMX_OUT_TSDEMUX_TAP", None)]].
Definition enum_dmx_ts_pes : list decl := [
  Enum [
    ("DMX_PES_AUDIO0", None); ("DMX_PES_VIDEO0", None); ("DMX_PES_TELETEXT0", None);
    ("DMX_PES_SUBTITLE0", None); ("DMX_PES_PCR0", None); ("DMX_PES_AUDIO1", None);
    ("DMX_PES_VIDEO1", None); ("DMX_PES_TELETEXT1", None); ("DMX_PES_SUBTITLE1", None);
    ("DMX_PES_PCR1", None); ("DMX_PES_AUDIO2", None); ("DMX_PES_VIDEO2", None);
    ("DMX_PES_TELETEXT2", None); ("DMX_PES_SUBTITLE2", None); ("DMX_PES_PCR2", None);
    ("DMX_PES_AUDIO3", None); ("DMX_PES_VIDEO3", None); ("DMX_PES_TELETEXT3", None);
    ("DMX_PES_SUBTITLE3", None); ("DMX_PES_PCR3", None); ("DMX_PES_OTHER", None)];
  Defines [
    ("DMX_PES_AUDIO", Id "DMX_PES_AUDIO0"); ("DMX_PES_VIDEO", Id "DMX_PES_VIDEO0");
    ("DMX_PES_TELETEXT", Id "DMX_PES_TELETEXT0"); ("DMX_PES_SUBTITLE", Id "DMX_PES_SUBTITLE0");
    ("DMX_PES_PCR", Id "DMX_PES_PCR0")]].
Definition enum_dmx_video_codec : list decl := [
  Enum [
    ("DMX_VIDEO_CODEC_MPEG2", None); ("DMX_VIDEO_CODEC_H264", None);
    ("DMX_VIDEO_CODEC_VC1", None)];
  Defines [
    ("DMX_IDX_RAI", hex 0x00000001); ("DMX_IDX_PUSI", hex 0x00000002);
    ("DMX_IDX_MPEG_SEQ_HEADER", hex 0x00000004); ("DMX_IDX_MPEG_GOP", hex 0x00000008);
    ("DMX_IDX_MPEG_FIRST_SEQ_FRAME_START", hex 0x00000010);
    ("DMX_IDX_MPEG_FIRST_SEQ_FRAME_END", hex 0x00000020);
    ("DMX_IDX_MPEG_I_FRAME_START", hex 0x00000040); ("DMX_IDX_MPEG_I_FRAME_END", hex 0x00000080);
    ("DMX_IDX_MPEG_P_FRAME_START", hex 0x00000100); ("DMX_IDX_MPEG_P_FRAME_END", hex 0x00000200);
    ("DMX_IDX_MPEG_B_FRAME_START", hex 0x00000400); ("DMX_IDX_MPEG_B_FRAME_END", hex 0x00000800);
    ("DMX_IDX_H264_SPS", hex 0x00001000); ("DMX_IDX_H264_PPS", hex 0x00002000);
    ("DMX_IDX_H264_FIRST_SPS_FRAME_START", hex 0x00004000);
    ("DMX_IDX_H264_FIRST_SPS_FRAME_END", hex 0x00008000);
    ("DMX_IDX_H264_IDR_START", hex 0x00010000); ("DMX_IDX_H264_IDR_END", hex 0x00020000);
    ("DMX_IDX_H264_NON_IDR_START", hex 0x00040000); ("DMX_IDX_H264_NON_IDR_END", hex 0x00080000);
    ("DMX_IDX_VC1_SEQ_HEADER", hex 0x00100000); ("DMX_IDX_VC1_ENTRY_POINT", hex 0x00200000);
    ("DMX_IDX_VC1_FIRST_SEQ_FRAME_START", hex 0x00400000);
    ("DMX_IDX_VC1_FIRST_SEQ_FRAME_END", hex 0x00800000);
    ("DMX_IDX_VC1_FRAME_START", hex 0x01000000); ("DMX_IDX_VC1_FRAME_END", hex 0x02000000);
    ("DMX_IDX_H264_ACCESS_UNIT_DEL", hex 0x04000000); ("DMX_IDX_H264_SEI", hex 0x08000000);
    ("DMX_IDX_H264_IDR_ISLICE_START", hex 0x10000000);
    ("DMX_IDX_H264_NON_IDR_PSLICE_START", hex 0x20000000);
    ("DMX_IDX_H264_NON_IDR_BSLICE_START", hex 0x40000000)]].
Definition enum_dmx_event : list decl := [
  Enum [
    ("DMX_EVENT_NEW_PES", Some (hex 0x00000001));
    ("DMX_EVENT_NEW_SECTION", Some (hex 0x00000002));
    ("DMX_EVENT_NEW_REC_CHUNK", Some (hex 0x00000004));
    ("DMX_EVENT_NEW_PCR", Some (hex 0x00000008));
    ("DMX_EVENT_BUFFER_OVERFLOW", Some (hex 0x00000010));
    ("DMX_EVENT_SECTION_CRC_ERROR", Some (hex 0x00000020));
    ("DMX_EVENT_EOS", Some (hex 0x00000040)); ("DMX_EVENT_NEW_ES_DATA", Some (hex 0x00000080));
    ("DMX_EVENT_MARKER", Some (hex 0x00000100));
    ("DMX_EVENT_NEW_INDEX_ENTRY", Some (hex 0x00000200));
    ("DMX_EVENT_SECTION_TIMEOUT", Some (hex 0x00000400));
    ("DMX_EVENT_SCRAMBLING_STATUS_CHANGE", Some (hex 0x00000800))]].
Definition enum_dmx_source : list decl := [
  Enum [
    ("DMX_SOURCE_FRONT0", Some (dec 0)); ("DMX_SOURCE_FRONT1", None);
    ("DMX_SOURCE_FRONT2", None); ("DMX_SOURCE_FRONT3", None); ("DMX_SOURCE_DVR0", Some (dec 16));
    ("DMX_SOURCE_DVR1", None); ("DMX_SOURCE_DVR2", None); ("DMX_SOURCE_DVR3", None)];
  Enum [
    ("DMX_TSP_FORMAT_188", Some (dec 0)); ("DMX_TSP_FORMAT_192_TAIL", None);
    ("DMX_TSP_FORMAT_192_HEAD", None); ("DMX_TSP_FORMAT_204", None)]].
Definition header : header :=
  Header "linux/dvb/dmx.h" [] (concat [
    enum_dmx_output; enum_dmx_ts_pes; enum_dmx_video_codec; enum_dmx_event; enum_dmx_source]).
End Dvb_dmx.

(** ** [linux/dvb/frontend.h] *)

Module Dvb_frontend.
Definition enum_fe_type : list decl := [
  Enum [
    ("FE_QPSK", None); ("FE_QAM", None); ("FE_OFDM", None); ("FE_ATSC", None)];
  Enum [
    ("FE_IS_STUPID", Some (dec 0)); ("FE_CAN_INVERSION_AUTO", Some (hex 0x1));
    ("FE_CAN_FEC_1_2", Some (hex 0x2)); ("FE_CAN_FEC_2_3", Some (hex 0x4));
    ("FE_CAN_FEC_3_4", Some (hex 0x8)); ("FE_CAN_FEC_4_5", Some (hex 0x10));
    ("FE_CAN_FEC_5_6", Some (hex 0x20)); ("FE_CAN_FEC_6_7", Some (hex 0x40));
    ("FE_CAN_FEC_7_8", Some (hex 0x80)); ("FE_CAN_FEC_8_9", Some (hex 0x100));
    ("FE_CAN_FEC_AUTO", Some (hex 0x200)); ("FE_CAN_QPSK", Some (hex 0x400));
    ("FE_CAN_QAM_16", Some (hex 0x800)); ("FE_CAN_QAM_32", Some (hex 0x1000));
    ("FE_CAN_QAM_64", Some (hex 0x2000)); ("FE_CAN_QAM_128", Some (hex 0x4000));
    ("FE_CAN_QAM_256", Some (hex 0x8000)); ("FE_CAN_QAM_AUTO", Some (hex 0x10000));
    ("FE_CAN_TRANSMISSION_MODE_AUTO", Some (hex 0x20000));
    ("FE_CAN_BANDWIDTH_AUTO", Some (hex 0x40000));
    ("FE_CAN_GUARD_INTERVAL_AUTO", Some (hex 0x80000));
    ("FE_CAN_HIERARCHY_AUTO", Some (hex 0x100000)); ("FE_CAN_8VSB", Some (hex 0x200000));
    ("FE_CAN_16VSB", Some (hex 0x400000)); ("FE_HAS_EXTENDED_CAPS", Some (hex 0x800000));
    ("FE_CAN_MULTISTREAM", Some (hex 0x4000000)); ("FE_CAN_TURBO_FEC", Some (hex 0x8000000));
    ("FE_CAN_2G_MODULATION", Some (hex 0x10000000)); ("FE_NEEDS_BENDING", Some (hex 0x20000000));
    ("FE_CAN_RECOVER", Some (hex 0x40000000)); ("FE_CAN_MUTE_TS", Some (hex 0x80000000))]].
Definition enum_fe_sec_voltage : list decl := [
  Enum [
    ("SEC_VOLTAGE_13", None); ("SEC_VOLTAGE_18", None); ("SEC_VOLTAGE_OFF", None)]].
Definition enum_fe_status : list decl := [
  Enum [
    ("FE_HAS_SIGNAL", Some (hex 0x01)); ("FE_HAS_CARRIER", Some (hex 0x02));
    ("FE_HAS_VITERBI", Some (hex 0x04)); ("FE_HAS_SYNC", Some (hex 0x08));
    ("FE_HAS_LOCK", Some (hex 0x10)); ("FE_TIMEDOUT", Some (hex 0x20));
    ("FE_REINIT", Some (hex 0x40))];
  Enum [
    ("INVERSION_OFF", None); ("INVERSION_ON", None); ("INVERSION_AUTO", None)];
  Enum [
    ("FEC_NONE", Some (dec 0)); ("FEC_1_2", None); ("FEC_2_3", None); ("FEC_3_4", None);
    ("FEC_4_5", None); ("FEC_5_6", None); ("FEC_6_7", None); ("FEC_7_8", None);
    ("FEC_8_9", None); ("FEC_AUTO", None); ("FEC_3_5", None); ("FEC_9_10", None);
    ("FEC_2_5", None)];
  Enum [
    ("QPSK", None); ("QAM_16", None); ("QAM_32", None); ("QAM_64", None); ("QAM_128", None);
    ("QAM_256", None); ("QAM_AUTO", None); ("VSB_8", None); ("VSB_16", None); ("PSK_8", None);
    ("APSK_16", None); ("APSK_32", None); ("DQPSK", None); ("QAM_4_NR", None)];
  Enum [
    ("TRANSMISSION_MODE_2K", None); ("TRANSMISSION_MODE_8K", None);
    ("TRANSMISSION_MODE_AUTO", None); ("TRANSMISSION_MODE_4K", None);
    ("TRANSMISSION_MODE_1K", None); ("TRANSMISSION_MODE_16K", None);
    ("TRANSMISSION_MODE_32K", None); ("TRANSMISSION_MODE_C1", None);
    ("TRANSMISSION_MODE_C3780", None)];
  Enum [
    ("GUARD_INTERVAL_1_32", None); ("GUARD_INTERVAL_1_16", None); ("GUARD_INTERVAL_1_8", None);
    ("GUARD_INTERVAL_1_4", None); ("GUARD_INTERVAL_AUTO", None); ("GUARD_INTERVAL_1_128", None);
    ("GUARD_INTERVAL_19_128", None); ("GUARD_INTERVAL_19_256", None);
    ("GUARD_INTERVAL_PN420", None); ("GUARD_INTERVAL_PN595", None);
    ("GUARD_INTERVAL_PN945", None)];
  Enum [
    ("HIERARCHY_NONE", None); ("HIERARCHY_1", None); ("HIERARCHY_2", None);
    ("HIERARCHY_4", None); ("HIERARCHY_AUTO", None)];
  Enum [
    ("INTERLEAVING_NONE", None); ("INTERLEAVING_AUTO", None); ("INTERLEAVING_240", None);
    ("INTERLEAVING_720", None)]].
Definition defs_DTV_UNDEFINED : list decl := [
  Defines [
    ("DTV_UNDEFINED", dec 0); ("DTV_TUNE", dec 1); ("DTV_CLEAR", dec 2);
    ("DTV_FREQUENCY", dec 3); ("DTV_MODULATION", dec 4); ("DTV_BANDWIDTH_HZ", dec 5);
    ("DTV_INVERSION", dec 6); ("DTV_DISEQC_MASTER", dec 7); ("DTV_SYMBOL_RATE", dec 8);
    ("DTV_INNER_FEC", dec 9); ("DTV_VOLTAGE", dec 10); ("DTV_TONE", dec 11);
    ("DTV_PILOT", dec 12); ("DTV_ROLLOFF", dec 13); ("DTV_DISEQC_SLAVE_REPLY", dec 14);
    ("DTV_FE_CAPABILITY_COUNT", dec 15); ("DTV_FE_CAPABILITY", dec 16);
    ("DTV_DELIVERY_SYSTEM", dec 17); ("DTV_ISDBT_PARTIAL_RECEPTION", dec 18);
    ("DTV_ISDBT_SOUND_BROADCASTING", dec 19); ("DTV_ISDBT_SB_SUBCHANNEL_ID", dec 20);
    ("DTV_ISDBT_SB_SEGMENT_IDX", dec 21); ("DTV_ISDBT_SB_SEGMENT_COUNT", dec 22);
    ("DTV_ISDBT_LAYERA_FEC", dec 23); ("DTV_ISDBT_LAYERA_MODULATION", dec 24);
    ("DTV_ISDBT_LAYERA_SEGMENT_COUNT", dec 25); ("DTV_ISDBT_LAYERA_TIME_INTERLEAVING", dec 26);
    ("DTV_ISDBT_LAYERB_FEC", dec 27); ("DTV_ISDBT_LAYERB_MODULATION", dec 28);
    ("DTV_ISDBT_LAYERB_SEGMENT_COUNT", dec 29); ("DTV_ISDBT_LAYERB_TIME_INTERLEAVING", dec 30);
    ("DTV_ISDBT_LAYERC_FEC", dec 31); ("DTV_ISDBT_LAYERC_MODULATION", dec 32);
    ("DTV_ISDBT_LAYERC_SEGMENT_COUNT", dec 33); ("DTV_ISDBT_LAYERC_TIME_INTERLEAVING", dec 34);
    ("DTV_API_VERSION", dec 35); ("DTV_CODE_RATE_HP", dec 36); ("DTV_CODE_RATE_LP", dec 37);
    ("DTV_GUARD_INTERVAL", dec 38); ("DTV_TRANSMISSION_MODE", dec 39); ("DTV_HIERARCHY", dec 40);
    ("DTV_ISDBT_LAYER_ENABLED", dec 41); ("DTV_STREAM_ID", dec 42);
    ("DTV_ISDBS_TS_ID_LEGACY", Id "DTV_STREAM_ID"); ("DTV_DVBT2_PLP_ID_LEGACY", dec 43);
    ("DTV_ENUM_DELSYS", dec 44); ("DTV_ATSCMH_FIC_VER", dec 45);
    ("DTV_ATSCMH_PARADE_ID", dec 46); ("DTV_ATSCMH_NOG", dec 47); ("DTV_ATSCMH_TNOG", dec 48);
    ("DTV_ATSCMH_SGN", dec 49); ("DTV_ATSCMH_PRC", dec 50); ("DTV_ATSCMH_RS_FRAME_MODE", dec 51);
    ("DTV_ATSCMH_RS_FRAME_ENSEMBLE", dec 52); ("DTV_ATSCMH_RS_CODE_MODE_PRI", dec 53);
    ("DTV_ATSCMH_RS_CODE_MODE_SEC", dec 54); ("DTV_ATSCMH_SCCC_BLOCK_MODE", dec 55);
    ("DTV_ATSCMH_SCCC_CODE_MODE_A", dec 56); ("DTV_ATSCMH_SCCC_CODE_MODE_B", dec 57);
    ("DTV_ATSCMH_SCCC_CODE_MODE_C", dec 58); ("DTV_ATSCMH_SCCC_CODE_MODE_D", dec 59);
    ("DTV_INTERLEAVING", dec 60); ("DTV_LNA", dec 61); ("DTV_STAT_SIGNAL_STRENGTH", dec 62);
    ("DTV_STAT_CNR", dec 63); ("DTV_STAT_PRE_ERROR_BIT_COUNT", dec 64);
    ("DTV_STAT_PRE_TOTAL_BIT_COUNT", dec 65); ("DTV_STAT_POST_ERROR_BIT_COUNT", dec 66);
    ("DTV_STAT_POST_TOTAL_BIT_COUNT", dec 67); ("DTV_STAT_ERROR_BLOCK_COUNT", dec 68);
    ("DTV_STAT_TOTAL_BLOCK_COUNT", dec 69); ("DTV_MAX_COMMAND", Id "DTV_STAT_TOTAL_BLOCK_COUNT")];
  Enum [
    ("PILOT_ON", None); ("PILOT_OFF", None); ("PILOT_AUTO", None)];
  Enum [
    ("ROLLOFF_35", None); ("ROLLOFF_20", None); ("ROLLOFF_25", None); ("ROLLOFF_AUTO", None)];
  Enum [
    ("SYS_UNDEFINED", None); ("SYS_DVBC_ANNEX_A", None); ("SYS_DVBC_ANNEX_B", None);
    ("SYS_DVBT", None); ("SYS_DSS", None); ("SYS_DVBS", None); ("SYS_DVBS2", None);
    ("SYS_DVBH", None); ("SYS_ISDBT", None); ("SYS_ISDBS", None); ("SYS_ISDBC", None);
    ("SYS_ATSC", None); ("SYS_ATSCMH", None); ("SYS_DTMB", None); ("SYS_CMMB", None);
    ("SYS_DAB", None); ("SYS_DVBT2", None); ("SYS_TURBO", None); ("SYS_DVBC_ANNEX_C", None)];
  Defines [
    ("SYS_DVBC_ANNEX_AC", Id "SYS_DVBC_ANNEX_A"); ("SYS_DMBTH", Id "SYS_DTMB")];
  Enum [
    ("ATSCMH_SCCC_BLK_SEP", Some (dec 0)); ("ATSCMH_SCCC_BLK_COMB", Some (dec 1));
    ("ATSCMH_SCCC_BLK_RES", Some (dec 2))];
  Enum [
    ("ATSCMH_SCCC_CODE_HLF", Some (dec 0)); ("ATSCMH_SCCC_CODE_QTR", Some (dec 1));
    ("ATSCMH_SCCC_CODE_RES", Some (dec 2))]].
Definition enum_atscmh_rs_frame_mode : list decl := [
  Enum [
    ("ATSCMH_RSFRAME_PRI_ONLY", Some (dec 0)); ("ATSCMH_RSFRAME_PRI_SEC", Some (dec 1));
    ("ATSCMH_RSFRAME_RES", Some (dec 2))];
  Enum [
    ("ATSCMH_RSCODE_211_187", Some (dec 0)); ("ATSCMH_RSCODE_223_187", Some (dec 1));
    ("ATSCMH_RSCODE_235_187", Some (dec 2)); ("ATSCMH_RSCODE_RES", Some (dec 3))];
  Defines [
    ("NO_STREAM_ID_FILTER", Not (decU 0)); ("LNA_AUTO", Not (decU 0))]].
Definition enum_fecap_scale_params : list decl := [
  Enum [
    ("FE_SCALE_NOT_AVAILABLE", Some (dec 0)); ("FE_SCALE_DECIBEL", None);
    ("FE_SCALE_RELATIVE", None); ("FE_SCALE_COUNTER", None)]].
Definition enum_fe_bandwidth : list decl := [
  Enum [
    ("BANDWIDTH_8_MHZ", None); ("BANDWIDTH_7_MHZ", None); ("BANDWIDTH_6_MHZ", None);
    ("BANDWIDTH_AUTO", None); ("BANDWIDTH_5_MHZ", None); ("BANDWIDTH_10_MHZ", None);
    ("BANDWIDTH_1_712_MHZ", None)]].
Definition header : header :=
  Header "linux/dvb/frontend.h" [] (concat [
    enum_fe_type; enum_fe_sec_voltage; enum_fe_status; defs_DTV_UNDEFINED;
    enum_atscmh_rs_frame_mode; enum_fecap_scale_params; enum_fe_bandwidth]).
End Dvb_frontend.

(** ** [linux/dvb/osd.h] *)

Module Dvb_osd.
Definition enum_OSD_Close : list decl := [
  Enum [
    ("OSD_Close", Some (dec 1)); ("OSD_Open", None); ("OSD_Show", None); ("OSD_Hide", None);
    ("OSD_Clear", None); ("OSD_Fill", None); ("OSD_SetColor", None); ("OSD_SetPalette", None);
    ("OSD_SetTrans", None); ("OSD_SetPixel", None); ("OSD_GetPixel", None); ("OSD_SetRow", None);
    ("OSD_SetBlock", None); ("OSD_FillRow", None); ("OSD_FillBlock", None); ("OSD_Line", None);
    ("OSD_Query", None); ("OSD_Test", None); ("OSD_Text", None); ("OSD_SetWindow", None);
    ("OSD_MoveWindow", None); ("OSD_OpenRaw", None)]].
Definition enum_OSD_BITMAP1 : list decl := [
  Enum [
    ("OSD_BITMAP1", None); ("OSD_BITMAP2", None); ("OSD_BITMAP4", None); ("OSD_BITMAP8", None);
    ("OSD_BITMAP1HR", None); ("OSD_BITMAP2HR", None); ("OSD_BITMAP4HR", None);
    ("OSD_BITMAP8HR", None); ("OSD_YCRCB422", None); ("OSD_YCRCB444", None);
    ("OSD_YCRCB444HR", None); ("OSD_VIDEOTSIZE", None); ("OSD_VIDEOHSIZE", None);
    ("OSD_VIDEOQSIZE", None); ("OSD_VIDEODSIZE", None); ("OSD_VIDEOTHSIZE", None);
    ("OSD_VIDEOTQSIZE", None); ("OSD_VIDEOTDSIZE", None); ("OSD_VIDEONSIZE", None);
    ("OSD_CURSOR", None)]].
Definition header : header :=
  Header "linux/dvb/osd.h" [] (concat [
    enum_OSD_Close; enum_OSD_BITMAP1]).
End Dvb_osd.

(** ** [linux/dvb/video.h] *)

Module Dvb_video.
Definition enum_VIDEO_FORMAT_4_3 : list decl := [
  Enum [
    ("VIDEO_FORMAT_4_3", None); ("VIDEO_FORMAT_16_9", None); ("VIDEO_FORMAT_221_1", None)];
  Enum [
    ("VIDEO_SYSTEM_PAL", None); ("VIDEO_SYSTEM_NTSC", None); ("VIDEO_SYSTEM_PALN", None);
    ("VIDEO_SYSTEM_PALNc", None); ("VIDEO_SYSTEM_PALM", None); ("VIDEO_SYSTEM_NTSC60", None);
    ("VIDEO_SYSTEM_PAL60", None); ("VIDEO_SYSTEM_PALM60", None)];
  Enum [
    ("VIDEO_PAN_SCAN", None); ("VIDEO_LETTER_BOX", None); ("VIDEO_CENTER_CUT_OUT", None)]].
Definition enum_VIDEO_STOPPED : list decl := [
  Enum [
    ("VIDEO_STOPPED", None); ("VIDEO_PLAYING", None); ("VIDEO_FREEZED", None)];
  Defines [
    ("VIDEO_CMD_PLAY", dec 0); ("VIDEO_CMD_STOP", dec 1); ("VIDEO_CMD_FREEZE", dec 2);
    ("VIDEO_CMD_CONTINUE", dec 3); ("VIDEO_CMD_FREEZE_TO_BLACK", Shl (dec 1) (dec 0));
    ("VIDEO_CMD_STOP_TO_BLACK", Shl (dec 1) (dec 0));
    ("VIDEO_CMD_STOP_IMMEDIATELY", Shl (dec 1) (dec 1)); ("VIDEO_PLAY_FMT_NONE", dec 0);
    ("VIDEO_PLAY_FMT_GOP", dec 1)]].
Definition defs_VIDEO_VSYNC_FIELD_UNKNOWN : list decl := [
  Defines [
    ("VIDEO_VSYNC_FIELD_UNKNOWN", dec 0); ("VIDEO_VSYNC_FIELD_ODD", dec 1);
    ("VIDEO_VSYNC_FIELD_EVEN", dec 2); ("VIDEO_VSYNC_FIELD_PROGRESSIVE", dec 3)]].
Definition defs_VIDEO_CAP_MPEG1 : list decl := [
  Defines [
    ("VIDEO_CAP_MPEG1", dec 1); ("VIDEO_CAP_MPEG2", dec 2); ("VIDEO_CAP_SYS", dec 4);
    ("VIDEO_CAP_PROG", dec 8); ("VIDEO_CAP_SPU", dec 16); ("VIDEO_CAP_NAVI", dec 32);
    ("VIDEO_CAP_CSS", dec 64)]].
Definition header : header :=
  Header "linux/dvb/video.h" [] (concat [
    enum_VIDEO_FORMAT_4_3; enum_VIDEO_STOPPED; defs_VIDEO_VSYNC_FIELD_UNKNOWN;
    defs_VIDEO_CAP_MPEG1]).
End Dvb_video.

(** ** [linux/ivtv.h] *)

Module Ivtv.
Definition defs_IVTV_SLICED_TYPE_TELETEXT_B : list decl := [
  Defines [
    ("IVTV_SLICED_TYPE_TELETEXT_B", Id "V4L2_MPEG_VBI_IVTV_TELETEXT_B");
    ("IVTV_SLICED_TYPE_CAPTION_525", Id "V4L2_MPEG_VBI_IVTV_CAPTION_525");
    ("IVTV_SLICED_TYPE_WSS_625", Id "V4L2_MPEG_VBI_IVTV_WSS_625");
    ("IVTV_SLICED_TYPE_VPS", Id "V4L2_MPEG_VBI_IVTV_VPS")]].
Definition header : header :=
  Header "linux/ivtv.h" [Videodev2.header] (concat [
    defs_IVTV_SLICED_TYPE_TELETEXT_B]).
End Ivtv.

(** ** [linux/media-bus-format.h] *)

Module Media_bus_format.
Definition defs_MEDIA_BUS_FMT_FIXED : list decl := [
  Defines [
    ("MEDIA_BUS_FMT_FIXED", hex 0x0001); ("MEDIA_BUS_FMT_RGB444_1X12", hex 0x1016);
    ("MEDIA_BUS_FMT_RGB444_2X8_PADHI_BE", hex 0x1001);
    ("MEDIA_BUS_FMT_RGB444_2X8_PADHI_LE", hex 0x1002);
    ("MEDIA_BUS_FMT_RGB555_2X8_PADHI_BE", hex 0x1003);
    ("MEDIA_BUS_FMT_RGB555_2X8_PADHI_LE", hex 0x1004); ("MEDIA_BUS_FMT_RGB565_1X16", hex 0x1017);
    ("MEDIA_BUS_FMT_BGR565_2X8_BE", hex 0x1005); ("MEDIA_BUS_FMT_BGR565_2X8_LE", hex 0x1006);
    ("MEDIA_BUS_FMT_RGB565_2X8_BE", hex 0x1007); ("MEDIA_BUS_FMT_RGB565_2X8_LE", hex 0x1008);
    ("MEDIA_BUS_FMT_RGB666_1X18", hex 0x1009); ("MEDIA_BUS_FMT_RBG888_1X24", hex 0x100e);
    ("MEDIA_BUS_FMT_RGB666_1X24_CPADHI", hex 0x1015);
    ("MEDIA_BUS_FMT_RGB666_1X7X3_SPWG", hex 0x1010); ("MEDIA_BUS_FMT_BGR888_1X24", hex 0x1013);
    ("MEDIA_BUS_FMT_GBR888_1X24", hex 0x1014); ("MEDIA_BUS_FMT_RGB888_1X24", hex 0x100a);
    ("MEDIA_BUS_FMT_RGB888_2X12_BE", hex 0x100b); ("MEDIA_BUS_FMT_RGB888_2X12_LE", hex 0x100c);
    ("MEDIA_BUS_FMT_RGB888_1X7X4_SPWG", hex 0x1011);
    ("MEDIA_BUS_FMT_RGB888_1X7X4_JEIDA", hex 0x1012);
    ("MEDIA_BUS_FMT_ARGB8888_1X32", hex 0x100d); ("MEDIA_BUS_FMT_RGB888_1X32_PADHI", hex 0x100f);
    ("MEDIA_BUS_FMT_Y8_1X8", hex 0x2001); ("MEDIA_BUS_FMT_UV8_1X8", hex 0x2015);
    ("MEDIA_BUS_FMT_UYVY8_1_5X8", hex 0x2002); ("MEDIA_BUS_FMT_VYUY8_1_5X8", hex 0x2003);
    ("MEDIA_BUS_FMT_YUYV8_1_5X8", hex 0x2004); ("MEDIA_BUS_FMT_YVYU8_1_5X8", hex 0x2005);
    ("MEDIA_BUS_FMT_UYVY8_2X8", hex 0x2006); ("MEDIA_BUS_FMT_VYUY8_2X8", hex 0x2007);
    ("MEDIA_BUS_FMT_YUYV8_2X8", hex 0x2008); ("MEDIA_BUS_FMT_YVYU8_2X8", hex 0x2009);
    ("MEDIA_BUS_FMT_Y10_1X10", hex 0x200a); ("MEDIA_BUS_FMT_UYVY10_2X10", hex 0x2018);
    ("MEDIA_BUS_FMT_VYUY10_2X10", hex 0x2019); ("MEDIA_BUS_FMT_YUYV10_2X10", hex 0x200b);
    ("MEDIA_BUS_FMT_YVYU10_2X10", hex 0x200c); ("MEDIA_BUS_FMT_Y12_1X12", hex 0x2013);
    ("MEDIA_BUS_FMT_UYVY12_2X12", hex 0x201c); ("MEDIA_BUS_FMT_VYUY12_2X12", hex 0x201d);
    ("MEDIA_BUS_FMT_YUYV12_2X12", hex 0x201e); ("MEDIA_BUS_FMT_YVYU12_2X12", hex 0x201f);
    ("MEDIA_BUS_FMT_UYVY8_1X16", hex 0x200f); ("MEDIA_BUS_FMT_VYUY8_1X16", hex 0x2010);
    ("MEDIA_BUS_FMT_YUYV8_1X16", hex 0x2011); ("MEDIA_BUS_FMT_YVYU8_1X16", hex 0x2012);
    ("MEDIA_BUS_FMT_YDYUYDYV8_1X16", hex 0x2014); ("MEDIA_BUS_FMT_UYVY10_1X20", hex 0x201a);
    ("MEDIA_BUS_FMT_VYUY10_1X20", hex 0x201b); ("MEDIA_BUS_FMT_YUYV10_1X20", hex 0x200d);
    ("MEDIA_BUS_FMT_YVYU10_1X20", hex 0x200e); ("MEDIA_BUS_FMT_VUY8_1X24", hex 0x2024);
    ("MEDIA_BUS_FMT_YUV8_1X24", hex 0x2025); ("MEDIA_BUS_FMT_UYVY12_1X24", hex 0x2020);
    ("MEDIA_BUS_FMT_VYUY12_1X24", hex 0x2021); ("MEDIA_BUS_FMT_YUYV12_1X24", hex 0x2022);
    ("MEDIA_BUS_FMT_YVYU12_1X24", hex 0x2023); ("MEDIA_BUS_FMT_YUV10_1X30", hex 0x2016);
    ("MEDIA_BUS_FMT_AYUV8_1X32", hex 0x2017); ("MEDIA_BUS_FMT_SBGGR8_1X8", hex 0x3001);
    ("MEDIA_BUS_FMT_SGBRG8_1X8", hex 0x3013); ("MEDIA_BUS_FMT_SGRBG8_1X8", hex 0x3002);
    ("MEDIA_BUS_FMT_SRGGB8_1X8", hex 0x3014); ("MEDIA_BUS_FMT_SBGGR10_ALAW8_1X8", hex 0x3015);
    ("MEDIA_BUS_FMT_SGBRG10_ALAW8_1X8", hex 0x3016);
    ("MEDIA_BUS_FMT_SGRBG10_ALAW8_1X8", hex 0x3017);
    ("MEDIA_BUS_FMT_SRGGB10_ALAW8_1X8", hex 0x3018);
    ("MEDIA_BUS_FMT_SBGGR10_DPCM8_1X8", hex 0x300b);
    ("MEDIA_BUS_FMT_SGBRG10_DPCM8_1X8", hex 0x300c);
    ("MEDIA_BUS_FMT_SGRBG10_DPCM8_1X8", hex 0x3009);
    ("MEDIA_BUS_FMT_SRGGB10_DPCM8_1X8", hex 0x300d);
    ("MEDIA_BUS_FMT_SBGGR10_2X8_PADHI_BE", hex 0x3003);
    ("MEDIA_BUS_FMT_SBGGR10_2X8_PADHI_LE", hex 0x3004);
    ("MEDIA_BUS_FMT_SBGGR10_2X8_PADLO_BE", hex 0x3005);
    ("MEDIA_BUS_FMT_SBGGR10_2X8_PADLO_LE", hex 0x3006);
    ("MEDIA_BUS_FMT_SBGGR10_1X10", hex 0x3007); ("MEDIA_BUS_FMT_SGBRG10_1X10", hex 0x300e);
    ("MEDIA_BUS_FMT_SGRBG10_1X10", hex 0x300a); ("MEDIA_BUS_FMT_SRGGB10_1X10", hex 0x300f);
    ("MEDIA_BUS_FMT_SBGGR12_1X12", hex 0x3008); ("MEDIA_BUS_FMT_SGBRG12_1X12", hex 0x3010);
    ("MEDIA_BUS_FMT_SGRBG12_1X12", hex 0x3011); ("MEDIA_BUS_FMT_SRGGB12_1X12", hex 0x3012);
    ("MEDIA_BUS_FMT_JPEG_1X8", hex 0x4001)]].
Definition header : header :=
  Header "linux/media-bus-format.h" [] (concat [
    defs_MEDIA_BUS_FMT_FIXED]).
End Media_bus_format.

(** ** [linux/media.h] *)

Module Media.
Definition defs_MEDIA_ENT_ID_FLAG_NEXT : list decl := [
  Defines [
    ("MEDIA_ENT_ID_FLAG_NEXT", Shl (dec 1) (dec 31)); ("MEDIA_ENT_TYPE_SHIFT", dec 16);
    ("MEDIA_ENT_TYPE_MASK", hex 0x00ff0000); ("MEDIA_ENT_SUBTYPE_MASK", hex 0x0000ffff);
    ("MEDIA_ENT_T_DEVNODE", Shl (dec 1) (Id "MEDIA_ENT_TYPE_SHIFT"));
    ("MEDIA_ENT_T_DEVNODE_V4L", Add (Id "MEDIA_ENT_T_DEVNODE") (dec 1));
    ("MEDIA_ENT_T_DEVNODE_FB", Add (Id "MEDIA_ENT_T_DEVNODE") (dec 2));
    ("MEDIA_ENT_T_DEVNODE_ALSA", Add (Id "MEDIA_ENT_T_DEVNODE") (dec 3));
    ("MEDIA_ENT_T_DEVNODE_DVB_FE", Add (Id "MEDIA_ENT_T_DEVNODE") (dec 4));
    ("MEDIA_ENT_T_DEVNODE_DVB_DEMUX", Add (Id "MEDIA_ENT_T_DEVNODE") (dec 5));
    ("MEDIA_ENT_T_DEVNODE_DVB_DVR", Add (Id "MEDIA_ENT_T_DEVNODE") (dec 6));
    ("MEDIA_ENT_T_DEVNODE_DVB_CA", Add (Id "MEDIA_ENT_T_DEVNODE") (dec 7));
    ("MEDIA_ENT_T_DEVNODE_DVB_NET", Add (Id "MEDIA_ENT_T_DEVNODE") (dec 8));
    ("MEDIA_ENT_T_DEVNODE_DVB", Id "MEDIA_ENT_T_DEVNODE_DVB_FE");
    ("MEDIA_ENT_T_V4L2_SUBDEV", Shl (dec 2) (Id "MEDIA_ENT_TYPE_SHIFT"));
    ("MEDIA_ENT_T_V4L2_SUBDEV_SENSOR", Add (Id "MEDIA_ENT_T_V4L2_SUBDEV") (dec 1));
    ("MEDIA_ENT_T_V4L2_SUBDEV_FLASH", Add (Id "MEDIA_ENT_T_V4L2_SUBDEV") (dec 2));
    ("MEDIA_ENT_T_V4L2_SUBDEV_LENS", Add (Id "MEDIA_ENT_T_V4L2_SUBDEV") (dec 3));
    ("MEDIA_ENT_T_V4L2_SUBDEV_DECODER", Add (Id "MEDIA_ENT_T_V4L2_SUBDEV") (dec 4));
    ("MEDIA_ENT_T_V4L2_SUBDEV_TUNER", Add (Id "MEDIA_ENT_T_V4L2_SUBDEV") (dec 5));
    ("MEDIA_ENT_FL_DEFAULT", Shl (dec 1) (dec 0))]].
Definition header : header :=
  Header "linux/media.h" [] (concat [
    defs_MEDIA_ENT_ID_FLAG_NEXT]).
End Media.

(** ** [linux/msm_vidc_dec.h] *)

Module Msm_vidc_dec.
Definition defs_VDEC_S_BASE : list decl := [
  Defines [
    ("VDEC_S_BASE", hex 0x40000000); ("VDEC_S_SUCCESS", Id "VDEC_S_BASE");
    ("VDEC_S_EFAIL", Add (Id "VDEC_S_BASE") (dec 1));
    ("VDEC_S_EFATAL", Add (Id "VDEC_S_BASE") (dec 2));
    ("VDEC_S_EBADPARAM", Add (Id "VDEC_S_BASE") (dec 3));
    ("VDEC_S_EINVALSTATE", Add (Id "VDEC_S_BASE") (dec 4));
    ("VDEC_S_ENOSWRES", Add (Id "VDEC_S_BASE") (dec 5));
    ("VDEC_S_ENOHWRES", Add (Id "VDEC_S_BASE") (dec 6));
    ("VDEC_S_EINVALCMD", Add (Id "VDEC_S_BASE") (dec 7));
    ("VDEC_S_ETIMEOUT", Add (Id "VDEC_S_BASE") (dec 8));
    ("VDEC_S_ENOPREREQ", Add (Id "VDEC_S_BASE") (dec 9));
    ("VDEC_S_ECMDQFULL", Add (Id "VDEC_S_BASE") (dec 10));
    ("VDEC_S_ENOTSUPP", Add (Id "VDEC_S_BASE") (dec 11));
    ("VDEC_S_ENOTIMPL", Add (Id "VDEC_S_BASE") (dec 12));
    ("VDEC_S_BUSY", Add (Id "VDEC_S_BASE") (dec 13));
    ("VDEC_S_INPUT_BITSTREAM_ERR", Add (Id "VDEC_S_BASE") (dec 14)); ("VDEC_INTF_VER", dec 1);
    ("VDEC_MSG_BASE", hex 0x0000000); ("VDEC_MSG_INVALID", Add (Id "VDEC_MSG_BASE") (dec 0));
    ("VDEC_MSG_RESP_INPUT_BUFFER_DONE", Add (Id "VDEC_MSG_BASE") (dec 1));
    ("VDEC_MSG_RESP_OUTPUT_BUFFER_DONE", Add (Id "VDEC_MSG_BASE") (dec 2));
    ("VDEC_MSG_RESP_INPUT_FLUSHED", Add (Id "VDEC_MSG_BASE") (dec 3));
    ("VDEC_MSG_RESP_OUTPUT_FLUSHED", Add (Id "VDEC_MSG_BASE") (dec 4));
    ("VDEC_MSG_RESP_FLUSH_INPUT_DONE", Add (Id "VDEC_MSG_BASE") (dec 5));
    ("VDEC_MSG_RESP_FLUSH_OUTPUT_DONE", Add (Id "VDEC_MSG_BASE") (dec 6));
    ("VDEC_MSG_RESP_START_DONE", Add (Id "VDEC_MSG_BASE") (dec 7));
    ("VDEC_MSG_RESP_STOP_DONE", Add (Id "VDEC_MSG_BASE") (dec 8));
    ("VDEC_MSG_RESP_PAUSE_DONE", Add (Id "VDEC_MSG_BASE") (dec 9));
    ("VDEC_MSG_RESP_RESUME_DONE", Add (Id "VDEC_MSG_BASE") (dec 10));
    ("VDEC_MSG_RESP_RESOURCE_LOADED", Add (Id "VDEC_MSG_BASE") (dec 11));
    ("VDEC_EVT_RESOURCES_LOST", Add (Id "VDEC_MSG_BASE") (dec 12));
    ("VDEC_MSG_EVT_CONFIG_CHANGED", Add (Id "VDEC_MSG_BASE") (dec 13));
    ("VDEC_MSG_EVT_HW_ERROR", Add (Id "VDEC_MSG_BASE") (dec 14));
    ("VDEC_MSG_EVT_INFO_CONFIG_CHANGED", Add (Id "VDEC_MSG_BASE") (dec 15));
    ("VDEC_MSG_EVT_INFO_FIELD_DROPPED", Add (Id "VDEC_MSG_BASE") (dec 16));
    ("VDEC_MSG_EVT_HW_OVERLOAD", Add (Id "VDEC_MSG_BASE") (dec 17));
    ("VDEC_MSG_EVT_MAX_CLIENTS", Add (Id "VDEC_MSG_BASE") (dec 18));
    ("VDEC_MSG_EVT_HW_UNSUPPORTED", Add (Id "VDEC_MSG_BASE") (dec 19));
    ("VDEC_BUFFERFLAG_EOS", hex 0x00000001); ("VDEC_BUFFERFLAG_DECODEONLY", hex 0x00000004);
    ("VDEC_BUFFERFLAG_DATACORRUPT", hex 0x00000008);
    ("VDEC_BUFFERFLAG_ENDOFFRAME", hex 0x00000010);
    ("VDEC_BUFFERFLAG_SYNCFRAME", hex 0x00000020); ("VDEC_BUFFERFLAG_EXTRADATA", hex 0x00000040);
    ("VDEC_BUFFERFLAG_CODECCONFIG", hex 0x00000080); ("VDEC_EXTRADATA_NONE", hex 0x001);
    ("VDEC_EXTRADATA_QP", hex 0x004); ("VDEC_EXTRADATA_MB_ERROR_MAP", hex 0x008);
    ("VDEC_EXTRADATA_SEI", hex 0x010); ("VDEC_EXTRADATA_VUI", hex 0x020);
    ("VDEC_EXTRADATA_VC1", hex 0x040); ("VDEC_EXTRADATA_EXT_DATA", hex 0x0800);
    ("VDEC_EXTRADATA_USER_DATA", hex 0x1000); ("VDEC_EXTRADATA_EXT_BUFFER", hex 0x2000);
    ("VDEC_CMDBASE", hex 0x800); ("VDEC_CMD_SET_INTF_VERSION", Id "VDEC_CMDBASE");
    ("VDEC_IOCTL_MAGIC", chr 118)]].
Definition enum_vdec_picture : list decl := [
  Enum [
    ("PICTURE_TYPE_I", None); ("PICTURE_TYPE_P", None); ("PICTURE_TYPE_B", None);
    ("PICTURE_TYPE_BI", None); ("PICTURE_TYPE_SKIP", None); ("PICTURE_TYPE_IDR", None);
    ("PICTURE_TYPE_UNKNOWN", None)]].
Definition enum_vdec_bufferflush : list decl := [
  Enum [
    ("VDEC_FLUSH_TYPE_INPUT", None); ("VDEC_FLUSH_TYPE_OUTPUT", None);
    ("VDEC_FLUSH_TYPE_ALL", None)];
  Enum [
    ("VDEC_CODECTYPE_H264", Some (hex 0x1)); ("VDEC_CODECTYPE_H263", Some (hex 0x2));
    ("VDEC_CODECTYPE_MPEG4", Some (hex 0x3)); ("VDEC_CODECTYPE_DIVX_3", Some (hex 0x4));
    ("VDEC_CODECTYPE_DIVX_4", Some (hex 0x5)); ("VDEC_CODECTYPE_DIVX_5", Some (hex 0x6));
    ("VDEC_CODECTYPE_DIVX_6", Some (hex 0x7)); ("VDEC_CODECTYPE_XVID", Some (hex 0x8));
    ("VDEC_CODECTYPE_MPEG1", Some (hex 0x9)); ("VDEC_CODECTYPE_MPEG2", Some (hex 0xa));
    ("VDEC_CODECTYPE_VC1", Some (hex 0xb)); ("VDEC_CODECTYPE_VC1_RCV", Some (hex 0xc));
    ("VDEC_CODECTYPE_HEVC", Some (hex 0xd)); ("VDEC_CODECTYPE_MVC", Some (hex 0xe));
    ("VDEC_CODECTYPE_VP8", Some (hex 0xf)); ("VDEC_CODECTYPE_VP9", Some (hex 0x10))];
  Enum [
    ("VDEC_MPEG2ProfileSimple", Some (hex 0x1)); ("VDEC_MPEG2ProfileMain", Some (hex 0x2));
    ("VDEC_MPEG2Profile422", Some (hex 0x4)); ("VDEC_MPEG2ProfileSNR", Some (hex 0x8));
    ("VDEC_MPEG2ProfileSpatial", Some (hex 0x10)); ("VDEC_MPEG2ProfileHigh", Some (hex 0x20));
    ("VDEC_MPEG2ProfileKhronosExtensions", Some (hex 0x6F000000));
    ("VDEC_MPEG2ProfileVendorStartUnused", Some (hex 0x7F000000));
    ("VDEC_MPEG2ProfileMax", Some (hex 0x7FFFFFFF))];
  Enum [
    ("VDEC_MPEG2LevelLL", Some (hex 0x1)); ("VDEC_MPEG2LevelML", Some (hex 0x2));
    ("VDEC_MPEG2LevelH14", Some (hex 0x4)); ("VDEC_MPEG2LevelHL", Some (hex 0x8));
    ("VDEC_MPEG2LevelKhronosExtensions", Some (hex 0x6F000000));
    ("VDEC_MPEG2LevelVendorStartUnused", Some (hex 0x7F000000));
    ("VDEC_MPEG2LevelMax", Some (hex 0x7FFFFFFF))];
  Enum [
    ("VDEC_MPEG4ProfileSimple", Some (hex 0x01));
    ("VDEC_MPEG4ProfileSimpleScalable", Some (hex 0x02));
    ("VDEC_MPEG4ProfileCore", Some (hex 0x04)); ("VDEC_MPEG4ProfileMain", Some (hex 0x08));
    ("VDEC_MPEG4ProfileNbit", Some (hex 0x10));
    ("VDEC_MPEG4ProfileScalableTexture", Some (hex 0x20));
    ("VDEC_MPEG4ProfileSimpleFace", Some (hex 0x40));
    ("VDEC_MPEG4ProfileSimpleFBA", Some (hex 0x80));
    ("VDEC_MPEG4ProfileBasicAnimated", Some (hex 0x100));
    ("VDEC_MPEG4ProfileHybrid", Some (hex 0x200));
    ("VDEC_MPEG4ProfileAdvancedRealTime", Some (hex 0x400));
    ("VDEC_MPEG4ProfileCoreScalable", Some (hex 0x800));
    ("VDEC_MPEG4ProfileAdvancedCoding", Some (hex 0x1000));
    ("VDEC_MPEG4ProfileAdvancedCore", Some (hex 0x2000));
    ("VDEC_MPEG4ProfileAdvancedScalable", Some (hex 0x4000));
    ("VDEC_MPEG4ProfileAdvancedSimple", Some (hex 0x8000));
    ("VDEC_MPEG4ProfileKhronosExtensions", Some (hex 0x6F000000));
    ("VDEC_MPEG4ProfileVendorStartUnused", Some (hex 0x7F000000));
    ("VDEC_MPEG4ProfileMax", Some (hex 0x7FFFFFFF))];
  Enum [
    ("VDEC_MPEG4Level0", Some (hex 0x01)); ("VDEC_MPEG4Level0b", Some (hex 0x02));
    ("VDEC_MPEG4Level1", Some (hex 0x04)); ("VDEC_MPEG4Level2", Some (hex 0x08));
    ("VDEC_MPEG4Level3", Some (hex 0x10)); ("VDEC_MPEG4Level4", Some (hex 0x20));
    ("VDEC_MPEG4Level4a", Some (hex 0x40)); ("VDEC_MPEG4Level5", Some (hex 0x80));
    ("VDEC_MPEG4LevelKhronosExtensions", Some (hex 0x6F000000));
    ("VDEC_MPEG4LevelVendorStartUnused", Some (hex 0x7F000000));
    ("VDEC_MPEG4LevelMax", Some (hex 0x7FFFFFFF))];
  Enum [
    ("VDEC_AVCProfileBaseline", Some (hex 0x01)); ("VDEC_AVCProfileMain", Some (hex 0x02));
    ("VDEC_AVCProfileExtended", Some (hex 0x04)); ("VDEC_AVCProfileHigh", Some (hex 0x08));
    ("VDEC_AVCProfileHigh10", Some (hex 0x10)); ("VDEC_AVCProfileHigh422", Some (hex 0x20));
    ("VDEC_AVCProfileHigh444", Some (hex 0x40));
    ("VDEC_AVCProfileKhronosExtensions", Some (hex 0x6F000000));
    ("VDEC_AVCProfileVendorStartUnused", Some (hex 0x7F000000));
    ("VDEC_AVCProfileMax", Some (hex 0x7FFFFFFF))];
  Enum [
    ("VDEC_AVCLevel1", Some (hex 0x01)); ("VDEC_AVCLevel1b", Some (hex 0x02));
    ("VDEC_AVCLevel11", Some (hex 0x04)); ("VDEC_AVCLevel12", Some (hex 0x08));
    ("VDEC_AVCLevel13", Some (hex 0x10)); ("VDEC_AVCLevel2", Some (hex 0x20));
    ("VDEC_AVCLevel21", Some (hex 0x40)); ("VDEC_AVCLevel22", Some (hex 0x80));
    ("VDEC_AVCLevel3", Some (hex 0x100)); ("VDEC_AVCLevel31", Some (hex 0x200));
    ("VDEC_AVCLevel32", Some (hex 0x400)); ("VDEC_AVCLevel4", Some (hex 0x800));
    ("VDEC_AVCLevel41", Some (hex 0x1000)); ("VDEC_AVCLevel42", Some (hex 0x2000));
    ("VDEC_AVCLevel5", Some (hex 0x4000)); ("VDEC_AVCLevel51", Some (hex 0x8000));
    ("VDEC_AVCLevelKhronosExtensions", Some (hex 0x6F000000));
    ("VDEC_AVCLevelVendorStartUnused", Some (hex 0x7F000000));
    ("VDEC_AVCLevelMax", Some (hex 0x7FFFFFFF))];
  Enum [
    ("VDEC_DIVXProfile_qMobile", Some (hex 0x01)); ("VDEC_DIVXProfile_Mobile", Some (hex 0x02));
    ("VDEC_DIVXProfile_HD", Some (hex 0x04)); ("VDEC_DIVXProfile_Handheld", Some (hex 0x08));
    ("VDEC_DIVXProfile_Portable", Some (hex 0x10));
    ("VDEC_DIVXProfile_HomeTheater", Some (hex 0x20))];
  Enum [
    ("VDEC_XVIDProfile_Simple", Some (hex 0x1));
    ("VDEC_XVIDProfile_Advanced_Realtime_Simple", Some (hex 0x2));
    ("VDEC_XVIDProfile_Advanced_Simple", Some (hex 0x4))];
  Enum [
    ("VDEC_XVID_LEVEL_S_L0", Some (hex 0x1)); ("VDEC_XVID_LEVEL_S_L1", Some (hex 0x2));
    ("VDEC_XVID_LEVEL_S_L2", Some (hex 0x4)); ("VDEC_XVID_LEVEL_S_L3", Some (hex 0x8));
    ("VDEC_XVID_LEVEL_ARTS_L1", Some (hex 0x10)); ("VDEC_XVID_LEVEL_ARTS_L2", Some (hex 0x20));
    ("VDEC_XVID_LEVEL_ARTS_L3", Some (hex 0x40)); ("VDEC_XVID_LEVEL_ARTS_L4", Some (hex 0x80));
    ("VDEC_XVID_LEVEL_AS_L0", Some (hex 0x100)); ("VDEC_XVID_LEVEL_AS_L1", Some (hex 0x200));
    ("VDEC_XVID_LEVEL_AS_L2", Some (hex 0x400)); ("VDEC_XVID_LEVEL_AS_L3", Some (hex 0x800));
    ("VDEC_XVID_LEVEL_AS_L4", Some (hex 0x1000))]].
Definition enum_vdec_h263profile : list decl := [
  Enum [
    ("VDEC_H263ProfileBaseline", Some (hex 0x01));
    ("VDEC_H263ProfileH320Coding", Some (hex 0x02));
    ("VDEC_H263ProfileBackwardCompatible", Some (hex 0x04));
    ("VDEC_H263ProfileISWV2", Some (hex 0x08)); ("VDEC_H263ProfileISWV3", Some (hex 0x10));
    ("VDEC_H263ProfileHighCompression", Some (hex 0x20));
    ("VDEC_H263ProfileInternet", Some (hex 0x40));
    ("VDEC_H263ProfileInterlace", Some (hex 0x80));
    ("VDEC_H263ProfileHighLatency", Some (hex 0x100));
    ("VDEC_H263ProfileKhronosExtensions", Some (hex 0x6F000000));
    ("VDEC_H263ProfileVendorStartUnused", Some (hex 0x7F000000));
    ("VDEC_H263ProfileMax", Some (hex 0x7FFFFFFF))];
  Enum [
    ("VDEC_H263Level10", Some (hex 0x01)); ("VDEC_H263Level20", Some (hex 0x02));
    ("VDEC_H263Level30", Some (hex 0x04)); ("VDEC_H263Level40", Some (hex 0x08));
    ("VDEC_H263Level45", Some (hex 0x10)); ("VDEC_H263Level50", Some (hex 0x20));
    ("VDEC_H263Level60", Some (hex 0x40)); ("VDEC_H263Level70", Some (hex 0x80));
    ("VDEC_H263LevelKhronosExtensions", Some (hex 0x6F000000));
    ("VDEC_H263LevelVendorStartUnused", Some (hex 0x7F000000));
    ("VDEC_H263LevelMax", Some (hex 0x7FFFFFFF))];
  Enum [
    ("VDEC_WMVFormatUnused", Some (hex 0x01)); ("VDEC_WMVFormat7", Some (hex 0x02));
    ("VDEC_WMVFormat8", Some (hex 0x04)); ("VDEC_WMVFormat9", Some (hex 0x08));
    ("VDEC_WMFFormatKhronosExtensions", Some (hex 0x6F000000));
    ("VDEC_WMFFormatVendorStartUnused", Some (hex 0x7F000000));
    ("VDEC_WMVFormatMax", Some (hex 0x7FFFFFFF))];
  Enum [
    ("VDEC_VC1ProfileSimple", Some (hex 0x1)); ("VDEC_VC1ProfileMain", Some (hex 0x2));
    ("VDEC_VC1ProfileAdvanced", Some (hex 0x4))];
  Enum [
    ("VDEC_VC1_LEVEL_S_Low", Some (hex 0x1)); ("VDEC_VC1_LEVEL_S_Medium", Some (hex 0x2));
    ("VDEC_VC1_LEVEL_M_Low", Some (hex 0x4)); ("VDEC_VC1_LEVEL_M_Medium", Some (hex 0x8));
    ("VDEC_VC1_LEVEL_M_High", Some (hex 0x10)); ("VDEC_VC1_LEVEL_A_L0", Some (hex 0x20));
    ("VDEC_VC1_LEVEL_A_L1", Some (hex 0x40)); ("VDEC_VC1_LEVEL_A_L2", Some (hex 0x80));
    ("VDEC_VC1_LEVEL_A_L3", Some (hex 0x100)); ("VDEC_VC1_LEVEL_A_L4", Some (hex 0x200))]].
Definition enum_vdec_interlaced_format : list decl := [
  Enum [
    ("VDEC_InterlaceFrameProgressive", Some (hex 0x1));
    ("VDEC_InterlaceInterleaveFrameTopFieldFirst", Some (hex 0x2));
    ("VDEC_InterlaceInterleaveFrameBottomFieldFirst", Some (hex 0x4))]].
Definition enum_vdec_output_fromat : list decl := [
  Enum [
    ("VDEC_YUV_FORMAT_NV12", Some (hex 0x1)); ("VDEC_YUV_FORMAT_TILE_4x2", Some (hex 0x2));
    ("VDEC_YUV_FORMAT_NV12_UBWC", Some (hex 0x3));
    ("VDEC_YUV_FORMAT_NV12_TP10_UBWC", Some (hex 0x4))]].
Definition header : header :=
  Header "linux/msm_vidc_dec.h" [] (concat [
    defs_VDEC_S_BASE; enum_vdec_picture; enum_vdec_bufferflush; enum_vdec_h263profile;
    enum_vdec_interlaced_format; enum_vdec_output_fromat]).
End Msm_vidc_dec.

(** ** [linux/msm_vidc_enc.h] *)

Module Msm_vidc_enc.
Definition defs_VEN_S_BASE : list decl := [
  Defines [
    ("VEN_S_BASE", hex 0x00000000); ("VEN_S_SUCCESS", Id "VEN_S_BASE");
    ("VEN_S_EFAIL", Add (Id "VEN_S_BASE") (dec 1));
    ("VEN_S_EFATAL", Add (Id "VEN_S_BASE") (dec 2));
    ("VEN_S_EBADPARAM", Add (Id "VEN_S_BASE") (dec 3));
    ("VEN_S_EINVALSTATE", Add (Id "VEN_S_BASE") (dec 4));
    ("VEN_S_ENOSWRES", Add (Id "VEN_S_BASE") (dec 5));
    ("VEN_S_ENOHWRES", Add (Id "VEN_S_BASE") (dec 6));
    ("VEN_S_EBUFFREQ", Add (Id "VEN_S_BASE") (dec 7));
    ("VEN_S_EINVALCMD", Add (Id "VEN_S_BASE") (dec 8));
    ("VEN_S_ETIMEOUT", Add (Id "VEN_S_BASE") (dec 9));
    ("VEN_S_ENOREATMPT", Add (Id "VEN_S_BASE") (dec 10));
    ("VEN_S_ENOPREREQ", Add (Id "VEN_S_BASE") (dec 11));
    ("VEN_S_ECMDQFULL", Add (Id "VEN_S_BASE") (dec 12));
    ("VEN_S_ENOTSUPP", Add (Id "VEN_S_BASE") (dec 13));
    ("VEN_S_ENOTIMPL", Add (Id "VEN_S_BASE") (dec 14));
    ("VEN_S_ENOTPMEM", Add (Id "VEN_S_BASE") (dec 15));
    ("VEN_S_EFLUSHED", Add (Id "VEN_S_BASE") (dec 16));
    ("VEN_S_EINSUFBUF", Add (Id "VEN_S_BASE") (dec 17));
    ("VEN_S_ESAMESTATE", Add (Id "VEN_S_BASE") (dec 18));
    ("VEN_S_EINVALTRANS", Add (Id "VEN_S_BASE") (dec 19)); ("VEN_INTF_VER", dec 1);
    ("VEN_MSG_INDICATION", dec 0); ("VEN_MSG_INPUT_BUFFER_DONE", dec 1);
    ("VEN_MSG_OUTPUT_BUFFER_DONE", dec 2); ("VEN_MSG_NEED_OUTPUT_BUFFER", dec 3);
    ("VEN_MSG_FLUSH_INPUT_DONE", dec 4); ("VEN_MSG_FLUSH_OUPUT_DONE", dec 5);
    ("VEN_MSG_START", dec 6); ("VEN_MSG_STOP", dec 7); ("VEN_MSG_PAUSE", dec 8);
    ("VEN_MSG_RESUME", dec 9); ("VEN_MSG_STOP_READING_MSG", dec 10);
    ("VEN_MSG_LTRUSE_FAILED", dec 11); ("VEN_MSG_HW_OVERLOAD", dec 12);
    ("VEN_MSG_MAX_CLIENTS", dec 13); ("VEN_BUFFLAG_EOS", hex 0x00000001);
    ("VEN_BUFFLAG_ENDOFFRAME", hex 0x00000010); ("VEN_BUFFLAG_SYNCFRAME", hex 0x00000020);
    ("VEN_BUFFLAG_EXTRADATA", hex 0x00000040); ("VEN_BUFFLAG_CODECCONFIG", hex 0x00000080);
    ("VEN_EXTRADATA_NONE", hex 0x001); ("VEN_EXTRADATA_QCOMFILLER", hex 0x002);
    ("VEN_EXTRADATA_SLICEINFO", hex 0x100); ("VEN_EXTRADATA_LTRINFO", hex 0x200);
    ("VEN_EXTRADATA_MBINFO", hex 0x400)]].
Definition defs_VEN_FRAME_TYPE_I : list decl := [
  Defines [
    ("VEN_FRAME_TYPE_I", dec 1); ("VEN_FRAME_TYPE_P", dec 2); ("VEN_FRAME_TYPE_B", dec 3);
    ("VEN_CODEC_MPEG4", dec 1); ("VEN_CODEC_H264", dec 2); ("VEN_CODEC_H263", dec 3);
    ("VEN_PROFILE_MPEG4_SP", dec 1); ("VEN_PROFILE_MPEG4_ASP", dec 2);
    ("VEN_PROFILE_H264_BASELINE", dec 3); ("VEN_PROFILE_H264_MAIN", dec 4);
    ("VEN_PROFILE_H264_HIGH", dec 5); ("VEN_PROFILE_H263_BASELINE", dec 6);
    ("VEN_LEVEL_MPEG4_0", hex 0x1); ("VEN_LEVEL_MPEG4_1", hex 0x2);
    ("VEN_LEVEL_MPEG4_2", hex 0x3); ("VEN_LEVEL_MPEG4_3", hex 0x4);
    ("VEN_LEVEL_MPEG4_4", hex 0x5); ("VEN_LEVEL_MPEG4_5", hex 0x6);
    ("VEN_LEVEL_MPEG4_3b", hex 0x7); ("VEN_LEVEL_MPEG4_6", hex 0x8);
    ("VEN_LEVEL_H264_1", hex 0x9); ("VEN_LEVEL_H264_1b", hex 0xA);
    ("VEN_LEVEL_H264_1p1", hex 0xB); ("VEN_LEVEL_H264_1p2", hex 0xC);
    ("VEN_LEVEL_H264_1p3", hex 0xD); ("VEN_LEVEL_H264_2", hex 0xE);
    ("VEN_LEVEL_H264_2p1", hex 0xF); ("VEN_LEVEL_H264_2p2", hex 0x10);
    ("VEN_LEVEL_H264_3", hex 0x11); ("VEN_LEVEL_H264_3p1", hex 0x12);
    ("VEN_LEVEL_H264_3p2", hex 0x13); ("VEN_LEVEL_H264_4", hex 0x14);
    ("VEN_LEVEL_H263_10", hex 0x15); ("VEN_LEVEL_H263_20", hex 0x16);
    ("VEN_LEVEL_H263_30", hex 0x17); ("VEN_LEVEL_H263_40", hex 0x18);
    ("VEN_LEVEL_H263_45", hex 0x19); ("VEN_LEVEL_H263_50", hex 0x1A);
    ("VEN_LEVEL_H263_60", hex 0x1B); ("VEN_LEVEL_H263_70", hex 0x1C);
    ("VEN_ENTROPY_MODEL_CAVLC", dec 1); ("VEN_ENTROPY_MODEL_CABAC", dec 2);
    ("VEN_CABAC_MODEL_0", dec 1); ("VEN_CABAC_MODEL_1", dec 2); ("VEN_CABAC_MODEL_2", dec 3);
    ("VEN_DB_DISABLE", dec 1); ("VEN_DB_ALL_BLKG_BNDRY", dec 2);
    ("VEN_DB_SKIP_SLICE_BNDRY", dec 3); ("VEN_MSLICE_OFF", dec 1); ("VEN_MSLICE_CNT_MB", dec 2);
    ("VEN_MSLICE_CNT_BYTE", dec 3); ("VEN_MSLICE_GOB", dec 4); ("VEN_RC_OFF", dec 1);
    ("VEN_RC_VBR_VFR", dec 2); ("VEN_RC_VBR_CFR", dec 3); ("VEN_RC_CBR_VFR", dec 4);
    ("VEN_RC_CBR_CFR", dec 5); ("VEN_FLUSH_INPUT", dec 1); ("VEN_FLUSH_OUTPUT", dec 2);
    ("VEN_FLUSH_ALL", dec 3); ("VEN_INPUTFMT_NV12", dec 1); ("VEN_INPUTFMT_NV21", dec 2);
    ("VEN_INPUTFMT_NV12_16M2KA", dec 3); ("VEN_ROTATION_0", dec 1); ("VEN_ROTATION_90", dec 2);
    ("VEN_ROTATION_180", dec 3); ("VEN_ROTATION_270", dec 4);
    ("VEN_TIMEOUT_INFINITE", hex 0xffffffff); ("VEN_IR_OFF", dec 1); ("VEN_IR_CYCLIC", dec 2);
    ("VEN_IR_RANDOM", dec 3); ("VEN_IOCTLBASE_NENC", hex 0x800); ("VEN_IOCTLBASE_ENC", hex 0x850)]].
Definition header : header :=
  Header "linux/msm_vidc_enc.h" [] (concat [
    defs_VEN_S_BASE; defs_VEN_FRAME_TYPE_I]).
End Msm_vidc_enc.

(** ** [linux/omap3isp.h] *)

Module Omap3isp.
Definition defs_V4L2_EVENT_OMAP3ISP_CLASS : list decl := [
  Defines [
    ("V4L2_EVENT_OMAP3ISP_CLASS", Or (Id "V4L2_EVENT_PRIVATE_START") (hex 0x100));
    ("V4L2_EVENT_OMAP3ISP_AEWB", Or (Id "V4L2_EVENT_OMAP3ISP_CLASS") (hex 0x1));
    ("V4L2_EVENT_OMAP3ISP_AF", Or (Id "V4L2_EVENT_OMAP3ISP_CLASS") (hex 0x2));
    ("V4L2_EVENT_OMAP3ISP_HIST", Or (Id "V4L2_EVENT_OMAP3ISP_CLASS") (hex 0x3))]].
Definition defs_OMAP3ISP_AEWB_MAX_SATURATION_LIM : list decl := [
  Defines [
    ("OMAP3ISP_AEWB_MAX_SATURATION_LIM", dec 1023); ("OMAP3ISP_AEWB_MIN_WIN_H", dec 2);
    ("OMAP3ISP_AEWB_MAX_WIN_H", dec 256); ("OMAP3ISP_AEWB_MIN_WIN_W", dec 6);
    ("OMAP3ISP_AEWB_MAX_WIN_W", dec 256); ("OMAP3ISP_AEWB_MIN_WINVC", dec 1);
    ("OMAP3ISP_AEWB_MIN_WINHC", dec 1); ("OMAP3ISP_AEWB_MAX_WINVC", dec 128);
    ("OMAP3ISP_AEWB_MAX_WINHC", dec 36); ("OMAP3ISP_AEWB_MAX_WINSTART", dec 4095);
    ("OMAP3ISP_AEWB_MIN_SUB_INC", dec 2); ("OMAP3ISP_AEWB_MAX_SUB_INC", dec 32);
    ("OMAP3ISP_AEWB_MAX_BUF_SIZE", dec 83600); ("OMAP3ISP_AF_IIRSH_MIN", dec 0);
    ("OMAP3ISP_AF_IIRSH_MAX", dec 4095); ("OMAP3ISP_AF_PAXEL_HORIZONTAL_COUNT_MIN", dec 1);
    ("OMAP3ISP_AF_PAXEL_HORIZONTAL_COUNT_MAX", dec 36);
    ("OMAP3ISP_AF_PAXEL_VERTICAL_COUNT_MIN", dec 1);
    ("OMAP3ISP_AF_PAXEL_VERTICAL_COUNT_MAX", dec 128);
    ("OMAP3ISP_AF_PAXEL_INCREMENT_MIN", dec 2); ("OMAP3ISP_AF_PAXEL_INCREMENT_MAX", dec 32);
    ("OMAP3ISP_AF_PAXEL_HEIGHT_MIN", dec 2); ("OMAP3ISP_AF_PAXEL_HEIGHT_MAX", dec 256);
    ("OMAP3ISP_AF_PAXEL_WIDTH_MIN", dec 16); ("OMAP3ISP_AF_PAXEL_WIDTH_MAX", dec 256);
    ("OMAP3ISP_AF_PAXEL_HZSTART_MIN", dec 1); ("OMAP3ISP_AF_PAXEL_HZSTART_MAX", dec 4095);
    ("OMAP3ISP_AF_PAXEL_VTSTART_MIN", dec 0); ("OMAP3ISP_AF_PAXEL_VTSTART_MAX", dec 4095);
    ("OMAP3ISP_AF_THRESHOLD_MAX", dec 255); ("OMAP3ISP_AF_COEF_MAX", dec 4095);
    ("OMAP3ISP_AF_PAXEL_SIZE", dec 48); ("OMAP3ISP_AF_MAX_BUF_SIZE", dec 221184)]].
Definition defs_OMAP3ISP_HIST_BINS_32 : list decl := [
  Defines [
    ("OMAP3ISP_HIST_BINS_32", dec 0); ("OMAP3ISP_HIST_BINS_64", dec 1);
    ("OMAP3ISP_HIST_BINS_128", dec 2); ("OMAP3ISP_HIST_BINS_256", dec 3)]].
Definition defs_OMAP3ISP_HIST_MEM_SIZE : list decl := [
  Defines [
    ("OMAP3ISP_HIST_MEM_SIZE", dec 1024); ("OMAP3ISP_HIST_MIN_REGIONS", dec 1);
    ("OMAP3ISP_HIST_MAX_REGIONS", dec 4); ("OMAP3ISP_HIST_MAX_WB_GAIN", dec 255);
    ("OMAP3ISP_HIST_MIN_WB_GAIN", dec 0); ("OMAP3ISP_HIST_MAX_BIT_WIDTH", dec 14);
    ("OMAP3ISP_HIST_MIN_BIT_WIDTH", dec 8); ("OMAP3ISP_HIST_MAX_WG", dec 4);
    ("OMAP3ISP_HIST_MAX_BUF_SIZE", dec 4096); ("OMAP3ISP_HIST_SOURCE_CCDC", dec 0);
    ("OMAP3ISP_HIST_SOURCE_MEM", dec 1); ("OMAP3ISP_HIST_CFA_BAYER", dec 0);
    ("OMAP3ISP_HIST_CFA_FOVEONX3", dec 1)]].
Definition enum_omap3isp_h3a_af_rgbpos : list decl := [
  Enum [
    ("OMAP3ISP_AF_GR_GB_BAYER", Some (dec 0)); ("OMAP3ISP_AF_RG_GB_BAYER", Some (dec 1));
    ("OMAP3ISP_AF_GR_BG_BAYER", Some (dec 2)); ("OMAP3ISP_AF_RG_BG_BAYER", Some (dec 3));
    ("OMAP3ISP_AF_GG_RB_CUSTOM", Some (dec 4)); ("OMAP3ISP_AF_RB_GG_CUSTOM", Some (dec 5))]].
Definition defs_OMAP3ISP_CCDC_ALAW : list decl := [
  Defines [
    ("OMAP3ISP_CCDC_ALAW", Shl (dec 1) (dec 0)); ("OMAP3ISP_CCDC_LPF", Shl (dec 1) (dec 1));
    ("OMAP3ISP_CCDC_BLCLAMP", Shl (dec 1) (dec 2)); ("OMAP3ISP_CCDC_BCOMP", Shl (dec 1) (dec 3));
    ("OMAP3ISP_CCDC_FPC", Shl (dec 1) (dec 4)); ("OMAP3ISP_CCDC_CULL", Shl (dec 1) (dec 5));
    ("OMAP3ISP_CCDC_CONFIG_LSC", Shl (dec 1) (dec 7));
    ("OMAP3ISP_CCDC_TBL_LSC", Shl (dec 1) (dec 8)); ("OMAP3ISP_RGB_MAX", dec 3)];
  Enum [
    ("OMAP3ISP_ALAW_BIT12_3", Some (hex 0x3)); ("OMAP3ISP_ALAW_BIT11_2", Some (hex 0x4));
    ("OMAP3ISP_ALAW_BIT10_1", Some (hex 0x5)); ("OMAP3ISP_ALAW_BIT9_0", Some (hex 0x6))]].
Definition defs_OMAP3ISP_PREV_LUMAENH : list decl := [
  Defines [
    ("OMAP3ISP_PREV_LUMAENH", Shl (dec 1) (dec 0));
    ("OMAP3ISP_PREV_INVALAW", Shl (dec 1) (dec 1));
    ("OMAP3ISP_PREV_HRZ_MED", Shl (dec 1) (dec 2)); ("OMAP3ISP_PREV_CFA", Shl (dec 1) (dec 3));
    ("OMAP3ISP_PREV_CHROMA_SUPP", Shl (dec 1) (dec 4));
    ("OMAP3ISP_PREV_WB", Shl (dec 1) (dec 5)); ("OMAP3ISP_PREV_BLKADJ", Shl (dec 1) (dec 6));
    ("OMAP3ISP_PREV_RGB2RGB", Shl (dec 1) (dec 7));
    ("OMAP3ISP_PREV_COLOR_CONV", Shl (dec 1) (dec 8));
    ("OMAP3ISP_PREV_YC_LIMIT", Shl (dec 1) (dec 9));
    ("OMAP3ISP_PREV_DEFECT_COR", Shl (dec 1) (dec 10));
    ("OMAP3ISP_PREV_DRK_FRM_CAPTURE", Shl (dec 1) (dec 12));
    ("OMAP3ISP_PREV_DRK_FRM_SUBTRACT", Shl (dec 1) (dec 13));
    ("OMAP3ISP_PREV_LENS_SHADING", Shl (dec 1) (dec 14));
    ("OMAP3ISP_PREV_NF", Shl (dec 1) (dec 15)); ("OMAP3ISP_PREV_GAMMA", Shl (dec 1) (dec 16));
    ("OMAP3ISP_PREV_NF_TBL_SIZE", dec 64); ("OMAP3ISP_PREV_CFA_TBL_SIZE", dec 576);
    ("OMAP3ISP_PREV_CFA_BLK_SIZE", Div (Id "OMAP3ISP_PREV_CFA_TBL_SIZE") (dec 4));
    ("OMAP3ISP_PREV_GAMMA_TBL_SIZE", dec 1024); ("OMAP3ISP_PREV_YENH_TBL_SIZE", dec 128);
    ("OMAP3ISP_PREV_DETECT_CORRECT_CHANNELS", dec 4)]].
Definition enum_omap3isp_cfa_fmt : list decl := [
  Enum [
    ("OMAP3ISP_CFAFMT_BAYER", None); ("OMAP3ISP_CFAFMT_SONYVGA", None);
    ("OMAP3ISP_CFAFMT_RGBFOVEON", None); ("OMAP3ISP_CFAFMT_DNSPL", None);
    ("OMAP3ISP_CFAFMT_HONEYCOMB", None); ("OMAP3ISP_CFAFMT_RRGGBBFOVEON", None)]].
Definition header : header :=
  Header "linux/omap3isp.h" [Videodev2.header] (concat [
    defs_V4L2_EVENT_OMAP3ISP_CLASS; defs_OMAP3ISP_AEWB_MAX_SATURATION_LIM;
    defs_OMAP3ISP_HIST_BINS_32; defs_OMAP3ISP_HIST_MEM_SIZE; enum_omap3isp_h3a_af_rgbpos;
    defs_OMAP3ISP_CCDC_ALAW; defs_OMAP3ISP_PREV_LUMAENH; enum_omap3isp_cfa_fmt]).
End Omap3isp.

(** ** [linux/uvcvideo.h] *)

Module Uvcvideo.
Definition defs_UVC_CTRL_DATA_TYPE_RAW : list decl := [
  Defines [
    ("UVC_CTRL_DATA_TYPE_RAW", dec 0); ("UVC_CTRL_DATA_TYPE_SIGNED", dec 1);
    ("UVC_CTRL_DATA_TYPE_UNSIGNED", dec 2); ("UVC_CTRL_DATA_TYPE_BOOLEAN", dec 3);
    ("UVC_CTRL_DATA_TYPE_ENUM", dec 4); ("UVC_CTRL_DATA_TYPE_BITMASK", dec 5);
    ("UVC_CTRL_FLAG_SET_CUR", Shl (dec 1) (dec 0));
    ("UVC_CTRL_FLAG_GET_CUR", Shl (dec 1) (dec 1));
    ("UVC_CTRL_FLAG_GET_MIN", Shl (dec 1) (dec 2));
    ("UVC_CTRL_FLAG_GET_MAX", Shl (dec 1) (dec 3));
    ("UVC_CTRL_FLAG_GET_RES", Shl (dec 1) (dec 4));
    ("UVC_CTRL_FLAG_GET_DEF", Shl (dec 1) (dec 5));
    ("UVC_CTRL_FLAG_RESTORE", Shl (dec 1) (dec 6));
    ("UVC_CTRL_FLAG_AUTO_UPDATE", Shl (dec 1) (dec 7));
    ("UVC_CTRL_FLAG_GET_RANGE", Or (Or (Or (Or (Id "UVC_CTRL_FLAG_GET_CUR") (Id "UVC_CTRL_FLAG_GET_MIN")) (Id "UVC_CTRL_FLAG_GET_MAX")) (Id "UVC_CTRL_FLAG_GET_RES")) (Id "UVC_CTRL_FLAG_GET_DEF"))]].
Definition header : header :=
  Header "linux/uvcvideo.h" [] (concat [
    defs_UVC_CTRL_DATA_TYPE_RAW]).
End Uvcvideo.

(** ** [linux/v4l2-common.h] *)

Module V4l2_common.
Definition defs_V4L2_SEL_TGT_CROP : list decl := [
  Defines [
    ("V4L2_SEL_TGT_CROP", hex 0x0000); ("V4L2_SEL_TGT_CROP_DEFAULT", hex 0x0001);
    ("V4L2_SEL_TGT_CROP_BOUNDS", hex 0x0002); ("V4L2_SEL_TGT_NATIVE_SIZE", hex 0x0003);
    ("V4L2_SEL_TGT_COMPOSE", hex 0x0100); ("V4L2_SEL_TGT_COMPOSE_DEFAULT", hex 0x0101);
    ("V4L2_SEL_TGT_COMPOSE_BOUNDS", hex 0x0102); ("V4L2_SEL_TGT_COMPOSE_PADDED", hex 0x0103);
    ("V4L2_SEL_TGT_CROP_ACTIVE", Id "V4L2_SEL_TGT_CROP");
    ("V4L2_SEL_TGT_COMPOSE_ACTIVE", Id "V4L2_SEL_TGT_COMPOSE");
    ("V4L2_SUBDEV_SEL_TGT_CROP_ACTUAL", Id "V4L2_SEL_TGT_CROP");
    ("V4L2_SUBDEV_SEL_TGT_COMPOSE_ACTUAL", Id "V4L2_SEL_TGT_COMPOSE");
    ("V4L2_SUBDEV_SEL_TGT_CROP_BOUNDS", Id "V4L2_SEL_TGT_CROP_BOUNDS");
    ("V4L2_SUBDEV_SEL_TGT_COMPOSE_BOUNDS", Id "V4L2_SEL_TGT_COMPOSE_BOUNDS");
    ("V4L2_SEL_FLAG_GE", Shl (dec 1) (dec 0)); ("V4L2_SEL_FLAG_LE", Shl (dec 1) (dec 1));
    ("V4L2_SEL_FLAG_KEEP_CONFIG", Shl (dec 1) (dec 2));
    ("V4L2_SUBDEV_SEL_FLAG_SIZE_GE", Id "V4L2_SEL_FLAG_GE");
    ("V4L2_SUBDEV_SEL_FLAG_SIZE_LE", Id "V4L2_SEL_FLAG_LE");
    ("V4L2_SUBDEV_SEL_FLAG_KEEP_CONFIG", Id "V4L2_SEL_FLAG_KEEP_CONFIG")]].
Definition header : header :=
  Header "linux/v4l2-common.h" [] (concat [
    defs_V4L2_SEL_TGT_CROP]).
End V4l2_common.

(** ** [linux/xilinx-v4l2-controls.h] *)

Module Xilinx_v4l2_controls.
Definition defs_V4L2_CID_XILINX_TPG : list decl := [
  Defines [
    ("V4L2_CID_XILINX_TPG", Add (Id "V4L2_CID_USER_BASE") (hex 0xc000));
    ("V4L2_CID_XILINX_TPG_CROSS_HAIRS", Add (Id "V4L2_CID_XILINX_TPG") (dec 1));
    ("V4L2_CID_XILINX_TPG_MOVING_BOX", Add (Id "V4L2_CID_XILINX_TPG") (dec 2));
    ("V4L2_CID_XILINX_TPG_COLOR_MASK", Add (Id "V4L2_CID_XILINX_TPG") (dec 3));
    ("V4L2_CID_XILINX_TPG_STUCK_PIXEL", Add (Id "V4L2_CID_XILINX_TPG") (dec 4));
    ("V4L2_CID_XILINX_TPG_NOISE", Add (Id "V4L2_CID_XILINX_TPG") (dec 5));
    ("V4L2_CID_XILINX_TPG_MOTION", Add (Id "V4L2_CID_XILINX_TPG") (dec 6));
    ("V4L2_CID_XILINX_TPG_MOTION_SPEED", Add (Id "V4L2_CID_XILINX_TPG") (dec 7));
    ("V4L2_CID_XILINX_TPG_CROSS_HAIR_ROW", Add (Id "V4L2_CID_XILINX_TPG") (dec 8));
    ("V4L2_CID_XILINX_TPG_CROSS_HAIR_COLUMN", Add (Id "V4L2_CID_XILINX_TPG") (dec 9));
    ("V4L2_CID_XILINX_TPG_ZPLATE_HOR_START", Add (Id "V4L2_CID_XILINX_TPG") (dec 10));
    ("V4L2_CID_XILINX_TPG_ZPLATE_HOR_SPEED", Add (Id "V4L2_CID_XILINX_TPG") (dec 11));
    ("V4L2_CID_XILINX_TPG_ZPLATE_VER_START", Add (Id "V4L2_CID_XILINX_TPG") (dec 12));
    ("V4L2_CID_XILINX_TPG_ZPLATE_VER_SPEED", Add (Id "V4L2_CID_XILINX_TPG") (dec 13));
    ("V4L2_CID_XILINX_TPG_BOX_SIZE", Add (Id "V4L2_CID_XILINX_TPG") (dec 14));
    ("V4L2_CID_XILINX_TPG_BOX_COLOR", Add (Id "V4L2_CID_XILINX_TPG") (dec 15));
    ("V4L2_CID_XILINX_TPG_STUCK_PIXEL_THRESH", Add (Id "V4L2_CID_XILINX_TPG") (dec 16));
    ("V4L2_CID_XILINX_TPG_NOISE_GAIN", Add (Id "V4L2_CID_XILINX_TPG") (dec 17))]].
Definition header : header :=
  Header "linux/xilinx-v4l2-controls.h" [V4l2_controls.header] (concat [
    defs_V4L2_CID_XILINX_TPG]).
End Xilinx_v4l2_controls.

(** ** [media/ais/msm_ais.h] *)

Module Media_ais_msm_ais.
Definition defs_MSM_CAMERA_SUBDEV_UNKNOWN : list decl := [
  Defines [
    ("MSM_CAMERA_SUBDEV_UNKNOWN", dec 0); ("MSM_CAMERA_SUBDEV_CSIPHY", dec 1);
    ("MSM_CAMERA_SUBDEV_CSID", dec 2); ("MSM_CAMERA_SUBDEV_ISPIF", dec 3);
    ("MSM_CAMERA_SUBDEV_VFE", dec 4); ("MSM_CAMERA_SUBDEV_AXI", dec 5);
    ("MSM_CAMERA_SUBDEV_VPE", dec 6); ("MSM_CAMERA_SUBDEV_SENSOR", dec 7);
    ("MSM_CAMERA_SUBDEV_ACTUATOR", dec 8); ("MSM_CAMERA_SUBDEV_EEPROM", dec 9);
    ("MSM_CAMERA_SUBDEV_CPP", dec 10); ("MSM_CAMERA_SUBDEV_CCI", dec 11);
    ("MSM_CAMERA_SUBDEV_LED_FLASH", dec 12); ("MSM_CAMERA_SUBDEV_STROBE_FLASH", dec 13);
    ("MSM_CAMERA_SUBDEV_BUF_MNGR", dec 14); ("MSM_CAMERA_SUBDEV_SENSOR_INIT", dec 15);
    ("MSM_CAMERA_SUBDEV_OIS", dec 16); ("MSM_CAMERA_SUBDEV_FLASH", dec 17);
    ("MSM_CAMERA_SUBDEV_IR_LED", dec 18); ("MSM_CAMERA_SUBDEV_IR_CUT", dec 19);
    ("MSM_CAMERA_SUBDEV_EXT", dec 20); ("MSM_CAMERA_SUBDEV_AIS_MNGR", dec 21);
    ("MSM_MAX_CAMERA_SENSORS", dec 5)];
  Defines [
    ("MSM_CAMERA_MAX_STREAM_BUF", dec 72); ("MSM_CAMERA_MAX_USER_BUFF_CNT", dec 16);
    ("MSM_CAMERA_FEATURE_BASE", hex 0x00010000);
    ("MSM_CAMERA_FEATURE_SHUTDOWN", Add (Id "MSM_CAMERA_FEATURE_BASE") (dec 1));
    ("MSM_CAMERA_STATUS_BASE", hex 0x00020000);
    ("MSM_CAMERA_STATUS_FAIL", Add (Id "MSM_CAMERA_STATUS_BASE") (dec 1));
    ("MSM_CAMERA_STATUS_SUCCESS", Add (Id "MSM_CAMERA_STATUS_BASE") (dec 2));
    ("MSM_CAMERA_V4L2_EVENT_TYPE", Add (Id "V4L2_EVENT_PRIVATE_START") (hex 0x00002000));
    ("MSM_CAMERA_EVENT_MIN", dec 0);
    ("MSM_CAMERA_NEW_SESSION", Add (Id "MSM_CAMERA_EVENT_MIN") (dec 1));
    ("MSM_CAMERA_DEL_SESSION", Add (Id "MSM_CAMERA_EVENT_MIN") (dec 2));
    ("MSM_CAMERA_SET_PARM", Add (Id "MSM_CAMERA_EVENT_MIN") (dec 3));
    ("MSM_CAMERA_GET_PARM", Add (Id "MSM_CAMERA_EVENT_MIN") (dec 4));
    ("MSM_CAMERA_MAPPING_CFG", Add (Id "MSM_CAMERA_EVENT_MIN") (dec 5));
    ("MSM_CAMERA_MAPPING_SES", Add (Id "MSM_CAMERA_EVENT_MIN") (dec 6));
    ("MSM_CAMERA_MSM_NOTIFY", Add (Id "MSM_CAMERA_EVENT_MIN") (dec 7));
    ("MSM_CAMERA_EVENT_MAX", Add (Id "MSM_CAMERA_EVENT_MIN") (dec 8));
    ("MSM_CAMERA_PRIV_S_CROP", Add (Id "V4L2_CID_PRIVATE_BASE") (dec 1));
    ("MSM_CAMERA_PRIV_G_CROP", Add (Id "V4L2_CID_PRIVATE_BASE") (dec 2));
    ("MSM_CAMERA_PRIV_G_FMT", Add (Id "V4L2_CID_PRIVATE_BASE") (dec 3));
    ("MSM_CAMERA_PRIV_S_FMT", Add (Id "V4L2_CID_PRIVATE_BASE") (dec 4));
    ("MSM_CAMERA_PRIV_TRY_FMT", Add (Id "V4L2_CID_PRIVATE_BASE") (dec 5));
    ("MSM_CAMERA_PRIV_METADATA", Add (Id "V4L2_CID_PRIVATE_BASE") (dec 6));
    ("MSM_CAMERA_PRIV_QUERY_CAP", Add (Id "V4L2_CID_PRIVATE_BASE") (dec 7));
    ("MSM_CAMERA_PRIV_STREAM_ON", Add (Id "V4L2_CID_PRIVATE_BASE") (dec 8));
    ("MSM_CAMERA_PRIV_STREAM_OFF", Add (Id "V4L2_CID_PRIVATE_BASE") (dec 9));
    ("MSM_CAMERA_PRIV_NEW_STREAM", Add (Id "V4L2_CID_PRIVATE_BASE") (dec 10));
    ("MSM_CAMERA_PRIV_DEL_STREAM", Add (Id "V4L2_CID_PRIVATE_BASE") (dec 11));
    ("MSM_CAMERA_PRIV_SHUTDOWN", Add (Id "V4L2_CID_PRIVATE_BASE") (dec 12));
    ("MSM_CAMERA_PRIV_STREAM_INFO_SYNC", Add (Id "V4L2_CID_PRIVATE_BASE") (dec 13));
    ("MSM_CAMERA_PRIV_G_SESSION_ID", Add (Id "V4L2_CID_PRIVATE_BASE") (dec 14));
    ("MSM_CAMERA_PRIV_CMD_MAX", dec 20); ("MSM_CAMERA_CMD_SUCCESS", hex 0x00000001);
    ("MSM_CAMERA_BUF_MAP_SUCCESS", hex 0x00000002); ("MSM_CAMERA_ERR_EVT_BASE", hex 0x00010000);
    ("MSM_CAMERA_ERR_CMD_FAIL", Add (Id "MSM_CAMERA_ERR_EVT_BASE") (dec 1));
    ("MSM_CAMERA_ERR_MAPPING", Add (Id "MSM_CAMERA_ERR_EVT_BASE") (dec 2));
    ("MSM_CAMERA_ERR_DEVICE_BUSY", Add (Id "MSM_CAMERA_ERR_EVT_BASE") (dec 3))]].
Definition enum_smmu_attach_mode : list decl := [
  Enum [
    ("NON_SECURE_MODE", Some (hex 0x01)); ("SECURE_MODE", Some (hex 0x02));
    ("MAX_PROTECTION_MODE", Some (hex 0x03))]].
Definition header : header :=
  Header "media/ais/msm_ais.h" [Videodev2.header] (concat [
    defs_MSM_CAMERA_SUBDEV_UNKNOWN; enum_smmu_attach_mode]).
End Media_ais_msm_ais.

(** ** [media/ais/msm_ais_buf_mgr.h] *)

Module Media_ais_msm_ais_buf_mgr.
Definition enum_msm_camera_buf_mngr_cmd : list decl := [
  Enum [
    ("MSM_CAMERA_BUF_MNGR_CONT_MAP", None); ("MSM_CAMERA_BUF_MNGR_CONT_UNMAP", None);
    ("MSM_CAMERA_BUF_MNGR_CONT_MAX", None)];
  Enum [
    ("MSM_CAMERA_BUF_MNGR_BUF_PLANAR", None); ("MSM_CAMERA_BUF_MNGR_BUF_USER", None);
    ("MSM_CAMERA_BUF_MNGR_BUF_INVALID", None)]].
Definition header : header :=
  Header "media/ais/msm_ais_buf_mgr.h" [] (concat [
    enum_msm_camera_buf_mngr_cmd]).
End Media_ais_msm_ais_buf_mgr.

(** ** [media/ais/msm_ais_isp.h] *)

Module Media_ais_msm_ais_isp.
Definition defs_MAX_PLANES_PER_STREAM : list decl := [
  Defines [
    ("MAX_PLANES_PER_STREAM", dec 3); ("MAX_NUM_STREAM", dec 7); ("ISP_VERSION_48", dec 48);
    ("ISP_VERSION_47", dec 47); ("ISP_VERSION_46", dec 46); ("ISP_VERSION_44", dec 44);
    ("ISP_VERSION_40", dec 40); ("ISP_VERSION_32", dec 32);
    ("ISP_NATIVE_BUF_BIT", Shl (hex 0x10000) (dec 0)); ("ISP0_BIT", Shl (hex 0x10000) (dec 1));
    ("ISP1_BIT", Shl (hex 0x10000) (dec 2)); ("ISP_META_CHANNEL_BIT", Shl (hex 0x10000) (dec 3));
    ("ISP_SCRATCH_BUF_BIT", Shl (hex 0x10000) (dec 4));
    ("ISP_OFFLINE_STATS_BIT", Shl (hex 0x10000) (dec 5));
    ("ISP_SVHDR_IN_BIT", Shl (hex 0x10000) (dec 6));
    ("ISP_SVHDR_OUT_BIT", Shl (hex 0x10000) (dec 7)); ("ISP_STATS_STREAM_BIT", hex 0x80000000)]].
Definition enum_ISP_START_PIXEL_PATTERN : list decl := [
  Enum [
    ("ISP_BAYER_RGRGRG", None); ("ISP_BAYER_GRGRGR", None); ("ISP_BAYER_BGBGBG", None);
    ("ISP_BAYER_GBGBGB", None); ("ISP_YUV_YCbYCr", None); ("ISP_YUV_YCrYCb", None);
    ("ISP_YUV_CbYCrY", None); ("ISP_YUV_CrYCbY", None); ("ISP_PIX_PATTERN_MAX", None)];
  Enum [
    ("Y_PLANE", None); ("CB_PLANE", None); ("CR_PLANE", None); ("CRCB_PLANE", None);
    ("CBCR_PLANE", None); ("RAW_PLANE", None); ("RDI_PLANE", None); ("VFE_PLANE_FMT_MAX", None)];
  Enum [
    ("VFE_PIX_0", None); ("VFE_RAW_0", None); ("VFE_RAW_1", None); ("VFE_RAW_2", None);
    ("VFE_SRC_MAX", None)];
  Enum [
    ("PIX_ENCODER", None); ("PIX_VIEWFINDER", None); ("PIX_VIDEO", None); ("ARGB_RAW", None);
    ("CAMIF_RAW", None); ("IDEAL_RAW", None); ("RDI_INTF_0", None); ("RDI_INTF_1", None);
    ("RDI_INTF_2", None); ("VFE_AXI_SRC_MAX", None)];
  Enum [
    ("NO_SKIP", None); ("EVERY_2FRAME", None); ("EVERY_3FRAME", None); ("EVERY_4FRAME", None);
    ("EVERY_5FRAME", None); ("EVERY_6FRAME", None); ("EVERY_7FRAME", None);
    ("EVERY_8FRAME", None); ("EVERY_16FRAME", None); ("EVERY_32FRAME", None); ("SKIP_ALL", None);
    ("SKIP_RANGE", None); ("MAX_SKIP", None)]].
Definition enum_msm_isp_stats_type : list decl := [
  Enum [
    ("MSM_ISP_STATS_AEC", None); ("MSM_ISP_STATS_AF", None); ("MSM_ISP_STATS_AWB", None);
    ("MSM_ISP_STATS_RS", None); ("MSM_ISP_STATS_CS", None); ("MSM_ISP_STATS_IHIST", None);
    ("MSM_ISP_STATS_SKIN", None); ("MSM_ISP_STATS_BG", None); ("MSM_ISP_STATS_BF", None);
    ("MSM_ISP_STATS_BE", None); ("MSM_ISP_STATS_BHIST", None); ("MSM_ISP_STATS_BF_SCALE", None);
    ("MSM_ISP_STATS_HDR_BE", None); ("MSM_ISP_STATS_HDR_BHIST", None);
    ("MSM_ISP_STATS_AEC_BG", None); ("MSM_ISP_STATS_MAX", None)]].
Definition enum_msm_vfe_testgen_color_pattern : list decl := [
  Enum [
    ("COLOR_BAR_8_COLOR", None); ("UNICOLOR_WHITE", None); ("UNICOLOR_YELLOW", None);
    ("UNICOLOR_CYAN", None); ("UNICOLOR_GREEN", None); ("UNICOLOR_MAGENTA", None);
    ("UNICOLOR_RED", None); ("UNICOLOR_BLUE", None); ("UNICOLOR_BLACK", None);
    ("MAX_COLOR", None)];
  Enum [
    ("CAMIF_DISABLED", None); ("CAMIF_PAD_REG_INPUT", None); ("CAMIF_MIDDI_INPUT", None);
    ("CAMIF_MIPI_INPUT", None)]].
Definition enum_msm_vfe_camif_output_format : list decl := [
  Enum [
    ("CAMIF_QCOM_RAW", None); ("CAMIF_MIPI_RAW", None); ("CAMIF_PLAIN_8", None);
    ("CAMIF_PLAIN_16", None); ("CAMIF_MAX_FORMAT", None)]].
Definition enum_msm_vfe_inputmux : list decl := [
  Enum [
    ("CAMIF", None); ("TESTGEN", None); ("EXTERNAL_READ", None)];
  Enum [
    ("STATS_COMPOSITE_GRP_NONE", None); ("STATS_COMPOSITE_GRP_1", None);
    ("STATS_COMPOSITE_GRP_2", None); ("STATS_COMPOSITE_GRP_MAX", None)];
  Enum [
    ("HVX_DISABLE", None); ("HVX_ONE_WAY", None); ("HVX_ROUND_TRIP", None)]].
Definition enum_msm_vfe_fetch_eng_pass : list decl := [
  Enum [
    ("OFFLINE_FIRST_PASS", None); ("OFFLINE_SECOND_PASS", None); ("OFFLINE_MAX_PASS", None)]].
Definition enum_msm_vfe_axi_stream_cmd : list decl := [
  Enum [
    ("STOP_STREAM", None); ("START_STREAM", None); ("STOP_IMMEDIATELY", None)];
  Enum [
    ("HW_STATE_NONE", None); ("HW_STATE_SLEEP", None); ("HW_STATE_AWAKE", None)]].
Definition enum_msm_vfe_axi_stream_update_type : list decl := [
  Enum [
    ("ENABLE_STREAM_BUF_DIVERT", None); ("DISABLE_STREAM_BUF_DIVERT", None);
    ("UPDATE_STREAM_FRAMEDROP_PATTERN", None); ("UPDATE_STREAM_STATS_FRAMEDROP_PATTERN", None);
    ("UPDATE_STREAM_AXI_CONFIG", None); ("UPDATE_STREAM_REQUEST_FRAMES", None);
    ("UPDATE_STREAM_ADD_BUFQ", None); ("UPDATE_STREAM_REMOVE_BUFQ", None);
    ("UPDATE_STREAM_SW_FRAME_DROP", None); ("UPDATE_STREAM_REQUEST_FRAMES_VER2", None);
    ("UPDATE_STREAM_OFFLINE_AXI_CONFIG", None)]].
Definition enum_msm_vfe_buff_queue_id : list decl := [
  Enum [
    ("VFE_BUF_QUEUE_DEFAULT", None); ("VFE_BUF_QUEUE_SHARED", None); ("VFE_BUF_QUEUE_MAX", None)]].
Definition enum_msm_vfe_reg_cfg_type : list decl := [
  Enum [
    ("VFE_WRITE", None); ("VFE_WRITE_MB", None); ("VFE_READ", None); ("VFE_CFG_MASK", None);
    ("VFE_WRITE_DMI_16BIT", None); ("VFE_WRITE_DMI_32BIT", None); ("VFE_WRITE_DMI_64BIT", None);
    ("VFE_READ_DMI_16BIT", None); ("VFE_READ_DMI_32BIT", None); ("VFE_READ_DMI_64BIT", None);
    ("GET_MAX_CLK_RATE", None); ("GET_CLK_RATES", None); ("GET_ISP_ID", None);
    ("VFE_HW_UPDATE_LOCK", None); ("VFE_HW_UPDATE_UNLOCK", None); ("SET_WM_UB_SIZE", None);
    ("SET_UB_POLICY", None)]].
Definition enum_vfe_sd_type : list decl := [
  Enum [
    ("VFE_SD_0", Some (dec 0)); ("VFE_SD_1", None); ("VFE_SD_COMMON", None); ("VFE_SD_MAX", None)]].
Definition enum_msm_vfe_dual_hw_type : list decl := [
  Enum [
    ("DUAL_NONE", Some (dec 0)); ("DUAL_HW_VFE_SPLIT", Some (dec 1));
    ("DUAL_HW_MASTER_SLAVE", Some (dec 2))];
  Enum [
    ("MS_TYPE_NONE", None); ("MS_TYPE_MASTER", None); ("MS_TYPE_SLAVE", None)]].
Definition enum_msm_isp_buf_type : list decl := [
  Enum [
    ("ISP_PRIVATE_BUF", None); ("ISP_SHARE_BUF", None); ("MAX_ISP_BUF_TYPE", None)]].
Definition enum_msm_isp_buffer_state : list decl := [
  Enum [
    ("MSM_ISP_BUFFER_STATE_UNUSED", None); ("MSM_ISP_BUFFER_STATE_INITIALIZED", None);
    ("MSM_ISP_BUFFER_STATE_PREPARED", None); ("MSM_ISP_BUFFER_STATE_QUEUED", None);
    ("MSM_ISP_BUFFER_STATE_DEQUEUED", None); ("MSM_ISP_BUFFER_STATE_DIVERTED", None);
    ("MSM_ISP_BUFFER_STATE_DISPATCHED", None)]].
Definition enum_msm_isp_event_mask_index : list decl := [
  Enum [
    ("ISP_EVENT_MASK_INDEX_STATS_NOTIFY", Some (dec 0));
    ("ISP_EVENT_MASK_INDEX_ERROR", Some (dec 1));
    ("ISP_EVENT_MASK_INDEX_IOMMU_P_FAULT", Some (dec 2));
    ("ISP_EVENT_MASK_INDEX_STREAM_UPDATE_DONE", Some (dec 3));
    ("ISP_EVENT_MASK_INDEX_REG_UPDATE", Some (dec 4));
    ("ISP_EVENT_MASK_INDEX_SOF", Some (dec 5));
    ("ISP_EVENT_MASK_INDEX_BUF_DIVERT", Some (dec 6));
    ("ISP_EVENT_MASK_INDEX_COMP_STATS_NOTIFY", Some (dec 7));
    ("ISP_EVENT_MASK_INDEX_MASK_FE_READ_DONE", Some (dec 8));
    ("ISP_EVENT_MASK_INDEX_BUF_DONE", Some (dec 9));
    ("ISP_EVENT_MASK_INDEX_REG_UPDATE_MISSING", Some (dec 10));
    ("ISP_EVENT_MASK_INDEX_PING_PONG_MISMATCH", Some (dec 11));
    ("ISP_EVENT_MASK_INDEX_BUF_FATAL_ERROR", Some (dec 12))];
  Defines [
    ("ISP_EVENT_SUBS_MASK_NONE", dec 0);
    ("ISP_EVENT_SUBS_MASK_STATS_NOTIFY", Shl (dec 1) (Id "ISP_EVENT_MASK_INDEX_STATS_NOTIFY"));
    ("ISP_EVENT_SUBS_MASK_ERROR", Shl (dec 1) (Id "ISP_EVENT_MASK_INDEX_ERROR"));
    ("ISP_EVENT_SUBS_MASK_IOMMU_P_FAULT", Shl (dec 1) (Id "ISP_EVENT_MASK_INDEX_IOMMU_P_FAULT"));
    ("ISP_EVENT_SUBS_MASK_STREAM_UPDATE_DONE", Shl (dec 1) (Id "ISP_EVENT_MASK_INDEX_STREAM_UPDATE_DONE"));
    ("ISP_EVENT_SUBS_MASK_REG_UPDATE", Shl (dec 1) (Id "ISP_EVENT_MASK_INDEX_REG_UPDATE"));
    ("ISP_EVENT_SUBS_MASK_SOF", Shl (dec 1) (Id "ISP_EVENT_MASK_INDEX_SOF"));
    ("ISP_EVENT_SUBS_MASK_BUF_DIVERT", Shl (dec 1) (Id "ISP_EVENT_MASK_INDEX_BUF_DIVERT"));
    ("ISP_EVENT_SUBS_MASK_COMP_STATS_NOTIFY", Shl (dec 1) (Id "ISP_EVENT_MASK_INDEX_COMP_STATS_NOTIFY"));
    ("ISP_EVENT_SUBS_MASK_FE_READ_DONE", Shl (dec 1) (Id "ISP_EVENT_MASK_INDEX_MASK_FE_READ_DONE"));
    ("ISP_EVENT_SUBS_MASK_BUF_DONE", Shl (dec 1) (Id "ISP_EVENT_MASK_INDEX_BUF_DONE"));
    ("ISP_EVENT_SUBS_MASK_REG_UPDATE_MISSING", Shl (dec 1) (Id "ISP_EVENT_MASK_INDEX_REG_UPDATE_MISSING"));
    ("ISP_EVENT_SUBS_MASK_PING_PONG_MISMATCH", Shl (dec 1) (Id "ISP_EVENT_MASK_INDEX_PING_PONG_MISMATCH"));
    ("ISP_EVENT_SUBS_MASK_BUF_FATAL_ERROR", Shl (dec 1) (Id "ISP_EVENT_MASK_INDEX_BUF_FATAL_ERROR"))];
  Enum [
    ("ISP_REG_UPDATE", Some (dec 0)); ("ISP_EPOCH_0", Some (dec 1));
    ("ISP_EPOCH_1", Some (dec 2)); ("ISP_START_ACK", Some (dec 3));
    ("ISP_STOP_ACK", Some (dec 4)); ("ISP_IRQ_VIOLATION", Some (dec 5));
    ("ISP_STATS_OVERFLOW", Some (dec 6)); ("ISP_BUF_DONE", Some (dec 7));
    ("ISP_FE_RD_DONE", Some (dec 8)); ("ISP_IOMMU_P_FAULT", Some (dec 9));
    ("ISP_ERROR", Some (dec 10)); ("ISP_HW_FATAL_ERROR", Some (dec 11));
    ("ISP_PING_PONG_MISMATCH", Some (dec 12)); ("ISP_REG_UPDATE_MISSING", Some (dec 13));
    ("ISP_BUF_FATAL_ERROR", Some (dec 14)); ("ISP_EVENT_MAX", Some (dec 15))];
  Defines [
    ("ISP_EVENT_OFFSET", dec 8); ("ISP_EVENT_BASE", Id "V4L2_EVENT_PRIVATE_START");
    ("ISP_BUF_EVENT_BASE", Add (Id "ISP_EVENT_BASE") (Shl (dec 1) (Id "ISP_EVENT_OFFSET")));
    ("ISP_STATS_EVENT_BASE", Add (Id "ISP_EVENT_BASE") (Shl (dec 2) (Id "ISP_EVENT_OFFSET")));
    ("ISP_CAMIF_EVENT_BASE", Add (Id "ISP_EVENT_BASE") (Shl (dec 3) (Id "ISP_EVENT_OFFSET")));
    ("ISP_STREAM_EVENT_BASE", Add (Id "ISP_EVENT_BASE") (Shl (dec 4) (Id "ISP_EVENT_OFFSET")));
    ("ISP_EVENT_REG_UPDATE", Add (Id "ISP_EVENT_BASE") (Id "ISP_REG_UPDATE"));
    ("ISP_EVENT_EPOCH_0", Add (Id "ISP_EVENT_BASE") (Id "ISP_EPOCH_0"));
    ("ISP_EVENT_EPOCH_1", Add (Id "ISP_EVENT_BASE") (Id "ISP_EPOCH_1"));
    ("ISP_EVENT_START_ACK", Add (Id "ISP_EVENT_BASE") (Id "ISP_START_ACK"));
    ("ISP_EVENT_STOP_ACK", Add (Id "ISP_EVENT_BASE") (Id "ISP_STOP_ACK"));
    ("ISP_EVENT_IRQ_VIOLATION", Add (Id "ISP_EVENT_BASE") (Id "ISP_IRQ_VIOLATION"));
    ("ISP_EVENT_STATS_OVERFLOW", Add (Id "ISP_EVENT_BASE") (Id "ISP_STATS_OVERFLOW"));
    ("ISP_EVENT_ERROR", Add (Id "ISP_EVENT_BASE") (Id "ISP_ERROR"));
    ("ISP_EVENT_SOF", Id "ISP_CAMIF_EVENT_BASE");
    ("ISP_EVENT_EOF", Add (Id "ISP_CAMIF_EVENT_BASE") (dec 1));
    ("ISP_EVENT_BUF_DONE", Add (Id "ISP_EVENT_BASE") (Id "ISP_BUF_DONE"));
    ("ISP_EVENT_BUF_DIVERT", Id "ISP_BUF_EVENT_BASE");
    ("ISP_EVENT_STATS_NOTIFY", Id "ISP_STATS_EVENT_BASE");
    ("ISP_EVENT_COMP_STATS_NOTIFY", Add (Id "ISP_EVENT_STATS_NOTIFY") (Id "MSM_ISP_STATS_MAX"));
    ("ISP_EVENT_FE_READ_DONE", Add (Id "ISP_EVENT_BASE") (Id "ISP_FE_RD_DONE"));
    ("ISP_EVENT_IOMMU_P_FAULT", Add (Id "ISP_EVENT_BASE") (Id "ISP_IOMMU_P_FAULT"));
    ("ISP_EVENT_HW_FATAL_ERROR", Add (Id "ISP_EVENT_BASE") (Id "ISP_HW_FATAL_ERROR"));
    ("ISP_EVENT_PING_PONG_MISMATCH", Add (Id "ISP_EVENT_BASE") (Id "ISP_PING_PONG_MISMATCH"));
    ("ISP_EVENT_REG_UPDATE_MISSING", Add (Id "ISP_EVENT_BASE") (Id "ISP_REG_UPDATE_MISSING"));
    ("ISP_EVENT_BUF_FATAL_ERROR", Add (Id "ISP_EVENT_BASE") (Id "ISP_BUF_FATAL_ERROR"));
    ("ISP_EVENT_STREAM_UPDATE_DONE", Id "ISP_STREAM_EVENT_BASE")]].
Definition enum_msm_vfe_error_type : list decl := [
  Enum [
    ("ISP_ERROR_NONE", None); ("ISP_ERROR_CAMIF", None); ("ISP_ERROR_BUS_OVERFLOW", None);
    ("ISP_ERROR_RETURN_EMPTY_BUFFER", None); ("ISP_ERROR_FRAME_ID_MISMATCH", None);
    ("ISP_ERROR_MAX", None)]].
Definition enum_msm_vfe_ahb_clk_vote : list decl := [
  Enum [
    ("MSM_ISP_CAMERA_AHB_SVS_VOTE", Some (dec 1));
    ("MSM_ISP_CAMERA_AHB_TURBO_VOTE", Some (dec 2));
    ("MSM_ISP_CAMERA_AHB_NOMINAL_VOTE", Some (dec 3));
    ("MSM_ISP_CAMERA_AHB_SUSPEND_VOTE", Some (dec 4))]].
Definition enum_msm_vfe_pixel_data_size : list decl := [
  Enum [
    ("VFE_PIXEL_DATA_SIZE_8BIT", None); ("VFE_PIXEL_DATA_SIZE_10BIT", None);
    ("VFE_PIXEL_DATA_SIZE_12BIT", None); ("VFE_PIXEL_DATA_SIZE_14BIT", None)]].
Definition enum_msm_isp_ioctl_cmd_code : list decl := [
  Enum [
    ("MSM_VFE_REG_CFG", Some (Id "BASE_VIDIOC_PRIVATE")); ("MSM_ISP_REQUEST_BUFQ", None);
    ("MSM_ISP_RELEASE_BUFQ", None); ("MSM_ISP_ENQUEUE_BUF", None); ("MSM_ISP_DEQUEUE_BUF", None);
    ("MSM_ISP_REQUEST_STREAM", None); ("MSM_ISP_CFG_STREAM", None);
    ("MSM_ISP_RELEASE_STREAM", None); ("MSM_ISP_INPUT_CFG", None);
    ("MSM_ISP_SET_SRC_STATE", None); ("MSM_ISP_REQUEST_STATS_STREAM", None);
    ("MSM_ISP_CFG_STATS_STREAM", None); ("MSM_ISP_RELEASE_STATS_STREAM", None);
    ("MSM_ISP_REG_UPDATE_CMD", None); ("MSM_ISP_UPDATE_STREAM", None);
    ("MSM_VFE_REG_LIST_CFG", None); ("MSM_ISP_UPDATE_STATS_STREAM", None);
    ("MSM_ISP_AXI_HALT", None); ("MSM_ISP_AXI_RESET", None); ("MSM_ISP_AXI_RESTART", None);
    ("MSM_ISP_FETCH_ENG_START", None); ("MSM_ISP_SET_DUAL_HW_MASTER_SLAVE", None);
    ("MSM_ISP_MAP_BUF_START_FE", None); ("MSM_ISP_FETCH_ENG_MULTI_PASS_START", None);
    ("MSM_ISP_MAP_BUF_START_MULTI_PASS_FE", None); ("MSM_ISP_CFG_HW_STATE", None);
    ("MSM_ISP_SMMU_ATTACH", None); ("MSM_ISP_UNMAP_BUF", None); ("MSM_ISP_OPERATION_CFG", None);
    ("MSM_ISP_CAMIF_CFG", None); ("MSM_ISP_AXI_OUTPUT_CFG", None); ("MSM_ISP_START", None);
    ("MSM_ISP_STOP", None); ("MSM_ISP_SET_CLK_STATUS", None); ("MSM_ISP_CMD_EXT", None);
    ("MSM_ISP_FRAMEDROP_UPDATE", None)]].
Definition header : header :=
  Header "media/ais/msm_ais_isp.h" [Videodev2.header] (concat [
    defs_MAX_PLANES_PER_STREAM; enum_ISP_START_PIXEL_PATTERN; enum_msm_isp_stats_type;
    enum_msm_vfe_testgen_color_pattern; enum_msm_vfe_camif_output_format; enum_msm_vfe_inputmux;
    enum_msm_vfe_fetch_eng_pass; enum_msm_vfe_axi_stream_cmd;
    enum_msm_vfe_axi_stream_update_type; enum_msm_vfe_buff_queue_id; enum_msm_vfe_reg_cfg_type;
    enum_vfe_sd_type; enum_msm_vfe_dual_hw_type; enum_msm_isp_buf_type;
    enum_msm_isp_buffer_state; enum_msm_isp_event_mask_index; enum_msm_vfe_error_type;
    enum_msm_vfe_ahb_clk_vote; enum_msm_vfe_pixel_data_size; enum_msm_isp_ioctl_cmd_code]).
End Media_ais_msm_ais_isp.

(** ** [media/ais/msm_ais_ispif.h] *)

Module Media_ais_msm_ais_ispif.
Definition defs_CSID_VERSION_V20 : list decl := [
  Defines [
    ("CSID_VERSION_V20", hex 0x02000011); ("CSID_VERSION_V22", hex 0x02001000);
    ("CSID_VERSION_V30", hex 0x30000000); ("CSID_VERSION_V3", hex 0x30000000);
    ("CSID_VERSION_V35", hex 0x30050000)];
  Enum [
    ("VFE0", None); ("VFE1", None); ("VFE_MAX", None)];
  Defines [
    ("VFE0_MASK", Shl (dec 1) (Id "VFE0")); ("VFE1_MASK", Shl (dec 1) (Id "VFE1"))];
  Enum [
    ("PIX0", None); ("RDI0", None); ("PIX1", None); ("RDI1", None); ("RDI2", None);
    ("INTF_MAX", None)];
  Defines [
    ("MAX_PARAM_ENTRIES", Mul (Id "INTF_MAX") (dec 2)); ("MAX_CID_CH", dec 8);
    ("MAX_CID_CH_v2", dec 4); ("PIX0_MASK", Shl (dec 1) (Id "PIX0"));
    ("PIX1_MASK", Shl (dec 1) (Id "PIX1")); ("RDI0_MASK", Shl (dec 1) (Id "RDI0"));
    ("RDI1_MASK", Shl (dec 1) (Id "RDI1")); ("RDI2_MASK", Shl (dec 1) (Id "RDI2"))];
  Enum [
    ("VC0", None); ("VC1", None); ("VC2", None); ("VC3", None); ("VC_MAX", None)];
  Enum [
    ("CID0", None); ("CID1", None); ("CID2", None); ("CID3", None); ("CID4", None);
    ("CID5", None); ("CID6", None); ("CID7", None); ("CID8", None); ("CID9", None);
    ("CID10", None); ("CID11", None); ("CID12", None); ("CID13", None); ("CID14", None);
    ("CID15", None); ("CID_MAX", None)];
  Enum [
    ("CSID0", None); ("CSID1", None); ("CSID2", None); ("CSID3", None); ("CSID_MAX", None)]].
Definition enum_msm_ispif_pixel_pack_mode : list decl := [
  Enum [
    ("PACK_BYTE", None); ("PACK_PLAIN_PACK", None); ("PACK_NV_P8", None); ("PACK_NV_P16", None)]].
Definition enum_ispif_cfg_type_t : list decl := [
  Enum [
    ("ISPIF_CLK_ENABLE", None); ("ISPIF_CLK_DISABLE", None); ("ISPIF_INIT", None);
    ("ISPIF_RELEASE", None); ("ISPIF_RESET", None); ("ISPIF_CFG", None);
    ("ISPIF_START_FRAME_BOUNDARY", None); ("ISPIF_RESTART_FRAME_BOUNDARY", None);
    ("ISPIF_STOP_FRAME_BOUNDARY", None); ("ISPIF_STOP", None); ("ISPIF_ENABLE_REG_DUMP", None);
    ("ISPIF_SET_VFE_INFO", None); ("ISPIF_CFG2", None); ("ISPIF_READ_REG_LIST_CMD", None);
    ("ISPIF_WRITE_REG_LIST_CMD", None)]].
Definition header : header :=
  Header "media/ais/msm_ais_ispif.h" [] (concat [
    defs_CSID_VERSION_V20; enum_msm_ispif_pixel_pack_mode; enum_ispif_cfg_type_t]).
End Media_ais_msm_ais_ispif.

(** ** [media/ais/msm_ais_mgr.h] *)

Module Media_ais_msm_ais_mgr.
Definition enum_cam_ahb_clk_vote : list decl := [
  Enum [
    ("CAM_AHB_SUSPEND_VOTE", Some (hex 0x0)); ("CAM_AHB_SVS_VOTE", Some (hex 0x01));
    ("CAM_AHB_NOMINAL_VOTE", Some (hex 0x02)); ("CAM_AHB_TURBO_VOTE", Some (hex 0x03));
    ("CAM_AHB_DYNAMIC_VOTE", Some (hex 0xFF))];
  Enum [
    ("AIS_CLK_ENABLE", None); ("AIS_CLK_DISABLE", None); ("AIS_CLK_ENABLE_ALLCLK", None);
    ("AIS_CLK_DISABLE_ALLCLK", None)];
  Enum [
    ("AIS_DIAG_GET_REGULATOR_INFO_LIST", None); ("AIS_DIAG_GET_BUS_INFO_STATE", None);
    ("AIS_DIAG_GET_CLK_INFO_LIST", None); ("AIS_DIAG_GET_GPIO_LIST", None);
    ("AIS_DIAG_SET_GPIO_LIST", None)]].
Definition header : header :=
  Header "media/ais/msm_ais_mgr.h" [] (concat [
    enum_cam_ahb_clk_vote]).
End Media_ais_msm_ais_mgr.

(** ** [media/ais/msm_ais_sensor.h] *)

Module Media_ais_msm_ais_sensor.
Definition defs_I2C_SEQ_REG_SETTING_MAX : list decl := [
  Defines [
    ("I2C_SEQ_REG_SETTING_MAX", dec 5); ("MSM_SENSOR_MCLK_8HZ", dec 8000000);
    ("MSM_SENSOR_MCLK_16HZ", dec 16000000); ("MSM_SENSOR_MCLK_24HZ", dec 24000000);
    ("MAX_SENSOR_NAME", dec 32); ("MAX_ACTUATOR_AF_TOTAL_STEPS", dec 1024);
    ("MAX_OIS_MOD_NAME_SIZE", dec 32); ("MAX_OIS_NAME_SIZE", dec 32);
    ("MAX_OIS_REG_SETTINGS", dec 800); ("MOVE_NEAR", dec 0); ("MOVE_FAR", dec 1);
    ("MSM_ACTUATOR_MOVE_SIGNED_FAR", Neg (dec 1)); ("MSM_ACTUATOR_MOVE_SIGNED_NEAR", dec 1);
    ("MAX_ACTUATOR_REGION", dec 5); ("MAX_EEPROM_NAME", dec 32); ("MAX_AF_ITERATIONS", dec 3);
    ("MAX_NUMBER_OF_STEPS", dec 47); ("MAX_REGULATOR", dec 5)]].
Definition enum_flash_type : list decl := [
  Enum [
    ("LED_FLASH", Some (dec 1)); ("STROBE_FLASH", None); ("GPIO_FLASH", None)];
  Enum [
    ("MSM_SENSOR_RES_FULL", None); ("MSM_SENSOR_RES_QTR", None); ("MSM_SENSOR_RES_2", None);
    ("MSM_SENSOR_RES_3", None); ("MSM_SENSOR_RES_4", None); ("MSM_SENSOR_RES_5", None);
    ("MSM_SENSOR_RES_6", None); ("MSM_SENSOR_RES_7", None); ("MSM_SENSOR_INVALID_RES", None)];
  Enum [
    ("MSM_CAMERA_STREAM_PREVIEW", None); ("MSM_CAMERA_STREAM_SNAPSHOT", None);
    ("MSM_CAMERA_STREAM_VIDEO", None); ("MSM_CAMERA_STREAM_INVALID", None)];
  Enum [
    ("SUB_MODULE_SENSOR", None); ("SUB_MODULE_CHROMATIX", None); ("SUB_MODULE_ACTUATOR", None);
    ("SUB_MODULE_EEPROM", None); ("SUB_MODULE_LED_FLASH", None);
    ("SUB_MODULE_STROBE_FLASH", None); ("SUB_MODULE_CSID", None); ("SUB_MODULE_CSID_3D", None);
    ("SUB_MODULE_CSIPHY", None); ("SUB_MODULE_CSIPHY_3D", None); ("SUB_MODULE_OIS", None);
    ("SUB_MODULE_EXT", None); ("SUB_MODULE_IR_LED", None); ("SUB_MODULE_IR_CUT", None);
    ("SUB_MODULE_MAX", None)];
  Enum [
    ("MSM_CAMERA_EFFECT_MODE_OFF", None); ("MSM_CAMERA_EFFECT_MODE_MONO", None);
    ("MSM_CAMERA_EFFECT_MODE_NEGATIVE", None); ("MSM_CAMERA_EFFECT_MODE_SOLARIZE", None);
    ("MSM_CAMERA_EFFECT_MODE_SEPIA", None); ("MSM_CAMERA_EFFECT_MODE_POSTERIZE", None);
    ("MSM_CAMERA_EFFECT_MODE_WHITEBOARD", None); ("MSM_CAMERA_EFFECT_MODE_BLACKBOARD", None);
    ("MSM_CAMERA_EFFECT_MODE_AQUA", None); ("MSM_CAMERA_EFFECT_MODE_EMBOSS", None);
    ("MSM_CAMERA_EFFECT_MODE_SKETCH", None); ("MSM_CAMERA_EFFECT_MODE_NEON", None);
    ("MSM_CAMERA_EFFECT_MODE_MAX", None)];
  Enum [
    ("MSM_CAMERA_WB_MODE_AUTO", None); ("MSM_CAMERA_WB_MODE_CUSTOM", None);
    ("MSM_CAMERA_WB_MODE_INCANDESCENT", None); ("MSM_CAMERA_WB_MODE_FLUORESCENT", None);
    ("MSM_CAMERA_WB_MODE_WARM_FLUORESCENT", None); ("MSM_CAMERA_WB_MODE_DAYLIGHT", None);
    ("MSM_CAMERA_WB_MODE_CLOUDY_DAYLIGHT", None); ("MSM_CAMERA_WB_MODE_TWILIGHT", None);
    ("MSM_CAMERA_WB_MODE_SHADE", None); ("MSM_CAMERA_WB_MODE_OFF", None);
    ("MSM_CAMERA_WB_MODE_MAX", None)];
  Enum [
    ("MSM_CAMERA_SCENE_MODE_OFF", None); ("MSM_CAMERA_SCENE_MODE_AUTO", None);
    ("MSM_CAMERA_SCENE_MODE_LANDSCAPE", None); ("MSM_CAMERA_SCENE_MODE_SNOW", None);
    ("MSM_CAMERA_SCENE_MODE_BEACH", None); ("MSM_CAMERA_SCENE_MODE_SUNSET", None);
    ("MSM_CAMERA_SCENE_MODE_NIGHT", None); ("MSM_CAMERA_SCENE_MODE_PORTRAIT", None);
    ("MSM_CAMERA_SCENE_MODE_BACKLIGHT", None); ("MSM_CAMERA_SCENE_MODE_SPORTS", None);
    ("MSM_CAMERA_SCENE_MODE_ANTISHAKE", None); ("MSM_CAMERA_SCENE_MODE_FLOWERS", None);
    ("MSM_CAMERA_SCENE_MODE_CANDLELIGHT", None); ("MSM_CAMERA_SCENE_MODE_FIREWORKS", None);
    ("MSM_CAMERA_SCENE_MODE_PARTY", None); ("MSM_CAMERA_SCENE_MODE_NIGHT_PORTRAIT", None);
    ("MSM_CAMERA_SCENE_MODE_THEATRE", None); ("MSM_CAMERA_SCENE_MODE_ACTION", None);
    ("MSM_CAMERA_SCENE_MODE_AR", None); ("MSM_CAMERA_SCENE_MODE_FACE_PRIORITY", None);
    ("MSM_CAMERA_SCENE_MODE_BARCODE", None); ("MSM_CAMERA_SCENE_MODE_HDR", None);
    ("MSM_CAMERA_SCENE_MODE_MAX", None)];
  Enum [
    ("CSID_INIT", None); ("CSID_CFG", None); ("CSID_UPDATE_CFG", None);
    ("CSID_TESTMODE_CFG", None); ("CSID_START", None); ("CSID_STOP", None);
    ("CSID_RELEASE", None); ("CSID_READ_REG_LIST_CMD", None); ("CSID_WRITE_REG_LIST_CMD", None)];
  Enum [
    ("CSIPHY_INIT", None); ("CSIPHY_CFG", None); ("CSIPHY_START", None); ("CSIPHY_STOP", None);
    ("CSIPHY_RELEASE", None); ("CSIPHY_READ_REG_LIST_CMD", None);
    ("CSIPHY_WRITE_REG_LIST_CMD", None)]].
Definition enum_cci_i2c_master_t : list decl := [
  Enum [
    ("MASTER_0", None); ("MASTER_1", None); ("MASTER_MAX", None)]].
Definition enum_eeprom_cfg_type_t : list decl := [
  Enum [
    ("CFG_EEPROM_GET_INFO", None); ("CFG_EEPROM_GET_CAL_DATA", None);
    ("CFG_EEPROM_READ_CAL_DATA", None); ("CFG_EEPROM_WRITE_DATA", None);
    ("CFG_EEPROM_GET_MM_INFO", None); ("CFG_EEPROM_INIT", None)]].
Definition enum_msm_sensor_cfg_type_t : list decl := [
  Enum [
    ("CFG_SET_SLAVE_INFO", None); ("CFG_SLAVE_READ_I2C", None); ("CFG_WRITE_I2C_ARRAY", None);
    ("CFG_SLAVE_WRITE_I2C_ARRAY", None); ("CFG_WRITE_I2C_SEQ_ARRAY", None);
    ("CFG_POWER_UP", None); ("CFG_POWER_DOWN", None); ("CFG_SET_STOP_STREAM_SETTING", None);
    ("CFG_GET_SENSOR_INFO", None); ("CFG_GET_SENSOR_INIT_PARAMS", None);
    ("CFG_SET_INIT_SETTING", None); ("CFG_SET_RESOLUTION", None); ("CFG_SET_STOP_STREAM", None);
    ("CFG_SET_START_STREAM", None); ("CFG_SET_SATURATION", None); ("CFG_SET_CONTRAST", None);
    ("CFG_SET_SHARPNESS", None); ("CFG_SET_ISO", None); ("CFG_SET_EXPOSURE_COMPENSATION", None);
    ("CFG_SET_ANTIBANDING", None); ("CFG_SET_BESTSHOT_MODE", None); ("CFG_SET_EFFECT", None);
    ("CFG_SET_WHITE_BALANCE", None); ("CFG_SET_AUTOFOCUS", None); ("CFG_CANCEL_AUTOFOCUS", None);
    ("CFG_SET_STREAM_TYPE", None); ("CFG_SET_I2C_SYNC_PARAM", None);
    ("CFG_WRITE_I2C_ARRAY_ASYNC", None); ("CFG_WRITE_I2C_ARRAY_SYNC", None);
    ("CFG_WRITE_I2C_ARRAY_SYNC_BLOCK", None); ("CFG_CCI_POWER_UP", None);
    ("CFG_CCI_POWER_DOWN", None)]].
Definition enum_msm_actuator_cfg_type_t : list decl := [
  Enum [
    ("CFG_GET_ACTUATOR_INFO", None); ("CFG_SET_ACTUATOR_INFO", None);
    ("CFG_SET_DEFAULT_FOCUS", None); ("CFG_MOVE_FOCUS", None); ("CFG_SET_POSITION", None);
    ("CFG_ACTUATOR_POWERDOWN", None); ("CFG_ACTUATOR_POWERUP", None); ("CFG_ACTUATOR_INIT", None)]].
Definition enum_msm_ois_cfg_type_t : list decl := [
  Enum [
    ("CFG_OIS_INIT", None); ("CFG_OIS_POWERDOWN", None); ("CFG_OIS_POWERUP", None);
    ("CFG_OIS_CONTROL", None); ("CFG_OIS_I2C_WRITE_SEQ_TABLE", None)]].
Definition enum_af_camera_name : list decl := [
  Enum [
    ("ACTUATOR_MAIN_CAM_0", None); ("ACTUATOR_MAIN_CAM_1", None); ("ACTUATOR_MAIN_CAM_2", None);
    ("ACTUATOR_MAIN_CAM_3", None); ("ACTUATOR_MAIN_CAM_4", None); ("ACTUATOR_MAIN_CAM_5", None);
    ("ACTUATOR_WEB_CAM_0", None); ("ACTUATOR_WEB_CAM_1", None); ("ACTUATOR_WEB_CAM_2", None)]].
Definition enum_msm_camera_led_config_t : list decl := [
  Enum [
    ("MSM_CAMERA_LED_OFF", None); ("MSM_CAMERA_LED_LOW", None); ("MSM_CAMERA_LED_HIGH", None);
    ("MSM_CAMERA_LED_INIT", None); ("MSM_CAMERA_LED_RELEASE", None)]].
Definition enum_msm_sensor_init_cfg_type_t : list decl := [
  Enum [
    ("CFG_SINIT_PROBE", None); ("CFG_SINIT_PROBE_DONE", None);
    ("CFG_SINIT_PROBE_WAIT_DONE", None)]].
Definition header : header :=
  Header "media/ais/msm_ais_sensor.h" [] (concat [
    defs_I2C_SEQ_REG_SETTING_MAX; enum_flash_type; enum_cci_i2c_master_t; enum_eeprom_cfg_type_t;
    enum_msm_sensor_cfg_type_t; enum_msm_actuator_cfg_type_t; enum_msm_ois_cfg_type_t;
    enum_af_camera_name; enum_msm_camera_led_config_t; enum_msm_sensor_init_cfg_type_t]).
End Media_ais_msm_ais_sensor.

(** ** [media/ais/msm_ais_sensor_sdk.h] *)

Module Media_ais_msm_ais_sensor_sdk.
Definition defs_KVERSION : list decl := [
  Defines [
    ("KVERSION", hex 0x1); ("MAX_POWER_CONFIG", dec 12); ("GPIO_OUT_LOW", Shl (dec 0) (dec 1));
    ("GPIO_OUT_HIGH", Shl (dec 1) (dec 1)); ("CSI_EMBED_DATA", hex 0x12);
    ("CSI_RESERVED_DATA_0", hex 0x13); ("CSI_YUV422_8", hex 0x1E); ("CSI_RAW8", hex 0x2A);
    ("CSI_RAW10", hex 0x2B); ("CSI_RAW12", hex 0x2C); ("CSI_DECODE_6BIT", dec 0);
    ("CSI_DECODE_8BIT", dec 1); ("CSI_DECODE_10BIT", dec 2); ("CSI_DECODE_12BIT", dec 3);
    ("CSI_DECODE_DPCM_10_6_10", dec 4); ("CSI_DECODE_DPCM_10_8_10", dec 5); ("MAX_CID", dec 16);
    ("I2C_SEQ_REG_DATA_MAX", dec 1024); ("I2C_REG_DATA_MAX", Mul (dec 8) (dec 1024))]].
Definition defs_MAX_ACTUATOR_REG_TBL_SIZE : list decl := [
  Defines [
    ("MAX_ACTUATOR_REG_TBL_SIZE", dec 8); ("MAX_ACTUATOR_REGION", dec 5);
    ("NUM_ACTUATOR_DIR", dec 2); ("MAX_ACTUATOR_SCENARIO", dec 8);
    ("MAX_ACT_MOD_NAME_SIZE", dec 32); ("MAX_ACT_NAME_SIZE", dec 32);
    ("MAX_ACTUATOR_INIT_SET", dec 120); ("MAX_I2C_REG_SET", dec 12); ("MAX_LED_TRIGGERS", dec 3);
    ("MSM_EEPROM_MEMORY_MAP_MAX_SIZE", dec 80); ("MSM_EEPROM_MAX_MEM_MAP_CNT", dec 8)];
  Enum [
    ("CAMERA_0", None); ("CAMERA_1", None); ("CAMERA_2", None); ("CAMERA_3", None);
    ("MAX_CAMERAS", None)];
  Enum [
    ("I2C_STANDARD_MODE", None); ("I2C_FAST_MODE", None); ("I2C_CUSTOM_MODE", None);
    ("I2C_FAST_PLUS_MODE", None); ("I2C_MAX_MODES", None)];
  Enum [
    ("BACK_CAMERA_B", None); ("FRONT_CAMERA_B", None); ("AUX_CAMERA_B", Some (hex 0x100));
    ("INVALID_CAMERA_B", None)];
  Enum [
    ("SENSOR_CLK", None); ("SENSOR_GPIO", None); ("SENSOR_VREG", None); ("SENSOR_I2C_MUX", None);
    ("SENSOR_I2C", None)];
  Enum [
    ("MSM_CAMERA_I2C_BYTE_ADDR", Some (dec 1)); ("MSM_CAMERA_I2C_WORD_ADDR", None);
    ("MSM_CAMERA_I2C_3B_ADDR", None); ("MSM_CAMERA_I2C_ADDR_TYPE_MAX", None)];
  Enum [
    ("MSM_CAMERA_I2C_BYTE_DATA", Some (dec 1)); ("MSM_CAMERA_I2C_WORD_DATA", None);
    ("MSM_CAMERA_I2C_DWORD_DATA", None); ("MSM_CAMERA_I2C_SET_BYTE_MASK", None);
    ("MSM_CAMERA_I2C_UNSET_BYTE_MASK", None); ("MSM_CAMERA_I2C_SET_WORD_MASK", None);
    ("MSM_CAMERA_I2C_UNSET_WORD_MASK", None); ("MSM_CAMERA_I2C_SET_BYTE_WRITE_MASK_DATA", None);
    ("MSM_CAMERA_I2C_DATA_TYPE_MAX", None)];
  Enum [
    ("SENSOR_GPIO_RESET", None); ("SENSOR_GPIO_STANDBY", None); ("SENSOR_GPIO_AF_PWDM", None);
    ("SENSOR_GPIO_VIO", None); ("SENSOR_GPIO_VANA", None); ("SENSOR_GPIO_VDIG", None);
    ("SENSOR_GPIO_VAF", None); ("SENSOR_GPIO_FL_EN", None); ("SENSOR_GPIO_FL_NOW", None);
    ("SENSOR_GPIO_FL_RESET", None); ("SENSOR_GPIO_CUSTOM1", None); ("SENSOR_GPIO_CUSTOM2", None);
    ("SENSOR_GPIO_MAX", None)];
  Enum [
    ("IR_CUT_FILTER_GPIO_P", Some (dec 0)); ("IR_CUT_FILTER_GPIO_M", None);
    ("IR_CUT_FILTER_GPIO_MAX", None)]].
Definition defs_R_CUT_FILTER_GPIO_MAX : list decl := [
  Defines [
    ("R_CUT_FILTER_GPIO_MAX", Id "IR_CUT_FILTER_GPIO_MAX")];
  Enum [
    ("CAM_VDIG", None); ("CAM_VIO", None); ("CAM_VANA", None); ("CAM_VAF", None);
    ("CAM_V_CUSTOM1", None); ("CAM_V_CUSTOM2", None); ("CAM_VREG_MAX", None)];
  Enum [
    ("SENSOR_CAM_MCLK", None); ("SENSOR_CAM_CLK", None); ("SENSOR_CAM_CLK_MAX", None)];
  Enum [
    ("CAMERA_MODE_2D_B", Some (Shl (dec 1) (dec 0)));
    ("CAMERA_MODE_3D_B", Some (Shl (dec 1) (dec 1)));
    ("CAMERA_MODE_INVALID", Some (Shl (dec 1) (dec 2)))]].
Definition enum_msm_actuator_write_type : list decl := [
  Enum [
    ("MSM_ACTUATOR_WRITE_HW_DAMP", None); ("MSM_ACTUATOR_WRITE_DAC", None);
    ("MSM_ACTUATOR_WRITE", None); ("MSM_ACTUATOR_WRITE_DIR_REG", None);
    ("MSM_ACTUATOR_POLL", None); ("MSM_ACTUATOR_READ_WRITE", None)]].
Definition enum_actuator_type : list decl := [
  Enum [
    ("ACTUATOR_VCM", None); ("ACTUATOR_PIEZO", None); ("ACTUATOR_HVCM", None);
    ("ACTUATOR_BIVCM", None)];
  Enum [
    ("FLASH_DRIVER_PMIC", None); ("FLASH_DRIVER_I2C", None); ("FLASH_DRIVER_GPIO", None);
    ("FLASH_DRIVER_DEFAULT", None)];
  Enum [
    ("CFG_FLASH_INIT", None); ("CFG_FLASH_RELEASE", None); ("CFG_FLASH_OFF", None);
    ("CFG_FLASH_LOW", None); ("CFG_FLASH_HIGH", None)];
  Enum [
    ("CFG_IR_LED_INIT", Some (dec 0)); ("CFG_IR_LED_RELEASE", None); ("CFG_IR_LED_OFF", None);
    ("CFG_IR_LED_ON", None)]].
Definition enum_msm_ir_cut_cfg_type_t : list decl := [
  Enum [
    ("CFG_IR_CUT_INIT", Some (dec 0)); ("CFG_IR_CUT_RELEASE", None); ("CFG_IR_CUT_OFF", None);
    ("CFG_IR_CUT_ON", None)]].
Definition enum_msm_sensor_output_format_t : list decl := [
  Enum [
    ("MSM_SENSOR_BAYER", None); ("MSM_SENSOR_YCBCR", None); ("MSM_SENSOR_META", None)]].
Definition enum_msm_camera_i2c_operation : list decl := [
  Enum [
    ("MSM_CAM_WRITE", Some (dec 0)); ("MSM_CAM_POLL", None); ("MSM_CAM_READ", None)]].
Definition header : header :=
  Header "media/ais/msm_ais_sensor_sdk.h" [] (concat [
    defs_KVERSION; defs_MAX_ACTUATOR_REG_TBL_SIZE; defs_R_CUT_FILTER_GPIO_MAX;
    enum_msm_actuator_write_type; enum_actuator_type; enum_msm_ir_cut_cfg_type_t;
    enum_msm_sensor_output_format_t; enum_msm_camera_i2c_operation]).
End Media_ais_msm_ais_sensor_sdk.

(** ** [media/msm_ba.h] *)

Module Media_msm_ba.
Definition enum_picture_aspect_ratio : list decl := [
  Enum [
    ("PICTURE_ASPECT_RATIO_NONE", None); ("PICTURE_ASPECT_RATIO_4_3", None);
    ("PICTURE_ASPECT_RATIO_16_9", None); ("PICTURE_ASPECT_RATIO_64_27", None);
    ("PICTURE_ASPECT_RATIO_256_135", None); ("PICTURE_ASPECT_RATIO_RESERVED", None)];
  Enum [
    ("ACTIVE_ASPECT_RATIO_16_9_TOP", Some (dec 2));
    ("ACTIVE_ASPECT_RATIO_14_9_TOP", Some (dec 3));
    ("ACTIVE_ASPECT_RATIO_16_9_CENTER", Some (dec 4));
    ("ACTIVE_ASPECT_RATIO_PICTURE", Some (dec 8)); ("ACTIVE_ASPECT_RATIO_4_3", Some (dec 9));
    ("ACTIVE_ASPECT_RATIO_16_9", Some (dec 10)); ("ACTIVE_ASPECT_RATIO_14_9", Some (dec 11));
    ("ACTIVE_ASPECT_RATIO_4_3_SP_14_9", Some (dec 13));
    ("ACTIVE_ASPECT_RATIO_16_9_SP_14_9", Some (dec 14));
    ("ACTIVE_ASPECT_RATIO_16_9_SP_4_3", Some (dec 15))]].
Definition header : header :=
  Header "media/msm_ba.h" [] (concat [
    enum_picture_aspect_ratio]).
End Media_msm_ba.

(** ** [media/msm_cam_sensor.h] *)

Module Media_msm_cam_sensor.
Definition defs_I2C_SEQ_REG_SETTING_MAX : list decl := [
  Defines [
    ("I2C_SEQ_REG_SETTING_MAX", dec 5); ("MSM_SENSOR_MCLK_8HZ", dec 8000000);
    ("MSM_SENSOR_MCLK_16HZ", dec 16000000); ("MSM_SENSOR_MCLK_24HZ", dec 24000000);
    ("MAX_SENSOR_NAME", dec 32); ("MAX_ACTUATOR_AF_TOTAL_STEPS", dec 1024);
    ("MAX_OIS_MOD_NAME_SIZE", dec 32); ("MAX_OIS_NAME_SIZE", dec 32);
    ("MAX_OIS_REG_SETTINGS", dec 800); ("MOVE_NEAR", dec 0); ("MOVE_FAR", dec 1);
    ("MSM_ACTUATOR_MOVE_SIGNED_FAR", Neg (dec 1)); ("MSM_ACTUATOR_MOVE_SIGNED_NEAR", dec 1);
    ("MAX_ACTUATOR_REGION", dec 5); ("MAX_EEPROM_NAME", dec 32); ("MAX_AF_ITERATIONS", dec 3);
    ("MAX_NUMBER_OF_STEPS", dec 47); ("MAX_REGULATOR", dec 5); ("FLASH_QUERY_CURRENT", dec 1)]].
Definition enum_flash_type : list decl := [
  Enum [
    ("LED_FLASH", Some (dec 1)); ("STROBE_FLASH", None); ("GPIO_FLASH", None)];
  Enum [
    ("MSM_SENSOR_RES_FULL", None); ("MSM_SENSOR_RES_QTR", None); ("MSM_SENSOR_RES_2", None);
    ("MSM_SENSOR_RES_3", None); ("MSM_SENSOR_RES_4", None); ("MSM_SENSOR_RES_5", None);
    ("MSM_SENSOR_RES_6", None); ("MSM_SENSOR_RES_7", None); ("MSM_SENSOR_INVALID_RES", None)];
  Enum [
    ("MSM_CAMERA_STREAM_PREVIEW", None); ("MSM_CAMERA_STREAM_SNAPSHOT", None);
    ("MSM_CAMERA_STREAM_VIDEO", None); ("MSM_CAMERA_STREAM_INVALID", None)];
  Enum [
    ("SUB_MODULE_SENSOR", None); ("SUB_MODULE_CHROMATIX", None); ("SUB_MODULE_ACTUATOR", None);
    ("SUB_MODULE_EEPROM", None); ("SUB_MODULE_LED_FLASH", None);
    ("SUB_MODULE_STROBE_FLASH", None); ("SUB_MODULE_CSID", None); ("SUB_MODULE_CSID_3D", None);
    ("SUB_MODULE_CSIPHY", None); ("SUB_MODULE_CSIPHY_3D", None); ("SUB_MODULE_OIS", None);
    ("SUB_MODULE_EXT", None); ("SUB_MODULE_IR_LED", None); ("SUB_MODULE_IR_CUT", None);
    ("SUB_MODULE_LASER_LED", None); ("SUB_MODULE_MAX", None)];
  Enum [
    ("MSM_CAMERA_EFFECT_MODE_OFF", None); ("MSM_CAMERA_EFFECT_MODE_MONO", None);
    ("MSM_CAMERA_EFFECT_MODE_NEGATIVE", None); ("MSM_CAMERA_EFFECT_MODE_SOLARIZE", None);
    ("MSM_CAMERA_EFFECT_MODE_SEPIA", None); ("MSM_CAMERA_EFFECT_MODE_POSTERIZE", None);
    ("MSM_CAMERA_EFFECT_MODE_WHITEBOARD", None); ("MSM_CAMERA_EFFECT_MODE_BLACKBOARD", None);
    ("MSM_CAMERA_EFFECT_MODE_AQUA", None); ("MSM_CAMERA_EFFECT_MODE_EMBOSS", None);
    ("MSM_CAMERA_EFFECT_MODE_SKETCH", None); ("MSM_CAMERA_EFFECT_MODE_NEON", None);
    ("MSM_CAMERA_EFFECT_MODE_MAX", None)];
  Enum [
    ("MSM_CAMERA_WB_MODE_AUTO", None); ("MSM_CAMERA_WB_MODE_CUSTOM", None);
    ("MSM_CAMERA_WB_MODE_INCANDESCENT", None); ("MSM_CAMERA_WB_MODE_FLUORESCENT", None);
    ("MSM_CAMERA_WB_MODE_WARM_FLUORESCENT", None); ("MSM_CAMERA_WB_MODE_DAYLIGHT", None);
    ("MSM_CAMERA_WB_MODE_CLOUDY_DAYLIGHT", None); ("MSM_CAMERA_WB_MODE_TWILIGHT", None);
    ("MSM_CAMERA_WB_MODE_SHADE", None); ("MSM_CAMERA_WB_MODE_OFF", None);
    ("MSM_CAMERA_WB_MODE_MAX", None)];
  Enum [
    ("MSM_CAMERA_SCENE_MODE_OFF", None); ("MSM_CAMERA_SCENE_MODE_AUTO", None);
    ("MSM_CAMERA_SCENE_MODE_LANDSCAPE", None); ("MSM_CAMERA_SCENE_MODE_SNOW", None);
    ("MSM_CAMERA_SCENE_MODE_BEACH", None); ("MSM_CAMERA_SCENE_MODE_SUNSET", None);
    ("MSM_CAMERA_SCENE_MODE_NIGHT", None); ("MSM_CAMERA_SCENE_MODE_PORTRAIT", None);
    ("MSM_CAMERA_SCENE_MODE_BACKLIGHT", None); ("MSM_CAMERA_SCENE_MODE_SPORTS", None);
    ("MSM_CAMERA_SCENE_MODE_ANTISHAKE", None); ("MSM_CAMERA_SCENE_MODE_FLOWERS", None);
    ("MSM_CAMERA_SCENE_MODE_CANDLELIGHT", None); ("MSM_CAMERA_SCENE_MODE_FIREWORKS", None);
    ("MSM_CAMERA_SCENE_MODE_PARTY", None); ("MSM_CAMERA_SCENE_MODE_NIGHT_PORTRAIT", None);
    ("MSM_CAMERA_SCENE_MODE_THEATRE", None); ("MSM_CAMERA_SCENE_MODE_ACTION", None);
    ("MSM_CAMERA_SCENE_MODE_AR", None); ("MSM_CAMERA_SCENE_MODE_FACE_PRIORITY", None);
    ("MSM_CAMERA_SCENE_MODE_BARCODE", None); ("MSM_CAMERA_SCENE_MODE_HDR", None);
    ("MSM_CAMERA_SCENE_MODE_MAX", None)];
  Enum [
    ("CSID_INIT", None); ("CSID_CFG", None); ("CSID_TESTMODE_CFG", None); ("CSID_RELEASE", None)];
  Enum [
    ("CSIPHY_INIT", None); ("CSIPHY_CFG", None); ("CSIPHY_RELEASE", None)]].
Definition enum_cci_i2c_master_t : list decl := [
  Enum [
    ("MASTER_0", None); ("MASTER_1", None); ("MASTER_MAX", None)]].
Definition enum_eeprom_cfg_type_t : list decl := [
  Enum [
    ("CFG_EEPROM_GET_INFO", None); ("CFG_EEPROM_GET_CAL_DATA", None);
    ("CFG_EEPROM_READ_CAL_DATA", None); ("CFG_EEPROM_WRITE_DATA", None);
    ("CFG_EEPROM_GET_MM_INFO", None); ("CFG_EEPROM_INIT", None)]].
Definition enum_msm_sensor_cfg_type_t : list decl := [
  Enum [
    ("CFG_SET_SLAVE_INFO", None); ("CFG_SLAVE_READ_I2C", None); ("CFG_WRITE_I2C_ARRAY", None);
    ("CFG_SLAVE_WRITE_I2C_ARRAY", None); ("CFG_WRITE_I2C_SEQ_ARRAY", None);
    ("CFG_POWER_UP", None); ("CFG_POWER_DOWN", None); ("CFG_SET_STOP_STREAM_SETTING", None);
    ("CFG_GET_SENSOR_INFO", None); ("CFG_GET_SENSOR_INIT_PARAMS", None);
    ("CFG_SET_INIT_SETTING", None); ("CFG_SET_RESOLUTION", None); ("CFG_SET_STOP_STREAM", None);
    ("CFG_SET_START_STREAM", None); ("CFG_SET_SATURATION", None); ("CFG_SET_CONTRAST", None);
    ("CFG_SET_SHARPNESS", None); ("CFG_SET_ISO", None); ("CFG_SET_EXPOSURE_COMPENSATION", None);
    ("CFG_SET_ANTIBANDING", None); ("CFG_SET_BESTSHOT_MODE", None); ("CFG_SET_EFFECT", None);
    ("CFG_SET_WHITE_BALANCE", None); ("CFG_SET_AUTOFOCUS", None); ("CFG_CANCEL_AUTOFOCUS", None);
    ("CFG_SET_STREAM_TYPE", None); ("CFG_SET_I2C_SYNC_PARAM", None);
    ("CFG_WRITE_I2C_ARRAY_ASYNC", None); ("CFG_WRITE_I2C_ARRAY_SYNC", None);
    ("CFG_WRITE_I2C_ARRAY_SYNC_BLOCK", None)];
  Enum [
    ("CFG_GET_ACTUATOR_INFO", None); ("CFG_SET_ACTUATOR_INFO", None);
    ("CFG_SET_DEFAULT_FOCUS", None); ("CFG_MOVE_FOCUS", None); ("CFG_SET_POSITION", None);
    ("CFG_ACTUATOR_POWERDOWN", None); ("CFG_ACTUATOR_POWERUP", None); ("CFG_ACTUATOR_INIT", None)]].
Definition enum_msm_ois_cfg_type_t : list decl := [
  Enum [
    ("CFG_OIS_INIT", None); ("CFG_OIS_POWERDOWN", None); ("CFG_OIS_POWERUP", None);
    ("CFG_OIS_CONTROL", None); ("CFG_OIS_I2C_WRITE_SEQ_TABLE", None)]].
Definition enum_msm_ois_i2c_operation : list decl := [
  Enum [
    ("MSM_OIS_WRITE", Some (dec 0)); ("MSM_OIS_POLL", None); ("MSM_OIS_READ", None)]].
Definition enum_af_camera_name : list decl := [
  Enum [
    ("ACTUATOR_MAIN_CAM_0", None); ("ACTUATOR_MAIN_CAM_1", None); ("ACTUATOR_MAIN_CAM_2", None);
    ("ACTUATOR_MAIN_CAM_3", None); ("ACTUATOR_MAIN_CAM_4", None); ("ACTUATOR_MAIN_CAM_5", None);
    ("ACTUATOR_WEB_CAM_0", None); ("ACTUATOR_WEB_CAM_1", None); ("ACTUATOR_WEB_CAM_2", None)]].
Definition enum_msm_camera_led_config_t : list decl := [
  Enum [
    ("MSM_CAMERA_LED_OFF", None); ("MSM_CAMERA_LED_LOW", None); ("MSM_CAMERA_LED_HIGH", None);
    ("MSM_CAMERA_LED_INIT", None); ("MSM_CAMERA_LED_RELEASE", None)]].
Definition enum_msm_sensor_init_cfg_type_t : list decl := [
  Enum [
    ("CFG_SINIT_PROBE", None); ("CFG_SINIT_PROBE_DONE", None);
    ("CFG_SINIT_PROBE_WAIT_DONE", None)]].
Definition header : header :=
  Header "media/msm_cam_sensor.h" [] (concat [
    defs_I2C_SEQ_REG_SETTING_MAX; enum_flash_type; enum_cci_i2c_master_t; enum_eeprom_cfg_type_t;
    enum_msm_sensor_cfg_type_t; enum_msm_ois_cfg_type_t; enum_msm_ois_i2c_operation;
    enum_af_camera_name; enum_msm_camera_led_config_t; enum_msm_sensor_init_cfg_type_t]).
End Media_msm_cam_sensor.

(** ** [media/msm_camera.h] *)

Module Media_msm_camera.
Definition macro_BIT : list decl := [
  Define_fun "BIT" ["nr"] (Shl (decUL 1) (Id "nr"))].
Definition defs_MSM_CAMERA_LED_OFF : list decl := [
  Defines [
    ("MSM_CAMERA_LED_OFF", dec 0); ("MSM_CAMERA_LED_LOW", dec 1); ("MSM_CAMERA_LED_HIGH", dec 2);
    ("MSM_CAMERA_LED_INIT", dec 3); ("MSM_CAMERA_LED_RELEASE", dec 4);
    ("MSM_CAMERA_STROBE_FLASH_NONE", dec 0); ("MSM_CAMERA_STROBE_FLASH_XENON", dec 1);
    ("MSM_MAX_CAMERA_SENSORS", dec 6); ("MAX_SENSOR_NAME", dec 32);
    ("MAX_CAM_NAME_SIZE", dec 32); ("MAX_ACT_MOD_NAME_SIZE", dec 32);
    ("MAX_ACT_NAME_SIZE", dec 32); ("NUM_ACTUATOR_DIR", dec 2); ("MAX_ACTUATOR_SCENARIO", dec 8);
    ("MAX_ACTUATOR_REGION", dec 5); ("MAX_ACTUATOR_INIT_SET", dec 12);
    ("MAX_ACTUATOR_TYPE_SIZE", dec 32); ("MAX_ACTUATOR_REG_TBL_SIZE", dec 8);
    ("MSM_MAX_CAMERA_CONFIGS", dec 2); ("PP_SNAP", hex 0x01);
    ("PP_RAW_SNAP", Shl (hex 0x01) (dec 1)); ("PP_PREV", Shl (hex 0x01) (dec 2));
    ("PP_THUMB", Shl (hex 0x01) (dec 3));
    ("PP_MASK", Or (Or (Or (Id "PP_SNAP") (Id "PP_RAW_SNAP")) (Id "PP_PREV")) (Id "PP_THUMB"));
    ("MSM_CAM_CTRL_CMD_DONE", dec 0); ("MSM_CAM_SENSOR_VFE_CMD", dec 1); ("MAX_PLANES", dec 8)]].
Definition defs_MSM_CAM_RESP_CTRL : list decl := [
  Defines [
    ("MSM_CAM_RESP_CTRL", dec 0); ("MSM_CAM_RESP_STAT_EVT_MSG", dec 1);
    ("MSM_CAM_RESP_STEREO_OP_1", dec 2); ("MSM_CAM_RESP_STEREO_OP_2", dec 3);
    ("MSM_CAM_RESP_V4L2", dec 4); ("MSM_CAM_RESP_DIV_FRAME_EVT_MSG", dec 5);
    ("MSM_CAM_RESP_DONE_EVENT", dec 6); ("MSM_CAM_RESP_MCTL_PP_EVENT", dec 7);
    ("MSM_CAM_RESP_MAX", dec 8); ("MSM_CAM_APP_NOTIFY_EVENT", dec 0);
    ("MSM_CAM_APP_NOTIFY_ERROR_EVENT", dec 1)]].
Definition defs_CMD_GENERAL : list decl := [
  Defines [
    ("CMD_GENERAL", dec 0); ("CMD_AXI_CFG_OUT1", dec 1); ("CMD_AXI_CFG_SNAP_O1_AND_O2", dec 2);
    ("CMD_AXI_CFG_OUT2", dec 3); ("CMD_PICT_T_AXI_CFG", dec 4); ("CMD_PICT_M_AXI_CFG", dec 5);
    ("CMD_RAW_PICT_AXI_CFG", dec 6); ("CMD_FRAME_BUF_RELEASE", dec 7);
    ("CMD_PREV_BUF_CFG", dec 8); ("CMD_SNAP_BUF_RELEASE", dec 9); ("CMD_SNAP_BUF_CFG", dec 10);
    ("CMD_STATS_DISABLE", dec 11); ("CMD_STATS_AEC_AWB_ENABLE", dec 12);
    ("CMD_STATS_AF_ENABLE", dec 13); ("CMD_STATS_AEC_ENABLE", dec 14);
    ("CMD_STATS_AWB_ENABLE", dec 15); ("CMD_STATS_ENABLE", dec 16);
    ("CMD_STATS_AXI_CFG", dec 17); ("CMD_STATS_AEC_AXI_CFG", dec 18);
    ("CMD_STATS_AF_AXI_CFG", dec 19); ("CMD_STATS_AWB_AXI_CFG", dec 20);
    ("CMD_STATS_RS_AXI_CFG", dec 21); ("CMD_STATS_CS_AXI_CFG", dec 22);
    ("CMD_STATS_IHIST_AXI_CFG", dec 23); ("CMD_STATS_SKIN_AXI_CFG", dec 24);
    ("CMD_STATS_BUF_RELEASE", dec 25); ("CMD_STATS_AEC_BUF_RELEASE", dec 26);
    ("CMD_STATS_AF_BUF_RELEASE", dec 27); ("CMD_STATS_AWB_BUF_RELEASE", dec 28);
    ("CMD_STATS_RS_BUF_RELEASE", dec 29); ("CMD_STATS_CS_BUF_RELEASE", dec 30);
    ("CMD_STATS_IHIST_BUF_RELEASE", dec 31); ("CMD_STATS_SKIN_BUF_RELEASE", dec 32);
    ("UPDATE_STATS_INVALID", dec 33); ("CMD_AXI_CFG_SNAP_GEMINI", dec 34);
    ("CMD_AXI_CFG_SNAP", dec 35); ("CMD_AXI_CFG_PREVIEW", dec 36); ("CMD_AXI_CFG_VIDEO", dec 37);
    ("CMD_STATS_IHIST_ENABLE", dec 38); ("CMD_STATS_RS_ENABLE", dec 39);
    ("CMD_STATS_CS_ENABLE", dec 40); ("CMD_VPE", dec 41); ("CMD_AXI_CFG_VPE", dec 42);
    ("CMD_AXI_CFG_ZSL", dec 43); ("CMD_AXI_CFG_SNAP_VPE", dec 44);
    ("CMD_AXI_CFG_SNAP_THUMB_VPE", dec 45); ("CMD_CONFIG_PING_ADDR", dec 46);
    ("CMD_CONFIG_PONG_ADDR", dec 47); ("CMD_CONFIG_FREE_BUF_ADDR", dec 48);
    ("CMD_AXI_CFG_ZSL_ALL_CHNLS", dec 49); ("CMD_AXI_CFG_VIDEO_ALL_CHNLS", dec 50);
    ("CMD_VFE_BUFFER_RELEASE", dec 51); ("CMD_VFE_PROCESS_IRQ", dec 52);
    ("CMD_STATS_BG_ENABLE", dec 53); ("CMD_STATS_BF_ENABLE", dec 54);
    ("CMD_STATS_BHIST_ENABLE", dec 55); ("CMD_STATS_BG_BUF_RELEASE", dec 56);
    ("CMD_STATS_BF_BUF_RELEASE", dec 57); ("CMD_STATS_BHIST_BUF_RELEASE", dec 58);
    ("CMD_VFE_PIX_SOF_COUNT_UPDATE", dec 59); ("CMD_VFE_COUNT_PIX_SOF_ENABLE", dec 60);
    ("CMD_STATS_BE_ENABLE", dec 61); ("CMD_STATS_BE_BUF_RELEASE", dec 62);
    ("CMD_AXI_CFG_PRIM", App "BIT" [dec 8]); ("CMD_AXI_CFG_PRIM_ALL_CHNLS", App "BIT" [dec 9]);
    ("CMD_AXI_CFG_SEC", App "BIT" [dec 10]); ("CMD_AXI_CFG_SEC_ALL_CHNLS", App "BIT" [dec 11]);
    ("CMD_AXI_CFG_TERT1", App "BIT" [dec 12]); ("CMD_AXI_CFG_TERT2", App "BIT" [dec 13]);
    ("CMD_AXI_START", hex 0xE1); ("CMD_AXI_STOP", hex 0xE2); ("CMD_AXI_RESET", hex 0xE3);
    ("CMD_AXI_ABORT", hex 0xE4); ("AXI_CMD_PREVIEW", App "BIT" [dec 0]);
    ("AXI_CMD_CAPTURE", App "BIT" [dec 1]); ("AXI_CMD_RECORD", App "BIT" [dec 2]);
    ("AXI_CMD_ZSL", App "BIT" [dec 3]); ("AXI_CMD_RAW_CAPTURE", App "BIT" [dec 4]);
    ("AXI_CMD_LIVESHOT", App "BIT" [dec 5])]].
Definition defs_MSM_PMEM_OUTPUT1 : list decl := [
  Defines [
    ("MSM_PMEM_OUTPUT1", dec 0); ("MSM_PMEM_OUTPUT2", dec 1);
    ("MSM_PMEM_OUTPUT1_OUTPUT2", dec 2); ("MSM_PMEM_THUMBNAIL", dec 3);
    ("MSM_PMEM_MAINIMG", dec 4); ("MSM_PMEM_RAW_MAINIMG", dec 5); ("MSM_PMEM_AEC_AWB", dec 6);
    ("MSM_PMEM_AF", dec 7); ("MSM_PMEM_AEC", dec 8); ("MSM_PMEM_AWB", dec 9);
    ("MSM_PMEM_RS", dec 10); ("MSM_PMEM_CS", dec 11); ("MSM_PMEM_IHIST", dec 12);
    ("MSM_PMEM_SKIN", dec 13); ("MSM_PMEM_VIDEO", dec 14); ("MSM_PMEM_PREVIEW", dec 15);
    ("MSM_PMEM_VIDEO_VPE", dec 16); ("MSM_PMEM_C2D", dec 17); ("MSM_PMEM_MAINIMG_VPE", dec 18);
    ("MSM_PMEM_THUMBNAIL_VPE", dec 19); ("MSM_PMEM_BAYER_GRID", dec 20);
    ("MSM_PMEM_BAYER_FOCUS", dec 21); ("MSM_PMEM_BAYER_HIST", dec 22);
    ("MSM_PMEM_BAYER_EXPOSURE", dec 23); ("MSM_PMEM_MAX", dec 24); ("STAT_AEAW", dec 0);
    ("STAT_AEC", dec 1); ("STAT_AF", dec 2); ("STAT_AWB", dec 3); ("STAT_RS", dec 4);
    ("STAT_CS", dec 5); ("STAT_IHIST", dec 6); ("STAT_SKIN", dec 7); ("STAT_BG", dec 8);
    ("STAT_BF", dec 9); ("STAT_BE", dec 10); ("STAT_BHIST", dec 11); ("STAT_MAX", dec 12);
    ("FRAME_PREVIEW_OUTPUT1", dec 0); ("FRAME_PREVIEW_OUTPUT2", dec 1);
    ("FRAME_SNAPSHOT", dec 2); ("FRAME_THUMBNAIL", dec 3); ("FRAME_RAW_SNAPSHOT", dec 4);
    ("FRAME_MAX", dec 5)];
  Enum [
    ("MSM_STATS_TYPE_AEC", None); ("MSM_STATS_TYPE_AF", None); ("MSM_STATS_TYPE_AWB", None);
    ("MSM_STATS_TYPE_RS", None); ("MSM_STATS_TYPE_CS", None); ("MSM_STATS_TYPE_IHIST", None);
    ("MSM_STATS_TYPE_SKIN", None); ("MSM_STATS_TYPE_BG", None); ("MSM_STATS_TYPE_BF", None);
    ("MSM_STATS_TYPE_BE", None); ("MSM_STATS_TYPE_BHIST", None); ("MSM_STATS_TYPE_AE_AW", None);
    ("MSM_STATS_TYPE_COMP", None); ("MSM_STATS_TYPE_MAX", None)]].
Definition defs_VIDEO_NODE : list decl := [
  Defines [
    ("VIDEO_NODE", dec 0); ("MCTL_NODE", dec 1); ("OUTPUT_1", dec 0); ("OUTPUT_2", dec 1);
    ("OUTPUT_1_AND_2", dec 2); ("OUTPUT_1_AND_3", dec 3); ("CAMIF_TO_AXI_VIA_OUTPUT_2", dec 4);
    ("OUTPUT_1_AND_CAMIF_TO_AXI_VIA_OUTPUT_2", dec 5);
    ("OUTPUT_2_AND_CAMIF_TO_AXI_VIA_OUTPUT_1", dec 6); ("OUTPUT_1_2_AND_3", dec 7);
    ("OUTPUT_ALL_CHNLS", dec 8); ("OUTPUT_VIDEO_ALL_CHNLS", dec 9);
    ("OUTPUT_ZSL_ALL_CHNLS", dec 10); ("LAST_AXI_OUTPUT_MODE_ENUM", Id "OUTPUT_ZSL_ALL_CHNLS");
    ("OUTPUT_PRIM", App "BIT" [dec 8]); ("OUTPUT_PRIM_ALL_CHNLS", App "BIT" [dec 9]);
    ("OUTPUT_SEC", App "BIT" [dec 10]); ("OUTPUT_SEC_ALL_CHNLS", App "BIT" [dec 11]);
    ("OUTPUT_TERT1", App "BIT" [dec 12]); ("OUTPUT_TERT2", App "BIT" [dec 13]);
    ("MSM_FRAME_PREV_1", dec 0); ("MSM_FRAME_PREV_2", dec 1); ("MSM_FRAME_ENC", dec 2);
    ("OUTPUT_TYPE_P", App "BIT" [dec 0]); ("OUTPUT_TYPE_T", App "BIT" [dec 1]);
    ("OUTPUT_TYPE_S", App "BIT" [dec 2]); ("OUTPUT_TYPE_V", App "BIT" [dec 3]);
    ("OUTPUT_TYPE_L", App "BIT" [dec 4]); ("OUTPUT_TYPE_ST_L", App "BIT" [dec 5]);
    ("OUTPUT_TYPE_ST_R", App "BIT" [dec 6]); ("OUTPUT_TYPE_ST_D", App "BIT" [dec 7]);
    ("OUTPUT_TYPE_R", App "BIT" [dec 8]); ("OUTPUT_TYPE_R1", App "BIT" [dec 9]);
    ("OUTPUT_TYPE_SAEC", App "BIT" [dec 10]); ("OUTPUT_TYPE_SAFC", App "BIT" [dec 11]);
    ("OUTPUT_TYPE_SAWB", App "BIT" [dec 12]); ("OUTPUT_TYPE_IHST", App "BIT" [dec 13]);
    ("OUTPUT_TYPE_CSTA", App "BIT" [dec 14])]].
Definition defs_MSM_MEM_MMAP : list decl := [
  Defines [
    ("MSM_MEM_MMAP", dec 0); ("MSM_MEM_USERPTR", dec 1); ("MSM_PLANE_MAX", dec 8);
    ("MSM_PLANE_Y", dec 0); ("MSM_PLANE_UV", dec 1)]].
Definition enum_msm_st_frame_packing : list decl := [
  Enum [
    ("SIDE_BY_SIDE_HALF", None); ("SIDE_BY_SIDE_FULL", None); ("TOP_DOWN_HALF", None);
    ("TOP_DOWN_FULL", None)]].
Definition defs_MSM_V4L2_EXT_CAPTURE_MODE_DEFAULT : list decl := [
  Defines [
    ("MSM_V4L2_EXT_CAPTURE_MODE_DEFAULT", dec 0);
    ("MSM_V4L2_EXT_CAPTURE_MODE_PREVIEW", Add (Id "MSM_V4L2_EXT_CAPTURE_MODE_DEFAULT") (dec 1));
    ("MSM_V4L2_EXT_CAPTURE_MODE_VIDEO", Add (Id "MSM_V4L2_EXT_CAPTURE_MODE_DEFAULT") (dec 2));
    ("MSM_V4L2_EXT_CAPTURE_MODE_MAIN", Add (Id "MSM_V4L2_EXT_CAPTURE_MODE_DEFAULT") (dec 3));
    ("MSM_V4L2_EXT_CAPTURE_MODE_THUMBNAIL", Add (Id "MSM_V4L2_EXT_CAPTURE_MODE_DEFAULT") (dec 4));
    ("MSM_V4L2_EXT_CAPTURE_MODE_ISP_PIX_OUTPUT1", Add (Id "MSM_V4L2_EXT_CAPTURE_MODE_DEFAULT") (dec 5));
    ("MSM_V4L2_EXT_CAPTURE_MODE_ISP_PIX_OUTPUT2", Add (Id "MSM_V4L2_EXT_CAPTURE_MODE_DEFAULT") (dec 6));
    ("MSM_V4L2_EXT_CAPTURE_MODE_RAW", Add (Id "MSM_V4L2_EXT_CAPTURE_MODE_DEFAULT") (dec 7));
    ("MSM_V4L2_EXT_CAPTURE_MODE_RDI", Add (Id "MSM_V4L2_EXT_CAPTURE_MODE_DEFAULT") (dec 8));
    ("MSM_V4L2_EXT_CAPTURE_MODE_RDI1", Add (Id "MSM_V4L2_EXT_CAPTURE_MODE_DEFAULT") (dec 9));
    ("MSM_V4L2_EXT_CAPTURE_MODE_RDI2", Add (Id "MSM_V4L2_EXT_CAPTURE_MODE_DEFAULT") (dec 10));
    ("MSM_V4L2_EXT_CAPTURE_MODE_AEC", Add (Id "MSM_V4L2_EXT_CAPTURE_MODE_DEFAULT") (dec 11));
    ("MSM_V4L2_EXT_CAPTURE_MODE_AWB", Add (Id "MSM_V4L2_EXT_CAPTURE_MODE_DEFAULT") (dec 12));
    ("MSM_V4L2_EXT_CAPTURE_MODE_AF", Add (Id "MSM_V4L2_EXT_CAPTURE_MODE_DEFAULT") (dec 13));
    ("MSM_V4L2_EXT_CAPTURE_MODE_IHIST", Add (Id "MSM_V4L2_EXT_CAPTURE_MODE_DEFAULT") (dec 14));
    ("MSM_V4L2_EXT_CAPTURE_MODE_CS", Add (Id "MSM_V4L2_EXT_CAPTURE_MODE_DEFAULT") (dec 15));
    ("MSM_V4L2_EXT_CAPTURE_MODE_RS", Add (Id "MSM_V4L2_EXT_CAPTURE_MODE_DEFAULT") (dec 16));
    ("MSM_V4L2_EXT_CAPTURE_MODE_CSTA", Add (Id "MSM_V4L2_EXT_CAPTURE_MODE_DEFAULT") (dec 17));
    ("MSM_V4L2_EXT_CAPTURE_MODE_V2X_LIVESHOT", Add (Id "MSM_V4L2_EXT_CAPTURE_MODE_DEFAULT") (dec 18));
    ("MSM_V4L2_EXT_CAPTURE_MODE_MAX", Add (Id "MSM_V4L2_EXT_CAPTURE_MODE_DEFAULT") (dec 19));
    ("MSM_V4L2_PID_MOTION_ISO", Id "V4L2_CID_PRIVATE_BASE");
    ("MSM_V4L2_PID_EFFECT", Add (Id "V4L2_CID_PRIVATE_BASE") (dec 1));
    ("MSM_V4L2_PID_HJR", Add (Id "V4L2_CID_PRIVATE_BASE") (dec 2));
    ("MSM_V4L2_PID_LED_MODE", Add (Id "V4L2_CID_PRIVATE_BASE") (dec 3));
    ("MSM_V4L2_PID_PREP_SNAPSHOT", Add (Id "V4L2_CID_PRIVATE_BASE") (dec 4));
    ("MSM_V4L2_PID_EXP_METERING", Add (Id "V4L2_CID_PRIVATE_BASE") (dec 5));
    ("MSM_V4L2_PID_ISO", Add (Id "V4L2_CID_PRIVATE_BASE") (dec 6));
    ("MSM_V4L2_PID_CAM_MODE", Add (Id "V4L2_CID_PRIVATE_BASE") (dec 7));
    ("MSM_V4L2_PID_LUMA_ADAPTATION", Add (Id "V4L2_CID_PRIVATE_BASE") (dec 8));
    ("MSM_V4L2_PID_BEST_SHOT", Add (Id "V4L2_CID_PRIVATE_BASE") (dec 9));
    ("MSM_V4L2_PID_FOCUS_MODE", Add (Id "V4L2_CID_PRIVATE_BASE") (dec 10));
    ("MSM_V4L2_PID_BL_DETECTION", Add (Id "V4L2_CID_PRIVATE_BASE") (dec 11));
    ("MSM_V4L2_PID_SNOW_DETECTION", Add (Id "V4L2_CID_PRIVATE_BASE") (dec 12));
    ("MSM_V4L2_PID_CTRL_CMD", Add (Id "V4L2_CID_PRIVATE_BASE") (dec 13));
    ("MSM_V4L2_PID_EVT_SUB_INFO", Add (Id "V4L2_CID_PRIVATE_BASE") (dec 14));
    ("MSM_V4L2_PID_STROBE_FLASH", Add (Id "V4L2_CID_PRIVATE_BASE") (dec 15));
    ("MSM_V4L2_PID_INST_HANDLE", Add (Id "V4L2_CID_PRIVATE_BASE") (dec 16));
    ("MSM_V4L2_PID_MMAP_INST", Add (Id "V4L2_CID_PRIVATE_BASE") (dec 17));
    ("MSM_V4L2_PID_PP_PLANE_INFO", Add (Id "V4L2_CID_PRIVATE_BASE") (dec 18));
    ("MSM_V4L2_PID_MAX", Id "MSM_V4L2_PID_PP_PLANE_INFO"); ("MSM_V4L2_CAM_OP_DEFAULT", dec 0);
    ("MSM_V4L2_CAM_OP_PREVIEW", Add (Id "MSM_V4L2_CAM_OP_DEFAULT") (dec 1));
    ("MSM_V4L2_CAM_OP_VIDEO", Add (Id "MSM_V4L2_CAM_OP_DEFAULT") (dec 2));
    ("MSM_V4L2_CAM_OP_CAPTURE", Add (Id "MSM_V4L2_CAM_OP_DEFAULT") (dec 3));
    ("MSM_V4L2_CAM_OP_ZSL", Add (Id "MSM_V4L2_CAM_OP_DEFAULT") (dec 4));
    ("MSM_V4L2_CAM_OP_RAW", Add (Id "MSM_V4L2_CAM_OP_DEFAULT") (dec 5));
    ("MSM_V4L2_CAM_OP_JPEG_CAPTURE", Add (Id "MSM_V4L2_CAM_OP_DEFAULT") (dec 6));
    ("MSM_V4L2_VID_CAP_TYPE", dec 0); ("MSM_V4L2_STREAM_ON", dec 1);
    ("MSM_V4L2_STREAM_OFF", dec 2); ("MSM_V4L2_SNAPSHOT", dec 3); ("MSM_V4L2_QUERY_CTRL", dec 4);
    ("MSM_V4L2_GET_CTRL", dec 5); ("MSM_V4L2_SET_CTRL", dec 6); ("MSM_V4L2_QUERY", dec 7);
    ("MSM_V4L2_GET_CROP", dec 8); ("MSM_V4L2_SET_CROP", dec 9); ("MSM_V4L2_OPEN", dec 10);
    ("MSM_V4L2_CLOSE", dec 11); ("MSM_V4L2_SET_CTRL_CMD", dec 12);
    ("MSM_V4L2_EVT_SUB_MASK", dec 13); ("MSM_V4L2_PRIVATE_CMD", dec 14);
    ("MSM_V4L2_MAX", dec 15); ("V4L2_CAMERA_EXIT", dec 43)]].
Definition defs_CFG_SET_MODE : list decl := [
  Defines [
    ("CFG_SET_MODE", dec 0); ("CFG_SET_EFFECT", dec 1); ("CFG_START", dec 2);
    ("CFG_PWR_UP", dec 3); ("CFG_PWR_DOWN", dec 4); ("CFG_WRITE_EXPOSURE_GAIN", dec 5);
    ("CFG_SET_DEFAULT_FOCUS", dec 6); ("CFG_MOVE_FOCUS", dec 7);
    ("CFG_REGISTER_TO_REAL_GAIN", dec 8); ("CFG_REAL_TO_REGISTER_GAIN", dec 9);
    ("CFG_SET_FPS", dec 10); ("CFG_SET_PICT_FPS", dec 11); ("CFG_SET_BRIGHTNESS", dec 12);
    ("CFG_SET_CONTRAST", dec 13); ("CFG_SET_ZOOM", dec 14); ("CFG_SET_EXPOSURE_MODE", dec 15);
    ("CFG_SET_WB", dec 16); ("CFG_SET_ANTIBANDING", dec 17); ("CFG_SET_EXP_GAIN", dec 18);
    ("CFG_SET_PICT_EXP_GAIN", dec 19); ("CFG_SET_LENS_SHADING", dec 20);
    ("CFG_GET_PICT_FPS", dec 21); ("CFG_GET_PREV_L_PF", dec 22); ("CFG_GET_PREV_P_PL", dec 23);
    ("CFG_GET_PICT_L_PF", dec 24); ("CFG_GET_PICT_P_PL", dec 25);
    ("CFG_GET_AF_MAX_STEPS", dec 26); ("CFG_GET_PICT_MAX_EXP_LC", dec 27);
    ("CFG_SEND_WB_INFO", dec 28); ("CFG_SENSOR_INIT", dec 29); ("CFG_GET_3D_CALI_DATA", dec 30);
    ("CFG_GET_CALIB_DATA", dec 31); ("CFG_GET_OUTPUT_INFO", dec 32);
    ("CFG_GET_EEPROM_INFO", dec 33); ("CFG_GET_EEPROM_DATA", dec 34);
    ("CFG_SET_ACTUATOR_INFO", dec 35); ("CFG_GET_ACTUATOR_INFO", dec 36);
    ("CFG_SET_SATURATION", dec 37); ("CFG_SET_SHARPNESS", dec 38); ("CFG_SET_TOUCHAEC", dec 39);
    ("CFG_SET_AUTO_FOCUS", dec 40); ("CFG_SET_AUTOFLASH", dec 41);
    ("CFG_SET_EXPOSURE_COMPENSATION", dec 42); ("CFG_SET_ISO", dec 43);
    ("CFG_START_STREAM", dec 44); ("CFG_STOP_STREAM", dec 45); ("CFG_GET_CSI_PARAMS", dec 46);
    ("CFG_POWER_UP", dec 47); ("CFG_POWER_DOWN", dec 48); ("CFG_WRITE_I2C_ARRAY", dec 49);
    ("CFG_READ_I2C_ARRAY", dec 50); ("CFG_PCLK_CHANGE", dec 51);
    ("CFG_CONFIG_VREG_ARRAY", dec 52); ("CFG_CONFIG_CLK_ARRAY", dec 53); ("CFG_GPIO_OP", dec 54);
    ("CFG_MAX", dec 55); ("MOVE_NEAR", dec 0); ("MOVE_FAR", dec 1);
    ("SENSOR_PREVIEW_MODE", dec 0); ("SENSOR_SNAPSHOT_MODE", dec 1);
    ("SENSOR_RAW_SNAPSHOT_MODE", dec 2); ("SENSOR_HFR_60FPS_MODE", dec 3);
    ("SENSOR_HFR_90FPS_MODE", dec 4); ("SENSOR_HFR_120FPS_MODE", dec 5);
    ("SENSOR_QTR_SIZE", dec 0); ("SENSOR_FULL_SIZE", dec 1); ("SENSOR_QVGA_SIZE", dec 2);
    ("SENSOR_INVALID_SIZE", dec 3); ("CAMERA_EFFECT_OFF", dec 0); ("CAMERA_EFFECT_MONO", dec 1);
    ("CAMERA_EFFECT_NEGATIVE", dec 2); ("CAMERA_EFFECT_SOLARIZE", dec 3);
    ("CAMERA_EFFECT_SEPIA", dec 4); ("CAMERA_EFFECT_POSTERIZE", dec 5);
    ("CAMERA_EFFECT_WHITEBOARD", dec 6); ("CAMERA_EFFECT_BLACKBOARD", dec 7);
    ("CAMERA_EFFECT_AQUA", dec 8); ("CAMERA_EFFECT_EMBOSS", dec 9);
    ("CAMERA_EFFECT_SKETCH", dec 10); ("CAMERA_EFFECT_NEON", dec 11);
    ("CAMERA_EFFECT_FADED", dec 12); ("CAMERA_EFFECT_VINTAGECOOL", dec 13);
    ("CAMERA_EFFECT_VINTAGEWARM", dec 14); ("CAMERA_EFFECT_ACCENT_BLUE", dec 15);
    ("CAMERA_EFFECT_ACCENT_GREEN", dec 16); ("CAMERA_EFFECT_ACCENT_ORANGE", dec 17);
    ("CAMERA_EFFECT_MAX", dec 18); ("CAMERA_EFFECT_BW", dec 10);
    ("CAMERA_EFFECT_BLUISH", dec 12); ("CAMERA_EFFECT_REDDISH", dec 13);
    ("CAMERA_EFFECT_GREENISH", dec 14); ("CAMERA_ANTIBANDING_OFF", dec 0);
    ("CAMERA_ANTIBANDING_50HZ", dec 2); ("CAMERA_ANTIBANDING_60HZ", dec 1);
    ("CAMERA_ANTIBANDING_AUTO", dec 3); ("CAMERA_CONTRAST_LV0", dec 0);
    ("CAMERA_CONTRAST_LV1", dec 1); ("CAMERA_CONTRAST_LV2", dec 2);
    ("CAMERA_CONTRAST_LV3", dec 3); ("CAMERA_CONTRAST_LV4", dec 4);
    ("CAMERA_CONTRAST_LV5", dec 5); ("CAMERA_CONTRAST_LV6", dec 6);
    ("CAMERA_CONTRAST_LV7", dec 7); ("CAMERA_CONTRAST_LV8", dec 8);
    ("CAMERA_CONTRAST_LV9", dec 9); ("CAMERA_BRIGHTNESS_LV0", dec 0);
    ("CAMERA_BRIGHTNESS_LV1", dec 1); ("CAMERA_BRIGHTNESS_LV2", dec 2);
    ("CAMERA_BRIGHTNESS_LV3", dec 3); ("CAMERA_BRIGHTNESS_LV4", dec 4);
    ("CAMERA_BRIGHTNESS_LV5", dec 5); ("CAMERA_BRIGHTNESS_LV6", dec 6);
    ("CAMERA_BRIGHTNESS_LV7", dec 7); ("CAMERA_BRIGHTNESS_LV8", dec 8);
    ("CAMERA_SATURATION_LV0", dec 0); ("CAMERA_SATURATION_LV1", dec 1);
    ("CAMERA_SATURATION_LV2", dec 2); ("CAMERA_SATURATION_LV3", dec 3);
    ("CAMERA_SATURATION_LV4", dec 4); ("CAMERA_SATURATION_LV5", dec 5);
    ("CAMERA_SATURATION_LV6", dec 6); ("CAMERA_SATURATION_LV7", dec 7);
    ("CAMERA_SATURATION_LV8", dec 8); ("CAMERA_SHARPNESS_LV0", dec 0);
    ("CAMERA_SHARPNESS_LV1", dec 3); ("CAMERA_SHARPNESS_LV2", dec 6);
    ("CAMERA_SHARPNESS_LV3", dec 9); ("CAMERA_SHARPNESS_LV4", dec 12);
    ("CAMERA_SHARPNESS_LV5", dec 15); ("CAMERA_SHARPNESS_LV6", dec 18);
    ("CAMERA_SHARPNESS_LV7", dec 21); ("CAMERA_SHARPNESS_LV8", dec 24);
    ("CAMERA_SHARPNESS_LV9", dec 27); ("CAMERA_SHARPNESS_LV10", dec 30)]].
Definition defs_CAMERA_SETAE_AVERAGE : list decl := [
  Defines [
    ("CAMERA_SETAE_AVERAGE", dec 0); ("CAMERA_SETAE_CENWEIGHT", dec 1);
    ("CAMERA_WB_AUTO", dec 1); ("CAMERA_WB_CUSTOM", dec 2); ("CAMERA_WB_INCANDESCENT", dec 3);
    ("CAMERA_WB_FLUORESCENT", dec 4); ("CAMERA_WB_DAYLIGHT", dec 5);
    ("CAMERA_WB_CLOUDY_DAYLIGHT", dec 6); ("CAMERA_WB_TWILIGHT", dec 7);
    ("CAMERA_WB_SHADE", dec 8); ("CAMERA_EXPOSURE_COMPENSATION_LV0", dec 12);
    ("CAMERA_EXPOSURE_COMPENSATION_LV1", dec 6); ("CAMERA_EXPOSURE_COMPENSATION_LV2", dec 0);
    ("CAMERA_EXPOSURE_COMPENSATION_LV3", Neg (dec 6));
    ("CAMERA_EXPOSURE_COMPENSATION_LV4", Neg (dec 12))];
  Enum [
    ("MSM_V4L2_SATURATION_L0", None); ("MSM_V4L2_SATURATION_L1", None);
    ("MSM_V4L2_SATURATION_L2", None); ("MSM_V4L2_SATURATION_L3", None);
    ("MSM_V4L2_SATURATION_L4", None); ("MSM_V4L2_SATURATION_L5", None);
    ("MSM_V4L2_SATURATION_L6", None); ("MSM_V4L2_SATURATION_L7", None);
    ("MSM_V4L2_SATURATION_L8", None); ("MSM_V4L2_SATURATION_L9", None);
    ("MSM_V4L2_SATURATION_L10", None)];
  Enum [
    ("MSM_V4L2_CONTRAST_L0", None); ("MSM_V4L2_CONTRAST_L1", None);
    ("MSM_V4L2_CONTRAST_L2", None); ("MSM_V4L2_CONTRAST_L3", None);
    ("MSM_V4L2_CONTRAST_L4", None); ("MSM_V4L2_CONTRAST_L5", None);
    ("MSM_V4L2_CONTRAST_L6", None); ("MSM_V4L2_CONTRAST_L7", None);
    ("MSM_V4L2_CONTRAST_L8", None); ("MSM_V4L2_CONTRAST_L9", None);
    ("MSM_V4L2_CONTRAST_L10", None)];
  Enum [
    ("MSM_V4L2_EXPOSURE_N2", None); ("MSM_V4L2_EXPOSURE_N1", None);
    ("MSM_V4L2_EXPOSURE_D", None); ("MSM_V4L2_EXPOSURE_P1", None); ("MSM_V4L2_EXPOSURE_P2", None)];
  Enum [
    ("MSM_V4L2_SHARPNESS_L0", None); ("MSM_V4L2_SHARPNESS_L1", None);
    ("MSM_V4L2_SHARPNESS_L2", None); ("MSM_V4L2_SHARPNESS_L3", None);
    ("MSM_V4L2_SHARPNESS_L4", None); ("MSM_V4L2_SHARPNESS_L5", None);
    ("MSM_V4L2_SHARPNESS_L6", None)];
  Enum [
    ("MSM_V4L2_EXP_FRAME_AVERAGE", None); ("MSM_V4L2_EXP_CENTER_WEIGHTED", None);
    ("MSM_V4L2_EXP_SPOT_METERING", None)];
  Enum [
    ("MSM_V4L2_ISO_AUTO", Some (dec 0)); ("MSM_V4L2_ISO_DEBLUR", None);
    ("MSM_V4L2_ISO_100", None); ("MSM_V4L2_ISO_200", None); ("MSM_V4L2_ISO_400", None);
    ("MSM_V4L2_ISO_800", None); ("MSM_V4L2_ISO_1600", None)];
  Enum [
    ("MSM_V4L2_WB_OFF", None); ("MSM_V4L2_WB_AUTO", None); ("MSM_V4L2_WB_CUSTOM", None);
    ("MSM_V4L2_WB_INCANDESCENT", None); ("MSM_V4L2_WB_FLUORESCENT", None);
    ("MSM_V4L2_WB_DAYLIGHT", None); ("MSM_V4L2_WB_CLOUDY_DAYLIGHT", None)];
  Enum [
    ("MSM_V4L2_EFFECT_OFF", None); ("MSM_V4L2_EFFECT_MONO", None);
    ("MSM_V4L2_EFFECT_NEGATIVE", None); ("MSM_V4L2_EFFECT_SOLARIZE", None);
    ("MSM_V4L2_EFFECT_SEPIA", None); ("MSM_V4L2_EFFECT_POSTERAIZE", None);
    ("MSM_V4L2_EFFECT_WHITEBOARD", None); ("MSM_V4L2_EFFECT_BLACKBOARD", None);
    ("MSM_V4L2_EFFECT_AQUA", None); ("MSM_V4L2_EFFECT_EMBOSS", None);
    ("MSM_V4L2_EFFECT_SKETCH", None); ("MSM_V4L2_EFFECT_NEON", None);
    ("MSM_V4L2_EFFECT_MAX", None)];
  Enum [
    ("MSM_V4L2_POWER_LINE_OFF", None); ("MSM_V4L2_POWER_LINE_60HZ", None);
    ("MSM_V4L2_POWER_LINE_50HZ", None); ("MSM_V4L2_POWER_LINE_AUTO", None)];
  Defines [
    ("CAMERA_ISO_TYPE_AUTO", dec 0); ("CAMEAR_ISO_TYPE_HJR", dec 1);
    ("CAMEAR_ISO_TYPE_100", dec 2); ("CAMERA_ISO_TYPE_200", dec 3);
    ("CAMERA_ISO_TYPE_400", dec 4); ("CAMEAR_ISO_TYPE_800", dec 5);
    ("CAMERA_ISO_TYPE_1600", dec 6)]].
Definition enum_msm_sensor_resolution_t : list decl := [
  Enum [
    ("MSM_SENSOR_RES_FULL", None); ("MSM_SENSOR_RES_QTR", None); ("MSM_SENSOR_RES_2", None);
    ("MSM_SENSOR_RES_3", None); ("MSM_SENSOR_RES_4", None); ("MSM_SENSOR_RES_5", None);
    ("MSM_SENSOR_RES_6", None); ("MSM_SENSOR_RES_7", None); ("MSM_SENSOR_INVALID_RES", None)]].
Definition enum_msm_camera_csi_data_format : list decl := [
  Enum [
    ("CSI_8BIT", None); ("CSI_10BIT", None); ("CSI_12BIT", None)]].
Definition defs_CSI_EMBED_DATA : list decl := [
  Defines [
    ("CSI_EMBED_DATA", hex 0x12); ("CSI_RESERVED_DATA_0", hex 0x13); ("CSI_YUV422_8", hex 0x1E);
    ("CSI_RAW8", hex 0x2A); ("CSI_RAW10", hex 0x2B); ("CSI_RAW12", hex 0x2C);
    ("CSI_DECODE_6BIT", dec 0); ("CSI_DECODE_8BIT", dec 1); ("CSI_DECODE_10BIT", dec 2);
    ("CSI_DECODE_DPCM_10_8_10", dec 5); ("ISPIF_ON_FRAME_BOUNDARY", Shl (hex 0x01) (dec 0));
    ("ISPIF_OFF_FRAME_BOUNDARY", Shl (hex 0x01) (dec 1));
    ("ISPIF_OFF_IMMEDIATELY", Shl (hex 0x01) (dec 2)); ("ISPIF_S_STREAM_SHIFT", dec 4);
    ("ISPIF_VFE_INTF_SHIFT", dec 12); ("PIX_0", Shl (hex 0x01) (dec 0));
    ("RDI_0", Shl (hex 0x01) (dec 1)); ("PIX_1", Shl (hex 0x01) (dec 2));
    ("RDI_1", Shl (hex 0x01) (dec 3)); ("RDI_2", Shl (hex 0x01) (dec 4))];
  Enum [
    ("VFE0", None); ("VFE1", None); ("VFE_MAX", None)];
  Enum [
    ("PIX0", None); ("RDI0", None); ("PIX1", None); ("RDI1", None); ("RDI2", None);
    ("INTF_MAX", None)];
  Enum [
    ("VC0", None); ("VC1", None); ("VC2", None); ("VC3", None)];
  Enum [
    ("CID0", None); ("CID1", None); ("CID2", None); ("CID3", None); ("CID4", None);
    ("CID5", None); ("CID6", None); ("CID7", None); ("CID8", None); ("CID9", None);
    ("CID10", None); ("CID11", None); ("CID12", None); ("CID13", None); ("CID14", None);
    ("CID15", None)]].
Definition enum_ispif_cfg_type_t : list decl := [
  Enum [
    ("ISPIF_INIT", None); ("ISPIF_SET_CFG", None); ("ISPIF_SET_ON_FRAME_BOUNDARY", None);
    ("ISPIF_SET_OFF_FRAME_BOUNDARY", None); ("ISPIF_SET_OFF_IMMEDIATELY", None);
    ("ISPIF_RELEASE", None)]].
Definition enum_msm_camera_i2c_reg_addr_type : list decl := [
  Enum [
    ("MSM_CAMERA_I2C_BYTE_ADDR", Some (dec 1)); ("MSM_CAMERA_I2C_WORD_ADDR", None);
    ("MSM_CAMERA_I2C_3B_ADDR", None); ("MSM_CAMERA_I2C_DWORD_ADDR", None)]].
Definition enum_msm_camera_i2c_data_type : list decl := [
  Enum [
    ("MSM_CAMERA_I2C_BYTE_DATA", Some (dec 1)); ("MSM_CAMERA_I2C_WORD_DATA", None);
    ("MSM_CAMERA_I2C_SET_BYTE_MASK", None); ("MSM_CAMERA_I2C_UNSET_BYTE_MASK", None);
    ("MSM_CAMERA_I2C_SET_WORD_MASK", None); ("MSM_CAMERA_I2C_UNSET_WORD_MASK", None);
    ("MSM_CAMERA_I2C_SET_BYTE_WRITE_MASK_DATA", None)]].
Definition enum_oem_setting_type : list decl := [
  Enum [
    ("I2C_READ", Some (dec 1)); ("I2C_WRITE", None); ("GPIO_OP", None); ("EEPROM_READ", None);
    ("VREG_SET", None); ("CLK_SET", None)]].
Definition enum_camera_vreg_type : list decl := [
  Enum [
    ("REG_LDO", None); ("REG_VS", None); ("REG_GPIO", None)];
  Enum [
    ("CAM_VDIG", None); ("CAM_VIO", None); ("CAM_VANA", None); ("CAM_VAF", None);
    ("CAM_VREG_MAX", None)]].
Definition enum_gpio_operation_type : list decl := [
  Enum [
    ("GPIO_REQUEST", None); ("GPIO_FREE", None); ("GPIO_SET_DIRECTION_OUTPUT", None);
    ("GPIO_SET_DIRECTION_INPUT", None); ("GPIO_GET_VALUE", None); ("GPIO_SET_VALUE", None)]].
Definition enum_actuator_type : list decl := [
  Enum [
    ("ACTUATOR_VCM", None); ("ACTUATOR_PIEZO", None); ("ACTUATOR_HVCM", None);
    ("ACTUATOR_BIVCM", None)]].
Definition enum_msm_actuator_write_type : list decl := [
  Enum [
    ("MSM_ACTUATOR_WRITE_HW_DAMP", None); ("MSM_ACTUATOR_WRITE_DAC", None);
    ("MSM_ACTUATOR_WRITE", None); ("MSM_ACTUATOR_WRITE_DIR_REG", None);
    ("MSM_ACTUATOR_POLL", None); ("MSM_ACTUATOR_READ_WRITE", None)]].
Definition enum_af_camera_name : list decl := [
  Enum [
    ("ACTUATOR_MAIN_CAM_0", None); ("ACTUATOR_MAIN_CAM_1", None); ("ACTUATOR_MAIN_CAM_2", None);
    ("ACTUATOR_MAIN_CAM_3", None); ("ACTUATOR_MAIN_CAM_4", None); ("ACTUATOR_MAIN_CAM_5", None);
    ("ACTUATOR_WEB_CAM_0", None); ("ACTUATOR_WEB_CAM_1", None); ("ACTUATOR_WEB_CAM_2", None)]].
Definition enum_sensor_type_t : list decl := [
  Enum [
    ("BAYER", None); ("YUV", None); ("JPEG_SOC", None)]].
Definition enum_strobe_flash_ctrl_type : list decl := [
  Enum [
    ("STROBE_FLASH_CTRL_INIT", None); ("STROBE_FLASH_CTRL_CHARGE", None);
    ("STROBE_FLASH_CTRL_RELEASE", None)]].
Definition defs_GET_NAME : list decl := [
  Defines [
    ("GET_NAME", dec 0); ("GET_PREVIEW_LINE_PER_FRAME", dec 1);
    ("GET_PREVIEW_PIXELS_PER_LINE", dec 2); ("GET_SNAPSHOT_LINE_PER_FRAME", dec 3);
    ("GET_SNAPSHOT_PIXELS_PER_LINE", dec 4); ("GET_SNAPSHOT_FPS", dec 5);
    ("GET_SNAPSHOT_MAX_EP_LINE_CNT", dec 6)]].
Definition defs_V4L2_SINGLE_PLANE : list decl := [
  Defines [
    ("V4L2_SINGLE_PLANE", dec 0); ("V4L2_MULTI_PLANE_Y", dec 0);
    ("V4L2_MULTI_PLANE_CBCR", dec 1); ("V4L2_MULTI_PLANE_CB", dec 1);
    ("V4L2_MULTI_PLANE_CR", dec 2)]].
Definition enum_msm_cam_subdev_type : list decl := [
  Enum [
    ("CSIPHY_DEV", None); ("CSID_DEV", None); ("CSIC_DEV", None); ("ISPIF_DEV", None);
    ("VFE_DEV", None); ("AXI_DEV", None); ("VPE_DEV", None); ("SENSOR_DEV", None);
    ("ACTUATOR_DEV", None); ("EEPROM_DEV", None); ("GESTURE_DEV", None);
    ("IRQ_ROUTER_DEV", None); ("CPP_DEV", None); ("CCI_DEV", None); ("FLASH_DEV", None)]].
Definition enum_msm_camss_irq_idx : list decl := [
  Enum [
    ("CAMERA_SS_IRQ_0", None); ("CAMERA_SS_IRQ_1", None); ("CAMERA_SS_IRQ_2", None);
    ("CAMERA_SS_IRQ_3", None); ("CAMERA_SS_IRQ_4", None); ("CAMERA_SS_IRQ_5", None);
    ("CAMERA_SS_IRQ_6", None); ("CAMERA_SS_IRQ_7", None); ("CAMERA_SS_IRQ_8", None);
    ("CAMERA_SS_IRQ_9", None); ("CAMERA_SS_IRQ_10", None); ("CAMERA_SS_IRQ_11", None);
    ("CAMERA_SS_IRQ_12", None); ("CAMERA_SS_IRQ_MAX", None)];
  Enum [
    ("MSM_CAM_HW_MICRO", None); ("MSM_CAM_HW_CCI", None); ("MSM_CAM_HW_CSI0", None);
    ("MSM_CAM_HW_CSI1", None); ("MSM_CAM_HW_CSI2", None); ("MSM_CAM_HW_CSI3", None);
    ("MSM_CAM_HW_ISPIF", None); ("MSM_CAM_HW_CPP", None); ("MSM_CAM_HW_VFE0", None);
    ("MSM_CAM_HW_VFE1", None); ("MSM_CAM_HW_JPEG0", None); ("MSM_CAM_HW_JPEG1", None);
    ("MSM_CAM_HW_JPEG2", None); ("MSM_CAM_HW_MAX", None)]].
Definition header : header :=
  Header "media/msm_camera.h" [Videodev2.header] (concat [
    macro_BIT; defs_MSM_CAMERA_LED_OFF; defs_MSM_CAM_RESP_CTRL; defs_CMD_GENERAL;
    defs_MSM_PMEM_OUTPUT1; defs_VIDEO_NODE; defs_MSM_MEM_MMAP; enum_msm_st_frame_packing;
    defs_MSM_V4L2_EXT_CAPTURE_MODE_DEFAULT; defs_CFG_SET_MODE; defs_CAMERA_SETAE_AVERAGE;
    enum_msm_sensor_resolution_t; enum_msm_camera_csi_data_format; defs_CSI_EMBED_DATA;
    enum_ispif_cfg_type_t; enum_msm_camera_i2c_reg_addr_type; enum_msm_camera_i2c_data_type;
    enum_oem_setting_type; enum_camera_vreg_type; enum_gpio_operation_type; enum_actuator_type;
    enum_msm_actuator_write_type; enum_af_camera_name; enum_sensor_type_t;
    enum_strobe_flash_ctrl_type; defs_GET_NAME; defs_V4L2_SINGLE_PLANE; enum_msm_cam_subdev_type;
    enum_msm_camss_irq_idx]).
End Media_msm_camera.

(** ** [media/msm_camsensor_sdk.h] *)

Module Media_msm_camsensor_sdk.
Definition defs_KVERSION : list decl := [
  Defines [
    ("KVERSION", hex 0x1); ("MAX_POWER_CONFIG", dec 12); ("GPIO_OUT_LOW", Shl (dec 0) (dec 1));
    ("GPIO_OUT_HIGH", Shl (dec 1) (dec 1)); ("CSI_EMBED_DATA", hex 0x12);
    ("CSI_RESERVED_DATA_0", hex 0x13); ("CSI_YUV422_8", hex 0x1E); ("CSI_RAW8", hex 0x2A);
    ("CSI_RAW10", hex 0x2B); ("CSI_RAW12", hex 0x2C); ("CSI_DECODE_6BIT", dec 0);
    ("CSI_DECODE_8BIT", dec 1); ("CSI_DECODE_10BIT", dec 2); ("CSI_DECODE_12BIT", dec 3);
    ("CSI_DECODE_DPCM_10_6_10", dec 4); ("CSI_DECODE_DPCM_10_8_10", dec 5); ("MAX_CID", dec 16);
    ("I2C_SEQ_REG_DATA_MAX", dec 1024); ("I2C_REG_DATA_MAX", Mul (dec 8) (dec 1024))]].
Definition defs_MAX_ACTUATOR_REG_TBL_SIZE : list decl := [
  Defines [
    ("MAX_ACTUATOR_REG_TBL_SIZE", dec 8); ("MAX_ACTUATOR_REGION", dec 5);
    ("NUM_ACTUATOR_DIR", dec 2); ("MAX_ACTUATOR_SCENARIO", dec 8);
    ("MAX_ACT_MOD_NAME_SIZE", dec 32); ("MAX_ACT_NAME_SIZE", dec 32);
    ("MAX_ACTUATOR_INIT_SET", dec 120); ("MAX_I2C_REG_SET", dec 12); ("MAX_LED_TRIGGERS", dec 3);
    ("MSM_EEPROM_MEMORY_MAP_MAX_SIZE", dec 80); ("MSM_EEPROM_MAX_MEM_MAP_CNT", dec 8);
    ("MSM_SENSOR_BYPASS_VIDEO_NODE", dec 1)]].
Definition enum_msm_sensor_camera_id_t : list decl := [
  Enum [
    ("CAMERA_0", None); ("CAMERA_1", None); ("CAMERA_2", None); ("CAMERA_3", None);
    ("MAX_CAMERAS", None)];
  Enum [
    ("I2C_STANDARD_MODE", None); ("I2C_FAST_MODE", None); ("I2C_CUSTOM_MODE", None);
    ("I2C_FAST_PLUS_MODE", None); ("I2C_MAX_MODES", None)];
  Enum [
    ("BACK_CAMERA_B", None); ("FRONT_CAMERA_B", None); ("AUX_CAMERA_B", Some (hex 0x100));
    ("FRONT_AUX_CAMERA_B", None); ("INVALID_CAMERA_B", None)];
  Enum [
    ("SENSOR_CLK", None); ("SENSOR_GPIO", None); ("SENSOR_VREG", None); ("SENSOR_I2C_MUX", None);
    ("SENSOR_I2C", None)];
  Enum [
    ("MSM_CAMERA_I2C_BYTE_ADDR", Some (dec 1)); ("MSM_CAMERA_I2C_WORD_ADDR", None);
    ("MSM_CAMERA_I2C_3B_ADDR", None); ("MSM_CAMERA_I2C_DWORD_ADDR", None);
    ("MSM_CAMERA_I2C_ADDR_TYPE_MAX", None)]].
Definition enum_msm_camera_i2c_data_type : list decl := [
  Enum [
    ("MSM_CAMERA_I2C_BYTE_DATA", Some (dec 1)); ("MSM_CAMERA_I2C_WORD_DATA", None);
    ("MSM_CAMERA_I2C_DWORD_DATA", None); ("MSM_CAMERA_I2C_SET_BYTE_MASK", None);
    ("MSM_CAMERA_I2C_UNSET_BYTE_MASK", None); ("MSM_CAMERA_I2C_SET_WORD_MASK", None);
    ("MSM_CAMERA_I2C_UNSET_WORD_MASK", None); ("MSM_CAMERA_I2C_SET_BYTE_WRITE_MASK_DATA", None);
    ("MSM_CAMERA_I2C_DATA_TYPE_MAX", None)];
  Enum [
    ("SENSOR_GPIO_RESET", None); ("SENSOR_GPIO_STANDBY", None); ("SENSOR_GPIO_AF_PWDM", None);
    ("SENSOR_GPIO_VIO", None); ("SENSOR_GPIO_VANA", None); ("SENSOR_GPIO_VDIG", None);
    ("SENSOR_GPIO_VAF", None); ("SENSOR_GPIO_FL_EN", None); ("SENSOR_GPIO_FL_NOW", None);
    ("SENSOR_GPIO_FL_RESET", None); ("SENSOR_GPIO_CUSTOM1", None); ("SENSOR_GPIO_CUSTOM2", None);
    ("SENSOR_GPIO_CUSTOM3", None); ("SENSOR_GPIO_MAX", None)]].
Definition enum_msm_ir_cut_filter_gpio_t : list decl := [
  Enum [
    ("IR_CUT_FILTER_GPIO_P", Some (dec 0)); ("IR_CUT_FILTER_GPIO_M", None);
    ("IR_CUT_FILTER_GPIO_MAX", None)]].
Definition defs_R_CUT_FILTER_GPIO_MAX : list decl := [
  Defines [
    ("R_CUT_FILTER_GPIO_MAX", Id "IR_CUT_FILTER_GPIO_MAX")];
  Enum [
    ("CAM_VDIG", None); ("CAM_VIO", None); ("CAM_VANA", None); ("CAM_VAF", None);
    ("CAM_V_CUSTOM1", None); ("CAM_V_CUSTOM2", None); ("CAM_VREG_MAX", None)];
  Enum [
    ("SENSOR_CAM_MCLK", None); ("SENSOR_CAM_CLK", None); ("SENSOR_CAM_CLK_MAX", None)];
  Enum [
    ("CAMERA_MODE_2D_B", Some (Shl (dec 1) (dec 0)));
    ("CAMERA_MODE_3D_B", Some (Shl (dec 1) (dec 1)));
    ("CAMERA_MODE_INVALID", Some (Shl (dec 1) (dec 2)))]].
Definition enum_msm_actuator_write_type : list decl := [
  Enum [
    ("MSM_ACTUATOR_WRITE_HW_DAMP", None); ("MSM_ACTUATOR_WRITE_DAC", None);
    ("MSM_ACTUATOR_WRITE", None); ("MSM_ACTUATOR_WRITE_DIR_REG", None);
    ("MSM_ACTUATOR_POLL", None); ("MSM_ACTUATOR_READ_WRITE", None)]].
Definition enum_actuator_type : list decl := [
  Enum [
    ("ACTUATOR_VCM", None); ("ACTUATOR_PIEZO", None); ("ACTUATOR_HVCM", None);
    ("ACTUATOR_BIVCM", None)];
  Enum [
    ("FLASH_DRIVER_PMIC", None); ("FLASH_DRIVER_I2C", None); ("FLASH_DRIVER_GPIO", None);
    ("FLASH_DRIVER_DEFAULT", None)];
  Enum [
    ("CFG_FLASH_INIT", None); ("CFG_FLASH_RELEASE", None); ("CFG_FLASH_OFF", None);
    ("CFG_FLASH_LOW", None); ("CFG_FLASH_HIGH", None)];
  Enum [
    ("CFG_IR_LED_INIT", Some (dec 0)); ("CFG_IR_LED_RELEASE", None); ("CFG_IR_LED_OFF", None);
    ("CFG_IR_LED_ON", None)]].
Definition enum_msm_ir_cut_cfg_type_t : list decl := [
  Enum [
    ("CFG_IR_CUT_INIT", Some (dec 0)); ("CFG_IR_CUT_RELEASE", None); ("CFG_IR_CUT_OFF", None);
    ("CFG_IR_CUT_ON", None)]].
Definition enum_msm_sensor_output_format_t : list decl := [
  Enum [
    ("MSM_SENSOR_BAYER", None); ("MSM_SENSOR_YCBCR", None); ("MSM_SENSOR_META", None)]].
Definition enum_msm_camera_i2c_operation : list decl := [
  Enum [
    ("MSM_CAM_WRITE", Some (dec 0)); ("MSM_CAM_POLL", None); ("MSM_CAM_READ", None)]].
Definition header : header :=
  Header "media/msm_camsensor_sdk.h" [] (concat [
    defs_KVERSION; defs_MAX_ACTUATOR_REG_TBL_SIZE; enum_msm_sensor_camera_id_t;
    enum_msm_camera_i2c_data_type; enum_msm_ir_cut_filter_gpio_t; defs_R_CUT_FILTER_GPIO_MAX;
    enum_msm_actuator_write_type; enum_actuator_type; enum_msm_ir_cut_cfg_type_t;
    enum_msm_sensor_output_format_t; enum_msm_camera_i2c_operation]).
End Media_msm_camsensor_sdk.

(** ** [media/msm_fd.h] *)

Module Media_msm_fd.
Definition enum_msm_fd_pose : list decl := [
  Enum [
    ("MSM_FD_POSE_FRONT", None); ("MSM_FD_POSE_RIGHT_DIAGONAL", None);
    ("MSM_FD_POSE_RIGHT", None); ("MSM_FD_POSE_LEFT_DIAGONAL", None); ("MSM_FD_POSE_LEFT", None)]].
Definition defs_MSM_EVENT_FD : list decl := [
  Defines [
    ("MSM_EVENT_FD", Id "V4L2_EVENT_PRIVATE_START");
    ("V4L2_CID_FD_SPEED", Id "V4L2_CID_PRIVATE_BASE");
    ("V4L2_CID_FD_FACE_ANGLE", Add (Id "V4L2_CID_PRIVATE_BASE") (dec 1));
    ("V4L2_CID_FD_MIN_FACE_SIZE", Add (Id "V4L2_CID_PRIVATE_BASE") (dec 2));
    ("V4L2_CID_FD_FACE_DIRECTION", Add (Id "V4L2_CID_PRIVATE_BASE") (dec 3));
    ("V4L2_CID_FD_DETECTION_THRESHOLD", Add (Id "V4L2_CID_PRIVATE_BASE") (dec 4));
    ("V4L2_CID_FD_WORK_MEMORY_SIZE", Add (Id "V4L2_CID_PRIVATE_BASE") (dec 5));
    ("V4L2_CID_FD_WORK_MEMORY_FD", Add (Id "V4L2_CID_PRIVATE_BASE") (dec 6))]].
Definition header : header :=
  Header "media/msm_fd.h" [Videodev2.header] (concat [
    enum_msm_fd_pose; defs_MSM_EVENT_FD]).
End Media_msm_fd.

(** ** [media/msm_gemini.h] *)

Module Media_msm_gemini.
Definition defs_MSM_GEMINI_MODE_REALTIME_ENCODE : list decl := [
  Defines [
    ("MSM_GEMINI_MODE_REALTIME_ENCODE", dec 0); ("MSM_GEMINI_MODE_OFFLINE_ENCODE", dec 1);
    ("MSM_GEMINI_MODE_REALTIME_ROTATION", dec 2); ("MSM_GEMINI_MODE_OFFLINE_ROTATION", dec 3)]].
Definition defs_MSM_GEMINI_HW_CMD_TYPE_READ : list decl := [
  Defines [
    ("MSM_GEMINI_HW_CMD_TYPE_READ", dec 0); ("MSM_GEMINI_HW_CMD_TYPE_WRITE", dec 1);
    ("MSM_GEMINI_HW_CMD_TYPE_WRITE_OR", dec 2); ("MSM_GEMINI_HW_CMD_TYPE_UWAIT", dec 3);
    ("MSM_GEMINI_HW_CMD_TYPE_MWAIT", dec 4); ("MSM_GEMINI_HW_CMD_TYPE_MDELAY", dec 5);
    ("MSM_GEMINI_HW_CMD_TYPE_UDELAY", dec 6)]].
Definition header : header :=
  Header "media/msm_gemini.h" [] (concat [
    defs_MSM_GEMINI_MODE_REALTIME_ENCODE; defs_MSM_GEMINI_HW_CMD_TYPE_READ]).
End Media_msm_gemini.

(** ** [media/msm_gestures.h] *)

Module Media_msm_gestures.
Definition defs_MSM_GES_RESP_V4L2 : list decl := [
  Defines [
    ("MSM_GES_RESP_V4L2", Id "MSM_CAM_RESP_MAX");
    ("MSM_GES_RESP_MAX", Add (Id "MSM_GES_RESP_V4L2") (dec 1));
    ("MSM_SVR_RESP_MAX", Id "MSM_GES_RESP_MAX"); ("MSM_V4L2_GES_BASE", dec 100);
    ("MSM_V4L2_GES_OPEN", Add (Id "MSM_V4L2_GES_BASE") (dec 0));
    ("MSM_V4L2_GES_CLOSE", Add (Id "MSM_V4L2_GES_BASE") (dec 1));
    ("MSM_V4L2_GES_CAM_OPEN", Add (Id "MSM_V4L2_GES_BASE") (dec 2));
    ("MSM_V4L2_GES_CAM_CLOSE", Add (Id "MSM_V4L2_GES_BASE") (dec 3));
    ("MSM_GES_APP_EVT_MIN", Add (Id "V4L2_EVENT_PRIVATE_START") (hex 0x14));
    ("MSM_GES_APP_NOTIFY_EVENT", Add (Id "MSM_GES_APP_EVT_MIN") (dec 0));
    ("MSM_GES_APP_NOTIFY_ERROR_EVENT", Add (Id "MSM_GES_APP_EVT_MIN") (dec 1));
    ("MSM_GES_APP_EVT_MAX", Add (Id "MSM_GES_APP_EVT_MIN") (dec 2));
    ("MSM_GESTURE_CID_CTRL_CMD", Id "V4L2_CID_BRIGHTNESS"); ("MAX_GES_EVENTS", dec 25)]].
Definition header : header :=
  Header "media/msm_gestures.h" [V4l2_controls.header; Videodev2.header; Media_msm_camera.header] (concat [
    defs_MSM_GES_RESP_V4L2]).
End Media_msm_gestures.

(** ** [media/msm_isp.h] *)

Module Media_msm_isp.
Definition macro_BIT : list decl := [
  Define_fun "BIT" ["nr"] (Shl (decUL 1) (Id "nr"))].
Definition defs_MSG_ID_RESET_ACK : list decl := [
  Defines [
    ("MSG_ID_RESET_ACK", dec 0); ("MSG_ID_START_ACK", dec 1); ("MSG_ID_STOP_ACK", dec 2);
    ("MSG_ID_UPDATE_ACK", dec 3); ("MSG_ID_OUTPUT_P", dec 4); ("MSG_ID_OUTPUT_T", dec 5);
    ("MSG_ID_OUTPUT_S", dec 6); ("MSG_ID_OUTPUT_V", dec 7); ("MSG_ID_SNAPSHOT_DONE", dec 8);
    ("MSG_ID_STATS_AEC", dec 9); ("MSG_ID_STATS_AF", dec 10); ("MSG_ID_STATS_AWB", dec 11);
    ("MSG_ID_STATS_RS", dec 12); ("MSG_ID_STATS_CS", dec 13); ("MSG_ID_STATS_IHIST", dec 14);
    ("MSG_ID_STATS_SKIN", dec 15); ("MSG_ID_EPOCH1", dec 16); ("MSG_ID_EPOCH2", dec 17);
    ("MSG_ID_SYNC_TIMER0_DONE", dec 18); ("MSG_ID_SYNC_TIMER1_DONE", dec 19);
    ("MSG_ID_SYNC_TIMER2_DONE", dec 20); ("MSG_ID_ASYNC_TIMER0_DONE", dec 21);
    ("MSG_ID_ASYNC_TIMER1_DONE", dec 22); ("MSG_ID_ASYNC_TIMER2_DONE", dec 23);
    ("MSG_ID_ASYNC_TIMER3_DONE", dec 24); ("MSG_ID_AE_OVERFLOW", dec 25);
    ("MSG_ID_AF_OVERFLOW", dec 26); ("MSG_ID_AWB_OVERFLOW", dec 27);
    ("MSG_ID_RS_OVERFLOW", dec 28); ("MSG_ID_CS_OVERFLOW", dec 29);
    ("MSG_ID_IHIST_OVERFLOW", dec 30); ("MSG_ID_SKIN_OVERFLOW", dec 31);
    ("MSG_ID_AXI_ERROR", dec 32); ("MSG_ID_CAMIF_OVERFLOW", dec 33);
    ("MSG_ID_VIOLATION", dec 34); ("MSG_ID_CAMIF_ERROR", dec 35);
    ("MSG_ID_BUS_OVERFLOW", dec 36); ("MSG_ID_SOF_ACK", dec 37); ("MSG_ID_STOP_REC_ACK", dec 38);
    ("MSG_ID_STATS_AWB_AEC", dec 39); ("MSG_ID_OUTPUT_PRIMARY", dec 40);
    ("MSG_ID_OUTPUT_SECONDARY", dec 41); ("MSG_ID_STATS_COMPOSITE", dec 42);
    ("MSG_ID_OUTPUT_TERTIARY1", dec 43); ("MSG_ID_STOP_LS_ACK", dec 44);
    ("MSG_ID_OUTPUT_TERTIARY2", dec 45); ("MSG_ID_STATS_BG", dec 46);
    ("MSG_ID_STATS_BF", dec 47); ("MSG_ID_STATS_BHIST", dec 48);
    ("MSG_ID_RDI0_UPDATE_ACK", dec 49); ("MSG_ID_RDI1_UPDATE_ACK", dec 50);
    ("MSG_ID_RDI2_UPDATE_ACK", dec 51); ("MSG_ID_PIX0_UPDATE_ACK", dec 52);
    ("MSG_ID_PREV_STOP_ACK", dec 53); ("MSG_ID_STATS_BE", dec 54); ("VFE_CMD_DUMMY_0", dec 0);
    ("VFE_CMD_SET_CLK", dec 1); ("VFE_CMD_RESET", dec 2); ("VFE_CMD_START", dec 3);
    ("VFE_CMD_TEST_GEN_START", dec 4); ("VFE_CMD_OPERATION_CFG", dec 5);
    ("VFE_CMD_AXI_OUT_CFG", dec 6); ("VFE_CMD_CAMIF_CFG", dec 7);
    ("VFE_CMD_AXI_INPUT_CFG", dec 8); ("VFE_CMD_BLACK_LEVEL_CFG", dec 9);
    ("VFE_CMD_MESH_ROLL_OFF_CFG", dec 10); ("VFE_CMD_DEMUX_CFG", dec 11);
    ("VFE_CMD_FOV_CFG", dec 12); ("VFE_CMD_MAIN_SCALER_CFG", dec 13); ("VFE_CMD_WB_CFG", dec 14);
    ("VFE_CMD_COLOR_COR_CFG", dec 15); ("VFE_CMD_RGB_G_CFG", dec 16); ("VFE_CMD_LA_CFG", dec 17);
    ("VFE_CMD_CHROMA_EN_CFG", dec 18); ("VFE_CMD_CHROMA_SUP_CFG", dec 19);
    ("VFE_CMD_MCE_CFG", dec 20); ("VFE_CMD_SK_ENHAN_CFG", dec 21); ("VFE_CMD_ASF_CFG", dec 22);
    ("VFE_CMD_S2Y_CFG", dec 23); ("VFE_CMD_S2CbCr_CFG", dec 24);
    ("VFE_CMD_CHROMA_SUBS_CFG", dec 25); ("VFE_CMD_OUT_CLAMP_CFG", dec 26);
    ("VFE_CMD_FRAME_SKIP_CFG", dec 27); ("VFE_CMD_DUMMY_1", dec 28); ("VFE_CMD_DUMMY_2", dec 29);
    ("VFE_CMD_DUMMY_3", dec 30); ("VFE_CMD_UPDATE", dec 31); ("VFE_CMD_BL_LVL_UPDATE", dec 32);
    ("VFE_CMD_DEMUX_UPDATE", dec 33); ("VFE_CMD_FOV_UPDATE", dec 34);
    ("VFE_CMD_MAIN_SCALER_UPDATE", dec 35); ("VFE_CMD_WB_UPDATE", dec 36);
    ("VFE_CMD_COLOR_COR_UPDATE", dec 37); ("VFE_CMD_RGB_G_UPDATE", dec 38);
    ("VFE_CMD_LA_UPDATE", dec 39); ("VFE_CMD_CHROMA_EN_UPDATE", dec 40);
    ("VFE_CMD_CHROMA_SUP_UPDATE", dec 41); ("VFE_CMD_MCE_UPDATE", dec 42);
    ("VFE_CMD_SK_ENHAN_UPDATE", dec 43); ("VFE_CMD_S2CbCr_UPDATE", dec 44);
    ("VFE_CMD_S2Y_UPDATE", dec 45); ("VFE_CMD_ASF_UPDATE", dec 46);
    ("VFE_CMD_FRAME_SKIP_UPDATE", dec 47); ("VFE_CMD_CAMIF_FRAME_UPDATE", dec 48);
    ("VFE_CMD_STATS_AF_UPDATE", dec 49); ("VFE_CMD_STATS_AE_UPDATE", dec 50);
    ("VFE_CMD_STATS_AWB_UPDATE", dec 51); ("VFE_CMD_STATS_RS_UPDATE", dec 52);
    ("VFE_CMD_STATS_CS_UPDATE", dec 53); ("VFE_CMD_STATS_SKIN_UPDATE", dec 54);
    ("VFE_CMD_STATS_IHIST_UPDATE", dec 55); ("VFE_CMD_DUMMY_4", dec 56);
    ("VFE_CMD_EPOCH1_ACK", dec 57); ("VFE_CMD_EPOCH2_ACK", dec 58);
    ("VFE_CMD_START_RECORDING", dec 59); ("VFE_CMD_STOP_RECORDING", dec 60);
    ("VFE_CMD_DUMMY_5", dec 61); ("VFE_CMD_DUMMY_6", dec 62); ("VFE_CMD_CAPTURE", dec 63);
    ("VFE_CMD_DUMMY_7", dec 64); ("VFE_CMD_STOP", dec 65); ("VFE_CMD_GET_HW_VERSION", dec 66);
    ("VFE_CMD_GET_FRAME_SKIP_COUNTS", dec 67); ("VFE_CMD_OUTPUT1_BUFFER_ENQ", dec 68);
    ("VFE_CMD_OUTPUT2_BUFFER_ENQ", dec 69); ("VFE_CMD_OUTPUT3_BUFFER_ENQ", dec 70);
    ("VFE_CMD_JPEG_OUT_BUF_ENQ", dec 71); ("VFE_CMD_RAW_OUT_BUF_ENQ", dec 72);
    ("VFE_CMD_RAW_IN_BUF_ENQ", dec 73); ("VFE_CMD_STATS_AF_ENQ", dec 74);
    ("VFE_CMD_STATS_AE_ENQ", dec 75); ("VFE_CMD_STATS_AWB_ENQ", dec 76);
    ("VFE_CMD_STATS_RS_ENQ", dec 77); ("VFE_CMD_STATS_CS_ENQ", dec 78);
    ("VFE_CMD_STATS_SKIN_ENQ", dec 79); ("VFE_CMD_STATS_IHIST_ENQ", dec 80);
    ("VFE_CMD_DUMMY_8", dec 81); ("VFE_CMD_JPEG_ENC_CFG", dec 82); ("VFE_CMD_DUMMY_9", dec 83);
    ("VFE_CMD_STATS_AF_START", dec 84); ("VFE_CMD_STATS_AF_STOP", dec 85);
    ("VFE_CMD_STATS_AE_START", dec 86); ("VFE_CMD_STATS_AE_STOP", dec 87);
    ("VFE_CMD_STATS_AWB_START", dec 88); ("VFE_CMD_STATS_AWB_STOP", dec 89);
    ("VFE_CMD_STATS_RS_START", dec 90); ("VFE_CMD_STATS_RS_STOP", dec 91)]].
Definition defs_VFE_CMD_STATS_CS_START : list decl := [
  Defines [
    ("VFE_CMD_STATS_CS_START", dec 92); ("VFE_CMD_STATS_CS_STOP", dec 93);
    ("VFE_CMD_STATS_SKIN_START", dec 94); ("VFE_CMD_STATS_SKIN_STOP", dec 95);
    ("VFE_CMD_STATS_IHIST_START", dec 96); ("VFE_CMD_STATS_IHIST_STOP", dec 97);
    ("VFE_CMD_DUMMY_10", dec 98); ("VFE_CMD_SYNC_TIMER_SETTING", dec 99);
    ("VFE_CMD_ASYNC_TIMER_SETTING", dec 100); ("VFE_CMD_LIVESHOT", dec 101);
    ("VFE_CMD_LA_SETUP", dec 102); ("VFE_CMD_LINEARIZATION_CFG", dec 103);
    ("VFE_CMD_DEMOSAICV3", dec 104); ("VFE_CMD_DEMOSAICV3_ABCC_CFG", dec 105);
    ("VFE_CMD_DEMOSAICV3_DBCC_CFG", dec 106); ("VFE_CMD_DEMOSAICV3_DBPC_CFG", dec 107);
    ("VFE_CMD_DEMOSAICV3_ABF_CFG", dec 108); ("VFE_CMD_DEMOSAICV3_ABCC_UPDATE", dec 109);
    ("VFE_CMD_DEMOSAICV3_DBCC_UPDATE", dec 110); ("VFE_CMD_DEMOSAICV3_DBPC_UPDATE", dec 111);
    ("VFE_CMD_XBAR_CFG", dec 112); ("VFE_CMD_MODULE_CFG", dec 113); ("VFE_CMD_ZSL", dec 114);
    ("VFE_CMD_LINEARIZATION_UPDATE", dec 115); ("VFE_CMD_DEMOSAICV3_ABF_UPDATE", dec 116);
    ("VFE_CMD_CLF_CFG", dec 117); ("VFE_CMD_CLF_LUMA_UPDATE", dec 118);
    ("VFE_CMD_CLF_CHROMA_UPDATE", dec 119); ("VFE_CMD_PCA_ROLL_OFF_CFG", dec 120);
    ("VFE_CMD_PCA_ROLL_OFF_UPDATE", dec 121); ("VFE_CMD_GET_REG_DUMP", dec 122);
    ("VFE_CMD_GET_LINEARIZATON_TABLE", dec 123); ("VFE_CMD_GET_MESH_ROLLOFF_TABLE", dec 124);
    ("VFE_CMD_GET_PCA_ROLLOFF_TABLE", dec 125); ("VFE_CMD_GET_RGB_G_TABLE", dec 126);
    ("VFE_CMD_GET_LA_TABLE", dec 127); ("VFE_CMD_DEMOSAICV3_UPDATE", dec 128);
    ("VFE_CMD_ACTIVE_REGION_CFG", dec 129); ("VFE_CMD_COLOR_PROCESSING_CONFIG", dec 130);
    ("VFE_CMD_STATS_WB_AEC_CONFIG", dec 131); ("VFE_CMD_STATS_WB_AEC_UPDATE", dec 132);
    ("VFE_CMD_Y_GAMMA_CONFIG", dec 133); ("VFE_CMD_SCALE_OUTPUT1_CONFIG", dec 134);
    ("VFE_CMD_SCALE_OUTPUT2_CONFIG", dec 135); ("VFE_CMD_CAPTURE_RAW", dec 136);
    ("VFE_CMD_STOP_LIVESHOT", dec 137); ("VFE_CMD_RECONFIG_VFE", dec 138);
    ("VFE_CMD_STATS_REQBUF", dec 139); ("VFE_CMD_STATS_ENQUEUEBUF", dec 140);
    ("VFE_CMD_STATS_FLUSH_BUFQ", dec 141); ("VFE_CMD_STATS_UNREGBUF", dec 142);
    ("VFE_CMD_STATS_BG_START", dec 143); ("VFE_CMD_STATS_BG_STOP", dec 144);
    ("VFE_CMD_STATS_BF_START", dec 145); ("VFE_CMD_STATS_BF_STOP", dec 146);
    ("VFE_CMD_STATS_BHIST_START", dec 147); ("VFE_CMD_STATS_BHIST_STOP", dec 148);
    ("VFE_CMD_RESET_2", dec 149); ("VFE_CMD_FOV_ENC_CFG", dec 150);
    ("VFE_CMD_FOV_VIEW_CFG", dec 151); ("VFE_CMD_FOV_ENC_UPDATE", dec 152);
    ("VFE_CMD_FOV_VIEW_UPDATE", dec 153); ("VFE_CMD_SCALER_ENC_CFG", dec 154);
    ("VFE_CMD_SCALER_VIEW_CFG", dec 155); ("VFE_CMD_SCALER_ENC_UPDATE", dec 156);
    ("VFE_CMD_SCALER_VIEW_UPDATE", dec 157); ("VFE_CMD_COLORXFORM_ENC_CFG", dec 158);
    ("VFE_CMD_COLORXFORM_VIEW_CFG", dec 159); ("VFE_CMD_COLORXFORM_ENC_UPDATE", dec 160);
    ("VFE_CMD_COLORXFORM_VIEW_UPDATE", dec 161); ("VFE_CMD_TEST_GEN_CFG", dec 162);
    ("VFE_CMD_STATS_BE_START", dec 163); ("VFE_CMD_STATS_BE_STOP", dec 164)]].
Definition defs_VPE_CMD_DUMMY_0 : list decl := [
  Defines [
    ("VPE_CMD_DUMMY_0", dec 0); ("VPE_CMD_INIT", dec 1); ("VPE_CMD_DEINIT", dec 2);
    ("VPE_CMD_ENABLE", dec 3); ("VPE_CMD_DISABLE", dec 4); ("VPE_CMD_RESET", dec 5);
    ("VPE_CMD_FLUSH", dec 6); ("VPE_CMD_OPERATION_MODE_CFG", dec 7);
    ("VPE_CMD_INPUT_PLANE_CFG", dec 8); ("VPE_CMD_OUTPUT_PLANE_CFG", dec 9);
    ("VPE_CMD_INPUT_PLANE_UPDATE", dec 10); ("VPE_CMD_SCALE_CFG_TYPE", dec 11);
    ("VPE_CMD_ZOOM", dec 13); ("VPE_CMD_MAX", dec 14); ("MSM_PP_CMD_TYPE_NOT_USED", dec 0);
    ("MSM_PP_CMD_TYPE_VPE", dec 1); ("MSM_PP_CMD_TYPE_MCTL", dec 2); ("MCTL_CMD_DUMMY_0", dec 0);
    ("MCTL_CMD_GET_FRAME_BUFFER", dec 1); ("MCTL_CMD_PUT_FRAME_BUFFER", dec 2);
    ("MCTL_CMD_DIVERT_FRAME_PP_PATH", dec 3); ("MCTL_PP_EVENT_NOTUSED", dec 0);
    ("MCTL_PP_EVENT_CMD_ACK", dec 1); ("VPE_OPERATION_MODE_CFG_LEN", dec 4);
    ("VPE_INPUT_PLANE_CFG_LEN", dec 24); ("VPE_OUTPUT_PLANE_CFG_LEN", dec 20);
    ("VPE_INPUT_PLANE_UPDATE_LEN", dec 12); ("VPE_SCALER_CONFIG_LEN", dec 260);
    ("VPE_DIS_OFFSET_CFG_LEN", dec 12); ("CAPTURE_WIDTH", dec 1280);
    ("IMEM_Y_SIZE", Mul (Id "CAPTURE_WIDTH") (dec 16));
    ("IMEM_CBCR_SIZE", Mul (Id "CAPTURE_WIDTH") (dec 8)); ("IMEM_Y_PING_OFFSET", hex 0x2E000000);
    ("IMEM_CBCR_PING_OFFSET", Add (Id "IMEM_Y_PING_OFFSET") (Id "IMEM_Y_SIZE"));
    ("IMEM_Y_PONG_OFFSET", Add (Id "IMEM_CBCR_PING_OFFSET") (Id "IMEM_CBCR_SIZE"));
    ("IMEM_CBCR_PONG_OFFSET", Add (Id "IMEM_Y_PONG_OFFSET") (Id "IMEM_Y_SIZE"))]].
Definition defs_MSM_MCTL_PP_VPE_FRAME_ACK : list decl := [
  Defines [
    ("MSM_MCTL_PP_VPE_FRAME_ACK", Shl (dec 1) (dec 0));
    ("MSM_MCTL_PP_VPE_FRAME_TO_APP", Shl (dec 1) (dec 1));
    ("VFE_OUTPUTS_MAIN_AND_PREVIEW", App "BIT" [dec 0]);
    ("VFE_OUTPUTS_MAIN_AND_VIDEO", App "BIT" [dec 1]);
    ("VFE_OUTPUTS_MAIN_AND_THUMB", App "BIT" [dec 2]);
    ("VFE_OUTPUTS_THUMB_AND_MAIN", App "BIT" [dec 3]);
    ("VFE_OUTPUTS_PREVIEW_AND_VIDEO", App "BIT" [dec 4]);
    ("VFE_OUTPUTS_VIDEO_AND_PREVIEW", App "BIT" [dec 5]);
    ("VFE_OUTPUTS_PREVIEW", App "BIT" [dec 6]); ("VFE_OUTPUTS_VIDEO", App "BIT" [dec 7]);
    ("VFE_OUTPUTS_RAW", App "BIT" [dec 8]); ("VFE_OUTPUTS_JPEG_AND_THUMB", App "BIT" [dec 9]);
    ("VFE_OUTPUTS_THUMB_AND_JPEG", App "BIT" [dec 10]); ("VFE_OUTPUTS_RDI0", App "BIT" [dec 11]);
    ("VFE_OUTPUTS_RDI1", App "BIT" [dec 12])]].
Definition header : header :=
  Header "media/msm_isp.h" [] (concat [
    macro_BIT; defs_MSG_ID_RESET_ACK; defs_VFE_CMD_STATS_CS_START; defs_VPE_CMD_DUMMY_0;
    defs_MSM_MCTL_PP_VPE_FRAME_ACK]).
End Media_msm_isp.

(** ** [media/msm_jpeg.h] *)

Module Media_msm_jpeg.
Definition defs_OUTPUT_H2V1 : list decl := [
  Defines [
    ("OUTPUT_H2V1", dec 0); ("OUTPUT_H2V2", dec 1); ("OUTPUT_BYTE", dec 6);
    ("MSM_JPEG_IOCTL_MAGIC", chr 103)]].
Definition defs_MSM_JPEG_MODE_REALTIME_ENCODE : list decl := [
  Defines [
    ("MSM_JPEG_MODE_REALTIME_ENCODE", dec 0); ("MSM_JPEG_MODE_OFFLINE_ENCODE", dec 1);
    ("MSM_JPEG_MODE_REALTIME_ROTATION", dec 2); ("MSM_JPEG_MODE_OFFLINE_ROTATION", dec 3)]].
Definition defs_MSM_JPEG_HW_CMD_TYPE_READ : list decl := [
  Defines [
    ("MSM_JPEG_HW_CMD_TYPE_READ", dec 0); ("MSM_JPEG_HW_CMD_TYPE_WRITE", dec 1);
    ("MSM_JPEG_HW_CMD_TYPE_WRITE_OR", dec 2); ("MSM_JPEG_HW_CMD_TYPE_UWAIT", dec 3);
    ("MSM_JPEG_HW_CMD_TYPE_MWAIT", dec 4); ("MSM_JPEG_HW_CMD_TYPE_MDELAY", dec 5);
    ("MSM_JPEG_HW_CMD_TYPE_UDELAY", dec 6)]].
Definition header : header :=
  Header "media/msm_jpeg.h" [] (concat [
    defs_OUTPUT_H2V1; defs_MSM_JPEG_MODE_REALTIME_ENCODE; defs_MSM_JPEG_HW_CMD_TYPE_READ]).
End Media_msm_jpeg.

(** ** [media/msm_media_info.h] *)

Module Media_msm_media_info.
Definition enum_color_fmts : list decl := [
  Enum [
    ("COLOR_FMT_NV12", None); ("COLOR_FMT_NV21", None); ("COLOR_FMT_NV12_MVTB", None);
    ("COLOR_FMT_NV12_UBWC", None); ("COLOR_FMT_NV12_BPP10_UBWC", None);
    ("COLOR_FMT_RGBA8888", None); ("COLOR_FMT_RGBA8888_UBWC", None);
    ("COLOR_FMT_RGBA1010102_UBWC", None); ("COLOR_FMT_RGB565_UBWC", None);
    ("COLOR_FMT_P010_UBWC", None)]].
Definition header : header :=
  Header "media/msm_media_info.h" [] (concat [
    enum_color_fmts]).
End Media_msm_media_info.

(** ** [media/msm_mercury.h] *)

Module Media_msm_mercury.
Definition defs_MSM_MERCURY_HW_VERSION_REG : list decl := [
  Defines [
    ("MSM_MERCURY_HW_VERSION_REG", hex 0x0004); ("OUTPUT_H2V1", dec 0); ("OUTPUT_H2V2", dec 1);
    ("OUTPUT_BYTE", dec 6); ("MSM_MERCURY_MODE_REALTIME_ENCODE", dec 0);
    ("MSM_MERCURY_MODE_OFFLINE_ENCODE", dec 1); ("MSM_MERCURY_MODE_REALTIME_ROTATION", dec 2);
    ("MSM_MERCURY_MODE_OFFLINE_ROTATION", dec 3); ("MSM_MERCURY_EVT_RESET", dec 1);
    ("MSM_MERCURY_EVT_FRAMEDONE", dec 2); ("MSM_MERCURY_EVT_ERR", dec 3);
    ("MSM_MERCURY_EVT_UNBLOCK", dec 4); ("MSM_MERCURY_HW_CMD_TYPE_READ", dec 0);
    ("MSM_MERCURY_HW_CMD_TYPE_WRITE", dec 1); ("MSM_MERCURY_HW_CMD_TYPE_WRITE_OR", dec 2);
    ("MSM_MERCURY_HW_CMD_TYPE_UWAIT", dec 3); ("MSM_MERCURY_HW_CMD_TYPE_MWAIT", dec 4);
    ("MSM_MERCURY_HW_CMD_TYPE_MDELAY", dec 5); ("MSM_MERCURY_HW_CMD_TYPE_UDELAY", dec 6);
    ("MSM_MCR_IOCTL_MAGIC", chr 103)]].
Definition header : header :=
  Header "media/msm_mercury.h" [] (concat [
    defs_MSM_MERCURY_HW_VERSION_REG]).
End Media_msm_mercury.

(** ** [media/msm_vidc.h] *)

Module Media_msm_vidc.
Definition enum_msm_vidc_extradata_type : list decl := [
  Enum [
    ("MSM_VIDC_EXTRADATA_NONE", Some (hex 0x00000000));
    ("MSM_VIDC_EXTRADATA_MB_QUANTIZATION", Some (hex 0x00000001));
    ("MSM_VIDC_EXTRADATA_INTERLACE_VIDEO", Some (hex 0x00000002));
    ("MSM_VIDC_EXTRADATA_VC1_FRAMEDISP", Some (hex 0x00000003));
    ("MSM_VIDC_EXTRADATA_VC1_SEQDISP", Some (hex 0x00000004));
    ("MSM_VIDC_EXTRADATA_TIMESTAMP", Some (hex 0x00000005));
    ("MSM_VIDC_EXTRADATA_S3D_FRAME_PACKING", Some (hex 0x00000006));
    ("MSM_VIDC_EXTRADATA_FRAME_RATE", Some (hex 0x00000007));
    ("MSM_VIDC_EXTRADATA_PANSCAN_WINDOW", Some (hex 0x00000008));
    ("MSM_VIDC_EXTRADATA_RECOVERY_POINT_SEI", Some (hex 0x00000009));
    ("MSM_VIDC_EXTRADATA_MPEG2_SEQDISP", Some (hex 0x0000000D));
    ("MSM_VIDC_EXTRADATA_STREAM_USERDATA", Some (hex 0x0000000E));
    ("MSM_VIDC_EXTRADATA_FRAME_QP", Some (hex 0x0000000F));
    ("MSM_VIDC_EXTRADATA_FRAME_BITS_INFO", Some (hex 0x00000010));
    ("MSM_VIDC_EXTRADATA_VQZIP_SEI", Some (hex 0x00000011));
    ("MSM_VIDC_EXTRADATA_ROI_QP", Some (hex 0x00000013));
    ("MSM_VIDC_EXTRADATA_MASTERING_DISPLAY_COLOUR_SEI", Some (hex 0x00000015));
    ("MSM_VIDC_EXTRADATA_CONTENT_LIGHT_LEVEL_SEI", Some (hex 0x00000016));
    ("MSM_VIDC_EXTRADATA_PQ_INFO", Some (hex 0x00000017));
    ("MSM_VIDC_EXTRADATA_INPUT_CROP", Some (hex 0x0700000E));
    ("MSM_VIDC_EXTRADATA_OUTPUT_CROP", Some (hex 0x0700000F));
    ("MSM_VIDC_EXTRADATA_DIGITAL_ZOOM", Some (hex 0x07000010));
    ("MSM_VIDC_EXTRADATA_VPX_COLORSPACE_INFO", Some (hex 0x00000014));
    ("MSM_VIDC_EXTRADATA_MULTISLICE_INFO", Some (hex 0x7F100000));
    ("MSM_VIDC_EXTRADATA_NUM_CONCEALED_MB", Some (hex 0x7F100001));
    ("MSM_VIDC_EXTRADATA_INDEX", Some (hex 0x7F100002));
    ("MSM_VIDC_EXTRADATA_ASPECT_RATIO", Some (hex 0x7F100003));
    ("MSM_VIDC_EXTRADATA_METADATA_LTR", Some (hex 0x7F100004));
    ("MSM_VIDC_EXTRADATA_METADATA_FILLER", Some (hex 0x7FE00002));
    ("MSM_VIDC_EXTRADATA_METADATA_MBI", Some (hex 0x7F100005));
    ("MSM_VIDC_EXTRADATA_VUI_DISPLAY_INFO", Some (hex 0x7F100006));
    ("MSM_VIDC_EXTRADATA_YUVSTATS_INFO", Some (hex 0x7F100007))];
  Enum [
    ("MSM_VIDC_INTERLACE_FRAME_PROGRESSIVE", Some (hex 0x01));
    ("MSM_VIDC_INTERLACE_INTERLEAVE_FRAME_TOPFIELDFIRST", Some (hex 0x02));
    ("MSM_VIDC_INTERLACE_INTERLEAVE_FRAME_BOTTOMFIELDFIRST", Some (hex 0x04));
    ("MSM_VIDC_INTERLACE_FRAME_TOPFIELDFIRST", Some (hex 0x08));
    ("MSM_VIDC_INTERLACE_FRAME_BOTTOMFIELDFIRST", Some (hex 0x10))];
  Defines [
    ("MSM_VIDC_FRAMEPACK_CHECKERBOARD", hex 0x00);
    ("MSM_VIDC_FRAMEPACK_COLUMN_INTERLEAVE", hex 0x01);
    ("MSM_VIDC_FRAMEPACK_ROW_INTERLEAVE", hex 0x02);
    ("MSM_VIDC_FRAMEPACK_SIDE_BY_SIDE", hex 0x03); ("MSM_VIDC_FRAMEPACK_TOP_BOTTOM", hex 0x04);
    ("MSM_VIDC_FRAMEPACK_TEMPORAL_INTERLEAVE", hex 0x05)];
  Enum [
    ("MSM_VIDC_FRAME_RECONSTRUCTION_INCORRECT", Some (hex 0x0));
    ("MSM_VIDC_FRAME_RECONSTRUCTION_CORRECT", Some (hex 0x01));
    ("MSM_VIDC_FRAME_RECONSTRUCTION_APPROXIMATELY_CORRECT", Some (hex 0x02))];
  Enum [
    ("MSM_VIDC_USERDATA_TYPE_FRAME", Some (hex 0x1));
    ("MSM_VIDC_USERDATA_TYPE_TOP_FIELD", Some (hex 0x2));
    ("MSM_VIDC_USERDATA_TYPE_BOTTOM_FIELD", Some (hex 0x3))];
  Enum [
    ("MSM_VIDC_RESERVED_1", Some (dec 0)); ("MSM_VIDC_BT709_5", Some (dec 1));
    ("MSM_VIDC_UNSPECIFIED", Some (dec 2)); ("MSM_VIDC_RESERVED_2", Some (dec 3));
    ("MSM_VIDC_BT470_6_M", Some (dec 4)); ("MSM_VIDC_BT601_6_625", Some (dec 5));
    ("MSM_VIDC_BT470_6_BG", Some (Id "MSM_VIDC_BT601_6_625"));
    ("MSM_VIDC_BT601_6_525", Some (dec 6)); ("MSM_VIDC_SMPTE_240M", Some (dec 7));
    ("MSM_VIDC_GENERIC_FILM", Some (dec 8)); ("MSM_VIDC_BT2020", Some (dec 9))];
  Enum [
    ("MSM_VIDC_CS_UNKNOWN", None); ("MSM_VIDC_CS_BT_601", None); ("MSM_VIDC_CS_BT_709", None);
    ("MSM_VIDC_CS_SMPTE_170", None); ("MSM_VIDC_CS_SMPTE_240", None);
    ("MSM_VIDC_CS_BT_2020", None); ("MSM_VIDC_CS_RESERVED", None); ("MSM_VIDC_CS_RGB", None)];
  Enum [
    ("MSM_VIDC_MATRIX_RGB", Some (dec 0)); ("MSM_VIDC_MATRIX_BT_709_5", Some (dec 1));
    ("MSM_VIDC_MATRIX_UNSPECIFIED", Some (dec 2)); ("MSM_VIDC_MATRIX_RESERVED", Some (dec 3));
    ("MSM_VIDC_MATRIX_FCC_47", Some (dec 4)); ("MSM_VIDC_MATRIX_601_6_625", Some (dec 5));
    ("MSM_VIDC_MATRIX_BT470_BG", Some (Id "MSM_VIDC_MATRIX_601_6_625"));
    ("MSM_VIDC_MATRIX_601_6_525", Some (dec 6));
    ("MSM_VIDC_MATRIX_SMPTE_170M", Some (Id "MSM_VIDC_MATRIX_601_6_525"));
    ("MSM_VIDC_MATRIX_SMPTE_240M", Some (dec 7)); ("MSM_VIDC_MATRIX_Y_CG_CO", Some (dec 8));
    ("MSM_VIDC_MATRIX_BT_2020", Some (dec 9)); ("MSM_VIDC_MATRIX_BT_2020_CONST", Some (dec 10))];
  Enum [
    ("MSM_VIDC_TRANSFER_RESERVED_1", Some (dec 0)); ("MSM_VIDC_TRANSFER_BT709_5", Some (dec 1));
    ("MSM_VIDC_TRANSFER_UNSPECIFIED", Some (dec 2));
    ("MSM_VIDC_TRANSFER_RESERVED_2", Some (dec 3));
    ("MSM_VIDC_TRANSFER_BT_470_6_M", Some (dec 4));
    ("MSM_VIDC_TRANSFER_BT_470_6_BG", Some (dec 5));
    ("MSM_VIDC_TRANSFER_601_6_625", Some (dec 6));
    ("MSM_VIDC_TRANSFER_601_6_525", Some (Id "MSM_VIDC_TRANSFER_601_6_625"));
    ("MSM_VIDC_TRANSFER_SMPTE_240M", Some (dec 7)); ("MSM_VIDC_TRANSFER_LINEAR", Some (dec 8));
    ("MSM_VIDC_TRANSFER_LOG_100_1", Some (dec 9));
    ("MSM_VIDC_TRANSFER_LOG_100_SQRT10_1", Some (dec 10));
    ("MSM_VIDC_TRANSFER_IEC_61966", Some (dec 11)); ("MSM_VIDC_TRANSFER_BT_1361", Some (dec 12));
    ("MSM_VIDC_TRANSFER_SRGB", Some (dec 13)); ("MSM_VIDC_TRANSFER_BT_2020_10", Some (dec 14));
    ("MSM_VIDC_TRANSFER_BT_2020_12", Some (dec 15));
    ("MSM_VIDC_TRANSFER_SMPTE_ST2084", Some (dec 16));
    ("MSM_VIDC_TRANSFER_SMPTE_ST428_1", Some (dec 17)); ("MSM_VIDC_TRANSFER_HLG", Some (dec 18))];
  Enum [
    ("MSM_VIDC_BIT_DEPTH_8", None); ("MSM_VIDC_BIT_DEPTH_10", None);
    ("MSM_VIDC_BIT_DEPTH_UNSUPPORTED", Some (hex 0xFFFFFFFF))]].
Definition enum_msm_vidc_video_format : list decl := [
  Enum [
    ("MSM_VIDC_COMPONENT", None); ("MSM_VIDC_PAL", None); ("MSM_VIDC_NTSC", None);
    ("MSM_VIDC_SECAM", None); ("MSM_VIDC_MAC", None); ("MSM_VIDC_UNSPECIFIED_FORMAT", None);
    ("MSM_VIDC_RESERVED_1_FORMAT", None); ("MSM_VIDC_RESERVED_2_FORMAT", None)]].
Definition header : header :=
  Header "media/msm_vidc.h" [] (concat [
    enum_msm_vidc_extradata_type; enum_msm_vidc_video_format]).
End Media_msm_vidc.

(** ** [media/msm_vpu.h] *)

Module Media_msm_vpu.
Definition enum_vpu_colorspace : list decl := [
  Enum [
    ("VPU_CS_MIN", Some (dec 0)); ("VPU_CS_RGB_FULL", Some (dec 1));
    ("VPU_CS_RGB_LIMITED", Some (dec 2)); ("VPU_CS_REC601_FULL", Some (dec 3));
    ("VPU_CS_REC601_LIMITED", Some (dec 4)); ("VPU_CS_REC709_FULL", Some (dec 5));
    ("VPU_CS_REC709_LIMITED", Some (dec 6)); ("VPU_CS_SMPTE240_FULL", Some (dec 7));
    ("VPU_CS_SMPTE240_LIMITED", Some (dec 8)); ("VPU_CS_MAX", Some (dec 9))];
  Defines [
    ("VPU_FMT_EXT_FLAG_BT", dec 1); ("VPU_FMT_EXT_FLAG_TB", dec 2);
    ("VPU_FMT_EXT_FLAG_3D", dec 4)]].
Definition defs_VPU_INPUT_TYPE_HOST : list decl := [
  Defines [
    ("VPU_INPUT_TYPE_HOST", dec 0); ("VPU_INPUT_TYPE_VCAP", dec 1);
    ("VPU_OUTPUT_TYPE_HOST", dec 0); ("VPU_OUTPUT_TYPE_DISPLAY", dec 1);
    ("VPU_PIPE_VCAP0", Shl (dec 1) (dec 16)); ("VPU_PIPE_VCAP1", Shl (dec 1) (dec 17));
    ("VPU_PIPE_DISPLAY0", Shl (dec 1) (dec 18)); ("VPU_PIPE_DISPLAY1", Shl (dec 1) (dec 19));
    ("VPU_PIPE_DISPLAY2", Shl (dec 1) (dec 20)); ("VPU_PIPE_DISPLAY3", Shl (dec 1) (dec 21))];
  Defines [
    ("VPU_PRIVATE_EVENT_BASE", Add (Id "V4L2_EVENT_PRIVATE_START") (Mul (dec 6) (dec 1000)))];
  Enum [
    ("VPU_EVENT_START", Some (Id "VPU_PRIVATE_EVENT_BASE"));
    ("VPU_EVENT_FLUSH_DONE", Some (Add (Id "VPU_EVENT_START") (dec 1)));
    ("VPU_EVENT_ACTIVE_REGION_CHANGED", Some (Add (Id "VPU_EVENT_START") (dec 2)));
    ("VPU_EVENT_SESSION_TIMESTAMP", Some (Add (Id "VPU_EVENT_START") (dec 3)));
    ("VPU_EVENT_SESSION_CREATED", Some (Add (Id "VPU_EVENT_START") (dec 4)));
    ("VPU_EVENT_SESSION_FREED", Some (Add (Id "VPU_EVENT_START") (dec 5)));
    ("VPU_EVENT_SESSION_CLIENT_EXITED", Some (Add (Id "VPU_EVENT_START") (dec 6)));
    ("VPU_EVENT_HW_ERROR", Some (Add (Id "VPU_EVENT_START") (dec 11)));
    ("VPU_EVENT_INVALID_CONFIG", Some (Add (Id "VPU_EVENT_START") (dec 12)));
    ("VPU_EVENT_FAILED_SESSION_STREAMING", Some (Add (Id "VPU_EVENT_START") (dec 13)));
    ("VPU_EVENT_END", None)]].
Definition defs_VPU_CTRL_ID_MIN : list decl := [
  Defines [
    ("VPU_CTRL_ID_MIN", dec 0); ("VPU_CTRL_NOISE_REDUCTION", dec 1);
    ("VPU_CTRL_IMAGE_ENHANCEMENT", dec 2); ("VPU_CTRL_ANAMORPHIC_SCALING", dec 3);
    ("VPU_CTRL_DIRECTIONAL_INTERPOLATION", dec 4); ("VPU_CTRL_BACKGROUND_COLOR", dec 5);
    ("VPU_CTRL_RANGE_MAPPING", dec 6); ("VPU_CTRL_DEINTERLACING_MODE", dec 7);
    ("VPU_CTRL_ACTIVE_REGION_PARAM", dec 8); ("VPU_CTRL_ACTIVE_REGION_RESULT", dec 9);
    ("VPU_CTRL_PRIORITY", dec 10); ("VPU_CTRL_CONTENT_PROTECTION", dec 11);
    ("VPU_CTRL_DISPLAY_REFRESH_RATE", dec 12); ("VPU_CTRL_HQV", dec 20);
    ("VPU_CTRL_HQV_SHARPEN", dec 21); ("VPU_CTRL_HQV_AUTONR", dec 22); ("VPU_CTRL_ACE", dec 23);
    ("VPU_CTRL_ACE_BRIGHTNESS", dec 24); ("VPU_CTRL_ACE_CONTRAST", dec 25);
    ("VPU_CTRL_2D3D", dec 26); ("VPU_CTRL_2D3D_DEPTH", dec 27); ("VPU_CTRL_FRC", dec 28);
    ("VPU_CTRL_FRC_MOTION_SMOOTHNESS", dec 29); ("VPU_CTRL_FRC_MOTION_CLEAR", dec 30);
    ("VPU_INFO_TIMESTAMP", dec 35); ("VPU_CTRL_TIMESTAMP_INFO_MODE", dec 36);
    ("VPU_INFO_STATISTICS", dec 37); ("VPU_CTRL_LATENCY", dec 38);
    ("VPU_CTRL_LATENCY_MODE", dec 39); ("VPU_CTRL_ID_MAX", dec 40)]].
Definition header : header :=
  Header "media/msm_vpu.h" [Videodev2.header] (concat [
    enum_vpu_colorspace; defs_VPU_INPUT_TYPE_HOST; defs_VPU_CTRL_ID_MIN]).
End Media_msm_vpu.

(** ** [media/msmb_camera.h] *)

Module Media_msmb_camera.
Definition defs_MSM_CAMERA_SUBDEV_CSIPHY : list decl := [
  Defines [
    ("MSM_CAMERA_SUBDEV_CSIPHY", dec 0); ("MSM_CAMERA_SUBDEV_CSID", dec 1);
    ("MSM_CAMERA_SUBDEV_ISPIF", dec 2); ("MSM_CAMERA_SUBDEV_VFE", dec 3);
    ("MSM_CAMERA_SUBDEV_AXI", dec 4); ("MSM_CAMERA_SUBDEV_VPE", dec 5);
    ("MSM_CAMERA_SUBDEV_SENSOR", dec 6); ("MSM_CAMERA_SUBDEV_ACTUATOR", dec 7);
    ("MSM_CAMERA_SUBDEV_EEPROM", dec 8); ("MSM_CAMERA_SUBDEV_CPP", dec 9);
    ("MSM_CAMERA_SUBDEV_CCI", dec 10); ("MSM_CAMERA_SUBDEV_LED_FLASH", dec 11);
    ("MSM_CAMERA_SUBDEV_STROBE_FLASH", dec 12); ("MSM_CAMERA_SUBDEV_BUF_MNGR", dec 13);
    ("MSM_CAMERA_SUBDEV_SENSOR_INIT", dec 14); ("MSM_CAMERA_SUBDEV_OIS", dec 15);
    ("MSM_CAMERA_SUBDEV_FLASH", dec 16); ("MSM_CAMERA_SUBDEV_IR_LED", dec 17);
    ("MSM_CAMERA_SUBDEV_IR_CUT", dec 18); ("MSM_CAMERA_SUBDEV_EXT", dec 19);
    ("MSM_CAMERA_SUBDEV_TOF", dec 20); ("MSM_CAMERA_SUBDEV_LASER_LED", dec 21);
    ("MSM_MAX_CAMERA_SENSORS", dec 6)];
  Defines [
    ("MSM_CAMERA_MAX_STREAM_BUF", dec 72); ("MSM_CAMERA_MAX_USER_BUFF_CNT", dec 16);
    ("MSM_CAMERA_FEATURE_BASE", hex 0x00010000);
    ("MSM_CAMERA_FEATURE_SHUTDOWN", Add (Id "MSM_CAMERA_FEATURE_BASE") (dec 1));
    ("MSM_CAMERA_STATUS_BASE", hex 0x00020000);
    ("MSM_CAMERA_STATUS_FAIL", Add (Id "MSM_CAMERA_STATUS_BASE") (dec 1));
    ("MSM_CAMERA_STATUS_SUCCESS", Add (Id "MSM_CAMERA_STATUS_BASE") (dec 2));
    ("MSM_CAMERA_V4L2_EVENT_TYPE", Add (Id "V4L2_EVENT_PRIVATE_START") (hex 0x00002000));
    ("MSM_CAMERA_EVENT_MIN", dec 0);
    ("MSM_CAMERA_NEW_SESSION", Add (Id "MSM_CAMERA_EVENT_MIN") (dec 1));
    ("MSM_CAMERA_DEL_SESSION", Add (Id "MSM_CAMERA_EVENT_MIN") (dec 2));
    ("MSM_CAMERA_SET_PARM", Add (Id "MSM_CAMERA_EVENT_MIN") (dec 3));
    ("MSM_CAMERA_GET_PARM", Add (Id "MSM_CAMERA_EVENT_MIN") (dec 4));
    ("MSM_CAMERA_MAPPING_CFG", Add (Id "MSM_CAMERA_EVENT_MIN") (dec 5));
    ("MSM_CAMERA_MAPPING_SES", Add (Id "MSM_CAMERA_EVENT_MIN") (dec 6));
    ("MSM_CAMERA_MSM_NOTIFY", Add (Id "MSM_CAMERA_EVENT_MIN") (dec 7));
    ("MSM_CAMERA_EVENT_MAX", Add (Id "MSM_CAMERA_EVENT_MIN") (dec 8));
    ("MSM_CAMERA_PRIV_S_CROP", Add (Id "V4L2_CID_PRIVATE_BASE") (dec 1));
    ("MSM_CAMERA_PRIV_G_CROP", Add (Id "V4L2_CID_PRIVATE_BASE") (dec 2));
    ("MSM_CAMERA_PRIV_G_FMT", Add (Id "V4L2_CID_PRIVATE_BASE") (dec 3));
    ("MSM_CAMERA_PRIV_S_FMT", Add (Id "V4L2_CID_PRIVATE_BASE") (dec 4));
    ("MSM_CAMERA_PRIV_TRY_FMT", Add (Id "V4L2_CID_PRIVATE_BASE") (dec 5));
    ("MSM_CAMERA_PRIV_METADATA", Add (Id "V4L2_CID_PRIVATE_BASE") (dec 6));
    ("MSM_CAMERA_PRIV_QUERY_CAP", Add (Id "V4L2_CID_PRIVATE_BASE") (dec 7));
    ("MSM_CAMERA_PRIV_STREAM_ON", Add (Id "V4L2_CID_PRIVATE_BASE") (dec 8));
    ("MSM_CAMERA_PRIV_STREAM_OFF", Add (Id "V4L2_CID_PRIVATE_BASE") (dec 9));
    ("MSM_CAMERA_PRIV_NEW_STREAM", Add (Id "V4L2_CID_PRIVATE_BASE") (dec 10));
    ("MSM_CAMERA_PRIV_DEL_STREAM", Add (Id "V4L2_CID_PRIVATE_BASE") (dec 11));
    ("MSM_CAMERA_PRIV_SHUTDOWN", Add (Id "V4L2_CID_PRIVATE_BASE") (dec 12));
    ("MSM_CAMERA_PRIV_STREAM_INFO_SYNC", Add (Id "V4L2_CID_PRIVATE_BASE") (dec 13));
    ("MSM_CAMERA_PRIV_G_SESSION_ID", Add (Id "V4L2_CID_PRIVATE_BASE") (dec 14));
    ("MSM_CAMERA_PRIV_CMD_MAX", dec 20); ("MSM_CAMERA_CMD_SUCESS", hex 0x00000001);
    ("MSM_CAMERA_BUF_MAP_SUCESS", hex 0x00000002); ("MSM_CAMERA_ERR_EVT_BASE", hex 0x00010000);
    ("MSM_CAMERA_ERR_CMD_FAIL", Add (Id "MSM_CAMERA_ERR_EVT_BASE") (dec 1));
    ("MSM_CAMERA_ERR_MAPPING", Add (Id "MSM_CAMERA_ERR_EVT_BASE") (dec 2));
    ("MSM_CAMERA_ERR_DEVICE_BUSY", Add (Id "MSM_CAMERA_ERR_EVT_BASE") (dec 3));
    ("MSM_CAMERA_CMD_SUCCESS", hex 0x00000001); ("MSM_CAMERA_BUF_MAP_SUCCESS", hex 0x00000002)]].
Definition enum_smmu_attach_mode : list decl := [
  Enum [
    ("NON_SECURE_MODE", Some (hex 0x01)); ("SECURE_MODE", Some (hex 0x02));
    ("MAX_PROTECTION_MODE", Some (hex 0x03))]].
Definition header : header :=
  Header "media/msmb_camera.h" [Videodev2.header] (concat [
    defs_MSM_CAMERA_SUBDEV_CSIPHY; enum_smmu_attach_mode]).
End Media_msmb_camera.

(** ** [media/msmb_generic_buf_mgr.h] *)

Module Media_msmb_generic_buf_mgr.
Definition enum_msm_camera_buf_mngr_cmd : list decl := [
  Enum [
    ("MSM_CAMERA_BUF_MNGR_CONT_MAP", None); ("MSM_CAMERA_BUF_MNGR_CONT_UNMAP", None);
    ("MSM_CAMERA_BUF_MNGR_CONT_MAX", None)];
  Enum [
    ("MSM_CAMERA_BUF_MNGR_BUF_PLANAR", None); ("MSM_CAMERA_BUF_MNGR_BUF_USER", None);
    ("MSM_CAMERA_BUF_MNGR_BUF_INVALID", None)]].
Definition header : header :=
  Header "media/msmb_generic_buf_mgr.h" [] (concat [
    enum_msm_camera_buf_mngr_cmd]).
End Media_msmb_generic_buf_mgr.

(** ** [media/msmb_isp.h] *)

Module Media_msmb_isp.
Definition defs_MAX_PLANES_PER_STREAM : list decl := [
  Defines [
    ("MAX_PLANES_PER_STREAM", dec 3); ("MAX_NUM_STREAM", dec 7); ("ISP_VERSION_48", dec 48);
    ("ISP_VERSION_47", dec 47); ("ISP_VERSION_46", dec 46); ("ISP_VERSION_44", dec 44);
    ("ISP_VERSION_40", dec 40); ("ISP_VERSION_32", dec 32);
    ("ISP_NATIVE_BUF_BIT", Shl (hex 0x10000) (dec 0)); ("ISP0_BIT", Shl (hex 0x10000) (dec 1));
    ("ISP1_BIT", Shl (hex 0x10000) (dec 2)); ("ISP_META_CHANNEL_BIT", Shl (hex 0x10000) (dec 3));
    ("ISP_SCRATCH_BUF_BIT", Shl (hex 0x10000) (dec 4));
    ("ISP_OFFLINE_STATS_BIT", Shl (hex 0x10000) (dec 5));
    ("ISP_SVHDR_IN_BIT", Shl (hex 0x10000) (dec 6));
    ("ISP_SVHDR_OUT_BIT", Shl (hex 0x10000) (dec 7)); ("ISP_STATS_STREAM_BIT", hex 0x80000000);
    ("VFE_HW_LIMIT", dec 1); ("ISP_KERNEL_STATE", dec 1)]].
Definition enum_ISP_START_PIXEL_PATTERN : list decl := [
  Enum [
    ("ISP_BAYER_RGRGRG", None); ("ISP_BAYER_GRGRGR", None); ("ISP_BAYER_BGBGBG", None);
    ("ISP_BAYER_GBGBGB", None); ("ISP_YUV_YCbYCr", None); ("ISP_YUV_YCrYCb", None);
    ("ISP_YUV_CbYCrY", None); ("ISP_YUV_CrYCbY", None); ("ISP_PIX_PATTERN_MAX", None)];
  Enum [
    ("Y_PLANE", None); ("CB_PLANE", None); ("CR_PLANE", None); ("CRCB_PLANE", None);
    ("CBCR_PLANE", None); ("VFE_PLANE_FMT_MAX", None)];
  Enum [
    ("VFE_PIX_0", None); ("VFE_RAW_0", None); ("VFE_RAW_1", None); ("VFE_RAW_2", None);
    ("VFE_SRC_MAX", None)];
  Enum [
    ("PIX_ENCODER", None); ("PIX_VIEWFINDER", None); ("PIX_VIDEO", None); ("CAMIF_RAW", None);
    ("IDEAL_RAW", None); ("RDI_INTF_0", None); ("RDI_INTF_1", None); ("RDI_INTF_2", None);
    ("VFE_AXI_SRC_MAX", None)];
  Enum [
    ("NO_SKIP", None); ("EVERY_2FRAME", None); ("EVERY_3FRAME", None); ("EVERY_4FRAME", None);
    ("EVERY_5FRAME", None); ("EVERY_6FRAME", None); ("EVERY_7FRAME", None);
    ("EVERY_8FRAME", None); ("EVERY_16FRAME", None); ("EVERY_32FRAME", None); ("SKIP_ALL", None);
    ("SKIP_RANGE", None); ("MAX_SKIP", None)]].
Definition enum_msm_isp_stats_type : list decl := [
  Enum [
    ("MSM_ISP_STATS_AEC", None); ("MSM_ISP_STATS_AF", None); ("MSM_ISP_STATS_AWB", None);
    ("MSM_ISP_STATS_RS", None); ("MSM_ISP_STATS_CS", None); ("MSM_ISP_STATS_IHIST", None);
    ("MSM_ISP_STATS_SKIN", None); ("MSM_ISP_STATS_BG", None); ("MSM_ISP_STATS_BF", None);
    ("MSM_ISP_STATS_BE", None); ("MSM_ISP_STATS_BHIST", None); ("MSM_ISP_STATS_BF_SCALE", None);
    ("MSM_ISP_STATS_HDR_BE", None); ("MSM_ISP_STATS_HDR_BHIST", None);
    ("MSM_ISP_STATS_AEC_BG", None); ("MSM_ISP_STATS_MAX", None)]].
Definition enum_msm_vfe_testgen_color_pattern : list decl := [
  Enum [
    ("COLOR_BAR_8_COLOR", None); ("UNICOLOR_WHITE", None); ("UNICOLOR_YELLOW", None);
    ("UNICOLOR_CYAN", None); ("UNICOLOR_GREEN", None); ("UNICOLOR_MAGENTA", None);
    ("UNICOLOR_RED", None); ("UNICOLOR_BLUE", None); ("UNICOLOR_BLACK", None);
    ("MAX_COLOR", None)];
  Enum [
    ("CAMIF_DISABLED", None); ("CAMIF_PAD_REG_INPUT", None); ("CAMIF_MIDDI_INPUT", None);
    ("CAMIF_MIPI_INPUT", None)]].
Definition enum_msm_vfe_camif_output_format : list decl := [
  Enum [
    ("CAMIF_QCOM_RAW", None); ("CAMIF_MIPI_RAW", None); ("CAMIF_PLAIN_8", None);
    ("CAMIF_PLAIN_16", None); ("CAMIF_MAX_FORMAT", None)]].
Definition enum_msm_vfe_inputmux : list decl := [
  Enum [
    ("CAMIF", None); ("TESTGEN", None); ("EXTERNAL_READ", None)];
  Enum [
    ("STATS_COMPOSITE_GRP_NONE", None); ("STATS_COMPOSITE_GRP_1", None);
    ("STATS_COMPOSITE_GRP_2", None); ("STATS_COMPOSITE_GRP_MAX", None)];
  Enum [
    ("HVX_DISABLE", None); ("HVX_ONE_WAY", None); ("HVX_ROUND_TRIP", None)]].
Definition enum_msm_vfe_fetch_eng_pass : list decl := [
  Enum [
    ("OFFLINE_FIRST_PASS", None); ("OFFLINE_SECOND_PASS", None); ("OFFLINE_MAX_PASS", None)]].
Definition enum_msm_stream_rdi_input_type : list decl := [
  Enum [
    ("MSM_CAMERA_RDI_MIN", None); ("MSM_CAMERA_RDI_PDAF", None); ("MSM_CAMERA_RDI_MAX", None)]].
Definition enum_msm_vfe_axi_stream_cmd : list decl := [
  Enum [
    ("STOP_STREAM", None); ("START_STREAM", None); ("STOP_IMMEDIATELY", None)]].
Definition enum_msm_vfe_axi_stream_update_type : list decl := [
  Enum [
    ("ENABLE_STREAM_BUF_DIVERT", None); ("DISABLE_STREAM_BUF_DIVERT", None);
    ("UPDATE_STREAM_FRAMEDROP_PATTERN", None); ("UPDATE_STREAM_STATS_FRAMEDROP_PATTERN", None);
    ("UPDATE_STREAM_AXI_CONFIG", None); ("UPDATE_STREAM_REQUEST_FRAMES", None);
    ("UPDATE_STREAM_ADD_BUFQ", None); ("UPDATE_STREAM_REMOVE_BUFQ", None);
    ("UPDATE_STREAM_SW_FRAME_DROP", None); ("UPDATE_STREAM_REQUEST_FRAMES_VER2", None);
    ("UPDATE_STREAM_OFFLINE_AXI_CONFIG", None)]].
Definition enum_msm_vfe_buff_queue_id : list decl := [
  Enum [
    ("VFE_BUF_QUEUE_DEFAULT", None); ("VFE_BUF_QUEUE_SHARED", None); ("VFE_BUF_QUEUE_MAX", None)]].
Definition enum_msm_vfe_reg_cfg_type : list decl := [
  Enum [
    ("VFE_WRITE", None); ("VFE_WRITE_MB", None); ("VFE_READ", None); ("VFE_CFG_MASK", None);
    ("VFE_WRITE_DMI_16BIT", None); ("VFE_WRITE_DMI_32BIT", None); ("VFE_WRITE_DMI_64BIT", None);
    ("VFE_READ_DMI_16BIT", None); ("VFE_READ_DMI_32BIT", None); ("VFE_READ_DMI_64BIT", None);
    ("GET_MAX_CLK_RATE", None); ("GET_CLK_RATES", None); ("GET_ISP_ID", None);
    ("VFE_HW_UPDATE_LOCK", None); ("VFE_HW_UPDATE_UNLOCK", None); ("SET_WM_UB_SIZE", None);
    ("SET_UB_POLICY", None); ("GET_VFE_HW_LIMIT", None)]].
Definition enum_vfe_sd_type : list decl := [
  Enum [
    ("VFE_SD_0", Some (dec 0)); ("VFE_SD_1", None); ("VFE_SD_COMMON", None); ("VFE_SD_MAX", None)]].
Definition enum_msm_vfe_dual_hw_type : list decl := [
  Enum [
    ("DUAL_NONE", Some (dec 0)); ("DUAL_HW_VFE_SPLIT", Some (dec 1));
    ("DUAL_HW_MASTER_SLAVE", Some (dec 2))];
  Enum [
    ("MS_TYPE_NONE", None); ("MS_TYPE_MASTER", None); ("MS_TYPE_SLAVE", None)]].
Definition enum_msm_isp_buf_type : list decl := [
  Enum [
    ("ISP_PRIVATE_BUF", None); ("ISP_SHARE_BUF", None); ("MAX_ISP_BUF_TYPE", None)]].
Definition enum_msm_isp_event_mask_index : list decl := [
  Enum [
    ("ISP_EVENT_MASK_INDEX_STATS_NOTIFY", Some (dec 0));
    ("ISP_EVENT_MASK_INDEX_ERROR", Some (dec 1));
    ("ISP_EVENT_MASK_INDEX_IOMMU_P_FAULT", Some (dec 2));
    ("ISP_EVENT_MASK_INDEX_STREAM_UPDATE_DONE", Some (dec 3));
    ("ISP_EVENT_MASK_INDEX_REG_UPDATE", Some (dec 4));
    ("ISP_EVENT_MASK_INDEX_SOF", Some (dec 5));
    ("ISP_EVENT_MASK_INDEX_BUF_DIVERT", Some (dec 6));
    ("ISP_EVENT_MASK_INDEX_COMP_STATS_NOTIFY", Some (dec 7));
    ("ISP_EVENT_MASK_INDEX_MASK_FE_READ_DONE", Some (dec 8));
    ("ISP_EVENT_MASK_INDEX_BUF_DONE", Some (dec 9));
    ("ISP_EVENT_MASK_INDEX_REG_UPDATE_MISSING", Some (dec 10));
    ("ISP_EVENT_MASK_INDEX_PING_PONG_MISMATCH", Some (dec 11));
    ("ISP_EVENT_MASK_INDEX_BUF_FATAL_ERROR", Some (dec 12))];
  Defines [
    ("ISP_EVENT_SUBS_MASK_NONE", dec 0);
    ("ISP_EVENT_SUBS_MASK_STATS_NOTIFY", Shl (dec 1) (Id "ISP_EVENT_MASK_INDEX_STATS_NOTIFY"));
    ("ISP_EVENT_SUBS_MASK_ERROR", Shl (dec 1) (Id "ISP_EVENT_MASK_INDEX_ERROR"));
    ("ISP_EVENT_SUBS_MASK_IOMMU_P_FAULT", Shl (dec 1) (Id "ISP_EVENT_MASK_INDEX_IOMMU_P_FAULT"));
    ("ISP_EVENT_SUBS_MASK_STREAM_UPDATE_DONE", Shl (dec 1) (Id "ISP_EVENT_MASK_INDEX_STREAM_UPDATE_DONE"));
    ("ISP_EVENT_SUBS_MASK_REG_UPDATE", Shl (dec 1) (Id "ISP_EVENT_MASK_INDEX_REG_UPDATE"));
    ("ISP_EVENT_SUBS_MASK_SOF", Shl (dec 1) (Id "ISP_EVENT_MASK_INDEX_SOF"));
    ("ISP_EVENT_SUBS_MASK_BUF_DIVERT", Shl (dec 1) (Id "ISP_EVENT_MASK_INDEX_BUF_DIVERT"));
    ("ISP_EVENT_SUBS_MASK_COMP_STATS_NOTIFY", Shl (dec 1) (Id "ISP_EVENT_MASK_INDEX_COMP_STATS_NOTIFY"));
    ("ISP_EVENT_SUBS_MASK_FE_READ_DONE", Shl (dec 1) (Id "ISP_EVENT_MASK_INDEX_MASK_FE_READ_DONE"));
    ("ISP_EVENT_SUBS_MASK_BUF_DONE", Shl (dec 1) (Id "ISP_EVENT_MASK_INDEX_BUF_DONE"));
    ("ISP_EVENT_SUBS_MASK_REG_UPDATE_MISSING", Shl (dec 1) (Id "ISP_EVENT_MASK_INDEX_REG_UPDATE_MISSING"));
    ("ISP_EVENT_SUBS_MASK_PING_PONG_MISMATCH", Shl (dec 1) (Id "ISP_EVENT_MASK_INDEX_PING_PONG_MISMATCH"));
    ("ISP_EVENT_SUBS_MASK_BUF_FATAL_ERROR", Shl (dec 1) (Id "ISP_EVENT_MASK_INDEX_BUF_FATAL_ERROR"))];
  Enum [
    ("ISP_REG_UPDATE", Some (dec 0)); ("ISP_EPOCH_0", Some (dec 1));
    ("ISP_EPOCH_1", Some (dec 2)); ("ISP_START_ACK", Some (dec 3));
    ("ISP_STOP_ACK", Some (dec 4)); ("ISP_IRQ_VIOLATION", Some (dec 5));
    ("ISP_STATS_OVERFLOW", Some (dec 6)); ("ISP_BUF_DONE", Some (dec 7));
    ("ISP_FE_RD_DONE", Some (dec 8)); ("ISP_IOMMU_P_FAULT", Some (dec 9));
    ("ISP_ERROR", Some (dec 10)); ("ISP_HW_FATAL_ERROR", Some (dec 11));
    ("ISP_PING_PONG_MISMATCH", Some (dec 12)); ("ISP_REG_UPDATE_MISSING", Some (dec 13));
    ("ISP_BUF_FATAL_ERROR", Some (dec 14)); ("ISP_EVENT_MAX", Some (dec 15))];
  Defines [
    ("ISP_EVENT_OFFSET", dec 8); ("ISP_EVENT_BASE", Id "V4L2_EVENT_PRIVATE_START");
    ("ISP_BUF_EVENT_BASE", Add (Id "ISP_EVENT_BASE") (Shl (dec 1) (Id "ISP_EVENT_OFFSET")));
    ("ISP_STATS_EVENT_BASE", Add (Id "ISP_EVENT_BASE") (Shl (dec 2) (Id "ISP_EVENT_OFFSET")));
    ("ISP_CAMIF_EVENT_BASE", Add (Id "ISP_EVENT_BASE") (Shl (dec 3) (Id "ISP_EVENT_OFFSET")));
    ("ISP_STREAM_EVENT_BASE", Add (Id "ISP_EVENT_BASE") (Shl (dec 4) (Id "ISP_EVENT_OFFSET")));
    ("ISP_EVENT_REG_UPDATE", Add (Id "ISP_EVENT_BASE") (Id "ISP_REG_UPDATE"));
    ("ISP_EVENT_EPOCH_0", Add (Id "ISP_EVENT_BASE") (Id "ISP_EPOCH_0"));
    ("ISP_EVENT_EPOCH_1", Add (Id "ISP_EVENT_BASE") (Id "ISP_EPOCH_1"));
    ("ISP_EVENT_START_ACK", Add (Id "ISP_EVENT_BASE") (Id "ISP_START_ACK"));
    ("ISP_EVENT_STOP_ACK", Add (Id "ISP_EVENT_BASE") (Id "ISP_STOP_ACK"));
    ("ISP_EVENT_IRQ_VIOLATION", Add (Id "ISP_EVENT_BASE") (Id "ISP_IRQ_VIOLATION"));
    ("ISP_EVENT_STATS_OVERFLOW", Add (Id "ISP_EVENT_BASE") (Id "ISP_STATS_OVERFLOW"));
    ("ISP_EVENT_ERROR", Add (Id "ISP_EVENT_BASE") (Id "ISP_ERROR"));
    ("ISP_EVENT_SOF", Id "ISP_CAMIF_EVENT_BASE");
    ("ISP_EVENT_EOF", Add (Id "ISP_CAMIF_EVENT_BASE") (dec 1));
    ("ISP_EVENT_BUF_DONE", Add (Id "ISP_EVENT_BASE") (Id "ISP_BUF_DONE"));
    ("ISP_EVENT_BUF_DIVERT", Id "ISP_BUF_EVENT_BASE");
    ("ISP_EVENT_STATS_NOTIFY", Id "ISP_STATS_EVENT_BASE");
    ("ISP_EVENT_COMP_STATS_NOTIFY", Add (Id "ISP_EVENT_STATS_NOTIFY") (Id "MSM_ISP_STATS_MAX"));
    ("ISP_EVENT_FE_READ_DONE", Add (Id "ISP_EVENT_BASE") (Id "ISP_FE_RD_DONE"));
    ("ISP_EVENT_IOMMU_P_FAULT", Add (Id "ISP_EVENT_BASE") (Id "ISP_IOMMU_P_FAULT"));
    ("ISP_EVENT_HW_FATAL_ERROR", Add (Id "ISP_EVENT_BASE") (Id "ISP_HW_FATAL_ERROR"));
    ("ISP_EVENT_PING_PONG_MISMATCH", Add (Id "ISP_EVENT_BASE") (Id "ISP_PING_PONG_MISMATCH"));
    ("ISP_EVENT_REG_UPDATE_MISSING", Add (Id "ISP_EVENT_BASE") (Id "ISP_REG_UPDATE_MISSING"));
    ("ISP_EVENT_BUF_FATAL_ERROR", Add (Id "ISP_EVENT_BASE") (Id "ISP_BUF_FATAL_ERROR"));
    ("ISP_EVENT_STREAM_UPDATE_DONE", Id "ISP_STREAM_EVENT_BASE")]].
Definition enum_msm_vfe_error_type : list decl := [
  Enum [
    ("ISP_ERROR_NONE", None); ("ISP_ERROR_CAMIF", None); ("ISP_ERROR_BUS_OVERFLOW", None);
    ("ISP_ERROR_RETURN_EMPTY_BUFFER", None); ("ISP_ERROR_FRAME_ID_MISMATCH", None);
    ("ISP_ERROR_MAX", None)]].
Definition enum_msm_vfe_ahb_clk_vote : list decl := [
  Enum [
    ("MSM_ISP_CAMERA_AHB_SVS_VOTE", Some (dec 1));
    ("MSM_ISP_CAMERA_AHB_TURBO_VOTE", Some (dec 2));
    ("MSM_ISP_CAMERA_AHB_NOMINAL_VOTE", Some (dec 3));
    ("MSM_ISP_CAMERA_AHB_SUSPEND_VOTE", Some (dec 4))]].
Definition enum_msm_isp_ioctl_cmd_code : list decl := [
  Enum [
    ("MSM_VFE_REG_CFG", Some (Id "BASE_VIDIOC_PRIVATE")); ("MSM_ISP_REQUEST_BUF", None);
    ("MSM_ISP_ENQUEUE_BUF", None); ("MSM_ISP_RELEASE_BUF", None);
    ("MSM_ISP_REQUEST_STREAM", None); ("MSM_ISP_CFG_STREAM", None);
    ("MSM_ISP_RELEASE_STREAM", None); ("MSM_ISP_INPUT_CFG", None);
    ("MSM_ISP_SET_SRC_STATE", None); ("MSM_ISP_REQUEST_STATS_STREAM", None);
    ("MSM_ISP_CFG_STATS_STREAM", None); ("MSM_ISP_RELEASE_STATS_STREAM", None);
    ("MSM_ISP_REG_UPDATE_CMD", None); ("MSM_ISP_UPDATE_STREAM", None);
    ("MSM_VFE_REG_LIST_CFG", None); ("MSM_ISP_SMMU_ATTACH", None);
    ("MSM_ISP_UPDATE_STATS_STREAM", None); ("MSM_ISP_AXI_HALT", None);
    ("MSM_ISP_AXI_RESET", None); ("MSM_ISP_AXI_RESTART", None);
    ("MSM_ISP_FETCH_ENG_START", None); ("MSM_ISP_DEQUEUE_BUF", None);
    ("MSM_ISP_SET_DUAL_HW_MASTER_SLAVE", None); ("MSM_ISP_MAP_BUF_START_FE", None);
    ("MSM_ISP_UNMAP_BUF", None); ("MSM_ISP_AHB_CLK_CFG", None);
    ("MSM_ISP_DUAL_HW_MASTER_SLAVE_SYNC", None); ("MSM_ISP_FETCH_ENG_MULTI_PASS_START", None);
    ("MSM_ISP_MAP_BUF_START_MULTI_PASS_FE", None); ("MSM_ISP_REQUEST_BUF_VER2", None);
    ("MSM_ISP_DUAL_HW_LPM_MODE", None)]].
Definition header : header :=
  Header "media/msmb_isp.h" [Videodev2.header] (concat [
    defs_MAX_PLANES_PER_STREAM; enum_ISP_START_PIXEL_PATTERN; enum_msm_isp_stats_type;
    enum_msm_vfe_testgen_color_pattern; enum_msm_vfe_camif_output_format; enum_msm_vfe_inputmux;
    enum_msm_vfe_fetch_eng_pass; enum_msm_stream_rdi_input_type; enum_msm_vfe_axi_stream_cmd;
    enum_msm_vfe_axi_stream_update_type; enum_msm_vfe_buff_queue_id; enum_msm_vfe_reg_cfg_type;
    enum_vfe_sd_type; enum_msm_vfe_dual_hw_type; enum_msm_isp_buf_type;
    enum_msm_isp_event_mask_index; enum_msm_vfe_error_type; enum_msm_vfe_ahb_clk_vote;
    enum_msm_isp_ioctl_cmd_code]).
End Media_msmb_isp.

(** ** [media/msmb_ispif.h] *)

Module Media_msmb_ispif.
Definition defs_CSID_VERSION_V20 : list decl := [
  Defines [
    ("CSID_VERSION_V20", hex 0x02000011); ("CSID_VERSION_V22", hex 0x02001000);
    ("CSID_VERSION_V30", hex 0x30000000); ("CSID_VERSION_V3", hex 0x30000000)];
  Enum [
    ("VFE0", None); ("VFE1", None); ("VFE_MAX", None)];
  Defines [
    ("VFE0_MASK", Shl (dec 1) (Id "VFE0")); ("VFE1_MASK", Shl (dec 1) (Id "VFE1"))];
  Enum [
    ("PIX0", None); ("RDI0", None); ("PIX1", None); ("RDI1", None); ("RDI2", None);
    ("INTF_MAX", None)];
  Defines [
    ("MAX_PARAM_ENTRIES", Mul (Id "INTF_MAX") (dec 2)); ("MAX_CID_CH", dec 8);
    ("MAX_CID_CH_PARAM_ENTRY", dec 3); ("PIX0_MASK", Shl (dec 1) (Id "PIX0"));
    ("PIX1_MASK", Shl (dec 1) (Id "PIX1")); ("RDI0_MASK", Shl (dec 1) (Id "RDI0"));
    ("RDI1_MASK", Shl (dec 1) (Id "RDI1")); ("RDI2_MASK", Shl (dec 1) (Id "RDI2"))];
  Enum [
    ("VC0", None); ("VC1", None); ("VC2", None); ("VC3", None); ("VC_MAX", None)];
  Enum [
    ("CID0", None); ("CID1", None); ("CID2", None); ("CID3", None); ("CID4", None);
    ("CID5", None); ("CID6", None); ("CID7", None); ("CID8", None); ("CID9", None);
    ("CID10", None); ("CID11", None); ("CID12", None); ("CID13", None); ("CID14", None);
    ("CID15", None); ("CID_MAX", None)];
  Enum [
    ("CSID0", None); ("CSID1", None); ("CSID2", None); ("CSID3", None); ("CSID_MAX", None)]].
Definition enum_msm_ispif_pixel_pack_mode : list decl := [
  Enum [
    ("PACK_BYTE", None); ("PACK_PLAIN_PACK", None); ("PACK_NV_P8", None); ("PACK_NV_P16", None)]].
Definition enum_ispif_cfg_type_t : list decl := [
  Enum [
    ("ISPIF_CLK_ENABLE", None); ("ISPIF_CLK_DISABLE", None); ("ISPIF_INIT", None);
    ("ISPIF_CFG", None); ("ISPIF_START_FRAME_BOUNDARY", None);
    ("ISPIF_RESTART_FRAME_BOUNDARY", None); ("ISPIF_STOP_FRAME_BOUNDARY", None);
    ("ISPIF_STOP_IMMEDIATELY", None); ("ISPIF_RELEASE", None); ("ISPIF_ENABLE_REG_DUMP", None);
    ("ISPIF_SET_VFE_INFO", None); ("ISPIF_CFG2", None); ("ISPIF_CFG_STEREO", None)]].
Definition header : header :=
  Header "media/msmb_ispif.h" [] (concat [
    defs_CSID_VERSION_V20; enum_msm_ispif_pixel_pack_mode; enum_ispif_cfg_type_t]).
End Media_msmb_ispif.

(** ** [media/msmb_pproc.h] *)

Module Media_msmb_pproc.
Definition defs_MAX_PLANES : list decl := [
  Defines [
    ("MAX_PLANES", Id "VIDEO_MAX_PLANES"); ("PARTIAL_FRAME_STRIPE_COUNT", dec 4);
    ("MAX_NUM_CPP_STRIPS", dec 8); ("MSM_CPP_MAX_NUM_PLANES", dec 3);
    ("MSM_CPP_MIN_FRAME_LENGTH", dec 13); ("MSM_CPP_MAX_FRAME_LENGTH", dec 4096);
    ("MSM_CPP_MAX_FW_NAME_LEN", dec 32); ("MAX_FREQ_TBL", dec 10); ("MSM_OUTPUT_BUF_CNT", dec 8)]].
Definition enum_msm_cpp_batch_mode_t : list decl := [
  Enum [
    ("BATCH_MODE_NONE", None); ("BATCH_MODE_VIDEO", None); ("BATCH_MODE_PREVIEW", None)]].
Definition header : header :=
  Header "media/msmb_pproc.h" [Videodev2.header] (concat [
    defs_MAX_PLANES; enum_msm_cpp_batch_mode_t]).
End Media_msmb_pproc.

(** ** [media/radio-iris-commands.h] *)

Module Media_radio_iris_commands.
Definition enum_v4l2_cid_private_iris_t : list decl := [
  Enum [
    ("V4L2_CID_PRIVATE_IRIS_SRCHMODE", Some (Add (hex 0x08000000) (dec 1)));
    ("V4L2_CID_PRIVATE_IRIS_SCANDWELL", None); ("V4L2_CID_PRIVATE_IRIS_SRCHON", None);
    ("V4L2_CID_PRIVATE_IRIS_STATE", None); ("V4L2_CID_PRIVATE_IRIS_TRANSMIT_MODE", None);
    ("V4L2_CID_PRIVATE_IRIS_RDSGROUP_MASK", None); ("V4L2_CID_PRIVATE_IRIS_REGION", None);
    ("V4L2_CID_PRIVATE_IRIS_SIGNAL_TH", None); ("V4L2_CID_PRIVATE_IRIS_SRCH_PTY", None);
    ("V4L2_CID_PRIVATE_IRIS_SRCH_PI", None); ("V4L2_CID_PRIVATE_IRIS_SRCH_CNT", None);
    ("V4L2_CID_PRIVATE_IRIS_EMPHASIS", None); ("V4L2_CID_PRIVATE_IRIS_RDS_STD", None);
    ("V4L2_CID_PRIVATE_IRIS_SPACING", None); ("V4L2_CID_PRIVATE_IRIS_RDSON", None);
    ("V4L2_CID_PRIVATE_IRIS_RDSGROUP_PROC", None); ("V4L2_CID_PRIVATE_IRIS_LP_MODE", None);
    ("V4L2_CID_PRIVATE_IRIS_ANTENNA", None); ("V4L2_CID_PRIVATE_IRIS_RDSD_BUF", None);
    ("V4L2_CID_PRIVATE_IRIS_PSALL", None); ("V4L2_CID_PRIVATE_IRIS_TX_SETPSREPEATCOUNT", None);
    ("V4L2_CID_PRIVATE_IRIS_STOP_RDS_TX_PS_NAME", None);
    ("V4L2_CID_PRIVATE_IRIS_STOP_RDS_TX_RT", None); ("V4L2_CID_PRIVATE_IRIS_IOVERC", None);
    ("V4L2_CID_PRIVATE_IRIS_INTDET", None); ("V4L2_CID_PRIVATE_IRIS_MPX_DCC", None);
    ("V4L2_CID_PRIVATE_IRIS_AF_JUMP", None); ("V4L2_CID_PRIVATE_IRIS_RSSI_DELTA", None);
    ("V4L2_CID_PRIVATE_IRIS_HLSI", None); ("V4L2_CID_PRIVATE_IRIS_SOFT_MUTE", None);
    ("V4L2_CID_PRIVATE_IRIS_RIVA_ACCS_ADDR", None);
    ("V4L2_CID_PRIVATE_IRIS_RIVA_ACCS_LEN", None); ("V4L2_CID_PRIVATE_IRIS_RIVA_PEEK", None);
    ("V4L2_CID_PRIVATE_IRIS_RIVA_POKE", None); ("V4L2_CID_PRIVATE_IRIS_SSBI_ACCS_ADDR", None);
    ("V4L2_CID_PRIVATE_IRIS_SSBI_PEEK", None); ("V4L2_CID_PRIVATE_IRIS_SSBI_POKE", None);
    ("V4L2_CID_PRIVATE_IRIS_TX_TONE", None); ("V4L2_CID_PRIVATE_IRIS_RDS_GRP_COUNTERS", None);
    ("V4L2_CID_PRIVATE_IRIS_SET_NOTCH_FILTER", None);
    ("V4L2_CID_PRIVATE_IRIS_SET_AUDIO_PATH", None);
    ("V4L2_CID_PRIVATE_IRIS_DO_CALIBRATION", None);
    ("V4L2_CID_PRIVATE_IRIS_SRCH_ALGORITHM", None); ("V4L2_CID_PRIVATE_IRIS_GET_SINR", None);
    ("V4L2_CID_PRIVATE_INTF_LOW_THRESHOLD", None);
    ("V4L2_CID_PRIVATE_INTF_HIGH_THRESHOLD", None); ("V4L2_CID_PRIVATE_SINR_THRESHOLD", None);
    ("V4L2_CID_PRIVATE_SINR_SAMPLES", None); ("V4L2_CID_PRIVATE_SPUR_FREQ", None);
    ("V4L2_CID_PRIVATE_SPUR_FREQ_RMSSI", None); ("V4L2_CID_PRIVATE_SPUR_SELECTION", None);
    ("V4L2_CID_PRIVATE_UPDATE_SPUR_TABLE", None); ("V4L2_CID_PRIVATE_VALID_CHANNEL", None);
    ("V4L2_CID_PRIVATE_AF_RMSSI_TH", None); ("V4L2_CID_PRIVATE_AF_RMSSI_SAMPLES", None);
    ("V4L2_CID_PRIVATE_GOOD_CH_RMSSI_TH", None); ("V4L2_CID_PRIVATE_SRCHALGOTYPE", None);
    ("V4L2_CID_PRIVATE_CF0TH12", None); ("V4L2_CID_PRIVATE_SINRFIRSTSTAGE", None);
    ("V4L2_CID_PRIVATE_RMSSIFIRSTSTAGE", None); ("V4L2_CID_PRIVATE_RXREPEATCOUNT", None);
    ("V4L2_CID_PRIVATE_IRIS_RSSI_TH", None); ("V4L2_CID_PRIVATE_IRIS_AF_JUMP_RSSI_TH", None);
    ("V4L2_CID_PRIVATE_BLEND_SINRHI", None); ("V4L2_CID_PRIVATE_BLEND_RMSSIHI", None);
    ("V4L2_CID_PRIVATE_IRIS_READ_DEFAULT", Some (hex 0x00980928));
    ("V4L2_CID_PRIVATE_IRIS_WRITE_DEFAULT", None);
    ("V4L2_CID_PRIVATE_IRIS_SET_CALIBRATION", None);
    ("V4L2_CID_PRIVATE_IRIS_SET_SPURTABLE", Some (hex 0x0098092D));
    ("V4L2_CID_PRIVATE_IRIS_GET_SPUR_TBL", Some (hex 0x0098092E))];
  Enum [
    ("IRIS_EVT_RADIO_READY", None); ("IRIS_EVT_TUNE_SUCC", None);
    ("IRIS_EVT_SEEK_COMPLETE", None); ("IRIS_EVT_SCAN_NEXT", None);
    ("IRIS_EVT_NEW_RAW_RDS", None); ("IRIS_EVT_NEW_RT_RDS", None); ("IRIS_EVT_NEW_PS_RDS", None);
    ("IRIS_EVT_ERROR", None); ("IRIS_EVT_BELOW_TH", None); ("IRIS_EVT_ABOVE_TH", None);
    ("IRIS_EVT_STEREO", None); ("IRIS_EVT_MONO", None); ("IRIS_EVT_RDS_AVAIL", None);
    ("IRIS_EVT_RDS_NOT_AVAIL", None); ("IRIS_EVT_NEW_SRCH_LIST", None);
    ("IRIS_EVT_NEW_AF_LIST", None); ("IRIS_EVT_TXRDSDAT", None); ("IRIS_EVT_TXRDSDONE", None);
    ("IRIS_EVT_RADIO_DISABLED", None); ("IRIS_EVT_NEW_ODA", None);
    ("IRIS_EVT_NEW_RT_PLUS", None); ("IRIS_EVT_NEW_ERT", None); ("IRIS_EVT_SPUR_TBL", None)]].
Definition header : header :=
  Header "media/radio-iris-commands.h" [] (concat [
    enum_v4l2_cid_private_iris_t]).
End Media_radio_iris_commands.

(** ** [media/radio-iris.h] *)

Module Media_radio_iris.
Definition defs_MIN_TX_TONE_VAL : list decl := [
  Defines [
    ("MIN_TX_TONE_VAL", hex 0x00); ("MAX_TX_TONE_VAL", hex 0x07);
    ("MIN_HARD_MUTE_VAL", hex 0x00); ("MAX_HARD_MUTE_VAL", hex 0x03);
    ("MIN_SRCH_MODE", hex 0x00); ("MAX_SRCH_MODE", hex 0x09); ("MIN_SCAN_DWELL", hex 0x00);
    ("MAX_SCAN_DWELL", hex 0x0F); ("MIN_SIG_TH", hex 0x00); ("MAX_SIG_TH", hex 0x03);
    ("MIN_PTY", hex 0x00); ("MAX_PTY", hex 0x1F); ("MIN_PI", hex 0x0000); ("MAX_PI", hex 0xFFFF);
    ("MIN_SRCH_STATIONS_CNT", hex 0x00); ("MAX_SRCH_STATIONS_CNT", hex 0x14);
    ("MIN_CHAN_SPACING", hex 0x00); ("MAX_CHAN_SPACING", hex 0x02); ("MIN_EMPHASIS", hex 0x00);
    ("MAX_EMPHASIS", hex 0x01); ("MIN_RDS_STD", hex 0x00); ("MAX_RDS_STD", hex 0x02);
    ("MIN_ANTENNA_VAL", hex 0x00); ("MAX_ANTENNA_VAL", hex 0x01);
    ("MIN_TX_PS_REPEAT_CNT", hex 0x01); ("MAX_TX_PS_REPEAT_CNT", hex 0x0F);
    ("MIN_SOFT_MUTE", hex 0x00); ("MAX_SOFT_MUTE", hex 0x01); ("MIN_PEEK_ACCESS_LEN", hex 0x01);
    ("MAX_PEEK_ACCESS_LEN", hex 0xF9); ("MIN_RESET_CNTR", hex 0x00);
    ("MAX_RESET_CNTR", hex 0x01); ("MIN_HLSI", hex 0x00); ("MAX_HLSI", hex 0x02);
    ("MIN_NOTCH_FILTER", hex 0x00); ("MAX_NOTCH_FILTER", hex 0x02);
    ("MIN_INTF_DET_OUT_LW_TH", hex 0x00); ("MAX_INTF_DET_OUT_LW_TH", hex 0xFF);
    ("MIN_INTF_DET_OUT_HG_TH", hex 0x00); ("MAX_INTF_DET_OUT_HG_TH", hex 0xFF);
    ("MIN_SINR_TH", Neg (dec 128)); ("MAX_SINR_TH", dec 127); ("MIN_SINR_SAMPLES", hex 0x01);
    ("MAX_SINR_SAMPLES", hex 0xFF); ("MIN_BLEND_HI", Neg (dec 128)); ("MAX_BLEND_HI", dec 127)]].
Definition defs_RADIO_HCI_COMMAND_PKT : list decl := [
  Defines [
    ("RADIO_HCI_COMMAND_PKT", hex 0x11); ("RADIO_HCI_EVENT_PKT", hex 0x14);
    ("MAX_RIVA_PEEK_RSP_SIZE", dec 251); ("DEFAULT_DATA_OFFSET", dec 2);
    ("DEFAULT_DATA_SIZE", dec 249); ("FM_TX_PWR_LVL_STEP_SIZE", dec 36);
    ("FM_TX_PWR_LVL_0", dec 0); ("FM_TX_PWR_LVL_MAX", dec 7); ("FM_TX_PHY_CFG_MODE", hex 0x3c);
    ("FM_TX_PHY_CFG_LEN", hex 0x10); ("FM_TX_PWR_GAIN_OFFSET", dec 14);
    ("FM_RDS_CNFG_MODE", hex 0x0f); ("FM_RDS_CNFG_LEN", hex 0x10);
    ("AF_RMSSI_TH_LSB_OFFSET", dec 10); ("AF_RMSSI_TH_MSB_OFFSET", dec 11);
    ("AF_RMSSI_SAMPLES_OFFSET", dec 15); ("FM_RX_CONFG_MODE", hex 0x15);
    ("FM_RX_CNFG_LEN", hex 0x20); ("GD_CH_RMSSI_TH_OFFSET", dec 12);
    ("MAX_GD_CH_RMSSI_TH", dec 127); ("SRCH_ALGO_TYPE_OFFSET", dec 25);
    ("SINRFIRSTSTAGE_OFFSET", dec 26); ("RMSSIFIRSTSTAGE_OFFSET", dec 27);
    ("CF0TH12_BYTE1_OFFSET", dec 8); ("CF0TH12_BYTE2_OFFSET", dec 9);
    ("CF0TH12_BYTE3_OFFSET", dec 10); ("CF0TH12_BYTE4_OFFSET", dec 11);
    ("MAX_SINR_FIRSTSTAGE", dec 127); ("MAX_RMSSI_FIRSTSTAGE", dec 127);
    ("RDS_PS0_XFR_MODE", hex 0x01); ("RDS_PS0_LEN", dec 6); ("RX_REPEATE_BYTE_OFFSET", dec 5);
    ("FM_SPUR_TBL_SIZE", dec 240); ("SPUR_DATA_LEN", dec 16); ("ENTRIES_EACH_CMD", dec 15);
    ("SPUR_DATA_INDEX", dec 2); ("FM_AF_LIST_MAX_SIZE", dec 200);
    ("AF_LIST_MAX", Div (Id "FM_AF_LIST_MAX_SIZE") (dec 4)); ("MAX_BLEND_INDEX", dec 49);
    ("TUNE_PARAM", dec 16); ("FM_RDS_3A_GRP", hex 0x40)]].
Definition defs_HCI_OCF_FM_ENABLE_RECV_REQ : list decl := [
  Defines [
    ("HCI_OCF_FM_ENABLE_RECV_REQ", hex 0x0001); ("HCI_OCF_FM_DISABLE_RECV_REQ", hex 0x0002);
    ("HCI_OCF_FM_GET_RECV_CONF_REQ", hex 0x0003); ("HCI_OCF_FM_SET_RECV_CONF_REQ", hex 0x0004);
    ("HCI_OCF_FM_SET_MUTE_MODE_REQ", hex 0x0005); ("HCI_OCF_FM_SET_STEREO_MODE_REQ", hex 0x0006);
    ("HCI_OCF_FM_SET_ANTENNA", hex 0x0007); ("HCI_OCF_FM_SET_SIGNAL_THRESHOLD", hex 0x0008);
    ("HCI_OCF_FM_GET_SIGNAL_THRESHOLD", hex 0x0009);
    ("HCI_OCF_FM_GET_STATION_PARAM_REQ", hex 0x000A);
    ("HCI_OCF_FM_GET_PROGRAM_SERVICE_REQ", hex 0x000B);
    ("HCI_OCF_FM_GET_RADIO_TEXT_REQ", hex 0x000C); ("HCI_OCF_FM_GET_AF_LIST_REQ", hex 0x000D);
    ("HCI_OCF_FM_SEARCH_STATIONS", hex 0x000E); ("HCI_OCF_FM_SEARCH_RDS_STATIONS", hex 0x000F);
    ("HCI_OCF_FM_SEARCH_STATIONS_LIST", hex 0x0010); ("HCI_OCF_FM_CANCEL_SEARCH", hex 0x0011);
    ("HCI_OCF_FM_RDS_GRP", hex 0x0012); ("HCI_OCF_FM_RDS_GRP_PROCESS", hex 0x0013);
    ("HCI_OCF_FM_EN_WAN_AVD_CTRL", hex 0x0014); ("HCI_OCF_FM_EN_NOTCH_CTRL", hex 0x0015);
    ("HCI_OCF_FM_SET_EVENT_MASK", hex 0x0016); ("HCI_OCF_FM_SET_CH_DET_THRESHOLD", hex 0x0017);
    ("HCI_OCF_FM_GET_CH_DET_THRESHOLD", hex 0x0018); ("HCI_OCF_FM_SET_BLND_TBL", hex 0x001B);
    ("HCI_OCF_FM_GET_BLND_TBL", hex 0x001C); ("HCI_OCF_FM_ENABLE_TRANS_REQ", hex 0x0001);
    ("HCI_OCF_FM_DISABLE_TRANS_REQ", hex 0x0002); ("HCI_OCF_FM_GET_TRANS_CONF_REQ", hex 0x0003);
    ("HCI_OCF_FM_SET_TRANS_CONF_REQ", hex 0x0004); ("HCI_OCF_FM_RDS_RT_REQ", hex 0x0008);
    ("HCI_OCF_FM_RDS_PS_REQ", hex 0x0009); ("HCI_OCF_FM_TUNE_STATION_REQ", hex 0x0001);
    ("HCI_OCF_FM_DEFAULT_DATA_READ", hex 0x0002); ("HCI_OCF_FM_DEFAULT_DATA_WRITE", hex 0x0003);
    ("HCI_OCF_FM_RESET", hex 0x0004); ("HCI_OCF_FM_GET_FEATURE_LIST", hex 0x0005);
    ("HCI_OCF_FM_DO_CALIBRATION", hex 0x0006); ("HCI_OCF_FM_SET_CALIBRATION", hex 0x0007);
    ("HCI_OCF_FM_SET_SPUR_TABLE", hex 0x0008); ("HCI_OCF_FM_GET_SPUR_TABLE", hex 0x0009);
    ("HCI_OCF_FM_READ_GRP_COUNTERS", hex 0x0001); ("HCI_OCF_FM_PEEK_DATA", hex 0x0002);
    ("HCI_OCF_FM_POKE_DATA", hex 0x0003); ("HCI_OCF_FM_SSBI_PEEK_REG", hex 0x0004);
    ("HCI_OCF_FM_SSBI_POKE_REG", hex 0x0005); ("HCI_OCF_FM_STATION_DBG_PARAM", hex 0x0007);
    ("HCI_FM_SET_INTERNAL_TONE_GENRATOR", hex 0x0008);
    ("HCI_OGF_FM_RECV_CTRL_CMD_REQ", hex 0x0013); ("HCI_OGF_FM_TRANS_CTRL_CMD_REQ", hex 0x0014);
    ("HCI_OGF_FM_COMMON_CTRL_CMD_REQ", hex 0x0015);
    ("HCI_OGF_FM_STATUS_PARAMETERS_CMD_REQ", hex 0x0016);
    ("HCI_OGF_FM_TEST_CMD_REQ", hex 0x0017); ("HCI_OGF_FM_DIAGNOSTIC_CMD_REQ", hex 0x003F)]].
Definition defs_HCI_FM_ENABLE_RECV_CMD : list decl := [
  Defines [
    ("HCI_FM_ENABLE_RECV_CMD", dec 1); ("HCI_FM_DISABLE_RECV_CMD", dec 2);
    ("HCI_FM_GET_RECV_CONF_CMD", dec 3); ("HCI_FM_GET_STATION_PARAM_CMD", dec 4);
    ("HCI_FM_GET_SIGNAL_TH_CMD", dec 5); ("HCI_FM_GET_PROGRAM_SERVICE_CMD", dec 6);
    ("HCI_FM_GET_RADIO_TEXT_CMD", dec 7); ("HCI_FM_GET_AF_LIST_CMD", dec 8);
    ("HCI_FM_CANCEL_SEARCH_CMD", dec 9); ("HCI_FM_RESET_CMD", dec 10);
    ("HCI_FM_GET_FEATURES_CMD", dec 11); ("HCI_FM_STATION_DBG_PARAM_CMD", dec 12);
    ("HCI_FM_ENABLE_TRANS_CMD", dec 13); ("HCI_FM_DISABLE_TRANS_CMD", dec 14);
    ("HCI_FM_GET_TX_CONFIG", dec 15); ("HCI_FM_GET_DET_CH_TH_CMD", dec 16);
    ("HCI_FM_GET_BLND_TBL_CMD", dec 17); ("TX_PS_DATA_LENGTH", dec 108);
    ("TX_RT_DATA_LENGTH", dec 64); ("PS_STRING_LEN", dec 9)]].
Definition defs_HCI_EV_TUNE_STATUS : list decl := [
  Defines [
    ("HCI_EV_TUNE_STATUS", hex 0x01); ("HCI_EV_RDS_LOCK_STATUS", hex 0x02);
    ("HCI_EV_STEREO_STATUS", hex 0x03); ("HCI_EV_SERVICE_AVAILABLE", hex 0x04);
    ("HCI_EV_SEARCH_PROGRESS", hex 0x05); ("HCI_EV_SEARCH_RDS_PROGRESS", hex 0x06);
    ("HCI_EV_SEARCH_LIST_PROGRESS", hex 0x07); ("HCI_EV_RDS_RX_DATA", hex 0x08);
    ("HCI_EV_PROGRAM_SERVICE", hex 0x09); ("HCI_EV_RADIO_TEXT", hex 0x0A);
    ("HCI_EV_FM_AF_LIST", hex 0x0B); ("HCI_EV_TX_RDS_GRP_AVBLE", hex 0x0C);
    ("HCI_EV_TX_RDS_GRP_COMPL", hex 0x0D); ("HCI_EV_TX_RDS_CONT_GRP_COMPL", hex 0x0E);
    ("HCI_EV_CMD_COMPLETE", hex 0x0F); ("HCI_EV_CMD_STATUS", hex 0x10);
    ("HCI_EV_TUNE_COMPLETE", hex 0x11); ("HCI_EV_SEARCH_COMPLETE", hex 0x12);
    ("HCI_EV_SEARCH_RDS_COMPLETE", hex 0x13); ("HCI_EV_SEARCH_LIST_COMPLETE", hex 0x14);
    ("HCI_REQ_DONE", dec 0); ("HCI_REQ_PEND", dec 1); ("HCI_REQ_CANCELED", dec 2);
    ("HCI_REQ_STATUS", dec 3); ("MAX_RAW_RDS_GRPS", dec 21); ("RDSGRP_DATA_OFFSET", hex 0x1);
    ("DUMMY_CLASS", dec 0); ("RT_PLUS_LEN_1_TAG", dec 3); ("RT_ERT_FLAG_BIT", dec 5);
    ("TAG1_MSB_OFFSET", dec 3); ("TAG1_MSB_MASK", dec 7); ("TAG1_LSB_OFFSET", dec 5);
    ("TAG1_POS_MSB_MASK", dec 31); ("TAG1_POS_MSB_OFFSET", dec 1);
    ("TAG1_POS_LSB_OFFSET", dec 7); ("TAG1_LEN_OFFSET", dec 1); ("TAG1_LEN_MASK", dec 63);
    ("TAG2_MSB_OFFSET", dec 5); ("TAG2_MSB_MASK", dec 1); ("TAG2_LSB_OFFSET", dec 3);
    ("TAG2_POS_MSB_MASK", dec 7); ("TAG2_POS_MSB_OFFSET", dec 3); ("TAG2_POS_LSB_OFFSET", dec 5);
    ("TAG2_LEN_MASK", dec 31); ("AGT_MASK", dec 31)]].
Definition defs_GRP_3A : list decl := [
  Defines [
    ("GRP_3A", hex 0x6); ("RT_PLUS_AID", hex 0x4bd7); ("ERT_AID", hex 0x6552);
    ("CARRIAGE_RETURN", hex 0x000D); ("MAX_ERT_SEGMENT", dec 31); ("ERT_FORMAT_DIR_BIT", dec 1)]].
Definition defs_CLKSPURID_INDEX0 : list decl := [
  Defines [
    ("CLKSPURID_INDEX0", dec 0); ("CLKSPURID_INDEX1", dec 5); ("CLKSPURID_INDEX2", dec 10);
    ("CLKSPURID_INDEX3", dec 15); ("CLKSPURID_INDEX4", dec 20); ("CLKSPURID_INDEX5", dec 25);
    ("MAX_SPUR_FREQ_LIMIT", dec 30); ("CKK_SPUR", hex 0x3B); ("SPUR_DATA_SIZE", hex 0x4);
    ("SPUR_ENTRIES_PER_ID", hex 0x5)]].
Definition defs_RADIO_HCI_DEV_REG : list decl := [
  Defines [
    ("RADIO_HCI_DEV_REG", dec 1); ("RADIO_HCI_DEV_WRITE", dec 2); ("RDS_PTYPE", dec 2);
    ("RDS_PID_LOWER", dec 1); ("RDS_PID_HIGHER", dec 0); ("RDS_OFFSET", dec 5);
    ("RDS_PS_LENGTH_OFFSET", dec 7); ("RDS_STRING", dec 8); ("RDS_PS_DATA_OFFSET", dec 8);
    ("RDS_CONFIG_OFFSET", dec 3); ("RDS_AF_JUMP_OFFSET", dec 4); ("PI_CODE_OFFSET", dec 4);
    ("AF_SIZE_OFFSET", dec 6); ("AF_LIST_OFFSET", dec 7); ("RT_A_B_FLAG_OFFSET", dec 4)];
  Enum [
    ("FM_OFF", None); ("FM_RECV", None); ("FM_TRANS", None); ("FM_RESET", None);
    ("FM_CALIB", None); ("FM_TURNING_OFF", None); ("FM_RECV_TURNING_ON", None);
    ("FM_TRANS_TURNING_ON", None); ("FM_MAX_NO_STATES", None)]].
Definition enum_channel_space_type : list decl := [
  Enum [
    ("FM_RX_SPACE_200KHZ", Some (hex 0x0)); ("FM_RX_SPACE_100KHZ", Some (hex 0x1));
    ("FM_RX_SPACE_50KHZ", Some (hex 0x2))];
  Enum [
    ("AUTO_HI_LO_INJECTION", Some (hex 0x0)); ("LOW_SIDE_INJECTION", Some (hex 0x1));
    ("HIGH_SIDE_INJECTION", Some (hex 0x2))]].
Definition enum_iris_region_t : list decl := [
  Enum [
    ("IRIS_REGION_US", None); ("IRIS_REGION_EU", None); ("IRIS_REGION_JAPAN", None);
    ("IRIS_REGION_JAPAN_WIDE", None); ("IRIS_REGION_OTHER", None)];
  Defines [
    ("STD_BUF_SIZE", dec 256)];
  Enum [
    ("IRIS_BUF_SRCH_LIST", None); ("IRIS_BUF_EVENTS", None); ("IRIS_BUF_RT_RDS", None);
    ("IRIS_BUF_PS_RDS", None); ("IRIS_BUF_RAW_RDS", None); ("IRIS_BUF_AF_LIST", None);
    ("IRIS_BUF_PEEK", None); ("IRIS_BUF_SSBI_PEEK", None); ("IRIS_BUF_RDS_CNTRS", None);
    ("IRIS_BUF_RD_DEFAULT", None); ("IRIS_BUF_CAL_DATA", None); ("IRIS_BUF_RT_PLUS", None);
    ("IRIS_BUF_ERT", None); ("IRIS_BUF_SPUR", None); ("IRIS_BUF_MAX", None)];
  Enum [
    ("IRIS_XFR_SYNC", None); ("IRIS_XFR_ERROR", None); ("IRIS_XFR_SRCH_LIST", None);
    ("IRIS_XFR_RT_RDS", None); ("IRIS_XFR_PS_RDS", None); ("IRIS_XFR_AF_LIST", None);
    ("IRIS_XFR_MAX", None)];
  Enum [
    ("SEEK", None); ("SCAN", None); ("SCAN_FOR_STRONG", None); ("SCAN_FOR_WEAK", None);
    ("RDS_SEEK_PTY", None); ("RDS_SCAN_PTY", None); ("RDS_SEEK_PI", None); ("RDS_AF_JUMP", None)];
  Enum [
    ("ENTRY_0", None); ("ENTRY_1", None); ("ENTRY_2", None); ("ENTRY_3", None);
    ("ENTRY_4", None); ("ENTRY_5", None)];
  Defines [
    ("REGION_US_EU_BAND_LOW", dec 87500); ("REGION_US_EU_BAND_HIGH", dec 108000);
    ("REGION_JAPAN_STANDARD_BAND_LOW", dec 76000);
    ("REGION_JAPAN_STANDARD_BAND_HIGH", dec 90000); ("REGION_JAPAN_WIDE_BAND_LOW", dec 90000);
    ("REGION_JAPAN_WIDE_BAND_HIGH", dec 108000); ("SRCH_MODE", hex 0x07); ("SRCH_DIR", hex 0x08);
    ("SCAN_DWELL", hex 0x70); ("SRCH_ON", hex 0x80); ("IOC_HRD_MUTE", hex 0x03);
    ("IOC_SFT_MUTE", hex 0x01); ("IOC_MON_STR", hex 0x01); ("IOC_SIG_BLND", hex 0x01);
    ("IOC_INTF_BLND", hex 0x01); ("IOC_ANTENNA", hex 0x01); ("RDS_ON", hex 0x01);
    ("RDS_BUF_SZ", dec 100); ("RDS_BLOCKS_NUM", dec 4); ("BYTES_PER_BLOCK", dec 3);
    ("MAX_PS_LENGTH", dec 108); ("MAX_RT_LENGTH", dec 64); ("RDS_GRP_CNTR_LEN", dec 36);
    ("RX_RT_DATA_LENGTH", dec 63); ("SRCH_DIR_UP", dec 0); ("SRCH_DIR_DOWN", dec 1);
    ("SEARCH_RDS_STNS_MODE_OFFSET", dec 4); ("PARAMS_PER_STATION", hex 0x08);
    ("STN_NUM_OFFSET", hex 0x01); ("STN_FREQ_OFFSET", hex 0x02); ("KHZ_TO_MHZ", dec 1000)]].
Definition defs_CTRL_ON : list decl := [
  Defines [
    ("CTRL_ON", dec 1); ("CTRL_OFF", dec 0); ("RIVA_PEEK_OPCODE", hex 0x0D);
    ("RIVA_POKE_OPCODE", hex 0x0C); ("PEEK_DATA_OFSET", hex 0x1); ("RIVA_PEEK_PARAM", hex 0x6);
    ("RIVA_PEEK_LEN_OFSET", hex 0x6); ("SSBI_PEEK_LEN", hex 0x01); ("PROCS_CALIB_MODE", dec 1);
    ("PROCS_CALIB_SIZE", dec 23); ("DC_CALIB_MODE", dec 2); ("DC_CALIB_SIZE", dec 48);
    ("RSB_CALIB_MODE", dec 3); ("RSB_CALIB_SIZE", dec 4); ("CALIB_DATA_OFSET", dec 2);
    ("CALIB_MODE_OFSET", dec 1); ("MAX_CALIB_SIZE", dec 75); ("INVALID_CHANNEL", dec 0);
    ("VALID_CHANNEL", dec 1)]].
Definition defs_SIG_LEVEL_INTR : list decl := [
  Defines [
    ("SIG_LEVEL_INTR", Shl (dec 1) (dec 0)); ("RDS_SYNC_INTR", Shl (dec 1) (dec 1));
    ("AUDIO_CTRL_INTR", Shl (dec 1) (dec 2)); ("AF_JUMP_ENABLE", Shl (dec 1) (dec 4))]].
Definition header : header :=
  Header "media/radio-iris.h" [] (concat [
    defs_MIN_TX_TONE_VAL; defs_RADIO_HCI_COMMAND_PKT; defs_HCI_OCF_FM_ENABLE_RECV_REQ;
    defs_HCI_FM_ENABLE_RECV_CMD; defs_HCI_EV_TUNE_STATUS; defs_GRP_3A; defs_CLKSPURID_INDEX0;
    defs_RADIO_HCI_DEV_REG; enum_channel_space_type; enum_iris_region_t; defs_CTRL_ON;
    defs_SIG_LEVEL_INTR]).
End Media_radio_iris.
