(* ===== verification/ConstDisplay.v ===== *)
(** * Constants of graphics and display

    Macros and enumerations of these headers of [kernel-headers], one module per
    header: each table holds the consecutive definitions of one place. *)
From S2P Require Import Prelude.
From S2P Require Import CConst.
From S2P Require Import ConstBase.
#[local] Open Scope string_scope.

(** ** [drm/drm.h] *)

Module Drm_drm.
Definition defs_DRM_MIN_ORDER : list decl := [
  Defines [
    ("DRM_MIN_ORDER", dec 5); ("DRM_MAX_ORDER", dec 22); ("DRM_RAM_PERCENT", dec 10);
    ("_DRM_LOCK_HELD", hexU 0x80000000); ("_DRM_LOCK_CONT", hexU 0x40000000)]].
Definition enum_DRM_ADD_COMMAND : list decl := [
  Enum [
    ("DRM_ADD_COMMAND", None); ("DRM_RM_COMMAND", None); ("DRM_INST_HANDLER", None);
    ("DRM_UNINST_HANDLER", None)]].
Definition enum_drm_map_type : list decl := [
  Enum [
    ("_DRM_FRAME_BUFFER", Some (dec 0)); ("_DRM_REGISTERS", Some (dec 1));
    ("_DRM_SHM", Some (dec 2)); ("_DRM_AGP", Some (dec 3));
    ("_DRM_SCATTER_GATHER", Some (dec 4)); ("_DRM_CONSISTENT", Some (dec 5))];
  Enum [
    ("_DRM_RESTRICTED", Some (hex 0x01)); ("_DRM_READ_ONLY", Some (hex 0x02));
    ("_DRM_LOCKED", Some (hex 0x04)); ("_DRM_KERNEL", Some (hex 0x08));
    ("_DRM_WRITE_COMBINING", Some (hex 0x10)); ("_DRM_CONTAINS_LOCK", Some (hex 0x20));
    ("_DRM_REMOVABLE", Some (hex 0x40)); ("_DRM_DRIVER", Some (hex 0x80))]].
Definition enum_drm_stat_type : list decl := [
  Enum [
    ("_DRM_STAT_LOCK", None); ("_DRM_STAT_OPENS", None); ("_DRM_STAT_CLOSES", None);
    ("_DRM_STAT_IOCTLS", None); ("_DRM_STAT_LOCKS", None); ("_DRM_STAT_UNLOCKS", None);
    ("_DRM_STAT_VALUE", None); ("_DRM_STAT_BYTE", None); ("_DRM_STAT_COUNT", None);
    ("_DRM_STAT_IRQ", None); ("_DRM_STAT_PRIMARY", None); ("_DRM_STAT_SECONDARY", None);
    ("_DRM_STAT_DMA", None); ("_DRM_STAT_SPECIAL", None); ("_DRM_STAT_MISSED", None)]].
Definition enum_drm_lock_flags : list decl := [
  Enum [
    ("_DRM_LOCK_READY", Some (hex 0x01)); ("_DRM_LOCK_QUIESCENT", Some (hex 0x02));
    ("_DRM_LOCK_FLUSH", Some (hex 0x04)); ("_DRM_LOCK_FLUSH_ALL", Some (hex 0x08));
    ("_DRM_HALT_ALL_QUEUES", Some (hex 0x10)); ("_DRM_HALT_CUR_QUEUES", Some (hex 0x20))]].
Definition enum_drm_dma_flags : list decl := [
  Enum [
    ("_DRM_DMA_BLOCK", Some (hex 0x01)); ("_DRM_DMA_WHILE_LOCKED", Some (hex 0x02));
    ("_DRM_DMA_PRIORITY", Some (hex 0x04)); ("_DRM_DMA_WAIT", Some (hex 0x10));
    ("_DRM_DMA_SMALLER_OK", Some (hex 0x20)); ("_DRM_DMA_LARGER_OK", Some (hex 0x40))]].
Definition enum__DRM_PAGE_ALIGN : list decl := [
  Enum [
    ("_DRM_PAGE_ALIGN", Some (hex 0x01)); ("_DRM_AGP_BUFFER", Some (hex 0x02));
    ("_DRM_SG_BUFFER", Some (hex 0x04)); ("_DRM_FB_BUFFER", Some (hex 0x08));
    ("_DRM_PCI_BUFFER_RO", Some (hex 0x10))]].
Definition enum_drm_vblank_seq_type : list decl := [
  Enum [
    ("_DRM_VBLANK_ABSOLUTE", Some (hex 0x0)); ("_DRM_VBLANK_RELATIVE", Some (hex 0x1));
    ("_DRM_VBLANK_HIGH_CRTC_MASK", Some (hex 0x0000003e));
    ("_DRM_VBLANK_EVENT", Some (hex 0x4000000)); ("_DRM_VBLANK_FLIP", Some (hex 0x8000000));
    ("_DRM_VBLANK_NEXTONMISS", Some (hex 0x10000000));
    ("_DRM_VBLANK_SECONDARY", Some (hex 0x20000000));
    ("_DRM_VBLANK_SIGNAL", Some (hex 0x40000000))];
  Defines [
    ("_DRM_VBLANK_HIGH_CRTC_SHIFT", dec 1);
    ("_DRM_VBLANK_TYPES_MASK", Or (Id "_DRM_VBLANK_ABSOLUTE") (Id "_DRM_VBLANK_RELATIVE"));
    ("_DRM_VBLANK_FLAGS_MASK", Or (Or (Or (Id "_DRM_VBLANK_EVENT") (Id "_DRM_VBLANK_SIGNAL")) (Id "_DRM_VBLANK_SECONDARY")) (Id "_DRM_VBLANK_NEXTONMISS"))]].
Definition defs_DRM_CAP_DUMB_BUFFER : list decl := [
  Defines [
    ("DRM_CAP_DUMB_BUFFER", hex 0x1); ("DRM_CAP_VBLANK_HIGH_CRTC", hex 0x2);
    ("DRM_CAP_DUMB_PREFERRED_DEPTH", hex 0x3); ("DRM_CAP_DUMB_PREFER_SHADOW", hex 0x4);
    ("DRM_CAP_PRIME", hex 0x5); ("DRM_PRIME_CAP_IMPORT", hex 0x1);
    ("DRM_PRIME_CAP_EXPORT", hex 0x2); ("DRM_CAP_TIMESTAMP_MONOTONIC", hex 0x6);
    ("DRM_CAP_ASYNC_PAGE_FLIP", hex 0x7)];
  Defines [
    ("DRM_CAP_CURSOR_WIDTH", hex 0x8); ("DRM_CAP_CURSOR_HEIGHT", hex 0x9);
    ("DRM_CAP_ADDFB2_MODIFIERS", hex 0x10); ("DRM_CAP_CRTC_IN_VBLANK_EVENT", hex 0x12)]].
Definition header : header :=
  Header "drm/drm.h" [] (concat [
    defs_DRM_MIN_ORDER; enum_DRM_ADD_COMMAND; enum_drm_map_type; enum_drm_stat_type;
    enum_drm_lock_flags; enum_drm_dma_flags; enum__DRM_PAGE_ALIGN; enum_drm_vblank_seq_type;
    defs_DRM_CAP_DUMB_BUFFER]).
End Drm_drm.

(** ** [drm/drm_fourcc.h] *)

Module Drm_drm_fourcc.
Definition defs_DRM_FORMAT_MOD_NONE : list decl := [
  Defines [
    ("DRM_FORMAT_MOD_NONE", dec 0); ("DRM_FORMAT_MOD_VENDOR_NONE", dec 0);
    ("DRM_FORMAT_MOD_VENDOR_INTEL", hex 0x01); ("DRM_FORMAT_MOD_VENDOR_AMD", hex 0x02);
    ("DRM_FORMAT_MOD_VENDOR_NV", hex 0x03); ("DRM_FORMAT_MOD_VENDOR_SAMSUNG", hex 0x04);
    ("DRM_FORMAT_MOD_VENDOR_QCOM", hex 0x05)]].
Definition header : header :=
  Header "drm/drm_fourcc.h" [] (concat [
    defs_DRM_FORMAT_MOD_NONE]).
End Drm_drm_fourcc.

(** ** [drm/drm_mode.h] *)

Module Drm_drm_mode.
Definition defs_DRM_DISPLAY_INFO_LEN : list decl := [
  Defines [
    ("DRM_DISPLAY_INFO_LEN", dec 32); ("DRM_CONNECTOR_NAME_LEN", dec 32);
    ("DRM_DISPLAY_MODE_LEN", dec 32); ("DRM_PROP_NAME_LEN", dec 32);
    ("DRM_MODE_TYPE_BUILTIN", Shl (dec 1) (dec 0));
    ("DRM_MODE_TYPE_CLOCK_C", Or (Shl (dec 1) (dec 1)) (Id "DRM_MODE_TYPE_BUILTIN"));
    ("DRM_MODE_TYPE_CRTC_C", Or (Shl (dec 1) (dec 2)) (Id "DRM_MODE_TYPE_BUILTIN"));
    ("DRM_MODE_TYPE_PREFERRED", Shl (dec 1) (dec 3));
    ("DRM_MODE_TYPE_DEFAULT", Shl (dec 1) (dec 4));
    ("DRM_MODE_TYPE_USERDEF", Shl (dec 1) (dec 5));
    ("DRM_MODE_TYPE_DRIVER", Shl (dec 1) (dec 6)); ("DRM_MODE_FLAG_PHSYNC", Shl (dec 1) (dec 0));
    ("DRM_MODE_FLAG_NHSYNC", Shl (dec 1) (dec 1)); ("DRM_MODE_FLAG_PVSYNC", Shl (dec 1) (dec 2));
    ("DRM_MODE_FLAG_NVSYNC", Shl (dec 1) (dec 3));
    ("DRM_MODE_FLAG_INTERLACE", Shl (dec 1) (dec 4));
    ("DRM_MODE_FLAG_DBLSCAN", Shl (dec 1) (dec 5)); ("DRM_MODE_FLAG_CSYNC", Shl (dec 1) (dec 6));
    ("DRM_MODE_FLAG_PCSYNC", Shl (dec 1) (dec 7)); ("DRM_MODE_FLAG_NCSYNC", Shl (dec 1) (dec 8));
    ("DRM_MODE_FLAG_HSKEW", Shl (dec 1) (dec 9)); ("DRM_MODE_FLAG_BCAST", Shl (dec 1) (dec 10));
    ("DRM_MODE_FLAG_PIXMUX", Shl (dec 1) (dec 11));
    ("DRM_MODE_FLAG_DBLCLK", Shl (dec 1) (dec 12));
    ("DRM_MODE_FLAG_CLKDIV2", Shl (dec 1) (dec 13))];
  Defines [
    ("DRM_MODE_FLAG_3D_MASK", Shl (hex 0x1f) (dec 14));
    ("DRM_MODE_FLAG_3D_NONE", Shl (dec 0) (dec 14));
    ("DRM_MODE_FLAG_3D_FRAME_PACKING", Shl (dec 1) (dec 14));
    ("DRM_MODE_FLAG_3D_FIELD_ALTERNATIVE", Shl (dec 2) (dec 14));
    ("DRM_MODE_FLAG_3D_LINE_ALTERNATIVE", Shl (dec 3) (dec 14));
    ("DRM_MODE_FLAG_3D_SIDE_BY_SIDE_FULL", Shl (dec 4) (dec 14));
    ("DRM_MODE_FLAG_3D_L_DEPTH", Shl (dec 5) (dec 14));
    ("DRM_MODE_FLAG_3D_L_DEPTH_GFX_GFX_DEPTH", Shl (dec 6) (dec 14));
    ("DRM_MODE_FLAG_3D_TOP_AND_BOTTOM", Shl (dec 7) (dec 14));
    ("DRM_MODE_FLAG_3D_SIDE_BY_SIDE_HALF", Shl (dec 8) (dec 14));
    ("DRM_MODE_FLAG_SEAMLESS", Shl (dec 1) (dec 19));
    ("DRM_MODE_FLAG_SUPPORTS_RGB", Shl (dec 1) (dec 20));
    ("DRM_MODE_FLAG_SUPPORTS_YUV", Shl (dec 1) (dec 21));
    ("DRM_MODE_PICTURE_ASPECT_NONE", dec 0); ("DRM_MODE_PICTURE_ASPECT_4_3", dec 1);
    ("DRM_MODE_PICTURE_ASPECT_16_9", dec 2); ("DRM_MODE_PICTURE_ASPECT_64_27", dec 3);
    ("DRM_MODE_PICTURE_ASPECT_256_135", dec 4);
    ("DRM_MODE_FLAG_PIC_AR_MASK", Shl (hex 0x0F) (dec 24));
    ("DRM_MODE_FLAG_PIC_AR_NONE", Shl (Id "DRM_MODE_PICTURE_ASPECT_NONE") (dec 24));
    ("DRM_MODE_FLAG_PIC_AR_4_3", Shl (Id "DRM_MODE_PICTURE_ASPECT_4_3") (dec 24));
    ("DRM_MODE_FLAG_PIC_AR_16_9", Shl (Id "DRM_MODE_PICTURE_ASPECT_16_9") (dec 24));
    ("DRM_MODE_FLAG_PIC_AR_64_27", Shl (Id "DRM_MODE_PICTURE_ASPECT_64_27") (dec 24));
    ("DRM_MODE_FLAG_PIC_AR_256_135", Shl (Id "DRM_MODE_PICTURE_ASPECT_256_135") (dec 24));
    ("DRM_MODE_DPMS_ON", dec 0); ("DRM_MODE_DPMS_STANDBY", dec 1);
    ("DRM_MODE_DPMS_SUSPEND", dec 2); ("DRM_MODE_DPMS_OFF", dec 3);
    ("DRM_MODE_SCALE_NONE", dec 0); ("DRM_MODE_SCALE_FULLSCREEN", dec 1);
    ("DRM_MODE_SCALE_CENTER", dec 2); ("DRM_MODE_SCALE_ASPECT", dec 3);
    ("DRM_MODE_DITHERING_OFF", dec 0); ("DRM_MODE_DITHERING_ON", dec 1);
    ("DRM_MODE_DITHERING_AUTO", dec 2); ("DRM_MODE_DIRTY_OFF", dec 0);
    ("DRM_MODE_DIRTY_ON", dec 1); ("DRM_MODE_DIRTY_ANNOTATE", dec 2)]].
Definition defs_DRM_MODE_ENCODER_NONE : list decl := [
  Defines [
    ("DRM_MODE_ENCODER_NONE", dec 0); ("DRM_MODE_ENCODER_DAC", dec 1);
    ("DRM_MODE_ENCODER_TMDS", dec 2); ("DRM_MODE_ENCODER_LVDS", dec 3);
    ("DRM_MODE_ENCODER_TVDAC", dec 4); ("DRM_MODE_ENCODER_VIRTUAL", dec 5);
    ("DRM_MODE_ENCODER_DSI", dec 6); ("DRM_MODE_ENCODER_DPMST", dec 7)]].
Definition defs_DRM_MODE_SUBCONNECTOR_Automatic : list decl := [
  Defines [
    ("DRM_MODE_SUBCONNECTOR_Automatic", dec 0); ("DRM_MODE_SUBCONNECTOR_Unknown", dec 0);
    ("DRM_MODE_SUBCONNECTOR_DVID", dec 3); ("DRM_MODE_SUBCONNECTOR_DVIA", dec 4);
    ("DRM_MODE_SUBCONNECTOR_Composite", dec 5); ("DRM_MODE_SUBCONNECTOR_SVIDEO", dec 6);
    ("DRM_MODE_SUBCONNECTOR_Component", dec 8); ("DRM_MODE_SUBCONNECTOR_SCART", dec 9);
    ("DRM_MODE_CONNECTOR_Unknown", dec 0); ("DRM_MODE_CONNECTOR_VGA", dec 1);
    ("DRM_MODE_CONNECTOR_DVII", dec 2); ("DRM_MODE_CONNECTOR_DVID", dec 3);
    ("DRM_MODE_CONNECTOR_DVIA", dec 4); ("DRM_MODE_CONNECTOR_Composite", dec 5);
    ("DRM_MODE_CONNECTOR_SVIDEO", dec 6); ("DRM_MODE_CONNECTOR_LVDS", dec 7);
    ("DRM_MODE_CONNECTOR_Component", dec 8); ("DRM_MODE_CONNECTOR_9PinDIN", dec 9);
    ("DRM_MODE_CONNECTOR_DisplayPort", dec 10); ("DRM_MODE_CONNECTOR_HDMIA", dec 11);
    ("DRM_MODE_CONNECTOR_HDMIB", dec 12); ("DRM_MODE_CONNECTOR_TV", dec 13);
    ("DRM_MODE_CONNECTOR_eDP", dec 14); ("DRM_MODE_CONNECTOR_VIRTUAL", dec 15);
    ("DRM_MODE_CONNECTOR_DSI", dec 16)]].
Definition defs_DRM_MODE_PROP_PENDING : list decl := [
  Defines [
    ("DRM_MODE_PROP_PENDING", Shl (dec 1) (dec 0)); ("DRM_MODE_PROP_RANGE", Shl (dec 1) (dec 1));
    ("DRM_MODE_PROP_IMMUTABLE", Shl (dec 1) (dec 2));
    ("DRM_MODE_PROP_ENUM", Shl (dec 1) (dec 3)); ("DRM_MODE_PROP_BLOB", Shl (dec 1) (dec 4));
    ("DRM_MODE_PROP_BITMASK", Shl (dec 1) (dec 5));
    ("DRM_MODE_PROP_LEGACY_TYPE", Or (Or (Or (Id "DRM_MODE_PROP_RANGE") (Id "DRM_MODE_PROP_ENUM")) (Id "DRM_MODE_PROP_BLOB")) (Id "DRM_MODE_PROP_BITMASK"))]].
Definition defs_DRM_MODE_FB_DIRTY_ANNOTATE_COPY : list decl := [
  Defines [
    ("DRM_MODE_FB_DIRTY_ANNOTATE_COPY", hex 0x01); ("DRM_MODE_FB_DIRTY_ANNOTATE_FILL", hex 0x02);
    ("DRM_MODE_FB_DIRTY_FLAGS", hex 0x03); ("DRM_MODE_FB_DIRTY_MAX_CLIPS", dec 256)]].
Definition defs_DRM_MODE_PAGE_FLIP_EVENT : list decl := [
  Defines [
    ("DRM_MODE_PAGE_FLIP_EVENT", hex 0x01); ("DRM_MODE_PAGE_FLIP_ASYNC", hex 0x02);
    ("DRM_MODE_PAGE_FLIP_FLAGS", Or (Id "DRM_MODE_PAGE_FLIP_EVENT") (Id "DRM_MODE_PAGE_FLIP_ASYNC"))]].
Definition defs_DRM_MODE_ATOMIC_TEST_ONLY : list decl := [
  Defines [
    ("DRM_MODE_ATOMIC_TEST_ONLY", hex 0x0100); ("DRM_MODE_ATOMIC_NONBLOCK", hex 0x0200);
    ("DRM_MODE_ATOMIC_ALLOW_MODESET", hex 0x0400);
    ("DRM_MODE_ATOMIC_FLAGS", Or (Or (Or (Or (Id "DRM_MODE_PAGE_FLIP_EVENT") (Id "DRM_MODE_PAGE_FLIP_ASYNC")) (Id "DRM_MODE_ATOMIC_TEST_ONLY")) (Id "DRM_MODE_ATOMIC_NONBLOCK")) (Id "DRM_MODE_ATOMIC_ALLOW_MODESET"))]].
Definition header : header :=
  Header "drm/drm_mode.h" [] (concat [
    defs_DRM_DISPLAY_INFO_LEN; defs_DRM_MODE_ENCODER_NONE; defs_DRM_MODE_SUBCONNECTOR_Automatic;
    defs_DRM_MODE_PROP_PENDING; defs_DRM_MODE_FB_DIRTY_ANNOTATE_COPY;
    defs_DRM_MODE_PAGE_FLIP_EVENT; defs_DRM_MODE_ATOMIC_TEST_ONLY]).
End Drm_drm_mode.

(** ** [drm/exynos_drm.h] *)

Module Drm_exynos_drm.
Definition enum_e_drm_exynos_gem_mem_type : list decl := [
  Enum [
    ("EXYNOS_BO_CONTIG", Some (Shl (dec 0) (dec 0)));
    ("EXYNOS_BO_NONCONTIG", Some (Shl (dec 1) (dec 0)));
    ("EXYNOS_BO_NONCACHABLE", Some (Shl (dec 0) (dec 1)));
    ("EXYNOS_BO_CACHABLE", Some (Shl (dec 1) (dec 1)));
    ("EXYNOS_BO_WC", Some (Shl (dec 1) (dec 2)));
    ("EXYNOS_BO_MASK", Some (Or (Or (Id "EXYNOS_BO_NONCONTIG") (Id "EXYNOS_BO_CACHABLE")) (Id "EXYNOS_BO_WC")))]].
Definition enum_drm_exynos_g2d_event_type : list decl := [
  Enum [
    ("G2D_EVENT_NOT", None); ("G2D_EVENT_NONSTOP", None); ("G2D_EVENT_STOP", None)]].
Definition enum_drm_exynos_ops_id : list decl := [
  Enum [
    ("EXYNOS_DRM_OPS_SRC", None); ("EXYNOS_DRM_OPS_DST", None); ("EXYNOS_DRM_OPS_MAX", None)]].
Definition enum_drm_exynos_flip : list decl := [
  Enum [
    ("EXYNOS_DRM_FLIP_NONE", Some (Shl (dec 0) (dec 0)));
    ("EXYNOS_DRM_FLIP_VERTICAL", Some (Shl (dec 1) (dec 0)));
    ("EXYNOS_DRM_FLIP_HORIZONTAL", Some (Shl (dec 1) (dec 1)));
    ("EXYNOS_DRM_FLIP_BOTH", Some (Or (Id "EXYNOS_DRM_FLIP_VERTICAL") (Id "EXYNOS_DRM_FLIP_HORIZONTAL")))];
  Enum [
    ("EXYNOS_DRM_DEGREE_0", None); ("EXYNOS_DRM_DEGREE_90", None);
    ("EXYNOS_DRM_DEGREE_180", None); ("EXYNOS_DRM_DEGREE_270", None)];
  Enum [
    ("EXYNOS_DRM_PLANAR_Y", None); ("EXYNOS_DRM_PLANAR_CB", None);
    ("EXYNOS_DRM_PLANAR_CR", None); ("EXYNOS_DRM_PLANAR_MAX", None)]].
Definition enum_drm_exynos_ipp_cmd : list decl := [
  Enum [
    ("IPP_CMD_NONE", None); ("IPP_CMD_M2M", None); ("IPP_CMD_WB", None);
    ("IPP_CMD_OUTPUT", None); ("IPP_CMD_MAX", None)]].
Definition enum_drm_exynos_ipp_ctrl : list decl := [
  Enum [
    ("IPP_CTRL_PLAY", None); ("IPP_CTRL_STOP", None); ("IPP_CTRL_PAUSE", None);
    ("IPP_CTRL_RESUME", None); ("IPP_CTRL_MAX", None)]].
Definition defs_DRM_EXYNOS_GEM_CREATE : list decl := [
  Defines [
    ("DRM_EXYNOS_GEM_CREATE", hex 0x00); ("DRM_EXYNOS_GEM_GET", hex 0x04);
    ("DRM_EXYNOS_VIDI_CONNECTION", hex 0x07); ("DRM_EXYNOS_G2D_GET_VER", hex 0x20);
    ("DRM_EXYNOS_G2D_SET_CMDLIST", hex 0x21); ("DRM_EXYNOS_G2D_EXEC", hex 0x22);
    ("DRM_EXYNOS_IPP_GET_PROPERTY", hex 0x30); ("DRM_EXYNOS_IPP_SET_PROPERTY", hex 0x31);
    ("DRM_EXYNOS_IPP_QUEUE_BUF", hex 0x32); ("DRM_EXYNOS_IPP_CMD_CTRL", hex 0x33)]].
Definition header : header :=
  Header "drm/exynos_drm.h" [] (concat [
    enum_e_drm_exynos_gem_mem_type; enum_drm_exynos_g2d_event_type; enum_drm_exynos_ops_id;
    enum_drm_exynos_flip; enum_drm_exynos_ipp_cmd; enum_drm_exynos_ipp_ctrl;
    defs_DRM_EXYNOS_GEM_CREATE]).
End Drm_exynos_drm.

(** ** [drm/i810_drm.h] *)

Module Drm_i810_drm.
Definition defs_I810_DMA_BUF_ORDER : list decl := [
  Defines [
    ("I810_DMA_BUF_ORDER", dec 12); ("I810_DMA_BUF_SZ", Shl (dec 1) (Id "I810_DMA_BUF_ORDER"));
    ("I810_DMA_BUF_NR", dec 256); ("I810_NR_SAREA_CLIPRECTS", dec 8);
    ("I810_NR_TEX_REGIONS", dec 64); ("I810_LOG_MIN_TEX_REGION_SIZE", dec 16)];
  Defines [
    ("I810_UPLOAD_TEX0IMAGE", hex 0x1); ("I810_UPLOAD_TEX1IMAGE", hex 0x2);
    ("I810_UPLOAD_CTX", hex 0x4); ("I810_UPLOAD_BUFFERS", hex 0x8);
    ("I810_UPLOAD_TEX0", hex 0x10); ("I810_UPLOAD_TEX1", hex 0x20);
    ("I810_UPLOAD_CLIPRECTS", hex 0x40)];
  Defines [
    ("I810_DESTREG_DI0", dec 0); ("I810_DESTREG_DI1", dec 1); ("I810_DESTREG_DV0", dec 2);
    ("I810_DESTREG_DV1", dec 3); ("I810_DESTREG_DR0", dec 4); ("I810_DESTREG_DR1", dec 5);
    ("I810_DESTREG_DR2", dec 6); ("I810_DESTREG_DR3", dec 7); ("I810_DESTREG_DR4", dec 8);
    ("I810_DEST_SETUP_SIZE", dec 10); ("I810_CTXREG_CF0", dec 0); ("I810_CTXREG_CF1", dec 1);
    ("I810_CTXREG_ST0", dec 2); ("I810_CTXREG_ST1", dec 3); ("I810_CTXREG_VF", dec 4);
    ("I810_CTXREG_MT", dec 5); ("I810_CTXREG_MC0", dec 6); ("I810_CTXREG_MC1", dec 7);
    ("I810_CTXREG_MC2", dec 8); ("I810_CTXREG_MA0", dec 9); ("I810_CTXREG_MA1", dec 10);
    ("I810_CTXREG_MA2", dec 11); ("I810_CTXREG_SDM", dec 12); ("I810_CTXREG_FOG", dec 13);
    ("I810_CTXREG_B1", dec 14); ("I810_CTXREG_B2", dec 15); ("I810_CTXREG_LCS", dec 16);
    ("I810_CTXREG_PV", dec 17); ("I810_CTXREG_ZA", dec 18); ("I810_CTXREG_AA", dec 19);
    ("I810_CTX_SETUP_SIZE", dec 20); ("I810_TEXREG_MI0", dec 0); ("I810_TEXREG_MI1", dec 1);
    ("I810_TEXREG_MI2", dec 2); ("I810_TEXREG_MI3", dec 3); ("I810_TEXREG_MF", dec 4);
    ("I810_TEXREG_MLC", dec 5); ("I810_TEXREG_MLL", dec 6); ("I810_TEXREG_MCS", dec 7);
    ("I810_TEX_SETUP_SIZE", dec 8); ("I810_FRONT", hex 0x1); ("I810_BACK", hex 0x2);
    ("I810_DEPTH", hex 0x4)];
  Enum [
    ("I810_INIT_DMA", Some (hex 0x01)); ("I810_CLEANUP_DMA", Some (hex 0x02));
    ("I810_INIT_DMA_1_4", Some (hex 0x03))]].
Definition defs_DRM_I810_INIT : list decl := [
  Defines [
    ("DRM_I810_INIT", hex 0x00); ("DRM_I810_VERTEX", hex 0x01); ("DRM_I810_CLEAR", hex 0x02);
    ("DRM_I810_FLUSH", hex 0x03); ("DRM_I810_GETAGE", hex 0x04); ("DRM_I810_GETBUF", hex 0x05);
    ("DRM_I810_SWAP", hex 0x06); ("DRM_I810_COPY", hex 0x07); ("DRM_I810_DOCOPY", hex 0x08);
    ("DRM_I810_OV0INFO", hex 0x09); ("DRM_I810_FSTATUS", hex 0x0a);
    ("DRM_I810_OV0FLIP", hex 0x0b); ("DRM_I810_MC", hex 0x0c); ("DRM_I810_RSTATUS", hex 0x0d);
    ("DRM_I810_FLIP", hex 0x0e)]].
Definition defs_PR_TRIANGLES : list decl := [
  Defines [
    ("PR_TRIANGLES", Shl (hex 0x0) (dec 18)); ("PR_TRISTRIP_0", Shl (hex 0x1) (dec 18));
    ("PR_TRISTRIP_1", Shl (hex 0x2) (dec 18)); ("PR_TRIFAN", Shl (hex 0x3) (dec 18));
    ("PR_POLYGON", Shl (hex 0x4) (dec 18)); ("PR_LINES", Shl (hex 0x5) (dec 18));
    ("PR_LINESTRIP", Shl (hex 0x6) (dec 18)); ("PR_RECTS", Shl (hex 0x7) (dec 18));
    ("PR_MASK", Shl (hex 0x7) (dec 18))]].
Definition header : header :=
  Header "drm/i810_drm.h" [] (concat [
    defs_I810_DMA_BUF_ORDER; defs_DRM_I810_INIT; defs_PR_TRIANGLES]).
End Drm_i810_drm.

(** ** [drm/i915_drm.h] *)

Module Drm_i915_drm.
Definition enum_I915_INIT_DMA : list decl := [
  Enum [
    ("I915_INIT_DMA", Some (hex 0x01)); ("I915_CLEANUP_DMA", Some (hex 0x02));
    ("I915_RESUME_DMA", Some (hex 0x03))]].
Definition defs_I915_BOX_RING_EMPTY : list decl := [
  Defines [
    ("I915_BOX_RING_EMPTY", hex 0x1); ("I915_BOX_FLIP", hex 0x2); ("I915_BOX_WAIT", hex 0x4);
    ("I915_BOX_TEXTURE_LOAD", hex 0x8); ("I915_BOX_LOST_CONTEXT", hex 0x10)];
  Defines [
    ("DRM_I915_INIT", hex 0x00); ("DRM_I915_FLUSH", hex 0x01); ("DRM_I915_FLIP", hex 0x02);
    ("DRM_I915_BATCHBUFFER", hex 0x03); ("DRM_I915_IRQ_EMIT", hex 0x04);
    ("DRM_I915_IRQ_WAIT", hex 0x05); ("DRM_I915_GETPARAM", hex 0x06);
    ("DRM_I915_SETPARAM", hex 0x07); ("DRM_I915_ALLOC", hex 0x08); ("DRM_I915_FREE", hex 0x09);
    ("DRM_I915_INIT_HEAP", hex 0x0a); ("DRM_I915_CMDBUFFER", hex 0x0b);
    ("DRM_I915_DESTROY_HEAP", hex 0x0c); ("DRM_I915_SET_VBLANK_PIPE", hex 0x0d);
    ("DRM_I915_GET_VBLANK_PIPE", hex 0x0e); ("DRM_I915_VBLANK_SWAP", hex 0x0f);
    ("DRM_I915_HWS_ADDR", hex 0x11); ("DRM_I915_GEM_INIT", hex 0x13);
    ("DRM_I915_GEM_EXECBUFFER", hex 0x14); ("DRM_I915_GEM_PIN", hex 0x15);
    ("DRM_I915_GEM_UNPIN", hex 0x16); ("DRM_I915_GEM_BUSY", hex 0x17);
    ("DRM_I915_GEM_THROTTLE", hex 0x18); ("DRM_I915_GEM_ENTERVT", hex 0x19);
    ("DRM_I915_GEM_LEAVEVT", hex 0x1a); ("DRM_I915_GEM_CREATE", hex 0x1b);
    ("DRM_I915_GEM_PREAD", hex 0x1c); ("DRM_I915_GEM_PWRITE", hex 0x1d);
    ("DRM_I915_GEM_MMAP", hex 0x1e); ("DRM_I915_GEM_SET_DOMAIN", hex 0x1f);
    ("DRM_I915_GEM_SW_FINISH", hex 0x20); ("DRM_I915_GEM_SET_TILING", hex 0x21);
    ("DRM_I915_GEM_GET_TILING", hex 0x22); ("DRM_I915_GEM_GET_APERTURE", hex 0x23);
    ("DRM_I915_GEM_MMAP_GTT", hex 0x24); ("DRM_I915_GET_PIPE_FROM_CRTC_ID", hex 0x25);
    ("DRM_I915_GEM_MADVISE", hex 0x26); ("DRM_I915_OVERLAY_PUT_IMAGE", hex 0x27);
    ("DRM_I915_OVERLAY_ATTRS", hex 0x28); ("DRM_I915_GEM_EXECBUFFER2", hex 0x29);
    ("DRM_I915_GET_SPRITE_COLORKEY", hex 0x2a); ("DRM_I915_SET_SPRITE_COLORKEY", hex 0x2b);
    ("DRM_I915_GEM_WAIT", hex 0x2c); ("DRM_I915_GEM_CONTEXT_CREATE", hex 0x2d);
    ("DRM_I915_GEM_CONTEXT_DESTROY", hex 0x2e); ("DRM_I915_GEM_SET_CACHING", hex 0x2f);
    ("DRM_I915_GEM_GET_CACHING", hex 0x30); ("DRM_I915_REG_READ", hex 0x31);
    ("DRM_I915_GET_RESET_STATS", hex 0x32); ("DRM_I915_GEM_USERPTR", hex 0x33);
    ("DRM_I915_GEM_CONTEXT_GETPARAM", hex 0x34); ("DRM_I915_GEM_CONTEXT_SETPARAM", hex 0x35)]].
Definition defs_I915_PARAM_IRQ_ACTIVE : list decl := [
  Defines [
    ("I915_PARAM_IRQ_ACTIVE", dec 1); ("I915_PARAM_ALLOW_BATCHBUFFER", dec 2);
    ("I915_PARAM_LAST_DISPATCH", dec 3); ("I915_PARAM_CHIPSET_ID", dec 4);
    ("I915_PARAM_HAS_GEM", dec 5); ("I915_PARAM_NUM_FENCES_AVAIL", dec 6);
    ("I915_PARAM_HAS_OVERLAY", dec 7); ("I915_PARAM_HAS_PAGEFLIPPING", dec 8);
    ("I915_PARAM_HAS_EXECBUF2", dec 9); ("I915_PARAM_HAS_BSD", dec 10);
    ("I915_PARAM_HAS_BLT", dec 11); ("I915_PARAM_HAS_RELAXED_FENCING", dec 12);
    ("I915_PARAM_HAS_COHERENT_RINGS", dec 13); ("I915_PARAM_HAS_EXEC_CONSTANTS", dec 14);
    ("I915_PARAM_HAS_RELAXED_DELTA", dec 15); ("I915_PARAM_HAS_GEN7_SOL_RESET", dec 16);
    ("I915_PARAM_HAS_LLC", dec 17); ("I915_PARAM_HAS_ALIASING_PPGTT", dec 18);
    ("I915_PARAM_HAS_WAIT_TIMEOUT", dec 19); ("I915_PARAM_HAS_SEMAPHORES", dec 20);
    ("I915_PARAM_HAS_PRIME_VMAP_FLUSH", dec 21); ("I915_PARAM_HAS_VEBOX", dec 22);
    ("I915_PARAM_HAS_SECURE_BATCHES", dec 23); ("I915_PARAM_HAS_PINNED_BATCHES", dec 24);
    ("I915_PARAM_HAS_EXEC_NO_RELOC", dec 25); ("I915_PARAM_HAS_EXEC_HANDLE_LUT", dec 26);
    ("I915_PARAM_HAS_WT", dec 27); ("I915_PARAM_CMD_PARSER_VERSION", dec 28);
    ("I915_PARAM_HAS_COHERENT_PHYS_GTT", dec 29); ("I915_PARAM_MMAP_VERSION", dec 30);
    ("I915_PARAM_HAS_BSD2", dec 31); ("I915_PARAM_REVISION", dec 32);
    ("I915_PARAM_SUBSLICE_TOTAL", dec 33); ("I915_PARAM_EU_TOTAL", dec 34);
    ("I915_PARAM_HAS_GPU_RESET", dec 35); ("I915_PARAM_HAS_RESOURCE_STREAMER", dec 36)]].
Definition defs_I915_SETPARAM_USE_MI_BATCHBUFFER_START : list decl := [
  Defines [
    ("I915_SETPARAM_USE_MI_BATCHBUFFER_START", dec 1);
    ("I915_SETPARAM_TEX_LRU_LOG_GRANULARITY", dec 2); ("I915_SETPARAM_ALLOW_BATCHBUFFER", dec 3);
    ("I915_SETPARAM_NUM_USED_FENCES", dec 4)]].
Definition defs_I915_GEM_DOMAIN_CPU : list decl := [
  Defines [
    ("I915_GEM_DOMAIN_CPU", hex 0x00000001); ("I915_GEM_DOMAIN_RENDER", hex 0x00000002);
    ("I915_GEM_DOMAIN_SAMPLER", hex 0x00000004); ("I915_GEM_DOMAIN_COMMAND", hex 0x00000008);
    ("I915_GEM_DOMAIN_INSTRUCTION", hex 0x00000010); ("I915_GEM_DOMAIN_VERTEX", hex 0x00000020);
    ("I915_GEM_DOMAIN_GTT", hex 0x00000040)]].
Definition defs_I915_EXEC_HANDLE_LUT : list decl := [
  Defines [
    ("I915_EXEC_HANDLE_LUT", Shl (dec 1) (dec 12)); ("I915_EXEC_BSD_MASK", Shl (dec 3) (dec 13));
    ("I915_EXEC_BSD_DEFAULT", Shl (dec 0) (dec 13));
    ("I915_EXEC_BSD_RING1", Shl (dec 1) (dec 13)); ("I915_EXEC_BSD_RING2", Shl (dec 2) (dec 13))]].
Definition defs_I915_TILING_NONE : list decl := [
  Defines [
    ("I915_TILING_NONE", dec 0); ("I915_TILING_X", dec 1); ("I915_TILING_Y", dec 2);
    ("I915_BIT_6_SWIZZLE_NONE", dec 0); ("I915_BIT_6_SWIZZLE_9", dec 1);
    ("I915_BIT_6_SWIZZLE_9_10", dec 2); ("I915_BIT_6_SWIZZLE_9_11", dec 3);
    ("I915_BIT_6_SWIZZLE_9_10_11", dec 4); ("I915_BIT_6_SWIZZLE_UNKNOWN", dec 5);
    ("I915_BIT_6_SWIZZLE_9_17", dec 6); ("I915_BIT_6_SWIZZLE_9_10_17", dec 7)]].
Definition defs_I915_OVERLAY_TYPE_MASK : list decl := [
  Defines [
    ("I915_OVERLAY_TYPE_MASK", hex 0xff); ("I915_OVERLAY_YUV_PLANAR", hex 0x01);
    ("I915_OVERLAY_YUV_PACKED", hex 0x02); ("I915_OVERLAY_RGB", hex 0x03);
    ("I915_OVERLAY_DEPTH_MASK", hex 0xff00); ("I915_OVERLAY_RGB24", hex 0x1000);
    ("I915_OVERLAY_RGB16", hex 0x2000); ("I915_OVERLAY_RGB15", hex 0x3000);
    ("I915_OVERLAY_YUV422", hex 0x0100); ("I915_OVERLAY_YUV411", hex 0x0200);
    ("I915_OVERLAY_YUV420", hex 0x0300); ("I915_OVERLAY_YUV410", hex 0x0400);
    ("I915_OVERLAY_SWAP_MASK", hex 0xff0000); ("I915_OVERLAY_NO_SWAP", hex 0x000000);
    ("I915_OVERLAY_UV_SWAP", hex 0x010000); ("I915_OVERLAY_Y_SWAP", hex 0x020000);
    ("I915_OVERLAY_Y_AND_UV_SWAP", hex 0x030000); ("I915_OVERLAY_FLAGS_MASK", hex 0xff000000);
    ("I915_OVERLAY_ENABLE", hex 0x01000000)]].
Definition header : header :=
  Header "drm/i915_drm.h" [] (concat [
    enum_I915_INIT_DMA; defs_I915_BOX_RING_EMPTY; defs_I915_PARAM_IRQ_ACTIVE;
    defs_I915_SETPARAM_USE_MI_BATCHBUFFER_START; defs_I915_GEM_DOMAIN_CPU;
    defs_I915_EXEC_HANDLE_LUT; defs_I915_TILING_NONE; defs_I915_OVERLAY_TYPE_MASK]).
End Drm_i915_drm.

(** ** [drm/mga_drm.h] *)

Module Drm_mga_drm.
Definition defs_MGA_F : list decl := [
  Defines [
    ("MGA_F", hex 0x1); ("MGA_A", hex 0x2); ("MGA_S", hex 0x4); ("MGA_T2", hex 0x8);
    ("MGA_WARP_TGZ", dec 0); ("MGA_WARP_TGZF", Id "MGA_F"); ("MGA_WARP_TGZA", Id "MGA_A");
    ("MGA_WARP_TGZAF", Or (Id "MGA_F") (Id "MGA_A")); ("MGA_WARP_TGZS", Id "MGA_S");
    ("MGA_WARP_TGZSF", Or (Id "MGA_S") (Id "MGA_F"));
    ("MGA_WARP_TGZSA", Or (Id "MGA_S") (Id "MGA_A"));
    ("MGA_WARP_TGZSAF", Or (Or (Id "MGA_S") (Id "MGA_F")) (Id "MGA_A"));
    ("MGA_WARP_T2GZ", Id "MGA_T2"); ("MGA_WARP_T2GZF", Or (Id "MGA_T2") (Id "MGA_F"));
    ("MGA_WARP_T2GZA", Or (Id "MGA_T2") (Id "MGA_A"));
    ("MGA_WARP_T2GZAF", Or (Or (Id "MGA_T2") (Id "MGA_A")) (Id "MGA_F"));
    ("MGA_WARP_T2GZS", Or (Id "MGA_T2") (Id "MGA_S"));
    ("MGA_WARP_T2GZSF", Or (Or (Id "MGA_T2") (Id "MGA_S")) (Id "MGA_F"));
    ("MGA_WARP_T2GZSA", Or (Or (Id "MGA_T2") (Id "MGA_S")) (Id "MGA_A"));
    ("MGA_WARP_T2GZSAF", Or (Or (Or (Id "MGA_T2") (Id "MGA_S")) (Id "MGA_F")) (Id "MGA_A"));
    ("MGA_MAX_G200_PIPES", dec 8); ("MGA_MAX_G400_PIPES", dec 16);
    ("MGA_MAX_WARP_PIPES", Id "MGA_MAX_G400_PIPES"); ("MGA_WARP_UCODE_SIZE", dec 32768);
    ("MGA_CARD_TYPE_G200", dec 1); ("MGA_CARD_TYPE_G400", dec 2); ("MGA_CARD_TYPE_G450", dec 3);
    ("MGA_CARD_TYPE_G550", dec 4); ("MGA_FRONT", hex 0x1); ("MGA_BACK", hex 0x2);
    ("MGA_DEPTH", hex 0x4); ("MGA_UPLOAD_CONTEXT", hex 0x1); ("MGA_UPLOAD_TEX0", hex 0x2);
    ("MGA_UPLOAD_TEX1", hex 0x4); ("MGA_UPLOAD_PIPE", hex 0x8);
    ("MGA_UPLOAD_TEX0IMAGE", hex 0x10); ("MGA_UPLOAD_TEX1IMAGE", hex 0x20);
    ("MGA_UPLOAD_2D", hex 0x40); ("MGA_WAIT_AGE", hex 0x80); ("MGA_UPLOAD_CLIPRECTS", hex 0x100)]].
Definition defs_MGA_CARD_HEAP : list decl := [
  Defines [
    ("MGA_CARD_HEAP", dec 0); ("MGA_AGP_HEAP", dec 1); ("MGA_NR_TEX_HEAPS", dec 2);
    ("MGA_NR_TEX_REGIONS", dec 16); ("MGA_LOG_MIN_TEX_REGION_SIZE", dec 16);
    ("DRM_MGA_IDLE_RETRY", dec 2048)]].
Definition defs_DRM_MGA_INIT : list decl := [
  Defines [
    ("DRM_MGA_INIT", hex 0x00); ("DRM_MGA_FLUSH", hex 0x01); ("DRM_MGA_RESET", hex 0x02);
    ("DRM_MGA_SWAP", hex 0x03); ("DRM_MGA_CLEAR", hex 0x04); ("DRM_MGA_VERTEX", hex 0x05);
    ("DRM_MGA_INDICES", hex 0x06); ("DRM_MGA_ILOAD", hex 0x07); ("DRM_MGA_BLIT", hex 0x08);
    ("DRM_MGA_GETPARAM", hex 0x09)]].
Definition header : header :=
  Header "drm/mga_drm.h" [] (concat [
    defs_MGA_F; defs_MGA_CARD_HEAP; defs_DRM_MGA_INIT]).
End Drm_mga_drm.

(** ** [drm/msm_drm.h] *)

Module Drm_msm_drm.
Definition defs_MSM_PIPE_NONE : list decl := [
  Defines [
    ("MSM_PIPE_NONE", hex 0x00); ("MSM_PIPE_2D0", hex 0x01); ("MSM_PIPE_2D1", hex 0x02);
    ("MSM_PIPE_3D0", hex 0x10)]].
Definition defs_HDR_EOTF_SMTPE_ST2084 : list decl := [
  Defines [
    ("HDR_EOTF_SMTPE_ST2084", hex 0x2); ("HDR_EOTF_HLG", hex 0x3);
    ("DRM_MSM_HDR_DISABLE", dec 0); ("DRM_MSM_HDR_ENABLE", dec 1); ("DRM_MSM_HDR_RESET", dec 2)]].
Definition defs_MSM_PARAM_GPU_ID : list decl := [
  Defines [
    ("MSM_PARAM_GPU_ID", hex 0x01); ("MSM_PARAM_GMEM_SIZE", hex 0x02);
    ("MSM_PARAM_CHIP_ID", hex 0x03); ("MSM_PARAM_MAX_FREQ", hex 0x04);
    ("MSM_PARAM_TIMESTAMP", hex 0x05); ("MSM_PARAM_GMEM_BASE", hex 0x06);
    ("MSM_PARAM_NR_RINGS", hex 0x07); ("MSM_PARAM_GPU_HANG_TIMEOUT", hex 0xa0)]].
Definition defs_MSM_BO_SCANOUT : list decl := [
  Defines [
    ("MSM_BO_SCANOUT", hex 0x00000001); ("MSM_BO_GPU_READONLY", hex 0x00000002);
    ("MSM_BO_PRIVILEGED", hex 0x00000004); ("MSM_BO_SECURE", hex 0x00000008);
    ("MSM_BO_CACHE_MASK", hex 0x000f0000); ("MSM_BO_CACHED", hex 0x00010000);
    ("MSM_BO_WC", hex 0x00020000); ("MSM_BO_UNCACHED", hex 0x00040000);
    ("MSM_BO_FLAGS", Or (Or (Or (Or (Or (Id "MSM_BO_SCANOUT") (Id "MSM_BO_GPU_READONLY")) (Id "MSM_BO_SECURE")) (Id "MSM_BO_CACHED")) (Id "MSM_BO_WC")) (Id "MSM_BO_UNCACHED"))]].
Definition defs_MSM_PREP_READ : list decl := [
  Defines [
    ("MSM_PREP_READ", hex 0x01); ("MSM_PREP_WRITE", hex 0x02); ("MSM_PREP_NOSYNC", hex 0x04);
    ("MSM_PREP_FLAGS", Or (Or (Id "MSM_PREP_READ") (Id "MSM_PREP_WRITE")) (Id "MSM_PREP_NOSYNC"))]].
Definition defs_MSM_SUBMIT_CMD_BUF : list decl := [
  Defines [
    ("MSM_SUBMIT_CMD_BUF", hex 0x0001); ("MSM_SUBMIT_CMD_IB_TARGET_BUF", hex 0x0002);
    ("MSM_SUBMIT_CMD_CTX_RESTORE_BUF", hex 0x0003); ("MSM_SUBMIT_CMD_PROFILE_BUF", hex 0x0004)]].
Definition defs_MSM_COUNTER_GROUP_CP : list decl := [
  Defines [
    ("MSM_COUNTER_GROUP_CP", dec 0); ("MSM_COUNTER_GROUP_RBBM", dec 1);
    ("MSM_COUNTER_GROUP_PC", dec 2); ("MSM_COUNTER_GROUP_VFD", dec 3);
    ("MSM_COUNTER_GROUP_HLSQ", dec 4); ("MSM_COUNTER_GROUP_VPC", dec 5);
    ("MSM_COUNTER_GROUP_TSE", dec 6); ("MSM_COUNTER_GROUP_RAS", dec 7);
    ("MSM_COUNTER_GROUP_UCHE", dec 8); ("MSM_COUNTER_GROUP_TP", dec 9);
    ("MSM_COUNTER_GROUP_SP", dec 10); ("MSM_COUNTER_GROUP_RB", dec 11);
    ("MSM_COUNTER_GROUP_VBIF", dec 12); ("MSM_COUNTER_GROUP_VBIF_PWR", dec 13);
    ("MSM_COUNTER_GROUP_VSC", dec 23); ("MSM_COUNTER_GROUP_CCU", dec 24);
    ("MSM_COUNTER_GROUP_LRZ", dec 25); ("MSM_COUNTER_GROUP_CMP", dec 26);
    ("MSM_COUNTER_GROUP_ALWAYSON", dec 27); ("MSM_COUNTER_GROUP_SP_PWR", dec 28);
    ("MSM_COUNTER_GROUP_TP_PWR", dec 29); ("MSM_COUNTER_GROUP_RB_PWR", dec 30);
    ("MSM_COUNTER_GROUP_CCU_PWR", dec 31); ("MSM_COUNTER_GROUP_UCHE_PWR", dec 32);
    ("MSM_COUNTER_GROUP_CP_PWR", dec 33); ("MSM_COUNTER_GROUP_GPMU_PWR", dec 34);
    ("MSM_COUNTER_GROUP_ALWAYSON_PWR", dec 35)]].
Definition defs_DRM_MSM_GET_PARAM : list decl := [
  Defines [
    ("DRM_MSM_GET_PARAM", hex 0x00); ("DRM_MSM_GEM_NEW", hex 0x02);
    ("DRM_MSM_GEM_INFO", hex 0x03); ("DRM_MSM_GEM_CPU_PREP", hex 0x04);
    ("DRM_MSM_GEM_CPU_FINI", hex 0x05); ("DRM_MSM_GEM_SUBMIT", hex 0x06);
    ("DRM_MSM_WAIT_FENCE", hex 0x07); ("DRM_MSM_GEM_SVM_NEW", hex 0x09);
    ("DRM_MSM_SUBMITQUEUE_NEW", hex 0x0A); ("DRM_MSM_SUBMITQUEUE_CLOSE", hex 0x0B);
    ("DRM_MSM_SUBMITQUEUE_QUERY", hex 0x0C); ("DRM_SDE_WB_CONFIG", hex 0x40);
    ("DRM_MSM_REGISTER_EVENT", hex 0x41); ("DRM_MSM_DEREGISTER_EVENT", hex 0x42);
    ("DRM_MSM_COUNTER_GET", hex 0x43); ("DRM_MSM_COUNTER_PUT", hex 0x44);
    ("DRM_MSM_COUNTER_READ", hex 0x45); ("DRM_MSM_GEM_SYNC", hex 0x46);
    ("DRM_MSM_RMFB2", hex 0x47)]].
Definition header : header :=
  Header "drm/msm_drm.h" [] (concat [
    defs_MSM_PIPE_NONE; defs_HDR_EOTF_SMTPE_ST2084; defs_MSM_PARAM_GPU_ID; defs_MSM_BO_SCANOUT;
    defs_MSM_PREP_READ; defs_MSM_SUBMIT_CMD_BUF; defs_MSM_COUNTER_GROUP_CP;
    defs_DRM_MSM_GET_PARAM]).
End Drm_msm_drm.

(** ** [drm/msm_drm_pp.h] *)

Module Drm_msm_drm_pp.
Definition defs_PA_HSIC_HUE_ENABLE : list decl := [
  Defines [
    ("PA_HSIC_HUE_ENABLE", Shl (dec 1) (dec 0)); ("PA_HSIC_SAT_ENABLE", Shl (dec 1) (dec 1));
    ("PA_HSIC_VAL_ENABLE", Shl (dec 1) (dec 2)); ("PA_HSIC_CONT_ENABLE", Shl (dec 1) (dec 3));
    ("PA_HSIC_LEFT_DISPLAY_ONLY", Shl (dec 1) (dec 4));
    ("PA_HSIC_RIGHT_DISPLAY_ONLY", Shl (dec 1) (dec 5))]].
Definition defs_GAMUT_3D_MODE_17 : list decl := [
  Defines [
    ("GAMUT_3D_MODE_17", dec 1); ("GAMUT_3D_MODE_5", dec 2); ("GAMUT_3D_MODE_13", dec 3);
    ("GAMUT_3D_MODE17_TBL_SZ", dec 1229); ("GAMUT_3D_MODE5_TBL_SZ", dec 32);
    ("GAMUT_3D_MODE13_TBL_SZ", dec 550); ("GAMUT_3D_SCALE_OFF_SZ", dec 16);
    ("GAMUT_3D_SCALEB_OFF_SZ", dec 12); ("GAMUT_3D_TBL_NUM", dec 4);
    ("GAMUT_3D_SCALE_OFF_TBL_NUM", dec 3); ("GAMUT_3D_MAP_EN", Shl (dec 1) (dec 0))]].
Definition header : header :=
  Header "drm/msm_drm_pp.h" [] (concat [
    defs_PA_HSIC_HUE_ENABLE; defs_GAMUT_3D_MODE_17]).
End Drm_msm_drm_pp.

(** ** [drm/nouveau_drm.h] *)

Module Drm_nouveau_drm.
Definition defs_DRM_NOUVEAU_EVENT_NVIF : list decl := [
  Defines [
    ("DRM_NOUVEAU_EVENT_NVIF", hex 0x80000000); ("NOUVEAU_GEM_DOMAIN_CPU", Shl (dec 1) (dec 0));
    ("NOUVEAU_GEM_DOMAIN_VRAM", Shl (dec 1) (dec 1));
    ("NOUVEAU_GEM_DOMAIN_GART", Shl (dec 1) (dec 2));
    ("NOUVEAU_GEM_DOMAIN_MAPPABLE", Shl (dec 1) (dec 3));
    ("NOUVEAU_GEM_DOMAIN_COHERENT", Shl (dec 1) (dec 4));
    ("NOUVEAU_GEM_TILE_COMP", hex 0x00030000); ("NOUVEAU_GEM_TILE_LAYOUT_MASK", hex 0x0000ff00);
    ("NOUVEAU_GEM_TILE_16BPP", hex 0x00000001); ("NOUVEAU_GEM_TILE_32BPP", hex 0x00000002);
    ("NOUVEAU_GEM_TILE_ZETA", hex 0x00000004); ("NOUVEAU_GEM_TILE_NONCONTIG", hex 0x00000008)]].
Definition defs_NOUVEAU_GEM_RELOC_LOW : list decl := [
  Defines [
    ("NOUVEAU_GEM_RELOC_LOW", Shl (dec 1) (dec 0));
    ("NOUVEAU_GEM_RELOC_HIGH", Shl (dec 1) (dec 1));
    ("NOUVEAU_GEM_RELOC_OR", Shl (dec 1) (dec 2)); ("NOUVEAU_GEM_MAX_RELOCS", dec 1024)]].
Definition defs_DRM_NOUVEAU_GETPARAM : list decl := [
  Defines [
    ("DRM_NOUVEAU_GETPARAM", hex 0x00); ("DRM_NOUVEAU_SETPARAM", hex 0x01);
    ("DRM_NOUVEAU_CHANNEL_ALLOC", hex 0x02); ("DRM_NOUVEAU_CHANNEL_FREE", hex 0x03);
    ("DRM_NOUVEAU_GROBJ_ALLOC", hex 0x04); ("DRM_NOUVEAU_NOTIFIEROBJ_ALLOC", hex 0x05);
    ("DRM_NOUVEAU_GPUOBJ_FREE", hex 0x06); ("DRM_NOUVEAU_NVIF", hex 0x07);
    ("DRM_NOUVEAU_GEM_NEW", hex 0x40); ("DRM_NOUVEAU_GEM_PUSHBUF", hex 0x41);
    ("DRM_NOUVEAU_GEM_CPU_PREP", hex 0x42); ("DRM_NOUVEAU_GEM_CPU_FINI", hex 0x43);
    ("DRM_NOUVEAU_GEM_INFO", hex 0x44)]].
Definition header : header :=
  Header "drm/nouveau_drm.h" [] (concat [
    defs_DRM_NOUVEAU_EVENT_NVIF; defs_NOUVEAU_GEM_RELOC_LOW; defs_DRM_NOUVEAU_GETPARAM]).
End Drm_nouveau_drm.

(** ** [drm/qxl_drm.h] *)

Module Drm_qxl_drm.
Definition defs_QXL_GEM_DOMAIN_CPU : list decl := [
  Defines [
    ("QXL_GEM_DOMAIN_CPU", dec 0); ("QXL_GEM_DOMAIN_VRAM", dec 1);
    ("QXL_GEM_DOMAIN_SURFACE", dec 2); ("DRM_QXL_ALLOC", hex 0x00); ("DRM_QXL_MAP", hex 0x01);
    ("DRM_QXL_EXECBUFFER", hex 0x02); ("DRM_QXL_UPDATE_AREA", hex 0x03);
    ("DRM_QXL_GETPARAM", hex 0x04); ("DRM_QXL_CLIENTCAP", hex 0x05);
    ("DRM_QXL_ALLOC_SURF", hex 0x06)]].
Definition header : header :=
  Header "drm/qxl_drm.h" [] (concat [
    defs_QXL_GEM_DOMAIN_CPU]).
End Drm_qxl_drm.

(** ** [drm/r128_drm.h] *)

Module Drm_r128_drm.
Definition defs_R128_UPLOAD_CONTEXT : list decl := [
  Defines [
    ("R128_UPLOAD_CONTEXT", hex 0x001); ("R128_UPLOAD_SETUP", hex 0x002);
    ("R128_UPLOAD_TEX0", hex 0x004); ("R128_UPLOAD_TEX1", hex 0x008);
    ("R128_UPLOAD_TEX0IMAGES", hex 0x010); ("R128_UPLOAD_TEX1IMAGES", hex 0x020);
    ("R128_UPLOAD_CORE", hex 0x040); ("R128_UPLOAD_MASKS", hex 0x080);
    ("R128_UPLOAD_WINDOW", hex 0x100); ("R128_UPLOAD_CLIPRECTS", hex 0x200);
    ("R128_REQUIRE_QUIESCENCE", hex 0x400); ("R128_UPLOAD_ALL", hex 0x7ff);
    ("R128_FRONT", hex 0x1); ("R128_BACK", hex 0x2); ("R128_DEPTH", hex 0x4);
    ("R128_POINTS", hex 0x1); ("R128_LINES", hex 0x2); ("R128_LINE_STRIP", hex 0x3);
    ("R128_TRIANGLES", hex 0x4); ("R128_TRIANGLE_FAN", hex 0x5);
    ("R128_TRIANGLE_STRIP", hex 0x6); ("R128_BUFFER_SIZE", dec 16384);
    ("R128_INDEX_PRIM_OFFSET", dec 20); ("R128_HOSTDATA_BLIT_OFFSET", dec 32);
    ("R128_NR_SAREA_CLIPRECTS", dec 12)];
  Defines [
    ("R128_LOCAL_TEX_HEAP", dec 0); ("R128_AGP_TEX_HEAP", dec 1); ("R128_NR_TEX_HEAPS", dec 2);
    ("R128_NR_TEX_REGIONS", dec 64); ("R128_LOG_TEX_GRANULARITY", dec 16);
    ("R128_NR_CONTEXT_REGS", dec 12); ("R128_MAX_TEXTURE_LEVELS", dec 11);
    ("R128_MAX_TEXTURE_UNITS", dec 2)]].
Definition defs_DRM_R128_INIT : list decl := [
  Defines [
    ("DRM_R128_INIT", hex 0x00); ("DRM_R128_CCE_START", hex 0x01);
    ("DRM_R128_CCE_STOP", hex 0x02); ("DRM_R128_CCE_RESET", hex 0x03);
    ("DRM_R128_CCE_IDLE", hex 0x04); ("DRM_R128_RESET", hex 0x06); ("DRM_R128_SWAP", hex 0x07);
    ("DRM_R128_CLEAR", hex 0x08); ("DRM_R128_VERTEX", hex 0x09); ("DRM_R128_INDICES", hex 0x0a);
    ("DRM_R128_BLIT", hex 0x0b); ("DRM_R128_DEPTH", hex 0x0c); ("DRM_R128_STIPPLE", hex 0x0d);
    ("DRM_R128_INDIRECT", hex 0x0f); ("DRM_R128_FULLSCREEN", hex 0x10);
    ("DRM_R128_CLEAR2", hex 0x11); ("DRM_R128_GETPARAM", hex 0x12); ("DRM_R128_FLIP", hex 0x13)]].
Definition enum_R128_WRITE_SPAN : list decl := [
  Enum [
    ("R128_WRITE_SPAN", Some (hex 0x01)); ("R128_WRITE_PIXELS", Some (hex 0x02));
    ("R128_READ_SPAN", Some (hex 0x03)); ("R128_READ_PIXELS", Some (hex 0x04))]].
Definition header : header :=
  Header "drm/r128_drm.h" [] (concat [
    defs_R128_UPLOAD_CONTEXT; defs_DRM_R128_INIT; enum_R128_WRITE_SPAN]).
End Drm_r128_drm.

(** ** [drm/radeon_drm.h] *)

Module Drm_radeon_drm.
Definition defs_RADEON_UPLOAD_CONTEXT : list decl := [
  Defines [
    ("RADEON_UPLOAD_CONTEXT", hex 0x00000001); ("RADEON_UPLOAD_VERTFMT", hex 0x00000002);
    ("RADEON_UPLOAD_LINE", hex 0x00000004); ("RADEON_UPLOAD_BUMPMAP", hex 0x00000008);
    ("RADEON_UPLOAD_MASKS", hex 0x00000010); ("RADEON_UPLOAD_VIEWPORT", hex 0x00000020);
    ("RADEON_UPLOAD_SETUP", hex 0x00000040); ("RADEON_UPLOAD_TCL", hex 0x00000080);
    ("RADEON_UPLOAD_MISC", hex 0x00000100); ("RADEON_UPLOAD_TEX0", hex 0x00000200);
    ("RADEON_UPLOAD_TEX1", hex 0x00000400); ("RADEON_UPLOAD_TEX2", hex 0x00000800);
    ("RADEON_UPLOAD_TEX0IMAGES", hex 0x00001000); ("RADEON_UPLOAD_TEX1IMAGES", hex 0x00002000);
    ("RADEON_UPLOAD_TEX2IMAGES", hex 0x00004000); ("RADEON_UPLOAD_CLIPRECTS", hex 0x00008000);
    ("RADEON_REQUIRE_QUIESCENCE", hex 0x00010000); ("RADEON_UPLOAD_ZBIAS", hex 0x00020000);
    ("RADEON_UPLOAD_ALL", hex 0x003effff); ("RADEON_UPLOAD_CONTEXT_ALL", hex 0x003e01ff)];
  Defines [
    ("RADEON_EMIT_PP_MISC", dec 0); ("RADEON_EMIT_PP_CNTL", dec 1);
    ("RADEON_EMIT_RB3D_COLORPITCH", dec 2); ("RADEON_EMIT_RE_LINE_PATTERN", dec 3);
    ("RADEON_EMIT_SE_LINE_WIDTH", dec 4); ("RADEON_EMIT_PP_LUM_MATRIX", dec 5);
    ("RADEON_EMIT_PP_ROT_MATRIX_0", dec 6); ("RADEON_EMIT_RB3D_STENCILREFMASK", dec 7);
    ("RADEON_EMIT_SE_VPORT_XSCALE", dec 8); ("RADEON_EMIT_SE_CNTL", dec 9);
    ("RADEON_EMIT_SE_CNTL_STATUS", dec 10); ("RADEON_EMIT_RE_MISC", dec 11);
    ("RADEON_EMIT_PP_TXFILTER_0", dec 12); ("RADEON_EMIT_PP_BORDER_COLOR_0", dec 13);
    ("RADEON_EMIT_PP_TXFILTER_1", dec 14); ("RADEON_EMIT_PP_BORDER_COLOR_1", dec 15);
    ("RADEON_EMIT_PP_TXFILTER_2", dec 16); ("RADEON_EMIT_PP_BORDER_COLOR_2", dec 17);
    ("RADEON_EMIT_SE_ZBIAS_FACTOR", dec 18); ("RADEON_EMIT_SE_TCL_OUTPUT_VTX_FMT", dec 19);
    ("RADEON_EMIT_SE_TCL_MATERIAL_EMMISSIVE_RED", dec 20); ("R200_EMIT_PP_TXCBLEND_0", dec 21);
    ("R200_EMIT_PP_TXCBLEND_1", dec 22); ("R200_EMIT_PP_TXCBLEND_2", dec 23);
    ("R200_EMIT_PP_TXCBLEND_3", dec 24); ("R200_EMIT_PP_TXCBLEND_4", dec 25);
    ("R200_EMIT_PP_TXCBLEND_5", dec 26); ("R200_EMIT_PP_TXCBLEND_6", dec 27);
    ("R200_EMIT_PP_TXCBLEND_7", dec 28); ("R200_EMIT_TCL_LIGHT_MODEL_CTL_0", dec 29);
    ("R200_EMIT_TFACTOR_0", dec 30); ("R200_EMIT_VTX_FMT_0", dec 31);
    ("R200_EMIT_VAP_CTL", dec 32); ("R200_EMIT_MATRIX_SELECT_0", dec 33);
    ("R200_EMIT_TEX_PROC_CTL_2", dec 34); ("R200_EMIT_TCL_UCP_VERT_BLEND_CTL", dec 35);
    ("R200_EMIT_PP_TXFILTER_0", dec 36); ("R200_EMIT_PP_TXFILTER_1", dec 37);
    ("R200_EMIT_PP_TXFILTER_2", dec 38); ("R200_EMIT_PP_TXFILTER_3", dec 39);
    ("R200_EMIT_PP_TXFILTER_4", dec 40); ("R200_EMIT_PP_TXFILTER_5", dec 41);
    ("R200_EMIT_PP_TXOFFSET_0", dec 42); ("R200_EMIT_PP_TXOFFSET_1", dec 43);
    ("R200_EMIT_PP_TXOFFSET_2", dec 44); ("R200_EMIT_PP_TXOFFSET_3", dec 45);
    ("R200_EMIT_PP_TXOFFSET_4", dec 46); ("R200_EMIT_PP_TXOFFSET_5", dec 47);
    ("R200_EMIT_VTE_CNTL", dec 48); ("R200_EMIT_OUTPUT_VTX_COMP_SEL", dec 49);
    ("R200_EMIT_PP_TAM_DEBUG3", dec 50); ("R200_EMIT_PP_CNTL_X", dec 51);
    ("R200_EMIT_RB3D_DEPTHXY_OFFSET", dec 52); ("R200_EMIT_RE_AUX_SCISSOR_CNTL", dec 53);
    ("R200_EMIT_RE_SCISSOR_TL_0", dec 54); ("R200_EMIT_RE_SCISSOR_TL_1", dec 55);
    ("R200_EMIT_RE_SCISSOR_TL_2", dec 56); ("R200_EMIT_SE_VAP_CNTL_STATUS", dec 57);
    ("R200_EMIT_SE_VTX_STATE_CNTL", dec 58); ("R200_EMIT_RE_POINTSIZE", dec 59);
    ("R200_EMIT_TCL_INPUT_VTX_VECTOR_ADDR_0", dec 60); ("R200_EMIT_PP_CUBIC_FACES_0", dec 61);
    ("R200_EMIT_PP_CUBIC_OFFSETS_0", dec 62); ("R200_EMIT_PP_CUBIC_FACES_1", dec 63);
    ("R200_EMIT_PP_CUBIC_OFFSETS_1", dec 64); ("R200_EMIT_PP_CUBIC_FACES_2", dec 65);
    ("R200_EMIT_PP_CUBIC_OFFSETS_2", dec 66); ("R200_EMIT_PP_CUBIC_FACES_3", dec 67);
    ("R200_EMIT_PP_CUBIC_OFFSETS_3", dec 68); ("R200_EMIT_PP_CUBIC_FACES_4", dec 69);
    ("R200_EMIT_PP_CUBIC_OFFSETS_4", dec 70); ("R200_EMIT_PP_CUBIC_FACES_5", dec 71);
    ("R200_EMIT_PP_CUBIC_OFFSETS_5", dec 72); ("RADEON_EMIT_PP_TEX_SIZE_0", dec 73);
    ("RADEON_EMIT_PP_TEX_SIZE_1", dec 74); ("RADEON_EMIT_PP_TEX_SIZE_2", dec 75);
    ("R200_EMIT_RB3D_BLENDCOLOR", dec 76); ("R200_EMIT_TCL_POINT_SPRITE_CNTL", dec 77);
    ("RADEON_EMIT_PP_CUBIC_FACES_0", dec 78); ("RADEON_EMIT_PP_CUBIC_OFFSETS_T0", dec 79);
    ("RADEON_EMIT_PP_CUBIC_FACES_1", dec 80); ("RADEON_EMIT_PP_CUBIC_OFFSETS_T1", dec 81);
    ("RADEON_EMIT_PP_CUBIC_FACES_2", dec 82); ("RADEON_EMIT_PP_CUBIC_OFFSETS_T2", dec 83);
    ("R200_EMIT_PP_TRI_PERF_CNTL", dec 84); ("R200_EMIT_PP_AFS_0", dec 85);
    ("R200_EMIT_PP_AFS_1", dec 86); ("R200_EMIT_ATF_TFACTOR", dec 87);
    ("R200_EMIT_PP_TXCTLALL_0", dec 88); ("R200_EMIT_PP_TXCTLALL_1", dec 89);
    ("R200_EMIT_PP_TXCTLALL_2", dec 90); ("R200_EMIT_PP_TXCTLALL_3", dec 91);
    ("R200_EMIT_PP_TXCTLALL_4", dec 92); ("R200_EMIT_PP_TXCTLALL_5", dec 93);
    ("R200_EMIT_VAP_PVS_CNTL", dec 94); ("RADEON_MAX_STATE_PACKETS", dec 95)];
  Defines [
    ("RADEON_CMD_PACKET", dec 1); ("RADEON_CMD_SCALARS", dec 2); ("RADEON_CMD_VECTORS", dec 3);
    ("RADEON_CMD_DMA_DISCARD", dec 4); ("RADEON_CMD_PACKET3", dec 5);
    ("RADEON_CMD_PACKET3_CLIP", dec 6); ("RADEON_CMD_SCALARS2", dec 7);
    ("RADEON_CMD_WAIT", dec 8); ("RADEON_CMD_VECLINEAR", dec 9)]].
Definition defs_RADEON_WAIT_2D : list decl := [
  Defines [
    ("RADEON_WAIT_2D", hex 0x1); ("RADEON_WAIT_3D", hex 0x2); ("R300_CMD_PACKET3_CLEAR", dec 0);
    ("R300_CMD_PACKET3_RAW", dec 1)];
  Defines [
    ("R300_CMD_PACKET0", dec 1); ("R300_CMD_VPU", dec 2); ("R300_CMD_PACKET3", dec 3);
    ("R300_CMD_END3D", dec 4); ("R300_CMD_CP_DELAY", dec 5); ("R300_CMD_DMA_DISCARD", dec 6);
    ("R300_CMD_WAIT", dec 7); ("R300_WAIT_2D", hex 0x1); ("R300_WAIT_3D", hex 0x2)];
  Defines [
    ("R300_WAIT_2D_CLEAN", hex 0x3); ("R300_WAIT_3D_CLEAN", hex 0x4);
    ("R300_NEW_WAIT_2D_3D", hex 0x3); ("R300_NEW_WAIT_2D_2D_CLEAN", hex 0x4);
    ("R300_NEW_WAIT_3D_3D_CLEAN", hex 0x6); ("R300_NEW_WAIT_2D_2D_CLEAN_3D_3D_CLEAN", hex 0x8);
    ("R300_CMD_SCRATCH", dec 8); ("R300_CMD_R500FP", dec 9)]].
Definition defs_RADEON_FRONT : list decl := [
  Defines [
    ("RADEON_FRONT", hex 0x1); ("RADEON_BACK", hex 0x2); ("RADEON_DEPTH", hex 0x4);
    ("RADEON_STENCIL", hex 0x8); ("RADEON_CLEAR_FASTZ", hex 0x80000000);
    ("RADEON_USE_HIERZ", hex 0x40000000); ("RADEON_USE_COMP_ZBUF", hex 0x20000000);
    ("R500FP_CONSTANT_TYPE", Shl (dec 1) (dec 1));
    ("R500FP_CONSTANT_CLAMP", Shl (dec 1) (dec 2)); ("RADEON_POINTS", hex 0x1);
    ("RADEON_LINES", hex 0x2); ("RADEON_LINE_STRIP", hex 0x3); ("RADEON_TRIANGLES", hex 0x4);
    ("RADEON_TRIANGLE_FAN", hex 0x5); ("RADEON_TRIANGLE_STRIP", hex 0x6);
    ("RADEON_BUFFER_SIZE", dec 65536); ("RADEON_INDEX_PRIM_OFFSET", dec 20);
    ("RADEON_SCRATCH_REG_OFFSET", dec 32); ("R600_SCRATCH_REG_OFFSET", dec 256);
    ("RADEON_NR_SAREA_CLIPRECTS", dec 12)];
  Defines [
    ("RADEON_LOCAL_TEX_HEAP", dec 0); ("RADEON_GART_TEX_HEAP", dec 1);
    ("RADEON_NR_TEX_HEAPS", dec 2); ("RADEON_NR_TEX_REGIONS", dec 64);
    ("RADEON_LOG_TEX_GRANULARITY", dec 16); ("RADEON_MAX_TEXTURE_LEVELS", dec 12);
    ("RADEON_MAX_TEXTURE_UNITS", dec 3); ("RADEON_MAX_SURFACES", dec 8)]].
Definition defs_DRM_RADEON_CP_INIT : list decl := [
  Defines [
    ("DRM_RADEON_CP_INIT", hex 0x00); ("DRM_RADEON_CP_START", hex 0x01);
    ("DRM_RADEON_CP_STOP", hex 0x02); ("DRM_RADEON_CP_RESET", hex 0x03);
    ("DRM_RADEON_CP_IDLE", hex 0x04); ("DRM_RADEON_RESET", hex 0x05);
    ("DRM_RADEON_FULLSCREEN", hex 0x06); ("DRM_RADEON_SWAP", hex 0x07);
    ("DRM_RADEON_CLEAR", hex 0x08); ("DRM_RADEON_VERTEX", hex 0x09);
    ("DRM_RADEON_INDICES", hex 0x0A); ("DRM_RADEON_STIPPLE", hex 0x0C);
    ("DRM_RADEON_INDIRECT", hex 0x0D); ("DRM_RADEON_TEXTURE", hex 0x0E);
    ("DRM_RADEON_VERTEX2", hex 0x0F); ("DRM_RADEON_CMDBUF", hex 0x10);
    ("DRM_RADEON_GETPARAM", hex 0x11); ("DRM_RADEON_FLIP", hex 0x12);
    ("DRM_RADEON_ALLOC", hex 0x13); ("DRM_RADEON_FREE", hex 0x14);
    ("DRM_RADEON_INIT_HEAP", hex 0x15); ("DRM_RADEON_IRQ_EMIT", hex 0x16);
    ("DRM_RADEON_IRQ_WAIT", hex 0x17); ("DRM_RADEON_CP_RESUME", hex 0x18);
    ("DRM_RADEON_SETPARAM", hex 0x19); ("DRM_RADEON_SURF_ALLOC", hex 0x1a);
    ("DRM_RADEON_SURF_FREE", hex 0x1b); ("DRM_RADEON_GEM_INFO", hex 0x1c);
    ("DRM_RADEON_GEM_CREATE", hex 0x1d); ("DRM_RADEON_GEM_MMAP", hex 0x1e);
    ("DRM_RADEON_GEM_PREAD", hex 0x21); ("DRM_RADEON_GEM_PWRITE", hex 0x22);
    ("DRM_RADEON_GEM_SET_DOMAIN", hex 0x23); ("DRM_RADEON_GEM_WAIT_IDLE", hex 0x24);
    ("DRM_RADEON_CS", hex 0x26); ("DRM_RADEON_INFO", hex 0x27);
    ("DRM_RADEON_GEM_SET_TILING", hex 0x28); ("DRM_RADEON_GEM_GET_TILING", hex 0x29);
    ("DRM_RADEON_GEM_BUSY", hex 0x2a); ("DRM_RADEON_GEM_VA", hex 0x2b);
    ("DRM_RADEON_GEM_OP", hex 0x2c); ("DRM_RADEON_GEM_USERPTR", hex 0x2d)]].
Definition enum_RADEON_INIT_CP : list decl := [
  Enum [
    ("RADEON_INIT_CP", Some (hex 0x01)); ("RADEON_CLEANUP_CP", Some (hex 0x02));
    ("RADEON_INIT_R200_CP", Some (hex 0x03)); ("RADEON_INIT_R300_CP", Some (hex 0x04));
    ("RADEON_INIT_R600_CP", Some (hex 0x05))]].
Definition defs_CLEAR_X1 : list decl := [
  Defines [
    ("CLEAR_X1", dec 0); ("CLEAR_Y1", dec 1); ("CLEAR_X2", dec 2); ("CLEAR_Y2", dec 3);
    ("CLEAR_DEPTH", dec 4)]].
Definition defs_RADEON_PARAM_GART_BUFFER_OFFSET : list decl := [
  Defines [
    ("RADEON_PARAM_GART_BUFFER_OFFSET", dec 1); ("RADEON_PARAM_LAST_FRAME", dec 2);
    ("RADEON_PARAM_LAST_DISPATCH", dec 3); ("RADEON_PARAM_LAST_CLEAR", dec 4);
    ("RADEON_PARAM_IRQ_NR", dec 5); ("RADEON_PARAM_GART_BASE", dec 6);
    ("RADEON_PARAM_REGISTER_HANDLE", dec 7); ("RADEON_PARAM_STATUS_HANDLE", dec 8);
    ("RADEON_PARAM_SAREA_HANDLE", dec 9); ("RADEON_PARAM_GART_TEX_HANDLE", dec 10);
    ("RADEON_PARAM_SCRATCH_OFFSET", dec 11); ("RADEON_PARAM_CARD_TYPE", dec 12);
    ("RADEON_PARAM_VBLANK_CRTC", dec 13); ("RADEON_PARAM_FB_LOCATION", dec 14);
    ("RADEON_PARAM_NUM_GB_PIPES", dec 15); ("RADEON_PARAM_DEVICE_ID", dec 16);
    ("RADEON_PARAM_NUM_Z_PIPES", dec 17)]].
Definition defs_RADEON_SETPARAM_FB_LOCATION : list decl := [
  Defines [
    ("RADEON_SETPARAM_FB_LOCATION", dec 1); ("RADEON_SETPARAM_SWITCH_TILING", dec 2);
    ("RADEON_SETPARAM_PCIGART_LOCATION", dec 3); ("RADEON_SETPARAM_NEW_MEMMAP", dec 4);
    ("RADEON_SETPARAM_PCIGART_TABLE_SIZE", dec 5); ("RADEON_SETPARAM_VBLANK_CRTC", dec 6)]].
Definition defs_RADEON_GEM_NO_BACKING_STORE : list decl := [
  Defines [
    ("RADEON_GEM_NO_BACKING_STORE", Shl (dec 1) (dec 0));
    ("RADEON_GEM_GTT_UC", Shl (dec 1) (dec 1)); ("RADEON_GEM_GTT_WC", Shl (dec 1) (dec 2));
    ("RADEON_GEM_CPU_ACCESS", Shl (dec 1) (dec 3));
    ("RADEON_GEM_NO_CPU_ACCESS", Shl (dec 1) (dec 4))]].
Definition defs_RADEON_GEM_USERPTR_READONLY : list decl := [
  Defines [
    ("RADEON_GEM_USERPTR_READONLY", Shl (dec 1) (dec 0));
    ("RADEON_GEM_USERPTR_ANONONLY", Shl (dec 1) (dec 1));
    ("RADEON_GEM_USERPTR_VALIDATE", Shl (dec 1) (dec 2));
    ("RADEON_GEM_USERPTR_REGISTER", Shl (dec 1) (dec 3))]].
Definition defs_RADEON_TILING_MACRO : list decl := [
  Defines [
    ("RADEON_TILING_MACRO", hex 0x1); ("RADEON_TILING_MICRO", hex 0x2);
    ("RADEON_TILING_SWAP_16BIT", hex 0x4); ("RADEON_TILING_SWAP_32BIT", hex 0x8);
    ("RADEON_TILING_SURFACE", hex 0x10); ("RADEON_TILING_MICRO_SQUARE", hex 0x20);
    ("RADEON_TILING_EG_BANKW_SHIFT", dec 8); ("RADEON_TILING_EG_BANKW_MASK", hex 0xf);
    ("RADEON_TILING_EG_BANKH_SHIFT", dec 12); ("RADEON_TILING_EG_BANKH_MASK", hex 0xf);
    ("RADEON_TILING_EG_MACRO_TILE_ASPECT_SHIFT", dec 16);
    ("RADEON_TILING_EG_MACRO_TILE_ASPECT_MASK", hex 0xf);
    ("RADEON_TILING_EG_TILE_SPLIT_SHIFT", dec 24); ("RADEON_TILING_EG_TILE_SPLIT_MASK", hex 0xf);
    ("RADEON_TILING_EG_STENCIL_TILE_SPLIT_SHIFT", dec 28);
    ("RADEON_TILING_EG_STENCIL_TILE_SPLIT_MASK", hex 0xf)]].
Definition defs_RADEON_GEM_OP_GET_INITIAL_DOMAIN : list decl := [
  Defines [
    ("RADEON_GEM_OP_GET_INITIAL_DOMAIN", dec 0); ("RADEON_GEM_OP_SET_INITIAL_DOMAIN", dec 1);
    ("RADEON_VA_MAP", dec 1); ("RADEON_VA_UNMAP", dec 2); ("RADEON_VA_RESULT_OK", dec 0);
    ("RADEON_VA_RESULT_ERROR", dec 1); ("RADEON_VA_RESULT_VA_EXIST", dec 2);
    ("RADEON_VM_PAGE_VALID", Shl (dec 1) (dec 0));
    ("RADEON_VM_PAGE_READABLE", Shl (dec 1) (dec 1));
    ("RADEON_VM_PAGE_WRITEABLE", Shl (dec 1) (dec 2));
    ("RADEON_VM_PAGE_SYSTEM", Shl (dec 1) (dec 3));
    ("RADEON_VM_PAGE_SNOOPED", Shl (dec 1) (dec 4))]].
Definition defs_RADEON_CHUNK_ID_RELOCS : list decl := [
  Defines [
    ("RADEON_CHUNK_ID_RELOCS", hex 0x01); ("RADEON_CHUNK_ID_IB", hex 0x02);
    ("RADEON_CHUNK_ID_FLAGS", hex 0x03); ("RADEON_CHUNK_ID_CONST_IB", hex 0x04);
    ("RADEON_CS_KEEP_TILING_FLAGS", hex 0x01); ("RADEON_CS_USE_VM", hex 0x02);
    ("RADEON_CS_END_OF_FRAME", hex 0x04); ("RADEON_CS_RING_GFX", dec 0);
    ("RADEON_CS_RING_COMPUTE", dec 1); ("RADEON_CS_RING_DMA", dec 2);
    ("RADEON_CS_RING_UVD", dec 3); ("RADEON_CS_RING_VCE", dec 4)]].
Definition defs_RADEON_INFO_DEVICE_ID : list decl := [
  Defines [
    ("RADEON_INFO_DEVICE_ID", hex 0x00); ("RADEON_INFO_NUM_GB_PIPES", hex 0x01);
    ("RADEON_INFO_NUM_Z_PIPES", hex 0x02); ("RADEON_INFO_ACCEL_WORKING", hex 0x03);
    ("RADEON_INFO_CRTC_FROM_ID", hex 0x04); ("RADEON_INFO_ACCEL_WORKING2", hex 0x05);
    ("RADEON_INFO_TILING_CONFIG", hex 0x06); ("RADEON_INFO_WANT_HYPERZ", hex 0x07);
    ("RADEON_INFO_WANT_CMASK", hex 0x08); ("RADEON_INFO_CLOCK_CRYSTAL_FREQ", hex 0x09);
    ("RADEON_INFO_NUM_BACKENDS", hex 0x0a); ("RADEON_INFO_NUM_TILE_PIPES", hex 0x0b);
    ("RADEON_INFO_FUSION_GART_WORKING", hex 0x0c); ("RADEON_INFO_BACKEND_MAP", hex 0x0d);
    ("RADEON_INFO_VA_START", hex 0x0e); ("RADEON_INFO_IB_VM_MAX_SIZE", hex 0x0f);
    ("RADEON_INFO_MAX_PIPES", hex 0x10); ("RADEON_INFO_TIMESTAMP", hex 0x11);
    ("RADEON_INFO_MAX_SE", hex 0x12); ("RADEON_INFO_MAX_SH_PER_SE", hex 0x13);
    ("RADEON_INFO_FASTFB_WORKING", hex 0x14); ("RADEON_INFO_RING_WORKING", hex 0x15);
    ("RADEON_INFO_SI_TILE_MODE_ARRAY", hex 0x16); ("RADEON_INFO_SI_CP_DMA_COMPUTE", hex 0x17);
    ("RADEON_INFO_CIK_MACROTILE_MODE_ARRAY", hex 0x18);
    ("RADEON_INFO_SI_BACKEND_ENABLED_MASK", hex 0x19); ("RADEON_INFO_MAX_SCLK", hex 0x1a);
    ("RADEON_INFO_VCE_FW_VERSION", hex 0x1b); ("RADEON_INFO_VCE_FB_VERSION", hex 0x1c);
    ("RADEON_INFO_NUM_BYTES_MOVED", hex 0x1d); ("RADEON_INFO_VRAM_USAGE", hex 0x1e);
    ("RADEON_INFO_GTT_USAGE", hex 0x1f); ("RADEON_INFO_ACTIVE_CU_COUNT", hex 0x20);
    ("RADEON_INFO_CURRENT_GPU_TEMP", hex 0x21); ("RADEON_INFO_CURRENT_GPU_SCLK", hex 0x22);
    ("RADEON_INFO_CURRENT_GPU_MCLK", hex 0x23); ("RADEON_INFO_READ_REG", hex 0x24);
    ("RADEON_INFO_VA_UNMAP_WORKING", hex 0x25); ("RADEON_INFO_GPU_RESET_COUNTER", hex 0x26)]].
Definition defs_SI_TILE_MODE_COLOR_LINEAR_ALIGNED : list decl := [
  Defines [
    ("SI_TILE_MODE_COLOR_LINEAR_ALIGNED", dec 8); ("SI_TILE_MODE_COLOR_1D", dec 13);
    ("SI_TILE_MODE_COLOR_1D_SCANOUT", dec 9); ("SI_TILE_MODE_COLOR_2D_8BPP", dec 14);
    ("SI_TILE_MODE_COLOR_2D_16BPP", dec 15); ("SI_TILE_MODE_COLOR_2D_32BPP", dec 16);
    ("SI_TILE_MODE_COLOR_2D_64BPP", dec 17); ("SI_TILE_MODE_COLOR_2D_SCANOUT_16BPP", dec 11);
    ("SI_TILE_MODE_COLOR_2D_SCANOUT_32BPP", dec 12); ("SI_TILE_MODE_DEPTH_STENCIL_1D", dec 4);
    ("SI_TILE_MODE_DEPTH_STENCIL_2D", dec 0); ("SI_TILE_MODE_DEPTH_STENCIL_2D_2AA", dec 3);
    ("SI_TILE_MODE_DEPTH_STENCIL_2D_4AA", dec 3); ("SI_TILE_MODE_DEPTH_STENCIL_2D_8AA", dec 2);
    ("CIK_TILE_MODE_DEPTH_STENCIL_1D", dec 5)]].
Definition header : header :=
  Header "drm/radeon_drm.h" [] (concat [
    defs_RADEON_UPLOAD_CONTEXT; defs_RADEON_WAIT_2D; defs_RADEON_FRONT; defs_DRM_RADEON_CP_INIT;
    enum_RADEON_INIT_CP; defs_CLEAR_X1; defs_RADEON_PARAM_GART_BUFFER_OFFSET;
    defs_RADEON_SETPARAM_FB_LOCATION; defs_RADEON_GEM_NO_BACKING_STORE;
    defs_RADEON_GEM_USERPTR_READONLY; defs_RADEON_TILING_MACRO;
    defs_RADEON_GEM_OP_GET_INITIAL_DOMAIN; defs_RADEON_CHUNK_ID_RELOCS;
    defs_RADEON_INFO_DEVICE_ID; defs_SI_TILE_MODE_COLOR_LINEAR_ALIGNED]).
End Drm_radeon_drm.

(** ** [drm/savage_drm.h] *)

Module Drm_savage_drm.
Definition defs_SAVAGE_CARD_HEAP : list decl := [
  Defines [
    ("SAVAGE_CARD_HEAP", dec 0); ("SAVAGE_AGP_HEAP", dec 1); ("SAVAGE_NR_TEX_HEAPS", dec 2);
    ("SAVAGE_NR_TEX_REGIONS", dec 16); ("SAVAGE_LOG_MIN_TEX_REGION_SIZE", dec 16)]].
Definition defs_DRM_SAVAGE_BCI_INIT : list decl := [
  Defines [
    ("DRM_SAVAGE_BCI_INIT", hex 0x00); ("DRM_SAVAGE_BCI_CMDBUF", hex 0x01);
    ("DRM_SAVAGE_BCI_EVENT_EMIT", hex 0x02); ("DRM_SAVAGE_BCI_EVENT_WAIT", hex 0x03)]].
Definition defs_SAVAGE_CMD_STATE : list decl := [
  Defines [
    ("SAVAGE_CMD_STATE", dec 0); ("SAVAGE_CMD_DMA_PRIM", dec 1); ("SAVAGE_CMD_VB_PRIM", dec 2);
    ("SAVAGE_CMD_DMA_IDX", dec 3); ("SAVAGE_CMD_VB_IDX", dec 4); ("SAVAGE_CMD_CLEAR", dec 5);
    ("SAVAGE_CMD_SWAP", dec 6); ("SAVAGE_PRIM_TRILIST", dec 0); ("SAVAGE_PRIM_TRISTRIP", dec 1);
    ("SAVAGE_PRIM_TRIFAN", dec 2); ("SAVAGE_PRIM_TRILIST_201", dec 3)];
  Defines [
    ("SAVAGE_SKIP_Z", hex 0x01); ("SAVAGE_SKIP_W", hex 0x02); ("SAVAGE_SKIP_C0", hex 0x04);
    ("SAVAGE_SKIP_C1", hex 0x08); ("SAVAGE_SKIP_S0", hex 0x10); ("SAVAGE_SKIP_T0", hex 0x20);
    ("SAVAGE_SKIP_ST0", hex 0x30); ("SAVAGE_SKIP_S1", hex 0x40); ("SAVAGE_SKIP_T1", hex 0x80);
    ("SAVAGE_SKIP_ST1", hex 0xc0); ("SAVAGE_SKIP_ALL_S3D", hex 0x3f);
    ("SAVAGE_SKIP_ALL_S4", hex 0xff); ("SAVAGE_FRONT", hex 0x1); ("SAVAGE_BACK", hex 0x2);
    ("SAVAGE_DEPTH", hex 0x4)]].
Definition header : header :=
  Header "drm/savage_drm.h" [] (concat [
    defs_SAVAGE_CARD_HEAP; defs_DRM_SAVAGE_BCI_INIT; defs_SAVAGE_CMD_STATE]).
End Drm_savage_drm.

(** ** [drm/sde_drm.h] *)

Module Drm_sde_drm.
Definition defs_SDE_MAX_PLANES : list decl := [
  Defines [
    ("SDE_MAX_PLANES", dec 4); ("SDE_MAX_DE_CURVES", dec 3);
    ("FILTER_EDGE_DIRECTED_2D", hex 0x0); ("FILTER_CIRCULAR_2D", hex 0x1);
    ("FILTER_SEPARABLE_1D", hex 0x2); ("FILTER_BILINEAR", hex 0x3);
    ("FILTER_ALPHA_DROP_REPEAT", hex 0x0); ("FILTER_ALPHA_BILINEAR", hex 0x1);
    ("FILTER_ALPHA_2D", hex 0x3); ("FILTER_BLEND_CIRCULAR_2D", hex 0x0);
    ("FILTER_BLEND_SEPARABLE_1D", hex 0x1); ("SCALER_LUT_SWAP", hex 0x1);
    ("SCALER_LUT_DIR_WR", hex 0x2); ("SCALER_LUT_Y_CIR_WR", hex 0x4);
    ("SCALER_LUT_UV_CIR_WR", hex 0x8); ("SCALER_LUT_Y_SEP_WR", hex 0x10);
    ("SCALER_LUT_UV_SEP_WR", hex 0x20)];
  Defines [
    ("SDE_DRM_BLEND_OP_NOT_DEFINED", dec 0); ("SDE_DRM_BLEND_OP_OPAQUE", dec 1);
    ("SDE_DRM_BLEND_OP_PREMULTIPLIED", dec 2); ("SDE_DRM_BLEND_OP_COVERAGE", dec 3);
    ("SDE_DRM_BLEND_OP_MAX", dec 4)]].
Definition defs_SDE_DRM_FB_NON_SEC : list decl := [
  Defines [
    ("SDE_DRM_FB_NON_SEC", dec 0); ("SDE_DRM_FB_SEC", dec 1);
    ("SDE_DRM_FB_NON_SEC_DIR_TRANS", dec 2); ("SDE_DRM_FB_SEC_DIR_TRANS", dec 3)]].
Definition defs_SDE_MODE_DPMS_ON : list decl := [
  Defines [
    ("SDE_MODE_DPMS_ON", dec 0); ("SDE_MODE_DPMS_LP1", dec 1); ("SDE_MODE_DPMS_LP2", dec 2);
    ("SDE_MODE_DPMS_STANDBY", dec 3); ("SDE_MODE_DPMS_SUSPEND", dec 4);
    ("SDE_MODE_DPMS_OFF", dec 5)]].
Definition header : header :=
  Header "drm/sde_drm.h" [] (concat [
    defs_SDE_MAX_PLANES; defs_SDE_DRM_FB_NON_SEC; defs_SDE_MODE_DPMS_ON]).
End Drm_sde_drm.

(** ** [drm/sis_drm.h] *)

Module Drm_sis_drm.
Definition defs_DRM_SIS_FB_ALLOC : list decl := [
  Defines [
    ("DRM_SIS_FB_ALLOC", hex 0x04); ("DRM_SIS_FB_FREE", hex 0x05);
    ("DRM_SIS_AGP_INIT", hex 0x13); ("DRM_SIS_AGP_ALLOC", hex 0x14);
    ("DRM_SIS_AGP_FREE", hex 0x15); ("DRM_SIS_FB_INIT", hex 0x16)]].
Definition header : header :=
  Header "drm/sis_drm.h" [] (concat [
    defs_DRM_SIS_FB_ALLOC]).
End Drm_sis_drm.

(** ** [drm/tegra_drm.h] *)

Module Drm_tegra_drm.
Definition defs_DRM_TEGRA_GEM_CREATE : list decl := [
  Defines [
    ("DRM_TEGRA_GEM_CREATE", hex 0x00); ("DRM_TEGRA_GEM_MMAP", hex 0x01);
    ("DRM_TEGRA_SYNCPT_READ", hex 0x02); ("DRM_TEGRA_SYNCPT_INCR", hex 0x03);
    ("DRM_TEGRA_SYNCPT_WAIT", hex 0x04); ("DRM_TEGRA_OPEN_CHANNEL", hex 0x05);
    ("DRM_TEGRA_CLOSE_CHANNEL", hex 0x06); ("DRM_TEGRA_GET_SYNCPT", hex 0x07);
    ("DRM_TEGRA_SUBMIT", hex 0x08); ("DRM_TEGRA_GET_SYNCPT_BASE", hex 0x09);
    ("DRM_TEGRA_GEM_SET_TILING", hex 0x0a); ("DRM_TEGRA_GEM_GET_TILING", hex 0x0b);
    ("DRM_TEGRA_GEM_SET_FLAGS", hex 0x0c); ("DRM_TEGRA_GEM_GET_FLAGS", hex 0x0d)]].
Definition header : header :=
  Header "drm/tegra_drm.h" [] (concat [
    defs_DRM_TEGRA_GEM_CREATE]).
End Drm_tegra_drm.

(** ** [drm/via_drm.h] *)

Module Drm_via_drm.
Definition defs_VIA_NR_SAREA_CLIPRECTS : list decl := [
  Defines [
    ("VIA_NR_SAREA_CLIPRECTS", dec 8); ("VIA_NR_XVMC_PORTS", dec 10);
    ("VIA_NR_XVMC_LOCKS", dec 5); ("VIA_MAX_CACHELINE_SIZE", dec 64)]].
Definition defs_VIA_UPLOAD_TEX0IMAGE : list decl := [
  Defines [
    ("VIA_UPLOAD_TEX0IMAGE", hex 0x1); ("VIA_UPLOAD_TEX1IMAGE", hex 0x2);
    ("VIA_UPLOAD_CTX", hex 0x4); ("VIA_UPLOAD_BUFFERS", hex 0x8); ("VIA_UPLOAD_TEX0", hex 0x10);
    ("VIA_UPLOAD_TEX1", hex 0x20); ("VIA_UPLOAD_CLIPRECTS", hex 0x40);
    ("VIA_UPLOAD_ALL", hex 0xff); ("DRM_VIA_ALLOCMEM", hex 0x00); ("DRM_VIA_FREEMEM", hex 0x01);
    ("DRM_VIA_AGP_INIT", hex 0x02); ("DRM_VIA_FB_INIT", hex 0x03);
    ("DRM_VIA_MAP_INIT", hex 0x04); ("DRM_VIA_DEC_FUTEX", hex 0x05);
    ("DRM_VIA_DMA_INIT", hex 0x07); ("DRM_VIA_CMDBUFFER", hex 0x08); ("DRM_VIA_FLUSH", hex 0x09);
    ("DRM_VIA_PCICMD", hex 0x0a); ("DRM_VIA_CMDBUF_SIZE", hex 0x0b);
    ("DRM_VIA_WAIT_IRQ", hex 0x0d); ("DRM_VIA_DMA_BLIT", hex 0x0e);
    ("DRM_VIA_BLIT_SYNC", hex 0x0f)]].
Definition defs_VIA_TEX_SETUP_SIZE : list decl := [
  Defines [
    ("VIA_TEX_SETUP_SIZE", dec 8); ("VIA_FRONT", hex 0x1); ("VIA_BACK", hex 0x2);
    ("VIA_DEPTH", hex 0x4); ("VIA_STENCIL", hex 0x8); ("VIA_MEM_VIDEO", dec 0);
    ("VIA_MEM_AGP", dec 1); ("VIA_MEM_SYSTEM", dec 2); ("VIA_MEM_MIXED", dec 3);
    ("VIA_MEM_UNKNOWN", dec 4)]].
Definition enum_VIA_INIT_DMA : list decl := [
  Enum [
    ("VIA_INIT_DMA", Some (hex 0x01)); ("VIA_CLEANUP_DMA", Some (hex 0x02));
    ("VIA_DMA_INITIALIZED", Some (hex 0x03))]].
Definition enum_VIA_IRQ_ABSOLUTE : list decl := [
  Enum [
    ("VIA_IRQ_ABSOLUTE", Some (hex 0x0)); ("VIA_IRQ_RELATIVE", Some (hex 0x1));
    ("VIA_IRQ_SIGNAL", Some (hex 0x10000000)); ("VIA_IRQ_FORCE_SEQUENCE", Some (hex 0x20000000))];
  Defines [
    ("VIA_IRQ_FLAGS_MASK", hex 0xF0000000)];
  Enum [
    ("drm_via_irq_hqv0", Some (dec 0)); ("drm_via_irq_hqv1", None);
    ("drm_via_irq_dma0_dd", None); ("drm_via_irq_dma0_td", None); ("drm_via_irq_dma1_dd", None);
    ("drm_via_irq_dma1_td", None); ("drm_via_irq_num", None)]].
Definition header : header :=
  Header "drm/via_drm.h" [] (concat [
    defs_VIA_NR_SAREA_CLIPRECTS; defs_VIA_UPLOAD_TEX0IMAGE; defs_VIA_TEX_SETUP_SIZE;
    enum_VIA_INIT_DMA; enum_VIA_IRQ_ABSOLUTE]).
End Drm_via_drm.

(** ** [drm/virtgpu_drm.h] *)

Module Drm_virtgpu_drm.
Definition defs_DRM_VIRTGPU_MAP : list decl := [
  Defines [
    ("DRM_VIRTGPU_MAP", hex 0x01); ("DRM_VIRTGPU_EXECBUFFER", hex 0x02);
    ("DRM_VIRTGPU_GETPARAM", hex 0x03); ("DRM_VIRTGPU_RESOURCE_CREATE", hex 0x04);
    ("DRM_VIRTGPU_RESOURCE_INFO", hex 0x05); ("DRM_VIRTGPU_TRANSFER_FROM_HOST", hex 0x06);
    ("DRM_VIRTGPU_TRANSFER_TO_HOST", hex 0x07); ("DRM_VIRTGPU_WAIT", hex 0x08);
    ("DRM_VIRTGPU_GET_CAPS", hex 0x09)]].
Definition header : header :=
  Header "drm/virtgpu_drm.h" [] (concat [
    defs_DRM_VIRTGPU_MAP]).
End Drm_virtgpu_drm.

(** ** [drm/vmwgfx_drm.h] *)

Module Drm_vmwgfx_drm.
Definition defs_DRM_VMW_MAX_SURFACE_FACES : list decl := [
  Defines [
    ("DRM_VMW_MAX_SURFACE_FACES", dec 6); ("DRM_VMW_MAX_MIP_LEVELS", dec 24);
    ("DRM_VMW_GET_PARAM", dec 0); ("DRM_VMW_ALLOC_DMABUF", dec 1);
    ("DRM_VMW_UNREF_DMABUF", dec 2); ("DRM_VMW_CURSOR_BYPASS", dec 3);
    ("DRM_VMW_CONTROL_STREAM", dec 4); ("DRM_VMW_CLAIM_STREAM", dec 5);
    ("DRM_VMW_UNREF_STREAM", dec 6); ("DRM_VMW_CREATE_CONTEXT", dec 7);
    ("DRM_VMW_UNREF_CONTEXT", dec 8); ("DRM_VMW_CREATE_SURFACE", dec 9);
    ("DRM_VMW_UNREF_SURFACE", dec 10); ("DRM_VMW_REF_SURFACE", dec 11);
    ("DRM_VMW_EXECBUF", dec 12); ("DRM_VMW_GET_3D_CAP", dec 13); ("DRM_VMW_FENCE_WAIT", dec 14);
    ("DRM_VMW_FENCE_SIGNALED", dec 15); ("DRM_VMW_FENCE_UNREF", dec 16);
    ("DRM_VMW_FENCE_EVENT", dec 17); ("DRM_VMW_PRESENT", dec 18);
    ("DRM_VMW_PRESENT_READBACK", dec 19); ("DRM_VMW_UPDATE_LAYOUT", dec 20);
    ("DRM_VMW_CREATE_SHADER", dec 21); ("DRM_VMW_UNREF_SHADER", dec 22);
    ("DRM_VMW_GB_SURFACE_CREATE", dec 23); ("DRM_VMW_GB_SURFACE_REF", dec 24);
    ("DRM_VMW_SYNCCPU", dec 25); ("DRM_VMW_CREATE_EXTENDED_CONTEXT", dec 26)];
  Defines [
    ("DRM_VMW_PARAM_NUM_STREAMS", dec 0); ("DRM_VMW_PARAM_NUM_FREE_STREAMS", dec 1);
    ("DRM_VMW_PARAM_3D", dec 2); ("DRM_VMW_PARAM_HW_CAPS", dec 3);
    ("DRM_VMW_PARAM_FIFO_CAPS", dec 4); ("DRM_VMW_PARAM_MAX_FB_SIZE", dec 5);
    ("DRM_VMW_PARAM_FIFO_HW_VERSION", dec 6); ("DRM_VMW_PARAM_MAX_SURF_MEMORY", dec 7);
    ("DRM_VMW_PARAM_3D_CAPS_SIZE", dec 8); ("DRM_VMW_PARAM_MAX_MOB_MEMORY", dec 9);
    ("DRM_VMW_PARAM_MAX_MOB_SIZE", dec 10); ("DRM_VMW_PARAM_SCREEN_TARGET", dec 11);
    ("DRM_VMW_PARAM_DX", dec 12)]].
Definition enum_drm_vmw_surface_flags : list decl := [
  Enum [
    ("drm_vmw_surface_flag_shareable", Some (Shl (dec 1) (dec 0)));
    ("drm_vmw_surface_flag_scanout", Some (Shl (dec 1) (dec 1)));
    ("drm_vmw_surface_flag_create_buffer", Some (Shl (dec 1) (dec 2)))]].
Definition enum_drm_vmw_synccpu_flags : list decl := [
  Enum [
    ("drm_vmw_synccpu_read", Some (Shl (dec 1) (dec 0)));
    ("drm_vmw_synccpu_write", Some (Shl (dec 1) (dec 1)));
    ("drm_vmw_synccpu_dontblock", Some (Shl (dec 1) (dec 2)));
    ("drm_vmw_synccpu_allow_cs", Some (Shl (dec 1) (dec 3)))]].
Definition header : header :=
  Header "drm/vmwgfx_drm.h" [] (concat [
    defs_DRM_VMW_MAX_SURFACE_FACES; enum_drm_vmw_surface_flags; enum_drm_vmw_synccpu_flags]).
End Drm_vmwgfx_drm.

(** ** [linux/ashmem.h] *)

Module Ashmem.
Definition defs_ASHMEM_NOT_PURGED : list decl := [
  Defines [
    ("ASHMEM_NOT_PURGED", dec 0); ("ASHMEM_WAS_PURGED", dec 1); ("ASHMEM_IS_UNPINNED", dec 0);
    ("ASHMEM_IS_PINNED", dec 1)]].
Definition header : header :=
  Header "linux/ashmem.h" [] (concat [
    defs_ASHMEM_NOT_PURGED]).
End Ashmem.

(** ** [linux/fb.h] *)

Module Fb.
Definition defs_FB_MAX : list decl := [
  Defines [
    ("FB_MAX", dec 32); ("FBIOGET_VSCREENINFO", hex 0x4600); ("FBIOPUT_VSCREENINFO", hex 0x4601);
    ("FBIOGET_FSCREENINFO", hex 0x4602); ("FBIOGETCMAP", hex 0x4604);
    ("FBIOPUTCMAP", hex 0x4605); ("FBIOPAN_DISPLAY", hex 0x4606)]].
Definition defs_FBIO_ALLOC : list decl := [
  Defines [
    ("FBIO_ALLOC", hex 0x4613); ("FBIO_FREE", hex 0x4614); ("FBIOGET_GLYPH", hex 0x4615);
    ("FBIOGET_HWCINFO", hex 0x4616); ("FBIOPUT_MODEINFO", hex 0x4617);
    ("FBIOGET_DISPINFO", hex 0x4618)]].
Definition defs_FB_TYPE_PACKED_PIXELS : list decl := [
  Defines [
    ("FB_TYPE_PACKED_PIXELS", dec 0); ("FB_TYPE_PLANES", dec 1);
    ("FB_TYPE_INTERLEAVED_PLANES", dec 2); ("FB_TYPE_TEXT", dec 3);
    ("FB_TYPE_VGA_PLANES", dec 4); ("FB_TYPE_FOURCC", dec 5); ("FB_AUX_TEXT_MDA", dec 0);
    ("FB_AUX_TEXT_CGA", dec 1); ("FB_AUX_TEXT_S3_MMIO", dec 2);
    ("FB_AUX_TEXT_MGA_STEP16", dec 3); ("FB_AUX_TEXT_MGA_STEP8", dec 4);
    ("FB_AUX_TEXT_SVGA_GROUP", dec 8); ("FB_AUX_TEXT_SVGA_MASK", dec 7);
    ("FB_AUX_TEXT_SVGA_STEP2", dec 8); ("FB_AUX_TEXT_SVGA_STEP4", dec 9);
    ("FB_AUX_TEXT_SVGA_STEP8", dec 10); ("FB_AUX_TEXT_SVGA_STEP16", dec 11);
    ("FB_AUX_TEXT_SVGA_LAST", dec 15); ("FB_AUX_VGA_PLANES_VGA4", dec 0);
    ("FB_AUX_VGA_PLANES_CFB4", dec 1); ("FB_AUX_VGA_PLANES_CFB8", dec 2);
    ("FB_VISUAL_MONO01", dec 0); ("FB_VISUAL_MONO10", dec 1); ("FB_VISUAL_TRUECOLOR", dec 2);
    ("FB_VISUAL_PSEUDOCOLOR", dec 3); ("FB_VISUAL_DIRECTCOLOR", dec 4);
    ("FB_VISUAL_STATIC_PSEUDOCOLOR", dec 5); ("FB_VISUAL_FOURCC", dec 6);
    ("FB_ACCEL_NONE", dec 0); ("FB_ACCEL_ATARIBLITT", dec 1); ("FB_ACCEL_AMIGABLITT", dec 2);
    ("FB_ACCEL_S3_TRIO64", dec 3); ("FB_ACCEL_NCR_77C32BLT", dec 4);
    ("FB_ACCEL_S3_VIRGE", dec 5); ("FB_ACCEL_ATI_MACH64GX", dec 6); ("FB_ACCEL_DEC_TGA", dec 7);
    ("FB_ACCEL_ATI_MACH64CT", dec 8); ("FB_ACCEL_ATI_MACH64VT", dec 9);
    ("FB_ACCEL_ATI_MACH64GT", dec 10); ("FB_ACCEL_SUN_CREATOR", dec 11);
    ("FB_ACCEL_SUN_CGSIX", dec 12); ("FB_ACCEL_SUN_LEO", dec 13);
    ("FB_ACCEL_IMS_TWINTURBO", dec 14); ("FB_ACCEL_3DLABS_PERMEDIA2", dec 15);
    ("FB_ACCEL_MATROX_MGA2064W", dec 16); ("FB_ACCEL_MATROX_MGA1064SG", dec 17);
    ("FB_ACCEL_MATROX_MGA2164W", dec 18); ("FB_ACCEL_MATROX_MGA2164W_AGP", dec 19);
    ("FB_ACCEL_MATROX_MGAG100", dec 20); ("FB_ACCEL_MATROX_MGAG200", dec 21);
    ("FB_ACCEL_SUN_CG14", dec 22); ("FB_ACCEL_SUN_BWTWO", dec 23);
    ("FB_ACCEL_SUN_CGTHREE", dec 24); ("FB_ACCEL_SUN_TCX", dec 25);
    ("FB_ACCEL_MATROX_MGAG400", dec 26); ("FB_ACCEL_NV3", dec 27); ("FB_ACCEL_NV4", dec 28);
    ("FB_ACCEL_NV5", dec 29); ("FB_ACCEL_CT_6555x", dec 30); ("FB_ACCEL_3DFX_BANSHEE", dec 31);
    ("FB_ACCEL_ATI_RAGE128", dec 32); ("FB_ACCEL_IGS_CYBER2000", dec 33);
    ("FB_ACCEL_IGS_CYBER2010", dec 34); ("FB_ACCEL_IGS_CYBER5000", dec 35);
    ("FB_ACCEL_SIS_GLAMOUR", dec 36); ("FB_ACCEL_3DLABS_PERMEDIA3", dec 37);
    ("FB_ACCEL_ATI_RADEON", dec 38); ("FB_ACCEL_I810", dec 39);
    ("FB_ACCEL_SIS_GLAMOUR_2", dec 40); ("FB_ACCEL_SIS_XABRE", dec 41);
    ("FB_ACCEL_I830", dec 42); ("FB_ACCEL_NV_10", dec 43); ("FB_ACCEL_NV_20", dec 44);
    ("FB_ACCEL_NV_30", dec 45); ("FB_ACCEL_NV_40", dec 46); ("FB_ACCEL_XGI_VOLARI_V", dec 47);
    ("FB_ACCEL_XGI_VOLARI_Z", dec 48); ("FB_ACCEL_OMAP1610", dec 49);
    ("FB_ACCEL_TRIDENT_TGUI", dec 50); ("FB_ACCEL_TRIDENT_3DIMAGE", dec 51);
    ("FB_ACCEL_TRIDENT_BLADE3D", dec 52); ("FB_ACCEL_TRIDENT_BLADEXP", dec 53);
    ("FB_ACCEL_CIRRUS_ALPINE", dec 53); ("FB_ACCEL_NEOMAGIC_NM2070", dec 90);
    ("FB_ACCEL_NEOMAGIC_NM2090", dec 91); ("FB_ACCEL_NEOMAGIC_NM2093", dec 92);
    ("FB_ACCEL_NEOMAGIC_NM2097", dec 93); ("FB_ACCEL_NEOMAGIC_NM2160", dec 94);
    ("FB_ACCEL_NEOMAGIC_NM2200", dec 95); ("FB_ACCEL_NEOMAGIC_NM2230", dec 96);
    ("FB_ACCEL_NEOMAGIC_NM2360", dec 97); ("FB_ACCEL_NEOMAGIC_NM2380", dec 98);
    ("FB_ACCEL_PXA3XX", dec 99); ("FB_ACCEL_SAVAGE4", hex 0x80); ("FB_ACCEL_SAVAGE3D", hex 0x81);
    ("FB_ACCEL_SAVAGE3D_MV", hex 0x82); ("FB_ACCEL_SAVAGE2000", hex 0x83);
    ("FB_ACCEL_SAVAGE_MX_MV", hex 0x84); ("FB_ACCEL_SAVAGE_MX", hex 0x85);
    ("FB_ACCEL_SAVAGE_IX_MV", hex 0x86); ("FB_ACCEL_SAVAGE_IX", hex 0x87);
    ("FB_ACCEL_PROSAVAGE_PM", hex 0x88); ("FB_ACCEL_PROSAVAGE_KM", hex 0x89);
    ("FB_ACCEL_S3TWISTER_P", hex 0x8a); ("FB_ACCEL_S3TWISTER_K", hex 0x8b);
    ("FB_ACCEL_SUPERSAVAGE", hex 0x8c); ("FB_ACCEL_PROSAVAGE_DDR", hex 0x8d);
    ("FB_ACCEL_PROSAVAGE_DDRK", hex 0x8e); ("FB_ACCEL_PUV3_UNIGFX", hex 0xa0);
    ("FB_CAP_FOURCC", dec 1)]].
Definition defs_FB_NONSTD_HAM : list decl := [
  Defines [
    ("FB_NONSTD_HAM", dec 1); ("FB_NONSTD_REV_PIX_IN_B", dec 2); ("FB_ACTIVATE_NOW", dec 0);
    ("FB_ACTIVATE_NXTOPEN", dec 1); ("FB_ACTIVATE_TEST", dec 2); ("FB_ACTIVATE_MASK", dec 15);
    ("FB_ACTIVATE_VBL", dec 16); ("FB_CHANGE_CMAP_VBL", dec 32); ("FB_ACTIVATE_ALL", dec 64);
    ("FB_ACTIVATE_FORCE", dec 128); ("FB_ACTIVATE_INV_MODE", dec 256); ("FB_ACCELF_TEXT", dec 1);
    ("FB_SYNC_HOR_HIGH_ACT", dec 1); ("FB_SYNC_VERT_HIGH_ACT", dec 2); ("FB_SYNC_EXT", dec 4);
    ("FB_SYNC_COMP_HIGH_ACT", dec 8); ("FB_SYNC_BROADCAST", dec 16);
    ("FB_SYNC_ON_GREEN", dec 32); ("FB_VMODE_NONINTERLACED", dec 0);
    ("FB_VMODE_INTERLACED", dec 1); ("FB_VMODE_DOUBLE", dec 2);
    ("FB_VMODE_ODD_FLD_FIRST", dec 4); ("FB_VMODE_MASK", dec 255); ("FB_VMODE_YWRAP", dec 256);
    ("FB_VMODE_SMOOTH_XPAN", dec 512); ("FB_VMODE_CONUPDATE", dec 512)];
  Defines [
    ("FB_ROTATE_UR", dec 0); ("FB_ROTATE_CW", dec 1); ("FB_ROTATE_UD", dec 2);
    ("FB_ROTATE_CCW", dec 3)]].
Definition defs_VESA_NO_BLANKING : list decl := [
  Defines [
    ("VESA_NO_BLANKING", dec 0); ("VESA_VSYNC_SUSPEND", dec 1); ("VESA_HSYNC_SUSPEND", dec 2);
    ("VESA_POWERDOWN", dec 3)];
  Enum [
    ("FB_BLANK_UNBLANK", Some (Id "VESA_NO_BLANKING"));
    ("FB_BLANK_NORMAL", Some (Add (Id "VESA_NO_BLANKING") (dec 1)));
    ("FB_BLANK_VSYNC_SUSPEND", Some (Add (Id "VESA_VSYNC_SUSPEND") (dec 1)));
    ("FB_BLANK_HSYNC_SUSPEND", Some (Add (Id "VESA_HSYNC_SUSPEND") (dec 1)));
    ("FB_BLANK_POWERDOWN", Some (Add (Id "VESA_POWERDOWN") (dec 1)))];
  Defines [
    ("FB_VBLANK_VBLANKING", hex 0x001); ("FB_VBLANK_HBLANKING", hex 0x002);
    ("FB_VBLANK_HAVE_VBLANK", hex 0x004); ("FB_VBLANK_HAVE_HBLANK", hex 0x008);
    ("FB_VBLANK_HAVE_COUNT", hex 0x010); ("FB_VBLANK_HAVE_VCOUNT", hex 0x020);
    ("FB_VBLANK_HAVE_HCOUNT", hex 0x040); ("FB_VBLANK_VSYNCING", hex 0x080);
    ("FB_VBLANK_HAVE_VSYNC", hex 0x100)]].
Definition defs_FB_CUR_SETIMAGE : list decl := [
  Defines [
    ("FB_CUR_SETIMAGE", hex 0x01); ("FB_CUR_SETPOS", hex 0x02); ("FB_CUR_SETHOT", hex 0x04);
    ("FB_CUR_SETCMAP", hex 0x08); ("FB_CUR_SETSHAPE", hex 0x10); ("FB_CUR_SETSIZE", hex 0x20);
    ("FB_CUR_SETALL", hex 0xFF)]].
Definition header : header :=
  Header "linux/fb.h" [] (concat [
    defs_FB_MAX; defs_FBIO_ALLOC; defs_FB_TYPE_PACKED_PIXELS; defs_FB_NONSTD_HAM;
    defs_VESA_NO_BLANKING; defs_FB_CUR_SETIMAGE]).
End Fb.

(** ** [linux/matroxfb.h] *)

Module Matroxfb.
Definition enum_matroxfb_ctrl_id : list decl := [
  Enum [
    ("MATROXFB_CID_TESTOUT", Some (Id "V4L2_CID_PRIVATE_BASE"));
    ("MATROXFB_CID_DEFLICKER", None); ("MATROXFB_CID_LAST", None)]].
Definition header : header :=
  Header "linux/matroxfb.h" [Videodev2.header] (concat [
    enum_matroxfb_ctrl_id]).
End Matroxfb.

(** ** [linux/mdss_rotator.h] *)

Module Mdss_rotator.
Definition defs_MDP_ROTATION_NOP : list decl := [
  Defines [
    ("MDP_ROTATION_NOP", hex 0x01); ("MDP_ROTATION_FLIP_LR", hex 0x02);
    ("MDP_ROTATION_FLIP_UD", hex 0x04); ("MDP_ROTATION_90", hex 0x08);
    ("MDP_ROTATION_180", Or (Id "MDP_ROTATION_FLIP_LR") (Id "MDP_ROTATION_FLIP_UD"));
    ("MDP_ROTATION_270", Or (Id "MDP_ROTATION_90") (Id "MDP_ROTATION_180"));
    ("MDP_ROTATION_DEINTERLACE", hex 0x10); ("MDP_ROTATION_BWC_EN", hex 0x40);
    ("MDP_ROTATION_SECURE", hex 0x80)]].
Definition header : header :=
  Header "linux/mdss_rotator.h" [] (concat [
    defs_MDP_ROTATION_NOP]).
End Mdss_rotator.

(** ** [linux/msm_ion.h] *)

Module Msm_ion.
Definition macro_ION_BIT : list decl := [
  Define_fun "ION_BIT" ["nr"] (Shl (decUL 1) (Id "nr"));
  Enum [
    ("ION_HEAP_TYPE_MSM_START", Some (Add (Id "ION_HEAP_TYPE_CUSTOM") (dec 1)));
    ("ION_HEAP_TYPE_SECURE_DMA", Some (Id "ION_HEAP_TYPE_MSM_START"));
    ("ION_HEAP_TYPE_SYSTEM_SECURE", None); ("ION_HEAP_TYPE_HYP_CMA", None)];
  Enum [
    ("INVALID_HEAP_ID", Some (Neg (dec 1))); ("ION_CP_MM_HEAP_ID", Some (dec 8));
    ("ION_SECURE_HEAP_ID", Some (dec 9)); ("ION_SECURE_DISPLAY_HEAP_ID", Some (dec 10));
    ("ION_CP_MFC_HEAP_ID", Some (dec 12)); ("ION_SPSS_HEAP_ID", Some (dec 13));
    ("ION_CP_WB_HEAP_ID", Some (dec 16)); ("ION_CAMERA_HEAP_ID", Some (dec 20));
    ("ION_SYSTEM_CONTIG_HEAP_ID", Some (dec 21)); ("ION_ADSP_HEAP_ID", Some (dec 22));
    ("ION_PIL1_HEAP_ID", Some (dec 23)); ("ION_SF_HEAP_ID", Some (dec 24));
    ("ION_SYSTEM_HEAP_ID", Some (dec 25)); ("ION_PIL2_HEAP_ID", Some (dec 26));
    ("ION_QSECOM_HEAP_ID", Some (dec 27)); ("ION_AUDIO_HEAP_ID", Some (dec 28));
    ("ION_MM_FIRMWARE_HEAP_ID", Some (dec 29)); ("ION_HEAP_ID_RESERVED", Some (dec 31))]].
Definition enum_ion_fixed_position : list decl := [
  Enum [
    ("NOT_FIXED", None); ("FIXED_LOW", None); ("FIXED_MIDDLE", None); ("FIXED_HIGH", None)];
  Enum [
    ("VIDEO_BITSTREAM", Some (hex 0x1)); ("VIDEO_PIXEL", Some (hex 0x2));
    ("VIDEO_NONPIXEL", Some (hex 0x3)); ("DISPLAY_SECURE_CP_USAGE", Some (hex 0x4));
    ("CAMERA_SECURE_CP_USAGE", Some (hex 0x5)); ("MAX_USAGE", Some (hex 0x6));
    ("UNKNOWN", Some (hex 0x7FFFFFFF))];
  Defines [
    ("ION_FLAG_CP_TOUCH", App "ION_BIT" [dec 17]);
    ("ION_FLAG_CP_BITSTREAM", App "ION_BIT" [dec 18]);
    ("ION_FLAG_CP_PIXEL", App "ION_BIT" [dec 19]);
    ("ION_FLAG_CP_NON_PIXEL", App "ION_BIT" [dec 20]);
    ("ION_FLAG_CP_CAMERA", App "ION_BIT" [dec 21]); ("ION_FLAG_CP_HLOS", App "ION_BIT" [dec 22]);
    ("ION_FLAG_CP_HLOS_FREE", App "ION_BIT" [dec 23]);
    ("ION_FLAG_CP_SPSS_SP_SHARED", App "ION_BIT" [dec 24]);
    ("ION_FLAG_CP_SEC_DISPLAY", App "ION_BIT" [dec 25]);
    ("ION_FLAG_CP_APP", App "ION_BIT" [dec 26]);
    ("ION_FLAG_CP_CAMERA_PREVIEW", App "ION_BIT" [dec 27])]].
Definition header : header :=
  Header "linux/msm_ion.h" [Ion.header] (concat [
    macro_ION_BIT; enum_ion_fixed_position]).
End Msm_ion.

(** ** [linux/msm_kgsl.h] *)

Module Msm_kgsl.
Definition defs_KGSL_CONTEXT_SAVE_GMEM : list decl := [
  Defines [
    ("KGSL_CONTEXT_SAVE_GMEM", hex 0x00000001); ("KGSL_CONTEXT_NO_GMEM_ALLOC", hex 0x00000002);
    ("KGSL_CONTEXT_SUBMIT_IB_LIST", hex 0x00000004); ("KGSL_CONTEXT_CTX_SWITCH", hex 0x00000008);
    ("KGSL_CONTEXT_PREAMBLE", hex 0x00000010); ("KGSL_CONTEXT_TRASH_STATE", hex 0x00000020);
    ("KGSL_CONTEXT_PER_CONTEXT_TS", hex 0x00000040);
    ("KGSL_CONTEXT_USER_GENERATED_TS", hex 0x00000080);
    ("KGSL_CONTEXT_END_OF_FRAME", hex 0x00000100);
    ("KGSL_CONTEXT_NO_FAULT_TOLERANCE", hex 0x00000200); ("KGSL_CONTEXT_SYNC", hex 0x00000400);
    ("KGSL_CONTEXT_PWR_CONSTRAINT", hex 0x00000800);
    ("KGSL_CONTEXT_PRIORITY_MASK", hex 0x0000F000); ("KGSL_CONTEXT_PRIORITY_SHIFT", dec 12);
    ("KGSL_CONTEXT_PRIORITY_UNDEF", dec 0); ("KGSL_CONTEXT_IFH_NOP", hex 0x00010000);
    ("KGSL_CONTEXT_SECURE", hex 0x00020000); ("KGSL_CONTEXT_NO_SNAPSHOT", hex 0x00040000);
    ("KGSL_CONTEXT_SPARSE", hex 0x00080000); ("KGSL_CONTEXT_PREEMPT_STYLE_MASK", hex 0x0E000000);
    ("KGSL_CONTEXT_PREEMPT_STYLE_SHIFT", dec 25);
    ("KGSL_CONTEXT_PREEMPT_STYLE_DEFAULT", hex 0x0);
    ("KGSL_CONTEXT_PREEMPT_STYLE_RINGBUFFER", hex 0x1);
    ("KGSL_CONTEXT_PREEMPT_STYLE_FINEGRAIN", hex 0x2);
    ("KGSL_CONTEXT_TYPE_MASK", hex 0x01F00000); ("KGSL_CONTEXT_TYPE_SHIFT", dec 20);
    ("KGSL_CONTEXT_TYPE_ANY", dec 0); ("KGSL_CONTEXT_TYPE_GL", dec 1);
    ("KGSL_CONTEXT_TYPE_CL", dec 2); ("KGSL_CONTEXT_TYPE_C2D", dec 3);
    ("KGSL_CONTEXT_TYPE_RS", dec 4); ("KGSL_CONTEXT_TYPE_VK", dec 5);
    ("KGSL_CONTEXT_TYPE_UNKNOWN", hex 0x1E);
    ("KGSL_CONTEXT_INVALIDATE_ON_FAULT", hex 0x10000000);
    ("KGSL_CONTEXT_INVALID", hex 0xffffffff)];
  Defines [
    ("KGSL_CMDBATCH_MEMLIST", hex 0x00000001); ("KGSL_CMDBATCH_MARKER", hex 0x00000002);
    ("KGSL_CMDBATCH_SUBMIT_IB_LIST", Id "KGSL_CONTEXT_SUBMIT_IB_LIST");
    ("KGSL_CMDBATCH_CTX_SWITCH", Id "KGSL_CONTEXT_CTX_SWITCH");
    ("KGSL_CMDBATCH_PROFILING", hex 0x00000010)];
  Defines [
    ("KGSL_CMDBATCH_PROFILING_KTIME", hex 0x00000020);
    ("KGSL_CMDBATCH_END_OF_FRAME", Id "KGSL_CONTEXT_END_OF_FRAME");
    ("KGSL_CMDBATCH_SYNC", Id "KGSL_CONTEXT_SYNC");
    ("KGSL_CMDBATCH_PWR_CONSTRAINT", Id "KGSL_CONTEXT_PWR_CONSTRAINT");
    ("KGSL_CMDBATCH_SPARSE", hex 0x1000)];
  Defines [
    ("KGSL_CMDLIST_IB", hexU 0x00000001); ("KGSL_CMDLIST_CTXTSWITCH_PREAMBLE", hexU 0x00000002);
    ("KGSL_CMDLIST_IB_PREAMBLE", hexU 0x00000004); ("KGSL_OBJLIST_MEMOBJ", hexU 0x00000008);
    ("KGSL_OBJLIST_PROFILE", hexU 0x00000010); ("KGSL_CMD_SYNCPOINT_TYPE_TIMESTAMP", dec 0);
    ("KGSL_CMD_SYNCPOINT_TYPE_FENCE", dec 1)];
  Defines [
    ("KGSL_MEMFLAGS_SECURE", hexULL 0x00000008); ("KGSL_MEMFLAGS_GPUREADONLY", hexU 0x01000000);
    ("KGSL_MEMFLAGS_GPUWRITEONLY", hexU 0x02000000);
    ("KGSL_MEMFLAGS_FORCE_32BIT", hexULL 0x100000000);
    ("KGSL_SPARSE_BIND_MULTIPLE_TO_PHYS", hexULL 0x400000000); ("KGSL_SPARSE_BIND", hexULL 0x1);
    ("KGSL_SPARSE_UNBIND", hexULL 0x2); ("KGSL_CACHEMODE_MASK", hexU 0x0C000000);
    ("KGSL_CACHEMODE_SHIFT", dec 26); ("KGSL_CACHEMODE_WRITECOMBINE", dec 0);
    ("KGSL_CACHEMODE_UNCACHED", dec 1); ("KGSL_CACHEMODE_WRITETHROUGH", dec 2);
    ("KGSL_CACHEMODE_WRITEBACK", dec 3); ("KGSL_MEMFLAGS_USE_CPU_MAP", hexULL 0x10000000);
    ("KGSL_MEMFLAGS_SPARSE_PHYS", hexULL 0x20000000);
    ("KGSL_MEMFLAGS_SPARSE_VIRT", hexULL 0x40000000); ("KGSL_MEMTYPE_MASK", hex 0x0000FF00);
    ("KGSL_MEMTYPE_SHIFT", dec 8); ("KGSL_MEMTYPE_OBJECTANY", dec 0);
    ("KGSL_MEMTYPE_FRAMEBUFFER", dec 1); ("KGSL_MEMTYPE_RENDERBUFFER", dec 2);
    ("KGSL_MEMTYPE_ARRAYBUFFER", dec 3); ("KGSL_MEMTYPE_ELEMENTARRAYBUFFER", dec 4);
    ("KGSL_MEMTYPE_VERTEXARRAYBUFFER", dec 5); ("KGSL_MEMTYPE_TEXTURE", dec 6);
    ("KGSL_MEMTYPE_SURFACE", dec 7); ("KGSL_MEMTYPE_EGL_SURFACE", dec 8);
    ("KGSL_MEMTYPE_GL", dec 9); ("KGSL_MEMTYPE_CL", dec 10);
    ("KGSL_MEMTYPE_CL_BUFFER_MAP", dec 11); ("KGSL_MEMTYPE_CL_BUFFER_NOMAP", dec 12);
    ("KGSL_MEMTYPE_CL_IMAGE_MAP", dec 13); ("KGSL_MEMTYPE_CL_IMAGE_NOMAP", dec 14);
    ("KGSL_MEMTYPE_CL_KERNEL_STACK", dec 15); ("KGSL_MEMTYPE_COMMAND", dec 16);
    ("KGSL_MEMTYPE_2D", dec 17); ("KGSL_MEMTYPE_EGL_IMAGE", dec 18);
    ("KGSL_MEMTYPE_EGL_SHADOW", dec 19); ("KGSL_MEMTYPE_MULTISAMPLE", dec 20);
    ("KGSL_MEMTYPE_KERNEL", dec 255)]].
Definition enum_kgsl_user_mem_type : list decl := [
  Enum [
    ("KGSL_USER_MEM_TYPE_PMEM", Some (hex 0x00000000));
    ("KGSL_USER_MEM_TYPE_ASHMEM", Some (hex 0x00000001));
    ("KGSL_USER_MEM_TYPE_ADDR", Some (hex 0x00000002));
    ("KGSL_USER_MEM_TYPE_ION", Some (hex 0x00000003));
    ("KGSL_USER_MEM_TYPE_DMABUF", Some (hex 0x00000003));
    ("KGSL_USER_MEM_TYPE_MAX", Some (hex 0x00000007))];
  Defines [
    ("KGSL_MEMFLAGS_USERMEM_MASK", hex 0x000000e0); ("KGSL_MEMFLAGS_USERMEM_SHIFT", dec 5)];
  Define_fun "KGSL_USERMEM_FLAG" ["x"] (Shl (Add (Id "x") (dec 1)) (Id "KGSL_MEMFLAGS_USERMEM_SHIFT"));
  Defines [
    ("KGSL_MEMFLAGS_NOT_USERMEM", dec 0);
    ("KGSL_MEMFLAGS_USERMEM_PMEM", App "KGSL_USERMEM_FLAG" [Id "KGSL_USER_MEM_TYPE_PMEM"]);
    ("KGSL_MEMFLAGS_USERMEM_ASHMEM", App "KGSL_USERMEM_FLAG" [Id "KGSL_USER_MEM_TYPE_ASHMEM"]);
    ("KGSL_MEMFLAGS_USERMEM_ADDR", App "KGSL_USERMEM_FLAG" [Id "KGSL_USER_MEM_TYPE_ADDR"]);
    ("KGSL_MEMFLAGS_USERMEM_ION", App "KGSL_USERMEM_FLAG" [Id "KGSL_USER_MEM_TYPE_ION"]);
    ("KGSL_FLAGS_NORMALMODE", hex 0x00000000); ("KGSL_FLAGS_SAFEMODE", hex 0x00000001);
    ("KGSL_FLAGS_INITIALIZED0", hex 0x00000002); ("KGSL_FLAGS_INITIALIZED", hex 0x00000004);
    ("KGSL_FLAGS_STARTED", hex 0x00000008); ("KGSL_FLAGS_ACTIVE", hex 0x00000010);
    ("KGSL_FLAGS_RESERVED0", hex 0x00000020); ("KGSL_FLAGS_RESERVED1", hex 0x00000040);
    ("KGSL_FLAGS_RESERVED2", hex 0x00000080); ("KGSL_FLAGS_SOFT_RESET", hex 0x00000100);
    ("KGSL_FLAGS_PER_CONTEXT_TIMESTAMPS", hex 0x00000200);
    ("KGSL_SYNCOBJ_SERVER_TIMEOUT", dec 2000)];
  Enum [
    ("KGSL_CTX_STAT_NO_ERROR", Some (hex 0x00000000));
    ("KGSL_CTX_STAT_GUILTY_CONTEXT_RESET_EXT", Some (hex 0x00000001));
    ("KGSL_CTX_STAT_INNOCENT_CONTEXT_RESET_EXT", Some (hex 0x00000002));
    ("KGSL_CTX_STAT_UNKNOWN_CONTEXT_RESET_EXT", Some (hex 0x00000003))]].
Definition enum_kgsl_timestamp_type : list decl := [
  Enum [
    ("KGSL_TIMESTAMP_CONSUMED", Some (hex 0x00000001));
    ("KGSL_TIMESTAMP_RETIRED", Some (hex 0x00000002));
    ("KGSL_TIMESTAMP_QUEUED", Some (hex 0x00000003))];
  Defines [
    ("KGSL_PROP_DEVICE_INFO", hex 0x1); ("KGSL_PROP_DEVICE_SHADOW", hex 0x2);
    ("KGSL_PROP_DEVICE_POWER", hex 0x3); ("KGSL_PROP_SHMEM", hex 0x4);
    ("KGSL_PROP_SHMEM_APERTURES", hex 0x5); ("KGSL_PROP_MMU_ENABLE", hex 0x6);
    ("KGSL_PROP_INTERRUPT_WAITS", hex 0x7); ("KGSL_PROP_VERSION", hex 0x8);
    ("KGSL_PROP_GPU_RESET_STAT", hex 0x9); ("KGSL_PROP_PWRCTRL", hex 0xE);
    ("KGSL_PROP_PWR_CONSTRAINT", hex 0x12); ("KGSL_PROP_UCHE_GMEM_VADDR", hex 0x13);
    ("KGSL_PROP_SP_GENERIC_MEM", hex 0x14); ("KGSL_PROP_UCODE_VERSION", hex 0x15);
    ("KGSL_PROP_GPMU_VERSION", hex 0x16); ("KGSL_PROP_HIGHEST_BANK_BIT", hex 0x17);
    ("KGSL_PROP_DEVICE_BITNESS", hex 0x18); ("KGSL_PROP_DEVICE_QDSS_STM", hex 0x19);
    ("KGSL_PROP_DEVICE_QTIMER", hex 0x20); ("KGSL_PROP_IB_TIMEOUT", hex 0x21);
    ("KGSL_PROP_SECURE_BUFFER_ALIGNMENT", hex 0x23); ("KGSL_PROP_SECURE_CTXT_SUPPORT", hex 0x24)]].
Definition defs_KGSL_PERFCOUNTER_GROUP_CP : list decl := [
  Defines [
    ("KGSL_PERFCOUNTER_GROUP_CP", hex 0x0); ("KGSL_PERFCOUNTER_GROUP_RBBM", hex 0x1);
    ("KGSL_PERFCOUNTER_GROUP_PC", hex 0x2); ("KGSL_PERFCOUNTER_GROUP_VFD", hex 0x3);
    ("KGSL_PERFCOUNTER_GROUP_HLSQ", hex 0x4); ("KGSL_PERFCOUNTER_GROUP_VPC", hex 0x5);
    ("KGSL_PERFCOUNTER_GROUP_TSE", hex 0x6); ("KGSL_PERFCOUNTER_GROUP_RAS", hex 0x7);
    ("KGSL_PERFCOUNTER_GROUP_UCHE", hex 0x8); ("KGSL_PERFCOUNTER_GROUP_TP", hex 0x9);
    ("KGSL_PERFCOUNTER_GROUP_SP", hex 0xA); ("KGSL_PERFCOUNTER_GROUP_RB", hex 0xB);
    ("KGSL_PERFCOUNTER_GROUP_PWR", hex 0xC); ("KGSL_PERFCOUNTER_GROUP_VBIF", hex 0xD);
    ("KGSL_PERFCOUNTER_GROUP_VBIF_PWR", hex 0xE); ("KGSL_PERFCOUNTER_GROUP_MH", hex 0xF);
    ("KGSL_PERFCOUNTER_GROUP_PA_SU", hex 0x10); ("KGSL_PERFCOUNTER_GROUP_SQ", hex 0x11);
    ("KGSL_PERFCOUNTER_GROUP_SX", hex 0x12); ("KGSL_PERFCOUNTER_GROUP_TCF", hex 0x13);
    ("KGSL_PERFCOUNTER_GROUP_TCM", hex 0x14); ("KGSL_PERFCOUNTER_GROUP_TCR", hex 0x15);
    ("KGSL_PERFCOUNTER_GROUP_L2", hex 0x16); ("KGSL_PERFCOUNTER_GROUP_VSC", hex 0x17);
    ("KGSL_PERFCOUNTER_GROUP_CCU", hex 0x18); ("KGSL_PERFCOUNTER_GROUP_LRZ", hex 0x19);
    ("KGSL_PERFCOUNTER_GROUP_CMP", hex 0x1A); ("KGSL_PERFCOUNTER_GROUP_ALWAYSON", hex 0x1B);
    ("KGSL_PERFCOUNTER_GROUP_SP_PWR", hex 0x1C); ("KGSL_PERFCOUNTER_GROUP_TP_PWR", hex 0x1D);
    ("KGSL_PERFCOUNTER_GROUP_RB_PWR", hex 0x1E); ("KGSL_PERFCOUNTER_GROUP_CCU_PWR", hex 0x1F);
    ("KGSL_PERFCOUNTER_GROUP_UCHE_PWR", hex 0x20); ("KGSL_PERFCOUNTER_GROUP_CP_PWR", hex 0x21);
    ("KGSL_PERFCOUNTER_GROUP_GPMU_PWR", hex 0x22);
    ("KGSL_PERFCOUNTER_GROUP_ALWAYSON_PWR", hex 0x23); ("KGSL_PERFCOUNTER_GROUP_MAX", hex 0x24);
    ("KGSL_PERFCOUNTER_NOT_USED", hex 0xFFFFFFFF); ("KGSL_PERFCOUNTER_BROKEN", hex 0xFFFFFFFE)]].
Definition enum_kgsl_cmdwindow_type : list decl := [
  Enum [
    ("KGSL_CMDWINDOW_MIN", Some (hex 0x00000000)); ("KGSL_CMDWINDOW_2D", Some (hex 0x00000000));
    ("KGSL_CMDWINDOW_3D", Some (hex 0x00000001)); ("KGSL_CMDWINDOW_MMU", Some (hex 0x00000002));
    ("KGSL_CMDWINDOW_ARBITER", Some (hex 0x000000FF));
    ("KGSL_CMDWINDOW_MAX", Some (hex 0x000000FF))]].
Definition defs_KGSL_GPUMEM_CACHE_CLEAN : list decl := [
  Defines [
    ("KGSL_GPUMEM_CACHE_CLEAN", Shl (dec 1) (dec 0));
    ("KGSL_GPUMEM_CACHE_TO_GPU", Id "KGSL_GPUMEM_CACHE_CLEAN");
    ("KGSL_GPUMEM_CACHE_INV", Shl (dec 1) (dec 1));
    ("KGSL_GPUMEM_CACHE_FROM_GPU", Id "KGSL_GPUMEM_CACHE_INV");
    ("KGSL_GPUMEM_CACHE_FLUSH", Or (Id "KGSL_GPUMEM_CACHE_CLEAN") (Id "KGSL_GPUMEM_CACHE_INV"));
    ("KGSL_GPUMEM_CACHE_RANGE", Shl (dec 1) (decU 31))]].
Definition defs_KGSL_CONSTRAINT_NONE : list decl := [
  Defines [
    ("KGSL_CONSTRAINT_NONE", dec 0); ("KGSL_CONSTRAINT_PWRLEVEL", dec 1);
    ("KGSL_CONSTRAINT_PWR_MIN", dec 0); ("KGSL_CONSTRAINT_PWR_MAX", dec 1)]].
Definition header : header :=
  Header "linux/msm_kgsl.h" [] (concat [
    defs_KGSL_CONTEXT_SAVE_GMEM; enum_kgsl_user_mem_type; enum_kgsl_timestamp_type;
    defs_KGSL_PERFCOUNTER_GROUP_CP; enum_kgsl_cmdwindow_type; defs_KGSL_GPUMEM_CACHE_CLEAN;
    defs_KGSL_CONSTRAINT_NONE]).
End Msm_kgsl.

(** ** [linux/msm_mdp.h] *)

Module Msm_mdp.
Definition defs_FB_TYPE_3D_PANEL : list decl := [
  Defines [
    ("FB_TYPE_3D_PANEL", hex 0x10101010); ("MDP_IMGTYPE2_START", hex 0x10000);
    ("MSMFB_DRIVER_VERSION", hex 0xF9E8D701); ("MDP_IMGTYPE_END", hex 0x100)]].
Definition macro_MDSS_MDP_REV : list decl := [
  Define_fun "MDSS_MDP_REV" ["major"; "minor"; "step"] (Or (Or (Shl (And (Id "major") (hex 0x000F)) (dec 28)) (Shl (And (Id "minor") (hex 0x0FFF)) (dec 16))) (And (Id "step") (hex 0xFFFF)));
  Defines [
    ("MDSS_MDP_HW_REV_100", App "MDSS_MDP_REV" [dec 1; dec 0; dec 0]);
    ("MDSS_MDP_HW_REV_101", App "MDSS_MDP_REV" [dec 1; dec 1; dec 0]);
    ("MDSS_MDP_HW_REV_101_1", App "MDSS_MDP_REV" [dec 1; dec 1; dec 1]);
    ("MDSS_MDP_HW_REV_101_2", App "MDSS_MDP_REV" [dec 1; dec 1; dec 2]);
    ("MDSS_MDP_HW_REV_102", App "MDSS_MDP_REV" [dec 1; dec 2; dec 0]);
    ("MDSS_MDP_HW_REV_102_1", App "MDSS_MDP_REV" [dec 1; dec 2; dec 1]);
    ("MDSS_MDP_HW_REV_103", App "MDSS_MDP_REV" [dec 1; dec 3; dec 0]);
    ("MDSS_MDP_HW_REV_103_1", App "MDSS_MDP_REV" [dec 1; dec 3; dec 1]);
    ("MDSS_MDP_HW_REV_105", App "MDSS_MDP_REV" [dec 1; dec 5; dec 0]);
    ("MDSS_MDP_HW_REV_106", App "MDSS_MDP_REV" [dec 1; dec 6; dec 0]);
    ("MDSS_MDP_HW_REV_107", App "MDSS_MDP_REV" [dec 1; dec 7; dec 0]);
    ("MDSS_MDP_HW_REV_107_1", App "MDSS_MDP_REV" [dec 1; dec 7; dec 1]);
    ("MDSS_MDP_HW_REV_107_2", App "MDSS_MDP_REV" [dec 1; dec 7; dec 2]);
    ("MDSS_MDP_HW_REV_108", App "MDSS_MDP_REV" [dec 1; dec 8; dec 0]);
    ("MDSS_MDP_HW_REV_109", App "MDSS_MDP_REV" [dec 1; dec 9; dec 0]);
    ("MDSS_MDP_HW_REV_110", App "MDSS_MDP_REV" [dec 1; dec 10; dec 0]);
    ("MDSS_MDP_HW_REV_200", App "MDSS_MDP_REV" [dec 2; dec 0; dec 0]);
    ("MDSS_MDP_HW_REV_112", App "MDSS_MDP_REV" [dec 1; dec 12; dec 0]);
    ("MDSS_MDP_HW_REV_114", App "MDSS_MDP_REV" [dec 1; dec 14; dec 0]);
    ("MDSS_MDP_HW_REV_115", App "MDSS_MDP_REV" [dec 1; dec 15; dec 0]);
    ("MDSS_MDP_HW_REV_116", App "MDSS_MDP_REV" [dec 1; dec 16; dec 0]);
    ("MDSS_MDP_HW_REV_300", App "MDSS_MDP_REV" [dec 3; dec 0; dec 0]);
    ("MDSS_MDP_HW_REV_301", App "MDSS_MDP_REV" [dec 3; dec 0; dec 1]);
    ("MDSS_MDP_HW_REV_320", App "MDSS_MDP_REV" [dec 3; dec 2; dec 0]);
    ("MDSS_MDP_HW_REV_330", App "MDSS_MDP_REV" [dec 3; dec 3; dec 0])];
  Enum [
    ("NOTIFY_UPDATE_INIT", None); ("NOTIFY_UPDATE_DEINIT", None); ("NOTIFY_UPDATE_START", None);
    ("NOTIFY_UPDATE_STOP", None); ("NOTIFY_UPDATE_POWER_OFF", None)];
  Enum [
    ("NOTIFY_TYPE_NO_UPDATE", None); ("NOTIFY_TYPE_SUSPEND", None); ("NOTIFY_TYPE_UPDATE", None);
    ("NOTIFY_TYPE_BL_UPDATE", None); ("NOTIFY_TYPE_BL_AD_ATTEN_UPDATE", None)];
  Enum [
    ("MDP_RGB_565", None); ("MDP_XRGB_8888", None); ("MDP_Y_CBCR_H2V2", None);
    ("MDP_Y_CBCR_H2V2_ADRENO", None); ("MDP_ARGB_8888", None); ("MDP_RGB_888", None);
    ("MDP_Y_CRCB_H2V2", None); ("MDP_YCRYCB_H2V1", None); ("MDP_CBYCRY_H2V1", None);
    ("MDP_Y_CRCB_H2V1", None); ("MDP_Y_CBCR_H2V1", None); ("MDP_Y_CRCB_H1V2", None);
    ("MDP_Y_CBCR_H1V2", None); ("MDP_RGBA_8888", None); ("MDP_BGRA_8888", None);
    ("MDP_RGBX_8888", None); ("MDP_Y_CRCB_H2V2_TILE", None); ("MDP_Y_CBCR_H2V2_TILE", None);
    ("MDP_Y_CR_CB_H2V2", None); ("MDP_Y_CR_CB_GH2V2", None); ("MDP_Y_CB_CR_H2V2", None);
    ("MDP_Y_CRCB_H1V1", None); ("MDP_Y_CBCR_H1V1", None); ("MDP_YCRCB_H1V1", None);
    ("MDP_YCBCR_H1V1", None); ("MDP_BGR_565", None); ("MDP_BGR_888", None);
    ("MDP_Y_CBCR_H2V2_VENUS", None); ("MDP_BGRX_8888", None); ("MDP_RGBA_8888_TILE", None);
    ("MDP_ARGB_8888_TILE", None); ("MDP_ABGR_8888_TILE", None); ("MDP_BGRA_8888_TILE", None);
    ("MDP_RGBX_8888_TILE", None); ("MDP_XRGB_8888_TILE", None); ("MDP_XBGR_8888_TILE", None);
    ("MDP_BGRX_8888_TILE", None); ("MDP_YCBYCR_H2V1", None); ("MDP_RGB_565_TILE", None);
    ("MDP_BGR_565_TILE", None); ("MDP_ARGB_1555", None); ("MDP_RGBA_5551", None);
    ("MDP_ARGB_4444", None); ("MDP_RGBA_4444", None); ("MDP_RGB_565_UBWC", None);
    ("MDP_RGBA_8888_UBWC", None); ("MDP_Y_CBCR_H2V2_UBWC", None); ("MDP_RGBX_8888_UBWC", None);
    ("MDP_Y_CRCB_H2V2_VENUS", None); ("MDP_IMGTYPE_LIMIT", None); ("MDP_RGB_BORDERFILL", None);
    ("MDP_XRGB_1555", None); ("MDP_RGBX_5551", None); ("MDP_XRGB_4444", None);
    ("MDP_RGBX_4444", None); ("MDP_ABGR_1555", None); ("MDP_BGRA_5551", None);
    ("MDP_XBGR_1555", None); ("MDP_BGRX_5551", None); ("MDP_ABGR_4444", None);
    ("MDP_BGRA_4444", None); ("MDP_XBGR_4444", None); ("MDP_BGRX_4444", None);
    ("MDP_ABGR_8888", None); ("MDP_XBGR_8888", None); ("MDP_RGBA_1010102", None);
    ("MDP_ARGB_2101010", None); ("MDP_RGBX_1010102", None); ("MDP_XRGB_2101010", None);
    ("MDP_BGRA_1010102", None); ("MDP_ABGR_2101010", None); ("MDP_BGRX_1010102", None);
    ("MDP_XBGR_2101010", None); ("MDP_RGBA_1010102_UBWC", None); ("MDP_RGBX_1010102_UBWC", None);
    ("MDP_Y_CBCR_H2V2_P010", None); ("MDP_Y_CBCR_H2V2_TP10_UBWC", None);
    ("MDP_CRYCBY_H2V1", None); ("MDP_IMGTYPE_LIMIT1", Some (Id "MDP_IMGTYPE_END"));
    ("MDP_FB_FORMAT", Some (Id "MDP_IMGTYPE2_START")); ("MDP_IMGTYPE_LIMIT2", None)]].
Definition enum_HSIC_HUE : list decl := [
  Enum [
    ("HSIC_HUE", Some (dec 0)); ("HSIC_SAT", None); ("HSIC_INT", None); ("HSIC_CON", None);
    ("NUM_HSIC_PARAM", None)];
  Enum [
    ("MDSS_MAX_BW_LIMIT_DEFAULT", Some (hex 0x1)); ("MDSS_MAX_BW_LIMIT_CAMERA", Some (hex 0x2));
    ("MDSS_MAX_BW_LIMIT_HFLIP", Some (hex 0x4)); ("MDSS_MAX_BW_LIMIT_VFLIP", Some (hex 0x8))];
  Defines [
    ("MDSS_MDP_ROT_ONLY", hex 0x80); ("MDSS_MDP_RIGHT_MIXER", hex 0x100);
    ("MDSS_MDP_DUAL_PIPE", hex 0x200); ("MDP_ROT_NOP", dec 0); ("MDP_FLIP_LR", hex 0x1);
    ("MDP_FLIP_UD", hex 0x2); ("MDP_ROT_90", hex 0x4);
    ("MDP_ROT_180", Or (Id "MDP_FLIP_UD") (Id "MDP_FLIP_LR"));
    ("MDP_ROT_270", Or (Or (Id "MDP_ROT_90") (Id "MDP_FLIP_UD")) (Id "MDP_FLIP_LR"));
    ("MDP_DITHER", hex 0x8); ("MDP_BLUR", hex 0x10); ("MDP_BLEND_FG_PREMULT", hex 0x20000);
    ("MDP_IS_FG", hex 0x40000); ("MDP_SOLID_FILL", hex 0x00000020);
    ("MDP_VPU_PIPE", hex 0x00000040); ("MDP_DEINTERLACE", hex 0x80000000);
    ("MDP_SHARPENING", hex 0x40000000); ("MDP_NO_DMA_BARRIER_START", hex 0x20000000);
    ("MDP_NO_DMA_BARRIER_END", hex 0x10000000); ("MDP_NO_BLIT", hex 0x08000000);
    ("MDP_BLIT_WITH_DMA_BARRIERS", hex 0x000);
    ("MDP_BLIT_WITH_NO_DMA_BARRIERS", Or (Id "MDP_NO_DMA_BARRIER_START") (Id "MDP_NO_DMA_BARRIER_END"));
    ("MDP_BLIT_SRC_GEM", hex 0x04000000); ("MDP_BLIT_DST_GEM", hex 0x02000000);
    ("MDP_BLIT_NON_CACHED", hex 0x01000000); ("MDP_OV_PIPE_SHARE", hex 0x00800000);
    ("MDP_DEINTERLACE_ODD", hex 0x00400000); ("MDP_OV_PLAY_NOWAIT", hex 0x00200000);
    ("MDP_SOURCE_ROTATED_90", hex 0x00100000); ("MDP_OVERLAY_PP_CFG_EN", hex 0x00080000);
    ("MDP_BACKEND_COMPOSITION", hex 0x00040000); ("MDP_BORDERFILL_SUPPORTED", hex 0x00010000);
    ("MDP_SECURE_OVERLAY_SESSION", hex 0x00008000);
    ("MDP_SECURE_DISPLAY_OVERLAY_SESSION", hex 0x00002000);
    ("MDP_OV_PIPE_FORCE_DMA", hex 0x00004000); ("MDP_MEMORY_ID_TYPE_FB", hex 0x00001000);
    ("MDP_BWC_EN", hex 0x00000400); ("MDP_DECIMATION_EN", hex 0x00000800);
    ("MDP_SMP_FORCE_ALLOC", hex 0x00200000); ("MDP_TRANSP_NOP", hex 0xffffffff);
    ("MDP_ALPHA_NOP", hex 0xff); ("MDP_FB_PAGE_PROTECTION_NONCACHED", dec 0);
    ("MDP_FB_PAGE_PROTECTION_WRITECOMBINE", dec 1);
    ("MDP_FB_PAGE_PROTECTION_WRITETHROUGHCACHE", dec 2);
    ("MDP_FB_PAGE_PROTECTION_WRITEBACKCACHE", dec 3);
    ("MDP_FB_PAGE_PROTECTION_WRITEBACKWACACHE", dec 4);
    ("MDP_FB_PAGE_PROTECTION_INVALID", dec 5); ("MDP_NUM_FB_PAGE_PROTECTION_VALUES", dec 5);
    ("MDP_DEEP_COLOR_YUV444", hex 0x1); ("MDP_DEEP_COLOR_RGB30B", hex 0x2);
    ("MDP_DEEP_COLOR_RGB36B", hex 0x4); ("MDP_DEEP_COLOR_RGB48B", hex 0x8)]].
Definition defs_MDP_CCS_RGB2YUV : list decl := [
  Defines [
    ("MDP_CCS_RGB2YUV", dec 0); ("MDP_CCS_YUV2RGB", dec 1); ("MDP_CCS_SIZE", dec 9);
    ("MDP_BV_SIZE", dec 3)]].
Definition defs_MDP_PP_OPS_ENABLE : list decl := [
  Defines [
    ("MDP_PP_OPS_ENABLE", hex 0x1); ("MDP_PP_OPS_READ", hex 0x2); ("MDP_PP_OPS_WRITE", hex 0x4);
    ("MDP_PP_OPS_DISABLE", hex 0x8); ("MDP_PP_IGC_FLAG_ROM0", hex 0x10);
    ("MDP_PP_IGC_FLAG_ROM1", hex 0x20); ("MDSS_PP_DSPP_CFG", hex 0x000);
    ("MDSS_PP_SSPP_CFG", hex 0x100); ("MDSS_PP_LM_CFG", hex 0x200);
    ("MDSS_PP_WB_CFG", hex 0x300); ("MDSS_PP_ARG_MASK", hex 0x3C00); ("MDSS_PP_ARG_NUM", dec 4);
    ("MDSS_PP_ARG_SHIFT", dec 10); ("MDSS_PP_LOCATION_MASK", hex 0x0300);
    ("MDSS_PP_LOGICAL_MASK", hex 0x00FF)]].
Definition defs_MDP_OVERLAY_PP_CSC_CFG : list decl := [
  Defines [
    ("MDP_OVERLAY_PP_CSC_CFG", hex 0x1); ("MDP_OVERLAY_PP_QSEED_CFG", hex 0x2);
    ("MDP_OVERLAY_PP_PA_CFG", hex 0x4); ("MDP_OVERLAY_PP_IGC_CFG", hex 0x8);
    ("MDP_OVERLAY_PP_SHARP_CFG", hex 0x10); ("MDP_OVERLAY_PP_HIST_CFG", hex 0x20);
    ("MDP_OVERLAY_PP_HIST_LUT_CFG", hex 0x40); ("MDP_OVERLAY_PP_PA_V2_CFG", hex 0x80);
    ("MDP_OVERLAY_PP_PCC_CFG", hex 0x100); ("MDP_CSC_FLAG_ENABLE", hex 0x1);
    ("MDP_CSC_FLAG_YUV_IN", hex 0x2); ("MDP_CSC_FLAG_YUV_OUT", hex 0x4);
    ("MDP_CSC_MATRIX_COEFF_SIZE", dec 9); ("MDP_CSC_CLAMP_SIZE", dec 6);
    ("MDP_CSC_BIAS_SIZE", dec 3)]].
Definition defs_MDP_SIX_ZONE_LUT_SIZE : list decl := [
  Defines [
    ("MDP_SIX_ZONE_LUT_SIZE", dec 384); ("MDP_PP_PA_HUE_ENABLE", hex 0x10);
    ("MDP_PP_PA_SAT_ENABLE", hex 0x20); ("MDP_PP_PA_VAL_ENABLE", hex 0x40);
    ("MDP_PP_PA_CONT_ENABLE", hex 0x80); ("MDP_PP_PA_SIX_ZONE_ENABLE", hex 0x100);
    ("MDP_PP_PA_SKIN_ENABLE", hex 0x200); ("MDP_PP_PA_SKY_ENABLE", hex 0x400);
    ("MDP_PP_PA_FOL_ENABLE", hex 0x800); ("MDP_PP_PA_MEM_PROT_HUE_EN", hex 0x1);
    ("MDP_PP_PA_MEM_PROT_SAT_EN", hex 0x2); ("MDP_PP_PA_MEM_PROT_VAL_EN", hex 0x4);
    ("MDP_PP_PA_MEM_PROT_CONT_EN", hex 0x8); ("MDP_PP_PA_MEM_PROT_SIX_EN", hex 0x10);
    ("MDP_PP_PA_MEM_PROT_BLEND_EN", hex 0x20); ("MDP_PP_PA_HUE_MASK", hex 0x1000);
    ("MDP_PP_PA_SAT_MASK", hex 0x2000); ("MDP_PP_PA_VAL_MASK", hex 0x4000);
    ("MDP_PP_PA_CONT_MASK", hex 0x8000); ("MDP_PP_PA_SIX_ZONE_HUE_MASK", hex 0x10000);
    ("MDP_PP_PA_SIX_ZONE_SAT_MASK", hex 0x20000); ("MDP_PP_PA_SIX_ZONE_VAL_MASK", hex 0x40000);
    ("MDP_PP_PA_MEM_COL_SKIN_MASK", hex 0x80000); ("MDP_PP_PA_MEM_COL_SKY_MASK", hex 0x100000);
    ("MDP_PP_PA_MEM_COL_FOL_MASK", hex 0x200000); ("MDP_PP_PA_MEM_PROTECT_EN", hex 0x400000);
    ("MDP_PP_PA_SAT_ZERO_EXP_EN", hex 0x800000); ("MDP_PP_PA_LEFT_HOLD", hex 0x1);
    ("MDP_PP_PA_RIGHT_HOLD", hex 0x2)]].
Definition enum_mdp_igc_rec601 : list decl := [
  Enum [
    ("mdp_igc_rec601", Some (dec 1)); ("mdp_igc_rec709", None); ("mdp_igc_srgb", None);
    ("mdp_igc_custom", None); ("mdp_igc_rec_max", None)]].
Definition enum_mdp_lut_igc : list decl := [
  Enum [
    ("mdp_lut_igc", None); ("mdp_lut_pgc", None); ("mdp_lut_hist", None); ("mdp_lut_rgb", None);
    ("mdp_lut_max", None)]].
Definition enum_mdss_mdp_blend_op : list decl := [
  Enum [
    ("BLEND_OP_NOT_DEFINED", Some (dec 0)); ("BLEND_OP_OPAQUE", None);
    ("BLEND_OP_PREMULTIPLIED", None); ("BLEND_OP_COVERAGE", None); ("BLEND_OP_MAX", None)]].
Definition defs_MAX_PLANES : list decl := [
  Defines [
    ("MAX_PLANES", dec 4)]].
Definition enum_mdp_overlay_pipe_type : list decl := [
  Enum [
    ("PIPE_TYPE_AUTO", Some (dec 0)); ("PIPE_TYPE_VIG", None); ("PIPE_TYPE_RGB", None);
    ("PIPE_TYPE_DMA", None); ("PIPE_TYPE_CURSOR", None); ("PIPE_TYPE_MAX", None)]].
Definition enum_DISPLAY_MISR_EDP : list decl := [
  Enum [
    ("DISPLAY_MISR_EDP", None); ("DISPLAY_MISR_DSI0", None); ("DISPLAY_MISR_DSI1", None);
    ("DISPLAY_MISR_HDMI", None); ("DISPLAY_MISR_LCDC", None); ("DISPLAY_MISR_MDP", None);
    ("DISPLAY_MISR_ATV", None); ("DISPLAY_MISR_DSI_CMD", None); ("DISPLAY_MISR_MAX", None)];
  Enum [
    ("MISR_OP_NONE", None); ("MISR_OP_SFM", None); ("MISR_OP_MFM", None); ("MISR_OP_BM", None);
    ("MISR_OP_MAX", None)]].
Definition enum_MDP_BLOCK_RESERVED : list decl := [
  Enum [
    ("MDP_BLOCK_RESERVED", Some (dec 0)); ("MDP_BLOCK_OVERLAY_0", None);
    ("MDP_BLOCK_OVERLAY_1", None); ("MDP_BLOCK_VG_1", None); ("MDP_BLOCK_VG_2", None);
    ("MDP_BLOCK_RGB_1", None); ("MDP_BLOCK_RGB_2", None); ("MDP_BLOCK_DMA_P", None);
    ("MDP_BLOCK_DMA_S", None); ("MDP_BLOCK_DMA_E", None); ("MDP_BLOCK_OVERLAY_2", None);
    ("MDP_LOGICAL_BLOCK_DISP_0", Some (hex 0x10)); ("MDP_LOGICAL_BLOCK_DISP_1", None);
    ("MDP_LOGICAL_BLOCK_DISP_2", None); ("MDP_BLOCK_MAX", None)]].
Definition defs_MDP_GAMUT_TABLE_NUM : list decl := [
  Defines [
    ("MDP_GAMUT_TABLE_NUM", dec 8); ("MDP_GAMUT_TABLE_NUM_V1_7", dec 4);
    ("MDP_GAMUT_SCALE_OFF_TABLE_NUM", dec 3); ("MDP_GAMUT_TABLE_V1_7_SZ", dec 1229);
    ("MDP_GAMUT_SCALE_OFF_SZ", dec 16); ("MDP_GAMUT_TABLE_V1_7_COARSE_SZ", dec 32)]].
Definition enum_DCM_UNINIT : list decl := [
  Enum [
    ("DCM_UNINIT", None); ("DCM_UNBLANK", None); ("DCM_ENTER", None); ("DCM_EXIT", None);
    ("DCM_BLANK", None); ("DTM_ENTER", None); ("DTM_EXIT", None)];
  Defines [
    ("MDSS_PP_SPLIT_LEFT_ONLY", hex 0x10000000); ("MDSS_PP_SPLIT_RIGHT_ONLY", hex 0x20000000);
    ("MDSS_PP_SPLIT_MASK", hex 0x30000000); ("MDSS_MAX_BL_BRIGHTNESS", dec 255);
    ("AD_BL_LIN_LEN", dec 256); ("AD_BL_ATT_LUT_LEN", dec 33); ("MDSS_AD_MODE_AUTO_BL", hex 0x0);
    ("MDSS_AD_MODE_AUTO_STR", hex 0x1); ("MDSS_AD_MODE_TARG_STR", hex 0x3);
    ("MDSS_AD_MODE_MAN_STR", hex 0x7); ("MDSS_AD_MODE_CALIB", hex 0xF);
    ("MDP_PP_AD_INIT", hex 0x10); ("MDP_PP_AD_CFG", hex 0x20)]].
Definition enum_mdp_op_pcc_cfg : list decl := [
  Enum [
    ("mdp_op_pcc_cfg", None); ("mdp_op_csc_cfg", None); ("mdp_op_lut_cfg", None);
    ("mdp_op_qseed_cfg", None); ("mdp_bl_scale_cfg", None); ("mdp_op_pa_cfg", None);
    ("mdp_op_pa_v2_cfg", None); ("mdp_op_dither_cfg", None); ("mdp_op_gamut_cfg", None);
    ("mdp_op_calib_cfg", None); ("mdp_op_ad_cfg", None); ("mdp_op_ad_input", None);
    ("mdp_op_calib_mode", None); ("mdp_op_calib_buffer", None); ("mdp_op_calib_dcm_state", None);
    ("mdp_op_max", None); ("mdp_op_pa_dither_cfg", None); ("mdp_op_ad_bl_cfg", None);
    ("mdp_op_pp_max", Some (dec 255))]].
Definition enum_WB_FORMAT_NV12 : list decl := [
  Enum [
    ("WB_FORMAT_NV12", None); ("WB_FORMAT_RGB_565", None); ("WB_FORMAT_RGB_888", None);
    ("WB_FORMAT_xRGB_8888", None); ("WB_FORMAT_ARGB_8888", None); ("WB_FORMAT_BGRA_8888", None);
    ("WB_FORMAT_BGRX_8888", None); ("WB_FORMAT_ARGB_8888_INPUT_ALPHA", None)]].
Definition enum_metadata_op_none : list decl := [
  Enum [
    ("metadata_op_none", None); ("metadata_op_base_blend", None);
    ("metadata_op_frame_rate", None); ("metadata_op_vic", None); ("metadata_op_wb_format", None);
    ("metadata_op_wb_secure", None); ("metadata_op_get_caps", None); ("metadata_op_crc", None);
    ("metadata_op_get_ion_fd", None); ("metadata_op_max", None)]].
Definition enum_MDP_WRITEBACK_MIRROR_OFF : list decl := [
  Enum [
    ("MDP_WRITEBACK_MIRROR_OFF", None); ("MDP_WRITEBACK_MIRROR_ON", None);
    ("MDP_WRITEBACK_MIRROR_PAUSE", None); ("MDP_WRITEBACK_MIRROR_RESUME", None)];
  Enum [
    ("MDP_CSC_ITU_R_601", None); ("MDP_CSC_ITU_R_601_FR", None); ("MDP_CSC_ITU_R_709", None)]].
Definition enum_mdp_igc_v1_7 : list decl := [
  Enum [
    ("mdp_igc_v1_7", Some (dec 1)); ("mdp_igc_vmax", None); ("mdp_hist_lut_v1_7", None);
    ("mdp_hist_lut_vmax", None); ("mdp_pgc_v1_7", None); ("mdp_pgc_vmax", None);
    ("mdp_dither_v1_7", None); ("mdp_dither_vmax", None); ("mdp_gamut_v1_7", None);
    ("mdp_gamut_vmax", None); ("mdp_pa_v1_7", None); ("mdp_pa_vmax", None);
    ("mdp_pcc_v1_7", None); ("mdp_pcc_vmax", None); ("mdp_pp_legacy", None);
    ("mdp_dither_pa_v1_7", None); ("mdp_igc_v3", None); ("mdp_pp_unknown", Some (dec 255))]].
Definition enum_IGC : list decl := [
  Enum [
    ("IGC", Some (dec 1)); ("PCC", None); ("GC", None); ("PA", None); ("GAMUT", None);
    ("DITHER", None); ("QSEED", None); ("HIST_LUT", None); ("HIST", None);
    ("PP_FEATURE_MAX", None); ("PA_DITHER", None); ("PP_MAX_FEATURES", Some (dec 25))]].
Definition header : header :=
  Header "linux/msm_mdp.h" [] (concat [
    defs_FB_TYPE_3D_PANEL; macro_MDSS_MDP_REV; enum_HSIC_HUE; defs_MDP_CCS_RGB2YUV;
    defs_MDP_PP_OPS_ENABLE; defs_MDP_OVERLAY_PP_CSC_CFG; defs_MDP_SIX_ZONE_LUT_SIZE;
    enum_mdp_igc_rec601; enum_mdp_lut_igc; enum_mdss_mdp_blend_op; defs_MAX_PLANES;
    enum_mdp_overlay_pipe_type; enum_DISPLAY_MISR_EDP; enum_MDP_BLOCK_RESERVED;
    defs_MDP_GAMUT_TABLE_NUM; enum_DCM_UNINIT; enum_mdp_op_pcc_cfg; enum_WB_FORMAT_NV12;
    enum_metadata_op_none; enum_MDP_WRITEBACK_MIRROR_OFF; enum_mdp_igc_v1_7; enum_IGC]).
End Msm_mdp.

(** ** [linux/msm_mdp_ext.h] *)

Module Msm_mdp_ext.
Definition defs_MDP_LAYER_SOLID_FILL : list decl := [
  Defines [
    ("MDP_LAYER_SOLID_FILL", hex 0x20); ("MDP_LAYER_DEINTERLACE", hex 0x40);
    ("MDP_LAYER_BWC", hex 0x80); ("MDP_LAYER_ASYNC", hex 0x100); ("MDP_LAYER_PP", hex 0x200);
    ("MDP_LAYER_SECURE_DISPLAY_SESSION", hex 0x400); ("MDP_LAYER_ENABLE_QSEED3_SCALE", hex 0x800)]].
Definition defs_MDP_COMMIT_AVR_ONE_SHOT_MODE : list decl := [
  Defines [
    ("MDP_COMMIT_AVR_ONE_SHOT_MODE", hex 0x10); ("MDP_COMMIT_PARTIAL_UPDATE_DUAL_ROI", hex 0x20);
    ("MDP_COMMIT_UPDATE_BRIGHTNESS", hex 0x40); ("MDP_COMMIT_CWB_EN", hex 0x800)]].
Definition defs_MDP_HDR_EOTF_SMTPE_ST2084 : list decl := [
  Defines [
    ("MDP_HDR_EOTF_SMTPE_ST2084", hex 0x2); ("MDP_HDR_EOTF_HLG", hex 0x3);
    ("MDP_PIXEL_ENCODING_RGB", hex 0x0); ("MDP_PIXEL_ENCODING_YCBCR_444", hex 0x1);
    ("MDP_PIXEL_ENCODING_YCBCR_422", hex 0x2); ("MDP_PIXEL_ENCODING_YCBCR_420", hex 0x3);
    ("MDP_PIXEL_ENCODING_Y_ONLY", hex 0x4); ("MDP_PIXEL_ENCODING_RAW", hex 0x5);
    ("MDP_COLORIMETRY_RGB_SRGB", hex 0x0); ("MDP_COLORIMETRY_RGB_WIDE_FIXED_POINT", hex 0x1);
    ("MDP_COLORIMETRY_RGB_WIDE_FLOAT_POINT", hex 0x2); ("MDP_COLORIMETRY_RGB_ADOBE", hex 0x3);
    ("MDP_COLORIMETRY_RGB_DPI_P3", hex 0x4); ("MDP_COLORIMETRY_RGB_CUSTOM", hex 0x5);
    ("MDP_COLORIMETRY_RGB_ITU_R_BT_2020", hex 0x6);
    ("MDP_COLORIMETRY_YCBCR_ITU_R_BT_601", hex 0x0);
    ("MDP_COLORIMETRY_YCBCR_ITU_R_BT_709", hex 0x1);
    ("MDP_COLORIMETRY_YCBCR_XV_YCC_601", hex 0x2); ("MDP_COLORIMETRY_YCBCR_XV_YCC_709", hex 0x3);
    ("MDP_COLORIMETRY_YCBCR_S_YCC_601", hex 0x4);
    ("MDP_COLORIMETRY_YCBCR_ADOBE_YCC_601", hex 0x5);
    ("MDP_COLORIMETRY_YCBCR_ITU_R_BT_2020_YCBCR_CONST", hex 0x6);
    ("MDP_COLORIMETRY_YCBCR_ITU_R_BT_2020_YCBCR", hex 0x7); ("MDP_DYNAMIC_RANGE_VESA", hex 0x0);
    ("MDP_DYNAMIC_RANGE_CEA", hex 0x1); ("MDP_RGB_6_BPC", hex 0x0); ("MDP_RGB_8_BPC", hex 0x1);
    ("MDP_RGB_10_BPC", hex 0x2); ("MDP_RGB_12_BPC", hex 0x3); ("MDP_RGB_16_BPC", hex 0x4)];
  Defines [
    ("MDP_YUV_8_BPC", hex 0x1); ("MDP_YUV_10_BPC", hex 0x2); ("MDP_YUV_12_BPC", hex 0x3);
    ("MDP_YUV_16_BPC", hex 0x4); ("MDP_RAW_6_BPC", hex 0x1); ("MDP_RAW_7_BPC", hex 0x2);
    ("MDP_RAW_8_BPC", hex 0x3); ("MDP_RAW_10_BPC", hex 0x4); ("MDP_RAW_12_BPC", hex 0x5);
    ("MDP_RAW_14_BPC", hex 0x6); ("MDP_RAW16_BPC", hex 0x7);
    ("MDP_CONTENT_TYPE_NOT_DEFINED", hex 0x0); ("MDP_CONTENT_TYPE_GRAPHICS", hex 0x1);
    ("MDP_CONTENT_TYPE_PHOTO", hex 0x2); ("MDP_CONTENT_TYPE_VIDEO", hex 0x3);
    ("MDP_CONTENT_TYPE_GAME", hex 0x4)]].
Definition defs_ENABLE_SCALE : list decl := [
  Defines [
    ("ENABLE_SCALE", hex 0x1); ("ENABLE_DETAIL_ENHANCE", hex 0x2);
    ("ENABLE_DIRECTION_DETECTION", hex 0x4); ("SCALER_LUT_SWAP", hex 0x1);
    ("SCALER_LUT_DIR_WR", hex 0x2); ("SCALER_LUT_Y_CIR_WR", hex 0x4);
    ("SCALER_LUT_UV_CIR_WR", hex 0x8); ("SCALER_LUT_Y_SEP_WR", hex 0x10);
    ("SCALER_LUT_UV_SEP_WR", hex 0x20); ("FILTER_EDGE_DIRECTED_2D", hex 0x0);
    ("FILTER_CIRCULAR_2D", hex 0x1); ("FILTER_SEPARABLE_1D", hex 0x2);
    ("FILTER_BILINEAR", hex 0x3); ("FILTER_ALPHA_DROP_REPEAT", hex 0x0);
    ("FILTER_ALPHA_BILINEAR", hex 0x1)]].
Definition header : header :=
  Header "linux/msm_mdp_ext.h" [] (concat [
    defs_MDP_LAYER_SOLID_FILL; defs_MDP_COMMIT_AVR_ONE_SHOT_MODE; defs_MDP_HDR_EOTF_SMTPE_ST2084;
    defs_ENABLE_SCALE]).
End Msm_mdp_ext.

(** ** [linux/msm_rotator.h] *)

Module Msm_rotator.
Definition enum_rotator_clk_type : list decl := [
  Enum [
    ("ROTATOR_CORE_CLK", None); ("ROTATOR_PCLK", None); ("ROTATOR_IMEM_CLK", None)]].
Definition header : header :=
  Header "linux/msm_rotator.h" [] (concat [
    enum_rotator_clk_type]).
End Msm_rotator.

(** ** [linux/omapfb.h] *)

Module Omapfb.
Definition defs_OMAPFB_CAPS_GENERIC_MASK : list decl := [
  Defines [
    ("OMAPFB_CAPS_GENERIC_MASK", hex 0x00000fff); ("OMAPFB_CAPS_LCDC_MASK", hex 0x00fff000);
    ("OMAPFB_CAPS_PANEL_MASK", hex 0xff000000); ("OMAPFB_CAPS_MANUAL_UPDATE", hex 0x00001000);
    ("OMAPFB_CAPS_TEARSYNC", hex 0x00002000); ("OMAPFB_CAPS_PLANE_RELOCATE_MEM", hex 0x00004000);
    ("OMAPFB_CAPS_PLANE_SCALE", hex 0x00008000);
    ("OMAPFB_CAPS_WINDOW_PIXEL_DOUBLE", hex 0x00010000);
    ("OMAPFB_CAPS_WINDOW_SCALE", hex 0x00020000); ("OMAPFB_CAPS_WINDOW_OVERLAY", hex 0x00040000);
    ("OMAPFB_CAPS_WINDOW_ROTATE", hex 0x00080000); ("OMAPFB_CAPS_SET_BACKLIGHT", hex 0x01000000);
    ("OMAPFB_FORMAT_MASK", hex 0x00ff); ("OMAPFB_FORMAT_FLAG_DOUBLE", hex 0x0100);
    ("OMAPFB_FORMAT_FLAG_TEARSYNC", hex 0x0200); ("OMAPFB_FORMAT_FLAG_FORCE_VSYNC", hex 0x0400);
    ("OMAPFB_FORMAT_FLAG_ENABLE_OVERLAY", hex 0x0800);
    ("OMAPFB_FORMAT_FLAG_DISABLE_OVERLAY", hex 0x1000); ("OMAPFB_MEMTYPE_SDRAM", dec 0);
    ("OMAPFB_MEMTYPE_SRAM", dec 1); ("OMAPFB_MEMTYPE_MAX", dec 1);
    ("OMAPFB_MEM_IDX_ENABLED", hex 0x80); ("OMAPFB_MEM_IDX_MASK", hex 0x7f)];
  Enum [
    ("OMAPFB_COLOR_RGB565", Some (dec 0)); ("OMAPFB_COLOR_YUV422", None);
    ("OMAPFB_COLOR_YUV420", None); ("OMAPFB_COLOR_CLUT_8BPP", None);
    ("OMAPFB_COLOR_CLUT_4BPP", None); ("OMAPFB_COLOR_CLUT_2BPP", None);
    ("OMAPFB_COLOR_CLUT_1BPP", None); ("OMAPFB_COLOR_RGB444", None);
    ("OMAPFB_COLOR_YUY422", None); ("OMAPFB_COLOR_ARGB16", None); ("OMAPFB_COLOR_RGB24U", None);
    ("OMAPFB_COLOR_RGB24P", None); ("OMAPFB_COLOR_ARGB32", None); ("OMAPFB_COLOR_RGBA32", None);
    ("OMAPFB_COLOR_RGBX32", None)]].
Definition enum_omapfb_plane : list decl := [
  Enum [
    ("OMAPFB_PLANE_GFX", Some (dec 0)); ("OMAPFB_PLANE_VID1", None); ("OMAPFB_PLANE_VID2", None)]].
Definition enum_omapfb_color_key_type : list decl := [
  Enum [
    ("OMAPFB_COLOR_KEY_DISABLED", Some (dec 0)); ("OMAPFB_COLOR_KEY_GFX_DST", None);
    ("OMAPFB_COLOR_KEY_VID_SRC", None)]].
Definition enum_omapfb_update_mode : list decl := [
  Enum [
    ("OMAPFB_UPDATE_DISABLED", Some (dec 0)); ("OMAPFB_AUTO_UPDATE", None);
    ("OMAPFB_MANUAL_UPDATE", None)]].
Definition header : header :=
  Header "linux/omapfb.h" [] (concat [
    defs_OMAPFB_CAPS_GENERIC_MASK; enum_omapfb_plane; enum_omapfb_color_key_type;
    enum_omapfb_update_mode]).
End Omapfb.

(** ** [video/msm_hdmi_hdcp_mgr.h] *)

Module Video_msm_hdmi_hdcp_mgr.
Definition enum_DS_TYPE : list decl := [
  Enum [
    ("DS_UNKNOWN", None); ("DS_RECEIVER", None); ("DS_REPEATER", None)];
  Enum [
    ("MSG_ID_IDX", None); ("RET_CODE_IDX", None); ("HEADER_LEN", None)];
  Enum [
    ("HDCP_NOT_AUTHED", None); ("HDCP_AUTHED", None); ("HDCP_DISABLE", None)];
  Enum [
    ("DOWN_CHECK_TOPOLOGY", None); ("UP_REQUEST_TOPOLOGY", None); ("UP_SEND_TOPOLOGY", None);
    ("DOWN_REQUEST_TOPOLOGY", None); ("MSG_NUM", None)];
  Enum [
    ("HDCP_V1_TX", None); ("HDCP_V1_RX", None); ("HDCP_V2_RX", None); ("HDCP_V2_TX", None);
    ("SRC_NUM", None)]].
Definition header : header :=
  Header "video/msm_hdmi_hdcp_mgr.h" [] (concat [
    enum_DS_TYPE]).
End Video_msm_hdmi_hdcp_mgr.

(** ** [video/msm_hdmi_modes.h] *)

Module Video_msm_hdmi_modes.
Definition enum_aspect_ratio : list decl := [
  Enum [
    ("HDMI_RES_AR_INVALID", None); ("HDMI_RES_AR_4_3", None); ("HDMI_RES_AR_5_4", None);
    ("HDMI_RES_AR_16_9", None); ("HDMI_RES_AR_16_10", None); ("HDMI_RES_AR_64_27", None);
    ("HDMI_RES_AR_256_135", None); ("HDMI_RES_AR_MAX", None)];
  Enum [
    ("HDMI_S3D_NONE", None); ("HDMI_S3D_SIDE_BY_SIDE", None); ("HDMI_S3D_TOP_AND_BOTTOM", None);
    ("HDMI_S3D_FRAME_PACKING", None); ("HDMI_S3D_MAX", None)]].
Definition defs_MSM_HDMI_INIT_RES_PAGE : list decl := [
  Defines [
    ("MSM_HDMI_INIT_RES_PAGE", dec 1); ("MSM_HDMI_MODES_CEA", Shl (dec 1) (dec 0));
    ("MSM_HDMI_MODES_XTND", Shl (dec 1) (dec 1)); ("MSM_HDMI_MODES_DVI", Shl (dec 1) (dec 2));
    ("MSM_HDMI_MODES_ALL", Or (Or (Id "MSM_HDMI_MODES_CEA") (Id "MSM_HDMI_MODES_XTND")) (Id "MSM_HDMI_MODES_DVI"));
    ("HDMI_VFRMT_UNKNOWN", dec 0); ("HDMI_VFRMT_640x480p60_4_3", dec 1);
    ("HDMI_VFRMT_720x480p60_4_3", dec 2); ("HDMI_VFRMT_720x480p60_16_9", dec 3);
    ("HDMI_VFRMT_1280x720p60_16_9", dec 4); ("HDMI_VFRMT_1920x1080i60_16_9", dec 5);
    ("HDMI_VFRMT_720x480i60_4_3", dec 6);
    ("HDMI_VFRMT_1440x480i60_4_3", Id "HDMI_VFRMT_720x480i60_4_3");
    ("HDMI_VFRMT_720x480i60_16_9", dec 7);
    ("HDMI_VFRMT_1440x480i60_16_9", Id "HDMI_VFRMT_720x480i60_16_9");
    ("HDMI_VFRMT_720x240p60_4_3", dec 8);
    ("HDMI_VFRMT_1440x240p60_4_3", Id "HDMI_VFRMT_720x240p60_4_3");
    ("HDMI_VFRMT_720x240p60_16_9", dec 9);
    ("HDMI_VFRMT_1440x240p60_16_9", Id "HDMI_VFRMT_720x240p60_16_9");
    ("HDMI_VFRMT_2880x480i60_4_3", dec 10); ("HDMI_VFRMT_2880x480i60_16_9", dec 11);
    ("HDMI_VFRMT_2880x240p60_4_3", dec 12); ("HDMI_VFRMT_2880x240p60_16_9", dec 13);
    ("HDMI_VFRMT_1440x480p60_4_3", dec 14); ("HDMI_VFRMT_1440x480p60_16_9", dec 15);
    ("HDMI_VFRMT_1920x1080p60_16_9", dec 16); ("HDMI_VFRMT_720x576p50_4_3", dec 17);
    ("HDMI_VFRMT_720x576p50_16_9", dec 18); ("HDMI_VFRMT_1280x720p50_16_9", dec 19);
    ("HDMI_VFRMT_1920x1080i50_16_9", dec 20); ("HDMI_VFRMT_720x576i50_4_3", dec 21);
    ("HDMI_VFRMT_1440x576i50_4_3", Id "HDMI_VFRMT_720x576i50_4_3");
    ("HDMI_VFRMT_720x576i50_16_9", dec 22);
    ("HDMI_VFRMT_1440x576i50_16_9", Id "HDMI_VFRMT_720x576i50_16_9");
    ("HDMI_VFRMT_720x288p50_4_3", dec 23);
    ("HDMI_VFRMT_1440x288p50_4_3", Id "HDMI_VFRMT_720x288p50_4_3");
    ("HDMI_VFRMT_720x288p50_16_9", dec 24);
    ("HDMI_VFRMT_1440x288p50_16_9", Id "HDMI_VFRMT_720x288p50_16_9");
    ("HDMI_VFRMT_2880x576i50_4_3", dec 25); ("HDMI_VFRMT_2880x576i50_16_9", dec 26);
    ("HDMI_VFRMT_2880x288p50_4_3", dec 27); ("HDMI_VFRMT_2880x288p50_16_9", dec 28);
    ("HDMI_VFRMT_1440x576p50_4_3", dec 29); ("HDMI_VFRMT_1440x576p50_16_9", dec 30);
    ("HDMI_VFRMT_1920x1080p50_16_9", dec 31); ("HDMI_VFRMT_1920x1080p24_16_9", dec 32);
    ("HDMI_VFRMT_1920x1080p25_16_9", dec 33); ("HDMI_VFRMT_1920x1080p30_16_9", dec 34);
    ("HDMI_VFRMT_2880x480p60_4_3", dec 35); ("HDMI_VFRMT_2880x480p60_16_9", dec 36);
    ("HDMI_VFRMT_2880x576p50_4_3", dec 37); ("HDMI_VFRMT_2880x576p50_16_9", dec 38);
    ("HDMI_VFRMT_1920x1250i50_16_9", dec 39); ("HDMI_VFRMT_1920x1080i100_16_9", dec 40);
    ("HDMI_VFRMT_1280x720p100_16_9", dec 41); ("HDMI_VFRMT_720x576p100_4_3", dec 42);
    ("HDMI_VFRMT_720x576p100_16_9", dec 43); ("HDMI_VFRMT_720x576i100_4_3", dec 44);
    ("HDMI_VFRMT_1440x576i100_4_3", Id "HDMI_VFRMT_720x576i100_4_3");
    ("HDMI_VFRMT_720x576i100_16_9", dec 45);
    ("HDMI_VFRMT_1440x576i100_16_9", Id "HDMI_VFRMT_720x576i100_16_9");
    ("HDMI_VFRMT_1920x1080i120_16_9", dec 46); ("HDMI_VFRMT_1280x720p120_16_9", dec 47);
    ("HDMI_VFRMT_720x480p120_4_3", dec 48); ("HDMI_VFRMT_720x480p120_16_9", dec 49);
    ("HDMI_VFRMT_720x480i120_4_3", dec 50);
    ("HDMI_VFRMT_1440x480i120_4_3", Id "HDMI_VFRMT_720x480i120_4_3");
    ("HDMI_VFRMT_720x480i120_16_9", dec 51);
    ("HDMI_VFRMT_1440x480i120_16_9", Id "HDMI_VFRMT_720x480i120_16_9");
    ("HDMI_VFRMT_720x576p200_4_3", dec 52); ("HDMI_VFRMT_720x576p200_16_9", dec 53);
    ("HDMI_VFRMT_720x576i200_4_3", dec 54);
    ("HDMI_VFRMT_1440x576i200_4_3", Id "HDMI_VFRMT_720x576i200_4_3");
    ("HDMI_VFRMT_720x576i200_16_9", dec 55);
    ("HDMI_VFRMT_1440x576i200_16_9", Id "HDMI_VFRMT_720x576i200_16_9");
    ("HDMI_VFRMT_720x480p240_4_3", dec 56); ("HDMI_VFRMT_720x480p240_16_9", dec 57);
    ("HDMI_VFRMT_720x480i240_4_3", dec 58);
    ("HDMI_VFRMT_1440x480i240_4_3", Id "HDMI_VFRMT_720x480i240_4_3");
    ("HDMI_VFRMT_720x480i240_16_9", dec 59);
    ("HDMI_VFRMT_1440x480i240_16_9", Id "HDMI_VFRMT_720x480i240_16_9");
    ("HDMI_VFRMT_1280x720p24_16_9", dec 60); ("HDMI_VFRMT_1280x720p25_16_9", dec 61);
    ("HDMI_VFRMT_1280x720p30_16_9", dec 62); ("HDMI_VFRMT_1920x1080p120_16_9", dec 63);
    ("HDMI_VFRMT_1920x1080p100_16_9", dec 64); ("HDMI_VFRMT_1280x720p24_64_27", dec 65);
    ("HDMI_VFRMT_1280x720p25_64_27", dec 66); ("HDMI_VFRMT_1280x720p30_64_27", dec 67);
    ("HDMI_VFRMT_1280x720p50_64_27", dec 68); ("HDMI_VFRMT_1280x720p60_64_27", dec 69);
    ("HDMI_VFRMT_1280x720p100_64_27", dec 70); ("HDMI_VFRMT_1280x720p120_64_27", dec 71);
    ("HDMI_VFRMT_1920x1080p24_64_27", dec 72); ("HDMI_VFRMT_1920x1080p25_64_27", dec 73);
    ("HDMI_VFRMT_1920x1080p30_64_27", dec 74); ("HDMI_VFRMT_1920x1080p50_64_27", dec 75);
    ("HDMI_VFRMT_1920x1080p60_64_27", dec 76); ("HDMI_VFRMT_1920x1080p100_64_27", dec 77);
    ("HDMI_VFRMT_1920x1080p120_64_27", dec 78); ("HDMI_VFRMT_1680x720p24_64_27", dec 79);
    ("HDMI_VFRMT_1680x720p25_64_27", dec 80); ("HDMI_VFRMT_1680x720p30_64_27", dec 81);
    ("HDMI_VFRMT_1680x720p50_64_27", dec 82); ("HDMI_VFRMT_1680x720p60_64_27", dec 83);
    ("HDMI_VFRMT_1680x720p100_64_27", dec 84); ("HDMI_VFRMT_1680x720p120_64_27", dec 85);
    ("HDMI_VFRMT_2560x1080p24_64_27", dec 86); ("HDMI_VFRMT_2560x1080p25_64_27", dec 87);
    ("HDMI_VFRMT_2560x1080p30_64_27", dec 88); ("HDMI_VFRMT_2560x1080p50_64_27", dec 89);
    ("HDMI_VFRMT_2560x1080p60_64_27", dec 90); ("HDMI_VFRMT_2560x1080p100_64_27", dec 91);
    ("HDMI_VFRMT_2560x1080p120_64_27", dec 92); ("HDMI_VFRMT_3840x2160p24_16_9", dec 93);
    ("HDMI_VFRMT_3840x2160p25_16_9", dec 94); ("HDMI_VFRMT_3840x2160p30_16_9", dec 95);
    ("HDMI_VFRMT_3840x2160p50_16_9", dec 96); ("HDMI_VFRMT_3840x2160p60_16_9", dec 97);
    ("HDMI_VFRMT_4096x2160p24_256_135", dec 98); ("HDMI_VFRMT_4096x2160p25_256_135", dec 99);
    ("HDMI_VFRMT_4096x2160p30_256_135", dec 100); ("HDMI_VFRMT_4096x2160p50_256_135", dec 101);
    ("HDMI_VFRMT_4096x2160p60_256_135", dec 102); ("HDMI_VFRMT_3840x2160p24_64_27", dec 103);
    ("HDMI_VFRMT_3840x2160p25_64_27", dec 104); ("HDMI_VFRMT_3840x2160p30_64_27", dec 105);
    ("HDMI_VFRMT_3840x2160p50_64_27", dec 106); ("HDMI_VFRMT_3840x2160p60_64_27", dec 107);
    ("HDMI_VFRMT_END", dec 127)];
  Define_fun "EVFRMT_OFF" ["x"] (Add (Id "HDMI_VFRMT_END") (Id "x"));
  Defines [
    ("HDMI_EVFRMT_3840x2160p30_16_9", App "EVFRMT_OFF" [dec 1]);
    ("HDMI_EVFRMT_3840x2160p25_16_9", App "EVFRMT_OFF" [dec 2]);
    ("HDMI_EVFRMT_3840x2160p24_16_9", App "EVFRMT_OFF" [dec 3]);
    ("HDMI_EVFRMT_4096x2160p24_16_9", App "EVFRMT_OFF" [dec 4]);
    ("HDMI_EVFRMT_END", Id "HDMI_EVFRMT_4096x2160p24_16_9")];
  Define_fun "WQXGA_OFF" ["x"] (Add (Id "HDMI_EVFRMT_END") (Id "x"))].
Definition defs_HDMI_VFRMT_2560x1600p60_16_9 : list decl := [
  Defines [
    ("HDMI_VFRMT_2560x1600p60_16_9", App "WQXGA_OFF" [dec 1]);
    ("HDMI_WQXGAFRMT_END", Id "HDMI_VFRMT_2560x1600p60_16_9")];
  Define_fun "WXGA_OFF" ["x"] (Add (Id "HDMI_WQXGAFRMT_END") (Id "x"));
  Defines [
    ("HDMI_VFRMT_1280x800p60_16_10", App "WXGA_OFF" [dec 1]);
    ("HDMI_VFRMT_1366x768p60_16_10", App "WXGA_OFF" [dec 2]);
    ("HDMI_WXGAFRMT_END", Id "HDMI_VFRMT_1366x768p60_16_10")];
  Define_fun "ETI_OFF" ["x"] (Add (Id "HDMI_WXGAFRMT_END") (Id "x"));
  Defines [
    ("HDMI_VFRMT_800x600p60_4_3", App "ETI_OFF" [dec 1]);
    ("ETI_VFRMT_END", Id "HDMI_VFRMT_800x600p60_4_3")];
  Define_fun "ETII_OFF" ["x"] (Add (Id "ETI_VFRMT_END") (Id "x"));
  Defines [
    ("HDMI_VFRMT_1024x768p60_4_3", App "ETII_OFF" [dec 1]);
    ("HDMI_VFRMT_1280x1024p60_5_4", App "ETII_OFF" [dec 2]);
    ("ETII_VFRMT_END", Id "HDMI_VFRMT_1280x1024p60_5_4")];
  Define_fun "ETIII_OFF" ["x"] (Add (Id "ETII_VFRMT_END") (Id "x"));
  Defines [
    ("HDMI_VFRMT_848x480p60_16_9", App "ETIII_OFF" [dec 1]);
    ("HDMI_VFRMT_1280x960p60_4_3", App "ETIII_OFF" [dec 2]);
    ("HDMI_VFRMT_1360x768p60_16_9", App "ETIII_OFF" [dec 3]);
    ("HDMI_VFRMT_1440x900p60_16_10", App "ETIII_OFF" [dec 4]);
    ("HDMI_VFRMT_1400x1050p60_4_3", App "ETIII_OFF" [dec 5]);
    ("HDMI_VFRMT_1680x1050p60_16_10", App "ETIII_OFF" [dec 6]);
    ("HDMI_VFRMT_1600x1200p60_4_3", App "ETIII_OFF" [dec 7]);
    ("HDMI_VFRMT_1920x1200p60_16_10", App "ETIII_OFF" [dec 8]);
    ("ETIII_VFRMT_END", Id "HDMI_VFRMT_1920x1200p60_16_10");
    ("HDMI_VFRMT_640x480p59_4_3", App "MISC_VFRMT_OFF" [dec 1]);
    ("MISC_VFRMT_END", Id "HDMI_VFRMT_640x480p59_4_3");
    ("HDMI_VFRMT_RESERVE1", App "RESERVE_OFF" [dec 1]);
    ("HDMI_VFRMT_RESERVE2", App "RESERVE_OFF" [dec 2]);
    ("HDMI_VFRMT_RESERVE3", App "RESERVE_OFF" [dec 3]);
    ("HDMI_VFRMT_RESERVE4", App "RESERVE_OFF" [dec 4]);
    ("HDMI_VFRMT_RESERVE5", App "RESERVE_OFF" [dec 5]);
    ("HDMI_VFRMT_RESERVE6", App "RESERVE_OFF" [dec 6]);
    ("HDMI_VFRMT_RESERVE7", App "RESERVE_OFF" [dec 7]);
    ("HDMI_VFRMT_RESERVE8", App "RESERVE_OFF" [dec 8]);
    ("RESERVE_VFRMT_END", Id "HDMI_VFRMT_RESERVE8");
    ("HDMI_VFRMT_MAX", Add (Id "RESERVE_VFRMT_END") (dec 1))]].
Definition macro_MISC_VFRMT_OFF : list decl := [
  Define_fun "MISC_VFRMT_OFF" ["x"] (Add (Id "ETIII_VFRMT_END") (Id "x"))].
Definition macro_RESERVE_OFF : list decl := [
  Define_fun "RESERVE_OFF" ["x"] (Add (Id "MISC_VFRMT_END") (Id "x"))].
Definition header : header :=
  Header "video/msm_hdmi_modes.h" [] (concat [
    enum_aspect_ratio; defs_MSM_HDMI_INIT_RES_PAGE; defs_HDMI_VFRMT_2560x1600p60_16_9;
    macro_MISC_VFRMT_OFF; macro_RESERVE_OFF]).
End Video_msm_hdmi_modes.

(** ** [video/sisfb.h] *)

Module Video_sisfb.
Definition defs_CRT2_DEFAULT : list decl := [
  Defines [
    ("CRT2_DEFAULT", hex 0x00000001); ("CRT2_LCD", hex 0x00000002); ("CRT2_TV", hex 0x00000004);
    ("CRT2_VGA", hex 0x00000008); ("TV_NTSC", hex 0x00000010); ("TV_PAL", hex 0x00000020);
    ("TV_HIVISION", hex 0x00000040); ("TV_YPBPR", hex 0x00000080); ("TV_AVIDEO", hex 0x00000100);
    ("TV_SVIDEO", hex 0x00000200); ("TV_SCART", hex 0x00000400); ("TV_PALM", hex 0x00001000);
    ("TV_PALN", hex 0x00002000); ("TV_NTSCJ", hex 0x00001000); ("TV_CHSCART", hex 0x00008000);
    ("TV_CHYPBPR525I", hex 0x00010000); ("CRT1_VGA", hex 0x00000000);
    ("CRT1_LCDA", hex 0x00020000); ("VGA2_CONNECTED", hex 0x00040000);
    ("VB_DISPTYPE_CRT1", hex 0x00080000); ("VB_SINGLE_MODE", hex 0x20000000);
    ("VB_MIRROR_MODE", hex 0x40000000); ("VB_DUALVIEW_MODE", hex 0x80000000);
    ("CRT2_ENABLE", Or (Or (Id "CRT2_LCD") (Id "CRT2_TV")) (Id "CRT2_VGA"));
    ("TV_STANDARD", Or (Or (Or (Or (Id "TV_NTSC") (Id "TV_PAL")) (Id "TV_PALM")) (Id "TV_PALN")) (Id "TV_NTSCJ"));
    ("TV_INTERFACE", Or (Or (Or (Or (Or (Or (Id "TV_AVIDEO") (Id "TV_SVIDEO")) (Id "TV_SCART")) (Id "TV_HIVISION")) (Id "TV_YPBPR")) (Id "TV_CHSCART")) (Id "TV_CHYPBPR525I"));
    ("TV_YPBPR525I", Id "TV_NTSC"); ("TV_YPBPR525P", Id "TV_PAL");
    ("TV_YPBPR750P", Id "TV_PALM"); ("TV_YPBPR1080I", Id "TV_PALN");
    ("TV_YPBPRALL", Or (Or (Or (Id "TV_YPBPR525I") (Id "TV_YPBPR525P")) (Id "TV_YPBPR750P")) (Id "TV_YPBPR1080I"));
    ("VB_DISPTYPE_DISP2", Id "CRT2_ENABLE"); ("VB_DISPTYPE_CRT2", Id "CRT2_ENABLE");
    ("VB_DISPTYPE_DISP1", Id "VB_DISPTYPE_CRT1"); ("VB_DISPMODE_SINGLE", Id "VB_SINGLE_MODE");
    ("VB_DISPMODE_MIRROR", Id "VB_MIRROR_MODE"); ("VB_DISPMODE_DUAL", Id "VB_DUALVIEW_MODE")]].
Definition defs_SISFB_CMD_GETVBFLAGS : list decl := [
  Defines [
    ("SISFB_CMD_GETVBFLAGS", hex 0x55AA0001); ("SISFB_CMD_SWITCHCRT1", hex 0x55AA0010);
    ("SISFB_CMD_ERR_OK", hex 0x80000000); ("SISFB_CMD_ERR_LOCKED", hex 0x80000001);
    ("SISFB_CMD_ERR_EARLY", hex 0x80000002); ("SISFB_CMD_ERR_NOVB", hex 0x80000003);
    ("SISFB_CMD_ERR_NOCRT2", hex 0x80000004); ("SISFB_CMD_ERR_UNKNOWN", hex 0x8000ffff);
    ("SISFB_CMD_ERR_OTHER", hex 0x80010000)]].
Definition header : header :=
  Header "video/sisfb.h" [] (concat [
    defs_CRT2_DEFAULT; defs_SISFB_CMD_GETVBFLAGS]).
End Video_sisfb.

(** ** [video/uvesafb.h] *)

Module Video_uvesafb.
Definition defs_TF_VBEIB : list decl := [
  Defines [
    ("TF_VBEIB", hex 0x01); ("TF_BUF_ESDI", hex 0x02); ("TF_BUF_ESBX", hex 0x04);
    ("TF_BUF_RET", hex 0x08); ("TF_EXIT", hex 0x10)]].
Definition header : header :=
  Header "video/uvesafb.h" [] (concat [
    defs_TF_VBEIB]).
End Video_uvesafb.
