(* ===== verification/ConstSound.v ===== *)
(** * Constants of audio and codecs

    Macros and enumerations of these headers of [kernel-headers], one module per
    header: each table holds the consecutive definitions of one place. *)
From S2P Require Import Prelude.
From S2P Require Import CConst.
From S2P Require Import ConstBase.
#[local] Open Scope string_scope.

(** ** [linux/ixjuser.h] *)

Module Ixjuser.
Definition enum_f300_640 : list decl := [
  Enum [
    ("f300_640", Some (dec 4)); ("f300_500", None); ("f1100", None); ("f350", None);
    ("f400", None); ("f480", None); ("f440", None); ("f620", None); ("f20_50", None);
    ("f133_200", None); ("f300", None); ("f300_420", None); ("f330", None); ("f300_425", None);
    ("f330_440", None); ("f340", None); ("f350_400", None); ("f350_440", None);
    ("f350_450", None); ("f360", None); ("f380_420", None); ("f392", None); ("f400_425", None);
    ("f400_440", None); ("f400_450", None); ("f420", None); ("f425", None); ("f425_450", None);
    ("f425_475", None); ("f435", None); ("f440_450", None); ("f440_480", None); ("f445", None);
    ("f450", None); ("f452", None); ("f475", None); ("f480_620", None); ("f494", None);
    ("f500", None); ("f520", None); ("f523", None); ("f525", None); ("f540_660", None);
    ("f587", None); ("f590", None); ("f600", None); ("f660", None); ("f700", None);
    ("f740", None); ("f750", None); ("f750_1450", None); ("f770", None); ("f800", None);
    ("f816", None); ("f850", None); ("f857_1645", None); ("f900", None); ("f900_1300", None);
    ("f935_1215", None); ("f941_1477", None); ("f942", None); ("f950", None);
    ("f950_1400", None); ("f975", None); ("f1000", None); ("f1020", None); ("f1050", None);
    ("f1100_1750", None); ("f1140", None); ("f1200", None); ("f1209", None); ("f1330", None);
    ("f1336", None); ("lf1366", None); ("f1380", None); ("f1400", None); ("f1477", None);
    ("f1600", None); ("f1633_1638", None); ("f1800", None); ("f1860", None)]].
Definition enum_hz20 : list decl := [
  Enum [
    ("hz20", Some (hex 0x7ffa)); ("hz50", Some (hex 0x7fe5)); ("hz133", Some (hex 0x7f4c));
    ("hz200", Some (hex 0x7e6b)); ("hz261", Some (hex 0x7d50)); ("hz277", Some (hex 0x7cfa));
    ("hz293", Some (hex 0x7c9f)); ("hz300", Some (hex 0x7c75)); ("hz311", Some (hex 0x7c32));
    ("hz329", Some (hex 0x7bbf)); ("hz330", Some (hex 0x7bb8)); ("hz340", Some (hex 0x7b75));
    ("hz349", Some (hex 0x7b37)); ("hz350", Some (hex 0x7b30)); ("hz360", Some (hex 0x7ae9));
    ("hz369", Some (hex 0x7aa8)); ("hz380", Some (hex 0x7a56)); ("hz392", Some (hex 0x79fa));
    ("hz400", Some (hex 0x79bb)); ("hz415", Some (hex 0x7941)); ("hz420", Some (hex 0x7918));
    ("hz425", Some (hex 0x78ee)); ("hz435", Some (hex 0x7899)); ("hz440", Some (hex 0x786d));
    ("hz445", Some (hex 0x7842)); ("hz450", Some (hex 0x7815)); ("hz452", Some (hex 0x7803));
    ("hz466", Some (hex 0x7784)); ("hz475", Some (hex 0x7731)); ("hz480", Some (hex 0x7701));
    ("hz493", Some (hex 0x7685)); ("hz494", Some (hex 0x767b)); ("hz500", Some (hex 0x7640));
    ("hz520", Some (hex 0x7578)); ("hz523", Some (hex 0x7559)); ("hz525", Some (hex 0x7544));
    ("hz540", Some (hex 0x74a7)); ("hz554", Some (hex 0x7411)); ("hz587", Some (hex 0x72a1));
    ("hz590", Some (hex 0x727f)); ("hz600", Some (hex 0x720b)); ("hz620", Some (hex 0x711e));
    ("hz622", Some (hex 0x7106)); ("hz659", Some (hex 0x6f3b)); ("hz660", Some (hex 0x6f2e));
    ("hz698", Some (hex 0x6d3d)); ("hz700", Some (hex 0x6d22)); ("hz739", Some (hex 0x6b09));
    ("hz740", Some (hex 0x6afa)); ("hz750", Some (hex 0x6a6c)); ("hz770", Some (hex 0x694b));
    ("hz783", Some (hex 0x688b)); ("hz800", Some (hex 0x678d)); ("hz816", Some (hex 0x6698));
    ("hz830", Some (hex 0x65bf)); ("hz850", Some (hex 0x6484)); ("hz857", Some (hex 0x6414));
    ("hz880", Some (hex 0x629f)); ("hz900", Some (hex 0x6154)); ("hz932", Some (hex 0x5f35));
    ("hz935", Some (hex 0x5f01)); ("hz941", Some (hex 0x5e9a)); ("hz942", Some (hex 0x5e88));
    ("hz950", Some (hex 0x5dfd)); ("hz975", Some (hex 0x5c44)); ("hz1000", Some (hex 0x5a81));
    ("hz1020", Some (hex 0x5912)); ("hz1050", Some (hex 0x56e2)); ("hz1100", Some (hex 0x5320));
    ("hz1140", Some (hex 0x5007)); ("hz1200", Some (hex 0x4b3b)); ("hz1209", Some (hex 0x4a80));
    ("hz1215", Some (hex 0x4a02)); ("hz1250", Some (hex 0x471c)); ("hz1300", Some (hex 0x42e0));
    ("hz1330", Some (hex 0x4049)); ("hz1336", Some (hex 0x3fc4)); ("hz1366", Some (hex 0x3d22));
    ("hz1380", Some (hex 0x3be4)); ("hz1400", Some (hex 0x3a1b)); ("hz1450", Some (hex 0x3596));
    ("hz1477", Some (hex 0x331c)); ("hz1500", Some (hex 0x30fb)); ("hz1600", Some (hex 0x278d));
    ("hz1633", Some (hex 0x2462)); ("hz1638", Some (hex 0x23e7)); ("hz1645", Some (hex 0x233a));
    ("hz1750", Some (hex 0x18f8)); ("hz1800", Some (hex 0x1405)); ("hz1860", Some (hex 0xe0b));
    ("hz2100", Some (hex 0xf5f6)); ("hz2130", Some (hex 0xf2f5)); ("hz2450", Some (hex 0xd3b3));
    ("hz2750", Some (hex 0xb8e4))];
  Enum [
    ("C1", Some (Id "hz261")); ("CS1", Some (Id "hz277")); ("D1", Some (Id "hz293"));
    ("DS1", Some (Id "hz311")); ("E1", Some (Id "hz329")); ("F1", Some (Id "hz349"));
    ("FS1", Some (Id "hz369")); ("G1", Some (Id "hz392")); ("GS1", Some (Id "hz415"));
    ("A1", Some (Id "hz440")); ("AS1", Some (Id "hz466")); ("B1", Some (Id "hz493"));
    ("C2", Some (Id "hz523")); ("CS2", Some (Id "hz554")); ("D2", Some (Id "hz587"));
    ("DS2", Some (Id "hz622")); ("E2", Some (Id "hz659")); ("F2", Some (Id "hz698"));
    ("FS2", Some (Id "hz739")); ("G2", Some (Id "hz783")); ("GS2", Some (Id "hz830"));
    ("A2", Some (Id "hz880")); ("AS2", Some (Id "hz932"))]].
Definition enum_PLAY_ONCE : list decl := [
  Enum [
    ("PLAY_ONCE", None); ("REPEAT_LAST_ELEMENT", None); ("REPEAT_ALL", None)]].
Definition defs_AEC_OFF : list decl := [
  Defines [
    ("AEC_OFF", dec 0); ("AEC_LOW", dec 1); ("AEC_MED", dec 2); ("AEC_HIGH", dec 3);
    ("AEC_AUTO", dec 4); ("AEC_AGC", dec 5)]].
Definition defs_MIXER_MASTER_L : list decl := [
  Defines [
    ("MIXER_MASTER_L", hex 0x0000); ("MIXER_MASTER_R", hex 0x0100); ("ATT00DB", hex 0x00);
    ("ATT02DB", hex 0x01); ("ATT04DB", hex 0x02); ("ATT06DB", hex 0x03); ("ATT08DB", hex 0x04);
    ("ATT10DB", hex 0x05); ("ATT12DB", hex 0x06); ("ATT14DB", hex 0x07); ("ATT16DB", hex 0x08);
    ("ATT18DB", hex 0x09); ("ATT20DB", hex 0x0A); ("ATT22DB", hex 0x0B); ("ATT24DB", hex 0x0C);
    ("ATT26DB", hex 0x0D); ("ATT28DB", hex 0x0E); ("ATT30DB", hex 0x0F); ("ATT32DB", hex 0x10);
    ("ATT34DB", hex 0x11); ("ATT36DB", hex 0x12); ("ATT38DB", hex 0x13); ("ATT40DB", hex 0x14);
    ("ATT42DB", hex 0x15); ("ATT44DB", hex 0x16); ("ATT46DB", hex 0x17); ("ATT48DB", hex 0x18);
    ("ATT50DB", hex 0x19); ("ATT52DB", hex 0x1A); ("ATT54DB", hex 0x1B); ("ATT56DB", hex 0x1C);
    ("ATT58DB", hex 0x1D); ("ATT60DB", hex 0x1E); ("ATT62DB", hex 0x1F);
    ("MASTER_MUTE", hex 0x80)];
  Defines [
    ("MIXER_PORT_CD_L", hex 0x0600); ("MIXER_PORT_CD_R", hex 0x0700);
    ("MIXER_PORT_LINE_IN_L", hex 0x0800); ("MIXER_PORT_LINE_IN_R", hex 0x0900);
    ("MIXER_PORT_POTS_REC", hex 0x0C00); ("MIXER_PORT_MIC", hex 0x0E00); ("GAIN12DB", hex 0x00);
    ("GAIN10DB", hex 0x01); ("GAIN08DB", hex 0x02); ("GAIN06DB", hex 0x03);
    ("GAIN04DB", hex 0x04); ("GAIN02DB", hex 0x05); ("GAIN00DB", hex 0x06);
    ("GAIN_02DB", hex 0x07); ("GAIN_04DB", hex 0x08); ("GAIN_06DB", hex 0x09);
    ("GAIN_08DB", hex 0x0A); ("GAIN_10DB", hex 0x0B); ("GAIN_12DB", hex 0x0C);
    ("GAIN_14DB", hex 0x0D); ("GAIN_16DB", hex 0x0E); ("GAIN_18DB", hex 0x0F);
    ("GAIN_20DB", hex 0x10); ("GAIN_22DB", hex 0x11); ("GAIN_24DB", hex 0x12);
    ("GAIN_26DB", hex 0x13); ("GAIN_28DB", hex 0x14); ("GAIN_30DB", hex 0x15);
    ("GAIN_32DB", hex 0x16); ("GAIN_34DB", hex 0x17); ("GAIN_36DB", hex 0x18);
    ("GAIN_38DB", hex 0x19); ("GAIN_40DB", hex 0x1A); ("GAIN_42DB", hex 0x1B);
    ("GAIN_44DB", hex 0x1C); ("GAIN_46DB", hex 0x1D); ("GAIN_48DB", hex 0x1E);
    ("GAIN_50DB", hex 0x1F); ("INPUT_MUTE", hex 0x80)];
  Defines [
    ("MIXER_PORT_POTS_PLAY", hex 0x0F00); ("POTS_ATT_00DB", hex 0x00);
    ("POTS_ATT_04DB", hex 0x01); ("POTS_ATT_08DB", hex 0x02); ("POTS_ATT_12DB", hex 0x03);
    ("POTS_ATT_16DB", hex 0x04); ("POTS_ATT_20DB", hex 0x05); ("POTS_ATT_24DB", hex 0x06);
    ("POTS_ATT_28DB", hex 0x07); ("POTS_MUTE", hex 0x80)]].
Definition defs_DAA_US : list decl := [
  Defines [
    ("DAA_US", dec 1); ("DAA_UK", dec 2); ("DAA_FRANCE", dec 3); ("DAA_GERMANY", dec 4);
    ("DAA_AUSTRALIA", dec 5); ("DAA_JAPAN", dec 6)]].
Definition defs_PORT_QUERY : list decl := [
  Defines [
    ("PORT_QUERY", dec 0); ("PORT_POTS", dec 1); ("PORT_PSTN", dec 2); ("PORT_SPEAKER", dec 3);
    ("PORT_HANDSET", dec 4)]].
Definition defs_PSTN_ON_HOOK : list decl := [
  Defines [
    ("PSTN_ON_HOOK", dec 0); ("PSTN_RINGING", dec 1); ("PSTN_OFF_HOOK", dec 2);
    ("PSTN_PULSE_DIAL", dec 3)]].
Definition defs_AGRR00DB : list decl := [
  Defines [
    ("AGRR00DB", hex 0x00); ("AGRR3_5DB", hex 0x10); ("AGRR06DB", hex 0x30);
    ("AGX00DB", hex 0x00); ("AGX_6DB", hex 0x04); ("AGX3_5DB", hex 0x08); ("AGX_2_5B", hex 0x0C)]].
Definition enum_SIG_DTMF_READY : list decl := [
  Enum [
    ("SIG_DTMF_READY", None); ("SIG_HOOKSTATE", None); ("SIG_FLASH", None);
    ("SIG_PSTN_RING", None); ("SIG_CALLER_ID", None); ("SIG_PSTN_WINK", None); ("SIG_F0", None);
    ("SIG_F1", None); ("SIG_F2", None); ("SIG_F3", None); ("SIG_FC0", None); ("SIG_FC1", None);
    ("SIG_FC2", None); ("SIG_FC3", None); ("SIG_READ_READY", Some (dec 33));
    ("SIG_WRITE_READY", Some (dec 34))]].
Definition header : header :=
  Header "linux/ixjuser.h" [] (concat [
    enum_f300_640; enum_hz20; enum_PLAY_ONCE; defs_AEC_OFF; defs_MIXER_MASTER_L; defs_DAA_US;
    defs_PORT_QUERY; defs_PSTN_ON_HOOK; defs_AGRR00DB; enum_SIG_DTMF_READY]).
End Ixjuser.

(** ** [linux/mfd/msm-adie-codec.h] *)

Module Mfd_msm_adie_codec.
Definition defs_ADIE_CODEC_ACTION_ENTRY : list decl := [
  Defines [
    ("ADIE_CODEC_ACTION_ENTRY", hex 0x1); ("ADIE_CODEC_ACTION_DELAY_WAIT", hex 0x2);
    ("ADIE_CODEC_ACTION_STAGE_REACHED", hex 0x3); ("ADIE_CODEC_PATH_OFF", hex 0x0050)]].
Definition defs_ADIE_CODEC_DIGITAL_OFF : list decl := [
  Defines [
    ("ADIE_CODEC_DIGITAL_OFF", hex 0x0600); ("ADIE_CODEC_FLASH_IMAGE", hex 0x0001);
    ("ADIE_CODEC_RX", dec 0); ("ADIE_CODEC_TX", dec 1); ("ADIE_CODEC_LB", dec 3);
    ("ADIE_CODEC_MAX", dec 4)]].
Definition header : header :=
  Header "linux/mfd/msm-adie-codec.h" [] (concat [
    defs_ADIE_CODEC_ACTION_ENTRY; defs_ADIE_CODEC_DIGITAL_OFF]).
End Mfd_msm_adie_codec.

(** ** [linux/mfd/wcd9xxx/wcd9320_registers.h] *)

Module Mfd_wcd9xxx_wcd9320_registers.
Definition defs_TAIKO_A_CHIP_CTL : list decl := [
  Defines [
    ("TAIKO_A_CHIP_CTL", Id "WCD9XXX_A_CHIP_CTL");
    ("TAIKO_A_CHIP_CTL__POR", Id "WCD9XXX_A_CHIP_CTL__POR");
    ("TAIKO_A_CHIP_STATUS", Id "WCD9XXX_A_CHIP_STATUS");
    ("TAIKO_A_CHIP_STATUS__POR", Id "WCD9XXX_A_CHIP_STATUS__POR");
    ("TAIKO_A_CHIP_ID_BYTE_0", Id "WCD9XXX_A_CHIP_ID_BYTE_0");
    ("TAIKO_A_CHIP_ID_BYTE_0__POR", Id "WCD9XXX_A_CHIP_ID_BYTE_0__POR");
    ("TAIKO_A_CHIP_ID_BYTE_1", Id "WCD9XXX_A_CHIP_ID_BYTE_1");
    ("TAIKO_A_CHIP_ID_BYTE_1__POR", Id "WCD9XXX_A_CHIP_ID_BYTE_1__POR");
    ("TAIKO_A_CHIP_ID_BYTE_2", Id "WCD9XXX_A_CHIP_ID_BYTE_2");
    ("TAIKO_A_CHIP_ID_BYTE_2__POR", Id "WCD9XXX_A_CHIP_ID_BYTE_2__POR");
    ("TAIKO_A_CHIP_ID_BYTE_3", Id "WCD9XXX_A_CHIP_ID_BYTE_3");
    ("TAIKO_A_CHIP_ID_BYTE_3__POR", Id "WCD9XXX_A_CHIP_ID_BYTE_3__POR");
    ("TAIKO_A_CHIP_VERSION", Id "WCD9XXX_A_CHIP_VERSION");
    ("TAIKO_A_CHIP_VERSION__POR", Id "WCD9XXX_A_CHIP_VERSION__POR");
    ("TAIKO_A_SB_VERSION", Id "WCD9XXX_A_SB_VERSION");
    ("TAIKO_A_SB_VERSION__POR", Id "WCD9XXX_A_SB_VERSION__POR");
    ("TAIKO_A_SLAVE_ID_1", Id "WCD9XXX_A_SLAVE_ID_1");
    ("TAIKO_A_SLAVE_ID_1__POR", Id "WCD9XXX_A_SLAVE_ID_1__POR");
    ("TAIKO_A_SLAVE_ID_2", Id "WCD9XXX_A_SLAVE_ID_2");
    ("TAIKO_A_SLAVE_ID_2__POR", Id "WCD9XXX_A_SLAVE_ID_2__POR");
    ("TAIKO_A_SLAVE_ID_3", Id "WCD9XXX_A_SLAVE_ID_3");
    ("TAIKO_A_SLAVE_ID_3__POR", Id "WCD9XXX_A_SLAVE_ID_3__POR");
    ("TAIKO_A_PIN_CTL_OE0", hex 0x010); ("TAIKO_A_PIN_CTL_OE0__POR", hex 0x00);
    ("TAIKO_A_PIN_CTL_OE1", hex 0x011); ("TAIKO_A_PIN_CTL_OE1__POR", hex 0x00);
    ("TAIKO_A_PIN_CTL_DATA0", hex 0x012); ("TAIKO_A_PIN_CTL_DATA0__POR", hex 0x00);
    ("TAIKO_A_PIN_CTL_DATA1", hex 0x013); ("TAIKO_A_PIN_CTL_DATA1__POR", hex 0x00);
    ("TAIKO_A_HDRIVE_GENERIC", hex 0x018); ("TAIKO_A_HDRIVE_GENERIC__POR", hex 0x00);
    ("TAIKO_A_HDRIVE_OVERRIDE", hex 0x019); ("TAIKO_A_HDRIVE_OVERRIDE__POR", hex 0x08);
    ("TAIKO_A_ANA_CSR_WAIT_STATE", hex 0x020); ("TAIKO_A_ANA_CSR_WAIT_STATE__POR", hex 0x44);
    ("TAIKO_A_PROCESS_MONITOR_CTL0", hex 0x040); ("TAIKO_A_PROCESS_MONITOR_CTL0__POR", hex 0x80);
    ("TAIKO_A_PROCESS_MONITOR_CTL1", hex 0x041); ("TAIKO_A_PROCESS_MONITOR_CTL1__POR", hex 0x00);
    ("TAIKO_A_PROCESS_MONITOR_CTL2", hex 0x042); ("TAIKO_A_PROCESS_MONITOR_CTL2__POR", hex 0x00);
    ("TAIKO_A_PROCESS_MONITOR_CTL3", hex 0x043); ("TAIKO_A_PROCESS_MONITOR_CTL3__POR", hex 0x01);
    ("TAIKO_A_QFUSE_CTL", hex 0x048); ("TAIKO_A_QFUSE_CTL__POR", hex 0x00);
    ("TAIKO_A_QFUSE_STATUS", hex 0x049); ("TAIKO_A_QFUSE_STATUS__POR", hex 0x00);
    ("TAIKO_A_QFUSE_DATA_OUT0", hex 0x04A); ("TAIKO_A_QFUSE_DATA_OUT0__POR", hex 0x00);
    ("TAIKO_A_QFUSE_DATA_OUT1", hex 0x04B); ("TAIKO_A_QFUSE_DATA_OUT1__POR", hex 0x00);
    ("TAIKO_A_QFUSE_DATA_OUT2", hex 0x04C); ("TAIKO_A_QFUSE_DATA_OUT2__POR", hex 0x00);
    ("TAIKO_A_QFUSE_DATA_OUT3", hex 0x04D); ("TAIKO_A_QFUSE_DATA_OUT3__POR", hex 0x00);
    ("TAIKO_A_QFUSE_DATA_OUT4", hex 0x04E); ("TAIKO_A_QFUSE_DATA_OUT4__POR", hex 0x00);
    ("TAIKO_A_QFUSE_DATA_OUT5", hex 0x04F); ("TAIKO_A_QFUSE_DATA_OUT5__POR", hex 0x00);
    ("TAIKO_A_QFUSE_DATA_OUT6", hex 0x050); ("TAIKO_A_QFUSE_DATA_OUT6__POR", hex 0x00);
    ("TAIKO_A_QFUSE_DATA_OUT7", hex 0x051); ("TAIKO_A_QFUSE_DATA_OUT7__POR", hex 0x00);
    ("TAIKO_A_CDC_CTL", Id "WCD9XXX_A_CDC_CTL");
    ("TAIKO_A_CDC_CTL__POR", Id "WCD9XXX_A_CDC_CTL__POR");
    ("TAIKO_A_LEAKAGE_CTL", Id "WCD9XXX_A_LEAKAGE_CTL");
    ("TAIKO_A_LEAKAGE_CTL__POR", Id "WCD9XXX_A_LEAKAGE_CTL__POR");
    ("TAIKO_A_INTR_MODE", hex 0x090); ("TAIKO_A_INTR_MODE__POR", hex 0x00);
    ("TAIKO_A_INTR_MASK0", hex 0x094); ("TAIKO_A_INTR_MASK0__POR", hex 0xFF);
    ("TAIKO_A_INTR_MASK1", hex 0x095); ("TAIKO_A_INTR_MASK1__POR", hex 0xFF);
    ("TAIKO_A_INTR_MASK2", hex 0x096); ("TAIKO_A_INTR_MASK2__POR", hex 0x3F);
    ("TAIKO_A_INTR_MASK3", hex 0x097); ("TAIKO_A_INTR_MASK3__POR", hex 0x3F);
    ("TAIKO_A_INTR_STATUS0", hex 0x098); ("TAIKO_A_INTR_STATUS0__POR", hex 0x00);
    ("TAIKO_A_INTR_STATUS1", hex 0x099); ("TAIKO_A_INTR_STATUS1__POR", hex 0x00);
    ("TAIKO_A_INTR_STATUS2", hex 0x09A); ("TAIKO_A_INTR_STATUS2__POR", hex 0x00);
    ("TAIKO_A_INTR_STATUS3", hex 0x09B); ("TAIKO_A_INTR_STATUS3__POR", hex 0x00);
    ("TAIKO_A_INTR_CLEAR0", hex 0x09C); ("TAIKO_A_INTR_CLEAR0__POR", hex 0x00);
    ("TAIKO_A_INTR_CLEAR1", hex 0x09D); ("TAIKO_A_INTR_CLEAR1__POR", hex 0x00);
    ("TAIKO_A_INTR_CLEAR2", hex 0x09E); ("TAIKO_A_INTR_CLEAR2__POR", hex 0x00);
    ("TAIKO_A_INTR_CLEAR3", hex 0x09F); ("TAIKO_A_INTR_CLEAR3__POR", hex 0x00);
    ("TAIKO_A_INTR_LEVEL0", hex 0x0A0); ("TAIKO_A_INTR_LEVEL0__POR", hex 0x01);
    ("TAIKO_A_INTR_LEVEL1", hex 0x0A1); ("TAIKO_A_INTR_LEVEL1__POR", hex 0x00);
    ("TAIKO_A_INTR_LEVEL2", hex 0x0A2); ("TAIKO_A_INTR_LEVEL2__POR", hex 0x00);
    ("TAIKO_A_INTR_LEVEL3", hex 0x0A3); ("TAIKO_A_INTR_LEVEL3__POR", hex 0x00);
    ("TAIKO_A_INTR_TEST0", hex 0x0A4); ("TAIKO_A_INTR_TEST0__POR", hex 0x00);
    ("TAIKO_A_INTR_TEST1", hex 0x0A5); ("TAIKO_A_INTR_TEST1__POR", hex 0x00);
    ("TAIKO_A_INTR_TEST2", hex 0x0A6); ("TAIKO_A_INTR_TEST2__POR", hex 0x00);
    ("TAIKO_A_INTR_TEST3", hex 0x0A7); ("TAIKO_A_INTR_TEST3__POR", hex 0x00);
    ("TAIKO_A_INTR_SET0", hex 0x0A8); ("TAIKO_A_INTR_SET0__POR", hex 0x00);
    ("TAIKO_A_INTR_SET1", hex 0x0A9); ("TAIKO_A_INTR_SET1__POR", hex 0x00);
    ("TAIKO_A_INTR_SET2", hex 0x0AA); ("TAIKO_A_INTR_SET2__POR", hex 0x00);
    ("TAIKO_A_INTR_SET3", hex 0x0AB); ("TAIKO_A_INTR_SET3__POR", hex 0x00);
    ("TAIKO_A_INTR_DESTN0", hex 0x0AC); ("TAIKO_A_INTR_DESTN0__POR", hex 0x00);
    ("TAIKO_A_INTR_DESTN1", hex 0x0AD); ("TAIKO_A_INTR_DESTN1__POR", hex 0x00);
    ("TAIKO_A_INTR_DESTN2", hex 0x0AE); ("TAIKO_A_INTR_DESTN2__POR", hex 0x00);
    ("TAIKO_A_INTR_DESTN3", hex 0x0AF); ("TAIKO_A_INTR_DESTN3__POR", hex 0x00);
    ("TAIKO_A_CDC_TX_I2S_SCK_MODE", hex 0x0C0); ("TAIKO_A_CDC_TX_I2S_SCK_MODE__POR", hex 0x00);
    ("TAIKO_A_CDC_TX_I2S_WS_MODE", hex 0x0C1); ("TAIKO_A_CDC_TX_I2S_WS_MODE__POR", hex 0x00);
    ("TAIKO_A_CDC_DMIC_DATA0_MODE", hex 0x0C4); ("TAIKO_A_CDC_DMIC_DATA0_MODE__POR", hex 0x00);
    ("TAIKO_A_CDC_DMIC_CLK0_MODE", hex 0x0C5); ("TAIKO_A_CDC_DMIC_CLK0_MODE__POR", hex 0x00);
    ("TAIKO_A_CDC_DMIC_DATA1_MODE", hex 0x0C6); ("TAIKO_A_CDC_DMIC_DATA1_MODE__POR", hex 0x00);
    ("TAIKO_A_CDC_DMIC_CLK1_MODE", hex 0x0C7); ("TAIKO_A_CDC_DMIC_CLK1_MODE__POR", hex 0x00);
    ("TAIKO_A_CDC_RX_I2S_SCK_MODE", hex 0x0C8); ("TAIKO_A_CDC_RX_I2S_SCK_MODE__POR", hex 0x00);
    ("TAIKO_A_CDC_RX_I2S_WS_MODE", hex 0x0C9); ("TAIKO_A_CDC_RX_I2S_WS_MODE__POR", hex 0x00);
    ("TAIKO_A_CDC_DMIC_DATA2_MODE", hex 0x0CA); ("TAIKO_A_CDC_DMIC_DATA2_MODE__POR", hex 0x00);
    ("TAIKO_A_CDC_DMIC_CLK2_MODE", hex 0x0CB); ("TAIKO_A_CDC_DMIC_CLK2_MODE__POR", hex 0x00);
    ("TAIKO_A_CDC_INTR1_MODE", hex 0x0CC); ("TAIKO_A_CDC_INTR1_MODE__POR", hex 0x00);
    ("TAIKO_A_CDC_SB_NRZ_SEL_MODE", hex 0x0CD); ("TAIKO_A_CDC_SB_NRZ_SEL_MODE__POR", hex 0x00)]].
Definition defs_TAIKO_A_CDC_INTR2_MODE : list decl := [
  Defines [
    ("TAIKO_A_CDC_INTR2_MODE", hex 0x0CE); ("TAIKO_A_CDC_INTR2_MODE__POR", hex 0x00);
    ("TAIKO_A_CDC_RF_PA_ON_MODE", hex 0x0CF); ("TAIKO_A_CDC_RF_PA_ON_MODE__POR", hex 0x00);
    ("TAIKO_A_BIAS_REF_CTL", hex 0x100); ("TAIKO_A_BIAS_REF_CTL__POR", hex 0x1C);
    ("TAIKO_A_BIAS_CENTRAL_BG_CTL", hex 0x101); ("TAIKO_A_BIAS_CENTRAL_BG_CTL__POR", hex 0x50);
    ("TAIKO_A_BIAS_PRECHRG_CTL", hex 0x102); ("TAIKO_A_BIAS_PRECHRG_CTL__POR", hex 0x07);
    ("TAIKO_A_BIAS_CURR_CTL_1", hex 0x103); ("TAIKO_A_BIAS_CURR_CTL_1__POR", hex 0x52);
    ("TAIKO_A_BIAS_CURR_CTL_2", hex 0x104); ("TAIKO_A_BIAS_CURR_CTL_2__POR", hex 0x00);
    ("TAIKO_A_BIAS_OSC_BG_CTL", hex 0x105); ("TAIKO_A_BIAS_OSC_BG_CTL__POR", hex 0x16);
    ("TAIKO_A_CLK_BUFF_EN1", hex 0x108); ("TAIKO_A_CLK_BUFF_EN1__POR", hex 0x04);
    ("TAIKO_A_CLK_BUFF_EN2", hex 0x109); ("TAIKO_A_CLK_BUFF_EN2__POR", hex 0x02);
    ("TAIKO_A_LDO_H_MODE_1", hex 0x110); ("TAIKO_A_LDO_H_MODE_1__POR", hex 0x65);
    ("TAIKO_A_LDO_H_MODE_2", hex 0x111); ("TAIKO_A_LDO_H_MODE_2__POR", hex 0xA8);
    ("TAIKO_A_LDO_H_LOOP_CTL", hex 0x112); ("TAIKO_A_LDO_H_LOOP_CTL__POR", hex 0x6B);
    ("TAIKO_A_LDO_H_COMP_1", hex 0x113); ("TAIKO_A_LDO_H_COMP_1__POR", hex 0x84);
    ("TAIKO_A_LDO_H_COMP_2", hex 0x114); ("TAIKO_A_LDO_H_COMP_2__POR", hex 0xE0);
    ("TAIKO_A_LDO_H_BIAS_1", hex 0x115); ("TAIKO_A_LDO_H_BIAS_1__POR", hex 0x6D);
    ("TAIKO_A_LDO_H_BIAS_2", hex 0x116); ("TAIKO_A_LDO_H_BIAS_2__POR", hex 0xA5);
    ("TAIKO_A_LDO_H_BIAS_3", hex 0x117); ("TAIKO_A_LDO_H_BIAS_3__POR", hex 0x60);
    ("TAIKO_A_VBAT_CLK", hex 0x118); ("TAIKO_A_VBAT_CLK__POR", hex 0x03);
    ("TAIKO_A_VBAT_LOOP", hex 0x119); ("TAIKO_A_VBAT_LOOP__POR", hex 0x02);
    ("TAIKO_A_VBAT_REF", hex 0x11A); ("TAIKO_A_VBAT_REF__POR", hex 0x20);
    ("TAIKO_A_VBAT_ADC_TEST", hex 0x11B); ("TAIKO_A_VBAT_ADC_TEST__POR", hex 0x00);
    ("TAIKO_A_VBAT_FE", hex 0x11C); ("TAIKO_A_VBAT_FE__POR", hex 0x48);
    ("TAIKO_A_VBAT_BIAS_1", hex 0x11D); ("TAIKO_A_VBAT_BIAS_1__POR", hex 0x03);
    ("TAIKO_A_VBAT_BIAS_2", hex 0x11E); ("TAIKO_A_VBAT_BIAS_2__POR", hex 0x00);
    ("TAIKO_A_VBAT_ADC_DATA_MSB", hex 0x11F); ("TAIKO_A_VBAT_ADC_DATA_MSB__POR", hex 0x00);
    ("TAIKO_A_VBAT_ADC_DATA_LSB", hex 0x120); ("TAIKO_A_VBAT_ADC_DATA_LSB__POR", hex 0x00);
    ("TAIKO_A_MICB_CFILT_1_CTL", hex 0x128); ("TAIKO_A_MICB_CFILT_1_CTL__POR", hex 0x40);
    ("TAIKO_A_MICB_CFILT_1_VAL", hex 0x129); ("TAIKO_A_MICB_CFILT_1_VAL__POR", hex 0x80);
    ("TAIKO_A_MICB_CFILT_1_PRECHRG", hex 0x12A); ("TAIKO_A_MICB_CFILT_1_PRECHRG__POR", hex 0x38);
    ("TAIKO_A_MICB_1_CTL", hex 0x12B); ("TAIKO_A_MICB_1_CTL__POR", hex 0x16);
    ("TAIKO_A_MICB_1_INT_RBIAS", hex 0x12C); ("TAIKO_A_MICB_1_INT_RBIAS__POR", hex 0x24);
    ("TAIKO_A_MICB_1_MBHC", hex 0x12D); ("TAIKO_A_MICB_1_MBHC__POR", hex 0x01);
    ("TAIKO_A_MICB_CFILT_2_CTL", hex 0x12E); ("TAIKO_A_MICB_CFILT_2_CTL__POR", hex 0x40);
    ("TAIKO_A_MICB_CFILT_2_VAL", hex 0x12F); ("TAIKO_A_MICB_CFILT_2_VAL__POR", hex 0x80);
    ("TAIKO_A_MICB_CFILT_2_PRECHRG", hex 0x130); ("TAIKO_A_MICB_CFILT_2_PRECHRG__POR", hex 0x38);
    ("TAIKO_A_MICB_2_CTL", hex 0x131); ("TAIKO_A_MICB_2_CTL__POR", hex 0x16);
    ("TAIKO_A_MICB_2_INT_RBIAS", hex 0x132); ("TAIKO_A_MICB_2_INT_RBIAS__POR", hex 0x24);
    ("TAIKO_A_MICB_2_MBHC", hex 0x133); ("TAIKO_A_MICB_2_MBHC__POR", hex 0x02);
    ("TAIKO_A_MICB_CFILT_3_CTL", hex 0x134); ("TAIKO_A_MICB_CFILT_3_CTL__POR", hex 0x40);
    ("TAIKO_A_MICB_CFILT_3_VAL", hex 0x135); ("TAIKO_A_MICB_CFILT_3_VAL__POR", hex 0x80);
    ("TAIKO_A_MICB_CFILT_3_PRECHRG", hex 0x136); ("TAIKO_A_MICB_CFILT_3_PRECHRG__POR", hex 0x38);
    ("TAIKO_A_MICB_3_CTL", hex 0x137); ("TAIKO_A_MICB_3_CTL__POR", hex 0x16);
    ("TAIKO_A_MICB_3_INT_RBIAS", hex 0x138); ("TAIKO_A_MICB_3_INT_RBIAS__POR", hex 0x24);
    ("TAIKO_A_MICB_3_MBHC", hex 0x139); ("TAIKO_A_MICB_3_MBHC__POR", hex 0x00);
    ("TAIKO_A_MICB_4_CTL", hex 0x13D); ("TAIKO_A_MICB_4_CTL__POR", hex 0x16);
    ("TAIKO_A_MICB_4_INT_RBIAS", hex 0x13E); ("TAIKO_A_MICB_4_INT_RBIAS__POR", hex 0x24);
    ("TAIKO_A_MICB_4_MBHC", hex 0x13F); ("TAIKO_A_MICB_4_MBHC__POR", hex 0x01);
    ("TAIKO_A_MBHC_INSERT_DETECT", hex 0x14A); ("TAIKO_A_MBHC_INSERT_DETECT__POR", hex 0x00);
    ("TAIKO_A_MBHC_INSERT_DET_STATUS", hex 0x14B);
    ("TAIKO_A_MBHC_INSERT_DET_STATUS__POR", hex 0x00); ("TAIKO_A_TX_COM_BIAS", hex 0x14C);
    ("TAIKO_A_TX_COM_BIAS__POR", hex 0xF0); ("TAIKO_A_MBHC_SCALING_MUX_1", hex 0x14E);
    ("TAIKO_A_MBHC_SCALING_MUX_1__POR", hex 0x00); ("TAIKO_A_MBHC_SCALING_MUX_2", hex 0x14F);
    ("TAIKO_A_MBHC_SCALING_MUX_2__POR", hex 0x80); ("TAIKO_A_MAD_ANA_CTRL", hex 0x150);
    ("TAIKO_A_MAD_ANA_CTRL__POR", hex 0xF1); ("TAIKO_A_TX_SUP_SWITCH_CTRL_1", hex 0x151);
    ("TAIKO_A_TX_SUP_SWITCH_CTRL_1__POR", hex 0x00); ("TAIKO_A_TX_SUP_SWITCH_CTRL_2", hex 0x152);
    ("TAIKO_A_TX_SUP_SWITCH_CTRL_2__POR", hex 0x80); ("TAIKO_A_TX_1_2_EN", hex 0x153);
    ("TAIKO_A_TX_1_2_EN__POR", hex 0x00); ("TAIKO_A_TX_1_2_TEST_EN", hex 0x154);
    ("TAIKO_A_TX_1_2_TEST_EN__POR", hex 0xCC); ("TAIKO_A_TX_1_2_ADC_CH1", hex 0x155);
    ("TAIKO_A_TX_1_2_ADC_CH1__POR", hex 0x44); ("TAIKO_A_TX_1_2_ADC_CH2", hex 0x156);
    ("TAIKO_A_TX_1_2_ADC_CH2__POR", hex 0x44); ("TAIKO_A_TX_1_2_ATEST_REFCTRL", hex 0x157);
    ("TAIKO_A_TX_1_2_ATEST_REFCTRL__POR", hex 0x00); ("TAIKO_A_TX_1_2_TEST_CTL", hex 0x158);
    ("TAIKO_A_TX_1_2_TEST_CTL__POR", hex 0x38); ("TAIKO_A_TX_1_2_TEST_BLOCK_EN", hex 0x159);
    ("TAIKO_A_TX_1_2_TEST_BLOCK_EN__POR", hex 0xFC); ("TAIKO_A_TX_1_2_TXFE_CLKDIV", hex 0x15A);
    ("TAIKO_A_TX_1_2_TXFE_CLKDIV__POR", hex 0x55); ("TAIKO_A_TX_1_2_SAR_ERR_CH1", hex 0x15B);
    ("TAIKO_A_TX_1_2_SAR_ERR_CH1__POR", hex 0x00); ("TAIKO_A_TX_1_2_SAR_ERR_CH2", hex 0x15C);
    ("TAIKO_A_TX_1_2_SAR_ERR_CH2__POR", hex 0x00); ("TAIKO_A_TX_3_4_EN", hex 0x15D);
    ("TAIKO_A_TX_3_4_EN__POR", hex 0x00); ("TAIKO_A_TX_3_4_TEST_EN", hex 0x15E);
    ("TAIKO_A_TX_3_4_TEST_EN__POR", hex 0xCC); ("TAIKO_A_TX_3_4_ADC_CH3", hex 0x15F);
    ("TAIKO_A_TX_3_4_ADC_CH3__POR", hex 0x44); ("TAIKO_A_TX_3_4_ADC_CH4", hex 0x160);
    ("TAIKO_A_TX_3_4_ADC_CH4__POR", hex 0x44); ("TAIKO_A_TX_3_4_ATEST_REFCTRL", hex 0x161);
    ("TAIKO_A_TX_3_4_ATEST_REFCTRL__POR", hex 0x00); ("TAIKO_A_TX_3_4_TEST_CTL", hex 0x162);
    ("TAIKO_A_TX_3_4_TEST_CTL__POR", hex 0x38); ("TAIKO_A_TX_3_4_TEST_BLOCK_EN", hex 0x163);
    ("TAIKO_A_TX_3_4_TEST_BLOCK_EN__POR", hex 0xFC); ("TAIKO_A_TX_3_4_TXFE_CKDIV", hex 0x164);
    ("TAIKO_A_TX_3_4_TXFE_CKDIV__POR", hex 0x55); ("TAIKO_A_TX_3_4_SAR_ERR_CH3", hex 0x165);
    ("TAIKO_A_TX_3_4_SAR_ERR_CH3__POR", hex 0x00)]].
Definition defs_TAIKO_A_TX_3_4_SAR_ERR_CH4 : list decl := [
  Defines [
    ("TAIKO_A_TX_3_4_SAR_ERR_CH4", hex 0x166); ("TAIKO_A_TX_3_4_SAR_ERR_CH4__POR", hex 0x00);
    ("TAIKO_A_TX_5_6_EN", hex 0x167); ("TAIKO_A_TX_5_6_EN__POR", hex 0x11);
    ("TAIKO_A_TX_5_6_TEST_EN", hex 0x168); ("TAIKO_A_TX_5_6_TEST_EN__POR", hex 0xCC);
    ("TAIKO_A_TX_5_6_ADC_CH5", hex 0x169); ("TAIKO_A_TX_5_6_ADC_CH5__POR", hex 0x44);
    ("TAIKO_A_TX_5_6_ADC_CH6", hex 0x16A); ("TAIKO_A_TX_5_6_ADC_CH6__POR", hex 0x44);
    ("TAIKO_A_TX_5_6_ATEST_REFCTRL", hex 0x16B); ("TAIKO_A_TX_5_6_ATEST_REFCTRL__POR", hex 0x00);
    ("TAIKO_A_TX_5_6_TEST_CTL", hex 0x16C); ("TAIKO_A_TX_5_6_TEST_CTL__POR", hex 0x38);
    ("TAIKO_A_TX_5_6_TEST_BLOCK_EN", hex 0x16D); ("TAIKO_A_TX_5_6_TEST_BLOCK_EN__POR", hex 0xFC);
    ("TAIKO_A_TX_5_6_TXFE_CKDIV", hex 0x16E); ("TAIKO_A_TX_5_6_TXFE_CKDIV__POR", hex 0x55);
    ("TAIKO_A_TX_5_6_SAR_ERR_CH5", hex 0x16F); ("TAIKO_A_TX_5_6_SAR_ERR_CH5__POR", hex 0x00);
    ("TAIKO_A_TX_5_6_SAR_ERR_CH6", hex 0x170); ("TAIKO_A_TX_5_6_SAR_ERR_CH6__POR", hex 0x00);
    ("TAIKO_A_TX_7_MBHC_EN", hex 0x171); ("TAIKO_A_TX_7_MBHC_EN__POR", hex 0x0C);
    ("TAIKO_A_TX_7_MBHC_ATEST_REFCTRL", hex 0x172);
    ("TAIKO_A_TX_7_MBHC_ATEST_REFCTRL__POR", hex 0x00); ("TAIKO_A_TX_7_MBHC_ADC", hex 0x173);
    ("TAIKO_A_TX_7_MBHC_ADC__POR", hex 0x44); ("TAIKO_A_TX_7_MBHC_TEST_CTL", hex 0x174);
    ("TAIKO_A_TX_7_MBHC_TEST_CTL__POR", hex 0x38); ("TAIKO_A_TX_7_MBHC_SAR_ERR", hex 0x175);
    ("TAIKO_A_TX_7_MBHC_SAR_ERR__POR", hex 0x00); ("TAIKO_A_TX_7_TXFE_CLKDIV", hex 0x176);
    ("TAIKO_A_TX_7_TXFE_CLKDIV__POR", hex 0x0B); ("TAIKO_A_BUCK_MODE_1", hex 0x181);
    ("TAIKO_A_BUCK_MODE_1__POR", hex 0x21); ("TAIKO_A_BUCK_MODE_2", hex 0x182);
    ("TAIKO_A_BUCK_MODE_2__POR", hex 0xFF); ("TAIKO_A_BUCK_MODE_3", hex 0x183);
    ("TAIKO_A_BUCK_MODE_3__POR", hex 0xCC); ("TAIKO_A_BUCK_MODE_4", hex 0x184);
    ("TAIKO_A_BUCK_MODE_4__POR", hex 0x3A); ("TAIKO_A_BUCK_MODE_5", hex 0x185);
    ("TAIKO_A_BUCK_MODE_5__POR", hex 0x00); ("TAIKO_A_BUCK_CTRL_VCL_1", hex 0x186);
    ("TAIKO_A_BUCK_CTRL_VCL_1__POR", hex 0x48); ("TAIKO_A_BUCK_CTRL_VCL_2", hex 0x187);
    ("TAIKO_A_BUCK_CTRL_VCL_2__POR", hex 0xA3); ("TAIKO_A_BUCK_CTRL_VCL_3", hex 0x188);
    ("TAIKO_A_BUCK_CTRL_VCL_3__POR", hex 0x82); ("TAIKO_A_BUCK_CTRL_CCL_1", hex 0x189);
    ("TAIKO_A_BUCK_CTRL_CCL_1__POR", hex 0xAB); ("TAIKO_A_BUCK_CTRL_CCL_2", hex 0x18A);
    ("TAIKO_A_BUCK_CTRL_CCL_2__POR", hex 0xDC); ("TAIKO_A_BUCK_CTRL_CCL_3", hex 0x18B);
    ("TAIKO_A_BUCK_CTRL_CCL_3__POR", hex 0x6A); ("TAIKO_A_BUCK_CTRL_CCL_4", hex 0x18C);
    ("TAIKO_A_BUCK_CTRL_CCL_4__POR", hex 0x58); ("TAIKO_A_BUCK_CTRL_PWM_DRVR_1", hex 0x18D);
    ("TAIKO_A_BUCK_CTRL_PWM_DRVR_1__POR", hex 0x50); ("TAIKO_A_BUCK_CTRL_PWM_DRVR_2", hex 0x18E);
    ("TAIKO_A_BUCK_CTRL_PWM_DRVR_2__POR", hex 0x64); ("TAIKO_A_BUCK_CTRL_PWM_DRVR_3", hex 0x18F);
    ("TAIKO_A_BUCK_CTRL_PWM_DRVR_3__POR", hex 0x77); ("TAIKO_A_BUCK_TMUX_A_D", hex 0x190);
    ("TAIKO_A_BUCK_TMUX_A_D__POR", hex 0x00); ("TAIKO_A_NCP_BUCKREF", hex 0x191);
    ("TAIKO_A_NCP_BUCKREF__POR", hex 0x00); ("TAIKO_A_NCP_EN", hex 0x192);
    ("TAIKO_A_NCP_EN__POR", hex 0xFE); ("TAIKO_A_NCP_CLK", hex 0x193);
    ("TAIKO_A_NCP_CLK__POR", hex 0x94); ("TAIKO_A_NCP_STATIC", hex 0x194);
    ("TAIKO_A_NCP_STATIC__POR", hex 0x28); ("TAIKO_A_NCP_VTH_LOW", hex 0x195);
    ("TAIKO_A_NCP_VTH_LOW__POR", hex 0x88); ("TAIKO_A_NCP_VTH_HIGH", hex 0x196);
    ("TAIKO_A_NCP_VTH_HIGH__POR", hex 0xA0); ("TAIKO_A_NCP_ATEST", hex 0x197);
    ("TAIKO_A_NCP_ATEST__POR", hex 0x00); ("TAIKO_A_NCP_DTEST", hex 0x198);
    ("TAIKO_A_NCP_DTEST__POR", hex 0x00); ("TAIKO_A_NCP_DLY1", hex 0x199);
    ("TAIKO_A_NCP_DLY1__POR", hex 0x06); ("TAIKO_A_NCP_DLY2", hex 0x19A);
    ("TAIKO_A_NCP_DLY2__POR", hex 0x06); ("TAIKO_A_RX_AUX_SW_CTL", hex 0x19B);
    ("TAIKO_A_RX_AUX_SW_CTL__POR", hex 0x00); ("TAIKO_A_RX_PA_AUX_IN_CONN", hex 0x19C);
    ("TAIKO_A_RX_PA_AUX_IN_CONN__POR", hex 0x00); ("TAIKO_A_RX_COM_TIMER_DIV", hex 0x19E);
    ("TAIKO_A_RX_COM_TIMER_DIV__POR", hex 0xE8); ("TAIKO_A_RX_COM_OCP_CTL", hex 0x19F);
    ("TAIKO_A_RX_COM_OCP_CTL__POR", hex 0x1F); ("TAIKO_A_RX_COM_OCP_COUNT", hex 0x1A0);
    ("TAIKO_A_RX_COM_OCP_COUNT__POR", hex 0x77); ("TAIKO_A_RX_COM_DAC_CTL", hex 0x1A1);
    ("TAIKO_A_RX_COM_DAC_CTL__POR", hex 0x00); ("TAIKO_A_RX_COM_BIAS", hex 0x1A2);
    ("TAIKO_A_RX_COM_BIAS__POR", hex 0x00); ("TAIKO_A_RX_HPH_AUTO_CHOP", hex 0x1A4);
    ("TAIKO_A_RX_HPH_AUTO_CHOP__POR", hex 0x38); ("TAIKO_A_RX_HPH_CHOP_CTL", hex 0x1A5);
    ("TAIKO_A_RX_HPH_CHOP_CTL__POR", hex 0xB4); ("TAIKO_A_RX_HPH_BIAS_PA", hex 0x1A6);
    ("TAIKO_A_RX_HPH_BIAS_PA__POR", hex 0xAA); ("TAIKO_A_RX_HPH_BIAS_LDO", hex 0x1A7);
    ("TAIKO_A_RX_HPH_BIAS_LDO__POR", hex 0x87); ("TAIKO_A_RX_HPH_BIAS_CNP", hex 0x1A8);
    ("TAIKO_A_RX_HPH_BIAS_CNP__POR", hex 0x8A); ("TAIKO_A_RX_HPH_BIAS_WG_OCP", hex 0x1A9);
    ("TAIKO_A_RX_HPH_BIAS_WG_OCP__POR", hex 0x2A); ("TAIKO_A_RX_HPH_OCP_CTL", hex 0x1AA);
    ("TAIKO_A_RX_HPH_OCP_CTL__POR", hex 0x68); ("TAIKO_A_RX_HPH_CNP_EN", hex 0x1AB);
    ("TAIKO_A_RX_HPH_CNP_EN__POR", hex 0x80); ("TAIKO_A_RX_HPH_CNP_WG_CTL", hex 0x1AC);
    ("TAIKO_A_RX_HPH_CNP_WG_CTL__POR", hex 0xDE); ("TAIKO_A_RX_HPH_CNP_WG_TIME", hex 0x1AD);
    ("TAIKO_A_RX_HPH_CNP_WG_TIME__POR", hex 0x2A); ("TAIKO_A_RX_HPH_L_GAIN", hex 0x1AE);
    ("TAIKO_A_RX_HPH_L_GAIN__POR", hex 0x00); ("TAIKO_A_RX_HPH_L_TEST", hex 0x1AF);
    ("TAIKO_A_RX_HPH_L_TEST__POR", hex 0x00); ("TAIKO_A_RX_HPH_L_PA_CTL", hex 0x1B0);
    ("TAIKO_A_RX_HPH_L_PA_CTL__POR", hex 0x40); ("TAIKO_A_RX_HPH_L_DAC_CTL", hex 0x1B1);
    ("TAIKO_A_RX_HPH_L_DAC_CTL__POR", hex 0x00); ("TAIKO_A_RX_HPH_L_ATEST", hex 0x1B2);
    ("TAIKO_A_RX_HPH_L_ATEST__POR", hex 0x00); ("TAIKO_A_RX_HPH_L_STATUS", hex 0x1B3);
    ("TAIKO_A_RX_HPH_L_STATUS__POR", hex 0x00); ("TAIKO_A_RX_HPH_R_GAIN", hex 0x1B4);
    ("TAIKO_A_RX_HPH_R_GAIN__POR", hex 0x00); ("TAIKO_A_RX_HPH_R_TEST", hex 0x1B5);
    ("TAIKO_A_RX_HPH_R_TEST__POR", hex 0x00); ("TAIKO_A_RX_HPH_R_PA_CTL", hex 0x1B6);
    ("TAIKO_A_RX_HPH_R_PA_CTL__POR", hex 0x40); ("TAIKO_A_RX_HPH_R_DAC_CTL", hex 0x1B7);
    ("TAIKO_A_RX_HPH_R_DAC_CTL__POR", hex 0x00); ("TAIKO_A_RX_HPH_R_ATEST", hex 0x1B8);
    ("TAIKO_A_RX_HPH_R_ATEST__POR", hex 0x00); ("TAIKO_A_RX_HPH_R_STATUS", hex 0x1B9);
    ("TAIKO_A_RX_HPH_R_STATUS__POR", hex 0x00); ("TAIKO_A_RX_EAR_BIAS_PA", hex 0x1BA);
    ("TAIKO_A_RX_EAR_BIAS_PA__POR", hex 0xA6); ("TAIKO_A_RX_EAR_BIAS_CMBUFF", hex 0x1BB);
    ("TAIKO_A_RX_EAR_BIAS_CMBUFF__POR", hex 0xA0); ("TAIKO_A_RX_EAR_EN", hex 0x1BC);
    ("TAIKO_A_RX_EAR_EN__POR", hex 0x00)]].
Definition defs_TAIKO_A_RX_EAR_GAIN : list decl := [
  Defines [
    ("TAIKO_A_RX_EAR_GAIN", hex 0x1BD); ("TAIKO_A_RX_EAR_GAIN__POR", hex 0x02);
    ("TAIKO_A_RX_EAR_CMBUFF", hex 0x1BE); ("TAIKO_A_RX_EAR_CMBUFF__POR", hex 0x04);
    ("TAIKO_A_RX_EAR_ICTL", hex 0x1BF); ("TAIKO_A_RX_EAR_ICTL__POR", hex 0x40);
    ("TAIKO_A_RX_EAR_CCOMP", hex 0x1C0); ("TAIKO_A_RX_EAR_CCOMP__POR", hex 0x08);
    ("TAIKO_A_RX_EAR_VCM", hex 0x1C1); ("TAIKO_A_RX_EAR_VCM__POR", hex 0x03);
    ("TAIKO_A_RX_EAR_CNP", hex 0x1C2); ("TAIKO_A_RX_EAR_CNP__POR", hex 0xF2);
    ("TAIKO_A_RX_EAR_DAC_CTL_ATEST", hex 0x1C3); ("TAIKO_A_RX_EAR_DAC_CTL_ATEST__POR", hex 0x00);
    ("TAIKO_A_RX_EAR_STATUS", hex 0x1C5); ("TAIKO_A_RX_EAR_STATUS__POR", hex 0x04);
    ("TAIKO_A_RX_LINE_BIAS_PA", hex 0x1C6); ("TAIKO_A_RX_LINE_BIAS_PA__POR", hex 0xA8);
    ("TAIKO_A_RX_BUCK_BIAS1", hex 0x1C7); ("TAIKO_A_RX_BUCK_BIAS1__POR", hex 0x42);
    ("TAIKO_A_RX_BUCK_BIAS2", hex 0x1C8); ("TAIKO_A_RX_BUCK_BIAS2__POR", hex 0x84);
    ("TAIKO_A_RX_LINE_COM", hex 0x1C9); ("TAIKO_A_RX_LINE_COM__POR", hex 0x80);
    ("TAIKO_A_RX_LINE_CNP_EN", hex 0x1CA); ("TAIKO_A_RX_LINE_CNP_EN__POR", hex 0x00);
    ("TAIKO_A_RX_LINE_CNP_WG_CTL", hex 0x1CB); ("TAIKO_A_RX_LINE_CNP_WG_CTL__POR", hex 0x00);
    ("TAIKO_A_RX_LINE_CNP_WG_TIME", hex 0x1CC); ("TAIKO_A_RX_LINE_CNP_WG_TIME__POR", hex 0x04);
    ("TAIKO_A_RX_LINE_1_GAIN", hex 0x1CD); ("TAIKO_A_RX_LINE_1_GAIN__POR", hex 0x00);
    ("TAIKO_A_RX_LINE_1_TEST", hex 0x1CE); ("TAIKO_A_RX_LINE_1_TEST__POR", hex 0x00);
    ("TAIKO_A_RX_LINE_1_DAC_CTL", hex 0x1CF); ("TAIKO_A_RX_LINE_1_DAC_CTL__POR", hex 0x00);
    ("TAIKO_A_RX_LINE_1_STATUS", hex 0x1D0); ("TAIKO_A_RX_LINE_1_STATUS__POR", hex 0x00);
    ("TAIKO_A_RX_LINE_2_GAIN", hex 0x1D1); ("TAIKO_A_RX_LINE_2_GAIN__POR", hex 0x00);
    ("TAIKO_A_RX_LINE_2_TEST", hex 0x1D2); ("TAIKO_A_RX_LINE_2_TEST__POR", hex 0x00);
    ("TAIKO_A_RX_LINE_2_DAC_CTL", hex 0x1D3); ("TAIKO_A_RX_LINE_2_DAC_CTL__POR", hex 0x00);
    ("TAIKO_A_RX_LINE_2_STATUS", hex 0x1D4); ("TAIKO_A_RX_LINE_2_STATUS__POR", hex 0x00);
    ("TAIKO_A_RX_LINE_3_GAIN", hex 0x1D5); ("TAIKO_A_RX_LINE_3_GAIN__POR", hex 0x00);
    ("TAIKO_A_RX_LINE_3_TEST", hex 0x1D6); ("TAIKO_A_RX_LINE_3_TEST__POR", hex 0x00);
    ("TAIKO_A_RX_LINE_3_DAC_CTL", hex 0x1D7); ("TAIKO_A_RX_LINE_3_DAC_CTL__POR", hex 0x00);
    ("TAIKO_A_RX_LINE_3_STATUS", hex 0x1D8); ("TAIKO_A_RX_LINE_3_STATUS__POR", hex 0x00);
    ("TAIKO_A_RX_LINE_4_GAIN", hex 0x1D9); ("TAIKO_A_RX_LINE_4_GAIN__POR", hex 0x00);
    ("TAIKO_A_RX_LINE_4_TEST", hex 0x1DA); ("TAIKO_A_RX_LINE_4_TEST__POR", hex 0x00);
    ("TAIKO_A_RX_LINE_4_DAC_CTL", hex 0x1DB); ("TAIKO_A_RX_LINE_4_DAC_CTL__POR", hex 0x00);
    ("TAIKO_A_RX_LINE_4_STATUS", hex 0x1DC); ("TAIKO_A_RX_LINE_4_STATUS__POR", hex 0x00);
    ("TAIKO_A_RX_LINE_CNP_DBG", hex 0x1DD); ("TAIKO_A_RX_LINE_CNP_DBG__POR", hex 0x00);
    ("TAIKO_A_SPKR_DRV_EN", hex 0x1DF); ("TAIKO_A_SPKR_DRV_EN__POR", hex 0x6F);
    ("TAIKO_A_SPKR_DRV_GAIN", hex 0x1E0); ("TAIKO_A_SPKR_DRV_GAIN__POR", hex 0x00);
    ("TAIKO_A_SPKR_DRV_DAC_CTL", hex 0x1E1); ("TAIKO_A_SPKR_DRV_DAC_CTL__POR", hex 0x04);
    ("TAIKO_A_SPKR_DRV_OCP_CTL", hex 0x1E2); ("TAIKO_A_SPKR_DRV_OCP_CTL__POR", hex 0x98);
    ("TAIKO_A_SPKR_DRV_CLIP_DET", hex 0x1E3); ("TAIKO_A_SPKR_DRV_CLIP_DET__POR", hex 0x48);
    ("TAIKO_A_SPKR_DRV_IEC", hex 0x1E4); ("TAIKO_A_SPKR_DRV_IEC__POR", hex 0x20);
    ("TAIKO_A_SPKR_DRV_DBG_DAC", hex 0x1E5); ("TAIKO_A_SPKR_DRV_DBG_DAC__POR", hex 0x05);
    ("TAIKO_A_SPKR_DRV_DBG_PA", hex 0x1E6); ("TAIKO_A_SPKR_DRV_DBG_PA__POR", hex 0x18);
    ("TAIKO_A_SPKR_DRV_DBG_PWRSTG", hex 0x1E7); ("TAIKO_A_SPKR_DRV_DBG_PWRSTG__POR", hex 0x00);
    ("TAIKO_A_SPKR_DRV_BIAS_LDO", hex 0x1E8); ("TAIKO_A_SPKR_DRV_BIAS_LDO__POR", hex 0x45);
    ("TAIKO_A_SPKR_DRV_BIAS_INT", hex 0x1E9); ("TAIKO_A_SPKR_DRV_BIAS_INT__POR", hex 0xA5);
    ("TAIKO_A_SPKR_DRV_BIAS_PA", hex 0x1EA); ("TAIKO_A_SPKR_DRV_BIAS_PA__POR", hex 0x55);
    ("TAIKO_A_SPKR_DRV_STATUS_OCP", hex 0x1EB); ("TAIKO_A_SPKR_DRV_STATUS_OCP__POR", hex 0x00);
    ("TAIKO_A_SPKR_DRV_STATUS_PA", hex 0x1EC); ("TAIKO_A_SPKR_DRV_STATUS_PA__POR", hex 0x00);
    ("TAIKO_A_SPKR_PROT_EN", hex 0x1ED); ("TAIKO_A_SPKR_PROT_EN__POR", hex 0x00);
    ("TAIKO_A_SPKR_PROT_ADC_EN", hex 0x1EE); ("TAIKO_A_SPKR_PROT_ADC_EN__POR", hex 0x44);
    ("TAIKO_A_SPKR_PROT_ISENSE_BIAS", hex 0x1EF);
    ("TAIKO_A_SPKR_PROT_ISENSE_BIAS__POR", hex 0x44);
    ("TAIKO_A_SPKR_PROT_VSENSE_BIAS", hex 0x1F0);
    ("TAIKO_A_SPKR_PROT_VSENSE_BIAS__POR", hex 0x44);
    ("TAIKO_A_SPKR_PROT_ADC_ATEST_REFCTRL", hex 0x1F1);
    ("TAIKO_A_SPKR_PROT_ADC_ATEST_REFCTRL__POR", hex 0x00);
    ("TAIKO_A_SPKR_PROT_ADC_TEST_CTL", hex 0x1F2);
    ("TAIKO_A_SPKR_PROT_ADC_TEST_CTL__POR", hex 0x38);
    ("TAIKO_A_SPKR_PROT_TEST_BLOCK_EN", hex 0x1F3);
    ("TAIKO_A_SPKR_PROT_TEST_BLOCK_EN__POR", hex 0xFC); ("TAIKO_A_SPKR_PROT_ATEST", hex 0x1F4);
    ("TAIKO_A_SPKR_PROT_ATEST__POR", hex 0x00); ("TAIKO_A_SPKR_PROT_V_SAR_ERR", hex 0x1F5);
    ("TAIKO_A_SPKR_PROT_V_SAR_ERR__POR", hex 0x00); ("TAIKO_A_SPKR_PROT_I_SAR_ERR", hex 0x1F6);
    ("TAIKO_A_SPKR_PROT_I_SAR_ERR__POR", hex 0x00); ("TAIKO_A_SPKR_PROT_LDO_CTRL", hex 0x1F7);
    ("TAIKO_A_SPKR_PROT_LDO_CTRL__POR", hex 0x00); ("TAIKO_A_SPKR_PROT_ISENSE_CTRL", hex 0x1F8);
    ("TAIKO_A_SPKR_PROT_ISENSE_CTRL__POR", hex 0x00);
    ("TAIKO_A_SPKR_PROT_VSENSE_CTRL", hex 0x1F9);
    ("TAIKO_A_SPKR_PROT_VSENSE_CTRL__POR", hex 0x00); ("TAIKO_A_RC_OSC_FREQ", hex 0x1FA);
    ("TAIKO_A_RC_OSC_FREQ__POR", hex 0x46); ("TAIKO_A_RC_OSC_TEST", hex 0x1FB);
    ("TAIKO_A_RC_OSC_TEST__POR", hex 0x0A); ("TAIKO_A_RC_OSC_STATUS", hex 0x1FC);
    ("TAIKO_A_RC_OSC_STATUS__POR", hex 0x18); ("TAIKO_A_RC_OSC_TUNER", hex 0x1FD);
    ("TAIKO_A_RC_OSC_TUNER__POR", hex 0x00); ("TAIKO_A_MBHC_HPH", hex 0x1FE);
    ("TAIKO_A_MBHC_HPH__POR", hex 0x44); ("TAIKO_A_CDC_ANC1_B1_CTL", hex 0x200);
    ("TAIKO_A_CDC_ANC1_B1_CTL__POR", hex 0x00); ("TAIKO_A_CDC_ANC2_B1_CTL", hex 0x280);
    ("TAIKO_A_CDC_ANC2_B1_CTL__POR", hex 0x00); ("TAIKO_A_CDC_ANC1_SHIFT", hex 0x201);
    ("TAIKO_A_CDC_ANC1_SHIFT__POR", hex 0x00); ("TAIKO_A_CDC_ANC2_SHIFT", hex 0x281);
    ("TAIKO_A_CDC_ANC2_SHIFT__POR", hex 0x00); ("TAIKO_A_CDC_ANC1_IIR_B1_CTL", hex 0x202);
    ("TAIKO_A_CDC_ANC1_IIR_B1_CTL__POR", hex 0x00); ("TAIKO_A_CDC_ANC2_IIR_B1_CTL", hex 0x282);
    ("TAIKO_A_CDC_ANC2_IIR_B1_CTL__POR", hex 0x00); ("TAIKO_A_CDC_ANC1_IIR_B2_CTL", hex 0x203);
    ("TAIKO_A_CDC_ANC1_IIR_B2_CTL__POR", hex 0x00); ("TAIKO_A_CDC_ANC2_IIR_B2_CTL", hex 0x283);
    ("TAIKO_A_CDC_ANC2_IIR_B2_CTL__POR", hex 0x00); ("TAIKO_A_CDC_ANC1_IIR_B3_CTL", hex 0x204);
    ("TAIKO_A_CDC_ANC1_IIR_B3_CTL__POR", hex 0x00); ("TAIKO_A_CDC_ANC2_IIR_B3_CTL", hex 0x284);
    ("TAIKO_A_CDC_ANC2_IIR_B3_CTL__POR", hex 0x00); ("TAIKO_A_CDC_ANC1_LPF_B1_CTL", hex 0x206);
    ("TAIKO_A_CDC_ANC1_LPF_B1_CTL__POR", hex 0x00)]].
Definition defs_TAIKO_A_CDC_ANC2_LPF_B1_CTL : list decl := [
  Defines [
    ("TAIKO_A_CDC_ANC2_LPF_B1_CTL", hex 0x286); ("TAIKO_A_CDC_ANC2_LPF_B1_CTL__POR", hex 0x00);
    ("TAIKO_A_CDC_ANC1_LPF_B2_CTL", hex 0x207); ("TAIKO_A_CDC_ANC1_LPF_B2_CTL__POR", hex 0x00);
    ("TAIKO_A_CDC_ANC2_LPF_B2_CTL", hex 0x287); ("TAIKO_A_CDC_ANC2_LPF_B2_CTL__POR", hex 0x00);
    ("TAIKO_A_CDC_ANC1_SPARE", hex 0x209); ("TAIKO_A_CDC_ANC1_SPARE__POR", hex 0x00);
    ("TAIKO_A_CDC_ANC2_SPARE", hex 0x289); ("TAIKO_A_CDC_ANC2_SPARE__POR", hex 0x00);
    ("TAIKO_A_CDC_ANC1_SMLPF_CTL", hex 0x20A); ("TAIKO_A_CDC_ANC1_SMLPF_CTL__POR", hex 0x00);
    ("TAIKO_A_CDC_ANC2_SMLPF_CTL", hex 0x28A); ("TAIKO_A_CDC_ANC2_SMLPF_CTL__POR", hex 0x00);
    ("TAIKO_A_CDC_ANC1_DCFLT_CTL", hex 0x20B); ("TAIKO_A_CDC_ANC1_DCFLT_CTL__POR", hex 0x00);
    ("TAIKO_A_CDC_ANC2_DCFLT_CTL", hex 0x28B); ("TAIKO_A_CDC_ANC2_DCFLT_CTL__POR", hex 0x00);
    ("TAIKO_A_CDC_ANC1_GAIN_CTL", hex 0x20C); ("TAIKO_A_CDC_ANC1_GAIN_CTL__POR", hex 0x00);
    ("TAIKO_A_CDC_ANC2_GAIN_CTL", hex 0x28C); ("TAIKO_A_CDC_ANC2_GAIN_CTL__POR", hex 0x00);
    ("TAIKO_A_CDC_ANC1_B2_CTL", hex 0x20D); ("TAIKO_A_CDC_ANC1_B2_CTL__POR", hex 0x00);
    ("TAIKO_A_CDC_ANC2_B2_CTL", hex 0x28D); ("TAIKO_A_CDC_ANC2_B2_CTL__POR", hex 0x00);
    ("TAIKO_A_CDC_TX1_VOL_CTL_TIMER", hex 0x220);
    ("TAIKO_A_CDC_TX1_VOL_CTL_TIMER__POR", hex 0x00);
    ("TAIKO_A_CDC_TX2_VOL_CTL_TIMER", hex 0x228);
    ("TAIKO_A_CDC_TX2_VOL_CTL_TIMER__POR", hex 0x00);
    ("TAIKO_A_CDC_TX3_VOL_CTL_TIMER", hex 0x230);
    ("TAIKO_A_CDC_TX3_VOL_CTL_TIMER__POR", hex 0x00);
    ("TAIKO_A_CDC_TX4_VOL_CTL_TIMER", hex 0x238);
    ("TAIKO_A_CDC_TX4_VOL_CTL_TIMER__POR", hex 0x00);
    ("TAIKO_A_CDC_TX5_VOL_CTL_TIMER", hex 0x240);
    ("TAIKO_A_CDC_TX5_VOL_CTL_TIMER__POR", hex 0x00);
    ("TAIKO_A_CDC_TX6_VOL_CTL_TIMER", hex 0x248);
    ("TAIKO_A_CDC_TX6_VOL_CTL_TIMER__POR", hex 0x00);
    ("TAIKO_A_CDC_TX7_VOL_CTL_TIMER", hex 0x250);
    ("TAIKO_A_CDC_TX7_VOL_CTL_TIMER__POR", hex 0x00);
    ("TAIKO_A_CDC_TX8_VOL_CTL_TIMER", hex 0x258);
    ("TAIKO_A_CDC_TX8_VOL_CTL_TIMER__POR", hex 0x00);
    ("TAIKO_A_CDC_TX9_VOL_CTL_TIMER", hex 0x260);
    ("TAIKO_A_CDC_TX9_VOL_CTL_TIMER__POR", hex 0x00);
    ("TAIKO_A_CDC_TX10_VOL_CTL_TIMER", hex 0x268);
    ("TAIKO_A_CDC_TX10_VOL_CTL_TIMER__POR", hex 0x00);
    ("TAIKO_A_CDC_TX1_VOL_CTL_GAIN", hex 0x221); ("TAIKO_A_CDC_TX1_VOL_CTL_GAIN__POR", hex 0x00);
    ("TAIKO_A_CDC_TX2_VOL_CTL_GAIN", hex 0x229); ("TAIKO_A_CDC_TX2_VOL_CTL_GAIN__POR", hex 0x00);
    ("TAIKO_A_CDC_TX3_VOL_CTL_GAIN", hex 0x231); ("TAIKO_A_CDC_TX3_VOL_CTL_GAIN__POR", hex 0x00);
    ("TAIKO_A_CDC_TX4_VOL_CTL_GAIN", hex 0x239); ("TAIKO_A_CDC_TX4_VOL_CTL_GAIN__POR", hex 0x00);
    ("TAIKO_A_CDC_TX5_VOL_CTL_GAIN", hex 0x241); ("TAIKO_A_CDC_TX5_VOL_CTL_GAIN__POR", hex 0x00);
    ("TAIKO_A_CDC_TX6_VOL_CTL_GAIN", hex 0x249); ("TAIKO_A_CDC_TX6_VOL_CTL_GAIN__POR", hex 0x00);
    ("TAIKO_A_CDC_TX7_VOL_CTL_GAIN", hex 0x251); ("TAIKO_A_CDC_TX7_VOL_CTL_GAIN__POR", hex 0x00);
    ("TAIKO_A_CDC_TX8_VOL_CTL_GAIN", hex 0x259); ("TAIKO_A_CDC_TX8_VOL_CTL_GAIN__POR", hex 0x00);
    ("TAIKO_A_CDC_TX9_VOL_CTL_GAIN", hex 0x261); ("TAIKO_A_CDC_TX9_VOL_CTL_GAIN__POR", hex 0x00);
    ("TAIKO_A_CDC_TX10_VOL_CTL_GAIN", hex 0x269);
    ("TAIKO_A_CDC_TX10_VOL_CTL_GAIN__POR", hex 0x00); ("TAIKO_A_CDC_TX1_VOL_CTL_CFG", hex 0x222);
    ("TAIKO_A_CDC_TX1_VOL_CTL_CFG__POR", hex 0x00); ("TAIKO_A_CDC_TX2_VOL_CTL_CFG", hex 0x22A);
    ("TAIKO_A_CDC_TX2_VOL_CTL_CFG__POR", hex 0x00); ("TAIKO_A_CDC_TX3_VOL_CTL_CFG", hex 0x232);
    ("TAIKO_A_CDC_TX3_VOL_CTL_CFG__POR", hex 0x00); ("TAIKO_A_CDC_TX4_VOL_CTL_CFG", hex 0x23A);
    ("TAIKO_A_CDC_TX4_VOL_CTL_CFG__POR", hex 0x00); ("TAIKO_A_CDC_TX5_VOL_CTL_CFG", hex 0x242);
    ("TAIKO_A_CDC_TX5_VOL_CTL_CFG__POR", hex 0x00); ("TAIKO_A_CDC_TX6_VOL_CTL_CFG", hex 0x24A);
    ("TAIKO_A_CDC_TX6_VOL_CTL_CFG__POR", hex 0x00); ("TAIKO_A_CDC_TX7_VOL_CTL_CFG", hex 0x252);
    ("TAIKO_A_CDC_TX7_VOL_CTL_CFG__POR", hex 0x00); ("TAIKO_A_CDC_TX8_VOL_CTL_CFG", hex 0x25A);
    ("TAIKO_A_CDC_TX8_VOL_CTL_CFG__POR", hex 0x00); ("TAIKO_A_CDC_TX9_VOL_CTL_CFG", hex 0x262);
    ("TAIKO_A_CDC_TX9_VOL_CTL_CFG__POR", hex 0x00); ("TAIKO_A_CDC_TX10_VOL_CTL_CFG", hex 0x26A);
    ("TAIKO_A_CDC_TX10_VOL_CTL_CFG__POR", hex 0x00); ("TAIKO_A_CDC_TX1_MUX_CTL", hex 0x223);
    ("TAIKO_A_CDC_TX1_MUX_CTL__POR", hex 0x08); ("TAIKO_A_CDC_TX2_MUX_CTL", hex 0x22B);
    ("TAIKO_A_CDC_TX2_MUX_CTL__POR", hex 0x08); ("TAIKO_A_CDC_TX3_MUX_CTL", hex 0x233);
    ("TAIKO_A_CDC_TX3_MUX_CTL__POR", hex 0x08); ("TAIKO_A_CDC_TX4_MUX_CTL", hex 0x23B);
    ("TAIKO_A_CDC_TX4_MUX_CTL__POR", hex 0x08); ("TAIKO_A_CDC_TX5_MUX_CTL", hex 0x243);
    ("TAIKO_A_CDC_TX5_MUX_CTL__POR", hex 0x08); ("TAIKO_A_CDC_TX6_MUX_CTL", hex 0x24B);
    ("TAIKO_A_CDC_TX6_MUX_CTL__POR", hex 0x08); ("TAIKO_A_CDC_TX7_MUX_CTL", hex 0x253);
    ("TAIKO_A_CDC_TX7_MUX_CTL__POR", hex 0x08); ("TAIKO_A_CDC_TX8_MUX_CTL", hex 0x25B);
    ("TAIKO_A_CDC_TX8_MUX_CTL__POR", hex 0x08); ("TAIKO_A_CDC_TX9_MUX_CTL", hex 0x263);
    ("TAIKO_A_CDC_TX9_MUX_CTL__POR", hex 0x08); ("TAIKO_A_CDC_TX10_MUX_CTL", hex 0x26B);
    ("TAIKO_A_CDC_TX10_MUX_CTL__POR", hex 0x08); ("TAIKO_A_CDC_TX1_CLK_FS_CTL", hex 0x224);
    ("TAIKO_A_CDC_TX1_CLK_FS_CTL__POR", hex 0x03); ("TAIKO_A_CDC_TX2_CLK_FS_CTL", hex 0x22C);
    ("TAIKO_A_CDC_TX2_CLK_FS_CTL__POR", hex 0x03); ("TAIKO_A_CDC_TX3_CLK_FS_CTL", hex 0x234);
    ("TAIKO_A_CDC_TX3_CLK_FS_CTL__POR", hex 0x03); ("TAIKO_A_CDC_TX4_CLK_FS_CTL", hex 0x23C);
    ("TAIKO_A_CDC_TX4_CLK_FS_CTL__POR", hex 0x03); ("TAIKO_A_CDC_TX5_CLK_FS_CTL", hex 0x244);
    ("TAIKO_A_CDC_TX5_CLK_FS_CTL__POR", hex 0x03); ("TAIKO_A_CDC_TX6_CLK_FS_CTL", hex 0x24C);
    ("TAIKO_A_CDC_TX6_CLK_FS_CTL__POR", hex 0x03); ("TAIKO_A_CDC_TX7_CLK_FS_CTL", hex 0x254);
    ("TAIKO_A_CDC_TX7_CLK_FS_CTL__POR", hex 0x03); ("TAIKO_A_CDC_TX8_CLK_FS_CTL", hex 0x25C);
    ("TAIKO_A_CDC_TX8_CLK_FS_CTL__POR", hex 0x03); ("TAIKO_A_CDC_TX9_CLK_FS_CTL", hex 0x264);
    ("TAIKO_A_CDC_TX9_CLK_FS_CTL__POR", hex 0x03); ("TAIKO_A_CDC_TX10_CLK_FS_CTL", hex 0x26C);
    ("TAIKO_A_CDC_TX10_CLK_FS_CTL__POR", hex 0x03); ("TAIKO_A_CDC_TX1_DMIC_CTL", hex 0x225);
    ("TAIKO_A_CDC_TX1_DMIC_CTL__POR", hex 0x00); ("TAIKO_A_CDC_TX2_DMIC_CTL", hex 0x22D);
    ("TAIKO_A_CDC_TX2_DMIC_CTL__POR", hex 0x00); ("TAIKO_A_CDC_TX3_DMIC_CTL", hex 0x235);
    ("TAIKO_A_CDC_TX3_DMIC_CTL__POR", hex 0x00); ("TAIKO_A_CDC_TX4_DMIC_CTL", hex 0x23D);
    ("TAIKO_A_CDC_TX4_DMIC_CTL__POR", hex 0x00); ("TAIKO_A_CDC_TX5_DMIC_CTL", hex 0x245);
    ("TAIKO_A_CDC_TX5_DMIC_CTL__POR", hex 0x00); ("TAIKO_A_CDC_TX6_DMIC_CTL", hex 0x24D);
    ("TAIKO_A_CDC_TX6_DMIC_CTL__POR", hex 0x00); ("TAIKO_A_CDC_TX7_DMIC_CTL", hex 0x255);
    ("TAIKO_A_CDC_TX7_DMIC_CTL__POR", hex 0x00); ("TAIKO_A_CDC_TX8_DMIC_CTL", hex 0x25D);
    ("TAIKO_A_CDC_TX8_DMIC_CTL__POR", hex 0x00); ("TAIKO_A_CDC_TX9_DMIC_CTL", hex 0x265);
    ("TAIKO_A_CDC_TX9_DMIC_CTL__POR", hex 0x00); ("TAIKO_A_CDC_TX10_DMIC_CTL", hex 0x26D);
    ("TAIKO_A_CDC_TX10_DMIC_CTL__POR", hex 0x00); ("TAIKO_A_CDC_DEBUG_B1_CTL", hex 0x278);
    ("TAIKO_A_CDC_DEBUG_B1_CTL__POR", hex 0x00); ("TAIKO_A_CDC_DEBUG_B2_CTL", hex 0x279);
    ("TAIKO_A_CDC_DEBUG_B2_CTL__POR", hex 0x00)]].
Definition defs_TAIKO_A_CDC_DEBUG_B3_CTL : list decl := [
  Defines [
    ("TAIKO_A_CDC_DEBUG_B3_CTL", hex 0x27A); ("TAIKO_A_CDC_DEBUG_B3_CTL__POR", hex 0x00);
    ("TAIKO_A_CDC_DEBUG_B4_CTL", hex 0x27B); ("TAIKO_A_CDC_DEBUG_B4_CTL__POR", hex 0x00);
    ("TAIKO_A_CDC_DEBUG_B5_CTL", hex 0x27C); ("TAIKO_A_CDC_DEBUG_B5_CTL__POR", hex 0x00);
    ("TAIKO_A_CDC_DEBUG_B6_CTL", hex 0x27D); ("TAIKO_A_CDC_DEBUG_B6_CTL__POR", hex 0x00);
    ("TAIKO_A_CDC_DEBUG_B7_CTL", hex 0x27E); ("TAIKO_A_CDC_DEBUG_B7_CTL__POR", hex 0x00);
    ("TAIKO_A_CDC_SRC1_PDA_CFG", hex 0x2A0); ("TAIKO_A_CDC_SRC1_PDA_CFG__POR", hex 0x00);
    ("TAIKO_A_CDC_SRC2_PDA_CFG", hex 0x2A8); ("TAIKO_A_CDC_SRC2_PDA_CFG__POR", hex 0x00);
    ("TAIKO_A_CDC_SRC1_FS_CTL", hex 0x2A1); ("TAIKO_A_CDC_SRC1_FS_CTL__POR", hex 0x1B);
    ("TAIKO_A_CDC_SRC2_FS_CTL", hex 0x2A9); ("TAIKO_A_CDC_SRC2_FS_CTL__POR", hex 0x1B);
    ("TAIKO_A_CDC_RX1_B1_CTL", hex 0x2B0); ("TAIKO_A_CDC_RX1_B1_CTL__POR", hex 0x00);
    ("TAIKO_A_CDC_RX2_B1_CTL", hex 0x2B8); ("TAIKO_A_CDC_RX2_B1_CTL__POR", hex 0x00);
    ("TAIKO_A_CDC_RX3_B1_CTL", hex 0x2C0); ("TAIKO_A_CDC_RX3_B1_CTL__POR", hex 0x00);
    ("TAIKO_A_CDC_RX4_B1_CTL", hex 0x2C8); ("TAIKO_A_CDC_RX4_B1_CTL__POR", hex 0x00);
    ("TAIKO_A_CDC_RX5_B1_CTL", hex 0x2D0); ("TAIKO_A_CDC_RX5_B1_CTL__POR", hex 0x00);
    ("TAIKO_A_CDC_RX6_B1_CTL", hex 0x2D8); ("TAIKO_A_CDC_RX6_B1_CTL__POR", hex 0x00);
    ("TAIKO_A_CDC_RX7_B1_CTL", hex 0x2E0); ("TAIKO_A_CDC_RX7_B1_CTL__POR", hex 0x00);
    ("TAIKO_A_CDC_RX1_B2_CTL", hex 0x2B1); ("TAIKO_A_CDC_RX1_B2_CTL__POR", hex 0x00);
    ("TAIKO_A_CDC_RX2_B2_CTL", hex 0x2B9); ("TAIKO_A_CDC_RX2_B2_CTL__POR", hex 0x00);
    ("TAIKO_A_CDC_RX3_B2_CTL", hex 0x2C1); ("TAIKO_A_CDC_RX3_B2_CTL__POR", hex 0x00);
    ("TAIKO_A_CDC_RX4_B2_CTL", hex 0x2C9); ("TAIKO_A_CDC_RX4_B2_CTL__POR", hex 0x00);
    ("TAIKO_A_CDC_RX5_B2_CTL", hex 0x2D1); ("TAIKO_A_CDC_RX5_B2_CTL__POR", hex 0x00);
    ("TAIKO_A_CDC_RX6_B2_CTL", hex 0x2D9); ("TAIKO_A_CDC_RX6_B2_CTL__POR", hex 0x00);
    ("TAIKO_A_CDC_RX7_B2_CTL", hex 0x2E1); ("TAIKO_A_CDC_RX7_B2_CTL__POR", hex 0x00);
    ("TAIKO_A_CDC_RX1_B3_CTL", hex 0x2B2); ("TAIKO_A_CDC_RX1_B3_CTL__POR", hex 0x00);
    ("TAIKO_A_CDC_RX2_B3_CTL", hex 0x2BA); ("TAIKO_A_CDC_RX2_B3_CTL__POR", hex 0x00);
    ("TAIKO_A_CDC_RX3_B3_CTL", hex 0x2C2); ("TAIKO_A_CDC_RX3_B3_CTL__POR", hex 0x00);
    ("TAIKO_A_CDC_RX4_B3_CTL", hex 0x2CA); ("TAIKO_A_CDC_RX4_B3_CTL__POR", hex 0x00);
    ("TAIKO_A_CDC_RX5_B3_CTL", hex 0x2D2); ("TAIKO_A_CDC_RX5_B3_CTL__POR", hex 0x00);
    ("TAIKO_A_CDC_RX6_B3_CTL", hex 0x2DA); ("TAIKO_A_CDC_RX6_B3_CTL__POR", hex 0x00);
    ("TAIKO_A_CDC_RX7_B3_CTL", hex 0x2E2); ("TAIKO_A_CDC_RX7_B3_CTL__POR", hex 0x00);
    ("TAIKO_A_CDC_RX1_B4_CTL", hex 0x2B3); ("TAIKO_A_CDC_RX1_B4_CTL__POR", hex 0x00);
    ("TAIKO_A_CDC_RX2_B4_CTL", hex 0x2BB); ("TAIKO_A_CDC_RX2_B4_CTL__POR", hex 0x00);
    ("TAIKO_A_CDC_RX3_B4_CTL", hex 0x2C3); ("TAIKO_A_CDC_RX3_B4_CTL__POR", hex 0x00);
    ("TAIKO_A_CDC_RX4_B4_CTL", hex 0x2CB); ("TAIKO_A_CDC_RX4_B4_CTL__POR", hex 0x00);
    ("TAIKO_A_CDC_RX5_B4_CTL", hex 0x2D3); ("TAIKO_A_CDC_RX5_B4_CTL__POR", hex 0x00);
    ("TAIKO_A_CDC_RX6_B4_CTL", hex 0x2DB); ("TAIKO_A_CDC_RX6_B4_CTL__POR", hex 0x00);
    ("TAIKO_A_CDC_RX7_B4_CTL", hex 0x2E3); ("TAIKO_A_CDC_RX7_B4_CTL__POR", hex 0x00);
    ("TAIKO_A_CDC_RX1_B5_CTL", hex 0x2B4); ("TAIKO_A_CDC_RX1_B5_CTL__POR", hex 0x78);
    ("TAIKO_A_CDC_RX2_B5_CTL", hex 0x2BC); ("TAIKO_A_CDC_RX2_B5_CTL__POR", hex 0x78);
    ("TAIKO_A_CDC_RX3_B5_CTL", hex 0x2C4); ("TAIKO_A_CDC_RX3_B5_CTL__POR", hex 0x78);
    ("TAIKO_A_CDC_RX4_B5_CTL", hex 0x2CC); ("TAIKO_A_CDC_RX4_B5_CTL__POR", hex 0x78);
    ("TAIKO_A_CDC_RX5_B5_CTL", hex 0x2D4); ("TAIKO_A_CDC_RX5_B5_CTL__POR", hex 0x78);
    ("TAIKO_A_CDC_RX6_B5_CTL", hex 0x2DC); ("TAIKO_A_CDC_RX6_B5_CTL__POR", hex 0x78);
    ("TAIKO_A_CDC_RX7_B5_CTL", hex 0x2E4); ("TAIKO_A_CDC_RX7_B5_CTL__POR", hex 0x78);
    ("TAIKO_A_CDC_RX1_B6_CTL", hex 0x2B5); ("TAIKO_A_CDC_RX1_B6_CTL__POR", hex 0x80);
    ("TAIKO_A_CDC_RX2_B6_CTL", hex 0x2BD); ("TAIKO_A_CDC_RX2_B6_CTL__POR", hex 0x80);
    ("TAIKO_A_CDC_RX3_B6_CTL", hex 0x2C5); ("TAIKO_A_CDC_RX3_B6_CTL__POR", hex 0x80);
    ("TAIKO_A_CDC_RX4_B6_CTL", hex 0x2CD); ("TAIKO_A_CDC_RX4_B6_CTL__POR", hex 0x80);
    ("TAIKO_A_CDC_RX5_B6_CTL", hex 0x2D5); ("TAIKO_A_CDC_RX5_B6_CTL__POR", hex 0x80);
    ("TAIKO_A_CDC_RX6_B6_CTL", hex 0x2DD); ("TAIKO_A_CDC_RX6_B6_CTL__POR", hex 0x80);
    ("TAIKO_A_CDC_RX7_B6_CTL", hex 0x2E5); ("TAIKO_A_CDC_RX7_B6_CTL__POR", hex 0x80);
    ("TAIKO_A_CDC_RX1_VOL_CTL_B1_CTL", hex 0x2B6);
    ("TAIKO_A_CDC_RX1_VOL_CTL_B1_CTL__POR", hex 0x00);
    ("TAIKO_A_CDC_RX2_VOL_CTL_B1_CTL", hex 0x2BE);
    ("TAIKO_A_CDC_RX2_VOL_CTL_B1_CTL__POR", hex 0x00);
    ("TAIKO_A_CDC_RX3_VOL_CTL_B1_CTL", hex 0x2C6);
    ("TAIKO_A_CDC_RX3_VOL_CTL_B1_CTL__POR", hex 0x00);
    ("TAIKO_A_CDC_RX4_VOL_CTL_B1_CTL", hex 0x2CE);
    ("TAIKO_A_CDC_RX4_VOL_CTL_B1_CTL__POR", hex 0x00);
    ("TAIKO_A_CDC_RX5_VOL_CTL_B1_CTL", hex 0x2D6);
    ("TAIKO_A_CDC_RX5_VOL_CTL_B1_CTL__POR", hex 0x00);
    ("TAIKO_A_CDC_RX6_VOL_CTL_B1_CTL", hex 0x2DE);
    ("TAIKO_A_CDC_RX6_VOL_CTL_B1_CTL__POR", hex 0x00);
    ("TAIKO_A_CDC_RX7_VOL_CTL_B1_CTL", hex 0x2E6);
    ("TAIKO_A_CDC_RX7_VOL_CTL_B1_CTL__POR", hex 0x00);
    ("TAIKO_A_CDC_RX1_VOL_CTL_B2_CTL", hex 0x2B7);
    ("TAIKO_A_CDC_RX1_VOL_CTL_B2_CTL__POR", hex 0x00);
    ("TAIKO_A_CDC_RX2_VOL_CTL_B2_CTL", hex 0x2BF);
    ("TAIKO_A_CDC_RX2_VOL_CTL_B2_CTL__POR", hex 0x00);
    ("TAIKO_A_CDC_RX3_VOL_CTL_B2_CTL", hex 0x2C7);
    ("TAIKO_A_CDC_RX3_VOL_CTL_B2_CTL__POR", hex 0x00);
    ("TAIKO_A_CDC_RX4_VOL_CTL_B2_CTL", hex 0x2CF);
    ("TAIKO_A_CDC_RX4_VOL_CTL_B2_CTL__POR", hex 0x00);
    ("TAIKO_A_CDC_RX5_VOL_CTL_B2_CTL", hex 0x2D7);
    ("TAIKO_A_CDC_RX5_VOL_CTL_B2_CTL__POR", hex 0x00);
    ("TAIKO_A_CDC_RX6_VOL_CTL_B2_CTL", hex 0x2DF);
    ("TAIKO_A_CDC_RX6_VOL_CTL_B2_CTL__POR", hex 0x00);
    ("TAIKO_A_CDC_RX7_VOL_CTL_B2_CTL", hex 0x2E7);
    ("TAIKO_A_CDC_RX7_VOL_CTL_B2_CTL__POR", hex 0x00); ("TAIKO_A_CDC_VBAT_CFG", hex 0x2E8);
    ("TAIKO_A_CDC_VBAT_CFG__POR", hex 0x1A); ("TAIKO_A_CDC_VBAT_ADC_CAL1", hex 0x2E9);
    ("TAIKO_A_CDC_VBAT_ADC_CAL1__POR", hex 0x00); ("TAIKO_A_CDC_VBAT_ADC_CAL2", hex 0x2EA);
    ("TAIKO_A_CDC_VBAT_ADC_CAL2__POR", hex 0x00); ("TAIKO_A_CDC_VBAT_ADC_CAL3", hex 0x2EB);
    ("TAIKO_A_CDC_VBAT_ADC_CAL3__POR", hex 0x04); ("TAIKO_A_CDC_VBAT_PK_EST1", hex 0x2EC);
    ("TAIKO_A_CDC_VBAT_PK_EST1__POR", hex 0xE0); ("TAIKO_A_CDC_VBAT_PK_EST2", hex 0x2ED);
    ("TAIKO_A_CDC_VBAT_PK_EST2__POR", hex 0x01); ("TAIKO_A_CDC_VBAT_PK_EST3", hex 0x2EE);
    ("TAIKO_A_CDC_VBAT_PK_EST3__POR", hex 0x40); ("TAIKO_A_CDC_VBAT_RF_PROC1", hex 0x2EF);
    ("TAIKO_A_CDC_VBAT_RF_PROC1__POR", hex 0x2A); ("TAIKO_A_CDC_VBAT_RF_PROC2", hex 0x2F0);
    ("TAIKO_A_CDC_VBAT_RF_PROC2__POR", hex 0x86); ("TAIKO_A_CDC_VBAT_TAC1", hex 0x2F1);
    ("TAIKO_A_CDC_VBAT_TAC1__POR", hex 0x70)]].
Definition defs_TAIKO_A_CDC_VBAT_TAC2 : list decl := [
  Defines [
    ("TAIKO_A_CDC_VBAT_TAC2", hex 0x2F2); ("TAIKO_A_CDC_VBAT_TAC2__POR", hex 0x18);
    ("TAIKO_A_CDC_VBAT_TAC3", hex 0x2F3); ("TAIKO_A_CDC_VBAT_TAC3__POR", hex 0x18);
    ("TAIKO_A_CDC_VBAT_TAC4", hex 0x2F4); ("TAIKO_A_CDC_VBAT_TAC4__POR", hex 0x03);
    ("TAIKO_A_CDC_VBAT_GAIN_UPD1", hex 0x2F5); ("TAIKO_A_CDC_VBAT_GAIN_UPD1__POR", hex 0x01);
    ("TAIKO_A_CDC_VBAT_GAIN_UPD2", hex 0x2F6); ("TAIKO_A_CDC_VBAT_GAIN_UPD2__POR", hex 0x00);
    ("TAIKO_A_CDC_VBAT_GAIN_UPD3", hex 0x2F7); ("TAIKO_A_CDC_VBAT_GAIN_UPD3__POR", hex 0x64);
    ("TAIKO_A_CDC_VBAT_GAIN_UPD4", hex 0x2F8); ("TAIKO_A_CDC_VBAT_GAIN_UPD4__POR", hex 0x01);
    ("TAIKO_A_CDC_VBAT_DEBUG1", hex 0x2F9); ("TAIKO_A_CDC_VBAT_DEBUG1__POR", hex 0x00);
    ("TAIKO_A_CDC_CLK_ANC_RESET_CTL", hex 0x300);
    ("TAIKO_A_CDC_CLK_ANC_RESET_CTL__POR", hex 0x00);
    ("TAIKO_A_CDC_CLK_RX_RESET_CTL", hex 0x301); ("TAIKO_A_CDC_CLK_RX_RESET_CTL__POR", hex 0x00);
    ("TAIKO_A_CDC_CLK_TX_RESET_B1_CTL", hex 0x302);
    ("TAIKO_A_CDC_CLK_TX_RESET_B1_CTL__POR", hex 0x00);
    ("TAIKO_A_CDC_CLK_TX_RESET_B2_CTL", hex 0x303);
    ("TAIKO_A_CDC_CLK_TX_RESET_B2_CTL__POR", hex 0x00);
    ("TAIKO_A_CDC_CLK_DMIC_B1_CTL", hex 0x304); ("TAIKO_A_CDC_CLK_DMIC_B1_CTL__POR", hex 0x00);
    ("TAIKO_A_CDC_CLK_DMIC_B2_CTL", hex 0x305); ("TAIKO_A_CDC_CLK_DMIC_B2_CTL__POR", hex 0x00);
    ("TAIKO_A_CDC_CLK_RX_I2S_CTL", hex 0x306); ("TAIKO_A_CDC_CLK_RX_I2S_CTL__POR", hex 0x03);
    ("TAIKO_A_CDC_CLK_TX_I2S_CTL", hex 0x307); ("TAIKO_A_CDC_CLK_TX_I2S_CTL__POR", hex 0x03);
    ("TAIKO_A_CDC_CLK_OTHR_RESET_B1_CTL", hex 0x308);
    ("TAIKO_A_CDC_CLK_OTHR_RESET_B1_CTL__POR", hex 0x00);
    ("TAIKO_A_CDC_CLK_OTHR_RESET_B2_CTL", hex 0x309);
    ("TAIKO_A_CDC_CLK_OTHR_RESET_B2_CTL__POR", hex 0x00);
    ("TAIKO_A_CDC_CLK_TX_CLK_EN_B1_CTL", hex 0x30A);
    ("TAIKO_A_CDC_CLK_TX_CLK_EN_B1_CTL__POR", hex 0x00);
    ("TAIKO_A_CDC_CLK_TX_CLK_EN_B2_CTL", hex 0x30B);
    ("TAIKO_A_CDC_CLK_TX_CLK_EN_B2_CTL__POR", hex 0x00); ("TAIKO_A_CDC_CLK_OTHR_CTL", hex 0x30C);
    ("TAIKO_A_CDC_CLK_OTHR_CTL__POR", hex 0x00); ("TAIKO_A_CDC_CLK_RDAC_CLK_EN_CTL", hex 0x30D);
    ("TAIKO_A_CDC_CLK_RDAC_CLK_EN_CTL__POR", hex 0x00);
    ("TAIKO_A_CDC_CLK_ANC_CLK_EN_CTL", hex 0x30E);
    ("TAIKO_A_CDC_CLK_ANC_CLK_EN_CTL__POR", hex 0x00); ("TAIKO_A_CDC_CLK_RX_B1_CTL", hex 0x30F);
    ("TAIKO_A_CDC_CLK_RX_B1_CTL__POR", hex 0x00); ("TAIKO_A_CDC_CLK_RX_B2_CTL", hex 0x310);
    ("TAIKO_A_CDC_CLK_RX_B2_CTL__POR", hex 0x00); ("TAIKO_A_CDC_CLK_MCLK_CTL", hex 0x311);
    ("TAIKO_A_CDC_CLK_MCLK_CTL__POR", hex 0x00); ("TAIKO_A_CDC_CLK_PDM_CTL", hex 0x312);
    ("TAIKO_A_CDC_CLK_PDM_CTL__POR", hex 0x00); ("TAIKO_A_CDC_CLK_SD_CTL", hex 0x313);
    ("TAIKO_A_CDC_CLK_SD_CTL__POR", hex 0x00); ("TAIKO_A_CDC_CLK_POWER_CTL", hex 0x314);
    ("TAIKO_A_CDC_CLK_POWER_CTL__POR", hex 0x00); ("TAIKO_A_CDC_CLSH_B1_CTL", hex 0x320);
    ("TAIKO_A_CDC_CLSH_B1_CTL__POR", hex 0xE4); ("TAIKO_A_CDC_CLSH_B2_CTL", hex 0x321);
    ("TAIKO_A_CDC_CLSH_B2_CTL__POR", hex 0x00); ("TAIKO_A_CDC_CLSH_B3_CTL", hex 0x322);
    ("TAIKO_A_CDC_CLSH_B3_CTL__POR", hex 0x00); ("TAIKO_A_CDC_CLSH_BUCK_NCP_VARS", hex 0x323);
    ("TAIKO_A_CDC_CLSH_BUCK_NCP_VARS__POR", hex 0x00);
    ("TAIKO_A_CDC_CLSH_IDLE_HPH_THSD", hex 0x324);
    ("TAIKO_A_CDC_CLSH_IDLE_HPH_THSD__POR", hex 0x12);
    ("TAIKO_A_CDC_CLSH_IDLE_EAR_THSD", hex 0x325);
    ("TAIKO_A_CDC_CLSH_IDLE_EAR_THSD__POR", hex 0x0C);
    ("TAIKO_A_CDC_CLSH_FCLKONLY_HPH_THSD", hex 0x326);
    ("TAIKO_A_CDC_CLSH_FCLKONLY_HPH_THSD__POR", hex 0x18);
    ("TAIKO_A_CDC_CLSH_FCLKONLY_EAR_THSD", hex 0x327);
    ("TAIKO_A_CDC_CLSH_FCLKONLY_EAR_THSD__POR", hex 0x23);
    ("TAIKO_A_CDC_CLSH_K_ADDR", hex 0x328); ("TAIKO_A_CDC_CLSH_K_ADDR__POR", hex 0x00);
    ("TAIKO_A_CDC_CLSH_K_DATA", hex 0x329); ("TAIKO_A_CDC_CLSH_K_DATA__POR", hex 0xA4);
    ("TAIKO_A_CDC_CLSH_I_PA_FACT_HPH_L", hex 0x32A);
    ("TAIKO_A_CDC_CLSH_I_PA_FACT_HPH_L__POR", hex 0xD7);
    ("TAIKO_A_CDC_CLSH_I_PA_FACT_HPH_U", hex 0x32B);
    ("TAIKO_A_CDC_CLSH_I_PA_FACT_HPH_U__POR", hex 0x05);
    ("TAIKO_A_CDC_CLSH_I_PA_FACT_EAR_L", hex 0x32C);
    ("TAIKO_A_CDC_CLSH_I_PA_FACT_EAR_L__POR", hex 0x60);
    ("TAIKO_A_CDC_CLSH_I_PA_FACT_EAR_U", hex 0x32D);
    ("TAIKO_A_CDC_CLSH_I_PA_FACT_EAR_U__POR", hex 0x09);
    ("TAIKO_A_CDC_CLSH_V_PA_HD_EAR", hex 0x32E); ("TAIKO_A_CDC_CLSH_V_PA_HD_EAR__POR", hex 0x00);
    ("TAIKO_A_CDC_CLSH_V_PA_HD_HPH", hex 0x32F); ("TAIKO_A_CDC_CLSH_V_PA_HD_HPH__POR", hex 0x00);
    ("TAIKO_A_CDC_CLSH_V_PA_MIN_EAR", hex 0x330);
    ("TAIKO_A_CDC_CLSH_V_PA_MIN_EAR__POR", hex 0x00);
    ("TAIKO_A_CDC_CLSH_V_PA_MIN_HPH", hex 0x331);
    ("TAIKO_A_CDC_CLSH_V_PA_MIN_HPH__POR", hex 0x00);
    ("TAIKO_A_CDC_IIR1_GAIN_B1_CTL", hex 0x340); ("TAIKO_A_CDC_IIR1_GAIN_B1_CTL__POR", hex 0x00);
    ("TAIKO_A_CDC_IIR2_GAIN_B1_CTL", hex 0x350); ("TAIKO_A_CDC_IIR2_GAIN_B1_CTL__POR", hex 0x00);
    ("TAIKO_A_CDC_IIR1_GAIN_B2_CTL", hex 0x341); ("TAIKO_A_CDC_IIR1_GAIN_B2_CTL__POR", hex 0x00);
    ("TAIKO_A_CDC_IIR2_GAIN_B2_CTL", hex 0x351); ("TAIKO_A_CDC_IIR2_GAIN_B2_CTL__POR", hex 0x00);
    ("TAIKO_A_CDC_IIR1_GAIN_B3_CTL", hex 0x342); ("TAIKO_A_CDC_IIR1_GAIN_B3_CTL__POR", hex 0x00);
    ("TAIKO_A_CDC_IIR2_GAIN_B3_CTL", hex 0x352); ("TAIKO_A_CDC_IIR2_GAIN_B3_CTL__POR", hex 0x00);
    ("TAIKO_A_CDC_IIR1_GAIN_B4_CTL", hex 0x343); ("TAIKO_A_CDC_IIR1_GAIN_B4_CTL__POR", hex 0x00);
    ("TAIKO_A_CDC_IIR2_GAIN_B4_CTL", hex 0x353); ("TAIKO_A_CDC_IIR2_GAIN_B4_CTL__POR", hex 0x00);
    ("TAIKO_A_CDC_IIR1_GAIN_B5_CTL", hex 0x344); ("TAIKO_A_CDC_IIR1_GAIN_B5_CTL__POR", hex 0x00);
    ("TAIKO_A_CDC_IIR2_GAIN_B5_CTL", hex 0x354); ("TAIKO_A_CDC_IIR2_GAIN_B5_CTL__POR", hex 0x00);
    ("TAIKO_A_CDC_IIR1_GAIN_B6_CTL", hex 0x345); ("TAIKO_A_CDC_IIR1_GAIN_B6_CTL__POR", hex 0x00);
    ("TAIKO_A_CDC_IIR2_GAIN_B6_CTL", hex 0x355); ("TAIKO_A_CDC_IIR2_GAIN_B6_CTL__POR", hex 0x00);
    ("TAIKO_A_CDC_IIR1_GAIN_B7_CTL", hex 0x346); ("TAIKO_A_CDC_IIR1_GAIN_B7_CTL__POR", hex 0x00);
    ("TAIKO_A_CDC_IIR2_GAIN_B7_CTL", hex 0x356); ("TAIKO_A_CDC_IIR2_GAIN_B7_CTL__POR", hex 0x00);
    ("TAIKO_A_CDC_IIR1_GAIN_B8_CTL", hex 0x347); ("TAIKO_A_CDC_IIR1_GAIN_B8_CTL__POR", hex 0x00);
    ("TAIKO_A_CDC_IIR2_GAIN_B8_CTL", hex 0x357); ("TAIKO_A_CDC_IIR2_GAIN_B8_CTL__POR", hex 0x00);
    ("TAIKO_A_CDC_IIR1_CTL", hex 0x348); ("TAIKO_A_CDC_IIR1_CTL__POR", hex 0x40);
    ("TAIKO_A_CDC_IIR2_CTL", hex 0x358); ("TAIKO_A_CDC_IIR2_CTL__POR", hex 0x40);
    ("TAIKO_A_CDC_IIR1_GAIN_TIMER_CTL", hex 0x349);
    ("TAIKO_A_CDC_IIR1_GAIN_TIMER_CTL__POR", hex 0x00);
    ("TAIKO_A_CDC_IIR2_GAIN_TIMER_CTL", hex 0x359);
    ("TAIKO_A_CDC_IIR2_GAIN_TIMER_CTL__POR", hex 0x00);
    ("TAIKO_A_CDC_IIR1_COEF_B1_CTL", hex 0x34A); ("TAIKO_A_CDC_IIR1_COEF_B1_CTL__POR", hex 0x00);
    ("TAIKO_A_CDC_IIR2_COEF_B1_CTL", hex 0x35A); ("TAIKO_A_CDC_IIR2_COEF_B1_CTL__POR", hex 0x00);
    ("TAIKO_A_CDC_IIR1_COEF_B2_CTL", hex 0x34B); ("TAIKO_A_CDC_IIR1_COEF_B2_CTL__POR", hex 0x00);
    ("TAIKO_A_CDC_IIR2_COEF_B2_CTL", hex 0x35B); ("TAIKO_A_CDC_IIR2_COEF_B2_CTL__POR", hex 0x00);
    ("TAIKO_A_CDC_TOP_GAIN_UPDATE", hex 0x360); ("TAIKO_A_CDC_TOP_GAIN_UPDATE__POR", hex 0x00);
    ("TAIKO_A_CDC_COMP0_B1_CTL", hex 0x368); ("TAIKO_A_CDC_COMP0_B1_CTL__POR", hex 0x30);
    ("TAIKO_A_CDC_COMP1_B1_CTL", hex 0x370); ("TAIKO_A_CDC_COMP1_B1_CTL__POR", hex 0x30);
    ("TAIKO_A_CDC_COMP2_B1_CTL", hex 0x378); ("TAIKO_A_CDC_COMP2_B1_CTL__POR", hex 0x30)]].
Definition defs_TAIKO_A_CDC_COMP0_B2_CTL : list decl := [
  Defines [
    ("TAIKO_A_CDC_COMP0_B2_CTL", hex 0x369); ("TAIKO_A_CDC_COMP0_B2_CTL__POR", hex 0xB5);
    ("TAIKO_A_CDC_COMP1_B2_CTL", hex 0x371); ("TAIKO_A_CDC_COMP1_B2_CTL__POR", hex 0xB5);
    ("TAIKO_A_CDC_COMP2_B2_CTL", hex 0x379); ("TAIKO_A_CDC_COMP2_B2_CTL__POR", hex 0xB5);
    ("TAIKO_A_CDC_COMP0_B3_CTL", hex 0x36A); ("TAIKO_A_CDC_COMP0_B3_CTL__POR", hex 0x28);
    ("TAIKO_A_CDC_COMP1_B3_CTL", hex 0x372); ("TAIKO_A_CDC_COMP1_B3_CTL__POR", hex 0x28);
    ("TAIKO_A_CDC_COMP2_B3_CTL", hex 0x37A); ("TAIKO_A_CDC_COMP2_B3_CTL__POR", hex 0x28);
    ("TAIKO_A_CDC_COMP0_B4_CTL", hex 0x36B); ("TAIKO_A_CDC_COMP0_B4_CTL__POR", hex 0x3C);
    ("TAIKO_A_CDC_COMP1_B4_CTL", hex 0x373); ("TAIKO_A_CDC_COMP1_B4_CTL__POR", hex 0x3C);
    ("TAIKO_A_CDC_COMP2_B4_CTL", hex 0x37B); ("TAIKO_A_CDC_COMP2_B4_CTL__POR", hex 0x3C);
    ("TAIKO_A_CDC_COMP0_B5_CTL", hex 0x36C); ("TAIKO_A_CDC_COMP0_B5_CTL__POR", hex 0x1F);
    ("TAIKO_A_CDC_COMP1_B5_CTL", hex 0x374); ("TAIKO_A_CDC_COMP1_B5_CTL__POR", hex 0x1F);
    ("TAIKO_A_CDC_COMP2_B5_CTL", hex 0x37C); ("TAIKO_A_CDC_COMP2_B5_CTL__POR", hex 0x1F);
    ("TAIKO_A_CDC_COMP0_B6_CTL", hex 0x36D); ("TAIKO_A_CDC_COMP0_B6_CTL__POR", hex 0x00);
    ("TAIKO_A_CDC_COMP1_B6_CTL", hex 0x375); ("TAIKO_A_CDC_COMP1_B6_CTL__POR", hex 0x00);
    ("TAIKO_A_CDC_COMP2_B6_CTL", hex 0x37D); ("TAIKO_A_CDC_COMP2_B6_CTL__POR", hex 0x00);
    ("TAIKO_A_CDC_COMP0_SHUT_DOWN_STATUS", hex 0x36E);
    ("TAIKO_A_CDC_COMP0_SHUT_DOWN_STATUS__POR", hex 0x03);
    ("TAIKO_A_CDC_COMP1_SHUT_DOWN_STATUS", hex 0x376);
    ("TAIKO_A_CDC_COMP1_SHUT_DOWN_STATUS__POR", hex 0x03);
    ("TAIKO_A_CDC_COMP2_SHUT_DOWN_STATUS", hex 0x37E);
    ("TAIKO_A_CDC_COMP2_SHUT_DOWN_STATUS__POR", hex 0x03);
    ("TAIKO_A_CDC_COMP0_FS_CFG", hex 0x36F); ("TAIKO_A_CDC_COMP0_FS_CFG__POR", hex 0x03);
    ("TAIKO_A_CDC_COMP1_FS_CFG", hex 0x377); ("TAIKO_A_CDC_COMP1_FS_CFG__POR", hex 0x03);
    ("TAIKO_A_CDC_COMP2_FS_CFG", hex 0x37F); ("TAIKO_A_CDC_COMP2_FS_CFG__POR", hex 0x03);
    ("TAIKO_A_CDC_CONN_RX1_B1_CTL", hex 0x380); ("TAIKO_A_CDC_CONN_RX1_B1_CTL__POR", hex 0x00);
    ("TAIKO_A_CDC_CONN_RX1_B2_CTL", hex 0x381); ("TAIKO_A_CDC_CONN_RX1_B2_CTL__POR", hex 0x00);
    ("TAIKO_A_CDC_CONN_RX1_B3_CTL", hex 0x382); ("TAIKO_A_CDC_CONN_RX1_B3_CTL__POR", hex 0x00);
    ("TAIKO_A_CDC_CONN_RX2_B1_CTL", hex 0x383); ("TAIKO_A_CDC_CONN_RX2_B1_CTL__POR", hex 0x00);
    ("TAIKO_A_CDC_CONN_RX2_B2_CTL", hex 0x384); ("TAIKO_A_CDC_CONN_RX2_B2_CTL__POR", hex 0x00);
    ("TAIKO_A_CDC_CONN_RX2_B3_CTL", hex 0x385); ("TAIKO_A_CDC_CONN_RX2_B3_CTL__POR", hex 0x00);
    ("TAIKO_A_CDC_CONN_RX3_B1_CTL", hex 0x386); ("TAIKO_A_CDC_CONN_RX3_B1_CTL__POR", hex 0x00);
    ("TAIKO_A_CDC_CONN_RX3_B2_CTL", hex 0x387); ("TAIKO_A_CDC_CONN_RX3_B2_CTL__POR", hex 0x00);
    ("TAIKO_A_CDC_CONN_RX4_B1_CTL", hex 0x388); ("TAIKO_A_CDC_CONN_RX4_B1_CTL__POR", hex 0x00);
    ("TAIKO_A_CDC_CONN_RX4_B2_CTL", hex 0x389); ("TAIKO_A_CDC_CONN_RX4_B2_CTL__POR", hex 0x00);
    ("TAIKO_A_CDC_CONN_RX5_B1_CTL", hex 0x38A); ("TAIKO_A_CDC_CONN_RX5_B1_CTL__POR", hex 0x00);
    ("TAIKO_A_CDC_CONN_RX5_B2_CTL", hex 0x38B); ("TAIKO_A_CDC_CONN_RX5_B2_CTL__POR", hex 0x00);
    ("TAIKO_A_CDC_CONN_RX6_B1_CTL", hex 0x38C); ("TAIKO_A_CDC_CONN_RX6_B1_CTL__POR", hex 0x00);
    ("TAIKO_A_CDC_CONN_RX6_B2_CTL", hex 0x38D); ("TAIKO_A_CDC_CONN_RX6_B2_CTL__POR", hex 0x00);
    ("TAIKO_A_CDC_CONN_RX7_B1_CTL", hex 0x38E); ("TAIKO_A_CDC_CONN_RX7_B1_CTL__POR", hex 0x00);
    ("TAIKO_A_CDC_CONN_RX7_B2_CTL", hex 0x38F); ("TAIKO_A_CDC_CONN_RX7_B2_CTL__POR", hex 0x00);
    ("TAIKO_A_CDC_CONN_RX7_B3_CTL", hex 0x390); ("TAIKO_A_CDC_CONN_RX7_B3_CTL__POR", hex 0x00);
    ("TAIKO_A_CDC_CONN_ANC_B1_CTL", hex 0x391); ("TAIKO_A_CDC_CONN_ANC_B1_CTL__POR", hex 0x00);
    ("TAIKO_A_CDC_CONN_ANC_B2_CTL", hex 0x392); ("TAIKO_A_CDC_CONN_ANC_B2_CTL__POR", hex 0x00);
    ("TAIKO_A_CDC_CONN_TX_B1_CTL", hex 0x393); ("TAIKO_A_CDC_CONN_TX_B1_CTL__POR", hex 0x00);
    ("TAIKO_A_CDC_CONN_TX_B2_CTL", hex 0x394); ("TAIKO_A_CDC_CONN_TX_B2_CTL__POR", hex 0x00);
    ("TAIKO_A_CDC_CONN_TX_B3_CTL", hex 0x395); ("TAIKO_A_CDC_CONN_TX_B3_CTL__POR", hex 0x00);
    ("TAIKO_A_CDC_CONN_TX_B4_CTL", hex 0x396); ("TAIKO_A_CDC_CONN_TX_B4_CTL__POR", hex 0x00);
    ("TAIKO_A_CDC_CONN_EQ1_B1_CTL", hex 0x397); ("TAIKO_A_CDC_CONN_EQ1_B1_CTL__POR", hex 0x00);
    ("TAIKO_A_CDC_CONN_EQ1_B2_CTL", hex 0x398); ("TAIKO_A_CDC_CONN_EQ1_B2_CTL__POR", hex 0x00);
    ("TAIKO_A_CDC_CONN_EQ1_B3_CTL", hex 0x399); ("TAIKO_A_CDC_CONN_EQ1_B3_CTL__POR", hex 0x00);
    ("TAIKO_A_CDC_CONN_EQ1_B4_CTL", hex 0x39A); ("TAIKO_A_CDC_CONN_EQ1_B4_CTL__POR", hex 0x00);
    ("TAIKO_A_CDC_CONN_EQ2_B1_CTL", hex 0x39B); ("TAIKO_A_CDC_CONN_EQ2_B1_CTL__POR", hex 0x00);
    ("TAIKO_A_CDC_CONN_EQ2_B2_CTL", hex 0x39C); ("TAIKO_A_CDC_CONN_EQ2_B2_CTL__POR", hex 0x00);
    ("TAIKO_A_CDC_CONN_EQ2_B3_CTL", hex 0x39D); ("TAIKO_A_CDC_CONN_EQ2_B3_CTL__POR", hex 0x00);
    ("TAIKO_A_CDC_CONN_EQ2_B4_CTL", hex 0x39E); ("TAIKO_A_CDC_CONN_EQ2_B4_CTL__POR", hex 0x00);
    ("TAIKO_A_CDC_CONN_SRC1_B1_CTL", hex 0x39F); ("TAIKO_A_CDC_CONN_SRC1_B1_CTL__POR", hex 0x00);
    ("TAIKO_A_CDC_CONN_SRC1_B2_CTL", hex 0x3A0); ("TAIKO_A_CDC_CONN_SRC1_B2_CTL__POR", hex 0x00);
    ("TAIKO_A_CDC_CONN_SRC2_B1_CTL", hex 0x3A1); ("TAIKO_A_CDC_CONN_SRC2_B1_CTL__POR", hex 0x00);
    ("TAIKO_A_CDC_CONN_SRC2_B2_CTL", hex 0x3A2); ("TAIKO_A_CDC_CONN_SRC2_B2_CTL__POR", hex 0x00);
    ("TAIKO_A_CDC_CONN_TX_SB_B1_CTL", hex 0x3A3);
    ("TAIKO_A_CDC_CONN_TX_SB_B1_CTL__POR", hex 0x00);
    ("TAIKO_A_CDC_CONN_TX_SB_B2_CTL", hex 0x3A4);
    ("TAIKO_A_CDC_CONN_TX_SB_B2_CTL__POR", hex 0x00);
    ("TAIKO_A_CDC_CONN_TX_SB_B3_CTL", hex 0x3A5);
    ("TAIKO_A_CDC_CONN_TX_SB_B3_CTL__POR", hex 0x00);
    ("TAIKO_A_CDC_CONN_TX_SB_B4_CTL", hex 0x3A6);
    ("TAIKO_A_CDC_CONN_TX_SB_B4_CTL__POR", hex 0x00);
    ("TAIKO_A_CDC_CONN_TX_SB_B5_CTL", hex 0x3A7);
    ("TAIKO_A_CDC_CONN_TX_SB_B5_CTL__POR", hex 0x00);
    ("TAIKO_A_CDC_CONN_TX_SB_B6_CTL", hex 0x3A8);
    ("TAIKO_A_CDC_CONN_TX_SB_B6_CTL__POR", hex 0x00);
    ("TAIKO_A_CDC_CONN_TX_SB_B7_CTL", hex 0x3A9);
    ("TAIKO_A_CDC_CONN_TX_SB_B7_CTL__POR", hex 0x00);
    ("TAIKO_A_CDC_CONN_TX_SB_B8_CTL", hex 0x3AA);
    ("TAIKO_A_CDC_CONN_TX_SB_B8_CTL__POR", hex 0x00);
    ("TAIKO_A_CDC_CONN_TX_SB_B9_CTL", hex 0x3AB);
    ("TAIKO_A_CDC_CONN_TX_SB_B9_CTL__POR", hex 0x00);
    ("TAIKO_A_CDC_CONN_TX_SB_B10_CTL", hex 0x3AC);
    ("TAIKO_A_CDC_CONN_TX_SB_B10_CTL__POR", hex 0x00);
    ("TAIKO_A_CDC_CONN_TX_SB_B11_CTL", hex 0x3AD);
    ("TAIKO_A_CDC_CONN_TX_SB_B11_CTL__POR", hex 0x00);
    ("TAIKO_A_CDC_CONN_RX_SB_B1_CTL", hex 0x3AE);
    ("TAIKO_A_CDC_CONN_RX_SB_B1_CTL__POR", hex 0x00);
    ("TAIKO_A_CDC_CONN_RX_SB_B2_CTL", hex 0x3AF);
    ("TAIKO_A_CDC_CONN_RX_SB_B2_CTL__POR", hex 0x00); ("TAIKO_A_CDC_CONN_CLSH_CTL", hex 0x3B0);
    ("TAIKO_A_CDC_CONN_CLSH_CTL__POR", hex 0x00); ("TAIKO_A_CDC_CONN_MISC", hex 0x3B1);
    ("TAIKO_A_CDC_CONN_MISC__POR", hex 0x01); ("TAIKO_A_CDC_CONN_MAD", hex 0x3B2);
    ("TAIKO_A_CDC_CONN_MAD__POR", hex 0x01); ("TAIKO_A_CDC_MBHC_EN_CTL", hex 0x3C0);
    ("TAIKO_A_CDC_MBHC_EN_CTL__POR", hex 0x00); ("TAIKO_A_CDC_MBHC_FIR_B1_CFG", hex 0x3C1);
    ("TAIKO_A_CDC_MBHC_FIR_B1_CFG__POR", hex 0x00); ("TAIKO_A_CDC_MBHC_FIR_B2_CFG", hex 0x3C2);
    ("TAIKO_A_CDC_MBHC_FIR_B2_CFG__POR", hex 0x06)]].
Definition defs_TAIKO_A_CDC_MBHC_TIMER_B1_CTL : list decl := [
  Defines [
    ("TAIKO_A_CDC_MBHC_TIMER_B1_CTL", hex 0x3C3);
    ("TAIKO_A_CDC_MBHC_TIMER_B1_CTL__POR", hex 0x03);
    ("TAIKO_A_CDC_MBHC_TIMER_B2_CTL", hex 0x3C4);
    ("TAIKO_A_CDC_MBHC_TIMER_B2_CTL__POR", hex 0x09);
    ("TAIKO_A_CDC_MBHC_TIMER_B3_CTL", hex 0x3C5);
    ("TAIKO_A_CDC_MBHC_TIMER_B3_CTL__POR", hex 0x1E);
    ("TAIKO_A_CDC_MBHC_TIMER_B4_CTL", hex 0x3C6);
    ("TAIKO_A_CDC_MBHC_TIMER_B4_CTL__POR", hex 0x45);
    ("TAIKO_A_CDC_MBHC_TIMER_B5_CTL", hex 0x3C7);
    ("TAIKO_A_CDC_MBHC_TIMER_B5_CTL__POR", hex 0x04);
    ("TAIKO_A_CDC_MBHC_TIMER_B6_CTL", hex 0x3C8);
    ("TAIKO_A_CDC_MBHC_TIMER_B6_CTL__POR", hex 0x78); ("TAIKO_A_CDC_MBHC_B1_STATUS", hex 0x3C9);
    ("TAIKO_A_CDC_MBHC_B1_STATUS__POR", hex 0x00); ("TAIKO_A_CDC_MBHC_B2_STATUS", hex 0x3CA);
    ("TAIKO_A_CDC_MBHC_B2_STATUS__POR", hex 0x00); ("TAIKO_A_CDC_MBHC_B3_STATUS", hex 0x3CB);
    ("TAIKO_A_CDC_MBHC_B3_STATUS__POR", hex 0x00); ("TAIKO_A_CDC_MBHC_B4_STATUS", hex 0x3CC);
    ("TAIKO_A_CDC_MBHC_B4_STATUS__POR", hex 0x00); ("TAIKO_A_CDC_MBHC_B5_STATUS", hex 0x3CD);
    ("TAIKO_A_CDC_MBHC_B5_STATUS__POR", hex 0x00); ("TAIKO_A_CDC_MBHC_B1_CTL", hex 0x3CE);
    ("TAIKO_A_CDC_MBHC_B1_CTL__POR", hex 0xC0); ("TAIKO_A_CDC_MBHC_B2_CTL", hex 0x3CF);
    ("TAIKO_A_CDC_MBHC_B2_CTL__POR", hex 0x5D); ("TAIKO_A_CDC_MBHC_VOLT_B1_CTL", hex 0x3D0);
    ("TAIKO_A_CDC_MBHC_VOLT_B1_CTL__POR", hex 0x00); ("TAIKO_A_CDC_MBHC_VOLT_B2_CTL", hex 0x3D1);
    ("TAIKO_A_CDC_MBHC_VOLT_B2_CTL__POR", hex 0x00); ("TAIKO_A_CDC_MBHC_VOLT_B3_CTL", hex 0x3D2);
    ("TAIKO_A_CDC_MBHC_VOLT_B3_CTL__POR", hex 0x00); ("TAIKO_A_CDC_MBHC_VOLT_B4_CTL", hex 0x3D3);
    ("TAIKO_A_CDC_MBHC_VOLT_B4_CTL__POR", hex 0x00); ("TAIKO_A_CDC_MBHC_VOLT_B5_CTL", hex 0x3D4);
    ("TAIKO_A_CDC_MBHC_VOLT_B5_CTL__POR", hex 0x00); ("TAIKO_A_CDC_MBHC_VOLT_B6_CTL", hex 0x3D5);
    ("TAIKO_A_CDC_MBHC_VOLT_B6_CTL__POR", hex 0x00); ("TAIKO_A_CDC_MBHC_VOLT_B7_CTL", hex 0x3D6);
    ("TAIKO_A_CDC_MBHC_VOLT_B7_CTL__POR", hex 0xFF); ("TAIKO_A_CDC_MBHC_VOLT_B8_CTL", hex 0x3D7);
    ("TAIKO_A_CDC_MBHC_VOLT_B8_CTL__POR", hex 0x07); ("TAIKO_A_CDC_MBHC_VOLT_B9_CTL", hex 0x3D8);
    ("TAIKO_A_CDC_MBHC_VOLT_B9_CTL__POR", hex 0xFF);
    ("TAIKO_A_CDC_MBHC_VOLT_B10_CTL", hex 0x3D9);
    ("TAIKO_A_CDC_MBHC_VOLT_B10_CTL__POR", hex 0x7F);
    ("TAIKO_A_CDC_MBHC_VOLT_B11_CTL", hex 0x3DA);
    ("TAIKO_A_CDC_MBHC_VOLT_B11_CTL__POR", hex 0x00);
    ("TAIKO_A_CDC_MBHC_VOLT_B12_CTL", hex 0x3DB);
    ("TAIKO_A_CDC_MBHC_VOLT_B12_CTL__POR", hex 0x80); ("TAIKO_A_CDC_MBHC_CLK_CTL", hex 0x3DC);
    ("TAIKO_A_CDC_MBHC_CLK_CTL__POR", hex 0x00); ("TAIKO_A_CDC_MBHC_INT_CTL", hex 0x3DD);
    ("TAIKO_A_CDC_MBHC_INT_CTL__POR", hex 0x00); ("TAIKO_A_CDC_MBHC_DEBUG_CTL", hex 0x3DE);
    ("TAIKO_A_CDC_MBHC_DEBUG_CTL__POR", hex 0x00); ("TAIKO_A_CDC_MBHC_SPARE", hex 0x3DF);
    ("TAIKO_A_CDC_MBHC_SPARE__POR", hex 0x00); ("TAIKO_A_CDC_MAD_MAIN_CTL_1", hex 0x3E0);
    ("TAIKO_A_CDC_MAD_MAIN_CTL_1__POR", hex 0x00); ("TAIKO_A_CDC_MAD_MAIN_CTL_2", hex 0x3E1);
    ("TAIKO_A_CDC_MAD_MAIN_CTL_2__POR", hex 0x00); ("TAIKO_A_CDC_MAD_AUDIO_CTL_1", hex 0x3E2);
    ("TAIKO_A_CDC_MAD_AUDIO_CTL_1__POR", hex 0x00); ("TAIKO_A_CDC_MAD_AUDIO_CTL_2", hex 0x3E3);
    ("TAIKO_A_CDC_MAD_AUDIO_CTL_2__POR", hex 0x00); ("TAIKO_A_CDC_MAD_AUDIO_CTL_3", hex 0x3E4);
    ("TAIKO_A_CDC_MAD_AUDIO_CTL_3__POR", hex 0x00); ("TAIKO_A_CDC_MAD_AUDIO_CTL_4", hex 0x3E5);
    ("TAIKO_A_CDC_MAD_AUDIO_CTL_4__POR", hex 0x00); ("TAIKO_A_CDC_MAD_AUDIO_CTL_5", hex 0x3E6);
    ("TAIKO_A_CDC_MAD_AUDIO_CTL_5__POR", hex 0x00); ("TAIKO_A_CDC_MAD_AUDIO_CTL_6", hex 0x3E7);
    ("TAIKO_A_CDC_MAD_AUDIO_CTL_6__POR", hex 0x00); ("TAIKO_A_CDC_MAD_AUDIO_CTL_7", hex 0x3E8);
    ("TAIKO_A_CDC_MAD_AUDIO_CTL_7__POR", hex 0x00); ("TAIKO_A_CDC_MAD_AUDIO_CTL_8", hex 0x3E9);
    ("TAIKO_A_CDC_MAD_AUDIO_CTL_8__POR", hex 0x00);
    ("TAIKO_A_CDC_MAD_AUDIO_IIR_CTL_PTR", hex 0x3EA);
    ("TAIKO_A_CDC_MAD_AUDIO_IIR_CTL_PTR__POR", hex 0x00);
    ("TAIKO_A_CDC_MAD_AUDIO_IIR_CTL_VAL", hex 0x3EB);
    ("TAIKO_A_CDC_MAD_AUDIO_IIR_CTL_VAL__POR", hex 0x40);
    ("TAIKO_A_CDC_MAD_ULTR_CTL_1", hex 0x3EC); ("TAIKO_A_CDC_MAD_ULTR_CTL_1__POR", hex 0x00);
    ("TAIKO_A_CDC_MAD_ULTR_CTL_2", hex 0x3ED); ("TAIKO_A_CDC_MAD_ULTR_CTL_2__POR", hex 0x00);
    ("TAIKO_A_CDC_MAD_ULTR_CTL_3", hex 0x3EE); ("TAIKO_A_CDC_MAD_ULTR_CTL_3__POR", hex 0x00);
    ("TAIKO_A_CDC_MAD_ULTR_CTL_4", hex 0x3EF); ("TAIKO_A_CDC_MAD_ULTR_CTL_4__POR", hex 0x00);
    ("TAIKO_A_CDC_MAD_ULTR_CTL_5", hex 0x3F0); ("TAIKO_A_CDC_MAD_ULTR_CTL_5__POR", hex 0x00);
    ("TAIKO_A_CDC_MAD_ULTR_CTL_6", hex 0x3F1); ("TAIKO_A_CDC_MAD_ULTR_CTL_6__POR", hex 0x00);
    ("TAIKO_A_CDC_MAD_ULTR_CTL_7", hex 0x3F2); ("TAIKO_A_CDC_MAD_ULTR_CTL_7__POR", hex 0x00);
    ("TAIKO_A_CDC_MAD_BEACON_CTL_1", hex 0x3F3); ("TAIKO_A_CDC_MAD_BEACON_CTL_1__POR", hex 0x00);
    ("TAIKO_A_CDC_MAD_BEACON_CTL_2", hex 0x3F4); ("TAIKO_A_CDC_MAD_BEACON_CTL_2__POR", hex 0x00);
    ("TAIKO_A_CDC_MAD_BEACON_CTL_3", hex 0x3F5); ("TAIKO_A_CDC_MAD_BEACON_CTL_3__POR", hex 0x00);
    ("TAIKO_A_CDC_MAD_BEACON_CTL_4", hex 0x3F6); ("TAIKO_A_CDC_MAD_BEACON_CTL_4__POR", hex 0x00);
    ("TAIKO_A_CDC_MAD_BEACON_CTL_5", hex 0x3F7); ("TAIKO_A_CDC_MAD_BEACON_CTL_5__POR", hex 0x00);
    ("TAIKO_A_CDC_MAD_BEACON_CTL_6", hex 0x3F8); ("TAIKO_A_CDC_MAD_BEACON_CTL_6__POR", hex 0x00);
    ("TAIKO_A_CDC_MAD_BEACON_CTL_7", hex 0x3F9); ("TAIKO_A_CDC_MAD_BEACON_CTL_7__POR", hex 0x00);
    ("TAIKO_A_CDC_MAD_BEACON_CTL_8", hex 0x3FA); ("TAIKO_A_CDC_MAD_BEACON_CTL_8__POR", hex 0x00);
    ("TAIKO_A_CDC_MAD_BEACON_IIR_CTL_PTR", hex 0x3FB);
    ("TAIKO_A_CDC_MAD_BEACON_IIR_CTL_PTR__POR", hex 0x00);
    ("TAIKO_A_CDC_MAD_BEACON_IIR_CTL_VAL", hex 0x3FC);
    ("TAIKO_A_CDC_MAD_BEACON_IIR_CTL_VAL__POR", hex 0x00); ("TAIKO_A_CDC_TX_1_GAIN", hex 0x153);
    ("TAIKO_A_CDC_TX_1_GAIN__POR", hex 0x02); ("TAIKO_A_CDC_TX_2_GAIN", hex 0x155);
    ("TAIKO_A_CDC_TX_2_GAIN__POR", hex 0x02); ("TAIKO_A_CDC_TX_1_2_ADC_IB", hex 0x156);
    ("TAIKO_A_CDC_TX_1_2_ADC_IB__POR", hex 0x44); ("TAIKO_A_CDC_TX_3_GAIN", hex 0x15D);
    ("TAIKO_A_CDC_TX_3_GAIN__POR", hex 0x02); ("TAIKO_A_CDC_TX_4_GAIN", hex 0x15F);
    ("TAIKO_A_CDC_TX_4_GAIN__POR", hex 0x02); ("TAIKO_A_CDC_TX_3_4_ADC_IB", hex 0x160);
    ("TAIKO_A_CDC_TX_3_4_ADC_IB__POR", hex 0x44); ("TAIKO_A_CDC_TX_5_GAIN", hex 0x167);
    ("TAIKO_A_CDC_TX_5_GAIN__POR", hex 0x02); ("TAIKO_A_CDC_TX_6_GAIN", hex 0x169);
    ("TAIKO_A_CDC_TX_6_GAIN__POR", hex 0x02); ("TAIKO_A_CDC_TX_5_6_ADC_IB", hex 0x16A);
    ("TAIKO_A_CDC_TX_5_6_ADC_IB__POR", hex 0x44); ("TAIKO_A_CDC_SPKR_CLIPDET_VAL0", hex 0x270);
    ("TAIKO_A_CDC_SPKR_CLIPDET_VAL0__POR", hex 0x00);
    ("TAIKO_A_CDC_SPKR_CLIPDET_VAL1", hex 0x271);
    ("TAIKO_A_CDC_SPKR_CLIPDET_VAL1__POR", hex 0x00);
    ("TAIKO_A_CDC_SPKR_CLIPDET_VAL2", hex 0x272);
    ("TAIKO_A_CDC_SPKR_CLIPDET_VAL2__POR", hex 0x00);
    ("TAIKO_A_CDC_SPKR_CLIPDET_VAL3", hex 0x273);
    ("TAIKO_A_CDC_SPKR_CLIPDET_VAL3__POR", hex 0x00);
    ("TAIKO_A_CDC_SPKR_CLIPDET_VAL4", hex 0x274);
    ("TAIKO_A_CDC_SPKR_CLIPDET_VAL4__POR", hex 0x00);
    ("TAIKO_A_CDC_SPKR_CLIPDET_VAL5", hex 0x275);
    ("TAIKO_A_CDC_SPKR_CLIPDET_VAL5__POR", hex 0x00);
    ("TAIKO_A_CDC_SPKR_CLIPDET_VAL6", hex 0x276);
    ("TAIKO_A_CDC_SPKR_CLIPDET_VAL6__POR", hex 0x00)]].
Definition defs_TAIKO_A_CDC_SPKR_CLIPDET_VAL7 : list decl := [
  Defines [
    ("TAIKO_A_CDC_SPKR_CLIPDET_VAL7", hex 0x277);
    ("TAIKO_A_CDC_SPKR_CLIPDET_VAL7__POR", hex 0x00);
    ("TAIKO_A_CDC_VBAT_GAIN_UPD_MON", hex 0x2FA);
    ("TAIKO_A_CDC_VBAT_GAIN_UPD_MON__POR", hex 0x00);
    ("TAIKO_A_CDC_VBAT_GAIN_MON_VAL", hex 0x2FB);
    ("TAIKO_A_CDC_VBAT_GAIN_MON_VAL__POR", hex 0x00); ("TAIKO_A_CDC_PA_RAMP_B1_CTL", hex 0x361);
    ("TAIKO_A_CDC_PA_RAMP_B1_CTL__POR", hex 0x00); ("TAIKO_A_CDC_PA_RAMP_B2_CTL", hex 0x362);
    ("TAIKO_A_CDC_PA_RAMP_B2_CTL__POR", hex 0x00); ("TAIKO_A_CDC_PA_RAMP_B3_CTL", hex 0x363);
    ("TAIKO_A_CDC_PA_RAMP_B3_CTL__POR", hex 0x00); ("TAIKO_A_CDC_PA_RAMP_B4_CTL", hex 0x364);
    ("TAIKO_A_CDC_PA_RAMP_B4_CTL__POR", hex 0x00);
    ("TAIKO_A_CDC_SPKR_CLIPDET_B1_CTL", hex 0x365);
    ("TAIKO_A_CDC_SPKR_CLIPDET_B1_CTL__POR", hex 0x00);
    ("TAIKO_SLIM_PGD_PORT_INT_EN0", hex 0x30); ("TAIKO_SLIM_PGD_PORT_INT_STATUS_RX_0", hex 0x34);
    ("TAIKO_SLIM_PGD_PORT_INT_STATUS_RX_1", hex 0x35);
    ("TAIKO_SLIM_PGD_PORT_INT_STATUS_TX_0", hex 0x36);
    ("TAIKO_SLIM_PGD_PORT_INT_STATUS_TX_1", hex 0x37);
    ("TAIKO_SLIM_PGD_PORT_INT_CLR_RX_0", hex 0x38);
    ("TAIKO_SLIM_PGD_PORT_INT_CLR_RX_1", hex 0x39);
    ("TAIKO_SLIM_PGD_PORT_INT_CLR_TX_0", hex 0x3A);
    ("TAIKO_SLIM_PGD_PORT_INT_CLR_TX_1", hex 0x3B);
    ("TAIKO_SLIM_PGD_PORT_INT_RX_SOURCE0", hex 0x60);
    ("TAIKO_SLIM_PGD_PORT_INT_TX_SOURCE0", hex 0x70)]].
Definition header : header :=
  Header "linux/mfd/wcd9xxx/wcd9320_registers.h" [Mfd_wcd9xxx_wcd9xxx_registers.header] (concat [
    defs_TAIKO_A_CHIP_CTL; defs_TAIKO_A_CDC_INTR2_MODE; defs_TAIKO_A_TX_3_4_SAR_ERR_CH4;
    defs_TAIKO_A_RX_EAR_GAIN; defs_TAIKO_A_CDC_ANC2_LPF_B1_CTL; defs_TAIKO_A_CDC_DEBUG_B3_CTL;
    defs_TAIKO_A_CDC_VBAT_TAC2; defs_TAIKO_A_CDC_COMP0_B2_CTL;
    defs_TAIKO_A_CDC_MBHC_TIMER_B1_CTL; defs_TAIKO_A_CDC_SPKR_CLIPDET_VAL7]).
End Mfd_wcd9xxx_wcd9320_registers.

(** ** [linux/msm_audio.h] *)

Module Msm_audio.
Definition defs_AUDIO_MAX_COMMON_IOCTL_NUM : list decl := [
  Defines [
    ("AUDIO_MAX_COMMON_IOCTL_NUM", dec 107); ("HANDSET_MIC", hex 0x01);
    ("HANDSET_SPKR", hex 0x02); ("HEADSET_MIC", hex 0x03); ("HEADSET_SPKR_MONO", hex 0x04);
    ("HEADSET_SPKR_STEREO", hex 0x05); ("SPKR_PHONE_MIC", hex 0x06);
    ("SPKR_PHONE_MONO", hex 0x07); ("SPKR_PHONE_STEREO", hex 0x08); ("BT_SCO_MIC", hex 0x09);
    ("BT_SCO_SPKR", hex 0x0A); ("BT_A2DP_SPKR", hex 0x0B); ("TTY_HEADSET_MIC", hex 0x0C);
    ("TTY_HEADSET_SPKR", hex 0x0D)];
  Defines [
    ("DEFAULT_TX", hex 0x0E); ("DEFAULT_RX", hex 0x0F); ("BT_A2DP_TX", hex 0x10);
    ("HEADSET_MONO_PLUS_SPKR_MONO_RX", hex 0x11); ("HEADSET_MONO_PLUS_SPKR_STEREO_RX", hex 0x12);
    ("HEADSET_STEREO_PLUS_SPKR_MONO_RX", hex 0x13);
    ("HEADSET_STEREO_PLUS_SPKR_STEREO_RX", hex 0x14); ("I2S_RX", hex 0x20); ("I2S_TX", hex 0x21);
    ("ADRC_ENABLE", hex 0x0001); ("EQUALIZER_ENABLE", hex 0x0002); ("IIR_ENABLE", hex 0x0004);
    ("QCONCERT_PLUS_ENABLE", hex 0x0008); ("MBADRC_ENABLE", hex 0x0010);
    ("SRS_ENABLE", hex 0x0020); ("SRS_DISABLE", hex 0x0040); ("AGC_ENABLE", hex 0x0001);
    ("NS_ENABLE", hex 0x0002); ("TX_IIR_ENABLE", hex 0x0004); ("FLUENCE_ENABLE", hex 0x0008);
    ("VOC_REC_UPLINK", hex 0x00); ("VOC_REC_DOWNLINK", hex 0x01); ("VOC_REC_BOTH", hex 0x02)]].
Definition enum_cad_device_path_type : list decl := [
  Enum [
    ("CAD_DEVICE_PATH_RX", None); ("CAD_DEVICE_PATH_TX", None); ("CAD_DEVICE_PATH_RX_TX", None);
    ("CAD_DEVICE_PATH_LB", None); ("CAD_DEVICE_PATH_MAX", None)]].
Definition defs_AUDIO_EVENT_SUSPEND : list decl := [
  Defines [
    ("AUDIO_EVENT_SUSPEND", dec 0); ("AUDIO_EVENT_RESUME", dec 1);
    ("AUDIO_EVENT_WRITE_DONE", dec 2); ("AUDIO_EVENT_READ_DONE", dec 3);
    ("AUDIO_EVENT_STREAM_INFO", dec 4); ("AUDIO_EVENT_BITSTREAM_ERROR_INFO", dec 5);
    ("AUDIO_CODEC_TYPE_MP3", dec 0); ("AUDIO_CODEC_TYPE_AAC", dec 1)]].
Definition defs_AUDIO_ROUTE_STREAM_VOICE_RX : list decl := [
  Defines [
    ("AUDIO_ROUTE_STREAM_VOICE_RX", dec 0); ("AUDIO_ROUTE_STREAM_VOICE_TX", dec 1);
    ("AUDIO_ROUTE_STREAM_PLAYBACK", dec 2); ("AUDIO_ROUTE_STREAM_REC", dec 3)]].
Definition defs_ADSP_STREAM_PP_EVENT : list decl := [
  Defines [
    ("ADSP_STREAM_PP_EVENT", dec 0); ("ADSP_STREAM_ENCDEC_EVENT", dec 1);
    ("ADSP_STREAM_IEC_61937_FMT_UPDATE_EVENT", dec 2); ("ADSP_STREAM_EVENT_MAX", dec 3)]].
Definition header : header :=
  Header "linux/msm_audio.h" [] (concat [
    defs_AUDIO_MAX_COMMON_IOCTL_NUM; enum_cad_device_path_type; defs_AUDIO_EVENT_SUSPEND;
    defs_AUDIO_ROUTE_STREAM_VOICE_RX; defs_ADSP_STREAM_PP_EVENT]).
End Msm_audio.

(** ** [linux/msm_audio_aac.h] *)

Module Msm_audio_aac.
Definition defs_AUDIO_AAC_FORMAT_ADTS : list decl := [
  Defines [
    ("AUDIO_AAC_FORMAT_ADTS", Neg (dec 1)); ("AUDIO_AAC_FORMAT_RAW", hex 0x0000);
    ("AUDIO_AAC_FORMAT_PSUEDO_RAW", hex 0x0001); ("AUDIO_AAC_FORMAT_LOAS", hex 0x0002);
    ("AUDIO_AAC_FORMAT_ADIF", hex 0x0003); ("AUDIO_AAC_OBJECT_LC", hex 0x0002);
    ("AUDIO_AAC_OBJECT_LTP", hex 0x0004); ("AUDIO_AAC_OBJECT_ERLC", hex 0x0011);
    ("AUDIO_AAC_OBJECT_BSAC", hex 0x0016); ("AUDIO_AAC_SEC_DATA_RES_ON", hex 0x0001);
    ("AUDIO_AAC_SEC_DATA_RES_OFF", hex 0x0000); ("AUDIO_AAC_SCA_DATA_RES_ON", hex 0x0001);
    ("AUDIO_AAC_SCA_DATA_RES_OFF", hex 0x0000); ("AUDIO_AAC_SPEC_DATA_RES_ON", hex 0x0001);
    ("AUDIO_AAC_SPEC_DATA_RES_OFF", hex 0x0000); ("AUDIO_AAC_SBR_ON_FLAG_ON", hex 0x0001);
    ("AUDIO_AAC_SBR_ON_FLAG_OFF", hex 0x0000); ("AUDIO_AAC_SBR_PS_ON_FLAG_ON", hex 0x0001);
    ("AUDIO_AAC_SBR_PS_ON_FLAG_OFF", hex 0x0000); ("AUDIO_AAC_DUAL_MONO_PL_PR", dec 0);
    ("AUDIO_AAC_DUAL_MONO_SL_SR", dec 1); ("AUDIO_AAC_DUAL_MONO_SL_PR", dec 2);
    ("AUDIO_AAC_DUAL_MONO_PL_SR", dec 3)]].
Definition header : header :=
  Header "linux/msm_audio_aac.h" [] (concat [
    defs_AUDIO_AAC_FORMAT_ADTS]).
End Msm_audio_aac.

(** ** [linux/msm_audio_ac3.h] *)

Module Msm_audio_ac3.
Definition defs_AUDAC3_DEF_WORDSIZE : list decl := [
  Defines [
    ("AUDAC3_DEF_WORDSIZE", dec 0); ("AUDAC3_DEF_USER_DOWNMIX_FLAG", hex 0x0);
    ("AUDAC3_DEF_USER_KARAOKE_FLAG", hex 0x0); ("AUDAC3_DEF_ERROR_CONCEALMENT", dec 0);
    ("AUDAC3_DEF_MAX_REPEAT_COUNT", dec 0)]].
Definition header : header :=
  Header "linux/msm_audio_ac3.h" [] (concat [
    defs_AUDAC3_DEF_WORDSIZE]).
End Msm_audio_ac3.

(** ** [linux/msm_audio_anc.h] *)

Module Msm_audio_anc.
Definition defs_ANC_CMD_START : list decl := [
  Defines [
    ("ANC_CMD_START", dec 0); ("ANC_CMD_STOP", dec 1); ("ANC_CMD_RPM", dec 2);
    ("ANC_CMD_BYPASS_MODE", dec 3); ("ANC_CMD_ALGO_MODULE", dec 4);
    ("ANC_CMD_ALGO_CALIBRATION", dec 5); ("ANC_CMD_MAX", hex 0xFF);
    ("ANC_CALIBRATION_PAYLOAD_SIZE_MAX", dec 100)]].
Definition header : header :=
  Header "linux/msm_audio_anc.h" [] (concat [
    defs_ANC_CMD_START]).
End Msm_audio_anc.

(** ** [linux/msm_audio_calibration.h] *)

Module Msm_audio_calibration.
Definition enum_CVP_VOC_RX_TOPOLOGY_CAL_TYPE : list decl := [
  Enum [
    ("CVP_VOC_RX_TOPOLOGY_CAL_TYPE", Some (dec 0)); ("CVP_VOC_TX_TOPOLOGY_CAL_TYPE", None);
    ("CVP_VOCPROC_STATIC_CAL_TYPE", None); ("CVP_VOCPROC_DYNAMIC_CAL_TYPE", None);
    ("CVS_VOCSTRM_STATIC_CAL_TYPE", None); ("CVP_VOCDEV_CFG_CAL_TYPE", None);
    ("CVP_VOCPROC_STATIC_COL_CAL_TYPE", None); ("CVP_VOCPROC_DYNAMIC_COL_CAL_TYPE", None);
    ("CVS_VOCSTRM_STATIC_COL_CAL_TYPE", None); ("ADM_TOPOLOGY_CAL_TYPE", None);
    ("ADM_CUST_TOPOLOGY_CAL_TYPE", None); ("ADM_AUDPROC_CAL_TYPE", None);
    ("ADM_AUDVOL_CAL_TYPE", None); ("ASM_TOPOLOGY_CAL_TYPE", None);
    ("ASM_CUST_TOPOLOGY_CAL_TYPE", None); ("ASM_AUDSTRM_CAL_TYPE", None);
    ("AFE_COMMON_RX_CAL_TYPE", None); ("AFE_COMMON_TX_CAL_TYPE", None);
    ("AFE_ANC_CAL_TYPE", None); ("AFE_AANC_CAL_TYPE", None); ("AFE_FB_SPKR_PROT_CAL_TYPE", None);
    ("AFE_HW_DELAY_CAL_TYPE", None); ("AFE_SIDETONE_CAL_TYPE", None);
    ("AFE_TOPOLOGY_CAL_TYPE", None); ("AFE_CUST_TOPOLOGY_CAL_TYPE", None);
    ("LSM_CUST_TOPOLOGY_CAL_TYPE", None); ("LSM_TOPOLOGY_CAL_TYPE", None);
    ("LSM_CAL_TYPE", None); ("ADM_RTAC_INFO_CAL_TYPE", None); ("VOICE_RTAC_INFO_CAL_TYPE", None);
    ("ADM_RTAC_APR_CAL_TYPE", None); ("ASM_RTAC_APR_CAL_TYPE", None);
    ("VOICE_RTAC_APR_CAL_TYPE", None); ("MAD_CAL_TYPE", None); ("ULP_AFE_CAL_TYPE", None);
    ("ULP_LSM_CAL_TYPE", None); ("DTS_EAGLE_CAL_TYPE", None);
    ("AUDIO_CORE_METAINFO_CAL_TYPE", None); ("SRS_TRUMEDIA_CAL_TYPE", None);
    ("CORE_CUSTOM_TOPOLOGIES_CAL_TYPE", None); ("ADM_RTAC_AUDVOL_CAL_TYPE", None);
    ("ULP_LSM_TOPOLOGY_ID_CAL_TYPE", None); ("AFE_FB_SPKR_PROT_TH_VI_CAL_TYPE", None);
    ("AFE_FB_SPKR_PROT_EX_VI_CAL_TYPE", None); ("AFE_SIDETONE_IIR_CAL_TYPE", None);
    ("MAX_CAL_TYPES", None)]].
Definition enum_RX_DEVICE : list decl := [
  Enum [
    ("RX_DEVICE", None); ("TX_DEVICE", None); ("MAX_PATH_TYPE", None)]].
Definition enum_msm_spkr_prot_states : list decl := [
  Enum [
    ("MSM_SPKR_PROT_CALIBRATED", None); ("MSM_SPKR_PROT_CALIBRATION_IN_PROGRESS", None);
    ("MSM_SPKR_PROT_DISABLED", None); ("MSM_SPKR_PROT_NOT_CALIBRATED", None);
    ("MSM_SPKR_PROT_PRE_CALIBRATED", None); ("MSM_SPKR_PROT_IN_FTM_MODE", None)]].
Definition enum_msm_spkr_count : list decl := [
  Enum [
    ("SP_V2_SPKR_1", None); ("SP_V2_SPKR_2", None); ("SP_V2_NUM_MAX_SPKRS", None)]].
Definition header : header :=
  Header "linux/msm_audio_calibration.h" [] (concat [
    enum_CVP_VOC_RX_TOPOLOGY_CAL_TYPE; enum_RX_DEVICE; enum_msm_spkr_prot_states;
    enum_msm_spkr_count]).
End Msm_audio_calibration.

(** ** [linux/msm_audio_mvs.h] *)

Module Msm_audio_mvs.
Definition defs_MVS_MODE_IS733 : list decl := [
  Defines [
    ("MVS_MODE_IS733", hex 0x1); ("MVS_MODE_IS127", hex 0x2); ("MVS_MODE_4GV_NB", hex 0x3);
    ("MVS_MODE_4GV_WB", hex 0x4); ("MVS_MODE_AMR", hex 0x5); ("MVS_MODE_EFR", hex 0x6);
    ("MVS_MODE_FR", hex 0x7); ("MVS_MODE_HR", hex 0x8); ("MVS_MODE_LINEAR_PCM", hex 0x9);
    ("MVS_MODE_G711", hex 0xA); ("MVS_MODE_PCM", hex 0xC); ("MVS_MODE_AMR_WB", hex 0xD);
    ("MVS_MODE_G729A", hex 0xE); ("MVS_MODE_G711A", hex 0xF); ("MVS_MODE_G722", hex 0x10);
    ("MVS_MODE_PCM_WB", hex 0x12)];
  Enum [
    ("MVS_AMR_MODE_0475", None); ("MVS_AMR_MODE_0515", None); ("MVS_AMR_MODE_0590", None);
    ("MVS_AMR_MODE_0670", None); ("MVS_AMR_MODE_0740", None); ("MVS_AMR_MODE_0795", None);
    ("MVS_AMR_MODE_1020", None); ("MVS_AMR_MODE_1220", None); ("MVS_AMR_MODE_0660", None);
    ("MVS_AMR_MODE_0885", None); ("MVS_AMR_MODE_1265", None); ("MVS_AMR_MODE_1425", None);
    ("MVS_AMR_MODE_1585", None); ("MVS_AMR_MODE_1825", None); ("MVS_AMR_MODE_1985", None);
    ("MVS_AMR_MODE_2305", None); ("MVS_AMR_MODE_2385", None); ("MVS_AMR_MODE_UNDEF", None)];
  Enum [
    ("MVS_VOC_0_RATE", None); ("MVS_VOC_8_RATE", None); ("MVS_VOC_4_RATE", None);
    ("MVS_VOC_2_RATE", None); ("MVS_VOC_1_RATE", None); ("MVS_VOC_ERASURE", None);
    ("MVS_VOC_RATE_MAX", None); ("MVS_VOC_RATE_UNDEF", Some (Id "MVS_VOC_RATE_MAX"))];
  Enum [
    ("MVS_AMR_SPEECH_GOOD", None); ("MVS_AMR_SPEECH_DEGRADED", None); ("MVS_AMR_ONSET", None);
    ("MVS_AMR_SPEECH_BAD", None); ("MVS_AMR_SID_FIRST", None); ("MVS_AMR_SID_UPDATE", None);
    ("MVS_AMR_SID_BAD", None); ("MVS_AMR_NO_DATA", None); ("MVS_AMR_SPEECH_LOST", None)]].
Definition enum_mvs_g722_mode_type : list decl := [
  Enum [
    ("MVS_G722_MODE_01", None); ("MVS_G722_MODE_02", None); ("MVS_G722_MODE_03", None);
    ("MVS_G722_MODE_MAX", None); ("MVS_G722_MODE_UNDEF", None)];
  Enum [
    ("MVS_G711A_SPEECH_GOOD", None); ("MVS_G711A_SID", None); ("MVS_G711A_NO_DATA", None);
    ("MVS_G711A_ERASURE", None)];
  Enum [
    ("MVS_G729A_NO_DATA", None); ("MVS_G729A_SPEECH_GOOD", None); ("MVS_G729A_SID", None);
    ("MVS_G729A_ERASURE", None)]].
Definition header : header :=
  Header "linux/msm_audio_mvs.h" [] (concat [
    defs_MVS_MODE_IS733; enum_mvs_g722_mode_type]).
End Msm_audio_mvs.

(** ** [linux/msm_audio_qcp.h] *)

Module Msm_audio_qcp.
Definition defs_CDMA_RATE_BLANK : list decl := [
  Defines [
    ("CDMA_RATE_BLANK", hex 0x00); ("CDMA_RATE_EIGHTH", hex 0x01);
    ("CDMA_RATE_QUARTER", hex 0x02); ("CDMA_RATE_HALF", hex 0x03); ("CDMA_RATE_FULL", hex 0x04);
    ("CDMA_RATE_ERASURE", hex 0x05)]].
Definition header : header :=
  Header "linux/msm_audio_qcp.h" [] (concat [
    defs_CDMA_RATE_BLANK]).
End Msm_audio_qcp.

(** ** [linux/msm_audio_sbc.h] *)

Module Msm_audio_sbc.
Definition defs_AUDIO_SBC_BA_LOUDNESS : list decl := [
  Defines [
    ("AUDIO_SBC_BA_LOUDNESS", hex 0x0); ("AUDIO_SBC_BA_SNR", hex 0x1);
    ("AUDIO_SBC_MODE_MONO", hex 0x0); ("AUDIO_SBC_MODE_DUAL", hex 0x1);
    ("AUDIO_SBC_MODE_STEREO", hex 0x2); ("AUDIO_SBC_MODE_JSTEREO", hex 0x3);
    ("AUDIO_SBC_BANDS_8", hex 0x1); ("AUDIO_SBC_BLOCKS_4", hex 0x0);
    ("AUDIO_SBC_BLOCKS_8", hex 0x1); ("AUDIO_SBC_BLOCKS_12", hex 0x2);
    ("AUDIO_SBC_BLOCKS_16", hex 0x3)]].
Definition header : header :=
  Header "linux/msm_audio_sbc.h" [] (concat [
    defs_AUDIO_SBC_BA_LOUDNESS]).
End Msm_audio_sbc.

(** ** [linux/msm_audio_voicememo.h] *)

Module Msm_audio_voicememo.
Definition enum_rpc_voc_rec_dir_type : list decl := [
  Enum [
    ("RPC_VOC_REC_NONE", None); ("RPC_VOC_REC_FORWARD", None); ("RPC_VOC_REC_REVERSE", None);
    ("RPC_VOC_REC_BOTH", None); ("RPC_VOC_MAX_REC_TYPE", None)];
  Enum [
    ("RPC_VOC_CAP_IS733", Some (dec 4)); ("RPC_VOC_CAP_IS127", Some (dec 8));
    ("RPC_VOC_CAP_AMR", Some (dec 64)); ("RPC_VOC_CAP_32BIT_DUMMY", Some (dec 2147483647))];
  Enum [
    ("RPC_VOC_0_RATE", Some (dec 0)); ("RPC_VOC_8_RATE", None); ("RPC_VOC_4_RATE", None);
    ("RPC_VOC_2_RATE", None); ("RPC_VOC_1_RATE", None); ("RPC_VOC_ERASURE", None);
    ("RPC_VOC_ERR_RATE", None); ("RPC_VOC_AMR_RATE_475", Some (dec 0));
    ("RPC_VOC_AMR_RATE_515", Some (dec 1)); ("RPC_VOC_AMR_RATE_590", Some (dec 2));
    ("RPC_VOC_AMR_RATE_670", Some (dec 3)); ("RPC_VOC_AMR_RATE_740", Some (dec 4));
    ("RPC_VOC_AMR_RATE_795", Some (dec 5)); ("RPC_VOC_AMR_RATE_1020", Some (dec 6));
    ("RPC_VOC_AMR_RATE_1220", Some (dec 7))];
  Enum [
    ("RPC_VOC_PB_NATIVE_QCP", Some (dec 3)); ("RPC_VOC_PB_AMR", None); ("RPC_VOC_PB_EVB", None)]].
Definition header : header :=
  Header "linux/msm_audio_voicememo.h" [] (concat [
    enum_rpc_voc_rec_dir_type]).
End Msm_audio_voicememo.

(** ** [linux/soundcard.h] *)

Module Soundcard.
Definition defs_SNDCARD_ADLIB : list decl := [
  Defines [
    ("SNDCARD_ADLIB", dec 1); ("SNDCARD_SB", dec 2); ("SNDCARD_PAS", dec 3);
    ("SNDCARD_GUS", dec 4); ("SNDCARD_MPU401", dec 5); ("SNDCARD_SB16", dec 6);
    ("SNDCARD_SB16MIDI", dec 7); ("SNDCARD_UART6850", dec 8); ("SNDCARD_GUS16", dec 9);
    ("SNDCARD_MSS", dec 10); ("SNDCARD_PSS", dec 11); ("SNDCARD_SSCAPE", dec 12);
    ("SNDCARD_PSS_MPU", dec 13); ("SNDCARD_PSS_MSS", dec 14); ("SNDCARD_SSCAPE_MSS", dec 15);
    ("SNDCARD_TRXPRO", dec 16); ("SNDCARD_TRXPRO_SB", dec 17); ("SNDCARD_TRXPRO_MPU", dec 18);
    ("SNDCARD_MAD16", dec 19); ("SNDCARD_MAD16_MPU", dec 20); ("SNDCARD_CS4232", dec 21);
    ("SNDCARD_CS4232_MPU", dec 22); ("SNDCARD_MAUI", dec 23); ("SNDCARD_PSEUDO_MSS", dec 24);
    ("SNDCARD_GUSPNP", dec 25); ("SNDCARD_UART401", dec 26)]].
Definition defs_TMR_INTERNAL : list decl := [
  Defines [
    ("TMR_INTERNAL", hex 0x00000001); ("TMR_EXTERNAL", hex 0x00000002);
    ("TMR_MODE_MIDI", hex 0x00000010); ("TMR_MODE_FSK", hex 0x00000020);
    ("TMR_MODE_CLS", hex 0x00000040); ("TMR_MODE_SMPTE", hex 0x00000080)]].
Definition defs_SEQ_NOTEOFF : list decl := [
  Defines [
    ("SEQ_NOTEOFF", dec 0); ("SEQ_FMNOTEOFF", Id "SEQ_NOTEOFF"); ("SEQ_NOTEON", dec 1);
    ("SEQ_FMNOTEON", Id "SEQ_NOTEON"); ("SEQ_WAIT", Id "TMR_WAIT_ABS"); ("SEQ_PGMCHANGE", dec 3);
    ("SEQ_FMPGMCHANGE", Id "SEQ_PGMCHANGE"); ("SEQ_SYNCTIMER", Id "TMR_START");
    ("SEQ_MIDIPUTC", dec 5); ("SEQ_DRUMON", dec 6); ("SEQ_DRUMOFF", dec 7);
    ("SEQ_ECHO", Id "TMR_ECHO"); ("SEQ_AFTERTOUCH", dec 9); ("SEQ_CONTROLLER", dec 10)];
  Defines [
    ("CTL_BANK_SELECT", hex 0x00); ("CTL_MODWHEEL", hex 0x01); ("CTL_BREATH", hex 0x02);
    ("CTL_FOOT", hex 0x04); ("CTL_PORTAMENTO_TIME", hex 0x05); ("CTL_DATA_ENTRY", hex 0x06);
    ("CTL_MAIN_VOLUME", hex 0x07); ("CTL_BALANCE", hex 0x08); ("CTL_PAN", hex 0x0a);
    ("CTL_EXPRESSION", hex 0x0b)];
  Defines [
    ("CTL_GENERAL_PURPOSE1", hex 0x10); ("CTL_GENERAL_PURPOSE2", hex 0x11);
    ("CTL_GENERAL_PURPOSE3", hex 0x12); ("CTL_GENERAL_PURPOSE4", hex 0x13)];
  Defines [
    ("CTL_DAMPER_PEDAL", hex 0x40); ("CTL_SUSTAIN", hex 0x40); ("CTL_HOLD", hex 0x40);
    ("CTL_PORTAMENTO", hex 0x41); ("CTL_SOSTENUTO", hex 0x42); ("CTL_SOFT_PEDAL", hex 0x43);
    ("CTL_HOLD2", hex 0x45); ("CTL_GENERAL_PURPOSE5", hex 0x50);
    ("CTL_GENERAL_PURPOSE6", hex 0x51); ("CTL_GENERAL_PURPOSE7", hex 0x52);
    ("CTL_GENERAL_PURPOSE8", hex 0x53); ("CTL_EXT_EFF_DEPTH", hex 0x5b);
    ("CTL_TREMOLO_DEPTH", hex 0x5c); ("CTL_CHORUS_DEPTH", hex 0x5d);
    ("CTL_DETUNE_DEPTH", hex 0x5e); ("CTL_CELESTE_DEPTH", hex 0x5e);
    ("CTL_PHASER_DEPTH", hex 0x5f); ("CTL_DATA_INCREMENT", hex 0x60);
    ("CTL_DATA_DECREMENT", hex 0x61); ("CTL_NONREG_PARM_NUM_LSB", hex 0x62);
    ("CTL_NONREG_PARM_NUM_MSB", hex 0x63); ("CTL_REGIST_PARM_NUM_LSB", hex 0x64);
    ("CTL_REGIST_PARM_NUM_MSB", hex 0x65)];
  Defines [
    ("CTRL_PITCH_BENDER", dec 255); ("CTRL_PITCH_BENDER_RANGE", dec 254);
    ("CTRL_EXPRESSION", dec 253); ("CTRL_MAIN_VOLUME", dec 252); ("SEQ_BALANCE", dec 11);
    ("SEQ_VOLMODE", dec 12)]].
Definition defs_AFMT_QUERY : list decl := [
  Defines [
    ("AFMT_QUERY", hex 0x00000000); ("AFMT_MU_LAW", hex 0x00000001);
    ("AFMT_A_LAW", hex 0x00000002); ("AFMT_IMA_ADPCM", hex 0x00000004);
    ("AFMT_U8", hex 0x00000008); ("AFMT_S16_LE", hex 0x00000010);
    ("AFMT_S16_BE", hex 0x00000020); ("AFMT_S8", hex 0x00000040);
    ("AFMT_U16_LE", hex 0x00000080); ("AFMT_U16_BE", hex 0x00000100);
    ("AFMT_MPEG", hex 0x00000200); ("AFMT_AC3", hex 0x00000400)]].
Definition defs_DSP_CAP_REVISION : list decl := [
  Defines [
    ("DSP_CAP_REVISION", hex 0x000000ff); ("DSP_CAP_DUPLEX", hex 0x00000100);
    ("DSP_CAP_REALTIME", hex 0x00000200); ("DSP_CAP_BATCH", hex 0x00000400);
    ("DSP_CAP_COPROC", hex 0x00000800); ("DSP_CAP_TRIGGER", hex 0x00001000);
    ("DSP_CAP_MMAP", hex 0x00002000); ("DSP_CAP_MULTI", hex 0x00004000);
    ("DSP_CAP_BIND", hex 0x00008000)]].
Definition defs_DSP_BIND_QUERY : list decl := [
  Defines [
    ("DSP_BIND_QUERY", hex 0x00000000); ("DSP_BIND_FRONT", hex 0x00000001);
    ("DSP_BIND_SURR", hex 0x00000002); ("DSP_BIND_CENTER_LFE", hex 0x00000004);
    ("DSP_BIND_HANDSET", hex 0x00000008); ("DSP_BIND_MIC", hex 0x00000010);
    ("DSP_BIND_MODEM1", hex 0x00000020); ("DSP_BIND_MODEM2", hex 0x00000040);
    ("DSP_BIND_I2S", hex 0x00000080); ("DSP_BIND_SPDIF", hex 0x00000100)]].
Definition defs_SPDIF_PRO : list decl := [
  Defines [
    ("SPDIF_PRO", hex 0x0001); ("SPDIF_N_AUD", hex 0x0002); ("SPDIF_COPY", hex 0x0004);
    ("SPDIF_PRE", hex 0x0008); ("SPDIF_CC", hex 0x07f0); ("SPDIF_L", hex 0x0800);
    ("SPDIF_DRS", hex 0x4000); ("SPDIF_V", hex 0x8000)]].
Definition defs_SOUND_MIXER_NRDEVICES : list decl := [
  Defines [
    ("SOUND_MIXER_NRDEVICES", dec 25); ("SOUND_MIXER_VOLUME", dec 0);
    ("SOUND_MIXER_BASS", dec 1); ("SOUND_MIXER_TREBLE", dec 2); ("SOUND_MIXER_SYNTH", dec 3);
    ("SOUND_MIXER_PCM", dec 4); ("SOUND_MIXER_SPEAKER", dec 5); ("SOUND_MIXER_LINE", dec 6);
    ("SOUND_MIXER_MIC", dec 7); ("SOUND_MIXER_CD", dec 8); ("SOUND_MIXER_IMIX", dec 9);
    ("SOUND_MIXER_ALTPCM", dec 10); ("SOUND_MIXER_RECLEV", dec 11);
    ("SOUND_MIXER_IGAIN", dec 12); ("SOUND_MIXER_OGAIN", dec 13)];
  Defines [
    ("SOUND_MIXER_LINE1", dec 14); ("SOUND_MIXER_LINE2", dec 15); ("SOUND_MIXER_LINE3", dec 16);
    ("SOUND_MIXER_DIGITAL1", dec 17); ("SOUND_MIXER_DIGITAL2", dec 18);
    ("SOUND_MIXER_DIGITAL3", dec 19); ("SOUND_MIXER_PHONEIN", dec 20);
    ("SOUND_MIXER_PHONEOUT", dec 21); ("SOUND_MIXER_VIDEO", dec 22);
    ("SOUND_MIXER_RADIO", dec 23); ("SOUND_MIXER_MONITOR", dec 24); ("SOUND_ONOFF_MIN", dec 28);
    ("SOUND_ONOFF_MAX", dec 30); ("SOUND_MIXER_NONE", dec 31)];
  Defines [
    ("SOUND_MIXER_ENHANCE", Id "SOUND_MIXER_NONE"); ("SOUND_MIXER_MUTE", Id "SOUND_MIXER_NONE");
    ("SOUND_MIXER_LOUD", Id "SOUND_MIXER_NONE")]].
Definition defs_SOUND_MIXER_RECSRC : list decl := [
  Defines [
    ("SOUND_MIXER_RECSRC", hex 0xff); ("SOUND_MIXER_DEVMASK", hex 0xfe);
    ("SOUND_MIXER_RECMASK", hex 0xfd); ("SOUND_MIXER_CAPS", hex 0xfc);
    ("SOUND_CAP_EXCL_INPUT", hex 0x00000001); ("SOUND_MIXER_STEREODEVS", hex 0xfb);
    ("SOUND_MIXER_OUTSRC", hex 0xfa); ("SOUND_MIXER_OUTMASK", hex 0xf9);
    ("SOUND_MASK_VOLUME", Shl (dec 1) (Id "SOUND_MIXER_VOLUME"));
    ("SOUND_MASK_BASS", Shl (dec 1) (Id "SOUND_MIXER_BASS"));
    ("SOUND_MASK_TREBLE", Shl (dec 1) (Id "SOUND_MIXER_TREBLE"));
    ("SOUND_MASK_SYNTH", Shl (dec 1) (Id "SOUND_MIXER_SYNTH"));
    ("SOUND_MASK_PCM", Shl (dec 1) (Id "SOUND_MIXER_PCM"));
    ("SOUND_MASK_SPEAKER", Shl (dec 1) (Id "SOUND_MIXER_SPEAKER"));
    ("SOUND_MASK_LINE", Shl (dec 1) (Id "SOUND_MIXER_LINE"));
    ("SOUND_MASK_MIC", Shl (dec 1) (Id "SOUND_MIXER_MIC"));
    ("SOUND_MASK_CD", Shl (dec 1) (Id "SOUND_MIXER_CD"));
    ("SOUND_MASK_IMIX", Shl (dec 1) (Id "SOUND_MIXER_IMIX"));
    ("SOUND_MASK_ALTPCM", Shl (dec 1) (Id "SOUND_MIXER_ALTPCM"));
    ("SOUND_MASK_RECLEV", Shl (dec 1) (Id "SOUND_MIXER_RECLEV"));
    ("SOUND_MASK_IGAIN", Shl (dec 1) (Id "SOUND_MIXER_IGAIN"));
    ("SOUND_MASK_OGAIN", Shl (dec 1) (Id "SOUND_MIXER_OGAIN"));
    ("SOUND_MASK_LINE1", Shl (dec 1) (Id "SOUND_MIXER_LINE1"));
    ("SOUND_MASK_LINE2", Shl (dec 1) (Id "SOUND_MIXER_LINE2"));
    ("SOUND_MASK_LINE3", Shl (dec 1) (Id "SOUND_MIXER_LINE3"));
    ("SOUND_MASK_DIGITAL1", Shl (dec 1) (Id "SOUND_MIXER_DIGITAL1"));
    ("SOUND_MASK_DIGITAL2", Shl (dec 1) (Id "SOUND_MIXER_DIGITAL2"));
    ("SOUND_MASK_DIGITAL3", Shl (dec 1) (Id "SOUND_MIXER_DIGITAL3"));
    ("SOUND_MASK_PHONEIN", Shl (dec 1) (Id "SOUND_MIXER_PHONEIN"));
    ("SOUND_MASK_PHONEOUT", Shl (dec 1) (Id "SOUND_MIXER_PHONEOUT"));
    ("SOUND_MASK_RADIO", Shl (dec 1) (Id "SOUND_MIXER_RADIO"));
    ("SOUND_MASK_VIDEO", Shl (dec 1) (Id "SOUND_MIXER_VIDEO"));
    ("SOUND_MASK_MONITOR", Shl (dec 1) (Id "SOUND_MIXER_MONITOR"));
    ("SOUND_MASK_MUTE", Shl (dec 1) (Id "SOUND_MIXER_MUTE"));
    ("SOUND_MASK_ENHANCE", Shl (dec 1) (Id "SOUND_MIXER_ENHANCE"));
    ("SOUND_MASK_LOUD", Shl (dec 1) (Id "SOUND_MIXER_LOUD"))]].
Definition defs_EV_SEQ_LOCAL : list decl := [
  Defines [
    ("EV_SEQ_LOCAL", hex 0x80); ("EV_TIMING", hex 0x81); ("EV_CHN_COMMON", hex 0x92);
    ("EV_CHN_VOICE", hex 0x93); ("EV_SYSEX", hex 0x94)]].
Definition defs_MIDI_CTL_CHANGE : list decl := [
  Defines [
    ("MIDI_CTL_CHANGE", hex 0xB0); ("MIDI_PGM_CHANGE", hex 0xC0);
    ("MIDI_CHN_PRESSURE", hex 0xD0); ("MIDI_PITCH_BEND", hex 0xE0);
    ("MIDI_SYSTEM_PREFIX", hex 0xF0)];
  Defines [
    ("TMR_WAIT_REL", dec 1); ("TMR_WAIT_ABS", dec 2); ("TMR_STOP", dec 3); ("TMR_START", dec 4);
    ("TMR_CONTINUE", dec 5); ("TMR_TEMPO", dec 6); ("TMR_ECHO", dec 8); ("TMR_CLOCK", dec 9);
    ("TMR_SPP", dec 10); ("TMR_TIMESIG", dec 11)]].
Definition header : header :=
  Header "linux/soundcard.h" [] (concat [
    defs_SNDCARD_ADLIB; defs_TMR_INTERNAL; defs_SEQ_NOTEOFF; defs_AFMT_QUERY;
    defs_DSP_CAP_REVISION; defs_DSP_BIND_QUERY; defs_SPDIF_PRO; defs_SOUND_MIXER_NRDEVICES;
    defs_SOUND_MIXER_RECSRC; defs_EV_SEQ_LOCAL; defs_MIDI_CTL_CHANGE]).
End Soundcard.

(** ** [linux/telephony.h] *)

Module Telephony.
Definition defs_TELEPHONY_VERSION : list decl := [
  Defines [
    ("TELEPHONY_VERSION", dec 3013); ("PHONE_VENDOR_IXJ", dec 1);
    ("PHONE_VENDOR_QUICKNET", Id "PHONE_VENDOR_IXJ"); ("PHONE_VENDOR_VOICETRONIX", dec 2);
    ("PHONE_VENDOR_ACULAB", dec 3); ("PHONE_VENDOR_DIGI", dec 4);
    ("PHONE_VENDOR_FRANKLIN", dec 5)];
  Defines [
    ("QTI_PHONEJACK", dec 100); ("QTI_LINEJACK", dec 300); ("QTI_PHONEJACK_LITE", dec 400);
    ("QTI_PHONEJACK_PCI", dec 500); ("QTI_PHONECARD", dec 600)];
  Enum [
    ("vendor", Some (dec 0)); ("device", None); ("port", None); ("codec", None); ("dsp", None)]].
Definition enum_pots : list decl := [
  Enum [
    ("pots", Some (dec 0)); ("pstn", None); ("handset", None); ("speaker", None)]].
Definition defs_PSTN_ON_HOOK : list decl := [
  Defines [
    ("PSTN_ON_HOOK", dec 0); ("PSTN_RINGING", dec 1); ("PSTN_OFF_HOOK", dec 2);
    ("PSTN_PULSE_DIAL", dec 3)]].
Definition enum_G723_63 : list decl := [
  Enum [
    ("G723_63", Some (dec 1)); ("G723_53", Some (dec 2)); ("TS85", Some (dec 3));
    ("TS48", Some (dec 4)); ("TS41", Some (dec 5)); ("G728", Some (dec 6));
    ("G729", Some (dec 7)); ("ULAW", Some (dec 8)); ("ALAW", Some (dec 9));
    ("LINEAR16", Some (dec 10)); ("LINEAR8", Some (dec 11)); ("WSS", Some (dec 12));
    ("G729B", Some (dec 13))]].
Definition header : header :=
  Header "linux/telephony.h" [] (concat [
    defs_TELEPHONY_VERSION; enum_pots; defs_PSTN_ON_HOOK; enum_G723_63]).
End Telephony.

(** ** [sound/asequencer.h] *)

Module Sound_asequencer.
Definition defs_SNDRV_SEQ_EVENT_NOTE : list decl := [
  Defines [
    ("SNDRV_SEQ_EVENT_NOTE", dec 5); ("SNDRV_SEQ_EVENT_NOTEON", dec 6);
    ("SNDRV_SEQ_EVENT_NOTEOFF", dec 7); ("SNDRV_SEQ_EVENT_KEYPRESS", dec 8)];
  Defines [
    ("SNDRV_SEQ_EVENT_CONTROLLER", dec 10); ("SNDRV_SEQ_EVENT_PGMCHANGE", dec 11);
    ("SNDRV_SEQ_EVENT_CHANPRESS", dec 12); ("SNDRV_SEQ_EVENT_PITCHBEND", dec 13);
    ("SNDRV_SEQ_EVENT_CONTROL14", dec 14); ("SNDRV_SEQ_EVENT_NONREGPARAM", dec 15);
    ("SNDRV_SEQ_EVENT_REGPARAM", dec 16)];
  Defines [
    ("SNDRV_SEQ_EVENT_SONGPOS", dec 20); ("SNDRV_SEQ_EVENT_SONGSEL", dec 21);
    ("SNDRV_SEQ_EVENT_QFRAME", dec 22); ("SNDRV_SEQ_EVENT_TIMESIGN", dec 23);
    ("SNDRV_SEQ_EVENT_KEYSIGN", dec 24)];
  Defines [
    ("SNDRV_SEQ_EVENT_START", dec 30); ("SNDRV_SEQ_EVENT_CONTINUE", dec 31);
    ("SNDRV_SEQ_EVENT_STOP", dec 32); ("SNDRV_SEQ_EVENT_SETPOS_TICK", dec 33);
    ("SNDRV_SEQ_EVENT_SETPOS_TIME", dec 34); ("SNDRV_SEQ_EVENT_TEMPO", dec 35);
    ("SNDRV_SEQ_EVENT_CLOCK", dec 36); ("SNDRV_SEQ_EVENT_TICK", dec 37);
    ("SNDRV_SEQ_EVENT_QUEUE_SKEW", dec 38)]].
Definition defs_SNDRV_SEQ_EVENT_CLIENT_START : list decl := [
  Defines [
    ("SNDRV_SEQ_EVENT_CLIENT_START", dec 60); ("SNDRV_SEQ_EVENT_CLIENT_EXIT", dec 61);
    ("SNDRV_SEQ_EVENT_CLIENT_CHANGE", dec 62); ("SNDRV_SEQ_EVENT_PORT_START", dec 63);
    ("SNDRV_SEQ_EVENT_PORT_EXIT", dec 64); ("SNDRV_SEQ_EVENT_PORT_CHANGE", dec 65)]].
Definition defs_SNDRV_SEQ_EVENT_USR0 : list decl := [
  Defines [
    ("SNDRV_SEQ_EVENT_USR0", dec 90); ("SNDRV_SEQ_EVENT_USR1", dec 91);
    ("SNDRV_SEQ_EVENT_USR2", dec 92); ("SNDRV_SEQ_EVENT_USR3", dec 93);
    ("SNDRV_SEQ_EVENT_USR4", dec 94); ("SNDRV_SEQ_EVENT_USR5", dec 95);
    ("SNDRV_SEQ_EVENT_USR6", dec 96); ("SNDRV_SEQ_EVENT_USR7", dec 97);
    ("SNDRV_SEQ_EVENT_USR8", dec 98); ("SNDRV_SEQ_EVENT_USR9", dec 99)];
  Defines [
    ("SNDRV_SEQ_EVENT_SYSEX", dec 130); ("SNDRV_SEQ_EVENT_BOUNCE", dec 131);
    ("SNDRV_SEQ_EVENT_USR_VAR0", dec 135); ("SNDRV_SEQ_EVENT_USR_VAR1", dec 136);
    ("SNDRV_SEQ_EVENT_USR_VAR2", dec 137); ("SNDRV_SEQ_EVENT_USR_VAR3", dec 138);
    ("SNDRV_SEQ_EVENT_USR_VAR4", dec 139); ("SNDRV_SEQ_EVENT_KERNEL_ERROR", dec 150);
    ("SNDRV_SEQ_EVENT_KERNEL_QUOTE", dec 151)]].
Definition defs_SNDRV_SEQ_ADDRESS_UNKNOWN : list decl := [
  Defines [
    ("SNDRV_SEQ_ADDRESS_UNKNOWN", dec 253); ("SNDRV_SEQ_ADDRESS_SUBSCRIBERS", dec 254);
    ("SNDRV_SEQ_ADDRESS_BROADCAST", dec 255); ("SNDRV_SEQ_QUEUE_DIRECT", dec 253);
    ("SNDRV_SEQ_TIME_STAMP_TICK", Shl (dec 0) (dec 0));
    ("SNDRV_SEQ_TIME_STAMP_REAL", Shl (dec 1) (dec 0));
    ("SNDRV_SEQ_TIME_STAMP_MASK", Shl (dec 1) (dec 0));
    ("SNDRV_SEQ_TIME_MODE_ABS", Shl (dec 0) (dec 1));
    ("SNDRV_SEQ_TIME_MODE_REL", Shl (dec 1) (dec 1));
    ("SNDRV_SEQ_TIME_MODE_MASK", Shl (dec 1) (dec 1));
    ("SNDRV_SEQ_EVENT_LENGTH_FIXED", Shl (dec 0) (dec 2));
    ("SNDRV_SEQ_EVENT_LENGTH_VARIABLE", Shl (dec 1) (dec 2));
    ("SNDRV_SEQ_EVENT_LENGTH_VARUSR", Shl (dec 2) (dec 2));
    ("SNDRV_SEQ_EVENT_LENGTH_MASK", Shl (dec 3) (dec 2));
    ("SNDRV_SEQ_PRIORITY_NORMAL", Shl (dec 0) (dec 4));
    ("SNDRV_SEQ_PRIORITY_HIGH", Shl (dec 1) (dec 4));
    ("SNDRV_SEQ_PRIORITY_MASK", Shl (dec 1) (dec 4))]].
Definition defs_SNDRV_SEQ_FILTER_BROADCAST : list decl := [
  Defines [
    ("SNDRV_SEQ_FILTER_BROADCAST", Shl (dec 1) (dec 0));
    ("SNDRV_SEQ_FILTER_MULTICAST", Shl (dec 1) (dec 1));
    ("SNDRV_SEQ_FILTER_BOUNCE", Shl (dec 1) (dec 2));
    ("SNDRV_SEQ_FILTER_USE_EVENT", Shl (dec 1) (dec 31))]].
Definition defs_SNDRV_SEQ_REMOVE_INPUT : list decl := [
  Defines [
    ("SNDRV_SEQ_REMOVE_INPUT", Shl (dec 1) (dec 0));
    ("SNDRV_SEQ_REMOVE_OUTPUT", Shl (dec 1) (dec 1));
    ("SNDRV_SEQ_REMOVE_DEST", Shl (dec 1) (dec 2));
    ("SNDRV_SEQ_REMOVE_DEST_CHANNEL", Shl (dec 1) (dec 3));
    ("SNDRV_SEQ_REMOVE_TIME_BEFORE", Shl (dec 1) (dec 4));
    ("SNDRV_SEQ_REMOVE_TIME_AFTER", Shl (dec 1) (dec 5));
    ("SNDRV_SEQ_REMOVE_TIME_TICK", Shl (dec 1) (dec 6));
    ("SNDRV_SEQ_REMOVE_EVENT_TYPE", Shl (dec 1) (dec 7));
    ("SNDRV_SEQ_REMOVE_IGNORE_OFF", Shl (dec 1) (dec 8));
    ("SNDRV_SEQ_REMOVE_TAG_MATCH", Shl (dec 1) (dec 9))]].
Definition defs_SNDRV_SEQ_PORT_SYSTEM_TIMER : list decl := [
  Defines [
    ("SNDRV_SEQ_PORT_SYSTEM_TIMER", dec 0); ("SNDRV_SEQ_PORT_SYSTEM_ANNOUNCE", dec 1);
    ("SNDRV_SEQ_PORT_CAP_READ", Shl (dec 1) (dec 0));
    ("SNDRV_SEQ_PORT_CAP_WRITE", Shl (dec 1) (dec 1));
    ("SNDRV_SEQ_PORT_CAP_SYNC_READ", Shl (dec 1) (dec 2));
    ("SNDRV_SEQ_PORT_CAP_SYNC_WRITE", Shl (dec 1) (dec 3));
    ("SNDRV_SEQ_PORT_CAP_DUPLEX", Shl (dec 1) (dec 4));
    ("SNDRV_SEQ_PORT_CAP_SUBS_READ", Shl (dec 1) (dec 5));
    ("SNDRV_SEQ_PORT_CAP_SUBS_WRITE", Shl (dec 1) (dec 6));
    ("SNDRV_SEQ_PORT_CAP_NO_EXPORT", Shl (dec 1) (dec 7));
    ("SNDRV_SEQ_PORT_TYPE_SPECIFIC", Shl (dec 1) (dec 0));
    ("SNDRV_SEQ_PORT_TYPE_MIDI_GENERIC", Shl (dec 1) (dec 1));
    ("SNDRV_SEQ_PORT_TYPE_MIDI_GM", Shl (dec 1) (dec 2));
    ("SNDRV_SEQ_PORT_TYPE_MIDI_GS", Shl (dec 1) (dec 3));
    ("SNDRV_SEQ_PORT_TYPE_MIDI_XG", Shl (dec 1) (dec 4));
    ("SNDRV_SEQ_PORT_TYPE_MIDI_MT32", Shl (dec 1) (dec 5));
    ("SNDRV_SEQ_PORT_TYPE_MIDI_GM2", Shl (dec 1) (dec 6));
    ("SNDRV_SEQ_PORT_TYPE_SYNTH", Shl (dec 1) (dec 10));
    ("SNDRV_SEQ_PORT_TYPE_DIRECT_SAMPLE", Shl (dec 1) (dec 11));
    ("SNDRV_SEQ_PORT_TYPE_SAMPLE", Shl (dec 1) (dec 12));
    ("SNDRV_SEQ_PORT_TYPE_HARDWARE", Shl (dec 1) (dec 16));
    ("SNDRV_SEQ_PORT_TYPE_SOFTWARE", Shl (dec 1) (dec 17));
    ("SNDRV_SEQ_PORT_TYPE_SYNTHESIZER", Shl (dec 1) (dec 18));
    ("SNDRV_SEQ_PORT_TYPE_PORT", Shl (dec 1) (dec 19));
    ("SNDRV_SEQ_PORT_TYPE_APPLICATION", Shl (dec 1) (dec 20));
    ("SNDRV_SEQ_PORT_FLG_GIVEN_PORT", Shl (dec 1) (dec 0));
    ("SNDRV_SEQ_PORT_FLG_TIMESTAMP", Shl (dec 1) (dec 1));
    ("SNDRV_SEQ_PORT_FLG_TIME_REAL", Shl (dec 1) (dec 2))]].
Definition header : header :=
  Header "sound/asequencer.h" [] (concat [
    defs_SNDRV_SEQ_EVENT_NOTE; defs_SNDRV_SEQ_EVENT_CLIENT_START; defs_SNDRV_SEQ_EVENT_USR0;
    defs_SNDRV_SEQ_ADDRESS_UNKNOWN; defs_SNDRV_SEQ_FILTER_BROADCAST; defs_SNDRV_SEQ_REMOVE_INPUT;
    defs_SNDRV_SEQ_PORT_SYSTEM_TIMER]).
End Sound_asequencer.

(** ** [sound/asound.h] *)

Module Sound_asound.
Definition enum_SNDRV_HWDEP_IFACE_OPL2 : list decl := [
  Enum [
    ("SNDRV_HWDEP_IFACE_OPL2", Some (dec 0)); ("SNDRV_HWDEP_IFACE_OPL3", None);
    ("SNDRV_HWDEP_IFACE_OPL4", None); ("SNDRV_HWDEP_IFACE_SB16CSP", None);
    ("SNDRV_HWDEP_IFACE_EMU10K1", None); ("SNDRV_HWDEP_IFACE_YSS225", None);
    ("SNDRV_HWDEP_IFACE_ICS2115", None); ("SNDRV_HWDEP_IFACE_SSCAPE", None);
    ("SNDRV_HWDEP_IFACE_VX", None); ("SNDRV_HWDEP_IFACE_MIXART", None);
    ("SNDRV_HWDEP_IFACE_USX2Y", None); ("SNDRV_HWDEP_IFACE_EMUX_WAVETABLE", None);
    ("SNDRV_HWDEP_IFACE_BLUETOOTH", None); ("SNDRV_HWDEP_IFACE_USX2Y_PCM", None);
    ("SNDRV_HWDEP_IFACE_PCXHR", None); ("SNDRV_HWDEP_IFACE_SB_RC", None);
    ("SNDRV_HWDEP_IFACE_HDA", None); ("SNDRV_HWDEP_IFACE_USB_STREAM", None);
    ("SNDRV_HWDEP_IFACE_FW_DICE", None); ("SNDRV_HWDEP_IFACE_FW_FIREWORKS", None);
    ("SNDRV_HWDEP_IFACE_FW_BEBOB", None); ("SNDRV_HWDEP_IFACE_FW_OXFW", None);
    ("SNDRV_HWDEP_IFACE_FW_DIGI00X", None); ("SNDRV_HWDEP_IFACE_FW_TASCAM", None);
    ("SNDRV_HWDEP_IFACE_AUDIO_BE", None); ("SNDRV_HWDEP_IFACE_AUDIO_CODEC", None);
    ("SNDRV_HWDEP_IFACE_LAST", Some (Id "SNDRV_HWDEP_IFACE_AUDIO_CODEC"))]].
Definition enum_SNDRV_PCM_CLASS_GENERIC : list decl := [
  Enum [
    ("SNDRV_PCM_CLASS_GENERIC", Some (dec 0)); ("SNDRV_PCM_CLASS_MULTI", None);
    ("SNDRV_PCM_CLASS_MODEM", None); ("SNDRV_PCM_CLASS_DIGITIZER", None);
    ("SNDRV_PCM_CLASS_LAST", Some (Id "SNDRV_PCM_CLASS_DIGITIZER"))];
  Enum [
    ("SNDRV_PCM_SUBCLASS_GENERIC_MIX", Some (dec 0)); ("SNDRV_PCM_SUBCLASS_MULTI_MIX", None);
    ("SNDRV_PCM_SUBCLASS_LAST", Some (Id "SNDRV_PCM_SUBCLASS_MULTI_MIX"))];
  Enum [
    ("SNDRV_PCM_STREAM_PLAYBACK", Some (dec 0)); ("SNDRV_PCM_STREAM_CAPTURE", None);
    ("SNDRV_PCM_STREAM_LAST", Some (Id "SNDRV_PCM_STREAM_CAPTURE"))]].
Definition defs_SNDRV_PCM_INFO_MMAP : list decl := [
  Defines [
    ("SNDRV_PCM_INFO_MMAP", hex 0x00000001); ("SNDRV_PCM_INFO_MMAP_VALID", hex 0x00000002);
    ("SNDRV_PCM_INFO_DOUBLE", hex 0x00000004); ("SNDRV_PCM_INFO_BATCH", hex 0x00000010);
    ("SNDRV_PCM_INFO_INTERLEAVED", hex 0x00000100);
    ("SNDRV_PCM_INFO_NONINTERLEAVED", hex 0x00000200);
    ("SNDRV_PCM_INFO_COMPLEX", hex 0x00000400);
    ("SNDRV_PCM_INFO_BLOCK_TRANSFER", hex 0x00010000);
    ("SNDRV_PCM_INFO_OVERRANGE", hex 0x00020000); ("SNDRV_PCM_INFO_RESUME", hex 0x00040000);
    ("SNDRV_PCM_INFO_PAUSE", hex 0x00080000); ("SNDRV_PCM_INFO_HALF_DUPLEX", hex 0x00100000);
    ("SNDRV_PCM_INFO_JOINT_DUPLEX", hex 0x00200000);
    ("SNDRV_PCM_INFO_SYNC_START", hex 0x00400000);
    ("SNDRV_PCM_INFO_NO_PERIOD_WAKEUP", hex 0x00800000);
    ("SNDRV_PCM_INFO_HAS_WALL_CLOCK", hex 0x01000000);
    ("SNDRV_PCM_INFO_HAS_LINK_ATIME", hex 0x01000000);
    ("SNDRV_PCM_INFO_HAS_LINK_ABSOLUTE_ATIME", hex 0x02000000);
    ("SNDRV_PCM_INFO_HAS_LINK_ESTIMATED_ATIME", hex 0x04000000);
    ("SNDRV_PCM_INFO_HAS_LINK_SYNCHRONIZED_ATIME", hex 0x08000000);
    ("SNDRV_PCM_INFO_DRAIN_TRIGGER", hex 0x40000000);
    ("SNDRV_PCM_INFO_FIFO_IN_FRAMES", hex 0x80000000)]].
Definition enum_SNDRV_PCM_MMAP_OFFSET_DATA : list decl := [
  Enum [
    ("SNDRV_PCM_MMAP_OFFSET_DATA", Some (hex 0x00000000));
    ("SNDRV_PCM_MMAP_OFFSET_STATUS", Some (hex 0x80000000));
    ("SNDRV_PCM_MMAP_OFFSET_CONTROL", Some (hex 0x81000000))]].
Definition defs_SNDRV_PCM_HW_PARAM_ACCESS : list decl := [
  Defines [
    ("SNDRV_PCM_HW_PARAM_ACCESS", dec 0); ("SNDRV_PCM_HW_PARAM_FORMAT", dec 1);
    ("SNDRV_PCM_HW_PARAM_SUBFORMAT", dec 2);
    ("SNDRV_PCM_HW_PARAM_FIRST_MASK", Id "SNDRV_PCM_HW_PARAM_ACCESS");
    ("SNDRV_PCM_HW_PARAM_LAST_MASK", Id "SNDRV_PCM_HW_PARAM_SUBFORMAT");
    ("SNDRV_PCM_HW_PARAM_SAMPLE_BITS", dec 8); ("SNDRV_PCM_HW_PARAM_FRAME_BITS", dec 9);
    ("SNDRV_PCM_HW_PARAM_CHANNELS", dec 10); ("SNDRV_PCM_HW_PARAM_RATE", dec 11);
    ("SNDRV_PCM_HW_PARAM_PERIOD_TIME", dec 12); ("SNDRV_PCM_HW_PARAM_PERIOD_SIZE", dec 13);
    ("SNDRV_PCM_HW_PARAM_PERIOD_BYTES", dec 14); ("SNDRV_PCM_HW_PARAM_PERIODS", dec 15);
    ("SNDRV_PCM_HW_PARAM_BUFFER_TIME", dec 16); ("SNDRV_PCM_HW_PARAM_BUFFER_SIZE", dec 17);
    ("SNDRV_PCM_HW_PARAM_BUFFER_BYTES", dec 18); ("SNDRV_PCM_HW_PARAM_TICK_TIME", dec 19);
    ("SNDRV_PCM_HW_PARAM_FIRST_INTERVAL", Id "SNDRV_PCM_HW_PARAM_SAMPLE_BITS");
    ("SNDRV_PCM_HW_PARAM_LAST_INTERVAL", Id "SNDRV_PCM_HW_PARAM_TICK_TIME");
    ("SNDRV_PCM_HW_PARAMS_NORESAMPLE", Shl (dec 1) (dec 0));
    ("SNDRV_PCM_HW_PARAMS_EXPORT_BUFFER", Shl (dec 1) (dec 1));
    ("SNDRV_PCM_HW_PARAMS_NO_PERIOD_WAKEUP", Shl (dec 1) (dec 2))]].
Definition enum_SNDRV_PCM_TSTAMP_NONE : list decl := [
  Enum [
    ("SNDRV_PCM_TSTAMP_NONE", Some (dec 0)); ("SNDRV_PCM_TSTAMP_ENABLE", None);
    ("SNDRV_PCM_TSTAMP_LAST", Some (Id "SNDRV_PCM_TSTAMP_ENABLE"))]].
Definition enum_SNDRV_PCM_AUDIO_TSTAMP_TYPE_COMPAT : list decl := [
  Enum [
    ("SNDRV_PCM_AUDIO_TSTAMP_TYPE_COMPAT", Some (dec 0));
    ("SNDRV_PCM_AUDIO_TSTAMP_TYPE_DEFAULT", Some (dec 1));
    ("SNDRV_PCM_AUDIO_TSTAMP_TYPE_LINK", Some (dec 2));
    ("SNDRV_PCM_AUDIO_TSTAMP_TYPE_LINK_ABSOLUTE", Some (dec 3));
    ("SNDRV_PCM_AUDIO_TSTAMP_TYPE_LINK_ESTIMATED", Some (dec 4));
    ("SNDRV_PCM_AUDIO_TSTAMP_TYPE_LINK_SYNCHRONIZED", Some (dec 5));
    ("SNDRV_PCM_AUDIO_TSTAMP_TYPE_LAST", Some (Id "SNDRV_PCM_AUDIO_TSTAMP_TYPE_LINK_SYNCHRONIZED"))]].
Definition enum_SNDRV_PCM_TSTAMP_TYPE_GETTIMEOFDAY : list decl := [
  Enum [
    ("SNDRV_PCM_TSTAMP_TYPE_GETTIMEOFDAY", Some (dec 0));
    ("SNDRV_PCM_TSTAMP_TYPE_MONOTONIC", None); ("SNDRV_PCM_TSTAMP_TYPE_MONOTONIC_RAW", None);
    ("SNDRV_PCM_TSTAMP_TYPE_LAST", Some (Id "SNDRV_PCM_TSTAMP_TYPE_MONOTONIC_RAW"))];
  Enum [
    ("SNDRV_CHMAP_UNKNOWN", Some (dec 0)); ("SNDRV_CHMAP_NA", None); ("SNDRV_CHMAP_MONO", None);
    ("SNDRV_CHMAP_FL", None); ("SNDRV_CHMAP_FR", None); ("SNDRV_CHMAP_RL", None);
    ("SNDRV_CHMAP_RR", None); ("SNDRV_CHMAP_FC", None); ("SNDRV_CHMAP_LFE", None);
    ("SNDRV_CHMAP_SL", None); ("SNDRV_CHMAP_SR", None); ("SNDRV_CHMAP_RC", None);
    ("SNDRV_CHMAP_FLC", None); ("SNDRV_CHMAP_FRC", None); ("SNDRV_CHMAP_RLC", None);
    ("SNDRV_CHMAP_RRC", None); ("SNDRV_CHMAP_FLW", None); ("SNDRV_CHMAP_FRW", None);
    ("SNDRV_CHMAP_FLH", None); ("SNDRV_CHMAP_FCH", None); ("SNDRV_CHMAP_FRH", None);
    ("SNDRV_CHMAP_TC", None); ("SNDRV_CHMAP_TFL", None); ("SNDRV_CHMAP_TFR", None);
    ("SNDRV_CHMAP_TFC", None); ("SNDRV_CHMAP_TRL", None); ("SNDRV_CHMAP_TRR", None);
    ("SNDRV_CHMAP_TRC", None); ("SNDRV_CHMAP_TFLC", None); ("SNDRV_CHMAP_TFRC", None);
    ("SNDRV_CHMAP_TSL", None); ("SNDRV_CHMAP_TSR", None); ("SNDRV_CHMAP_LLFE", None);
    ("SNDRV_CHMAP_RLFE", None); ("SNDRV_CHMAP_BC", None); ("SNDRV_CHMAP_BLC", None);
    ("SNDRV_CHMAP_BRC", None); ("SNDRV_CHMAP_LAST", Some (Id "SNDRV_CHMAP_BRC"))];
  Defines [
    ("SNDRV_CHMAP_POSITION_MASK", hex 0xffff);
    ("SNDRV_CHMAP_PHASE_INVERSE", Shl (hex 0x01) (dec 16));
    ("SNDRV_CHMAP_DRIVER_SPEC", Shl (hex 0x02) (dec 16))]].
Definition enum_SNDRV_RAWMIDI_STREAM_OUTPUT : list decl := [
  Enum [
    ("SNDRV_RAWMIDI_STREAM_OUTPUT", Some (dec 0)); ("SNDRV_RAWMIDI_STREAM_INPUT", None);
    ("SNDRV_RAWMIDI_STREAM_LAST", Some (Id "SNDRV_RAWMIDI_STREAM_INPUT"))];
  Defines [
    ("SNDRV_RAWMIDI_INFO_OUTPUT", hex 0x00000001); ("SNDRV_RAWMIDI_INFO_INPUT", hex 0x00000002);
    ("SNDRV_RAWMIDI_INFO_DUPLEX", hex 0x00000004)]].
Definition enum_SNDRV_TIMER_CLASS_NONE : list decl := [
  Enum [
    ("SNDRV_TIMER_CLASS_NONE", Some (Neg (dec 1))); ("SNDRV_TIMER_CLASS_SLAVE", Some (dec 0));
    ("SNDRV_TIMER_CLASS_GLOBAL", None); ("SNDRV_TIMER_CLASS_CARD", None);
    ("SNDRV_TIMER_CLASS_PCM", None);
    ("SNDRV_TIMER_CLASS_LAST", Some (Id "SNDRV_TIMER_CLASS_PCM"))];
  Enum [
    ("SNDRV_TIMER_SCLASS_NONE", Some (dec 0)); ("SNDRV_TIMER_SCLASS_APPLICATION", None);
    ("SNDRV_TIMER_SCLASS_SEQUENCER", None); ("SNDRV_TIMER_SCLASS_OSS_SEQUENCER", None);
    ("SNDRV_TIMER_SCLASS_LAST", Some (Id "SNDRV_TIMER_SCLASS_OSS_SEQUENCER"))];
  Defines [
    ("SNDRV_TIMER_GLOBAL_SYSTEM", dec 0); ("SNDRV_TIMER_GLOBAL_RTC", dec 1);
    ("SNDRV_TIMER_GLOBAL_HPET", dec 2); ("SNDRV_TIMER_GLOBAL_HRTIMER", dec 3);
    ("SNDRV_TIMER_FLG_SLAVE", Shl (dec 1) (dec 0))]].
Definition enum_SNDRV_TIMER_EVENT_RESOLUTION : list decl := [
  Enum [
    ("SNDRV_TIMER_EVENT_RESOLUTION", Some (dec 0)); ("SNDRV_TIMER_EVENT_TICK", None);
    ("SNDRV_TIMER_EVENT_START", None); ("SNDRV_TIMER_EVENT_STOP", None);
    ("SNDRV_TIMER_EVENT_CONTINUE", None); ("SNDRV_TIMER_EVENT_PAUSE", None);
    ("SNDRV_TIMER_EVENT_EARLY", None); ("SNDRV_TIMER_EVENT_SUSPEND", None);
    ("SNDRV_TIMER_EVENT_RESUME", None);
    ("SNDRV_TIMER_EVENT_MSTART", Some (Add (Id "SNDRV_TIMER_EVENT_START") (dec 10)));
    ("SNDRV_TIMER_EVENT_MSTOP", Some (Add (Id "SNDRV_TIMER_EVENT_STOP") (dec 10)));
    ("SNDRV_TIMER_EVENT_MCONTINUE", Some (Add (Id "SNDRV_TIMER_EVENT_CONTINUE") (dec 10)));
    ("SNDRV_TIMER_EVENT_MPAUSE", Some (Add (Id "SNDRV_TIMER_EVENT_PAUSE") (dec 10)));
    ("SNDRV_TIMER_EVENT_MSUSPEND", Some (Add (Id "SNDRV_TIMER_EVENT_SUSPEND") (dec 10)));
    ("SNDRV_TIMER_EVENT_MRESUME", Some (Add (Id "SNDRV_TIMER_EVENT_RESUME") (dec 10)))]].
Definition defs_SNDRV_CTL_ELEM_ACCESS_READ : list decl := [
  Defines [
    ("SNDRV_CTL_ELEM_ACCESS_READ", Shl (dec 1) (dec 0));
    ("SNDRV_CTL_ELEM_ACCESS_WRITE", Shl (dec 1) (dec 1));
    ("SNDRV_CTL_ELEM_ACCESS_READWRITE", Or (Id "SNDRV_CTL_ELEM_ACCESS_READ") (Id "SNDRV_CTL_ELEM_ACCESS_WRITE"));
    ("SNDRV_CTL_ELEM_ACCESS_VOLATILE", Shl (dec 1) (dec 2));
    ("SNDRV_CTL_ELEM_ACCESS_TIMESTAMP", Shl (dec 1) (dec 3));
    ("SNDRV_CTL_ELEM_ACCESS_TLV_READ", Shl (dec 1) (dec 4));
    ("SNDRV_CTL_ELEM_ACCESS_TLV_WRITE", Shl (dec 1) (dec 5));
    ("SNDRV_CTL_ELEM_ACCESS_TLV_READWRITE", Or (Id "SNDRV_CTL_ELEM_ACCESS_TLV_READ") (Id "SNDRV_CTL_ELEM_ACCESS_TLV_WRITE"));
    ("SNDRV_CTL_ELEM_ACCESS_TLV_COMMAND", Shl (dec 1) (dec 6));
    ("SNDRV_CTL_ELEM_ACCESS_INACTIVE", Shl (dec 1) (dec 8));
    ("SNDRV_CTL_ELEM_ACCESS_LOCK", Shl (dec 1) (dec 9));
    ("SNDRV_CTL_ELEM_ACCESS_OWNER", Shl (dec 1) (dec 10));
    ("SNDRV_CTL_ELEM_ACCESS_TLV_CALLBACK", Shl (dec 1) (dec 28));
    ("SNDRV_CTL_ELEM_ACCESS_USER", Shl (dec 1) (dec 29)); ("SNDRV_CTL_POWER_D0", hex 0x0000);
    ("SNDRV_CTL_POWER_D1", hex 0x0100); ("SNDRV_CTL_POWER_D2", hex 0x0200);
    ("SNDRV_CTL_POWER_D3", hex 0x0300);
    ("SNDRV_CTL_POWER_D3hot", Or (Id "SNDRV_CTL_POWER_D3") (hex 0x0000));
    ("SNDRV_CTL_POWER_D3cold", Or (Id "SNDRV_CTL_POWER_D3") (hex 0x0001));
    ("SNDRV_CTL_ELEM_ID_NAME_MAXLEN", dec 44)]].
Definition defs_SNDRV_CTL_EVENT_MASK_VALUE : list decl := [
  Defines [
    ("SNDRV_CTL_EVENT_MASK_VALUE", Shl (dec 1) (dec 0));
    ("SNDRV_CTL_EVENT_MASK_INFO", Shl (dec 1) (dec 1));
    ("SNDRV_CTL_EVENT_MASK_ADD", Shl (dec 1) (dec 2));
    ("SNDRV_CTL_EVENT_MASK_TLV", Shl (dec 1) (dec 3));
    ("SNDRV_CTL_EVENT_MASK_REMOVE", Not (decU 0))]].
Definition header : header :=
  Header "sound/asound.h" [] (concat [
    enum_SNDRV_HWDEP_IFACE_OPL2; enum_SNDRV_PCM_CLASS_GENERIC; defs_SNDRV_PCM_INFO_MMAP;
    enum_SNDRV_PCM_MMAP_OFFSET_DATA; defs_SNDRV_PCM_HW_PARAM_ACCESS; enum_SNDRV_PCM_TSTAMP_NONE;
    enum_SNDRV_PCM_AUDIO_TSTAMP_TYPE_COMPAT; enum_SNDRV_PCM_TSTAMP_TYPE_GETTIMEOFDAY;
    enum_SNDRV_RAWMIDI_STREAM_OUTPUT; enum_SNDRV_TIMER_CLASS_NONE;
    enum_SNDRV_TIMER_EVENT_RESOLUTION; defs_SNDRV_CTL_ELEM_ACCESS_READ;
    defs_SNDRV_CTL_EVENT_MASK_VALUE]).
End Sound_asound.

(** ** [sound/asound_fm.h] *)

Module Sound_asound_fm.
Definition defs_SNDRV_DM_FM_OSS_IOCTL_RESET : list decl := [
  Defines [
    ("SNDRV_DM_FM_OSS_IOCTL_RESET", hex 0x20); ("SNDRV_DM_FM_OSS_IOCTL_PLAY_NOTE", hex 0x21);
    ("SNDRV_DM_FM_OSS_IOCTL_SET_VOICE", hex 0x22);
    ("SNDRV_DM_FM_OSS_IOCTL_SET_PARAMS", hex 0x23); ("SNDRV_DM_FM_OSS_IOCTL_SET_MODE", hex 0x24);
    ("SNDRV_DM_FM_OSS_IOCTL_SET_OPL", hex 0x25)]].
Definition header : header :=
  Header "sound/asound_fm.h" [] (concat [
    defs_SNDRV_DM_FM_OSS_IOCTL_RESET]).
End Sound_asound_fm.

(** ** [sound/audio_effects.h] *)

Module Sound_audio_effects.
Definition defs_VIRTUALIZER_MODULE : list decl := [
  Defines [
    ("VIRTUALIZER_MODULE", hex 0x00001000); ("VIRTUALIZER_ENABLE", hex 0x00001001);
    ("VIRTUALIZER_STRENGTH", hex 0x00001002); ("VIRTUALIZER_OUT_TYPE", hex 0x00001003);
    ("VIRTUALIZER_GAIN_ADJUST", hex 0x00001004); ("VIRTUALIZER_ENABLE_PARAM_LEN", dec 1);
    ("VIRTUALIZER_STRENGTH_PARAM_LEN", dec 1); ("VIRTUALIZER_OUT_TYPE_PARAM_LEN", dec 1);
    ("VIRTUALIZER_GAIN_ADJUST_PARAM_LEN", dec 1); ("REVERB_MODULE", hex 0x00002000);
    ("REVERB_ENABLE", hex 0x00002001); ("REVERB_MODE", hex 0x00002002);
    ("REVERB_PRESET", hex 0x00002003); ("REVERB_WET_MIX", hex 0x00002004);
    ("REVERB_GAIN_ADJUST", hex 0x00002005); ("REVERB_ROOM_LEVEL", hex 0x00002006);
    ("REVERB_ROOM_HF_LEVEL", hex 0x00002007); ("REVERB_DECAY_TIME", hex 0x00002008);
    ("REVERB_DECAY_HF_RATIO", hex 0x00002009); ("REVERB_REFLECTIONS_LEVEL", hex 0x0000200a);
    ("REVERB_REFLECTIONS_DELAY", hex 0x0000200b); ("REVERB_LEVEL", hex 0x0000200c);
    ("REVERB_DELAY", hex 0x0000200d); ("REVERB_DIFFUSION", hex 0x0000200e);
    ("REVERB_DENSITY", hex 0x0000200f); ("REVERB_ENABLE_PARAM_LEN", dec 1);
    ("REVERB_MODE_PARAM_LEN", dec 1); ("REVERB_PRESET_PARAM_LEN", dec 1);
    ("REVERB_WET_MIX_PARAM_LEN", dec 1); ("REVERB_GAIN_ADJUST_PARAM_LEN", dec 1);
    ("REVERB_ROOM_LEVEL_PARAM_LEN", dec 1); ("REVERB_ROOM_HF_LEVEL_PARAM_LEN", dec 1);
    ("REVERB_DECAY_TIME_PARAM_LEN", dec 1); ("REVERB_DECAY_HF_RATIO_PARAM_LEN", dec 1);
    ("REVERB_REFLECTIONS_LEVEL_PARAM_LEN", dec 1); ("REVERB_REFLECTIONS_DELAY_PARAM_LEN", dec 1);
    ("REVERB_LEVEL_PARAM_LEN", dec 1); ("REVERB_DELAY_PARAM_LEN", dec 1);
    ("REVERB_DIFFUSION_PARAM_LEN", dec 1); ("REVERB_DENSITY_PARAM_LEN", dec 1);
    ("BASS_BOOST_MODULE", hex 0x00003000); ("BASS_BOOST_ENABLE", hex 0x00003001);
    ("BASS_BOOST_MODE", hex 0x00003002); ("BASS_BOOST_STRENGTH", hex 0x00003003);
    ("BASS_BOOST_ENABLE_PARAM_LEN", dec 1); ("BASS_BOOST_MODE_PARAM_LEN", dec 1);
    ("BASS_BOOST_STRENGTH_PARAM_LEN", dec 1); ("EQ_MODULE", hex 0x00004000);
    ("EQ_ENABLE", hex 0x00004001); ("EQ_CONFIG", hex 0x00004002);
    ("EQ_NUM_BANDS", hex 0x00004003); ("EQ_BAND_LEVELS", hex 0x00004004);
    ("EQ_BAND_LEVEL_RANGE", hex 0x00004005); ("EQ_BAND_FREQS", hex 0x00004006);
    ("EQ_SINGLE_BAND_FREQ_RANGE", hex 0x00004007); ("EQ_SINGLE_BAND_FREQ", hex 0x00004008);
    ("EQ_BAND_INDEX", hex 0x00004009); ("EQ_PRESET_ID", hex 0x0000400a);
    ("EQ_NUM_PRESETS", hex 0x0000400b); ("EQ_PRESET_NAME", hex 0x0000400c);
    ("EQ_ENABLE_PARAM_LEN", dec 1); ("EQ_CONFIG_PARAM_LEN", dec 3);
    ("EQ_CONFIG_PER_BAND_PARAM_LEN", dec 5); ("EQ_NUM_BANDS_PARAM_LEN", dec 1);
    ("EQ_BAND_LEVELS_PARAM_LEN", dec 13); ("EQ_BAND_LEVEL_RANGE_PARAM_LEN", dec 2);
    ("EQ_BAND_FREQS_PARAM_LEN", dec 13); ("EQ_SINGLE_BAND_FREQ_RANGE_PARAM_LEN", dec 2);
    ("EQ_SINGLE_BAND_FREQ_PARAM_LEN", dec 1); ("EQ_BAND_INDEX_PARAM_LEN", dec 1);
    ("EQ_PRESET_ID_PARAM_LEN", dec 1); ("EQ_NUM_PRESETS_PARAM_LEN", dec 1);
    ("EQ_PRESET_NAME_PARAM_LEN", dec 32); ("EQ_TYPE_NONE", dec 0); ("EQ_BASS_BOOST", dec 1);
    ("EQ_BASS_CUT", dec 2); ("EQ_TREBLE_BOOST", dec 3); ("EQ_TREBLE_CUT", dec 4);
    ("EQ_BAND_BOOST", dec 5); ("EQ_BAND_CUT", dec 6); ("SOFT_VOLUME_MODULE", hex 0x00006000);
    ("SOFT_VOLUME_ENABLE", hex 0x00006001); ("SOFT_VOLUME_GAIN_2CH", hex 0x00006002);
    ("SOFT_VOLUME_GAIN_MASTER", hex 0x00006003); ("SOFT_VOLUME_ENABLE_PARAM_LEN", dec 1);
    ("SOFT_VOLUME_GAIN_2CH_PARAM_LEN", dec 2); ("SOFT_VOLUME_GAIN_MASTER_PARAM_LEN", dec 1);
    ("SOFT_VOLUME2_MODULE", hex 0x00007000); ("SOFT_VOLUME2_ENABLE", hex 0x00007001);
    ("SOFT_VOLUME2_GAIN_2CH", hex 0x00007002); ("SOFT_VOLUME2_GAIN_MASTER", hex 0x00007003);
    ("SOFT_VOLUME2_ENABLE_PARAM_LEN", Id "SOFT_VOLUME_ENABLE_PARAM_LEN");
    ("SOFT_VOLUME2_GAIN_2CH_PARAM_LEN", Id "SOFT_VOLUME_GAIN_2CH_PARAM_LEN");
    ("SOFT_VOLUME2_GAIN_MASTER_PARAM_LEN", Id "SOFT_VOLUME_GAIN_MASTER_PARAM_LEN");
    ("PBE_CONF_MODULE_ID", hex 0x00010C2A); ("PBE_CONF_PARAM_ID", hex 0x00010C49);
    ("PBE_MODULE", hex 0x00008000); ("PBE_ENABLE", hex 0x00008001);
    ("PBE_CONFIG", hex 0x00008002); ("PBE_ENABLE_PARAM_LEN", dec 1);
    ("PBE_CONFIG_PARAM_LEN", dec 28); ("COMMAND_PAYLOAD_LEN", dec 3)]].
Definition defs_MAX_INBAND_PARAM_SZ : list decl := [
  Defines [
    ("MAX_INBAND_PARAM_SZ", dec 4096); ("Q27_UNITY", Shl (dec 1) (dec 27));
    ("Q8_UNITY", Shl (dec 1) (dec 8)); ("CUSTOM_OPENSL_PRESET", dec 18)]].
Definition header : header :=
  Header "sound/audio_effects.h" [] (concat [
    defs_VIRTUALIZER_MODULE; defs_MAX_INBAND_PARAM_SZ]).
End Sound_audio_effects.

(** ** [sound/compress_offload.h] *)

Module Sound_compress_offload.
Definition defs_SNDRV_COMPRESS_RENDER_MODE_AUDIO_MASTER : list decl := [
  Defines [
    ("SNDRV_COMPRESS_RENDER_MODE_AUDIO_MASTER", dec 0);
    ("SNDRV_COMPRESS_RENDER_MODE_STC_MASTER", dec 1);
    ("SNDRV_COMPRESS_CLK_REC_MODE_NONE", dec 0); ("SNDRV_COMPRESS_CLK_REC_MODE_AUTO", dec 1)]].
Definition enum_sndrv_compress_encoder : list decl := [
  Enum [
    ("SNDRV_COMPRESS_ENCODER_PADDING", Some (dec 1));
    ("SNDRV_COMPRESS_ENCODER_DELAY", Some (dec 2));
    ("SNDRV_COMPRESS_MIN_BLK_SIZE", Some (dec 3)); ("SNDRV_COMPRESS_MAX_BLK_SIZE", Some (dec 4));
    ("SNDRV_COMPRESS_PATH_DELAY", Some (dec 5)); ("SNDRV_COMPRESS_RENDER_MODE", Some (dec 6));
    ("SNDRV_COMPRESS_CLK_REC_MODE", Some (dec 7));
    ("SNDRV_COMPRESS_RENDER_WINDOW", Some (dec 8)); ("SNDRV_COMPRESS_START_DELAY", Some (dec 9));
    ("SNDRV_COMPRESS_ENABLE_ADJUST_SESSION_CLOCK", Some (dec 10));
    ("SNDRV_COMPRESS_ADJUST_SESSION_CLOCK", Some (dec 11));
    ("SNDRV_COMPRESS_LATENCY_MODE", Some (dec 12))]].
Definition header : header :=
  Header "sound/compress_offload.h" [] (concat [
    defs_SNDRV_COMPRESS_RENDER_MODE_AUDIO_MASTER; enum_sndrv_compress_encoder]).
End Sound_compress_offload.

(** ** [sound/compress_params.h] *)

Module Sound_compress_params.
Definition defs_SND_DEC_DDP_MAX_PARAMS : list decl := [
  Defines [
    ("SND_DEC_DDP_MAX_PARAMS", dec 18); ("MAX_NUM_CODECS", dec 32);
    ("MAX_NUM_CODEC_DESCRIPTORS", dec 32); ("MAX_NUM_BITRATES", dec 32);
    ("MAX_NUM_SAMPLE_RATES", dec 32); ("MAX_NUM_FRAMES_PER_BUFFER", dec 1);
    ("COMPRESSED_META_DATA_MODE", hex 0x10); ("META_DATA_LEN_BYTES", dec 36);
    ("Q6_AC3_DECODER", hex 0x00010BF6); ("Q6_EAC3_DECODER", hex 0x00010C3C);
    ("Q6_DTS", hex 0x00010D88); ("Q6_DTS_LBR", hex 0x00010DBB)]].
Definition header : header :=
  Header "sound/compress_params.h" [] (concat [
    defs_SND_DEC_DDP_MAX_PARAMS]).
End Sound_compress_params.

(** ** [sound/devdep_params.h] *)

Module Sound_devdep_params.
Definition defs_DTS_EAGLE_FLAG_IOCTL_PRE : list decl := [
  Defines [
    ("DTS_EAGLE_FLAG_IOCTL_PRE", Shl (dec 1) (dec 30));
    ("DTS_EAGLE_FLAG_IOCTL_JUSTSETCACHE", Shl (dec 1) (dec 31));
    ("DTS_EAGLE_FLAG_IOCTL_GETFROMCORE", Id "DTS_EAGLE_FLAG_IOCTL_JUSTSETCACHE");
    ("DTS_EAGLE_FLAG_IOCTL_MASK", Not (Or (Id "DTS_EAGLE_FLAG_IOCTL_PRE") (Id "DTS_EAGLE_FLAG_IOCTL_JUSTSETCACHE")));
    ("DTS_EAGLE_FLAG_ALSA_GET", Shl (dec 1) (dec 31))]].
Definition header : header :=
  Header "sound/devdep_params.h" [] (concat [
    defs_DTS_EAGLE_FLAG_IOCTL_PRE]).
End Sound_devdep_params.

(** ** [sound/emu10k1.h] *)

Module Sound_emu10k1.
Definition defs_iMAC0 : list decl := [
  Defines [
    ("iMAC0", hex 0x00); ("iMAC1", hex 0x01); ("iMAC2", hex 0x02); ("iMAC3", hex 0x03);
    ("iMACINT0", hex 0x04); ("iMACINT1", hex 0x05); ("iACC3", hex 0x06); ("iMACMV", hex 0x07);
    ("iANDXOR", hex 0x08); ("iTSTNEG", hex 0x09); ("iLIMITGE", hex 0x0a); ("iLIMITLT", hex 0x0b);
    ("iLOG", hex 0x0c); ("iEXP", hex 0x0d); ("iINTERP", hex 0x0e); ("iSKIP", hex 0x0f)]].
Definition defs_C_00000000 : list decl := [
  Defines [
    ("C_00000000", hex 0x40); ("C_00000001", hex 0x41); ("C_00000002", hex 0x42);
    ("C_00000003", hex 0x43); ("C_00000004", hex 0x44); ("C_00000008", hex 0x45);
    ("C_00000010", hex 0x46); ("C_00000020", hex 0x47); ("C_00000100", hex 0x48);
    ("C_00010000", hex 0x49); ("C_00080000", hex 0x4a); ("C_10000000", hex 0x4b);
    ("C_20000000", hex 0x4c); ("C_40000000", hex 0x4d); ("C_80000000", hex 0x4e);
    ("C_7fffffff", hex 0x4f); ("C_ffffffff", hex 0x50); ("C_fffffffe", hex 0x51);
    ("C_c0000000", hex 0x52); ("C_4f1bbcdc", hex 0x53); ("C_5a7ef9db", hex 0x54);
    ("C_00100000", hex 0x55); ("GPR_ACCU", hex 0x56); ("GPR_COND", hex 0x57);
    ("GPR_NOISE0", hex 0x58); ("GPR_NOISE1", hex 0x59); ("GPR_IRQ", hex 0x5a);
    ("GPR_DBAC", hex 0x5b)]].
Definition defs_CC_REG_NORMALIZED : list decl := [
  Defines [
    ("CC_REG_NORMALIZED", Id "C_00000001"); ("CC_REG_BORROW", Id "C_00000002");
    ("CC_REG_MINUS", Id "C_00000004"); ("CC_REG_ZERO", Id "C_00000008");
    ("CC_REG_SATURATE", Id "C_00000010"); ("CC_REG_NONZERO", Id "C_00000100");
    ("FXBUS_PCM_LEFT", hex 0x00); ("FXBUS_PCM_RIGHT", hex 0x01);
    ("FXBUS_PCM_LEFT_REAR", hex 0x02); ("FXBUS_PCM_RIGHT_REAR", hex 0x03);
    ("FXBUS_MIDI_LEFT", hex 0x04); ("FXBUS_MIDI_RIGHT", hex 0x05);
    ("FXBUS_PCM_CENTER", hex 0x06); ("FXBUS_PCM_LFE", hex 0x07);
    ("FXBUS_PCM_LEFT_FRONT", hex 0x08); ("FXBUS_PCM_RIGHT_FRONT", hex 0x09);
    ("FXBUS_MIDI_REVERB", hex 0x0c); ("FXBUS_MIDI_CHORUS", hex 0x0d);
    ("FXBUS_PCM_LEFT_SIDE", hex 0x0e); ("FXBUS_PCM_RIGHT_SIDE", hex 0x0f);
    ("FXBUS_PT_LEFT", hex 0x14); ("FXBUS_PT_RIGHT", hex 0x15); ("EXTIN_AC97_L", hex 0x00);
    ("EXTIN_AC97_R", hex 0x01); ("EXTIN_SPDIF_CD_L", hex 0x02); ("EXTIN_SPDIF_CD_R", hex 0x03);
    ("EXTIN_ZOOM_L", hex 0x04); ("EXTIN_ZOOM_R", hex 0x05); ("EXTIN_TOSLINK_L", hex 0x06);
    ("EXTIN_TOSLINK_R", hex 0x07); ("EXTIN_LINE1_L", hex 0x08); ("EXTIN_LINE1_R", hex 0x09);
    ("EXTIN_COAX_SPDIF_L", hex 0x0a); ("EXTIN_COAX_SPDIF_R", hex 0x0b);
    ("EXTIN_LINE2_L", hex 0x0c); ("EXTIN_LINE2_R", hex 0x0d); ("EXTOUT_AC97_L", hex 0x00);
    ("EXTOUT_AC97_R", hex 0x01); ("EXTOUT_TOSLINK_L", hex 0x02); ("EXTOUT_TOSLINK_R", hex 0x03);
    ("EXTOUT_AC97_CENTER", hex 0x04); ("EXTOUT_AC97_LFE", hex 0x05);
    ("EXTOUT_HEADPHONE_L", hex 0x06); ("EXTOUT_HEADPHONE_R", hex 0x07);
    ("EXTOUT_REAR_L", hex 0x08); ("EXTOUT_REAR_R", hex 0x09); ("EXTOUT_ADC_CAP_L", hex 0x0a);
    ("EXTOUT_ADC_CAP_R", hex 0x0b); ("EXTOUT_MIC_CAP", hex 0x0c);
    ("EXTOUT_AC97_REAR_L", hex 0x0d); ("EXTOUT_AC97_REAR_R", hex 0x0e);
    ("EXTOUT_ACENTER", hex 0x11); ("EXTOUT_ALFE", hex 0x12); ("A_EXTIN_AC97_L", hex 0x00);
    ("A_EXTIN_AC97_R", hex 0x01); ("A_EXTIN_SPDIF_CD_L", hex 0x02);
    ("A_EXTIN_SPDIF_CD_R", hex 0x03); ("A_EXTIN_OPT_SPDIF_L", hex 0x04);
    ("A_EXTIN_OPT_SPDIF_R", hex 0x05); ("A_EXTIN_LINE2_L", hex 0x08);
    ("A_EXTIN_LINE2_R", hex 0x09); ("A_EXTIN_ADC_L", hex 0x0a); ("A_EXTIN_ADC_R", hex 0x0b);
    ("A_EXTIN_AUX2_L", hex 0x0c); ("A_EXTIN_AUX2_R", hex 0x0d); ("A_EXTOUT_FRONT_L", hex 0x00);
    ("A_EXTOUT_FRONT_R", hex 0x01); ("A_EXTOUT_CENTER", hex 0x02); ("A_EXTOUT_LFE", hex 0x03);
    ("A_EXTOUT_HEADPHONE_L", hex 0x04); ("A_EXTOUT_HEADPHONE_R", hex 0x05);
    ("A_EXTOUT_REAR_L", hex 0x06); ("A_EXTOUT_REAR_R", hex 0x07);
    ("A_EXTOUT_AFRONT_L", hex 0x08); ("A_EXTOUT_AFRONT_R", hex 0x09);
    ("A_EXTOUT_ACENTER", hex 0x0a); ("A_EXTOUT_ALFE", hex 0x0b); ("A_EXTOUT_ASIDE_L", hex 0x0c);
    ("A_EXTOUT_ASIDE_R", hex 0x0d); ("A_EXTOUT_AREAR_L", hex 0x0e);
    ("A_EXTOUT_AREAR_R", hex 0x0f); ("A_EXTOUT_AC97_L", hex 0x10); ("A_EXTOUT_AC97_R", hex 0x11);
    ("A_EXTOUT_ADC_CAP_L", hex 0x16); ("A_EXTOUT_ADC_CAP_R", hex 0x17);
    ("A_EXTOUT_MIC_CAP", hex 0x18); ("A_C_00000000", hex 0xc0); ("A_C_00000001", hex 0xc1);
    ("A_C_00000002", hex 0xc2); ("A_C_00000003", hex 0xc3); ("A_C_00000004", hex 0xc4);
    ("A_C_00000008", hex 0xc5); ("A_C_00000010", hex 0xc6); ("A_C_00000020", hex 0xc7);
    ("A_C_00000100", hex 0xc8); ("A_C_00010000", hex 0xc9); ("A_C_00000800", hex 0xca);
    ("A_C_10000000", hex 0xcb); ("A_C_20000000", hex 0xcc); ("A_C_40000000", hex 0xcd);
    ("A_C_80000000", hex 0xce); ("A_C_7fffffff", hex 0xcf); ("A_C_ffffffff", hex 0xd0);
    ("A_C_fffffffe", hex 0xd1); ("A_C_c0000000", hex 0xd2); ("A_C_4f1bbcdc", hex 0xd3);
    ("A_C_5a7ef9db", hex 0xd4); ("A_C_00100000", hex 0xd5); ("A_GPR_ACCU", hex 0xd6);
    ("A_GPR_COND", hex 0xd7); ("A_GPR_NOISE0", hex 0xd8); ("A_GPR_NOISE1", hex 0xd9);
    ("A_GPR_IRQ", hex 0xda); ("A_GPR_DBAC", hex 0xdb); ("A_GPR_DBACE", hex 0xde);
    ("EMU10K1_DBG_ZC", hex 0x80000000); ("EMU10K1_DBG_SATURATION_OCCURED", hex 0x02000000);
    ("EMU10K1_DBG_SATURATION_ADDR", hex 0x01ff0000); ("EMU10K1_DBG_SINGLE_STEP", hex 0x00008000);
    ("EMU10K1_DBG_STEP", hex 0x00004000); ("EMU10K1_DBG_CONDITION_CODE", hex 0x00003e00);
    ("EMU10K1_DBG_SINGLE_STEP_ADDR", hex 0x000001ff);
    ("TANKMEMADDRREG_ADDR_MASK", hex 0x000fffff); ("TANKMEMADDRREG_CLEAR", hex 0x00800000);
    ("TANKMEMADDRREG_ALIGN", hex 0x00400000); ("TANKMEMADDRREG_WRITE", hex 0x00200000);
    ("TANKMEMADDRREG_READ", hex 0x00100000)]].
Definition defs_EMU10K1_GPR_TRANSLATION_NONE : list decl := [
  Defines [
    ("EMU10K1_GPR_TRANSLATION_NONE", dec 0); ("EMU10K1_GPR_TRANSLATION_TABLE100", dec 1);
    ("EMU10K1_GPR_TRANSLATION_BASS", dec 2); ("EMU10K1_GPR_TRANSLATION_TREBLE", dec 3);
    ("EMU10K1_GPR_TRANSLATION_ONOFF", dec 4)]].
Definition header : header :=
  Header "sound/emu10k1.h" [] (concat [
    defs_iMAC0; defs_C_00000000; defs_CC_REG_NORMALIZED; defs_EMU10K1_GPR_TRANSLATION_NONE]).
End Sound_emu10k1.

(** ** [sound/firewire.h] *)

Module Sound_firewire.
Definition defs_SNDRV_FIREWIRE_EVENT_LOCK_STATUS : list decl := [
  Defines [
    ("SNDRV_FIREWIRE_EVENT_LOCK_STATUS", hex 0x000010cc);
    ("SNDRV_FIREWIRE_EVENT_DICE_NOTIFICATION", hex 0xd1ce004e);
    ("SNDRV_FIREWIRE_EVENT_EFW_RESPONSE", hex 0x4e617475);
    ("SNDRV_FIREWIRE_EVENT_DIGI00X_MESSAGE", hex 0x746e736c)]].
Definition defs_SNDRV_FIREWIRE_TYPE_DICE : list decl := [
  Defines [
    ("SNDRV_FIREWIRE_TYPE_DICE", dec 1); ("SNDRV_FIREWIRE_TYPE_FIREWORKS", dec 2);
    ("SNDRV_FIREWIRE_TYPE_BEBOB", dec 3); ("SNDRV_FIREWIRE_TYPE_OXFW", dec 4);
    ("SNDRV_FIREWIRE_TYPE_DIGI00X", dec 5); ("SNDRV_FIREWIRE_TYPE_TASCAM", dec 6)]].
Definition header : header :=
  Header "sound/firewire.h" [] (concat [
    defs_SNDRV_FIREWIRE_EVENT_LOCK_STATUS; defs_SNDRV_FIREWIRE_TYPE_DICE]).
End Sound_firewire.

(** ** [sound/hdsp.h] *)

Module Sound_hdsp.
Definition enum_HDSP_IO_Type : list decl := [
  Enum [
    ("Digiface", None); ("Multiface", None); ("H9652", None); ("H9632", None); ("RPM", None);
    ("Undefined", None)]].
Definition header : header :=
  Header "sound/hdsp.h" [] (concat [
    enum_HDSP_IO_Type]).
End Sound_hdsp.

(** ** [sound/hdspm.h] *)

Module Sound_hdspm.
Definition enum_hdspm_io_type : list decl := [
  Enum [
    ("MADI", None); ("MADIface", None); ("AIO", None); ("AES32", None); ("RayDAT", None)];
  Enum [
    ("ss", None); ("ds", None); ("qs", None)]].
Definition enum_hdspm_ltc_format : list decl := [
  Enum [
    ("format_invalid", None); ("fps_24", None); ("fps_25", None); ("fps_2997", None);
    ("fps_30", None)];
  Enum [
    ("frame_invalid", None); ("drop_frame", None); ("full_frame", None)];
  Enum [
    ("ntsc", None); ("pal", None); ("no_video", None)]].
Definition enum_hdspm_sync : list decl := [
  Enum [
    ("hdspm_sync_no_lock", Some (dec 0)); ("hdspm_sync_lock", Some (dec 1));
    ("hdspm_sync_sync", Some (dec 2))]].
Definition enum_hdspm_syncsource : list decl := [
  Enum [
    ("syncsource_wc", Some (dec 0)); ("syncsource_madi", Some (dec 1));
    ("syncsource_tco", Some (dec 2)); ("syncsource_sync", Some (dec 3));
    ("syncsource_none", Some (dec 4))]].
Definition header : header :=
  Header "sound/hdspm.h" [] (concat [
    enum_hdspm_io_type; enum_hdspm_ltc_format; enum_hdspm_sync; enum_hdspm_syncsource]).
End Sound_hdspm.

(** ** [sound/lsm_params.h] *)

Module Sound_lsm_params.
Definition defs_LSM_OUT_FORMAT_PCM : list decl := [
  Defines [
    ("LSM_OUT_FORMAT_PCM", dec 0); ("LSM_OUT_FORMAT_ADPCM", Shl (dec 1) (dec 0));
    ("LSM_OUT_DATA_RAW", dec 0); ("LSM_OUT_DATA_PACKED", dec 1);
    ("LSM_OUT_DATA_EVENTS_DISABLED", dec 0); ("LSM_OUT_DATA_EVENTS_ENABLED", dec 1);
    ("LSM_OUT_TRANSFER_MODE_RT", dec 0); ("LSM_OUT_TRANSFER_MODE_FTRT", dec 1);
    ("LSM_ENDPOINT_DETECT_THRESHOLD", dec 0); ("LSM_OPERATION_MODE", dec 1); ("LSM_GAIN", dec 2);
    ("LSM_MIN_CONFIDENCE_LEVELS", dec 3); ("LSM_REG_SND_MODEL", dec 4);
    ("LSM_DEREG_SND_MODEL", dec 5); ("LSM_CUSTOM_PARAMS", dec 6); ("LSM_POLLING_ENABLE", dec 7);
    ("LSM_PARAMS_MAX", Add (Id "LSM_POLLING_ENABLE") (dec 1));
    ("LSM_EVENT_NON_TIME_STAMP_MODE", dec 0); ("LSM_EVENT_TIME_STAMP_MODE", dec 1)]].
Definition enum_lsm_vw_status : list decl := [
  Enum [
    ("LSM_VOICE_WAKEUP_STATUS_RUNNING", Some (dec 1));
    ("LSM_VOICE_WAKEUP_STATUS_DETECTED", None); ("LSM_VOICE_WAKEUP_STATUS_END_SPEECH", None);
    ("LSM_VOICE_WAKEUP_STATUS_REJECTED", None)]].
Definition header : header :=
  Header "sound/lsm_params.h" [] (concat [
    defs_LSM_OUT_FORMAT_PCM; enum_lsm_vw_status]).
End Sound_lsm_params.

(** ** [sound/msmcal-hwdep.h] *)

Module Sound_msmcal_hwdep.
Definition enum_wcd_cal_type : list decl := [
  Enum [
    ("WCD9XXX_MIN_CAL", None); ("WCD9XXX_ANC_CAL", Some (Id "WCD9XXX_MIN_CAL"));
    ("WCD9XXX_MAD_CAL", None); ("WCD9XXX_MBHC_CAL", None); ("WCD9XXX_VBAT_CAL", None);
    ("WCD9XXX_MAX_CAL", None)]].
Definition header : header :=
  Header "sound/msmcal-hwdep.h" [] (concat [
    enum_wcd_cal_type]).
End Sound_msmcal_hwdep.

(** ** [sound/sb16_csp.h] *)

Module Sound_sb16_csp.
Definition defs_SNDRV_SB_CSP_MODE_NONE : list decl := [
  Defines [
    ("SNDRV_SB_CSP_MODE_NONE", hex 0x00); ("SNDRV_SB_CSP_MODE_DSP_READ", hex 0x01);
    ("SNDRV_SB_CSP_MODE_DSP_WRITE", hex 0x02); ("SNDRV_SB_CSP_MODE_QSOUND", hex 0x04);
    ("SNDRV_SB_CSP_LOAD_FROMUSER", hex 0x01); ("SNDRV_SB_CSP_LOAD_INITBLOCK", hex 0x02);
    ("SNDRV_SB_CSP_SAMPLE_8BIT", hex 0x01); ("SNDRV_SB_CSP_SAMPLE_16BIT", hex 0x02);
    ("SNDRV_SB_CSP_MONO", hex 0x01); ("SNDRV_SB_CSP_STEREO", hex 0x02);
    ("SNDRV_SB_CSP_RATE_8000", hex 0x01); ("SNDRV_SB_CSP_RATE_11025", hex 0x02);
    ("SNDRV_SB_CSP_RATE_22050", hex 0x04); ("SNDRV_SB_CSP_RATE_44100", hex 0x08);
    ("SNDRV_SB_CSP_RATE_ALL", hex 0x0f); ("SNDRV_SB_CSP_ST_IDLE", hex 0x00);
    ("SNDRV_SB_CSP_ST_LOADED", hex 0x01); ("SNDRV_SB_CSP_ST_RUNNING", hex 0x02);
    ("SNDRV_SB_CSP_ST_PAUSED", hex 0x04); ("SNDRV_SB_CSP_ST_AUTO", hex 0x08);
    ("SNDRV_SB_CSP_ST_QSOUND", hex 0x10); ("SNDRV_SB_CSP_QSOUND_MAX_RIGHT", hex 0x20);
    ("SNDRV_SB_CSP_MAX_MICROCODE_FILE_SIZE", hex 0x3000)]].
Definition header : header :=
  Header "sound/sb16_csp.h" [] (concat [
    defs_SNDRV_SB_CSP_MODE_NONE]).
End Sound_sb16_csp.

(** ** [sound/tlv.h] *)

Module Sound_tlv.
Definition defs_SNDRV_CTL_TLVT_CONTAINER : list decl := [
  Defines [
    ("SNDRV_CTL_TLVT_CONTAINER", dec 0); ("SNDRV_CTL_TLVT_DB_SCALE", dec 1);
    ("SNDRV_CTL_TLVT_DB_LINEAR", dec 2); ("SNDRV_CTL_TLVT_DB_RANGE", dec 3);
    ("SNDRV_CTL_TLVT_DB_MINMAX", dec 4); ("SNDRV_CTL_TLVT_DB_MINMAX_MUTE", dec 5)]].
Definition header : header :=
  Header "sound/tlv.h" [] (concat [
    defs_SNDRV_CTL_TLVT_CONTAINER]).
End Sound_tlv.

(** ** [sound/voice_svc.h] *)

Module Sound_voice_svc.
Definition defs_MAX_APR_SERVICE_NAME_LEN : list decl := [
  Defines [
    ("MAX_APR_SERVICE_NAME_LEN", dec 64); ("MSG_REGISTER", hex 0x1); ("MSG_REQUEST", hex 0x2);
    ("MSG_RESPONSE", hex 0x3)]].
Definition header : header :=
  Header "sound/voice_svc.h" [] (concat [
    defs_MAX_APR_SERVICE_NAME_LEN]).
End Sound_voice_svc.

(** ** [sound/wcd-dsp-glink.h] *)

Module Sound_wcd_dsp_glink.
Definition enum_WDSP_REG_PKT : list decl := [
  Enum [
    ("WDSP_REG_PKT", Some (dec 1)); ("WDSP_CMD_PKT", None); ("WDSP_READY_PKT", None)]].
Definition header : header :=
  Header "sound/wcd-dsp-glink.h" [] (concat [
    enum_WDSP_REG_PKT]).
End Sound_wcd_dsp_glink.
