(* ===== verification/ConstNetlink.v ===== *)
(** * Constants of the netlink families

    Macros and enumerations of these headers of [kernel-headers], one module per
    header: each table holds the consecutive definitions of one place. *)
From S2P Require Import Prelude.
From S2P Require Import CConst.
From S2P Require Import ConstBase.
#[local] Open Scope string_scope.

(** ** [linux/taskstats.h] *)

Module Taskstats.
Definition enum_TASKSTATS_CMD_UNSPEC : list decl := [
  Enum [
    ("TASKSTATS_CMD_UNSPEC", Some (dec 0)); ("TASKSTATS_CMD_GET", None);
    ("TASKSTATS_CMD_NEW", None); ("__TASKSTATS_CMD_MAX", None)];
  Defines [
    ("TASKSTATS_CMD_MAX", Sub (Id "__TASKSTATS_CMD_MAX") (dec 1))];
  Enum [
    ("TASKSTATS_TYPE_UNSPEC", Some (dec 0)); ("TASKSTATS_TYPE_PID", None);
    ("TASKSTATS_TYPE_TGID", None); ("TASKSTATS_TYPE_STATS", None);
    ("TASKSTATS_TYPE_AGGR_PID", None); ("TASKSTATS_TYPE_AGGR_TGID", None);
    ("TASKSTATS_TYPE_NULL", None); ("__TASKSTATS_TYPE_MAX", None)];
  Defines [
    ("TASKSTATS_TYPE_MAX", Sub (Id "__TASKSTATS_TYPE_MAX") (dec 1))];
  Enum [
    ("TASKSTATS_CMD_ATTR_UNSPEC", Some (dec 0)); ("TASKSTATS_CMD_ATTR_PID", None);
    ("TASKSTATS_CMD_ATTR_TGID", None); ("TASKSTATS_CMD_ATTR_REGISTER_CPUMASK", None);
    ("TASKSTATS_CMD_ATTR_DEREGISTER_CPUMASK", None); ("__TASKSTATS_CMD_ATTR_MAX", None)];
  Defines [
    ("TASKSTATS_CMD_ATTR_MAX", Sub (Id "__TASKSTATS_CMD_ATTR_MAX") (dec 1))]].
Definition header : header :=
  Header "linux/taskstats.h" [] (concat [
    enum_TASKSTATS_CMD_UNSPEC]).
End Taskstats.

(** ** [linux/dcbnl.h] *)

Module Dcbnl.
Definition defs_IEEE_8021QAZ_MAX_TCS : list decl := [
  Defines [
    ("IEEE_8021QAZ_MAX_TCS", dec 8); ("IEEE_8021QAZ_TSA_STRICT", dec 0);
    ("IEEE_8021QAZ_TSA_CB_SHAPER", dec 1); ("IEEE_8021QAZ_TSA_ETS", dec 2);
    ("IEEE_8021QAZ_TSA_VENDOR", dec 255)]].
Definition enum_dcbnl_cndd_states : list decl := [
  Enum [
    ("DCB_CNDD_RESET", Some (dec 0)); ("DCB_CNDD_EDGE", None); ("DCB_CNDD_INTERIOR", None);
    ("DCB_CNDD_INTERIOR_READY", None)]].
Definition defs_IEEE_8021QAZ_APP_SEL_ETHERTYPE : list decl := [
  Defines [
    ("IEEE_8021QAZ_APP_SEL_ETHERTYPE", dec 1); ("IEEE_8021QAZ_APP_SEL_STREAM", dec 2);
    ("IEEE_8021QAZ_APP_SEL_DGRAM", dec 3); ("IEEE_8021QAZ_APP_SEL_ANY", dec 4)]].
Definition enum_dcbnl_commands : list decl := [
  Enum [
    ("DCB_CMD_UNDEFINED", None); ("DCB_CMD_GSTATE", None); ("DCB_CMD_SSTATE", None);
    ("DCB_CMD_PGTX_GCFG", None); ("DCB_CMD_PGTX_SCFG", None); ("DCB_CMD_PGRX_GCFG", None);
    ("DCB_CMD_PGRX_SCFG", None); ("DCB_CMD_PFC_GCFG", None); ("DCB_CMD_PFC_SCFG", None);
    ("DCB_CMD_SET_ALL", None); ("DCB_CMD_GPERM_HWADDR", None); ("DCB_CMD_GCAP", None);
    ("DCB_CMD_GNUMTCS", None); ("DCB_CMD_SNUMTCS", None); ("DCB_CMD_PFC_GSTATE", None);
    ("DCB_CMD_PFC_SSTATE", None); ("DCB_CMD_BCN_GCFG", None); ("DCB_CMD_BCN_SCFG", None);
    ("DCB_CMD_GAPP", None); ("DCB_CMD_SAPP", None); ("DCB_CMD_IEEE_SET", None);
    ("DCB_CMD_IEEE_GET", None); ("DCB_CMD_GDCBX", None); ("DCB_CMD_SDCBX", None);
    ("DCB_CMD_GFEATCFG", None); ("DCB_CMD_SFEATCFG", None); ("DCB_CMD_CEE_GET", None);
    ("DCB_CMD_IEEE_DEL", None); ("__DCB_CMD_ENUM_MAX", None);
    ("DCB_CMD_MAX", Some (Sub (Id "__DCB_CMD_ENUM_MAX") (dec 1)))];
  Enum [
    ("DCB_ATTR_UNDEFINED", None); ("DCB_ATTR_IFNAME", None); ("DCB_ATTR_STATE", None);
    ("DCB_ATTR_PFC_STATE", None); ("DCB_ATTR_PFC_CFG", None); ("DCB_ATTR_NUM_TC", None);
    ("DCB_ATTR_PG_CFG", None); ("DCB_ATTR_SET_ALL", None); ("DCB_ATTR_PERM_HWADDR", None);
    ("DCB_ATTR_CAP", None); ("DCB_ATTR_NUMTCS", None); ("DCB_ATTR_BCN", None);
    ("DCB_ATTR_APP", None); ("DCB_ATTR_IEEE", None); ("DCB_ATTR_DCBX", None);
    ("DCB_ATTR_FEATCFG", None); ("DCB_ATTR_CEE", None); ("__DCB_ATTR_ENUM_MAX", None);
    ("DCB_ATTR_MAX", Some (Sub (Id "__DCB_ATTR_ENUM_MAX") (dec 1)))];
  Enum [
    ("DCB_ATTR_IEEE_UNSPEC", None); ("DCB_ATTR_IEEE_ETS", None); ("DCB_ATTR_IEEE_PFC", None);
    ("DCB_ATTR_IEEE_APP_TABLE", None); ("DCB_ATTR_IEEE_PEER_ETS", None);
    ("DCB_ATTR_IEEE_PEER_PFC", None); ("DCB_ATTR_IEEE_PEER_APP", None);
    ("DCB_ATTR_IEEE_MAXRATE", None); ("DCB_ATTR_IEEE_QCN", None);
    ("DCB_ATTR_IEEE_QCN_STATS", None); ("__DCB_ATTR_IEEE_MAX", None)];
  Defines [
    ("DCB_ATTR_IEEE_MAX", Sub (Id "__DCB_ATTR_IEEE_MAX") (dec 1))];
  Enum [
    ("DCB_ATTR_IEEE_APP_UNSPEC", None); ("DCB_ATTR_IEEE_APP", None);
    ("__DCB_ATTR_IEEE_APP_MAX", None)];
  Defines [
    ("DCB_ATTR_IEEE_APP_MAX", Sub (Id "__DCB_ATTR_IEEE_APP_MAX") (dec 1))]].
Definition enum_cee_attrs : list decl := [
  Enum [
    ("DCB_ATTR_CEE_UNSPEC", None); ("DCB_ATTR_CEE_PEER_PG", None);
    ("DCB_ATTR_CEE_PEER_PFC", None); ("DCB_ATTR_CEE_PEER_APP_TABLE", None);
    ("DCB_ATTR_CEE_TX_PG", None); ("DCB_ATTR_CEE_RX_PG", None); ("DCB_ATTR_CEE_PFC", None);
    ("DCB_ATTR_CEE_APP_TABLE", None); ("DCB_ATTR_CEE_FEAT", None); ("__DCB_ATTR_CEE_MAX", None)];
  Defines [
    ("DCB_ATTR_CEE_MAX", Sub (Id "__DCB_ATTR_CEE_MAX") (dec 1))];
  Enum [
    ("DCB_ATTR_CEE_PEER_APP_UNSPEC", None); ("DCB_ATTR_CEE_PEER_APP_INFO", None);
    ("DCB_ATTR_CEE_PEER_APP", None); ("__DCB_ATTR_CEE_PEER_APP_MAX", None)];
  Defines [
    ("DCB_ATTR_CEE_PEER_APP_MAX", Sub (Id "__DCB_ATTR_CEE_PEER_APP_MAX") (dec 1))];
  Enum [
    ("DCB_ATTR_CEE_APP_UNSPEC", None); ("DCB_ATTR_CEE_APP", None);
    ("__DCB_ATTR_CEE_APP_MAX", None)];
  Defines [
    ("DCB_ATTR_CEE_APP_MAX", Sub (Id "__DCB_ATTR_CEE_APP_MAX") (dec 1))];
  Enum [
    ("DCB_PFC_UP_ATTR_UNDEFINED", None); ("DCB_PFC_UP_ATTR_0", None);
    ("DCB_PFC_UP_ATTR_1", None); ("DCB_PFC_UP_ATTR_2", None); ("DCB_PFC_UP_ATTR_3", None);
    ("DCB_PFC_UP_ATTR_4", None); ("DCB_PFC_UP_ATTR_5", None); ("DCB_PFC_UP_ATTR_6", None);
    ("DCB_PFC_UP_ATTR_7", None); ("DCB_PFC_UP_ATTR_ALL", None);
    ("__DCB_PFC_UP_ATTR_ENUM_MAX", None);
    ("DCB_PFC_UP_ATTR_MAX", Some (Sub (Id "__DCB_PFC_UP_ATTR_ENUM_MAX") (dec 1)))];
  Enum [
    ("DCB_PG_ATTR_UNDEFINED", None); ("DCB_PG_ATTR_TC_0", None); ("DCB_PG_ATTR_TC_1", None);
    ("DCB_PG_ATTR_TC_2", None); ("DCB_PG_ATTR_TC_3", None); ("DCB_PG_ATTR_TC_4", None);
    ("DCB_PG_ATTR_TC_5", None); ("DCB_PG_ATTR_TC_6", None); ("DCB_PG_ATTR_TC_7", None);
    ("DCB_PG_ATTR_TC_MAX", None); ("DCB_PG_ATTR_TC_ALL", None); ("DCB_PG_ATTR_BW_ID_0", None);
    ("DCB_PG_ATTR_BW_ID_1", None); ("DCB_PG_ATTR_BW_ID_2", None); ("DCB_PG_ATTR_BW_ID_3", None);
    ("DCB_PG_ATTR_BW_ID_4", None); ("DCB_PG_ATTR_BW_ID_5", None); ("DCB_PG_ATTR_BW_ID_6", None);
    ("DCB_PG_ATTR_BW_ID_7", None); ("DCB_PG_ATTR_BW_ID_MAX", None);
    ("DCB_PG_ATTR_BW_ID_ALL", None); ("__DCB_PG_ATTR_ENUM_MAX", None);
    ("DCB_PG_ATTR_MAX", Some (Sub (Id "__DCB_PG_ATTR_ENUM_MAX") (dec 1)))];
  Enum [
    ("DCB_TC_ATTR_PARAM_UNDEFINED", None); ("DCB_TC_ATTR_PARAM_PGID", None);
    ("DCB_TC_ATTR_PARAM_UP_MAPPING", None); ("DCB_TC_ATTR_PARAM_STRICT_PRIO", None);
    ("DCB_TC_ATTR_PARAM_BW_PCT", None); ("DCB_TC_ATTR_PARAM_ALL", None);
    ("__DCB_TC_ATTR_PARAM_ENUM_MAX", None);
    ("DCB_TC_ATTR_PARAM_MAX", Some (Sub (Id "__DCB_TC_ATTR_PARAM_ENUM_MAX") (dec 1)))]].
Definition enum_dcbnl_cap_attrs : list decl := [
  Enum [
    ("DCB_CAP_ATTR_UNDEFINED", None); ("DCB_CAP_ATTR_ALL", None); ("DCB_CAP_ATTR_PG", None);
    ("DCB_CAP_ATTR_PFC", None); ("DCB_CAP_ATTR_UP2TC", None); ("DCB_CAP_ATTR_PG_TCS", None);
    ("DCB_CAP_ATTR_PFC_TCS", None); ("DCB_CAP_ATTR_GSP", None); ("DCB_CAP_ATTR_BCN", None);
    ("DCB_CAP_ATTR_DCBX", None); ("__DCB_CAP_ATTR_ENUM_MAX", None);
    ("DCB_CAP_ATTR_MAX", Some (Sub (Id "__DCB_CAP_ATTR_ENUM_MAX") (dec 1)))];
  Defines [
    ("DCB_CAP_DCBX_HOST", hex 0x01); ("DCB_CAP_DCBX_LLD_MANAGED", hex 0x02);
    ("DCB_CAP_DCBX_VER_CEE", hex 0x04); ("DCB_CAP_DCBX_VER_IEEE", hex 0x08);
    ("DCB_CAP_DCBX_STATIC", hex 0x10)];
  Enum [
    ("DCB_NUMTCS_ATTR_UNDEFINED", None); ("DCB_NUMTCS_ATTR_ALL", None);
    ("DCB_NUMTCS_ATTR_PG", None); ("DCB_NUMTCS_ATTR_PFC", None);
    ("__DCB_NUMTCS_ATTR_ENUM_MAX", None);
    ("DCB_NUMTCS_ATTR_MAX", Some (Sub (Id "__DCB_NUMTCS_ATTR_ENUM_MAX") (dec 1)))];
  Enum [
    ("DCB_BCN_ATTR_UNDEFINED", Some (dec 0)); ("DCB_BCN_ATTR_RP_0", None);
    ("DCB_BCN_ATTR_RP_1", None); ("DCB_BCN_ATTR_RP_2", None); ("DCB_BCN_ATTR_RP_3", None);
    ("DCB_BCN_ATTR_RP_4", None); ("DCB_BCN_ATTR_RP_5", None); ("DCB_BCN_ATTR_RP_6", None);
    ("DCB_BCN_ATTR_RP_7", None); ("DCB_BCN_ATTR_RP_ALL", None); ("DCB_BCN_ATTR_BCNA_0", None);
    ("DCB_BCN_ATTR_BCNA_1", None); ("DCB_BCN_ATTR_ALPHA", None); ("DCB_BCN_ATTR_BETA", None);
    ("DCB_BCN_ATTR_GD", None); ("DCB_BCN_ATTR_GI", None); ("DCB_BCN_ATTR_TMAX", None);
    ("DCB_BCN_ATTR_TD", None); ("DCB_BCN_ATTR_RMIN", None); ("DCB_BCN_ATTR_W", None);
    ("DCB_BCN_ATTR_RD", None); ("DCB_BCN_ATTR_RU", None); ("DCB_BCN_ATTR_WRTT", None);
    ("DCB_BCN_ATTR_RI", None); ("DCB_BCN_ATTR_C", None); ("DCB_BCN_ATTR_ALL", None);
    ("__DCB_BCN_ATTR_ENUM_MAX", None);
    ("DCB_BCN_ATTR_MAX", Some (Sub (Id "__DCB_BCN_ATTR_ENUM_MAX") (dec 1)))]].
Definition enum_dcbnl_app_attrs : list decl := [
  Enum [
    ("DCB_APP_ATTR_UNDEFINED", None); ("DCB_APP_ATTR_IDTYPE", None); ("DCB_APP_ATTR_ID", None);
    ("DCB_APP_ATTR_PRIORITY", None); ("__DCB_APP_ATTR_ENUM_MAX", None);
    ("DCB_APP_ATTR_MAX", Some (Sub (Id "__DCB_APP_ATTR_ENUM_MAX") (dec 1)))];
  Defines [
    ("DCB_FEATCFG_ERROR", hex 0x01); ("DCB_FEATCFG_ENABLE", hex 0x02);
    ("DCB_FEATCFG_WILLING", hex 0x04); ("DCB_FEATCFG_ADVERTISE", hex 0x08)];
  Enum [
    ("DCB_FEATCFG_ATTR_UNDEFINED", None); ("DCB_FEATCFG_ATTR_ALL", None);
    ("DCB_FEATCFG_ATTR_PG", None); ("DCB_FEATCFG_ATTR_PFC", None);
    ("DCB_FEATCFG_ATTR_APP", None); ("__DCB_FEATCFG_ATTR_ENUM_MAX", None);
    ("DCB_FEATCFG_ATTR_MAX", Some (Sub (Id "__DCB_FEATCFG_ATTR_ENUM_MAX") (dec 1)))]].
Definition header : header :=
  Header "linux/dcbnl.h" [] (concat [
    defs_IEEE_8021QAZ_MAX_TCS; enum_dcbnl_cndd_states; defs_IEEE_8021QAZ_APP_SEL_ETHERTYPE;
    enum_dcbnl_commands; enum_cee_attrs; enum_dcbnl_cap_attrs; enum_dcbnl_app_attrs]).
End Dcbnl.

(** ** [linux/ethtool.h] *)

Module Ethtool.
Definition defs_ETH_MDIO_SUPPORTS_C45 : list decl := [
  Defines [
    ("ETH_MDIO_SUPPORTS_C45", dec 2); ("ETHTOOL_FWVERS_LEN", dec 32);
    ("ETHTOOL_BUSINFO_LEN", dec 32); ("ETHTOOL_EROMVERS_LEN", dec 32)]].
Definition enum_tunable_id : list decl := [
  Enum [
    ("ETHTOOL_ID_UNSPEC", None); ("ETHTOOL_RX_COPYBREAK", None); ("ETHTOOL_TX_COPYBREAK", None);
    ("__ETHTOOL_TUNABLE_COUNT", None)];
  Enum [
    ("ETHTOOL_TUNABLE_UNSPEC", None); ("ETHTOOL_TUNABLE_U8", None);
    ("ETHTOOL_TUNABLE_U16", None); ("ETHTOOL_TUNABLE_U32", None); ("ETHTOOL_TUNABLE_U64", None);
    ("ETHTOOL_TUNABLE_STRING", None); ("ETHTOOL_TUNABLE_S8", None);
    ("ETHTOOL_TUNABLE_S16", None); ("ETHTOOL_TUNABLE_S32", None); ("ETHTOOL_TUNABLE_S64", None)]].
Definition enum_ethtool_stringset : list decl := [
  Enum [
    ("ETH_SS_TEST", Some (dec 0)); ("ETH_SS_STATS", None); ("ETH_SS_PRIV_FLAGS", None);
    ("ETH_SS_NTUPLE_FILTERS", None); ("ETH_SS_FEATURES", None); ("ETH_SS_RSS_HASH_FUNCS", None);
    ("ETH_SS_TUNABLES", None)]].
Definition enum_ethtool_test_flags : list decl := [
  Enum [
    ("ETH_TEST_FL_OFFLINE", Some (Shl (dec 1) (dec 0)));
    ("ETH_TEST_FL_FAILED", Some (Shl (dec 1) (dec 1)));
    ("ETH_TEST_FL_EXTERNAL_LB", Some (Shl (dec 1) (dec 2)));
    ("ETH_TEST_FL_EXTERNAL_LB_DONE", Some (Shl (dec 1) (dec 3)))]].
Definition enum_ethtool_flags : list decl := [
  Enum [
    ("ETH_FLAG_TXVLAN", Some (Shl (dec 1) (dec 7)));
    ("ETH_FLAG_RXVLAN", Some (Shl (dec 1) (dec 8)));
    ("ETH_FLAG_LRO", Some (Shl (dec 1) (dec 15)));
    ("ETH_FLAG_NTUPLE", Some (Shl (dec 1) (dec 27)));
    ("ETH_FLAG_RXHASH", Some (Shl (dec 1) (dec 28)))]].
Definition enum_ethtool_sfeatures_retval_bits : list decl := [
  Enum [
    ("ETHTOOL_F_UNSUPPORTED__BIT", None); ("ETHTOOL_F_WISH__BIT", None);
    ("ETHTOOL_F_COMPAT__BIT", None)]].
Definition defs_ETHTOOL_F_UNSUPPORTED : list decl := [
  Defines [
    ("ETHTOOL_F_UNSUPPORTED", Shl (dec 1) (Id "ETHTOOL_F_UNSUPPORTED__BIT"));
    ("ETHTOOL_F_WISH", Shl (dec 1) (Id "ETHTOOL_F_WISH__BIT"));
    ("ETHTOOL_F_COMPAT", Shl (dec 1) (Id "ETHTOOL_F_COMPAT__BIT"));
    ("ETHTOOL_GSET", hex 0x00000001); ("ETHTOOL_SSET", hex 0x00000002);
    ("ETHTOOL_GDRVINFO", hex 0x00000003); ("ETHTOOL_GREGS", hex 0x00000004);
    ("ETHTOOL_GWOL", hex 0x00000005); ("ETHTOOL_SWOL", hex 0x00000006);
    ("ETHTOOL_GMSGLVL", hex 0x00000007); ("ETHTOOL_SMSGLVL", hex 0x00000008);
    ("ETHTOOL_NWAY_RST", hex 0x00000009); ("ETHTOOL_GLINK", hex 0x0000000a);
    ("ETHTOOL_GEEPROM", hex 0x0000000b); ("ETHTOOL_SEEPROM", hex 0x0000000c);
    ("ETHTOOL_GCOALESCE", hex 0x0000000e); ("ETHTOOL_SCOALESCE", hex 0x0000000f);
    ("ETHTOOL_GRINGPARAM", hex 0x00000010); ("ETHTOOL_SRINGPARAM", hex 0x00000011);
    ("ETHTOOL_GPAUSEPARAM", hex 0x00000012); ("ETHTOOL_SPAUSEPARAM", hex 0x00000013);
    ("ETHTOOL_GRXCSUM", hex 0x00000014); ("ETHTOOL_SRXCSUM", hex 0x00000015);
    ("ETHTOOL_GTXCSUM", hex 0x00000016); ("ETHTOOL_STXCSUM", hex 0x00000017);
    ("ETHTOOL_GSG", hex 0x00000018); ("ETHTOOL_SSG", hex 0x00000019);
    ("ETHTOOL_TEST", hex 0x0000001a); ("ETHTOOL_GSTRINGS", hex 0x0000001b);
    ("ETHTOOL_PHYS_ID", hex 0x0000001c); ("ETHTOOL_GSTATS", hex 0x0000001d);
    ("ETHTOOL_GTSO", hex 0x0000001e); ("ETHTOOL_STSO", hex 0x0000001f);
    ("ETHTOOL_GPERMADDR", hex 0x00000020); ("ETHTOOL_GUFO", hex 0x00000021);
    ("ETHTOOL_SUFO", hex 0x00000022); ("ETHTOOL_GGSO", hex 0x00000023);
    ("ETHTOOL_SGSO", hex 0x00000024); ("ETHTOOL_GFLAGS", hex 0x00000025);
    ("ETHTOOL_SFLAGS", hex 0x00000026); ("ETHTOOL_GPFLAGS", hex 0x00000027);
    ("ETHTOOL_SPFLAGS", hex 0x00000028); ("ETHTOOL_GRXFH", hex 0x00000029);
    ("ETHTOOL_SRXFH", hex 0x0000002a); ("ETHTOOL_GGRO", hex 0x0000002b);
    ("ETHTOOL_SGRO", hex 0x0000002c); ("ETHTOOL_GRXRINGS", hex 0x0000002d);
    ("ETHTOOL_GRXCLSRLCNT", hex 0x0000002e); ("ETHTOOL_GRXCLSRULE", hex 0x0000002f);
    ("ETHTOOL_GRXCLSRLALL", hex 0x00000030); ("ETHTOOL_SRXCLSRLDEL", hex 0x00000031);
    ("ETHTOOL_SRXCLSRLINS", hex 0x00000032); ("ETHTOOL_FLASHDEV", hex 0x00000033);
    ("ETHTOOL_RESET", hex 0x00000034); ("ETHTOOL_SRXNTUPLE", hex 0x00000035);
    ("ETHTOOL_GRXNTUPLE", hex 0x00000036); ("ETHTOOL_GSSET_INFO", hex 0x00000037);
    ("ETHTOOL_GRXFHINDIR", hex 0x00000038); ("ETHTOOL_SRXFHINDIR", hex 0x00000039);
    ("ETHTOOL_GFEATURES", hex 0x0000003a); ("ETHTOOL_SFEATURES", hex 0x0000003b);
    ("ETHTOOL_GCHANNELS", hex 0x0000003c); ("ETHTOOL_SCHANNELS", hex 0x0000003d);
    ("ETHTOOL_SET_DUMP", hex 0x0000003e); ("ETHTOOL_GET_DUMP_FLAG", hex 0x0000003f);
    ("ETHTOOL_GET_DUMP_DATA", hex 0x00000040); ("ETHTOOL_GET_TS_INFO", hex 0x00000041);
    ("ETHTOOL_GMODULEINFO", hex 0x00000042); ("ETHTOOL_GMODULEEEPROM", hex 0x00000043);
    ("ETHTOOL_GEEE", hex 0x00000044); ("ETHTOOL_SEEE", hex 0x00000045);
    ("ETHTOOL_GRSSH", hex 0x00000046); ("ETHTOOL_SRSSH", hex 0x00000047);
    ("ETHTOOL_GTUNABLE", hex 0x00000048); ("ETHTOOL_STUNABLE", hex 0x00000049);
    ("SPARC_ETH_GSET", Id "ETHTOOL_GSET"); ("SPARC_ETH_SSET", Id "ETHTOOL_SSET");
    ("SUPPORTED_10baseT_Half", Shl (dec 1) (dec 0));
    ("SUPPORTED_10baseT_Full", Shl (dec 1) (dec 1));
    ("SUPPORTED_100baseT_Half", Shl (dec 1) (dec 2));
    ("SUPPORTED_100baseT_Full", Shl (dec 1) (dec 3));
    ("SUPPORTED_1000baseT_Half", Shl (dec 1) (dec 4));
    ("SUPPORTED_1000baseT_Full", Shl (dec 1) (dec 5));
    ("SUPPORTED_Autoneg", Shl (dec 1) (dec 6)); ("SUPPORTED_TP", Shl (dec 1) (dec 7));
    ("SUPPORTED_AUI", Shl (dec 1) (dec 8)); ("SUPPORTED_MII", Shl (dec 1) (dec 9));
    ("SUPPORTED_FIBRE", Shl (dec 1) (dec 10)); ("SUPPORTED_BNC", Shl (dec 1) (dec 11));
    ("SUPPORTED_10000baseT_Full", Shl (dec 1) (dec 12));
    ("SUPPORTED_Pause", Shl (dec 1) (dec 13)); ("SUPPORTED_Asym_Pause", Shl (dec 1) (dec 14));
    ("SUPPORTED_2500baseX_Full", Shl (dec 1) (dec 15));
    ("SUPPORTED_Backplane", Shl (dec 1) (dec 16));
    ("SUPPORTED_1000baseKX_Full", Shl (dec 1) (dec 17));
    ("SUPPORTED_10000baseKX4_Full", Shl (dec 1) (dec 18));
    ("SUPPORTED_10000baseKR_Full", Shl (dec 1) (dec 19));
    ("SUPPORTED_10000baseR_FEC", Shl (dec 1) (dec 20));
    ("SUPPORTED_20000baseMLD2_Full", Shl (dec 1) (dec 21));
    ("SUPPORTED_20000baseKR2_Full", Shl (dec 1) (dec 22));
    ("SUPPORTED_40000baseKR4_Full", Shl (dec 1) (dec 23));
    ("SUPPORTED_40000baseCR4_Full", Shl (dec 1) (dec 24));
    ("SUPPORTED_40000baseSR4_Full", Shl (dec 1) (dec 25));
    ("SUPPORTED_40000baseLR4_Full", Shl (dec 1) (dec 26));
    ("SUPPORTED_56000baseKR4_Full", Shl (dec 1) (dec 27));
    ("SUPPORTED_56000baseCR4_Full", Shl (dec 1) (dec 28));
    ("SUPPORTED_56000baseSR4_Full", Shl (dec 1) (dec 29));
    ("SUPPORTED_56000baseLR4_Full", Shl (dec 1) (dec 30));
    ("ADVERTISED_10baseT_Half", Shl (dec 1) (dec 0));
    ("ADVERTISED_10baseT_Full", Shl (dec 1) (dec 1));
    ("ADVERTISED_100baseT_Half", Shl (dec 1) (dec 2));
    ("ADVERTISED_100baseT_Full", Shl (dec 1) (dec 3));
    ("ADVERTISED_1000baseT_Half", Shl (dec 1) (dec 4));
    ("ADVERTISED_1000baseT_Full", Shl (dec 1) (dec 5));
    ("ADVERTISED_Autoneg", Shl (dec 1) (dec 6)); ("ADVERTISED_TP", Shl (dec 1) (dec 7));
    ("ADVERTISED_AUI", Shl (dec 1) (dec 8)); ("ADVERTISED_MII", Shl (dec 1) (dec 9));
    ("ADVERTISED_FIBRE", Shl (dec 1) (dec 10)); ("ADVERTISED_BNC", Shl (dec 1) (dec 11));
    ("ADVERTISED_10000baseT_Full", Shl (dec 1) (dec 12));
    ("ADVERTISED_Pause", Shl (dec 1) (dec 13)); ("ADVERTISED_Asym_Pause", Shl (dec 1) (dec 14));
    ("ADVERTISED_2500baseX_Full", Shl (dec 1) (dec 15));
    ("ADVERTISED_Backplane", Shl (dec 1) (dec 16));
    ("ADVERTISED_1000baseKX_Full", Shl (dec 1) (dec 17));
    ("ADVERTISED_10000baseKX4_Full", Shl (dec 1) (dec 18));
    ("ADVERTISED_10000baseKR_Full", Shl (dec 1) (dec 19));
    ("ADVERTISED_10000baseR_FEC", Shl (dec 1) (dec 20));
    ("ADVERTISED_20000baseMLD2_Full", Shl (dec 1) (dec 21));
    ("ADVERTISED_20000baseKR2_Full", Shl (dec 1) (dec 22));
    ("ADVERTISED_40000baseKR4_Full", Shl (dec 1) (dec 23));
    ("ADVERTISED_40000baseCR4_Full", Shl (dec 1) (dec 24));
    ("ADVERTISED_40000baseSR4_Full", Shl (dec 1) (dec 25));
    ("ADVERTISED_40000baseLR4_Full", Shl (dec 1) (dec 26));
    ("ADVERTISED_56000baseKR4_Full", Shl (dec 1) (dec 27))]].
Definition defs_SPEED_10 : list decl := [
  Defines [
    ("SPEED_10", dec 10); ("SPEED_100", dec 100); ("SPEED_1000", dec 1000);
    ("SPEED_2500", dec 2500); ("SPEED_5000", dec 5000); ("SPEED_10000", dec 10000);
    ("SPEED_20000", dec 20000); ("SPEED_25000", dec 25000); ("SPEED_40000", dec 40000);
    ("SPEED_50000", dec 50000); ("SPEED_56000", dec 56000); ("SPEED_100000", dec 100000);
    ("SPEED_UNKNOWN", Neg (dec 1)); ("DUPLEX_HALF", hex 0x00); ("DUPLEX_FULL", hex 0x01);
    ("DUPLEX_UNKNOWN", hex 0xff); ("PORT_TP", hex 0x00); ("PORT_AUI", hex 0x01);
    ("PORT_MII", hex 0x02); ("PORT_FIBRE", hex 0x03); ("PORT_BNC", hex 0x04);
    ("PORT_DA", hex 0x05); ("PORT_NONE", hex 0xef); ("PORT_OTHER", hex 0xff);
    ("XCVR_INTERNAL", hex 0x00); ("XCVR_EXTERNAL", hex 0x01); ("XCVR_DUMMY1", hex 0x02);
    ("XCVR_DUMMY2", hex 0x03); ("XCVR_DUMMY3", hex 0x04); ("AUTONEG_DISABLE", hex 0x00);
    ("AUTONEG_ENABLE", hex 0x01)];
  Defines [
    ("ETH_TP_MDI_INVALID", hex 0x00); ("ETH_TP_MDI", hex 0x01); ("ETH_TP_MDI_X", hex 0x02);
    ("ETH_TP_MDI_AUTO", hex 0x03); ("WAKE_PHY", Shl (dec 1) (dec 0));
    ("WAKE_UCAST", Shl (dec 1) (dec 1)); ("WAKE_MCAST", Shl (dec 1) (dec 2));
    ("WAKE_BCAST", Shl (dec 1) (dec 3)); ("WAKE_ARP", Shl (dec 1) (dec 4));
    ("WAKE_MAGIC", Shl (dec 1) (dec 5)); ("WAKE_MAGICSECURE", Shl (dec 1) (dec 6));
    ("TCP_V4_FLOW", hex 0x01); ("UDP_V4_FLOW", hex 0x02); ("SCTP_V4_FLOW", hex 0x03);
    ("AH_ESP_V4_FLOW", hex 0x04); ("TCP_V6_FLOW", hex 0x05); ("UDP_V6_FLOW", hex 0x06);
    ("SCTP_V6_FLOW", hex 0x07); ("AH_ESP_V6_FLOW", hex 0x08); ("AH_V4_FLOW", hex 0x09);
    ("ESP_V4_FLOW", hex 0x0a); ("AH_V6_FLOW", hex 0x0b); ("ESP_V6_FLOW", hex 0x0c);
    ("IP_USER_FLOW", hex 0x0d); ("IPV4_FLOW", hex 0x10); ("IPV6_FLOW", hex 0x11);
    ("ETHER_FLOW", hex 0x12); ("FLOW_EXT", hex 0x80000000); ("FLOW_MAC_EXT", hex 0x40000000);
    ("RXH_L2DA", Shl (dec 1) (dec 1)); ("RXH_VLAN", Shl (dec 1) (dec 2));
    ("RXH_L3_PROTO", Shl (dec 1) (dec 3)); ("RXH_IP_SRC", Shl (dec 1) (dec 4));
    ("RXH_IP_DST", Shl (dec 1) (dec 5)); ("RXH_L4_B_0_1", Shl (dec 1) (dec 6));
    ("RXH_L4_B_2_3", Shl (dec 1) (dec 7)); ("RXH_DISCARD", Shl (dec 1) (dec 31));
    ("RX_CLS_FLOW_DISC", hexULL 0xffffffffffffffff); ("RX_CLS_LOC_SPECIAL", hex 0x80000000);
    ("RX_CLS_LOC_ANY", hex 0xffffffff); ("RX_CLS_LOC_FIRST", hex 0xfffffffe);
    ("RX_CLS_LOC_LAST", hex 0xfffffffd); ("ETH_MODULE_SFF_8079", hex 0x1);
    ("ETH_MODULE_SFF_8079_LEN", dec 256); ("ETH_MODULE_SFF_8472", hex 0x2);
    ("ETH_MODULE_SFF_8472_LEN", dec 512); ("ETH_MODULE_SFF_8636", hex 0x3);
    ("ETH_MODULE_SFF_8636_LEN", dec 256); ("ETH_MODULE_SFF_8436", hex 0x4);
    ("ETH_MODULE_SFF_8436_LEN", dec 256)];
  Enum [
    ("ETH_RESET_MGMT", Some (Shl (dec 1) (dec 0)));
    ("ETH_RESET_IRQ", Some (Shl (dec 1) (dec 1))); ("ETH_RESET_DMA", Some (Shl (dec 1) (dec 2)));
    ("ETH_RESET_FILTER", Some (Shl (dec 1) (dec 3)));
    ("ETH_RESET_OFFLOAD", Some (Shl (dec 1) (dec 4)));
    ("ETH_RESET_MAC", Some (Shl (dec 1) (dec 5))); ("ETH_RESET_PHY", Some (Shl (dec 1) (dec 6)));
    ("ETH_RESET_RAM", Some (Shl (dec 1) (dec 7)));
    ("ETH_RESET_DEDICATED", Some (hex 0x0000ffff)); ("ETH_RESET_ALL", Some (hex 0xffffffff))];
  Defines [
    ("ETH_RESET_SHARED_SHIFT", dec 16)]].
Definition header : header :=
  Header "linux/ethtool.h" [] (concat [
    defs_ETH_MDIO_SUPPORTS_C45; enum_tunable_id; enum_ethtool_stringset; enum_ethtool_test_flags;
    enum_ethtool_flags; enum_ethtool_sfeatures_retval_bits; defs_ETHTOOL_F_UNSUPPORTED;
    defs_SPEED_10]).
End Ethtool.

(** ** [linux/fib_rules.h] *)

Module Fib_rules.
Definition defs_FIB_RULE_PERMANENT : list decl := [
  Defines [
    ("FIB_RULE_PERMANENT", hex 0x00000001); ("FIB_RULE_INVERT", hex 0x00000002);
    ("FIB_RULE_UNRESOLVED", hex 0x00000004); ("FIB_RULE_IIF_DETACHED", hex 0x00000008);
    ("FIB_RULE_DEV_DETACHED", Id "FIB_RULE_IIF_DETACHED");
    ("FIB_RULE_OIF_DETACHED", hex 0x00000010); ("FIB_RULE_FIND_SADDR", hex 0x00010000)]].
Definition enum_FRA_UNSPEC : list decl := [
  Enum [
    ("FRA_UNSPEC", None); ("FRA_DST", None); ("FRA_SRC", None); ("FRA_IIFNAME", None);
    ("FRA_GOTO", None); ("FRA_UNUSED2", None); ("FRA_PRIORITY", None); ("FRA_UNUSED3", None);
    ("FRA_UNUSED4", None); ("FRA_UNUSED5", None); ("FRA_FWMARK", None); ("FRA_FLOW", None);
    ("FRA_TUN_ID", None); ("FRA_SUPPRESS_IFGROUP", None); ("FRA_SUPPRESS_PREFIXLEN", None);
    ("FRA_TABLE", None); ("FRA_FWMASK", None); ("FRA_OIFNAME", None); ("FRA_PAD", None);
    ("FRA_L3MDEV", None); ("FRA_UID_RANGE", None); ("__FRA_MAX", None)];
  Defines [
    ("FRA_MAX", Sub (Id "__FRA_MAX") (dec 1))];
  Enum [
    ("FR_ACT_UNSPEC", None); ("FR_ACT_TO_TBL", None); ("FR_ACT_GOTO", None);
    ("FR_ACT_NOP", None); ("FR_ACT_RES3", None); ("FR_ACT_RES4", None);
    ("FR_ACT_BLACKHOLE", None); ("FR_ACT_UNREACHABLE", None); ("FR_ACT_PROHIBIT", None);
    ("__FR_ACT_MAX", None)];
  Defines [
    ("FR_ACT_MAX", Sub (Id "__FR_ACT_MAX") (dec 1))]].
Definition header : header :=
  Header "linux/fib_rules.h" [] (concat [
    defs_FIB_RULE_PERMANENT; enum_FRA_UNSPEC]).
End Fib_rules.

(** ** [linux/fou.h] *)

Module Fou.
Definition enum_FOU_ATTR_UNSPEC : list decl := [
  Enum [
    ("FOU_ATTR_UNSPEC", None); ("FOU_ATTR_PORT", None); ("FOU_ATTR_AF", None);
    ("FOU_ATTR_IPPROTO", None); ("FOU_ATTR_TYPE", None); ("FOU_ATTR_REMCSUM_NOPARTIAL", None);
    ("__FOU_ATTR_MAX", None)];
  Defines [
    ("FOU_ATTR_MAX", Sub (Id "__FOU_ATTR_MAX") (dec 1))];
  Enum [
    ("FOU_CMD_UNSPEC", None); ("FOU_CMD_ADD", None); ("FOU_CMD_DEL", None);
    ("FOU_CMD_GET", None); ("__FOU_CMD_MAX", None)];
  Enum [
    ("FOU_ENCAP_UNSPEC", None); ("FOU_ENCAP_DIRECT", None); ("FOU_ENCAP_GUE", None)];
  Defines [
    ("FOU_CMD_MAX", Sub (Id "__FOU_CMD_MAX") (dec 1))]].
Definition header : header :=
  Header "linux/fou.h" [] (concat [
    enum_FOU_ATTR_UNSPEC]).
End Fou.

(** ** [linux/gen_stats.h] *)

Module Gen_stats.
Definition enum_TCA_STATS_UNSPEC : list decl := [
  Enum [
    ("TCA_STATS_UNSPEC", None); ("TCA_STATS_BASIC", None); ("TCA_STATS_RATE_EST", None);
    ("TCA_STATS_QUEUE", None); ("TCA_STATS_APP", None); ("TCA_STATS_RATE_EST64", None);
    ("__TCA_STATS_MAX", None)];
  Defines [
    ("TCA_STATS_MAX", Sub (Id "__TCA_STATS_MAX") (dec 1))]].
Definition header : header :=
  Header "linux/gen_stats.h" [] (concat [
    enum_TCA_STATS_UNSPEC]).
End Gen_stats.

(** ** [linux/genetlink.h] *)

Module Genetlink.
Definition defs_GENL_ADMIN_PERM : list decl := [
  Defines [
    ("GENL_ADMIN_PERM", hex 0x01); ("GENL_CMD_CAP_DO", hex 0x02);
    ("GENL_CMD_CAP_DUMP", hex 0x04); ("GENL_CMD_CAP_HASPOL", hex 0x08)];
  Defines [
    ("GENL_ID_GENERATE", dec 0); ("GENL_ID_CTRL", Id "NLMSG_MIN_TYPE");
    ("GENL_ID_VFS_DQUOT", Add (Id "NLMSG_MIN_TYPE") (dec 1));
    ("GENL_ID_PMCRAID", Add (Id "NLMSG_MIN_TYPE") (dec 2))];
  Enum [
    ("CTRL_CMD_UNSPEC", None); ("CTRL_CMD_NEWFAMILY", None); ("CTRL_CMD_DELFAMILY", None);
    ("CTRL_CMD_GETFAMILY", None); ("CTRL_CMD_NEWOPS", None); ("CTRL_CMD_DELOPS", None);
    ("CTRL_CMD_GETOPS", None); ("CTRL_CMD_NEWMCAST_GRP", None); ("CTRL_CMD_DELMCAST_GRP", None);
    ("CTRL_CMD_GETMCAST_GRP", None); ("__CTRL_CMD_MAX", None)];
  Defines [
    ("CTRL_CMD_MAX", Sub (Id "__CTRL_CMD_MAX") (dec 1))];
  Enum [
    ("CTRL_ATTR_UNSPEC", None); ("CTRL_ATTR_FAMILY_ID", None); ("CTRL_ATTR_FAMILY_NAME", None);
    ("CTRL_ATTR_VERSION", None); ("CTRL_ATTR_HDRSIZE", None); ("CTRL_ATTR_MAXATTR", None);
    ("CTRL_ATTR_OPS", None); ("CTRL_ATTR_MCAST_GROUPS", None); ("__CTRL_ATTR_MAX", None)];
  Defines [
    ("CTRL_ATTR_MAX", Sub (Id "__CTRL_ATTR_MAX") (dec 1))];
  Enum [
    ("CTRL_ATTR_OP_UNSPEC", None); ("CTRL_ATTR_OP_ID", None); ("CTRL_ATTR_OP_FLAGS", None);
    ("__CTRL_ATTR_OP_MAX", None)];
  Defines [
    ("CTRL_ATTR_OP_MAX", Sub (Id "__CTRL_ATTR_OP_MAX") (dec 1))];
  Enum [
    ("CTRL_ATTR_MCAST_GRP_UNSPEC", None); ("CTRL_ATTR_MCAST_GRP_NAME", None);
    ("CTRL_ATTR_MCAST_GRP_ID", None); ("__CTRL_ATTR_MCAST_GRP_MAX", None)];
  Defines [
    ("CTRL_ATTR_MCAST_GRP_MAX", Sub (Id "__CTRL_ATTR_MCAST_GRP_MAX") (dec 1))]].
Definition header : header :=
  Header "linux/genetlink.h" [Netlink.header] (concat [
    defs_GENL_ADMIN_PERM]).
End Genetlink.

(** ** [linux/if_link.h] *)

Module If_link.
Definition enum_IFLA_UNSPEC : list decl := [
  Enum [
    ("IFLA_UNSPEC", None); ("IFLA_ADDRESS", None); ("IFLA_BROADCAST", None);
    ("IFLA_IFNAME", None); ("IFLA_MTU", None); ("IFLA_LINK", None); ("IFLA_QDISC", None);
    ("IFLA_STATS", None); ("IFLA_COST", None); ("IFLA_PRIORITY", None); ("IFLA_MASTER", None);
    ("IFLA_WIRELESS", None); ("IFLA_PROTINFO", None); ("IFLA_TXQLEN", None); ("IFLA_MAP", None);
    ("IFLA_WEIGHT", None); ("IFLA_OPERSTATE", None); ("IFLA_LINKMODE", None);
    ("IFLA_LINKINFO", None); ("IFLA_NET_NS_PID", None); ("IFLA_IFALIAS", None);
    ("IFLA_NUM_VF", None); ("IFLA_VFINFO_LIST", None); ("IFLA_STATS64", None);
    ("IFLA_VF_PORTS", None); ("IFLA_PORT_SELF", None); ("IFLA_AF_SPEC", None);
    ("IFLA_GROUP", None); ("IFLA_NET_NS_FD", None); ("IFLA_EXT_MASK", None);
    ("IFLA_PROMISCUITY", None); ("IFLA_NUM_TX_QUEUES", None); ("IFLA_NUM_RX_QUEUES", None);
    ("IFLA_CARRIER", None); ("IFLA_PHYS_PORT_ID", None); ("IFLA_CARRIER_CHANGES", None);
    ("IFLA_PHYS_SWITCH_ID", None); ("IFLA_LINK_NETNSID", None); ("IFLA_PHYS_PORT_NAME", None);
    ("IFLA_PROTO_DOWN", None); ("__IFLA_MAX", None)];
  Defines [
    ("IFLA_MAX", Sub (Id "__IFLA_MAX") (dec 1))]].
Definition enum_IFLA_INET_UNSPEC : list decl := [
  Enum [
    ("IFLA_INET_UNSPEC", None); ("IFLA_INET_CONF", None); ("__IFLA_INET_MAX", None)];
  Defines [
    ("IFLA_INET_MAX", Sub (Id "__IFLA_INET_MAX") (dec 1))];
  Enum [
    ("IFLA_INET6_UNSPEC", None); ("IFLA_INET6_FLAGS", None); ("IFLA_INET6_CONF", None);
    ("IFLA_INET6_STATS", None); ("IFLA_INET6_MCAST", None); ("IFLA_INET6_CACHEINFO", None);
    ("IFLA_INET6_ICMP6STATS", None); ("IFLA_INET6_TOKEN", None);
    ("IFLA_INET6_ADDR_GEN_MODE", None); ("__IFLA_INET6_MAX", None)];
  Defines [
    ("IFLA_INET6_MAX", Sub (Id "__IFLA_INET6_MAX") (dec 1))];
  Enum [
    ("IN6_ADDR_GEN_MODE_EUI64", None); ("IN6_ADDR_GEN_MODE_NONE", None);
    ("IN6_ADDR_GEN_MODE_STABLE_PRIVACY", None)];
  Enum [
    ("IFLA_BR_UNSPEC", None); ("IFLA_BR_FORWARD_DELAY", None); ("IFLA_BR_HELLO_TIME", None);
    ("IFLA_BR_MAX_AGE", None); ("IFLA_BR_AGEING_TIME", None); ("IFLA_BR_STP_STATE", None);
    ("IFLA_BR_PRIORITY", None); ("IFLA_BR_VLAN_FILTERING", None);
    ("IFLA_BR_VLAN_PROTOCOL", None); ("IFLA_BR_GROUP_FWD_MASK", None); ("IFLA_BR_ROOT_ID", None);
    ("IFLA_BR_BRIDGE_ID", None); ("IFLA_BR_ROOT_PORT", None); ("IFLA_BR_ROOT_PATH_COST", None);
    ("IFLA_BR_TOPOLOGY_CHANGE", None); ("IFLA_BR_TOPOLOGY_CHANGE_DETECTED", None);
    ("IFLA_BR_HELLO_TIMER", None); ("IFLA_BR_TCN_TIMER", None);
    ("IFLA_BR_TOPOLOGY_CHANGE_TIMER", None); ("IFLA_BR_GC_TIMER", None);
    ("IFLA_BR_GROUP_ADDR", None); ("IFLA_BR_FDB_FLUSH", None); ("IFLA_BR_MCAST_ROUTER", None);
    ("IFLA_BR_MCAST_SNOOPING", None); ("IFLA_BR_MCAST_QUERY_USE_IFADDR", None);
    ("IFLA_BR_MCAST_QUERIER", None); ("IFLA_BR_MCAST_HASH_ELASTICITY", None);
    ("IFLA_BR_MCAST_HASH_MAX", None); ("IFLA_BR_MCAST_LAST_MEMBER_CNT", None);
    ("IFLA_BR_MCAST_STARTUP_QUERY_CNT", None); ("IFLA_BR_MCAST_LAST_MEMBER_INTVL", None);
    ("IFLA_BR_MCAST_MEMBERSHIP_INTVL", None); ("IFLA_BR_MCAST_QUERIER_INTVL", None);
    ("IFLA_BR_MCAST_QUERY_INTVL", None); ("IFLA_BR_MCAST_QUERY_RESPONSE_INTVL", None);
    ("IFLA_BR_MCAST_STARTUP_QUERY_INTVL", None); ("IFLA_BR_NF_CALL_IPTABLES", None);
    ("IFLA_BR_NF_CALL_IP6TABLES", None); ("IFLA_BR_NF_CALL_ARPTABLES", None);
    ("IFLA_BR_VLAN_DEFAULT_PVID", None); ("__IFLA_BR_MAX", None)];
  Defines [
    ("IFLA_BR_MAX", Sub (Id "__IFLA_BR_MAX") (dec 1))]].
Definition enum_IFLA_BRPORT_UNSPEC : list decl := [
  Enum [
    ("IFLA_BRPORT_UNSPEC", None); ("IFLA_BRPORT_STATE", None); ("IFLA_BRPORT_PRIORITY", None);
    ("IFLA_BRPORT_COST", None); ("IFLA_BRPORT_MODE", None); ("IFLA_BRPORT_GUARD", None);
    ("IFLA_BRPORT_PROTECT", None); ("IFLA_BRPORT_FAST_LEAVE", None);
    ("IFLA_BRPORT_LEARNING", None); ("IFLA_BRPORT_UNICAST_FLOOD", None);
    ("IFLA_BRPORT_PROXYARP", None); ("IFLA_BRPORT_LEARNING_SYNC", None);
    ("IFLA_BRPORT_PROXYARP_WIFI", None); ("IFLA_BRPORT_ROOT_ID", None);
    ("IFLA_BRPORT_BRIDGE_ID", None); ("IFLA_BRPORT_DESIGNATED_PORT", None);
    ("IFLA_BRPORT_DESIGNATED_COST", None); ("IFLA_BRPORT_ID", None); ("IFLA_BRPORT_NO", None);
    ("IFLA_BRPORT_TOPOLOGY_CHANGE_ACK", None); ("IFLA_BRPORT_CONFIG_PENDING", None);
    ("IFLA_BRPORT_MESSAGE_AGE_TIMER", None); ("IFLA_BRPORT_FORWARD_DELAY_TIMER", None);
    ("IFLA_BRPORT_HOLD_TIMER", None); ("IFLA_BRPORT_FLUSH", None);
    ("IFLA_BRPORT_MULTICAST_ROUTER", None); ("__IFLA_BRPORT_MAX", None)];
  Defines [
    ("IFLA_BRPORT_MAX", Sub (Id "__IFLA_BRPORT_MAX") (dec 1))]].
Definition enum_IFLA_INFO_UNSPEC : list decl := [
  Enum [
    ("IFLA_INFO_UNSPEC", None); ("IFLA_INFO_KIND", None); ("IFLA_INFO_DATA", None);
    ("IFLA_INFO_XSTATS", None); ("IFLA_INFO_SLAVE_KIND", None); ("IFLA_INFO_SLAVE_DATA", None);
    ("__IFLA_INFO_MAX", None)];
  Defines [
    ("IFLA_INFO_MAX", Sub (Id "__IFLA_INFO_MAX") (dec 1))];
  Enum [
    ("IFLA_VLAN_UNSPEC", None); ("IFLA_VLAN_ID", None); ("IFLA_VLAN_FLAGS", None);
    ("IFLA_VLAN_EGRESS_QOS", None); ("IFLA_VLAN_INGRESS_QOS", None);
    ("IFLA_VLAN_PROTOCOL", None); ("__IFLA_VLAN_MAX", None)];
  Defines [
    ("IFLA_VLAN_MAX", Sub (Id "__IFLA_VLAN_MAX") (dec 1))]].
Definition enum_IFLA_VLAN_QOS_UNSPEC : list decl := [
  Enum [
    ("IFLA_VLAN_QOS_UNSPEC", None); ("IFLA_VLAN_QOS_MAPPING", None);
    ("__IFLA_VLAN_QOS_MAX", None)];
  Defines [
    ("IFLA_VLAN_QOS_MAX", Sub (Id "__IFLA_VLAN_QOS_MAX") (dec 1))]].
Definition enum_IFLA_MACVLAN_UNSPEC : list decl := [
  Enum [
    ("IFLA_MACVLAN_UNSPEC", None); ("IFLA_MACVLAN_MODE", None); ("IFLA_MACVLAN_FLAGS", None);
    ("IFLA_MACVLAN_MACADDR_MODE", None); ("IFLA_MACVLAN_MACADDR", None);
    ("IFLA_MACVLAN_MACADDR_DATA", None); ("IFLA_MACVLAN_MACADDR_COUNT", None);
    ("__IFLA_MACVLAN_MAX", None)];
  Defines [
    ("IFLA_MACVLAN_MAX", Sub (Id "__IFLA_MACVLAN_MAX") (dec 1))];
  Enum [
    ("MACVLAN_MODE_PRIVATE", Some (dec 1)); ("MACVLAN_MODE_VEPA", Some (dec 2));
    ("MACVLAN_MODE_BRIDGE", Some (dec 4)); ("MACVLAN_MODE_PASSTHRU", Some (dec 8));
    ("MACVLAN_MODE_SOURCE", Some (dec 16))];
  Enum [
    ("MACVLAN_MACADDR_ADD", None); ("MACVLAN_MACADDR_DEL", None);
    ("MACVLAN_MACADDR_FLUSH", None); ("MACVLAN_MACADDR_SET", None)];
  Defines [
    ("MACVLAN_FLAG_NOPROMISC", dec 1)];
  Enum [
    ("IFLA_VRF_UNSPEC", None); ("IFLA_VRF_TABLE", None); ("__IFLA_VRF_MAX", None)];
  Defines [
    ("IFLA_VRF_MAX", Sub (Id "__IFLA_VRF_MAX") (dec 1))];
  Enum [
    ("IFLA_IPVLAN_UNSPEC", None); ("IFLA_IPVLAN_MODE", None); ("__IFLA_IPVLAN_MAX", None)];
  Defines [
    ("IFLA_IPVLAN_MAX", Sub (Id "__IFLA_IPVLAN_MAX") (dec 1))];
  Enum [
    ("IPVLAN_MODE_L2", Some (dec 0)); ("IPVLAN_MODE_L3", None); ("IPVLAN_MODE_MAX", None)];
  Enum [
    ("IFLA_VXLAN_UNSPEC", None); ("IFLA_VXLAN_ID", None); ("IFLA_VXLAN_GROUP", None);
    ("IFLA_VXLAN_LINK", None); ("IFLA_VXLAN_LOCAL", None); ("IFLA_VXLAN_TTL", None);
    ("IFLA_VXLAN_TOS", None); ("IFLA_VXLAN_LEARNING", None); ("IFLA_VXLAN_AGEING", None);
    ("IFLA_VXLAN_LIMIT", None); ("IFLA_VXLAN_PORT_RANGE", None); ("IFLA_VXLAN_PROXY", None);
    ("IFLA_VXLAN_RSC", None); ("IFLA_VXLAN_L2MISS", None); ("IFLA_VXLAN_L3MISS", None);
    ("IFLA_VXLAN_PORT", None); ("IFLA_VXLAN_GROUP6", None); ("IFLA_VXLAN_LOCAL6", None);
    ("IFLA_VXLAN_UDP_CSUM", None); ("IFLA_VXLAN_UDP_ZERO_CSUM6_TX", None);
    ("IFLA_VXLAN_UDP_ZERO_CSUM6_RX", None); ("IFLA_VXLAN_REMCSUM_TX", None);
    ("IFLA_VXLAN_REMCSUM_RX", None); ("IFLA_VXLAN_GBP", None);
    ("IFLA_VXLAN_REMCSUM_NOPARTIAL", None); ("IFLA_VXLAN_COLLECT_METADATA", None);
    ("__IFLA_VXLAN_MAX", None)];
  Defines [
    ("IFLA_VXLAN_MAX", Sub (Id "__IFLA_VXLAN_MAX") (dec 1))]].
Definition enum_IFLA_GENEVE_UNSPEC : list decl := [
  Enum [
    ("IFLA_GENEVE_UNSPEC", None); ("IFLA_GENEVE_ID", None); ("IFLA_GENEVE_REMOTE", None);
    ("IFLA_GENEVE_TTL", None); ("IFLA_GENEVE_TOS", None); ("IFLA_GENEVE_PORT", None);
    ("IFLA_GENEVE_COLLECT_METADATA", None); ("IFLA_GENEVE_REMOTE6", None);
    ("__IFLA_GENEVE_MAX", None)];
  Defines [
    ("IFLA_GENEVE_MAX", Sub (Id "__IFLA_GENEVE_MAX") (dec 1))];
  Enum [
    ("IFLA_BOND_UNSPEC", None); ("IFLA_BOND_MODE", None); ("IFLA_BOND_ACTIVE_SLAVE", None);
    ("IFLA_BOND_MIIMON", None); ("IFLA_BOND_UPDELAY", None); ("IFLA_BOND_DOWNDELAY", None);
    ("IFLA_BOND_USE_CARRIER", None); ("IFLA_BOND_ARP_INTERVAL", None);
    ("IFLA_BOND_ARP_IP_TARGET", None); ("IFLA_BOND_ARP_VALIDATE", None);
    ("IFLA_BOND_ARP_ALL_TARGETS", None); ("IFLA_BOND_PRIMARY", None);
    ("IFLA_BOND_PRIMARY_RESELECT", None); ("IFLA_BOND_FAIL_OVER_MAC", None);
    ("IFLA_BOND_XMIT_HASH_POLICY", None); ("IFLA_BOND_RESEND_IGMP", None);
    ("IFLA_BOND_NUM_PEER_NOTIF", None); ("IFLA_BOND_ALL_SLAVES_ACTIVE", None);
    ("IFLA_BOND_MIN_LINKS", None); ("IFLA_BOND_LP_INTERVAL", None);
    ("IFLA_BOND_PACKETS_PER_SLAVE", None); ("IFLA_BOND_AD_LACP_RATE", None);
    ("IFLA_BOND_AD_SELECT", None); ("IFLA_BOND_AD_INFO", None);
    ("IFLA_BOND_AD_ACTOR_SYS_PRIO", None); ("IFLA_BOND_AD_USER_PORT_KEY", None);
    ("IFLA_BOND_AD_ACTOR_SYSTEM", None); ("IFLA_BOND_TLB_DYNAMIC_LB", None);
    ("__IFLA_BOND_MAX", None)];
  Defines [
    ("IFLA_BOND_MAX", Sub (Id "__IFLA_BOND_MAX") (dec 1))];
  Enum [
    ("IFLA_BOND_AD_INFO_UNSPEC", None); ("IFLA_BOND_AD_INFO_AGGREGATOR", None);
    ("IFLA_BOND_AD_INFO_NUM_PORTS", None); ("IFLA_BOND_AD_INFO_ACTOR_KEY", None);
    ("IFLA_BOND_AD_INFO_PARTNER_KEY", None); ("IFLA_BOND_AD_INFO_PARTNER_MAC", None);
    ("__IFLA_BOND_AD_INFO_MAX", None)];
  Defines [
    ("IFLA_BOND_AD_INFO_MAX", Sub (Id "__IFLA_BOND_AD_INFO_MAX") (dec 1))];
  Enum [
    ("IFLA_BOND_SLAVE_UNSPEC", None); ("IFLA_BOND_SLAVE_STATE", None);
    ("IFLA_BOND_SLAVE_MII_STATUS", None); ("IFLA_BOND_SLAVE_LINK_FAILURE_COUNT", None);
    ("IFLA_BOND_SLAVE_PERM_HWADDR", None); ("IFLA_BOND_SLAVE_QUEUE_ID", None);
    ("IFLA_BOND_SLAVE_AD_AGGREGATOR_ID", None);
    ("IFLA_BOND_SLAVE_AD_ACTOR_OPER_PORT_STATE", None);
    ("IFLA_BOND_SLAVE_AD_PARTNER_OPER_PORT_STATE", None); ("__IFLA_BOND_SLAVE_MAX", None)];
  Defines [
    ("IFLA_BOND_SLAVE_MAX", Sub (Id "__IFLA_BOND_SLAVE_MAX") (dec 1))];
  Enum [
    ("IFLA_VF_INFO_UNSPEC", None); ("IFLA_VF_INFO", None); ("__IFLA_VF_INFO_MAX", None)];
  Defines [
    ("IFLA_VF_INFO_MAX", Sub (Id "__IFLA_VF_INFO_MAX") (dec 1))];
  Enum [
    ("IFLA_VF_UNSPEC", None); ("IFLA_VF_MAC", None); ("IFLA_VF_VLAN", None);
    ("IFLA_VF_TX_RATE", None); ("IFLA_VF_SPOOFCHK", None); ("IFLA_VF_LINK_STATE", None);
    ("IFLA_VF_RATE", None); ("IFLA_VF_RSS_QUERY_EN", None); ("IFLA_VF_STATS", None);
    ("IFLA_VF_TRUST", None); ("__IFLA_VF_MAX", None)];
  Defines [
    ("IFLA_VF_MAX", Sub (Id "__IFLA_VF_MAX") (dec 1))]].
Definition enum_IFLA_VF_LINK_STATE_AUTO : list decl := [
  Enum [
    ("IFLA_VF_LINK_STATE_AUTO", None); ("IFLA_VF_LINK_STATE_ENABLE", None);
    ("IFLA_VF_LINK_STATE_DISABLE", None); ("__IFLA_VF_LINK_STATE_MAX", None)]].
Definition enum_IFLA_VF_STATS_RX_PACKETS : list decl := [
  Enum [
    ("IFLA_VF_STATS_RX_PACKETS", None); ("IFLA_VF_STATS_TX_PACKETS", None);
    ("IFLA_VF_STATS_RX_BYTES", None); ("IFLA_VF_STATS_TX_BYTES", None);
    ("IFLA_VF_STATS_BROADCAST", None); ("IFLA_VF_STATS_MULTICAST", None);
    ("__IFLA_VF_STATS_MAX", None)];
  Defines [
    ("IFLA_VF_STATS_MAX", Sub (Id "__IFLA_VF_STATS_MAX") (dec 1))]].
Definition enum_IFLA_VF_PORT_UNSPEC : list decl := [
  Enum [
    ("IFLA_VF_PORT_UNSPEC", None); ("IFLA_VF_PORT", None); ("__IFLA_VF_PORT_MAX", None)];
  Defines [
    ("IFLA_VF_PORT_MAX", Sub (Id "__IFLA_VF_PORT_MAX") (dec 1))];
  Enum [
    ("IFLA_PORT_UNSPEC", None); ("IFLA_PORT_VF", None); ("IFLA_PORT_PROFILE", None);
    ("IFLA_PORT_VSI_TYPE", None); ("IFLA_PORT_INSTANCE_UUID", None);
    ("IFLA_PORT_HOST_UUID", None); ("IFLA_PORT_REQUEST", None); ("IFLA_PORT_RESPONSE", None);
    ("__IFLA_PORT_MAX", None)];
  Defines [
    ("IFLA_PORT_MAX", Sub (Id "__IFLA_PORT_MAX") (dec 1)); ("PORT_PROFILE_MAX", dec 40);
    ("PORT_UUID_MAX", dec 16); ("PORT_SELF_VF", Neg (dec 1))];
  Enum [
    ("PORT_REQUEST_PREASSOCIATE", Some (dec 0)); ("PORT_REQUEST_PREASSOCIATE_RR", None);
    ("PORT_REQUEST_ASSOCIATE", None); ("PORT_REQUEST_DISASSOCIATE", None)];
  Enum [
    ("PORT_VDP_RESPONSE_SUCCESS", Some (dec 0)); ("PORT_VDP_RESPONSE_INVALID_FORMAT", None);
    ("PORT_VDP_RESPONSE_INSUFFICIENT_RESOURCES", None); ("PORT_VDP_RESPONSE_UNUSED_VTID", None);
    ("PORT_VDP_RESPONSE_VTID_VIOLATION", None);
    ("PORT_VDP_RESPONSE_VTID_VERSION_VIOALTION", None); ("PORT_VDP_RESPONSE_OUT_OF_SYNC", None);
    ("PORT_PROFILE_RESPONSE_SUCCESS", Some (hex 0x100));
    ("PORT_PROFILE_RESPONSE_INPROGRESS", None); ("PORT_PROFILE_RESPONSE_INVALID", None);
    ("PORT_PROFILE_RESPONSE_BADSTATE", None);
    ("PORT_PROFILE_RESPONSE_INSUFFICIENT_RESOURCES", None); ("PORT_PROFILE_RESPONSE_ERROR", None)]].
Definition enum_IFLA_IPOIB_UNSPEC : list decl := [
  Enum [
    ("IFLA_IPOIB_UNSPEC", None); ("IFLA_IPOIB_PKEY", None); ("IFLA_IPOIB_MODE", None);
    ("IFLA_IPOIB_UMCAST", None); ("__IFLA_IPOIB_MAX", None)]].
Definition defs_IFLA_IPOIB_MAX : list decl := [
  Defines [
    ("IFLA_IPOIB_MAX", Sub (Id "__IFLA_IPOIB_MAX") (dec 1))];
  Enum [
    ("IFLA_HSR_UNSPEC", None); ("IFLA_HSR_SLAVE1", None); ("IFLA_HSR_SLAVE2", None);
    ("IFLA_HSR_MULTICAST_SPEC", None); ("IFLA_HSR_SUPERVISION_ADDR", None);
    ("IFLA_HSR_SEQ_NR", None); ("__IFLA_HSR_MAX", None)];
  Defines [
    ("IFLA_HSR_MAX", Sub (Id "__IFLA_HSR_MAX") (dec 1))]].
Definition header : header :=
  Header "linux/if_link.h" [] (concat [
    enum_IFLA_UNSPEC; enum_IFLA_INET_UNSPEC; enum_IFLA_BRPORT_UNSPEC; enum_IFLA_INFO_UNSPEC;
    enum_IFLA_VLAN_QOS_UNSPEC; enum_IFLA_MACVLAN_UNSPEC; enum_IFLA_GENEVE_UNSPEC;
    enum_IFLA_VF_LINK_STATE_AUTO; enum_IFLA_VF_STATS_RX_PACKETS; enum_IFLA_VF_PORT_UNSPEC;
    enum_IFLA_IPOIB_UNSPEC; defs_IFLA_IPOIB_MAX]).
End If_link.

(** ** [linux/l2tp.h] *)

Module L2tp.
Definition enum_L2TP_CMD_NOOP : list decl := [
  Enum [
    ("L2TP_CMD_NOOP", None); ("L2TP_CMD_TUNNEL_CREATE", None); ("L2TP_CMD_TUNNEL_DELETE", None);
    ("L2TP_CMD_TUNNEL_MODIFY", None); ("L2TP_CMD_TUNNEL_GET", None);
    ("L2TP_CMD_SESSION_CREATE", None); ("L2TP_CMD_SESSION_DELETE", None);
    ("L2TP_CMD_SESSION_MODIFY", None); ("L2TP_CMD_SESSION_GET", None); ("__L2TP_CMD_MAX", None)];
  Defines [
    ("L2TP_CMD_MAX", Sub (Id "__L2TP_CMD_MAX") (dec 1))];
  Enum [
    ("L2TP_ATTR_NONE", None); ("L2TP_ATTR_PW_TYPE", None); ("L2TP_ATTR_ENCAP_TYPE", None);
    ("L2TP_ATTR_OFFSET", None); ("L2TP_ATTR_DATA_SEQ", None); ("L2TP_ATTR_L2SPEC_TYPE", None);
    ("L2TP_ATTR_L2SPEC_LEN", None); ("L2TP_ATTR_PROTO_VERSION", None);
    ("L2TP_ATTR_IFNAME", None); ("L2TP_ATTR_CONN_ID", None); ("L2TP_ATTR_PEER_CONN_ID", None);
    ("L2TP_ATTR_SESSION_ID", None); ("L2TP_ATTR_PEER_SESSION_ID", None);
    ("L2TP_ATTR_UDP_CSUM", None); ("L2TP_ATTR_VLAN_ID", None); ("L2TP_ATTR_COOKIE", None);
    ("L2TP_ATTR_PEER_COOKIE", None); ("L2TP_ATTR_DEBUG", None); ("L2TP_ATTR_RECV_SEQ", None);
    ("L2TP_ATTR_SEND_SEQ", None); ("L2TP_ATTR_LNS_MODE", None); ("L2TP_ATTR_USING_IPSEC", None);
    ("L2TP_ATTR_RECV_TIMEOUT", None); ("L2TP_ATTR_FD", None); ("L2TP_ATTR_IP_SADDR", None);
    ("L2TP_ATTR_IP_DADDR", None); ("L2TP_ATTR_UDP_SPORT", None); ("L2TP_ATTR_UDP_DPORT", None);
    ("L2TP_ATTR_MTU", None); ("L2TP_ATTR_MRU", None); ("L2TP_ATTR_STATS", None);
    ("L2TP_ATTR_IP6_SADDR", None); ("L2TP_ATTR_IP6_DADDR", None);
    ("L2TP_ATTR_UDP_ZERO_CSUM6_TX", None); ("L2TP_ATTR_UDP_ZERO_CSUM6_RX", None);
    ("__L2TP_ATTR_MAX", None)];
  Defines [
    ("L2TP_ATTR_MAX", Sub (Id "__L2TP_ATTR_MAX") (dec 1))];
  Enum [
    ("L2TP_ATTR_STATS_NONE", None); ("L2TP_ATTR_TX_PACKETS", None); ("L2TP_ATTR_TX_BYTES", None);
    ("L2TP_ATTR_TX_ERRORS", None); ("L2TP_ATTR_RX_PACKETS", None); ("L2TP_ATTR_RX_BYTES", None);
    ("L2TP_ATTR_RX_SEQ_DISCARDS", None); ("L2TP_ATTR_RX_OOS_PACKETS", None);
    ("L2TP_ATTR_RX_ERRORS", None); ("__L2TP_ATTR_STATS_MAX", None)];
  Defines [
    ("L2TP_ATTR_STATS_MAX", Sub (Id "__L2TP_ATTR_STATS_MAX") (dec 1))];
  Enum [
    ("L2TP_PWTYPE_NONE", Some (hex 0x0000)); ("L2TP_PWTYPE_ETH_VLAN", Some (hex 0x0004));
    ("L2TP_PWTYPE_ETH", Some (hex 0x0005)); ("L2TP_PWTYPE_PPP", Some (hex 0x0007));
    ("L2TP_PWTYPE_PPP_AC", Some (hex 0x0008)); ("L2TP_PWTYPE_IP", Some (hex 0x000b));
    ("__L2TP_PWTYPE_MAX", None)]].
Definition enum_l2tp_seqmode : list decl := [
  Enum [
    ("L2TP_SEQ_NONE", Some (dec 0)); ("L2TP_SEQ_IP", Some (dec 1));
    ("L2TP_SEQ_ALL", Some (dec 2))];
  Enum [
    ("L2TP_MSG_DEBUG", Some (Shl (dec 1) (dec 0)));
    ("L2TP_MSG_CONTROL", Some (Shl (dec 1) (dec 1)));
    ("L2TP_MSG_SEQ", Some (Shl (dec 1) (dec 2))); ("L2TP_MSG_DATA", Some (Shl (dec 1) (dec 3)))]].
Definition header : header :=
  Header "linux/l2tp.h" [] (concat [
    enum_L2TP_CMD_NOOP; enum_l2tp_seqmode]).
End L2tp.

(** ** [linux/if_tunnel.h] *)

Module If_tunnel.
Definition defs_SIOCGETTUNNEL : list decl := [
  Defines [
    ("SIOCGETTUNNEL", Add (Id "SIOCDEVPRIVATE") (dec 0));
    ("SIOCADDTUNNEL", Add (Id "SIOCDEVPRIVATE") (dec 1));
    ("SIOCDELTUNNEL", Add (Id "SIOCDEVPRIVATE") (dec 2));
    ("SIOCCHGTUNNEL", Add (Id "SIOCDEVPRIVATE") (dec 3));
    ("SIOCGETPRL", Add (Id "SIOCDEVPRIVATE") (dec 4));
    ("SIOCADDPRL", Add (Id "SIOCDEVPRIVATE") (dec 5));
    ("SIOCDELPRL", Add (Id "SIOCDEVPRIVATE") (dec 6));
    ("SIOCCHGPRL", Add (Id "SIOCDEVPRIVATE") (dec 7));
    ("SIOCGET6RD", Add (Id "SIOCDEVPRIVATE") (dec 8));
    ("SIOCADD6RD", Add (Id "SIOCDEVPRIVATE") (dec 9));
    ("SIOCDEL6RD", Add (Id "SIOCDEVPRIVATE") (dec 10));
    ("SIOCCHG6RD", Add (Id "SIOCDEVPRIVATE") (dec 11))]].
Definition enum_IFLA_IPTUN_UNSPEC : list decl := [
  Enum [
    ("IFLA_IPTUN_UNSPEC", None); ("IFLA_IPTUN_LINK", None); ("IFLA_IPTUN_LOCAL", None);
    ("IFLA_IPTUN_REMOTE", None); ("IFLA_IPTUN_TTL", None); ("IFLA_IPTUN_TOS", None);
    ("IFLA_IPTUN_ENCAP_LIMIT", None); ("IFLA_IPTUN_FLOWINFO", None); ("IFLA_IPTUN_FLAGS", None);
    ("IFLA_IPTUN_PROTO", None); ("IFLA_IPTUN_PMTUDISC", None); ("IFLA_IPTUN_6RD_PREFIX", None);
    ("IFLA_IPTUN_6RD_RELAY_PREFIX", None); ("IFLA_IPTUN_6RD_PREFIXLEN", None);
    ("IFLA_IPTUN_6RD_RELAY_PREFIXLEN", None); ("IFLA_IPTUN_ENCAP_TYPE", None);
    ("IFLA_IPTUN_ENCAP_FLAGS", None); ("IFLA_IPTUN_ENCAP_SPORT", None);
    ("IFLA_IPTUN_ENCAP_DPORT", None); ("__IFLA_IPTUN_MAX", None)];
  Defines [
    ("IFLA_IPTUN_MAX", Sub (Id "__IFLA_IPTUN_MAX") (dec 1))];
  Enum [
    ("TUNNEL_ENCAP_NONE", None); ("TUNNEL_ENCAP_FOU", None); ("TUNNEL_ENCAP_GUE", None)];
  Defines [
    ("TUNNEL_ENCAP_FLAG_CSUM", Shl (dec 1) (dec 0));
    ("TUNNEL_ENCAP_FLAG_CSUM6", Shl (dec 1) (dec 1));
    ("TUNNEL_ENCAP_FLAG_REMCSUM", Shl (dec 1) (dec 2)); ("SIT_ISATAP", hex 0x0001)]].
Definition enum_IFLA_GRE_UNSPEC : list decl := [
  Enum [
    ("IFLA_GRE_UNSPEC", None); ("IFLA_GRE_LINK", None); ("IFLA_GRE_IFLAGS", None);
    ("IFLA_GRE_OFLAGS", None); ("IFLA_GRE_IKEY", None); ("IFLA_GRE_OKEY", None);
    ("IFLA_GRE_LOCAL", None); ("IFLA_GRE_REMOTE", None); ("IFLA_GRE_TTL", None);
    ("IFLA_GRE_TOS", None); ("IFLA_GRE_PMTUDISC", None); ("IFLA_GRE_ENCAP_LIMIT", None);
    ("IFLA_GRE_FLOWINFO", None); ("IFLA_GRE_FLAGS", None); ("IFLA_GRE_ENCAP_TYPE", None);
    ("IFLA_GRE_ENCAP_FLAGS", None); ("IFLA_GRE_ENCAP_SPORT", None);
    ("IFLA_GRE_ENCAP_DPORT", None); ("IFLA_GRE_COLLECT_METADATA", None); ("__IFLA_GRE_MAX", None)];
  Defines [
    ("IFLA_GRE_MAX", Sub (Id "__IFLA_GRE_MAX") (dec 1))]].
Definition enum_IFLA_VTI_UNSPEC : list decl := [
  Enum [
    ("IFLA_VTI_UNSPEC", None); ("IFLA_VTI_LINK", None); ("IFLA_VTI_IKEY", None);
    ("IFLA_VTI_OKEY", None); ("IFLA_VTI_LOCAL", None); ("IFLA_VTI_REMOTE", None);
    ("__IFLA_VTI_MAX", None)];
  Defines [
    ("IFLA_VTI_MAX", Sub (Id "__IFLA_VTI_MAX") (dec 1))]].
Definition header : header :=
  Header "linux/if_tunnel.h" [Sockios.header] (concat [
    defs_SIOCGETTUNNEL; enum_IFLA_IPTUN_UNSPEC; enum_IFLA_GRE_UNSPEC; enum_IFLA_VTI_UNSPEC]).
End If_tunnel.

(** ** [linux/ip_vs.h] *)

Module Ip_vs.
Definition defs_IP_VS_SVC_F_PERSISTENT : list decl := [
  Defines [
    ("IP_VS_SVC_F_PERSISTENT", hex 0x0001); ("IP_VS_SVC_F_HASHED", hex 0x0002);
    ("IP_VS_SVC_F_ONEPACKET", hex 0x0004); ("IP_VS_SVC_F_SCHED1", hex 0x0008);
    ("IP_VS_SVC_F_SCHED2", hex 0x0010); ("IP_VS_SVC_F_SCHED3", hex 0x0020);
    ("IP_VS_SVC_F_SCHED_SH_FALLBACK", Id "IP_VS_SVC_F_SCHED1");
    ("IP_VS_SVC_F_SCHED_SH_PORT", Id "IP_VS_SVC_F_SCHED2")]].
Definition defs_IP_VS_BASE_CTL : list decl := [
  Defines [
    ("IP_VS_BASE_CTL", Add (Add (dec 64) (dec 1024)) (dec 64));
    ("IP_VS_SO_SET_NONE", Id "IP_VS_BASE_CTL");
    ("IP_VS_SO_SET_INSERT", Add (Id "IP_VS_BASE_CTL") (dec 1));
    ("IP_VS_SO_SET_ADD", Add (Id "IP_VS_BASE_CTL") (dec 2));
    ("IP_VS_SO_SET_EDIT", Add (Id "IP_VS_BASE_CTL") (dec 3));
    ("IP_VS_SO_SET_DEL", Add (Id "IP_VS_BASE_CTL") (dec 4));
    ("IP_VS_SO_SET_FLUSH", Add (Id "IP_VS_BASE_CTL") (dec 5));
    ("IP_VS_SO_SET_LIST", Add (Id "IP_VS_BASE_CTL") (dec 6));
    ("IP_VS_SO_SET_ADDDEST", Add (Id "IP_VS_BASE_CTL") (dec 7));
    ("IP_VS_SO_SET_DELDEST", Add (Id "IP_VS_BASE_CTL") (dec 8));
    ("IP_VS_SO_SET_EDITDEST", Add (Id "IP_VS_BASE_CTL") (dec 9));
    ("IP_VS_SO_SET_TIMEOUT", Add (Id "IP_VS_BASE_CTL") (dec 10));
    ("IP_VS_SO_SET_STARTDAEMON", Add (Id "IP_VS_BASE_CTL") (dec 11));
    ("IP_VS_SO_SET_STOPDAEMON", Add (Id "IP_VS_BASE_CTL") (dec 12));
    ("IP_VS_SO_SET_RESTORE", Add (Id "IP_VS_BASE_CTL") (dec 13));
    ("IP_VS_SO_SET_SAVE", Add (Id "IP_VS_BASE_CTL") (dec 14));
    ("IP_VS_SO_SET_ZERO", Add (Id "IP_VS_BASE_CTL") (dec 15));
    ("IP_VS_SO_SET_MAX", Id "IP_VS_SO_SET_ZERO"); ("IP_VS_SO_GET_VERSION", Id "IP_VS_BASE_CTL");
    ("IP_VS_SO_GET_INFO", Add (Id "IP_VS_BASE_CTL") (dec 1));
    ("IP_VS_SO_GET_SERVICES", Add (Id "IP_VS_BASE_CTL") (dec 2));
    ("IP_VS_SO_GET_SERVICE", Add (Id "IP_VS_BASE_CTL") (dec 3));
    ("IP_VS_SO_GET_DESTS", Add (Id "IP_VS_BASE_CTL") (dec 4));
    ("IP_VS_SO_GET_DEST", Add (Id "IP_VS_BASE_CTL") (dec 5));
    ("IP_VS_SO_GET_TIMEOUT", Add (Id "IP_VS_BASE_CTL") (dec 6));
    ("IP_VS_SO_GET_DAEMON", Add (Id "IP_VS_BASE_CTL") (dec 7));
    ("IP_VS_SO_GET_MAX", Id "IP_VS_SO_GET_DAEMON")];
  Defines [
    ("IP_VS_CONN_F_FWD_MASK", hex 0x0007); ("IP_VS_CONN_F_MASQ", hex 0x0000);
    ("IP_VS_CONN_F_LOCALNODE", hex 0x0001); ("IP_VS_CONN_F_TUNNEL", hex 0x0002);
    ("IP_VS_CONN_F_DROUTE", hex 0x0003); ("IP_VS_CONN_F_BYPASS", hex 0x0004);
    ("IP_VS_CONN_F_SYNC", hex 0x0020); ("IP_VS_CONN_F_HASHED", hex 0x0040);
    ("IP_VS_CONN_F_NOOUTPUT", hex 0x0080); ("IP_VS_CONN_F_INACTIVE", hex 0x0100);
    ("IP_VS_CONN_F_OUT_SEQ", hex 0x0200); ("IP_VS_CONN_F_IN_SEQ", hex 0x0400);
    ("IP_VS_CONN_F_SEQ_MASK", hex 0x0600); ("IP_VS_CONN_F_NO_CPORT", hex 0x0800);
    ("IP_VS_CONN_F_TEMPLATE", hex 0x1000); ("IP_VS_CONN_F_ONE_PACKET", hex 0x2000);
    ("IP_VS_CONN_F_BACKUP_MASK", Or (Or (Or (Or (Or (Id "IP_VS_CONN_F_FWD_MASK") (Id "IP_VS_CONN_F_NOOUTPUT")) (Id "IP_VS_CONN_F_INACTIVE")) (Id "IP_VS_CONN_F_SEQ_MASK")) (Id "IP_VS_CONN_F_NO_CPORT")) (Id "IP_VS_CONN_F_TEMPLATE"));
    ("IP_VS_CONN_F_BACKUP_UPD_MASK", Or (Id "IP_VS_CONN_F_INACTIVE") (Id "IP_VS_CONN_F_SEQ_MASK"));
    ("IP_VS_CONN_F_NFCT", Shl (dec 1) (dec 16));
    ("IP_VS_CONN_F_DEST_MASK", Or (Or (Or (Id "IP_VS_CONN_F_FWD_MASK") (Id "IP_VS_CONN_F_ONE_PACKET")) (Id "IP_VS_CONN_F_NFCT")) (dec 0));
    ("IP_VS_SCHEDNAME_MAXLEN", dec 16); ("IP_VS_PENAME_MAXLEN", dec 16);
    ("IP_VS_IFNAME_MAXLEN", dec 16); ("IP_VS_PEDATA_MAXLEN", dec 255)]].
Definition enum_IPVS_CMD_UNSPEC : list decl := [
  Enum [
    ("IPVS_CMD_UNSPEC", Some (dec 0)); ("IPVS_CMD_NEW_SERVICE", None);
    ("IPVS_CMD_SET_SERVICE", None); ("IPVS_CMD_DEL_SERVICE", None);
    ("IPVS_CMD_GET_SERVICE", None); ("IPVS_CMD_NEW_DEST", None); ("IPVS_CMD_SET_DEST", None);
    ("IPVS_CMD_DEL_DEST", None); ("IPVS_CMD_GET_DEST", None); ("IPVS_CMD_NEW_DAEMON", None);
    ("IPVS_CMD_DEL_DAEMON", None); ("IPVS_CMD_GET_DAEMON", None); ("IPVS_CMD_SET_CONFIG", None);
    ("IPVS_CMD_GET_CONFIG", None); ("IPVS_CMD_SET_INFO", None); ("IPVS_CMD_GET_INFO", None);
    ("IPVS_CMD_ZERO", None); ("IPVS_CMD_FLUSH", None); ("__IPVS_CMD_MAX", None)];
  Defines [
    ("IPVS_CMD_MAX", Sub (Id "__IPVS_CMD_MAX") (dec 1))];
  Enum [
    ("IPVS_CMD_ATTR_UNSPEC", Some (dec 0)); ("IPVS_CMD_ATTR_SERVICE", None);
    ("IPVS_CMD_ATTR_DEST", None); ("IPVS_CMD_ATTR_DAEMON", None);
    ("IPVS_CMD_ATTR_TIMEOUT_TCP", None); ("IPVS_CMD_ATTR_TIMEOUT_TCP_FIN", None);
    ("IPVS_CMD_ATTR_TIMEOUT_UDP", None); ("__IPVS_CMD_ATTR_MAX", None)];
  Defines [
    ("IPVS_CMD_ATTR_MAX", Sub (Id "__IPVS_CMD_ATTR_MAX") (dec 1))];
  Enum [
    ("IPVS_SVC_ATTR_UNSPEC", Some (dec 0)); ("IPVS_SVC_ATTR_AF", None);
    ("IPVS_SVC_ATTR_PROTOCOL", None); ("IPVS_SVC_ATTR_ADDR", None); ("IPVS_SVC_ATTR_PORT", None);
    ("IPVS_SVC_ATTR_FWMARK", None); ("IPVS_SVC_ATTR_SCHED_NAME", None);
    ("IPVS_SVC_ATTR_FLAGS", None); ("IPVS_SVC_ATTR_TIMEOUT", None);
    ("IPVS_SVC_ATTR_NETMASK", None); ("IPVS_SVC_ATTR_STATS", None);
    ("IPVS_SVC_ATTR_PE_NAME", None); ("IPVS_SVC_ATTR_STATS64", None);
    ("__IPVS_SVC_ATTR_MAX", None)];
  Defines [
    ("IPVS_SVC_ATTR_MAX", Sub (Id "__IPVS_SVC_ATTR_MAX") (dec 1))];
  Enum [
    ("IPVS_DEST_ATTR_UNSPEC", Some (dec 0)); ("IPVS_DEST_ATTR_ADDR", None);
    ("IPVS_DEST_ATTR_PORT", None); ("IPVS_DEST_ATTR_FWD_METHOD", None);
    ("IPVS_DEST_ATTR_WEIGHT", None); ("IPVS_DEST_ATTR_U_THRESH", None);
    ("IPVS_DEST_ATTR_L_THRESH", None); ("IPVS_DEST_ATTR_ACTIVE_CONNS", None);
    ("IPVS_DEST_ATTR_INACT_CONNS", None); ("IPVS_DEST_ATTR_PERSIST_CONNS", None);
    ("IPVS_DEST_ATTR_STATS", None); ("IPVS_DEST_ATTR_ADDR_FAMILY", None);
    ("IPVS_DEST_ATTR_STATS64", None); ("__IPVS_DEST_ATTR_MAX", None)];
  Defines [
    ("IPVS_DEST_ATTR_MAX", Sub (Id "__IPVS_DEST_ATTR_MAX") (dec 1))];
  Enum [
    ("IPVS_DAEMON_ATTR_UNSPEC", Some (dec 0)); ("IPVS_DAEMON_ATTR_STATE", None);
    ("IPVS_DAEMON_ATTR_MCAST_IFN", None); ("IPVS_DAEMON_ATTR_SYNC_ID", None);
    ("IPVS_DAEMON_ATTR_SYNC_MAXLEN", None); ("IPVS_DAEMON_ATTR_MCAST_GROUP", None);
    ("IPVS_DAEMON_ATTR_MCAST_GROUP6", None); ("IPVS_DAEMON_ATTR_MCAST_PORT", None);
    ("IPVS_DAEMON_ATTR_MCAST_TTL", None); ("__IPVS_DAEMON_ATTR_MAX", None)];
  Defines [
    ("IPVS_DAEMON_ATTR_MAX", Sub (Id "__IPVS_DAEMON_ATTR_MAX") (dec 1))];
  Enum [
    ("IPVS_STATS_ATTR_UNSPEC", Some (dec 0)); ("IPVS_STATS_ATTR_CONNS", None);
    ("IPVS_STATS_ATTR_INPKTS", None); ("IPVS_STATS_ATTR_OUTPKTS", None);
    ("IPVS_STATS_ATTR_INBYTES", None); ("IPVS_STATS_ATTR_OUTBYTES", None);
    ("IPVS_STATS_ATTR_CPS", None); ("IPVS_STATS_ATTR_INPPS", None);
    ("IPVS_STATS_ATTR_OUTPPS", None); ("IPVS_STATS_ATTR_INBPS", None);
    ("IPVS_STATS_ATTR_OUTBPS", None); ("__IPVS_STATS_ATTR_MAX", None)];
  Defines [
    ("IPVS_STATS_ATTR_MAX", Sub (Id "__IPVS_STATS_ATTR_MAX") (dec 1))]].
Definition enum_IPVS_INFO_ATTR_UNSPEC : list decl := [
  Enum [
    ("IPVS_INFO_ATTR_UNSPEC", Some (dec 0)); ("IPVS_INFO_ATTR_VERSION", None);
    ("IPVS_INFO_ATTR_CONN_TAB_SIZE", None); ("__IPVS_INFO_ATTR_MAX", None)];
  Defines [
    ("IPVS_INFO_ATTR_MAX", Sub (Id "__IPVS_INFO_ATTR_MAX") (dec 1))]].
Definition header : header :=
  Header "linux/ip_vs.h" [] (concat [
    defs_IP_VS_SVC_F_PERSISTENT; defs_IP_VS_BASE_CTL; enum_IPVS_CMD_UNSPEC;
    enum_IPVS_INFO_ATTR_UNSPEC]).
End Ip_vs.

(** ** [linux/neighbour.h] *)

Module Neighbour.
Definition enum_NDA_UNSPEC : list decl := [
  Enum [
    ("NDA_UNSPEC", None); ("NDA_DST", None); ("NDA_LLADDR", None); ("NDA_CACHEINFO", None);
    ("NDA_PROBES", None); ("NDA_VLAN", None); ("NDA_PORT", None); ("NDA_VNI", None);
    ("NDA_IFINDEX", None); ("NDA_MASTER", None); ("NDA_LINK_NETNSID", None); ("__NDA_MAX", None)];
  Defines [
    ("NDA_MAX", Sub (Id "__NDA_MAX") (dec 1))];
  Defines [
    ("NTF_USE", hex 0x01); ("NTF_SELF", hex 0x02); ("NTF_MASTER", hex 0x04);
    ("NTF_PROXY", hex 0x08); ("NTF_EXT_LEARNED", hex 0x10); ("NTF_ROUTER", hex 0x80)];
  Defines [
    ("NUD_INCOMPLETE", hex 0x01); ("NUD_REACHABLE", hex 0x02); ("NUD_STALE", hex 0x04);
    ("NUD_DELAY", hex 0x08); ("NUD_PROBE", hex 0x10); ("NUD_FAILED", hex 0x20);
    ("NUD_NOARP", hex 0x40); ("NUD_PERMANENT", hex 0x80); ("NUD_NONE", hex 0x00)]].
Definition enum_NDTPA_UNSPEC : list decl := [
  Enum [
    ("NDTPA_UNSPEC", None); ("NDTPA_IFINDEX", None); ("NDTPA_REFCNT", None);
    ("NDTPA_REACHABLE_TIME", None); ("NDTPA_BASE_REACHABLE_TIME", None);
    ("NDTPA_RETRANS_TIME", None); ("NDTPA_GC_STALETIME", None); ("NDTPA_DELAY_PROBE_TIME", None);
    ("NDTPA_QUEUE_LEN", None); ("NDTPA_APP_PROBES", None); ("NDTPA_UCAST_PROBES", None);
    ("NDTPA_MCAST_PROBES", None); ("NDTPA_ANYCAST_DELAY", None); ("NDTPA_PROXY_DELAY", None);
    ("NDTPA_PROXY_QLEN", None); ("NDTPA_LOCKTIME", None); ("NDTPA_QUEUE_LENBYTES", None);
    ("NDTPA_MCAST_REPROBES", None); ("__NDTPA_MAX", None)];
  Defines [
    ("NDTPA_MAX", Sub (Id "__NDTPA_MAX") (dec 1))]].
Definition enum_NDTA_UNSPEC : list decl := [
  Enum [
    ("NDTA_UNSPEC", None); ("NDTA_NAME", None); ("NDTA_THRESH1", None); ("NDTA_THRESH2", None);
    ("NDTA_THRESH3", None); ("NDTA_CONFIG", None); ("NDTA_PARMS", None); ("NDTA_STATS", None);
    ("NDTA_GC_INTERVAL", None); ("__NDTA_MAX", None)];
  Defines [
    ("NDTA_MAX", Sub (Id "__NDTA_MAX") (dec 1))]].
Definition header : header :=
  Header "linux/neighbour.h" [] (concat [
    enum_NDA_UNSPEC; enum_NDTPA_UNSPEC; enum_NDTA_UNSPEC]).
End Neighbour.

(** ** [linux/netconf.h] *)

Module Netconf.
Definition enum_NETCONFA_UNSPEC : list decl := [
  Enum [
    ("NETCONFA_UNSPEC", None); ("NETCONFA_IFINDEX", None); ("NETCONFA_FORWARDING", None);
    ("NETCONFA_RP_FILTER", None); ("NETCONFA_MC_FORWARDING", None);
    ("NETCONFA_PROXY_NEIGH", None); ("NETCONFA_IGNORE_ROUTES_WITH_LINKDOWN", None);
    ("__NETCONFA_MAX", None)];
  Defines [
    ("NETCONFA_MAX", Sub (Id "__NETCONFA_MAX") (dec 1)); ("NETCONFA_IFINDEX_ALL", Neg (dec 1));
    ("NETCONFA_IFINDEX_DEFAULT", Neg (dec 2))]].
Definition header : header :=
  Header "linux/netconf.h" [] (concat [
    enum_NETCONFA_UNSPEC]).
End Netconf.

(** ** [linux/netfilter.h] *)

Module Netfilter.
Definition defs_NF_DROP : list decl := [
  Defines [
    ("NF_DROP", dec 0); ("NF_ACCEPT", dec 1); ("NF_STOLEN", dec 2); ("NF_QUEUE", dec 3);
    ("NF_REPEAT", dec 4); ("NF_STOP", dec 5); ("NF_MAX_VERDICT", Id "NF_STOP")];
  Defines [
    ("NF_VERDICT_MASK", hex 0x000000ff); ("NF_VERDICT_FLAG_QUEUE_BYPASS", hex 0x00008000);
    ("NF_VERDICT_QMASK", hex 0xffff0000); ("NF_VERDICT_QBITS", dec 16)]].
Definition enum_nf_inet_hooks : list decl := [
  Enum [
    ("NF_INET_PRE_ROUTING", None); ("NF_INET_LOCAL_IN", None); ("NF_INET_FORWARD", None);
    ("NF_INET_LOCAL_OUT", None); ("NF_INET_POST_ROUTING", None); ("NF_INET_NUMHOOKS", None)]].
Definition enum_NFPROTO_UNSPEC : list decl := [
  Enum [
    ("NFPROTO_UNSPEC", Some (dec 0)); ("NFPROTO_INET", Some (dec 1));
    ("NFPROTO_IPV4", Some (dec 2)); ("NFPROTO_ARP", Some (dec 3));
    ("NFPROTO_NETDEV", Some (dec 5)); ("NFPROTO_BRIDGE", Some (dec 7));
    ("NFPROTO_IPV6", Some (dec 10)); ("NFPROTO_DECNET", Some (dec 12));
    ("NFPROTO_NUMPROTO", None)]].
Definition header : header :=
  Header "linux/netfilter.h" [] (concat [
    defs_NF_DROP; enum_nf_inet_hooks; enum_NFPROTO_UNSPEC]).
End Netfilter.

(** ** [linux/netfilter/ipset/ip_set_hash.h] *)

Module Netfilter_ipset_ip_set_hash.
Definition enum_IPSET_ERR_HASH_FULL : list decl := [
  Enum [
    ("IPSET_ERR_HASH_FULL", Some (Id "IPSET_ERR_TYPE_SPECIFIC")); ("IPSET_ERR_HASH_ELEM", None);
    ("IPSET_ERR_INVALID_PROTO", None); ("IPSET_ERR_MISSING_PROTO", None);
    ("IPSET_ERR_HASH_RANGE_UNSUPPORTED", None); ("IPSET_ERR_HASH_RANGE", None)]].
Definition header : header :=
  Header "linux/netfilter/ipset/ip_set_hash.h" [Netfilter_ipset_ip_set.header] (concat [
    enum_IPSET_ERR_HASH_FULL]).
End Netfilter_ipset_ip_set_hash.

(** ** [linux/netfilter/ipset/ip_set_list.h] *)

Module Netfilter_ipset_ip_set_list.
Definition enum_IPSET_ERR_NAME : list decl := [
  Enum [
    ("IPSET_ERR_NAME", Some (Id "IPSET_ERR_TYPE_SPECIFIC")); ("IPSET_ERR_LOOP", None);
    ("IPSET_ERR_BEFORE", None); ("IPSET_ERR_NAMEREF", None); ("IPSET_ERR_LIST_FULL", None);
    ("IPSET_ERR_REF_EXIST", None)]].
Definition header : header :=
  Header "linux/netfilter/ipset/ip_set_list.h" [Netfilter_ipset_ip_set.header] (concat [
    enum_IPSET_ERR_NAME]).
End Netfilter_ipset_ip_set_list.

(** ** [linux/netfilter/nf_conntrack_common.h] *)

Module Netfilter_nf_conntrack_common.
Definition enum_ip_conntrack_info : list decl := [
  Enum [
    ("IP_CT_ESTABLISHED", None); ("IP_CT_RELATED", None); ("IP_CT_NEW", None);
    ("IP_CT_IS_REPLY", None);
    ("IP_CT_ESTABLISHED_REPLY", Some (Add (Id "IP_CT_ESTABLISHED") (Id "IP_CT_IS_REPLY")));
    ("IP_CT_RELATED_REPLY", Some (Add (Id "IP_CT_RELATED") (Id "IP_CT_IS_REPLY")));
    ("IP_CT_NEW_REPLY", Some (Add (Id "IP_CT_NEW") (Id "IP_CT_IS_REPLY")));
    ("IP_CT_NUMBER", Some (Sub (Mul (Id "IP_CT_IS_REPLY") (dec 2)) (dec 1)))];
  Defines [
    ("NF_CT_STATE_INVALID_BIT", Shl (dec 1) (dec 0));
    ("NF_CT_STATE_UNTRACKED_BIT", Shl (dec 1) (Add (Id "IP_CT_NUMBER") (dec 1)))];
  Enum [
    ("IPS_EXPECTED_BIT", Some (dec 0));
    ("IPS_EXPECTED", Some (Shl (dec 1) (Id "IPS_EXPECTED_BIT")));
    ("IPS_SEEN_REPLY_BIT", Some (dec 1));
    ("IPS_SEEN_REPLY", Some (Shl (dec 1) (Id "IPS_SEEN_REPLY_BIT")));
    ("IPS_ASSURED_BIT", Some (dec 2));
    ("IPS_ASSURED", Some (Shl (dec 1) (Id "IPS_ASSURED_BIT")));
    ("IPS_CONFIRMED_BIT", Some (dec 3));
    ("IPS_CONFIRMED", Some (Shl (dec 1) (Id "IPS_CONFIRMED_BIT")));
    ("IPS_SRC_NAT_BIT", Some (dec 4));
    ("IPS_SRC_NAT", Some (Shl (dec 1) (Id "IPS_SRC_NAT_BIT")));
    ("IPS_DST_NAT_BIT", Some (dec 5));
    ("IPS_DST_NAT", Some (Shl (dec 1) (Id "IPS_DST_NAT_BIT")));
    ("IPS_NAT_MASK", Some (Or (Id "IPS_DST_NAT") (Id "IPS_SRC_NAT")));
    ("IPS_SEQ_ADJUST_BIT", Some (dec 6));
    ("IPS_SEQ_ADJUST", Some (Shl (dec 1) (Id "IPS_SEQ_ADJUST_BIT")));
    ("IPS_SRC_NAT_DONE_BIT", Some (dec 7));
    ("IPS_SRC_NAT_DONE", Some (Shl (dec 1) (Id "IPS_SRC_NAT_DONE_BIT")));
    ("IPS_DST_NAT_DONE_BIT", Some (dec 8));
    ("IPS_DST_NAT_DONE", Some (Shl (dec 1) (Id "IPS_DST_NAT_DONE_BIT")));
    ("IPS_NAT_DONE_MASK", Some (Or (Id "IPS_DST_NAT_DONE") (Id "IPS_SRC_NAT_DONE")));
    ("IPS_DYING_BIT", Some (dec 9)); ("IPS_DYING", Some (Shl (dec 1) (Id "IPS_DYING_BIT")));
    ("IPS_FIXED_TIMEOUT_BIT", Some (dec 10));
    ("IPS_FIXED_TIMEOUT", Some (Shl (dec 1) (Id "IPS_FIXED_TIMEOUT_BIT")));
    ("IPS_TEMPLATE_BIT", Some (dec 11));
    ("IPS_TEMPLATE", Some (Shl (dec 1) (Id "IPS_TEMPLATE_BIT")));
    ("IPS_UNTRACKED_BIT", Some (dec 12));
    ("IPS_UNTRACKED", Some (Shl (dec 1) (Id "IPS_UNTRACKED_BIT")));
    ("IPS_HELPER_BIT", Some (dec 13)); ("IPS_HELPER", Some (Shl (dec 1) (Id "IPS_HELPER_BIT")))];
  Enum [
    ("IPCT_NEW", None); ("IPCT_RELATED", None); ("IPCT_DESTROY", None); ("IPCT_REPLY", None);
    ("IPCT_ASSURED", None); ("IPCT_PROTOINFO", None); ("IPCT_HELPER", None); ("IPCT_MARK", None);
    ("IPCT_SEQADJ", None); ("IPCT_NATSEQADJ", Some (Id "IPCT_SEQADJ")); ("IPCT_SECMARK", None);
    ("IPCT_LABEL", None)]].
Definition header : header :=
  Header "linux/netfilter/nf_conntrack_common.h" [] (concat [
    enum_ip_conntrack_info]).
End Netfilter_nf_conntrack_common.

(** ** [linux/netfilter/nf_conntrack_ftp.h] *)

Module Netfilter_nf_conntrack_ftp.
Definition enum_nf_ct_ftp_type : list decl := [
  Enum [
    ("NF_CT_FTP_PORT", None); ("NF_CT_FTP_PASV", None); ("NF_CT_FTP_EPRT", None);
    ("NF_CT_FTP_EPSV", None)]].
Definition header : header :=
  Header "linux/netfilter/nf_conntrack_ftp.h" [] (concat [
    enum_nf_ct_ftp_type]).
End Netfilter_nf_conntrack_ftp.

(** ** [linux/netfilter/nf_conntrack_sctp.h] *)

Module Netfilter_nf_conntrack_sctp.
Definition enum_sctp_conntrack : list decl := [
  Enum [
    ("SCTP_CONNTRACK_NONE", None); ("SCTP_CONNTRACK_CLOSED", None);
    ("SCTP_CONNTRACK_COOKIE_WAIT", None); ("SCTP_CONNTRACK_COOKIE_ECHOED", None);
    ("SCTP_CONNTRACK_ESTABLISHED", None); ("SCTP_CONNTRACK_SHUTDOWN_SENT", None);
    ("SCTP_CONNTRACK_SHUTDOWN_RECD", None); ("SCTP_CONNTRACK_SHUTDOWN_ACK_SENT", None);
    ("SCTP_CONNTRACK_HEARTBEAT_SENT", None); ("SCTP_CONNTRACK_HEARTBEAT_ACKED", None);
    ("SCTP_CONNTRACK_MAX", None)]].
Definition header : header :=
  Header "linux/netfilter/nf_conntrack_sctp.h" [] (concat [
    enum_sctp_conntrack]).
End Netfilter_nf_conntrack_sctp.

(** ** [linux/netfilter/nf_conntrack_tcp.h] *)

Module Netfilter_nf_conntrack_tcp.
Definition enum_tcp_conntrack : list decl := [
  Enum [
    ("TCP_CONNTRACK_NONE", None); ("TCP_CONNTRACK_SYN_SENT", None);
    ("TCP_CONNTRACK_SYN_RECV", None); ("TCP_CONNTRACK_ESTABLISHED", None);
    ("TCP_CONNTRACK_FIN_WAIT", None); ("TCP_CONNTRACK_CLOSE_WAIT", None);
    ("TCP_CONNTRACK_LAST_ACK", None); ("TCP_CONNTRACK_TIME_WAIT", None);
    ("TCP_CONNTRACK_CLOSE", None); ("TCP_CONNTRACK_LISTEN", None); ("TCP_CONNTRACK_MAX", None);
    ("TCP_CONNTRACK_IGNORE", None); ("TCP_CONNTRACK_RETRANS", None);
    ("TCP_CONNTRACK_UNACK", None); ("TCP_CONNTRACK_TIMEOUT_MAX", None)];
  Defines [
    ("IP_CT_TCP_FLAG_WINDOW_SCALE", hex 0x01); ("IP_CT_TCP_FLAG_SACK_PERM", hex 0x02);
    ("IP_CT_TCP_FLAG_CLOSE_INIT", hex 0x04); ("IP_CT_TCP_FLAG_BE_LIBERAL", hex 0x08);
    ("IP_CT_TCP_FLAG_DATA_UNACKNOWLEDGED", hex 0x10); ("IP_CT_TCP_FLAG_MAXACK_SET", hex 0x20);
    ("IP_CT_EXP_CHALLENGE_ACK", hex 0x40)]].
Definition header : header :=
  Header "linux/netfilter/nf_conntrack_tcp.h" [] (concat [
    enum_tcp_conntrack]).
End Netfilter_nf_conntrack_tcp.

(** ** [linux/netfilter/nf_conntrack_tuple_common.h] *)

Module Netfilter_nf_conntrack_tuple_common.
Definition enum_ip_conntrack_dir : list decl := [
  Enum [
    ("IP_CT_DIR_ORIGINAL", None); ("IP_CT_DIR_REPLY", None); ("IP_CT_DIR_MAX", None)]].
Definition header : header :=
  Header "linux/netfilter/nf_conntrack_tuple_common.h" [] (concat [
    enum_ip_conntrack_dir]).
End Netfilter_nf_conntrack_tuple_common.

(** ** [linux/netfilter/nf_nat.h] *)

Module Netfilter_nf_nat.
Definition defs_NF_NAT_RANGE_MAP_IPS : list decl := [
  Defines [
    ("NF_NAT_RANGE_MAP_IPS", Shl (dec 1) (dec 0));
    ("NF_NAT_RANGE_PROTO_SPECIFIED", Shl (dec 1) (dec 1));
    ("NF_NAT_RANGE_PROTO_RANDOM", Shl (dec 1) (dec 2));
    ("NF_NAT_RANGE_PERSISTENT", Shl (dec 1) (dec 3));
    ("NF_NAT_RANGE_PROTO_RANDOM_FULLY", Shl (dec 1) (dec 4));
    ("NF_NAT_RANGE_PROTO_RANDOM_ALL", Or (Id "NF_NAT_RANGE_PROTO_RANDOM") (Id "NF_NAT_RANGE_PROTO_RANDOM_FULLY"));
    ("NF_NAT_RANGE_MASK", Or (Or (Or (Or (Id "NF_NAT_RANGE_MAP_IPS") (Id "NF_NAT_RANGE_PROTO_SPECIFIED")) (Id "NF_NAT_RANGE_PROTO_RANDOM")) (Id "NF_NAT_RANGE_PERSISTENT")) (Id "NF_NAT_RANGE_PROTO_RANDOM_FULLY"))]].
Definition header : header :=
  Header "linux/netfilter/nf_nat.h" [] (concat [
    defs_NF_NAT_RANGE_MAP_IPS]).
End Netfilter_nf_nat.

(** ** [linux/netfilter/nf_tables.h] *)

Module Netfilter_nf_tables.
Definition enum_nft_registers : list decl := [
  Enum [
    ("NFT_REG_VERDICT", None); ("NFT_REG_1", None); ("NFT_REG_2", None); ("NFT_REG_3", None);
    ("NFT_REG_4", None); ("__NFT_REG_MAX", None); ("NFT_REG32_00", Some (dec 8));
    ("MFT_REG32_01", None); ("NFT_REG32_02", None); ("NFT_REG32_03", None);
    ("NFT_REG32_04", None); ("NFT_REG32_05", None); ("NFT_REG32_06", None);
    ("NFT_REG32_07", None); ("NFT_REG32_08", None); ("NFT_REG32_09", None);
    ("NFT_REG32_10", None); ("NFT_REG32_11", None); ("NFT_REG32_12", None);
    ("NFT_REG32_13", None); ("NFT_REG32_14", None); ("NFT_REG32_15", None)];
  Defines [
    ("NFT_REG_MAX", Sub (Id "__NFT_REG_MAX") (dec 1)); ("NFT_REG_SIZE", dec 16);
    ("NFT_REG32_SIZE", dec 4)];
  Enum [
    ("NFT_CONTINUE", Some (Neg (dec 1))); ("NFT_BREAK", Some (Neg (dec 2)));
    ("NFT_JUMP", Some (Neg (dec 3))); ("NFT_GOTO", Some (Neg (dec 4)));
    ("NFT_RETURN", Some (Neg (dec 5)))];
  Enum [
    ("NFT_MSG_NEWTABLE", None); ("NFT_MSG_GETTABLE", None); ("NFT_MSG_DELTABLE", None);
    ("NFT_MSG_NEWCHAIN", None); ("NFT_MSG_GETCHAIN", None); ("NFT_MSG_DELCHAIN", None);
    ("NFT_MSG_NEWRULE", None); ("NFT_MSG_GETRULE", None); ("NFT_MSG_DELRULE", None);
    ("NFT_MSG_NEWSET", None); ("NFT_MSG_GETSET", None); ("NFT_MSG_DELSET", None);
    ("NFT_MSG_NEWSETELEM", None); ("NFT_MSG_GETSETELEM", None); ("NFT_MSG_DELSETELEM", None);
    ("NFT_MSG_NEWGEN", None); ("NFT_MSG_GETGEN", None); ("NFT_MSG_MAX", None)];
  Enum [
    ("NFTA_LIST_UNSPEC", None); ("NFTA_LIST_ELEM", None); ("__NFTA_LIST_MAX", None)];
  Defines [
    ("NFTA_LIST_MAX", Sub (Id "__NFTA_LIST_MAX") (dec 1))];
  Enum [
    ("NFTA_HOOK_UNSPEC", None); ("NFTA_HOOK_HOOKNUM", None); ("NFTA_HOOK_PRIORITY", None);
    ("NFTA_HOOK_DEV", None); ("__NFTA_HOOK_MAX", None)];
  Defines [
    ("NFTA_HOOK_MAX", Sub (Id "__NFTA_HOOK_MAX") (dec 1))]].
Definition enum_nft_table_attributes : list decl := [
  Enum [
    ("NFTA_TABLE_UNSPEC", None); ("NFTA_TABLE_NAME", None); ("NFTA_TABLE_FLAGS", None);
    ("NFTA_TABLE_USE", None); ("__NFTA_TABLE_MAX", None)];
  Defines [
    ("NFTA_TABLE_MAX", Sub (Id "__NFTA_TABLE_MAX") (dec 1))];
  Enum [
    ("NFTA_CHAIN_UNSPEC", None); ("NFTA_CHAIN_TABLE", None); ("NFTA_CHAIN_HANDLE", None);
    ("NFTA_CHAIN_NAME", None); ("NFTA_CHAIN_HOOK", None); ("NFTA_CHAIN_POLICY", None);
    ("NFTA_CHAIN_USE", None); ("NFTA_CHAIN_TYPE", None); ("NFTA_CHAIN_COUNTERS", None);
    ("__NFTA_CHAIN_MAX", None)];
  Defines [
    ("NFTA_CHAIN_MAX", Sub (Id "__NFTA_CHAIN_MAX") (dec 1))];
  Enum [
    ("NFTA_RULE_UNSPEC", None); ("NFTA_RULE_TABLE", None); ("NFTA_RULE_CHAIN", None);
    ("NFTA_RULE_HANDLE", None); ("NFTA_RULE_EXPRESSIONS", None); ("NFTA_RULE_COMPAT", None);
    ("NFTA_RULE_POSITION", None); ("NFTA_RULE_USERDATA", None); ("__NFTA_RULE_MAX", None)];
  Defines [
    ("NFTA_RULE_MAX", Sub (Id "__NFTA_RULE_MAX") (dec 1))]].
Definition enum_nft_rule_compat_attributes : list decl := [
  Enum [
    ("NFTA_RULE_COMPAT_UNSPEC", None); ("NFTA_RULE_COMPAT_PROTO", None);
    ("NFTA_RULE_COMPAT_FLAGS", None); ("__NFTA_RULE_COMPAT_MAX", None)];
  Defines [
    ("NFTA_RULE_COMPAT_MAX", Sub (Id "__NFTA_RULE_COMPAT_MAX") (dec 1))];
  Enum [
    ("NFT_SET_ANONYMOUS", Some (hex 0x1)); ("NFT_SET_CONSTANT", Some (hex 0x2));
    ("NFT_SET_INTERVAL", Some (hex 0x4)); ("NFT_SET_MAP", Some (hex 0x8));
    ("NFT_SET_TIMEOUT", Some (hex 0x10)); ("NFT_SET_EVAL", Some (hex 0x20))]].
Definition enum_nft_set_desc_attributes : list decl := [
  Enum [
    ("NFTA_SET_DESC_UNSPEC", None); ("NFTA_SET_DESC_SIZE", None); ("__NFTA_SET_DESC_MAX", None)];
  Defines [
    ("NFTA_SET_DESC_MAX", Sub (Id "__NFTA_SET_DESC_MAX") (dec 1))];
  Enum [
    ("NFTA_SET_UNSPEC", None); ("NFTA_SET_TABLE", None); ("NFTA_SET_NAME", None);
    ("NFTA_SET_FLAGS", None); ("NFTA_SET_KEY_TYPE", None); ("NFTA_SET_KEY_LEN", None);
    ("NFTA_SET_DATA_TYPE", None); ("NFTA_SET_DATA_LEN", None); ("NFTA_SET_POLICY", None);
    ("NFTA_SET_DESC", None); ("NFTA_SET_ID", None); ("NFTA_SET_TIMEOUT", None);
    ("NFTA_SET_GC_INTERVAL", None); ("__NFTA_SET_MAX", None)];
  Defines [
    ("NFTA_SET_MAX", Sub (Id "__NFTA_SET_MAX") (dec 1))]].
Definition enum_nft_set_elem_attributes : list decl := [
  Enum [
    ("NFTA_SET_ELEM_UNSPEC", None); ("NFTA_SET_ELEM_KEY", None); ("NFTA_SET_ELEM_DATA", None);
    ("NFTA_SET_ELEM_FLAGS", None); ("NFTA_SET_ELEM_TIMEOUT", None);
    ("NFTA_SET_ELEM_EXPIRATION", None); ("NFTA_SET_ELEM_USERDATA", None);
    ("NFTA_SET_ELEM_EXPR", None); ("__NFTA_SET_ELEM_MAX", None)];
  Defines [
    ("NFTA_SET_ELEM_MAX", Sub (Id "__NFTA_SET_ELEM_MAX") (dec 1))];
  Enum [
    ("NFTA_SET_ELEM_LIST_UNSPEC", None); ("NFTA_SET_ELEM_LIST_TABLE", None);
    ("NFTA_SET_ELEM_LIST_SET", None); ("NFTA_SET_ELEM_LIST_ELEMENTS", None);
    ("NFTA_SET_ELEM_LIST_SET_ID", None); ("__NFTA_SET_ELEM_LIST_MAX", None)];
  Defines [
    ("NFTA_SET_ELEM_LIST_MAX", Sub (Id "__NFTA_SET_ELEM_LIST_MAX") (dec 1))]].
Definition enum_nft_data_attributes : list decl := [
  Enum [
    ("NFTA_DATA_UNSPEC", None); ("NFTA_DATA_VALUE", None); ("NFTA_DATA_VERDICT", None);
    ("__NFTA_DATA_MAX", None)];
  Defines [
    ("NFTA_DATA_MAX", Sub (Id "__NFTA_DATA_MAX") (dec 1)); ("NFT_DATA_VALUE_MAXLEN", dec 64)];
  Enum [
    ("NFTA_VERDICT_UNSPEC", None); ("NFTA_VERDICT_CODE", None); ("NFTA_VERDICT_CHAIN", None);
    ("__NFTA_VERDICT_MAX", None)];
  Defines [
    ("NFTA_VERDICT_MAX", Sub (Id "__NFTA_VERDICT_MAX") (dec 1))];
  Enum [
    ("NFTA_EXPR_UNSPEC", None); ("NFTA_EXPR_NAME", None); ("NFTA_EXPR_DATA", None);
    ("__NFTA_EXPR_MAX", None)];
  Defines [
    ("NFTA_EXPR_MAX", Sub (Id "__NFTA_EXPR_MAX") (dec 1))];
  Enum [
    ("NFTA_IMMEDIATE_UNSPEC", None); ("NFTA_IMMEDIATE_DREG", None);
    ("NFTA_IMMEDIATE_DATA", None); ("__NFTA_IMMEDIATE_MAX", None)];
  Defines [
    ("NFTA_IMMEDIATE_MAX", Sub (Id "__NFTA_IMMEDIATE_MAX") (dec 1))];
  Enum [
    ("NFTA_BITWISE_UNSPEC", None); ("NFTA_BITWISE_SREG", None); ("NFTA_BITWISE_DREG", None);
    ("NFTA_BITWISE_LEN", None); ("NFTA_BITWISE_MASK", None); ("NFTA_BITWISE_XOR", None);
    ("__NFTA_BITWISE_MAX", None)];
  Defines [
    ("NFTA_BITWISE_MAX", Sub (Id "__NFTA_BITWISE_MAX") (dec 1))]].
Definition enum_nft_byteorder_attributes : list decl := [
  Enum [
    ("NFTA_BYTEORDER_UNSPEC", None); ("NFTA_BYTEORDER_SREG", None);
    ("NFTA_BYTEORDER_DREG", None); ("NFTA_BYTEORDER_OP", None); ("NFTA_BYTEORDER_LEN", None);
    ("NFTA_BYTEORDER_SIZE", None); ("__NFTA_BYTEORDER_MAX", None)];
  Defines [
    ("NFTA_BYTEORDER_MAX", Sub (Id "__NFTA_BYTEORDER_MAX") (dec 1))];
  Enum [
    ("NFT_CMP_EQ", None); ("NFT_CMP_NEQ", None); ("NFT_CMP_LT", None); ("NFT_CMP_LTE", None);
    ("NFT_CMP_GT", None); ("NFT_CMP_GTE", None)];
  Enum [
    ("NFTA_CMP_UNSPEC", None); ("NFTA_CMP_SREG", None); ("NFTA_CMP_OP", None);
    ("NFTA_CMP_DATA", None); ("__NFTA_CMP_MAX", None)];
  Defines [
    ("NFTA_CMP_MAX", Sub (Id "__NFTA_CMP_MAX") (dec 1))];
  Enum [
    ("NFTA_LOOKUP_UNSPEC", None); ("NFTA_LOOKUP_SET", None); ("NFTA_LOOKUP_SREG", None);
    ("NFTA_LOOKUP_DREG", None); ("NFTA_LOOKUP_SET_ID", None); ("__NFTA_LOOKUP_MAX", None)];
  Defines [
    ("NFTA_LOOKUP_MAX", Sub (Id "__NFTA_LOOKUP_MAX") (dec 1))]].
Definition enum_nft_dynset_attributes : list decl := [
  Enum [
    ("NFTA_DYNSET_UNSPEC", None); ("NFTA_DYNSET_SET_NAME", None); ("NFTA_DYNSET_SET_ID", None);
    ("NFTA_DYNSET_OP", None); ("NFTA_DYNSET_SREG_KEY", None); ("NFTA_DYNSET_SREG_DATA", None);
    ("NFTA_DYNSET_TIMEOUT", None); ("NFTA_DYNSET_EXPR", None); ("__NFTA_DYNSET_MAX", None)];
  Defines [
    ("NFTA_DYNSET_MAX", Sub (Id "__NFTA_DYNSET_MAX") (dec 1))];
  Enum [
    ("NFT_PAYLOAD_LL_HEADER", None); ("NFT_PAYLOAD_NETWORK_HEADER", None);
    ("NFT_PAYLOAD_TRANSPORT_HEADER", None)];
  Enum [
    ("NFTA_PAYLOAD_UNSPEC", None); ("NFTA_PAYLOAD_DREG", None); ("NFTA_PAYLOAD_BASE", None);
    ("NFTA_PAYLOAD_OFFSET", None); ("NFTA_PAYLOAD_LEN", None); ("__NFTA_PAYLOAD_MAX", None)];
  Defines [
    ("NFTA_PAYLOAD_MAX", Sub (Id "__NFTA_PAYLOAD_MAX") (dec 1))];
  Enum [
    ("NFTA_EXTHDR_UNSPEC", None); ("NFTA_EXTHDR_DREG", None); ("NFTA_EXTHDR_TYPE", None);
    ("NFTA_EXTHDR_OFFSET", None); ("NFTA_EXTHDR_LEN", None); ("__NFTA_EXTHDR_MAX", None)];
  Defines [
    ("NFTA_EXTHDR_MAX", Sub (Id "__NFTA_EXTHDR_MAX") (dec 1))];
  Enum [
    ("NFT_META_LEN", None); ("NFT_META_PROTOCOL", None); ("NFT_META_PRIORITY", None);
    ("NFT_META_MARK", None); ("NFT_META_IIF", None); ("NFT_META_OIF", None);
    ("NFT_META_IIFNAME", None); ("NFT_META_OIFNAME", None); ("NFT_META_IIFTYPE", None);
    ("NFT_META_OIFTYPE", None); ("NFT_META_SKUID", None); ("NFT_META_SKGID", None);
    ("NFT_META_NFTRACE", None); ("NFT_META_RTCLASSID", None); ("NFT_META_SECMARK", None);
    ("NFT_META_NFPROTO", None); ("NFT_META_L4PROTO", None); ("NFT_META_BRI_IIFNAME", None);
    ("NFT_META_BRI_OIFNAME", None); ("NFT_META_PKTTYPE", None); ("NFT_META_CPU", None);
    ("NFT_META_IIFGROUP", None); ("NFT_META_OIFGROUP", None); ("NFT_META_CGROUP", None)];
  Enum [
    ("NFTA_META_UNSPEC", None); ("NFTA_META_DREG", None); ("NFTA_META_KEY", None);
    ("NFTA_META_SREG", None); ("__NFTA_META_MAX", None)];
  Defines [
    ("NFTA_META_MAX", Sub (Id "__NFTA_META_MAX") (dec 1))]].
Definition enum_nft_ct_keys : list decl := [
  Enum [
    ("NFT_CT_STATE", None); ("NFT_CT_DIRECTION", None); ("NFT_CT_STATUS", None);
    ("NFT_CT_MARK", None); ("NFT_CT_SECMARK", None); ("NFT_CT_EXPIRATION", None);
    ("NFT_CT_HELPER", None); ("NFT_CT_L3PROTOCOL", None); ("NFT_CT_SRC", None);
    ("NFT_CT_DST", None); ("NFT_CT_PROTOCOL", None); ("NFT_CT_PROTO_SRC", None);
    ("NFT_CT_PROTO_DST", None); ("NFT_CT_LABELS", None)];
  Enum [
    ("NFTA_CT_UNSPEC", None); ("NFTA_CT_DREG", None); ("NFTA_CT_KEY", None);
    ("NFTA_CT_DIRECTION", None); ("NFTA_CT_SREG", None); ("__NFTA_CT_MAX", None)];
  Defines [
    ("NFTA_CT_MAX", Sub (Id "__NFTA_CT_MAX") (dec 1))]].
Definition enum_nft_limit_attributes : list decl := [
  Enum [
    ("NFTA_LIMIT_UNSPEC", None); ("NFTA_LIMIT_RATE", None); ("NFTA_LIMIT_UNIT", None);
    ("NFTA_LIMIT_BURST", None); ("NFTA_LIMIT_TYPE", None); ("__NFTA_LIMIT_MAX", None)];
  Defines [
    ("NFTA_LIMIT_MAX", Sub (Id "__NFTA_LIMIT_MAX") (dec 1))];
  Enum [
    ("NFTA_COUNTER_UNSPEC", None); ("NFTA_COUNTER_BYTES", None); ("NFTA_COUNTER_PACKETS", None);
    ("__NFTA_COUNTER_MAX", None)];
  Defines [
    ("NFTA_COUNTER_MAX", Sub (Id "__NFTA_COUNTER_MAX") (dec 1))];
  Enum [
    ("NFTA_LOG_UNSPEC", None); ("NFTA_LOG_GROUP", None); ("NFTA_LOG_PREFIX", None);
    ("NFTA_LOG_SNAPLEN", None); ("NFTA_LOG_QTHRESHOLD", None); ("NFTA_LOG_LEVEL", None);
    ("NFTA_LOG_FLAGS", None); ("__NFTA_LOG_MAX", None)];
  Defines [
    ("NFTA_LOG_MAX", Sub (Id "__NFTA_LOG_MAX") (dec 1))];
  Enum [
    ("NFTA_QUEUE_UNSPEC", None); ("NFTA_QUEUE_NUM", None); ("NFTA_QUEUE_TOTAL", None);
    ("NFTA_QUEUE_FLAGS", None); ("__NFTA_QUEUE_MAX", None)];
  Defines [
    ("NFTA_QUEUE_MAX", Sub (Id "__NFTA_QUEUE_MAX") (dec 1)); ("NFT_QUEUE_FLAG_BYPASS", hex 0x01);
    ("NFT_QUEUE_FLAG_CPU_FANOUT", hex 0x02); ("NFT_QUEUE_FLAG_MASK", hex 0x03)];
  Enum [
    ("NFT_REJECT_ICMP_UNREACH", None); ("NFT_REJECT_TCP_RST", None);
    ("NFT_REJECT_ICMPX_UNREACH", None)];
  Enum [
    ("NFT_REJECT_ICMPX_NO_ROUTE", Some (dec 0)); ("NFT_REJECT_ICMPX_PORT_UNREACH", None);
    ("NFT_REJECT_ICMPX_HOST_UNREACH", None); ("NFT_REJECT_ICMPX_ADMIN_PROHIBITED", None);
    ("__NFT_REJECT_ICMPX_MAX", None)];
  Defines [
    ("NFT_REJECT_ICMPX_MAX", Sub (Id "__NFT_REJECT_ICMPX_MAX") (dec 1))];
  Enum [
    ("NFTA_REJECT_UNSPEC", None); ("NFTA_REJECT_TYPE", None); ("NFTA_REJECT_ICMP_CODE", None);
    ("__NFTA_REJECT_MAX", None)];
  Defines [
    ("NFTA_REJECT_MAX", Sub (Id "__NFTA_REJECT_MAX") (dec 1))]].
Definition enum_nft_nat_attributes : list decl := [
  Enum [
    ("NFTA_NAT_UNSPEC", None); ("NFTA_NAT_TYPE", None); ("NFTA_NAT_FAMILY", None);
    ("NFTA_NAT_REG_ADDR_MIN", None); ("NFTA_NAT_REG_ADDR_MAX", None);
    ("NFTA_NAT_REG_PROTO_MIN", None); ("NFTA_NAT_REG_PROTO_MAX", None); ("NFTA_NAT_FLAGS", None);
    ("__NFTA_NAT_MAX", None)];
  Defines [
    ("NFTA_NAT_MAX", Sub (Id "__NFTA_NAT_MAX") (dec 1))];
  Enum [
    ("NFTA_MASQ_UNSPEC", None); ("NFTA_MASQ_FLAGS", None); ("__NFTA_MASQ_MAX", None)];
  Defines [
    ("NFTA_MASQ_MAX", Sub (Id "__NFTA_MASQ_MAX") (dec 1))];
  Enum [
    ("NFTA_REDIR_UNSPEC", None); ("NFTA_REDIR_REG_PROTO_MIN", None);
    ("NFTA_REDIR_REG_PROTO_MAX", None); ("NFTA_REDIR_FLAGS", None); ("__NFTA_REDIR_MAX", None)];
  Defines [
    ("NFTA_REDIR_MAX", Sub (Id "__NFTA_REDIR_MAX") (dec 1))];
  Enum [
    ("NFTA_DUP_UNSPEC", None); ("NFTA_DUP_SREG_ADDR", None); ("NFTA_DUP_SREG_DEV", None);
    ("__NFTA_DUP_MAX", None)];
  Defines [
    ("NFTA_DUP_MAX", Sub (Id "__NFTA_DUP_MAX") (dec 1))];
  Enum [
    ("NFTA_GEN_UNSPEC", None); ("NFTA_GEN_ID", None); ("__NFTA_GEN_MAX", None)];
  Defines [
    ("NFTA_GEN_MAX", Sub (Id "__NFTA_GEN_MAX") (dec 1))]].
Definition header : header :=
  Header "linux/netfilter/nf_tables.h" [] (concat [
    enum_nft_registers; enum_nft_table_attributes; enum_nft_rule_compat_attributes;
    enum_nft_set_desc_attributes; enum_nft_set_elem_attributes; enum_nft_data_attributes;
    enum_nft_byteorder_attributes; enum_nft_dynset_attributes; enum_nft_ct_keys;
    enum_nft_limit_attributes; enum_nft_nat_attributes]).
End Netfilter_nf_tables.

(** ** [linux/netfilter/nf_tables_compat.h] *)

Module Netfilter_nf_tables_compat.
Definition enum_nft_target_attributes : list decl := [
  Enum [
    ("NFTA_TARGET_UNSPEC", None); ("NFTA_TARGET_NAME", None); ("NFTA_TARGET_REV", None);
    ("NFTA_TARGET_INFO", None); ("__NFTA_TARGET_MAX", None)];
  Defines [
    ("NFTA_TARGET_MAX", Sub (Id "__NFTA_TARGET_MAX") (dec 1))];
  Enum [
    ("NFTA_MATCH_UNSPEC", None); ("NFTA_MATCH_NAME", None); ("NFTA_MATCH_REV", None);
    ("NFTA_MATCH_INFO", None); ("__NFTA_MATCH_MAX", None)];
  Defines [
    ("NFTA_MATCH_MAX", Sub (Id "__NFTA_MATCH_MAX") (dec 1)); ("NFT_COMPAT_NAME_MAX", dec 32)]].
Definition enum_NFTA_COMPAT_UNSPEC : list decl := [
  Enum [
    ("NFTA_COMPAT_UNSPEC", Some (dec 0)); ("NFTA_COMPAT_NAME", None); ("NFTA_COMPAT_REV", None);
    ("NFTA_COMPAT_TYPE", None); ("__NFTA_COMPAT_MAX", None)];
  Defines [
    ("NFTA_COMPAT_MAX", Sub (Id "__NFTA_COMPAT_MAX") (dec 1))]].
Definition header : header :=
  Header "linux/netfilter/nf_tables_compat.h" [] (concat [
    enum_nft_target_attributes; enum_NFTA_COMPAT_UNSPEC]).
End Netfilter_nf_tables_compat.

(** ** [linux/netfilter/nfnetlink.h] *)

Module Netfilter_nfnetlink.
Definition enum_nfnetlink_groups : list decl := [
  Enum [
    ("NFNLGRP_NONE", None); ("NFNLGRP_CONNTRACK_NEW", None); ("NFNLGRP_CONNTRACK_UPDATE", None);
    ("NFNLGRP_CONNTRACK_DESTROY", None); ("NFNLGRP_CONNTRACK_EXP_NEW", None);
    ("NFNLGRP_CONNTRACK_EXP_UPDATE", None); ("NFNLGRP_CONNTRACK_EXP_DESTROY", None);
    ("NFNLGRP_NFTABLES", None); ("NFNLGRP_ACCT_QUOTA", None); ("__NFNLGRP_MAX", None)];
  Defines [
    ("NFNLGRP_MAX", Sub (Id "__NFNLGRP_MAX") (dec 1))]].
Definition defs_NFNL_SUBSYS_NONE : list decl := [
  Defines [
    ("NFNL_SUBSYS_NONE", dec 0); ("NFNL_SUBSYS_CTNETLINK", dec 1);
    ("NFNL_SUBSYS_CTNETLINK_EXP", dec 2); ("NFNL_SUBSYS_QUEUE", dec 3);
    ("NFNL_SUBSYS_ULOG", dec 4); ("NFNL_SUBSYS_OSF", dec 5); ("NFNL_SUBSYS_IPSET", dec 6);
    ("NFNL_SUBSYS_ACCT", dec 7); ("NFNL_SUBSYS_CTNETLINK_TIMEOUT", dec 8);
    ("NFNL_SUBSYS_CTHELPER", dec 9); ("NFNL_SUBSYS_NFTABLES", dec 10);
    ("NFNL_SUBSYS_NFT_COMPAT", dec 11); ("NFNL_SUBSYS_COUNT", dec 12);
    ("NFNL_MSG_BATCH_BEGIN", Id "NLMSG_MIN_TYPE");
    ("NFNL_MSG_BATCH_END", Add (Id "NLMSG_MIN_TYPE") (dec 1))]].
Definition header : header :=
  Header "linux/netfilter/nfnetlink.h" [Netlink.header] (concat [
    enum_nfnetlink_groups; defs_NFNL_SUBSYS_NONE]).
End Netfilter_nfnetlink.

(** ** [linux/netfilter/nfnetlink_acct.h] *)

Module Netfilter_nfnetlink_acct.
Definition enum_nfnl_acct_msg_types : list decl := [
  Enum [
    ("NFNL_MSG_ACCT_NEW", None); ("NFNL_MSG_ACCT_GET", None);
    ("NFNL_MSG_ACCT_GET_CTRZERO", None); ("NFNL_MSG_ACCT_DEL", None);
    ("NFNL_MSG_ACCT_OVERQUOTA", None); ("NFNL_MSG_ACCT_MAX", None)];
  Enum [
    ("NFACCT_F_QUOTA_PKTS", Some (Shl (dec 1) (dec 0)));
    ("NFACCT_F_QUOTA_BYTES", Some (Shl (dec 1) (dec 1)));
    ("NFACCT_F_OVERQUOTA", Some (Shl (dec 1) (dec 2)))];
  Enum [
    ("NFACCT_UNSPEC", None); ("NFACCT_NAME", None); ("NFACCT_PKTS", None);
    ("NFACCT_BYTES", None); ("NFACCT_USE", None); ("NFACCT_FLAGS", None); ("NFACCT_QUOTA", None);
    ("NFACCT_FILTER", None); ("__NFACCT_MAX", None)];
  Defines [
    ("NFACCT_MAX", Sub (Id "__NFACCT_MAX") (dec 1))];
  Enum [
    ("NFACCT_FILTER_UNSPEC", None); ("NFACCT_FILTER_MASK", None); ("NFACCT_FILTER_VALUE", None);
    ("__NFACCT_FILTER_MAX", None)];
  Defines [
    ("NFACCT_FILTER_MAX", Sub (Id "__NFACCT_FILTER_MAX") (dec 1))]].
Definition header : header :=
  Header "linux/netfilter/nfnetlink_acct.h" [] (concat [
    enum_nfnl_acct_msg_types]).
End Netfilter_nfnetlink_acct.

(** ** [linux/netfilter/nfnetlink_compat.h] *)

Module Netfilter_nfnetlink_compat.
Definition defs_NF_NETLINK_CONNTRACK_NEW : list decl := [
  Defines [
    ("NF_NETLINK_CONNTRACK_NEW", hex 0x00000001);
    ("NF_NETLINK_CONNTRACK_UPDATE", hex 0x00000002);
    ("NF_NETLINK_CONNTRACK_DESTROY", hex 0x00000004);
    ("NF_NETLINK_CONNTRACK_EXP_NEW", hex 0x00000008);
    ("NF_NETLINK_CONNTRACK_EXP_UPDATE", hex 0x00000010);
    ("NF_NETLINK_CONNTRACK_EXP_DESTROY", hex 0x00000020)]].
Definition header : header :=
  Header "linux/netfilter/nfnetlink_compat.h" [] (concat [
    defs_NF_NETLINK_CONNTRACK_NEW]).
End Netfilter_nfnetlink_compat.

(** ** [linux/netfilter/nfnetlink_conntrack.h] *)

Module Netfilter_nfnetlink_conntrack.
Definition enum_cntl_msg_types : list decl := [
  Enum [
    ("IPCTNL_MSG_CT_NEW", None); ("IPCTNL_MSG_CT_GET", None); ("IPCTNL_MSG_CT_DELETE", None);
    ("IPCTNL_MSG_CT_GET_CTRZERO", None); ("IPCTNL_MSG_CT_GET_STATS_CPU", None);
    ("IPCTNL_MSG_CT_GET_STATS", None); ("IPCTNL_MSG_CT_GET_DYING", None);
    ("IPCTNL_MSG_CT_GET_UNCONFIRMED", None); ("IPCTNL_MSG_MAX", None)];
  Enum [
    ("IPCTNL_MSG_EXP_NEW", None); ("IPCTNL_MSG_EXP_GET", None); ("IPCTNL_MSG_EXP_DELETE", None);
    ("IPCTNL_MSG_EXP_GET_STATS_CPU", None); ("IPCTNL_MSG_EXP_MAX", None)];
  Enum [
    ("CTA_UNSPEC", None); ("CTA_TUPLE_ORIG", None); ("CTA_TUPLE_REPLY", None);
    ("CTA_STATUS", None); ("CTA_PROTOINFO", None); ("CTA_HELP", None); ("CTA_NAT_SRC", None);
    ("CTA_TIMEOUT", None); ("CTA_MARK", None); ("CTA_COUNTERS_ORIG", None);
    ("CTA_COUNTERS_REPLY", None); ("CTA_USE", None); ("CTA_ID", None); ("CTA_NAT_DST", None);
    ("CTA_TUPLE_MASTER", None); ("CTA_SEQ_ADJ_ORIG", None);
    ("CTA_NAT_SEQ_ADJ_ORIG", Some (Id "CTA_SEQ_ADJ_ORIG")); ("CTA_SEQ_ADJ_REPLY", None);
    ("CTA_NAT_SEQ_ADJ_REPLY", Some (Id "CTA_SEQ_ADJ_REPLY")); ("CTA_SECMARK", None);
    ("CTA_ZONE", None); ("CTA_SECCTX", None); ("CTA_TIMESTAMP", None); ("CTA_MARK_MASK", None);
    ("CTA_LABELS", None); ("CTA_LABELS_MASK", None); ("__CTA_MAX", None)];
  Defines [
    ("CTA_MAX", Sub (Id "__CTA_MAX") (dec 1))];
  Enum [
    ("CTA_TUPLE_UNSPEC", None); ("CTA_TUPLE_IP", None); ("CTA_TUPLE_PROTO", None);
    ("CTA_TUPLE_ZONE", None); ("__CTA_TUPLE_MAX", None)];
  Defines [
    ("CTA_TUPLE_MAX", Sub (Id "__CTA_TUPLE_MAX") (dec 1))];
  Enum [
    ("CTA_IP_UNSPEC", None); ("CTA_IP_V4_SRC", None); ("CTA_IP_V4_DST", None);
    ("CTA_IP_V6_SRC", None); ("CTA_IP_V6_DST", None); ("__CTA_IP_MAX", None)];
  Defines [
    ("CTA_IP_MAX", Sub (Id "__CTA_IP_MAX") (dec 1))];
  Enum [
    ("CTA_PROTO_UNSPEC", None); ("CTA_PROTO_NUM", None); ("CTA_PROTO_SRC_PORT", None);
    ("CTA_PROTO_DST_PORT", None); ("CTA_PROTO_ICMP_ID", None); ("CTA_PROTO_ICMP_TYPE", None);
    ("CTA_PROTO_ICMP_CODE", None); ("CTA_PROTO_ICMPV6_ID", None);
    ("CTA_PROTO_ICMPV6_TYPE", None); ("CTA_PROTO_ICMPV6_CODE", None); ("__CTA_PROTO_MAX", None)];
  Defines [
    ("CTA_PROTO_MAX", Sub (Id "__CTA_PROTO_MAX") (dec 1))];
  Enum [
    ("CTA_PROTOINFO_UNSPEC", None); ("CTA_PROTOINFO_TCP", None); ("CTA_PROTOINFO_DCCP", None);
    ("CTA_PROTOINFO_SCTP", None); ("__CTA_PROTOINFO_MAX", None)];
  Defines [
    ("CTA_PROTOINFO_MAX", Sub (Id "__CTA_PROTOINFO_MAX") (dec 1))];
  Enum [
    ("CTA_PROTOINFO_TCP_UNSPEC", None); ("CTA_PROTOINFO_TCP_STATE", None);
    ("CTA_PROTOINFO_TCP_WSCALE_ORIGINAL", None); ("CTA_PROTOINFO_TCP_WSCALE_REPLY", None);
    ("CTA_PROTOINFO_TCP_FLAGS_ORIGINAL", None); ("CTA_PROTOINFO_TCP_FLAGS_REPLY", None);
    ("__CTA_PROTOINFO_TCP_MAX", None)];
  Defines [
    ("CTA_PROTOINFO_TCP_MAX", Sub (Id "__CTA_PROTOINFO_TCP_MAX") (dec 1))];
  Enum [
    ("CTA_PROTOINFO_DCCP_UNSPEC", None); ("CTA_PROTOINFO_DCCP_STATE", None);
    ("CTA_PROTOINFO_DCCP_ROLE", None); ("CTA_PROTOINFO_DCCP_HANDSHAKE_SEQ", None);
    ("__CTA_PROTOINFO_DCCP_MAX", None)];
  Defines [
    ("CTA_PROTOINFO_DCCP_MAX", Sub (Id "__CTA_PROTOINFO_DCCP_MAX") (dec 1))];
  Enum [
    ("CTA_PROTOINFO_SCTP_UNSPEC", None); ("CTA_PROTOINFO_SCTP_STATE", None);
    ("CTA_PROTOINFO_SCTP_VTAG_ORIGINAL", None); ("CTA_PROTOINFO_SCTP_VTAG_REPLY", None);
    ("__CTA_PROTOINFO_SCTP_MAX", None)];
  Defines [
    ("CTA_PROTOINFO_SCTP_MAX", Sub (Id "__CTA_PROTOINFO_SCTP_MAX") (dec 1))];
  Enum [
    ("CTA_COUNTERS_UNSPEC", None); ("CTA_COUNTERS_PACKETS", None); ("CTA_COUNTERS_BYTES", None);
    ("CTA_COUNTERS32_PACKETS", None); ("CTA_COUNTERS32_BYTES", None);
    ("__CTA_COUNTERS_MAX", None)];
  Defines [
    ("CTA_COUNTERS_MAX", Sub (Id "__CTA_COUNTERS_MAX") (dec 1))];
  Enum [
    ("CTA_TIMESTAMP_UNSPEC", None); ("CTA_TIMESTAMP_START", None); ("CTA_TIMESTAMP_STOP", None);
    ("__CTA_TIMESTAMP_MAX", None)];
  Defines [
    ("CTA_TIMESTAMP_MAX", Sub (Id "__CTA_TIMESTAMP_MAX") (dec 1))]].
Definition enum_ctattr_nat : list decl := [
  Enum [
    ("CTA_NAT_UNSPEC", None); ("CTA_NAT_V4_MINIP", None); ("CTA_NAT_V4_MAXIP", None);
    ("CTA_NAT_PROTO", None); ("CTA_NAT_V6_MINIP", None); ("CTA_NAT_V6_MAXIP", None);
    ("__CTA_NAT_MAX", None)];
  Defines [
    ("CTA_NAT_MAX", Sub (Id "__CTA_NAT_MAX") (dec 1))];
  Enum [
    ("CTA_PROTONAT_UNSPEC", None); ("CTA_PROTONAT_PORT_MIN", None);
    ("CTA_PROTONAT_PORT_MAX", None); ("__CTA_PROTONAT_MAX", None)];
  Defines [
    ("CTA_PROTONAT_MAX", Sub (Id "__CTA_PROTONAT_MAX") (dec 1))];
  Enum [
    ("CTA_SEQADJ_UNSPEC", None); ("CTA_SEQADJ_CORRECTION_POS", None);
    ("CTA_SEQADJ_OFFSET_BEFORE", None); ("CTA_SEQADJ_OFFSET_AFTER", None);
    ("__CTA_SEQADJ_MAX", None)];
  Defines [
    ("CTA_SEQADJ_MAX", Sub (Id "__CTA_SEQADJ_MAX") (dec 1))];
  Enum [
    ("CTA_NAT_SEQ_UNSPEC", None); ("CTA_NAT_SEQ_CORRECTION_POS", None);
    ("CTA_NAT_SEQ_OFFSET_BEFORE", None); ("CTA_NAT_SEQ_OFFSET_AFTER", None);
    ("__CTA_NAT_SEQ_MAX", None)];
  Defines [
    ("CTA_NAT_SEQ_MAX", Sub (Id "__CTA_NAT_SEQ_MAX") (dec 1))];
  Enum [
    ("CTA_EXPECT_UNSPEC", None); ("CTA_EXPECT_MASTER", None); ("CTA_EXPECT_TUPLE", None);
    ("CTA_EXPECT_MASK", None); ("CTA_EXPECT_TIMEOUT", None); ("CTA_EXPECT_ID", None);
    ("CTA_EXPECT_HELP_NAME", None); ("CTA_EXPECT_ZONE", None); ("CTA_EXPECT_FLAGS", None);
    ("CTA_EXPECT_CLASS", None); ("CTA_EXPECT_NAT", None); ("CTA_EXPECT_FN", None);
    ("__CTA_EXPECT_MAX", None)];
  Defines [
    ("CTA_EXPECT_MAX", Sub (Id "__CTA_EXPECT_MAX") (dec 1))];
  Enum [
    ("CTA_EXPECT_NAT_UNSPEC", None); ("CTA_EXPECT_NAT_DIR", None);
    ("CTA_EXPECT_NAT_TUPLE", None); ("__CTA_EXPECT_NAT_MAX", None)];
  Defines [
    ("CTA_EXPECT_NAT_MAX", Sub (Id "__CTA_EXPECT_NAT_MAX") (dec 1))];
  Enum [
    ("CTA_HELP_UNSPEC", None); ("CTA_HELP_NAME", None); ("CTA_HELP_INFO", None);
    ("__CTA_HELP_MAX", None)];
  Defines [
    ("CTA_HELP_MAX", Sub (Id "__CTA_HELP_MAX") (dec 1))];
  Enum [
    ("CTA_SECCTX_UNSPEC", None); ("CTA_SECCTX_NAME", None); ("__CTA_SECCTX_MAX", None)];
  Defines [
    ("CTA_SECCTX_MAX", Sub (Id "__CTA_SECCTX_MAX") (dec 1))];
  Enum [
    ("CTA_STATS_UNSPEC", None); ("CTA_STATS_SEARCHED", None); ("CTA_STATS_FOUND", None);
    ("CTA_STATS_NEW", None); ("CTA_STATS_INVALID", None); ("CTA_STATS_IGNORE", None);
    ("CTA_STATS_DELETE", None); ("CTA_STATS_DELETE_LIST", None); ("CTA_STATS_INSERT", None);
    ("CTA_STATS_INSERT_FAILED", None); ("CTA_STATS_DROP", None); ("CTA_STATS_EARLY_DROP", None);
    ("CTA_STATS_ERROR", None); ("CTA_STATS_SEARCH_RESTART", None); ("__CTA_STATS_MAX", None)];
  Defines [
    ("CTA_STATS_MAX", Sub (Id "__CTA_STATS_MAX") (dec 1))];
  Enum [
    ("CTA_STATS_GLOBAL_UNSPEC", None); ("CTA_STATS_GLOBAL_ENTRIES", None);
    ("__CTA_STATS_GLOBAL_MAX", None)];
  Defines [
    ("CTA_STATS_GLOBAL_MAX", Sub (Id "__CTA_STATS_GLOBAL_MAX") (dec 1))];
  Enum [
    ("CTA_STATS_EXP_UNSPEC", None); ("CTA_STATS_EXP_NEW", None); ("CTA_STATS_EXP_CREATE", None);
    ("CTA_STATS_EXP_DELETE", None); ("__CTA_STATS_EXP_MAX", None)];
  Defines [
    ("CTA_STATS_EXP_MAX", Sub (Id "__CTA_STATS_EXP_MAX") (dec 1))]].
Definition header : header :=
  Header "linux/netfilter/nfnetlink_conntrack.h" [] (concat [
    enum_cntl_msg_types; enum_ctattr_nat]).
End Netfilter_nfnetlink_conntrack.

(** ** [linux/netfilter/nfnetlink_cthelper.h] *)

Module Netfilter_nfnetlink_cthelper.
Definition enum_nfnl_acct_msg_types : list decl := [
  Enum [
    ("NFNL_MSG_CTHELPER_NEW", None); ("NFNL_MSG_CTHELPER_GET", None);
    ("NFNL_MSG_CTHELPER_DEL", None); ("NFNL_MSG_CTHELPER_MAX", None)];
  Enum [
    ("NFCTH_UNSPEC", None); ("NFCTH_NAME", None); ("NFCTH_TUPLE", None);
    ("NFCTH_QUEUE_NUM", None); ("NFCTH_POLICY", None); ("NFCTH_PRIV_DATA_LEN", None);
    ("NFCTH_STATUS", None); ("__NFCTH_MAX", None)];
  Defines [
    ("NFCTH_MAX", Sub (Id "__NFCTH_MAX") (dec 1))];
  Enum [
    ("NFCTH_POLICY_SET_UNSPEC", None); ("NFCTH_POLICY_SET_NUM", None);
    ("NFCTH_POLICY_SET", None); ("NFCTH_POLICY_SET1", Some (Id "NFCTH_POLICY_SET"));
    ("NFCTH_POLICY_SET2", None); ("NFCTH_POLICY_SET3", None); ("NFCTH_POLICY_SET4", None);
    ("__NFCTH_POLICY_SET_MAX", None)];
  Defines [
    ("NFCTH_POLICY_SET_MAX", Sub (Id "__NFCTH_POLICY_SET_MAX") (dec 1))];
  Enum [
    ("NFCTH_POLICY_UNSPEC", None); ("NFCTH_POLICY_NAME", None);
    ("NFCTH_POLICY_EXPECT_MAX", None); ("NFCTH_POLICY_EXPECT_TIMEOUT", None);
    ("__NFCTH_POLICY_MAX", None)];
  Defines [
    ("NFCTH_POLICY_MAX", Sub (Id "__NFCTH_POLICY_MAX") (dec 1))];
  Enum [
    ("NFCTH_TUPLE_UNSPEC", None); ("NFCTH_TUPLE_L3PROTONUM", None);
    ("NFCTH_TUPLE_L4PROTONUM", None); ("__NFCTH_TUPLE_MAX", None)];
  Defines [
    ("NFCTH_TUPLE_MAX", Sub (Id "__NFCTH_TUPLE_MAX") (dec 1))]].
Definition header : header :=
  Header "linux/netfilter/nfnetlink_cthelper.h" [] (concat [
    enum_nfnl_acct_msg_types]).
End Netfilter_nfnetlink_cthelper.

(** ** [linux/netfilter/nfnetlink_cttimeout.h] *)

Module Netfilter_nfnetlink_cttimeout.
Definition enum_ctnl_timeout_msg_types : list decl := [
  Enum [
    ("IPCTNL_MSG_TIMEOUT_NEW", None); ("IPCTNL_MSG_TIMEOUT_GET", None);
    ("IPCTNL_MSG_TIMEOUT_DELETE", None); ("IPCTNL_MSG_TIMEOUT_DEFAULT_SET", None);
    ("IPCTNL_MSG_TIMEOUT_DEFAULT_GET", None); ("IPCTNL_MSG_TIMEOUT_MAX", None)];
  Enum [
    ("CTA_TIMEOUT_UNSPEC", None); ("CTA_TIMEOUT_NAME", None); ("CTA_TIMEOUT_L3PROTO", None);
    ("CTA_TIMEOUT_L4PROTO", None); ("CTA_TIMEOUT_DATA", None); ("CTA_TIMEOUT_USE", None);
    ("__CTA_TIMEOUT_MAX", None)];
  Defines [
    ("CTA_TIMEOUT_MAX", Sub (Id "__CTA_TIMEOUT_MAX") (dec 1))];
  Enum [
    ("CTA_TIMEOUT_GENERIC_UNSPEC", None); ("CTA_TIMEOUT_GENERIC_TIMEOUT", None);
    ("__CTA_TIMEOUT_GENERIC_MAX", None)];
  Defines [
    ("CTA_TIMEOUT_GENERIC_MAX", Sub (Id "__CTA_TIMEOUT_GENERIC_MAX") (dec 1))];
  Enum [
    ("CTA_TIMEOUT_TCP_UNSPEC", None); ("CTA_TIMEOUT_TCP_SYN_SENT", None);
    ("CTA_TIMEOUT_TCP_SYN_RECV", None); ("CTA_TIMEOUT_TCP_ESTABLISHED", None);
    ("CTA_TIMEOUT_TCP_FIN_WAIT", None); ("CTA_TIMEOUT_TCP_CLOSE_WAIT", None);
    ("CTA_TIMEOUT_TCP_LAST_ACK", None); ("CTA_TIMEOUT_TCP_TIME_WAIT", None);
    ("CTA_TIMEOUT_TCP_CLOSE", None); ("CTA_TIMEOUT_TCP_SYN_SENT2", None);
    ("CTA_TIMEOUT_TCP_RETRANS", None); ("CTA_TIMEOUT_TCP_UNACK", None);
    ("__CTA_TIMEOUT_TCP_MAX", None)];
  Defines [
    ("CTA_TIMEOUT_TCP_MAX", Sub (Id "__CTA_TIMEOUT_TCP_MAX") (dec 1))];
  Enum [
    ("CTA_TIMEOUT_UDP_UNSPEC", None); ("CTA_TIMEOUT_UDP_UNREPLIED", None);
    ("CTA_TIMEOUT_UDP_REPLIED", None); ("__CTA_TIMEOUT_UDP_MAX", None)];
  Defines [
    ("CTA_TIMEOUT_UDP_MAX", Sub (Id "__CTA_TIMEOUT_UDP_MAX") (dec 1))];
  Enum [
    ("CTA_TIMEOUT_UDPLITE_UNSPEC", None); ("CTA_TIMEOUT_UDPLITE_UNREPLIED", None);
    ("CTA_TIMEOUT_UDPLITE_REPLIED", None); ("__CTA_TIMEOUT_UDPLITE_MAX", None)];
  Defines [
    ("CTA_TIMEOUT_UDPLITE_MAX", Sub (Id "__CTA_TIMEOUT_UDPLITE_MAX") (dec 1))];
  Enum [
    ("CTA_TIMEOUT_ICMP_UNSPEC", None); ("CTA_TIMEOUT_ICMP_TIMEOUT", None);
    ("__CTA_TIMEOUT_ICMP_MAX", None)];
  Defines [
    ("CTA_TIMEOUT_ICMP_MAX", Sub (Id "__CTA_TIMEOUT_ICMP_MAX") (dec 1))];
  Enum [
    ("CTA_TIMEOUT_DCCP_UNSPEC", None); ("CTA_TIMEOUT_DCCP_REQUEST", None);
    ("CTA_TIMEOUT_DCCP_RESPOND", None); ("CTA_TIMEOUT_DCCP_PARTOPEN", None);
    ("CTA_TIMEOUT_DCCP_OPEN", None); ("CTA_TIMEOUT_DCCP_CLOSEREQ", None);
    ("CTA_TIMEOUT_DCCP_CLOSING", None); ("CTA_TIMEOUT_DCCP_TIMEWAIT", None);
    ("__CTA_TIMEOUT_DCCP_MAX", None)];
  Defines [
    ("CTA_TIMEOUT_DCCP_MAX", Sub (Id "__CTA_TIMEOUT_DCCP_MAX") (dec 1))];
  Enum [
    ("CTA_TIMEOUT_SCTP_UNSPEC", None); ("CTA_TIMEOUT_SCTP_CLOSED", None);
    ("CTA_TIMEOUT_SCTP_COOKIE_WAIT", None); ("CTA_TIMEOUT_SCTP_COOKIE_ECHOED", None);
    ("CTA_TIMEOUT_SCTP_ESTABLISHED", None); ("CTA_TIMEOUT_SCTP_SHUTDOWN_SENT", None);
    ("CTA_TIMEOUT_SCTP_SHUTDOWN_RECD", None); ("CTA_TIMEOUT_SCTP_SHUTDOWN_ACK_SENT", None);
    ("CTA_TIMEOUT_SCTP_HEARTBEAT_SENT", None); ("CTA_TIMEOUT_SCTP_HEARTBEAT_ACKED", None);
    ("__CTA_TIMEOUT_SCTP_MAX", None)];
  Defines [
    ("CTA_TIMEOUT_SCTP_MAX", Sub (Id "__CTA_TIMEOUT_SCTP_MAX") (dec 1))];
  Enum [
    ("CTA_TIMEOUT_ICMPV6_UNSPEC", None); ("CTA_TIMEOUT_ICMPV6_TIMEOUT", None);
    ("__CTA_TIMEOUT_ICMPV6_MAX", None)];
  Defines [
    ("CTA_TIMEOUT_ICMPV6_MAX", Sub (Id "__CTA_TIMEOUT_ICMPV6_MAX") (dec 1))];
  Enum [
    ("CTA_TIMEOUT_GRE_UNSPEC", None); ("CTA_TIMEOUT_GRE_UNREPLIED", None);
    ("CTA_TIMEOUT_GRE_REPLIED", None); ("__CTA_TIMEOUT_GRE_MAX", None)];
  Defines [
    ("CTA_TIMEOUT_GRE_MAX", Sub (Id "__CTA_TIMEOUT_GRE_MAX") (dec 1));
    ("CTNL_TIMEOUT_NAME_MAX", dec 32)]].
Definition header : header :=
  Header "linux/netfilter/nfnetlink_cttimeout.h" [] (concat [
    enum_ctnl_timeout_msg_types]).
End Netfilter_nfnetlink_cttimeout.

(** ** [linux/netfilter/nfnetlink_log.h] *)

Module Netfilter_nfnetlink_log.
Definition enum_nfulnl_msg_types : list decl := [
  Enum [
    ("NFULNL_MSG_PACKET", None); ("NFULNL_MSG_CONFIG", None); ("NFULNL_MSG_MAX", None)]].
Definition enum_nfulnl_attr_type : list decl := [
  Enum [
    ("NFULA_UNSPEC", None); ("NFULA_PACKET_HDR", None); ("NFULA_MARK", None);
    ("NFULA_TIMESTAMP", None); ("NFULA_IFINDEX_INDEV", None); ("NFULA_IFINDEX_OUTDEV", None);
    ("NFULA_IFINDEX_PHYSINDEV", None); ("NFULA_IFINDEX_PHYSOUTDEV", None);
    ("NFULA_HWADDR", None); ("NFULA_PAYLOAD", None); ("NFULA_PREFIX", None); ("NFULA_UID", None);
    ("NFULA_SEQ", None); ("NFULA_SEQ_GLOBAL", None); ("NFULA_GID", None); ("NFULA_HWTYPE", None);
    ("NFULA_HWHEADER", None); ("NFULA_HWLEN", None); ("NFULA_CT", None); ("NFULA_CT_INFO", None);
    ("__NFULA_MAX", None)];
  Defines [
    ("NFULA_MAX", Sub (Id "__NFULA_MAX") (dec 1))];
  Enum [
    ("NFULNL_CFG_CMD_NONE", None); ("NFULNL_CFG_CMD_BIND", None);
    ("NFULNL_CFG_CMD_UNBIND", None); ("NFULNL_CFG_CMD_PF_BIND", None);
    ("NFULNL_CFG_CMD_PF_UNBIND", None)]].
Definition enum_nfulnl_attr_config : list decl := [
  Enum [
    ("NFULA_CFG_UNSPEC", None); ("NFULA_CFG_CMD", None); ("NFULA_CFG_MODE", None);
    ("NFULA_CFG_NLBUFSIZ", None); ("NFULA_CFG_TIMEOUT", None); ("NFULA_CFG_QTHRESH", None);
    ("NFULA_CFG_FLAGS", None); ("__NFULA_CFG_MAX", None)];
  Defines [
    ("NFULA_CFG_MAX", Sub (Id "__NFULA_CFG_MAX") (dec 1)); ("NFULNL_COPY_NONE", hex 0x00);
    ("NFULNL_COPY_META", hex 0x01); ("NFULNL_COPY_PACKET", hex 0x02);
    ("NFULNL_CFG_F_SEQ", hex 0x0001); ("NFULNL_CFG_F_SEQ_GLOBAL", hex 0x0002);
    ("NFULNL_CFG_F_CONNTRACK", hex 0x0004)]].
Definition header : header :=
  Header "linux/netfilter/nfnetlink_log.h" [] (concat [
    enum_nfulnl_msg_types; enum_nfulnl_attr_type; enum_nfulnl_attr_config]).
End Netfilter_nfnetlink_log.

(** ** [linux/netfilter/nfnetlink_queue.h] *)

Module Netfilter_nfnetlink_queue.
Definition enum_nfqnl_msg_types : list decl := [
  Enum [
    ("NFQNL_MSG_PACKET", None); ("NFQNL_MSG_VERDICT", None); ("NFQNL_MSG_CONFIG", None);
    ("NFQNL_MSG_VERDICT_BATCH", None); ("NFQNL_MSG_MAX", None)]].
Definition enum_nfqnl_attr_type : list decl := [
  Enum [
    ("NFQA_UNSPEC", None); ("NFQA_PACKET_HDR", None); ("NFQA_VERDICT_HDR", None);
    ("NFQA_MARK", None); ("NFQA_TIMESTAMP", None); ("NFQA_IFINDEX_INDEV", None);
    ("NFQA_IFINDEX_OUTDEV", None); ("NFQA_IFINDEX_PHYSINDEV", None);
    ("NFQA_IFINDEX_PHYSOUTDEV", None); ("NFQA_HWADDR", None); ("NFQA_PAYLOAD", None);
    ("NFQA_CT", None); ("NFQA_CT_INFO", None); ("NFQA_CAP_LEN", None); ("NFQA_SKB_INFO", None);
    ("NFQA_EXP", None); ("NFQA_UID", None); ("NFQA_GID", None); ("NFQA_SECCTX", None);
    ("__NFQA_MAX", None)];
  Defines [
    ("NFQA_MAX", Sub (Id "__NFQA_MAX") (dec 1))]].
Definition enum_nfqnl_msg_config_cmds : list decl := [
  Enum [
    ("NFQNL_CFG_CMD_NONE", None); ("NFQNL_CFG_CMD_BIND", None); ("NFQNL_CFG_CMD_UNBIND", None);
    ("NFQNL_CFG_CMD_PF_BIND", None); ("NFQNL_CFG_CMD_PF_UNBIND", None)]].
Definition enum_nfqnl_config_mode : list decl := [
  Enum [
    ("NFQNL_COPY_NONE", None); ("NFQNL_COPY_META", None); ("NFQNL_COPY_PACKET", None)]].
Definition enum_nfqnl_attr_config : list decl := [
  Enum [
    ("NFQA_CFG_UNSPEC", None); ("NFQA_CFG_CMD", None); ("NFQA_CFG_PARAMS", None);
    ("NFQA_CFG_QUEUE_MAXLEN", None); ("NFQA_CFG_MASK", None); ("NFQA_CFG_FLAGS", None);
    ("__NFQA_CFG_MAX", None)];
  Defines [
    ("NFQA_CFG_MAX", Sub (Id "__NFQA_CFG_MAX") (dec 1));
    ("NFQA_CFG_F_FAIL_OPEN", Shl (dec 1) (dec 0)); ("NFQA_CFG_F_CONNTRACK", Shl (dec 1) (dec 1));
    ("NFQA_CFG_F_GSO", Shl (dec 1) (dec 2)); ("NFQA_CFG_F_UID_GID", Shl (dec 1) (dec 3));
    ("NFQA_CFG_F_SECCTX", Shl (dec 1) (dec 4)); ("NFQA_CFG_F_MAX", Shl (dec 1) (dec 5));
    ("NFQA_SKB_CSUMNOTREADY", Shl (dec 1) (dec 0)); ("NFQA_SKB_GSO", Shl (dec 1) (dec 1));
    ("NFQA_SKB_CSUM_NOTVERIFIED", Shl (dec 1) (dec 2))]].
Definition header : header :=
  Header "linux/netfilter/nfnetlink_queue.h" [] (concat [
    enum_nfqnl_msg_types; enum_nfqnl_attr_type; enum_nfqnl_msg_config_cmds;
    enum_nfqnl_config_mode; enum_nfqnl_attr_config]).
End Netfilter_nfnetlink_queue.

(** ** [linux/netfilter/xt_AUDIT.h] *)

Module Netfilter_xt_AUDIT.
Definition enum_XT_AUDIT_TYPE_ACCEPT : list decl := [
  Enum [
    ("XT_AUDIT_TYPE_ACCEPT", Some (dec 0)); ("XT_AUDIT_TYPE_DROP", None);
    ("XT_AUDIT_TYPE_REJECT", None); ("__XT_AUDIT_TYPE_MAX", None)];
  Defines [
    ("XT_AUDIT_TYPE_MAX", Sub (Id "__XT_AUDIT_TYPE_MAX") (dec 1))]].
Definition header : header :=
  Header "linux/netfilter/xt_AUDIT.h" [] (concat [
    enum_XT_AUDIT_TYPE_ACCEPT]).
End Netfilter_xt_AUDIT.

(** ** [linux/netfilter/xt_CT.h] *)

Module Netfilter_xt_CT.
Definition enum_XT_CT_NOTRACK : list decl := [
  Enum [
    ("XT_CT_NOTRACK", Some (Shl (dec 1) (dec 0)));
    ("XT_CT_NOTRACK_ALIAS", Some (Shl (dec 1) (dec 1)));
    ("XT_CT_ZONE_DIR_ORIG", Some (Shl (dec 1) (dec 2)));
    ("XT_CT_ZONE_DIR_REPL", Some (Shl (dec 1) (dec 3)));
    ("XT_CT_ZONE_MARK", Some (Shl (dec 1) (dec 4)));
    ("XT_CT_MASK", Some (Or (Or (Or (Or (Id "XT_CT_NOTRACK") (Id "XT_CT_NOTRACK_ALIAS")) (Id "XT_CT_ZONE_DIR_ORIG")) (Id "XT_CT_ZONE_DIR_REPL")) (Id "XT_CT_ZONE_MARK")))]].
Definition header : header :=
  Header "linux/netfilter/xt_CT.h" [] (concat [
    enum_XT_CT_NOTRACK]).
End Netfilter_xt_CT.

(** ** [linux/netfilter/xt_HMARK.h] *)

Module Netfilter_xt_HMARK.
Definition enum_XT_HMARK_SADDR_MASK : list decl := [
  Enum [
    ("XT_HMARK_SADDR_MASK", None); ("XT_HMARK_DADDR_MASK", None); ("XT_HMARK_SPI", None);
    ("XT_HMARK_SPI_MASK", None); ("XT_HMARK_SPORT", None); ("XT_HMARK_DPORT", None);
    ("XT_HMARK_SPORT_MASK", None); ("XT_HMARK_DPORT_MASK", None); ("XT_HMARK_PROTO_MASK", None);
    ("XT_HMARK_RND", None); ("XT_HMARK_MODULUS", None); ("XT_HMARK_OFFSET", None);
    ("XT_HMARK_CT", None); ("XT_HMARK_METHOD_L3", None); ("XT_HMARK_METHOD_L3_4", None)]].
Definition header : header :=
  Header "linux/netfilter/xt_HMARK.h" [] (concat [
    enum_XT_HMARK_SADDR_MASK]).
End Netfilter_xt_HMARK.

(** ** [linux/netfilter/xt_IDLETIMER.h] *)

Module Netfilter_xt_IDLETIMER.
Definition defs_MAX_IDLETIMER_LABEL_SIZE : list decl := [
  Defines [
    ("MAX_IDLETIMER_LABEL_SIZE", dec 28); ("NLMSG_MAX_SIZE", dec 64);
    ("NL_EVENT_TYPE_INACTIVE", dec 0); ("NL_EVENT_TYPE_ACTIVE", dec 1)]].
Definition header : header :=
  Header "linux/netfilter/xt_IDLETIMER.h" [] (concat [
    defs_MAX_IDLETIMER_LABEL_SIZE]).
End Netfilter_xt_IDLETIMER.

(** ** [linux/netfilter/xt_LOG.h] *)

Module Netfilter_xt_LOG.
Definition defs_XT_LOG_TCPSEQ : list decl := [
  Defines [
    ("XT_LOG_TCPSEQ", hex 0x01); ("XT_LOG_TCPOPT", hex 0x02); ("XT_LOG_IPOPT", hex 0x04);
    ("XT_LOG_UID", hex 0x08); ("XT_LOG_NFLOG", hex 0x10); ("XT_LOG_MACDECODE", hex 0x20);
    ("XT_LOG_MASK", hex 0x2f)]].
Definition header : header :=
  Header "linux/netfilter/xt_LOG.h" [] (concat [
    defs_XT_LOG_TCPSEQ]).
End Netfilter_xt_LOG.

(** ** [linux/netfilter/xt_addrtype.h] *)

Module Netfilter_xt_addrtype.
Definition enum_XT_ADDRTYPE_INVERT_SOURCE : list decl := [
  Enum [
    ("XT_ADDRTYPE_INVERT_SOURCE", Some (hex 0x0001));
    ("XT_ADDRTYPE_INVERT_DEST", Some (hex 0x0002));
    ("XT_ADDRTYPE_LIMIT_IFACE_IN", Some (hex 0x0004));
    ("XT_ADDRTYPE_LIMIT_IFACE_OUT", Some (hex 0x0008))];
  Enum [
    ("XT_ADDRTYPE_UNSPEC", Some (Shl (dec 1) (dec 0)));
    ("XT_ADDRTYPE_UNICAST", Some (Shl (dec 1) (dec 1)));
    ("XT_ADDRTYPE_LOCAL", Some (Shl (dec 1) (dec 2)));
    ("XT_ADDRTYPE_BROADCAST", Some (Shl (dec 1) (dec 3)));
    ("XT_ADDRTYPE_ANYCAST", Some (Shl (dec 1) (dec 4)));
    ("XT_ADDRTYPE_MULTICAST", Some (Shl (dec 1) (dec 5)));
    ("XT_ADDRTYPE_BLACKHOLE", Some (Shl (dec 1) (dec 6)));
    ("XT_ADDRTYPE_UNREACHABLE", Some (Shl (dec 1) (dec 7)));
    ("XT_ADDRTYPE_PROHIBIT", Some (Shl (dec 1) (dec 8)));
    ("XT_ADDRTYPE_THROW", Some (Shl (dec 1) (dec 9)));
    ("XT_ADDRTYPE_NAT", Some (Shl (dec 1) (dec 10)));
    ("XT_ADDRTYPE_XRESOLVE", Some (Shl (dec 1) (dec 11)))]].
Definition header : header :=
  Header "linux/netfilter/xt_addrtype.h" [] (concat [
    enum_XT_ADDRTYPE_INVERT_SOURCE]).
End Netfilter_xt_addrtype.

(** ** [linux/netfilter/xt_connbytes.h] *)

Module Netfilter_xt_connbytes.
Definition enum_xt_connbytes_what : list decl := [
  Enum [
    ("XT_CONNBYTES_PKTS", None); ("XT_CONNBYTES_BYTES", None); ("XT_CONNBYTES_AVGPKT", None)];
  Enum [
    ("XT_CONNBYTES_DIR_ORIGINAL", None); ("XT_CONNBYTES_DIR_REPLY", None);
    ("XT_CONNBYTES_DIR_BOTH", None)]].
Definition header : header :=
  Header "linux/netfilter/xt_connbytes.h" [] (concat [
    enum_xt_connbytes_what]).
End Netfilter_xt_connbytes.

(** ** [linux/netfilter/xt_connmark.h] *)

Module Netfilter_xt_connmark.
Definition enum_XT_CONNMARK_SET : list decl := [
  Enum [
    ("XT_CONNMARK_SET", Some (dec 0)); ("XT_CONNMARK_SAVE", None); ("XT_CONNMARK_RESTORE", None)]].
Definition header : header :=
  Header "linux/netfilter/xt_connmark.h" [] (concat [
    enum_XT_CONNMARK_SET]).
End Netfilter_xt_connmark.

(** ** [linux/netfilter/xt_conntrack.h] *)

Module Netfilter_xt_conntrack.
Definition defs_XT_CONNTRACK_STATE_INVALID : list decl := [
  Defines [
    ("XT_CONNTRACK_STATE_INVALID", Shl (dec 1) (dec 0));
    ("XT_CONNTRACK_STATE_SNAT", Shl (dec 1) (Add (Id "IP_CT_NUMBER") (dec 1)));
    ("XT_CONNTRACK_STATE_DNAT", Shl (dec 1) (Add (Id "IP_CT_NUMBER") (dec 2)));
    ("XT_CONNTRACK_STATE_UNTRACKED", Shl (dec 1) (Add (Id "IP_CT_NUMBER") (dec 3)))];
  Enum [
    ("XT_CONNTRACK_STATE", Some (Shl (dec 1) (dec 0)));
    ("XT_CONNTRACK_PROTO", Some (Shl (dec 1) (dec 1)));
    ("XT_CONNTRACK_ORIGSRC", Some (Shl (dec 1) (dec 2)));
    ("XT_CONNTRACK_ORIGDST", Some (Shl (dec 1) (dec 3)));
    ("XT_CONNTRACK_REPLSRC", Some (Shl (dec 1) (dec 4)));
    ("XT_CONNTRACK_REPLDST", Some (Shl (dec 1) (dec 5)));
    ("XT_CONNTRACK_STATUS", Some (Shl (dec 1) (dec 6)));
    ("XT_CONNTRACK_EXPIRES", Some (Shl (dec 1) (dec 7)));
    ("XT_CONNTRACK_ORIGSRC_PORT", Some (Shl (dec 1) (dec 8)));
    ("XT_CONNTRACK_ORIGDST_PORT", Some (Shl (dec 1) (dec 9)));
    ("XT_CONNTRACK_REPLSRC_PORT", Some (Shl (dec 1) (dec 10)));
    ("XT_CONNTRACK_REPLDST_PORT", Some (Shl (dec 1) (dec 11)));
    ("XT_CONNTRACK_DIRECTION", Some (Shl (dec 1) (dec 12)));
    ("XT_CONNTRACK_STATE_ALIAS", Some (Shl (dec 1) (dec 13)))]].
Definition header : header :=
  Header "linux/netfilter/xt_conntrack.h" [Netfilter_nf_conntrack_common.header] (concat [
    defs_XT_CONNTRACK_STATE_INVALID]).
End Netfilter_xt_conntrack.

(** ** [linux/netfilter/xt_dccp.h] *)

Module Netfilter_xt_dccp.
Definition defs_XT_DCCP_SRC_PORTS : list decl := [
  Defines [
    ("XT_DCCP_SRC_PORTS", hex 0x01); ("XT_DCCP_DEST_PORTS", hex 0x02);
    ("XT_DCCP_TYPE", hex 0x04); ("XT_DCCP_OPTION", hex 0x08); ("XT_DCCP_VALID_FLAGS", hex 0x0f)]].
Definition header : header :=
  Header "linux/netfilter/xt_dccp.h" [] (concat [
    defs_XT_DCCP_SRC_PORTS]).
End Netfilter_xt_dccp.

(** ** [linux/netfilter/xt_devgroup.h] *)

Module Netfilter_xt_devgroup.
Definition enum_xt_devgroup_flags : list decl := [
  Enum [
    ("XT_DEVGROUP_MATCH_SRC", Some (hex 0x1)); ("XT_DEVGROUP_INVERT_SRC", Some (hex 0x2));
    ("XT_DEVGROUP_MATCH_DST", Some (hex 0x4)); ("XT_DEVGROUP_INVERT_DST", Some (hex 0x8))]].
Definition header : header :=
  Header "linux/netfilter/xt_devgroup.h" [] (concat [
    enum_xt_devgroup_flags]).
End Netfilter_xt_devgroup.

(** ** [linux/netfilter/xt_dscp.h] *)

Module Netfilter_xt_dscp.
Definition defs_XT_DSCP_MASK : list decl := [
  Defines [
    ("XT_DSCP_MASK", hex 0xfc); ("XT_DSCP_SHIFT", dec 2); ("XT_DSCP_MAX", hex 0x3f)]].
Definition header : header :=
  Header "linux/netfilter/xt_dscp.h" [] (concat [
    defs_XT_DSCP_MASK]).
End Netfilter_xt_dscp.

(** ** [linux/netfilter/xt_ecn.h] *)

Module Netfilter_xt_ecn.
Definition defs_XT_ECN_IP_MASK : list decl := [
  Defines [
    ("XT_ECN_IP_MASK", Not (Id "XT_DSCP_MASK")); ("XT_ECN_OP_MATCH_IP", hex 0x01);
    ("XT_ECN_OP_MATCH_ECE", hex 0x10); ("XT_ECN_OP_MATCH_CWR", hex 0x20);
    ("XT_ECN_OP_MATCH_MASK", hex 0xce)]].
Definition header : header :=
  Header "linux/netfilter/xt_ecn.h" [Netfilter_xt_dscp.header] (concat [
    defs_XT_ECN_IP_MASK]).
End Netfilter_xt_ecn.

(** ** [linux/netfilter/xt_hashlimit.h] *)

Module Netfilter_xt_hashlimit.
Definition enum_XT_HASHLIMIT_HASH_DIP : list decl := [
  Enum [
    ("XT_HASHLIMIT_HASH_DIP", Some (Shl (dec 1) (dec 0)));
    ("XT_HASHLIMIT_HASH_DPT", Some (Shl (dec 1) (dec 1)));
    ("XT_HASHLIMIT_HASH_SIP", Some (Shl (dec 1) (dec 2)));
    ("XT_HASHLIMIT_HASH_SPT", Some (Shl (dec 1) (dec 3)));
    ("XT_HASHLIMIT_INVERT", Some (Shl (dec 1) (dec 4)));
    ("XT_HASHLIMIT_BYTES", Some (Shl (dec 1) (dec 5)))]].
Definition header : header :=
  Header "linux/netfilter/xt_hashlimit.h" [] (concat [
    enum_XT_HASHLIMIT_HASH_DIP]).
End Netfilter_xt_hashlimit.

(** ** [linux/netfilter/xt_iprange.h] *)

Module Netfilter_xt_iprange.
Definition enum_IPRANGE_SRC : list decl := [
  Enum [
    ("IPRANGE_SRC", Some (Shl (dec 1) (dec 0))); ("IPRANGE_DST", Some (Shl (dec 1) (dec 1)));
    ("IPRANGE_SRC_INV", Some (Shl (dec 1) (dec 4)));
    ("IPRANGE_DST_INV", Some (Shl (dec 1) (dec 5)))]].
Definition header : header :=
  Header "linux/netfilter/xt_iprange.h" [] (concat [
    enum_IPRANGE_SRC]).
End Netfilter_xt_iprange.

(** ** [linux/netfilter/xt_ipvs.h] *)

Module Netfilter_xt_ipvs.
Definition enum_XT_IPVS_IPVS_PROPERTY : list decl := [
  Enum [
    ("XT_IPVS_IPVS_PROPERTY", Some (Shl (dec 1) (dec 0)));
    ("XT_IPVS_PROTO", Some (Shl (dec 1) (dec 1))); ("XT_IPVS_VADDR", Some (Shl (dec 1) (dec 2)));
    ("XT_IPVS_VPORT", Some (Shl (dec 1) (dec 3))); ("XT_IPVS_DIR", Some (Shl (dec 1) (dec 4)));
    ("XT_IPVS_METHOD", Some (Shl (dec 1) (dec 5)));
    ("XT_IPVS_VPORTCTL", Some (Shl (dec 1) (dec 6)));
    ("XT_IPVS_MASK", Some (Sub (Shl (dec 1) (dec 7)) (dec 1)));
    ("XT_IPVS_ONCE_MASK", Some (And (Id "XT_IPVS_MASK") (Not (Id "XT_IPVS_IPVS_PROPERTY"))))]].
Definition header : header :=
  Header "linux/netfilter/xt_ipvs.h" [] (concat [
    enum_XT_IPVS_IPVS_PROPERTY]).
End Netfilter_xt_ipvs.

(** ** [linux/netfilter/xt_l2tp.h] *)

Module Netfilter_xt_l2tp.
Definition enum_XT_L2TP_TID : list decl := [
  Enum [
    ("XT_L2TP_TID", Some (Shl (dec 1) (dec 0))); ("XT_L2TP_SID", Some (Shl (dec 1) (dec 1)));
    ("XT_L2TP_VERSION", Some (Shl (dec 1) (dec 2))); ("XT_L2TP_TYPE", Some (Shl (dec 1) (dec 3)))]].
Definition header : header :=
  Header "linux/netfilter/xt_l2tp.h" [] (concat [
    enum_XT_L2TP_TID]).
End Netfilter_xt_l2tp.

(** ** [linux/netfilter/xt_multiport.h] *)

Module Netfilter_xt_multiport.
Definition enum_xt_multiport_flags : list decl := [
  Enum [
    ("XT_MULTIPORT_SOURCE", None); ("XT_MULTIPORT_DESTINATION", None);
    ("XT_MULTIPORT_EITHER", None)];
  Defines [
    ("XT_MULTI_PORTS", dec 15)]].
Definition header : header :=
  Header "linux/netfilter/xt_multiport.h" [] (concat [
    enum_xt_multiport_flags]).
End Netfilter_xt_multiport.

(** ** [linux/netfilter/xt_osf.h] *)

Module Netfilter_xt_osf.
Definition defs_MAXGENRELEN : list decl := [
  Defines [
    ("MAXGENRELEN", dec 32); ("XT_OSF_GENRE", Shl (dec 1) (dec 0));
    ("XT_OSF_TTL", Shl (dec 1) (dec 1)); ("XT_OSF_LOG", Shl (dec 1) (dec 2));
    ("XT_OSF_INVERT", Shl (dec 1) (dec 3)); ("XT_OSF_LOGLEVEL_ALL", dec 0);
    ("XT_OSF_LOGLEVEL_FIRST", dec 1); ("XT_OSF_LOGLEVEL_ALL_KNOWN", dec 2);
    ("XT_OSF_TTL_TRUE", dec 0); ("XT_OSF_TTL_LESS", dec 1); ("XT_OSF_TTL_NOCHECK", dec 2)]].
Definition enum_iana_options : list decl := [
  Enum [
    ("OSFOPT_EOL", Some (dec 0)); ("OSFOPT_NOP", None); ("OSFOPT_MSS", None);
    ("OSFOPT_WSO", None); ("OSFOPT_SACKP", None); ("OSFOPT_SACK", None); ("OSFOPT_ECHO", None);
    ("OSFOPT_ECHOREPLY", None); ("OSFOPT_TS", None); ("OSFOPT_POCP", None);
    ("OSFOPT_POSP", None); ("OSFOPT_EMPTY", Some (dec 255))];
  Enum [
    ("OSF_WSS_PLAIN", Some (dec 0)); ("OSF_WSS_MSS", None); ("OSF_WSS_MTU", None);
    ("OSF_WSS_MODULO", None); ("OSF_WSS_MAX", None)];
  Enum [
    ("OSF_MSG_ADD", None); ("OSF_MSG_REMOVE", None); ("OSF_MSG_MAX", None)];
  Enum [
    ("OSF_ATTR_UNSPEC", None); ("OSF_ATTR_FINGER", None); ("OSF_ATTR_MAX", None)]].
Definition header : header :=
  Header "linux/netfilter/xt_osf.h" [] (concat [
    defs_MAXGENRELEN; enum_iana_options]).
End Netfilter_xt_osf.

(** ** [linux/netfilter/xt_owner.h] *)

Module Netfilter_xt_owner.
Definition enum_XT_OWNER_UID : list decl := [
  Enum [
    ("XT_OWNER_UID", Some (Shl (dec 1) (dec 0))); ("XT_OWNER_GID", Some (Shl (dec 1) (dec 1)));
    ("XT_OWNER_SOCKET", Some (Shl (dec 1) (dec 2)))]].
Definition header : header :=
  Header "linux/netfilter/xt_owner.h" [] (concat [
    enum_XT_OWNER_UID]).
End Netfilter_xt_owner.

(** ** [linux/netfilter/xt_physdev.h] *)

Module Netfilter_xt_physdev.
Definition defs_XT_PHYSDEV_OP_IN : list decl := [
  Defines [
    ("XT_PHYSDEV_OP_IN", hex 0x01); ("XT_PHYSDEV_OP_OUT", hex 0x02);
    ("XT_PHYSDEV_OP_BRIDGED", hex 0x04); ("XT_PHYSDEV_OP_ISIN", hex 0x08);
    ("XT_PHYSDEV_OP_ISOUT", hex 0x10); ("XT_PHYSDEV_OP_MASK", Sub (hex 0x20) (dec 1))]].
Definition header : header :=
  Header "linux/netfilter/xt_physdev.h" [] (concat [
    defs_XT_PHYSDEV_OP_IN]).
End Netfilter_xt_physdev.

(** ** [linux/netfilter/xt_policy.h] *)

Module Netfilter_xt_policy.
Definition enum_xt_policy_flags : list decl := [
  Enum [
    ("XT_POLICY_MATCH_IN", Some (hex 0x1)); ("XT_POLICY_MATCH_OUT", Some (hex 0x2));
    ("XT_POLICY_MATCH_NONE", Some (hex 0x4)); ("XT_POLICY_MATCH_STRICT", Some (hex 0x8))]].
Definition header : header :=
  Header "linux/netfilter/xt_policy.h" [] (concat [
    enum_xt_policy_flags]).
End Netfilter_xt_policy.

(** ** [linux/netfilter/xt_rateest.h] *)

Module Netfilter_xt_rateest.
Definition enum_xt_rateest_match_flags : list decl := [
  Enum [
    ("XT_RATEEST_MATCH_INVERT", Some (Shl (dec 1) (dec 0)));
    ("XT_RATEEST_MATCH_ABS", Some (Shl (dec 1) (dec 1)));
    ("XT_RATEEST_MATCH_REL", Some (Shl (dec 1) (dec 2)));
    ("XT_RATEEST_MATCH_DELTA", Some (Shl (dec 1) (dec 3)));
    ("XT_RATEEST_MATCH_BPS", Some (Shl (dec 1) (dec 4)));
    ("XT_RATEEST_MATCH_PPS", Some (Shl (dec 1) (dec 5)))];
  Enum [
    ("XT_RATEEST_MATCH_NONE", None); ("XT_RATEEST_MATCH_EQ", None);
    ("XT_RATEEST_MATCH_LT", None); ("XT_RATEEST_MATCH_GT", None)]].
Definition header : header :=
  Header "linux/netfilter/xt_rateest.h" [] (concat [
    enum_xt_rateest_match_flags]).
End Netfilter_xt_rateest.

(** ** [linux/netfilter/xt_recent.h] *)

Module Netfilter_xt_recent.
Definition enum_XT_RECENT_CHECK : list decl := [
  Enum [
    ("XT_RECENT_CHECK", Some (Shl (dec 1) (dec 0)));
    ("XT_RECENT_SET", Some (Shl (dec 1) (dec 1)));
    ("XT_RECENT_UPDATE", Some (Shl (dec 1) (dec 2)));
    ("XT_RECENT_REMOVE", Some (Shl (dec 1) (dec 3)));
    ("XT_RECENT_TTL", Some (Shl (dec 1) (dec 4)));
    ("XT_RECENT_REAP", Some (Shl (dec 1) (dec 5))); ("XT_RECENT_SOURCE", Some (dec 0));
    ("XT_RECENT_DEST", Some (dec 1)); ("XT_RECENT_NAME_LEN", Some (dec 200))];
  Defines [
    ("XT_RECENT_MODIFIERS", Or (Id "XT_RECENT_TTL") (Id "XT_RECENT_REAP"));
    ("XT_RECENT_VALID_FLAGS", Or (Or (Or (Or (Or (Id "XT_RECENT_CHECK") (Id "XT_RECENT_SET")) (Id "XT_RECENT_UPDATE")) (Id "XT_RECENT_REMOVE")) (Id "XT_RECENT_TTL")) (Id "XT_RECENT_REAP"))]].
Definition header : header :=
  Header "linux/netfilter/xt_recent.h" [] (concat [
    enum_XT_RECENT_CHECK]).
End Netfilter_xt_recent.

(** ** [linux/netfilter/xt_rpfilter.h] *)

Module Netfilter_xt_rpfilter.
Definition enum_XT_RPFILTER_LOOSE : list decl := [
  Enum [
    ("XT_RPFILTER_LOOSE", Some (Shl (dec 1) (dec 0)));
    ("XT_RPFILTER_VALID_MARK", Some (Shl (dec 1) (dec 1)));
    ("XT_RPFILTER_ACCEPT_LOCAL", Some (Shl (dec 1) (dec 2)));
    ("XT_RPFILTER_INVERT", Some (Shl (dec 1) (dec 3)))]].
Definition header : header :=
  Header "linux/netfilter/xt_rpfilter.h" [] (concat [
    enum_XT_RPFILTER_LOOSE]).
End Netfilter_xt_rpfilter.

(** ** [linux/netfilter/xt_sctp.h] *)

Module Netfilter_xt_sctp.
Definition defs_XT_SCTP_SRC_PORTS : list decl := [
  Defines [
    ("XT_SCTP_SRC_PORTS", hex 0x01); ("XT_SCTP_DEST_PORTS", hex 0x02);
    ("XT_SCTP_CHUNK_TYPES", hex 0x04); ("XT_SCTP_VALID_FLAGS", hex 0x07)]].
Definition header : header :=
  Header "linux/netfilter/xt_sctp.h" [] (concat [
    defs_XT_SCTP_SRC_PORTS]).
End Netfilter_xt_sctp.

(** ** [linux/netfilter/xt_socket.h] *)

Module Netfilter_xt_socket.
Definition enum_XT_SOCKET_TRANSPARENT : list decl := [
  Enum [
    ("XT_SOCKET_TRANSPARENT", Some (Shl (dec 1) (dec 0)));
    ("XT_SOCKET_NOWILDCARD", Some (Shl (dec 1) (dec 1)));
    ("XT_SOCKET_RESTORESKMARK", Some (Shl (dec 1) (dec 2)))]].
Definition header : header :=
  Header "linux/netfilter/xt_socket.h" [] (concat [
    enum_XT_SOCKET_TRANSPARENT]).
End Netfilter_xt_socket.

(** ** [linux/netfilter/xt_statistic.h] *)

Module Netfilter_xt_statistic.
Definition enum_xt_statistic_mode : list decl := [
  Enum [
    ("XT_STATISTIC_MODE_RANDOM", None); ("XT_STATISTIC_MODE_NTH", None);
    ("__XT_STATISTIC_MODE_MAX", None)];
  Defines [
    ("XT_STATISTIC_MODE_MAX", Sub (Id "__XT_STATISTIC_MODE_MAX") (dec 1))]].
Definition header : header :=
  Header "linux/netfilter/xt_statistic.h" [] (concat [
    enum_xt_statistic_mode]).
End Netfilter_xt_statistic.

(** ** [linux/netfilter/xt_tcpudp.h] *)

Module Netfilter_xt_tcpudp.
Definition defs_XT_TCP_INV_SRCPT : list decl := [
  Defines [
    ("XT_TCP_INV_SRCPT", hex 0x01); ("XT_TCP_INV_DSTPT", hex 0x02);
    ("XT_TCP_INV_FLAGS", hex 0x04); ("XT_TCP_INV_OPTION", hex 0x08);
    ("XT_TCP_INV_MASK", hex 0x0F)]].
Definition defs_XT_UDP_INV_SRCPT : list decl := [
  Defines [
    ("XT_UDP_INV_SRCPT", hex 0x01); ("XT_UDP_INV_DSTPT", hex 0x02); ("XT_UDP_INV_MASK", hex 0x03)]].
Definition header : header :=
  Header "linux/netfilter/xt_tcpudp.h" [] (concat [
    defs_XT_TCP_INV_SRCPT; defs_XT_UDP_INV_SRCPT]).
End Netfilter_xt_tcpudp.

(** ** [linux/netfilter/xt_time.h] *)

Module Netfilter_xt_time.
Definition enum_XT_TIME_LOCAL_TZ : list decl := [
  Enum [
    ("XT_TIME_LOCAL_TZ", Some (Shl (dec 1) (dec 0)));
    ("XT_TIME_CONTIGUOUS", Some (Shl (dec 1) (dec 1)));
    ("XT_TIME_ALL_MONTHDAYS", Some (hex 0xFFFFFFFE)); ("XT_TIME_ALL_WEEKDAYS", Some (hex 0xFE));
    ("XT_TIME_MIN_DAYTIME", Some (dec 0));
    ("XT_TIME_MAX_DAYTIME", Some (Sub (Mul (Mul (dec 24) (dec 60)) (dec 60)) (dec 1)))];
  Defines [
    ("XT_TIME_ALL_FLAGS", Or (Id "XT_TIME_LOCAL_TZ") (Id "XT_TIME_CONTIGUOUS"))]].
Definition header : header :=
  Header "linux/netfilter/xt_time.h" [] (concat [
    enum_XT_TIME_LOCAL_TZ]).
End Netfilter_xt_time.

(** ** [linux/netfilter/xt_u32.h] *)

Module Netfilter_xt_u32.
Definition enum_xt_u32_ops : list decl := [
  Enum [
    ("XT_U32_AND", None); ("XT_U32_LEFTSH", None); ("XT_U32_RIGHTSH", None); ("XT_U32_AT", None)]].
Definition header : header :=
  Header "linux/netfilter/xt_u32.h" [] (concat [
    enum_xt_u32_ops]).
End Netfilter_xt_u32.

(** ** [linux/netfilter_arp.h] *)

Module Netfilter_arp.
Definition defs_NF_ARP : list decl := [
  Defines [
    ("NF_ARP", dec 0); ("NF_ARP_IN", dec 0); ("NF_ARP_OUT", dec 1); ("NF_ARP_FORWARD", dec 2);
    ("NF_ARP_NUMHOOKS", dec 3)]].
Definition header : header :=
  Header "linux/netfilter_arp.h" [] (concat [
    defs_NF_ARP]).
End Netfilter_arp.

(** ** [linux/netfilter_arp/arp_tables.h] *)

Module Netfilter_arp_arp_tables.
Definition defs_ARPT_F_MASK : list decl := [
  Defines [
    ("ARPT_F_MASK", hex 0x00); ("ARPT_INV_VIA_IN", hex 0x0001); ("ARPT_INV_VIA_OUT", hex 0x0002);
    ("ARPT_INV_SRCIP", hex 0x0004); ("ARPT_INV_TGTIP", hex 0x0008);
    ("ARPT_INV_SRCDEVADDR", hex 0x0010); ("ARPT_INV_TGTDEVADDR", hex 0x0020);
    ("ARPT_INV_ARPOP", hex 0x0040); ("ARPT_INV_ARPHRD", hex 0x0080);
    ("ARPT_INV_ARPPRO", hex 0x0100); ("ARPT_INV_ARPHLN", hex 0x0200);
    ("ARPT_INV_MASK", hex 0x03FF)]].
Definition defs_ARPT_BASE_CTL : list decl := [
  Defines [
    ("ARPT_BASE_CTL", dec 96); ("ARPT_SO_SET_REPLACE", Id "ARPT_BASE_CTL");
    ("ARPT_SO_SET_ADD_COUNTERS", Add (Id "ARPT_BASE_CTL") (dec 1));
    ("ARPT_SO_SET_MAX", Id "ARPT_SO_SET_ADD_COUNTERS"); ("ARPT_SO_GET_INFO", Id "ARPT_BASE_CTL");
    ("ARPT_SO_GET_ENTRIES", Add (Id "ARPT_BASE_CTL") (dec 1));
    ("ARPT_SO_GET_REVISION_TARGET", Add (Id "ARPT_BASE_CTL") (dec 3));
    ("ARPT_SO_GET_MAX", Id "ARPT_SO_GET_REVISION_TARGET")]].
Definition header : header :=
  Header "linux/netfilter_arp/arp_tables.h" [] (concat [
    defs_ARPT_F_MASK; defs_ARPT_BASE_CTL]).
End Netfilter_arp_arp_tables.

(** ** [linux/netfilter_arp/arpt_mangle.h] *)

Module Netfilter_arp_arpt_mangle.
Definition defs_ARPT_MANGLE_SDEV : list decl := [
  Defines [
    ("ARPT_MANGLE_SDEV", hex 0x01); ("ARPT_MANGLE_TDEV", hex 0x02);
    ("ARPT_MANGLE_SIP", hex 0x04); ("ARPT_MANGLE_TIP", hex 0x08); ("ARPT_MANGLE_MASK", hex 0x0f)]].
Definition header : header :=
  Header "linux/netfilter_arp/arpt_mangle.h" [] (concat [
    defs_ARPT_MANGLE_SDEV]).
End Netfilter_arp_arpt_mangle.

(** ** [linux/netfilter_bridge.h] *)

Module Netfilter_bridge.
Definition defs_NF_BR_PRE_ROUTING : list decl := [
  Defines [
    ("NF_BR_PRE_ROUTING", dec 0); ("NF_BR_LOCAL_IN", dec 1); ("NF_BR_FORWARD", dec 2);
    ("NF_BR_LOCAL_OUT", dec 3); ("NF_BR_POST_ROUTING", dec 4); ("NF_BR_BROUTING", dec 5);
    ("NF_BR_NUMHOOKS", dec 6)]].
Definition header : header :=
  Header "linux/netfilter_bridge.h" [] (concat [
    defs_NF_BR_PRE_ROUTING]).
End Netfilter_bridge.

(** ** [linux/netfilter_bridge/ebt_arp.h] *)

Module Netfilter_bridge_ebt_arp.
Definition defs_EBT_ARP_OPCODE : list decl := [
  Defines [
    ("EBT_ARP_OPCODE", hex 0x01); ("EBT_ARP_HTYPE", hex 0x02); ("EBT_ARP_PTYPE", hex 0x04);
    ("EBT_ARP_SRC_IP", hex 0x08); ("EBT_ARP_DST_IP", hex 0x10); ("EBT_ARP_SRC_MAC", hex 0x20);
    ("EBT_ARP_DST_MAC", hex 0x40); ("EBT_ARP_GRAT", hex 0x80);
    ("EBT_ARP_MASK", Or (Or (Or (Or (Or (Or (Or (Id "EBT_ARP_OPCODE") (Id "EBT_ARP_HTYPE")) (Id "EBT_ARP_PTYPE")) (Id "EBT_ARP_SRC_IP")) (Id "EBT_ARP_DST_IP")) (Id "EBT_ARP_SRC_MAC")) (Id "EBT_ARP_DST_MAC")) (Id "EBT_ARP_GRAT"))]].
Definition header : header :=
  Header "linux/netfilter_bridge/ebt_arp.h" [] (concat [
    defs_EBT_ARP_OPCODE]).
End Netfilter_bridge_ebt_arp.

(** ** [linux/netfilter_bridge/ebt_ip.h] *)

Module Netfilter_bridge_ebt_ip.
Definition defs_EBT_IP_SOURCE : list decl := [
  Defines [
    ("EBT_IP_SOURCE", hex 0x01); ("EBT_IP_DEST", hex 0x02); ("EBT_IP_TOS", hex 0x04);
    ("EBT_IP_PROTO", hex 0x08); ("EBT_IP_SPORT", hex 0x10); ("EBT_IP_DPORT", hex 0x20);
    ("EBT_IP_MASK", Or (Or (Or (Or (Or (Id "EBT_IP_SOURCE") (Id "EBT_IP_DEST")) (Id "EBT_IP_TOS")) (Id "EBT_IP_PROTO")) (Id "EBT_IP_SPORT")) (Id "EBT_IP_DPORT"))]].
Definition header : header :=
  Header "linux/netfilter_bridge/ebt_ip.h" [] (concat [
    defs_EBT_IP_SOURCE]).
End Netfilter_bridge_ebt_ip.

(** ** [linux/netfilter_bridge/ebt_ip6.h] *)

Module Netfilter_bridge_ebt_ip6.
Definition defs_EBT_IP6_SOURCE : list decl := [
  Defines [
    ("EBT_IP6_SOURCE", hex 0x01); ("EBT_IP6_DEST", hex 0x02); ("EBT_IP6_TCLASS", hex 0x04);
    ("EBT_IP6_PROTO", hex 0x08); ("EBT_IP6_SPORT", hex 0x10); ("EBT_IP6_DPORT", hex 0x20);
    ("EBT_IP6_ICMP6", hex 0x40);
    ("EBT_IP6_MASK", Or (Or (Or (Or (Or (Or (Id "EBT_IP6_SOURCE") (Id "EBT_IP6_DEST")) (Id "EBT_IP6_TCLASS")) (Id "EBT_IP6_PROTO")) (Id "EBT_IP6_SPORT")) (Id "EBT_IP6_DPORT")) (Id "EBT_IP6_ICMP6"))]].
Definition header : header :=
  Header "linux/netfilter_bridge/ebt_ip6.h" [] (concat [
    defs_EBT_IP6_SOURCE]).
End Netfilter_bridge_ebt_ip6.

(** ** [linux/netfilter_bridge/ebt_log.h] *)

Module Netfilter_bridge_ebt_log.
Definition defs_EBT_LOG_IP : list decl := [
  Defines [
    ("EBT_LOG_IP", hex 0x01); ("EBT_LOG_ARP", hex 0x02); ("EBT_LOG_NFLOG", hex 0x04);
    ("EBT_LOG_IP6", hex 0x08);
    ("EBT_LOG_MASK", Or (Or (Id "EBT_LOG_IP") (Id "EBT_LOG_ARP")) (Id "EBT_LOG_IP6"));
    ("EBT_LOG_PREFIX_SIZE", dec 30)]].
Definition header : header :=
  Header "linux/netfilter_bridge/ebt_log.h" [] (concat [
    defs_EBT_LOG_IP]).
End Netfilter_bridge_ebt_log.

(** ** [linux/netfilter_bridge/ebt_mark_t.h] *)

Module Netfilter_bridge_ebt_mark_t.
Definition defs_MARK_SET_VALUE : list decl := [
  Defines [
    ("MARK_SET_VALUE", hex 0xfffffff0); ("MARK_OR_VALUE", hex 0xffffffe0);
    ("MARK_AND_VALUE", hex 0xffffffd0); ("MARK_XOR_VALUE", hex 0xffffffc0)]].
Definition header : header :=
  Header "linux/netfilter_bridge/ebt_mark_t.h" [] (concat [
    defs_MARK_SET_VALUE]).
End Netfilter_bridge_ebt_mark_t.

(** ** [linux/netfilter_bridge/ebt_stp.h] *)

Module Netfilter_bridge_ebt_stp.
Definition defs_EBT_STP_TYPE : list decl := [
  Defines [
    ("EBT_STP_TYPE", hex 0x0001); ("EBT_STP_FLAGS", hex 0x0002);
    ("EBT_STP_ROOTPRIO", hex 0x0004); ("EBT_STP_ROOTADDR", hex 0x0008);
    ("EBT_STP_ROOTCOST", hex 0x0010); ("EBT_STP_SENDERPRIO", hex 0x0020);
    ("EBT_STP_SENDERADDR", hex 0x0040); ("EBT_STP_PORT", hex 0x0080);
    ("EBT_STP_MSGAGE", hex 0x0100); ("EBT_STP_MAXAGE", hex 0x0200);
    ("EBT_STP_HELLOTIME", hex 0x0400); ("EBT_STP_FWDD", hex 0x0800);
    ("EBT_STP_MASK", hex 0x0fff); ("EBT_STP_CONFIG_MASK", hex 0x0ffe)]].
Definition header : header :=
  Header "linux/netfilter_bridge/ebt_stp.h" [] (concat [
    defs_EBT_STP_TYPE]).
End Netfilter_bridge_ebt_stp.

(** ** [linux/netfilter_bridge/ebt_vlan.h] *)

Module Netfilter_bridge_ebt_vlan.
Definition defs_EBT_VLAN_ID : list decl := [
  Defines [
    ("EBT_VLAN_ID", hex 0x01); ("EBT_VLAN_PRIO", hex 0x02); ("EBT_VLAN_ENCAP", hex 0x04);
    ("EBT_VLAN_MASK", Or (Or (Id "EBT_VLAN_ID") (Id "EBT_VLAN_PRIO")) (Id "EBT_VLAN_ENCAP"))]].
Definition header : header :=
  Header "linux/netfilter_bridge/ebt_vlan.h" [] (concat [
    defs_EBT_VLAN_ID]).
End Netfilter_bridge_ebt_vlan.

(** ** [linux/netfilter_bridge/ebtables.h] *)

Module Netfilter_bridge_ebtables.
Definition defs_EBT_TABLE_MAXNAMELEN : list decl := [
  Defines [
    ("EBT_TABLE_MAXNAMELEN", dec 32); ("EBT_CHAIN_MAXNAMELEN", Id "EBT_TABLE_MAXNAMELEN");
    ("EBT_FUNCTION_MAXNAMELEN", Id "EBT_TABLE_MAXNAMELEN"); ("EBT_ACCEPT", Neg (dec 1));
    ("EBT_DROP", Neg (dec 2)); ("EBT_CONTINUE", Neg (dec 3)); ("EBT_RETURN", Neg (dec 4));
    ("NUM_STANDARD_TARGETS", dec 4); ("EBT_VERDICT_BITS", hex 0x0000000F)]].
Definition defs_EBT_ENTRY_OR_ENTRIES : list decl := [
  Defines [
    ("EBT_ENTRY_OR_ENTRIES", hex 0x01); ("EBT_NOPROTO", hex 0x02); ("EBT_802_3", hex 0x04);
    ("EBT_SOURCEMAC", hex 0x08); ("EBT_DESTMAC", hex 0x10);
    ("EBT_F_MASK", Or (Or (Or (Or (Id "EBT_NOPROTO") (Id "EBT_802_3")) (Id "EBT_SOURCEMAC")) (Id "EBT_DESTMAC")) (Id "EBT_ENTRY_OR_ENTRIES"));
    ("EBT_IPROTO", hex 0x01); ("EBT_IIN", hex 0x02); ("EBT_IOUT", hex 0x04);
    ("EBT_ISOURCE", hex 0x8); ("EBT_IDEST", hex 0x10); ("EBT_ILOGICALIN", hex 0x20);
    ("EBT_ILOGICALOUT", hex 0x40);
    ("EBT_INV_MASK", Or (Or (Or (Or (Or (Or (Id "EBT_IPROTO") (Id "EBT_IIN")) (Id "EBT_IOUT")) (Id "EBT_ILOGICALIN")) (Id "EBT_ILOGICALOUT")) (Id "EBT_ISOURCE")) (Id "EBT_IDEST"))]].
Definition defs_EBT_BASE_CTL : list decl := [
  Defines [
    ("EBT_BASE_CTL", dec 128); ("EBT_SO_SET_ENTRIES", Id "EBT_BASE_CTL");
    ("EBT_SO_SET_COUNTERS", Add (Id "EBT_SO_SET_ENTRIES") (dec 1));
    ("EBT_SO_SET_MAX", Add (Id "EBT_SO_SET_COUNTERS") (dec 1));
    ("EBT_SO_GET_INFO", Id "EBT_BASE_CTL");
    ("EBT_SO_GET_ENTRIES", Add (Id "EBT_SO_GET_INFO") (dec 1));
    ("EBT_SO_GET_INIT_INFO", Add (Id "EBT_SO_GET_ENTRIES") (dec 1));
    ("EBT_SO_GET_INIT_ENTRIES", Add (Id "EBT_SO_GET_INIT_INFO") (dec 1));
    ("EBT_SO_GET_MAX", Add (Id "EBT_SO_GET_INIT_ENTRIES") (dec 1))]].
Definition header : header :=
  Header "linux/netfilter_bridge/ebtables.h" [] (concat [
    defs_EBT_TABLE_MAXNAMELEN; defs_EBT_ENTRY_OR_ENTRIES; defs_EBT_BASE_CTL]).
End Netfilter_bridge_ebtables.

(** ** [linux/netfilter_decnet.h] *)

Module Netfilter_decnet.
Definition defs_NFC_DN_SRC : list decl := [
  Defines [
    ("NFC_DN_SRC", hex 0x0001); ("NFC_DN_DST", hex 0x0002); ("NFC_DN_IF_IN", hex 0x0004);
    ("NFC_DN_IF_OUT", hex 0x0008); ("NF_DN_PRE_ROUTING", dec 0); ("NF_DN_LOCAL_IN", dec 1);
    ("NF_DN_FORWARD", dec 2); ("NF_DN_LOCAL_OUT", dec 3); ("NF_DN_POST_ROUTING", dec 4);
    ("NF_DN_HELLO", dec 5); ("NF_DN_ROUTE", dec 6); ("NF_DN_NUMHOOKS", dec 7)]].
Definition enum_DNRNG_NLGRP_NONE : list decl := [
  Enum [
    ("DNRNG_NLGRP_NONE", None); ("DNRNG_NLGRP_L1", None); ("DNRNG_NLGRP_L2", None);
    ("__DNRNG_NLGRP_MAX", None)];
  Defines [
    ("DNRNG_NLGRP_MAX", Sub (Id "__DNRNG_NLGRP_MAX") (dec 1))]].
Definition header : header :=
  Header "linux/netfilter_decnet.h" [] (concat [
    defs_NFC_DN_SRC; enum_DNRNG_NLGRP_NONE]).
End Netfilter_decnet.

(** ** [linux/netfilter_ipv4.h] *)

Module Netfilter_ipv4.
Definition defs_NFC_IP_SRC : list decl := [
  Defines [
    ("NFC_IP_SRC", hex 0x0001); ("NFC_IP_DST", hex 0x0002); ("NFC_IP_IF_IN", hex 0x0004);
    ("NFC_IP_IF_OUT", hex 0x0008); ("NFC_IP_TOS", hex 0x0010); ("NFC_IP_PROTO", hex 0x0020);
    ("NFC_IP_OPTIONS", hex 0x0040); ("NFC_IP_FRAG", hex 0x0080); ("NFC_IP_TCPFLAGS", hex 0x0100);
    ("NFC_IP_SRC_PT", hex 0x0200); ("NFC_IP_DST_PT", hex 0x0400);
    ("NFC_IP_PROTO_UNKNOWN", hex 0x2000); ("NF_IP_PRE_ROUTING", dec 0);
    ("NF_IP_LOCAL_IN", dec 1); ("NF_IP_FORWARD", dec 2); ("NF_IP_LOCAL_OUT", dec 3);
    ("NF_IP_POST_ROUTING", dec 4); ("NF_IP_NUMHOOKS", dec 5)]].
Definition header : header :=
  Header "linux/netfilter_ipv4.h" [] (concat [
    defs_NFC_IP_SRC]).
End Netfilter_ipv4.

(** ** [linux/netfilter_ipv4/ip_tables.h] *)

Module Netfilter_ipv4_ip_tables.
Definition defs_IPT_TCP_INV_SRCPT : list decl := [
  Defines [
    ("IPT_TCP_INV_SRCPT", Id "XT_TCP_INV_SRCPT"); ("IPT_TCP_INV_DSTPT", Id "XT_TCP_INV_DSTPT");
    ("IPT_TCP_INV_FLAGS", Id "XT_TCP_INV_FLAGS"); ("IPT_TCP_INV_OPTION", Id "XT_TCP_INV_OPTION");
    ("IPT_TCP_INV_MASK", Id "XT_TCP_INV_MASK"); ("IPT_UDP_INV_SRCPT", Id "XT_UDP_INV_SRCPT");
    ("IPT_UDP_INV_DSTPT", Id "XT_UDP_INV_DSTPT"); ("IPT_UDP_INV_MASK", Id "XT_UDP_INV_MASK")]].
Definition defs_IPT_F_FRAG : list decl := [
  Defines [
    ("IPT_F_FRAG", hex 0x01); ("IPT_F_GOTO", hex 0x02); ("IPT_F_MASK", hex 0x03);
    ("IPT_INV_VIA_IN", hex 0x01); ("IPT_INV_VIA_OUT", hex 0x02); ("IPT_INV_TOS", hex 0x04);
    ("IPT_INV_SRCIP", hex 0x08); ("IPT_INV_DSTIP", hex 0x10); ("IPT_INV_FRAG", hex 0x20);
    ("IPT_INV_PROTO", Id "XT_INV_PROTO"); ("IPT_INV_MASK", hex 0x7F)]].
Definition defs_IPT_BASE_CTL : list decl := [
  Defines [
    ("IPT_BASE_CTL", dec 64); ("IPT_SO_SET_REPLACE", Id "IPT_BASE_CTL");
    ("IPT_SO_SET_ADD_COUNTERS", Add (Id "IPT_BASE_CTL") (dec 1));
    ("IPT_SO_SET_MAX", Id "IPT_SO_SET_ADD_COUNTERS"); ("IPT_SO_GET_INFO", Id "IPT_BASE_CTL");
    ("IPT_SO_GET_ENTRIES", Add (Id "IPT_BASE_CTL") (dec 1));
    ("IPT_SO_GET_REVISION_MATCH", Add (Id "IPT_BASE_CTL") (dec 2));
    ("IPT_SO_GET_REVISION_TARGET", Add (Id "IPT_BASE_CTL") (dec 3));
    ("IPT_SO_GET_MAX", Id "IPT_SO_GET_REVISION_TARGET")]].
Definition header : header :=
  Header "linux/netfilter_ipv4/ip_tables.h" [Netfilter_x_tables.header; Netfilter_xt_tcpudp.header] (concat [
    defs_IPT_TCP_INV_SRCPT; defs_IPT_F_FRAG; defs_IPT_BASE_CTL]).
End Netfilter_ipv4_ip_tables.

(** ** [linux/netfilter_ipv4/ipt_CLUSTERIP.h] *)

Module Netfilter_ipv4_ipt_CLUSTERIP.
Definition enum_clusterip_hashmode : list decl := [
  Enum [
    ("CLUSTERIP_HASHMODE_SIP", Some (dec 0)); ("CLUSTERIP_HASHMODE_SIP_SPT", None);
    ("CLUSTERIP_HASHMODE_SIP_SPT_DPT", None)];
  Defines [
    ("CLUSTERIP_HASHMODE_MAX", Id "CLUSTERIP_HASHMODE_SIP_SPT_DPT");
    ("CLUSTERIP_MAX_NODES", dec 16); ("CLUSTERIP_FLAG_NEW", hex 0x00000001)]].
Definition header : header :=
  Header "linux/netfilter_ipv4/ipt_CLUSTERIP.h" [] (concat [
    enum_clusterip_hashmode]).
End Netfilter_ipv4_ipt_CLUSTERIP.

(** ** [linux/netfilter_ipv4/ipt_ECN.h] *)

Module Netfilter_ipv4_ipt_ECN.
Definition defs_IPT_ECN_IP_MASK : list decl := [
  Defines [
    ("IPT_ECN_IP_MASK", Not (Id "XT_DSCP_MASK")); ("IPT_ECN_OP_SET_IP", hex 0x01);
    ("IPT_ECN_OP_SET_ECE", hex 0x10); ("IPT_ECN_OP_SET_CWR", hex 0x20);
    ("IPT_ECN_OP_MASK", hex 0xce)]].
Definition header : header :=
  Header "linux/netfilter_ipv4/ipt_ECN.h" [Netfilter_xt_dscp.header] (concat [
    defs_IPT_ECN_IP_MASK]).
End Netfilter_ipv4_ipt_ECN.

(** ** [linux/netfilter_ipv4/ipt_LOG.h] *)

Module Netfilter_ipv4_ipt_LOG.
Definition defs_IPT_LOG_TCPSEQ : list decl := [
  Defines [
    ("IPT_LOG_TCPSEQ", hex 0x01); ("IPT_LOG_TCPOPT", hex 0x02); ("IPT_LOG_IPOPT", hex 0x04);
    ("IPT_LOG_UID", hex 0x08); ("IPT_LOG_NFLOG", hex 0x10); ("IPT_LOG_MACDECODE", hex 0x20);
    ("IPT_LOG_MASK", hex 0x2f)]].
Definition header : header :=
  Header "linux/netfilter_ipv4/ipt_LOG.h" [] (concat [
    defs_IPT_LOG_TCPSEQ]).
End Netfilter_ipv4_ipt_LOG.

(** ** [linux/netfilter_ipv4/ipt_REJECT.h] *)

Module Netfilter_ipv4_ipt_REJECT.
Definition enum_ipt_reject_with : list decl := [
  Enum [
    ("IPT_ICMP_NET_UNREACHABLE", None); ("IPT_ICMP_HOST_UNREACHABLE", None);
    ("IPT_ICMP_PROT_UNREACHABLE", None); ("IPT_ICMP_PORT_UNREACHABLE", None);
    ("IPT_ICMP_ECHOREPLY", None); ("IPT_ICMP_NET_PROHIBITED", None);
    ("IPT_ICMP_HOST_PROHIBITED", None); ("IPT_TCP_RESET", None);
    ("IPT_ICMP_ADMIN_PROHIBITED", None)]].
Definition header : header :=
  Header "linux/netfilter_ipv4/ipt_REJECT.h" [] (concat [
    enum_ipt_reject_with]).
End Netfilter_ipv4_ipt_REJECT.

(** ** [linux/netfilter_ipv4/ipt_TTL.h] *)

Module Netfilter_ipv4_ipt_TTL.
Definition enum_IPT_TTL_SET : list decl := [
  Enum [
    ("IPT_TTL_SET", Some (dec 0)); ("IPT_TTL_INC", None); ("IPT_TTL_DEC", None)];
  Defines [
    ("IPT_TTL_MAXMODE", Id "IPT_TTL_DEC")]].
Definition header : header :=
  Header "linux/netfilter_ipv4/ipt_TTL.h" [] (concat [
    enum_IPT_TTL_SET]).
End Netfilter_ipv4_ipt_TTL.

(** ** [linux/netfilter_ipv4/ipt_ecn.h] *)

Module Netfilter_ipv4_ipt_ecn.
Definition enum_IPT_ECN_IP_MASK : list decl := [
  Enum [
    ("IPT_ECN_IP_MASK", Some (Id "XT_ECN_IP_MASK"));
    ("IPT_ECN_OP_MATCH_IP", Some (Id "XT_ECN_OP_MATCH_IP"));
    ("IPT_ECN_OP_MATCH_ECE", Some (Id "XT_ECN_OP_MATCH_ECE"));
    ("IPT_ECN_OP_MATCH_CWR", Some (Id "XT_ECN_OP_MATCH_CWR"));
    ("IPT_ECN_OP_MATCH_MASK", Some (Id "XT_ECN_OP_MATCH_MASK"))]].
Definition header : header :=
  Header "linux/netfilter_ipv4/ipt_ecn.h" [Netfilter_xt_ecn.header] (concat [
    enum_IPT_ECN_IP_MASK]).
End Netfilter_ipv4_ipt_ecn.

(** ** [linux/netfilter_ipv4/ipt_ttl.h] *)

Module Netfilter_ipv4_ipt_ttl.
Definition enum_IPT_TTL_EQ : list decl := [
  Enum [
    ("IPT_TTL_EQ", Some (dec 0)); ("IPT_TTL_NE", None); ("IPT_TTL_LT", None);
    ("IPT_TTL_GT", None)]].
Definition header : header :=
  Header "linux/netfilter_ipv4/ipt_ttl.h" [] (concat [
    enum_IPT_TTL_EQ]).
End Netfilter_ipv4_ipt_ttl.

(** ** [linux/netfilter_ipv6.h] *)

Module Netfilter_ipv6.
Definition defs_NFC_IP6_SRC : list decl := [
  Defines [
    ("NFC_IP6_SRC", hex 0x0001); ("NFC_IP6_DST", hex 0x0002); ("NFC_IP6_IF_IN", hex 0x0004);
    ("NFC_IP6_IF_OUT", hex 0x0008); ("NFC_IP6_TOS", hex 0x0010); ("NFC_IP6_PROTO", hex 0x0020);
    ("NFC_IP6_OPTIONS", hex 0x0040); ("NFC_IP6_FRAG", hex 0x0080)];
  Defines [
    ("NFC_IP6_TCPFLAGS", hex 0x0100); ("NFC_IP6_SRC_PT", hex 0x0200);
    ("NFC_IP6_DST_PT", hex 0x0400); ("NFC_IP6_PROTO_UNKNOWN", hex 0x2000);
    ("NF_IP6_PRE_ROUTING", dec 0); ("NF_IP6_LOCAL_IN", dec 1); ("NF_IP6_FORWARD", dec 2);
    ("NF_IP6_LOCAL_OUT", dec 3); ("NF_IP6_POST_ROUTING", dec 4); ("NF_IP6_NUMHOOKS", dec 5)]].
Definition header : header :=
  Header "linux/netfilter_ipv6.h" [] (concat [
    defs_NFC_IP6_SRC]).
End Netfilter_ipv6.

(** ** [linux/netfilter_ipv6/ip6_tables.h] *)

Module Netfilter_ipv6_ip6_tables.
Definition defs_IP6T_TCP_INV_SRCPT : list decl := [
  Defines [
    ("IP6T_TCP_INV_SRCPT", Id "XT_TCP_INV_SRCPT"); ("IP6T_TCP_INV_DSTPT", Id "XT_TCP_INV_DSTPT");
    ("IP6T_TCP_INV_FLAGS", Id "XT_TCP_INV_FLAGS");
    ("IP6T_TCP_INV_OPTION", Id "XT_TCP_INV_OPTION"); ("IP6T_TCP_INV_MASK", Id "XT_TCP_INV_MASK");
    ("IP6T_UDP_INV_SRCPT", Id "XT_UDP_INV_SRCPT"); ("IP6T_UDP_INV_DSTPT", Id "XT_UDP_INV_DSTPT");
    ("IP6T_UDP_INV_MASK", Id "XT_UDP_INV_MASK")]].
Definition defs_IP6T_F_PROTO : list decl := [
  Defines [
    ("IP6T_F_PROTO", hex 0x01); ("IP6T_F_TOS", hex 0x02); ("IP6T_F_GOTO", hex 0x04);
    ("IP6T_F_MASK", hex 0x07); ("IP6T_INV_VIA_IN", hex 0x01); ("IP6T_INV_VIA_OUT", hex 0x02);
    ("IP6T_INV_TOS", hex 0x04); ("IP6T_INV_SRCIP", hex 0x08); ("IP6T_INV_DSTIP", hex 0x10);
    ("IP6T_INV_FRAG", hex 0x20); ("IP6T_INV_PROTO", Id "XT_INV_PROTO");
    ("IP6T_INV_MASK", hex 0x7F)]].
Definition defs_IP6T_BASE_CTL : list decl := [
  Defines [
    ("IP6T_BASE_CTL", dec 64); ("IP6T_SO_SET_REPLACE", Id "IP6T_BASE_CTL");
    ("IP6T_SO_SET_ADD_COUNTERS", Add (Id "IP6T_BASE_CTL") (dec 1));
    ("IP6T_SO_SET_MAX", Id "IP6T_SO_SET_ADD_COUNTERS"); ("IP6T_SO_GET_INFO", Id "IP6T_BASE_CTL");
    ("IP6T_SO_GET_ENTRIES", Add (Id "IP6T_BASE_CTL") (dec 1));
    ("IP6T_SO_GET_REVISION_MATCH", Add (Id "IP6T_BASE_CTL") (dec 4));
    ("IP6T_SO_GET_REVISION_TARGET", Add (Id "IP6T_BASE_CTL") (dec 5));
    ("IP6T_SO_GET_MAX", Id "IP6T_SO_GET_REVISION_TARGET"); ("IP6T_SO_ORIGINAL_DST", dec 80)]].
Definition header : header :=
  Header "linux/netfilter_ipv6/ip6_tables.h" [Netfilter_x_tables.header; Netfilter_xt_tcpudp.header] (concat [
    defs_IP6T_TCP_INV_SRCPT; defs_IP6T_F_PROTO; defs_IP6T_BASE_CTL]).
End Netfilter_ipv6_ip6_tables.

(** ** [linux/netfilter_ipv6/ip6t_HL.h] *)

Module Netfilter_ipv6_ip6t_HL.
Definition enum_IP6T_HL_SET : list decl := [
  Enum [
    ("IP6T_HL_SET", Some (dec 0)); ("IP6T_HL_INC", None); ("IP6T_HL_DEC", None)];
  Defines [
    ("IP6T_HL_MAXMODE", Id "IP6T_HL_DEC")]].
Definition header : header :=
  Header "linux/netfilter_ipv6/ip6t_HL.h" [] (concat [
    enum_IP6T_HL_SET]).
End Netfilter_ipv6_ip6t_HL.

(** ** [linux/netfilter_ipv6/ip6t_LOG.h] *)

Module Netfilter_ipv6_ip6t_LOG.
Definition defs_IP6T_LOG_TCPSEQ : list decl := [
  Defines [
    ("IP6T_LOG_TCPSEQ", hex 0x01); ("IP6T_LOG_TCPOPT", hex 0x02); ("IP6T_LOG_IPOPT", hex 0x04);
    ("IP6T_LOG_UID", hex 0x08); ("IP6T_LOG_NFLOG", hex 0x10); ("IP6T_LOG_MACDECODE", hex 0x20);
    ("IP6T_LOG_MASK", hex 0x2f)]].
Definition header : header :=
  Header "linux/netfilter_ipv6/ip6t_LOG.h" [] (concat [
    defs_IP6T_LOG_TCPSEQ]).
End Netfilter_ipv6_ip6t_LOG.

(** ** [linux/netfilter_ipv6/ip6t_REJECT.h] *)

Module Netfilter_ipv6_ip6t_REJECT.
Definition enum_ip6t_reject_with : list decl := [
  Enum [
    ("IP6T_ICMP6_NO_ROUTE", None); ("IP6T_ICMP6_ADM_PROHIBITED", None);
    ("IP6T_ICMP6_NOT_NEIGHBOUR", None); ("IP6T_ICMP6_ADDR_UNREACH", None);
    ("IP6T_ICMP6_PORT_UNREACH", None); ("IP6T_ICMP6_ECHOREPLY", None); ("IP6T_TCP_RESET", None);
    ("IP6T_ICMP6_POLICY_FAIL", None); ("IP6T_ICMP6_REJECT_ROUTE", None)]].
Definition header : header :=
  Header "linux/netfilter_ipv6/ip6t_REJECT.h" [] (concat [
    enum_ip6t_reject_with]).
End Netfilter_ipv6_ip6t_REJECT.

(** ** [linux/netfilter_ipv6/ip6t_ah.h] *)

Module Netfilter_ipv6_ip6t_ah.
Definition defs_IP6T_AH_SPI : list decl := [
  Defines [
    ("IP6T_AH_SPI", hex 0x01); ("IP6T_AH_LEN", hex 0x02); ("IP6T_AH_RES", hex 0x04);
    ("IP6T_AH_INV_SPI", hex 0x01); ("IP6T_AH_INV_LEN", hex 0x02); ("IP6T_AH_INV_MASK", hex 0x03)]].
Definition header : header :=
  Header "linux/netfilter_ipv6/ip6t_ah.h" [] (concat [
    defs_IP6T_AH_SPI]).
End Netfilter_ipv6_ip6t_ah.

(** ** [linux/netfilter_ipv6/ip6t_frag.h] *)

Module Netfilter_ipv6_ip6t_frag.
Definition defs_IP6T_FRAG_IDS : list decl := [
  Defines [
    ("IP6T_FRAG_IDS", hex 0x01); ("IP6T_FRAG_LEN", hex 0x02); ("IP6T_FRAG_RES", hex 0x04);
    ("IP6T_FRAG_FST", hex 0x08); ("IP6T_FRAG_MF", hex 0x10); ("IP6T_FRAG_NMF", hex 0x20);
    ("IP6T_FRAG_INV_IDS", hex 0x01); ("IP6T_FRAG_INV_LEN", hex 0x02);
    ("IP6T_FRAG_INV_MASK", hex 0x03)]].
Definition header : header :=
  Header "linux/netfilter_ipv6/ip6t_frag.h" [] (concat [
    defs_IP6T_FRAG_IDS]).
End Netfilter_ipv6_ip6t_frag.

(** ** [linux/netfilter_ipv6/ip6t_hl.h] *)

Module Netfilter_ipv6_ip6t_hl.
Definition enum_IP6T_HL_EQ : list decl := [
  Enum [
    ("IP6T_HL_EQ", Some (dec 0)); ("IP6T_HL_NE", None); ("IP6T_HL_LT", None);
    ("IP6T_HL_GT", None)]].
Definition header : header :=
  Header "linux/netfilter_ipv6/ip6t_hl.h" [] (concat [
    enum_IP6T_HL_EQ]).
End Netfilter_ipv6_ip6t_hl.

(** ** [linux/netfilter_ipv6/ip6t_ipv6header.h] *)

Module Netfilter_ipv6_ip6t_ipv6header.
Definition defs_MASK_HOPOPTS : list decl := [
  Defines [
    ("MASK_HOPOPTS", dec 128); ("MASK_DSTOPTS", dec 64); ("MASK_ROUTING", dec 32);
    ("MASK_FRAGMENT", dec 16); ("MASK_AH", dec 8); ("MASK_ESP", dec 4); ("MASK_NONE", dec 2);
    ("MASK_PROTO", dec 1)]].
Definition header : header :=
  Header "linux/netfilter_ipv6/ip6t_ipv6header.h" [] (concat [
    defs_MASK_HOPOPTS]).
End Netfilter_ipv6_ip6t_ipv6header.

(** ** [linux/netfilter_ipv6/ip6t_opts.h] *)

Module Netfilter_ipv6_ip6t_opts.
Definition defs_IP6T_OPTS_LEN : list decl := [
  Defines [
    ("IP6T_OPTS_LEN", hex 0x01); ("IP6T_OPTS_OPTS", hex 0x02); ("IP6T_OPTS_NSTRICT", hex 0x04);
    ("IP6T_OPTS_INV_LEN", hex 0x01); ("IP6T_OPTS_INV_MASK", hex 0x01)]].
Definition header : header :=
  Header "linux/netfilter_ipv6/ip6t_opts.h" [] (concat [
    defs_IP6T_OPTS_LEN]).
End Netfilter_ipv6_ip6t_opts.

(** ** [linux/netfilter_ipv6/ip6t_rt.h] *)

Module Netfilter_ipv6_ip6t_rt.
Definition defs_IP6T_RT_TYP : list decl := [
  Defines [
    ("IP6T_RT_TYP", hex 0x01); ("IP6T_RT_SGS", hex 0x02); ("IP6T_RT_LEN", hex 0x04);
    ("IP6T_RT_RES", hex 0x08); ("IP6T_RT_FST_MASK", hex 0x30); ("IP6T_RT_FST", hex 0x10);
    ("IP6T_RT_FST_NSTRICT", hex 0x20); ("IP6T_RT_INV_TYP", hex 0x01);
    ("IP6T_RT_INV_SGS", hex 0x02); ("IP6T_RT_INV_LEN", hex 0x04); ("IP6T_RT_INV_MASK", hex 0x07)]].
Definition header : header :=
  Header "linux/netfilter_ipv6/ip6t_rt.h" [] (concat [
    defs_IP6T_RT_TYP]).
End Netfilter_ipv6_ip6t_rt.

(** ** [linux/nfc.h] *)

Module Nfc.
Definition enum_nfc_commands : list decl := [
  Enum [
    ("NFC_CMD_UNSPEC", None); ("NFC_CMD_GET_DEVICE", None); ("NFC_CMD_DEV_UP", None);
    ("NFC_CMD_DEV_DOWN", None); ("NFC_CMD_DEP_LINK_UP", None); ("NFC_CMD_DEP_LINK_DOWN", None);
    ("NFC_CMD_START_POLL", None); ("NFC_CMD_STOP_POLL", None); ("NFC_CMD_GET_TARGET", None);
    ("NFC_EVENT_TARGETS_FOUND", None); ("NFC_EVENT_DEVICE_ADDED", None);
    ("NFC_EVENT_DEVICE_REMOVED", None); ("NFC_EVENT_TARGET_LOST", None);
    ("NFC_EVENT_TM_ACTIVATED", None); ("NFC_EVENT_TM_DEACTIVATED", None);
    ("NFC_CMD_LLC_GET_PARAMS", None); ("NFC_CMD_LLC_SET_PARAMS", None);
    ("NFC_CMD_ENABLE_SE", None); ("NFC_CMD_DISABLE_SE", None); ("NFC_CMD_LLC_SDREQ", None);
    ("NFC_EVENT_LLC_SDRES", None); ("NFC_CMD_FW_DOWNLOAD", None); ("NFC_EVENT_SE_ADDED", None);
    ("NFC_EVENT_SE_REMOVED", None); ("NFC_EVENT_SE_CONNECTIVITY", None);
    ("NFC_EVENT_SE_TRANSACTION", None); ("NFC_CMD_GET_SE", None); ("NFC_CMD_SE_IO", None);
    ("NFC_CMD_ACTIVATE_TARGET", None); ("NFC_CMD_VENDOR", None); ("__NFC_CMD_AFTER_LAST", None)];
  Defines [
    ("NFC_CMD_MAX", Sub (Id "__NFC_CMD_AFTER_LAST") (dec 1))];
  Enum [
    ("NFC_ATTR_UNSPEC", None); ("NFC_ATTR_DEVICE_INDEX", None); ("NFC_ATTR_DEVICE_NAME", None);
    ("NFC_ATTR_PROTOCOLS", None); ("NFC_ATTR_TARGET_INDEX", None);
    ("NFC_ATTR_TARGET_SENS_RES", None); ("NFC_ATTR_TARGET_SEL_RES", None);
    ("NFC_ATTR_TARGET_NFCID1", None); ("NFC_ATTR_TARGET_SENSB_RES", None);
    ("NFC_ATTR_TARGET_SENSF_RES", None); ("NFC_ATTR_COMM_MODE", None);
    ("NFC_ATTR_RF_MODE", None); ("NFC_ATTR_DEVICE_POWERED", None);
    ("NFC_ATTR_IM_PROTOCOLS", None); ("NFC_ATTR_TM_PROTOCOLS", None);
    ("NFC_ATTR_LLC_PARAM_LTO", None); ("NFC_ATTR_LLC_PARAM_RW", None);
    ("NFC_ATTR_LLC_PARAM_MIUX", None); ("NFC_ATTR_SE", None); ("NFC_ATTR_LLC_SDP", None);
    ("NFC_ATTR_FIRMWARE_NAME", None); ("NFC_ATTR_SE_INDEX", None); ("NFC_ATTR_SE_TYPE", None);
    ("NFC_ATTR_SE_AID", None); ("NFC_ATTR_FIRMWARE_DOWNLOAD_STATUS", None);
    ("NFC_ATTR_SE_APDU", None); ("NFC_ATTR_TARGET_ISO15693_DSFID", None);
    ("NFC_ATTR_TARGET_ISO15693_UID", None); ("NFC_ATTR_SE_PARAMS", None);
    ("NFC_ATTR_VENDOR_ID", None); ("NFC_ATTR_VENDOR_SUBCMD", None);
    ("NFC_ATTR_VENDOR_DATA", None); ("__NFC_ATTR_AFTER_LAST", None)];
  Defines [
    ("NFC_ATTR_MAX", Sub (Id "__NFC_ATTR_AFTER_LAST") (dec 1))];
  Enum [
    ("NFC_SDP_ATTR_UNSPEC", None); ("NFC_SDP_ATTR_URI", None); ("NFC_SDP_ATTR_SAP", None);
    ("__NFC_SDP_ATTR_AFTER_LAST", None)]].
Definition defs_NFC_SDP_ATTR_MAX : list decl := [
  Defines [
    ("NFC_SDP_ATTR_MAX", Sub (Id "__NFC_SDP_ATTR_AFTER_LAST") (dec 1));
    ("NFC_DEVICE_NAME_MAXSIZE", dec 8); ("NFC_NFCID1_MAXSIZE", dec 10);
    ("NFC_NFCID2_MAXSIZE", dec 8); ("NFC_NFCID3_MAXSIZE", dec 10);
    ("NFC_SENSB_RES_MAXSIZE", dec 12); ("NFC_SENSF_RES_MAXSIZE", dec 18);
    ("NFC_ATR_REQ_MAXSIZE", dec 64); ("NFC_ATR_RES_MAXSIZE", dec 64);
    ("NFC_ATR_REQ_GB_MAXSIZE", dec 48); ("NFC_ATR_RES_GB_MAXSIZE", dec 47);
    ("NFC_GB_MAXSIZE", dec 48); ("NFC_FIRMWARE_NAME_MAXSIZE", dec 32);
    ("NFC_ISO15693_UID_MAXSIZE", dec 8); ("NFC_PROTO_JEWEL", dec 1); ("NFC_PROTO_MIFARE", dec 2);
    ("NFC_PROTO_FELICA", dec 3); ("NFC_PROTO_ISO14443", dec 4); ("NFC_PROTO_NFC_DEP", dec 5);
    ("NFC_PROTO_ISO14443_B", dec 6); ("NFC_PROTO_ISO15693", dec 7); ("NFC_PROTO_MAX", dec 8);
    ("NFC_COMM_ACTIVE", dec 0); ("NFC_COMM_PASSIVE", dec 1); ("NFC_RF_INITIATOR", dec 0);
    ("NFC_RF_TARGET", dec 1); ("NFC_RF_NONE", dec 2);
    ("NFC_PROTO_JEWEL_MASK", Shl (dec 1) (Id "NFC_PROTO_JEWEL"));
    ("NFC_PROTO_MIFARE_MASK", Shl (dec 1) (Id "NFC_PROTO_MIFARE"));
    ("NFC_PROTO_FELICA_MASK", Shl (dec 1) (Id "NFC_PROTO_FELICA"));
    ("NFC_PROTO_ISO14443_MASK", Shl (dec 1) (Id "NFC_PROTO_ISO14443"));
    ("NFC_PROTO_NFC_DEP_MASK", Shl (dec 1) (Id "NFC_PROTO_NFC_DEP"));
    ("NFC_PROTO_ISO14443_B_MASK", Shl (dec 1) (Id "NFC_PROTO_ISO14443_B"));
    ("NFC_PROTO_ISO15693_MASK", Shl (dec 1) (Id "NFC_PROTO_ISO15693")); ("NFC_SE_UICC", hex 0x1);
    ("NFC_SE_EMBEDDED", hex 0x2); ("NFC_SE_DISABLED", hex 0x0); ("NFC_SE_ENABLED", hex 0x1)]].
Definition defs_NFC_SOCKPROTO_RAW : list decl := [
  Defines [
    ("NFC_SOCKPROTO_RAW", dec 0); ("NFC_SOCKPROTO_LLCP", dec 1); ("NFC_SOCKPROTO_MAX", dec 2);
    ("NFC_HEADER_SIZE", dec 1)];
  Defines [
    ("NFC_RAW_HEADER_SIZE", dec 2); ("NFC_DIRECTION_RX", hex 0x00);
    ("NFC_DIRECTION_TX", hex 0x01); ("RAW_PAYLOAD_LLCP", dec 0); ("RAW_PAYLOAD_NCI", dec 1);
    ("RAW_PAYLOAD_HCI", dec 2); ("RAW_PAYLOAD_DIGITAL", dec 3);
    ("RAW_PAYLOAD_PROPRIETARY", dec 4); ("NFC_LLCP_RW", dec 0); ("NFC_LLCP_MIUX", dec 1);
    ("NFC_LLCP_REMOTE_MIU", dec 2); ("NFC_LLCP_REMOTE_LTO", dec 3); ("NFC_LLCP_REMOTE_RW", dec 4)]].
Definition header : header :=
  Header "linux/nfc.h" [] (concat [
    enum_nfc_commands; defs_NFC_SDP_ATTR_MAX; defs_NFC_SOCKPROTO_RAW]).
End Nfc.

(** ** [linux/nl80211.h] *)

Module Nl80211.
Definition enum_nl80211_commands_1 : enumeration := [
    ("NL80211_CMD_UNSPEC", None); ("NL80211_CMD_GET_WIPHY", None);
    ("NL80211_CMD_SET_WIPHY", None); ("NL80211_CMD_NEW_WIPHY", None);
    ("NL80211_CMD_DEL_WIPHY", None); ("NL80211_CMD_GET_INTERFACE", None);
    ("NL80211_CMD_SET_INTERFACE", None); ("NL80211_CMD_NEW_INTERFACE", None);
    ("NL80211_CMD_DEL_INTERFACE", None); ("NL80211_CMD_GET_KEY", None);
    ("NL80211_CMD_SET_KEY", None); ("NL80211_CMD_NEW_KEY", None); ("NL80211_CMD_DEL_KEY", None);
    ("NL80211_CMD_GET_BEACON", None); ("NL80211_CMD_SET_BEACON", None);
    ("NL80211_CMD_START_AP", None); ("NL80211_CMD_NEW_BEACON", Some (Id "NL80211_CMD_START_AP"));
    ("NL80211_CMD_STOP_AP", None); ("NL80211_CMD_DEL_BEACON", Some (Id "NL80211_CMD_STOP_AP"));
    ("NL80211_CMD_GET_STATION", None); ("NL80211_CMD_SET_STATION", None);
    ("NL80211_CMD_NEW_STATION", None); ("NL80211_CMD_DEL_STATION", None);
    ("NL80211_CMD_GET_MPATH", None); ("NL80211_CMD_SET_MPATH", None);
    ("NL80211_CMD_NEW_MPATH", None); ("NL80211_CMD_DEL_MPATH", None);
    ("NL80211_CMD_SET_BSS", None); ("NL80211_CMD_SET_REG", None);
    ("NL80211_CMD_REQ_SET_REG", None); ("NL80211_CMD_GET_MESH_CONFIG", None);
    ("NL80211_CMD_SET_MESH_CONFIG", None); ("NL80211_CMD_SET_MGMT_EXTRA_IE", None);
    ("NL80211_CMD_GET_REG", None); ("NL80211_CMD_GET_SCAN", None);
    ("NL80211_CMD_TRIGGER_SCAN", None); ("NL80211_CMD_NEW_SCAN_RESULTS", None);
    ("NL80211_CMD_SCAN_ABORTED", None); ("NL80211_CMD_REG_CHANGE", None);
    ("NL80211_CMD_AUTHENTICATE", None); ("NL80211_CMD_ASSOCIATE", None);
    ("NL80211_CMD_DEAUTHENTICATE", None); ("NL80211_CMD_DISASSOCIATE", None);
    ("NL80211_CMD_MICHAEL_MIC_FAILURE", None); ("NL80211_CMD_REG_BEACON_HINT", None);
    ("NL80211_CMD_JOIN_IBSS", None); ("NL80211_CMD_LEAVE_IBSS", None);
    ("NL80211_CMD_TESTMODE", None); ("NL80211_CMD_CONNECT", None); ("NL80211_CMD_ROAM", None);
    ("NL80211_CMD_DISCONNECT", None); ("NL80211_CMD_SET_WIPHY_NETNS", None);
    ("NL80211_CMD_GET_SURVEY", None); ("NL80211_CMD_NEW_SURVEY_RESULTS", None);
    ("NL80211_CMD_SET_PMKSA", None); ("NL80211_CMD_DEL_PMKSA", None);
    ("NL80211_CMD_FLUSH_PMKSA", None); ("NL80211_CMD_REMAIN_ON_CHANNEL", None);
    ("NL80211_CMD_CANCEL_REMAIN_ON_CHANNEL", None); ("NL80211_CMD_SET_TX_BITRATE_MASK", None);
    ("NL80211_CMD_REGISTER_FRAME", None);
    ("NL80211_CMD_REGISTER_ACTION", Some (Id "NL80211_CMD_REGISTER_FRAME"));
    ("NL80211_CMD_FRAME", None); ("NL80211_CMD_ACTION", Some (Id "NL80211_CMD_FRAME"));
    ("NL80211_CMD_FRAME_TX_STATUS", None);
    ("NL80211_CMD_ACTION_TX_STATUS", Some (Id "NL80211_CMD_FRAME_TX_STATUS"));
    ("NL80211_CMD_SET_POWER_SAVE", None); ("NL80211_CMD_GET_POWER_SAVE", None);
    ("NL80211_CMD_SET_CQM", None); ("NL80211_CMD_NOTIFY_CQM", None);
    ("NL80211_CMD_SET_CHANNEL", None); ("NL80211_CMD_SET_WDS_PEER", None);
    ("NL80211_CMD_FRAME_WAIT_CANCEL", None); ("NL80211_CMD_JOIN_MESH", None);
    ("NL80211_CMD_LEAVE_MESH", None); ("NL80211_CMD_UNPROT_DEAUTHENTICATE", None);
    ("NL80211_CMD_UNPROT_DISASSOCIATE", None); ("NL80211_CMD_NEW_PEER_CANDIDATE", None);
    ("NL80211_CMD_GET_WOWLAN", None); ("NL80211_CMD_SET_WOWLAN", None);
    ("NL80211_CMD_START_SCHED_SCAN", None); ("NL80211_CMD_STOP_SCHED_SCAN", None);
    ("NL80211_CMD_SCHED_SCAN_RESULTS", None); ("NL80211_CMD_SCHED_SCAN_STOPPED", None);
    ("NL80211_CMD_SET_REKEY_OFFLOAD", None); ("NL80211_CMD_PMKSA_CANDIDATE", None);
    ("NL80211_CMD_TDLS_OPER", None); ("NL80211_CMD_TDLS_MGMT", None);
    ("NL80211_CMD_UNEXPECTED_FRAME", None); ("NL80211_CMD_PROBE_CLIENT", None);
    ("NL80211_CMD_REGISTER_BEACONS", None); ("NL80211_CMD_UNEXPECTED_4ADDR_FRAME", None);
    ("NL80211_CMD_SET_NOACK_MAP", None); ("NL80211_CMD_CH_SWITCH_NOTIFY", None);
    ("NL80211_CMD_START_P2P_DEVICE", None); ("NL80211_CMD_STOP_P2P_DEVICE", None);
    ("NL80211_CMD_CONN_FAILED", None); ("NL80211_CMD_SET_MCAST_RATE", None);
    ("NL80211_CMD_SET_MAC_ACL", None); ("NL80211_CMD_RADAR_DETECT", None)].
Definition enum_nl80211_commands_2 : enumeration := [
    ("NL80211_CMD_GET_PROTOCOL_FEATURES", None); ("NL80211_CMD_UPDATE_FT_IES", None);
    ("NL80211_CMD_FT_EVENT", None); ("NL80211_CMD_CRIT_PROTOCOL_START", None);
    ("NL80211_CMD_CRIT_PROTOCOL_STOP", None); ("NL80211_CMD_GET_COALESCE", None);
    ("NL80211_CMD_SET_COALESCE", None); ("NL80211_CMD_CHANNEL_SWITCH", None);
    ("NL80211_CMD_VENDOR", None); ("NL80211_CMD_SET_QOS_MAP", None);
    ("NL80211_CMD_ADD_TX_TS", None); ("NL80211_CMD_DEL_TX_TS", None);
    ("NL80211_CMD_GET_MPP", None); ("NL80211_CMD_JOIN_OCB", None);
    ("NL80211_CMD_LEAVE_OCB", None); ("NL80211_CMD_CH_SWITCH_STARTED_NOTIFY", None);
    ("NL80211_CMD_TDLS_CHANNEL_SWITCH", None); ("NL80211_CMD_TDLS_CANCEL_CHANNEL_SWITCH", None);
    ("NL80211_CMD_WIPHY_REG_CHANGE", None); ("NL80211_CMD_ABORT_SCAN", None);
    ("NL80211_CMD_START_NAN", None); ("NL80211_CMD_STOP_NAN", None);
    ("NL80211_CMD_ADD_NAN_FUNCTION", None); ("NL80211_CMD_DEL_NAN_FUNCTION", None);
    ("NL80211_CMD_CHANGE_NAN_CONFIG", None); ("NL80211_CMD_NAN_MATCH", None);
    ("NL80211_CMD_SET_MULTICAST_TO_UNICAST", None); ("NL80211_CMD_UPDATE_CONNECT_PARAMS", None);
    ("NL80211_CMD_SET_PMK", None); ("NL80211_CMD_DEL_PMK", None);
    ("NL80211_CMD_PORT_AUTHORIZED", None); ("NL80211_CMD_RELOAD_REGDB", None);
    ("NL80211_CMD_EXTERNAL_AUTH", None); ("NL80211_CMD_STA_OPMODE_CHANGED", None);
    ("NL80211_CMD_CONTROL_PORT_FRAME", None); ("NL80211_CMD_GET_FTM_RESPONDER_STATS", None);
    ("NL80211_CMD_PEER_MEASUREMENT_START", None); ("NL80211_CMD_PEER_MEASUREMENT_RESULT", None);
    ("NL80211_CMD_PEER_MEASUREMENT_COMPLETE", None); ("NL80211_CMD_NOTIFY_RADAR", None);
    ("NL80211_CMD_UPDATE_OWE_INFO", None); ("__NL80211_CMD_AFTER_LAST", None);
    ("NL80211_CMD_MAX", Some (Sub (Id "__NL80211_CMD_AFTER_LAST") (dec 1)))].
Definition enum_nl80211_commands : list decl := [Enum (enum_nl80211_commands_1 ++ enum_nl80211_commands_2)%list].
Definition enum_nl80211_attrs_1 : enumeration := [
    ("NL80211_ATTR_UNSPEC", None); ("NL80211_ATTR_WIPHY", None);
    ("NL80211_ATTR_WIPHY_NAME", None); ("NL80211_ATTR_IFINDEX", None);
    ("NL80211_ATTR_IFNAME", None); ("NL80211_ATTR_IFTYPE", None); ("NL80211_ATTR_MAC", None);
    ("NL80211_ATTR_KEY_DATA", None); ("NL80211_ATTR_KEY_IDX", None);
    ("NL80211_ATTR_KEY_CIPHER", None); ("NL80211_ATTR_KEY_SEQ", None);
    ("NL80211_ATTR_KEY_DEFAULT", None); ("NL80211_ATTR_BEACON_INTERVAL", None);
    ("NL80211_ATTR_DTIM_PERIOD", None); ("NL80211_ATTR_BEACON_HEAD", None);
    ("NL80211_ATTR_BEACON_TAIL", None); ("NL80211_ATTR_STA_AID", None);
    ("NL80211_ATTR_STA_FLAGS", None); ("NL80211_ATTR_STA_LISTEN_INTERVAL", None);
    ("NL80211_ATTR_STA_SUPPORTED_RATES", None); ("NL80211_ATTR_STA_VLAN", None);
    ("NL80211_ATTR_STA_INFO", None); ("NL80211_ATTR_WIPHY_BANDS", None);
    ("NL80211_ATTR_MNTR_FLAGS", None); ("NL80211_ATTR_MESH_ID", None);
    ("NL80211_ATTR_STA_PLINK_ACTION", None); ("NL80211_ATTR_MPATH_NEXT_HOP", None);
    ("NL80211_ATTR_MPATH_INFO", None); ("NL80211_ATTR_BSS_CTS_PROT", None);
    ("NL80211_ATTR_BSS_SHORT_PREAMBLE", None); ("NL80211_ATTR_BSS_SHORT_SLOT_TIME", None);
    ("NL80211_ATTR_HT_CAPABILITY", None); ("NL80211_ATTR_SUPPORTED_IFTYPES", None);
    ("NL80211_ATTR_REG_ALPHA2", None); ("NL80211_ATTR_REG_RULES", None);
    ("NL80211_ATTR_MESH_CONFIG", None); ("NL80211_ATTR_BSS_BASIC_RATES", None);
    ("NL80211_ATTR_WIPHY_TXQ_PARAMS", None); ("NL80211_ATTR_WIPHY_FREQ", None);
    ("NL80211_ATTR_WIPHY_CHANNEL_TYPE", None); ("NL80211_ATTR_KEY_DEFAULT_MGMT", None);
    ("NL80211_ATTR_MGMT_SUBTYPE", None); ("NL80211_ATTR_IE", None);
    ("NL80211_ATTR_MAX_NUM_SCAN_SSIDS", None); ("NL80211_ATTR_SCAN_FREQUENCIES", None);
    ("NL80211_ATTR_SCAN_SSIDS", None); ("NL80211_ATTR_GENERATION", None);
    ("NL80211_ATTR_BSS", None); ("NL80211_ATTR_REG_INITIATOR", None);
    ("NL80211_ATTR_REG_TYPE", None); ("NL80211_ATTR_SUPPORTED_COMMANDS", None);
    ("NL80211_ATTR_FRAME", None); ("NL80211_ATTR_SSID", None); ("NL80211_ATTR_AUTH_TYPE", None);
    ("NL80211_ATTR_REASON_CODE", None); ("NL80211_ATTR_KEY_TYPE", None);
    ("NL80211_ATTR_MAX_SCAN_IE_LEN", None); ("NL80211_ATTR_CIPHER_SUITES", None);
    ("NL80211_ATTR_FREQ_BEFORE", None); ("NL80211_ATTR_FREQ_AFTER", None);
    ("NL80211_ATTR_FREQ_FIXED", None); ("NL80211_ATTR_WIPHY_RETRY_SHORT", None);
    ("NL80211_ATTR_WIPHY_RETRY_LONG", None); ("NL80211_ATTR_WIPHY_FRAG_THRESHOLD", None);
    ("NL80211_ATTR_WIPHY_RTS_THRESHOLD", None); ("NL80211_ATTR_TIMED_OUT", None);
    ("NL80211_ATTR_USE_MFP", None); ("NL80211_ATTR_STA_FLAGS2", None);
    ("NL80211_ATTR_CONTROL_PORT", None); ("NL80211_ATTR_TESTDATA", None);
    ("NL80211_ATTR_PRIVACY", None); ("NL80211_ATTR_DISCONNECTED_BY_AP", None);
    ("NL80211_ATTR_STATUS_CODE", None); ("NL80211_ATTR_CIPHER_SUITES_PAIRWISE", None);
    ("NL80211_ATTR_CIPHER_SUITE_GROUP", None); ("NL80211_ATTR_WPA_VERSIONS", None);
    ("NL80211_ATTR_AKM_SUITES", None); ("NL80211_ATTR_REQ_IE", None);
    ("NL80211_ATTR_RESP_IE", None); ("NL80211_ATTR_PREV_BSSID", None); ("NL80211_ATTR_KEY", None);
    ("NL80211_ATTR_KEYS", None); ("NL80211_ATTR_PID", None); ("NL80211_ATTR_4ADDR", None);
    ("NL80211_ATTR_SURVEY_INFO", None); ("NL80211_ATTR_PMKID", None);
    ("NL80211_ATTR_MAX_NUM_PMKIDS", None); ("NL80211_ATTR_DURATION", None);
    ("NL80211_ATTR_COOKIE", None); ("NL80211_ATTR_WIPHY_COVERAGE_CLASS", None);
    ("NL80211_ATTR_TX_RATES", None); ("NL80211_ATTR_FRAME_MATCH", None);
    ("NL80211_ATTR_ACK", None); ("NL80211_ATTR_PS_STATE", None); ("NL80211_ATTR_CQM", None)].
Definition enum_nl80211_attrs_2 : enumeration := [
    ("NL80211_ATTR_LOCAL_STATE_CHANGE", None); ("NL80211_ATTR_AP_ISOLATE", None);
    ("NL80211_ATTR_WIPHY_TX_POWER_SETTING", None); ("NL80211_ATTR_WIPHY_TX_POWER_LEVEL", None);
    ("NL80211_ATTR_TX_FRAME_TYPES", None); ("NL80211_ATTR_RX_FRAME_TYPES", None);
    ("NL80211_ATTR_FRAME_TYPE", None); ("NL80211_ATTR_CONTROL_PORT_ETHERTYPE", None);
    ("NL80211_ATTR_CONTROL_PORT_NO_ENCRYPT", None); ("NL80211_ATTR_SUPPORT_IBSS_RSN", None);
    ("NL80211_ATTR_WIPHY_ANTENNA_TX", None); ("NL80211_ATTR_WIPHY_ANTENNA_RX", None);
    ("NL80211_ATTR_MCAST_RATE", None); ("NL80211_ATTR_OFFCHANNEL_TX_OK", None);
    ("NL80211_ATTR_BSS_HT_OPMODE", None); ("NL80211_ATTR_KEY_DEFAULT_TYPES", None);
    ("NL80211_ATTR_MAX_REMAIN_ON_CHANNEL_DURATION", None); ("NL80211_ATTR_MESH_SETUP", None);
    ("NL80211_ATTR_WIPHY_ANTENNA_AVAIL_TX", None); ("NL80211_ATTR_WIPHY_ANTENNA_AVAIL_RX", None);
    ("NL80211_ATTR_SUPPORT_MESH_AUTH", None); ("NL80211_ATTR_STA_PLINK_STATE", None);
    ("NL80211_ATTR_WOWLAN_TRIGGERS", None); ("NL80211_ATTR_WOWLAN_TRIGGERS_SUPPORTED", None);
    ("NL80211_ATTR_SCHED_SCAN_INTERVAL", None); ("NL80211_ATTR_INTERFACE_COMBINATIONS", None);
    ("NL80211_ATTR_SOFTWARE_IFTYPES", None); ("NL80211_ATTR_REKEY_DATA", None);
    ("NL80211_ATTR_MAX_NUM_SCHED_SCAN_SSIDS", None); ("NL80211_ATTR_MAX_SCHED_SCAN_IE_LEN", None);
    ("NL80211_ATTR_SCAN_SUPP_RATES", None); ("NL80211_ATTR_HIDDEN_SSID", None);
    ("NL80211_ATTR_IE_PROBE_RESP", None); ("NL80211_ATTR_IE_ASSOC_RESP", None);
    ("NL80211_ATTR_STA_WME", None); ("NL80211_ATTR_SUPPORT_AP_UAPSD", None);
    ("NL80211_ATTR_ROAM_SUPPORT", None); ("NL80211_ATTR_SCHED_SCAN_MATCH", None);
    ("NL80211_ATTR_MAX_MATCH_SETS", None); ("NL80211_ATTR_PMKSA_CANDIDATE", None);
    ("NL80211_ATTR_TX_NO_CCK_RATE", None); ("NL80211_ATTR_TDLS_ACTION", None);
    ("NL80211_ATTR_TDLS_DIALOG_TOKEN", None); ("NL80211_ATTR_TDLS_OPERATION", None);
    ("NL80211_ATTR_TDLS_SUPPORT", None); ("NL80211_ATTR_TDLS_EXTERNAL_SETUP", None);
    ("NL80211_ATTR_DEVICE_AP_SME", None); ("NL80211_ATTR_DONT_WAIT_FOR_ACK", None);
    ("NL80211_ATTR_FEATURE_FLAGS", None); ("NL80211_ATTR_PROBE_RESP_OFFLOAD", None);
    ("NL80211_ATTR_PROBE_RESP", None); ("NL80211_ATTR_DFS_REGION", None);
    ("NL80211_ATTR_DISABLE_HT", None); ("NL80211_ATTR_HT_CAPABILITY_MASK", None);
    ("NL80211_ATTR_NOACK_MAP", None); ("NL80211_ATTR_INACTIVITY_TIMEOUT", None);
    ("NL80211_ATTR_RX_SIGNAL_DBM", None); ("NL80211_ATTR_BG_SCAN_PERIOD", None);
    ("NL80211_ATTR_WDEV", None); ("NL80211_ATTR_USER_REG_HINT_TYPE", None);
    ("NL80211_ATTR_CONN_FAILED_REASON", None); ("NL80211_ATTR_AUTH_DATA", None);
    ("NL80211_ATTR_VHT_CAPABILITY", None); ("NL80211_ATTR_SCAN_FLAGS", None);
    ("NL80211_ATTR_CHANNEL_WIDTH", None); ("NL80211_ATTR_CENTER_FREQ1", None);
    ("NL80211_ATTR_CENTER_FREQ2", None); ("NL80211_ATTR_P2P_CTWINDOW", None);
    ("NL80211_ATTR_P2P_OPPPS", None); ("NL80211_ATTR_LOCAL_MESH_POWER_MODE", None);
    ("NL80211_ATTR_ACL_POLICY", None); ("NL80211_ATTR_MAC_ADDRS", None);
    ("NL80211_ATTR_MAC_ACL_MAX", None); ("NL80211_ATTR_RADAR_EVENT", None);
    ("NL80211_ATTR_EXT_CAPA", None); ("NL80211_ATTR_EXT_CAPA_MASK", None);
    ("NL80211_ATTR_STA_CAPABILITY", None); ("NL80211_ATTR_STA_EXT_CAPABILITY", None);
    ("NL80211_ATTR_PROTOCOL_FEATURES", None); ("NL80211_ATTR_SPLIT_WIPHY_DUMP", None);
    ("NL80211_ATTR_DISABLE_VHT", None); ("NL80211_ATTR_VHT_CAPABILITY_MASK", None);
    ("NL80211_ATTR_MDID", None); ("NL80211_ATTR_IE_RIC", None);
    ("NL80211_ATTR_CRIT_PROT_ID", None); ("NL80211_ATTR_MAX_CRIT_PROT_DURATION", None);
    ("NL80211_ATTR_PEER_AID", None); ("NL80211_ATTR_COALESCE_RULE", None)].
Definition enum_nl80211_attrs_3 : enumeration := [
    ("NL80211_ATTR_CH_SWITCH_COUNT", None); ("NL80211_ATTR_CH_SWITCH_BLOCK_TX", None);
    ("NL80211_ATTR_CSA_IES", None); ("NL80211_ATTR_CSA_C_OFF_BEACON", None);
    ("NL80211_ATTR_CSA_C_OFF_PRESP", None); ("NL80211_ATTR_RXMGMT_FLAGS", None);
    ("NL80211_ATTR_STA_SUPPORTED_CHANNELS", None);
    ("NL80211_ATTR_STA_SUPPORTED_OPER_CLASSES", None); ("NL80211_ATTR_HANDLE_DFS", None);
    ("NL80211_ATTR_SUPPORT_5_MHZ", None); ("NL80211_ATTR_SUPPORT_10_MHZ", None);
    ("NL80211_ATTR_OPMODE_NOTIF", None); ("NL80211_ATTR_VENDOR_ID", None);
    ("NL80211_ATTR_VENDOR_SUBCMD", None); ("NL80211_ATTR_VENDOR_DATA", None);
    ("NL80211_ATTR_VENDOR_EVENTS", None); ("NL80211_ATTR_QOS_MAP", None);
    ("NL80211_ATTR_MAC_HINT", None); ("NL80211_ATTR_WIPHY_FREQ_HINT", None);
    ("NL80211_ATTR_MAX_AP_ASSOC_STA", None); ("NL80211_ATTR_TDLS_PEER_CAPABILITY", None);
    ("NL80211_ATTR_SOCKET_OWNER", None); ("NL80211_ATTR_CSA_C_OFFSETS_TX", None);
    ("NL80211_ATTR_MAX_CSA_COUNTERS", None); ("NL80211_ATTR_TDLS_INITIATOR", None);
    ("NL80211_ATTR_USE_RRM", None); ("NL80211_ATTR_WIPHY_DYN_ACK", None);
    ("NL80211_ATTR_TSID", None); ("NL80211_ATTR_USER_PRIO", None);
    ("NL80211_ATTR_ADMITTED_TIME", None); ("NL80211_ATTR_SMPS_MODE", None);
    ("NL80211_ATTR_OPER_CLASS", None); ("NL80211_ATTR_MAC_MASK", None);
    ("NL80211_ATTR_WIPHY_SELF_MANAGED_REG", None); ("NL80211_ATTR_EXT_FEATURES", None);
    ("NL80211_ATTR_SURVEY_RADIO_STATS", None); ("NL80211_ATTR_NETNS_FD", None);
    ("NL80211_ATTR_SCHED_SCAN_DELAY", None); ("NL80211_ATTR_REG_INDOOR", None);
    ("NL80211_ATTR_MAX_NUM_SCHED_SCAN_PLANS", None);
    ("NL80211_ATTR_MAX_SCAN_PLAN_INTERVAL", None);
    ("NL80211_ATTR_MAX_SCAN_PLAN_ITERATIONS", None); ("NL80211_ATTR_SCHED_SCAN_PLANS", None);
    ("NL80211_ATTR_PBSS", None); ("NL80211_ATTR_BSS_SELECT", None);
    ("NL80211_ATTR_STA_SUPPORT_P2P_PS", None); ("NL80211_ATTR_PAD", None);
    ("NL80211_ATTR_IFTYPE_EXT_CAPA", None); ("NL80211_ATTR_MU_MIMO_GROUP_DATA", None);
    ("NL80211_ATTR_MU_MIMO_FOLLOW_MAC_ADDR", None); ("NL80211_ATTR_SCAN_START_TIME_TSF", None);
    ("NL80211_ATTR_SCAN_START_TIME_TSF_BSSID", None); ("NL80211_ATTR_MEASUREMENT_DURATION", None);
    ("NL80211_ATTR_MEASUREMENT_DURATION_MANDATORY", None); ("NL80211_ATTR_MESH_PEER_AID", None);
    ("NL80211_ATTR_NAN_MASTER_PREF", None); ("NL80211_ATTR_NAN_DUAL", None);
    ("NL80211_ATTR_NAN_FUNC", None); ("NL80211_ATTR_NAN_MATCH", None);
    ("NL80211_ATTR_FILS_KEK", None); ("NL80211_ATTR_FILS_NONCES", None);
    ("NL80211_ATTR_MULTICAST_TO_UNICAST_ENABLED", None); ("NL80211_ATTR_BSSID", None);
    ("NL80211_ATTR_SCHED_SCAN_RELATIVE_RSSI", None);
    ("NL80211_ATTR_SCHED_SCAN_RSSI_ADJUST", None); ("NL80211_ATTR_TIMEOUT_REASON", None);
    ("NL80211_ATTR_FILS_ERP_USERNAME", None); ("NL80211_ATTR_FILS_ERP_REALM", None);
    ("NL80211_ATTR_FILS_ERP_NEXT_SEQ_NUM", None); ("NL80211_ATTR_FILS_ERP_RRK", None);
    ("NL80211_ATTR_FILS_CACHE_ID", None); ("NL80211_ATTR_PMK", None);
    ("NL80211_ATTR_SCHED_SCAN_MULTI", None); ("NL80211_ATTR_SCHED_SCAN_MAX_REQS", None);
    ("NL80211_ATTR_WANT_1X_4WAY_HS", None); ("NL80211_ATTR_PMKR0_NAME", None);
    ("NL80211_ATTR_PORT_AUTHORIZED", None); ("NL80211_ATTR_EXTERNAL_AUTH_ACTION", None);
    ("NL80211_ATTR_EXTERNAL_AUTH_SUPPORT", None); ("__NL80211_ATTR_AFTER_LAST", None);
    ("NUM_NL80211_ATTR", Some (Id "__NL80211_ATTR_AFTER_LAST"));
    ("NL80211_ATTR_MAX", Some (Sub (Id "__NL80211_ATTR_AFTER_LAST") (dec 1)))].
Definition enum_nl80211_attrs : list decl := [Enum (enum_nl80211_attrs_1 ++ enum_nl80211_attrs_2 ++ enum_nl80211_attrs_3)%list].
Definition defs_NL80211_ATTR_SCAN_GENERATION : list decl := [
  Defines [
    ("NL80211_ATTR_SCAN_GENERATION", Id "NL80211_ATTR_GENERATION");
    ("NL80211_ATTR_MESH_PARAMS", Id "NL80211_ATTR_MESH_CONFIG");
    ("NL80211_ATTR_IFACE_SOCKET_OWNER", Id "NL80211_ATTR_SOCKET_OWNER");
    ("NL80211_ATTR_SAE_DATA", Id "NL80211_ATTR_AUTH_DATA")]].
Definition defs_NL80211_WIPHY_NAME_MAXLEN : list decl := [
  Defines [
    ("NL80211_WIPHY_NAME_MAXLEN", dec 64); ("NL80211_MAX_SUPP_RATES", dec 32);
    ("NL80211_MAX_SUPP_HT_RATES", dec 77); ("NL80211_MAX_SUPP_REG_RULES", dec 64);
    ("NL80211_TKIP_DATA_OFFSET_ENCR_KEY", dec 0);
    ("NL80211_TKIP_DATA_OFFSET_TX_MIC_KEY", dec 16);
    ("NL80211_TKIP_DATA_OFFSET_RX_MIC_KEY", dec 24); ("NL80211_HT_CAPABILITY_LEN", dec 26);
    ("NL80211_VHT_CAPABILITY_LEN", dec 12); ("NL80211_MAX_NR_CIPHER_SUITES", dec 5);
    ("NL80211_MAX_NR_AKM_SUITES", dec 2); ("NL80211_MIN_REMAIN_ON_CHANNEL_TIME", dec 10);
    ("NL80211_SCAN_RSSI_THOLD_OFF", Neg (dec 300)); ("NL80211_CQM_TXE_MAX_INTVL", dec 1800)];
  Enum [
    ("NL80211_IFTYPE_UNSPECIFIED", None); ("NL80211_IFTYPE_ADHOC", None);
    ("NL80211_IFTYPE_STATION", None); ("NL80211_IFTYPE_AP", None);
    ("NL80211_IFTYPE_AP_VLAN", None); ("NL80211_IFTYPE_WDS", None);
    ("NL80211_IFTYPE_MONITOR", None); ("NL80211_IFTYPE_MESH_POINT", None);
    ("NL80211_IFTYPE_P2P_CLIENT", None); ("NL80211_IFTYPE_P2P_GO", None);
    ("NL80211_IFTYPE_P2P_DEVICE", None); ("NL80211_IFTYPE_OCB", None);
    ("NUM_NL80211_IFTYPES", None);
    ("NL80211_IFTYPE_MAX", Some (Sub (Id "NUM_NL80211_IFTYPES") (dec 1)))];
  Enum [
    ("__NL80211_STA_FLAG_INVALID", None); ("NL80211_STA_FLAG_AUTHORIZED", None);
    ("NL80211_STA_FLAG_SHORT_PREAMBLE", None); ("NL80211_STA_FLAG_WME", None);
    ("NL80211_STA_FLAG_MFP", None); ("NL80211_STA_FLAG_AUTHENTICATED", None);
    ("NL80211_STA_FLAG_TDLS_PEER", None); ("NL80211_STA_FLAG_ASSOCIATED", None);
    ("__NL80211_STA_FLAG_AFTER_LAST", None);
    ("NL80211_STA_FLAG_MAX", Some (Sub (Id "__NL80211_STA_FLAG_AFTER_LAST") (dec 1)))];
  Defines [
    ("NL80211_STA_FLAG_MAX_OLD_API", Id "NL80211_STA_FLAG_TDLS_PEER")]].
Definition enum_nl80211_rate_info : list decl := [
  Enum [
    ("__NL80211_RATE_INFO_INVALID", None); ("NL80211_RATE_INFO_BITRATE", None);
    ("NL80211_RATE_INFO_MCS", None); ("NL80211_RATE_INFO_40_MHZ_WIDTH", None);
    ("NL80211_RATE_INFO_SHORT_GI", None); ("NL80211_RATE_INFO_BITRATE32", None);
    ("NL80211_RATE_INFO_VHT_MCS", None); ("NL80211_RATE_INFO_VHT_NSS", None);
    ("NL80211_RATE_INFO_80_MHZ_WIDTH", None); ("NL80211_RATE_INFO_80P80_MHZ_WIDTH", None);
    ("NL80211_RATE_INFO_160_MHZ_WIDTH", None); ("NL80211_RATE_INFO_10_MHZ_WIDTH", None);
    ("NL80211_RATE_INFO_5_MHZ_WIDTH", None); ("__NL80211_RATE_INFO_AFTER_LAST", None);
    ("NL80211_RATE_INFO_MAX", Some (Sub (Id "__NL80211_RATE_INFO_AFTER_LAST") (dec 1)))];
  Enum [
    ("__NL80211_STA_BSS_PARAM_INVALID", None); ("NL80211_STA_BSS_PARAM_CTS_PROT", None);
    ("NL80211_STA_BSS_PARAM_SHORT_PREAMBLE", None);
    ("NL80211_STA_BSS_PARAM_SHORT_SLOT_TIME", None); ("NL80211_STA_BSS_PARAM_DTIM_PERIOD", None);
    ("NL80211_STA_BSS_PARAM_BEACON_INTERVAL", None);
    ("__NL80211_STA_BSS_PARAM_AFTER_LAST", None);
    ("NL80211_STA_BSS_PARAM_MAX", Some (Sub (Id "__NL80211_STA_BSS_PARAM_AFTER_LAST") (dec 1)))];
  Enum [
    ("__NL80211_STA_INFO_INVALID", None); ("NL80211_STA_INFO_INACTIVE_TIME", None);
    ("NL80211_STA_INFO_RX_BYTES", None); ("NL80211_STA_INFO_TX_BYTES", None);
    ("NL80211_STA_INFO_LLID", None); ("NL80211_STA_INFO_PLID", None);
    ("NL80211_STA_INFO_PLINK_STATE", None); ("NL80211_STA_INFO_SIGNAL", None);
    ("NL80211_STA_INFO_TX_BITRATE", None); ("NL80211_STA_INFO_RX_PACKETS", None);
    ("NL80211_STA_INFO_TX_PACKETS", None); ("NL80211_STA_INFO_TX_RETRIES", None);
    ("NL80211_STA_INFO_TX_FAILED", None); ("NL80211_STA_INFO_SIGNAL_AVG", None);
    ("NL80211_STA_INFO_RX_BITRATE", None); ("NL80211_STA_INFO_BSS_PARAM", None);
    ("NL80211_STA_INFO_CONNECTED_TIME", None); ("NL80211_STA_INFO_STA_FLAGS", None);
    ("NL80211_STA_INFO_BEACON_LOSS", None); ("NL80211_STA_INFO_T_OFFSET", None);
    ("NL80211_STA_INFO_LOCAL_PM", None); ("NL80211_STA_INFO_PEER_PM", None);
    ("NL80211_STA_INFO_NONPEER_PM", None); ("NL80211_STA_INFO_RX_BYTES64", None);
    ("NL80211_STA_INFO_TX_BYTES64", None); ("NL80211_STA_INFO_CHAIN_SIGNAL", None);
    ("NL80211_STA_INFO_CHAIN_SIGNAL_AVG", None); ("NL80211_STA_INFO_EXPECTED_THROUGHPUT", None);
    ("NL80211_STA_INFO_RX_DROP_MISC", None); ("NL80211_STA_INFO_BEACON_RX", None);
    ("NL80211_STA_INFO_BEACON_SIGNAL_AVG", None); ("NL80211_STA_INFO_TID_STATS", None);
    ("__NL80211_STA_INFO_AFTER_LAST", None);
    ("NL80211_STA_INFO_MAX", Some (Sub (Id "__NL80211_STA_INFO_AFTER_LAST") (dec 1)))]].
Definition enum_nl80211_tid_stats : list decl := [
  Enum [
    ("__NL80211_TID_STATS_INVALID", None); ("NL80211_TID_STATS_RX_MSDU", None);
    ("NL80211_TID_STATS_TX_MSDU", None); ("NL80211_TID_STATS_TX_MSDU_RETRIES", None);
    ("NL80211_TID_STATS_TX_MSDU_FAILED", None); ("NUM_NL80211_TID_STATS", None);
    ("NL80211_TID_STATS_MAX", Some (Sub (Id "NUM_NL80211_TID_STATS") (dec 1)))];
  Enum [
    ("NL80211_MPATH_FLAG_ACTIVE", Some (Shl (dec 1) (dec 0)));
    ("NL80211_MPATH_FLAG_RESOLVING", Some (Shl (dec 1) (dec 1)));
    ("NL80211_MPATH_FLAG_SN_VALID", Some (Shl (dec 1) (dec 2)));
    ("NL80211_MPATH_FLAG_FIXED", Some (Shl (dec 1) (dec 3)));
    ("NL80211_MPATH_FLAG_RESOLVED", Some (Shl (dec 1) (dec 4)))];
  Enum [
    ("__NL80211_MPATH_INFO_INVALID", None); ("NL80211_MPATH_INFO_FRAME_QLEN", None);
    ("NL80211_MPATH_INFO_SN", None); ("NL80211_MPATH_INFO_METRIC", None);
    ("NL80211_MPATH_INFO_EXPTIME", None); ("NL80211_MPATH_INFO_FLAGS", None);
    ("NL80211_MPATH_INFO_DISCOVERY_TIMEOUT", None);
    ("NL80211_MPATH_INFO_DISCOVERY_RETRIES", None); ("__NL80211_MPATH_INFO_AFTER_LAST", None);
    ("NL80211_MPATH_INFO_MAX", Some (Sub (Id "__NL80211_MPATH_INFO_AFTER_LAST") (dec 1)))];
  Enum [
    ("__NL80211_BAND_ATTR_INVALID", None); ("NL80211_BAND_ATTR_FREQS", None);
    ("NL80211_BAND_ATTR_RATES", None); ("NL80211_BAND_ATTR_HT_MCS_SET", None);
    ("NL80211_BAND_ATTR_HT_CAPA", None); ("NL80211_BAND_ATTR_HT_AMPDU_FACTOR", None);
    ("NL80211_BAND_ATTR_HT_AMPDU_DENSITY", None); ("NL80211_BAND_ATTR_VHT_MCS_SET", None);
    ("NL80211_BAND_ATTR_VHT_CAPA", None); ("__NL80211_BAND_ATTR_AFTER_LAST", None);
    ("NL80211_BAND_ATTR_MAX", Some (Sub (Id "__NL80211_BAND_ATTR_AFTER_LAST") (dec 1)))]].
Definition enum_nl80211_frequency_attr : list decl := [
  Enum [
    ("__NL80211_FREQUENCY_ATTR_INVALID", None); ("NL80211_FREQUENCY_ATTR_FREQ", None);
    ("NL80211_FREQUENCY_ATTR_DISABLED", None); ("NL80211_FREQUENCY_ATTR_NO_IR", None);
    ("__NL80211_FREQUENCY_ATTR_NO_IBSS", None); ("NL80211_FREQUENCY_ATTR_RADAR", None);
    ("NL80211_FREQUENCY_ATTR_MAX_TX_POWER", None); ("NL80211_FREQUENCY_ATTR_DFS_STATE", None);
    ("NL80211_FREQUENCY_ATTR_DFS_TIME", None); ("NL80211_FREQUENCY_ATTR_NO_HT40_MINUS", None);
    ("NL80211_FREQUENCY_ATTR_NO_HT40_PLUS", None); ("NL80211_FREQUENCY_ATTR_NO_80MHZ", None);
    ("NL80211_FREQUENCY_ATTR_NO_160MHZ", None); ("NL80211_FREQUENCY_ATTR_DFS_CAC_TIME", None);
    ("NL80211_FREQUENCY_ATTR_INDOOR_ONLY", None); ("NL80211_FREQUENCY_ATTR_IR_CONCURRENT", None);
    ("NL80211_FREQUENCY_ATTR_NO_20MHZ", None); ("NL80211_FREQUENCY_ATTR_NO_10MHZ", None);
    ("__NL80211_FREQUENCY_ATTR_AFTER_LAST", None);
    ("NL80211_FREQUENCY_ATTR_MAX", Some (Sub (Id "__NL80211_FREQUENCY_ATTR_AFTER_LAST") (dec 1)))]].
Definition defs_NL80211_FREQUENCY_ATTR_PASSIVE_SCAN : list decl := [
  Defines [
    ("NL80211_FREQUENCY_ATTR_PASSIVE_SCAN", Id "NL80211_FREQUENCY_ATTR_NO_IR");
    ("NL80211_FREQUENCY_ATTR_NO_IBSS", Id "NL80211_FREQUENCY_ATTR_NO_IR")]].
Definition enum_nl80211_bitrate_attr : list decl := [
  Enum [
    ("__NL80211_BITRATE_ATTR_INVALID", None); ("NL80211_BITRATE_ATTR_RATE", None);
    ("NL80211_BITRATE_ATTR_2GHZ_SHORTPREAMBLE", None);
    ("__NL80211_BITRATE_ATTR_AFTER_LAST", None);
    ("NL80211_BITRATE_ATTR_MAX", Some (Sub (Id "__NL80211_BITRATE_ATTR_AFTER_LAST") (dec 1)))];
  Enum [
    ("NL80211_REGDOM_SET_BY_CORE", None); ("NL80211_REGDOM_SET_BY_USER", None);
    ("NL80211_REGDOM_SET_BY_DRIVER", None); ("NL80211_REGDOM_SET_BY_COUNTRY_IE", None)];
  Enum [
    ("NL80211_REGDOM_TYPE_COUNTRY", None); ("NL80211_REGDOM_TYPE_WORLD", None);
    ("NL80211_REGDOM_TYPE_CUSTOM_WORLD", None); ("NL80211_REGDOM_TYPE_INTERSECTION", None)];
  Enum [
    ("__NL80211_REG_RULE_ATTR_INVALID", None); ("NL80211_ATTR_REG_RULE_FLAGS", None);
    ("NL80211_ATTR_FREQ_RANGE_START", None); ("NL80211_ATTR_FREQ_RANGE_END", None);
    ("NL80211_ATTR_FREQ_RANGE_MAX_BW", None); ("NL80211_ATTR_POWER_RULE_MAX_ANT_GAIN", None);
    ("NL80211_ATTR_POWER_RULE_MAX_EIRP", None); ("NL80211_ATTR_DFS_CAC_TIME", None);
    ("__NL80211_REG_RULE_ATTR_AFTER_LAST", None);
    ("NL80211_REG_RULE_ATTR_MAX", Some (Sub (Id "__NL80211_REG_RULE_ATTR_AFTER_LAST") (dec 1)))];
  Enum [
    ("__NL80211_SCHED_SCAN_MATCH_ATTR_INVALID", None);
    ("NL80211_SCHED_SCAN_MATCH_ATTR_SSID", None); ("NL80211_SCHED_SCAN_MATCH_ATTR_RSSI", None);
    ("NL80211_SCHED_SCAN_MATCH_ATTR_RELATIVE_RSSI", None);
    ("NL80211_SCHED_SCAN_MATCH_ATTR_RSSI_ADJUST", None);
    ("__NL80211_SCHED_SCAN_MATCH_ATTR_AFTER_LAST", None);
    ("NL80211_SCHED_SCAN_MATCH_ATTR_MAX", Some (Sub (Id "__NL80211_SCHED_SCAN_MATCH_ATTR_AFTER_LAST") (dec 1)))];
  Defines [
    ("NL80211_ATTR_SCHED_SCAN_MATCH_SSID", Id "NL80211_SCHED_SCAN_MATCH_ATTR_SSID")]].
Definition enum_nl80211_reg_rule_flags : list decl := [
  Enum [
    ("NL80211_RRF_NO_OFDM", Some (Shl (dec 1) (dec 0)));
    ("NL80211_RRF_NO_CCK", Some (Shl (dec 1) (dec 1)));
    ("NL80211_RRF_NO_INDOOR", Some (Shl (dec 1) (dec 2)));
    ("NL80211_RRF_NO_OUTDOOR", Some (Shl (dec 1) (dec 3)));
    ("NL80211_RRF_DFS", Some (Shl (dec 1) (dec 4)));
    ("NL80211_RRF_PTP_ONLY", Some (Shl (dec 1) (dec 5)));
    ("NL80211_RRF_PTMP_ONLY", Some (Shl (dec 1) (dec 6)));
    ("NL80211_RRF_NO_IR", Some (Shl (dec 1) (dec 7)));
    ("__NL80211_RRF_NO_IBSS", Some (Shl (dec 1) (dec 8)));
    ("NL80211_RRF_AUTO_BW", Some (Shl (dec 1) (dec 11)));
    ("NL80211_RRF_IR_CONCURRENT", Some (Shl (dec 1) (dec 12)));
    ("NL80211_RRF_NO_HT40MINUS", Some (Shl (dec 1) (dec 13)));
    ("NL80211_RRF_NO_HT40PLUS", Some (Shl (dec 1) (dec 14)));
    ("NL80211_RRF_NO_80MHZ", Some (Shl (dec 1) (dec 15)));
    ("NL80211_RRF_NO_160MHZ", Some (Shl (dec 1) (dec 16)))];
  Defines [
    ("NL80211_RRF_PASSIVE_SCAN", Id "NL80211_RRF_NO_IR");
    ("NL80211_RRF_NO_IBSS", Id "NL80211_RRF_NO_IR")]].
Definition enum_nl80211_dfs_regions : list decl := [
  Enum [
    ("NL80211_DFS_UNSET", Some (dec 0)); ("NL80211_DFS_FCC", Some (dec 1));
    ("NL80211_DFS_ETSI", Some (dec 2)); ("NL80211_DFS_JP", Some (dec 3))];
  Enum [
    ("NL80211_USER_REG_HINT_USER", Some (dec 0));
    ("NL80211_USER_REG_HINT_CELL_BASE", Some (dec 1));
    ("NL80211_USER_REG_HINT_INDOOR", Some (dec 2))];
  Enum [
    ("__NL80211_SURVEY_INFO_INVALID", None); ("NL80211_SURVEY_INFO_FREQUENCY", None);
    ("NL80211_SURVEY_INFO_NOISE", None); ("NL80211_SURVEY_INFO_IN_USE", None);
    ("NL80211_SURVEY_INFO_TIME", None); ("NL80211_SURVEY_INFO_TIME_BUSY", None);
    ("NL80211_SURVEY_INFO_TIME_EXT_BUSY", None); ("NL80211_SURVEY_INFO_TIME_RX", None);
    ("NL80211_SURVEY_INFO_TIME_TX", None); ("NL80211_SURVEY_INFO_TIME_SCAN", None);
    ("__NL80211_SURVEY_INFO_AFTER_LAST", None);
    ("NL80211_SURVEY_INFO_MAX", Some (Sub (Id "__NL80211_SURVEY_INFO_AFTER_LAST") (dec 1)))];
  Defines [
    ("NL80211_SURVEY_INFO_CHANNEL_TIME", Id "NL80211_SURVEY_INFO_TIME");
    ("NL80211_SURVEY_INFO_CHANNEL_TIME_BUSY", Id "NL80211_SURVEY_INFO_TIME_BUSY");
    ("NL80211_SURVEY_INFO_CHANNEL_TIME_EXT_BUSY", Id "NL80211_SURVEY_INFO_TIME_EXT_BUSY");
    ("NL80211_SURVEY_INFO_CHANNEL_TIME_RX", Id "NL80211_SURVEY_INFO_TIME_RX");
    ("NL80211_SURVEY_INFO_CHANNEL_TIME_TX", Id "NL80211_SURVEY_INFO_TIME_TX")];
  Enum [
    ("__NL80211_MNTR_FLAG_INVALID", None); ("NL80211_MNTR_FLAG_FCSFAIL", None);
    ("NL80211_MNTR_FLAG_PLCPFAIL", None); ("NL80211_MNTR_FLAG_CONTROL", None);
    ("NL80211_MNTR_FLAG_OTHER_BSS", None); ("NL80211_MNTR_FLAG_COOK_FRAMES", None);
    ("NL80211_MNTR_FLAG_ACTIVE", None); ("__NL80211_MNTR_FLAG_AFTER_LAST", None);
    ("NL80211_MNTR_FLAG_MAX", Some (Sub (Id "__NL80211_MNTR_FLAG_AFTER_LAST") (dec 1)))];
  Enum [
    ("NL80211_MESH_POWER_UNKNOWN", None); ("NL80211_MESH_POWER_ACTIVE", None);
    ("NL80211_MESH_POWER_LIGHT_SLEEP", None); ("NL80211_MESH_POWER_DEEP_SLEEP", None);
    ("__NL80211_MESH_POWER_AFTER_LAST", None);
    ("NL80211_MESH_POWER_MAX", Some (Sub (Id "__NL80211_MESH_POWER_AFTER_LAST") (dec 1)))]].
Definition enum_nl80211_meshconf_params : list decl := [
  Enum [
    ("__NL80211_MESHCONF_INVALID", None); ("NL80211_MESHCONF_RETRY_TIMEOUT", None);
    ("NL80211_MESHCONF_CONFIRM_TIMEOUT", None); ("NL80211_MESHCONF_HOLDING_TIMEOUT", None);
    ("NL80211_MESHCONF_MAX_PEER_LINKS", None); ("NL80211_MESHCONF_MAX_RETRIES", None);
    ("NL80211_MESHCONF_TTL", None); ("NL80211_MESHCONF_AUTO_OPEN_PLINKS", None);
    ("NL80211_MESHCONF_HWMP_MAX_PREQ_RETRIES", None);
    ("NL80211_MESHCONF_PATH_REFRESH_TIME", None);
    ("NL80211_MESHCONF_MIN_DISCOVERY_TIMEOUT", None);
    ("NL80211_MESHCONF_HWMP_ACTIVE_PATH_TIMEOUT", None);
    ("NL80211_MESHCONF_HWMP_PREQ_MIN_INTERVAL", None);
    ("NL80211_MESHCONF_HWMP_NET_DIAM_TRVS_TIME", None); ("NL80211_MESHCONF_HWMP_ROOTMODE", None);
    ("NL80211_MESHCONF_ELEMENT_TTL", None); ("NL80211_MESHCONF_HWMP_RANN_INTERVAL", None);
    ("NL80211_MESHCONF_GATE_ANNOUNCEMENTS", None);
    ("NL80211_MESHCONF_HWMP_PERR_MIN_INTERVAL", None); ("NL80211_MESHCONF_FORWARDING", None);
    ("NL80211_MESHCONF_RSSI_THRESHOLD", None);
    ("NL80211_MESHCONF_SYNC_OFFSET_MAX_NEIGHBOR", None); ("NL80211_MESHCONF_HT_OPMODE", None);
    ("NL80211_MESHCONF_HWMP_PATH_TO_ROOT_TIMEOUT", None);
    ("NL80211_MESHCONF_HWMP_ROOT_INTERVAL", None);
    ("NL80211_MESHCONF_HWMP_CONFIRMATION_INTERVAL", None); ("NL80211_MESHCONF_POWER_MODE", None);
    ("NL80211_MESHCONF_AWAKE_WINDOW", None); ("NL80211_MESHCONF_PLINK_TIMEOUT", None);
    ("__NL80211_MESHCONF_ATTR_AFTER_LAST", None);
    ("NL80211_MESHCONF_ATTR_MAX", Some (Sub (Id "__NL80211_MESHCONF_ATTR_AFTER_LAST") (dec 1)))];
  Enum [
    ("__NL80211_MESH_SETUP_INVALID", None); ("NL80211_MESH_SETUP_ENABLE_VENDOR_PATH_SEL", None);
    ("NL80211_MESH_SETUP_ENABLE_VENDOR_METRIC", None); ("NL80211_MESH_SETUP_IE", None);
    ("NL80211_MESH_SETUP_USERSPACE_AUTH", None); ("NL80211_MESH_SETUP_USERSPACE_AMPE", None);
    ("NL80211_MESH_SETUP_ENABLE_VENDOR_SYNC", None); ("NL80211_MESH_SETUP_USERSPACE_MPM", None);
    ("NL80211_MESH_SETUP_AUTH_PROTOCOL", None); ("__NL80211_MESH_SETUP_ATTR_AFTER_LAST", None);
    ("NL80211_MESH_SETUP_ATTR_MAX", Some (Sub (Id "__NL80211_MESH_SETUP_ATTR_AFTER_LAST") (dec 1)))];
  Enum [
    ("__NL80211_TXQ_ATTR_INVALID", None); ("NL80211_TXQ_ATTR_AC", None);
    ("NL80211_TXQ_ATTR_TXOP", None); ("NL80211_TXQ_ATTR_CWMIN", None);
    ("NL80211_TXQ_ATTR_CWMAX", None); ("NL80211_TXQ_ATTR_AIFS", None);
    ("__NL80211_TXQ_ATTR_AFTER_LAST", None);
    ("NL80211_TXQ_ATTR_MAX", Some (Sub (Id "__NL80211_TXQ_ATTR_AFTER_LAST") (dec 1)))];
  Enum [
    ("NL80211_AC_VO", None); ("NL80211_AC_VI", None); ("NL80211_AC_BE", None);
    ("NL80211_AC_BK", None); ("NL80211_NUM_ACS", None)];
  Defines [
    ("NL80211_TXQ_ATTR_QUEUE", Id "NL80211_TXQ_ATTR_AC");
    ("NL80211_TXQ_Q_VO", Id "NL80211_AC_VO"); ("NL80211_TXQ_Q_VI", Id "NL80211_AC_VI");
    ("NL80211_TXQ_Q_BE", Id "NL80211_AC_BE"); ("NL80211_TXQ_Q_BK", Id "NL80211_AC_BK")]].
Definition enum_nl80211_channel_type : list decl := [
  Enum [
    ("NL80211_CHAN_NO_HT", None); ("NL80211_CHAN_HT20", None); ("NL80211_CHAN_HT40MINUS", None);
    ("NL80211_CHAN_HT40PLUS", None)];
  Enum [
    ("NL80211_CHAN_WIDTH_20_NOHT", None); ("NL80211_CHAN_WIDTH_20", None);
    ("NL80211_CHAN_WIDTH_40", None); ("NL80211_CHAN_WIDTH_80", None);
    ("NL80211_CHAN_WIDTH_80P80", None); ("NL80211_CHAN_WIDTH_160", None);
    ("NL80211_CHAN_WIDTH_5", None); ("NL80211_CHAN_WIDTH_10", None)];
  Enum [
    ("NL80211_BSS_CHAN_WIDTH_20", None); ("NL80211_BSS_CHAN_WIDTH_10", None);
    ("NL80211_BSS_CHAN_WIDTH_5", None)];
  Enum [
    ("__NL80211_BSS_INVALID", None); ("NL80211_BSS_BSSID", None);
    ("NL80211_BSS_FREQUENCY", None); ("NL80211_BSS_TSF", None);
    ("NL80211_BSS_BEACON_INTERVAL", None); ("NL80211_BSS_CAPABILITY", None);
    ("NL80211_BSS_INFORMATION_ELEMENTS", None); ("NL80211_BSS_SIGNAL_MBM", None);
    ("NL80211_BSS_SIGNAL_UNSPEC", None); ("NL80211_BSS_STATUS", None);
    ("NL80211_BSS_SEEN_MS_AGO", None); ("NL80211_BSS_BEACON_IES", None);
    ("NL80211_BSS_CHAN_WIDTH", None); ("NL80211_BSS_BEACON_TSF", None);
    ("NL80211_BSS_PRESP_DATA", None); ("NL80211_BSS_LAST_SEEN_BOOTTIME", None);
    ("__NL80211_BSS_AFTER_LAST", None);
    ("NL80211_BSS_MAX", Some (Sub (Id "__NL80211_BSS_AFTER_LAST") (dec 1)))];
  Enum [
    ("NL80211_BSS_STATUS_AUTHENTICATED", None); ("NL80211_BSS_STATUS_ASSOCIATED", None);
    ("NL80211_BSS_STATUS_IBSS_JOINED", None)]].
Definition enum_nl80211_auth_type : list decl := [
  Enum [
    ("NL80211_AUTHTYPE_OPEN_SYSTEM", None); ("NL80211_AUTHTYPE_SHARED_KEY", None);
    ("NL80211_AUTHTYPE_FT", None); ("NL80211_AUTHTYPE_NETWORK_EAP", None);
    ("NL80211_AUTHTYPE_SAE", None); ("NL80211_AUTHTYPE_FILS_SK", None);
    ("NL80211_AUTHTYPE_FILS_SK_PFS", None); ("NL80211_AUTHTYPE_FILS_PK", None);
    ("__NL80211_AUTHTYPE_NUM", None);
    ("NL80211_AUTHTYPE_MAX", Some (Sub (Id "__NL80211_AUTHTYPE_NUM") (dec 1)));
    ("NL80211_AUTHTYPE_AUTOMATIC", None)];
  Enum [
    ("NL80211_KEYTYPE_GROUP", None); ("NL80211_KEYTYPE_PAIRWISE", None);
    ("NL80211_KEYTYPE_PEERKEY", None); ("NUM_NL80211_KEYTYPES", None)]].
Definition enum_nl80211_key_default_types : list decl := [
  Enum [
    ("__NL80211_KEY_DEFAULT_TYPE_INVALID", None); ("NL80211_KEY_DEFAULT_TYPE_UNICAST", None);
    ("NL80211_KEY_DEFAULT_TYPE_MULTICAST", None); ("NUM_NL80211_KEY_DEFAULT_TYPES", None)];
  Enum [
    ("__NL80211_KEY_INVALID", None); ("NL80211_KEY_DATA", None); ("NL80211_KEY_IDX", None);
    ("NL80211_KEY_CIPHER", None); ("NL80211_KEY_SEQ", None); ("NL80211_KEY_DEFAULT", None);
    ("NL80211_KEY_DEFAULT_MGMT", None); ("NL80211_KEY_TYPE", None);
    ("NL80211_KEY_DEFAULT_TYPES", None); ("__NL80211_KEY_AFTER_LAST", None);
    ("NL80211_KEY_MAX", Some (Sub (Id "__NL80211_KEY_AFTER_LAST") (dec 1)))];
  Enum [
    ("__NL80211_TXRATE_INVALID", None); ("NL80211_TXRATE_LEGACY", None);
    ("NL80211_TXRATE_HT", None); ("NL80211_TXRATE_VHT", None); ("NL80211_TXRATE_GI", None);
    ("__NL80211_TXRATE_AFTER_LAST", None);
    ("NL80211_TXRATE_MAX", Some (Sub (Id "__NL80211_TXRATE_AFTER_LAST") (dec 1)))];
  Defines [
    ("NL80211_TXRATE_MCS", Id "NL80211_TXRATE_HT"); ("NL80211_VHT_NSS_MAX", dec 8)]].
Definition enum_nl80211_txrate_gi : list decl := [
  Enum [
    ("NL80211_TXRATE_DEFAULT_GI", None); ("NL80211_TXRATE_FORCE_SGI", None);
    ("NL80211_TXRATE_FORCE_LGI", None)];
  Enum [
    ("NL80211_BAND_2GHZ", None); ("NL80211_BAND_5GHZ", None); ("NL80211_BAND_60GHZ", None);
    ("NUM_NL80211_BANDS", None)]].
Definition enum_nl80211_attr_cqm : list decl := [
  Enum [
    ("__NL80211_ATTR_CQM_INVALID", None); ("NL80211_ATTR_CQM_RSSI_THOLD", None);
    ("NL80211_ATTR_CQM_RSSI_HYST", None); ("NL80211_ATTR_CQM_RSSI_THRESHOLD_EVENT", None);
    ("NL80211_ATTR_CQM_PKT_LOSS_EVENT", None); ("NL80211_ATTR_CQM_TXE_RATE", None);
    ("NL80211_ATTR_CQM_TXE_PKTS", None); ("NL80211_ATTR_CQM_TXE_INTVL", None);
    ("NL80211_ATTR_CQM_BEACON_LOSS_EVENT", None); ("__NL80211_ATTR_CQM_AFTER_LAST", None);
    ("NL80211_ATTR_CQM_MAX", Some (Sub (Id "__NL80211_ATTR_CQM_AFTER_LAST") (dec 1)))];
  Enum [
    ("NL80211_CQM_RSSI_THRESHOLD_EVENT_LOW", None);
    ("NL80211_CQM_RSSI_THRESHOLD_EVENT_HIGH", None); ("NL80211_CQM_RSSI_BEACON_LOSS_EVENT", None)];
  Enum [
    ("NL80211_TX_POWER_AUTOMATIC", None); ("NL80211_TX_POWER_LIMITED", None);
    ("NL80211_TX_POWER_FIXED", None)];
  Enum [
    ("__NL80211_PKTPAT_INVALID", None); ("NL80211_PKTPAT_MASK", None);
    ("NL80211_PKTPAT_PATTERN", None); ("NL80211_PKTPAT_OFFSET", None);
    ("NUM_NL80211_PKTPAT", None);
    ("MAX_NL80211_PKTPAT", Some (Sub (Id "NUM_NL80211_PKTPAT") (dec 1)))]].
Definition defs___NL80211_WOWLAN_PKTPAT_INVALID : list decl := [
  Defines [
    ("__NL80211_WOWLAN_PKTPAT_INVALID", Id "__NL80211_PKTPAT_INVALID");
    ("NL80211_WOWLAN_PKTPAT_MASK", Id "NL80211_PKTPAT_MASK");
    ("NL80211_WOWLAN_PKTPAT_PATTERN", Id "NL80211_PKTPAT_PATTERN");
    ("NL80211_WOWLAN_PKTPAT_OFFSET", Id "NL80211_PKTPAT_OFFSET");
    ("NUM_NL80211_WOWLAN_PKTPAT", Id "NUM_NL80211_PKTPAT");
    ("MAX_NL80211_WOWLAN_PKTPAT", Id "MAX_NL80211_PKTPAT")]].
Definition enum_nl80211_wowlan_triggers : list decl := [
  Enum [
    ("__NL80211_WOWLAN_TRIG_INVALID", None); ("NL80211_WOWLAN_TRIG_ANY", None);
    ("NL80211_WOWLAN_TRIG_DISCONNECT", None); ("NL80211_WOWLAN_TRIG_MAGIC_PKT", None);
    ("NL80211_WOWLAN_TRIG_PKT_PATTERN", None); ("NL80211_WOWLAN_TRIG_GTK_REKEY_SUPPORTED", None);
    ("NL80211_WOWLAN_TRIG_GTK_REKEY_FAILURE", None);
    ("NL80211_WOWLAN_TRIG_EAP_IDENT_REQUEST", None);
    ("NL80211_WOWLAN_TRIG_4WAY_HANDSHAKE", None); ("NL80211_WOWLAN_TRIG_RFKILL_RELEASE", None);
    ("NL80211_WOWLAN_TRIG_WAKEUP_PKT_80211", None);
    ("NL80211_WOWLAN_TRIG_WAKEUP_PKT_80211_LEN", None);
    ("NL80211_WOWLAN_TRIG_WAKEUP_PKT_8023", None);
    ("NL80211_WOWLAN_TRIG_WAKEUP_PKT_8023_LEN", None);
    ("NL80211_WOWLAN_TRIG_TCP_CONNECTION", None); ("NL80211_WOWLAN_TRIG_WAKEUP_TCP_MATCH", None);
    ("NL80211_WOWLAN_TRIG_WAKEUP_TCP_CONNLOST", None);
    ("NL80211_WOWLAN_TRIG_WAKEUP_TCP_NOMORETOKENS", None);
    ("NL80211_WOWLAN_TRIG_NET_DETECT", None); ("NL80211_WOWLAN_TRIG_NET_DETECT_RESULTS", None);
    ("NUM_NL80211_WOWLAN_TRIG", None);
    ("MAX_NL80211_WOWLAN_TRIG", Some (Sub (Id "NUM_NL80211_WOWLAN_TRIG") (dec 1)))]].
Definition enum_nl80211_wowlan_tcp_attrs : list decl := [
  Enum [
    ("__NL80211_WOWLAN_TCP_INVALID", None); ("NL80211_WOWLAN_TCP_SRC_IPV4", None);
    ("NL80211_WOWLAN_TCP_DST_IPV4", None); ("NL80211_WOWLAN_TCP_DST_MAC", None);
    ("NL80211_WOWLAN_TCP_SRC_PORT", None); ("NL80211_WOWLAN_TCP_DST_PORT", None);
    ("NL80211_WOWLAN_TCP_DATA_PAYLOAD", None); ("NL80211_WOWLAN_TCP_DATA_PAYLOAD_SEQ", None);
    ("NL80211_WOWLAN_TCP_DATA_PAYLOAD_TOKEN", None); ("NL80211_WOWLAN_TCP_DATA_INTERVAL", None);
    ("NL80211_WOWLAN_TCP_WAKE_PAYLOAD", None); ("NL80211_WOWLAN_TCP_WAKE_MASK", None);
    ("NUM_NL80211_WOWLAN_TCP", None);
    ("MAX_NL80211_WOWLAN_TCP", Some (Sub (Id "NUM_NL80211_WOWLAN_TCP") (dec 1)))]].
Definition enum_nl80211_attr_coalesce_rule : list decl := [
  Enum [
    ("__NL80211_COALESCE_RULE_INVALID", None); ("NL80211_ATTR_COALESCE_RULE_DELAY", None);
    ("NL80211_ATTR_COALESCE_RULE_CONDITION", None);
    ("NL80211_ATTR_COALESCE_RULE_PKT_PATTERN", None); ("NUM_NL80211_ATTR_COALESCE_RULE", None);
    ("NL80211_ATTR_COALESCE_RULE_MAX", Some (Sub (Id "NUM_NL80211_ATTR_COALESCE_RULE") (dec 1)))]].
Definition enum_nl80211_iface_limit_attrs : list decl := [
  Enum [
    ("NL80211_IFACE_LIMIT_UNSPEC", None); ("NL80211_IFACE_LIMIT_MAX", None);
    ("NL80211_IFACE_LIMIT_TYPES", None); ("NUM_NL80211_IFACE_LIMIT", None);
    ("MAX_NL80211_IFACE_LIMIT", Some (Sub (Id "NUM_NL80211_IFACE_LIMIT") (dec 1)))];
  Enum [
    ("NL80211_IFACE_COMB_UNSPEC", None); ("NL80211_IFACE_COMB_LIMITS", None);
    ("NL80211_IFACE_COMB_MAXNUM", None); ("NL80211_IFACE_COMB_STA_AP_BI_MATCH", None);
    ("NL80211_IFACE_COMB_NUM_CHANNELS", None); ("NL80211_IFACE_COMB_RADAR_DETECT_WIDTHS", None);
    ("NL80211_IFACE_COMB_RADAR_DETECT_REGIONS", None); ("NL80211_IFACE_COMB_BI_MIN_GCD", None);
    ("NUM_NL80211_IFACE_COMB", None);
    ("MAX_NL80211_IFACE_COMB", Some (Sub (Id "NUM_NL80211_IFACE_COMB") (dec 1)))];
  Enum [
    ("NL80211_PLINK_LISTEN", None); ("NL80211_PLINK_OPN_SNT", None);
    ("NL80211_PLINK_OPN_RCVD", None); ("NL80211_PLINK_CNF_RCVD", None);
    ("NL80211_PLINK_ESTAB", None); ("NL80211_PLINK_HOLDING", None);
    ("NL80211_PLINK_BLOCKED", None); ("NUM_NL80211_PLINK_STATES", None);
    ("MAX_NL80211_PLINK_STATES", Some (Sub (Id "NUM_NL80211_PLINK_STATES") (dec 1)))];
  Enum [
    ("NL80211_PLINK_ACTION_NO_ACTION", None); ("NL80211_PLINK_ACTION_OPEN", None);
    ("NL80211_PLINK_ACTION_BLOCK", None); ("NUM_NL80211_PLINK_ACTIONS", None)];
  Defines [
    ("NL80211_KCK_LEN", dec 16); ("NL80211_KEK_LEN", dec 16); ("NL80211_REPLAY_CTR_LEN", dec 8)];
  Enum [
    ("__NL80211_REKEY_DATA_INVALID", None); ("NL80211_REKEY_DATA_KEK", None);
    ("NL80211_REKEY_DATA_KCK", None); ("NL80211_REKEY_DATA_REPLAY_CTR", None);
    ("NUM_NL80211_REKEY_DATA", None);
    ("MAX_NL80211_REKEY_DATA", Some (Sub (Id "NUM_NL80211_REKEY_DATA") (dec 1)))]].
Definition enum_nl80211_hidden_ssid : list decl := [
  Enum [
    ("NL80211_HIDDEN_SSID_NOT_IN_USE", None); ("NL80211_HIDDEN_SSID_ZERO_LEN", None);
    ("NL80211_HIDDEN_SSID_ZERO_CONTENTS", None)];
  Enum [
    ("__NL80211_STA_WME_INVALID", None); ("NL80211_STA_WME_UAPSD_QUEUES", None);
    ("NL80211_STA_WME_MAX_SP", None); ("__NL80211_STA_WME_AFTER_LAST", None);
    ("NL80211_STA_WME_MAX", Some (Sub (Id "__NL80211_STA_WME_AFTER_LAST") (dec 1)))];
  Enum [
    ("__NL80211_PMKSA_CANDIDATE_INVALID", None); ("NL80211_PMKSA_CANDIDATE_INDEX", None);
    ("NL80211_PMKSA_CANDIDATE_BSSID", None); ("NL80211_PMKSA_CANDIDATE_PREAUTH", None);
    ("NUM_NL80211_PMKSA_CANDIDATE", None);
    ("MAX_NL80211_PMKSA_CANDIDATE", Some (Sub (Id "NUM_NL80211_PMKSA_CANDIDATE") (dec 1)))];
  Enum [
    ("NL80211_TDLS_DISCOVERY_REQ", None); ("NL80211_TDLS_SETUP", None);
    ("NL80211_TDLS_TEARDOWN", None); ("NL80211_TDLS_ENABLE_LINK", None);
    ("NL80211_TDLS_DISABLE_LINK", None)]].
Definition enum_nl80211_feature_flags : list decl := [
  Enum [
    ("NL80211_FEATURE_SK_TX_STATUS", Some (Shl (dec 1) (dec 0)));
    ("NL80211_FEATURE_HT_IBSS", Some (Shl (dec 1) (dec 1)));
    ("NL80211_FEATURE_INACTIVITY_TIMER", Some (Shl (dec 1) (dec 2)));
    ("NL80211_FEATURE_CELL_BASE_REG_HINTS", Some (Shl (dec 1) (dec 3)));
    ("NL80211_FEATURE_P2P_DEVICE_NEEDS_CHANNEL", Some (Shl (dec 1) (dec 4)));
    ("NL80211_FEATURE_SAE", Some (Shl (dec 1) (dec 5)));
    ("NL80211_FEATURE_LOW_PRIORITY_SCAN", Some (Shl (dec 1) (dec 6)));
    ("NL80211_FEATURE_SCAN_FLUSH", Some (Shl (dec 1) (dec 7)));
    ("NL80211_FEATURE_AP_SCAN", Some (Shl (dec 1) (dec 8)));
    ("NL80211_FEATURE_VIF_TXPOWER", Some (Shl (dec 1) (dec 9)));
    ("NL80211_FEATURE_NEED_OBSS_SCAN", Some (Shl (dec 1) (dec 10)));
    ("NL80211_FEATURE_P2P_GO_CTWIN", Some (Shl (dec 1) (dec 11)));
    ("NL80211_FEATURE_P2P_GO_OPPPS", Some (Shl (dec 1) (dec 12)));
    ("NL80211_FEATURE_ADVERTISE_CHAN_LIMITS", Some (Shl (dec 1) (dec 14)));
    ("NL80211_FEATURE_FULL_AP_CLIENT_STATE", Some (Shl (dec 1) (dec 15)));
    ("NL80211_FEATURE_USERSPACE_MPM", Some (Shl (dec 1) (dec 16)));
    ("NL80211_FEATURE_ACTIVE_MONITOR", Some (Shl (dec 1) (dec 17)));
    ("NL80211_FEATURE_AP_MODE_CHAN_WIDTH_CHANGE", Some (Shl (dec 1) (dec 18)));
    ("NL80211_FEATURE_DS_PARAM_SET_IE_IN_PROBES", Some (Shl (dec 1) (dec 19)));
    ("NL80211_FEATURE_WFA_TPC_IE_IN_PROBES", Some (Shl (dec 1) (dec 20)));
    ("NL80211_FEATURE_QUIET", Some (Shl (dec 1) (dec 21)));
    ("NL80211_FEATURE_TX_POWER_INSERTION", Some (Shl (dec 1) (dec 22)));
    ("NL80211_FEATURE_ACKTO_ESTIMATION", Some (Shl (dec 1) (dec 23)));
    ("NL80211_FEATURE_STATIC_SMPS", Some (Shl (dec 1) (dec 24)));
    ("NL80211_FEATURE_DYNAMIC_SMPS", Some (Shl (dec 1) (dec 25)));
    ("NL80211_FEATURE_SUPPORTS_WMM_ADMISSION", Some (Shl (dec 1) (dec 26)));
    ("NL80211_FEATURE_MAC_ON_CREATE", Some (Shl (dec 1) (dec 27)));
    ("NL80211_FEATURE_TDLS_CHANNEL_SWITCH", Some (Shl (dec 1) (dec 28)));
    ("NL80211_FEATURE_SCAN_RANDOM_MAC_ADDR", Some (Shl (dec 1) (dec 29)));
    ("NL80211_FEATURE_SCHED_SCAN_RANDOM_MAC_ADDR", Some (Shl (dec 1) (dec 30)));
    ("NL80211_FEATURE_ND_RANDOM_MAC_ADDR", Some (Shl (dec 1) (dec 31)))]].
Definition enum_nl80211_ext_feature_index : list decl := [
  Enum [
    ("NL80211_EXT_FEATURE_VHT_IBSS", None); ("NL80211_EXT_FEATURE_RRM", None);
    ("NL80211_EXT_FEATURE_MU_MIMO_AIR_SNIFFER", None);
    ("NL80211_EXT_FEATURE_SCAN_START_TIME", None); ("NL80211_EXT_FEATURE_BSS_PARENT_TSF", None);
    ("NL80211_EXT_FEATURE_SET_SCAN_DWELL", None);
    ("NL80211_EXT_FEATURE_BEACON_RATE_LEGACY", None);
    ("NL80211_EXT_FEATURE_BEACON_RATE_HT", None); ("NL80211_EXT_FEATURE_BEACON_RATE_VHT", None);
    ("NL80211_EXT_FEATURE_FILS_STA", None); ("NL80211_EXT_FEATURE_MGMT_TX_RANDOM_TA", None);
    ("NL80211_EXT_FEATURE_MGMT_TX_RANDOM_TA_CONNECTED", None);
    ("NL80211_EXT_FEATURE_SCHED_SCAN_RELATIVE_RSSI", None);
    ("NL80211_EXT_FEATURE_CQM_RSSI_LIST", None); ("NL80211_EXT_FEATURE_FILS_SK_OFFLOAD", None);
    ("NL80211_EXT_FEATURE_4WAY_HANDSHAKE_STA_PSK", None);
    ("NL80211_EXT_FEATURE_4WAY_HANDSHAKE_STA_1X", None);
    ("NL80211_EXT_FEATURE_FILS_MAX_CHANNEL_TIME", None);
    ("NL80211_EXT_FEATURE_ACCEPT_BCAST_PROBE_RESP", None);
    ("NL80211_EXT_FEATURE_OCE_PROBE_REQ_HIGH_TX_RATE", None);
    ("NL80211_EXT_FEATURE_OCE_PROBE_REQ_DEFERRAL_SUPPRESSION", None);
    ("NL80211_EXT_FEATURE_MFP_OPTIONAL", None); ("NL80211_EXT_FEATURE_LOW_SPAN_SCAN", None);
    ("NL80211_EXT_FEATURE_LOW_POWER_SCAN", None);
    ("NL80211_EXT_FEATURE_HIGH_ACCURACY_SCAN", None); ("NL80211_EXT_FEATURE_DFS_OFFLOAD", None);
    ("NL80211_EXT_FEATURE_CONTROL_PORT_OVER_NL80211", None);
    ("NL80211_EXT_FEATURE_ACK_SIGNAL_SUPPORT", None);
    ("NL80211_EXT_FEATURE_DATA_ACK_SIGNAL_SUPPORT", Some (Id "NL80211_EXT_FEATURE_ACK_SIGNAL_SUPPORT"));
    ("NL80211_EXT_FEATURE_TXQS", None); ("NL80211_EXT_FEATURE_SCAN_RANDOM_SN", None);
    ("NL80211_EXT_FEATURE_SCAN_MIN_PREQ_CONTENT", None);
    ("NL80211_EXT_FEATURE_CAN_REPLACE_PTK0", None);
    ("NL80211_EXT_FEATURE_ENABLE_FTM_RESPONDER", None);
    ("NL80211_EXT_FEATURE_AIRTIME_FAIRNESS", None);
    ("NL80211_EXT_FEATURE_AP_PMKSA_CACHING", None); ("NUM_NL80211_EXT_FEATURES", None);
    ("MAX_NL80211_EXT_FEATURES", Some (Sub (Id "NUM_NL80211_EXT_FEATURES") (dec 1)))];
  Enum [
    ("NL80211_PROBE_RESP_OFFLOAD_SUPPORT_WPS", Some (Shl (dec 1) (dec 0)));
    ("NL80211_PROBE_RESP_OFFLOAD_SUPPORT_WPS2", Some (Shl (dec 1) (dec 1)));
    ("NL80211_PROBE_RESP_OFFLOAD_SUPPORT_P2P", Some (Shl (dec 1) (dec 2)));
    ("NL80211_PROBE_RESP_OFFLOAD_SUPPORT_80211U", Some (Shl (dec 1) (dec 3)))]].
Definition enum_nl80211_timeout_reason : list decl := [
  Enum [
    ("NL80211_TIMEOUT_UNSPECIFIED", None); ("NL80211_TIMEOUT_SCAN", None);
    ("NL80211_TIMEOUT_AUTH", None); ("NL80211_TIMEOUT_ASSOC", None)];
  Enum [
    ("NL80211_SCAN_FLAG_LOW_PRIORITY", Some (Shl (dec 1) (dec 0)));
    ("NL80211_SCAN_FLAG_FLUSH", Some (Shl (dec 1) (dec 1)));
    ("NL80211_SCAN_FLAG_AP", Some (Shl (dec 1) (dec 2)));
    ("NL80211_SCAN_FLAG_RANDOM_ADDR", Some (Shl (dec 1) (dec 3)))]].
Definition enum_nl80211_smps_mode : list decl := [
  Enum [
    ("NL80211_SMPS_OFF", None); ("NL80211_SMPS_STATIC", None); ("NL80211_SMPS_DYNAMIC", None);
    ("__NL80211_SMPS_AFTER_LAST", None);
    ("NL80211_SMPS_MAX", Some (Sub (Id "__NL80211_SMPS_AFTER_LAST") (dec 1)))];
  Enum [
    ("NL80211_RADAR_DETECTED", None); ("NL80211_RADAR_CAC_FINISHED", None);
    ("NL80211_RADAR_CAC_ABORTED", None); ("NL80211_RADAR_NOP_FINISHED", None);
    ("NL80211_RADAR_PRE_CAC_EXPIRED", None)];
  Enum [
    ("NL80211_DFS_USABLE", None); ("NL80211_DFS_UNAVAILABLE", None);
    ("NL80211_DFS_AVAILABLE", None)]].
Definition enum_nl80211_crit_proto_id : list decl := [
  Enum [
    ("NL80211_CRIT_PROTO_UNSPEC", None); ("NL80211_CRIT_PROTO_DHCP", None);
    ("NL80211_CRIT_PROTO_EAPOL", None); ("NL80211_CRIT_PROTO_APIPA", None);
    ("NUM_NL80211_CRIT_PROTO", None)];
  Defines [
    ("NL80211_CRIT_PROTO_MAX_DURATION", dec 5000)]].
Definition enum_nl80211_tdls_peer_capability : list decl := [
  Enum [
    ("NL80211_TDLS_PEER_HT", Some (Shl (dec 1) (dec 0)));
    ("NL80211_TDLS_PEER_VHT", Some (Shl (dec 1) (dec 1)));
    ("NL80211_TDLS_PEER_WMM", Some (Shl (dec 1) (dec 2)))];
  Enum [
    ("__NL80211_SCHED_SCAN_PLAN_INVALID", None); ("NL80211_SCHED_SCAN_PLAN_INTERVAL", None);
    ("NL80211_SCHED_SCAN_PLAN_ITERATIONS", None); ("__NL80211_SCHED_SCAN_PLAN_AFTER_LAST", None);
    ("NL80211_SCHED_SCAN_PLAN_MAX", Some (Sub (Id "__NL80211_SCHED_SCAN_PLAN_AFTER_LAST") (dec 1)))]].
Definition enum_nl80211_bss_select_attr : list decl := [
  Enum [
    ("__NL80211_BSS_SELECT_ATTR_INVALID", None); ("NL80211_BSS_SELECT_ATTR_RSSI", None);
    ("NL80211_BSS_SELECT_ATTR_BAND_PREF", None); ("NL80211_BSS_SELECT_ATTR_RSSI_ADJUST", None);
    ("__NL80211_BSS_SELECT_ATTR_AFTER_LAST", None);
    ("NL80211_BSS_SELECT_ATTR_MAX", Some (Sub (Id "__NL80211_BSS_SELECT_ATTR_AFTER_LAST") (dec 1)))]].
Definition header : header :=
  Header "linux/nl80211.h" [] (concat [
    enum_nl80211_commands; enum_nl80211_attrs; defs_NL80211_ATTR_SCAN_GENERATION;
    defs_NL80211_WIPHY_NAME_MAXLEN; enum_nl80211_rate_info; enum_nl80211_tid_stats;
    enum_nl80211_frequency_attr; defs_NL80211_FREQUENCY_ATTR_PASSIVE_SCAN;
    enum_nl80211_bitrate_attr; enum_nl80211_reg_rule_flags; enum_nl80211_dfs_regions;
    enum_nl80211_meshconf_params; enum_nl80211_channel_type; enum_nl80211_auth_type;
    enum_nl80211_key_default_types; enum_nl80211_txrate_gi; enum_nl80211_attr_cqm;
    defs___NL80211_WOWLAN_PKTPAT_INVALID; enum_nl80211_wowlan_triggers;
    enum_nl80211_wowlan_tcp_attrs; enum_nl80211_attr_coalesce_rule;
    enum_nl80211_iface_limit_attrs; enum_nl80211_hidden_ssid; enum_nl80211_feature_flags;
    enum_nl80211_ext_feature_index; enum_nl80211_timeout_reason; enum_nl80211_smps_mode;
    enum_nl80211_crit_proto_id; enum_nl80211_tdls_peer_capability; enum_nl80211_bss_select_attr]).
End Nl80211.

(** ** [linux/openvswitch.h] *)

Module Openvswitch.
Definition enum_ovs_datapath_cmd : list decl := [
  Enum [
    ("OVS_DP_CMD_UNSPEC", None); ("OVS_DP_CMD_NEW", None); ("OVS_DP_CMD_DEL", None);
    ("OVS_DP_CMD_GET", None); ("OVS_DP_CMD_SET", None)];
  Enum [
    ("OVS_DP_ATTR_UNSPEC", None); ("OVS_DP_ATTR_NAME", None); ("OVS_DP_ATTR_UPCALL_PID", None);
    ("OVS_DP_ATTR_STATS", None); ("OVS_DP_ATTR_MEGAFLOW_STATS", None);
    ("OVS_DP_ATTR_USER_FEATURES", None); ("__OVS_DP_ATTR_MAX", None)];
  Defines [
    ("OVS_DP_ATTR_MAX", Sub (Id "__OVS_DP_ATTR_MAX") (dec 1))]].
Definition enum_ovs_packet_cmd : list decl := [
  Enum [
    ("OVS_PACKET_CMD_UNSPEC", None); ("OVS_PACKET_CMD_MISS", None);
    ("OVS_PACKET_CMD_ACTION", None); ("OVS_PACKET_CMD_EXECUTE", None)];
  Enum [
    ("OVS_PACKET_ATTR_UNSPEC", None); ("OVS_PACKET_ATTR_PACKET", None);
    ("OVS_PACKET_ATTR_KEY", None); ("OVS_PACKET_ATTR_ACTIONS", None);
    ("OVS_PACKET_ATTR_USERDATA", None); ("OVS_PACKET_ATTR_EGRESS_TUN_KEY", None);
    ("OVS_PACKET_ATTR_UNUSED1", None); ("OVS_PACKET_ATTR_UNUSED2", None);
    ("OVS_PACKET_ATTR_PROBE", None); ("OVS_PACKET_ATTR_MRU", None);
    ("__OVS_PACKET_ATTR_MAX", None)];
  Defines [
    ("OVS_PACKET_ATTR_MAX", Sub (Id "__OVS_PACKET_ATTR_MAX") (dec 1))]].
Definition enum_ovs_vport_cmd : list decl := [
  Enum [
    ("OVS_VPORT_CMD_UNSPEC", None); ("OVS_VPORT_CMD_NEW", None); ("OVS_VPORT_CMD_DEL", None);
    ("OVS_VPORT_CMD_GET", None); ("OVS_VPORT_CMD_SET", None)];
  Enum [
    ("OVS_VPORT_TYPE_UNSPEC", None); ("OVS_VPORT_TYPE_NETDEV", None);
    ("OVS_VPORT_TYPE_INTERNAL", None); ("OVS_VPORT_TYPE_GRE", None);
    ("OVS_VPORT_TYPE_VXLAN", None); ("OVS_VPORT_TYPE_GENEVE", None);
    ("__OVS_VPORT_TYPE_MAX", None)];
  Defines [
    ("OVS_VPORT_TYPE_MAX", Sub (Id "__OVS_VPORT_TYPE_MAX") (dec 1))];
  Enum [
    ("OVS_VPORT_ATTR_UNSPEC", None); ("OVS_VPORT_ATTR_PORT_NO", None);
    ("OVS_VPORT_ATTR_TYPE", None); ("OVS_VPORT_ATTR_NAME", None);
    ("OVS_VPORT_ATTR_OPTIONS", None); ("OVS_VPORT_ATTR_UPCALL_PID", None);
    ("OVS_VPORT_ATTR_STATS", None); ("__OVS_VPORT_ATTR_MAX", None)];
  Defines [
    ("OVS_VPORT_ATTR_MAX", Sub (Id "__OVS_VPORT_ATTR_MAX") (dec 1))];
  Enum [
    ("OVS_VXLAN_EXT_UNSPEC", None); ("OVS_VXLAN_EXT_GBP", None); ("__OVS_VXLAN_EXT_MAX", None)];
  Defines [
    ("OVS_VXLAN_EXT_MAX", Sub (Id "__OVS_VXLAN_EXT_MAX") (dec 1))];
  Enum [
    ("OVS_TUNNEL_ATTR_UNSPEC", None); ("OVS_TUNNEL_ATTR_DST_PORT", None);
    ("OVS_TUNNEL_ATTR_EXTENSION", None); ("__OVS_TUNNEL_ATTR_MAX", None)];
  Defines [
    ("OVS_TUNNEL_ATTR_MAX", Sub (Id "__OVS_TUNNEL_ATTR_MAX") (dec 1))]].
Definition enum_ovs_flow_cmd : list decl := [
  Enum [
    ("OVS_FLOW_CMD_UNSPEC", None); ("OVS_FLOW_CMD_NEW", None); ("OVS_FLOW_CMD_DEL", None);
    ("OVS_FLOW_CMD_GET", None); ("OVS_FLOW_CMD_SET", None)]].
Definition enum_ovs_key_attr : list decl := [
  Enum [
    ("OVS_KEY_ATTR_UNSPEC", None); ("OVS_KEY_ATTR_ENCAP", None); ("OVS_KEY_ATTR_PRIORITY", None);
    ("OVS_KEY_ATTR_IN_PORT", None); ("OVS_KEY_ATTR_ETHERNET", None); ("OVS_KEY_ATTR_VLAN", None);
    ("OVS_KEY_ATTR_ETHERTYPE", None); ("OVS_KEY_ATTR_IPV4", None); ("OVS_KEY_ATTR_IPV6", None);
    ("OVS_KEY_ATTR_TCP", None); ("OVS_KEY_ATTR_UDP", None); ("OVS_KEY_ATTR_ICMP", None);
    ("OVS_KEY_ATTR_ICMPV6", None); ("OVS_KEY_ATTR_ARP", None); ("OVS_KEY_ATTR_ND", None);
    ("OVS_KEY_ATTR_SKB_MARK", None); ("OVS_KEY_ATTR_TUNNEL", None); ("OVS_KEY_ATTR_SCTP", None);
    ("OVS_KEY_ATTR_TCP_FLAGS", None); ("OVS_KEY_ATTR_DP_HASH", None);
    ("OVS_KEY_ATTR_RECIRC_ID", None); ("OVS_KEY_ATTR_MPLS", None);
    ("OVS_KEY_ATTR_CT_STATE", None); ("OVS_KEY_ATTR_CT_ZONE", None);
    ("OVS_KEY_ATTR_CT_MARK", None); ("OVS_KEY_ATTR_CT_LABELS", None);
    ("__OVS_KEY_ATTR_MAX", None)];
  Defines [
    ("OVS_KEY_ATTR_MAX", Sub (Id "__OVS_KEY_ATTR_MAX") (dec 1))];
  Enum [
    ("OVS_TUNNEL_KEY_ATTR_ID", None); ("OVS_TUNNEL_KEY_ATTR_IPV4_SRC", None);
    ("OVS_TUNNEL_KEY_ATTR_IPV4_DST", None); ("OVS_TUNNEL_KEY_ATTR_TOS", None);
    ("OVS_TUNNEL_KEY_ATTR_TTL", None); ("OVS_TUNNEL_KEY_ATTR_DONT_FRAGMENT", None);
    ("OVS_TUNNEL_KEY_ATTR_CSUM", None); ("OVS_TUNNEL_KEY_ATTR_OAM", None);
    ("OVS_TUNNEL_KEY_ATTR_GENEVE_OPTS", None); ("OVS_TUNNEL_KEY_ATTR_TP_SRC", None);
    ("OVS_TUNNEL_KEY_ATTR_TP_DST", None); ("OVS_TUNNEL_KEY_ATTR_VXLAN_OPTS", None);
    ("OVS_TUNNEL_KEY_ATTR_IPV6_SRC", None); ("OVS_TUNNEL_KEY_ATTR_IPV6_DST", None);
    ("__OVS_TUNNEL_KEY_ATTR_MAX", None)];
  Defines [
    ("OVS_TUNNEL_KEY_ATTR_MAX", Sub (Id "__OVS_TUNNEL_KEY_ATTR_MAX") (dec 1))];
  Enum [
    ("OVS_FRAG_TYPE_NONE", None); ("OVS_FRAG_TYPE_FIRST", None); ("OVS_FRAG_TYPE_LATER", None);
    ("__OVS_FRAG_TYPE_MAX", None)];
  Defines [
    ("OVS_FRAG_TYPE_MAX", Sub (Id "__OVS_FRAG_TYPE_MAX") (dec 1))]].
Definition defs_OVS_CS_F_NEW : list decl := [
  Defines [
    ("OVS_CS_F_NEW", hex 0x01); ("OVS_CS_F_ESTABLISHED", hex 0x02);
    ("OVS_CS_F_RELATED", hex 0x04); ("OVS_CS_F_REPLY_DIR", hex 0x08);
    ("OVS_CS_F_INVALID", hex 0x10); ("OVS_CS_F_TRACKED", hex 0x20)];
  Enum [
    ("OVS_FLOW_ATTR_UNSPEC", None); ("OVS_FLOW_ATTR_KEY", None); ("OVS_FLOW_ATTR_ACTIONS", None);
    ("OVS_FLOW_ATTR_STATS", None); ("OVS_FLOW_ATTR_TCP_FLAGS", None);
    ("OVS_FLOW_ATTR_USED", None); ("OVS_FLOW_ATTR_CLEAR", None); ("OVS_FLOW_ATTR_MASK", None);
    ("OVS_FLOW_ATTR_PROBE", None); ("OVS_FLOW_ATTR_UFID", None);
    ("OVS_FLOW_ATTR_UFID_FLAGS", None); ("__OVS_FLOW_ATTR_MAX", None)];
  Defines [
    ("OVS_FLOW_ATTR_MAX", Sub (Id "__OVS_FLOW_ATTR_MAX") (dec 1))]].
Definition enum_ovs_sample_attr : list decl := [
  Enum [
    ("OVS_SAMPLE_ATTR_UNSPEC", None); ("OVS_SAMPLE_ATTR_PROBABILITY", None);
    ("OVS_SAMPLE_ATTR_ACTIONS", None); ("__OVS_SAMPLE_ATTR_MAX", None)];
  Defines [
    ("OVS_SAMPLE_ATTR_MAX", Sub (Id "__OVS_SAMPLE_ATTR_MAX") (dec 1))];
  Enum [
    ("OVS_USERSPACE_ATTR_UNSPEC", None); ("OVS_USERSPACE_ATTR_PID", None);
    ("OVS_USERSPACE_ATTR_USERDATA", None); ("OVS_USERSPACE_ATTR_EGRESS_TUN_PORT", None);
    ("OVS_USERSPACE_ATTR_ACTIONS", None); ("__OVS_USERSPACE_ATTR_MAX", None)];
  Defines [
    ("OVS_USERSPACE_ATTR_MAX", Sub (Id "__OVS_USERSPACE_ATTR_MAX") (dec 1))]].
Definition enum_ovs_ct_attr : list decl := [
  Enum [
    ("OVS_CT_ATTR_UNSPEC", None); ("OVS_CT_ATTR_COMMIT", None); ("OVS_CT_ATTR_ZONE", None);
    ("OVS_CT_ATTR_MARK", None); ("OVS_CT_ATTR_LABELS", None); ("OVS_CT_ATTR_HELPER", None);
    ("__OVS_CT_ATTR_MAX", None)];
  Defines [
    ("OVS_CT_ATTR_MAX", Sub (Id "__OVS_CT_ATTR_MAX") (dec 1))];
  Enum [
    ("OVS_ACTION_ATTR_UNSPEC", None); ("OVS_ACTION_ATTR_OUTPUT", None);
    ("OVS_ACTION_ATTR_USERSPACE", None); ("OVS_ACTION_ATTR_SET", None);
    ("OVS_ACTION_ATTR_PUSH_VLAN", None); ("OVS_ACTION_ATTR_POP_VLAN", None);
    ("OVS_ACTION_ATTR_SAMPLE", None); ("OVS_ACTION_ATTR_RECIRC", None);
    ("OVS_ACTION_ATTR_HASH", None); ("OVS_ACTION_ATTR_PUSH_MPLS", None);
    ("OVS_ACTION_ATTR_POP_MPLS", None); ("OVS_ACTION_ATTR_SET_MASKED", None);
    ("OVS_ACTION_ATTR_CT", None); ("__OVS_ACTION_ATTR_MAX", None)];
  Defines [
    ("OVS_ACTION_ATTR_MAX", Sub (Id "__OVS_ACTION_ATTR_MAX") (dec 1))]].
Definition header : header :=
  Header "linux/openvswitch.h" [] (concat [
    enum_ovs_datapath_cmd; enum_ovs_packet_cmd; enum_ovs_vport_cmd; enum_ovs_flow_cmd;
    enum_ovs_key_attr; defs_OVS_CS_F_NEW; enum_ovs_sample_attr; enum_ovs_ct_attr]).
End Openvswitch.

(** ** [linux/pkt_cls.h] *)

Module Pkt_cls.
Definition enum_TCA_ACT_UNSPEC : list decl := [
  Enum [
    ("TCA_ACT_UNSPEC", None); ("TCA_ACT_KIND", None); ("TCA_ACT_OPTIONS", None);
    ("TCA_ACT_INDEX", None); ("TCA_ACT_STATS", None); ("__TCA_ACT_MAX", None)];
  Defines [
    ("TCA_ACT_MAX", Id "__TCA_ACT_MAX"); ("TCA_OLD_COMPAT", Add (Id "TCA_ACT_MAX") (dec 1));
    ("TCA_ACT_MAX_PRIO", dec 32); ("TCA_ACT_BIND", dec 1); ("TCA_ACT_NOBIND", dec 0);
    ("TCA_ACT_UNBIND", dec 1); ("TCA_ACT_NOUNBIND", dec 0); ("TCA_ACT_REPLACE", dec 1);
    ("TCA_ACT_NOREPLACE", dec 0); ("TC_ACT_UNSPEC", Neg (dec 1)); ("TC_ACT_OK", dec 0);
    ("TC_ACT_RECLASSIFY", dec 1); ("TC_ACT_SHOT", dec 2); ("TC_ACT_PIPE", dec 3);
    ("TC_ACT_STOLEN", dec 4); ("TC_ACT_QUEUED", dec 5); ("TC_ACT_REPEAT", dec 6);
    ("TC_ACT_REDIRECT", dec 7); ("TC_ACT_JUMP", hex 0x10000000)];
  Enum [
    ("TCA_ID_UNSPEC", Some (dec 0)); ("TCA_ID_POLICE", Some (dec 1));
    ("__TCA_ID_MAX", Some (dec 255))];
  Defines [
    ("TCA_ID_MAX", Id "__TCA_ID_MAX")]].
Definition enum_TCA_POLICE_UNSPEC : list decl := [
  Enum [
    ("TCA_POLICE_UNSPEC", None); ("TCA_POLICE_TBF", None); ("TCA_POLICE_RATE", None);
    ("TCA_POLICE_PEAKRATE", None); ("TCA_POLICE_AVRATE", None); ("TCA_POLICE_RESULT", None);
    ("__TCA_POLICE_MAX", None)];
  Defines [
    ("TCA_POLICE_MAX", Sub (Id "__TCA_POLICE_MAX") (dec 1))]].
Definition enum_TCA_U32_UNSPEC : list decl := [
  Enum [
    ("TCA_U32_UNSPEC", None); ("TCA_U32_CLASSID", None); ("TCA_U32_HASH", None);
    ("TCA_U32_LINK", None); ("TCA_U32_DIVISOR", None); ("TCA_U32_SEL", None);
    ("TCA_U32_POLICE", None); ("TCA_U32_ACT", None); ("TCA_U32_INDEV", None);
    ("TCA_U32_PCNT", None); ("TCA_U32_MARK", None); ("__TCA_U32_MAX", None)];
  Defines [
    ("TCA_U32_MAX", Sub (Id "__TCA_U32_MAX") (dec 1))]].
Definition defs_TC_U32_TERMINAL : list decl := [
  Defines [
    ("TC_U32_TERMINAL", dec 1); ("TC_U32_OFFSET", dec 2); ("TC_U32_VAROFFSET", dec 4);
    ("TC_U32_EAT", dec 8); ("TC_U32_MAXDEPTH", dec 8)];
  Enum [
    ("TCA_RSVP_UNSPEC", None); ("TCA_RSVP_CLASSID", None); ("TCA_RSVP_DST", None);
    ("TCA_RSVP_SRC", None); ("TCA_RSVP_PINFO", None); ("TCA_RSVP_POLICE", None);
    ("TCA_RSVP_ACT", None); ("__TCA_RSVP_MAX", None)];
  Defines [
    ("TCA_RSVP_MAX", Sub (Id "__TCA_RSVP_MAX") (dec 1))]].
Definition enum_TCA_ROUTE4_UNSPEC : list decl := [
  Enum [
    ("TCA_ROUTE4_UNSPEC", None); ("TCA_ROUTE4_CLASSID", None); ("TCA_ROUTE4_TO", None);
    ("TCA_ROUTE4_FROM", None); ("TCA_ROUTE4_IIF", None); ("TCA_ROUTE4_POLICE", None);
    ("TCA_ROUTE4_ACT", None); ("__TCA_ROUTE4_MAX", None)];
  Defines [
    ("TCA_ROUTE4_MAX", Sub (Id "__TCA_ROUTE4_MAX") (dec 1))];
  Enum [
    ("TCA_FW_UNSPEC", None); ("TCA_FW_CLASSID", None); ("TCA_FW_POLICE", None);
    ("TCA_FW_INDEV", None); ("TCA_FW_ACT", None); ("TCA_FW_MASK", None); ("__TCA_FW_MAX", None)];
  Defines [
    ("TCA_FW_MAX", Sub (Id "__TCA_FW_MAX") (dec 1))];
  Enum [
    ("TCA_TCINDEX_UNSPEC", None); ("TCA_TCINDEX_HASH", None); ("TCA_TCINDEX_MASK", None);
    ("TCA_TCINDEX_SHIFT", None); ("TCA_TCINDEX_FALL_THROUGH", None);
    ("TCA_TCINDEX_CLASSID", None); ("TCA_TCINDEX_POLICE", None); ("TCA_TCINDEX_ACT", None);
    ("__TCA_TCINDEX_MAX", None)];
  Defines [
    ("TCA_TCINDEX_MAX", Sub (Id "__TCA_TCINDEX_MAX") (dec 1))];
  Enum [
    ("FLOW_KEY_SRC", None); ("FLOW_KEY_DST", None); ("FLOW_KEY_PROTO", None);
    ("FLOW_KEY_PROTO_SRC", None); ("FLOW_KEY_PROTO_DST", None); ("FLOW_KEY_IIF", None);
    ("FLOW_KEY_PRIORITY", None); ("FLOW_KEY_MARK", None); ("FLOW_KEY_NFCT", None);
    ("FLOW_KEY_NFCT_SRC", None); ("FLOW_KEY_NFCT_DST", None); ("FLOW_KEY_NFCT_PROTO_SRC", None);
    ("FLOW_KEY_NFCT_PROTO_DST", None); ("FLOW_KEY_RTCLASSID", None); ("FLOW_KEY_SKUID", None);
    ("FLOW_KEY_SKGID", None); ("FLOW_KEY_VLAN_TAG", None); ("FLOW_KEY_RXHASH", None);
    ("__FLOW_KEY_MAX", None)];
  Defines [
    ("FLOW_KEY_MAX", Sub (Id "__FLOW_KEY_MAX") (dec 1))]].
Definition enum_TCA_FLOW_UNSPEC : list decl := [
  Enum [
    ("TCA_FLOW_UNSPEC", None); ("TCA_FLOW_KEYS", None); ("TCA_FLOW_MODE", None);
    ("TCA_FLOW_BASECLASS", None); ("TCA_FLOW_RSHIFT", None); ("TCA_FLOW_ADDEND", None);
    ("TCA_FLOW_MASK", None); ("TCA_FLOW_XOR", None); ("TCA_FLOW_DIVISOR", None);
    ("TCA_FLOW_ACT", None); ("TCA_FLOW_POLICE", None); ("TCA_FLOW_EMATCHES", None);
    ("TCA_FLOW_PERTURB", None); ("__TCA_FLOW_MAX", None)];
  Defines [
    ("TCA_FLOW_MAX", Sub (Id "__TCA_FLOW_MAX") (dec 1))];
  Enum [
    ("TCA_BASIC_UNSPEC", None); ("TCA_BASIC_CLASSID", None); ("TCA_BASIC_EMATCHES", None);
    ("TCA_BASIC_ACT", None); ("TCA_BASIC_POLICE", None); ("__TCA_BASIC_MAX", None)];
  Defines [
    ("TCA_BASIC_MAX", Sub (Id "__TCA_BASIC_MAX") (dec 1))];
  Enum [
    ("TCA_CGROUP_UNSPEC", None); ("TCA_CGROUP_ACT", None); ("TCA_CGROUP_POLICE", None);
    ("TCA_CGROUP_EMATCHES", None); ("__TCA_CGROUP_MAX", None)];
  Defines [
    ("TCA_CGROUP_MAX", Sub (Id "__TCA_CGROUP_MAX") (dec 1));
    ("TCA_BPF_FLAG_ACT_DIRECT", Shl (dec 1) (dec 0))];
  Enum [
    ("TCA_BPF_UNSPEC", None); ("TCA_BPF_ACT", None); ("TCA_BPF_POLICE", None);
    ("TCA_BPF_CLASSID", None); ("TCA_BPF_OPS_LEN", None); ("TCA_BPF_OPS", None);
    ("TCA_BPF_FD", None); ("TCA_BPF_NAME", None); ("TCA_BPF_FLAGS", None);
    ("__TCA_BPF_MAX", None)];
  Defines [
    ("TCA_BPF_MAX", Sub (Id "__TCA_BPF_MAX") (dec 1))];
  Enum [
    ("TCA_FLOWER_UNSPEC", None); ("TCA_FLOWER_CLASSID", None); ("TCA_FLOWER_INDEV", None);
    ("TCA_FLOWER_ACT", None); ("TCA_FLOWER_KEY_ETH_DST", None);
    ("TCA_FLOWER_KEY_ETH_DST_MASK", None); ("TCA_FLOWER_KEY_ETH_SRC", None);
    ("TCA_FLOWER_KEY_ETH_SRC_MASK", None); ("TCA_FLOWER_KEY_ETH_TYPE", None);
    ("TCA_FLOWER_KEY_IP_PROTO", None); ("TCA_FLOWER_KEY_IPV4_SRC", None);
    ("TCA_FLOWER_KEY_IPV4_SRC_MASK", None); ("TCA_FLOWER_KEY_IPV4_DST", None);
    ("TCA_FLOWER_KEY_IPV4_DST_MASK", None); ("TCA_FLOWER_KEY_IPV6_SRC", None);
    ("TCA_FLOWER_KEY_IPV6_SRC_MASK", None); ("TCA_FLOWER_KEY_IPV6_DST", None);
    ("TCA_FLOWER_KEY_IPV6_DST_MASK", None); ("TCA_FLOWER_KEY_TCP_SRC", None);
    ("TCA_FLOWER_KEY_TCP_DST", None); ("TCA_FLOWER_KEY_UDP_SRC", None);
    ("TCA_FLOWER_KEY_UDP_DST", None); ("__TCA_FLOWER_MAX", None)];
  Defines [
    ("TCA_FLOWER_MAX", Sub (Id "__TCA_FLOWER_MAX") (dec 1))]].
Definition enum_TCA_EMATCH_TREE_UNSPEC : list decl := [
  Enum [
    ("TCA_EMATCH_TREE_UNSPEC", None); ("TCA_EMATCH_TREE_HDR", None);
    ("TCA_EMATCH_TREE_LIST", None); ("__TCA_EMATCH_TREE_MAX", None)];
  Defines [
    ("TCA_EMATCH_TREE_MAX", Sub (Id "__TCA_EMATCH_TREE_MAX") (dec 1))]].
Definition defs_TCF_EM_REL_END : list decl := [
  Defines [
    ("TCF_EM_REL_END", dec 0); ("TCF_EM_REL_AND", Shl (dec 1) (dec 0));
    ("TCF_EM_REL_OR", Shl (dec 1) (dec 1)); ("TCF_EM_INVERT", Shl (dec 1) (dec 2));
    ("TCF_EM_SIMPLE", Shl (dec 1) (dec 3)); ("TCF_EM_REL_MASK", dec 3)]].
Definition enum_TCF_LAYER_LINK : list decl := [
  Enum [
    ("TCF_LAYER_LINK", None); ("TCF_LAYER_NETWORK", None); ("TCF_LAYER_TRANSPORT", None);
    ("__TCF_LAYER_MAX", None)];
  Defines [
    ("TCF_LAYER_MAX", Sub (Id "__TCF_LAYER_MAX") (dec 1))];
  Defines [
    ("TCF_EM_CONTAINER", dec 0); ("TCF_EM_CMP", dec 1); ("TCF_EM_NBYTE", dec 2);
    ("TCF_EM_U32", dec 3); ("TCF_EM_META", dec 4); ("TCF_EM_TEXT", dec 5);
    ("TCF_EM_VLAN", dec 6); ("TCF_EM_CANID", dec 7); ("TCF_EM_IPSET", dec 8);
    ("TCF_EM_MAX", dec 8)]].
Definition enum_TCF_EM_OPND_EQ : list decl := [
  Enum [
    ("TCF_EM_OPND_EQ", None); ("TCF_EM_OPND_GT", None); ("TCF_EM_OPND_LT", None)]].
Definition header : header :=
  Header "linux/pkt_cls.h" [] (concat [
    enum_TCA_ACT_UNSPEC; enum_TCA_POLICE_UNSPEC; enum_TCA_U32_UNSPEC; defs_TC_U32_TERMINAL;
    enum_TCA_ROUTE4_UNSPEC; enum_TCA_FLOW_UNSPEC; enum_TCA_EMATCH_TREE_UNSPEC;
    defs_TCF_EM_REL_END; enum_TCF_LAYER_LINK; enum_TCF_EM_OPND_EQ]).
End Pkt_cls.

(** ** [linux/pkt_sched.h] *)

Module Pkt_sched.
Definition defs_TC_PRIO_BESTEFFORT : list decl := [
  Defines [
    ("TC_PRIO_BESTEFFORT", dec 0); ("TC_PRIO_FILLER", dec 1); ("TC_PRIO_BULK", dec 2);
    ("TC_PRIO_INTERACTIVE_BULK", dec 4); ("TC_PRIO_INTERACTIVE", dec 6);
    ("TC_PRIO_CONTROL", dec 7); ("TC_PRIO_MAX", dec 15)]].
Definition enum_tc_link_layer : list decl := [
  Enum [
    ("TC_LINKLAYER_UNAWARE", None); ("TC_LINKLAYER_ETHERNET", None); ("TC_LINKLAYER_ATM", None)];
  Defines [
    ("TC_LINKLAYER_MASK", hex 0x0F)]].
Definition enum_TCA_STAB_UNSPEC : list decl := [
  Enum [
    ("TCA_STAB_UNSPEC", None); ("TCA_STAB_BASE", None); ("TCA_STAB_DATA", None);
    ("__TCA_STAB_MAX", None)];
  Defines [
    ("TCA_STAB_MAX", Sub (Id "__TCA_STAB_MAX") (dec 1))]].
Definition defs_TCQ_PLUG_BUFFER : list decl := [
  Defines [
    ("TCQ_PLUG_BUFFER", dec 0); ("TCQ_PLUG_RELEASE_ONE", dec 1);
    ("TCQ_PLUG_RELEASE_INDEFINITE", dec 2); ("TCQ_PLUG_LIMIT", dec 3)]].
Definition enum_TCA_TBF_UNSPEC : list decl := [
  Enum [
    ("TCA_TBF_UNSPEC", None); ("TCA_TBF_PARMS", None); ("TCA_TBF_RTAB", None);
    ("TCA_TBF_PTAB", None); ("TCA_TBF_RATE64", None); ("TCA_TBF_PRATE64", None);
    ("TCA_TBF_BURST", None); ("TCA_TBF_PBURST", None); ("__TCA_TBF_MAX", None)];
  Defines [
    ("TCA_TBF_MAX", Sub (Id "__TCA_TBF_MAX") (dec 1))]].
Definition enum_TCA_RED_UNSPEC : list decl := [
  Enum [
    ("TCA_RED_UNSPEC", None); ("TCA_RED_PARMS", None); ("TCA_RED_STAB", None);
    ("TCA_RED_MAX_P", None); ("__TCA_RED_MAX", None)];
  Defines [
    ("TCA_RED_MAX", Sub (Id "__TCA_RED_MAX") (dec 1))]].
Definition enum_TCA_GRED_UNSPEC : list decl := [
  Enum [
    ("TCA_GRED_UNSPEC", None); ("TCA_GRED_PARMS", None); ("TCA_GRED_STAB", None);
    ("TCA_GRED_DPS", None); ("TCA_GRED_MAX_P", None); ("TCA_GRED_LIMIT", None);
    ("__TCA_GRED_MAX", None)];
  Defines [
    ("TCA_GRED_MAX", Sub (Id "__TCA_GRED_MAX") (dec 1))]].
Definition enum_TCA_CHOKE_UNSPEC : list decl := [
  Enum [
    ("TCA_CHOKE_UNSPEC", None); ("TCA_CHOKE_PARMS", None); ("TCA_CHOKE_STAB", None);
    ("TCA_CHOKE_MAX_P", None); ("__TCA_CHOKE_MAX", None)];
  Defines [
    ("TCA_CHOKE_MAX", Sub (Id "__TCA_CHOKE_MAX") (dec 1))]].
Definition enum_TCA_HTB_UNSPEC : list decl := [
  Enum [
    ("TCA_HTB_UNSPEC", None); ("TCA_HTB_PARMS", None); ("TCA_HTB_INIT", None);
    ("TCA_HTB_CTAB", None); ("TCA_HTB_RTAB", None); ("TCA_HTB_DIRECT_QLEN", None);
    ("TCA_HTB_RATE64", None); ("TCA_HTB_CEIL64", None); ("__TCA_HTB_MAX", None)];
  Defines [
    ("TCA_HTB_MAX", Sub (Id "__TCA_HTB_MAX") (dec 1))]].
Definition enum_TCA_HFSC_UNSPEC : list decl := [
  Enum [
    ("TCA_HFSC_UNSPEC", None); ("TCA_HFSC_RSC", None); ("TCA_HFSC_FSC", None);
    ("TCA_HFSC_USC", None); ("__TCA_HFSC_MAX", None)];
  Defines [
    ("TCA_HFSC_MAX", Sub (Id "__TCA_HFSC_MAX") (dec 1))]].
Definition enum_TCA_CBQ_UNSPEC : list decl := [
  Enum [
    ("TCA_CBQ_UNSPEC", None); ("TCA_CBQ_LSSOPT", None); ("TCA_CBQ_WRROPT", None);
    ("TCA_CBQ_FOPT", None); ("TCA_CBQ_OVL_STRATEGY", None); ("TCA_CBQ_RATE", None);
    ("TCA_CBQ_RTAB", None); ("TCA_CBQ_POLICE", None); ("__TCA_CBQ_MAX", None)];
  Defines [
    ("TCA_CBQ_MAX", Sub (Id "__TCA_CBQ_MAX") (dec 1))];
  Enum [
    ("TCA_DSMARK_UNSPEC", None); ("TCA_DSMARK_INDICES", None);
    ("TCA_DSMARK_DEFAULT_INDEX", None); ("TCA_DSMARK_SET_TC_INDEX", None);
    ("TCA_DSMARK_MASK", None); ("TCA_DSMARK_VALUE", None); ("__TCA_DSMARK_MAX", None)];
  Defines [
    ("TCA_DSMARK_MAX", Sub (Id "__TCA_DSMARK_MAX") (dec 1))];
  Enum [
    ("TCA_ATM_UNSPEC", None); ("TCA_ATM_FD", None); ("TCA_ATM_PTR", None); ("TCA_ATM_HDR", None);
    ("TCA_ATM_EXCESS", None); ("TCA_ATM_ADDR", None); ("TCA_ATM_STATE", None);
    ("__TCA_ATM_MAX", None)];
  Defines [
    ("TCA_ATM_MAX", Sub (Id "__TCA_ATM_MAX") (dec 1))];
  Enum [
    ("TCA_NETEM_UNSPEC", None); ("TCA_NETEM_CORR", None); ("TCA_NETEM_DELAY_DIST", None);
    ("TCA_NETEM_REORDER", None); ("TCA_NETEM_CORRUPT", None); ("TCA_NETEM_LOSS", None);
    ("TCA_NETEM_RATE", None); ("TCA_NETEM_ECN", None); ("TCA_NETEM_RATE64", None);
    ("__TCA_NETEM_MAX", None)];
  Defines [
    ("TCA_NETEM_MAX", Sub (Id "__TCA_NETEM_MAX") (dec 1))]].
Definition enum_NETEM_LOSS_UNSPEC : list decl := [
  Enum [
    ("NETEM_LOSS_UNSPEC", None); ("NETEM_LOSS_GI", None); ("NETEM_LOSS_GE", None);
    ("__NETEM_LOSS_MAX", None)];
  Defines [
    ("NETEM_LOSS_MAX", Sub (Id "__NETEM_LOSS_MAX") (dec 1))]].
Definition enum_TCA_DRR_UNSPEC : list decl := [
  Enum [
    ("TCA_DRR_UNSPEC", None); ("TCA_DRR_QUANTUM", None); ("__TCA_DRR_MAX", None)];
  Defines [
    ("TCA_DRR_MAX", Sub (Id "__TCA_DRR_MAX") (dec 1))]].
Definition enum_TCA_SFB_UNSPEC : list decl := [
  Enum [
    ("TCA_SFB_UNSPEC", None); ("TCA_SFB_PARMS", None); ("__TCA_SFB_MAX", None)];
  Defines [
    ("TCA_SFB_MAX", Sub (Id "__TCA_SFB_MAX") (dec 1))]].
Definition enum_TCA_QFQ_UNSPEC : list decl := [
  Enum [
    ("TCA_QFQ_UNSPEC", None); ("TCA_QFQ_WEIGHT", None); ("TCA_QFQ_LMAX", None);
    ("__TCA_QFQ_MAX", None)];
  Defines [
    ("TCA_QFQ_MAX", Sub (Id "__TCA_QFQ_MAX") (dec 1))]].
Definition enum_TCA_CODEL_UNSPEC : list decl := [
  Enum [
    ("TCA_CODEL_UNSPEC", None); ("TCA_CODEL_TARGET", None); ("TCA_CODEL_LIMIT", None);
    ("TCA_CODEL_INTERVAL", None); ("TCA_CODEL_ECN", None); ("TCA_CODEL_CE_THRESHOLD", None);
    ("__TCA_CODEL_MAX", None)];
  Defines [
    ("TCA_CODEL_MAX", Sub (Id "__TCA_CODEL_MAX") (dec 1))]].
Definition enum_TCA_FQ_CODEL_UNSPEC : list decl := [
  Enum [
    ("TCA_FQ_CODEL_UNSPEC", None); ("TCA_FQ_CODEL_TARGET", None); ("TCA_FQ_CODEL_LIMIT", None);
    ("TCA_FQ_CODEL_INTERVAL", None); ("TCA_FQ_CODEL_ECN", None); ("TCA_FQ_CODEL_FLOWS", None);
    ("TCA_FQ_CODEL_QUANTUM", None); ("TCA_FQ_CODEL_CE_THRESHOLD", None);
    ("__TCA_FQ_CODEL_MAX", None)];
  Defines [
    ("TCA_FQ_CODEL_MAX", Sub (Id "__TCA_FQ_CODEL_MAX") (dec 1))]].
Definition enum_TCA_FQ_UNSPEC : list decl := [
  Enum [
    ("TCA_FQ_UNSPEC", None); ("TCA_FQ_PLIMIT", None); ("TCA_FQ_FLOW_PLIMIT", None);
    ("TCA_FQ_QUANTUM", None); ("TCA_FQ_INITIAL_QUANTUM", None); ("TCA_FQ_RATE_ENABLE", None);
    ("TCA_FQ_FLOW_DEFAULT_RATE", None); ("TCA_FQ_FLOW_MAX_RATE", None);
    ("TCA_FQ_BUCKETS_LOG", None); ("TCA_FQ_FLOW_REFILL_DELAY", None);
    ("TCA_FQ_ORPHAN_MASK", None); ("__TCA_FQ_MAX", None)];
  Defines [
    ("TCA_FQ_MAX", Sub (Id "__TCA_FQ_MAX") (dec 1))]].
Definition enum_TCA_HHF_UNSPEC : list decl := [
  Enum [
    ("TCA_HHF_UNSPEC", None); ("TCA_HHF_BACKLOG_LIMIT", None); ("TCA_HHF_QUANTUM", None);
    ("TCA_HHF_HH_FLOWS_LIMIT", None); ("TCA_HHF_RESET_TIMEOUT", None);
    ("TCA_HHF_ADMIT_BYTES", None); ("TCA_HHF_EVICT_TIMEOUT", None);
    ("TCA_HHF_NON_HH_WEIGHT", None); ("__TCA_HHF_MAX", None)];
  Defines [
    ("TCA_HHF_MAX", Sub (Id "__TCA_HHF_MAX") (dec 1))]].
Definition enum_TCA_PIE_UNSPEC : list decl := [
  Enum [
    ("TCA_PIE_UNSPEC", None); ("TCA_PIE_TARGET", None); ("TCA_PIE_LIMIT", None);
    ("TCA_PIE_TUPDATE", None); ("TCA_PIE_ALPHA", None); ("TCA_PIE_BETA", None);
    ("TCA_PIE_ECN", None); ("TCA_PIE_BYTEMODE", None); ("__TCA_PIE_MAX", None)];
  Defines [
    ("TCA_PIE_MAX", Sub (Id "__TCA_PIE_MAX") (dec 1))]].
Definition header : header :=
  Header "linux/pkt_sched.h" [] (concat [
    defs_TC_PRIO_BESTEFFORT; enum_tc_link_layer; enum_TCA_STAB_UNSPEC; defs_TCQ_PLUG_BUFFER;
    enum_TCA_TBF_UNSPEC; enum_TCA_RED_UNSPEC; enum_TCA_GRED_UNSPEC; enum_TCA_CHOKE_UNSPEC;
    enum_TCA_HTB_UNSPEC; enum_TCA_HFSC_UNSPEC; enum_TCA_CBQ_UNSPEC; enum_NETEM_LOSS_UNSPEC;
    enum_TCA_DRR_UNSPEC; enum_TCA_SFB_UNSPEC; enum_TCA_QFQ_UNSPEC; enum_TCA_CODEL_UNSPEC;
    enum_TCA_FQ_CODEL_UNSPEC; enum_TCA_FQ_UNSPEC; enum_TCA_HHF_UNSPEC; enum_TCA_PIE_UNSPEC]).
End Pkt_sched.

(** ** [linux/rtnetlink.h] *)

Module Rtnetlink.
Definition enum_RTM_BASE : list decl := [
  Enum [
    ("RTM_BASE", Some (dec 16)); ("RTM_NEWLINK", Some (dec 16)); ("RTM_DELLINK", None);
    ("RTM_GETLINK", None); ("RTM_SETLINK", None); ("RTM_NEWADDR", Some (dec 20));
    ("RTM_DELADDR", None); ("RTM_GETADDR", None); ("RTM_NEWROUTE", Some (dec 24));
    ("RTM_DELROUTE", None); ("RTM_GETROUTE", None); ("RTM_NEWNEIGH", Some (dec 28));
    ("RTM_DELNEIGH", None); ("RTM_GETNEIGH", None); ("RTM_NEWRULE", Some (dec 32));
    ("RTM_DELRULE", None); ("RTM_GETRULE", None); ("RTM_NEWQDISC", Some (dec 36));
    ("RTM_DELQDISC", None); ("RTM_GETQDISC", None); ("RTM_NEWTCLASS", Some (dec 40));
    ("RTM_DELTCLASS", None); ("RTM_GETTCLASS", None); ("RTM_NEWTFILTER", Some (dec 44));
    ("RTM_DELTFILTER", None); ("RTM_GETTFILTER", None); ("RTM_NEWACTION", Some (dec 48));
    ("RTM_DELACTION", None); ("RTM_GETACTION", None); ("RTM_NEWPREFIX", Some (dec 52));
    ("RTM_GETMULTICAST", Some (dec 58)); ("RTM_GETANYCAST", Some (dec 62));
    ("RTM_NEWNEIGHTBL", Some (dec 64)); ("RTM_GETNEIGHTBL", Some (dec 66));
    ("RTM_SETNEIGHTBL", None); ("RTM_NEWNDUSEROPT", Some (dec 68));
    ("RTM_NEWADDRLABEL", Some (dec 72)); ("RTM_DELADDRLABEL", None); ("RTM_GETADDRLABEL", None);
    ("RTM_GETDCB", Some (dec 78)); ("RTM_SETDCB", None); ("RTM_NEWNETCONF", Some (dec 80));
    ("RTM_GETNETCONF", Some (dec 82)); ("RTM_NEWMDB", Some (dec 84));
    ("RTM_DELMDB", Some (dec 85)); ("RTM_GETMDB", Some (dec 86)); ("RTM_NEWNSID", Some (dec 88));
    ("RTM_DELNSID", Some (dec 89)); ("RTM_GETNSID", Some (dec 90)); ("__RTM_MAX", None)]].
Definition defs_RTM_MAX : list decl := [
  Defines [
    ("RTM_MAX", Sub (And (Add (Id "__RTM_MAX") (dec 3)) (Not (dec 3))) (dec 1))]].
Definition defs_RTM_NR_MSGTYPES : list decl := [
  Defines [
    ("RTM_NR_MSGTYPES", Sub (Add (Id "RTM_MAX") (dec 1)) (Id "RTM_BASE"));
    ("RTM_NR_FAMILIES", Shr (Id "RTM_NR_MSGTYPES") (dec 2))]].
Definition enum_RTN_UNSPEC : list decl := [
  Enum [
    ("RTN_UNSPEC", None); ("RTN_UNICAST", None); ("RTN_LOCAL", None); ("RTN_BROADCAST", None);
    ("RTN_ANYCAST", None); ("RTN_MULTICAST", None); ("RTN_BLACKHOLE", None);
    ("RTN_UNREACHABLE", None); ("RTN_PROHIBIT", None); ("RTN_THROW", None); ("RTN_NAT", None);
    ("RTN_XRESOLVE", None); ("__RTN_MAX", None)];
  Defines [
    ("RTN_MAX", Sub (Id "__RTN_MAX") (dec 1))];
  Defines [
    ("RTPROT_UNSPEC", dec 0); ("RTPROT_REDIRECT", dec 1); ("RTPROT_KERNEL", dec 2);
    ("RTPROT_BOOT", dec 3); ("RTPROT_STATIC", dec 4)];
  Defines [
    ("RTPROT_GATED", dec 8); ("RTPROT_RA", dec 9); ("RTPROT_MRT", dec 10);
    ("RTPROT_ZEBRA", dec 11); ("RTPROT_BIRD", dec 12); ("RTPROT_DNROUTED", dec 13);
    ("RTPROT_XORP", dec 14); ("RTPROT_NTK", dec 15); ("RTPROT_DHCP", dec 16);
    ("RTPROT_MROUTED", dec 17); ("RTPROT_BABEL", dec 42)];
  Enum [
    ("RT_SCOPE_UNIVERSE", Some (dec 0)); ("RT_SCOPE_SITE", Some (dec 200));
    ("RT_SCOPE_LINK", Some (dec 253)); ("RT_SCOPE_HOST", Some (dec 254));
    ("RT_SCOPE_NOWHERE", Some (dec 255))];
  Defines [
    ("RTM_F_NOTIFY", hex 0x100); ("RTM_F_CLONED", hex 0x200); ("RTM_F_EQUALIZE", hex 0x400);
    ("RTM_F_PREFIX", hex 0x800); ("RTM_F_LOOKUP_TABLE", hex 0x1000)];
  Enum [
    ("RT_TABLE_UNSPEC", Some (dec 0)); ("RT_TABLE_COMPAT", Some (dec 252));
    ("RT_TABLE_DEFAULT", Some (dec 253)); ("RT_TABLE_MAIN", Some (dec 254));
    ("RT_TABLE_LOCAL", Some (dec 255)); ("RT_TABLE_MAX", Some (hex 0xFFFFFFFF))];
  Enum [
    ("RTA_UNSPEC", None); ("RTA_DST", None); ("RTA_SRC", None); ("RTA_IIF", None);
    ("RTA_OIF", None); ("RTA_GATEWAY", None); ("RTA_PRIORITY", None); ("RTA_PREFSRC", None);
    ("RTA_METRICS", None); ("RTA_MULTIPATH", None); ("RTA_PROTOINFO", None); ("RTA_FLOW", None);
    ("RTA_CACHEINFO", None); ("RTA_SESSION", None); ("RTA_MP_ALGO", None); ("RTA_TABLE", None);
    ("RTA_MARK", None); ("RTA_MFC_STATS", None); ("RTA_VIA", None); ("RTA_NEWDST", None);
    ("RTA_PREF", None); ("RTA_ENCAP_TYPE", None); ("RTA_ENCAP", None); ("RTA_EXPIRES", None);
    ("RTA_PAD", None); ("RTA_UID", None); ("__RTA_MAX", None)];
  Defines [
    ("RTA_MAX", Sub (Id "__RTA_MAX") (dec 1))]].
Definition defs_RTNH_F_DEAD : list decl := [
  Defines [
    ("RTNH_F_DEAD", dec 1); ("RTNH_F_PERVASIVE", dec 2); ("RTNH_F_ONLINK", dec 4);
    ("RTNH_F_OFFLOAD", dec 8); ("RTNH_F_LINKDOWN", dec 16);
    ("RTNH_COMPARE_MASK", Or (Or (Id "RTNH_F_DEAD") (Id "RTNH_F_LINKDOWN")) (Id "RTNH_F_OFFLOAD"));
    ("RTNH_ALIGNTO", dec 4)]].
Definition enum_RTAX_UNSPEC : list decl := [
  Enum [
    ("RTAX_UNSPEC", None); ("RTAX_LOCK", None); ("RTAX_MTU", None); ("RTAX_WINDOW", None);
    ("RTAX_RTT", None); ("RTAX_RTTVAR", None); ("RTAX_SSTHRESH", None); ("RTAX_CWND", None);
    ("RTAX_ADVMSS", None); ("RTAX_REORDERING", None); ("RTAX_HOPLIMIT", None);
    ("RTAX_INITCWND", None); ("RTAX_FEATURES", None); ("RTAX_RTO_MIN", None);
    ("RTAX_INITRWND", None); ("RTAX_QUICKACK", None); ("RTAX_CC_ALGO", None);
    ("__RTAX_MAX", None)];
  Defines [
    ("RTAX_MAX", Sub (Id "__RTAX_MAX") (dec 1)); ("RTAX_FEATURE_ECN", Shl (dec 1) (dec 0));
    ("RTAX_FEATURE_SACK", Shl (dec 1) (dec 1)); ("RTAX_FEATURE_TIMESTAMP", Shl (dec 1) (dec 2));
    ("RTAX_FEATURE_ALLFRAG", Shl (dec 1) (dec 3));
    ("RTAX_FEATURE_MASK", Or (Or (Or (Id "RTAX_FEATURE_ECN") (Id "RTAX_FEATURE_SACK")) (Id "RTAX_FEATURE_TIMESTAMP")) (Id "RTAX_FEATURE_ALLFRAG"))]].
Definition enum_PREFIX_UNSPEC : list decl := [
  Enum [
    ("PREFIX_UNSPEC", None); ("PREFIX_ADDRESS", None); ("PREFIX_CACHEINFO", None);
    ("__PREFIX_MAX", None)];
  Defines [
    ("PREFIX_MAX", Sub (Id "__PREFIX_MAX") (dec 1))]].
Definition enum_TCA_UNSPEC : list decl := [
  Enum [
    ("TCA_UNSPEC", None); ("TCA_KIND", None); ("TCA_OPTIONS", None); ("TCA_STATS", None);
    ("TCA_XSTATS", None); ("TCA_RATE", None); ("TCA_FCNT", None); ("TCA_STATS2", None);
    ("TCA_STAB", None); ("__TCA_MAX", None)];
  Defines [
    ("TCA_MAX", Sub (Id "__TCA_MAX") (dec 1))]].
Definition enum_NDUSEROPT_UNSPEC : list decl := [
  Enum [
    ("NDUSEROPT_UNSPEC", None); ("NDUSEROPT_SRCADDR", None); ("__NDUSEROPT_MAX", None)];
  Defines [
    ("NDUSEROPT_MAX", Sub (Id "__NDUSEROPT_MAX") (dec 1)); ("RTMGRP_LINK", dec 1);
    ("RTMGRP_NOTIFY", dec 2); ("RTMGRP_NEIGH", dec 4); ("RTMGRP_TC", dec 8);
    ("RTMGRP_IPV4_IFADDR", hex 0x10); ("RTMGRP_IPV4_MROUTE", hex 0x20);
    ("RTMGRP_IPV4_ROUTE", hex 0x40); ("RTMGRP_IPV4_RULE", hex 0x80);
    ("RTMGRP_IPV6_IFADDR", hex 0x100); ("RTMGRP_IPV6_MROUTE", hex 0x200);
    ("RTMGRP_IPV6_ROUTE", hex 0x400); ("RTMGRP_IPV6_IFINFO", hex 0x800);
    ("RTMGRP_DECnet_IFADDR", hex 0x1000); ("RTMGRP_DECnet_ROUTE", hex 0x4000);
    ("RTMGRP_IPV6_PREFIX", hex 0x20000)];
  Enum [
    ("RTNLGRP_NONE", None); ("RTNLGRP_LINK", None); ("RTNLGRP_NOTIFY", None);
    ("RTNLGRP_NEIGH", None); ("RTNLGRP_TC", None); ("RTNLGRP_IPV4_IFADDR", None);
    ("RTNLGRP_IPV4_MROUTE", None); ("RTNLGRP_IPV4_ROUTE", None); ("RTNLGRP_IPV4_RULE", None);
    ("RTNLGRP_IPV6_IFADDR", None); ("RTNLGRP_IPV6_MROUTE", None); ("RTNLGRP_IPV6_ROUTE", None);
    ("RTNLGRP_IPV6_IFINFO", None); ("RTNLGRP_DECnet_IFADDR", None); ("RTNLGRP_NOP2", None);
    ("RTNLGRP_DECnet_ROUTE", None); ("RTNLGRP_DECnet_RULE", None); ("RTNLGRP_NOP4", None);
    ("RTNLGRP_IPV6_PREFIX", None); ("RTNLGRP_IPV6_RULE", None); ("RTNLGRP_ND_USEROPT", None);
    ("RTNLGRP_PHONET_IFADDR", None); ("RTNLGRP_PHONET_ROUTE", None); ("RTNLGRP_DCB", None);
    ("RTNLGRP_IPV4_NETCONF", None); ("RTNLGRP_IPV6_NETCONF", None); ("RTNLGRP_MDB", None);
    ("RTNLGRP_MPLS_ROUTE", None); ("RTNLGRP_NSID", None); ("__RTNLGRP_MAX", None)];
  Defines [
    ("RTNLGRP_MAX", Sub (Id "__RTNLGRP_MAX") (dec 1))]].
Definition defs_TCA_ACT_TAB : list decl := [
  Defines [
    ("TCA_ACT_TAB", dec 1); ("TCAA_MAX", dec 1); ("RTEXT_FILTER_VF", Shl (dec 1) (dec 0));
    ("RTEXT_FILTER_BRVLAN", Shl (dec 1) (dec 1));
    ("RTEXT_FILTER_BRVLAN_COMPRESSED", Shl (dec 1) (dec 2));
    ("RTEXT_FILTER_SKIP_STATS", Shl (dec 1) (dec 3))]].
Definition header : header :=
  Header "linux/rtnetlink.h" [] (concat [
    enum_RTM_BASE; defs_RTM_MAX; defs_RTM_NR_MSGTYPES; enum_RTN_UNSPEC; defs_RTNH_F_DEAD;
    enum_RTAX_UNSPEC; enum_PREFIX_UNSPEC; enum_TCA_UNSPEC; enum_NDUSEROPT_UNSPEC;
    defs_TCA_ACT_TAB]).
End Rtnetlink.

(** ** [linux/snmp.h] *)

Module Snmp.
Definition enum_IPSTATS_MIB_NUM : list decl := [
  Enum [
    ("IPSTATS_MIB_NUM", Some (dec 0)); ("IPSTATS_MIB_INPKTS", None);
    ("IPSTATS_MIB_INOCTETS", None); ("IPSTATS_MIB_INDELIVERS", None);
    ("IPSTATS_MIB_OUTFORWDATAGRAMS", None); ("IPSTATS_MIB_OUTPKTS", None);
    ("IPSTATS_MIB_OUTOCTETS", None); ("IPSTATS_MIB_INHDRERRORS", None);
    ("IPSTATS_MIB_INTOOBIGERRORS", None); ("IPSTATS_MIB_INNOROUTES", None);
    ("IPSTATS_MIB_INADDRERRORS", None); ("IPSTATS_MIB_INUNKNOWNPROTOS", None);
    ("IPSTATS_MIB_INTRUNCATEDPKTS", None); ("IPSTATS_MIB_INDISCARDS", None);
    ("IPSTATS_MIB_OUTDISCARDS", None); ("IPSTATS_MIB_OUTNOROUTES", None);
    ("IPSTATS_MIB_REASMTIMEOUT", None); ("IPSTATS_MIB_REASMREQDS", None);
    ("IPSTATS_MIB_REASMOKS", None); ("IPSTATS_MIB_REASMFAILS", None);
    ("IPSTATS_MIB_FRAGOKS", None); ("IPSTATS_MIB_FRAGFAILS", None);
    ("IPSTATS_MIB_FRAGCREATES", None); ("IPSTATS_MIB_INMCASTPKTS", None);
    ("IPSTATS_MIB_OUTMCASTPKTS", None); ("IPSTATS_MIB_INBCASTPKTS", None);
    ("IPSTATS_MIB_OUTBCASTPKTS", None); ("IPSTATS_MIB_INMCASTOCTETS", None);
    ("IPSTATS_MIB_OUTMCASTOCTETS", None); ("IPSTATS_MIB_INBCASTOCTETS", None);
    ("IPSTATS_MIB_OUTBCASTOCTETS", None); ("IPSTATS_MIB_CSUMERRORS", None);
    ("IPSTATS_MIB_NOECTPKTS", None); ("IPSTATS_MIB_ECT1PKTS", None);
    ("IPSTATS_MIB_ECT0PKTS", None); ("IPSTATS_MIB_CEPKTS", None);
    ("IPSTATS_MIB_REASM_OVERLAPS", None); ("__IPSTATS_MIB_MAX", None)];
  Enum [
    ("ICMP_MIB_NUM", Some (dec 0)); ("ICMP_MIB_INMSGS", None); ("ICMP_MIB_INERRORS", None);
    ("ICMP_MIB_INDESTUNREACHS", None); ("ICMP_MIB_INTIMEEXCDS", None);
    ("ICMP_MIB_INPARMPROBS", None); ("ICMP_MIB_INSRCQUENCHS", None);
    ("ICMP_MIB_INREDIRECTS", None); ("ICMP_MIB_INECHOS", None); ("ICMP_MIB_INECHOREPS", None);
    ("ICMP_MIB_INTIMESTAMPS", None); ("ICMP_MIB_INTIMESTAMPREPS", None);
    ("ICMP_MIB_INADDRMASKS", None); ("ICMP_MIB_INADDRMASKREPS", None);
    ("ICMP_MIB_OUTMSGS", None); ("ICMP_MIB_OUTERRORS", None); ("ICMP_MIB_OUTDESTUNREACHS", None);
    ("ICMP_MIB_OUTTIMEEXCDS", None); ("ICMP_MIB_OUTPARMPROBS", None);
    ("ICMP_MIB_OUTSRCQUENCHS", None); ("ICMP_MIB_OUTREDIRECTS", None);
    ("ICMP_MIB_OUTECHOS", None); ("ICMP_MIB_OUTECHOREPS", None);
    ("ICMP_MIB_OUTTIMESTAMPS", None); ("ICMP_MIB_OUTTIMESTAMPREPS", None);
    ("ICMP_MIB_OUTADDRMASKS", None); ("ICMP_MIB_OUTADDRMASKREPS", None);
    ("ICMP_MIB_CSUMERRORS", None); ("__ICMP_MIB_MAX", None)];
  Defines [
    ("__ICMPMSG_MIB_MAX", dec 512)];
  Enum [
    ("ICMP6_MIB_NUM", Some (dec 0)); ("ICMP6_MIB_INMSGS", None); ("ICMP6_MIB_INERRORS", None);
    ("ICMP6_MIB_OUTMSGS", None); ("ICMP6_MIB_OUTERRORS", None); ("ICMP6_MIB_CSUMERRORS", None);
    ("__ICMP6_MIB_MAX", None)];
  Defines [
    ("__ICMP6MSG_MIB_MAX", dec 512)];
  Enum [
    ("TCP_MIB_NUM", Some (dec 0)); ("TCP_MIB_RTOALGORITHM", None); ("TCP_MIB_RTOMIN", None);
    ("TCP_MIB_RTOMAX", None); ("TCP_MIB_MAXCONN", None); ("TCP_MIB_ACTIVEOPENS", None);
    ("TCP_MIB_PASSIVEOPENS", None); ("TCP_MIB_ATTEMPTFAILS", None);
    ("TCP_MIB_ESTABRESETS", None); ("TCP_MIB_CURRESTAB", None); ("TCP_MIB_INSEGS", None);
    ("TCP_MIB_OUTSEGS", None); ("TCP_MIB_RETRANSSEGS", None); ("TCP_MIB_INERRS", None);
    ("TCP_MIB_OUTRSTS", None); ("TCP_MIB_CSUMERRORS", None); ("__TCP_MIB_MAX", None)];
  Enum [
    ("UDP_MIB_NUM", Some (dec 0)); ("UDP_MIB_INDATAGRAMS", None); ("UDP_MIB_NOPORTS", None);
    ("UDP_MIB_INERRORS", None); ("UDP_MIB_OUTDATAGRAMS", None); ("UDP_MIB_RCVBUFERRORS", None);
    ("UDP_MIB_SNDBUFERRORS", None); ("UDP_MIB_CSUMERRORS", None); ("UDP_MIB_IGNOREDMULTI", None);
    ("__UDP_MIB_MAX", None)]].
Definition enum_LINUX_MIB_NUM : list decl := [
  Enum [
    ("LINUX_MIB_NUM", Some (dec 0)); ("LINUX_MIB_SYNCOOKIESSENT", None);
    ("LINUX_MIB_SYNCOOKIESRECV", None); ("LINUX_MIB_SYNCOOKIESFAILED", None);
    ("LINUX_MIB_EMBRYONICRSTS", None); ("LINUX_MIB_PRUNECALLED", None);
    ("LINUX_MIB_RCVPRUNED", None); ("LINUX_MIB_OFOPRUNED", None);
    ("LINUX_MIB_OUTOFWINDOWICMPS", None); ("LINUX_MIB_LOCKDROPPEDICMPS", None);
    ("LINUX_MIB_ARPFILTER", None); ("LINUX_MIB_TIMEWAITED", None);
    ("LINUX_MIB_TIMEWAITRECYCLED", None); ("LINUX_MIB_TIMEWAITKILLED", None);
    ("LINUX_MIB_PAWSPASSIVEREJECTED", None); ("LINUX_MIB_PAWSACTIVEREJECTED", None);
    ("LINUX_MIB_PAWSESTABREJECTED", None); ("LINUX_MIB_DELAYEDACKS", None);
    ("LINUX_MIB_DELAYEDACKLOCKED", None); ("LINUX_MIB_DELAYEDACKLOST", None);
    ("LINUX_MIB_LISTENOVERFLOWS", None); ("LINUX_MIB_LISTENDROPS", None);
    ("LINUX_MIB_TCPPREQUEUED", None); ("LINUX_MIB_TCPDIRECTCOPYFROMBACKLOG", None);
    ("LINUX_MIB_TCPDIRECTCOPYFROMPREQUEUE", None); ("LINUX_MIB_TCPPREQUEUEDROPPED", None);
    ("LINUX_MIB_TCPHPHITS", None); ("LINUX_MIB_TCPHPHITSTOUSER", None);
    ("LINUX_MIB_TCPPUREACKS", None); ("LINUX_MIB_TCPHPACKS", None);
    ("LINUX_MIB_TCPRENORECOVERY", None); ("LINUX_MIB_TCPSACKRECOVERY", None);
    ("LINUX_MIB_TCPSACKRENEGING", None); ("LINUX_MIB_TCPFACKREORDER", None);
    ("LINUX_MIB_TCPSACKREORDER", None); ("LINUX_MIB_TCPRENOREORDER", None);
    ("LINUX_MIB_TCPTSREORDER", None); ("LINUX_MIB_TCPFULLUNDO", None);
    ("LINUX_MIB_TCPPARTIALUNDO", None); ("LINUX_MIB_TCPDSACKUNDO", None);
    ("LINUX_MIB_TCPLOSSUNDO", None); ("LINUX_MIB_TCPLOSTRETRANSMIT", None);
    ("LINUX_MIB_TCPRENOFAILURES", None); ("LINUX_MIB_TCPSACKFAILURES", None);
    ("LINUX_MIB_TCPLOSSFAILURES", None); ("LINUX_MIB_TCPFASTRETRANS", None);
    ("LINUX_MIB_TCPFORWARDRETRANS", None); ("LINUX_MIB_TCPSLOWSTARTRETRANS", None);
    ("LINUX_MIB_TCPTIMEOUTS", None); ("LINUX_MIB_TCPLOSSPROBES", None);
    ("LINUX_MIB_TCPLOSSPROBERECOVERY", None); ("LINUX_MIB_TCPRENORECOVERYFAIL", None);
    ("LINUX_MIB_TCPSACKRECOVERYFAIL", None); ("LINUX_MIB_TCPSCHEDULERFAILED", None);
    ("LINUX_MIB_TCPRCVCOLLAPSED", None); ("LINUX_MIB_TCPDSACKOLDSENT", None);
    ("LINUX_MIB_TCPDSACKOFOSENT", None); ("LINUX_MIB_TCPDSACKRECV", None);
    ("LINUX_MIB_TCPDSACKOFORECV", None); ("LINUX_MIB_TCPABORTONDATA", None);
    ("LINUX_MIB_TCPABORTONCLOSE", None); ("LINUX_MIB_TCPABORTONMEMORY", None);
    ("LINUX_MIB_TCPABORTONTIMEOUT", None); ("LINUX_MIB_TCPABORTONLINGER", None);
    ("LINUX_MIB_TCPABORTFAILED", None); ("LINUX_MIB_TCPMEMORYPRESSURES", None);
    ("LINUX_MIB_TCPSACKDISCARD", None); ("LINUX_MIB_TCPDSACKIGNOREDOLD", None);
    ("LINUX_MIB_TCPDSACKIGNOREDNOUNDO", None); ("LINUX_MIB_TCPSPURIOUSRTOS", None);
    ("LINUX_MIB_TCPMD5NOTFOUND", None); ("LINUX_MIB_TCPMD5UNEXPECTED", None);
    ("LINUX_MIB_SACKSHIFTED", None); ("LINUX_MIB_SACKMERGED", None);
    ("LINUX_MIB_SACKSHIFTFALLBACK", None); ("LINUX_MIB_TCPBACKLOGDROP", None);
    ("LINUX_MIB_TCPMINTTLDROP", None); ("LINUX_MIB_TCPDEFERACCEPTDROP", None);
    ("LINUX_MIB_IPRPFILTER", None); ("LINUX_MIB_TCPTIMEWAITOVERFLOW", None);
    ("LINUX_MIB_TCPREQQFULLDOCOOKIES", None); ("LINUX_MIB_TCPREQQFULLDROP", None);
    ("LINUX_MIB_TCPRETRANSFAIL", None); ("LINUX_MIB_TCPRCVCOALESCE", None);
    ("LINUX_MIB_TCPOFOQUEUE", None); ("LINUX_MIB_TCPOFODROP", None);
    ("LINUX_MIB_TCPOFOMERGE", None); ("LINUX_MIB_TCPCHALLENGEACK", None);
    ("LINUX_MIB_TCPSYNCHALLENGE", None); ("LINUX_MIB_TCPFASTOPENACTIVE", None);
    ("LINUX_MIB_TCPFASTOPENACTIVEFAIL", None); ("LINUX_MIB_TCPFASTOPENPASSIVE", None);
    ("LINUX_MIB_TCPFASTOPENPASSIVEFAIL", None); ("LINUX_MIB_TCPFASTOPENLISTENOVERFLOW", None);
    ("LINUX_MIB_TCPFASTOPENCOOKIEREQD", None); ("LINUX_MIB_TCPSPURIOUS_RTX_HOSTQUEUES", None);
    ("LINUX_MIB_BUSYPOLLRXPACKETS", None); ("LINUX_MIB_TCPAUTOCORKING", None);
    ("LINUX_MIB_TCPFROMZEROWINDOWADV", None); ("LINUX_MIB_TCPTOZEROWINDOWADV", None);
    ("LINUX_MIB_TCPWANTZEROWINDOWADV", None); ("LINUX_MIB_TCPSYNRETRANS", None);
    ("LINUX_MIB_TCPORIGDATASENT", None); ("LINUX_MIB_TCPHYSTARTTRAINDETECT", None);
    ("LINUX_MIB_TCPHYSTARTTRAINCWND", None); ("LINUX_MIB_TCPHYSTARTDELAYDETECT", None);
    ("LINUX_MIB_TCPHYSTARTDELAYCWND", None); ("LINUX_MIB_TCPACKSKIPPEDSYNRECV", None);
    ("LINUX_MIB_TCPACKSKIPPEDPAWS", None); ("LINUX_MIB_TCPACKSKIPPEDSEQ", None);
    ("LINUX_MIB_TCPACKSKIPPEDFINWAIT2", None); ("LINUX_MIB_TCPACKSKIPPEDTIMEWAIT", None);
    ("LINUX_MIB_TCPACKSKIPPEDCHALLENGE", None); ("LINUX_MIB_TCPWINPROBE", None);
    ("LINUX_MIB_TCPKEEPALIVE", None); ("LINUX_MIB_TCPMTUPFAIL", None);
    ("LINUX_MIB_TCPMTUPSUCCESS", None); ("LINUX_MIB_TCPWQUEUETOOBIG", None);
    ("__LINUX_MIB_MAX", None)]].
Definition enum_LINUX_MIB_XFRMNUM : list decl := [
  Enum [
    ("LINUX_MIB_XFRMNUM", Some (dec 0)); ("LINUX_MIB_XFRMINERROR", None);
    ("LINUX_MIB_XFRMINBUFFERERROR", None); ("LINUX_MIB_XFRMINHDRERROR", None);
    ("LINUX_MIB_XFRMINNOSTATES", None); ("LINUX_MIB_XFRMINSTATEPROTOERROR", None);
    ("LINUX_MIB_XFRMINSTATEMODEERROR", None); ("LINUX_MIB_XFRMINSTATESEQERROR", None);
    ("LINUX_MIB_XFRMINSTATEEXPIRED", None); ("LINUX_MIB_XFRMINSTATEMISMATCH", None);
    ("LINUX_MIB_XFRMINSTATEINVALID", None); ("LINUX_MIB_XFRMINTMPLMISMATCH", None);
    ("LINUX_MIB_XFRMINNOPOLS", None); ("LINUX_MIB_XFRMINPOLBLOCK", None);
    ("LINUX_MIB_XFRMINPOLERROR", None); ("LINUX_MIB_XFRMOUTERROR", None);
    ("LINUX_MIB_XFRMOUTBUNDLEGENERROR", None); ("LINUX_MIB_XFRMOUTBUNDLECHECKERROR", None);
    ("LINUX_MIB_XFRMOUTNOSTATES", None); ("LINUX_MIB_XFRMOUTSTATEPROTOERROR", None);
    ("LINUX_MIB_XFRMOUTSTATEMODEERROR", None); ("LINUX_MIB_XFRMOUTSTATESEQERROR", None);
    ("LINUX_MIB_XFRMOUTSTATEEXPIRED", None); ("LINUX_MIB_XFRMOUTPOLBLOCK", None);
    ("LINUX_MIB_XFRMOUTPOLDEAD", None); ("LINUX_MIB_XFRMOUTPOLERROR", None);
    ("LINUX_MIB_XFRMFWDHDRERROR", None); ("LINUX_MIB_XFRMOUTSTATEINVALID", None);
    ("LINUX_MIB_XFRMACQUIREERROR", None); ("__LINUX_MIB_XFRMMAX", None)]].
Definition header : header :=
  Header "linux/snmp.h" [] (concat [
    enum_IPSTATS_MIB_NUM; enum_LINUX_MIB_NUM; enum_LINUX_MIB_XFRMNUM]).
End Snmp.

(** ** [linux/tc_act/tc_bpf.h] *)

Module Tc_act_tc_bpf.
Definition enum_TCA_ACT_BPF_UNSPEC : list decl := [
  Enum [
    ("TCA_ACT_BPF_UNSPEC", None); ("TCA_ACT_BPF_TM", None); ("TCA_ACT_BPF_PARMS", None);
    ("TCA_ACT_BPF_OPS_LEN", None); ("TCA_ACT_BPF_OPS", None); ("TCA_ACT_BPF_FD", None);
    ("TCA_ACT_BPF_NAME", None); ("__TCA_ACT_BPF_MAX", None)];
  Defines [
    ("TCA_ACT_BPF_MAX", Sub (Id "__TCA_ACT_BPF_MAX") (dec 1))]].
Definition header : header :=
  Header "linux/tc_act/tc_bpf.h" [] (concat [
    enum_TCA_ACT_BPF_UNSPEC]).
End Tc_act_tc_bpf.

(** ** [linux/tc_act/tc_connmark.h] *)

Module Tc_act_tc_connmark.
Definition enum_TCA_CONNMARK_UNSPEC : list decl := [
  Enum [
    ("TCA_CONNMARK_UNSPEC", None); ("TCA_CONNMARK_PARMS", None); ("TCA_CONNMARK_TM", None);
    ("__TCA_CONNMARK_MAX", None)];
  Defines [
    ("TCA_CONNMARK_MAX", Sub (Id "__TCA_CONNMARK_MAX") (dec 1))]].
Definition header : header :=
  Header "linux/tc_act/tc_connmark.h" [] (concat [
    enum_TCA_CONNMARK_UNSPEC]).
End Tc_act_tc_connmark.

(** ** [linux/tc_act/tc_csum.h] *)

Module Tc_act_tc_csum.
Definition enum_TCA_CSUM_UNSPEC : list decl := [
  Enum [
    ("TCA_CSUM_UNSPEC", None); ("TCA_CSUM_PARMS", None); ("TCA_CSUM_TM", None);
    ("__TCA_CSUM_MAX", None)];
  Defines [
    ("TCA_CSUM_MAX", Sub (Id "__TCA_CSUM_MAX") (dec 1))];
  Enum [
    ("TCA_CSUM_UPDATE_FLAG_IPV4HDR", Some (dec 1)); ("TCA_CSUM_UPDATE_FLAG_ICMP", Some (dec 2));
    ("TCA_CSUM_UPDATE_FLAG_IGMP", Some (dec 4)); ("TCA_CSUM_UPDATE_FLAG_TCP", Some (dec 8));
    ("TCA_CSUM_UPDATE_FLAG_UDP", Some (dec 16)); ("TCA_CSUM_UPDATE_FLAG_UDPLITE", Some (dec 32))]].
Definition header : header :=
  Header "linux/tc_act/tc_csum.h" [] (concat [
    enum_TCA_CSUM_UNSPEC]).
End Tc_act_tc_csum.

(** ** [linux/tc_act/tc_defact.h] *)

Module Tc_act_tc_defact.
Definition enum_TCA_DEF_UNSPEC : list decl := [
  Enum [
    ("TCA_DEF_UNSPEC", None); ("TCA_DEF_TM", None); ("TCA_DEF_PARMS", None);
    ("TCA_DEF_DATA", None); ("__TCA_DEF_MAX", None)];
  Defines [
    ("TCA_DEF_MAX", Sub (Id "__TCA_DEF_MAX") (dec 1))]].
Definition header : header :=
  Header "linux/tc_act/tc_defact.h" [] (concat [
    enum_TCA_DEF_UNSPEC]).
End Tc_act_tc_defact.

(** ** [linux/tc_act/tc_gact.h] *)

Module Tc_act_tc_gact.
Definition enum_TCA_GACT_UNSPEC : list decl := [
  Enum [
    ("TCA_GACT_UNSPEC", None); ("TCA_GACT_TM", None); ("TCA_GACT_PARMS", None);
    ("TCA_GACT_PROB", None); ("__TCA_GACT_MAX", None)];
  Defines [
    ("TCA_GACT_MAX", Sub (Id "__TCA_GACT_MAX") (dec 1))]].
Definition header : header :=
  Header "linux/tc_act/tc_gact.h" [] (concat [
    enum_TCA_GACT_UNSPEC]).
End Tc_act_tc_gact.

(** ** [linux/tc_act/tc_ipt.h] *)

Module Tc_act_tc_ipt.
Definition enum_TCA_IPT_UNSPEC : list decl := [
  Enum [
    ("TCA_IPT_UNSPEC", None); ("TCA_IPT_TABLE", None); ("TCA_IPT_HOOK", None);
    ("TCA_IPT_INDEX", None); ("TCA_IPT_CNT", None); ("TCA_IPT_TM", None); ("TCA_IPT_TARG", None);
    ("__TCA_IPT_MAX", None)];
  Defines [
    ("TCA_IPT_MAX", Sub (Id "__TCA_IPT_MAX") (dec 1))]].
Definition header : header :=
  Header "linux/tc_act/tc_ipt.h" [] (concat [
    enum_TCA_IPT_UNSPEC]).
End Tc_act_tc_ipt.

(** ** [linux/tc_act/tc_mirred.h] *)

Module Tc_act_tc_mirred.
Definition defs_TCA_ACT_MIRRED : list decl := [
  Defines [
    ("TCA_ACT_MIRRED", dec 8); ("TCA_EGRESS_REDIR", dec 1); ("TCA_EGRESS_MIRROR", dec 2);
    ("TCA_INGRESS_REDIR", dec 3); ("TCA_INGRESS_MIRROR", dec 4)]].
Definition enum_TCA_MIRRED_UNSPEC : list decl := [
  Enum [
    ("TCA_MIRRED_UNSPEC", None); ("TCA_MIRRED_TM", None); ("TCA_MIRRED_PARMS", None);
    ("__TCA_MIRRED_MAX", None)];
  Defines [
    ("TCA_MIRRED_MAX", Sub (Id "__TCA_MIRRED_MAX") (dec 1))]].
Definition header : header :=
  Header "linux/tc_act/tc_mirred.h" [] (concat [
    defs_TCA_ACT_MIRRED; enum_TCA_MIRRED_UNSPEC]).
End Tc_act_tc_mirred.

(** ** [linux/tc_act/tc_nat.h] *)

Module Tc_act_tc_nat.
Definition enum_TCA_NAT_UNSPEC : list decl := [
  Enum [
    ("TCA_NAT_UNSPEC", None); ("TCA_NAT_PARMS", None); ("TCA_NAT_TM", None);
    ("__TCA_NAT_MAX", None)];
  Defines [
    ("TCA_NAT_MAX", Sub (Id "__TCA_NAT_MAX") (dec 1)); ("TCA_NAT_FLAG_EGRESS", dec 1)]].
Definition header : header :=
  Header "linux/tc_act/tc_nat.h" [] (concat [
    enum_TCA_NAT_UNSPEC]).
End Tc_act_tc_nat.

(** ** [linux/tc_act/tc_pedit.h] *)

Module Tc_act_tc_pedit.
Definition enum_TCA_PEDIT_UNSPEC : list decl := [
  Enum [
    ("TCA_PEDIT_UNSPEC", None); ("TCA_PEDIT_TM", None); ("TCA_PEDIT_PARMS", None);
    ("__TCA_PEDIT_MAX", None)];
  Defines [
    ("TCA_PEDIT_MAX", Sub (Id "__TCA_PEDIT_MAX") (dec 1))]].
Definition header : header :=
  Header "linux/tc_act/tc_pedit.h" [] (concat [
    enum_TCA_PEDIT_UNSPEC]).
End Tc_act_tc_pedit.

(** ** [linux/tc_act/tc_skbedit.h] *)

Module Tc_act_tc_skbedit.
Definition defs_TCA_ACT_SKBEDIT : list decl := [
  Defines [
    ("TCA_ACT_SKBEDIT", dec 11); ("SKBEDIT_F_PRIORITY", hex 0x1);
    ("SKBEDIT_F_QUEUE_MAPPING", hex 0x2); ("SKBEDIT_F_MARK", hex 0x4)]].
Definition enum_TCA_SKBEDIT_UNSPEC : list decl := [
  Enum [
    ("TCA_SKBEDIT_UNSPEC", None); ("TCA_SKBEDIT_TM", None); ("TCA_SKBEDIT_PARMS", None);
    ("TCA_SKBEDIT_PRIORITY", None); ("TCA_SKBEDIT_QUEUE_MAPPING", None);
    ("TCA_SKBEDIT_MARK", None); ("__TCA_SKBEDIT_MAX", None)];
  Defines [
    ("TCA_SKBEDIT_MAX", Sub (Id "__TCA_SKBEDIT_MAX") (dec 1))]].
Definition header : header :=
  Header "linux/tc_act/tc_skbedit.h" [] (concat [
    defs_TCA_ACT_SKBEDIT; enum_TCA_SKBEDIT_UNSPEC]).
End Tc_act_tc_skbedit.

(** ** [linux/tc_act/tc_vlan.h] *)

Module Tc_act_tc_vlan.
Definition enum_TCA_VLAN_UNSPEC : list decl := [
  Enum [
    ("TCA_VLAN_UNSPEC", None); ("TCA_VLAN_TM", None); ("TCA_VLAN_PARMS", None);
    ("TCA_VLAN_PUSH_VLAN_ID", None); ("TCA_VLAN_PUSH_VLAN_PROTOCOL", None);
    ("__TCA_VLAN_MAX", None)];
  Defines [
    ("TCA_VLAN_MAX", Sub (Id "__TCA_VLAN_MAX") (dec 1))]].
Definition header : header :=
  Header "linux/tc_act/tc_vlan.h" [] (concat [
    enum_TCA_VLAN_UNSPEC]).
End Tc_act_tc_vlan.

(** ** [linux/tc_ematch/tc_em_cmp.h] *)

Module Tc_ematch_tc_em_cmp.
Definition enum_TCF_EM_ALIGN_U8 : list decl := [
  Enum [
    ("TCF_EM_ALIGN_U8", Some (dec 1)); ("TCF_EM_ALIGN_U16", Some (dec 2));
    ("TCF_EM_ALIGN_U32", Some (dec 4))];
  Defines [
    ("TCF_EM_CMP_TRANS", dec 1)]].
Definition header : header :=
  Header "linux/tc_ematch/tc_em_cmp.h" [] (concat [
    enum_TCF_EM_ALIGN_U8]).
End Tc_ematch_tc_em_cmp.

(** ** [linux/tc_ematch/tc_em_meta.h] *)

Module Tc_ematch_tc_em_meta.
Definition enum_TCA_EM_META_UNSPEC : list decl := [
  Enum [
    ("TCA_EM_META_UNSPEC", None); ("TCA_EM_META_HDR", None); ("TCA_EM_META_LVALUE", None);
    ("TCA_EM_META_RVALUE", None); ("__TCA_EM_META_MAX", None)];
  Defines [
    ("TCA_EM_META_MAX", Sub (Id "__TCA_EM_META_MAX") (dec 1))]].
Definition enum_TCF_META_TYPE_VAR : list decl := [
  Enum [
    ("TCF_META_TYPE_VAR", None); ("TCF_META_TYPE_INT", None); ("__TCF_META_TYPE_MAX", None)];
  Defines [
    ("TCF_META_TYPE_MAX", Sub (Id "__TCF_META_TYPE_MAX") (dec 1))];
  Enum [
    ("TCF_META_ID_VALUE", None); ("TCF_META_ID_RANDOM", None); ("TCF_META_ID_LOADAVG_0", None);
    ("TCF_META_ID_LOADAVG_1", None); ("TCF_META_ID_LOADAVG_2", None); ("TCF_META_ID_DEV", None);
    ("TCF_META_ID_PRIORITY", None); ("TCF_META_ID_PROTOCOL", None);
    ("TCF_META_ID_PKTTYPE", None); ("TCF_META_ID_PKTLEN", None); ("TCF_META_ID_DATALEN", None);
    ("TCF_META_ID_MACLEN", None); ("TCF_META_ID_NFMARK", None); ("TCF_META_ID_TCINDEX", None);
    ("TCF_META_ID_RTCLASSID", None); ("TCF_META_ID_RTIIF", None);
    ("TCF_META_ID_SK_FAMILY", None); ("TCF_META_ID_SK_STATE", None);
    ("TCF_META_ID_SK_REUSE", None); ("TCF_META_ID_SK_BOUND_IF", None);
    ("TCF_META_ID_SK_REFCNT", None); ("TCF_META_ID_SK_SHUTDOWN", None);
    ("TCF_META_ID_SK_PROTO", None); ("TCF_META_ID_SK_TYPE", None);
    ("TCF_META_ID_SK_RCVBUF", None); ("TCF_META_ID_SK_RMEM_ALLOC", None);
    ("TCF_META_ID_SK_WMEM_ALLOC", None); ("TCF_META_ID_SK_OMEM_ALLOC", None);
    ("TCF_META_ID_SK_WMEM_QUEUED", None); ("TCF_META_ID_SK_RCV_QLEN", None);
    ("TCF_META_ID_SK_SND_QLEN", None); ("TCF_META_ID_SK_ERR_QLEN", None);
    ("TCF_META_ID_SK_FORWARD_ALLOCS", None); ("TCF_META_ID_SK_SNDBUF", None);
    ("TCF_META_ID_SK_ALLOCS", None); ("__TCF_META_ID_SK_ROUTE_CAPS", None);
    ("TCF_META_ID_SK_HASH", None); ("TCF_META_ID_SK_LINGERTIME", None);
    ("TCF_META_ID_SK_ACK_BACKLOG", None); ("TCF_META_ID_SK_MAX_ACK_BACKLOG", None);
    ("TCF_META_ID_SK_PRIO", None); ("TCF_META_ID_SK_RCVLOWAT", None);
    ("TCF_META_ID_SK_RCVTIMEO", None); ("TCF_META_ID_SK_SNDTIMEO", None);
    ("TCF_META_ID_SK_SENDMSG_OFF", None); ("TCF_META_ID_SK_WRITE_PENDING", None);
    ("TCF_META_ID_VLAN_TAG", None); ("TCF_META_ID_RXHASH", None); ("__TCF_META_ID_MAX", None)];
  Defines [
    ("TCF_META_ID_MAX", Sub (Id "__TCF_META_ID_MAX") (dec 1))]].
Definition header : header :=
  Header "linux/tc_ematch/tc_em_meta.h" [] (concat [
    enum_TCA_EM_META_UNSPEC; enum_TCF_META_TYPE_VAR]).
End Tc_ematch_tc_em_meta.

(** ** [linux/tcp_metrics.h] *)

Module Tcp_metrics.
Definition enum_tcp_metric_index : list decl := [
  Enum [
    ("TCP_METRIC_RTT", None); ("TCP_METRIC_RTTVAR", None); ("TCP_METRIC_SSTHRESH", None);
    ("TCP_METRIC_CWND", None); ("TCP_METRIC_REORDERING", None); ("TCP_METRIC_RTT_US", None);
    ("TCP_METRIC_RTTVAR_US", None); ("__TCP_METRIC_MAX", None)];
  Defines [
    ("TCP_METRIC_MAX", Sub (Id "__TCP_METRIC_MAX") (dec 1))];
  Enum [
    ("TCP_METRICS_ATTR_UNSPEC", None); ("TCP_METRICS_ATTR_ADDR_IPV4", None);
    ("TCP_METRICS_ATTR_ADDR_IPV6", None); ("TCP_METRICS_ATTR_AGE", None);
    ("TCP_METRICS_ATTR_TW_TSVAL", None); ("TCP_METRICS_ATTR_TW_TS_STAMP", None);
    ("TCP_METRICS_ATTR_VALS", None); ("TCP_METRICS_ATTR_FOPEN_MSS", None);
    ("TCP_METRICS_ATTR_FOPEN_SYN_DROPS", None); ("TCP_METRICS_ATTR_FOPEN_SYN_DROP_TS", None);
    ("TCP_METRICS_ATTR_FOPEN_COOKIE", None); ("TCP_METRICS_ATTR_SADDR_IPV4", None);
    ("TCP_METRICS_ATTR_SADDR_IPV6", None); ("__TCP_METRICS_ATTR_MAX", None)];
  Defines [
    ("TCP_METRICS_ATTR_MAX", Sub (Id "__TCP_METRICS_ATTR_MAX") (dec 1))];
  Enum [
    ("TCP_METRICS_CMD_UNSPEC", None); ("TCP_METRICS_CMD_GET", None);
    ("TCP_METRICS_CMD_DEL", None); ("__TCP_METRICS_CMD_MAX", None)];
  Defines [
    ("TCP_METRICS_CMD_MAX", Sub (Id "__TCP_METRICS_CMD_MAX") (dec 1))]].
Definition header : header :=
  Header "linux/tcp_metrics.h" [] (concat [
    enum_tcp_metric_index]).
End Tcp_metrics.

(** ** [linux/xfrm.h] *)

Module Xfrm.
Definition defs_XFRM_SC_DOI_RESERVED : list decl := [
  Defines [
    ("XFRM_SC_DOI_RESERVED", dec 0); ("XFRM_SC_DOI_LSM", dec 1); ("XFRM_SC_ALG_RESERVED", dec 0);
    ("XFRM_SC_ALG_SELINUX", dec 1)]].
Definition enum_XFRM_POLICY_TYPE_MAIN : list decl := [
  Enum [
    ("XFRM_POLICY_TYPE_MAIN", Some (dec 0)); ("XFRM_POLICY_TYPE_SUB", Some (dec 1));
    ("XFRM_POLICY_TYPE_MAX", Some (dec 2)); ("XFRM_POLICY_TYPE_ANY", Some (dec 255))];
  Enum [
    ("XFRM_POLICY_IN", Some (dec 0)); ("XFRM_POLICY_OUT", Some (dec 1));
    ("XFRM_POLICY_FWD", Some (dec 2)); ("XFRM_POLICY_MASK", Some (dec 3));
    ("XFRM_POLICY_MAX", Some (dec 3))];
  Enum [
    ("XFRM_SHARE_ANY", None); ("XFRM_SHARE_SESSION", None); ("XFRM_SHARE_USER", None);
    ("XFRM_SHARE_UNIQUE", None)];
  Defines [
    ("XFRM_MODE_TRANSPORT", dec 0); ("XFRM_MODE_TUNNEL", dec 1);
    ("XFRM_MODE_ROUTEOPTIMIZATION", dec 2); ("XFRM_MODE_IN_TRIGGER", dec 3);
    ("XFRM_MODE_BEET", dec 4); ("XFRM_MODE_MAX", dec 5)];
  Enum [
    ("XFRM_MSG_BASE", Some (hex 0x10)); ("XFRM_MSG_NEWSA", Some (hex 0x10));
    ("XFRM_MSG_DELSA", None); ("XFRM_MSG_GETSA", None); ("XFRM_MSG_NEWPOLICY", None);
    ("XFRM_MSG_DELPOLICY", None); ("XFRM_MSG_GETPOLICY", None); ("XFRM_MSG_ALLOCSPI", None);
    ("XFRM_MSG_ACQUIRE", None); ("XFRM_MSG_EXPIRE", None); ("XFRM_MSG_UPDPOLICY", None);
    ("XFRM_MSG_UPDSA", None); ("XFRM_MSG_POLEXPIRE", None); ("XFRM_MSG_FLUSHSA", None);
    ("XFRM_MSG_FLUSHPOLICY", None); ("XFRM_MSG_NEWAE", None); ("XFRM_MSG_GETAE", None);
    ("XFRM_MSG_REPORT", None); ("XFRM_MSG_MIGRATE", None); ("XFRM_MSG_NEWSADINFO", None);
    ("XFRM_MSG_GETSADINFO", None); ("XFRM_MSG_NEWSPDINFO", None); ("XFRM_MSG_GETSPDINFO", None);
    ("XFRM_MSG_MAPPING", None); ("__XFRM_MSG_MAX", None)];
  Defines [
    ("XFRM_MSG_MAX", Sub (Id "__XFRM_MSG_MAX") (dec 1));
    ("XFRM_NR_MSGTYPES", Sub (Add (Id "XFRM_MSG_MAX") (dec 1)) (Id "XFRM_MSG_BASE"))]].
Definition enum_xfrm_ae_ftype_t : list decl := [
  Enum [
    ("XFRM_AE_UNSPEC", None); ("XFRM_AE_RTHR", Some (dec 1)); ("XFRM_AE_RVAL", Some (dec 2));
    ("XFRM_AE_LVAL", Some (dec 4)); ("XFRM_AE_ETHR", Some (dec 8));
    ("XFRM_AE_CR", Some (dec 16)); ("XFRM_AE_CE", Some (dec 32)); ("XFRM_AE_CU", Some (dec 64));
    ("__XFRM_AE_MAX", None)]].
Definition enum_xfrm_attr_type_t : list decl := [
  Enum [
    ("XFRMA_UNSPEC", None); ("XFRMA_ALG_AUTH", None); ("XFRMA_ALG_CRYPT", None);
    ("XFRMA_ALG_COMP", None); ("XFRMA_ENCAP", None); ("XFRMA_TMPL", None); ("XFRMA_SA", None);
    ("XFRMA_POLICY", None); ("XFRMA_SEC_CTX", None); ("XFRMA_LTIME_VAL", None);
    ("XFRMA_REPLAY_VAL", None); ("XFRMA_REPLAY_THRESH", None); ("XFRMA_ETIMER_THRESH", None);
    ("XFRMA_SRCADDR", None); ("XFRMA_COADDR", None); ("XFRMA_LASTUSED", None);
    ("XFRMA_POLICY_TYPE", None); ("XFRMA_MIGRATE", None); ("XFRMA_ALG_AEAD", None);
    ("XFRMA_KMADDRESS", None); ("XFRMA_ALG_AUTH_TRUNC", None); ("XFRMA_MARK", None);
    ("XFRMA_TFCPAD", None); ("XFRMA_REPLAY_ESN_VAL", None); ("XFRMA_SA_EXTRA_FLAGS", None);
    ("XFRMA_PROTO", None); ("XFRMA_ADDRESS_FILTER", None); ("XFRMA_PAD", None);
    ("XFRMA_OFFLOAD_DEV", None); ("XFRMA_OUTPUT_MARK", None); ("__XFRMA_MAX", None)]].
Definition enum_xfrm_sadattr_type_t : list decl := [
  Enum [
    ("XFRMA_SAD_UNSPEC", None); ("XFRMA_SAD_CNT", None); ("XFRMA_SAD_HINFO", None);
    ("__XFRMA_SAD_MAX", None)]].
Definition enum_xfrm_spdattr_type_t : list decl := [
  Enum [
    ("XFRMA_SPD_UNSPEC", None); ("XFRMA_SPD_INFO", None); ("XFRMA_SPD_HINFO", None);
    ("XFRMA_SPD_IPV4_HTHRESH", None); ("XFRMA_SPD_IPV6_HTHRESH", None); ("__XFRMA_SPD_MAX", None)]].
Definition defs_XFRMGRP_ACQUIRE : list decl := [
  Defines [
    ("XFRMGRP_ACQUIRE", dec 1); ("XFRMGRP_EXPIRE", dec 2); ("XFRMGRP_SA", dec 4);
    ("XFRMGRP_POLICY", dec 8); ("XFRMGRP_REPORT", hex 0x20)];
  Enum [
    ("XFRMNLGRP_NONE", None); ("XFRMNLGRP_ACQUIRE", None); ("XFRMNLGRP_EXPIRE", None);
    ("XFRMNLGRP_SA", None); ("XFRMNLGRP_POLICY", None); ("XFRMNLGRP_AEVENTS", None);
    ("XFRMNLGRP_REPORT", None); ("XFRMNLGRP_MIGRATE", None); ("XFRMNLGRP_MAPPING", None);
    ("__XFRMNLGRP_MAX", None)];
  Defines [
    ("XFRMNLGRP_MAX", Sub (Id "__XFRMNLGRP_MAX") (dec 1))]].
Definition header : header :=
  Header "linux/xfrm.h" [] (concat [
    defs_XFRM_SC_DOI_RESERVED; enum_XFRM_POLICY_TYPE_MAIN; enum_xfrm_ae_ftype_t;
    enum_xfrm_attr_type_t; enum_xfrm_sadattr_type_t; enum_xfrm_spdattr_type_t;
    defs_XFRMGRP_ACQUIRE]).
End Xfrm.
