(* ===== verification/ConstNet.v ===== *)
(** * Constants of networking and RDMA

    Macros and enumerations of these headers of [kernel-headers], one module per
    header: each table holds the consecutive definitions of one place. *)
From S2P Require Import Prelude.
From S2P Require Import CConst.
From S2P Require Import ConstBase.
From S2P Require Import ConstNetlink.
#[local] Open Scope string_scope.

(** ** [linux/atm_he.h] *)

Module Atm_he.
Definition defs_HE_REGTYPE_PCI : list decl := [
  Defines [
    ("HE_REGTYPE_PCI", dec 1); ("HE_REGTYPE_RCM", dec 2); ("HE_REGTYPE_TCM", dec 3);
    ("HE_REGTYPE_MBOX", dec 4)]].
Definition header : header :=
  Header "linux/atm_he.h" [] (concat [
    defs_HE_REGTYPE_PCI]).
End Atm_he.

(** ** [linux/atm_nicstar.h] *)

Module Atm_nicstar.
Definition defs_NS_BUFTYPE_SMALL : list decl := [
  Defines [
    ("NS_BUFTYPE_SMALL", dec 1); ("NS_BUFTYPE_LARGE", dec 2); ("NS_BUFTYPE_HUGE", dec 3);
    ("NS_BUFTYPE_IOVEC", dec 4)]].
Definition header : header :=
  Header "linux/atm_nicstar.h" [] (concat [
    defs_NS_BUFTYPE_SMALL]).
End Atm_nicstar.

(** ** [linux/atm_zatm.h] *)

Module Atm_zatm.
Definition defs_ZATM_OAM_POOL : list decl := [
  Defines [
    ("ZATM_OAM_POOL", dec 0); ("ZATM_AAL0_POOL", dec 1); ("ZATM_AAL5_POOL_BASE", dec 2);
    ("ZATM_LAST_POOL", Add (Id "ZATM_AAL5_POOL_BASE") (dec 10));
    ("ZATM_TIMER_HISTORY_SIZE", dec 16)]].
Definition header : header :=
  Header "linux/atm_zatm.h" [] (concat [
    defs_ZATM_OAM_POOL]).
End Atm_zatm.

(** ** [linux/atmarp.h] *)

Module Atmarp.
Definition enum_atmarp_ctrl_type : list decl := [
  Enum [
    ("act_invalid", None); ("act_need", None); ("act_up", None); ("act_down", None);
    ("act_change", None)]].
Definition header : header :=
  Header "linux/atmarp.h" [] (concat [
    enum_atmarp_ctrl_type]).
End Atmarp.

(** ** [linux/atmbr2684.h] *)

Module Atmbr2684.
Definition defs_BR2684_MEDIA_ETHERNET : list decl := [
  Defines [
    ("BR2684_MEDIA_ETHERNET", dec 0); ("BR2684_MEDIA_802_4", dec 1); ("BR2684_MEDIA_TR", dec 2);
    ("BR2684_MEDIA_FDDI", dec 3); ("BR2684_MEDIA_802_6", dec 4);
    ("BR2684_FLAG_ROUTED", Shl (dec 1) (dec 16))]].
Definition header : header :=
  Header "linux/atmbr2684.h" [] (concat [
    defs_BR2684_MEDIA_ETHERNET]).
End Atmbr2684.

(** ** [linux/atmclip.h] *)

Module Atmclip.
Definition defs_RFC1483LLC_LEN : list decl := [
  Defines [
    ("RFC1483LLC_LEN", dec 8); ("RFC1626_MTU", dec 9180); ("CLIP_DEFAULT_IDLETIMER", dec 1200);
    ("CLIP_CHECK_INTERVAL", dec 10)]].
Definition header : header :=
  Header "linux/atmclip.h" [] (concat [
    defs_RFC1483LLC_LEN]).
End Atmclip.

(** ** [linux/atmdev.h] *)

Module Atmdev.
Definition defs_ATM_BACKEND_RAW : list decl := [
  Defines [
    ("ATM_BACKEND_RAW", dec 0); ("ATM_BACKEND_PPP", dec 1); ("ATM_BACKEND_BR2684", dec 2);
    ("ATM_ITFTYP_LEN", dec 8)];
  Defines [
    ("__ATM_LM_NONE", dec 0); ("__ATM_LM_AAL", dec 1); ("__ATM_LM_ATM", dec 2);
    ("__ATM_LM_PHY", dec 8); ("__ATM_LM_ANALOG", dec 16)];
  Define_fun "__ATM_LM_MKLOC" ["n"] (Id "n");
  Define_fun "__ATM_LM_MKRMT" ["n"] (Shl (Id "n") (dec 8))].
Definition defs_ATM_LM_NONE : list decl := [
  Defines [
    ("ATM_LM_NONE", dec 0); ("ATM_LM_LOC_AAL", App "__ATM_LM_MKLOC" [Id "__ATM_LM_AAL"]);
    ("ATM_LM_LOC_ATM", App "__ATM_LM_MKLOC" [Id "__ATM_LM_ATM"]);
    ("ATM_LM_LOC_PHY", App "__ATM_LM_MKLOC" [Id "__ATM_LM_PHY"]);
    ("ATM_LM_LOC_ANALOG", App "__ATM_LM_MKLOC" [Id "__ATM_LM_ANALOG"]);
    ("ATM_LM_RMT_AAL", App "__ATM_LM_MKRMT" [Id "__ATM_LM_AAL"]);
    ("ATM_LM_RMT_ATM", App "__ATM_LM_MKRMT" [Id "__ATM_LM_ATM"]);
    ("ATM_LM_RMT_PHY", App "__ATM_LM_MKRMT" [Id "__ATM_LM_PHY"]);
    ("ATM_LM_RMT_ANALOG", App "__ATM_LM_MKRMT" [Id "__ATM_LM_ANALOG"])]].
Definition defs_ATM_MF_IMMED : list decl := [
  Defines [
    ("ATM_MF_IMMED", dec 1); ("ATM_MF_INC_RSV", dec 2); ("ATM_MF_INC_SHP", dec 4);
    ("ATM_MF_DEC_RSV", dec 8); ("ATM_MF_DEC_SHP", dec 16); ("ATM_MF_BWD", dec 32);
    ("ATM_MF_SET", Or (Or (Or (Or (Id "ATM_MF_INC_RSV") (Id "ATM_MF_INC_SHP")) (Id "ATM_MF_DEC_RSV")) (Id "ATM_MF_DEC_SHP")) (Id "ATM_MF_BWD"))];
  Defines [
    ("ATM_VS_IDLE", dec 0); ("ATM_VS_CONNECTED", dec 1); ("ATM_VS_CLOSING", dec 2);
    ("ATM_VS_LISTEN", dec 3); ("ATM_VS_INUSE", dec 4); ("ATM_VS_BOUND", dec 5)]].
Definition header : header :=
  Header "linux/atmdev.h" [] (concat [
    defs_ATM_BACKEND_RAW; defs_ATM_LM_NONE; defs_ATM_MF_IMMED]).
End Atmdev.

(** ** [linux/atmioc.h] *)

Module Atmioc.
Definition defs_ATMIOC_PHYCOM : list decl := [
  Defines [
    ("ATMIOC_PHYCOM", hex 0x00); ("ATMIOC_PHYCOM_END", hex 0x0f); ("ATMIOC_PHYTYP", hex 0x10);
    ("ATMIOC_PHYTYP_END", hex 0x2f); ("ATMIOC_PHYPRV", hex 0x30);
    ("ATMIOC_PHYPRV_END", hex 0x4f); ("ATMIOC_SARCOM", hex 0x50);
    ("ATMIOC_SARCOM_END", hex 0x50); ("ATMIOC_SARPRV", hex 0x60);
    ("ATMIOC_SARPRV_END", hex 0x7f); ("ATMIOC_ITF", hex 0x80); ("ATMIOC_ITF_END", hex 0x8f);
    ("ATMIOC_BACKEND", hex 0x90); ("ATMIOC_BACKEND_END", hex 0xaf);
    ("ATMIOC_AREQUIPA", hex 0xc0); ("ATMIOC_LANE", hex 0xd0); ("ATMIOC_MPOA", hex 0xd8);
    ("ATMIOC_CLIP", hex 0xe0); ("ATMIOC_CLIP_END", hex 0xef); ("ATMIOC_SPECIAL", hex 0xf0);
    ("ATMIOC_SPECIAL_END", hex 0xff)]].
Definition header : header :=
  Header "linux/atmioc.h" [] (concat [
    defs_ATMIOC_PHYCOM]).
End Atmioc.

(** ** [linux/atmlec.h] *)

Module Atmlec.
Definition enum_l_set_mac_addr : list decl := [
  Enum [
    ("l_set_mac_addr", None); ("l_del_mac_addr", None); ("l_svc_setup", None);
    ("l_addr_delete", None); ("l_topology_change", None); ("l_flush_complete", None);
    ("l_arp_update", None); ("l_narp_req", None); ("l_config", None); ("l_flush_tran_id", None);
    ("l_set_lecid", None); ("l_arp_xmt", None); ("l_rdesc_arp_xmt", None);
    ("l_associate_req", None); ("l_should_bridge", None)];
  Defines [
    ("ATMLEC_MSG_TYPE_MAX", Id "l_should_bridge")]].
Definition header : header :=
  Header "linux/atmlec.h" [] (concat [
    enum_l_set_mac_addr]).
End Atmlec.

(** ** [linux/atmmpc.h] *)

Module Atmmpc.
Definition defs_TLV_MPOA_DEVICE_TYPE : list decl := [
  Defines [
    ("TLV_MPOA_DEVICE_TYPE", hex 0x00a03e2a); ("NON_MPOA", dec 0); ("MPS", dec 1);
    ("MPC", dec 2); ("MPS_AND_MPC", dec 3)];
  Defines [
    ("MPC_P1", dec 10); ("MPC_P2", dec 1); ("MPC_P3", dec 0); ("MPC_P4", dec 5);
    ("MPC_P5", dec 40); ("MPC_P6", dec 160); ("HOLDING_TIME_DEFAULT", dec 1200);
    ("MPC_C1", dec 2); ("MPC_C2", dec 60); ("SND_MPOA_RES_RQST", dec 201);
    ("SET_MPS_CTRL_ADDR", dec 202); ("SND_MPOA_RES_RTRY", dec 203);
    ("STOP_KEEP_ALIVE_SM", dec 204); ("EGRESS_ENTRY_REMOVED", dec 205);
    ("SND_EGRESS_PURGE", dec 206); ("DIE", dec 207); ("DATA_PLANE_PURGE", dec 208);
    ("OPEN_INGRESS_SVC", dec 209); ("MPOA_TRIGGER_RCVD", dec 101);
    ("MPOA_RES_REPLY_RCVD", dec 102); ("INGRESS_PURGE_RCVD", dec 103);
    ("EGRESS_PURGE_RCVD", dec 104); ("MPS_DEATH", dec 105); ("CACHE_IMPOS_RCVD", dec 106);
    ("SET_MPC_CTRL_ADDR", dec 107); ("SET_MPS_MAC_ADDR", dec 108);
    ("CLEAN_UP_AND_EXIT", dec 109); ("SET_MPC_PARAMS", dec 110); ("RELOAD", dec 301)]].
Definition header : header :=
  Header "linux/atmmpc.h" [] (concat [
    defs_TLV_MPOA_DEVICE_TYPE]).
End Atmmpc.

(** ** [linux/atmsap.h] *)

Module Atmsap.
Definition defs_ATM_L2_NONE : list decl := [
  Defines [
    ("ATM_L2_NONE", dec 0); ("ATM_L2_ISO1745", hex 0x01); ("ATM_L2_Q291", hex 0x02);
    ("ATM_L2_X25_LL", hex 0x06); ("ATM_L2_X25_ML", hex 0x07); ("ATM_L2_LAPB", hex 0x08);
    ("ATM_L2_HDLC_ARM", hex 0x09); ("ATM_L2_HDLC_NRM", hex 0x0a); ("ATM_L2_HDLC_ABM", hex 0x0b);
    ("ATM_L2_ISO8802", hex 0x0c); ("ATM_L2_X75", hex 0x0d); ("ATM_L2_Q922", hex 0x0e);
    ("ATM_L2_USER", hex 0x10); ("ATM_L2_ISO7776", hex 0x11)];
  Defines [
    ("ATM_L3_NONE", dec 0); ("ATM_L3_X25", hex 0x06); ("ATM_L3_ISO8208", hex 0x07);
    ("ATM_L3_X223", hex 0x08); ("ATM_L3_ISO8473", hex 0x09); ("ATM_L3_T70", hex 0x0a);
    ("ATM_L3_TR9577", hex 0x0b); ("ATM_L3_H310", hex 0x0c); ("ATM_L3_H321", hex 0x0d);
    ("ATM_L3_USER", hex 0x10)];
  Defines [
    ("ATM_HL_NONE", dec 0); ("ATM_HL_ISO", hex 0x01); ("ATM_HL_USER", hex 0x02);
    ("ATM_HL_HLP", hex 0x03); ("ATM_HL_VENDOR", hex 0x04)]].
Definition defs_ATM_TT_NONE : list decl := [
  Defines [
    ("ATM_TT_NONE", dec 0); ("ATM_TT_RX", dec 1); ("ATM_TT_TX", dec 2); ("ATM_TT_RXTX", dec 3);
    ("ATM_MC_NONE", dec 0); ("ATM_MC_TS", dec 1); ("ATM_MC_TS_FEC", dec 2); ("ATM_MC_PS", dec 3);
    ("ATM_MC_PS_FEC", dec 4); ("ATM_MC_H221", dec 5)]].
Definition header : header :=
  Header "linux/atmsap.h" [] (concat [
    defs_ATM_L2_NONE; defs_ATM_TT_NONE]).
End Atmsap.

(** ** [linux/atmsvc.h] *)

Module Atmsvc.
Definition enum_atmsvc_msg_type : list decl := [
  Enum [
    ("as_catch_null", None); ("as_bind", None); ("as_connect", None); ("as_accept", None);
    ("as_reject", None); ("as_listen", None); ("as_okay", None); ("as_error", None);
    ("as_indicate", None); ("as_close", None); ("as_itf_notify", None); ("as_modify", None);
    ("as_identify", None); ("as_terminate", None); ("as_addparty", None); ("as_dropparty", None)]].
Definition header : header :=
  Header "linux/atmsvc.h" [] (concat [
    enum_atmsvc_msg_type]).
End Atmsvc.

(** ** [linux/ax25.h] *)

Module Ax25.
Definition defs_AX25_MTU : list decl := [
  Defines [
    ("AX25_MTU", dec 256); ("AX25_MAX_DIGIS", dec 8); ("AX25_WINDOW", dec 1); ("AX25_T1", dec 2);
    ("AX25_N2", dec 3); ("AX25_T3", dec 4); ("AX25_T2", dec 5); ("AX25_BACKOFF", dec 6);
    ("AX25_EXTSEQ", dec 7); ("AX25_PIDINCL", dec 8); ("AX25_IDLE", dec 9);
    ("AX25_PACLEN", dec 10); ("AX25_IAMDIGI", dec 12); ("AX25_KILL", dec 99);
    ("SIOCAX25GETUID", Add (Id "SIOCPROTOPRIVATE") (dec 0));
    ("SIOCAX25ADDUID", Add (Id "SIOCPROTOPRIVATE") (dec 1));
    ("SIOCAX25DELUID", Add (Id "SIOCPROTOPRIVATE") (dec 2));
    ("SIOCAX25NOUID", Add (Id "SIOCPROTOPRIVATE") (dec 3));
    ("SIOCAX25OPTRT", Add (Id "SIOCPROTOPRIVATE") (dec 7));
    ("SIOCAX25CTLCON", Add (Id "SIOCPROTOPRIVATE") (dec 8));
    ("SIOCAX25GETINFOOLD", Add (Id "SIOCPROTOPRIVATE") (dec 9));
    ("SIOCAX25ADDFWD", Add (Id "SIOCPROTOPRIVATE") (dec 10));
    ("SIOCAX25DELFWD", Add (Id "SIOCPROTOPRIVATE") (dec 11));
    ("SIOCAX25DEVCTL", Add (Id "SIOCPROTOPRIVATE") (dec 12));
    ("SIOCAX25GETINFO", Add (Id "SIOCPROTOPRIVATE") (dec 13)); ("AX25_SET_RT_IPMODE", dec 2);
    ("AX25_NOUID_DEFAULT", dec 0); ("AX25_NOUID_BLOCK", dec 1)]].
Definition header : header :=
  Header "linux/ax25.h" [Sockios.header] (concat [
    defs_AX25_MTU]).
End Ax25.

(** ** [linux/bpf.h] *)

Module Bpf.
Definition defs_BPF_ALU64 : list decl := [
  Defines [
    ("BPF_ALU64", hex 0x07); ("BPF_DW", hex 0x18); ("BPF_XADD", hex 0xc0); ("BPF_MOV", hex 0xb0);
    ("BPF_ARSH", hex 0xc0); ("BPF_END", hex 0xd0); ("BPF_TO_LE", hex 0x00);
    ("BPF_TO_BE", hex 0x08); ("BPF_FROM_LE", Id "BPF_TO_LE"); ("BPF_FROM_BE", Id "BPF_TO_BE");
    ("BPF_JNE", hex 0x50); ("BPF_JSGT", hex 0x60); ("BPF_JSGE", hex 0x70);
    ("BPF_CALL", hex 0x80); ("BPF_EXIT", hex 0x90)];
  Enum [
    ("BPF_REG_0", Some (dec 0)); ("BPF_REG_1", None); ("BPF_REG_2", None); ("BPF_REG_3", None);
    ("BPF_REG_4", None); ("BPF_REG_5", None); ("BPF_REG_6", None); ("BPF_REG_7", None);
    ("BPF_REG_8", None); ("BPF_REG_9", None); ("BPF_REG_10", None); ("__MAX_BPF_REG", None)];
  Defines [
    ("MAX_BPF_REG", Id "__MAX_BPF_REG")]].
Definition enum_bpf_cmd : list decl := [
  Enum [
    ("BPF_MAP_CREATE", None); ("BPF_MAP_LOOKUP_ELEM", None); ("BPF_MAP_UPDATE_ELEM", None);
    ("BPF_MAP_DELETE_ELEM", None); ("BPF_MAP_GET_NEXT_KEY", None); ("BPF_PROG_LOAD", None);
    ("BPF_OBJ_PIN", None); ("BPF_OBJ_GET", None)];
  Enum [
    ("BPF_MAP_TYPE_UNSPEC", None); ("BPF_MAP_TYPE_HASH", None); ("BPF_MAP_TYPE_ARRAY", None);
    ("BPF_MAP_TYPE_PROG_ARRAY", None); ("BPF_MAP_TYPE_PERF_EVENT_ARRAY", None)];
  Enum [
    ("BPF_PROG_TYPE_UNSPEC", None); ("BPF_PROG_TYPE_SOCKET_FILTER", None);
    ("BPF_PROG_TYPE_KPROBE", None); ("BPF_PROG_TYPE_SCHED_CLS", None);
    ("BPF_PROG_TYPE_SCHED_ACT", None)];
  Defines [
    ("BPF_PSEUDO_MAP_FD", dec 1); ("BPF_ANY", dec 0); ("BPF_NOEXIST", dec 1);
    ("BPF_EXIST", dec 2)]].
Definition enum_bpf_func_id : list decl := [
  Enum [
    ("BPF_FUNC_unspec", None); ("BPF_FUNC_map_lookup_elem", None);
    ("BPF_FUNC_map_update_elem", None); ("BPF_FUNC_map_delete_elem", None);
    ("BPF_FUNC_probe_read", None); ("BPF_FUNC_ktime_get_ns", None);
    ("BPF_FUNC_trace_printk", None); ("BPF_FUNC_get_prandom_u32", None);
    ("BPF_FUNC_get_smp_processor_id", None); ("BPF_FUNC_skb_store_bytes", None);
    ("BPF_FUNC_l3_csum_replace", None); ("BPF_FUNC_l4_csum_replace", None);
    ("BPF_FUNC_tail_call", None); ("BPF_FUNC_clone_redirect", None);
    ("BPF_FUNC_get_current_pid_tgid", None); ("BPF_FUNC_get_current_uid_gid", None);
    ("BPF_FUNC_get_current_comm", None); ("BPF_FUNC_get_cgroup_classid", None);
    ("BPF_FUNC_skb_vlan_push", None); ("BPF_FUNC_skb_vlan_pop", None);
    ("BPF_FUNC_skb_get_tunnel_key", None); ("BPF_FUNC_skb_set_tunnel_key", None);
    ("BPF_FUNC_perf_event_read", None); ("BPF_FUNC_redirect", None);
    ("BPF_FUNC_get_route_realm", None); ("BPF_FUNC_perf_event_output", None);
    ("__BPF_FUNC_MAX_ID", None)]].
Definition header : header :=
  Header "linux/bpf.h" [] (concat [
    defs_BPF_ALU64; enum_bpf_cmd; enum_bpf_func_id]).
End Bpf.

(** ** [linux/caif/caif_socket.h] *)

Module Caif_caif_socket.
Definition enum_caif_channel_priority : list decl := [
  Enum [
    ("CAIF_PRIO_MIN", Some (hex 0x01)); ("CAIF_PRIO_LOW", Some (hex 0x04));
    ("CAIF_PRIO_NORMAL", Some (hex 0x0f)); ("CAIF_PRIO_HIGH", Some (hex 0x14));
    ("CAIF_PRIO_MAX", Some (hex 0x1F))];
  Enum [
    ("CAIFPROTO_AT", None); ("CAIFPROTO_DATAGRAM", None); ("CAIFPROTO_DATAGRAM_LOOP", None);
    ("CAIFPROTO_UTIL", None); ("CAIFPROTO_RFM", None); ("CAIFPROTO_DEBUG", None);
    ("_CAIFPROTO_MAX", None)];
  Defines [
    ("CAIFPROTO_MAX", Id "_CAIFPROTO_MAX")]].
Definition enum_caif_debug_type : list decl := [
  Enum [
    ("CAIF_DEBUG_TRACE_INTERACTIVE", Some (dec 0)); ("CAIF_DEBUG_TRACE", None);
    ("CAIF_DEBUG_INTERACTIVE", None)]].
Definition enum_caif_socket_opts : list decl := [
  Enum [
    ("CAIFSO_LINK_SELECT", Some (dec 127)); ("CAIFSO_REQ_PARAM", Some (dec 128));
    ("CAIFSO_RSP_PARAM", Some (dec 129))]].
Definition header : header :=
  Header "linux/caif/caif_socket.h" [] (concat [
    enum_caif_channel_priority; enum_caif_debug_type; enum_caif_socket_opts]).
End Caif_caif_socket.

(** ** [linux/caif/if_caif.h] *)

Module Caif_if_caif.
Definition enum_ifla_caif : list decl := [
  Enum [
    ("__IFLA_CAIF_UNSPEC", None); ("IFLA_CAIF_IPV4_CONNID", None);
    ("IFLA_CAIF_IPV6_CONNID", None); ("IFLA_CAIF_LOOPBACK", None); ("__IFLA_CAIF_MAX", None)];
  Defines [
    ("IFLA_CAIF_MAX", Sub (Id "__IFLA_CAIF_MAX") (dec 1))]].
Definition header : header :=
  Header "linux/caif/if_caif.h" [] (concat [
    enum_ifla_caif]).
End Caif_if_caif.

(** ** [linux/can.h] *)

Module Can.
Definition defs_CAN_EFF_FLAG : list decl := [
  Defines [
    ("CAN_EFF_FLAG", hexU 0x80000000); ("CAN_RTR_FLAG", hexU 0x40000000);
    ("CAN_ERR_FLAG", hexU 0x20000000); ("CAN_SFF_MASK", hexU 0x000007FF);
    ("CAN_EFF_MASK", hexU 0x1FFFFFFF); ("CAN_ERR_MASK", hexU 0x1FFFFFFF)]].
Definition defs_CAN_MAX_DLC : list decl := [
  Defines [
    ("CAN_MAX_DLC", dec 8); ("CAN_MAX_DLEN", dec 8); ("CANFD_MAX_DLC", dec 15);
    ("CANFD_MAX_DLEN", dec 64)]].
Definition defs_CAN_RAW : list decl := [
  Defines [
    ("CAN_RAW", dec 1); ("CAN_BCM", dec 2); ("CAN_TP16", dec 3); ("CAN_TP20", dec 4);
    ("CAN_MCNET", dec 5); ("CAN_ISOTP", dec 6); ("CAN_NPROTO", dec 7); ("SOL_CAN_BASE", dec 100)]].
Definition header : header :=
  Header "linux/can.h" [] (concat [
    defs_CAN_EFF_FLAG; defs_CAN_MAX_DLC; defs_CAN_RAW]).
End Can.

(** ** [linux/can/bcm.h] *)

Module Can_bcm.
Definition enum_TX_SETUP : list decl := [
  Enum [
    ("TX_SETUP", Some (dec 1)); ("TX_DELETE", None); ("TX_READ", None); ("TX_SEND", None);
    ("RX_SETUP", None); ("RX_DELETE", None); ("RX_READ", None); ("TX_STATUS", None);
    ("TX_EXPIRED", None); ("RX_STATUS", None); ("RX_TIMEOUT", None); ("RX_CHANGED", None)];
  Defines [
    ("SETTIMER", hex 0x0001); ("STARTTIMER", hex 0x0002); ("TX_COUNTEVT", hex 0x0004);
    ("TX_ANNOUNCE", hex 0x0008); ("TX_CP_CAN_ID", hex 0x0010); ("RX_FILTER_ID", hex 0x0020);
    ("RX_CHECK_DLC", hex 0x0040); ("RX_NO_AUTOTIMER", hex 0x0080);
    ("RX_ANNOUNCE_RESUME", hex 0x0100); ("TX_RESET_MULTI_IDX", hex 0x0200);
    ("RX_RTR_FRAME", hex 0x0400)]].
Definition header : header :=
  Header "linux/can/bcm.h" [] (concat [
    enum_TX_SETUP]).
End Can_bcm.

(** ** [linux/can/error.h] *)

Module Can_error.
Definition defs_CAN_ERR_DLC : list decl := [
  Defines [
    ("CAN_ERR_DLC", dec 8); ("CAN_ERR_TX_TIMEOUT", hexU 0x00000001);
    ("CAN_ERR_LOSTARB", hexU 0x00000002); ("CAN_ERR_CRTL", hexU 0x00000004);
    ("CAN_ERR_PROT", hexU 0x00000008); ("CAN_ERR_TRX", hexU 0x00000010);
    ("CAN_ERR_ACK", hexU 0x00000020); ("CAN_ERR_BUSOFF", hexU 0x00000040);
    ("CAN_ERR_BUSERROR", hexU 0x00000080); ("CAN_ERR_RESTARTED", hexU 0x00000100);
    ("CAN_ERR_LOSTARB_UNSPEC", hex 0x00); ("CAN_ERR_CRTL_UNSPEC", hex 0x00);
    ("CAN_ERR_CRTL_RX_OVERFLOW", hex 0x01); ("CAN_ERR_CRTL_TX_OVERFLOW", hex 0x02);
    ("CAN_ERR_CRTL_RX_WARNING", hex 0x04); ("CAN_ERR_CRTL_TX_WARNING", hex 0x08);
    ("CAN_ERR_CRTL_RX_PASSIVE", hex 0x10); ("CAN_ERR_CRTL_TX_PASSIVE", hex 0x20);
    ("CAN_ERR_CRTL_ACTIVE", hex 0x40); ("CAN_ERR_PROT_UNSPEC", hex 0x00);
    ("CAN_ERR_PROT_BIT", hex 0x01); ("CAN_ERR_PROT_FORM", hex 0x02);
    ("CAN_ERR_PROT_STUFF", hex 0x04); ("CAN_ERR_PROT_BIT0", hex 0x08);
    ("CAN_ERR_PROT_BIT1", hex 0x10); ("CAN_ERR_PROT_OVERLOAD", hex 0x20);
    ("CAN_ERR_PROT_ACTIVE", hex 0x40); ("CAN_ERR_PROT_TX", hex 0x80);
    ("CAN_ERR_PROT_LOC_UNSPEC", hex 0x00); ("CAN_ERR_PROT_LOC_SOF", hex 0x03);
    ("CAN_ERR_PROT_LOC_ID28_21", hex 0x02); ("CAN_ERR_PROT_LOC_ID20_18", hex 0x06);
    ("CAN_ERR_PROT_LOC_SRTR", hex 0x04); ("CAN_ERR_PROT_LOC_IDE", hex 0x05);
    ("CAN_ERR_PROT_LOC_ID17_13", hex 0x07); ("CAN_ERR_PROT_LOC_ID12_05", hex 0x0F);
    ("CAN_ERR_PROT_LOC_ID04_00", hex 0x0E); ("CAN_ERR_PROT_LOC_RTR", hex 0x0C);
    ("CAN_ERR_PROT_LOC_RES1", hex 0x0D); ("CAN_ERR_PROT_LOC_RES0", hex 0x09);
    ("CAN_ERR_PROT_LOC_DLC", hex 0x0B); ("CAN_ERR_PROT_LOC_DATA", hex 0x0A);
    ("CAN_ERR_PROT_LOC_CRC_SEQ", hex 0x08); ("CAN_ERR_PROT_LOC_CRC_DEL", hex 0x18);
    ("CAN_ERR_PROT_LOC_ACK", hex 0x19); ("CAN_ERR_PROT_LOC_ACK_DEL", hex 0x1B);
    ("CAN_ERR_PROT_LOC_EOF", hex 0x1A); ("CAN_ERR_PROT_LOC_INTERM", hex 0x12);
    ("CAN_ERR_TRX_UNSPEC", hex 0x00); ("CAN_ERR_TRX_CANH_NO_WIRE", hex 0x04);
    ("CAN_ERR_TRX_CANH_SHORT_TO_BAT", hex 0x05); ("CAN_ERR_TRX_CANH_SHORT_TO_VCC", hex 0x06);
    ("CAN_ERR_TRX_CANH_SHORT_TO_GND", hex 0x07); ("CAN_ERR_TRX_CANL_NO_WIRE", hex 0x40);
    ("CAN_ERR_TRX_CANL_SHORT_TO_BAT", hex 0x50); ("CAN_ERR_TRX_CANL_SHORT_TO_VCC", hex 0x60);
    ("CAN_ERR_TRX_CANL_SHORT_TO_GND", hex 0x70); ("CAN_ERR_TRX_CANL_SHORT_TO_CANH", hex 0x80)]].
Definition header : header :=
  Header "linux/can/error.h" [] (concat [
    defs_CAN_ERR_DLC]).
End Can_error.

(** ** [linux/can/gw.h] *)

Module Can_gw.
Definition enum_CGW_TYPE_UNSPEC : list decl := [
  Enum [
    ("CGW_TYPE_UNSPEC", None); ("CGW_TYPE_CAN_CAN", None); ("__CGW_TYPE_MAX", None)];
  Defines [
    ("CGW_TYPE_MAX", Sub (Id "__CGW_TYPE_MAX") (dec 1))];
  Enum [
    ("CGW_UNSPEC", None); ("CGW_MOD_AND", None); ("CGW_MOD_OR", None); ("CGW_MOD_XOR", None);
    ("CGW_MOD_SET", None); ("CGW_CS_XOR", None); ("CGW_CS_CRC8", None); ("CGW_HANDLED", None);
    ("CGW_DROPPED", None); ("CGW_SRC_IF", None); ("CGW_DST_IF", None); ("CGW_FILTER", None);
    ("CGW_DELETED", None); ("CGW_LIM_HOPS", None); ("CGW_MOD_UID", None); ("__CGW_MAX", None)];
  Defines [
    ("CGW_MAX", Sub (Id "__CGW_MAX") (dec 1)); ("CGW_FLAGS_CAN_ECHO", hex 0x01);
    ("CGW_FLAGS_CAN_SRC_TSTAMP", hex 0x02); ("CGW_FLAGS_CAN_IIF_TX_OK", hex 0x04);
    ("CGW_MOD_FUNCS", dec 4); ("CGW_MOD_ID", hex 0x01); ("CGW_MOD_DLC", hex 0x02);
    ("CGW_MOD_DATA", hex 0x04); ("CGW_FRAME_MODS", dec 3);
    ("MAX_MODFUNCTIONS", Mul (Id "CGW_MOD_FUNCS") (Id "CGW_FRAME_MODS"))]].
Definition enum_CGW_CRC8PRF_UNSPEC : list decl := [
  Enum [
    ("CGW_CRC8PRF_UNSPEC", None); ("CGW_CRC8PRF_1U8", None); ("CGW_CRC8PRF_16U8", None);
    ("CGW_CRC8PRF_SFFID_XOR", None); ("__CGW_CRC8PRF_MAX", None)];
  Defines [
    ("CGW_CRC8PRF_MAX", Sub (Id "__CGW_CRC8PRF_MAX") (dec 1))]].
Definition header : header :=
  Header "linux/can/gw.h" [] (concat [
    enum_CGW_TYPE_UNSPEC; enum_CGW_CRC8PRF_UNSPEC]).
End Can_gw.

(** ** [linux/can/netlink.h] *)

Module Can_netlink.
Definition enum_can_state : list decl := [
  Enum [
    ("CAN_STATE_ERROR_ACTIVE", Some (dec 0)); ("CAN_STATE_ERROR_WARNING", None);
    ("CAN_STATE_ERROR_PASSIVE", None); ("CAN_STATE_BUS_OFF", None); ("CAN_STATE_STOPPED", None);
    ("CAN_STATE_SLEEPING", None); ("CAN_STATE_MAX", None)]].
Definition defs_CAN_CTRLMODE_LOOPBACK : list decl := [
  Defines [
    ("CAN_CTRLMODE_LOOPBACK", hex 0x01); ("CAN_CTRLMODE_LISTENONLY", hex 0x02);
    ("CAN_CTRLMODE_3_SAMPLES", hex 0x04); ("CAN_CTRLMODE_ONE_SHOT", hex 0x08);
    ("CAN_CTRLMODE_BERR_REPORTING", hex 0x10); ("CAN_CTRLMODE_FD", hex 0x20);
    ("CAN_CTRLMODE_PRESUME_ACK", hex 0x40); ("CAN_CTRLMODE_FD_NON_ISO", hex 0x80)]].
Definition enum_IFLA_CAN_UNSPEC : list decl := [
  Enum [
    ("IFLA_CAN_UNSPEC", None); ("IFLA_CAN_BITTIMING", None); ("IFLA_CAN_BITTIMING_CONST", None);
    ("IFLA_CAN_CLOCK", None); ("IFLA_CAN_STATE", None); ("IFLA_CAN_CTRLMODE", None);
    ("IFLA_CAN_RESTART_MS", None); ("IFLA_CAN_RESTART", None); ("IFLA_CAN_BERR_COUNTER", None);
    ("IFLA_CAN_DATA_BITTIMING", None); ("IFLA_CAN_DATA_BITTIMING_CONST", None);
    ("__IFLA_CAN_MAX", None)];
  Defines [
    ("IFLA_CAN_MAX", Sub (Id "__IFLA_CAN_MAX") (dec 1))]].
Definition header : header :=
  Header "linux/can/netlink.h" [] (concat [
    enum_can_state; defs_CAN_CTRLMODE_LOOPBACK; enum_IFLA_CAN_UNSPEC]).
End Can_netlink.

(** ** [linux/can/raw.h] *)

Module Can_raw.
Definition enum_CAN_RAW_FILTER : list decl := [
  Enum [
    ("CAN_RAW_FILTER", Some (dec 1)); ("CAN_RAW_ERR_FILTER", None); ("CAN_RAW_LOOPBACK", None);
    ("CAN_RAW_RECV_OWN_MSGS", None); ("CAN_RAW_FD_FRAMES", None); ("CAN_RAW_JOIN_FILTERS", None)]].
Definition header : header :=
  Header "linux/can/raw.h" [] (concat [
    enum_CAN_RAW_FILTER]).
End Can_raw.

(** ** [linux/dccp.h] *)

Module Dccp.
Definition enum_dccp_pkt_type : list decl := [
  Enum [
    ("DCCP_PKT_REQUEST", Some (dec 0)); ("DCCP_PKT_RESPONSE", None); ("DCCP_PKT_DATA", None);
    ("DCCP_PKT_ACK", None); ("DCCP_PKT_DATAACK", None); ("DCCP_PKT_CLOSEREQ", None);
    ("DCCP_PKT_CLOSE", None); ("DCCP_PKT_RESET", None); ("DCCP_PKT_SYNC", None);
    ("DCCP_PKT_SYNCACK", None); ("DCCP_PKT_INVALID", None)];
  Defines [
    ("DCCP_NR_PKT_TYPES", Id "DCCP_PKT_INVALID")]].
Definition enum_dccp_reset_codes : list decl := [
  Enum [
    ("DCCP_RESET_CODE_UNSPECIFIED", Some (dec 0)); ("DCCP_RESET_CODE_CLOSED", None);
    ("DCCP_RESET_CODE_ABORTED", None); ("DCCP_RESET_CODE_NO_CONNECTION", None);
    ("DCCP_RESET_CODE_PACKET_ERROR", None); ("DCCP_RESET_CODE_OPTION_ERROR", None);
    ("DCCP_RESET_CODE_MANDATORY_ERROR", None); ("DCCP_RESET_CODE_CONNECTION_REFUSED", None);
    ("DCCP_RESET_CODE_BAD_SERVICE_CODE", None); ("DCCP_RESET_CODE_TOO_BUSY", None);
    ("DCCP_RESET_CODE_BAD_INIT_COOKIE", None); ("DCCP_RESET_CODE_AGGRESSION_PENALTY", None);
    ("DCCP_MAX_RESET_CODES", None)];
  Enum [
    ("DCCPO_PADDING", Some (dec 0)); ("DCCPO_MANDATORY", Some (dec 1));
    ("DCCPO_MIN_RESERVED", Some (dec 3)); ("DCCPO_MAX_RESERVED", Some (dec 31));
    ("DCCPO_CHANGE_L", Some (dec 32)); ("DCCPO_CONFIRM_L", Some (dec 33));
    ("DCCPO_CHANGE_R", Some (dec 34)); ("DCCPO_CONFIRM_R", Some (dec 35));
    ("DCCPO_NDP_COUNT", Some (dec 37)); ("DCCPO_ACK_VECTOR_0", Some (dec 38));
    ("DCCPO_ACK_VECTOR_1", Some (dec 39)); ("DCCPO_TIMESTAMP", Some (dec 41));
    ("DCCPO_TIMESTAMP_ECHO", Some (dec 42)); ("DCCPO_ELAPSED_TIME", Some (dec 43));
    ("DCCPO_MAX", Some (dec 45)); ("DCCPO_MIN_RX_CCID_SPECIFIC", Some (dec 128));
    ("DCCPO_MAX_RX_CCID_SPECIFIC", Some (dec 191));
    ("DCCPO_MIN_TX_CCID_SPECIFIC", Some (dec 192));
    ("DCCPO_MAX_TX_CCID_SPECIFIC", Some (dec 255))];
  Defines [
    ("DCCP_SINGLE_OPT_MAXLEN", dec 253)]].
Definition enum_dccp_feature_numbers : list decl := [
  Enum [
    ("DCCPF_RESERVED", Some (dec 0)); ("DCCPF_CCID", Some (dec 1));
    ("DCCPF_SHORT_SEQNOS", Some (dec 2)); ("DCCPF_SEQUENCE_WINDOW", Some (dec 3));
    ("DCCPF_ECN_INCAPABLE", Some (dec 4)); ("DCCPF_ACK_RATIO", Some (dec 5));
    ("DCCPF_SEND_ACK_VECTOR", Some (dec 6)); ("DCCPF_SEND_NDP_COUNT", Some (dec 7));
    ("DCCPF_MIN_CSUM_COVER", Some (dec 8)); ("DCCPF_DATA_CHECKSUM", Some (dec 9));
    ("DCCPF_MIN_CCID_SPECIFIC", Some (dec 128)); ("DCCPF_SEND_LEV_RATE", Some (dec 192));
    ("DCCPF_MAX_CCID_SPECIFIC", Some (dec 255))];
  Enum [
    ("DCCP_SCM_PRIORITY", Some (dec 1)); ("DCCP_SCM_QPOLICY_MAX", Some (hex 0xFFFF));
    ("DCCP_SCM_MAX", None)];
  Enum [
    ("DCCPQ_POLICY_SIMPLE", None); ("DCCPQ_POLICY_PRIO", None); ("DCCPQ_POLICY_MAX", None)];
  Defines [
    ("DCCP_SOCKOPT_PACKET_SIZE", dec 1); ("DCCP_SOCKOPT_SERVICE", dec 2);
    ("DCCP_SOCKOPT_CHANGE_L", dec 3); ("DCCP_SOCKOPT_CHANGE_R", dec 4);
    ("DCCP_SOCKOPT_GET_CUR_MPS", dec 5); ("DCCP_SOCKOPT_SERVER_TIMEWAIT", dec 6);
    ("DCCP_SOCKOPT_SEND_CSCOV", dec 10); ("DCCP_SOCKOPT_RECV_CSCOV", dec 11);
    ("DCCP_SOCKOPT_AVAILABLE_CCIDS", dec 12); ("DCCP_SOCKOPT_CCID", dec 13);
    ("DCCP_SOCKOPT_TX_CCID", dec 14); ("DCCP_SOCKOPT_RX_CCID", dec 15);
    ("DCCP_SOCKOPT_QPOLICY_ID", dec 16); ("DCCP_SOCKOPT_QPOLICY_TXQLEN", dec 17);
    ("DCCP_SOCKOPT_CCID_RX_INFO", dec 128); ("DCCP_SOCKOPT_CCID_TX_INFO", dec 192);
    ("DCCP_SERVICE_LIST_MAX_LEN", dec 32)]].
Definition header : header :=
  Header "linux/dccp.h" [] (concat [
    enum_dccp_pkt_type; enum_dccp_reset_codes; enum_dccp_feature_numbers]).
End Dccp.

(** ** [linux/filter.h] *)

Module Filter.
Definition defs_SKF_AD_OFF : list decl := [
  Defines [
    ("SKF_AD_OFF", Neg (hex 0x1000)); ("SKF_AD_PROTOCOL", dec 0); ("SKF_AD_PKTTYPE", dec 4);
    ("SKF_AD_IFINDEX", dec 8); ("SKF_AD_NLATTR", dec 12); ("SKF_AD_NLATTR_NEST", dec 16);
    ("SKF_AD_MARK", dec 20); ("SKF_AD_QUEUE", dec 24); ("SKF_AD_HATYPE", dec 28);
    ("SKF_AD_RXHASH", dec 32); ("SKF_AD_CPU", dec 36); ("SKF_AD_ALU_XOR_X", dec 40);
    ("SKF_AD_VLAN_TAG", dec 44); ("SKF_AD_VLAN_TAG_PRESENT", dec 48);
    ("SKF_AD_PAY_OFFSET", dec 52); ("SKF_AD_RANDOM", dec 56); ("SKF_AD_VLAN_TPID", dec 60);
    ("SKF_AD_MAX", dec 64); ("SKF_NET_OFF", Neg (hex 0x100000));
    ("SKF_LL_OFF", Neg (hex 0x200000)); ("BPF_NET_OFF", Id "SKF_NET_OFF");
    ("BPF_LL_OFF", Id "SKF_LL_OFF")]].
Definition header : header :=
  Header "linux/filter.h" [] (concat [
    defs_SKF_AD_OFF]).
End Filter.

(** ** [linux/hdlc/ioctl.h] *)

Module Hdlc_ioctl.
Definition defs_GENERIC_HDLC_VERSION : list decl := [
  Defines [
    ("GENERIC_HDLC_VERSION", dec 4); ("CLOCK_DEFAULT", dec 0); ("CLOCK_EXT", dec 1);
    ("CLOCK_INT", dec 2); ("CLOCK_TXINT", dec 3); ("CLOCK_TXFROMRX", dec 4);
    ("ENCODING_DEFAULT", dec 0); ("ENCODING_NRZ", dec 1); ("ENCODING_NRZI", dec 2);
    ("ENCODING_FM_MARK", dec 3); ("ENCODING_FM_SPACE", dec 4); ("ENCODING_MANCHESTER", dec 5);
    ("PARITY_DEFAULT", dec 0); ("PARITY_NONE", dec 1); ("PARITY_CRC16_PR0", dec 2);
    ("PARITY_CRC16_PR1", dec 3); ("PARITY_CRC16_PR0_CCITT", dec 4);
    ("PARITY_CRC16_PR1_CCITT", dec 5); ("PARITY_CRC32_PR0_CCITT", dec 6);
    ("PARITY_CRC32_PR1_CCITT", dec 7); ("LMI_DEFAULT", dec 0); ("LMI_NONE", dec 1);
    ("LMI_ANSI", dec 2); ("LMI_CCITT", dec 3); ("LMI_CISCO", dec 4)]].
Definition header : header :=
  Header "linux/hdlc/ioctl.h" [] (concat [
    defs_GENERIC_HDLC_VERSION]).
End Hdlc_ioctl.

(** ** [linux/hdlcdrv.h] *)

Module Hdlcdrv.
Definition defs_HDLCDRVCTL_GETMODEMPAR : list decl := [
  Defines [
    ("HDLCDRVCTL_GETMODEMPAR", dec 0); ("HDLCDRVCTL_SETMODEMPAR", dec 1);
    ("HDLCDRVCTL_MODEMPARMASK", dec 2); ("HDLCDRVCTL_GETCHANNELPAR", dec 10);
    ("HDLCDRVCTL_SETCHANNELPAR", dec 11); ("HDLCDRVCTL_OLDGETSTAT", dec 20);
    ("HDLCDRVCTL_CALIBRATE", dec 21); ("HDLCDRVCTL_GETSTAT", dec 22)]].
Definition defs_HDLCDRVCTL_GETMODE : list decl := [
  Defines [
    ("HDLCDRVCTL_GETMODE", dec 40); ("HDLCDRVCTL_SETMODE", dec 41);
    ("HDLCDRVCTL_MODELIST", dec 42); ("HDLCDRVCTL_DRIVERNAME", dec 43)];
  Defines [
    ("HDLCDRV_PARMASK_IOBASE", Shl (dec 1) (dec 0));
    ("HDLCDRV_PARMASK_IRQ", Shl (dec 1) (dec 1)); ("HDLCDRV_PARMASK_DMA", Shl (dec 1) (dec 2));
    ("HDLCDRV_PARMASK_DMA2", Shl (dec 1) (dec 3));
    ("HDLCDRV_PARMASK_SERIOBASE", Shl (dec 1) (dec 4));
    ("HDLCDRV_PARMASK_PARIOBASE", Shl (dec 1) (dec 5));
    ("HDLCDRV_PARMASK_MIDIIOBASE", Shl (dec 1) (dec 6))]].
Definition header : header :=
  Header "linux/hdlcdrv.h" [] (concat [
    defs_HDLCDRVCTL_GETMODEMPAR; defs_HDLCDRVCTL_GETMODE]).
End Hdlcdrv.

(** ** [linux/hsi/cs-protocol.h] *)

Module Hsi_cs_protocol.
Definition defs_CS_IF_VERSION : list decl := [
  Defines [
    ("CS_IF_VERSION", dec 2); ("CS_CMD_SHIFT", dec 28); ("CS_DOMAIN_SHIFT", dec 24);
    ("CS_CMD_MASK", hex 0xff000000); ("CS_PARAM_MASK", hex 0xffffff)];
  Define_fun "CS_CMD" ["id"; "dom"] (Or (Shl (Id "id") (Id "CS_CMD_SHIFT")) (Shl (Id "dom") (Id "CS_DOMAIN_SHIFT")));
  Defines [
    ("CS_ERROR", App "CS_CMD" [dec 1; dec 0]);
    ("CS_RX_DATA_RECEIVED", App "CS_CMD" [dec 2; dec 0]);
    ("CS_TX_DATA_READY", App "CS_CMD" [dec 3; dec 0]);
    ("CS_TX_DATA_SENT", App "CS_CMD" [dec 4; dec 0]); ("CS_ERR_PEER_RESET", dec 0)];
  Defines [
    ("CS_FEAT_TSTAMP_RX_CTRL", Shl (dec 1) (dec 0));
    ("CS_FEAT_ROLLING_RX_COUNTER", Shl (dec 2) (dec 0)); ("CS_STATE_CLOSED", dec 0);
    ("CS_STATE_OPENED", dec 1); ("CS_STATE_CONFIGURED", dec 2); ("CS_MAX_BUFFERS_SHIFT", dec 4);
    ("CS_MAX_BUFFERS", Shl (dec 1) (Id "CS_MAX_BUFFERS_SHIFT"))]].
Definition header : header :=
  Header "linux/hsi/cs-protocol.h" [] (concat [
    defs_CS_IF_VERSION]).
End Hsi_cs_protocol.

(** ** [linux/hsi/hsi_char.h] *)

Module Hsi_hsi_char.
Definition defs_HSC_PM_DISABLE : list decl := [
  Defines [
    ("HSC_PM_DISABLE", dec 0); ("HSC_PM_ENABLE", dec 1); ("HSC_MODE_STREAM", dec 1);
    ("HSC_MODE_FRAME", dec 2); ("HSC_FLOW_SYNC", dec 0); ("HSC_ARB_RR", dec 0);
    ("HSC_ARB_PRIO", dec 1)]].
Definition header : header :=
  Header "linux/hsi/hsi_char.h" [] (concat [
    defs_HSC_PM_DISABLE]).
End Hsi_hsi_char.

(** ** [linux/icmp.h] *)

Module Icmp.
Definition defs_ICMP_ECHOREPLY : list decl := [
  Defines [
    ("ICMP_ECHOREPLY", dec 0); ("ICMP_DEST_UNREACH", dec 3); ("ICMP_SOURCE_QUENCH", dec 4);
    ("ICMP_REDIRECT", dec 5); ("ICMP_ECHO", dec 8); ("ICMP_TIME_EXCEEDED", dec 11);
    ("ICMP_PARAMETERPROB", dec 12); ("ICMP_TIMESTAMP", dec 13); ("ICMP_TIMESTAMPREPLY", dec 14);
    ("ICMP_INFO_REQUEST", dec 15); ("ICMP_INFO_REPLY", dec 16); ("ICMP_ADDRESS", dec 17);
    ("ICMP_ADDRESSREPLY", dec 18); ("NR_ICMP_TYPES", dec 18); ("ICMP_NET_UNREACH", dec 0);
    ("ICMP_HOST_UNREACH", dec 1); ("ICMP_PROT_UNREACH", dec 2); ("ICMP_PORT_UNREACH", dec 3);
    ("ICMP_FRAG_NEEDED", dec 4); ("ICMP_SR_FAILED", dec 5); ("ICMP_NET_UNKNOWN", dec 6);
    ("ICMP_HOST_UNKNOWN", dec 7); ("ICMP_HOST_ISOLATED", dec 8); ("ICMP_NET_ANO", dec 9);
    ("ICMP_HOST_ANO", dec 10); ("ICMP_NET_UNR_TOS", dec 11); ("ICMP_HOST_UNR_TOS", dec 12);
    ("ICMP_PKT_FILTERED", dec 13); ("ICMP_PREC_VIOLATION", dec 14); ("ICMP_PREC_CUTOFF", dec 15);
    ("NR_ICMP_UNREACH", dec 15); ("ICMP_REDIR_NET", dec 0); ("ICMP_REDIR_HOST", dec 1);
    ("ICMP_REDIR_NETTOS", dec 2); ("ICMP_REDIR_HOSTTOS", dec 3); ("ICMP_EXC_TTL", dec 0);
    ("ICMP_EXC_FRAGTIME", dec 1)]].
Definition header : header :=
  Header "linux/icmp.h" [] (concat [
    defs_ICMP_ECHOREPLY]).
End Icmp.

(** ** [linux/icmpv6.h] *)

Module Icmpv6.
Definition defs_ICMPV6_ROUTER_PREF_LOW : list decl := [
  Defines [
    ("ICMPV6_ROUTER_PREF_LOW", hex 0x3); ("ICMPV6_ROUTER_PREF_MEDIUM", hex 0x0);
    ("ICMPV6_ROUTER_PREF_HIGH", hex 0x1); ("ICMPV6_ROUTER_PREF_INVALID", hex 0x2);
    ("ICMPV6_DEST_UNREACH", dec 1); ("ICMPV6_PKT_TOOBIG", dec 2); ("ICMPV6_TIME_EXCEED", dec 3);
    ("ICMPV6_PARAMPROB", dec 4); ("ICMPV6_INFOMSG_MASK", hex 0x80);
    ("ICMPV6_ECHO_REQUEST", dec 128); ("ICMPV6_ECHO_REPLY", dec 129);
    ("ICMPV6_MGM_QUERY", dec 130); ("ICMPV6_MGM_REPORT", dec 131);
    ("ICMPV6_MGM_REDUCTION", dec 132); ("ICMPV6_NI_QUERY", dec 139);
    ("ICMPV6_NI_REPLY", dec 140); ("ICMPV6_MLD2_REPORT", dec 143);
    ("ICMPV6_DHAAD_REQUEST", dec 144); ("ICMPV6_DHAAD_REPLY", dec 145);
    ("ICMPV6_MOBILE_PREFIX_SOL", dec 146); ("ICMPV6_MOBILE_PREFIX_ADV", dec 147)];
  Defines [
    ("ICMPV6_NOROUTE", dec 0); ("ICMPV6_ADM_PROHIBITED", dec 1); ("ICMPV6_NOT_NEIGHBOUR", dec 2);
    ("ICMPV6_ADDR_UNREACH", dec 3); ("ICMPV6_PORT_UNREACH", dec 4);
    ("ICMPV6_POLICY_FAIL", dec 5); ("ICMPV6_REJECT_ROUTE", dec 6)]].
Definition defs_ICMPV6_FILTER_BLOCK : list decl := [
  Defines [
    ("ICMPV6_FILTER_BLOCK", dec 1); ("ICMPV6_FILTER_PASS", dec 2);
    ("ICMPV6_FILTER_BLOCKOTHERS", dec 3); ("ICMPV6_FILTER_PASSONLY", dec 4)]].
Definition defs_MLD2_MODE_IS_INCLUDE : list decl := [
  Defines [
    ("MLD2_MODE_IS_INCLUDE", dec 1); ("MLD2_MODE_IS_EXCLUDE", dec 2);
    ("MLD2_CHANGE_TO_INCLUDE", dec 3); ("MLD2_CHANGE_TO_EXCLUDE", dec 4);
    ("MLD2_ALLOW_NEW_SOURCES", dec 5); ("MLD2_BLOCK_OLD_SOURCES", dec 6)]].
Definition header : header :=
  Header "linux/icmpv6.h" [] (concat [
    defs_ICMPV6_ROUTER_PREF_LOW; defs_ICMPV6_FILTER_BLOCK; defs_MLD2_MODE_IS_INCLUDE]).
End Icmpv6.

(** ** [linux/if_addr.h] *)

Module If_addr.
Definition enum_IFA_UNSPEC : list decl := [
  Enum [
    ("IFA_UNSPEC", None); ("IFA_ADDRESS", None); ("IFA_LOCAL", None); ("IFA_LABEL", None);
    ("IFA_BROADCAST", None); ("IFA_ANYCAST", None); ("IFA_CACHEINFO", None);
    ("IFA_MULTICAST", None); ("IFA_FLAGS", None); ("__IFA_MAX", None)];
  Defines [
    ("IFA_MAX", Sub (Id "__IFA_MAX") (dec 1)); ("IFA_F_SECONDARY", hex 0x01);
    ("IFA_F_TEMPORARY", Id "IFA_F_SECONDARY"); ("IFA_F_NODAD", hex 0x02);
    ("IFA_F_OPTIMISTIC", hex 0x04); ("IFA_F_DADFAILED", hex 0x08);
    ("IFA_F_HOMEADDRESS", hex 0x10); ("IFA_F_DEPRECATED", hex 0x20);
    ("IFA_F_TENTATIVE", hex 0x40); ("IFA_F_PERMANENT", hex 0x80);
    ("IFA_F_MANAGETEMPADDR", hex 0x100); ("IFA_F_NOPREFIXROUTE", hex 0x200);
    ("IFA_F_MCAUTOJOIN", hex 0x400); ("IFA_F_STABLE_PRIVACY", hex 0x800)]].
Definition header : header :=
  Header "linux/if_addr.h" [] (concat [
    enum_IFA_UNSPEC]).
End If_addr.

(** ** [linux/if_addrlabel.h] *)

Module If_addrlabel.
Definition enum_IFAL_ADDRESS : list decl := [
  Enum [
    ("IFAL_ADDRESS", Some (dec 1)); ("IFAL_LABEL", Some (dec 2)); ("__IFAL_MAX", None)];
  Defines [
    ("IFAL_MAX", Sub (Id "__IFAL_MAX") (dec 1))]].
Definition header : header :=
  Header "linux/if_addrlabel.h" [] (concat [
    enum_IFAL_ADDRESS]).
End If_addrlabel.

(** ** [linux/if_alg.h] *)

Module If_alg.
Definition defs_ALG_SET_KEY : list decl := [
  Defines [
    ("ALG_SET_KEY", dec 1); ("ALG_SET_IV", dec 2); ("ALG_SET_OP", dec 3);
    ("ALG_SET_AEAD_ASSOCLEN", dec 4); ("ALG_SET_AEAD_AUTHSIZE", dec 5);
    ("ALG_OP_DECRYPT", dec 0); ("ALG_OP_ENCRYPT", dec 1)]].
Definition header : header :=
  Header "linux/if_alg.h" [] (concat [
    defs_ALG_SET_KEY]).
End If_alg.

(** ** [linux/if_arcnet.h] *)

Module If_arcnet.
Definition defs_ARC_P_IP : list decl := [
  Defines [
    ("ARC_P_IP", dec 212); ("ARC_P_IPV6", dec 196); ("ARC_P_ARP", dec 213);
    ("ARC_P_RARP", dec 214); ("ARC_P_IPX", dec 250); ("ARC_P_NOVELL_EC", dec 236);
    ("ARC_P_IP_RFC1051", dec 240); ("ARC_P_ARP_RFC1051", dec 241); ("ARC_P_ETHER", dec 232);
    ("ARC_P_DATAPOINT_BOOT", dec 0); ("ARC_P_DATAPOINT_MOUNT", dec 1);
    ("ARC_P_POWERLAN_BEACON", dec 8); ("ARC_P_POWERLAN_BEACON2", dec 243);
    ("ARC_P_LANSOFT", dec 251); ("ARC_P_ATALK", hex 0xDD); ("ARCNET_ALEN", dec 1)]].
Definition header : header :=
  Header "linux/if_arcnet.h" [] (concat [
    defs_ARC_P_IP]).
End If_arcnet.

(** ** [linux/if_arp.h] *)

Module If_arp.
Definition defs_ARPHRD_NETROM : list decl := [
  Defines [
    ("ARPHRD_NETROM", dec 0); ("ARPHRD_ETHER", dec 1); ("ARPHRD_EETHER", dec 2);
    ("ARPHRD_AX25", dec 3); ("ARPHRD_PRONET", dec 4); ("ARPHRD_CHAOS", dec 5);
    ("ARPHRD_IEEE802", dec 6); ("ARPHRD_ARCNET", dec 7); ("ARPHRD_APPLETLK", dec 8);
    ("ARPHRD_DLCI", dec 15); ("ARPHRD_ATM", dec 19); ("ARPHRD_METRICOM", dec 23);
    ("ARPHRD_IEEE1394", dec 24); ("ARPHRD_EUI64", dec 27); ("ARPHRD_INFINIBAND", dec 32);
    ("ARPHRD_SLIP", dec 256); ("ARPHRD_CSLIP", dec 257); ("ARPHRD_SLIP6", dec 258);
    ("ARPHRD_CSLIP6", dec 259); ("ARPHRD_RSRVD", dec 260); ("ARPHRD_ADAPT", dec 264);
    ("ARPHRD_ROSE", dec 270); ("ARPHRD_X25", dec 271); ("ARPHRD_HWX25", dec 272);
    ("ARPHRD_CAN", dec 280); ("ARPHRD_PPP", dec 512); ("ARPHRD_CISCO", dec 513);
    ("ARPHRD_HDLC", Id "ARPHRD_CISCO"); ("ARPHRD_LAPB", dec 516); ("ARPHRD_DDCMP", dec 517);
    ("ARPHRD_RAWHDLC", dec 518); ("ARPHRD_RAWIP", dec 530); ("ARPHRD_TUNNEL", dec 768);
    ("ARPHRD_TUNNEL6", dec 769); ("ARPHRD_FRAD", dec 770); ("ARPHRD_SKIP", dec 771);
    ("ARPHRD_LOOPBACK", dec 772); ("ARPHRD_LOCALTLK", dec 773); ("ARPHRD_FDDI", dec 774);
    ("ARPHRD_BIF", dec 775); ("ARPHRD_SIT", dec 776); ("ARPHRD_IPDDP", dec 777);
    ("ARPHRD_IPGRE", dec 778); ("ARPHRD_PIMREG", dec 779); ("ARPHRD_HIPPI", dec 780);
    ("ARPHRD_ASH", dec 781); ("ARPHRD_ECONET", dec 782); ("ARPHRD_IRDA", dec 783);
    ("ARPHRD_FCPP", dec 784); ("ARPHRD_FCAL", dec 785); ("ARPHRD_FCPL", dec 786);
    ("ARPHRD_FCFABRIC", dec 787); ("ARPHRD_IEEE802_TR", dec 800); ("ARPHRD_IEEE80211", dec 801);
    ("ARPHRD_IEEE80211_PRISM", dec 802); ("ARPHRD_IEEE80211_RADIOTAP", dec 803);
    ("ARPHRD_IEEE802154", dec 804); ("ARPHRD_IEEE802154_MONITOR", dec 805);
    ("ARPHRD_PHONET", dec 820); ("ARPHRD_PHONET_PIPE", dec 821); ("ARPHRD_CAIF", dec 822);
    ("ARPHRD_IP6GRE", dec 823); ("ARPHRD_NETLINK", dec 824); ("ARPHRD_6LOWPAN", dec 825);
    ("ARPHRD_VOID", hex 0xFFFF); ("ARPHRD_NONE", hex 0xFFFE); ("ARPOP_REQUEST", dec 1);
    ("ARPOP_REPLY", dec 2); ("ARPOP_RREQUEST", dec 3); ("ARPOP_RREPLY", dec 4);
    ("ARPOP_InREQUEST", dec 8); ("ARPOP_InREPLY", dec 9); ("ARPOP_NAK", dec 10)]].
Definition defs_ATF_COM : list decl := [
  Defines [
    ("ATF_COM", hex 0x02); ("ATF_PERM", hex 0x04); ("ATF_PUBL", hex 0x08);
    ("ATF_USETRAILERS", hex 0x10); ("ATF_NETMASK", hex 0x20); ("ATF_DONTPUB", hex 0x40)]].
Definition header : header :=
  Header "linux/if_arp.h" [] (concat [
    defs_ARPHRD_NETROM; defs_ATF_COM]).
End If_arp.

(** ** [linux/if_bonding.h] *)

Module If_bonding.
Definition defs_BOND_ENSLAVE_OLD : list decl := [
  Defines [
    ("BOND_ENSLAVE_OLD", Id "SIOCDEVPRIVATE");
    ("BOND_RELEASE_OLD", Add (Id "SIOCDEVPRIVATE") (dec 1));
    ("BOND_SETHWADDR_OLD", Add (Id "SIOCDEVPRIVATE") (dec 2));
    ("BOND_SLAVE_INFO_QUERY_OLD", Add (Id "SIOCDEVPRIVATE") (dec 11));
    ("BOND_INFO_QUERY_OLD", Add (Id "SIOCDEVPRIVATE") (dec 12));
    ("BOND_CHANGE_ACTIVE_OLD", Add (Id "SIOCDEVPRIVATE") (dec 13));
    ("BOND_CHECK_MII_STATUS", Id "SIOCGMIIPHY"); ("BOND_MODE_ROUNDROBIN", dec 0);
    ("BOND_MODE_ACTIVEBACKUP", dec 1); ("BOND_MODE_XOR", dec 2); ("BOND_MODE_BROADCAST", dec 3);
    ("BOND_MODE_8023AD", dec 4); ("BOND_MODE_TLB", dec 5); ("BOND_MODE_ALB", dec 6);
    ("BOND_LINK_UP", dec 0); ("BOND_LINK_FAIL", dec 1); ("BOND_LINK_DOWN", dec 2);
    ("BOND_LINK_BACK", dec 3); ("BOND_STATE_ACTIVE", dec 0); ("BOND_STATE_BACKUP", dec 1);
    ("BOND_DEFAULT_MAX_BONDS", dec 1); ("BOND_DEFAULT_TX_QUEUES", dec 16);
    ("BOND_DEFAULT_RESEND_IGMP", dec 1); ("BOND_XMIT_POLICY_LAYER2", dec 0);
    ("BOND_XMIT_POLICY_LAYER34", dec 1); ("BOND_XMIT_POLICY_LAYER23", dec 2);
    ("BOND_XMIT_POLICY_ENCAP23", dec 3); ("BOND_XMIT_POLICY_ENCAP34", dec 4)]].
Definition header : header :=
  Header "linux/if_bonding.h" [Sockios.header] (concat [
    defs_BOND_ENSLAVE_OLD]).
End If_bonding.

(** ** [linux/if_bridge.h] *)

Module If_bridge.
Definition defs_BRCTL_VERSION : list decl := [
  Defines [
    ("BRCTL_VERSION", dec 1); ("BRCTL_GET_VERSION", dec 0); ("BRCTL_GET_BRIDGES", dec 1);
    ("BRCTL_ADD_BRIDGE", dec 2); ("BRCTL_DEL_BRIDGE", dec 3); ("BRCTL_ADD_IF", dec 4);
    ("BRCTL_DEL_IF", dec 5); ("BRCTL_GET_BRIDGE_INFO", dec 6); ("BRCTL_GET_PORT_LIST", dec 7);
    ("BRCTL_SET_BRIDGE_FORWARD_DELAY", dec 8); ("BRCTL_SET_BRIDGE_HELLO_TIME", dec 9);
    ("BRCTL_SET_BRIDGE_MAX_AGE", dec 10); ("BRCTL_SET_AGEING_TIME", dec 11);
    ("BRCTL_SET_GC_INTERVAL", dec 12); ("BRCTL_GET_PORT_INFO", dec 13);
    ("BRCTL_SET_BRIDGE_STP_STATE", dec 14); ("BRCTL_SET_BRIDGE_PRIORITY", dec 15);
    ("BRCTL_SET_PORT_PRIORITY", dec 16); ("BRCTL_SET_PATH_COST", dec 17);
    ("BRCTL_GET_FDB_ENTRIES", dec 18); ("BR_STATE_DISABLED", dec 0);
    ("BR_STATE_LISTENING", dec 1); ("BR_STATE_LEARNING", dec 2); ("BR_STATE_FORWARDING", dec 3);
    ("BR_STATE_BLOCKING", dec 4)]].
Definition defs_BRIDGE_FLAGS_MASTER : list decl := [
  Defines [
    ("BRIDGE_FLAGS_MASTER", dec 1); ("BRIDGE_FLAGS_SELF", dec 2); ("BRIDGE_MODE_VEB", dec 0);
    ("BRIDGE_MODE_VEPA", dec 1); ("BRIDGE_MODE_UNDEF", hex 0xFFFF)];
  Enum [
    ("IFLA_BRIDGE_FLAGS", None); ("IFLA_BRIDGE_MODE", None); ("IFLA_BRIDGE_VLAN_INFO", None);
    ("__IFLA_BRIDGE_MAX", None)];
  Defines [
    ("IFLA_BRIDGE_MAX", Sub (Id "__IFLA_BRIDGE_MAX") (dec 1));
    ("BRIDGE_VLAN_INFO_MASTER", Shl (dec 1) (dec 0));
    ("BRIDGE_VLAN_INFO_PVID", Shl (dec 1) (dec 1));
    ("BRIDGE_VLAN_INFO_UNTAGGED", Shl (dec 1) (dec 2));
    ("BRIDGE_VLAN_INFO_RANGE_BEGIN", Shl (dec 1) (dec 3));
    ("BRIDGE_VLAN_INFO_RANGE_END", Shl (dec 1) (dec 4));
    ("BRIDGE_VLAN_INFO_BRENTRY", Shl (dec 1) (dec 5))]].
Definition enum_MDBA_UNSPEC : list decl := [
  Enum [
    ("MDBA_UNSPEC", None); ("MDBA_MDB", None); ("MDBA_ROUTER", None); ("__MDBA_MAX", None)];
  Defines [
    ("MDBA_MAX", Sub (Id "__MDBA_MAX") (dec 1))];
  Enum [
    ("MDBA_MDB_UNSPEC", None); ("MDBA_MDB_ENTRY", None); ("__MDBA_MDB_MAX", None)];
  Defines [
    ("MDBA_MDB_MAX", Sub (Id "__MDBA_MDB_MAX") (dec 1))];
  Enum [
    ("MDBA_MDB_ENTRY_UNSPEC", None); ("MDBA_MDB_ENTRY_INFO", None);
    ("__MDBA_MDB_ENTRY_MAX", None)];
  Defines [
    ("MDBA_MDB_ENTRY_MAX", Sub (Id "__MDBA_MDB_ENTRY_MAX") (dec 1))];
  Enum [
    ("MDBA_ROUTER_UNSPEC", None); ("MDBA_ROUTER_PORT", None); ("__MDBA_ROUTER_MAX", None)];
  Defines [
    ("MDBA_ROUTER_MAX", Sub (Id "__MDBA_ROUTER_MAX") (dec 1))]].
Definition enum_MDBA_SET_ENTRY_UNSPEC : list decl := [
  Enum [
    ("MDBA_SET_ENTRY_UNSPEC", None); ("MDBA_SET_ENTRY", None); ("__MDBA_SET_ENTRY_MAX", None)];
  Defines [
    ("MDBA_SET_ENTRY_MAX", Sub (Id "__MDBA_SET_ENTRY_MAX") (dec 1))]].
Definition header : header :=
  Header "linux/if_bridge.h" [] (concat [
    defs_BRCTL_VERSION; defs_BRIDGE_FLAGS_MASTER; enum_MDBA_UNSPEC; enum_MDBA_SET_ENTRY_UNSPEC]).
End If_bridge.

(** ** [linux/if_cablemodem.h] *)

Module If_cablemodem.
Definition defs_SIOCGCMSTATS : list decl := [
  Defines [
    ("SIOCGCMSTATS", Add (Id "SIOCDEVPRIVATE") (dec 0));
    ("SIOCGCMFIRMWARE", Add (Id "SIOCDEVPRIVATE") (dec 1));
    ("SIOCGCMFREQUENCY", Add (Id "SIOCDEVPRIVATE") (dec 2));
    ("SIOCSCMFREQUENCY", Add (Id "SIOCDEVPRIVATE") (dec 3));
    ("SIOCGCMPIDS", Add (Id "SIOCDEVPRIVATE") (dec 4));
    ("SIOCSCMPIDS", Add (Id "SIOCDEVPRIVATE") (dec 5))]].
Definition header : header :=
  Header "linux/if_cablemodem.h" [Sockios.header] (concat [
    defs_SIOCGCMSTATS]).
End If_cablemodem.

(** ** [linux/if_eql.h] *)

Module If_eql.
Definition defs_EQL_DEFAULT_SLAVE_PRIORITY : list decl := [
  Defines [
    ("EQL_DEFAULT_SLAVE_PRIORITY", dec 28800); ("EQL_DEFAULT_MAX_SLAVES", dec 4);
    ("EQL_DEFAULT_MTU", dec 576); ("EQL_DEFAULT_RESCHED_IVAL", Id "HZ");
    ("EQL_ENSLAVE", Id "SIOCDEVPRIVATE"); ("EQL_EMANCIPATE", Add (Id "SIOCDEVPRIVATE") (dec 1));
    ("EQL_GETSLAVECFG", Add (Id "SIOCDEVPRIVATE") (dec 2));
    ("EQL_SETSLAVECFG", Add (Id "SIOCDEVPRIVATE") (dec 3));
    ("EQL_GETMASTRCFG", Add (Id "SIOCDEVPRIVATE") (dec 4));
    ("EQL_SETMASTRCFG", Add (Id "SIOCDEVPRIVATE") (dec 5))]].
Definition header : header :=
  Header "linux/if_eql.h" [Asm_generic_param.header; Sockios.header] (concat [
    defs_EQL_DEFAULT_SLAVE_PRIORITY]).
End If_eql.

(** ** [linux/if_ether.h] *)

Module If_ether.
Definition defs_ETH_ALEN : list decl := [
  Defines [
    ("ETH_ALEN", dec 6); ("ETH_TLEN", dec 2); ("ETH_HLEN", dec 14); ("ETH_ZLEN", dec 60);
    ("ETH_DATA_LEN", dec 1500); ("ETH_FRAME_LEN", dec 1514); ("ETH_FCS_LEN", dec 4)];
  Defines [
    ("ETH_P_LOOP", hex 0x0060); ("ETH_P_PUP", hex 0x0200); ("ETH_P_PUPAT", hex 0x0201);
    ("ETH_P_TSN", hex 0x22F0); ("ETH_P_IP", hex 0x0800); ("ETH_P_X25", hex 0x0805);
    ("ETH_P_ARP", hex 0x0806); ("ETH_P_BPQ", hex 0x08FF); ("ETH_P_IEEEPUP", hex 0x0a00);
    ("ETH_P_IEEEPUPAT", hex 0x0a01); ("ETH_P_BATMAN", hex 0x4305); ("ETH_P_DEC", hex 0x6000);
    ("ETH_P_DNA_DL", hex 0x6001); ("ETH_P_DNA_RC", hex 0x6002); ("ETH_P_DNA_RT", hex 0x6003);
    ("ETH_P_LAT", hex 0x6004); ("ETH_P_DIAG", hex 0x6005); ("ETH_P_CUST", hex 0x6006);
    ("ETH_P_SCA", hex 0x6007); ("ETH_P_TEB", hex 0x6558); ("ETH_P_RARP", hex 0x8035);
    ("ETH_P_ATALK", hex 0x809B); ("ETH_P_AARP", hex 0x80F3); ("ETH_P_8021Q", hex 0x8100);
    ("ETH_P_IPX", hex 0x8137); ("ETH_P_IPV6", hex 0x86DD); ("ETH_P_PAUSE", hex 0x8808);
    ("ETH_P_SLOW", hex 0x8809); ("ETH_P_WCCP", hex 0x883E); ("ETH_P_MPLS_UC", hex 0x8847);
    ("ETH_P_MPLS_MC", hex 0x8848); ("ETH_P_ATMMPOA", hex 0x884c); ("ETH_P_PPP_DISC", hex 0x8863);
    ("ETH_P_PPP_SES", hex 0x8864); ("ETH_P_LINK_CTL", hex 0x886c); ("ETH_P_ATMFATE", hex 0x8884);
    ("ETH_P_PAE", hex 0x888E); ("ETH_P_AOE", hex 0x88A2); ("ETH_P_8021AD", hex 0x88A8);
    ("ETH_P_802_EX1", hex 0x88B5); ("ETH_P_TIPC", hex 0x88CA); ("ETH_P_8021AH", hex 0x88E7);
    ("ETH_P_MVRP", hex 0x88F5); ("ETH_P_1588", hex 0x88F7); ("ETH_P_PRP", hex 0x88FB);
    ("ETH_P_FCOE", hex 0x8906); ("ETH_P_TDLS", hex 0x890D); ("ETH_P_FIP", hex 0x8914);
    ("ETH_P_80221", hex 0x8917); ("ETH_P_LOOPBACK", hex 0x9000); ("ETH_P_QINQ1", hex 0x9100);
    ("ETH_P_QINQ2", hex 0x9200); ("ETH_P_QINQ3", hex 0x9300); ("ETH_P_EDSA", hex 0xDADA);
    ("ETH_P_AF_IUCV", hex 0xFBFB); ("ETH_P_MAP", hex 0xDA1A); ("ETH_P_802_3_MIN", hex 0x0600)];
  Defines [
    ("ETH_P_802_3", hex 0x0001); ("ETH_P_AX25", hex 0x0002); ("ETH_P_ALL", hex 0x0003);
    ("ETH_P_802_2", hex 0x0004); ("ETH_P_SNAP", hex 0x0005); ("ETH_P_DDCMP", hex 0x0006);
    ("ETH_P_WAN_PPP", hex 0x0007); ("ETH_P_PPP_MP", hex 0x0008); ("ETH_P_LOCALTALK", hex 0x0009);
    ("ETH_P_CAN", hex 0x000C); ("ETH_P_CANFD", hex 0x000D); ("ETH_P_PPPTALK", hex 0x0010);
    ("ETH_P_TR_802_2", hex 0x0011); ("ETH_P_MOBITEX", hex 0x0015); ("ETH_P_CONTROL", hex 0x0016);
    ("ETH_P_IRDA", hex 0x0017); ("ETH_P_ECONET", hex 0x0018); ("ETH_P_HDLC", hex 0x0019);
    ("ETH_P_ARCNET", hex 0x001A); ("ETH_P_DSA", hex 0x001B); ("ETH_P_TRAILER", hex 0x001C);
    ("ETH_P_PHONET", hex 0x00F5); ("ETH_P_IEEE802154", hex 0x00F6); ("ETH_P_CAIF", hex 0x00F7);
    ("ETH_P_XDSA", hex 0x00F8)]].
Definition header : header :=
  Header "linux/if_ether.h" [] (concat [
    defs_ETH_ALEN]).
End If_ether.

(** ** [linux/if_fddi.h] *)

Module If_fddi.
Definition defs_FDDI_K_ALEN : list decl := [
  Defines [
    ("FDDI_K_ALEN", dec 6); ("FDDI_K_8022_HLEN", dec 16); ("FDDI_K_SNAP_HLEN", dec 21);
    ("FDDI_K_8022_ZLEN", dec 16); ("FDDI_K_SNAP_ZLEN", dec 21); ("FDDI_K_8022_DLEN", dec 4475);
    ("FDDI_K_SNAP_DLEN", dec 4470); ("FDDI_K_LLC_ZLEN", dec 13); ("FDDI_K_LLC_LEN", dec 4491);
    ("FDDI_K_OUI_LEN", dec 3); ("FDDI_FC_K_VOID", hex 0x00);
    ("FDDI_FC_K_NON_RESTRICTED_TOKEN", hex 0x80); ("FDDI_FC_K_RESTRICTED_TOKEN", hex 0xC0);
    ("FDDI_FC_K_SMT_MIN", hex 0x41); ("FDDI_FC_K_SMT_MAX", hex 0x4F);
    ("FDDI_FC_K_MAC_MIN", hex 0xC1); ("FDDI_FC_K_MAC_MAX", hex 0xCF);
    ("FDDI_FC_K_ASYNC_LLC_MIN", hex 0x50); ("FDDI_FC_K_ASYNC_LLC_DEF", hex 0x54);
    ("FDDI_FC_K_ASYNC_LLC_MAX", hex 0x5F); ("FDDI_FC_K_SYNC_LLC_MIN", hex 0xD0);
    ("FDDI_FC_K_SYNC_LLC_MAX", hex 0xD7); ("FDDI_FC_K_IMPLEMENTOR_MIN", hex 0x60);
    ("FDDI_FC_K_IMPLEMENTOR_MAX", hex 0x6F); ("FDDI_FC_K_RESERVED_MIN", hex 0x70);
    ("FDDI_FC_K_RESERVED_MAX", hex 0x7F); ("FDDI_EXTENDED_SAP", hex 0xAA);
    ("FDDI_UI_CMD", hex 0x03)]].
Definition header : header :=
  Header "linux/if_fddi.h" [] (concat [
    defs_FDDI_K_ALEN]).
End If_fddi.

(** ** [linux/if_packet.h] *)

Module If_packet.
Definition defs_PACKET_HOST : list decl := [
  Defines [
    ("PACKET_HOST", dec 0); ("PACKET_BROADCAST", dec 1); ("PACKET_MULTICAST", dec 2);
    ("PACKET_OTHERHOST", dec 3); ("PACKET_OUTGOING", dec 4); ("PACKET_LOOPBACK", dec 5);
    ("PACKET_USER", dec 6); ("PACKET_KERNEL", dec 7); ("PACKET_FASTROUTE", dec 6);
    ("PACKET_ADD_MEMBERSHIP", dec 1); ("PACKET_DROP_MEMBERSHIP", dec 2);
    ("PACKET_RECV_OUTPUT", dec 3); ("PACKET_RX_RING", dec 5); ("PACKET_STATISTICS", dec 6);
    ("PACKET_COPY_THRESH", dec 7); ("PACKET_AUXDATA", dec 8); ("PACKET_ORIGDEV", dec 9);
    ("PACKET_VERSION", dec 10); ("PACKET_HDRLEN", dec 11); ("PACKET_RESERVE", dec 12);
    ("PACKET_TX_RING", dec 13); ("PACKET_LOSS", dec 14); ("PACKET_VNET_HDR", dec 15);
    ("PACKET_TX_TIMESTAMP", dec 16); ("PACKET_TIMESTAMP", dec 17); ("PACKET_FANOUT", dec 18);
    ("PACKET_TX_HAS_OFF", dec 19); ("PACKET_QDISC_BYPASS", dec 20);
    ("PACKET_ROLLOVER_STATS", dec 21); ("PACKET_FANOUT_DATA", dec 22);
    ("PACKET_FANOUT_HASH", dec 0); ("PACKET_FANOUT_LB", dec 1); ("PACKET_FANOUT_CPU", dec 2);
    ("PACKET_FANOUT_ROLLOVER", dec 3); ("PACKET_FANOUT_RND", dec 4); ("PACKET_FANOUT_QM", dec 5);
    ("PACKET_FANOUT_CBPF", dec 6); ("PACKET_FANOUT_EBPF", dec 7);
    ("PACKET_FANOUT_FLAG_ROLLOVER", hex 0x1000); ("PACKET_FANOUT_FLAG_DEFRAG", hex 0x8000)]].
Definition defs_TP_STATUS_KERNEL : list decl := [
  Defines [
    ("TP_STATUS_KERNEL", dec 0); ("TP_STATUS_USER", Shl (dec 1) (dec 0));
    ("TP_STATUS_COPY", Shl (dec 1) (dec 1)); ("TP_STATUS_LOSING", Shl (dec 1) (dec 2));
    ("TP_STATUS_CSUMNOTREADY", Shl (dec 1) (dec 3));
    ("TP_STATUS_VLAN_VALID", Shl (dec 1) (dec 4)); ("TP_STATUS_BLK_TMO", Shl (dec 1) (dec 5));
    ("TP_STATUS_VLAN_TPID_VALID", Shl (dec 1) (dec 6));
    ("TP_STATUS_CSUM_VALID", Shl (dec 1) (dec 7)); ("TP_STATUS_AVAILABLE", dec 0);
    ("TP_STATUS_SEND_REQUEST", Shl (dec 1) (dec 0)); ("TP_STATUS_SENDING", Shl (dec 1) (dec 1));
    ("TP_STATUS_WRONG_FORMAT", Shl (dec 1) (dec 2));
    ("TP_STATUS_TS_SOFTWARE", Shl (dec 1) (dec 29));
    ("TP_STATUS_TS_SYS_HARDWARE", Shl (dec 1) (dec 30));
    ("TP_STATUS_TS_RAW_HARDWARE", Shl (dec 1) (dec 31)); ("TP_FT_REQ_FILL_RXHASH", hex 0x1)]].
Definition enum_tpacket_versions : list decl := [
  Enum [
    ("TPACKET_V1", None); ("TPACKET_V2", None); ("TPACKET_V3", None)]].
Definition defs_PACKET_MR_MULTICAST : list decl := [
  Defines [
    ("PACKET_MR_MULTICAST", dec 0); ("PACKET_MR_PROMISC", dec 1); ("PACKET_MR_ALLMULTI", dec 2);
    ("PACKET_MR_UNICAST", dec 3)]].
Definition header : header :=
  Header "linux/if_packet.h" [] (concat [
    defs_PACKET_HOST; defs_TP_STATUS_KERNEL; enum_tpacket_versions; defs_PACKET_MR_MULTICAST]).
End If_packet.

(** ** [linux/if_pppol2tp.h] *)

Module If_pppol2tp.
Definition enum_PPPOL2TP_SO_DEBUG : list decl := [
  Enum [
    ("PPPOL2TP_SO_DEBUG", Some (dec 1)); ("PPPOL2TP_SO_RECVSEQ", Some (dec 2));
    ("PPPOL2TP_SO_SENDSEQ", Some (dec 3)); ("PPPOL2TP_SO_LNSMODE", Some (dec 4));
    ("PPPOL2TP_SO_REORDERTO", Some (dec 5))];
  Enum [
    ("PPPOL2TP_MSG_DEBUG", Some (Id "L2TP_MSG_DEBUG"));
    ("PPPOL2TP_MSG_CONTROL", Some (Id "L2TP_MSG_CONTROL"));
    ("PPPOL2TP_MSG_SEQ", Some (Id "L2TP_MSG_SEQ"));
    ("PPPOL2TP_MSG_DATA", Some (Id "L2TP_MSG_DATA"))]].
Definition header : header :=
  Header "linux/if_pppol2tp.h" [L2tp.header] (concat [
    enum_PPPOL2TP_SO_DEBUG]).
End If_pppol2tp.

(** ** [linux/if_pppox.h] *)

Module If_pppox.
Definition defs_PX_PROTO_OE : list decl := [
  Defines [
    ("PX_PROTO_OE", dec 0); ("PX_PROTO_OL2TP", dec 1); ("PX_PROTO_PPTP", dec 2);
    ("PX_PROTO_OLAC", dec 3); ("PX_PROTO_OPNS", dec 4); ("PX_MAX_PROTO", dec 5)]].
Definition defs_PADI_CODE : list decl := [
  Defines [
    ("PADI_CODE", hex 0x09); ("PADO_CODE", hex 0x07); ("PADR_CODE", hex 0x19);
    ("PADS_CODE", hex 0x65); ("PADT_CODE", hex 0xa7)]].
Definition header : header :=
  Header "linux/if_pppox.h" [] (concat [
    defs_PX_PROTO_OE; defs_PADI_CODE]).
End If_pppox.

(** ** [linux/if_slip.h] *)

Module If_slip.
Definition defs_SL_MODE_SLIP : list decl := [
  Defines [
    ("SL_MODE_SLIP", dec 0); ("SL_MODE_CSLIP", dec 1); ("SL_MODE_KISS", dec 4);
    ("SL_OPT_SIXBIT", dec 2); ("SL_OPT_ADAPTIVE", dec 8)];
  Defines [
    ("SIOCSKEEPALIVE", Id "SIOCDEVPRIVATE");
    ("SIOCGKEEPALIVE", Add (Id "SIOCDEVPRIVATE") (dec 1));
    ("SIOCSOUTFILL", Add (Id "SIOCDEVPRIVATE") (dec 2));
    ("SIOCGOUTFILL", Add (Id "SIOCDEVPRIVATE") (dec 3));
    ("SIOCSLEASE", Add (Id "SIOCDEVPRIVATE") (dec 4));
    ("SIOCGLEASE", Add (Id "SIOCDEVPRIVATE") (dec 5))]].
Definition header : header :=
  Header "linux/if_slip.h" [Sockios.header] (concat [
    defs_SL_MODE_SLIP]).
End If_slip.

(** ** [linux/if_team.h] *)

Module If_team.
Definition enum_TEAM_CMD_NOOP : list decl := [
  Enum [
    ("TEAM_CMD_NOOP", None); ("TEAM_CMD_OPTIONS_SET", None); ("TEAM_CMD_OPTIONS_GET", None);
    ("TEAM_CMD_PORT_LIST_GET", None); ("__TEAM_CMD_MAX", None);
    ("TEAM_CMD_MAX", Some (Sub (Id "__TEAM_CMD_MAX") (dec 1)))];
  Enum [
    ("TEAM_ATTR_UNSPEC", None); ("TEAM_ATTR_TEAM_IFINDEX", None);
    ("TEAM_ATTR_LIST_OPTION", None); ("TEAM_ATTR_LIST_PORT", None); ("__TEAM_ATTR_MAX", None);
    ("TEAM_ATTR_MAX", Some (Sub (Id "__TEAM_ATTR_MAX") (dec 1)))];
  Enum [
    ("TEAM_ATTR_ITEM_OPTION_UNSPEC", None); ("TEAM_ATTR_ITEM_OPTION", None);
    ("__TEAM_ATTR_ITEM_OPTION_MAX", None);
    ("TEAM_ATTR_ITEM_OPTION_MAX", Some (Sub (Id "__TEAM_ATTR_ITEM_OPTION_MAX") (dec 1)))];
  Enum [
    ("TEAM_ATTR_OPTION_UNSPEC", None); ("TEAM_ATTR_OPTION_NAME", None);
    ("TEAM_ATTR_OPTION_CHANGED", None); ("TEAM_ATTR_OPTION_TYPE", None);
    ("TEAM_ATTR_OPTION_DATA", None); ("TEAM_ATTR_OPTION_REMOVED", None);
    ("TEAM_ATTR_OPTION_PORT_IFINDEX", None); ("TEAM_ATTR_OPTION_ARRAY_INDEX", None);
    ("__TEAM_ATTR_OPTION_MAX", None);
    ("TEAM_ATTR_OPTION_MAX", Some (Sub (Id "__TEAM_ATTR_OPTION_MAX") (dec 1)))];
  Enum [
    ("TEAM_ATTR_ITEM_PORT_UNSPEC", None); ("TEAM_ATTR_ITEM_PORT", None);
    ("__TEAM_ATTR_ITEM_PORT_MAX", None);
    ("TEAM_ATTR_ITEM_PORT_MAX", Some (Sub (Id "__TEAM_ATTR_ITEM_PORT_MAX") (dec 1)))];
  Enum [
    ("TEAM_ATTR_PORT_UNSPEC", None); ("TEAM_ATTR_PORT_IFINDEX", None);
    ("TEAM_ATTR_PORT_CHANGED", None); ("TEAM_ATTR_PORT_LINKUP", None);
    ("TEAM_ATTR_PORT_SPEED", None); ("TEAM_ATTR_PORT_DUPLEX", None);
    ("TEAM_ATTR_PORT_REMOVED", None); ("__TEAM_ATTR_PORT_MAX", None);
    ("TEAM_ATTR_PORT_MAX", Some (Sub (Id "__TEAM_ATTR_PORT_MAX") (dec 1)))]].
Definition header : header :=
  Header "linux/if_team.h" [] (concat [
    enum_TEAM_CMD_NOOP]).
End If_team.

(** ** [linux/if_tun.h] *)

Module If_tun.
Definition defs_TUN_READQ_SIZE : list decl := [
  Defines [
    ("TUN_READQ_SIZE", dec 500); ("TUN_TUN_DEV", Id "IFF_TUN"); ("TUN_TAP_DEV", Id "IFF_TAP");
    ("TUN_TYPE_MASK", hex 0x000f)]].
Definition defs_IFF_TUN : list decl := [
  Defines [
    ("IFF_TUN", hex 0x0001); ("IFF_TAP", hex 0x0002); ("IFF_NO_PI", hex 0x1000);
    ("IFF_ONE_QUEUE", hex 0x2000); ("IFF_VNET_HDR", hex 0x4000); ("IFF_TUN_EXCL", hex 0x8000);
    ("IFF_MULTI_QUEUE", hex 0x0100); ("IFF_ATTACH_QUEUE", hex 0x0200);
    ("IFF_DETACH_QUEUE", hex 0x0400); ("IFF_PERSIST", hex 0x0800); ("IFF_NOFILTER", hex 0x1000);
    ("TUN_TX_TIMESTAMP", dec 1); ("TUN_F_CSUM", hex 0x01); ("TUN_F_TSO4", hex 0x02);
    ("TUN_F_TSO6", hex 0x04); ("TUN_F_TSO_ECN", hex 0x08); ("TUN_F_UFO", hex 0x10);
    ("TUN_PKT_STRIP", hex 0x0001)]].
Definition header : header :=
  Header "linux/if_tun.h" [] (concat [
    defs_TUN_READQ_SIZE; defs_IFF_TUN]).
End If_tun.

(** ** [linux/if_vlan.h] *)

Module If_vlan.
Definition enum_vlan_ioctl_cmds : list decl := [
  Enum [
    ("ADD_VLAN_CMD", None); ("DEL_VLAN_CMD", None); ("SET_VLAN_INGRESS_PRIORITY_CMD", None);
    ("SET_VLAN_EGRESS_PRIORITY_CMD", None); ("GET_VLAN_INGRESS_PRIORITY_CMD", None);
    ("GET_VLAN_EGRESS_PRIORITY_CMD", None); ("SET_VLAN_NAME_TYPE_CMD", None);
    ("SET_VLAN_FLAG_CMD", None); ("GET_VLAN_REALDEV_NAME_CMD", None); ("GET_VLAN_VID_CMD", None)];
  Enum [
    ("VLAN_FLAG_REORDER_HDR", Some (hex 0x1)); ("VLAN_FLAG_GVRP", Some (hex 0x2));
    ("VLAN_FLAG_LOOSE_BINDING", Some (hex 0x4)); ("VLAN_FLAG_MVRP", Some (hex 0x8))];
  Enum [
    ("VLAN_NAME_TYPE_PLUS_VID", None); ("VLAN_NAME_TYPE_RAW_PLUS_VID", None);
    ("VLAN_NAME_TYPE_PLUS_VID_NO_PAD", None); ("VLAN_NAME_TYPE_RAW_PLUS_VID_NO_PAD", None);
    ("VLAN_NAME_TYPE_HIGHEST", None)]].
Definition header : header :=
  Header "linux/if_vlan.h" [] (concat [
    enum_vlan_ioctl_cmds]).
End If_vlan.

(** ** [linux/if_x25.h] *)

Module If_x25.
Definition defs_X25_IFACE_DATA : list decl := [
  Defines [
    ("X25_IFACE_DATA", hex 0x00); ("X25_IFACE_CONNECT", hex 0x01);
    ("X25_IFACE_DISCONNECT", hex 0x02); ("X25_IFACE_PARAMS", hex 0x03)]].
Definition header : header :=
  Header "linux/if_x25.h" [] (concat [
    defs_X25_IFACE_DATA]).
End If_x25.

(** ** [linux/in.h] *)

Module In.
Definition enum_IPPROTO_IP : list decl := [
  Enum [
    ("IPPROTO_IP", Some (dec 0)); ("IPPROTO_ICMP", Some (dec 1)); ("IPPROTO_IGMP", Some (dec 2));
    ("IPPROTO_IPIP", Some (dec 4)); ("IPPROTO_TCP", Some (dec 6)); ("IPPROTO_EGP", Some (dec 8));
    ("IPPROTO_PUP", Some (dec 12)); ("IPPROTO_UDP", Some (dec 17));
    ("IPPROTO_IDP", Some (dec 22)); ("IPPROTO_TP", Some (dec 29));
    ("IPPROTO_DCCP", Some (dec 33)); ("IPPROTO_IPV6", Some (dec 41));
    ("IPPROTO_RSVP", Some (dec 46)); ("IPPROTO_GRE", Some (dec 47));
    ("IPPROTO_ESP", Some (dec 50)); ("IPPROTO_AH", Some (dec 51));
    ("IPPROTO_MTP", Some (dec 92)); ("IPPROTO_BEETPH", Some (dec 94));
    ("IPPROTO_ENCAP", Some (dec 98)); ("IPPROTO_PIM", Some (dec 103));
    ("IPPROTO_COMP", Some (dec 108)); ("IPPROTO_SCTP", Some (dec 132));
    ("IPPROTO_UDPLITE", Some (dec 136)); ("IPPROTO_MPLS", Some (dec 137));
    ("IPPROTO_RAW", Some (dec 255)); ("IPPROTO_MAX", None)]].
Definition defs_IP_TOS : list decl := [
  Defines [
    ("IP_TOS", dec 1); ("IP_TTL", dec 2); ("IP_HDRINCL", dec 3); ("IP_OPTIONS", dec 4);
    ("IP_ROUTER_ALERT", dec 5); ("IP_RECVOPTS", dec 6); ("IP_RETOPTS", dec 7);
    ("IP_PKTINFO", dec 8); ("IP_PKTOPTIONS", dec 9); ("IP_MTU_DISCOVER", dec 10);
    ("IP_RECVERR", dec 11); ("IP_RECVTTL", dec 12); ("IP_RECVTOS", dec 13); ("IP_MTU", dec 14);
    ("IP_FREEBIND", dec 15); ("IP_IPSEC_POLICY", dec 16); ("IP_XFRM_POLICY", dec 17);
    ("IP_PASSSEC", dec 18); ("IP_TRANSPARENT", dec 19); ("IP_RECVRETOPTS", Id "IP_RETOPTS");
    ("IP_ORIGDSTADDR", dec 20); ("IP_RECVORIGDSTADDR", Id "IP_ORIGDSTADDR");
    ("IP_MINTTL", dec 21); ("IP_NODEFRAG", dec 22); ("IP_CHECKSUM", dec 23);
    ("IP_BIND_ADDRESS_NO_PORT", dec 24); ("IP_PMTUDISC_DONT", dec 0);
    ("IP_PMTUDISC_WANT", dec 1); ("IP_PMTUDISC_DO", dec 2); ("IP_PMTUDISC_PROBE", dec 3)];
  Defines [
    ("IP_PMTUDISC_INTERFACE", dec 4); ("IP_PMTUDISC_OMIT", dec 5); ("IP_MULTICAST_IF", dec 32);
    ("IP_MULTICAST_TTL", dec 33); ("IP_MULTICAST_LOOP", dec 34); ("IP_ADD_MEMBERSHIP", dec 35);
    ("IP_DROP_MEMBERSHIP", dec 36); ("IP_UNBLOCK_SOURCE", dec 37); ("IP_BLOCK_SOURCE", dec 38);
    ("IP_ADD_SOURCE_MEMBERSHIP", dec 39); ("IP_DROP_SOURCE_MEMBERSHIP", dec 40);
    ("IP_MSFILTER", dec 41); ("MCAST_JOIN_GROUP", dec 42); ("MCAST_BLOCK_SOURCE", dec 43);
    ("MCAST_UNBLOCK_SOURCE", dec 44); ("MCAST_LEAVE_GROUP", dec 45);
    ("MCAST_JOIN_SOURCE_GROUP", dec 46); ("MCAST_LEAVE_SOURCE_GROUP", dec 47);
    ("MCAST_MSFILTER", dec 48); ("IP_MULTICAST_ALL", dec 49); ("IP_UNICAST_IF", dec 50);
    ("MCAST_EXCLUDE", dec 0); ("MCAST_INCLUDE", dec 1); ("IP_DEFAULT_MULTICAST_TTL", dec 1);
    ("IP_DEFAULT_MULTICAST_LOOP", dec 1)]].
Definition defs_IN_CLASSA_NET : list decl := [
  Defines [
    ("IN_CLASSA_NET", hex 0xff000000); ("IN_CLASSA_NSHIFT", dec 24);
    ("IN_CLASSA_HOST", And (hex 0xffffffff) (Not (Id "IN_CLASSA_NET")));
    ("IN_CLASSA_MAX", dec 128); ("IN_CLASSB_NET", hex 0xffff0000); ("IN_CLASSB_NSHIFT", dec 16);
    ("IN_CLASSB_HOST", And (hex 0xffffffff) (Not (Id "IN_CLASSB_NET")));
    ("IN_CLASSB_MAX", dec 65536); ("IN_CLASSC_NET", hex 0xffffff00); ("IN_CLASSC_NSHIFT", dec 8);
    ("IN_CLASSC_HOST", And (hex 0xffffffff) (Not (Id "IN_CLASSC_NET")));
    ("IN_MULTICAST_NET", hex 0xF0000000)]].
Definition defs_IN_LOOPBACKNET : list decl := [
  Defines [
    ("IN_LOOPBACKNET", dec 127); ("INADDR_LOOPBACK", hex 0x7f000001);
    ("INADDR_UNSPEC_GROUP", hexU 0xe0000000); ("INADDR_ALLHOSTS_GROUP", hexU 0xe0000001);
    ("INADDR_ALLRTRS_GROUP", hexU 0xe0000002); ("INADDR_MAX_LOCAL_GROUP", hexU 0xe00000ff)]].
Definition header : header :=
  Header "linux/in.h" [] (concat [
    enum_IPPROTO_IP; defs_IP_TOS; defs_IN_CLASSA_NET; defs_IN_LOOPBACKNET]).
End In.

(** ** [linux/in6.h] *)

Module In6.
Definition defs_IPV6_FL_A_GET : list decl := [
  Defines [
    ("IPV6_FL_A_GET", dec 0); ("IPV6_FL_A_PUT", dec 1); ("IPV6_FL_A_RENEW", dec 2);
    ("IPV6_FL_F_CREATE", dec 1); ("IPV6_FL_F_EXCL", dec 2); ("IPV6_FL_F_REFLECT", dec 4);
    ("IPV6_FL_F_REMOTE", dec 8); ("IPV6_FL_S_NONE", dec 0); ("IPV6_FL_S_EXCL", dec 1);
    ("IPV6_FL_S_PROCESS", dec 2); ("IPV6_FL_S_USER", dec 3); ("IPV6_FL_S_ANY", dec 255)];
  Defines [
    ("IPV6_FLOWINFO_FLOWLABEL", hex 0x000fffff); ("IPV6_FLOWINFO_PRIORITY", hex 0x0ff00000);
    ("IPV6_PRIORITY_UNCHARACTERIZED", hex 0x0000); ("IPV6_PRIORITY_FILLER", hex 0x0100);
    ("IPV6_PRIORITY_UNATTENDED", hex 0x0200); ("IPV6_PRIORITY_RESERVED1", hex 0x0300);
    ("IPV6_PRIORITY_BULK", hex 0x0400); ("IPV6_PRIORITY_RESERVED2", hex 0x0500);
    ("IPV6_PRIORITY_INTERACTIVE", hex 0x0600); ("IPV6_PRIORITY_CONTROL", hex 0x0700);
    ("IPV6_PRIORITY_8", hex 0x0800); ("IPV6_PRIORITY_9", hex 0x0900);
    ("IPV6_PRIORITY_10", hex 0x0a00); ("IPV6_PRIORITY_11", hex 0x0b00);
    ("IPV6_PRIORITY_12", hex 0x0c00); ("IPV6_PRIORITY_13", hex 0x0d00);
    ("IPV6_PRIORITY_14", hex 0x0e00); ("IPV6_PRIORITY_15", hex 0x0f00)];
  Defines [
    ("IPPROTO_HOPOPTS", dec 0); ("IPPROTO_ROUTING", dec 43); ("IPPROTO_FRAGMENT", dec 44);
    ("IPPROTO_ICMPV6", dec 58); ("IPPROTO_NONE", dec 59); ("IPPROTO_DSTOPTS", dec 60);
    ("IPPROTO_MH", dec 135)];
  Defines [
    ("IPV6_TLV_PAD1", dec 0); ("IPV6_TLV_PADN", dec 1); ("IPV6_TLV_ROUTERALERT", dec 5);
    ("IPV6_TLV_JUMBO", dec 194); ("IPV6_TLV_HAO", dec 201)];
  Defines [
    ("IPV6_ADDRFORM", dec 1); ("IPV6_2292PKTINFO", dec 2); ("IPV6_2292HOPOPTS", dec 3);
    ("IPV6_2292DSTOPTS", dec 4); ("IPV6_2292RTHDR", dec 5); ("IPV6_2292PKTOPTIONS", dec 6);
    ("IPV6_CHECKSUM", dec 7); ("IPV6_2292HOPLIMIT", dec 8); ("IPV6_NEXTHOP", dec 9);
    ("IPV6_AUTHHDR", dec 10); ("IPV6_FLOWINFO", dec 11); ("IPV6_UNICAST_HOPS", dec 16);
    ("IPV6_MULTICAST_IF", dec 17); ("IPV6_MULTICAST_HOPS", dec 18);
    ("IPV6_MULTICAST_LOOP", dec 19); ("IPV6_ADD_MEMBERSHIP", dec 20);
    ("IPV6_DROP_MEMBERSHIP", dec 21); ("IPV6_ROUTER_ALERT", dec 22);
    ("IPV6_MTU_DISCOVER", dec 23); ("IPV6_MTU", dec 24); ("IPV6_RECVERR", dec 25);
    ("IPV6_V6ONLY", dec 26); ("IPV6_JOIN_ANYCAST", dec 27); ("IPV6_LEAVE_ANYCAST", dec 28);
    ("IPV6_PMTUDISC_DONT", dec 0); ("IPV6_PMTUDISC_WANT", dec 1); ("IPV6_PMTUDISC_DO", dec 2);
    ("IPV6_PMTUDISC_PROBE", dec 3); ("IPV6_PMTUDISC_INTERFACE", dec 4);
    ("IPV6_PMTUDISC_OMIT", dec 5); ("IPV6_FLOWLABEL_MGR", dec 32);
    ("IPV6_FLOWINFO_SEND", dec 33); ("IPV6_IPSEC_POLICY", dec 34); ("IPV6_XFRM_POLICY", dec 35)]].
Definition defs_IPV6_RECVPKTINFO : list decl := [
  Defines [
    ("IPV6_RECVPKTINFO", dec 49); ("IPV6_PKTINFO", dec 50); ("IPV6_RECVHOPLIMIT", dec 51);
    ("IPV6_HOPLIMIT", dec 52); ("IPV6_RECVHOPOPTS", dec 53); ("IPV6_HOPOPTS", dec 54);
    ("IPV6_RTHDRDSTOPTS", dec 55); ("IPV6_RECVRTHDR", dec 56); ("IPV6_RTHDR", dec 57);
    ("IPV6_RECVDSTOPTS", dec 58); ("IPV6_DSTOPTS", dec 59); ("IPV6_RECVPATHMTU", dec 60);
    ("IPV6_PATHMTU", dec 61); ("IPV6_DONTFRAG", dec 62)]].
Definition defs_IPV6_AUTOFLOWLABEL : list decl := [
  Defines [
    ("IPV6_AUTOFLOWLABEL", dec 70); ("IPV6_ADDR_PREFERENCES", dec 72);
    ("IPV6_PREFER_SRC_TMP", hex 0x0001); ("IPV6_PREFER_SRC_PUBLIC", hex 0x0002);
    ("IPV6_PREFER_SRC_PUBTMP_DEFAULT", hex 0x0100); ("IPV6_PREFER_SRC_COA", hex 0x0004);
    ("IPV6_PREFER_SRC_HOME", hex 0x0400); ("IPV6_PREFER_SRC_CGA", hex 0x0008);
    ("IPV6_PREFER_SRC_NONCGA", hex 0x0800); ("IPV6_MINHOPCOUNT", dec 73);
    ("IPV6_ORIGDSTADDR", dec 74); ("IPV6_RECVORIGDSTADDR", Id "IPV6_ORIGDSTADDR");
    ("IPV6_TRANSPARENT", dec 75); ("IPV6_UNICAST_IF", dec 76)]].
Definition header : header :=
  Header "linux/in6.h" [] (concat [
    defs_IPV6_FL_A_GET; defs_IPV6_RECVPKTINFO; defs_IPV6_AUTOFLOWLABEL]).
End In6.

(** ** [linux/ip.h] *)

Module Ip.
Definition defs_IPTOS_TOS_MASK : list decl := [
  Defines [
    ("IPTOS_TOS_MASK", hex 0x1E); ("IPTOS_LOWDELAY", hex 0x10); ("IPTOS_THROUGHPUT", hex 0x08);
    ("IPTOS_RELIABILITY", hex 0x04); ("IPTOS_MINCOST", hex 0x02); ("IPTOS_PREC_MASK", hex 0xE0);
    ("IPTOS_PREC_NETCONTROL", hex 0xe0); ("IPTOS_PREC_INTERNETCONTROL", hex 0xc0);
    ("IPTOS_PREC_CRITIC_ECP", hex 0xa0); ("IPTOS_PREC_FLASHOVERRIDE", hex 0x80);
    ("IPTOS_PREC_FLASH", hex 0x60); ("IPTOS_PREC_IMMEDIATE", hex 0x40);
    ("IPTOS_PREC_PRIORITY", hex 0x20); ("IPTOS_PREC_ROUTINE", hex 0x00);
    ("IPOPT_COPY", hex 0x80); ("IPOPT_CLASS_MASK", hex 0x60); ("IPOPT_NUMBER_MASK", hex 0x1f)]].
Definition defs_IPOPT_CONTROL : list decl := [
  Defines [
    ("IPOPT_CONTROL", hex 0x00); ("IPOPT_RESERVED1", hex 0x20); ("IPOPT_MEASUREMENT", hex 0x40);
    ("IPOPT_RESERVED2", hex 0x60); ("IPOPT_END", Or (dec 0) (Id "IPOPT_CONTROL"));
    ("IPOPT_NOOP", Or (dec 1) (Id "IPOPT_CONTROL"));
    ("IPOPT_SEC", Or (Or (dec 2) (Id "IPOPT_CONTROL")) (Id "IPOPT_COPY"));
    ("IPOPT_LSRR", Or (Or (dec 3) (Id "IPOPT_CONTROL")) (Id "IPOPT_COPY"));
    ("IPOPT_TIMESTAMP", Or (dec 4) (Id "IPOPT_MEASUREMENT"));
    ("IPOPT_CIPSO", Or (Or (dec 6) (Id "IPOPT_CONTROL")) (Id "IPOPT_COPY"));
    ("IPOPT_RR", Or (dec 7) (Id "IPOPT_CONTROL"));
    ("IPOPT_SID", Or (Or (dec 8) (Id "IPOPT_CONTROL")) (Id "IPOPT_COPY"));
    ("IPOPT_SSRR", Or (Or (dec 9) (Id "IPOPT_CONTROL")) (Id "IPOPT_COPY"));
    ("IPOPT_RA", Or (Or (dec 20) (Id "IPOPT_CONTROL")) (Id "IPOPT_COPY")); ("IPVERSION", dec 4);
    ("MAXTTL", dec 255); ("IPDEFTTL", dec 64); ("IPOPT_OPTVAL", dec 0); ("IPOPT_OLEN", dec 1);
    ("IPOPT_OFFSET", dec 2); ("IPOPT_MINOFF", dec 4); ("MAX_IPOPTLEN", dec 40);
    ("IPOPT_NOP", Id "IPOPT_NOOP"); ("IPOPT_EOL", Id "IPOPT_END");
    ("IPOPT_TS", Id "IPOPT_TIMESTAMP"); ("IPOPT_TS_TSONLY", dec 0);
    ("IPOPT_TS_TSANDADDR", dec 1); ("IPOPT_TS_PRESPEC", dec 3); ("IPV4_BEET_PHMAXLEN", dec 8)]].
Definition enum_IPV4_DEVCONF_FORWARDING : list decl := [
  Enum [
    ("IPV4_DEVCONF_FORWARDING", Some (dec 1)); ("IPV4_DEVCONF_MC_FORWARDING", None);
    ("IPV4_DEVCONF_PROXY_ARP", None); ("IPV4_DEVCONF_ACCEPT_REDIRECTS", None);
    ("IPV4_DEVCONF_SECURE_REDIRECTS", None); ("IPV4_DEVCONF_SEND_REDIRECTS", None);
    ("IPV4_DEVCONF_SHARED_MEDIA", None); ("IPV4_DEVCONF_RP_FILTER", None);
    ("IPV4_DEVCONF_ACCEPT_SOURCE_ROUTE", None); ("IPV4_DEVCONF_BOOTP_RELAY", None);
    ("IPV4_DEVCONF_LOG_MARTIANS", None); ("IPV4_DEVCONF_TAG", None);
    ("IPV4_DEVCONF_ARPFILTER", None); ("IPV4_DEVCONF_MEDIUM_ID", None);
    ("IPV4_DEVCONF_NOXFRM", None); ("IPV4_DEVCONF_NOPOLICY", None);
    ("IPV4_DEVCONF_FORCE_IGMP_VERSION", None); ("IPV4_DEVCONF_ARP_ANNOUNCE", None);
    ("IPV4_DEVCONF_ARP_IGNORE", None); ("IPV4_DEVCONF_PROMOTE_SECONDARIES", None);
    ("IPV4_DEVCONF_ARP_ACCEPT", None); ("IPV4_DEVCONF_ARP_NOTIFY", None);
    ("IPV4_DEVCONF_ACCEPT_LOCAL", None); ("IPV4_DEVCONF_SRC_VMARK", None);
    ("IPV4_DEVCONF_PROXY_ARP_PVLAN", None); ("IPV4_DEVCONF_ROUTE_LOCALNET", None);
    ("IPV4_DEVCONF_IGMPV2_UNSOLICITED_REPORT_INTERVAL", None);
    ("IPV4_DEVCONF_IGMPV3_UNSOLICITED_REPORT_INTERVAL", None);
    ("IPV4_DEVCONF_IGNORE_ROUTES_WITH_LINKDOWN", None);
    ("IPV4_DEVCONF_DROP_UNICAST_IN_L2_MULTICAST", None);
    ("IPV4_DEVCONF_DROP_GRATUITOUS_ARP", None); ("IPV4_DEVCONF_NF_IPV4_DEFRAG_SKIP", None);
    ("__IPV4_DEVCONF_MAX", None)];
  Defines [
    ("IPV4_DEVCONF_MAX", Sub (Id "__IPV4_DEVCONF_MAX") (dec 1))]].
Definition header : header :=
  Header "linux/ip.h" [] (concat [
    defs_IPTOS_TOS_MASK; defs_IPOPT_CONTROL; enum_IPV4_DEVCONF_FORWARDING]).
End Ip.

(** ** [linux/ipv6.h] *)

Module Ipv6.
Definition enum_DEVCONF_FORWARDING : list decl := [
  Enum [
    ("DEVCONF_FORWARDING", Some (dec 0)); ("DEVCONF_HOPLIMIT", None); ("DEVCONF_MTU6", None);
    ("DEVCONF_ACCEPT_RA", None); ("DEVCONF_ACCEPT_REDIRECTS", None); ("DEVCONF_AUTOCONF", None);
    ("DEVCONF_DAD_TRANSMITS", None); ("DEVCONF_RTR_SOLICITS", None);
    ("DEVCONF_RTR_SOLICIT_INTERVAL", None); ("DEVCONF_RTR_SOLICIT_DELAY", None);
    ("DEVCONF_USE_TEMPADDR", None); ("DEVCONF_TEMP_VALID_LFT", None);
    ("DEVCONF_TEMP_PREFERED_LFT", None); ("DEVCONF_REGEN_MAX_RETRY", None);
    ("DEVCONF_MAX_DESYNC_FACTOR", None); ("DEVCONF_MAX_ADDRESSES", None);
    ("DEVCONF_FORCE_MLD_VERSION", None); ("DEVCONF_ACCEPT_RA_DEFRTR", None);
    ("DEVCONF_ACCEPT_RA_PINFO", None); ("DEVCONF_ACCEPT_RA_RTR_PREF", None);
    ("DEVCONF_RTR_PROBE_INTERVAL", None); ("DEVCONF_ACCEPT_RA_RT_INFO_MAX_PLEN", None);
    ("DEVCONF_PROXY_NDP", None); ("DEVCONF_OPTIMISTIC_DAD", None);
    ("DEVCONF_ACCEPT_SOURCE_ROUTE", None); ("DEVCONF_MC_FORWARDING", None);
    ("DEVCONF_DISABLE_IPV6", None); ("DEVCONF_ACCEPT_DAD", None); ("DEVCONF_FORCE_TLLAO", None);
    ("DEVCONF_NDISC_NOTIFY", None); ("DEVCONF_ACCEPT_RA_RT_TABLE", None);
    ("DEVCONF_MLDV1_UNSOLICITED_REPORT_INTERVAL", None);
    ("DEVCONF_MLDV2_UNSOLICITED_REPORT_INTERVAL", None); ("DEVCONF_SUPPRESS_FRAG_NDISC", None);
    ("DEVCONF_ACCEPT_RA_FROM_LOCAL", None); ("DEVCONF_USE_OPTIMISTIC", None);
    ("DEVCONF_ACCEPT_RA_MTU", None); ("DEVCONF_STABLE_SECRET", None);
    ("DEVCONF_USE_OIF_ADDRS_ONLY", None); ("DEVCONF_ACCEPT_RA_MIN_HOP_LIMIT", None);
    ("DEVCONF_IGNORE_ROUTES_WITH_LINKDOWN", None); ("DEVCONF_ACCEPT_RA_PREFIX_ROUTE", None);
    ("DEVCONF_DROP_UNICAST_IN_L2_MULTICAST", None); ("DEVCONF_DROP_UNSOLICITED_NA", None);
    ("DEVCONF_KEEP_ADDR_ON_DOWN", None); ("DEVCONF_RTR_SOLICIT_MAX_INTERVAL", None);
    ("DEVCONF_SEG6_ENABLED", None); ("DEVCONF_SEG6_REQUIRE_HMAC", None);
    ("DEVCONF_ENHANCED_DAD", None); ("DEVCONF_ADDR_GEN_MODE", None);
    ("DEVCONF_DISABLE_POLICY", None); ("DEVCONF_ACCEPT_RA_RT_INFO_MIN_PLEN", None);
    ("DEVCONF_MAX", None)]].
Definition header : header :=
  Header "linux/ipv6.h" [] (concat [
    enum_DEVCONF_FORWARDING]).
End Ipv6.

(** ** [linux/ipv6_route.h] *)

Module Ipv6_route.
Definition defs_RTF_DEFAULT : list decl := [
  Defines [
    ("RTF_DEFAULT", hex 0x00010000); ("RTF_ALLONLINK", hex 0x00020000);
    ("RTF_ADDRCONF", hex 0x00040000); ("RTF_PREFIX_RT", hex 0x00080000);
    ("RTF_ANYCAST", hex 0x00100000); ("RTF_NONEXTHOP", hex 0x00200000);
    ("RTF_EXPIRES", hex 0x00400000); ("RTF_ROUTEINFO", hex 0x00800000);
    ("RTF_CACHE", hex 0x01000000); ("RTF_FLOW", hex 0x02000000); ("RTF_POLICY", hex 0x04000000);
    ("RTF_PREF_MASK", hex 0x18000000); ("RTF_PCPU", hex 0x40000000);
    ("RTF_LOCAL", hex 0x80000000)]].
Definition defs_RTMSG_NEWDEVICE : list decl := [
  Defines [
    ("RTMSG_NEWDEVICE", hex 0x11); ("RTMSG_DELDEVICE", hex 0x12); ("RTMSG_NEWROUTE", hex 0x21);
    ("RTMSG_DELROUTE", hex 0x22); ("IP6_RT_PRIO_USER", dec 1024);
    ("IP6_RT_PRIO_ADDRCONF", dec 256)]].
Definition header : header :=
  Header "linux/ipv6_route.h" [] (concat [
    defs_RTF_DEFAULT; defs_RTMSG_NEWDEVICE]).
End Ipv6_route.

(** ** [linux/irda.h] *)

Module Irda.
Definition defs_HINT_PNP : list decl := [
  Defines [
    ("HINT_PNP", hex 0x01); ("HINT_PDA", hex 0x02); ("HINT_COMPUTER", hex 0x04);
    ("HINT_PRINTER", hex 0x08); ("HINT_MODEM", hex 0x10); ("HINT_FAX", hex 0x20);
    ("HINT_LAN", hex 0x40); ("HINT_EXTENSION", hex 0x80); ("HINT_TELEPHONY", hex 0x01);
    ("HINT_FILE_SERVER", hex 0x02); ("HINT_COMM", hex 0x04); ("HINT_MESSAGE", hex 0x08);
    ("HINT_HTTP", hex 0x10); ("HINT_OBEX", hex 0x20); ("CS_ASCII", hex 0x00);
    ("CS_ISO_8859_1", hex 0x01); ("CS_ISO_8859_2", hex 0x02); ("CS_ISO_8859_3", hex 0x03);
    ("CS_ISO_8859_4", hex 0x04); ("CS_ISO_8859_5", hex 0x05); ("CS_ISO_8859_6", hex 0x06);
    ("CS_ISO_8859_7", hex 0x07); ("CS_ISO_8859_8", hex 0x08); ("CS_ISO_8859_9", hex 0x09);
    ("CS_UNICODE", hex 0xff)];
  Enum [
    ("IRDA_TEKRAM_DONGLE", Some (dec 0)); ("IRDA_ESI_DONGLE", Some (dec 1));
    ("IRDA_ACTISYS_DONGLE", Some (dec 2)); ("IRDA_ACTISYS_PLUS_DONGLE", Some (dec 3));
    ("IRDA_GIRBIL_DONGLE", Some (dec 4)); ("IRDA_LITELINK_DONGLE", Some (dec 5));
    ("IRDA_AIRPORT_DONGLE", Some (dec 6)); ("IRDA_OLD_BELKIN_DONGLE", Some (dec 7));
    ("IRDA_EP7211_IR", Some (dec 8)); ("IRDA_MCP2120_DONGLE", Some (dec 9));
    ("IRDA_ACT200L_DONGLE", Some (dec 10)); ("IRDA_MA600_DONGLE", Some (dec 11));
    ("IRDA_TOIM3232_DONGLE", Some (dec 12)); ("IRDA_EP7211_DONGLE", Some (dec 13))];
  Enum [
    ("IRDAPROTO_UNITDATA", Some (dec 0)); ("IRDAPROTO_ULTRA", Some (dec 1));
    ("IRDAPROTO_MAX", None)];
  Defines [
    ("SOL_IRLMP", dec 266); ("SOL_IRTTP", dec 266); ("IRLMP_ENUMDEVICES", dec 1);
    ("IRLMP_IAS_SET", dec 2); ("IRLMP_IAS_QUERY", dec 3); ("IRLMP_HINTS_SET", dec 4);
    ("IRLMP_QOS_SET", dec 5); ("IRLMP_QOS_GET", dec 6); ("IRLMP_MAX_SDU_SIZE", dec 7);
    ("IRLMP_IAS_GET", dec 8); ("IRLMP_IAS_DEL", dec 9); ("IRLMP_HINT_MASK_SET", dec 10);
    ("IRLMP_WAITDEVICE", dec 11); ("IRTTP_MAX_SDU_SIZE", Id "IRLMP_MAX_SDU_SIZE");
    ("IAS_MAX_STRING", dec 256); ("IAS_MAX_OCTET_STRING", dec 1024);
    ("IAS_MAX_CLASSNAME", dec 60); ("IAS_MAX_ATTRIBNAME", dec 60);
    ("IAS_MAX_ATTRIBNUMBER", dec 256); ("IAS_EXPORT_CLASSNAME", dec 64);
    ("IAS_EXPORT_ATTRIBNAME", dec 256); ("IAS_MISSING", dec 0); ("IAS_INTEGER", dec 1);
    ("IAS_OCT_SEQ", dec 2); ("IAS_STRING", dec 3); ("LSAP_ANY", hex 0xff)]].
Definition defs_SIOCSDONGLE : list decl := [
  Defines [
    ("SIOCSDONGLE", Add (Id "SIOCDEVPRIVATE") (dec 0));
    ("SIOCGDONGLE", Add (Id "SIOCDEVPRIVATE") (dec 1));
    ("SIOCSBANDWIDTH", Add (Id "SIOCDEVPRIVATE") (dec 2));
    ("SIOCSMEDIABUSY", Add (Id "SIOCDEVPRIVATE") (dec 3));
    ("SIOCGMEDIABUSY", Add (Id "SIOCDEVPRIVATE") (dec 4));
    ("SIOCGRECEIVING", Add (Id "SIOCDEVPRIVATE") (dec 5));
    ("SIOCSMODE", Add (Id "SIOCDEVPRIVATE") (dec 6));
    ("SIOCGMODE", Add (Id "SIOCDEVPRIVATE") (dec 7));
    ("SIOCSDTRRTS", Add (Id "SIOCDEVPRIVATE") (dec 8));
    ("SIOCGQOS", Add (Id "SIOCDEVPRIVATE") (dec 9)); ("IRNAMSIZ", dec 16)]].
Definition enum_irda_nl_commands : list decl := [
  Enum [
    ("IRDA_NL_CMD_UNSPEC", None); ("IRDA_NL_CMD_SET_MODE", None); ("IRDA_NL_CMD_GET_MODE", None);
    ("__IRDA_NL_CMD_AFTER_LAST", None)];
  Defines [
    ("IRDA_NL_CMD_MAX", Sub (Id "__IRDA_NL_CMD_AFTER_LAST") (dec 1))];
  Enum [
    ("IRDA_NL_ATTR_UNSPEC", None); ("IRDA_NL_ATTR_IFNAME", None); ("IRDA_NL_ATTR_MODE", None);
    ("__IRDA_NL_ATTR_AFTER_LAST", None)];
  Defines [
    ("IRDA_NL_ATTR_MAX", Sub (Id "__IRDA_NL_ATTR_AFTER_LAST") (dec 1));
    ("IRDA_MODE_PRIMARY", hex 0x1); ("IRDA_MODE_SECONDARY", hex 0x2);
    ("IRDA_MODE_MONITOR", hex 0x4)]].
Definition header : header :=
  Header "linux/irda.h" [Sockios.header] (concat [
    defs_HINT_PNP; defs_SIOCSDONGLE; enum_irda_nl_commands]).
End Irda.

(** ** [linux/isdn.h] *)

Module Isdn.
Definition defs_SIOCGKEEPPERIOD : list decl := [
  Defines [
    ("SIOCGKEEPPERIOD", Add (Id "SIOCDEVPRIVATE") (dec 0));
    ("SIOCSKEEPPERIOD", Add (Id "SIOCDEVPRIVATE") (dec 1));
    ("SIOCGDEBSERINT", Add (Id "SIOCDEVPRIVATE") (dec 2));
    ("SIOCSDEBSERINT", Add (Id "SIOCDEVPRIVATE") (dec 3)); ("ISDN_NET_ENCAP_ETHER", dec 0);
    ("ISDN_NET_ENCAP_RAWIP", dec 1); ("ISDN_NET_ENCAP_IPTYP", dec 2);
    ("ISDN_NET_ENCAP_CISCOHDLC", dec 3); ("ISDN_NET_ENCAP_SYNCPPP", dec 4);
    ("ISDN_NET_ENCAP_UIHDLC", dec 5); ("ISDN_NET_ENCAP_CISCOHDLCK", dec 6);
    ("ISDN_NET_ENCAP_X25IFACE", dec 7);
    ("ISDN_NET_ENCAP_MAX_ENCAP", Id "ISDN_NET_ENCAP_X25IFACE"); ("ISDN_USAGE_NONE", dec 0);
    ("ISDN_USAGE_RAW", dec 1); ("ISDN_USAGE_MODEM", dec 2); ("ISDN_USAGE_NET", dec 3);
    ("ISDN_USAGE_VOICE", dec 4); ("ISDN_USAGE_FAX", dec 5); ("ISDN_USAGE_MASK", dec 7);
    ("ISDN_USAGE_DISABLED", dec 32); ("ISDN_USAGE_EXCLUSIVE", dec 64);
    ("ISDN_USAGE_OUTGOING", dec 128); ("ISDN_MODEM_NUMREG", dec 24); ("ISDN_LMSNLEN", dec 255);
    ("ISDN_CMSGLEN", dec 50); ("ISDN_MSNLEN", dec 32); ("NET_DV", hex 0x06);
    ("TTY_DV", hex 0x06); ("INF_DV", hex 0x01)]].
Definition defs_ISDN_NET_DIALMODE_MASK : list decl := [
  Defines [
    ("ISDN_NET_DIALMODE_MASK", hex 0xC0); ("ISDN_NET_DM_OFF", hex 0x00);
    ("ISDN_NET_DM_MANUAL", hex 0x40); ("ISDN_NET_DM_AUTO", hex 0x80)]].
Definition header : header :=
  Header "linux/isdn.h" [Sockios.header] (concat [
    defs_SIOCGKEEPPERIOD; defs_ISDN_NET_DIALMODE_MASK]).
End Isdn.

(** ** [linux/isdn/capicmd.h] *)

Module Isdn_capicmd.
Definition defs_CAPI_MSG_BASELEN : list decl := [
  Defines [
    ("CAPI_MSG_BASELEN", dec 8);
    ("CAPI_DATA_B3_REQ_LEN", Add (Add (Add (Add (Add (Id "CAPI_MSG_BASELEN") (dec 4)) (dec 4)) (dec 2)) (dec 2)) (dec 2));
    ("CAPI_DATA_B3_RESP_LEN", Add (Add (Id "CAPI_MSG_BASELEN") (dec 4)) (dec 2));
    ("CAPI_DISCONNECT_B3_RESP_LEN", Add (Id "CAPI_MSG_BASELEN") (dec 4));
    ("CAPI_ALERT", hex 0x01); ("CAPI_CONNECT", hex 0x02); ("CAPI_CONNECT_ACTIVE", hex 0x03);
    ("CAPI_CONNECT_B3_ACTIVE", hex 0x83); ("CAPI_CONNECT_B3", hex 0x82);
    ("CAPI_CONNECT_B3_T90_ACTIVE", hex 0x88); ("CAPI_DATA_B3", hex 0x86);
    ("CAPI_DISCONNECT_B3", hex 0x84); ("CAPI_DISCONNECT", hex 0x04); ("CAPI_FACILITY", hex 0x80);
    ("CAPI_INFO", hex 0x08); ("CAPI_LISTEN", hex 0x05); ("CAPI_MANUFACTURER", hex 0xff);
    ("CAPI_RESET_B3", hex 0x87); ("CAPI_SELECT_B_PROTOCOL", hex 0x41); ("CAPI_REQ", hex 0x80);
    ("CAPI_CONF", hex 0x81); ("CAPI_IND", hex 0x82); ("CAPI_RESP", hex 0x83)];
  Define_fun "CAPICMD" ["cmd"; "subcmd"] (Or (Shl (Id "cmd") (dec 8)) (Id "subcmd"));
  Defines [
    ("CAPI_DISCONNECT_REQ", App "CAPICMD" [Id "CAPI_DISCONNECT"; Id "CAPI_REQ"]);
    ("CAPI_DISCONNECT_CONF", App "CAPICMD" [Id "CAPI_DISCONNECT"; Id "CAPI_CONF"]);
    ("CAPI_DISCONNECT_IND", App "CAPICMD" [Id "CAPI_DISCONNECT"; Id "CAPI_IND"]);
    ("CAPI_DISCONNECT_RESP", App "CAPICMD" [Id "CAPI_DISCONNECT"; Id "CAPI_RESP"]);
    ("CAPI_ALERT_REQ", App "CAPICMD" [Id "CAPI_ALERT"; Id "CAPI_REQ"]);
    ("CAPI_ALERT_CONF", App "CAPICMD" [Id "CAPI_ALERT"; Id "CAPI_CONF"]);
    ("CAPI_CONNECT_REQ", App "CAPICMD" [Id "CAPI_CONNECT"; Id "CAPI_REQ"]);
    ("CAPI_CONNECT_CONF", App "CAPICMD" [Id "CAPI_CONNECT"; Id "CAPI_CONF"]);
    ("CAPI_CONNECT_IND", App "CAPICMD" [Id "CAPI_CONNECT"; Id "CAPI_IND"]);
    ("CAPI_CONNECT_RESP", App "CAPICMD" [Id "CAPI_CONNECT"; Id "CAPI_RESP"]);
    ("CAPI_CONNECT_ACTIVE_REQ", App "CAPICMD" [Id "CAPI_CONNECT_ACTIVE"; Id "CAPI_REQ"]);
    ("CAPI_CONNECT_ACTIVE_CONF", App "CAPICMD" [Id "CAPI_CONNECT_ACTIVE"; Id "CAPI_CONF"]);
    ("CAPI_CONNECT_ACTIVE_IND", App "CAPICMD" [Id "CAPI_CONNECT_ACTIVE"; Id "CAPI_IND"]);
    ("CAPI_CONNECT_ACTIVE_RESP", App "CAPICMD" [Id "CAPI_CONNECT_ACTIVE"; Id "CAPI_RESP"]);
    ("CAPI_SELECT_B_PROTOCOL_REQ", App "CAPICMD" [Id "CAPI_SELECT_B_PROTOCOL"; Id "CAPI_REQ"]);
    ("CAPI_SELECT_B_PROTOCOL_CONF", App "CAPICMD" [Id "CAPI_SELECT_B_PROTOCOL"; Id "CAPI_CONF"]);
    ("CAPI_CONNECT_B3_ACTIVE_REQ", App "CAPICMD" [Id "CAPI_CONNECT_B3_ACTIVE"; Id "CAPI_REQ"]);
    ("CAPI_CONNECT_B3_ACTIVE_CONF", App "CAPICMD" [Id "CAPI_CONNECT_B3_ACTIVE"; Id "CAPI_CONF"]);
    ("CAPI_CONNECT_B3_ACTIVE_IND", App "CAPICMD" [Id "CAPI_CONNECT_B3_ACTIVE"; Id "CAPI_IND"]);
    ("CAPI_CONNECT_B3_ACTIVE_RESP", App "CAPICMD" [Id "CAPI_CONNECT_B3_ACTIVE"; Id "CAPI_RESP"]);
    ("CAPI_CONNECT_B3_REQ", App "CAPICMD" [Id "CAPI_CONNECT_B3"; Id "CAPI_REQ"]);
    ("CAPI_CONNECT_B3_CONF", App "CAPICMD" [Id "CAPI_CONNECT_B3"; Id "CAPI_CONF"]);
    ("CAPI_CONNECT_B3_IND", App "CAPICMD" [Id "CAPI_CONNECT_B3"; Id "CAPI_IND"]);
    ("CAPI_CONNECT_B3_RESP", App "CAPICMD" [Id "CAPI_CONNECT_B3"; Id "CAPI_RESP"]);
    ("CAPI_CONNECT_B3_T90_ACTIVE_IND", App "CAPICMD" [Id "CAPI_CONNECT_B3_T90_ACTIVE"; Id "CAPI_IND"]);
    ("CAPI_CONNECT_B3_T90_ACTIVE_RESP", App "CAPICMD" [Id "CAPI_CONNECT_B3_T90_ACTIVE"; Id "CAPI_RESP"]);
    ("CAPI_DATA_B3_REQ", App "CAPICMD" [Id "CAPI_DATA_B3"; Id "CAPI_REQ"]);
    ("CAPI_DATA_B3_CONF", App "CAPICMD" [Id "CAPI_DATA_B3"; Id "CAPI_CONF"]);
    ("CAPI_DATA_B3_IND", App "CAPICMD" [Id "CAPI_DATA_B3"; Id "CAPI_IND"]);
    ("CAPI_DATA_B3_RESP", App "CAPICMD" [Id "CAPI_DATA_B3"; Id "CAPI_RESP"]);
    ("CAPI_DISCONNECT_B3_REQ", App "CAPICMD" [Id "CAPI_DISCONNECT_B3"; Id "CAPI_REQ"]);
    ("CAPI_DISCONNECT_B3_CONF", App "CAPICMD" [Id "CAPI_DISCONNECT_B3"; Id "CAPI_CONF"]);
    ("CAPI_DISCONNECT_B3_IND", App "CAPICMD" [Id "CAPI_DISCONNECT_B3"; Id "CAPI_IND"]);
    ("CAPI_DISCONNECT_B3_RESP", App "CAPICMD" [Id "CAPI_DISCONNECT_B3"; Id "CAPI_RESP"]);
    ("CAPI_RESET_B3_REQ", App "CAPICMD" [Id "CAPI_RESET_B3"; Id "CAPI_REQ"]);
    ("CAPI_RESET_B3_CONF", App "CAPICMD" [Id "CAPI_RESET_B3"; Id "CAPI_CONF"]);
    ("CAPI_RESET_B3_IND", App "CAPICMD" [Id "CAPI_RESET_B3"; Id "CAPI_IND"]);
    ("CAPI_RESET_B3_RESP", App "CAPICMD" [Id "CAPI_RESET_B3"; Id "CAPI_RESP"]);
    ("CAPI_LISTEN_REQ", App "CAPICMD" [Id "CAPI_LISTEN"; Id "CAPI_REQ"]);
    ("CAPI_LISTEN_CONF", App "CAPICMD" [Id "CAPI_LISTEN"; Id "CAPI_CONF"]);
    ("CAPI_MANUFACTURER_REQ", App "CAPICMD" [Id "CAPI_MANUFACTURER"; Id "CAPI_REQ"]);
    ("CAPI_MANUFACTURER_CONF", App "CAPICMD" [Id "CAPI_MANUFACTURER"; Id "CAPI_CONF"]);
    ("CAPI_MANUFACTURER_IND", App "CAPICMD" [Id "CAPI_MANUFACTURER"; Id "CAPI_IND"]);
    ("CAPI_MANUFACTURER_RESP", App "CAPICMD" [Id "CAPI_MANUFACTURER"; Id "CAPI_RESP"]);
    ("CAPI_FACILITY_REQ", App "CAPICMD" [Id "CAPI_FACILITY"; Id "CAPI_REQ"]);
    ("CAPI_FACILITY_CONF", App "CAPICMD" [Id "CAPI_FACILITY"; Id "CAPI_CONF"]);
    ("CAPI_FACILITY_IND", App "CAPICMD" [Id "CAPI_FACILITY"; Id "CAPI_IND"]);
    ("CAPI_FACILITY_RESP", App "CAPICMD" [Id "CAPI_FACILITY"; Id "CAPI_RESP"]);
    ("CAPI_INFO_REQ", App "CAPICMD" [Id "CAPI_INFO"; Id "CAPI_REQ"]);
    ("CAPI_INFO_CONF", App "CAPICMD" [Id "CAPI_INFO"; Id "CAPI_CONF"]);
    ("CAPI_INFO_IND", App "CAPICMD" [Id "CAPI_INFO"; Id "CAPI_IND"]);
    ("CAPI_INFO_RESP", App "CAPICMD" [Id "CAPI_INFO"; Id "CAPI_RESP"])]].
Definition header : header :=
  Header "linux/isdn/capicmd.h" [] (concat [
    defs_CAPI_MSG_BASELEN]).
End Isdn_capicmd.

(** ** [linux/isdn_divertif.h] *)

Module Isdn_divertif.
Definition defs_DIVERT_IF_MAGIC : list decl := [
  Defines [
    ("DIVERT_IF_MAGIC", hex 0x25873401); ("DIVERT_CMD_REG", hex 0x00);
    ("DIVERT_CMD_REL", hex 0x01); ("DIVERT_NO_ERR", hex 0x00); ("DIVERT_CMD_ERR", hex 0x01);
    ("DIVERT_VER_ERR", hex 0x02); ("DIVERT_REG_ERR", hex 0x03); ("DIVERT_REL_ERR", hex 0x04)]].
Definition header : header :=
  Header "linux/isdn_divertif.h" [] (concat [
    defs_DIVERT_IF_MAGIC]).
End Isdn_divertif.

(** ** [linux/isdn_ppp.h] *)

Module Isdn_ppp.
Definition defs_SC_MP_PROT : list decl := [
  Defines [
    ("SC_MP_PROT", hex 0x00000200); ("SC_REJ_MP_PROT", hex 0x00000400);
    ("SC_OUT_SHORT_SEQ", hex 0x00000800); ("SC_IN_SHORT_SEQ", hex 0x00004000);
    ("SC_DECOMP_ON", hex 0x01); ("SC_COMP_ON", hex 0x02); ("SC_DECOMP_DISCARD", hex 0x04);
    ("SC_COMP_DISCARD", hex 0x08); ("SC_LINK_DECOMP_ON", hex 0x10);
    ("SC_LINK_COMP_ON", hex 0x20); ("SC_LINK_DECOMP_DISCARD", hex 0x40);
    ("SC_LINK_COMP_DISCARD", hex 0x80); ("ISDN_PPP_COMP_MAX_OPTIONS", dec 16);
    ("IPPP_COMP_FLAG_XMIT", hex 0x1); ("IPPP_COMP_FLAG_LINK", hex 0x2)]].
Definition header : header :=
  Header "linux/isdn_ppp.h" [] (concat [
    defs_SC_MP_PROT]).
End Isdn_ppp.

(** ** [linux/isdnif.h] *)

Module Isdnif.
Definition defs_ISDN_PTYPE_UNKNOWN : list decl := [
  Defines [
    ("ISDN_PTYPE_UNKNOWN", dec 0); ("ISDN_PTYPE_1TR6", dec 1); ("ISDN_PTYPE_EURO", dec 2);
    ("ISDN_PTYPE_LEASED", dec 3); ("ISDN_PTYPE_NI1", dec 4); ("ISDN_PTYPE_MAX", dec 7)];
  Defines [
    ("ISDN_PROTO_L2_X75I", dec 0); ("ISDN_PROTO_L2_X75UI", dec 1);
    ("ISDN_PROTO_L2_X75BUI", dec 2); ("ISDN_PROTO_L2_HDLC", dec 3);
    ("ISDN_PROTO_L2_TRANS", dec 4); ("ISDN_PROTO_L2_X25DTE", dec 5);
    ("ISDN_PROTO_L2_X25DCE", dec 6); ("ISDN_PROTO_L2_V11096", dec 7);
    ("ISDN_PROTO_L2_V11019", dec 8); ("ISDN_PROTO_L2_V11038", dec 9);
    ("ISDN_PROTO_L2_MODEM", dec 10); ("ISDN_PROTO_L2_FAX", dec 11);
    ("ISDN_PROTO_L2_HDLC_56K", dec 12); ("ISDN_PROTO_L2_MAX", dec 15)];
  Defines [
    ("ISDN_PROTO_L3_TRANS", dec 0); ("ISDN_PROTO_L3_TRANSDSP", dec 1);
    ("ISDN_PROTO_L3_FCLASS2", dec 2); ("ISDN_PROTO_L3_FCLASS1", dec 3);
    ("ISDN_PROTO_L3_MAX", dec 7)]].
Definition header : header :=
  Header "linux/isdnif.h" [] (concat [
    defs_ISDN_PTYPE_UNKNOWN]).
End Isdnif.

(** ** [linux/llc.h] *)

Module Llc.
Definition enum_llc_sockopts : list decl := [
  Enum [
    ("LLC_OPT_UNKNOWN", Some (dec 0)); ("LLC_OPT_RETRY", None); ("LLC_OPT_SIZE", None);
    ("LLC_OPT_ACK_TMR_EXP", None); ("LLC_OPT_P_TMR_EXP", None); ("LLC_OPT_REJ_TMR_EXP", None);
    ("LLC_OPT_BUSY_TMR_EXP", None); ("LLC_OPT_TX_WIN", None); ("LLC_OPT_RX_WIN", None);
    ("LLC_OPT_PKTINFO", None); ("LLC_OPT_MAX", None)];
  Defines [
    ("LLC_OPT_MAX_RETRY", dec 100); ("LLC_OPT_MAX_SIZE", dec 4196); ("LLC_OPT_MAX_WIN", dec 127);
    ("LLC_OPT_MAX_ACK_TMR_EXP", dec 60); ("LLC_OPT_MAX_P_TMR_EXP", dec 60);
    ("LLC_OPT_MAX_REJ_TMR_EXP", dec 60); ("LLC_OPT_MAX_BUSY_TMR_EXP", dec 60);
    ("LLC_SAP_NULL", hex 0x00); ("LLC_SAP_LLC", hex 0x02); ("LLC_SAP_SNA", hex 0x04);
    ("LLC_SAP_PNM", hex 0x0E); ("LLC_SAP_IP", hex 0x06); ("LLC_SAP_BSPAN", hex 0x42);
    ("LLC_SAP_MMS", hex 0x4E); ("LLC_SAP_8208", hex 0x7E); ("LLC_SAP_3COM", hex 0x80);
    ("LLC_SAP_PRO", hex 0x8E); ("LLC_SAP_SNAP", hex 0xAA); ("LLC_SAP_BANYAN", hex 0xBC);
    ("LLC_SAP_IPX", hex 0xE0); ("LLC_SAP_NETBEUI", hex 0xF0); ("LLC_SAP_LANMGR", hex 0xF4);
    ("LLC_SAP_IMPL", hex 0xF8); ("LLC_SAP_DISC", hex 0xFC); ("LLC_SAP_OSI", hex 0xFE);
    ("LLC_SAP_LAR", hex 0xDC); ("LLC_SAP_RM", hex 0xD4); ("LLC_SAP_GLOBAL", hex 0xFF)]].
Definition header : header :=
  Header "linux/llc.h" [] (concat [
    enum_llc_sockopts]).
End Llc.

(** ** [linux/mdio.h] *)

Module Mdio.
Definition defs_MDIO_MMD_PMAPMD : list decl := [
  Defines [
    ("MDIO_MMD_PMAPMD", dec 1); ("MDIO_MMD_WIS", dec 2); ("MDIO_MMD_PCS", dec 3);
    ("MDIO_MMD_PHYXS", dec 4); ("MDIO_MMD_DTEXS", dec 5); ("MDIO_MMD_TC", dec 6);
    ("MDIO_MMD_AN", dec 7); ("MDIO_MMD_C22EXT", dec 29); ("MDIO_MMD_VEND1", dec 30);
    ("MDIO_MMD_VEND2", dec 31); ("MDIO_CTRL1", Id "MII_BMCR"); ("MDIO_STAT1", Id "MII_BMSR");
    ("MDIO_DEVID1", Id "MII_PHYSID1"); ("MDIO_DEVID2", Id "MII_PHYSID2"); ("MDIO_SPEED", dec 4);
    ("MDIO_DEVS1", dec 5); ("MDIO_DEVS2", dec 6); ("MDIO_CTRL2", dec 7); ("MDIO_STAT2", dec 8);
    ("MDIO_PMA_TXDIS", dec 9); ("MDIO_PMA_RXDET", dec 10); ("MDIO_PMA_EXTABLE", dec 11);
    ("MDIO_PKGID1", dec 14); ("MDIO_PKGID2", dec 15); ("MDIO_AN_ADVERTISE", dec 16);
    ("MDIO_AN_LPA", dec 19); ("MDIO_PCS_EEE_ABLE", dec 20); ("MDIO_PCS_EEE_WK_ERR", dec 22);
    ("MDIO_PHYXS_LNSTAT", dec 24); ("MDIO_AN_EEE_ADV", dec 60); ("MDIO_AN_EEE_LPABLE", dec 61);
    ("MDIO_PMA_10GBT_SWAPPOL", dec 130); ("MDIO_PMA_10GBT_TXPWR", dec 131);
    ("MDIO_PMA_10GBT_SNR", dec 133); ("MDIO_PMA_10GBR_FECABLE", dec 170);
    ("MDIO_PCS_10GBX_STAT1", dec 24); ("MDIO_PCS_10GBRT_STAT1", dec 32);
    ("MDIO_PCS_10GBRT_STAT2", dec 33); ("MDIO_AN_10GBT_CTRL", dec 32);
    ("MDIO_AN_10GBT_STAT", dec 33); ("MDIO_PMA_LASI_RXCTRL", hex 0x9000);
    ("MDIO_PMA_LASI_TXCTRL", hex 0x9001); ("MDIO_PMA_LASI_CTRL", hex 0x9002);
    ("MDIO_PMA_LASI_RXSTAT", hex 0x9003); ("MDIO_PMA_LASI_TXSTAT", hex 0x9004);
    ("MDIO_PMA_LASI_STAT", hex 0x9005);
    ("MDIO_CTRL1_SPEEDSELEXT", Or (Id "BMCR_SPEED1000") (Id "BMCR_SPEED100"));
    ("MDIO_CTRL1_SPEEDSEL", Or (Id "MDIO_CTRL1_SPEEDSELEXT") (hex 0x003c));
    ("MDIO_CTRL1_FULLDPLX", Id "BMCR_FULLDPLX"); ("MDIO_CTRL1_LPOWER", Id "BMCR_PDOWN");
    ("MDIO_CTRL1_RESET", Id "BMCR_RESET"); ("MDIO_PMA_CTRL1_LOOPBACK", hex 0x0001);
    ("MDIO_PMA_CTRL1_SPEED1000", Id "BMCR_SPEED1000");
    ("MDIO_PMA_CTRL1_SPEED100", Id "BMCR_SPEED100");
    ("MDIO_PCS_CTRL1_LOOPBACK", Id "BMCR_LOOPBACK");
    ("MDIO_PHYXS_CTRL1_LOOPBACK", Id "BMCR_LOOPBACK");
    ("MDIO_AN_CTRL1_RESTART", Id "BMCR_ANRESTART"); ("MDIO_AN_CTRL1_ENABLE", Id "BMCR_ANENABLE");
    ("MDIO_AN_CTRL1_XNP", hex 0x2000); ("MDIO_PCS_CTRL1_CLKSTOP_EN", hex 0x400);
    ("MDIO_CTRL1_SPEED10G", Or (Id "MDIO_CTRL1_SPEEDSELEXT") (hex 0x00));
    ("MDIO_CTRL1_SPEED10P2B", Or (Id "MDIO_CTRL1_SPEEDSELEXT") (hex 0x04));
    ("MDIO_STAT1_LPOWERABLE", hex 0x0002); ("MDIO_STAT1_LSTATUS", Id "BMSR_LSTATUS");
    ("MDIO_STAT1_FAULT", hex 0x0080); ("MDIO_AN_STAT1_LPABLE", hex 0x0001);
    ("MDIO_AN_STAT1_ABLE", Id "BMSR_ANEGCAPABLE"); ("MDIO_AN_STAT1_RFAULT", Id "BMSR_RFAULT");
    ("MDIO_AN_STAT1_COMPLETE", Id "BMSR_ANEGCOMPLETE"); ("MDIO_AN_STAT1_PAGE", hex 0x0040);
    ("MDIO_AN_STAT1_XNP", hex 0x0080); ("MDIO_SPEED_10G", hex 0x0001);
    ("MDIO_PMA_SPEED_2B", hex 0x0002); ("MDIO_PMA_SPEED_10P", hex 0x0004);
    ("MDIO_PMA_SPEED_1000", hex 0x0010); ("MDIO_PMA_SPEED_100", hex 0x0020);
    ("MDIO_PMA_SPEED_10", hex 0x0040); ("MDIO_PCS_SPEED_10P2B", hex 0x0002);
    ("MDIO_DEVS_PMAPMD", App "MDIO_DEVS_PRESENT" [Id "MDIO_MMD_PMAPMD"]);
    ("MDIO_DEVS_WIS", App "MDIO_DEVS_PRESENT" [Id "MDIO_MMD_WIS"]);
    ("MDIO_DEVS_PCS", App "MDIO_DEVS_PRESENT" [Id "MDIO_MMD_PCS"]);
    ("MDIO_DEVS_PHYXS", App "MDIO_DEVS_PRESENT" [Id "MDIO_MMD_PHYXS"]);
    ("MDIO_DEVS_DTEXS", App "MDIO_DEVS_PRESENT" [Id "MDIO_MMD_DTEXS"]);
    ("MDIO_DEVS_TC", App "MDIO_DEVS_PRESENT" [Id "MDIO_MMD_TC"]);
    ("MDIO_DEVS_AN", App "MDIO_DEVS_PRESENT" [Id "MDIO_MMD_AN"]);
    ("MDIO_DEVS_C22EXT", App "MDIO_DEVS_PRESENT" [Id "MDIO_MMD_C22EXT"]);
    ("MDIO_PMA_CTRL2_TYPE", hex 0x000f); ("MDIO_PMA_CTRL2_10GBCX4", hex 0x0000);
    ("MDIO_PMA_CTRL2_10GBEW", hex 0x0001); ("MDIO_PMA_CTRL2_10GBLW", hex 0x0002);
    ("MDIO_PMA_CTRL2_10GBSW", hex 0x0003); ("MDIO_PMA_CTRL2_10GBLX4", hex 0x0004);
    ("MDIO_PMA_CTRL2_10GBER", hex 0x0005); ("MDIO_PMA_CTRL2_10GBLR", hex 0x0006);
    ("MDIO_PMA_CTRL2_10GBSR", hex 0x0007); ("MDIO_PMA_CTRL2_10GBLRM", hex 0x0008);
    ("MDIO_PMA_CTRL2_10GBT", hex 0x0009); ("MDIO_PMA_CTRL2_10GBKX4", hex 0x000a);
    ("MDIO_PMA_CTRL2_10GBKR", hex 0x000b); ("MDIO_PMA_CTRL2_1000BT", hex 0x000c);
    ("MDIO_PMA_CTRL2_1000BKX", hex 0x000d); ("MDIO_PMA_CTRL2_100BTX", hex 0x000e);
    ("MDIO_PMA_CTRL2_10BT", hex 0x000f); ("MDIO_PCS_CTRL2_TYPE", hex 0x0003);
    ("MDIO_PCS_CTRL2_10GBR", hex 0x0000); ("MDIO_PCS_CTRL2_10GBX", hex 0x0001);
    ("MDIO_PCS_CTRL2_10GBW", hex 0x0002); ("MDIO_PCS_CTRL2_10GBT", hex 0x0003);
    ("MDIO_STAT2_RXFAULT", hex 0x0400); ("MDIO_STAT2_TXFAULT", hex 0x0800);
    ("MDIO_STAT2_DEVPRST", hex 0xc000); ("MDIO_STAT2_DEVPRST_VAL", hex 0x8000);
    ("MDIO_PMA_STAT2_LBABLE", hex 0x0001); ("MDIO_PMA_STAT2_10GBEW", hex 0x0002);
    ("MDIO_PMA_STAT2_10GBLW", hex 0x0004); ("MDIO_PMA_STAT2_10GBSW", hex 0x0008);
    ("MDIO_PMA_STAT2_10GBLX4", hex 0x0010); ("MDIO_PMA_STAT2_10GBER", hex 0x0020);
    ("MDIO_PMA_STAT2_10GBLR", hex 0x0040); ("MDIO_PMA_STAT2_10GBSR", hex 0x0080);
    ("MDIO_PMD_STAT2_TXDISAB", hex 0x0100); ("MDIO_PMA_STAT2_EXTABLE", hex 0x0200);
    ("MDIO_PMA_STAT2_RXFLTABLE", hex 0x1000); ("MDIO_PMA_STAT2_TXFLTABLE", hex 0x2000)]].
Definition macro_MDIO_DEVS_PRESENT : list decl := [
  Define_fun "MDIO_DEVS_PRESENT" ["devad"] (Shl (dec 1) (Id "devad"))].
Definition defs_MDIO_PCS_STAT2_10GBR : list decl := [
  Defines [
    ("MDIO_PCS_STAT2_10GBR", hex 0x0001); ("MDIO_PCS_STAT2_10GBX", hex 0x0002);
    ("MDIO_PCS_STAT2_10GBW", hex 0x0004); ("MDIO_PCS_STAT2_RXFLTABLE", hex 0x1000);
    ("MDIO_PCS_STAT2_TXFLTABLE", hex 0x2000); ("MDIO_PMD_TXDIS_GLOBAL", hex 0x0001);
    ("MDIO_PMD_TXDIS_0", hex 0x0002); ("MDIO_PMD_TXDIS_1", hex 0x0004);
    ("MDIO_PMD_TXDIS_2", hex 0x0008); ("MDIO_PMD_TXDIS_3", hex 0x0010);
    ("MDIO_PMD_RXDET_GLOBAL", hex 0x0001); ("MDIO_PMD_RXDET_0", hex 0x0002);
    ("MDIO_PMD_RXDET_1", hex 0x0004); ("MDIO_PMD_RXDET_2", hex 0x0008);
    ("MDIO_PMD_RXDET_3", hex 0x0010); ("MDIO_PMA_EXTABLE_10GCX4", hex 0x0001);
    ("MDIO_PMA_EXTABLE_10GBLRM", hex 0x0002); ("MDIO_PMA_EXTABLE_10GBT", hex 0x0004);
    ("MDIO_PMA_EXTABLE_10GBKX4", hex 0x0008); ("MDIO_PMA_EXTABLE_10GBKR", hex 0x0010);
    ("MDIO_PMA_EXTABLE_1000BT", hex 0x0020); ("MDIO_PMA_EXTABLE_1000BKX", hex 0x0040);
    ("MDIO_PMA_EXTABLE_100BTX", hex 0x0080); ("MDIO_PMA_EXTABLE_10BT", hex 0x0100);
    ("MDIO_PHYXS_LNSTAT_SYNC0", hex 0x0001); ("MDIO_PHYXS_LNSTAT_SYNC1", hex 0x0002);
    ("MDIO_PHYXS_LNSTAT_SYNC2", hex 0x0004); ("MDIO_PHYXS_LNSTAT_SYNC3", hex 0x0008);
    ("MDIO_PHYXS_LNSTAT_ALIGN", hex 0x1000); ("MDIO_PMA_10GBT_SWAPPOL_ABNX", hex 0x0001);
    ("MDIO_PMA_10GBT_SWAPPOL_CDNX", hex 0x0002); ("MDIO_PMA_10GBT_SWAPPOL_AREV", hex 0x0100);
    ("MDIO_PMA_10GBT_SWAPPOL_BREV", hex 0x0200); ("MDIO_PMA_10GBT_SWAPPOL_CREV", hex 0x0400);
    ("MDIO_PMA_10GBT_SWAPPOL_DREV", hex 0x0800); ("MDIO_PMA_10GBT_TXPWR_SHORT", hex 0x0001);
    ("MDIO_PMA_10GBT_SNR_BIAS", hex 0x8000); ("MDIO_PMA_10GBT_SNR_MAX", dec 127);
    ("MDIO_PMA_10GBR_FECABLE_ABLE", hex 0x0001); ("MDIO_PMA_10GBR_FECABLE_ERRABLE", hex 0x0002);
    ("MDIO_PCS_10GBRT_STAT1_BLKLK", hex 0x0001); ("MDIO_PCS_10GBRT_STAT2_ERR", hex 0x00ff);
    ("MDIO_PCS_10GBRT_STAT2_BER", hex 0x3f00); ("MDIO_AN_10GBT_CTRL_ADV10G", hex 0x1000);
    ("MDIO_AN_10GBT_STAT_LPTRR", hex 0x0200); ("MDIO_AN_10GBT_STAT_LPLTABLE", hex 0x0400);
    ("MDIO_AN_10GBT_STAT_LP10G", hex 0x0800); ("MDIO_AN_10GBT_STAT_REMOK", hex 0x1000);
    ("MDIO_AN_10GBT_STAT_LOCOK", hex 0x2000); ("MDIO_AN_10GBT_STAT_MS", hex 0x4000);
    ("MDIO_AN_10GBT_STAT_MSFLT", hex 0x8000)];
  Defines [
    ("MDIO_AN_EEE_ADV_100TX", hex 0x0002); ("MDIO_AN_EEE_ADV_1000T", hex 0x0004)];
  Defines [
    ("MDIO_EEE_100TX", Id "MDIO_AN_EEE_ADV_100TX");
    ("MDIO_EEE_1000T", Id "MDIO_AN_EEE_ADV_1000T"); ("MDIO_EEE_10GT", hex 0x0008);
    ("MDIO_EEE_1000KX", hex 0x0010); ("MDIO_EEE_10GKX4", hex 0x0020);
    ("MDIO_EEE_10GKR", hex 0x0040); ("MDIO_PMA_LASI_RX_PHYXSLFLT", hex 0x0001);
    ("MDIO_PMA_LASI_RX_PCSLFLT", hex 0x0008); ("MDIO_PMA_LASI_RX_PMALFLT", hex 0x0010);
    ("MDIO_PMA_LASI_RX_OPTICPOWERFLT", hex 0x0020); ("MDIO_PMA_LASI_RX_WISLFLT", hex 0x0200);
    ("MDIO_PMA_LASI_TX_PHYXSLFLT", hex 0x0001); ("MDIO_PMA_LASI_TX_PCSLFLT", hex 0x0008);
    ("MDIO_PMA_LASI_TX_PMALFLT", hex 0x0010); ("MDIO_PMA_LASI_TX_LASERPOWERFLT", hex 0x0080);
    ("MDIO_PMA_LASI_TX_LASERTEMPFLT", hex 0x0100);
    ("MDIO_PMA_LASI_TX_LASERBICURRFLT", hex 0x0200); ("MDIO_PMA_LASI_LSALARM", hex 0x0001);
    ("MDIO_PMA_LASI_TXALARM", hex 0x0002); ("MDIO_PMA_LASI_RXALARM", hex 0x0004);
    ("MDIO_PHY_ID_C45", hex 0x8000); ("MDIO_PHY_ID_PRTAD", hex 0x03e0);
    ("MDIO_PHY_ID_DEVAD", hex 0x001f);
    ("MDIO_PHY_ID_C45_MASK", Or (Or (Id "MDIO_PHY_ID_C45") (Id "MDIO_PHY_ID_PRTAD")) (Id "MDIO_PHY_ID_DEVAD"))]].
Definition header : header :=
  Header "linux/mdio.h" [Mii.header] (concat [
    defs_MDIO_MMD_PMAPMD; macro_MDIO_DEVS_PRESENT; defs_MDIO_PCS_STAT2_10GBR]).
End Mdio.

(** ** [linux/mroute.h] *)

Module Mroute.
Definition defs_MRT_BASE : list decl := [
  Defines [
    ("MRT_BASE", dec 200); ("MRT_INIT", Id "MRT_BASE");
    ("MRT_DONE", Add (Id "MRT_BASE") (dec 1)); ("MRT_ADD_VIF", Add (Id "MRT_BASE") (dec 2));
    ("MRT_DEL_VIF", Add (Id "MRT_BASE") (dec 3)); ("MRT_ADD_MFC", Add (Id "MRT_BASE") (dec 4));
    ("MRT_DEL_MFC", Add (Id "MRT_BASE") (dec 5)); ("MRT_VERSION", Add (Id "MRT_BASE") (dec 6));
    ("MRT_ASSERT", Add (Id "MRT_BASE") (dec 7)); ("MRT_PIM", Add (Id "MRT_BASE") (dec 8));
    ("MRT_TABLE", Add (Id "MRT_BASE") (dec 9));
    ("MRT_ADD_MFC_PROXY", Add (Id "MRT_BASE") (dec 10));
    ("MRT_DEL_MFC_PROXY", Add (Id "MRT_BASE") (dec 11));
    ("MRT_MAX", Add (Id "MRT_BASE") (dec 11)); ("SIOCGETVIFCNT", Id "SIOCPROTOPRIVATE");
    ("SIOCGETSGCNT", Add (Id "SIOCPROTOPRIVATE") (dec 1));
    ("SIOCGETRPF", Add (Id "SIOCPROTOPRIVATE") (dec 2)); ("MAXVIFS", dec 32)]].
Definition defs_VIFF_TUNNEL : list decl := [
  Defines [
    ("VIFF_TUNNEL", hex 0x1); ("VIFF_SRCRT", hex 0x2); ("VIFF_REGISTER", hex 0x4);
    ("VIFF_USE_IFINDEX", hex 0x8)]].
Definition header : header :=
  Header "linux/mroute.h" [Sockios.header] (concat [
    defs_MRT_BASE; defs_VIFF_TUNNEL]).
End Mroute.

(** ** [linux/mroute6.h] *)

Module Mroute6.
Definition defs_MRT6_BASE : list decl := [
  Defines [
    ("MRT6_BASE", dec 200); ("MRT6_INIT", Id "MRT6_BASE");
    ("MRT6_DONE", Add (Id "MRT6_BASE") (dec 1)); ("MRT6_ADD_MIF", Add (Id "MRT6_BASE") (dec 2));
    ("MRT6_DEL_MIF", Add (Id "MRT6_BASE") (dec 3));
    ("MRT6_ADD_MFC", Add (Id "MRT6_BASE") (dec 4));
    ("MRT6_DEL_MFC", Add (Id "MRT6_BASE") (dec 5));
    ("MRT6_VERSION", Add (Id "MRT6_BASE") (dec 6));
    ("MRT6_ASSERT", Add (Id "MRT6_BASE") (dec 7)); ("MRT6_PIM", Add (Id "MRT6_BASE") (dec 8));
    ("MRT6_TABLE", Add (Id "MRT6_BASE") (dec 9));
    ("MRT6_ADD_MFC_PROXY", Add (Id "MRT6_BASE") (dec 10));
    ("MRT6_DEL_MFC_PROXY", Add (Id "MRT6_BASE") (dec 11));
    ("MRT6_MAX", Add (Id "MRT6_BASE") (dec 11)); ("SIOCGETMIFCNT_IN6", Id "SIOCPROTOPRIVATE");
    ("SIOCGETSGCNT_IN6", Add (Id "SIOCPROTOPRIVATE") (dec 1));
    ("SIOCGETRPF", Add (Id "SIOCPROTOPRIVATE") (dec 2)); ("MAXMIFS", dec 32)]].
Definition header : header :=
  Header "linux/mroute6.h" [Sockios.header] (concat [
    defs_MRT6_BASE]).
End Mroute6.

(** ** [linux/net.h] *)

Module Net.
Definition defs_SYS_SOCKET : list decl := [
  Defines [
    ("SYS_SOCKET", dec 1); ("SYS_BIND", dec 2); ("SYS_CONNECT", dec 3); ("SYS_LISTEN", dec 4);
    ("SYS_ACCEPT", dec 5); ("SYS_GETSOCKNAME", dec 6); ("SYS_GETPEERNAME", dec 7);
    ("SYS_SOCKETPAIR", dec 8); ("SYS_SEND", dec 9); ("SYS_RECV", dec 10); ("SYS_SENDTO", dec 11);
    ("SYS_RECVFROM", dec 12); ("SYS_SHUTDOWN", dec 13); ("SYS_SETSOCKOPT", dec 14);
    ("SYS_GETSOCKOPT", dec 15); ("SYS_SENDMSG", dec 16); ("SYS_RECVMSG", dec 17);
    ("SYS_ACCEPT4", dec 18); ("SYS_RECVMMSG", dec 19); ("SYS_SENDMMSG", dec 20)];
  Enum [
    ("SS_FREE", Some (dec 0)); ("SS_UNCONNECTED", None); ("SS_CONNECTING", None);
    ("SS_CONNECTED", None); ("SS_DISCONNECTING", None)];
  Defines [
    ("__SO_ACCEPTCON", Shl (dec 1) (dec 16))]].
Definition header : header :=
  Header "linux/net.h" [] (concat [
    defs_SYS_SOCKET]).
End Net.

(** ** [linux/netdevice.h] *)

Module Netdevice.
Definition defs_MAX_ADDR_LEN : list decl := [
  Defines [
    ("MAX_ADDR_LEN", dec 32); ("INIT_NETDEV_GROUP", dec 0); ("NET_NAME_UNKNOWN", dec 0);
    ("NET_NAME_ENUM", dec 1); ("NET_NAME_PREDICTABLE", dec 2); ("NET_NAME_USER", dec 3);
    ("NET_NAME_RENAMED", dec 4)];
  Enum [
    ("IF_PORT_UNKNOWN", Some (dec 0)); ("IF_PORT_10BASE2", None); ("IF_PORT_10BASET", None);
    ("IF_PORT_AUI", None); ("IF_PORT_100BASET", None); ("IF_PORT_100BASETX", None);
    ("IF_PORT_100BASEFX", None)];
  Defines [
    ("NET_ADDR_PERM", dec 0); ("NET_ADDR_RANDOM", dec 1); ("NET_ADDR_STOLEN", dec 2);
    ("NET_ADDR_SET", dec 3)]].
Definition header : header :=
  Header "linux/netdevice.h" [] (concat [
    defs_MAX_ADDR_LEN]).
End Netdevice.

(** ** [linux/pfkeyv2.h] *)

Module Pfkeyv2.
Definition defs_SADB_RESERVED : list decl := [
  Defines [
    ("SADB_RESERVED", dec 0); ("SADB_GETSPI", dec 1); ("SADB_UPDATE", dec 2);
    ("SADB_ADD", dec 3); ("SADB_DELETE", dec 4); ("SADB_GET", dec 5); ("SADB_ACQUIRE", dec 6);
    ("SADB_REGISTER", dec 7); ("SADB_EXPIRE", dec 8); ("SADB_FLUSH", dec 9);
    ("SADB_DUMP", dec 10); ("SADB_X_PROMISC", dec 11); ("SADB_X_PCHANGE", dec 12);
    ("SADB_X_SPDUPDATE", dec 13); ("SADB_X_SPDADD", dec 14); ("SADB_X_SPDDELETE", dec 15);
    ("SADB_X_SPDGET", dec 16); ("SADB_X_SPDACQUIRE", dec 17); ("SADB_X_SPDDUMP", dec 18);
    ("SADB_X_SPDFLUSH", dec 19); ("SADB_X_SPDSETIDX", dec 20); ("SADB_X_SPDEXPIRE", dec 21);
    ("SADB_X_SPDDELETE2", dec 22); ("SADB_X_NAT_T_NEW_MAPPING", dec 23);
    ("SADB_X_MIGRATE", dec 24); ("SADB_MAX", dec 24); ("SADB_SAFLAGS_PFS", dec 1);
    ("SADB_SAFLAGS_NOPMTUDISC", hex 0x20000000); ("SADB_SAFLAGS_DECAP_DSCP", hex 0x40000000);
    ("SADB_SAFLAGS_NOECN", hex 0x80000000); ("SADB_SASTATE_LARVAL", dec 0);
    ("SADB_SASTATE_MATURE", dec 1); ("SADB_SASTATE_DYING", dec 2); ("SADB_SASTATE_DEAD", dec 3);
    ("SADB_SASTATE_MAX", dec 3); ("SADB_SATYPE_UNSPEC", dec 0); ("SADB_SATYPE_AH", dec 2);
    ("SADB_SATYPE_ESP", dec 3); ("SADB_SATYPE_RSVP", dec 5); ("SADB_SATYPE_OSPFV2", dec 6);
    ("SADB_SATYPE_RIPV2", dec 7); ("SADB_SATYPE_MIP", dec 8); ("SADB_X_SATYPE_IPCOMP", dec 9);
    ("SADB_SATYPE_MAX", dec 9); ("SADB_AALG_NONE", dec 0); ("SADB_AALG_MD5HMAC", dec 2);
    ("SADB_AALG_SHA1HMAC", dec 3); ("SADB_X_AALG_SHA2_256HMAC", dec 5);
    ("SADB_X_AALG_SHA2_384HMAC", dec 6); ("SADB_X_AALG_SHA2_512HMAC", dec 7);
    ("SADB_X_AALG_RIPEMD160HMAC", dec 8); ("SADB_X_AALG_AES_XCBC_MAC", dec 9);
    ("SADB_X_AALG_NULL", dec 251); ("SADB_AALG_MAX", dec 251); ("SADB_EALG_NONE", dec 0);
    ("SADB_EALG_DESCBC", dec 2); ("SADB_EALG_3DESCBC", dec 3); ("SADB_X_EALG_CASTCBC", dec 6);
    ("SADB_X_EALG_BLOWFISHCBC", dec 7); ("SADB_EALG_NULL", dec 11);
    ("SADB_X_EALG_AESCBC", dec 12); ("SADB_X_EALG_AESCTR", dec 13);
    ("SADB_X_EALG_AES_CCM_ICV8", dec 14); ("SADB_X_EALG_AES_CCM_ICV12", dec 15);
    ("SADB_X_EALG_AES_CCM_ICV16", dec 16); ("SADB_X_EALG_AES_GCM_ICV8", dec 18);
    ("SADB_X_EALG_AES_GCM_ICV12", dec 19); ("SADB_X_EALG_AES_GCM_ICV16", dec 20);
    ("SADB_X_EALG_CAMELLIACBC", dec 22); ("SADB_X_EALG_NULL_AES_GMAC", dec 23);
    ("SADB_EALG_MAX", dec 253); ("SADB_X_EALG_SERPENTCBC", dec 252);
    ("SADB_X_EALG_TWOFISHCBC", dec 253); ("SADB_X_CALG_NONE", dec 0); ("SADB_X_CALG_OUI", dec 1);
    ("SADB_X_CALG_DEFLATE", dec 2); ("SADB_X_CALG_LZS", dec 3); ("SADB_X_CALG_LZJH", dec 4);
    ("SADB_X_CALG_MAX", dec 4); ("SADB_EXT_RESERVED", dec 0); ("SADB_EXT_SA", dec 1);
    ("SADB_EXT_LIFETIME_CURRENT", dec 2); ("SADB_EXT_LIFETIME_HARD", dec 3);
    ("SADB_EXT_LIFETIME_SOFT", dec 4); ("SADB_EXT_ADDRESS_SRC", dec 5);
    ("SADB_EXT_ADDRESS_DST", dec 6); ("SADB_EXT_ADDRESS_PROXY", dec 7);
    ("SADB_EXT_KEY_AUTH", dec 8); ("SADB_EXT_KEY_ENCRYPT", dec 9);
    ("SADB_EXT_IDENTITY_SRC", dec 10); ("SADB_EXT_IDENTITY_DST", dec 11);
    ("SADB_EXT_SENSITIVITY", dec 12); ("SADB_EXT_PROPOSAL", dec 13);
    ("SADB_EXT_SUPPORTED_AUTH", dec 14); ("SADB_EXT_SUPPORTED_ENCRYPT", dec 15);
    ("SADB_EXT_SPIRANGE", dec 16); ("SADB_X_EXT_KMPRIVATE", dec 17);
    ("SADB_X_EXT_POLICY", dec 18); ("SADB_X_EXT_SA2", dec 19); ("SADB_X_EXT_NAT_T_TYPE", dec 20);
    ("SADB_X_EXT_NAT_T_SPORT", dec 21); ("SADB_X_EXT_NAT_T_DPORT", dec 22);
    ("SADB_X_EXT_NAT_T_OA", dec 23); ("SADB_X_EXT_SEC_CTX", dec 24);
    ("SADB_X_EXT_KMADDRESS", dec 25); ("SADB_X_EXT_FILTER", dec 26); ("SADB_EXT_MAX", dec 26);
    ("SADB_IDENTTYPE_RESERVED", dec 0); ("SADB_IDENTTYPE_PREFIX", dec 1);
    ("SADB_IDENTTYPE_FQDN", dec 2); ("SADB_IDENTTYPE_USERFQDN", dec 3);
    ("SADB_IDENTTYPE_MAX", dec 3)]].
Definition header : header :=
  Header "linux/pfkeyv2.h" [] (concat [
    defs_SADB_RESERVED]).
End Pfkeyv2.

(** ** [linux/phonet.h] *)

Module Phonet.
Definition defs_PN_PROTO_TRANSPORT : list decl := [
  Defines [
    ("PN_PROTO_TRANSPORT", dec 0); ("PN_PROTO_PHONET", dec 1); ("PN_PROTO_PIPE", dec 2);
    ("PHONET_NPROTO", dec 3); ("PNPIPE_ENCAP", dec 1); ("PNPIPE_IFINDEX", dec 2);
    ("PNPIPE_HANDLE", dec 3); ("PNPIPE_INITSTATE", dec 4); ("PNADDR_ANY", dec 0);
    ("PNADDR_BROADCAST", hex 0xFC); ("PNPORT_RESOURCE_ROUTING", dec 0);
    ("PNPIPE_ENCAP_NONE", dec 0); ("PNPIPE_ENCAP_IP", dec 1);
    ("SIOCPNGETOBJECT", Add (Id "SIOCPROTOPRIVATE") (dec 0));
    ("SIOCPNENABLEPIPE", Add (Id "SIOCPROTOPRIVATE") (dec 13));
    ("SIOCPNADDRESOURCE", Add (Id "SIOCPROTOPRIVATE") (dec 14));
    ("SIOCPNDELRESOURCE", Add (Id "SIOCPROTOPRIVATE") (dec 15))]].
Definition header : header :=
  Header "linux/phonet.h" [Sockios.header] (concat [
    defs_PN_PROTO_TRANSPORT]).
End Phonet.

(** ** [linux/ppp-comp.h] *)

Module Ppp_comp.
Definition defs_CCP_CONFREQ : list decl := [
  Defines [
    ("CCP_CONFREQ", dec 1); ("CCP_CONFACK", dec 2); ("CCP_TERMREQ", dec 5);
    ("CCP_TERMACK", dec 6); ("CCP_RESETREQ", dec 14); ("CCP_RESETACK", dec 15)]].
Definition defs_CI_DEFLATE : list decl := [
  Defines [
    ("CI_DEFLATE", dec 26); ("CI_DEFLATE_DRAFT", dec 24); ("CILEN_DEFLATE", dec 4);
    ("DEFLATE_MIN_SIZE", dec 9); ("DEFLATE_MAX_SIZE", dec 15); ("DEFLATE_METHOD_VAL", dec 8);
    ("DEFLATE_CHK_SEQUENCE", dec 0)]].
Definition defs_CI_PREDICTOR_1 : list decl := [
  Defines [
    ("CI_PREDICTOR_1", dec 1); ("CILEN_PREDICTOR_1", dec 2); ("CI_PREDICTOR_2", dec 2);
    ("CILEN_PREDICTOR_2", dec 2)]].
Definition header : header :=
  Header "linux/ppp-comp.h" [] (concat [
    defs_CCP_CONFREQ; defs_CI_DEFLATE; defs_CI_PREDICTOR_1]).
End Ppp_comp.

(** ** [linux/ppp-ioctl.h] *)

Module Ppp_ioctl.
Definition defs_SC_COMP_PROT : list decl := [
  Defines [
    ("SC_COMP_PROT", hex 0x00000001); ("SC_COMP_AC", hex 0x00000002);
    ("SC_COMP_TCP", hex 0x00000004); ("SC_NO_TCP_CCID", hex 0x00000008);
    ("SC_REJ_COMP_AC", hex 0x00000010); ("SC_REJ_COMP_TCP", hex 0x00000020);
    ("SC_CCP_OPEN", hex 0x00000040); ("SC_CCP_UP", hex 0x00000080);
    ("SC_ENABLE_IP", hex 0x00000100); ("SC_LOOP_TRAFFIC", hex 0x00000200);
    ("SC_MULTILINK", hex 0x00000400); ("SC_MP_SHORTSEQ", hex 0x00000800);
    ("SC_COMP_RUN", hex 0x00001000); ("SC_DECOMP_RUN", hex 0x00002000);
    ("SC_MP_XSHORTSEQ", hex 0x00004000); ("SC_DEBUG", hex 0x00010000);
    ("SC_LOG_INPKT", hex 0x00020000); ("SC_LOG_OUTPKT", hex 0x00040000);
    ("SC_LOG_RAWIN", hex 0x00080000); ("SC_LOG_FLUSH", hex 0x00100000);
    ("SC_SYNC", hex 0x00200000); ("SC_MUST_COMP", hex 0x00400000); ("SC_MASK", hex 0x0f600fff);
    ("SC_XMIT_BUSY", hex 0x10000000); ("SC_RCV_ODDP", hex 0x08000000);
    ("SC_RCV_EVNP", hex 0x04000000); ("SC_RCV_B7_1", hex 0x02000000);
    ("SC_RCV_B7_0", hex 0x01000000); ("SC_DC_FERROR", hex 0x00800000);
    ("SC_DC_ERROR", hex 0x00400000)]].
Definition header : header :=
  Header "linux/ppp-ioctl.h" [] (concat [
    defs_SC_COMP_PROT]).
End Ppp_ioctl.

(** ** [linux/rds.h] *)

Module Rds.
Definition defs_RDS_CANCEL_SENT_TO : list decl := [
  Defines [
    ("RDS_CANCEL_SENT_TO", dec 1); ("RDS_GET_MR", dec 2); ("RDS_FREE_MR", dec 3);
    ("RDS_RECVERR", dec 5); ("RDS_CONG_MONITOR", dec 6); ("RDS_GET_MR_FOR_DEST", dec 7);
    ("SO_RDS_TRANSPORT", dec 8); ("RDS_TRANS_IB", dec 0); ("RDS_TRANS_IWARP", dec 1);
    ("RDS_TRANS_TCP", dec 2); ("RDS_TRANS_COUNT", dec 3); ("RDS_TRANS_NONE", Not (dec 0))];
  Defines [
    ("RDS_CMSG_RDMA_ARGS", dec 1); ("RDS_CMSG_RDMA_DEST", dec 2); ("RDS_CMSG_RDMA_MAP", dec 3);
    ("RDS_CMSG_RDMA_STATUS", dec 4); ("RDS_CMSG_CONG_UPDATE", dec 5);
    ("RDS_CMSG_ATOMIC_FADD", dec 6); ("RDS_CMSG_ATOMIC_CSWP", dec 7);
    ("RDS_CMSG_MASKED_ATOMIC_FADD", dec 8); ("RDS_CMSG_MASKED_ATOMIC_CSWP", dec 9);
    ("RDS_INFO_FIRST", dec 10000); ("RDS_INFO_COUNTERS", dec 10000);
    ("RDS_INFO_CONNECTIONS", dec 10001); ("RDS_INFO_SEND_MESSAGES", dec 10003);
    ("RDS_INFO_RETRANS_MESSAGES", dec 10004); ("RDS_INFO_RECV_MESSAGES", dec 10005);
    ("RDS_INFO_SOCKETS", dec 10006); ("RDS_INFO_TCP_SOCKETS", dec 10007);
    ("RDS_INFO_IB_CONNECTIONS", dec 10008); ("RDS_INFO_CONNECTION_STATS", dec 10009);
    ("RDS_INFO_IWARP_CONNECTIONS", dec 10010); ("RDS_INFO_LAST", dec 10010)]].
Definition defs_RDS_INFO_CONNECTION_FLAG_SENDING : list decl := [
  Defines [
    ("RDS_INFO_CONNECTION_FLAG_SENDING", hex 0x01);
    ("RDS_INFO_CONNECTION_FLAG_CONNECTING", hex 0x02);
    ("RDS_INFO_CONNECTION_FLAG_CONNECTED", hex 0x04); ("TRANSNAMSIZ", dec 16)]].
Definition defs_RDS_RDMA_SUCCESS : list decl := [
  Defines [
    ("RDS_RDMA_SUCCESS", dec 0); ("RDS_RDMA_REMOTE_ERROR", dec 1); ("RDS_RDMA_CANCELED", dec 2);
    ("RDS_RDMA_DROPPED", dec 3); ("RDS_RDMA_OTHER_ERROR", dec 4)];
  Defines [
    ("RDS_RDMA_READWRITE", hex 0x0001); ("RDS_RDMA_FENCE", hex 0x0002);
    ("RDS_RDMA_INVALIDATE", hex 0x0004); ("RDS_RDMA_USE_ONCE", hex 0x0008);
    ("RDS_RDMA_DONTWAIT", hex 0x0010); ("RDS_RDMA_NOTIFY_ME", hex 0x0020);
    ("RDS_RDMA_SILENT", hex 0x0040)]].
Definition header : header :=
  Header "linux/rds.h" [] (concat [
    defs_RDS_CANCEL_SENT_TO; defs_RDS_INFO_CONNECTION_FLAG_SENDING; defs_RDS_RDMA_SUCCESS]).
End Rds.

(** ** [linux/rose.h] *)

Module Rose.
Definition defs_ROSE_MTU : list decl := [
  Defines [
    ("ROSE_MTU", dec 251); ("ROSE_MAX_DIGIS", dec 6); ("ROSE_DEFER", dec 1); ("ROSE_T1", dec 2);
    ("ROSE_T2", dec 3); ("ROSE_T3", dec 4); ("ROSE_IDLE", dec 5); ("ROSE_QBITINCL", dec 6);
    ("ROSE_HOLDBACK", dec 7); ("SIOCRSGCAUSE", Add (Id "SIOCPROTOPRIVATE") (dec 0));
    ("SIOCRSSCAUSE", Add (Id "SIOCPROTOPRIVATE") (dec 1));
    ("SIOCRSL2CALL", Add (Id "SIOCPROTOPRIVATE") (dec 2));
    ("SIOCRSSL2CALL", Add (Id "SIOCPROTOPRIVATE") (dec 2));
    ("SIOCRSACCEPT", Add (Id "SIOCPROTOPRIVATE") (dec 3));
    ("SIOCRSCLRRT", Add (Id "SIOCPROTOPRIVATE") (dec 4));
    ("SIOCRSGL2CALL", Add (Id "SIOCPROTOPRIVATE") (dec 5));
    ("SIOCRSGFACILITIES", Add (Id "SIOCPROTOPRIVATE") (dec 6));
    ("ROSE_DTE_ORIGINATED", hex 0x00); ("ROSE_NUMBER_BUSY", hex 0x01);
    ("ROSE_INVALID_FACILITY", hex 0x03); ("ROSE_NETWORK_CONGESTION", hex 0x05);
    ("ROSE_OUT_OF_ORDER", hex 0x09); ("ROSE_ACCESS_BARRED", hex 0x0B);
    ("ROSE_NOT_OBTAINABLE", hex 0x0D); ("ROSE_REMOTE_PROCEDURE", hex 0x11);
    ("ROSE_LOCAL_PROCEDURE", hex 0x13); ("ROSE_SHIP_ABSENT", hex 0x39)]].
Definition header : header :=
  Header "linux/rose.h" [Sockios.header] (concat [
    defs_ROSE_MTU]).
End Rose.

(** ** [linux/route.h] *)

Module Route.
Definition defs_RTF_UP : list decl := [
  Defines [
    ("RTF_UP", hex 0x0001); ("RTF_GATEWAY", hex 0x0002); ("RTF_HOST", hex 0x0004);
    ("RTF_REINSTATE", hex 0x0008); ("RTF_DYNAMIC", hex 0x0010); ("RTF_MODIFIED", hex 0x0020);
    ("RTF_MTU", hex 0x0040); ("RTF_MSS", Id "RTF_MTU"); ("RTF_WINDOW", hex 0x0080);
    ("RTF_IRTT", hex 0x0100); ("RTF_REJECT", hex 0x0200)]].
Definition header : header :=
  Header "linux/route.h" [] (concat [
    defs_RTF_UP]).
End Route.

(** ** [linux/scc.h] *)

Module Scc.
Definition defs_PA0HZP : list decl := [
  Defines [
    ("PA0HZP", hex 0x00); ("EAGLE", hex 0x01); ("PC100", hex 0x02); ("PRIMUS", hex 0x04);
    ("DRSI", hex 0x08); ("BAYCOM", hex 0x10)];
  Enum [
    ("SIOCSCCRESERVED", Some (Id "SIOCDEVPRIVATE")); ("SIOCSCCCFG", None); ("SIOCSCCINI", None);
    ("SIOCSCCCHANINI", None); ("SIOCSCCSMEM", None); ("SIOCSCCGKISS", None);
    ("SIOCSCCSKISS", None); ("SIOCSCCGSTAT", None); ("SIOCSCCCAL", None)];
  Enum [
    ("PARAM_DATA", None); ("PARAM_TXDELAY", None); ("PARAM_PERSIST", None);
    ("PARAM_SLOTTIME", None); ("PARAM_TXTAIL", None); ("PARAM_FULLDUP", None);
    ("PARAM_SOFTDCD", None); ("PARAM_MUTE", None); ("PARAM_DTR", None); ("PARAM_RTS", None);
    ("PARAM_SPEED", None); ("PARAM_ENDDELAY", None); ("PARAM_GROUP", None); ("PARAM_IDLE", None);
    ("PARAM_MIN", None); ("PARAM_MAXKEY", None); ("PARAM_WAIT", None); ("PARAM_MAXDEFER", None);
    ("PARAM_TX", None); ("PARAM_HWEVENT", Some (dec 31)); ("PARAM_RETURN", Some (dec 255))];
  Enum [
    ("KISS_DUPLEX_HALF", None); ("KISS_DUPLEX_FULL", None); ("KISS_DUPLEX_LINK", None);
    ("KISS_DUPLEX_OPTIMA", None)]].
Definition enum_HWEVENT_opts : list decl := [
  Enum [
    ("HWEV_DCD_ON", None); ("HWEV_DCD_OFF", None); ("HWEV_ALL_SENT", None)]].
Definition enum_CLOCK_sources : list decl := [
  Enum [
    ("CLK_DPLL", None); ("CLK_EXTERNAL", None); ("CLK_DIVIDER", None); ("CLK_BRG", None)];
  Enum [
    ("TXS_IDLE", None); ("TXS_BUSY", None); ("TXS_ACTIVE", None); ("TXS_NEWFRAME", None);
    ("TXS_IDLE2", None); ("TXS_WAIT", None); ("TXS_TIMEOUT", None)]].
Definition header : header :=
  Header "linux/scc.h" [Sockios.header] (concat [
    defs_PA0HZP; enum_HWEVENT_opts; enum_CLOCK_sources]).
End Scc.

(** ** [linux/sctp.h] *)

Module Sctp.
Definition defs_SCTP_RTOINFO : list decl := [
  Defines [
    ("SCTP_RTOINFO", dec 0); ("SCTP_ASSOCINFO", dec 1); ("SCTP_INITMSG", dec 2);
    ("SCTP_NODELAY", dec 3); ("SCTP_AUTOCLOSE", dec 4); ("SCTP_SET_PEER_PRIMARY_ADDR", dec 5);
    ("SCTP_PRIMARY_ADDR", dec 6); ("SCTP_ADAPTATION_LAYER", dec 7);
    ("SCTP_DISABLE_FRAGMENTS", dec 8); ("SCTP_PEER_ADDR_PARAMS", dec 9);
    ("SCTP_DEFAULT_SEND_PARAM", dec 10); ("SCTP_EVENTS", dec 11);
    ("SCTP_I_WANT_MAPPED_V4_ADDR", dec 12); ("SCTP_MAXSEG", dec 13); ("SCTP_STATUS", dec 14);
    ("SCTP_GET_PEER_ADDR_INFO", dec 15); ("SCTP_DELAYED_ACK_TIME", dec 16);
    ("SCTP_DELAYED_ACK", Id "SCTP_DELAYED_ACK_TIME");
    ("SCTP_DELAYED_SACK", Id "SCTP_DELAYED_ACK_TIME"); ("SCTP_CONTEXT", dec 17);
    ("SCTP_FRAGMENT_INTERLEAVE", dec 18); ("SCTP_PARTIAL_DELIVERY_POINT", dec 19);
    ("SCTP_MAX_BURST", dec 20); ("SCTP_AUTH_CHUNK", dec 21); ("SCTP_HMAC_IDENT", dec 22);
    ("SCTP_AUTH_KEY", dec 23); ("SCTP_AUTH_ACTIVE_KEY", dec 24);
    ("SCTP_AUTH_DELETE_KEY", dec 25); ("SCTP_PEER_AUTH_CHUNKS", dec 26);
    ("SCTP_LOCAL_AUTH_CHUNKS", dec 27); ("SCTP_GET_ASSOC_NUMBER", dec 28);
    ("SCTP_GET_ASSOC_ID_LIST", dec 29); ("SCTP_AUTO_ASCONF", dec 30);
    ("SCTP_PEER_ADDR_THLDS", dec 31); ("SCTP_RECVRCVINFO", dec 32); ("SCTP_RECVNXTINFO", dec 33);
    ("SCTP_DEFAULT_SNDINFO", dec 34)];
  Defines [
    ("SCTP_SOCKOPT_BINDX_ADD", dec 100); ("SCTP_SOCKOPT_BINDX_REM", dec 101);
    ("SCTP_SOCKOPT_PEELOFF", dec 102); ("SCTP_SOCKOPT_CONNECTX_OLD", dec 107);
    ("SCTP_GET_PEER_ADDRS", dec 108); ("SCTP_GET_LOCAL_ADDRS", dec 109);
    ("SCTP_SOCKOPT_CONNECTX", dec 110); ("SCTP_SOCKOPT_CONNECTX3", dec 111);
    ("SCTP_GET_ASSOC_STATS", dec 112)]].
Definition enum_sctp_cmsg_type : list decl := [
  Enum [
    ("SCTP_INIT", None); ("SCTP_SNDRCV", None); ("SCTP_SNDINFO", None); ("SCTP_RCVINFO", None);
    ("SCTP_NXTINFO", None)]].
Definition enum_sctp_sac_state : list decl := [
  Enum [
    ("SCTP_COMM_UP", None); ("SCTP_COMM_LOST", None); ("SCTP_RESTART", None);
    ("SCTP_SHUTDOWN_COMP", None); ("SCTP_CANT_STR_ASSOC", None)]].
Definition enum_sctp_spc_state : list decl := [
  Enum [
    ("SCTP_ADDR_AVAILABLE", None); ("SCTP_ADDR_UNREACHABLE", None); ("SCTP_ADDR_REMOVED", None);
    ("SCTP_ADDR_ADDED", None); ("SCTP_ADDR_MADE_PRIM", None); ("SCTP_ADDR_CONFIRMED", None)]].
Definition enum_sctp_sn_type : list decl := [
  Enum [
    ("SCTP_SN_TYPE_BASE", Some (Shl (dec 1) (dec 15))); ("SCTP_ASSOC_CHANGE", None);
    ("SCTP_PEER_ADDR_CHANGE", None); ("SCTP_SEND_FAILED", None); ("SCTP_REMOTE_ERROR", None);
    ("SCTP_SHUTDOWN_EVENT", None); ("SCTP_PARTIAL_DELIVERY_EVENT", None);
    ("SCTP_ADAPTATION_INDICATION", None); ("SCTP_AUTHENTICATION_EVENT", None);
    ("SCTP_SENDER_DRY_EVENT", None)];
  Enum [
    ("SCTP_FAILED_THRESHOLD", None); ("SCTP_RECEIVED_SACK", None);
    ("SCTP_HEARTBEAT_SUCCESS", None); ("SCTP_RESPONSE_TO_USER_REQ", None);
    ("SCTP_INTERNAL_ERROR", None); ("SCTP_SHUTDOWN_GUARD_EXPIRES", None);
    ("SCTP_PEER_FAULTY", None)]].
Definition enum_sctp_spp_flags : list decl := [
  Enum [
    ("SPP_HB_ENABLE", Some (Shl (dec 1) (dec 0)));
    ("SPP_HB_DISABLE", Some (Shl (dec 1) (dec 1)));
    ("SPP_HB", Some (Or (Id "SPP_HB_ENABLE") (Id "SPP_HB_DISABLE")));
    ("SPP_HB_DEMAND", Some (Shl (dec 1) (dec 2)));
    ("SPP_PMTUD_ENABLE", Some (Shl (dec 1) (dec 3)));
    ("SPP_PMTUD_DISABLE", Some (Shl (dec 1) (dec 4)));
    ("SPP_PMTUD", Some (Or (Id "SPP_PMTUD_ENABLE") (Id "SPP_PMTUD_DISABLE")));
    ("SPP_SACKDELAY_ENABLE", Some (Shl (dec 1) (dec 5)));
    ("SPP_SACKDELAY_DISABLE", Some (Shl (dec 1) (dec 6)));
    ("SPP_SACKDELAY", Some (Or (Id "SPP_SACKDELAY_ENABLE") (Id "SPP_SACKDELAY_DISABLE")));
    ("SPP_HB_TIME_IS_ZERO", Some (Shl (dec 1) (dec 7)))]].
Definition enum_sctp_spinfo_state : list decl := [
  Enum [
    ("SCTP_INACTIVE", None); ("SCTP_PF", None); ("SCTP_ACTIVE", None);
    ("SCTP_UNCONFIRMED", None); ("SCTP_UNKNOWN", Some (hex 0xffff))]].
Definition enum_sctp_sstat_state : list decl := [
  Enum [
    ("SCTP_EMPTY", Some (dec 0)); ("SCTP_CLOSED", Some (dec 1));
    ("SCTP_COOKIE_WAIT", Some (dec 2)); ("SCTP_COOKIE_ECHOED", Some (dec 3));
    ("SCTP_ESTABLISHED", Some (dec 4)); ("SCTP_SHUTDOWN_PENDING", Some (dec 5));
    ("SCTP_SHUTDOWN_SENT", Some (dec 6)); ("SCTP_SHUTDOWN_RECEIVED", Some (dec 7));
    ("SCTP_SHUTDOWN_ACK_SENT", Some (dec 8))]].
Definition header : header :=
  Header "linux/sctp.h" [] (concat [
    defs_SCTP_RTOINFO; enum_sctp_cmsg_type; enum_sctp_sac_state; enum_sctp_spc_state;
    enum_sctp_sn_type; enum_sctp_spp_flags; enum_sctp_spinfo_state; enum_sctp_sstat_state]).
End Sctp.

(** ** [linux/sdla.h] *)

Module Sdla.
Definition defs_SDLA_S502A : list decl := [
  Defines [
    ("SDLA_S502A", dec 5020); ("SDLA_S502E", dec 5021); ("SDLA_S503", dec 5030);
    ("SDLA_S507", dec 5070); ("SDLA_S508", dec 5080); ("SDLA_S509", dec 5090);
    ("SDLA_UNKNOWN", Neg (dec 1)); ("SDLA_S508_PORT_V35", hex 0x00);
    ("SDLA_S508_PORT_RS232", hex 0x02); ("SDLA_CPU_3M", hex 0x00); ("SDLA_CPU_5M", hex 0x01);
    ("SDLA_CPU_7M", hex 0x02); ("SDLA_CPU_8M", hex 0x03); ("SDLA_CPU_10M", hex 0x04);
    ("SDLA_CPU_16M", hex 0x05); ("SDLA_CPU_12M", hex 0x06);
    ("SDLA_IDENTIFY", Add (Id "FRAD_LAST_IOCTL") (dec 1));
    ("SDLA_CPUSPEED", Add (Id "FRAD_LAST_IOCTL") (dec 2));
    ("SDLA_PROTOCOL", Add (Id "FRAD_LAST_IOCTL") (dec 3));
    ("SDLA_CLEARMEM", Add (Id "FRAD_LAST_IOCTL") (dec 4));
    ("SDLA_WRITEMEM", Add (Id "FRAD_LAST_IOCTL") (dec 5));
    ("SDLA_READMEM", Add (Id "FRAD_LAST_IOCTL") (dec 6))]].
Definition defs_SDLA_START : list decl := [
  Defines [
    ("SDLA_START", Add (Id "FRAD_LAST_IOCTL") (dec 7));
    ("SDLA_STOP", Add (Id "FRAD_LAST_IOCTL") (dec 8)); ("SDLA_NMIADDR", hex 0x0000);
    ("SDLA_CONF_ADDR", hex 0x0010); ("SDLA_S502A_NMIADDR", hex 0x0066);
    ("SDLA_CODE_BASEADDR", hex 0x0100); ("SDLA_WINDOW_SIZE", hex 0x2000);
    ("SDLA_ADDR_MASK", hex 0x1FFF); ("SDLA_MAX_DATA", dec 4080); ("SDLA_MAX_MTU", dec 4072);
    ("SDLA_MAX_DLCI", dec 24)]].
Definition header : header :=
  Header "linux/sdla.h" [If_frad.header] (concat [
    defs_SDLA_S502A; defs_SDLA_START]).
End Sdla.

(** ** [linux/sonet.h] *)

Module Sonet.
Definition defs_SONET_INS_SBIP : list decl := [
  Defines [
    ("SONET_INS_SBIP", dec 1); ("SONET_INS_LBIP", dec 2); ("SONET_INS_PBIP", dec 4);
    ("SONET_INS_FRAME", dec 8); ("SONET_INS_LOS", dec 16); ("SONET_INS_LAIS", dec 32);
    ("SONET_INS_PAIS", dec 64); ("SONET_INS_HCS", dec 128); ("SONET_FRAME_SONET", dec 0);
    ("SONET_FRAME_SDH", dec 1); ("SONET_FRSENSE_SIZE", dec 6)]].
Definition header : header :=
  Header "linux/sonet.h" [] (concat [
    defs_SONET_INS_SBIP]).
End Sonet.

(** ** [linux/tcp.h] *)

Module Tcp.
Definition defs_TCP_MSS_DEFAULT : list decl := [
  Defines [
    ("TCP_MSS_DEFAULT", decU 536); ("TCP_MSS_DESIRED", decU 1220); ("TCP_NODELAY", dec 1);
    ("TCP_MAXSEG", dec 2); ("TCP_CORK", dec 3); ("TCP_KEEPIDLE", dec 4);
    ("TCP_KEEPINTVL", dec 5); ("TCP_KEEPCNT", dec 6); ("TCP_SYNCNT", dec 7);
    ("TCP_LINGER2", dec 8); ("TCP_DEFER_ACCEPT", dec 9); ("TCP_WINDOW_CLAMP", dec 10);
    ("TCP_INFO", dec 11); ("TCP_QUICKACK", dec 12); ("TCP_CONGESTION", dec 13);
    ("TCP_MD5SIG", dec 14); ("TCP_THIN_LINEAR_TIMEOUTS", dec 16); ("TCP_THIN_DUPACK", dec 17);
    ("TCP_USER_TIMEOUT", dec 18); ("TCP_REPAIR", dec 19); ("TCP_REPAIR_QUEUE", dec 20);
    ("TCP_QUEUE_SEQ", dec 21); ("TCP_REPAIR_OPTIONS", dec 22); ("TCP_FASTOPEN", dec 23);
    ("TCP_TIMESTAMP", dec 24); ("TCP_NOTSENT_LOWAT", dec 25); ("TCP_CC_INFO", dec 26);
    ("TCP_SAVE_SYN", dec 27); ("TCP_SAVED_SYN", dec 28)]].
Definition enum_TCP_NO_QUEUE : list decl := [
  Enum [
    ("TCP_NO_QUEUE", None); ("TCP_RECV_QUEUE", None); ("TCP_SEND_QUEUE", None);
    ("TCP_QUEUES_NR", None)];
  Defines [
    ("TCPI_OPT_TIMESTAMPS", dec 1); ("TCPI_OPT_SACK", dec 2); ("TCPI_OPT_WSCALE", dec 4);
    ("TCPI_OPT_ECN", dec 8); ("TCPI_OPT_ECN_SEEN", dec 16); ("TCPI_OPT_SYN_DATA", dec 32)];
  Enum [
    ("TCP_CA_Open", Some (dec 0)); ("TCP_CA_Disorder", Some (dec 1));
    ("TCP_CA_CWR", Some (dec 2)); ("TCP_CA_Recovery", Some (dec 3));
    ("TCP_CA_Loss", Some (dec 4))]].
Definition header : header :=
  Header "linux/tcp.h" [] (concat [
    defs_TCP_MSS_DEFAULT; enum_TCP_NO_QUEUE]).
End Tcp.

(** ** [linux/tipc.h] *)

Module Tipc.
Definition defs_TIPC_CFG_SRV : list decl := [
  Defines [
    ("TIPC_CFG_SRV", dec 0); ("TIPC_TOP_SRV", dec 1); ("TIPC_LINK_STATE", dec 2);
    ("TIPC_RESERVED_TYPES", dec 64)]].
Definition defs_TIPC_LOW_IMPORTANCE : list decl := [
  Defines [
    ("TIPC_LOW_IMPORTANCE", dec 0); ("TIPC_MEDIUM_IMPORTANCE", dec 1);
    ("TIPC_HIGH_IMPORTANCE", dec 2); ("TIPC_CRITICAL_IMPORTANCE", dec 3)];
  Defines [
    ("TIPC_OK", dec 0); ("TIPC_ERR_NO_NAME", dec 1); ("TIPC_ERR_NO_PORT", dec 2);
    ("TIPC_ERR_NO_NODE", dec 3); ("TIPC_ERR_OVERLOAD", dec 4); ("TIPC_CONN_SHUTDOWN", dec 5)];
  Defines [
    ("TIPC_SUB_PORTS", hex 0x01); ("TIPC_SUB_SERVICE", hex 0x02); ("TIPC_SUB_CANCEL", hex 0x04);
    ("TIPC_WAIT_FOREVER", Not (dec 0))]].
Definition defs_TIPC_ADDR_NAMESEQ : list decl := [
  Defines [
    ("TIPC_ADDR_NAMESEQ", dec 1); ("TIPC_ADDR_MCAST", dec 1); ("TIPC_ADDR_NAME", dec 2);
    ("TIPC_ADDR_ID", dec 3)]].
Definition defs_TIPC_IMPORTANCE : list decl := [
  Defines [
    ("TIPC_IMPORTANCE", dec 127); ("TIPC_SRC_DROPPABLE", dec 128);
    ("TIPC_DEST_DROPPABLE", dec 129); ("TIPC_CONN_TIMEOUT", dec 130);
    ("TIPC_NODE_RECVQ_DEPTH", dec 131); ("TIPC_SOCK_RECVQ_DEPTH", dec 132)];
  Defines [
    ("TIPC_MAX_MEDIA_NAME", dec 16); ("TIPC_MAX_IF_NAME", dec 16);
    ("TIPC_MAX_BEARER_NAME", dec 32); ("TIPC_MAX_LINK_NAME", dec 60);
    ("SIOCGETLINKNAME", Id "SIOCPROTOPRIVATE")]].
Definition header : header :=
  Header "linux/tipc.h" [Sockios.header] (concat [
    defs_TIPC_CFG_SRV; defs_TIPC_LOW_IMPORTANCE; defs_TIPC_ADDR_NAMESEQ; defs_TIPC_IMPORTANCE]).
End Tipc.

(** ** [linux/tipc_config.h] *)

Module Tipc_config.
Definition defs_TIPC_CMD_NOOP : list decl := [
  Defines [
    ("TIPC_CMD_NOOP", hex 0x0000); ("TIPC_CMD_GET_NODES", hex 0x0001);
    ("TIPC_CMD_GET_MEDIA_NAMES", hex 0x0002); ("TIPC_CMD_GET_BEARER_NAMES", hex 0x0003);
    ("TIPC_CMD_GET_LINKS", hex 0x0004); ("TIPC_CMD_SHOW_NAME_TABLE", hex 0x0005);
    ("TIPC_CMD_SHOW_PORTS", hex 0x0006); ("TIPC_CMD_SHOW_LINK_STATS", hex 0x000B);
    ("TIPC_CMD_SHOW_STATS", hex 0x000F)];
  Defines [
    ("TIPC_CMD_GET_REMOTE_MNG", hex 0x4003); ("TIPC_CMD_GET_MAX_PORTS", hex 0x4004);
    ("TIPC_CMD_GET_MAX_PUBL", hex 0x4005); ("TIPC_CMD_GET_MAX_SUBSCR", hex 0x4006);
    ("TIPC_CMD_GET_MAX_ZONES", hex 0x4007); ("TIPC_CMD_GET_MAX_CLUSTERS", hex 0x4008);
    ("TIPC_CMD_GET_MAX_NODES", hex 0x4009); ("TIPC_CMD_GET_MAX_SLAVES", hex 0x400A);
    ("TIPC_CMD_GET_NETID", hex 0x400B); ("TIPC_CMD_ENABLE_BEARER", hex 0x4101);
    ("TIPC_CMD_DISABLE_BEARER", hex 0x4102); ("TIPC_CMD_SET_LINK_TOL", hex 0x4107);
    ("TIPC_CMD_SET_LINK_PRI", hex 0x4108); ("TIPC_CMD_SET_LINK_WINDOW", hex 0x4109);
    ("TIPC_CMD_SET_LOG_SIZE", hex 0x410A); ("TIPC_CMD_DUMP_LOG", hex 0x410B);
    ("TIPC_CMD_RESET_LINK_STATS", hex 0x410C)];
  Defines [
    ("TIPC_CMD_SET_NODE_ADDR", hex 0x8001); ("TIPC_CMD_SET_REMOTE_MNG", hex 0x8003);
    ("TIPC_CMD_SET_MAX_PORTS", hex 0x8004); ("TIPC_CMD_SET_MAX_PUBL", hex 0x8005);
    ("TIPC_CMD_SET_MAX_SUBSCR", hex 0x8006); ("TIPC_CMD_SET_MAX_ZONES", hex 0x8007);
    ("TIPC_CMD_SET_MAX_CLUSTERS", hex 0x8008); ("TIPC_CMD_SET_MAX_NODES", hex 0x8009);
    ("TIPC_CMD_SET_MAX_SLAVES", hex 0x800A); ("TIPC_CMD_SET_NETID", hex 0x800B)]].
Definition defs_TIPC_TLV_NONE : list decl := [
  Defines [
    ("TIPC_TLV_NONE", dec 0); ("TIPC_TLV_VOID", dec 1); ("TIPC_TLV_UNSIGNED", dec 2);
    ("TIPC_TLV_STRING", dec 3); ("TIPC_TLV_LARGE_STRING", dec 4);
    ("TIPC_TLV_ULTRA_STRING", dec 5); ("TIPC_TLV_ERROR_STRING", dec 16);
    ("TIPC_TLV_NET_ADDR", dec 17); ("TIPC_TLV_MEDIA_NAME", dec 18);
    ("TIPC_TLV_BEARER_NAME", dec 19); ("TIPC_TLV_LINK_NAME", dec 20);
    ("TIPC_TLV_NODE_INFO", dec 21); ("TIPC_TLV_LINK_INFO", dec 22);
    ("TIPC_TLV_BEARER_CONFIG", dec 23); ("TIPC_TLV_LINK_CONFIG", dec 24);
    ("TIPC_TLV_NAME_TBL_QUERY", dec 25); ("TIPC_TLV_PORT_REF", dec 26)];
  Defines [
    ("TIPC_MIN_LINK_PRI", dec 0); ("TIPC_DEF_LINK_PRI", dec 10); ("TIPC_MAX_LINK_PRI", dec 31);
    ("TIPC_MEDIA_LINK_PRI", Add (Id "TIPC_MAX_LINK_PRI") (dec 1))]].
Definition header : header :=
  Header "linux/tipc_config.h" [] (concat [
    defs_TIPC_CMD_NOOP; defs_TIPC_TLV_NONE]).
End Tipc_config.

(** ** [linux/wimax.h] *)

Module Wimax.
Definition enum_WIMAX_GNL_VERSION : list decl := [
  Enum [
    ("WIMAX_GNL_VERSION", Some (oct 1)); ("WIMAX_GNL_ATTR_INVALID", Some (hex 0x00));
    ("WIMAX_GNL_ATTR_MAX", Some (dec 10))];
  Enum [
    ("WIMAX_GNL_OP_MSG_FROM_USER", None); ("WIMAX_GNL_OP_MSG_TO_USER", None);
    ("WIMAX_GNL_OP_RFKILL", None); ("WIMAX_GNL_OP_RESET", None);
    ("WIMAX_GNL_RE_STATE_CHANGE", None); ("WIMAX_GNL_OP_STATE_GET", None)];
  Enum [
    ("WIMAX_GNL_MSG_IFIDX", Some (dec 1)); ("WIMAX_GNL_MSG_PIPE_NAME", None);
    ("WIMAX_GNL_MSG_DATA", None)];
  Enum [
    ("WIMAX_RF_OFF", Some (dec 0)); ("WIMAX_RF_ON", Some (dec 1));
    ("WIMAX_RF_QUERY", Some (dec 2))]].
Definition enum_WIMAX_GNL_STCH_IFIDX : list decl := [
  Enum [
    ("WIMAX_GNL_STCH_IFIDX", Some (dec 1)); ("WIMAX_GNL_STCH_STATE_OLD", None);
    ("WIMAX_GNL_STCH_STATE_NEW", None)];
  Enum [
    ("__WIMAX_ST_NULL", Some (dec 0)); ("WIMAX_ST_DOWN", None); ("__WIMAX_ST_QUIESCING", None);
    ("WIMAX_ST_UNINITIALIZED", None); ("WIMAX_ST_RADIO_OFF", None); ("WIMAX_ST_READY", None);
    ("WIMAX_ST_SCANNING", None); ("WIMAX_ST_CONNECTING", None); ("WIMAX_ST_CONNECTED", None);
    ("__WIMAX_ST_INVALID", None)]].
Definition header : header :=
  Header "linux/wimax.h" [] (concat [
    enum_WIMAX_GNL_VERSION; enum_WIMAX_GNL_STCH_IFIDX]).
End Wimax.

(** ** [linux/wimax/i2400m.h] *)

Module Wimax_i2400m.
Definition enum_i2400m_brh_opcode : list decl := [
  Enum [
    ("I2400M_BRH_READ", Some (dec 1)); ("I2400M_BRH_WRITE", Some (dec 2));
    ("I2400M_BRH_JUMP", Some (dec 3)); ("I2400M_BRH_SIGNED_JUMP", Some (dec 8));
    ("I2400M_BRH_HASH_PAYLOAD_ONLY", Some (dec 9))];
  Enum [
    ("I2400M_BRH_SIGNATURE", Some (hex 0xcbbc0000));
    ("I2400M_BRH_SIGNATURE_MASK", Some (hex 0xffff0000));
    ("I2400M_BRH_SIGNATURE_SHIFT", Some (dec 16));
    ("I2400M_BRH_OPCODE_MASK", Some (hex 0x0000000f));
    ("I2400M_BRH_RESPONSE_MASK", Some (hex 0x000000f0));
    ("I2400M_BRH_RESPONSE_SHIFT", Some (dec 4));
    ("I2400M_BRH_DIRECT_ACCESS", Some (hex 0x00000400));
    ("I2400M_BRH_RESPONSE_REQUIRED", Some (hex 0x00000200));
    ("I2400M_BRH_USE_CHECKSUM", Some (hex 0x00000100))]].
Definition enum_i2400m_pt : list decl := [
  Enum [
    ("I2400M_PT_DATA", Some (dec 0)); ("I2400M_PT_CTRL", None); ("I2400M_PT_TRACE", None);
    ("I2400M_PT_RESET_WARM", None); ("I2400M_PT_RESET_COLD", None); ("I2400M_PT_EDATA", None);
    ("I2400M_PT_ILLEGAL", None)]].
Definition enum_i2400m_ro : list decl := [
  Enum [
    ("I2400M_RO_NEEDED", Some (hex 0x01)); ("I2400M_RO_TYPE", Some (hex 0x03));
    ("I2400M_RO_TYPE_SHIFT", Some (dec 1)); ("I2400M_RO_CIN", Some (hex 0x0f));
    ("I2400M_RO_CIN_SHIFT", Some (dec 4)); ("I2400M_RO_FBN", Some (hex 0x07ff));
    ("I2400M_RO_FBN_SHIFT", Some (dec 8)); ("I2400M_RO_SN", Some (hex 0x07ff));
    ("I2400M_RO_SN_SHIFT", Some (dec 21))];
  Enum [
    ("I2400M_RO_TYPE_RESET", Some (dec 0)); ("I2400M_RO_TYPE_PACKET", None);
    ("I2400M_RO_TYPE_WS", None); ("I2400M_RO_TYPE_PACKET_WS", None)];
  Enum [
    ("I2400M_PL_ALIGN", Some (dec 16)); ("I2400M_PL_SIZE_MAX", Some (hex 0x3EFF));
    ("I2400M_MAX_PLS_IN_MSG", Some (dec 60));
    ("I2400M_H2D_PREVIEW_BARKER", Some (hex 0xcafe900d));
    ("I2400M_COLD_RESET_BARKER", Some (hex 0xc01dc01d));
    ("I2400M_WARM_RESET_BARKER", Some (hex 0x50f750f7));
    ("I2400M_NBOOT_BARKER", Some (hex 0xdeadbeef));
    ("I2400M_SBOOT_BARKER", Some (hex 0x0ff1c1a1));
    ("I2400M_SBOOT_BARKER_6050", Some (hex 0x80000001));
    ("I2400M_ACK_BARKER", Some (hex 0xfeedbabe));
    ("I2400M_D2H_MSG_BARKER", Some (hex 0xbeefbabe))]].
Definition enum_i2400m_mt : list decl := [
  Enum [
    ("I2400M_MT_RESERVED", Some (hex 0x0000)); ("I2400M_MT_INVALID", Some (hex 0xffff));
    ("I2400M_MT_REPORT_MASK", Some (hex 0x8000));
    ("I2400M_MT_GET_SCAN_RESULT", Some (hex 0x4202));
    ("I2400M_MT_SET_SCAN_PARAM", Some (hex 0x4402));
    ("I2400M_MT_CMD_RF_CONTROL", Some (hex 0x4602)); ("I2400M_MT_CMD_SCAN", Some (hex 0x4603));
    ("I2400M_MT_CMD_CONNECT", Some (hex 0x4604));
    ("I2400M_MT_CMD_DISCONNECT", Some (hex 0x4605));
    ("I2400M_MT_CMD_EXIT_IDLE", Some (hex 0x4606));
    ("I2400M_MT_GET_LM_VERSION", Some (hex 0x5201));
    ("I2400M_MT_GET_DEVICE_INFO", Some (hex 0x5202));
    ("I2400M_MT_GET_LINK_STATUS", Some (hex 0x5203));
    ("I2400M_MT_GET_STATISTICS", Some (hex 0x5204)); ("I2400M_MT_GET_STATE", Some (hex 0x5205));
    ("I2400M_MT_GET_MEDIA_STATUS", Some (hex 0x5206));
    ("I2400M_MT_SET_INIT_CONFIG", Some (hex 0x5404)); ("I2400M_MT_CMD_INIT", Some (hex 0x5601));
    ("I2400M_MT_CMD_TERMINATE", Some (hex 0x5602));
    ("I2400M_MT_CMD_MODE_OF_OP", Some (hex 0x5603));
    ("I2400M_MT_CMD_RESET_DEVICE", Some (hex 0x5604));
    ("I2400M_MT_CMD_MONITOR_CONTROL", Some (hex 0x5605));
    ("I2400M_MT_CMD_ENTER_POWERSAVE", Some (hex 0x5606));
    ("I2400M_MT_GET_TLS_OPERATION_RESULT", Some (hex 0x6201));
    ("I2400M_MT_SET_EAP_SUCCESS", Some (hex 0x6402));
    ("I2400M_MT_SET_EAP_FAIL", Some (hex 0x6403)); ("I2400M_MT_SET_EAP_KEY", Some (hex 0x6404));
    ("I2400M_MT_CMD_SEND_EAP_RESPONSE", Some (hex 0x6602));
    ("I2400M_MT_REPORT_SCAN_RESULT", Some (hex 0xc002));
    ("I2400M_MT_REPORT_STATE", Some (hex 0xd002));
    ("I2400M_MT_REPORT_POWERSAVE_READY", Some (hex 0xd005));
    ("I2400M_MT_REPORT_EAP_REQUEST", Some (hex 0xe002));
    ("I2400M_MT_REPORT_EAP_RESTART", Some (hex 0xe003));
    ("I2400M_MT_REPORT_ALT_ACCEPT", Some (hex 0xe004));
    ("I2400M_MT_REPORT_KEY_REQUEST", Some (hex 0xe005))];
  Enum [
    ("I2400M_MS_DONE_OK", Some (dec 0)); ("I2400M_MS_DONE_IN_PROGRESS", Some (dec 1));
    ("I2400M_MS_INVALID_OP", Some (dec 2)); ("I2400M_MS_BAD_STATE", Some (dec 3));
    ("I2400M_MS_ILLEGAL_VALUE", Some (dec 4)); ("I2400M_MS_MISSING_PARAMS", Some (dec 5));
    ("I2400M_MS_VERSION_ERROR", Some (dec 6)); ("I2400M_MS_ACCESSIBILITY_ERROR", Some (dec 7));
    ("I2400M_MS_BUSY", Some (dec 8)); ("I2400M_MS_CORRUPTED_TLV", Some (dec 9));
    ("I2400M_MS_UNINITIALIZED", Some (dec 10)); ("I2400M_MS_UNKNOWN_ERROR", Some (dec 11));
    ("I2400M_MS_PRODUCTION_ERROR", Some (dec 12)); ("I2400M_MS_NO_RF", Some (dec 13));
    ("I2400M_MS_NOT_READY_FOR_POWERSAVE", Some (dec 14));
    ("I2400M_MS_THERMAL_CRITICAL", Some (dec 15)); ("I2400M_MS_MAX", None)];
  Enum [
    ("I2400M_TLV_L4_MESSAGE_VERSIONS", Some (dec 129));
    ("I2400M_TLV_SYSTEM_STATE", Some (dec 141)); ("I2400M_TLV_MEDIA_STATUS", Some (dec 161));
    ("I2400M_TLV_RF_OPERATION", Some (dec 162)); ("I2400M_TLV_RF_STATUS", Some (dec 163));
    ("I2400M_TLV_DEVICE_RESET_TYPE", Some (dec 132));
    ("I2400M_TLV_CONFIG_IDLE_PARAMETERS", Some (dec 601));
    ("I2400M_TLV_CONFIG_IDLE_TIMEOUT", Some (dec 611));
    ("I2400M_TLV_CONFIG_D2H_DATA_FORMAT", Some (dec 614));
    ("I2400M_TLV_CONFIG_DL_HOST_REORDER", Some (dec 615))]].
Definition enum_i2400m_system_state : list decl := [
  Enum [
    ("I2400M_SS_UNINITIALIZED", Some (dec 1)); ("I2400M_SS_INIT", None);
    ("I2400M_SS_READY", None); ("I2400M_SS_SCAN", None); ("I2400M_SS_STANDBY", None);
    ("I2400M_SS_CONNECTING", None); ("I2400M_SS_WIMAX_CONNECTED", None);
    ("I2400M_SS_DATA_PATH_CONNECTED", None); ("I2400M_SS_IDLE", None);
    ("I2400M_SS_DISCONNECTING", None); ("I2400M_SS_OUT_OF_ZONE", None);
    ("I2400M_SS_SLEEPACTIVE", None); ("I2400M_SS_PRODUCTION", None); ("I2400M_SS_CONFIG", None);
    ("I2400M_SS_RF_OFF", None); ("I2400M_SS_RF_SHUTDOWN", None);
    ("I2400M_SS_DEVICE_DISCONNECT", None); ("I2400M_SS_MAX", None)]].
Definition enum_i2400m_media_status : list decl := [
  Enum [
    ("I2400M_MEDIA_STATUS_LINK_UP", Some (dec 1)); ("I2400M_MEDIA_STATUS_LINK_DOWN", None);
    ("I2400M_MEDIA_STATUS_LINK_RENEW", None)]].
Definition header : header :=
  Header "linux/wimax/i2400m.h" [] (concat [
    enum_i2400m_brh_opcode; enum_i2400m_pt; enum_i2400m_ro; enum_i2400m_mt;
    enum_i2400m_system_state; enum_i2400m_media_status]).
End Wimax_i2400m.

(** ** [linux/wireless.h] *)

Module Wireless.
Definition defs_SIOCSIWNWID : list decl := [
  Defines [
    ("SIOCSIWNWID", hex 0x8B02); ("SIOCGIWNWID", hex 0x8B03); ("SIOCSIWFREQ", hex 0x8B04);
    ("SIOCGIWFREQ", hex 0x8B05); ("SIOCSIWMODE", hex 0x8B06); ("SIOCGIWMODE", hex 0x8B07);
    ("SIOCSIWSENS", hex 0x8B08); ("SIOCGIWSENS", hex 0x8B09); ("SIOCSIWRANGE", hex 0x8B0A);
    ("SIOCGIWRANGE", hex 0x8B0B); ("SIOCSIWPRIV", hex 0x8B0C); ("SIOCGIWPRIV", hex 0x8B0D);
    ("SIOCSIWSTATS", hex 0x8B0E); ("SIOCGIWSTATS", hex 0x8B0F)];
  Defines [
    ("SIOCSIWSPY", hex 0x8B10); ("SIOCGIWSPY", hex 0x8B11); ("SIOCSIWTHRSPY", hex 0x8B12);
    ("SIOCGIWTHRSPY", hex 0x8B13); ("SIOCSIWAP", hex 0x8B14); ("SIOCGIWAP", hex 0x8B15);
    ("SIOCGIWAPLIST", hex 0x8B17); ("SIOCSIWSCAN", hex 0x8B18); ("SIOCGIWSCAN", hex 0x8B19);
    ("SIOCSIWESSID", hex 0x8B1A); ("SIOCGIWESSID", hex 0x8B1B); ("SIOCSIWNICKN", hex 0x8B1C);
    ("SIOCGIWNICKN", hex 0x8B1D)];
  Defines [
    ("SIOCSIWRATE", hex 0x8B20); ("SIOCGIWRATE", hex 0x8B21); ("SIOCSIWRTS", hex 0x8B22);
    ("SIOCGIWRTS", hex 0x8B23); ("SIOCSIWFRAG", hex 0x8B24); ("SIOCGIWFRAG", hex 0x8B25);
    ("SIOCSIWTXPOW", hex 0x8B26); ("SIOCGIWTXPOW", hex 0x8B27); ("SIOCSIWRETRY", hex 0x8B28);
    ("SIOCGIWRETRY", hex 0x8B29); ("SIOCSIWENCODE", hex 0x8B2A); ("SIOCGIWENCODE", hex 0x8B2B);
    ("SIOCSIWPOWER", hex 0x8B2C); ("SIOCGIWPOWER", hex 0x8B2D)];
  Defines [
    ("SIOCSIWGENIE", hex 0x8B30); ("SIOCGIWGENIE", hex 0x8B31); ("SIOCSIWMLME", hex 0x8B16);
    ("SIOCSIWAUTH", hex 0x8B32); ("SIOCGIWAUTH", hex 0x8B33); ("SIOCSIWENCODEEXT", hex 0x8B34);
    ("SIOCGIWENCODEEXT", hex 0x8B35); ("SIOCSIWPMKSA", hex 0x8B36)]].
Definition defs_IWEVTXDROP : list decl := [
  Defines [
    ("IWEVTXDROP", hex 0x8C00); ("IWEVQUAL", hex 0x8C01); ("IWEVCUSTOM", hex 0x8C02);
    ("IWEVREGISTERED", hex 0x8C03); ("IWEVEXPIRED", hex 0x8C04); ("IWEVGENIE", hex 0x8C05)]].
Definition defs_IW_PRIV_TYPE_MASK : list decl := [
  Defines [
    ("IW_PRIV_TYPE_MASK", hex 0x7000); ("IW_PRIV_TYPE_NONE", hex 0x0000);
    ("IW_PRIV_TYPE_BYTE", hex 0x1000); ("IW_PRIV_TYPE_CHAR", hex 0x2000);
    ("IW_PRIV_TYPE_INT", hex 0x4000); ("IW_PRIV_TYPE_FLOAT", hex 0x5000);
    ("IW_PRIV_TYPE_ADDR", hex 0x6000); ("IW_PRIV_SIZE_FIXED", hex 0x0800);
    ("IW_PRIV_SIZE_MASK", hex 0x07FF)]].
Definition defs_IW_MAX_SPY : list decl := [
  Defines [
    ("IW_MAX_SPY", dec 8); ("IW_MAX_AP", dec 64); ("IW_ESSID_MAX_SIZE", dec 32);
    ("IW_MODE_AUTO", dec 0); ("IW_MODE_ADHOC", dec 1); ("IW_MODE_INFRA", dec 2);
    ("IW_MODE_MASTER", dec 3); ("IW_MODE_REPEAT", dec 4); ("IW_MODE_SECOND", dec 5);
    ("IW_MODE_MONITOR", dec 6); ("IW_MODE_MESH", dec 7); ("IW_QUAL_QUAL_UPDATED", hex 0x01);
    ("IW_QUAL_LEVEL_UPDATED", hex 0x02); ("IW_QUAL_NOISE_UPDATED", hex 0x04);
    ("IW_QUAL_ALL_UPDATED", hex 0x07); ("IW_QUAL_DBM", hex 0x08);
    ("IW_QUAL_QUAL_INVALID", hex 0x10); ("IW_QUAL_LEVEL_INVALID", hex 0x20);
    ("IW_QUAL_NOISE_INVALID", hex 0x40); ("IW_QUAL_RCPI", hex 0x80);
    ("IW_QUAL_ALL_INVALID", hex 0x70); ("IW_FREQ_AUTO", hex 0x00); ("IW_FREQ_FIXED", hex 0x01);
    ("IW_MAX_ENCODING_SIZES", dec 8); ("IW_ENCODING_TOKEN_MAX", dec 64);
    ("IW_ENCODE_INDEX", hex 0x00FF); ("IW_ENCODE_FLAGS", hex 0xFF00);
    ("IW_ENCODE_MODE", hex 0xF000); ("IW_ENCODE_DISABLED", hex 0x8000);
    ("IW_ENCODE_ENABLED", hex 0x0000); ("IW_ENCODE_RESTRICTED", hex 0x4000);
    ("IW_ENCODE_OPEN", hex 0x2000); ("IW_ENCODE_NOKEY", hex 0x0800);
    ("IW_ENCODE_TEMP", hex 0x0400); ("IW_POWER_ON", hex 0x0000); ("IW_POWER_TYPE", hex 0xF000);
    ("IW_POWER_PERIOD", hex 0x1000); ("IW_POWER_TIMEOUT", hex 0x2000);
    ("IW_POWER_MODE", hex 0x0F00); ("IW_POWER_UNICAST_R", hex 0x0100);
    ("IW_POWER_MULTICAST_R", hex 0x0200); ("IW_POWER_ALL_R", hex 0x0300);
    ("IW_POWER_FORCE_S", hex 0x0400); ("IW_POWER_REPEATER", hex 0x0800);
    ("IW_POWER_MODIFIER", hex 0x000F); ("IW_POWER_MIN", hex 0x0001);
    ("IW_POWER_MAX", hex 0x0002); ("IW_POWER_RELATIVE", hex 0x0004);
    ("IW_TXPOW_TYPE", hex 0x00FF); ("IW_TXPOW_DBM", hex 0x0000); ("IW_TXPOW_MWATT", hex 0x0001);
    ("IW_TXPOW_RELATIVE", hex 0x0002); ("IW_TXPOW_RANGE", hex 0x1000);
    ("IW_RETRY_ON", hex 0x0000); ("IW_RETRY_TYPE", hex 0xF000); ("IW_RETRY_LIMIT", hex 0x1000);
    ("IW_RETRY_LIFETIME", hex 0x2000); ("IW_RETRY_MODIFIER", hex 0x00FF);
    ("IW_RETRY_MIN", hex 0x0001); ("IW_RETRY_MAX", hex 0x0002);
    ("IW_RETRY_RELATIVE", hex 0x0004); ("IW_RETRY_SHORT", hex 0x0010);
    ("IW_RETRY_LONG", hex 0x0020); ("IW_SCAN_DEFAULT", hex 0x0000);
    ("IW_SCAN_ALL_ESSID", hex 0x0001); ("IW_SCAN_THIS_ESSID", hex 0x0002);
    ("IW_SCAN_ALL_FREQ", hex 0x0004); ("IW_SCAN_THIS_FREQ", hex 0x0008);
    ("IW_SCAN_ALL_MODE", hex 0x0010); ("IW_SCAN_THIS_MODE", hex 0x0020);
    ("IW_SCAN_ALL_RATE", hex 0x0040); ("IW_SCAN_THIS_RATE", hex 0x0080);
    ("IW_SCAN_TYPE_ACTIVE", dec 0); ("IW_SCAN_TYPE_PASSIVE", dec 1);
    ("IW_SCAN_MAX_DATA", dec 4096); ("IW_SCAN_CAPA_NONE", hex 0x00);
    ("IW_SCAN_CAPA_ESSID", hex 0x01); ("IW_SCAN_CAPA_BSSID", hex 0x02);
    ("IW_SCAN_CAPA_CHANNEL", hex 0x04); ("IW_SCAN_CAPA_MODE", hex 0x08);
    ("IW_SCAN_CAPA_RATE", hex 0x10); ("IW_SCAN_CAPA_TYPE", hex 0x20);
    ("IW_SCAN_CAPA_TIME", hex 0x40); ("IW_CUSTOM_MAX", dec 256); ("IW_GENERIC_IE_MAX", dec 1024);
    ("IW_MLME_DEAUTH", dec 0); ("IW_MLME_DISASSOC", dec 1); ("IW_MLME_AUTH", dec 2);
    ("IW_MLME_ASSOC", dec 3); ("IW_AUTH_INDEX", hex 0x0FFF); ("IW_AUTH_FLAGS", hex 0xF000)]].
Definition defs_IW_AUTH_WPA_VERSION : list decl := [
  Defines [
    ("IW_AUTH_WPA_VERSION", dec 0); ("IW_AUTH_CIPHER_PAIRWISE", dec 1);
    ("IW_AUTH_CIPHER_GROUP", dec 2); ("IW_AUTH_KEY_MGMT", dec 3);
    ("IW_AUTH_TKIP_COUNTERMEASURES", dec 4); ("IW_AUTH_DROP_UNENCRYPTED", dec 5);
    ("IW_AUTH_80211_AUTH_ALG", dec 6); ("IW_AUTH_WPA_ENABLED", dec 7);
    ("IW_AUTH_RX_UNENCRYPTED_EAPOL", dec 8); ("IW_AUTH_ROAMING_CONTROL", dec 9);
    ("IW_AUTH_PRIVACY_INVOKED", dec 10); ("IW_AUTH_CIPHER_GROUP_MGMT", dec 11);
    ("IW_AUTH_MFP", dec 12); ("IW_AUTH_WPA_VERSION_DISABLED", hex 0x00000001);
    ("IW_AUTH_WPA_VERSION_WPA", hex 0x00000002); ("IW_AUTH_WPA_VERSION_WPA2", hex 0x00000004);
    ("IW_AUTH_CIPHER_NONE", hex 0x00000001); ("IW_AUTH_CIPHER_WEP40", hex 0x00000002);
    ("IW_AUTH_CIPHER_TKIP", hex 0x00000004); ("IW_AUTH_CIPHER_CCMP", hex 0x00000008);
    ("IW_AUTH_CIPHER_WEP104", hex 0x00000010); ("IW_AUTH_CIPHER_AES_CMAC", hex 0x00000020);
    ("IW_AUTH_KEY_MGMT_802_1X", dec 1); ("IW_AUTH_KEY_MGMT_PSK", dec 2);
    ("IW_AUTH_ALG_OPEN_SYSTEM", hex 0x00000001); ("IW_AUTH_ALG_SHARED_KEY", hex 0x00000002);
    ("IW_AUTH_ALG_LEAP", hex 0x00000004); ("IW_AUTH_ROAMING_ENABLE", dec 0);
    ("IW_AUTH_ROAMING_DISABLE", dec 1); ("IW_AUTH_MFP_DISABLED", dec 0);
    ("IW_AUTH_MFP_OPTIONAL", dec 1); ("IW_AUTH_MFP_REQUIRED", dec 2);
    ("IW_ENCODE_SEQ_MAX_SIZE", dec 8); ("IW_ENCODE_ALG_NONE", dec 0);
    ("IW_ENCODE_ALG_WEP", dec 1); ("IW_ENCODE_ALG_TKIP", dec 2); ("IW_ENCODE_ALG_CCMP", dec 3);
    ("IW_ENCODE_ALG_PMK", dec 4); ("IW_ENCODE_ALG_AES_CMAC", dec 5);
    ("IW_ENCODE_EXT_TX_SEQ_VALID", hex 0x00000001);
    ("IW_ENCODE_EXT_RX_SEQ_VALID", hex 0x00000002); ("IW_ENCODE_EXT_GROUP_KEY", hex 0x00000004);
    ("IW_ENCODE_EXT_SET_TX_KEY", hex 0x00000008); ("IW_MICFAILURE_KEY_ID", hex 0x00000003);
    ("IW_MICFAILURE_GROUP", hex 0x00000004); ("IW_MICFAILURE_PAIRWISE", hex 0x00000008);
    ("IW_MICFAILURE_STAKEY", hex 0x00000010); ("IW_MICFAILURE_COUNT", hex 0x00000060);
    ("IW_ENC_CAPA_WPA", hex 0x00000001); ("IW_ENC_CAPA_WPA2", hex 0x00000002);
    ("IW_ENC_CAPA_CIPHER_TKIP", hex 0x00000004); ("IW_ENC_CAPA_CIPHER_CCMP", hex 0x00000008);
    ("IW_ENC_CAPA_4WAY_HANDSHAKE", hex 0x00000010)]].
Definition defs_IW_PMKSA_ADD : list decl := [
  Defines [
    ("IW_PMKSA_ADD", dec 1); ("IW_PMKSA_REMOVE", dec 2); ("IW_PMKSA_FLUSH", dec 3);
    ("IW_PMKID_LEN", dec 16)]].
Definition header : header :=
  Header "linux/wireless.h" [] (concat [
    defs_SIOCSIWNWID; defs_IWEVTXDROP; defs_IW_PRIV_TYPE_MASK; defs_IW_MAX_SPY;
    defs_IW_AUTH_WPA_VERSION; defs_IW_PMKSA_ADD]).
End Wireless.

(** ** [linux/x25.h] *)

Module X25.
Definition defs_SIOCX25GSUBSCRIP : list decl := [
  Defines [
    ("SIOCX25GSUBSCRIP", Add (Id "SIOCPROTOPRIVATE") (dec 0));
    ("SIOCX25SSUBSCRIP", Add (Id "SIOCPROTOPRIVATE") (dec 1));
    ("SIOCX25GFACILITIES", Add (Id "SIOCPROTOPRIVATE") (dec 2));
    ("SIOCX25SFACILITIES", Add (Id "SIOCPROTOPRIVATE") (dec 3));
    ("SIOCX25GCALLUSERDATA", Add (Id "SIOCPROTOPRIVATE") (dec 4));
    ("SIOCX25SCALLUSERDATA", Add (Id "SIOCPROTOPRIVATE") (dec 5));
    ("SIOCX25GCAUSEDIAG", Add (Id "SIOCPROTOPRIVATE") (dec 6));
    ("SIOCX25SCUDMATCHLEN", Add (Id "SIOCPROTOPRIVATE") (dec 7));
    ("SIOCX25CALLACCPTAPPRV", Add (Id "SIOCPROTOPRIVATE") (dec 8));
    ("SIOCX25SENDCALLACCPT", Add (Id "SIOCPROTOPRIVATE") (dec 9));
    ("SIOCX25GDTEFACILITIES", Add (Id "SIOCPROTOPRIVATE") (dec 10));
    ("SIOCX25SDTEFACILITIES", Add (Id "SIOCPROTOPRIVATE") (dec 11));
    ("SIOCX25SCAUSEDIAG", Add (Id "SIOCPROTOPRIVATE") (dec 12))]].
Definition defs_X25_PS16 : list decl := [
  Defines [
    ("X25_PS16", dec 4); ("X25_PS32", dec 5); ("X25_PS64", dec 6); ("X25_PS128", dec 7);
    ("X25_PS256", dec 8); ("X25_PS512", dec 9); ("X25_PS1024", dec 10); ("X25_PS2048", dec 11);
    ("X25_PS4096", dec 12)]].
Definition defs_X25_MASK_REVERSE : list decl := [
  Defines [
    ("X25_MASK_REVERSE", hex 0x01); ("X25_MASK_THROUGHPUT", hex 0x02);
    ("X25_MASK_PACKET_SIZE", hex 0x04); ("X25_MASK_WINDOW_SIZE", hex 0x08);
    ("X25_MASK_CALLING_AE", hex 0x10); ("X25_MASK_CALLED_AE", hex 0x20)]].
Definition header : header :=
  Header "linux/x25.h" [Sockios.header] (concat [
    defs_SIOCX25GSUBSCRIP; defs_X25_PS16; defs_X25_MASK_REVERSE]).
End X25.

(** ** [rdma/hfi/hfi1_user.h] *)

Module Rdma_hfi_hfi1_user.
Definition defs_HFI1_CAP_DMA_RTAIL : list decl := [
  Defines [
    ("HFI1_CAP_DMA_RTAIL", Shl (decUL 1) (dec 0)); ("HFI1_CAP_SDMA", Shl (decUL 1) (dec 1));
    ("HFI1_CAP_SDMA_AHG", Shl (decUL 1) (dec 2));
    ("HFI1_CAP_EXTENDED_PSN", Shl (decUL 1) (dec 3));
    ("HFI1_CAP_HDRSUPP", Shl (decUL 1) (dec 4));
    ("HFI1_CAP_USE_SDMA_HEAD", Shl (decUL 1) (dec 6));
    ("HFI1_CAP_MULTI_PKT_EGR", Shl (decUL 1) (dec 7));
    ("HFI1_CAP_NODROP_RHQ_FULL", Shl (decUL 1) (dec 8));
    ("HFI1_CAP_NODROP_EGR_FULL", Shl (decUL 1) (dec 9));
    ("HFI1_CAP_TID_UNMAP", Shl (decUL 1) (dec 10));
    ("HFI1_CAP_PRINT_UNIMPL", Shl (decUL 1) (dec 11));
    ("HFI1_CAP_ALLOW_PERM_JKEY", Shl (decUL 1) (dec 12));
    ("HFI1_CAP_NO_INTEGRITY", Shl (decUL 1) (dec 13));
    ("HFI1_CAP_PKEY_CHECK", Shl (decUL 1) (dec 14));
    ("HFI1_CAP_STATIC_RATE_CTRL", Shl (decUL 1) (dec 15));
    ("HFI1_CAP_SDMA_HEAD_CHECK", Shl (decUL 1) (dec 17));
    ("HFI1_CAP_EARLY_CREDIT_RETURN", Shl (decUL 1) (dec 18));
    ("HFI1_RCVHDR_ENTSIZE_2", Shl (decUL 1) (dec 0));
    ("HFI1_RCVHDR_ENTSIZE_16", Shl (decUL 1) (dec 1));
    ("HFI1_RCVDHR_ENTSIZE_32", Shl (decUL 1) (dec 2))];
  Defines [
    ("HFI1_ALG_ACROSS", dec 0); ("HFI1_ALG_WITHIN", dec 1); ("HFI1_ALG_COUNT", dec 2);
    ("HFI1_CMD_ASSIGN_CTXT", dec 1); ("HFI1_CMD_CTXT_INFO", dec 2);
    ("HFI1_CMD_USER_INFO", dec 3); ("HFI1_CMD_TID_UPDATE", dec 4); ("HFI1_CMD_TID_FREE", dec 5);
    ("HFI1_CMD_CREDIT_UPD", dec 6); ("HFI1_CMD_SDMA_STATUS_UPD", dec 7);
    ("HFI1_CMD_RECV_CTRL", dec 8); ("HFI1_CMD_POLL_TYPE", dec 9); ("HFI1_CMD_ACK_EVENT", dec 10);
    ("HFI1_CMD_SET_PKEY", dec 11); ("HFI1_CMD_CTXT_RESET", dec 12); ("HFI1_CMD_EP_INFO", dec 64);
    ("HFI1_CMD_EP_ERASE_CHIP", dec 65); ("HFI1_CMD_EP_ERASE_P0", dec 66);
    ("HFI1_CMD_EP_ERASE_P1", dec 67); ("HFI1_CMD_EP_READ_P0", dec 68);
    ("HFI1_CMD_EP_READ_P1", dec 69); ("HFI1_CMD_EP_WRITE_P0", dec 70);
    ("HFI1_CMD_EP_WRITE_P1", dec 71); ("_HFI1_EVENT_FROZEN_BIT", dec 0);
    ("_HFI1_EVENT_LINKDOWN_BIT", dec 1); ("_HFI1_EVENT_LID_CHANGE_BIT", dec 2);
    ("_HFI1_EVENT_LMC_CHANGE_BIT", dec 3); ("_HFI1_EVENT_SL2VL_CHANGE_BIT", dec 4);
    ("_HFI1_MAX_EVENT_BIT", Id "_HFI1_EVENT_SL2VL_CHANGE_BIT");
    ("HFI1_EVENT_FROZEN", Shl (decUL 1) (Id "_HFI1_EVENT_FROZEN_BIT"));
    ("HFI1_EVENT_LINKDOWN_BIT", Shl (decUL 1) (Id "_HFI1_EVENT_LINKDOWN_BIT"));
    ("HFI1_EVENT_LID_CHANGE_BIT", Shl (decUL 1) (Id "_HFI1_EVENT_LID_CHANGE_BIT"));
    ("HFI1_EVENT_LMC_CHANGE_BIT", Shl (decUL 1) (Id "_HFI1_EVENT_LMC_CHANGE_BIT"));
    ("HFI1_EVENT_SL2VL_CHANGE_BIT", Shl (decUL 1) (Id "_HFI1_EVENT_SL2VL_CHANGE_BIT"))];
  Defines [
    ("HFI1_STATUS_INITTED", hex 0x1); ("HFI1_STATUS_CHIP_PRESENT", hex 0x20);
    ("HFI1_STATUS_IB_READY", hex 0x40); ("HFI1_STATUS_IB_CONF", hex 0x80);
    ("HFI1_STATUS_HWERROR", hex 0x200)]].
Definition enum_hfi1_sdma_comp_state : list decl := [
  Enum [
    ("FREE", Some (dec 0)); ("QUEUED", None); ("COMPLETE", None); ("ERROR", None)]].
Definition defs_HFI1_SDMA_REQ_VERSION_MASK : list decl := [
  Defines [
    ("HFI1_SDMA_REQ_VERSION_MASK", hex 0xF); ("HFI1_SDMA_REQ_VERSION_SHIFT", hex 0x0);
    ("HFI1_SDMA_REQ_OPCODE_MASK", hex 0xF); ("HFI1_SDMA_REQ_OPCODE_SHIFT", hex 0x4);
    ("HFI1_SDMA_REQ_IOVCNT_MASK", hex 0xFF); ("HFI1_SDMA_REQ_IOVCNT_SHIFT", hex 0x8)]].
Definition enum_hfi1_ureg : list decl := [
  Enum [
    ("ur_rcvhdrtail", Some (dec 0)); ("ur_rcvhdrhead", Some (dec 1));
    ("ur_rcvegrindextail", Some (dec 2)); ("ur_rcvegrindexhead", Some (dec 3));
    ("ur_rcvegroffsettail", Some (dec 4)); ("ur_maxreg", None);
    ("ur_rcvtidflowtable", Some (dec 256))]].
Definition header : header :=
  Header "rdma/hfi/hfi1_user.h" [] (concat [
    defs_HFI1_CAP_DMA_RTAIL; enum_hfi1_sdma_comp_state; defs_HFI1_SDMA_REQ_VERSION_MASK;
    enum_hfi1_ureg]).
End Rdma_hfi_hfi1_user.

(** ** [rdma/ib_user_cm.h] *)

Module Rdma_ib_user_cm.
Definition enum_IB_USER_CM_CMD_CREATE_ID : list decl := [
  Enum [
    ("IB_USER_CM_CMD_CREATE_ID", None); ("IB_USER_CM_CMD_DESTROY_ID", None);
    ("IB_USER_CM_CMD_ATTR_ID", None); ("IB_USER_CM_CMD_LISTEN", None);
    ("IB_USER_CM_CMD_NOTIFY", None); ("IB_USER_CM_CMD_SEND_REQ", None);
    ("IB_USER_CM_CMD_SEND_REP", None); ("IB_USER_CM_CMD_SEND_RTU", None);
    ("IB_USER_CM_CMD_SEND_DREQ", None); ("IB_USER_CM_CMD_SEND_DREP", None);
    ("IB_USER_CM_CMD_SEND_REJ", None); ("IB_USER_CM_CMD_SEND_MRA", None);
    ("IB_USER_CM_CMD_SEND_LAP", None); ("IB_USER_CM_CMD_SEND_APR", None);
    ("IB_USER_CM_CMD_SEND_SIDR_REQ", None); ("IB_USER_CM_CMD_SEND_SIDR_REP", None);
    ("IB_USER_CM_CMD_EVENT", None); ("IB_USER_CM_CMD_INIT_QP_ATTR", None)]].
Definition defs_IB_UCM_PRES_DATA : list decl := [
  Defines [
    ("IB_UCM_PRES_DATA", hex 0x01); ("IB_UCM_PRES_INFO", hex 0x02);
    ("IB_UCM_PRES_PRIMARY", hex 0x04); ("IB_UCM_PRES_ALTERNATE", hex 0x08)]].
Definition header : header :=
  Header "rdma/ib_user_cm.h" [] (concat [
    enum_IB_USER_CM_CMD_CREATE_ID; defs_IB_UCM_PRES_DATA]).
End Rdma_ib_user_cm.

(** ** [rdma/ib_user_sa.h] *)

Module Rdma_ib_user_sa.
Definition enum_IB_PATH_GMP : list decl := [
  Enum [
    ("IB_PATH_GMP", Some (dec 1)); ("IB_PATH_PRIMARY", Some (Shl (dec 1) (dec 1)));
    ("IB_PATH_ALTERNATE", Some (Shl (dec 1) (dec 2)));
    ("IB_PATH_OUTBOUND", Some (Shl (dec 1) (dec 3)));
    ("IB_PATH_INBOUND", Some (Shl (dec 1) (dec 4)));
    ("IB_PATH_INBOUND_REVERSE", Some (Shl (dec 1) (dec 5)));
    ("IB_PATH_BIDIRECTIONAL", Some (Or (Id "IB_PATH_OUTBOUND") (Id "IB_PATH_INBOUND_REVERSE")))]].
Definition header : header :=
  Header "rdma/ib_user_sa.h" [] (concat [
    enum_IB_PATH_GMP]).
End Rdma_ib_user_sa.

(** ** [rdma/ib_user_verbs.h] *)

Module Rdma_ib_user_verbs.
Definition defs_IB_USER_VERBS_ABI_VERSION : list decl := [
  Defines [
    ("IB_USER_VERBS_ABI_VERSION", dec 6); ("IB_USER_VERBS_CMD_THRESHOLD", dec 50)];
  Enum [
    ("IB_USER_VERBS_CMD_GET_CONTEXT", None); ("IB_USER_VERBS_CMD_QUERY_DEVICE", None);
    ("IB_USER_VERBS_CMD_QUERY_PORT", None); ("IB_USER_VERBS_CMD_ALLOC_PD", None);
    ("IB_USER_VERBS_CMD_DEALLOC_PD", None); ("IB_USER_VERBS_CMD_CREATE_AH", None);
    ("IB_USER_VERBS_CMD_MODIFY_AH", None); ("IB_USER_VERBS_CMD_QUERY_AH", None);
    ("IB_USER_VERBS_CMD_DESTROY_AH", None); ("IB_USER_VERBS_CMD_REG_MR", None);
    ("IB_USER_VERBS_CMD_REG_SMR", None); ("IB_USER_VERBS_CMD_REREG_MR", None);
    ("IB_USER_VERBS_CMD_QUERY_MR", None); ("IB_USER_VERBS_CMD_DEREG_MR", None);
    ("IB_USER_VERBS_CMD_ALLOC_MW", None); ("IB_USER_VERBS_CMD_BIND_MW", None);
    ("IB_USER_VERBS_CMD_DEALLOC_MW", None); ("IB_USER_VERBS_CMD_CREATE_COMP_CHANNEL", None);
    ("IB_USER_VERBS_CMD_CREATE_CQ", None); ("IB_USER_VERBS_CMD_RESIZE_CQ", None);
    ("IB_USER_VERBS_CMD_DESTROY_CQ", None); ("IB_USER_VERBS_CMD_POLL_CQ", None);
    ("IB_USER_VERBS_CMD_PEEK_CQ", None); ("IB_USER_VERBS_CMD_REQ_NOTIFY_CQ", None);
    ("IB_USER_VERBS_CMD_CREATE_QP", None); ("IB_USER_VERBS_CMD_QUERY_QP", None);
    ("IB_USER_VERBS_CMD_MODIFY_QP", None); ("IB_USER_VERBS_CMD_DESTROY_QP", None);
    ("IB_USER_VERBS_CMD_POST_SEND", None); ("IB_USER_VERBS_CMD_POST_RECV", None);
    ("IB_USER_VERBS_CMD_ATTACH_MCAST", None); ("IB_USER_VERBS_CMD_DETACH_MCAST", None);
    ("IB_USER_VERBS_CMD_CREATE_SRQ", None); ("IB_USER_VERBS_CMD_MODIFY_SRQ", None);
    ("IB_USER_VERBS_CMD_QUERY_SRQ", None); ("IB_USER_VERBS_CMD_DESTROY_SRQ", None);
    ("IB_USER_VERBS_CMD_POST_SRQ_RECV", None); ("IB_USER_VERBS_CMD_OPEN_XRCD", None);
    ("IB_USER_VERBS_CMD_CLOSE_XRCD", None); ("IB_USER_VERBS_CMD_CREATE_XSRQ", None);
    ("IB_USER_VERBS_CMD_OPEN_QP", None)];
  Enum [
    ("IB_USER_VERBS_EX_CMD_QUERY_DEVICE", Some (Id "IB_USER_VERBS_CMD_QUERY_DEVICE"));
    ("IB_USER_VERBS_EX_CMD_CREATE_CQ", Some (Id "IB_USER_VERBS_CMD_CREATE_CQ"));
    ("IB_USER_VERBS_EX_CMD_CREATE_QP", Some (Id "IB_USER_VERBS_CMD_CREATE_QP"));
    ("IB_USER_VERBS_EX_CMD_CREATE_FLOW", Some (Id "IB_USER_VERBS_CMD_THRESHOLD"));
    ("IB_USER_VERBS_EX_CMD_DESTROY_FLOW", None)]].
Definition defs_IB_USER_VERBS_CMD_COMMAND_MASK : list decl := [
  Defines [
    ("IB_USER_VERBS_CMD_COMMAND_MASK", hex 0xff);
    ("IB_USER_VERBS_CMD_FLAGS_MASK", hexU 0xff000000); ("IB_USER_VERBS_CMD_FLAGS_SHIFT", dec 24);
    ("IB_USER_VERBS_CMD_FLAG_EXTENDED", hex 0x80)]].
Definition header : header :=
  Header "rdma/ib_user_verbs.h" [] (concat [
    defs_IB_USER_VERBS_ABI_VERSION; defs_IB_USER_VERBS_CMD_COMMAND_MASK]).
End Rdma_ib_user_verbs.

(** ** [rdma/rdma_netlink.h] *)

Module Rdma_rdma_netlink.
Definition enum_RDMA_NL_RDMA_CM : list decl := [
  Enum [
    ("RDMA_NL_RDMA_CM", Some (dec 1)); ("RDMA_NL_NES", None); ("RDMA_NL_C4IW", None);
    ("RDMA_NL_LS", None); ("RDMA_NL_NUM_CLIENTS", None)];
  Enum [
    ("RDMA_NL_GROUP_CM", Some (dec 1)); ("RDMA_NL_GROUP_IWPM", None); ("RDMA_NL_GROUP_LS", None);
    ("RDMA_NL_NUM_GROUPS", None)]].
Definition enum_RDMA_NL_RDMA_CM_ATTR_SRC_ADDR : list decl := [
  Enum [
    ("RDMA_NL_RDMA_CM_ATTR_SRC_ADDR", Some (dec 1)); ("RDMA_NL_RDMA_CM_ATTR_DST_ADDR", None);
    ("RDMA_NL_RDMA_CM_NUM_ATTR", None)];
  Enum [
    ("RDMA_NL_IWPM_REG_PID", Some (dec 0)); ("RDMA_NL_IWPM_ADD_MAPPING", None);
    ("RDMA_NL_IWPM_QUERY_MAPPING", None); ("RDMA_NL_IWPM_REMOVE_MAPPING", None);
    ("RDMA_NL_IWPM_REMOTE_INFO", None); ("RDMA_NL_IWPM_HANDLE_ERR", None);
    ("RDMA_NL_IWPM_MAPINFO", None); ("RDMA_NL_IWPM_MAPINFO_NUM", None);
    ("RDMA_NL_IWPM_NUM_OPS", None)]].
Definition enum_IWPM_NLA_REG_PID_UNSPEC : list decl := [
  Enum [
    ("IWPM_NLA_REG_PID_UNSPEC", Some (dec 0)); ("IWPM_NLA_REG_PID_SEQ", None);
    ("IWPM_NLA_REG_IF_NAME", None); ("IWPM_NLA_REG_IBDEV_NAME", None);
    ("IWPM_NLA_REG_ULIB_NAME", None); ("IWPM_NLA_REG_PID_MAX", None)];
  Enum [
    ("IWPM_NLA_RREG_PID_UNSPEC", Some (dec 0)); ("IWPM_NLA_RREG_PID_SEQ", None);
    ("IWPM_NLA_RREG_IBDEV_NAME", None); ("IWPM_NLA_RREG_ULIB_NAME", None);
    ("IWPM_NLA_RREG_ULIB_VER", None); ("IWPM_NLA_RREG_PID_ERR", None);
    ("IWPM_NLA_RREG_PID_MAX", None)];
  Enum [
    ("IWPM_NLA_MANAGE_MAPPING_UNSPEC", Some (dec 0)); ("IWPM_NLA_MANAGE_MAPPING_SEQ", None);
    ("IWPM_NLA_MANAGE_ADDR", None); ("IWPM_NLA_MANAGE_MAPPED_LOC_ADDR", None);
    ("IWPM_NLA_RMANAGE_MAPPING_ERR", None); ("IWPM_NLA_RMANAGE_MAPPING_MAX", None)];
  Defines [
    ("IWPM_NLA_MANAGE_MAPPING_MAX", dec 3); ("IWPM_NLA_QUERY_MAPPING_MAX", dec 4);
    ("IWPM_NLA_MAPINFO_SEND_MAX", dec 3)];
  Enum [
    ("IWPM_NLA_QUERY_MAPPING_UNSPEC", Some (dec 0)); ("IWPM_NLA_QUERY_MAPPING_SEQ", None);
    ("IWPM_NLA_QUERY_LOCAL_ADDR", None); ("IWPM_NLA_QUERY_REMOTE_ADDR", None);
    ("IWPM_NLA_RQUERY_MAPPED_LOC_ADDR", None); ("IWPM_NLA_RQUERY_MAPPED_REM_ADDR", None);
    ("IWPM_NLA_RQUERY_MAPPING_ERR", None); ("IWPM_NLA_RQUERY_MAPPING_MAX", None)];
  Enum [
    ("IWPM_NLA_MAPINFO_REQ_UNSPEC", Some (dec 0)); ("IWPM_NLA_MAPINFO_ULIB_NAME", None);
    ("IWPM_NLA_MAPINFO_ULIB_VER", None); ("IWPM_NLA_MAPINFO_REQ_MAX", None)];
  Enum [
    ("IWPM_NLA_MAPINFO_UNSPEC", Some (dec 0)); ("IWPM_NLA_MAPINFO_LOCAL_ADDR", None);
    ("IWPM_NLA_MAPINFO_MAPPED_ADDR", None); ("IWPM_NLA_MAPINFO_MAX", None)];
  Enum [
    ("IWPM_NLA_MAPINFO_NUM_UNSPEC", Some (dec 0)); ("IWPM_NLA_MAPINFO_SEQ", None);
    ("IWPM_NLA_MAPINFO_SEND_NUM", None); ("IWPM_NLA_MAPINFO_ACK_NUM", None);
    ("IWPM_NLA_MAPINFO_NUM_MAX", None)];
  Enum [
    ("IWPM_NLA_ERR_UNSPEC", Some (dec 0)); ("IWPM_NLA_ERR_SEQ", None);
    ("IWPM_NLA_ERR_CODE", None); ("IWPM_NLA_ERR_MAX", None)];
  Enum [
    ("RDMA_NL_LS_OP_RESOLVE", Some (dec 0)); ("RDMA_NL_LS_OP_SET_TIMEOUT", None);
    ("RDMA_NL_LS_NUM_OPS", None)];
  Defines [
    ("RDMA_NL_LS_F_ERR", hex 0x0100)];
  Enum [
    ("LS_RESOLVE_PATH_USE_ALL", Some (dec 0)); ("LS_RESOLVE_PATH_USE_UNIDIRECTIONAL", None);
    ("LS_RESOLVE_PATH_USE_GMP", None); ("LS_RESOLVE_PATH_USE_MAX", None)];
  Defines [
    ("LS_DEVICE_NAME_MAX", dec 64)]].
Definition enum_LS_NLA_TYPE_UNSPEC : list decl := [
  Enum [
    ("LS_NLA_TYPE_UNSPEC", Some (dec 0)); ("LS_NLA_TYPE_PATH_RECORD", None);
    ("LS_NLA_TYPE_TIMEOUT", None); ("LS_NLA_TYPE_SERVICE_ID", None); ("LS_NLA_TYPE_DGID", None);
    ("LS_NLA_TYPE_SGID", None); ("LS_NLA_TYPE_TCLASS", None); ("LS_NLA_TYPE_PKEY", None);
    ("LS_NLA_TYPE_QOS_CLASS", None); ("LS_NLA_TYPE_MAX", None)]].
Definition header : header :=
  Header "rdma/rdma_netlink.h" [] (concat [
    enum_RDMA_NL_RDMA_CM; enum_RDMA_NL_RDMA_CM_ATTR_SRC_ADDR; enum_IWPM_NLA_REG_PID_UNSPEC;
    enum_LS_NLA_TYPE_UNSPEC]).
End Rdma_rdma_netlink.

(** ** [rdma/rdma_user_cm.h] *)

Module Rdma_rdma_user_cm.
Definition enum_RDMA_USER_CM_CMD_CREATE_ID : list decl := [
  Enum [
    ("RDMA_USER_CM_CMD_CREATE_ID", None); ("RDMA_USER_CM_CMD_DESTROY_ID", None);
    ("RDMA_USER_CM_CMD_BIND_IP", None); ("RDMA_USER_CM_CMD_RESOLVE_IP", None);
    ("RDMA_USER_CM_CMD_RESOLVE_ROUTE", None); ("RDMA_USER_CM_CMD_QUERY_ROUTE", None);
    ("RDMA_USER_CM_CMD_CONNECT", None); ("RDMA_USER_CM_CMD_LISTEN", None);
    ("RDMA_USER_CM_CMD_ACCEPT", None); ("RDMA_USER_CM_CMD_REJECT", None);
    ("RDMA_USER_CM_CMD_DISCONNECT", None); ("RDMA_USER_CM_CMD_INIT_QP_ATTR", None);
    ("RDMA_USER_CM_CMD_GET_EVENT", None); ("RDMA_USER_CM_CMD_GET_OPTION", None);
    ("RDMA_USER_CM_CMD_SET_OPTION", None); ("RDMA_USER_CM_CMD_NOTIFY", None);
    ("RDMA_USER_CM_CMD_JOIN_IP_MCAST", None); ("RDMA_USER_CM_CMD_LEAVE_MCAST", None);
    ("RDMA_USER_CM_CMD_MIGRATE_ID", None); ("RDMA_USER_CM_CMD_QUERY", None);
    ("RDMA_USER_CM_CMD_BIND", None); ("RDMA_USER_CM_CMD_RESOLVE_ADDR", None);
    ("RDMA_USER_CM_CMD_JOIN_MCAST", None)]].
Definition enum_RDMA_USER_CM_QUERY_ADDR : list decl := [
  Enum [
    ("RDMA_USER_CM_QUERY_ADDR", None); ("RDMA_USER_CM_QUERY_PATH", None);
    ("RDMA_USER_CM_QUERY_GID", None)]].
Definition enum_RDMA_OPTION_ID_TOS : list decl := [
  Enum [
    ("RDMA_OPTION_ID_TOS", Some (dec 0)); ("RDMA_OPTION_ID_REUSEADDR", Some (dec 1));
    ("RDMA_OPTION_ID_AFONLY", Some (dec 2)); ("RDMA_OPTION_IB_PATH", Some (dec 1))]].
Definition header : header :=
  Header "rdma/rdma_user_cm.h" [] (concat [
    enum_RDMA_USER_CM_CMD_CREATE_ID; enum_RDMA_USER_CM_QUERY_ADDR; enum_RDMA_OPTION_ID_TOS]).
End Rdma_rdma_user_cm.
