(* ===== verification/ConstStorage.v ===== *)
(** * Constants of file systems and storage

    Macros and enumerations of these headers of [kernel-headers], one module per
    header: each table holds the consecutive definitions of one place. *)
From S2P Require Import Prelude.
From S2P Require Import CConst.
From S2P Require Import ConstBase.
#[local] Open Scope string_scope.

(** ** [linux/auto_fs4.h] *)

Module Auto_fs4.
Definition defs_AUTOFS_PROTO_VERSION : list decl := [
  Defines [
    ("AUTOFS_PROTO_VERSION", dec 5); ("AUTOFS_MIN_PROTO_VERSION", dec 3);
    ("AUTOFS_MAX_PROTO_VERSION", dec 5); ("AUTOFS_PROTO_SUBVERSION", dec 2);
    ("AUTOFS_EXP_IMMEDIATE", dec 1); ("AUTOFS_EXP_LEAVES", dec 2); ("AUTOFS_TYPE_ANY", decU 0);
    ("AUTOFS_TYPE_INDIRECT", decU 1); ("AUTOFS_TYPE_DIRECT", decU 2);
    ("AUTOFS_TYPE_OFFSET", decU 4)]].
Definition enum_autofs_notify : list decl := [
  Enum [
    ("NFY_NONE", None); ("NFY_MOUNT", None); ("NFY_EXPIRE", None)]].
Definition defs_autofs_ptype_missing_indirect : list decl := [
  Defines [
    ("autofs_ptype_missing_indirect", dec 3); ("autofs_ptype_expire_indirect", dec 4);
    ("autofs_ptype_missing_direct", dec 5); ("autofs_ptype_expire_direct", dec 6)]].
Definition header : header :=
  Header "linux/auto_fs4.h" [] (concat [
    defs_AUTOFS_PROTO_VERSION; enum_autofs_notify; defs_autofs_ptype_missing_indirect]).
End Auto_fs4.

(** ** [linux/blkpg.h] *)

Module Blkpg.
Definition defs_BLKPG_ADD_PARTITION : list decl := [
  Defines [
    ("BLKPG_ADD_PARTITION", dec 1); ("BLKPG_DEL_PARTITION", dec 2);
    ("BLKPG_RESIZE_PARTITION", dec 3); ("BLKPG_DEVNAMELTH", dec 64); ("BLKPG_VOLNAMELTH", dec 64)]].
Definition header : header :=
  Header "linux/blkpg.h" [] (concat [
    defs_BLKPG_ADD_PARTITION]).
End Blkpg.

(** ** [linux/blktrace_api.h] *)

Module Blktrace_api.
Definition enum_blktrace_cat : list decl := [
  Enum [
    ("BLK_TC_READ", Some (Shl (dec 1) (dec 0))); ("BLK_TC_WRITE", Some (Shl (dec 1) (dec 1)));
    ("BLK_TC_FLUSH", Some (Shl (dec 1) (dec 2))); ("BLK_TC_SYNC", Some (Shl (dec 1) (dec 3)));
    ("BLK_TC_SYNCIO", Some (Id "BLK_TC_SYNC")); ("BLK_TC_QUEUE", Some (Shl (dec 1) (dec 4)));
    ("BLK_TC_REQUEUE", Some (Shl (dec 1) (dec 5))); ("BLK_TC_ISSUE", Some (Shl (dec 1) (dec 6)));
    ("BLK_TC_COMPLETE", Some (Shl (dec 1) (dec 7))); ("BLK_TC_FS", Some (Shl (dec 1) (dec 8)));
    ("BLK_TC_PC", Some (Shl (dec 1) (dec 9))); ("BLK_TC_NOTIFY", Some (Shl (dec 1) (dec 10)));
    ("BLK_TC_AHEAD", Some (Shl (dec 1) (dec 11))); ("BLK_TC_META", Some (Shl (dec 1) (dec 12)));
    ("BLK_TC_DISCARD", Some (Shl (dec 1) (dec 13)));
    ("BLK_TC_DRV_DATA", Some (Shl (dec 1) (dec 14)));
    ("BLK_TC_FUA", Some (Shl (dec 1) (dec 15))); ("BLK_TC_END", Some (Shl (dec 1) (dec 15)))];
  Defines [
    ("BLK_TC_SHIFT", dec 16)];
  Define_fun "BLK_TC_ACT" ["act"] (Shl (Id "act") (Id "BLK_TC_SHIFT"));
  Enum [
    ("__BLK_TA_QUEUE", Some (dec 1)); ("__BLK_TA_BACKMERGE", None);
    ("__BLK_TA_FRONTMERGE", None); ("__BLK_TA_GETRQ", None); ("__BLK_TA_SLEEPRQ", None);
    ("__BLK_TA_REQUEUE", None); ("__BLK_TA_ISSUE", None); ("__BLK_TA_COMPLETE", None);
    ("__BLK_TA_PLUG", None); ("__BLK_TA_UNPLUG_IO", None); ("__BLK_TA_UNPLUG_TIMER", None);
    ("__BLK_TA_INSERT", None); ("__BLK_TA_SPLIT", None); ("__BLK_TA_BOUNCE", None);
    ("__BLK_TA_REMAP", None); ("__BLK_TA_ABORT", None); ("__BLK_TA_DRV_DATA", None)];
  Enum [
    ("__BLK_TN_PROCESS", Some (dec 0)); ("__BLK_TN_TIMESTAMP", None); ("__BLK_TN_MESSAGE", None)];
  Defines [
    ("BLK_TA_QUEUE", Or (Id "__BLK_TA_QUEUE") (App "BLK_TC_ACT" [Id "BLK_TC_QUEUE"]));
    ("BLK_TA_BACKMERGE", Or (Id "__BLK_TA_BACKMERGE") (App "BLK_TC_ACT" [Id "BLK_TC_QUEUE"]));
    ("BLK_TA_FRONTMERGE", Or (Id "__BLK_TA_FRONTMERGE") (App "BLK_TC_ACT" [Id "BLK_TC_QUEUE"]));
    ("BLK_TA_GETRQ", Or (Id "__BLK_TA_GETRQ") (App "BLK_TC_ACT" [Id "BLK_TC_QUEUE"]));
    ("BLK_TA_SLEEPRQ", Or (Id "__BLK_TA_SLEEPRQ") (App "BLK_TC_ACT" [Id "BLK_TC_QUEUE"]));
    ("BLK_TA_REQUEUE", Or (Id "__BLK_TA_REQUEUE") (App "BLK_TC_ACT" [Id "BLK_TC_REQUEUE"]));
    ("BLK_TA_ISSUE", Or (Id "__BLK_TA_ISSUE") (App "BLK_TC_ACT" [Id "BLK_TC_ISSUE"]));
    ("BLK_TA_COMPLETE", Or (Id "__BLK_TA_COMPLETE") (App "BLK_TC_ACT" [Id "BLK_TC_COMPLETE"]));
    ("BLK_TA_PLUG", Or (Id "__BLK_TA_PLUG") (App "BLK_TC_ACT" [Id "BLK_TC_QUEUE"]));
    ("BLK_TA_UNPLUG_IO", Or (Id "__BLK_TA_UNPLUG_IO") (App "BLK_TC_ACT" [Id "BLK_TC_QUEUE"]));
    ("BLK_TA_UNPLUG_TIMER", Or (Id "__BLK_TA_UNPLUG_TIMER") (App "BLK_TC_ACT" [Id "BLK_TC_QUEUE"]));
    ("BLK_TA_INSERT", Or (Id "__BLK_TA_INSERT") (App "BLK_TC_ACT" [Id "BLK_TC_QUEUE"]));
    ("BLK_TA_SPLIT", Id "__BLK_TA_SPLIT"); ("BLK_TA_BOUNCE", Id "__BLK_TA_BOUNCE");
    ("BLK_TA_REMAP", Or (Id "__BLK_TA_REMAP") (App "BLK_TC_ACT" [Id "BLK_TC_QUEUE"]));
    ("BLK_TA_ABORT", Or (Id "__BLK_TA_ABORT") (App "BLK_TC_ACT" [Id "BLK_TC_QUEUE"]));
    ("BLK_TA_DRV_DATA", Or (Id "__BLK_TA_DRV_DATA") (App "BLK_TC_ACT" [Id "BLK_TC_DRV_DATA"]));
    ("BLK_TN_PROCESS", Or (Id "__BLK_TN_PROCESS") (App "BLK_TC_ACT" [Id "BLK_TC_NOTIFY"]));
    ("BLK_TN_TIMESTAMP", Or (Id "__BLK_TN_TIMESTAMP") (App "BLK_TC_ACT" [Id "BLK_TC_NOTIFY"]));
    ("BLK_TN_MESSAGE", Or (Id "__BLK_TN_MESSAGE") (App "BLK_TC_ACT" [Id "BLK_TC_NOTIFY"]));
    ("BLK_IO_TRACE_MAGIC", hex 0x65617400); ("BLK_IO_TRACE_VERSION", hex 0x07)]].
Definition enum_Blktrace_setup : list decl := [
  Enum [
    ("Blktrace_setup", Some (dec 1)); ("Blktrace_running", None); ("Blktrace_stopped", None)];
  Defines [
    ("BLKTRACE_BDEV_SIZE", dec 32)]].
Definition header : header :=
  Header "linux/blktrace_api.h" [] (concat [
    enum_blktrace_cat; enum_Blktrace_setup]).
End Blktrace_api.

(** ** [linux/bsg.h] *)

Module Bsg.
Definition defs_BSG_PROTOCOL_SCSI : list decl := [
  Defines [
    ("BSG_PROTOCOL_SCSI", dec 0); ("BSG_SUB_PROTOCOL_SCSI_CMD", dec 0);
    ("BSG_SUB_PROTOCOL_SCSI_TMF", dec 1); ("BSG_SUB_PROTOCOL_SCSI_TRANSPORT", dec 2)]].
Definition header : header :=
  Header "linux/bsg.h" [] (concat [
    defs_BSG_PROTOCOL_SCSI]).
End Bsg.

(** ** [linux/btrfs.h] *)

Module Btrfs.
Definition defs_BTRFS_DEVICE_PATH_NAME_MAX : list decl := [
  Defines [
    ("BTRFS_DEVICE_PATH_NAME_MAX", dec 1024);
    ("BTRFS_SUBVOL_CREATE_ASYNC", Shl (decULL 1) (dec 0));
    ("BTRFS_SUBVOL_RDONLY", Shl (decULL 1) (dec 1));
    ("BTRFS_SUBVOL_QGROUP_INHERIT", Shl (decULL 1) (dec 2)); ("BTRFS_FSID_SIZE", dec 16);
    ("BTRFS_UUID_SIZE", dec 16); ("BTRFS_UUID_UNPARSED_SIZE", dec 37);
    ("BTRFS_QGROUP_INHERIT_SET_LIMITS", Shl (decULL 1) (dec 0))]].
Definition defs_BTRFS_IOCTL_DEV_REPLACE_STATE_NEVER_STARTED : list decl := [
  Defines [
    ("BTRFS_IOCTL_DEV_REPLACE_STATE_NEVER_STARTED", dec 0);
    ("BTRFS_IOCTL_DEV_REPLACE_STATE_STARTED", dec 1);
    ("BTRFS_IOCTL_DEV_REPLACE_STATE_FINISHED", dec 2);
    ("BTRFS_IOCTL_DEV_REPLACE_STATE_CANCELED", dec 3);
    ("BTRFS_IOCTL_DEV_REPLACE_STATE_SUSPENDED", dec 4)]].
Definition defs_BTRFS_IOCTL_DEV_REPLACE_CMD_START : list decl := [
  Defines [
    ("BTRFS_IOCTL_DEV_REPLACE_CMD_START", dec 0); ("BTRFS_IOCTL_DEV_REPLACE_CMD_STATUS", dec 1);
    ("BTRFS_IOCTL_DEV_REPLACE_CMD_CANCEL", dec 2);
    ("BTRFS_IOCTL_DEV_REPLACE_RESULT_NO_ERROR", dec 0);
    ("BTRFS_IOCTL_DEV_REPLACE_RESULT_NOT_STARTED", dec 1);
    ("BTRFS_IOCTL_DEV_REPLACE_RESULT_ALREADY_STARTED", dec 2);
    ("BTRFS_IOCTL_DEV_REPLACE_RESULT_SCRUB_INPROGRESS", dec 3)]].
Definition enum_btrfs_dev_stat_values : list decl := [
  Enum [
    ("BTRFS_DEV_STAT_WRITE_ERRS", None); ("BTRFS_DEV_STAT_READ_ERRS", None);
    ("BTRFS_DEV_STAT_FLUSH_ERRS", None); ("BTRFS_DEV_STAT_CORRUPTION_ERRS", None);
    ("BTRFS_DEV_STAT_GENERATION_ERRS", None); ("BTRFS_DEV_STAT_VALUES_MAX", None)];
  Defines [
    ("BTRFS_DEV_STATS_RESET", Shl (decULL 1) (dec 0))]].
Definition enum_btrfs_err_code : list decl := [
  Enum [
    ("BTRFS_ERROR_DEV_RAID1_MIN_NOT_MET", Some (dec 1));
    ("BTRFS_ERROR_DEV_RAID10_MIN_NOT_MET", None); ("BTRFS_ERROR_DEV_RAID5_MIN_NOT_MET", None);
    ("BTRFS_ERROR_DEV_RAID6_MIN_NOT_MET", None); ("BTRFS_ERROR_DEV_TGT_REPLACE", None);
    ("BTRFS_ERROR_DEV_MISSING_NOT_FOUND", None); ("BTRFS_ERROR_DEV_ONLY_WRITABLE", None);
    ("BTRFS_ERROR_DEV_EXCL_RUN_IN_PROGRESS", None)]].
Definition header : header :=
  Header "linux/btrfs.h" [] (concat [
    defs_BTRFS_DEVICE_PATH_NAME_MAX; defs_BTRFS_IOCTL_DEV_REPLACE_STATE_NEVER_STARTED;
    defs_BTRFS_IOCTL_DEV_REPLACE_CMD_START; enum_btrfs_dev_stat_values; enum_btrfs_err_code]).
End Btrfs.

(** ** [linux/cciss_defs.h] *)

Module Cciss_defs.
Definition defs_SENSEINFOBYTES : list decl := [
  Defines [
    ("SENSEINFOBYTES", dec 32); ("CMD_SUCCESS", hex 0x0000); ("CMD_TARGET_STATUS", hex 0x0001);
    ("CMD_DATA_UNDERRUN", hex 0x0002); ("CMD_DATA_OVERRUN", hex 0x0003);
    ("CMD_INVALID", hex 0x0004); ("CMD_PROTOCOL_ERR", hex 0x0005);
    ("CMD_HARDWARE_ERR", hex 0x0006); ("CMD_CONNECTION_LOST", hex 0x0007);
    ("CMD_ABORTED", hex 0x0008); ("CMD_ABORT_FAILED", hex 0x0009);
    ("CMD_UNSOLICITED_ABORT", hex 0x000A); ("CMD_TIMEOUT", hex 0x000B);
    ("CMD_UNABORTABLE", hex 0x000C); ("XFER_NONE", hex 0x00); ("XFER_WRITE", hex 0x01);
    ("XFER_READ", hex 0x02); ("XFER_RSVD", hex 0x03); ("ATTR_UNTAGGED", hex 0x00);
    ("ATTR_SIMPLE", hex 0x04); ("ATTR_HEADOFQUEUE", hex 0x05); ("ATTR_ORDERED", hex 0x06);
    ("ATTR_ACA", hex 0x07); ("TYPE_CMD", hex 0x00); ("TYPE_MSG", hex 0x01)]].
Definition header : header :=
  Header "linux/cciss_defs.h" [] (concat [
    defs_SENSEINFOBYTES]).
End Cciss_defs.

(** ** [linux/cciss_ioctl.h] *)

Module Cciss_ioctl.
Definition defs_CISS_PARSCSIU2 : list decl := [
  Defines [
    ("CISS_PARSCSIU2", hex 0x0001); ("CISS_PARCSCIU3", hex 0x0002); ("CISS_FIBRE1G", hex 0x0100);
    ("CISS_FIBRE2G", hex 0x0200)]].
Definition header : header :=
  Header "linux/cciss_ioctl.h" [] (concat [
    defs_CISS_PARSCSIU2]).
End Cciss_ioctl.

(** ** [linux/cdrom.h] *)

Module Cdrom.
Definition defs_CDROMPAUSE : list decl := [
  Defines [
    ("CDROMPAUSE", hex 0x5301); ("CDROMRESUME", hex 0x5302); ("CDROMPLAYMSF", hex 0x5303);
    ("CDROMPLAYTRKIND", hex 0x5304); ("CDROMREADTOCHDR", hex 0x5305);
    ("CDROMREADTOCENTRY", hex 0x5306); ("CDROMSTOP", hex 0x5307); ("CDROMSTART", hex 0x5308);
    ("CDROMEJECT", hex 0x5309); ("CDROMVOLCTRL", hex 0x530a); ("CDROMSUBCHNL", hex 0x530b);
    ("CDROMREADMODE2", hex 0x530c); ("CDROMREADMODE1", hex 0x530d);
    ("CDROMREADAUDIO", hex 0x530e); ("CDROMEJECT_SW", hex 0x530f);
    ("CDROMMULTISESSION", hex 0x5310); ("CDROM_GET_MCN", hex 0x5311);
    ("CDROM_GET_UPC", Id "CDROM_GET_MCN"); ("CDROMRESET", hex 0x5312);
    ("CDROMVOLREAD", hex 0x5313); ("CDROMREADRAW", hex 0x5314)]].
Definition defs_CDROMCLOSETRAY : list decl := [
  Defines [
    ("CDROMCLOSETRAY", hex 0x5319); ("CDROM_SET_OPTIONS", hex 0x5320);
    ("CDROM_CLEAR_OPTIONS", hex 0x5321); ("CDROM_SELECT_SPEED", hex 0x5322);
    ("CDROM_SELECT_DISC", hex 0x5323); ("CDROM_MEDIA_CHANGED", hex 0x5325);
    ("CDROM_DRIVE_STATUS", hex 0x5326); ("CDROM_DISC_STATUS", hex 0x5327);
    ("CDROM_CHANGER_NSLOTS", hex 0x5328); ("CDROM_LOCKDOOR", hex 0x5329);
    ("CDROM_DEBUG", hex 0x5330); ("CDROM_GET_CAPABILITY", hex 0x5331)];
  Defines [
    ("CDROMAUDIOBUFSIZ", hex 0x5382); ("DVD_READ_STRUCT", hex 0x5390);
    ("DVD_WRITE_STRUCT", hex 0x5391); ("DVD_AUTH", hex 0x5392);
    ("CDROM_SEND_PACKET", hex 0x5393); ("CDROM_NEXT_WRITABLE", hex 0x5394);
    ("CDROM_LAST_WRITTEN", hex 0x5395)]].
Definition defs_CDROM_PACKET_SIZE : list decl := [
  Defines [
    ("CDROM_PACKET_SIZE", dec 12); ("CGC_DATA_UNKNOWN", dec 0); ("CGC_DATA_WRITE", dec 1);
    ("CGC_DATA_READ", dec 2); ("CGC_DATA_NONE", dec 3)]].
Definition defs_CD_MINS : list decl := [
  Defines [
    ("CD_MINS", dec 74); ("CD_SECS", dec 60); ("CD_FRAMES", dec 75); ("CD_SYNC_SIZE", dec 12);
    ("CD_MSF_OFFSET", dec 150); ("CD_CHUNK_SIZE", dec 24); ("CD_NUM_OF_CHUNKS", dec 98);
    ("CD_FRAMESIZE_SUB", dec 96); ("CD_HEAD_SIZE", dec 4); ("CD_SUBHEAD_SIZE", dec 8);
    ("CD_EDC_SIZE", dec 4); ("CD_ZERO_SIZE", dec 8); ("CD_ECC_SIZE", dec 276);
    ("CD_FRAMESIZE", dec 2048); ("CD_FRAMESIZE_RAW", dec 2352); ("CD_FRAMESIZE_RAWER", dec 2646);
    ("CD_FRAMESIZE_RAW1", Sub (Id "CD_FRAMESIZE_RAW") (Id "CD_SYNC_SIZE"));
    ("CD_FRAMESIZE_RAW0", Sub (Sub (Id "CD_FRAMESIZE_RAW") (Id "CD_SYNC_SIZE")) (Id "CD_HEAD_SIZE"));
    ("CD_XA_HEAD", Add (Id "CD_HEAD_SIZE") (Id "CD_SUBHEAD_SIZE"));
    ("CD_XA_TAIL", Add (Id "CD_EDC_SIZE") (Id "CD_ECC_SIZE"));
    ("CD_XA_SYNC_HEAD", Add (Id "CD_SYNC_SIZE") (Id "CD_XA_HEAD")); ("CDROM_LBA", hex 0x01);
    ("CDROM_MSF", hex 0x02); ("CDROM_DATA_TRACK", hex 0x04); ("CDROM_LEADOUT", hex 0xAA);
    ("CDROM_AUDIO_INVALID", hex 0x00); ("CDROM_AUDIO_PLAY", hex 0x11);
    ("CDROM_AUDIO_PAUSED", hex 0x12); ("CDROM_AUDIO_COMPLETED", hex 0x13);
    ("CDROM_AUDIO_ERROR", hex 0x14); ("CDROM_AUDIO_NO_STATUS", hex 0x15);
    ("CDC_CLOSE_TRAY", hex 0x1); ("CDC_OPEN_TRAY", hex 0x2); ("CDC_LOCK", hex 0x4);
    ("CDC_SELECT_SPEED", hex 0x8); ("CDC_SELECT_DISC", hex 0x10);
    ("CDC_MULTI_SESSION", hex 0x20); ("CDC_MCN", hex 0x40); ("CDC_MEDIA_CHANGED", hex 0x80);
    ("CDC_PLAY_AUDIO", hex 0x100); ("CDC_RESET", hex 0x200); ("CDC_DRIVE_STATUS", hex 0x800);
    ("CDC_GENERIC_PACKET", hex 0x1000); ("CDC_CD_R", hex 0x2000); ("CDC_CD_RW", hex 0x4000);
    ("CDC_DVD", hex 0x8000); ("CDC_DVD_R", hex 0x10000); ("CDC_DVD_RAM", hex 0x20000);
    ("CDC_MO_DRIVE", hex 0x40000); ("CDC_MRW", hex 0x80000); ("CDC_MRW_W", hex 0x100000);
    ("CDC_RAM", hex 0x200000); ("CDS_NO_INFO", dec 0); ("CDS_NO_DISC", dec 1);
    ("CDS_TRAY_OPEN", dec 2); ("CDS_DRIVE_NOT_READY", dec 3); ("CDS_DISC_OK", dec 4);
    ("CDS_AUDIO", dec 100); ("CDS_DATA_1", dec 101); ("CDS_DATA_2", dec 102);
    ("CDS_XA_2_1", dec 103); ("CDS_XA_2_2", dec 104); ("CDS_MIXED", dec 105);
    ("CDO_AUTO_CLOSE", hex 0x1); ("CDO_AUTO_EJECT", hex 0x2); ("CDO_USE_FFLAGS", hex 0x4);
    ("CDO_LOCK", hex 0x8); ("CDO_CHECK_TYPE", hex 0x10)]].
Definition defs_GPCMD_BLANK : list decl := [
  Defines [
    ("GPCMD_BLANK", hex 0xa1); ("GPCMD_CLOSE_TRACK", hex 0x5b); ("GPCMD_FLUSH_CACHE", hex 0x35);
    ("GPCMD_FORMAT_UNIT", hex 0x04); ("GPCMD_GET_CONFIGURATION", hex 0x46);
    ("GPCMD_GET_EVENT_STATUS_NOTIFICATION", hex 0x4a); ("GPCMD_GET_PERFORMANCE", hex 0xac);
    ("GPCMD_INQUIRY", hex 0x12); ("GPCMD_LOAD_UNLOAD", hex 0xa6);
    ("GPCMD_MECHANISM_STATUS", hex 0xbd); ("GPCMD_MODE_SELECT_10", hex 0x55);
    ("GPCMD_MODE_SENSE_10", hex 0x5a); ("GPCMD_PAUSE_RESUME", hex 0x4b);
    ("GPCMD_PLAY_AUDIO_10", hex 0x45); ("GPCMD_PLAY_AUDIO_MSF", hex 0x47);
    ("GPCMD_PLAY_AUDIO_TI", hex 0x48); ("GPCMD_PLAY_CD", hex 0xbc);
    ("GPCMD_PREVENT_ALLOW_MEDIUM_REMOVAL", hex 0x1e); ("GPCMD_READ_10", hex 0x28);
    ("GPCMD_READ_12", hex 0xa8); ("GPCMD_READ_BUFFER", hex 0x3c);
    ("GPCMD_READ_BUFFER_CAPACITY", hex 0x5c); ("GPCMD_READ_CDVD_CAPACITY", hex 0x25);
    ("GPCMD_READ_CD", hex 0xbe); ("GPCMD_READ_CD_MSF", hex 0xb9);
    ("GPCMD_READ_DISC_INFO", hex 0x51); ("GPCMD_READ_DVD_STRUCTURE", hex 0xad);
    ("GPCMD_READ_FORMAT_CAPACITIES", hex 0x23); ("GPCMD_READ_HEADER", hex 0x44);
    ("GPCMD_READ_TRACK_RZONE_INFO", hex 0x52); ("GPCMD_READ_SUBCHANNEL", hex 0x42);
    ("GPCMD_READ_TOC_PMA_ATIP", hex 0x43); ("GPCMD_REPAIR_RZONE_TRACK", hex 0x58);
    ("GPCMD_REPORT_KEY", hex 0xa4); ("GPCMD_REQUEST_SENSE", hex 0x03);
    ("GPCMD_RESERVE_RZONE_TRACK", hex 0x53); ("GPCMD_SEND_CUE_SHEET", hex 0x5d);
    ("GPCMD_SCAN", hex 0xba); ("GPCMD_SEEK", hex 0x2b); ("GPCMD_SEND_DVD_STRUCTURE", hex 0xbf);
    ("GPCMD_SEND_EVENT", hex 0xa2); ("GPCMD_SEND_KEY", hex 0xa3); ("GPCMD_SEND_OPC", hex 0x54);
    ("GPCMD_SET_READ_AHEAD", hex 0xa7); ("GPCMD_SET_STREAMING", hex 0xb6);
    ("GPCMD_START_STOP_UNIT", hex 0x1b); ("GPCMD_STOP_PLAY_SCAN", hex 0x4e);
    ("GPCMD_TEST_UNIT_READY", hex 0x00); ("GPCMD_VERIFY_10", hex 0x2f);
    ("GPCMD_WRITE_10", hex 0x2a); ("GPCMD_WRITE_12", hex 0xaa);
    ("GPCMD_WRITE_AND_VERIFY_10", hex 0x2e); ("GPCMD_WRITE_BUFFER", hex 0x3b)]].
Definition defs_GPCMD_GET_MEDIA_STATUS : list decl := [
  Defines [
    ("GPCMD_GET_MEDIA_STATUS", hex 0xda); ("GPMODE_VENDOR_PAGE", hex 0x00);
    ("GPMODE_R_W_ERROR_PAGE", hex 0x01); ("GPMODE_WRITE_PARMS_PAGE", hex 0x05);
    ("GPMODE_WCACHING_PAGE", hex 0x08); ("GPMODE_AUDIO_CTL_PAGE", hex 0x0e);
    ("GPMODE_POWER_PAGE", hex 0x1a); ("GPMODE_FAULT_FAIL_PAGE", hex 0x1c);
    ("GPMODE_TO_PROTECT_PAGE", hex 0x1d); ("GPMODE_CAPABILITIES_PAGE", hex 0x2a);
    ("GPMODE_ALL_PAGES", hex 0x3f); ("GPMODE_CDROM_PAGE", hex 0x0d)];
  Defines [
    ("DVD_STRUCT_PHYSICAL", hex 0x00); ("DVD_STRUCT_COPYRIGHT", hex 0x01);
    ("DVD_STRUCT_DISCKEY", hex 0x02); ("DVD_STRUCT_BCA", hex 0x03);
    ("DVD_STRUCT_MANUFACT", hex 0x04)]].
Definition defs_DVD_LU_SEND_AGID : list decl := [
  Defines [
    ("DVD_LU_SEND_AGID", dec 0); ("DVD_HOST_SEND_CHALLENGE", dec 1); ("DVD_LU_SEND_KEY1", dec 2);
    ("DVD_LU_SEND_CHALLENGE", dec 3); ("DVD_HOST_SEND_KEY2", dec 4);
    ("DVD_AUTH_ESTABLISHED", dec 5); ("DVD_AUTH_FAILURE", dec 6);
    ("DVD_LU_SEND_TITLE_KEY", dec 7); ("DVD_LU_SEND_ASF", dec 8); ("DVD_INVALIDATE_AGID", dec 9);
    ("DVD_LU_SEND_RPC_STATE", dec 10); ("DVD_HOST_SEND_RPC_STATE", dec 11)]].
Definition defs_DVD_CPM_NO_COPYRIGHT : list decl := [
  Defines [
    ("DVD_CPM_NO_COPYRIGHT", dec 0); ("DVD_CPM_COPYRIGHTED", dec 1); ("DVD_CP_SEC_NONE", dec 0);
    ("DVD_CP_SEC_EXIST", dec 1); ("DVD_CGMS_UNRESTRICTED", dec 0); ("DVD_CGMS_SINGLE", dec 2);
    ("DVD_CGMS_RESTRICTED", dec 3)]].
Definition defs_CDM_MRW_NOTMRW : list decl := [
  Defines [
    ("CDM_MRW_NOTMRW", dec 0); ("CDM_MRW_BGFORMAT_INACTIVE", dec 1);
    ("CDM_MRW_BGFORMAT_ACTIVE", dec 2); ("CDM_MRW_BGFORMAT_COMPLETE", dec 3)]].
Definition header : header :=
  Header "linux/cdrom.h" [] (concat [
    defs_CDROMPAUSE; defs_CDROMCLOSETRAY; defs_CDROM_PACKET_SIZE; defs_CD_MINS; defs_GPCMD_BLANK;
    defs_GPCMD_GET_MEDIA_STATUS; defs_DVD_LU_SEND_AGID; defs_DVD_CPM_NO_COPYRIGHT;
    defs_CDM_MRW_NOTMRW]).
End Cdrom.

(** ** [linux/chio.h] *)

Module Chio.
Definition defs_CHET_MT : list decl := [
  Defines [
    ("CHET_MT", dec 0); ("CHET_ST", dec 1); ("CHET_IE", dec 2); ("CHET_DT", dec 3);
    ("CHET_V1", dec 4); ("CHET_V2", dec 5); ("CHET_V3", dec 6); ("CHET_V4", dec 7)]].
Definition defs_CESTATUS_FULL : list decl := [
  Defines [
    ("CESTATUS_FULL", hex 0x01); ("CESTATUS_IMPEXP", hex 0x02); ("CESTATUS_EXCEPT", hex 0x04);
    ("CESTATUS_ACCESS", hex 0x08); ("CESTATUS_EXENAB", hex 0x10); ("CESTATUS_INENAB", hex 0x20)]].
Definition defs_CGE_ERRNO : list decl := [
  Defines [
    ("CGE_ERRNO", hex 0x01); ("CGE_INVERT", hex 0x02); ("CGE_SRC", hex 0x04);
    ("CGE_IDLUN", hex 0x08); ("CGE_PVOLTAG", hex 0x10); ("CGE_AVOLTAG", hex 0x20)]].
Definition header : header :=
  Header "linux/chio.h" [] (concat [
    defs_CHET_MT; defs_CESTATUS_FULL; defs_CGE_ERRNO]).
End Chio.

(** ** [linux/coda.h] *)

Module Coda.
Definition defs_C_O_READ : list decl := [
  Defines [
    ("C_O_READ", hex 0x001); ("C_O_WRITE", hex 0x002); ("C_O_TRUNC", hex 0x010);
    ("C_O_EXCL", hex 0x100); ("C_O_CREAT", hex 0x200); ("C_M_READ", oct 256);
    ("C_M_WRITE", oct 128); ("C_A_C_OK", dec 8); ("C_A_R_OK", dec 4); ("C_A_W_OK", dec 2);
    ("C_A_X_OK", dec 1); ("C_A_F_OK", dec 0)]].
Definition defs_CDT_UNKNOWN : list decl := [
  Defines [
    ("CDT_UNKNOWN", dec 0); ("CDT_FIFO", dec 1); ("CDT_CHR", dec 2); ("CDT_DIR", dec 4);
    ("CDT_BLK", dec 6); ("CDT_REG", dec 8); ("CDT_LNK", dec 10); ("CDT_SOCK", dec 12);
    ("CDT_WHT", dec 14)]].
Definition defs_CODA_ROOT : list decl := [
  Defines [
    ("CODA_ROOT", dec 2); ("CODA_OPEN_BY_FD", dec 3); ("CODA_OPEN", dec 4);
    ("CODA_CLOSE", dec 5); ("CODA_IOCTL", dec 6); ("CODA_GETATTR", dec 7);
    ("CODA_SETATTR", dec 8); ("CODA_ACCESS", dec 9); ("CODA_LOOKUP", dec 10);
    ("CODA_CREATE", dec 11); ("CODA_REMOVE", dec 12); ("CODA_LINK", dec 13);
    ("CODA_RENAME", dec 14); ("CODA_MKDIR", dec 15); ("CODA_RMDIR", dec 16);
    ("CODA_SYMLINK", dec 18); ("CODA_READLINK", dec 19); ("CODA_FSYNC", dec 20);
    ("CODA_VGET", dec 22); ("CODA_SIGNAL", dec 23); ("CODA_REPLACE", dec 24);
    ("CODA_FLUSH", dec 25); ("CODA_PURGEUSER", dec 26); ("CODA_ZAPFILE", dec 27);
    ("CODA_ZAPDIR", dec 28); ("CODA_PURGEFID", dec 30); ("CODA_OPEN_BY_PATH", dec 31);
    ("CODA_RESOLVE", dec 32); ("CODA_REINTEGRATE", dec 33); ("CODA_STATFS", dec 34);
    ("CODA_STORE", dec 35); ("CODA_RELEASE", dec 36); ("CODA_NCALLS", dec 37);
    ("VC_MAXDATASIZE", dec 8192)]].
Definition header : header :=
  Header "linux/coda.h" [] (concat [
    defs_C_O_READ; defs_CDT_UNKNOWN; defs_CODA_ROOT]).
End Coda.

(** ** [linux/dm-ioctl.h] *)

Module Dm_ioctl.
Definition enum_DM_VERSION_CMD : list decl := [
  Enum [
    ("DM_VERSION_CMD", Some (dec 0)); ("DM_REMOVE_ALL_CMD", None); ("DM_LIST_DEVICES_CMD", None);
    ("DM_DEV_CREATE_CMD", None); ("DM_DEV_REMOVE_CMD", None); ("DM_DEV_RENAME_CMD", None);
    ("DM_DEV_SUSPEND_CMD", None); ("DM_DEV_STATUS_CMD", None); ("DM_DEV_WAIT_CMD", None);
    ("DM_TABLE_LOAD_CMD", None); ("DM_TABLE_CLEAR_CMD", None); ("DM_TABLE_DEPS_CMD", None);
    ("DM_TABLE_STATUS_CMD", None); ("DM_LIST_VERSIONS_CMD", None); ("DM_TARGET_MSG_CMD", None);
    ("DM_DEV_SET_GEOMETRY_CMD", None)];
  Defines [
    ("DM_IOCTL", hex 0xfd)]].
Definition header : header :=
  Header "linux/dm-ioctl.h" [] (concat [
    enum_DM_VERSION_CMD]).
End Dm_ioctl.

(** ** [linux/fadvise.h] *)

Module Fadvise.
Definition defs_POSIX_FADV_NORMAL : list decl := [
  Defines [
    ("POSIX_FADV_NORMAL", dec 0); ("POSIX_FADV_RANDOM", dec 1); ("POSIX_FADV_SEQUENTIAL", dec 2);
    ("POSIX_FADV_WILLNEED", dec 3)]].
Definition header : header :=
  Header "linux/fadvise.h" [] (concat [
    defs_POSIX_FADV_NORMAL]).
End Fadvise.

(** ** [linux/fcntl.h] *)

Module Fcntl.
Definition defs_F_SEAL_SEAL : list decl := [
  Defines [
    ("F_SEAL_SEAL", hex 0x0001); ("F_SEAL_SHRINK", hex 0x0002); ("F_SEAL_GROW", hex 0x0004);
    ("F_SEAL_WRITE", hex 0x0008)];
  Defines [
    ("F_GET_RW_HINT", Add (Id "F_LINUX_SPECIFIC_BASE") (dec 11));
    ("F_SET_RW_HINT", Add (Id "F_LINUX_SPECIFIC_BASE") (dec 12));
    ("F_GET_FILE_RW_HINT", Add (Id "F_LINUX_SPECIFIC_BASE") (dec 13));
    ("F_SET_FILE_RW_HINT", Add (Id "F_LINUX_SPECIFIC_BASE") (dec 14))];
  Defines [
    ("RWF_WRITE_LIFE_NOT_SET", dec 0); ("RWH_WRITE_LIFE_NONE", dec 1);
    ("RWH_WRITE_LIFE_SHORT", dec 2); ("RWH_WRITE_LIFE_MEDIUM", dec 3);
    ("RWH_WRITE_LIFE_LONG", dec 4); ("RWH_WRITE_LIFE_EXTREME", dec 5)];
  Defines [
    ("DN_ACCESS", hex 0x00000001); ("DN_MODIFY", hex 0x00000002); ("DN_CREATE", hex 0x00000004);
    ("DN_DELETE", hex 0x00000008); ("DN_RENAME", hex 0x00000010); ("DN_ATTRIB", hex 0x00000020);
    ("DN_MULTISHOT", hex 0x80000000); ("AT_FDCWD", Neg (dec 100));
    ("AT_SYMLINK_NOFOLLOW", hex 0x100); ("AT_REMOVEDIR", hex 0x200);
    ("AT_SYMLINK_FOLLOW", hex 0x400); ("AT_NO_AUTOMOUNT", hex 0x800);
    ("AT_EMPTY_PATH", hex 0x1000)]].
Definition header : header :=
  Header "linux/fcntl.h" [Asm_generic_fcntl.header] (concat [
    defs_F_SEAL_SEAL]).
End Fcntl.

(** ** [linux/fd.h] *)

Module Fd.
Definition enum_FD_NEED_TWADDLE_BIT : list decl := [
  Enum [
    ("FD_NEED_TWADDLE_BIT", None); ("FD_VERIFY_BIT", None); ("FD_DISK_NEWCHANGE_BIT", None);
    ("FD_UNUSED_BIT", None); ("FD_DISK_CHANGED_BIT", None); ("FD_DISK_WRITABLE_BIT", None);
    ("FD_OPEN_SHOULD_FAIL_BIT", None)]].
Definition enum_reset_mode : list decl := [
  Enum [
    ("FD_RESET_IF_NEEDED", None); ("FD_RESET_IF_RAWCMD", None); ("FD_RESET_ALWAYS", None)]].
Definition header : header :=
  Header "linux/fd.h" [] (concat [
    enum_FD_NEED_TWADDLE_BIT; enum_reset_mode]).
End Fd.

(** ** [linux/fs.h] *)

Module Fs.
Definition defs_INR_OPEN_CUR : list decl := [
  Defines [
    ("INR_OPEN_CUR", dec 1024); ("INR_OPEN_MAX", dec 4096); ("BLOCK_SIZE_BITS", dec 10);
    ("BLOCK_SIZE", Shl (dec 1) (Id "BLOCK_SIZE_BITS")); ("SEEK_SET", dec 0); ("SEEK_CUR", dec 1);
    ("SEEK_END", dec 2); ("SEEK_DATA", dec 3); ("SEEK_HOLE", dec 4);
    ("SEEK_MAX", Id "SEEK_HOLE"); ("RENAME_NOREPLACE", Shl (dec 1) (dec 0));
    ("RENAME_EXCHANGE", Shl (dec 1) (dec 1)); ("RENAME_WHITEOUT", Shl (dec 1) (dec 2))]].
Definition defs_MS_RDONLY : list decl := [
  Defines [
    ("MS_RDONLY", dec 1); ("MS_NOSUID", dec 2); ("MS_NODEV", dec 4); ("MS_NOEXEC", dec 8);
    ("MS_SYNCHRONOUS", dec 16); ("MS_REMOUNT", dec 32); ("MS_MANDLOCK", dec 64);
    ("MS_DIRSYNC", dec 128); ("MS_NOATIME", dec 1024); ("MS_NODIRATIME", dec 2048);
    ("MS_BIND", dec 4096); ("MS_MOVE", dec 8192); ("MS_REC", dec 16384);
    ("MS_VERBOSE", dec 32768); ("MS_SILENT", dec 32768); ("MS_POSIXACL", Shl (dec 1) (dec 16));
    ("MS_UNBINDABLE", Shl (dec 1) (dec 17)); ("MS_PRIVATE", Shl (dec 1) (dec 18));
    ("MS_SLAVE", Shl (dec 1) (dec 19)); ("MS_SHARED", Shl (dec 1) (dec 20));
    ("MS_RELATIME", Shl (dec 1) (dec 21)); ("MS_KERNMOUNT", Shl (dec 1) (dec 22));
    ("MS_I_VERSION", Shl (dec 1) (dec 23)); ("MS_STRICTATIME", Shl (dec 1) (dec 24));
    ("MS_LAZYTIME", Shl (dec 1) (dec 25)); ("MS_NOSEC", Shl (dec 1) (dec 28));
    ("MS_BORN", Shl (dec 1) (dec 29)); ("MS_ACTIVE", Shl (dec 1) (dec 30));
    ("MS_NOUSER", Shl (dec 1) (dec 31))]].
Definition defs_FS_KEY_DESCRIPTOR_SIZE : list decl := [
  Defines [
    ("FS_KEY_DESCRIPTOR_SIZE", dec 8); ("FS_POLICY_FLAGS_PAD_4", hex 0x00);
    ("FS_POLICY_FLAGS_PAD_8", hex 0x01); ("FS_POLICY_FLAGS_PAD_16", hex 0x02);
    ("FS_POLICY_FLAGS_PAD_32", hex 0x03); ("FS_POLICY_FLAGS_PAD_MASK", hex 0x03);
    ("FS_POLICY_FLAGS_VALID", hex 0x03); ("FS_ENCRYPTION_MODE_INVALID", dec 0);
    ("FS_ENCRYPTION_MODE_AES_256_XTS", dec 1); ("FS_ENCRYPTION_MODE_AES_256_GCM", dec 2);
    ("FS_ENCRYPTION_MODE_AES_256_CBC", dec 3); ("FS_ENCRYPTION_MODE_AES_256_CTS", dec 4);
    ("FS_ENCRYPTION_MODE_AES_128_CBC", dec 5); ("FS_ENCRYPTION_MODE_AES_128_CTS", dec 6);
    ("FS_ENCRYPTION_MODE_SPECK128_256_XTS", dec 7);
    ("FS_ENCRYPTION_MODE_SPECK128_256_CTS", dec 8)]].
Definition defs_FS_SECRM_FL : list decl := [
  Defines [
    ("FS_SECRM_FL", hex 0x00000001); ("FS_UNRM_FL", hex 0x00000002);
    ("FS_COMPR_FL", hex 0x00000004); ("FS_SYNC_FL", hex 0x00000008);
    ("FS_IMMUTABLE_FL", hex 0x00000010); ("FS_APPEND_FL", hex 0x00000020);
    ("FS_NODUMP_FL", hex 0x00000040); ("FS_NOATIME_FL", hex 0x00000080);
    ("FS_DIRTY_FL", hex 0x00000100); ("FS_COMPRBLK_FL", hex 0x00000200);
    ("FS_NOCOMP_FL", hex 0x00000400); ("FS_ECOMPR_FL", hex 0x00000800);
    ("FS_ENCRYPT_FL", hex 0x00000800); ("FS_BTREE_FL", hex 0x00001000);
    ("FS_INDEX_FL", hex 0x00001000); ("FS_IMAGIC_FL", hex 0x00002000);
    ("FS_JOURNAL_DATA_FL", hex 0x00004000); ("FS_NOTAIL_FL", hex 0x00008000);
    ("FS_DIRSYNC_FL", hex 0x00010000); ("FS_TOPDIR_FL", hex 0x00020000);
    ("FS_EXTENT_FL", hex 0x00080000); ("FS_DIRECTIO_FL", hex 0x00100000);
    ("FS_NOCOW_FL", hex 0x00800000); ("FS_INLINE_DATA_FL", hex 0x10000000);
    ("FS_PROJINHERIT_FL", hex 0x20000000); ("FS_RESERVED_FL", hex 0x80000000);
    ("FS_FL_USER_VISIBLE", hex 0x0003DFFF); ("FS_FL_USER_MODIFIABLE", hex 0x000380FF);
    ("SYNC_FILE_RANGE_WAIT_BEFORE", dec 1); ("SYNC_FILE_RANGE_WRITE", dec 2);
    ("SYNC_FILE_RANGE_WAIT_AFTER", dec 4)]].
Definition header : header :=
  Header "linux/fs.h" [] (concat [
    defs_INR_OPEN_CUR; defs_MS_RDONLY; defs_FS_KEY_DESCRIPTOR_SIZE; defs_FS_SECRM_FL]).
End Fs.

(** ** [linux/fuse.h] *)

Module Fuse.
Definition defs_FATTR_MODE : list decl := [
  Defines [
    ("FATTR_MODE", Shl (dec 1) (dec 0)); ("FATTR_UID", Shl (dec 1) (dec 1));
    ("FATTR_GID", Shl (dec 1) (dec 2)); ("FATTR_SIZE", Shl (dec 1) (dec 3));
    ("FATTR_ATIME", Shl (dec 1) (dec 4)); ("FATTR_MTIME", Shl (dec 1) (dec 5));
    ("FATTR_FH", Shl (dec 1) (dec 6)); ("FATTR_ATIME_NOW", Shl (dec 1) (dec 7));
    ("FATTR_MTIME_NOW", Shl (dec 1) (dec 8)); ("FATTR_LOCKOWNER", Shl (dec 1) (dec 9));
    ("FATTR_CTIME", Shl (dec 1) (dec 10))];
  Defines [
    ("FOPEN_DIRECT_IO", Shl (dec 1) (dec 0)); ("FOPEN_KEEP_CACHE", Shl (dec 1) (dec 1));
    ("FOPEN_NONSEEKABLE", Shl (dec 1) (dec 2)); ("FOPEN_STREAM", Shl (dec 1) (dec 4))];
  Defines [
    ("FUSE_ASYNC_READ", Shl (dec 1) (dec 0)); ("FUSE_POSIX_LOCKS", Shl (dec 1) (dec 1));
    ("FUSE_FILE_OPS", Shl (dec 1) (dec 2)); ("FUSE_ATOMIC_O_TRUNC", Shl (dec 1) (dec 3));
    ("FUSE_EXPORT_SUPPORT", Shl (dec 1) (dec 4)); ("FUSE_BIG_WRITES", Shl (dec 1) (dec 5));
    ("FUSE_DONT_MASK", Shl (dec 1) (dec 6)); ("FUSE_SPLICE_WRITE", Shl (dec 1) (dec 7));
    ("FUSE_SPLICE_MOVE", Shl (dec 1) (dec 8)); ("FUSE_SPLICE_READ", Shl (dec 1) (dec 9));
    ("FUSE_FLOCK_LOCKS", Shl (dec 1) (dec 10)); ("FUSE_HAS_IOCTL_DIR", Shl (dec 1) (dec 11));
    ("FUSE_AUTO_INVAL_DATA", Shl (dec 1) (dec 12));
    ("FUSE_DO_READDIRPLUS", Shl (dec 1) (dec 13));
    ("FUSE_READDIRPLUS_AUTO", Shl (dec 1) (dec 14)); ("FUSE_ASYNC_DIO", Shl (dec 1) (dec 15));
    ("FUSE_WRITEBACK_CACHE", Shl (dec 1) (dec 16));
    ("FUSE_NO_OPEN_SUPPORT", Shl (dec 1) (dec 17)); ("FUSE_PASSTHROUGH", Shl (dec 1) (dec 18))]].
Definition defs_FUSE_IOCTL_COMPAT : list decl := [
  Defines [
    ("FUSE_IOCTL_COMPAT", Shl (dec 1) (dec 0)); ("FUSE_IOCTL_UNRESTRICTED", Shl (dec 1) (dec 1));
    ("FUSE_IOCTL_RETRY", Shl (dec 1) (dec 2)); ("FUSE_IOCTL_32BIT", Shl (dec 1) (dec 3));
    ("FUSE_IOCTL_DIR", Shl (dec 1) (dec 4)); ("FUSE_IOCTL_MAX_IOV", dec 256)]].
Definition enum_fuse_opcode : list decl := [
  Enum [
    ("FUSE_LOOKUP", Some (dec 1)); ("FUSE_FORGET", Some (dec 2)); ("FUSE_GETATTR", Some (dec 3));
    ("FUSE_SETATTR", Some (dec 4)); ("FUSE_READLINK", Some (dec 5));
    ("FUSE_SYMLINK", Some (dec 6)); ("FUSE_MKNOD", Some (dec 8)); ("FUSE_MKDIR", Some (dec 9));
    ("FUSE_UNLINK", Some (dec 10)); ("FUSE_RMDIR", Some (dec 11));
    ("FUSE_RENAME", Some (dec 12)); ("FUSE_LINK", Some (dec 13)); ("FUSE_OPEN", Some (dec 14));
    ("FUSE_READ", Some (dec 15)); ("FUSE_WRITE", Some (dec 16)); ("FUSE_STATFS", Some (dec 17));
    ("FUSE_RELEASE", Some (dec 18)); ("FUSE_FSYNC", Some (dec 20));
    ("FUSE_SETXATTR", Some (dec 21)); ("FUSE_GETXATTR", Some (dec 22));
    ("FUSE_LISTXATTR", Some (dec 23)); ("FUSE_REMOVEXATTR", Some (dec 24));
    ("FUSE_FLUSH", Some (dec 25)); ("FUSE_INIT", Some (dec 26)); ("FUSE_OPENDIR", Some (dec 27));
    ("FUSE_READDIR", Some (dec 28)); ("FUSE_RELEASEDIR", Some (dec 29));
    ("FUSE_FSYNCDIR", Some (dec 30)); ("FUSE_GETLK", Some (dec 31));
    ("FUSE_SETLK", Some (dec 32)); ("FUSE_SETLKW", Some (dec 33));
    ("FUSE_ACCESS", Some (dec 34)); ("FUSE_CREATE", Some (dec 35));
    ("FUSE_INTERRUPT", Some (dec 36)); ("FUSE_BMAP", Some (dec 37));
    ("FUSE_DESTROY", Some (dec 38)); ("FUSE_IOCTL", Some (dec 39)); ("FUSE_POLL", Some (dec 40));
    ("FUSE_NOTIFY_REPLY", Some (dec 41)); ("FUSE_BATCH_FORGET", Some (dec 42));
    ("FUSE_FALLOCATE", Some (dec 43)); ("FUSE_READDIRPLUS", Some (dec 44));
    ("FUSE_RENAME2", Some (dec 45)); ("FUSE_CANONICAL_PATH", Some (dec 2016));
    ("CUSE_INIT", Some (dec 4096))];
  Enum [
    ("FUSE_NOTIFY_POLL", Some (dec 1)); ("FUSE_NOTIFY_INVAL_INODE", Some (dec 2));
    ("FUSE_NOTIFY_INVAL_ENTRY", Some (dec 3)); ("FUSE_NOTIFY_STORE", Some (dec 4));
    ("FUSE_NOTIFY_RETRIEVE", Some (dec 5)); ("FUSE_NOTIFY_DELETE", Some (dec 6));
    ("FUSE_NOTIFY_CODE_MAX", None)];
  Defines [
    ("FUSE_MIN_READ_BUFFER", dec 8192); ("FUSE_COMPAT_ENTRY_OUT_SIZE", dec 120)]].
Definition header : header :=
  Header "linux/fuse.h" [] (concat [
    defs_FATTR_MODE; defs_FUSE_IOCTL_COMPAT; enum_fuse_opcode]).
End Fuse.

(** ** [linux/hdreg.h] *)

Module Hdreg.
Definition defs_IDE_DRIVE_TASK_NO_DATA : list decl := [
  Defines [
    ("IDE_DRIVE_TASK_NO_DATA", dec 0); ("IDE_DRIVE_TASK_INVALID", Neg (dec 1));
    ("IDE_DRIVE_TASK_SET_XFER", dec 1); ("IDE_DRIVE_TASK_IN", dec 2);
    ("IDE_DRIVE_TASK_OUT", dec 3); ("IDE_DRIVE_TASK_RAW_WRITE", dec 4)];
  Defines [
    ("IDE_TASKFILE_STD_IN_FLAGS", hex 0xFE); ("IDE_HOB_STD_IN_FLAGS", hex 0x3C);
    ("IDE_TASKFILE_STD_OUT_FLAGS", hex 0xFE); ("IDE_HOB_STD_OUT_FLAGS", hex 0x3C)]].
Definition defs_TASKFILE_NO_DATA : list decl := [
  Defines [
    ("TASKFILE_NO_DATA", hex 0x0000); ("TASKFILE_IN", hex 0x0001);
    ("TASKFILE_MULTI_IN", hex 0x0002); ("TASKFILE_OUT", hex 0x0004);
    ("TASKFILE_MULTI_OUT", hex 0x0008); ("TASKFILE_IN_OUT", hex 0x0010);
    ("TASKFILE_IN_DMA", hex 0x0020); ("TASKFILE_OUT_DMA", hex 0x0040);
    ("TASKFILE_IN_DMAQ", hex 0x0080); ("TASKFILE_OUT_DMAQ", hex 0x0100);
    ("TASKFILE_P_IN", hex 0x0200); ("TASKFILE_P_OUT", hex 0x0400);
    ("TASKFILE_P_IN_DMA", hex 0x0800); ("TASKFILE_P_OUT_DMA", hex 0x1000);
    ("TASKFILE_P_IN_DMAQ", hex 0x2000); ("TASKFILE_P_OUT_DMAQ", hex 0x4000);
    ("TASKFILE_48", hex 0x8000); ("TASKFILE_INVALID", hex 0x7fff); ("WIN_NOP", hex 0x00);
    ("CFA_REQ_EXT_ERROR_CODE", hex 0x03); ("WIN_SRST", hex 0x08); ("WIN_DEVICE_RESET", hex 0x08);
    ("WIN_RECAL", hex 0x10); ("WIN_RESTORE", Id "WIN_RECAL"); ("WIN_READ", hex 0x20);
    ("WIN_READ_ONCE", hex 0x21); ("WIN_READ_LONG", hex 0x22); ("WIN_READ_LONG_ONCE", hex 0x23);
    ("WIN_READ_EXT", hex 0x24); ("WIN_READDMA_EXT", hex 0x25);
    ("WIN_READDMA_QUEUED_EXT", hex 0x26); ("WIN_READ_NATIVE_MAX_EXT", hex 0x27);
    ("WIN_MULTREAD_EXT", hex 0x29); ("WIN_WRITE", hex 0x30); ("WIN_WRITE_ONCE", hex 0x31);
    ("WIN_WRITE_LONG", hex 0x32); ("WIN_WRITE_LONG_ONCE", hex 0x33); ("WIN_WRITE_EXT", hex 0x34);
    ("WIN_WRITEDMA_EXT", hex 0x35); ("WIN_WRITEDMA_QUEUED_EXT", hex 0x36);
    ("WIN_SET_MAX_EXT", hex 0x37); ("CFA_WRITE_SECT_WO_ERASE", hex 0x38);
    ("WIN_MULTWRITE_EXT", hex 0x39); ("WIN_WRITE_VERIFY", hex 0x3C); ("WIN_VERIFY", hex 0x40);
    ("WIN_VERIFY_ONCE", hex 0x41); ("WIN_VERIFY_EXT", hex 0x42); ("WIN_FORMAT", hex 0x50);
    ("WIN_INIT", hex 0x60); ("WIN_SEEK", hex 0x70); ("CFA_TRANSLATE_SECTOR", hex 0x87);
    ("WIN_DIAGNOSE", hex 0x90); ("WIN_SPECIFY", hex 0x91); ("WIN_DOWNLOAD_MICROCODE", hex 0x92);
    ("WIN_STANDBYNOW2", hex 0x94); ("WIN_STANDBY2", hex 0x96); ("WIN_SETIDLE2", hex 0x97);
    ("WIN_CHECKPOWERMODE2", hex 0x98); ("WIN_SLEEPNOW2", hex 0x99); ("WIN_PACKETCMD", hex 0xA0);
    ("WIN_PIDENTIFY", hex 0xA1); ("WIN_QUEUED_SERVICE", hex 0xA2); ("WIN_SMART", hex 0xB0);
    ("CFA_ERASE_SECTORS", hex 0xC0); ("WIN_MULTREAD", hex 0xC4); ("WIN_MULTWRITE", hex 0xC5);
    ("WIN_SETMULT", hex 0xC6); ("WIN_READDMA_QUEUED", hex 0xC7); ("WIN_READDMA", hex 0xC8);
    ("WIN_READDMA_ONCE", hex 0xC9); ("WIN_WRITEDMA", hex 0xCA); ("WIN_WRITEDMA_ONCE", hex 0xCB);
    ("WIN_WRITEDMA_QUEUED", hex 0xCC); ("CFA_WRITE_MULTI_WO_ERASE", hex 0xCD);
    ("WIN_GETMEDIASTATUS", hex 0xDA); ("WIN_ACKMEDIACHANGE", hex 0xDB);
    ("WIN_POSTBOOT", hex 0xDC); ("WIN_PREBOOT", hex 0xDD); ("WIN_DOORLOCK", hex 0xDE);
    ("WIN_DOORUNLOCK", hex 0xDF); ("WIN_STANDBYNOW1", hex 0xE0); ("WIN_IDLEIMMEDIATE", hex 0xE1);
    ("WIN_STANDBY", hex 0xE2); ("WIN_SETIDLE1", hex 0xE3); ("WIN_READ_BUFFER", hex 0xE4);
    ("WIN_CHECKPOWERMODE1", hex 0xE5); ("WIN_SLEEPNOW1", hex 0xE6);
    ("WIN_FLUSH_CACHE", hex 0xE7); ("WIN_WRITE_BUFFER", hex 0xE8); ("WIN_WRITE_SAME", hex 0xE9);
    ("WIN_FLUSH_CACHE_EXT", hex 0xEA); ("WIN_IDENTIFY", hex 0xEC); ("WIN_MEDIAEJECT", hex 0xED);
    ("WIN_IDENTIFY_DMA", hex 0xEE); ("WIN_SETFEATURES", hex 0xEF);
    ("EXABYTE_ENABLE_NEST", hex 0xF0); ("WIN_SECURITY_SET_PASS", hex 0xF1);
    ("WIN_SECURITY_UNLOCK", hex 0xF2); ("WIN_SECURITY_ERASE_PREPARE", hex 0xF3);
    ("WIN_SECURITY_ERASE_UNIT", hex 0xF4); ("WIN_SECURITY_FREEZE_LOCK", hex 0xF5);
    ("WIN_SECURITY_DISABLE", hex 0xF6); ("WIN_READ_NATIVE_MAX", hex 0xF8);
    ("WIN_SET_MAX", hex 0xF9); ("DISABLE_SEAGATE", hex 0xFB)]].
Definition defs_SMART_READ_VALUES : list decl := [
  Defines [
    ("SMART_READ_VALUES", hex 0xD0); ("SMART_READ_THRESHOLDS", hex 0xD1);
    ("SMART_AUTOSAVE", hex 0xD2); ("SMART_SAVE", hex 0xD3);
    ("SMART_IMMEDIATE_OFFLINE", hex 0xD4); ("SMART_READ_LOG_SECTOR", hex 0xD5);
    ("SMART_WRITE_LOG_SECTOR", hex 0xD6); ("SMART_WRITE_THRESHOLDS", hex 0xD7);
    ("SMART_ENABLE", hex 0xD8); ("SMART_DISABLE", hex 0xD9); ("SMART_STATUS", hex 0xDA);
    ("SMART_AUTO_OFFLINE", hex 0xDB); ("SMART_LCYL_PASS", hex 0x4F);
    ("SMART_HCYL_PASS", hex 0xC2); ("SETFEATURES_EN_8BIT", hex 0x01);
    ("SETFEATURES_EN_WCACHE", hex 0x02); ("SETFEATURES_DIS_DEFECT", hex 0x04);
    ("SETFEATURES_EN_APM", hex 0x05); ("SETFEATURES_EN_SAME_R", hex 0x22);
    ("SETFEATURES_DIS_MSN", hex 0x31); ("SETFEATURES_DIS_RETRY", hex 0x33);
    ("SETFEATURES_EN_AAM", hex 0x42); ("SETFEATURES_RW_LONG", hex 0x44);
    ("SETFEATURES_SET_CACHE", hex 0x54); ("SETFEATURES_DIS_RLA", hex 0x55);
    ("SETFEATURES_EN_RI", hex 0x5D); ("SETFEATURES_EN_SI", hex 0x5E);
    ("SETFEATURES_DIS_RPOD", hex 0x66); ("SETFEATURES_DIS_ECC", hex 0x77);
    ("SETFEATURES_DIS_8BIT", hex 0x81); ("SETFEATURES_DIS_WCACHE", hex 0x82);
    ("SETFEATURES_EN_DEFECT", hex 0x84); ("SETFEATURES_DIS_APM", hex 0x85);
    ("SETFEATURES_EN_ECC", hex 0x88); ("SETFEATURES_EN_MSN", hex 0x95);
    ("SETFEATURES_EN_RETRY", hex 0x99); ("SETFEATURES_EN_RLA", hex 0xAA);
    ("SETFEATURES_PREFETCH", hex 0xAB); ("SETFEATURES_EN_REST", hex 0xAC);
    ("SETFEATURES_4B_RW_LONG", hex 0xBB); ("SETFEATURES_DIS_AAM", hex 0xC2);
    ("SETFEATURES_EN_RPOD", hex 0xCC); ("SETFEATURES_DIS_RI", hex 0xDD);
    ("SETFEATURES_EN_SAME_M", hex 0xDD); ("SETFEATURES_DIS_SI", hex 0xDE);
    ("SECURITY_SET_PASSWORD", hex 0xBA); ("SECURITY_UNLOCK", hex 0xBB);
    ("SECURITY_ERASE_PREPARE", hex 0xBC); ("SECURITY_ERASE_UNIT", hex 0xBD);
    ("SECURITY_FREEZE_LOCK", hex 0xBE); ("SECURITY_DISABLE_PASSWORD", hex 0xBF)]].
Definition defs_HDIO_GETGEO : list decl := [
  Defines [
    ("HDIO_GETGEO", hex 0x0301); ("HDIO_GET_UNMASKINTR", hex 0x0302);
    ("HDIO_GET_MULTCOUNT", hex 0x0304); ("HDIO_GET_QDMA", hex 0x0305);
    ("HDIO_SET_XFER", hex 0x0306); ("HDIO_OBSOLETE_IDENTITY", hex 0x0307);
    ("HDIO_GET_KEEPSETTINGS", hex 0x0308); ("HDIO_GET_32BIT", hex 0x0309);
    ("HDIO_GET_NOWERR", hex 0x030a); ("HDIO_GET_DMA", hex 0x030b); ("HDIO_GET_NICE", hex 0x030c);
    ("HDIO_GET_IDENTITY", hex 0x030d); ("HDIO_GET_WCACHE", hex 0x030e);
    ("HDIO_GET_ACOUSTIC", hex 0x030f); ("HDIO_GET_ADDRESS", hex 0x0310);
    ("HDIO_GET_BUSSTATE", hex 0x031a); ("HDIO_TRISTATE_HWIF", hex 0x031b);
    ("HDIO_DRIVE_RESET", hex 0x031c); ("HDIO_DRIVE_TASKFILE", hex 0x031d);
    ("HDIO_DRIVE_TASK", hex 0x031e); ("HDIO_DRIVE_CMD", hex 0x031f);
    ("HDIO_DRIVE_CMD_AEB", Id "HDIO_DRIVE_TASK"); ("HDIO_SET_MULTCOUNT", hex 0x0321);
    ("HDIO_SET_UNMASKINTR", hex 0x0322); ("HDIO_SET_KEEPSETTINGS", hex 0x0323);
    ("HDIO_SET_32BIT", hex 0x0324); ("HDIO_SET_NOWERR", hex 0x0325);
    ("HDIO_SET_DMA", hex 0x0326); ("HDIO_SET_PIO_MODE", hex 0x0327);
    ("HDIO_SCAN_HWIF", hex 0x0328); ("HDIO_UNREGISTER_HWIF", hex 0x032a);
    ("HDIO_SET_NICE", hex 0x0329); ("HDIO_SET_WCACHE", hex 0x032b);
    ("HDIO_SET_ACOUSTIC", hex 0x032c); ("HDIO_SET_BUSSTATE", hex 0x032d);
    ("HDIO_SET_QDMA", hex 0x032e); ("HDIO_SET_ADDRESS", hex 0x032f)];
  Enum [
    ("BUSSTATE_OFF", Some (dec 0)); ("BUSSTATE_ON", None); ("BUSSTATE_TRISTATE", None)]].
Definition defs_IDE_NICE_DSC_OVERLAP : list decl := [
  Defines [
    ("IDE_NICE_DSC_OVERLAP", dec 0); ("IDE_NICE_ATAPI_OVERLAP", dec 1); ("IDE_NICE_1", dec 3);
    ("IDE_NICE_0", dec 2); ("IDE_NICE_2", dec 4)]].
Definition header : header :=
  Header "linux/hdreg.h" [] (concat [
    defs_IDE_DRIVE_TASK_NO_DATA; defs_TASKFILE_NO_DATA; defs_SMART_READ_VALUES; defs_HDIO_GETGEO;
    defs_IDE_NICE_DSC_OVERLAP]).
End Hdreg.

(** ** [linux/i2o-dev.h] *)

Module I2o_dev.
Definition defs_I2O_BUS_LOCAL : list decl := [
  Defines [
    ("I2O_BUS_LOCAL", dec 0); ("I2O_BUS_ISA", dec 1); ("I2O_BUS_EISA", dec 2);
    ("I2O_BUS_PCI", dec 4); ("I2O_BUS_PCMCIA", dec 5); ("I2O_BUS_NUBUS", dec 6);
    ("I2O_BUS_CARDBUS", dec 7); ("I2O_BUS_UNKNOWN", hex 0x80)]].
Definition defs_I2O_EVT_IND_STATE_CHANGE : list decl := [
  Defines [
    ("I2O_EVT_IND_STATE_CHANGE", hex 0x80000000);
    ("I2O_EVT_IND_GENERAL_WARNING", hex 0x40000000);
    ("I2O_EVT_IND_CONFIGURATION_FLAG", hex 0x20000000);
    ("I2O_EVT_IND_LOCK_RELEASE", hex 0x10000000);
    ("I2O_EVT_IND_CAPABILITY_CHANGE", hex 0x08000000);
    ("I2O_EVT_IND_DEVICE_RESET", hex 0x04000000);
    ("I2O_EVT_IND_EVT_MASK_MODIFIED", hex 0x02000000);
    ("I2O_EVT_IND_FIELD_MODIFIED", hex 0x01000000); ("I2O_EVT_IND_VENDOR_EVT", hex 0x00800000);
    ("I2O_EVT_IND_DEVICE_STATE", hex 0x00400000);
    ("I2O_EVT_IND_EXEC_RESOURCE_LIMITS", hex 0x00000001);
    ("I2O_EVT_IND_EXEC_CONNECTION_FAIL", hex 0x00000002);
    ("I2O_EVT_IND_EXEC_ADAPTER_FAULT", hex 0x00000004);
    ("I2O_EVT_IND_EXEC_POWER_FAIL", hex 0x00000008);
    ("I2O_EVT_IND_EXEC_RESET_PENDING", hex 0x00000010);
    ("I2O_EVT_IND_EXEC_RESET_IMMINENT", hex 0x00000020);
    ("I2O_EVT_IND_EXEC_HW_FAIL", hex 0x00000040);
    ("I2O_EVT_IND_EXEC_XCT_CHANGE", hex 0x00000080);
    ("I2O_EVT_IND_EXEC_NEW_LCT_ENTRY", hex 0x00000100);
    ("I2O_EVT_IND_EXEC_MODIFIED_LCT", hex 0x00000200);
    ("I2O_EVT_IND_EXEC_DDM_AVAILABILITY", hex 0x00000400);
    ("I2O_EVT_IND_BSA_VOLUME_LOAD", hex 0x00000001);
    ("I2O_EVT_IND_BSA_VOLUME_UNLOAD", hex 0x00000002);
    ("I2O_EVT_IND_BSA_VOLUME_UNLOAD_REQ", hex 0x00000004);
    ("I2O_EVT_IND_BSA_CAPACITY_CHANGE", hex 0x00000008);
    ("I2O_EVT_IND_BSA_SCSI_SMART", hex 0x00000010); ("I2O_EVT_STATE_CHANGE_NORMAL", hex 0x00);
    ("I2O_EVT_STATE_CHANGE_SUSPENDED", hex 0x01); ("I2O_EVT_STATE_CHANGE_RESTART", hex 0x02);
    ("I2O_EVT_STATE_CHANGE_NA_RECOVER", hex 0x03);
    ("I2O_EVT_STATE_CHANGE_NA_NO_RECOVER", hex 0x04);
    ("I2O_EVT_STATE_CHANGE_QUIESCE_REQUEST", hex 0x05);
    ("I2O_EVT_STATE_CHANGE_FAILED", hex 0x10); ("I2O_EVT_STATE_CHANGE_FAULTED", hex 0x11);
    ("I2O_EVT_GEN_WARNING_NORMAL", hex 0x00); ("I2O_EVT_GEN_WARNING_ERROR_THRESHOLD", hex 0x01);
    ("I2O_EVT_GEN_WARNING_MEDIA_FAULT", hex 0x02); ("I2O_EVT_CAPABILITY_OTHER", hex 0x01);
    ("I2O_EVT_CAPABILITY_CHANGED", hex 0x02); ("I2O_EVT_SENSOR_STATE_CHANGED", hex 0x01)]].
Definition defs_I2O_CLASS_EXECUTIVE : list decl := [
  Defines [
    ("I2O_CLASS_EXECUTIVE", hex 0x000); ("I2O_CLASS_DDM", hex 0x001);
    ("I2O_CLASS_RANDOM_BLOCK_STORAGE", hex 0x010); ("I2O_CLASS_SEQUENTIAL_STORAGE", hex 0x011);
    ("I2O_CLASS_LAN", hex 0x020); ("I2O_CLASS_WAN", hex 0x030);
    ("I2O_CLASS_FIBRE_CHANNEL_PORT", hex 0x040);
    ("I2O_CLASS_FIBRE_CHANNEL_PERIPHERAL", hex 0x041); ("I2O_CLASS_SCSI_PERIPHERAL", hex 0x051);
    ("I2O_CLASS_ATE_PORT", hex 0x060); ("I2O_CLASS_ATE_PERIPHERAL", hex 0x061);
    ("I2O_CLASS_FLOPPY_CONTROLLER", hex 0x070); ("I2O_CLASS_FLOPPY_DEVICE", hex 0x071);
    ("I2O_CLASS_BUS_ADAPTER", hex 0x080); ("I2O_CLASS_PEER_TRANSPORT_AGENT", hex 0x090);
    ("I2O_CLASS_PEER_TRANSPORT", hex 0x091); ("I2O_CLASS_END", hex 0xfff)]].
Definition defs_I2O_SUBCLASS_i960 : list decl := [
  Defines [
    ("I2O_SUBCLASS_i960", hex 0x001); ("I2O_SUBCLASS_HDM", hex 0x020);
    ("I2O_SUBCLASS_ISM", hex 0x021); ("I2O_PARAMS_FIELD_GET", hex 0x0001);
    ("I2O_PARAMS_LIST_GET", hex 0x0002); ("I2O_PARAMS_MORE_GET", hex 0x0003);
    ("I2O_PARAMS_SIZE_GET", hex 0x0004); ("I2O_PARAMS_TABLE_GET", hex 0x0005);
    ("I2O_PARAMS_FIELD_SET", hex 0x0006); ("I2O_PARAMS_LIST_SET", hex 0x0007);
    ("I2O_PARAMS_ROW_ADD", hex 0x0008); ("I2O_PARAMS_ROW_DELETE", hex 0x0009);
    ("I2O_PARAMS_TABLE_CLEAR", hex 0x000A)];
  Defines [
    ("I2O_SNFORMAT_UNKNOWN", dec 0); ("I2O_SNFORMAT_BINARY", dec 1);
    ("I2O_SNFORMAT_ASCII", dec 2); ("I2O_SNFORMAT_UNICODE", dec 3);
    ("I2O_SNFORMAT_LAN48_MAC", dec 4); ("I2O_SNFORMAT_WAN", dec 5)];
  Defines [
    ("I2O_SNFORMAT_LAN64_MAC", dec 6); ("I2O_SNFORMAT_DDM", dec 7);
    ("I2O_SNFORMAT_IEEE_REG64", dec 8); ("I2O_SNFORMAT_IEEE_REG128", dec 9);
    ("I2O_SNFORMAT_UNKNOWN2", hex 0xff)];
  Defines [
    ("ADAPTER_STATE_INITIALIZING", hex 0x01); ("ADAPTER_STATE_RESET", hex 0x02);
    ("ADAPTER_STATE_HOLD", hex 0x04); ("ADAPTER_STATE_READY", hex 0x05);
    ("ADAPTER_STATE_OPERATIONAL", hex 0x08); ("ADAPTER_STATE_FAILED", hex 0x10);
    ("ADAPTER_STATE_FAULTED", hex 0x11)]].
Definition defs_I2O_DPT_SG_FLAG_INTERPRET : list decl := [
  Defines [
    ("I2O_DPT_SG_FLAG_INTERPRET", hex 0x00010000); ("I2O_DPT_SG_FLAG_PHYSICAL", hex 0x00020000);
    ("I2O_DPT_FLASH_FRAG_SIZE", hex 0x10000); ("I2O_DPT_FLASH_READ", hex 0x0101);
    ("I2O_DPT_FLASH_WRITE", hex 0x0102)]].
Definition header : header :=
  Header "linux/i2o-dev.h" [] (concat [
    defs_I2O_BUS_LOCAL; defs_I2O_EVT_IND_STATE_CHANGE; defs_I2O_CLASS_EXECUTIVE;
    defs_I2O_SUBCLASS_i960; defs_I2O_DPT_SG_FLAG_INTERPRET]).
End I2o_dev.

(** ** [linux/jffs2.h] *)

Module Jffs2.
Definition defs_JFFS2_OLD_MAGIC_BITMASK : list decl := [
  Defines [
    ("JFFS2_OLD_MAGIC_BITMASK", hex 0x1984); ("JFFS2_MAGIC_BITMASK", hex 0x1985);
    ("KSAMTIB_CIGAM_2SFFJ", hex 0x8519); ("JFFS2_EMPTY_BITMASK", hex 0xffff);
    ("JFFS2_DIRTY_BITMASK", hex 0x0000); ("JFFS2_SUM_MAGIC", hex 0x02851885)];
  Defines [
    ("JFFS2_MAX_NAME_LEN", dec 254); ("JFFS2_MIN_DATA_LEN", dec 128);
    ("JFFS2_COMPR_NONE", hex 0x00); ("JFFS2_COMPR_ZERO", hex 0x01);
    ("JFFS2_COMPR_RTIME", hex 0x02); ("JFFS2_COMPR_RUBINMIPS", hex 0x03);
    ("JFFS2_COMPR_COPY", hex 0x04); ("JFFS2_COMPR_DYNRUBIN", hex 0x05);
    ("JFFS2_COMPR_ZLIB", hex 0x06); ("JFFS2_COMPR_LZO", hex 0x07);
    ("JFFS2_COMPAT_MASK", hex 0xc000); ("JFFS2_NODE_ACCURATE", hex 0x2000);
    ("JFFS2_FEATURE_INCOMPAT", hex 0xc000); ("JFFS2_FEATURE_ROCOMPAT", hex 0x8000);
    ("JFFS2_FEATURE_RWCOMPAT_COPY", hex 0x4000); ("JFFS2_FEATURE_RWCOMPAT_DELETE", hex 0x0000);
    ("JFFS2_NODETYPE_DIRENT", Or (Or (Id "JFFS2_FEATURE_INCOMPAT") (Id "JFFS2_NODE_ACCURATE")) (dec 1));
    ("JFFS2_NODETYPE_INODE", Or (Or (Id "JFFS2_FEATURE_INCOMPAT") (Id "JFFS2_NODE_ACCURATE")) (dec 2));
    ("JFFS2_NODETYPE_CLEANMARKER", Or (Or (Id "JFFS2_FEATURE_RWCOMPAT_DELETE") (Id "JFFS2_NODE_ACCURATE")) (dec 3));
    ("JFFS2_NODETYPE_PADDING", Or (Or (Id "JFFS2_FEATURE_RWCOMPAT_DELETE") (Id "JFFS2_NODE_ACCURATE")) (dec 4));
    ("JFFS2_NODETYPE_SUMMARY", Or (Or (Id "JFFS2_FEATURE_RWCOMPAT_DELETE") (Id "JFFS2_NODE_ACCURATE")) (dec 6));
    ("JFFS2_NODETYPE_XATTR", Or (Or (Id "JFFS2_FEATURE_INCOMPAT") (Id "JFFS2_NODE_ACCURATE")) (dec 8));
    ("JFFS2_NODETYPE_XREF", Or (Or (Id "JFFS2_FEATURE_INCOMPAT") (Id "JFFS2_NODE_ACCURATE")) (dec 9));
    ("JFFS2_XPREFIX_USER", dec 1); ("JFFS2_XPREFIX_SECURITY", dec 2);
    ("JFFS2_XPREFIX_ACL_ACCESS", dec 3); ("JFFS2_XPREFIX_ACL_DEFAULT", dec 4);
    ("JFFS2_XPREFIX_TRUSTED", dec 5); ("JFFS2_ACL_VERSION", hex 0x0001)]].
Definition header : header :=
  Header "linux/jffs2.h" [] (concat [
    defs_JFFS2_OLD_MAGIC_BITMASK]).
End Jffs2.

(** ** [linux/magic.h] *)

Module Magic.
Definition defs_ADFS_SUPER_MAGIC : list decl := [
  Defines [
    ("ADFS_SUPER_MAGIC", hex 0xadf5); ("AFFS_SUPER_MAGIC", hex 0xadff);
    ("AFS_SUPER_MAGIC", hex 0x5346414F); ("AUTOFS_SUPER_MAGIC", hex 0x0187);
    ("CODA_SUPER_MAGIC", hex 0x73757245); ("CRAMFS_MAGIC", hex 0x28cd3d45);
    ("CRAMFS_MAGIC_WEND", hex 0x453dcd28); ("DEBUGFS_MAGIC", hex 0x64626720);
    ("SECURITYFS_MAGIC", hex 0x73636673); ("SELINUX_MAGIC", hex 0xf97cff8c);
    ("SMACK_MAGIC", hex 0x43415d53); ("RAMFS_MAGIC", hex 0x858458f6);
    ("TMPFS_MAGIC", hex 0x01021994); ("HUGETLBFS_MAGIC", hex 0x958458f6);
    ("SQUASHFS_MAGIC", hex 0x73717368); ("ECRYPTFS_SUPER_MAGIC", hex 0xf15f);
    ("EFS_SUPER_MAGIC", hex 0x414A53); ("EXT2_SUPER_MAGIC", hex 0xEF53);
    ("EXT3_SUPER_MAGIC", hex 0xEF53); ("XENFS_SUPER_MAGIC", hex 0xabba1974);
    ("EXT4_SUPER_MAGIC", hex 0xEF53); ("BTRFS_SUPER_MAGIC", hex 0x9123683E);
    ("NILFS_SUPER_MAGIC", hex 0x3434); ("F2FS_SUPER_MAGIC", hex 0xF2F52010);
    ("HPFS_SUPER_MAGIC", hex 0xf995e849); ("ISOFS_SUPER_MAGIC", hex 0x9660);
    ("JFFS2_SUPER_MAGIC", hex 0x72b6); ("PSTOREFS_MAGIC", hex 0x6165676C);
    ("EFIVARFS_MAGIC", hex 0xde5e81e4); ("HOSTFS_SUPER_MAGIC", hex 0x00c0ffee);
    ("MINIX_SUPER_MAGIC", hex 0x137F); ("MINIX_SUPER_MAGIC2", hex 0x138F);
    ("MINIX2_SUPER_MAGIC", hex 0x2468); ("MINIX2_SUPER_MAGIC2", hex 0x2478);
    ("MINIX3_SUPER_MAGIC", hex 0x4d5a); ("MSDOS_SUPER_MAGIC", hex 0x4d44);
    ("NCP_SUPER_MAGIC", hex 0x564c); ("NFS_SUPER_MAGIC", hex 0x6969);
    ("OPENPROM_SUPER_MAGIC", hex 0x9fa1); ("QNX4_SUPER_MAGIC", hex 0x002f);
    ("QNX6_SUPER_MAGIC", hex 0x68191122); ("REISERFS_SUPER_MAGIC", hex 0x52654973)]].
Definition defs_SDCARDFS_SUPER_MAGIC : list decl := [
  Defines [
    ("SDCARDFS_SUPER_MAGIC", hex 0x5dca2df5); ("SMB_SUPER_MAGIC", hex 0x517B);
    ("CGROUP_SUPER_MAGIC", hex 0x27e0eb); ("CGROUP2_SUPER_MAGIC", hex 0x63677270);
    ("STACK_END_MAGIC", hex 0x57AC6E9D); ("TRACEFS_MAGIC", hex 0x74726163);
    ("V9FS_MAGIC", hex 0x01021997); ("BDEVFS_MAGIC", hex 0x62646576);
    ("BINFMTFS_MAGIC", hex 0x42494e4d); ("DEVPTS_SUPER_MAGIC", hex 0x1cd1);
    ("FUTEXFS_SUPER_MAGIC", hex 0xBAD1DEA); ("PIPEFS_MAGIC", hex 0x50495045);
    ("PROC_SUPER_MAGIC", hex 0x9fa0); ("SOCKFS_MAGIC", hex 0x534F434B);
    ("SYSFS_MAGIC", hex 0x62656572); ("USBDEVICE_SUPER_MAGIC", hex 0x9fa2);
    ("MTD_INODE_FS_MAGIC", hex 0x11307854); ("ANON_INODE_FS_MAGIC", hex 0x09041934);
    ("BTRFS_TEST_MAGIC", hex 0x73727279); ("NSFS_MAGIC", hex 0x6e736673);
    ("BPF_FS_MAGIC", hex 0xcafe4a11); ("BALLOON_KVM_MAGIC", hex 0x13661366);
    ("ZSMALLOC_MAGIC", hex 0x58295829)]].
Definition header : header :=
  Header "linux/magic.h" [] (concat [
    defs_ADFS_SUPER_MAGIC; defs_SDCARDFS_SUPER_MAGIC]).
End Magic.

(** ** [linux/minix_fs.h] *)

Module Minix_fs.
Definition defs_MINIX_ROOT_INO : list decl := [
  Defines [
    ("MINIX_ROOT_INO", dec 1); ("MINIX_LINK_MAX", dec 250); ("MINIX2_LINK_MAX", dec 65530);
    ("MINIX_I_MAP_SLOTS", dec 8); ("MINIX_Z_MAP_SLOTS", dec 64); ("MINIX_VALID_FS", hex 0x0001);
    ("MINIX_ERROR_FS", hex 0x0002)]].
Definition header : header :=
  Header "linux/minix_fs.h" [] (concat [
    defs_MINIX_ROOT_INO]).
End Minix_fs.

(** ** [linux/mmc/core.h] *)

Module Mmc_core.
Definition defs_MMC_RSP_PRESENT : list decl := [
  Defines [
    ("MMC_RSP_PRESENT", Shl (dec 1) (dec 0)); ("MMC_RSP_136", Shl (dec 1) (dec 1));
    ("MMC_RSP_CRC", Shl (dec 1) (dec 2)); ("MMC_RSP_BUSY", Shl (dec 1) (dec 3));
    ("MMC_RSP_OPCODE", Shl (dec 1) (dec 4)); ("MMC_CMD_MASK", Shl (dec 3) (dec 5));
    ("MMC_CMD_AC", Shl (dec 0) (dec 5)); ("MMC_CMD_ADTC", Shl (dec 1) (dec 5));
    ("MMC_CMD_BC", Shl (dec 2) (dec 5)); ("MMC_CMD_BCR", Shl (dec 3) (dec 5));
    ("MMC_RSP_SPI_S1", Shl (dec 1) (dec 7)); ("MMC_RSP_SPI_S2", Shl (dec 1) (dec 8));
    ("MMC_RSP_SPI_B4", Shl (dec 1) (dec 9)); ("MMC_RSP_SPI_BUSY", Shl (dec 1) (dec 10))];
  Defines [
    ("MMC_RSP_NONE", dec 0);
    ("MMC_RSP_R1", Or (Or (Id "MMC_RSP_PRESENT") (Id "MMC_RSP_CRC")) (Id "MMC_RSP_OPCODE"));
    ("MMC_RSP_R1B", Or (Or (Or (Id "MMC_RSP_PRESENT") (Id "MMC_RSP_CRC")) (Id "MMC_RSP_OPCODE")) (Id "MMC_RSP_BUSY"));
    ("MMC_RSP_R2", Or (Or (Id "MMC_RSP_PRESENT") (Id "MMC_RSP_136")) (Id "MMC_RSP_CRC"));
    ("MMC_RSP_R3", Id "MMC_RSP_PRESENT"); ("MMC_RSP_R4", Id "MMC_RSP_PRESENT");
    ("MMC_RSP_R5", Or (Or (Id "MMC_RSP_PRESENT") (Id "MMC_RSP_CRC")) (Id "MMC_RSP_OPCODE"));
    ("MMC_RSP_R6", Or (Or (Id "MMC_RSP_PRESENT") (Id "MMC_RSP_CRC")) (Id "MMC_RSP_OPCODE"));
    ("MMC_RSP_R7", Or (Or (Id "MMC_RSP_PRESENT") (Id "MMC_RSP_CRC")) (Id "MMC_RSP_OPCODE"))]].
Definition header : header :=
  Header "linux/mmc/core.h" [] (concat [
    defs_MMC_RSP_PRESENT]).
End Mmc_core.

(** ** [linux/mmc/mmc.h] *)

Module Mmc_mmc.
Definition defs_MMC_GO_IDLE_STATE : list decl := [
  Defines [
    ("MMC_GO_IDLE_STATE", dec 0); ("MMC_SEND_OP_COND", dec 1); ("MMC_ALL_SEND_CID", dec 2);
    ("MMC_SET_RELATIVE_ADDR", dec 3); ("MMC_SET_DSR", dec 4); ("MMC_SLEEP_AWAKE", dec 5);
    ("MMC_SWITCH", dec 6); ("MMC_SELECT_CARD", dec 7); ("MMC_SEND_EXT_CSD", dec 8);
    ("MMC_SEND_CSD", dec 9); ("MMC_SEND_CID", dec 10); ("MMC_READ_DAT_UNTIL_STOP", dec 11);
    ("MMC_STOP_TRANSMISSION", dec 12); ("MMC_SEND_STATUS", dec 13); ("MMC_BUS_TEST_R", dec 14);
    ("MMC_GO_INACTIVE_STATE", dec 15); ("MMC_BUS_TEST_W", dec 19); ("MMC_SPI_READ_OCR", dec 58);
    ("MMC_SPI_CRC_ON_OFF", dec 59); ("MMC_SET_BLOCKLEN", dec 16);
    ("MMC_READ_SINGLE_BLOCK", dec 17); ("MMC_READ_MULTIPLE_BLOCK", dec 18);
    ("MMC_SEND_TUNING_BLOCK", dec 19); ("MMC_SEND_TUNING_BLOCK_HS200", dec 21);
    ("MMC_SEND_TUNING_BLOCK_HS400", Id "MMC_SEND_TUNING_BLOCK_HS200");
    ("MMC_TUNING_BLK_PATTERN_4BIT_SIZE", dec 64); ("MMC_TUNING_BLK_PATTERN_8BIT_SIZE", dec 128);
    ("MMC_WRITE_DAT_UNTIL_STOP", dec 20); ("MMC_SET_BLOCK_COUNT", dec 23);
    ("MMC_WRITE_BLOCK", dec 24); ("MMC_WRITE_MULTIPLE_BLOCK", dec 25);
    ("MMC_PROGRAM_CID", dec 26); ("MMC_PROGRAM_CSD", dec 27); ("MMC_SET_WRITE_PROT", dec 28);
    ("MMC_CLR_WRITE_PROT", dec 29); ("MMC_SEND_WRITE_PROT", dec 30);
    ("MMC_ERASE_GROUP_START", dec 35); ("MMC_ERASE_GROUP_END", dec 36); ("MMC_ERASE", dec 38);
    ("MMC_FAST_IO", dec 39); ("MMC_GO_IRQ_STATE", dec 40); ("MMC_LOCK_UNLOCK", dec 42);
    ("MMC_APP_CMD", dec 55); ("MMC_GEN_CMD", dec 56)]].
Definition header : header :=
  Header "linux/mmc/mmc.h" [] (concat [
    defs_MMC_GO_IDLE_STATE]).
End Mmc_mmc.

(** ** [linux/msdos_fs.h] *)

Module Msdos_fs.
Definition defs_MSDOS_ROOT_INO : list decl := [
  Defines [
    ("MSDOS_ROOT_INO", dec 1); ("MSDOS_FSINFO_INO", dec 2); ("MSDOS_DIR_BITS", dec 5);
    ("FAT_MAX_DIR_ENTRIES", dec 65536);
    ("FAT_MAX_DIR_SIZE", Shl (Id "FAT_MAX_DIR_ENTRIES") (Id "MSDOS_DIR_BITS"));
    ("ATTR_NONE", dec 0); ("ATTR_RO", dec 1); ("ATTR_HIDDEN", dec 2); ("ATTR_SYS", dec 4);
    ("ATTR_VOLUME", dec 8); ("ATTR_DIR", dec 16); ("ATTR_ARCH", dec 32);
    ("ATTR_UNUSED", Or (Or (Or (Id "ATTR_VOLUME") (Id "ATTR_ARCH")) (Id "ATTR_SYS")) (Id "ATTR_HIDDEN"));
    ("ATTR_EXT", Or (Or (Or (Id "ATTR_RO") (Id "ATTR_HIDDEN")) (Id "ATTR_SYS")) (Id "ATTR_VOLUME"));
    ("CASE_LOWER_BASE", dec 8); ("CASE_LOWER_EXT", dec 16); ("DELETED_FLAG", hex 0xe5);
    ("FAT_LFN_LEN", dec 255); ("MSDOS_NAME", dec 11); ("MSDOS_SLOTS", dec 21)]].
Definition defs_FAT_START_ENT : list decl := [
  Defines [
    ("FAT_START_ENT", dec 2); ("MAX_FAT12", hex 0xFF4); ("MAX_FAT16", hex 0xFFF4);
    ("MAX_FAT32", hex 0x0FFFFFF6)]].
Definition defs_BAD_FAT12 : list decl := [
  Defines [
    ("BAD_FAT12", hex 0xFF7); ("BAD_FAT16", hex 0xFFF7); ("BAD_FAT32", hex 0x0FFFFFF7);
    ("EOF_FAT12", hex 0xFFF); ("EOF_FAT16", hex 0xFFFF); ("EOF_FAT32", hex 0x0FFFFFFF);
    ("FAT_ENT_FREE", dec 0); ("FAT_ENT_BAD", Id "BAD_FAT32"); ("FAT_ENT_EOF", Id "EOF_FAT32");
    ("FAT_FSINFO_SIG1", hex 0x41615252); ("FAT_FSINFO_SIG2", hex 0x61417272);
    ("FAT_STATE_DIRTY", hex 0x01)]].
Definition header : header :=
  Header "linux/msdos_fs.h" [] (concat [
    defs_MSDOS_ROOT_INO; defs_FAT_START_ENT; defs_BAD_FAT12]).
End Msdos_fs.

(** ** [linux/mtio.h] *)

Module Mtio.
Definition defs_MTRESET : list decl := [
  Defines [
    ("MTRESET", dec 0); ("MTFSF", dec 1); ("MTBSF", dec 2); ("MTFSR", dec 3); ("MTBSR", dec 4);
    ("MTWEOF", dec 5); ("MTREW", dec 6); ("MTOFFL", dec 7); ("MTNOP", dec 8); ("MTRETEN", dec 9);
    ("MTBSFM", dec 10); ("MTFSFM", dec 11); ("MTEOM", dec 12); ("MTERASE", dec 13);
    ("MTRAS1", dec 14); ("MTRAS2", dec 15); ("MTRAS3", dec 16); ("MTSETBLK", dec 20);
    ("MTSETDENSITY", dec 21); ("MTSEEK", dec 22); ("MTTELL", dec 23); ("MTSETDRVBUFFER", dec 24);
    ("MTFSS", dec 25); ("MTBSS", dec 26); ("MTWSM", dec 27); ("MTLOCK", dec 28);
    ("MTUNLOCK", dec 29); ("MTLOAD", dec 30); ("MTUNLOAD", dec 31); ("MTCOMPRESSION", dec 32);
    ("MTSETPART", dec 33); ("MTMKPART", dec 34); ("MTWEOFI", dec 35)]].
Definition defs_MT_ISUNKNOWN : list decl := [
  Defines [
    ("MT_ISUNKNOWN", hex 0x01); ("MT_ISQIC02", hex 0x02); ("MT_ISWT5150", hex 0x03);
    ("MT_ISARCHIVE_5945L2", hex 0x04); ("MT_ISCMSJ500", hex 0x05); ("MT_ISTDC3610", hex 0x06);
    ("MT_ISARCHIVE_VP60I", hex 0x07); ("MT_ISARCHIVE_2150L", hex 0x08);
    ("MT_ISARCHIVE_2060L", hex 0x09); ("MT_ISARCHIVESC499", hex 0x0A);
    ("MT_ISQIC02_ALL_FEATURES", hex 0x0F); ("MT_ISWT5099EEN24", hex 0x11);
    ("MT_ISTEAC_MT2ST", hex 0x12); ("MT_ISEVEREX_FT40A", hex 0x32); ("MT_ISDDS1", hex 0x51);
    ("MT_ISDDS2", hex 0x52); ("MT_ISONSTREAM_SC", hex 0x61); ("MT_ISSCSI1", hex 0x71);
    ("MT_ISSCSI2", hex 0x72)]].
Definition defs_MT_ST_BLKSIZE_SHIFT : list decl := [
  Defines [
    ("MT_ST_BLKSIZE_SHIFT", dec 0); ("MT_ST_BLKSIZE_MASK", hex 0xffffff);
    ("MT_ST_DENSITY_SHIFT", dec 24); ("MT_ST_DENSITY_MASK", hex 0xff000000);
    ("MT_ST_SOFTERR_SHIFT", dec 0); ("MT_ST_SOFTERR_MASK", hex 0xffff);
    ("MT_ST_OPTIONS", hex 0xf0000000); ("MT_ST_BOOLEANS", hex 0x10000000);
    ("MT_ST_SETBOOLEANS", hex 0x30000000); ("MT_ST_CLEARBOOLEANS", hex 0x40000000);
    ("MT_ST_WRITE_THRESHOLD", hex 0x20000000); ("MT_ST_DEF_BLKSIZE", hex 0x50000000);
    ("MT_ST_DEF_OPTIONS", hex 0x60000000); ("MT_ST_TIMEOUTS", hex 0x70000000);
    ("MT_ST_SET_TIMEOUT", Or (Id "MT_ST_TIMEOUTS") (hex 0x000000));
    ("MT_ST_SET_LONG_TIMEOUT", Or (Id "MT_ST_TIMEOUTS") (hex 0x100000));
    ("MT_ST_SET_CLN", hex 0x80000000); ("MT_ST_BUFFER_WRITES", hex 0x1);
    ("MT_ST_ASYNC_WRITES", hex 0x2); ("MT_ST_READ_AHEAD", hex 0x4); ("MT_ST_DEBUGGING", hex 0x8);
    ("MT_ST_TWO_FM", hex 0x10); ("MT_ST_FAST_MTEOM", hex 0x20); ("MT_ST_AUTO_LOCK", hex 0x40);
    ("MT_ST_DEF_WRITES", hex 0x80); ("MT_ST_CAN_BSR", hex 0x100);
    ("MT_ST_NO_BLKLIMS", hex 0x200); ("MT_ST_CAN_PARTITIONS", hex 0x400);
    ("MT_ST_SCSI2LOGICAL", hex 0x800); ("MT_ST_SYSV", hex 0x1000); ("MT_ST_NOWAIT", hex 0x2000);
    ("MT_ST_SILI", hex 0x4000); ("MT_ST_NOWAIT_EOF", hex 0x8000);
    ("MT_ST_CLEAR_DEFAULT", hex 0xfffff);
    ("MT_ST_DEF_DENSITY", Or (Id "MT_ST_DEF_OPTIONS") (hex 0x100000));
    ("MT_ST_DEF_COMPRESSION", Or (Id "MT_ST_DEF_OPTIONS") (hex 0x200000));
    ("MT_ST_DEF_DRVBUFFER", Or (Id "MT_ST_DEF_OPTIONS") (hex 0x300000));
    ("MT_ST_HPLOADER_OFFSET", dec 10000)]].
Definition header : header :=
  Header "linux/mtio.h" [] (concat [
    defs_MTRESET; defs_MT_ISUNKNOWN; defs_MT_ST_BLKSIZE_SHIFT]).
End Mtio.

(** ** [linux/nbd.h] *)

Module Nbd.
Definition enum_NBD_CMD_READ : list decl := [
  Enum [
    ("NBD_CMD_READ", Some (dec 0)); ("NBD_CMD_WRITE", Some (dec 1));
    ("NBD_CMD_DISC", Some (dec 2)); ("NBD_CMD_FLUSH", Some (dec 3));
    ("NBD_CMD_TRIM", Some (dec 4))];
  Defines [
    ("NBD_FLAG_HAS_FLAGS", Shl (dec 1) (dec 0)); ("NBD_FLAG_READ_ONLY", Shl (dec 1) (dec 1));
    ("NBD_FLAG_SEND_FLUSH", Shl (dec 1) (dec 2)); ("NBD_FLAG_SEND_TRIM", Shl (dec 1) (dec 5))]].
Definition header : header :=
  Header "linux/nbd.h" [] (concat [
    enum_NBD_CMD_READ]).
End Nbd.

(** ** [linux/ndctl.h] *)

Module Ndctl.
Definition enum_ND_CMD_IMPLEMENTED : list decl := [
  Enum [
    ("ND_CMD_IMPLEMENTED", Some (dec 0)); ("ND_CMD_ARS_CAP", Some (dec 1));
    ("ND_CMD_ARS_START", Some (dec 2)); ("ND_CMD_ARS_STATUS", Some (dec 3));
    ("ND_CMD_SMART", Some (dec 1)); ("ND_CMD_SMART_THRESHOLD", Some (dec 2));
    ("ND_CMD_DIMM_FLAGS", Some (dec 3)); ("ND_CMD_GET_CONFIG_SIZE", Some (dec 4));
    ("ND_CMD_GET_CONFIG_DATA", Some (dec 5)); ("ND_CMD_SET_CONFIG_DATA", Some (dec 6));
    ("ND_CMD_VENDOR_EFFECT_LOG_SIZE", Some (dec 7)); ("ND_CMD_VENDOR_EFFECT_LOG", Some (dec 8));
    ("ND_CMD_VENDOR", Some (dec 9))]].
Definition defs_ND_DEVICE_DIMM : list decl := [
  Defines [
    ("ND_DEVICE_DIMM", dec 1); ("ND_DEVICE_REGION_PMEM", dec 2); ("ND_DEVICE_REGION_BLK", dec 3);
    ("ND_DEVICE_NAMESPACE_IO", dec 4); ("ND_DEVICE_NAMESPACE_PMEM", dec 5);
    ("ND_DEVICE_NAMESPACE_BLK", dec 6)];
  Enum [
    ("ND_DRIVER_DIMM", Some (Shl (dec 1) (Id "ND_DEVICE_DIMM")));
    ("ND_DRIVER_REGION_PMEM", Some (Shl (dec 1) (Id "ND_DEVICE_REGION_PMEM")));
    ("ND_DRIVER_REGION_BLK", Some (Shl (dec 1) (Id "ND_DEVICE_REGION_BLK")));
    ("ND_DRIVER_NAMESPACE_IO", Some (Shl (dec 1) (Id "ND_DEVICE_NAMESPACE_IO")));
    ("ND_DRIVER_NAMESPACE_PMEM", Some (Shl (dec 1) (Id "ND_DEVICE_NAMESPACE_PMEM")));
    ("ND_DRIVER_NAMESPACE_BLK", Some (Shl (dec 1) (Id "ND_DEVICE_NAMESPACE_BLK")))]].
Definition header : header :=
  Header "linux/ndctl.h" [] (concat [
    enum_ND_CMD_IMPLEMENTED; defs_ND_DEVICE_DIMM]).
End Ndctl.

(** ** [linux/nfs.h] *)

Module Nfs.
Definition defs_NFS_PROGRAM : list decl := [
  Defines [
    ("NFS_PROGRAM", dec 100003); ("NFS_PORT", dec 2049); ("NFS_MAXDATA", dec 8192);
    ("NFS_MAXPATHLEN", dec 1024); ("NFS_MAXNAMLEN", dec 255); ("NFS_MAXGROUPS", dec 16);
    ("NFS_FHSIZE", dec 32); ("NFS_COOKIESIZE", dec 4); ("NFS_FIFO_DEV", Neg (dec 1));
    ("NFSMODE_FMT", oct 61440); ("NFSMODE_DIR", oct 16384); ("NFSMODE_CHR", oct 8192);
    ("NFSMODE_BLK", oct 24576); ("NFSMODE_REG", oct 32768); ("NFSMODE_LNK", oct 40960);
    ("NFSMODE_SOCK", oct 49152); ("NFSMODE_FIFO", oct 4096); ("NFS_MNT_PROGRAM", dec 100005);
    ("NFS_MNT_VERSION", dec 1); ("NFS_MNT3_VERSION", dec 3)]].
Definition enum_nfs_stat : list decl := [
  Enum [
    ("NFS_OK", Some (dec 0)); ("NFSERR_PERM", Some (dec 1)); ("NFSERR_NOENT", Some (dec 2));
    ("NFSERR_IO", Some (dec 5)); ("NFSERR_NXIO", Some (dec 6)); ("NFSERR_EAGAIN", Some (dec 11));
    ("NFSERR_ACCES", Some (dec 13)); ("NFSERR_EXIST", Some (dec 17));
    ("NFSERR_XDEV", Some (dec 18)); ("NFSERR_NODEV", Some (dec 19));
    ("NFSERR_NOTDIR", Some (dec 20)); ("NFSERR_ISDIR", Some (dec 21));
    ("NFSERR_INVAL", Some (dec 22)); ("NFSERR_FBIG", Some (dec 27));
    ("NFSERR_NOSPC", Some (dec 28)); ("NFSERR_ROFS", Some (dec 30));
    ("NFSERR_MLINK", Some (dec 31)); ("NFSERR_OPNOTSUPP", Some (dec 45));
    ("NFSERR_NAMETOOLONG", Some (dec 63)); ("NFSERR_NOTEMPTY", Some (dec 66));
    ("NFSERR_DQUOT", Some (dec 69)); ("NFSERR_STALE", Some (dec 70));
    ("NFSERR_REMOTE", Some (dec 71)); ("NFSERR_WFLUSH", Some (dec 99));
    ("NFSERR_BADHANDLE", Some (dec 10001)); ("NFSERR_NOT_SYNC", Some (dec 10002));
    ("NFSERR_BAD_COOKIE", Some (dec 10003)); ("NFSERR_NOTSUPP", Some (dec 10004));
    ("NFSERR_TOOSMALL", Some (dec 10005)); ("NFSERR_SERVERFAULT", Some (dec 10006));
    ("NFSERR_BADTYPE", Some (dec 10007)); ("NFSERR_JUKEBOX", Some (dec 10008));
    ("NFSERR_SAME", Some (dec 10009)); ("NFSERR_DENIED", Some (dec 10010));
    ("NFSERR_EXPIRED", Some (dec 10011)); ("NFSERR_LOCKED", Some (dec 10012));
    ("NFSERR_GRACE", Some (dec 10013)); ("NFSERR_FHEXPIRED", Some (dec 10014));
    ("NFSERR_SHARE_DENIED", Some (dec 10015)); ("NFSERR_WRONGSEC", Some (dec 10016));
    ("NFSERR_CLID_INUSE", Some (dec 10017)); ("NFSERR_RESOURCE", Some (dec 10018));
    ("NFSERR_MOVED", Some (dec 10019)); ("NFSERR_NOFILEHANDLE", Some (dec 10020));
    ("NFSERR_MINOR_VERS_MISMATCH", Some (dec 10021));
    ("NFSERR_STALE_CLIENTID", Some (dec 10022)); ("NFSERR_STALE_STATEID", Some (dec 10023));
    ("NFSERR_OLD_STATEID", Some (dec 10024)); ("NFSERR_BAD_STATEID", Some (dec 10025));
    ("NFSERR_BAD_SEQID", Some (dec 10026)); ("NFSERR_NOT_SAME", Some (dec 10027));
    ("NFSERR_LOCK_RANGE", Some (dec 10028)); ("NFSERR_SYMLINK", Some (dec 10029));
    ("NFSERR_RESTOREFH", Some (dec 10030)); ("NFSERR_LEASE_MOVED", Some (dec 10031));
    ("NFSERR_ATTRNOTSUPP", Some (dec 10032)); ("NFSERR_NO_GRACE", Some (dec 10033));
    ("NFSERR_RECLAIM_BAD", Some (dec 10034)); ("NFSERR_RECLAIM_CONFLICT", Some (dec 10035));
    ("NFSERR_BAD_XDR", Some (dec 10036)); ("NFSERR_LOCKS_HELD", Some (dec 10037));
    ("NFSERR_OPENMODE", Some (dec 10038)); ("NFSERR_BADOWNER", Some (dec 10039));
    ("NFSERR_BADCHAR", Some (dec 10040)); ("NFSERR_BADNAME", Some (dec 10041));
    ("NFSERR_BAD_RANGE", Some (dec 10042)); ("NFSERR_LOCK_NOTSUPP", Some (dec 10043));
    ("NFSERR_OP_ILLEGAL", Some (dec 10044)); ("NFSERR_DEADLOCK", Some (dec 10045));
    ("NFSERR_FILE_OPEN", Some (dec 10046)); ("NFSERR_ADMIN_REVOKED", Some (dec 10047));
    ("NFSERR_CB_PATH_DOWN", Some (dec 10048))];
  Enum [
    ("NFNON", Some (dec 0)); ("NFREG", Some (dec 1)); ("NFDIR", Some (dec 2));
    ("NFBLK", Some (dec 3)); ("NFCHR", Some (dec 4)); ("NFLNK", Some (dec 5));
    ("NFSOCK", Some (dec 6)); ("NFBAD", Some (dec 7)); ("NFFIFO", Some (dec 8))]].
Definition header : header :=
  Header "linux/nfs.h" [] (concat [
    defs_NFS_PROGRAM; enum_nfs_stat]).
End Nfs.

(** ** [linux/nfs2.h] *)

Module Nfs2.
Definition defs_NFS2_PORT : list decl := [
  Defines [
    ("NFS2_PORT", dec 2049); ("NFS2_MAXDATA", dec 8192); ("NFS2_MAXPATHLEN", dec 1024);
    ("NFS2_MAXNAMLEN", dec 255); ("NFS2_MAXGROUPS", dec 16); ("NFS2_FHSIZE", dec 32);
    ("NFS2_COOKIESIZE", dec 4); ("NFS2_FIFO_DEV", Neg (dec 1)); ("NFS2MODE_FMT", oct 61440);
    ("NFS2MODE_DIR", oct 16384); ("NFS2MODE_CHR", oct 8192); ("NFS2MODE_BLK", oct 24576);
    ("NFS2MODE_REG", oct 32768); ("NFS2MODE_LNK", oct 40960); ("NFS2MODE_SOCK", oct 49152);
    ("NFS2MODE_FIFO", oct 4096)];
  Enum [
    ("NF2NON", Some (dec 0)); ("NF2REG", Some (dec 1)); ("NF2DIR", Some (dec 2));
    ("NF2BLK", Some (dec 3)); ("NF2CHR", Some (dec 4)); ("NF2LNK", Some (dec 5));
    ("NF2SOCK", Some (dec 6)); ("NF2BAD", Some (dec 7)); ("NF2FIFO", Some (dec 8))]].
Definition defs_NFS2_VERSION : list decl := [
  Defines [
    ("NFS2_VERSION", dec 2); ("NFSPROC_NULL", dec 0); ("NFSPROC_GETATTR", dec 1);
    ("NFSPROC_SETATTR", dec 2); ("NFSPROC_ROOT", dec 3); ("NFSPROC_LOOKUP", dec 4);
    ("NFSPROC_READLINK", dec 5); ("NFSPROC_READ", dec 6); ("NFSPROC_WRITECACHE", dec 7);
    ("NFSPROC_WRITE", dec 8); ("NFSPROC_CREATE", dec 9); ("NFSPROC_REMOVE", dec 10);
    ("NFSPROC_RENAME", dec 11); ("NFSPROC_LINK", dec 12); ("NFSPROC_SYMLINK", dec 13);
    ("NFSPROC_MKDIR", dec 14); ("NFSPROC_RMDIR", dec 15); ("NFSPROC_READDIR", dec 16);
    ("NFSPROC_STATFS", dec 17)]].
Definition header : header :=
  Header "linux/nfs2.h" [] (concat [
    defs_NFS2_PORT; defs_NFS2_VERSION]).
End Nfs2.

(** ** [linux/nfs3.h] *)

Module Nfs3.
Definition defs_NFS3_PORT : list decl := [
  Defines [
    ("NFS3_PORT", dec 2049); ("NFS3_MAXDATA", dec 32768); ("NFS3_MAXPATHLEN", Id "PATH_MAX");
    ("NFS3_MAXNAMLEN", Id "NAME_MAX"); ("NFS3_MAXGROUPS", dec 16); ("NFS3_FHSIZE", dec 64);
    ("NFS3_COOKIESIZE", dec 4); ("NFS3_CREATEVERFSIZE", dec 8); ("NFS3_COOKIEVERFSIZE", dec 8);
    ("NFS3_WRITEVERFSIZE", dec 8); ("NFS3_FIFO_DEV", Neg (dec 1)); ("NFS3MODE_FMT", oct 61440);
    ("NFS3MODE_DIR", oct 16384); ("NFS3MODE_CHR", oct 8192); ("NFS3MODE_BLK", oct 24576);
    ("NFS3MODE_REG", oct 32768); ("NFS3MODE_LNK", oct 40960); ("NFS3MODE_SOCK", oct 49152);
    ("NFS3MODE_FIFO", oct 4096); ("NFS3_ACCESS_READ", hex 0x0001);
    ("NFS3_ACCESS_LOOKUP", hex 0x0002); ("NFS3_ACCESS_MODIFY", hex 0x0004);
    ("NFS3_ACCESS_EXTEND", hex 0x0008); ("NFS3_ACCESS_DELETE", hex 0x0010);
    ("NFS3_ACCESS_EXECUTE", hex 0x0020); ("NFS3_ACCESS_FULL", hex 0x003f)];
  Enum [
    ("NFS3_CREATE_UNCHECKED", Some (dec 0)); ("NFS3_CREATE_GUARDED", Some (dec 1));
    ("NFS3_CREATE_EXCLUSIVE", Some (dec 2))];
  Defines [
    ("NFS3_FSF_LINK", hex 0x0001); ("NFS3_FSF_SYMLINK", hex 0x0002);
    ("NFS3_FSF_HOMOGENEOUS", hex 0x0008); ("NFS3_FSF_CANSETTIME", hex 0x0010);
    ("NFS3_FSF_DEFAULT", hex 0x001B); ("NFS3_FSF_BILLYBOY", hex 0x0018);
    ("NFS3_FSF_READONLY", hex 0x0008)];
  Enum [
    ("NF3NON", Some (dec 0)); ("NF3REG", Some (dec 1)); ("NF3DIR", Some (dec 2));
    ("NF3BLK", Some (dec 3)); ("NF3CHR", Some (dec 4)); ("NF3LNK", Some (dec 5));
    ("NF3SOCK", Some (dec 6)); ("NF3FIFO", Some (dec 7)); ("NF3BAD", Some (dec 8))]].
Definition defs_NFS3_VERSION : list decl := [
  Defines [
    ("NFS3_VERSION", dec 3); ("NFS3PROC_NULL", dec 0); ("NFS3PROC_GETATTR", dec 1);
    ("NFS3PROC_SETATTR", dec 2); ("NFS3PROC_LOOKUP", dec 3); ("NFS3PROC_ACCESS", dec 4);
    ("NFS3PROC_READLINK", dec 5); ("NFS3PROC_READ", dec 6); ("NFS3PROC_WRITE", dec 7);
    ("NFS3PROC_CREATE", dec 8); ("NFS3PROC_MKDIR", dec 9); ("NFS3PROC_SYMLINK", dec 10);
    ("NFS3PROC_MKNOD", dec 11); ("NFS3PROC_REMOVE", dec 12); ("NFS3PROC_RMDIR", dec 13);
    ("NFS3PROC_RENAME", dec 14); ("NFS3PROC_LINK", dec 15); ("NFS3PROC_READDIR", dec 16);
    ("NFS3PROC_READDIRPLUS", dec 17); ("NFS3PROC_FSSTAT", dec 18); ("NFS3PROC_FSINFO", dec 19);
    ("NFS3PROC_PATHCONF", dec 20); ("NFS3PROC_COMMIT", dec 21); ("NFS_MNT3_VERSION", dec 3)]].
Definition header : header :=
  Header "linux/nfs3.h" [Limits.header] (concat [
    defs_NFS3_PORT; defs_NFS3_VERSION]).
End Nfs3.

(** ** [linux/nfs4.h] *)

Module Nfs4.
Definition defs_NFS4_BITMAP_SIZE : list decl := [
  Defines [
    ("NFS4_BITMAP_SIZE", dec 3); ("NFS4_VERIFIER_SIZE", dec 8);
    ("NFS4_STATEID_SEQID_SIZE", dec 4); ("NFS4_STATEID_OTHER_SIZE", dec 12);
    ("NFS4_STATEID_SIZE", Add (Id "NFS4_STATEID_SEQID_SIZE") (Id "NFS4_STATEID_OTHER_SIZE"));
    ("NFS4_FHSIZE", dec 128); ("NFS4_MAXPATHLEN", Id "PATH_MAX");
    ("NFS4_MAXNAMLEN", Id "NAME_MAX"); ("NFS4_OPAQUE_LIMIT", dec 1024);
    ("NFS4_MAX_SESSIONID_LEN", dec 16); ("NFS4_ACCESS_READ", hex 0x0001);
    ("NFS4_ACCESS_LOOKUP", hex 0x0002); ("NFS4_ACCESS_MODIFY", hex 0x0004);
    ("NFS4_ACCESS_EXTEND", hex 0x0008); ("NFS4_ACCESS_DELETE", hex 0x0010);
    ("NFS4_ACCESS_EXECUTE", hex 0x0020); ("NFS4_FH_PERSISTENT", hex 0x0000);
    ("NFS4_FH_NOEXPIRE_WITH_OPEN", hex 0x0001); ("NFS4_FH_VOLATILE_ANY", hex 0x0002);
    ("NFS4_FH_VOL_MIGRATION", hex 0x0004); ("NFS4_FH_VOL_RENAME", hex 0x0008);
    ("NFS4_OPEN_RESULT_CONFIRM", hex 0x0002); ("NFS4_OPEN_RESULT_LOCKTYPE_POSIX", hex 0x0004);
    ("NFS4_SHARE_ACCESS_MASK", hex 0x000F); ("NFS4_SHARE_ACCESS_READ", hex 0x0001);
    ("NFS4_SHARE_ACCESS_WRITE", hex 0x0002); ("NFS4_SHARE_ACCESS_BOTH", hex 0x0003);
    ("NFS4_SHARE_DENY_READ", hex 0x0001); ("NFS4_SHARE_DENY_WRITE", hex 0x0002);
    ("NFS4_SHARE_DENY_BOTH", hex 0x0003); ("NFS4_SHARE_WANT_MASK", hex 0xFF00);
    ("NFS4_SHARE_WANT_NO_PREFERENCE", hex 0x0000); ("NFS4_SHARE_WANT_READ_DELEG", hex 0x0100);
    ("NFS4_SHARE_WANT_WRITE_DELEG", hex 0x0200); ("NFS4_SHARE_WANT_ANY_DELEG", hex 0x0300);
    ("NFS4_SHARE_WANT_NO_DELEG", hex 0x0400); ("NFS4_SHARE_WANT_CANCEL", hex 0x0500);
    ("NFS4_SHARE_WHEN_MASK", hex 0xF0000);
    ("NFS4_SHARE_SIGNAL_DELEG_WHEN_RESRC_AVAIL", hex 0x10000);
    ("NFS4_SHARE_PUSH_DELEG_WHEN_UNCONTENDED", hex 0x20000); ("NFS4_CDFC4_FORE", hex 0x1);
    ("NFS4_CDFC4_BACK", hex 0x2); ("NFS4_CDFC4_BOTH", hex 0x3);
    ("NFS4_CDFC4_FORE_OR_BOTH", hex 0x3); ("NFS4_CDFC4_BACK_OR_BOTH", hex 0x7);
    ("NFS4_CDFS4_FORE", hex 0x1); ("NFS4_CDFS4_BACK", hex 0x2); ("NFS4_CDFS4_BOTH", hex 0x3);
    ("NFS4_SET_TO_SERVER_TIME", dec 0); ("NFS4_SET_TO_CLIENT_TIME", dec 1);
    ("NFS4_ACE_ACCESS_ALLOWED_ACE_TYPE", dec 0); ("NFS4_ACE_ACCESS_DENIED_ACE_TYPE", dec 1);
    ("NFS4_ACE_SYSTEM_AUDIT_ACE_TYPE", dec 2); ("NFS4_ACE_SYSTEM_ALARM_ACE_TYPE", dec 3);
    ("ACL4_SUPPORT_ALLOW_ACL", hex 0x01); ("ACL4_SUPPORT_DENY_ACL", hex 0x02);
    ("ACL4_SUPPORT_AUDIT_ACL", hex 0x04); ("ACL4_SUPPORT_ALARM_ACL", hex 0x08);
    ("NFS4_ACL_AUTO_INHERIT", hex 0x00000001); ("NFS4_ACL_PROTECTED", hex 0x00000002);
    ("NFS4_ACL_DEFAULTED", hex 0x00000004); ("NFS4_ACE_FILE_INHERIT_ACE", hex 0x00000001);
    ("NFS4_ACE_DIRECTORY_INHERIT_ACE", hex 0x00000002);
    ("NFS4_ACE_NO_PROPAGATE_INHERIT_ACE", hex 0x00000004);
    ("NFS4_ACE_INHERIT_ONLY_ACE", hex 0x00000008);
    ("NFS4_ACE_SUCCESSFUL_ACCESS_ACE_FLAG", hex 0x00000010);
    ("NFS4_ACE_FAILED_ACCESS_ACE_FLAG", hex 0x00000020);
    ("NFS4_ACE_IDENTIFIER_GROUP", hex 0x00000040); ("NFS4_ACE_INHERITED_ACE", hex 0x00000080);
    ("NFS4_ACE_READ_DATA", hex 0x00000001); ("NFS4_ACE_LIST_DIRECTORY", hex 0x00000001);
    ("NFS4_ACE_WRITE_DATA", hex 0x00000002); ("NFS4_ACE_ADD_FILE", hex 0x00000002);
    ("NFS4_ACE_APPEND_DATA", hex 0x00000004); ("NFS4_ACE_ADD_SUBDIRECTORY", hex 0x00000004);
    ("NFS4_ACE_READ_NAMED_ATTRS", hex 0x00000008);
    ("NFS4_ACE_WRITE_NAMED_ATTRS", hex 0x00000010); ("NFS4_ACE_EXECUTE", hex 0x00000020);
    ("NFS4_ACE_DELETE_CHILD", hex 0x00000040); ("NFS4_ACE_READ_ATTRIBUTES", hex 0x00000080);
    ("NFS4_ACE_WRITE_ATTRIBUTES", hex 0x00000100); ("NFS4_ACE_WRITE_RETENTION", hex 0x00000200);
    ("NFS4_ACE_WRITE_RETENTION_HOLD", hex 0x00000400); ("NFS4_ACE_DELETE", hex 0x00010000);
    ("NFS4_ACE_READ_ACL", hex 0x00020000); ("NFS4_ACE_WRITE_ACL", hex 0x00040000);
    ("NFS4_ACE_WRITE_OWNER", hex 0x00080000); ("NFS4_ACE_SYNCHRONIZE", hex 0x00100000);
    ("NFS4_ACE_GENERIC_READ", hex 0x00120081); ("NFS4_ACE_GENERIC_WRITE", hex 0x00160106);
    ("NFS4_ACE_GENERIC_EXECUTE", hex 0x001200A0); ("NFS4_ACE_MASK_ALL", hex 0x001F01FF);
    ("EXCHGID4_FLAG_SUPP_MOVED_REFER", hex 0x00000001);
    ("EXCHGID4_FLAG_SUPP_MOVED_MIGR", hex 0x00000002);
    ("EXCHGID4_FLAG_BIND_PRINC_STATEID", hex 0x00000100);
    ("EXCHGID4_FLAG_USE_NON_PNFS", hex 0x00010000);
    ("EXCHGID4_FLAG_USE_PNFS_MDS", hex 0x00020000);
    ("EXCHGID4_FLAG_USE_PNFS_DS", hex 0x00040000); ("EXCHGID4_FLAG_MASK_PNFS", hex 0x00070000);
    ("EXCHGID4_FLAG_UPD_CONFIRMED_REC_A", hex 0x40000000);
    ("EXCHGID4_FLAG_CONFIRMED_R", hex 0x80000000)];
  Defines [
    ("EXCHGID4_FLAG_MASK_A", hex 0x40070103); ("EXCHGID4_FLAG_MASK_R", hex 0x80070103);
    ("SEQ4_STATUS_CB_PATH_DOWN", hex 0x00000001);
    ("SEQ4_STATUS_CB_GSS_CONTEXTS_EXPIRING", hex 0x00000002);
    ("SEQ4_STATUS_CB_GSS_CONTEXTS_EXPIRED", hex 0x00000004);
    ("SEQ4_STATUS_EXPIRED_ALL_STATE_REVOKED", hex 0x00000008);
    ("SEQ4_STATUS_EXPIRED_SOME_STATE_REVOKED", hex 0x00000010);
    ("SEQ4_STATUS_ADMIN_STATE_REVOKED", hex 0x00000020);
    ("SEQ4_STATUS_RECALLABLE_STATE_REVOKED", hex 0x00000040);
    ("SEQ4_STATUS_LEASE_MOVED", hex 0x00000080);
    ("SEQ4_STATUS_RESTART_RECLAIM_NEEDED", hex 0x00000100);
    ("SEQ4_STATUS_CB_PATH_DOWN_SESSION", hex 0x00000200);
    ("SEQ4_STATUS_BACKCHANNEL_FAULT", hex 0x00000400); ("NFS4_SECINFO_STYLE4_CURRENT_FH", dec 0);
    ("NFS4_SECINFO_STYLE4_PARENT", dec 1)]].
Definition header : header :=
  Header "linux/nfs4.h" [Limits.header] (concat [
    defs_NFS4_BITMAP_SIZE]).
End Nfs4.

(** ** [linux/nfs4_mount.h] *)

Module Nfs4_mount.
Definition defs_NFS4_MOUNT_SOFT : list decl := [
  Defines [
    ("NFS4_MOUNT_SOFT", hex 0x0001); ("NFS4_MOUNT_INTR", hex 0x0002);
    ("NFS4_MOUNT_NOCTO", hex 0x0010); ("NFS4_MOUNT_NOAC", hex 0x0020);
    ("NFS4_MOUNT_STRICTLOCK", hex 0x1000); ("NFS4_MOUNT_UNSHARED", hex 0x8000);
    ("NFS4_MOUNT_FLAGMASK", hex 0x9033)]].
Definition header : header :=
  Header "linux/nfs4_mount.h" [] (concat [
    defs_NFS4_MOUNT_SOFT]).
End Nfs4_mount.

(** ** [linux/nfs_fs.h] *)

Module Nfs_fs.
Definition defs_NFS_DEF_UDP_TIMEO : list decl := [
  Defines [
    ("NFS_DEF_UDP_TIMEO", dec 11); ("NFS_DEF_UDP_RETRANS", dec 3);
    ("NFS_DEF_TCP_TIMEO", dec 600); ("NFS_DEF_TCP_RETRANS", dec 2);
    ("NFS_MAX_UDP_TIMEOUT", Mul (dec 60) (Id "HZ"));
    ("NFS_MAX_TCP_TIMEOUT", Mul (dec 600) (Id "HZ")); ("NFS_DEF_ACREGMIN", dec 3);
    ("NFS_DEF_ACREGMAX", dec 60); ("NFS_DEF_ACDIRMIN", dec 30); ("NFS_DEF_ACDIRMAX", dec 60)];
  Defines [
    ("FLUSH_SYNC", dec 1); ("FLUSH_STABLE", dec 4); ("FLUSH_LOWPRI", dec 8);
    ("FLUSH_HIGHPRI", dec 16); ("FLUSH_COND_STABLE", dec 32)];
  Defines [
    ("NFSDBG_VFS", hex 0x0001); ("NFSDBG_DIRCACHE", hex 0x0002);
    ("NFSDBG_LOOKUPCACHE", hex 0x0004); ("NFSDBG_PAGECACHE", hex 0x0008);
    ("NFSDBG_PROC", hex 0x0010); ("NFSDBG_XDR", hex 0x0020); ("NFSDBG_FILE", hex 0x0040);
    ("NFSDBG_ROOT", hex 0x0080); ("NFSDBG_CALLBACK", hex 0x0100); ("NFSDBG_CLIENT", hex 0x0200);
    ("NFSDBG_MOUNT", hex 0x0400); ("NFSDBG_FSCACHE", hex 0x0800); ("NFSDBG_PNFS", hex 0x1000);
    ("NFSDBG_PNFS_LD", hex 0x2000); ("NFSDBG_STATE", hex 0x4000); ("NFSDBG_ALL", hex 0xFFFF)]].
Definition header : header :=
  Header "linux/nfs_fs.h" [Asm_generic_param.header] (concat [
    defs_NFS_DEF_UDP_TIMEO]).
End Nfs_fs.

(** ** [linux/nfs_idmap.h] *)

Module Nfs_idmap.
Definition defs_IDMAP_NAMESZ : list decl := [
  Defines [
    ("IDMAP_NAMESZ", dec 128); ("IDMAP_TYPE_USER", dec 0); ("IDMAP_TYPE_GROUP", dec 1);
    ("IDMAP_CONV_IDTONAME", dec 0); ("IDMAP_CONV_NAMETOID", dec 1);
    ("IDMAP_STATUS_INVALIDMSG", hex 0x01); ("IDMAP_STATUS_AGAIN", hex 0x02);
    ("IDMAP_STATUS_LOOKUPFAIL", hex 0x04); ("IDMAP_STATUS_SUCCESS", hex 0x08)]].
Definition header : header :=
  Header "linux/nfs_idmap.h" [] (concat [
    defs_IDMAP_NAMESZ]).
End Nfs_idmap.

(** ** [linux/nfs_mount.h] *)

Module Nfs_mount.
Definition defs_NFS_MOUNT_SOFT : list decl := [
  Defines [
    ("NFS_MOUNT_SOFT", hex 0x0001); ("NFS_MOUNT_INTR", hex 0x0002);
    ("NFS_MOUNT_SECURE", hex 0x0004); ("NFS_MOUNT_POSIX", hex 0x0008);
    ("NFS_MOUNT_NOCTO", hex 0x0010); ("NFS_MOUNT_NOAC", hex 0x0020);
    ("NFS_MOUNT_TCP", hex 0x0040); ("NFS_MOUNT_VER3", hex 0x0080);
    ("NFS_MOUNT_KERBEROS", hex 0x0100); ("NFS_MOUNT_NONLM", hex 0x0200);
    ("NFS_MOUNT_BROKEN_SUID", hex 0x0400); ("NFS_MOUNT_NOACL", hex 0x0800);
    ("NFS_MOUNT_STRICTLOCK", hex 0x1000); ("NFS_MOUNT_SECFLAVOUR", hex 0x2000);
    ("NFS_MOUNT_NORDIRPLUS", hex 0x4000); ("NFS_MOUNT_UNSHARED", hex 0x8000);
    ("NFS_MOUNT_FLAGMASK", hex 0xFFFF); ("NFS_MOUNT_LOOKUP_CACHE_NONEG", hex 0x10000);
    ("NFS_MOUNT_LOOKUP_CACHE_NONE", hex 0x20000); ("NFS_MOUNT_NORESVPORT", hex 0x40000);
    ("NFS_MOUNT_LEGACY_INTERFACE", hex 0x80000); ("NFS_MOUNT_LOCAL_FLOCK", hex 0x100000);
    ("NFS_MOUNT_LOCAL_FCNTL", hex 0x200000)]].
Definition header : header :=
  Header "linux/nfs_mount.h" [] (concat [
    defs_NFS_MOUNT_SOFT]).
End Nfs_mount.

(** ** [linux/nfsacl.h] *)

Module Nfsacl.
Definition defs_NFS_ACL_PROGRAM : list decl := [
  Defines [
    ("NFS_ACL_PROGRAM", dec 100227); ("ACLPROC2_GETACL", dec 1); ("ACLPROC2_SETACL", dec 2);
    ("ACLPROC2_GETATTR", dec 3); ("ACLPROC2_ACCESS", dec 4); ("ACLPROC3_GETACL", dec 1);
    ("ACLPROC3_SETACL", dec 2); ("NFS_ACL", hex 0x0001); ("NFS_ACLCNT", hex 0x0002);
    ("NFS_DFACL", hex 0x0004); ("NFS_DFACLCNT", hex 0x0008); ("NFS_ACL_MASK", hex 0x000f);
    ("NFS_ACL_DEFAULT", hex 0x1000)]].
Definition header : header :=
  Header "linux/nfsacl.h" [] (concat [
    defs_NFS_ACL_PROGRAM]).
End Nfsacl.

(** ** [linux/nfsd/cld.h] *)

Module Nfsd_cld.
Definition enum_cld_command : list decl := [
  Enum [
    ("Cld_Create", None); ("Cld_Remove", None); ("Cld_Check", None); ("Cld_GraceDone", None)]].
Definition header : header :=
  Header "linux/nfsd/cld.h" [] (concat [
    enum_cld_command]).
End Nfsd_cld.

(** ** [linux/nfsd/debug.h] *)

Module Nfsd_debug.
Definition defs_NFSDDBG_SOCK : list decl := [
  Defines [
    ("NFSDDBG_SOCK", hex 0x0001); ("NFSDDBG_FH", hex 0x0002); ("NFSDDBG_EXPORT", hex 0x0004);
    ("NFSDDBG_SVC", hex 0x0008); ("NFSDDBG_PROC", hex 0x0010); ("NFSDDBG_FILEOP", hex 0x0020);
    ("NFSDDBG_AUTH", hex 0x0040); ("NFSDDBG_REPCACHE", hex 0x0080); ("NFSDDBG_XDR", hex 0x0100);
    ("NFSDDBG_LOCKD", hex 0x0200); ("NFSDDBG_PNFS", hex 0x0400); ("NFSDDBG_ALL", hex 0x7FFF);
    ("NFSDDBG_NOCHANGE", hex 0xFFFF)]].
Definition header : header :=
  Header "linux/nfsd/debug.h" [] (concat [
    defs_NFSDDBG_SOCK]).
End Nfsd_debug.

(** ** [linux/nfsd/export.h] *)

Module Nfsd_export.
Definition defs_NFSEXP_READONLY : list decl := [
  Defines [
    ("NFSEXP_READONLY", hex 0x0001); ("NFSEXP_INSECURE_PORT", hex 0x0002);
    ("NFSEXP_ROOTSQUASH", hex 0x0004); ("NFSEXP_ALLSQUASH", hex 0x0008);
    ("NFSEXP_ASYNC", hex 0x0010); ("NFSEXP_GATHERED_WRITES", hex 0x0020);
    ("NFSEXP_NOREADDIRPLUS", hex 0x0040); ("NFSEXP_NOHIDE", hex 0x0200);
    ("NFSEXP_NOSUBTREECHECK", hex 0x0400); ("NFSEXP_NOAUTHNLM", hex 0x0800);
    ("NFSEXP_MSNFS", hex 0x1000); ("NFSEXP_FSID", hex 0x2000); ("NFSEXP_CROSSMOUNT", hex 0x4000);
    ("NFSEXP_NOACL", hex 0x8000)];
  Defines [
    ("NFSEXP_V4ROOT", hex 0x10000); ("NFSEXP_PNFS", hex 0x20000);
    ("NFSEXP_ALLFLAGS", hex 0x3FE7F);
    ("NFSEXP_SECINFO_FLAGS", Or (Or (Or (Id "NFSEXP_READONLY") (Id "NFSEXP_ROOTSQUASH")) (Id "NFSEXP_ALLSQUASH")) (Id "NFSEXP_INSECURE_PORT"))]].
Definition header : header :=
  Header "linux/nfsd/export.h" [] (concat [
    defs_NFSEXP_READONLY]).
End Nfsd_export.

(** ** [linux/pktcdvd.h] *)

Module Pktcdvd.
Definition defs_PACKET_CDR : list decl := [
  Defines [
    ("PACKET_CDR", dec 1); ("PACKET_CDRW", dec 2); ("PACKET_DVDR", dec 3);
    ("PACKET_DVDRW", dec 4)];
  Defines [
    ("PACKET_WRITABLE", dec 1); ("PACKET_NWA_VALID", dec 2); ("PACKET_LRA_VALID", dec 3);
    ("PACKET_MERGE_SEGS", dec 4)];
  Defines [
    ("PACKET_DISC_EMPTY", dec 0); ("PACKET_DISC_INCOMPLETE", dec 1);
    ("PACKET_DISC_COMPLETE", dec 2); ("PACKET_DISC_OTHER", dec 3)];
  Defines [
    ("PACKET_MODE1", dec 1); ("PACKET_MODE2", dec 2); ("PACKET_BLOCK_MODE1", dec 8);
    ("PACKET_BLOCK_MODE2", dec 10)];
  Defines [
    ("PACKET_SESSION_EMPTY", dec 0); ("PACKET_SESSION_INCOMPLETE", dec 1);
    ("PACKET_SESSION_RESERVED", dec 2); ("PACKET_SESSION_COMPLETE", dec 3)]].
Definition header : header :=
  Header "linux/pktcdvd.h" [] (concat [
    defs_PACKET_CDR]).
End Pktcdvd.

(** ** [linux/quota.h] *)

Module Quota.
Definition defs_MAXQUOTAS : list decl := [
  Defines [
    ("MAXQUOTAS", dec 3); ("USRQUOTA", dec 0); ("GRPQUOTA", dec 1); ("PRJQUOTA", dec 2)]].
Definition defs_SUBCMDMASK : list decl := [
  Defines [
    ("SUBCMDMASK", hex 0x00ff); ("SUBCMDSHIFT", dec 8); ("Q_SYNC", hex 0x800001);
    ("Q_QUOTAON", hex 0x800002); ("Q_QUOTAOFF", hex 0x800003); ("Q_GETFMT", hex 0x800004);
    ("Q_GETINFO", hex 0x800005); ("Q_SETINFO", hex 0x800006); ("Q_GETQUOTA", hex 0x800007);
    ("Q_SETQUOTA", hex 0x800008); ("QFMT_VFS_OLD", dec 1); ("QFMT_VFS_V0", dec 2);
    ("QFMT_OCFS2", dec 3); ("QFMT_VFS_V1", dec 4); ("QIF_DQBLKSIZE_BITS", dec 10);
    ("QIF_DQBLKSIZE", Shl (dec 1) (Id "QIF_DQBLKSIZE_BITS"))];
  Enum [
    ("QIF_BLIMITS_B", Some (dec 0)); ("QIF_SPACE_B", None); ("QIF_ILIMITS_B", None);
    ("QIF_INODES_B", None); ("QIF_BTIME_B", None); ("QIF_ITIME_B", None)];
  Defines [
    ("QIF_BLIMITS", Shl (dec 1) (Id "QIF_BLIMITS_B"));
    ("QIF_SPACE", Shl (dec 1) (Id "QIF_SPACE_B"));
    ("QIF_ILIMITS", Shl (dec 1) (Id "QIF_ILIMITS_B"));
    ("QIF_INODES", Shl (dec 1) (Id "QIF_INODES_B"));
    ("QIF_BTIME", Shl (dec 1) (Id "QIF_BTIME_B")); ("QIF_ITIME", Shl (dec 1) (Id "QIF_ITIME_B"));
    ("QIF_LIMITS", Or (Id "QIF_BLIMITS") (Id "QIF_ILIMITS"));
    ("QIF_USAGE", Or (Id "QIF_SPACE") (Id "QIF_INODES"));
    ("QIF_TIMES", Or (Id "QIF_BTIME") (Id "QIF_ITIME"));
    ("QIF_ALL", Or (Or (Id "QIF_LIMITS") (Id "QIF_USAGE")) (Id "QIF_TIMES"))]].
Definition defs_IIF_BGRACE : list decl := [
  Defines [
    ("IIF_BGRACE", dec 1); ("IIF_IGRACE", dec 2); ("IIF_FLAGS", dec 4);
    ("IIF_ALL", Or (Or (Id "IIF_BGRACE") (Id "IIF_IGRACE")) (Id "IIF_FLAGS"))];
  Enum [
    ("DQF_ROOT_SQUASH_B", Some (dec 0)); ("DQF_SYS_FILE_B", Some (dec 16)); ("DQF_PRIVATE", None)];
  Defines [
    ("DQF_ROOT_SQUASH", Shl (dec 1) (Id "DQF_ROOT_SQUASH_B"));
    ("DQF_SYS_FILE", Shl (dec 1) (Id "DQF_SYS_FILE_B"))]].
Definition defs_QUOTA_NL_NOWARN : list decl := [
  Defines [
    ("QUOTA_NL_NOWARN", dec 0); ("QUOTA_NL_IHARDWARN", dec 1); ("QUOTA_NL_ISOFTLONGWARN", dec 2);
    ("QUOTA_NL_ISOFTWARN", dec 3); ("QUOTA_NL_BHARDWARN", dec 4);
    ("QUOTA_NL_BSOFTLONGWARN", dec 5); ("QUOTA_NL_BSOFTWARN", dec 6);
    ("QUOTA_NL_IHARDBELOW", dec 7); ("QUOTA_NL_ISOFTBELOW", dec 8);
    ("QUOTA_NL_BHARDBELOW", dec 9); ("QUOTA_NL_BSOFTBELOW", dec 10)];
  Enum [
    ("QUOTA_NL_C_UNSPEC", None); ("QUOTA_NL_C_WARNING", None); ("__QUOTA_NL_C_MAX", None)];
  Defines [
    ("QUOTA_NL_C_MAX", Sub (Id "__QUOTA_NL_C_MAX") (dec 1))];
  Enum [
    ("QUOTA_NL_A_UNSPEC", None); ("QUOTA_NL_A_QTYPE", None); ("QUOTA_NL_A_EXCESS_ID", None);
    ("QUOTA_NL_A_WARNING", None); ("QUOTA_NL_A_DEV_MAJOR", None); ("QUOTA_NL_A_DEV_MINOR", None);
    ("QUOTA_NL_A_CAUSED_ID", None); ("__QUOTA_NL_A_MAX", None)];
  Defines [
    ("QUOTA_NL_A_MAX", Sub (Id "__QUOTA_NL_A_MAX") (dec 1))]].
Definition header : header :=
  Header "linux/quota.h" [] (concat [
    defs_MAXQUOTAS; defs_SUBCMDMASK; defs_IIF_BGRACE; defs_QUOTA_NL_NOWARN]).
End Quota.

(** ** [linux/raid/md_p.h] *)

Module Raid_md_p.
Definition defs_MD_RESERVED_BYTES : list decl := [
  Defines [
    ("MD_RESERVED_BYTES", Mul (dec 64) (dec 1024));
    ("MD_RESERVED_SECTORS", Div (Id "MD_RESERVED_BYTES") (dec 512)); ("MD_SB_BYTES", dec 4096);
    ("MD_SB_WORDS", Div (Id "MD_SB_BYTES") (dec 4));
    ("MD_SB_SECTORS", Div (Id "MD_SB_BYTES") (dec 512))];
  Defines [
    ("MD_SB_GENERIC_OFFSET", dec 0); ("MD_SB_PERSONALITY_OFFSET", dec 64);
    ("MD_SB_DISKS_OFFSET", dec 128); ("MD_SB_DESCRIPTOR_OFFSET", dec 992);
    ("MD_SB_GENERIC_CONSTANT_WORDS", dec 32); ("MD_SB_GENERIC_STATE_WORDS", dec 32);
    ("MD_SB_GENERIC_WORDS", Add (Id "MD_SB_GENERIC_CONSTANT_WORDS") (Id "MD_SB_GENERIC_STATE_WORDS"));
    ("MD_SB_PERSONALITY_WORDS", dec 64); ("MD_SB_DESCRIPTOR_WORDS", dec 32);
    ("MD_SB_DISKS", dec 27);
    ("MD_SB_DISKS_WORDS", Mul (Id "MD_SB_DISKS") (Id "MD_SB_DESCRIPTOR_WORDS"));
    ("MD_SB_RESERVED_WORDS", Sub (Sub (Sub (Sub (dec 1024) (Id "MD_SB_GENERIC_WORDS")) (Id "MD_SB_PERSONALITY_WORDS")) (Id "MD_SB_DISKS_WORDS")) (Id "MD_SB_DESCRIPTOR_WORDS"));
    ("MD_SB_EQUAL_WORDS", Add (Add (Id "MD_SB_GENERIC_WORDS") (Id "MD_SB_PERSONALITY_WORDS")) (Id "MD_SB_DISKS_WORDS"))];
  Defines [
    ("MD_DISK_FAULTY", dec 0); ("MD_DISK_ACTIVE", dec 1); ("MD_DISK_SYNC", dec 2);
    ("MD_DISK_REMOVED", dec 3); ("MD_DISK_CLUSTER_ADD", dec 4); ("MD_DISK_CANDIDATE", dec 5);
    ("MD_DISK_WRITEMOSTLY", dec 9); ("MD_DISK_JOURNAL", dec 18);
    ("MD_DISK_ROLE_SPARE", hex 0xffff); ("MD_DISK_ROLE_FAULTY", hex 0xfffe);
    ("MD_DISK_ROLE_JOURNAL", hex 0xfffd); ("MD_DISK_ROLE_MAX", hex 0xff00)]].
Definition defs_MD_SB_CLEAN : list decl := [
  Defines [
    ("MD_SB_CLEAN", dec 0); ("MD_SB_ERRORS", dec 1); ("MD_SB_CLUSTERED", dec 5);
    ("MD_SB_BITMAP_PRESENT", dec 8)]].
Definition defs_MD_FEATURE_BITMAP_OFFSET : list decl := [
  Defines [
    ("MD_FEATURE_BITMAP_OFFSET", dec 1); ("MD_FEATURE_RECOVERY_OFFSET", dec 2);
    ("MD_FEATURE_RESHAPE_ACTIVE", dec 4); ("MD_FEATURE_BAD_BLOCKS", dec 8);
    ("MD_FEATURE_REPLACEMENT", dec 16); ("MD_FEATURE_RESHAPE_BACKWARDS", dec 32);
    ("MD_FEATURE_NEW_OFFSET", dec 64); ("MD_FEATURE_RECOVERY_BITMAP", dec 128);
    ("MD_FEATURE_CLUSTERED", dec 256); ("MD_FEATURE_JOURNAL", dec 512);
    ("MD_FEATURE_ALL", Or (Or (Or (Or (Or (Or (Or (Or (Or (Id "MD_FEATURE_BITMAP_OFFSET") (Id "MD_FEATURE_RECOVERY_OFFSET")) (Id "MD_FEATURE_RESHAPE_ACTIVE")) (Id "MD_FEATURE_BAD_BLOCKS")) (Id "MD_FEATURE_REPLACEMENT")) (Id "MD_FEATURE_RESHAPE_BACKWARDS")) (Id "MD_FEATURE_NEW_OFFSET")) (Id "MD_FEATURE_RECOVERY_BITMAP")) (Id "MD_FEATURE_CLUSTERED")) (Id "MD_FEATURE_JOURNAL"))]].
Definition enum_r5l_payload_type : list decl := [
  Enum [
    ("R5LOG_PAYLOAD_DATA", Some (dec 0)); ("R5LOG_PAYLOAD_PARITY", Some (dec 1));
    ("R5LOG_PAYLOAD_FLUSH", Some (dec 2))]].
Definition enum_r5l_payload_data_parity_flag : list decl := [
  Enum [
    ("R5LOG_PAYLOAD_FLAG_DISCARD", Some (dec 1)); ("R5LOG_PAYLOAD_FLAG_RESHAPED", Some (dec 2));
    ("R5LOG_PAYLOAD_FLAG_RESHAPING", Some (dec 3))]].
Definition header : header :=
  Header "linux/raid/md_p.h" [] (concat [
    defs_MD_RESERVED_BYTES; defs_MD_SB_CLEAN; defs_MD_FEATURE_BITMAP_OFFSET;
    enum_r5l_payload_type; enum_r5l_payload_data_parity_flag]).
End Raid_md_p.

(** ** [linux/stat.h] *)

Module Stat.
Definition defs_S_IFMT : list decl := [
  Defines [
    ("S_IFMT", oct 61440); ("S_IFSOCK", oct 49152); ("S_IFLNK", oct 40960);
    ("S_IFREG", oct 32768); ("S_IFBLK", oct 24576); ("S_IFDIR", oct 16384);
    ("S_IFCHR", oct 8192); ("S_IFIFO", oct 4096); ("S_ISUID", oct 2048); ("S_ISGID", oct 1024);
    ("S_ISVTX", oct 512)]].
Definition defs_S_IRWXU : list decl := [
  Defines [
    ("S_IRWXU", oct 448); ("S_IRUSR", oct 256); ("S_IWUSR", oct 128); ("S_IXUSR", oct 64);
    ("S_IRWXG", oct 56); ("S_IRGRP", oct 32); ("S_IWGRP", oct 16); ("S_IXGRP", oct 8);
    ("S_IRWXO", oct 7); ("S_IROTH", oct 4); ("S_IWOTH", oct 2); ("S_IXOTH", oct 1)]].
Definition header : header :=
  Header "linux/stat.h" [] (concat [
    defs_S_IFMT; defs_S_IRWXU]).
End Stat.

(** ** [linux/sunrpc/debug.h] *)

Module Sunrpc_debug.
Definition defs_RPCDBG_XPRT : list decl := [
  Defines [
    ("RPCDBG_XPRT", hex 0x0001); ("RPCDBG_CALL", hex 0x0002); ("RPCDBG_DEBUG", hex 0x0004);
    ("RPCDBG_NFS", hex 0x0008); ("RPCDBG_AUTH", hex 0x0010); ("RPCDBG_BIND", hex 0x0020);
    ("RPCDBG_SCHED", hex 0x0040); ("RPCDBG_TRANS", hex 0x0080); ("RPCDBG_SVCXPRT", hex 0x0100);
    ("RPCDBG_SVCDSP", hex 0x0200); ("RPCDBG_MISC", hex 0x0400); ("RPCDBG_CACHE", hex 0x0800);
    ("RPCDBG_ALL", hex 0x7fff)];
  Enum [
    ("CTL_RPCDEBUG", Some (dec 1)); ("CTL_NFSDEBUG", None); ("CTL_NFSDDEBUG", None);
    ("CTL_NLMDEBUG", None); ("CTL_SLOTTABLE_UDP", None); ("CTL_SLOTTABLE_TCP", None);
    ("CTL_MIN_RESVPORT", None); ("CTL_MAX_RESVPORT", None)]].
Definition header : header :=
  Header "linux/sunrpc/debug.h" [] (concat [
    defs_RPCDBG_XPRT]).
End Sunrpc_debug.

(** ** [linux/target_core_user.h] *)

Module Target_core_user.
Definition enum_tcmu_genl_cmd : list decl := [
  Enum [
    ("TCMU_CMD_UNSPEC", None); ("TCMU_CMD_ADDED_DEVICE", None);
    ("TCMU_CMD_REMOVED_DEVICE", None); ("__TCMU_CMD_MAX", None)];
  Defines [
    ("TCMU_CMD_MAX", Sub (Id "__TCMU_CMD_MAX") (dec 1))];
  Enum [
    ("TCMU_ATTR_UNSPEC", None); ("TCMU_ATTR_DEVICE", None); ("TCMU_ATTR_MINOR", None);
    ("__TCMU_ATTR_MAX", None)];
  Defines [
    ("TCMU_ATTR_MAX", Sub (Id "__TCMU_ATTR_MAX") (dec 1))]].
Definition header : header :=
  Header "linux/target_core_user.h" [] (concat [
    enum_tcmu_genl_cmd]).
End Target_core_user.

(** ** [mtd/mtd-abi.h] *)

Module Mtd_mtd_abi.
Definition enum_MTD_OPS_PLACE_OOB : list decl := [
  Enum [
    ("MTD_OPS_PLACE_OOB", Some (dec 0)); ("MTD_OPS_AUTO_OOB", Some (dec 1));
    ("MTD_OPS_RAW", Some (dec 2))]].
Definition defs_MTD_ABSENT : list decl := [
  Defines [
    ("MTD_ABSENT", dec 0); ("MTD_RAM", dec 1); ("MTD_ROM", dec 2); ("MTD_NORFLASH", dec 3);
    ("MTD_NANDFLASH", dec 4); ("MTD_DATAFLASH", dec 6); ("MTD_UBIVOLUME", dec 7);
    ("MTD_MLCNANDFLASH", dec 8); ("MTD_WRITEABLE", hex 0x400); ("MTD_BIT_WRITEABLE", hex 0x800);
    ("MTD_NO_ERASE", hex 0x1000); ("MTD_POWERUP_LOCK", hex 0x2000); ("MTD_CAP_ROM", dec 0);
    ("MTD_CAP_RAM", Or (Or (Id "MTD_WRITEABLE") (Id "MTD_BIT_WRITEABLE")) (Id "MTD_NO_ERASE"));
    ("MTD_CAP_NORFLASH", Or (Id "MTD_WRITEABLE") (Id "MTD_BIT_WRITEABLE"));
    ("MTD_CAP_NANDFLASH", Id "MTD_WRITEABLE");
    ("MTD_CAP_NVRAM", Or (Or (Id "MTD_WRITEABLE") (Id "MTD_BIT_WRITEABLE")) (Id "MTD_NO_ERASE"));
    ("MTD_NANDECC_OFF", dec 0); ("MTD_NANDECC_PLACE", dec 1); ("MTD_NANDECC_AUTOPLACE", dec 2);
    ("MTD_NANDECC_PLACEONLY", dec 3); ("MTD_NANDECC_AUTOPL_USR", dec 4); ("MTD_OTP_OFF", dec 0);
    ("MTD_OTP_FACTORY", dec 1); ("MTD_OTP_USER", dec 2)]].
Definition enum_mtd_file_modes : list decl := [
  Enum [
    ("MTD_FILE_MODE_NORMAL", Some (Id "MTD_OTP_OFF"));
    ("MTD_FILE_MODE_OTP_FACTORY", Some (Id "MTD_OTP_FACTORY"));
    ("MTD_FILE_MODE_OTP_USER", Some (Id "MTD_OTP_USER")); ("MTD_FILE_MODE_RAW", None)]].
Definition header : header :=
  Header "mtd/mtd-abi.h" [] (concat [
    enum_MTD_OPS_PLACE_OOB; defs_MTD_ABSENT; enum_mtd_file_modes]).
End Mtd_mtd_abi.

(** ** [mtd/nftl-user.h] *)

Module Mtd_nftl_user.
Definition defs_MAX_ERASE_ZONES : list decl := [
  Defines [
    ("MAX_ERASE_ZONES", Sub (dec 8192) (dec 512)); ("ERASE_MARK", hex 0x3c69);
    ("SECTOR_FREE", hex 0xff); ("SECTOR_USED", hex 0x55); ("SECTOR_IGNORE", hex 0x11);
    ("SECTOR_DELETED", hex 0x00); ("FOLD_MARK_IN_PROGRESS", hex 0x5555); ("ZONE_GOOD", hex 0xff);
    ("ZONE_BAD_ORIGINAL", dec 0); ("ZONE_BAD_MARKED", dec 7)]].
Definition header : header :=
  Header "mtd/nftl-user.h" [] (concat [
    defs_MAX_ERASE_ZONES]).
End Mtd_nftl_user.

(** ** [mtd/ubi-user.h] *)

Module Mtd_ubi_user.
Definition defs_UBI_VOL_NUM_AUTO : list decl := [
  Defines [
    ("UBI_VOL_NUM_AUTO", Neg (dec 1)); ("UBI_DEV_NUM_AUTO", Neg (dec 1));
    ("UBI_MAX_VOLUME_NAME", dec 127); ("UBI_IOC_MAGIC", chr 111)]].
Definition header : header :=
  Header "mtd/ubi-user.h" [] (concat [
    defs_UBI_VOL_NUM_AUTO]).
End Mtd_ubi_user.

(** ** [scsi/cxlflash_ioctl.h] *)

Module Scsi_cxlflash_ioctl.
Definition defs_DK_CXLFLASH_MANAGE_LUN_WWID_LEN : list decl := [
  Defines [
    ("DK_CXLFLASH_MANAGE_LUN_WWID_LEN", dec 16);
    ("DK_CXLFLASH_MANAGE_LUN_ENABLE_SUPERPIPE", hexULL 0x8000000000000000);
    ("DK_CXLFLASH_MANAGE_LUN_DISABLE_SUPERPIPE", hexULL 0x4000000000000000);
    ("DK_CXLFLASH_MANAGE_LUN_ALL_PORTS_ACCESSIBLE", hexULL 0x2000000000000000)]].
Definition header : header :=
  Header "scsi/cxlflash_ioctl.h" [] (concat [
    defs_DK_CXLFLASH_MANAGE_LUN_WWID_LEN]).
End Scsi_cxlflash_ioctl.

(** ** [scsi/fc/fc_els.h] *)

Module Scsi_fc_fc_els.
Definition enum_fc_els_cmd : list decl := [
  Enum [
    ("ELS_LS_RJT", Some (hex 0x01)); ("ELS_LS_ACC", Some (hex 0x02));
    ("ELS_PLOGI", Some (hex 0x03)); ("ELS_FLOGI", Some (hex 0x04));
    ("ELS_LOGO", Some (hex 0x05)); ("ELS_ABTX", Some (hex 0x06)); ("ELS_RCS", Some (hex 0x07));
    ("ELS_RES", Some (hex 0x08)); ("ELS_RSS", Some (hex 0x09)); ("ELS_RSI", Some (hex 0x0a));
    ("ELS_ESTS", Some (hex 0x0b)); ("ELS_ESTC", Some (hex 0x0c)); ("ELS_ADVC", Some (hex 0x0d));
    ("ELS_RTV", Some (hex 0x0e)); ("ELS_RLS", Some (hex 0x0f)); ("ELS_ECHO", Some (hex 0x10));
    ("ELS_TEST", Some (hex 0x11)); ("ELS_RRQ", Some (hex 0x12)); ("ELS_REC", Some (hex 0x13));
    ("ELS_SRR", Some (hex 0x14)); ("ELS_PRLI", Some (hex 0x20)); ("ELS_PRLO", Some (hex 0x21));
    ("ELS_SCN", Some (hex 0x22)); ("ELS_TPLS", Some (hex 0x23)); ("ELS_TPRLO", Some (hex 0x24));
    ("ELS_LCLM", Some (hex 0x25)); ("ELS_GAID", Some (hex 0x30)); ("ELS_FACT", Some (hex 0x31));
    ("ELS_FDACDT", Some (hex 0x32)); ("ELS_NACT", Some (hex 0x33));
    ("ELS_NDACT", Some (hex 0x34)); ("ELS_QOSR", Some (hex 0x40)); ("ELS_RVCS", Some (hex 0x41));
    ("ELS_PDISC", Some (hex 0x50)); ("ELS_FDISC", Some (hex 0x51));
    ("ELS_ADISC", Some (hex 0x52)); ("ELS_RNC", Some (hex 0x53));
    ("ELS_FARP_REQ", Some (hex 0x54)); ("ELS_FARP_REPL", Some (hex 0x55));
    ("ELS_RPS", Some (hex 0x56)); ("ELS_RPL", Some (hex 0x57)); ("ELS_RPBC", Some (hex 0x58));
    ("ELS_FAN", Some (hex 0x60)); ("ELS_RSCN", Some (hex 0x61)); ("ELS_SCR", Some (hex 0x62));
    ("ELS_RNFT", Some (hex 0x63)); ("ELS_CSR", Some (hex 0x68)); ("ELS_CSU", Some (hex 0x69));
    ("ELS_LINIT", Some (hex 0x70)); ("ELS_LSTS", Some (hex 0x72)); ("ELS_RNID", Some (hex 0x78));
    ("ELS_RLIR", Some (hex 0x79)); ("ELS_LIRR", Some (hex 0x7a)); ("ELS_SRL", Some (hex 0x7b));
    ("ELS_SBRP", Some (hex 0x7c)); ("ELS_RPSC", Some (hex 0x7d)); ("ELS_QSA", Some (hex 0x7e));
    ("ELS_EVFP", Some (hex 0x7f)); ("ELS_LKA", Some (hex 0x80));
    ("ELS_AUTH_ELS", Some (hex 0x90))]].
Definition enum_fc_els_rjt_reason : list decl := [
  Enum [
    ("ELS_RJT_NONE", Some (dec 0)); ("ELS_RJT_INVAL", Some (hex 0x01));
    ("ELS_RJT_LOGIC", Some (hex 0x03)); ("ELS_RJT_BUSY", Some (hex 0x05));
    ("ELS_RJT_PROT", Some (hex 0x07)); ("ELS_RJT_UNAB", Some (hex 0x09));
    ("ELS_RJT_UNSUP", Some (hex 0x0b)); ("ELS_RJT_INPROG", Some (hex 0x0e));
    ("ELS_RJT_FIP", Some (hex 0x20)); ("ELS_RJT_VENDOR", Some (hex 0xff))];
  Enum [
    ("ELS_EXPL_NONE", Some (hex 0x00)); ("ELS_EXPL_SPP_OPT_ERR", Some (hex 0x01));
    ("ELS_EXPL_SPP_ICTL_ERR", Some (hex 0x03)); ("ELS_EXPL_AH", Some (hex 0x11));
    ("ELS_EXPL_AH_REQ", Some (hex 0x13)); ("ELS_EXPL_SID", Some (hex 0x15));
    ("ELS_EXPL_OXID_RXID", Some (hex 0x17)); ("ELS_EXPL_INPROG", Some (hex 0x19));
    ("ELS_EXPL_PLOGI_REQD", Some (hex 0x1e)); ("ELS_EXPL_INSUF_RES", Some (hex 0x29));
    ("ELS_EXPL_UNAB_DATA", Some (hex 0x2a)); ("ELS_EXPL_UNSUPR", Some (hex 0x2c));
    ("ELS_EXPL_INV_LEN", Some (hex 0x2d)); ("ELS_EXPL_NOT_NEIGHBOR", Some (hex 0x62))]].
Definition defs_FC_SP_FT_NPIV : list decl := [
  Defines [
    ("FC_SP_FT_NPIV", hex 0x8000); ("FC_SP_FT_CIRO", hex 0x8000); ("FC_SP_FT_CLAD", hex 0x8000);
    ("FC_SP_FT_RAND", hex 0x4000); ("FC_SP_FT_VAL", hex 0x2000);
    ("FC_SP_FT_NPIV_ACC", hex 0x2000); ("FC_SP_FT_FPORT", hex 0x1000);
    ("FC_SP_FT_ABB", hex 0x0800); ("FC_SP_FT_EDTR", hex 0x0400); ("FC_SP_FT_MCAST", hex 0x0200);
    ("FC_SP_FT_BCAST", hex 0x0100); ("FC_SP_FT_HUNT", hex 0x0080); ("FC_SP_FT_SIMP", hex 0x0040);
    ("FC_SP_FT_SEC", hex 0x0020); ("FC_SP_FT_CSYN", hex 0x0010); ("FC_SP_FT_RTTOV", hex 0x0008);
    ("FC_SP_FT_HALF", hex 0x0004); ("FC_SP_FT_SEQC", hex 0x0002); ("FC_SP_FT_PAYL", hex 0x0001)]].
Definition defs_FC_CPC_VALID : list decl := [
  Defines [
    ("FC_CPC_VALID", hex 0x8000); ("FC_CPC_IMIX", hex 0x4000); ("FC_CPC_SEQ", hex 0x0800);
    ("FC_CPC_CAMP", hex 0x0200); ("FC_CPC_PRI", hex 0x0080)]].
Definition defs_FC_SPP_OPA_VAL : list decl := [
  Defines [
    ("FC_SPP_OPA_VAL", hex 0x80); ("FC_SPP_RPA_VAL", hex 0x40);
    ("FC_SPP_EST_IMG_PAIR", hex 0x20); ("FC_SPP_RESP_MASK", hex 0x0f)];
  Enum [
    ("FC_SPP_RESP_ACK", Some (dec 1)); ("FC_SPP_RESP_RES", Some (dec 2));
    ("FC_SPP_RESP_INIT", Some (dec 3)); ("FC_SPP_RESP_NO_PA", Some (dec 4));
    ("FC_SPP_RESP_CONF", Some (dec 5)); ("FC_SPP_RESP_COND", Some (dec 6));
    ("FC_SPP_RESP_MULT", Some (dec 7)); ("FC_SPP_RESP_INVL", Some (dec 8))]].
Definition enum_fc_els_scr_func : list decl := [
  Enum [
    ("ELS_SCRF_FAB", Some (dec 1)); ("ELS_SCRF_NPORT", Some (dec 2));
    ("ELS_SCRF_FULL", Some (dec 3)); ("ELS_SCRF_CLEAR", Some (dec 255))]].
Definition defs_ELS_RSCN_EV_QUAL_BIT : list decl := [
  Defines [
    ("ELS_RSCN_EV_QUAL_BIT", dec 2); ("ELS_RSCN_EV_QUAL_MASK", hex 0xf);
    ("ELS_RSCN_ADDR_FMT_BIT", dec 0); ("ELS_RSCN_ADDR_FMT_MASK", hex 0x3)];
  Enum [
    ("ELS_EV_QUAL_NONE", Some (dec 0)); ("ELS_EV_QUAL_NS_OBJ", Some (dec 1));
    ("ELS_EV_QUAL_PORT_ATTR", Some (dec 2)); ("ELS_EV_QUAL_SERV_OBJ", Some (dec 3));
    ("ELS_EV_QUAL_SW_CONFIG", Some (dec 4)); ("ELS_EV_QUAL_REM_OBJ", Some (dec 5))];
  Enum [
    ("ELS_ADDR_FMT_PORT", Some (dec 0)); ("ELS_ADDR_FMT_AREA", Some (dec 1));
    ("ELS_ADDR_FMT_DOM", Some (dec 2)); ("ELS_ADDR_FMT_FAB", Some (dec 3))]].
Definition enum_fc_els_rnid_atype : list decl := [
  Enum [
    ("ELS_RNIDA_UNK", Some (hex 0x01)); ("ELS_RNIDA_OTHER", Some (hex 0x02));
    ("ELS_RNIDA_HUB", Some (hex 0x03)); ("ELS_RNIDA_SWITCH", Some (hex 0x04));
    ("ELS_RNIDA_GATEWAY", Some (hex 0x05)); ("ELS_RNIDA_CONV", Some (hex 0x06));
    ("ELS_RNIDA_HBA", Some (hex 0x07)); ("ELS_RNIDA_PROXY", Some (hex 0x08));
    ("ELS_RNIDA_STORAGE", Some (hex 0x09)); ("ELS_RNIDA_HOST", Some (hex 0x0a));
    ("ELS_RNIDA_SUBSYS", Some (hex 0x0b)); ("ELS_RNIDA_ACCESS", Some (hex 0x0e));
    ("ELS_RNIDA_NAS", Some (hex 0x11)); ("ELS_RNIDA_BRIDGE", Some (hex 0x12));
    ("ELS_RNIDA_VIRT", Some (hex 0x13)); ("ELS_RNIDA_MF", Some (hex 0xff));
    ("ELS_RNIDA_MF_HUB", Some (Shl (decUL 1) (dec 31)));
    ("ELS_RNIDA_MF_SW", Some (Shl (decUL 1) (dec 30)));
    ("ELS_RNIDA_MF_GW", Some (Shl (decUL 1) (dec 29)));
    ("ELS_RNIDA_MF_ST", Some (Shl (decUL 1) (dec 28)));
    ("ELS_RNIDA_MF_HOST", Some (Shl (decUL 1) (dec 27)));
    ("ELS_RNIDA_MF_SUB", Some (Shl (decUL 1) (dec 26)));
    ("ELS_RNIDA_MF_ACC", Some (Shl (decUL 1) (dec 25)));
    ("ELS_RNIDA_MF_WDM", Some (Shl (decUL 1) (dec 24)));
    ("ELS_RNIDA_MF_NAS", Some (Shl (decUL 1) (dec 23)));
    ("ELS_RNIDA_MF_BR", Some (Shl (decUL 1) (dec 22)));
    ("ELS_RNIDA_MF_VIRT", Some (Shl (decUL 1) (dec 21)))];
  Enum [
    ("ELS_RNIDM_SNMP", Some (dec 0)); ("ELS_RNIDM_TELNET", Some (dec 1));
    ("ELS_RNIDM_HTTP", Some (dec 2)); ("ELS_RNIDM_HTTPS", Some (dec 3));
    ("ELS_RNIDM_XML", Some (dec 4))];
  Enum [
    ("ELS_RNIDIP_NONE", Some (dec 0)); ("ELS_RNIDIP_V4", Some (dec 1));
    ("ELS_RNIDIP_V6", Some (dec 2))]].
Definition enum_fc_els_rps_flag : list decl := [
  Enum [
    ("FC_ELS_RPS_DID", Some (hex 0x00)); ("FC_ELS_RPS_PPN", Some (hex 0x01));
    ("FC_ELS_RPS_WWPN", Some (hex 0x02))]].
Definition enum_fc_els_rps_resp_status : list decl := [
  Enum [
    ("FC_ELS_RPS_PTP", Some (Shl (dec 1) (dec 5)));
    ("FC_ELS_RPS_LOOP", Some (Shl (dec 1) (dec 4)));
    ("FC_ELS_RPS_FAB", Some (Shl (dec 1) (dec 3)));
    ("FC_ELS_RPS_NO_SIG", Some (Shl (dec 1) (dec 2)));
    ("FC_ELS_RPS_NO_SYNC", Some (Shl (dec 1) (dec 1)));
    ("FC_ELS_RPS_RESET", Some (Shl (dec 1) (dec 0)))]].
Definition enum_fc_els_lirr_func : list decl := [
  Enum [
    ("ELS_LIRR_SET_COND", Some (hex 0x01)); ("ELS_LIRR_SET_UNCOND", Some (hex 0x02));
    ("ELS_LIRR_CLEAR", Some (hex 0xff))]].
Definition enum_fc_els_srl_flag : list decl := [
  Enum [
    ("FC_ELS_SRL_ALL", Some (hex 0x00)); ("FC_ELS_SRL_ONE", Some (hex 0x01));
    ("FC_ELS_SRL_EN_PER", Some (hex 0x02)); ("FC_ELS_SRL_DIS_PER", Some (hex 0x03))]].
Definition enum_fc_els_clir_ts_fmt : list decl := [
  Enum [
    ("ELS_CLIR_TS_UNKNOWN", Some (dec 0)); ("ELS_CLIR_TS_SEC_FRAC", Some (dec 1));
    ("ELS_CLIR_TS_CSU", Some (dec 2))]].
Definition enum_fc_els_clid_iq : list decl := [
  Enum [
    ("ELS_CLID_SWITCH", Some (hex 0x20)); ("ELS_CLID_E_PORT", Some (hex 0x10));
    ("ELS_CLID_SEV_MASK", Some (hex 0x0c)); ("ELS_CLID_SEV_INFO", Some (hex 0x00));
    ("ELS_CLID_SEV_INOP", Some (hex 0x08)); ("ELS_CLID_SEV_DEG", Some (hex 0x04));
    ("ELS_CLID_LASER", Some (hex 0x02)); ("ELS_CLID_FRU", Some (hex 0x01))];
  Enum [
    ("ELS_CLID_IC_IMPL", Some (dec 1)); ("ELS_CLID_IC_BER", Some (dec 2));
    ("ELS_CLID_IC_LOS", Some (dec 3)); ("ELS_CLID_IC_NOS", Some (dec 4));
    ("ELS_CLID_IC_PST", Some (dec 5)); ("ELS_CLID_IC_INVAL", Some (dec 6));
    ("ELS_CLID_IC_LOOP_TO", Some (dec 7)); ("ELS_CLID_IC_LIP", Some (dec 8))]].
Definition header : header :=
  Header "scsi/fc/fc_els.h" [] (concat [
    enum_fc_els_cmd; enum_fc_els_rjt_reason; defs_FC_SP_FT_NPIV; defs_FC_CPC_VALID;
    defs_FC_SPP_OPA_VAL; enum_fc_els_scr_func; defs_ELS_RSCN_EV_QUAL_BIT; enum_fc_els_rnid_atype;
    enum_fc_els_rps_flag; enum_fc_els_rps_resp_status; enum_fc_els_lirr_func;
    enum_fc_els_srl_flag; enum_fc_els_clir_ts_fmt; enum_fc_els_clid_iq]).
End Scsi_fc_fc_els.

(** ** [scsi/fc/fc_fs.h] *)

Module Scsi_fc_fc_fs.
Definition defs_FC_FRAME_HEADER_LEN : list decl := [
  Defines [
    ("FC_FRAME_HEADER_LEN", dec 24); ("FC_MAX_PAYLOAD", decU 2112);
    ("FC_MIN_MAX_PAYLOAD", decU 256);
    ("FC_MAX_FRAME", Add (Id "FC_MAX_PAYLOAD") (Id "FC_FRAME_HEADER_LEN"));
    ("FC_MIN_MAX_FRAME", Add (Id "FC_MIN_MAX_PAYLOAD") (Id "FC_FRAME_HEADER_LEN"))];
  Enum [
    ("FC_RCTL_DD_UNCAT", Some (hex 0x00)); ("FC_RCTL_DD_SOL_DATA", Some (hex 0x01));
    ("FC_RCTL_DD_UNSOL_CTL", Some (hex 0x02)); ("FC_RCTL_DD_SOL_CTL", Some (hex 0x03));
    ("FC_RCTL_DD_UNSOL_DATA", Some (hex 0x04)); ("FC_RCTL_DD_DATA_DESC", Some (hex 0x05));
    ("FC_RCTL_DD_UNSOL_CMD", Some (hex 0x06)); ("FC_RCTL_DD_CMD_STATUS", Some (hex 0x07));
    ("FC_RCTL_ELS_REQ", Some (hex 0x22)); ("FC_RCTL_ELS_REP", Some (hex 0x23));
    ("FC_RCTL_ELS4_REQ", Some (hex 0x32)); ("FC_RCTL_ELS4_REP", Some (hex 0x33));
    ("FC_RCTL_VFTH", Some (hex 0x50)); ("FC_RCTL_IFRH", Some (hex 0x51));
    ("FC_RCTL_ENCH", Some (hex 0x52)); ("FC_RCTL_BA_NOP", Some (hex 0x80));
    ("FC_RCTL_BA_ABTS", Some (hex 0x81)); ("FC_RCTL_BA_RMC", Some (hex 0x82));
    ("FC_RCTL_BA_ACC", Some (hex 0x84)); ("FC_RCTL_BA_RJT", Some (hex 0x85));
    ("FC_RCTL_BA_PRMT", Some (hex 0x86)); ("FC_RCTL_ACK_1", Some (hex 0xc0));
    ("FC_RCTL_ACK_0", Some (hex 0xc1)); ("FC_RCTL_P_RJT", Some (hex 0xc2));
    ("FC_RCTL_F_RJT", Some (hex 0xc3)); ("FC_RCTL_P_BSY", Some (hex 0xc4));
    ("FC_RCTL_F_BSY", Some (hex 0xc5)); ("FC_RCTL_F_BSYL", Some (hex 0xc6));
    ("FC_RCTL_LCR", Some (hex 0xc7)); ("FC_RCTL_END", Some (hex 0xc9))]].
Definition enum_fc_well_known_fid : list decl := [
  Enum [
    ("FC_FID_NONE", Some (hex 0x000000)); ("FC_FID_BCAST", Some (hex 0xffffff));
    ("FC_FID_FLOGI", Some (hex 0xfffffe)); ("FC_FID_FCTRL", Some (hex 0xfffffd));
    ("FC_FID_DIR_SERV", Some (hex 0xfffffc)); ("FC_FID_TIME_SERV", Some (hex 0xfffffb));
    ("FC_FID_MGMT_SERV", Some (hex 0xfffffa)); ("FC_FID_QOS", Some (hex 0xfffff9));
    ("FC_FID_ALIASES", Some (hex 0xfffff8)); ("FC_FID_SEC_KEY", Some (hex 0xfffff7));
    ("FC_FID_CLOCK", Some (hex 0xfffff6)); ("FC_FID_MCAST_SERV", Some (hex 0xfffff5))];
  Defines [
    ("FC_FID_WELL_KNOWN_MAX", hex 0xffffff); ("FC_FID_WELL_KNOWN_BASE", hex 0xfffff5)]].
Definition enum_fc_fh_type : list decl := [
  Enum [
    ("FC_TYPE_BLS", Some (hex 0x00)); ("FC_TYPE_ELS", Some (hex 0x01));
    ("FC_TYPE_IP", Some (hex 0x05)); ("FC_TYPE_FCP", Some (hex 0x08));
    ("FC_TYPE_CT", Some (hex 0x20)); ("FC_TYPE_ILS", Some (hex 0x22))]].
Definition defs_FC_FC_EX_CTX : list decl := [
  Defines [
    ("FC_FC_EX_CTX", Shl (dec 1) (dec 23)); ("FC_FC_SEQ_CTX", Shl (dec 1) (dec 22));
    ("FC_FC_FIRST_SEQ", Shl (dec 1) (dec 21)); ("FC_FC_LAST_SEQ", Shl (dec 1) (dec 20));
    ("FC_FC_END_SEQ", Shl (dec 1) (dec 19)); ("FC_FC_END_CONN", Shl (dec 1) (dec 18));
    ("FC_FC_RES_B17", Shl (dec 1) (dec 17)); ("FC_FC_SEQ_INIT", Shl (dec 1) (dec 16));
    ("FC_FC_X_ID_REASS", Shl (dec 1) (dec 15)); ("FC_FC_X_ID_INVAL", Shl (dec 1) (dec 14));
    ("FC_FC_ACK_1", Shl (dec 1) (dec 12)); ("FC_FC_ACK_N", Shl (dec 2) (dec 12));
    ("FC_FC_ACK_0", Shl (dec 3) (dec 12)); ("FC_FC_RES_B11", Shl (dec 1) (dec 11));
    ("FC_FC_RES_B10", Shl (dec 1) (dec 10)); ("FC_FC_RETX_SEQ", Shl (dec 1) (dec 9));
    ("FC_FC_UNI_TX", Shl (dec 1) (dec 8)); ("FC_FC_REL_OFF", Shl (dec 1) (dec 3));
    ("FC_FC_RES2", Shl (dec 1) (dec 2))]].
Definition enum_fc_ba_rjt_reason : list decl := [
  Enum [
    ("FC_BA_RJT_NONE", Some (dec 0)); ("FC_BA_RJT_INVL_CMD", Some (hex 0x01));
    ("FC_BA_RJT_LOG_ERR", Some (hex 0x03)); ("FC_BA_RJT_LOG_BUSY", Some (hex 0x05));
    ("FC_BA_RJT_PROTO_ERR", Some (hex 0x07)); ("FC_BA_RJT_UNABLE", Some (hex 0x09));
    ("FC_BA_RJT_VENDOR", Some (hex 0xff))];
  Enum [
    ("FC_BA_RJT_EXP_NONE", Some (hex 0x00)); ("FC_BA_RJT_INV_XID", Some (hex 0x03));
    ("FC_BA_RJT_ABT", Some (hex 0x05))]].
Definition enum_fc_pf_rjt_reason : list decl := [
  Enum [
    ("FC_RJT_NONE", Some (dec 0)); ("FC_RJT_INVL_DID", Some (hex 0x01));
    ("FC_RJT_INVL_SID", Some (hex 0x02)); ("FC_RJT_P_UNAV_T", Some (hex 0x03));
    ("FC_RJT_P_UNAV", Some (hex 0x04)); ("FC_RJT_CLS_UNSUP", Some (hex 0x05));
    ("FC_RJT_DEL_USAGE", Some (hex 0x06)); ("FC_RJT_TYPE_UNSUP", Some (hex 0x07));
    ("FC_RJT_LINK_CTL", Some (hex 0x08)); ("FC_RJT_R_CTL", Some (hex 0x09));
    ("FC_RJT_F_CTL", Some (hex 0x0a)); ("FC_RJT_OX_ID", Some (hex 0x0b));
    ("FC_RJT_RX_ID", Some (hex 0x0c)); ("FC_RJT_SEQ_ID", Some (hex 0x0d));
    ("FC_RJT_DF_CTL", Some (hex 0x0e)); ("FC_RJT_SEQ_CNT", Some (hex 0x0f));
    ("FC_RJT_PARAM", Some (hex 0x10)); ("FC_RJT_EXCH_ERR", Some (hex 0x11));
    ("FC_RJT_PROTO", Some (hex 0x12)); ("FC_RJT_LEN", Some (hex 0x13));
    ("FC_RJT_UNEXP_ACK", Some (hex 0x14)); ("FC_RJT_FAB_CLASS", Some (hex 0x15));
    ("FC_RJT_LOGI_REQ", Some (hex 0x16)); ("FC_RJT_SEQ_XS", Some (hex 0x17));
    ("FC_RJT_EXCH_EST", Some (hex 0x18)); ("FC_RJT_FAB_UNAV", Some (hex 0x1a));
    ("FC_RJT_VC_ID", Some (hex 0x1b)); ("FC_RJT_CS_CTL", Some (hex 0x1c));
    ("FC_RJT_INSUF_RES", Some (hex 0x1d)); ("FC_RJT_INVL_CLS", Some (hex 0x1f));
    ("FC_RJT_PREEMT_RJT", Some (hex 0x20)); ("FC_RJT_PREEMT_DIS", Some (hex 0x21));
    ("FC_RJT_MCAST_ERR", Some (hex 0x22)); ("FC_RJT_MCAST_ET", Some (hex 0x23));
    ("FC_RJT_PRLI_REQ", Some (hex 0x24)); ("FC_RJT_INVL_ATT", Some (hex 0x25));
    ("FC_RJT_VENDOR", Some (hex 0xff))]].
Definition header : header :=
  Header "scsi/fc/fc_fs.h" [] (concat [
    defs_FC_FRAME_HEADER_LEN; enum_fc_well_known_fid; enum_fc_fh_type; defs_FC_FC_EX_CTX;
    enum_fc_ba_rjt_reason; enum_fc_pf_rjt_reason]).
End Scsi_fc_fc_fs.

(** ** [scsi/fc/fc_gs.h] *)

Module Scsi_fc_fc_gs.
Definition enum_fc_ct_fs_type : list decl := [
  Enum [
    ("FC_FST_ALIAS", Some (hex 0xf8)); ("FC_FST_MGMT", Some (hex 0xfa));
    ("FC_FST_TIME", Some (hex 0xfb)); ("FC_FST_DIR", Some (hex 0xfc))]].
Definition enum_fc_ct_reason : list decl := [
  Enum [
    ("FC_FS_RJT_CMD", Some (hex 0x01)); ("FC_FS_RJT_VER", Some (hex 0x02));
    ("FC_FS_RJT_LOG", Some (hex 0x03)); ("FC_FS_RJT_IUSIZ", Some (hex 0x04));
    ("FC_FS_RJT_BSY", Some (hex 0x05)); ("FC_FS_RJT_PROTO", Some (hex 0x07));
    ("FC_FS_RJT_UNABL", Some (hex 0x09)); ("FC_FS_RJT_UNSUP", Some (hex 0x0b))];
  Enum [
    ("FC_FS_EXP_NONE", Some (hex 0x00)); ("FC_FS_EXP_PID", Some (hex 0x01));
    ("FC_FS_EXP_PNAM", Some (hex 0x02)); ("FC_FS_EXP_NNAM", Some (hex 0x03));
    ("FC_FS_EXP_COS", Some (hex 0x04)); ("FC_FS_EXP_FTNR", Some (hex 0x07))]].
Definition header : header :=
  Header "scsi/fc/fc_gs.h" [] (concat [
    enum_fc_ct_fs_type; enum_fc_ct_reason]).
End Scsi_fc_fc_gs.

(** ** [scsi/fc/fc_ns.h] *)

Module Scsi_fc_fc_ns.
Definition enum_fc_ns_req : list decl := [
  Enum [
    ("FC_NS_GA_NXT", Some (hex 0x0100)); ("FC_NS_GI_A", Some (hex 0x0101));
    ("FC_NS_GPN_ID", Some (hex 0x0112)); ("FC_NS_GNN_ID", Some (hex 0x0113));
    ("FC_NS_GSPN_ID", Some (hex 0x0118)); ("FC_NS_GID_PN", Some (hex 0x0121));
    ("FC_NS_GID_NN", Some (hex 0x0131)); ("FC_NS_GID_FT", Some (hex 0x0171));
    ("FC_NS_GPN_FT", Some (hex 0x0172)); ("FC_NS_GID_PT", Some (hex 0x01a1));
    ("FC_NS_RPN_ID", Some (hex 0x0212)); ("FC_NS_RNN_ID", Some (hex 0x0213));
    ("FC_NS_RFT_ID", Some (hex 0x0217)); ("FC_NS_RSPN_ID", Some (hex 0x0218));
    ("FC_NS_RFF_ID", Some (hex 0x021f)); ("FC_NS_RSNN_NN", Some (hex 0x0239))];
  Enum [
    ("FC_NS_UNID_PORT", Some (hex 0x00)); ("FC_NS_N_PORT", Some (hex 0x01));
    ("FC_NS_NL_PORT", Some (hex 0x02)); ("FC_NS_FNL_PORT", Some (hex 0x03));
    ("FC_NS_NX_PORT", Some (hex 0x7f)); ("FC_NS_F_PORT", Some (hex 0x81));
    ("FC_NS_FL_PORT", Some (hex 0x82)); ("FC_NS_E_PORT", Some (hex 0x84));
    ("FC_NS_B_PORT", Some (hex 0x85))]].
Definition header : header :=
  Header "scsi/fc/fc_ns.h" [] (concat [
    enum_fc_ns_req]).
End Scsi_fc_fc_ns.

(** ** [scsi/scsi_bsg_fc.h] *)

Module Scsi_scsi_bsg_fc.
Definition defs_FC_BSG_CLS_MASK : list decl := [
  Defines [
    ("FC_BSG_CLS_MASK", hex 0xF0000000); ("FC_BSG_HST_MASK", hex 0x80000000);
    ("FC_BSG_RPT_MASK", hex 0x40000000);
    ("FC_BSG_HST_ADD_RPORT", Or (Id "FC_BSG_HST_MASK") (hex 0x00000001));
    ("FC_BSG_HST_DEL_RPORT", Or (Id "FC_BSG_HST_MASK") (hex 0x00000002));
    ("FC_BSG_HST_ELS_NOLOGIN", Or (Id "FC_BSG_HST_MASK") (hex 0x00000003));
    ("FC_BSG_HST_CT", Or (Id "FC_BSG_HST_MASK") (hex 0x00000004));
    ("FC_BSG_HST_VENDOR", Or (Id "FC_BSG_HST_MASK") (hex 0x000000FF));
    ("FC_BSG_RPT_ELS", Or (Id "FC_BSG_RPT_MASK") (hex 0x00000001));
    ("FC_BSG_RPT_CT", Or (Id "FC_BSG_RPT_MASK") (hex 0x00000002))]].
Definition defs_FC_CTELS_STATUS_OK : list decl := [
  Defines [
    ("FC_CTELS_STATUS_OK", hex 0x00000000); ("FC_CTELS_STATUS_REJECT", hex 0x00000001);
    ("FC_CTELS_STATUS_P_RJT", hex 0x00000002); ("FC_CTELS_STATUS_F_RJT", hex 0x00000003);
    ("FC_CTELS_STATUS_P_BSY", hex 0x00000004); ("FC_CTELS_STATUS_F_BSY", hex 0x00000006)]].
Definition header : header :=
  Header "scsi/scsi_bsg_fc.h" [] (concat [
    defs_FC_BSG_CLS_MASK; defs_FC_CTELS_STATUS_OK]).
End Scsi_scsi_bsg_fc.

(** ** [scsi/scsi_ioctl.h] *)

Module Scsi_scsi_ioctl.
Definition defs_SCSI_IOCTL_SEND_COMMAND : list decl := [
  Defines [
    ("SCSI_IOCTL_SEND_COMMAND", dec 1); ("SCSI_IOCTL_TEST_UNIT_READY", dec 2);
    ("SCSI_IOCTL_BENCHMARK_COMMAND", dec 3); ("SCSI_IOCTL_SYNC", dec 4);
    ("SCSI_IOCTL_START_UNIT", dec 5); ("SCSI_IOCTL_STOP_UNIT", dec 6);
    ("SCSI_IOCTL_DOORLOCK", hex 0x5380); ("SCSI_IOCTL_DOORUNLOCK", hex 0x5381);
    ("SCSI_REMOVAL_PREVENT", dec 1); ("SCSI_REMOVAL_ALLOW", dec 0)]].
Definition header : header :=
  Header "scsi/scsi_ioctl.h" [] (concat [
    defs_SCSI_IOCTL_SEND_COMMAND]).
End Scsi_scsi_ioctl.

(** ** [scsi/scsi_netlink.h] *)

Module Scsi_scsi_netlink.
Definition defs_SCSI_NL_VERSION : list decl := [
  Defines [
    ("SCSI_NL_VERSION", dec 1); ("SCSI_NL_MAGIC", hex 0xA1B2); ("SCSI_NL_TRANSPORT", dec 0);
    ("SCSI_NL_TRANSPORT_FC", dec 1); ("SCSI_NL_MAX_TRANSPORTS", dec 2)]].
Definition header : header :=
  Header "scsi/scsi_netlink.h" [] (concat [
    defs_SCSI_NL_VERSION]).
End Scsi_scsi_netlink.

(** ** [scsi/sg.h] *)

Module Scsi_sg.
Definition defs_SG_INTERFACE_ID_ORIG : list decl := [
  Defines [
    ("SG_INTERFACE_ID_ORIG", chr 83); ("SG_DXFER_NONE", Neg (dec 1));
    ("SG_DXFER_TO_DEV", Neg (dec 2)); ("SG_DXFER_FROM_DEV", Neg (dec 3));
    ("SG_DXFER_TO_FROM_DEV", Neg (dec 4)); ("SG_DXFER_UNKNOWN", Neg (dec 5));
    ("SG_FLAG_DIRECT_IO", dec 1); ("SG_FLAG_UNUSED_LUN_INHIBIT", dec 2);
    ("SG_FLAG_MMAP_IO", dec 4); ("SG_FLAG_NO_DXFER", hex 0x10000);
    ("SG_FLAG_Q_AT_TAIL", hex 0x10); ("SG_FLAG_Q_AT_HEAD", hex 0x20);
    ("SG_INFO_OK_MASK", hex 0x1); ("SG_INFO_OK", hex 0x0); ("SG_INFO_CHECK", hex 0x1);
    ("SG_INFO_DIRECT_IO_MASK", hex 0x6); ("SG_INFO_INDIRECT_IO", hex 0x0);
    ("SG_INFO_DIRECT_IO", hex 0x2); ("SG_INFO_MIXED_IO", hex 0x4)]].
Definition defs_SG_EMULATED_HOST : list decl := [
  Defines [
    ("SG_EMULATED_HOST", hex 0x2203); ("SG_SET_TRANSFORM", hex 0x2204);
    ("SG_GET_TRANSFORM", hex 0x2205); ("SG_SET_RESERVED_SIZE", hex 0x2275);
    ("SG_GET_RESERVED_SIZE", hex 0x2272); ("SG_GET_SCSI_ID", hex 0x2276);
    ("SG_SET_FORCE_LOW_DMA", hex 0x2279); ("SG_GET_LOW_DMA", hex 0x227a)];
  Defines [
    ("SG_SET_FORCE_PACK_ID", hex 0x227b); ("SG_GET_PACK_ID", hex 0x227c);
    ("SG_GET_NUM_WAITING", hex 0x227d); ("SG_GET_SG_TABLESIZE", hex 0x227F);
    ("SG_GET_VERSION_NUM", hex 0x2282); ("SG_SCSI_RESET", hex 0x2284);
    ("SG_SCSI_RESET_NOTHING", dec 0); ("SG_SCSI_RESET_DEVICE", dec 1);
    ("SG_SCSI_RESET_BUS", dec 2); ("SG_SCSI_RESET_HOST", dec 3); ("SG_SCSI_RESET_TARGET", dec 4);
    ("SG_SCSI_RESET_NO_ESCALATE", hex 0x100); ("SG_IO", hex 0x2285);
    ("SG_GET_REQUEST_TABLE", hex 0x2286); ("SG_SET_KEEP_ORPHAN", hex 0x2287);
    ("SG_GET_KEEP_ORPHAN", hex 0x2288); ("SG_GET_ACCESS_COUNT", hex 0x2289);
    ("SG_SCATTER_SZ", Mul (dec 8) (dec 4096))];
  Defines [
    ("SG_DEFAULT_RETRIES", dec 0); ("SG_DEF_FORCE_PACK_ID", dec 0);
    ("SG_DEF_KEEP_ORPHAN", dec 0); ("SG_DEF_RESERVED_SIZE", Id "SG_SCATTER_SZ");
    ("SG_MAX_QUEUE", dec 16); ("SG_BIG_BUFF", Id "SG_DEF_RESERVED_SIZE")]].
Definition defs_SG_GET_COMMAND_Q : list decl := [
  Defines [
    ("SG_GET_COMMAND_Q", hex 0x2270); ("SG_SET_COMMAND_Q", hex 0x2271);
    ("SG_SET_DEBUG", hex 0x227e); ("SG_NEXT_CMD_LEN", hex 0x2283)]].
Definition header : header :=
  Header "scsi/sg.h" [] (concat [
    defs_SG_INTERFACE_ID_ORIG; defs_SG_EMULATED_HOST; defs_SG_GET_COMMAND_Q]).
End Scsi_sg.

(** ** [scsi/ufs/ufs.h] *)

Module Scsi_ufs_ufs.
Definition enum_flag_idn : list decl := [
  Enum [
    ("QUERY_FLAG_IDN_FDEVICEINIT", Some (hex 0x01));
    ("QUERY_FLAG_IDN_PERMANENT_WPE", Some (hex 0x02));
    ("QUERY_FLAG_IDN_PWR_ON_WPE", Some (hex 0x03)); ("QUERY_FLAG_IDN_BKOPS_EN", Some (hex 0x04));
    ("QUERY_FLAG_IDN_RESERVED1", Some (hex 0x05));
    ("QUERY_FLAG_IDN_PURGE_ENABLE", Some (hex 0x06));
    ("QUERY_FLAG_IDN_RESERVED2", Some (hex 0x07));
    ("QUERY_FLAG_IDN_FPHYRESOURCEREMOVAL", Some (hex 0x08));
    ("QUERY_FLAG_IDN_BUSY_RTC", Some (hex 0x09))];
  Enum [
    ("QUERY_ATTR_IDN_BOOT_LU_EN", Some (hex 0x00)); ("QUERY_ATTR_IDN_RESERVED", Some (hex 0x01));
    ("QUERY_ATTR_IDN_POWER_MODE", Some (hex 0x02));
    ("QUERY_ATTR_IDN_ACTIVE_ICC_LVL", Some (hex 0x03));
    ("QUERY_ATTR_IDN_OOO_DATA_EN", Some (hex 0x04));
    ("QUERY_ATTR_IDN_BKOPS_STATUS", Some (hex 0x05));
    ("QUERY_ATTR_IDN_PURGE_STATUS", Some (hex 0x06));
    ("QUERY_ATTR_IDN_MAX_DATA_IN", Some (hex 0x07));
    ("QUERY_ATTR_IDN_MAX_DATA_OUT", Some (hex 0x08));
    ("QUERY_ATTR_IDN_DYN_CAP_NEEDED", Some (hex 0x09));
    ("QUERY_ATTR_IDN_REF_CLK_FREQ", Some (hex 0x0A));
    ("QUERY_ATTR_IDN_CONF_DESC_LOCK", Some (hex 0x0B));
    ("QUERY_ATTR_IDN_MAX_NUM_OF_RTT", Some (hex 0x0C));
    ("QUERY_ATTR_IDN_EE_CONTROL", Some (hex 0x0D));
    ("QUERY_ATTR_IDN_EE_STATUS", Some (hex 0x0E));
    ("QUERY_ATTR_IDN_SECONDS_PASSED", Some (hex 0x0F));
    ("QUERY_ATTR_IDN_CNTX_CONF", Some (hex 0x10));
    ("QUERY_ATTR_IDN_CORR_PRG_BLK_NUM", Some (hex 0x11))];
  Defines [
    ("QUERY_ATTR_IDN_BOOT_LU_EN_MAX", hex 0x02)];
  Enum [
    ("QUERY_DESC_IDN_DEVICE", Some (hex 0x0)); ("QUERY_DESC_IDN_CONFIGURAION", Some (hex 0x1));
    ("QUERY_DESC_IDN_UNIT", Some (hex 0x2)); ("QUERY_DESC_IDN_RFU_0", Some (hex 0x3));
    ("QUERY_DESC_IDN_INTERCONNECT", Some (hex 0x4)); ("QUERY_DESC_IDN_STRING", Some (hex 0x5));
    ("QUERY_DESC_IDN_RFU_1", Some (hex 0x6)); ("QUERY_DESC_IDN_GEOMETRY", Some (hex 0x7));
    ("QUERY_DESC_IDN_POWER", Some (hex 0x8)); ("QUERY_DESC_IDN_HEALTH", Some (hex 0x9));
    ("QUERY_DESC_IDN_RFU_2", Some (hex 0x0A)); ("QUERY_DESC_IDN_MAX", None)];
  Enum [
    ("UPIU_QUERY_OPCODE_NOP", Some (hex 0x0)); ("UPIU_QUERY_OPCODE_READ_DESC", Some (hex 0x1));
    ("UPIU_QUERY_OPCODE_WRITE_DESC", Some (hex 0x2));
    ("UPIU_QUERY_OPCODE_READ_ATTR", Some (hex 0x3));
    ("UPIU_QUERY_OPCODE_WRITE_ATTR", Some (hex 0x4));
    ("UPIU_QUERY_OPCODE_READ_FLAG", Some (hex 0x5));
    ("UPIU_QUERY_OPCODE_SET_FLAG", Some (hex 0x6));
    ("UPIU_QUERY_OPCODE_CLEAR_FLAG", Some (hex 0x7));
    ("UPIU_QUERY_OPCODE_TOGGLE_FLAG", Some (hex 0x8)); ("UPIU_QUERY_OPCODE_MAX", None)]].
Definition header : header :=
  Header "scsi/ufs/ufs.h" [] (concat [
    enum_flag_idn]).
End Scsi_ufs_ufs.
