(* ===== verification/ConstSystem.v ===== *)
(** * Constants of the kernel, buses and security

    Macros and enumerations of these headers of [kernel-headers], one module per
    header: each table holds the consecutive definitions of one place. *)
From S2P Require Import Prelude.
From S2P Require Import CConst.
From S2P Require Import ConstBase.
#[local] Open Scope string_scope.

(** ** [linux/android/binder.h] *)

Module Android_binder.
Definition macro_B_PACK_CHARS : list decl := [
  Define_fun "B_PACK_CHARS" ["c1"; "c2"; "c3"; "c4"] (Or (Or (Or (Shl (Id "c1") (dec 24)) (Shl (Id "c2") (dec 16))) (Shl (Id "c3") (dec 8))) (Id "c4"));
  Defines [
    ("B_TYPE_LARGE", hex 0x85)];
  Enum [
    ("BINDER_TYPE_BINDER", Some (App "B_PACK_CHARS" [chr 115; chr 98; chr 42; Id "B_TYPE_LARGE"]));
    ("BINDER_TYPE_WEAK_BINDER", Some (App "B_PACK_CHARS" [chr 119; chr 98; chr 42; Id "B_TYPE_LARGE"]));
    ("BINDER_TYPE_HANDLE", Some (App "B_PACK_CHARS" [chr 115; chr 104; chr 42; Id "B_TYPE_LARGE"]));
    ("BINDER_TYPE_WEAK_HANDLE", Some (App "B_PACK_CHARS" [chr 119; chr 104; chr 42; Id "B_TYPE_LARGE"]));
    ("BINDER_TYPE_FD", Some (App "B_PACK_CHARS" [chr 102; chr 100; chr 42; Id "B_TYPE_LARGE"]));
    ("BINDER_TYPE_FDA", Some (App "B_PACK_CHARS" [chr 102; chr 100; chr 97; Id "B_TYPE_LARGE"]));
    ("BINDER_TYPE_PTR", Some (App "B_PACK_CHARS" [chr 112; chr 116; chr 42; Id "B_TYPE_LARGE"]))];
  Enum [
    ("FLAT_BINDER_FLAG_SCHED_POLICY_SHIFT", Some (dec 9))];
  Enum [
    ("FLAT_BINDER_FLAG_PRIORITY_MASK", Some (hex 0xff));
    ("FLAT_BINDER_FLAG_ACCEPTS_FDS", Some (hex 0x100));
    ("FLAT_BINDER_FLAG_SCHED_POLICY_MASK", Some (Shl (decU 3) (Id "FLAT_BINDER_FLAG_SCHED_POLICY_SHIFT")));
    ("FLAT_BINDER_FLAG_INHERIT_RT", Some (hex 0x800));
    ("FLAT_BINDER_FLAG_TXN_SECURITY_CTX", Some (hex 0x1000))]].
Definition enum_transaction_flags : list decl := [
  Enum [
    ("TF_ONE_WAY", Some (hex 0x01)); ("TF_ROOT_OBJECT", Some (hex 0x04));
    ("TF_STATUS_CODE", Some (hex 0x08)); ("TF_ACCEPT_FDS", Some (hex 0x10))]].
Definition header : header :=
  Header "linux/android/binder.h" [] (concat [
    macro_B_PACK_CHARS; enum_transaction_flags]).
End Android_binder.

(** ** [linux/audit.h] *)

Module Audit.
Definition defs_AUDIT_GET : list decl := [
  Defines [
    ("AUDIT_GET", dec 1000); ("AUDIT_SET", dec 1001); ("AUDIT_LIST", dec 1002);
    ("AUDIT_ADD", dec 1003); ("AUDIT_DEL", dec 1004); ("AUDIT_USER", dec 1005);
    ("AUDIT_LOGIN", dec 1006); ("AUDIT_WATCH_INS", dec 1007); ("AUDIT_WATCH_REM", dec 1008);
    ("AUDIT_WATCH_LIST", dec 1009); ("AUDIT_SIGNAL_INFO", dec 1010);
    ("AUDIT_ADD_RULE", dec 1011); ("AUDIT_DEL_RULE", dec 1012); ("AUDIT_LIST_RULES", dec 1013);
    ("AUDIT_TRIM", dec 1014); ("AUDIT_MAKE_EQUIV", dec 1015); ("AUDIT_TTY_GET", dec 1016);
    ("AUDIT_TTY_SET", dec 1017); ("AUDIT_SET_FEATURE", dec 1018);
    ("AUDIT_GET_FEATURE", dec 1019); ("AUDIT_FIRST_USER_MSG", dec 1100);
    ("AUDIT_USER_AVC", dec 1107); ("AUDIT_USER_TTY", dec 1124);
    ("AUDIT_LAST_USER_MSG", dec 1199); ("AUDIT_FIRST_USER_MSG2", dec 2100);
    ("AUDIT_LAST_USER_MSG2", dec 2999); ("AUDIT_DAEMON_START", dec 1200);
    ("AUDIT_DAEMON_END", dec 1201); ("AUDIT_DAEMON_ABORT", dec 1202);
    ("AUDIT_DAEMON_CONFIG", dec 1203); ("AUDIT_SYSCALL", dec 1300); ("AUDIT_PATH", dec 1302);
    ("AUDIT_IPC", dec 1303); ("AUDIT_SOCKETCALL", dec 1304); ("AUDIT_CONFIG_CHANGE", dec 1305);
    ("AUDIT_SOCKADDR", dec 1306); ("AUDIT_CWD", dec 1307); ("AUDIT_EXECVE", dec 1309);
    ("AUDIT_IPC_SET_PERM", dec 1311); ("AUDIT_MQ_OPEN", dec 1312);
    ("AUDIT_MQ_SENDRECV", dec 1313); ("AUDIT_MQ_NOTIFY", dec 1314);
    ("AUDIT_MQ_GETSETATTR", dec 1315); ("AUDIT_KERNEL_OTHER", dec 1316);
    ("AUDIT_FD_PAIR", dec 1317); ("AUDIT_OBJ_PID", dec 1318); ("AUDIT_TTY", dec 1319);
    ("AUDIT_EOE", dec 1320); ("AUDIT_BPRM_FCAPS", dec 1321); ("AUDIT_CAPSET", dec 1322);
    ("AUDIT_MMAP", dec 1323); ("AUDIT_NETFILTER_PKT", dec 1324);
    ("AUDIT_NETFILTER_CFG", dec 1325); ("AUDIT_SECCOMP", dec 1326);
    ("AUDIT_PROCTITLE", dec 1327); ("AUDIT_FEATURE_CHANGE", dec 1328); ("AUDIT_AVC", dec 1400);
    ("AUDIT_SELINUX_ERR", dec 1401); ("AUDIT_AVC_PATH", dec 1402);
    ("AUDIT_MAC_POLICY_LOAD", dec 1403); ("AUDIT_MAC_STATUS", dec 1404);
    ("AUDIT_MAC_CONFIG_CHANGE", dec 1405); ("AUDIT_MAC_UNLBL_ALLOW", dec 1406);
    ("AUDIT_MAC_CIPSOV4_ADD", dec 1407); ("AUDIT_MAC_CIPSOV4_DEL", dec 1408);
    ("AUDIT_MAC_MAP_ADD", dec 1409); ("AUDIT_MAC_MAP_DEL", dec 1410);
    ("AUDIT_MAC_IPSEC_ADDSA", dec 1411); ("AUDIT_MAC_IPSEC_DELSA", dec 1412);
    ("AUDIT_MAC_IPSEC_ADDSPD", dec 1413); ("AUDIT_MAC_IPSEC_DELSPD", dec 1414);
    ("AUDIT_MAC_IPSEC_EVENT", dec 1415); ("AUDIT_MAC_UNLBL_STCADD", dec 1416);
    ("AUDIT_MAC_UNLBL_STCDEL", dec 1417); ("AUDIT_FIRST_KERN_ANOM_MSG", dec 1700);
    ("AUDIT_LAST_KERN_ANOM_MSG", dec 1799); ("AUDIT_ANOM_PROMISCUOUS", dec 1700);
    ("AUDIT_ANOM_ABEND", dec 1701); ("AUDIT_ANOM_LINK", dec 1702);
    ("AUDIT_INTEGRITY_DATA", dec 1800); ("AUDIT_INTEGRITY_METADATA", dec 1801);
    ("AUDIT_INTEGRITY_STATUS", dec 1802); ("AUDIT_INTEGRITY_HASH", dec 1803);
    ("AUDIT_INTEGRITY_PCR", dec 1804); ("AUDIT_INTEGRITY_RULE", dec 1805);
    ("AUDIT_KERNEL", dec 2000); ("AUDIT_FILTER_USER", hex 0x00); ("AUDIT_FILTER_TASK", hex 0x01);
    ("AUDIT_FILTER_ENTRY", hex 0x02); ("AUDIT_FILTER_WATCH", hex 0x03);
    ("AUDIT_FILTER_EXIT", hex 0x04); ("AUDIT_FILTER_TYPE", hex 0x05);
    ("AUDIT_NR_FILTERS", dec 6); ("AUDIT_FILTER_PREPEND", hex 0x10); ("AUDIT_NEVER", dec 0);
    ("AUDIT_POSSIBLE", dec 1); ("AUDIT_ALWAYS", dec 2); ("AUDIT_MAX_FIELDS", dec 64);
    ("AUDIT_MAX_KEY_LEN", dec 256); ("AUDIT_BITMASK_SIZE", dec 64);
    ("AUDIT_SYSCALL_CLASSES", dec 16); ("AUDIT_CLASS_DIR_WRITE", dec 0);
    ("AUDIT_CLASS_DIR_WRITE_32", dec 1); ("AUDIT_CLASS_CHATTR", dec 2);
    ("AUDIT_CLASS_CHATTR_32", dec 3); ("AUDIT_CLASS_READ", dec 4);
    ("AUDIT_CLASS_READ_32", dec 5); ("AUDIT_CLASS_WRITE", dec 6);
    ("AUDIT_CLASS_WRITE_32", dec 7); ("AUDIT_CLASS_SIGNAL", dec 8);
    ("AUDIT_CLASS_SIGNAL_32", dec 9)]].
Definition defs_AUDIT_UNUSED_BITS : list decl := [
  Defines [
    ("AUDIT_UNUSED_BITS", hex 0x07FFFC00); ("AUDIT_COMPARE_UID_TO_OBJ_UID", dec 1);
    ("AUDIT_COMPARE_GID_TO_OBJ_GID", dec 2); ("AUDIT_COMPARE_EUID_TO_OBJ_UID", dec 3);
    ("AUDIT_COMPARE_EGID_TO_OBJ_GID", dec 4); ("AUDIT_COMPARE_AUID_TO_OBJ_UID", dec 5);
    ("AUDIT_COMPARE_SUID_TO_OBJ_UID", dec 6); ("AUDIT_COMPARE_SGID_TO_OBJ_GID", dec 7);
    ("AUDIT_COMPARE_FSUID_TO_OBJ_UID", dec 8); ("AUDIT_COMPARE_FSGID_TO_OBJ_GID", dec 9);
    ("AUDIT_COMPARE_UID_TO_AUID", dec 10); ("AUDIT_COMPARE_UID_TO_EUID", dec 11);
    ("AUDIT_COMPARE_UID_TO_FSUID", dec 12); ("AUDIT_COMPARE_UID_TO_SUID", dec 13);
    ("AUDIT_COMPARE_AUID_TO_FSUID", dec 14); ("AUDIT_COMPARE_AUID_TO_SUID", dec 15);
    ("AUDIT_COMPARE_AUID_TO_EUID", dec 16); ("AUDIT_COMPARE_EUID_TO_SUID", dec 17);
    ("AUDIT_COMPARE_EUID_TO_FSUID", dec 18); ("AUDIT_COMPARE_SUID_TO_FSUID", dec 19);
    ("AUDIT_COMPARE_GID_TO_EGID", dec 20); ("AUDIT_COMPARE_GID_TO_FSGID", dec 21);
    ("AUDIT_COMPARE_GID_TO_SGID", dec 22); ("AUDIT_COMPARE_EGID_TO_FSGID", dec 23);
    ("AUDIT_COMPARE_EGID_TO_SGID", dec 24); ("AUDIT_COMPARE_SGID_TO_FSGID", dec 25);
    ("AUDIT_MAX_FIELD_COMPARE", Id "AUDIT_COMPARE_SGID_TO_FSGID")];
  Defines [
    ("AUDIT_PID", dec 0); ("AUDIT_UID", dec 1); ("AUDIT_EUID", dec 2); ("AUDIT_SUID", dec 3);
    ("AUDIT_FSUID", dec 4); ("AUDIT_GID", dec 5); ("AUDIT_EGID", dec 6); ("AUDIT_SGID", dec 7);
    ("AUDIT_FSGID", dec 8); ("AUDIT_LOGINUID", dec 9); ("AUDIT_PERS", dec 10);
    ("AUDIT_ARCH", dec 11); ("AUDIT_MSGTYPE", dec 12); ("AUDIT_SUBJ_USER", dec 13);
    ("AUDIT_SUBJ_ROLE", dec 14); ("AUDIT_SUBJ_TYPE", dec 15); ("AUDIT_SUBJ_SEN", dec 16);
    ("AUDIT_SUBJ_CLR", dec 17); ("AUDIT_PPID", dec 18); ("AUDIT_OBJ_USER", dec 19);
    ("AUDIT_OBJ_ROLE", dec 20); ("AUDIT_OBJ_TYPE", dec 21); ("AUDIT_OBJ_LEV_LOW", dec 22);
    ("AUDIT_OBJ_LEV_HIGH", dec 23); ("AUDIT_LOGINUID_SET", dec 24); ("AUDIT_DEVMAJOR", dec 100);
    ("AUDIT_DEVMINOR", dec 101); ("AUDIT_INODE", dec 102); ("AUDIT_EXIT", dec 103);
    ("AUDIT_SUCCESS", dec 104); ("AUDIT_WATCH", dec 105); ("AUDIT_PERM", dec 106);
    ("AUDIT_DIR", dec 107); ("AUDIT_FILETYPE", dec 108); ("AUDIT_OBJ_UID", dec 109);
    ("AUDIT_OBJ_GID", dec 110); ("AUDIT_FIELD_COMPARE", dec 111); ("AUDIT_EXE", dec 112);
    ("AUDIT_ARG0", dec 200); ("AUDIT_ARG1", Add (Id "AUDIT_ARG0") (dec 1));
    ("AUDIT_ARG2", Add (Id "AUDIT_ARG0") (dec 2)); ("AUDIT_ARG3", Add (Id "AUDIT_ARG0") (dec 3));
    ("AUDIT_FILTERKEY", dec 210); ("AUDIT_NEGATE", hex 0x80000000)];
  Defines [
    ("AUDIT_BIT_MASK", hex 0x08000000); ("AUDIT_LESS_THAN", hex 0x10000000);
    ("AUDIT_GREATER_THAN", hex 0x20000000); ("AUDIT_NOT_EQUAL", hex 0x30000000);
    ("AUDIT_EQUAL", hex 0x40000000);
    ("AUDIT_BIT_TEST", Or (Id "AUDIT_BIT_MASK") (Id "AUDIT_EQUAL"));
    ("AUDIT_LESS_THAN_OR_EQUAL", Or (Id "AUDIT_LESS_THAN") (Id "AUDIT_EQUAL"));
    ("AUDIT_GREATER_THAN_OR_EQUAL", Or (Id "AUDIT_GREATER_THAN") (Id "AUDIT_EQUAL"));
    ("AUDIT_OPERATORS", Or (Or (Id "AUDIT_EQUAL") (Id "AUDIT_NOT_EQUAL")) (Id "AUDIT_BIT_MASK"))];
  Enum [
    ("Audit_equal", None); ("Audit_not_equal", None); ("Audit_bitmask", None);
    ("Audit_bittest", None); ("Audit_lt", None); ("Audit_gt", None); ("Audit_le", None);
    ("Audit_ge", None); ("Audit_bad", None)]].
Definition defs_AUDIT_STATUS_ENABLED : list decl := [
  Defines [
    ("AUDIT_STATUS_ENABLED", hex 0x0001); ("AUDIT_STATUS_FAILURE", hex 0x0002);
    ("AUDIT_STATUS_PID", hex 0x0004); ("AUDIT_STATUS_RATE_LIMIT", hex 0x0008);
    ("AUDIT_STATUS_BACKLOG_LIMIT", hex 0x0010); ("AUDIT_STATUS_BACKLOG_WAIT_TIME", hex 0x0020);
    ("AUDIT_FEATURE_BITMAP_BACKLOG_LIMIT", hex 0x00000001);
    ("AUDIT_FEATURE_BITMAP_BACKLOG_WAIT_TIME", hex 0x00000002);
    ("AUDIT_FEATURE_BITMAP_EXECUTABLE_PATH", hex 0x00000004);
    ("AUDIT_FEATURE_BITMAP_ALL", Or (Or (Id "AUDIT_FEATURE_BITMAP_BACKLOG_LIMIT") (Id "AUDIT_FEATURE_BITMAP_BACKLOG_WAIT_TIME")) (Id "AUDIT_FEATURE_BITMAP_EXECUTABLE_PATH"));
    ("AUDIT_VERSION_LATEST", Id "AUDIT_FEATURE_BITMAP_ALL");
    ("AUDIT_VERSION_BACKLOG_LIMIT", Id "AUDIT_FEATURE_BITMAP_BACKLOG_LIMIT");
    ("AUDIT_VERSION_BACKLOG_WAIT_TIME", Id "AUDIT_FEATURE_BITMAP_BACKLOG_WAIT_TIME");
    ("AUDIT_FAIL_SILENT", dec 0); ("AUDIT_FAIL_PRINTK", dec 1); ("AUDIT_FAIL_PANIC", dec 2)];
  Defines [
    ("__AUDIT_ARCH_CONVENTION_MASK", hex 0x30000000);
    ("__AUDIT_ARCH_CONVENTION_MIPS64_N32", hex 0x20000000);
    ("__AUDIT_ARCH_64BIT", hex 0x80000000); ("__AUDIT_ARCH_LE", hex 0x40000000);
    ("AUDIT_ARCH_AARCH64", Or (Or (Id "EM_AARCH64") (Id "__AUDIT_ARCH_64BIT")) (Id "__AUDIT_ARCH_LE"));
    ("AUDIT_ARCH_ALPHA", Or (Or (Id "EM_ALPHA") (Id "__AUDIT_ARCH_64BIT")) (Id "__AUDIT_ARCH_LE"));
    ("AUDIT_ARCH_ARM", Or (Id "EM_ARM") (Id "__AUDIT_ARCH_LE"));
    ("AUDIT_ARCH_ARMEB", Id "EM_ARM");
    ("AUDIT_ARCH_CRIS", Or (Id "EM_CRIS") (Id "__AUDIT_ARCH_LE"));
    ("AUDIT_ARCH_FRV", Id "EM_FRV");
    ("AUDIT_ARCH_I386", Or (Id "EM_386") (Id "__AUDIT_ARCH_LE"));
    ("AUDIT_ARCH_IA64", Or (Or (Id "EM_IA_64") (Id "__AUDIT_ARCH_64BIT")) (Id "__AUDIT_ARCH_LE"));
    ("AUDIT_ARCH_M32R", Id "EM_M32R"); ("AUDIT_ARCH_M68K", Id "EM_68K");
    ("AUDIT_ARCH_MICROBLAZE", Id "EM_MICROBLAZE"); ("AUDIT_ARCH_MIPS", Id "EM_MIPS");
    ("AUDIT_ARCH_MIPSEL", Or (Id "EM_MIPS") (Id "__AUDIT_ARCH_LE"));
    ("AUDIT_ARCH_MIPS64", Or (Id "EM_MIPS") (Id "__AUDIT_ARCH_64BIT"));
    ("AUDIT_ARCH_MIPS64N32", Or (Or (Id "EM_MIPS") (Id "__AUDIT_ARCH_64BIT")) (Id "__AUDIT_ARCH_CONVENTION_MIPS64_N32"));
    ("AUDIT_ARCH_MIPSEL64", Or (Or (Id "EM_MIPS") (Id "__AUDIT_ARCH_64BIT")) (Id "__AUDIT_ARCH_LE"));
    ("AUDIT_ARCH_MIPSEL64N32", Or (Or (Or (Id "EM_MIPS") (Id "__AUDIT_ARCH_64BIT")) (Id "__AUDIT_ARCH_LE")) (Id "__AUDIT_ARCH_CONVENTION_MIPS64_N32"));
    ("AUDIT_ARCH_OPENRISC", Id "EM_OPENRISC"); ("AUDIT_ARCH_PARISC", Id "EM_PARISC");
    ("AUDIT_ARCH_PARISC64", Or (Id "EM_PARISC") (Id "__AUDIT_ARCH_64BIT"));
    ("AUDIT_ARCH_PPC", Id "EM_PPC");
    ("AUDIT_ARCH_PPC64", Or (Id "EM_PPC64") (Id "__AUDIT_ARCH_64BIT"));
    ("AUDIT_ARCH_PPC64LE", Or (Or (Id "EM_PPC64") (Id "__AUDIT_ARCH_64BIT")) (Id "__AUDIT_ARCH_LE"));
    ("AUDIT_ARCH_S390", Id "EM_S390");
    ("AUDIT_ARCH_S390X", Or (Id "EM_S390") (Id "__AUDIT_ARCH_64BIT"));
    ("AUDIT_ARCH_SH", Id "EM_SH"); ("AUDIT_ARCH_SHEL", Or (Id "EM_SH") (Id "__AUDIT_ARCH_LE"));
    ("AUDIT_ARCH_SH64", Or (Id "EM_SH") (Id "__AUDIT_ARCH_64BIT"));
    ("AUDIT_ARCH_SHEL64", Or (Or (Id "EM_SH") (Id "__AUDIT_ARCH_64BIT")) (Id "__AUDIT_ARCH_LE"));
    ("AUDIT_ARCH_SPARC", Id "EM_SPARC");
    ("AUDIT_ARCH_SPARC64", Or (Id "EM_SPARCV9") (Id "__AUDIT_ARCH_64BIT"));
    ("AUDIT_ARCH_TILEGX", Or (Or (Id "EM_TILEGX") (Id "__AUDIT_ARCH_64BIT")) (Id "__AUDIT_ARCH_LE"));
    ("AUDIT_ARCH_TILEGX32", Or (Id "EM_TILEGX") (Id "__AUDIT_ARCH_LE"));
    ("AUDIT_ARCH_TILEPRO", Or (Id "EM_TILEPRO") (Id "__AUDIT_ARCH_LE"));
    ("AUDIT_ARCH_X86_64", Or (Or (Id "EM_X86_64") (Id "__AUDIT_ARCH_64BIT")) (Id "__AUDIT_ARCH_LE"));
    ("AUDIT_PERM_EXEC", dec 1); ("AUDIT_PERM_WRITE", dec 2); ("AUDIT_PERM_READ", dec 4);
    ("AUDIT_PERM_ATTR", dec 8)]].
Definition enum_audit_nlgrps : list decl := [
  Enum [
    ("AUDIT_NLGRP_NONE", None); ("AUDIT_NLGRP_READLOG", None); ("__AUDIT_NLGRP_MAX", None)];
  Defines [
    ("AUDIT_NLGRP_MAX", Sub (Id "__AUDIT_NLGRP_MAX") (dec 1))]].
Definition header : header :=
  Header "linux/audit.h" [Elf_em.header] (concat [
    defs_AUDIT_GET; defs_AUDIT_UNUSED_BITS; defs_AUDIT_STATUS_ENABLED; enum_audit_nlgrps]).
End Audit.

(** ** [linux/capability.h] *)

Module Capability.
Definition defs__LINUX_CAPABILITY_VERSION_1 : list decl := [
  Defines [
    ("_LINUX_CAPABILITY_VERSION_1", hex 0x19980330); ("_LINUX_CAPABILITY_U32S_1", dec 1);
    ("_LINUX_CAPABILITY_VERSION_2", hex 0x20071026); ("_LINUX_CAPABILITY_U32S_2", dec 2);
    ("_LINUX_CAPABILITY_VERSION_3", hex 0x20080522); ("_LINUX_CAPABILITY_U32S_3", dec 2)]].
Definition defs_VFS_CAP_REVISION_MASK : list decl := [
  Defines [
    ("VFS_CAP_REVISION_MASK", hex 0xFF000000); ("VFS_CAP_REVISION_SHIFT", dec 24);
    ("VFS_CAP_FLAGS_MASK", Not (Id "VFS_CAP_REVISION_MASK"));
    ("VFS_CAP_FLAGS_EFFECTIVE", hex 0x000001); ("VFS_CAP_REVISION_1", hex 0x01000000);
    ("VFS_CAP_U32_1", dec 1)]].
Definition defs_CAP_SYS_RAWIO : list decl := [
  Defines [
    ("CAP_SYS_RAWIO", dec 17); ("CAP_SYS_CHROOT", dec 18); ("CAP_SYS_PTRACE", dec 19);
    ("CAP_SYS_PACCT", dec 20)]].
Definition defs_CAP_SYS_TTY_CONFIG : list decl := [
  Defines [
    ("CAP_SYS_TTY_CONFIG", dec 26); ("CAP_MKNOD", dec 27); ("CAP_LEASE", dec 28);
    ("CAP_AUDIT_WRITE", dec 29); ("CAP_AUDIT_CONTROL", dec 30); ("CAP_SETFCAP", dec 31)]].
Definition defs_CAP_MAC_ADMIN : list decl := [
  Defines [
    ("CAP_MAC_ADMIN", dec 33); ("CAP_SYSLOG", dec 34); ("CAP_WAKE_ALARM", dec 35);
    ("CAP_BLOCK_SUSPEND", dec 36); ("CAP_AUDIT_READ", dec 37);
    ("CAP_LAST_CAP", Id "CAP_AUDIT_READ")]].
Definition header : header :=
  Header "linux/capability.h" [] (concat [
    defs__LINUX_CAPABILITY_VERSION_1; defs_VFS_CAP_REVISION_MASK; defs_CAP_SYS_RAWIO;
    defs_CAP_SYS_TTY_CONFIG; defs_CAP_MAC_ADMIN]).
End Capability.

(** ** [linux/cn_proc.h] *)

Module Cn_proc.
Definition enum_what : list decl := [
  Enum [
    ("PROC_EVENT_NONE", Some (hex 0x00000000)); ("PROC_EVENT_FORK", Some (hex 0x00000001));
    ("PROC_EVENT_EXEC", Some (hex 0x00000002)); ("PROC_EVENT_UID", Some (hex 0x00000004));
    ("PROC_EVENT_GID", Some (hex 0x00000040)); ("PROC_EVENT_SID", Some (hex 0x00000080));
    ("PROC_EVENT_PTRACE", Some (hex 0x00000100)); ("PROC_EVENT_COMM", Some (hex 0x00000200));
    ("PROC_EVENT_COREDUMP", Some (hex 0x40000000)); ("PROC_EVENT_EXIT", Some (hex 0x80000000))]].
Definition header : header :=
  Header "linux/cn_proc.h" [] (concat [
    enum_what]).
End Cn_proc.

(** ** [linux/elf.h] *)

Module Elf.
Definition defs_PT_NULL : list decl := [
  Defines [
    ("PT_NULL", dec 0); ("PT_LOAD", dec 1); ("PT_DYNAMIC", dec 2); ("PT_INTERP", dec 3);
    ("PT_NOTE", dec 4); ("PT_SHLIB", dec 5); ("PT_PHDR", dec 6); ("PT_TLS", dec 7);
    ("PT_LOOS", hex 0x60000000); ("PT_HIOS", hex 0x6fffffff); ("PT_LOPROC", hex 0x70000000);
    ("PT_HIPROC", hex 0x7fffffff); ("PT_GNU_EH_FRAME", hex 0x6474e550);
    ("PT_GNU_STACK", Add (Id "PT_LOOS") (hex 0x474e551))];
  Defines [
    ("PN_XNUM", hex 0xffff); ("ET_NONE", dec 0); ("ET_REL", dec 1); ("ET_EXEC", dec 2);
    ("ET_DYN", dec 3); ("ET_CORE", dec 4); ("ET_LOPROC", hex 0xff00); ("ET_HIPROC", hex 0xffff);
    ("DT_NULL", dec 0); ("DT_NEEDED", dec 1); ("DT_PLTRELSZ", dec 2); ("DT_PLTGOT", dec 3);
    ("DT_HASH", dec 4); ("DT_STRTAB", dec 5); ("DT_SYMTAB", dec 6); ("DT_RELA", dec 7);
    ("DT_RELASZ", dec 8); ("DT_RELAENT", dec 9); ("DT_STRSZ", dec 10); ("DT_SYMENT", dec 11);
    ("DT_INIT", dec 12); ("DT_FINI", dec 13); ("DT_SONAME", dec 14); ("DT_RPATH", dec 15);
    ("DT_SYMBOLIC", dec 16); ("DT_REL", dec 17); ("DT_RELSZ", dec 18); ("DT_RELENT", dec 19);
    ("DT_PLTREL", dec 20); ("DT_DEBUG", dec 21); ("DT_TEXTREL", dec 22); ("DT_JMPREL", dec 23);
    ("DT_ENCODING", dec 32); ("OLD_DT_LOOS", hex 0x60000000); ("DT_LOOS", hex 0x6000000d);
    ("DT_HIOS", hex 0x6ffff000); ("DT_VALRNGLO", hex 0x6ffffd00);
    ("DT_VALRNGHI", hex 0x6ffffdff); ("DT_ADDRRNGLO", hex 0x6ffffe00);
    ("DT_ADDRRNGHI", hex 0x6ffffeff); ("DT_VERSYM", hex 0x6ffffff0);
    ("DT_RELACOUNT", hex 0x6ffffff9); ("DT_RELCOUNT", hex 0x6ffffffa);
    ("DT_FLAGS_1", hex 0x6ffffffb); ("DT_VERDEF", hex 0x6ffffffc);
    ("DT_VERDEFNUM", hex 0x6ffffffd); ("DT_VERNEED", hex 0x6ffffffe);
    ("DT_VERNEEDNUM", hex 0x6fffffff); ("OLD_DT_HIOS", hex 0x6fffffff);
    ("DT_LOPROC", hex 0x70000000); ("DT_HIPROC", hex 0x7fffffff); ("STB_LOCAL", dec 0);
    ("STB_GLOBAL", dec 1); ("STB_WEAK", dec 2); ("STT_NOTYPE", dec 0); ("STT_OBJECT", dec 1);
    ("STT_FUNC", dec 2); ("STT_SECTION", dec 3); ("STT_FILE", dec 4); ("STT_COMMON", dec 5);
    ("STT_TLS", dec 6)]].
Definition defs_SHT_NULL : list decl := [
  Defines [
    ("SHT_NULL", dec 0); ("SHT_PROGBITS", dec 1); ("SHT_SYMTAB", dec 2); ("SHT_STRTAB", dec 3);
    ("SHT_RELA", dec 4); ("SHT_HASH", dec 5); ("SHT_DYNAMIC", dec 6); ("SHT_NOTE", dec 7);
    ("SHT_NOBITS", dec 8); ("SHT_REL", dec 9); ("SHT_SHLIB", dec 10); ("SHT_DYNSYM", dec 11);
    ("SHT_NUM", dec 12); ("SHT_LOPROC", hex 0x70000000); ("SHT_HIPROC", hex 0x7fffffff);
    ("SHT_LOUSER", hex 0x80000000); ("SHT_HIUSER", hex 0xffffffff); ("SHF_WRITE", hex 0x1);
    ("SHF_ALLOC", hex 0x2); ("SHF_EXECINSTR", hex 0x4); ("SHF_MASKPROC", hex 0xf0000000);
    ("SHN_UNDEF", dec 0); ("SHN_LORESERVE", hex 0xff00); ("SHN_LOPROC", hex 0xff00);
    ("SHN_HIPROC", hex 0xff1f); ("SHN_ABS", hex 0xfff1); ("SHN_COMMON", hex 0xfff2);
    ("SHN_HIRESERVE", hex 0xffff)]].
Definition defs_EI_MAG0 : list decl := [
  Defines [
    ("EI_MAG0", dec 0); ("EI_MAG1", dec 1); ("EI_MAG2", dec 2); ("EI_MAG3", dec 3);
    ("EI_CLASS", dec 4); ("EI_DATA", dec 5); ("EI_VERSION", dec 6); ("EI_OSABI", dec 7);
    ("EI_PAD", dec 8); ("ELFMAG0", hex 0x7f); ("ELFMAG1", chr 69); ("ELFMAG2", chr 76);
    ("ELFMAG3", chr 70)]].
Definition defs_SELFMAG : list decl := [
  Defines [
    ("SELFMAG", dec 4); ("ELFCLASSNONE", dec 0); ("ELFCLASS32", dec 1); ("ELFCLASS64", dec 2);
    ("ELFCLASSNUM", dec 3); ("ELFDATANONE", dec 0); ("ELFDATA2LSB", dec 1);
    ("ELFDATA2MSB", dec 2); ("EV_NONE", dec 0); ("EV_CURRENT", dec 1); ("EV_NUM", dec 2);
    ("ELFOSABI_NONE", dec 0); ("ELFOSABI_LINUX", dec 3)]].
Definition defs_NT_PRSTATUS : list decl := [
  Defines [
    ("NT_PRSTATUS", dec 1); ("NT_PRFPREG", dec 2); ("NT_PRPSINFO", dec 3);
    ("NT_TASKSTRUCT", dec 4); ("NT_AUXV", dec 6)];
  Defines [
    ("NT_SIGINFO", hex 0x53494749); ("NT_FILE", hex 0x46494c45); ("NT_PRXFPREG", hex 0x46e62b7f);
    ("NT_PPC_VMX", hex 0x100); ("NT_PPC_SPE", hex 0x101); ("NT_PPC_VSX", hex 0x102);
    ("NT_386_TLS", hex 0x200); ("NT_386_IOPERM", hex 0x201); ("NT_X86_XSTATE", hex 0x202);
    ("NT_S390_HIGH_GPRS", hex 0x300); ("NT_S390_TIMER", hex 0x301);
    ("NT_S390_TODCMP", hex 0x302); ("NT_S390_TODPREG", hex 0x303); ("NT_S390_CTRS", hex 0x304);
    ("NT_S390_PREFIX", hex 0x305); ("NT_S390_LAST_BREAK", hex 0x306);
    ("NT_S390_SYSTEM_CALL", hex 0x307); ("NT_S390_TDB", hex 0x308);
    ("NT_S390_VXRS_LOW", hex 0x309); ("NT_S390_VXRS_HIGH", hex 0x30a); ("NT_ARM_VFP", hex 0x400);
    ("NT_ARM_TLS", hex 0x401); ("NT_ARM_HW_BREAK", hex 0x402); ("NT_ARM_HW_WATCH", hex 0x403);
    ("NT_ARM_SYSTEM_CALL", hex 0x404); ("NT_METAG_CBUF", hex 0x500);
    ("NT_METAG_RPIPE", hex 0x501); ("NT_METAG_TLS", hex 0x502)]].
Definition header : header :=
  Header "linux/elf.h" [] (concat [
    defs_PT_NULL; defs_SHT_NULL; defs_EI_MAG0; defs_SELFMAG; defs_NT_PRSTATUS]).
End Elf.

(** ** [linux/esoc_ctrl.h] *)

Module Esoc_ctrl.
Definition enum_esoc_evt : list decl := [
  Enum [
    ("ESOC_RUN_STATE", Some (hex 0x1)); ("ESOC_UNEXPECTED_RESET", None);
    ("ESOC_ERR_FATAL", None); ("ESOC_IN_DEBUG", None); ("ESOC_REQ_ENG_ON", None);
    ("ESOC_REQ_ENG_OFF", None); ("ESOC_CMD_ENG_ON", None); ("ESOC_CMD_ENG_OFF", None);
    ("ESOC_INVALID_STATE", None)];
  Enum [
    ("ESOC_PWR_ON", Some (dec 1)); ("ESOC_PWR_OFF", None); ("ESOC_FORCE_PWR_OFF", None);
    ("ESOC_RESET", None); ("ESOC_PREPARE_DEBUG", None); ("ESOC_EXE_DEBUG", None);
    ("ESOC_EXIT_DEBUG", None)];
  Enum [
    ("ESOC_IMG_XFER_DONE", Some (dec 1)); ("ESOC_BOOT_DONE", None); ("ESOC_BOOT_FAIL", None);
    ("ESOC_IMG_XFER_RETRY", None); ("ESOC_IMG_XFER_FAIL", None);
    ("ESOC_UPGRADE_AVAILABLE", None); ("ESOC_DEBUG_DONE", None); ("ESOC_DEBUG_FAIL", None);
    ("ESOC_PRIMARY_CRASH", None); ("ESOC_PRIMARY_REBOOT", None)];
  Enum [
    ("ESOC_REQ_IMG", Some (dec 1)); ("ESOC_REQ_DEBUG", None); ("ESOC_REQ_SHUTDOWN", None);
    ("ESOC_REQ_SEND_SHUTDOWN", None)]].
Definition header : header :=
  Header "linux/esoc_ctrl.h" [] (concat [
    enum_esoc_evt]).
End Esoc_ctrl.

(** ** [linux/eventpoll.h] *)

Module Eventpoll.
Definition defs_EPOLL_CLOEXEC : list decl := [
  Defines [
    ("EPOLL_CLOEXEC", Id "O_CLOEXEC"); ("EPOLL_CTL_ADD", dec 1); ("EPOLL_CTL_DEL", dec 2);
    ("EPOLL_CTL_MOD", dec 3); ("EPOLLIN", hex 0x00000001); ("EPOLLPRI", hex 0x00000002);
    ("EPOLLOUT", hex 0x00000004); ("EPOLLERR", hex 0x00000008); ("EPOLLHUP", hex 0x00000010);
    ("EPOLLRDNORM", hex 0x00000040); ("EPOLLRDBAND", hex 0x00000080);
    ("EPOLLWRNORM", hex 0x00000100); ("EPOLLWRBAND", hex 0x00000200);
    ("EPOLLMSG", hex 0x00000400); ("EPOLLRDHUP", hex 0x00002000);
    ("EPOLLEXCLUSIVE", Shl (decU 1) (dec 28))]].
Definition header : header :=
  Header "linux/eventpoll.h" [Asm_generic_fcntl.header] (concat [
    defs_EPOLL_CLOEXEC]).
End Eventpoll.

(** ** [linux/futex.h] *)

Module Futex.
Definition defs_FUTEX_WAIT : list decl := [
  Defines [
    ("FUTEX_WAIT", dec 0); ("FUTEX_WAKE", dec 1); ("FUTEX_FD", dec 2); ("FUTEX_REQUEUE", dec 3);
    ("FUTEX_CMP_REQUEUE", dec 4); ("FUTEX_WAKE_OP", dec 5); ("FUTEX_LOCK_PI", dec 6);
    ("FUTEX_UNLOCK_PI", dec 7); ("FUTEX_TRYLOCK_PI", dec 8); ("FUTEX_WAIT_BITSET", dec 9);
    ("FUTEX_WAKE_BITSET", dec 10); ("FUTEX_WAIT_REQUEUE_PI", dec 11);
    ("FUTEX_CMP_REQUEUE_PI", dec 12); ("FUTEX_PRIVATE_FLAG", dec 128);
    ("FUTEX_CLOCK_REALTIME", dec 256);
    ("FUTEX_CMD_MASK", Not (Or (Id "FUTEX_PRIVATE_FLAG") (Id "FUTEX_CLOCK_REALTIME")));
    ("FUTEX_WAIT_PRIVATE", Or (Id "FUTEX_WAIT") (Id "FUTEX_PRIVATE_FLAG"));
    ("FUTEX_WAKE_PRIVATE", Or (Id "FUTEX_WAKE") (Id "FUTEX_PRIVATE_FLAG"));
    ("FUTEX_REQUEUE_PRIVATE", Or (Id "FUTEX_REQUEUE") (Id "FUTEX_PRIVATE_FLAG"));
    ("FUTEX_CMP_REQUEUE_PRIVATE", Or (Id "FUTEX_CMP_REQUEUE") (Id "FUTEX_PRIVATE_FLAG"));
    ("FUTEX_WAKE_OP_PRIVATE", Or (Id "FUTEX_WAKE_OP") (Id "FUTEX_PRIVATE_FLAG"));
    ("FUTEX_LOCK_PI_PRIVATE", Or (Id "FUTEX_LOCK_PI") (Id "FUTEX_PRIVATE_FLAG"));
    ("FUTEX_UNLOCK_PI_PRIVATE", Or (Id "FUTEX_UNLOCK_PI") (Id "FUTEX_PRIVATE_FLAG"));
    ("FUTEX_TRYLOCK_PI_PRIVATE", Or (Id "FUTEX_TRYLOCK_PI") (Id "FUTEX_PRIVATE_FLAG"));
    ("FUTEX_WAIT_BITSET_PRIVATE", Or (Id "FUTEX_WAIT_BITSET") (Id "FUTEX_PRIVATE_FLAG"));
    ("FUTEX_WAKE_BITSET_PRIVATE", Or (Id "FUTEX_WAKE_BITSET") (Id "FUTEX_PRIVATE_FLAG"));
    ("FUTEX_WAIT_REQUEUE_PI_PRIVATE", Or (Id "FUTEX_WAIT_REQUEUE_PI") (Id "FUTEX_PRIVATE_FLAG"));
    ("FUTEX_CMP_REQUEUE_PI_PRIVATE", Or (Id "FUTEX_CMP_REQUEUE_PI") (Id "FUTEX_PRIVATE_FLAG"))]].
Definition defs_FUTEX_BITSET_MATCH_ANY : list decl := [
  Defines [
    ("FUTEX_BITSET_MATCH_ANY", hex 0xffffffff); ("FUTEX_OP_SET", dec 0); ("FUTEX_OP_ADD", dec 1);
    ("FUTEX_OP_OR", dec 2); ("FUTEX_OP_ANDN", dec 3); ("FUTEX_OP_XOR", dec 4);
    ("FUTEX_OP_OPARG_SHIFT", dec 8); ("FUTEX_OP_CMP_EQ", dec 0); ("FUTEX_OP_CMP_NE", dec 1);
    ("FUTEX_OP_CMP_LT", dec 2); ("FUTEX_OP_CMP_LE", dec 3); ("FUTEX_OP_CMP_GT", dec 4);
    ("FUTEX_OP_CMP_GE", dec 5)]].
Definition header : header :=
  Header "linux/futex.h" [] (concat [
    defs_FUTEX_WAIT; defs_FUTEX_BITSET_MATCH_ANY]).
End Futex.

(** ** [linux/hyperv.h] *)

Module Hyperv.
Definition defs_UTIL_FW_MINOR : list decl := [
  Defines [
    ("UTIL_FW_MINOR", dec 0); ("UTIL_WS2K8_FW_MAJOR", dec 1);
    ("UTIL_WS2K8_FW_VERSION", Or (Shl (Id "UTIL_WS2K8_FW_MAJOR") (dec 16)) (Id "UTIL_FW_MINOR"));
    ("UTIL_FW_MAJOR", dec 3);
    ("UTIL_FW_VERSION", Or (Shl (Id "UTIL_FW_MAJOR") (dec 16)) (Id "UTIL_FW_MINOR"))]].
Definition enum_hv_vss_op : list decl := [
  Enum [
    ("VSS_OP_CREATE", Some (dec 0)); ("VSS_OP_DELETE", None); ("VSS_OP_HOT_BACKUP", None);
    ("VSS_OP_GET_DM_INFO", None); ("VSS_OP_BU_COMPLETE", None); ("VSS_OP_FREEZE", None);
    ("VSS_OP_THAW", None); ("VSS_OP_AUTO_RECOVER", None); ("VSS_OP_COUNT", None)]].
Definition defs_FCOPY_VERSION_0 : list decl := [
  Defines [
    ("FCOPY_VERSION_0", dec 0); ("FCOPY_VERSION_1", dec 1);
    ("FCOPY_CURRENT_VERSION", Id "FCOPY_VERSION_1"); ("W_MAX_PATH", dec 260)];
  Enum [
    ("START_FILE_COPY", Some (dec 0)); ("WRITE_TO_FILE", None); ("COMPLETE_FCOPY", None);
    ("CANCEL_FCOPY", None)]].
Definition enum_hv_kvp_exchg_op : list decl := [
  Enum [
    ("KVP_OP_GET", Some (dec 0)); ("KVP_OP_SET", None); ("KVP_OP_DELETE", None);
    ("KVP_OP_ENUMERATE", None); ("KVP_OP_GET_IP_INFO", None); ("KVP_OP_SET_IP_INFO", None);
    ("KVP_OP_COUNT", None)];
  Enum [
    ("KVP_POOL_EXTERNAL", Some (dec 0)); ("KVP_POOL_GUEST", None); ("KVP_POOL_AUTO", None);
    ("KVP_POOL_AUTO_EXTERNAL", None); ("KVP_POOL_AUTO_INTERNAL", None); ("KVP_POOL_COUNT", None)];
  Defines [
    ("HV_S_OK", hex 0x00000000); ("HV_E_FAIL", hex 0x80004005); ("HV_S_CONT", hex 0x80070103);
    ("HV_ERROR_NOT_SUPPORTED", hex 0x80070032); ("HV_ERROR_MACHINE_LOCKED", hex 0x800704F7);
    ("HV_ERROR_DEVICE_NOT_CONNECTED", hex 0x8007048F); ("HV_INVALIDARG", hex 0x80070057);
    ("HV_GUID_NOTFOUND", hex 0x80041002); ("HV_ERROR_ALREADY_EXISTS", hex 0x80070050);
    ("HV_ERROR_DISK_FULL", hex 0x80070070); ("ADDR_FAMILY_NONE", hex 0x00);
    ("ADDR_FAMILY_IPV4", hex 0x01); ("ADDR_FAMILY_IPV6", hex 0x02);
    ("MAX_ADAPTER_ID_SIZE", dec 128); ("MAX_IP_ADDR_SIZE", dec 1024);
    ("MAX_GATEWAY_SIZE", dec 512)]].
Definition header : header :=
  Header "linux/hyperv.h" [] (concat [
    defs_UTIL_FW_MINOR; enum_hv_vss_op; defs_FCOPY_VERSION_0; enum_hv_kvp_exchg_op]).
End Hyperv.

(** ** [linux/inotify.h] *)

Module Inotify.
Definition defs_IN_ACCESS : list decl := [
  Defines [
    ("IN_ACCESS", hex 0x00000001); ("IN_MODIFY", hex 0x00000002); ("IN_ATTRIB", hex 0x00000004);
    ("IN_CLOSE_WRITE", hex 0x00000008); ("IN_CLOSE_NOWRITE", hex 0x00000010);
    ("IN_OPEN", hex 0x00000020); ("IN_MOVED_FROM", hex 0x00000040);
    ("IN_MOVED_TO", hex 0x00000080); ("IN_CREATE", hex 0x00000100);
    ("IN_DELETE", hex 0x00000200); ("IN_DELETE_SELF", hex 0x00000400);
    ("IN_MOVE_SELF", hex 0x00000800); ("IN_UNMOUNT", hex 0x00002000);
    ("IN_Q_OVERFLOW", hex 0x00004000); ("IN_IGNORED", hex 0x00008000);
    ("IN_CLOSE", Or (Id "IN_CLOSE_WRITE") (Id "IN_CLOSE_NOWRITE"));
    ("IN_MOVE", Or (Id "IN_MOVED_FROM") (Id "IN_MOVED_TO")); ("IN_ONLYDIR", hex 0x01000000);
    ("IN_DONT_FOLLOW", hex 0x02000000); ("IN_EXCL_UNLINK", hex 0x04000000);
    ("IN_MASK_ADD", hex 0x20000000); ("IN_ISDIR", hex 0x40000000); ("IN_ONESHOT", hex 0x80000000)]].
Definition header : header :=
  Header "linux/inotify.h" [] (concat [
    defs_IN_ACCESS]).
End Inotify.

(** ** [linux/ipa_qmi_service_v01.h] *)

Module Ipa_qmi_service_v01.
Definition defs_QMI_IPA_IPFLTR_NUM_IHL_RANGE_16_EQNS_V01 : list decl := [
  Defines [
    ("QMI_IPA_IPFLTR_NUM_IHL_RANGE_16_EQNS_V01", dec 2);
    ("QMI_IPA_IPFLTR_NUM_MEQ_32_EQNS_V01", dec 2);
    ("QMI_IPA_IPFLTR_NUM_IHL_MEQ_32_EQNS_V01", dec 2);
    ("QMI_IPA_IPFLTR_NUM_MEQ_128_EQNS_V01", dec 2); ("QMI_IPA_MAX_FILTERS_V01", dec 64);
    ("QMI_IPA_MAX_FILTERS_EX_V01", dec 128); ("QMI_IPA_MAX_PIPES_V01", dec 20);
    ("QMI_IPA_MAX_APN_V01", dec 8); ("QMI_IPA_MAX_PER_CLIENTS_V01", dec 64);
    ("QMI_IPA_MAX_CLIENT_DST_PIPES_V01", dec 8); ("QMI_IPA_MAX_UL_FIREWALL_RULES_V01", dec 64)]].
Definition enum_ipa_platform_type_enum_v01 : list decl := [
  Enum [
    ("IPA_PLATFORM_TYPE_ENUM_MIN_ENUM_VAL_V01", Some (Neg (dec 2147483647)));
    ("QMI_IPA_PLATFORM_TYPE_INVALID_V01", Some (dec 0));
    ("QMI_IPA_PLATFORM_TYPE_TN_V01", Some (dec 1));
    ("QMI_IPA_PLATFORM_TYPE_LE_V01", Some (dec 2));
    ("QMI_IPA_PLATFORM_TYPE_MSM_ANDROID_V01", Some (dec 3));
    ("QMI_IPA_PLATFORM_TYPE_MSM_WINDOWS_V01", Some (dec 4));
    ("QMI_IPA_PLATFORM_TYPE_MSM_QNX_V01", Some (dec 5));
    ("IPA_PLATFORM_TYPE_ENUM_MAX_ENUM_VAL_V01", Some (dec 2147483647))]].
Definition enum_ipa_ip_type_enum_v01 : list decl := [
  Enum [
    ("IPA_IP_TYPE_ENUM_MIN_ENUM_VAL_V01", Some (Neg (dec 2147483647)));
    ("QMI_IPA_IP_TYPE_INVALID_V01", Some (dec 0)); ("QMI_IPA_IP_TYPE_V4_V01", Some (dec 1));
    ("QMI_IPA_IP_TYPE_V6_V01", Some (dec 2)); ("QMI_IPA_IP_TYPE_V4V6_V01", Some (dec 3));
    ("IPA_IP_TYPE_ENUM_MAX_ENUM_VAL_V01", Some (dec 2147483647))];
  Enum [
    ("IPA_FILTER_ACTION_ENUM_MIN_ENUM_VAL_V01", Some (Neg (dec 2147483647)));
    ("QMI_IPA_FILTER_ACTION_INVALID_V01", Some (dec 0));
    ("QMI_IPA_FILTER_ACTION_SRC_NAT_V01", Some (dec 1));
    ("QMI_IPA_FILTER_ACTION_DST_NAT_V01", Some (dec 2));
    ("QMI_IPA_FILTER_ACTION_ROUTING_V01", Some (dec 3));
    ("QMI_IPA_FILTER_ACTION_EXCEPTION_V01", Some (dec 4));
    ("IPA_FILTER_ACTION_ENUM_MAX_ENUM_VAL_V01", Some (dec 2147483647))]].
Definition enum_ipa_peripheral_speed_enum_v01 : list decl := [
  Enum [
    ("IPA_PERIPHERAL_SPEED_ENUM_MIN_ENUM_VAL_V01", Some (Neg (dec 2147483647)));
    ("QMI_IPA_PER_USB_FS_V01", Some (dec 1)); ("QMI_IPA_PER_USB_HS_V01", Some (dec 2));
    ("QMI_IPA_PER_USB_SS_V01", Some (dec 3)); ("QMI_IPA_PER_WLAN_V01", Some (dec 4));
    ("IPA_PERIPHERAL_SPEED_ENUM_MAX_ENUM_VAL_V01", Some (dec 2147483647))];
  Enum [
    ("IPA_PIPE_MODE_ENUM_MIN_ENUM_VAL_V01", Some (Neg (dec 2147483647)));
    ("QMI_IPA_PIPE_MODE_HW_V01", Some (dec 1)); ("QMI_IPA_PIPE_MODE_SW_V01", Some (dec 2));
    ("IPA_PIPE_MODE_ENUM_MAX_ENUM_VAL_V01", Some (dec 2147483647))];
  Enum [
    ("IPA_PERIPHERAL_TYPE_ENUM_MIN_ENUM_VAL_V01", Some (Neg (dec 2147483647)));
    ("QMI_IPA_PERIPHERAL_USB_V01", Some (dec 1)); ("QMI_IPA_PERIPHERAL_HSIC_V01", Some (dec 2));
    ("QMI_IPA_PERIPHERAL_PCIE_V01", Some (dec 3));
    ("IPA_PERIPHERAL_TYPE_ENUM_MAX_ENUM_VAL_V01", Some (dec 2147483647))]].
Definition enum_ipa_stats_type_enum_v01 : list decl := [
  Enum [
    ("IPA_STATS_TYPE_ENUM_MIN_ENUM_VAL_V01", Some (Neg (dec 2147483647)));
    ("QMI_IPA_STATS_TYPE_INVALID_V01", Some (dec 0));
    ("QMI_IPA_STATS_TYPE_PIPE_V01", Some (dec 1));
    ("QMI_IPA_STATS_TYPE_FILTER_RULES_V01", Some (dec 2));
    ("IPA_STATS_TYPE_ENUM_MAX_ENUM_VAL_V01", Some (dec 2147483647))]].
Definition enum_ipa_ul_firewall_status_enum_v01 : list decl := [
  Enum [
    ("IPA_UL_FIREWALL_STATUS_ENUM_MIN_ENUM_VAL_V01", Some (Neg (dec 2147483647)));
    ("QMI_IPA_UL_FIREWALL_STATUS_SUCCESS_V01", Some (dec 0));
    ("QMI_IPA_UL_FIREWALL_STATUS_FAILURE_V01", Some (dec 1));
    ("IPA_UL_FIREWALL_STATUS_ENUM_MAX_ENUM_VAL_V01", Some (dec 2147483647))]].
Definition defs_QMI_IPA_INDICATION_REGISTER_REQ_V01 : list decl := [
  Defines [
    ("QMI_IPA_INDICATION_REGISTER_REQ_V01", hex 0x0020);
    ("QMI_IPA_INDICATION_REGISTER_RESP_V01", hex 0x0020);
    ("QMI_IPA_INIT_MODEM_DRIVER_REQ_V01", hex 0x0021);
    ("QMI_IPA_INIT_MODEM_DRIVER_RESP_V01", hex 0x0021);
    ("QMI_IPA_MASTER_DRIVER_INIT_COMPLETE_IND_V01", hex 0x0022);
    ("QMI_IPA_INSTALL_FILTER_RULE_REQ_V01", hex 0x0023);
    ("QMI_IPA_INSTALL_FILTER_RULE_RESP_V01", hex 0x0023);
    ("QMI_IPA_FILTER_INSTALLED_NOTIF_REQ_V01", hex 0x0024);
    ("QMI_IPA_FILTER_INSTALLED_NOTIF_RESP_V01", hex 0x0024);
    ("QMI_IPA_ENABLE_FORCE_CLEAR_DATAPATH_REQ_V01", hex 0x0025);
    ("QMI_IPA_ENABLE_FORCE_CLEAR_DATAPATH_RESP_V01", hex 0x0025);
    ("QMI_IPA_DISABLE_FORCE_CLEAR_DATAPATH_REQ_V01", hex 0x0026);
    ("QMI_IPA_DISABLE_FORCE_CLEAR_DATAPATH_RESP_V01", hex 0x0026);
    ("QMI_IPA_CONFIG_REQ_V01", hex 0x0027); ("QMI_IPA_CONFIG_RESP_V01", hex 0x0027);
    ("QMI_IPA_DISABLE_LINK_LOW_PWR_STATE_REQ_V01", hex 0x0028);
    ("QMI_IPA_DISABLE_LINK_LOW_PWR_STATE_RESP_V01", hex 0x0028);
    ("QMI_IPA_ENABLE_LINK_LOW_PWR_STATE_REQ_V01", hex 0x0029);
    ("QMI_IPA_ENABLE_LINK_LOW_PWR_STATE_RESP_V01", hex 0x0029);
    ("QMI_IPA_GET_DATA_STATS_REQ_V01", hex 0x0030);
    ("QMI_IPA_GET_DATA_STATS_RESP_V01", hex 0x0030);
    ("QMI_IPA_GET_APN_DATA_STATS_REQ_V01", hex 0x0031);
    ("QMI_IPA_GET_APN_DATA_STATS_RESP_V01", hex 0x0031);
    ("QMI_IPA_SET_DATA_USAGE_QUOTA_REQ_V01", hex 0x0032);
    ("QMI_IPA_SET_DATA_USAGE_QUOTA_RESP_V01", hex 0x0032);
    ("QMI_IPA_DATA_USAGE_QUOTA_REACHED_IND_V01", hex 0x0033);
    ("QMI_IPA_STOP_DATA_USAGE_QUOTA_REQ_V01", hex 0x0034);
    ("QMI_IPA_STOP_DATA_USAGE_QUOTA_RESP_V01", hex 0x0034);
    ("QMI_IPA_INIT_MODEM_DRIVER_CMPLT_REQ_V01", hex 0x0035);
    ("QMI_IPA_INIT_MODEM_DRIVER_CMPLT_RESP_V01", hex 0x0035);
    ("QMI_IPA_INSTALL_FILTER_RULE_EX_REQ_V01", hex 0x0037);
    ("QMI_IPA_INSTALL_FILTER_RULE_EX_RESP_V01", hex 0x0037);
    ("QMI_IPA_ENABLE_PER_CLIENT_STATS_REQ_V01", hex 0x0038);
    ("QMI_IPA_ENABLE_PER_CLIENT_STATS_RESP_V01", hex 0x0038);
    ("QMI_IPA_GET_STATS_PER_CLIENT_REQ_V01", hex 0x0039);
    ("QMI_IPA_GET_STATS_PER_CLIENT_RESP_V01", hex 0x0039);
    ("QMI_IPA_INSTALL_UL_FIREWALL_RULES_REQ_V01", hex 0x003A);
    ("QMI_IPA_INSTALL_UL_FIREWALL_RULES_RESP_V01", hex 0x003A);
    ("QMI_IPA_INSTALL_UL_FIREWALL_RULES_IND_V01", hex 0x003A);
    ("QMI_IPA_INIT_MODEM_DRIVER_REQ_MAX_MSG_LEN_V01", dec 134);
    ("QMI_IPA_INIT_MODEM_DRIVER_RESP_MAX_MSG_LEN_V01", dec 25);
    ("QMI_IPA_INDICATION_REGISTER_REQ_MAX_MSG_LEN_V01", dec 8);
    ("QMI_IPA_INDICATION_REGISTER_RESP_MAX_MSG_LEN_V01", dec 7);
    ("QMI_IPA_INSTALL_FILTER_RULE_REQ_MAX_MSG_LEN_V01", dec 22369);
    ("QMI_IPA_INSTALL_FILTER_RULE_RESP_MAX_MSG_LEN_V01", dec 783);
    ("QMI_IPA_FILTER_INSTALLED_NOTIF_REQ_MAX_MSG_LEN_V01", dec 870);
    ("QMI_IPA_FILTER_INSTALLED_NOTIF_RESP_MAX_MSG_LEN_V01", dec 7);
    ("QMI_IPA_MASTER_DRIVER_INIT_COMPLETE_IND_MAX_MSG_LEN_V01", dec 7);
    ("QMI_IPA_DATA_USAGE_QUOTA_REACHED_IND_MAX_MSG_LEN_V01", dec 15);
    ("QMI_IPA_ENABLE_FORCE_CLEAR_DATAPATH_REQ_MAX_MSG_LEN_V01", dec 18);
    ("QMI_IPA_DISABLE_FORCE_CLEAR_DATAPATH_REQ_MAX_MSG_LEN_V01", dec 7);
    ("QMI_IPA_ENABLE_FORCE_CLEAR_DATAPATH_RESP_MAX_MSG_LEN_V01", dec 7);
    ("QMI_IPA_DISABLE_FORCE_CLEAR_DATAPATH_RESP_MAX_MSG_LEN_V01", dec 7);
    ("QMI_IPA_CONFIG_REQ_MAX_MSG_LEN_V01", dec 102);
    ("QMI_IPA_CONFIG_RESP_MAX_MSG_LEN_V01", dec 7);
    ("QMI_IPA_DISABLE_LINK_LOW_PWR_STATE_REQ_MAX_MSG_LEN_V01", dec 18);
    ("QMI_IPA_DISABLE_LINK_LOW_PWR_STATE_RESP_MAX_MSG_LEN_V01", dec 7);
    ("QMI_IPA_ENABLE_LINK_LOW_PWR_STATE_REQ_MAX_MSG_LEN_V01", dec 7);
    ("QMI_IPA_ENABLE_LINK_LOW_PWR_STATE_RESP_MAX_MSG_LEN_V01", dec 7);
    ("QMI_IPA_GET_DATA_STATS_REQ_MAX_MSG_LEN_V01", dec 11);
    ("QMI_IPA_GET_DATA_STATS_RESP_MAX_MSG_LEN_V01", dec 2234);
    ("QMI_IPA_GET_APN_DATA_STATS_REQ_MAX_MSG_LEN_V01", dec 36);
    ("QMI_IPA_GET_APN_DATA_STATS_RESP_MAX_MSG_LEN_V01", dec 299);
    ("QMI_IPA_SET_DATA_USAGE_QUOTA_REQ_MAX_MSG_LEN_V01", dec 100);
    ("QMI_IPA_SET_DATA_USAGE_QUOTA_RESP_MAX_MSG_LEN_V01", dec 7);
    ("QMI_IPA_STOP_DATA_USAGE_QUOTA_REQ_MAX_MSG_LEN_V01", dec 0);
    ("QMI_IPA_STOP_DATA_USAGE_QUOTA_RESP_MAX_MSG_LEN_V01", dec 7);
    ("QMI_IPA_INIT_MODEM_DRIVER_CMPLT_REQ_MAX_MSG_LEN_V01", dec 4);
    ("QMI_IPA_INIT_MODEM_DRIVER_CMPLT_RESP_MAX_MSG_LEN_V01", dec 7);
    ("QMI_IPA_INSTALL_FILTER_RULE_EX_REQ_MAX_MSG_LEN_V01", dec 22685);
    ("QMI_IPA_INSTALL_FILTER_RULE_EX_RESP_MAX_MSG_LEN_V01", dec 523);
    ("QMI_IPA_ENABLE_PER_CLIENT_STATS_REQ_MAX_MSG_LEN_V01", dec 4);
    ("QMI_IPA_ENABLE_PER_CLIENT_STATS_RESP_MAX_MSG_LEN_V01", dec 7);
    ("QMI_IPA_GET_STATS_PER_CLIENT_REQ_MAX_MSG_LEN_V01", dec 18);
    ("QMI_IPA_GET_STATS_PER_CLIENT_RESP_MAX_MSG_LEN_V01", dec 3595);
    ("QMI_IPA_INSTALL_UL_FIREWALL_RULES_REQ_MAX_MSG_LEN_V01", dec 9875);
    ("QMI_IPA_INSTALL_UL_FIREWALL_RULES_RESP_MAX_MSG_LEN_V01", dec 7);
    ("QMI_IPA_INSTALL_UL_FIREWALL_RULES_IND_MAX_MSG_LEN_V01", dec 11)]].
Definition header : header :=
  Header "linux/ipa_qmi_service_v01.h" [] (concat [
    defs_QMI_IPA_IPFLTR_NUM_IHL_RANGE_16_EQNS_V01; enum_ipa_platform_type_enum_v01;
    enum_ipa_ip_type_enum_v01; enum_ipa_peripheral_speed_enum_v01; enum_ipa_stats_type_enum_v01;
    enum_ipa_ul_firewall_status_enum_v01; defs_QMI_IPA_INDICATION_REGISTER_REQ_V01]).
End Ipa_qmi_service_v01.

(** ** [linux/kernel-page-flags.h] *)

Module Kernel_page_flags.
Definition defs_KPF_LOCKED : list decl := [
  Defines [
    ("KPF_LOCKED", dec 0); ("KPF_ERROR", dec 1); ("KPF_REFERENCED", dec 2);
    ("KPF_UPTODATE", dec 3); ("KPF_DIRTY", dec 4); ("KPF_LRU", dec 5); ("KPF_ACTIVE", dec 6);
    ("KPF_SLAB", dec 7); ("KPF_WRITEBACK", dec 8); ("KPF_RECLAIM", dec 9); ("KPF_BUDDY", dec 10);
    ("KPF_MMAP", dec 11); ("KPF_ANON", dec 12); ("KPF_SWAPCACHE", dec 13);
    ("KPF_SWAPBACKED", dec 14); ("KPF_COMPOUND_HEAD", dec 15); ("KPF_COMPOUND_TAIL", dec 16);
    ("KPF_HUGE", dec 17); ("KPF_UNEVICTABLE", dec 18); ("KPF_HWPOISON", dec 19);
    ("KPF_NOPAGE", dec 20); ("KPF_KSM", dec 21); ("KPF_THP", dec 22); ("KPF_BALLOON", dec 23);
    ("KPF_ZERO_PAGE", dec 24); ("KPF_IDLE", dec 25)]].
Definition header : header :=
  Header "linux/kernel-page-flags.h" [] (concat [
    defs_KPF_LOCKED]).
End Kernel_page_flags.

(** ** [linux/kexec.h] *)

Module Kexec.
Definition defs_KEXEC_ARCH_DEFAULT : list decl := [
  Defines [
    ("KEXEC_ARCH_DEFAULT", Shl (dec 0) (dec 16)); ("KEXEC_ARCH_386", Shl (dec 3) (dec 16));
    ("KEXEC_ARCH_68K", Shl (dec 4) (dec 16)); ("KEXEC_ARCH_X86_64", Shl (dec 62) (dec 16));
    ("KEXEC_ARCH_PPC", Shl (dec 20) (dec 16)); ("KEXEC_ARCH_PPC64", Shl (dec 21) (dec 16));
    ("KEXEC_ARCH_IA_64", Shl (dec 50) (dec 16)); ("KEXEC_ARCH_ARM", Shl (dec 40) (dec 16));
    ("KEXEC_ARCH_S390", Shl (dec 22) (dec 16)); ("KEXEC_ARCH_SH", Shl (dec 42) (dec 16));
    ("KEXEC_ARCH_MIPS_LE", Shl (dec 10) (dec 16)); ("KEXEC_ARCH_MIPS", Shl (dec 8) (dec 16));
    ("KEXEC_SEGMENT_MAX", dec 16)]].
Definition header : header :=
  Header "linux/kexec.h" [] (concat [
    defs_KEXEC_ARCH_DEFAULT]).
End Kexec.

(** ** [linux/kvm.h] *)

Module Kvm.
Definition defs_KVM_API_VERSION : list decl := [
  Defines [
    ("KVM_API_VERSION", dec 12); ("KVM_TRC_SHIFT", dec 16);
    ("KVM_TRC_ENTRYEXIT", Shl (dec 1) (Id "KVM_TRC_SHIFT"));
    ("KVM_TRC_HANDLER", Shl (dec 1) (Add (Id "KVM_TRC_SHIFT") (dec 1)));
    ("KVM_TRC_VMENTRY", Add (Id "KVM_TRC_ENTRYEXIT") (hex 0x01));
    ("KVM_TRC_VMEXIT", Add (Id "KVM_TRC_ENTRYEXIT") (hex 0x02));
    ("KVM_TRC_PAGE_FAULT", Add (Id "KVM_TRC_HANDLER") (hex 0x01)); ("KVM_TRC_HEAD_SIZE", dec 12);
    ("KVM_TRC_CYCLE_SIZE", dec 8); ("KVM_TRC_EXTRA_MAX", dec 7);
    ("KVM_TRC_INJ_VIRQ", Add (Id "KVM_TRC_HANDLER") (hex 0x02));
    ("KVM_TRC_REDELIVER_EVT", Add (Id "KVM_TRC_HANDLER") (hex 0x03));
    ("KVM_TRC_PEND_INTR", Add (Id "KVM_TRC_HANDLER") (hex 0x04));
    ("KVM_TRC_IO_READ", Add (Id "KVM_TRC_HANDLER") (hex 0x05));
    ("KVM_TRC_IO_WRITE", Add (Id "KVM_TRC_HANDLER") (hex 0x06));
    ("KVM_TRC_CR_READ", Add (Id "KVM_TRC_HANDLER") (hex 0x07));
    ("KVM_TRC_CR_WRITE", Add (Id "KVM_TRC_HANDLER") (hex 0x08));
    ("KVM_TRC_DR_READ", Add (Id "KVM_TRC_HANDLER") (hex 0x09));
    ("KVM_TRC_DR_WRITE", Add (Id "KVM_TRC_HANDLER") (hex 0x0A));
    ("KVM_TRC_MSR_READ", Add (Id "KVM_TRC_HANDLER") (hex 0x0B));
    ("KVM_TRC_MSR_WRITE", Add (Id "KVM_TRC_HANDLER") (hex 0x0C));
    ("KVM_TRC_CPUID", Add (Id "KVM_TRC_HANDLER") (hex 0x0D));
    ("KVM_TRC_INTR", Add (Id "KVM_TRC_HANDLER") (hex 0x0E));
    ("KVM_TRC_NMI", Add (Id "KVM_TRC_HANDLER") (hex 0x0F));
    ("KVM_TRC_VMMCALL", Add (Id "KVM_TRC_HANDLER") (hex 0x10));
    ("KVM_TRC_HLT", Add (Id "KVM_TRC_HANDLER") (hex 0x11));
    ("KVM_TRC_CLTS", Add (Id "KVM_TRC_HANDLER") (hex 0x12));
    ("KVM_TRC_LMSW", Add (Id "KVM_TRC_HANDLER") (hex 0x13));
    ("KVM_TRC_APIC_ACCESS", Add (Id "KVM_TRC_HANDLER") (hex 0x14));
    ("KVM_TRC_TDP_FAULT", Add (Id "KVM_TRC_HANDLER") (hex 0x15));
    ("KVM_TRC_GTLB_WRITE", Add (Id "KVM_TRC_HANDLER") (hex 0x16));
    ("KVM_TRC_STLB_WRITE", Add (Id "KVM_TRC_HANDLER") (hex 0x17));
    ("KVM_TRC_STLB_INVAL", Add (Id "KVM_TRC_HANDLER") (hex 0x18));
    ("KVM_TRC_PPC_INSTR", Add (Id "KVM_TRC_HANDLER") (hex 0x19))]].
Definition defs_KVM_S390_GET_SKEYS_NONE : list decl := [
  Defines [
    ("KVM_S390_GET_SKEYS_NONE", dec 1); ("KVM_S390_SKEYS_MAX", dec 1048576);
    ("KVM_EXIT_UNKNOWN", dec 0); ("KVM_EXIT_EXCEPTION", dec 1); ("KVM_EXIT_IO", dec 2);
    ("KVM_EXIT_HYPERCALL", dec 3); ("KVM_EXIT_DEBUG", dec 4); ("KVM_EXIT_HLT", dec 5);
    ("KVM_EXIT_MMIO", dec 6); ("KVM_EXIT_IRQ_WINDOW_OPEN", dec 7); ("KVM_EXIT_SHUTDOWN", dec 8);
    ("KVM_EXIT_FAIL_ENTRY", dec 9); ("KVM_EXIT_INTR", dec 10); ("KVM_EXIT_SET_TPR", dec 11);
    ("KVM_EXIT_TPR_ACCESS", dec 12); ("KVM_EXIT_S390_SIEIC", dec 13);
    ("KVM_EXIT_S390_RESET", dec 14); ("KVM_EXIT_DCR", dec 15); ("KVM_EXIT_NMI", dec 16);
    ("KVM_EXIT_INTERNAL_ERROR", dec 17); ("KVM_EXIT_OSI", dec 18);
    ("KVM_EXIT_PAPR_HCALL", dec 19); ("KVM_EXIT_S390_UCONTROL", dec 20);
    ("KVM_EXIT_WATCHDOG", dec 21); ("KVM_EXIT_S390_TSCH", dec 22); ("KVM_EXIT_EPR", dec 23);
    ("KVM_EXIT_SYSTEM_EVENT", dec 24); ("KVM_EXIT_S390_STSI", dec 25);
    ("KVM_EXIT_IOAPIC_EOI", dec 26); ("KVM_INTERNAL_ERROR_EMULATION", dec 1);
    ("KVM_INTERNAL_ERROR_SIMUL_EX", dec 2); ("KVM_INTERNAL_ERROR_DELIVERY_EV", dec 3)]].
Definition defs_KVM_S390_MEMOP_LOGICAL_READ : list decl := [
  Defines [
    ("KVM_S390_MEMOP_LOGICAL_READ", dec 0); ("KVM_S390_MEMOP_LOGICAL_WRITE", dec 1);
    ("KVM_S390_MEMOP_F_CHECK_ONLY", Shl (decULL 1) (dec 0));
    ("KVM_S390_MEMOP_F_INJECT_EXCEPTION", Shl (decULL 1) (dec 1))]].
Definition defs_KVM_MP_STATE_RUNNABLE : list decl := [
  Defines [
    ("KVM_MP_STATE_RUNNABLE", dec 0); ("KVM_MP_STATE_UNINITIALIZED", dec 1);
    ("KVM_MP_STATE_INIT_RECEIVED", dec 2); ("KVM_MP_STATE_HALTED", dec 3);
    ("KVM_MP_STATE_SIPI_RECEIVED", dec 4); ("KVM_MP_STATE_STOPPED", dec 5);
    ("KVM_MP_STATE_CHECK_STOP", dec 6); ("KVM_MP_STATE_OPERATING", dec 7);
    ("KVM_MP_STATE_LOAD", dec 8)]].
Definition defs_KVM_S390_SIGP_STOP : list decl := [
  Defines [
    ("KVM_S390_SIGP_STOP", hexU 0xfffe0000); ("KVM_S390_PROGRAM_INT", hexU 0xfffe0001);
    ("KVM_S390_SIGP_SET_PREFIX", hexU 0xfffe0002); ("KVM_S390_RESTART", hexU 0xfffe0003);
    ("KVM_S390_INT_PFAULT_INIT", hexU 0xfffe0004); ("KVM_S390_INT_PFAULT_DONE", hexU 0xfffe0005);
    ("KVM_S390_MCHK", hexU 0xfffe1000); ("KVM_S390_INT_CLOCK_COMP", hexU 0xffff1004);
    ("KVM_S390_INT_CPU_TIMER", hexU 0xffff1005); ("KVM_S390_INT_VIRTIO", hexU 0xffff2603);
    ("KVM_S390_INT_SERVICE", hexU 0xffff2401); ("KVM_S390_INT_EMERGENCY", hexU 0xffff1201);
    ("KVM_S390_INT_EXTERNAL_CALL", hexU 0xffff1202)]].
Definition enum_kvm_ioeventfd_flag_nr_datamatch : list decl := [
  Enum [
    ("kvm_ioeventfd_flag_nr_datamatch", None); ("kvm_ioeventfd_flag_nr_pio", None);
    ("kvm_ioeventfd_flag_nr_deassign", None); ("kvm_ioeventfd_flag_nr_virtio_ccw_notify", None);
    ("kvm_ioeventfd_flag_nr_fast_mmio", None); ("kvm_ioeventfd_flag_nr_max", None)];
  Defines [
    ("KVM_IOEVENTFD_FLAG_DATAMATCH", Shl (dec 1) (Id "kvm_ioeventfd_flag_nr_datamatch"));
    ("KVM_IOEVENTFD_FLAG_PIO", Shl (dec 1) (Id "kvm_ioeventfd_flag_nr_pio"));
    ("KVM_IOEVENTFD_FLAG_DEASSIGN", Shl (dec 1) (Id "kvm_ioeventfd_flag_nr_deassign"));
    ("KVM_IOEVENTFD_FLAG_VIRTIO_CCW_NOTIFY", Shl (dec 1) (Id "kvm_ioeventfd_flag_nr_virtio_ccw_notify"));
    ("KVM_IOEVENTFD_VALID_FLAG_MASK", Sub (Shl (dec 1) (Id "kvm_ioeventfd_flag_nr_max")) (dec 1))]].
Definition defs_KVM_PPC_PVINFO_FLAGS_EV_IDLE : list decl := [
  Defines [
    ("KVM_PPC_PVINFO_FLAGS_EV_IDLE", Shl (dec 1) (dec 0)); ("KVMIO", hex 0xAE);
    ("KVM_VM_S390_UCONTROL", dec 1); ("KVM_VM_PPC_HV", dec 1); ("KVM_VM_PPC_PR", dec 2);
    ("KVM_S390_SIE_PAGE_OFFSET", dec 1)]].
Definition defs_KVM_CAP_IRQCHIP : list decl := [
  Defines [
    ("KVM_CAP_IRQCHIP", dec 0); ("KVM_CAP_HLT", dec 1);
    ("KVM_CAP_MMU_SHADOW_CACHE_CONTROL", dec 2); ("KVM_CAP_USER_MEMORY", dec 3);
    ("KVM_CAP_SET_TSS_ADDR", dec 4); ("KVM_CAP_VAPIC", dec 6); ("KVM_CAP_EXT_CPUID", dec 7);
    ("KVM_CAP_CLOCKSOURCE", dec 8); ("KVM_CAP_NR_VCPUS", dec 9); ("KVM_CAP_NR_MEMSLOTS", dec 10);
    ("KVM_CAP_PIT", dec 11); ("KVM_CAP_NOP_IO_DELAY", dec 12); ("KVM_CAP_PV_MMU", dec 13);
    ("KVM_CAP_MP_STATE", dec 14); ("KVM_CAP_COALESCED_MMIO", dec 15);
    ("KVM_CAP_SYNC_MMU", dec 16); ("KVM_CAP_IOMMU", dec 18);
    ("KVM_CAP_DESTROY_MEMORY_REGION_WORKS", dec 21); ("KVM_CAP_USER_NMI", dec 22)]].
Definition defs_KVM_CAP_IRQ_ROUTING : list decl := [
  Defines [
    ("KVM_CAP_IRQ_ROUTING", dec 25); ("KVM_CAP_IRQ_INJECT_STATUS", dec 26);
    ("KVM_CAP_ASSIGN_DEV_IRQ", dec 29); ("KVM_CAP_JOIN_MEMORY_REGIONS_WORKS", dec 30)]].
Definition defs_KVM_CAP_S390_PSW : list decl := [
  Defines [
    ("KVM_CAP_S390_PSW", dec 42); ("KVM_CAP_PPC_SEGSTATE", dec 43); ("KVM_CAP_HYPERV", dec 44);
    ("KVM_CAP_HYPERV_VAPIC", dec 45); ("KVM_CAP_HYPERV_SPIN", dec 46);
    ("KVM_CAP_PCI_SEGMENT", dec 47); ("KVM_CAP_PPC_PAIRED_SINGLES", dec 48);
    ("KVM_CAP_INTR_SHADOW", dec 49)]].
Definition defs_KVM_CAP_X86_ROBUST_SINGLESTEP : list decl := [
  Defines [
    ("KVM_CAP_X86_ROBUST_SINGLESTEP", dec 51); ("KVM_CAP_PPC_OSI", dec 52);
    ("KVM_CAP_PPC_UNSET_IRQ", dec 53); ("KVM_CAP_ENABLE_CAP", dec 54)]].
Definition defs_KVM_CAP_PPC_GET_PVINFO : list decl := [
  Defines [
    ("KVM_CAP_PPC_GET_PVINFO", dec 57); ("KVM_CAP_PPC_IRQ_LEVEL", dec 58);
    ("KVM_CAP_ASYNC_PF", dec 59); ("KVM_CAP_TSC_CONTROL", dec 60);
    ("KVM_CAP_GET_TSC_KHZ", dec 61); ("KVM_CAP_PPC_BOOKE_SREGS", dec 62);
    ("KVM_CAP_SPAPR_TCE", dec 63); ("KVM_CAP_PPC_SMT", dec 64); ("KVM_CAP_PPC_RMA", dec 65);
    ("KVM_CAP_MAX_VCPUS", dec 66); ("KVM_CAP_PPC_HIOR", dec 67); ("KVM_CAP_PPC_PAPR", dec 68);
    ("KVM_CAP_SW_TLB", dec 69); ("KVM_CAP_ONE_REG", dec 70); ("KVM_CAP_S390_GMAP", dec 71);
    ("KVM_CAP_TSC_DEADLINE_TIMER", dec 72); ("KVM_CAP_S390_UCONTROL", dec 73);
    ("KVM_CAP_SYNC_REGS", dec 74); ("KVM_CAP_PCI_2_3", dec 75);
    ("KVM_CAP_KVMCLOCK_CTRL", dec 76); ("KVM_CAP_SIGNAL_MSI", dec 77);
    ("KVM_CAP_PPC_GET_SMMU_INFO", dec 78); ("KVM_CAP_S390_COW", dec 79);
    ("KVM_CAP_PPC_ALLOC_HTAB", dec 80); ("KVM_CAP_READONLY_MEM", dec 81);
    ("KVM_CAP_IRQFD_RESAMPLE", dec 82); ("KVM_CAP_PPC_BOOKE_WATCHDOG", dec 83);
    ("KVM_CAP_PPC_HTAB_FD", dec 84); ("KVM_CAP_S390_CSS_SUPPORT", dec 85);
    ("KVM_CAP_PPC_EPR", dec 86); ("KVM_CAP_ARM_PSCI", dec 87);
    ("KVM_CAP_ARM_SET_DEVICE_ADDR", dec 88); ("KVM_CAP_DEVICE_CTRL", dec 89);
    ("KVM_CAP_IRQ_MPIC", dec 90); ("KVM_CAP_PPC_RTAS", dec 91); ("KVM_CAP_IRQ_XICS", dec 92);
    ("KVM_CAP_ARM_EL1_32BIT", dec 93); ("KVM_CAP_SPAPR_MULTITCE", dec 94);
    ("KVM_CAP_EXT_EMUL_CPUID", dec 95); ("KVM_CAP_HYPERV_TIME", dec 96);
    ("KVM_CAP_IOAPIC_POLARITY_IGNORED", dec 97); ("KVM_CAP_ENABLE_CAP_VM", dec 98);
    ("KVM_CAP_S390_IRQCHIP", dec 99); ("KVM_CAP_IOEVENTFD_NO_LENGTH", dec 100);
    ("KVM_CAP_VM_ATTRIBUTES", dec 101); ("KVM_CAP_ARM_PSCI_0_2", dec 102);
    ("KVM_CAP_PPC_FIXUP_HCALL", dec 103); ("KVM_CAP_PPC_ENABLE_HCALL", dec 104);
    ("KVM_CAP_CHECK_EXTENSION_VM", dec 105); ("KVM_CAP_S390_USER_SIGP", dec 106);
    ("KVM_CAP_S390_VECTOR_REGISTERS", dec 107); ("KVM_CAP_S390_MEM_OP", dec 108);
    ("KVM_CAP_S390_USER_STSI", dec 109); ("KVM_CAP_S390_SKEYS", dec 110);
    ("KVM_CAP_MIPS_FPU", dec 111); ("KVM_CAP_MIPS_MSA", dec 112);
    ("KVM_CAP_S390_INJECT_IRQ", dec 113); ("KVM_CAP_S390_IRQ_STATE", dec 114);
    ("KVM_CAP_PPC_HWRNG", dec 115); ("KVM_CAP_DISABLE_QUIRKS", dec 116);
    ("KVM_CAP_X86_SMM", dec 117); ("KVM_CAP_MULTI_ADDRESS_SPACE", dec 118);
    ("KVM_CAP_GUEST_DEBUG_HW_BPS", dec 119); ("KVM_CAP_GUEST_DEBUG_HW_WPS", dec 120);
    ("KVM_CAP_SPLIT_IRQCHIP", dec 121); ("KVM_CAP_IOEVENTFD_ANY_LENGTH", dec 122);
    ("KVM_CAP_S390_BPB", dec 152)]].
Definition defs_KVM_REG_PPC : list decl := [
  Defines [
    ("KVM_REG_PPC", hexULL 0x1000000000000000); ("KVM_REG_X86", hexULL 0x2000000000000000);
    ("KVM_REG_IA64", hexULL 0x3000000000000000); ("KVM_REG_ARM", hexULL 0x4000000000000000);
    ("KVM_REG_S390", hexULL 0x5000000000000000); ("KVM_REG_ARM64", hexULL 0x6000000000000000);
    ("KVM_REG_MIPS", hexULL 0x7000000000000000); ("KVM_REG_SIZE_SHIFT", dec 52);
    ("KVM_REG_SIZE_MASK", hexULL 0x00f0000000000000);
    ("KVM_REG_SIZE_U8", hexULL 0x0000000000000000);
    ("KVM_REG_SIZE_U16", hexULL 0x0010000000000000);
    ("KVM_REG_SIZE_U32", hexULL 0x0020000000000000);
    ("KVM_REG_SIZE_U64", hexULL 0x0030000000000000);
    ("KVM_REG_SIZE_U128", hexULL 0x0040000000000000);
    ("KVM_REG_SIZE_U256", hexULL 0x0050000000000000);
    ("KVM_REG_SIZE_U512", hexULL 0x0060000000000000);
    ("KVM_REG_SIZE_U1024", hexULL 0x0070000000000000)]].
Definition enum_kvm_device_type : list decl := [
  Enum [
    ("KVM_DEV_TYPE_FSL_MPIC_20", Some (dec 1)); ("KVM_DEV_TYPE_FSL_MPIC_42", None);
    ("KVM_DEV_TYPE_XICS", None); ("KVM_DEV_TYPE_VFIO", None); ("KVM_DEV_TYPE_ARM_VGIC_V2", None);
    ("KVM_DEV_TYPE_FLIC", None); ("KVM_DEV_TYPE_ARM_VGIC_V3", None); ("KVM_DEV_TYPE_MAX", None)]].
Definition defs_KVM_DEV_IRQ_HOST_INTX : list decl := [
  Defines [
    ("KVM_DEV_IRQ_HOST_INTX", Shl (dec 1) (dec 0));
    ("KVM_DEV_IRQ_HOST_MSI", Shl (dec 1) (dec 1));
    ("KVM_DEV_IRQ_HOST_MSIX", Shl (dec 1) (dec 2));
    ("KVM_DEV_IRQ_GUEST_INTX", Shl (dec 1) (dec 8));
    ("KVM_DEV_IRQ_GUEST_MSI", Shl (dec 1) (dec 9));
    ("KVM_DEV_IRQ_GUEST_MSIX", Shl (dec 1) (dec 10)); ("KVM_DEV_IRQ_HOST_MASK", hex 0x00ff);
    ("KVM_DEV_IRQ_GUEST_MASK", hex 0xff00)]].
Definition header : header :=
  Header "linux/kvm.h" [] (concat [
    defs_KVM_API_VERSION; defs_KVM_S390_GET_SKEYS_NONE; defs_KVM_S390_MEMOP_LOGICAL_READ;
    defs_KVM_MP_STATE_RUNNABLE; defs_KVM_S390_SIGP_STOP; enum_kvm_ioeventfd_flag_nr_datamatch;
    defs_KVM_PPC_PVINFO_FLAGS_EV_IDLE; defs_KVM_CAP_IRQCHIP; defs_KVM_CAP_IRQ_ROUTING;
    defs_KVM_CAP_S390_PSW; defs_KVM_CAP_X86_ROBUST_SINGLESTEP; defs_KVM_CAP_PPC_GET_PVINFO;
    defs_KVM_REG_PPC; enum_kvm_device_type; defs_KVM_DEV_IRQ_HOST_INTX]).
End Kvm.

(** ** [linux/mempolicy.h] *)

Module Mempolicy.
Definition enum_MPOL_DEFAULT : list decl := [
  Enum [
    ("MPOL_DEFAULT", None); ("MPOL_PREFERRED", None); ("MPOL_BIND", None);
    ("MPOL_INTERLEAVE", None); ("MPOL_LOCAL", None); ("MPOL_MAX", None)];
  Enum [
    ("MPOL_REBIND_ONCE", None); ("MPOL_REBIND_STEP1", None); ("MPOL_REBIND_STEP2", None);
    ("MPOL_REBIND_NSTEP", None)];
  Defines [
    ("MPOL_F_STATIC_NODES", Shl (dec 1) (dec 15));
    ("MPOL_F_RELATIVE_NODES", Shl (dec 1) (dec 14))];
  Defines [
    ("MPOL_MODE_FLAGS", Or (Id "MPOL_F_STATIC_NODES") (Id "MPOL_F_RELATIVE_NODES"));
    ("MPOL_F_NODE", Shl (dec 1) (dec 0)); ("MPOL_F_ADDR", Shl (dec 1) (dec 1));
    ("MPOL_F_MEMS_ALLOWED", Shl (dec 1) (dec 2)); ("MPOL_MF_STRICT", Shl (dec 1) (dec 0));
    ("MPOL_MF_MOVE", Shl (dec 1) (dec 1)); ("MPOL_MF_MOVE_ALL", Shl (dec 1) (dec 2));
    ("MPOL_MF_LAZY", Shl (dec 1) (dec 3)); ("MPOL_MF_INTERNAL", Shl (dec 1) (dec 4));
    ("MPOL_MF_VALID", Or (Or (Id "MPOL_MF_STRICT") (Id "MPOL_MF_MOVE")) (Id "MPOL_MF_MOVE_ALL"))];
  Defines [
    ("MPOL_F_SHARED", Shl (dec 1) (dec 0)); ("MPOL_F_LOCAL", Shl (dec 1) (dec 1));
    ("MPOL_F_REBINDING", Shl (dec 1) (dec 2)); ("MPOL_F_MOF", Shl (dec 1) (dec 3));
    ("MPOL_F_MORON", Shl (dec 1) (dec 4))]].
Definition header : header :=
  Header "linux/mempolicy.h" [] (concat [
    enum_MPOL_DEFAULT]).
End Mempolicy.

(** ** [linux/msm_ipa.h] *)

Module Msm_ipa.
Definition defs_IPA_IOCTL_ADD_HDR : list decl := [
  Defines [
    ("IPA_IOCTL_ADD_HDR", dec 0); ("IPA_IOCTL_DEL_HDR", dec 1); ("IPA_IOCTL_ADD_RT_RULE", dec 2);
    ("IPA_IOCTL_DEL_RT_RULE", dec 3); ("IPA_IOCTL_ADD_FLT_RULE", dec 4);
    ("IPA_IOCTL_DEL_FLT_RULE", dec 5); ("IPA_IOCTL_COMMIT_HDR", dec 6);
    ("IPA_IOCTL_RESET_HDR", dec 7); ("IPA_IOCTL_COMMIT_RT", dec 8);
    ("IPA_IOCTL_RESET_RT", dec 9); ("IPA_IOCTL_COMMIT_FLT", dec 10);
    ("IPA_IOCTL_RESET_FLT", dec 11); ("IPA_IOCTL_DUMP", dec 12);
    ("IPA_IOCTL_GET_RT_TBL", dec 13); ("IPA_IOCTL_PUT_RT_TBL", dec 14);
    ("IPA_IOCTL_COPY_HDR", dec 15); ("IPA_IOCTL_QUERY_INTF", dec 16);
    ("IPA_IOCTL_QUERY_INTF_TX_PROPS", dec 17); ("IPA_IOCTL_QUERY_INTF_RX_PROPS", dec 18);
    ("IPA_IOCTL_GET_HDR", dec 19); ("IPA_IOCTL_PUT_HDR", dec 20); ("IPA_IOCTL_SET_FLT", dec 21);
    ("IPA_IOCTL_ALLOC_NAT_MEM", dec 22); ("IPA_IOCTL_V4_INIT_NAT", dec 23);
    ("IPA_IOCTL_TABLE_DMA_CMD", dec 24); ("IPA_IOCTL_NAT_DMA", Id "IPA_IOCTL_TABLE_DMA_CMD");
    ("IPA_IOCTL_INIT_IPV6CT_TABLE", dec 25); ("IPA_IOCTL_V4_DEL_NAT", dec 26);
    ("IPA_IOCTL_PULL_MSG", dec 27); ("IPA_IOCTL_GET_NAT_OFFSET", dec 28);
    ("IPA_IOCTL_RM_ADD_DEPENDENCY", dec 29); ("IPA_IOCTL_RM_DEL_DEPENDENCY", dec 30);
    ("IPA_IOCTL_GENERATE_FLT_EQ", dec 31); ("IPA_IOCTL_QUERY_INTF_EXT_PROPS", dec 32);
    ("IPA_IOCTL_QUERY_EP_MAPPING", dec 33); ("IPA_IOCTL_QUERY_RT_TBL_INDEX", dec 34);
    ("IPA_IOCTL_WRITE_QMAPID", dec 35); ("IPA_IOCTL_MDFY_FLT_RULE", dec 36);
    ("IPA_IOCTL_NOTIFY_WAN_UPSTREAM_ROUTE_ADD", dec 37);
    ("IPA_IOCTL_NOTIFY_WAN_UPSTREAM_ROUTE_DEL", dec 38);
    ("IPA_IOCTL_NOTIFY_WAN_EMBMS_CONNECTED", dec 39); ("IPA_IOCTL_ADD_HDR_PROC_CTX", dec 40);
    ("IPA_IOCTL_DEL_HDR_PROC_CTX", dec 41); ("IPA_IOCTL_MDFY_RT_RULE", dec 42);
    ("IPA_IOCTL_ADD_RT_RULE_AFTER", dec 43); ("IPA_IOCTL_ADD_FLT_RULE_AFTER", dec 44);
    ("IPA_IOCTL_GET_HW_VERSION", dec 45); ("IPA_IOCTL_ADD_RT_RULE_EXT", dec 46);
    ("IPA_IOCTL_NAT_MODIFY_PDN", dec 47); ("IPA_IOCTL_ALLOC_NAT_TABLE", dec 48);
    ("IPA_IOCTL_ALLOC_IPV6CT_TABLE", dec 49); ("IPA_IOCTL_DEL_NAT_TABLE", dec 50);
    ("IPA_IOCTL_DEL_IPV6CT_TABLE", dec 51); ("IPA_IOCTL_ADD_VLAN_IFACE", dec 52);
    ("IPA_IOCTL_DEL_VLAN_IFACE", dec 53); ("IPA_IOCTL_ADD_L2TP_VLAN_MAPPING", dec 54);
    ("IPA_IOCTL_DEL_L2TP_VLAN_MAPPING", dec 55); ("IPA_IOCTL_CLEANUP", dec 56);
    ("IPA_IOCTL_QUERY_WLAN_CLIENT", dec 57); ("IPA_IOCTL_MAX", dec 58)]].
Definition defs_IPA_FLT_TOS : list decl := [
  Defines [
    ("IPA_FLT_TOS", Shl (decUL 1) (dec 0)); ("IPA_FLT_PROTOCOL", Shl (decUL 1) (dec 1));
    ("IPA_FLT_SRC_ADDR", Shl (decUL 1) (dec 2)); ("IPA_FLT_DST_ADDR", Shl (decUL 1) (dec 3));
    ("IPA_FLT_SRC_PORT_RANGE", Shl (decUL 1) (dec 4));
    ("IPA_FLT_DST_PORT_RANGE", Shl (decUL 1) (dec 5)); ("IPA_FLT_TYPE", Shl (decUL 1) (dec 6));
    ("IPA_FLT_CODE", Shl (decUL 1) (dec 7)); ("IPA_FLT_SPI", Shl (decUL 1) (dec 8));
    ("IPA_FLT_SRC_PORT", Shl (decUL 1) (dec 9)); ("IPA_FLT_DST_PORT", Shl (decUL 1) (dec 10));
    ("IPA_FLT_TC", Shl (decUL 1) (dec 11)); ("IPA_FLT_FLOW_LABEL", Shl (decUL 1) (dec 12));
    ("IPA_FLT_NEXT_HDR", Shl (decUL 1) (dec 13)); ("IPA_FLT_META_DATA", Shl (decUL 1) (dec 14));
    ("IPA_FLT_FRAGMENT", Shl (decUL 1) (dec 15)); ("IPA_FLT_TOS_MASKED", Shl (decUL 1) (dec 16));
    ("IPA_FLT_MAC_SRC_ADDR_ETHER_II", Shl (decUL 1) (dec 17));
    ("IPA_FLT_MAC_DST_ADDR_ETHER_II", Shl (decUL 1) (dec 18));
    ("IPA_FLT_MAC_SRC_ADDR_802_3", Shl (decUL 1) (dec 19));
    ("IPA_FLT_MAC_DST_ADDR_802_3", Shl (decUL 1) (dec 20));
    ("IPA_FLT_MAC_ETHER_TYPE", Shl (decUL 1) (dec 21));
    ("IPA_FLT_TCP_SYN", Shl (decUL 1) (dec 23));
    ("IPA_FLT_TCP_SYN_L2TP", Shl (decUL 1) (dec 24));
    ("IPA_FLT_L2TP_INNER_IP_TYPE", Shl (decUL 1) (dec 25));
    ("IPA_FLT_L2TP_INNER_IPV4_DST_ADDR", Shl (decUL 1) (dec 26))]].
Definition enum_ipa_client_type : list decl := [
  Enum [
    ("IPA_CLIENT_PROD", None); ("IPA_CLIENT_HSIC1_PROD", Some (Id "IPA_CLIENT_PROD"));
    ("IPA_CLIENT_WLAN1_PROD", None); ("IPA_CLIENT_HSIC2_PROD", None);
    ("IPA_CLIENT_USB2_PROD", None); ("IPA_CLIENT_HSIC3_PROD", None);
    ("IPA_CLIENT_USB3_PROD", None); ("IPA_CLIENT_HSIC4_PROD", None);
    ("IPA_CLIENT_USB4_PROD", None); ("IPA_CLIENT_HSIC5_PROD", None);
    ("IPA_CLIENT_USB_PROD", None); ("IPA_CLIENT_A5_WLAN_AMPDU_PROD", None);
    ("IPA_CLIENT_A2_EMBEDDED_PROD", None); ("IPA_CLIENT_A2_TETHERED_PROD", None);
    ("IPA_CLIENT_APPS_LAN_PROD", None); ("IPA_CLIENT_APPS_WAN_PROD", None);
    ("IPA_CLIENT_APPS_LAN_WAN_PROD", Some (Id "IPA_CLIENT_APPS_WAN_PROD"));
    ("IPA_CLIENT_APPS_CMD_PROD", None); ("IPA_CLIENT_ODU_PROD", None);
    ("IPA_CLIENT_MHI_PROD", None); ("IPA_CLIENT_Q6_LAN_PROD", None);
    ("IPA_CLIENT_Q6_WAN_PROD", None); ("IPA_CLIENT_Q6_CMD_PROD", None);
    ("IPA_CLIENT_MEMCPY_DMA_SYNC_PROD", None); ("IPA_CLIENT_MEMCPY_DMA_ASYNC_PROD", None);
    ("IPA_CLIENT_Q6_DECOMP_PROD", None); ("IPA_CLIENT_Q6_DECOMP2_PROD", None);
    ("IPA_CLIENT_UC_USB_PROD", None); ("IPA_CLIENT_TEST_PROD", None);
    ("IPA_CLIENT_TEST1_PROD", None); ("IPA_CLIENT_TEST2_PROD", None);
    ("IPA_CLIENT_TEST3_PROD", None); ("IPA_CLIENT_TEST4_PROD", None); ("IPA_CLIENT_CONS", None);
    ("IPA_CLIENT_HSIC1_CONS", Some (Id "IPA_CLIENT_CONS")); ("IPA_CLIENT_WLAN1_CONS", None);
    ("IPA_CLIENT_HSIC2_CONS", None); ("IPA_CLIENT_USB2_CONS", None);
    ("IPA_CLIENT_WLAN2_CONS", None); ("IPA_CLIENT_HSIC3_CONS", None);
    ("IPA_CLIENT_USB3_CONS", None); ("IPA_CLIENT_WLAN3_CONS", None);
    ("IPA_CLIENT_HSIC4_CONS", None); ("IPA_CLIENT_USB4_CONS", None);
    ("IPA_CLIENT_WLAN4_CONS", None); ("IPA_CLIENT_HSIC5_CONS", None);
    ("IPA_CLIENT_USB_CONS", None); ("IPA_CLIENT_USB_DPL_CONS", None);
    ("IPA_CLIENT_A2_EMBEDDED_CONS", None); ("IPA_CLIENT_A2_TETHERED_CONS", None);
    ("IPA_CLIENT_A5_LAN_WAN_CONS", None); ("IPA_CLIENT_APPS_LAN_CONS", None);
    ("IPA_CLIENT_APPS_WAN_CONS", None); ("IPA_CLIENT_ODU_EMB_CONS", None);
    ("IPA_CLIENT_ODU_TETH_CONS", None); ("IPA_CLIENT_MHI_CONS", None);
    ("IPA_CLIENT_Q6_LAN_CONS", None); ("IPA_CLIENT_Q6_WAN_CONS", None);
    ("IPA_CLIENT_Q6_DUN_CONS", None); ("IPA_CLIENT_MEMCPY_DMA_SYNC_CONS", None);
    ("IPA_CLIENT_MEMCPY_DMA_ASYNC_CONS", None); ("IPA_CLIENT_Q6_DECOMP_CONS", None);
    ("IPA_CLIENT_Q6_DECOMP2_CONS", None); ("IPA_CLIENT_Q6_LTE_WIFI_AGGR_CONS", None);
    ("IPA_CLIENT_TEST_CONS", None); ("IPA_CLIENT_TEST1_CONS", None);
    ("IPA_CLIENT_TEST2_CONS", None); ("IPA_CLIENT_TEST3_CONS", None);
    ("IPA_CLIENT_TEST4_CONS", None); ("IPA_CLIENT_MAX", None)]].
Definition enum_ipa_ip_type : list decl := [
  Enum [
    ("IPA_IP_v4", None); ("IPA_IP_v6", None); ("IPA_IP_MAX", None)];
  Enum [
    ("IPA_RULE_HASHABLE", None); ("IPA_RULE_NON_HASHABLE", None); ("IPA_RULE_TYPE_MAX", None)];
  Enum [
    ("IPA_PASS_TO_ROUTING", None); ("IPA_PASS_TO_SRC_NAT", None); ("IPA_PASS_TO_DST_NAT", None);
    ("IPA_PASS_TO_EXCEPTION", None)];
  Enum [
    ("WLAN_CLIENT_CONNECT", None); ("WLAN_CLIENT_DISCONNECT", None);
    ("WLAN_CLIENT_POWER_SAVE_MODE", None); ("WLAN_CLIENT_NORMAL_MODE", None);
    ("SW_ROUTING_ENABLE", None); ("SW_ROUTING_DISABLE", None); ("WLAN_AP_CONNECT", None);
    ("WLAN_AP_DISCONNECT", None); ("WLAN_STA_CONNECT", None); ("WLAN_STA_DISCONNECT", None);
    ("WLAN_CLIENT_CONNECT_EX", None); ("WLAN_SWITCH_TO_SCC", None); ("WLAN_SWITCH_TO_MCC", None);
    ("WLAN_WDI_ENABLE", None); ("WLAN_WDI_DISABLE", None); ("IPA_WLAN_EVENT_MAX", None)];
  Enum [
    ("WAN_UPSTREAM_ROUTE_ADD", Some (Id "IPA_WLAN_EVENT_MAX")); ("WAN_UPSTREAM_ROUTE_DEL", None);
    ("WAN_EMBMS_CONNECT", None); ("WAN_XLAT_CONNECT", None); ("IPA_WAN_EVENT_MAX", None)];
  Enum [
    ("ECM_CONNECT", Some (Id "IPA_WAN_EVENT_MAX")); ("ECM_DISCONNECT", None);
    ("IPA_ECM_EVENT_MAX", None)];
  Enum [
    ("IPA_TETHERING_STATS_UPDATE_STATS", Some (Id "IPA_ECM_EVENT_MAX"));
    ("IPA_TETHERING_STATS_UPDATE_NETWORK_STATS", None); ("IPA_TETHERING_STATS_EVENT_MAX", None)];
  Enum [
    ("IPA_QUOTA_REACH", Some (Id "IPA_TETHERING_STATS_EVENT_MAX")); ("IPA_QUOTA_EVENT_MAX", None)];
  Enum [
    ("IPA_SSR_BEFORE_SHUTDOWN", Some (Id "IPA_QUOTA_EVENT_MAX"));
    ("IPA_SSR_AFTER_POWERUP", None); ("IPA_SSR_EVENT_MAX", None)];
  Enum [
    ("ADD_VLAN_IFACE", Some (Id "IPA_SSR_EVENT_MAX")); ("DEL_VLAN_IFACE", None);
    ("ADD_L2TP_VLAN_MAPPING", None); ("DEL_L2TP_VLAN_MAPPING", None);
    ("IPA_VLAN_L2TP_EVENT_MAX", None)];
  Enum [
    ("IPA_PER_CLIENT_STATS_CONNECT_EVENT", Some (Id "IPA_VLAN_L2TP_EVENT_MAX"));
    ("IPA_PER_CLIENT_STATS_DISCONNECT_EVENT", None); ("IPA_PER_CLIENT_STATS_EVENT_MAX", None)]].
Definition enum_ipa_rm_resource_name : list decl := [
  Enum [
    ("IPA_RM_RESOURCE_PROD", Some (dec 0));
    ("IPA_RM_RESOURCE_Q6_PROD", Some (Id "IPA_RM_RESOURCE_PROD"));
    ("IPA_RM_RESOURCE_USB_PROD", None); ("IPA_RM_RESOURCE_USB_DPL_DUMMY_PROD", None);
    ("IPA_RM_RESOURCE_HSIC_PROD", None); ("IPA_RM_RESOURCE_STD_ECM_PROD", None);
    ("IPA_RM_RESOURCE_RNDIS_PROD", None); ("IPA_RM_RESOURCE_WWAN_0_PROD", None);
    ("IPA_RM_RESOURCE_WLAN_PROD", None); ("IPA_RM_RESOURCE_ODU_ADAPT_PROD", None);
    ("IPA_RM_RESOURCE_MHI_PROD", None); ("IPA_RM_RESOURCE_PROD_MAX", None);
    ("IPA_RM_RESOURCE_Q6_CONS", Some (Id "IPA_RM_RESOURCE_PROD_MAX"));
    ("IPA_RM_RESOURCE_USB_CONS", None); ("IPA_RM_RESOURCE_USB_DPL_CONS", None);
    ("IPA_RM_RESOURCE_HSIC_CONS", None); ("IPA_RM_RESOURCE_WLAN_CONS", None);
    ("IPA_RM_RESOURCE_APPS_CONS", None); ("IPA_RM_RESOURCE_ODU_ADAPT_CONS", None);
    ("IPA_RM_RESOURCE_MHI_CONS", None); ("IPA_RM_RESOURCE_MAX", None)];
  Enum [
    ("IPA_HW_None", Some (dec 0)); ("IPA_HW_v1_0", Some (dec 1)); ("IPA_HW_v1_1", Some (dec 2));
    ("IPA_HW_v2_0", Some (dec 3)); ("IPA_HW_v2_1", Some (dec 4)); ("IPA_HW_v2_5", Some (dec 5));
    ("IPA_HW_v2_6", Some (Id "IPA_HW_v2_5")); ("IPA_HW_v2_6L", Some (dec 6));
    ("IPA_HW_v3_0", Some (dec 10)); ("IPA_HW_v3_1", Some (dec 11));
    ("IPA_HW_v3_5", Some (dec 12)); ("IPA_HW_v3_5_1", Some (dec 13));
    ("IPA_HW_v4_0", Some (dec 14)); ("IPA_HW_v4_5", Some (dec 15))];
  Defines [
    ("IPA_HW_MAX", Add (Id "IPA_HW_v4_0") (dec 1))]].
Definition defs_IPA_IPFLTR_NUM_MEQ_32_EQNS : list decl := [
  Defines [
    ("IPA_IPFLTR_NUM_MEQ_32_EQNS", dec 2); ("IPA_IPFLTR_NUM_IHL_MEQ_32_EQNS", dec 2);
    ("IPA_IPFLTR_NUM_MEQ_128_EQNS", dec 2); ("IPA_IPFLTR_NUM_IHL_RANGE_16_EQNS", dec 2)]].
Definition enum_ipa_hdr_l2_type : list decl := [
  Enum [
    ("IPA_HDR_L2_NONE", None); ("IPA_HDR_L2_ETHERNET_II", None); ("IPA_HDR_L2_802_3", None);
    ("IPA_HDR_L2_MAX", None)];
  Enum [
    ("IPA_HDR_PROC_NONE", None); ("IPA_HDR_PROC_ETHII_TO_ETHII", None);
    ("IPA_HDR_PROC_ETHII_TO_802_3", None); ("IPA_HDR_PROC_802_3_TO_ETHII", None);
    ("IPA_HDR_PROC_802_3_TO_802_3", None); ("IPA_HDR_PROC_MAX", None)]].
Definition enum_ipacm_client_enum : list decl := [
  Enum [
    ("IPACM_CLIENT_USB", Some (dec 1)); ("IPACM_CLIENT_WLAN", None); ("IPACM_CLIENT_MAX", None)];
  Enum [
    ("IPACM_CLIENT_DEVICE_TYPE_USB", Some (dec 0));
    ("IPACM_CLIENT_DEVICE_TYPE_WLAN", Some (dec 1));
    ("IPACM_CLIENT_DEVICE_TYPE_ETH", Some (dec 2))]].
Definition defs_TETH_BRIDGE_IOCTL_SET_BRIDGE_MODE : list decl := [
  Defines [
    ("TETH_BRIDGE_IOCTL_SET_BRIDGE_MODE", dec 0); ("TETH_BRIDGE_IOCTL_SET_AGGR_PARAMS", dec 1);
    ("TETH_BRIDGE_IOCTL_GET_AGGR_PARAMS", dec 2);
    ("TETH_BRIDGE_IOCTL_GET_AGGR_CAPABILITIES", dec 3); ("TETH_BRIDGE_IOCTL_MAX", dec 4)];
  Enum [
    ("TETH_LINK_PROTOCOL_IP", None); ("TETH_LINK_PROTOCOL_ETHERNET", None);
    ("TETH_LINK_PROTOCOL_MAX", None)];
  Enum [
    ("TETH_AGGR_PROTOCOL_NONE", None); ("TETH_AGGR_PROTOCOL_MBIM", None);
    ("TETH_AGGR_PROTOCOL_TLP", None); ("TETH_AGGR_PROTOCOL_MAX", None)]].
Definition enum_odu_bridge_mode : list decl := [
  Enum [
    ("ODU_BRIDGE_MODE_ROUTER", None); ("ODU_BRIDGE_MODE_BRIDGE", None);
    ("ODU_BRIDGE_MODE_MAX", None)]].
Definition header : header :=
  Header "linux/msm_ipa.h" [] (concat [
    defs_IPA_IOCTL_ADD_HDR; defs_IPA_FLT_TOS; enum_ipa_client_type; enum_ipa_ip_type;
    enum_ipa_rm_resource_name; defs_IPA_IPFLTR_NUM_MEQ_32_EQNS; enum_ipa_hdr_l2_type;
    enum_ipacm_client_enum; defs_TETH_BRIDGE_IOCTL_SET_BRIDGE_MODE; enum_odu_bridge_mode]).
End Msm_ipa.

(** ** [linux/msm_thermal_ioctl.h] *)

Module Msm_thermal_ioctl.
Definition enum_MSM_SET_CPU_MAX_FREQ : list decl := [
  Enum [
    ("MSM_SET_CPU_MAX_FREQ", Some (hex 0x00)); ("MSM_SET_CPU_MIN_FREQ", Some (hex 0x01));
    ("MSM_SET_CLUSTER_MAX_FREQ", Some (hex 0x02)); ("MSM_SET_CLUSTER_MIN_FREQ", Some (hex 0x03));
    ("MSM_GET_CLUSTER_FREQ_PLAN", Some (hex 0x04));
    ("MSM_GET_CLUSTER_VOLTAGE_PLAN", Some (hex 0x05)); ("MSM_CMD_MAX_NR", None)];
  Defines [
    ("MSM_THERMAL_MAGIC_NUM", hex 0xCA)]].
Definition header : header :=
  Header "linux/msm_thermal_ioctl.h" [] (concat [
    enum_MSM_SET_CPU_MAX_FREQ]).
End Msm_thermal_ioctl.

(** ** [linux/pci.h] *)

Module Pci.
Definition defs_PCIIOC_BASE : list decl := [
  Defines [
    ("PCIIOC_BASE", Or (Or (Shl (chr 80) (dec 24)) (Shl (chr 67) (dec 16))) (Shl (chr 73) (dec 8)));
    ("PCIIOC_CONTROLLER", Or (Id "PCIIOC_BASE") (hex 0x00));
    ("PCIIOC_MMAP_IS_IO", Or (Id "PCIIOC_BASE") (hex 0x01));
    ("PCIIOC_MMAP_IS_MEM", Or (Id "PCIIOC_BASE") (hex 0x02));
    ("PCIIOC_WRITE_COMBINE", Or (Id "PCIIOC_BASE") (hex 0x03))]].
Definition header : header :=
  Header "linux/pci.h" [] (concat [
    defs_PCIIOC_BASE]).
End Pci.

(** ** [linux/pci_regs.h] *)

Module Pci_regs.
Definition defs_PCI_STD_HEADER_SIZEOF : list decl := [
  Defines [
    ("PCI_STD_HEADER_SIZEOF", dec 64); ("PCI_VENDOR_ID", hex 0x00); ("PCI_DEVICE_ID", hex 0x02);
    ("PCI_COMMAND", hex 0x04); ("PCI_COMMAND_IO", hex 0x1); ("PCI_COMMAND_MEMORY", hex 0x2);
    ("PCI_COMMAND_MASTER", hex 0x4); ("PCI_COMMAND_SPECIAL", hex 0x8);
    ("PCI_COMMAND_INVALIDATE", hex 0x10); ("PCI_COMMAND_VGA_PALETTE", hex 0x20);
    ("PCI_COMMAND_PARITY", hex 0x40); ("PCI_COMMAND_WAIT", hex 0x80);
    ("PCI_COMMAND_SERR", hex 0x100); ("PCI_COMMAND_FAST_BACK", hex 0x200);
    ("PCI_COMMAND_INTX_DISABLE", hex 0x400); ("PCI_STATUS", hex 0x06);
    ("PCI_STATUS_INTERRUPT", hex 0x08); ("PCI_STATUS_CAP_LIST", hex 0x10);
    ("PCI_STATUS_66MHZ", hex 0x20); ("PCI_STATUS_UDF", hex 0x40);
    ("PCI_STATUS_FAST_BACK", hex 0x80); ("PCI_STATUS_PARITY", hex 0x100);
    ("PCI_STATUS_DEVSEL_MASK", hex 0x600); ("PCI_STATUS_DEVSEL_FAST", hex 0x000);
    ("PCI_STATUS_DEVSEL_MEDIUM", hex 0x200); ("PCI_STATUS_DEVSEL_SLOW", hex 0x400);
    ("PCI_STATUS_SIG_TARGET_ABORT", hex 0x800); ("PCI_STATUS_REC_TARGET_ABORT", hex 0x1000);
    ("PCI_STATUS_REC_MASTER_ABORT", hex 0x2000); ("PCI_STATUS_SIG_SYSTEM_ERROR", hex 0x4000);
    ("PCI_STATUS_DETECTED_PARITY", hex 0x8000); ("PCI_CLASS_REVISION", hex 0x08);
    ("PCI_REVISION_ID", hex 0x08); ("PCI_CLASS_PROG", hex 0x09); ("PCI_CLASS_DEVICE", hex 0x0a);
    ("PCI_CACHE_LINE_SIZE", hex 0x0c); ("PCI_LATENCY_TIMER", hex 0x0d);
    ("PCI_HEADER_TYPE", hex 0x0e); ("PCI_HEADER_TYPE_NORMAL", dec 0);
    ("PCI_HEADER_TYPE_BRIDGE", dec 1); ("PCI_HEADER_TYPE_CARDBUS", dec 2);
    ("PCI_BIST", hex 0x0f); ("PCI_BIST_CODE_MASK", hex 0x0f); ("PCI_BIST_START", hex 0x40);
    ("PCI_BIST_CAPABLE", hex 0x80)]].
Definition defs_PCI_BASE_ADDRESS_0 : list decl := [
  Defines [
    ("PCI_BASE_ADDRESS_0", hex 0x10); ("PCI_BASE_ADDRESS_1", hex 0x14);
    ("PCI_BASE_ADDRESS_2", hex 0x18); ("PCI_BASE_ADDRESS_3", hex 0x1c);
    ("PCI_BASE_ADDRESS_4", hex 0x20); ("PCI_BASE_ADDRESS_5", hex 0x24);
    ("PCI_BASE_ADDRESS_SPACE", hex 0x01); ("PCI_BASE_ADDRESS_SPACE_IO", hex 0x01);
    ("PCI_BASE_ADDRESS_SPACE_MEMORY", hex 0x00); ("PCI_BASE_ADDRESS_MEM_TYPE_MASK", hex 0x06);
    ("PCI_BASE_ADDRESS_MEM_TYPE_32", hex 0x00); ("PCI_BASE_ADDRESS_MEM_TYPE_1M", hex 0x02);
    ("PCI_BASE_ADDRESS_MEM_TYPE_64", hex 0x04); ("PCI_BASE_ADDRESS_MEM_PREFETCH", hex 0x08);
    ("PCI_BASE_ADDRESS_MEM_MASK", Not (hexUL 0x0f));
    ("PCI_BASE_ADDRESS_IO_MASK", Not (hexUL 0x03)); ("PCI_CARDBUS_CIS", hex 0x28);
    ("PCI_SUBSYSTEM_VENDOR_ID", hex 0x2c); ("PCI_SUBSYSTEM_ID", hex 0x2e);
    ("PCI_ROM_ADDRESS", hex 0x30); ("PCI_ROM_ADDRESS_ENABLE", hex 0x01);
    ("PCI_ROM_ADDRESS_MASK", Not (hexU 0x7ff)); ("PCI_CAPABILITY_LIST", hex 0x34);
    ("PCI_INTERRUPT_LINE", hex 0x3c); ("PCI_INTERRUPT_PIN", hex 0x3d); ("PCI_MIN_GNT", hex 0x3e);
    ("PCI_MAX_LAT", hex 0x3f); ("PCI_PRIMARY_BUS", hex 0x18); ("PCI_SECONDARY_BUS", hex 0x19);
    ("PCI_SUBORDINATE_BUS", hex 0x1a); ("PCI_SEC_LATENCY_TIMER", hex 0x1b);
    ("PCI_IO_BASE", hex 0x1c); ("PCI_IO_LIMIT", hex 0x1d);
    ("PCI_IO_RANGE_TYPE_MASK", hexUL 0x0f); ("PCI_IO_RANGE_TYPE_16", hex 0x00);
    ("PCI_IO_RANGE_TYPE_32", hex 0x01); ("PCI_IO_RANGE_MASK", Not (hexUL 0x0f));
    ("PCI_IO_1K_RANGE_MASK", Not (hexUL 0x03)); ("PCI_SEC_STATUS", hex 0x1e);
    ("PCI_MEMORY_BASE", hex 0x20); ("PCI_MEMORY_LIMIT", hex 0x22);
    ("PCI_MEMORY_RANGE_TYPE_MASK", hexUL 0x0f); ("PCI_MEMORY_RANGE_MASK", Not (hexUL 0x0f));
    ("PCI_PREF_MEMORY_BASE", hex 0x24); ("PCI_PREF_MEMORY_LIMIT", hex 0x26);
    ("PCI_PREF_RANGE_TYPE_MASK", hexUL 0x0f); ("PCI_PREF_RANGE_TYPE_32", hex 0x00);
    ("PCI_PREF_RANGE_TYPE_64", hex 0x01); ("PCI_PREF_RANGE_MASK", Not (hexUL 0x0f));
    ("PCI_PREF_BASE_UPPER32", hex 0x28); ("PCI_PREF_LIMIT_UPPER32", hex 0x2c);
    ("PCI_IO_BASE_UPPER16", hex 0x30); ("PCI_IO_LIMIT_UPPER16", hex 0x32);
    ("PCI_ROM_ADDRESS1", hex 0x38); ("PCI_BRIDGE_CONTROL", hex 0x3e);
    ("PCI_BRIDGE_CTL_PARITY", hex 0x01); ("PCI_BRIDGE_CTL_SERR", hex 0x02);
    ("PCI_BRIDGE_CTL_ISA", hex 0x04); ("PCI_BRIDGE_CTL_VGA", hex 0x08);
    ("PCI_BRIDGE_CTL_MASTER_ABORT", hex 0x20); ("PCI_BRIDGE_CTL_BUS_RESET", hex 0x40);
    ("PCI_BRIDGE_CTL_FAST_BACK", hex 0x80); ("PCI_CB_CAPABILITY_LIST", hex 0x14);
    ("PCI_CB_SEC_STATUS", hex 0x16); ("PCI_CB_PRIMARY_BUS", hex 0x18);
    ("PCI_CB_CARD_BUS", hex 0x19); ("PCI_CB_SUBORDINATE_BUS", hex 0x1a);
    ("PCI_CB_LATENCY_TIMER", hex 0x1b); ("PCI_CB_MEMORY_BASE_0", hex 0x1c);
    ("PCI_CB_MEMORY_LIMIT_0", hex 0x20); ("PCI_CB_MEMORY_BASE_1", hex 0x24);
    ("PCI_CB_MEMORY_LIMIT_1", hex 0x28); ("PCI_CB_IO_BASE_0", hex 0x2c);
    ("PCI_CB_IO_BASE_0_HI", hex 0x2e); ("PCI_CB_IO_LIMIT_0", hex 0x30);
    ("PCI_CB_IO_LIMIT_0_HI", hex 0x32); ("PCI_CB_IO_BASE_1", hex 0x34);
    ("PCI_CB_IO_BASE_1_HI", hex 0x36); ("PCI_CB_IO_LIMIT_1", hex 0x38);
    ("PCI_CB_IO_LIMIT_1_HI", hex 0x3a); ("PCI_CB_IO_RANGE_MASK", Not (hexUL 0x03));
    ("PCI_CB_BRIDGE_CONTROL", hex 0x3e); ("PCI_CB_BRIDGE_CTL_PARITY", hex 0x01);
    ("PCI_CB_BRIDGE_CTL_SERR", hex 0x02); ("PCI_CB_BRIDGE_CTL_ISA", hex 0x04);
    ("PCI_CB_BRIDGE_CTL_VGA", hex 0x08); ("PCI_CB_BRIDGE_CTL_MASTER_ABORT", hex 0x20);
    ("PCI_CB_BRIDGE_CTL_CB_RESET", hex 0x40); ("PCI_CB_BRIDGE_CTL_16BIT_INT", hex 0x80);
    ("PCI_CB_BRIDGE_CTL_PREFETCH_MEM0", hex 0x100);
    ("PCI_CB_BRIDGE_CTL_PREFETCH_MEM1", hex 0x200); ("PCI_CB_BRIDGE_CTL_POST_WRITES", hex 0x400);
    ("PCI_CB_SUBSYSTEM_VENDOR_ID", hex 0x40); ("PCI_CB_SUBSYSTEM_ID", hex 0x42);
    ("PCI_CB_LEGACY_MODE_BASE", hex 0x44)]].
Definition defs_PCI_CAP_LIST_ID : list decl := [
  Defines [
    ("PCI_CAP_LIST_ID", dec 0); ("PCI_CAP_ID_PM", hex 0x01); ("PCI_CAP_ID_AGP", hex 0x02);
    ("PCI_CAP_ID_VPD", hex 0x03); ("PCI_CAP_ID_SLOTID", hex 0x04); ("PCI_CAP_ID_MSI", hex 0x05);
    ("PCI_CAP_ID_CHSWP", hex 0x06); ("PCI_CAP_ID_PCIX", hex 0x07); ("PCI_CAP_ID_HT", hex 0x08);
    ("PCI_CAP_ID_VNDR", hex 0x09); ("PCI_CAP_ID_DBG", hex 0x0A); ("PCI_CAP_ID_CCRC", hex 0x0B);
    ("PCI_CAP_ID_SHPC", hex 0x0C); ("PCI_CAP_ID_SSVID", hex 0x0D); ("PCI_CAP_ID_AGP3", hex 0x0E);
    ("PCI_CAP_ID_SECDEV", hex 0x0F); ("PCI_CAP_ID_EXP", hex 0x10); ("PCI_CAP_ID_MSIX", hex 0x11);
    ("PCI_CAP_ID_SATA", hex 0x12); ("PCI_CAP_ID_AF", hex 0x13); ("PCI_CAP_ID_EA", hex 0x14);
    ("PCI_CAP_ID_MAX", Id "PCI_CAP_ID_EA"); ("PCI_CAP_LIST_NEXT", dec 1);
    ("PCI_CAP_FLAGS", dec 2); ("PCI_CAP_SIZEOF", dec 4); ("PCI_PM_PMC", dec 2);
    ("PCI_PM_CAP_VER_MASK", hex 0x0007); ("PCI_PM_CAP_PME_CLOCK", hex 0x0008);
    ("PCI_PM_CAP_RESERVED", hex 0x0010); ("PCI_PM_CAP_DSI", hex 0x0020);
    ("PCI_PM_CAP_AUX_POWER", hex 0x01C0); ("PCI_PM_CAP_D1", hex 0x0200);
    ("PCI_PM_CAP_D2", hex 0x0400); ("PCI_PM_CAP_PME", hex 0x0800);
    ("PCI_PM_CAP_PME_MASK", hex 0xF800); ("PCI_PM_CAP_PME_D0", hex 0x0800);
    ("PCI_PM_CAP_PME_D1", hex 0x1000); ("PCI_PM_CAP_PME_D2", hex 0x2000);
    ("PCI_PM_CAP_PME_D3", hex 0x4000); ("PCI_PM_CAP_PME_D3cold", hex 0x8000);
    ("PCI_PM_CAP_PME_SHIFT", dec 11); ("PCI_PM_CTRL", dec 4);
    ("PCI_PM_CTRL_STATE_MASK", hex 0x0003); ("PCI_PM_CTRL_NO_SOFT_RESET", hex 0x0008);
    ("PCI_PM_CTRL_PME_ENABLE", hex 0x0100); ("PCI_PM_CTRL_DATA_SEL_MASK", hex 0x1e00);
    ("PCI_PM_CTRL_DATA_SCALE_MASK", hex 0x6000); ("PCI_PM_CTRL_PME_STATUS", hex 0x8000);
    ("PCI_PM_PPB_EXTENSIONS", dec 6); ("PCI_PM_PPB_B2_B3", hex 0x40);
    ("PCI_PM_BPCC_ENABLE", hex 0x80); ("PCI_PM_DATA_REGISTER", dec 7); ("PCI_PM_SIZEOF", dec 8);
    ("PCI_AGP_VERSION", dec 2); ("PCI_AGP_RFU", dec 3); ("PCI_AGP_STATUS", dec 4);
    ("PCI_AGP_STATUS_RQ_MASK", hex 0xff000000); ("PCI_AGP_STATUS_SBA", hex 0x0200);
    ("PCI_AGP_STATUS_64BIT", hex 0x0020); ("PCI_AGP_STATUS_FW", hex 0x0010);
    ("PCI_AGP_STATUS_RATE4", hex 0x0004); ("PCI_AGP_STATUS_RATE2", hex 0x0002);
    ("PCI_AGP_STATUS_RATE1", hex 0x0001); ("PCI_AGP_COMMAND", dec 8);
    ("PCI_AGP_COMMAND_RQ_MASK", hex 0xff000000); ("PCI_AGP_COMMAND_SBA", hex 0x0200);
    ("PCI_AGP_COMMAND_AGP", hex 0x0100); ("PCI_AGP_COMMAND_64BIT", hex 0x0020);
    ("PCI_AGP_COMMAND_FW", hex 0x0010); ("PCI_AGP_COMMAND_RATE4", hex 0x0004);
    ("PCI_AGP_COMMAND_RATE2", hex 0x0002); ("PCI_AGP_COMMAND_RATE1", hex 0x0001);
    ("PCI_AGP_SIZEOF", dec 12); ("PCI_VPD_ADDR", dec 2); ("PCI_VPD_ADDR_MASK", hex 0x7fff);
    ("PCI_VPD_ADDR_F", hex 0x8000); ("PCI_VPD_DATA", dec 4); ("PCI_CAP_VPD_SIZEOF", dec 8);
    ("PCI_SID_ESR", dec 2); ("PCI_SID_ESR_NSLOTS", hex 0x1f); ("PCI_SID_ESR_FIC", hex 0x20);
    ("PCI_SID_CHASSIS_NR", dec 3); ("PCI_MSI_FLAGS", dec 2);
    ("PCI_MSI_FLAGS_ENABLE", hex 0x0001); ("PCI_MSI_FLAGS_QMASK", hex 0x000e);
    ("PCI_MSI_FLAGS_QSIZE", hex 0x0070); ("PCI_MSI_FLAGS_64BIT", hex 0x0080);
    ("PCI_MSI_FLAGS_MASKBIT", hex 0x0100); ("PCI_MSI_RFU", dec 3); ("PCI_MSI_ADDRESS_LO", dec 4);
    ("PCI_MSI_ADDRESS_HI", dec 8); ("PCI_MSI_DATA_32", dec 8); ("PCI_MSI_MASK_32", dec 12);
    ("PCI_MSI_PENDING_32", dec 16); ("PCI_MSI_DATA_64", dec 12); ("PCI_MSI_MASK_64", dec 16);
    ("PCI_MSI_PENDING_64", dec 20); ("PCI_MSIX_FLAGS", dec 2);
    ("PCI_MSIX_FLAGS_QSIZE", hex 0x07FF); ("PCI_MSIX_FLAGS_MASKALL", hex 0x4000);
    ("PCI_MSIX_FLAGS_ENABLE", hex 0x8000); ("PCI_MSIX_TABLE", dec 4);
    ("PCI_MSIX_TABLE_BIR", hex 0x00000007); ("PCI_MSIX_TABLE_OFFSET", hex 0xfffffff8);
    ("PCI_MSIX_PBA", dec 8); ("PCI_MSIX_PBA_BIR", hex 0x00000007);
    ("PCI_MSIX_PBA_OFFSET", hex 0xfffffff8); ("PCI_MSIX_FLAGS_BIRMASK", Id "PCI_MSIX_PBA_BIR");
    ("PCI_CAP_MSIX_SIZEOF", dec 12); ("PCI_MSIX_ENTRY_SIZE", dec 16);
    ("PCI_MSIX_ENTRY_LOWER_ADDR", dec 0); ("PCI_MSIX_ENTRY_UPPER_ADDR", dec 4);
    ("PCI_MSIX_ENTRY_DATA", dec 8); ("PCI_MSIX_ENTRY_VECTOR_CTRL", dec 12);
    ("PCI_MSIX_ENTRY_CTRL_MASKBIT", dec 1); ("PCI_CHSWP_CSR", dec 2);
    ("PCI_CHSWP_DHA", hex 0x01); ("PCI_CHSWP_EIM", hex 0x02); ("PCI_CHSWP_PIE", hex 0x04);
    ("PCI_CHSWP_LOO", hex 0x08); ("PCI_CHSWP_PI", hex 0x30); ("PCI_CHSWP_EXT", hex 0x40);
    ("PCI_CHSWP_INS", hex 0x80); ("PCI_AF_LENGTH", dec 2); ("PCI_AF_CAP", dec 3)]].
Definition defs_PCI_AF_CAP_TP : list decl := [
  Defines [
    ("PCI_AF_CAP_TP", hex 0x01); ("PCI_AF_CAP_FLR", hex 0x02); ("PCI_AF_CTRL", dec 4);
    ("PCI_AF_CTRL_FLR", hex 0x01); ("PCI_AF_STATUS", dec 5); ("PCI_AF_STATUS_TP", hex 0x01);
    ("PCI_CAP_AF_SIZEOF", dec 6); ("PCI_EA_NUM_ENT", dec 2); ("PCI_EA_NUM_ENT_MASK", hex 0x3f);
    ("PCI_EA_FIRST_ENT", dec 4); ("PCI_EA_FIRST_ENT_BRIDGE", dec 8);
    ("PCI_EA_ES", hex 0x00000007); ("PCI_EA_BEI", hex 0x000000f0); ("PCI_EA_BEI_BAR0", dec 0);
    ("PCI_EA_BEI_BAR5", dec 5); ("PCI_EA_BEI_BRIDGE", dec 6); ("PCI_EA_BEI_ENI", dec 7);
    ("PCI_EA_BEI_ROM", dec 8); ("PCI_EA_BEI_VF_BAR0", dec 9); ("PCI_EA_BEI_VF_BAR5", dec 14);
    ("PCI_EA_BEI_RESERVED", dec 15); ("PCI_EA_PP", hex 0x0000ff00);
    ("PCI_EA_SP", hex 0x00ff0000); ("PCI_EA_P_MEM", hex 0x00);
    ("PCI_EA_P_MEM_PREFETCH", hex 0x01); ("PCI_EA_P_IO", hex 0x02);
    ("PCI_EA_P_VF_MEM_PREFETCH", hex 0x03); ("PCI_EA_P_VF_MEM", hex 0x04);
    ("PCI_EA_P_BRIDGE_MEM", hex 0x05); ("PCI_EA_P_BRIDGE_MEM_PREFETCH", hex 0x06);
    ("PCI_EA_P_BRIDGE_IO", hex 0x07); ("PCI_EA_P_MEM_RESERVED", hex 0xfd);
    ("PCI_EA_P_IO_RESERVED", hex 0xfe); ("PCI_EA_P_UNAVAILABLE", hex 0xff);
    ("PCI_EA_WRITABLE", hex 0x40000000); ("PCI_EA_ENABLE", hex 0x80000000);
    ("PCI_EA_BASE", dec 4); ("PCI_EA_MAX_OFFSET", dec 8); ("PCI_EA_IS_64", hex 0x00000002);
    ("PCI_EA_FIELD_MASK", hex 0xfffffffc); ("PCI_X_CMD", dec 2);
    ("PCI_X_CMD_DPERR_E", hex 0x0001); ("PCI_X_CMD_ERO", hex 0x0002);
    ("PCI_X_CMD_READ_512", hex 0x0000); ("PCI_X_CMD_READ_1K", hex 0x0004);
    ("PCI_X_CMD_READ_2K", hex 0x0008); ("PCI_X_CMD_READ_4K", hex 0x000c);
    ("PCI_X_CMD_MAX_READ", hex 0x000c); ("PCI_X_CMD_SPLIT_1", hex 0x0000);
    ("PCI_X_CMD_SPLIT_2", hex 0x0010); ("PCI_X_CMD_SPLIT_3", hex 0x0020);
    ("PCI_X_CMD_SPLIT_4", hex 0x0030); ("PCI_X_CMD_SPLIT_8", hex 0x0040);
    ("PCI_X_CMD_SPLIT_12", hex 0x0050); ("PCI_X_CMD_SPLIT_16", hex 0x0060);
    ("PCI_X_CMD_SPLIT_32", hex 0x0070); ("PCI_X_CMD_MAX_SPLIT", hex 0x0070);
    ("PCI_X_STATUS", dec 4); ("PCI_X_STATUS_DEVFN", hex 0x000000ff);
    ("PCI_X_STATUS_BUS", hex 0x0000ff00); ("PCI_X_STATUS_64BIT", hex 0x00010000);
    ("PCI_X_STATUS_133MHZ", hex 0x00020000); ("PCI_X_STATUS_SPL_DISC", hex 0x00040000);
    ("PCI_X_STATUS_UNX_SPL", hex 0x00080000); ("PCI_X_STATUS_COMPLEX", hex 0x00100000);
    ("PCI_X_STATUS_MAX_READ", hex 0x00600000); ("PCI_X_STATUS_MAX_SPLIT", hex 0x03800000);
    ("PCI_X_STATUS_MAX_CUM", hex 0x1c000000); ("PCI_X_STATUS_SPL_ERR", hex 0x20000000);
    ("PCI_X_STATUS_266MHZ", hex 0x40000000); ("PCI_X_STATUS_533MHZ", hex 0x80000000);
    ("PCI_X_ECC_CSR", dec 8); ("PCI_CAP_PCIX_SIZEOF_V0", dec 8);
    ("PCI_CAP_PCIX_SIZEOF_V1", dec 24); ("PCI_CAP_PCIX_SIZEOF_V2", Id "PCI_CAP_PCIX_SIZEOF_V1");
    ("PCI_X_BRIDGE_SSTATUS", dec 2); ("PCI_X_SSTATUS_64BIT", hex 0x0001);
    ("PCI_X_SSTATUS_133MHZ", hex 0x0002); ("PCI_X_SSTATUS_FREQ", hex 0x03c0);
    ("PCI_X_SSTATUS_VERS", hex 0x3000); ("PCI_X_SSTATUS_V1", hex 0x1000);
    ("PCI_X_SSTATUS_V2", hex 0x2000); ("PCI_X_SSTATUS_266MHZ", hex 0x4000);
    ("PCI_X_SSTATUS_533MHZ", hex 0x8000); ("PCI_X_BRIDGE_STATUS", dec 4);
    ("PCI_SSVID_VENDOR_ID", dec 4); ("PCI_SSVID_DEVICE_ID", dec 6); ("PCI_EXP_FLAGS", dec 2);
    ("PCI_EXP_FLAGS_VERS", hex 0x000f); ("PCI_EXP_FLAGS_TYPE", hex 0x00f0);
    ("PCI_EXP_TYPE_ENDPOINT", hex 0x0); ("PCI_EXP_TYPE_LEG_END", hex 0x1);
    ("PCI_EXP_TYPE_ROOT_PORT", hex 0x4); ("PCI_EXP_TYPE_UPSTREAM", hex 0x5);
    ("PCI_EXP_TYPE_DOWNSTREAM", hex 0x6); ("PCI_EXP_TYPE_PCI_BRIDGE", hex 0x7);
    ("PCI_EXP_TYPE_PCIE_BRIDGE", hex 0x8); ("PCI_EXP_TYPE_RC_END", hex 0x9);
    ("PCI_EXP_TYPE_RC_EC", hex 0xa); ("PCI_EXP_FLAGS_SLOT", hex 0x0100);
    ("PCI_EXP_FLAGS_IRQ", hex 0x3e00); ("PCI_EXP_DEVCAP", dec 4);
    ("PCI_EXP_DEVCAP_PAYLOAD", hex 0x00000007); ("PCI_EXP_DEVCAP_PHANTOM", hex 0x00000018);
    ("PCI_EXP_DEVCAP_EXT_TAG", hex 0x00000020); ("PCI_EXP_DEVCAP_L0S", hex 0x000001c0);
    ("PCI_EXP_DEVCAP_L1", hex 0x00000e00); ("PCI_EXP_DEVCAP_ATN_BUT", hex 0x00001000);
    ("PCI_EXP_DEVCAP_ATN_IND", hex 0x00002000); ("PCI_EXP_DEVCAP_PWR_IND", hex 0x00004000);
    ("PCI_EXP_DEVCAP_RBER", hex 0x00008000); ("PCI_EXP_DEVCAP_PWR_VAL", hex 0x03fc0000);
    ("PCI_EXP_DEVCAP_PWR_SCL", hex 0x0c000000); ("PCI_EXP_DEVCAP_FLR", hex 0x10000000);
    ("PCI_EXP_DEVCTL", dec 8); ("PCI_EXP_DEVCTL_CERE", hex 0x0001);
    ("PCI_EXP_DEVCTL_NFERE", hex 0x0002); ("PCI_EXP_DEVCTL_FERE", hex 0x0004);
    ("PCI_EXP_DEVCTL_URRE", hex 0x0008); ("PCI_EXP_DEVCTL_RELAX_EN", hex 0x0010);
    ("PCI_EXP_DEVCTL_PAYLOAD", hex 0x00e0); ("PCI_EXP_DEVCTL_EXT_TAG", hex 0x0100);
    ("PCI_EXP_DEVCTL_PHANTOM", hex 0x0200); ("PCI_EXP_DEVCTL_AUX_PME", hex 0x0400);
    ("PCI_EXP_DEVCTL_NOSNOOP_EN", hex 0x0800); ("PCI_EXP_DEVCTL_READRQ", hex 0x7000);
    ("PCI_EXP_DEVCTL_READRQ_128B", hex 0x0000); ("PCI_EXP_DEVCTL_READRQ_256B", hex 0x1000);
    ("PCI_EXP_DEVCTL_READRQ_512B", hex 0x2000)]].
Definition defs_PCI_EXP_DEVCTL_READRQ_1024B : list decl := [
  Defines [
    ("PCI_EXP_DEVCTL_READRQ_1024B", hex 0x3000); ("PCI_EXP_DEVCTL_BCR_FLR", hex 0x8000);
    ("PCI_EXP_DEVSTA", dec 10); ("PCI_EXP_DEVSTA_CED", hex 0x0001);
    ("PCI_EXP_DEVSTA_NFED", hex 0x0002); ("PCI_EXP_DEVSTA_FED", hex 0x0004);
    ("PCI_EXP_DEVSTA_URD", hex 0x0008); ("PCI_EXP_DEVSTA_AUXPD", hex 0x0010);
    ("PCI_EXP_DEVSTA_TRPND", hex 0x0020); ("PCI_EXP_LNKCAP", dec 12);
    ("PCI_EXP_LNKCAP_SLS", hex 0x0000000f); ("PCI_EXP_LNKCAP_SLS_2_5GB", hex 0x00000001);
    ("PCI_EXP_LNKCAP_SLS_5_0GB", hex 0x00000002); ("PCI_EXP_LNKCAP_MLW", hex 0x000003f0);
    ("PCI_EXP_LNKCAP_ASPMS", hex 0x00000c00); ("PCI_EXP_LNKCAP_L0SEL", hex 0x00007000);
    ("PCI_EXP_LNKCAP_L1EL", hex 0x00038000); ("PCI_EXP_LNKCAP_CLKPM", hex 0x00040000);
    ("PCI_EXP_LNKCAP_SDERC", hex 0x00080000); ("PCI_EXP_LNKCAP_DLLLARC", hex 0x00100000);
    ("PCI_EXP_LNKCAP_LBNC", hex 0x00200000); ("PCI_EXP_LNKCAP_PN", hex 0xff000000);
    ("PCI_EXP_LNKCTL", dec 16); ("PCI_EXP_LNKCTL_ASPMC", hex 0x0003);
    ("PCI_EXP_LNKCTL_ASPM_L0S", hex 0x0001); ("PCI_EXP_LNKCTL_ASPM_L1", hex 0x0002);
    ("PCI_EXP_LNKCTL_RCB", hex 0x0008); ("PCI_EXP_LNKCTL_LD", hex 0x0010);
    ("PCI_EXP_LNKCTL_RL", hex 0x0020); ("PCI_EXP_LNKCTL_CCC", hex 0x0040);
    ("PCI_EXP_LNKCTL_ES", hex 0x0080); ("PCI_EXP_LNKCTL_CLKREQ_EN", hex 0x0100);
    ("PCI_EXP_LNKCTL_HAWD", hex 0x0200); ("PCI_EXP_LNKCTL_LBMIE", hex 0x0400);
    ("PCI_EXP_LNKCTL_LABIE", hex 0x0800); ("PCI_EXP_LNKSTA", dec 18);
    ("PCI_EXP_LNKSTA_CLS", hex 0x000f); ("PCI_EXP_LNKSTA_CLS_2_5GB", hex 0x0001);
    ("PCI_EXP_LNKSTA_CLS_5_0GB", hex 0x0002); ("PCI_EXP_LNKSTA_CLS_8_0GB", hex 0x0003);
    ("PCI_EXP_LNKSTA_NLW", hex 0x03f0); ("PCI_EXP_LNKSTA_NLW_X1", hex 0x0010);
    ("PCI_EXP_LNKSTA_NLW_X2", hex 0x0020); ("PCI_EXP_LNKSTA_NLW_X4", hex 0x0040);
    ("PCI_EXP_LNKSTA_NLW_X8", hex 0x0080); ("PCI_EXP_LNKSTA_NLW_SHIFT", dec 4);
    ("PCI_EXP_LNKSTA_LT", hex 0x0800); ("PCI_EXP_LNKSTA_SLC", hex 0x1000);
    ("PCI_EXP_LNKSTA_DLLLA", hex 0x2000); ("PCI_EXP_LNKSTA_LBMS", hex 0x4000);
    ("PCI_EXP_LNKSTA_LABS", hex 0x8000); ("PCI_CAP_EXP_ENDPOINT_SIZEOF_V1", dec 20);
    ("PCI_EXP_SLTCAP", dec 20); ("PCI_EXP_SLTCAP_ABP", hex 0x00000001);
    ("PCI_EXP_SLTCAP_PCP", hex 0x00000002); ("PCI_EXP_SLTCAP_MRLSP", hex 0x00000004);
    ("PCI_EXP_SLTCAP_AIP", hex 0x00000008); ("PCI_EXP_SLTCAP_PIP", hex 0x00000010);
    ("PCI_EXP_SLTCAP_HPS", hex 0x00000020); ("PCI_EXP_SLTCAP_HPC", hex 0x00000040);
    ("PCI_EXP_SLTCAP_SPLV", hex 0x00007f80); ("PCI_EXP_SLTCAP_SPLS", hex 0x00018000);
    ("PCI_EXP_SLTCAP_EIP", hex 0x00020000); ("PCI_EXP_SLTCAP_NCCS", hex 0x00040000);
    ("PCI_EXP_SLTCAP_PSN", hex 0xfff80000); ("PCI_EXP_SLTCTL", dec 24);
    ("PCI_EXP_SLTCTL_ABPE", hex 0x0001); ("PCI_EXP_SLTCTL_PFDE", hex 0x0002);
    ("PCI_EXP_SLTCTL_MRLSCE", hex 0x0004); ("PCI_EXP_SLTCTL_PDCE", hex 0x0008);
    ("PCI_EXP_SLTCTL_CCIE", hex 0x0010); ("PCI_EXP_SLTCTL_HPIE", hex 0x0020);
    ("PCI_EXP_SLTCTL_AIC", hex 0x00c0); ("PCI_EXP_SLTCTL_ATTN_IND_ON", hex 0x0040);
    ("PCI_EXP_SLTCTL_ATTN_IND_BLINK", hex 0x0080); ("PCI_EXP_SLTCTL_ATTN_IND_OFF", hex 0x00c0);
    ("PCI_EXP_SLTCTL_PIC", hex 0x0300); ("PCI_EXP_SLTCTL_PWR_IND_ON", hex 0x0100);
    ("PCI_EXP_SLTCTL_PWR_IND_BLINK", hex 0x0200); ("PCI_EXP_SLTCTL_PWR_IND_OFF", hex 0x0300);
    ("PCI_EXP_SLTCTL_PCC", hex 0x0400); ("PCI_EXP_SLTCTL_PWR_ON", hex 0x0000);
    ("PCI_EXP_SLTCTL_PWR_OFF", hex 0x0400); ("PCI_EXP_SLTCTL_EIC", hex 0x0800);
    ("PCI_EXP_SLTCTL_DLLSCE", hex 0x1000); ("PCI_EXP_SLTSTA", dec 26);
    ("PCI_EXP_SLTSTA_ABP", hex 0x0001); ("PCI_EXP_SLTSTA_PFD", hex 0x0002);
    ("PCI_EXP_SLTSTA_MRLSC", hex 0x0004); ("PCI_EXP_SLTSTA_PDC", hex 0x0008);
    ("PCI_EXP_SLTSTA_CC", hex 0x0010); ("PCI_EXP_SLTSTA_MRLSS", hex 0x0020);
    ("PCI_EXP_SLTSTA_PDS", hex 0x0040); ("PCI_EXP_SLTSTA_EIS", hex 0x0080);
    ("PCI_EXP_SLTSTA_DLLSC", hex 0x0100); ("PCI_EXP_RTCTL", dec 28);
    ("PCI_EXP_RTCTL_SECEE", hex 0x0001); ("PCI_EXP_RTCTL_SENFEE", hex 0x0002);
    ("PCI_EXP_RTCTL_SEFEE", hex 0x0004); ("PCI_EXP_RTCTL_PMEIE", hex 0x0008);
    ("PCI_EXP_RTCTL_CRSSVE", hex 0x0010); ("PCI_EXP_RTCAP", dec 30);
    ("PCI_EXP_RTCAP_CRSVIS", hex 0x0001); ("PCI_EXP_RTSTA", dec 32);
    ("PCI_EXP_RTSTA_PME", hex 0x00010000); ("PCI_EXP_RTSTA_PENDING", hex 0x00020000)];
  Defines [
    ("PCI_EXP_DEVCAP2", dec 36); ("PCI_EXP_DEVCAP2_ARI", hex 0x00000020);
    ("PCI_EXP_DEVCAP2_LTR", hex 0x00000800); ("PCI_EXP_DEVCAP2_OBFF_MASK", hex 0x000c0000);
    ("PCI_EXP_DEVCAP2_OBFF_MSG", hex 0x00040000); ("PCI_EXP_DEVCAP2_OBFF_WAKE", hex 0x00080000);
    ("PCI_EXP_DEVCTL2", dec 40); ("PCI_EXP_DEVCTL2_COMP_TIMEOUT", hex 0x000f);
    ("PCI_EXP_DEVCTL2_ARI", hex 0x0020); ("PCI_EXP_DEVCTL2_IDO_REQ_EN", hex 0x0100);
    ("PCI_EXP_DEVCTL2_IDO_CMP_EN", hex 0x0200); ("PCI_EXP_DEVCTL2_LTR_EN", hex 0x0400);
    ("PCI_EXP_DEVCTL2_OBFF_MSGA_EN", hex 0x2000); ("PCI_EXP_DEVCTL2_OBFF_MSGB_EN", hex 0x4000);
    ("PCI_EXP_DEVCTL2_OBFF_WAKE_EN", hex 0x6000); ("PCI_EXP_DEVSTA2", dec 42);
    ("PCI_CAP_EXP_ENDPOINT_SIZEOF_V2", dec 44); ("PCI_EXP_LNKCAP2", dec 44);
    ("PCI_EXP_LNKCAP2_SLS_2_5GB", hex 0x00000002); ("PCI_EXP_LNKCAP2_SLS_5_0GB", hex 0x00000004);
    ("PCI_EXP_LNKCAP2_SLS_8_0GB", hex 0x00000008); ("PCI_EXP_LNKCAP2_CROSSLINK", hex 0x00000100);
    ("PCI_EXP_LNKCTL2", dec 48); ("PCI_EXP_LNKSTA2", dec 50); ("PCI_EXP_SLTCAP2", dec 52);
    ("PCI_EXP_SLTCTL2", dec 56); ("PCI_EXP_SLTSTA2", dec 58)]].
Definition defs_PCI_EXT_CAP_ID_ERR : list decl := [
  Defines [
    ("PCI_EXT_CAP_ID_ERR", hex 0x01); ("PCI_EXT_CAP_ID_VC", hex 0x02);
    ("PCI_EXT_CAP_ID_DSN", hex 0x03); ("PCI_EXT_CAP_ID_PWR", hex 0x04);
    ("PCI_EXT_CAP_ID_RCLD", hex 0x05); ("PCI_EXT_CAP_ID_RCILC", hex 0x06);
    ("PCI_EXT_CAP_ID_RCEC", hex 0x07); ("PCI_EXT_CAP_ID_MFVC", hex 0x08);
    ("PCI_EXT_CAP_ID_VC9", hex 0x09); ("PCI_EXT_CAP_ID_RCRB", hex 0x0A);
    ("PCI_EXT_CAP_ID_VNDR", hex 0x0B); ("PCI_EXT_CAP_ID_CAC", hex 0x0C);
    ("PCI_EXT_CAP_ID_ACS", hex 0x0D); ("PCI_EXT_CAP_ID_ARI", hex 0x0E);
    ("PCI_EXT_CAP_ID_ATS", hex 0x0F); ("PCI_EXT_CAP_ID_SRIOV", hex 0x10);
    ("PCI_EXT_CAP_ID_MRIOV", hex 0x11); ("PCI_EXT_CAP_ID_MCAST", hex 0x12);
    ("PCI_EXT_CAP_ID_PRI", hex 0x13); ("PCI_EXT_CAP_ID_AMD_XXX", hex 0x14);
    ("PCI_EXT_CAP_ID_REBAR", hex 0x15); ("PCI_EXT_CAP_ID_DPA", hex 0x16);
    ("PCI_EXT_CAP_ID_TPH", hex 0x17); ("PCI_EXT_CAP_ID_LTR", hex 0x18);
    ("PCI_EXT_CAP_ID_SECPCI", hex 0x19); ("PCI_EXT_CAP_ID_PMUX", hex 0x1A);
    ("PCI_EXT_CAP_ID_PASID", hex 0x1B); ("PCI_EXT_CAP_ID_MAX", Id "PCI_EXT_CAP_ID_PASID");
    ("PCI_EXT_CAP_DSN_SIZEOF", dec 12); ("PCI_EXT_CAP_MCAST_ENDPOINT_SIZEOF", dec 40);
    ("PCI_ERR_UNCOR_STATUS", dec 4); ("PCI_ERR_UNC_UND", hex 0x00000001);
    ("PCI_ERR_UNC_DLP", hex 0x00000010); ("PCI_ERR_UNC_SURPDN", hex 0x00000020);
    ("PCI_ERR_UNC_POISON_TLP", hex 0x00001000); ("PCI_ERR_UNC_FCP", hex 0x00002000);
    ("PCI_ERR_UNC_COMP_TIME", hex 0x00004000); ("PCI_ERR_UNC_COMP_ABORT", hex 0x00008000);
    ("PCI_ERR_UNC_UNX_COMP", hex 0x00010000); ("PCI_ERR_UNC_RX_OVER", hex 0x00020000);
    ("PCI_ERR_UNC_MALF_TLP", hex 0x00040000); ("PCI_ERR_UNC_ECRC", hex 0x00080000);
    ("PCI_ERR_UNC_UNSUP", hex 0x00100000); ("PCI_ERR_UNC_ACSV", hex 0x00200000);
    ("PCI_ERR_UNC_INTN", hex 0x00400000); ("PCI_ERR_UNC_MCBTLP", hex 0x00800000);
    ("PCI_ERR_UNC_ATOMEG", hex 0x01000000); ("PCI_ERR_UNC_TLPPRE", hex 0x02000000);
    ("PCI_ERR_UNCOR_MASK", dec 8); ("PCI_ERR_UNCOR_SEVER", dec 12);
    ("PCI_ERR_COR_STATUS", dec 16); ("PCI_ERR_COR_RCVR", hex 0x00000001);
    ("PCI_ERR_COR_BAD_TLP", hex 0x00000040); ("PCI_ERR_COR_BAD_DLLP", hex 0x00000080);
    ("PCI_ERR_COR_REP_ROLL", hex 0x00000100); ("PCI_ERR_COR_REP_TIMER", hex 0x00001000);
    ("PCI_ERR_COR_ADV_NFAT", hex 0x00002000); ("PCI_ERR_COR_INTERNAL", hex 0x00004000);
    ("PCI_ERR_COR_LOG_OVER", hex 0x00008000); ("PCI_ERR_COR_MASK", dec 20);
    ("PCI_ERR_CAP", dec 24); ("PCI_ERR_CAP_ECRC_GENC", hex 0x00000020);
    ("PCI_ERR_CAP_ECRC_GENE", hex 0x00000040); ("PCI_ERR_CAP_ECRC_CHKC", hex 0x00000080);
    ("PCI_ERR_CAP_ECRC_CHKE", hex 0x00000100); ("PCI_ERR_HEADER_LOG", dec 28);
    ("PCI_ERR_ROOT_COMMAND", dec 44); ("PCI_ERR_ROOT_CMD_COR_EN", hex 0x00000001);
    ("PCI_ERR_ROOT_CMD_NONFATAL_EN", hex 0x00000002);
    ("PCI_ERR_ROOT_CMD_FATAL_EN", hex 0x00000004); ("PCI_ERR_ROOT_STATUS", dec 48);
    ("PCI_ERR_ROOT_COR_RCV", hex 0x00000001); ("PCI_ERR_ROOT_MULTI_COR_RCV", hex 0x00000002);
    ("PCI_ERR_ROOT_UNCOR_RCV", hex 0x00000004); ("PCI_ERR_ROOT_MULTI_UNCOR_RCV", hex 0x00000008);
    ("PCI_ERR_ROOT_FIRST_FATAL", hex 0x00000010); ("PCI_ERR_ROOT_NONFATAL_RCV", hex 0x00000020);
    ("PCI_ERR_ROOT_FATAL_RCV", hex 0x00000040); ("PCI_ERR_ROOT_ERR_SRC", dec 52);
    ("PCI_VC_PORT_CAP1", dec 4); ("PCI_VC_CAP1_EVCC", hex 0x00000007);
    ("PCI_VC_CAP1_LPEVCC", hex 0x00000070); ("PCI_VC_CAP1_ARB_SIZE", hex 0x00000c00);
    ("PCI_VC_PORT_CAP2", dec 8); ("PCI_VC_CAP2_32_PHASE", hex 0x00000002);
    ("PCI_VC_CAP2_64_PHASE", hex 0x00000004); ("PCI_VC_CAP2_128_PHASE", hex 0x00000008);
    ("PCI_VC_CAP2_ARB_OFF", hex 0xff000000); ("PCI_VC_PORT_CTRL", dec 12);
    ("PCI_VC_PORT_CTRL_LOAD_TABLE", hex 0x00000001); ("PCI_VC_PORT_STATUS", dec 14);
    ("PCI_VC_PORT_STATUS_TABLE", hex 0x00000001); ("PCI_VC_RES_CAP", dec 16);
    ("PCI_VC_RES_CAP_32_PHASE", hex 0x00000002); ("PCI_VC_RES_CAP_64_PHASE", hex 0x00000004);
    ("PCI_VC_RES_CAP_128_PHASE", hex 0x00000008);
    ("PCI_VC_RES_CAP_128_PHASE_TB", hex 0x00000010);
    ("PCI_VC_RES_CAP_256_PHASE", hex 0x00000020); ("PCI_VC_RES_CAP_ARB_OFF", hex 0xff000000);
    ("PCI_VC_RES_CTRL", dec 20); ("PCI_VC_RES_CTRL_LOAD_TABLE", hex 0x00010000);
    ("PCI_VC_RES_CTRL_ARB_SELECT", hex 0x000e0000); ("PCI_VC_RES_CTRL_ID", hex 0x07000000);
    ("PCI_VC_RES_CTRL_ENABLE", hex 0x80000000); ("PCI_VC_RES_STATUS", dec 26);
    ("PCI_VC_RES_STATUS_TABLE", hex 0x00000001); ("PCI_VC_RES_STATUS_NEGO", hex 0x00000002);
    ("PCI_CAP_VC_BASE_SIZEOF", hex 0x10); ("PCI_CAP_VC_PER_VC_SIZEOF", hex 0x0C);
    ("PCI_PWR_DSR", dec 4); ("PCI_PWR_DATA", dec 8)]].
Definition defs_HT_3BIT_CAP_MASK : list decl := [
  Defines [
    ("HT_3BIT_CAP_MASK", hex 0xE0); ("HT_CAPTYPE_SLAVE", hex 0x00);
    ("HT_CAPTYPE_HOST", hex 0x20); ("HT_5BIT_CAP_MASK", hex 0xF8); ("HT_CAPTYPE_IRQ", hex 0x80);
    ("HT_CAPTYPE_REMAPPING_40", hex 0xA0); ("HT_CAPTYPE_REMAPPING_64", hex 0xA2);
    ("HT_CAPTYPE_UNITID_CLUMP", hex 0x90); ("HT_CAPTYPE_EXTCONF", hex 0x98);
    ("HT_CAPTYPE_MSI_MAPPING", hex 0xA8); ("HT_MSI_FLAGS", hex 0x02);
    ("HT_MSI_FLAGS_ENABLE", hex 0x1); ("HT_MSI_FLAGS_FIXED", hex 0x2);
    ("HT_MSI_FIXED_ADDR", hexULL 0x00000000FEE00000); ("HT_MSI_ADDR_LO", hex 0x04);
    ("HT_MSI_ADDR_LO_MASK", hex 0xFFF00000); ("HT_MSI_ADDR_HI", hex 0x08);
    ("HT_CAPTYPE_DIRECT_ROUTE", hex 0xB0); ("HT_CAPTYPE_VCSET", hex 0xB8);
    ("HT_CAPTYPE_ERROR_RETRY", hex 0xC0); ("HT_CAPTYPE_GEN3", hex 0xD0);
    ("HT_CAPTYPE_PM", hex 0xE0); ("HT_CAP_SIZEOF_LONG", dec 28); ("HT_CAP_SIZEOF_SHORT", dec 24);
    ("PCI_ARI_CAP", hex 0x04); ("PCI_ARI_CAP_MFVC", hex 0x0001); ("PCI_ARI_CAP_ACS", hex 0x0002);
    ("PCI_ARI_CTRL", hex 0x06); ("PCI_ARI_CTRL_MFVC", hex 0x0001);
    ("PCI_ARI_CTRL_ACS", hex 0x0002); ("PCI_EXT_CAP_ARI_SIZEOF", dec 8);
    ("PCI_ATS_CAP", hex 0x04); ("PCI_ATS_MAX_QDEP", dec 32); ("PCI_ATS_CTRL", hex 0x06);
    ("PCI_ATS_CTRL_ENABLE", hex 0x8000); ("PCI_ATS_MIN_STU", dec 12);
    ("PCI_EXT_CAP_ATS_SIZEOF", dec 8); ("PCI_PRI_CTRL", hex 0x04);
    ("PCI_PRI_CTRL_ENABLE", hex 0x01); ("PCI_PRI_CTRL_RESET", hex 0x02);
    ("PCI_PRI_STATUS", hex 0x06); ("PCI_PRI_STATUS_RF", hex 0x001);
    ("PCI_PRI_STATUS_UPRGI", hex 0x002); ("PCI_PRI_STATUS_STOPPED", hex 0x100);
    ("PCI_PRI_MAX_REQ", hex 0x08); ("PCI_PRI_ALLOC_REQ", hex 0x0c);
    ("PCI_EXT_CAP_PRI_SIZEOF", dec 16); ("PCI_PASID_CAP", hex 0x04);
    ("PCI_PASID_CAP_EXEC", hex 0x02); ("PCI_PASID_CAP_PRIV", hex 0x04);
    ("PCI_PASID_CTRL", hex 0x06); ("PCI_PASID_CTRL_ENABLE", hex 0x01);
    ("PCI_PASID_CTRL_EXEC", hex 0x02); ("PCI_PASID_CTRL_PRIV", hex 0x04);
    ("PCI_EXT_CAP_PASID_SIZEOF", dec 8); ("PCI_SRIOV_CAP", hex 0x04);
    ("PCI_SRIOV_CAP_VFM", hex 0x01); ("PCI_SRIOV_CTRL", hex 0x08);
    ("PCI_SRIOV_CTRL_VFE", hex 0x01); ("PCI_SRIOV_CTRL_VFM", hex 0x02);
    ("PCI_SRIOV_CTRL_INTR", hex 0x04); ("PCI_SRIOV_CTRL_MSE", hex 0x08);
    ("PCI_SRIOV_CTRL_ARI", hex 0x10); ("PCI_SRIOV_STATUS", hex 0x0a);
    ("PCI_SRIOV_STATUS_VFM", hex 0x01); ("PCI_SRIOV_INITIAL_VF", hex 0x0c);
    ("PCI_SRIOV_TOTAL_VF", hex 0x0e); ("PCI_SRIOV_NUM_VF", hex 0x10);
    ("PCI_SRIOV_FUNC_LINK", hex 0x12); ("PCI_SRIOV_VF_OFFSET", hex 0x14);
    ("PCI_SRIOV_VF_STRIDE", hex 0x16); ("PCI_SRIOV_VF_DID", hex 0x1a);
    ("PCI_SRIOV_SUP_PGSIZE", hex 0x1c); ("PCI_SRIOV_SYS_PGSIZE", hex 0x20);
    ("PCI_SRIOV_BAR", hex 0x24); ("PCI_SRIOV_NUM_BARS", dec 6); ("PCI_SRIOV_VFM", hex 0x3c);
    ("PCI_SRIOV_VFM_UA", hex 0x0); ("PCI_SRIOV_VFM_MI", hex 0x1); ("PCI_SRIOV_VFM_MO", hex 0x2);
    ("PCI_SRIOV_VFM_AV", hex 0x3); ("PCI_EXT_CAP_SRIOV_SIZEOF", dec 64);
    ("PCI_LTR_MAX_SNOOP_LAT", hex 0x4); ("PCI_LTR_MAX_NOSNOOP_LAT", hex 0x6);
    ("PCI_LTR_VALUE_MASK", hex 0x000003ff); ("PCI_LTR_SCALE_MASK", hex 0x00001c00);
    ("PCI_LTR_SCALE_SHIFT", dec 10); ("PCI_EXT_CAP_LTR_SIZEOF", dec 8);
    ("PCI_ACS_CAP", hex 0x04); ("PCI_ACS_SV", hex 0x01); ("PCI_ACS_TB", hex 0x02);
    ("PCI_ACS_RR", hex 0x04); ("PCI_ACS_CR", hex 0x08); ("PCI_ACS_UF", hex 0x10);
    ("PCI_ACS_EC", hex 0x20); ("PCI_ACS_DT", hex 0x40); ("PCI_ACS_EGRESS_BITS", hex 0x05);
    ("PCI_ACS_CTRL", hex 0x06); ("PCI_ACS_EGRESS_CTL_V", hex 0x08); ("PCI_VSEC_HDR", dec 4);
    ("PCI_VSEC_HDR_LEN_SHIFT", dec 20); ("PCI_SATA_REGS", dec 4);
    ("PCI_SATA_REGS_MASK", hex 0xF); ("PCI_SATA_REGS_INLINE", hex 0xF);
    ("PCI_SATA_SIZEOF_SHORT", dec 8); ("PCI_SATA_SIZEOF_LONG", dec 16);
    ("PCI_REBAR_CTRL", dec 8); ("PCI_REBAR_CTRL_NBAR_MASK", Shl (dec 7) (dec 5));
    ("PCI_REBAR_CTRL_NBAR_SHIFT", dec 5); ("PCI_DPA_CAP", dec 4);
    ("PCI_DPA_CAP_SUBSTATE_MASK", hex 0x1F); ("PCI_DPA_BASE_SIZEOF", dec 16);
    ("PCI_TPH_CAP", dec 4); ("PCI_TPH_CAP_LOC_MASK", hex 0x600); ("PCI_TPH_LOC_NONE", hex 0x000);
    ("PCI_TPH_LOC_CAP", hex 0x200); ("PCI_TPH_LOC_MSIX", hex 0x400);
    ("PCI_TPH_CAP_ST_MASK", hex 0x07FF0000); ("PCI_TPH_CAP_ST_SHIFT", dec 16);
    ("PCI_TPH_BASE_SIZEOF", dec 12)]].
Definition header : header :=
  Header "linux/pci_regs.h" [] (concat [
    defs_PCI_STD_HEADER_SIZEOF; defs_PCI_BASE_ADDRESS_0; defs_PCI_CAP_LIST_ID;
    defs_PCI_AF_CAP_TP; defs_PCI_EXP_DEVCTL_READRQ_1024B; defs_PCI_EXT_CAP_ID_ERR;
    defs_HT_3BIT_CAP_MASK]).
End Pci_regs.

(** ** [linux/perf_event.h] *)

Module Perf_event.
Definition enum_perf_type_id : list decl := [
  Enum [
    ("PERF_TYPE_HARDWARE", Some (dec 0)); ("PERF_TYPE_SOFTWARE", Some (dec 1));
    ("PERF_TYPE_TRACEPOINT", Some (dec 2)); ("PERF_TYPE_HW_CACHE", Some (dec 3));
    ("PERF_TYPE_RAW", Some (dec 4)); ("PERF_TYPE_BREAKPOINT", Some (dec 5));
    ("PERF_TYPE_MAX", None)];
  Enum [
    ("PERF_COUNT_HW_CPU_CYCLES", Some (dec 0)); ("PERF_COUNT_HW_INSTRUCTIONS", Some (dec 1));
    ("PERF_COUNT_HW_CACHE_REFERENCES", Some (dec 2));
    ("PERF_COUNT_HW_CACHE_MISSES", Some (dec 3));
    ("PERF_COUNT_HW_BRANCH_INSTRUCTIONS", Some (dec 4));
    ("PERF_COUNT_HW_BRANCH_MISSES", Some (dec 5)); ("PERF_COUNT_HW_BUS_CYCLES", Some (dec 6));
    ("PERF_COUNT_HW_STALLED_CYCLES_FRONTEND", Some (dec 7));
    ("PERF_COUNT_HW_STALLED_CYCLES_BACKEND", Some (dec 8));
    ("PERF_COUNT_HW_REF_CPU_CYCLES", Some (dec 9)); ("PERF_COUNT_HW_MAX", None)];
  Enum [
    ("PERF_COUNT_HW_CACHE_L1D", Some (dec 0)); ("PERF_COUNT_HW_CACHE_L1I", Some (dec 1));
    ("PERF_COUNT_HW_CACHE_LL", Some (dec 2)); ("PERF_COUNT_HW_CACHE_DTLB", Some (dec 3));
    ("PERF_COUNT_HW_CACHE_ITLB", Some (dec 4)); ("PERF_COUNT_HW_CACHE_BPU", Some (dec 5));
    ("PERF_COUNT_HW_CACHE_NODE", Some (dec 6)); ("PERF_COUNT_HW_CACHE_MAX", None)];
  Enum [
    ("PERF_COUNT_HW_CACHE_OP_READ", Some (dec 0));
    ("PERF_COUNT_HW_CACHE_OP_WRITE", Some (dec 1));
    ("PERF_COUNT_HW_CACHE_OP_PREFETCH", Some (dec 2)); ("PERF_COUNT_HW_CACHE_OP_MAX", None)];
  Enum [
    ("PERF_COUNT_HW_CACHE_RESULT_ACCESS", Some (dec 0));
    ("PERF_COUNT_HW_CACHE_RESULT_MISS", Some (dec 1)); ("PERF_COUNT_HW_CACHE_RESULT_MAX", None)];
  Enum [
    ("PERF_COUNT_SW_CPU_CLOCK", Some (dec 0)); ("PERF_COUNT_SW_TASK_CLOCK", Some (dec 1));
    ("PERF_COUNT_SW_PAGE_FAULTS", Some (dec 2));
    ("PERF_COUNT_SW_CONTEXT_SWITCHES", Some (dec 3));
    ("PERF_COUNT_SW_CPU_MIGRATIONS", Some (dec 4));
    ("PERF_COUNT_SW_PAGE_FAULTS_MIN", Some (dec 5));
    ("PERF_COUNT_SW_PAGE_FAULTS_MAJ", Some (dec 6));
    ("PERF_COUNT_SW_ALIGNMENT_FAULTS", Some (dec 7));
    ("PERF_COUNT_SW_EMULATION_FAULTS", Some (dec 8)); ("PERF_COUNT_SW_DUMMY", Some (dec 9));
    ("PERF_COUNT_SW_BPF_OUTPUT", Some (dec 10)); ("PERF_COUNT_SW_MAX", None)];
  Enum [
    ("PERF_SAMPLE_IP", Some (Shl (decU 1) (dec 0)));
    ("PERF_SAMPLE_TID", Some (Shl (decU 1) (dec 1)));
    ("PERF_SAMPLE_TIME", Some (Shl (decU 1) (dec 2)));
    ("PERF_SAMPLE_ADDR", Some (Shl (decU 1) (dec 3)));
    ("PERF_SAMPLE_READ", Some (Shl (decU 1) (dec 4)));
    ("PERF_SAMPLE_CALLCHAIN", Some (Shl (decU 1) (dec 5)));
    ("PERF_SAMPLE_ID", Some (Shl (decU 1) (dec 6)));
    ("PERF_SAMPLE_CPU", Some (Shl (decU 1) (dec 7)));
    ("PERF_SAMPLE_PERIOD", Some (Shl (decU 1) (dec 8)));
    ("PERF_SAMPLE_STREAM_ID", Some (Shl (decU 1) (dec 9)));
    ("PERF_SAMPLE_RAW", Some (Shl (decU 1) (dec 10)));
    ("PERF_SAMPLE_BRANCH_STACK", Some (Shl (decU 1) (dec 11)));
    ("PERF_SAMPLE_REGS_USER", Some (Shl (decU 1) (dec 12)));
    ("PERF_SAMPLE_STACK_USER", Some (Shl (decU 1) (dec 13)));
    ("PERF_SAMPLE_WEIGHT", Some (Shl (decU 1) (dec 14)));
    ("PERF_SAMPLE_DATA_SRC", Some (Shl (decU 1) (dec 15)));
    ("PERF_SAMPLE_IDENTIFIER", Some (Shl (decU 1) (dec 16)));
    ("PERF_SAMPLE_TRANSACTION", Some (Shl (decU 1) (dec 17)));
    ("PERF_SAMPLE_REGS_INTR", Some (Shl (decU 1) (dec 18)));
    ("PERF_SAMPLE_MAX", Some (Shl (decU 1) (dec 19)))];
  Enum [
    ("PERF_SAMPLE_BRANCH_USER_SHIFT", Some (dec 0));
    ("PERF_SAMPLE_BRANCH_KERNEL_SHIFT", Some (dec 1));
    ("PERF_SAMPLE_BRANCH_HV_SHIFT", Some (dec 2));
    ("PERF_SAMPLE_BRANCH_ANY_SHIFT", Some (dec 3));
    ("PERF_SAMPLE_BRANCH_ANY_CALL_SHIFT", Some (dec 4));
    ("PERF_SAMPLE_BRANCH_ANY_RETURN_SHIFT", Some (dec 5));
    ("PERF_SAMPLE_BRANCH_IND_CALL_SHIFT", Some (dec 6));
    ("PERF_SAMPLE_BRANCH_ABORT_TX_SHIFT", Some (dec 7));
    ("PERF_SAMPLE_BRANCH_IN_TX_SHIFT", Some (dec 8));
    ("PERF_SAMPLE_BRANCH_NO_TX_SHIFT", Some (dec 9));
    ("PERF_SAMPLE_BRANCH_COND_SHIFT", Some (dec 10));
    ("PERF_SAMPLE_BRANCH_CALL_STACK_SHIFT", Some (dec 11));
    ("PERF_SAMPLE_BRANCH_IND_JUMP_SHIFT", Some (dec 12));
    ("PERF_SAMPLE_BRANCH_CALL_SHIFT", Some (dec 13)); ("PERF_SAMPLE_BRANCH_MAX_SHIFT", None)]].
Definition enum_perf_branch_sample_type : list decl := [
  Enum [
    ("PERF_SAMPLE_BRANCH_USER", Some (Shl (decU 1) (Id "PERF_SAMPLE_BRANCH_USER_SHIFT")));
    ("PERF_SAMPLE_BRANCH_KERNEL", Some (Shl (decU 1) (Id "PERF_SAMPLE_BRANCH_KERNEL_SHIFT")));
    ("PERF_SAMPLE_BRANCH_HV", Some (Shl (decU 1) (Id "PERF_SAMPLE_BRANCH_HV_SHIFT")));
    ("PERF_SAMPLE_BRANCH_ANY", Some (Shl (decU 1) (Id "PERF_SAMPLE_BRANCH_ANY_SHIFT")));
    ("PERF_SAMPLE_BRANCH_ANY_CALL", Some (Shl (decU 1) (Id "PERF_SAMPLE_BRANCH_ANY_CALL_SHIFT")));
    ("PERF_SAMPLE_BRANCH_ANY_RETURN", Some (Shl (decU 1) (Id "PERF_SAMPLE_BRANCH_ANY_RETURN_SHIFT")));
    ("PERF_SAMPLE_BRANCH_IND_CALL", Some (Shl (decU 1) (Id "PERF_SAMPLE_BRANCH_IND_CALL_SHIFT")));
    ("PERF_SAMPLE_BRANCH_ABORT_TX", Some (Shl (decU 1) (Id "PERF_SAMPLE_BRANCH_ABORT_TX_SHIFT")));
    ("PERF_SAMPLE_BRANCH_IN_TX", Some (Shl (decU 1) (Id "PERF_SAMPLE_BRANCH_IN_TX_SHIFT")));
    ("PERF_SAMPLE_BRANCH_NO_TX", Some (Shl (decU 1) (Id "PERF_SAMPLE_BRANCH_NO_TX_SHIFT")));
    ("PERF_SAMPLE_BRANCH_COND", Some (Shl (decU 1) (Id "PERF_SAMPLE_BRANCH_COND_SHIFT")));
    ("PERF_SAMPLE_BRANCH_CALL_STACK", Some (Shl (decU 1) (Id "PERF_SAMPLE_BRANCH_CALL_STACK_SHIFT")));
    ("PERF_SAMPLE_BRANCH_IND_JUMP", Some (Shl (decU 1) (Id "PERF_SAMPLE_BRANCH_IND_JUMP_SHIFT")));
    ("PERF_SAMPLE_BRANCH_CALL", Some (Shl (decU 1) (Id "PERF_SAMPLE_BRANCH_CALL_SHIFT")));
    ("PERF_SAMPLE_BRANCH_MAX", Some (Shl (decU 1) (Id "PERF_SAMPLE_BRANCH_MAX_SHIFT")))];
  Defines [
    ("PERF_SAMPLE_BRANCH_PLM_ALL", Or (Or (Id "PERF_SAMPLE_BRANCH_USER") (Id "PERF_SAMPLE_BRANCH_KERNEL")) (Id "PERF_SAMPLE_BRANCH_HV"))];
  Enum [
    ("PERF_SAMPLE_REGS_ABI_NONE", Some (dec 0)); ("PERF_SAMPLE_REGS_ABI_32", Some (dec 1));
    ("PERF_SAMPLE_REGS_ABI_64", Some (dec 2))];
  Enum [
    ("PERF_TXN_ELISION", Some (Shl (dec 1) (dec 0)));
    ("PERF_TXN_TRANSACTION", Some (Shl (dec 1) (dec 1)));
    ("PERF_TXN_SYNC", Some (Shl (dec 1) (dec 2)));
    ("PERF_TXN_ASYNC", Some (Shl (dec 1) (dec 3)));
    ("PERF_TXN_RETRY", Some (Shl (dec 1) (dec 4)));
    ("PERF_TXN_CONFLICT", Some (Shl (dec 1) (dec 5)));
    ("PERF_TXN_CAPACITY_WRITE", Some (Shl (dec 1) (dec 6)));
    ("PERF_TXN_CAPACITY_READ", Some (Shl (dec 1) (dec 7)));
    ("PERF_TXN_MAX", Some (Shl (dec 1) (dec 8)));
    ("PERF_TXN_ABORT_MASK", Some (Shl (hexULL 0xffffffff) (dec 32)));
    ("PERF_TXN_ABORT_SHIFT", Some (dec 32))];
  Enum [
    ("PERF_FORMAT_TOTAL_TIME_ENABLED", Some (Shl (decU 1) (dec 0)));
    ("PERF_FORMAT_TOTAL_TIME_RUNNING", Some (Shl (decU 1) (dec 1)));
    ("PERF_FORMAT_ID", Some (Shl (decU 1) (dec 2)));
    ("PERF_FORMAT_GROUP", Some (Shl (decU 1) (dec 3)));
    ("PERF_FORMAT_MAX", Some (Shl (decU 1) (dec 4)))];
  Defines [
    ("PERF_ATTR_SIZE_VER0", dec 64); ("PERF_ATTR_SIZE_VER1", dec 72);
    ("PERF_ATTR_SIZE_VER2", dec 80); ("PERF_ATTR_SIZE_VER3", dec 96);
    ("PERF_ATTR_SIZE_VER4", dec 104); ("PERF_ATTR_SIZE_VER5", dec 112)]].
Definition defs_PERF_RECORD_MISC_CPUMODE_MASK : list decl := [
  Defines [
    ("PERF_RECORD_MISC_CPUMODE_MASK", Shl (dec 7) (dec 0));
    ("PERF_RECORD_MISC_CPUMODE_UNKNOWN", Shl (dec 0) (dec 0));
    ("PERF_RECORD_MISC_KERNEL", Shl (dec 1) (dec 0));
    ("PERF_RECORD_MISC_USER", Shl (dec 2) (dec 0));
    ("PERF_RECORD_MISC_HYPERVISOR", Shl (dec 3) (dec 0));
    ("PERF_RECORD_MISC_GUEST_KERNEL", Shl (dec 4) (dec 0));
    ("PERF_RECORD_MISC_GUEST_USER", Shl (dec 5) (dec 0))]].
Definition enum_perf_event_type_1 : enumeration := [
    ("PERF_RECORD_MMAP", Some (dec 1)); ("PERF_RECORD_LOST", Some (dec 2));
    ("PERF_RECORD_COMM", Some (dec 3)); ("PERF_RECORD_EXIT", Some (dec 4));
    ("PERF_RECORD_THROTTLE", Some (dec 5)); ("PERF_RECORD_UNTHROTTLE", Some (dec 6));
    ("PERF_RECORD_FORK", Some (dec 7)); ("PERF_RECORD_READ", Some (dec 8))].
Definition enum_perf_event_type_2 : enumeration := [
    ("PERF_RECORD_SAMPLE", Some (dec 9)); ("PERF_RECORD_MMAP2", Some (dec 10));
    ("PERF_RECORD_AUX", Some (dec 11)); ("PERF_RECORD_ITRACE_START", Some (dec 12));
    ("PERF_RECORD_LOST_SAMPLES", Some (dec 13)); ("PERF_RECORD_SWITCH", Some (dec 14));
    ("PERF_RECORD_SWITCH_CPU_WIDE", Some (dec 15)); ("PERF_RECORD_MAX", None)].
Definition enum_perf_event_type : list decl := [Enum (enum_perf_event_type_1 ++ enum_perf_event_type_2)%list].
Definition defs_PERF_MAX_STACK_DEPTH : list decl := [
  Defines [
    ("PERF_MAX_STACK_DEPTH", dec 127)]].
Definition defs_PERF_AUX_FLAG_TRUNCATED : list decl := [
  Defines [
    ("PERF_AUX_FLAG_TRUNCATED", hex 0x01); ("PERF_AUX_FLAG_OVERWRITE", hex 0x02);
    ("PERF_FLAG_FD_NO_GROUP", Shl (decUL 1) (dec 0));
    ("PERF_FLAG_FD_OUTPUT", Shl (decUL 1) (dec 1));
    ("PERF_FLAG_PID_CGROUP", Shl (decUL 1) (dec 2));
    ("PERF_FLAG_FD_CLOEXEC", Shl (decUL 1) (dec 3))]].
Definition defs_PERF_MEM_OP_NA : list decl := [
  Defines [
    ("PERF_MEM_OP_NA", hex 0x01); ("PERF_MEM_OP_LOAD", hex 0x02);
    ("PERF_MEM_OP_STORE", hex 0x04); ("PERF_MEM_OP_PFETCH", hex 0x08);
    ("PERF_MEM_OP_EXEC", hex 0x10); ("PERF_MEM_OP_SHIFT", dec 0); ("PERF_MEM_LVL_NA", hex 0x01);
    ("PERF_MEM_LVL_HIT", hex 0x02); ("PERF_MEM_LVL_MISS", hex 0x04);
    ("PERF_MEM_LVL_L1", hex 0x08); ("PERF_MEM_LVL_LFB", hex 0x10); ("PERF_MEM_LVL_L2", hex 0x20);
    ("PERF_MEM_LVL_L3", hex 0x40); ("PERF_MEM_LVL_LOC_RAM", hex 0x80);
    ("PERF_MEM_LVL_REM_RAM1", hex 0x100); ("PERF_MEM_LVL_REM_RAM2", hex 0x200);
    ("PERF_MEM_LVL_REM_CCE1", hex 0x400); ("PERF_MEM_LVL_REM_CCE2", hex 0x800);
    ("PERF_MEM_LVL_IO", hex 0x1000); ("PERF_MEM_LVL_UNC", hex 0x2000);
    ("PERF_MEM_LVL_SHIFT", dec 5); ("PERF_MEM_SNOOP_NA", hex 0x01);
    ("PERF_MEM_SNOOP_NONE", hex 0x02); ("PERF_MEM_SNOOP_HIT", hex 0x04);
    ("PERF_MEM_SNOOP_MISS", hex 0x08); ("PERF_MEM_SNOOP_HITM", hex 0x10);
    ("PERF_MEM_SNOOP_SHIFT", dec 19); ("PERF_MEM_LOCK_NA", hex 0x01);
    ("PERF_MEM_LOCK_LOCKED", hex 0x02); ("PERF_MEM_LOCK_SHIFT", dec 24);
    ("PERF_MEM_TLB_NA", hex 0x01); ("PERF_MEM_TLB_HIT", hex 0x02);
    ("PERF_MEM_TLB_MISS", hex 0x04); ("PERF_MEM_TLB_L1", hex 0x08);
    ("PERF_MEM_TLB_L2", hex 0x10); ("PERF_MEM_TLB_WK", hex 0x20); ("PERF_MEM_TLB_OS", hex 0x40);
    ("PERF_MEM_TLB_SHIFT", dec 26)]].
Definition header : header :=
  Header "linux/perf_event.h" [] (concat [
    enum_perf_type_id; enum_perf_branch_sample_type; defs_PERF_RECORD_MISC_CPUMODE_MASK;
    enum_perf_event_type; defs_PERF_MAX_STACK_DEPTH; defs_PERF_AUX_FLAG_TRUNCATED;
    defs_PERF_MEM_OP_NA]).
End Perf_event.

(** ** [linux/personality.h] *)

Module Personality.
Definition enum_UNAME26 : list decl := [
  Enum [
    ("UNAME26", Some (hex 0x0020000)); ("ADDR_NO_RANDOMIZE", Some (hex 0x0040000));
    ("FDPIC_FUNCPTRS", Some (hex 0x0080000)); ("MMAP_PAGE_ZERO", Some (hex 0x0100000));
    ("ADDR_COMPAT_LAYOUT", Some (hex 0x0200000)); ("READ_IMPLIES_EXEC", Some (hex 0x0400000));
    ("ADDR_LIMIT_32BIT", Some (hex 0x0800000)); ("SHORT_INODE", Some (hex 0x1000000));
    ("WHOLE_SECONDS", Some (hex 0x2000000)); ("STICKY_TIMEOUTS", Some (hex 0x4000000));
    ("ADDR_LIMIT_3GB", Some (hex 0x8000000))]].
Definition enum_PER_LINUX : list decl := [
  Enum [
    ("PER_LINUX", Some (hex 0x0000));
    ("PER_LINUX_32BIT", Some (Or (hex 0x0000) (Id "ADDR_LIMIT_32BIT")));
    ("PER_LINUX_FDPIC", Some (Or (hex 0x0000) (Id "FDPIC_FUNCPTRS")));
    ("PER_SVR4", Some (Or (Or (hex 0x0001) (Id "STICKY_TIMEOUTS")) (Id "MMAP_PAGE_ZERO")));
    ("PER_SVR3", Some (Or (Or (hex 0x0002) (Id "STICKY_TIMEOUTS")) (Id "SHORT_INODE")));
    ("PER_SCOSVR3", Some (Or (Or (Or (hex 0x0003) (Id "STICKY_TIMEOUTS")) (Id "WHOLE_SECONDS")) (Id "SHORT_INODE")));
    ("PER_OSR5", Some (Or (Or (hex 0x0003) (Id "STICKY_TIMEOUTS")) (Id "WHOLE_SECONDS")));
    ("PER_WYSEV386", Some (Or (Or (hex 0x0004) (Id "STICKY_TIMEOUTS")) (Id "SHORT_INODE")));
    ("PER_ISCR4", Some (Or (hex 0x0005) (Id "STICKY_TIMEOUTS"))); ("PER_BSD", Some (hex 0x0006));
    ("PER_SUNOS", Some (Or (hex 0x0006) (Id "STICKY_TIMEOUTS")));
    ("PER_XENIX", Some (Or (Or (hex 0x0007) (Id "STICKY_TIMEOUTS")) (Id "SHORT_INODE")));
    ("PER_LINUX32", Some (hex 0x0008));
    ("PER_LINUX32_3GB", Some (Or (hex 0x0008) (Id "ADDR_LIMIT_3GB")));
    ("PER_IRIX32", Some (Or (hex 0x0009) (Id "STICKY_TIMEOUTS")));
    ("PER_IRIXN32", Some (Or (hex 0x000a) (Id "STICKY_TIMEOUTS")));
    ("PER_IRIX64", Some (Or (hex 0x000b) (Id "STICKY_TIMEOUTS")));
    ("PER_RISCOS", Some (hex 0x000c));
    ("PER_SOLARIS", Some (Or (hex 0x000d) (Id "STICKY_TIMEOUTS")));
    ("PER_UW7", Some (Or (Or (hex 0x000e) (Id "STICKY_TIMEOUTS")) (Id "MMAP_PAGE_ZERO")));
    ("PER_OSF4", Some (hex 0x000f)); ("PER_HPUX", Some (hex 0x0010));
    ("PER_MASK", Some (hex 0x00ff))]].
Definition header : header :=
  Header "linux/personality.h" [] (concat [
    enum_UNAME26; enum_PER_LINUX]).
End Personality.

(** ** [linux/pmu.h] *)

Module Pmu.
Definition defs_PMU_POWER_CTRL0 : list decl := [
  Defines [
    ("PMU_POWER_CTRL0", hex 0x10); ("PMU_POWER_CTRL", hex 0x11); ("PMU_ADB_CMD", hex 0x20);
    ("PMU_ADB_POLL_OFF", hex 0x21); ("PMU_WRITE_NVRAM", hex 0x33); ("PMU_READ_NVRAM", hex 0x3b);
    ("PMU_SET_RTC", hex 0x30); ("PMU_READ_RTC", hex 0x38); ("PMU_SET_VOLBUTTON", hex 0x40);
    ("PMU_BACKLIGHT_BRIGHT", hex 0x41); ("PMU_GET_VOLBUTTON", hex 0x48);
    ("PMU_PCEJECT", hex 0x4c); ("PMU_BATTERY_STATE", hex 0x6b);
    ("PMU_SMART_BATTERY_STATE", hex 0x6f); ("PMU_SET_INTR_MASK", hex 0x70);
    ("PMU_INT_ACK", hex 0x78); ("PMU_SHUTDOWN", hex 0x7e); ("PMU_CPU_SPEED", hex 0x7d);
    ("PMU_SLEEP", hex 0x7f); ("PMU_POWER_EVENTS", hex 0x8f); ("PMU_I2C_CMD", hex 0x9a);
    ("PMU_RESET", hex 0xd0); ("PMU_GET_BRIGHTBUTTON", hex 0xd9); ("PMU_GET_COVER", hex 0xdc);
    ("PMU_SYSTEM_READY", hex 0xdf); ("PMU_GET_VERSION", hex 0xea); ("PMU_POW0_ON", hex 0x80);
    ("PMU_POW0_OFF", hex 0x00); ("PMU_POW0_HARD_DRIVE", hex 0x04); ("PMU_POW_ON", hex 0x80);
    ("PMU_POW_OFF", hex 0x00); ("PMU_POW_BACKLIGHT", hex 0x01); ("PMU_POW_CHARGER", hex 0x02);
    ("PMU_POW_IRLED", hex 0x04); ("PMU_POW_MEDIABAY", hex 0x08); ("PMU_INT_PCEJECT", hex 0x04);
    ("PMU_INT_SNDBRT", hex 0x08); ("PMU_INT_ADB", hex 0x10); ("PMU_INT_BATTERY", hex 0x20);
    ("PMU_INT_ENVIRONMENT", hex 0x40); ("PMU_INT_TICK", hex 0x80);
    ("PMU_INT_ADB_AUTO", hex 0x04); ("PMU_INT_WAITING_CHARGER", hex 0x01);
    ("PMU_INT_AUTO_SRQ_POLL", hex 0x02); ("PMU_ENV_LID_CLOSED", hex 0x01);
    ("PMU_I2C_MODE_SIMPLE", dec 0); ("PMU_I2C_MODE_STDSUB", dec 1);
    ("PMU_I2C_MODE_COMBINED", dec 2); ("PMU_I2C_BUS_STATUS", dec 0);
    ("PMU_I2C_BUS_SYSCLK", dec 1); ("PMU_I2C_BUS_POWER", dec 2); ("PMU_I2C_STATUS_OK", dec 0);
    ("PMU_I2C_STATUS_DATAREAD", dec 1); ("PMU_I2C_STATUS_BUSY", hex 0xfe)];
  Enum [
    ("PMU_UNKNOWN", None); ("PMU_OHARE_BASED", None); ("PMU_HEATHROW_BASED", None);
    ("PMU_PADDINGTON_BASED", None); ("PMU_KEYLARGO_BASED", None); ("PMU_68K_V1", None);
    ("PMU_68K_V2", None)];
  Enum [
    ("PMU_PWR_GET_POWERUP_EVENTS", Some (hex 0x00));
    ("PMU_PWR_SET_POWERUP_EVENTS", Some (hex 0x01));
    ("PMU_PWR_CLR_POWERUP_EVENTS", Some (hex 0x02));
    ("PMU_PWR_GET_WAKEUP_EVENTS", Some (hex 0x03));
    ("PMU_PWR_SET_WAKEUP_EVENTS", Some (hex 0x04));
    ("PMU_PWR_CLR_WAKEUP_EVENTS", Some (hex 0x05))];
  Enum [
    ("PMU_PWR_WAKEUP_KEY", Some (hex 0x01)); ("PMU_PWR_WAKEUP_AC_INSERT", Some (hex 0x02));
    ("PMU_PWR_WAKEUP_AC_CHANGE", Some (hex 0x04)); ("PMU_PWR_WAKEUP_LID_OPEN", Some (hex 0x08));
    ("PMU_PWR_WAKEUP_RING", Some (hex 0x10))]].
Definition header : header :=
  Header "linux/pmu.h" [] (concat [
    defs_PMU_POWER_CTRL0]).
End Pmu.

(** ** [linux/prctl.h] *)

Module Prctl.
Definition defs_PR_SET_PDEATHSIG : list decl := [
  Defines [
    ("PR_SET_PDEATHSIG", dec 1); ("PR_GET_PDEATHSIG", dec 2); ("PR_GET_DUMPABLE", dec 3);
    ("PR_SET_DUMPABLE", dec 4); ("PR_GET_UNALIGN", dec 5); ("PR_SET_UNALIGN", dec 6);
    ("PR_UNALIGN_NOPRINT", dec 1); ("PR_UNALIGN_SIGBUS", dec 2); ("PR_GET_KEEPCAPS", dec 7);
    ("PR_SET_KEEPCAPS", dec 8); ("PR_GET_FPEMU", dec 9); ("PR_SET_FPEMU", dec 10);
    ("PR_FPEMU_NOPRINT", dec 1); ("PR_FPEMU_SIGFPE", dec 2); ("PR_GET_FPEXC", dec 11);
    ("PR_SET_FPEXC", dec 12); ("PR_FP_EXC_SW_ENABLE", hex 0x80); ("PR_FP_EXC_DIV", hex 0x010000);
    ("PR_FP_EXC_OVF", hex 0x020000); ("PR_FP_EXC_UND", hex 0x040000);
    ("PR_FP_EXC_RES", hex 0x080000); ("PR_FP_EXC_INV", hex 0x100000);
    ("PR_FP_EXC_DISABLED", dec 0); ("PR_FP_EXC_NONRECOV", dec 1); ("PR_FP_EXC_ASYNC", dec 2);
    ("PR_FP_EXC_PRECISE", dec 3); ("PR_GET_TIMING", dec 13); ("PR_SET_TIMING", dec 14);
    ("PR_TIMING_STATISTICAL", dec 0); ("PR_TIMING_TIMESTAMP", dec 1); ("PR_SET_NAME", dec 15);
    ("PR_GET_NAME", dec 16); ("PR_GET_ENDIAN", dec 19); ("PR_SET_ENDIAN", dec 20);
    ("PR_ENDIAN_BIG", dec 0); ("PR_ENDIAN_LITTLE", dec 1); ("PR_ENDIAN_PPC_LITTLE", dec 2);
    ("PR_GET_SECCOMP", dec 21); ("PR_SET_SECCOMP", dec 22); ("PR_CAPBSET_READ", dec 23);
    ("PR_CAPBSET_DROP", dec 24); ("PR_GET_TSC", dec 25); ("PR_SET_TSC", dec 26);
    ("PR_TSC_ENABLE", dec 1); ("PR_TSC_SIGSEGV", dec 2); ("PR_GET_SECUREBITS", dec 27);
    ("PR_SET_SECUREBITS", dec 28)];
  Defines [
    ("PR_SET_TIMERSLACK", dec 29); ("PR_GET_TIMERSLACK", dec 30);
    ("PR_TASK_PERF_EVENTS_DISABLE", dec 31); ("PR_TASK_PERF_EVENTS_ENABLE", dec 32)];
  Defines [
    ("PR_MCE_KILL", dec 33); ("PR_MCE_KILL_CLEAR", dec 0); ("PR_MCE_KILL_SET", dec 1);
    ("PR_MCE_KILL_LATE", dec 0); ("PR_MCE_KILL_EARLY", dec 1); ("PR_MCE_KILL_DEFAULT", dec 2);
    ("PR_MCE_KILL_GET", dec 34)];
  Defines [
    ("PR_SET_MM", dec 35); ("PR_SET_MM_START_CODE", dec 1); ("PR_SET_MM_END_CODE", dec 2);
    ("PR_SET_MM_START_DATA", dec 3); ("PR_SET_MM_END_DATA", dec 4);
    ("PR_SET_MM_START_STACK", dec 5); ("PR_SET_MM_START_BRK", dec 6); ("PR_SET_MM_BRK", dec 7);
    ("PR_SET_MM_ARG_START", dec 8); ("PR_SET_MM_ARG_END", dec 9);
    ("PR_SET_MM_ENV_START", dec 10); ("PR_SET_MM_ENV_END", dec 11); ("PR_SET_MM_AUXV", dec 12);
    ("PR_SET_MM_EXE_FILE", dec 13); ("PR_SET_MM_MAP", dec 14); ("PR_SET_MM_MAP_SIZE", dec 15)]].
Definition defs_PR_SET_NO_NEW_PRIVS : list decl := [
  Defines [
    ("PR_SET_NO_NEW_PRIVS", dec 38); ("PR_GET_NO_NEW_PRIVS", dec 39);
    ("PR_GET_TID_ADDRESS", dec 40); ("PR_SET_THP_DISABLE", dec 41);
    ("PR_GET_THP_DISABLE", dec 42)];
  Defines [
    ("PR_MPX_ENABLE_MANAGEMENT", dec 43); ("PR_MPX_DISABLE_MANAGEMENT", dec 44);
    ("PR_SET_FP_MODE", dec 45); ("PR_GET_FP_MODE", dec 46);
    ("PR_FP_MODE_FR", Shl (dec 1) (dec 0)); ("PR_FP_MODE_FRE", Shl (dec 1) (dec 1));
    ("PR_CAP_AMBIENT", dec 47); ("PR_CAP_AMBIENT_IS_SET", dec 1);
    ("PR_CAP_AMBIENT_RAISE", dec 2); ("PR_CAP_AMBIENT_LOWER", dec 3);
    ("PR_CAP_AMBIENT_CLEAR_ALL", dec 4)];
  Defines [
    ("PR_SET_TIMERSLACK_PID", dec 127); ("PR_SET_VMA", hex 0x53564d41);
    ("PR_SET_VMA_ANON_NAME", dec 0); ("PR_GET_SPECULATION_CTRL", dec 52);
    ("PR_SET_SPECULATION_CTRL", dec 53); ("PR_SPEC_STORE_BYPASS", dec 0);
    ("PR_SPEC_INDIRECT_BRANCH", dec 1); ("PR_SPEC_NOT_AFFECTED", dec 0);
    ("PR_SPEC_PRCTL", Shl (decUL 1) (dec 0)); ("PR_SPEC_ENABLE", Shl (decUL 1) (dec 1));
    ("PR_SPEC_DISABLE", Shl (decUL 1) (dec 2)); ("PR_SPEC_FORCE_DISABLE", Shl (decUL 1) (dec 3))]].
Definition header : header :=
  Header "linux/prctl.h" [] (concat [
    defs_PR_SET_PDEATHSIG; defs_PR_SET_NO_NEW_PRIVS]).
End Prctl.

(** ** [linux/ptrace.h] *)

Module Ptrace.
Definition defs_PTRACE_TRACEME : list decl := [
  Defines [
    ("PTRACE_TRACEME", dec 0); ("PTRACE_PEEKTEXT", dec 1); ("PTRACE_PEEKDATA", dec 2);
    ("PTRACE_PEEKUSR", dec 3); ("PTRACE_POKETEXT", dec 4); ("PTRACE_POKEDATA", dec 5);
    ("PTRACE_POKEUSR", dec 6); ("PTRACE_CONT", dec 7); ("PTRACE_KILL", dec 8);
    ("PTRACE_SINGLESTEP", dec 9); ("PTRACE_ATTACH", dec 16); ("PTRACE_DETACH", dec 17);
    ("PTRACE_SYSCALL", dec 24); ("PTRACE_SETOPTIONS", hex 0x4200);
    ("PTRACE_GETEVENTMSG", hex 0x4201); ("PTRACE_GETSIGINFO", hex 0x4202);
    ("PTRACE_SETSIGINFO", hex 0x4203)];
  Defines [
    ("PTRACE_GETREGSET", hex 0x4204); ("PTRACE_SETREGSET", hex 0x4205);
    ("PTRACE_SEIZE", hex 0x4206); ("PTRACE_INTERRUPT", hex 0x4207);
    ("PTRACE_LISTEN", hex 0x4208); ("PTRACE_PEEKSIGINFO", hex 0x4209)]].
Definition defs_PTRACE_GETSIGMASK : list decl := [
  Defines [
    ("PTRACE_GETSIGMASK", hex 0x420a); ("PTRACE_SETSIGMASK", hex 0x420b);
    ("PTRACE_SECCOMP_GET_FILTER", hex 0x420c);
    ("PTRACE_PEEKSIGINFO_SHARED", Shl (dec 1) (dec 0)); ("PTRACE_EVENT_FORK", dec 1);
    ("PTRACE_EVENT_VFORK", dec 2); ("PTRACE_EVENT_CLONE", dec 3); ("PTRACE_EVENT_EXEC", dec 4);
    ("PTRACE_EVENT_VFORK_DONE", dec 5); ("PTRACE_EVENT_EXIT", dec 6);
    ("PTRACE_EVENT_SECCOMP", dec 7); ("PTRACE_EVENT_STOP", dec 128);
    ("PTRACE_O_TRACESYSGOOD", dec 1);
    ("PTRACE_O_TRACEFORK", Shl (dec 1) (Id "PTRACE_EVENT_FORK"));
    ("PTRACE_O_TRACEVFORK", Shl (dec 1) (Id "PTRACE_EVENT_VFORK"));
    ("PTRACE_O_TRACECLONE", Shl (dec 1) (Id "PTRACE_EVENT_CLONE"));
    ("PTRACE_O_TRACEEXEC", Shl (dec 1) (Id "PTRACE_EVENT_EXEC"));
    ("PTRACE_O_TRACEVFORKDONE", Shl (dec 1) (Id "PTRACE_EVENT_VFORK_DONE"));
    ("PTRACE_O_TRACEEXIT", Shl (dec 1) (Id "PTRACE_EVENT_EXIT"));
    ("PTRACE_O_TRACESECCOMP", Shl (dec 1) (Id "PTRACE_EVENT_SECCOMP"));
    ("PTRACE_O_EXITKILL", Shl (dec 1) (dec 20));
    ("PTRACE_O_SUSPEND_SECCOMP", Shl (dec 1) (dec 21));
    ("PTRACE_O_MASK", Or (Or (hex 0x000000ff) (Id "PTRACE_O_EXITKILL")) (Id "PTRACE_O_SUSPEND_SECCOMP"))]].
Definition header : header :=
  Header "linux/ptrace.h" [] (concat [
    defs_PTRACE_TRACEME; defs_PTRACE_GETSIGMASK]).
End Ptrace.

(** ** [linux/qcedev.h] *)

Module Qcedev.
Definition defs_QCEDEV_MAX_SHA_BLOCK_SIZE : list decl := [
  Defines [
    ("QCEDEV_MAX_SHA_BLOCK_SIZE", dec 64); ("QCEDEV_MAX_BEARER", dec 31);
    ("QCEDEV_MAX_KEY_SIZE", dec 64); ("QCEDEV_MAX_IV_SIZE", dec 32);
    ("QCEDEV_MAX_BUFFERS", dec 16); ("QCEDEV_MAX_SHA_DIGEST", dec 32);
    ("QCEDEV_USE_PMEM", dec 1); ("QCEDEV_NO_PMEM", dec 0); ("QCEDEV_AES_KEY_128", dec 16);
    ("QCEDEV_AES_KEY_192", dec 24); ("QCEDEV_AES_KEY_256", dec 32)];
  Enum [
    ("QCEDEV_OPER_DEC", Some (dec 0)); ("QCEDEV_OPER_ENC", Some (dec 1));
    ("QCEDEV_OPER_DEC_NO_KEY", Some (dec 2)); ("QCEDEV_OPER_ENC_NO_KEY", Some (dec 3));
    ("QCEDEV_OPER_LAST", None)];
  Enum [
    ("QCEDEV_ALG_DES", Some (dec 0)); ("QCEDEV_ALG_3DES", Some (dec 1));
    ("QCEDEV_ALG_AES", Some (dec 2)); ("QCEDEV_ALG_LAST", None)];
  Enum [
    ("QCEDEV_AES_MODE_CBC", Some (dec 0)); ("QCEDEV_AES_MODE_ECB", Some (dec 1));
    ("QCEDEV_AES_MODE_CTR", Some (dec 2)); ("QCEDEV_AES_MODE_XTS", Some (dec 3));
    ("QCEDEV_AES_MODE_CCM", Some (dec 4)); ("QCEDEV_DES_MODE_CBC", Some (dec 5));
    ("QCEDEV_DES_MODE_ECB", Some (dec 6)); ("QCEDEV_AES_DES_MODE_LAST", None)];
  Enum [
    ("QCEDEV_ALG_SHA1", Some (dec 0)); ("QCEDEV_ALG_SHA256", Some (dec 1));
    ("QCEDEV_ALG_SHA1_HMAC", Some (dec 2)); ("QCEDEV_ALG_SHA256_HMAC", Some (dec 3));
    ("QCEDEV_ALG_AES_CMAC", Some (dec 4)); ("QCEDEV_ALG_SHA_ALG_LAST", None)]].
Definition header : header :=
  Header "linux/qcedev.h" [] (concat [
    defs_QCEDEV_MAX_SHA_BLOCK_SIZE]).
End Qcedev.

(** ** [linux/qcota.h] *)

Module Qcota.
Definition enum_qce_ota_dir_enum : list decl := [
  Enum [
    ("QCE_OTA_DIR_UPLINK", Some (dec 0)); ("QCE_OTA_DIR_DOWNLINK", Some (dec 1));
    ("QCE_OTA_DIR_LAST", None)];
  Enum [
    ("QCE_OTA_ALGO_KASUMI", Some (dec 0)); ("QCE_OTA_ALGO_SNOW3G", Some (dec 1));
    ("QCE_OTA_ALGO_LAST", None)]].
Definition header : header :=
  Header "linux/qcota.h" [] (concat [
    enum_qce_ota_dir_enum]).
End Qcota.

(** ** [linux/qseecom.h] *)

Module Qseecom.
Definition defs_MAX_ION_FD : list decl := [
  Defines [
    ("MAX_ION_FD", dec 4); ("MAX_APP_NAME_SIZE", dec 64); ("QSEECOM_HASH_SIZE", dec 32);
    ("QSEECOM_TA_ION_ALLOCATE_DELAY", dec 50); ("QSEECOM_TA_ION_ALLOCATE_MAX_ATTEMP", dec 20)]].
Definition enum_qseecom_key_management_usage_type : list decl := [
  Enum [
    ("QSEOS_KM_USAGE_DISK_ENCRYPTION", Some (hex 0x01));
    ("QSEOS_KM_USAGE_FILE_ENCRYPTION", Some (hex 0x02));
    ("QSEOS_KM_USAGE_UFS_ICE_DISK_ENCRYPTION", Some (hex 0x03));
    ("QSEOS_KM_USAGE_SDCC_ICE_DISK_ENCRYPTION", Some (hex 0x04)); ("QSEOS_KM_USAGE_MAX", None)]].
Definition enum_qseecom_bandwidth_request_mode : list decl := [
  Enum [
    ("INACTIVE", Some (dec 0)); ("LOW", None); ("MEDIUM", None); ("HIGH", None)]].
Definition defs_MAX_CE_PIPE_PAIR_PER_UNIT : list decl := [
  Defines [
    ("MAX_CE_PIPE_PAIR_PER_UNIT", dec 3); ("INVALID_CE_INFO_UNIT_NUM", hex 0xffffffff);
    ("CE_PIPE_PAIR_USE_TYPE_FDE", dec 0); ("CE_PIPE_PAIR_USE_TYPE_PFE", dec 1)]].
Definition header : header :=
  Header "linux/qseecom.h" [] (concat [
    defs_MAX_ION_FD; enum_qseecom_key_management_usage_type; enum_qseecom_bandwidth_request_mode;
    defs_MAX_CE_PIPE_PAIR_PER_UNIT]).
End Qseecom.

(** ** [linux/reboot.h] *)

Module Reboot.
Definition defs_LINUX_REBOOT_MAGIC1 : list decl := [
  Defines [
    ("LINUX_REBOOT_MAGIC1", hex 0xfee1dead); ("LINUX_REBOOT_MAGIC2", dec 672274793);
    ("LINUX_REBOOT_MAGIC2A", dec 85072278); ("LINUX_REBOOT_MAGIC2B", dec 369367448);
    ("LINUX_REBOOT_MAGIC2C", dec 537993216)];
  Defines [
    ("LINUX_REBOOT_CMD_RESTART", hex 0x01234567); ("LINUX_REBOOT_CMD_HALT", hex 0xCDEF0123);
    ("LINUX_REBOOT_CMD_CAD_ON", hex 0x89ABCDEF); ("LINUX_REBOOT_CMD_CAD_OFF", hex 0x00000000);
    ("LINUX_REBOOT_CMD_POWER_OFF", hex 0x4321FEDC);
    ("LINUX_REBOOT_CMD_RESTART2", hex 0xA1B2C3D4);
    ("LINUX_REBOOT_CMD_SW_SUSPEND", hex 0xD000FCE2); ("LINUX_REBOOT_CMD_KEXEC", hex 0x45584543)]].
Definition header : header :=
  Header "linux/reboot.h" [] (concat [
    defs_LINUX_REBOOT_MAGIC1]).
End Reboot.

(** ** [linux/rmnet_ipa_fd_ioctl.h] *)

Module Rmnet_ipa_fd_ioctl.
Definition defs_WAN_IOC_MAGIC : list decl := [
  Defines [
    ("WAN_IOC_MAGIC", hex 0x69); ("WAN_IOCTL_ADD_FLT_RULE", dec 0);
    ("WAN_IOCTL_ADD_FLT_INDEX", dec 1); ("WAN_IOCTL_VOTE_FOR_BW_MBPS", dec 2);
    ("WAN_IOCTL_POLL_TETHERING_STATS", dec 3); ("WAN_IOCTL_SET_DATA_QUOTA", dec 4);
    ("WAN_IOCTL_SET_TETHER_CLIENT_PIPE", dec 5); ("WAN_IOCTL_QUERY_TETHER_STATS", dec 6);
    ("WAN_IOCTL_RESET_TETHER_STATS", dec 7); ("WAN_IOCTL_QUERY_DL_FILTER_STATS", dec 8);
    ("WAN_IOCTL_ADD_FLT_RULE_EX", dec 9); ("WAN_IOCTL_QUERY_TETHER_STATS_ALL", dec 10);
    ("WAN_IOCTL_ADD_UL_FLT_RULE", dec 11); ("WAN_IOCTL_ENABLE_PER_CLIENT_STATS", dec 12);
    ("WAN_IOCTL_QUERY_PER_CLIENT_STATS", dec 13); ("WAN_IOCTL_SET_LAN_CLIENT_INFO", dec 14);
    ("WAN_IOCTL_CLEAR_LAN_CLIENT_INFO", dec 15); ("WAN_IOCTL_SEND_LAN_CLIENT_MSG", dec 16)]].
Definition header : header :=
  Header "linux/rmnet_ipa_fd_ioctl.h" [] (concat [
    defs_WAN_IOC_MAGIC]).
End Rmnet_ipa_fd_ioctl.

(** ** [linux/sched.h] *)

Module Sched.
Definition defs_CSIGNAL : list decl := [
  Defines [
    ("CSIGNAL", hex 0x000000ff); ("CLONE_VM", hex 0x00000100); ("CLONE_FS", hex 0x00000200);
    ("CLONE_FILES", hex 0x00000400); ("CLONE_SIGHAND", hex 0x00000800);
    ("CLONE_PTRACE", hex 0x00002000); ("CLONE_VFORK", hex 0x00004000);
    ("CLONE_PARENT", hex 0x00008000); ("CLONE_THREAD", hex 0x00010000);
    ("CLONE_NEWNS", hex 0x00020000); ("CLONE_SYSVSEM", hex 0x00040000);
    ("CLONE_SETTLS", hex 0x00080000); ("CLONE_PARENT_SETTID", hex 0x00100000);
    ("CLONE_CHILD_CLEARTID", hex 0x00200000); ("CLONE_DETACHED", hex 0x00400000);
    ("CLONE_UNTRACED", hex 0x00800000); ("CLONE_CHILD_SETTID", hex 0x01000000);
    ("CLONE_NEWUTS", hex 0x04000000); ("CLONE_NEWIPC", hex 0x08000000);
    ("CLONE_NEWUSER", hex 0x10000000); ("CLONE_NEWPID", hex 0x20000000);
    ("CLONE_NEWNET", hex 0x40000000); ("CLONE_IO", hex 0x80000000)];
  Defines [
    ("SCHED_NORMAL", dec 0); ("SCHED_FIFO", dec 1); ("SCHED_RR", dec 2); ("SCHED_BATCH", dec 3);
    ("SCHED_IDLE", dec 5); ("SCHED_DEADLINE", dec 6); ("SCHED_RESET_ON_FORK", hex 0x40000000)]].
Definition header : header :=
  Header "linux/sched.h" [] (concat [
    defs_CSIGNAL]).
End Sched.

(** ** [linux/seccomp.h] *)

Module Seccomp.
Definition defs_SECCOMP_MODE_DISABLED : list decl := [
  Defines [
    ("SECCOMP_MODE_DISABLED", dec 0); ("SECCOMP_MODE_STRICT", dec 1);
    ("SECCOMP_MODE_FILTER", dec 2); ("SECCOMP_SET_MODE_STRICT", dec 0);
    ("SECCOMP_SET_MODE_FILTER", dec 1); ("SECCOMP_FILTER_FLAG_TSYNC", Shl (decUL 1) (dec 0));
    ("SECCOMP_FILTER_FLAG_SPEC_ALLOW", Shl (decUL 1) (dec 2))];
  Defines [
    ("SECCOMP_RET_KILL", hexU 0x00000000); ("SECCOMP_RET_TRAP", hexU 0x00030000);
    ("SECCOMP_RET_ERRNO", hexU 0x00050000); ("SECCOMP_RET_TRACE", hexU 0x7ff00000);
    ("SECCOMP_RET_ALLOW", hexU 0x7fff0000); ("SECCOMP_RET_ACTION", hexU 0x7fff0000);
    ("SECCOMP_RET_DATA", hexU 0x0000ffff)]].
Definition header : header :=
  Header "linux/seccomp.h" [] (concat [
    defs_SECCOMP_MODE_DISABLED]).
End Seccomp.

(** ** [linux/securebits.h] *)

Module Securebits.
Definition macro_issecure_mask : list decl := [
  Define_fun "issecure_mask" ["X"] (Shl (dec 1) (Id "X"))].
Definition defs_SECURE_NOROOT : list decl := [
  Defines [
    ("SECURE_NOROOT", dec 0); ("SECURE_NOROOT_LOCKED", dec 1);
    ("SECBIT_NOROOT", App "issecure_mask" [Id "SECURE_NOROOT"]);
    ("SECBIT_NOROOT_LOCKED", App "issecure_mask" [Id "SECURE_NOROOT_LOCKED"])];
  Defines [
    ("SECURE_NO_SETUID_FIXUP", dec 2); ("SECURE_NO_SETUID_FIXUP_LOCKED", dec 3);
    ("SECBIT_NO_SETUID_FIXUP", App "issecure_mask" [Id "SECURE_NO_SETUID_FIXUP"]);
    ("SECBIT_NO_SETUID_FIXUP_LOCKED", App "issecure_mask" [Id "SECURE_NO_SETUID_FIXUP_LOCKED"])];
  Defines [
    ("SECURE_KEEP_CAPS", dec 4); ("SECURE_KEEP_CAPS_LOCKED", dec 5);
    ("SECBIT_KEEP_CAPS", App "issecure_mask" [Id "SECURE_KEEP_CAPS"]);
    ("SECBIT_KEEP_CAPS_LOCKED", App "issecure_mask" [Id "SECURE_KEEP_CAPS_LOCKED"]);
    ("SECURE_NO_CAP_AMBIENT_RAISE", dec 6); ("SECURE_NO_CAP_AMBIENT_RAISE_LOCKED", dec 7);
    ("SECBIT_NO_CAP_AMBIENT_RAISE", App "issecure_mask" [Id "SECURE_NO_CAP_AMBIENT_RAISE"]);
    ("SECBIT_NO_CAP_AMBIENT_RAISE_LOCKED", App "issecure_mask" [Id "SECURE_NO_CAP_AMBIENT_RAISE_LOCKED"]);
    ("SECURE_ALL_BITS", Or (Or (Or (App "issecure_mask" [Id "SECURE_NOROOT"]) (App "issecure_mask" [Id "SECURE_NO_SETUID_FIXUP"])) (App "issecure_mask" [Id "SECURE_KEEP_CAPS"])) (App "issecure_mask" [Id "SECURE_NO_CAP_AMBIENT_RAISE"]));
    ("SECURE_ALL_LOCKS", Shl (Id "SECURE_ALL_BITS") (dec 1))]].
Definition header : header :=
  Header "linux/securebits.h" [] (concat [
    macro_issecure_mask; defs_SECURE_NOROOT]).
End Securebits.

(** ** [linux/sysctl.h] *)

Module Sysctl.
Definition enum_CTL_KERN : list decl := [
  Enum [
    ("CTL_KERN", Some (dec 1)); ("CTL_VM", Some (dec 2)); ("CTL_NET", Some (dec 3));
    ("CTL_PROC", Some (dec 4)); ("CTL_FS", Some (dec 5)); ("CTL_DEBUG", Some (dec 6));
    ("CTL_DEV", Some (dec 7)); ("CTL_BUS", Some (dec 8)); ("CTL_ABI", Some (dec 9));
    ("CTL_CPU", Some (dec 10)); ("CTL_ARLAN", Some (dec 254)); ("CTL_S390DBF", Some (dec 5677));
    ("CTL_SUNRPC", Some (dec 7249)); ("CTL_PM", Some (dec 9899)); ("CTL_FRV", Some (dec 9898))]].
Definition enum_INOTIFY_MAX_USER_INSTANCES : list decl := [
  Enum [
    ("INOTIFY_MAX_USER_INSTANCES", Some (dec 1)); ("INOTIFY_MAX_USER_WATCHES", Some (dec 2));
    ("INOTIFY_MAX_QUEUED_EVENTS", Some (dec 3))];
  Enum [
    ("KERN_OSTYPE", Some (dec 1)); ("KERN_OSRELEASE", Some (dec 2));
    ("KERN_OSREV", Some (dec 3)); ("KERN_VERSION", Some (dec 4));
    ("KERN_SECUREMASK", Some (dec 5)); ("KERN_PROF", Some (dec 6));
    ("KERN_NODENAME", Some (dec 7)); ("KERN_DOMAINNAME", Some (dec 8));
    ("KERN_PANIC", Some (dec 15)); ("KERN_REALROOTDEV", Some (dec 16));
    ("KERN_SPARC_REBOOT", Some (dec 21)); ("KERN_CTLALTDEL", Some (dec 22));
    ("KERN_PRINTK", Some (dec 23)); ("KERN_NAMETRANS", Some (dec 24));
    ("KERN_PPC_HTABRECLAIM", Some (dec 25)); ("KERN_PPC_ZEROPAGED", Some (dec 26));
    ("KERN_PPC_POWERSAVE_NAP", Some (dec 27)); ("KERN_MODPROBE", Some (dec 28));
    ("KERN_SG_BIG_BUFF", Some (dec 29)); ("KERN_ACCT", Some (dec 30));
    ("KERN_PPC_L2CR", Some (dec 31)); ("KERN_RTSIGNR", Some (dec 32));
    ("KERN_RTSIGMAX", Some (dec 33)); ("KERN_SHMMAX", Some (dec 34));
    ("KERN_MSGMAX", Some (dec 35)); ("KERN_MSGMNB", Some (dec 36));
    ("KERN_MSGPOOL", Some (dec 37)); ("KERN_SYSRQ", Some (dec 38));
    ("KERN_MAX_THREADS", Some (dec 39)); ("KERN_RANDOM", Some (dec 40));
    ("KERN_SHMALL", Some (dec 41)); ("KERN_MSGMNI", Some (dec 42)); ("KERN_SEM", Some (dec 43));
    ("KERN_SPARC_STOP_A", Some (dec 44)); ("KERN_SHMMNI", Some (dec 45));
    ("KERN_OVERFLOWUID", Some (dec 46)); ("KERN_OVERFLOWGID", Some (dec 47));
    ("KERN_SHMPATH", Some (dec 48)); ("KERN_HOTPLUG", Some (dec 49));
    ("KERN_IEEE_EMULATION_WARNINGS", Some (dec 50));
    ("KERN_S390_USER_DEBUG_LOGGING", Some (dec 51)); ("KERN_CORE_USES_PID", Some (dec 52));
    ("KERN_TAINTED", Some (dec 53)); ("KERN_CADPID", Some (dec 54));
    ("KERN_PIDMAX", Some (dec 55)); ("KERN_CORE_PATTERN", Some (dec 56));
    ("KERN_PANIC_ON_OOPS", Some (dec 57)); ("KERN_HPPA_PWRSW", Some (dec 58));
    ("KERN_HPPA_UNALIGNED", Some (dec 59)); ("KERN_PRINTK_RATELIMIT", Some (dec 60));
    ("KERN_PRINTK_RATELIMIT_BURST", Some (dec 61)); ("KERN_PTY", Some (dec 62));
    ("KERN_NGROUPS_MAX", Some (dec 63)); ("KERN_SPARC_SCONS_PWROFF", Some (dec 64));
    ("KERN_HZ_TIMER", Some (dec 65)); ("KERN_UNKNOWN_NMI_PANIC", Some (dec 66));
    ("KERN_BOOTLOADER_TYPE", Some (dec 67)); ("KERN_RANDOMIZE", Some (dec 68));
    ("KERN_SETUID_DUMPABLE", Some (dec 69)); ("KERN_SPIN_RETRY", Some (dec 70));
    ("KERN_ACPI_VIDEO_FLAGS", Some (dec 71)); ("KERN_IA64_UNALIGNED", Some (dec 72));
    ("KERN_COMPAT_LOG", Some (dec 73)); ("KERN_MAX_LOCK_DEPTH", Some (dec 74));
    ("KERN_NMI_WATCHDOG", Some (dec 75)); ("KERN_PANIC_ON_NMI", Some (dec 76));
    ("KERN_PANIC_ON_WARN", Some (dec 77)); ("KERN_COLD_BOOT", Some (dec 78))];
  Enum [
    ("VM_UNUSED1", Some (dec 1)); ("VM_UNUSED2", Some (dec 2)); ("VM_UNUSED3", Some (dec 3));
    ("VM_UNUSED4", Some (dec 4)); ("VM_OVERCOMMIT_MEMORY", Some (dec 5));
    ("VM_UNUSED5", Some (dec 6)); ("VM_UNUSED7", Some (dec 7)); ("VM_UNUSED8", Some (dec 8));
    ("VM_UNUSED9", Some (dec 9)); ("VM_PAGE_CLUSTER", Some (dec 10));
    ("VM_DIRTY_BACKGROUND", Some (dec 11)); ("VM_DIRTY_RATIO", Some (dec 12));
    ("VM_DIRTY_WB_CS", Some (dec 13)); ("VM_DIRTY_EXPIRE_CS", Some (dec 14));
    ("VM_NR_PDFLUSH_THREADS", Some (dec 15)); ("VM_OVERCOMMIT_RATIO", Some (dec 16));
    ("VM_PAGEBUF", Some (dec 17)); ("VM_HUGETLB_PAGES", Some (dec 18));
    ("VM_SWAPPINESS", Some (dec 19)); ("VM_LOWMEM_RESERVE_RATIO", Some (dec 20));
    ("VM_MIN_FREE_KBYTES", Some (dec 21)); ("VM_MAX_MAP_COUNT", Some (dec 22));
    ("VM_LAPTOP_MODE", Some (dec 23)); ("VM_BLOCK_DUMP", Some (dec 24));
    ("VM_HUGETLB_GROUP", Some (dec 25)); ("VM_VFS_CACHE_PRESSURE", Some (dec 26));
    ("VM_LEGACY_VA_LAYOUT", Some (dec 27)); ("VM_SWAP_TOKEN_TIMEOUT", Some (dec 28));
    ("VM_DROP_PAGECACHE", Some (dec 29)); ("VM_PERCPU_PAGELIST_FRACTION", Some (dec 30));
    ("VM_ZONE_RECLAIM_MODE", Some (dec 31)); ("VM_MIN_UNMAPPED", Some (dec 32));
    ("VM_PANIC_ON_OOM", Some (dec 33)); ("VM_VDSO_ENABLED", Some (dec 34));
    ("VM_MIN_SLAB", Some (dec 35))]].
Definition enum_NET_CORE : list decl := [
  Enum [
    ("NET_CORE", Some (dec 1)); ("NET_ETHER", Some (dec 2)); ("NET_802", Some (dec 3));
    ("NET_UNIX", Some (dec 4)); ("NET_IPV4", Some (dec 5)); ("NET_IPX", Some (dec 6));
    ("NET_ATALK", Some (dec 7)); ("NET_NETROM", Some (dec 8)); ("NET_AX25", Some (dec 9));
    ("NET_BRIDGE", Some (dec 10)); ("NET_ROSE", Some (dec 11)); ("NET_IPV6", Some (dec 12));
    ("NET_X25", Some (dec 13)); ("NET_TR", Some (dec 14)); ("NET_DECNET", Some (dec 15));
    ("NET_ECONET", Some (dec 16)); ("NET_SCTP", Some (dec 17)); ("NET_LLC", Some (dec 18));
    ("NET_NETFILTER", Some (dec 19)); ("NET_DCCP", Some (dec 20)); ("NET_IRDA", Some (dec 412))];
  Enum [
    ("RANDOM_POOLSIZE", Some (dec 1)); ("RANDOM_ENTROPY_COUNT", Some (dec 2));
    ("RANDOM_READ_THRESH", Some (dec 3)); ("RANDOM_WRITE_THRESH", Some (dec 4));
    ("RANDOM_BOOT_ID", Some (dec 5)); ("RANDOM_UUID", Some (dec 6))]].
Definition enum_BUS_ISA_MEM_BASE : list decl := [
  Enum [
    ("BUS_ISA_MEM_BASE", Some (dec 1)); ("BUS_ISA_PORT_BASE", Some (dec 2));
    ("BUS_ISA_PORT_SHIFT", Some (dec 3))];
  Enum [
    ("NET_CORE_WMEM_MAX", Some (dec 1)); ("NET_CORE_RMEM_MAX", Some (dec 2));
    ("NET_CORE_WMEM_DEFAULT", Some (dec 3)); ("NET_CORE_RMEM_DEFAULT", Some (dec 4));
    ("NET_CORE_MAX_BACKLOG", Some (dec 6)); ("NET_CORE_FASTROUTE", Some (dec 7));
    ("NET_CORE_MSG_COST", Some (dec 8)); ("NET_CORE_MSG_BURST", Some (dec 9));
    ("NET_CORE_OPTMEM_MAX", Some (dec 10)); ("NET_CORE_HOT_LIST_LENGTH", Some (dec 11));
    ("NET_CORE_DIVERT_VERSION", Some (dec 12)); ("NET_CORE_NO_CONG_THRESH", Some (dec 13));
    ("NET_CORE_NO_CONG", Some (dec 14)); ("NET_CORE_LO_CONG", Some (dec 15));
    ("NET_CORE_MOD_CONG", Some (dec 16)); ("NET_CORE_DEV_WEIGHT", Some (dec 17));
    ("NET_CORE_SOMAXCONN", Some (dec 18)); ("NET_CORE_BUDGET", Some (dec 19));
    ("NET_CORE_AEVENT_ETIME", Some (dec 20)); ("NET_CORE_AEVENT_RSEQTH", Some (dec 21));
    ("NET_CORE_WARNINGS", Some (dec 22))];
  Enum [
    ("NET_UNIX_DESTROY_DELAY", Some (dec 1)); ("NET_UNIX_DELETE_DELAY", Some (dec 2));
    ("NET_UNIX_MAX_DGRAM_QLEN", Some (dec 3))];
  Enum [
    ("NET_NF_CONNTRACK_MAX", Some (dec 1));
    ("NET_NF_CONNTRACK_TCP_TIMEOUT_SYN_SENT", Some (dec 2));
    ("NET_NF_CONNTRACK_TCP_TIMEOUT_SYN_RECV", Some (dec 3));
    ("NET_NF_CONNTRACK_TCP_TIMEOUT_ESTABLISHED", Some (dec 4));
    ("NET_NF_CONNTRACK_TCP_TIMEOUT_FIN_WAIT", Some (dec 5));
    ("NET_NF_CONNTRACK_TCP_TIMEOUT_CLOSE_WAIT", Some (dec 6));
    ("NET_NF_CONNTRACK_TCP_TIMEOUT_LAST_ACK", Some (dec 7));
    ("NET_NF_CONNTRACK_TCP_TIMEOUT_TIME_WAIT", Some (dec 8));
    ("NET_NF_CONNTRACK_TCP_TIMEOUT_CLOSE", Some (dec 9));
    ("NET_NF_CONNTRACK_UDP_TIMEOUT", Some (dec 10));
    ("NET_NF_CONNTRACK_UDP_TIMEOUT_STREAM", Some (dec 11));
    ("NET_NF_CONNTRACK_ICMP_TIMEOUT", Some (dec 12));
    ("NET_NF_CONNTRACK_GENERIC_TIMEOUT", Some (dec 13));
    ("NET_NF_CONNTRACK_BUCKETS", Some (dec 14)); ("NET_NF_CONNTRACK_LOG_INVALID", Some (dec 15));
    ("NET_NF_CONNTRACK_TCP_TIMEOUT_MAX_RETRANS", Some (dec 16));
    ("NET_NF_CONNTRACK_TCP_LOOSE", Some (dec 17));
    ("NET_NF_CONNTRACK_TCP_BE_LIBERAL", Some (dec 18));
    ("NET_NF_CONNTRACK_TCP_MAX_RETRANS", Some (dec 19));
    ("NET_NF_CONNTRACK_SCTP_TIMEOUT_CLOSED", Some (dec 20));
    ("NET_NF_CONNTRACK_SCTP_TIMEOUT_COOKIE_WAIT", Some (dec 21));
    ("NET_NF_CONNTRACK_SCTP_TIMEOUT_COOKIE_ECHOED", Some (dec 22));
    ("NET_NF_CONNTRACK_SCTP_TIMEOUT_ESTABLISHED", Some (dec 23));
    ("NET_NF_CONNTRACK_SCTP_TIMEOUT_SHUTDOWN_SENT", Some (dec 24));
    ("NET_NF_CONNTRACK_SCTP_TIMEOUT_SHUTDOWN_RECD", Some (dec 25));
    ("NET_NF_CONNTRACK_SCTP_TIMEOUT_SHUTDOWN_ACK_SENT", Some (dec 26));
    ("NET_NF_CONNTRACK_COUNT", Some (dec 27));
    ("NET_NF_CONNTRACK_ICMPV6_TIMEOUT", Some (dec 28));
    ("NET_NF_CONNTRACK_FRAG6_TIMEOUT", Some (dec 29));
    ("NET_NF_CONNTRACK_FRAG6_LOW_THRESH", Some (dec 30));
    ("NET_NF_CONNTRACK_FRAG6_HIGH_THRESH", Some (dec 31));
    ("NET_NF_CONNTRACK_CHECKSUM", Some (dec 32))]].
Definition enum_NET_IPV4_FORWARD : list decl := [
  Enum [
    ("NET_IPV4_FORWARD", Some (dec 8)); ("NET_IPV4_DYNADDR", Some (dec 9));
    ("NET_IPV4_CONF", Some (dec 16)); ("NET_IPV4_NEIGH", Some (dec 17));
    ("NET_IPV4_ROUTE", Some (dec 18)); ("NET_IPV4_FIB_HASH", Some (dec 19));
    ("NET_IPV4_NETFILTER", Some (dec 20)); ("NET_IPV4_TCP_TIMESTAMPS", Some (dec 33));
    ("NET_IPV4_TCP_WINDOW_SCALING", Some (dec 34)); ("NET_IPV4_TCP_SACK", Some (dec 35));
    ("NET_IPV4_TCP_RETRANS_COLLAPSE", Some (dec 36)); ("NET_IPV4_DEFAULT_TTL", Some (dec 37));
    ("NET_IPV4_AUTOCONFIG", Some (dec 38)); ("NET_IPV4_NO_PMTU_DISC", Some (dec 39));
    ("NET_IPV4_TCP_SYN_RETRIES", Some (dec 40)); ("NET_IPV4_IPFRAG_HIGH_THRESH", Some (dec 41));
    ("NET_IPV4_IPFRAG_LOW_THRESH", Some (dec 42)); ("NET_IPV4_IPFRAG_TIME", Some (dec 43));
    ("NET_IPV4_TCP_MAX_KA_PROBES", Some (dec 44));
    ("NET_IPV4_TCP_KEEPALIVE_TIME", Some (dec 45));
    ("NET_IPV4_TCP_KEEPALIVE_PROBES", Some (dec 46)); ("NET_IPV4_TCP_RETRIES1", Some (dec 47));
    ("NET_IPV4_TCP_RETRIES2", Some (dec 48)); ("NET_IPV4_TCP_FIN_TIMEOUT", Some (dec 49));
    ("NET_IPV4_IP_MASQ_DEBUG", Some (dec 50)); ("NET_TCP_SYNCOOKIES", Some (dec 51));
    ("NET_TCP_STDURG", Some (dec 52)); ("NET_TCP_RFC1337", Some (dec 53));
    ("NET_TCP_SYN_TAILDROP", Some (dec 54)); ("NET_TCP_MAX_SYN_BACKLOG", Some (dec 55));
    ("NET_IPV4_LOCAL_PORT_RANGE", Some (dec 56));
    ("NET_IPV4_ICMP_ECHO_IGNORE_ALL", Some (dec 57));
    ("NET_IPV4_ICMP_ECHO_IGNORE_BROADCASTS", Some (dec 58));
    ("NET_IPV4_ICMP_SOURCEQUENCH_RATE", Some (dec 59));
    ("NET_IPV4_ICMP_DESTUNREACH_RATE", Some (dec 60));
    ("NET_IPV4_ICMP_TIMEEXCEED_RATE", Some (dec 61));
    ("NET_IPV4_ICMP_PARAMPROB_RATE", Some (dec 62));
    ("NET_IPV4_ICMP_ECHOREPLY_RATE", Some (dec 63));
    ("NET_IPV4_ICMP_IGNORE_BOGUS_ERROR_RESPONSES", Some (dec 64));
    ("NET_IPV4_IGMP_MAX_MEMBERSHIPS", Some (dec 65)); ("NET_TCP_TW_RECYCLE", Some (dec 66));
    ("NET_IPV4_ALWAYS_DEFRAG", Some (dec 67)); ("NET_IPV4_TCP_KEEPALIVE_INTVL", Some (dec 68));
    ("NET_IPV4_INET_PEER_THRESHOLD", Some (dec 69));
    ("NET_IPV4_INET_PEER_MINTTL", Some (dec 70)); ("NET_IPV4_INET_PEER_MAXTTL", Some (dec 71));
    ("NET_IPV4_INET_PEER_GC_MINTIME", Some (dec 72));
    ("NET_IPV4_INET_PEER_GC_MAXTIME", Some (dec 73)); ("NET_TCP_ORPHAN_RETRIES", Some (dec 74));
    ("NET_TCP_ABORT_ON_OVERFLOW", Some (dec 75)); ("NET_TCP_SYNACK_RETRIES", Some (dec 76));
    ("NET_TCP_MAX_ORPHANS", Some (dec 77)); ("NET_TCP_MAX_TW_BUCKETS", Some (dec 78));
    ("NET_TCP_FACK", Some (dec 79)); ("NET_TCP_REORDERING", Some (dec 80));
    ("NET_TCP_ECN", Some (dec 81)); ("NET_TCP_DSACK", Some (dec 82));
    ("NET_TCP_MEM", Some (dec 83)); ("NET_TCP_WMEM", Some (dec 84));
    ("NET_TCP_RMEM", Some (dec 85)); ("NET_TCP_APP_WIN", Some (dec 86));
    ("NET_TCP_ADV_WIN_SCALE", Some (dec 87)); ("NET_IPV4_NONLOCAL_BIND", Some (dec 88));
    ("NET_IPV4_ICMP_RATELIMIT", Some (dec 89)); ("NET_IPV4_ICMP_RATEMASK", Some (dec 90));
    ("NET_TCP_TW_REUSE", Some (dec 91)); ("NET_TCP_FRTO", Some (dec 92));
    ("NET_TCP_LOW_LATENCY", Some (dec 93)); ("NET_IPV4_IPFRAG_SECRET_INTERVAL", Some (dec 94));
    ("NET_IPV4_IGMP_MAX_MSF", Some (dec 96)); ("NET_TCP_NO_METRICS_SAVE", Some (dec 97));
    ("NET_TCP_DEFAULT_WIN_SCALE", Some (dec 105)); ("NET_TCP_MODERATE_RCVBUF", Some (dec 106));
    ("NET_TCP_TSO_WIN_DIVISOR", Some (dec 107)); ("NET_TCP_BIC_BETA", Some (dec 108));
    ("NET_IPV4_ICMP_ERRORS_USE_INBOUND_IFADDR", Some (dec 109));
    ("NET_TCP_CONG_CONTROL", Some (dec 110)); ("NET_TCP_ABC", Some (dec 111));
    ("NET_IPV4_IPFRAG_MAX_DIST", Some (dec 112)); ("NET_TCP_MTU_PROBING", Some (dec 113));
    ("NET_TCP_BASE_MSS", Some (dec 114));
    ("NET_IPV4_TCP_WORKAROUND_SIGNED_WINDOWS", Some (dec 115));
    ("NET_TCP_DMA_COPYBREAK", Some (dec 116)); ("NET_TCP_SLOW_START_AFTER_IDLE", Some (dec 117));
    ("NET_CIPSOV4_CACHE_ENABLE", Some (dec 118));
    ("NET_CIPSOV4_CACHE_BUCKET_SIZE", Some (dec 119));
    ("NET_CIPSOV4_RBM_OPTFMT", Some (dec 120)); ("NET_CIPSOV4_RBM_STRICTVALID", Some (dec 121));
    ("NET_TCP_AVAIL_CONG_CONTROL", Some (dec 122));
    ("NET_TCP_ALLOWED_CONG_CONTROL", Some (dec 123)); ("NET_TCP_MAX_SSTHRESH", Some (dec 124));
    ("NET_TCP_FRTO_RESPONSE", Some (dec 125))];
  Enum [
    ("NET_IPV4_ROUTE_FLUSH", Some (dec 1)); ("NET_IPV4_ROUTE_MIN_DELAY", Some (dec 2));
    ("NET_IPV4_ROUTE_MAX_DELAY", Some (dec 3)); ("NET_IPV4_ROUTE_GC_THRESH", Some (dec 4));
    ("NET_IPV4_ROUTE_MAX_SIZE", Some (dec 5)); ("NET_IPV4_ROUTE_GC_MIN_INTERVAL", Some (dec 6));
    ("NET_IPV4_ROUTE_GC_TIMEOUT", Some (dec 7)); ("NET_IPV4_ROUTE_GC_INTERVAL", Some (dec 8));
    ("NET_IPV4_ROUTE_REDIRECT_LOAD", Some (dec 9));
    ("NET_IPV4_ROUTE_REDIRECT_NUMBER", Some (dec 10));
    ("NET_IPV4_ROUTE_REDIRECT_SILENCE", Some (dec 11));
    ("NET_IPV4_ROUTE_ERROR_COST", Some (dec 12)); ("NET_IPV4_ROUTE_ERROR_BURST", Some (dec 13));
    ("NET_IPV4_ROUTE_GC_ELASTICITY", Some (dec 14));
    ("NET_IPV4_ROUTE_MTU_EXPIRES", Some (dec 15)); ("NET_IPV4_ROUTE_MIN_PMTU", Some (dec 16));
    ("NET_IPV4_ROUTE_MIN_ADVMSS", Some (dec 17));
    ("NET_IPV4_ROUTE_SECRET_INTERVAL", Some (dec 18));
    ("NET_IPV4_ROUTE_GC_MIN_INTERVAL_MS", Some (dec 19))]].
Definition enum_NET_IPV4_CONF_FORWARDING : list decl := [
  Enum [
    ("NET_IPV4_CONF_FORWARDING", Some (dec 1)); ("NET_IPV4_CONF_MC_FORWARDING", Some (dec 2));
    ("NET_IPV4_CONF_PROXY_ARP", Some (dec 3)); ("NET_IPV4_CONF_ACCEPT_REDIRECTS", Some (dec 4));
    ("NET_IPV4_CONF_SECURE_REDIRECTS", Some (dec 5));
    ("NET_IPV4_CONF_SEND_REDIRECTS", Some (dec 6)); ("NET_IPV4_CONF_SHARED_MEDIA", Some (dec 7));
    ("NET_IPV4_CONF_RP_FILTER", Some (dec 8));
    ("NET_IPV4_CONF_ACCEPT_SOURCE_ROUTE", Some (dec 9));
    ("NET_IPV4_CONF_BOOTP_RELAY", Some (dec 10)); ("NET_IPV4_CONF_LOG_MARTIANS", Some (dec 11));
    ("NET_IPV4_CONF_TAG", Some (dec 12)); ("NET_IPV4_CONF_ARPFILTER", Some (dec 13));
    ("NET_IPV4_CONF_MEDIUM_ID", Some (dec 14)); ("NET_IPV4_CONF_NOXFRM", Some (dec 15));
    ("NET_IPV4_CONF_NOPOLICY", Some (dec 16));
    ("NET_IPV4_CONF_FORCE_IGMP_VERSION", Some (dec 17));
    ("NET_IPV4_CONF_ARP_ANNOUNCE", Some (dec 18)); ("NET_IPV4_CONF_ARP_IGNORE", Some (dec 19));
    ("NET_IPV4_CONF_PROMOTE_SECONDARIES", Some (dec 20));
    ("NET_IPV4_CONF_ARP_ACCEPT", Some (dec 21)); ("NET_IPV4_CONF_ARP_NOTIFY", Some (dec 22));
    ("NET_IPV4_CONF_NF_IPV4_DEFRAG_SKIP", Some (dec 23))];
  Enum [
    ("NET_IPV4_NF_CONNTRACK_MAX", Some (dec 1));
    ("NET_IPV4_NF_CONNTRACK_TCP_TIMEOUT_SYN_SENT", Some (dec 2));
    ("NET_IPV4_NF_CONNTRACK_TCP_TIMEOUT_SYN_RECV", Some (dec 3));
    ("NET_IPV4_NF_CONNTRACK_TCP_TIMEOUT_ESTABLISHED", Some (dec 4));
    ("NET_IPV4_NF_CONNTRACK_TCP_TIMEOUT_FIN_WAIT", Some (dec 5));
    ("NET_IPV4_NF_CONNTRACK_TCP_TIMEOUT_CLOSE_WAIT", Some (dec 6));
    ("NET_IPV4_NF_CONNTRACK_TCP_TIMEOUT_LAST_ACK", Some (dec 7));
    ("NET_IPV4_NF_CONNTRACK_TCP_TIMEOUT_TIME_WAIT", Some (dec 8));
    ("NET_IPV4_NF_CONNTRACK_TCP_TIMEOUT_CLOSE", Some (dec 9));
    ("NET_IPV4_NF_CONNTRACK_UDP_TIMEOUT", Some (dec 10));
    ("NET_IPV4_NF_CONNTRACK_UDP_TIMEOUT_STREAM", Some (dec 11));
    ("NET_IPV4_NF_CONNTRACK_ICMP_TIMEOUT", Some (dec 12));
    ("NET_IPV4_NF_CONNTRACK_GENERIC_TIMEOUT", Some (dec 13));
    ("NET_IPV4_NF_CONNTRACK_BUCKETS", Some (dec 14));
    ("NET_IPV4_NF_CONNTRACK_LOG_INVALID", Some (dec 15));
    ("NET_IPV4_NF_CONNTRACK_TCP_TIMEOUT_MAX_RETRANS", Some (dec 16));
    ("NET_IPV4_NF_CONNTRACK_TCP_LOOSE", Some (dec 17));
    ("NET_IPV4_NF_CONNTRACK_TCP_BE_LIBERAL", Some (dec 18));
    ("NET_IPV4_NF_CONNTRACK_TCP_MAX_RETRANS", Some (dec 19));
    ("NET_IPV4_NF_CONNTRACK_SCTP_TIMEOUT_CLOSED", Some (dec 20));
    ("NET_IPV4_NF_CONNTRACK_SCTP_TIMEOUT_COOKIE_WAIT", Some (dec 21));
    ("NET_IPV4_NF_CONNTRACK_SCTP_TIMEOUT_COOKIE_ECHOED", Some (dec 22));
    ("NET_IPV4_NF_CONNTRACK_SCTP_TIMEOUT_ESTABLISHED", Some (dec 23));
    ("NET_IPV4_NF_CONNTRACK_SCTP_TIMEOUT_SHUTDOWN_SENT", Some (dec 24));
    ("NET_IPV4_NF_CONNTRACK_SCTP_TIMEOUT_SHUTDOWN_RECD", Some (dec 25));
    ("NET_IPV4_NF_CONNTRACK_SCTP_TIMEOUT_SHUTDOWN_ACK_SENT", Some (dec 26));
    ("NET_IPV4_NF_CONNTRACK_COUNT", Some (dec 27));
    ("NET_IPV4_NF_CONNTRACK_CHECKSUM", Some (dec 28))];
  Enum [
    ("NET_IPV6_CONF", Some (dec 16)); ("NET_IPV6_NEIGH", Some (dec 17));
    ("NET_IPV6_ROUTE", Some (dec 18)); ("NET_IPV6_ICMP", Some (dec 19));
    ("NET_IPV6_BINDV6ONLY", Some (dec 20)); ("NET_IPV6_IP6FRAG_HIGH_THRESH", Some (dec 21));
    ("NET_IPV6_IP6FRAG_LOW_THRESH", Some (dec 22)); ("NET_IPV6_IP6FRAG_TIME", Some (dec 23));
    ("NET_IPV6_IP6FRAG_SECRET_INTERVAL", Some (dec 24)); ("NET_IPV6_MLD_MAX_MSF", Some (dec 25))];
  Enum [
    ("NET_IPV6_ROUTE_FLUSH", Some (dec 1)); ("NET_IPV6_ROUTE_GC_THRESH", Some (dec 2));
    ("NET_IPV6_ROUTE_MAX_SIZE", Some (dec 3)); ("NET_IPV6_ROUTE_GC_MIN_INTERVAL", Some (dec 4));
    ("NET_IPV6_ROUTE_GC_TIMEOUT", Some (dec 5)); ("NET_IPV6_ROUTE_GC_INTERVAL", Some (dec 6));
    ("NET_IPV6_ROUTE_GC_ELASTICITY", Some (dec 7)); ("NET_IPV6_ROUTE_MTU_EXPIRES", Some (dec 8));
    ("NET_IPV6_ROUTE_MIN_ADVMSS", Some (dec 9));
    ("NET_IPV6_ROUTE_GC_MIN_INTERVAL_MS", Some (dec 10))];
  Enum [
    ("NET_IPV6_FORWARDING", Some (dec 1)); ("NET_IPV6_HOP_LIMIT", Some (dec 2));
    ("NET_IPV6_MTU", Some (dec 3)); ("NET_IPV6_ACCEPT_RA", Some (dec 4));
    ("NET_IPV6_ACCEPT_REDIRECTS", Some (dec 5)); ("NET_IPV6_AUTOCONF", Some (dec 6));
    ("NET_IPV6_DAD_TRANSMITS", Some (dec 7)); ("NET_IPV6_RTR_SOLICITS", Some (dec 8));
    ("NET_IPV6_RTR_SOLICIT_INTERVAL", Some (dec 9));
    ("NET_IPV6_RTR_SOLICIT_DELAY", Some (dec 10)); ("NET_IPV6_USE_TEMPADDR", Some (dec 11));
    ("NET_IPV6_TEMP_VALID_LFT", Some (dec 12)); ("NET_IPV6_TEMP_PREFERED_LFT", Some (dec 13));
    ("NET_IPV6_REGEN_MAX_RETRY", Some (dec 14)); ("NET_IPV6_MAX_DESYNC_FACTOR", Some (dec 15));
    ("NET_IPV6_MAX_ADDRESSES", Some (dec 16)); ("NET_IPV6_FORCE_MLD_VERSION", Some (dec 17));
    ("NET_IPV6_ACCEPT_RA_DEFRTR", Some (dec 18)); ("NET_IPV6_ACCEPT_RA_PINFO", Some (dec 19));
    ("NET_IPV6_ACCEPT_RA_RTR_PREF", Some (dec 20));
    ("NET_IPV6_RTR_PROBE_INTERVAL", Some (dec 21));
    ("NET_IPV6_ACCEPT_RA_RT_INFO_MAX_PLEN", Some (dec 22));
    ("NET_IPV6_PROXY_NDP", Some (dec 23)); ("NET_IPV6_ACCEPT_SOURCE_ROUTE", Some (dec 25));
    ("NET_IPV6_ACCEPT_RA_FROM_LOCAL", Some (dec 26));
    ("NET_IPV6_ACCEPT_RA_RT_INFO_MIN_PLEN", Some (dec 27)); ("__NET_IPV6_MAX", None)]].
Definition enum_NET_NEIGH_MCAST_SOLICIT : list decl := [
  Enum [
    ("NET_NEIGH_MCAST_SOLICIT", Some (dec 1)); ("NET_NEIGH_UCAST_SOLICIT", Some (dec 2));
    ("NET_NEIGH_APP_SOLICIT", Some (dec 3)); ("NET_NEIGH_RETRANS_TIME", Some (dec 4));
    ("NET_NEIGH_REACHABLE_TIME", Some (dec 5)); ("NET_NEIGH_DELAY_PROBE_TIME", Some (dec 6));
    ("NET_NEIGH_GC_STALE_TIME", Some (dec 7)); ("NET_NEIGH_UNRES_QLEN", Some (dec 8));
    ("NET_NEIGH_PROXY_QLEN", Some (dec 9)); ("NET_NEIGH_ANYCAST_DELAY", Some (dec 10));
    ("NET_NEIGH_PROXY_DELAY", Some (dec 11)); ("NET_NEIGH_LOCKTIME", Some (dec 12));
    ("NET_NEIGH_GC_INTERVAL", Some (dec 13)); ("NET_NEIGH_GC_THRESH1", Some (dec 14));
    ("NET_NEIGH_GC_THRESH2", Some (dec 15)); ("NET_NEIGH_GC_THRESH3", Some (dec 16));
    ("NET_NEIGH_RETRANS_TIME_MS", Some (dec 17)); ("NET_NEIGH_REACHABLE_TIME_MS", Some (dec 18))]].
Definition enum_NET_LLC2_ACK_TIMEOUT : list decl := [
  Enum [
    ("NET_LLC2_ACK_TIMEOUT", Some (dec 1)); ("NET_LLC2_P_TIMEOUT", Some (dec 2));
    ("NET_LLC2_REJ_TIMEOUT", Some (dec 3)); ("NET_LLC2_BUSY_TIMEOUT", Some (dec 4))];
  Enum [
    ("NET_ATALK_AARP_EXPIRY_TIME", Some (dec 1)); ("NET_ATALK_AARP_TICK_TIME", Some (dec 2));
    ("NET_ATALK_AARP_RETRANSMIT_LIMIT", Some (dec 3));
    ("NET_ATALK_AARP_RESOLVE_TIME", Some (dec 4))];
  Enum [
    ("NET_NETROM_DEFAULT_PATH_QUALITY", Some (dec 1));
    ("NET_NETROM_OBSOLESCENCE_COUNT_INITIALISER", Some (dec 2));
    ("NET_NETROM_NETWORK_TTL_INITIALISER", Some (dec 3));
    ("NET_NETROM_TRANSPORT_TIMEOUT", Some (dec 4));
    ("NET_NETROM_TRANSPORT_MAXIMUM_TRIES", Some (dec 5));
    ("NET_NETROM_TRANSPORT_ACKNOWLEDGE_DELAY", Some (dec 6));
    ("NET_NETROM_TRANSPORT_BUSY_DELAY", Some (dec 7));
    ("NET_NETROM_TRANSPORT_REQUESTED_WINDOW_SIZE", Some (dec 8));
    ("NET_NETROM_TRANSPORT_NO_ACTIVITY_TIMEOUT", Some (dec 9));
    ("NET_NETROM_ROUTING_CONTROL", Some (dec 10));
    ("NET_NETROM_LINK_FAILS_COUNT", Some (dec 11)); ("NET_NETROM_RESET", Some (dec 12))];
  Enum [
    ("NET_AX25_IP_DEFAULT_MODE", Some (dec 1)); ("NET_AX25_DEFAULT_MODE", Some (dec 2));
    ("NET_AX25_BACKOFF_TYPE", Some (dec 3)); ("NET_AX25_CONNECT_MODE", Some (dec 4));
    ("NET_AX25_STANDARD_WINDOW", Some (dec 5)); ("NET_AX25_EXTENDED_WINDOW", Some (dec 6));
    ("NET_AX25_T1_TIMEOUT", Some (dec 7)); ("NET_AX25_T2_TIMEOUT", Some (dec 8));
    ("NET_AX25_T3_TIMEOUT", Some (dec 9)); ("NET_AX25_IDLE_TIMEOUT", Some (dec 10));
    ("NET_AX25_N2", Some (dec 11)); ("NET_AX25_PACLEN", Some (dec 12));
    ("NET_AX25_PROTOCOL", Some (dec 13)); ("NET_AX25_DAMA_SLAVE_TIMEOUT", Some (dec 14))];
  Enum [
    ("NET_ROSE_RESTART_REQUEST_TIMEOUT", Some (dec 1));
    ("NET_ROSE_CALL_REQUEST_TIMEOUT", Some (dec 2));
    ("NET_ROSE_RESET_REQUEST_TIMEOUT", Some (dec 3));
    ("NET_ROSE_CLEAR_REQUEST_TIMEOUT", Some (dec 4));
    ("NET_ROSE_ACK_HOLD_BACK_TIMEOUT", Some (dec 5)); ("NET_ROSE_ROUTING_CONTROL", Some (dec 6));
    ("NET_ROSE_LINK_FAIL_TIMEOUT", Some (dec 7)); ("NET_ROSE_MAX_VCS", Some (dec 8));
    ("NET_ROSE_WINDOW_SIZE", Some (dec 9)); ("NET_ROSE_NO_ACTIVITY_TIMEOUT", Some (dec 10))];
  Enum [
    ("NET_X25_RESTART_REQUEST_TIMEOUT", Some (dec 1));
    ("NET_X25_CALL_REQUEST_TIMEOUT", Some (dec 2));
    ("NET_X25_RESET_REQUEST_TIMEOUT", Some (dec 3));
    ("NET_X25_CLEAR_REQUEST_TIMEOUT", Some (dec 4));
    ("NET_X25_ACK_HOLD_BACK_TIMEOUT", Some (dec 5)); ("NET_X25_FORWARD", Some (dec 6))]].
Definition enum_NET_DECNET_NODE_TYPE : list decl := [
  Enum [
    ("NET_DECNET_NODE_TYPE", Some (dec 1)); ("NET_DECNET_NODE_ADDRESS", Some (dec 2));
    ("NET_DECNET_NODE_NAME", Some (dec 3)); ("NET_DECNET_DEFAULT_DEVICE", Some (dec 4));
    ("NET_DECNET_TIME_WAIT", Some (dec 5)); ("NET_DECNET_DN_COUNT", Some (dec 6));
    ("NET_DECNET_DI_COUNT", Some (dec 7)); ("NET_DECNET_DR_COUNT", Some (dec 8));
    ("NET_DECNET_DST_GC_INTERVAL", Some (dec 9)); ("NET_DECNET_CONF", Some (dec 10));
    ("NET_DECNET_NO_FC_MAX_CWND", Some (dec 11)); ("NET_DECNET_MEM", Some (dec 12));
    ("NET_DECNET_RMEM", Some (dec 13)); ("NET_DECNET_WMEM", Some (dec 14));
    ("NET_DECNET_DEBUG_LEVEL", Some (dec 255))];
  Enum [
    ("NET_DECNET_CONF_LOOPBACK", Some (Neg (dec 2)));
    ("NET_DECNET_CONF_DDCMP", Some (Neg (dec 3))); ("NET_DECNET_CONF_PPP", Some (Neg (dec 4)));
    ("NET_DECNET_CONF_X25", Some (Neg (dec 5))); ("NET_DECNET_CONF_GRE", Some (Neg (dec 6)));
    ("NET_DECNET_CONF_ETHER", Some (Neg (dec 7)))];
  Enum [
    ("NET_DECNET_CONF_DEV_PRIORITY", Some (dec 1)); ("NET_DECNET_CONF_DEV_T1", Some (dec 2));
    ("NET_DECNET_CONF_DEV_T2", Some (dec 3)); ("NET_DECNET_CONF_DEV_T3", Some (dec 4));
    ("NET_DECNET_CONF_DEV_FORWARDING", Some (dec 5));
    ("NET_DECNET_CONF_DEV_BLKSIZE", Some (dec 6)); ("NET_DECNET_CONF_DEV_STATE", Some (dec 7))];
  Enum [
    ("NET_SCTP_RTO_INITIAL", Some (dec 1)); ("NET_SCTP_RTO_MIN", Some (dec 2));
    ("NET_SCTP_RTO_MAX", Some (dec 3)); ("NET_SCTP_RTO_ALPHA", Some (dec 4));
    ("NET_SCTP_RTO_BETA", Some (dec 5)); ("NET_SCTP_VALID_COOKIE_LIFE", Some (dec 6));
    ("NET_SCTP_ASSOCIATION_MAX_RETRANS", Some (dec 7));
    ("NET_SCTP_PATH_MAX_RETRANS", Some (dec 8)); ("NET_SCTP_MAX_INIT_RETRANSMITS", Some (dec 9));
    ("NET_SCTP_HB_INTERVAL", Some (dec 10)); ("NET_SCTP_PRESERVE_ENABLE", Some (dec 11));
    ("NET_SCTP_MAX_BURST", Some (dec 12)); ("NET_SCTP_ADDIP_ENABLE", Some (dec 13));
    ("NET_SCTP_PRSCTP_ENABLE", Some (dec 14)); ("NET_SCTP_SNDBUF_POLICY", Some (dec 15));
    ("NET_SCTP_SACK_TIMEOUT", Some (dec 16)); ("NET_SCTP_RCVBUF_POLICY", Some (dec 17))];
  Enum [
    ("NET_BRIDGE_NF_CALL_ARPTABLES", Some (dec 1));
    ("NET_BRIDGE_NF_CALL_IPTABLES", Some (dec 2));
    ("NET_BRIDGE_NF_CALL_IP6TABLES", Some (dec 3));
    ("NET_BRIDGE_NF_FILTER_VLAN_TAGGED", Some (dec 4));
    ("NET_BRIDGE_NF_FILTER_PPPOE_TAGGED", Some (dec 5))];
  Enum [
    ("NET_IRDA_DISCOVERY", Some (dec 1)); ("NET_IRDA_DEVNAME", Some (dec 2));
    ("NET_IRDA_DEBUG", Some (dec 3)); ("NET_IRDA_FAST_POLL", Some (dec 4));
    ("NET_IRDA_DISCOVERY_SLOTS", Some (dec 5)); ("NET_IRDA_DISCOVERY_TIMEOUT", Some (dec 6));
    ("NET_IRDA_SLOT_TIMEOUT", Some (dec 7)); ("NET_IRDA_MAX_BAUD_RATE", Some (dec 8));
    ("NET_IRDA_MIN_TX_TURN_TIME", Some (dec 9)); ("NET_IRDA_MAX_TX_DATA_SIZE", Some (dec 10));
    ("NET_IRDA_MAX_TX_WINDOW", Some (dec 11)); ("NET_IRDA_MAX_NOREPLY_TIME", Some (dec 12));
    ("NET_IRDA_WARN_NOREPLY_TIME", Some (dec 13)); ("NET_IRDA_LAP_KEEPALIVE_TIME", Some (dec 14))];
  Enum [
    ("FS_NRINODE", Some (dec 1)); ("FS_STATINODE", Some (dec 2)); ("FS_MAXINODE", Some (dec 3));
    ("FS_NRDQUOT", Some (dec 4)); ("FS_MAXDQUOT", Some (dec 5)); ("FS_NRFILE", Some (dec 6));
    ("FS_MAXFILE", Some (dec 7)); ("FS_DENTRY", Some (dec 8)); ("FS_NRSUPER", Some (dec 9));
    ("FS_MAXSUPER", Some (dec 10)); ("FS_OVERFLOWUID", Some (dec 11));
    ("FS_OVERFLOWGID", Some (dec 12)); ("FS_LEASES", Some (dec 13));
    ("FS_DIR_NOTIFY", Some (dec 14)); ("FS_LEASE_TIME", Some (dec 15));
    ("FS_DQSTATS", Some (dec 16)); ("FS_XFS", Some (dec 17)); ("FS_AIO_NR", Some (dec 18));
    ("FS_AIO_MAX_NR", Some (dec 19)); ("FS_INOTIFY", Some (dec 20)); ("FS_OCFS2", Some (dec 988))];
  Enum [
    ("FS_DQ_LOOKUPS", Some (dec 1)); ("FS_DQ_DROPS", Some (dec 2));
    ("FS_DQ_READS", Some (dec 3)); ("FS_DQ_WRITES", Some (dec 4));
    ("FS_DQ_CACHE_HITS", Some (dec 5)); ("FS_DQ_ALLOCATED", Some (dec 6));
    ("FS_DQ_FREE", Some (dec 7)); ("FS_DQ_SYNCS", Some (dec 8)); ("FS_DQ_WARNINGS", Some (dec 9))];
  Enum [
    ("DEV_CDROM", Some (dec 1)); ("DEV_HWMON", Some (dec 2)); ("DEV_PARPORT", Some (dec 3));
    ("DEV_RAID", Some (dec 4)); ("DEV_MAC_HID", Some (dec 5)); ("DEV_SCSI", Some (dec 6));
    ("DEV_IPMI", Some (dec 7))]].
Definition enum_DEV_CDROM_INFO : list decl := [
  Enum [
    ("DEV_CDROM_INFO", Some (dec 1)); ("DEV_CDROM_AUTOCLOSE", Some (dec 2));
    ("DEV_CDROM_AUTOEJECT", Some (dec 3)); ("DEV_CDROM_DEBUG", Some (dec 4));
    ("DEV_CDROM_LOCK", Some (dec 5)); ("DEV_CDROM_CHECK_MEDIA", Some (dec 6))]].
Definition enum_DEV_PARPORT_SPINTIME : list decl := [
  Enum [
    ("DEV_PARPORT_SPINTIME", Some (dec 1)); ("DEV_PARPORT_BASE_ADDR", Some (dec 2));
    ("DEV_PARPORT_IRQ", Some (dec 3)); ("DEV_PARPORT_DMA", Some (dec 4));
    ("DEV_PARPORT_MODES", Some (dec 5)); ("DEV_PARPORT_DEVICES", Some (dec 6));
    ("DEV_PARPORT_AUTOPROBE", Some (dec 16))]].
Definition enum_DEV_MAC_HID_KEYBOARD_SENDS_LINUX_KEYCODES : list decl := [
  Enum [
    ("DEV_MAC_HID_KEYBOARD_SENDS_LINUX_KEYCODES", Some (dec 1));
    ("DEV_MAC_HID_KEYBOARD_LOCK_KEYCODES", Some (dec 2));
    ("DEV_MAC_HID_MOUSE_BUTTON_EMULATION", Some (dec 3));
    ("DEV_MAC_HID_MOUSE_BUTTON2_KEYCODE", Some (dec 4));
    ("DEV_MAC_HID_MOUSE_BUTTON3_KEYCODE", Some (dec 5));
    ("DEV_MAC_HID_ADB_MOUSE_SENDS_KEYCODES", Some (dec 6))]].
Definition enum_ABI_DEFHANDLER_COFF : list decl := [
  Enum [
    ("ABI_DEFHANDLER_COFF", Some (dec 1)); ("ABI_DEFHANDLER_ELF", Some (dec 2));
    ("ABI_DEFHANDLER_LCALL7", Some (dec 3)); ("ABI_DEFHANDLER_LIBCSO", Some (dec 4));
    ("ABI_TRACE", Some (dec 5)); ("ABI_FAKE_UTSNAME", Some (dec 6))]].
Definition header : header :=
  Header "linux/sysctl.h" [] (concat [
    enum_CTL_KERN; enum_INOTIFY_MAX_USER_INSTANCES; enum_NET_CORE; enum_BUS_ISA_MEM_BASE;
    enum_NET_IPV4_FORWARD; enum_NET_IPV4_CONF_FORWARDING; enum_NET_NEIGH_MCAST_SOLICIT;
    enum_NET_LLC2_ACK_TIMEOUT; enum_NET_DECNET_NODE_TYPE; enum_DEV_CDROM_INFO;
    enum_DEV_PARPORT_SPINTIME; enum_DEV_MAC_HID_KEYBOARD_SENDS_LINUX_KEYCODES;
    enum_ABI_DEFHANDLER_COFF]).
End Sysctl.

(** ** [linux/time.h] *)

Module Time.
Definition defs_CLOCK_REALTIME : list decl := [
  Defines [
    ("CLOCK_REALTIME", dec 0); ("CLOCK_MONOTONIC", dec 1); ("CLOCK_PROCESS_CPUTIME_ID", dec 2);
    ("CLOCK_THREAD_CPUTIME_ID", dec 3); ("CLOCK_MONOTONIC_RAW", dec 4);
    ("CLOCK_REALTIME_COARSE", dec 5); ("CLOCK_MONOTONIC_COARSE", dec 6);
    ("CLOCK_BOOTTIME", dec 7); ("CLOCK_REALTIME_ALARM", dec 8); ("CLOCK_BOOTTIME_ALARM", dec 9);
    ("CLOCK_SGI_CYCLE", dec 10); ("CLOCK_TAI", dec 11); ("MAX_CLOCKS", dec 16);
    ("CLOCKS_MASK", Or (Id "CLOCK_REALTIME") (Id "CLOCK_MONOTONIC"));
    ("CLOCKS_MONO", Id "CLOCK_MONOTONIC")]].
Definition header : header :=
  Header "linux/time.h" [] (concat [
    defs_CLOCK_REALTIME]).
End Time.

(** ** [linux/timex.h] *)

Module Timex.
Definition defs_ADJ_OFFSET : list decl := [
  Defines [
    ("ADJ_OFFSET", hex 0x0001); ("ADJ_FREQUENCY", hex 0x0002); ("ADJ_MAXERROR", hex 0x0004);
    ("ADJ_ESTERROR", hex 0x0008); ("ADJ_STATUS", hex 0x0010); ("ADJ_TIMECONST", hex 0x0020);
    ("ADJ_TAI", hex 0x0080); ("ADJ_SETOFFSET", hex 0x0100); ("ADJ_MICRO", hex 0x1000);
    ("ADJ_NANO", hex 0x2000); ("ADJ_TICK", hex 0x4000); ("ADJ_OFFSET_SINGLESHOT", hex 0x8001);
    ("ADJ_OFFSET_SS_READ", hex 0xa001); ("MOD_OFFSET", Id "ADJ_OFFSET");
    ("MOD_FREQUENCY", Id "ADJ_FREQUENCY"); ("MOD_MAXERROR", Id "ADJ_MAXERROR");
    ("MOD_ESTERROR", Id "ADJ_ESTERROR"); ("MOD_STATUS", Id "ADJ_STATUS");
    ("MOD_TIMECONST", Id "ADJ_TIMECONST"); ("MOD_TAI", Id "ADJ_TAI");
    ("MOD_MICRO", Id "ADJ_MICRO"); ("MOD_NANO", Id "ADJ_NANO")];
  Defines [
    ("STA_PLL", hex 0x0001); ("STA_PPSFREQ", hex 0x0002); ("STA_PPSTIME", hex 0x0004);
    ("STA_FLL", hex 0x0008); ("STA_INS", hex 0x0010); ("STA_DEL", hex 0x0020);
    ("STA_UNSYNC", hex 0x0040); ("STA_FREQHOLD", hex 0x0080); ("STA_PPSSIGNAL", hex 0x0100);
    ("STA_PPSJITTER", hex 0x0200); ("STA_PPSWANDER", hex 0x0400); ("STA_PPSERROR", hex 0x0800);
    ("STA_CLOCKERR", hex 0x1000); ("STA_NANO", hex 0x2000); ("STA_MODE", hex 0x4000);
    ("STA_CLK", hex 0x8000);
    ("STA_RONLY", Or (Or (Or (Or (Or (Or (Or (Id "STA_PPSSIGNAL") (Id "STA_PPSJITTER")) (Id "STA_PPSWANDER")) (Id "STA_PPSERROR")) (Id "STA_CLOCKERR")) (Id "STA_NANO")) (Id "STA_MODE")) (Id "STA_CLK"))];
  Defines [
    ("TIME_OK", dec 0); ("TIME_INS", dec 1); ("TIME_DEL", dec 2); ("TIME_OOP", dec 3);
    ("TIME_WAIT", dec 4); ("TIME_ERROR", dec 5); ("TIME_BAD", Id "TIME_ERROR")]].
Definition header : header :=
  Header "linux/timex.h" [] (concat [
    defs_ADJ_OFFSET]).
End Timex.

(** ** [linux/tty_flags.h] *)

Module Tty_flags.
Definition defs_ASYNCB_HUP_NOTIFY : list decl := [
  Defines [
    ("ASYNCB_HUP_NOTIFY", dec 0); ("ASYNCB_FOURPORT", dec 1); ("ASYNCB_SAK", dec 2);
    ("ASYNCB_SPLIT_TERMIOS", dec 3); ("ASYNCB_SPD_HI", dec 4); ("ASYNCB_SPD_VHI", dec 5);
    ("ASYNCB_SKIP_TEST", dec 6); ("ASYNCB_AUTO_IRQ", dec 7); ("ASYNCB_SESSION_LOCKOUT", dec 8);
    ("ASYNCB_PGRP_LOCKOUT", dec 9); ("ASYNCB_CALLOUT_NOHUP", dec 10);
    ("ASYNCB_HARDPPS_CD", dec 11); ("ASYNCB_SPD_SHI", dec 12); ("ASYNCB_LOW_LATENCY", dec 13);
    ("ASYNCB_BUGGY_UART", dec 14); ("ASYNCB_AUTOPROBE", dec 15);
    ("ASYNCB_MAGIC_MULTIPLIER", dec 16); ("ASYNCB_LAST_USER", dec 16);
    ("ASYNCB_INITIALIZED", dec 31); ("ASYNCB_SUSPENDED", dec 30);
    ("ASYNCB_NORMAL_ACTIVE", dec 29); ("ASYNCB_BOOT_AUTOCONF", dec 28);
    ("ASYNCB_CLOSING", dec 27); ("ASYNCB_CTS_FLOW", dec 26); ("ASYNCB_CHECK_CD", dec 25);
    ("ASYNCB_SHARE_IRQ", dec 24); ("ASYNCB_CONS_FLOW", dec 23); ("ASYNCB_FIRST_KERNEL", dec 22);
    ("ASYNC_HUP_NOTIFY", Shl (decU 1) (Id "ASYNCB_HUP_NOTIFY"));
    ("ASYNC_SUSPENDED", Shl (decU 1) (Id "ASYNCB_SUSPENDED"));
    ("ASYNC_FOURPORT", Shl (decU 1) (Id "ASYNCB_FOURPORT"));
    ("ASYNC_SAK", Shl (decU 1) (Id "ASYNCB_SAK"));
    ("ASYNC_SPLIT_TERMIOS", Shl (decU 1) (Id "ASYNCB_SPLIT_TERMIOS"));
    ("ASYNC_SPD_HI", Shl (decU 1) (Id "ASYNCB_SPD_HI"));
    ("ASYNC_SPD_VHI", Shl (decU 1) (Id "ASYNCB_SPD_VHI"));
    ("ASYNC_SKIP_TEST", Shl (decU 1) (Id "ASYNCB_SKIP_TEST"));
    ("ASYNC_AUTO_IRQ", Shl (decU 1) (Id "ASYNCB_AUTO_IRQ"));
    ("ASYNC_SESSION_LOCKOUT", Shl (decU 1) (Id "ASYNCB_SESSION_LOCKOUT"));
    ("ASYNC_PGRP_LOCKOUT", Shl (decU 1) (Id "ASYNCB_PGRP_LOCKOUT"));
    ("ASYNC_CALLOUT_NOHUP", Shl (decU 1) (Id "ASYNCB_CALLOUT_NOHUP"));
    ("ASYNC_HARDPPS_CD", Shl (decU 1) (Id "ASYNCB_HARDPPS_CD"));
    ("ASYNC_SPD_SHI", Shl (decU 1) (Id "ASYNCB_SPD_SHI"));
    ("ASYNC_LOW_LATENCY", Shl (decU 1) (Id "ASYNCB_LOW_LATENCY"));
    ("ASYNC_BUGGY_UART", Shl (decU 1) (Id "ASYNCB_BUGGY_UART"));
    ("ASYNC_AUTOPROBE", Shl (decU 1) (Id "ASYNCB_AUTOPROBE"));
    ("ASYNC_MAGIC_MULTIPLIER", Shl (decU 1) (Id "ASYNCB_MAGIC_MULTIPLIER"));
    ("ASYNC_FLAGS", Sub (Shl (decU 1) (Add (Id "ASYNCB_LAST_USER") (dec 1))) (dec 1));
    ("ASYNC_DEPRECATED", Or (Or (Or (Id "ASYNC_SESSION_LOCKOUT") (Id "ASYNC_PGRP_LOCKOUT")) (Id "ASYNC_CALLOUT_NOHUP")) (Id "ASYNC_AUTOPROBE"));
    ("ASYNC_USR_MASK", Or (Or (Id "ASYNC_SPD_MASK") (Id "ASYNC_CALLOUT_NOHUP")) (Id "ASYNC_LOW_LATENCY"));
    ("ASYNC_SPD_CUST", Or (Id "ASYNC_SPD_HI") (Id "ASYNC_SPD_VHI"));
    ("ASYNC_SPD_WARP", Or (Id "ASYNC_SPD_HI") (Id "ASYNC_SPD_SHI"));
    ("ASYNC_SPD_MASK", Or (Or (Id "ASYNC_SPD_HI") (Id "ASYNC_SPD_VHI")) (Id "ASYNC_SPD_SHI"));
    ("ASYNC_INITIALIZED", Shl (decU 1) (Id "ASYNCB_INITIALIZED"));
    ("ASYNC_NORMAL_ACTIVE", Shl (decU 1) (Id "ASYNCB_NORMAL_ACTIVE"));
    ("ASYNC_BOOT_AUTOCONF", Shl (decU 1) (Id "ASYNCB_BOOT_AUTOCONF"));
    ("ASYNC_CLOSING", Shl (decU 1) (Id "ASYNCB_CLOSING"));
    ("ASYNC_CTS_FLOW", Shl (decU 1) (Id "ASYNCB_CTS_FLOW"));
    ("ASYNC_CHECK_CD", Shl (decU 1) (Id "ASYNCB_CHECK_CD"));
    ("ASYNC_SHARE_IRQ", Shl (decU 1) (Id "ASYNCB_SHARE_IRQ"));
    ("ASYNC_CONS_FLOW", Shl (decU 1) (Id "ASYNCB_CONS_FLOW"));
    ("ASYNC_INTERNAL_FLAGS", Not (Sub (Shl (decU 1) (Id "ASYNCB_FIRST_KERNEL")) (dec 1)))]].
Definition header : header :=
  Header "linux/tty_flags.h" [] (concat [
    defs_ASYNCB_HUP_NOTIFY]).
End Tty_flags.

(** ** [linux/userfaultfd.h] *)

Module Userfaultfd.
Definition defs__UFFDIO_REGISTER : list decl := [
  Defines [
    ("_UFFDIO_REGISTER", hex 0x00); ("_UFFDIO_UNREGISTER", hex 0x01); ("_UFFDIO_WAKE", hex 0x02);
    ("_UFFDIO_COPY", hex 0x03); ("_UFFDIO_ZEROPAGE", hex 0x04); ("_UFFDIO_API", hex 0x3F);
    ("UFFDIO", hex 0xAA)]].
Definition header : header :=
  Header "linux/userfaultfd.h" [] (concat [
    defs__UFFDIO_REGISTER]).
End Userfaultfd.

(** ** [linux/vfio.h] *)

Module Vfio.
Definition defs_VFIO_DMA_CC_IOMMU : list decl := [
  Defines [
    ("VFIO_DMA_CC_IOMMU", dec 4); ("VFIO_EEH", dec 5); ("VFIO_TYPE1_NESTING_IOMMU", dec 6);
    ("VFIO_SPAPR_TCE_v2_IOMMU", dec 7)]].
Definition enum_VFIO_PCI_BAR0_REGION_INDEX : list decl := [
  Enum [
    ("VFIO_PCI_BAR0_REGION_INDEX", None); ("VFIO_PCI_BAR1_REGION_INDEX", None);
    ("VFIO_PCI_BAR2_REGION_INDEX", None); ("VFIO_PCI_BAR3_REGION_INDEX", None);
    ("VFIO_PCI_BAR4_REGION_INDEX", None); ("VFIO_PCI_BAR5_REGION_INDEX", None);
    ("VFIO_PCI_ROM_REGION_INDEX", None); ("VFIO_PCI_CONFIG_REGION_INDEX", None);
    ("VFIO_PCI_VGA_REGION_INDEX", None); ("VFIO_PCI_NUM_REGIONS", None)];
  Enum [
    ("VFIO_PCI_INTX_IRQ_INDEX", None); ("VFIO_PCI_MSI_IRQ_INDEX", None);
    ("VFIO_PCI_MSIX_IRQ_INDEX", None); ("VFIO_PCI_ERR_IRQ_INDEX", None);
    ("VFIO_PCI_REQ_IRQ_INDEX", None); ("VFIO_PCI_NUM_IRQS", None)]].
Definition defs_VFIO_EEH_PE_DISABLE : list decl := [
  Defines [
    ("VFIO_EEH_PE_DISABLE", dec 0); ("VFIO_EEH_PE_ENABLE", dec 1);
    ("VFIO_EEH_PE_UNFREEZE_IO", dec 2); ("VFIO_EEH_PE_UNFREEZE_DMA", dec 3);
    ("VFIO_EEH_PE_GET_STATE", dec 4); ("VFIO_EEH_PE_STATE_NORMAL", dec 0);
    ("VFIO_EEH_PE_STATE_RESET", dec 1); ("VFIO_EEH_PE_STATE_STOPPED", dec 2);
    ("VFIO_EEH_PE_STATE_STOPPED_DMA", dec 4); ("VFIO_EEH_PE_STATE_UNAVAIL", dec 5);
    ("VFIO_EEH_PE_RESET_DEACTIVATE", dec 5); ("VFIO_EEH_PE_RESET_HOT", dec 6);
    ("VFIO_EEH_PE_RESET_FUNDAMENTAL", dec 7); ("VFIO_EEH_PE_CONFIGURE", dec 8);
    ("VFIO_EEH_PE_INJECT_ERR", dec 9)]].
Definition header : header :=
  Header "linux/vfio.h" [] (concat [
    defs_VFIO_DMA_CC_IOMMU; enum_VFIO_PCI_BAR0_REGION_INDEX; defs_VFIO_EEH_PE_DISABLE]).
End Vfio.

(** ** [linux/virtio_balloon.h] *)

Module Virtio_balloon.
Definition defs_VIRTIO_BALLOON_F_MUST_TELL_HOST : list decl := [
  Defines [
    ("VIRTIO_BALLOON_F_MUST_TELL_HOST", dec 0); ("VIRTIO_BALLOON_F_STATS_VQ", dec 1);
    ("VIRTIO_BALLOON_F_DEFLATE_ON_OOM", dec 2); ("VIRTIO_BALLOON_PFN_SHIFT", dec 12)]].
Definition defs_VIRTIO_BALLOON_S_SWAP_IN : list decl := [
  Defines [
    ("VIRTIO_BALLOON_S_SWAP_IN", dec 0); ("VIRTIO_BALLOON_S_SWAP_OUT", dec 1);
    ("VIRTIO_BALLOON_S_MAJFLT", dec 2); ("VIRTIO_BALLOON_S_MINFLT", dec 3);
    ("VIRTIO_BALLOON_S_MEMFREE", dec 4); ("VIRTIO_BALLOON_S_MEMTOT", dec 5);
    ("VIRTIO_BALLOON_S_NR", dec 6)]].
Definition header : header :=
  Header "linux/virtio_balloon.h" [] (concat [
    defs_VIRTIO_BALLOON_F_MUST_TELL_HOST; defs_VIRTIO_BALLOON_S_SWAP_IN]).
End Virtio_balloon.

(** ** [linux/virtio_blk.h] *)

Module Virtio_blk.
Definition defs_VIRTIO_BLK_F_SIZE_MAX : list decl := [
  Defines [
    ("VIRTIO_BLK_F_SIZE_MAX", dec 1); ("VIRTIO_BLK_F_SEG_MAX", dec 2);
    ("VIRTIO_BLK_F_GEOMETRY", dec 4); ("VIRTIO_BLK_F_RO", dec 5);
    ("VIRTIO_BLK_F_BLK_SIZE", dec 6); ("VIRTIO_BLK_F_TOPOLOGY", dec 10);
    ("VIRTIO_BLK_F_MQ", dec 12)];
  Defines [
    ("VIRTIO_BLK_F_BARRIER", dec 0); ("VIRTIO_BLK_F_SCSI", dec 7); ("VIRTIO_BLK_F_WCE", dec 9);
    ("VIRTIO_BLK_F_CONFIG_WCE", dec 11); ("VIRTIO_BLK_F_FLUSH", Id "VIRTIO_BLK_F_WCE")]].
Definition header : header :=
  Header "linux/virtio_blk.h" [] (concat [
    defs_VIRTIO_BLK_F_SIZE_MAX]).
End Virtio_blk.

(** ** [linux/virtio_config.h] *)

Module Virtio_config.
Definition defs_VIRTIO_CONFIG_S_ACKNOWLEDGE : list decl := [
  Defines [
    ("VIRTIO_CONFIG_S_ACKNOWLEDGE", dec 1); ("VIRTIO_CONFIG_S_DRIVER", dec 2);
    ("VIRTIO_CONFIG_S_DRIVER_OK", dec 4); ("VIRTIO_CONFIG_S_FEATURES_OK", dec 8);
    ("VIRTIO_CONFIG_S_FAILED", hex 0x80)]].
Definition header : header :=
  Header "linux/virtio_config.h" [] (concat [
    defs_VIRTIO_CONFIG_S_ACKNOWLEDGE]).
End Virtio_config.

(** ** [linux/virtio_console.h] *)

Module Virtio_console.
Definition defs_VIRTIO_CONSOLE_DEVICE_READY : list decl := [
  Defines [
    ("VIRTIO_CONSOLE_DEVICE_READY", dec 0); ("VIRTIO_CONSOLE_PORT_ADD", dec 1);
    ("VIRTIO_CONSOLE_PORT_REMOVE", dec 2); ("VIRTIO_CONSOLE_PORT_READY", dec 3);
    ("VIRTIO_CONSOLE_CONSOLE_PORT", dec 4); ("VIRTIO_CONSOLE_RESIZE", dec 5);
    ("VIRTIO_CONSOLE_PORT_OPEN", dec 6); ("VIRTIO_CONSOLE_PORT_NAME", dec 7)]].
Definition header : header :=
  Header "linux/virtio_console.h" [] (concat [
    defs_VIRTIO_CONSOLE_DEVICE_READY]).
End Virtio_console.

(** ** [linux/virtio_gpu.h] *)

Module Virtio_gpu.
Definition enum_virtio_gpu_ctrl_type : list decl := [
  Enum [
    ("VIRTIO_GPU_UNDEFINED", Some (dec 0));
    ("VIRTIO_GPU_CMD_GET_DISPLAY_INFO", Some (hex 0x0100));
    ("VIRTIO_GPU_CMD_RESOURCE_CREATE_2D", None); ("VIRTIO_GPU_CMD_RESOURCE_UNREF", None);
    ("VIRTIO_GPU_CMD_SET_SCANOUT", None); ("VIRTIO_GPU_CMD_RESOURCE_FLUSH", None);
    ("VIRTIO_GPU_CMD_TRANSFER_TO_HOST_2D", None);
    ("VIRTIO_GPU_CMD_RESOURCE_ATTACH_BACKING", None);
    ("VIRTIO_GPU_CMD_RESOURCE_DETACH_BACKING", None); ("VIRTIO_GPU_CMD_GET_CAPSET_INFO", None);
    ("VIRTIO_GPU_CMD_GET_CAPSET", None); ("VIRTIO_GPU_CMD_CTX_CREATE", Some (hex 0x0200));
    ("VIRTIO_GPU_CMD_CTX_DESTROY", None); ("VIRTIO_GPU_CMD_CTX_ATTACH_RESOURCE", None);
    ("VIRTIO_GPU_CMD_CTX_DETACH_RESOURCE", None); ("VIRTIO_GPU_CMD_RESOURCE_CREATE_3D", None);
    ("VIRTIO_GPU_CMD_TRANSFER_TO_HOST_3D", None); ("VIRTIO_GPU_CMD_TRANSFER_FROM_HOST_3D", None);
    ("VIRTIO_GPU_CMD_SUBMIT_3D", None); ("VIRTIO_GPU_CMD_UPDATE_CURSOR", Some (hex 0x0300));
    ("VIRTIO_GPU_CMD_MOVE_CURSOR", None); ("VIRTIO_GPU_RESP_OK_NODATA", Some (hex 0x1100));
    ("VIRTIO_GPU_RESP_OK_DISPLAY_INFO", None); ("VIRTIO_GPU_RESP_OK_CAPSET_INFO", None);
    ("VIRTIO_GPU_RESP_OK_CAPSET", None); ("VIRTIO_GPU_RESP_ERR_UNSPEC", Some (hex 0x1200));
    ("VIRTIO_GPU_RESP_ERR_OUT_OF_MEMORY", None);
    ("VIRTIO_GPU_RESP_ERR_INVALID_SCANOUT_ID", None);
    ("VIRTIO_GPU_RESP_ERR_INVALID_RESOURCE_ID", None);
    ("VIRTIO_GPU_RESP_ERR_INVALID_CONTEXT_ID", None);
    ("VIRTIO_GPU_RESP_ERR_INVALID_PARAMETER", None)];
  Defines [
    ("VIRTIO_GPU_FLAG_FENCE", Shl (dec 1) (dec 0))]].
Definition enum_virtio_gpu_formats : list decl := [
  Enum [
    ("VIRTIO_GPU_FORMAT_B8G8R8A8_UNORM", Some (dec 1));
    ("VIRTIO_GPU_FORMAT_B8G8R8X8_UNORM", Some (dec 2));
    ("VIRTIO_GPU_FORMAT_A8R8G8B8_UNORM", Some (dec 3));
    ("VIRTIO_GPU_FORMAT_X8R8G8B8_UNORM", Some (dec 4));
    ("VIRTIO_GPU_FORMAT_R8G8B8A8_UNORM", Some (dec 67));
    ("VIRTIO_GPU_FORMAT_X8B8G8R8_UNORM", Some (dec 68));
    ("VIRTIO_GPU_FORMAT_A8B8G8R8_UNORM", Some (dec 121));
    ("VIRTIO_GPU_FORMAT_R8G8B8X8_UNORM", Some (dec 134))]].
Definition header : header :=
  Header "linux/virtio_gpu.h" [] (concat [
    enum_virtio_gpu_ctrl_type; enum_virtio_gpu_formats]).
End Virtio_gpu.

(** ** [linux/virtio_ids.h] *)

Module Virtio_ids.
Definition defs_VIRTIO_ID_NET : list decl := [
  Defines [
    ("VIRTIO_ID_NET", dec 1); ("VIRTIO_ID_BLOCK", dec 2); ("VIRTIO_ID_CONSOLE", dec 3);
    ("VIRTIO_ID_RNG", dec 4); ("VIRTIO_ID_BALLOON", dec 5); ("VIRTIO_ID_RPMSG", dec 7);
    ("VIRTIO_ID_SCSI", dec 8); ("VIRTIO_ID_9P", dec 9); ("VIRTIO_ID_RPROC_SERIAL", dec 11);
    ("VIRTIO_ID_CAIF", dec 12); ("VIRTIO_ID_GPU", dec 16); ("VIRTIO_ID_INPUT", dec 18);
    ("VIRTIO_ID_VSOCK", dec 19); ("VIRTIO_ID_I2C", dec 32)]].
Definition header : header :=
  Header "linux/virtio_ids.h" [] (concat [
    defs_VIRTIO_ID_NET]).
End Virtio_ids.

(** ** [linux/virtio_input.h] *)

Module Virtio_input.
Definition enum_virtio_input_config_select : list decl := [
  Enum [
    ("VIRTIO_INPUT_CFG_UNSET", Some (hex 0x00)); ("VIRTIO_INPUT_CFG_ID_NAME", Some (hex 0x01));
    ("VIRTIO_INPUT_CFG_ID_SERIAL", Some (hex 0x02));
    ("VIRTIO_INPUT_CFG_ID_DEVIDS", Some (hex 0x03));
    ("VIRTIO_INPUT_CFG_PROP_BITS", Some (hex 0x10));
    ("VIRTIO_INPUT_CFG_EV_BITS", Some (hex 0x11)); ("VIRTIO_INPUT_CFG_ABS_INFO", Some (hex 0x12))]].
Definition header : header :=
  Header "linux/virtio_input.h" [] (concat [
    enum_virtio_input_config_select]).
End Virtio_input.

(** ** [linux/virtio_net.h] *)

Module Virtio_net.
Definition defs_VIRTIO_NET_F_CSUM : list decl := [
  Defines [
    ("VIRTIO_NET_F_CSUM", dec 0); ("VIRTIO_NET_F_GUEST_CSUM", dec 1);
    ("VIRTIO_NET_F_CTRL_GUEST_OFFLOADS", dec 2); ("VIRTIO_NET_F_MAC", dec 5);
    ("VIRTIO_NET_F_GUEST_TSO4", dec 7); ("VIRTIO_NET_F_GUEST_TSO6", dec 8);
    ("VIRTIO_NET_F_GUEST_ECN", dec 9); ("VIRTIO_NET_F_GUEST_UFO", dec 10);
    ("VIRTIO_NET_F_HOST_TSO4", dec 11); ("VIRTIO_NET_F_HOST_TSO6", dec 12);
    ("VIRTIO_NET_F_HOST_ECN", dec 13); ("VIRTIO_NET_F_HOST_UFO", dec 14);
    ("VIRTIO_NET_F_MRG_RXBUF", dec 15); ("VIRTIO_NET_F_STATUS", dec 16);
    ("VIRTIO_NET_F_CTRL_VQ", dec 17); ("VIRTIO_NET_F_CTRL_RX", dec 18);
    ("VIRTIO_NET_F_CTRL_VLAN", dec 19); ("VIRTIO_NET_F_CTRL_RX_EXTRA", dec 20);
    ("VIRTIO_NET_F_GUEST_ANNOUNCE", dec 21); ("VIRTIO_NET_F_MQ", dec 22);
    ("VIRTIO_NET_F_CTRL_MAC_ADDR", dec 23)]].
Definition defs_VIRTIO_NET_CTRL_RX : list decl := [
  Defines [
    ("VIRTIO_NET_CTRL_RX", dec 0); ("VIRTIO_NET_CTRL_RX_PROMISC", dec 0);
    ("VIRTIO_NET_CTRL_RX_ALLMULTI", dec 1); ("VIRTIO_NET_CTRL_RX_ALLUNI", dec 2);
    ("VIRTIO_NET_CTRL_RX_NOMULTI", dec 3); ("VIRTIO_NET_CTRL_RX_NOUNI", dec 4);
    ("VIRTIO_NET_CTRL_RX_NOBCAST", dec 5)]].
Definition defs_VIRTIO_NET_CTRL_MQ : list decl := [
  Defines [
    ("VIRTIO_NET_CTRL_MQ", dec 4); ("VIRTIO_NET_CTRL_MQ_VQ_PAIRS_SET", dec 0);
    ("VIRTIO_NET_CTRL_MQ_VQ_PAIRS_MIN", dec 1); ("VIRTIO_NET_CTRL_MQ_VQ_PAIRS_MAX", hex 0x8000)]].
Definition header : header :=
  Header "linux/virtio_net.h" [] (concat [
    defs_VIRTIO_NET_F_CSUM; defs_VIRTIO_NET_CTRL_RX; defs_VIRTIO_NET_CTRL_MQ]).
End Virtio_net.

(** ** [linux/virtio_pci.h] *)

Module Virtio_pci.
Definition defs_VIRTIO_PCI_HOST_FEATURES : list decl := [
  Defines [
    ("VIRTIO_PCI_HOST_FEATURES", dec 0); ("VIRTIO_PCI_GUEST_FEATURES", dec 4);
    ("VIRTIO_PCI_QUEUE_PFN", dec 8); ("VIRTIO_PCI_QUEUE_NUM", dec 12);
    ("VIRTIO_PCI_QUEUE_SEL", dec 14); ("VIRTIO_PCI_QUEUE_NOTIFY", dec 16);
    ("VIRTIO_PCI_STATUS", dec 18)]].
Definition defs_VIRTIO_PCI_CAP_COMMON_CFG : list decl := [
  Defines [
    ("VIRTIO_PCI_CAP_COMMON_CFG", dec 1); ("VIRTIO_PCI_CAP_NOTIFY_CFG", dec 2);
    ("VIRTIO_PCI_CAP_ISR_CFG", dec 3); ("VIRTIO_PCI_CAP_DEVICE_CFG", dec 4);
    ("VIRTIO_PCI_CAP_PCI_CFG", dec 5)]].
Definition defs_VIRTIO_PCI_CAP_VNDR : list decl := [
  Defines [
    ("VIRTIO_PCI_CAP_VNDR", dec 0); ("VIRTIO_PCI_CAP_NEXT", dec 1);
    ("VIRTIO_PCI_CAP_LEN", dec 2); ("VIRTIO_PCI_CAP_CFG_TYPE", dec 3);
    ("VIRTIO_PCI_CAP_BAR", dec 4); ("VIRTIO_PCI_CAP_OFFSET", dec 8);
    ("VIRTIO_PCI_CAP_LENGTH", dec 12); ("VIRTIO_PCI_NOTIFY_CAP_MULT", dec 16);
    ("VIRTIO_PCI_COMMON_DFSELECT", dec 0); ("VIRTIO_PCI_COMMON_DF", dec 4);
    ("VIRTIO_PCI_COMMON_GFSELECT", dec 8); ("VIRTIO_PCI_COMMON_GF", dec 12);
    ("VIRTIO_PCI_COMMON_MSIX", dec 16); ("VIRTIO_PCI_COMMON_NUMQ", dec 18);
    ("VIRTIO_PCI_COMMON_STATUS", dec 20); ("VIRTIO_PCI_COMMON_CFGGENERATION", dec 21);
    ("VIRTIO_PCI_COMMON_Q_SELECT", dec 22); ("VIRTIO_PCI_COMMON_Q_SIZE", dec 24);
    ("VIRTIO_PCI_COMMON_Q_MSIX", dec 26); ("VIRTIO_PCI_COMMON_Q_ENABLE", dec 28);
    ("VIRTIO_PCI_COMMON_Q_NOFF", dec 30); ("VIRTIO_PCI_COMMON_Q_DESCLO", dec 32);
    ("VIRTIO_PCI_COMMON_Q_DESCHI", dec 36); ("VIRTIO_PCI_COMMON_Q_AVAILLO", dec 40);
    ("VIRTIO_PCI_COMMON_Q_AVAILHI", dec 44); ("VIRTIO_PCI_COMMON_Q_USEDLO", dec 48);
    ("VIRTIO_PCI_COMMON_Q_USEDHI", dec 52)]].
Definition header : header :=
  Header "linux/virtio_pci.h" [] (concat [
    defs_VIRTIO_PCI_HOST_FEATURES; defs_VIRTIO_PCI_CAP_COMMON_CFG; defs_VIRTIO_PCI_CAP_VNDR]).
End Virtio_pci.

(** ** [linux/virtio_scsi.h] *)

Module Virtio_scsi.
Definition defs_VIRTIO_SCSI_F_INOUT : list decl := [
  Defines [
    ("VIRTIO_SCSI_F_INOUT", dec 0); ("VIRTIO_SCSI_F_HOTPLUG", dec 1);
    ("VIRTIO_SCSI_F_CHANGE", dec 2); ("VIRTIO_SCSI_F_T10_PI", dec 3);
    ("VIRTIO_SCSI_S_OK", dec 0); ("VIRTIO_SCSI_S_OVERRUN", dec 1);
    ("VIRTIO_SCSI_S_ABORTED", dec 2); ("VIRTIO_SCSI_S_BAD_TARGET", dec 3);
    ("VIRTIO_SCSI_S_RESET", dec 4); ("VIRTIO_SCSI_S_BUSY", dec 5);
    ("VIRTIO_SCSI_S_TRANSPORT_FAILURE", dec 6); ("VIRTIO_SCSI_S_TARGET_FAILURE", dec 7);
    ("VIRTIO_SCSI_S_NEXUS_FAILURE", dec 8); ("VIRTIO_SCSI_S_FAILURE", dec 9);
    ("VIRTIO_SCSI_S_FUNCTION_SUCCEEDED", dec 10); ("VIRTIO_SCSI_S_FUNCTION_REJECTED", dec 11);
    ("VIRTIO_SCSI_S_INCORRECT_LUN", dec 12); ("VIRTIO_SCSI_T_TMF", dec 0);
    ("VIRTIO_SCSI_T_AN_QUERY", dec 1); ("VIRTIO_SCSI_T_AN_SUBSCRIBE", dec 2);
    ("VIRTIO_SCSI_T_TMF_ABORT_TASK", dec 0); ("VIRTIO_SCSI_T_TMF_ABORT_TASK_SET", dec 1);
    ("VIRTIO_SCSI_T_TMF_CLEAR_ACA", dec 2); ("VIRTIO_SCSI_T_TMF_CLEAR_TASK_SET", dec 3);
    ("VIRTIO_SCSI_T_TMF_I_T_NEXUS_RESET", dec 4);
    ("VIRTIO_SCSI_T_TMF_LOGICAL_UNIT_RESET", dec 5); ("VIRTIO_SCSI_T_TMF_QUERY_TASK", dec 6);
    ("VIRTIO_SCSI_T_TMF_QUERY_TASK_SET", dec 7); ("VIRTIO_SCSI_T_EVENTS_MISSED", hex 0x80000000);
    ("VIRTIO_SCSI_T_NO_EVENT", dec 0); ("VIRTIO_SCSI_T_TRANSPORT_RESET", dec 1);
    ("VIRTIO_SCSI_T_ASYNC_NOTIFY", dec 2); ("VIRTIO_SCSI_T_PARAM_CHANGE", dec 3);
    ("VIRTIO_SCSI_EVT_RESET_HARD", dec 0); ("VIRTIO_SCSI_EVT_RESET_RESCAN", dec 1);
    ("VIRTIO_SCSI_EVT_RESET_REMOVED", dec 2); ("VIRTIO_SCSI_S_SIMPLE", dec 0);
    ("VIRTIO_SCSI_S_ORDERED", dec 1); ("VIRTIO_SCSI_S_HEAD", dec 2); ("VIRTIO_SCSI_S_ACA", dec 3)]].
Definition header : header :=
  Header "linux/virtio_scsi.h" [] (concat [
    defs_VIRTIO_SCSI_F_INOUT]).
End Virtio_scsi.

(** ** [linux/virtio_vsock.h] *)

Module Virtio_vsock.
Definition enum_virtio_vsock_op : list decl := [
  Enum [
    ("VIRTIO_VSOCK_OP_INVALID", Some (dec 0)); ("VIRTIO_VSOCK_OP_REQUEST", Some (dec 1));
    ("VIRTIO_VSOCK_OP_RESPONSE", Some (dec 2)); ("VIRTIO_VSOCK_OP_RST", Some (dec 3));
    ("VIRTIO_VSOCK_OP_SHUTDOWN", Some (dec 4)); ("VIRTIO_VSOCK_OP_RW", Some (dec 5));
    ("VIRTIO_VSOCK_OP_CREDIT_UPDATE", Some (dec 6));
    ("VIRTIO_VSOCK_OP_CREDIT_REQUEST", Some (dec 7))]].
Definition header : header :=
  Header "linux/virtio_vsock.h" [] (concat [
    enum_virtio_vsock_op]).
End Virtio_vsock.

(** ** [misc/cxl.h] *)

Module Misc_cxl.
Definition defs_CXL_START_WORK_AMR : list decl := [
  Defines [
    ("CXL_START_WORK_AMR", hexULL 0x0000000000000001);
    ("CXL_START_WORK_NUM_IRQS", hexULL 0x0000000000000002);
    ("CXL_START_WORK_ERR_FF", hexULL 0x0000000000000004);
    ("CXL_START_WORK_ALL", Or (Or (Id "CXL_START_WORK_AMR") (Id "CXL_START_WORK_NUM_IRQS")) (Id "CXL_START_WORK_ERR_FF"));
    ("CXL_MODE_DEDICATED", hex 0x1); ("CXL_MODE_DIRECTED", hex 0x2);
    ("CXL_AFUID_FLAG_SLAVE", hex 0x1)]].
Definition enum_cxl_event_type : list decl := [
  Enum [
    ("CXL_EVENT_RESERVED", Some (dec 0)); ("CXL_EVENT_AFU_INTERRUPT", Some (dec 1));
    ("CXL_EVENT_DATA_STORAGE", Some (dec 2)); ("CXL_EVENT_AFU_ERROR", Some (dec 3))]].
Definition header : header :=
  Header "misc/cxl.h" [] (concat [
    defs_CXL_START_WORK_AMR; enum_cxl_event_type]).
End Misc_cxl.
