(* ===== verification/ConstDevices.v ===== *)
(** * Constants of input and other devices

    Macros and enumerations of these headers of [kernel-headers], one module per
    header: each table holds the consecutive definitions of one place. *)
From S2P Require Import Prelude.
From S2P Require Import CConst.
From S2P Require Import ConstBase.
From S2P Require Import ConstNetlink.
From S2P Require Import ConstStorage.
#[local] Open Scope string_scope.

(** ** [linux/acct.h] *)

Module Acct.
Definition defs_AFORK : list decl := [
  Defines [
    ("AFORK", hex 0x01); ("ASU", hex 0x02); ("ACOMPAT", hex 0x04); ("ACORE", hex 0x08);
    ("AXSIG", hex 0x10)]].
Definition header : header :=
  Header "linux/acct.h" [] (concat [
    defs_AFORK]).
End Acct.

(** ** [linux/adb.h] *)

Module Adb.
Definition defs_ADB_DONGLE : list decl := [
  Defines [
    ("ADB_DONGLE", dec 1); ("ADB_KEYBOARD", dec 2); ("ADB_MOUSE", dec 3); ("ADB_TABLET", dec 4);
    ("ADB_MODEM", dec 5); ("ADB_MISC", dec 7); ("ADB_RET_OK", dec 0); ("ADB_RET_TIMEOUT", dec 3);
    ("ADB_PACKET", dec 0); ("CUDA_PACKET", dec 1); ("ERROR_PACKET", dec 2);
    ("TIMER_PACKET", dec 3); ("POWER_PACKET", dec 4); ("MACIIC_PACKET", dec 5);
    ("PMU_PACKET", dec 6); ("ADB_QUERY", dec 7)]].
Definition header : header :=
  Header "linux/adb.h" [] (concat [
    defs_ADB_DONGLE]).
End Adb.

(** ** [linux/adfs_fs.h] *)

Module Adfs_fs.
Definition defs_ADFS_DISCRECORD : list decl := [
  Defines [
    ("ADFS_DISCRECORD", hex 0xc00); ("ADFS_DR_OFFSET", hex 0x1c0); ("ADFS_DR_SIZE", dec 60);
    ("ADFS_DR_SIZE_BITS", Shl (Id "ADFS_DR_SIZE") (dec 3))]].
Definition header : header :=
  Header "linux/adfs_fs.h" [] (concat [
    defs_ADFS_DISCRECORD]).
End Adfs_fs.

(** ** [linux/aio_abi.h] *)

Module Aio_abi.
Definition enum_IOCB_CMD_PREAD : list decl := [
  Enum [
    ("IOCB_CMD_PREAD", Some (dec 0)); ("IOCB_CMD_PWRITE", Some (dec 1));
    ("IOCB_CMD_FSYNC", Some (dec 2)); ("IOCB_CMD_FDSYNC", Some (dec 3));
    ("IOCB_CMD_NOOP", Some (dec 6)); ("IOCB_CMD_PREADV", Some (dec 7));
    ("IOCB_CMD_PWRITEV", Some (dec 8))]].
Definition header : header :=
  Header "linux/aio_abi.h" [] (concat [
    enum_IOCB_CMD_PREAD]).
End Aio_abi.

(** ** [linux/am437x-vpfe.h] *)

Module Am437x_vpfe.
Definition enum_vpfe_ccdc_data_size : list decl := [
  Enum [
    ("VPFE_CCDC_DATA_16BITS", Some (dec 0)); ("VPFE_CCDC_DATA_15BITS", None);
    ("VPFE_CCDC_DATA_14BITS", None); ("VPFE_CCDC_DATA_13BITS", None);
    ("VPFE_CCDC_DATA_12BITS", None); ("VPFE_CCDC_DATA_11BITS", None);
    ("VPFE_CCDC_DATA_10BITS", None); ("VPFE_CCDC_DATA_8BITS", None)];
  Enum [
    ("VPFE_CCDC_SAMPLE_1PIXELS", Some (dec 0)); ("VPFE_CCDC_SAMPLE_2PIXELS", None);
    ("VPFE_CCDC_SAMPLE_4PIXELS", None); ("VPFE_CCDC_SAMPLE_8PIXELS", None);
    ("VPFE_CCDC_SAMPLE_16PIXELS", None)];
  Enum [
    ("VPFE_CCDC_SAMPLE_1LINES", Some (dec 0)); ("VPFE_CCDC_SAMPLE_2LINES", None);
    ("VPFE_CCDC_SAMPLE_4LINES", None); ("VPFE_CCDC_SAMPLE_8LINES", None);
    ("VPFE_CCDC_SAMPLE_16LINES", None)];
  Enum [
    ("VPFE_CCDC_GAMMA_BITS_15_6", Some (dec 0)); ("VPFE_CCDC_GAMMA_BITS_14_5", None);
    ("VPFE_CCDC_GAMMA_BITS_13_4", None); ("VPFE_CCDC_GAMMA_BITS_12_3", None);
    ("VPFE_CCDC_GAMMA_BITS_11_2", None); ("VPFE_CCDC_GAMMA_BITS_10_1", None);
    ("VPFE_CCDC_GAMMA_BITS_09_0", None)]].
Definition header : header :=
  Header "linux/am437x-vpfe.h" [] (concat [
    enum_vpfe_ccdc_data_size]).
End Am437x_vpfe.

(** ** [linux/apm_bios.h] *)

Module Apm_bios.
Definition defs_APM_STATE_READY : list decl := [
  Defines [
    ("APM_STATE_READY", hex 0x0000); ("APM_STATE_STANDBY", hex 0x0001);
    ("APM_STATE_SUSPEND", hex 0x0002); ("APM_STATE_OFF", hex 0x0003);
    ("APM_STATE_BUSY", hex 0x0004); ("APM_STATE_REJECT", hex 0x0005);
    ("APM_STATE_OEM_SYS", hex 0x0020); ("APM_STATE_OEM_DEV", hex 0x0040);
    ("APM_STATE_DISABLE", hex 0x0000); ("APM_STATE_ENABLE", hex 0x0001);
    ("APM_STATE_DISENGAGE", hex 0x0000); ("APM_STATE_ENGAGE", hex 0x0001)];
  Defines [
    ("APM_SYS_STANDBY", hex 0x0001); ("APM_SYS_SUSPEND", hex 0x0002);
    ("APM_NORMAL_RESUME", hex 0x0003); ("APM_CRITICAL_RESUME", hex 0x0004);
    ("APM_LOW_BATTERY", hex 0x0005); ("APM_POWER_STATUS_CHANGE", hex 0x0006);
    ("APM_UPDATE_TIME", hex 0x0007); ("APM_CRITICAL_SUSPEND", hex 0x0008);
    ("APM_USER_STANDBY", hex 0x0009); ("APM_USER_SUSPEND", hex 0x000a);
    ("APM_STANDBY_RESUME", hex 0x000b); ("APM_CAPABILITY_CHANGE", hex 0x000c);
    ("APM_USER_HIBERNATION", hex 0x000d); ("APM_HIBERNATION_RESUME", hex 0x000e)];
  Defines [
    ("APM_SUCCESS", hex 0x00); ("APM_DISABLED", hex 0x01); ("APM_CONNECTED", hex 0x02);
    ("APM_NOT_CONNECTED", hex 0x03); ("APM_16_CONNECTED", hex 0x05);
    ("APM_16_UNSUPPORTED", hex 0x06); ("APM_32_CONNECTED", hex 0x07);
    ("APM_32_UNSUPPORTED", hex 0x08); ("APM_BAD_DEVICE", hex 0x09); ("APM_BAD_PARAM", hex 0x0a);
    ("APM_NOT_ENGAGED", hex 0x0b); ("APM_BAD_FUNCTION", hex 0x0c);
    ("APM_RESUME_DISABLED", hex 0x0d); ("APM_NO_ERROR", hex 0x53); ("APM_BAD_STATE", hex 0x60);
    ("APM_NO_EVENTS", hex 0x80); ("APM_NOT_PRESENT", hex 0x86)];
  Defines [
    ("APM_DEVICE_BIOS", hex 0x0000); ("APM_DEVICE_ALL", hex 0x0001);
    ("APM_DEVICE_DISPLAY", hex 0x0100); ("APM_DEVICE_STORAGE", hex 0x0200);
    ("APM_DEVICE_PARALLEL", hex 0x0300); ("APM_DEVICE_SERIAL", hex 0x0400);
    ("APM_DEVICE_NETWORK", hex 0x0500); ("APM_DEVICE_PCMCIA", hex 0x0600);
    ("APM_DEVICE_BATTERY", hex 0x8000); ("APM_DEVICE_OEM", hex 0xe000);
    ("APM_DEVICE_OLD_ALL", hex 0xffff); ("APM_DEVICE_CLASS", hex 0x00ff);
    ("APM_DEVICE_MASK", hex 0xff00)]].
Definition defs_APM_CAP_GLOBAL_STANDBY : list decl := [
  Defines [
    ("APM_CAP_GLOBAL_STANDBY", hex 0x0001); ("APM_CAP_GLOBAL_SUSPEND", hex 0x0002);
    ("APM_CAP_RESUME_STANDBY_TIMER", hex 0x0004); ("APM_CAP_RESUME_SUSPEND_TIMER", hex 0x0008);
    ("APM_CAP_RESUME_STANDBY_RING", hex 0x0010); ("APM_CAP_RESUME_SUSPEND_RING", hex 0x0020);
    ("APM_CAP_RESUME_STANDBY_PCMCIA", hex 0x0040); ("APM_CAP_RESUME_SUSPEND_PCMCIA", hex 0x0080)]].
Definition header : header :=
  Header "linux/apm_bios.h" [] (concat [
    defs_APM_STATE_READY; defs_APM_CAP_GLOBAL_STANDBY]).
End Apm_bios.

(** ** [linux/atm.h] *)

Module Atm.
Definition defs_ATM_CELL_SIZE : list decl := [
  Defines [
    ("ATM_CELL_SIZE", dec 53); ("ATM_CELL_PAYLOAD", dec 48); ("ATM_AAL0_SDU", dec 52);
    ("ATM_MAX_AAL34_PDU", dec 65535); ("ATM_AAL5_TRAILER", dec 8);
    ("ATM_MAX_AAL5_PDU", dec 65535); ("ATM_MAX_CDV", dec 9999); ("ATM_NOT_RSV_VCI", dec 32);
    ("ATM_MAX_VPI", dec 255); ("ATM_MAX_VPI_NNI", dec 4096); ("ATM_MAX_VCI", dec 65535);
    ("ATM_NO_AAL", dec 0); ("ATM_AAL0", dec 13); ("ATM_AAL1", dec 1); ("ATM_AAL2", dec 2);
    ("ATM_AAL34", dec 3); ("ATM_AAL5", dec 5)]].
Definition defs_ATM_HDR_GFC_MASK : list decl := [
  Defines [
    ("ATM_HDR_GFC_MASK", hex 0xf0000000); ("ATM_HDR_GFC_SHIFT", dec 28);
    ("ATM_HDR_VPI_MASK", hex 0x0ff00000); ("ATM_HDR_VPI_SHIFT", dec 20);
    ("ATM_HDR_VCI_MASK", hex 0x000ffff0); ("ATM_HDR_VCI_SHIFT", dec 4);
    ("ATM_HDR_PTI_MASK", hex 0x0000000e); ("ATM_HDR_PTI_SHIFT", dec 1);
    ("ATM_HDR_CLP", hex 0x00000001)];
  Defines [
    ("ATM_PTI_US0", dec 0); ("ATM_PTI_US1", dec 1); ("ATM_PTI_UCES0", dec 2);
    ("ATM_PTI_UCES1", dec 3); ("ATM_PTI_SEGF5", dec 4); ("ATM_PTI_E2EF5", dec 5);
    ("ATM_PTI_RSV_RM", dec 6); ("ATM_PTI_RSV", dec 7)];
  Defines [
    ("ATM_NONE", dec 0); ("ATM_UBR", dec 1); ("ATM_CBR", dec 2); ("ATM_VBR", dec 3);
    ("ATM_ABR", dec 4); ("ATM_ANYCLASS", dec 5); ("ATM_MAX_PCR", Neg (dec 1))]].
Definition defs_ATM_ITF_ANY : list decl := [
  Defines [
    ("ATM_ITF_ANY", Neg (dec 1)); ("ATM_VPI_ANY", Neg (dec 1)); ("ATM_VCI_ANY", Neg (dec 1));
    ("ATM_VPI_UNSPEC", Neg (dec 2)); ("ATM_VCI_UNSPEC", Neg (dec 2))]].
Definition defs_ATM_ESA_LEN : list decl := [
  Defines [
    ("ATM_ESA_LEN", dec 20); ("ATM_E164_LEN", dec 12); ("ATM_AFI_DCC", hex 0x39);
    ("ATM_AFI_ICD", hex 0x47); ("ATM_AFI_E164", hex 0x45); ("ATM_AFI_LOCAL", hex 0x49);
    ("ATM_AFI_DCC_GROUP", hex 0xBD); ("ATM_AFI_ICD_GROUP", hex 0xC5);
    ("ATM_AFI_E164_GROUP", hex 0xC3); ("ATM_AFI_LOCAL_GROUP", hex 0xC7); ("ATM_LIJ_NONE", dec 0);
    ("ATM_LIJ", dec 1); ("ATM_LIJ_RPJ", dec 2); ("ATM_LIJ_NJ", dec 3)]].
Definition header : header :=
  Header "linux/atm.h" [] (concat [
    defs_ATM_CELL_SIZE; defs_ATM_HDR_GFC_MASK; defs_ATM_ITF_ANY; defs_ATM_ESA_LEN]).
End Atm.

(** ** [linux/auxvec.h] *)

Module Auxvec.
Definition defs_AT_NULL : list decl := [
  Defines [
    ("AT_NULL", dec 0); ("AT_IGNORE", dec 1); ("AT_EXECFD", dec 2); ("AT_PHDR", dec 3);
    ("AT_PHENT", dec 4); ("AT_PHNUM", dec 5); ("AT_PAGESZ", dec 6); ("AT_BASE", dec 7);
    ("AT_FLAGS", dec 8); ("AT_ENTRY", dec 9); ("AT_NOTELF", dec 10); ("AT_UID", dec 11);
    ("AT_EUID", dec 12); ("AT_GID", dec 13); ("AT_EGID", dec 14); ("AT_PLATFORM", dec 15);
    ("AT_HWCAP", dec 16); ("AT_CLKTCK", dec 17); ("AT_SECURE", dec 23);
    ("AT_BASE_PLATFORM", dec 24); ("AT_RANDOM", dec 25); ("AT_HWCAP2", dec 26);
    ("AT_EXECFN", dec 31)]].
Definition header : header :=
  Header "linux/auxvec.h" [] (concat [
    defs_AT_NULL]).
End Auxvec.

(** ** [linux/b1lli.h] *)

Module B1lli.
Definition defs_AVM_CARDTYPE_B1 : list decl := [
  Defines [
    ("AVM_CARDTYPE_B1", dec 0); ("AVM_CARDTYPE_T1", dec 1); ("AVM_CARDTYPE_M1", dec 2);
    ("AVM_CARDTYPE_M2", dec 3)]].
Definition defs_AVMB1_LOAD : list decl := [
  Defines [
    ("AVMB1_LOAD", dec 0); ("AVMB1_ADDCARD", dec 1); ("AVMB1_RESETCARD", dec 2);
    ("AVMB1_LOAD_AND_CONFIG", dec 3); ("AVMB1_ADDCARD_WITH_TYPE", dec 4);
    ("AVMB1_GET_CARDINFO", dec 5); ("AVMB1_REMOVECARD", dec 6)]].
Definition header : header :=
  Header "linux/b1lli.h" [] (concat [
    defs_AVM_CARDTYPE_B1; defs_AVMB1_LOAD]).
End B1lli.

(** ** [linux/bfs_fs.h] *)

Module Bfs_fs.
Definition defs_BFS_BSIZE_BITS : list decl := [
  Defines [
    ("BFS_BSIZE_BITS", dec 9); ("BFS_BSIZE", Shl (dec 1) (Id "BFS_BSIZE_BITS"));
    ("BFS_MAGIC", hex 0x1BADFACE); ("BFS_ROOT_INO", dec 2); ("BFS_INODES_PER_BLOCK", dec 8);
    ("BFS_VDIR", decL 2); ("BFS_VREG", decL 1)]].
Definition header : header :=
  Header "linux/bfs_fs.h" [] (concat [
    defs_BFS_BSIZE_BITS]).
End Bfs_fs.

(** ** [linux/bpf_common.h] *)

Module Bpf_common.
Definition defs_BPF_LD : list decl := [
  Defines [
    ("BPF_LD", hex 0x00); ("BPF_LDX", hex 0x01); ("BPF_ST", hex 0x02); ("BPF_STX", hex 0x03);
    ("BPF_ALU", hex 0x04); ("BPF_JMP", hex 0x05); ("BPF_RET", hex 0x06); ("BPF_MISC", hex 0x07);
    ("BPF_W", hex 0x00); ("BPF_H", hex 0x08); ("BPF_B", hex 0x10); ("BPF_IMM", hex 0x00);
    ("BPF_ABS", hex 0x20); ("BPF_IND", hex 0x40); ("BPF_MEM", hex 0x60); ("BPF_LEN", hex 0x80);
    ("BPF_MSH", hex 0xa0); ("BPF_ADD", hex 0x00); ("BPF_SUB", hex 0x10); ("BPF_MUL", hex 0x20);
    ("BPF_DIV", hex 0x30); ("BPF_OR", hex 0x40); ("BPF_AND", hex 0x50); ("BPF_LSH", hex 0x60);
    ("BPF_RSH", hex 0x70); ("BPF_NEG", hex 0x80); ("BPF_MOD", hex 0x90); ("BPF_XOR", hex 0xa0);
    ("BPF_JA", hex 0x00); ("BPF_JEQ", hex 0x10); ("BPF_JGT", hex 0x20); ("BPF_JGE", hex 0x30);
    ("BPF_JSET", hex 0x40); ("BPF_K", hex 0x00); ("BPF_X", hex 0x08)]].
Definition header : header :=
  Header "linux/bpf_common.h" [] (concat [
    defs_BPF_LD]).
End Bpf_common.

(** ** [linux/cec.h] *)

Module Cec.
Definition defs_CEC_MSG_FL_REPLY_TO_FOLLOWERS : list decl := [
  Defines [
    ("CEC_MSG_FL_REPLY_TO_FOLLOWERS", Shl (dec 1) (dec 0));
    ("CEC_TX_STATUS_OK", Shl (dec 1) (dec 0)); ("CEC_TX_STATUS_ARB_LOST", Shl (dec 1) (dec 1));
    ("CEC_TX_STATUS_NACK", Shl (dec 1) (dec 2));
    ("CEC_TX_STATUS_LOW_DRIVE", Shl (dec 1) (dec 3));
    ("CEC_TX_STATUS_ERROR", Shl (dec 1) (dec 4));
    ("CEC_TX_STATUS_MAX_RETRIES", Shl (dec 1) (dec 5));
    ("CEC_RX_STATUS_OK", Shl (dec 1) (dec 0)); ("CEC_RX_STATUS_TIMEOUT", Shl (dec 1) (dec 1));
    ("CEC_RX_STATUS_FEATURE_ABORT", Shl (dec 1) (dec 2))]].
Definition defs_CEC_MAX_LOG_ADDRS : list decl := [
  Defines [
    ("CEC_MAX_LOG_ADDRS", dec 4); ("CEC_LOG_ADDR_TV", dec 0); ("CEC_LOG_ADDR_RECORD_1", dec 1);
    ("CEC_LOG_ADDR_RECORD_2", dec 2); ("CEC_LOG_ADDR_TUNER_1", dec 3);
    ("CEC_LOG_ADDR_PLAYBACK_1", dec 4); ("CEC_LOG_ADDR_AUDIOSYSTEM", dec 5);
    ("CEC_LOG_ADDR_TUNER_2", dec 6); ("CEC_LOG_ADDR_TUNER_3", dec 7);
    ("CEC_LOG_ADDR_PLAYBACK_2", dec 8); ("CEC_LOG_ADDR_RECORD_3", dec 9);
    ("CEC_LOG_ADDR_TUNER_4", dec 10); ("CEC_LOG_ADDR_PLAYBACK_3", dec 11);
    ("CEC_LOG_ADDR_BACKUP_1", dec 12); ("CEC_LOG_ADDR_BACKUP_2", dec 13);
    ("CEC_LOG_ADDR_SPECIFIC", dec 14); ("CEC_LOG_ADDR_UNREGISTERED", dec 15);
    ("CEC_LOG_ADDR_BROADCAST", dec 15); ("CEC_LOG_ADDR_TYPE_TV", dec 0);
    ("CEC_LOG_ADDR_TYPE_RECORD", dec 1); ("CEC_LOG_ADDR_TYPE_TUNER", dec 2);
    ("CEC_LOG_ADDR_TYPE_PLAYBACK", dec 3); ("CEC_LOG_ADDR_TYPE_AUDIOSYSTEM", dec 4);
    ("CEC_LOG_ADDR_TYPE_SPECIFIC", dec 5); ("CEC_LOG_ADDR_TYPE_UNREGISTERED", dec 6)];
  Defines [
    ("CEC_LOG_ADDR_MASK_TV", Shl (dec 1) (Id "CEC_LOG_ADDR_TV"));
    ("CEC_LOG_ADDR_MASK_RECORD", Or (Or (Shl (dec 1) (Id "CEC_LOG_ADDR_RECORD_1")) (Shl (dec 1) (Id "CEC_LOG_ADDR_RECORD_2"))) (Shl (dec 1) (Id "CEC_LOG_ADDR_RECORD_3")));
    ("CEC_LOG_ADDR_MASK_TUNER", Or (Or (Or (Shl (dec 1) (Id "CEC_LOG_ADDR_TUNER_1")) (Shl (dec 1) (Id "CEC_LOG_ADDR_TUNER_2"))) (Shl (dec 1) (Id "CEC_LOG_ADDR_TUNER_3"))) (Shl (dec 1) (Id "CEC_LOG_ADDR_TUNER_4")));
    ("CEC_LOG_ADDR_MASK_PLAYBACK", Or (Or (Shl (dec 1) (Id "CEC_LOG_ADDR_PLAYBACK_1")) (Shl (dec 1) (Id "CEC_LOG_ADDR_PLAYBACK_2"))) (Shl (dec 1) (Id "CEC_LOG_ADDR_PLAYBACK_3")));
    ("CEC_LOG_ADDR_MASK_AUDIOSYSTEM", Shl (dec 1) (Id "CEC_LOG_ADDR_AUDIOSYSTEM"));
    ("CEC_LOG_ADDR_MASK_BACKUP", Or (Shl (dec 1) (Id "CEC_LOG_ADDR_BACKUP_1")) (Shl (dec 1) (Id "CEC_LOG_ADDR_BACKUP_2")));
    ("CEC_LOG_ADDR_MASK_SPECIFIC", Shl (dec 1) (Id "CEC_LOG_ADDR_SPECIFIC"));
    ("CEC_LOG_ADDR_MASK_UNREGISTERED", Shl (dec 1) (Id "CEC_LOG_ADDR_UNREGISTERED"))]].
Definition defs_CEC_VENDOR_ID_NONE : list decl := [
  Defines [
    ("CEC_VENDOR_ID_NONE", hex 0xffffffff); ("CEC_MODE_NO_INITIATOR", Shl (hex 0x0) (dec 0));
    ("CEC_MODE_INITIATOR", Shl (hex 0x1) (dec 0));
    ("CEC_MODE_EXCL_INITIATOR", Shl (hex 0x2) (dec 0)); ("CEC_MODE_INITIATOR_MSK", hex 0x0f);
    ("CEC_MODE_NO_FOLLOWER", Shl (hex 0x0) (dec 4));
    ("CEC_MODE_FOLLOWER", Shl (hex 0x1) (dec 4));
    ("CEC_MODE_EXCL_FOLLOWER", Shl (hex 0x2) (dec 4));
    ("CEC_MODE_EXCL_FOLLOWER_PASSTHRU", Shl (hex 0x3) (dec 4));
    ("CEC_MODE_MONITOR", Shl (hex 0xe) (dec 4)); ("CEC_MODE_MONITOR_ALL", Shl (hex 0xf) (dec 4));
    ("CEC_MODE_FOLLOWER_MSK", hex 0xf0); ("CEC_CAP_PHYS_ADDR", Shl (dec 1) (dec 0));
    ("CEC_CAP_LOG_ADDRS", Shl (dec 1) (dec 1)); ("CEC_CAP_TRANSMIT", Shl (dec 1) (dec 2));
    ("CEC_CAP_PASSTHROUGH", Shl (dec 1) (dec 3)); ("CEC_CAP_RC", Shl (dec 1) (dec 4));
    ("CEC_CAP_MONITOR_ALL", Shl (dec 1) (dec 5))]].
Definition defs_CEC_MSG_INACTIVE_SOURCE : list decl := [
  Defines [
    ("CEC_MSG_INACTIVE_SOURCE", hex 0x9d); ("CEC_MSG_REQUEST_ACTIVE_SOURCE", hex 0x85);
    ("CEC_MSG_ROUTING_CHANGE", hex 0x80); ("CEC_MSG_ROUTING_INFORMATION", hex 0x81);
    ("CEC_MSG_SET_STREAM_PATH", hex 0x86); ("CEC_MSG_STANDBY", hex 0x36);
    ("CEC_MSG_RECORD_OFF", hex 0x0b); ("CEC_MSG_RECORD_ON", hex 0x09);
    ("CEC_OP_RECORD_SRC_OWN", dec 1); ("CEC_OP_RECORD_SRC_DIGITAL", dec 2);
    ("CEC_OP_RECORD_SRC_ANALOG", dec 3); ("CEC_OP_RECORD_SRC_EXT_PLUG", dec 4);
    ("CEC_OP_RECORD_SRC_EXT_PHYS_ADDR", dec 5); ("CEC_OP_SERVICE_ID_METHOD_BY_DIG_ID", dec 0);
    ("CEC_OP_SERVICE_ID_METHOD_BY_CHANNEL", dec 1);
    ("CEC_OP_DIG_SERVICE_BCAST_SYSTEM_ARIB_GEN", hex 0x00);
    ("CEC_OP_DIG_SERVICE_BCAST_SYSTEM_ATSC_GEN", hex 0x01);
    ("CEC_OP_DIG_SERVICE_BCAST_SYSTEM_DVB_GEN", hex 0x02);
    ("CEC_OP_DIG_SERVICE_BCAST_SYSTEM_ARIB_BS", hex 0x08);
    ("CEC_OP_DIG_SERVICE_BCAST_SYSTEM_ARIB_CS", hex 0x09);
    ("CEC_OP_DIG_SERVICE_BCAST_SYSTEM_ARIB_T", hex 0x0a);
    ("CEC_OP_DIG_SERVICE_BCAST_SYSTEM_ATSC_CABLE", hex 0x10);
    ("CEC_OP_DIG_SERVICE_BCAST_SYSTEM_ATSC_SAT", hex 0x11);
    ("CEC_OP_DIG_SERVICE_BCAST_SYSTEM_ATSC_T", hex 0x12);
    ("CEC_OP_DIG_SERVICE_BCAST_SYSTEM_DVB_C", hex 0x18);
    ("CEC_OP_DIG_SERVICE_BCAST_SYSTEM_DVB_S", hex 0x19);
    ("CEC_OP_DIG_SERVICE_BCAST_SYSTEM_DVB_S2", hex 0x1a);
    ("CEC_OP_DIG_SERVICE_BCAST_SYSTEM_DVB_T", hex 0x1b); ("CEC_OP_ANA_BCAST_TYPE_CABLE", dec 0);
    ("CEC_OP_ANA_BCAST_TYPE_SATELLITE", dec 1); ("CEC_OP_ANA_BCAST_TYPE_TERRESTRIAL", dec 2);
    ("CEC_OP_BCAST_SYSTEM_PAL_BG", hex 0x00); ("CEC_OP_BCAST_SYSTEM_SECAM_LQ", hex 0x01);
    ("CEC_OP_BCAST_SYSTEM_PAL_M", hex 0x02); ("CEC_OP_BCAST_SYSTEM_NTSC_M", hex 0x03);
    ("CEC_OP_BCAST_SYSTEM_PAL_I", hex 0x04); ("CEC_OP_BCAST_SYSTEM_SECAM_DK", hex 0x05);
    ("CEC_OP_BCAST_SYSTEM_SECAM_BG", hex 0x06); ("CEC_OP_BCAST_SYSTEM_SECAM_L", hex 0x07);
    ("CEC_OP_BCAST_SYSTEM_PAL_DK", hex 0x08); ("CEC_OP_BCAST_SYSTEM_OTHER", hex 0x1f);
    ("CEC_OP_CHANNEL_NUMBER_FMT_1_PART", hex 0x01);
    ("CEC_OP_CHANNEL_NUMBER_FMT_2_PART", hex 0x02); ("CEC_MSG_RECORD_STATUS", hex 0x0a);
    ("CEC_OP_RECORD_STATUS_CUR_SRC", hex 0x01); ("CEC_OP_RECORD_STATUS_DIG_SERVICE", hex 0x02);
    ("CEC_OP_RECORD_STATUS_ANA_SERVICE", hex 0x03); ("CEC_OP_RECORD_STATUS_EXT_INPUT", hex 0x04);
    ("CEC_OP_RECORD_STATUS_NO_DIG_SERVICE", hex 0x05);
    ("CEC_OP_RECORD_STATUS_NO_ANA_SERVICE", hex 0x06);
    ("CEC_OP_RECORD_STATUS_NO_SERVICE", hex 0x07);
    ("CEC_OP_RECORD_STATUS_INVALID_EXT_PLUG", hex 0x09);
    ("CEC_OP_RECORD_STATUS_INVALID_EXT_PHYS_ADDR", hex 0x0a);
    ("CEC_OP_RECORD_STATUS_UNSUP_CA", hex 0x0b);
    ("CEC_OP_RECORD_STATUS_NO_CA_ENTITLEMENTS", hex 0x0c);
    ("CEC_OP_RECORD_STATUS_CANT_COPY_SRC", hex 0x0d);
    ("CEC_OP_RECORD_STATUS_NO_MORE_COPIES", hex 0x0e);
    ("CEC_OP_RECORD_STATUS_NO_MEDIA", hex 0x10); ("CEC_OP_RECORD_STATUS_PLAYING", hex 0x11);
    ("CEC_OP_RECORD_STATUS_ALREADY_RECORDING", hex 0x12);
    ("CEC_OP_RECORD_STATUS_MEDIA_PROT", hex 0x13); ("CEC_OP_RECORD_STATUS_NO_SIGNAL", hex 0x14);
    ("CEC_OP_RECORD_STATUS_MEDIA_PROBLEM", hex 0x15);
    ("CEC_OP_RECORD_STATUS_NO_SPACE", hex 0x16);
    ("CEC_OP_RECORD_STATUS_PARENTAL_LOCK", hex 0x17);
    ("CEC_OP_RECORD_STATUS_TERMINATED_OK", hex 0x1a);
    ("CEC_OP_RECORD_STATUS_ALREADY_TERM", hex 0x1b); ("CEC_OP_RECORD_STATUS_OTHER", hex 0x1f);
    ("CEC_MSG_RECORD_TV_SCREEN", hex 0x0f); ("CEC_MSG_CLEAR_ANALOGUE_TIMER", hex 0x33);
    ("CEC_OP_REC_SEQ_SUNDAY", hex 0x01); ("CEC_OP_REC_SEQ_MONDAY", hex 0x02);
    ("CEC_OP_REC_SEQ_TUESDAY", hex 0x04); ("CEC_OP_REC_SEQ_WEDNESDAY", hex 0x08);
    ("CEC_OP_REC_SEQ_THURSDAY", hex 0x10); ("CEC_OP_REC_SEQ_FRIDAY", hex 0x20);
    ("CEC_OP_REC_SEQ_SATERDAY", hex 0x40); ("CEC_OP_REC_SEQ_ONCE_ONLY", hex 0x00);
    ("CEC_MSG_CLEAR_DIGITAL_TIMER", hex 0x99); ("CEC_MSG_CLEAR_EXT_TIMER", hex 0xa1);
    ("CEC_OP_EXT_SRC_PLUG", hex 0x04); ("CEC_OP_EXT_SRC_PHYS_ADDR", hex 0x05);
    ("CEC_MSG_SET_ANALOGUE_TIMER", hex 0x34); ("CEC_MSG_SET_DIGITAL_TIMER", hex 0x97);
    ("CEC_MSG_SET_EXT_TIMER", hex 0xa2); ("CEC_MSG_SET_TIMER_PROGRAM_TITLE", hex 0x67);
    ("CEC_MSG_TIMER_CLEARED_STATUS", hex 0x43); ("CEC_OP_TIMER_CLR_STAT_RECORDING", hex 0x00);
    ("CEC_OP_TIMER_CLR_STAT_NO_MATCHING", hex 0x01); ("CEC_OP_TIMER_CLR_STAT_NO_INFO", hex 0x02);
    ("CEC_OP_TIMER_CLR_STAT_CLEARED", hex 0x80); ("CEC_MSG_TIMER_STATUS", hex 0x35);
    ("CEC_OP_TIMER_OVERLAP_WARNING_NO_OVERLAP", dec 0);
    ("CEC_OP_TIMER_OVERLAP_WARNING_OVERLAP", dec 1); ("CEC_OP_MEDIA_INFO_UNPROT_MEDIA", dec 0);
    ("CEC_OP_MEDIA_INFO_PROT_MEDIA", dec 1); ("CEC_OP_MEDIA_INFO_NO_MEDIA", dec 2);
    ("CEC_OP_PROG_IND_NOT_PROGRAMMED", dec 0); ("CEC_OP_PROG_IND_PROGRAMMED", dec 1);
    ("CEC_OP_PROG_INFO_ENOUGH_SPACE", hex 0x08); ("CEC_OP_PROG_INFO_NOT_ENOUGH_SPACE", hex 0x09);
    ("CEC_OP_PROG_INFO_MIGHT_NOT_BE_ENOUGH_SPACE", hex 0x0b);
    ("CEC_OP_PROG_INFO_NONE_AVAILABLE", hex 0x0a); ("CEC_OP_PROG_ERROR_NO_FREE_TIMER", hex 0x01);
    ("CEC_OP_PROG_ERROR_DATE_OUT_OF_RANGE", hex 0x02);
    ("CEC_OP_PROG_ERROR_REC_SEQ_ERROR", hex 0x03); ("CEC_OP_PROG_ERROR_INV_EXT_PLUG", hex 0x04);
    ("CEC_OP_PROG_ERROR_INV_EXT_PHYS_ADDR", hex 0x05); ("CEC_OP_PROG_ERROR_CA_UNSUPP", hex 0x06);
    ("CEC_OP_PROG_ERROR_INSUF_CA_ENTITLEMENTS", hex 0x07);
    ("CEC_OP_PROG_ERROR_RESOLUTION_UNSUPP", hex 0x08);
    ("CEC_OP_PROG_ERROR_PARENTAL_LOCK", hex 0x09); ("CEC_OP_PROG_ERROR_CLOCK_FAILURE", hex 0x0a);
    ("CEC_OP_PROG_ERROR_DUPLICATE", hex 0x0e); ("CEC_MSG_CEC_VERSION", hex 0x9e)]].
Definition defs_CEC_OP_CEC_VERSION_1_3A : list decl := [
  Defines [
    ("CEC_OP_CEC_VERSION_1_3A", dec 4); ("CEC_OP_CEC_VERSION_1_4", dec 5);
    ("CEC_OP_CEC_VERSION_2_0", dec 6); ("CEC_MSG_GET_CEC_VERSION", hex 0x9f);
    ("CEC_MSG_GIVE_PHYSICAL_ADDR", hex 0x83); ("CEC_MSG_GET_MENU_LANGUAGE", hex 0x91);
    ("CEC_MSG_REPORT_PHYSICAL_ADDR", hex 0x84); ("CEC_OP_PRIM_DEVTYPE_TV", dec 0);
    ("CEC_OP_PRIM_DEVTYPE_RECORD", dec 1); ("CEC_OP_PRIM_DEVTYPE_TUNER", dec 3);
    ("CEC_OP_PRIM_DEVTYPE_PLAYBACK", dec 4); ("CEC_OP_PRIM_DEVTYPE_AUDIOSYSTEM", dec 5);
    ("CEC_OP_PRIM_DEVTYPE_SWITCH", dec 6); ("CEC_OP_PRIM_DEVTYPE_PROCESSOR", dec 7);
    ("CEC_MSG_SET_MENU_LANGUAGE", hex 0x32); ("CEC_MSG_REPORT_FEATURES", hex 0xa6);
    ("CEC_OP_ALL_DEVTYPE_TV", hex 0x80); ("CEC_OP_ALL_DEVTYPE_RECORD", hex 0x40);
    ("CEC_OP_ALL_DEVTYPE_TUNER", hex 0x20); ("CEC_OP_ALL_DEVTYPE_PLAYBACK", hex 0x10);
    ("CEC_OP_ALL_DEVTYPE_AUDIOSYSTEM", hex 0x08); ("CEC_OP_ALL_DEVTYPE_SWITCH", hex 0x04)];
  Defines [
    ("CEC_OP_FEAT_EXT", hex 0x80); ("CEC_OP_FEAT_RC_TV_PROFILE_NONE", hex 0x00);
    ("CEC_OP_FEAT_RC_TV_PROFILE_1", hex 0x02); ("CEC_OP_FEAT_RC_TV_PROFILE_2", hex 0x06);
    ("CEC_OP_FEAT_RC_TV_PROFILE_3", hex 0x0a); ("CEC_OP_FEAT_RC_TV_PROFILE_4", hex 0x0e);
    ("CEC_OP_FEAT_RC_SRC_HAS_DEV_ROOT_MENU", hex 0x50);
    ("CEC_OP_FEAT_RC_SRC_HAS_DEV_SETUP_MENU", hex 0x48);
    ("CEC_OP_FEAT_RC_SRC_HAS_CONTENTS_MENU", hex 0x44);
    ("CEC_OP_FEAT_RC_SRC_HAS_MEDIA_TOP_MENU", hex 0x42);
    ("CEC_OP_FEAT_RC_SRC_HAS_MEDIA_CONTEXT_MENU", hex 0x41);
    ("CEC_OP_FEAT_DEV_HAS_RECORD_TV_SCREEN", hex 0x40);
    ("CEC_OP_FEAT_DEV_HAS_SET_OSD_STRING", hex 0x20);
    ("CEC_OP_FEAT_DEV_HAS_DECK_CONTROL", hex 0x10);
    ("CEC_OP_FEAT_DEV_HAS_SET_AUDIO_RATE", hex 0x08);
    ("CEC_OP_FEAT_DEV_SINK_HAS_ARC_TX", hex 0x04);
    ("CEC_OP_FEAT_DEV_SOURCE_HAS_ARC_RX", hex 0x02); ("CEC_MSG_GIVE_FEATURES", hex 0xa5);
    ("CEC_MSG_DECK_CONTROL", hex 0x42); ("CEC_OP_DECK_CTL_MODE_SKIP_FWD", dec 1);
    ("CEC_OP_DECK_CTL_MODE_SKIP_REV", dec 2); ("CEC_OP_DECK_CTL_MODE_STOP", dec 3);
    ("CEC_OP_DECK_CTL_MODE_EJECT", dec 4); ("CEC_MSG_DECK_STATUS", hex 0x1b);
    ("CEC_OP_DECK_INFO_PLAY", hex 0x11); ("CEC_OP_DECK_INFO_RECORD", hex 0x12);
    ("CEC_OP_DECK_INFO_PLAY_REV", hex 0x13); ("CEC_OP_DECK_INFO_STILL", hex 0x14);
    ("CEC_OP_DECK_INFO_SLOW", hex 0x15); ("CEC_OP_DECK_INFO_SLOW_REV", hex 0x16);
    ("CEC_OP_DECK_INFO_FAST_FWD", hex 0x17); ("CEC_OP_DECK_INFO_FAST_REV", hex 0x18);
    ("CEC_OP_DECK_INFO_NO_MEDIA", hex 0x19); ("CEC_OP_DECK_INFO_STOP", hex 0x1a);
    ("CEC_OP_DECK_INFO_SKIP_FWD", hex 0x1b); ("CEC_OP_DECK_INFO_SKIP_REV", hex 0x1c);
    ("CEC_OP_DECK_INFO_INDEX_SEARCH_FWD", hex 0x1d);
    ("CEC_OP_DECK_INFO_INDEX_SEARCH_REV", hex 0x1e); ("CEC_OP_DECK_INFO_OTHER", hex 0x1f);
    ("CEC_MSG_GIVE_DECK_STATUS", hex 0x1a); ("CEC_OP_STATUS_REQ_ON", dec 1);
    ("CEC_OP_STATUS_REQ_OFF", dec 2); ("CEC_OP_STATUS_REQ_ONCE", dec 3);
    ("CEC_MSG_PLAY", hex 0x41); ("CEC_OP_PLAY_MODE_PLAY_FWD", hex 0x24);
    ("CEC_OP_PLAY_MODE_PLAY_REV", hex 0x20); ("CEC_OP_PLAY_MODE_PLAY_STILL", hex 0x25);
    ("CEC_OP_PLAY_MODE_PLAY_FAST_FWD_MIN", hex 0x05);
    ("CEC_OP_PLAY_MODE_PLAY_FAST_FWD_MED", hex 0x06);
    ("CEC_OP_PLAY_MODE_PLAY_FAST_FWD_MAX", hex 0x07);
    ("CEC_OP_PLAY_MODE_PLAY_FAST_REV_MIN", hex 0x09);
    ("CEC_OP_PLAY_MODE_PLAY_FAST_REV_MED", hex 0x0a);
    ("CEC_OP_PLAY_MODE_PLAY_FAST_REV_MAX", hex 0x0b);
    ("CEC_OP_PLAY_MODE_PLAY_SLOW_FWD_MIN", hex 0x15);
    ("CEC_OP_PLAY_MODE_PLAY_SLOW_FWD_MED", hex 0x16);
    ("CEC_OP_PLAY_MODE_PLAY_SLOW_FWD_MAX", hex 0x17);
    ("CEC_OP_PLAY_MODE_PLAY_SLOW_REV_MIN", hex 0x19);
    ("CEC_OP_PLAY_MODE_PLAY_SLOW_REV_MED", hex 0x1a);
    ("CEC_OP_PLAY_MODE_PLAY_SLOW_REV_MAX", hex 0x1b);
    ("CEC_MSG_GIVE_TUNER_DEVICE_STATUS", hex 0x08);
    ("CEC_MSG_SELECT_ANALOGUE_SERVICE", hex 0x92); ("CEC_MSG_SELECT_DIGITAL_SERVICE", hex 0x93);
    ("CEC_MSG_TUNER_DEVICE_STATUS", hex 0x07); ("CEC_OP_REC_FLAG_USED", dec 0);
    ("CEC_OP_REC_FLAG_NOT_USED", dec 1); ("CEC_OP_TUNER_DISPLAY_INFO_DIGITAL", dec 0);
    ("CEC_OP_TUNER_DISPLAY_INFO_NONE", dec 1); ("CEC_OP_TUNER_DISPLAY_INFO_ANALOGUE", dec 2);
    ("CEC_MSG_TUNER_STEP_DECREMENT", hex 0x06); ("CEC_MSG_TUNER_STEP_INCREMENT", hex 0x05)]].
Definition defs_CEC_MSG_DEVICE_VENDOR_ID : list decl := [
  Defines [
    ("CEC_MSG_DEVICE_VENDOR_ID", hex 0x87); ("CEC_MSG_GIVE_DEVICE_VENDOR_ID", hex 0x8c);
    ("CEC_MSG_VENDOR_COMMAND", hex 0x89); ("CEC_MSG_VENDOR_COMMAND_WITH_ID", hex 0xa0);
    ("CEC_MSG_VENDOR_REMOTE_BUTTON_DOWN", hex 0x8a);
    ("CEC_MSG_VENDOR_REMOTE_BUTTON_UP", hex 0x8b); ("CEC_MSG_SET_OSD_STRING", hex 0x64);
    ("CEC_OP_DISP_CTL_DEFAULT", hex 0x00); ("CEC_OP_DISP_CTL_UNTIL_CLEARED", hex 0x40);
    ("CEC_OP_DISP_CTL_CLEAR", hex 0x80); ("CEC_MSG_GIVE_OSD_NAME", hex 0x46);
    ("CEC_MSG_SET_OSD_NAME", hex 0x47); ("CEC_MSG_MENU_REQUEST", hex 0x8d);
    ("CEC_OP_MENU_REQUEST_ACTIVATE", hex 0x00); ("CEC_OP_MENU_REQUEST_DEACTIVATE", hex 0x01);
    ("CEC_OP_MENU_REQUEST_QUERY", hex 0x02); ("CEC_MSG_MENU_STATUS", hex 0x8e);
    ("CEC_OP_MENU_STATE_ACTIVATED", hex 0x00); ("CEC_OP_MENU_STATE_DEACTIVATED", hex 0x01);
    ("CEC_MSG_USER_CONTROL_PRESSED", hex 0x44); ("CEC_OP_UI_BCAST_TYPE_TOGGLE_ALL", hex 0x00);
    ("CEC_OP_UI_BCAST_TYPE_TOGGLE_DIG_ANA", hex 0x01);
    ("CEC_OP_UI_BCAST_TYPE_ANALOGUE", hex 0x10); ("CEC_OP_UI_BCAST_TYPE_ANALOGUE_T", hex 0x20);
    ("CEC_OP_UI_BCAST_TYPE_ANALOGUE_CABLE", hex 0x30);
    ("CEC_OP_UI_BCAST_TYPE_ANALOGUE_SAT", hex 0x40); ("CEC_OP_UI_BCAST_TYPE_DIGITAL", hex 0x50);
    ("CEC_OP_UI_BCAST_TYPE_DIGITAL_T", hex 0x60);
    ("CEC_OP_UI_BCAST_TYPE_DIGITAL_CABLE", hex 0x70);
    ("CEC_OP_UI_BCAST_TYPE_DIGITAL_SAT", hex 0x80);
    ("CEC_OP_UI_BCAST_TYPE_DIGITAL_COM_SAT", hex 0x90);
    ("CEC_OP_UI_BCAST_TYPE_DIGITAL_COM_SAT2", hex 0x91); ("CEC_OP_UI_BCAST_TYPE_IP", hex 0xa0);
    ("CEC_OP_UI_SND_PRES_CTL_DUAL_MONO", hex 0x10); ("CEC_OP_UI_SND_PRES_CTL_KARAOKE", hex 0x20);
    ("CEC_OP_UI_SND_PRES_CTL_DOWNMIX", hex 0x80); ("CEC_OP_UI_SND_PRES_CTL_REVERB", hex 0x90);
    ("CEC_OP_UI_SND_PRES_CTL_EQUALIZER", hex 0xa0); ("CEC_OP_UI_SND_PRES_CTL_BASS_UP", hex 0xb1);
    ("CEC_OP_UI_SND_PRES_CTL_BASS_NEUTRAL", hex 0xb2);
    ("CEC_OP_UI_SND_PRES_CTL_BASS_DOWN", hex 0xb3);
    ("CEC_OP_UI_SND_PRES_CTL_TREBLE_UP", hex 0xc1);
    ("CEC_OP_UI_SND_PRES_CTL_TREBLE_NEUTRAL", hex 0xc2);
    ("CEC_OP_UI_SND_PRES_CTL_TREBLE_DOWN", hex 0xc3); ("CEC_MSG_USER_CONTROL_RELEASED", hex 0x45)];
  Defines [
    ("CEC_MSG_GIVE_DEVICE_POWER_STATUS", hex 0x8f); ("CEC_MSG_REPORT_POWER_STATUS", hex 0x90);
    ("CEC_OP_POWER_STATUS_ON", dec 0); ("CEC_OP_POWER_STATUS_STANDBY", dec 1);
    ("CEC_OP_POWER_STATUS_TO_ON", dec 2); ("CEC_OP_POWER_STATUS_TO_STANDBY", dec 3);
    ("CEC_MSG_FEATURE_ABORT", hex 0x00); ("CEC_OP_ABORT_UNRECOGNIZED_OP", dec 0);
    ("CEC_OP_ABORT_INCORRECT_MODE", dec 1); ("CEC_OP_ABORT_NO_SOURCE", dec 2);
    ("CEC_OP_ABORT_INVALID_OP", dec 3); ("CEC_OP_ABORT_REFUSED", dec 4);
    ("CEC_OP_ABORT_UNDETERMINED", dec 5); ("CEC_MSG_ABORT", hex 0xff)];
  Defines [
    ("CEC_MSG_GIVE_AUDIO_STATUS", hex 0x71); ("CEC_MSG_GIVE_SYSTEM_AUDIO_MODE_STATUS", hex 0x7d);
    ("CEC_MSG_REPORT_AUDIO_STATUS", hex 0x7a); ("CEC_OP_AUD_MUTE_STATUS_OFF", dec 0);
    ("CEC_OP_AUD_MUTE_STATUS_ON", dec 1); ("CEC_MSG_REPORT_SHORT_AUDIO_DESCRIPTOR", hex 0xa3);
    ("CEC_MSG_REQUEST_SHORT_AUDIO_DESCRIPTOR", hex 0xa4);
    ("CEC_MSG_SET_SYSTEM_AUDIO_MODE", hex 0x72); ("CEC_OP_SYS_AUD_STATUS_OFF", dec 0);
    ("CEC_OP_SYS_AUD_STATUS_ON", dec 1); ("CEC_MSG_SYSTEM_AUDIO_MODE_REQUEST", hex 0x70);
    ("CEC_MSG_SYSTEM_AUDIO_MODE_STATUS", hex 0x7e); ("CEC_OP_AUD_FMT_ID_CEA861", dec 0);
    ("CEC_OP_AUD_FMT_ID_CEA861_CXT", dec 1); ("CEC_MSG_SET_AUDIO_RATE", hex 0x9a);
    ("CEC_OP_AUD_RATE_OFF", dec 0); ("CEC_OP_AUD_RATE_WIDE_STD", dec 1);
    ("CEC_OP_AUD_RATE_WIDE_FAST", dec 2); ("CEC_OP_AUD_RATE_WIDE_SLOW", dec 3);
    ("CEC_OP_AUD_RATE_NARROW_STD", dec 4); ("CEC_OP_AUD_RATE_NARROW_FAST", dec 5);
    ("CEC_OP_AUD_RATE_NARROW_SLOW", dec 6); ("CEC_MSG_INITIATE_ARC", hex 0xc0);
    ("CEC_MSG_REPORT_ARC_INITIATED", hex 0xc1); ("CEC_MSG_REPORT_ARC_TERMINATED", hex 0xc2);
    ("CEC_MSG_REQUEST_ARC_INITIATION", hex 0xc3); ("CEC_MSG_REQUEST_ARC_TERMINATION", hex 0xc4);
    ("CEC_MSG_TERMINATE_ARC", hex 0xc5)]].
Definition defs_CEC_MSG_REQUEST_CURRENT_LATENCY : list decl := [
  Defines [
    ("CEC_MSG_REQUEST_CURRENT_LATENCY", hex 0xa7); ("CEC_MSG_REPORT_CURRENT_LATENCY", hex 0xa8);
    ("CEC_OP_LOW_LATENCY_MODE_OFF", dec 0); ("CEC_OP_LOW_LATENCY_MODE_ON", dec 1);
    ("CEC_OP_AUD_OUT_COMPENSATED_NA", dec 0); ("CEC_OP_AUD_OUT_COMPENSATED_DELAY", dec 1);
    ("CEC_OP_AUD_OUT_COMPENSATED_NO_DELAY", dec 2);
    ("CEC_OP_AUD_OUT_COMPENSATED_PARTIAL_DELAY", dec 3); ("CEC_MSG_CDC_MESSAGE", hex 0xf8);
    ("CEC_MSG_CDC_HEC_INQUIRE_STATE", hex 0x00); ("CEC_MSG_CDC_HEC_REPORT_STATE", hex 0x01);
    ("CEC_OP_HEC_FUNC_STATE_NOT_SUPPORTED", dec 0); ("CEC_OP_HEC_FUNC_STATE_INACTIVE", dec 1);
    ("CEC_OP_HEC_FUNC_STATE_ACTIVE", dec 2); ("CEC_OP_HEC_FUNC_STATE_ACTIVATION_FIELD", dec 3);
    ("CEC_OP_HOST_FUNC_STATE_NOT_SUPPORTED", dec 0); ("CEC_OP_HOST_FUNC_STATE_INACTIVE", dec 1);
    ("CEC_OP_HOST_FUNC_STATE_ACTIVE", dec 2);
    ("CEC_OP_ENC_FUNC_STATE_EXT_CON_NOT_SUPPORTED", dec 0);
    ("CEC_OP_ENC_FUNC_STATE_EXT_CON_INACTIVE", dec 1);
    ("CEC_OP_ENC_FUNC_STATE_EXT_CON_ACTIVE", dec 2); ("CEC_OP_CDC_ERROR_CODE_NONE", dec 0);
    ("CEC_OP_CDC_ERROR_CODE_CAP_UNSUPPORTED", dec 1);
    ("CEC_OP_CDC_ERROR_CODE_WRONG_STATE", dec 2); ("CEC_OP_CDC_ERROR_CODE_OTHER", dec 3);
    ("CEC_OP_HEC_SUPPORT_NO", dec 0); ("CEC_OP_HEC_SUPPORT_YES", dec 1);
    ("CEC_OP_HEC_ACTIVATION_ON", dec 0); ("CEC_OP_HEC_ACTIVATION_OFF", dec 1);
    ("CEC_MSG_CDC_HEC_SET_STATE_ADJACENT", hex 0x02); ("CEC_MSG_CDC_HEC_SET_STATE", hex 0x03);
    ("CEC_OP_HEC_SET_STATE_DEACTIVATE", dec 0); ("CEC_OP_HEC_SET_STATE_ACTIVATE", dec 1);
    ("CEC_MSG_CDC_HEC_REQUEST_DEACTIVATION", hex 0x04);
    ("CEC_MSG_CDC_HEC_NOTIFY_ALIVE", hex 0x05); ("CEC_MSG_CDC_HEC_DISCOVER", hex 0x06);
    ("CEC_MSG_CDC_HPD_SET_STATE", hex 0x10); ("CEC_OP_HPD_STATE_CP_EDID_DISABLE", dec 0);
    ("CEC_OP_HPD_STATE_CP_EDID_ENABLE", dec 1);
    ("CEC_OP_HPD_STATE_CP_EDID_DISABLE_ENABLE", dec 2); ("CEC_OP_HPD_STATE_EDID_DISABLE", dec 3);
    ("CEC_OP_HPD_STATE_EDID_ENABLE", dec 4); ("CEC_OP_HPD_STATE_EDID_DISABLE_ENABLE", dec 5);
    ("CEC_MSG_CDC_HPD_REPORT_STATE", hex 0x11); ("CEC_OP_HPD_ERROR_NONE", dec 0);
    ("CEC_OP_HPD_ERROR_INITIATOR_NOT_CAPABLE", dec 1);
    ("CEC_OP_HPD_ERROR_INITIATOR_WRONG_STATE", dec 2); ("CEC_OP_HPD_ERROR_OTHER", dec 3);
    ("CEC_OP_HPD_ERROR_NONE_NO_VIDEO", dec 4)]].
Definition header : header :=
  Header "linux/cec.h" [] (concat [
    defs_CEC_MSG_FL_REPLY_TO_FOLLOWERS; defs_CEC_MAX_LOG_ADDRS; defs_CEC_VENDOR_ID_NONE;
    defs_CEC_MSG_INACTIVE_SOURCE; defs_CEC_OP_CEC_VERSION_1_3A; defs_CEC_MSG_DEVICE_VENDOR_ID;
    defs_CEC_MSG_REQUEST_CURRENT_LATENCY]).
End Cec.

(** ** [linux/cgroupstats.h] *)

Module Cgroupstats.
Definition enum_CGROUPSTATS_CMD_UNSPEC : list decl := [
  Enum [
    ("CGROUPSTATS_CMD_UNSPEC", Some (Id "__TASKSTATS_CMD_MAX")); ("CGROUPSTATS_CMD_GET", None);
    ("CGROUPSTATS_CMD_NEW", None); ("__CGROUPSTATS_CMD_MAX", None)];
  Defines [
    ("CGROUPSTATS_CMD_MAX", Sub (Id "__CGROUPSTATS_CMD_MAX") (dec 1))];
  Enum [
    ("CGROUPSTATS_TYPE_UNSPEC", Some (dec 0)); ("CGROUPSTATS_TYPE_CGROUP_STATS", None);
    ("__CGROUPSTATS_TYPE_MAX", None)];
  Defines [
    ("CGROUPSTATS_TYPE_MAX", Sub (Id "__CGROUPSTATS_TYPE_MAX") (dec 1))];
  Enum [
    ("CGROUPSTATS_CMD_ATTR_UNSPEC", Some (dec 0)); ("CGROUPSTATS_CMD_ATTR_FD", None);
    ("__CGROUPSTATS_CMD_ATTR_MAX", None)];
  Defines [
    ("CGROUPSTATS_CMD_ATTR_MAX", Sub (Id "__CGROUPSTATS_CMD_ATTR_MAX") (dec 1))]].
Definition header : header :=
  Header "linux/cgroupstats.h" [Taskstats.header] (concat [
    enum_CGROUPSTATS_CMD_UNSPEC]).
End Cgroupstats.

(** ** [linux/cm4000_cs.h] *)

Module Cm4000_cs.
Definition defs_CM_CARD_INSERTED : list decl := [
  Defines [
    ("CM_CARD_INSERTED", hex 0x01); ("CM_CARD_POWERED", hex 0x02); ("CM_ATR_PRESENT", hex 0x04);
    ("CM_ATR_VALID", hex 0x08); ("CM_STATE_VALID", hex 0x0f); ("CM_NO_READER", hex 0x10);
    ("CM_BAD_CARD", hex 0x20)]].
Definition header : header :=
  Header "linux/cm4000_cs.h" [] (concat [
    defs_CM_CARD_INSERTED]).
End Cm4000_cs.

(** ** [linux/coda_psdev.h] *)

Module Coda_psdev.
Definition defs_CODA_PSDEV_MAJOR : list decl := [
  Defines [
    ("CODA_PSDEV_MAJOR", dec 67); ("MAX_CODADEVS", dec 5); ("CODA_REQ_ASYNC", hex 0x1);
    ("CODA_REQ_READ", hex 0x2); ("CODA_REQ_WRITE", hex 0x4); ("CODA_REQ_ABORT", hex 0x8)]].
Definition header : header :=
  Header "linux/coda_psdev.h" [] (concat [
    defs_CODA_PSDEV_MAJOR]).
End Coda_psdev.

(** ** [linux/coff.h] *)

Module Coff.
Definition defs_COFF_F_RELFLG : list decl := [
  Defines [
    ("COFF_F_RELFLG", oct 1); ("COFF_F_EXEC", oct 2); ("COFF_F_LNNO", oct 4);
    ("COFF_F_LSYMS", oct 8); ("COFF_F_MINMAL", oct 16); ("COFF_F_UPDATE", oct 32);
    ("COFF_F_SWABD", oct 64); ("COFF_F_AR16WR", oct 128); ("COFF_F_AR32WR", oct 256);
    ("COFF_F_AR32W", oct 512); ("COFF_F_PATCH", oct 1024); ("COFF_F_NODF", oct 1024);
    ("COFF_I386MAGIC", hex 0x14c)]].
Definition defs_COFF_STMAGIC : list decl := [
  Defines [
    ("COFF_STMAGIC", oct 257); ("COFF_OMAGIC", oct 260); ("COFF_JMAGIC", oct 263);
    ("COFF_DMAGIC", oct 264); ("COFF_ZMAGIC", oct 267); ("COFF_SHMAGIC", oct 291)]].
Definition defs_COFF_SECT_TEXT : list decl := [
  Defines [
    ("COFF_SECT_TEXT", dec 0); ("COFF_SECT_DATA", dec 1); ("COFF_SECT_BSS", dec 2);
    ("COFF_SECT_REQD", dec 3); ("COFF_STYP_REG", hex 0x00); ("COFF_STYP_DSECT", hex 0x01);
    ("COFF_STYP_NOLOAD", hex 0x02); ("COFF_STYP_GROUP", hex 0x04); ("COFF_STYP_PAD", hex 0x08);
    ("COFF_STYP_COPY", hex 0x10); ("COFF_STYP_TEXT", hex 0x20); ("COFF_STYP_DATA", hex 0x40);
    ("COFF_STYP_BSS", hex 0x80); ("COFF_STYP_INFO", hex 0x200); ("COFF_STYP_OVER", hex 0x400);
    ("COFF_STYP_LIB", hex 0x800)]].
Definition defs_COFF_LINESZ : list decl := [
  Defines [
    ("COFF_LINESZ", dec 6); ("COFF_E_SYMNMLEN", dec 8); ("COFF_E_FILNMLEN", dec 14);
    ("COFF_E_DIMNUM", dec 4)]].
Definition defs_COFF_N_BTMASK : list decl := [
  Defines [
    ("COFF_N_BTMASK", hex 0xf); ("COFF_N_TMASK", hex 0x30); ("COFF_N_BTSHFT", dec 4);
    ("COFF_N_TSHIFT", dec 2)]].
Definition defs_COFF_RELSZ : list decl := [
  Defines [
    ("COFF_RELSZ", dec 10); ("COFF_DEF_DATA_SECTION_ALIGNMENT", dec 4);
    ("COFF_DEF_BSS_SECTION_ALIGNMENT", dec 4); ("COFF_DEF_TEXT_SECTION_ALIGNMENT", dec 4);
    ("COFF_DEF_SECTION_ALIGNMENT", dec 4)]].
Definition header : header :=
  Header "linux/coff.h" [] (concat [
    defs_COFF_F_RELFLG; defs_COFF_STMAGIC; defs_COFF_SECT_TEXT; defs_COFF_LINESZ;
    defs_COFF_N_BTMASK; defs_COFF_RELSZ]).
End Coff.

(** ** [linux/connector.h] *)

Module Connector.
Definition defs_CN_IDX_PROC : list decl := [
  Defines [
    ("CN_IDX_PROC", hex 0x1); ("CN_VAL_PROC", hex 0x1); ("CN_IDX_CIFS", hex 0x2);
    ("CN_VAL_CIFS", hex 0x1); ("CN_W1_IDX", hex 0x3); ("CN_W1_VAL", hex 0x1);
    ("CN_IDX_V86D", hex 0x4); ("CN_VAL_V86D_UVESAFB", hex 0x1); ("CN_IDX_BB", hex 0x5);
    ("CN_DST_IDX", hex 0x6); ("CN_DST_VAL", hex 0x1); ("CN_IDX_DM", hex 0x7);
    ("CN_VAL_DM_USERSPACE_LOG", hex 0x1); ("CN_IDX_DRBD", hex 0x8); ("CN_VAL_DRBD", hex 0x1);
    ("CN_KVP_IDX", hex 0x9); ("CN_KVP_VAL", hex 0x1); ("CN_VSS_IDX", hex 0xA);
    ("CN_VSS_VAL", hex 0x1); ("CN_NETLINK_USERS", dec 11)]].
Definition header : header :=
  Header "linux/connector.h" [] (concat [
    defs_CN_IDX_PROC]).
End Connector.

(** ** [linux/cramfs_fs.h] *)

Module Cramfs_fs.
Definition defs_CRAMFS_MODE_WIDTH : list decl := [
  Defines [
    ("CRAMFS_MODE_WIDTH", dec 16); ("CRAMFS_UID_WIDTH", dec 16); ("CRAMFS_SIZE_WIDTH", dec 24);
    ("CRAMFS_GID_WIDTH", dec 8); ("CRAMFS_NAMELEN_WIDTH", dec 6); ("CRAMFS_OFFSET_WIDTH", dec 26)]].
Definition defs_CRAMFS_FLAG_FSID_VERSION_2 : list decl := [
  Defines [
    ("CRAMFS_FLAG_FSID_VERSION_2", hex 0x00000001); ("CRAMFS_FLAG_SORTED_DIRS", hex 0x00000002);
    ("CRAMFS_FLAG_HOLES", hex 0x00000100); ("CRAMFS_FLAG_WRONG_SIGNATURE", hex 0x00000200);
    ("CRAMFS_FLAG_SHIFTED_ROOT_OFFSET", hex 0x00000400)]].
Definition header : header :=
  Header "linux/cramfs_fs.h" [] (concat [
    defs_CRAMFS_MODE_WIDTH; defs_CRAMFS_FLAG_FSID_VERSION_2]).
End Cramfs_fs.

(** ** [linux/cuda.h] *)

Module Cuda.
Definition defs_CUDA_WARM_START : list decl := [
  Defines [
    ("CUDA_WARM_START", dec 0); ("CUDA_AUTOPOLL", dec 1); ("CUDA_GET_6805_ADDR", dec 2);
    ("CUDA_GET_TIME", dec 3); ("CUDA_GET_PRAM", dec 7); ("CUDA_SET_6805_ADDR", dec 8);
    ("CUDA_SET_TIME", dec 9); ("CUDA_POWERDOWN", hex 0xa); ("CUDA_POWERUP_TIME", hex 0xb);
    ("CUDA_SET_PRAM", hex 0xc); ("CUDA_MS_RESET", hex 0xd); ("CUDA_SEND_DFAC", hex 0xe);
    ("CUDA_RESET_SYSTEM", hex 0x11); ("CUDA_SET_IPL", hex 0x12);
    ("CUDA_SET_AUTO_RATE", hex 0x14); ("CUDA_GET_AUTO_RATE", hex 0x16);
    ("CUDA_SET_DEVICE_LIST", hex 0x19); ("CUDA_GET_DEVICE_LIST", hex 0x1a);
    ("CUDA_GET_SET_IIC", hex 0x22)]].
Definition header : header :=
  Header "linux/cuda.h" [] (concat [
    defs_CUDA_WARM_START]).
End Cuda.

(** ** [linux/cyclades.h] *)

Module Cyclades.
Definition defs_CYCLADES_MAGIC : list decl := [
  Defines [
    ("CYCLADES_MAGIC", hex 0x4359); ("CYGETMON", hex 0x435901); ("CYGETTHRESH", hex 0x435902);
    ("CYSETTHRESH", hex 0x435903); ("CYGETDEFTHRESH", hex 0x435904);
    ("CYSETDEFTHRESH", hex 0x435905); ("CYGETTIMEOUT", hex 0x435906);
    ("CYSETTIMEOUT", hex 0x435907); ("CYGETDEFTIMEOUT", hex 0x435908);
    ("CYSETDEFTIMEOUT", hex 0x435909); ("CYSETRFLOW", hex 0x43590a);
    ("CYGETRFLOW", hex 0x43590b); ("CYSETRTSDTR_INV", hex 0x43590c);
    ("CYGETRTSDTR_INV", hex 0x43590d); ("CYZSETPOLLCYCLE", hex 0x43590e);
    ("CYZGETPOLLCYCLE", hex 0x43590f); ("CYGETCD1400VER", hex 0x435910);
    ("CYSETWAIT", hex 0x435912); ("CYGETWAIT", hex 0x435913); ("CZIOC", Shl (chr 77) (dec 8));
    ("CZ_NBOARDS", Or (Id "CZIOC") (hex 0xfa)); ("CZ_BOOT_START", Or (Id "CZIOC") (hex 0xfb));
    ("CZ_BOOT_DATA", Or (Id "CZIOC") (hex 0xfc)); ("CZ_BOOT_END", Or (Id "CZIOC") (hex 0xfd));
    ("CZ_TEST", Or (Id "CZIOC") (hex 0xfe)); ("CZ_DEF_POLL", Div (Id "HZ") (dec 25));
    ("MAX_BOARD", dec 4); ("MAX_DEV", dec 256); ("CYZ_MAX_SPEED", dec 921600);
    ("CYZ_FIFO_SIZE", dec 16); ("CYZ_BOOT_NWORDS", hex 0x100)]].
Definition defs_WIN_RAM : list decl := [
  Defines [
    ("WIN_RAM", hexL 0x00000001); ("WIN_CREG", hexL 0x14000001); ("TIMER_BY_1M", hex 0x00);
    ("TIMER_BY_256K", hex 0x01); ("TIMER_BY_128K", hex 0x02); ("TIMER_BY_32K", hex 0x03)];
  Defines [
    ("MAX_CHAN", dec 64); ("ID_ADDRESS", hexL 0x00000180); ("ZFIRM_ID", hexL 0x5557465A);
    ("ZFIRM_HLT", hexL 0x59505B5C); ("ZFIRM_RST", hexL 0x56040674); ("ZF_TINACT_DEF", dec 1000);
    ("ZF_TINACT", Id "ZF_TINACT_DEF")]].
Definition defs_C_OS_LINUX : list decl := [
  Defines [
    ("C_OS_LINUX", hex 0x00000030); ("C_CH_DISABLE", hex 0x00000000);
    ("C_CH_TXENABLE", hex 0x00000001); ("C_CH_RXENABLE", hex 0x00000002);
    ("C_CH_ENABLE", hex 0x00000003); ("C_CH_LOOPBACK", hex 0x00000004);
    ("C_PR_NONE", hex 0x00000000); ("C_PR_ODD", hex 0x00000001); ("C_PR_EVEN", hex 0x00000002);
    ("C_PR_MARK", hex 0x00000004); ("C_PR_SPACE", hex 0x00000008);
    ("C_PR_PARITY", hex 0x000000ff); ("C_PR_DISCARD", hex 0x00000100);
    ("C_PR_IGNORE", hex 0x00000200); ("C_DL_CS5", hex 0x00000001); ("C_DL_CS6", hex 0x00000002);
    ("C_DL_CS7", hex 0x00000004); ("C_DL_CS8", hex 0x00000008); ("C_DL_CS", hex 0x0000000f);
    ("C_DL_1STOP", hex 0x00000010); ("C_DL_15STOP", hex 0x00000020);
    ("C_DL_2STOP", hex 0x00000040); ("C_DL_STOP", hex 0x000000f0);
    ("C_IN_DISABLE", hex 0x00000000); ("C_IN_TXBEMPTY", hex 0x00000001);
    ("C_IN_TXLOWWM", hex 0x00000002); ("C_IN_RXHIWM", hex 0x00000010);
    ("C_IN_RXNNDT", hex 0x00000020); ("C_IN_MDCD", hex 0x00000100);
    ("C_IN_MDSR", hex 0x00000200); ("C_IN_MRI", hex 0x00000400); ("C_IN_MCTS", hex 0x00000800);
    ("C_IN_RXBRK", hex 0x00001000); ("C_IN_PR_ERROR", hex 0x00002000);
    ("C_IN_FR_ERROR", hex 0x00004000); ("C_IN_OVR_ERROR", hex 0x00008000);
    ("C_IN_RXOFL", hex 0x00010000); ("C_IN_IOCTLW", hex 0x00020000);
    ("C_IN_MRTS", hex 0x00040000); ("C_IN_ICHAR", hex 0x00080000); ("C_FL_OXX", hex 0x00000001);
    ("C_FL_IXX", hex 0x00000002); ("C_FL_OIXANY", hex 0x00000004);
    ("C_FL_SWFLOW", hex 0x0000000f); ("C_FS_TXIDLE", hex 0x00000000);
    ("C_FS_SENDING", hex 0x00000001); ("C_FS_SWFLOW", hex 0x00000002);
    ("C_RS_PARAM", hex 0x80000000); ("C_RS_RTS", hex 0x00000001); ("C_RS_DTR", hex 0x00000004);
    ("C_RS_DCD", hex 0x00000100); ("C_RS_DSR", hex 0x00000200); ("C_RS_RI", hex 0x00000400);
    ("C_RS_CTS", hex 0x00000800); ("C_CM_RESET", hex 0x01); ("C_CM_IOCTL", hex 0x02);
    ("C_CM_IOCTLW", hex 0x03); ("C_CM_IOCTLM", hex 0x04); ("C_CM_SENDXOFF", hex 0x10);
    ("C_CM_SENDXON", hex 0x11); ("C_CM_CLFLOW", hex 0x12); ("C_CM_SENDBRK", hex 0x41);
    ("C_CM_INTBACK", hex 0x42); ("C_CM_SET_BREAK", hex 0x43); ("C_CM_CLR_BREAK", hex 0x44);
    ("C_CM_CMD_DONE", hex 0x45); ("C_CM_INTBACK2", hex 0x46); ("C_CM_TINACT", hex 0x51);
    ("C_CM_IRQ_ENBL", hex 0x52); ("C_CM_IRQ_DSBL", hex 0x53); ("C_CM_ACK_ENBL", hex 0x54);
    ("C_CM_ACK_DSBL", hex 0x55); ("C_CM_FLUSH_RX", hex 0x56); ("C_CM_FLUSH_TX", hex 0x57);
    ("C_CM_Q_ENABLE", hex 0x58); ("C_CM_Q_DISABLE", hex 0x59); ("C_CM_TXBEMPTY", hex 0x60);
    ("C_CM_TXLOWWM", hex 0x61); ("C_CM_RXHIWM", hex 0x62); ("C_CM_RXNNDT", hex 0x63);
    ("C_CM_TXFEMPTY", hex 0x64); ("C_CM_ICHAR", hex 0x65); ("C_CM_MDCD", hex 0x70);
    ("C_CM_MDSR", hex 0x71); ("C_CM_MRI", hex 0x72); ("C_CM_MCTS", hex 0x73);
    ("C_CM_MRTS", hex 0x74); ("C_CM_RXBRK", hex 0x84); ("C_CM_PR_ERROR", hex 0x85);
    ("C_CM_FR_ERROR", hex 0x86); ("C_CM_OVR_ERROR", hex 0x87); ("C_CM_RXOFL", hex 0x88);
    ("C_CM_CMDERROR", hex 0x90); ("C_CM_FATAL", hex 0x91); ("C_CM_HW_RESET", hex 0x92)]].
Definition header : header :=
  Header "linux/cyclades.h" [Asm_generic_param.header] (concat [
    defs_CYCLADES_MAGIC; defs_WIN_RAM; defs_C_OS_LINUX]).
End Cyclades.

(** ** [linux/cycx_cfm.h] *)

Module Cycx_cfm.
Definition defs_CFM_IMAGE_SIZE : list decl := [
  Defines [
    ("CFM_IMAGE_SIZE", hex 0x20000); ("CFM_DESCR_LEN", dec 256); ("CFM_MAX_CYCX", dec 1);
    ("CFM_LOAD_BUFSZ", hex 0x400); ("GEN_POWER_ON", hex 0x1280); ("GEN_SET_SEG", hex 0x1401);
    ("GEN_BOOT_DAT", hex 0x1402); ("GEN_START", hex 0x1403); ("GEN_DEFPAR", hex 0x1404);
    ("CYCX_2X", dec 2); ("CYCX_8X", dec 8); ("CYCX_16X", dec 16); ("CFID_X25_2X", dec 5200)]].
Definition header : header :=
  Header "linux/cycx_cfm.h" [] (concat [
    defs_CFM_IMAGE_SIZE]).
End Cycx_cfm.

(** ** [linux/dlm_device.h] *)

Module Dlm_device.
Definition defs_DLM_USER_LVB_LEN : list decl := [
  Defines [
    ("DLM_USER_LVB_LEN", dec 32); ("DLM_DEVICE_VERSION_MAJOR", dec 6);
    ("DLM_DEVICE_VERSION_MINOR", dec 0); ("DLM_DEVICE_VERSION_PATCH", dec 2)]].
Definition defs_DLM_USER_LOCK : list decl := [
  Defines [
    ("DLM_USER_LOCK", dec 1); ("DLM_USER_UNLOCK", dec 2); ("DLM_USER_QUERY", dec 3);
    ("DLM_USER_CREATE_LOCKSPACE", dec 4); ("DLM_USER_REMOVE_LOCKSPACE", dec 5);
    ("DLM_USER_PURGE", dec 6); ("DLM_USER_DEADLOCK", dec 7); ("DLM_USER_LSFLG_AUTOFREE", dec 1);
    ("DLM_USER_LSFLG_FORCEFREE", dec 2)]].
Definition header : header :=
  Header "linux/dlm_device.h" [] (concat [
    defs_DLM_USER_LVB_LEN; defs_DLM_USER_LOCK]).
End Dlm_device.

(** ** [linux/dlm_netlink.h] *)

Module Dlm_netlink.
Definition enum_DLM_STATUS_WAITING : list decl := [
  Enum [
    ("DLM_STATUS_WAITING", Some (dec 1)); ("DLM_STATUS_GRANTED", Some (dec 2));
    ("DLM_STATUS_CONVERT", Some (dec 3))];
  Defines [
    ("DLM_LOCK_DATA_VERSION", dec 1)]].
Definition enum_DLM_CMD_UNSPEC : list decl := [
  Enum [
    ("DLM_CMD_UNSPEC", Some (dec 0)); ("DLM_CMD_HELLO", None); ("DLM_CMD_TIMEOUT", None);
    ("__DLM_CMD_MAX", None)];
  Defines [
    ("DLM_CMD_MAX", Sub (Id "__DLM_CMD_MAX") (dec 1))];
  Enum [
    ("DLM_TYPE_UNSPEC", Some (dec 0)); ("DLM_TYPE_LOCK", None); ("__DLM_TYPE_MAX", None)];
  Defines [
    ("DLM_TYPE_MAX", Sub (Id "__DLM_TYPE_MAX") (dec 1)); ("DLM_GENL_VERSION", hex 0x1)]].
Definition header : header :=
  Header "linux/dlm_netlink.h" [] (concat [
    enum_DLM_STATUS_WAITING; enum_DLM_CMD_UNSPEC]).
End Dlm_netlink.

(** ** [linux/dlm_plock.h] *)

Module Dlm_plock.
Definition enum_DLM_PLOCK_OP_LOCK : list decl := [
  Enum [
    ("DLM_PLOCK_OP_LOCK", Some (dec 1)); ("DLM_PLOCK_OP_UNLOCK", None);
    ("DLM_PLOCK_OP_GET", None)];
  Defines [
    ("DLM_PLOCK_FL_CLOSE", dec 1)]].
Definition header : header :=
  Header "linux/dlm_plock.h" [] (concat [
    enum_DLM_PLOCK_OP_LOCK]).
End Dlm_plock.

(** ** [linux/dlmconstants.h] *)

Module Dlmconstants.
Definition defs_DLM_LOCK_IV : list decl := [
  Defines [
    ("DLM_LOCK_IV", Neg (dec 1)); ("DLM_LOCK_NL", dec 0); ("DLM_LOCK_CR", dec 1);
    ("DLM_LOCK_CW", dec 2); ("DLM_LOCK_PR", dec 3); ("DLM_LOCK_PW", dec 4);
    ("DLM_LOCK_EX", dec 5)];
  Defines [
    ("DLM_LKF_NOQUEUE", hex 0x00000001); ("DLM_LKF_CANCEL", hex 0x00000002);
    ("DLM_LKF_CONVERT", hex 0x00000004); ("DLM_LKF_VALBLK", hex 0x00000008);
    ("DLM_LKF_QUECVT", hex 0x00000010); ("DLM_LKF_IVVALBLK", hex 0x00000020);
    ("DLM_LKF_CONVDEADLK", hex 0x00000040); ("DLM_LKF_PERSISTENT", hex 0x00000080);
    ("DLM_LKF_NODLCKWT", hex 0x00000100); ("DLM_LKF_NODLCKBLK", hex 0x00000200);
    ("DLM_LKF_EXPEDITE", hex 0x00000400); ("DLM_LKF_NOQUEUEBAST", hex 0x00000800);
    ("DLM_LKF_HEADQUE", hex 0x00001000); ("DLM_LKF_NOORDER", hex 0x00002000);
    ("DLM_LKF_ORPHAN", hex 0x00004000); ("DLM_LKF_ALTPR", hex 0x00008000);
    ("DLM_LKF_ALTCW", hex 0x00010000); ("DLM_LKF_FORCEUNLOCK", hex 0x00020000);
    ("DLM_LKF_TIMEOUT", hex 0x00040000)]].
Definition header : header :=
  Header "linux/dlmconstants.h" [] (concat [
    defs_DLM_LOCK_IV]).
End Dlmconstants.

(** ** [linux/dn.h] *)

Module Dn.
Definition defs_DNPROTO_NSP : list decl := [
  Defines [
    ("DNPROTO_NSP", dec 2); ("DNPROTO_ROU", dec 3); ("DNPROTO_NML", dec 4);
    ("DNPROTO_EVL", dec 5); ("DNPROTO_EVR", dec 6); ("DNPROTO_NSPT", dec 7); ("DN_ADDL", dec 2);
    ("DN_MAXADDL", dec 2); ("DN_MAXOPTL", dec 16); ("DN_MAXOBJL", dec 16);
    ("DN_MAXACCL", dec 40); ("DN_MAXALIASL", dec 128); ("DN_MAXNODEL", dec 256);
    ("DNBUFSIZE", dec 65023)];
  Defines [
    ("SO_CONDATA", dec 1); ("SO_CONACCESS", dec 2); ("SO_PROXYUSR", dec 3);
    ("SO_LINKINFO", dec 7); ("DSO_CONDATA", dec 1); ("DSO_DISDATA", dec 10);
    ("DSO_CONACCESS", dec 2); ("DSO_ACCEPTMODE", dec 4); ("DSO_CONACCEPT", dec 5);
    ("DSO_CONREJECT", dec 6); ("DSO_LINKINFO", dec 7); ("DSO_STREAM", dec 8);
    ("DSO_SEQPACKET", dec 9); ("DSO_MAXWINDOW", dec 11); ("DSO_NODELAY", dec 12);
    ("DSO_CORK", dec 13); ("DSO_SERVICES", dec 14); ("DSO_INFO", dec 15); ("DSO_MAX", dec 15);
    ("LL_INACTIVE", dec 0); ("LL_CONNECTING", dec 1); ("LL_RUNNING", dec 2);
    ("LL_DISCONNECTING", dec 3); ("ACC_IMMED", dec 0); ("ACC_DEFER", dec 1); ("SDF_WILD", dec 1);
    ("SDF_PROXY", dec 2); ("SDF_UICPROXY", dec 4)]].
Definition header : header :=
  Header "linux/dn.h" [] (concat [
    defs_DNPROTO_NSP]).
End Dn.

(** ** [linux/dqblk_xfs.h] *)

Module Dqblk_xfs.
Definition macro_XQM_CMD : list decl := [
  Define_fun "XQM_CMD" ["x"] (Add (Shl (chr 88) (dec 8)) (Id "x"))].
Definition defs_XQM_USRQUOTA : list decl := [
  Defines [
    ("XQM_USRQUOTA", dec 0); ("XQM_GRPQUOTA", dec 1); ("XQM_PRJQUOTA", dec 2);
    ("XQM_MAXQUOTAS", dec 3); ("Q_XQUOTAON", App "XQM_CMD" [dec 1]);
    ("Q_XQUOTAOFF", App "XQM_CMD" [dec 2]); ("Q_XGETQUOTA", App "XQM_CMD" [dec 3]);
    ("Q_XSETQLIM", App "XQM_CMD" [dec 4]); ("Q_XGETQSTAT", App "XQM_CMD" [dec 5]);
    ("Q_XQUOTARM", App "XQM_CMD" [dec 6]); ("Q_XQUOTASYNC", App "XQM_CMD" [dec 7]);
    ("Q_XGETQSTATV", App "XQM_CMD" [dec 8])]].
Definition defs_FS_DQ_ISOFT : list decl := [
  Defines [
    ("FS_DQ_ISOFT", Shl (dec 1) (dec 0)); ("FS_DQ_IHARD", Shl (dec 1) (dec 1));
    ("FS_DQ_BSOFT", Shl (dec 1) (dec 2)); ("FS_DQ_BHARD", Shl (dec 1) (dec 3));
    ("FS_DQ_RTBSOFT", Shl (dec 1) (dec 4)); ("FS_DQ_RTBHARD", Shl (dec 1) (dec 5));
    ("FS_DQ_LIMIT_MASK", Or (Or (Or (Or (Or (Id "FS_DQ_ISOFT") (Id "FS_DQ_IHARD")) (Id "FS_DQ_BSOFT")) (Id "FS_DQ_BHARD")) (Id "FS_DQ_RTBSOFT")) (Id "FS_DQ_RTBHARD"))];
  Defines [
    ("FS_DQ_BTIMER", Shl (dec 1) (dec 6)); ("FS_DQ_ITIMER", Shl (dec 1) (dec 7));
    ("FS_DQ_RTBTIMER", Shl (dec 1) (dec 8));
    ("FS_DQ_TIMER_MASK", Or (Or (Id "FS_DQ_BTIMER") (Id "FS_DQ_ITIMER")) (Id "FS_DQ_RTBTIMER"))];
  Defines [
    ("FS_DQ_BWARNS", Shl (dec 1) (dec 9)); ("FS_DQ_IWARNS", Shl (dec 1) (dec 10));
    ("FS_DQ_RTBWARNS", Shl (dec 1) (dec 11));
    ("FS_DQ_WARNS_MASK", Or (Or (Id "FS_DQ_BWARNS") (Id "FS_DQ_IWARNS")) (Id "FS_DQ_RTBWARNS"))];
  Defines [
    ("FS_DQ_BCOUNT", Shl (dec 1) (dec 12)); ("FS_DQ_ICOUNT", Shl (dec 1) (dec 13));
    ("FS_DQ_RTBCOUNT", Shl (dec 1) (dec 14));
    ("FS_DQ_ACCT_MASK", Or (Or (Id "FS_DQ_BCOUNT") (Id "FS_DQ_ICOUNT")) (Id "FS_DQ_RTBCOUNT"))];
  Defines [
    ("FS_QUOTA_UDQ_ACCT", Shl (dec 1) (dec 0)); ("FS_QUOTA_UDQ_ENFD", Shl (dec 1) (dec 1));
    ("FS_QUOTA_GDQ_ACCT", Shl (dec 1) (dec 2)); ("FS_QUOTA_GDQ_ENFD", Shl (dec 1) (dec 3));
    ("FS_QUOTA_PDQ_ACCT", Shl (dec 1) (dec 4)); ("FS_QUOTA_PDQ_ENFD", Shl (dec 1) (dec 5));
    ("FS_USER_QUOTA", Shl (dec 1) (dec 0)); ("FS_PROJ_QUOTA", Shl (dec 1) (dec 1));
    ("FS_GROUP_QUOTA", Shl (dec 1) (dec 2))]].
Definition header : header :=
  Header "linux/dqblk_xfs.h" [] (concat [
    macro_XQM_CMD; defs_XQM_USRQUOTA; defs_FS_DQ_ISOFT]).
End Dqblk_xfs.

(** ** [linux/edd.h] *)

Module Edd.
Definition defs_EDDNR : list decl := [
  Defines [
    ("EDDNR", hex 0x1e9); ("EDDBUF", hex 0xd00); ("EDDMAXNR", dec 6); ("EDDEXTSIZE", dec 8);
    ("EDDPARMSIZE", dec 74); ("CHECKEXTENSIONSPRESENT", hex 0x41);
    ("GETDEVICEPARAMETERS", hex 0x48); ("LEGACYGETDEVICEPARAMETERS", hex 0x08);
    ("EDDMAGIC1", hex 0x55AA); ("EDDMAGIC2", hex 0xAA55); ("READ_SECTORS", hex 0x02);
    ("EDD_MBR_SIG_OFFSET", hex 0x1B8); ("EDD_MBR_SIG_BUF", hex 0x290);
    ("EDD_MBR_SIG_MAX", dec 16); ("EDD_MBR_SIG_NR_BUF", hex 0x1ea)];
  Defines [
    ("EDD_EXT_FIXED_DISK_ACCESS", Shl (dec 1) (dec 0));
    ("EDD_EXT_DEVICE_LOCKING_AND_EJECTING", Shl (dec 1) (dec 1));
    ("EDD_EXT_ENHANCED_DISK_DRIVE_SUPPORT", Shl (dec 1) (dec 2));
    ("EDD_EXT_64BIT_EXTENSIONS", Shl (dec 1) (dec 3));
    ("EDD_INFO_DMA_BOUNDARY_ERROR_TRANSPARENT", Shl (dec 1) (dec 0));
    ("EDD_INFO_GEOMETRY_VALID", Shl (dec 1) (dec 1));
    ("EDD_INFO_REMOVABLE", Shl (dec 1) (dec 2)); ("EDD_INFO_WRITE_VERIFY", Shl (dec 1) (dec 3));
    ("EDD_INFO_MEDIA_CHANGE_NOTIFICATION", Shl (dec 1) (dec 4));
    ("EDD_INFO_LOCKABLE", Shl (dec 1) (dec 5));
    ("EDD_INFO_NO_MEDIA_PRESENT", Shl (dec 1) (dec 6));
    ("EDD_INFO_USE_INT13_FN50", Shl (dec 1) (dec 7))]].
Definition header : header :=
  Header "linux/edd.h" [] (concat [
    defs_EDDNR]).
End Edd.

(** ** [linux/efs_fs_sb.h] *)

Module Efs_fs_sb.
Definition defs_EFS_MAGIC : list decl := [
  Defines [
    ("EFS_MAGIC", hex 0x072959); ("EFS_NEWMAGIC", hex 0x07295a); ("EFS_SUPER", dec 1);
    ("EFS_ROOTINODE", dec 2)]].
Definition header : header :=
  Header "linux/efs_fs_sb.h" [] (concat [
    defs_EFS_MAGIC]).
End Efs_fs_sb.

(** ** [linux/errqueue.h] *)

Module Errqueue.
Definition defs_SO_EE_ORIGIN_NONE : list decl := [
  Defines [
    ("SO_EE_ORIGIN_NONE", dec 0); ("SO_EE_ORIGIN_LOCAL", dec 1); ("SO_EE_ORIGIN_ICMP", dec 2);
    ("SO_EE_ORIGIN_ICMP6", dec 3); ("SO_EE_ORIGIN_TXSTATUS", dec 4);
    ("SO_EE_ORIGIN_TIMESTAMPING", Id "SO_EE_ORIGIN_TXSTATUS")]].
Definition enum_SCM_TSTAMP_SND : list decl := [
  Enum [
    ("SCM_TSTAMP_SND", None); ("SCM_TSTAMP_SCHED", None); ("SCM_TSTAMP_ACK", None)]].
Definition header : header :=
  Header "linux/errqueue.h" [] (concat [
    defs_SO_EE_ORIGIN_NONE; enum_SCM_TSTAMP_SND]).
End Errqueue.

(** ** [linux/fanotify.h] *)

Module Fanotify.
Definition defs_FAN_ACCESS : list decl := [
  Defines [
    ("FAN_ACCESS", hex 0x00000001); ("FAN_MODIFY", hex 0x00000002);
    ("FAN_CLOSE_WRITE", hex 0x00000008); ("FAN_CLOSE_NOWRITE", hex 0x00000010);
    ("FAN_OPEN", hex 0x00000020); ("FAN_Q_OVERFLOW", hex 0x00004000);
    ("FAN_OPEN_PERM", hex 0x00010000); ("FAN_ACCESS_PERM", hex 0x00020000);
    ("FAN_ONDIR", hex 0x40000000); ("FAN_EVENT_ON_CHILD", hex 0x08000000);
    ("FAN_CLOSE", Or (Id "FAN_CLOSE_WRITE") (Id "FAN_CLOSE_NOWRITE"));
    ("FAN_CLOEXEC", hex 0x00000001); ("FAN_NONBLOCK", hex 0x00000002);
    ("FAN_CLASS_NOTIF", hex 0x00000000); ("FAN_CLASS_CONTENT", hex 0x00000004);
    ("FAN_CLASS_PRE_CONTENT", hex 0x00000008);
    ("FAN_ALL_CLASS_BITS", Or (Or (Id "FAN_CLASS_NOTIF") (Id "FAN_CLASS_CONTENT")) (Id "FAN_CLASS_PRE_CONTENT"));
    ("FAN_UNLIMITED_QUEUE", hex 0x00000010); ("FAN_UNLIMITED_MARKS", hex 0x00000020);
    ("FAN_ALL_INIT_FLAGS", Or (Or (Or (Or (Id "FAN_CLOEXEC") (Id "FAN_NONBLOCK")) (Id "FAN_ALL_CLASS_BITS")) (Id "FAN_UNLIMITED_QUEUE")) (Id "FAN_UNLIMITED_MARKS"));
    ("FAN_MARK_ADD", hex 0x00000001); ("FAN_MARK_REMOVE", hex 0x00000002);
    ("FAN_MARK_DONT_FOLLOW", hex 0x00000004); ("FAN_MARK_ONLYDIR", hex 0x00000008);
    ("FAN_MARK_MOUNT", hex 0x00000010); ("FAN_MARK_IGNORED_MASK", hex 0x00000020);
    ("FAN_MARK_IGNORED_SURV_MODIFY", hex 0x00000040); ("FAN_MARK_FLUSH", hex 0x00000080);
    ("FAN_ALL_MARK_FLAGS", Or (Or (Or (Or (Or (Or (Or (Id "FAN_MARK_ADD") (Id "FAN_MARK_REMOVE")) (Id "FAN_MARK_DONT_FOLLOW")) (Id "FAN_MARK_ONLYDIR")) (Id "FAN_MARK_MOUNT")) (Id "FAN_MARK_IGNORED_MASK")) (Id "FAN_MARK_IGNORED_SURV_MODIFY")) (Id "FAN_MARK_FLUSH"))]].
Definition header : header :=
  Header "linux/fanotify.h" [] (concat [
    defs_FAN_ACCESS]).
End Fanotify.

(** ** [linux/fdreg.h] *)

Module Fdreg.
Definition defs_FD_IOPORT : list decl := [
  Defines [
    ("FD_IOPORT", hex 0x3f0)];
  Defines [
    ("FD_STATUS", Add (dec 4) (Id "FD_IOPORT")); ("FD_DATA", Add (dec 5) (Id "FD_IOPORT"));
    ("FD_DOR", Add (dec 2) (Id "FD_IOPORT")); ("FD_DIR", Add (dec 7) (Id "FD_IOPORT"));
    ("FD_DCR", Add (dec 7) (Id "FD_IOPORT")); ("STATUS_BUSYMASK", hex 0x0F);
    ("STATUS_BUSY", hex 0x10); ("STATUS_DMA", hex 0x20); ("STATUS_DIR", hex 0x40);
    ("STATUS_READY", hex 0x80); ("ST0_DS", hex 0x03); ("ST0_HA", hex 0x04); ("ST0_NR", hex 0x08);
    ("ST0_ECE", hex 0x10); ("ST0_SE", hex 0x20); ("ST0_INTR", hex 0xC0); ("ST1_MAM", hex 0x01);
    ("ST1_WP", hex 0x02); ("ST1_ND", hex 0x04); ("ST1_OR", hex 0x10); ("ST1_CRC", hex 0x20);
    ("ST1_EOC", hex 0x80); ("ST2_MAM", hex 0x01); ("ST2_BC", hex 0x02); ("ST2_SNS", hex 0x04);
    ("ST2_SEH", hex 0x08); ("ST2_WC", hex 0x10); ("ST2_CRC", hex 0x20); ("ST2_CM", hex 0x40);
    ("ST3_HA", hex 0x04); ("ST3_DS", hex 0x08); ("ST3_TZ", hex 0x10); ("ST3_RY", hex 0x20);
    ("ST3_WP", hex 0x40); ("ST3_FT", hex 0x80); ("FD_RECALIBRATE", hex 0x07);
    ("FD_SEEK", hex 0x0F); ("FD_READ", hex 0xE6); ("FD_WRITE", hex 0xC5);
    ("FD_SENSEI", hex 0x08); ("FD_SPECIFY", hex 0x03); ("FD_FORMAT", hex 0x4D);
    ("FD_VERSION", hex 0x10); ("FD_CONFIGURE", hex 0x13); ("FD_PERPENDICULAR", hex 0x12);
    ("FD_GETSTATUS", hex 0x04); ("FD_DUMPREGS", hex 0x0E); ("FD_READID", hex 0xEA);
    ("FD_UNLOCK", hex 0x14); ("FD_LOCK", hex 0x94); ("FD_RSEEK_OUT", hex 0x8f);
    ("FD_RSEEK_IN", hex 0xcf)];
  Defines [
    ("FD_PARTID", hex 0x18); ("FD_SAVE", hex 0x2e); ("FD_DRIVESPEC", hex 0x8e);
    ("FD_RESTORE", hex 0x4e); ("FD_POWERDOWN", hex 0x27); ("FD_FORMAT_N_WRITE", hex 0xef);
    ("FD_OPTION", hex 0x33); ("DMA_READ", hex 0x46); ("DMA_WRITE", hex 0x4A);
    ("FDC_NONE", hex 0x00); ("FDC_UNKNOWN", hex 0x10); ("FDC_8272A", hex 0x20);
    ("FDC_765ED", hex 0x30); ("FDC_82072", hex 0x40); ("FDC_82072A", hex 0x45);
    ("FDC_82077_ORIG", hex 0x51); ("FDC_82077", hex 0x52); ("FDC_82078_UNKN", hex 0x5f);
    ("FDC_82078", hex 0x60); ("FDC_82078_1", hex 0x61); ("FDC_S82078B", hex 0x62);
    ("FDC_87306", hex 0x63)]].
Definition header : header :=
  Header "linux/fdreg.h" [] (concat [
    defs_FD_IOPORT]).
End Fdreg.

(** ** [linux/fiemap.h] *)

Module Fiemap.
Definition defs_FIEMAP_MAX_OFFSET : list decl := [
  Defines [
    ("FIEMAP_MAX_OFFSET", Not (decULL 0)); ("FIEMAP_FLAG_SYNC", hex 0x00000001);
    ("FIEMAP_FLAG_XATTR", hex 0x00000002); ("FIEMAP_FLAG_CACHE", hex 0x00000004);
    ("FIEMAP_FLAGS_COMPAT", Or (Id "FIEMAP_FLAG_SYNC") (Id "FIEMAP_FLAG_XATTR"));
    ("FIEMAP_EXTENT_LAST", hex 0x00000001); ("FIEMAP_EXTENT_UNKNOWN", hex 0x00000002);
    ("FIEMAP_EXTENT_DELALLOC", hex 0x00000004); ("FIEMAP_EXTENT_ENCODED", hex 0x00000008);
    ("FIEMAP_EXTENT_DATA_ENCRYPTED", hex 0x00000080);
    ("FIEMAP_EXTENT_NOT_ALIGNED", hex 0x00000100); ("FIEMAP_EXTENT_DATA_INLINE", hex 0x00000200);
    ("FIEMAP_EXTENT_DATA_TAIL", hex 0x00000400); ("FIEMAP_EXTENT_UNWRITTEN", hex 0x00000800);
    ("FIEMAP_EXTENT_MERGED", hex 0x00001000); ("FIEMAP_EXTENT_SHARED", hex 0x00002000)]].
Definition header : header :=
  Header "linux/fiemap.h" [] (concat [
    defs_FIEMAP_MAX_OFFSET]).
End Fiemap.

(** ** [linux/fips_status.h] *)

Module Fips_status.
Definition enum_fips_status : list decl := [
  Enum [
    ("FIPS140_STATUS_NA", Some (dec 0)); ("FIPS140_STATUS_PASS_CRYPTO", Some (dec 1));
    ("FIPS140_STATUS_QCRYPTO_ALLOWED", Some (dec 2)); ("FIPS140_STATUS_PASS", Some (dec 3));
    ("FIPS140_STATUS_FAIL", Some (hex 0xFF))]].
Definition header : header :=
  Header "linux/fips_status.h" [] (concat [
    enum_fips_status]).
End Fips_status.

(** ** [linux/firewire-cdev.h] *)

Module Firewire_cdev.
Definition defs_FW_CDEV_EVENT_BUS_RESET : list decl := [
  Defines [
    ("FW_CDEV_EVENT_BUS_RESET", hex 0x00); ("FW_CDEV_EVENT_RESPONSE", hex 0x01);
    ("FW_CDEV_EVENT_REQUEST", hex 0x02); ("FW_CDEV_EVENT_ISO_INTERRUPT", hex 0x03);
    ("FW_CDEV_EVENT_ISO_RESOURCE_ALLOCATED", hex 0x04);
    ("FW_CDEV_EVENT_ISO_RESOURCE_DEALLOCATED", hex 0x05); ("FW_CDEV_EVENT_REQUEST2", hex 0x06);
    ("FW_CDEV_EVENT_PHY_PACKET_SENT", hex 0x07); ("FW_CDEV_EVENT_PHY_PACKET_RECEIVED", hex 0x08);
    ("FW_CDEV_EVENT_ISO_INTERRUPT_MULTICHANNEL", hex 0x09)]].
Definition defs_FW_CDEV_ISO_CONTEXT_MATCH_TAG0 : list decl := [
  Defines [
    ("FW_CDEV_ISO_CONTEXT_MATCH_TAG0", dec 1); ("FW_CDEV_ISO_CONTEXT_MATCH_TAG1", dec 2);
    ("FW_CDEV_ISO_CONTEXT_MATCH_TAG2", dec 4); ("FW_CDEV_ISO_CONTEXT_MATCH_TAG3", dec 8);
    ("FW_CDEV_ISO_CONTEXT_MATCH_ALL_TAGS", dec 15)]].
Definition header : header :=
  Header "linux/firewire-cdev.h" [] (concat [
    defs_FW_CDEV_EVENT_BUS_RESET; defs_FW_CDEV_ISO_CONTEXT_MATCH_TAG0]).
End Firewire_cdev.

(** ** [linux/firewire-constants.h] *)

Module Firewire_constants.
Definition defs_TCODE_WRITE_QUADLET_REQUEST : list decl := [
  Defines [
    ("TCODE_WRITE_QUADLET_REQUEST", hex 0x0); ("TCODE_WRITE_BLOCK_REQUEST", hex 0x1);
    ("TCODE_WRITE_RESPONSE", hex 0x2); ("TCODE_READ_QUADLET_REQUEST", hex 0x4);
    ("TCODE_READ_BLOCK_REQUEST", hex 0x5); ("TCODE_READ_QUADLET_RESPONSE", hex 0x6);
    ("TCODE_READ_BLOCK_RESPONSE", hex 0x7); ("TCODE_CYCLE_START", hex 0x8);
    ("TCODE_LOCK_REQUEST", hex 0x9); ("TCODE_STREAM_DATA", hex 0xa);
    ("TCODE_LOCK_RESPONSE", hex 0xb); ("EXTCODE_MASK_SWAP", hex 0x1);
    ("EXTCODE_COMPARE_SWAP", hex 0x2); ("EXTCODE_FETCH_ADD", hex 0x3);
    ("EXTCODE_LITTLE_ADD", hex 0x4); ("EXTCODE_BOUNDED_ADD", hex 0x5);
    ("EXTCODE_WRAP_ADD", hex 0x6); ("EXTCODE_VENDOR_DEPENDENT", hex 0x7);
    ("TCODE_LOCK_MASK_SWAP", Or (hex 0x10) (Id "EXTCODE_MASK_SWAP"));
    ("TCODE_LOCK_COMPARE_SWAP", Or (hex 0x10) (Id "EXTCODE_COMPARE_SWAP"));
    ("TCODE_LOCK_FETCH_ADD", Or (hex 0x10) (Id "EXTCODE_FETCH_ADD"));
    ("TCODE_LOCK_LITTLE_ADD", Or (hex 0x10) (Id "EXTCODE_LITTLE_ADD"));
    ("TCODE_LOCK_BOUNDED_ADD", Or (hex 0x10) (Id "EXTCODE_BOUNDED_ADD"));
    ("TCODE_LOCK_WRAP_ADD", Or (hex 0x10) (Id "EXTCODE_WRAP_ADD"));
    ("TCODE_LOCK_VENDOR_DEPENDENT", Or (hex 0x10) (Id "EXTCODE_VENDOR_DEPENDENT"));
    ("RCODE_COMPLETE", hex 0x0); ("RCODE_CONFLICT_ERROR", hex 0x4);
    ("RCODE_DATA_ERROR", hex 0x5); ("RCODE_TYPE_ERROR", hex 0x6);
    ("RCODE_ADDRESS_ERROR", hex 0x7); ("RCODE_SEND_ERROR", hex 0x10);
    ("RCODE_CANCELLED", hex 0x11); ("RCODE_BUSY", hex 0x12); ("RCODE_GENERATION", hex 0x13);
    ("RCODE_NO_ACK", hex 0x14); ("SCODE_100", hex 0x0); ("SCODE_200", hex 0x1);
    ("SCODE_400", hex 0x2); ("SCODE_800", hex 0x3); ("SCODE_1600", hex 0x4);
    ("SCODE_3200", hex 0x5); ("SCODE_BETA", hex 0x3); ("ACK_COMPLETE", hex 0x1);
    ("ACK_PENDING", hex 0x2); ("ACK_BUSY_X", hex 0x4); ("ACK_BUSY_A", hex 0x5);
    ("ACK_BUSY_B", hex 0x6); ("ACK_DATA_ERROR", hex 0xd); ("ACK_TYPE_ERROR", hex 0xe);
    ("RETRY_1", hex 0x00); ("RETRY_X", hex 0x01); ("RETRY_A", hex 0x02); ("RETRY_B", hex 0x03)]].
Definition header : header :=
  Header "linux/firewire-constants.h" [] (concat [
    defs_TCODE_WRITE_QUADLET_REQUEST]).
End Firewire_constants.

(** ** [linux/flat.h] *)

Module Flat.
Definition defs_FLAT_FLAG_RAM : list decl := [
  Defines [
    ("FLAT_FLAG_RAM", hex 0x0001); ("FLAT_FLAG_GOTPIC", hex 0x0002);
    ("FLAT_FLAG_GZIP", hex 0x0004); ("FLAT_FLAG_GZDATA", hex 0x0008);
    ("FLAT_FLAG_KTRACE", hex 0x0010)]].
Definition header : header :=
  Header "linux/flat.h" [] (concat [
    defs_FLAT_FLAG_RAM]).
End Flat.

(** ** [linux/gameport.h] *)

Module Gameport.
Definition defs_GAMEPORT_MODE_DISABLED : list decl := [
  Defines [
    ("GAMEPORT_MODE_DISABLED", dec 0); ("GAMEPORT_MODE_RAW", dec 1);
    ("GAMEPORT_MODE_COOKED", dec 2); ("GAMEPORT_ID_VENDOR_ANALOG", hex 0x0001);
    ("GAMEPORT_ID_VENDOR_MADCATZ", hex 0x0002); ("GAMEPORT_ID_VENDOR_LOGITECH", hex 0x0003);
    ("GAMEPORT_ID_VENDOR_CREATIVE", hex 0x0004); ("GAMEPORT_ID_VENDOR_GENIUS", hex 0x0005);
    ("GAMEPORT_ID_VENDOR_INTERACT", hex 0x0006); ("GAMEPORT_ID_VENDOR_MICROSOFT", hex 0x0007);
    ("GAMEPORT_ID_VENDOR_THRUSTMASTER", hex 0x0008); ("GAMEPORT_ID_VENDOR_GRAVIS", hex 0x0009);
    ("GAMEPORT_ID_VENDOR_GUILLEMOT", hex 0x000a)]].
Definition header : header :=
  Header "linux/gameport.h" [] (concat [
    defs_GAMEPORT_MODE_DISABLED]).
End Gameport.

(** ** [linux/gfs2_ondisk.h] *)

Module Gfs2_ondisk.
Definition defs_GFS2_MAGIC : list decl := [
  Defines [
    ("GFS2_MAGIC", hex 0x01161970); ("GFS2_BASIC_BLOCK", dec 512);
    ("GFS2_BASIC_BLOCK_SHIFT", dec 9); ("GFS2_MOUNT_LOCK", dec 0); ("GFS2_LIVE_LOCK", dec 1);
    ("GFS2_FREEZE_LOCK", dec 2); ("GFS2_RENAME_LOCK", dec 3); ("GFS2_CONTROL_LOCK", dec 4);
    ("GFS2_MOUNTED_LOCK", dec 5); ("GFS2_FORMAT_NONE", dec 0); ("GFS2_FORMAT_SB", dec 100);
    ("GFS2_FORMAT_RG", dec 200); ("GFS2_FORMAT_RB", dec 300); ("GFS2_FORMAT_DI", dec 400);
    ("GFS2_FORMAT_IN", dec 500); ("GFS2_FORMAT_LF", dec 600); ("GFS2_FORMAT_JD", dec 700);
    ("GFS2_FORMAT_LH", dec 800); ("GFS2_FORMAT_LD", dec 900); ("GFS2_FORMAT_LB", dec 1000);
    ("GFS2_FORMAT_EA", dec 1600); ("GFS2_FORMAT_ED", dec 1700); ("GFS2_FORMAT_QC", dec 1400);
    ("GFS2_FORMAT_RI", dec 1100); ("GFS2_FORMAT_DE", dec 1200); ("GFS2_FORMAT_QU", dec 1500);
    ("GFS2_FORMAT_FS", dec 1801); ("GFS2_FORMAT_MULTI", dec 1900)]].
Definition defs_GFS2_METATYPE_NONE : list decl := [
  Defines [
    ("GFS2_METATYPE_NONE", dec 0); ("GFS2_METATYPE_SB", dec 1); ("GFS2_METATYPE_RG", dec 2);
    ("GFS2_METATYPE_RB", dec 3); ("GFS2_METATYPE_DI", dec 4); ("GFS2_METATYPE_IN", dec 5);
    ("GFS2_METATYPE_LF", dec 6); ("GFS2_METATYPE_JD", dec 7); ("GFS2_METATYPE_LH", dec 8);
    ("GFS2_METATYPE_LD", dec 9); ("GFS2_METATYPE_LB", dec 12); ("GFS2_METATYPE_EA", dec 10);
    ("GFS2_METATYPE_ED", dec 11); ("GFS2_METATYPE_QC", dec 14)]].
Definition defs_GFS2_NBBY : list decl := [
  Defines [
    ("GFS2_NBBY", dec 4); ("GFS2_BIT_SIZE", dec 2); ("GFS2_BIT_MASK", hex 0x00000003);
    ("GFS2_BLKST_FREE", dec 0); ("GFS2_BLKST_USED", dec 1); ("GFS2_BLKST_UNLINKED", dec 2);
    ("GFS2_BLKST_DINODE", dec 3); ("GFS2_RGF_JOURNAL", hex 0x00000001);
    ("GFS2_RGF_METAONLY", hex 0x00000002); ("GFS2_RGF_DATAONLY", hex 0x00000004);
    ("GFS2_RGF_NOALLOC", hex 0x00000008); ("GFS2_RGF_TRIMMED", hex 0x00000010)]].
Definition enum_gfs2fl_Jdata : list decl := [
  Enum [
    ("gfs2fl_Jdata", Some (dec 0)); ("gfs2fl_ExHash", Some (dec 1));
    ("gfs2fl_Unused", Some (dec 2)); ("gfs2fl_EaIndirect", Some (dec 3));
    ("gfs2fl_Directio", Some (dec 4)); ("gfs2fl_Immutable", Some (dec 5));
    ("gfs2fl_AppendOnly", Some (dec 6)); ("gfs2fl_NoAtime", Some (dec 7));
    ("gfs2fl_Sync", Some (dec 8)); ("gfs2fl_System", Some (dec 9));
    ("gfs2fl_TopLevel", Some (dec 10)); ("gfs2fl_TruncInProg", Some (dec 29));
    ("gfs2fl_InheritDirectio", Some (dec 30)); ("gfs2fl_InheritJdata", Some (dec 31))];
  Defines [
    ("GFS2_DIF_JDATA", hex 0x00000001); ("GFS2_DIF_EXHASH", hex 0x00000002);
    ("GFS2_DIF_UNUSED", hex 0x00000004); ("GFS2_DIF_EA_INDIRECT", hex 0x00000008);
    ("GFS2_DIF_DIRECTIO", hex 0x00000010); ("GFS2_DIF_IMMUTABLE", hex 0x00000020);
    ("GFS2_DIF_APPENDONLY", hex 0x00000040); ("GFS2_DIF_NOATIME", hex 0x00000080);
    ("GFS2_DIF_SYNC", hex 0x00000100); ("GFS2_DIF_SYSTEM", hex 0x00000200);
    ("GFS2_DIF_TOPDIR", hex 0x00000400); ("GFS2_DIF_TRUNC_IN_PROG", hex 0x20000000);
    ("GFS2_DIF_INHERIT_DIRECTIO", hex 0x40000000); ("GFS2_DIF_INHERIT_JDATA", hex 0x80000000)]].
Definition defs_GFS2_EA_MAX_NAME_LEN : list decl := [
  Defines [
    ("GFS2_EA_MAX_NAME_LEN", dec 255); ("GFS2_EA_MAX_DATA_LEN", dec 65536);
    ("GFS2_EATYPE_UNUSED", dec 0); ("GFS2_EATYPE_USR", dec 1); ("GFS2_EATYPE_SYS", dec 2);
    ("GFS2_EATYPE_SECURITY", dec 3); ("GFS2_EATYPE_LAST", dec 3); ("GFS2_EAFLAG_LAST", hex 0x01)]].
Definition header : header :=
  Header "linux/gfs2_ondisk.h" [] (concat [
    defs_GFS2_MAGIC; defs_GFS2_METATYPE_NONE; defs_GFS2_NBBY; enum_gfs2fl_Jdata;
    defs_GFS2_EA_MAX_NAME_LEN]).
End Gfs2_ondisk.

(** ** [linux/habmmid.h] *)

Module Habmmid.
Definition defs_MM_AUD_START : list decl := [
  Defines [
    ("MM_AUD_START", dec 100); ("MM_AUD_1", dec 101); ("MM_AUD_2", dec 102);
    ("MM_AUD_3", dec 103); ("MM_AUD_4", dec 104); ("MM_AUD_END", dec 105);
    ("MM_CAM_START", dec 200); ("MM_CAM_1", dec 201); ("MM_CAM_2", dec 202);
    ("MM_CAM_END", dec 203); ("MM_DISP_START", dec 300); ("MM_DISP_1", dec 301);
    ("MM_DISP_2", dec 302); ("MM_DISP_3", dec 303); ("MM_DISP_4", dec 304);
    ("MM_DISP_5", dec 305); ("MM_DISP_END", dec 306); ("MM_GFX_START", dec 400);
    ("MM_GFX", dec 401); ("MM_GFX_END", dec 402); ("MM_VID_START", dec 500); ("MM_VID", dec 501);
    ("MM_VID_2", dec 502); ("MM_VID_END", dec 503); ("MM_MISC_START", dec 600);
    ("MM_MISC", dec 601); ("MM_MISC_END", dec 602); ("MM_QCPE_START", dec 700);
    ("MM_QCPE_VM1", dec 701); ("MM_QCPE_END", dec 702); ("MM_CLK_START", dec 800);
    ("MM_CLK_VM1", dec 801); ("MM_CLK_VM2", dec 802); ("MM_CLK_END", dec 803);
    ("MM_FDE_START", dec 900); ("MM_FDE_1", dec 901); ("MM_FDE_END", dec 902);
    ("MM_BUFFERQ_START", dec 1000); ("MM_BUFFERQ_1", dec 1001); ("MM_BUFFERQ_END", dec 1002);
    ("MM_ID_MAX", dec 1003)]].
Definition header : header :=
  Header "linux/habmmid.h" [] (concat [
    defs_MM_AUD_START]).
End Habmmid.

(** ** [linux/input-event-codes.h] *)

Module Input_event_codes.
Definition defs_INPUT_PROP_POINTER : list decl := [
  Defines [
    ("INPUT_PROP_POINTER", hex 0x00); ("INPUT_PROP_DIRECT", hex 0x01);
    ("INPUT_PROP_BUTTONPAD", hex 0x02); ("INPUT_PROP_SEMI_MT", hex 0x03);
    ("INPUT_PROP_TOPBUTTONPAD", hex 0x04); ("INPUT_PROP_POINTING_STICK", hex 0x05);
    ("INPUT_PROP_ACCELEROMETER", hex 0x06); ("INPUT_PROP_MAX", hex 0x1f);
    ("INPUT_PROP_CNT", Add (Id "INPUT_PROP_MAX") (dec 1))];
  Defines [
    ("EV_SYN", hex 0x00); ("EV_KEY", hex 0x01); ("EV_REL", hex 0x02); ("EV_ABS", hex 0x03);
    ("EV_MSC", hex 0x04); ("EV_SW", hex 0x05); ("EV_LED", hex 0x11); ("EV_SND", hex 0x12);
    ("EV_REP", hex 0x14); ("EV_FF", hex 0x15); ("EV_PWR", hex 0x16); ("EV_FF_STATUS", hex 0x17);
    ("EV_MAX", hex 0x1f); ("EV_CNT", Add (Id "EV_MAX") (dec 1))];
  Defines [
    ("SYN_REPORT", dec 0); ("SYN_CONFIG", dec 1); ("SYN_MT_REPORT", dec 2);
    ("SYN_DROPPED", dec 3); ("SYN_TIME_SEC", dec 4); ("SYN_TIME_NSEC", dec 5);
    ("SYN_MAX", hex 0xf); ("SYN_CNT", Add (Id "SYN_MAX") (dec 1))]].
Definition defs_KEY_RESERVED : list decl := [
  Defines [
    ("KEY_RESERVED", dec 0); ("KEY_ESC", dec 1); ("KEY_1", dec 2); ("KEY_2", dec 3);
    ("KEY_3", dec 4); ("KEY_4", dec 5); ("KEY_5", dec 6); ("KEY_6", dec 7); ("KEY_7", dec 8);
    ("KEY_8", dec 9); ("KEY_9", dec 10); ("KEY_0", dec 11); ("KEY_MINUS", dec 12);
    ("KEY_EQUAL", dec 13); ("KEY_BACKSPACE", dec 14); ("KEY_TAB", dec 15); ("KEY_Q", dec 16);
    ("KEY_W", dec 17); ("KEY_E", dec 18); ("KEY_R", dec 19); ("KEY_T", dec 20);
    ("KEY_Y", dec 21); ("KEY_U", dec 22); ("KEY_I", dec 23); ("KEY_O", dec 24);
    ("KEY_P", dec 25); ("KEY_LEFTBRACE", dec 26); ("KEY_RIGHTBRACE", dec 27);
    ("KEY_ENTER", dec 28); ("KEY_LEFTCTRL", dec 29); ("KEY_A", dec 30); ("KEY_S", dec 31);
    ("KEY_D", dec 32); ("KEY_F", dec 33); ("KEY_G", dec 34); ("KEY_H", dec 35);
    ("KEY_J", dec 36); ("KEY_K", dec 37); ("KEY_L", dec 38); ("KEY_SEMICOLON", dec 39);
    ("KEY_APOSTROPHE", dec 40); ("KEY_GRAVE", dec 41); ("KEY_LEFTSHIFT", dec 42);
    ("KEY_BACKSLASH", dec 43); ("KEY_Z", dec 44); ("KEY_X", dec 45); ("KEY_C", dec 46);
    ("KEY_V", dec 47); ("KEY_B", dec 48); ("KEY_N", dec 49); ("KEY_M", dec 50);
    ("KEY_COMMA", dec 51); ("KEY_DOT", dec 52); ("KEY_SLASH", dec 53);
    ("KEY_RIGHTSHIFT", dec 54); ("KEY_KPASTERISK", dec 55); ("KEY_LEFTALT", dec 56);
    ("KEY_SPACE", dec 57); ("KEY_CAPSLOCK", dec 58); ("KEY_F1", dec 59); ("KEY_F2", dec 60);
    ("KEY_F3", dec 61); ("KEY_F4", dec 62); ("KEY_F5", dec 63); ("KEY_F6", dec 64);
    ("KEY_F7", dec 65); ("KEY_F8", dec 66); ("KEY_F9", dec 67); ("KEY_F10", dec 68);
    ("KEY_NUMLOCK", dec 69); ("KEY_SCROLLLOCK", dec 70); ("KEY_KP7", dec 71);
    ("KEY_KP8", dec 72); ("KEY_KP9", dec 73); ("KEY_KPMINUS", dec 74); ("KEY_KP4", dec 75);
    ("KEY_KP5", dec 76); ("KEY_KP6", dec 77); ("KEY_KPPLUS", dec 78); ("KEY_KP1", dec 79);
    ("KEY_KP2", dec 80); ("KEY_KP3", dec 81); ("KEY_KP0", dec 82); ("KEY_KPDOT", dec 83);
    ("KEY_ZENKAKUHANKAKU", dec 85); ("KEY_102ND", dec 86); ("KEY_F11", dec 87);
    ("KEY_F12", dec 88); ("KEY_RO", dec 89); ("KEY_KATAKANA", dec 90); ("KEY_HIRAGANA", dec 91);
    ("KEY_HENKAN", dec 92); ("KEY_KATAKANAHIRAGANA", dec 93); ("KEY_MUHENKAN", dec 94);
    ("KEY_KPJPCOMMA", dec 95); ("KEY_KPENTER", dec 96); ("KEY_RIGHTCTRL", dec 97);
    ("KEY_KPSLASH", dec 98); ("KEY_SYSRQ", dec 99); ("KEY_RIGHTALT", dec 100);
    ("KEY_LINEFEED", dec 101); ("KEY_HOME", dec 102); ("KEY_UP", dec 103);
    ("KEY_PAGEUP", dec 104); ("KEY_LEFT", dec 105); ("KEY_RIGHT", dec 106); ("KEY_END", dec 107);
    ("KEY_DOWN", dec 108); ("KEY_PAGEDOWN", dec 109); ("KEY_INSERT", dec 110);
    ("KEY_DELETE", dec 111); ("KEY_MACRO", dec 112); ("KEY_MUTE", dec 113);
    ("KEY_VOLUMEDOWN", dec 114); ("KEY_VOLUMEUP", dec 115); ("KEY_POWER", dec 116);
    ("KEY_KPEQUAL", dec 117); ("KEY_KPPLUSMINUS", dec 118); ("KEY_PAUSE", dec 119);
    ("KEY_SCALE", dec 120); ("KEY_KPCOMMA", dec 121); ("KEY_HANGEUL", dec 122);
    ("KEY_HANGUEL", Id "KEY_HANGEUL"); ("KEY_HANJA", dec 123); ("KEY_YEN", dec 124);
    ("KEY_LEFTMETA", dec 125); ("KEY_RIGHTMETA", dec 126); ("KEY_COMPOSE", dec 127);
    ("KEY_STOP", dec 128); ("KEY_AGAIN", dec 129); ("KEY_PROPS", dec 130); ("KEY_UNDO", dec 131);
    ("KEY_FRONT", dec 132); ("KEY_COPY", dec 133); ("KEY_OPEN", dec 134); ("KEY_PASTE", dec 135);
    ("KEY_FIND", dec 136); ("KEY_CUT", dec 137); ("KEY_HELP", dec 138); ("KEY_MENU", dec 139);
    ("KEY_CALC", dec 140); ("KEY_SETUP", dec 141); ("KEY_SLEEP", dec 142);
    ("KEY_WAKEUP", dec 143); ("KEY_FILE", dec 144); ("KEY_SENDFILE", dec 145);
    ("KEY_DELETEFILE", dec 146)]].
Definition defs_KEY_XFER : list decl := [
  Defines [
    ("KEY_XFER", dec 147); ("KEY_PROG1", dec 148); ("KEY_PROG2", dec 149); ("KEY_WWW", dec 150);
    ("KEY_MSDOS", dec 151); ("KEY_COFFEE", dec 152); ("KEY_SCREENLOCK", Id "KEY_COFFEE");
    ("KEY_ROTATE_DISPLAY", dec 153); ("KEY_DIRECTION", Id "KEY_ROTATE_DISPLAY");
    ("KEY_CYCLEWINDOWS", dec 154); ("KEY_MAIL", dec 155); ("KEY_BOOKMARKS", dec 156);
    ("KEY_COMPUTER", dec 157); ("KEY_BACK", dec 158); ("KEY_FORWARD", dec 159);
    ("KEY_CLOSECD", dec 160); ("KEY_EJECTCD", dec 161); ("KEY_EJECTCLOSECD", dec 162);
    ("KEY_NEXTSONG", dec 163); ("KEY_PLAYPAUSE", dec 164); ("KEY_PREVIOUSSONG", dec 165);
    ("KEY_STOPCD", dec 166); ("KEY_RECORD", dec 167); ("KEY_REWIND", dec 168);
    ("KEY_PHONE", dec 169); ("KEY_ISO", dec 170); ("KEY_CONFIG", dec 171);
    ("KEY_HOMEPAGE", dec 172); ("KEY_REFRESH", dec 173); ("KEY_EXIT", dec 174);
    ("KEY_MOVE", dec 175); ("KEY_EDIT", dec 176); ("KEY_SCROLLUP", dec 177);
    ("KEY_SCROLLDOWN", dec 178); ("KEY_KPLEFTPAREN", dec 179); ("KEY_KPRIGHTPAREN", dec 180);
    ("KEY_NEW", dec 181); ("KEY_REDO", dec 182); ("KEY_F13", dec 183); ("KEY_F14", dec 184);
    ("KEY_F15", dec 185); ("KEY_F16", dec 186); ("KEY_F17", dec 187); ("KEY_F18", dec 188);
    ("KEY_F19", dec 189); ("KEY_F20", dec 190); ("KEY_F21", dec 191); ("KEY_F22", dec 192);
    ("KEY_F23", dec 193); ("KEY_F24", dec 194); ("KEY_PLAYCD", dec 200);
    ("KEY_PAUSECD", dec 201); ("KEY_PROG3", dec 202); ("KEY_PROG4", dec 203);
    ("KEY_DASHBOARD", dec 204); ("KEY_SUSPEND", dec 205); ("KEY_CLOSE", dec 206);
    ("KEY_PLAY", dec 207); ("KEY_FASTFORWARD", dec 208); ("KEY_BASSBOOST", dec 209);
    ("KEY_PRINT", dec 210); ("KEY_HP", dec 211); ("KEY_CAMERA", dec 212); ("KEY_SOUND", dec 213);
    ("KEY_QUESTION", dec 214); ("KEY_EMAIL", dec 215); ("KEY_CHAT", dec 216);
    ("KEY_SEARCH", dec 217); ("KEY_CONNECT", dec 218); ("KEY_FINANCE", dec 219);
    ("KEY_SPORT", dec 220); ("KEY_SHOP", dec 221); ("KEY_ALTERASE", dec 222);
    ("KEY_CANCEL", dec 223); ("KEY_BRIGHTNESSDOWN", dec 224); ("KEY_BRIGHTNESSUP", dec 225);
    ("KEY_MEDIA", dec 226); ("KEY_SWITCHVIDEOMODE", dec 227); ("KEY_KBDILLUMTOGGLE", dec 228);
    ("KEY_KBDILLUMDOWN", dec 229); ("KEY_KBDILLUMUP", dec 230); ("KEY_SEND", dec 231);
    ("KEY_REPLY", dec 232); ("KEY_FORWARDMAIL", dec 233); ("KEY_SAVE", dec 234);
    ("KEY_DOCUMENTS", dec 235); ("KEY_BATTERY", dec 236); ("KEY_BLUETOOTH", dec 237);
    ("KEY_WLAN", dec 238); ("KEY_UWB", dec 239); ("KEY_UNKNOWN", dec 240);
    ("KEY_VIDEO_NEXT", dec 241); ("KEY_VIDEO_PREV", dec 242); ("KEY_BRIGHTNESS_CYCLE", dec 243);
    ("KEY_BRIGHTNESS_AUTO", dec 244); ("KEY_BRIGHTNESS_ZERO", Id "KEY_BRIGHTNESS_AUTO");
    ("KEY_DISPLAY_OFF", dec 245); ("KEY_WWAN", dec 246); ("KEY_WIMAX", Id "KEY_WWAN");
    ("KEY_RFKILL", dec 247); ("KEY_MICMUTE", dec 248); ("BTN_MISC", hex 0x100);
    ("BTN_0", hex 0x100); ("BTN_1", hex 0x101); ("BTN_2", hex 0x102); ("BTN_3", hex 0x103);
    ("BTN_4", hex 0x104); ("BTN_5", hex 0x105); ("BTN_6", hex 0x106); ("BTN_7", hex 0x107);
    ("BTN_8", hex 0x108); ("BTN_9", hex 0x109); ("BTN_MOUSE", hex 0x110);
    ("BTN_LEFT", hex 0x110); ("BTN_RIGHT", hex 0x111); ("BTN_MIDDLE", hex 0x112);
    ("BTN_SIDE", hex 0x113); ("BTN_EXTRA", hex 0x114); ("BTN_FORWARD", hex 0x115);
    ("BTN_BACK", hex 0x116); ("BTN_TASK", hex 0x117); ("BTN_JOYSTICK", hex 0x120);
    ("BTN_TRIGGER", hex 0x120); ("BTN_THUMB", hex 0x121); ("BTN_THUMB2", hex 0x122);
    ("BTN_TOP", hex 0x123); ("BTN_TOP2", hex 0x124); ("BTN_PINKIE", hex 0x125);
    ("BTN_BASE", hex 0x126); ("BTN_BASE2", hex 0x127); ("BTN_BASE3", hex 0x128);
    ("BTN_BASE4", hex 0x129)]].
Definition defs_BTN_BASE5 : list decl := [
  Defines [
    ("BTN_BASE5", hex 0x12a); ("BTN_BASE6", hex 0x12b); ("BTN_DEAD", hex 0x12f);
    ("BTN_GAMEPAD", hex 0x130); ("BTN_SOUTH", hex 0x130); ("BTN_A", Id "BTN_SOUTH");
    ("BTN_EAST", hex 0x131); ("BTN_B", Id "BTN_EAST"); ("BTN_C", hex 0x132);
    ("BTN_NORTH", hex 0x133); ("BTN_X", Id "BTN_NORTH"); ("BTN_WEST", hex 0x134);
    ("BTN_Y", Id "BTN_WEST"); ("BTN_Z", hex 0x135); ("BTN_TL", hex 0x136); ("BTN_TR", hex 0x137);
    ("BTN_TL2", hex 0x138); ("BTN_TR2", hex 0x139); ("BTN_SELECT", hex 0x13a);
    ("BTN_START", hex 0x13b); ("BTN_MODE", hex 0x13c); ("BTN_THUMBL", hex 0x13d);
    ("BTN_THUMBR", hex 0x13e); ("BTN_DIGI", hex 0x140); ("BTN_TOOL_PEN", hex 0x140);
    ("BTN_TOOL_RUBBER", hex 0x141); ("BTN_TOOL_BRUSH", hex 0x142);
    ("BTN_TOOL_PENCIL", hex 0x143); ("BTN_TOOL_AIRBRUSH", hex 0x144);
    ("BTN_TOOL_FINGER", hex 0x145); ("BTN_TOOL_MOUSE", hex 0x146); ("BTN_TOOL_LENS", hex 0x147);
    ("BTN_TOOL_QUINTTAP", hex 0x148); ("BTN_TOUCH", hex 0x14a); ("BTN_STYLUS", hex 0x14b);
    ("BTN_STYLUS2", hex 0x14c); ("BTN_TOOL_DOUBLETAP", hex 0x14d);
    ("BTN_TOOL_TRIPLETAP", hex 0x14e); ("BTN_TOOL_QUADTAP", hex 0x14f); ("BTN_WHEEL", hex 0x150);
    ("BTN_GEAR_DOWN", hex 0x150); ("BTN_GEAR_UP", hex 0x151); ("KEY_OK", hex 0x160);
    ("KEY_SELECT", hex 0x161); ("KEY_GOTO", hex 0x162); ("KEY_CLEAR", hex 0x163);
    ("KEY_POWER2", hex 0x164); ("KEY_OPTION", hex 0x165); ("KEY_INFO", hex 0x166);
    ("KEY_TIME", hex 0x167); ("KEY_VENDOR", hex 0x168); ("KEY_ARCHIVE", hex 0x169);
    ("KEY_PROGRAM", hex 0x16a); ("KEY_CHANNEL", hex 0x16b); ("KEY_FAVORITES", hex 0x16c);
    ("KEY_EPG", hex 0x16d); ("KEY_PVR", hex 0x16e); ("KEY_MHP", hex 0x16f);
    ("KEY_LANGUAGE", hex 0x170); ("KEY_TITLE", hex 0x171); ("KEY_SUBTITLE", hex 0x172);
    ("KEY_ANGLE", hex 0x173); ("KEY_ZOOM", hex 0x174); ("KEY_MODE", hex 0x175);
    ("KEY_KEYBOARD", hex 0x176); ("KEY_SCREEN", hex 0x177); ("KEY_PC", hex 0x178);
    ("KEY_TV", hex 0x179); ("KEY_TV2", hex 0x17a); ("KEY_VCR", hex 0x17b);
    ("KEY_VCR2", hex 0x17c); ("KEY_SAT", hex 0x17d); ("KEY_SAT2", hex 0x17e);
    ("KEY_CD", hex 0x17f); ("KEY_TAPE", hex 0x180); ("KEY_RADIO", hex 0x181);
    ("KEY_TUNER", hex 0x182); ("KEY_PLAYER", hex 0x183); ("KEY_TEXT", hex 0x184);
    ("KEY_DVD", hex 0x185); ("KEY_AUX", hex 0x186); ("KEY_MP3", hex 0x187);
    ("KEY_AUDIO", hex 0x188); ("KEY_VIDEO", hex 0x189); ("KEY_DIRECTORY", hex 0x18a);
    ("KEY_LIST", hex 0x18b); ("KEY_MEMO", hex 0x18c); ("KEY_CALENDAR", hex 0x18d);
    ("KEY_RED", hex 0x18e); ("KEY_GREEN", hex 0x18f); ("KEY_YELLOW", hex 0x190);
    ("KEY_BLUE", hex 0x191); ("KEY_CHANNELUP", hex 0x192); ("KEY_CHANNELDOWN", hex 0x193);
    ("KEY_FIRST", hex 0x194); ("KEY_LAST", hex 0x195); ("KEY_AB", hex 0x196);
    ("KEY_NEXT", hex 0x197); ("KEY_RESTART", hex 0x198); ("KEY_SLOW", hex 0x199);
    ("KEY_SHUFFLE", hex 0x19a); ("KEY_BREAK", hex 0x19b); ("KEY_PREVIOUS", hex 0x19c);
    ("KEY_DIGITS", hex 0x19d); ("KEY_TEEN", hex 0x19e); ("KEY_TWEN", hex 0x19f);
    ("KEY_VIDEOPHONE", hex 0x1a0); ("KEY_GAMES", hex 0x1a1); ("KEY_ZOOMIN", hex 0x1a2);
    ("KEY_ZOOMOUT", hex 0x1a3); ("KEY_ZOOMRESET", hex 0x1a4); ("KEY_WORDPROCESSOR", hex 0x1a5);
    ("KEY_EDITOR", hex 0x1a6); ("KEY_SPREADSHEET", hex 0x1a7); ("KEY_GRAPHICSEDITOR", hex 0x1a8);
    ("KEY_PRESENTATION", hex 0x1a9); ("KEY_DATABASE", hex 0x1aa); ("KEY_NEWS", hex 0x1ab);
    ("KEY_VOICEMAIL", hex 0x1ac); ("KEY_ADDRESSBOOK", hex 0x1ad); ("KEY_MESSENGER", hex 0x1ae);
    ("KEY_DISPLAYTOGGLE", hex 0x1af); ("KEY_BRIGHTNESS_TOGGLE", Id "KEY_DISPLAYTOGGLE");
    ("KEY_SPELLCHECK", hex 0x1b0); ("KEY_LOGOFF", hex 0x1b1); ("KEY_DOLLAR", hex 0x1b2);
    ("KEY_EURO", hex 0x1b3); ("KEY_FRAMEBACK", hex 0x1b4); ("KEY_FRAMEFORWARD", hex 0x1b5);
    ("KEY_CONTEXT_MENU", hex 0x1b6); ("KEY_MEDIA_REPEAT", hex 0x1b7);
    ("KEY_10CHANNELSUP", hex 0x1b8); ("KEY_10CHANNELSDOWN", hex 0x1b9);
    ("KEY_IMAGES", hex 0x1ba); ("KEY_DEL_EOL", hex 0x1c0); ("KEY_DEL_EOS", hex 0x1c1);
    ("KEY_INS_LINE", hex 0x1c2); ("KEY_DEL_LINE", hex 0x1c3); ("KEY_FN", hex 0x1d0);
    ("KEY_FN_ESC", hex 0x1d1); ("KEY_FN_F1", hex 0x1d2); ("KEY_FN_F2", hex 0x1d3)]].
Definition defs_KEY_FN_F3 : list decl := [
  Defines [
    ("KEY_FN_F3", hex 0x1d4); ("KEY_FN_F4", hex 0x1d5); ("KEY_FN_F5", hex 0x1d6);
    ("KEY_FN_F6", hex 0x1d7); ("KEY_FN_F7", hex 0x1d8); ("KEY_FN_F8", hex 0x1d9);
    ("KEY_FN_F9", hex 0x1da); ("KEY_FN_F10", hex 0x1db); ("KEY_FN_F11", hex 0x1dc);
    ("KEY_FN_F12", hex 0x1dd); ("KEY_FN_1", hex 0x1de); ("KEY_FN_2", hex 0x1df);
    ("KEY_FN_D", hex 0x1e0); ("KEY_FN_E", hex 0x1e1); ("KEY_FN_F", hex 0x1e2);
    ("KEY_FN_S", hex 0x1e3); ("KEY_FN_B", hex 0x1e4); ("KEY_BRL_DOT1", hex 0x1f1);
    ("KEY_BRL_DOT2", hex 0x1f2); ("KEY_BRL_DOT3", hex 0x1f3); ("KEY_BRL_DOT4", hex 0x1f4);
    ("KEY_BRL_DOT5", hex 0x1f5); ("KEY_BRL_DOT6", hex 0x1f6); ("KEY_BRL_DOT7", hex 0x1f7);
    ("KEY_BRL_DOT8", hex 0x1f8); ("KEY_BRL_DOT9", hex 0x1f9); ("KEY_BRL_DOT10", hex 0x1fa);
    ("KEY_NUMERIC_0", hex 0x200); ("KEY_NUMERIC_1", hex 0x201); ("KEY_NUMERIC_2", hex 0x202);
    ("KEY_NUMERIC_3", hex 0x203); ("KEY_NUMERIC_4", hex 0x204); ("KEY_NUMERIC_5", hex 0x205);
    ("KEY_NUMERIC_6", hex 0x206); ("KEY_NUMERIC_7", hex 0x207); ("KEY_NUMERIC_8", hex 0x208);
    ("KEY_NUMERIC_9", hex 0x209); ("KEY_NUMERIC_STAR", hex 0x20a);
    ("KEY_NUMERIC_POUND", hex 0x20b); ("KEY_NUMERIC_A", hex 0x20c); ("KEY_NUMERIC_B", hex 0x20d);
    ("KEY_NUMERIC_C", hex 0x20e); ("KEY_NUMERIC_D", hex 0x20f); ("KEY_CAMERA_FOCUS", hex 0x210);
    ("KEY_WPS_BUTTON", hex 0x211); ("KEY_TOUCHPAD_TOGGLE", hex 0x212);
    ("KEY_TOUCHPAD_ON", hex 0x213); ("KEY_TOUCHPAD_OFF", hex 0x214);
    ("KEY_CAMERA_ZOOMIN", hex 0x215); ("KEY_CAMERA_ZOOMOUT", hex 0x216);
    ("KEY_CAMERA_UP", hex 0x217); ("KEY_CAMERA_DOWN", hex 0x218); ("KEY_CAMERA_LEFT", hex 0x219);
    ("KEY_CAMERA_RIGHT", hex 0x21a); ("KEY_ATTENDANT_ON", hex 0x21b);
    ("KEY_ATTENDANT_OFF", hex 0x21c); ("KEY_ATTENDANT_TOGGLE", hex 0x21d);
    ("KEY_LIGHTS_TOGGLE", hex 0x21e); ("BTN_DPAD_UP", hex 0x220); ("BTN_DPAD_DOWN", hex 0x221);
    ("BTN_DPAD_LEFT", hex 0x222); ("BTN_DPAD_RIGHT", hex 0x223); ("KEY_ALS_TOGGLE", hex 0x230);
    ("KEY_BUTTONCONFIG", hex 0x240); ("KEY_TASKMANAGER", hex 0x241); ("KEY_JOURNAL", hex 0x242);
    ("KEY_CONTROLPANEL", hex 0x243); ("KEY_APPSELECT", hex 0x244);
    ("KEY_SCREENSAVER", hex 0x245); ("KEY_VOICECOMMAND", hex 0x246);
    ("KEY_BRIGHTNESS_MIN", hex 0x250); ("KEY_BRIGHTNESS_MAX", hex 0x251);
    ("KEY_KBDINPUTASSIST_PREV", hex 0x260); ("KEY_KBDINPUTASSIST_NEXT", hex 0x261);
    ("KEY_KBDINPUTASSIST_PREVGROUP", hex 0x262); ("KEY_KBDINPUTASSIST_NEXTGROUP", hex 0x263);
    ("KEY_KBDINPUTASSIST_ACCEPT", hex 0x264); ("KEY_KBDINPUTASSIST_CANCEL", hex 0x265);
    ("BTN_TRIGGER_HAPPY", hex 0x2c0); ("BTN_TRIGGER_HAPPY1", hex 0x2c0);
    ("BTN_TRIGGER_HAPPY2", hex 0x2c1); ("BTN_TRIGGER_HAPPY3", hex 0x2c2);
    ("BTN_TRIGGER_HAPPY4", hex 0x2c3); ("BTN_TRIGGER_HAPPY5", hex 0x2c4);
    ("BTN_TRIGGER_HAPPY6", hex 0x2c5); ("BTN_TRIGGER_HAPPY7", hex 0x2c6);
    ("BTN_TRIGGER_HAPPY8", hex 0x2c7); ("BTN_TRIGGER_HAPPY9", hex 0x2c8);
    ("BTN_TRIGGER_HAPPY10", hex 0x2c9); ("BTN_TRIGGER_HAPPY11", hex 0x2ca);
    ("BTN_TRIGGER_HAPPY12", hex 0x2cb); ("BTN_TRIGGER_HAPPY13", hex 0x2cc);
    ("BTN_TRIGGER_HAPPY14", hex 0x2cd); ("BTN_TRIGGER_HAPPY15", hex 0x2ce);
    ("BTN_TRIGGER_HAPPY16", hex 0x2cf); ("BTN_TRIGGER_HAPPY17", hex 0x2d0);
    ("BTN_TRIGGER_HAPPY18", hex 0x2d1); ("BTN_TRIGGER_HAPPY19", hex 0x2d2);
    ("BTN_TRIGGER_HAPPY20", hex 0x2d3); ("BTN_TRIGGER_HAPPY21", hex 0x2d4);
    ("BTN_TRIGGER_HAPPY22", hex 0x2d5); ("BTN_TRIGGER_HAPPY23", hex 0x2d6);
    ("BTN_TRIGGER_HAPPY24", hex 0x2d7); ("BTN_TRIGGER_HAPPY25", hex 0x2d8);
    ("BTN_TRIGGER_HAPPY26", hex 0x2d9); ("BTN_TRIGGER_HAPPY27", hex 0x2da);
    ("BTN_TRIGGER_HAPPY28", hex 0x2db); ("BTN_TRIGGER_HAPPY29", hex 0x2dc);
    ("BTN_TRIGGER_HAPPY30", hex 0x2dd); ("BTN_TRIGGER_HAPPY31", hex 0x2de);
    ("BTN_TRIGGER_HAPPY32", hex 0x2df); ("BTN_TRIGGER_HAPPY33", hex 0x2e0);
    ("BTN_TRIGGER_HAPPY34", hex 0x2e1); ("BTN_TRIGGER_HAPPY35", hex 0x2e2);
    ("BTN_TRIGGER_HAPPY36", hex 0x2e3); ("BTN_TRIGGER_HAPPY37", hex 0x2e4);
    ("BTN_TRIGGER_HAPPY38", hex 0x2e5); ("BTN_TRIGGER_HAPPY39", hex 0x2e6);
    ("BTN_TRIGGER_HAPPY40", hex 0x2e7); ("KEY_MIN_INTERESTING", Id "KEY_MUTE");
    ("KEY_MAX", hex 0x2ff); ("KEY_CNT", Add (Id "KEY_MAX") (dec 1))]].
Definition defs_REL_X : list decl := [
  Defines [
    ("REL_X", hex 0x00); ("REL_Y", hex 0x01); ("REL_Z", hex 0x02); ("REL_RX", hex 0x03);
    ("REL_RY", hex 0x04); ("REL_RZ", hex 0x05); ("REL_HWHEEL", hex 0x06); ("REL_DIAL", hex 0x07);
    ("REL_WHEEL", hex 0x08); ("REL_MISC", hex 0x09); ("REL_MAX", hex 0x0f);
    ("REL_CNT", Add (Id "REL_MAX") (dec 1))];
  Defines [
    ("ABS_X", hex 0x00); ("ABS_Y", hex 0x01); ("ABS_Z", hex 0x02); ("ABS_RX", hex 0x03);
    ("ABS_RY", hex 0x04); ("ABS_RZ", hex 0x05); ("ABS_THROTTLE", hex 0x06);
    ("ABS_RUDDER", hex 0x07); ("ABS_WHEEL", hex 0x08); ("ABS_GAS", hex 0x09);
    ("ABS_BRAKE", hex 0x0a); ("ABS_HAT0X", hex 0x10); ("ABS_HAT0Y", hex 0x11);
    ("ABS_HAT1X", hex 0x12); ("ABS_HAT1Y", hex 0x13); ("ABS_HAT2X", hex 0x14);
    ("ABS_HAT2Y", hex 0x15); ("ABS_HAT3X", hex 0x16); ("ABS_HAT3Y", hex 0x17);
    ("ABS_PRESSURE", hex 0x18); ("ABS_DISTANCE", hex 0x19); ("ABS_TILT_X", hex 0x1a);
    ("ABS_TILT_Y", hex 0x1b); ("ABS_TOOL_WIDTH", hex 0x1c); ("ABS_VOLUME", hex 0x20);
    ("ABS_MISC", hex 0x28)];
  Defines [
    ("ABS_RESERVED", hex 0x2e); ("ABS_MT_SLOT", hex 0x2f); ("ABS_MT_TOUCH_MAJOR", hex 0x30);
    ("ABS_MT_TOUCH_MINOR", hex 0x31); ("ABS_MT_WIDTH_MAJOR", hex 0x32);
    ("ABS_MT_WIDTH_MINOR", hex 0x33); ("ABS_MT_ORIENTATION", hex 0x34);
    ("ABS_MT_POSITION_X", hex 0x35); ("ABS_MT_POSITION_Y", hex 0x36);
    ("ABS_MT_TOOL_TYPE", hex 0x37); ("ABS_MT_BLOB_ID", hex 0x38);
    ("ABS_MT_TRACKING_ID", hex 0x39); ("ABS_MT_PRESSURE", hex 0x3a);
    ("ABS_MT_DISTANCE", hex 0x3b); ("ABS_MT_TOOL_X", hex 0x3c); ("ABS_MT_TOOL_Y", hex 0x3d);
    ("ABS_MAX", hex 0x3f); ("ABS_CNT", Add (Id "ABS_MAX") (dec 1))];
  Defines [
    ("SW_LID", hex 0x00); ("SW_TABLET_MODE", hex 0x01); ("SW_HEADPHONE_INSERT", hex 0x02);
    ("SW_RFKILL_ALL", hex 0x03); ("SW_RADIO", Id "SW_RFKILL_ALL");
    ("SW_MICROPHONE_INSERT", hex 0x04); ("SW_DOCK", hex 0x05); ("SW_LINEOUT_INSERT", hex 0x06);
    ("SW_JACK_PHYSICAL_INSERT", hex 0x07); ("SW_VIDEOOUT_INSERT", hex 0x08);
    ("SW_CAMERA_LENS_COVER", hex 0x09); ("SW_KEYPAD_SLIDE", hex 0x0a);
    ("SW_FRONT_PROXIMITY", hex 0x0b); ("SW_ROTATE_LOCK", hex 0x0c);
    ("SW_LINEIN_INSERT", hex 0x0d); ("SW_MUTE_DEVICE", hex 0x0e);
    ("SW_HPHL_OVERCURRENT", hex 0x0f); ("SW_HPHR_OVERCURRENT", hex 0x10);
    ("SW_MICROPHONE2_INSERT", hex 0x11); ("SW_UNSUPPORT_INSERT", hex 0x12); ("SW_MAX", hex 0x20);
    ("SW_CNT", Add (Id "SW_MAX") (dec 1))];
  Defines [
    ("MSC_SERIAL", hex 0x00); ("MSC_PULSELED", hex 0x01); ("MSC_GESTURE", hex 0x02);
    ("MSC_RAW", hex 0x03); ("MSC_SCAN", hex 0x04); ("MSC_TIMESTAMP", hex 0x05);
    ("MSC_MAX", hex 0x07); ("MSC_CNT", Add (Id "MSC_MAX") (dec 1))];
  Defines [
    ("LED_NUML", hex 0x00); ("LED_CAPSL", hex 0x01); ("LED_SCROLLL", hex 0x02);
    ("LED_COMPOSE", hex 0x03); ("LED_KANA", hex 0x04); ("LED_SLEEP", hex 0x05);
    ("LED_SUSPEND", hex 0x06); ("LED_MUTE", hex 0x07); ("LED_MISC", hex 0x08);
    ("LED_MAIL", hex 0x09); ("LED_CHARGING", hex 0x0a); ("LED_MAX", hex 0x0f);
    ("LED_CNT", Add (Id "LED_MAX") (dec 1))];
  Defines [
    ("REP_DELAY", hex 0x00); ("REP_PERIOD", hex 0x01); ("REP_MAX", hex 0x01);
    ("REP_CNT", Add (Id "REP_MAX") (dec 1))]].
Definition defs_SND_CLICK : list decl := [
  Defines [
    ("SND_CLICK", hex 0x00); ("SND_BELL", hex 0x01); ("SND_TONE", hex 0x02);
    ("SND_MAX", hex 0x07); ("SND_CNT", Add (Id "SND_MAX") (dec 1))]].
Definition header : header :=
  Header "linux/input-event-codes.h" [] (concat [
    defs_INPUT_PROP_POINTER; defs_KEY_RESERVED; defs_KEY_XFER; defs_BTN_BASE5; defs_KEY_FN_F3;
    defs_REL_X; defs_SND_CLICK]).
End Input_event_codes.

(** ** [linux/hbtp_input.h] *)

Module Hbtp_input.
Definition defs_HBTP_MAX_FINGER : list decl := [
  Defines [
    ("HBTP_MAX_FINGER", dec 20); ("HBTP_ABS_MT_FIRST", Id "ABS_MT_TOUCH_MAJOR");
    ("HBTP_ABS_MT_LAST", Id "ABS_MT_TOOL_Y"); ("MAX_ROI_SIZE", dec 144);
    ("MAX_ACCEL_SIZE", dec 128)]].
Definition header : header :=
  Header "linux/hbtp_input.h" [Input_event_codes.header] (concat [
    defs_HBTP_MAX_FINGER]).
End Hbtp_input.

(** ** [linux/hbtp_vm.h] *)

Module Hbtp_vm.
Definition defs_HBTP_VM_BUTTON_LEFT : list decl := [
  Defines [
    ("HBTP_VM_BUTTON_LEFT", hex 0x00000001); ("HBTP_VM_BUTTON_RIGHT", hex 0x00000002);
    ("HBTP_VM_BUTTON_DOWN", hex 0x10000000); ("HBTP_VM_BUTTON_UP", hex 0x20000000);
    ("HBTP_VM_IOCTL_BASE", chr 86)]].
Definition header : header :=
  Header "linux/hbtp_vm.h" [] (concat [
    defs_HBTP_VM_BUTTON_LEFT]).
End Hbtp_vm.

(** ** [linux/usb/ch9.h] *)

Module Usb_ch9.
Definition defs_USB_TYPE_MASK : list decl := [
  Defines [
    ("USB_TYPE_MASK", Shl (hex 0x03) (dec 5)); ("USB_TYPE_STANDARD", Shl (hex 0x00) (dec 5));
    ("USB_TYPE_CLASS", Shl (hex 0x01) (dec 5)); ("USB_TYPE_VENDOR", Shl (hex 0x02) (dec 5));
    ("USB_TYPE_RESERVED", Shl (hex 0x03) (dec 5))];
  Defines [
    ("USB_RECIP_MASK", hex 0x1f); ("USB_RECIP_DEVICE", hex 0x00);
    ("USB_RECIP_INTERFACE", hex 0x01); ("USB_RECIP_ENDPOINT", hex 0x02);
    ("USB_RECIP_OTHER", hex 0x03); ("USB_RECIP_PORT", hex 0x04); ("USB_RECIP_RPIPE", hex 0x05)];
  Defines [
    ("USB_REQ_GET_STATUS", hex 0x00); ("USB_REQ_CLEAR_FEATURE", hex 0x01);
    ("USB_REQ_SET_FEATURE", hex 0x03); ("USB_REQ_SET_ADDRESS", hex 0x05);
    ("USB_REQ_GET_DESCRIPTOR", hex 0x06); ("USB_REQ_SET_DESCRIPTOR", hex 0x07);
    ("USB_REQ_GET_CONFIGURATION", hex 0x08); ("USB_REQ_SET_CONFIGURATION", hex 0x09);
    ("USB_REQ_GET_INTERFACE", hex 0x0A); ("USB_REQ_SET_INTERFACE", hex 0x0B);
    ("USB_REQ_SYNCH_FRAME", hex 0x0C); ("USB_REQ_SET_SEL", hex 0x30);
    ("USB_REQ_SET_ISOCH_DELAY", hex 0x31); ("USB_REQ_SET_ENCRYPTION", hex 0x0D);
    ("USB_REQ_GET_ENCRYPTION", hex 0x0E); ("USB_REQ_RPIPE_ABORT", hex 0x0E);
    ("USB_REQ_SET_HANDSHAKE", hex 0x0F); ("USB_REQ_RPIPE_RESET", hex 0x0F);
    ("USB_REQ_GET_HANDSHAKE", hex 0x10); ("USB_REQ_SET_CONNECTION", hex 0x11);
    ("USB_REQ_SET_SECURITY_DATA", hex 0x12); ("USB_REQ_GET_SECURITY_DATA", hex 0x13);
    ("USB_REQ_SET_WUSB_DATA", hex 0x14); ("USB_REQ_LOOPBACK_DATA_WRITE", hex 0x15);
    ("USB_REQ_LOOPBACK_DATA_READ", hex 0x16); ("USB_REQ_SET_INTERFACE_DS", hex 0x17)];
  Defines [
    ("USB_DEVICE_SELF_POWERED", dec 0); ("USB_DEVICE_REMOTE_WAKEUP", dec 1);
    ("USB_DEVICE_TEST_MODE", dec 2); ("USB_DEVICE_BATTERY", dec 2);
    ("USB_DEVICE_B_HNP_ENABLE", dec 3); ("USB_DEVICE_WUSB_DEVICE", dec 3);
    ("USB_DEVICE_A_HNP_SUPPORT", dec 4); ("USB_DEVICE_A_ALT_HNP_SUPPORT", dec 5);
    ("USB_DEVICE_DEBUG_MODE", dec 6)];
  Defines [
    ("TEST_J", dec 1); ("TEST_K", dec 2); ("TEST_SE0_NAK", dec 3); ("TEST_PACKET", dec 4);
    ("TEST_FORCE_EN", dec 5)];
  Defines [
    ("USB_DEVICE_U1_ENABLE", dec 48); ("USB_DEVICE_U2_ENABLE", dec 49);
    ("USB_DEVICE_LTM_ENABLE", dec 50); ("USB_INTRF_FUNC_SUSPEND", dec 0);
    ("USB_INTR_FUNC_SUSPEND_OPT_MASK", hex 0xFF00);
    ("USB_INTRF_FUNC_SUSPEND_LP", Shl (dec 1) (Add (dec 8) (dec 0)));
    ("USB_INTRF_FUNC_SUSPEND_RW", Shl (dec 1) (Add (dec 8) (dec 1)))];
  Defines [
    ("USB_INTRF_STAT_FUNC_RW_CAP", dec 1); ("USB_INTRF_STAT_FUNC_RW", dec 2);
    ("USB_ENDPOINT_HALT", dec 0); ("USB_DEV_STAT_U1_ENABLED", dec 2);
    ("USB_DEV_STAT_U2_ENABLED", dec 3); ("USB_DEV_STAT_LTM_ENABLED", dec 4)]].
Definition defs_USB_DT_DEVICE : list decl := [
  Defines [
    ("USB_DT_DEVICE", hex 0x01); ("USB_DT_CONFIG", hex 0x02); ("USB_DT_STRING", hex 0x03);
    ("USB_DT_INTERFACE", hex 0x04); ("USB_DT_ENDPOINT", hex 0x05);
    ("USB_DT_DEVICE_QUALIFIER", hex 0x06); ("USB_DT_OTHER_SPEED_CONFIG", hex 0x07);
    ("USB_DT_INTERFACE_POWER", hex 0x08); ("USB_DT_OTG", hex 0x09); ("USB_DT_DEBUG", hex 0x0a);
    ("USB_DT_INTERFACE_ASSOCIATION", hex 0x0b); ("USB_DT_SECURITY", hex 0x0c);
    ("USB_DT_KEY", hex 0x0d); ("USB_DT_ENCRYPTION_TYPE", hex 0x0e); ("USB_DT_BOS", hex 0x0f);
    ("USB_DT_DEVICE_CAPABILITY", hex 0x10); ("USB_DT_WIRELESS_ENDPOINT_COMP", hex 0x11);
    ("USB_DT_WIRE_ADAPTER", hex 0x21); ("USB_DT_RPIPE", hex 0x22);
    ("USB_DT_CS_RADIO_CONTROL", hex 0x23); ("USB_DT_PIPE_USAGE", hex 0x24);
    ("USB_DT_SS_ENDPOINT_COMP", hex 0x30)];
  Defines [
    ("USB_DT_CS_DEVICE", Or (Id "USB_TYPE_CLASS") (Id "USB_DT_DEVICE"));
    ("USB_DT_CS_CONFIG", Or (Id "USB_TYPE_CLASS") (Id "USB_DT_CONFIG"));
    ("USB_DT_CS_STRING", Or (Id "USB_TYPE_CLASS") (Id "USB_DT_STRING"));
    ("USB_DT_CS_INTERFACE", Or (Id "USB_TYPE_CLASS") (Id "USB_DT_INTERFACE"));
    ("USB_DT_CS_ENDPOINT", Or (Id "USB_TYPE_CLASS") (Id "USB_DT_ENDPOINT"))]].
Definition defs_USB_CLASS_PER_INTERFACE : list decl := [
  Defines [
    ("USB_CLASS_PER_INTERFACE", dec 0); ("USB_CLASS_AUDIO", dec 1); ("USB_CLASS_COMM", dec 2);
    ("USB_CLASS_HID", dec 3); ("USB_CLASS_PHYSICAL", dec 5); ("USB_CLASS_STILL_IMAGE", dec 6);
    ("USB_CLASS_PRINTER", dec 7); ("USB_CLASS_MASS_STORAGE", dec 8); ("USB_CLASS_HUB", dec 9);
    ("USB_CLASS_CDC_DATA", hex 0x0a); ("USB_CLASS_CSCID", hex 0x0b);
    ("USB_CLASS_CONTENT_SEC", hex 0x0d); ("USB_CLASS_VIDEO", hex 0x0e);
    ("USB_CLASS_WIRELESS_CONTROLLER", hex 0xe0); ("USB_CLASS_MISC", hex 0xef);
    ("USB_CLASS_APP_SPEC", hex 0xfe); ("USB_CLASS_VENDOR_SPEC", hex 0xff);
    ("USB_SUBCLASS_VENDOR_SPEC", hex 0xff)]].
Definition defs_USB_DT_CONFIG_SIZE : list decl := [
  Defines [
    ("USB_DT_CONFIG_SIZE", dec 9); ("USB_CONFIG_ATT_ONE", Shl (dec 1) (dec 7));
    ("USB_CONFIG_ATT_SELFPOWER", Shl (dec 1) (dec 6));
    ("USB_CONFIG_ATT_WAKEUP", Shl (dec 1) (dec 5));
    ("USB_CONFIG_ATT_BATTERY", Shl (dec 1) (dec 4))]].
Definition defs_USB_ENDPOINT_NUMBER_MASK : list decl := [
  Defines [
    ("USB_ENDPOINT_NUMBER_MASK", hex 0x0f); ("USB_ENDPOINT_DIR_MASK", hex 0x80);
    ("USB_ENDPOINT_XFERTYPE_MASK", hex 0x03); ("USB_ENDPOINT_XFER_CONTROL", dec 0);
    ("USB_ENDPOINT_XFER_ISOC", dec 1); ("USB_ENDPOINT_XFER_BULK", dec 2);
    ("USB_ENDPOINT_XFER_INT", dec 3); ("USB_ENDPOINT_MAX_ADJUSTABLE", hex 0x80);
    ("USB_ENDPOINT_INTRTYPE", hex 0x30); ("USB_ENDPOINT_INTR_PERIODIC", Shl (dec 0) (dec 4));
    ("USB_ENDPOINT_INTR_NOTIFICATION", Shl (dec 1) (dec 4)); ("USB_ENDPOINT_SYNCTYPE", hex 0x0c);
    ("USB_ENDPOINT_SYNC_NONE", Shl (dec 0) (dec 2));
    ("USB_ENDPOINT_SYNC_ASYNC", Shl (dec 1) (dec 2));
    ("USB_ENDPOINT_SYNC_ADAPTIVE", Shl (dec 2) (dec 2));
    ("USB_ENDPOINT_SYNC_SYNC", Shl (dec 3) (dec 2)); ("USB_ENDPOINT_USAGE_MASK", hex 0x30);
    ("USB_ENDPOINT_USAGE_DATA", hex 0x00); ("USB_ENDPOINT_USAGE_FEEDBACK", hex 0x10);
    ("USB_ENDPOINT_USAGE_IMPLICIT_FB", hex 0x20)]].
Definition enum_usb_device_speed : list decl := [
  Enum [
    ("USB_SPEED_UNKNOWN", Some (dec 0)); ("USB_SPEED_LOW", None); ("USB_SPEED_FULL", None);
    ("USB_SPEED_HIGH", None); ("USB_SPEED_WIRELESS", None); ("USB_SPEED_SUPER", None);
    ("USB_SPEED_SUPER_PLUS", None)];
  Enum [
    ("USB_STATE_NOTATTACHED", Some (dec 0)); ("USB_STATE_ATTACHED", None);
    ("USB_STATE_POWERED", None); ("USB_STATE_RECONNECTING", None);
    ("USB_STATE_UNAUTHENTICATED", None); ("USB_STATE_DEFAULT", None);
    ("USB_STATE_ADDRESS", None); ("USB_STATE_CONFIGURED", None); ("USB_STATE_SUSPENDED", None)];
  Enum [
    ("USB3_LPM_U0", Some (dec 0)); ("USB3_LPM_U1", None); ("USB3_LPM_U2", None);
    ("USB3_LPM_U3", None)];
  Defines [
    ("USB_DT_USB_PTM_ID_SIZE", dec 3)];
  Defines [
    ("USB3_LPM_DISABLED", hex 0x0); ("USB3_LPM_U1_MAX_TIMEOUT", hex 0x7F);
    ("USB3_LPM_U2_MAX_TIMEOUT", hex 0xFE); ("USB3_LPM_DEVICE_INITIATED", hex 0xFF)]].
Definition header : header :=
  Header "linux/usb/ch9.h" [] (concat [
    defs_USB_TYPE_MASK; defs_USB_DT_DEVICE; defs_USB_CLASS_PER_INTERFACE;
    defs_USB_DT_CONFIG_SIZE; defs_USB_ENDPOINT_NUMBER_MASK; enum_usb_device_speed]).
End Usb_ch9.

(** ** [linux/hid.h] *)

Module Hid.
Definition defs_HID_REQ_GET_REPORT : list decl := [
  Defines [
    ("HID_REQ_GET_REPORT", hex 0x01); ("HID_REQ_GET_IDLE", hex 0x02);
    ("HID_REQ_GET_PROTOCOL", hex 0x03); ("HID_REQ_SET_REPORT", hex 0x09);
    ("HID_REQ_SET_IDLE", hex 0x0A); ("HID_REQ_SET_PROTOCOL", hex 0x0B)];
  Defines [
    ("HID_DT_HID", Or (Id "USB_TYPE_CLASS") (hex 0x01));
    ("HID_DT_REPORT", Or (Id "USB_TYPE_CLASS") (hex 0x02));
    ("HID_DT_PHYSICAL", Or (Id "USB_TYPE_CLASS") (hex 0x03));
    ("HID_MAX_DESCRIPTOR_SIZE", dec 4096)]].
Definition header : header :=
  Header "linux/hid.h" [Usb_ch9.header] (concat [
    defs_HID_REQ_GET_REPORT]).
End Hid.

(** ** [linux/hiddev.h] *)

Module Hiddev.
Definition defs_HID_REPORT_ID_UNKNOWN : list decl := [
  Defines [
    ("HID_REPORT_ID_UNKNOWN", hex 0xffffffff); ("HID_REPORT_ID_FIRST", hex 0x00000100);
    ("HID_REPORT_ID_NEXT", hex 0x00000200); ("HID_REPORT_ID_MASK", hex 0x000000ff);
    ("HID_REPORT_ID_MAX", hex 0x000000ff); ("HID_REPORT_TYPE_INPUT", dec 1);
    ("HID_REPORT_TYPE_OUTPUT", dec 2); ("HID_REPORT_TYPE_FEATURE", dec 3);
    ("HID_REPORT_TYPE_MIN", dec 1); ("HID_REPORT_TYPE_MAX", dec 3)]].
Definition defs_HID_FIELD_CONSTANT : list decl := [
  Defines [
    ("HID_FIELD_CONSTANT", hex 0x001); ("HID_FIELD_VARIABLE", hex 0x002);
    ("HID_FIELD_RELATIVE", hex 0x004); ("HID_FIELD_WRAP", hex 0x008);
    ("HID_FIELD_NONLINEAR", hex 0x010); ("HID_FIELD_NO_PREFERRED", hex 0x020);
    ("HID_FIELD_NULL_STATE", hex 0x040); ("HID_FIELD_VOLATILE", hex 0x080);
    ("HID_FIELD_BUFFERED_BYTE", hex 0x100)]].
Definition header : header :=
  Header "linux/hiddev.h" [] (concat [
    defs_HID_REPORT_ID_UNKNOWN; defs_HID_FIELD_CONSTANT]).
End Hiddev.

(** ** [linux/hsr_netlink.h] *)

Module Hsr_netlink.
Definition enum_HSR_A_UNSPEC : list decl := [
  Enum [
    ("HSR_A_UNSPEC", None); ("HSR_A_NODE_ADDR", None); ("HSR_A_IFINDEX", None);
    ("HSR_A_IF1_AGE", None); ("HSR_A_IF2_AGE", None); ("HSR_A_NODE_ADDR_B", None);
    ("HSR_A_IF1_SEQ", None); ("HSR_A_IF2_SEQ", None); ("HSR_A_IF1_IFINDEX", None);
    ("HSR_A_IF2_IFINDEX", None); ("HSR_A_ADDR_B_IFINDEX", None); ("__HSR_A_MAX", None)];
  Defines [
    ("HSR_A_MAX", Sub (Id "__HSR_A_MAX") (dec 1))];
  Enum [
    ("HSR_C_UNSPEC", None); ("HSR_C_RING_ERROR", None); ("HSR_C_NODE_DOWN", None);
    ("HSR_C_GET_NODE_STATUS", None); ("HSR_C_SET_NODE_STATUS", None);
    ("HSR_C_GET_NODE_LIST", None); ("HSR_C_SET_NODE_LIST", None); ("__HSR_C_MAX", None)];
  Defines [
    ("HSR_C_MAX", Sub (Id "__HSR_C_MAX") (dec 1))]].
Definition header : header :=
  Header "linux/hsr_netlink.h" [] (concat [
    enum_HSR_A_UNSPEC]).
End Hsr_netlink.

(** ** [linux/hw_breakpoint.h] *)

Module Hw_breakpoint.
Definition enum_HW_BREAKPOINT_LEN_1 : list decl := [
  Enum [
    ("HW_BREAKPOINT_LEN_1", Some (dec 1)); ("HW_BREAKPOINT_LEN_2", Some (dec 2));
    ("HW_BREAKPOINT_LEN_3", Some (dec 3)); ("HW_BREAKPOINT_LEN_4", Some (dec 4));
    ("HW_BREAKPOINT_LEN_5", Some (dec 5)); ("HW_BREAKPOINT_LEN_6", Some (dec 6));
    ("HW_BREAKPOINT_LEN_7", Some (dec 7)); ("HW_BREAKPOINT_LEN_8", Some (dec 8))];
  Enum [
    ("HW_BREAKPOINT_EMPTY", Some (dec 0)); ("HW_BREAKPOINT_R", Some (dec 1));
    ("HW_BREAKPOINT_W", Some (dec 2));
    ("HW_BREAKPOINT_RW", Some (Or (Id "HW_BREAKPOINT_R") (Id "HW_BREAKPOINT_W")));
    ("HW_BREAKPOINT_X", Some (dec 4));
    ("HW_BREAKPOINT_INVALID", Some (Or (Id "HW_BREAKPOINT_RW") (Id "HW_BREAKPOINT_X")))];
  Enum [
    ("TYPE_INST", Some (dec 0)); ("TYPE_DATA", Some (dec 1)); ("TYPE_MAX", None)]].
Definition header : header :=
  Header "linux/hw_breakpoint.h" [] (concat [
    enum_HW_BREAKPOINT_LEN_1]).
End Hw_breakpoint.

(** ** [linux/hysdn_if.h] *)

Module Hysdn_if.
Definition defs_ERR_NONE : list decl := [
  Defines [
    ("ERR_NONE", dec 0); ("ERR_ALREADY_BOOT", dec 1000); ("EPOF_BAD_MAGIC", dec 1001);
    ("ERR_BOARD_DPRAM", dec 1002); ("EPOF_INTERNAL", dec 1003); ("EPOF_BAD_IMG_SIZE", dec 1004);
    ("ERR_BOOTIMG_FAIL", dec 1005); ("ERR_BOOTSEQ_FAIL", dec 1006);
    ("ERR_POF_TIMEOUT", dec 1007); ("ERR_NOT_BOOTED", dec 1008); ("ERR_CONF_LONG", dec 1009);
    ("ERR_INV_CHAN", dec 1010); ("ERR_ASYNC_TIME", dec 1011)]].
Definition header : header :=
  Header "linux/hysdn_if.h" [] (concat [
    defs_ERR_NONE]).
End Hysdn_if.

(** ** [linux/i2c-dev.h] *)

Module I2c_dev.
Definition defs_I2C_SLAVE : list decl := [
  Defines [
    ("I2C_SLAVE", hex 0x0703); ("I2C_SLAVE_FORCE", hex 0x0706); ("I2C_TENBIT", hex 0x0704);
    ("I2C_FUNCS", hex 0x0705); ("I2C_RDWR", hex 0x0707); ("I2C_PEC", hex 0x0708);
    ("I2C_SMBUS", hex 0x0720)]].
Definition header : header :=
  Header "linux/i2c-dev.h" [] (concat [
    defs_I2C_SLAVE]).
End I2c_dev.

(** ** [linux/i2c.h] *)

Module I2c.
Definition defs_I2C_FUNC_I2C : list decl := [
  Defines [
    ("I2C_FUNC_I2C", hex 0x00000001); ("I2C_FUNC_10BIT_ADDR", hex 0x00000002);
    ("I2C_FUNC_PROTOCOL_MANGLING", hex 0x00000004); ("I2C_FUNC_SMBUS_PEC", hex 0x00000008);
    ("I2C_FUNC_NOSTART", hex 0x00000010); ("I2C_FUNC_SLAVE", hex 0x00000020);
    ("I2C_FUNC_SMBUS_BLOCK_PROC_CALL", hex 0x00008000); ("I2C_FUNC_SMBUS_QUICK", hex 0x00010000);
    ("I2C_FUNC_SMBUS_READ_BYTE", hex 0x00020000); ("I2C_FUNC_SMBUS_WRITE_BYTE", hex 0x00040000);
    ("I2C_FUNC_SMBUS_READ_BYTE_DATA", hex 0x00080000);
    ("I2C_FUNC_SMBUS_WRITE_BYTE_DATA", hex 0x00100000);
    ("I2C_FUNC_SMBUS_READ_WORD_DATA", hex 0x00200000);
    ("I2C_FUNC_SMBUS_WRITE_WORD_DATA", hex 0x00400000);
    ("I2C_FUNC_SMBUS_PROC_CALL", hex 0x00800000);
    ("I2C_FUNC_SMBUS_READ_BLOCK_DATA", hex 0x01000000);
    ("I2C_FUNC_SMBUS_WRITE_BLOCK_DATA", hex 0x02000000);
    ("I2C_FUNC_SMBUS_READ_I2C_BLOCK", hex 0x04000000);
    ("I2C_FUNC_SMBUS_WRITE_I2C_BLOCK", hex 0x08000000);
    ("I2C_FUNC_SMBUS_BYTE", Or (Id "I2C_FUNC_SMBUS_READ_BYTE") (Id "I2C_FUNC_SMBUS_WRITE_BYTE"));
    ("I2C_FUNC_SMBUS_BYTE_DATA", Or (Id "I2C_FUNC_SMBUS_READ_BYTE_DATA") (Id "I2C_FUNC_SMBUS_WRITE_BYTE_DATA"));
    ("I2C_FUNC_SMBUS_WORD_DATA", Or (Id "I2C_FUNC_SMBUS_READ_WORD_DATA") (Id "I2C_FUNC_SMBUS_WRITE_WORD_DATA"));
    ("I2C_FUNC_SMBUS_BLOCK_DATA", Or (Id "I2C_FUNC_SMBUS_READ_BLOCK_DATA") (Id "I2C_FUNC_SMBUS_WRITE_BLOCK_DATA"));
    ("I2C_FUNC_SMBUS_I2C_BLOCK", Or (Id "I2C_FUNC_SMBUS_READ_I2C_BLOCK") (Id "I2C_FUNC_SMBUS_WRITE_I2C_BLOCK"));
    ("I2C_FUNC_SMBUS_EMUL", Or (Or (Or (Or (Or (Or (Or (Id "I2C_FUNC_SMBUS_QUICK") (Id "I2C_FUNC_SMBUS_BYTE")) (Id "I2C_FUNC_SMBUS_BYTE_DATA")) (Id "I2C_FUNC_SMBUS_WORD_DATA")) (Id "I2C_FUNC_SMBUS_PROC_CALL")) (Id "I2C_FUNC_SMBUS_WRITE_BLOCK_DATA")) (Id "I2C_FUNC_SMBUS_I2C_BLOCK")) (Id "I2C_FUNC_SMBUS_PEC"))]].
Definition defs_I2C_SMBUS_READ : list decl := [
  Defines [
    ("I2C_SMBUS_READ", dec 1); ("I2C_SMBUS_WRITE", dec 0); ("I2C_SMBUS_QUICK", dec 0);
    ("I2C_SMBUS_BYTE", dec 1); ("I2C_SMBUS_BYTE_DATA", dec 2); ("I2C_SMBUS_WORD_DATA", dec 3);
    ("I2C_SMBUS_PROC_CALL", dec 4); ("I2C_SMBUS_BLOCK_DATA", dec 5);
    ("I2C_SMBUS_I2C_BLOCK_BROKEN", dec 6); ("I2C_SMBUS_BLOCK_PROC_CALL", dec 7);
    ("I2C_SMBUS_I2C_BLOCK_DATA", dec 8)]].
Definition header : header :=
  Header "linux/i2c.h" [] (concat [
    defs_I2C_FUNC_I2C; defs_I2C_SMBUS_READ]).
End I2c.

(** ** [linux/i8k.h] *)

Module I8k.
Definition defs_I8K_FAN_LEFT : list decl := [
  Defines [
    ("I8K_FAN_LEFT", dec 1); ("I8K_FAN_RIGHT", dec 0); ("I8K_FAN_OFF", dec 0);
    ("I8K_FAN_LOW", dec 1); ("I8K_FAN_HIGH", dec 2); ("I8K_FAN_TURBO", dec 3);
    ("I8K_FAN_MAX", Id "I8K_FAN_TURBO"); ("I8K_VOL_UP", dec 1); ("I8K_VOL_DOWN", dec 2);
    ("I8K_VOL_MUTE", dec 4); ("I8K_AC", dec 1); ("I8K_BATTERY", dec 0)]].
Definition header : header :=
  Header "linux/i8k.h" [] (concat [
    defs_I8K_FAN_LEFT]).
End I8k.

(** ** [linux/if.h] *)

Module If.
Definition enum_net_device_flags : list decl := [
  Enum [
    ("IFF_UP", Some (Shl (dec 1) (dec 0))); ("IFF_BROADCAST", Some (Shl (dec 1) (dec 1)));
    ("IFF_DEBUG", Some (Shl (dec 1) (dec 2))); ("IFF_LOOPBACK", Some (Shl (dec 1) (dec 3)));
    ("IFF_POINTOPOINT", Some (Shl (dec 1) (dec 4)));
    ("IFF_NOTRAILERS", Some (Shl (dec 1) (dec 5))); ("IFF_RUNNING", Some (Shl (dec 1) (dec 6)));
    ("IFF_NOARP", Some (Shl (dec 1) (dec 7))); ("IFF_PROMISC", Some (Shl (dec 1) (dec 8)));
    ("IFF_ALLMULTI", Some (Shl (dec 1) (dec 9))); ("IFF_MASTER", Some (Shl (dec 1) (dec 10)));
    ("IFF_SLAVE", Some (Shl (dec 1) (dec 11))); ("IFF_MULTICAST", Some (Shl (dec 1) (dec 12)));
    ("IFF_PORTSEL", Some (Shl (dec 1) (dec 13))); ("IFF_AUTOMEDIA", Some (Shl (dec 1) (dec 14)));
    ("IFF_DYNAMIC", Some (Shl (dec 1) (dec 15))); ("IFF_LOWER_UP", Some (Shl (dec 1) (dec 16)));
    ("IFF_DORMANT", Some (Shl (dec 1) (dec 17))); ("IFF_ECHO", Some (Shl (dec 1) (dec 18)))]].
Definition defs_IFF_VOLATILE : list decl := [
  Defines [
    ("IFF_VOLATILE", Or (Or (Or (Or (Or (Or (Or (Or (Id "IFF_LOOPBACK") (Id "IFF_POINTOPOINT")) (Id "IFF_BROADCAST")) (Id "IFF_ECHO")) (Id "IFF_MASTER")) (Id "IFF_SLAVE")) (Id "IFF_RUNNING")) (Id "IFF_LOWER_UP")) (Id "IFF_DORMANT"));
    ("IF_GET_IFACE", hex 0x0001); ("IF_GET_PROTO", hex 0x0002); ("IF_IFACE_V35", hex 0x1000);
    ("IF_IFACE_V24", hex 0x1001); ("IF_IFACE_X21", hex 0x1002); ("IF_IFACE_T1", hex 0x1003);
    ("IF_IFACE_E1", hex 0x1004); ("IF_IFACE_SYNC_SERIAL", hex 0x1005);
    ("IF_IFACE_X21D", hex 0x1006); ("IF_PROTO_HDLC", hex 0x2000); ("IF_PROTO_PPP", hex 0x2001);
    ("IF_PROTO_CISCO", hex 0x2002); ("IF_PROTO_FR", hex 0x2003);
    ("IF_PROTO_FR_ADD_PVC", hex 0x2004); ("IF_PROTO_FR_DEL_PVC", hex 0x2005);
    ("IF_PROTO_X25", hex 0x2006); ("IF_PROTO_HDLC_ETH", hex 0x2007);
    ("IF_PROTO_FR_ADD_ETH_PVC", hex 0x2008); ("IF_PROTO_FR_DEL_ETH_PVC", hex 0x2009);
    ("IF_PROTO_FR_PVC", hex 0x200A); ("IF_PROTO_FR_ETH_PVC", hex 0x200B);
    ("IF_PROTO_RAW", hex 0x200C)];
  Enum [
    ("IF_OPER_UNKNOWN", None); ("IF_OPER_NOTPRESENT", None); ("IF_OPER_DOWN", None);
    ("IF_OPER_LOWERLAYERDOWN", None); ("IF_OPER_TESTING", None); ("IF_OPER_DORMANT", None);
    ("IF_OPER_UP", None)]].
Definition header : header :=
  Header "linux/if.h" [] (concat [
    enum_net_device_flags; defs_IFF_VOLATILE]).
End If.

(** ** [linux/igmp.h] *)

Module Igmp.
Definition defs_IGMPV3_MODE_IS_INCLUDE : list decl := [
  Defines [
    ("IGMPV3_MODE_IS_INCLUDE", dec 1); ("IGMPV3_MODE_IS_EXCLUDE", dec 2);
    ("IGMPV3_CHANGE_TO_INCLUDE", dec 3); ("IGMPV3_CHANGE_TO_EXCLUDE", dec 4);
    ("IGMPV3_ALLOW_NEW_SOURCES", dec 5); ("IGMPV3_BLOCK_OLD_SOURCES", dec 6)]].
Definition defs_IGMP_HOST_MEMBERSHIP_QUERY : list decl := [
  Defines [
    ("IGMP_HOST_MEMBERSHIP_QUERY", hex 0x11); ("IGMP_HOST_MEMBERSHIP_REPORT", hex 0x12);
    ("IGMP_DVMRP", hex 0x13); ("IGMP_PIM", hex 0x14); ("IGMP_TRACE", hex 0x15);
    ("IGMPV2_HOST_MEMBERSHIP_REPORT", hex 0x16); ("IGMP_HOST_LEAVE_MESSAGE", hex 0x17);
    ("IGMPV3_HOST_MEMBERSHIP_REPORT", hex 0x22); ("IGMP_MTRACE_RESP", hex 0x1e);
    ("IGMP_MTRACE", hex 0x1f)];
  Defines [
    ("IGMP_DELAYING_MEMBER", hex 0x01); ("IGMP_IDLE_MEMBER", hex 0x02);
    ("IGMP_LAZY_MEMBER", hex 0x03); ("IGMP_SLEEPING_MEMBER", hex 0x04);
    ("IGMP_AWAKENING_MEMBER", hex 0x05); ("IGMP_MINLEN", dec 8);
    ("IGMP_MAX_HOST_REPORT_DELAY", dec 10); ("IGMP_TIMER_SCALE", dec 10);
    ("IGMP_AGE_THRESHOLD", dec 400)]].
Definition header : header :=
  Header "linux/igmp.h" [] (concat [
    defs_IGMPV3_MODE_IS_INCLUDE; defs_IGMP_HOST_MEMBERSHIP_QUERY]).
End Igmp.

(** ** [linux/iio/types.h] *)

Module Iio_types.
Definition enum_iio_chan_type : list decl := [
  Enum [
    ("IIO_VOLTAGE", None); ("IIO_CURRENT", None); ("IIO_POWER", None); ("IIO_ACCEL", None);
    ("IIO_ANGL_VEL", None); ("IIO_MAGN", None); ("IIO_LIGHT", None); ("IIO_INTENSITY", None);
    ("IIO_PROXIMITY", None); ("IIO_TEMP", None); ("IIO_INCLI", None); ("IIO_ROT", None);
    ("IIO_ANGL", None); ("IIO_TIMESTAMP", None); ("IIO_CAPACITANCE", None);
    ("IIO_ALTVOLTAGE", None); ("IIO_CCT", None); ("IIO_PRESSURE", None);
    ("IIO_HUMIDITYRELATIVE", None); ("IIO_ACTIVITY", None); ("IIO_STEPS", None);
    ("IIO_ENERGY", None); ("IIO_DISTANCE", None); ("IIO_VELOCITY", None);
    ("IIO_CONCENTRATION", None); ("IIO_RESISTANCE", None)];
  Enum [
    ("IIO_NO_MOD", None); ("IIO_MOD_X", None); ("IIO_MOD_Y", None); ("IIO_MOD_Z", None);
    ("IIO_MOD_X_AND_Y", None); ("IIO_MOD_X_AND_Z", None); ("IIO_MOD_Y_AND_Z", None);
    ("IIO_MOD_X_AND_Y_AND_Z", None); ("IIO_MOD_X_OR_Y", None); ("IIO_MOD_X_OR_Z", None);
    ("IIO_MOD_Y_OR_Z", None); ("IIO_MOD_X_OR_Y_OR_Z", None); ("IIO_MOD_LIGHT_BOTH", None);
    ("IIO_MOD_LIGHT_IR", None); ("IIO_MOD_ROOT_SUM_SQUARED_X_Y", None);
    ("IIO_MOD_SUM_SQUARED_X_Y_Z", None); ("IIO_MOD_LIGHT_CLEAR", None);
    ("IIO_MOD_LIGHT_RED", None); ("IIO_MOD_LIGHT_GREEN", None); ("IIO_MOD_LIGHT_BLUE", None);
    ("IIO_MOD_QUATERNION", None); ("IIO_MOD_TEMP_AMBIENT", None); ("IIO_MOD_TEMP_OBJECT", None);
    ("IIO_MOD_NORTH_MAGN", None); ("IIO_MOD_NORTH_TRUE", None);
    ("IIO_MOD_NORTH_MAGN_TILT_COMP", None); ("IIO_MOD_NORTH_TRUE_TILT_COMP", None);
    ("IIO_MOD_RUNNING", None); ("IIO_MOD_JOGGING", None); ("IIO_MOD_WALKING", None);
    ("IIO_MOD_STILL", None); ("IIO_MOD_ROOT_SUM_SQUARED_X_Y_Z", None); ("IIO_MOD_I", None);
    ("IIO_MOD_Q", None); ("IIO_MOD_CO2", None); ("IIO_MOD_VOC", None)];
  Enum [
    ("IIO_EV_TYPE_THRESH", None); ("IIO_EV_TYPE_MAG", None); ("IIO_EV_TYPE_ROC", None);
    ("IIO_EV_TYPE_THRESH_ADAPTIVE", None); ("IIO_EV_TYPE_MAG_ADAPTIVE", None);
    ("IIO_EV_TYPE_CHANGE", None)];
  Enum [
    ("IIO_EV_DIR_EITHER", None); ("IIO_EV_DIR_RISING", None); ("IIO_EV_DIR_FALLING", None);
    ("IIO_EV_DIR_NONE", None)]].
Definition header : header :=
  Header "linux/iio/types.h" [] (concat [
    enum_iio_chan_type]).
End Iio_types.

(** ** [linux/ila.h] *)

Module Ila.
Definition enum_ILA_ATTR_UNSPEC : list decl := [
  Enum [
    ("ILA_ATTR_UNSPEC", None); ("ILA_ATTR_LOCATOR", None); ("__ILA_ATTR_MAX", None)];
  Defines [
    ("ILA_ATTR_MAX", Sub (Id "__ILA_ATTR_MAX") (dec 1))]].
Definition header : header :=
  Header "linux/ila.h" [] (concat [
    enum_ILA_ATTR_UNSPEC]).
End Ila.

(** ** [linux/in_route.h] *)

Module In_route.
Definition defs_RTCF_NOTIFY : list decl := [
  Defines [
    ("RTCF_NOTIFY", hex 0x00010000); ("RTCF_DIRECTDST", hex 0x00020000);
    ("RTCF_REDIRECTED", hex 0x00040000); ("RTCF_TPROXY", hex 0x00080000);
    ("RTCF_FAST", hex 0x00200000); ("RTCF_MASQ", hex 0x00400000); ("RTCF_SNAT", hex 0x00800000);
    ("RTCF_DOREDIRECT", hex 0x01000000); ("RTCF_DIRECTSRC", hex 0x04000000);
    ("RTCF_DNAT", hex 0x08000000); ("RTCF_BROADCAST", hex 0x10000000);
    ("RTCF_MULTICAST", hex 0x20000000); ("RTCF_REJECT", hex 0x40000000);
    ("RTCF_LOCAL", hex 0x80000000); ("RTCF_NAT", Or (Id "RTCF_DNAT") (Id "RTCF_SNAT"))]].
Definition header : header :=
  Header "linux/in_route.h" [] (concat [
    defs_RTCF_NOTIFY]).
End In_route.

(** ** [linux/inet_diag.h] *)

Module Inet_diag.
Definition enum_INET_DIAG_BC_NOP : list decl := [
  Enum [
    ("INET_DIAG_BC_NOP", None); ("INET_DIAG_BC_JMP", None); ("INET_DIAG_BC_S_GE", None);
    ("INET_DIAG_BC_S_LE", None); ("INET_DIAG_BC_D_GE", None); ("INET_DIAG_BC_D_LE", None);
    ("INET_DIAG_BC_AUTO", None); ("INET_DIAG_BC_S_COND", None); ("INET_DIAG_BC_D_COND", None);
    ("INET_DIAG_BC_DEV_COND", None); ("INET_DIAG_BC_MARK_COND", None)]].
Definition enum_INET_DIAG_NONE : list decl := [
  Enum [
    ("INET_DIAG_NONE", None); ("INET_DIAG_MEMINFO", None); ("INET_DIAG_INFO", None);
    ("INET_DIAG_VEGASINFO", None); ("INET_DIAG_CONG", None); ("INET_DIAG_TOS", None);
    ("INET_DIAG_TCLASS", None); ("INET_DIAG_SKMEMINFO", None); ("INET_DIAG_SHUTDOWN", None);
    ("INET_DIAG_DCTCPINFO", None); ("INET_DIAG_PROTOCOL", None); ("INET_DIAG_SKV6ONLY", None);
    ("INET_DIAG_LOCALS", None); ("INET_DIAG_PEERS", None); ("INET_DIAG_PAD", None);
    ("INET_DIAG_MARK", None)];
  Defines [
    ("INET_DIAG_MAX", Id "INET_DIAG_MARK")]].
Definition header : header :=
  Header "linux/inet_diag.h" [] (concat [
    enum_INET_DIAG_BC_NOP; enum_INET_DIAG_NONE]).
End Inet_diag.

(** ** [linux/input.h] *)

Module Input.
Definition defs_INPUT_PROP_POINTER : list decl := [
  Defines [
    ("INPUT_PROP_POINTER", hex 0x00); ("INPUT_PROP_DIRECT", hex 0x01);
    ("INPUT_PROP_BUTTONPAD", hex 0x02); ("INPUT_PROP_SEMI_MT", hex 0x03);
    ("INPUT_PROP_TOPBUTTONPAD", hex 0x04); ("INPUT_PROP_POINTING_STICK", hex 0x05);
    ("INPUT_PROP_NO_DUMMY_RELEASE", hex 0x06); ("INPUT_PROP_MAX", hex 0x1f);
    ("INPUT_PROP_CNT", Add (Id "INPUT_PROP_MAX") (dec 1))];
  Defines [
    ("EV_SYN", hex 0x00); ("EV_KEY", hex 0x01); ("EV_REL", hex 0x02); ("EV_ABS", hex 0x03);
    ("EV_MSC", hex 0x04); ("EV_SW", hex 0x05); ("EV_LED", hex 0x11); ("EV_SND", hex 0x12);
    ("EV_REP", hex 0x14); ("EV_FF", hex 0x15); ("EV_PWR", hex 0x16); ("EV_FF_STATUS", hex 0x17);
    ("EV_MAX", hex 0x1f); ("EV_CNT", Add (Id "EV_MAX") (dec 1))]].
Definition defs_ID_BUS : list decl := [
  Defines [
    ("ID_BUS", dec 0); ("ID_VENDOR", dec 1); ("ID_PRODUCT", dec 2); ("ID_VERSION", dec 3);
    ("BUS_PCI", hex 0x01); ("BUS_ISAPNP", hex 0x02); ("BUS_USB", hex 0x03);
    ("BUS_HIL", hex 0x04); ("BUS_BLUETOOTH", hex 0x05); ("BUS_VIRTUAL", hex 0x06);
    ("BUS_ISA", hex 0x10); ("BUS_I8042", hex 0x11); ("BUS_XTKBD", hex 0x12);
    ("BUS_RS232", hex 0x13); ("BUS_GAMEPORT", hex 0x14); ("BUS_PARPORT", hex 0x15);
    ("BUS_AMIGA", hex 0x16); ("BUS_ADB", hex 0x17); ("BUS_I2C", hex 0x18);
    ("BUS_HOST", hex 0x19); ("BUS_GSC", hex 0x1A); ("BUS_ATARI", hex 0x1B); ("BUS_SPI", hex 0x1C)];
  Defines [
    ("MT_TOOL_FINGER", dec 0); ("MT_TOOL_PEN", dec 1); ("MT_TOOL_PALM", dec 2);
    ("MT_TOOL_MAX", dec 2)]].
Definition defs_FF_RUMBLE : list decl := [
  Defines [
    ("FF_RUMBLE", hex 0x50); ("FF_PERIODIC", hex 0x51); ("FF_CONSTANT", hex 0x52);
    ("FF_SPRING", hex 0x53); ("FF_FRICTION", hex 0x54); ("FF_DAMPER", hex 0x55);
    ("FF_INERTIA", hex 0x56); ("FF_RAMP", hex 0x57); ("FF_EFFECT_MIN", Id "FF_RUMBLE");
    ("FF_EFFECT_MAX", Id "FF_RAMP")];
  Defines [
    ("FF_SQUARE", hex 0x58); ("FF_TRIANGLE", hex 0x59); ("FF_SINE", hex 0x5a);
    ("FF_SAW_UP", hex 0x5b); ("FF_SAW_DOWN", hex 0x5c); ("FF_CUSTOM", hex 0x5d);
    ("FF_WAVEFORM_MIN", Id "FF_SQUARE"); ("FF_WAVEFORM_MAX", Id "FF_CUSTOM")]].
Definition header : header :=
  Header "linux/input.h" [] (concat [
    defs_INPUT_PROP_POINTER; defs_ID_BUS; defs_FF_RUMBLE]).
End Input.

(** ** [linux/ip6_tunnel.h] *)

Module Ip6_tunnel.
Definition defs_IPV6_TLV_TNL_ENCAP_LIMIT : list decl := [
  Defines [
    ("IPV6_TLV_TNL_ENCAP_LIMIT", dec 4); ("IPV6_DEFAULT_TNL_ENCAP_LIMIT", dec 4);
    ("IP6_TNL_F_IGN_ENCAP_LIMIT", hex 0x1); ("IP6_TNL_F_USE_ORIG_TCLASS", hex 0x2);
    ("IP6_TNL_F_USE_ORIG_FLOWLABEL", hex 0x4); ("IP6_TNL_F_MIP6_DEV", hex 0x8);
    ("IP6_TNL_F_RCV_DSCP_COPY", hex 0x10); ("IP6_TNL_F_USE_ORIG_FWMARK", hex 0x20)]].
Definition header : header :=
  Header "linux/ip6_tunnel.h" [] (concat [
    defs_IPV6_TLV_TNL_ENCAP_LIMIT]).
End Ip6_tunnel.

(** ** [linux/ipc.h] *)

Module Ipc.
Definition defs_IPC_RMID : list decl := [
  Defines [
    ("IPC_RMID", dec 0); ("IPC_SET", dec 1); ("IPC_STAT", dec 2); ("IPC_INFO", dec 3)]].
Definition defs_SEMOP : list decl := [
  Defines [
    ("SEMOP", dec 1); ("SEMGET", dec 2); ("SEMCTL", dec 3); ("SEMTIMEDOP", dec 4);
    ("MSGSND", dec 11); ("MSGRCV", dec 12); ("MSGGET", dec 13); ("MSGCTL", dec 14);
    ("SHMAT", dec 21); ("SHMDT", dec 22); ("SHMGET", dec 23); ("SHMCTL", dec 24);
    ("DIPC", dec 25)]].
Definition header : header :=
  Header "linux/ipc.h" [] (concat [
    defs_IPC_RMID; defs_SEMOP]).
End Ipc.

(** ** [linux/ipmi.h] *)

Module Ipmi.
Definition defs_IPMI_RESPONSE_RECV_TYPE : list decl := [
  Defines [
    ("IPMI_RESPONSE_RECV_TYPE", dec 1); ("IPMI_ASYNC_EVENT_RECV_TYPE", dec 2);
    ("IPMI_CMD_RECV_TYPE", dec 3); ("IPMI_RESPONSE_RESPONSE_TYPE", dec 4)]].
Definition header : header :=
  Header "linux/ipmi.h" [] (concat [
    defs_IPMI_RESPONSE_RECV_TYPE]).
End Ipmi.

(** ** [linux/ipmi_msgdefs.h] *)

Module Ipmi_msgdefs.
Definition defs_IPMI_NETFN_SENSOR_EVENT_REQUEST : list decl := [
  Defines [
    ("IPMI_NETFN_SENSOR_EVENT_REQUEST", hex 0x04);
    ("IPMI_NETFN_SENSOR_EVENT_RESPONSE", hex 0x05); ("IPMI_GET_EVENT_RECEIVER_CMD", hex 0x01);
    ("IPMI_NETFN_APP_REQUEST", hex 0x06); ("IPMI_NETFN_APP_RESPONSE", hex 0x07);
    ("IPMI_GET_DEVICE_ID_CMD", hex 0x01); ("IPMI_COLD_RESET_CMD", hex 0x02);
    ("IPMI_WARM_RESET_CMD", hex 0x03); ("IPMI_CLEAR_MSG_FLAGS_CMD", hex 0x30);
    ("IPMI_GET_DEVICE_GUID_CMD", hex 0x08); ("IPMI_GET_MSG_FLAGS_CMD", hex 0x31);
    ("IPMI_SEND_MSG_CMD", hex 0x34); ("IPMI_GET_MSG_CMD", hex 0x33);
    ("IPMI_SET_BMC_GLOBAL_ENABLES_CMD", hex 0x2e); ("IPMI_GET_BMC_GLOBAL_ENABLES_CMD", hex 0x2f);
    ("IPMI_READ_EVENT_MSG_BUFFER_CMD", hex 0x35); ("IPMI_GET_CHANNEL_INFO_CMD", hex 0x42);
    ("IPMI_BMC_RCV_MSG_INTR", hex 0x01); ("IPMI_BMC_EVT_MSG_INTR", hex 0x02);
    ("IPMI_BMC_EVT_MSG_BUFF", hex 0x04); ("IPMI_BMC_SYS_LOG", hex 0x08);
    ("IPMI_NETFN_STORAGE_REQUEST", hex 0x0a); ("IPMI_NETFN_STORAGE_RESPONSE", hex 0x0b);
    ("IPMI_ADD_SEL_ENTRY_CMD", hex 0x44); ("IPMI_NETFN_FIRMWARE_REQUEST", hex 0x08);
    ("IPMI_NETFN_FIRMWARE_RESPONSE", hex 0x09); ("IPMI_BMC_SLAVE_ADDR", hex 0x20)];
  Defines [
    ("IPMI_MAX_MSG_LENGTH", dec 272); ("IPMI_CC_NO_ERROR", hex 0x00);
    ("IPMI_NODE_BUSY_ERR", hex 0xc0); ("IPMI_INVALID_COMMAND_ERR", hex 0xc1);
    ("IPMI_TIMEOUT_ERR", hex 0xc3); ("IPMI_ERR_MSG_TRUNCATED", hex 0xc6);
    ("IPMI_REQ_LEN_INVALID_ERR", hex 0xc7); ("IPMI_REQ_LEN_EXCEEDED_ERR", hex 0xc8);
    ("IPMI_NOT_IN_MY_STATE_ERR", hex 0xd5); ("IPMI_LOST_ARBITRATION_ERR", hex 0x81);
    ("IPMI_BUS_ERR", hex 0x82); ("IPMI_NAK_ON_WRITE_ERR", hex 0x83);
    ("IPMI_ERR_UNSPECIFIED", hex 0xff); ("IPMI_CHANNEL_PROTOCOL_IPMB", dec 1);
    ("IPMI_CHANNEL_PROTOCOL_ICMB", dec 2); ("IPMI_CHANNEL_PROTOCOL_SMBUS", dec 4);
    ("IPMI_CHANNEL_PROTOCOL_KCS", dec 5); ("IPMI_CHANNEL_PROTOCOL_SMIC", dec 6);
    ("IPMI_CHANNEL_PROTOCOL_BT10", dec 7); ("IPMI_CHANNEL_PROTOCOL_BT15", dec 8);
    ("IPMI_CHANNEL_PROTOCOL_TMODE", dec 9); ("IPMI_CHANNEL_MEDIUM_IPMB", dec 1);
    ("IPMI_CHANNEL_MEDIUM_ICMB10", dec 2); ("IPMI_CHANNEL_MEDIUM_ICMB09", dec 3);
    ("IPMI_CHANNEL_MEDIUM_8023LAN", dec 4); ("IPMI_CHANNEL_MEDIUM_ASYNC", dec 5);
    ("IPMI_CHANNEL_MEDIUM_OTHER_LAN", dec 6); ("IPMI_CHANNEL_MEDIUM_PCI_SMBUS", dec 7);
    ("IPMI_CHANNEL_MEDIUM_SMBUS1", dec 8); ("IPMI_CHANNEL_MEDIUM_SMBUS2", dec 9);
    ("IPMI_CHANNEL_MEDIUM_USB1", dec 10); ("IPMI_CHANNEL_MEDIUM_USB2", dec 11);
    ("IPMI_CHANNEL_MEDIUM_SYSINTF", dec 12); ("IPMI_CHANNEL_MEDIUM_OEM_MIN", hex 0x60);
    ("IPMI_CHANNEL_MEDIUM_OEM_MAX", hex 0x7f)]].
Definition header : header :=
  Header "linux/ipmi_msgdefs.h" [] (concat [
    defs_IPMI_NETFN_SENSOR_EVENT_REQUEST]).
End Ipmi_msgdefs.

(** ** [linux/ipsec.h] *)

Module Ipsec.
Definition enum_IPSEC_MODE_ANY : list decl := [
  Enum [
    ("IPSEC_MODE_ANY", Some (dec 0)); ("IPSEC_MODE_TRANSPORT", Some (dec 1));
    ("IPSEC_MODE_TUNNEL", Some (dec 2)); ("IPSEC_MODE_BEET", Some (dec 3))];
  Enum [
    ("IPSEC_DIR_ANY", Some (dec 0)); ("IPSEC_DIR_INBOUND", Some (dec 1));
    ("IPSEC_DIR_OUTBOUND", Some (dec 2)); ("IPSEC_DIR_FWD", Some (dec 3));
    ("IPSEC_DIR_MAX", Some (dec 4)); ("IPSEC_DIR_INVALID", Some (dec 5))];
  Enum [
    ("IPSEC_POLICY_DISCARD", Some (dec 0)); ("IPSEC_POLICY_NONE", Some (dec 1));
    ("IPSEC_POLICY_IPSEC", Some (dec 2)); ("IPSEC_POLICY_ENTRUST", Some (dec 3));
    ("IPSEC_POLICY_BYPASS", Some (dec 4))];
  Enum [
    ("IPSEC_LEVEL_DEFAULT", Some (dec 0)); ("IPSEC_LEVEL_USE", Some (dec 1));
    ("IPSEC_LEVEL_REQUIRE", Some (dec 2)); ("IPSEC_LEVEL_UNIQUE", Some (dec 3))];
  Defines [
    ("IPSEC_MANUAL_REQID_MAX", hex 0x3fff); ("IPSEC_REPLAYWSIZE", dec 32)]].
Definition header : header :=
  Header "linux/ipsec.h" [] (concat [
    enum_IPSEC_MODE_ANY]).
End Ipsec.

(** ** [linux/ipx.h] *)

Module Ipx.
Definition defs_SIOCAIPXITFCRT : list decl := [
  Defines [
    ("SIOCAIPXITFCRT", Id "SIOCPROTOPRIVATE");
    ("SIOCAIPXPRISLT", Add (Id "SIOCPROTOPRIVATE") (dec 1));
    ("SIOCIPXCFGDATA", Add (Id "SIOCPROTOPRIVATE") (dec 2));
    ("SIOCIPXNCPCONN", Add (Id "SIOCPROTOPRIVATE") (dec 3))]].
Definition header : header :=
  Header "linux/ipx.h" [Sockios.header] (concat [
    defs_SIOCAIPXITFCRT]).
End Ipx.

(** ** [linux/joystick.h] *)

Module Joystick.
Definition defs_JS_TRUE : list decl := [
  Defines [
    ("JS_TRUE", dec 1); ("JS_FALSE", dec 0); ("JS_X_0", hex 0x01); ("JS_Y_0", hex 0x02);
    ("JS_X_1", hex 0x04); ("JS_Y_1", hex 0x08); ("JS_MAX", dec 2);
    ("JS_DEF_TIMEOUT", hex 0x1300); ("JS_DEF_CORR", dec 0); ("JS_DEF_TIMELIMIT", decL 10);
    ("JS_SET_CAL", dec 1); ("JS_GET_CAL", dec 2); ("JS_SET_TIMEOUT", dec 3);
    ("JS_GET_TIMEOUT", dec 4); ("JS_SET_TIMELIMIT", dec 5); ("JS_GET_TIMELIMIT", dec 6);
    ("JS_GET_ALL", dec 7); ("JS_SET_ALL", dec 8)]].
Definition header : header :=
  Header "linux/joystick.h" [] (concat [
    defs_JS_TRUE]).
End Joystick.

(** ** [linux/kcmp.h] *)

Module Kcmp.
Definition enum_kcmp_type : list decl := [
  Enum [
    ("KCMP_FILE", None); ("KCMP_VM", None); ("KCMP_FILES", None); ("KCMP_FS", None);
    ("KCMP_SIGHAND", None); ("KCMP_IO", None); ("KCMP_SYSVSEM", None); ("KCMP_TYPES", None)]].
Definition header : header :=
  Header "linux/kcmp.h" [] (concat [
    enum_kcmp_type]).
End Kcmp.

(** ** [linux/kd.h] *)

Module Kd.
Definition defs_GIO_FONT : list decl := [
  Defines [
    ("GIO_FONT", hex 0x4B60); ("PIO_FONT", hex 0x4B61); ("GIO_FONTX", hex 0x4B6B);
    ("PIO_FONTX", hex 0x4B6C)]].
Definition defs_PIO_FONTRESET : list decl := [
  Defines [
    ("PIO_FONTRESET", hex 0x4B6D); ("GIO_CMAP", hex 0x4B70); ("PIO_CMAP", hex 0x4B71);
    ("KIOCSOUND", hex 0x4B2F); ("KDMKTONE", hex 0x4B30); ("KDGETLED", hex 0x4B31);
    ("KDSETLED", hex 0x4B32); ("LED_SCR", hex 0x01); ("LED_NUM", hex 0x02);
    ("LED_CAP", hex 0x04); ("KDGKBTYPE", hex 0x4B33); ("KB_84", hex 0x01); ("KB_101", hex 0x02);
    ("KB_OTHER", hex 0x03); ("KDADDIO", hex 0x4B34); ("KDDELIO", hex 0x4B35);
    ("KDENABIO", hex 0x4B36); ("KDDISABIO", hex 0x4B37); ("KDSETMODE", hex 0x4B3A);
    ("KD_TEXT", hex 0x00); ("KD_GRAPHICS", hex 0x01); ("KD_TEXT0", hex 0x02);
    ("KD_TEXT1", hex 0x03); ("KDGETMODE", hex 0x4B3B); ("KDMAPDISP", hex 0x4B3C);
    ("KDUNMAPDISP", hex 0x4B3D)]].
Definition defs_E_TABSZ : list decl := [
  Defines [
    ("E_TABSZ", dec 256); ("GIO_SCRNMAP", hex 0x4B40); ("PIO_SCRNMAP", hex 0x4B41);
    ("GIO_UNISCRNMAP", hex 0x4B69); ("PIO_UNISCRNMAP", hex 0x4B6A); ("GIO_UNIMAP", hex 0x4B66)]].
Definition defs_UNI_DIRECT_BASE : list decl := [
  Defines [
    ("UNI_DIRECT_BASE", hex 0xF000); ("UNI_DIRECT_MASK", hex 0x01FF); ("K_RAW", hex 0x00);
    ("K_XLATE", hex 0x01); ("K_MEDIUMRAW", hex 0x02); ("K_UNICODE", hex 0x03);
    ("K_OFF", hex 0x04); ("KDGKBMODE", hex 0x4B44); ("KDSKBMODE", hex 0x4B45);
    ("K_METABIT", hex 0x03); ("K_ESCPREFIX", hex 0x04); ("KDGKBMETA", hex 0x4B62);
    ("KDSKBMETA", hex 0x4B63); ("K_SCROLLLOCK", hex 0x01); ("K_NUMLOCK", hex 0x02);
    ("K_CAPSLOCK", hex 0x04); ("KDGKBLED", hex 0x4B64); ("KDSKBLED", hex 0x4B65)]].
Definition defs_K_NORMTAB : list decl := [
  Defines [
    ("K_NORMTAB", hex 0x00); ("K_SHIFTTAB", hex 0x01); ("K_ALTTAB", hex 0x02);
    ("K_ALTSHIFTTAB", hex 0x03); ("KDGKBENT", hex 0x4B46); ("KDSKBENT", hex 0x4B47)]].
Definition defs_KD_FONT_OP_SET : list decl := [
  Defines [
    ("KD_FONT_OP_SET", dec 0); ("KD_FONT_OP_GET", dec 1); ("KD_FONT_OP_SET_DEFAULT", dec 2);
    ("KD_FONT_OP_COPY", dec 3); ("KD_FONT_FLAG_DONT_RECALC", dec 1)]].
Definition header : header :=
  Header "linux/kd.h" [] (concat [
    defs_GIO_FONT; defs_PIO_FONTRESET; defs_E_TABSZ; defs_UNI_DIRECT_BASE; defs_K_NORMTAB;
    defs_KD_FONT_OP_SET]).
End Kd.

(** ** [linux/kernelcapi.h] *)

Module Kernelcapi.
Definition defs_KCAPI_TRACE_OFF : list decl := [
  Defines [
    ("KCAPI_TRACE_OFF", dec 0); ("KCAPI_TRACE_SHORT_NO_DATA", dec 1);
    ("KCAPI_TRACE_FULL_NO_DATA", dec 2); ("KCAPI_TRACE_SHORT", dec 3);
    ("KCAPI_TRACE_FULL", dec 4)]].
Definition header : header :=
  Header "linux/kernelcapi.h" [] (concat [
    defs_KCAPI_TRACE_OFF]).
End Kernelcapi.

(** ** [linux/keyboard.h] *)

Module Keyboard.
Definition defs_KG_SHIFT : list decl := [
  Defines [
    ("KG_SHIFT", dec 0); ("KG_CTRL", dec 2); ("KG_ALT", dec 3); ("KG_ALTGR", dec 1);
    ("KG_SHIFTL", dec 4); ("KG_KANASHIFT", dec 4); ("KG_SHIFTR", dec 5); ("KG_CTRLL", dec 6);
    ("KG_CTRLR", dec 7); ("KG_CAPSSHIFT", dec 8); ("NR_SHIFT", dec 9); ("NR_KEYS", dec 256);
    ("MAX_NR_KEYMAPS", dec 256); ("MAX_NR_OF_USER_KEYMAPS", dec 256); ("MAX_NR_FUNC", dec 256);
    ("KT_LATIN", dec 0); ("KT_LETTER", dec 11); ("KT_FN", dec 1); ("KT_SPEC", dec 2);
    ("KT_PAD", dec 3); ("KT_DEAD", dec 4); ("KT_CONS", dec 5); ("KT_CUR", dec 6);
    ("KT_SHIFT", dec 7); ("KT_META", dec 8); ("KT_ASCII", dec 9); ("KT_LOCK", dec 10);
    ("KT_SLOCK", dec 12); ("KT_DEAD2", dec 13); ("KT_BRL", dec 14)];
  Define_fun "K" ["t"; "v"] (Or (Shl (Id "t") (dec 8)) (Id "v"))].
Definition defs_K_F1 : list decl := [
  Defines [
    ("K_F1", App "K" [Id "KT_FN"; dec 0]); ("K_F2", App "K" [Id "KT_FN"; dec 1]);
    ("K_F3", App "K" [Id "KT_FN"; dec 2]); ("K_F4", App "K" [Id "KT_FN"; dec 3]);
    ("K_F5", App "K" [Id "KT_FN"; dec 4]); ("K_F6", App "K" [Id "KT_FN"; dec 5]);
    ("K_F7", App "K" [Id "KT_FN"; dec 6]); ("K_F8", App "K" [Id "KT_FN"; dec 7]);
    ("K_F9", App "K" [Id "KT_FN"; dec 8]); ("K_F10", App "K" [Id "KT_FN"; dec 9]);
    ("K_F11", App "K" [Id "KT_FN"; dec 10]); ("K_F12", App "K" [Id "KT_FN"; dec 11]);
    ("K_F13", App "K" [Id "KT_FN"; dec 12]); ("K_F14", App "K" [Id "KT_FN"; dec 13]);
    ("K_F15", App "K" [Id "KT_FN"; dec 14]); ("K_F16", App "K" [Id "KT_FN"; dec 15]);
    ("K_F17", App "K" [Id "KT_FN"; dec 16]); ("K_F18", App "K" [Id "KT_FN"; dec 17]);
    ("K_F19", App "K" [Id "KT_FN"; dec 18]); ("K_F20", App "K" [Id "KT_FN"; dec 19]);
    ("K_FIND", App "K" [Id "KT_FN"; dec 20]); ("K_INSERT", App "K" [Id "KT_FN"; dec 21]);
    ("K_REMOVE", App "K" [Id "KT_FN"; dec 22]); ("K_SELECT", App "K" [Id "KT_FN"; dec 23]);
    ("K_PGUP", App "K" [Id "KT_FN"; dec 24]); ("K_PGDN", App "K" [Id "KT_FN"; dec 25]);
    ("K_MACRO", App "K" [Id "KT_FN"; dec 26]); ("K_HELP", App "K" [Id "KT_FN"; dec 27]);
    ("K_DO", App "K" [Id "KT_FN"; dec 28]); ("K_PAUSE", App "K" [Id "KT_FN"; dec 29]);
    ("K_F21", App "K" [Id "KT_FN"; dec 30]); ("K_F22", App "K" [Id "KT_FN"; dec 31]);
    ("K_F23", App "K" [Id "KT_FN"; dec 32]); ("K_F24", App "K" [Id "KT_FN"; dec 33]);
    ("K_F25", App "K" [Id "KT_FN"; dec 34]); ("K_F26", App "K" [Id "KT_FN"; dec 35]);
    ("K_F27", App "K" [Id "KT_FN"; dec 36]); ("K_F28", App "K" [Id "KT_FN"; dec 37]);
    ("K_F29", App "K" [Id "KT_FN"; dec 38]); ("K_F30", App "K" [Id "KT_FN"; dec 39]);
    ("K_F31", App "K" [Id "KT_FN"; dec 40]); ("K_F32", App "K" [Id "KT_FN"; dec 41]);
    ("K_F33", App "K" [Id "KT_FN"; dec 42]); ("K_F34", App "K" [Id "KT_FN"; dec 43]);
    ("K_F35", App "K" [Id "KT_FN"; dec 44]); ("K_F36", App "K" [Id "KT_FN"; dec 45]);
    ("K_F37", App "K" [Id "KT_FN"; dec 46]); ("K_F38", App "K" [Id "KT_FN"; dec 47]);
    ("K_F39", App "K" [Id "KT_FN"; dec 48]); ("K_F40", App "K" [Id "KT_FN"; dec 49]);
    ("K_F41", App "K" [Id "KT_FN"; dec 50]); ("K_F42", App "K" [Id "KT_FN"; dec 51]);
    ("K_F43", App "K" [Id "KT_FN"; dec 52]); ("K_F44", App "K" [Id "KT_FN"; dec 53]);
    ("K_F45", App "K" [Id "KT_FN"; dec 54]); ("K_F46", App "K" [Id "KT_FN"; dec 55]);
    ("K_F47", App "K" [Id "KT_FN"; dec 56]); ("K_F48", App "K" [Id "KT_FN"; dec 57]);
    ("K_F49", App "K" [Id "KT_FN"; dec 58]); ("K_F50", App "K" [Id "KT_FN"; dec 59]);
    ("K_F51", App "K" [Id "KT_FN"; dec 60]); ("K_F52", App "K" [Id "KT_FN"; dec 61]);
    ("K_F53", App "K" [Id "KT_FN"; dec 62]); ("K_F54", App "K" [Id "KT_FN"; dec 63]);
    ("K_F55", App "K" [Id "KT_FN"; dec 64]); ("K_F56", App "K" [Id "KT_FN"; dec 65]);
    ("K_F57", App "K" [Id "KT_FN"; dec 66]); ("K_F58", App "K" [Id "KT_FN"; dec 67]);
    ("K_F59", App "K" [Id "KT_FN"; dec 68]); ("K_F60", App "K" [Id "KT_FN"; dec 69]);
    ("K_F61", App "K" [Id "KT_FN"; dec 70]); ("K_F62", App "K" [Id "KT_FN"; dec 71]);
    ("K_F63", App "K" [Id "KT_FN"; dec 72]); ("K_F64", App "K" [Id "KT_FN"; dec 73]);
    ("K_F65", App "K" [Id "KT_FN"; dec 74]); ("K_F66", App "K" [Id "KT_FN"; dec 75]);
    ("K_F67", App "K" [Id "KT_FN"; dec 76]); ("K_F68", App "K" [Id "KT_FN"; dec 77]);
    ("K_F69", App "K" [Id "KT_FN"; dec 78]); ("K_F70", App "K" [Id "KT_FN"; dec 79]);
    ("K_F71", App "K" [Id "KT_FN"; dec 80]); ("K_F72", App "K" [Id "KT_FN"; dec 81]);
    ("K_F73", App "K" [Id "KT_FN"; dec 82]); ("K_F74", App "K" [Id "KT_FN"; dec 83]);
    ("K_F75", App "K" [Id "KT_FN"; dec 84]); ("K_F76", App "K" [Id "KT_FN"; dec 85]);
    ("K_F77", App "K" [Id "KT_FN"; dec 86]); ("K_F78", App "K" [Id "KT_FN"; dec 87]);
    ("K_F79", App "K" [Id "KT_FN"; dec 88]); ("K_F80", App "K" [Id "KT_FN"; dec 89]);
    ("K_F81", App "K" [Id "KT_FN"; dec 90]); ("K_F82", App "K" [Id "KT_FN"; dec 91]);
    ("K_F83", App "K" [Id "KT_FN"; dec 92]); ("K_F84", App "K" [Id "KT_FN"; dec 93]);
    ("K_F85", App "K" [Id "KT_FN"; dec 94]); ("K_F86", App "K" [Id "KT_FN"; dec 95]);
    ("K_F87", App "K" [Id "KT_FN"; dec 96]); ("K_F88", App "K" [Id "KT_FN"; dec 97]);
    ("K_F89", App "K" [Id "KT_FN"; dec 98]); ("K_F90", App "K" [Id "KT_FN"; dec 99]);
    ("K_F91", App "K" [Id "KT_FN"; dec 100]); ("K_F92", App "K" [Id "KT_FN"; dec 101]);
    ("K_F93", App "K" [Id "KT_FN"; dec 102]); ("K_F94", App "K" [Id "KT_FN"; dec 103]);
    ("K_F95", App "K" [Id "KT_FN"; dec 104]); ("K_F96", App "K" [Id "KT_FN"; dec 105]);
    ("K_F97", App "K" [Id "KT_FN"; dec 106]); ("K_F98", App "K" [Id "KT_FN"; dec 107]);
    ("K_F99", App "K" [Id "KT_FN"; dec 108]); ("K_F100", App "K" [Id "KT_FN"; dec 109]);
    ("K_F101", App "K" [Id "KT_FN"; dec 110]); ("K_F102", App "K" [Id "KT_FN"; dec 111]);
    ("K_F103", App "K" [Id "KT_FN"; dec 112]); ("K_F104", App "K" [Id "KT_FN"; dec 113]);
    ("K_F105", App "K" [Id "KT_FN"; dec 114]); ("K_F106", App "K" [Id "KT_FN"; dec 115]);
    ("K_F107", App "K" [Id "KT_FN"; dec 116]); ("K_F108", App "K" [Id "KT_FN"; dec 117]);
    ("K_F109", App "K" [Id "KT_FN"; dec 118]); ("K_F110", App "K" [Id "KT_FN"; dec 119]);
    ("K_F111", App "K" [Id "KT_FN"; dec 120]); ("K_F112", App "K" [Id "KT_FN"; dec 121]);
    ("K_F113", App "K" [Id "KT_FN"; dec 122]); ("K_F114", App "K" [Id "KT_FN"; dec 123]);
    ("K_F115", App "K" [Id "KT_FN"; dec 124]); ("K_F116", App "K" [Id "KT_FN"; dec 125]);
    ("K_F117", App "K" [Id "KT_FN"; dec 126]); ("K_F118", App "K" [Id "KT_FN"; dec 127]);
    ("K_F119", App "K" [Id "KT_FN"; dec 128]); ("K_F120", App "K" [Id "KT_FN"; dec 129]);
    ("K_F121", App "K" [Id "KT_FN"; dec 130]); ("K_F122", App "K" [Id "KT_FN"; dec 131]);
    ("K_F123", App "K" [Id "KT_FN"; dec 132]); ("K_F124", App "K" [Id "KT_FN"; dec 133]);
    ("K_F125", App "K" [Id "KT_FN"; dec 134]); ("K_F126", App "K" [Id "KT_FN"; dec 135]);
    ("K_F127", App "K" [Id "KT_FN"; dec 136]); ("K_F128", App "K" [Id "KT_FN"; dec 137]);
    ("K_F129", App "K" [Id "KT_FN"; dec 138]); ("K_F130", App "K" [Id "KT_FN"; dec 139]);
    ("K_F131", App "K" [Id "KT_FN"; dec 140]); ("K_F132", App "K" [Id "KT_FN"; dec 141]);
    ("K_F133", App "K" [Id "KT_FN"; dec 142]); ("K_F134", App "K" [Id "KT_FN"; dec 143]);
    ("K_F135", App "K" [Id "KT_FN"; dec 144]); ("K_F136", App "K" [Id "KT_FN"; dec 145]);
    ("K_F137", App "K" [Id "KT_FN"; dec 146]); ("K_F138", App "K" [Id "KT_FN"; dec 147]);
    ("K_F139", App "K" [Id "KT_FN"; dec 148]); ("K_F140", App "K" [Id "KT_FN"; dec 149])]].
Definition defs_K_F141 : list decl := [
  Defines [
    ("K_F141", App "K" [Id "KT_FN"; dec 150]); ("K_F142", App "K" [Id "KT_FN"; dec 151]);
    ("K_F143", App "K" [Id "KT_FN"; dec 152]); ("K_F144", App "K" [Id "KT_FN"; dec 153]);
    ("K_F145", App "K" [Id "KT_FN"; dec 154]); ("K_F146", App "K" [Id "KT_FN"; dec 155]);
    ("K_F147", App "K" [Id "KT_FN"; dec 156]); ("K_F148", App "K" [Id "KT_FN"; dec 157]);
    ("K_F149", App "K" [Id "KT_FN"; dec 158]); ("K_F150", App "K" [Id "KT_FN"; dec 159]);
    ("K_F151", App "K" [Id "KT_FN"; dec 160]); ("K_F152", App "K" [Id "KT_FN"; dec 161]);
    ("K_F153", App "K" [Id "KT_FN"; dec 162]); ("K_F154", App "K" [Id "KT_FN"; dec 163]);
    ("K_F155", App "K" [Id "KT_FN"; dec 164]); ("K_F156", App "K" [Id "KT_FN"; dec 165]);
    ("K_F157", App "K" [Id "KT_FN"; dec 166]); ("K_F158", App "K" [Id "KT_FN"; dec 167]);
    ("K_F159", App "K" [Id "KT_FN"; dec 168]); ("K_F160", App "K" [Id "KT_FN"; dec 169]);
    ("K_F161", App "K" [Id "KT_FN"; dec 170]); ("K_F162", App "K" [Id "KT_FN"; dec 171]);
    ("K_F163", App "K" [Id "KT_FN"; dec 172]); ("K_F164", App "K" [Id "KT_FN"; dec 173]);
    ("K_F165", App "K" [Id "KT_FN"; dec 174]); ("K_F166", App "K" [Id "KT_FN"; dec 175]);
    ("K_F167", App "K" [Id "KT_FN"; dec 176]); ("K_F168", App "K" [Id "KT_FN"; dec 177]);
    ("K_F169", App "K" [Id "KT_FN"; dec 178]); ("K_F170", App "K" [Id "KT_FN"; dec 179]);
    ("K_F171", App "K" [Id "KT_FN"; dec 180]); ("K_F172", App "K" [Id "KT_FN"; dec 181]);
    ("K_F173", App "K" [Id "KT_FN"; dec 182]); ("K_F174", App "K" [Id "KT_FN"; dec 183]);
    ("K_F175", App "K" [Id "KT_FN"; dec 184]); ("K_F176", App "K" [Id "KT_FN"; dec 185]);
    ("K_F177", App "K" [Id "KT_FN"; dec 186]); ("K_F178", App "K" [Id "KT_FN"; dec 187]);
    ("K_F179", App "K" [Id "KT_FN"; dec 188]); ("K_F180", App "K" [Id "KT_FN"; dec 189]);
    ("K_F181", App "K" [Id "KT_FN"; dec 190]); ("K_F182", App "K" [Id "KT_FN"; dec 191]);
    ("K_F183", App "K" [Id "KT_FN"; dec 192]); ("K_F184", App "K" [Id "KT_FN"; dec 193]);
    ("K_F185", App "K" [Id "KT_FN"; dec 194]); ("K_F186", App "K" [Id "KT_FN"; dec 195]);
    ("K_F187", App "K" [Id "KT_FN"; dec 196]); ("K_F188", App "K" [Id "KT_FN"; dec 197]);
    ("K_F189", App "K" [Id "KT_FN"; dec 198]); ("K_F190", App "K" [Id "KT_FN"; dec 199]);
    ("K_F191", App "K" [Id "KT_FN"; dec 200]); ("K_F192", App "K" [Id "KT_FN"; dec 201]);
    ("K_F193", App "K" [Id "KT_FN"; dec 202]); ("K_F194", App "K" [Id "KT_FN"; dec 203]);
    ("K_F195", App "K" [Id "KT_FN"; dec 204]); ("K_F196", App "K" [Id "KT_FN"; dec 205]);
    ("K_F197", App "K" [Id "KT_FN"; dec 206]); ("K_F198", App "K" [Id "KT_FN"; dec 207]);
    ("K_F199", App "K" [Id "KT_FN"; dec 208]); ("K_F200", App "K" [Id "KT_FN"; dec 209]);
    ("K_F201", App "K" [Id "KT_FN"; dec 210]); ("K_F202", App "K" [Id "KT_FN"; dec 211]);
    ("K_F203", App "K" [Id "KT_FN"; dec 212]); ("K_F204", App "K" [Id "KT_FN"; dec 213]);
    ("K_F205", App "K" [Id "KT_FN"; dec 214]); ("K_F206", App "K" [Id "KT_FN"; dec 215]);
    ("K_F207", App "K" [Id "KT_FN"; dec 216]); ("K_F208", App "K" [Id "KT_FN"; dec 217]);
    ("K_F209", App "K" [Id "KT_FN"; dec 218]); ("K_F210", App "K" [Id "KT_FN"; dec 219]);
    ("K_F211", App "K" [Id "KT_FN"; dec 220]); ("K_F212", App "K" [Id "KT_FN"; dec 221]);
    ("K_F213", App "K" [Id "KT_FN"; dec 222]); ("K_F214", App "K" [Id "KT_FN"; dec 223]);
    ("K_F215", App "K" [Id "KT_FN"; dec 224]); ("K_F216", App "K" [Id "KT_FN"; dec 225]);
    ("K_F217", App "K" [Id "KT_FN"; dec 226]); ("K_F218", App "K" [Id "KT_FN"; dec 227]);
    ("K_F219", App "K" [Id "KT_FN"; dec 228]); ("K_F220", App "K" [Id "KT_FN"; dec 229]);
    ("K_F221", App "K" [Id "KT_FN"; dec 230]); ("K_F222", App "K" [Id "KT_FN"; dec 231]);
    ("K_F223", App "K" [Id "KT_FN"; dec 232]); ("K_F224", App "K" [Id "KT_FN"; dec 233]);
    ("K_F225", App "K" [Id "KT_FN"; dec 234]); ("K_F226", App "K" [Id "KT_FN"; dec 235]);
    ("K_F227", App "K" [Id "KT_FN"; dec 236]); ("K_F228", App "K" [Id "KT_FN"; dec 237]);
    ("K_F229", App "K" [Id "KT_FN"; dec 238]); ("K_F230", App "K" [Id "KT_FN"; dec 239]);
    ("K_F231", App "K" [Id "KT_FN"; dec 240]); ("K_F232", App "K" [Id "KT_FN"; dec 241]);
    ("K_F233", App "K" [Id "KT_FN"; dec 242]); ("K_F234", App "K" [Id "KT_FN"; dec 243]);
    ("K_F235", App "K" [Id "KT_FN"; dec 244]); ("K_F236", App "K" [Id "KT_FN"; dec 245]);
    ("K_F237", App "K" [Id "KT_FN"; dec 246]); ("K_F238", App "K" [Id "KT_FN"; dec 247]);
    ("K_F239", App "K" [Id "KT_FN"; dec 248]); ("K_F240", App "K" [Id "KT_FN"; dec 249]);
    ("K_F241", App "K" [Id "KT_FN"; dec 250]); ("K_F242", App "K" [Id "KT_FN"; dec 251]);
    ("K_F243", App "K" [Id "KT_FN"; dec 252]); ("K_F244", App "K" [Id "KT_FN"; dec 253]);
    ("K_F245", App "K" [Id "KT_FN"; dec 254]); ("K_UNDO", App "K" [Id "KT_FN"; dec 255]);
    ("K_HOLE", App "K" [Id "KT_SPEC"; dec 0]); ("K_ENTER", App "K" [Id "KT_SPEC"; dec 1]);
    ("K_SH_REGS", App "K" [Id "KT_SPEC"; dec 2]); ("K_SH_MEM", App "K" [Id "KT_SPEC"; dec 3]);
    ("K_SH_STAT", App "K" [Id "KT_SPEC"; dec 4]); ("K_BREAK", App "K" [Id "KT_SPEC"; dec 5]);
    ("K_CONS", App "K" [Id "KT_SPEC"; dec 6]); ("K_CAPS", App "K" [Id "KT_SPEC"; dec 7]);
    ("K_NUM", App "K" [Id "KT_SPEC"; dec 8]); ("K_HOLD", App "K" [Id "KT_SPEC"; dec 9]);
    ("K_SCROLLFORW", App "K" [Id "KT_SPEC"; dec 10]);
    ("K_SCROLLBACK", App "K" [Id "KT_SPEC"; dec 11]); ("K_BOOT", App "K" [Id "KT_SPEC"; dec 12]);
    ("K_CAPSON", App "K" [Id "KT_SPEC"; dec 13]); ("K_COMPOSE", App "K" [Id "KT_SPEC"; dec 14]);
    ("K_SAK", App "K" [Id "KT_SPEC"; dec 15]); ("K_DECRCONSOLE", App "K" [Id "KT_SPEC"; dec 16]);
    ("K_INCRCONSOLE", App "K" [Id "KT_SPEC"; dec 17]);
    ("K_SPAWNCONSOLE", App "K" [Id "KT_SPEC"; dec 18]);
    ("K_BARENUMLOCK", App "K" [Id "KT_SPEC"; dec 19]);
    ("K_ALLOCATED", App "K" [Id "KT_SPEC"; dec 126]);
    ("K_NOSUCHMAP", App "K" [Id "KT_SPEC"; dec 127]); ("K_P0", App "K" [Id "KT_PAD"; dec 0]);
    ("K_P1", App "K" [Id "KT_PAD"; dec 1]); ("K_P2", App "K" [Id "KT_PAD"; dec 2]);
    ("K_P3", App "K" [Id "KT_PAD"; dec 3]); ("K_P4", App "K" [Id "KT_PAD"; dec 4]);
    ("K_P5", App "K" [Id "KT_PAD"; dec 5]); ("K_P6", App "K" [Id "KT_PAD"; dec 6]);
    ("K_P7", App "K" [Id "KT_PAD"; dec 7]); ("K_P8", App "K" [Id "KT_PAD"; dec 8]);
    ("K_P9", App "K" [Id "KT_PAD"; dec 9]); ("K_PPLUS", App "K" [Id "KT_PAD"; dec 10]);
    ("K_PMINUS", App "K" [Id "KT_PAD"; dec 11]); ("K_PSTAR", App "K" [Id "KT_PAD"; dec 12]);
    ("K_PSLASH", App "K" [Id "KT_PAD"; dec 13]); ("K_PENTER", App "K" [Id "KT_PAD"; dec 14]);
    ("K_PCOMMA", App "K" [Id "KT_PAD"; dec 15]); ("K_PDOT", App "K" [Id "KT_PAD"; dec 16]);
    ("K_PPLUSMINUS", App "K" [Id "KT_PAD"; dec 17])]].
Definition defs_K_PPARENL : list decl := [
  Defines [
    ("K_PPARENL", App "K" [Id "KT_PAD"; dec 18]); ("K_PPARENR", App "K" [Id "KT_PAD"; dec 19]);
    ("NR_PAD", dec 20); ("K_DGRAVE", App "K" [Id "KT_DEAD"; dec 0]);
    ("K_DACUTE", App "K" [Id "KT_DEAD"; dec 1]); ("K_DCIRCM", App "K" [Id "KT_DEAD"; dec 2]);
    ("K_DTILDE", App "K" [Id "KT_DEAD"; dec 3]); ("K_DDIERE", App "K" [Id "KT_DEAD"; dec 4]);
    ("K_DCEDIL", App "K" [Id "KT_DEAD"; dec 5]); ("NR_DEAD", dec 6);
    ("K_DOWN", App "K" [Id "KT_CUR"; dec 0]); ("K_LEFT", App "K" [Id "KT_CUR"; dec 1]);
    ("K_RIGHT", App "K" [Id "KT_CUR"; dec 2]); ("K_UP", App "K" [Id "KT_CUR"; dec 3]);
    ("K_SHIFT", App "K" [Id "KT_SHIFT"; Id "KG_SHIFT"]);
    ("K_CTRL", App "K" [Id "KT_SHIFT"; Id "KG_CTRL"]);
    ("K_ALT", App "K" [Id "KT_SHIFT"; Id "KG_ALT"]);
    ("K_ALTGR", App "K" [Id "KT_SHIFT"; Id "KG_ALTGR"]);
    ("K_SHIFTL", App "K" [Id "KT_SHIFT"; Id "KG_SHIFTL"]);
    ("K_SHIFTR", App "K" [Id "KT_SHIFT"; Id "KG_SHIFTR"]);
    ("K_CTRLL", App "K" [Id "KT_SHIFT"; Id "KG_CTRLL"]);
    ("K_CTRLR", App "K" [Id "KT_SHIFT"; Id "KG_CTRLR"]);
    ("K_CAPSSHIFT", App "K" [Id "KT_SHIFT"; Id "KG_CAPSSHIFT"]);
    ("K_ASC0", App "K" [Id "KT_ASCII"; dec 0]); ("K_ASC1", App "K" [Id "KT_ASCII"; dec 1]);
    ("K_ASC2", App "K" [Id "KT_ASCII"; dec 2]); ("K_ASC3", App "K" [Id "KT_ASCII"; dec 3]);
    ("K_ASC4", App "K" [Id "KT_ASCII"; dec 4]); ("K_ASC5", App "K" [Id "KT_ASCII"; dec 5]);
    ("K_ASC6", App "K" [Id "KT_ASCII"; dec 6]); ("K_ASC7", App "K" [Id "KT_ASCII"; dec 7]);
    ("K_ASC8", App "K" [Id "KT_ASCII"; dec 8]); ("K_ASC9", App "K" [Id "KT_ASCII"; dec 9]);
    ("K_HEX0", App "K" [Id "KT_ASCII"; dec 10]); ("K_HEX1", App "K" [Id "KT_ASCII"; dec 11]);
    ("K_HEX2", App "K" [Id "KT_ASCII"; dec 12]); ("K_HEX3", App "K" [Id "KT_ASCII"; dec 13]);
    ("K_HEX4", App "K" [Id "KT_ASCII"; dec 14]); ("K_HEX5", App "K" [Id "KT_ASCII"; dec 15]);
    ("K_HEX6", App "K" [Id "KT_ASCII"; dec 16]); ("K_HEX7", App "K" [Id "KT_ASCII"; dec 17]);
    ("K_HEX8", App "K" [Id "KT_ASCII"; dec 18]); ("K_HEX9", App "K" [Id "KT_ASCII"; dec 19]);
    ("K_HEXa", App "K" [Id "KT_ASCII"; dec 20]); ("K_HEXb", App "K" [Id "KT_ASCII"; dec 21]);
    ("K_HEXc", App "K" [Id "KT_ASCII"; dec 22]); ("K_HEXd", App "K" [Id "KT_ASCII"; dec 23]);
    ("K_HEXe", App "K" [Id "KT_ASCII"; dec 24]); ("K_HEXf", App "K" [Id "KT_ASCII"; dec 25]);
    ("NR_ASCII", dec 26); ("K_SHIFTLOCK", App "K" [Id "KT_LOCK"; Id "KG_SHIFT"]);
    ("K_CTRLLOCK", App "K" [Id "KT_LOCK"; Id "KG_CTRL"]);
    ("K_ALTLOCK", App "K" [Id "KT_LOCK"; Id "KG_ALT"]);
    ("K_ALTGRLOCK", App "K" [Id "KT_LOCK"; Id "KG_ALTGR"]);
    ("K_SHIFTLLOCK", App "K" [Id "KT_LOCK"; Id "KG_SHIFTL"]);
    ("K_SHIFTRLOCK", App "K" [Id "KT_LOCK"; Id "KG_SHIFTR"]);
    ("K_CTRLLLOCK", App "K" [Id "KT_LOCK"; Id "KG_CTRLL"]);
    ("K_CTRLRLOCK", App "K" [Id "KT_LOCK"; Id "KG_CTRLR"]);
    ("K_CAPSSHIFTLOCK", App "K" [Id "KT_LOCK"; Id "KG_CAPSSHIFT"]);
    ("K_SHIFT_SLOCK", App "K" [Id "KT_SLOCK"; Id "KG_SHIFT"]);
    ("K_CTRL_SLOCK", App "K" [Id "KT_SLOCK"; Id "KG_CTRL"]);
    ("K_ALT_SLOCK", App "K" [Id "KT_SLOCK"; Id "KG_ALT"]);
    ("K_ALTGR_SLOCK", App "K" [Id "KT_SLOCK"; Id "KG_ALTGR"]);
    ("K_SHIFTL_SLOCK", App "K" [Id "KT_SLOCK"; Id "KG_SHIFTL"]);
    ("K_SHIFTR_SLOCK", App "K" [Id "KT_SLOCK"; Id "KG_SHIFTR"]);
    ("K_CTRLL_SLOCK", App "K" [Id "KT_SLOCK"; Id "KG_CTRLL"]);
    ("K_CTRLR_SLOCK", App "K" [Id "KT_SLOCK"; Id "KG_CTRLR"]);
    ("K_CAPSSHIFT_SLOCK", App "K" [Id "KT_SLOCK"; Id "KG_CAPSSHIFT"]); ("NR_LOCK", dec 9);
    ("K_BRL_BLANK", App "K" [Id "KT_BRL"; dec 0]); ("K_BRL_DOT1", App "K" [Id "KT_BRL"; dec 1]);
    ("K_BRL_DOT2", App "K" [Id "KT_BRL"; dec 2]); ("K_BRL_DOT3", App "K" [Id "KT_BRL"; dec 3]);
    ("K_BRL_DOT4", App "K" [Id "KT_BRL"; dec 4]); ("K_BRL_DOT5", App "K" [Id "KT_BRL"; dec 5]);
    ("K_BRL_DOT6", App "K" [Id "KT_BRL"; dec 6]); ("K_BRL_DOT7", App "K" [Id "KT_BRL"; dec 7]);
    ("K_BRL_DOT8", App "K" [Id "KT_BRL"; dec 8]); ("K_BRL_DOT9", App "K" [Id "KT_BRL"; dec 9]);
    ("K_BRL_DOT10", App "K" [Id "KT_BRL"; dec 10]); ("NR_BRL", dec 11); ("MAX_DIACR", dec 256)]].
Definition header : header :=
  Header "linux/keyboard.h" [] (concat [
    defs_KG_SHIFT; defs_K_F1; defs_K_F141; defs_K_PPARENL]).
End Keyboard.

(** ** [linux/keyctl.h] *)

Module Keyctl.
Definition defs_KEY_SPEC_THREAD_KEYRING : list decl := [
  Defines [
    ("KEY_SPEC_THREAD_KEYRING", Neg (dec 1)); ("KEY_SPEC_PROCESS_KEYRING", Neg (dec 2));
    ("KEY_SPEC_SESSION_KEYRING", Neg (dec 3)); ("KEY_SPEC_USER_KEYRING", Neg (dec 4));
    ("KEY_SPEC_USER_SESSION_KEYRING", Neg (dec 5)); ("KEY_SPEC_GROUP_KEYRING", Neg (dec 6));
    ("KEY_SPEC_REQKEY_AUTH_KEY", Neg (dec 7)); ("KEY_SPEC_REQUESTOR_KEYRING", Neg (dec 8));
    ("KEY_REQKEY_DEFL_NO_CHANGE", Neg (dec 1)); ("KEY_REQKEY_DEFL_DEFAULT", dec 0);
    ("KEY_REQKEY_DEFL_THREAD_KEYRING", dec 1); ("KEY_REQKEY_DEFL_PROCESS_KEYRING", dec 2);
    ("KEY_REQKEY_DEFL_SESSION_KEYRING", dec 3); ("KEY_REQKEY_DEFL_USER_KEYRING", dec 4);
    ("KEY_REQKEY_DEFL_USER_SESSION_KEYRING", dec 5); ("KEY_REQKEY_DEFL_GROUP_KEYRING", dec 6);
    ("KEY_REQKEY_DEFL_REQUESTOR_KEYRING", dec 7); ("KEYCTL_GET_KEYRING_ID", dec 0);
    ("KEYCTL_JOIN_SESSION_KEYRING", dec 1); ("KEYCTL_UPDATE", dec 2); ("KEYCTL_REVOKE", dec 3);
    ("KEYCTL_CHOWN", dec 4); ("KEYCTL_SETPERM", dec 5); ("KEYCTL_DESCRIBE", dec 6);
    ("KEYCTL_CLEAR", dec 7); ("KEYCTL_LINK", dec 8); ("KEYCTL_UNLINK", dec 9);
    ("KEYCTL_SEARCH", dec 10); ("KEYCTL_READ", dec 11); ("KEYCTL_INSTANTIATE", dec 12);
    ("KEYCTL_NEGATE", dec 13); ("KEYCTL_SET_REQKEY_KEYRING", dec 14);
    ("KEYCTL_SET_TIMEOUT", dec 15); ("KEYCTL_ASSUME_AUTHORITY", dec 16);
    ("KEYCTL_GET_SECURITY", dec 17); ("KEYCTL_SESSION_TO_PARENT", dec 18);
    ("KEYCTL_REJECT", dec 19); ("KEYCTL_INSTANTIATE_IOV", dec 20); ("KEYCTL_INVALIDATE", dec 21);
    ("KEYCTL_GET_PERSISTENT", dec 22)]].
Definition header : header :=
  Header "linux/keyctl.h" [] (concat [
    defs_KEY_SPEC_THREAD_KEYRING]).
End Keyctl.

(** ** [linux/loop.h] *)

Module Loop.
Definition enum_LO_FLAGS_READ_ONLY : list decl := [
  Enum [
    ("LO_FLAGS_READ_ONLY", Some (dec 1)); ("LO_FLAGS_AUTOCLEAR", Some (dec 4));
    ("LO_FLAGS_PARTSCAN", Some (dec 8)); ("LO_FLAGS_DIRECT_IO", Some (dec 16))]].
Definition defs_LO_CRYPT_NONE : list decl := [
  Defines [
    ("LO_CRYPT_NONE", dec 0); ("LO_CRYPT_XOR", dec 1); ("LO_CRYPT_DES", dec 2);
    ("LO_CRYPT_FISH2", dec 3); ("LO_CRYPT_BLOW", dec 4); ("LO_CRYPT_CAST128", dec 5);
    ("LO_CRYPT_IDEA", dec 6); ("LO_CRYPT_DUMMY", dec 9); ("LO_CRYPT_SKIPJACK", dec 10);
    ("LO_CRYPT_CRYPTOAPI", dec 18); ("MAX_LO_CRYPT", dec 20)];
  Defines [
    ("LOOP_SET_FD", hex 0x4C00); ("LOOP_CLR_FD", hex 0x4C01); ("LOOP_SET_STATUS", hex 0x4C02);
    ("LOOP_GET_STATUS", hex 0x4C03); ("LOOP_SET_STATUS64", hex 0x4C04);
    ("LOOP_GET_STATUS64", hex 0x4C05); ("LOOP_CHANGE_FD", hex 0x4C06);
    ("LOOP_SET_CAPACITY", hex 0x4C07); ("LOOP_SET_DIRECT_IO", hex 0x4C08);
    ("LOOP_SET_BLOCK_SIZE", hex 0x4C09); ("LOOP_CTL_ADD", hex 0x4C80);
    ("LOOP_CTL_REMOVE", hex 0x4C81); ("LOOP_CTL_GET_FREE", hex 0x4C82)]].
Definition header : header :=
  Header "linux/loop.h" [] (concat [
    enum_LO_FLAGS_READ_ONLY; defs_LO_CRYPT_NONE]).
End Loop.

(** ** [linux/lp.h] *)

Module Lp.
Definition defs_LP_EXIST : list decl := [
  Defines [
    ("LP_EXIST", hex 0x0001); ("LP_SELEC", hex 0x0002); ("LP_BUSY", hex 0x0004);
    ("LP_BUSY_BIT_POS", dec 2); ("LP_OFFL", hex 0x0008); ("LP_NOPA", hex 0x0010);
    ("LP_ERR", hex 0x0020); ("LP_ABORT", hex 0x0040); ("LP_CAREFUL", hex 0x0080);
    ("LP_ABORTOPEN", hex 0x0100); ("LP_TRUST_IRQ_", hex 0x0200); ("LP_NO_REVERSE", hex 0x0400);
    ("LP_DATA_AVAIL", hex 0x0800)];
  Defines [
    ("LP_PBUSY", hex 0x80); ("LP_PACK", hex 0x40); ("LP_POUTPA", hex 0x20);
    ("LP_PSELECD", hex 0x10); ("LP_PERRORP", hex 0x08)]].
Definition defs_LP_INIT_TIME : list decl := [
  Defines [
    ("LP_INIT_TIME", dec 2); ("LPCHAR", hex 0x0601); ("LPTIME", hex 0x0602);
    ("LPABORT", hex 0x0604); ("LPSETIRQ", hex 0x0605); ("LPGETIRQ", hex 0x0606);
    ("LPWAIT", hex 0x0608); ("LPCAREFUL", hex 0x0609); ("LPABORTOPEN", hex 0x060a);
    ("LPGETSTATUS", hex 0x060b); ("LPRESET", hex 0x060c)]].
Definition header : header :=
  Header "linux/lp.h" [] (concat [
    defs_LP_EXIST; defs_LP_INIT_TIME]).
End Lp.

(** ** [linux/lwtunnel.h] *)

Module Lwtunnel.
Definition enum_lwtunnel_encap_types : list decl := [
  Enum [
    ("LWTUNNEL_ENCAP_NONE", None); ("LWTUNNEL_ENCAP_MPLS", None); ("LWTUNNEL_ENCAP_IP", None);
    ("LWTUNNEL_ENCAP_ILA", None); ("LWTUNNEL_ENCAP_IP6", None); ("__LWTUNNEL_ENCAP_MAX", None)];
  Defines [
    ("LWTUNNEL_ENCAP_MAX", Sub (Id "__LWTUNNEL_ENCAP_MAX") (dec 1))];
  Enum [
    ("LWTUNNEL_IP_UNSPEC", None); ("LWTUNNEL_IP_ID", None); ("LWTUNNEL_IP_DST", None);
    ("LWTUNNEL_IP_SRC", None); ("LWTUNNEL_IP_TTL", None); ("LWTUNNEL_IP_TOS", None);
    ("LWTUNNEL_IP_FLAGS", None); ("__LWTUNNEL_IP_MAX", None)];
  Defines [
    ("LWTUNNEL_IP_MAX", Sub (Id "__LWTUNNEL_IP_MAX") (dec 1))];
  Enum [
    ("LWTUNNEL_IP6_UNSPEC", None); ("LWTUNNEL_IP6_ID", None); ("LWTUNNEL_IP6_DST", None);
    ("LWTUNNEL_IP6_SRC", None); ("LWTUNNEL_IP6_HOPLIMIT", None); ("LWTUNNEL_IP6_TC", None);
    ("LWTUNNEL_IP6_FLAGS", None); ("__LWTUNNEL_IP6_MAX", None)];
  Defines [
    ("LWTUNNEL_IP6_MAX", Sub (Id "__LWTUNNEL_IP6_MAX") (dec 1))]].
Definition header : header :=
  Header "linux/lwtunnel.h" [] (concat [
    enum_lwtunnel_encap_types]).
End Lwtunnel.

(** ** [linux/major.h] *)

Module Major.
Definition defs_UNNAMED_MAJOR : list decl := [
  Defines [
    ("UNNAMED_MAJOR", dec 0); ("MEM_MAJOR", dec 1); ("RAMDISK_MAJOR", dec 1);
    ("FLOPPY_MAJOR", dec 2); ("PTY_MASTER_MAJOR", dec 2); ("IDE0_MAJOR", dec 3);
    ("HD_MAJOR", Id "IDE0_MAJOR"); ("PTY_SLAVE_MAJOR", dec 3); ("TTY_MAJOR", dec 4);
    ("TTYAUX_MAJOR", dec 5); ("LP_MAJOR", dec 6); ("VCS_MAJOR", dec 7); ("LOOP_MAJOR", dec 7);
    ("SCSI_DISK0_MAJOR", dec 8); ("SCSI_TAPE_MAJOR", dec 9); ("MD_MAJOR", dec 9);
    ("MISC_MAJOR", dec 10); ("SCSI_CDROM_MAJOR", dec 11); ("MUX_MAJOR", dec 11);
    ("XT_DISK_MAJOR", dec 13); ("INPUT_MAJOR", dec 13); ("SOUND_MAJOR", dec 14);
    ("CDU31A_CDROM_MAJOR", dec 15); ("JOYSTICK_MAJOR", dec 15); ("GOLDSTAR_CDROM_MAJOR", dec 16);
    ("OPTICS_CDROM_MAJOR", dec 17); ("SANYO_CDROM_MAJOR", dec 18); ("CYCLADES_MAJOR", dec 19);
    ("CYCLADESAUX_MAJOR", dec 20); ("MITSUMI_X_CDROM_MAJOR", dec 20);
    ("MFM_ACORN_MAJOR", dec 21); ("SCSI_GENERIC_MAJOR", dec 21); ("IDE1_MAJOR", dec 22);
    ("DIGICU_MAJOR", dec 22); ("DIGI_MAJOR", dec 23); ("MITSUMI_CDROM_MAJOR", dec 23);
    ("CDU535_CDROM_MAJOR", dec 24); ("STL_SERIALMAJOR", dec 24);
    ("MATSUSHITA_CDROM_MAJOR", dec 25); ("STL_CALLOUTMAJOR", dec 25);
    ("MATSUSHITA_CDROM2_MAJOR", dec 26); ("QIC117_TAPE_MAJOR", dec 27);
    ("MATSUSHITA_CDROM3_MAJOR", dec 27); ("MATSUSHITA_CDROM4_MAJOR", dec 28);
    ("STL_SIOMEMMAJOR", dec 28); ("ACSI_MAJOR", dec 28); ("AZTECH_CDROM_MAJOR", dec 29);
    ("FB_MAJOR", dec 29); ("MTD_BLOCK_MAJOR", dec 31); ("CM206_CDROM_MAJOR", dec 32);
    ("IDE2_MAJOR", dec 33); ("IDE3_MAJOR", dec 34); ("Z8530_MAJOR", dec 34);
    ("XPRAM_MAJOR", dec 35); ("NETLINK_MAJOR", dec 36); ("PS2ESDI_MAJOR", dec 36);
    ("IDETAPE_MAJOR", dec 37); ("Z2RAM_MAJOR", dec 37); ("APBLOCK_MAJOR", dec 38);
    ("DDV_MAJOR", dec 39); ("NBD_MAJOR", dec 43); ("RISCOM8_NORMAL_MAJOR", dec 48);
    ("DAC960_MAJOR", dec 48); ("RISCOM8_CALLOUT_MAJOR", dec 49); ("MKISS_MAJOR", dec 55);
    ("DSP56K_MAJOR", dec 55); ("IDE4_MAJOR", dec 56); ("IDE5_MAJOR", dec 57);
    ("SCSI_DISK1_MAJOR", dec 65); ("SCSI_DISK2_MAJOR", dec 66); ("SCSI_DISK3_MAJOR", dec 67);
    ("SCSI_DISK4_MAJOR", dec 68); ("SCSI_DISK5_MAJOR", dec 69); ("SCSI_DISK6_MAJOR", dec 70);
    ("SCSI_DISK7_MAJOR", dec 71); ("COMPAQ_SMART2_MAJOR", dec 72);
    ("COMPAQ_SMART2_MAJOR1", dec 73); ("COMPAQ_SMART2_MAJOR2", dec 74);
    ("COMPAQ_SMART2_MAJOR3", dec 75); ("COMPAQ_SMART2_MAJOR4", dec 76);
    ("COMPAQ_SMART2_MAJOR5", dec 77); ("COMPAQ_SMART2_MAJOR6", dec 78);
    ("COMPAQ_SMART2_MAJOR7", dec 79); ("SPECIALIX_NORMAL_MAJOR", dec 75);
    ("SPECIALIX_CALLOUT_MAJOR", dec 76); ("AURORA_MAJOR", dec 79); ("I2O_MAJOR", dec 80);
    ("SHMIQ_MAJOR", dec 85); ("SCSI_CHANGER_MAJOR", dec 86); ("IDE6_MAJOR", dec 88);
    ("IDE7_MAJOR", dec 89); ("IDE8_MAJOR", dec 90); ("MTD_CHAR_MAJOR", dec 90);
    ("IDE9_MAJOR", dec 91); ("DASD_MAJOR", dec 94); ("MDISK_MAJOR", dec 95);
    ("UBD_MAJOR", dec 98); ("PP_MAJOR", dec 99); ("JSFD_MAJOR", dec 99);
    ("PHONE_MAJOR", dec 100); ("COMPAQ_CISS_MAJOR", dec 104); ("COMPAQ_CISS_MAJOR1", dec 105);
    ("COMPAQ_CISS_MAJOR2", dec 106); ("COMPAQ_CISS_MAJOR3", dec 107);
    ("COMPAQ_CISS_MAJOR4", dec 108); ("COMPAQ_CISS_MAJOR5", dec 109);
    ("COMPAQ_CISS_MAJOR6", dec 110); ("COMPAQ_CISS_MAJOR7", dec 111); ("VIODASD_MAJOR", dec 112);
    ("VIOCD_MAJOR", dec 113); ("ATARAID_MAJOR", dec 114); ("SCSI_DISK8_MAJOR", dec 128);
    ("SCSI_DISK9_MAJOR", dec 129); ("SCSI_DISK10_MAJOR", dec 130);
    ("SCSI_DISK11_MAJOR", dec 131); ("SCSI_DISK12_MAJOR", dec 132);
    ("SCSI_DISK13_MAJOR", dec 133); ("SCSI_DISK14_MAJOR", dec 134);
    ("SCSI_DISK15_MAJOR", dec 135); ("UNIX98_PTY_MASTER_MAJOR", dec 128);
    ("UNIX98_PTY_MAJOR_COUNT", dec 8);
    ("UNIX98_PTY_SLAVE_MAJOR", Add (Id "UNIX98_PTY_MASTER_MAJOR") (Id "UNIX98_PTY_MAJOR_COUNT"));
    ("DRBD_MAJOR", dec 147); ("RTF_MAJOR", dec 150); ("RAW_MAJOR", dec 162);
    ("USB_ACM_MAJOR", dec 166); ("USB_ACM_AUX_MAJOR", dec 167); ("USB_CHAR_MAJOR", dec 180);
    ("MMC_BLOCK_MAJOR", dec 179)]].
Definition defs_VXVM_MAJOR : list decl := [
  Defines [
    ("VXVM_MAJOR", dec 199); ("VXSPEC_MAJOR", dec 200); ("VXDMP_MAJOR", dec 201);
    ("XENVBD_MAJOR", dec 202); ("MSR_MAJOR", dec 202); ("CPUID_MAJOR", dec 203);
    ("OSST_MAJOR", dec 206); ("IBM_TTY3270_MAJOR", dec 227); ("IBM_FS3270_MAJOR", dec 228);
    ("VIOTAPE_MAJOR", dec 230); ("BLOCK_EXT_MAJOR", dec 259); ("SCSI_OSD_MAJOR", dec 260)]].
Definition header : header :=
  Header "linux/major.h" [] (concat [
    defs_UNNAMED_MAJOR; defs_VXVM_MAJOR]).
End Major.

(** ** [linux/map_to_7segment.h] *)

Module Map_to_7segment.
Definition defs_BIT_SEG7_A : list decl := [
  Defines [
    ("BIT_SEG7_A", dec 0); ("BIT_SEG7_B", dec 1); ("BIT_SEG7_C", dec 2); ("BIT_SEG7_D", dec 3);
    ("BIT_SEG7_E", dec 4); ("BIT_SEG7_F", dec 5); ("BIT_SEG7_G", dec 6);
    ("BIT_SEG7_RESERVED", dec 7)]].
Definition header : header :=
  Header "linux/map_to_7segment.h" [] (concat [
    defs_BIT_SEG7_A]).
End Map_to_7segment.

(** ** [linux/maxim_sti.h] *)

Module Maxim_sti.
Definition enum_MC_DRIVER : list decl := [
  Enum [
    ("MC_DRIVER", None); ("MC_FUSION", None); ("MC_EVENT_BROADCAST", None); ("MC_GROUPS", None)]].
Definition enum_DR_STATE_BASIC : list decl := [
  Enum [
    ("DR_STATE_BASIC", None); ("DR_STATE_ACTIVE", None); ("DR_STATE_SUSPEND", None);
    ("DR_STATE_RESUME", None); ("DR_STATE_FAULT", None)];
  Enum [
    ("DR_INPUT_FINGER", None); ("DR_INPUT_STYLUS", None); ("DR_INPUT_ERASER", None)]].
Definition enum_DR_ADD_MC_GROUP : list decl := [
  Enum [
    ("DR_ADD_MC_GROUP", None); ("DR_ECHO_REQUEST", None); ("DR_CHIP_READ", None);
    ("DR_CHIP_WRITE", None); ("DR_CHIP_RESET", None); ("DR_GET_IRQLINE", None);
    ("DR_DELAY", None); ("DR_CHIP_ACCESS_METHOD", None); ("DR_CONFIG_IRQ", None);
    ("DR_CONFIG_INPUT", None); ("DR_CONFIG_WATCHDOG", None); ("DR_DECONFIG", None);
    ("DR_INPUT", None); ("DR_RESUME_ACK", None); ("DR_LEGACY_FWDL", None);
    ("DR_LEGACY_ACCELERATION", None); ("DR_HANDSHAKE", None); ("DR_CONFIG_FW", None);
    ("DR_IDLE", None); ("DR_SYSFS_ACK", None); ("DR_TF_STATUS", None)]].
Definition defs_DR_SYSFS_UPDATE_NONE : list decl := [
  Defines [
    ("DR_SYSFS_UPDATE_NONE", hex 0x0000); ("DR_SYSFS_UPDATE_BIT_GLOVE", dec 0);
    ("DR_SYSFS_UPDATE_BIT_CHARGER", dec 1); ("DR_SYSFS_UPDATE_BIT_LCD_FPS", dec 2);
    ("DR_SYSFS_ACK_GLOVE", hex 0x5A5A5A5A); ("DR_SYSFS_ACK_CHARGER", hex 0xA5A5A5A5);
    ("DR_SYSFS_ACK_LCD_FPS", hex 0xC3C3C3C3)];
  Enum [
    ("DR_NO_CHARGER", None); ("DR_WIRED_CHARGER", None); ("DR_WIRELESS_CHARGER", None)]].
Definition enum_FU_ECHO_RESPONSE : list decl := [
  Enum [
    ("FU_ECHO_RESPONSE", None); ("FU_CHIP_READ_RESULT", None); ("FU_IRQLINE_STATUS", None);
    ("FU_ASYNC_DATA", None); ("FU_RESUME", None); ("FU_HANDSHAKE_RESPONSE", None);
    ("FU_SYSFS_INFO", None)]].
Definition header : header :=
  Header "linux/maxim_sti.h" [] (concat [
    enum_MC_DRIVER; enum_DR_STATE_BASIC; enum_DR_ADD_MC_GROUP; defs_DR_SYSFS_UPDATE_NONE;
    enum_FU_ECHO_RESPONSE]).
End Maxim_sti.

(** ** [linux/mhi.h] *)

Module Mhi.
Definition enum_peripheral_ep_type : list decl := [
  Enum [
    ("DATA_EP_TYPE_RESERVED", None); ("DATA_EP_TYPE_HSIC", None); ("DATA_EP_TYPE_HSUSB", None);
    ("DATA_EP_TYPE_PCIE", None); ("DATA_EP_TYPE_EMBEDDED", None); ("DATA_EP_TYPE_BAM_DMUX", None)]].
Definition header : header :=
  Header "linux/mhi.h" [] (concat [
    enum_peripheral_ep_type]).
End Mhi.

(** ** [linux/mic_common.h] *)

Module Mic_common.
Definition enum_mic_states : list decl := [
  Enum [
    ("MIC_READY", Some (dec 0)); ("MIC_BOOTING", None); ("MIC_ONLINE", None);
    ("MIC_SHUTTING_DOWN", None); ("MIC_RESETTING", None); ("MIC_RESET_FAILED", None);
    ("MIC_LAST", None)];
  Enum [
    ("MIC_NOP", Some (dec 0)); ("MIC_CRASHED", None); ("MIC_HALTED", None);
    ("MIC_POWER_OFF", None); ("MIC_RESTART", None); ("MIC_STATUS_LAST", None)]].
Definition header : header :=
  Header "linux/mic_common.h" [] (concat [
    enum_mic_states]).
End Mic_common.

(** ** [linux/mman.h] *)

Module Mman.
Definition defs_MREMAP_MAYMOVE : list decl := [
  Defines [
    ("MREMAP_MAYMOVE", dec 1); ("MREMAP_FIXED", dec 2); ("OVERCOMMIT_GUESS", dec 0);
    ("OVERCOMMIT_ALWAYS", dec 1); ("OVERCOMMIT_NEVER", dec 2)]].
Definition header : header :=
  Header "linux/mman.h" [] (concat [
    defs_MREMAP_MAYMOVE]).
End Mman.

(** ** [linux/mpls.h] *)

Module Mpls.
Definition defs_MPLS_LS_LABEL_MASK : list decl := [
  Defines [
    ("MPLS_LS_LABEL_MASK", hex 0xFFFFF000); ("MPLS_LS_LABEL_SHIFT", dec 12);
    ("MPLS_LS_TC_MASK", hex 0x00000E00); ("MPLS_LS_TC_SHIFT", dec 9);
    ("MPLS_LS_S_MASK", hex 0x00000100); ("MPLS_LS_S_SHIFT", dec 8);
    ("MPLS_LS_TTL_MASK", hex 0x000000FF); ("MPLS_LS_TTL_SHIFT", dec 0);
    ("MPLS_LABEL_IPV4NULL", dec 0); ("MPLS_LABEL_RTALERT", dec 1);
    ("MPLS_LABEL_IPV6NULL", dec 2); ("MPLS_LABEL_IMPLNULL", dec 3);
    ("MPLS_LABEL_ENTROPY", dec 7); ("MPLS_LABEL_GAL", dec 13); ("MPLS_LABEL_OAMALERT", dec 14);
    ("MPLS_LABEL_EXTENSION", dec 15); ("MPLS_LABEL_FIRST_UNRESERVED", dec 16)]].
Definition header : header :=
  Header "linux/mpls.h" [] (concat [
    defs_MPLS_LS_LABEL_MASK]).
End Mpls.

(** ** [linux/mpls_iptunnel.h] *)

Module Mpls_iptunnel.
Definition enum_MPLS_IPTUNNEL_UNSPEC : list decl := [
  Enum [
    ("MPLS_IPTUNNEL_UNSPEC", None); ("MPLS_IPTUNNEL_DST", None); ("__MPLS_IPTUNNEL_MAX", None)];
  Defines [
    ("MPLS_IPTUNNEL_MAX", Sub (Id "__MPLS_IPTUNNEL_MAX") (dec 1))]].
Definition header : header :=
  Header "linux/mpls_iptunnel.h" [] (concat [
    enum_MPLS_IPTUNNEL_UNSPEC]).
End Mpls_iptunnel.

(** ** [linux/mqueue.h] *)

Module Mqueue.
Definition defs_NOTIFY_NONE : list decl := [
  Defines [
    ("NOTIFY_NONE", dec 0); ("NOTIFY_WOKENUP", dec 1); ("NOTIFY_REMOVED", dec 2);
    ("NOTIFY_COOKIE_LEN", dec 32)]].
Definition header : header :=
  Header "linux/mqueue.h" [] (concat [
    defs_NOTIFY_NONE]).
End Mqueue.

(** ** [linux/msg.h] *)

Module Msg.
Definition defs_MSG_STAT : list decl := [
  Defines [
    ("MSG_STAT", dec 11); ("MSG_INFO", dec 12); ("MSG_NOERROR", oct 4096);
    ("MSG_EXCEPT", oct 8192); ("MSG_COPY", oct 16384)]].
Definition defs_MSGMNI : list decl := [
  Defines [
    ("MSGMNI", dec 32000); ("MSGMAX", dec 8192); ("MSGMNB", dec 16384);
    ("MSGPOOL", Div (Mul (Id "MSGMNI") (Id "MSGMNB")) (dec 1024)); ("MSGTQL", Id "MSGMNB");
    ("MSGMAP", Id "MSGMNB"); ("MSGSSZ", dec 16);
    ("__MSGSEG", Div (Mul (Id "MSGPOOL") (dec 1024)) (Id "MSGSSZ"))]].
Definition header : header :=
  Header "linux/msg.h" [] (concat [
    defs_MSG_STAT; defs_MSGMNI]).
End Msg.

(** ** [linux/msm_pft.h] *)

Module Msm_pft.
Definition enum_pft_command_opcode : list decl := [
  Enum [
    ("PFT_CMD_OPCODE_SET_STATE", None); ("PFT_CMD_OPCODE_UPDATE_REG_APP_UID", None);
    ("PFT_CMD_OPCODE_PERFORM_IN_PLACE_FILE_ENC", None);
    ("PFT_CMD_OPCODE_MAX_COMMAND_INDEX", None)];
  Enum [
    ("PFT_STATE_DEACTIVATED", None); ("PFT_STATE_DEACTIVATING", None);
    ("PFT_STATE_KEY_REMOVED", None); ("PFT_STATE_REMOVING_KEY", None);
    ("PFT_STATE_KEY_LOADED", None); ("PFT_STATE_MAX_INDEX", None)];
  Enum [
    ("PFT_CMD_RESP_SUCCESS", None); ("PFT_CMD_RESP_GENERAL_ERROR", None);
    ("PFT_CMD_RESP_INVALID_COMMAND", None); ("PFT_CMD_RESP_INVALID_CMD_PARAMS", None);
    ("PFT_CMD_RESP_INVALID_STATE", None); ("PFT_CMD_RESP_ALREADY_IN_STATE", None);
    ("PFT_CMD_RESP_INPLACE_FILE_IS_OPEN", None);
    ("PFT_CMD_RESP_ENT_FILES_CLOSING_FAILURE", None); ("PFT_CMD_RESP_MAX_INDEX", None)]].
Definition header : header :=
  Header "linux/msm_pft.h" [] (concat [
    enum_pft_command_opcode]).
End Msm_pft.

(** ** [linux/msm_rmnet.h] *)

Module Msm_rmnet.
Definition defs_RMNET_MODE_NONE : list decl := [
  Defines [
    ("RMNET_MODE_NONE", hex 0x00); ("RMNET_MODE_LLP_ETH", hex 0x01);
    ("RMNET_MODE_LLP_IP", hex 0x02); ("RMNET_MODE_QOS", hex 0x04);
    ("RMNET_MODE_MASK", Or (Or (Id "RMNET_MODE_LLP_ETH") (Id "RMNET_MODE_LLP_IP")) (Id "RMNET_MODE_QOS"))]].
Definition enum_rmnet_ioctl_cmds_e : list decl := [
  Enum [
    ("RMNET_IOCTL_SET_LLP_ETHERNET", Some (hex 0x000089F1));
    ("RMNET_IOCTL_SET_LLP_IP", Some (hex 0x000089F2));
    ("RMNET_IOCTL_GET_LLP", Some (hex 0x000089F3));
    ("RMNET_IOCTL_SET_QOS_ENABLE", Some (hex 0x000089F4));
    ("RMNET_IOCTL_SET_QOS_DISABLE", Some (hex 0x000089F5));
    ("RMNET_IOCTL_GET_QOS", Some (hex 0x000089F6));
    ("RMNET_IOCTL_GET_OPMODE", Some (hex 0x000089F7));
    ("RMNET_IOCTL_OPEN", Some (hex 0x000089F8)); ("RMNET_IOCTL_CLOSE", Some (hex 0x000089F9));
    ("RMNET_IOCTL_FLOW_ENABLE", Some (hex 0x000089FA));
    ("RMNET_IOCTL_FLOW_DISABLE", Some (hex 0x000089FB));
    ("RMNET_IOCTL_FLOW_SET_HNDL", Some (hex 0x000089FC));
    ("RMNET_IOCTL_EXTENDED", Some (hex 0x000089FD)); ("RMNET_IOCTL_MAX", None)];
  Enum [
    ("RMNET_IOCTL_GET_SUPPORTED_FEATURES", Some (hex 0x0000));
    ("RMNET_IOCTL_SET_MRU", Some (hex 0x0001)); ("RMNET_IOCTL_GET_MRU", Some (hex 0x0002));
    ("RMNET_IOCTL_GET_EPID", Some (hex 0x0003));
    ("RMNET_IOCTL_GET_DRIVER_NAME", Some (hex 0x0004));
    ("RMNET_IOCTL_ADD_MUX_CHANNEL", Some (hex 0x0005));
    ("RMNET_IOCTL_SET_EGRESS_DATA_FORMAT", Some (hex 0x0006));
    ("RMNET_IOCTL_SET_INGRESS_DATA_FORMAT", Some (hex 0x0007));
    ("RMNET_IOCTL_SET_AGGREGATION_COUNT", Some (hex 0x0008));
    ("RMNET_IOCTL_GET_AGGREGATION_COUNT", Some (hex 0x0009));
    ("RMNET_IOCTL_SET_AGGREGATION_SIZE", Some (hex 0x000A));
    ("RMNET_IOCTL_GET_AGGREGATION_SIZE", Some (hex 0x000B));
    ("RMNET_IOCTL_FLOW_CONTROL", Some (hex 0x000C));
    ("RMNET_IOCTL_GET_DFLT_CONTROL_CHANNEL", Some (hex 0x000D));
    ("RMNET_IOCTL_GET_HWSW_MAP", Some (hex 0x000E));
    ("RMNET_IOCTL_SET_RX_HEADROOM", Some (hex 0x000F));
    ("RMNET_IOCTL_GET_EP_PAIR", Some (hex 0x0010));
    ("RMNET_IOCTL_SET_QOS_VERSION", Some (hex 0x0011));
    ("RMNET_IOCTL_GET_QOS_VERSION", Some (hex 0x0012));
    ("RMNET_IOCTL_GET_SUPPORTED_QOS_MODES", Some (hex 0x0013));
    ("RMNET_IOCTL_SET_SLEEP_STATE", Some (hex 0x0014));
    ("RMNET_IOCTL_SET_XLAT_DEV_INFO", Some (hex 0x0015));
    ("RMNET_IOCTL_DEREGISTER_DEV", Some (hex 0x0016));
    ("RMNET_IOCTL_GET_SG_SUPPORT", Some (hex 0x0017));
    ("RMNET_IOCTL_EXTENDED_MAX", Some (hex 0x0018))];
  Defines [
    ("RMNET_IOCTL_FEAT_NOTIFY_MUX_CHANNEL", Shl (dec 1) (dec 0));
    ("RMNET_IOCTL_FEAT_SET_EGRESS_DATA_FORMAT", Shl (dec 1) (dec 1));
    ("RMNET_IOCTL_FEAT_SET_INGRESS_DATA_FORMAT", Shl (dec 1) (dec 2));
    ("RMNET_IOCTL_FEAT_SET_AGGREGATION_COUNT", Shl (dec 1) (dec 3));
    ("RMNET_IOCTL_FEAT_GET_AGGREGATION_COUNT", Shl (dec 1) (dec 4));
    ("RMNET_IOCTL_FEAT_SET_AGGREGATION_SIZE", Shl (dec 1) (dec 5));
    ("RMNET_IOCTL_FEAT_GET_AGGREGATION_SIZE", Shl (dec 1) (dec 6));
    ("RMNET_IOCTL_FEAT_FLOW_CONTROL", Shl (dec 1) (dec 7));
    ("RMNET_IOCTL_FEAT_GET_DFLT_CONTROL_CHANNEL", Shl (dec 1) (dec 8));
    ("RMNET_IOCTL_FEAT_GET_HWSW_MAP", Shl (dec 1) (dec 9));
    ("RMNET_IOCTL_EGRESS_FORMAT_MAP", Shl (dec 1) (dec 1));
    ("RMNET_IOCTL_EGRESS_FORMAT_AGGREGATION", Shl (dec 1) (dec 2));
    ("RMNET_IOCTL_EGRESS_FORMAT_MUXING", Shl (dec 1) (dec 3));
    ("RMNET_IOCTL_EGRESS_FORMAT_CHECKSUM", Shl (dec 1) (dec 4));
    ("RMNET_IOCTL_INGRESS_FORMAT_MAP", Shl (dec 1) (dec 1));
    ("RMNET_IOCTL_INGRESS_FORMAT_DEAGGREGATION", Shl (dec 1) (dec 2));
    ("RMNET_IOCTL_INGRESS_FORMAT_DEMUXING", Shl (dec 1) (dec 3));
    ("RMNET_IOCTL_INGRESS_FORMAT_CHECKSUM", Shl (dec 1) (dec 4));
    ("RMNET_IOCTL_INGRESS_FORMAT_AGG_DATA", Shl (dec 1) (dec 5))]].
Definition header : header :=
  Header "linux/msm_rmnet.h" [] (concat [
    defs_RMNET_MODE_NONE; enum_rmnet_ioctl_cmds_e]).
End Msm_rmnet.

(** ** [linux/n_r3964.h] *)

Module N_r3964.
Definition defs_R3964_ENABLE_SIGNALS : list decl := [
  Defines [
    ("R3964_ENABLE_SIGNALS", hex 0x5301); ("R3964_SETPRIORITY", hex 0x5302);
    ("R3964_USE_BCC", hex 0x5303); ("R3964_READ_TELEGRAM", hex 0x5304); ("R3964_MASTER", dec 0);
    ("R3964_SLAVE", dec 1); ("R3964_SIG_ACK", hex 0x0001); ("R3964_SIG_DATA", hex 0x0002);
    ("R3964_SIG_ALL", hex 0x000f); ("R3964_SIG_NONE", hex 0x0000);
    ("R3964_USE_SIGIO", hex 0x1000)]].
Definition defs_R3964_MAX_MSG_COUNT : list decl := [
  Defines [
    ("R3964_MAX_MSG_COUNT", dec 32); ("R3964_OK", dec 0); ("R3964_TX_FAIL", Neg (dec 1));
    ("R3964_OVERFLOW", Neg (dec 2))]].
Definition header : header :=
  Header "linux/n_r3964.h" [] (concat [
    defs_R3964_ENABLE_SIGNALS; defs_R3964_MAX_MSG_COUNT]).
End N_r3964.

(** ** [linux/ncp.h] *)

Module Ncp.
Definition defs_NCP_PTYPE : list decl := [
  Defines [
    ("NCP_PTYPE", hex 0x11); ("NCP_PORT", hex 0x0451); ("NCP_ALLOC_SLOT_REQUEST", hex 0x1111);
    ("NCP_REQUEST", hex 0x2222); ("NCP_DEALLOC_SLOT_REQUEST", hex 0x5555)]].
Definition defs_NCP_FILE_ID_LEN : list decl := [
  Defines [
    ("NCP_FILE_ID_LEN", dec 6); ("NW_NS_DOS", dec 0); ("NW_NS_MAC", dec 1); ("NW_NS_NFS", dec 2);
    ("NW_NS_FTAM", dec 3); ("NW_NS_OS2", dec 4)]].
Definition defs_NSIBM_NFS_NAME : list decl := [
  Defines [
    ("NSIBM_NFS_NAME", hex 0x0001); ("NSIBM_NFS_MODE", hex 0x0002);
    ("NSIBM_NFS_GID", hex 0x0004); ("NSIBM_NFS_NLINKS", hex 0x0008);
    ("NSIBM_NFS_RDEV", hex 0x0010); ("NSIBM_NFS_LINK", hex 0x0020);
    ("NSIBM_NFS_CREATED", hex 0x0040); ("NSIBM_NFS_UID", hex 0x0080);
    ("NSIBM_NFS_ACSFLAG", hex 0x0100); ("NSIBM_NFS_MYFLAG", hex 0x0200);
    ("OC_MODE_OPEN", hex 0x01); ("OC_MODE_TRUNCATE", hex 0x02); ("OC_MODE_REPLACE", hex 0x02);
    ("OC_MODE_CREATE", hex 0x08); ("OC_ACTION_NONE", hex 0x00); ("OC_ACTION_OPEN", hex 0x01);
    ("OC_ACTION_CREATE", hex 0x02); ("OC_ACTION_TRUNCATE", hex 0x04);
    ("OC_ACTION_REPLACE", hex 0x04)];
  Defines [
    ("AR_READ_ONLY", hex 0x0001); ("AR_WRITE_ONLY", hex 0x0002); ("AR_DENY_READ", hex 0x0004);
    ("AR_DENY_WRITE", hex 0x0008); ("AR_COMPATIBILITY", hex 0x0010);
    ("AR_WRITE_THROUGH", hex 0x0040); ("AR_OPEN_COMPRESSED", hex 0x0100)]].
Definition header : header :=
  Header "linux/ncp.h" [] (concat [
    defs_NCP_PTYPE; defs_NCP_FILE_ID_LEN; defs_NSIBM_NFS_NAME]).
End Ncp.

(** ** [linux/ncp_mount.h] *)

Module Ncp_mount.
Definition defs_NCP_MOUNT_VERSION : list decl := [
  Defines [
    ("NCP_MOUNT_VERSION", dec 3); ("NCP_MOUNT_SOFT", hex 0x0001); ("NCP_MOUNT_INTR", hex 0x0002);
    ("NCP_MOUNT_STRONG", hex 0x0004); ("NCP_MOUNT_NO_OS2", hex 0x0008);
    ("NCP_MOUNT_NO_NFS", hex 0x0010); ("NCP_MOUNT_EXTRAS", hex 0x0020);
    ("NCP_MOUNT_SYMLINKS", hex 0x0040); ("NCP_MOUNT_NFS_EXTRAS", hex 0x0080)]].
Definition header : header :=
  Header "linux/ncp_mount.h" [] (concat [
    defs_NCP_MOUNT_VERSION]).
End Ncp_mount.

(** ** [linux/net_dropmon.h] *)

Module Net_dropmon.
Definition defs_NET_DM_CFG_VERSION : list decl := [
  Defines [
    ("NET_DM_CFG_VERSION", dec 0); ("NET_DM_CFG_ALERT_COUNT", dec 1);
    ("NET_DM_CFG_ALERT_DELAY", dec 2); ("NET_DM_CFG_MAX", dec 3)]].
Definition enum_NET_DM_CMD_UNSPEC : list decl := [
  Enum [
    ("NET_DM_CMD_UNSPEC", Some (dec 0)); ("NET_DM_CMD_ALERT", None); ("NET_DM_CMD_CONFIG", None);
    ("NET_DM_CMD_START", None); ("NET_DM_CMD_STOP", None); ("_NET_DM_CMD_MAX", None)];
  Defines [
    ("NET_DM_CMD_MAX", Sub (Id "_NET_DM_CMD_MAX") (dec 1))]].
Definition header : header :=
  Header "linux/net_dropmon.h" [] (concat [
    defs_NET_DM_CFG_VERSION; enum_NET_DM_CMD_UNSPEC]).
End Net_dropmon.

(** ** [linux/net_namespace.h] *)

Module Net_namespace.
Definition enum_NETNSA_NONE : list decl := [
  Enum [
    ("NETNSA_NONE", None); ("NETNSA_NSID", None); ("NETNSA_PID", None); ("NETNSA_FD", None);
    ("__NETNSA_MAX", None)];
  Defines [
    ("NETNSA_MAX", Sub (Id "__NETNSA_MAX") (dec 1))]].
Definition header : header :=
  Header "linux/net_namespace.h" [] (concat [
    enum_NETNSA_NONE]).
End Net_namespace.

(** ** [linux/net_tstamp.h] *)

Module Net_tstamp.
Definition enum_SOF_TIMESTAMPING_TX_HARDWARE : list decl := [
  Enum [
    ("SOF_TIMESTAMPING_TX_HARDWARE", Some (Shl (dec 1) (dec 0)));
    ("SOF_TIMESTAMPING_TX_SOFTWARE", Some (Shl (dec 1) (dec 1)));
    ("SOF_TIMESTAMPING_RX_HARDWARE", Some (Shl (dec 1) (dec 2)));
    ("SOF_TIMESTAMPING_RX_SOFTWARE", Some (Shl (dec 1) (dec 3)));
    ("SOF_TIMESTAMPING_SOFTWARE", Some (Shl (dec 1) (dec 4)));
    ("SOF_TIMESTAMPING_SYS_HARDWARE", Some (Shl (dec 1) (dec 5)));
    ("SOF_TIMESTAMPING_RAW_HARDWARE", Some (Shl (dec 1) (dec 6)));
    ("SOF_TIMESTAMPING_OPT_ID", Some (Shl (dec 1) (dec 7)));
    ("SOF_TIMESTAMPING_TX_SCHED", Some (Shl (dec 1) (dec 8)));
    ("SOF_TIMESTAMPING_TX_ACK", Some (Shl (dec 1) (dec 9)));
    ("SOF_TIMESTAMPING_OPT_CMSG", Some (Shl (dec 1) (dec 10)));
    ("SOF_TIMESTAMPING_OPT_TSONLY", Some (Shl (dec 1) (dec 11)));
    ("SOF_TIMESTAMPING_LAST", Some (Id "SOF_TIMESTAMPING_OPT_TSONLY"));
    ("SOF_TIMESTAMPING_MASK", Some (Or (Sub (Id "SOF_TIMESTAMPING_LAST") (dec 1)) (Id "SOF_TIMESTAMPING_LAST")))]].
Definition enum_hwtstamp_tx_types : list decl := [
  Enum [
    ("HWTSTAMP_TX_OFF", None); ("HWTSTAMP_TX_ON", None); ("HWTSTAMP_TX_ONESTEP_SYNC", None)];
  Enum [
    ("HWTSTAMP_FILTER_NONE", None); ("HWTSTAMP_FILTER_ALL", None);
    ("HWTSTAMP_FILTER_SOME", None); ("HWTSTAMP_FILTER_PTP_V1_L4_EVENT", None);
    ("HWTSTAMP_FILTER_PTP_V1_L4_SYNC", None); ("HWTSTAMP_FILTER_PTP_V1_L4_DELAY_REQ", None);
    ("HWTSTAMP_FILTER_PTP_V2_L4_EVENT", None); ("HWTSTAMP_FILTER_PTP_V2_L4_SYNC", None);
    ("HWTSTAMP_FILTER_PTP_V2_L4_DELAY_REQ", None); ("HWTSTAMP_FILTER_PTP_V2_L2_EVENT", None);
    ("HWTSTAMP_FILTER_PTP_V2_L2_SYNC", None); ("HWTSTAMP_FILTER_PTP_V2_L2_DELAY_REQ", None);
    ("HWTSTAMP_FILTER_PTP_V2_EVENT", None); ("HWTSTAMP_FILTER_PTP_V2_SYNC", None);
    ("HWTSTAMP_FILTER_PTP_V2_DELAY_REQ", None)]].
Definition header : header :=
  Header "linux/net_tstamp.h" [] (concat [
    enum_SOF_TIMESTAMPING_TX_HARDWARE; enum_hwtstamp_tx_types]).
End Net_tstamp.

(** ** [linux/netlink_diag.h] *)

Module Netlink_diag.
Definition enum_NETLINK_DIAG_MEMINFO : list decl := [
  Enum [
    ("NETLINK_DIAG_MEMINFO", None); ("NETLINK_DIAG_GROUPS", None);
    ("NETLINK_DIAG_RX_RING", None); ("NETLINK_DIAG_TX_RING", None); ("__NETLINK_DIAG_MAX", None)];
  Defines [
    ("NETLINK_DIAG_MAX", Sub (Id "__NETLINK_DIAG_MAX") (dec 1))]].
Definition header : header :=
  Header "linux/netlink_diag.h" [] (concat [
    enum_NETLINK_DIAG_MEMINFO]).
End Netlink_diag.

(** ** [linux/netrom.h] *)

Module Netrom.
Definition defs_NETROM_MTU : list decl := [
  Defines [
    ("NETROM_MTU", dec 236); ("NETROM_T1", dec 1); ("NETROM_T2", dec 2); ("NETROM_N2", dec 3);
    ("NETROM_T4", dec 6); ("NETROM_IDLE", dec 7);
    ("SIOCNRDECOBS", Add (Id "SIOCPROTOPRIVATE") (dec 2))]].
Definition header : header :=
  Header "linux/netrom.h" [Sockios.header] (concat [
    defs_NETROM_MTU]).
End Netrom.

(** ** [linux/nubus.h] *)

Module Nubus.
Definition enum_nubus_category : list decl := [
  Enum [
    ("NUBUS_CAT_BOARD", Some (hex 0x0001)); ("NUBUS_CAT_DISPLAY", Some (hex 0x0003));
    ("NUBUS_CAT_NETWORK", Some (hex 0x0004)); ("NUBUS_CAT_COMMUNICATIONS", Some (hex 0x0006));
    ("NUBUS_CAT_FONT", Some (hex 0x0009)); ("NUBUS_CAT_CPU", Some (hex 0x000A));
    ("NUBUS_CAT_DUODOCK", Some (hex 0x0020))]].
Definition enum_nubus_type_cpu : list decl := [
  Enum [
    ("NUBUS_TYPE_68020", Some (hex 0x0003)); ("NUBUS_TYPE_68030", Some (hex 0x0004));
    ("NUBUS_TYPE_68040", Some (hex 0x0005))];
  Enum [
    ("NUBUS_DRSW_APPLE", Some (hex 0x0001)); ("NUBUS_DRSW_APPLE_HIRES", Some (hex 0x0013));
    ("NUBUS_DRSW_3COM", Some (hex 0x0000)); ("NUBUS_DRSW_CABLETRON", Some (hex 0x0001));
    ("NUBUS_DRSW_SONIC_LC", Some (hex 0x0001)); ("NUBUS_DRSW_KINETICS", Some (hex 0x0103));
    ("NUBUS_DRSW_ASANTE", Some (hex 0x0104)); ("NUBUS_DRSW_TECHWORKS", Some (hex 0x0109));
    ("NUBUS_DRSW_DAYNA", Some (hex 0x010b)); ("NUBUS_DRSW_FARALLON", Some (hex 0x010c));
    ("NUBUS_DRSW_APPLE_SN", Some (hex 0x010f)); ("NUBUS_DRSW_DAYNA2", Some (hex 0x0115));
    ("NUBUS_DRSW_FOCUS", Some (hex 0x011a)); ("NUBUS_DRSW_ASANTE_CS", Some (hex 0x011d));
    ("NUBUS_DRSW_DAYNA_LC", Some (hex 0x011e)); ("NUBUS_DRSW_NONE", Some (hex 0x0000))];
  Enum [
    ("NUBUS_DRHW_APPLE_TFB", Some (hex 0x0001)); ("NUBUS_DRHW_APPLE_WVC", Some (hex 0x0006));
    ("NUBUS_DRHW_SIGMA_CLRMAX", Some (hex 0x0007)); ("NUBUS_DRHW_APPLE_SE30", Some (hex 0x0009));
    ("NUBUS_DRHW_APPLE_HRVC", Some (hex 0x0013)); ("NUBUS_DRHW_APPLE_PVC", Some (hex 0x0017));
    ("NUBUS_DRHW_APPLE_RBV1", Some (hex 0x0018)); ("NUBUS_DRHW_APPLE_MDC", Some (hex 0x0019));
    ("NUBUS_DRHW_APPLE_SONORA", Some (hex 0x0022)); ("NUBUS_DRHW_APPLE_24AC", Some (hex 0x002b));
    ("NUBUS_DRHW_APPLE_VALKYRIE", Some (hex 0x002e));
    ("NUBUS_DRHW_APPLE_JET", Some (hex 0x0029)); ("NUBUS_DRHW_SMAC_GFX", Some (hex 0x0105));
    ("NUBUS_DRHW_RASTER_CB264", Some (hex 0x013B));
    ("NUBUS_DRHW_MICRON_XCEED", Some (hex 0x0146)); ("NUBUS_DRHW_RDIUS_GSC", Some (hex 0x0153));
    ("NUBUS_DRHW_SMAC_SPEC8", Some (hex 0x017B)); ("NUBUS_DRHW_SMAC_SPEC24", Some (hex 0x017C));
    ("NUBUS_DRHW_RASTER_CB364", Some (hex 0x026F)); ("NUBUS_DRHW_RDIUS_DCGX", Some (hex 0x027C));
    ("NUBUS_DRHW_RDIUS_PC8", Some (hex 0x0291)); ("NUBUS_DRHW_LAPIS_PCS8", Some (hex 0x0292));
    ("NUBUS_DRHW_RASTER_24XLI", Some (hex 0x02A0));
    ("NUBUS_DRHW_RASTER_PBPGT", Some (hex 0x02A5)); ("NUBUS_DRHW_EMACH_FSX", Some (hex 0x02AE));
    ("NUBUS_DRHW_RASTER_24XLTV", Some (hex 0x02B7));
    ("NUBUS_DRHW_SMAC_THUND24", Some (hex 0x02CB));
    ("NUBUS_DRHW_SMAC_THUNDLGHT", Some (hex 0x03D9));
    ("NUBUS_DRHW_RDIUS_PC24XP", Some (hex 0x0406));
    ("NUBUS_DRHW_RDIUS_PC24X", Some (hex 0x040A)); ("NUBUS_DRHW_RDIUS_PC8XJ", Some (hex 0x040B));
    ("NUBUS_DRHW_INTERLAN", Some (hex 0x0100)); ("NUBUS_DRHW_SMC9194", Some (hex 0x0101));
    ("NUBUS_DRHW_KINETICS", Some (hex 0x0106)); ("NUBUS_DRHW_CABLETRON", Some (hex 0x0109));
    ("NUBUS_DRHW_ASANTE_LC", Some (hex 0x010f)); ("NUBUS_DRHW_SONIC", Some (hex 0x0110));
    ("NUBUS_DRHW_TECHWORKS", Some (hex 0x0112));
    ("NUBUS_DRHW_APPLE_SONIC_NB", Some (hex 0x0118));
    ("NUBUS_DRHW_APPLE_SONIC_LC", Some (hex 0x0119)); ("NUBUS_DRHW_FOCUS", Some (hex 0x011c));
    ("NUBUS_DRHW_SONNET", Some (hex 0x011d))];
  Enum [
    ("NUBUS_RESID_TYPE", Some (hex 0x0001)); ("NUBUS_RESID_NAME", Some (hex 0x0002));
    ("NUBUS_RESID_ICON", Some (hex 0x0003)); ("NUBUS_RESID_DRVRDIR", Some (hex 0x0004));
    ("NUBUS_RESID_LOADREC", Some (hex 0x0005)); ("NUBUS_RESID_BOOTREC", Some (hex 0x0006));
    ("NUBUS_RESID_FLAGS", Some (hex 0x0007)); ("NUBUS_RESID_HWDEVID", Some (hex 0x0008));
    ("NUBUS_RESID_MINOR_BASEOS", Some (hex 0x000a));
    ("NUBUS_RESID_MINOR_LENGTH", Some (hex 0x000b));
    ("NUBUS_RESID_MAJOR_BASEOS", Some (hex 0x000c));
    ("NUBUS_RESID_MAJOR_LENGTH", Some (hex 0x000d)); ("NUBUS_RESID_CICN", Some (hex 0x000f));
    ("NUBUS_RESID_ICL8", Some (hex 0x0010)); ("NUBUS_RESID_ICL4", Some (hex 0x0011))]].
Definition enum_nubus_board_res_id : list decl := [
  Enum [
    ("NUBUS_RESID_BOARDID", Some (hex 0x0020)); ("NUBUS_RESID_PRAMINITDATA", Some (hex 0x0021));
    ("NUBUS_RESID_PRIMARYINIT", Some (hex 0x0022));
    ("NUBUS_RESID_TIMEOUTCONST", Some (hex 0x0023));
    ("NUBUS_RESID_VENDORINFO", Some (hex 0x0024)); ("NUBUS_RESID_BOARDFLAGS", Some (hex 0x0025));
    ("NUBUS_RESID_SECONDINIT", Some (hex 0x0026)); ("NUBUS_RESID_VIDNAMES", Some (hex 0x0041));
    ("NUBUS_RESID_VIDMODES", Some (hex 0x007e))];
  Enum [
    ("NUBUS_RESID_VEND_ID", Some (hex 0x0001)); ("NUBUS_RESID_VEND_SERIAL", Some (hex 0x0002));
    ("NUBUS_RESID_VEND_REV", Some (hex 0x0003)); ("NUBUS_RESID_VEND_PART", Some (hex 0x0004));
    ("NUBUS_RESID_VEND_DATE", Some (hex 0x0005))]].
Definition enum_nubus_display_res_id : list decl := [
  Enum [
    ("NUBUS_RESID_GAMMADIR", Some (hex 0x0040)); ("NUBUS_RESID_FIRSTMODE", Some (hex 0x0080));
    ("NUBUS_RESID_SECONDMODE", Some (hex 0x0081)); ("NUBUS_RESID_THIRDMODE", Some (hex 0x0082));
    ("NUBUS_RESID_FOURTHMODE", Some (hex 0x0083)); ("NUBUS_RESID_FIFTHMODE", Some (hex 0x0084));
    ("NUBUS_RESID_SIXTHMODE", Some (hex 0x0085))]].
Definition header : header :=
  Header "linux/nubus.h" [] (concat [
    enum_nubus_category; enum_nubus_type_cpu; enum_nubus_board_res_id; enum_nubus_display_res_id]).
End Nubus.

(** ** [linux/packet_diag.h] *)

Module Packet_diag.
Definition defs_PACKET_SHOW_INFO : list decl := [
  Defines [
    ("PACKET_SHOW_INFO", hex 0x00000001); ("PACKET_SHOW_MCLIST", hex 0x00000002);
    ("PACKET_SHOW_RING_CFG", hex 0x00000004); ("PACKET_SHOW_FANOUT", hex 0x00000008);
    ("PACKET_SHOW_MEMINFO", hex 0x00000010); ("PACKET_SHOW_FILTER", hex 0x00000020)]].
Definition enum_PACKET_DIAG_INFO : list decl := [
  Enum [
    ("PACKET_DIAG_INFO", None); ("PACKET_DIAG_MCLIST", None); ("PACKET_DIAG_RX_RING", None);
    ("PACKET_DIAG_TX_RING", None); ("PACKET_DIAG_FANOUT", None); ("PACKET_DIAG_UID", None);
    ("PACKET_DIAG_MEMINFO", None); ("PACKET_DIAG_FILTER", None); ("__PACKET_DIAG_MAX", None)];
  Defines [
    ("PACKET_DIAG_MAX", Sub (Id "__PACKET_DIAG_MAX") (dec 1))]].
Definition header : header :=
  Header "linux/packet_diag.h" [] (concat [
    defs_PACKET_SHOW_INFO; enum_PACKET_DIAG_INFO]).
End Packet_diag.

(** ** [linux/parport.h] *)

Module Parport.
Definition defs_PARPORT_MAX : list decl := [
  Defines [
    ("PARPORT_MAX", dec 16); ("PARPORT_IRQ_NONE", Neg (dec 1));
    ("PARPORT_DMA_NONE", Neg (dec 1)); ("PARPORT_IRQ_AUTO", Neg (dec 2));
    ("PARPORT_DMA_AUTO", Neg (dec 2)); ("PARPORT_DMA_NOFIFO", Neg (dec 3));
    ("PARPORT_DISABLE", Neg (dec 2)); ("PARPORT_IRQ_PROBEONLY", Neg (dec 3));
    ("PARPORT_IOHI_AUTO", Neg (dec 1)); ("PARPORT_CONTROL_STROBE", hex 0x1);
    ("PARPORT_CONTROL_AUTOFD", hex 0x2); ("PARPORT_CONTROL_INIT", hex 0x4);
    ("PARPORT_CONTROL_SELECT", hex 0x8); ("PARPORT_STATUS_ERROR", hex 0x8);
    ("PARPORT_STATUS_SELECT", hex 0x10); ("PARPORT_STATUS_PAPEROUT", hex 0x20);
    ("PARPORT_STATUS_ACK", hex 0x40); ("PARPORT_STATUS_BUSY", hex 0x80)];
  Enum [
    ("PARPORT_CLASS_LEGACY", Some (dec 0)); ("PARPORT_CLASS_PRINTER", None);
    ("PARPORT_CLASS_MODEM", None); ("PARPORT_CLASS_NET", None); ("PARPORT_CLASS_HDC", None);
    ("PARPORT_CLASS_PCMCIA", None); ("PARPORT_CLASS_MEDIA", None); ("PARPORT_CLASS_FDC", None);
    ("PARPORT_CLASS_PORTS", None); ("PARPORT_CLASS_SCANNER", None);
    ("PARPORT_CLASS_DIGCAM", None); ("PARPORT_CLASS_OTHER", None);
    ("PARPORT_CLASS_UNSPEC", None); ("PARPORT_CLASS_SCSIADAPTER", None)];
  Defines [
    ("PARPORT_MODE_PCSPP", Shl (dec 1) (dec 0)); ("PARPORT_MODE_TRISTATE", Shl (dec 1) (dec 1));
    ("PARPORT_MODE_EPP", Shl (dec 1) (dec 2)); ("PARPORT_MODE_ECP", Shl (dec 1) (dec 3));
    ("PARPORT_MODE_COMPAT", Shl (dec 1) (dec 4)); ("PARPORT_MODE_DMA", Shl (dec 1) (dec 5));
    ("PARPORT_MODE_SAFEININT", Shl (dec 1) (dec 6))];
  Defines [
    ("IEEE1284_MODE_NIBBLE", dec 0); ("IEEE1284_MODE_BYTE", Shl (dec 1) (dec 0));
    ("IEEE1284_MODE_COMPAT", Shl (dec 1) (dec 8)); ("IEEE1284_MODE_BECP", Shl (dec 1) (dec 9));
    ("IEEE1284_MODE_ECP", Shl (dec 1) (dec 4));
    ("IEEE1284_MODE_ECPRLE", Or (Id "IEEE1284_MODE_ECP") (Shl (dec 1) (dec 5)));
    ("IEEE1284_MODE_ECPSWE", Shl (dec 1) (dec 10)); ("IEEE1284_MODE_EPP", Shl (dec 1) (dec 6));
    ("IEEE1284_MODE_EPPSL", Shl (dec 1) (dec 11));
    ("IEEE1284_MODE_EPPSWE", Shl (dec 1) (dec 12)); ("IEEE1284_DEVICEID", Shl (dec 1) (dec 2));
    ("IEEE1284_EXT_LINK", Shl (dec 1) (dec 14))];
  Defines [
    ("IEEE1284_ADDR", Shl (dec 1) (dec 13)); ("IEEE1284_DATA", dec 0);
    ("PARPORT_EPP_FAST", Shl (dec 1) (dec 0)); ("PARPORT_W91284PIC", Shl (dec 1) (dec 1))]].
Definition header : header :=
  Header "linux/parport.h" [] (concat [
    defs_PARPORT_MAX]).
End Parport.

(** ** [linux/pg.h] *)

Module Pg.
Definition defs_PG_MAGIC : list decl := [
  Defines [
    ("PG_MAGIC", chr 80); ("PG_RESET", chr 90); ("PG_COMMAND", chr 67);
    ("PG_MAX_DATA", dec 32768)]].
Definition header : header :=
  Header "linux/pg.h" [] (concat [
    defs_PG_MAGIC]).
End Pg.

(** ** [linux/phantom.h] *)

Module Phantom.
Definition defs_PHN_CONTROL : list decl := [
  Defines [
    ("PHN_CONTROL", hex 0x6); ("PHN_CTL_AMP", hex 0x1); ("PHN_CTL_BUT", hex 0x2);
    ("PHN_CTL_IRQ", hex 0x10); ("PHN_ZERO_FORCE", dec 2048)]].
Definition header : header :=
  Header "linux/phantom.h" [] (concat [
    defs_PHN_CONTROL]).
End Phantom.

(** ** [linux/ppdev.h] *)

Module Ppdev.
Definition defs_PP_FASTWRITE : list decl := [
  Defines [
    ("PP_FASTWRITE", Shl (dec 1) (dec 2)); ("PP_FASTREAD", Shl (dec 1) (dec 3));
    ("PP_W91284PIC", Shl (dec 1) (dec 4));
    ("PP_FLAGMASK", Or (Or (Id "PP_FASTWRITE") (Id "PP_FASTREAD")) (Id "PP_W91284PIC"))]].
Definition header : header :=
  Header "linux/ppdev.h" [] (concat [
    defs_PP_FASTWRITE]).
End Ppdev.

(** ** [linux/ppp_defs.h] *)

Module Ppp_defs.
Definition defs_PPP_ALLSTATIONS : list decl := [
  Defines [
    ("PPP_ALLSTATIONS", hex 0xff); ("PPP_UI", hex 0x03); ("PPP_FLAG", hex 0x7e);
    ("PPP_ESCAPE", hex 0x7d); ("PPP_TRANS", hex 0x20)];
  Defines [
    ("PPP_IP", hex 0x21); ("PPP_AT", hex 0x29); ("PPP_IPX", hex 0x2b);
    ("PPP_VJC_COMP", hex 0x2d); ("PPP_VJC_UNCOMP", hex 0x2f); ("PPP_MP", hex 0x3d);
    ("PPP_IPV6", hex 0x57); ("PPP_COMPFRAG", hex 0xfb); ("PPP_COMP", hex 0xfd);
    ("PPP_MPLS_UC", hex 0x0281); ("PPP_MPLS_MC", hex 0x0283); ("PPP_IPCP", hex 0x8021);
    ("PPP_ATCP", hex 0x8029); ("PPP_IPXCP", hex 0x802b); ("PPP_IPV6CP", hex 0x8057);
    ("PPP_CCPFRAG", hex 0x80fb); ("PPP_CCP", hex 0x80fd); ("PPP_MPLSCP", hex 0x80fd);
    ("PPP_LCP", hex 0xc021); ("PPP_PAP", hex 0xc023); ("PPP_LQR", hex 0xc025);
    ("PPP_CHAP", hex 0xc223); ("PPP_CBCP", hex 0xc029)]].
Definition enum_NPmode : list decl := [
  Enum [
    ("NPMODE_PASS", None); ("NPMODE_DROP", None); ("NPMODE_ERROR", None); ("NPMODE_QUEUE", None)]].
Definition header : header :=
  Header "linux/ppp_defs.h" [] (concat [
    defs_PPP_ALLSTATIONS; enum_NPmode]).
End Ppp_defs.

(** ** [linux/pps.h] *)

Module Pps.
Definition defs_PPS_CAPTUREASSERT : list decl := [
  Defines [
    ("PPS_CAPTUREASSERT", hex 0x01); ("PPS_CAPTURECLEAR", hex 0x02);
    ("PPS_CAPTUREBOTH", hex 0x03); ("PPS_OFFSETASSERT", hex 0x10); ("PPS_OFFSETCLEAR", hex 0x20);
    ("PPS_CANWAIT", hex 0x100); ("PPS_CANPOLL", hex 0x200); ("PPS_ECHOASSERT", hex 0x40);
    ("PPS_ECHOCLEAR", hex 0x80); ("PPS_TSFMT_TSPEC", hex 0x1000); ("PPS_TSFMT_NTPFP", hex 0x2000)]].
Definition header : header :=
  Header "linux/pps.h" [] (concat [
    defs_PPS_CAPTUREASSERT]).
End Pps.

(** ** [linux/ptp_clock.h] *)

Module Ptp_clock.
Definition enum_ptp_pin_function : list decl := [
  Enum [
    ("PTP_PF_NONE", None); ("PTP_PF_EXTTS", None); ("PTP_PF_PEROUT", None);
    ("PTP_PF_PHYSYNC", None)]].
Definition header : header :=
  Header "linux/ptp_clock.h" [] (concat [
    enum_ptp_pin_function]).
End Ptp_clock.

(** ** [linux/qbt1000.h] *)

Module Qbt1000.
Definition enum_qbt1000_commands : list decl := [
  Enum [
    ("QBT1000_LOAD_APP", Some (dec 100)); ("QBT1000_UNLOAD_APP", Some (dec 101));
    ("QBT1000_SEND_TZCMD", Some (dec 102)); ("QBT1000_SET_FINGER_DETECT_KEY", Some (dec 103));
    ("QBT1000_CONFIGURE_POWER_KEY", Some (dec 104))];
  Enum [
    ("FW_EVENT_FINGER_DOWN", Some (dec 1)); ("FW_EVENT_FINGER_UP", Some (dec 2));
    ("FW_EVENT_CBGE_REQUIRED", Some (dec 3))]].
Definition header : header :=
  Header "linux/qbt1000.h" [] (concat [
    enum_qbt1000_commands]).
End Qbt1000.

(** ** [linux/qnx4_fs.h] *)

Module Qnx4_fs.
Definition defs_QNX4_ROOT_INO : list decl := [
  Defines [
    ("QNX4_ROOT_INO", dec 1); ("QNX4_MAX_XTNTS_PER_XBLK", dec 60); ("QNX4_FILE_USED", hex 0x01);
    ("QNX4_FILE_MODIFIED", hex 0x02); ("QNX4_FILE_BUSY", hex 0x04); ("QNX4_FILE_LINK", hex 0x08);
    ("QNX4_FILE_INODE", hex 0x10); ("QNX4_FILE_FSYSCLEAN", hex 0x20);
    ("QNX4_I_MAP_SLOTS", dec 8); ("QNX4_Z_MAP_SLOTS", dec 64); ("QNX4_VALID_FS", hex 0x0001);
    ("QNX4_ERROR_FS", hex 0x0002); ("QNX4_BLOCK_SIZE", hex 0x200);
    ("QNX4_BLOCK_SIZE_BITS", dec 9); ("QNX4_DIR_ENTRY_SIZE", hex 0x040);
    ("QNX4_DIR_ENTRY_SIZE_BITS", dec 6); ("QNX4_XBLK_ENTRY_SIZE", hex 0x200);
    ("QNX4_INODES_PER_BLOCK", hex 0x08); ("QNX4_SHORT_NAME_MAX", dec 16);
    ("QNX4_NAME_MAX", dec 48)]].
Definition header : header :=
  Header "linux/qnx4_fs.h" [] (concat [
    defs_QNX4_ROOT_INO]).
End Qnx4_fs.

(** ** [linux/resource.h] *)

Module Resource.
Definition defs_RUSAGE_SELF : list decl := [
  Defines [
    ("RUSAGE_SELF", dec 0); ("RUSAGE_CHILDREN", Neg (dec 1)); ("RUSAGE_BOTH", Neg (dec 2));
    ("RUSAGE_THREAD", dec 1)]].
Definition defs_PRIO_MIN : list decl := [
  Defines [
    ("PRIO_MIN", Neg (dec 20)); ("PRIO_MAX", dec 20); ("PRIO_PROCESS", dec 0);
    ("PRIO_PGRP", dec 1); ("PRIO_USER", dec 2)]].
Definition header : header :=
  Header "linux/resource.h" [] (concat [
    defs_RUSAGE_SELF; defs_PRIO_MIN]).
End Resource.

(** ** [linux/rfkill.h] *)

Module Rfkill.
Definition enum_rfkill_type : list decl := [
  Enum [
    ("RFKILL_TYPE_ALL", Some (dec 0)); ("RFKILL_TYPE_WLAN", None);
    ("RFKILL_TYPE_BLUETOOTH", None); ("RFKILL_TYPE_UWB", None); ("RFKILL_TYPE_WIMAX", None);
    ("RFKILL_TYPE_WWAN", None); ("RFKILL_TYPE_GPS", None); ("RFKILL_TYPE_FM", None);
    ("RFKILL_TYPE_NFC", None); ("NUM_RFKILL_TYPES", None)];
  Enum [
    ("RFKILL_OP_ADD", Some (dec 0)); ("RFKILL_OP_DEL", None); ("RFKILL_OP_CHANGE", None);
    ("RFKILL_OP_CHANGE_ALL", None)]].
Definition header : header :=
  Header "linux/rfkill.h" [] (concat [
    enum_rfkill_type]).
End Rfkill.

(** ** [linux/rmnet.h] *)

Module Rmnet.
Definition defs_RMNET_NETLINK_PROTO : list decl := [
  Defines [
    ("RMNET_NETLINK_PROTO", dec 31); ("RMNET_MAX_STR_LEN", dec 16);
    ("RMNET_NL_DATA_MAX_LEN", dec 64); ("RMNET_NETLINK_MSG_COMMAND", dec 0);
    ("RMNET_NETLINK_MSG_RETURNCODE", dec 1); ("RMNET_NETLINK_MSG_RETURNDATA", dec 2);
    ("RMNET_EGRESS_FORMAT__RESERVED__", Shl (dec 1) (dec 0));
    ("RMNET_EGRESS_FORMAT_MAP", Shl (dec 1) (dec 1));
    ("RMNET_EGRESS_FORMAT_AGGREGATION", Shl (dec 1) (dec 2));
    ("RMNET_EGRESS_FORMAT_MUXING", Shl (dec 1) (dec 3));
    ("RMNET_EGRESS_FORMAT_MAP_CKSUMV3", Shl (dec 1) (dec 4));
    ("RMNET_EGRESS_FORMAT_MAP_CKSUMV4", Shl (dec 1) (dec 5));
    ("RMNET_INGRESS_FIX_ETHERNET", Shl (dec 1) (dec 0));
    ("RMNET_INGRESS_FORMAT_MAP", Shl (dec 1) (dec 1));
    ("RMNET_INGRESS_FORMAT_DEAGGREGATION", Shl (dec 1) (dec 2));
    ("RMNET_INGRESS_FORMAT_DEMUXING", Shl (dec 1) (dec 3));
    ("RMNET_INGRESS_FORMAT_MAP_COMMANDS", Shl (dec 1) (dec 4));
    ("RMNET_INGRESS_FORMAT_MAP_CKSUMV3", Shl (dec 1) (dec 5));
    ("RMNET_INGRESS_FORMAT_MAP_CKSUMV4", Shl (dec 1) (dec 6))]].
Definition defs_RMNET_NETLINK_FREE_VND : list decl := [
  Defines [
    ("RMNET_NETLINK_FREE_VND", dec 13); ("RMNET_EPMODE_NONE", dec 0);
    ("RMNET_EPMODE_VND", dec 1); ("RMNET_EPMODE_BRIDGE", dec 2); ("RMNET_EPMODE_LENGTH", dec 3);
    ("RMNET_CONFIG_OK", dec 0); ("RMNET_CONFIG_UNKNOWN_MESSAGE", dec 1);
    ("RMNET_CONFIG_UNKNOWN_ERROR", dec 2); ("RMNET_CONFIG_NOMEM", dec 3);
    ("RMNET_CONFIG_DEVICE_IN_USE", dec 4); ("RMNET_CONFIG_INVALID_REQUEST", dec 5);
    ("RMNET_CONFIG_NO_SUCH_DEVICE", dec 6); ("RMNET_CONFIG_BAD_ARGUMENTS", dec 7);
    ("RMNET_CONFIG_BAD_EGRESS_DEVICE", dec 8); ("RMNET_CONFIG_TC_HANDLE_FULL", dec 9)]].
Definition header : header :=
  Header "linux/rmnet.h" [] (concat [
    defs_RMNET_NETLINK_PROTO; defs_RMNET_NETLINK_FREE_VND]).
End Rmnet.

(** ** [linux/rmnet_data.h] *)

Module Rmnet_data.
Definition defs_RMNET_LOCAL_LOGICAL_ENDPOINT : list decl := [
  Defines [
    ("RMNET_LOCAL_LOGICAL_ENDPOINT", Neg (dec 1));
    ("RMNET_EGRESS_FORMAT__RESERVED__", Shl (dec 1) (dec 0));
    ("RMNET_EGRESS_FORMAT_MAP", Shl (dec 1) (dec 1));
    ("RMNET_EGRESS_FORMAT_AGGREGATION", Shl (dec 1) (dec 2));
    ("RMNET_EGRESS_FORMAT_MUXING", Shl (dec 1) (dec 3));
    ("RMNET_EGRESS_FORMAT_MAP_CKSUMV3", Shl (dec 1) (dec 4));
    ("RMNET_EGRESS_FORMAT_MAP_CKSUMV4", Shl (dec 1) (dec 5));
    ("RMNET_INGRESS_FIX_ETHERNET", Shl (dec 1) (dec 0));
    ("RMNET_INGRESS_FORMAT_MAP", Shl (dec 1) (dec 1));
    ("RMNET_INGRESS_FORMAT_DEAGGREGATION", Shl (dec 1) (dec 2));
    ("RMNET_INGRESS_FORMAT_DEMUXING", Shl (dec 1) (dec 3));
    ("RMNET_INGRESS_FORMAT_MAP_COMMANDS", Shl (dec 1) (dec 4));
    ("RMNET_INGRESS_FORMAT_MAP_CKSUMV3", Shl (dec 1) (dec 5));
    ("RMNET_INGRESS_FORMAT_MAP_CKSUMV4", Shl (dec 1) (dec 6)); ("RMNET_NETLINK_PROTO", dec 31);
    ("RMNET_MAX_STR_LEN", dec 16); ("RMNET_NL_DATA_MAX_LEN", dec 64);
    ("RMNET_NETLINK_MSG_COMMAND", dec 0); ("RMNET_NETLINK_MSG_RETURNCODE", dec 1);
    ("RMNET_NETLINK_MSG_RETURNDATA", dec 2)]].
Definition enum_rmnet_netlink_message_types_e : list decl := [
  Enum [
    ("RMNET_NETLINK_ASSOCIATE_NETWORK_DEVICE", None);
    ("RMNET_NETLINK_UNASSOCIATE_NETWORK_DEVICE", None);
    ("RMNET_NETLINK_GET_NETWORK_DEVICE_ASSOCIATED", None);
    ("RMNET_NETLINK_SET_LINK_EGRESS_DATA_FORMAT", None);
    ("RMNET_NETLINK_GET_LINK_EGRESS_DATA_FORMAT", None);
    ("RMNET_NETLINK_SET_LINK_INGRESS_DATA_FORMAT", None);
    ("RMNET_NETLINK_GET_LINK_INGRESS_DATA_FORMAT", None);
    ("RMNET_NETLINK_SET_LOGICAL_EP_CONFIG", None);
    ("RMNET_NETLINK_UNSET_LOGICAL_EP_CONFIG", None);
    ("RMNET_NETLINK_GET_LOGICAL_EP_CONFIG", None); ("RMNET_NETLINK_NEW_VND", None);
    ("RMNET_NETLINK_NEW_VND_WITH_PREFIX", None); ("RMNET_NETLINK_GET_VND_NAME", None);
    ("RMNET_NETLINK_FREE_VND", None); ("RMNET_NETLINK_ADD_VND_TC_FLOW", None);
    ("RMNET_NETLINK_DEL_VND_TC_FLOW", None); ("RMNET_NETLINK_NEW_VND_WITH_NAME", None)]].
Definition enum_rmnet_config_endpoint_modes_e : list decl := [
  Enum [
    ("RMNET_EPMODE_NONE", None); ("RMNET_EPMODE_VND", None); ("RMNET_EPMODE_BRIDGE", None);
    ("RMNET_EPMODE_LENGTH", None)];
  Enum [
    ("RMNET_CONFIG_OK", None); ("RMNET_CONFIG_UNKNOWN_MESSAGE", None);
    ("RMNET_CONFIG_UNKNOWN_ERROR", None); ("RMNET_CONFIG_NOMEM", None);
    ("RMNET_CONFIG_DEVICE_IN_USE", None); ("RMNET_CONFIG_INVALID_REQUEST", None);
    ("RMNET_CONFIG_NO_SUCH_DEVICE", None); ("RMNET_CONFIG_BAD_ARGUMENTS", None);
    ("RMNET_CONFIG_BAD_EGRESS_DEVICE", None); ("RMNET_CONFIG_TC_HANDLE_FULL", None)]].
Definition header : header :=
  Header "linux/rmnet_data.h" [] (concat [
    defs_RMNET_LOCAL_LOGICAL_ENDPOINT; enum_rmnet_netlink_message_types_e;
    enum_rmnet_config_endpoint_modes_e]).
End Rmnet_data.

(** ** [linux/romfs_fs.h] *)

Module Romfs_fs.
Definition defs_ROMBSIZE : list decl := [
  Defines [
    ("ROMBSIZE", Id "BLOCK_SIZE"); ("ROMBSBITS", Id "BLOCK_SIZE_BITS");
    ("ROMBMASK", Sub (Id "ROMBSIZE") (dec 1)); ("ROMFS_MAGIC", hex 0x7275);
    ("ROMFS_MAXFN", dec 128)]].
Definition defs_ROMFH_TYPE : list decl := [
  Defines [
    ("ROMFH_TYPE", dec 7); ("ROMFH_HRD", dec 0); ("ROMFH_DIR", dec 1); ("ROMFH_REG", dec 2);
    ("ROMFH_SYM", dec 3); ("ROMFH_BLK", dec 4); ("ROMFH_CHR", dec 5); ("ROMFH_SCK", dec 6);
    ("ROMFH_FIF", dec 7); ("ROMFH_EXEC", dec 8); ("ROMFH_SIZE", dec 16);
    ("ROMFH_PAD", Sub (Id "ROMFH_SIZE") (dec 1)); ("ROMFH_MASK", Not (Id "ROMFH_PAD"))]].
Definition header : header :=
  Header "linux/romfs_fs.h" [Fs.header] (concat [
    defs_ROMBSIZE; defs_ROMFH_TYPE]).
End Romfs_fs.

(** ** [linux/rtc.h] *)

Module Rtc.
Definition defs_RTC_IRQF : list decl := [
  Defines [
    ("RTC_IRQF", hex 0x80); ("RTC_PF", hex 0x40); ("RTC_AF", hex 0x20); ("RTC_UF", hex 0x10);
    ("RTC_MAX_FREQ", dec 8192)]].
Definition header : header :=
  Header "linux/rtc.h" [] (concat [
    defs_RTC_IRQF]).
End Rtc.

(** ** [linux/screen_info.h] *)

Module Screen_info.
Definition defs_VIDEO_TYPE_MDA : list decl := [
  Defines [
    ("VIDEO_TYPE_MDA", hex 0x10); ("VIDEO_TYPE_CGA", hex 0x11); ("VIDEO_TYPE_EGAM", hex 0x20);
    ("VIDEO_TYPE_EGAC", hex 0x21); ("VIDEO_TYPE_VGAC", hex 0x22); ("VIDEO_TYPE_VLFB", hex 0x23);
    ("VIDEO_TYPE_PICA_S3", hex 0x30); ("VIDEO_TYPE_MIPS_G364", hex 0x31);
    ("VIDEO_TYPE_SGI", hex 0x33); ("VIDEO_TYPE_TGAC", hex 0x40); ("VIDEO_TYPE_SUN", hex 0x50);
    ("VIDEO_TYPE_SUNPCI", hex 0x51); ("VIDEO_TYPE_PMAC", hex 0x60); ("VIDEO_TYPE_EFI", hex 0x70);
    ("VIDEO_FLAGS_NOCURSOR", Shl (dec 1) (dec 0));
    ("VIDEO_CAPABILITY_SKIP_QUIRKS", Shl (dec 1) (dec 0));
    ("VIDEO_CAPABILITY_64BIT_BASE", Shl (dec 1) (dec 1))]].
Definition header : header :=
  Header "linux/screen_info.h" [] (concat [
    defs_VIDEO_TYPE_MDA]).
End Screen_info.

(** ** [linux/seemp_api.h] *)

Module Seemp_api.
Definition defs_SEEMP_API_kernel__oom_adjust_write : list decl := [
  Defines [
    ("SEEMP_API_kernel__oom_adjust_write", dec 0); ("SEEMP_API_kernel__sendto", dec 1);
    ("SEEMP_API_kernel__recvfrom", dec 2); ("SEEMP_API_View__onTouchEvent", dec 3);
    ("SEEMP_API_View__onKeyDown", dec 4); ("SEEMP_API_View__onKeyUp", dec 5);
    ("SEEMP_API_View__onTrackBallEvent", dec 6);
    ("SEEMP_API_android_provider_Settings__get_ANDROID_ID_", dec 7);
    ("SEEMP_API_TelephonyManager__getDeviceId", dec 8);
    ("SEEMP_API_TelephonyManager__getLine1Number", dec 9);
    ("SEEMP_API_Telephony__query", dec 10); ("SEEMP_API_CallerInfo__getCallerId", dec 11);
    ("SEEMP_API_CallerInfo__getCallerInfo", dec 12);
    ("SEEMP_API_ContentResolver__query", dec 13);
    ("SEEMP_API_AccountManagerService__getPassword", dec 14);
    ("SEEMP_API_AccountManagerService__getUserData", dec 15);
    ("SEEMP_API_AccountManagerService__addAccount", dec 16);
    ("SEEMP_API_AccountManagerService__removeAccount", dec 17);
    ("SEEMP_API_AccountManagerService__setPassword", dec 18);
    ("SEEMP_API_AccountManagerService__clearPassword", dec 19);
    ("SEEMP_API_AccountManagerService__setUserData", dec 20);
    ("SEEMP_API_AccountManagerService__editProperties", dec 21);
    ("SEEMP_API_AccountManager__getPassword", dec 22);
    ("SEEMP_API_AccountManager__getUserData", dec 23);
    ("SEEMP_API_AccountManager__addAccountExplicitly", dec 24);
    ("SEEMP_API_AccountManager__removeAccount", dec 25);
    ("SEEMP_API_AccountManager__setPassword", dec 26);
    ("SEEMP_API_AccountManager__clearPassword", dec 27);
    ("SEEMP_API_AccountManager__setUserData", dec 28);
    ("SEEMP_API_AccountManager__addAccount", dec 29);
    ("SEEMP_API_AccountManager__editProperties", dec 30);
    ("SEEMP_API_AccountManager__doWork", dec 31); ("SEEMP_API_Browser__getAllBookmarks", dec 32);
    ("SEEMP_API_Browser__getAllVisitedUrls", dec 33);
    ("SEEMP_API_Browser__getVisitedLike", dec 34);
    ("SEEMP_API_Browser__getVisitedHistory", dec 35);
    ("SEEMP_API_Browser__requestAllIcons", dec 36);
    ("SEEMP_API_ContentResolver__insert", dec 37);
    ("SEEMP_API_CalendarContract__insert", dec 38);
    ("SEEMP_API_CalendarContract__alarmExists", dec 39);
    ("SEEMP_API_CalendarContract__findNextAlarmTime", dec 40);
    ("SEEMP_API_CalendarContract__query", dec 41);
    ("SEEMP_API_LocationManager___requestLocationUpdates", dec 42);
    ("SEEMP_API_LocationManager__addGpsStatusListener", dec 43);
    ("SEEMP_API_LocationManager__addNmeaListener", dec 44);
    ("SEEMP_API_LocationManager__addProximityAlert", dec 45);
    ("SEEMP_API_LocationManager__getLastKnownLocation", dec 46);
    ("SEEMP_API_LocationManager__requestLocationUpdates", dec 47);
    ("SEEMP_API_LocationManager__sendExtraCommand", dec 48);
    ("SEEMP_API_TelephonyManager__getCellLocation", dec 49);
    ("SEEMP_API_TelephonyManager__getNeighboringCellInfo", dec 50);
    ("SEEMP_API_GeolocationService__registerForLocationUpdates", dec 51);
    ("SEEMP_API_GeolocationService__setEnableGps", dec 52);
    ("SEEMP_API_GeolocationService__start", dec 53);
    ("SEEMP_API_WebChromeClient__onGeolocationPermissionsShowPrompt", dec 54);
    ("SEEMP_API_WifiManager__getScanResults", dec 55); ("SEEMP_API_adB__enable", dec 56);
    ("SEEMP_API_adB__disable", dec 57); ("SEEMP_API_adB__startDiscovery", dec 58);
    ("SEEMP_API_adB__listenUsingInsecureRfcommWithServiceRecord", dec 59);
    ("SEEMP_API_adB__listenUsingSecureRfcommWithServiceRecord", dec 60);
    ("SEEMP_API_adB__getBondedDevices", dec 61); ("SEEMP_API_adB__getRemoteDevice", dec 62);
    ("SEEMP_API_adB__getState", dec 63); ("SEEMP_API_adB__getProfileConnectionState", dec 64);
    ("SEEMP_API_Camera__takePicture", dec 65); ("SEEMP_API_Camera__setPreviewCallback", dec 66);
    ("SEEMP_API_Camera__setPreviewCallbackWithBuffer", dec 67);
    ("SEEMP_API_Camera__setOneShotPreviewCallback", dec 68);
    ("SEEMP_API_android_media_MediaRecorder__start", dec 69);
    ("SEEMP_API_AudioRecord__startRecording", dec 70); ("SEEMP_API_AudioRecord__start", dec 71);
    ("SEEMP_API_SpeechRecognizer__startListening", dec 72);
    ("SEEMP_API_at_SmsManager__sendDataMessage", dec 73);
    ("SEEMP_API_at_SmsManager__sendMultipartTextMessage", dec 74);
    ("SEEMP_API_at_SmsManager__sendTextMessage", dec 75);
    ("SEEMP_API_at_gsm_SmsManager__sendDataMessage", dec 76);
    ("SEEMP_API_at_gsm_SmsManager__sendMultipartTextMessage", dec 77);
    ("SEEMP_API_at_gsm_SmsManager__sendTextMessage", dec 78);
    ("SEEMP_API_at_SmsManager__copyMessageToIcc", dec 79);
    ("SEEMP_API_at_SmsManager__deleteMessageFromIcc", dec 80);
    ("SEEMP_API_at_SmsManager__updateMessageOnIcc", dec 81);
    ("SEEMP_API_at_gsm_SmsManager__copyMessageToSim", dec 82);
    ("SEEMP_API_at_gsm_SmsManager__deleteMessageFromSim", dec 83);
    ("SEEMP_API_at_gsm_SmsManager__updateMessageOnSim", dec 84);
    ("SEEMP_API_at_gsm_SmsManager__getAllMessagesFromSim", dec 85);
    ("SEEMP_API_ContactsContract__getLookupUri", dec 86);
    ("SEEMP_API_ContactsContract__lookupContact", dec 87);
    ("SEEMP_API_ContactsContract__openContactPhotoInputStream", dec 88);
    ("SEEMP_API_ContactsContract__getContactLookupUri", dec 89);
    ("SEEMP_API_PackageManagerService__installPackage", dec 90);
    ("SEEMP_API_URL__openConnection", dec 91); ("SEEMP_API_URI__URI", dec 92);
    ("SEEMP_API_HttpGet__HttpGet", dec 93); ("SEEMP_API_HttpPut__HttpPut", dec 94);
    ("SEEMP_API_HttpPost__HttpPost", dec 95);
    ("SEEMP_API_apS__get_ACCELEROMETER_ROTATION_", dec 96);
    ("SEEMP_API_apS__get_USER_ROTATION_", dec 97); ("SEEMP_API_apS__get_ADB_ENABLED_", dec 98);
    ("SEEMP_API_apS__get_DEBUG_APP_", dec 99);
    ("SEEMP_API_apS__get_WAIT_FOR_DEBUGGER_", dec 100);
    ("SEEMP_API_apS__get_AIRPLANE_MODE_ON_", dec 101);
    ("SEEMP_API_apS__get_AIRPLANE_MODE_RADIOS_", dec 102);
    ("SEEMP_API_apS__get_ALARM_ALERT_", dec 103);
    ("SEEMP_API_apS__get_NEXT_ALARM_FORMATTED_", dec 104);
    ("SEEMP_API_apS__get_ALWAYS_FINISH_ACTIVITIES_", dec 105);
    ("SEEMP_API_apS__get_LOGGING_ID_", dec 106);
    ("SEEMP_API_apS__get_ANIMATOR_DURATION_SCALE_", dec 107);
    ("SEEMP_API_apS__get_WINDOW_ANIMATION_SCALE_", dec 108);
    ("SEEMP_API_apS__get_FONT_SCALE_", dec 109);
    ("SEEMP_API_apS__get_SCREEN_BRIGHTNESS_", dec 110);
    ("SEEMP_API_apS__get_SCREEN_BRIGHTNESS_MODE_", dec 111);
    ("SEEMP_API_apS__get_SCREEN_BRIGHTNESS_MODE_AUTOMATIC_", dec 112);
    ("SEEMP_API_apS__get_SCREEN_BRIGHTNESS_MODE_MANUAL_", dec 113);
    ("SEEMP_API_apS__get_SCREEN_OFF_TIMEOUT_", dec 114);
    ("SEEMP_API_apS__get_DIM_SCREEN_", dec 115);
    ("SEEMP_API_apS__get_TRANSITION_ANIMATION_SCALE_", dec 116);
    ("SEEMP_API_apS__get_STAY_ON_WHILE_PLUGGED_IN_", dec 117);
    ("SEEMP_API_apS__get_WALLPAPER_ACTIVITY_", dec 118);
    ("SEEMP_API_apS__get_SHOW_PROCESSES_", dec 119);
    ("SEEMP_API_apS__get_SHOW_WEB_SUGGESTIONS_", dec 120);
    ("SEEMP_API_apS__get_SHOW_GTALK_SERVICE_STATUS_", dec 121);
    ("SEEMP_API_apS__get_USE_GOOGLE_MAIL_", dec 122); ("SEEMP_API_apS__get_AUTO_TIME_", dec 123);
    ("SEEMP_API_apS__get_AUTO_TIME_ZONE_", dec 124);
    ("SEEMP_API_apS__get_DATE_FORMAT_", dec 125); ("SEEMP_API_apS__get_TIME_12_24_", dec 126);
    ("SEEMP_API_apS__get_BLUETOOTH_DISCOVERABILITY_", dec 127);
    ("SEEMP_API_apS__get_BLUETOOTH_DISCOVERABILITY_TIMEOUT_", dec 128);
    ("SEEMP_API_apS__get_BLUETOOTH_ON_", dec 129);
    ("SEEMP_API_apS__get_DEVICE_PROVISIONED_", dec 130);
    ("SEEMP_API_apS__get_SETUP_WIZARD_HAS_RUN_", dec 131);
    ("SEEMP_API_apS__get_DTMF_TONE_WHEN_DIALING_", dec 132);
    ("SEEMP_API_apS__get_END_BUTTON_BEHAVIOR_", dec 133);
    ("SEEMP_API_apS__get_RINGTONE_", dec 134); ("SEEMP_API_apS__get_MODE_RINGER_", dec 135);
    ("SEEMP_API_apS__get_INSTALL_NON_MARKET_APPS_", dec 136);
    ("SEEMP_API_apS__get_LOCATION_PROVIDERS_ALLOWED_", dec 137);
    ("SEEMP_API_apS__get_LOCK_PATTERN_ENABLED_", dec 138);
    ("SEEMP_API_apS__get_LOCK_PATTERN_TACTILE_FEEDBACK_ENABLED_", dec 139);
    ("SEEMP_API_apS__get_LOCK_PATTERN_VISIBLE_", dec 140);
    ("SEEMP_API_apS__get_NETWORK_PREFERENCE_", dec 141);
    ("SEEMP_API_apS__get_DATA_ROAMING_", dec 142); ("SEEMP_API_apS__get_HTTP_PROXY_", dec 143);
    ("SEEMP_API_apS__get_PARENTAL_CONTROL_ENABLED_", dec 144);
    ("SEEMP_API_apS__get_PARENTAL_CONTROL_LAST_UPDATE_", dec 145);
    ("SEEMP_API_apS__get_PARENTAL_CONTROL_REDIRECT_URL_", dec 146);
    ("SEEMP_API_apS__get_RADIO_BLUETOOTH_", dec 147);
    ("SEEMP_API_apS__get_RADIO_CELL_", dec 148); ("SEEMP_API_apS__get_RADIO_NFC_", dec 149)]].
Definition defs_SEEMP_API_apS__get_RADIO_WIFI_ : list decl := [
  Defines [
    ("SEEMP_API_apS__get_RADIO_WIFI_", dec 150);
    ("SEEMP_API_apS__get_SYS_PROP_SETTING_VERSION_", dec 151);
    ("SEEMP_API_apS__get_SETTINGS_CLASSNAME_", dec 152);
    ("SEEMP_API_apS__get_TEXT_AUTO_CAPS_", dec 153);
    ("SEEMP_API_apS__get_TEXT_AUTO_PUNCTUATE_", dec 154);
    ("SEEMP_API_apS__get_TEXT_AUTO_REPLACE_", dec 155);
    ("SEEMP_API_apS__get_TEXT_SHOW_PASSWORD_", dec 156);
    ("SEEMP_API_apS__get_USB_MASS_STORAGE_ENABLED_", dec 157);
    ("SEEMP_API_apS__get_VIBRATE_ON_", dec 158);
    ("SEEMP_API_apS__get_HAPTIC_FEEDBACK_ENABLED_", dec 159);
    ("SEEMP_API_apS__get_VOLUME_ALARM_", dec 160);
    ("SEEMP_API_apS__get_VOLUME_BLUETOOTH_SCO_", dec 161);
    ("SEEMP_API_apS__get_VOLUME_MUSIC_", dec 162);
    ("SEEMP_API_apS__get_VOLUME_NOTIFICATION_", dec 163);
    ("SEEMP_API_apS__get_VOLUME_RING_", dec 164); ("SEEMP_API_apS__get_VOLUME_SYSTEM_", dec 165);
    ("SEEMP_API_apS__get_VOLUME_VOICE_", dec 166);
    ("SEEMP_API_apS__get_SOUND_EFFECTS_ENABLED_", dec 167);
    ("SEEMP_API_apS__get_MODE_RINGER_STREAMS_AFFECTED_", dec 168);
    ("SEEMP_API_apS__get_MUTE_STREAMS_AFFECTED_", dec 169);
    ("SEEMP_API_apS__get_NOTIFICATION_SOUND_", dec 170);
    ("SEEMP_API_apS__get_APPEND_FOR_LAST_AUDIBLE_", dec 171);
    ("SEEMP_API_apS__get_WIFI_MAX_DHCP_RETRY_COUNT_", dec 172);
    ("SEEMP_API_apS__get_WIFI_MOBILE_DATA_TRANSITION_WAKELOCK_TIMEOUT_MS_", dec 173);
    ("SEEMP_API_apS__get_WIFI_NETWORKS_AVAILABLE_NOTIFICATION_ON_", dec 174);
    ("SEEMP_API_apS__get_WIFI_NETWORKS_AVAILABLE_REPEAT_DELAY_", dec 175);
    ("SEEMP_API_apS__get_WIFI_NUM_OPEN_NETWORKS_KEPT_", dec 176);
    ("SEEMP_API_apS__get_WIFI_ON_", dec 177); ("SEEMP_API_apS__get_WIFI_SLEEP_POLICY_", dec 178);
    ("SEEMP_API_apS__get_WIFI_SLEEP_POLICY_DEFAULT_", dec 179);
    ("SEEMP_API_apS__get_WIFI_SLEEP_POLICY_NEVER_", dec 180);
    ("SEEMP_API_apS__get_WIFI_SLEEP_POLICY_NEVER_WHILE_PLUGGED_", dec 181);
    ("SEEMP_API_apS__get_WIFI_STATIC_DNS1_", dec 182);
    ("SEEMP_API_apS__get_WIFI_STATIC_DNS2_", dec 183);
    ("SEEMP_API_apS__get_WIFI_STATIC_GATEWAY_", dec 184);
    ("SEEMP_API_apS__get_WIFI_STATIC_IP_", dec 185);
    ("SEEMP_API_apS__get_WIFI_STATIC_NETMASK_", dec 186);
    ("SEEMP_API_apS__get_WIFI_USE_STATIC_IP_", dec 187);
    ("SEEMP_API_apS__get_WIFI_WATCHDOG_ACCEPTABLE_PACKET_LOSS_PERCENTAGE_", dec 188);
    ("SEEMP_API_apS__get_WIFI_WATCHDOG_AP_COUNT_", dec 189);
    ("SEEMP_API_apS__get_WIFI_WATCHDOG_BACKGROUND_CHECK_DELAY_MS_", dec 190);
    ("SEEMP_API_apS__get_WIFI_WATCHDOG_BACKGROUND_CHECK_ENABLED_", dec 191);
    ("SEEMP_API_apS__get_WIFI_WATCHDOG_BACKGROUND_CHECK_TIMEOUT_MS_", dec 192);
    ("SEEMP_API_apS__get_WIFI_WATCHDOG_INITIAL_IGNORED_PING_COUNT_", dec 193);
    ("SEEMP_API_apS__get_WIFI_WATCHDOG_MAX_AP_CHECKS_", dec 194);
    ("SEEMP_API_apS__get_WIFI_WATCHDOG_ON_", dec 195);
    ("SEEMP_API_apS__get_WIFI_WATCHDOG_PING_COUNT_", dec 196);
    ("SEEMP_API_apS__get_WIFI_WATCHDOG_PING_DELAY_MS_", dec 197);
    ("SEEMP_API_apS__get_WIFI_WATCHDOG_PING_TIMEOUT_MS_", dec 198);
    ("SEEMP_API_apS__put_ACCELEROMETER_ROTATION_", dec 199);
    ("SEEMP_API_apS__put_USER_ROTATION_", dec 200); ("SEEMP_API_apS__put_ADB_ENABLED_", dec 201);
    ("SEEMP_API_apS__put_DEBUG_APP_", dec 202);
    ("SEEMP_API_apS__put_WAIT_FOR_DEBUGGER_", dec 203);
    ("SEEMP_API_apS__put_AIRPLANE_MODE_ON_", dec 204);
    ("SEEMP_API_apS__put_AIRPLANE_MODE_RADIOS_", dec 205);
    ("SEEMP_API_apS__put_ALARM_ALERT_", dec 206);
    ("SEEMP_API_apS__put_NEXT_ALARM_FORMATTED_", dec 207);
    ("SEEMP_API_apS__put_ALWAYS_FINISH_ACTIVITIES_", dec 208);
    ("SEEMP_API_apS__put_ANDROID_ID_", dec 209); ("SEEMP_API_apS__put_LOGGING_ID_", dec 210);
    ("SEEMP_API_apS__put_ANIMATOR_DURATION_SCALE_", dec 211);
    ("SEEMP_API_apS__put_WINDOW_ANIMATION_SCALE_", dec 212);
    ("SEEMP_API_apS__put_FONT_SCALE_", dec 213);
    ("SEEMP_API_apS__put_SCREEN_BRIGHTNESS_", dec 214);
    ("SEEMP_API_apS__put_SCREEN_BRIGHTNESS_MODE_", dec 215);
    ("SEEMP_API_apS__put_SCREEN_BRIGHTNESS_MODE_AUTOMATIC_", dec 216);
    ("SEEMP_API_apS__put_SCREEN_BRIGHTNESS_MODE_MANUAL_", dec 217);
    ("SEEMP_API_apS__put_SCREEN_OFF_TIMEOUT_", dec 218);
    ("SEEMP_API_apS__put_DIM_SCREEN_", dec 219);
    ("SEEMP_API_apS__put_TRANSITION_ANIMATION_SCALE_", dec 220);
    ("SEEMP_API_apS__put_STAY_ON_WHILE_PLUGGED_IN_", dec 221);
    ("SEEMP_API_apS__put_WALLPAPER_ACTIVITY_", dec 222);
    ("SEEMP_API_apS__put_SHOW_PROCESSES_", dec 223);
    ("SEEMP_API_apS__put_SHOW_WEB_SUGGESTIONS_", dec 224);
    ("SEEMP_API_apS__put_SHOW_GTALK_SERVICE_STATUS_", dec 225);
    ("SEEMP_API_apS__put_USE_GOOGLE_MAIL_", dec 226); ("SEEMP_API_apS__put_AUTO_TIME_", dec 227);
    ("SEEMP_API_apS__put_AUTO_TIME_ZONE_", dec 228);
    ("SEEMP_API_apS__put_DATE_FORMAT_", dec 229); ("SEEMP_API_apS__put_TIME_12_24_", dec 230);
    ("SEEMP_API_apS__put_BLUETOOTH_DISCOVERABILITY_", dec 231);
    ("SEEMP_API_apS__put_BLUETOOTH_DISCOVERABILITY_TIMEOUT_", dec 232);
    ("SEEMP_API_apS__put_BLUETOOTH_ON_", dec 233);
    ("SEEMP_API_apS__put_DEVICE_PROVISIONED_", dec 234);
    ("SEEMP_API_apS__put_SETUP_WIZARD_HAS_RUN_", dec 235);
    ("SEEMP_API_apS__put_DTMF_TONE_WHEN_DIALING_", dec 236);
    ("SEEMP_API_apS__put_END_BUTTON_BEHAVIOR_", dec 237);
    ("SEEMP_API_apS__put_RINGTONE_", dec 238); ("SEEMP_API_apS__put_MODE_RINGER_", dec 239);
    ("SEEMP_API_apS__put_INSTALL_NON_MARKET_APPS_", dec 240);
    ("SEEMP_API_apS__put_LOCATION_PROVIDERS_ALLOWED_", dec 241);
    ("SEEMP_API_apS__put_LOCK_PATTERN_ENABLED_", dec 242);
    ("SEEMP_API_apS__put_LOCK_PATTERN_TACTILE_FEEDBACK_ENABLED_", dec 243);
    ("SEEMP_API_apS__put_LOCK_PATTERN_VISIBLE_", dec 244);
    ("SEEMP_API_apS__put_NETWORK_PREFERENCE_", dec 245);
    ("SEEMP_API_apS__put_DATA_ROAMING_", dec 246); ("SEEMP_API_apS__put_HTTP_PROXY_", dec 247);
    ("SEEMP_API_apS__put_PARENTAL_CONTROL_ENABLED_", dec 248);
    ("SEEMP_API_apS__put_PARENTAL_CONTROL_LAST_UPDATE_", dec 249);
    ("SEEMP_API_apS__put_PARENTAL_CONTROL_REDIRECT_URL_", dec 250);
    ("SEEMP_API_apS__put_RADIO_BLUETOOTH_", dec 251);
    ("SEEMP_API_apS__put_RADIO_CELL_", dec 252); ("SEEMP_API_apS__put_RADIO_NFC_", dec 253);
    ("SEEMP_API_apS__put_RADIO_WIFI_", dec 254);
    ("SEEMP_API_apS__put_SYS_PROP_SETTING_VERSION_", dec 255);
    ("SEEMP_API_apS__put_SETTINGS_CLASSNAME_", dec 256);
    ("SEEMP_API_apS__put_TEXT_AUTO_CAPS_", dec 257);
    ("SEEMP_API_apS__put_TEXT_AUTO_PUNCTUATE_", dec 258);
    ("SEEMP_API_apS__put_TEXT_AUTO_REPLACE_", dec 259);
    ("SEEMP_API_apS__put_TEXT_SHOW_PASSWORD_", dec 260);
    ("SEEMP_API_apS__put_USB_MASS_STORAGE_ENABLED_", dec 261);
    ("SEEMP_API_apS__put_VIBRATE_ON_", dec 262);
    ("SEEMP_API_apS__put_HAPTIC_FEEDBACK_ENABLED_", dec 263);
    ("SEEMP_API_apS__put_VOLUME_ALARM_", dec 264);
    ("SEEMP_API_apS__put_VOLUME_BLUETOOTH_SCO_", dec 265);
    ("SEEMP_API_apS__put_VOLUME_MUSIC_", dec 266);
    ("SEEMP_API_apS__put_VOLUME_NOTIFICATION_", dec 267);
    ("SEEMP_API_apS__put_VOLUME_RING_", dec 268); ("SEEMP_API_apS__put_VOLUME_SYSTEM_", dec 269);
    ("SEEMP_API_apS__put_VOLUME_VOICE_", dec 270);
    ("SEEMP_API_apS__put_SOUND_EFFECTS_ENABLED_", dec 271);
    ("SEEMP_API_apS__put_MODE_RINGER_STREAMS_AFFECTED_", dec 272);
    ("SEEMP_API_apS__put_MUTE_STREAMS_AFFECTED_", dec 273);
    ("SEEMP_API_apS__put_NOTIFICATION_SOUND_", dec 274);
    ("SEEMP_API_apS__put_APPEND_FOR_LAST_AUDIBLE_", dec 275);
    ("SEEMP_API_apS__put_WIFI_MAX_DHCP_RETRY_COUNT_", dec 276);
    ("SEEMP_API_apS__put_WIFI_MOBILE_DATA_TRANSITION_WAKELOCK_TIMEOUT_MS_", dec 277);
    ("SEEMP_API_apS__put_WIFI_NETWORKS_AVAILABLE_NOTIFICATION_ON_", dec 278);
    ("SEEMP_API_apS__put_WIFI_NETWORKS_AVAILABLE_REPEAT_DELAY_", dec 279);
    ("SEEMP_API_apS__put_WIFI_NUM_OPEN_NETWORKS_KEPT_", dec 280);
    ("SEEMP_API_apS__put_WIFI_ON_", dec 281); ("SEEMP_API_apS__put_WIFI_SLEEP_POLICY_", dec 282);
    ("SEEMP_API_apS__put_WIFI_SLEEP_POLICY_DEFAULT_", dec 283);
    ("SEEMP_API_apS__put_WIFI_SLEEP_POLICY_NEVER_", dec 284);
    ("SEEMP_API_apS__put_WIFI_SLEEP_POLICY_NEVER_WHILE_PLUGGED_", dec 285);
    ("SEEMP_API_apS__put_WIFI_STATIC_DNS1_", dec 286);
    ("SEEMP_API_apS__put_WIFI_STATIC_DNS2_", dec 287);
    ("SEEMP_API_apS__put_WIFI_STATIC_GATEWAY_", dec 288);
    ("SEEMP_API_apS__put_WIFI_STATIC_IP_", dec 289);
    ("SEEMP_API_apS__put_WIFI_STATIC_NETMASK_", dec 290);
    ("SEEMP_API_apS__put_WIFI_USE_STATIC_IP_", dec 291);
    ("SEEMP_API_apS__put_WIFI_WATCHDOG_ACCEPTABLE_PACKET_LOSS_PERCENTAGE_", dec 292);
    ("SEEMP_API_apS__put_WIFI_WATCHDOG_AP_COUNT_", dec 293);
    ("SEEMP_API_apS__put_WIFI_WATCHDOG_BACKGROUND_CHECK_DELAY_MS_", dec 294);
    ("SEEMP_API_apS__put_WIFI_WATCHDOG_BACKGROUND_CHECK_ENABLED_", dec 295);
    ("SEEMP_API_apS__put_WIFI_WATCHDOG_BACKGROUND_CHECK_TIMEOUT_MS_", dec 296);
    ("SEEMP_API_apS__put_WIFI_WATCHDOG_INITIAL_IGNORED_PING_COUNT_", dec 297);
    ("SEEMP_API_apS__put_WIFI_WATCHDOG_MAX_AP_CHECKS_", dec 298);
    ("SEEMP_API_apS__put_WIFI_WATCHDOG_ON_", dec 299)]].
Definition defs_SEEMP_API_apS__put_WIFI_WATCHDOG_PING_COUNT_ : list decl := [
  Defines [
    ("SEEMP_API_apS__put_WIFI_WATCHDOG_PING_COUNT_", dec 300);
    ("SEEMP_API_apS__put_WIFI_WATCHDOG_PING_DELAY_MS_", dec 301);
    ("SEEMP_API_apS__put_WIFI_WATCHDOG_PING_TIMEOUT_MS_", dec 302);
    ("SEEMP_API_Poll__setCumulativeWifiRxMBytes", dec 303);
    ("SEEMP_API_Poll__setInstantaneousWifiRxMBytes", dec 304);
    ("SEEMP_API_Poll__setCumulativeWifiRxPackets", dec 305);
    ("SEEMP_API_Poll__setInstantaneousWifiRxPackets", dec 306);
    ("SEEMP_API_Poll__setCumulativeWifiTxMBytes", dec 307);
    ("SEEMP_API_Poll__setInstantaneousWifiTxMBytes", dec 308);
    ("SEEMP_API_Poll__setCumulativeWifiTxPackets", dec 309);
    ("SEEMP_API_Poll__setInstantaneousWifiTxPackets", dec 310);
    ("SEEMP_API_Poll__setCumulativeWifiRxTcpMBytes", dec 311);
    ("SEEMP_API_Poll__setInstantaneousWifiRxTcpMBytes", dec 312);
    ("SEEMP_API_Poll__setCumulativeWifiRxTcpPackets", dec 313);
    ("SEEMP_API_Poll__setInstantaneousWifiRxTcpPackets", dec 314);
    ("SEEMP_API_Poll__setCumulativeWifiRxUdpMBytes", dec 315);
    ("SEEMP_API_Poll__setInstantaneousWifiRxUdpMBytes", dec 316);
    ("SEEMP_API_Poll__setCumulativeWifiRxUdpPackets", dec 317);
    ("SEEMP_API_Poll__setInstantaneousWifiRxUdpPackets", dec 318);
    ("SEEMP_API_Poll__setCumulativeWifiRxOtherMBytes", dec 319);
    ("SEEMP_API_Poll__setInstantaneousWifiRxOtherMBytes", dec 320);
    ("SEEMP_API_Poll__setCumulativeWifiRxOtherPackets", dec 321);
    ("SEEMP_API_Poll__setInstantaneousWifiRxOtherPackets", dec 322);
    ("SEEMP_API_Poll__setCumulativeWifiTxTcpMBytes", dec 323);
    ("SEEMP_API_Poll__setInstantaneousWifiTxTcpMBytes", dec 324);
    ("SEEMP_API_Poll__setCumulativeWifiTxTcpPackets", dec 325);
    ("SEEMP_API_Poll__setInstantaneousWifiTxTcpPackets", dec 326);
    ("SEEMP_API_Poll__setCumulativeWifiTxUdpMBytes", dec 327);
    ("SEEMP_API_Poll__setInstantaneousWifiTxUdpMBytes", dec 328);
    ("SEEMP_API_Poll__setCumulativeWifiTxUdpPackets", dec 329);
    ("SEEMP_API_Poll__setInstantaneousWifiTxUdpPackets", dec 330);
    ("SEEMP_API_Poll__setCumulativeWifiTxOtherMBytes", dec 331);
    ("SEEMP_API_Poll__setInstantaneousWifiTxOtherMBytes", dec 332);
    ("SEEMP_API_Poll__setCumulativeWifiTxOtherPackets", dec 333);
    ("SEEMP_API_Poll__setInstantaneousWifiTxOtherPackets", dec 334);
    ("SEEMP_API_Poll__setCumulativeMobileRxMBytes", dec 335);
    ("SEEMP_API_Poll__setInstantaneousMobileRxMBytes", dec 336);
    ("SEEMP_API_Poll__setCumulativeMobileRxPackets", dec 337);
    ("SEEMP_API_Poll__setInstantaneousMobileRxPackets", dec 338);
    ("SEEMP_API_Poll__setCumulativeMobileTxMBytes", dec 339);
    ("SEEMP_API_Poll__setInstantaneousMobileTxMBytes", dec 340);
    ("SEEMP_API_Poll__setCumulativeMobileTxPackets", dec 341);
    ("SEEMP_API_Poll__setInstantaneousMobileTxPackets", dec 342);
    ("SEEMP_API_Poll__setCumulativeMobileRxTcpMBytes", dec 343);
    ("SEEMP_API_Poll__setInstantaneousMobileRxTcpMBytes", dec 344);
    ("SEEMP_API_Poll__setCumulativeMobileRxTcpPackets", dec 345);
    ("SEEMP_API_Poll__setInstantaneousMobileRxTcpPackets", dec 346);
    ("SEEMP_API_Poll__setCumulativeMobileRxUdpMBytes", dec 347);
    ("SEEMP_API_Poll__setInstantaneousMobileRxUdpMBytes", dec 348);
    ("SEEMP_API_Poll__setCumulativeMobileRxUdpPackets", dec 349);
    ("SEEMP_API_Poll__setInstantaneousMobileRxUdpPackets", dec 350);
    ("SEEMP_API_Poll__setCumulativeMobileRxOtherMBytes", dec 351);
    ("SEEMP_API_Poll__setInstantaneousMobileRxOtherMBytes", dec 352);
    ("SEEMP_API_Poll__setCumulativeMobileRxOtherPackets", dec 353);
    ("SEEMP_API_Poll__setInstantaneousMobileRxOtherPackets", dec 354);
    ("SEEMP_API_Poll__setCumulativeMobileTxTcpMBytes", dec 355);
    ("SEEMP_API_Poll__setInstantaneousMobileTxTcpMBytes", dec 356);
    ("SEEMP_API_Poll__setCumulativeMobileTxTcpPackets", dec 357);
    ("SEEMP_API_Poll__setInstantaneousMobileTxTcpPackets", dec 358);
    ("SEEMP_API_Poll__setCumulativeMobileTxUdpMBytes", dec 359);
    ("SEEMP_API_Poll__setInstantaneousMobileTxUdpMBytes", dec 360);
    ("SEEMP_API_Poll__setCumulativeMobileTxUdpPackets", dec 361);
    ("SEEMP_API_Poll__setInstantaneousMobileTxUdpPackets", dec 362);
    ("SEEMP_API_Poll__setCumulativeMobileTxOtherMBytes", dec 363);
    ("SEEMP_API_Poll__setInstantaneousMobileTxOtherMBytes", dec 364);
    ("SEEMP_API_Poll__setCumulativeMobileTxOtherPackets", dec 365);
    ("SEEMP_API_Poll__setInstantaneousMobileTxOtherPackets", dec 366);
    ("SEEMP_API_Poll__setNumSockets", dec 367);
    ("SEEMP_API_Poll__setNumTcpStateListen", dec 368);
    ("SEEMP_API_Poll__setNumTcpStateEstablished", dec 369);
    ("SEEMP_API_Poll__setNumLocalIp", dec 370); ("SEEMP_API_Poll__setNumLocalPort", dec 371);
    ("SEEMP_API_Poll__setNumRemoteIp", dec 372); ("SEEMP_API_Poll__setNumRemotePort", dec 373);
    ("SEEMP_API_Poll__setNumRemoteTuple", dec 374); ("SEEMP_API_Poll__setNumInode", dec 375);
    ("SEEMP_API_Instrumentation__startActivitySync", dec 376);
    ("SEEMP_API_Instrumentation__execStartActivity", dec 377);
    ("SEEMP_API_Instrumentation__execStartActivitiesAsUser", dec 378);
    ("SEEMP_API_Instrumentation__execStartActivityAsCaller", dec 379);
    ("SEEMP_API_Instrumentation__execStartActivityFromAppTask", dec 380);
    ("SEEMP_API_ah_SystemSensorManager__registerListenerImpl", dec 381);
    ("SEEMP_API_ah_SystemSensorManager__unregisterListenerImpl", dec 382);
    ("SEEMP_API_WindowManagerImpl__addView", dec 383);
    ("SEEMP_API_WindowManagerImpl__updateViewLayout", dec 384);
    ("SEEMP_API_ActivityManagerService__applyOomAdjLocked", dec 385);
    ("SEEMP_API_ProcessRecord__makeActive", dec 386);
    ("SEEMP_API_ProcessRecord__makeInactive", dec 387);
    ("SEEMP_API_TelephonyManager__getSimSerialNumber", dec 388);
    ("SEEMP_API_TelephonyManager__getSubscriberId", dec 389)]].
Definition header : header :=
  Header "linux/seemp_api.h" [] (concat [
    defs_SEEMP_API_kernel__oom_adjust_write; defs_SEEMP_API_apS__get_RADIO_WIFI_;
    defs_SEEMP_API_apS__put_WIFI_WATCHDOG_PING_COUNT_]).
End Seemp_api.

(** ** [linux/seemp_param_id.h] *)

Module Seemp_param_id.
Definition defs_PARAM_ID_LEN : list decl := [
  Defines [
    ("PARAM_ID_LEN", dec 0); ("PARAM_ID_OOM_ADJ", dec 1); ("PARAM_ID_APP_UID", dec 2);
    ("PARAM_ID_APP_PID", dec 3); ("PARAM_ID_VALUE", dec 4); ("PARAM_ID_SIZE", dec 5);
    ("PARAM_ID_FD", dec 6); ("PARAM_ID_RATE", dec 7); ("PARAM_ID_SENSOR", dec 8);
    ("PARAM_ID_WINDOW_TYPE", dec 9); ("PARAM_ID_WINDOW_FLAG", dec 10); ("NUM_PARAM_IDS", dec 11)]].
Definition header : header :=
  Header "linux/seemp_param_id.h" [] (concat [
    defs_PARAM_ID_LEN]).
End Seemp_param_id.

(** ** [linux/selinux_netlink.h] *)

Module Selinux_netlink.
Definition defs_SELNL_MSG_BASE : list decl := [
  Defines [
    ("SELNL_MSG_BASE", hex 0x10)];
  Enum [
    ("SELNL_MSG_SETENFORCE", Some (Id "SELNL_MSG_BASE")); ("SELNL_MSG_POLICYLOAD", None);
    ("SELNL_MSG_MAX", None)];
  Defines [
    ("SELNL_GRP_NONE", hex 0x00000000); ("SELNL_GRP_AVC", hex 0x00000001);
    ("SELNL_GRP_ALL", hex 0xffffffff)];
  Enum [
    ("SELNLGRP_NONE", None); ("SELNLGRP_AVC", None); ("__SELNLGRP_MAX", None)];
  Defines [
    ("SELNLGRP_MAX", Sub (Id "__SELNLGRP_MAX") (dec 1))]].
Definition header : header :=
  Header "linux/selinux_netlink.h" [] (concat [
    defs_SELNL_MSG_BASE]).
End Selinux_netlink.

(** ** [linux/sem.h] *)

Module Sem.
Definition defs_SEM_UNDO : list decl := [
  Defines [
    ("SEM_UNDO", hex 0x1000); ("GETPID", dec 11); ("GETVAL", dec 12); ("GETALL", dec 13);
    ("GETNCNT", dec 14); ("GETZCNT", dec 15); ("SETVAL", dec 16); ("SETALL", dec 17);
    ("SEM_STAT", dec 18); ("SEM_INFO", dec 19)]].
Definition defs_SEMMNI : list decl := [
  Defines [
    ("SEMMNI", dec 32000); ("SEMMSL", dec 32000); ("SEMMNS", Mul (Id "SEMMNI") (Id "SEMMSL"));
    ("SEMOPM", dec 500); ("SEMVMX", dec 32767); ("SEMAEM", Id "SEMVMX"); ("SEMUME", Id "SEMOPM");
    ("SEMMNU", Id "SEMMNS"); ("SEMMAP", Id "SEMMNS"); ("SEMUSZ", dec 20)]].
Definition header : header :=
  Header "linux/sem.h" [] (concat [
    defs_SEM_UNDO; defs_SEMMNI]).
End Sem.

(** ** [linux/serial.h] *)

Module Serial.
Definition defs_PORT_UNKNOWN : list decl := [
  Defines [
    ("PORT_UNKNOWN", dec 0); ("PORT_8250", dec 1); ("PORT_16450", dec 2); ("PORT_16550", dec 3);
    ("PORT_16550A", dec 4); ("PORT_CIRRUS", dec 5); ("PORT_16650", dec 6);
    ("PORT_16650V2", dec 7); ("PORT_16750", dec 8); ("PORT_STARTECH", dec 9);
    ("PORT_16C950", dec 10); ("PORT_16654", dec 11); ("PORT_16850", dec 12);
    ("PORT_RSA", dec 13); ("PORT_MAX", dec 13); ("SERIAL_IO_PORT", dec 0);
    ("SERIAL_IO_HUB6", dec 1); ("SERIAL_IO_MEM", dec 2); ("SERIAL_IO_MEM32", dec 3);
    ("SERIAL_IO_AU", dec 4); ("SERIAL_IO_TSI", dec 5); ("SERIAL_IO_MEM32BE", dec 6);
    ("UART_CLEAR_FIFO", hex 0x01); ("UART_USE_FIFO", hex 0x02); ("UART_STARTECH", hex 0x04);
    ("UART_NATSEMI", hex 0x08)]].
Definition header : header :=
  Header "linux/serial.h" [] (concat [
    defs_PORT_UNKNOWN]).
End Serial.

(** ** [linux/serial_core.h] *)

Module Serial_core.
Definition defs_PORT_UNKNOWN : list decl := [
  Defines [
    ("PORT_UNKNOWN", dec 0); ("PORT_8250", dec 1); ("PORT_16450", dec 2); ("PORT_16550", dec 3);
    ("PORT_16550A", dec 4); ("PORT_CIRRUS", dec 5); ("PORT_16650", dec 6);
    ("PORT_16650V2", dec 7); ("PORT_16750", dec 8); ("PORT_STARTECH", dec 9);
    ("PORT_16C950", dec 10); ("PORT_16654", dec 11); ("PORT_16850", dec 12);
    ("PORT_RSA", dec 13); ("PORT_NS16550A", dec 14); ("PORT_XSCALE", dec 15);
    ("PORT_RM9000", dec 16); ("PORT_OCTEON", dec 17); ("PORT_AR7", dec 18);
    ("PORT_U6_16550A", dec 19); ("PORT_TEGRA", dec 20); ("PORT_XR17D15X", dec 21);
    ("PORT_LPC3220", dec 22); ("PORT_8250_CIR", dec 23); ("PORT_XR17V35X", dec 24);
    ("PORT_BRCM_TRUMANAGE", dec 25); ("PORT_ALTR_16550_F32", dec 26);
    ("PORT_ALTR_16550_F64", dec 27); ("PORT_ALTR_16550_F128", dec 28); ("PORT_RT2880", dec 29);
    ("PORT_16550A_FSL64", dec 30); ("PORT_MAX_8250", dec 30)]].
Definition defs_PORT_PXA : list decl := [
  Defines [
    ("PORT_PXA", dec 31); ("PORT_AMBA", dec 32); ("PORT_CLPS711X", dec 33);
    ("PORT_SA1100", dec 34); ("PORT_UART00", dec 35); ("PORT_21285", dec 37);
    ("PORT_SUNZILOG", dec 38); ("PORT_SUNSAB", dec 39); ("PORT_DZ", dec 46); ("PORT_ZS", dec 47);
    ("PORT_MUX", dec 48); ("PORT_ATMEL", dec 49); ("PORT_MAC_ZILOG", dec 50);
    ("PORT_PMAC_ZILOG", dec 51); ("PORT_SCI", dec 52); ("PORT_SCIF", dec 53);
    ("PORT_IRDA", dec 54); ("PORT_S3C2410", dec 55); ("PORT_IP22ZILOG", dec 56);
    ("PORT_LH7A40X", dec 57); ("PORT_CPM", dec 58); ("PORT_MPC52xx", dec 59);
    ("PORT_ICOM", dec 60); ("PORT_S3C2440", dec 61); ("PORT_IMX", dec 62); ("PORT_MPSC", dec 63);
    ("PORT_TXX9", dec 64); ("PORT_VR41XX_SIU", dec 65); ("PORT_VR41XX_DSIU", dec 66);
    ("PORT_S3C2400", dec 67); ("PORT_M32R_SIO", dec 68); ("PORT_JSM", dec 69);
    ("PORT_PNX8XXX", dec 70); ("PORT_NETX", dec 71); ("PORT_SUNHV", dec 72);
    ("PORT_S3C2412", dec 73); ("PORT_UARTLITE", dec 74); ("PORT_BFIN", dec 75);
    ("PORT_KS8695", dec 76); ("PORT_SB1250_DUART", dec 77); ("PORT_MCF", dec 78);
    ("PORT_BFIN_SPORT", dec 79); ("PORT_MN10300", dec 80); ("PORT_MN10300_CTS", dec 81);
    ("PORT_SC26XX", dec 82); ("PORT_SCIFA", dec 83); ("PORT_S3C6400", dec 84);
    ("PORT_NWPSERIAL", dec 85); ("PORT_MAX3100", dec 86); ("PORT_TIMBUART", dec 87);
    ("PORT_MSM", dec 88); ("PORT_BCM63XX", dec 89); ("PORT_APBUART", dec 90);
    ("PORT_ALTERA_JTAGUART", dec 91); ("PORT_ALTERA_UART", dec 92); ("PORT_SCIFB", dec 93);
    ("PORT_MAX310X", dec 94); ("PORT_MFD", dec 95); ("PORT_OMAP", dec 96);
    ("PORT_VT8500", dec 97)]].
Definition defs_PORT_XUARTPS : list decl := [
  Defines [
    ("PORT_XUARTPS", dec 98); ("PORT_AR933X", dec 99); ("PORT_EFMUART", dec 100);
    ("PORT_ARC", dec 101); ("PORT_RP2", dec 102); ("PORT_LPUART", dec 103);
    ("PORT_HSCIF", dec 104); ("PORT_ASC", dec 105); ("PORT_TILEGX", dec 106);
    ("PORT_MEN_Z135", dec 107); ("PORT_SC16IS7XX", dec 108); ("PORT_MESON", dec 109);
    ("PORT_DIGICOLOR", dec 110); ("PORT_SPRD", dec 111); ("PORT_CRIS", dec 112);
    ("PORT_STM32", dec 113)]].
Definition header : header :=
  Header "linux/serial_core.h" [] (concat [
    defs_PORT_UNKNOWN; defs_PORT_PXA; defs_PORT_XUARTPS]).
End Serial_core.

(** ** [linux/serial_reg.h] *)

Module Serial_reg.
Definition defs_UART_RX : list decl := [
  Defines [
    ("UART_RX", dec 0); ("UART_TX", dec 0); ("UART_IER", dec 1); ("UART_IER_MSI", hex 0x08);
    ("UART_IER_RLSI", hex 0x04); ("UART_IER_THRI", hex 0x02); ("UART_IER_RDI", hex 0x01);
    ("UART_IERX_SLEEP", hex 0x10); ("UART_IIR", dec 2); ("UART_IIR_NO_INT", hex 0x01);
    ("UART_IIR_ID", hex 0x0e); ("UART_IIR_MSI", hex 0x00); ("UART_IIR_THRI", hex 0x02);
    ("UART_IIR_RDI", hex 0x04); ("UART_IIR_RLSI", hex 0x06); ("UART_IIR_BUSY", hex 0x07);
    ("UART_IIR_RX_TIMEOUT", hex 0x0c); ("UART_IIR_XOFF", hex 0x10);
    ("UART_IIR_CTS_RTS_DSR", hex 0x20); ("UART_FCR", dec 2); ("UART_FCR_ENABLE_FIFO", hex 0x01);
    ("UART_FCR_CLEAR_RCVR", hex 0x02); ("UART_FCR_CLEAR_XMIT", hex 0x04);
    ("UART_FCR_DMA_SELECT", hex 0x08)];
  Defines [
    ("UART_FCR_R_TRIG_00", hex 0x00); ("UART_FCR_R_TRIG_01", hex 0x40);
    ("UART_FCR_R_TRIG_10", hex 0x80); ("UART_FCR_R_TRIG_11", hex 0xc0);
    ("UART_FCR_T_TRIG_00", hex 0x00); ("UART_FCR_T_TRIG_01", hex 0x10);
    ("UART_FCR_T_TRIG_10", hex 0x20); ("UART_FCR_T_TRIG_11", hex 0x30);
    ("UART_FCR_TRIGGER_MASK", hex 0xC0); ("UART_FCR_TRIGGER_1", hex 0x00);
    ("UART_FCR_TRIGGER_4", hex 0x40); ("UART_FCR_TRIGGER_8", hex 0x80);
    ("UART_FCR_TRIGGER_14", hex 0xC0); ("UART_FCR6_R_TRIGGER_8", hex 0x00);
    ("UART_FCR6_R_TRIGGER_16", hex 0x40); ("UART_FCR6_R_TRIGGER_24", hex 0x80);
    ("UART_FCR6_R_TRIGGER_28", hex 0xC0); ("UART_FCR6_T_TRIGGER_16", hex 0x00);
    ("UART_FCR6_T_TRIGGER_8", hex 0x10); ("UART_FCR6_T_TRIGGER_24", hex 0x20);
    ("UART_FCR6_T_TRIGGER_30", hex 0x30); ("UART_FCR7_64BYTE", hex 0x20);
    ("UART_FCR_R_TRIG_SHIFT", dec 6); ("UART_FCR_R_TRIG_MAX_STATE", dec 4); ("UART_LCR", dec 3)];
  Defines [
    ("UART_LCR_DLAB", hex 0x80); ("UART_LCR_SBC", hex 0x40); ("UART_LCR_SPAR", hex 0x20);
    ("UART_LCR_EPAR", hex 0x10); ("UART_LCR_PARITY", hex 0x08); ("UART_LCR_STOP", hex 0x04);
    ("UART_LCR_WLEN5", hex 0x00); ("UART_LCR_WLEN6", hex 0x01); ("UART_LCR_WLEN7", hex 0x02);
    ("UART_LCR_WLEN8", hex 0x03)];
  Defines [
    ("UART_LCR_CONF_MODE_A", Id "UART_LCR_DLAB"); ("UART_LCR_CONF_MODE_B", hex 0xBF);
    ("UART_MCR", dec 4); ("UART_MCR_CLKSEL", hex 0x80); ("UART_MCR_TCRTLR", hex 0x40);
    ("UART_MCR_XONANY", hex 0x20); ("UART_MCR_AFE", hex 0x20); ("UART_MCR_LOOP", hex 0x10);
    ("UART_MCR_OUT2", hex 0x08); ("UART_MCR_OUT1", hex 0x04); ("UART_MCR_RTS", hex 0x02);
    ("UART_MCR_DTR", hex 0x01); ("UART_LSR", dec 5); ("UART_LSR_FIFOE", hex 0x80);
    ("UART_LSR_TEMT", hex 0x40); ("UART_LSR_THRE", hex 0x20); ("UART_LSR_BI", hex 0x10);
    ("UART_LSR_FE", hex 0x08); ("UART_LSR_PE", hex 0x04); ("UART_LSR_OE", hex 0x02);
    ("UART_LSR_DR", hex 0x01); ("UART_LSR_BRK_ERROR_BITS", hex 0x1E); ("UART_MSR", dec 6);
    ("UART_MSR_DCD", hex 0x80); ("UART_MSR_RI", hex 0x40); ("UART_MSR_DSR", hex 0x20);
    ("UART_MSR_CTS", hex 0x10); ("UART_MSR_DDCD", hex 0x08); ("UART_MSR_TERI", hex 0x04);
    ("UART_MSR_DDSR", hex 0x02); ("UART_MSR_DCTS", hex 0x01); ("UART_MSR_ANY_DELTA", hex 0x0F);
    ("UART_SCR", dec 7)]].
Definition defs_UART_EFR : list decl := [
  Defines [
    ("UART_EFR", dec 2); ("UART_XR_EFR", dec 9); ("UART_EFR_CTS", hex 0x80);
    ("UART_EFR_RTS", hex 0x40); ("UART_EFR_SCD", hex 0x20); ("UART_EFR_ECB", hex 0x10)];
  Defines [
    ("UART_XON1", dec 4); ("UART_XON2", dec 5); ("UART_XOFF1", dec 6); ("UART_XOFF2", dec 7)]].
Definition defs_UART_TRG_1 : list decl := [
  Defines [
    ("UART_TRG_1", hex 0x01); ("UART_TRG_4", hex 0x04); ("UART_TRG_8", hex 0x08);
    ("UART_TRG_16", hex 0x10); ("UART_TRG_32", hex 0x20); ("UART_TRG_64", hex 0x40);
    ("UART_TRG_96", hex 0x60); ("UART_TRG_120", hex 0x78); ("UART_TRG_128", hex 0x80);
    ("UART_FCTR", dec 1); ("UART_FCTR_RTS_NODELAY", hex 0x00);
    ("UART_FCTR_RTS_4DELAY", hex 0x01); ("UART_FCTR_RTS_6DELAY", hex 0x02);
    ("UART_FCTR_RTS_8DELAY", hex 0x03); ("UART_FCTR_IRDA", hex 0x04);
    ("UART_FCTR_TX_INT", hex 0x08); ("UART_FCTR_TRGA", hex 0x00); ("UART_FCTR_TRGB", hex 0x10);
    ("UART_FCTR_TRGC", hex 0x20); ("UART_FCTR_TRGD", hex 0x30); ("UART_FCTR_SCR_SWAP", hex 0x40);
    ("UART_FCTR_RX", hex 0x00); ("UART_FCTR_TX", hex 0x80)]].
Definition defs_UART_IER_DMAE : list decl := [
  Defines [
    ("UART_IER_DMAE", hex 0x80); ("UART_IER_UUE", hex 0x40); ("UART_IER_NRZE", hex 0x20);
    ("UART_IER_RTOIE", hex 0x10); ("UART_IIR_TOD", hex 0x08); ("UART_FCR_PXAR1", hex 0x00);
    ("UART_FCR_PXAR8", hex 0x40); ("UART_FCR_PXAR16", hex 0x80); ("UART_FCR_PXAR32", hex 0xc0)];
  Defines [
    ("UART_ASR", hex 0x01); ("UART_RFL", hex 0x03); ("UART_TFL", hex 0x04);
    ("UART_ICR", hex 0x05); ("UART_ACR", hex 0x00); ("UART_CPR", hex 0x01);
    ("UART_TCR", hex 0x02); ("UART_CKS", hex 0x03); ("UART_TTL", hex 0x04);
    ("UART_RTL", hex 0x05); ("UART_FCL", hex 0x06); ("UART_FCH", hex 0x07);
    ("UART_ID1", hex 0x08); ("UART_ID2", hex 0x09); ("UART_ID3", hex 0x0A);
    ("UART_REV", hex 0x0B); ("UART_CSR", hex 0x0C); ("UART_NMR", hex 0x0D);
    ("UART_CTR", hex 0xFF)];
  Defines [
    ("UART_ACR_RXDIS", hex 0x01); ("UART_ACR_TXDIS", hex 0x02); ("UART_ACR_DSRFC", hex 0x04);
    ("UART_ACR_TLENB", hex 0x20); ("UART_ACR_ICRRD", hex 0x40); ("UART_ACR_ASREN", hex 0x80)];
  Defines [
    ("UART_RSA_BASE", Neg (dec 8)); ("UART_RSA_MSR", Add (Id "UART_RSA_BASE") (dec 0));
    ("UART_RSA_MSR_SWAP", Shl (dec 1) (dec 0)); ("UART_RSA_MSR_FIFO", Shl (dec 1) (dec 2));
    ("UART_RSA_MSR_FLOW", Shl (dec 1) (dec 3)); ("UART_RSA_MSR_ITYP", Shl (dec 1) (dec 4));
    ("UART_RSA_IER", Add (Id "UART_RSA_BASE") (dec 1));
    ("UART_RSA_IER_Rx_FIFO_H", Shl (dec 1) (dec 0));
    ("UART_RSA_IER_Tx_FIFO_H", Shl (dec 1) (dec 1));
    ("UART_RSA_IER_Tx_FIFO_E", Shl (dec 1) (dec 2));
    ("UART_RSA_IER_Rx_TOUT", Shl (dec 1) (dec 3)); ("UART_RSA_IER_TIMER", Shl (dec 1) (dec 4));
    ("UART_RSA_SRR", Add (Id "UART_RSA_BASE") (dec 2));
    ("UART_RSA_SRR_Tx_FIFO_NEMP", Shl (dec 1) (dec 0));
    ("UART_RSA_SRR_Tx_FIFO_NHFL", Shl (dec 1) (dec 1));
    ("UART_RSA_SRR_Tx_FIFO_NFUL", Shl (dec 1) (dec 2));
    ("UART_RSA_SRR_Rx_FIFO_NEMP", Shl (dec 1) (dec 3));
    ("UART_RSA_SRR_Rx_FIFO_NHFL", Shl (dec 1) (dec 4));
    ("UART_RSA_SRR_Rx_FIFO_NFUL", Shl (dec 1) (dec 5));
    ("UART_RSA_SRR_Rx_TOUT", Shl (dec 1) (dec 6)); ("UART_RSA_SRR_TIMER", Shl (dec 1) (dec 7));
    ("UART_RSA_FRR", Add (Id "UART_RSA_BASE") (dec 2));
    ("UART_RSA_TIVSR", Add (Id "UART_RSA_BASE") (dec 3));
    ("UART_RSA_TCR", Add (Id "UART_RSA_BASE") (dec 4));
    ("UART_RSA_TCR_SWITCH", Shl (dec 1) (dec 0))]].
Definition defs_OMAP1_UART1_BASE : list decl := [
  Defines [
    ("OMAP1_UART1_BASE", hex 0xfffb0000); ("OMAP1_UART2_BASE", hex 0xfffb0800);
    ("OMAP1_UART3_BASE", hex 0xfffb9800); ("UART_OMAP_MDR1", hex 0x08);
    ("UART_OMAP_MDR2", hex 0x09); ("UART_OMAP_SCR", hex 0x10); ("UART_OMAP_SSR", hex 0x11);
    ("UART_OMAP_EBLR", hex 0x12); ("UART_OMAP_OSC_12M_SEL", hex 0x13);
    ("UART_OMAP_MVER", hex 0x14); ("UART_OMAP_SYSC", hex 0x15); ("UART_OMAP_SYSS", hex 0x16);
    ("UART_OMAP_WER", hex 0x17); ("UART_OMAP_TX_LVL", hex 0x1a)];
  Defines [
    ("UART_OMAP_MDR1_16X_MODE", hex 0x00); ("UART_OMAP_MDR1_SIR_MODE", hex 0x01);
    ("UART_OMAP_MDR1_16X_ABAUD_MODE", hex 0x02); ("UART_OMAP_MDR1_13X_MODE", hex 0x03);
    ("UART_OMAP_MDR1_MIR_MODE", hex 0x04); ("UART_OMAP_MDR1_FIR_MODE", hex 0x05);
    ("UART_OMAP_MDR1_CIR_MODE", hex 0x06); ("UART_OMAP_MDR1_DISABLE", hex 0x07)];
  Defines [
    ("UART_EXAR_8XMODE", hex 0x88); ("UART_EXAR_SLEEP", hex 0x8b); ("UART_EXAR_DVID", hex 0x8d);
    ("UART_EXAR_FCTR", hex 0x08); ("UART_FCTR_EXAR_IRDA", hex 0x08);
    ("UART_FCTR_EXAR_485", hex 0x10); ("UART_FCTR_EXAR_TRGA", hex 0x00);
    ("UART_FCTR_EXAR_TRGB", hex 0x60); ("UART_FCTR_EXAR_TRGC", hex 0x80);
    ("UART_FCTR_EXAR_TRGD", hex 0xc0); ("UART_EXAR_TXTRG", hex 0x0a);
    ("UART_EXAR_RXTRG", hex 0x0b)]].
Definition header : header :=
  Header "linux/serial_reg.h" [] (concat [
    defs_UART_RX; defs_UART_EFR; defs_UART_TRG_1; defs_UART_IER_DMAE; defs_OMAP1_UART1_BASE]).
End Serial_reg.

(** ** [linux/serio.h] *)

Module Serio.
Definition defs_SERIO_XT : list decl := [
  Defines [
    ("SERIO_XT", hex 0x00); ("SERIO_8042", hex 0x01); ("SERIO_RS232", hex 0x02);
    ("SERIO_HIL_MLC", hex 0x03); ("SERIO_PS_PSTHRU", hex 0x05); ("SERIO_8042_XL", hex 0x06)];
  Defines [
    ("SERIO_UNKNOWN", hex 0x00); ("SERIO_MSC", hex 0x01); ("SERIO_SUN", hex 0x02);
    ("SERIO_MS", hex 0x03); ("SERIO_MP", hex 0x04); ("SERIO_MZ", hex 0x05);
    ("SERIO_MZP", hex 0x06); ("SERIO_MZPP", hex 0x07); ("SERIO_VSXXXAA", hex 0x08);
    ("SERIO_SUNKBD", hex 0x10); ("SERIO_WARRIOR", hex 0x18); ("SERIO_SPACEORB", hex 0x19);
    ("SERIO_MAGELLAN", hex 0x1a); ("SERIO_SPACEBALL", hex 0x1b); ("SERIO_GUNZE", hex 0x1c);
    ("SERIO_IFORCE", hex 0x1d); ("SERIO_STINGER", hex 0x1e); ("SERIO_NEWTON", hex 0x1f);
    ("SERIO_STOWAWAY", hex 0x20); ("SERIO_H3600", hex 0x21); ("SERIO_PS2SER", hex 0x22);
    ("SERIO_TWIDKBD", hex 0x23); ("SERIO_TWIDJOY", hex 0x24); ("SERIO_HIL", hex 0x25);
    ("SERIO_SNES232", hex 0x26); ("SERIO_SEMTECH", hex 0x27); ("SERIO_LKKBD", hex 0x28);
    ("SERIO_ELO", hex 0x29); ("SERIO_MICROTOUCH", hex 0x30); ("SERIO_PENMOUNT", hex 0x31);
    ("SERIO_TOUCHRIGHT", hex 0x32); ("SERIO_TOUCHWIN", hex 0x33); ("SERIO_TAOSEVM", hex 0x34);
    ("SERIO_FUJITSU", hex 0x35); ("SERIO_ZHENHUA", hex 0x36); ("SERIO_INEXIO", hex 0x37);
    ("SERIO_TOUCHIT213", hex 0x38); ("SERIO_W8001", hex 0x39); ("SERIO_DYNAPRO", hex 0x3a);
    ("SERIO_HAMPSHIRE", hex 0x3b); ("SERIO_PS2MULT", hex 0x3c); ("SERIO_TSC40", hex 0x3d);
    ("SERIO_WACOM_IV", hex 0x3e)]].
Definition header : header :=
  Header "linux/serio.h" [] (concat [
    defs_SERIO_XT]).
End Serio.

(** ** [linux/shm.h] *)

Module Shm.
Definition defs_SHM_R : list decl := [
  Defines [
    ("SHM_R", oct 256); ("SHM_W", oct 128); ("SHM_RDONLY", oct 4096); ("SHM_RND", oct 8192);
    ("SHM_REMAP", oct 16384); ("SHM_EXEC", oct 32768); ("SHM_LOCK", dec 11);
    ("SHM_UNLOCK", dec 12); ("SHM_STAT", dec 13); ("SHM_INFO", dec 14)]].
Definition header : header :=
  Header "linux/shm.h" [] (concat [
    defs_SHM_R]).
End Shm.

(** ** [linux/smiapp.h] *)

Module Smiapp.
Definition defs_V4L2_SMIAPP_TEST_PATTERN_MODE_DISABLED : list decl := [
  Defines [
    ("V4L2_SMIAPP_TEST_PATTERN_MODE_DISABLED", dec 0);
    ("V4L2_SMIAPP_TEST_PATTERN_MODE_SOLID_COLOUR", dec 1);
    ("V4L2_SMIAPP_TEST_PATTERN_MODE_COLOUR_BARS", dec 2);
    ("V4L2_SMIAPP_TEST_PATTERN_MODE_COLOUR_BARS_GREY", dec 3);
    ("V4L2_SMIAPP_TEST_PATTERN_MODE_PN9", dec 4)]].
Definition header : header :=
  Header "linux/smiapp.h" [] (concat [
    defs_V4L2_SMIAPP_TEST_PATTERN_MODE_DISABLED]).
End Smiapp.

(** ** [linux/sock_diag.h] *)

Module Sock_diag.
Definition enum_SK_MEMINFO_RMEM_ALLOC : list decl := [
  Enum [
    ("SK_MEMINFO_RMEM_ALLOC", None); ("SK_MEMINFO_RCVBUF", None);
    ("SK_MEMINFO_WMEM_ALLOC", None); ("SK_MEMINFO_SNDBUF", None); ("SK_MEMINFO_FWD_ALLOC", None);
    ("SK_MEMINFO_WMEM_QUEUED", None); ("SK_MEMINFO_OPTMEM", None); ("SK_MEMINFO_BACKLOG", None);
    ("SK_MEMINFO_VARS", None)];
  Enum [
    ("SKNLGRP_NONE", None); ("SKNLGRP_INET_TCP_DESTROY", None);
    ("SKNLGRP_INET_UDP_DESTROY", None); ("SKNLGRP_INET6_TCP_DESTROY", None);
    ("SKNLGRP_INET6_UDP_DESTROY", None); ("__SKNLGRP_MAX", None)];
  Defines [
    ("SKNLGRP_MAX", Sub (Id "__SKNLGRP_MAX") (dec 1))]].
Definition header : header :=
  Header "linux/sock_diag.h" [] (concat [
    enum_SK_MEMINFO_RMEM_ALLOC]).
End Sock_diag.

(** ** [linux/sockev.h] *)

Module Sockev.
Definition enum_sknetlink_groups : list decl := [
  Enum [
    ("SKNLGRP_UNICAST", None); ("SKNLGRP_SOCKEV", None); ("__SKNLGRP_MAX", None)];
  Defines [
    ("SOCKEV_STR_MAX", dec 32)]].
Definition header : header :=
  Header "linux/sockev.h" [] (concat [
    enum_sknetlink_groups]).
End Sockev.

(** ** [linux/sonypi.h] *)

Module Sonypi.
Definition defs_SONYPI_EVENT_IGNORE : list decl := [
  Defines [
    ("SONYPI_EVENT_IGNORE", dec 0); ("SONYPI_EVENT_JOGDIAL_DOWN", dec 1);
    ("SONYPI_EVENT_JOGDIAL_UP", dec 2); ("SONYPI_EVENT_JOGDIAL_DOWN_PRESSED", dec 3);
    ("SONYPI_EVENT_JOGDIAL_UP_PRESSED", dec 4); ("SONYPI_EVENT_JOGDIAL_PRESSED", dec 5);
    ("SONYPI_EVENT_JOGDIAL_RELEASED", dec 6); ("SONYPI_EVENT_CAPTURE_PRESSED", dec 7);
    ("SONYPI_EVENT_CAPTURE_RELEASED", dec 8); ("SONYPI_EVENT_CAPTURE_PARTIALPRESSED", dec 9);
    ("SONYPI_EVENT_CAPTURE_PARTIALRELEASED", dec 10); ("SONYPI_EVENT_FNKEY_ESC", dec 11);
    ("SONYPI_EVENT_FNKEY_F1", dec 12); ("SONYPI_EVENT_FNKEY_F2", dec 13);
    ("SONYPI_EVENT_FNKEY_F3", dec 14); ("SONYPI_EVENT_FNKEY_F4", dec 15);
    ("SONYPI_EVENT_FNKEY_F5", dec 16); ("SONYPI_EVENT_FNKEY_F6", dec 17);
    ("SONYPI_EVENT_FNKEY_F7", dec 18); ("SONYPI_EVENT_FNKEY_F8", dec 19);
    ("SONYPI_EVENT_FNKEY_F9", dec 20); ("SONYPI_EVENT_FNKEY_F10", dec 21);
    ("SONYPI_EVENT_FNKEY_F11", dec 22); ("SONYPI_EVENT_FNKEY_F12", dec 23);
    ("SONYPI_EVENT_FNKEY_1", dec 24); ("SONYPI_EVENT_FNKEY_2", dec 25);
    ("SONYPI_EVENT_FNKEY_D", dec 26); ("SONYPI_EVENT_FNKEY_E", dec 27);
    ("SONYPI_EVENT_FNKEY_F", dec 28); ("SONYPI_EVENT_FNKEY_S", dec 29);
    ("SONYPI_EVENT_FNKEY_B", dec 30); ("SONYPI_EVENT_BLUETOOTH_PRESSED", dec 31);
    ("SONYPI_EVENT_PKEY_P1", dec 32); ("SONYPI_EVENT_PKEY_P2", dec 33);
    ("SONYPI_EVENT_PKEY_P3", dec 34); ("SONYPI_EVENT_BACK_PRESSED", dec 35);
    ("SONYPI_EVENT_LID_CLOSED", dec 36); ("SONYPI_EVENT_LID_OPENED", dec 37);
    ("SONYPI_EVENT_BLUETOOTH_ON", dec 38); ("SONYPI_EVENT_BLUETOOTH_OFF", dec 39);
    ("SONYPI_EVENT_HELP_PRESSED", dec 40); ("SONYPI_EVENT_FNKEY_ONLY", dec 41);
    ("SONYPI_EVENT_JOGDIAL_FAST_DOWN", dec 42); ("SONYPI_EVENT_JOGDIAL_FAST_UP", dec 43);
    ("SONYPI_EVENT_JOGDIAL_FAST_DOWN_PRESSED", dec 44);
    ("SONYPI_EVENT_JOGDIAL_FAST_UP_PRESSED", dec 45);
    ("SONYPI_EVENT_JOGDIAL_VFAST_DOWN", dec 46); ("SONYPI_EVENT_JOGDIAL_VFAST_UP", dec 47);
    ("SONYPI_EVENT_JOGDIAL_VFAST_DOWN_PRESSED", dec 48);
    ("SONYPI_EVENT_JOGDIAL_VFAST_UP_PRESSED", dec 49); ("SONYPI_EVENT_ZOOM_PRESSED", dec 50);
    ("SONYPI_EVENT_THUMBPHRASE_PRESSED", dec 51); ("SONYPI_EVENT_MEYE_FACE", dec 52);
    ("SONYPI_EVENT_MEYE_OPPOSITE", dec 53); ("SONYPI_EVENT_MEMORYSTICK_INSERT", dec 54);
    ("SONYPI_EVENT_MEMORYSTICK_EJECT", dec 55); ("SONYPI_EVENT_ANYBUTTON_RELEASED", dec 56);
    ("SONYPI_EVENT_BATTERY_INSERT", dec 57); ("SONYPI_EVENT_BATTERY_REMOVE", dec 58);
    ("SONYPI_EVENT_FNKEY_RELEASED", dec 59); ("SONYPI_EVENT_WIRELESS_ON", dec 60);
    ("SONYPI_EVENT_WIRELESS_OFF", dec 61); ("SONYPI_EVENT_ZOOM_IN_PRESSED", dec 62);
    ("SONYPI_EVENT_ZOOM_OUT_PRESSED", dec 63); ("SONYPI_EVENT_CD_EJECT_PRESSED", dec 64);
    ("SONYPI_EVENT_MODEKEY_PRESSED", dec 65); ("SONYPI_EVENT_PKEY_P4", dec 66);
    ("SONYPI_EVENT_PKEY_P5", dec 67); ("SONYPI_EVENT_SETTINGKEY_PRESSED", dec 68);
    ("SONYPI_EVENT_VOLUME_INC_PRESSED", dec 69); ("SONYPI_EVENT_VOLUME_DEC_PRESSED", dec 70);
    ("SONYPI_EVENT_BRIGHTNESS_PRESSED", dec 71); ("SONYPI_EVENT_MEDIA_PRESSED", dec 72);
    ("SONYPI_EVENT_VENDOR_PRESSED", dec 73)]].
Definition header : header :=
  Header "linux/sonypi.h" [] (concat [
    defs_SONYPI_EVENT_IGNORE]).
End Sonypi.

(** ** [linux/sound.h] *)

Module Sound.
Definition defs_SND_DEV_CTL : list decl := [
  Defines [
    ("SND_DEV_CTL", dec 0); ("SND_DEV_SEQ", dec 1); ("SND_DEV_MIDIN", dec 2);
    ("SND_DEV_DSP", dec 3); ("SND_DEV_AUDIO", dec 4); ("SND_DEV_DSP16", dec 5);
    ("SND_DEV_UNUSED", dec 6); ("SND_DEV_AWFM", dec 7); ("SND_DEV_SEQ2", dec 8);
    ("SND_DEV_SYNTH", dec 9); ("SND_DEV_DMFM", dec 10); ("SND_DEV_UNKNOWN11", dec 11);
    ("SND_DEV_ADSP", dec 12); ("SND_DEV_AMIDI", dec 13); ("SND_DEV_ADMMIDI", dec 14)]].
Definition header : header :=
  Header "linux/sound.h" [] (concat [
    defs_SND_DEV_CTL]).
End Sound.

(** ** [linux/spcom.h] *)

Module Spcom.
Definition macro_BIT : list decl := [
  Define_fun "BIT" ["x"] (Shl (dec 1) (Id "x"))].
Definition enum_spcom_cmd_id : list decl := [
  Enum [
    ("SPCOM_CMD_LOAD_APP", Some (hex 0x4C4F4144)); ("SPCOM_CMD_RESET_SP", Some (hex 0x52455354));
    ("SPCOM_CMD_SEND", Some (hex 0x53454E44));
    ("SPCOM_CMD_SEND_MODIFIED", Some (hex 0x534E444D));
    ("SPCOM_CMD_LOCK_ION_BUF", Some (hex 0x4C4F434B));
    ("SPCOM_CMD_UNLOCK_ION_BUF", Some (hex 0x554C434B));
    ("SPCOM_CMD_FSSR", Some (hex 0x46535352));
    ("SPCOM_CMD_CREATE_CHANNEL", Some (hex 0x43524554))];
  Enum [
    ("SPCOM_POLL_LINK_STATE", Some (App "BIT" [dec 1]));
    ("SPCOM_POLL_CH_CONNECT", Some (App "BIT" [dec 2]));
    ("SPCOM_POLL_READY_FLAG", Some (App "BIT" [dec 14]));
    ("SPCOM_POLL_WAIT_FLAG", Some (App "BIT" [dec 15]))]].
Definition header : header :=
  Header "linux/spcom.h" [] (concat [
    macro_BIT; enum_spcom_cmd_id]).
End Spcom.

(** ** [linux/spi/spidev.h] *)

Module Spi_spidev.
Definition defs_SPI_CPHA : list decl := [
  Defines [
    ("SPI_CPHA", hex 0x01); ("SPI_CPOL", hex 0x02); ("SPI_MODE_0", Or (dec 0) (dec 0));
    ("SPI_MODE_1", Or (dec 0) (Id "SPI_CPHA")); ("SPI_MODE_2", Or (Id "SPI_CPOL") (dec 0));
    ("SPI_MODE_3", Or (Id "SPI_CPOL") (Id "SPI_CPHA")); ("SPI_CS_HIGH", hex 0x04);
    ("SPI_LSB_FIRST", hex 0x08); ("SPI_3WIRE", hex 0x10); ("SPI_LOOP", hex 0x20);
    ("SPI_NO_CS", hex 0x40); ("SPI_READY", hex 0x80); ("SPI_TX_DUAL", hex 0x100);
    ("SPI_TX_QUAD", hex 0x200); ("SPI_RX_DUAL", hex 0x400); ("SPI_RX_QUAD", hex 0x800)]].
Definition header : header :=
  Header "linux/spi/spidev.h" [] (concat [
    defs_SPI_CPHA]).
End Spi_spidev.

(** ** [linux/synclink.h] *)

Module Synclink.
Definition defs_BIT0 : list decl := [
  Defines [
    ("BIT0", hex 0x0001); ("BIT1", hex 0x0002); ("BIT2", hex 0x0004); ("BIT3", hex 0x0008);
    ("BIT4", hex 0x0010); ("BIT5", hex 0x0020); ("BIT6", hex 0x0040); ("BIT7", hex 0x0080);
    ("BIT8", hex 0x0100); ("BIT9", hex 0x0200); ("BIT10", hex 0x0400); ("BIT11", hex 0x0800);
    ("BIT12", hex 0x1000); ("BIT13", hex 0x2000); ("BIT14", hex 0x4000); ("BIT15", hex 0x8000);
    ("BIT16", hex 0x00010000); ("BIT17", hex 0x00020000); ("BIT18", hex 0x00040000);
    ("BIT19", hex 0x00080000); ("BIT20", hex 0x00100000); ("BIT21", hex 0x00200000);
    ("BIT22", hex 0x00400000); ("BIT23", hex 0x00800000); ("BIT24", hex 0x01000000);
    ("BIT25", hex 0x02000000); ("BIT26", hex 0x04000000); ("BIT27", hex 0x08000000);
    ("BIT28", hex 0x10000000); ("BIT29", hex 0x20000000); ("BIT30", hex 0x40000000);
    ("BIT31", hex 0x80000000); ("HDLC_MAX_FRAME_SIZE", dec 65535);
    ("MAX_ASYNC_TRANSMIT", dec 4096); ("MAX_ASYNC_BUFFER_SIZE", dec 4096);
    ("ASYNC_PARITY_NONE", dec 0); ("ASYNC_PARITY_EVEN", dec 1); ("ASYNC_PARITY_ODD", dec 2);
    ("ASYNC_PARITY_SPACE", dec 3); ("HDLC_FLAG_UNDERRUN_ABORT7", hex 0x0000);
    ("HDLC_FLAG_UNDERRUN_ABORT15", hex 0x0001); ("HDLC_FLAG_UNDERRUN_FLAG", hex 0x0002);
    ("HDLC_FLAG_UNDERRUN_CRC", hex 0x0004); ("HDLC_FLAG_SHARE_ZERO", hex 0x0010);
    ("HDLC_FLAG_AUTO_CTS", hex 0x0020); ("HDLC_FLAG_AUTO_DCD", hex 0x0040);
    ("HDLC_FLAG_AUTO_RTS", hex 0x0080); ("HDLC_FLAG_RXC_DPLL", hex 0x0100);
    ("HDLC_FLAG_RXC_BRG", hex 0x0200); ("HDLC_FLAG_RXC_TXCPIN", hex 0x8000);
    ("HDLC_FLAG_RXC_RXCPIN", hex 0x0000); ("HDLC_FLAG_TXC_DPLL", hex 0x0400);
    ("HDLC_FLAG_TXC_BRG", hex 0x0800); ("HDLC_FLAG_TXC_TXCPIN", hex 0x0000);
    ("HDLC_FLAG_TXC_RXCPIN", hex 0x0008); ("HDLC_FLAG_DPLL_DIV8", hex 0x1000);
    ("HDLC_FLAG_DPLL_DIV16", hex 0x2000); ("HDLC_FLAG_DPLL_DIV32", hex 0x0000);
    ("HDLC_FLAG_HDLC_LOOPMODE", hex 0x4000); ("HDLC_CRC_NONE", dec 0);
    ("HDLC_CRC_16_CCITT", dec 1); ("HDLC_CRC_32_CCITT", dec 2); ("HDLC_CRC_MASK", hex 0x00ff);
    ("HDLC_CRC_RETURN_EX", hex 0x8000); ("RX_OK", dec 0); ("RX_CRC_ERROR", dec 1);
    ("HDLC_TXIDLE_FLAGS", dec 0); ("HDLC_TXIDLE_ALT_ZEROS_ONES", dec 1);
    ("HDLC_TXIDLE_ZEROS", dec 2); ("HDLC_TXIDLE_ONES", dec 3);
    ("HDLC_TXIDLE_ALT_MARK_SPACE", dec 4); ("HDLC_TXIDLE_SPACE", dec 5);
    ("HDLC_TXIDLE_MARK", dec 6); ("HDLC_TXIDLE_CUSTOM_8", hex 0x10000000);
    ("HDLC_TXIDLE_CUSTOM_16", hex 0x20000000); ("HDLC_ENCODING_NRZ", dec 0);
    ("HDLC_ENCODING_NRZB", dec 1); ("HDLC_ENCODING_NRZI_MARK", dec 2);
    ("HDLC_ENCODING_NRZI_SPACE", dec 3); ("HDLC_ENCODING_NRZI", Id "HDLC_ENCODING_NRZI_SPACE");
    ("HDLC_ENCODING_BIPHASE_MARK", dec 4); ("HDLC_ENCODING_BIPHASE_SPACE", dec 5);
    ("HDLC_ENCODING_BIPHASE_LEVEL", dec 6); ("HDLC_ENCODING_DIFF_BIPHASE_LEVEL", dec 7);
    ("HDLC_PREAMBLE_LENGTH_8BITS", dec 0); ("HDLC_PREAMBLE_LENGTH_16BITS", dec 1);
    ("HDLC_PREAMBLE_LENGTH_32BITS", dec 2); ("HDLC_PREAMBLE_LENGTH_64BITS", dec 3);
    ("HDLC_PREAMBLE_PATTERN_NONE", dec 0); ("HDLC_PREAMBLE_PATTERN_ZEROS", dec 1);
    ("HDLC_PREAMBLE_PATTERN_FLAGS", dec 2); ("HDLC_PREAMBLE_PATTERN_10", dec 3);
    ("HDLC_PREAMBLE_PATTERN_01", dec 4); ("HDLC_PREAMBLE_PATTERN_ONES", dec 5);
    ("MGSL_MODE_ASYNC", dec 1); ("MGSL_MODE_HDLC", dec 2); ("MGSL_MODE_MONOSYNC", dec 3);
    ("MGSL_MODE_BISYNC", dec 4); ("MGSL_MODE_RAW", dec 6); ("MGSL_MODE_BASE_CLOCK", dec 7);
    ("MGSL_MODE_XSYNC", dec 8); ("MGSL_BUS_TYPE_ISA", dec 1); ("MGSL_BUS_TYPE_EISA", dec 2);
    ("MGSL_BUS_TYPE_PCI", dec 5); ("MGSL_INTERFACE_MASK", hex 0xf);
    ("MGSL_INTERFACE_DISABLE", dec 0); ("MGSL_INTERFACE_RS232", dec 1);
    ("MGSL_INTERFACE_V35", dec 2); ("MGSL_INTERFACE_RS422", dec 3);
    ("MGSL_INTERFACE_RTS_EN", hex 0x10); ("MGSL_INTERFACE_LL", hex 0x20);
    ("MGSL_INTERFACE_RL", hex 0x40); ("MGSL_INTERFACE_MSB_FIRST", hex 0x80)]].
Definition defs_MICROGATE_VENDOR_ID : list decl := [
  Defines [
    ("MICROGATE_VENDOR_ID", hex 0x13c0); ("SYNCLINK_DEVICE_ID", hex 0x0010);
    ("MGSCC_DEVICE_ID", hex 0x0020); ("SYNCLINK_SCA_DEVICE_ID", hex 0x0030);
    ("SYNCLINK_GT_DEVICE_ID", hex 0x0070); ("SYNCLINK_GT4_DEVICE_ID", hex 0x0080);
    ("SYNCLINK_AC_DEVICE_ID", hex 0x0090); ("SYNCLINK_GT2_DEVICE_ID", hex 0x00A0);
    ("MGSL_MAX_SERIAL_NUMBER", dec 30)];
  Defines [
    ("DiagStatus_OK", dec 0); ("DiagStatus_AddressFailure", dec 1);
    ("DiagStatus_AddressConflict", dec 2); ("DiagStatus_IrqFailure", dec 3);
    ("DiagStatus_IrqConflict", dec 4); ("DiagStatus_DmaFailure", dec 5);
    ("DiagStatus_DmaConflict", dec 6); ("DiagStatus_PciAdapterNotFound", dec 7);
    ("DiagStatus_CantAssignPciResources", dec 8); ("DiagStatus_CantAssignPciMemAddr", dec 9);
    ("DiagStatus_CantAssignPciIoAddr", dec 10); ("DiagStatus_CantAssignPciIrq", dec 11);
    ("DiagStatus_MemoryError", dec 12); ("SerialSignal_DCD", hex 0x01);
    ("SerialSignal_TXD", hex 0x02); ("SerialSignal_RI", hex 0x04);
    ("SerialSignal_RXD", hex 0x08); ("SerialSignal_CTS", hex 0x10);
    ("SerialSignal_RTS", hex 0x20); ("SerialSignal_DSR", hex 0x40);
    ("SerialSignal_DTR", hex 0x80)]].
Definition defs_DEBUG_LEVEL_DATA : list decl := [
  Defines [
    ("DEBUG_LEVEL_DATA", dec 1); ("DEBUG_LEVEL_ERROR", dec 2); ("DEBUG_LEVEL_INFO", dec 3);
    ("DEBUG_LEVEL_BH", dec 4); ("DEBUG_LEVEL_ISR", dec 5)];
  Defines [
    ("MgslEvent_DsrActive", hex 0x0001); ("MgslEvent_DsrInactive", hex 0x0002);
    ("MgslEvent_Dsr", hex 0x0003); ("MgslEvent_CtsActive", hex 0x0004);
    ("MgslEvent_CtsInactive", hex 0x0008); ("MgslEvent_Cts", hex 0x000c);
    ("MgslEvent_DcdActive", hex 0x0010); ("MgslEvent_DcdInactive", hex 0x0020);
    ("MgslEvent_Dcd", hex 0x0030); ("MgslEvent_RiActive", hex 0x0040);
    ("MgslEvent_RiInactive", hex 0x0080); ("MgslEvent_Ri", hex 0x00c0);
    ("MgslEvent_ExitHuntMode", hex 0x0100); ("MgslEvent_IdleReceived", hex 0x0200)]].
Definition header : header :=
  Header "linux/synclink.h" [] (concat [
    defs_BIT0; defs_MICROGATE_VENDOR_ID; defs_DEBUG_LEVEL_DATA]).
End Synclink.

(** ** [linux/termios.h] *)

Module Termios.
Definition defs_RTSXOFF : list decl := [
  Defines [
    ("RTSXOFF", hex 0x0001); ("CTSXON", hex 0x0002); ("DTRXOFF", hex 0x0004);
    ("DSRXON", hex 0x0008)]].
Definition header : header :=
  Header "linux/termios.h" [] (concat [
    defs_RTSXOFF]).
End Termios.

(** ** [linux/thermal.h] *)

Module Thermal.
Definition enum_events : list decl := [
  Enum [
    ("THERMAL_AUX0", None); ("THERMAL_AUX1", None); ("THERMAL_CRITICAL", None);
    ("THERMAL_DEV_FAULT", None)];
  Enum [
    ("THERMAL_GENL_ATTR_UNSPEC", None); ("THERMAL_GENL_ATTR_EVENT", None);
    ("__THERMAL_GENL_ATTR_MAX", None)];
  Defines [
    ("THERMAL_GENL_ATTR_MAX", Sub (Id "__THERMAL_GENL_ATTR_MAX") (dec 1))];
  Enum [
    ("THERMAL_GENL_CMD_UNSPEC", None); ("THERMAL_GENL_CMD_EVENT", None);
    ("__THERMAL_GENL_CMD_MAX", None)];
  Defines [
    ("THERMAL_GENL_CMD_MAX", Sub (Id "__THERMAL_GENL_CMD_MAX") (dec 1))]].
Definition header : header :=
  Header "linux/thermal.h" [] (concat [
    enum_events]).
End Thermal.

(** ** [linux/tiocl.h] *)

Module Tiocl.
Definition defs_TIOCL_SETSEL : list decl := [
  Defines [
    ("TIOCL_SETSEL", dec 2); ("TIOCL_SELCHAR", dec 0); ("TIOCL_SELWORD", dec 1);
    ("TIOCL_SELLINE", dec 2); ("TIOCL_SELPOINTER", dec 3); ("TIOCL_SELCLEAR", dec 4);
    ("TIOCL_SELMOUSEREPORT", dec 16); ("TIOCL_SELBUTTONMASK", dec 15)]].
Definition defs_TIOCL_GETSHIFTSTATE : list decl := [
  Defines [
    ("TIOCL_GETSHIFTSTATE", dec 6); ("TIOCL_GETMOUSEREPORTING", dec 7);
    ("TIOCL_SETVESABLANK", dec 10); ("TIOCL_SETKMSGREDIRECT", dec 11);
    ("TIOCL_GETFGCONSOLE", dec 12); ("TIOCL_SCROLLCONSOLE", dec 13);
    ("TIOCL_BLANKSCREEN", dec 14); ("TIOCL_BLANKEDSCREEN", dec 15);
    ("TIOCL_GETKMSGREDIRECT", dec 17)]].
Definition header : header :=
  Header "linux/tiocl.h" [] (concat [
    defs_TIOCL_SETSEL; defs_TIOCL_GETSHIFTSTATE]).
End Tiocl.

(** ** [linux/tipc_netlink.h] *)

Module Tipc_netlink.
Definition enum_TIPC_NL_UNSPEC : list decl := [
  Enum [
    ("TIPC_NL_UNSPEC", None); ("TIPC_NL_LEGACY", None); ("TIPC_NL_BEARER_DISABLE", None);
    ("TIPC_NL_BEARER_ENABLE", None); ("TIPC_NL_BEARER_GET", None); ("TIPC_NL_BEARER_SET", None);
    ("TIPC_NL_SOCK_GET", None); ("TIPC_NL_PUBL_GET", None); ("TIPC_NL_LINK_GET", None);
    ("TIPC_NL_LINK_SET", None); ("TIPC_NL_LINK_RESET_STATS", None); ("TIPC_NL_MEDIA_GET", None);
    ("TIPC_NL_MEDIA_SET", None); ("TIPC_NL_NODE_GET", None); ("TIPC_NL_NET_GET", None);
    ("TIPC_NL_NET_SET", None); ("TIPC_NL_NAME_TABLE_GET", None); ("__TIPC_NL_CMD_MAX", None);
    ("TIPC_NL_CMD_MAX", Some (Sub (Id "__TIPC_NL_CMD_MAX") (dec 1)))];
  Enum [
    ("TIPC_NLA_UNSPEC", None); ("TIPC_NLA_BEARER", None); ("TIPC_NLA_SOCK", None);
    ("TIPC_NLA_PUBL", None); ("TIPC_NLA_LINK", None); ("TIPC_NLA_MEDIA", None);
    ("TIPC_NLA_NODE", None); ("TIPC_NLA_NET", None); ("TIPC_NLA_NAME_TABLE", None);
    ("__TIPC_NLA_MAX", None); ("TIPC_NLA_MAX", Some (Sub (Id "__TIPC_NLA_MAX") (dec 1)))];
  Enum [
    ("TIPC_NLA_BEARER_UNSPEC", None); ("TIPC_NLA_BEARER_NAME", None);
    ("TIPC_NLA_BEARER_PROP", None); ("TIPC_NLA_BEARER_DOMAIN", None);
    ("TIPC_NLA_BEARER_UDP_OPTS", None); ("__TIPC_NLA_BEARER_MAX", None);
    ("TIPC_NLA_BEARER_MAX", Some (Sub (Id "__TIPC_NLA_BEARER_MAX") (dec 1)))];
  Enum [
    ("TIPC_NLA_UDP_UNSPEC", None); ("TIPC_NLA_UDP_LOCAL", None); ("TIPC_NLA_UDP_REMOTE", None);
    ("__TIPC_NLA_UDP_MAX", None);
    ("TIPC_NLA_UDP_MAX", Some (Sub (Id "__TIPC_NLA_UDP_MAX") (dec 1)))];
  Enum [
    ("TIPC_NLA_SOCK_UNSPEC", None); ("TIPC_NLA_SOCK_ADDR", None); ("TIPC_NLA_SOCK_REF", None);
    ("TIPC_NLA_SOCK_CON", None); ("TIPC_NLA_SOCK_HAS_PUBL", None); ("__TIPC_NLA_SOCK_MAX", None);
    ("TIPC_NLA_SOCK_MAX", Some (Sub (Id "__TIPC_NLA_SOCK_MAX") (dec 1)))];
  Enum [
    ("TIPC_NLA_LINK_UNSPEC", None); ("TIPC_NLA_LINK_NAME", None); ("TIPC_NLA_LINK_DEST", None);
    ("TIPC_NLA_LINK_MTU", None); ("TIPC_NLA_LINK_BROADCAST", None); ("TIPC_NLA_LINK_UP", None);
    ("TIPC_NLA_LINK_ACTIVE", None); ("TIPC_NLA_LINK_PROP", None); ("TIPC_NLA_LINK_STATS", None);
    ("TIPC_NLA_LINK_RX", None); ("TIPC_NLA_LINK_TX", None); ("__TIPC_NLA_LINK_MAX", None);
    ("TIPC_NLA_LINK_MAX", Some (Sub (Id "__TIPC_NLA_LINK_MAX") (dec 1)))];
  Enum [
    ("TIPC_NLA_MEDIA_UNSPEC", None); ("TIPC_NLA_MEDIA_NAME", None);
    ("TIPC_NLA_MEDIA_PROP", None); ("__TIPC_NLA_MEDIA_MAX", None);
    ("TIPC_NLA_MEDIA_MAX", Some (Sub (Id "__TIPC_NLA_MEDIA_MAX") (dec 1)))];
  Enum [
    ("TIPC_NLA_NODE_UNSPEC", None); ("TIPC_NLA_NODE_ADDR", None); ("TIPC_NLA_NODE_UP", None);
    ("__TIPC_NLA_NODE_MAX", None);
    ("TIPC_NLA_NODE_MAX", Some (Sub (Id "__TIPC_NLA_NODE_MAX") (dec 1)))];
  Enum [
    ("TIPC_NLA_NET_UNSPEC", None); ("TIPC_NLA_NET_ID", None); ("TIPC_NLA_NET_ADDR", None);
    ("__TIPC_NLA_NET_MAX", None);
    ("TIPC_NLA_NET_MAX", Some (Sub (Id "__TIPC_NLA_NET_MAX") (dec 1)))];
  Enum [
    ("TIPC_NLA_NAME_TABLE_UNSPEC", None); ("TIPC_NLA_NAME_TABLE_PUBL", None);
    ("__TIPC_NLA_NAME_TABLE_MAX", None);
    ("TIPC_NLA_NAME_TABLE_MAX", Some (Sub (Id "__TIPC_NLA_NAME_TABLE_MAX") (dec 1)))];
  Enum [
    ("TIPC_NLA_PUBL_UNSPEC", None); ("TIPC_NLA_PUBL_TYPE", None); ("TIPC_NLA_PUBL_LOWER", None);
    ("TIPC_NLA_PUBL_UPPER", None); ("TIPC_NLA_PUBL_SCOPE", None); ("TIPC_NLA_PUBL_NODE", None);
    ("TIPC_NLA_PUBL_REF", None); ("TIPC_NLA_PUBL_KEY", None); ("__TIPC_NLA_PUBL_MAX", None);
    ("TIPC_NLA_PUBL_MAX", Some (Sub (Id "__TIPC_NLA_PUBL_MAX") (dec 1)))]].
Definition enum_TIPC_NLA_CON_UNSPEC : list decl := [
  Enum [
    ("TIPC_NLA_CON_UNSPEC", None); ("TIPC_NLA_CON_FLAG", None); ("TIPC_NLA_CON_NODE", None);
    ("TIPC_NLA_CON_SOCK", None); ("TIPC_NLA_CON_TYPE", None); ("TIPC_NLA_CON_INST", None);
    ("__TIPC_NLA_CON_MAX", None);
    ("TIPC_NLA_CON_MAX", Some (Sub (Id "__TIPC_NLA_CON_MAX") (dec 1)))];
  Enum [
    ("TIPC_NLA_PROP_UNSPEC", None); ("TIPC_NLA_PROP_PRIO", None); ("TIPC_NLA_PROP_TOL", None);
    ("TIPC_NLA_PROP_WIN", None); ("__TIPC_NLA_PROP_MAX", None);
    ("TIPC_NLA_PROP_MAX", Some (Sub (Id "__TIPC_NLA_PROP_MAX") (dec 1)))];
  Enum [
    ("TIPC_NLA_STATS_UNSPEC", None); ("TIPC_NLA_STATS_RX_INFO", None);
    ("TIPC_NLA_STATS_RX_FRAGMENTS", None); ("TIPC_NLA_STATS_RX_FRAGMENTED", None);
    ("TIPC_NLA_STATS_RX_BUNDLES", None); ("TIPC_NLA_STATS_RX_BUNDLED", None);
    ("TIPC_NLA_STATS_TX_INFO", None); ("TIPC_NLA_STATS_TX_FRAGMENTS", None);
    ("TIPC_NLA_STATS_TX_FRAGMENTED", None); ("TIPC_NLA_STATS_TX_BUNDLES", None);
    ("TIPC_NLA_STATS_TX_BUNDLED", None); ("TIPC_NLA_STATS_MSG_PROF_TOT", None);
    ("TIPC_NLA_STATS_MSG_LEN_CNT", None); ("TIPC_NLA_STATS_MSG_LEN_TOT", None);
    ("TIPC_NLA_STATS_MSG_LEN_P0", None); ("TIPC_NLA_STATS_MSG_LEN_P1", None);
    ("TIPC_NLA_STATS_MSG_LEN_P2", None); ("TIPC_NLA_STATS_MSG_LEN_P3", None);
    ("TIPC_NLA_STATS_MSG_LEN_P4", None); ("TIPC_NLA_STATS_MSG_LEN_P5", None);
    ("TIPC_NLA_STATS_MSG_LEN_P6", None); ("TIPC_NLA_STATS_RX_STATES", None);
    ("TIPC_NLA_STATS_RX_PROBES", None); ("TIPC_NLA_STATS_RX_NACKS", None);
    ("TIPC_NLA_STATS_RX_DEFERRED", None); ("TIPC_NLA_STATS_TX_STATES", None);
    ("TIPC_NLA_STATS_TX_PROBES", None); ("TIPC_NLA_STATS_TX_NACKS", None);
    ("TIPC_NLA_STATS_TX_ACKS", None); ("TIPC_NLA_STATS_RETRANSMITTED", None);
    ("TIPC_NLA_STATS_DUPLICATES", None); ("TIPC_NLA_STATS_LINK_CONGS", None);
    ("TIPC_NLA_STATS_MAX_QUEUE", None); ("TIPC_NLA_STATS_AVG_QUEUE", None);
    ("__TIPC_NLA_STATS_MAX", None);
    ("TIPC_NLA_STATS_MAX", Some (Sub (Id "__TIPC_NLA_STATS_MAX") (dec 1)))]].
Definition header : header :=
  Header "linux/tipc_netlink.h" [] (concat [
    enum_TIPC_NL_UNSPEC; enum_TIPC_NLA_CON_UNSPEC]).
End Tipc_netlink.

(** ** [linux/tty.h] *)

Module Tty.
Definition defs_NR_LDISCS : list decl := [
  Defines [
    ("NR_LDISCS", dec 30); ("N_TTY", dec 0); ("N_SLIP", dec 1); ("N_MOUSE", dec 2);
    ("N_PPP", dec 3); ("N_STRIP", dec 4); ("N_AX25", dec 5); ("N_X25", dec 6);
    ("N_6PACK", dec 7); ("N_MASC", dec 8); ("N_R3964", dec 9); ("N_PROFIBUS_FDL", dec 10);
    ("N_IRDA", dec 11); ("N_SMSBLOCK", dec 12); ("N_HDLC", dec 13); ("N_SYNC_PPP", dec 14);
    ("N_HCI", dec 15); ("N_GIGASET_M101", dec 16); ("N_SLCAN", dec 17); ("N_PPS", dec 18);
    ("N_V253", dec 19); ("N_CAIF", dec 20); ("N_GSM0710", dec 21); ("N_TI_WL", dec 22);
    ("N_TRACESINK", dec 23); ("N_TRACEROUTER", dec 24); ("N_NCI", dec 25)]].
Definition header : header :=
  Header "linux/tty.h" [] (concat [
    defs_NR_LDISCS]).
End Tty.

(** ** [linux/uhid.h] *)

Module Uhid.
Definition enum_uhid_event_type : list decl := [
  Enum [
    ("__UHID_LEGACY_CREATE", None); ("UHID_DESTROY", None); ("UHID_START", None);
    ("UHID_STOP", None); ("UHID_OPEN", None); ("UHID_CLOSE", None); ("UHID_OUTPUT", None);
    ("__UHID_LEGACY_OUTPUT_EV", None); ("__UHID_LEGACY_INPUT", None); ("UHID_GET_REPORT", None);
    ("UHID_GET_REPORT_REPLY", None); ("UHID_CREATE2", None); ("UHID_INPUT2", None);
    ("UHID_SET_REPORT", None); ("UHID_SET_REPORT_REPLY", None)]].
Definition enum_uhid_dev_flag : list decl := [
  Enum [
    ("UHID_DEV_NUMBERED_FEATURE_REPORTS", Some (Shl (decULL 1) (dec 0)));
    ("UHID_DEV_NUMBERED_OUTPUT_REPORTS", Some (Shl (decULL 1) (dec 1)));
    ("UHID_DEV_NUMBERED_INPUT_REPORTS", Some (Shl (decULL 1) (dec 2)))]].
Definition enum_uhid_report_type : list decl := [
  Enum [
    ("UHID_FEATURE_REPORT", None); ("UHID_OUTPUT_REPORT", None); ("UHID_INPUT_REPORT", None)]].
Definition enum_uhid_legacy_event_type : list decl := [
  Enum [
    ("UHID_CREATE", Some (Id "__UHID_LEGACY_CREATE"));
    ("UHID_OUTPUT_EV", Some (Id "__UHID_LEGACY_OUTPUT_EV"));
    ("UHID_INPUT", Some (Id "__UHID_LEGACY_INPUT"));
    ("UHID_FEATURE", Some (Id "UHID_GET_REPORT"));
    ("UHID_FEATURE_ANSWER", Some (Id "UHID_GET_REPORT_REPLY"))]].
Definition header : header :=
  Header "linux/uhid.h" [] (concat [
    enum_uhid_event_type; enum_uhid_dev_flag; enum_uhid_report_type; enum_uhid_legacy_event_type]).
End Uhid.

(** ** [linux/uinput.h] *)

Module Uinput.
Definition defs_EV_UINPUT : list decl := [
  Defines [
    ("EV_UINPUT", hex 0x0101); ("UI_FF_UPLOAD", dec 1); ("UI_FF_ERASE", dec 2);
    ("UINPUT_MAX_NAME_SIZE", dec 80)]].
Definition header : header :=
  Header "linux/uinput.h" [] (concat [
    defs_EV_UINPUT]).
End Uinput.

(** ** [linux/ultrasound.h] *)

Module Ultrasound.
Definition defs__GUS_NUMVOICES : list decl := [
  Defines [
    ("_GUS_NUMVOICES", hex 0x00); ("_GUS_VOICESAMPLE", hex 0x01); ("_GUS_VOICEON", hex 0x02);
    ("_GUS_VOICEOFF", hex 0x03); ("_GUS_VOICEMODE", hex 0x04); ("_GUS_VOICEBALA", hex 0x05);
    ("_GUS_VOICEFREQ", hex 0x06); ("_GUS_VOICEVOL", hex 0x07); ("_GUS_RAMPRANGE", hex 0x08);
    ("_GUS_RAMPRATE", hex 0x09); ("_GUS_RAMPMODE", hex 0x0a); ("_GUS_RAMPON", hex 0x0b);
    ("_GUS_RAMPOFF", hex 0x0c); ("_GUS_VOICEFADE", hex 0x0d); ("_GUS_VOLUME_SCALE", hex 0x0e);
    ("_GUS_VOICEVOL2", hex 0x0f); ("_GUS_VOICE_POS", hex 0x10)]].
Definition header : header :=
  Header "linux/ultrasound.h" [] (concat [
    defs__GUS_NUMVOICES]).
End Ultrasound.

(** ** [linux/unix_diag.h] *)

Module Unix_diag.
Definition defs_UDIAG_SHOW_NAME : list decl := [
  Defines [
    ("UDIAG_SHOW_NAME", hex 0x00000001); ("UDIAG_SHOW_VFS", hex 0x00000002);
    ("UDIAG_SHOW_PEER", hex 0x00000004); ("UDIAG_SHOW_ICONS", hex 0x00000008);
    ("UDIAG_SHOW_RQLEN", hex 0x00000010); ("UDIAG_SHOW_MEMINFO", hex 0x00000020)]].
Definition enum_UNIX_DIAG_NAME : list decl := [
  Enum [
    ("UNIX_DIAG_NAME", None); ("UNIX_DIAG_VFS", None); ("UNIX_DIAG_PEER", None);
    ("UNIX_DIAG_ICONS", None); ("UNIX_DIAG_RQLEN", None); ("UNIX_DIAG_MEMINFO", None);
    ("UNIX_DIAG_SHUTDOWN", None); ("__UNIX_DIAG_MAX", None)];
  Defines [
    ("UNIX_DIAG_MAX", Sub (Id "__UNIX_DIAG_MAX") (dec 1))]].
Definition header : header :=
  Header "linux/unix_diag.h" [] (concat [
    defs_UDIAG_SHOW_NAME; enum_UNIX_DIAG_NAME]).
End Unix_diag.

(** ** [linux/usb/audio.h] *)

Module Usb_audio.
Definition defs_UAC_VERSION_1 : list decl := [
  Defines [
    ("UAC_VERSION_1", hex 0x00); ("UAC_VERSION_2", hex 0x20); ("UAC_VERSION_3", hex 0x30);
    ("USB_SUBCLASS_AUDIOCONTROL", hex 0x01); ("USB_SUBCLASS_AUDIOSTREAMING", hex 0x02);
    ("USB_SUBCLASS_MIDISTREAMING", hex 0x03); ("UAC_HEADER", hex 0x01);
    ("UAC_INPUT_TERMINAL", hex 0x02); ("UAC_OUTPUT_TERMINAL", hex 0x03);
    ("UAC_MIXER_UNIT", hex 0x04); ("UAC_SELECTOR_UNIT", hex 0x05);
    ("UAC_FEATURE_UNIT", hex 0x06); ("UAC1_PROCESSING_UNIT", hex 0x07);
    ("UAC1_EXTENSION_UNIT", hex 0x08); ("UAC_AS_GENERAL", hex 0x01);
    ("UAC_FORMAT_TYPE", hex 0x02); ("UAC_FORMAT_SPECIFIC", hex 0x03);
    ("UAC_PROCESS_UNDEFINED", hex 0x00); ("UAC_PROCESS_UP_DOWNMIX", hex 0x01);
    ("UAC_PROCESS_DOLBY_PROLOGIC", hex 0x02); ("UAC_PROCESS_STEREO_EXTENDER", hex 0x03);
    ("UAC_PROCESS_REVERB", hex 0x04); ("UAC_PROCESS_CHORUS", hex 0x05);
    ("UAC_PROCESS_DYN_RANGE_COMP", hex 0x06); ("UAC_EP_GENERAL", hex 0x01);
    ("UAC_SET_", hex 0x00); ("UAC_GET_", hex 0x80); ("UAC__CUR", hex 0x1); ("UAC__MIN", hex 0x2);
    ("UAC__MAX", hex 0x3); ("UAC__RES", hex 0x4); ("UAC__MEM", hex 0x5);
    ("UAC_SET_CUR", Or (Id "UAC_SET_") (Id "UAC__CUR"));
    ("UAC_GET_CUR", Or (Id "UAC_GET_") (Id "UAC__CUR"));
    ("UAC_SET_MIN", Or (Id "UAC_SET_") (Id "UAC__MIN"));
    ("UAC_GET_MIN", Or (Id "UAC_GET_") (Id "UAC__MIN"));
    ("UAC_SET_MAX", Or (Id "UAC_SET_") (Id "UAC__MAX"));
    ("UAC_GET_MAX", Or (Id "UAC_GET_") (Id "UAC__MAX"));
    ("UAC_SET_RES", Or (Id "UAC_SET_") (Id "UAC__RES"));
    ("UAC_GET_RES", Or (Id "UAC_GET_") (Id "UAC__RES"));
    ("UAC_SET_MEM", Or (Id "UAC_SET_") (Id "UAC__MEM"));
    ("UAC_GET_MEM", Or (Id "UAC_GET_") (Id "UAC__MEM")); ("UAC_GET_STAT", hex 0xff)];
  Defines [
    ("UAC_TERM_COPY_PROTECT", hex 0x01); ("UAC_FU_MUTE", hex 0x01); ("UAC_FU_VOLUME", hex 0x02);
    ("UAC_FU_BASS", hex 0x03); ("UAC_FU_MID", hex 0x04); ("UAC_FU_TREBLE", hex 0x05);
    ("UAC_FU_GRAPHIC_EQUALIZER", hex 0x06); ("UAC_FU_AUTOMATIC_GAIN", hex 0x07);
    ("UAC_FU_DELAY", hex 0x08); ("UAC_FU_BASS_BOOST", hex 0x09); ("UAC_FU_LOUDNESS", hex 0x0a)]].
Definition defs_UAC_UD_ENABLE : list decl := [
  Defines [
    ("UAC_UD_ENABLE", hex 0x01); ("UAC_UD_MODE_SELECT", hex 0x02); ("UAC_DP_ENABLE", hex 0x01);
    ("UAC_DP_MODE_SELECT", hex 0x02); ("UAC_3D_ENABLE", hex 0x01); ("UAC_3D_SPACE", hex 0x02);
    ("UAC_REVERB_ENABLE", hex 0x01); ("UAC_REVERB_LEVEL", hex 0x02);
    ("UAC_REVERB_TIME", hex 0x03); ("UAC_REVERB_FEEDBACK", hex 0x04);
    ("UAC_CHORUS_ENABLE", hex 0x01); ("UAC_CHORUS_LEVEL", hex 0x02);
    ("UAC_CHORUS_RATE", hex 0x03); ("UAC_CHORUS_DEPTH", hex 0x04); ("UAC_DCR_ENABLE", hex 0x01);
    ("UAC_DCR_RATE", hex 0x02); ("UAC_DCR_MAXAMPL", hex 0x03); ("UAC_DCR_THRESHOLD", hex 0x04);
    ("UAC_DCR_ATTACK_TIME", hex 0x05); ("UAC_DCR_RELEASE_TIME", hex 0x06);
    ("UAC_XU_ENABLE", hex 0x01); ("UAC_MS_HEADER", hex 0x01); ("UAC_MIDI_IN_JACK", hex 0x02);
    ("UAC_MIDI_OUT_JACK", hex 0x03); ("UAC_MS_GENERAL", hex 0x01);
    ("UAC_TERMINAL_UNDEFINED", hex 0x100); ("UAC_TERMINAL_STREAMING", hex 0x101);
    ("UAC_TERMINAL_VENDOR_SPEC", hex 0x1FF)]].
Definition defs_UAC_DT_INPUT_TERMINAL_SIZE : list decl := [
  Defines [
    ("UAC_DT_INPUT_TERMINAL_SIZE", dec 12); ("UAC_INPUT_TERMINAL_UNDEFINED", hex 0x200);
    ("UAC_INPUT_TERMINAL_MICROPHONE", hex 0x201);
    ("UAC_INPUT_TERMINAL_DESKTOP_MICROPHONE", hex 0x202);
    ("UAC_INPUT_TERMINAL_PERSONAL_MICROPHONE", hex 0x203);
    ("UAC_INPUT_TERMINAL_OMNI_DIR_MICROPHONE", hex 0x204);
    ("UAC_INPUT_TERMINAL_MICROPHONE_ARRAY", hex 0x205);
    ("UAC_INPUT_TERMINAL_PROC_MICROPHONE_ARRAY", hex 0x206);
    ("UAC_TERMINAL_CS_COPY_PROTECT_CONTROL", hex 0x01)]].
Definition defs_UAC_DT_OUTPUT_TERMINAL_SIZE : list decl := [
  Defines [
    ("UAC_DT_OUTPUT_TERMINAL_SIZE", dec 9); ("UAC_OUTPUT_TERMINAL_UNDEFINED", hex 0x300);
    ("UAC_OUTPUT_TERMINAL_SPEAKER", hex 0x301); ("UAC_OUTPUT_TERMINAL_HEADPHONES", hex 0x302);
    ("UAC_OUTPUT_TERMINAL_HEAD_MOUNTED_DISPLAY_AUDIO", hex 0x303);
    ("UAC_OUTPUT_TERMINAL_DESKTOP_SPEAKER", hex 0x304);
    ("UAC_OUTPUT_TERMINAL_ROOM_SPEAKER", hex 0x305);
    ("UAC_OUTPUT_TERMINAL_COMMUNICATION_SPEAKER", hex 0x306);
    ("UAC_OUTPUT_TERMINAL_LOW_FREQ_EFFECTS_SPEAKER", hex 0x307)]].
Definition defs_UAC_DT_AS_HEADER_SIZE : list decl := [
  Defines [
    ("UAC_DT_AS_HEADER_SIZE", dec 7); ("UAC_FORMAT_TYPE_I_UNDEFINED", hex 0x0);
    ("UAC_FORMAT_TYPE_I_PCM", hex 0x1); ("UAC_FORMAT_TYPE_I_PCM8", hex 0x2);
    ("UAC_FORMAT_TYPE_I_IEEE_FLOAT", hex 0x3); ("UAC_FORMAT_TYPE_I_ALAW", hex 0x4);
    ("UAC_FORMAT_TYPE_I_MULAW", hex 0x5)]].
Definition defs_UAC_FORMAT_TYPE_III_IEC1937_AC3 : list decl := [
  Defines [
    ("UAC_FORMAT_TYPE_III_IEC1937_AC3", hex 0x2001);
    ("UAC_FORMAT_TYPE_III_IEC1937_MPEG1_LAYER1", hex 0x2002);
    ("UAC_FORMAT_TYPE_III_IEC1937_MPEG2_NOEXT", hex 0x2003);
    ("UAC_FORMAT_TYPE_III_IEC1937_MPEG2_EXT", hex 0x2004);
    ("UAC_FORMAT_TYPE_III_IEC1937_MPEG2_LAYER1_LS", hex 0x2005);
    ("UAC_FORMAT_TYPE_III_IEC1937_MPEG2_LAYER23_LS", hex 0x2006);
    ("UAC_FORMAT_TYPE_UNDEFINED", hex 0x0); ("UAC_FORMAT_TYPE_I", hex 0x1);
    ("UAC_FORMAT_TYPE_II", hex 0x2); ("UAC_FORMAT_TYPE_III", hex 0x3);
    ("UAC_EXT_FORMAT_TYPE_I", hex 0x81); ("UAC_EXT_FORMAT_TYPE_II", hex 0x82);
    ("UAC_EXT_FORMAT_TYPE_III", hex 0x83)]].
Definition defs_UAC_ISO_ENDPOINT_DESC_SIZE : list decl := [
  Defines [
    ("UAC_ISO_ENDPOINT_DESC_SIZE", dec 7); ("UAC_EP_CS_ATTR_SAMPLE_RATE", hex 0x01);
    ("UAC_EP_CS_ATTR_PITCH_CONTROL", hex 0x02); ("UAC_EP_CS_ATTR_FILL_MAX", hex 0x80);
    ("UAC1_STATUS_TYPE_ORIG_MASK", hex 0x0f);
    ("UAC1_STATUS_TYPE_ORIG_AUDIO_CONTROL_IF", hex 0x0);
    ("UAC1_STATUS_TYPE_ORIG_AUDIO_STREAM_IF", hex 0x1);
    ("UAC1_STATUS_TYPE_ORIG_AUDIO_STREAM_EP", hex 0x2);
    ("UAC1_STATUS_TYPE_IRQ_PENDING", Shl (dec 1) (dec 7));
    ("UAC1_STATUS_TYPE_MEM_CHANGED", Shl (dec 1) (dec 6))]].
Definition header : header :=
  Header "linux/usb/audio.h" [] (concat [
    defs_UAC_VERSION_1; defs_UAC_UD_ENABLE; defs_UAC_DT_INPUT_TERMINAL_SIZE;
    defs_UAC_DT_OUTPUT_TERMINAL_SIZE; defs_UAC_DT_AS_HEADER_SIZE;
    defs_UAC_FORMAT_TYPE_III_IEC1937_AC3; defs_UAC_ISO_ENDPOINT_DESC_SIZE]).
End Usb_audio.

(** ** [linux/usb/cdc.h] *)

Module Usb_cdc.
Definition defs_USB_CDC_SUBCLASS_ACM : list decl := [
  Defines [
    ("USB_CDC_SUBCLASS_ACM", hex 0x02); ("USB_CDC_SUBCLASS_ETHERNET", hex 0x06);
    ("USB_CDC_SUBCLASS_WHCM", hex 0x08); ("USB_CDC_SUBCLASS_DMM", hex 0x09);
    ("USB_CDC_SUBCLASS_MDLM", hex 0x0a); ("USB_CDC_SUBCLASS_OBEX", hex 0x0b);
    ("USB_CDC_SUBCLASS_EEM", hex 0x0c); ("USB_CDC_SUBCLASS_NCM", hex 0x0d);
    ("USB_CDC_SUBCLASS_MBIM", hex 0x0e); ("USB_CDC_PROTO_NONE", dec 0);
    ("USB_CDC_ACM_PROTO_AT_V25TER", dec 1); ("USB_CDC_ACM_PROTO_AT_PCCA101", dec 2);
    ("USB_CDC_ACM_PROTO_AT_PCCA101_WAKE", dec 3); ("USB_CDC_ACM_PROTO_AT_GSM", dec 4);
    ("USB_CDC_ACM_PROTO_AT_3G", dec 5); ("USB_CDC_ACM_PROTO_AT_CDMA", dec 6);
    ("USB_CDC_ACM_PROTO_VENDOR", hex 0xff); ("USB_CDC_PROTO_EEM", dec 7);
    ("USB_CDC_NCM_PROTO_NTB", dec 1); ("USB_CDC_MBIM_PROTO_NTB", dec 2)];
  Defines [
    ("USB_CDC_HEADER_TYPE", hex 0x00); ("USB_CDC_CALL_MANAGEMENT_TYPE", hex 0x01);
    ("USB_CDC_ACM_TYPE", hex 0x02); ("USB_CDC_UNION_TYPE", hex 0x06);
    ("USB_CDC_COUNTRY_TYPE", hex 0x07); ("USB_CDC_NETWORK_TERMINAL_TYPE", hex 0x0a);
    ("USB_CDC_ETHERNET_TYPE", hex 0x0f); ("USB_CDC_WHCM_TYPE", hex 0x11);
    ("USB_CDC_MDLM_TYPE", hex 0x12); ("USB_CDC_MDLM_DETAIL_TYPE", hex 0x13);
    ("USB_CDC_DMM_TYPE", hex 0x14); ("USB_CDC_OBEX_TYPE", hex 0x15);
    ("USB_CDC_NCM_TYPE", hex 0x1a); ("USB_CDC_MBIM_TYPE", hex 0x1b);
    ("USB_CDC_MBIM_EXTENDED_TYPE", hex 0x1c)]].
Definition defs_USB_CDC_COMM_FEATURE : list decl := [
  Defines [
    ("USB_CDC_COMM_FEATURE", hex 0x01); ("USB_CDC_CAP_LINE", hex 0x02);
    ("USB_CDC_CAP_BRK", hex 0x04); ("USB_CDC_CAP_NOTIFY", hex 0x08)]].
Definition defs_USB_CDC_SEND_ENCAPSULATED_COMMAND : list decl := [
  Defines [
    ("USB_CDC_SEND_ENCAPSULATED_COMMAND", hex 0x00);
    ("USB_CDC_GET_ENCAPSULATED_RESPONSE", hex 0x01); ("USB_CDC_RESET_FUNCTION", hex 0x05);
    ("USB_CDC_REQ_SET_LINE_CODING", hex 0x20); ("USB_CDC_REQ_GET_LINE_CODING", hex 0x21);
    ("USB_CDC_REQ_SET_CONTROL_LINE_STATE", hex 0x22); ("USB_CDC_REQ_SEND_BREAK", hex 0x23);
    ("USB_CDC_SET_ETHERNET_MULTICAST_FILTERS", hex 0x40);
    ("USB_CDC_SET_ETHERNET_PM_PATTERN_FILTER", hex 0x41);
    ("USB_CDC_GET_ETHERNET_PM_PATTERN_FILTER", hex 0x42);
    ("USB_CDC_SET_ETHERNET_PACKET_FILTER", hex 0x43);
    ("USB_CDC_GET_ETHERNET_STATISTIC", hex 0x44); ("USB_CDC_GET_NTB_PARAMETERS", hex 0x80);
    ("USB_CDC_GET_NET_ADDRESS", hex 0x81); ("USB_CDC_SET_NET_ADDRESS", hex 0x82);
    ("USB_CDC_GET_NTB_FORMAT", hex 0x83); ("USB_CDC_SET_NTB_FORMAT", hex 0x84);
    ("USB_CDC_GET_NTB_INPUT_SIZE", hex 0x85); ("USB_CDC_SET_NTB_INPUT_SIZE", hex 0x86);
    ("USB_CDC_GET_MAX_DATAGRAM_SIZE", hex 0x87); ("USB_CDC_SET_MAX_DATAGRAM_SIZE", hex 0x88);
    ("USB_CDC_GET_CRC_MODE", hex 0x89); ("USB_CDC_SET_CRC_MODE", hex 0x8a)]].
Definition defs_USB_CDC_PACKET_TYPE_PROMISCUOUS : list decl := [
  Defines [
    ("USB_CDC_PACKET_TYPE_PROMISCUOUS", Shl (dec 1) (dec 0));
    ("USB_CDC_PACKET_TYPE_ALL_MULTICAST", Shl (dec 1) (dec 1));
    ("USB_CDC_PACKET_TYPE_DIRECTED", Shl (dec 1) (dec 2));
    ("USB_CDC_PACKET_TYPE_BROADCAST", Shl (dec 1) (dec 3));
    ("USB_CDC_PACKET_TYPE_MULTICAST", Shl (dec 1) (dec 4))];
  Defines [
    ("USB_CDC_NOTIFY_NETWORK_CONNECTION", hex 0x00);
    ("USB_CDC_NOTIFY_RESPONSE_AVAILABLE", hex 0x01); ("USB_CDC_NOTIFY_SERIAL_STATE", hex 0x20);
    ("USB_CDC_NOTIFY_SPEED_CHANGE", hex 0x2a)]].
Definition defs_USB_CDC_NCM_NDP16_CRC_SIGN : list decl := [
  Defines [
    ("USB_CDC_NCM_NDP16_CRC_SIGN", hex 0x314D434E);
    ("USB_CDC_NCM_NDP16_NOCRC_SIGN", hex 0x304D434E);
    ("USB_CDC_NCM_NDP32_CRC_SIGN", hex 0x316D636E);
    ("USB_CDC_NCM_NDP32_NOCRC_SIGN", hex 0x306D636E);
    ("USB_CDC_MBIM_NDP16_IPS_SIGN", hex 0x00535049);
    ("USB_CDC_MBIM_NDP32_IPS_SIGN", hex 0x00737069);
    ("USB_CDC_MBIM_NDP16_DSS_SIGN", hex 0x00535344);
    ("USB_CDC_MBIM_NDP32_DSS_SIGN", hex 0x00737364)]].
Definition defs_USB_CDC_NCM_NDP16_INDEX_MIN : list decl := [
  Defines [
    ("USB_CDC_NCM_NDP16_INDEX_MIN", hex 0x000C); ("USB_CDC_NCM_NDP32_INDEX_MIN", hex 0x0010);
    ("USB_CDC_NCM_DATAGRAM_FORMAT_CRC", hex 0x30);
    ("USB_CDC_NCM_DATAGRAM_FORMAT_NOCRC", hex 0x31);
    ("USB_CDC_NCM_PROTO_CODE_NO_ENCAP_COMMANDS", hex 0x00);
    ("USB_CDC_NCM_PROTO_CODE_EXTERN_PROTO", hex 0xFE);
    ("USB_CDC_NCM_NCAP_ETH_FILTER", Shl (dec 1) (dec 0));
    ("USB_CDC_NCM_NCAP_NET_ADDRESS", Shl (dec 1) (dec 1));
    ("USB_CDC_NCM_NCAP_ENCAP_COMMAND", Shl (dec 1) (dec 2));
    ("USB_CDC_NCM_NCAP_MAX_DATAGRAM_SIZE", Shl (dec 1) (dec 3));
    ("USB_CDC_NCM_NCAP_CRC_MODE", Shl (dec 1) (dec 4));
    ("USB_CDC_NCM_NCAP_NTB_INPUT_SIZE", Shl (dec 1) (dec 5));
    ("USB_CDC_NCM_NTB16_SUPPORTED", Shl (dec 1) (dec 0));
    ("USB_CDC_NCM_NTB32_SUPPORTED", Shl (dec 1) (dec 1));
    ("USB_CDC_NCM_NDP_ALIGN_MIN_SIZE", hex 0x04); ("USB_CDC_NCM_NTB_MAX_LENGTH", hex 0x1C);
    ("USB_CDC_NCM_NTB16_FORMAT", hex 0x00); ("USB_CDC_NCM_NTB32_FORMAT", hex 0x01);
    ("USB_CDC_NCM_NTB_MIN_IN_SIZE", dec 2048); ("USB_CDC_NCM_NTB_MIN_OUT_SIZE", dec 2048)]].
Definition header : header :=
  Header "linux/usb/cdc.h" [] (concat [
    defs_USB_CDC_SUBCLASS_ACM; defs_USB_CDC_COMM_FEATURE; defs_USB_CDC_SEND_ENCAPSULATED_COMMAND;
    defs_USB_CDC_PACKET_TYPE_PROMISCUOUS; defs_USB_CDC_NCM_NDP16_CRC_SIGN;
    defs_USB_CDC_NCM_NDP16_INDEX_MIN]).
End Usb_cdc.

(** ** [linux/usb/ch11.h] *)

Module Usb_ch11.
Definition defs_HUB_CLEAR_TT_BUFFER : list decl := [
  Defines [
    ("HUB_CLEAR_TT_BUFFER", dec 8); ("HUB_RESET_TT", dec 9); ("HUB_GET_TT_STATE", dec 10);
    ("HUB_STOP_TT", dec 11)]].
Definition defs_USB_PORT_FEAT_CONNECTION : list decl := [
  Defines [
    ("USB_PORT_FEAT_CONNECTION", dec 0); ("USB_PORT_FEAT_ENABLE", dec 1);
    ("USB_PORT_FEAT_SUSPEND", dec 2); ("USB_PORT_FEAT_OVER_CURRENT", dec 3);
    ("USB_PORT_FEAT_RESET", dec 4); ("USB_PORT_FEAT_L1", dec 5); ("USB_PORT_FEAT_POWER", dec 8);
    ("USB_PORT_FEAT_LOWSPEED", dec 9); ("USB_PORT_FEAT_C_CONNECTION", dec 16);
    ("USB_PORT_FEAT_C_ENABLE", dec 17); ("USB_PORT_FEAT_C_SUSPEND", dec 18);
    ("USB_PORT_FEAT_C_OVER_CURRENT", dec 19); ("USB_PORT_FEAT_C_RESET", dec 20);
    ("USB_PORT_FEAT_TEST", dec 21); ("USB_PORT_FEAT_INDICATOR", dec 22);
    ("USB_PORT_FEAT_C_PORT_L1", dec 23)];
  Defines [
    ("USB_PORT_FEAT_LINK_STATE", dec 5); ("USB_PORT_FEAT_U1_TIMEOUT", dec 23);
    ("USB_PORT_FEAT_U2_TIMEOUT", dec 24); ("USB_PORT_FEAT_C_PORT_LINK_STATE", dec 25);
    ("USB_PORT_FEAT_C_PORT_CONFIG_ERROR", dec 26); ("USB_PORT_FEAT_REMOTE_WAKE_MASK", dec 27);
    ("USB_PORT_FEAT_BH_PORT_RESET", dec 28); ("USB_PORT_FEAT_C_BH_PORT_RESET", dec 29);
    ("USB_PORT_FEAT_FORCE_LINKPM_ACCEPT", dec 30)]].
Definition defs_USB_PORT_STAT_CONNECTION : list decl := [
  Defines [
    ("USB_PORT_STAT_CONNECTION", hex 0x0001); ("USB_PORT_STAT_ENABLE", hex 0x0002);
    ("USB_PORT_STAT_SUSPEND", hex 0x0004); ("USB_PORT_STAT_OVERCURRENT", hex 0x0008);
    ("USB_PORT_STAT_RESET", hex 0x0010); ("USB_PORT_STAT_L1", hex 0x0020);
    ("USB_PORT_STAT_POWER", hex 0x0100); ("USB_PORT_STAT_LOW_SPEED", hex 0x0200);
    ("USB_PORT_STAT_HIGH_SPEED", hex 0x0400); ("USB_PORT_STAT_TEST", hex 0x0800);
    ("USB_PORT_STAT_INDICATOR", hex 0x1000)];
  Defines [
    ("USB_PORT_STAT_LINK_STATE", hex 0x01e0); ("USB_SS_PORT_STAT_POWER", hex 0x0200);
    ("USB_SS_PORT_STAT_SPEED", hex 0x1c00); ("USB_PORT_STAT_SPEED_5GBPS", hex 0x0000);
    ("USB_SS_PORT_STAT_MASK", Or (Or (Or (Id "USB_PORT_STAT_CONNECTION") (Id "USB_PORT_STAT_ENABLE")) (Id "USB_PORT_STAT_OVERCURRENT")) (Id "USB_PORT_STAT_RESET"))];
  Defines [
    ("USB_SS_PORT_LS_U0", hex 0x0000); ("USB_SS_PORT_LS_U1", hex 0x0020);
    ("USB_SS_PORT_LS_U2", hex 0x0040); ("USB_SS_PORT_LS_U3", hex 0x0060);
    ("USB_SS_PORT_LS_SS_DISABLED", hex 0x0080); ("USB_SS_PORT_LS_RX_DETECT", hex 0x00a0);
    ("USB_SS_PORT_LS_SS_INACTIVE", hex 0x00c0); ("USB_SS_PORT_LS_POLLING", hex 0x00e0);
    ("USB_SS_PORT_LS_RECOVERY", hex 0x0100); ("USB_SS_PORT_LS_HOT_RESET", hex 0x0120);
    ("USB_SS_PORT_LS_COMP_MOD", hex 0x0140); ("USB_SS_PORT_LS_LOOPBACK", hex 0x0160)];
  Defines [
    ("USB_PORT_STAT_C_CONNECTION", hex 0x0001); ("USB_PORT_STAT_C_ENABLE", hex 0x0002);
    ("USB_PORT_STAT_C_SUSPEND", hex 0x0004); ("USB_PORT_STAT_C_OVERCURRENT", hex 0x0008);
    ("USB_PORT_STAT_C_RESET", hex 0x0010); ("USB_PORT_STAT_C_L1", hex 0x0020)]].
Definition defs_HUB_CHAR_LPSM : list decl := [
  Defines [
    ("HUB_CHAR_LPSM", hex 0x0003); ("HUB_CHAR_COMMON_LPSM", hex 0x0000);
    ("HUB_CHAR_INDV_PORT_LPSM", hex 0x0001); ("HUB_CHAR_NO_LPSM", hex 0x0002);
    ("HUB_CHAR_COMPOUND", hex 0x0004); ("HUB_CHAR_OCPM", hex 0x0018);
    ("HUB_CHAR_COMMON_OCPM", hex 0x0000); ("HUB_CHAR_INDV_PORT_OCPM", hex 0x0008);
    ("HUB_CHAR_NO_OCPM", hex 0x0010); ("HUB_CHAR_TTTT", hex 0x0060);
    ("HUB_CHAR_PORTIND", hex 0x0080)]].
Definition defs_HUB_STATUS_LOCAL_POWER : list decl := [
  Defines [
    ("HUB_STATUS_LOCAL_POWER", hex 0x0001); ("HUB_STATUS_OVERCURRENT", hex 0x0002);
    ("HUB_CHANGE_LOCAL_POWER", hex 0x0001); ("HUB_CHANGE_OVERCURRENT", hex 0x0002)];
  Defines [
    ("USB_DT_HUB", Or (Id "USB_TYPE_CLASS") (hex 0x09));
    ("USB_DT_SS_HUB", Or (Id "USB_TYPE_CLASS") (hex 0x0a)); ("USB_DT_HUB_NONVAR_SIZE", dec 7);
    ("USB_DT_SS_HUB_SIZE", dec 12)];
  Defines [
    ("USB_HUB_PR_FS", dec 0); ("USB_HUB_PR_HS_NO_TT", dec 0); ("USB_HUB_PR_HS_SINGLE_TT", dec 1);
    ("USB_HUB_PR_HS_MULTI_TT", dec 2); ("USB_HUB_PR_SS", dec 3)]].
Definition defs_HUB_LED_AUTO : list decl := [
  Defines [
    ("HUB_LED_AUTO", dec 0); ("HUB_LED_AMBER", dec 1); ("HUB_LED_GREEN", dec 2);
    ("HUB_LED_OFF", dec 3)];
  Enum [
    ("INDICATOR_AUTO", Some (dec 0)); ("INDICATOR_CYCLE", None); ("INDICATOR_GREEN_BLINK", None);
    ("INDICATOR_GREEN_BLINK_OFF", None); ("INDICATOR_AMBER_BLINK", None);
    ("INDICATOR_AMBER_BLINK_OFF", None); ("INDICATOR_ALT_BLINK", None);
    ("INDICATOR_ALT_BLINK_OFF", None)];
  Defines [
    ("HUB_TTTT_8_BITS", hex 0x00); ("HUB_TTTT_16_BITS", hex 0x20);
    ("HUB_TTTT_24_BITS", hex 0x40); ("HUB_TTTT_32_BITS", hex 0x60)]].
Definition header : header :=
  Header "linux/usb/ch11.h" [Usb_ch9.header] (concat [
    defs_HUB_CLEAR_TT_BUFFER; defs_USB_PORT_FEAT_CONNECTION; defs_USB_PORT_STAT_CONNECTION;
    defs_HUB_CHAR_LPSM; defs_HUB_STATUS_LOCAL_POWER; defs_HUB_LED_AUTO]).
End Usb_ch11.

(** ** [linux/usb/functionfs.h] *)

Module Usb_functionfs.
Definition enum_FUNCTIONFS_DESCRIPTORS_MAGIC : list decl := [
  Enum [
    ("FUNCTIONFS_DESCRIPTORS_MAGIC", Some (dec 1)); ("FUNCTIONFS_STRINGS_MAGIC", Some (dec 2));
    ("FUNCTIONFS_DESCRIPTORS_MAGIC_V2", Some (dec 3))];
  Enum [
    ("FUNCTIONFS_HAS_FS_DESC", Some (dec 1)); ("FUNCTIONFS_HAS_HS_DESC", Some (dec 2));
    ("FUNCTIONFS_HAS_SS_DESC", Some (dec 4)); ("FUNCTIONFS_HAS_MS_OS_DESC", Some (dec 8));
    ("FUNCTIONFS_VIRTUAL_ADDR", Some (dec 16)); ("FUNCTIONFS_EVENTFD", Some (dec 32))]].
Definition enum_usb_functionfs_event_type : list decl := [
  Enum [
    ("FUNCTIONFS_BIND", None); ("FUNCTIONFS_UNBIND", None); ("FUNCTIONFS_ENABLE", None);
    ("FUNCTIONFS_DISABLE", None); ("FUNCTIONFS_SETUP", None); ("FUNCTIONFS_SUSPEND", None);
    ("FUNCTIONFS_RESUME", None)]].
Definition header : header :=
  Header "linux/usb/functionfs.h" [] (concat [
    enum_FUNCTIONFS_DESCRIPTORS_MAGIC; enum_usb_functionfs_event_type]).
End Usb_functionfs.

(** ** [linux/usb/gadgetfs.h] *)

Module Usb_gadgetfs.
Definition enum_usb_gadgetfs_event_type : list decl := [
  Enum [
    ("GADGETFS_NOP", Some (dec 0)); ("GADGETFS_CONNECT", None); ("GADGETFS_DISCONNECT", None);
    ("GADGETFS_SETUP", None); ("GADGETFS_SUSPEND", None)]].
Definition header : header :=
  Header "linux/usb/gadgetfs.h" [] (concat [
    enum_usb_gadgetfs_event_type]).
End Usb_gadgetfs.

(** ** [linux/usb/midi.h] *)

Module Usb_midi.
Definition defs_USB_MS_HEADER : list decl := [
  Defines [
    ("USB_MS_HEADER", hex 0x01); ("USB_MS_MIDI_IN_JACK", hex 0x02);
    ("USB_MS_MIDI_OUT_JACK", hex 0x03); ("USB_MS_ELEMENT", hex 0x04);
    ("USB_MS_GENERAL", hex 0x01); ("USB_MS_EMBEDDED", hex 0x01); ("USB_MS_EXTERNAL", hex 0x02)]].
Definition header : header :=
  Header "linux/usb/midi.h" [] (concat [
    defs_USB_MS_HEADER]).
End Usb_midi.

(** ** [linux/usb/tmc.h] *)

Module Usb_tmc.
Definition defs_USBTMC_STATUS_SUCCESS : list decl := [
  Defines [
    ("USBTMC_STATUS_SUCCESS", hex 0x01); ("USBTMC_STATUS_PENDING", hex 0x02);
    ("USBTMC_STATUS_FAILED", hex 0x80); ("USBTMC_STATUS_TRANSFER_NOT_IN_PROGRESS", hex 0x81);
    ("USBTMC_STATUS_SPLIT_NOT_IN_PROGRESS", hex 0x82);
    ("USBTMC_STATUS_SPLIT_IN_PROGRESS", hex 0x83);
    ("USBTMC_REQUEST_INITIATE_ABORT_BULK_OUT", dec 1);
    ("USBTMC_REQUEST_CHECK_ABORT_BULK_OUT_STATUS", dec 2);
    ("USBTMC_REQUEST_INITIATE_ABORT_BULK_IN", dec 3);
    ("USBTMC_REQUEST_CHECK_ABORT_BULK_IN_STATUS", dec 4);
    ("USBTMC_REQUEST_INITIATE_CLEAR", dec 5); ("USBTMC_REQUEST_CHECK_CLEAR_STATUS", dec 6);
    ("USBTMC_REQUEST_GET_CAPABILITIES", dec 7); ("USBTMC_REQUEST_INDICATOR_PULSE", dec 64);
    ("USBTMC_IOC_NR", dec 91)]].
Definition header : header :=
  Header "linux/usb/tmc.h" [] (concat [
    defs_USBTMC_STATUS_SUCCESS]).
End Usb_tmc.

(** ** [linux/usb/usb_ctrl_qti.h] *)

Module Usb_usb_ctrl_qti.
Definition enum_peripheral_ep_type : list decl := [
  Enum [
    ("DATA_EP_TYPE_RESERVED", Some (hex 0x0)); ("DATA_EP_TYPE_HSIC", Some (hex 0x1));
    ("DATA_EP_TYPE_HSUSB", Some (hex 0x2)); ("DATA_EP_TYPE_PCIE", Some (hex 0x3));
    ("DATA_EP_TYPE_EMBEDDED", Some (hex 0x4)); ("DATA_EP_TYPE_BAM_DMUX", Some (hex 0x5))]].
Definition header : header :=
  Header "linux/usb/usb_ctrl_qti.h" [] (concat [
    enum_peripheral_ep_type]).
End Usb_usb_ctrl_qti.

(** ** [linux/usb/video.h] *)

Module Usb_video.
Definition defs_UVC_SC_UNDEFINED : list decl := [
  Defines [
    ("UVC_SC_UNDEFINED", hex 0x00); ("UVC_SC_VIDEOCONTROL", hex 0x01);
    ("UVC_SC_VIDEOSTREAMING", hex 0x02); ("UVC_SC_VIDEO_INTERFACE_COLLECTION", hex 0x03);
    ("UVC_PC_PROTOCOL_UNDEFINED", hex 0x00); ("UVC_VC_DESCRIPTOR_UNDEFINED", hex 0x00);
    ("UVC_VC_HEADER", hex 0x01); ("UVC_VC_INPUT_TERMINAL", hex 0x02);
    ("UVC_VC_OUTPUT_TERMINAL", hex 0x03); ("UVC_VC_SELECTOR_UNIT", hex 0x04);
    ("UVC_VC_PROCESSING_UNIT", hex 0x05); ("UVC_VC_EXTENSION_UNIT", hex 0x06);
    ("UVC_VS_UNDEFINED", hex 0x00); ("UVC_VS_INPUT_HEADER", hex 0x01);
    ("UVC_VS_OUTPUT_HEADER", hex 0x02); ("UVC_VS_STILL_IMAGE_FRAME", hex 0x03);
    ("UVC_VS_FORMAT_UNCOMPRESSED", hex 0x04); ("UVC_VS_FRAME_UNCOMPRESSED", hex 0x05);
    ("UVC_VS_FORMAT_MJPEG", hex 0x06); ("UVC_VS_FRAME_MJPEG", hex 0x07);
    ("UVC_VS_FORMAT_MPEG2TS", hex 0x0a); ("UVC_VS_FORMAT_DV", hex 0x0c);
    ("UVC_VS_COLORFORMAT", hex 0x0d); ("UVC_VS_FORMAT_FRAME_BASED", hex 0x10);
    ("UVC_VS_FRAME_FRAME_BASED", hex 0x11); ("UVC_VS_FORMAT_STREAM_BASED", hex 0x12);
    ("UVC_EP_UNDEFINED", hex 0x00); ("UVC_EP_GENERAL", hex 0x01); ("UVC_EP_ENDPOINT", hex 0x02);
    ("UVC_EP_INTERRUPT", hex 0x03); ("UVC_RC_UNDEFINED", hex 0x00); ("UVC_SET_CUR", hex 0x01);
    ("UVC_GET_CUR", hex 0x81); ("UVC_GET_MIN", hex 0x82); ("UVC_GET_MAX", hex 0x83);
    ("UVC_GET_RES", hex 0x84); ("UVC_GET_LEN", hex 0x85); ("UVC_GET_INFO", hex 0x86);
    ("UVC_GET_DEF", hex 0x87); ("UVC_VC_CONTROL_UNDEFINED", hex 0x00);
    ("UVC_VC_VIDEO_POWER_MODE_CONTROL", hex 0x01);
    ("UVC_VC_REQUEST_ERROR_CODE_CONTROL", hex 0x02); ("UVC_TE_CONTROL_UNDEFINED", hex 0x00);
    ("UVC_SU_CONTROL_UNDEFINED", hex 0x00); ("UVC_SU_INPUT_SELECT_CONTROL", hex 0x01);
    ("UVC_CT_CONTROL_UNDEFINED", hex 0x00); ("UVC_CT_SCANNING_MODE_CONTROL", hex 0x01);
    ("UVC_CT_AE_MODE_CONTROL", hex 0x02); ("UVC_CT_AE_PRIORITY_CONTROL", hex 0x03);
    ("UVC_CT_EXPOSURE_TIME_ABSOLUTE_CONTROL", hex 0x04);
    ("UVC_CT_EXPOSURE_TIME_RELATIVE_CONTROL", hex 0x05);
    ("UVC_CT_FOCUS_ABSOLUTE_CONTROL", hex 0x06); ("UVC_CT_FOCUS_RELATIVE_CONTROL", hex 0x07);
    ("UVC_CT_FOCUS_AUTO_CONTROL", hex 0x08); ("UVC_CT_IRIS_ABSOLUTE_CONTROL", hex 0x09);
    ("UVC_CT_IRIS_RELATIVE_CONTROL", hex 0x0a); ("UVC_CT_ZOOM_ABSOLUTE_CONTROL", hex 0x0b);
    ("UVC_CT_ZOOM_RELATIVE_CONTROL", hex 0x0c); ("UVC_CT_PANTILT_ABSOLUTE_CONTROL", hex 0x0d);
    ("UVC_CT_PANTILT_RELATIVE_CONTROL", hex 0x0e); ("UVC_CT_ROLL_ABSOLUTE_CONTROL", hex 0x0f);
    ("UVC_CT_ROLL_RELATIVE_CONTROL", hex 0x10); ("UVC_CT_PRIVACY_CONTROL", hex 0x11);
    ("UVC_PU_CONTROL_UNDEFINED", hex 0x00); ("UVC_PU_BACKLIGHT_COMPENSATION_CONTROL", hex 0x01);
    ("UVC_PU_BRIGHTNESS_CONTROL", hex 0x02); ("UVC_PU_CONTRAST_CONTROL", hex 0x03);
    ("UVC_PU_GAIN_CONTROL", hex 0x04); ("UVC_PU_POWER_LINE_FREQUENCY_CONTROL", hex 0x05);
    ("UVC_PU_HUE_CONTROL", hex 0x06); ("UVC_PU_SATURATION_CONTROL", hex 0x07);
    ("UVC_PU_SHARPNESS_CONTROL", hex 0x08); ("UVC_PU_GAMMA_CONTROL", hex 0x09);
    ("UVC_PU_WHITE_BALANCE_TEMPERATURE_CONTROL", hex 0x0a);
    ("UVC_PU_WHITE_BALANCE_TEMPERATURE_AUTO_CONTROL", hex 0x0b);
    ("UVC_PU_WHITE_BALANCE_COMPONENT_CONTROL", hex 0x0c);
    ("UVC_PU_WHITE_BALANCE_COMPONENT_AUTO_CONTROL", hex 0x0d);
    ("UVC_PU_DIGITAL_MULTIPLIER_CONTROL", hex 0x0e);
    ("UVC_PU_DIGITAL_MULTIPLIER_LIMIT_CONTROL", hex 0x0f); ("UVC_PU_HUE_AUTO_CONTROL", hex 0x10);
    ("UVC_PU_ANALOG_VIDEO_STANDARD_CONTROL", hex 0x11);
    ("UVC_PU_ANALOG_LOCK_STATUS_CONTROL", hex 0x12); ("UVC_VS_CONTROL_UNDEFINED", hex 0x00);
    ("UVC_VS_PROBE_CONTROL", hex 0x01); ("UVC_VS_COMMIT_CONTROL", hex 0x02);
    ("UVC_VS_STILL_PROBE_CONTROL", hex 0x03); ("UVC_VS_STILL_COMMIT_CONTROL", hex 0x04);
    ("UVC_VS_STILL_IMAGE_TRIGGER_CONTROL", hex 0x05);
    ("UVC_VS_STREAM_ERROR_CODE_CONTROL", hex 0x06);
    ("UVC_VS_GENERATE_KEY_FRAME_CONTROL", hex 0x07);
    ("UVC_VS_UPDATE_FRAME_SEGMENT_CONTROL", hex 0x08); ("UVC_VS_SYNC_DELAY_CONTROL", hex 0x09);
    ("UVC_TT_VENDOR_SPECIFIC", hex 0x0100); ("UVC_TT_STREAMING", hex 0x0101);
    ("UVC_ITT_VENDOR_SPECIFIC", hex 0x0200); ("UVC_ITT_CAMERA", hex 0x0201);
    ("UVC_ITT_MEDIA_TRANSPORT_INPUT", hex 0x0202); ("UVC_OTT_VENDOR_SPECIFIC", hex 0x0300);
    ("UVC_OTT_DISPLAY", hex 0x0301); ("UVC_OTT_MEDIA_TRANSPORT_OUTPUT", hex 0x0302);
    ("UVC_EXTERNAL_VENDOR_SPECIFIC", hex 0x0400); ("UVC_COMPOSITE_CONNECTOR", hex 0x0401);
    ("UVC_SVIDEO_CONNECTOR", hex 0x0402); ("UVC_COMPONENT_CONNECTOR", hex 0x0403);
    ("UVC_STATUS_TYPE_CONTROL", dec 1); ("UVC_STATUS_TYPE_STREAMING", dec 2);
    ("UVC_STREAM_EOH", Shl (dec 1) (dec 7)); ("UVC_STREAM_ERR", Shl (dec 1) (dec 6));
    ("UVC_STREAM_STI", Shl (dec 1) (dec 5)); ("UVC_STREAM_RES", Shl (dec 1) (dec 4));
    ("UVC_STREAM_SCR", Shl (dec 1) (dec 3)); ("UVC_STREAM_PTS", Shl (dec 1) (dec 2));
    ("UVC_STREAM_EOF", Shl (dec 1) (dec 1)); ("UVC_STREAM_FID", Shl (dec 1) (dec 0))]].
Definition defs_UVC_CONTROL_CAP_GET : list decl := [
  Defines [
    ("UVC_CONTROL_CAP_GET", Shl (dec 1) (dec 0)); ("UVC_CONTROL_CAP_SET", Shl (dec 1) (dec 1));
    ("UVC_CONTROL_CAP_DISABLED", Shl (dec 1) (dec 2));
    ("UVC_CONTROL_CAP_AUTOUPDATE", Shl (dec 1) (dec 3));
    ("UVC_CONTROL_CAP_ASYNCHRONOUS", Shl (dec 1) (dec 4))]].
Definition header : header :=
  Header "linux/usb/video.h" [] (concat [
    defs_UVC_SC_UNDEFINED; defs_UVC_CONTROL_CAP_GET]).
End Usb_video.

(** ** [linux/usbdevice_fs.h] *)

Module Usbdevice_fs.
Definition defs_USBDEVFS_URB_SHORT_NOT_OK : list decl := [
  Defines [
    ("USBDEVFS_URB_SHORT_NOT_OK", hex 0x01); ("USBDEVFS_URB_ISO_ASAP", hex 0x02);
    ("USBDEVFS_URB_BULK_CONTINUATION", hex 0x04); ("USBDEVFS_URB_NO_FSBR", hex 0x20);
    ("USBDEVFS_URB_ZERO_PACKET", hex 0x40); ("USBDEVFS_URB_NO_INTERRUPT", hex 0x80);
    ("USBDEVFS_URB_TYPE_ISO", dec 0); ("USBDEVFS_URB_TYPE_INTERRUPT", dec 1);
    ("USBDEVFS_URB_TYPE_CONTROL", dec 2); ("USBDEVFS_URB_TYPE_BULK", dec 3)]].
Definition defs_USBDEVFS_CAP_ZERO_PACKET : list decl := [
  Defines [
    ("USBDEVFS_CAP_ZERO_PACKET", hex 0x01); ("USBDEVFS_CAP_BULK_CONTINUATION", hex 0x02);
    ("USBDEVFS_CAP_NO_PACKET_SIZE_LIM", hex 0x04);
    ("USBDEVFS_CAP_BULK_SCATTER_GATHER", hex 0x08);
    ("USBDEVFS_CAP_REAP_AFTER_DISCONNECT", hex 0x10)]].
Definition header : header :=
  Header "linux/usbdevice_fs.h" [] (concat [
    defs_USBDEVFS_URB_SHORT_NOT_OK; defs_USBDEVFS_CAP_ZERO_PACKET]).
End Usbdevice_fs.

(** ** [linux/usbip.h] *)

Module Usbip.
Definition enum_usbip_device_status : list decl := [
  Enum [
    ("SDEV_ST_AVAILABLE", Some (hex 0x01)); ("SDEV_ST_USED", None); ("SDEV_ST_ERROR", None);
    ("VDEV_ST_NULL", None); ("VDEV_ST_NOTASSIGNED", None); ("VDEV_ST_USED", None);
    ("VDEV_ST_ERROR", None)]].
Definition header : header :=
  Header "linux/usbip.h" [] (concat [
    enum_usbip_device_status]).
End Usbip.

(** ** [linux/veth.h] *)

Module Veth.
Definition enum_VETH_INFO_UNSPEC : list decl := [
  Enum [
    ("VETH_INFO_UNSPEC", None); ("VETH_INFO_PEER", None); ("__VETH_INFO_MAX", None)]].
Definition header : header :=
  Header "linux/veth.h" [] (concat [
    enum_VETH_INFO_UNSPEC]).
End Veth.

(** ** [linux/vt.h] *)

Module Vt.
Definition defs_VT_GETMODE : list decl := [
  Defines [
    ("VT_GETMODE", hex 0x5601); ("VT_SETMODE", hex 0x5602); ("VT_AUTO", hex 0x00);
    ("VT_PROCESS", hex 0x01); ("VT_ACKACQ", hex 0x02)]].
Definition defs_VT_GETSTATE : list decl := [
  Defines [
    ("VT_GETSTATE", hex 0x5603); ("VT_SENDSIG", hex 0x5604); ("VT_RELDISP", hex 0x5605);
    ("VT_ACTIVATE", hex 0x5606); ("VT_WAITACTIVE", hex 0x5607); ("VT_DISALLOCATE", hex 0x5608)]].
Definition defs_VT_RESIZEX : list decl := [
  Defines [
    ("VT_RESIZEX", hex 0x560A); ("VT_LOCKSWITCH", hex 0x560B); ("VT_UNLOCKSWITCH", hex 0x560C);
    ("VT_GETHIFONTMASK", hex 0x560D)]].
Definition header : header :=
  Header "linux/vt.h" [] (concat [
    defs_VT_GETMODE; defs_VT_GETSTATE; defs_VT_RESIZEX]).
End Vt.

(** ** [linux/wait.h] *)

Module Wait.
Definition defs_WNOHANG : list decl := [
  Defines [
    ("WNOHANG", hex 0x00000001); ("WUNTRACED", hex 0x00000002); ("WSTOPPED", Id "WUNTRACED");
    ("WEXITED", hex 0x00000004); ("WCONTINUED", hex 0x00000008); ("WNOWAIT", hex 0x01000000);
    ("__WNOTHREAD", hex 0x20000000); ("__WALL", hex 0x40000000); ("__WCLONE", hex 0x80000000);
    ("P_ALL", dec 0); ("P_PID", dec 1); ("P_PGID", dec 2)]].
Definition header : header :=
  Header "linux/wait.h" [] (concat [
    defs_WNOHANG]).
End Wait.

(** ** [linux/wanrouter.h] *)

Module Wanrouter.
Definition enum_wan_states : list decl := [
  Enum [
    ("WAN_UNCONFIGURED", None); ("WAN_DISCONNECTED", None); ("WAN_CONNECTING", None);
    ("WAN_CONNECTED", None)]].
Definition header : header :=
  Header "linux/wanrouter.h" [] (concat [
    enum_wan_states]).
End Wanrouter.

(** ** [linux/watchdog.h] *)

Module Watchdog.
Definition defs_WDIOF_UNKNOWN : list decl := [
  Defines [
    ("WDIOF_UNKNOWN", Neg (dec 1)); ("WDIOS_UNKNOWN", Neg (dec 1));
    ("WDIOF_OVERHEAT", hex 0x0001); ("WDIOF_FANFAULT", hex 0x0002);
    ("WDIOF_EXTERN1", hex 0x0004); ("WDIOF_EXTERN2", hex 0x0008);
    ("WDIOF_POWERUNDER", hex 0x0010); ("WDIOF_CARDRESET", hex 0x0020);
    ("WDIOF_POWEROVER", hex 0x0040); ("WDIOF_SETTIMEOUT", hex 0x0080);
    ("WDIOF_MAGICCLOSE", hex 0x0100); ("WDIOF_PRETIMEOUT", hex 0x0200);
    ("WDIOF_ALARMONLY", hex 0x0400); ("WDIOF_KEEPALIVEPING", hex 0x8000);
    ("WDIOS_DISABLECARD", hex 0x0001); ("WDIOS_ENABLECARD", hex 0x0002);
    ("WDIOS_TEMPPANIC", hex 0x0004)]].
Definition header : header :=
  Header "linux/watchdog.h" [] (concat [
    defs_WDIOF_UNKNOWN]).
End Watchdog.

(** ** [linux/zorro.h] *)

Module Zorro.
Definition enum_GVP_flags : list decl := [
  Enum [
    ("GVP_IO", Some (hex 0x01)); ("GVP_ACCEL", Some (hex 0x02)); ("GVP_SCSI", Some (hex 0x04));
    ("GVP_24BITDMA", Some (hex 0x08)); ("GVP_25BITDMA", Some (hex 0x10));
    ("GVP_NOBANK", Some (hex 0x20)); ("GVP_14MHZ", Some (hex 0x40))]].
Definition defs_ERT_TYPEMASK : list decl := [
  Defines [
    ("ERT_TYPEMASK", hex 0xc0); ("ERT_ZORROII", hex 0xc0); ("ERT_ZORROIII", hex 0x80);
    ("ERTB_MEMLIST", dec 5); ("ERTF_MEMLIST", Shl (dec 1) (dec 5))]].
Definition header : header :=
  Header "linux/zorro.h" [] (concat [
    enum_GVP_flags; defs_ERT_TYPEMASK]).
End Zorro.

(** ** [linux/zorro_ids.h] *)

Module Zorro_ids.
Definition defs_ZORRO_MANUF_ATLANTIS : list decl := [
  Defines [
    ("ZORRO_MANUF_ATLANTIS", hex 0x0862); ("ZORRO_MANUF_PROTAR", hex 0x0864);
    ("ZORRO_MANUF_ACS", hex 0x0865); ("ZORRO_MANUF_SOFTWARE_RESULTS_ENTERPRISES", hex 0x0866)]].
Definition header : header :=
  Header "linux/zorro_ids.h" [] (concat [
    defs_ZORRO_MANUF_ATLANTIS]).
End Zorro_ids.
