(* ===== verification/Consts.v ===== *)
(** * The constants as a whole

    What holds of the constants of all the headers: the check that the tables can
    be evaluated; the tables that the limits of the netlink attributes and of the
    input codes give room for; the numbers of controls and messages, which tell
    them apart. Every statement names its exceptions. *)
From S2P Require Import Prelude.
From S2P Require Import Memory.
From S2P Require Import CLayout.
From S2P Require Import CConst.
From S2P Require Import CecConsts.
From S2P Require Import ConstBase.
From S2P Require Import ConstMedia.
From S2P Require Import ConstDisplay.
From S2P Require Import ConstSound.
From S2P Require Import ConstNetlink.
From S2P Require Import ConstNet.
From S2P Require Import ConstStorage.
From S2P Require Import ConstSystem.
From S2P Require Import ConstDevices.
#[local] Open Scope string_scope.

(** ** The headers *)

Definition constBase_headers : list header := [
  Asm_generic_errno_base.header; Asm_generic_errno.header; Asm_generic_fcntl.header;
  Asm_generic_ioctl.header; Asm_generic_ioctls.header; Asm_generic_mman_common.header;
  Asm_generic_mman.header; Asm_generic_param.header; Asm_generic_poll.header;
  Asm_generic_resource.header; Asm_generic_siginfo.header; Asm_bitsperlong.header;
  Asm_generic_signal.header; Asm_generic_socket.header; Asm_generic_sockios.header;
  Asm_generic_termbits.header; Asm_generic_termios.header; Asm_generic_unistd.header;
  Asm_fcntl.header; Asm_hwcap.header; Psci.header; Asm_kvm.header; Asm_perf_regs.header;
  Asm_ptrace.header; Elf_em.header; Sockios.header; Netlink.header; If_frad.header; Ion.header;
  Videodev2.header; Limits.header; Mii.header; Mfd_wcd9xxx_wcd9xxx_registers.header;
  Netfilter_ipset_ip_set.header; Netfilter_x_tables.header; V4l2_controls.header].
Definition constMedia_headers : list header := [
  Dvb_audio.header; Dvb_dmx.header; Dvb_frontend.header; Dvb_osd.header; Dvb_video.header;
  Ivtv.header; Media_bus_format.header; Media.header; Msm_vidc_dec.header; Msm_vidc_enc.header;
  Omap3isp.header; Uvcvideo.header; V4l2_common.header; Xilinx_v4l2_controls.header;
  Media_ais_msm_ais.header; Media_ais_msm_ais_buf_mgr.header; Media_ais_msm_ais_isp.header;
  Media_ais_msm_ais_ispif.header; Media_ais_msm_ais_mgr.header; Media_ais_msm_ais_sensor.header;
  Media_ais_msm_ais_sensor_sdk.header; Media_msm_ba.header; Media_msm_cam_sensor.header;
  Media_msm_camera.header; Media_msm_camsensor_sdk.header; Media_msm_fd.header;
  Media_msm_gemini.header; Media_msm_gestures.header; Media_msm_isp.header;
  Media_msm_jpeg.header; Media_msm_media_info.header; Media_msm_mercury.header;
  Media_msm_vidc.header; Media_msm_vpu.header; Media_msmb_camera.header;
  Media_msmb_generic_buf_mgr.header; Media_msmb_isp.header; Media_msmb_ispif.header;
  Media_msmb_pproc.header; Media_radio_iris_commands.header; Media_radio_iris.header].
Definition constDisplay_headers : list header := [
  Drm_drm.header; Drm_drm_fourcc.header; Drm_drm_mode.header; Drm_exynos_drm.header;
  Drm_i810_drm.header; Drm_i915_drm.header; Drm_mga_drm.header; Drm_msm_drm.header;
  Drm_msm_drm_pp.header; Drm_nouveau_drm.header; Drm_qxl_drm.header; Drm_r128_drm.header;
  Drm_radeon_drm.header; Drm_savage_drm.header; Drm_sde_drm.header; Drm_sis_drm.header;
  Drm_tegra_drm.header; Drm_via_drm.header; Drm_virtgpu_drm.header; Drm_vmwgfx_drm.header;
  Ashmem.header; Fb.header; Matroxfb.header; Mdss_rotator.header; Msm_ion.header;
  Msm_kgsl.header; Msm_mdp.header; Msm_mdp_ext.header; Msm_rotator.header; Omapfb.header;
  Video_msm_hdmi_hdcp_mgr.header; Video_msm_hdmi_modes.header; Video_sisfb.header;
  Video_uvesafb.header].
Definition constSound_headers : list header := [
  Ixjuser.header; Mfd_msm_adie_codec.header; Mfd_wcd9xxx_wcd9320_registers.header;
  Msm_audio.header; Msm_audio_aac.header; Msm_audio_ac3.header; Msm_audio_anc.header;
  Msm_audio_calibration.header; Msm_audio_mvs.header; Msm_audio_qcp.header; Msm_audio_sbc.header;
  Msm_audio_voicememo.header; Soundcard.header; Telephony.header; Sound_asequencer.header;
  Sound_asound.header; Sound_asound_fm.header; Sound_audio_effects.header;
  Sound_compress_offload.header; Sound_compress_params.header; Sound_devdep_params.header;
  Sound_emu10k1.header; Sound_firewire.header; Sound_hdsp.header; Sound_hdspm.header;
  Sound_lsm_params.header; Sound_msmcal_hwdep.header; Sound_sb16_csp.header; Sound_tlv.header;
  Sound_voice_svc.header; Sound_wcd_dsp_glink.header].
Definition constNetlink_headers : list header := [
  Taskstats.header; Dcbnl.header; Ethtool.header; Fib_rules.header; Fou.header; Gen_stats.header;
  Genetlink.header; If_link.header; L2tp.header; If_tunnel.header; Ip_vs.header;
  Neighbour.header; Netconf.header; Netfilter.header; Netfilter_ipset_ip_set_hash.header;
  Netfilter_ipset_ip_set_list.header; Netfilter_nf_conntrack_common.header;
  Netfilter_nf_conntrack_ftp.header; Netfilter_nf_conntrack_sctp.header;
  Netfilter_nf_conntrack_tcp.header; Netfilter_nf_conntrack_tuple_common.header;
  Netfilter_nf_nat.header; Netfilter_nf_tables.header; Netfilter_nf_tables_compat.header;
  Netfilter_nfnetlink.header; Netfilter_nfnetlink_acct.header; Netfilter_nfnetlink_compat.header;
  Netfilter_nfnetlink_conntrack.header; Netfilter_nfnetlink_cthelper.header;
  Netfilter_nfnetlink_cttimeout.header; Netfilter_nfnetlink_log.header;
  Netfilter_nfnetlink_queue.header; Netfilter_xt_AUDIT.header; Netfilter_xt_CT.header;
  Netfilter_xt_HMARK.header; Netfilter_xt_IDLETIMER.header; Netfilter_xt_LOG.header;
  Netfilter_xt_addrtype.header; Netfilter_xt_connbytes.header; Netfilter_xt_connmark.header;
  Netfilter_xt_conntrack.header; Netfilter_xt_dccp.header; Netfilter_xt_devgroup.header;
  Netfilter_xt_dscp.header; Netfilter_xt_ecn.header; Netfilter_xt_hashlimit.header;
  Netfilter_xt_iprange.header; Netfilter_xt_ipvs.header; Netfilter_xt_l2tp.header;
  Netfilter_xt_multiport.header; Netfilter_xt_osf.header; Netfilter_xt_owner.header;
  Netfilter_xt_physdev.header; Netfilter_xt_policy.header; Netfilter_xt_rateest.header;
  Netfilter_xt_recent.header; Netfilter_xt_rpfilter.header; Netfilter_xt_sctp.header;
  Netfilter_xt_socket.header; Netfilter_xt_statistic.header; Netfilter_xt_tcpudp.header;
  Netfilter_xt_time.header; Netfilter_xt_u32.header; Netfilter_arp.header;
  Netfilter_arp_arp_tables.header; Netfilter_arp_arpt_mangle.header; Netfilter_bridge.header;
  Netfilter_bridge_ebt_arp.header; Netfilter_bridge_ebt_ip.header;
  Netfilter_bridge_ebt_ip6.header; Netfilter_bridge_ebt_log.header;
  Netfilter_bridge_ebt_mark_t.header; Netfilter_bridge_ebt_stp.header;
  Netfilter_bridge_ebt_vlan.header; Netfilter_bridge_ebtables.header; Netfilter_decnet.header;
  Netfilter_ipv4.header; Netfilter_ipv4_ip_tables.header; Netfilter_ipv4_ipt_CLUSTERIP.header;
  Netfilter_ipv4_ipt_ECN.header; Netfilter_ipv4_ipt_LOG.header; Netfilter_ipv4_ipt_REJECT.header;
  Netfilter_ipv4_ipt_TTL.header; Netfilter_ipv4_ipt_ecn.header; Netfilter_ipv4_ipt_ttl.header;
  Netfilter_ipv6.header; Netfilter_ipv6_ip6_tables.header; Netfilter_ipv6_ip6t_HL.header;
  Netfilter_ipv6_ip6t_LOG.header; Netfilter_ipv6_ip6t_REJECT.header;
  Netfilter_ipv6_ip6t_ah.header; Netfilter_ipv6_ip6t_frag.header; Netfilter_ipv6_ip6t_hl.header;
  Netfilter_ipv6_ip6t_ipv6header.header; Netfilter_ipv6_ip6t_opts.header;
  Netfilter_ipv6_ip6t_rt.header; Nfc.header; Nl80211.header; Openvswitch.header; Pkt_cls.header;
  Pkt_sched.header; Rtnetlink.header; Snmp.header; Tc_act_tc_bpf.header;
  Tc_act_tc_connmark.header; Tc_act_tc_csum.header; Tc_act_tc_defact.header;
  Tc_act_tc_gact.header; Tc_act_tc_ipt.header; Tc_act_tc_mirred.header; Tc_act_tc_nat.header;
  Tc_act_tc_pedit.header; Tc_act_tc_skbedit.header; Tc_act_tc_vlan.header;
  Tc_ematch_tc_em_cmp.header; Tc_ematch_tc_em_meta.header; Tcp_metrics.header; Xfrm.header].
Definition constNet_headers : list header := [
  Atm_he.header; Atm_nicstar.header; Atm_zatm.header; Atmarp.header; Atmbr2684.header;
  Atmclip.header; Atmdev.header; Atmioc.header; Atmlec.header; Atmmpc.header; Atmsap.header;
  Atmsvc.header; Ax25.header; Bpf.header; Caif_caif_socket.header; Caif_if_caif.header;
  Can.header; Can_bcm.header; Can_error.header; Can_gw.header; Can_netlink.header;
  Can_raw.header; Dccp.header; Filter.header; Hdlc_ioctl.header; Hdlcdrv.header;
  Hsi_cs_protocol.header; Hsi_hsi_char.header; Icmp.header; Icmpv6.header; If_addr.header;
  If_addrlabel.header; If_alg.header; If_arcnet.header; If_arp.header; If_bonding.header;
  If_bridge.header; If_cablemodem.header; If_eql.header; If_ether.header; If_fddi.header;
  If_packet.header; If_pppol2tp.header; If_pppox.header; If_slip.header; If_team.header;
  If_tun.header; If_vlan.header; If_x25.header; In.header; In6.header; Ip.header; Ipv6.header;
  Ipv6_route.header; Irda.header; Isdn.header; Isdn_capicmd.header; Isdn_divertif.header;
  Isdn_ppp.header; Isdnif.header; Llc.header; Mdio.header; Mroute.header; Mroute6.header;
  Net.header; Netdevice.header; Pfkeyv2.header; Phonet.header; Ppp_comp.header; Ppp_ioctl.header;
  Rds.header; Rose.header; Route.header; Scc.header; Sctp.header; Sdla.header; Sonet.header;
  Tcp.header; Tipc.header; Tipc_config.header; Wimax.header; Wimax_i2400m.header;
  Wireless.header; X25.header; Rdma_hfi_hfi1_user.header; Rdma_ib_user_cm.header;
  Rdma_ib_user_sa.header; Rdma_ib_user_verbs.header; Rdma_rdma_netlink.header;
  Rdma_rdma_user_cm.header].
Definition constStorage_headers : list header := [
  Auto_fs4.header; Blkpg.header; Blktrace_api.header; Bsg.header; Btrfs.header;
  Cciss_defs.header; Cciss_ioctl.header; Cdrom.header; Chio.header; Coda.header; Dm_ioctl.header;
  Fadvise.header; Fcntl.header; Fd.header; Fs.header; Fuse.header; Hdreg.header; I2o_dev.header;
  Jffs2.header; Magic.header; Minix_fs.header; Mmc_core.header; Mmc_mmc.header; Msdos_fs.header;
  Mtio.header; Nbd.header; Ndctl.header; Nfs.header; Nfs2.header; Nfs3.header; Nfs4.header;
  Nfs4_mount.header; Nfs_fs.header; Nfs_idmap.header; Nfs_mount.header; Nfsacl.header;
  Nfsd_cld.header; Nfsd_debug.header; Nfsd_export.header; Pktcdvd.header; Quota.header;
  Raid_md_p.header; Stat.header; Sunrpc_debug.header; Target_core_user.header;
  Mtd_mtd_abi.header; Mtd_nftl_user.header; Mtd_ubi_user.header; Scsi_cxlflash_ioctl.header;
  Scsi_fc_fc_els.header; Scsi_fc_fc_fs.header; Scsi_fc_fc_gs.header; Scsi_fc_fc_ns.header;
  Scsi_scsi_bsg_fc.header; Scsi_scsi_ioctl.header; Scsi_scsi_netlink.header; Scsi_sg.header;
  Scsi_ufs_ufs.header].
Definition constSystem_headers : list header := [
  Android_binder.header; Audit.header; Capability.header; Cn_proc.header; Elf.header;
  Esoc_ctrl.header; Eventpoll.header; Futex.header; Hyperv.header; Inotify.header;
  Ipa_qmi_service_v01.header; Kernel_page_flags.header; Kexec.header; Kvm.header;
  Mempolicy.header; Msm_ipa.header; Msm_thermal_ioctl.header; Pci.header; Pci_regs.header;
  Perf_event.header; Personality.header; Pmu.header; Prctl.header; Ptrace.header; Qcedev.header;
  Qcota.header; Qseecom.header; Reboot.header; Rmnet_ipa_fd_ioctl.header; Sched.header;
  Seccomp.header; Securebits.header; Sysctl.header; Time.header; Timex.header; Tty_flags.header;
  Userfaultfd.header; Vfio.header; Virtio_balloon.header; Virtio_blk.header;
  Virtio_config.header; Virtio_console.header; Virtio_gpu.header; Virtio_ids.header;
  Virtio_input.header; Virtio_net.header; Virtio_pci.header; Virtio_scsi.header;
  Virtio_vsock.header; Misc_cxl.header].
Definition constDevices_headers : list header := [
  Acct.header; Adb.header; Adfs_fs.header; Aio_abi.header; Am437x_vpfe.header; Apm_bios.header;
  Atm.header; Auxvec.header; B1lli.header; Bfs_fs.header; Bpf_common.header; Cec.header;
  Cgroupstats.header; Cm4000_cs.header; Coda_psdev.header; Coff.header; Connector.header;
  Cramfs_fs.header; Cuda.header; Cyclades.header; Cycx_cfm.header; Dlm_device.header;
  Dlm_netlink.header; Dlm_plock.header; Dlmconstants.header; Dn.header; Dqblk_xfs.header;
  Edd.header; Efs_fs_sb.header; Errqueue.header; Fanotify.header; Fdreg.header; Fiemap.header;
  Fips_status.header; Firewire_cdev.header; Firewire_constants.header; Flat.header;
  Gameport.header; Gfs2_ondisk.header; Habmmid.header; Input_event_codes.header;
  Hbtp_input.header; Hbtp_vm.header; Usb_ch9.header; Hid.header; Hiddev.header;
  Hsr_netlink.header; Hw_breakpoint.header; Hysdn_if.header; I2c_dev.header; I2c.header;
  I8k.header; If.header; Igmp.header; Iio_types.header; Ila.header; In_route.header;
  Inet_diag.header; Input.header; Ip6_tunnel.header; Ipc.header; Ipmi.header;
  Ipmi_msgdefs.header; Ipsec.header; Ipx.header; Joystick.header; Kcmp.header; Kd.header;
  Kernelcapi.header; Keyboard.header; Keyctl.header; Loop.header; Lp.header; Lwtunnel.header;
  Major.header; Map_to_7segment.header; Maxim_sti.header; Mhi.header; Mic_common.header;
  Mman.header; Mpls.header; Mpls_iptunnel.header; Mqueue.header; Msg.header; Msm_pft.header;
  Msm_rmnet.header; N_r3964.header; Ncp.header; Ncp_mount.header; Net_dropmon.header;
  Net_namespace.header; Net_tstamp.header; Netlink_diag.header; Netrom.header; Nubus.header;
  Packet_diag.header; Parport.header; Pg.header; Phantom.header; Ppdev.header; Ppp_defs.header;
  Pps.header; Ptp_clock.header; Qbt1000.header; Qnx4_fs.header; Resource.header; Rfkill.header;
  Rmnet.header; Rmnet_data.header; Romfs_fs.header; Rtc.header; Screen_info.header;
  Seemp_api.header; Seemp_param_id.header; Selinux_netlink.header; Sem.header; Serial.header;
  Serial_core.header; Serial_reg.header; Serio.header; Shm.header; Smiapp.header;
  Sock_diag.header; Sockev.header; Sonypi.header; Sound.header; Spcom.header; Spi_spidev.header;
  Synclink.header; Termios.header; Thermal.header; Tiocl.header; Tipc_netlink.header; Tty.header;
  Uhid.header; Uinput.header; Ultrasound.header; Unix_diag.header; Usb_audio.header;
  Usb_cdc.header; Usb_ch11.header; Usb_functionfs.header; Usb_gadgetfs.header; Usb_midi.header;
  Usb_tmc.header; Usb_usb_ctrl_qti.header; Usb_video.header; Usbdevice_fs.header; Usbip.header;
  Veth.header; Vt.header; Wait.header; Wanrouter.header; Watchdog.header; Zorro.header;
  Zorro_ids.header].
Definition headers : list header := (concat [
  constBase_headers; constMedia_headers; constDisplay_headers; constSound_headers;
  constNetlink_headers; constNet_headers; constStorage_headers; constSystem_headers;
  constDevices_headers])%list.

(** ** Reflection *)

(** The names a list of exceptions gives for a header. *)
Definition names_of (h : header) (l : list (string * string)) : list string :=
  map snd (List.filter (fun y => String.eqb (path h) (fst y)) l).
Definition among (n : string) (ns : list string) : bool := existsb (String.eqb n) ns.

Lemma among_iff n h l : among n (names_of h l) = true <-> (path h, n) ∈ l.
Proof.
  unfold among, names_of. rewrite existsb_exists, list_elem_of_In. split.
  - intros (m & Hm & <-%String.eqb_eq). apply in_map_iff in Hm as ([p m] & <- & Hm).
    by apply filter_In in Hm as [Hm ->%String.eqb_eq].
  - intros H. exists n. rewrite String.eqb_refl. split; [|done].
    apply in_map_iff. exists (path h, n). split; [done|]. apply filter_In. by rewrite String.eqb_refl.
Qed.

Lemma among_spec (b : bool) (P : Prop) n h l : eqb b (among n (names_of h l)) = true ->
  (b = true <-> P) -> (P <-> (path h, n) ∈ l).
Proof. intros H%eqb_prop HP. by rewrite <- HP, <- among_iff, H. Qed.

(** ** Every constant has a value *)

(** Shifts of [1], and once of [0xffff], into the sign bit of [int], and what is
    computed from them. *)
Definition overflowing : list (string * string) := [
  ("asm/kvm.h", "KVM_ARM_DEVICE_ID_MASK"); ("linux/ethtool.h", "RXH_DISCARD");
  ("linux/fs.h", "MS_NOUSER"); ("linux/if_packet.h", "TP_STATUS_TS_RAW_HARDWARE");
  ("linux/media.h", "MEDIA_ENT_ID_FLAG_NEXT"); ("linux/msm_kgsl.h", "KGSL_GPUMEM_CACHE_RANGE");
  ("linux/nl80211.h", "NL80211_FEATURE_ND_RANDOM_MAC_ADDR");
  ("linux/soundcard.h", "SOUND_MASK_MUTE"); ("linux/soundcard.h", "SOUND_MASK_ENHANCE");
  ("linux/soundcard.h", "SOUND_MASK_LOUD"); ("sound/asequencer.h", "SNDRV_SEQ_FILTER_USE_EVENT");
  ("sound/devdep_params.h", "DTS_EAGLE_FLAG_IOCTL_JUSTSETCACHE");
  ("sound/devdep_params.h", "DTS_EAGLE_FLAG_IOCTL_GETFROMCORE");
  ("sound/devdep_params.h", "DTS_EAGLE_FLAG_IOCTL_MASK");
  ("sound/devdep_params.h", "DTS_EAGLE_FLAG_ALSA_GET")].

(** Complements of [long] masks. *)
Definition word_masks : list (string * string) := [
  ("linux/pci_regs.h", "PCI_BASE_ADDRESS_MEM_MASK"); ("linux/pci_regs.h", "PCI_BASE_ADDRESS_IO_MASK");
  ("linux/pci_regs.h", "PCI_IO_RANGE_MASK"); ("linux/pci_regs.h", "PCI_IO_1K_RANGE_MASK");
  ("linux/pci_regs.h", "PCI_MEMORY_RANGE_MASK"); ("linux/pci_regs.h", "PCI_PREF_RANGE_MASK");
  ("linux/pci_regs.h", "PCI_CB_IO_RANGE_MASK")].

Definition value_check (ov wm : list string) (x y : string * option cval) : bool :=
  match snd x, snd y with
  | Some v, Some w =>
      String.eqb (fst x) (fst y) && eqb (negb (exact v && exact w)) (among (fst x) ov) &&
      eqb (negb (num v =? num w)%Z) (among (fst x) wm)
  | _, _ => false
  end.
Fixpoint forall2b {B} (f : B -> B -> bool) (l k : list B) : bool :=
  match l, k with
  | [], [] => true
  | x :: l, y :: k => f x y && forall2b f l k
  | _, _ => false
  end.
Definition header_check (h : header) : bool :=
  forall2b (value_check (names_of h overflowing) (names_of h word_masks)) (values lp64 h) (values ilp32 h).

Lemma headers_checked : forallb header_check headers = true.
Proof. vm_cast_no_check (eq_refl true). Qed.

Lemma forall2b_impl {B} (f : B -> B -> bool) (P : B -> B -> Prop) l k :
  (forall x y, x ∈ l -> y ∈ k -> f x y = true -> P x y) -> forall2b f l k = true -> Forall2 P l k.
Proof.
  revert k. induction l as [|x l IH]; intros [|y k] Hf; cbn [forall2b]; try done.
  intros [Hx Hl]%andb_true_iff. constructor; [by apply Hf; try (apply elem_of_cons; left)|].
  apply IH; [|done]. intros a b Ha Hb. apply Hf; apply elem_of_cons; by right.
Qed.

Lemma lp64_ok : abi_ok lp64.
Proof. split; rewrite !elem_of_cons; cbn; auto. Qed.
Lemma ilp32_ok : abi_ok ilp32.
Proof. split; rewrite !elem_of_cons; cbn; auto. Qed.

(** A check of the tables as a whole. With the headers it uses included, every
    macro and enumerator has a value on the 64-bit and on the 32-bit ABI, which by
    the construction of the evaluator fits its type. What the headers could get
    wrong is computed without signed overflow, except for the fifteen constants
    that shift a bit into the sign of an [int], and the same on the two ABIs, except
    for the seven complements of [long] masks. Whether a number is the right one
    does not follow. *)
Theorem constants_defined (h : header) : h ∈ headers ->
  Forall2 (fun x y : string * option cval =>
    fst x = fst y /\ exists v w, snd x = Some v /\ snd y = Some w /\
      min_val lp64 (ty v) <= num v <= max_val lp64 (ty v) /\
      min_val ilp32 (ty w) <= num w <= max_val ilp32 (ty w) /\
      (exact v && exact w = false <-> (path h, fst x) ∈ overflowing) /\
      (num v <> num w <-> (path h, fst x) ∈ word_masks))
    (values lp64 h) (values ilp32 h).
Proof.
  intros Hh%list_elem_of_In. pose proof (proj1 (forallb_forall _ _) headers_checked h Hh) as H.
  revert H. apply forall2b_impl. intros [n [v|]] [m [w|]] Hv Hw; unfold value_check; cbn [fst snd]; try done.
  rewrite !andb_true_iff. intros [[->%String.eqb_eq Hov] Hwm]. split; [done|]. exists v, w.
  refine (conj eq_refl (conj eq_refl (conj _ (conj _ (conj _ _))))).
  - apply fits_iff, (values_ok lp64 lp64_ok h m), Hv.
  - apply fits_iff, (values_ok ilp32 ilp32_ok h m), Hw.
  - apply (among_spec _ _ _ _ _ Hov). by rewrite negb_true_iff.
  - apply (among_spec _ _ _ _ _ Hwm). by rewrite negb_true_iff, Z.eqb_neq.
Qed.

Lemma constants_defined_witness :
  Forall2 (fun x y : string * option cval => fst x = fst y /\ is_Some (snd x) /\ is_Some (snd y))
    (values lp64 Asm_kvm.header) (values ilp32 Asm_kvm.header).
Proof.
  eapply Forall2_impl; [apply (constants_defined Asm_kvm.header)|].
  - by apply (list_elem_of_lookup_2 headers 21).
  - intros x y (H & v & w & -> & -> & _). eauto.
Defined.

(** A constant of a header, by name. *)
Fixpoint assoc (n : string) (l : list (string * option cval)) : option Z :=
  match l with
  | [] => None
  | (m, r) :: l => if String.eqb n m then option_map num r else assoc n l
  end.

Definition enums (h : header) : list enumeration :=
  flat_map (fun d => match d with Enum es => [es] | _ => [] end) (decls h).

(** ** Limits of the attributes

    An enumeration of netlink attributes or commands ends with a sentinel,
    [__X_MAX] or [__X_AFTER_LAST], and [X_MAX] is the last attribute: parsers
    allocate a table of [X_MAX + 1] entries. *)
Definition strip_prefix (p s : string) : option string :=
  if String.prefix p s then Some (String.substring (String.length p) (String.length s - String.length p) s)
  else None.
Definition strip_suffix (q s : string) : option string :=
  let k := (String.length s - String.length q)%nat in
  if String.eqb (String.substring k (String.length q) s) q && (String.length q <=? String.length s)%nat
  then Some (String.substring 0 k s) else None.
Definition limit_name (s : string) : option string :=
  r ← strip_prefix "__" s;
  match strip_suffix "_AFTER_LAST" r, strip_suffix "_ENUM_MAX" r, strip_suffix "_MAX" r with
  | Some x, _, _ | _, Some x, _ | _, _, Some x => Some (x ++ "_MAX")
  | _, _, _ => None
  end.

(** The sentinels of a header, with the limit's name and the enumeration. *)
Definition sentinels (h : header) : list (string * string * list string) :=
  flat_map (fun es =>
    omap (fun e => m ← limit_name (fst e); Some (fst e, m, map fst es)) es) (enums h).

Definition loose_limits : list (string * string) := [
  ("linux/netfilter/nf_tables.h", "__NFT_REG_MAX"); ("linux/pkt_cls.h", "__TCA_ACT_MAX");
  ("linux/pkt_cls.h", "__TCA_ID_MAX");
  ("linux/rtnetlink.h", "__RTM_MAX"); ("linux/nl80211.h", "__NL80211_ATTR_AFTER_LAST")].

Definition limit_check (h : header) (vs : list (string * option cval)) (x : string * string * list string) : bool :=
  let '(s, m, ns) := x in
  match assoc s vs, assoc m vs with
  | Some a, Some b =>
      eqb (negb ((a =? b + 1)%Z && forallb (fun n =>
             match assoc n vs with Some c => String.eqb n s || (c <=? b)%Z | None => false end) ns))
          (among s (names_of h loose_limits))
  | Some _, None => true
  | None, _ => false
  end.

Lemma limits_checked :
  forallb (fun h => match sentinels h with
                    | [] => true
                    | l => let vs := values lp64 h in forallb (limit_check h vs) l
                    end) headers = true.
Proof. vm_cast_no_check (eq_refl true). Qed.

(** Where an enumeration ends in a sentinel and its header defines the limit
    that goes with it, the limit is one less than the sentinel and every other
    member is within it, so a table of [X_MAX + 1] entries has room for each
    attribute. Five enumerations are different, and are named. *)
Theorem attribute_limits (h : header) (s m : string) (ns : list string) (b : Z) :
  h ∈ headers -> (s, m, ns) ∈ sentinels h -> assoc m (values lp64 h) = Some b ->
  (path h, s) ∈ loose_limits \/
  assoc s (values lp64 h) = Some (b + 1)%Z /\
  forall n, n ∈ ns -> n <> s -> exists c, assoc n (values lp64 h) = Some c /\ (c <= b)%Z.
Proof.
  intros Hh%list_elem_of_In Hs Hm. pose proof (proj1 (forallb_forall _ _) limits_checked h Hh) as H.
  cbv beta in H. destruct (sentinels h) as [|y l] eqn:E; [by apply elem_of_nil in Hs|].
  apply list_elem_of_In in Hs. apply (proj1 (forallb_forall _ _) H) in Hs. unfold limit_check in Hs.
  rewrite Hm in Hs. destruct (assoc s (values lp64 h)) as [a|]; [|done].
  destruct (_ && _) eqn:Hb.
  - right. apply andb_true_iff in Hb as [->%Z.eqb_eq Hb]. split; [done|].
    intros n Hn%list_elem_of_In Hne. apply (proj1 (forallb_forall _ _) Hb) in Hn.
    destruct (assoc n (values lp64 h)) as [c|]; [|done]. exists c. split; [done|].
    apply orb_true_iff in Hn as [->%String.eqb_eq|Hc]; [done|by apply Z.leb_le].
  - left. apply eqb_prop in Hs. by apply among_iff.
Qed.

Lemma attribute_limits_witness :
  assoc "__CTRL_CMD_MAX" (values lp64 Genetlink.header) = Some 10%Z /\
  exists c, assoc "CTRL_CMD_GETOPS" (values lp64 Genetlink.header) = Some c /\ (c <= 9)%Z.
Proof.
  assert (Hh : Genetlink.header ∈ headers) by by apply (list_elem_of_lookup_2 headers 148).
  destruct (attribute_limits Genetlink.header "__CTRL_CMD_MAX" "CTRL_CMD_MAX"
    (map fst (hd [] (enums Genetlink.header))) 9%Z Hh) as [H|[H1 H2]].
  - apply (list_elem_of_lookup_2 _ 0). by vm_compute.
  - by vm_compute.
  - exfalso. revert H. apply (bool_decide_unpack (_ ∉ _)). by vm_compute.
  - split; [done|]. apply H2; [|done]. apply (list_elem_of_lookup_2 _ 6). by vm_compute.
Defined.

(** ** Control numbers

    [videodev2.h] splits a control's number into a class and an index, of which
    those from [0x1000] are a driver's own. *)
Definition V4L2_CTRL_ID2CLASS (id : Z) : Z := id &&& 0x0fff0000.
Definition V4L2_CTRL_DRIVER_PRIV (id : Z) : bool := (0x1000 <=? (id &&& 0xffff))%Z.

Definition macros (h : header) : list string :=
  flat_map (fun d => match d with Defines ms => map fst ms | _ => [] end) (decls h).
Definition ends_with (q n : string) : bool := bool_decide (is_Some (strip_suffix q n)).
Definition is_control (n : string) : bool :=
  String.prefix "V4L2_CID_" n && negb (ends_with "_BASE" n) && negb (ends_with "_CLASS" n).
Definition named (h : header) (f : string -> bool) (ns : list string) : list (string * Z) :=
  let vs := values lp64 h in
  omap (fun n => if f n then z ← assoc n vs; Some (n, z) else None) ns.

(** The controls of the V4L2 headers, and of the FM radio driver. *)
Definition controls : list (string * Z) :=
  (named V4l2_controls.header is_control (macros V4l2_controls.header) ++
   named Xilinx_v4l2_controls.header is_control (macros Xilinx_v4l2_controls.header) ++
   named Media_radio_iris_commands.header is_control
     (concat (map (map fst) (enums Media_radio_iris_commands.header))))%list.
Definition classes : list Z :=
  map snd (named V4l2_controls.header (String.prefix "V4L2_CTRL_CLASS_") (macros V4l2_controls.header)).

(** A control of the standard that is deprecated, and three of the radio driver
    that count on from a number of the standard. *)
Definition clashing : list (string * string) := [
  ("V4L2_CID_GAMMA", "V4L2_CID_WHITENESS");
  ("V4L2_CID_MIN_BUFFERS_FOR_OUTPUT", "V4L2_CID_PRIVATE_IRIS_READ_DEFAULT");
  ("V4L2_CID_ALPHA_COMPONENT", "V4L2_CID_PRIVATE_IRIS_WRITE_DEFAULT");
  ("V4L2_CID_COLORFX_CBCR", "V4L2_CID_PRIVATE_IRIS_SET_CALIBRATION")].
Definition clash (n m : string) : bool :=
  existsb (fun p => String.eqb n (fst p) && String.eqb m (snd p)) clashing.
Definition V4L2_CID_PRIVATE_BASE : Z := 0x08000000.

Lemma clash_iff n m : clash n m = true <-> (n, m) ∈ clashing.
Proof.
  unfold clash. rewrite existsb_exists, list_elem_of_In. split.
  - intros ([a b] & Hin & [->%String.eqb_eq ->%String.eqb_eq]%andb_true_iff). done.
  - intros H. exists (n, m). by rewrite !String.eqb_refl.
Qed.

Definition control_check (cs : list (string * Z)) (ks : list Z) (x : string * Z) : bool :=
  existsb (Z.eqb (V4L2_CTRL_ID2CLASS (snd x))) ks &&
  forallb (fun y => if (snd x =? snd y)%Z
    then String.eqb (fst x) (fst y) || clash (fst x) (fst y) || clash (fst y) (fst x) else true) cs.
Lemma controls_checked :
  forallb (control_check controls (V4L2_CID_PRIVATE_BASE :: classes)) controls = true.
Proof. vm_cast_no_check (eq_refl true). Qed.

Definition clash_check (cs : list (string * Z)) (p : string * string) : bool :=
  existsb (fun x => String.eqb (fst p) (fst x) &&
    existsb (fun y => String.eqb (snd p) (fst y) && (snd x =? snd y)%Z) cs) cs.
Lemma clashes_checked : forallb (clash_check controls) clashing = true.
Proof. vm_cast_no_check (eq_refl true). Qed.

Lemma controls_spec (cs : list (string * Z)) (ks : list Z) :
  forallb (control_check cs ks) cs = true ->
  (forall n i, (n, i) ∈ cs -> V4L2_CTRL_ID2CLASS i ∈ ks) /\
  (forall n m i, (n, i) ∈ cs -> (m, i) ∈ cs -> n = m \/ (n, m) ∈ clashing \/ (m, n) ∈ clashing).
Proof.
  intros H. pose proof (proj1 (forallb_forall _ _) H) as H'. clear H. unfold control_check in H'. split.
  - intros n i Hn%list_elem_of_In. specialize (H' _ Hn). apply andb_true_iff in H' as [H _].
    apply existsb_exists in H as (k & Hk & Hi%Z.eqb_eq). cbn [snd] in Hi. rewrite Hi.
    by apply list_elem_of_In.
  - intros n m i Hn%list_elem_of_In Hm%list_elem_of_In. specialize (H' _ Hn).
    apply andb_true_iff in H' as [_ H]. apply (proj1 (forallb_forall _ _) H) in Hm.
    cbn [fst snd] in Hm. rewrite Z.eqb_refl, !orb_true_iff, !clash_iff, String.eqb_eq in Hm. tauto.
Qed.

Lemma control_clashes_spec (cs : list (string * Z)) :
  forallb (clash_check cs) clashing = true ->
  forall n m, (n, m) ∈ clashing -> exists i, (n, i) ∈ cs /\ (m, i) ∈ cs.
Proof.
  intros H n m Hc%list_elem_of_In. apply (proj1 (forallb_forall _ _) H) in Hc. unfold clash_check in Hc.
  apply existsb_exists in Hc as ([n' i] & Hn & [En Hc]%andb_true_iff).
  apply existsb_exists in Hc as ([m' j] & Hm & [Em Hj]%andb_true_iff).
  cbn [fst snd] in En, Em, Hj. apply String.eqb_eq in En, Em. apply Z.eqb_eq in Hj. subst n' m' j.
  exists i. by rewrite !list_elem_of_In.
Qed.

(** The number of a control tells it apart: every control of the V4L2 headers
    and of the FM radio driver lies in a class that is defined, or in the private
    range, and two controls with the same number are the same or one of four
    pairs, which do have the same. One pair is an old name; in the other three a
    control of the radio driver has the number of a control of the standard. *)
Theorem controls_identified :
  (forall n i, (n, i) ∈ controls -> V4L2_CTRL_ID2CLASS i ∈ V4L2_CID_PRIVATE_BASE :: classes) /\
  (forall n m i, (n, i) ∈ controls -> (m, i) ∈ controls ->
     n = m \/ (n, m) ∈ clashing \/ (m, n) ∈ clashing) /\
  (forall n m, (n, m) ∈ clashing -> exists i, (n, i) ∈ controls /\ (m, i) ∈ controls).
Proof.
  destruct (controls_spec controls _ controls_checked) as [H1 H2].
  exact (conj H1 (conj H2 (control_clashes_spec controls clashes_checked))).
Qed.

(** ** Message types of rtnetlink

    A message type is the operation in two bits over the family. *)
Definition rtnetlink_const (n : string) : Z := default 0%Z (assoc n (values lp64 Rtnetlink.header)).
Definition RTM_FAM (cmd : Z) : Z := (cmd - rtnetlink_const "RTM_BASE") ≫ 2.

Definition operations : list (string * Z) := [("NEW", 0%Z); ("DEL", 1%Z); ("GET", 2%Z); ("SET", 3%Z)].
(** The operation, the family and the number of the messages [RTM_NEWLINK], ... *)
Definition messages : list (Z * string * Z) :=
  omap (fun x => r ← strip_prefix "RTM_" (fst x); z ← option_map num (snd x);
    List.hd_error (omap (fun o => f ← strip_prefix (fst o) r; Some (snd o, f, z)) operations))
    (values lp64 Rtnetlink.header).

Definition message_check (ms : list (Z * string * Z)) (base nr : Z) : bool :=
  let fam z := (z - base) ≫ 2 in
  forallb (fun '(o, f, z) => ((z &&& 3 =? o) && (0 <=? fam z) && (fam z <? nr))%Z &&
    forallb (fun '(_, g, y) => eqb (fam z =? fam y)%Z (String.eqb f g)) ms) ms.
Lemma messages_checked :
  message_check messages (rtnetlink_const "RTM_BASE") (rtnetlink_const "RTM_NR_FAMILIES") = true.
Proof. vm_cast_no_check (eq_refl true). Qed.

(** The types of the rtnetlink messages: the low two bits are the operation
    the name begins with, [RTM_FAM] gives two messages the same family exactly if
    their names do, and the family is below [RTM_NR_FAMILIES]. *)
Theorem message_families (o p : Z) (f g : string) (x y : Z) :
  (o, f, x) ∈ messages -> (p, g, y) ∈ messages ->
  x &&& 3 = o /\ (0 <= RTM_FAM x < rtnetlink_const "RTM_NR_FAMILIES")%Z /\
  (RTM_FAM x = RTM_FAM y <-> f = g).
Proof.
  intros Hx%list_elem_of_In Hy%list_elem_of_In. pose proof messages_checked as H.
  unfold message_check in H. apply (proj1 (forallb_forall _ _) H) in Hx. clear H.
  apply andb_true_iff in Hx as [Hx H]. apply (proj1 (forallb_forall _ _) H) in Hy. clear H.
  apply andb_true_iff in Hx as [[Ho Hlo]%andb_true_iff Hhi]. apply eqb_prop in Hy.
  fold (RTM_FAM x) in Hlo, Hhi, Hy. fold (RTM_FAM y) in Hy.
  apply Z.eqb_eq in Ho. apply Z.leb_le in Hlo. apply Z.ltb_lt in Hhi.
  split; [done|]. split; [done|]. by rewrite <- Z.eqb_eq, Hy, String.eqb_eq.
Qed.

Lemma message_families_witness : RTM_FAM 18 = RTM_FAM 16 /\ RTM_FAM 18 <> RTM_FAM 22.
Proof.
  assert (H : forall k x, messages !! k = Some x -> x ∈ messages) by (intros; by eapply list_elem_of_lookup_2).
  split.
  - by apply (message_families 2 0 "LINK" "LINK"); [apply (H 2%nat)|apply (H 0%nat)|]; vm_compute.
  - intros E. enough ("LINK" = "ADDR") by done.
    by apply (message_families 2 2 "LINK" "ADDR" 18 22); [apply (H 2%nat)|apply (H 6%nat)|]; vm_compute.
Defined.

(** ** Codes of input events

    The kernel keeps a bitmap of [X_CNT] bits for the codes of each type. *)
Definition code_types : list (string * list string) := [
  ("EV", ["EV_"]); ("KEY", ["KEY_"; "BTN_"]); ("REL", ["REL_"]); ("ABS", ["ABS_"]);
  ("SW", ["SW_"]); ("LED", ["LED_"])].
Definition codes (prefixes : list string) : list (string * Z) :=
  named Input_event_codes.header (fun n => existsb (fun p => String.prefix p n) prefixes)
    (macros Input_event_codes.header).
Definition input_const (n : string) : option Z := assoc n (values lp64 Input_event_codes.header).

Definition code_check (t : string * list string) : bool :=
  match input_const (fst t ++ "_MAX"), input_const (fst t ++ "_CNT") with
  | Some m, Some c => (c =? m + 1)%Z && forallb (fun x =>
      String.eqb (fst x) (fst t ++ "_CNT") || ((0 <=? snd x) && (snd x <=? m))%Z) (codes (snd t))
  | _, _ => false
  end.
Lemma codes_checked : forallb code_check code_types = true.
Proof. vm_cast_no_check (eq_refl true). Qed.

(** The codes of each type of input event are within the type's bitmap:
    [X_CNT] is [X_MAX + 1], and every code is from 0 to [X_MAX]. *)
Theorem event_codes_bounded (t : string) (ps : list string) : (t, ps) ∈ code_types ->
  exists m, input_const (t ++ "_MAX") = Some m /\ input_const (t ++ "_CNT") = Some (m + 1)%Z /\
    forall n z, (n, z) ∈ codes ps -> n <> (t ++ "_CNT") -> (0 <= z <= m)%Z.
Proof.
  intros Ht%list_elem_of_In. pose proof (proj1 (forallb_forall _ _) codes_checked _ Ht) as H.
  unfold code_check in H. cbn [fst snd] in H.
  destruct (input_const (t ++ "_MAX")) as [m|]; [|done].
  destruct (input_const (t ++ "_CNT")) as [c|]; [|done].
  apply andb_true_iff in H as [->%Z.eqb_eq H]. exists m. split; [done|]. split; [done|].
  intros n z Hn%list_elem_of_In Hne. apply (proj1 (forallb_forall _ _) H) in Hn.
  cbn [fst snd] in Hn. apply orb_true_iff in Hn as [?%String.eqb_eq|Hz]; [done|].
  apply andb_true_iff in Hz as [Hl%Z.leb_le Hh%Z.leb_le]. done.
Qed.

Lemma event_codes_bounded_witness :
  exists m, input_const "REL_CNT" = Some (m + 1)%Z /\ (0 <= 8 <= m)%Z.
Proof.
  destruct (event_codes_bounded "REL" ["REL_"]) as (m & _ & Hc & H).
  - by apply (list_elem_of_lookup_2 _ 2).
  - exists m. split; [done|]. apply (H "REL_WHEEL"); [|done].
    apply (list_elem_of_lookup_2 _ 8). by vm_compute.
Defined.

(** ** System calls *)
Definition syscalls : list (string * Z) :=
  named Asm_generic_unistd.header (String.prefix "__NR") (macros Asm_generic_unistd.header).

(** No two system calls have the same number. *)
Lemma syscalls_distinct : NoDup (map snd syscalls).
Proof. apply (bool_decide_unpack _). vm_cast_no_check I. Qed.

(** ** The constants of HDMI-CEC

    [CecConsts] has the constants of [cec.h] as numbers; they are the values of
    the header's macros. *)
Definition cec_constants : list (string * Z) := [
    ("CEC_MSG_FL_REPLY_TO_FOLLOWERS", CEC_MSG_FL_REPLY_TO_FOLLOWERS); ("CEC_TX_STATUS_OK", CEC_TX_STATUS_OK);
    ("CEC_TX_STATUS_ARB_LOST", CEC_TX_STATUS_ARB_LOST); ("CEC_TX_STATUS_NACK", CEC_TX_STATUS_NACK);
    ("CEC_TX_STATUS_LOW_DRIVE", CEC_TX_STATUS_LOW_DRIVE); ("CEC_TX_STATUS_ERROR", CEC_TX_STATUS_ERROR);
    ("CEC_TX_STATUS_MAX_RETRIES", CEC_TX_STATUS_MAX_RETRIES); ("CEC_RX_STATUS_OK", CEC_RX_STATUS_OK);
    ("CEC_RX_STATUS_TIMEOUT", CEC_RX_STATUS_TIMEOUT);
    ("CEC_RX_STATUS_FEATURE_ABORT", CEC_RX_STATUS_FEATURE_ABORT);
    ("CEC_MAX_LOG_ADDRS", Z.of_nat CEC_MAX_LOG_ADDRS); ("CEC_LOG_ADDR_TV", CEC_LOG_ADDR_TV);
    ("CEC_LOG_ADDR_RECORD_1", CEC_LOG_ADDR_RECORD_1); ("CEC_LOG_ADDR_RECORD_2", CEC_LOG_ADDR_RECORD_2);
    ("CEC_LOG_ADDR_TUNER_1", CEC_LOG_ADDR_TUNER_1); ("CEC_LOG_ADDR_PLAYBACK_1", CEC_LOG_ADDR_PLAYBACK_1);
    ("CEC_LOG_ADDR_AUDIOSYSTEM", CEC_LOG_ADDR_AUDIOSYSTEM); ("CEC_LOG_ADDR_TUNER_2", CEC_LOG_ADDR_TUNER_2);
    ("CEC_LOG_ADDR_TUNER_3", CEC_LOG_ADDR_TUNER_3); ("CEC_LOG_ADDR_PLAYBACK_2", CEC_LOG_ADDR_PLAYBACK_2);
    ("CEC_LOG_ADDR_RECORD_3", CEC_LOG_ADDR_RECORD_3); ("CEC_LOG_ADDR_TUNER_4", CEC_LOG_ADDR_TUNER_4);
    ("CEC_LOG_ADDR_PLAYBACK_3", CEC_LOG_ADDR_PLAYBACK_3); ("CEC_LOG_ADDR_BACKUP_1", CEC_LOG_ADDR_BACKUP_1);
    ("CEC_LOG_ADDR_BACKUP_2", CEC_LOG_ADDR_BACKUP_2); ("CEC_LOG_ADDR_SPECIFIC", CEC_LOG_ADDR_SPECIFIC);
    ("CEC_LOG_ADDR_UNREGISTERED", CEC_LOG_ADDR_UNREGISTERED);
    ("CEC_LOG_ADDR_BROADCAST", CEC_LOG_ADDR_BROADCAST); ("CEC_LOG_ADDR_TYPE_TV", CEC_LOG_ADDR_TYPE_TV);
    ("CEC_LOG_ADDR_TYPE_RECORD", CEC_LOG_ADDR_TYPE_RECORD);
    ("CEC_LOG_ADDR_TYPE_TUNER", CEC_LOG_ADDR_TYPE_TUNER);
    ("CEC_LOG_ADDR_TYPE_PLAYBACK", CEC_LOG_ADDR_TYPE_PLAYBACK);
    ("CEC_LOG_ADDR_TYPE_AUDIOSYSTEM", CEC_LOG_ADDR_TYPE_AUDIOSYSTEM);
    ("CEC_LOG_ADDR_TYPE_SPECIFIC", CEC_LOG_ADDR_TYPE_SPECIFIC);
    ("CEC_LOG_ADDR_TYPE_UNREGISTERED", CEC_LOG_ADDR_TYPE_UNREGISTERED);
    ("CEC_LOG_ADDR_MASK_TV", CEC_LOG_ADDR_MASK_TV); ("CEC_LOG_ADDR_MASK_RECORD", CEC_LOG_ADDR_MASK_RECORD);
    ("CEC_LOG_ADDR_MASK_TUNER", CEC_LOG_ADDR_MASK_TUNER);
    ("CEC_LOG_ADDR_MASK_PLAYBACK", CEC_LOG_ADDR_MASK_PLAYBACK);
    ("CEC_LOG_ADDR_MASK_AUDIOSYSTEM", CEC_LOG_ADDR_MASK_AUDIOSYSTEM);
    ("CEC_LOG_ADDR_MASK_BACKUP", CEC_LOG_ADDR_MASK_BACKUP);
    ("CEC_LOG_ADDR_MASK_SPECIFIC", CEC_LOG_ADDR_MASK_SPECIFIC);
    ("CEC_LOG_ADDR_MASK_UNREGISTERED", CEC_LOG_ADDR_MASK_UNREGISTERED);
    ("CEC_VENDOR_ID_NONE", CEC_VENDOR_ID_NONE); ("CEC_MODE_NO_INITIATOR", CEC_MODE_NO_INITIATOR);
    ("CEC_MODE_INITIATOR", CEC_MODE_INITIATOR); ("CEC_MODE_EXCL_INITIATOR", CEC_MODE_EXCL_INITIATOR);
    ("CEC_MODE_INITIATOR_MSK", CEC_MODE_INITIATOR_MSK); ("CEC_MODE_NO_FOLLOWER", CEC_MODE_NO_FOLLOWER);
    ("CEC_MODE_FOLLOWER", CEC_MODE_FOLLOWER); ("CEC_MODE_EXCL_FOLLOWER", CEC_MODE_EXCL_FOLLOWER);
    ("CEC_MODE_EXCL_FOLLOWER_PASSTHRU", CEC_MODE_EXCL_FOLLOWER_PASSTHRU);
    ("CEC_MODE_MONITOR", CEC_MODE_MONITOR); ("CEC_MODE_MONITOR_ALL", CEC_MODE_MONITOR_ALL);
    ("CEC_MODE_FOLLOWER_MSK", CEC_MODE_FOLLOWER_MSK); ("CEC_CAP_PHYS_ADDR", CEC_CAP_PHYS_ADDR);
    ("CEC_CAP_LOG_ADDRS", CEC_CAP_LOG_ADDRS); ("CEC_CAP_TRANSMIT", CEC_CAP_TRANSMIT);
    ("CEC_CAP_PASSTHROUGH", CEC_CAP_PASSTHROUGH); ("CEC_CAP_RC", CEC_CAP_RC);
    ("CEC_CAP_MONITOR_ALL", CEC_CAP_MONITOR_ALL); ("CEC_MSG_INACTIVE_SOURCE", CEC_MSG_INACTIVE_SOURCE);
    ("CEC_MSG_REQUEST_ACTIVE_SOURCE", CEC_MSG_REQUEST_ACTIVE_SOURCE);
    ("CEC_MSG_ROUTING_CHANGE", CEC_MSG_ROUTING_CHANGE);
    ("CEC_MSG_ROUTING_INFORMATION", CEC_MSG_ROUTING_INFORMATION);
    ("CEC_MSG_SET_STREAM_PATH", CEC_MSG_SET_STREAM_PATH); ("CEC_MSG_STANDBY", CEC_MSG_STANDBY);
    ("CEC_MSG_RECORD_OFF", CEC_MSG_RECORD_OFF); ("CEC_MSG_RECORD_ON", CEC_MSG_RECORD_ON);
    ("CEC_OP_RECORD_SRC_OWN", CEC_OP_RECORD_SRC_OWN);
    ("CEC_OP_RECORD_SRC_DIGITAL", CEC_OP_RECORD_SRC_DIGITAL);
    ("CEC_OP_RECORD_SRC_ANALOG", CEC_OP_RECORD_SRC_ANALOG);
    ("CEC_OP_RECORD_SRC_EXT_PLUG", CEC_OP_RECORD_SRC_EXT_PLUG);
    ("CEC_OP_RECORD_SRC_EXT_PHYS_ADDR", CEC_OP_RECORD_SRC_EXT_PHYS_ADDR);
    ("CEC_OP_SERVICE_ID_METHOD_BY_DIG_ID", CEC_OP_SERVICE_ID_METHOD_BY_DIG_ID);
    ("CEC_OP_SERVICE_ID_METHOD_BY_CHANNEL", CEC_OP_SERVICE_ID_METHOD_BY_CHANNEL);
    ("CEC_OP_DIG_SERVICE_BCAST_SYSTEM_ARIB_GEN", CEC_OP_DIG_SERVICE_BCAST_SYSTEM_ARIB_GEN);
    ("CEC_OP_DIG_SERVICE_BCAST_SYSTEM_ATSC_GEN", CEC_OP_DIG_SERVICE_BCAST_SYSTEM_ATSC_GEN);
    ("CEC_OP_DIG_SERVICE_BCAST_SYSTEM_DVB_GEN", CEC_OP_DIG_SERVICE_BCAST_SYSTEM_DVB_GEN);
    ("CEC_OP_DIG_SERVICE_BCAST_SYSTEM_ARIB_BS", CEC_OP_DIG_SERVICE_BCAST_SYSTEM_ARIB_BS);
    ("CEC_OP_DIG_SERVICE_BCAST_SYSTEM_ARIB_CS", CEC_OP_DIG_SERVICE_BCAST_SYSTEM_ARIB_CS);
    ("CEC_OP_DIG_SERVICE_BCAST_SYSTEM_ARIB_T", CEC_OP_DIG_SERVICE_BCAST_SYSTEM_ARIB_T);
    ("CEC_OP_DIG_SERVICE_BCAST_SYSTEM_ATSC_CABLE", CEC_OP_DIG_SERVICE_BCAST_SYSTEM_ATSC_CABLE);
    ("CEC_OP_DIG_SERVICE_BCAST_SYSTEM_ATSC_SAT", CEC_OP_DIG_SERVICE_BCAST_SYSTEM_ATSC_SAT);
    ("CEC_OP_DIG_SERVICE_BCAST_SYSTEM_ATSC_T", CEC_OP_DIG_SERVICE_BCAST_SYSTEM_ATSC_T);
    ("CEC_OP_DIG_SERVICE_BCAST_SYSTEM_DVB_C", CEC_OP_DIG_SERVICE_BCAST_SYSTEM_DVB_C);
    ("CEC_OP_DIG_SERVICE_BCAST_SYSTEM_DVB_S", CEC_OP_DIG_SERVICE_BCAST_SYSTEM_DVB_S);
    ("CEC_OP_DIG_SERVICE_BCAST_SYSTEM_DVB_S2", CEC_OP_DIG_SERVICE_BCAST_SYSTEM_DVB_S2);
    ("CEC_OP_DIG_SERVICE_BCAST_SYSTEM_DVB_T", CEC_OP_DIG_SERVICE_BCAST_SYSTEM_DVB_T);
    ("CEC_OP_ANA_BCAST_TYPE_CABLE", CEC_OP_ANA_BCAST_TYPE_CABLE);
    ("CEC_OP_ANA_BCAST_TYPE_SATELLITE", CEC_OP_ANA_BCAST_TYPE_SATELLITE);
    ("CEC_OP_ANA_BCAST_TYPE_TERRESTRIAL", CEC_OP_ANA_BCAST_TYPE_TERRESTRIAL);
    ("CEC_OP_BCAST_SYSTEM_PAL_BG", CEC_OP_BCAST_SYSTEM_PAL_BG);
    ("CEC_OP_BCAST_SYSTEM_SECAM_LQ", CEC_OP_BCAST_SYSTEM_SECAM_LQ);
    ("CEC_OP_BCAST_SYSTEM_PAL_M", CEC_OP_BCAST_SYSTEM_PAL_M);
    ("CEC_OP_BCAST_SYSTEM_NTSC_M", CEC_OP_BCAST_SYSTEM_NTSC_M);
    ("CEC_OP_BCAST_SYSTEM_PAL_I", CEC_OP_BCAST_SYSTEM_PAL_I);
    ("CEC_OP_BCAST_SYSTEM_SECAM_DK", CEC_OP_BCAST_SYSTEM_SECAM_DK);
    ("CEC_OP_BCAST_SYSTEM_SECAM_BG", CEC_OP_BCAST_SYSTEM_SECAM_BG);
    ("CEC_OP_BCAST_SYSTEM_SECAM_L", CEC_OP_BCAST_SYSTEM_SECAM_L);
    ("CEC_OP_BCAST_SYSTEM_PAL_DK", CEC_OP_BCAST_SYSTEM_PAL_DK);
    ("CEC_OP_BCAST_SYSTEM_OTHER", CEC_OP_BCAST_SYSTEM_OTHER);
    ("CEC_OP_CHANNEL_NUMBER_FMT_1_PART", CEC_OP_CHANNEL_NUMBER_FMT_1_PART);
    ("CEC_OP_CHANNEL_NUMBER_FMT_2_PART", CEC_OP_CHANNEL_NUMBER_FMT_2_PART);
    ("CEC_MSG_RECORD_STATUS", CEC_MSG_RECORD_STATUS);
    ("CEC_OP_RECORD_STATUS_CUR_SRC", CEC_OP_RECORD_STATUS_CUR_SRC);
    ("CEC_OP_RECORD_STATUS_DIG_SERVICE", CEC_OP_RECORD_STATUS_DIG_SERVICE);
    ("CEC_OP_RECORD_STATUS_ANA_SERVICE", CEC_OP_RECORD_STATUS_ANA_SERVICE);
    ("CEC_OP_RECORD_STATUS_EXT_INPUT", CEC_OP_RECORD_STATUS_EXT_INPUT);
    ("CEC_OP_RECORD_STATUS_NO_DIG_SERVICE", CEC_OP_RECORD_STATUS_NO_DIG_SERVICE);
    ("CEC_OP_RECORD_STATUS_NO_ANA_SERVICE", CEC_OP_RECORD_STATUS_NO_ANA_SERVICE);
    ("CEC_OP_RECORD_STATUS_NO_SERVICE", CEC_OP_RECORD_STATUS_NO_SERVICE);
    ("CEC_OP_RECORD_STATUS_INVALID_EXT_PLUG", CEC_OP_RECORD_STATUS_INVALID_EXT_PLUG);
    ("CEC_OP_RECORD_STATUS_INVALID_EXT_PHYS_ADDR", CEC_OP_RECORD_STATUS_INVALID_EXT_PHYS_ADDR);
    ("CEC_OP_RECORD_STATUS_UNSUP_CA", CEC_OP_RECORD_STATUS_UNSUP_CA);
    ("CEC_OP_RECORD_STATUS_NO_CA_ENTITLEMENTS", CEC_OP_RECORD_STATUS_NO_CA_ENTITLEMENTS);
    ("CEC_OP_RECORD_STATUS_CANT_COPY_SRC", CEC_OP_RECORD_STATUS_CANT_COPY_SRC);
    ("CEC_OP_RECORD_STATUS_NO_MORE_COPIES", CEC_OP_RECORD_STATUS_NO_MORE_COPIES);
    ("CEC_OP_RECORD_STATUS_NO_MEDIA", CEC_OP_RECORD_STATUS_NO_MEDIA);
    ("CEC_OP_RECORD_STATUS_PLAYING", CEC_OP_RECORD_STATUS_PLAYING);
    ("CEC_OP_RECORD_STATUS_ALREADY_RECORDING", CEC_OP_RECORD_STATUS_ALREADY_RECORDING);
    ("CEC_OP_RECORD_STATUS_MEDIA_PROT", CEC_OP_RECORD_STATUS_MEDIA_PROT);
    ("CEC_OP_RECORD_STATUS_NO_SIGNAL", CEC_OP_RECORD_STATUS_NO_SIGNAL);
    ("CEC_OP_RECORD_STATUS_MEDIA_PROBLEM", CEC_OP_RECORD_STATUS_MEDIA_PROBLEM);
    ("CEC_OP_RECORD_STATUS_NO_SPACE", CEC_OP_RECORD_STATUS_NO_SPACE);
    ("CEC_OP_RECORD_STATUS_PARENTAL_LOCK", CEC_OP_RECORD_STATUS_PARENTAL_LOCK);
    ("CEC_OP_RECORD_STATUS_TERMINATED_OK", CEC_OP_RECORD_STATUS_TERMINATED_OK);
    ("CEC_OP_RECORD_STATUS_ALREADY_TERM", CEC_OP_RECORD_STATUS_ALREADY_TERM);
    ("CEC_OP_RECORD_STATUS_OTHER", CEC_OP_RECORD_STATUS_OTHER);
    ("CEC_MSG_RECORD_TV_SCREEN", CEC_MSG_RECORD_TV_SCREEN);
    ("CEC_MSG_CLEAR_ANALOGUE_TIMER", CEC_MSG_CLEAR_ANALOGUE_TIMER);
    ("CEC_OP_REC_SEQ_SUNDAY", CEC_OP_REC_SEQ_SUNDAY); ("CEC_OP_REC_SEQ_MONDAY", CEC_OP_REC_SEQ_MONDAY);
    ("CEC_OP_REC_SEQ_TUESDAY", CEC_OP_REC_SEQ_TUESDAY);
    ("CEC_OP_REC_SEQ_WEDNESDAY", CEC_OP_REC_SEQ_WEDNESDAY);
    ("CEC_OP_REC_SEQ_THURSDAY", CEC_OP_REC_SEQ_THURSDAY); ("CEC_OP_REC_SEQ_FRIDAY", CEC_OP_REC_SEQ_FRIDAY);
    ("CEC_OP_REC_SEQ_SATERDAY", CEC_OP_REC_SEQ_SATERDAY);
    ("CEC_OP_REC_SEQ_ONCE_ONLY", CEC_OP_REC_SEQ_ONCE_ONLY);
    ("CEC_MSG_CLEAR_DIGITAL_TIMER", CEC_MSG_CLEAR_DIGITAL_TIMER);
    ("CEC_MSG_CLEAR_EXT_TIMER", CEC_MSG_CLEAR_EXT_TIMER); ("CEC_OP_EXT_SRC_PLUG", CEC_OP_EXT_SRC_PLUG);
    ("CEC_OP_EXT_SRC_PHYS_ADDR", CEC_OP_EXT_SRC_PHYS_ADDR);
    ("CEC_MSG_SET_ANALOGUE_TIMER", CEC_MSG_SET_ANALOGUE_TIMER);
    ("CEC_MSG_SET_DIGITAL_TIMER", CEC_MSG_SET_DIGITAL_TIMER);
    ("CEC_MSG_SET_EXT_TIMER", CEC_MSG_SET_EXT_TIMER);
    ("CEC_MSG_SET_TIMER_PROGRAM_TITLE", CEC_MSG_SET_TIMER_PROGRAM_TITLE);
    ("CEC_MSG_TIMER_CLEARED_STATUS", CEC_MSG_TIMER_CLEARED_STATUS);
    ("CEC_OP_TIMER_CLR_STAT_RECORDING", CEC_OP_TIMER_CLR_STAT_RECORDING);
    ("CEC_OP_TIMER_CLR_STAT_NO_MATCHING", CEC_OP_TIMER_CLR_STAT_NO_MATCHING);
    ("CEC_OP_TIMER_CLR_STAT_NO_INFO", CEC_OP_TIMER_CLR_STAT_NO_INFO);
    ("CEC_OP_TIMER_CLR_STAT_CLEARED", CEC_OP_TIMER_CLR_STAT_CLEARED);
    ("CEC_MSG_TIMER_STATUS", CEC_MSG_TIMER_STATUS);
    ("CEC_OP_TIMER_OVERLAP_WARNING_NO_OVERLAP", CEC_OP_TIMER_OVERLAP_WARNING_NO_OVERLAP);
    ("CEC_OP_TIMER_OVERLAP_WARNING_OVERLAP", CEC_OP_TIMER_OVERLAP_WARNING_OVERLAP);
    ("CEC_OP_MEDIA_INFO_UNPROT_MEDIA", CEC_OP_MEDIA_INFO_UNPROT_MEDIA);
    ("CEC_OP_MEDIA_INFO_PROT_MEDIA", CEC_OP_MEDIA_INFO_PROT_MEDIA);
    ("CEC_OP_MEDIA_INFO_NO_MEDIA", CEC_OP_MEDIA_INFO_NO_MEDIA);
    ("CEC_OP_PROG_IND_NOT_PROGRAMMED", CEC_OP_PROG_IND_NOT_PROGRAMMED);
    ("CEC_OP_PROG_IND_PROGRAMMED", CEC_OP_PROG_IND_PROGRAMMED);
    ("CEC_OP_PROG_INFO_ENOUGH_SPACE", CEC_OP_PROG_INFO_ENOUGH_SPACE);
    ("CEC_OP_PROG_INFO_NOT_ENOUGH_SPACE", CEC_OP_PROG_INFO_NOT_ENOUGH_SPACE);
    ("CEC_OP_PROG_INFO_MIGHT_NOT_BE_ENOUGH_SPACE", CEC_OP_PROG_INFO_MIGHT_NOT_BE_ENOUGH_SPACE);
    ("CEC_OP_PROG_INFO_NONE_AVAILABLE", CEC_OP_PROG_INFO_NONE_AVAILABLE);
    ("CEC_OP_PROG_ERROR_NO_FREE_TIMER", CEC_OP_PROG_ERROR_NO_FREE_TIMER);
    ("CEC_OP_PROG_ERROR_DATE_OUT_OF_RANGE", CEC_OP_PROG_ERROR_DATE_OUT_OF_RANGE);
    ("CEC_OP_PROG_ERROR_REC_SEQ_ERROR", CEC_OP_PROG_ERROR_REC_SEQ_ERROR);
    ("CEC_OP_PROG_ERROR_INV_EXT_PLUG", CEC_OP_PROG_ERROR_INV_EXT_PLUG);
    ("CEC_OP_PROG_ERROR_INV_EXT_PHYS_ADDR", CEC_OP_PROG_ERROR_INV_EXT_PHYS_ADDR);
    ("CEC_OP_PROG_ERROR_CA_UNSUPP", CEC_OP_PROG_ERROR_CA_UNSUPP);
    ("CEC_OP_PROG_ERROR_INSUF_CA_ENTITLEMENTS", CEC_OP_PROG_ERROR_INSUF_CA_ENTITLEMENTS);
    ("CEC_OP_PROG_ERROR_RESOLUTION_UNSUPP", CEC_OP_PROG_ERROR_RESOLUTION_UNSUPP);
    ("CEC_OP_PROG_ERROR_PARENTAL_LOCK", CEC_OP_PROG_ERROR_PARENTAL_LOCK);
    ("CEC_OP_PROG_ERROR_CLOCK_FAILURE", CEC_OP_PROG_ERROR_CLOCK_FAILURE);
    ("CEC_OP_PROG_ERROR_DUPLICATE", CEC_OP_PROG_ERROR_DUPLICATE);
    ("CEC_MSG_CEC_VERSION", CEC_MSG_CEC_VERSION); ("CEC_OP_CEC_VERSION_1_3A", CEC_OP_CEC_VERSION_1_3A);
    ("CEC_OP_CEC_VERSION_1_4", CEC_OP_CEC_VERSION_1_4); ("CEC_OP_CEC_VERSION_2_0", CEC_OP_CEC_VERSION_2_0);
    ("CEC_MSG_GET_CEC_VERSION", CEC_MSG_GET_CEC_VERSION);
    ("CEC_MSG_GIVE_PHYSICAL_ADDR", CEC_MSG_GIVE_PHYSICAL_ADDR);
    ("CEC_MSG_GET_MENU_LANGUAGE", CEC_MSG_GET_MENU_LANGUAGE);
    ("CEC_MSG_REPORT_PHYSICAL_ADDR", CEC_MSG_REPORT_PHYSICAL_ADDR);
    ("CEC_OP_PRIM_DEVTYPE_TV", CEC_OP_PRIM_DEVTYPE_TV);
    ("CEC_OP_PRIM_DEVTYPE_RECORD", CEC_OP_PRIM_DEVTYPE_RECORD);
    ("CEC_OP_PRIM_DEVTYPE_TUNER", CEC_OP_PRIM_DEVTYPE_TUNER);
    ("CEC_OP_PRIM_DEVTYPE_PLAYBACK", CEC_OP_PRIM_DEVTYPE_PLAYBACK);
    ("CEC_OP_PRIM_DEVTYPE_AUDIOSYSTEM", CEC_OP_PRIM_DEVTYPE_AUDIOSYSTEM);
    ("CEC_OP_PRIM_DEVTYPE_SWITCH", CEC_OP_PRIM_DEVTYPE_SWITCH);
    ("CEC_OP_PRIM_DEVTYPE_PROCESSOR", CEC_OP_PRIM_DEVTYPE_PROCESSOR);
    ("CEC_MSG_SET_MENU_LANGUAGE", CEC_MSG_SET_MENU_LANGUAGE);
    ("CEC_MSG_REPORT_FEATURES", CEC_MSG_REPORT_FEATURES); ("CEC_OP_ALL_DEVTYPE_TV", CEC_OP_ALL_DEVTYPE_TV);
    ("CEC_OP_ALL_DEVTYPE_RECORD", CEC_OP_ALL_DEVTYPE_RECORD);
    ("CEC_OP_ALL_DEVTYPE_TUNER", CEC_OP_ALL_DEVTYPE_TUNER);
    ("CEC_OP_ALL_DEVTYPE_PLAYBACK", CEC_OP_ALL_DEVTYPE_PLAYBACK);
    ("CEC_OP_ALL_DEVTYPE_AUDIOSYSTEM", CEC_OP_ALL_DEVTYPE_AUDIOSYSTEM);
    ("CEC_OP_ALL_DEVTYPE_SWITCH", CEC_OP_ALL_DEVTYPE_SWITCH); ("CEC_OP_FEAT_EXT", CEC_OP_FEAT_EXT);
    ("CEC_OP_FEAT_RC_TV_PROFILE_NONE", CEC_OP_FEAT_RC_TV_PROFILE_NONE);
    ("CEC_OP_FEAT_RC_TV_PROFILE_1", CEC_OP_FEAT_RC_TV_PROFILE_1);
    ("CEC_OP_FEAT_RC_TV_PROFILE_2", CEC_OP_FEAT_RC_TV_PROFILE_2);
    ("CEC_OP_FEAT_RC_TV_PROFILE_3", CEC_OP_FEAT_RC_TV_PROFILE_3);
    ("CEC_OP_FEAT_RC_TV_PROFILE_4", CEC_OP_FEAT_RC_TV_PROFILE_4);
    ("CEC_OP_FEAT_RC_SRC_HAS_DEV_ROOT_MENU", CEC_OP_FEAT_RC_SRC_HAS_DEV_ROOT_MENU);
    ("CEC_OP_FEAT_RC_SRC_HAS_DEV_SETUP_MENU", CEC_OP_FEAT_RC_SRC_HAS_DEV_SETUP_MENU);
    ("CEC_OP_FEAT_RC_SRC_HAS_CONTENTS_MENU", CEC_OP_FEAT_RC_SRC_HAS_CONTENTS_MENU);
    ("CEC_OP_FEAT_RC_SRC_HAS_MEDIA_TOP_MENU", CEC_OP_FEAT_RC_SRC_HAS_MEDIA_TOP_MENU);
    ("CEC_OP_FEAT_RC_SRC_HAS_MEDIA_CONTEXT_MENU", CEC_OP_FEAT_RC_SRC_HAS_MEDIA_CONTEXT_MENU);
    ("CEC_OP_FEAT_DEV_HAS_RECORD_TV_SCREEN", CEC_OP_FEAT_DEV_HAS_RECORD_TV_SCREEN);
    ("CEC_OP_FEAT_DEV_HAS_SET_OSD_STRING", CEC_OP_FEAT_DEV_HAS_SET_OSD_STRING);
    ("CEC_OP_FEAT_DEV_HAS_DECK_CONTROL", CEC_OP_FEAT_DEV_HAS_DECK_CONTROL);
    ("CEC_OP_FEAT_DEV_HAS_SET_AUDIO_RATE", CEC_OP_FEAT_DEV_HAS_SET_AUDIO_RATE);
    ("CEC_OP_FEAT_DEV_SINK_HAS_ARC_TX", CEC_OP_FEAT_DEV_SINK_HAS_ARC_TX);
    ("CEC_OP_FEAT_DEV_SOURCE_HAS_ARC_RX", CEC_OP_FEAT_DEV_SOURCE_HAS_ARC_RX);
    ("CEC_MSG_GIVE_FEATURES", CEC_MSG_GIVE_FEATURES); ("CEC_MSG_DECK_CONTROL", CEC_MSG_DECK_CONTROL);
    ("CEC_OP_DECK_CTL_MODE_SKIP_FWD", CEC_OP_DECK_CTL_MODE_SKIP_FWD);
    ("CEC_OP_DECK_CTL_MODE_SKIP_REV", CEC_OP_DECK_CTL_MODE_SKIP_REV);
    ("CEC_OP_DECK_CTL_MODE_STOP", CEC_OP_DECK_CTL_MODE_STOP);
    ("CEC_OP_DECK_CTL_MODE_EJECT", CEC_OP_DECK_CTL_MODE_EJECT); ("CEC_MSG_DECK_STATUS", CEC_MSG_DECK_STATUS);
    ("CEC_OP_DECK_INFO_PLAY", CEC_OP_DECK_INFO_PLAY); ("CEC_OP_DECK_INFO_RECORD", CEC_OP_DECK_INFO_RECORD);
    ("CEC_OP_DECK_INFO_PLAY_REV", CEC_OP_DECK_INFO_PLAY_REV);
    ("CEC_OP_DECK_INFO_STILL", CEC_OP_DECK_INFO_STILL); ("CEC_OP_DECK_INFO_SLOW", CEC_OP_DECK_INFO_SLOW);
    ("CEC_OP_DECK_INFO_SLOW_REV", CEC_OP_DECK_INFO_SLOW_REV);
    ("CEC_OP_DECK_INFO_FAST_FWD", CEC_OP_DECK_INFO_FAST_FWD);
    ("CEC_OP_DECK_INFO_FAST_REV", CEC_OP_DECK_INFO_FAST_REV);
    ("CEC_OP_DECK_INFO_NO_MEDIA", CEC_OP_DECK_INFO_NO_MEDIA);
    ("CEC_OP_DECK_INFO_STOP", CEC_OP_DECK_INFO_STOP);
    ("CEC_OP_DECK_INFO_SKIP_FWD", CEC_OP_DECK_INFO_SKIP_FWD);
    ("CEC_OP_DECK_INFO_SKIP_REV", CEC_OP_DECK_INFO_SKIP_REV);
    ("CEC_OP_DECK_INFO_INDEX_SEARCH_FWD", CEC_OP_DECK_INFO_INDEX_SEARCH_FWD);
    ("CEC_OP_DECK_INFO_INDEX_SEARCH_REV", CEC_OP_DECK_INFO_INDEX_SEARCH_REV);
    ("CEC_OP_DECK_INFO_OTHER", CEC_OP_DECK_INFO_OTHER);
    ("CEC_MSG_GIVE_DECK_STATUS", CEC_MSG_GIVE_DECK_STATUS); ("CEC_OP_STATUS_REQ_ON", CEC_OP_STATUS_REQ_ON);
    ("CEC_OP_STATUS_REQ_OFF", CEC_OP_STATUS_REQ_OFF); ("CEC_OP_STATUS_REQ_ONCE", CEC_OP_STATUS_REQ_ONCE);
    ("CEC_MSG_PLAY", CEC_MSG_PLAY); ("CEC_OP_PLAY_MODE_PLAY_FWD", CEC_OP_PLAY_MODE_PLAY_FWD);
    ("CEC_OP_PLAY_MODE_PLAY_REV", CEC_OP_PLAY_MODE_PLAY_REV);
    ("CEC_OP_PLAY_MODE_PLAY_STILL", CEC_OP_PLAY_MODE_PLAY_STILL);
    ("CEC_OP_PLAY_MODE_PLAY_FAST_FWD_MIN", CEC_OP_PLAY_MODE_PLAY_FAST_FWD_MIN);
    ("CEC_OP_PLAY_MODE_PLAY_FAST_FWD_MED", CEC_OP_PLAY_MODE_PLAY_FAST_FWD_MED);
    ("CEC_OP_PLAY_MODE_PLAY_FAST_FWD_MAX", CEC_OP_PLAY_MODE_PLAY_FAST_FWD_MAX);
    ("CEC_OP_PLAY_MODE_PLAY_FAST_REV_MIN", CEC_OP_PLAY_MODE_PLAY_FAST_REV_MIN);
    ("CEC_OP_PLAY_MODE_PLAY_FAST_REV_MED", CEC_OP_PLAY_MODE_PLAY_FAST_REV_MED);
    ("CEC_OP_PLAY_MODE_PLAY_FAST_REV_MAX", CEC_OP_PLAY_MODE_PLAY_FAST_REV_MAX);
    ("CEC_OP_PLAY_MODE_PLAY_SLOW_FWD_MIN", CEC_OP_PLAY_MODE_PLAY_SLOW_FWD_MIN);
    ("CEC_OP_PLAY_MODE_PLAY_SLOW_FWD_MED", CEC_OP_PLAY_MODE_PLAY_SLOW_FWD_MED);
    ("CEC_OP_PLAY_MODE_PLAY_SLOW_FWD_MAX", CEC_OP_PLAY_MODE_PLAY_SLOW_FWD_MAX);
    ("CEC_OP_PLAY_MODE_PLAY_SLOW_REV_MIN", CEC_OP_PLAY_MODE_PLAY_SLOW_REV_MIN);
    ("CEC_OP_PLAY_MODE_PLAY_SLOW_REV_MED", CEC_OP_PLAY_MODE_PLAY_SLOW_REV_MED);
    ("CEC_OP_PLAY_MODE_PLAY_SLOW_REV_MAX", CEC_OP_PLAY_MODE_PLAY_SLOW_REV_MAX);
    ("CEC_MSG_GIVE_TUNER_DEVICE_STATUS", CEC_MSG_GIVE_TUNER_DEVICE_STATUS);
    ("CEC_MSG_SELECT_ANALOGUE_SERVICE", CEC_MSG_SELECT_ANALOGUE_SERVICE);
    ("CEC_MSG_SELECT_DIGITAL_SERVICE", CEC_MSG_SELECT_DIGITAL_SERVICE);
    ("CEC_MSG_TUNER_DEVICE_STATUS", CEC_MSG_TUNER_DEVICE_STATUS);
    ("CEC_OP_REC_FLAG_USED", CEC_OP_REC_FLAG_USED); ("CEC_OP_REC_FLAG_NOT_USED", CEC_OP_REC_FLAG_NOT_USED);
    ("CEC_OP_TUNER_DISPLAY_INFO_DIGITAL", CEC_OP_TUNER_DISPLAY_INFO_DIGITAL);
    ("CEC_OP_TUNER_DISPLAY_INFO_NONE", CEC_OP_TUNER_DISPLAY_INFO_NONE);
    ("CEC_OP_TUNER_DISPLAY_INFO_ANALOGUE", CEC_OP_TUNER_DISPLAY_INFO_ANALOGUE);
    ("CEC_MSG_TUNER_STEP_DECREMENT", CEC_MSG_TUNER_STEP_DECREMENT);
    ("CEC_MSG_TUNER_STEP_INCREMENT", CEC_MSG_TUNER_STEP_INCREMENT);
    ("CEC_MSG_DEVICE_VENDOR_ID", CEC_MSG_DEVICE_VENDOR_ID);
    ("CEC_MSG_GIVE_DEVICE_VENDOR_ID", CEC_MSG_GIVE_DEVICE_VENDOR_ID);
    ("CEC_MSG_VENDOR_COMMAND", CEC_MSG_VENDOR_COMMAND);
    ("CEC_MSG_VENDOR_COMMAND_WITH_ID", CEC_MSG_VENDOR_COMMAND_WITH_ID);
    ("CEC_MSG_VENDOR_REMOTE_BUTTON_DOWN", CEC_MSG_VENDOR_REMOTE_BUTTON_DOWN);
    ("CEC_MSG_VENDOR_REMOTE_BUTTON_UP", CEC_MSG_VENDOR_REMOTE_BUTTON_UP);
    ("CEC_MSG_SET_OSD_STRING", CEC_MSG_SET_OSD_STRING); ("CEC_OP_DISP_CTL_DEFAULT", CEC_OP_DISP_CTL_DEFAULT);
    ("CEC_OP_DISP_CTL_UNTIL_CLEARED", CEC_OP_DISP_CTL_UNTIL_CLEARED);
    ("CEC_OP_DISP_CTL_CLEAR", CEC_OP_DISP_CTL_CLEAR); ("CEC_MSG_GIVE_OSD_NAME", CEC_MSG_GIVE_OSD_NAME);
    ("CEC_MSG_SET_OSD_NAME", CEC_MSG_SET_OSD_NAME); ("CEC_MSG_MENU_REQUEST", CEC_MSG_MENU_REQUEST);
    ("CEC_OP_MENU_REQUEST_ACTIVATE", CEC_OP_MENU_REQUEST_ACTIVATE);
    ("CEC_OP_MENU_REQUEST_DEACTIVATE", CEC_OP_MENU_REQUEST_DEACTIVATE);
    ("CEC_OP_MENU_REQUEST_QUERY", CEC_OP_MENU_REQUEST_QUERY); ("CEC_MSG_MENU_STATUS", CEC_MSG_MENU_STATUS);
    ("CEC_OP_MENU_STATE_ACTIVATED", CEC_OP_MENU_STATE_ACTIVATED);
    ("CEC_OP_MENU_STATE_DEACTIVATED", CEC_OP_MENU_STATE_DEACTIVATED);
    ("CEC_MSG_USER_CONTROL_PRESSED", CEC_MSG_USER_CONTROL_PRESSED);
    ("CEC_OP_UI_BCAST_TYPE_TOGGLE_ALL", CEC_OP_UI_BCAST_TYPE_TOGGLE_ALL);
    ("CEC_OP_UI_BCAST_TYPE_TOGGLE_DIG_ANA", CEC_OP_UI_BCAST_TYPE_TOGGLE_DIG_ANA);
    ("CEC_OP_UI_BCAST_TYPE_ANALOGUE", CEC_OP_UI_BCAST_TYPE_ANALOGUE);
    ("CEC_OP_UI_BCAST_TYPE_ANALOGUE_T", CEC_OP_UI_BCAST_TYPE_ANALOGUE_T);
    ("CEC_OP_UI_BCAST_TYPE_ANALOGUE_CABLE", CEC_OP_UI_BCAST_TYPE_ANALOGUE_CABLE);
    ("CEC_OP_UI_BCAST_TYPE_ANALOGUE_SAT", CEC_OP_UI_BCAST_TYPE_ANALOGUE_SAT);
    ("CEC_OP_UI_BCAST_TYPE_DIGITAL", CEC_OP_UI_BCAST_TYPE_DIGITAL);
    ("CEC_OP_UI_BCAST_TYPE_DIGITAL_T", CEC_OP_UI_BCAST_TYPE_DIGITAL_T);
    ("CEC_OP_UI_BCAST_TYPE_DIGITAL_CABLE", CEC_OP_UI_BCAST_TYPE_DIGITAL_CABLE);
    ("CEC_OP_UI_BCAST_TYPE_DIGITAL_SAT", CEC_OP_UI_BCAST_TYPE_DIGITAL_SAT);
    ("CEC_OP_UI_BCAST_TYPE_DIGITAL_COM_SAT", CEC_OP_UI_BCAST_TYPE_DIGITAL_COM_SAT);
    ("CEC_OP_UI_BCAST_TYPE_DIGITAL_COM_SAT2", CEC_OP_UI_BCAST_TYPE_DIGITAL_COM_SAT2);
    ("CEC_OP_UI_BCAST_TYPE_IP", CEC_OP_UI_BCAST_TYPE_IP);
    ("CEC_OP_UI_SND_PRES_CTL_DUAL_MONO", CEC_OP_UI_SND_PRES_CTL_DUAL_MONO);
    ("CEC_OP_UI_SND_PRES_CTL_KARAOKE", CEC_OP_UI_SND_PRES_CTL_KARAOKE);
    ("CEC_OP_UI_SND_PRES_CTL_DOWNMIX", CEC_OP_UI_SND_PRES_CTL_DOWNMIX);
    ("CEC_OP_UI_SND_PRES_CTL_REVERB", CEC_OP_UI_SND_PRES_CTL_REVERB);
    ("CEC_OP_UI_SND_PRES_CTL_EQUALIZER", CEC_OP_UI_SND_PRES_CTL_EQUALIZER);
    ("CEC_OP_UI_SND_PRES_CTL_BASS_UP", CEC_OP_UI_SND_PRES_CTL_BASS_UP);
    ("CEC_OP_UI_SND_PRES_CTL_BASS_NEUTRAL", CEC_OP_UI_SND_PRES_CTL_BASS_NEUTRAL);
    ("CEC_OP_UI_SND_PRES_CTL_BASS_DOWN", CEC_OP_UI_SND_PRES_CTL_BASS_DOWN);
    ("CEC_OP_UI_SND_PRES_CTL_TREBLE_UP", CEC_OP_UI_SND_PRES_CTL_TREBLE_UP);
    ("CEC_OP_UI_SND_PRES_CTL_TREBLE_NEUTRAL", CEC_OP_UI_SND_PRES_CTL_TREBLE_NEUTRAL);
    ("CEC_OP_UI_SND_PRES_CTL_TREBLE_DOWN", CEC_OP_UI_SND_PRES_CTL_TREBLE_DOWN);
    ("CEC_MSG_USER_CONTROL_RELEASED", CEC_MSG_USER_CONTROL_RELEASED);
    ("CEC_MSG_GIVE_DEVICE_POWER_STATUS", CEC_MSG_GIVE_DEVICE_POWER_STATUS);
    ("CEC_MSG_REPORT_POWER_STATUS", CEC_MSG_REPORT_POWER_STATUS);
    ("CEC_OP_POWER_STATUS_ON", CEC_OP_POWER_STATUS_ON);
    ("CEC_OP_POWER_STATUS_STANDBY", CEC_OP_POWER_STATUS_STANDBY);
    ("CEC_OP_POWER_STATUS_TO_ON", CEC_OP_POWER_STATUS_TO_ON);
    ("CEC_OP_POWER_STATUS_TO_STANDBY", CEC_OP_POWER_STATUS_TO_STANDBY);
    ("CEC_MSG_FEATURE_ABORT", CEC_MSG_FEATURE_ABORT);
    ("CEC_OP_ABORT_UNRECOGNIZED_OP", CEC_OP_ABORT_UNRECOGNIZED_OP);
    ("CEC_OP_ABORT_INCORRECT_MODE", CEC_OP_ABORT_INCORRECT_MODE);
    ("CEC_OP_ABORT_NO_SOURCE", CEC_OP_ABORT_NO_SOURCE); ("CEC_OP_ABORT_INVALID_OP", CEC_OP_ABORT_INVALID_OP);
    ("CEC_OP_ABORT_REFUSED", CEC_OP_ABORT_REFUSED); ("CEC_OP_ABORT_UNDETERMINED", CEC_OP_ABORT_UNDETERMINED);
    ("CEC_MSG_ABORT", CEC_MSG_ABORT); ("CEC_MSG_GIVE_AUDIO_STATUS", CEC_MSG_GIVE_AUDIO_STATUS);
    ("CEC_MSG_GIVE_SYSTEM_AUDIO_MODE_STATUS", CEC_MSG_GIVE_SYSTEM_AUDIO_MODE_STATUS);
    ("CEC_MSG_REPORT_AUDIO_STATUS", CEC_MSG_REPORT_AUDIO_STATUS);
    ("CEC_OP_AUD_MUTE_STATUS_OFF", CEC_OP_AUD_MUTE_STATUS_OFF);
    ("CEC_OP_AUD_MUTE_STATUS_ON", CEC_OP_AUD_MUTE_STATUS_ON);
    ("CEC_MSG_REPORT_SHORT_AUDIO_DESCRIPTOR", CEC_MSG_REPORT_SHORT_AUDIO_DESCRIPTOR);
    ("CEC_MSG_REQUEST_SHORT_AUDIO_DESCRIPTOR", CEC_MSG_REQUEST_SHORT_AUDIO_DESCRIPTOR);
    ("CEC_MSG_SET_SYSTEM_AUDIO_MODE", CEC_MSG_SET_SYSTEM_AUDIO_MODE);
    ("CEC_OP_SYS_AUD_STATUS_OFF", CEC_OP_SYS_AUD_STATUS_OFF);
    ("CEC_OP_SYS_AUD_STATUS_ON", CEC_OP_SYS_AUD_STATUS_ON);
    ("CEC_MSG_SYSTEM_AUDIO_MODE_REQUEST", CEC_MSG_SYSTEM_AUDIO_MODE_REQUEST);
    ("CEC_MSG_SYSTEM_AUDIO_MODE_STATUS", CEC_MSG_SYSTEM_AUDIO_MODE_STATUS);
    ("CEC_OP_AUD_FMT_ID_CEA861", CEC_OP_AUD_FMT_ID_CEA861);
    ("CEC_OP_AUD_FMT_ID_CEA861_CXT", CEC_OP_AUD_FMT_ID_CEA861_CXT);
    ("CEC_MSG_SET_AUDIO_RATE", CEC_MSG_SET_AUDIO_RATE); ("CEC_OP_AUD_RATE_OFF", CEC_OP_AUD_RATE_OFF);
    ("CEC_OP_AUD_RATE_WIDE_STD", CEC_OP_AUD_RATE_WIDE_STD);
    ("CEC_OP_AUD_RATE_WIDE_FAST", CEC_OP_AUD_RATE_WIDE_FAST);
    ("CEC_OP_AUD_RATE_WIDE_SLOW", CEC_OP_AUD_RATE_WIDE_SLOW);
    ("CEC_OP_AUD_RATE_NARROW_STD", CEC_OP_AUD_RATE_NARROW_STD);
    ("CEC_OP_AUD_RATE_NARROW_FAST", CEC_OP_AUD_RATE_NARROW_FAST);
    ("CEC_OP_AUD_RATE_NARROW_SLOW", CEC_OP_AUD_RATE_NARROW_SLOW);
    ("CEC_MSG_INITIATE_ARC", CEC_MSG_INITIATE_ARC);
    ("CEC_MSG_REPORT_ARC_INITIATED", CEC_MSG_REPORT_ARC_INITIATED);
    ("CEC_MSG_REPORT_ARC_TERMINATED", CEC_MSG_REPORT_ARC_TERMINATED);
    ("CEC_MSG_REQUEST_ARC_INITIATION", CEC_MSG_REQUEST_ARC_INITIATION);
    ("CEC_MSG_REQUEST_ARC_TERMINATION", CEC_MSG_REQUEST_ARC_TERMINATION);
    ("CEC_MSG_TERMINATE_ARC", CEC_MSG_TERMINATE_ARC);
    ("CEC_MSG_REQUEST_CURRENT_LATENCY", CEC_MSG_REQUEST_CURRENT_LATENCY);
    ("CEC_MSG_REPORT_CURRENT_LATENCY", CEC_MSG_REPORT_CURRENT_LATENCY);
    ("CEC_OP_LOW_LATENCY_MODE_OFF", CEC_OP_LOW_LATENCY_MODE_OFF);
    ("CEC_OP_LOW_LATENCY_MODE_ON", CEC_OP_LOW_LATENCY_MODE_ON);
    ("CEC_OP_AUD_OUT_COMPENSATED_NA", CEC_OP_AUD_OUT_COMPENSATED_NA);
    ("CEC_OP_AUD_OUT_COMPENSATED_DELAY", CEC_OP_AUD_OUT_COMPENSATED_DELAY);
    ("CEC_OP_AUD_OUT_COMPENSATED_NO_DELAY", CEC_OP_AUD_OUT_COMPENSATED_NO_DELAY);
    ("CEC_OP_AUD_OUT_COMPENSATED_PARTIAL_DELAY", CEC_OP_AUD_OUT_COMPENSATED_PARTIAL_DELAY);
    ("CEC_MSG_CDC_MESSAGE", CEC_MSG_CDC_MESSAGE);
    ("CEC_MSG_CDC_HEC_INQUIRE_STATE", CEC_MSG_CDC_HEC_INQUIRE_STATE);
    ("CEC_MSG_CDC_HEC_REPORT_STATE", CEC_MSG_CDC_HEC_REPORT_STATE);
    ("CEC_OP_HEC_FUNC_STATE_NOT_SUPPORTED", CEC_OP_HEC_FUNC_STATE_NOT_SUPPORTED);
    ("CEC_OP_HEC_FUNC_STATE_INACTIVE", CEC_OP_HEC_FUNC_STATE_INACTIVE);
    ("CEC_OP_HEC_FUNC_STATE_ACTIVE", CEC_OP_HEC_FUNC_STATE_ACTIVE);
    ("CEC_OP_HEC_FUNC_STATE_ACTIVATION_FIELD", CEC_OP_HEC_FUNC_STATE_ACTIVATION_FIELD);
    ("CEC_OP_HOST_FUNC_STATE_NOT_SUPPORTED", CEC_OP_HOST_FUNC_STATE_NOT_SUPPORTED);
    ("CEC_OP_HOST_FUNC_STATE_INACTIVE", CEC_OP_HOST_FUNC_STATE_INACTIVE);
    ("CEC_OP_HOST_FUNC_STATE_ACTIVE", CEC_OP_HOST_FUNC_STATE_ACTIVE);
    ("CEC_OP_ENC_FUNC_STATE_EXT_CON_NOT_SUPPORTED", CEC_OP_ENC_FUNC_STATE_EXT_CON_NOT_SUPPORTED);
    ("CEC_OP_ENC_FUNC_STATE_EXT_CON_INACTIVE", CEC_OP_ENC_FUNC_STATE_EXT_CON_INACTIVE);
    ("CEC_OP_ENC_FUNC_STATE_EXT_CON_ACTIVE", CEC_OP_ENC_FUNC_STATE_EXT_CON_ACTIVE);
    ("CEC_OP_CDC_ERROR_CODE_NONE", CEC_OP_CDC_ERROR_CODE_NONE);
    ("CEC_OP_CDC_ERROR_CODE_CAP_UNSUPPORTED", CEC_OP_CDC_ERROR_CODE_CAP_UNSUPPORTED);
    ("CEC_OP_CDC_ERROR_CODE_WRONG_STATE", CEC_OP_CDC_ERROR_CODE_WRONG_STATE);
    ("CEC_OP_CDC_ERROR_CODE_OTHER", CEC_OP_CDC_ERROR_CODE_OTHER);
    ("CEC_OP_HEC_SUPPORT_NO", CEC_OP_HEC_SUPPORT_NO); ("CEC_OP_HEC_SUPPORT_YES", CEC_OP_HEC_SUPPORT_YES);
    ("CEC_OP_HEC_ACTIVATION_ON", CEC_OP_HEC_ACTIVATION_ON);
    ("CEC_OP_HEC_ACTIVATION_OFF", CEC_OP_HEC_ACTIVATION_OFF);
    ("CEC_MSG_CDC_HEC_SET_STATE_ADJACENT", CEC_MSG_CDC_HEC_SET_STATE_ADJACENT);
    ("CEC_MSG_CDC_HEC_SET_STATE", CEC_MSG_CDC_HEC_SET_STATE);
    ("CEC_OP_HEC_SET_STATE_DEACTIVATE", CEC_OP_HEC_SET_STATE_DEACTIVATE);
    ("CEC_OP_HEC_SET_STATE_ACTIVATE", CEC_OP_HEC_SET_STATE_ACTIVATE);
    ("CEC_MSG_CDC_HEC_REQUEST_DEACTIVATION", CEC_MSG_CDC_HEC_REQUEST_DEACTIVATION);
    ("CEC_MSG_CDC_HEC_NOTIFY_ALIVE", CEC_MSG_CDC_HEC_NOTIFY_ALIVE);
    ("CEC_MSG_CDC_HEC_DISCOVER", CEC_MSG_CDC_HEC_DISCOVER);
    ("CEC_MSG_CDC_HPD_SET_STATE", CEC_MSG_CDC_HPD_SET_STATE);
    ("CEC_OP_HPD_STATE_CP_EDID_DISABLE", CEC_OP_HPD_STATE_CP_EDID_DISABLE);
    ("CEC_OP_HPD_STATE_CP_EDID_ENABLE", CEC_OP_HPD_STATE_CP_EDID_ENABLE);
    ("CEC_OP_HPD_STATE_CP_EDID_DISABLE_ENABLE", CEC_OP_HPD_STATE_CP_EDID_DISABLE_ENABLE);
    ("CEC_OP_HPD_STATE_EDID_DISABLE", CEC_OP_HPD_STATE_EDID_DISABLE);
    ("CEC_OP_HPD_STATE_EDID_ENABLE", CEC_OP_HPD_STATE_EDID_ENABLE);
    ("CEC_OP_HPD_STATE_EDID_DISABLE_ENABLE", CEC_OP_HPD_STATE_EDID_DISABLE_ENABLE);
    ("CEC_MSG_CDC_HPD_REPORT_STATE", CEC_MSG_CDC_HPD_REPORT_STATE);
    ("CEC_OP_HPD_ERROR_NONE", CEC_OP_HPD_ERROR_NONE);
    ("CEC_OP_HPD_ERROR_INITIATOR_NOT_CAPABLE", CEC_OP_HPD_ERROR_INITIATOR_NOT_CAPABLE);
    ("CEC_OP_HPD_ERROR_INITIATOR_WRONG_STATE", CEC_OP_HPD_ERROR_INITIATOR_WRONG_STATE);
    ("CEC_OP_HPD_ERROR_OTHER", CEC_OP_HPD_ERROR_OTHER);
    ("CEC_OP_HPD_ERROR_NONE_NO_VIDEO", CEC_OP_HPD_ERROR_NONE_NO_VIDEO)].

Lemma cec_constants_agree :
  Forall (fun x => assoc (fst x) (values lp64 Cec.header) = Some (snd x)) cec_constants.
Proof. apply (bool_decide_unpack _). vm_cast_no_check I. Qed.
