(* ===== verification/Tipc.v ===== *)
(** * TIPC configuration messages

    The type-length-value records and the configuration message header of
    [kernel-headers/linux/tipc_config.h], and the network addresses of
    [kernel-headers/linux/tipc.h]. A pointer is an offset in a byte array, every
    access is checked, and a 16-bit field in network byte order is its high byte
    followed by its low byte. *)
From S2P Require Import Prelude.

Abbreviation mem := (list Z).

(** [ntohs ( *p)] and [*p = htons (v)], the same for [ntohl] and [htonl]. *)
Definition ntohs_at (m : mem) (p : nat) : option Z :=
  hi ← rd m p; lo ← rd m (p + 1); Some (u16 ((hi ≪ 8) ||| lo)).

Definition htons_at (p : nat) (v : Z) (m : mem) : option mem :=
  m ← wr m p (u8 (u16 v ≫ 8)); wr m (p + 1) (u8 (u16 v &&& 0xff)).

Definition ntohl_at (m : mem) (p : nat) : option Z :=
  hi ← ntohs_at m p; lo ← ntohs_at m (p + 2); Some (u32 ((hi ≪ 16) ||| lo)).

Definition htonl_at (p : nat) (v : Z) (m : mem) : option mem :=
  m ← htons_at p (u32 v ≫ 16) m; htons_at (p + 2) (u32 v) m.

(** [memset (m + p, 0, n)] *)
Definition memset0 (m : mem) (p n : nat) : option mem := memcpy m p (replicate n 0) n.

(** ** TLVs *)

Definition TLV_ALIGNTO : Z := 4.
Definition TLV_ALIGN (datalen : Z) : Z :=
  (datalen + (TLV_ALIGNTO - 1)) &&& Z.lnot (TLV_ALIGNTO - 1).
Definition TLV_LENGTH (datalen : Z) : Z := 4 + datalen.
Definition TLV_SPACE (datalen : Z) : Z := TLV_ALIGN (TLV_LENGTH datalen).
Definition TLV_DATA (tlv : nat) : nat := tlv + Z.to_nat (TLV_LENGTH 0).

(** Offsets of the fields of [struct tlv_desc]. *)
Definition tlv_len_at (tlv : nat) : nat := tlv.
Definition tlv_type_at (tlv : nat) : nat := tlv + 2.

Definition TLV_OK (m : mem) (tlv : nat) (space : Z) : option bool :=
  if TLV_SPACE 0 <=? space
  then len ← ntohs_at m (tlv_len_at tlv); Some (len <=? space)
  else Some false.

Definition TLV_CHECK (m : mem) (tlv : nat) (space exp_type : Z) : option bool :=
  ok ← TLV_OK m tlv space;
  if (ok : bool) then type ← ntohs_at m (tlv_type_at tlv); Some (type =? exp_type)
  else Some false.

Definition TLV_GET_LEN (m : mem) (tlv : nat) : option Z := ntohs_at m (tlv_len_at tlv).
Definition TLV_SET_LEN (tlv : nat) (len : Z) (m : mem) : option mem :=
  htons_at (tlv_len_at tlv) len m.
Definition TLV_CHECK_TYPE (m : mem) (tlv : nat) (type : Z) : option bool :=
  t ← ntohs_at m (tlv_type_at tlv); Some (t =? type).
Definition TLV_SET_TYPE (tlv : nat) (type : Z) (m : mem) : option mem :=
  htons_at (tlv_type_at tlv) type m.

(** [data] is [None] for a null pointer. The result is the returned space and
    the memory. *)
Definition TLV_SET (tlv : nat) (type : Z) (data : option mem) (len : Z) (m : mem)
    : option (Z * mem) :=
  let tlv_len := TLV_LENGTH len in
  m ← htons_at (tlv_type_at tlv) type m;
  m ← htons_at (tlv_len_at tlv) tlv_len m;
  m ← match data with
      | Some d =>
          if negb (len =? 0) then
            m ← memcpy m (TLV_DATA tlv) d (Z.to_nat len);
            memset0 m (TLV_DATA tlv + Z.to_nat len) (Z.to_nat (TLV_SPACE len - tlv_len))
          else Some m
      | None => Some m
      end;
  Some (TLV_SPACE len, m).

(** ** Lists of TLVs *)

Record tlv_list_desc : Type := mk_tlv_list { tlv_ptr : nat; tlv_space : Z }.

Definition TLV_LIST_INIT (data : nat) (space : Z) : tlv_list_desc := mk_tlv_list data (u32 space).

Definition TLV_LIST_EMPTY (list : tlv_list_desc) : bool := tlv_space list =? 0.

(** The 32-bit space becomes the 16-bit argument of [TLV_CHECK]. *)
Definition TLV_LIST_CHECK (m : mem) (list : tlv_list_desc) (exp_type : Z) : option bool :=
  TLV_CHECK m (tlv_ptr list) (u16 (tlv_space list)) exp_type.

Definition TLV_LIST_DATA (list : tlv_list_desc) : nat := TLV_DATA (tlv_ptr list).

Definition TLV_LIST_STEP (m : mem) (list : tlv_list_desc) : option tlv_list_desc :=
  len ← ntohs_at m (tlv_len_at (tlv_ptr list));
  let space := u16 (TLV_ALIGN len) in
  Some (mk_tlv_list (tlv_ptr list + Z.to_nat space) (u32 (tlv_space list - space))).

(** ** Configuration messages *)

Definition TCM_ALIGN (datalen : Z) : Z := (datalen + 3) &&& Z.lnot 3.
Definition TCM_LENGTH (datalen : Z) : Z := 16 + datalen.
Definition TCM_SPACE (datalen : Z) : Z := TCM_ALIGN (TCM_LENGTH datalen).
Definition TCM_DATA (tcm_hdr : nat) : nat := tcm_hdr + Z.to_nat (TCM_LENGTH 0).

Definition TCM_SET (msg : nat) (cmd flags : Z) (data : option mem) (data_len : Z) (m : mem)
    : option (Z * mem) :=
  let msg_len := TCM_LENGTH data_len in
  m ← htonl_at msg msg_len m;
  m ← htons_at (msg + 4) cmd m;
  m ← htons_at (msg + 6) flags m;
  m ← match data with
      | Some d =>
          if negb (data_len =? 0) then
            m ← memcpy m (TCM_DATA msg) d (Z.to_nat data_len);
            memset0 m (TCM_DATA msg + Z.to_nat data_len) (Z.to_nat (TCM_SPACE data_len - msg_len))
          else Some m
      | None => Some m
      end;
  Some (TCM_SPACE data_len, m).

(** ** Addresses *)

Definition tipc_addr (zone cluster node : Z) : Z :=
  u32 (zone ≪ 24) ||| u32 (cluster ≪ 12) ||| node.
Definition tipc_zone (addr : Z) : Z := addr ≫ 24.
Definition tipc_cluster (addr : Z) : Z := (addr ≫ 12) &&& 0xfff.
Definition tipc_node (addr : Z) : Z := addr &&& 0xfff.

(** ** Alignment *)

Lemma align4 x : 0 <= x -> (x + 3) &&& Z.lnot 3 = (x + 3) / 4 * 4.
Proof.
  intros Hx. change 3 with (Z.ones 2) at 2. rewrite <- Z.ldiff_land, Z.ldiff_ones_r by lia.
  rewrite Z.shiftr_div_pow2, Z.shiftl_mul_pow2 by lia. done.
Qed.

Lemma TLV_ALIGN_eq x : 0 <= x -> TLV_ALIGN x = (x + 3) / 4 * 4.
Proof. apply align4. Qed.

Lemma TLV_ALIGN_bounds x : 0 <= x -> x <= TLV_ALIGN x < x + 4 /\ (4 | TLV_ALIGN x).
Proof.
  intros. rewrite TLV_ALIGN_eq by done. split; [|apply Z.divide_factor_r].
  Z.to_euclidean_division_equations; lia.
Qed.

Lemma TLV_SPACE_bounds x : 0 <= x -> x + 4 <= TLV_SPACE x < x + 8 /\ (4 | TLV_SPACE x).
Proof.
  intros. unfold TLV_SPACE, TLV_LENGTH. destruct (TLV_ALIGN_bounds (4 + x)) as [? ?]; [lia|].
  split; [lia|done].
Qed.

(** ** Fields in memory *)

Lemma htons_at_Some p v m :
  (p + 2 <= length m)%nat ->
  htons_at p v m =
    Some (<[(p + 1)%nat := u8 (u16 v &&& 0xff)]> (<[p := u8 (u16 v ≫ 8)]> m)).
Proof.
  intros. unfold htons_at. rewrite wr_Some by lia. cbn [mbind option_bind].
  rewrite wr_Some by (rewrite length_insert; lia). done.
Qed.

Lemma ntohs_at_ext m m' p :
  rd m p = rd m' p -> rd m (p + 1) = rd m' (p + 1) -> ntohs_at m p = ntohs_at m' p.
Proof. unfold ntohs_at. by intros -> ->. Qed.

Lemma ntohs_bytes m p v :
  rd m p = Some (u8 (u16 v ≫ 8)) -> rd m (p + 1) = Some (u8 (u16 v &&& 0xff)) ->
  ntohs_at m p = Some (u16 v).
Proof.
  unfold ntohs_at. intros -> ->. cbn [mbind option_bind]. f_equal.
  apply be16_roundtrip, wrap_range. lia.
Qed.

Lemma memcpy_lookup dst off src n d i :
  memcpy dst off src n = Some d ->
  d !! i = if decide (off <= i < off + n)%nat then src !! (i - off)%nat else dst !! i.
Proof.
  unfold memcpy. case_decide as H; [|done]. intros [= <-].
  destruct (decide (i < off)%nat).
  { rewrite decide_False by lia.
    by rewrite lookup_app_l, lookup_take_lt by (rewrite ?length_take; lia). }
  rewrite lookup_app_r by (rewrite length_take; lia). rewrite length_take, Nat.min_l by lia.
  case_decide.
  - by rewrite lookup_app_l, lookup_take_lt by (rewrite ?length_take; lia).
  - rewrite lookup_app_r by (rewrite length_take; lia).
    rewrite length_take, Nat.min_l, lookup_drop by lia. f_equal. lia.
Qed.

(** A header field at [p], outside of a copied range. *)
Lemma rd_insert l i v j :
  rd (<[i := v]> l) j = if decide (i = j /\ j < length l)%nat then Some v else rd l j.
Proof.
  unfold rd. case_decide as H; [destruct H as [<- ?]; by apply list_lookup_insert_eq|].
  destruct (decide (i = j)) as [->|]; [|by apply list_lookup_insert_ne].
  by rewrite list_insert_ge by lia.
Qed.

(** The tail both message formats share: the data, then zeroes up to alignment. *)
Definition filled (m m' : mem) (p : nat) (d : mem) (len pad : nat) : Prop :=
  length m' = length m /\
  (forall i, (p <= i < p + len)%nat -> m' !! i = d !! (i - p)%nat) /\
  (forall i, (p + len <= i < p + len + pad)%nat -> m' !! i = Some 0) /\
  (forall i, (i < p \/ p + len + pad <= i)%nat -> m' !! i = m !! i).

Lemma fill_spec m p d len pad :
  (p + len + pad <= length m)%nat -> (len <= length d)%nat ->
  exists m', (m1 ← memcpy m p d len; memset0 m1 (p + len) pad) = Some m' /\
    filled m m' p d len pad.
Proof.
  intros Hm Hd. rewrite memcpy_Some by lia. cbn [mbind option_bind].
  set (m1 := take p m ++ take len d ++ drop (p + len) m).
  assert (memcpy m p d len = Some m1) as E1 by (apply memcpy_Some; lia).
  pose proof (memcpy_length _ _ _ _ _ E1) as L1.
  destruct (memset0 m1 (p + len) pad) as [m2|] eqn:E2.
  2: { unfold memset0 in E2. rewrite memcpy_Some in E2; [done|lia|by rewrite length_replicate]. }
  pose proof (memcpy_length _ _ _ _ _ E2) as L2.
  exists m2. split; [done|]. unfold filled. split; [congruence|].
  split; [|split]; intros i Hi; rewrite (memcpy_lookup _ _ _ _ _ i E2).
  - rewrite decide_False by lia. by rewrite (memcpy_lookup _ _ _ _ _ i E1), decide_True.
  - rewrite decide_True by lia. by rewrite lookup_replicate_2 by lia.
  - rewrite decide_False by lia. by rewrite (memcpy_lookup _ _ _ _ _ i E1), decide_False by lia.
Qed.

(** The branches both setters share: data and padding, or nothing. *)
Lemma payload_written m p data len pad :
  (forall d, data = Some d -> (Z.to_nat len <= length d)%nat) ->
  (p + Z.to_nat len + pad <= length m)%nat ->
  exists m', match data with
      | Some d => if negb (len =? 0) then
          m1 ← memcpy m p d (Z.to_nat len); memset0 m1 (p + Z.to_nat len) pad
          else Some m
      | None => Some m end = Some m' /\
    match data with
    | Some d => len <> 0 -> filled m m' p d (Z.to_nat len) pad
    | None => m' = m end /\ (len = 0 -> m' = m).
Proof.
  intros Hd Hm. destruct data as [d|]; [|by exists m].
  destruct (Z.eqb_spec len 0); cbn [negb]; [by exists m|].
  destruct (fill_spec m p d (Z.to_nat len) pad) as (m' & E & F); [done|by apply Hd|].
  by exists m'.
Qed.

(** What [TLV_SET] leaves in memory. *)
Definition tlv_stored (m m' : mem) (tlv : nat) (type : Z) (d : mem) (len : Z) : Prop :=
  length m' = length m /\
  ntohs_at m' (tlv_len_at tlv) = Some (TLV_LENGTH len) /\
  ntohs_at m' (tlv_type_at tlv) = Some type /\
  (forall i, (i < Z.to_nat len)%nat -> m' !! (TLV_DATA tlv + i)%nat = d !! i) /\
  (forall i, (TLV_DATA tlv + Z.to_nat len <= i < tlv + Z.to_nat (TLV_SPACE len))%nat ->
    m' !! i = Some 0) /\
  (forall i, (i < tlv \/ tlv + Z.to_nat (TLV_SPACE len) <= i)%nat -> m' !! i = m !! i).

Lemma TLV_SET_spec m tlv type d len :
  is_u16 type -> 0 <= len <= 65531 -> (Z.to_nat len <= length d)%nat ->
  (tlv + Z.to_nat (TLV_SPACE len) <= length m)%nat ->
  exists m', TLV_SET tlv type (Some d) len m = Some (TLV_SPACE len, m') /\
    tlv_stored m m' tlv type d len.
Proof.
  intros Ht Hl Hd Hm. pose proof (TLV_SPACE_bounds len ltac:(lia)) as [Hs _].
  unfold TLV_SET, tlv_type_at, tlv_len_at. cbv zeta.
  rewrite htons_at_Some by lia. cbn [mbind option_bind].
  rewrite htons_at_Some by (rewrite !length_insert; lia). cbn [mbind option_bind].
  set (m1 := <[(tlv + 1)%nat := _]> _).
  assert (length m1 = length m) as L1 by (unfold m1; by rewrite !length_insert).
  assert (rd m1 tlv = Some (u8 (u16 (TLV_LENGTH len) ≫ 8)) /\
    rd m1 (tlv + 1) = Some (u8 (u16 (TLV_LENGTH len) &&& 0xff)) /\
    rd m1 (tlv + 2) = Some (u8 (u16 type ≫ 8)) /\
    rd m1 (tlv + 2 + 1) = Some (u8 (u16 type &&& 0xff))) as (R0 & R1 & R2 & R3).
  { unfold m1. rewrite !rd_insert, !length_insert.
    split_and!; repeat (case_decide; try lia; try done). }
  assert (forall i, (i < tlv \/ tlv + 4 <= i)%nat -> m1 !! i = m !! i) as Ro.
  { intros i Hi. unfold m1. by rewrite !list_lookup_insert_ne by lia. }
  assert (forall i, rd m1 i = m1 !! i) as Rd by done.
  set (pad := Z.to_nat (TLV_SPACE len - TLV_LENGTH len)).
  assert (TLV_DATA tlv = tlv + 4)%nat as Ed by (unfold TLV_DATA; reflexivity).
  assert (u16 (TLV_LENGTH len) = TLV_LENGTH len) as El
    by (apply wrap_small; unfold TLV_LENGTH; word_lia).
  destruct (payload_written m1 (TLV_DATA tlv) (Some d) len pad) as (m' & E & Fd & F0);
    [by intros ? [= <-]|rewrite L1, Ed; unfold pad, TLV_LENGTH; lia|].
  assert (filled m1 m' (TLV_DATA tlv) d (Z.to_nat len) pad) as (F1 & F2 & F3 & F4).
  { destruct (decide (len = 0)) as [->|Hz]; [|by apply Fd]. rewrite F0 by done.
    unfold filled. change pad with 0%nat. split_and!; try done; intros; lia. }
  rewrite E. cbn [mbind option_bind]. exists m'. split; [done|].
  assert (forall i, (tlv <= i < tlv + 4)%nat -> rd m' i = rd m1 i) as Rh
    by (intros i Hi; apply F4; lia).
  unfold tlv_stored, tlv_len_at, tlv_type_at. split_and!.
  - congruence.
  - rewrite (ntohs_bytes m' tlv (TLV_LENGTH len)), El; [done|..]; by rewrite Rh by lia.
  - rewrite (ntohs_bytes m' (tlv + 2) type), (wrap_small 16 type); [done|done|..];
      by rewrite Rh by lia.
  - intros i Hi. rewrite F2 by lia. f_equal. lia.
  - intros i Hi. apply F3. rewrite Ed in *. unfold pad, TLV_LENGTH. lia.
  - intros i Hi. rewrite F4 by (rewrite Ed; unfold pad, TLV_LENGTH; lia). apply Ro. lia.
Qed.

(** ** Properties of TLVs *)

(** A TLV written by [TLV_SET] is recognised: [TLV_CHECK] accepts it for its
    own type exactly, in any space that holds it, and rejects it in a smaller
    one; its length and data read back, the padding up to the returned space is
    zero, and no byte outside that space changes. *)
Theorem tlv_set_check m tlv type d len :
  is_u16 type -> 0 <= len <= 65531 -> (Z.to_nat len <= length d)%nat ->
  (tlv + Z.to_nat (TLV_SPACE len) <= length m)%nat ->
  exists m', TLV_SET tlv type (Some d) len m = Some (TLV_SPACE len, m') /\
    tlv_stored m m' tlv type d len /\
    TLV_GET_LEN m' tlv = Some (len + 4) /\
    forall space exp_type, is_u16 space ->
      TLV_CHECK m' tlv space exp_type = Some ((len + 4 <=? space) && (type =? exp_type)).
Proof.
  intros Ht Hl Hd Hm. destruct (TLV_SET_spec m tlv type d len) as (m' & E & S); [done..|].
  exists m'. split; [done|]. split; [done|]. destruct S as (_ & S1 & S2 & _).
  split; [unfold TLV_GET_LEN; rewrite S1; f_equal; unfold TLV_LENGTH; lia|].
  intros space exp _. unfold TLV_CHECK, TLV_OK. change (TLV_SPACE 0) with 4.
  destruct (Z.leb_spec 4 space); cbn [mbind option_bind].
  - rewrite S1. cbn [mbind option_bind]. unfold TLV_LENGTH. rewrite Z.add_comm.
    destruct (len + 4 <=? space); [|done]. by rewrite S2.
  - by rewrite (proj2 (Z.leb_gt (len + 4) space)) by lia.
Qed.

Lemma tlv_set_check_witness :
  exists m', TLV_SET 4 7 (Some [1; 2; 3; 4; 5]) 5 (replicate 20 9) = Some (12, m') /\
    tlv_stored (replicate 20 9) m' 4 7 [1; 2; 3; 4; 5] 5 /\ TLV_GET_LEN m' 4 = Some (5 + 4) /\
    forall space exp_type, is_u16 space ->
      TLV_CHECK m' 4 space exp_type = Some ((5 + 4 <=? space) && (7 =? exp_type)).
Proof.
  apply tlv_set_check; [split; vm_compute; congruence|split; vm_compute; congruence|
    vm_compute; lia|vm_compute; lia].
Defined.

(** Writing a sequence of TLVs one behind the other, as the returned spaces
    dictate, and reading a list until it is empty. *)
Fixpoint tlv_store (items : list (Z * mem)) (tlv : nat) (m : mem) : option mem :=
  match items with
  | [] => Some m
  | (type, d) :: items' =>
      '(space, m) ← TLV_SET tlv type (Some d) (Z.of_nat (length d)) m;
      tlv_store items' (tlv + Z.to_nat space) m
  end.

Fixpoint tlv_walk (fuel : nat) (m : mem) (l : tlv_list_desc) : option (list (Z * mem)) :=
  if TLV_LIST_EMPTY l then Some [] else
  match fuel with
  | O => None
  | S fuel' =>
      len ← TLV_GET_LEN m (tlv_ptr l);
      type ← ntohs_at m (tlv_type_at (tlv_ptr l));
      l' ← TLV_LIST_STEP m l;
      rest ← tlv_walk fuel' m l';
      Some ((type, take (Z.to_nat (len - 4)) (drop (TLV_LIST_DATA l) m)) :: rest)
  end.

Definition item_space (i : Z * mem) : Z := TLV_SPACE (Z.of_nat (length i.2)).
Definition list_space (items : list (Z * mem)) : Z := foldr (fun i s => item_space i + s) 0 items.
Definition item_ok (i : Z * mem) : Prop := is_u16 i.1 /\ Z.of_nat (length i.2) <= 65528.

Lemma list_space_nonneg items : 0 <= list_space items.
Proof.
  induction items as [|i items IH]; simpl; [done|].
  pose proof (TLV_SPACE_bounds (Z.of_nat (length i.2)) ltac:(lia)) as [? _].
  unfold item_space. lia.
Qed.

Lemma take_drop_ext (m d : mem) p :
  (forall i, (i < length d)%nat -> m !! (p + i)%nat = d !! i) -> take (length d) (drop p m) = d.
Proof.
  intros H. apply list_eq. intros i. destruct (decide (i < length d)%nat).
  - by rewrite lookup_take_lt, lookup_drop, H by lia.
  - rewrite lookup_take_ge by lia. symmetry. by apply lookup_ge_None_2; lia.
Qed.

Lemma tlv_store_walk items tlv m :
  Forall item_ok items -> list_space items < 2 ^ 32 ->
  (tlv + Z.to_nat (list_space items) <= length m)%nat ->
  exists m', tlv_store items tlv m = Some m' /\ length m' = length m /\
    (forall i, (i < tlv \/ tlv + Z.to_nat (list_space items) <= i)%nat -> m' !! i = m !! i) /\
    tlv_walk (length items) m' (mk_tlv_list tlv (list_space items)) = Some items.
Proof.
  intros Hok. revert tlv m. induction Hok as [|[type d] items [Ht Hd] Hok IH]; intros tlv m Hs Hm.
  { exists m. by repeat split. }
  cbn [list_space foldr] in *. fold (list_space items) in *. simpl in Ht, Hd.
  pose proof (list_space_nonneg items) as Hn. unfold item_space in *. cbn [snd] in *.
  pose proof (TLV_SPACE_bounds (Z.of_nat (length d)) ltac:(lia)) as [Hb _].
  set (sp := TLV_SPACE (Z.of_nat (length d))) in *.
  destruct (TLV_SET_spec m tlv type d (Z.of_nat (length d))) as (m1 & E1 & S); [done|lia|lia|lia|].
  destruct S as (L1 & S1 & S2 & S3 & _ & S5). fold sp in S5, E1.
  destruct (IH (tlv + Z.to_nat sp)%nat m1) as (m2 & E2 & L2 & O2 & W2); [lia|lia|].
  exists m2. cbn [tlv_store]. rewrite E1. cbn [mbind option_bind]. split; [done|].
  split; [congruence|]. split.
  { intros i Hi. rewrite O2, S5 by lia. done. }
  assert (TLV_DATA tlv = tlv + 4)%nat as Ed by reflexivity.
  assert (forall p, (p + 2 <= tlv + Z.to_nat sp)%nat -> ntohs_at m2 p = ntohs_at m1 p) as Hh.
  { intros p Hp. apply ntohs_at_ext; apply O2; lia. }
  cbn [length tlv_walk]. unfold TLV_LIST_EMPTY, TLV_LIST_STEP, TLV_GET_LEN.
  cbn [tlv_space tlv_ptr]. unfold tlv_len_at, tlv_type_at in *.
  rewrite (proj2 (Z.eqb_neq _ 0)) by lia. rewrite !Hh, S1, S2 by lia. cbn [mbind option_bind].
  change (TLV_ALIGN (TLV_LENGTH (Z.of_nat (length d)))) with sp.
  rewrite (wrap_small 16 sp) by word_lia.
  replace (sp + list_space items - sp) with (list_space items) by lia.
  rewrite (wrap_small 32 (list_space items)) by word_lia.
  rewrite W2. cbn [mbind option_bind]. do 3 f_equal.
  unfold TLV_LIST_DATA, TLV_LENGTH. cbn [tlv_ptr].
  replace (Z.to_nat (4 + Z.of_nat (length d) - 4)) with (length d) by lia.
  apply take_drop_ext. intros i Hi. rewrite O2 by lia. apply S3. lia.
Qed.

(** C26: a list of TLVs written one behind the other is walked by
    [TLV_LIST_STEP] item by item until [TLV_LIST_EMPTY], each with its type and
    data, and nothing outside the list's space was changed. *)
Theorem tlv_list_roundtrip items tlv m :
  Forall item_ok items -> list_space items < 2 ^ 32 ->
  (tlv + Z.to_nat (list_space items) <= length m)%nat ->
  exists m', tlv_store items tlv m = Some m' /\
    tlv_walk (length items) m' (TLV_LIST_INIT tlv (list_space items)) = Some items /\
    (forall i, (i < tlv \/ tlv + Z.to_nat (list_space items) <= i)%nat -> m' !! i = m !! i).
Proof.
  intros Hok Hs Hm. destruct (tlv_store_walk items tlv m Hok Hs Hm) as (m' & E & _ & O & W).
  exists m'. split; [done|]. split; [|done]. unfold TLV_LIST_INIT.
  pose proof (list_space_nonneg items). by rewrite wrap_small by (unfold in_word; lia).
Qed.

Lemma tlv_list_roundtrip_witness :
  exists m', tlv_store [(1, [10; 11]); (2, []); (3, [7; 7; 7; 7; 7])] 0 (replicate 24 9) = Some m' /\
    tlv_walk 3 m' (TLV_LIST_INIT 0 24) = Some [(1, [10; 11]); (2, []); (3, [7; 7; 7; 7; 7])] /\
    (forall i, (i < 0 \/ 0 + 24 <= i)%nat -> m' !! i = replicate 24 9 !! i).
Proof.
  apply (tlv_list_roundtrip [(1, [10; 11]); (2, []); (3, [7; 7; 7; 7; 7])] 0 (replicate 24 9));
    [|vm_compute; reflexivity|vm_compute; lia].
  repeat (apply Forall_cons_2; [split; [split|]; vm_compute; congruence|]). apply Forall_nil_2.
Defined.

Lemma ntohs_at_range m p v : ntohs_at m p = Some v -> is_u16 v.
Proof.
  unfold ntohs_at. destruct (rd m p); [|done]. destruct (rd m (p + 1)); [|done].
  cbn [mbind option_bind]. intros [= <-]. apply wrap_range. lia.
Qed.

(** A step over a TLV list makes no progress exactly when the current TLV
    announces a length of 0 or above 65532; in every other case the space
    shrinks by the aligned length, without wrapping if it was at least that. *)
Theorem tlv_step_progress m l len :
  is_u32 (tlv_space l) -> ntohs_at m (tlv_ptr l) = Some len ->
  exists l', TLV_LIST_STEP m l = Some l' /\
    (l' = l <-> len = 0 \/ 65532 < len) /\
    (0 < len <= 65532 -> TLV_ALIGN len <= tlv_space l ->
      tlv_space l' = tlv_space l - TLV_ALIGN len /\
      tlv_ptr l' = (tlv_ptr l + Z.to_nat (TLV_ALIGN len))%nat).
Proof.
  intros Hs Hlen. pose proof (ntohs_at_range _ _ _ Hlen) as Hr.
  unfold TLV_LIST_STEP, tlv_len_at. rewrite Hlen. cbn [mbind option_bind]. eexists.
  split; [reflexivity|]. destruct l as [p sp]. cbn [tlv_space tlv_ptr] in *.
  pose proof (TLV_ALIGN_bounds len ltac:(unfold in_word in Hr; lia)) as [Hb [k Hk]].
  destruct (decide (len = 0 \/ 65532 < len)) as [Hz|Hz].
  - assert (u16 (TLV_ALIGN len) = 0) as ->.
    { destruct Hz as [->|Hz]; [done|].
      assert (TLV_ALIGN len = 65536) as -> by word_lia. done. }
    rewrite Z.sub_0_r, wrap_small, Nat.add_0_r by done.
    split; [split; [tauto|done]|]. intros; word_lia.
  - rewrite (wrap_small 16) by word_lia. split.
    + split; [|tauto]. intros E. injection E as E _. word_lia.
    + intros _ Hle. split; [apply wrap_small; word_lia|done].
Qed.

Lemma tlv_step_progress_witness :
  exists l', TLV_LIST_STEP [0; 0; 0; 1; 0; 4; 0; 2] (mk_tlv_list 0 8) = Some l' /\
    (l' = mk_tlv_list 0 8 <-> 0 = 0 \/ 65532 < 0) /\
    (0 < 0 <= 65532 -> TLV_ALIGN 0 <= 8 ->
      tlv_space l' = 8 - TLV_ALIGN 0 /\ tlv_ptr l' = (0 + Z.to_nat (TLV_ALIGN 0))%nat).
Proof.
  apply (tlv_step_progress [0; 0; 0; 1; 0; 4; 0; 2] (mk_tlv_list 0 8) 0);
    [split; vm_compute; congruence|vm_compute; reflexivity].
Defined.

(** [TLV_LIST_CHECK] looks at the low 16 bits of the list's 32-bit space
    only: in a list whose remaining space is a positive multiple of 65536 every
    check fails although the list is not empty, whatever the memory holds. *)
Theorem tlv_list_check_truncates m l k exp_type :
  0 < k -> tlv_space l = k * 65536 ->
  TLV_LIST_EMPTY l = false /\ TLV_LIST_CHECK m l exp_type = Some false.
Proof.
  intros Hk Hs. unfold TLV_LIST_EMPTY, TLV_LIST_CHECK. rewrite Hs.
  split; [apply Z.eqb_neq; lia|]. unfold wrap. change (2 ^ 16) with 65536.
  by rewrite Z.mod_mul.
Qed.

Lemma tlv_list_check_truncates_witness :
  TLV_LIST_EMPTY (mk_tlv_list 0 65536) = false /\
  TLV_LIST_CHECK [0; 4; 0; 1] (mk_tlv_list 0 65536) 1 = Some false.
Proof.
  apply (tlv_list_check_truncates _ (mk_tlv_list 0 65536) 1 1); [reflexivity|vm_compute; reflexivity].
Defined.

(** ** Configuration messages and addresses *)

Lemma TCM_SPACE_bounds x : 0 <= x -> x + 16 <= TCM_SPACE x < x + 20 /\ (4 | TCM_SPACE x).
Proof.
  intros. unfold TCM_SPACE, TCM_LENGTH, TCM_ALIGN. rewrite align4 by lia.
  split; [|apply Z.divide_factor_r]. Z.to_euclidean_division_equations; lia.
Qed.

Lemma htons_at_other p v m m' i :
  htons_at p v m = Some m' -> (i < p \/ p + 2 <= i)%nat -> rd m' i = rd m i.
Proof.
  unfold htons_at, wr. case_decide; [|done]. cbn [mbind option_bind]. case_decide; [|done].
  intros [= <-] Hi. by rewrite !rd_insert, !decide_False by lia.
Qed.

Lemma htons_at_length p v m m' : htons_at p v m = Some m' -> length m' = length m.
Proof.
  unfold htons_at. intros H. destruct (wr m p _) as [m1|] eqn:E; [|done].
  apply wr_length in E. cbn [mbind option_bind] in H. apply wr_length in H. congruence.
Qed.

Lemma htons_at_read p v m m' : htons_at p v m = Some m' -> ntohs_at m' p = Some (u16 v).
Proof.
  intros H. pose proof (htons_at_length _ _ _ _ H) as L.
  apply ntohs_bytes; unfold htons_at, wr in H; case_decide; try done;
    cbn [mbind option_bind] in H; case_decide as H2; try done; injection H as <-;
    rewrite length_insert in H2; rewrite !rd_insert, ?length_insert;
    repeat (case_decide; try lia; try done).
Qed.

Lemma htons_at_total p v m : (p + 2 <= length m)%nat -> is_Some (htons_at p v m).
Proof. intros. rewrite htons_at_Some by done. eauto. Qed.

(** The header [TCM_SET] writes. *)
Definition tcm_header (msg : nat) (cmd flags : Z) (total : Z) (m m' : mem) : Prop :=
  length m' = length m /\ ntohl_at m' msg = Some total /\
  ntohs_at m' (msg + 4) = Some cmd /\ ntohs_at m' (msg + 6) = Some flags /\
  (forall i, (i < msg \/ msg + 8 <= i)%nat -> m' !! i = m !! i).

Lemma tcm_header_written msg cmd flags total m :
  is_u16 cmd -> is_u16 flags -> is_u32 total -> (msg + 8 <= length m)%nat ->
  exists m', (m ← htonl_at msg total m; m ← htons_at (msg + 4) cmd m; htons_at (msg + 6) flags m) =
      Some m' /\ tcm_header msg cmd flags total m m'.
Proof.
  intros Hc Hf Ht Hm. unfold htonl_at. rewrite (wrap_small 32 total) by done.
  destruct (htons_at_total msg (total ≫ 16) m ltac:(lia)) as [m1 E1].
  pose proof (htons_at_length _ _ _ _ E1) as L1.
  destruct (htons_at_total (msg + 2) total m1 ltac:(lia)) as [m2 E2].
  pose proof (htons_at_length _ _ _ _ E2) as L2.
  destruct (htons_at_total (msg + 4) cmd m2 ltac:(lia)) as [m3 E3].
  pose proof (htons_at_length _ _ _ _ E3) as L3.
  destruct (htons_at_total (msg + 6) flags m3 ltac:(lia)) as [m4 E4].
  pose proof (htons_at_length _ _ _ _ E4) as L4.
  exists m4. rewrite E1. cbn [mbind option_bind]. rewrite E2. cbn [mbind option_bind].
  rewrite E3. cbn [mbind option_bind]. split; [done|]. unfold tcm_header. split_and!.
  - congruence.
  - unfold ntohl_at.
    rewrite (ntohs_at_ext m4 m1 msg)
      by (rewrite (htons_at_other _ _ _ _ _ E4), (htons_at_other _ _ _ _ _ E3),
            (htons_at_other _ _ _ _ _ E2) by lia; done).
    rewrite (ntohs_at_ext m4 m2 (msg + 2))
      by (rewrite (htons_at_other _ _ _ _ _ E4), (htons_at_other _ _ _ _ _ E3) by lia; done).
    rewrite (htons_at_read _ _ _ _ E1), (htons_at_read _ _ _ _ E2). cbn [mbind option_bind].
    f_equal. rewrite lor_disjoint by (lia || apply wrap_range; lia). bits_lia.
  - rewrite (ntohs_at_ext m4 m3 (msg + 4)) by (rewrite (htons_at_other _ _ _ _ _ E4) by lia; done).
    rewrite (htons_at_read _ _ _ _ E3). by rewrite wrap_small.
  - rewrite (htons_at_read _ _ _ _ E4). by rewrite wrap_small.
  - intros i Hi. change (rd m4 i = rd m i).
    by rewrite (htons_at_other _ _ _ _ _ E4), (htons_at_other _ _ _ _ _ E3),
      (htons_at_other _ _ _ _ _ E2), (htons_at_other _ _ _ _ _ E1) by lia.
Qed.

(** [TCM_SET] writes a message header whose length field is that of header
    and data, leaves the reserved bytes of the header as they were, and returns
    the aligned space. If there is data it follows, with zero padding up to that
    space; with a null pointer or no data nothing but the header is written. No
    byte outside the space changes. *)
Theorem tcm_set_spec m msg cmd flags data len :
  is_u16 cmd -> is_u16 flags -> is_u16 len ->
  (forall d, data = Some d -> (Z.to_nat len <= length d)%nat) ->
  (msg + Z.to_nat (TCM_SPACE len) <= length m)%nat ->
  exists m', TCM_SET msg cmd flags data len m = Some (TCM_SPACE len, m') /\
    ntohl_at m' msg = Some (len + 16) /\ ntohs_at m' (msg + 4) = Some cmd /\
    ntohs_at m' (msg + 6) = Some flags /\
    (forall i, (msg + 8 <= i < msg + 16 \/ i < msg \/ msg + Z.to_nat (TCM_SPACE len) <= i)%nat ->
      m' !! i = m !! i) /\
    match data with
    | Some d => len <> 0 ->
        (forall i, (i < Z.to_nat len)%nat -> m' !! (TCM_DATA msg + i)%nat = d !! i) /\
        (forall i, (TCM_DATA msg + Z.to_nat len <= i < msg + Z.to_nat (TCM_SPACE len))%nat ->
          m' !! i = Some 0)
    | None => forall i, (msg + 16 <= i)%nat -> m' !! i = m !! i
    end.
Proof.
  intros Hc Hf Hlen Hd Hm. assert (0 <= len <= 65535) as Hl by word_lia.
  pose proof (TCM_SPACE_bounds len ltac:(lia)) as [Hs _].
  destruct (tcm_header_written msg cmd flags (TCM_LENGTH len) m) as (m4 & E4 & L4 & H1 & H2 & H3 & H4);
    [done..|unfold TCM_LENGTH; word_lia|lia|].
  set (pad := Z.to_nat (TCM_SPACE len - TCM_LENGTH len)).
  assert (TCM_DATA msg = msg + 16)%nat as Ed by reflexivity.
  destruct (payload_written m4 (TCM_DATA msg) data len pad Hd) as (m' & E & F & F0);
    [rewrite Ed, L4; unfold pad, TCM_LENGTH; lia|].
  exists m'. split.
  { unfold TCM_SET. cbv zeta. destruct (htonl_at msg (TCM_LENGTH len) m) as [m1|]; [|done].
    cbn [mbind option_bind] in E4 |- *. destruct (htons_at (msg + 4) cmd m1) as [m2|]; [|done].
    cbn [mbind option_bind] in E4 |- *. rewrite E4. cbn [mbind option_bind]. fold pad.
    by rewrite E. }
  assert (forall i, (i < msg + 16 \/ msg + Z.to_nat (TCM_SPACE len) <= i)%nat -> m' !! i = m4 !! i) as Ho.
  { intros i Hi. destruct (decide (len = 0)) as [Hz|Hz]; [by rewrite F0|].
    destruct data as [d|]; [|by rewrite F]. apply (F Hz). rewrite Ed. unfold pad, TCM_LENGTH. lia. }
  assert (forall p, (p + 2 <= msg + 16)%nat -> ntohs_at m' p = ntohs_at m4 p) as Hh
    by (intros p Hp; apply ntohs_at_ext; apply Ho; lia).
  split_and!; [|by rewrite Hh by lia..| |].
  - unfold ntohl_at in *. rewrite !Hh by lia. rewrite H1. unfold TCM_LENGTH. f_equal. lia.
  - intros i Hi. rewrite Ho by lia. apply H4. lia.
  - destruct data as [d|]; [|intros i Hi; rewrite F; apply H4; lia].
    intros Hz. destruct (F Hz) as (_ & F2 & F3 & _). split; intros i Hi.
    + rewrite F2 by lia. f_equal. lia.
    + apply F3. rewrite Ed in *. unfold pad, TCM_LENGTH. lia.
Qed.

Lemma tcm_set_spec_witness :
  TCM_SET 0 2 1 (Some [5; 6; 7]) 3 (replicate 24 9) =
    Some (20, [0; 0; 0; 19; 0; 2; 0; 1] ++ replicate 8 9 ++ [5; 6; 7; 0] ++ replicate 4 9) /\
  exists m', TCM_SET 0 2 1 (Some [5; 6; 7]) 3 (replicate 24 9) = Some (20, m') /\
    ntohl_at m' 0 = Some (3 + 16).
Proof.
  split; [vm_compute; reflexivity|].
  destruct (tcm_set_spec (replicate 24 9) 0 2 1 (Some [5; 6; 7]) 3) as (m' & E & H & _).
  - split; vm_compute; congruence.
  - split; vm_compute; congruence.
  - split; vm_compute; congruence.
  - intros d [= <-]. vm_compute. lia.
  - vm_compute. lia.
  - exists m'. exact (conj E H).
Defined.

(** A TIPC address holds an 8-bit zone, a 12-bit cluster and a 12-bit node,
    and the three accessors read them back. *)
Theorem tipc_addr_roundtrip zone cluster node :
  is_u8 zone -> in_word 12 cluster -> in_word 12 node ->
  is_u32 (tipc_addr zone cluster node) /\
  tipc_zone (tipc_addr zone cluster node) = zone /\
  tipc_cluster (tipc_addr zone cluster node) = cluster /\
  tipc_node (tipc_addr zone cluster node) = node.
Proof.
  intros Hz Hc Hn.
  assert (tipc_addr zone cluster node = zone * 2 ^ 24 + cluster * 2 ^ 12 + node) as ->.
  { unfold tipc_addr. rewrite !wrap_small by (rewrite shiftl_mul by lia; word_lia).
    rewrite <- Z.lor_assoc, (lor_disjoint cluster) by word_lia.
    rewrite lor_disjoint by word_lia. lia. }
  unfold tipc_zone, tipc_cluster, tipc_node. rewrite !shiftr_div by lia.
  change 0xfff with (2 ^ 12 - 1). rewrite !land_mask by lia. unfold in_word in *.
  change (2 ^ 24) with 16777216. change (2 ^ 12) with 4096 in *. change (2 ^ 8) with 256 in *.
  change (2 ^ 32) with 4294967296. Z.to_euclidean_division_equations; lia.
Qed.

Lemma tipc_addr_roundtrip_witness :
  is_u32 (tipc_addr 1 1 10) /\ tipc_zone (tipc_addr 1 1 10) = 1 /\
  tipc_cluster (tipc_addr 1 1 10) = 1 /\ tipc_node (tipc_addr 1 1 10) = 10.
Proof. apply tipc_addr_roundtrip; split; vm_compute; congruence. Defined.
