(* ===== verification/Bfqio.v ===== *)
(** * libbfqio: I/O priority through a control group

    [libbfqio/bfqio.c]: [android_set_rt_ioprio] writes a thread id, converted
    to decimal in a stack buffer, to one of two control files, after a check
    that is made once per process. The kernel's answers to the system calls are
    a parameter ([kernel]); the calls made are recorded in a trace. *)
From S2P Require Import Prelude.
Open Scope Z_scope.

(** ** System calls *)

Inductive event : Type :=
| Access (path : string)
| Open (path : string)
| Write (fd : Z) (data : list Z)
| Close (fd : Z).

(** The kernel's answers: whether [access (path, W_OK)] is 0, the descriptor
    [open] returns, the result of [write] with [errno], and [gettid]. *)
Record kernel : Type := mk_kernel {
  access_ok : string -> bool;
  open_fd : string -> Z;
  write_rc : Z -> list Z -> Z * Z;
  gettid : Z
}.

(** The file's static variables and the trace, last call first. *)
Record state : Type := mk_state {
  rtio_cgroup_supported : Z;
  rtio_init_once : bool;
  trace : list event
}.

Definition ESRCH : Z := 3.
Definition tasks_path : string := "/dev/bfqio/tasks"%string.
Definition rt_tasks_path : string := "/dev/bfqio/rt-display/tasks"%string.

Definition init_state : state := mk_state (-1) false [].

Definition call (e : event) (s : state) : state :=
  mk_state (rtio_cgroup_supported s) (rtio_init_once s) (e :: trace s).

Section bfqio.
Context (k : kernel) (have_gettid : bool).

(** [||] stops at the first control file that is writable. *)
Definition __initialize_rtio (s : state) : state :=
  let s := call (Access tasks_path) s in
  if access_ok k tasks_path then mk_state 1 (rtio_init_once s) (trace s)
  else
    let s := call (Access rt_tasks_path) s in
    if access_ok k rt_tasks_path then mk_state 1 (rtio_init_once s) (trace s)
    else mk_state 0 (rtio_init_once s) (trace s).

(** [pthread_once] runs the initialiser the first time only. *)
Definition pthread_once (init : state -> state) (s : state) : state :=
  if rtio_init_once s then s
  else let s := init s in mk_state (rtio_cgroup_supported s) true (trace s).

(** [while (tid > 0) { *--ptr = '0' + (tid % 10); tid = tid / 10; }]: [ptr] is
    an index in [text]; going below it is a fault. *)
Fixpoint itoa (text : list Z) (ptr : nat) (tid : Z) : option (list Z * nat) :=
  if 0 <? tid then
    match ptr with
    | O => None
    | S p =>
        text ← wr text p (48 + Z.rem tid 10);
        itoa text p (Z.quot tid 10)
    end
  else Some (text, ptr).

(** [text] is uninitialised; [garbage] is what it holds. *)
Definition android_set_rt_ioprio (garbage : list Z) (tid rt : Z) (s : state)
    : option (Z * state) :=
  let s := pthread_once __initialize_rtio s in
  if negb (rtio_cgroup_supported s =? 1) then Some (-1, s)
  else
    let path := if negb (rt =? 0) then rt_tasks_path else tasks_path in
    let s := call (Open path) s in
    let fd := open_fd k path in
    if fd <? 0 then Some (-1, s)
    else
      let tid := if have_gettid && (tid =? 0) then gettid k else tid in
      text ← wr garbage 21 0;
      '(text, ptr) ← itoa text 21 tid;
      let data := take (21 - ptr) (drop ptr text) in
      let s := call (Write fd data) s in
      let '(rc, errno) := write_rc k fd data in
      let rc := if rc <? 0 then (if errno =? ESRCH then 0 else rc) else rc in
      Some (rc, call (Close fd) s).
End bfqio.

(** ** The decimal conversion *)

(** The number a digit string denotes. *)
Definition undec (l : list Z) : Z := foldl (fun n c => n * 10 + (c - 48)) 0 l.

Definition is_digit (c : Z) : Prop := 48 <= c <= 57.

Lemma foldl_undec l n : foldl (fun n c => n * 10 + (c - 48)) n l = n * 10 ^ Z.of_nat (length l) + undec l.
Proof.
  revert n. induction l as [|c l IH]; intros n; simpl; [unfold undec; simpl; lia|].
  unfold undec. simpl. rewrite !IH.
  replace (Z.of_nat (S (length l))) with (Z.of_nat (length l) + 1) by lia.
  rewrite Z.pow_add_r by lia. lia.
Qed.

Lemma undec_cons c l : undec (c :: l) = (c - 48) * 10 ^ Z.of_nat (length l) + undec l.
Proof. unfold undec at 1. simpl. rewrite foldl_undec. lia. Qed.

(** What the loop leaves: [ptr] has moved to [p], the bytes from there to the
    old [ptr] are the digits of [tid] without a leading zero, and the bytes from
    the old [ptr] on are as before. *)
Definition digits_at (text text' : list Z) (p ptr : nat) (tid : Z) : Prop :=
  (p <= ptr)%nat /\ length text' = length text /\
  Forall is_digit (take (ptr - p) (drop p text')) /\
  undec (take (ptr - p) (drop p text')) = tid /\
  (0 < tid -> head (drop p text') <> Some 48) /\
  drop ptr text' = drop ptr text.

Lemma itoa_zero text ptr : itoa text ptr 0 = Some (text, ptr) /\ digits_at text text ptr ptr 0.
Proof.
  split; [by destruct ptr|]. unfold digits_at. rewrite Nat.sub_diag, take_0.
  split_and!; done || lia.
Qed.

(** One more digit behind those of [tid / 10]. *)
Lemma digits_at_snoc text text' p ptr tid :
  0 < tid -> (ptr < length text)%nat ->
  digits_at (<[ptr := 48 + tid mod 10]> text) text' p ptr (tid / 10) ->
  (tid / 10 = 0 -> p = ptr) -> digits_at text text' p (S ptr) tid.
Proof.
  intros Ht Hlt (Hp & L & D & U & H0 & R) Hz. rewrite length_insert in L.
  assert (0 <= tid mod 10 < 10) by (apply Z.mod_pos_bound; lia).
  pose proof (Z.div_mod tid 10 ltac:(lia)) as Hdm.
  assert (drop ptr text' = (48 + tid mod 10) :: drop (S ptr) text) as Hd.
  { rewrite R, (drop_S _ (48 + tid mod 10)) by (apply list_lookup_insert_eq; lia).
    f_equal. rewrite drop_insert_lt by lia. done. }
  assert (take (S ptr - p) (drop p text') = take (ptr - p) (drop p text') ++ [48 + tid mod 10])
    as Hsplit.
  { replace (S ptr - p)%nat with (S (ptr - p)) by lia. apply take_S_r.
    rewrite lookup_drop. replace (p + (ptr - p))%nat with (ptr + 0)%nat by lia.
    by rewrite <- lookup_drop, Hd. }
  unfold digits_at. rewrite Hsplit. split_and!.
  - lia.
  - done.
  - apply Forall_app_2; [done|]. apply Forall_cons_2; [unfold is_digit; lia|apply Forall_nil_2].
  - unfold undec. rewrite foldl_app. simpl. fold (undec (take (ptr - p) (drop p text'))).
    rewrite U. lia.
  - intros _. destruct (decide (0 < tid / 10)) as [Hq|Hq]; [by apply H0|].
    rewrite (Hz ltac:(pose proof (Z.div_pos tid 10); lia)), Hd. simpl. intros [=]. lia.
  - assert (drop 1 (drop ptr text') = drop (S ptr) text) as <- by (by rewrite Hd).
    rewrite drop_drop. f_equal. lia.
Qed.

(** [n] bytes are enough for a number below [10 ^ n]. *)
Lemma itoa_spec n text ptr tid :
  0 <= tid < 10 ^ Z.of_nat n -> (n <= ptr < length text)%nat ->
  exists text' p, itoa text ptr tid = Some (text', p) /\ (ptr - n <= p)%nat /\
    digits_at text text' p ptr tid.
Proof.
  revert text ptr tid. induction n as [|n IH]; intros text ptr tid Ht Hp.
  { assert (tid = 0) as -> by (simpl in Ht; lia). exists text, ptr.
    destruct (itoa_zero text ptr). by split_and!; [|lia|]. }
  destruct (decide (tid <= 0)) as [Hz|Hz].
  { assert (tid = 0) as -> by lia. exists text, ptr.
    destruct (itoa_zero text ptr). by split_and!; [|lia|]. }
  destruct ptr as [|ptr]; [lia|]. cbn [itoa]. rewrite (proj2 (Z.ltb_lt 0 tid)) by lia.
  rewrite wr_Some by lia. cbn [mbind option_bind].
  rewrite Z.quot_div_nonneg, Z.rem_mod_nonneg by lia.
  assert (10 ^ Z.of_nat (S n) = 10 * 10 ^ Z.of_nat n) as Hpow.
  { replace (Z.of_nat (S n)) with (1 + Z.of_nat n) by lia. by rewrite Z.pow_add_r by lia. }
  destruct (IH (<[ptr := 48 + tid mod 10]> text) ptr (tid / 10)) as (text' & p & E & Hn & D).
  { split; [apply Z.div_pos; lia|]. apply Z.div_lt_upper_bound; lia. }
  { rewrite length_insert. lia. }
  exists text', p. split_and!; [done|lia|]. apply digits_at_snoc; [lia|lia|done|].
  intros Hq. rewrite Hq, (proj1 (itoa_zero _ _)) in E. congruence.
Qed.

(** ** One call *)

(** What is written and returned once [fd] is open. *)
Definition written (data : list Z) (tid : Z) : Prop :=
  Forall is_digit data /\ (length data <= 10)%nat /\
  undec data = Z.max 0 tid /\ (0 < tid -> head data <> Some 48) /\ (tid <= 0 -> data = []).

Definition result (rc errno : Z) : Z :=
  if decide (rc < 0 /\ errno = ESRCH) then 0 else rc.

Lemma conversion_written garbage tid :
  in_s32 tid -> length garbage = 22%nat ->
  exists text p, (text ← wr garbage 21 0; itoa text 21 tid) = Some (text, p) /\
    written (take (21 - p) (drop p text)) tid.
Proof.
  unfold in_s32. intros Ht L. rewrite wr_Some by lia. cbn [mbind option_bind].
  destruct (decide (tid <= 0)) as [Hn|Hn].
  - exists (<[21%nat := 0]> garbage), 21%nat. rewrite Nat.sub_diag, take_0. split.
    + cbn [itoa]. by rewrite (proj2 (Z.ltb_ge 0 tid)) by lia.
    + unfold written. split_and!; done || (unfold undec; simpl; lia) || (intros; lia).
  - destruct (itoa_spec 10 (<[21%nat := 0]> garbage) 21 tid) as
      (text & p & E & Hn' & Hp & Lt & D & U & H0 & _).
    { change (10 ^ Z.of_nat 10) with 10000000000. lia. }
    { rewrite length_insert. lia. }
    exists text, p. split; [done|]. rewrite length_insert in Lt. unfold written.
    split_and!; [done| |rewrite U; lia| |lia].
    + rewrite length_take, length_drop. lia.
    + intros _. specialize (H0 ltac:(lia)). destruct (21 - p)%nat; [done|].
      by destruct (drop p text).
Qed.

Section call_spec.
Context (k : kernel) (have_gettid : bool).

(** The thread the call is about. *)
Definition target (tid : Z) : Z := if have_gettid && (tid =? 0) then gettid k else tid.
Definition control_file (rt : Z) : string := if decide (rt = 0) then tasks_path else rt_tasks_path.

Lemma set_rt_ioprio_steps garbage tid rt s :
  in_s32 (target tid) -> length garbage = 22%nat ->
  let s1 := pthread_once (__initialize_rtio k) s in
  let path := control_file rt in
  let fd := open_fd k path in
  exists data, written data (target tid) /\
    android_set_rt_ioprio k have_gettid garbage tid rt s =
      Some (if decide (rtio_cgroup_supported s1 = 1)
            then if decide (fd < 0) then (-1, call (Open path) s1)
                 else (result (fst (write_rc k fd data)) (snd (write_rc k fd data)),
                       call (Close fd) (call (Write fd data) (call (Open path) s1)))
            else (-1, s1)).
Proof.
  intros Ht L s1 path fd. destruct (conversion_written garbage _ Ht L) as (text & p & E & W).
  eexists; split; [exact W|]. unfold android_set_rt_ioprio. fold s1.
  destruct (decide (rtio_cgroup_supported s1 = 1)) as [Hs|Hs].
  2: { by rewrite (proj2 (Z.eqb_neq _ _) Hs). }
  rewrite Hs. cbn [Z.eqb Pos.eqb negb].
  assert ((if negb (rt =? 0) then rt_tasks_path else tasks_path) = path) as ->.
  { unfold path, control_file. destruct (Z.eqb_spec rt 0); case_decide; done. }
  fold fd. destruct (Z.ltb_spec fd 0); case_decide; try lia; [done|].
  fold (target tid). cbn [mbind option_bind] in E |- *.
  destruct (wr garbage 21 0) as [text0|]; [|done]. cbn in E |- *.
  rewrite E. cbn [mbind option_bind].
  destruct (write_rc k fd _) as [rc errno] eqn:Ew. cbn [fst snd]. do 2 f_equal.
  unfold result. destruct (Z.ltb_spec rc 0), (Z.eqb_spec errno ESRCH);
    case_decide; try done; lia.
Qed.
End call_spec.

(** ** Sequences of calls *)

Definition accesses (tr : list event) : list string :=
  omap (fun e => match e with Access p => Some p | _ => None end) tr.
Definition opened (k : kernel) (tr : list event) : list Z :=
  omap (fun e => match e with
    | Open p => if decide (open_fd k p < 0) then None else Some (open_fd k p)
    | _ => None end) tr.
Definition closed (tr : list event) : list Z :=
  omap (fun e => match e with Close fd => Some fd | _ => None end) tr.

(** Calls [(tid, rt)] made one after the other. *)
Fixpoint run (k : kernel) (have_gettid : bool) (garbage : list Z) (calls : list (Z * Z)) (s : state)
    : option (list Z * state) :=
  match calls with
  | [] => Some ([], s)
  | (tid, rt) :: calls =>
      '(rc, s) ← android_set_rt_ioprio k have_gettid garbage tid rt s;
      '(rcs, s) ← run k have_gettid garbage calls s;
      Some (rc :: rcs, s)
  end.

(** Whether the kernel offers one of the control files. *)
Definition offered (k : kernel) : bool := access_ok k tasks_path || access_ok k rt_tasks_path.

(** The state between calls: every descriptor is closed again, and the check of
    the control files is made once. *)
Record settled (k : kernel) (s : state) : Prop := mk_settled {
  settled_files : opened k (trace s) = closed (trace s);
  settled_once : rtio_init_once s = true;
  settled_supported : rtio_cgroup_supported s = (if offered k then 1 else 0);
  settled_access : accesses (trace s) =
    if access_ok k tasks_path then [tasks_path] else [rt_tasks_path; tasks_path]
}.

Lemma init_settled k : settled k (pthread_once (__initialize_rtio k) init_state).
Proof.
  unfold pthread_once, __initialize_rtio. simpl.
  destruct (access_ok k tasks_path) eqn:E1, (access_ok k rt_tasks_path) eqn:E2; simpl; split; simpl;
    unfold offered; rewrite ?E1, ?E2; done.
Qed.

Lemma settled_once_id k s : settled k s -> pthread_once (__initialize_rtio k) s = s.
Proof. intros [_ H _ _]. unfold pthread_once. by rewrite H. Qed.

Lemma call_settled k h garbage tid rt s :
  in_s32 (target k h tid) -> length garbage = 22%nat ->
  settled k (pthread_once (__initialize_rtio k) s) ->
  exists rc s', android_set_rt_ioprio k h garbage tid rt s = Some (rc, s') /\ settled k s' /\
    (offered k = false -> rc = -1).
Proof.
  intros Ht L [Ho H1 Hs Ha].
  destruct (set_rt_ioprio_steps k h garbage tid rt s Ht L) as (data & _ & E). cbv zeta in E.
  generalize dependent (pthread_once (__initialize_rtio k) s). intros s1 Ho H1 Hs Ha E.
  rewrite E. do 2 eexists. split; [apply (f_equal Some), surjective_pairing|].
  destruct (decide (rtio_cgroup_supported s1 = 1)) as [H|H]; cbn [fst snd].
  - assert (offered k = true) as Eo by (rewrite Hs in H; by destruct (offered k)).
    rewrite Eo. split; [|done].
    destruct (decide (open_fd k (control_file rt) < 0)) as [Hf|Hf]; cbn [snd];
      split; try done; cbn [trace call]; cbn.
    + by rewrite decide_True by done.
    + rewrite decide_False by done. f_equal. exact Ho.
  - split; [done|]. done.
Qed.

(** ** Properties *)

(** C30. A call on a thread id of the type [int] never leaves the 22-byte
    buffer. Without a writable control file it returns -1 and opens nothing; if
    the file selected by [rt] does not open it returns -1 and writes nothing;
    otherwise it opens that file, writes the decimal form of the thread id
    (digits only, no leading zero, at most ten, nothing for an id that is not
    positive), closes the same descriptor and returns [write]'s result, with
    [ESRCH] read as success. *)
Theorem set_rt_ioprio_spec k have_gettid garbage tid rt s :
  in_s32 (target k have_gettid tid) -> length garbage = 22%nat ->
  let s1 := pthread_once (__initialize_rtio k) s in
  let path := control_file rt in
  let fd := open_fd k path in
  exists rc s', android_set_rt_ioprio k have_gettid garbage tid rt s = Some (rc, s') /\
    (rtio_cgroup_supported s1 <> 1 -> rc = -1 /\ s' = s1) /\
    (rtio_cgroup_supported s1 = 1 -> fd < 0 -> rc = -1 /\ trace s' = Open path :: trace s1) /\
    (rtio_cgroup_supported s1 = 1 -> 0 <= fd ->
      exists data, written data (target k have_gettid tid) /\
        trace s' = Close fd :: Write fd data :: Open path :: trace s1 /\
        rc = result (fst (write_rc k fd data)) (snd (write_rc k fd data))).
Proof.
  intros Ht L s1 path fd.
  destruct (set_rt_ioprio_steps k have_gettid garbage tid rt s Ht L) as (data & W & E).
  cbv zeta in E. fold s1 path fd in E. rewrite E.
  do 2 eexists. split; [apply (f_equal Some), surjective_pairing|].
  split_and!.
  - intros H. by rewrite decide_False by done.
  - intros H Hfd. by rewrite !decide_True by done.
  - intros H Hfd. rewrite decide_True by done. rewrite decide_False by lia. by exists data.
Qed.

(** C31. From the start of the process, any sequence of calls on valid thread
    ids runs without a fault, probes the control files once (the second only if
    the first is not writable), closes every descriptor it opened, in order,
    and returns -1 throughout when no control file is writable. *)
Theorem calls_close_what_they_open k have_gettid garbage calls :
  Forall (fun c => in_s32 (target k have_gettid (fst c))) calls -> length garbage = 22%nat ->
  exists rcs s, run k have_gettid garbage calls init_state = Some (rcs, s) /\
    length rcs = length calls /\
    opened k (trace s) = closed (trace s) /\
    (calls <> [] -> accesses (trace s) =
      if access_ok k tasks_path then [tasks_path] else [rt_tasks_path; tasks_path]) /\
    (offered k = false -> Forall (fun rc => rc = -1) rcs).
Proof.
  intros Hc L.
  assert (forall s, settled k (pthread_once (__initialize_rtio k) s) ->
    exists rcs s', run k have_gettid garbage calls s = Some (rcs, s') /\
      length rcs = length calls /\ (s' = s /\ calls = [] \/ settled k s') /\
      (offered k = false -> Forall (fun rc => rc = -1) rcs)) as Hrun.
  { induction Hc as [|[tid rt] calls Ht _ IH]; intros s Hs; cbn [run].
    { exists [], s. by split_and!; [| |left|]. }
    destruct (call_settled k have_gettid garbage tid rt s Ht L Hs) as (rc & s1 & E & S1 & R1).
    destruct (IH s1) as (rcs & s2 & E2 & L2 & S2 & R2).
    { by rewrite settled_once_id. }
    rewrite E. cbn [mbind option_bind]. rewrite E2. cbn [mbind option_bind].
    exists (rc :: rcs), s2. split_and!; [done|simpl; lia| |].
    - right. by destruct S2 as [[-> _]|S2].
    - intros H. apply Forall_cons_2; [by apply R1|by apply R2]. }
  destruct (Hrun init_state (init_settled k)) as (rcs & s & E & Lr & S & R).
  exists rcs, s. split_and!; try done.
  - by destruct S as [[-> _]|[]].
  - intros Hn. by destruct S as [[_ ?]|[]].
Qed.

(** ** Witnesses *)

(** A kernel with the second control file only, where descriptor 3 takes the
    write unless the thread is gone. *)
Definition sample_kernel : kernel :=
  mk_kernel (fun p => bool_decide (p = rt_tasks_path)) (fun p => if decide (p = rt_tasks_path) then 3 else -1)
    (fun _ data => if decide (data = [52; 50]) then (-1, ESRCH) else (Z.of_nat (length data), 0)) 1234.

Definition sample_text : list Z := replicate 22 170.

Lemma set_rt_ioprio_spec_witness :
  android_set_rt_ioprio sample_kernel true sample_text 0 1 init_state =
    Some (4, mk_state 1 true [Close 3; Write 3 [49; 50; 51; 52]; Open rt_tasks_path;
                              Access rt_tasks_path; Access tasks_path]) /\
  exists rc s', android_set_rt_ioprio sample_kernel true sample_text 0 1 init_state = Some (rc, s').
Proof.
  split; [vm_compute; reflexivity|].
  destruct (set_rt_ioprio_spec sample_kernel true sample_text 0 1 init_state) as (rc & s' & E & _).
  - vm_compute. split; [discriminate|reflexivity].
  - reflexivity.
  - exact (ex_intro _ rc (ex_intro _ s' E)).
Defined.

Lemma calls_close_what_they_open_witness :
  (fst <$> run sample_kernel true sample_text [(42, 1); (7, 0); (2147483647, 1)] init_state) =
    Some [0; -1; 10] /\
  exists rcs s, run sample_kernel true sample_text [(42, 1); (7, 0); (2147483647, 1)] init_state =
    Some (rcs, s) /\ opened sample_kernel (trace s) = closed (trace s).
Proof.
  split; [vm_compute; reflexivity|].
  destruct (calls_close_what_they_open sample_kernel true sample_text
    [(42, 1); (7, 0); (2147483647, 1)]) as (rcs & s & E & _ & H & _).
  - repeat constructor; vm_compute; done.
  - reflexivity.
  - exact (ex_intro _ rcs (ex_intro _ s (conj E H))).
Defined.
