(* ===== verification/RilWrapper.v ===== *)
(** * ril-wrapper: a shim between rild and the vendor RIL

    [libril-wrapper/ril-wrapper.c]: [RIL_Init] loads the vendor library with an
    environment whose completion callback is [onRequestCompleteShim], which
    shortens long baseband versions and forwards every completion to rild.
    [telephony/ril.h], the dynamic loader and the vendor library are
    parameters. The array of the shortened version is declared inside the [if] and
    its address is handed to rild after it: its lifetime has ended there, which C
    leaves undefined. The model takes the bytes to be still in the frame of the
    function, so that what it hands over is what rild finds as long as nothing has
    reused them. *)
From S2P Require Import Prelude.
Open Scope Z_scope.

(** ** Data *)

(** Function pointers and links that the code does not follow are addresses. *)
Record CommandInfo : Type := mk_CommandInfo {
  requestNumber : Z;
  dispatchFunction : Z;
  responseFunction : Z
}.

(** A [NULL] [pCI] is [None]; following it is a fault. *)
Record RequestInfo : Type := mk_RequestInfo {
  token : Z;
  pCI : option CommandInfo;
  p_next : Z;
  cancelled : Z;
  local : Z
}.

(** What [response] points to: nothing, the caller's buffer, or the array
    [finalResponse] of the [switch] body, with the bytes of the object. *)
Inductive response : Type :=
| Null
| Caller (bytes : list Z)
| finalResponse (bytes : list Z).

Record completion : Type := mk_completion {
  c_token : option RequestInfo;
  c_errno : Z;
  c_response : response;
  c_responselen : Z
}.

(** [OnRequestComplete] is rild's function or the shim. *)
Inductive callback : Type := rild_callback (id : Z) | onRequestCompleteShim_callback.

Section wrapper.
(** The rest of [RIL_Env], the vendor's function table, and the request
    number of [BASEBAND_VERSION]. *)
Context (EnvRest Functions : Type) (RIL_REQUEST_BASEBAND_VERSION : Z).

Record RIL_Env : Type := mk_RIL_Env {
  OnRequestComplete : callback;
  env_rest : EnvRest
}.

Inductive event : Type :=
| dlopen_call (name : string)
| dlsym_call (handle : Z) (symbol : string)
| qmiRilInit_call (env : RIL_Env) (argc : Z) (argv : list string)
| dlclose_call (handle : Z).

(** The file's static variables and the trace of loader calls, last first. *)
Record state : Type := mk_state {
  qmiRilFunctions : option Functions;
  ossRilEnv : option RIL_Env;
  shimmedRilEnv : option RIL_Env;
  trace : list event
}.

(** *** The completion callback *)

(** [for (m = 0; tempResponse[m]; m++)]: the characters that are not spaces,
    up to the NUL. Reading past the object is a fault. *)
Fixpoint charcount (tempResponse : list Z) : option Z :=
  match tempResponse with
  | [] => None
  | c :: s =>
      if c =? 0 then Some 0
      else n ← charcount s; Some (if negb (c =? 32) then n + 1 else n)
  end.

Definition maxlenght : nat := 45.

(** [finalResponse[m] = tempResponse[newcharcount + m]] for [n] more values
    of [m]. *)
Fixpoint copy_loop (n m : nat) (newcharcount : Z) (tempResponse final : list Z) : option (list Z) :=
  match n with
  | O => Some final
  | S n =>
      c ← rd tempResponse (Z.to_nat newcharcount + m);
      final ← wr final m c;
      copy_loop n (S m) newcharcount tempResponse final
  end.

(** The shortened version, or [None] for [goto do_not_handle]. *)
Definition baseband_version (tempResponse : list Z) : option (option (list Z)) :=
  n ← charcount tempResponse;
  let final := replicate maxlenght 0 in
  let newcharcount := n - Z.of_nat maxlenght in
  if 0 <? newcharcount then
    final ← copy_loop maxlenght 0 newcharcount tempResponse final;
    Some (Some final)
  else Some None.

(** The arguments [ossRilEnv->OnRequestComplete] is called with. *)
Definition onRequestCompleteShim (c : completion) : option completion :=
  match c_response c, c_token c with
  | Null, _ => Some c
  | _, None => Some c
  | (Caller bytes | finalResponse bytes), Some requestInfo =>
      command ← pCI requestInfo;
      if requestNumber command =? RIL_REQUEST_BASEBAND_VERSION then
        final ← baseband_version bytes;
        match final with
        | None => Some c
        | Some final =>
            Some (mk_completion (c_token c) (c_errno c) (finalResponse final) (c_responselen c))
        end
      else Some c
  end.

(** A call through a function pointer: the shim calls on through [ossRilEnv].
    [fuel] bounds the nesting. *)
Fixpoint invoke (fuel : nat) (s : state) (f : callback) (c : completion) : option (Z * completion) :=
  match fuel, f with
  | _, rild_callback id => Some (id, c)
  | O, _ => None
  | S fuel, onRequestCompleteShim_callback =>
      c ← onRequestCompleteShim c;
      env ← ossRilEnv s;
      invoke fuel s (OnRequestComplete env) c
  end.

(** *** Initialisation *)

Context (dlopen : string -> option Z) (dlsym : Z -> string -> bool)
  (qmiRilInit : RIL_Env -> Z -> list string -> option Functions).

Definition RIL_LIB_NAME : string := "libril-qc-qmi-1.so".

Definition logged (e : event) (s : state) : state :=
  mk_state (qmiRilFunctions s) (ossRilEnv s) (shimmedRilEnv s) (e :: trace s).

Definition RIL_Init (env : RIL_Env) (argc : Z) (argv : list string) (s : state) : option Functions * state :=
  let shimmed := mk_RIL_Env onRequestCompleteShim_callback (env_rest env) in
  let s := mk_state (qmiRilFunctions s) (Some env) (Some shimmed) (trace s) in
  let s := logged (dlopen_call RIL_LIB_NAME) s in
  match dlopen RIL_LIB_NAME with
  | None => (None, s)
  | Some qmiRil =>
      let fail_after_dlopen s := (None, logged (dlclose_call qmiRil) s) in
      let s := logged (dlsym_call qmiRil "RIL_Init") s in
      if negb (dlsym qmiRil "RIL_Init") then fail_after_dlopen s
      else
        let s := logged (qmiRilInit_call shimmed argc argv) s in
        let functions := qmiRilInit shimmed argc argv in
        let s := mk_state functions (ossRilEnv s) (shimmedRilEnv s) (trace s) in
        match functions with
        | None => fail_after_dlopen s
        | Some _ => (functions, s)
        end
  end.
End wrapper.

Arguments mk_RIL_Env {EnvRest} _ _.
Arguments OnRequestComplete {EnvRest} _.
Arguments env_rest {EnvRest} _.
Arguments dlopen_call {EnvRest} _.
Arguments dlsym_call {EnvRest} _ _.
Arguments qmiRilInit_call {EnvRest} _ _ _.
Arguments dlclose_call {EnvRest} _.
Arguments mk_state {EnvRest Functions} _ _ _ _.
Arguments qmiRilFunctions {EnvRest Functions} _.
Arguments ossRilEnv {EnvRest Functions} _.
Arguments shimmedRilEnv {EnvRest Functions} _.
Arguments trace {EnvRest Functions} _.
Arguments invoke {EnvRest Functions} _ _ _ _ _.
Arguments RIL_Init {EnvRest Functions} _ _ _ _ _ _ _.

(** ** The baseband version *)

(** A NUL-terminated string with bytes after it. *)
Definition c_string (s rest : list Z) : list Z := s ++ 0 :: rest.

Definition is_text (s : list Z) : Prop := Forall (fun c => c <> 0) s.

Definition visible (s : list Z) : nat := length (filter (fun c => c <> 32) s).

Lemma visible_length s : (visible s <= length s)%nat.
Proof. apply length_filter. Qed.

Lemma visible_all s : visible s = length s <-> Forall (fun c => c <> 32) s.
Proof.
  induction s as [|c s IH]; [by split; [constructor|]|].
  unfold visible in *. rewrite filter_cons, Forall_cons, <- IH.
  pose proof (visible_length s) as Hv. unfold visible in Hv.
  case_decide as Hc; cbn [length]; [|by split; [lia|intros [? _]]].
  split; [intros [=]; done|by intros [_ ->]].
Qed.

Lemma charcount_text s rest : is_text s -> charcount (c_string s rest) = Some (Z.of_nat (visible s)).
Proof.
  induction 1 as [|c s Hc Hs IH]; [done|]. unfold c_string in *. cbn [app charcount].
  rewrite (proj2 (Z.eqb_neq _ _) Hc), IH. cbn [mbind option_bind].
  unfold visible. rewrite filter_cons. destruct (Z.eqb_spec c 32); case_decide; try done; cbn [negb].
  f_equal. simpl. lia.
Qed.

(** The loop fills [final] from index [m] with the bytes from
    [newcharcount + m] on. *)
Lemma copy_loop_spec n m k src final :
  (Z.to_nat k + m + n <= length src)%nat -> (m + n <= length final)%nat ->
  copy_loop n m k src final =
    Some (take m final ++ take n (drop (Z.to_nat k + m) src) ++ drop (m + n) final).
Proof.
  revert m final. induction n as [|n IH]; intros m final Hs Hf; cbn [copy_loop].
  - by rewrite take_0, Nat.add_0_r, app_nil_l, take_drop.
  - destruct (lookup_lt_is_Some_2 src (Z.to_nat k + m)) as [c Hc]; [lia|].
    unfold rd. rewrite Hc. cbn [mbind option_bind]. rewrite wr_Some by lia. cbn [mbind option_bind].
    rewrite IH by (rewrite ?length_insert; lia). f_equal.
    rewrite (drop_S src c _ Hc). rewrite firstn_cons.
    rewrite (take_S_r _ _ c) by (apply list_lookup_insert_eq; lia).
    rewrite take_insert_ge by lia. rewrite drop_insert_lt by lia.
    replace (S m + n)%nat with (m + S n)%nat by lia.
    replace (Z.to_nat k + S m)%nat with (S (Z.to_nat k + m)) by lia.
    by rewrite <- app_assoc.
Qed.

Lemma baseband_version_text s rest :
  is_text s ->
  baseband_version (c_string s rest) = Some
    (if decide (maxlenght < visible s)%nat
     then Some (take maxlenght (drop (visible s - maxlenght) s)) else None).
Proof.
  intros Hs. unfold baseband_version. rewrite charcount_text by done. cbn [mbind option_bind].
  pose proof (visible_length s) as Hv.
  destruct (Z.ltb_spec 0 (Z.of_nat (visible s) - Z.of_nat maxlenght)); case_decide; try lia; [|done].
  unfold c_string. rewrite copy_loop_spec; rewrite ?length_app, ?length_replicate; cbn [length]; try lia.
  cbn [mbind option_bind]. do 2 f_equal. rewrite take_0, app_nil_l.
  rewrite (drop_ge (replicate _ _)) by (by rewrite length_replicate). rewrite app_nil_r.
  replace (Z.to_nat _ + 0)%nat with (visible s - maxlenght)%nat by lia.
  rewrite drop_app_le by lia. rewrite take_app_le; [done|]. rewrite length_drop. lia.
Qed.

(** ** The shim *)

(** What rild's requests are: a request whose response is examined has a
    command, and a baseband version is a C string. *)
Definition well_formed (version : Z) (c : completion) : Prop :=
  match c_response c, c_token c with
  | Caller bytes, Some requestInfo =>
      exists command, pCI requestInfo = Some command /\
        (requestNumber command = version -> exists s rest, is_text s /\ bytes = c_string s rest)
  | finalResponse _, _ => False
  | _, _ => True
  end.

(** The version string of a completion that is to be shortened. *)
Definition is_long_version (version : Z) (c : completion) (s : list Z) : Prop :=
  exists requestInfo command rest,
    c_token c = Some requestInfo /\ pCI requestInfo = Some command /\
    requestNumber command = version /\ c_response c = Caller (c_string s rest) /\
    is_text s /\ (maxlenght < visible s)%nat.

Definition shortened (s : list Z) : list Z := take maxlenght (drop (visible s - maxlenght) s).

Lemma shim_cases version c :
  well_formed version c ->
  onRequestCompleteShim version c = Some c /\ (forall s, ~ is_long_version version c s) \/
  exists s, is_long_version version c s /\
    onRequestCompleteShim version c =
      Some (mk_completion (c_token c) (c_errno c) (finalResponse (shortened s)) (c_responselen c)).
Proof.
  destruct c as [t e r n]. unfold well_formed, onRequestCompleteShim, is_long_version. cbn.
  destruct r as [|bytes|bytes], t as [ri|]; try done;
    try (intros _; left; split; [done|]; intros s (? & ? & ? & ? & ? & ? & ? & ?); done).
  intros (cmd & Hc & Hv). rewrite Hc. cbn.
  destruct (Z.eqb_spec (requestNumber cmd) version) as [E|E].
  2: { left. split; [done|]. intros s (ri' & cmd' & ? & [= <-] & ? & ? & _). congruence. }
  destruct (Hv E) as (s & rest & Hs & ->). rewrite baseband_version_text by done.
  case_decide as Hl; cbn.
  - right. exists s. split; [|done]. by exists ri, cmd, rest.
  - left. split; [done|]. intros s' (? & ? & rest' & ? & ? & ? & [= Hb] & Hs' & Hl').
    apply Hl. pose proof (charcount_text s rest Hs) as Hvis.
    rewrite Hb, charcount_text in Hvis by done. apply (inj Some) in Hvis. lia.
Qed.

Lemma shortened_split s :
  (maxlenght < visible s)%nat ->
  exists pre post, s = pre ++ shortened s ++ post /\ length (shortened s) = maxlenght /\
    length post = (length s - visible s)%nat.
Proof.
  intros Hl. pose proof (visible_length s) as Hv. unfold shortened.
  exists (take (visible s - maxlenght) s), (drop maxlenght (drop (visible s - maxlenght) s)).
  split_and!.
  - by rewrite !take_drop.
  - rewrite length_take, length_drop. lia.
  - rewrite !length_drop. lia.
Qed.

Lemma text_no_strlen s : is_text s -> strlen s = None.
Proof.
  induction 1 as [|c s Hc Hs IH]; [done|]. cbn [strlen].
  rewrite decide_False by done. by rewrite IH.
Qed.

(** ** Properties *)

Section properties.
Context {EnvRest Functions : Type} (version : Z).
Context (dlopen : string -> option Z) (dlsym : Z -> string -> bool)
  (qmiRilInit : RIL_Env EnvRest -> Z -> list string -> option Functions).

Abbreviation init := (RIL_Init dlopen dlsym qmiRilInit).

(** C32. After [RIL_Init] has accepted rild's environment, a completion the
    vendor library reports through the environment it was given reaches
    rild's own callback, once, with the token, the error and the length it
    was reported with, and with the same response unless that is a baseband
    version of more than 45 characters that are not spaces. *)
Theorem completions_reach_rild env argc argv s functions s' id c :
  init env argc argv s = (Some functions, s') -> OnRequestComplete env = rild_callback id ->
  well_formed version c ->
  exists shimmed c', shimmedRilEnv s' = Some shimmed /\ env_rest shimmed = env_rest env /\
    (forall fuel, (1 <= fuel)%nat ->
      invoke version fuel s' (OnRequestComplete shimmed) c = Some (id, c')) /\
    c_token c' = c_token c /\ c_errno c' = c_errno c /\ c_responselen c' = c_responselen c /\
    ((forall v, ~ is_long_version version c v) -> c' = c).
Proof.
  intros Hi Henv Hw. unfold RIL_Init in Hi.
  destruct (dlopen RIL_LIB_NAME) as [h|]; [|done].
  destruct (dlsym h "RIL_Init"); [|done]. cbn in Hi.
  destruct (qmiRilInit _ _ _) as [f|]; [|done]. injection Hi as -> <-. cbn.
  assert (exists c', onRequestCompleteShim version c = Some c' /\
    c_token c' = c_token c /\ c_errno c' = c_errno c /\ c_responselen c' = c_responselen c /\
    ((forall v, ~ is_long_version version c v) -> c' = c)) as (c' & E & Hc').
  { destruct (shim_cases version c Hw) as [[E _]|(v & Hv & E)]; eexists; split; try exact E; [done|].
    split_and!; try done. intros Hn. by destruct (Hn v). }
  eexists _, c'. split_and!; try apply Hc'; [done|done|].
  intros fuel Hf. destruct fuel; [lia|]. cbn. rewrite E. cbn. rewrite Henv. by destruct fuel.
Qed.

(** A baseband version with more than 45 characters that are not spaces
    is replaced by 45 of its characters. They end as many characters before
    the end of the string as it has spaces, so they are its last 45 exactly
    if it has none, and the array that holds them has no terminating NUL. *)
Theorem long_version_shortened c v :
  is_long_version version c v ->
  exists pre post, v = pre ++ shortened v ++ post /\
    onRequestCompleteShim version c =
      Some (mk_completion (c_token c) (c_errno c) (finalResponse (shortened v)) (c_responselen c)) /\
    length (shortened v) = 45%nat /\ length post = (length v - visible v)%nat /\
    (post = [] <-> Forall (fun ch => ch <> 32) v) /\
    strlen (shortened v) = None.
Proof.
  intros (ri & cmd & rest & Ht & Hc & Hn & Hr & Hs & Hl).
  destruct (shortened_split v Hl) as (pre & post & Hv & L & Lp).
  exists pre, post. split_and!; try done.
  - unfold onRequestCompleteShim. rewrite Hr, Ht. cbn. rewrite Hc. cbn.
    rewrite (proj2 (Z.eqb_eq _ _) Hn), baseband_version_text, decide_True by done. done.
  - rewrite <- visible_all, <- length_zero_iff_nil. pose proof (visible_length v). lia.
  - apply text_no_strlen. rewrite Hv in Hs. unfold is_text in *.
    rewrite !Forall_app in Hs. apply Hs.
Qed.

(** C40. [RIL_Init] returns the vendor's functions, with the library left open,
    if the library opens, has the symbol and initialises; otherwise it returns
    [NULL] with the library closed if it was opened. The vendor gets rild's
    environment with only the completion callback replaced. *)
Theorem RIL_Init_spec env argc argv s :
  let shimmed := mk_RIL_Env onRequestCompleteShim_callback (env_rest env) in
  let '(functions, s') := init env argc argv s in
  ossRilEnv s' = Some env /\ shimmedRilEnv s' = Some shimmed /\
  match dlopen RIL_LIB_NAME with
  | None => functions = None /\ trace s' = dlopen_call RIL_LIB_NAME :: trace s
  | Some h =>
      (functions <> None <-> dlsym h "RIL_Init" = true /\ qmiRilInit shimmed argc argv <> None) /\
      (functions <> None -> functions = qmiRilInit shimmed argc argv /\ qmiRilFunctions s' = functions) /\
      (functions = None <-> head (trace s') = Some (dlclose_call h)) /\
      (In (qmiRilInit_call shimmed argc argv) (trace s') <->
        dlsym h "RIL_Init" = true \/ In (qmiRilInit_call shimmed argc argv) (trace s))
  end.
Proof.
  cbv zeta. unfold RIL_Init. destruct (dlopen RIL_LIB_NAME) as [h|]; [|done].
  destruct (dlsym h "RIL_Init"); cbn.
  - destruct (qmiRilInit _ _ _) as [f|] eqn:E; cbn; split_and!; try done; intuition congruence.
  - split_and!; try done; intuition congruence.
Qed.
End properties.

(** ** Witnesses *)

(** A vendor library that opens, with a version of 50 letters and a space;
    request 51 is the version's number. *)
Definition sample_dlopen (_ : string) : option Z := Some 7.
Definition sample_dlsym (_ : Z) (symbol : string) : bool := bool_decide (symbol = "RIL_Init"%string).
Definition sample_init (_ : RIL_Env unit) (_ : Z) (_ : list string) : option Z := Some 11.
Definition sample_env : RIL_Env unit := mk_RIL_Env (rild_callback 3) tt.
Definition sample_version : list Z := [65; 32] ++ seqZ 70 49.
Definition sample_completion : completion :=
  mk_completion (Some (mk_RequestInfo 1 (Some (mk_CommandInfo 51 0 0)) 0 0 0)) 0
    (Caller (c_string sample_version [])) 200.

Lemma sample_text_ok : is_text sample_version.
Proof. apply (bool_decide_unpack _). vm_compute. exact I. Qed.

Lemma sample_is_long : is_long_version 51 sample_completion sample_version.
Proof.
  exists (mk_RequestInfo 1 (Some (mk_CommandInfo 51 0 0)) 0 0 0), (mk_CommandInfo 51 0 0), [].
  split_and!; try reflexivity; [exact sample_text_ok|]. vm_compute. lia.
Qed.

Lemma long_version_shortened_witness :
  shortened sample_version = seqZ 73 45 /\
  exists pre post, sample_version = pre ++ shortened sample_version ++ post /\ length post = 1%nat.
Proof.
  split; [vm_compute; reflexivity|].
  destruct (long_version_shortened 51 sample_completion sample_version sample_is_long)
    as (pre & post & E & _ & _ & L & _).
  exists pre, post. split; [exact E|]. rewrite L. vm_compute. reflexivity.
Defined.

Lemma completions_reach_rild_witness :
  exists s' (shimmed : RIL_Env unit) c',
    RIL_Init sample_dlopen sample_dlsym sample_init sample_env 0 [] (mk_state None None None []) =
      (Some 11, s') /\
    invoke 51 1 s' (OnRequestComplete shimmed) sample_completion = Some (3, c').
Proof.
  destruct (RIL_Init sample_dlopen sample_dlsym sample_init sample_env 0 [] (mk_state None None None []))
    as [f s'] eqn:E.
  assert (f = Some 11) as -> by (vm_compute in E; congruence).
  destruct (completions_reach_rild 51 sample_dlopen sample_dlsym sample_init sample_env
    0 [] (mk_state None None None []) 11 s' 3 sample_completion E) as (shimmed & c' & _ & _ & H & _).
  - reflexivity.
  - exists (mk_CommandInfo 51 0 0). split; [reflexivity|]. intros _.
    exists sample_version, []. split; [exact sample_text_ok|reflexivity].
  - exists s', shimmed, c'. split; [reflexivity|]. apply H. lia.
Defined.
