(* ===== verification/Text.v ===== *)
(** * Text

    Strings as bytes, and the numbers that the library functions [atoi] and
    [std::stoi] read in them. *)
From stdpp Require Import pretty.
From S2P Require Import Prelude.
#[local] Open Scope Z_scope.

Definition bytes_of (s : string) : list Z :=
  map (fun a => Z.of_nat (Ascii.nat_of_ascii a)) (String.list_ascii_of_string s).

Definition quoted (s : string) : string :=
  let q := String (Ascii.ascii_of_nat 34) EmptyString in (q ++ s ++ q)%string.

(** ** Numbers

    [isspace] and [isdigit] of the C locale. *)
Definition is_space (c : Z) : bool := (c =? 32) || ((9 <=? c) && (c <=? 13)).
Definition is_digit (c : Z) : bool := (48 <=? c) && (c <=? 57).

Fixpoint skip_spaces (s : list Z) : list Z :=
  match s with
  | c :: s' => if is_space c then skip_spaces s' else s
  | [] => []
  end.
Fixpoint digits (s : list Z) : list Z :=
  match s with
  | c :: s' => if is_digit c then c :: digits s' else []
  | [] => []
  end.

(** The number [strtol] and its relatives find at the start of a text, if any. *)
Definition leading_number (s : list Z) : option Z :=
  let s := skip_spaces s in
  let '(neg, s) := match s with
    | 45 :: s' => (true, s')
    | 43 :: s' => (false, s')
    | _ => (false, s)
    end in
  match digits s with
  | [] => None
  | ds => let v := foldl (fun v c => 10 * v + (c - 48)) 0 ds in Some (if neg : bool then - v else v)
  end.

(** [std::stoi]: no number and one outside [int] are exceptions, [None] here. *)
Definition stoi (s : list Z) : option Z := v ← leading_number s; int_val v.

(** [atoi]: 0 without a number; a number outside [int] is undefined. *)
Definition atoi (s : list Z) : option Z := int_val (default 0 (leading_number s)).

(** [std::ostream << int]. *)
Definition decimal (x : Z) : list Z := bytes_of (pretty x).
