(* ===== verification/Seemp.v ===== *)
(** * Parameter names of the security event monitor

    [kernel-headers/linux/seemp_param_id.h]: the number of a parameter name found in
    a text, and the name of a number. A text is the buffer from [param] to the end
    of its object; [end] is an offset in it or absent, and reading behind the buffer
    has no value. *)
From S2P Require Import Prelude.
From S2P Require Import Text.
#[local] Open Scope string_scope.
#[local] Open Scope Z_scope.

(** [!memcmp(param, name, n)], for a literal of [n] characters. *)
Definition same_bytes (param : list Z) (name : string) : option bool :=
  let n := String.length name in
  if decide (n <= length param)%nat then Some (bool_decide (take n param = bytes_of name)) else None.

(** [(len == n) && !memcmp(param, name, n)] *)
Definition matches (len : Z) (param : list Z) (name : string) : option bool :=
  if len =? Z.of_nat (String.length name) then same_bytes param name else Some false.

Definition param_id_index (param : list Z) (end_ : option Z) : option Z :=
  len ← match end_ with Some e => Some (s32 e) | None => n ← strlen param; Some (s32 (Z.of_nat n)) end;
  c ← matches len param "len"; if (c : bool) then Some 0 else
  c ← matches len param "oom_adj"; if (c : bool) then Some 1 else
  c ← matches len param "app_uid"; if (c : bool) then Some 2 else
  c ← matches len param "app_pid"; if (c : bool) then Some 3 else
  c ← matches len param "value"; if (c : bool) then Some 4 else
  c ← matches len param "size"; if (c : bool) then Some 5 else
  c ← matches len param "fd"; if (c : bool) then Some 6 else
  c ← matches len param "rate"; if (c : bool) then Some 7 else
  c ← matches len param "sensor"; if (c : bool) then Some 8 else
  c ← matches len param "window_type"; if (c : bool) then Some 9 else
  c ← matches len param "window_flag"; if (c : bool) then Some 10 else Some (-1).

Definition get_param_id_name (id : Z) : string :=
  match id with
  | 0 => "len" | 1 => "oom_adj" | 2 => "app_uid" | 3 => "app_pid" | 4 => "value" | 5 => "size"
  | 6 => "fd" | 7 => "rate" | 8 => "sensor" | 9 => "window_type" | 10 => "window_flag" | _ => "?"
  end.

Definition PARAM_ID_LEN : Z := 0.
Definition PARAM_ID_OOM_ADJ : Z := 1.
Definition PARAM_ID_APP_UID : Z := 2.
Definition PARAM_ID_APP_PID : Z := 3.
Definition PARAM_ID_VALUE : Z := 4.
Definition PARAM_ID_SIZE : Z := 5.
Definition PARAM_ID_FD : Z := 6.
Definition PARAM_ID_RATE : Z := 7.
Definition PARAM_ID_SENSOR : Z := 8.
Definition PARAM_ID_WINDOW_TYPE : Z := 9.
Definition PARAM_ID_WINDOW_FLAG : Z := 10.
Definition NUM_PARAM_IDS : Z := 11.

(** ** The reference: a list of names *)

Definition ids : list Z := seqZ 0 NUM_PARAM_IDS.
Definition names : list string := map get_param_id_name ids.

(** The text the caller means: up to [end], or up to the terminator. *)
Definition token (param : list Z) (end_ : option Z) : option (list Z) :=
  match end_ with
  | Some e => if decide (0 <= e <= Z.of_nat (length param)) then Some (take (Z.to_nat e) param) else None
  | None => n ← strlen param; Some (take n param)
  end.

Definition number_of (t : list Z) : Z :=
  match list_find (fun n => t = bytes_of n) names with Some (i, _) => Z.of_nat i | None => -1 end.

Lemma matches_token param len name : 0 <= len <= Z.of_nat (length param) ->
  matches len param name = Some (bool_decide (take (Z.to_nat len) param = bytes_of name)).
Proof.
  intros Hl. unfold matches, same_bytes.
  assert (Hn : length (bytes_of name) = String.length name).
  { unfold bytes_of. rewrite length_map. clear. by induction name; cbn; congruence. }
  destruct (Z.eqb_spec len (Z.of_nat (String.length name))) as [->|Hne].
  - rewrite Nat2Z.id, decide_True by lia. done.
  - f_equal. symmetry. apply bool_decide_eq_false. intros E. apply (f_equal length) in E.
    rewrite Hn, length_take in E. lia.
Qed.

(** Looking the token up in the list is the chain of comparisons. *)
Lemma chain_is_lookup (t : list Z) :
  number_of t =
  if bool_decide (t = bytes_of "len") then 0 else if bool_decide (t = bytes_of "oom_adj") then 1 else
  if bool_decide (t = bytes_of "app_uid") then 2 else if bool_decide (t = bytes_of "app_pid") then 3 else
  if bool_decide (t = bytes_of "value") then 4 else if bool_decide (t = bytes_of "size") then 5 else
  if bool_decide (t = bytes_of "fd") then 6 else if bool_decide (t = bytes_of "rate") then 7 else
  if bool_decide (t = bytes_of "sensor") then 8 else if bool_decide (t = bytes_of "window_type") then 9 else
  if bool_decide (t = bytes_of "window_flag") then 10 else -1.
Proof.
  unfold number_of. change names with ["len"; "oom_adj"; "app_uid"; "app_pid"; "value"; "size"; "fd"; "rate"; "sensor";
    "window_type"; "window_flag"].
  cbn [list_find]. unfold bool_decide.
  repeat (case_decide || destruct (decide_rel _ _ _)); try done.
Qed.

(** C39. For every text whose end is inside its buffer, param_id_index reads nothing
    outside the buffer and returns the number of the parameter whose name is the
    text, or -1 if it is no parameter's name; an absent end stands for the
    terminator. *)
Theorem index_finds_name (param : list Z) (end_ : option Z) (t : list Z) :
  Z.of_nat (length param) < 2 ^ 31 -> token param end_ = Some t ->
  param_id_index param end_ = Some (number_of t).
Proof.
  intros Hp Ht.
  assert (exists len, 0 <= len <= Z.of_nat (length param) /\ t = take (Z.to_nat len) param /\
    match end_ with Some e => Some (s32 e) | None => n ← strlen param; Some (s32 (Z.of_nat n)) end = Some len)
    as (len & Hl & -> & E).
  { assert (S : forall x, 0 <= x < 2 ^ 31 -> s32 x = x).
    { intros x Hx. unfold s32. rewrite Z.mod_small by lia. lia. }
    destruct end_ as [e|]; cbn in Ht.
    - case_decide as He; [|done]. simplify_eq. exists e. by rewrite S by lia.
    - destruct (strlen param) as [n|] eqn:En; [|done]. cbn in Ht. simplify_eq.
      apply strlen_spec in En as [En _]. apply lookup_lt_Some in En.
      exists (Z.of_nat n). rewrite Nat2Z.id. split_and!; [lia|lia|done|]. cbn. by rewrite S by lia. }
  unfold param_id_index. rewrite E. cbn [mbind option_bind]. rewrite chain_is_lookup.
  repeat (match goal with |- (matches ?l ?p ?n ≫= _) = _ => rewrite (matches_token p l n) by done end;
    cbn [mbind option_bind];
    match goal with |- (if bool_decide ?P then _ else _) = _ =>
      destruct (decide P); [by rewrite !bool_decide_true by done|rewrite !(bool_decide_false P) by done]
    end).
  done.
Qed.

Lemma index_finds_name_witness :
  let text := bytes_of "rate=48000,fd=3" in
  token text (Some 4) = Some (bytes_of "rate") /\ param_id_index text (Some 4) = Some (number_of (bytes_of "rate")) /\
  number_of (bytes_of "rate") = PARAM_ID_RATE /\ param_id_index text (Some 3) = Some (-1).
Proof.
  intros text. split; [by vm_compute|]. split.
  - apply (index_finds_name text (Some 4)); by vm_compute.
  - split; by vm_compute.
Defined.

(** The number of every parameter's name is the parameter, terminated or followed
    by other text; a number that names no parameter has the name "?", which is not
    found. *)
Theorem ids_roundtrip : forall id, let name := bytes_of (get_param_id_name id) in
  (0 <= id < NUM_PARAM_IDS -> forall rest, Z.of_nat (length rest) < 2 ^ 30 ->
     param_id_index (name ++ rest) (Some (Z.of_nat (length name))) = Some id /\
     param_id_index (name ++ 0 :: rest) None = Some id) /\
  (~ 0 <= id < NUM_PARAM_IDS -> get_param_id_name id = "?" /\ param_id_index (name ++ [0]) None = Some (-1)).
Proof.
  intros id name.
  assert (Ho : ~ 0 <= id < NUM_PARAM_IDS -> get_param_id_name id = "?").
  { unfold NUM_PARAM_IDS. intros H. destruct id as [|p|p]; [lia| |done].
    do 4 (destruct p as [p|p|]; try done; try lia). }
  split.
  - intros Hid rest Hr.
    assert (Hf : forallb (fun i => (number_of (bytes_of (get_param_id_name i)) =? i) &&
        (Nat.leb (length (bytes_of (get_param_id_name i))) 11) &&
        forallb (fun c => negb (c =? 0)) (bytes_of (get_param_id_name i))) ids = true) by by vm_compute.
    rewrite forallb_forall in Hf. specialize (Hf id). fold name in Hf.
    rewrite !andb_true_iff, Z.eqb_eq, Nat.leb_le, forallb_forall in Hf.
    destruct Hf as [[Hn Hl] Hc]; [apply list_elem_of_In, elem_of_seqZ; unfold NUM_PARAM_IDS in *; lia|].
    split; rewrite index_finds_name with (t := name); try (by rewrite Hn).
    + rewrite length_app. lia.
    + cbn [token]. rewrite decide_True by (rewrite length_app; lia). by rewrite Nat2Z.id, take_app_length.
    + rewrite length_app. cbn [length]. lia.
    + cbn [token]. rewrite strlen_app; [cbn; by rewrite take_app_length|].
      apply Forall_forall. intros c Hin. apply list_elem_of_In, Hc, negb_true_iff, Z.eqb_neq in Hin. done.
  - intros H. unfold name. rewrite (Ho H). by split.
Qed.
