(* ===== verification/V4l2.v ===== *)
(** * Video for Linux: formats, fields, color spaces and standards

    [kernel-headers/linux/videodev2.h] and [kernel-headers/drm/drm_fourcc.h]: the
    four-character codes of the pixel formats, with the tables of all of them; the
    tests on field orders; the macros that choose the default transfer function,
    encoding and quantization of a color space; and the sets of analog television
    standards. The constants are those of [ConstBase] ([constants_agree]). *)
From Stdlib Require Import Ascii.
From S2P Require Import Prelude.
From S2P Require Import CLayout.
From S2P Require Import CConst.
From S2P Require Import Text.
From S2P Require Import ConstBase.
From S2P Require Import Consts.
#[local] Open Scope string_scope.
#[local] Open Scope Z_scope.

(** ** Four-character codes *)

Definition v4l2_fourcc (a b c d : Z) : Z :=
  u32 a ||| u32 (u32 b ≪ 8) ||| u32 (u32 c ≪ 16) ||| u32 (u32 d ≪ 24).
(** [1 << 31] overflows [int]; the compilers have its sign bit. *)
Definition v4l2_fourcc_be (a b c d : Z) : Z := v4l2_fourcc a b c d ||| u32 (s32 (1 ≪ 31)).
Definition fourcc_code (a b c d : Z) : Z :=
  u32 a ||| u32 (u32 b ≪ 8) ||| u32 (u32 c ≪ 16) ||| u32 (u32 d ≪ 24).
(** The vendor is the constant [DRM_FORMAT_MOD_VENDOR_vendor]. *)
Definition fourcc_mod_code (vendor val : Z) : Z :=
  u64 (u64 vendor ≪ 56) ||| (u64 val &&& 0x00ffffffffffffff).

(** A format by its name and its four characters. *)
Inductive format : Type :=
| Fourcc (name chars : string)
| Fourcc_be (name chars : string).
#[export] Instance format_eq_dec : EqDecision format.
Proof. solve_decision. Defined.

Definition name_of (f : format) : string := match f with Fourcc n _ | Fourcc_be n _ => n end.
Definition chars_of (f : format) : list Z := match f with Fourcc _ c | Fourcc_be _ c => bytes_of c end.
Definition is_be (f : format) : bool := match f with Fourcc _ _ => false | Fourcc_be _ _ => true end.
Definition code (f : format) : option Z :=
  match chars_of f with
  | [a; b; c; d] => Some (if is_be f then v4l2_fourcc_be a b c d else v4l2_fourcc a b c d)
  | _ => None
  end.

(** RGB and grey formats. *)
Definition rgb_formats : list format := [
  Fourcc "V4L2_PIX_FMT_RGB332" "RGB1"; Fourcc "V4L2_PIX_FMT_RGB444" "R444";
  Fourcc "V4L2_PIX_FMT_ARGB444" "AR12"; Fourcc "V4L2_PIX_FMT_XRGB444" "XR12";
  Fourcc "V4L2_PIX_FMT_RGB555" "RGBO"; Fourcc "V4L2_PIX_FMT_ARGB555" "AR15";
  Fourcc "V4L2_PIX_FMT_XRGB555" "XR15"; Fourcc "V4L2_PIX_FMT_RGB565" "RGBP";
  Fourcc "V4L2_PIX_FMT_RGB555X" "RGBQ"; Fourcc_be "V4L2_PIX_FMT_ARGB555X" "AR15";
  Fourcc_be "V4L2_PIX_FMT_XRGB555X" "XR15"; Fourcc "V4L2_PIX_FMT_RGB565X" "RGBR";
  Fourcc "V4L2_PIX_FMT_BGR666" "BGRH"; Fourcc "V4L2_PIX_FMT_BGR24" "BGR3";
  Fourcc "V4L2_PIX_FMT_RGB24" "RGB3"; Fourcc "V4L2_PIX_FMT_BGR32" "BGR4";
  Fourcc "V4L2_PIX_FMT_ABGR32" "AR24"; Fourcc "V4L2_PIX_FMT_XBGR32" "XR24";
  Fourcc "V4L2_PIX_FMT_RGB32" "RGB4"; Fourcc "V4L2_PIX_FMT_ARGB32" "BA24";
  Fourcc "V4L2_PIX_FMT_XRGB32" "BX24"; Fourcc "V4L2_PIX_FMT_RGBA8888_UBWC" "QRGB";
  Fourcc "V4L2_PIX_FMT_GREY" "GREY"; Fourcc "V4L2_PIX_FMT_Y4" "Y04 ";
  Fourcc "V4L2_PIX_FMT_Y6" "Y06 "; Fourcc "V4L2_PIX_FMT_Y10" "Y10 ";
  Fourcc "V4L2_PIX_FMT_Y12" "Y12 "; Fourcc "V4L2_PIX_FMT_Y16" "Y16 ";
  Fourcc_be "V4L2_PIX_FMT_Y16_BE" "Y16 "; Fourcc "V4L2_PIX_FMT_Y10BPACK" "Y10B";
  Fourcc "V4L2_PIX_FMT_PAL8" "PAL8"; Fourcc "V4L2_PIX_FMT_UV8" "UV8 "].

(** Luminance and chrominance. *)
Definition yuv_formats : list format := [
  Fourcc "V4L2_PIX_FMT_YVU410" "YVU9"; Fourcc "V4L2_PIX_FMT_YVU420" "YV12";
  Fourcc "V4L2_PIX_FMT_YUYV" "YUYV"; Fourcc "V4L2_PIX_FMT_YYUV" "YYUV";
  Fourcc "V4L2_PIX_FMT_YVYU" "YVYU"; Fourcc "V4L2_PIX_FMT_UYVY" "UYVY";
  Fourcc "V4L2_PIX_FMT_VYUY" "VYUY"; Fourcc "V4L2_PIX_FMT_YUV422P" "422P";
  Fourcc "V4L2_PIX_FMT_YUV411P" "411P"; Fourcc "V4L2_PIX_FMT_Y41P" "Y41P";
  Fourcc "V4L2_PIX_FMT_YUV444" "Y444"; Fourcc "V4L2_PIX_FMT_YUV555" "YUVO";
  Fourcc "V4L2_PIX_FMT_YUV565" "YUVP"; Fourcc "V4L2_PIX_FMT_YUV32" "YUV4";
  Fourcc "V4L2_PIX_FMT_YUV410" "YUV9"; Fourcc "V4L2_PIX_FMT_YUV420" "YU12";
  Fourcc "V4L2_PIX_FMT_HI240" "HI24"; Fourcc "V4L2_PIX_FMT_HM12" "HM12";
  Fourcc "V4L2_PIX_FMT_M420" "M420"; Fourcc "V4L2_PIX_FMT_NV12" "NV12";
  Fourcc "V4L2_PIX_FMT_NV21" "NV21"; Fourcc "V4L2_PIX_FMT_NV16" "NV16";
  Fourcc "V4L2_PIX_FMT_NV61" "NV61"; Fourcc "V4L2_PIX_FMT_NV24" "NV24";
  Fourcc "V4L2_PIX_FMT_NV42" "NV42"; Fourcc "V4L2_PIX_FMT_NV12_UBWC" "Q128";
  Fourcc "V4L2_PIX_FMT_NV12_TP10_UBWC" "Q12A"; Fourcc "V4L2_PIX_FMT_NV12M" "NM12";
  Fourcc "V4L2_PIX_FMT_NV21M" "NM21"; Fourcc "V4L2_PIX_FMT_NV16M" "NM16";
  Fourcc "V4L2_PIX_FMT_NV61M" "NM61"; Fourcc "V4L2_PIX_FMT_NV12MT" "TM12";
  Fourcc "V4L2_PIX_FMT_NV12MT_16X16" "VM12"; Fourcc "V4L2_PIX_FMT_YUV420M" "YM12";
  Fourcc "V4L2_PIX_FMT_YVU420M" "YM21"].

(** Bayer patterns. *)
Definition bayer_formats : list format := [
  Fourcc "V4L2_PIX_FMT_SBGGR8" "BA81"; Fourcc "V4L2_PIX_FMT_SGBRG8" "GBRG";
  Fourcc "V4L2_PIX_FMT_SGRBG8" "GRBG"; Fourcc "V4L2_PIX_FMT_SRGGB8" "RGGB";
  Fourcc "V4L2_PIX_FMT_SBGGR10" "BG10"; Fourcc "V4L2_PIX_FMT_SGBRG10" "GB10";
  Fourcc "V4L2_PIX_FMT_SGRBG10" "BA10"; Fourcc "V4L2_PIX_FMT_SRGGB10" "RG10";
  Fourcc "V4L2_PIX_FMT_SBGGR10P" "pBAA"; Fourcc "V4L2_PIX_FMT_SGBRG10P" "pGAA";
  Fourcc "V4L2_PIX_FMT_SGRBG10P" "pgAA"; Fourcc "V4L2_PIX_FMT_SRGGB10P" "pRAA";
  Fourcc "V4L2_PIX_FMT_SBGGR10ALAW8" "aBA8"; Fourcc "V4L2_PIX_FMT_SGBRG10ALAW8" "aGA8";
  Fourcc "V4L2_PIX_FMT_SGRBG10ALAW8" "agA8"; Fourcc "V4L2_PIX_FMT_SRGGB10ALAW8" "aRA8";
  Fourcc "V4L2_PIX_FMT_SBGGR10DPCM8" "bBA8"; Fourcc "V4L2_PIX_FMT_SGBRG10DPCM8" "bGA8";
  Fourcc "V4L2_PIX_FMT_SGRBG10DPCM8" "BD10"; Fourcc "V4L2_PIX_FMT_SRGGB10DPCM8" "bRA8";
  Fourcc "V4L2_PIX_FMT_SBGGR12" "BG12"; Fourcc "V4L2_PIX_FMT_SGBRG12" "GB12";
  Fourcc "V4L2_PIX_FMT_SGRBG12" "BA12"; Fourcc "V4L2_PIX_FMT_SRGGB12" "RG12";
  Fourcc "V4L2_PIX_FMT_SBGGR16" "BYR2"; Fourcc "V4L2_PIX_FMT_SBGGR10DPCM6" "bBA6";
  Fourcc "V4L2_PIX_FMT_SGBRG10DPCM6" "bGA6"; Fourcc "V4L2_PIX_FMT_SGRBG10DPCM6" "BD16";
  Fourcc "V4L2_PIX_FMT_SRGGB10DPCM6" "bRA6"; Fourcc "V4L2_PIX_FMT_SBGGRPLAIN16" "BG16";
  Fourcc "V4L2_PIX_FMT_SGBRGPLAIN16" "GB16"; Fourcc "V4L2_PIX_FMT_SGRBGPLAIN16" "GR16";
  Fourcc "V4L2_PIX_FMT_SRGGBPLAIN16" "RG16"].

(** Compressed formats. *)
Definition compressed_formats : list format := [
  Fourcc "V4L2_PIX_FMT_MJPEG" "MJPG"; Fourcc "V4L2_PIX_FMT_JPEG" "JPEG";
  Fourcc "V4L2_PIX_FMT_DV" "dvsd"; Fourcc "V4L2_PIX_FMT_MPEG" "MPEG";
  Fourcc "V4L2_PIX_FMT_H264" "H264"; Fourcc "V4L2_PIX_FMT_H264_NO_SC" "AVC1";
  Fourcc "V4L2_PIX_FMT_H264_MVC" "M264"; Fourcc "V4L2_PIX_FMT_H263" "H263";
  Fourcc "V4L2_PIX_FMT_MPEG1" "MPG1"; Fourcc "V4L2_PIX_FMT_MPEG2" "MPG2";
  Fourcc "V4L2_PIX_FMT_MPEG4" "MPG4"; Fourcc "V4L2_PIX_FMT_XVID" "XVID";
  Fourcc "V4L2_PIX_FMT_VC1_ANNEX_G" "VC1G"; Fourcc "V4L2_PIX_FMT_VC1_ANNEX_L" "VC1L";
  Fourcc "V4L2_PIX_FMT_VP8" "VP80"; Fourcc "V4L2_PIX_FMT_VP9" "VP90";
  Fourcc "V4L2_PIX_FMT_DIVX_311" "DIV3"; Fourcc "V4L2_PIX_FMT_DIVX" "DIVX";
  Fourcc "V4L2_PIX_FMT_HEVC" "HEVC"; Fourcc "V4L2_PIX_FMT_HEVC_HYBRID" "HVCH"].

(** Formats of single devices. *)
Definition vendor_formats : list format := [
  Fourcc "V4L2_PIX_FMT_CPIA1" "CPIA"; Fourcc "V4L2_PIX_FMT_WNVA" "WNVA";
  Fourcc "V4L2_PIX_FMT_SN9C10X" "S910"; Fourcc "V4L2_PIX_FMT_SN9C20X_I420" "S920";
  Fourcc "V4L2_PIX_FMT_PWC1" "PWC1"; Fourcc "V4L2_PIX_FMT_PWC2" "PWC2";
  Fourcc "V4L2_PIX_FMT_ET61X251" "E625"; Fourcc "V4L2_PIX_FMT_SPCA501" "S501";
  Fourcc "V4L2_PIX_FMT_SPCA505" "S505"; Fourcc "V4L2_PIX_FMT_SPCA508" "S508";
  Fourcc "V4L2_PIX_FMT_SPCA561" "S561"; Fourcc "V4L2_PIX_FMT_PAC207" "P207";
  Fourcc "V4L2_PIX_FMT_MR97310A" "M310"; Fourcc "V4L2_PIX_FMT_JL2005BCD" "JL20";
  Fourcc "V4L2_PIX_FMT_SN9C2028" "SONX"; Fourcc "V4L2_PIX_FMT_SQ905C" "905C";
  Fourcc "V4L2_PIX_FMT_PJPG" "PJPG"; Fourcc "V4L2_PIX_FMT_OV511" "O511";
  Fourcc "V4L2_PIX_FMT_OV518" "O518"; Fourcc "V4L2_PIX_FMT_STV0680" "S680";
  Fourcc "V4L2_PIX_FMT_TM6000" "TM60"; Fourcc "V4L2_PIX_FMT_CIT_YYVYUY" "CITV";
  Fourcc "V4L2_PIX_FMT_KONICA420" "KONI"; Fourcc "V4L2_PIX_FMT_JPGL" "JPGL";
  Fourcc "V4L2_PIX_FMT_SE401" "S401"; Fourcc "V4L2_PIX_FMT_S5C_UYVY_JPG" "S5CI";
  Fourcc "V4L2_PIX_FMT_Y8I" "Y8I "; Fourcc "V4L2_PIX_FMT_Y12I" "Y12I";
  Fourcc "V4L2_PIX_FMT_Z16" "Z16 "].

(** Formats of the display engine. *)
Definition sde_formats : list format := [
  Fourcc "V4L2_PIX_FMT_SDE_ABGR_8888" "RA24"; Fourcc "V4L2_PIX_FMT_SDE_RGBA_8888" "AB24";
  Fourcc "V4L2_PIX_FMT_SDE_RGBX_8888" "XB24"; Fourcc "V4L2_PIX_FMT_SDE_XBGR_8888" "RX24";
  Fourcc "V4L2_PIX_FMT_SDE_RGBA_5551" "RA15"; Fourcc "V4L2_PIX_FMT_SDE_ABGR_1555" "AB15";
  Fourcc "V4L2_PIX_FMT_SDE_BGRA_5551" "BA15"; Fourcc "V4L2_PIX_FMT_SDE_BGRX_5551" "BX15";
  Fourcc "V4L2_PIX_FMT_SDE_RGBX_5551" "RX15"; Fourcc "V4L2_PIX_FMT_SDE_XBGR_1555" "XB15";
  Fourcc "V4L2_PIX_FMT_SDE_RGBA_4444" "RA12"; Fourcc "V4L2_PIX_FMT_SDE_BGRA_4444" "bA12";
  Fourcc "V4L2_PIX_FMT_SDE_ABGR_4444" "AB12"; Fourcc "V4L2_PIX_FMT_SDE_RGBX_4444" "RX12";
  Fourcc "V4L2_PIX_FMT_SDE_BGRX_4444" "BX12"; Fourcc "V4L2_PIX_FMT_SDE_XBGR_4444" "XB12";
  Fourcc "V4L2_PIX_FMT_SDE_BGR_565" "BG16"; Fourcc "V4L2_PIX_FMT_SDE_Y_CR_CB_GH2V2" "YU42";
  Fourcc "V4L2_PIX_FMT_SDE_Y_CBCR_H1V2" "NH16"; Fourcc "V4L2_PIX_FMT_SDE_Y_CRCB_H1V2" "NH61";
  Fourcc "V4L2_PIX_FMT_SDE_Y_CBCR_H2V2_VENUS" "QNV2";
  Fourcc "V4L2_PIX_FMT_SDE_Y_CRCB_H2V2_VENUS" "QNV1";
  Fourcc "V4L2_PIX_FMT_SDE_RGBX_8888_UBWC" "QXB4"; Fourcc "V4L2_PIX_FMT_SDE_RGB_565_UBWC" "QRG6";
  Fourcc "V4L2_PIX_FMT_SDE_RGBA_1010102" "AB30"; Fourcc "V4L2_PIX_FMT_SDE_RGBX_1010102" "XB30";
  Fourcc "V4L2_PIX_FMT_SDE_ARGB_2101010" "AR30"; Fourcc "V4L2_PIX_FMT_SDE_XRGB_2101010" "XR30";
  Fourcc "V4L2_PIX_FMT_SDE_BGRA_1010102" "BA30"; Fourcc "V4L2_PIX_FMT_SDE_BGRX_1010102" "BX30";
  Fourcc "V4L2_PIX_FMT_SDE_ABGR_2101010" "RA30"; Fourcc "V4L2_PIX_FMT_SDE_XBGR_2101010" "RX30";
  Fourcc "V4L2_PIX_FMT_SDE_RGBA_1010102_UBWC" "QRBA";
  Fourcc "V4L2_PIX_FMT_SDE_RGBX_1010102_UBWC" "QXBA";
  Fourcc "V4L2_PIX_FMT_SDE_Y_CBCR_H2V2_TP10" "TP10";
  Fourcc "V4L2_PIX_FMT_SDE_Y_CBCR_H2V2_P010" "P010"].

(** Software defined radio. *)
Definition sdr_formats : list format := [
  Fourcc "V4L2_SDR_FMT_CU8" "CU08"; Fourcc "V4L2_SDR_FMT_CU16LE" "CU16";
  Fourcc "V4L2_SDR_FMT_CS8" "CS08"; Fourcc "V4L2_SDR_FMT_CS14LE" "CS14";
  Fourcc "V4L2_SDR_FMT_RU12LE" "RU12"].

(** [drm/drm_fourcc.h]. *)
Definition drm_formats : list format := [
  Fourcc "DRM_FORMAT_C8" "C8  "; Fourcc "DRM_FORMAT_R8" "R8  "; Fourcc "DRM_FORMAT_RG88" "RG88";
  Fourcc "DRM_FORMAT_GR88" "GR88"; Fourcc "DRM_FORMAT_RGB332" "RGB8";
  Fourcc "DRM_FORMAT_BGR233" "BGR8"; Fourcc "DRM_FORMAT_XRGB4444" "XR12";
  Fourcc "DRM_FORMAT_XBGR4444" "XB12"; Fourcc "DRM_FORMAT_RGBX4444" "RX12";
  Fourcc "DRM_FORMAT_BGRX4444" "BX12"; Fourcc "DRM_FORMAT_ARGB4444" "AR12";
  Fourcc "DRM_FORMAT_ABGR4444" "AB12"; Fourcc "DRM_FORMAT_RGBA4444" "RA12";
  Fourcc "DRM_FORMAT_BGRA4444" "BA12"; Fourcc "DRM_FORMAT_XRGB1555" "XR15";
  Fourcc "DRM_FORMAT_XBGR1555" "XB15"; Fourcc "DRM_FORMAT_RGBX5551" "RX15";
  Fourcc "DRM_FORMAT_BGRX5551" "BX15"; Fourcc "DRM_FORMAT_ARGB1555" "AR15";
  Fourcc "DRM_FORMAT_ABGR1555" "AB15"; Fourcc "DRM_FORMAT_RGBA5551" "RA15";
  Fourcc "DRM_FORMAT_BGRA5551" "BA15"; Fourcc "DRM_FORMAT_RGB565" "RG16";
  Fourcc "DRM_FORMAT_BGR565" "BG16"; Fourcc "DRM_FORMAT_RGB888" "RG24";
  Fourcc "DRM_FORMAT_BGR888" "BG24"; Fourcc "DRM_FORMAT_XRGB8888" "XR24";
  Fourcc "DRM_FORMAT_XBGR8888" "XB24"; Fourcc "DRM_FORMAT_RGBX8888" "RX24";
  Fourcc "DRM_FORMAT_BGRX8888" "BX24"; Fourcc "DRM_FORMAT_ARGB8888" "AR24";
  Fourcc "DRM_FORMAT_ABGR8888" "AB24"; Fourcc "DRM_FORMAT_RGBA8888" "RA24";
  Fourcc "DRM_FORMAT_BGRA8888" "BA24"; Fourcc "DRM_FORMAT_XRGB2101010" "XR30";
  Fourcc "DRM_FORMAT_XBGR2101010" "XB30"; Fourcc "DRM_FORMAT_RGBX1010102" "RX30";
  Fourcc "DRM_FORMAT_BGRX1010102" "BX30"; Fourcc "DRM_FORMAT_ARGB2101010" "AR30";
  Fourcc "DRM_FORMAT_ABGR2101010" "AB30"; Fourcc "DRM_FORMAT_RGBA1010102" "RA30";
  Fourcc "DRM_FORMAT_BGRA1010102" "BA30"; Fourcc "DRM_FORMAT_YUYV" "YUYV";
  Fourcc "DRM_FORMAT_YVYU" "YVYU"; Fourcc "DRM_FORMAT_UYVY" "UYVY";
  Fourcc "DRM_FORMAT_VYUY" "VYUY"; Fourcc "DRM_FORMAT_AYUV" "AYUV";
  Fourcc "DRM_FORMAT_NV12" "NV12"; Fourcc "DRM_FORMAT_NV21" "NV21";
  Fourcc "DRM_FORMAT_NV16" "NV16"; Fourcc "DRM_FORMAT_NV61" "NV61";
  Fourcc "DRM_FORMAT_NV24" "NV24"; Fourcc "DRM_FORMAT_NV42" "NV42";
  Fourcc "DRM_FORMAT_YUV410" "YUV9"; Fourcc "DRM_FORMAT_YVU410" "YVU9";
  Fourcc "DRM_FORMAT_YUV411" "YU11"; Fourcc "DRM_FORMAT_YVU411" "YV11";
  Fourcc "DRM_FORMAT_YUV420" "YU12"; Fourcc "DRM_FORMAT_YVU420" "YV12";
  Fourcc "DRM_FORMAT_YUV422" "YU16"; Fourcc "DRM_FORMAT_YVU422" "YV16";
  Fourcc "DRM_FORMAT_YUV444" "YU24"; Fourcc "DRM_FORMAT_YVU444" "YV24"].


Definition v4l2_formats : list format :=
  rgb_formats ++ yuv_formats ++ bayer_formats ++ compressed_formats ++ vendor_formats ++
  sde_formats ++ sdr_formats.

(** ** Field orders *)

Abbreviation V4L2_FIELD_ANY := 0.
Abbreviation V4L2_FIELD_NONE := 1.
Abbreviation V4L2_FIELD_TOP := 2.
Abbreviation V4L2_FIELD_BOTTOM := 3.
Abbreviation V4L2_FIELD_INTERLACED := 4.
Abbreviation V4L2_FIELD_SEQ_TB := 5.
Abbreviation V4L2_FIELD_SEQ_BT := 6.
Abbreviation V4L2_FIELD_ALTERNATE := 7.
Abbreviation V4L2_FIELD_INTERLACED_TB := 8.
Abbreviation V4L2_FIELD_INTERLACED_BT := 9.

Definition V4L2_FIELD_HAS_TOP (field : Z) : bool :=
  (field =? V4L2_FIELD_TOP) || (field =? V4L2_FIELD_INTERLACED) ||
  (field =? V4L2_FIELD_INTERLACED_TB) || (field =? V4L2_FIELD_INTERLACED_BT) ||
  (field =? V4L2_FIELD_SEQ_TB) || (field =? V4L2_FIELD_SEQ_BT).
Definition V4L2_FIELD_HAS_BOTTOM (field : Z) : bool :=
  (field =? V4L2_FIELD_BOTTOM) || (field =? V4L2_FIELD_INTERLACED) ||
  (field =? V4L2_FIELD_INTERLACED_TB) || (field =? V4L2_FIELD_INTERLACED_BT) ||
  (field =? V4L2_FIELD_SEQ_TB) || (field =? V4L2_FIELD_SEQ_BT).
Definition V4L2_FIELD_HAS_BOTH (field : Z) : bool :=
  (field =? V4L2_FIELD_INTERLACED) || (field =? V4L2_FIELD_INTERLACED_TB) ||
  (field =? V4L2_FIELD_INTERLACED_BT) || (field =? V4L2_FIELD_SEQ_TB) ||
  (field =? V4L2_FIELD_SEQ_BT).
Definition V4L2_FIELD_HAS_T_OR_B (field : Z) : bool :=
  (field =? V4L2_FIELD_BOTTOM) || (field =? V4L2_FIELD_TOP) || (field =? V4L2_FIELD_ALTERNATE).

(** ** Color spaces *)

Abbreviation V4L2_COLORSPACE_DEFAULT := 0.
Abbreviation V4L2_COLORSPACE_SMPTE170M := 1.
Abbreviation V4L2_COLORSPACE_SMPTE240M := 2.
Abbreviation V4L2_COLORSPACE_REC709 := 3.
Abbreviation V4L2_COLORSPACE_BT878 := 4.
Abbreviation V4L2_COLORSPACE_470_SYSTEM_M := 5.
Abbreviation V4L2_COLORSPACE_470_SYSTEM_BG := 6.
Abbreviation V4L2_COLORSPACE_JPEG := 7.
Abbreviation V4L2_COLORSPACE_SRGB := 8.
Abbreviation V4L2_COLORSPACE_ADOBERGB := 9.
Abbreviation V4L2_COLORSPACE_BT2020 := 10.
Abbreviation V4L2_COLORSPACE_RAW := 11.
Abbreviation V4L2_COLORSPACE_DCI_P3 := 12.
Abbreviation V4L2_XFER_FUNC_709 := 1.
Abbreviation V4L2_XFER_FUNC_SRGB := 2.
Abbreviation V4L2_XFER_FUNC_ADOBERGB := 3.
Abbreviation V4L2_XFER_FUNC_SMPTE240M := 4.
Abbreviation V4L2_XFER_FUNC_NONE := 5.
Abbreviation V4L2_XFER_FUNC_DCI_P3 := 6.
Abbreviation V4L2_YCBCR_ENC_601 := 1.
Abbreviation V4L2_YCBCR_ENC_709 := 2.
Abbreviation V4L2_YCBCR_ENC_XV601 := 3.
Abbreviation V4L2_YCBCR_ENC_XV709 := 4.
Abbreviation V4L2_YCBCR_ENC_SYCC := 5.
Abbreviation V4L2_YCBCR_ENC_BT2020 := 6.
Abbreviation V4L2_YCBCR_ENC_SMPTE240M := 8.
Abbreviation V4L2_QUANTIZATION_FULL_RANGE := 1.
Abbreviation V4L2_QUANTIZATION_LIM_RANGE := 2.

Definition truth (x : Z) : bool := negb (x =? 0).

Definition V4L2_MAP_COLORSPACE_DEFAULT (is_sdtv is_hdtv : Z) : Z :=
  if truth is_sdtv then V4L2_COLORSPACE_SMPTE170M
  else if truth is_hdtv then V4L2_COLORSPACE_REC709 else V4L2_COLORSPACE_SRGB.

Definition V4L2_MAP_XFER_FUNC_DEFAULT (colsp : Z) : Z :=
  if colsp =? V4L2_COLORSPACE_ADOBERGB then V4L2_XFER_FUNC_ADOBERGB
  else if colsp =? V4L2_COLORSPACE_SMPTE240M then V4L2_XFER_FUNC_SMPTE240M
  else if colsp =? V4L2_COLORSPACE_DCI_P3 then V4L2_XFER_FUNC_DCI_P3
  else if colsp =? V4L2_COLORSPACE_RAW then V4L2_XFER_FUNC_NONE
  else if (colsp =? V4L2_COLORSPACE_SRGB) || (colsp =? V4L2_COLORSPACE_JPEG)
       then V4L2_XFER_FUNC_SRGB else V4L2_XFER_FUNC_709.

Definition V4L2_MAP_YCBCR_ENC_DEFAULT (colsp : Z) : Z :=
  if (colsp =? V4L2_COLORSPACE_REC709) || (colsp =? V4L2_COLORSPACE_DCI_P3) then V4L2_YCBCR_ENC_709
  else if colsp =? V4L2_COLORSPACE_BT2020 then V4L2_YCBCR_ENC_BT2020
  else if colsp =? V4L2_COLORSPACE_SMPTE240M then V4L2_YCBCR_ENC_SMPTE240M
  else V4L2_YCBCR_ENC_601.

Definition V4L2_MAP_QUANTIZATION_DEFAULT (is_rgb colsp ycbcr_enc : Z) : Z :=
  if truth is_rgb && (colsp =? V4L2_COLORSPACE_BT2020) then V4L2_QUANTIZATION_LIM_RANGE
  else if truth is_rgb || (ycbcr_enc =? V4L2_YCBCR_ENC_XV601) ||
          (ycbcr_enc =? V4L2_YCBCR_ENC_XV709) || (colsp =? V4L2_COLORSPACE_JPEG)
       then V4L2_QUANTIZATION_FULL_RANGE else V4L2_QUANTIZATION_LIM_RANGE.

(** What the comments of the enumerations say; [None] where they say nothing. *)
Definition documented_xfer (colsp : Z) : option Z :=
  if decide (colsp ∈ [V4L2_COLORSPACE_SMPTE170M; V4L2_COLORSPACE_470_SYSTEM_M;
                      V4L2_COLORSPACE_470_SYSTEM_BG; V4L2_COLORSPACE_REC709;
                      V4L2_COLORSPACE_BT2020]) then Some V4L2_XFER_FUNC_709
  else if decide (colsp ∈ [V4L2_COLORSPACE_SRGB; V4L2_COLORSPACE_JPEG]) then Some V4L2_XFER_FUNC_SRGB
  else if decide (colsp = V4L2_COLORSPACE_ADOBERGB) then Some V4L2_XFER_FUNC_ADOBERGB
  else if decide (colsp = V4L2_COLORSPACE_SMPTE240M) then Some V4L2_XFER_FUNC_SMPTE240M
  else if decide (colsp = V4L2_COLORSPACE_RAW) then Some V4L2_XFER_FUNC_NONE
  else if decide (colsp = V4L2_COLORSPACE_DCI_P3) then Some V4L2_XFER_FUNC_DCI_P3
  else None.

Definition documented_encoding (colsp : Z) : option Z :=
  if decide (colsp ∈ [V4L2_COLORSPACE_SMPTE170M; V4L2_COLORSPACE_470_SYSTEM_M;
                      V4L2_COLORSPACE_470_SYSTEM_BG; V4L2_COLORSPACE_ADOBERGB;
                      V4L2_COLORSPACE_JPEG]) then Some V4L2_YCBCR_ENC_601
  else if decide (colsp ∈ [V4L2_COLORSPACE_REC709; V4L2_COLORSPACE_DCI_P3]) then Some V4L2_YCBCR_ENC_709
  else if decide (colsp = V4L2_COLORSPACE_SRGB) then Some V4L2_YCBCR_ENC_SYCC
  else if decide (colsp = V4L2_COLORSPACE_BT2020) then Some V4L2_YCBCR_ENC_BT2020
  else if decide (colsp = V4L2_COLORSPACE_SMPTE240M) then Some V4L2_YCBCR_ENC_SMPTE240M
  else None.

Definition documented_quantization (is_rgb : bool) (colsp ycbcr_enc : Z) : Z :=
  if is_rgb then
    if decide (colsp = V4L2_COLORSPACE_BT2020) then V4L2_QUANTIZATION_LIM_RANGE
    else V4L2_QUANTIZATION_FULL_RANGE
  else if decide (colsp = V4L2_COLORSPACE_JPEG \/
                  ycbcr_enc ∈ [V4L2_YCBCR_ENC_SYCC; V4L2_YCBCR_ENC_XV601; V4L2_YCBCR_ENC_XV709])
       then V4L2_QUANTIZATION_FULL_RANGE else V4L2_QUANTIZATION_LIM_RANGE.

(** ** Standards, a set of bits *)

Abbreviation V4L2_STD_PAL_B := (u64 0x00000001).
Abbreviation V4L2_STD_PAL_B1 := (u64 0x00000002).
Abbreviation V4L2_STD_PAL_G := (u64 0x00000004).
Abbreviation V4L2_STD_PAL_H := (u64 0x00000008).
Abbreviation V4L2_STD_PAL_I := (u64 0x00000010).
Abbreviation V4L2_STD_PAL_D := (u64 0x00000020).
Abbreviation V4L2_STD_PAL_D1 := (u64 0x00000040).
Abbreviation V4L2_STD_PAL_K := (u64 0x00000080).
Abbreviation V4L2_STD_PAL_M := (u64 0x00000100).
Abbreviation V4L2_STD_PAL_N := (u64 0x00000200).
Abbreviation V4L2_STD_PAL_Nc := (u64 0x00000400).
Abbreviation V4L2_STD_PAL_60 := (u64 0x00000800).
Abbreviation V4L2_STD_NTSC_M := (u64 0x00001000).
Abbreviation V4L2_STD_NTSC_M_JP := (u64 0x00002000).
Abbreviation V4L2_STD_NTSC_443 := (u64 0x00004000).
Abbreviation V4L2_STD_NTSC_M_KR := (u64 0x00008000).
Abbreviation V4L2_STD_SECAM_B := (u64 0x00010000).
Abbreviation V4L2_STD_SECAM_D := (u64 0x00020000).
Abbreviation V4L2_STD_SECAM_G := (u64 0x00040000).
Abbreviation V4L2_STD_SECAM_H := (u64 0x00080000).
Abbreviation V4L2_STD_SECAM_K := (u64 0x00100000).
Abbreviation V4L2_STD_SECAM_K1 := (u64 0x00200000).
Abbreviation V4L2_STD_SECAM_L := (u64 0x00400000).
Abbreviation V4L2_STD_SECAM_LC := (u64 0x00800000).
Abbreviation V4L2_STD_ATSC_8_VSB := (u64 0x01000000).
Abbreviation V4L2_STD_ATSC_16_VSB := (u64 0x02000000).
Definition V4L2_STD_NTSC : Z := V4L2_STD_NTSC_M ||| V4L2_STD_NTSC_M_JP ||| V4L2_STD_NTSC_M_KR.
Definition V4L2_STD_SECAM_DK : Z := V4L2_STD_SECAM_D ||| V4L2_STD_SECAM_K ||| V4L2_STD_SECAM_K1.
Definition V4L2_STD_SECAM : Z :=
  V4L2_STD_SECAM_B ||| V4L2_STD_SECAM_G ||| V4L2_STD_SECAM_H ||| V4L2_STD_SECAM_DK |||
  V4L2_STD_SECAM_L ||| V4L2_STD_SECAM_LC.
Definition V4L2_STD_PAL_BG : Z := V4L2_STD_PAL_B ||| V4L2_STD_PAL_B1 ||| V4L2_STD_PAL_G.
Definition V4L2_STD_PAL_DK : Z := V4L2_STD_PAL_D ||| V4L2_STD_PAL_D1 ||| V4L2_STD_PAL_K.
Definition V4L2_STD_PAL : Z :=
  V4L2_STD_PAL_BG ||| V4L2_STD_PAL_DK ||| V4L2_STD_PAL_H ||| V4L2_STD_PAL_I.
Definition V4L2_STD_B : Z := V4L2_STD_PAL_B ||| V4L2_STD_PAL_B1 ||| V4L2_STD_SECAM_B.
Definition V4L2_STD_G : Z := V4L2_STD_PAL_G ||| V4L2_STD_SECAM_G.
Definition V4L2_STD_H : Z := V4L2_STD_PAL_H ||| V4L2_STD_SECAM_H.
Definition V4L2_STD_L : Z := V4L2_STD_SECAM_L ||| V4L2_STD_SECAM_LC.
Definition V4L2_STD_GH : Z := V4L2_STD_G ||| V4L2_STD_H.
Definition V4L2_STD_DK : Z := V4L2_STD_PAL_DK ||| V4L2_STD_SECAM_DK.
Definition V4L2_STD_BG : Z := V4L2_STD_B ||| V4L2_STD_G.
Definition V4L2_STD_MN : Z :=
  V4L2_STD_PAL_M ||| V4L2_STD_PAL_N ||| V4L2_STD_PAL_Nc ||| V4L2_STD_NTSC.
Definition V4L2_STD_MTS : Z :=
  V4L2_STD_NTSC_M ||| V4L2_STD_PAL_M ||| V4L2_STD_PAL_N ||| V4L2_STD_PAL_Nc.
Definition V4L2_STD_525_60 : Z :=
  V4L2_STD_PAL_M ||| V4L2_STD_PAL_60 ||| V4L2_STD_NTSC ||| V4L2_STD_NTSC_443.
Definition V4L2_STD_625_50 : Z :=
  V4L2_STD_PAL ||| V4L2_STD_PAL_N ||| V4L2_STD_PAL_Nc ||| V4L2_STD_SECAM.
Definition V4L2_STD_ATSC : Z := V4L2_STD_ATSC_8_VSB ||| V4L2_STD_ATSC_16_VSB.
Definition V4L2_STD_UNKNOWN : Z := 0.
Definition V4L2_STD_ALL : Z := V4L2_STD_525_60 ||| V4L2_STD_625_50.

Definition standards : list (string * Z) := [
  ("PAL_B", V4L2_STD_PAL_B); ("PAL_B1", V4L2_STD_PAL_B1); ("PAL_G", V4L2_STD_PAL_G);
  ("PAL_H", V4L2_STD_PAL_H); ("PAL_I", V4L2_STD_PAL_I); ("PAL_D", V4L2_STD_PAL_D);
  ("PAL_D1", V4L2_STD_PAL_D1); ("PAL_K", V4L2_STD_PAL_K); ("PAL_M", V4L2_STD_PAL_M);
  ("PAL_N", V4L2_STD_PAL_N); ("PAL_Nc", V4L2_STD_PAL_Nc); ("PAL_60", V4L2_STD_PAL_60);
  ("NTSC_M", V4L2_STD_NTSC_M); ("NTSC_M_JP", V4L2_STD_NTSC_M_JP);
  ("NTSC_443", V4L2_STD_NTSC_443); ("NTSC_M_KR", V4L2_STD_NTSC_M_KR);
  ("SECAM_B", V4L2_STD_SECAM_B); ("SECAM_D", V4L2_STD_SECAM_D); ("SECAM_G", V4L2_STD_SECAM_G);
  ("SECAM_H", V4L2_STD_SECAM_H); ("SECAM_K", V4L2_STD_SECAM_K); ("SECAM_K1", V4L2_STD_SECAM_K1);
  ("SECAM_L", V4L2_STD_SECAM_L); ("SECAM_LC", V4L2_STD_SECAM_LC);
  ("ATSC_8_VSB", V4L2_STD_ATSC_8_VSB); ("ATSC_16_VSB", V4L2_STD_ATSC_16_VSB)].

(** ** The constants, as the header declares them *)

Definition enumerators : list (string * Z) := [
  ("V4L2_FIELD_ANY", V4L2_FIELD_ANY); ("V4L2_FIELD_NONE", V4L2_FIELD_NONE);
  ("V4L2_FIELD_TOP", V4L2_FIELD_TOP); ("V4L2_FIELD_BOTTOM", V4L2_FIELD_BOTTOM);
  ("V4L2_FIELD_INTERLACED", V4L2_FIELD_INTERLACED); ("V4L2_FIELD_SEQ_TB", V4L2_FIELD_SEQ_TB);
  ("V4L2_FIELD_SEQ_BT", V4L2_FIELD_SEQ_BT); ("V4L2_FIELD_ALTERNATE", V4L2_FIELD_ALTERNATE);
  ("V4L2_FIELD_INTERLACED_TB", V4L2_FIELD_INTERLACED_TB);
  ("V4L2_FIELD_INTERLACED_BT", V4L2_FIELD_INTERLACED_BT);
  ("V4L2_COLORSPACE_DEFAULT", V4L2_COLORSPACE_DEFAULT);
  ("V4L2_COLORSPACE_SMPTE170M", V4L2_COLORSPACE_SMPTE170M);
  ("V4L2_COLORSPACE_SMPTE240M", V4L2_COLORSPACE_SMPTE240M);
  ("V4L2_COLORSPACE_REC709", V4L2_COLORSPACE_REC709);
  ("V4L2_COLORSPACE_BT878", V4L2_COLORSPACE_BT878);
  ("V4L2_COLORSPACE_470_SYSTEM_M", V4L2_COLORSPACE_470_SYSTEM_M);
  ("V4L2_COLORSPACE_470_SYSTEM_BG", V4L2_COLORSPACE_470_SYSTEM_BG);
  ("V4L2_COLORSPACE_JPEG", V4L2_COLORSPACE_JPEG); ("V4L2_COLORSPACE_SRGB", V4L2_COLORSPACE_SRGB);
  ("V4L2_COLORSPACE_ADOBERGB", V4L2_COLORSPACE_ADOBERGB);
  ("V4L2_COLORSPACE_BT2020", V4L2_COLORSPACE_BT2020); ("V4L2_COLORSPACE_RAW", V4L2_COLORSPACE_RAW);
  ("V4L2_COLORSPACE_DCI_P3", V4L2_COLORSPACE_DCI_P3); ("V4L2_XFER_FUNC_709", V4L2_XFER_FUNC_709);
  ("V4L2_XFER_FUNC_SRGB", V4L2_XFER_FUNC_SRGB); ("V4L2_XFER_FUNC_ADOBERGB", V4L2_XFER_FUNC_ADOBERGB);
  ("V4L2_XFER_FUNC_SMPTE240M", V4L2_XFER_FUNC_SMPTE240M); ("V4L2_XFER_FUNC_NONE", V4L2_XFER_FUNC_NONE);
  ("V4L2_XFER_FUNC_DCI_P3", V4L2_XFER_FUNC_DCI_P3); ("V4L2_YCBCR_ENC_601", V4L2_YCBCR_ENC_601);
  ("V4L2_YCBCR_ENC_709", V4L2_YCBCR_ENC_709); ("V4L2_YCBCR_ENC_XV601", V4L2_YCBCR_ENC_XV601);
  ("V4L2_YCBCR_ENC_XV709", V4L2_YCBCR_ENC_XV709); ("V4L2_YCBCR_ENC_SYCC", V4L2_YCBCR_ENC_SYCC);
  ("V4L2_YCBCR_ENC_BT2020", V4L2_YCBCR_ENC_BT2020);
  ("V4L2_YCBCR_ENC_SMPTE240M", V4L2_YCBCR_ENC_SMPTE240M);
  ("V4L2_QUANTIZATION_FULL_RANGE", V4L2_QUANTIZATION_FULL_RANGE);
  ("V4L2_QUANTIZATION_LIM_RANGE", V4L2_QUANTIZATION_LIM_RANGE)].

Lemma constants_agree :
  Forall (fun x => assoc x.1 (values lp64 ConstBase.Videodev2.header) = Some x.2) enumerators.
Proof. apply (bool_decide_unpack _). vm_cast_no_check I. Qed.

(** ** The codes *)

(** The characters read back from a code, and its big-endian mark. *)
Definition read_chars (x : Z) : list Z := [u8 x; u8 (x ≫ 8); u8 (x ≫ 16); x ≫ 24 &&& 0x7f].
Definition read_be (x : Z) : bool := Z.testbit x 31.

Definition ascii7 (c : Z) : Prop := 0 <= c < 128.
#[export] Instance ascii7_dec c : Decision (ascii7 c).
Proof. unfold ascii7. apply _. Defined.

Section codes.
Context (a b c d : Z) (Ha : ascii7 a) (Hb : ascii7 b) (Hc : ascii7 c) (Hd : ascii7 d).
#[local] Ltac bounds := unfold ascii7, in_word in *; rewrite ?shiftl_mul by lia; lia.

Lemma fourcc_sum : v4l2_fourcc a b c d = a + 256 * (b + 256 * (c + 256 * d)).
Proof.
  unfold v4l2_fourcc. rewrite !(wrap_small 32 a), !(wrap_small 32 b), !(wrap_small 32 c),
    !(wrap_small 32 d) by bounds. rewrite !wrap_small by bounds.
  rewrite (Z.lor_comm a), (lor_disjoint b a 8) by bounds.
  rewrite (Z.lor_comm _ (c ≪ 16)), (lor_disjoint c _ 16) by bounds.
  rewrite (Z.lor_comm _ (d ≪ 24)), (lor_disjoint d _ 24) by bounds. lia.
Qed.

Lemma fourcc_be_sum : v4l2_fourcc_be a b c d = 2 ^ 31 + v4l2_fourcc a b c d.
Proof.
  unfold v4l2_fourcc_be. change (u32 (s32 (1 ≪ 31))) with (1 ≪ 31).
  rewrite fourcc_sum, Z.lor_comm, (lor_disjoint 1 _ 31) by bounds. lia.
Qed.

Lemma read_sum (e : bool) :
  let x := a + 256 * (b + 256 * (c + 256 * (d + if e then 128 else 0))) in
  read_chars x = [a; b; c; d] /\ read_be x = e /\ is_u32 x.
Proof.
  intros x. unfold ascii7 in *.
  assert (Hr : is_u32 x) by (unfold x, in_word; destruct e; lia). split_and!; [| |done].
  - unfold read_chars, wrap. rewrite land_0x7f, !shiftr_div by lia.
    repeat f_equal; unfold x; destruct e; Z.to_euclidean_division_equations; lia.
  - unfold read_be. apply Z.b2z_inj. rewrite Z.testbit_spec' by lia. unfold x.
    destruct e; cbn [Z.b2z]; Z.to_euclidean_division_equations; lia.
Qed.
End codes.

(** A code says which characters it was made of, and whether with the big-endian
    mark. *)
Lemma code_read f x : Forall ascii7 (chars_of f) -> code f = Some x ->
  read_chars x = chars_of f /\ read_be x = is_be f /\ is_u32 x.
Proof.
  unfold code. destruct (chars_of f) as [|a [|b [|c [|d [|]]]]]; try done.
  rewrite !Forall_cons. intros (Ha & Hb & Hc & Hd & _) [= <-].
  pose proof (read_sum a b c d Ha Hb Hc Hd (is_be f)) as Hs. cbv zeta in Hs.
  destruct (is_be f); rewrite ?fourcc_be_sum, fourcc_sum by done.
  - by replace (2 ^ 31 + _) with (a + 256 * (b + 256 * (c + 256 * (d + 128)))) by lia.
  - by rewrite Z.add_0_r in Hs.
Qed.

(** The two formats of [linux/videodev2.h] that have one code. *)
Definition twins : list (string * string) := [
  ("V4L2_PIX_FMT_SBGGRPLAIN16", "V4L2_PIX_FMT_SDE_BGR_565");
  ("V4L2_PIX_FMT_SDE_BGR_565", "V4L2_PIX_FMT_SBGGRPLAIN16")].

Definition readable (f : format) : bool :=
  bool_decide (Forall ascii7 (chars_of f)) && (length (chars_of f) =? 4)%nat.
Definition distinct (fs : list format) : bool :=
  forallb (fun f => forallb (fun g =>
    eqb (bool_decide (is_be f = is_be g /\ chars_of f = chars_of g))
        (bool_decide (f = g) || bool_decide ((name_of f, name_of g) ∈ twins))) fs) fs.

Lemma formats_checked : forallb (fun fs => forallb readable fs && distinct fs) [v4l2_formats; drm_formats] = true.
Proof. vm_cast_no_check (eq_refl true). Qed.

(** C18 Every pixel format of the two headers has a 32-bit code from which its four
    characters and its byte order are read back, and two formats of a header have
    one code only if they are the same, but for the plain 16-bit Bayer pattern and
    the display engine's BGR 5:6:5. *)
Theorem formats_identified (fs : list format) (f g : format) :
  fs ∈ [v4l2_formats; drm_formats] -> f ∈ fs -> g ∈ fs ->
  exists x, code f = Some x /\ is_u32 x /\ read_chars x = chars_of f /\ read_be x = is_be f /\
    (code g = Some x <-> f = g \/ (name_of f, name_of g) ∈ twins).
Proof.
  intros Hfs Hf%list_elem_of_In Hg%list_elem_of_In. pose proof formats_checked as H.
  rewrite forallb_forall in H. specialize (H fs (proj1 (list_elem_of_In _ _) Hfs)).
  apply andb_true_iff in H as [Hr Hd]. unfold distinct in Hd. rewrite forallb_forall in Hr, Hd.
  specialize (Hd f Hf). rewrite forallb_forall in Hd. specialize (Hd g Hg).
  assert (Hcode : forall k, In k fs -> exists y, code k = Some y /\
            read_chars y = chars_of k /\ read_be y = is_be k /\ is_u32 y).
  { intros k [Hk Hl]%Hr%andb_true_iff. apply bool_decide_eq_true in Hk.
    destruct (code k) as [y|] eqn:E; [exists y; split; [done|by apply code_read]|].
    unfold code in E. by destruct (chars_of k) as [|? [|? [|? [|? [|]]]]]. }
  destruct (Hcode f Hf) as (x & Hx & Hc & Hb & Hu), (Hcode g Hg) as (y & Hy & Hc' & Hb' & _).
  exists x. split_and!; [done..|]. apply Bool.eqb_prop in Hd.
  transitivity (is_be f = is_be g /\ chars_of f = chars_of g).
  - rewrite Hy. split; [intros [= ->]; by rewrite <- Hb, <- Hb', <- Hc, <- Hc'|].
    intros [He Hch]. unfold code in Hx, Hy. rewrite <- Hch, <- He, Hx in Hy. congruence.
  - rewrite <- (bool_decide_eq_true (is_be f = is_be g /\ _)), Hd, orb_true_iff, !bool_decide_eq_true. done.
Qed.

Lemma formats_identified_witness :
  exists x, code (Fourcc "V4L2_PIX_FMT_NV12" "NV12") = Some x /\ is_u32 x /\
    read_chars x = [78; 86; 49; 50] /\ read_be x = false /\
    (code (Fourcc "V4L2_PIX_FMT_NV21" "NV21") = Some x <->
     Fourcc "V4L2_PIX_FMT_NV12" "NV12" = Fourcc "V4L2_PIX_FMT_NV21" "NV21" \/
     ("V4L2_PIX_FMT_NV12", "V4L2_PIX_FMT_NV21") ∈ twins).
Proof.
  apply (formats_identified v4l2_formats); apply (bool_decide_unpack _); by vm_compute.
Defined.

(** A modifier keeps its vendor and 56 bits of its value. *)
Lemma modifier_read vendor val : is_u8 vendor -> is_u64 val ->
  fourcc_mod_code vendor val ≫ 56 = vendor /\
  fourcc_mod_code vendor val &&& 0x00ffffffffffffff = val mod 2 ^ 56.
Proof.
  intros Hv Hval. unfold fourcc_mod_code. change 0x00ffffffffffffff with (2 ^ 56 - 1).
  rewrite (wrap_small 64 vendor), (wrap_small 64 val), (land_mask val) by (unfold in_word in *; lia).
  rewrite wrap_small by (unfold in_word in *; rewrite shiftl_mul by lia; lia).
  rewrite (lor_disjoint vendor _ 56), shiftr_div, land_mask by (try apply Z.mod_pos_bound; lia).
  split; Z.to_euclidean_division_equations; lia.
Qed.

(** ** Fields *)

(** A picture has both fields exactly if it has a top and a bottom field; those
    that carry a single one or alternate are other orders. *)
Lemma field_orders (f : Z) :
  V4L2_FIELD_HAS_BOTH f = V4L2_FIELD_HAS_TOP f && V4L2_FIELD_HAS_BOTTOM f /\
  (V4L2_FIELD_HAS_T_OR_B f = true ->
   V4L2_FIELD_HAS_BOTH f = false /\
   (f <> V4L2_FIELD_ALTERNATE -> V4L2_FIELD_HAS_TOP f = negb (V4L2_FIELD_HAS_BOTTOM f))).
Proof.
  unfold V4L2_FIELD_HAS_BOTH, V4L2_FIELD_HAS_TOP, V4L2_FIELD_HAS_BOTTOM, V4L2_FIELD_HAS_T_OR_B.
  repeat destruct (f =? _) eqn:?E in |- *; split; try done; lia.
Qed.

(** ** Defaults of a color space *)

#[local] Ltac spaces :=
  repeat case_decide; set_unfold;
  repeat match goal with |- context [(?x =? ?y)%Z] => destruct (Z.eqb_spec x y) end;
  cbn [negb andb orb] in *; intros; simplify_eq; try done; lia.

(** C19 For every color space the macros choose the transfer function, the encoding
    and the quantization that the comments of the enumerations document, except
    that the encoding of sRGB is BT.601 and not sYCC, and that sYCC is not full
    range. *)
Theorem defaults_documented (colsp enc : Z) (is_rgb : bool) :
  (forall x, documented_xfer colsp = Some x -> V4L2_MAP_XFER_FUNC_DEFAULT colsp = x) /\
  (forall x, documented_encoding colsp = Some x ->
   (V4L2_MAP_YCBCR_ENC_DEFAULT colsp = x <-> colsp <> V4L2_COLORSPACE_SRGB)) /\
  (V4L2_MAP_QUANTIZATION_DEFAULT (Z.b2z is_rgb) colsp enc = documented_quantization is_rgb colsp enc <->
   is_rgb = true \/ enc <> V4L2_YCBCR_ENC_SYCC \/ colsp = V4L2_COLORSPACE_JPEG).
Proof.
  split_and!.
  - intros x. unfold documented_xfer, V4L2_MAP_XFER_FUNC_DEFAULT. spaces.
  - intros x. unfold documented_encoding, V4L2_MAP_YCBCR_ENC_DEFAULT. spaces.
  - unfold V4L2_MAP_QUANTIZATION_DEFAULT, documented_quantization, truth. destruct is_rgb; cbn [Z.b2z Z.eqb negb andb orb].
    + split; [by left|intros _]. spaces.
    + transitivity (enc <> V4L2_YCBCR_ENC_SYCC \/ colsp = V4L2_COLORSPACE_JPEG); [spaces|].
      split; [by right|by intros [?|?]].
Qed.

(** ** Standards *)

Definition known : Z := 2 ^ 26 - 1.

(** Every standard is one bit and is of one kind: 525 lines at 60 Hz, 625 lines at
    50 Hz or digital. *)
Lemma standards_are_bits : Forall (fun x => exists i, (i < 26)%nat /\ x.2 = 1 ≪ Z.of_nat i) standards.
Proof.
  apply Forall_forall. intros x Hx.
  assert (H : forallb (fun x => existsb (fun i => x.2 =? 1 ≪ Z.of_nat i) (seq 0 26)) standards = true) by by vm_compute.
  rewrite forallb_forall in H. apply list_elem_of_In, H, existsb_exists in Hx as (i & Hi%in_seq & E%Z.eqb_eq).
  exists i. split; [lia|done].
Qed.

(** A set of known standards is divided by the three kinds: what it holds of each
    makes it up, and nothing is counted twice. *)
Lemma standards_divided (x : Z) : 0 <= x -> x &&& Z.lnot known = 0 ->
  x = (x &&& V4L2_STD_525_60) ||| (x &&& V4L2_STD_625_50) ||| (x &&& V4L2_STD_ATSC) /\
  x &&& V4L2_STD_ALL = (x &&& V4L2_STD_525_60) ||| (x &&& V4L2_STD_625_50) /\
  V4L2_STD_525_60 &&& V4L2_STD_625_50 = 0 /\ V4L2_STD_ALL &&& V4L2_STD_ATSC = 0.
Proof.
  intros Hx Hk. rewrite <- !Z.land_lor_distr_r.
  assert (V4L2_STD_525_60 ||| V4L2_STD_625_50 = V4L2_STD_ALL) as -> by by vm_compute.
  assert (V4L2_STD_ALL ||| V4L2_STD_ATSC = known) as -> by by vm_compute.
  split_and!; [|done|by vm_compute..].
  rewrite <- (Z.lor_0_r (x &&& known)), <- Hk, <- Z.land_lor_distr_r, Z.lor_lnot_diag.
  by rewrite Z.land_m1_r.
Qed.

(** The sets that name a color system or a sound system hold its standards. *)
Lemma standards_grouped :
  V4L2_STD_NTSC ||| V4L2_STD_NTSC_443 ||| V4L2_STD_PAL_M ||| V4L2_STD_PAL_60 = V4L2_STD_525_60 /\
  V4L2_STD_B ||| V4L2_STD_G ||| V4L2_STD_H ||| V4L2_STD_PAL_I ||| V4L2_STD_DK ||| V4L2_STD_L
  ||| V4L2_STD_PAL_N ||| V4L2_STD_PAL_Nc = V4L2_STD_625_50 /\
  V4L2_STD_GH = V4L2_STD_G ||| V4L2_STD_H /\ V4L2_STD_BG = V4L2_STD_B ||| V4L2_STD_G /\
  V4L2_STD_MTS &&& V4L2_STD_MN = V4L2_STD_MTS /\
  V4L2_STD_PAL &&& V4L2_STD_SECAM = 0 /\ V4L2_STD_MN &&& (V4L2_STD_PAL ||| V4L2_STD_SECAM) = V4L2_STD_UNKNOWN.
Proof. by vm_compute. Qed.
