(* ===== verification/LightDaemon.v ===== *)
(** * The light daemon

    [native_packages/custom_light/main.cpp]: reads the setting of the notification
    LED from four system properties and writes it to the files of the LED driver.
    The property service is a parameter, and so is which files open; what is
    done to the files is recorded. Buffers are arrays of bytes with checked
    accesses; [malloc] is taken to succeed. *)
From S2P Require Import Prelude.
From S2P Require Import Text.

(** ** The properties *)

Definition PROP_VALUE_MAX : nat := 92.

Definition prop_value (v : list Z) : Prop := Forall (fun c => c <> 0) v /\ (length v < PROP_VALUE_MAX)%nat.
#[export] Instance prop_value_dec v : Decision (prop_value v).
Proof. unfold prop_value. apply _. Defined.

(** [__system_property_get]: stores the value and a NUL; a property that is not
    set has the empty value. *)
Definition property_get (getprop : string -> list Z) (name : string) (buf : list Z) : option (list Z) :=
  let v := getprop name ++ [0] in memcpy buf 0 v (length v).

(** ** Tokens *)

Definition del : Z := 45.

Fixpoint skip_del (s : list Z) : list Z :=
  match s with
  | c :: s' => if decide (c = del) then skip_del s' else s
  | [] => []
  end.

(** The characters up to the delimiter or NUL that ends a token, and what is
    behind it: at the NUL the next call stays there. *)
Fixpoint token_end (s : list Z) : option (list Z * list Z) :=
  match s with
  | [] => None
  | c :: s' =>
    if decide (c = 0) then Some ([], s)
    else if decide (c = del) then Some ([], s')
    else x ← token_end s'; Some (c :: x.1, x.2)
  end.

(** [strtok] on what is left of the buffer: the token and the new rest, or
    [NULL]. A region without a NUL is a fault. *)
Definition strtok (s : list Z) : option (option (list Z * list Z)) :=
  let s := skip_del s in
  c ← head s;
  if decide (c = 0) then Some None else x ← token_end s; Some (Some x).

(** An array of pointers; [None] is one that is not initialised. *)
Abbreviation config := (list (option (list Z))).
Definition config_init : config := replicate 20 None.

(** The loop over the tokens: a copy of each in the next element. *)
Fixpoint token_loop (fuel : nat) (s : list Z) (iCurName : nat) (cfg : config) : option config :=
  match fuel with
  | O => None
  | S fuel =>
    t ← strtok s;
    match t with
    | None => Some cfg
    | Some (token, s) =>
      if decide (iCurName < length cfg)%nat then token_loop fuel s (S iCurName) (<[iCurName := Some token]> cfg)
      else None
    end
  end.

Definition split (light : list Z) : option config := token_loop (S (length light)) light 0 config_init.

(** ** Files *)

Definition kRedLedPath : string := "/sys/class/leds/red/brightness".
Definition kGreenLedPath : string := "/sys/class/leds/green/brightness".
Definition kBlueLedPath : string := "/sys/class/leds/blue/brightness".
Definition kRedDutyPctsPath : string := "/sys/class/leds/red/duty_pcts".
Definition kGreenDutyPctsPath : string := "/sys/class/leds/green/duty_pcts".
Definition kBlueDutyPctsPath : string := "/sys/class/leds/blue/duty_pcts".
Definition kRedStartIdxPath : string := "/sys/class/leds/red/start_idx".
Definition kGreenStartIdxPath : string := "/sys/class/leds/green/start_idx".
Definition kBlueStartIdxPath : string := "/sys/class/leds/blue/start_idx".
Definition kRedPauseLoPath : string := "/sys/class/leds/red/pause_lo".
Definition kGreenPauseLoPath : string := "/sys/class/leds/green/pause_lo".
Definition kBluePauseLoPath : string := "/sys/class/leds/blue/pause_lo".
Definition kRedPauseHiPath : string := "/sys/class/leds/red/pause_hi".
Definition kGreenPauseHiPath : string := "/sys/class/leds/green/pause_hi".
Definition kBluePauseHiPath : string := "/sys/class/leds/blue/pause_hi".
Definition kRedRampStepMsPath : string := "/sys/class/leds/red/ramp_step_ms".
Definition kGreenRampStepMsPath : string := "/sys/class/leds/green/ramp_step_ms".
Definition kBlueRampStepMsPath : string := "/sys/class/leds/blue/ramp_step_ms".
Definition kRedBlinkPath : string := "/sys/class/leds/red/blink".
Definition kGreenBlinkPath : string := "/sys/class/leds/green/blink".
Definition kBlueBlinkPath : string := "/sys/class/leds/blue/blink".
Definition kRgbBlinkPath : string := "/sys/class/leds/rgb/rgb_blink".

(** An [std::ofstream] after [open]: text that is put in a stream that has not
    opened is lost. *)
Record ofstream : Type := mk_ofstream { st_path : string; good : bool; pending : list Z }.

(** What is done to the files; a write is one that reaches the file. *)
Inductive event : Type :=
| Open (path : string)
| Write (path : string) (text : list Z)
| Close (path : string).

Section main.
Context (can_open : string -> bool).

Definition emit (e : event) : ST (list event) unit := st_modify (fun t => t ++ [e]).

Definition open (path : string) : ST (list event) ofstream :=
  emit (Open path);; mret (mk_ofstream path (can_open path) []).

(** [stream << text]; the buffer of a stream is larger than any text here. *)
Definition put (s : ofstream) (text : list Z) : ofstream :=
  if good s then mk_ofstream (st_path s) true (pending s ++ text) else s.

(** [stream << config[i]] dereferences the element. *)
Definition put_config (s : ofstream) (cfg : config) (i : nat) : ST (list event) ofstream :=
  text ← st_lift (mjoin (cfg !! i)); mret (put s text).

Definition flush (s : ofstream) : ST (list event) ofstream :=
  (if decide (pending s = []) then mret tt else emit (Write (st_path s) (pending s)));;
  mret (mk_ofstream (st_path s) (good s) []).

Definition endl (s : ofstream) : ST (list event) ofstream := flush (put s [10]).

Definition close (s : ofstream) : ST (list event) unit :=
  s ← flush s; if good s then emit (Close (st_path s)) else mret tt.

(** ** [main] *)

(** [blink_status == 0]: steady light. *)
Definition steady (red_config green_config blue_config : config) (blink_status : Z) : ST (list event) unit :=
  blink_red_stream ← open kRedBlinkPath;
  blink_blue_stream ← open kBlueBlinkPath;
  blink_green_stream ← open kGreenBlinkPath;
  brightness_red_stream ← open kRedLedPath;
  brightness_blue_stream ← open kBlueLedPath;
  brightness_green_stream ← open kGreenLedPath;
  let blink_red_stream := put blink_red_stream (decimal blink_status) in
  let blink_blue_stream := put blink_blue_stream (decimal blink_status) in
  let blink_green_stream := put blink_green_stream (decimal blink_status) in
  brightness_red_stream ← put_config brightness_red_stream red_config 0;
  brightness_blue_stream ← put_config brightness_blue_stream blue_config 0;
  brightness_green_stream ← put_config brightness_green_stream green_config 0;
  close blink_red_stream;;
  close blink_blue_stream;;
  close blink_green_stream;;
  close brightness_red_stream;;
  close brightness_blue_stream;;
  close brightness_green_stream.

(** [blink_status == 1]. *)
Definition blinking (red_config green_config blue_config : config) : ST (list event) unit :=
  mStartIdx_red_status ← open kRedStartIdxPath;
  mStartIdx_blue_status ← open kBlueStartIdxPath;
  mStartIdx_green_status ← open kGreenStartIdxPath;
  mDutyPcts_red_status ← open kRedDutyPctsPath;
  mDutyPcts_blue_status ← open kBlueDutyPctsPath;
  mDutyPcts_green_status ← open kGreenDutyPctsPath;
  mPauseLo_red_status ← open kRedPauseLoPath;
  mPauseLo_blue_status ← open kBluePauseLoPath;
  mPauseLo_green_status ← open kGreenPauseLoPath;
  mPauseHi_red_status ← open kRedPauseHiPath;
  mPauseHi_blue_status ← open kBluePauseHiPath;
  mPauseHi_green_status ← open kGreenPauseHiPath;
  mRampStepMs_red_status ← open kRedRampStepMsPath;
  mRampStepMs_blue_status ← open kBlueRampStepMsPath;
  mRampStepMs_green_status ← open kGreenRampStepMsPath;
  mStartIdx_red_status ← put_config mStartIdx_red_status red_config 1;
  mStartIdx_blue_status ← put_config mStartIdx_blue_status blue_config 1;
  mStartIdx_green_status ← put_config mStartIdx_green_status green_config 1;
  mDutyPcts_red_status ← put_config mDutyPcts_red_status red_config 2;
  mDutyPcts_blue_status ← put_config mDutyPcts_blue_status blue_config 2;
  mDutyPcts_green_status ← put_config mDutyPcts_green_status green_config 2;
  mPauseLo_red_status ← put_config mPauseLo_red_status red_config 3;
  mPauseLo_blue_status ← put_config mPauseLo_blue_status blue_config 3;
  mPauseLo_green_status ← put_config mPauseLo_green_status green_config 3;
  mPauseHi_red_status ← put_config mPauseHi_red_status red_config 4;
  mPauseHi_blue_status ← put_config mPauseHi_blue_status blue_config 4;
  mPauseHi_green_status ← put_config mPauseHi_green_status green_config 4;
  mRampStepMs_red_status ← put_config mRampStepMs_red_status red_config 5;
  mRampStepMs_blue_status ← put_config mRampStepMs_blue_status blue_config 5;
  mRampStepMs_green_status ← put_config mRampStepMs_green_status green_config 5;
  close mStartIdx_red_status;;
  close mStartIdx_blue_status;;
  close mStartIdx_green_status;;
  close mDutyPcts_blue_status;;
  close mDutyPcts_red_status;;
  close mDutyPcts_green_status;;
  close mPauseLo_blue_status;;
  close mPauseLo_red_status;;
  close mPauseLo_green_status;;
  close mPauseHi_blue_status;;
  close mPauseHi_red_status;;
  close mPauseHi_green_status;;
  close mRampStepMs_red_status;;
  close mRampStepMs_blue_status;;
  close mRampStepMs_green_status;;
  blink_rgb_stream_f ← open kRgbBlinkPath;
  blink_rgb_stream_f ← endl (put blink_rgb_stream_f (bytes_of "1"));
  close blink_rgb_stream_f.

(** From the first token on, with the four properties in their buffers. *)
Definition set_lights (red_light green_light blue_light blink : list Z) : ST (list event) Z :=
  red_config ← st_lift (split red_light);
  green_config ← st_lift (split green_light);
  blue_config ← st_lift (split blue_light);
  n ← st_lift (strlen blink);
  blink_status ← st_lift (atoi (take n blink));
  blink_rgb_stream ← open kRgbBlinkPath;
  blink_rgb_stream ← endl (put blink_rgb_stream (bytes_of "0"));
  close blink_rgb_stream;;
  (if blink_status =? 0 then steady red_config green_config blue_config blink_status
   else if blink_status =? 1 then blinking red_config green_config blue_config
   else mret tt);;
  mret 0.

(** The stack: what the four buffers hold when [main] is entered. *)
Record stack : Type := mk_stack { red_light : list Z; blue_light : list Z; green_light : list Z; blink : list Z }.
Definition colours_ok (k : stack) : Prop :=
  length (red_light k) = 128%nat /\ length (blue_light k) = 128%nat /\ length (green_light k) = 128%nat.
Definition stack_ok (k : stack) : Prop := colours_ok k /\ length (blink k) = 1%nat.

Definition main (getprop : string -> list Z) (k : stack) : ST (list event) Z :=
  red_light ← st_lift (property_get getprop "sys.red_light" (red_light k));
  blue_light ← st_lift (property_get getprop "sys.blue_light" (blue_light k));
  green_light ← st_lift (property_get getprop "sys.green_light" (green_light k));
  blink ← st_lift (property_get getprop "sys.blink_light" (blink k));
  set_lights red_light green_light blue_light blink.
End main.

(** ** What the daemon is to do *)

(** The parts of a property between its dashes that are not empty. *)
Fixpoint tokens_of (l cur : list Z) : list (list Z) :=
  match l with
  | [] => if decide (cur = []) then [] else [cur]
  | c :: l =>
    if decide (c = del) then if decide (cur = []) then tokens_of l [] else cur :: tokens_of l []
    else tokens_of l (cur ++ [c])
  end.
Definition tokens (v : list Z) : list (list Z) := tokens_of v [].

Section specification.
Context (can_open : string -> bool).

(** A text that reaches its file if that opens. *)
Definition finish (w : string * list Z) : list event :=
  if can_open w.1 then [Write w.1 w.2; Close w.1] else [].

Definition rgb_blink (on : bool) : list event :=
  Open kRgbBlinkPath :: finish (kRgbBlinkPath, bytes_of (if on then "1" else "0") ++ [10]).

(** All files are opened before the first is written. *)
Definition write_all (paths : list string) (ws : list (string * list Z)) : list event :=
  map Open paths ++ concat (map finish ws).

Context (red green blue : list (list Z)).

Definition steady_paths : list string :=
  [kRedBlinkPath; kBlueBlinkPath; kGreenBlinkPath; kRedLedPath; kBlueLedPath; kGreenLedPath].
Definition steady_writes : option (list (string * list Z)) :=
  r ← red !! 0%nat; b ← blue !! 0%nat; g ← green !! 0%nat;
  Some [(kRedBlinkPath, bytes_of "0"); (kBlueBlinkPath, bytes_of "0"); (kGreenBlinkPath, bytes_of "0");
        (kRedLedPath, r); (kBlueLedPath, b); (kGreenLedPath, g)].

Definition blinking_paths : list string :=
  [kRedStartIdxPath; kBlueStartIdxPath; kGreenStartIdxPath; kRedDutyPctsPath; kBlueDutyPctsPath; kGreenDutyPctsPath;
   kRedPauseLoPath; kBluePauseLoPath; kGreenPauseLoPath; kRedPauseHiPath; kBluePauseHiPath; kGreenPauseHiPath;
   kRedRampStepMsPath; kBlueRampStepMsPath; kGreenRampStepMsPath].
Definition blinking_writes : option (list (string * list Z)) :=
  r1 ← red !! 1%nat; b1 ← blue !! 1%nat; g1 ← green !! 1%nat;
  r2 ← red !! 2%nat; b2 ← blue !! 2%nat; g2 ← green !! 2%nat;
  r3 ← red !! 3%nat; b3 ← blue !! 3%nat; g3 ← green !! 3%nat;
  r4 ← red !! 4%nat; b4 ← blue !! 4%nat; g4 ← green !! 4%nat;
  r5 ← red !! 5%nat; b5 ← blue !! 5%nat; g5 ← green !! 5%nat;
  Some [(kRedStartIdxPath, r1); (kBlueStartIdxPath, b1); (kGreenStartIdxPath, g1);
        (kBlueDutyPctsPath, b2); (kRedDutyPctsPath, r2); (kGreenDutyPctsPath, g2);
        (kBluePauseLoPath, b3); (kRedPauseLoPath, r3); (kGreenPauseLoPath, g3);
        (kBluePauseHiPath, b4); (kRedPauseHiPath, r4); (kGreenPauseHiPath, g4);
        (kRedRampStepMsPath, r5); (kBlueRampStepMsPath, b5); (kGreenRampStepMsPath, g5)].

(** The files after the blinking has been stopped; [None] for a setting with
    too few values. *)
Definition setting (blink_status : Z) : option (list event) :=
  if blink_status =? 0 then write_all steady_paths <$> steady_writes
  else if blink_status =? 1 then (fun ws => write_all blinking_paths ws ++ rgb_blink true) <$> blinking_writes
  else Some [].

Definition lights (blink_status : Z) : option (list event) :=
  if decide (length red <= 20 /\ length green <= 20 /\ length blue <= 20)%nat then
    es ← setting blink_status; Some (rgb_blink false ++ es)
  else None.
End specification.

(** ** Tokens *)

Abbreviation no_nul := (Forall (fun c => c <> 0)).

Lemma skip_del_spec v rest : no_nul v -> exists v', skip_del (v ++ 0 :: rest) = v' ++ 0 :: rest /\
  tokens v = tokens v' /\ no_nul v' /\ (length v' <= length v)%nat /\ head v' <> Some del.
Proof.
  induction 1 as [|c v Hc Hv IH]; cbn [app skip_del]; [by exists []|].
  case_decide as E; [|exists (c :: v); split_and!; try done; [by constructor|cbn; congruence]].
  destruct IH as (v' & Hs & Ht & Hn & Hl & Hd). exists v'. unfold tokens in *. cbn [tokens_of length].
  rewrite decide_True, decide_True by done. split_and!; [done..|lia|done].
Qed.

Lemma token_end_spec v rest : no_nul v -> forall cur, cur <> [] -> exists t v',
  token_end (v ++ 0 :: rest) = Some (t, v' ++ 0 :: rest) /\
  tokens_of v cur = (cur ++ t) :: tokens v' /\ no_nul v' /\ (length v' <= length v)%nat.
Proof.
  induction 1 as [|c v Hc Hv IH]; intros cur Hcur; cbn [app token_end tokens_of].
  - exists [], []. rewrite decide_True, decide_False, app_nil_r by done. done.
  - rewrite decide_False by done. case_decide as E.
    + exists [], v. rewrite decide_False, app_nil_r by done. split_and!; [done..|cbn [length]; lia].
    + destruct (IH (cur ++ [c])) as (t & v' & -> & Ht & Hn & Hl); [by destruct cur|].
      exists (c :: t), v'. rewrite Ht, <- app_assoc. split_and!; [done..|cbn [length]; lia].
Qed.

Lemma strtok_spec v rest : no_nul v ->
  match tokens v with
  | [] => strtok (v ++ 0 :: rest) = Some None
  | t :: ts => exists v', strtok (v ++ 0 :: rest) = Some (Some (t, v' ++ 0 :: rest)) /\ tokens v' = ts /\
      no_nul v' /\ (length v' < length v)%nat
  end.
Proof.
  intros Hv. destruct (skip_del_spec v rest Hv) as (w & Hs & -> & Hw & Hl & Hd).
  unfold strtok. rewrite Hs. destruct w as [|c w]; [done|]. apply Forall_cons in Hw as [Hc Hw].
  cbn [app head mbind option_bind]. rewrite decide_False by done.
  change (c :: w ++ 0 :: rest) with ((c :: w) ++ 0 :: rest).
  assert (c <> del) as Hdel by (intros ->; by apply Hd).
  unfold tokens. cbn [tokens_of]. rewrite (decide_False (P := c = del)) by done. cbn [app token_end].
  rewrite (decide_False (P := c = 0)), (decide_False (P := c = del)) by done.
  destruct (token_end_spec w rest Hw [c]) as (t & v' & -> & -> & Hn & Hl'); [done|].
  exists v'. cbn [mbind option_bind fst snd app]. split_and!; [done..|cbn [length] in Hl; lia].
Qed.

Lemma token_loop_spec fuel : forall v rest i cfg, no_nul v -> (length v < fuel)%nat -> (i <= length cfg)%nat ->
  token_loop fuel (v ++ 0 :: rest) i cfg =
  if decide (i + length (tokens v) <= length cfg)%nat
  then Some (take i cfg ++ map Some (tokens v) ++ drop (i + length (tokens v)) cfg) else None.
Proof.
  induction fuel as [|fuel IH]; intros v rest i cfg Hv Hf Hi; [lia|]. cbn [token_loop].
  pose proof (strtok_spec v rest Hv) as Hs. destruct (tokens v) as [|t ts].
  { rewrite Hs. cbn. rewrite Nat.add_0_r, decide_True by done. by rewrite take_drop. }
  destruct Hs as (v' & -> & Ht & Hn & Hl). cbn [mbind option_bind length]. subst ts.
  case_decide as Hlt; [|by rewrite decide_False by lia].
  rewrite IH by (done || rewrite ?length_insert; lia). rewrite length_insert.
  destruct (decide (S i + length (tokens v') <= length cfg)%nat);
    [rewrite decide_True by lia|by rewrite decide_False by lia].
  f_equal. rewrite (take_S_r _ _ (Some t)) by (by apply list_lookup_insert_eq).
  rewrite take_insert_ge, drop_insert_lt by lia. cbn [map].
  rewrite <- app_assoc. cbn [app]. by rewrite Nat.add_succ_comm.
Qed.

Lemma split_spec v rest : no_nul v ->
  split (v ++ 0 :: rest) = if decide (length (tokens v) <= 20)%nat
    then Some (map Some (tokens v) ++ replicate (20 - length (tokens v)) None) else None.
Proof.
  intros Hv. unfold split. rewrite token_loop_spec by (done || rewrite ?length_app; cbn; lia).
  change (length config_init) with 20%nat. cbn [Nat.add take app]. case_decide; [|done].
  unfold config_init. by rewrite drop_replicate.
Qed.

Lemma config_lookup (ts : list (list Z)) n i : mjoin ((map Some ts ++ replicate n None) !! i) = ts !! i.
Proof.
  destruct (decide (i < length ts)%nat).
  - rewrite lookup_app_l by (by rewrite length_map). change (map Some ts) with (Some <$> ts).
    rewrite list_lookup_fmap. by destruct (ts !! i).
  - rewrite lookup_app_r by (rewrite length_map; lia). rewrite (lookup_ge_None_2 ts) by lia.
    destruct (_ !! _) eqn:E; [|done]. by apply lookup_replicate in E as [-> _].
Qed.

(** ** The files *)

Section files.
Context (can_open : string -> bool).

Lemma lift_then {A B} (o : option A) (k : A -> ST (list event) B) s :
  (st_lift o ≫= k) s = match o with Some a => k a s | None => None end.
Proof. by destruct o. Qed.

Lemma open_then {B} p (k : ofstream -> ST (list event) B) s :
  (open can_open p ≫= k) s = k (mk_ofstream p (can_open p) []) (s ++ [Open p]).
Proof. done. Qed.

Lemma put_config_then {B} st cfg i (k : ofstream -> ST (list event) B) s :
  (put_config st cfg i ≫= k) s =
  match mjoin (cfg !! i) with Some text => k (put st text) s | None => None end.
Proof. unfold put_config, mbind, st_bind, st_lift. by destruct (mjoin (cfg !! i)). Qed.

(** Closing a stream in which one text has been put. *)
Lemma close_put p text s : text <> [] ->
  close (put (mk_ofstream p (can_open p) []) text) s = Some (tt, s ++ finish can_open (p, text)).
Proof.
  intros Ht. unfold close, put, flush, finish. cbn [good st_path pending fst snd].
  destruct (can_open p); cbn [good st_path pending app].
  - rewrite decide_False by done. unfold mbind, st_bind, emit, st_modify, mret, st_ret.
    cbn. by rewrite <- app_assoc.
  - unfold mbind, st_bind, mret, st_ret. cbn. by rewrite app_nil_r.
Qed.

Lemma close_put_then {B} p text (k : unit -> ST (list event) B) s : text <> [] ->
  (close (put (mk_ofstream p (can_open p) []) text) ≫= k) s = k tt (s ++ finish can_open (p, text)).
Proof. intros. unfold mbind, st_bind. by rewrite close_put. Qed.

Lemma endl_close_then {B} p text (k : unit -> ST (list event) B) s :
  (endl (put (mk_ofstream p (can_open p) []) text) ≫= (fun st => close st ≫= k)) s =
  k tt (s ++ finish can_open (p, text ++ [10])).
Proof.
  unfold endl, close, put, flush, finish. cbn [good st_path pending fst snd].
  destruct (can_open p) eqn:E; cbn [good st_path pending app]; rewrite ?E; cbn [good st_path pending app].
  - rewrite decide_False by (by destruct text). unfold mbind, st_bind, emit, st_modify, mret, st_ret.
    cbn. rewrite decide_True by done. cbn. by rewrite <- app_assoc.
  - unfold mbind, st_bind, mret, st_ret. cbn. by rewrite app_nil_r.
Qed.
Lemma endl_close p text s :
  (endl (put (mk_ofstream p (can_open p) []) text) ≫= (fun st => close st)) s =
  Some (tt, s ++ finish can_open (p, text ++ [10])).
Proof.
  pose proof (endl_close_then p text mret s) as E. 
  transitivity (mret (M := ST (list event)) tt (s ++ finish can_open (p, text ++ [10]))); [rewrite <- E|done].
  unfold mbind, st_bind. destruct (endl _ s) as [[st t]|]; [|done]. by destruct (close st t) as [[[] ?]|].
Qed.

(** A whole run, up to what follows. *)
Lemma rgb_blink_then {B} (on : bool) (k : unit -> ST (list event) B) s :
  (open can_open kRgbBlinkPath ≫= fun st =>
   endl (put st (bytes_of (if on then "1" else "0"))) ≫= (fun st => close st ≫= k)) s =
  k tt (s ++ rgb_blink can_open on).
Proof. rewrite open_then, endl_close_then by (by destruct on). unfold rgb_blink. by rewrite <- app_assoc. Qed.
End files.

(** Elements of a configuration are not empty. *)
Lemma tokens_nonempty v : Forall (fun t => t <> []) (tokens v).
Proof.
  unfold tokens. assert (forall cur, Forall (fun t => t <> []) (tokens_of v cur)) as H; [|apply H].
  induction v as [|c v IH]; intros cur; cbn [tokens_of]; repeat case_decide; auto.
Qed.

Lemma decimal_0 : decimal 0 = bytes_of "0".
Proof. reflexivity. Qed.

Section branches.
Context (can_open : string -> bool) (red green blue : list (list Z)).
Context (Hred : Forall (fun t => t <> []) red) (Hgreen : Forall (fun t => t <> []) green)
  (Hblue : Forall (fun t => t <> []) blue).
Context (r g b : config) (Hr : forall i, mjoin (r !! i) = red !! i) (Hg : forall i, mjoin (g !! i) = green !! i)
  (Hb : forall i, mjoin (b !! i) = blue !! i).

Ltac run :=
  repeat first
    [ rewrite open_then
    | rewrite put_config_then, ?Hr, ?Hg, ?Hb
    | rewrite close_put_then by done
    | rewrite close_put by done ].

(** The element that is put next: without it both sides fault. *)
Ltac element :=
  match goal with
  | |- match ?l !! ?i with Some _ => _ | None => _ end = _ =>
    let E := fresh "E" in destruct (l !! i) eqn:E;
    [first [pose proof (Forall_lookup_1 _ _ _ _ Hred E) | pose proof (Forall_lookup_1 _ _ _ _ Hgreen E)
           |pose proof (Forall_lookup_1 _ _ _ _ Hblue E)]; cbn beta in * |]
  end.

Lemma steady_spec s :
  steady can_open r g b 0 s =
  match steady_writes red green blue with
  | Some ws => Some (tt, s ++ write_all can_open steady_paths ws)
  | None => None
  end.
Proof.
  unfold steady, steady_writes. rewrite decimal_0. run.
  repeat (element; [run|done]). cbn [mbind option_bind]. unfold write_all, steady_paths. cbn [map concat].
  rewrite <- !app_assoc, app_nil_r. done.
Qed.

Lemma blinking_spec s :
  blinking can_open r g b s =
  match blinking_writes red green blue with
  | Some ws => Some (tt, s ++ write_all can_open blinking_paths ws ++ rgb_blink can_open true)
  | None => None
  end.
Proof.
  unfold blinking, blinking_writes. run.
  repeat (element; [run|done]). cbn [mbind option_bind]. unfold write_all, blinking_paths. cbn [map concat].
  rewrite endl_close. unfold rgb_blink. rewrite <- !app_assoc. done.
Qed.
End branches.

(** ** The whole program *)

Lemma setting_spec can_open r g b rc gc bc n s :
  Forall (fun t => t <> []) r -> Forall (fun t => t <> []) g -> Forall (fun t => t <> []) b ->
  (forall i, mjoin (rc !! i) = r !! i) -> (forall i, mjoin (gc !! i) = g !! i) -> (forall i, mjoin (bc !! i) = b !! i) ->
  (if n =? 0 then steady can_open rc gc bc n else if n =? 1 then blinking can_open rc gc bc else mret tt) s =
  match setting can_open r g b n with Some es => Some (tt, s ++ es) | None => None end.
Proof.
  intros. unfold setting. destruct (n =? 0) eqn:E0; [|destruct (n =? 1)].
  - apply Z.eqb_eq in E0 as ->. rewrite (steady_spec can_open r g b) by done. by destruct (steady_writes r g b).
  - rewrite (blinking_spec can_open r g b) by done. by destruct (blinking_writes r g b).
  - by rewrite app_nil_r.
Qed.

Lemma set_lights_spec can_open red green blue blink rest_r rest_g rest_b rest_k s :
  no_nul red -> no_nul green -> no_nul blue -> no_nul blink ->
  set_lights can_open (red ++ 0 :: rest_r) (green ++ 0 :: rest_g) (blue ++ 0 :: rest_b) (blink ++ 0 :: rest_k) s =
  match (n ← atoi blink; lights can_open (tokens red) (tokens green) (tokens blue) n) with
  | Some es => Some (0, s ++ es)
  | None => None
  end.
Proof.
  intros Hr Hg Hb Hk. unfold set_lights, lights.
  rewrite lift_then, split_spec by done. case_decide as Lr; cycle 1.
  { destruct (atoi blink); [|done]. cbn [mbind option_bind]. by rewrite decide_False by lia. }
  rewrite lift_then, split_spec by done. case_decide as Lg; cycle 1.
  { destruct (atoi blink); [|done]. cbn [mbind option_bind]. by rewrite decide_False by lia. }
  rewrite lift_then, split_spec by done. case_decide as Lb; cycle 1.
  { destruct (atoi blink); [|done]. cbn [mbind option_bind]. by rewrite decide_False by lia. }
  rewrite lift_then, strlen_app by done. rewrite lift_then, take_app_length.
  destruct (atoi blink) as [n|]; [|done]. cbn [mbind option_bind]. rewrite decide_True by done.
  rewrite (rgb_blink_then can_open false). unfold mbind at 1, st_bind.
  rewrite (setting_spec can_open (tokens red) (tokens green) (tokens blue)) by
    (apply tokens_nonempty || apply config_lookup).
  destruct (setting _ _ _ _ _); [|done]. cbn. by rewrite <- app_assoc.
Qed.

(** A property fits a buffer that has room for it and its NUL. *)
Lemma property_get_spec getprop name buf : (length (getprop name) < length buf)%nat ->
  property_get getprop name buf = Some (getprop name ++ 0 :: drop (length (getprop name) + 1) buf).
Proof.
  intros Hl. unfold property_get. rewrite memcpy_Some by (rewrite ?length_app; cbn; lia).
  cbn [take app Nat.add]. rewrite firstn_all, <- app_assoc, length_app. done.
Qed.

Lemma property_get_overflow getprop name buf : (length buf <= length (getprop name))%nat ->
  property_get getprop name buf = None.
Proof.
  intros Hl. unfold property_get, memcpy. rewrite decide_False; [done|]. rewrite length_app. cbn. lia.
Qed.

(** [main] on a stack whose [blink] has any length. *)
Lemma main_spec can_open getprop k s :
  colours_ok k -> (forall name, prop_value (getprop name)) ->
  main can_open getprop k s =
  if decide (length (getprop "sys.blink_light") < length (blink k))%nat then
    n ← atoi (getprop "sys.blink_light");
    es ← lights can_open (tokens (getprop "sys.red_light")) (tokens (getprop "sys.green_light"))
      (tokens (getprop "sys.blue_light")) n;
    Some (0, s ++ es)
  else None.
Proof.
  intros (Hr & Hb & Hg) Hp. unfold main.
  destruct (Hp "sys.red_light"), (Hp "sys.blue_light"), (Hp "sys.green_light"), (Hp "sys.blink_light").
  unfold PROP_VALUE_MAX in *.
  do 3 rewrite lift_then, property_get_spec by lia. rewrite lift_then.
  case_decide as E; [|by rewrite property_get_overflow by lia].
  rewrite property_get_spec by done. rewrite set_lights_spec by done.
  destruct (atoi _); [|done]. cbn [mbind option_bind]. by destruct (lights _ _ _ _ _).
Qed.

(** ** Properties *)

(** C8 (functional): what [main] makes of the properties, for all their values,
    whatever files open and whatever the stack held. As it is written, with one
    byte for [blink], it overflows that buffer as soon as the property for the
    blinking is not empty; with that property empty or not set it stops the
    blinking and sets the steady colours. With room for that property it stops
    the blinking, and sets the steady colours (status 0) or the fifteen parameters
    and then the blinking (status 1) to the parts of the properties they belong to,
    writing a file only after it has opened and closing every file it opens; any
    other status leaves it there. In that case it faults exactly where a colour has
    more than 20 parts or fewer than the status needs, or the status does not fit
    an [int]. *)
Theorem lights_set can_open getprop k s :
  colours_ok k -> (forall name, prop_value (getprop name)) ->
  let red := tokens (getprop "sys.red_light") in
  let green := tokens (getprop "sys.green_light") in
  let blue := tokens (getprop "sys.blue_light") in
  let status := getprop "sys.blink_light" in
  (stack_ok k -> main can_open getprop k s =
     if decide (status = []) then es ← lights can_open red green blue 0; Some (0, s ++ es) else None) /\
  ((length status < length (blink k))%nat -> main can_open getprop k s =
     (n ← atoi status; es ← lights can_open red green blue n; Some (0, s ++ es))) /\
  ((length (blink k) <= length status)%nat -> main can_open getprop k s = None).
Proof.
  intros Hc Hp. cbv zeta. rewrite main_spec by done. split_and!; intros H.
  - destruct H as [_ ->]. destruct (getprop "sys.blink_light") as [|c v]; [done|].
    rewrite decide_False by (cbn; lia). by rewrite decide_False.
  - by rewrite decide_True.
  - by rewrite decide_False by lia.
Qed.

Definition blinking_props (name : string) : list Z :=
  bytes_of (if String.eqb name "sys.red_light" then "255-0-5,10-100-200-50"
            else if String.eqb name "sys.green_light" then "-0-7-1-2-3-4-"
            else if String.eqb name "sys.blue_light" then "1-2-3-4-5-6" else "1").

Lemma blinking_props_ok name : prop_value (blinking_props name).
Proof.
  unfold blinking_props. repeat destruct (String.eqb name _); apply (bool_decide_unpack _); vm_compute; exact I.
Qed.

Lemma lights_set_witness :
  let files := fun p => negb (String.eqb p kBlueStartIdxPath) in
  let colour := replicate 128 0 in
  main files blinking_props (mk_stack colour colour colour (replicate 92 0)) [] =
  Some (0, rgb_blink files false ++
    write_all files blinking_paths
      (map (fun x => (x.1, bytes_of x.2))
      [(kRedStartIdxPath, "0"); (kBlueStartIdxPath, "2"); (kGreenStartIdxPath, "7");
       (kBlueDutyPctsPath, "3"); (kRedDutyPctsPath, "5,10"); (kGreenDutyPctsPath, "1");
       (kBluePauseLoPath, "4"); (kRedPauseLoPath, "100"); (kGreenPauseLoPath, "2");
       (kBluePauseHiPath, "5"); (kRedPauseHiPath, "200"); (kGreenPauseHiPath, "3");
       (kRedRampStepMsPath, "50"); (kBlueRampStepMsPath, "6"); (kGreenRampStepMsPath, "4")]) ++
    rgb_blink files true) /\
  main files blinking_props (mk_stack colour colour colour [0]) [] = None /\
  main files (fun name => if String.eqb name "sys.blink_light" then [] else blinking_props name)
    (mk_stack colour colour colour [0]) [] =
  Some (0, rgb_blink files false ++ write_all files steady_paths
    (map (fun x => (x.1, bytes_of x.2))
    [(kRedBlinkPath, "0"); (kBlueBlinkPath, "0"); (kGreenBlinkPath, "0");
     (kRedLedPath, "255"); (kBlueLedPath, "1"); (kGreenLedPath, "0")])).
Proof.
  intros files colour. assert (Hc : forall b, colours_ok (mk_stack colour colour colour b)) by done. split_and!.
  - destruct (lights_set files blinking_props (mk_stack colour colour colour (replicate 92 0)) []) as (_ & H & _);
      [apply Hc|apply blinking_props_ok|].
    rewrite H; [vm_compute; reflexivity|apply Nat.ltb_lt; reflexivity].
  - destruct (lights_set files blinking_props (mk_stack colour colour colour [0]) []) as (_ & _ & H);
      [apply Hc|apply blinking_props_ok|]. apply H, Nat.leb_le. reflexivity.
  - destruct (lights_set files (fun name => if String.eqb name "sys.blink_light" then [] else blinking_props name)
      (mk_stack colour colour colour [0]) []) as (H & _ & _); [apply Hc| |].
    + intros name. destruct (String.eqb name _); [split; [constructor|apply Nat.ltb_lt; reflexivity]|apply blinking_props_ok].
    + rewrite H; [vm_compute; reflexivity|done].
Defined.
