(* ===== verification/TriState.v ===== *)
(** * The tri-state key daemon

    [native_packages/tri-state-key_daemon]: [uevent_listener.cpp] receives the
    events of the kernel and parses them, [main.cpp] answers those of the slider
    with commands. Bytes are received into a buffer of the stack, of which the
    rest is not initialised; every access to it is checked. The socket, the polls
    and the sysfs node are a trace that the model is given; the commands are
    recorded. An exception that leaves [std::stoi] ends the daemon. Logging is left
    out. *)
From S2P Require Import Prelude.
From S2P Require Import Text.

(** ** [uevent_listener.cpp] *)

Definition UEVENT_MSG_LEN : nat := 2048.

Record Uevent : Type := mk_uevent { action : list Z; path : list Z }.
#[export] Instance Uevent_eq_dec : EqDecision Uevent.
Proof. solve_decision. Defined.
Definition set_action (a : list Z) (e : Uevent) : Uevent := mk_uevent a (path e).
Definition set_path (p : list Z) (e : Uevent) : Uevent := mk_uevent (action e) p.

(** [!strncmp (msg + p, key, strlen (key))]: stops at the first difference. *)
Fixpoint starts_with (msg : list Z) (p : nat) (key : list Z) : option bool :=
  match key with
  | [] => Some true
  | k :: key => c ← rd msg p; if decide (c = k) then starts_with msg (S p) key else Some false
  end.

(** The string at [msg + p]. *)
Definition cstring_at (msg : list Z) (p : nat) : option (list Z) :=
  n ← strlen (drop p msg); Some (take n (drop p msg)).

(** The loop behind a field: to the byte after the next NUL. *)
Definition after_nul (msg : list Z) (p : nat) : option nat :=
  n ← strlen (drop p msg); Some (p + n + 1)%nat.

Definition ACTION : list Z := bytes_of "ACTION=".
Definition DEVPATH : list Z := bytes_of "DEVPATH=".

Fixpoint parse_loop (fuel : nat) (msg : list Z) (p : nat) (e : Uevent) : option Uevent :=
  match fuel with
  | O => None
  | S fuel =>
    c ← rd msg p;
    if decide (c = 0) then Some e
    else
      a ← starts_with msg p ACTION;
      if (a : bool) then
        s ← cstring_at msg (p + 7); p' ← after_nul msg (p + 7);
        parse_loop fuel msg p' (set_action s e)
      else
        d ← starts_with msg p DEVPATH;
        if (d : bool) then
          s ← cstring_at msg (p + 8); p' ← after_nul msg (p + 8);
          parse_loop fuel msg p' (set_path s e)
        else
          p' ← after_nul msg p; parse_loop fuel msg p' e
  end.

(** The loop advances by at least one byte of the buffer. *)
Definition ParseEvent (msg : list Z) (e : Uevent) : option Uevent :=
  parse_loop (length msg) msg 0 (mk_uevent [] []).

(** What [uevent_kernel_multicast_recv] gives: a number of bytes stored in the
    buffer, or an error. *)
Inductive recv : Type :=
| Received (data : list Z)
| Failed.

Definition recv_ok (r : recv) : Prop :=
  match r with
  | Received data => (length data <= UEVENT_MSG_LEN)%nat
  | Failed => True
  end.

(** [msg] is the buffer as the stack has it. *)
Definition ReadUevent (msg : list Z) (r : recv) (e : Uevent) : option (bool * Uevent) :=
  match r with
  | Failed => Some (false, e)
  | Received data =>
    let n := length data in
    msg ← memcpy msg 0 data n;
    if decide (n <= 0)%nat then Some (false, e)
    else if decide (UEVENT_MSG_LEN <= n)%nat then Some (true, e)
    else
      msg ← wr msg n 0; msg ← wr msg (n + 1) 0;
      e ← ParseEvent msg e; Some (true, e)
  end.

(** A return of [poll]: with the receives that follow if it reports input. *)
Inductive poll_result : Type :=
| Timeout
| Error
| Event (pollin : bool) (rs : list recv).

(** What is left of the program when a trace has been consumed: it waits in
    [poll], [Poll] has returned, or an exception has ended it. *)
Inductive outcome : Type :=
| Waiting
| Returned
| Terminated.

Section poll.
Context {St : Type} (msg : list Z) (callback : Uevent -> ST St bool).

(** [false], of a callback and here: an exception has left it. *)
Fixpoint read_all (rs : list recv) (e : Uevent) : ST St bool :=
  match rs with
  | [] => mret true
  | r :: rs =>
    x ← st_lift (ReadUevent msg r e);
    if (x.1 : bool) then
      ok ← callback x.2;
      if (ok : bool) then read_all rs x.2 else mret false
    else mret true
  end.

Fixpoint Poll (trace : list poll_result) : ST St outcome :=
  match trace with
  | [] => mret Waiting
  | Timeout :: _ => mret Returned
  | Error :: trace => Poll trace
  | Event pollin rs :: trace =>
    if pollin then
      ok ← read_all rs (mk_uevent [] []);
      if (ok : bool) then Poll trace else mret Terminated
    else Poll trace
  end.
End poll.

(** ** [main.cpp] *)

(** The contents of the node at each time it is opened, as lines, if it opens;
    how often it has been; the commands run. *)
Record state : Type := mk_state { opens : nat; commands : list string }.

Definition slider_commands (st : Z) : list string :=
  if st =? 1 then
    ["setprop sys.slider_up.vibrate 1"; "service call audio 9 i32 3 i32 -100 i32 0";
     ("service call audio 40 i32 0 s16 " ++ quoted "shell")]%string
  else if st =? 2 then
    ["setprop sys.slider_middle.vibrate 1"; "service call audio 9 i32 3 i32 100 i32 0";
     ("service call audio 40 i32 1 s16 " ++ quoted "shell")]%string
  else if st =? 3 then
    ["service call audio 9 i32 3 i32 100 i32 0"; ("service call audio 40 i32 2 s16 " ++ quoted "shell")]%string
  else [].

Section main.
Context (node : nat -> option (list (list Z))).

Definition system (c : string) : ST state unit :=
  st_modify (fun s => mk_state (opens s) (commands s ++ [c])).

Definition open_node : ST state (option (list (list Z))) :=
  s ← st_get; st_modify (fun s => mk_state (S (opens s)) (commands s));; mret (node (opens s)).

(** [while (std::getline (keystate_node, line)) state = std::stoi (line);] *)
Fixpoint last_state (lines : list (list Z)) (st : Z) : option Z :=
  match lines with
  | [] => Some st
  | line :: lines => st ← stoi line; last_state lines st
  end.

Fixpoint run_all (cs : list string) : ST state unit :=
  match cs with
  | [] => mret tt
  | c :: cs => system c;; run_all cs
  end.

Definition on_event (e : Uevent) : ST state bool :=
  if decide (action e = bytes_of "change" /\ path e = bytes_of "/devices/virtual/switch/tri-state-key") then
    lines ← open_node;
    match (match lines with Some lines => last_state lines 0 | None => Some 0 end) with
    | Some st => run_all (slider_commands st);; mret true
    | None => mret false
    end
  else mret true.

Definition main (msg : list Z) (trace : list poll_result) : ST state outcome := Poll msg on_event trace.
End main.

(** ** What a message says

    A message is a sequence of strings; an empty one ends it. *)
Fixpoint fields_of (l cur : list Z) : list (list Z) :=
  match l with
  | [] => if decide (cur = []) then [] else [cur]
  | c :: l =>
    if decide (c = 0) then if decide (cur = []) then [] else cur :: fields_of l []
    else fields_of l (cur ++ [c])
  end.
Definition fields (data : list Z) : list (list Z) := fields_of data [].

Definition value (key f : list Z) : option (list Z) :=
  if decide (take (length key) f = key) then Some (drop (length key) f) else None.
Definition last_value (key : list Z) (fs : list (list Z)) (a : list Z) : list Z :=
  fold_left (fun a f => default a (value key f)) fs a.
Definition uevent_of (data : list Z) : Uevent :=
  mk_uevent (last_value ACTION (fields data) []) (last_value DEVPATH (fields data) []).

(** ** What the daemon is to do *)

Definition is_slider (e : Uevent) : bool :=
  bool_decide (action e = bytes_of "change" /\ path e = bytes_of "/devices/virtual/switch/tri-state-key").

(** The events that a run of receives hands to the callback, after event [e].
    A message that fills the buffer is not parsed, and the event before it
    is handed over again. *)
Fixpoint handed (rs : list recv) (e : Uevent) : list Uevent :=
  match rs with
  | Received data :: rs =>
      if decide (length data = 0)%nat then []
      else let e := if decide (length data < UEVENT_MSG_LEN)%nat then uevent_of data else e in
        e :: handed rs e
  | _ => []
  end.

(** All events of a trace, and whether a timeout ends it. *)
Fixpoint events (trace : list poll_result) : list Uevent * bool :=
  match trace with
  | [] => ([], false)
  | Timeout :: _ => ([], true)
  | Error :: trace => events trace
  | Event pollin rs :: trace =>
      let '(es, b) := events trace in ((if pollin then handed rs (mk_uevent [] []) else []) ++ es, b)
  end.

(** The events of the messages alone: of each message received, in order, until
    a receive that gives none, and nothing else. *)
Definition message_of (r : recv) : option (list Z) :=
  match r with
  | Received data => if decide (length data = 0)%nat then None else Some data
  | Failed => None
  end.
Fixpoint messages_of (rs : list recv) : list (list Z) :=
  match rs with
  | r :: rs => match message_of r with Some data => data :: messages_of rs | None => [] end
  | [] => []
  end.
Fixpoint messages (trace : list poll_result) : list (list Z) :=
  match trace with
  | [] | Timeout :: _ => []
  | Error :: trace | Event false _ :: trace => messages trace
  | Event true rs :: trace => messages_of rs ++ messages trace
  end.

(** The position the node reports: its last line. *)
Definition position (lines : option (list (list Z))) : option Z :=
  match lines with
  | Some lines => match last lines with
      | Some l => if forallb (fun l => bool_decide (is_Some (stoi l))) lines then stoi l else None
      | None => Some 0
      end
  | None => Some 0
  end.

(** The commands for a list of events when the node has been opened [k] times,
    how often it is open after them, and whether the daemon goes on. *)
Fixpoint answers (node : nat -> option (list (list Z))) (es : list Uevent) (k : nat) : list string * nat * bool :=
  match es with
  | [] => ([], k, true)
  | e :: es =>
    if is_slider e then
      match position (node k) with
      | Some st => let '(cs, k', b) := answers node es (S k) in (slider_commands st ++ cs, k', b)
      | None => ([], S k, false)
      end
    else answers node es k
  end.

(** ** Parsing *)

Definition field_bytes (fs : list (list Z)) : list Z := concat (map (fun f => f ++ [0]) fs).
Abbreviation no_nul := (Forall (fun c => c <> 0)).

Lemma fields_split l : forall cur, no_nul cur -> exists rest,
  cur ++ l ++ [0; 0] = field_bytes (fields_of l cur) ++ 0 :: rest /\
  Forall (fun f => f <> [] /\ no_nul f) (fields_of l cur).
Proof.
  induction l as [|c l IH]; intros cur Hc; cbn [fields_of app].
  - case_decide as E; [subst; by exists [0]|]. exists []. cbn. rewrite app_nil_r, <- app_assoc. by auto.
  - case_decide as E0; [subst c; case_decide as E|].
    + subst cur. exists (l ++ [0; 0]). by split.
    + destruct (IH [] (Forall_nil_2 _)) as (rest & Hr & Hf). exists rest. split; [|by constructor].
      unfold field_bytes. cbn [map concat]. fold (field_bytes (fields_of l [])).
      rewrite <- !app_assoc, <- Hr. done.
    + destruct (IH (cur ++ [c])) as (rest & Hr & Hf); [by apply Forall_app; auto|].
      exists rest. by rewrite <- Hr, <- app_assoc.
Qed.

Lemma starts_with_spec key : forall pre f rest, no_nul key ->
  starts_with (pre ++ f ++ 0 :: rest) (length pre) key = Some (bool_decide (take (length key) f = key)).
Proof.
  induction key as [|k key IH]; intros pre f rest Hk; cbn [starts_with length take].
  - rewrite take_0. by rewrite bool_decide_eq_true_2.
  - apply Forall_cons in Hk as [Hk0 Hk]. unfold rd. destruct f as [|c f]; cbn [app].
    + rewrite lookup_app_r, Nat.sub_diag by lia. cbn. rewrite decide_False by done.
      by rewrite bool_decide_eq_false_2.
    + rewrite lookup_app_r, Nat.sub_diag by lia. cbn [lookup list_lookup mbind option_bind take].
      case_decide as E; [subst c|by rewrite bool_decide_eq_false_2 by congruence].
      specialize (IH (pre ++ [k]) f rest Hk). rewrite length_app, <- app_assoc in IH. cbn [length app] in IH.
      rewrite Nat.add_1_r in IH. rewrite IH. f_equal. apply bool_decide_ext. split; congruence.
Qed.

Lemma field_strlen pre f rest n : no_nul f -> (n <= length f)%nat ->
  strlen (drop (length pre + n) (pre ++ f ++ 0 :: rest)) = Some (length f - n)%nat /\
  cstring_at (pre ++ f ++ 0 :: rest) (length pre + n) = Some (drop n f) /\
  after_nul (pre ++ f ++ 0 :: rest) (length pre + n) = Some (length pre + length f + 1)%nat.
Proof.
  intros Hf Hn.
  assert (Hd : drop (length pre + n) (pre ++ f ++ 0 :: rest) = drop n f ++ 0 :: rest).
  { rewrite drop_app_add, drop_app_le by lia. done. }
  assert (Hs : strlen (drop n f ++ 0 :: rest) = Some (length (drop n f))).
  { apply strlen_app. by apply Forall_drop. }
  unfold cstring_at, after_nul. rewrite Hd, Hs, length_drop. cbn [mbind option_bind].
  rewrite take_app_le, take_ge by (rewrite length_drop; lia). split_and!; [done..|]. f_equal. lia.
Qed.

Lemma value_yes key f : take (length key) f = key -> value key f = Some (drop (length key) f).
Proof. intros. unfold value. by rewrite decide_True. Qed.
Lemma value_no key f : take (length key) f <> key -> value key f = None.
Proof. intros. unfold value. by rewrite decide_False. Qed.

Lemma keys_differ f : take (length ACTION) f = ACTION -> take (length DEVPATH) f <> DEVPATH.
Proof. destruct f as [|c f]; [done|]. intros H1 H2. cbv in H1, H2. congruence. Qed.

Lemma parse_fields fs : forall pre rest e fuel, Forall (fun f => f <> [] /\ no_nul f) fs ->
  (length fs < fuel)%nat ->
  parse_loop fuel (pre ++ field_bytes fs ++ 0 :: rest) (length pre) e =
  Some (mk_uevent (last_value ACTION fs (action e)) (last_value DEVPATH fs (path e))).
Proof.
  induction fs as [|f fs IH]; intros pre rest e [|fuel] Hf Hl; cbn [length] in Hl; try lia; cbn [parse_loop].
  - unfold rd. rewrite lookup_app_r, Nat.sub_diag by lia. cbn. by destruct e.
  - apply Forall_cons in Hf as [[Hne Hf] Hfs].
    assert (Hm : pre ++ field_bytes (f :: fs) ++ 0 :: rest =
      pre ++ f ++ 0 :: (field_bytes fs ++ 0 :: rest)) by (cbn; by rewrite <- !app_assoc).
    assert (Hm' : pre ++ f ++ 0 :: (field_bytes fs ++ 0 :: rest) =
      (pre ++ f ++ [0]) ++ field_bytes fs ++ 0 :: rest) by (by rewrite <- !app_assoc).
    assert (Hp : (length pre + length f + 1)%nat = length (pre ++ f ++ [0])) by (rewrite !length_app; cbn; lia).
    rewrite Hm, !starts_with_spec by (repeat constructor; done).
    set (tail := field_bytes fs ++ 0 :: rest) in *.
    assert (Hnext : forall e', parse_loop fuel (pre ++ f ++ 0 :: tail) (length pre + length f + 1) e' =
      Some (mk_uevent (last_value ACTION fs (action e')) (last_value DEVPATH fs (path e')))).
    { intros e'. rewrite Hm', Hp. by apply IH; [|lia]. }
    unfold rd. rewrite lookup_app_r, Nat.sub_diag by lia.
    destruct f as [|c f]; [done|]. cbn [app lookup list_lookup mbind option_bind].
    rewrite decide_False by (by apply Forall_cons in Hf as [Hc _]).
    change (c :: f ++ 0 :: tail) with ((c :: f) ++ 0 :: tail) in *. remember (c :: f) as g eqn:Eg.
    unfold last_value. cbn [fold_left].
    destruct (decide (take (length ACTION) g = ACTION)) as [Ea|Ea].
    + rewrite bool_decide_eq_true_2, (value_yes _ _ Ea), (value_no _ _ (keys_differ g Ea)) by done.
      assert (Hg : (7 <= length g)%nat) by (apply (f_equal length) in Ea; rewrite length_take in Ea;
        change (length ACTION) with 7%nat in Ea; lia).
      destruct (field_strlen pre g tail 7 Hf Hg) as (_ & -> & ->). cbn [mbind option_bind]. by rewrite Hnext.
    + rewrite (bool_decide_eq_false_2 (take (length ACTION) g = ACTION)), (value_no _ _ Ea) by done.
      destruct (decide (take (length DEVPATH) g = DEVPATH)) as [Ed|Ed].
      * rewrite bool_decide_eq_true_2, (value_yes _ _ Ed) by done.
        assert (Hg : (8 <= length g)%nat) by (apply (f_equal length) in Ed; rewrite length_take in Ed;
          change (length DEVPATH) with 8%nat in Ed; lia).
        destruct (field_strlen pre g tail 8 Hf Hg) as (_ & -> & ->). cbn [mbind option_bind]. by rewrite Hnext.
      * rewrite bool_decide_eq_false_2, (value_no _ _ Ed) by done.
        destruct (field_strlen pre g tail 0 Hf ltac:(lia)) as (_ & _ & Hn). rewrite Nat.add_0_r in Hn.
        rewrite Hn. cbn [mbind option_bind]. by rewrite Hnext.
Qed.

(** ** A message is read as its fields *)

Lemma fields_of_length l : forall cur, (length (fields_of l cur) <= length l + length cur)%nat.
Proof.
  induction l as [|c l IH]; intros cur; cbn [fields_of length].
  - case_decide; [cbn; lia|]. destruct cur; [done|cbn; lia].
  - case_decide; [case_decide as E; [cbn; lia|]|].
    + destruct cur; [done|]. specialize (IH []). cbn [length] in *. lia.
    + specialize (IH (cur ++ [c])). rewrite length_app in IH. cbn [length] in IH. lia.
Qed.

Lemma ParseEvent_spec data rest e :
  ParseEvent (data ++ 0 :: 0 :: rest) e = Some (uevent_of data).
Proof.
  destruct (fields_split data []) as (r & Hr & Hf); [constructor|]. cbn [app] in Hr.
  unfold ParseEvent.
  assert (data ++ 0 :: 0 :: rest = field_bytes (fields data) ++ 0 :: (r ++ rest)) as ->.
  { unfold fields. change (0 :: 0 :: rest) with ([0; 0] ++ rest). rewrite app_assoc, Hr.
    by rewrite <- app_assoc. }
  apply (parse_fields (fields data) []); [done|].
  pose proof (fields_of_length data []). unfold fields in *.
  apply (f_equal length) in Hr. rewrite !length_app in Hr. cbn [length] in *. rewrite !length_app. cbn [length].
  rewrite length_app. lia.
Qed.

Lemma two_nuls msg data : (length data + 2 <= length msg)%nat ->
  exists m1 m2 tail, memcpy msg 0 data (length data) = Some m1 /\ wr m1 (length data) 0 = Some m2 /\
    wr m2 (length data + 1) 0 = Some (data ++ 0 :: 0 :: tail).
Proof.
  intros Hm.
  destruct (drop (length data) msg) as [|x [|y tail]] eqn:E;
    apply (f_equal length) in E as E'; rewrite length_drop in E'; cbn [length] in E'; try lia.
  exists (data ++ x :: y :: tail), (data ++ 0 :: y :: tail), tail. split_and!.
  - rewrite memcpy_Some by lia. cbn [take app Nat.add]. by rewrite firstn_all, E.
  - rewrite wr_Some by (rewrite length_app; cbn; lia).
    rewrite insert_app_r_alt, Nat.sub_diag by lia. done.
  - rewrite wr_Some by (rewrite length_app; cbn; lia).
    rewrite insert_app_r_alt by lia. by replace (length data + 1 - length data)%nat with 1%nat by lia.
Qed.

(** The buffer of [ReadUevent] has two bytes more than a message. *)
Definition stack_buffer (msg : list Z) : Prop := length msg = (UEVENT_MSG_LEN + 2)%nat.

(** What a receive leads to. *)
Definition read_result (r : recv) (e : Uevent) : bool * Uevent :=
  match r with
  | Received data =>
      if decide (length data = 0)%nat then (false, e)
      else (true, if decide (length data < UEVENT_MSG_LEN)%nat then uevent_of data else e)
  | Failed => (false, e)
  end.

Lemma ReadUevent_result msg r e : stack_buffer msg -> recv_ok r ->
  ReadUevent msg r e = Some (read_result r e).
Proof.
  unfold stack_buffer. intros Hm Hr. destruct r as [data|]; [|done]. cbn [recv_ok] in Hr.
  cbn [ReadUevent read_result].
  destruct (two_nuls msg data) as (m1 & m2 & tail & H1 & H2 & H3).
  { rewrite Hm. apply Nat.add_le_mono_r. done. }
  rewrite H1. cbn [mbind option_bind].
  destruct (decide (length data <= 0)%nat) as [H0|H0].
  { rewrite decide_True by lia. done. }
  rewrite (decide_False (P := length data = 0%nat)) by lia.
  case_decide as Hl; [rewrite decide_False by lia; done|]. rewrite decide_True by lia.
  rewrite H2. cbn [mbind option_bind]. rewrite H3. cbn [mbind option_bind]. by rewrite ParseEvent_spec.
Qed.

(** ** The answer to one event *)

Lemma run_all_spec cs s : run_all cs s = Some (tt, mk_state (opens s) (commands s ++ cs)).
Proof.
  revert s. induction cs as [|c cs IH]; intros s; cbn [run_all]; [rewrite app_nil_r; by destruct s|].
  unfold system, mbind, st_bind, st_modify. rewrite IH. cbn [opens commands]. by rewrite <- app_assoc.
Qed.

Lemma last_state_ok lines : forall st, Forall (fun l => is_Some (stoi l)) lines ->
  last_state lines st = match last lines with Some l => stoi l | None => Some st end.
Proof.
  induction lines as [|l lines IH]; intros st H; [done|]. apply Forall_cons in H as [[v Hv] H].
  cbn [last_state]. rewrite Hv. cbn [mbind option_bind]. rewrite IH by done. destruct lines; [by cbn|].
  cbn [last]. destruct (last (l0 :: lines)) eqn:E; [done|]. by apply last_None in E.
Qed.

Lemma last_state_None lines : forall st, ~ Forall (fun l => is_Some (stoi l)) lines -> last_state lines st = None.
Proof.
  induction lines as [|l lines IH]; intros st H; [by destruct H|]. cbn [last_state].
  destruct (stoi l) eqn:E; [|done]. cbn [mbind option_bind]. apply IH. intros HF. apply H. by constructor; eauto.
Qed.

Lemma position_spec lines :
  match lines with Some lines => last_state lines 0 | None => Some 0 end = position lines.
Proof.
  destruct lines as [lines|]; [|done]. cbn [position].
  destruct (forallb _ lines) eqn:E.
  - rewrite last_state_ok; [done|]. apply Forall_forall. intros l Hl.
    rewrite forallb_forall in E. apply list_elem_of_In, E, bool_decide_eq_true in Hl. done.
  - destruct (last lines) eqn:El.
    + apply last_state_None. intros HF. apply not_true_iff_false in E. apply E, forallb_forall.
      intros x Hx. apply bool_decide_eq_true. by eapply Forall_forall in HF; [|apply list_elem_of_In].
    + apply last_None in El. by subst.
Qed.

Section daemon.
Context (node : nat -> option (list (list Z))) (msg : list Z) (Hmsg : stack_buffer msg).

(** The state after a run, from its commands and opens. *)
Definition answered (r : list string * nat * bool) (s : state) : state :=
  mk_state r.1.2 (commands s ++ r.1.1).

Lemma answers_cons e es k :
  answers node (e :: es) k =
  (let one := answers node [e] k in
   if one.2 then let r := answers node es one.1.2 in (one.1.1 ++ r.1.1, r.1.2, r.2) else one).
Proof.
  cbn [answers]. cbn. destruct (is_slider e); [|cbn; by destruct (answers node es k) as [[cs k'] b]].
  destruct (position (node k)); [|done]. cbn.
  cbn. destruct (answers node es (S k)) as [[cs k'] b]. cbn. by rewrite app_nil_r.
Qed.

Lemma answers_app es es' k :
  answers node (es ++ es') k =
  (let one := answers node es k in
   if one.2 then let r := answers node es' one.1.2 in (one.1.1 ++ r.1.1, r.1.2, r.2) else one).
Proof.
  revert k. induction es as [|e es IH]; intros k; cbn [app].
  { cbn. by destruct (answers node es' k) as [[cs k'] b]. }
  rewrite answers_cons, (answers_cons e es). cbv zeta.
  destruct (answers node [e] k) as [[cs k'] []]; cbn [fst snd]; [|done]. rewrite IH. cbv zeta.
  destruct (answers node es k') as [[cs' k''] []]; cbn [fst snd]; [|done]. by rewrite app_assoc.
Qed.

Lemma on_event_spec e s :
  on_event node e s = Some ((answers node [e] (opens s)).2, answered (answers node [e] (opens s)) s).
Proof.
  unfold on_event. cbn [answers]. unfold is_slider.
  case_decide as E; [rewrite bool_decide_eq_true_2 by done|rewrite bool_decide_eq_false_2 by done].
  - unfold open_node, mbind, st_bind, st_get, st_modify. cbn [mret st_ret].
    rewrite position_spec. destruct (position (node (opens s))) as [st|].
    + unfold mbind, st_bind. rewrite run_all_spec. unfold answered. cbn. by rewrite app_nil_r.
    + unfold answered. cbn. by rewrite app_nil_r.
  - unfold answered. cbn. rewrite app_nil_r. by destruct s.
Qed.

Lemma read_all_spec rs : Forall recv_ok rs -> forall e s,
  read_all msg (on_event node) rs e s =
  Some ((answers node (handed rs e) (opens s)).2, answered (answers node (handed rs e) (opens s)) s).
Proof.
  assert (Hnil : forall s, Some (true, s) = Some (true, answered ([], opens s, true) s)).
  { intros [? ?]. unfold answered. cbn. by rewrite app_nil_r. }
  induction 1 as [|r rs Hr Hrs IH]; intros e s; cbn [read_all handed]; [apply Hnil|].
  unfold mbind at 1, st_bind, st_lift. rewrite ReadUevent_result by done. cbn [fmap option_fmap option_map].
  destruct r as [data|]; cbn [read_result fst snd]; [|apply Hnil].
  destruct (decide (length data = 0)%nat); cbn [fst snd]; [apply Hnil|].
  set (e' := if decide _ then _ else _).
  rewrite answers_cons. cbv zeta.
  unfold mbind, st_bind. rewrite on_event_spec.
  destruct (answers node [e'] (opens s)) as [[cs k'] []]; cbn [fst snd]; [|done].
  rewrite IH. unfold answered. cbn. by rewrite app_assoc.
Qed.
End daemon.

(** Without a message that fills the buffer, no event is handed over twice. *)
Lemma handed_messages rs e :
  Forall (fun m => (length m < UEVENT_MSG_LEN)%nat) (messages_of rs) -> handed rs e = map uevent_of (messages_of rs).
Proof.
  revert e. induction rs as [|[data|] rs IH]; intros e H; cbn [handed messages_of message_of] in *; [done| |done].
  case_decide; [done|]. apply Forall_cons in H as [Hd H].
  rewrite (decide_True _ _ Hd). cbn [map]. by rewrite IH.
Qed.

Lemma events_messages trace :
  Forall (fun m => (length m < UEVENT_MSG_LEN)%nat) (messages trace) ->
  (events trace).1 = map uevent_of (messages trace).
Proof.
  induction trace as [|[| |[] rs] trace IH]; intros H; cbn [events messages] in *; [done..|by apply IH| |].
  - apply Forall_app in H as [H1 H2]. specialize (IH H2). destruct (events trace) as [es b]. cbn [fst] in *.
    by rewrite handed_messages, IH, map_app.
  - specialize (IH H). by destruct (events trace) as [es b].
Qed.

(** ** Properties *)

(** (functional): for every message the kernel sends that is shorter than the
    buffer, whatever the stack held and the event was before, [ReadUevent] reads
    and writes inside its buffer, ends, and gives the event whose fields are the
    last values of the keys ACTION and DEVPATH in the message. *)
Theorem event_parsed msg data e :
  stack_buffer msg -> (0 < length data < UEVENT_MSG_LEN)%nat ->
  ReadUevent msg (Received data) e = Some (true, uevent_of data).
Proof.
  intros Hm Hd. rewrite ReadUevent_result; [|done|cbn [recv_ok]; lia].
  cbn [read_result]. rewrite decide_False, decide_True by lia. done.
Qed.

Definition slider_message : list Z :=
  bytes_of "change@/devices/virtual/switch/tri-state-key" ++ [0] ++ bytes_of "ACTION=change" ++ [0] ++
  bytes_of "DEVPATH=/devices/virtual/switch/tri-state-key" ++ [0] ++ bytes_of "SUBSYSTEM=switch" ++ [0].

Lemma event_parsed_witness :
  ReadUevent (replicate 2050 170) (Received slider_message) (mk_uevent [] []) =
  Some (true, mk_uevent (bytes_of "change") (bytes_of "/devices/virtual/switch/tri-state-key")).
Proof.
  rewrite (event_parsed (replicate 2050 170) slider_message (mk_uevent [] [])).
  - reflexivity.
  - reflexivity.
  - split; apply Nat.ltb_lt; reflexivity.
Defined.

(** C7 (refinement): the daemon does what it is specified to do, for every
    sequence of polls and receives and every content of the node: no access is
    outside a buffer; each event handed over that is one of the slider, in order, is
    answered with the commands of the position the node reports; a timeout of
    [poll] ends it, a line that is no number terminates it, and otherwise it goes
    on. If every message received is shorter than the buffer of 2048 bytes, the
    events handed over are those of the messages, one each. The exception are longer
    messages: one that fills the buffer, which the code logs as discarded, hands
    over the event of the message before it again, so that the commands of an event
    of the slider run a second time ([overflow_repeats]). *)
Theorem daemon_answers node msg trace s :
  stack_buffer msg -> Forall (fun p => match p with Event _ rs => Forall recv_ok rs | _ => True end) trace ->
  (let r := answers node (events trace).1 (opens s) in
   main node msg trace s =
   Some (if r.2 then if (events trace).2 then Returned else Waiting else Terminated, answered r s)) /\
  (Forall (fun m => (length m < UEVENT_MSG_LEN)%nat) (messages trace) ->
   (events trace).1 = map uevent_of (messages trace)).
Proof.
  intros Hm Ht. split; [|apply events_messages].
  unfold main. cbv zeta. revert s. induction Ht as [|p trace Hp Ht IH]; intros s.
  - unfold answered. cbn. rewrite app_nil_r. by destruct s.
  - destruct p as [| |pollin rs]; cbn [Poll events]; [|apply IH|].
    { unfold answered. cbn. rewrite app_nil_r. by destruct s. }
    specialize (IH).
    destruct (events trace) as [es b]. cbn [fst snd] in *.
    destruct pollin; [|apply IH].
    unfold mbind, st_bind. rewrite read_all_spec by done. rewrite answers_app. cbv zeta.
    destruct (answers node (handed rs (mk_uevent [] [])) (opens s)) as [[cs k] []]; cbn [fst snd]; [|done].
    rewrite IH. unfold answered. cbn. by rewrite app_assoc.
Qed.

(** (error): a message that fills the buffer is logged as discarded, but
    [ReadUevent] returns [true] and the event of the message before it: after an
    event of the slider its commands are run a second time. *)
Theorem overflow_repeats node msg data full rs s :
  stack_buffer msg -> (0 < length data < UEVENT_MSG_LEN)%nat -> length full = UEVENT_MSG_LEN ->
  Forall recv_ok rs -> 
  main node msg [Event true (Received data :: Received full :: rs)] s =
  main node msg [Event true (Received data :: Received data :: rs)] s.
Proof.
  intros Hm Hd Hf Hrs. unfold main. cbn [Poll]. unfold mbind, st_bind.
  assert (recv_ok (Received data) /\ recv_ok (Received full)) as [H1 H2] by (cbn [recv_ok]; lia).
  rewrite !read_all_spec by (done || by repeat apply Forall_cons_2).
  cbn [handed]. rewrite !(decide_False (P := length data = 0%nat)) by lia.
  rewrite !(decide_True (P := (length data < UEVENT_MSG_LEN)%nat)) by lia.
  rewrite Hf. rewrite (decide_False (P := UEVENT_MSG_LEN = 0%nat)) by done.
  rewrite (decide_False (P := (UEVENT_MSG_LEN < UEVENT_MSG_LEN)%nat)) by lia. done.
Qed.

Definition slider_node (k : nat) : option (list (list Z)) := Some [bytes_of "3"].

Lemma daemon_answers_witness :
  let trace := [Event true [Received slider_message; Failed]; Error; Timeout] in
  main slider_node (replicate 2050 170) trace (mk_state 0 []) = Some (Returned, mk_state 1 (slider_commands 3)) /\
  (events trace).1 = [uevent_of slider_message].
Proof.
  intros trace. destruct (daemon_answers slider_node (replicate 2050 170) trace (mk_state 0 [])) as [H1 H2].
  - reflexivity.
  - apply Forall_cons; split; [|by repeat constructor].
    apply Forall_cons; split; [apply Nat.leb_le; reflexivity|by repeat constructor].
  - split; [rewrite H1; vm_compute; reflexivity|]. apply H2.
    apply Forall_cons; split; [apply Nat.ltb_lt; reflexivity|constructor].
Defined.

Lemma overflow_repeats_witness :
  main slider_node (replicate 2050 170) [Event true [Received slider_message; Received (replicate 2048 0)]] (mk_state 0 []) =
  Some (Waiting, mk_state 2 (slider_commands 3 ++ slider_commands 3)).
Proof.
  rewrite (overflow_repeats slider_node (replicate 2050 170) slider_message (replicate 2048 0) [] (mk_state 0 [])).
  - vm_compute. reflexivity.
  - reflexivity.
  - split; apply Nat.ltb_lt; reflexivity.
  - reflexivity.
  - constructor.
Defined.
