(* ===== verification/UsbHal.v ===== *)
(** * The USB service

    [native_packages/usb/1.0-basic]: [Usb.cpp] answers the calls of the framework,
    [service.cpp] registers it. The object has a callback and a mutex; a call is
    the sequence of its steps on them, and calls on several threads interleave.
    The binder library and the remote callback are outside: a notification is
    recorded with its port states. Logging is left out, and the result of a
    notification is only logged. *)
From S2P Require Import Prelude.

(** ** Data of the interface *)

Section hal.
(** The enumerations of the HIDL interface and the enumerators used. *)
Context {PortDataRole PortPowerRole PortMode : Type}.
Context (DEVICE : PortDataRole) (SINK : PortPowerRole) (UFP : PortMode).

Record PortStatus : Type := mk_PortStatus {
  portName : string;
  currentDataRole : PortDataRole;
  currentPowerRole : PortPowerRole;
  currentMode : PortMode;
  canChangeMode : bool;
  canChangeDataRole : bool;
  canChangePowerRole : bool;
  supportedModes : PortMode
}.

Definition currentPortStatus : list PortStatus :=
  [mk_PortStatus "otg_default" DEVICE SINK UFP false false false UFP].

(** The object: [NULL] is [None]; [mLock] has the thread that holds the mutex. *)
Record Usb : Type := mk_Usb {
  mCallback : option Z;
  mLock : option nat;
  notified : list (Z * list PortStatus)
}.

Definition Usb_init : Usb := mk_Usb None None [].

(** ** Steps and calls

    A step is one access of a call to what the threads share. The test of the
    callback and the call through it are two reads of [mCallback]. *)

Inductive instr : Type :=
| Mutex_lock
| If_callback (then_ : list instr)
| Notify (status : list PortStatus)
| Assign_callback (callback : option Z)
| Mutex_unlock.

Definition switchRole (portName : string) (newRole : Z) : list instr := [].

Definition queryPortStatus : list instr :=
  [Mutex_lock; If_callback [Notify currentPortStatus]; Mutex_unlock].

Definition setCallback (callback : option Z) : list instr :=
  [Mutex_lock; Assign_callback callback; Mutex_unlock].

Inductive outcome : Type :=
| Next (rest : list instr) (u : Usb)
| Blocked
| Fault.

(** A step of thread [t], which has [p] to do behind it. A call through the null
    callback faults, and so does unlocking a mutex that the thread does not hold. *)
Definition step_instr (t : nat) (i : instr) (p : list instr) (u : Usb) : outcome :=
  match i with
  | Mutex_lock => match mLock u with None => Next p (mk_Usb (mCallback u) (Some t) (notified u)) | Some _ => Blocked end
  | If_callback th => Next (match mCallback u with Some _ => th ++ p | None => p end) u
  | Notify st => match mCallback u with
                 | Some cb => Next p (mk_Usb (mCallback u) (mLock u) (notified u ++ [(cb, st)]))
                 | None => Fault
                 end
  | Assign_callback cb => Next p (mk_Usb cb (mLock u) (notified u))
  | Mutex_unlock => if decide (mLock u = Some t) then Next p (mk_Usb (mCallback u) None (notified u)) else Fault
  end.

(** The accesses of an instruction to [mCallback]. *)
Definition reads_callback (i : instr) : bool :=
  match i with If_callback _ | Notify _ => true | _ => false end.
Definition writes_callback (i : instr) : bool :=
  match i with Assign_callback _ => true | _ => false end.

Inductive call : Type :=
| SwitchRole (portName : string) (newRole : Z)
| QueryPortStatus
| SetCallback (callback : option Z).

Definition body (c : call) : list instr :=
  match c with
  | SwitchRole n r => switchRole n r
  | QueryPortStatus => queryPortStatus
  | SetCallback cb => setCallback cb
  end.

(** Threads with what is left of their calls, and the object. *)
Definition pool : Type := list (list instr) * Usb.

Inductive step : pool -> pool -> Prop :=
| step_thread t i p q ps u u' :
    ps !! t = Some (i :: p) -> step_instr t i p u = Next q u' -> step (ps, u) (<[t := q]> ps, u').

(** The next step of some thread faults. *)
Definition faulty (x : pool) : Prop :=
  exists t i p, x.1 !! t = Some (i :: p) /\ step_instr t i p x.2 = Fault.

(** Two threads are about to access the callback, one of them to write it. *)
Definition race (x : pool) : Prop :=
  exists t1 t2 i1 i2 p1 p2, t1 <> t2 /\ x.1 !! t1 = Some (i1 :: p1) /\ x.1 !! t2 = Some (i2 :: p2) /\
    writes_callback i1 /\ (reads_callback i2 || writes_callback i2).

Definition start (calls : list call) (u : Usb) : pool := (map body calls, u).
Definition finished (c : pool) : Prop := Forall (fun p => p = []) c.1.

(** [service.cpp]: [registered] is the status of the registration, 0 for [OK]. *)
Definition service_main (registered : Z) : Z :=
  if registered =? 0 then 1 else 1.

(** ** What a call is to do *)

Definition effect (c : call) (u : Usb) : Usb :=
  match c with
  | SwitchRole _ _ => u
  | QueryPortStatus => mk_Usb (mCallback u) (mLock u)
      (match mCallback u with Some cb => notified u ++ [(cb, currentPortStatus)] | None => notified u end)
  | SetCallback cb => mk_Usb cb (mLock u) (notified u)
  end.

(** The calls with the numbers [order] one after the other. *)
Fixpoint in_order (calls : list call) (order : list nat) (u : Usb) : Usb :=
  match order with
  | [] => u
  | t :: order => in_order calls order (match calls !! t with Some c => effect c u | None => u end)
  end.

Definition with_lock (l : option nat) (u : Usb) : Usb := mk_Usb (mCallback u) l (notified u).

Definition is_switch (c : call) : bool := match c with SwitchRole _ _ => true | _ => false end.

(** What the calls do between locking and unlocking. *)
Definition middle (c : call) : instr :=
  match c with
  | SetCallback cb => Assign_callback cb
  | _ => If_callback [Notify currentPortStatus]
  end.

Lemma body_cases c : body c = if is_switch c then [] else [Mutex_lock; middle c; Mutex_unlock].
Proof. by destruct c. Qed.

Lemma in_order_snoc calls order t c u : calls !! t = Some c ->
  in_order calls (order ++ [t]) u = effect c (in_order calls order u).
Proof. revert u. induction order as [|t' order IH]; intros u Hc; cbn; [by rewrite Hc|by apply IH]. Qed.

(** The middle of a call either has its whole effect or leads to the
    notification, with a callback to notify. *)
Lemma middle_step t c l u : is_switch c = false ->
  step_instr t (middle c) [Mutex_unlock] (with_lock l u) = Next [Mutex_unlock] (with_lock l (effect c u)) \/
  c = QueryPortStatus /\ is_Some (mCallback u) /\
  step_instr t (middle c) [Mutex_unlock] (with_lock l u) = Next [Notify currentPortStatus; Mutex_unlock] (with_lock l u).
Proof. destruct c, u as [[cb|] l' n]; cbn; try done; intros _; [right; eauto|by left..]. Qed.

Lemma notify_step t l u : is_Some (mCallback u) ->
  step_instr t (Notify currentPortStatus) [Mutex_unlock] (with_lock l u) =
  Next [Mutex_unlock] (with_lock l (effect QueryPortStatus u)).
Proof. destruct u; intros [cb H]; cbn in *; by subst. Qed.

(** *** Every step brings the end of the calls nearer *)

Fixpoint weight (i : instr) : nat :=
  match i with
  | If_callback th => S (sum_list_with weight th)
  | _ => 1
  end.

Definition work (x : pool) : nat := sum_list_with (sum_list_with weight) x.1.

Lemma step_instr_weight t i p u q u' : step_instr t i p u = Next q u' ->
  (sum_list_with weight q < weight i + sum_list_with weight p)%nat.
Proof.
  destruct i; cbn; repeat case_match; intros [= <- <-]; rewrite ?sum_list_with_app; lia.
Qed.

Lemma sum_insert {A} (f : A -> nat) l t a b : l !! t = Some a ->
  (sum_list_with f (<[t := b]> l) + f a = sum_list_with f l + f b)%nat.
Proof.
  revert t. induction l as [|c l IH]; intros [|t] H; cbn in *; [done..| |].
  - injection H as ->. change (f b + sum_list_with f l + f a = f a + sum_list_with f l + f b)%nat. lia.
  - specialize (IH t H). change (f c + sum_list_with f (<[t := b]> l) + f a = f c + sum_list_with f l + f b)%nat. lia.
Qed.

Lemma step_work x y : step x y -> (work y < work x)%nat.
Proof.
  destruct 1 as [t i p q ps u u' Ht Hi]. unfold work; cbn.
  pose proof (sum_insert (sum_list_with weight) ps t _ q Ht) as H. cbn in H.
  apply step_instr_weight in Hi. lia.
Qed.

Lemma nsteps_work n x y : nsteps step n x y -> (n + work y <= work x)%nat.
Proof. induction 1 as [|n x y z Hs _ IH]; [lia|]. apply step_work in Hs. lia. Qed.

Lemma start_work calls u : (work (start calls u) <= 4 * length calls)%nat.
Proof.
  unfold work, start; cbn. induction calls as [|c calls IH]; cbn; [lia|].
  assert (sum_list_with weight (body c) <= 4)%nat by (destruct c; cbn; lia). lia.
Qed.

(** ** The invariant of an interleaving *)

Section interleaving.
Context (calls : list call) (u0 : Usb) (Hfree : mLock u0 = None).

(** Where thread [t] is when the calls of [order] have had their effect, [holder]
    has the mutex and the callback is [cb]: behind its call, before it, or inside. *)
Definition place (cb : option Z) (order : list nat) (holder : option nat) (t : nat) (c : call)
    (p : list instr) : Prop :=
  ((t ∈ order) /\ p = [] /\ holder <> Some t) \/
  ((t ∉ order) /\ p = body c /\ holder <> Some t) \/
  ((t ∉ order) /\ p = [middle c; Mutex_unlock] /\ holder = Some t /\ is_switch c = false) \/
  ((t ∉ order) /\ p = [Notify currentPortStatus; Mutex_unlock] /\ holder = Some t /\
    c = QueryPortStatus /\ is_Some cb) \/
  ((t ∈ order) /\ p = [Mutex_unlock] /\ holder = Some t /\ is_switch c = false).

Record inv (x : pool) (order : list nat) (holder : option nat) : Prop := mk_inv {
  inv_length : length x.1 = length calls;
  inv_nodup : NoDup order;
  inv_order : forall t, t ∈ order -> exists c, calls !! t = Some c /\ is_switch c = false;
  inv_usb : x.2 = with_lock holder (in_order calls order u0);
  inv_place : forall t c p, calls !! t = Some c -> x.1 !! t = Some p ->
    place (mCallback x.2) order holder t c p;
  inv_holder : forall t, holder = Some t -> is_Some (calls !! t)
}.

Lemma inv_start : inv (start calls u0) [] None.
Proof.
  split; cbn.
  - apply length_map.
  - constructor.
  - intros t Ht. by apply elem_of_nil in Ht.
  - destruct u0; cbn in *; by subst.
  - intros t c p Hc Hp. right; left. change (map body calls) with (body <$> calls) in Hp.
    rewrite list_lookup_fmap, Hc in Hp. injection Hp as <-. split_and!; [apply not_elem_of_nil|done..].
  - done.
Qed.

(** The mutex is free or held by [t]. *)
Definition only (t : nat) (holder : option nat) : Prop := holder = None \/ holder = Some t.

(** The places of the threads that do not move. *)
Lemma place_other cb cb' order order' holder holder' t t' c p :
  t' <> t -> only t holder -> only t holder' -> (t' ∈ order' <-> t' ∈ order) ->
  place cb order holder t' c p -> place cb' order' holder' t' c p.
Proof.
  intros Hne Hh Hh' Ho. assert (holder <> Some t' /\ holder' <> Some t') as [? ?].
  { split; [destruct Hh|destruct Hh']; congruence. }
  unfold place. rewrite !Ho. tauto.
Qed.

Lemma insert_place (ps : list (list instr)) cb cb' order order' holder holder' t c0 p0 q :
  (forall t' c p, calls !! t' = Some c -> ps !! t' = Some p -> place cb order holder t' c p) ->
  calls !! t = Some c0 -> ps !! t = Some p0 -> place cb' order' holder' t c0 q ->
  only t holder -> only t holder' -> (forall t', t' <> t -> (t' ∈ order' <-> t' ∈ order)) ->
  forall t' c p, calls !! t' = Some c -> <[t := q]> ps !! t' = Some p -> place cb' order' holder' t' c p.
Proof.
  intros Hps Hc0 Hp0 Hq Hh Hh' H t' c p Hc Hp. destruct (decide (t' = t)) as [->|Hne].
  - rewrite list_lookup_insert_eq in Hp by (by eapply lookup_lt_Some). simplify_eq. done.
  - rewrite list_lookup_insert_ne in Hp by done.
    eapply place_other; [done|exact Hh|done|by apply H|by apply Hps].
Qed.

Lemma insert_inv (ps : list (list instr)) order order' holder holder' t c p u q u' :
  inv (ps, u) order holder -> calls !! t = Some c -> ps !! t = Some p ->
  only t holder -> only t holder' ->
  (order' = order \/ order' = order ++ [t] /\ (t ∉ order) /\ is_switch c = false) ->
  u' = with_lock holder' (in_order calls order' u0) ->
  place (mCallback u') order' holder' t c q ->
  inv (<[t := q]> ps, u') order' holder'.
Proof.
  intros [Hl Hn Ho Hu Hp Hh] Hc Ht Honly Honly' Horder Hu' Hq. split; cbn in *.
  - by rewrite length_insert.
  - destruct Horder as [-> | (-> & Hno & _)]; [done|]. apply NoDup_app.
    split_and!; [done| |apply NoDup_singleton]. intros x Hx ->%list_elem_of_singleton. done.
  - destruct Horder as [-> | (-> & _ & Hsw)]; [done|].
    intros t' [? | ->%list_elem_of_singleton]%elem_of_app; eauto.
  - done.
  - eapply insert_place; [done..|]. intros t' Hne. destruct Horder as [-> | (-> & _)]; [done|].
    rewrite elem_of_app, list_elem_of_singleton. split; [intros [? | ?]; done|by left].
  - intros t' ->. destruct Honly' as [? | [= ->]]; [done|by eauto].
Qed.

Lemma inv_effect ps u order t c p q : inv (ps, u) order (Some t) ->
  calls !! t = Some c -> ps !! t = Some p -> (t ∉ order) -> is_switch c = false ->
  q = [Mutex_unlock] ->
  inv (<[t := q]> ps, with_lock (Some t) (effect c (in_order calls order u0))) (order ++ [t]) (Some t).
Proof.
  intros Hi Hc Ht Hno Hsw ->. eapply insert_inv; [done..|by right|by right|by right| |].
  - by rewrite (in_order_snoc _ _ _ c).
  - do 4 right. split_and!; try done. apply elem_of_app. right. by apply list_elem_of_singleton.
Qed.

Lemma inv_step x y order holder : inv x order holder -> step x y ->
  exists order' holder', inv y order' holder'.
Proof.
  intros Hi Hs. destruct Hs as [t i p q ps u u' Ht Hq].
  pose proof Hi as [Hl Hn Ho Hu Hp Hh]. cbn in Hl, Ho, Hu, Hp, Hh.
  assert (exists c, calls !! t = Some c) as [c Hc].
  { apply lookup_lt_is_Some_2. rewrite <- Hl. by eapply lookup_lt_Some. }
  destruct (Hp t c _ Hc Ht) as [(?&?&?) | [(Hno & Hb & Hnh) | [(Hno & Hb & -> & Hsw) |
    [(Hno & Hb & -> & -> & Hcb) | (Hin & Hb & -> & Hsw)]]]]; [done|..].
  - (* the mutex is taken *)
    rewrite body_cases in Hb. destruct (is_switch c) eqn:Hsw; [done|]. injection Hb as -> ->.
    subst u. cbn in Hq. destruct holder; [done|]. injection Hq as <- <-.
    exists order, (Some t). eapply insert_inv; [done..|by left|by right|by left|done|].
    right; right; left. done.
  - injection Hb as -> ->. rewrite Hu in Hq.
    destruct (middle_step t c (Some t) (in_order calls order u0) Hsw) as [E | (-> & Hcb & E)];
      rewrite E in Hq; injection Hq as <- <-.
    + exists (order ++ [t]), (Some t). by eapply inv_effect.
    + exists order, (Some t). eapply insert_inv; [done..|by right|by right|by left|done|].
      do 3 right; left. done.
  - injection Hb as -> ->. rewrite Hu in Hq, Hcb. rewrite notify_step in Hq by done. injection Hq as <- <-.
    exists (order ++ [t]), (Some t). by eapply (inv_effect _ _ _ _ QueryPortStatus).
  - injection Hb as -> ->. rewrite Hu in Hq. cbn in Hq. rewrite decide_True in Hq by done. injection Hq as <- <-.
    exists order, None. eapply insert_inv; [done..|by right|by left|by left|done|]. by left.
Qed.

Lemma inv_reachable x : rtc step (start calls u0) x -> exists order holder, inv x order holder.
Proof.
  intros Hr. assert (forall y, rtc step y x -> (exists o h, inv y o h) -> exists o h, inv x o h) as H.
  { induction 1 as [|a b d Hab _ IH]; [done|]. intros (o & h & Hi). exact (IH Hr (inv_step _ _ _ _ Hi Hab)). }
  apply (H _ Hr). exists [], None. apply inv_start.
Qed.

(** What the next step of a thread can be. *)
Lemma inv_next ps u order holder t i p : inv (ps, u) order holder -> ps !! t = Some (i :: p) ->
  (i = Mutex_lock /\ (holder = None -> exists q u', step_instr t i p u = Next q u')) \/
  (holder = Some t /\ exists q u', step_instr t i p u = Next q u').
Proof.
  intros [Hl Hn Ho Hu Hp Hh] Ht. cbn in *. subst u.
  destruct (lookup_lt_is_Some_2 calls t) as [c Hc]; [rewrite <- Hl; by eapply lookup_lt_Some|].
  destruct (Hp t c _ Hc Ht) as [(?&?&?) | [(_ & Hb & _) | [(_ & [= -> ->] & -> & Hsw) |
    [(_ & [= -> ->] & -> & _ & Hcb) | (_ & [= -> ->] & -> & _)]]]]; [done|left|right..].
  - rewrite body_cases in Hb. destruct (is_switch c); [done|]. injection Hb as -> ->.
    split; [done|]. intros ->. by eexists _, _.
  - split; [done|]. destruct (middle_step t c (Some t) (in_order calls order u0) Hsw) as [-> | (_ & _ & ->)];
      by eexists _, _.
  - split; [done|]. rewrite notify_step by done. by eexists _, _.
  - split; [done|]. cbn. rewrite decide_True by done. by eexists _, _.
Qed.

Lemma inv_not_faulty x order holder : inv x order holder -> ~ faulty x.
Proof.
  destruct x as [ps u]. intros Hi (t & i & p & Ht & Hf).
  destruct (inv_next _ _ _ _ _ _ _ Hi Ht) as [[-> _] | (_ & q & u' & E)].
  - cbn in Hf. by destruct (mLock u).
  - cbn in Hf. by rewrite E in Hf.
Qed.

Lemma inv_no_race x order holder : inv x order holder -> ~ race x.
Proof.
  destruct x as [ps u]. intros Hi (t1 & t2 & i1 & i2 & p1 & p2 & Hne & H1 & H2 & Hw & Ha).
  destruct (inv_next _ _ _ _ _ _ _ Hi H1) as [[-> _] | (-> & _)]; [done|].
  destruct (inv_next _ _ _ _ _ _ _ Hi H2) as [[-> _] | (E & _)]; [done|].
  by injection E as E.
Qed.

(** The thread inside its call can move; if none is, every other can. *)
Lemma inv_progress x order holder : inv x order holder -> finished x \/ exists y, step x y.
Proof.
  intros Hi. destruct x as [ps u]. pose proof Hi as [Hl _ _ _ Hp Hh]. cbn in *.
  destruct holder as [t|].
  - right. destruct (Hh t eq_refl) as [c Hc].
    destruct (lookup_lt_is_Some_2 ps t) as [p Ht]; [rewrite Hl; by eapply lookup_lt_Some|].
    assert (exists i q, p = i :: q /\ i <> Mutex_lock) as (i & q & -> & Hne).
    { destruct (Hp t c p Hc Ht) as [(?&?&?) | [(?&?&?) | [(_ & -> & _) | [(_ & -> & _) | (_ & -> & _)]]]];
        [done..| | |]; eexists _, _; (split; [done|]); [by destruct c|done..]. }
    destruct (inv_next _ _ _ _ _ _ _ Hi Ht) as [[? _] | (_ & q' & u' & H)]; [done|].
    eexists. by econstructor.
  - destruct (decide (Forall (fun p => p = []) ps)) as [Hf|Hf]; [by left|right].
    apply not_Forall_Exists in Hf; [|intros p; apply _].
    apply Exists_exists in Hf as ([|i p] & [t Ht]%list_elem_of_lookup_1 & Hne); [by destruct Hne|].
    destruct (inv_next _ _ _ _ _ _ _ Hi Ht) as [[_ H] | (? & _)]; [|done].
    destruct (H eq_refl) as (q & u' & H'). eexists. by econstructor.
Qed.

Lemma inv_finished x order holder : inv x order holder -> finished x ->
  holder = None /\ forall t, t ∈ order <-> exists c, calls !! t = Some c /\ is_switch c = false.
Proof.
  intros [Hl Hn Ho Hu Hp Hh] Hf. unfold finished in Hf.
  assert (forall t c, calls !! t = Some c -> place (mCallback x.2) order holder t c []) as Hp'.
  { intros t c Hc. destruct (lookup_lt_is_Some_2 x.1 t) as [p Ht]; [rewrite Hl; by eapply lookup_lt_Some|].
    pose proof (Forall_lookup_1 _ _ _ _ Hf Ht) as E. cbn in E. subst p. by apply Hp. }
  split.
  - destruct holder as [t|]; [|done]. destruct (Hh t eq_refl) as [c Hc].
    destruct (Hp' t c Hc) as [(?&?&?) | [(?&?&?) | [(?&?&?) | [(?&?&?) | (?&?&?)]]]]; done.
  - intros t. split; [apply Ho|]. intros (c & Hc & Hsw).
    destruct (Hp' t c Hc) as [(?&?&?) | [(? & Hb & ?) | [(?&?&?) | [(?&?&?) | (?&?&?)]]]]; try done.
    rewrite body_cases, Hsw in Hb. done.
Qed.
End interleaving.

(** ** Without the mutex

    The bodies alone race: when a thread has tested the callback, another sets it
    to null, and the notification goes through the null callback. *)

Example without_mutex status :
  let start := ([[If_callback [Notify status]]; [Assign_callback None]], mk_Usb (Some 7) None []) in
  race start /\ exists x, rtc step start x /\ faulty x.
Proof.
  split.
  - exists 1%nat, 0%nat. by eexists _, _, _, _.
  - eexists. split.
    + eapply rtc_l; [eapply (step_thread 0); reflexivity|]. eapply rtc_l; [eapply (step_thread 1); reflexivity|].
      apply rtc_refl.
    + by eexists 0%nat, _, _.
Qed.

(** ** Properties *)

(** C9 (refinement): however the steps of concurrent calls on the service
    interleave, from a state in which its mutex is free, no call faults: none
    notifies through a callback that another has set to null between its test and
    its use, and none unlocks a mutex it does not hold. There is no data race on the
    callback and no deadlock, and the calls end after at most four steps each. When
    all are finished the mutex is free again, and the callback and the
    notifications sent are those of the calls made one after the other, in some
    order; every notification has the fixed state of the one port and goes to the
    callback set last. *)
Theorem calls_atomic calls u n x :
  mLock u = None -> nsteps step n (start calls u) x ->
  ~ faulty x /\ ~ race x /\ (finished x \/ exists y, step x y) /\ (n <= 4 * length calls)%nat /\
  (finished x -> exists order, NoDup order /\
    (forall t, t ∈ order <-> exists c, calls !! t = Some c /\ is_switch c = false) /\
    x.2 = in_order calls order u /\ mLock x.2 = None).
Proof.
  intros Hu Hr. destruct (inv_reachable calls u Hu x (rtc_nsteps_2 _ _ _ Hr)) as (order & holder & Hi).
  split_and!; [by eapply inv_not_faulty|by eapply inv_no_race|by eapply inv_progress| |].
  - pose proof (nsteps_work _ _ _ Hr). pose proof (start_work calls u). lia.
  - intros Hf. destruct (inv_finished calls u x order holder Hi Hf) as [-> Ho].
    exists order. split_and!; [apply Hi|done| |]; rewrite (inv_usb _ _ _ _ _ Hi); [|done].
    assert (forall o u, mLock u = None -> mLock (in_order calls o u) = None) as Hlock.
    { induction o as [|t o IH]; intros v Hv; [done|]. apply IH. by destruct (calls !! t) as [[]|]. }
    specialize (Hlock order u Hu). destruct (in_order calls order u); cbn in *; by subst.
Qed.

End hal.

Lemma calls_atomic_witness :
  let status := currentPortStatus "DEVICE"%string "SINK"%string "UFP"%string in
  let effect_on := in_order "DEVICE"%string "SINK"%string "UFP"%string in
  let calls := [SetCallback (Some 7); QueryPortStatus; SwitchRole "otg_default" 1] in
  let u := mk_Usb (Some 7) None [(7, status)] in
  exists order, NoDup order /\
    (forall t, t ∈ order <-> exists c, calls !! t = Some c /\ is_switch c = false) /\
    u = effect_on calls order Usb_init /\ mLock u = None.
Proof.
  cbv zeta.
  apply (calls_atomic "DEVICE"%string "SINK"%string "UFP"%string
    [SetCallback (Some 7); QueryPortStatus; SwitchRole "otg_default" 1] Usb_init 7
    ([[]; []; []], mk_Usb (Some 7) None [(7, currentPortStatus "DEVICE"%string "SINK"%string "UFP"%string)])).
  - reflexivity.
  - do 3 (eapply nsteps_l; [eapply (step_thread 0); reflexivity|cbn]).
    do 4 (eapply nsteps_l; [eapply (step_thread 1); reflexivity|cbn]).
    apply nsteps_O.
  - by repeat constructor.
Defined.
