(* ===== verification/RecoveryUi.v ===== *)
(** * The recovery menu

    [recovery/recovery_ui.cpp]: the device class of the recovery. The base class,
    the actions and the drawing are those of the recovery library, outside this
    repository; the actions are parameters. *)
From S2P Require Import Prelude.

(** The array that is passed to C code ends in [NULL]. *)
Definition HEADERS : list (option string) :=
  [Some "Volume up/down to move highlight;"; Some "power button to select."; Some EmptyString; None]%string.

Definition ITEMS : list string :=
  ["reboot system now"; "apply update from ADB"; "wipe data/factory reset"; "wipe cache partition"]%string.

Section recovery.
Context {BuiltinAction : Type} (NO_ACTION REBOOT APPLY_ADB_SIDELOAD WIPE_DATA WIPE_CACHE : BuiltinAction).

Definition InvokeMenuItem (menu_position : N) : BuiltinAction :=
  match menu_position with
  | 0 => REBOOT
  | 1 => APPLY_ADB_SIDELOAD
  | 2 => WIPE_DATA
  | 3 => WIPE_CACHE
  | _ => NO_ACTION
  end%N.

Definition GetMenuHeaders : list (option string) := HEADERS.
Definition GetMenuItems : list string := ITEMS.

(** The action an item promises. *)
Definition promised (item : string) : BuiltinAction :=
  if String.eqb item "reboot system now" then REBOOT
  else if String.eqb item "apply update from ADB" then APPLY_ADB_SIDELOAD
  else if String.eqb item "wipe data/factory reset" then WIPE_DATA
  else if String.eqb item "wipe cache partition" then WIPE_CACHE
  else NO_ACTION.

(** Every item invokes what it says, and a position behind the menu nothing. *)
Lemma items_invoked n :
  InvokeMenuItem n = match GetMenuItems !! N.to_nat n with Some item => promised item | None => NO_ACTION end.
Proof.
  destruct (decide (n < 4)%N) as [Hn|Hn].
  - assert (n = 0 \/ n = 1 \/ n = 2 \/ n = 3)%N as [-> | [-> | [-> | ->]]] by lia; reflexivity.
  - rewrite lookup_ge_None_2 by (unfold GetMenuItems, ITEMS; cbn [length]; lia).
    destruct n as [|p]; [lia|]. do 3 (destruct p as [p|p|]; try lia; try done).
Qed.

(** The headers are a [NULL]-terminated array of strings. *)
Lemma headers_terminated : exists hs, GetMenuHeaders = map Some hs ++ [None].
Proof. by exists ["Volume up/down to move highlight;"; "power button to select."; EmptyString]%string. Qed.
End recovery.
