(* ===== verification/VideoTimings.v ===== *)
(** * Video timings

    The timing tables of two headers: [DvTimings] has the timings of
    [linux/v4l2-dv-timings.h] with the macros of [linux/videodev2.h] that compute
    frame sizes; [HdmiModes] those of [video/msm_hdmi_modes.h] and the macros that
    fill a driver's table with them. The names of the timings say what they are;
    the theorems compare the numbers with the names. *)
From S2P Require Import Prelude.
From S2P Require Import CLayout.
From S2P Require Import CConst.
From S2P Require Import ConstDisplay.
From S2P Require Import Text.
#[local] Open Scope Z_scope.
#[local] Open Scope c_scope.

(** Two propositions decided alike. *)
Lemma eqb_bool_decide P Q `{Decision P, Decision Q} :
  eqb (bool_decide P) (bool_decide Q) = true -> P <-> Q.
Proof. rewrite eqb_true_iff. intros E.
  split; intros HP; eapply bool_decide_eq_true_1; [rewrite <- E|rewrite E]; by apply bool_decide_eq_true_2.
Qed.

(** ** Reading names *)

Definition strip (p s : list Z) : option (list Z) :=
  if decide (take (length p) s = p) then Some (drop (length p) s) else None.

Definition read_number (s : list Z) : option (Z * list Z) :=
  match digits s with
  | [] => None
  | ds => Some (foldl (fun v c => 10 * v + (c - 48)) 0 ds, drop (length ds) s)
  end.

(** What a name says: the size of the picture, whether it is interlaced, the
    rate in hundredths of a hertz, and what follows. *)
Record mode_name : Type := mk_mode_name {
  n_width : Z; n_height : Z; n_interlaced : bool; n_rate : Z; n_rest : list Z
}.

(** A width, [x], a height, the letter for the scan and a rate, which may have a
    fraction. *)
Definition read_mode (x progressive interlaced : string) (s : list Z) : option mode_name :=
  '(w, s) ← read_number s; s ← strip (bytes_of x) s;
  '(h, s) ← read_number s;
  '(il, s) ← (match strip (bytes_of progressive) s with
    | Some s => Some (false, s)
    | None => s ← strip (bytes_of interlaced) s; Some (true, s)
    end);
  '(f, s) ← read_number s;
  match strip (bytes_of "_94") s with
  | Some s => Some (mk_mode_name w h il (100 * f + 94) s)
  | None => Some (mk_mode_name w h il (100 * f) s)
  end.

(** ** [linux/v4l2-dv-timings.h] *)

Module DvTimings.

(** The constants of [videodev2.h]. *)
Definition V4L2_DV_PROGRESSIVE : Z := 0.
Definition V4L2_DV_INTERLACED : Z := 1.
Definition V4L2_DV_VSYNC_POS_POL : Z := 0x00000001.
Definition V4L2_DV_HSYNC_POS_POL : Z := 0x00000002.
Definition V4L2_DV_BT_STD_CEA861 : Z := 1 ≪ 0.
Definition V4L2_DV_BT_STD_DMT : Z := 1 ≪ 1.
Definition V4L2_DV_BT_STD_CVT : Z := 1 ≪ 2.
Definition V4L2_DV_BT_STD_GTF : Z := 1 ≪ 3.
Definition V4L2_DV_FL_REDUCED_BLANKING : Z := 1 ≪ 0.
Definition V4L2_DV_FL_CAN_REDUCE_FPS : Z := 1 ≪ 1.
Definition V4L2_DV_FL_REDUCED_FPS : Z := 1 ≪ 2.
Definition V4L2_DV_FL_HALF_LINE : Z := 1 ≪ 3.
Definition V4L2_DV_FL_IS_CE_VIDEO : Z := 1 ≪ 4.
Definition V4L2_DV_BT_656_1120 : Z := 0.

Record v4l2_bt_timings : Type := mk_bt {
  width : Z; height : Z; interlaced : Z; polarities : Z; pixelclock : Z;
  hfrontporch : Z; hsync : Z; hbackporch : Z; vfrontporch : Z; vsync : Z; vbackporch : Z;
  il_vfrontporch : Z; il_vsync : Z; il_vbackporch : Z; standards : Z; flags : Z
}.

Record v4l2_dv_timings : Type := mk_dv { type : Z; bt : v4l2_bt_timings }.

(** The initialiser of the tables, with the type all of them have. *)
Definition timing (width height interlaced polarities pixelclock hfrontporch hsync hbackporch vfrontporch vsync
    vbackporch il_vfrontporch il_vsync il_vbackporch standards flags : Z) : v4l2_dv_timings :=
  mk_dv V4L2_DV_BT_656_1120 (mk_bt width height interlaced polarities pixelclock hfrontporch hsync hbackporch
    vfrontporch vsync vbackporch il_vfrontporch il_vsync il_vbackporch standards flags).
Definition no_timings : v4l2_dv_timings := timing 0 0 0 0 0 0 0 0 0 0 0 0 0 0 0 0.

Fixpoint find_timing (n : string) (l : list (string * v4l2_dv_timings)) : option v4l2_dv_timings :=
  match l with
  | [] => None
  | (m, t) :: l => if String.eqb n m then Some t else find_timing n l
  end.

(** *** Sizes of a frame, in 32-bit arithmetic *)

Definition V4L2_DV_BT_BLANKING_WIDTH (bt : v4l2_bt_timings) : Z :=
  u32 (u32 (hfrontporch bt + hsync bt) + hbackporch bt).
Definition V4L2_DV_BT_FRAME_WIDTH (bt : v4l2_bt_timings) : Z := u32 (width bt + V4L2_DV_BT_BLANKING_WIDTH bt).
Definition V4L2_DV_BT_BLANKING_HEIGHT (bt : v4l2_bt_timings) : Z :=
  u32 (u32 (u32 (u32 (u32 (vfrontporch bt + vsync bt) + vbackporch bt) + il_vfrontporch bt) + il_vsync bt) +
    il_vbackporch bt).
Definition V4L2_DV_BT_FRAME_HEIGHT (bt : v4l2_bt_timings) : Z := u32 (height bt + V4L2_DV_BT_BLANKING_HEIGHT bt).

(** *** The timings *)

Definition cea_timings_1 : list (string * v4l2_dv_timings) := [
    ("V4L2_DV_BT_CEA_640X480P59_94", timing 640 480 0 0
      25175000 16 96 48 10 2 33 0 0 0 (V4L2_DV_BT_STD_DMT ||| V4L2_DV_BT_STD_CEA861) 0);
    ("V4L2_DV_BT_CEA_720X480I59_94", timing 720 480 1 0
      13500000 19 62 57 4 3 15 4 3 16 V4L2_DV_BT_STD_CEA861 (V4L2_DV_FL_HALF_LINE ||| V4L2_DV_FL_IS_CE_VIDEO));
    ("V4L2_DV_BT_CEA_720X480P59_94", timing 720 480 0 0
      27000000 16 62 60 9 6 30 0 0 0 V4L2_DV_BT_STD_CEA861 V4L2_DV_FL_IS_CE_VIDEO);
    ("V4L2_DV_BT_CEA_720X576I50", timing 720 576 1 0
      13500000 12 63 69 2 3 19 2 3 20 V4L2_DV_BT_STD_CEA861 (V4L2_DV_FL_HALF_LINE ||| V4L2_DV_FL_IS_CE_VIDEO));
    ("V4L2_DV_BT_CEA_720X576P50", timing 720 576 0 0
      27000000 12 64 68 5 5 39 0 0 0 V4L2_DV_BT_STD_CEA861 V4L2_DV_FL_IS_CE_VIDEO);
    ("V4L2_DV_BT_CEA_1280X720P24", timing 1280 720 0 (V4L2_DV_HSYNC_POS_POL ||| V4L2_DV_VSYNC_POS_POL)
      59400000 1760 40 220 5 5 20 0 0 0
      (V4L2_DV_BT_STD_DMT ||| V4L2_DV_BT_STD_CEA861) V4L2_DV_FL_CAN_REDUCE_FPS);
    ("V4L2_DV_BT_CEA_1280X720P25", timing 1280 720 0 (V4L2_DV_HSYNC_POS_POL ||| V4L2_DV_VSYNC_POS_POL)
      74250000 2420 40 220 5 5 20 0 0 0 V4L2_DV_BT_STD_CEA861 V4L2_DV_FL_IS_CE_VIDEO);
    ("V4L2_DV_BT_CEA_1280X720P30", timing 1280 720 0 (V4L2_DV_HSYNC_POS_POL ||| V4L2_DV_VSYNC_POS_POL)
      74250000 1760 40 220 5 5 20 0 0 0
      V4L2_DV_BT_STD_CEA861 (V4L2_DV_FL_CAN_REDUCE_FPS ||| V4L2_DV_FL_IS_CE_VIDEO));
    ("V4L2_DV_BT_CEA_1280X720P50", timing 1280 720 0 (V4L2_DV_HSYNC_POS_POL ||| V4L2_DV_VSYNC_POS_POL)
      74250000 440 40 220 5 5 20 0 0 0 V4L2_DV_BT_STD_CEA861 V4L2_DV_FL_IS_CE_VIDEO);
    ("V4L2_DV_BT_CEA_1280X720P60", timing 1280 720 0 (V4L2_DV_HSYNC_POS_POL ||| V4L2_DV_VSYNC_POS_POL)
      74250000 110 40 220 5 5 20 0 0 0
      V4L2_DV_BT_STD_CEA861 (V4L2_DV_FL_CAN_REDUCE_FPS ||| V4L2_DV_FL_IS_CE_VIDEO));
    ("V4L2_DV_BT_CEA_1920X1080P24", timing 1920 1080 0 (V4L2_DV_HSYNC_POS_POL ||| V4L2_DV_VSYNC_POS_POL)
      74250000 638 44 148 4 5 36 0 0 0
      V4L2_DV_BT_STD_CEA861 (V4L2_DV_FL_CAN_REDUCE_FPS ||| V4L2_DV_FL_IS_CE_VIDEO));
    ("V4L2_DV_BT_CEA_1920X1080P25", timing 1920 1080 0 (V4L2_DV_HSYNC_POS_POL ||| V4L2_DV_VSYNC_POS_POL)
      74250000 528 44 148 4 5 36 0 0 0 V4L2_DV_BT_STD_CEA861 V4L2_DV_FL_IS_CE_VIDEO);
    ("V4L2_DV_BT_CEA_1920X1080P30", timing 1920 1080 0 (V4L2_DV_HSYNC_POS_POL ||| V4L2_DV_VSYNC_POS_POL)
      74250000 88 44 148 4 5 36 0 0 0
      V4L2_DV_BT_STD_CEA861 (V4L2_DV_FL_CAN_REDUCE_FPS ||| V4L2_DV_FL_IS_CE_VIDEO));
    ("V4L2_DV_BT_CEA_1920X1080I50", timing 1920 1080 1 (V4L2_DV_HSYNC_POS_POL ||| V4L2_DV_VSYNC_POS_POL)
      74250000 528 44 148 2 5 15 2 5 16 V4L2_DV_BT_STD_CEA861 (V4L2_DV_FL_HALF_LINE ||| V4L2_DV_FL_IS_CE_VIDEO));
    ("V4L2_DV_BT_CEA_1920X1080P50", timing 1920 1080 0 (V4L2_DV_HSYNC_POS_POL ||| V4L2_DV_VSYNC_POS_POL)
      148500000 528 44 148 4 5 36 0 0 0 V4L2_DV_BT_STD_CEA861 V4L2_DV_FL_IS_CE_VIDEO);
    ("V4L2_DV_BT_CEA_1920X1080I60", timing 1920 1080 1 (V4L2_DV_HSYNC_POS_POL ||| V4L2_DV_VSYNC_POS_POL)
      74250000 88 44 148 2 5 15 2 5 16
      V4L2_DV_BT_STD_CEA861 (V4L2_DV_FL_CAN_REDUCE_FPS |||   		V4L2_DV_FL_HALF_LINE ||| V4L2_DV_FL_IS_CE_VIDEO));
    ("V4L2_DV_BT_CEA_1920X1080P60", timing 1920 1080 0 (V4L2_DV_HSYNC_POS_POL ||| V4L2_DV_VSYNC_POS_POL)
      148500000 88 44 148 4 5 36 0 0 0
      (V4L2_DV_BT_STD_DMT ||| V4L2_DV_BT_STD_CEA861) (V4L2_DV_FL_CAN_REDUCE_FPS ||| V4L2_DV_FL_IS_CE_VIDEO))].

Definition cea_timings_2 : list (string * v4l2_dv_timings) := [
    ("V4L2_DV_BT_CEA_3840X2160P24", timing 3840 2160 0 (V4L2_DV_HSYNC_POS_POL ||| V4L2_DV_VSYNC_POS_POL)
      297000000 1276 88 296 8 10 72 0 0 0
      V4L2_DV_BT_STD_CEA861 (V4L2_DV_FL_CAN_REDUCE_FPS ||| V4L2_DV_FL_IS_CE_VIDEO));
    ("V4L2_DV_BT_CEA_3840X2160P25", timing 3840 2160 0 (V4L2_DV_HSYNC_POS_POL ||| V4L2_DV_VSYNC_POS_POL)
      297000000 1056 88 296 8 10 72 0 0 0 V4L2_DV_BT_STD_CEA861 V4L2_DV_FL_IS_CE_VIDEO);
    ("V4L2_DV_BT_CEA_3840X2160P30", timing 3840 2160 0 (V4L2_DV_HSYNC_POS_POL ||| V4L2_DV_VSYNC_POS_POL)
      297000000 176 88 296 8 10 72 0 0 0
      V4L2_DV_BT_STD_CEA861 (V4L2_DV_FL_CAN_REDUCE_FPS ||| V4L2_DV_FL_IS_CE_VIDEO));
    ("V4L2_DV_BT_CEA_3840X2160P50", timing 3840 2160 0 (V4L2_DV_HSYNC_POS_POL ||| V4L2_DV_VSYNC_POS_POL)
      594000000 1056 88 296 8 10 72 0 0 0 V4L2_DV_BT_STD_CEA861 V4L2_DV_FL_IS_CE_VIDEO);
    ("V4L2_DV_BT_CEA_3840X2160P60", timing 3840 2160 0 (V4L2_DV_HSYNC_POS_POL ||| V4L2_DV_VSYNC_POS_POL)
      594000000 176 88 296 8 10 72 0 0 0
      V4L2_DV_BT_STD_CEA861 (V4L2_DV_FL_CAN_REDUCE_FPS ||| V4L2_DV_FL_IS_CE_VIDEO));
    ("V4L2_DV_BT_CEA_4096X2160P24", timing 4096 2160 0 (V4L2_DV_HSYNC_POS_POL ||| V4L2_DV_VSYNC_POS_POL)
      297000000 1020 88 296 8 10 72 0 0 0
      V4L2_DV_BT_STD_CEA861 (V4L2_DV_FL_CAN_REDUCE_FPS ||| V4L2_DV_FL_IS_CE_VIDEO));
    ("V4L2_DV_BT_CEA_4096X2160P25", timing 4096 2160 0 (V4L2_DV_HSYNC_POS_POL ||| V4L2_DV_VSYNC_POS_POL)
      297000000 968 88 128 8 10 72 0 0 0 V4L2_DV_BT_STD_CEA861 V4L2_DV_FL_IS_CE_VIDEO);
    ("V4L2_DV_BT_CEA_4096X2160P30", timing 4096 2160 0 (V4L2_DV_HSYNC_POS_POL ||| V4L2_DV_VSYNC_POS_POL)
      297000000 88 88 128 8 10 72 0 0 0
      V4L2_DV_BT_STD_CEA861 (V4L2_DV_FL_CAN_REDUCE_FPS ||| V4L2_DV_FL_IS_CE_VIDEO));
    ("V4L2_DV_BT_CEA_4096X2160P50", timing 4096 2160 0 (V4L2_DV_HSYNC_POS_POL ||| V4L2_DV_VSYNC_POS_POL)
      594000000 968 88 128 8 10 72 0 0 0 V4L2_DV_BT_STD_CEA861 V4L2_DV_FL_IS_CE_VIDEO);
    ("V4L2_DV_BT_CEA_4096X2160P60", timing 4096 2160 0 (V4L2_DV_HSYNC_POS_POL ||| V4L2_DV_VSYNC_POS_POL)
      594000000 88 88 128 8 10 72 0 0 0
      V4L2_DV_BT_STD_CEA861 (V4L2_DV_FL_CAN_REDUCE_FPS ||| V4L2_DV_FL_IS_CE_VIDEO))].

Definition cea_timings : list (string * v4l2_dv_timings) := cea_timings_1 ++ cea_timings_2.

(** A name for timings of the other standard. *)
Definition same (n : string) : v4l2_dv_timings :=
  default no_timings (find_timing n cea_timings).

Definition dmt_timings_1 : list (string * v4l2_dv_timings) := [
    ("V4L2_DV_BT_DMT_640X350P85", timing 640 350 0 V4L2_DV_HSYNC_POS_POL
      31500000 32 64 96 32 3 60 0 0 0 V4L2_DV_BT_STD_DMT 0);
    ("V4L2_DV_BT_DMT_640X400P85", timing 640 400 0 V4L2_DV_VSYNC_POS_POL
      31500000 32 64 96 1 3 41 0 0 0 V4L2_DV_BT_STD_DMT 0);
    ("V4L2_DV_BT_DMT_720X400P85", timing 720 400 0 V4L2_DV_VSYNC_POS_POL
      35500000 36 72 108 1 3 42 0 0 0 V4L2_DV_BT_STD_DMT 0);
    ("V4L2_DV_BT_DMT_640X480P60", same "V4L2_DV_BT_CEA_640X480P59_94");
    ("V4L2_DV_BT_DMT_640X480P72", timing 640 480 0 0
      31500000 24 40 128 9 3 28 0 0 0 V4L2_DV_BT_STD_DMT 0);
    ("V4L2_DV_BT_DMT_640X480P75", timing 640 480 0 0
      31500000 16 64 120 1 3 16 0 0 0 V4L2_DV_BT_STD_DMT 0);
    ("V4L2_DV_BT_DMT_640X480P85", timing 640 480 0 0
      36000000 56 56 80 1 3 25 0 0 0 V4L2_DV_BT_STD_DMT 0);
    ("V4L2_DV_BT_DMT_800X600P56", timing 800 600 0 (V4L2_DV_HSYNC_POS_POL ||| V4L2_DV_VSYNC_POS_POL)
      36000000 24 72 128 1 2 22 0 0 0 V4L2_DV_BT_STD_DMT 0);
    ("V4L2_DV_BT_DMT_800X600P60", timing 800 600 0 (V4L2_DV_HSYNC_POS_POL ||| V4L2_DV_VSYNC_POS_POL)
      40000000 40 128 88 1 4 23 0 0 0 V4L2_DV_BT_STD_DMT 0);
    ("V4L2_DV_BT_DMT_800X600P72", timing 800 600 0 (V4L2_DV_HSYNC_POS_POL ||| V4L2_DV_VSYNC_POS_POL)
      50000000 56 120 64 37 6 23 0 0 0 V4L2_DV_BT_STD_DMT 0);
    ("V4L2_DV_BT_DMT_800X600P75", timing 800 600 0 (V4L2_DV_HSYNC_POS_POL ||| V4L2_DV_VSYNC_POS_POL)
      49500000 16 80 160 1 3 21 0 0 0 V4L2_DV_BT_STD_DMT 0);
    ("V4L2_DV_BT_DMT_800X600P85", timing 800 600 0 (V4L2_DV_HSYNC_POS_POL ||| V4L2_DV_VSYNC_POS_POL)
      56250000 32 64 152 1 3 27 0 0 0 V4L2_DV_BT_STD_DMT 0);
    ("V4L2_DV_BT_DMT_800X600P120_RB", timing 800 600 0 V4L2_DV_HSYNC_POS_POL
      73250000 48 32 80 3 4 29 0 0 0 (V4L2_DV_BT_STD_DMT ||| V4L2_DV_BT_STD_CVT) V4L2_DV_FL_REDUCED_BLANKING);
    ("V4L2_DV_BT_DMT_848X480P60", timing 848 480 0 (V4L2_DV_HSYNC_POS_POL ||| V4L2_DV_VSYNC_POS_POL)
      33750000 16 112 112 6 8 23 0 0 0 V4L2_DV_BT_STD_DMT 0);
    ("V4L2_DV_BT_DMT_1024X768I43", timing 1024 768 1 (V4L2_DV_HSYNC_POS_POL ||| V4L2_DV_VSYNC_POS_POL)
      44900000 8 176 56 0 4 20 0 4 21 V4L2_DV_BT_STD_DMT 0);
    ("V4L2_DV_BT_DMT_1024X768P60", timing 1024 768 0 0
      65000000 24 136 160 3 6 29 0 0 0 V4L2_DV_BT_STD_DMT 0);
    ("V4L2_DV_BT_DMT_1024X768P70", timing 1024 768 0 0
      75000000 24 136 144 3 6 29 0 0 0 V4L2_DV_BT_STD_DMT 0);
    ("V4L2_DV_BT_DMT_1024X768P75", timing 1024 768 0 (V4L2_DV_HSYNC_POS_POL ||| V4L2_DV_VSYNC_POS_POL)
      78750000 16 96 176 1 3 28 0 0 0 V4L2_DV_BT_STD_DMT 0);
    ("V4L2_DV_BT_DMT_1024X768P85", timing 1024 768 0 (V4L2_DV_HSYNC_POS_POL ||| V4L2_DV_VSYNC_POS_POL)
      94500000 48 96 208 1 3 36 0 0 0 V4L2_DV_BT_STD_DMT 0);
    ("V4L2_DV_BT_DMT_1024X768P120_RB", timing 1024 768 0 V4L2_DV_HSYNC_POS_POL
      115500000 48 32 80 3 4 38 0 0 0 (V4L2_DV_BT_STD_DMT ||| V4L2_DV_BT_STD_CVT) V4L2_DV_FL_REDUCED_BLANKING)].

Definition dmt_timings_2 : list (string * v4l2_dv_timings) := [
    ("V4L2_DV_BT_DMT_1152X864P75", timing 1152 864 0 (V4L2_DV_HSYNC_POS_POL ||| V4L2_DV_VSYNC_POS_POL)
      108000000 64 128 256 1 3 32 0 0 0 V4L2_DV_BT_STD_DMT 0);
    ("V4L2_DV_BT_DMT_1280X720P60", same "V4L2_DV_BT_CEA_1280X720P60");
    ("V4L2_DV_BT_DMT_1280X768P60_RB", timing 1280 768 0 V4L2_DV_HSYNC_POS_POL
      68250000 48 32 80 3 7 12 0 0 0 (V4L2_DV_BT_STD_DMT ||| V4L2_DV_BT_STD_CVT) V4L2_DV_FL_REDUCED_BLANKING);
    ("V4L2_DV_BT_DMT_1280X768P60", timing 1280 768 0 V4L2_DV_VSYNC_POS_POL
      79500000 64 128 192 3 7 20 0 0 0 (V4L2_DV_BT_STD_DMT ||| V4L2_DV_BT_STD_CVT) 0);
    ("V4L2_DV_BT_DMT_1280X768P75", timing 1280 768 0 V4L2_DV_VSYNC_POS_POL
      102250000 80 128 208 3 7 27 0 0 0 (V4L2_DV_BT_STD_DMT ||| V4L2_DV_BT_STD_CVT) 0);
    ("V4L2_DV_BT_DMT_1280X768P85", timing 1280 768 0 V4L2_DV_VSYNC_POS_POL
      117500000 80 136 216 3 7 31 0 0 0 (V4L2_DV_BT_STD_DMT ||| V4L2_DV_BT_STD_CVT) 0);
    ("V4L2_DV_BT_DMT_1280X768P120_RB", timing 1280 768 0 V4L2_DV_HSYNC_POS_POL
      140250000 48 32 80 3 7 35 0 0 0 (V4L2_DV_BT_STD_DMT ||| V4L2_DV_BT_STD_CVT) V4L2_DV_FL_REDUCED_BLANKING);
    ("V4L2_DV_BT_DMT_1280X800P60_RB", timing 1280 800 0 V4L2_DV_HSYNC_POS_POL
      71000000 48 32 80 3 6 14 0 0 0 (V4L2_DV_BT_STD_DMT ||| V4L2_DV_BT_STD_CVT) V4L2_DV_FL_REDUCED_BLANKING);
    ("V4L2_DV_BT_DMT_1280X800P60", timing 1280 800 0 V4L2_DV_VSYNC_POS_POL
      83500000 72 128 200 3 6 22 0 0 0 (V4L2_DV_BT_STD_DMT ||| V4L2_DV_BT_STD_CVT) 0);
    ("V4L2_DV_BT_DMT_1280X800P75", timing 1280 800 0 V4L2_DV_VSYNC_POS_POL
      106500000 80 128 208 3 6 29 0 0 0 (V4L2_DV_BT_STD_DMT ||| V4L2_DV_BT_STD_CVT) 0);
    ("V4L2_DV_BT_DMT_1280X800P85", timing 1280 800 0 V4L2_DV_VSYNC_POS_POL
      122500000 80 136 216 3 6 34 0 0 0 (V4L2_DV_BT_STD_DMT ||| V4L2_DV_BT_STD_CVT) 0);
    ("V4L2_DV_BT_DMT_1280X800P120_RB", timing 1280 800 0 V4L2_DV_HSYNC_POS_POL
      146250000 48 32 80 3 6 38 0 0 0 (V4L2_DV_BT_STD_DMT ||| V4L2_DV_BT_STD_CVT) V4L2_DV_FL_REDUCED_BLANKING);
    ("V4L2_DV_BT_DMT_1280X960P60", timing 1280 960 0 (V4L2_DV_HSYNC_POS_POL ||| V4L2_DV_VSYNC_POS_POL)
      108000000 96 112 312 1 3 36 0 0 0 V4L2_DV_BT_STD_DMT 0);
    ("V4L2_DV_BT_DMT_1280X960P85", timing 1280 960 0 (V4L2_DV_HSYNC_POS_POL ||| V4L2_DV_VSYNC_POS_POL)
      148500000 64 160 224 1 3 47 0 0 0 V4L2_DV_BT_STD_DMT 0);
    ("V4L2_DV_BT_DMT_1280X960P120_RB", timing 1280 960 0 V4L2_DV_HSYNC_POS_POL
      175500000 48 32 80 3 4 50 0 0 0 (V4L2_DV_BT_STD_DMT ||| V4L2_DV_BT_STD_CVT) V4L2_DV_FL_REDUCED_BLANKING);
    ("V4L2_DV_BT_DMT_1280X1024P60", timing 1280 1024 0 (V4L2_DV_HSYNC_POS_POL ||| V4L2_DV_VSYNC_POS_POL)
      108000000 48 112 248 1 3 38 0 0 0 V4L2_DV_BT_STD_DMT 0);
    ("V4L2_DV_BT_DMT_1280X1024P75", timing 1280 1024 0 (V4L2_DV_HSYNC_POS_POL ||| V4L2_DV_VSYNC_POS_POL)
      135000000 16 144 248 1 3 38 0 0 0 V4L2_DV_BT_STD_DMT 0);
    ("V4L2_DV_BT_DMT_1280X1024P85", timing 1280 1024 0 (V4L2_DV_HSYNC_POS_POL ||| V4L2_DV_VSYNC_POS_POL)
      157500000 64 160 224 1 3 44 0 0 0 V4L2_DV_BT_STD_DMT 0);
    ("V4L2_DV_BT_DMT_1280X1024P120_RB", timing 1280 1024 0 V4L2_DV_HSYNC_POS_POL
      187250000 48 32 80 3 7 50 0 0 0 (V4L2_DV_BT_STD_DMT ||| V4L2_DV_BT_STD_CVT) V4L2_DV_FL_REDUCED_BLANKING);
    ("V4L2_DV_BT_DMT_1360X768P60", timing 1360 768 0 (V4L2_DV_HSYNC_POS_POL ||| V4L2_DV_VSYNC_POS_POL)
      85500000 64 112 256 3 6 18 0 0 0 V4L2_DV_BT_STD_DMT 0)].

Definition dmt_timings_3 : list (string * v4l2_dv_timings) := [
    ("V4L2_DV_BT_DMT_1360X768P120_RB", timing 1360 768 0 V4L2_DV_HSYNC_POS_POL
      148250000 48 32 80 3 5 37 0 0 0 (V4L2_DV_BT_STD_DMT ||| V4L2_DV_BT_STD_CVT) V4L2_DV_FL_REDUCED_BLANKING);
    ("V4L2_DV_BT_DMT_1366X768P60", timing 1366 768 0 (V4L2_DV_HSYNC_POS_POL ||| V4L2_DV_VSYNC_POS_POL)
      85500000 70 143 213 3 3 24 0 0 0 V4L2_DV_BT_STD_DMT 0);
    ("V4L2_DV_BT_DMT_1366X768P60_RB", timing 1366 768 0 (V4L2_DV_HSYNC_POS_POL ||| V4L2_DV_VSYNC_POS_POL)
      72000000 14 56 64 1 3 28 0 0 0 V4L2_DV_BT_STD_DMT V4L2_DV_FL_REDUCED_BLANKING);
    ("V4L2_DV_BT_DMT_1400X1050P60_RB", timing 1400 1050 0 V4L2_DV_HSYNC_POS_POL
      101000000 48 32 80 3 4 23 0 0 0 (V4L2_DV_BT_STD_DMT ||| V4L2_DV_BT_STD_CVT) V4L2_DV_FL_REDUCED_BLANKING);
    ("V4L2_DV_BT_DMT_1400X1050P60", timing 1400 1050 0 V4L2_DV_VSYNC_POS_POL
      121750000 88 144 232 3 4 32 0 0 0 (V4L2_DV_BT_STD_DMT ||| V4L2_DV_BT_STD_CVT) 0);
    ("V4L2_DV_BT_DMT_1400X1050P75", timing 1400 1050 0 V4L2_DV_VSYNC_POS_POL
      156000000 104 144 248 3 4 42 0 0 0 (V4L2_DV_BT_STD_DMT ||| V4L2_DV_BT_STD_CVT) 0);
    ("V4L2_DV_BT_DMT_1400X1050P85", timing 1400 1050 0 V4L2_DV_VSYNC_POS_POL
      179500000 104 152 256 3 4 48 0 0 0 (V4L2_DV_BT_STD_DMT ||| V4L2_DV_BT_STD_CVT) 0);
    ("V4L2_DV_BT_DMT_1400X1050P120_RB", timing 1400 1050 0 V4L2_DV_HSYNC_POS_POL
      208000000 48 32 80 3 4 55 0 0 0 (V4L2_DV_BT_STD_DMT ||| V4L2_DV_BT_STD_CVT) V4L2_DV_FL_REDUCED_BLANKING);
    ("V4L2_DV_BT_DMT_1440X900P60_RB", timing 1440 900 0 V4L2_DV_HSYNC_POS_POL
      88750000 48 32 80 3 6 17 0 0 0 (V4L2_DV_BT_STD_DMT ||| V4L2_DV_BT_STD_CVT) V4L2_DV_FL_REDUCED_BLANKING);
    ("V4L2_DV_BT_DMT_1440X900P60", timing 1440 900 0 V4L2_DV_VSYNC_POS_POL
      106500000 80 152 232 3 6 25 0 0 0 (V4L2_DV_BT_STD_DMT ||| V4L2_DV_BT_STD_CVT) 0);
    ("V4L2_DV_BT_DMT_1440X900P75", timing 1440 900 0 V4L2_DV_VSYNC_POS_POL
      136750000 96 152 248 3 6 33 0 0 0 (V4L2_DV_BT_STD_DMT ||| V4L2_DV_BT_STD_CVT) 0);
    ("V4L2_DV_BT_DMT_1440X900P85", timing 1440 900 0 V4L2_DV_VSYNC_POS_POL
      157000000 104 152 256 3 6 39 0 0 0 (V4L2_DV_BT_STD_DMT ||| V4L2_DV_BT_STD_CVT) 0);
    ("V4L2_DV_BT_DMT_1440X900P120_RB", timing 1440 900 0 V4L2_DV_HSYNC_POS_POL
      182750000 48 32 80 3 6 44 0 0 0 (V4L2_DV_BT_STD_DMT ||| V4L2_DV_BT_STD_CVT) V4L2_DV_FL_REDUCED_BLANKING);
    ("V4L2_DV_BT_DMT_1600X900P60_RB", timing 1600 900 0 (V4L2_DV_HSYNC_POS_POL ||| V4L2_DV_VSYNC_POS_POL)
      108000000 24 80 96 1 3 96 0 0 0 V4L2_DV_BT_STD_DMT V4L2_DV_FL_REDUCED_BLANKING);
    ("V4L2_DV_BT_DMT_1600X1200P60", timing 1600 1200 0 (V4L2_DV_HSYNC_POS_POL ||| V4L2_DV_VSYNC_POS_POL)
      162000000 64 192 304 1 3 46 0 0 0 V4L2_DV_BT_STD_DMT 0);
    ("V4L2_DV_BT_DMT_1600X1200P65", timing 1600 1200 0 (V4L2_DV_HSYNC_POS_POL ||| V4L2_DV_VSYNC_POS_POL)
      175500000 64 192 304 1 3 46 0 0 0 V4L2_DV_BT_STD_DMT 0);
    ("V4L2_DV_BT_DMT_1600X1200P70", timing 1600 1200 0 (V4L2_DV_HSYNC_POS_POL ||| V4L2_DV_VSYNC_POS_POL)
      189000000 64 192 304 1 3 46 0 0 0 V4L2_DV_BT_STD_DMT 0);
    ("V4L2_DV_BT_DMT_1600X1200P75", timing 1600 1200 0 (V4L2_DV_HSYNC_POS_POL ||| V4L2_DV_VSYNC_POS_POL)
      202500000 64 192 304 1 3 46 0 0 0 V4L2_DV_BT_STD_DMT 0);
    ("V4L2_DV_BT_DMT_1600X1200P85", timing 1600 1200 0 (V4L2_DV_HSYNC_POS_POL ||| V4L2_DV_VSYNC_POS_POL)
      229500000 64 192 304 1 3 46 0 0 0 V4L2_DV_BT_STD_DMT 0)].

Definition dmt_timings_4 : list (string * v4l2_dv_timings) := [
    ("V4L2_DV_BT_DMT_1600X1200P120_RB", timing 1600 1200 0 V4L2_DV_HSYNC_POS_POL
      268250000 48 32 80 3 4 64 0 0 0 (V4L2_DV_BT_STD_DMT ||| V4L2_DV_BT_STD_CVT) V4L2_DV_FL_REDUCED_BLANKING);
    ("V4L2_DV_BT_DMT_1680X1050P60_RB", timing 1680 1050 0 V4L2_DV_HSYNC_POS_POL
      119000000 48 32 80 3 6 21 0 0 0 (V4L2_DV_BT_STD_DMT ||| V4L2_DV_BT_STD_CVT) V4L2_DV_FL_REDUCED_BLANKING);
    ("V4L2_DV_BT_DMT_1680X1050P60", timing 1680 1050 0 V4L2_DV_VSYNC_POS_POL
      146250000 104 176 280 3 6 30 0 0 0 (V4L2_DV_BT_STD_DMT ||| V4L2_DV_BT_STD_CVT) 0);
    ("V4L2_DV_BT_DMT_1680X1050P75", timing 1680 1050 0 V4L2_DV_VSYNC_POS_POL
      187000000 120 176 296 3 6 40 0 0 0 (V4L2_DV_BT_STD_DMT ||| V4L2_DV_BT_STD_CVT) 0);
    ("V4L2_DV_BT_DMT_1680X1050P85", timing 1680 1050 0 V4L2_DV_VSYNC_POS_POL
      214750000 128 176 304 3 6 46 0 0 0 (V4L2_DV_BT_STD_DMT ||| V4L2_DV_BT_STD_CVT) 0);
    ("V4L2_DV_BT_DMT_1680X1050P120_RB", timing 1680 1050 0 V4L2_DV_HSYNC_POS_POL
      245500000 48 32 80 3 6 53 0 0 0 (V4L2_DV_BT_STD_DMT ||| V4L2_DV_BT_STD_CVT) V4L2_DV_FL_REDUCED_BLANKING);
    ("V4L2_DV_BT_DMT_1792X1344P60", timing 1792 1344 0 V4L2_DV_VSYNC_POS_POL
      204750000 128 200 328 1 3 46 0 0 0 V4L2_DV_BT_STD_DMT 0);
    ("V4L2_DV_BT_DMT_1792X1344P75", timing 1792 1344 0 V4L2_DV_VSYNC_POS_POL
      261000000 96 216 352 1 3 69 0 0 0 V4L2_DV_BT_STD_DMT 0);
    ("V4L2_DV_BT_DMT_1792X1344P120_RB", timing 1792 1344 0 V4L2_DV_HSYNC_POS_POL
      333250000 48 32 80 3 4 72 0 0 0 (V4L2_DV_BT_STD_DMT ||| V4L2_DV_BT_STD_CVT) V4L2_DV_FL_REDUCED_BLANKING);
    ("V4L2_DV_BT_DMT_1856X1392P60", timing 1856 1392 0 V4L2_DV_VSYNC_POS_POL
      218250000 96 224 352 1 3 43 0 0 0 V4L2_DV_BT_STD_DMT 0);
    ("V4L2_DV_BT_DMT_1856X1392P75", timing 1856 1392 0 V4L2_DV_VSYNC_POS_POL
      288000000 128 224 352 1 3 104 0 0 0 V4L2_DV_BT_STD_DMT 0);
    ("V4L2_DV_BT_DMT_1856X1392P120_RB", timing 1856 1392 0 V4L2_DV_HSYNC_POS_POL
      356500000 48 32 80 3 4 75 0 0 0 (V4L2_DV_BT_STD_DMT ||| V4L2_DV_BT_STD_CVT) V4L2_DV_FL_REDUCED_BLANKING);
    ("V4L2_DV_BT_DMT_1920X1080P60", same "V4L2_DV_BT_CEA_1920X1080P60");
    ("V4L2_DV_BT_DMT_1920X1200P60_RB", timing 1920 1200 0 V4L2_DV_HSYNC_POS_POL
      154000000 48 32 80 3 6 26 0 0 0 (V4L2_DV_BT_STD_DMT ||| V4L2_DV_BT_STD_CVT) V4L2_DV_FL_REDUCED_BLANKING);
    ("V4L2_DV_BT_DMT_1920X1200P60", timing 1920 1200 0 V4L2_DV_VSYNC_POS_POL
      193250000 136 200 336 3 6 36 0 0 0 (V4L2_DV_BT_STD_DMT ||| V4L2_DV_BT_STD_CVT) 0);
    ("V4L2_DV_BT_DMT_1920X1200P75", timing 1920 1200 0 V4L2_DV_VSYNC_POS_POL
      245250000 136 208 344 3 6 46 0 0 0 (V4L2_DV_BT_STD_DMT ||| V4L2_DV_BT_STD_CVT) 0);
    ("V4L2_DV_BT_DMT_1920X1200P85", timing 1920 1200 0 V4L2_DV_VSYNC_POS_POL
      281250000 144 208 352 3 6 53 0 0 0 (V4L2_DV_BT_STD_DMT ||| V4L2_DV_BT_STD_CVT) 0);
    ("V4L2_DV_BT_DMT_1920X1200P120_RB", timing 1920 1200 0 V4L2_DV_HSYNC_POS_POL
      317000000 48 32 80 3 6 62 0 0 0 (V4L2_DV_BT_STD_DMT ||| V4L2_DV_BT_STD_CVT) V4L2_DV_FL_REDUCED_BLANKING);
    ("V4L2_DV_BT_DMT_1920X1440P60", timing 1920 1440 0 V4L2_DV_VSYNC_POS_POL
      234000000 128 208 344 1 3 56 0 0 0 V4L2_DV_BT_STD_DMT 0);
    ("V4L2_DV_BT_DMT_1920X1440P75", timing 1920 1440 0 V4L2_DV_VSYNC_POS_POL
      297000000 144 224 352 1 3 56 0 0 0 V4L2_DV_BT_STD_DMT 0)].

Definition dmt_timings_5 : list (string * v4l2_dv_timings) := [
    ("V4L2_DV_BT_DMT_1920X1440P120_RB", timing 1920 1440 0 V4L2_DV_HSYNC_POS_POL
      380500000 48 32 80 3 4 78 0 0 0 (V4L2_DV_BT_STD_DMT ||| V4L2_DV_BT_STD_CVT) V4L2_DV_FL_REDUCED_BLANKING);
    ("V4L2_DV_BT_DMT_2048X1152P60_RB", timing 2048 1152 0 (V4L2_DV_HSYNC_POS_POL ||| V4L2_DV_VSYNC_POS_POL)
      162000000 26 80 96 1 3 44 0 0 0 V4L2_DV_BT_STD_DMT V4L2_DV_FL_REDUCED_BLANKING);
    ("V4L2_DV_BT_DMT_2560X1600P60_RB", timing 2560 1600 0 V4L2_DV_HSYNC_POS_POL
      268500000 48 32 80 3 6 37 0 0 0 (V4L2_DV_BT_STD_DMT ||| V4L2_DV_BT_STD_CVT) V4L2_DV_FL_REDUCED_BLANKING);
    ("V4L2_DV_BT_DMT_2560X1600P60", timing 2560 1600 0 V4L2_DV_VSYNC_POS_POL
      348500000 192 280 472 3 6 49 0 0 0 (V4L2_DV_BT_STD_DMT ||| V4L2_DV_BT_STD_CVT) 0);
    ("V4L2_DV_BT_DMT_2560X1600P75", timing 2560 1600 0 V4L2_DV_VSYNC_POS_POL
      443250000 208 280 488 3 6 63 0 0 0 (V4L2_DV_BT_STD_DMT ||| V4L2_DV_BT_STD_CVT) 0);
    ("V4L2_DV_BT_DMT_2560X1600P85", timing 2560 1600 0 V4L2_DV_VSYNC_POS_POL
      505250000 208 280 488 3 6 73 0 0 0 (V4L2_DV_BT_STD_DMT ||| V4L2_DV_BT_STD_CVT) 0);
    ("V4L2_DV_BT_DMT_2560X1600P120_RB", timing 2560 1600 0 V4L2_DV_HSYNC_POS_POL
      552750000 48 32 80 3 6 85 0 0 0 (V4L2_DV_BT_STD_DMT ||| V4L2_DV_BT_STD_CVT) V4L2_DV_FL_REDUCED_BLANKING);
    ("V4L2_DV_BT_DMT_4096X2160P60_RB", timing 4096 2160 0 V4L2_DV_HSYNC_POS_POL
      556744000 8 32 40 48 8 6 0 0 0 (V4L2_DV_BT_STD_DMT ||| V4L2_DV_BT_STD_CVT) V4L2_DV_FL_REDUCED_BLANKING);
    ("V4L2_DV_BT_DMT_4096X2160P59_94_RB", timing 4096 2160 0 V4L2_DV_HSYNC_POS_POL
      556188000 8 32 40 48 8 6 0 0 0 (V4L2_DV_BT_STD_DMT ||| V4L2_DV_BT_STD_CVT) V4L2_DV_FL_REDUCED_BLANKING)].

Definition dv_timings : list (string * v4l2_dv_timings) :=
  cea_timings ++ dmt_timings_1 ++ dmt_timings_2 ++ dmt_timings_3 ++ dmt_timings_4 ++ dmt_timings_5.

(** *** What the names and the comments say *)

Definition cea : list Z := bytes_of "V4L2_DV_BT_CEA_".
Definition dmt : list Z := bytes_of "V4L2_DV_BT_DMT_".

(** The standard of a name, with what it says. *)
Definition dv_name (n : string) : option (Z * mode_name) :=
  match strip cea (bytes_of n) with
  | Some s => m ← read_mode "X" "P" "I" s; Some (V4L2_DV_BT_STD_CEA861, m)
  | None => s ← strip dmt (bytes_of n); m ← read_mode "X" "P" "I" s; Some (V4L2_DV_BT_STD_DMT, m)
  end.

Definition has (flag x : Z) : Prop := x &&& flag = flag.
#[export] Instance has_dec flag x : Decision (has flag x).
Proof. unfold has. apply _. Defined.

(** Names of interlaced timings give the rate of fields. *)
Definition per_frame (t : v4l2_bt_timings) : Z := if decide (interlaced t = V4L2_DV_INTERLACED) then 2 else 1.

(** The clock gives the rate within 6 parts in 1000. *)
Definition rate_ok (rate : Z) (t : v4l2_bt_timings) : Prop :=
  let total := V4L2_DV_BT_FRAME_WIDTH t * V4L2_DV_BT_FRAME_HEIGHT t in
  1000 * Z.abs (100 * per_frame t * pixelclock t - rate * total) <= 6 * (rate * total).
#[export] Instance rate_ok_dec r t : Decision (rate_ok r t).
Proof. unfold rate_ok. apply _. Defined.

(** 72.8 Hz, and a name that gives the rate of frames, not of fields. *)
Definition rounded : list string := ["V4L2_DV_BT_DMT_640X480P72"; "V4L2_DV_BT_DMT_1024X768I43"].
(** A format of CEA-861 that is not marked as one of consumer electronics. *)
Definition unmarked : list string := ["V4L2_DV_BT_CEA_1280X720P24"].

(** A timing of DMT that only has the mark of CEA-861. *)
Definition unlisted : list string := ["V4L2_DV_BT_DMT_1280X720P60"].
(** A name with 60 Hz for the timing at 59.94 Hz. *)
Definition ntsc : list string := ["V4L2_DV_BT_DMT_640X480P60"].

(** Formats of CVT have negative and positive polarity, reduced ones the other
    way round. *)
Definition cvt_polarity (t : v4l2_bt_timings) : Z :=
  if decide (has V4L2_DV_FL_REDUCED_BLANKING (flags t)) then V4L2_DV_HSYNC_POS_POL else V4L2_DV_VSYNC_POS_POL.

Record dv_facts (n : string) (t : v4l2_bt_timings) (std : Z) (m : mode_name) : Prop := mk_dv_facts {
  dv_size : width t = n_width m /\ height t = n_height m;
  dv_scan : interlaced t = if n_interlaced m then V4L2_DV_INTERLACED else V4L2_DV_PROGRESSIVE;
  dv_standard : has std (standards t) <-> n ∉ unlisted;
  dv_rate : rate_ok (n_rate m) t <-> n ∉ rounded;
  dv_reduced : has V4L2_DV_FL_REDUCED_BLANKING (flags t) <-> n_rest m = bytes_of "_RB";
  dv_rest : n_rest m = [] \/ n_rest m = bytes_of "_RB";
  dv_cvt : has V4L2_DV_BT_STD_CVT (standards t) -> polarities t = cvt_polarity t;
  dv_fps : has V4L2_DV_FL_CAN_REDUCE_FPS (flags t) <->
    has V4L2_DV_BT_STD_CEA861 (standards t) /\ n_rate m mod 600 = 0 /\ n ∉ ntsc;
  dv_ce : has V4L2_DV_FL_IS_CE_VIDEO (flags t) <->
    has V4L2_DV_BT_STD_CEA861 (standards t) /\ width t <> 640 /\ n ∉ unmarked;
  dv_progressive : interlaced t = V4L2_DV_PROGRESSIVE ->
    il_vfrontporch t = 0 /\ il_vsync t = 0 /\ il_vbackporch t = 0;
  dv_frame : V4L2_DV_BT_FRAME_WIDTH t = width t + hfrontporch t + hsync t + hbackporch t /\
    V4L2_DV_BT_FRAME_HEIGHT t = height t + vfrontporch t + vsync t + vbackporch t +
      (il_vfrontporch t + il_vsync t + il_vbackporch t)
}.

(** A decidable form of [dv_facts]. *)
Definition dv_check (x : string * v4l2_dv_timings) : bool :=
  let '(n, t) := x in
  match dv_name n with
  | Some (std, m) =>
    let t := bt t in
    bool_decide (width t = n_width m /\ height t = n_height m) &&
    bool_decide (interlaced t = if n_interlaced m then V4L2_DV_INTERLACED else V4L2_DV_PROGRESSIVE) &&
    eqb (bool_decide (has std (standards t))) (bool_decide (n ∉ unlisted)) &&
    eqb (bool_decide (rate_ok (n_rate m) t)) (bool_decide (n ∉ rounded)) &&
    eqb (bool_decide (has V4L2_DV_FL_REDUCED_BLANKING (flags t))) (bool_decide (n_rest m = bytes_of "_RB")) &&
    bool_decide (n_rest m = [] \/ n_rest m = bytes_of "_RB") &&
    bool_decide (has V4L2_DV_BT_STD_CVT (standards t) -> polarities t = cvt_polarity t) &&
    eqb (bool_decide (has V4L2_DV_FL_CAN_REDUCE_FPS (flags t)))
      (bool_decide (has V4L2_DV_BT_STD_CEA861 (standards t) /\ n_rate m mod 600 = 0 /\ n ∉ ntsc)) &&
    eqb (bool_decide (has V4L2_DV_FL_IS_CE_VIDEO (flags t)))
      (bool_decide (has V4L2_DV_BT_STD_CEA861 (standards t) /\ width t <> 640 /\ n ∉ unmarked)) &&
    bool_decide (interlaced t = V4L2_DV_PROGRESSIVE ->
      il_vfrontporch t = 0 /\ il_vsync t = 0 /\ il_vbackporch t = 0) &&
    bool_decide (V4L2_DV_BT_FRAME_WIDTH t = width t + hfrontporch t + hsync t + hbackporch t /\
      V4L2_DV_BT_FRAME_HEIGHT t = height t + vfrontporch t + vsync t + vbackporch t +
        (il_vfrontporch t + il_vsync t + il_vbackporch t))
  | None => false
  end.

Lemma dv_check_sound n t : dv_check (n, t) = true -> exists std m, dv_name n = Some (std, m) /\ dv_facts n (bt t) std m.
Proof.
  unfold dv_check. destruct (dv_name n) as [[std m]|]; [|done]. rewrite !andb_true_iff.
  intros Hc. exists std, m. split; [done|]. decompose [and] Hc. clear Hc.
  repeat match goal with H : bool_decide _ = true |- _ => apply bool_decide_eq_true in H end.
  repeat match goal with H : eqb (bool_decide _) (bool_decide _) = true |- _ => apply eqb_bool_decide in H end.
  split; assumption.
Qed.

Lemma dv_checked : forallb dv_check dv_timings = true.
Proof. vm_compute. reflexivity. Qed.

(** C23 (equivalence): each of the timings of [v4l2-dv-timings.h] is what its name
    says: size, scan, blanking, standard (but for one), and the rate that its pixel
    clock gives over the frame the macros compute (but for two names); the clock
    may be reduced for exactly the CEA-861 rates that are multiples of six (one name
    rounds its rate to such); CVT timings have the polarities of the standard; the
    frame sizes do not wrap; and the formats marked as consumer electronics are the
    CEA-861 ones except 640x480, as the comment says, and except 1280x720 at 24 Hz,
    which it does not. *)
Theorem timings_as_named n t :
  (n, t) ∈ dv_timings -> exists std m, dv_name n = Some (std, m) /\ dv_facts n (bt t) std m.
Proof.
  intros Hin. apply dv_check_sound. pose proof dv_checked as H. rewrite forallb_forall in H.
  by apply H, list_elem_of_In.
Qed.

Lemma timings_as_named_witness :
  exists std m, dv_name "V4L2_DV_BT_CEA_720X480I59_94" = Some (std, m) /\
    dv_facts "V4L2_DV_BT_CEA_720X480I59_94"
      (mk_bt 720 480 1 0 13500000 19 62 57 4 3 15 4 3 16 V4L2_DV_BT_STD_CEA861
        (V4L2_DV_FL_HALF_LINE ||| V4L2_DV_FL_IS_CE_VIDEO)) std m.
Proof.
  apply (timings_as_named "V4L2_DV_BT_CEA_720X480I59_94"
    (timing 720 480 1 0 13500000 19 62 57 4 3 15 4 3 16 V4L2_DV_BT_STD_CEA861
      (V4L2_DV_FL_HALF_LINE ||| V4L2_DV_FL_IS_CE_VIDEO))).
  apply (list_elem_of_lookup_2 _ 1). reflexivity.
Defined.
End DvTimings.

(** ** [video/msm_hdmi_modes.h] *)

Module HdmiModes.

(** The constants of the header, with the values [ConstDisplay] gives them. *)
Definition constants : list (string * Z) :=
  Eval vm_compute in omap (fun x => v ← snd x; Some (fst x, num v)) (values lp64 Video_msm_hdmi_modes.header).
Fixpoint lookup_name {A} (n : string) (l : list (string * A)) : option A :=
  match l with
  | [] => None
  | (m, a) :: l => if String.eqb n m then Some a else lookup_name n l
  end.
Definition const (n : string) : Z := default (-1) (lookup_name n constants).

Record msm_hdmi_mode_timing_info : Type := mk_info {
  video_format : Z;
  active_h : Z; front_porch_h : Z; pulse_width_h : Z; back_porch_h : Z; active_low_h : Z;
  active_v : Z; front_porch_v : Z; pulse_width_v : Z; back_porch_v : Z; active_low_v : Z;
  pixel_freq : Z; refresh_rate : Z; interlaced : Z; supported : Z; ar : Z; pixel_formats : Z
}.

(** The initialiser of a timing: [true] and [false] are stored as 1 and 0. *)
Definition timing (mode : string) (ah fh ph bh : Z) (lh : bool) (av fv pv bv : Z) (lv : bool) (freq rate : Z)
    (il sup : bool) (aspect : string) (formats : Z) : msm_hdmi_mode_timing_info :=
  mk_info (const mode) ah fh ph bh (Z.b2z lh) av fv pv bv (Z.b2z lv) freq rate (Z.b2z il) (Z.b2z sup) (const aspect)
    formats.

Definition VFRMT_NOT_SUPPORTED (VFRMT : Z) : msm_hdmi_mode_timing_info :=
  mk_info VFRMT 0 0 0 0 0 0 0 0 0 0 0 0 0 (Z.b2z false) (const "HDMI_RES_AR_INVALID") 0.

Definition timings_1 : list (string * msm_hdmi_mode_timing_info) := [
    ("HDMI_VFRMT_640x480p60_4_3",
      timing "HDMI_VFRMT_640x480p60_4_3" 640 16 96 48 true 480 10 2 33 true 25200 60000 false true "HDMI_RES_AR_4_3" 0);
    ("HDMI_VFRMT_720x480p60_4_3",
      timing "HDMI_VFRMT_720x480p60_4_3" 720 16 62 60 true 480 9 6 30 true 27027 60000 false true "HDMI_RES_AR_4_3" 0);
    ("HDMI_VFRMT_720x480p60_16_9",
      timing "HDMI_VFRMT_720x480p60_16_9" 720 16 62 60 true 480 9 6 30 true 27027 60000 false true "HDMI_RES_AR_16_9" 0);
    ("HDMI_VFRMT_1280x720p60_16_9",
      timing "HDMI_VFRMT_1280x720p60_16_9" 1280 110 40 220 false 720 5 5 20 false 74250 60000 false true "HDMI_RES_AR_16_9" 0);
    ("HDMI_VFRMT_1920x1080i60_16_9",
      timing "HDMI_VFRMT_1920x1080i60_16_9" 1920 88 44 148 false 540 2 5 5 false 74250 60000 true false "HDMI_RES_AR_16_9" 0);
    ("HDMI_VFRMT_1440x480i60_4_3",
      timing "HDMI_VFRMT_1440x480i60_4_3" 1440 38 124 114 true 240 4 3 15 true 27000 60000 true false "HDMI_RES_AR_4_3" 0);
    ("HDMI_VFRMT_1440x480i60_16_9",
      timing "HDMI_VFRMT_1440x480i60_16_9" 1440 38 124 114 true 240 4 3 15 true 27000 60000 true false "HDMI_RES_AR_16_9" 0);
    ("HDMI_VFRMT_1920x1080p60_16_9",
      timing "HDMI_VFRMT_1920x1080p60_16_9" 1920 88 44 148 false 1080 4 5 36 false 148500 60000 false true "HDMI_RES_AR_16_9" 0);
    ("HDMI_VFRMT_720x576p50_4_3",
      timing "HDMI_VFRMT_720x576p50_4_3" 720 12 64 68 true 576 5 5 39 true 27000 50000 false true "HDMI_RES_AR_4_3" 0);
    ("HDMI_VFRMT_720x576p50_16_9",
      timing "HDMI_VFRMT_720x576p50_16_9" 720 12 64 68 true 576 5 5 39 true 27000 50000 false true "HDMI_RES_AR_16_9" 0);
    ("HDMI_VFRMT_1280x720p50_16_9",
      timing "HDMI_VFRMT_1280x720p50_16_9" 1280 440 40 220 false 720 5 5 20 false 74250 50000 false true "HDMI_RES_AR_16_9" 0);
    ("HDMI_VFRMT_1440x576i50_4_3",
      timing "HDMI_VFRMT_1440x576i50_4_3" 1440 24 126 138 true 288 2 3 19 true 27000 50000 true false "HDMI_RES_AR_4_3" 0);
    ("HDMI_VFRMT_1440x576i50_16_9",
      timing "HDMI_VFRMT_1440x576i50_16_9" 1440 24 126 138 true 288 2 3 19 true 27000 50000 true false "HDMI_RES_AR_16_9" 0);
    ("HDMI_VFRMT_1920x1080p50_16_9",
      timing "HDMI_VFRMT_1920x1080p50_16_9" 1920 528 44 148 false 1080 4 5 36 false 148500 50000 false true "HDMI_RES_AR_16_9" 0);
    ("HDMI_VFRMT_1920x1080p24_16_9",
      timing "HDMI_VFRMT_1920x1080p24_16_9" 1920 638 44 148 false 1080 4 5 36 false 74250 24000 false true "HDMI_RES_AR_16_9" 0);
    ("HDMI_VFRMT_1920x1080p25_16_9",
      timing "HDMI_VFRMT_1920x1080p25_16_9" 1920 528 44 148 false 1080 4 5 36 false 74250 25000 false true "HDMI_RES_AR_16_9" 0);
    ("HDMI_VFRMT_1920x1080p30_16_9",
      timing "HDMI_VFRMT_1920x1080p30_16_9" 1920 88 44 148 false 1080 4 5 36 false 74250 30000 false true "HDMI_RES_AR_16_9" 0);
    ("HDMI_VFRMT_1024x768p60_4_3",
      timing "HDMI_VFRMT_1024x768p60_4_3" 1024 24 136 160 false 768 2 6 29 false 65000 60000 false true "HDMI_RES_AR_4_3" 0);
    ("HDMI_VFRMT_1280x1024p60_5_4",
      timing "HDMI_VFRMT_1280x1024p60_5_4" 1280 48 112 248 false 1024 1 3 38 false 108000 60000 false true "HDMI_RES_AR_5_4" 0);
    ("HDMI_VFRMT_2560x1600p60_16_9",
      timing "HDMI_VFRMT_2560x1600p60_16_9" 2560 48 32 80 false 1600 3 6 37 false 268500 60000 false true "HDMI_RES_AR_16_9" 0);
    ("HDMI_EVFRMT_3840x2160p30_16_9",
      timing "HDMI_EVFRMT_3840x2160p30_16_9" 3840 176 88 296 false 2160 8 10 72 false 297000 30000 false true "HDMI_RES_AR_16_9" 0);
    ("HDMI_EVFRMT_3840x2160p25_16_9",
      timing "HDMI_EVFRMT_3840x2160p25_16_9" 3840 1056 88 296 false 2160 8 10 72 false 297000 25000 false true "HDMI_RES_AR_16_9" 0);
    ("HDMI_EVFRMT_3840x2160p24_16_9",
      timing "HDMI_EVFRMT_3840x2160p24_16_9" 3840 1276 88 296 false 2160 8 10 72 false 297000 24000 false true "HDMI_RES_AR_16_9" 0);
    ("HDMI_EVFRMT_4096x2160p24_16_9",
      timing "HDMI_EVFRMT_4096x2160p24_16_9" 4096 1020 88 296 false 2160 8 10 72 false 297000 24000 false true "HDMI_RES_AR_16_9" 0);
    ("HDMI_VFRMT_800x600p60_4_3",
      timing "HDMI_VFRMT_800x600p60_4_3" 800 40 128 88 false 600 1 4 23 false 40000 60000 false true "HDMI_RES_AR_4_3" 0);
    ("HDMI_VFRMT_848x480p60_16_9",
      timing "HDMI_VFRMT_848x480p60_16_9" 848 16 112 112 false 480 6 8 23 false 33750 60000 false true "HDMI_RES_AR_16_9" 0);
    ("HDMI_VFRMT_1280x960p60_4_3",
      timing "HDMI_VFRMT_1280x960p60_4_3" 1280 96 112 312 false 960 1 3 36 false 108000 60000 false true "HDMI_RES_AR_4_3" 0);
    ("HDMI_VFRMT_1360x768p60_16_9",
      timing "HDMI_VFRMT_1360x768p60_16_9" 1360 64 112 256 false 768 3 6 18 false 85500 60000 false true "HDMI_RES_AR_16_9" 0);
    ("HDMI_VFRMT_1440x900p60_16_10",
      timing "HDMI_VFRMT_1440x900p60_16_10" 1440 48 32 80 false 900 3 6 17 true 88750 60000 false true "HDMI_RES_AR_16_10" 0);
    ("HDMI_VFRMT_1400x1050p60_4_3",
      timing "HDMI_VFRMT_1400x1050p60_4_3" 1400 48 32 80 false 1050 3 4 23 true 101000 60000 false true "HDMI_RES_AR_4_3" 0);
    ("HDMI_VFRMT_1680x1050p60_16_10",
      timing "HDMI_VFRMT_1680x1050p60_16_10" 1680 48 32 80 false 1050 3 6 21 true 119000 60000 false true "HDMI_RES_AR_16_10" 0);
    ("HDMI_VFRMT_1600x1200p60_4_3",
      timing "HDMI_VFRMT_1600x1200p60_4_3" 1600 64 192 304 false 1200 1 3 46 false 162000 60000 false true "HDMI_RES_AR_4_3" 0);
    ("HDMI_VFRMT_1920x1200p60_16_10",
      timing "HDMI_VFRMT_1920x1200p60_16_10" 1920 48 32 80 false 1200 3 6 26 true 154000 60000 false true "HDMI_RES_AR_16_10" 0);
    ("HDMI_VFRMT_1366x768p60_16_10",
      timing "HDMI_VFRMT_1366x768p60_16_10" 1366 70 143 213 false 768 3 3 24 false 85500 60000 false true "HDMI_RES_AR_16_10" 0);
    ("HDMI_VFRMT_1280x800p60_16_10",
      timing "HDMI_VFRMT_1280x800p60_16_10" 1280 72 128 200 true 800 3 6 22 false 83500 60000 false true "HDMI_RES_AR_16_10" 0);
    ("HDMI_VFRMT_3840x2160p24_16_9",
      timing "HDMI_VFRMT_3840x2160p24_16_9" 3840 1276 88 296 false 2160 8 10 72 false 297000 24000 false true "HDMI_RES_AR_16_9" 0);
    ("HDMI_VFRMT_3840x2160p25_16_9",
      timing "HDMI_VFRMT_3840x2160p25_16_9" 3840 1056 88 296 false 2160 8 10 72 false 297000 25000 false true "HDMI_RES_AR_16_9" 0);
    ("HDMI_VFRMT_3840x2160p30_16_9",
      timing "HDMI_VFRMT_3840x2160p30_16_9" 3840 176 88 296 false 2160 8 10 72 false 297000 30000 false true "HDMI_RES_AR_16_9" 0);
    ("HDMI_VFRMT_3840x2160p50_16_9",
      timing "HDMI_VFRMT_3840x2160p50_16_9" 3840 1056 88 296 false 2160 8 10 72 false 594000 50000 false true "HDMI_RES_AR_16_9" 0);
    ("HDMI_VFRMT_3840x2160p60_16_9",
      timing "HDMI_VFRMT_3840x2160p60_16_9" 3840 176 88 296 false 2160 8 10 72 false 594000 60000 false true "HDMI_RES_AR_16_9" 0);
    ("HDMI_VFRMT_4096x2160p24_256_135",
      timing "HDMI_VFRMT_4096x2160p24_256_135" 4096 1020 88 296 false 2160 8 10 72 false 297000 24000 false true "HDMI_RES_AR_256_135" 0);
    ("HDMI_VFRMT_4096x2160p25_256_135",
      timing "HDMI_VFRMT_4096x2160p25_256_135" 4096 968 88 128 false 2160 8 10 72 false 297000 25000 false true "HDMI_RES_AR_256_135" 0);
    ("HDMI_VFRMT_4096x2160p30_256_135",
      timing "HDMI_VFRMT_4096x2160p30_256_135" 4096 88 88 128 false 2160 8 10 72 false 297000 30000 false true "HDMI_RES_AR_256_135" 0);
    ("HDMI_VFRMT_4096x2160p50_256_135",
      timing "HDMI_VFRMT_4096x2160p50_256_135" 4096 968 88 128 false 2160 8 10 72 false 594000 50000 false true "HDMI_RES_AR_256_135" 0)].

Definition timings_2 : list (string * msm_hdmi_mode_timing_info) := [
    ("HDMI_VFRMT_4096x2160p60_256_135",
      timing "HDMI_VFRMT_4096x2160p60_256_135" 4096 88 88 128 false 2160 8 10 72 false 594000 60000 false true "HDMI_RES_AR_256_135" 0);
    ("HDMI_VFRMT_3840x2160p24_64_27",
      timing "HDMI_VFRMT_3840x2160p24_64_27" 3840 1276 88 296 false 2160 8 10 72 false 297000 24000 false true "HDMI_RES_AR_64_27" 0);
    ("HDMI_VFRMT_3840x2160p25_64_27",
      timing "HDMI_VFRMT_3840x2160p25_64_27" 3840 1056 88 296 false 2160 8 10 72 false 297000 25000 false true "HDMI_RES_AR_64_27" 0);
    ("HDMI_VFRMT_3840x2160p30_64_27",
      timing "HDMI_VFRMT_3840x2160p30_64_27" 3840 176 88 296 false 2160 8 10 72 false 297000 30000 false true "HDMI_RES_AR_64_27" 0);
    ("HDMI_VFRMT_3840x2160p50_64_27",
      timing "HDMI_VFRMT_3840x2160p50_64_27" 3840 1056 88 296 false 2160 8 10 72 false 594000 50000 false true "HDMI_RES_AR_64_27" 0);
    ("HDMI_VFRMT_3840x2160p60_64_27",
      timing "HDMI_VFRMT_3840x2160p60_64_27" 3840 176 88 296 false 2160 8 10 72 false 594000 60000 false true "HDMI_RES_AR_64_27" 0);
    ("HDMI_VFRMT_640x480p59_4_3",
      timing "HDMI_VFRMT_640x480p59_4_3" 640 16 96 48 true 480 10 2 33 true 25170 59928 false true "HDMI_RES_AR_4_3" 1)].

(** [MODE##_TIMING]. *)
Definition timings : list (string * msm_hdmi_mode_timing_info) := timings_1 ++ timings_2.

(** *** The macros

    The table of a driver is an array, of which [None] is an element that is
    not initialised; a store outside it is a fault. *)
Definition table : Type := list (option msm_hdmi_mode_timing_info).
Definition store (lut : table) (i : Z) (t : msm_hdmi_mode_timing_info) : option table :=
  if decide (0 <= i < Z.of_nat (length lut)) then Some (<[Z.to_nat i := Some t]> lut) else None.

Definition MSM_HDMI_MODES_SET_TIMING (lut : table) (MODE : string) : option table :=
  mode ← lookup_name MODE timings; store lut (const MODE) mode.

Fixpoint init_loop (n i : nat) (lut : table) : option table :=
  match n with
  | O => Some lut
  | S n => lut ← store lut (Z.of_nat i) (VFRMT_NOT_SUPPORTED (Z.of_nat i)); init_loop n (S i) lut
  end.
Definition MSM_HDMI_MODES_INIT_TIMINGS (lut : table) : option table :=
  init_loop (Z.to_nat (const "HDMI_VFRMT_MAX")) 0 lut.

Fixpoint set_all (lut : table) (modes : list string) : option table :=
  match modes with
  | [] => Some lut
  | m :: modes => lut ← MSM_HDMI_MODES_SET_TIMING lut m; set_all lut modes
  end.

Definition cea_modes : list string := [
    "HDMI_VFRMT_640x480p60_4_3"; "HDMI_VFRMT_720x480p60_4_3"; "HDMI_VFRMT_720x480p60_16_9";
    "HDMI_VFRMT_1280x720p60_16_9"; "HDMI_VFRMT_1920x1080i60_16_9"; "HDMI_VFRMT_1440x480i60_4_3";
    "HDMI_VFRMT_1440x480i60_16_9"; "HDMI_VFRMT_1920x1080p60_16_9"; "HDMI_VFRMT_720x576p50_4_3";
    "HDMI_VFRMT_720x576p50_16_9"; "HDMI_VFRMT_1280x720p50_16_9"; "HDMI_VFRMT_1440x576i50_4_3";
    "HDMI_VFRMT_1440x576i50_16_9"; "HDMI_VFRMT_1920x1080p50_16_9"; "HDMI_VFRMT_1920x1080p24_16_9";
    "HDMI_VFRMT_1920x1080p25_16_9"; "HDMI_VFRMT_1920x1080p30_16_9"; "HDMI_VFRMT_3840x2160p24_16_9";
    "HDMI_VFRMT_3840x2160p25_16_9"; "HDMI_VFRMT_3840x2160p30_16_9"; "HDMI_VFRMT_3840x2160p50_16_9";
    "HDMI_VFRMT_3840x2160p60_16_9"; "HDMI_VFRMT_4096x2160p24_256_135"; "HDMI_VFRMT_4096x2160p25_256_135";
    "HDMI_VFRMT_4096x2160p30_256_135"; "HDMI_VFRMT_4096x2160p50_256_135";
    "HDMI_VFRMT_4096x2160p60_256_135"; "HDMI_VFRMT_3840x2160p24_64_27"; "HDMI_VFRMT_3840x2160p25_64_27";
    "HDMI_VFRMT_3840x2160p30_64_27"; "HDMI_VFRMT_3840x2160p50_64_27"; "HDMI_VFRMT_3840x2160p60_64_27";
    "HDMI_VFRMT_640x480p59_4_3"].

Definition xtnd_modes : list string := [
    "HDMI_EVFRMT_3840x2160p30_16_9"; "HDMI_EVFRMT_3840x2160p25_16_9"; "HDMI_EVFRMT_3840x2160p24_16_9";
    "HDMI_EVFRMT_4096x2160p24_16_9"].

Definition dvi_modes : list string := [
    "HDMI_VFRMT_1024x768p60_4_3"; "HDMI_VFRMT_1280x1024p60_5_4"; "HDMI_VFRMT_2560x1600p60_16_9";
    "HDMI_VFRMT_800x600p60_4_3"; "HDMI_VFRMT_848x480p60_16_9"; "HDMI_VFRMT_1280x960p60_4_3";
    "HDMI_VFRMT_1360x768p60_16_9"; "HDMI_VFRMT_1440x900p60_16_10"; "HDMI_VFRMT_1400x1050p60_4_3";
    "HDMI_VFRMT_1680x1050p60_16_10"; "HDMI_VFRMT_1600x1200p60_4_3"; "HDMI_VFRMT_1920x1200p60_16_10";
    "HDMI_VFRMT_1366x768p60_16_10"; "HDMI_VFRMT_1280x800p60_16_10"].

Definition MSM_HDMI_MODES_SET_SUPP_TIMINGS (lut : table) (type : Z) : option table :=
  lut ← (if decide (type &&& const "MSM_HDMI_MODES_CEA" = 0) then Some lut else set_all lut cea_modes);
  lut ← (if decide (type &&& const "MSM_HDMI_MODES_XTND" = 0) then Some lut else set_all lut xtnd_modes);
  if decide (type &&& const "MSM_HDMI_MODES_DVI" = 0) then Some lut else set_all lut dvi_modes.

Definition MSM_HDMI_MODES_GET_DETAILS (MODE : string) : option msm_hdmi_mode_timing_info := lookup_name MODE timings.

(** *** Filling a table *)

Definition VFRMT_MAX : nat := Z.to_nat (const "HDMI_VFRMT_MAX").

(** The modes a type selects. *)
Definition selected (type : Z) : list string :=
  (if decide (type &&& const "MSM_HDMI_MODES_CEA" = 0) then [] else cea_modes) ++
  (if decide (type &&& const "MSM_HDMI_MODES_XTND" = 0) then [] else xtnd_modes) ++
  (if decide (type &&& const "MSM_HDMI_MODES_DVI" = 0) then [] else dvi_modes).

Lemma store_Some lut i t : 0 <= i < Z.of_nat (length lut) -> store lut i t = Some (<[Z.to_nat i := Some t]> lut).
Proof. intros. unfold store. by rewrite decide_True. Qed.

Lemma init_loop_spec n : forall i lut, (i + n <= length lut)%nat -> exists lut',
  init_loop n i lut = Some lut' /\ length lut' = length lut /\
  (forall j, (i <= j < i + n)%nat -> lut' !! j = Some (Some (VFRMT_NOT_SUPPORTED (Z.of_nat j)))) /\
  (forall j, (j < i \/ i + n <= j)%nat -> lut' !! j = lut !! j).
Proof.
  induction n as [|n IH]; intros i lut Hl; cbn [init_loop].
  { exists lut. split_and!; [done..| |done]. intros j Hj. lia. }
  rewrite store_Some by lia. cbn [mbind option_bind]. rewrite Nat2Z.id.
  destruct (IH (S i) (<[i := Some (VFRMT_NOT_SUPPORTED (Z.of_nat i))]> lut)) as (lut' & -> & Hlen & Hin & Hout).
  { rewrite length_insert. lia. }
  exists lut'. rewrite length_insert in Hlen. split_and!; [done..| |].
  - intros j Hj. destruct (decide (j = i)) as [->|]; [|apply Hin; lia].
    rewrite Hout by lia. apply list_lookup_insert_eq. lia.
  - intros j Hj. rewrite Hout by lia. apply list_lookup_insert_ne. lia.
Qed.

(** A mode has a timing, and its number an element. *)
Definition mode_ok (n : nat) (m : string) : Prop :=
  is_Some (lookup_name m timings) /\ 0 <= const m < Z.of_nat n.

Lemma set_all_app lut l l' : set_all lut (l ++ l') = lut ← set_all lut l; set_all lut l'.
Proof.
  revert lut. induction l as [|m l IH]; intros lut; [done|]. cbn [app set_all].
  destruct (MSM_HDMI_MODES_SET_TIMING lut m); [|done]. cbn [mbind option_bind]. apply IH.
Qed.

Lemma set_all_spec modes : forall lut, Forall (mode_ok (length lut)) modes -> NoDup (map const modes) ->
  exists lut', set_all lut modes = Some lut' /\ length lut' = length lut /\
  (forall m, m ∈ modes -> lut' !! Z.to_nat (const m) = Some (lookup_name m timings)) /\
  (forall i, (forall m, m ∈ modes -> const m <> Z.of_nat i) -> lut' !! i = lut !! i).
Proof.
  induction modes as [|m modes IH]; intros lut Hok Hnd; cbn [set_all].
  { exists lut. split_and!; [done..| |done]. intros m Hm. by apply elem_of_nil in Hm. }
  apply Forall_cons in Hok as [[[t Ht] Hi] Hok]. cbn [map] in Hnd. apply NoDup_cons in Hnd as [Hnin Hnd].
  unfold MSM_HDMI_MODES_SET_TIMING. rewrite Ht. cbn [mbind option_bind]. rewrite store_Some by done.
  cbn [mbind option_bind].
  destruct (IH (<[Z.to_nat (const m) := Some t]> lut)) as (lut' & -> & Hlen & Hin & Hout).
  { by rewrite length_insert. }
  { done. }
  rewrite length_insert in Hlen. exists lut'. split_and!; [done..| |].
  - intros m' [->|Hm']%elem_of_cons; [|by apply Hin].
    rewrite Hout, Ht, list_lookup_insert_eq; [done|lia|].
    intros m' Hm' E. rewrite Z2Nat.id in E by lia. apply Hnin. rewrite <- E.
    apply list_elem_of_In, in_map, list_elem_of_In. done.
  - intros i H. rewrite Hout by (intros m' Hm'; apply H; by right).
    apply list_lookup_insert_ne. specialize (H m). lia || (intros <-; apply H; [left|lia]).
Qed.

Lemma supp_selected lut type : MSM_HDMI_MODES_SET_SUPP_TIMINGS lut type = set_all lut (selected type).
Proof.
  unfold MSM_HDMI_MODES_SET_SUPP_TIMINGS, selected. rewrite !set_all_app.
  repeat case_decide; cbn [set_all mbind option_bind];
    try (destruct (set_all lut cea_modes) as [l|]; cbn [mbind option_bind]);
    rewrite ?app_nil_r, ?set_all_app; try done; by destruct (set_all _ xtnd_modes).
Qed.

Lemma all_modes_ok : Forall (mode_ok VFRMT_MAX) (cea_modes ++ xtnd_modes ++ dvi_modes).
Proof. apply (bool_decide_unpack _). vm_compute. exact I. Qed.
Lemma all_modes_distinct : NoDup (map const (cea_modes ++ xtnd_modes ++ dvi_modes)).
Proof. apply (bool_decide_unpack _). vm_compute. exact I. Qed.

Lemma selected_sublist type : sublist (selected type) (cea_modes ++ xtnd_modes ++ dvi_modes).
Proof.
  unfold selected. repeat apply sublist_app; case_decide; (apply sublist_nil_l || reflexivity).
Qed.

(** The table after both macros. *)
Definition filled (lut : table) (type : Z) (lut' : table) : Prop :=
  length lut' = length lut /\
  (forall m, m ∈ selected type -> exists t, MSM_HDMI_MODES_GET_DETAILS m = Some t /\
    lut' !! Z.to_nat (const m) = Some (Some t)) /\
  (forall i, (i < VFRMT_MAX)%nat -> (forall m, m ∈ selected type -> const m <> Z.of_nat i) ->
    lut' !! i = Some (Some (VFRMT_NOT_SUPPORTED (Z.of_nat i)))) /\
  (forall i, (VFRMT_MAX <= i)%nat -> lut' !! i = lut !! i).

(** C16 (functional): on every table with at least [HDMI_VFRMT_MAX] elements and
    for every combination of mode sets, INIT_TIMINGS followed by
    SET_SUPP_TIMINGS stores inside the table only: each selected mode has its
    timing under its number, no mode overwrites another, every other format is
    marked as not supported, and elements behind the formats are left alone. *)
Theorem table_filled lut type :
  (VFRMT_MAX <= length lut)%nat ->
  exists lut', (lut1 ← MSM_HDMI_MODES_INIT_TIMINGS lut; MSM_HDMI_MODES_SET_SUPP_TIMINGS lut1 type) = Some lut' /\
    filled lut type lut'.
Proof.
  intros Hl. destruct (init_loop_spec VFRMT_MAX 0 lut) as (lut1 & H1 & Hlen & Hin & Hout); [lia|].
  unfold MSM_HDMI_MODES_INIT_TIMINGS. fold VFRMT_MAX. rewrite H1. cbn [mbind option_bind].
  assert (Forall (mode_ok VFRMT_MAX) (selected type)) as Hok.
  { pose proof all_modes_ok as Ha. rewrite Forall_forall in Ha |- *. intros m Hm. eapply Ha, elem_of_sublist;
      [done|apply selected_sublist]. }
  rewrite supp_selected. destruct (set_all_spec (selected type) lut1) as (lut' & -> & Hlen' & Hin' & Hout').
  { eapply Forall_impl; [exact Hok|]. intros m [? ?]. split; [done|]. rewrite Hlen. lia. }
  { eapply sublist_NoDup; [apply all_modes_distinct|]. apply (fmap_sublist const), selected_sublist. }
  exists lut'. split; [done|]. split_and!; [by rewrite Hlen'| | |].
  - intros m Hm. assert (mode_ok VFRMT_MAX m) as [[t Ht] _] by (by eapply Forall_forall in Hok).
    exists t. rewrite (Hin' m Hm), Ht. done.
  - intros i Hi Hno. rewrite (Hout' i Hno). apply Hin. lia.
  - intros i Hi. rewrite Hout', Hout; [done|lia|].
    intros m Hm E. assert (mode_ok VFRMT_MAX m) as [_ ?] by (by eapply Forall_forall in Hok). lia.
Qed.

Lemma table_filled_witness :
  exists lut', (lut1 ← MSM_HDMI_MODES_INIT_TIMINGS (replicate 200 None); MSM_HDMI_MODES_SET_SUPP_TIMINGS lut1 3) =
    Some lut' /\ filled (replicate 200 None) 3 lut'.
Proof. apply (table_filled (replicate 200 None) 3). apply Nat.leb_le. vm_compute. reflexivity. Defined.

(** *** What the names say *)

Definition hdmi_name (n : string) : option mode_name :=
  match strip (bytes_of "HDMI_VFRMT_") (bytes_of n) with
  | Some s => read_mode "x" "p" "i" s
  | None => s ← strip (bytes_of "HDMI_EVFRMT_") (bytes_of n); read_mode "x" "p" "i" s
  end.

Definition aspect (ar : Z) (rest : list Z) : Prop :=
  (bytes_of "HDMI_RES_AR" ++ rest, ar) ∈ map (fun x => (bytes_of x.1, x.2)) constants.
#[export] Instance aspect_dec a r : Decision (aspect a r).
Proof. unfold aspect. apply _. Defined.

Definition frame_width (t : msm_hdmi_mode_timing_info) : Z :=
  active_h t + front_porch_h t + pulse_width_h t + back_porch_h t.
(** Twice the lines of a frame, or of a field of an interlaced one, which has half
    a line more. *)
Definition half_lines (t : msm_hdmi_mode_timing_info) : Z :=
  2 * (active_v t + front_porch_v t + pulse_width_v t + back_porch_v t) + interlaced t.

(** The clock, in kHz, gives the rate, in mHz, within 6 parts in 1000. *)
Definition clock_ok (t : msm_hdmi_mode_timing_info) : Prop :=
  let total := refresh_rate t * (frame_width t * half_lines t) in
  1000 * Z.abs (2 * 1000000 * pixel_freq t - total) <= 6 * total.
#[export] Instance clock_ok_dec t : Decision (clock_ok t).
Proof. unfold clock_ok. apply _. Defined.

(** Its back porch has 5 lines instead of 15. *)
Definition off_rate : list string := ["HDMI_VFRMT_1920x1080i60_16_9"].

Record hdmi_facts (n : string) (t : msm_hdmi_mode_timing_info) (m : mode_name) : Prop := mk_hdmi_facts {
  hd_format : video_format t = const n;
  hd_size : active_h t = n_width m /\ (1 + interlaced t) * active_v t = n_height m;
  hd_scan : interlaced t = Z.b2z (n_interlaced m);
  hd_refresh : refresh_rate t / 1000 * 100 = n_rate m;
  hd_aspect : aspect (ar t) (n_rest m);
  hd_supported : supported t = 1 - interlaced t;
  hd_clock : clock_ok t <-> n ∉ off_rate
}.

Definition hdmi_check (x : string * msm_hdmi_mode_timing_info) : bool :=
  let '(n, t) := x in
  match hdmi_name n with
  | Some m =>
    bool_decide (video_format t = const n) &&
    bool_decide (active_h t = n_width m /\ (1 + interlaced t) * active_v t = n_height m) &&
    bool_decide (interlaced t = Z.b2z (n_interlaced m)) &&
    bool_decide (refresh_rate t / 1000 * 100 = n_rate m) &&
    bool_decide (aspect (ar t) (n_rest m)) &&
    bool_decide (supported t = 1 - interlaced t) &&
    eqb (bool_decide (clock_ok t)) (bool_decide (n ∉ off_rate))
  | None => false
  end.

Lemma hdmi_check_sound n t : hdmi_check (n, t) = true -> exists m, hdmi_name n = Some m /\ hdmi_facts n t m.
Proof.
  unfold hdmi_check. destruct (hdmi_name n) as [m|]; [|done]. rewrite !andb_true_iff.
  intros Hc. exists m. split; [done|]. decompose [and] Hc. clear Hc.
  repeat match goal with H : bool_decide _ = true |- _ => apply bool_decide_eq_true in H end.
  repeat match goal with H : eqb (bool_decide _) (bool_decide _) = true |- _ =>
    apply eqb_bool_decide in H end.
  split; assumption.
Qed.

Lemma hdmi_checked : forallb hdmi_check timings = true.
Proof. vm_compute. reflexivity. Qed.

(** (equivalence): each timing of [msm_hdmi_modes.h] is what its name says:
    it names its own format number; size, scan, rate and aspect ratio are those of
    the name; exactly the progressive ones are supported; and the pixel clock
    gives the refresh rate over the whole frame, except for 1920x1080i60, whose
    vertical back porch lacks ten lines. *)
Theorem modes_as_named n t :
  (n, t) ∈ timings -> exists m, hdmi_name n = Some m /\ hdmi_facts n t m.
Proof.
  intros Hin. apply hdmi_check_sound. pose proof hdmi_checked as H. rewrite forallb_forall in H.
  by apply H, list_elem_of_In.
Qed.

Lemma modes_as_named_witness :
  exists m, hdmi_name "HDMI_VFRMT_1440x480i60_16_9" = Some m /\
    hdmi_facts "HDMI_VFRMT_1440x480i60_16_9"
      (timing "HDMI_VFRMT_1440x480i60_16_9" 1440 38 124 114 true 240 4 3 15 true 27000 60000 true false
        "HDMI_RES_AR_16_9" 0) m.
Proof. apply modes_as_named. apply (list_elem_of_lookup_2 _ 6). reflexivity. Defined.
End HdmiModes.
