(* ===== verification/Bitfields.v ===== *)
(** * Bit-fields of protocol headers

    Structures of network and CD-ROM headers that declare their bit-fields twice,
    for little-endian and for big-endian hosts. A compiler lays out bit-fields of
    a unit from its low bit on a little-endian host and from its high bit on a
    big-endian one, and loads and stores the unit in the byte order of the
    host. The theorems show what the double declarations are for: a field has the
    same place in the bytes of a message on both kinds of host, so that
    the structures can be laid over what comes from the wire. *)
From S2P Require Import Prelude.
From S2P Require Import Memory.
From S2P Require Import Byteorder.

(** ** Declarations and layout *)

(** A member with its size and alignment, or a run of bit-fields declared with
    an integer type of a size. *)
Inductive member : Type :=
| Field (name : string) (size align : nat)
| Bits (size : nat) (fs : list (string * nat)).
Abbreviation members := (list member).

(** Where a bit-field is: the unit that holds it, and its place in the unit,
    counted in the order of declaration. *)
Record slot : Type := mk_slot { unit : nat; size : nat; first : nat; width : nat }.
#[export] Instance slot_eq_dec : EqDecision slot.
Proof. solve_decision. Defined.

Definition round_up (n a : nat) : nat := (n + a - 1) / a * a.

(** A field that does not fit in the rest of a unit starts the next one. *)
Fixpoint run_slots (size u q : nat) (fs : list (string * nat)) : list (string * slot) * nat :=
  match fs with
  | [] => ([], if decide (q = 0)%nat then u else (u + size)%nat)
  | (f, w) :: fs =>
    let '(u, q) := if decide (q + w <= 8 * size)%nat then (u, q) else ((u + size)%nat, 0%nat) in
    let '(l, e) := run_slots size u (q + w) fs in ((f, mk_slot u size q w) :: l, e)
  end.

(** The bit-fields of a structure and its end. *)
Fixpoint layout (ms : members) (off : nat) : list (string * slot) * nat :=
  match ms with
  | [] => ([], off)
  | Field _ size align :: ms => layout ms (round_up off align + size)
  | Bits size fs :: ms =>
    let '(l, e) := run_slots size (round_up off size) 0 fs in
    let '(l', e') := layout ms e in (l ++ l', e')
  end.
Definition slots (ms : members) : list (string * slot) := (layout ms 0).1.
Definition struct_size (ms : members) : nat := (layout ms 0).2.

(** The places of the other members. *)
Fixpoint offsets (ms : members) (off : nat) : list (string * nat) :=
  match ms with
  | [] => []
  | Field f size align :: ms => (f, round_up off align) :: offsets ms (round_up off align + size)
  | Bits size fs :: ms => offsets ms (run_slots size (round_up off size) 0 fs).2
  end.

Fixpoint named {A} (n : string) (l : list (string * A)) : option A :=
  match l with
  | [] => None
  | (m, a) :: l => if String.eqb n m then Some a else named n l
  end.

(** ** Access *)

Section access.
Context {BO : ByteOrder}.

(** The lowest bit of a field in the integer its unit holds. *)
Definition shift (s : slot) : Z :=
  Z.of_nat (if big_endian then 8 * size s - first s - width s else first s).

Definition get_bits (s : slot) (m : bytes) : option Z :=
  u ← ld (size s) m (unit s); Some ((u ≫ shift s) &&& Z.ones (Z.of_nat (width s))).

Definition put (s : slot) (v u : Z) : Z :=
  (u &&& Z.lnot (Z.ones (Z.of_nat (width s)) ≪ shift s)) |||
  ((v &&& Z.ones (Z.of_nat (width s))) ≪ shift s).

Definition set_bits (s : slot) (v : Z) (m : bytes) : option bytes :=
  u ← ld (size s) m (unit s); st (size s) (unit s) (put s v u) m.
End access.

(** ** The structures *)

Section structures.
Context {BO : ByteOrder}.
#[local] Open Scope nat_scope.

(** [#if defined (__LITTLE_ENDIAN_BITFIELD) ... #elif defined (__BIG_ENDIAN_BITFIELD)]. *)
Definition choose (little big : members) : members := if big_endian then big else little.

(** [ip.h] *)
Definition iphdr : members :=
  choose [Bits 1 [("ihl", 4); ("version", 4)]]
    [Bits 1 [("version", 4); ("ihl", 4)]] ++
  [Field "tos" 1 1; Field "tot_len" 2 2; Field "id" 2 2; Field "frag_off" 2 2; Field "ttl" 1 1;
      Field "protocol" 1 1; Field "check" 2 2; Field "saddr" 4 4; Field "daddr" 4 4].

(** [ipv6.h] *)
Definition ipv6hdr : members :=
  choose [Bits 1 [("priority", 4); ("version", 4)]]
    [Bits 1 [("version", 4); ("priority", 4)]] ++
  [Field "flow_lbl" 3 1; Field "payload_len" 2 2; Field "nexthdr" 1 1; Field "hop_limit" 1 1;
      Field "saddr" 16 4; Field "daddr" 16 4].

(** [tcp.h] *)
Definition tcphdr : members :=
  [Field "source" 2 2; Field "dest" 2 2; Field "seq" 4 4; Field "ack_seq" 4 4] ++
  choose [Bits 2 [("res1", 4); ("doff", 4); ("fin", 1); ("syn", 1); ("rst", 1); ("psh", 1); ("ack", 1);
      ("urg", 1); ("ece", 1); ("cwr", 1)]]
    [Bits 2 [("doff", 4); ("res1", 4); ("cwr", 1); ("ece", 1); ("urg", 1); ("ack", 1); ("psh", 1);
      ("rst", 1); ("syn", 1); ("fin", 1)]] ++
  [Field "window" 2 2; Field "check" 2 2; Field "urg_ptr" 2 2].

(** [icmpv6.h] *)
Definition icmpv6_nd_advt : members :=
  choose [Bits 4 [("reserved", 5); ("override", 1); ("solicited", 1); ("router", 1); ("reserved2", 24)]]
    [Bits 4 [("router", 1); ("solicited", 1); ("override", 1); ("reserved", 29)]].

(** [icmpv6.h] *)
Definition icmpv6_nd_ra : members :=
  [Field "hop_limit" 1 1] ++
  choose [Bits 1 [("reserved", 3); ("router_pref", 2); ("home_agent", 1); ("other", 1); ("managed", 1)]]
    [Bits 1 [("managed", 1); ("other", 1); ("home_agent", 1); ("router_pref", 2); ("reserved", 3)]] ++
  [Field "rt_lifetime" 2 2].

(** [igmp.h] *)
Definition igmpv3_query : members :=
  [Field "type" 1 1; Field "code" 1 1; Field "csum" 2 2; Field "group" 4 4] ++
  choose [Bits 1 [("qrv", 3); ("suppress", 1); ("resv", 4)]]
    [Bits 1 [("resv", 4); ("suppress", 1); ("qrv", 3)]] ++
  [Field "qqic" 1 1; Field "nsrcs" 2 2; Field "srcs" 0 4].

(** [if_pppox.h] *)
Definition pppoe_hdr : members :=
  choose [Bits 1 [("type", 4); ("ver", 4)]]
    [Bits 1 [("ver", 4); ("type", 4)]] ++
  [Field "code" 1 1; Field "sid" 2 1; Field "length" 2 1; Field "tag" 0 1].

(** [if_hippi.h] *)
Definition hippi_le_hdr : members :=
  choose [Bits 1 [("message_type", 4); ("double_wide", 1); ("fc", 3)]]
    [Bits 1 [("fc", 3); ("double_wide", 1); ("message_type", 4)]] ++
  [Field "dest_switch_addr" 3 1] ++
  choose [Bits 1 [("src_addr_type", 4); ("dest_addr_type", 4)]]
    [Bits 1 [("dest_addr_type", 4); ("src_addr_type", 4)]] ++
  [Field "src_switch_addr" 3 1; Field "reserved" 2 1; Field "daddr" 6 1; Field "locally_administered" 2 1;
      Field "saddr" 6 1].

(** [dccp.h] *)
Definition dccp_hdr : members :=
  [Field "dccph_sport" 2 2; Field "dccph_dport" 2 2; Field "dccph_doff" 1 1] ++
  choose [Bits 1 [("dccph_cscov", 4); ("dccph_ccval", 4)]]
    [Bits 1 [("dccph_ccval", 4); ("dccph_cscov", 4)]] ++
  [Field "dccph_checksum" 2 2] ++
  choose [Bits 1 [("dccph_x", 1); ("dccph_type", 4); ("dccph_reserved", 3)]]
    [Bits 1 [("dccph_reserved", 3); ("dccph_type", 4); ("dccph_x", 1)]] ++
  [Field "dccph_seq2" 1 1; Field "dccph_seq" 2 2].

(** [cdrom.h] *)
Definition request_sense : members :=
  choose [Bits 1 [("error_code", 7); ("valid", 1)]]
    [Bits 1 [("valid", 1); ("error_code", 7)]] ++
  [Field "segment_number" 1 1] ++
  choose [Bits 1 [("sense_key", 4); ("reserved2", 1); ("ili", 1); ("reserved1", 2)]]
    [Bits 1 [("reserved1", 2); ("ili", 1); ("reserved2", 1); ("sense_key", 4)]] ++
  [Field "information" 4 1; Field "add_sense_len" 1 1; Field "command_info" 4 1; Field "asc" 1 1;
      Field "ascq" 1 1; Field "fruc" 1 1; Field "sks" 3 1; Field "asb" 46 1].

(** [cdrom.h] *)
Definition mrw_feature_desc : members :=
  [Field "feature_code" 2 2] ++
  choose [Bits 1 [("curr", 1); ("persistent", 1); ("feature_version", 4); ("reserved1", 2)]]
    [Bits 1 [("reserved1", 2); ("feature_version", 4); ("persistent", 1); ("curr", 1)]] ++
  [Field "add_len" 1 1] ++
  choose [Bits 1 [("write", 1); ("reserved2", 7)]]
    [Bits 1 [("reserved2", 7); ("write", 1)]] ++
  [Field "reserved3" 1 1; Field "reserved4" 1 1; Field "reserved5" 1 1].

(** [cdrom.h] *)
Definition rwrt_feature_desc : members :=
  [Field "feature_code" 2 2] ++
  choose [Bits 1 [("curr", 1); ("persistent", 1); ("feature_version", 4); ("reserved1", 2)]]
    [Bits 1 [("reserved1", 2); ("feature_version", 4); ("persistent", 1); ("curr", 1)]] ++
  [Field "add_len" 1 1; Field "last_lba" 4 4; Field "block_size" 4 4; Field "blocking" 2 2] ++
  choose [Bits 1 [("page_present", 1); ("reserved2", 7)]]
    [Bits 1 [("reserved2", 7); ("page_present", 1)]] ++
  [Field "reserved3" 1 1].

(** [cdrom.h] *)
Definition disc_information : members :=
  [Field "disc_information_length" 2 2] ++
  choose [Bits 1 [("disc_status", 2); ("border_status", 2); ("erasable", 1); ("reserved1", 3)]]
    [Bits 1 [("reserved1", 3); ("erasable", 1); ("border_status", 2); ("disc_status", 2)]] ++
  [Field "n_first_track" 1 1; Field "n_sessions_lsb" 1 1; Field "first_track_lsb" 1 1;
      Field "last_track_lsb" 1 1] ++
  choose [Bits 1 [("mrw_status", 2); ("dbit", 1); ("reserved2", 2); ("uru", 1); ("dbc_v", 1); ("did_v", 1)]]
    [Bits 1 [("did_v", 1); ("dbc_v", 1); ("uru", 1); ("reserved2", 2); ("dbit", 1); ("mrw_status", 2)]] ++
  [Field "disc_type" 1 1; Field "n_sessions_msb" 1 1; Field "first_track_msb" 1 1;
      Field "last_track_msb" 1 1; Field "disc_id" 4 4; Field "lead_in" 4 4; Field "lead_out" 4 4;
      Field "disc_bar_code" 8 1; Field "reserved3" 1 1; Field "n_opc" 1 1].

(** [cdrom.h] *)
Definition track_information : members :=
  [Field "track_information_length" 2 2; Field "track_lsb" 1 1; Field "session_lsb" 1 1;
      Field "reserved1" 1 1] ++
  choose [Bits 1 [("track_mode", 4); ("copy", 1); ("damage", 1); ("reserved2", 2); ("data_mode", 4);
      ("fp", 1); ("packet", 1); ("blank", 1); ("rt", 1); ("nwa_v", 1); ("lra_v", 1); ("reserved3", 6)]]
    [Bits 1 [("reserved2", 2); ("damage", 1); ("copy", 1); ("track_mode", 4); ("rt", 1); ("blank", 1);
      ("packet", 1); ("fp", 1); ("data_mode", 4); ("reserved3", 6); ("lra_v", 1); ("nwa_v", 1)]] ++
  [Field "track_start" 4 4; Field "next_writable" 4 4; Field "free_blocks" 4 4;
      Field "fixed_packet_size" 4 4; Field "track_size" 4 4; Field "last_rec_address" 4 4].

(** [cdrom.h] *)
Definition rm_feature_desc : members :=
  [Field "feature_code" 2 2] ++
  choose [Bits 1 [("curr", 1); ("persistent", 1); ("feature_version", 4); ("reserved1", 2)]]
    [Bits 1 [("reserved1", 2); ("feature_version", 4); ("persistent", 1); ("curr", 1)]] ++
  [Field "add_len" 1 1] ++
  choose [Bits 1 [("lock", 1); ("dbml", 1); ("pvnt_jmpr", 1); ("eject", 1); ("load", 1); ("mech_type", 3)]]
    [Bits 1 [("mech_type", 3); ("load", 1); ("eject", 1); ("pvnt_jmpr", 1); ("dbml", 1); ("lock", 1)]] ++
  [Field "reserved2" 1 1; Field "reserved3" 1 1; Field "reserved4" 1 1].

(** [rmnet.h]: the header of a message, before its arguments. *)
Definition rmnet_nl_msg_s : members :=
  [Field "reserved" 2 2; Field "message_type" 2 2] ++
  choose [Bits 2 [("crd", 2); ("reserved2", 14)]]
    [Bits 2 [("reserved2", 14); ("crd", 2)]] ++
  [Field "arg_length" 2 2].

Definition structs : list (string * members) := [
    ("iphdr", iphdr); ("ipv6hdr", ipv6hdr); ("tcphdr", tcphdr); ("icmpv6_nd_advt", icmpv6_nd_advt);
    ("icmpv6_nd_ra", icmpv6_nd_ra); ("igmpv3_query", igmpv3_query); ("pppoe_hdr", pppoe_hdr);
    ("hippi_le_hdr", hippi_le_hdr); ("dccp_hdr", dccp_hdr); ("request_sense", request_sense);
    ("mrw_feature_desc", mrw_feature_desc); ("rwrt_feature_desc", rwrt_feature_desc);
    ("disc_information", disc_information); ("track_information", track_information);
    ("rm_feature_desc", rm_feature_desc); ("rmnet_nl_msg_s", rmnet_nl_msg_s)].

End structures.

(** ** Bits of bytes *)

Definition byte (m : bytes) (i : nat) : Z := default 0 (m !! i).

Lemma byte_u8 m i : Forall is_u8 m -> is_u8 (byte m i).
Proof.
  intros Hm. unfold byte. destruct (m !! i) eqn:E; [by eapply Forall_lookup_1 in Hm|]. split; [done|].
  change (2 ^ 8) with 256. cbn. lia.
Qed.

Lemma testbit_le_val l : forall k, Forall is_u8 l -> 0 <= k ->
  Z.testbit (le_val l) k = Z.testbit (byte l (Z.to_nat (k / 8))) (k mod 8).
Proof.
  induction l as [|b l IH]; intros k Hl Hk; cbn [le_val]; [by rewrite !Z.bits_0|].
  apply Forall_cons in Hl as [[Hb0 Hb] Hl]. change (2 ^ 8) with 256 in Hb.
  destruct (decide (k < 8)).
  - rewrite Z.div_small, Z.mod_small by lia. change (byte (b :: l) (Z.to_nat 0)) with b.
    rewrite <- (Z.mod_pow2_bits_low (b + _) 8), <- (Z.mod_pow2_bits_low b 8) by lia. f_equal.
    change (2 ^ 8) with 256. rewrite (Z.mul_comm 256), Z_mod_plus_full. done.
  - replace k with (k - 8 + 8) at 1 by lia. rewrite <- Z.div_pow2_bits by lia. change (2 ^ 8) with 256.
    rewrite (Z.mul_comm 256), Z.div_add, Z.div_small, Z.add_0_l, IH by (done || lia).
    assert (k / 8 = (k - 8) / 8 + 1 /\ k mod 8 = (k - 8) mod 8 /\ 0 <= (k - 8) / 8) as (-> & -> & ?)
      by (Z.to_euclidean_division_equations; lia).
    rewrite Z2Nat.inj_add, Nat.add_1_r by lia. done.
Qed.

Section wire.
Context {BO : ByteOrder}.

(** The byte of a buffer with bit [k] of the integer of [n] bytes at [p]. *)
Definition byte_of (n p : nat) (k : Z) : nat :=
  (p + (if big_endian then n - 1 - Z.to_nat (k / 8) else Z.to_nat (k / 8)))%nat.

Lemma ld_testbit n m p v k : Forall is_u8 m -> ld n m p = Some v -> 0 <= k < 8 * Z.of_nat n ->
  Z.testbit v k = Z.testbit (byte m (byte_of n p k)) (k mod 8).
Proof.
  intros Hm Hl Hk. unfold ld in Hl. case_decide as Hd; [|done]. injection Hl as <-.
  assert (0 <= k / 8 < Z.of_nat n) as Hq by (split; [apply Z.div_pos; lia|apply Z.div_lt_upper_bound; lia]).
  rewrite testbit_le_val by (lia || by apply order_u8, Forall_take, Forall_drop). f_equal.
  unfold byte, byte_of, order. f_equal.
  assert (length (take n (drop p m)) = n) as Hn by (rewrite length_take, length_drop; lia).
  destruct big_endian.
  - rewrite reverse_lookup by (rewrite Hn; lia). rewrite Hn.
    rewrite lookup_take_lt, lookup_drop by lia. f_equal. lia.
  - rewrite lookup_take_lt, lookup_drop by lia. done.
Qed.

(** The place of bit [j] of a field: a byte, and a bit of it. *)
Definition wire (s : slot) (j : Z) : nat * Z :=
  let k := shift s + j in (byte_of (size s) (unit s) k, k mod 8).

Definition slot_ok (s : slot) : Prop := (first s + width s <= 8 * size s)%nat.
Lemma shift_range s : slot_ok s -> 0 <= shift s /\ shift s + Z.of_nat (width s) <= 8 * Z.of_nat (size s).
Proof. unfold slot_ok, shift. destruct big_endian; lia. Qed.

Lemma get_bits_Some s m : (unit s + size s <= length m)%nat -> exists x, get_bits s m = Some x.
Proof.
  intros Hl. destruct (ld_Some (size s) m (unit s) Hl) as [u Hu]. unfold get_bits. rewrite Hu. by eexists.
Qed.

Lemma land_ones_testbit x w j : 0 <= w -> 0 <= j ->
  Z.testbit (x &&& Z.ones w) j = bool_decide (j < w) && Z.testbit x j.
Proof.
  intros Hw Hj. rewrite Z.land_spec, Z.testbit_ones_nonneg by lia. rewrite andb_comm.
  f_equal. apply eq_true_iff_eq. by rewrite Z.ltb_lt, bool_decide_eq_true.
Qed.

Lemma get_testbit s m x j : slot_ok s -> Forall is_u8 m -> get_bits s m = Some x -> 0 <= j ->
  Z.testbit x j = bool_decide (j < Z.of_nat (width s)) && Z.testbit (byte m (wire s j).1) (wire s j).2.
Proof.
  intros Hs Hm Hg Hj. destruct (shift_range s Hs). unfold get_bits in Hg.
  destruct (ld (size s) m (unit s)) as [u|] eqn:E; [|done]. injection Hg as <-.
  rewrite land_ones_testbit, Z.shiftr_spec by lia. case_bool_decide; [|done]. cbn [andb wire fst snd].
  rewrite (ld_testbit (size s) m (unit s)) by (done || lia). by rewrite Z.add_comm.
Qed.

Lemma put_testbit s v u k : slot_ok s -> 0 <= k ->
  Z.testbit (put s v u) k =
  if decide (shift s <= k < shift s + Z.of_nat (width s)) then Z.testbit v (k - shift s) else Z.testbit u k.
Proof.
  intros Hs Hk. destruct (shift_range s Hs). unfold put.
  rewrite Z.lor_spec, Z.land_spec, Z.lnot_spec, !Z.shiftl_spec by lia.
  destruct (decide (k < shift s)).
  - rewrite !(Z.testbit_neg_r _ (k - shift s)) by lia. rewrite decide_False by lia.
    by rewrite andb_true_r, orb_false_r.
  - rewrite land_ones_testbit, Z.testbit_ones_nonneg by lia. case_decide.
    + rewrite (proj2 (Z.ltb_lt _ _)), bool_decide_eq_true_2 by lia. by rewrite andb_false_r.
    + rewrite (proj2 (Z.ltb_ge _ _)), bool_decide_eq_false_2 by lia. by rewrite andb_true_r, orb_false_r.
Qed.

Lemma put_range s v u : slot_ok s -> in_word (8 * Z.of_nat (size s)) u -> in_word (8 * Z.of_nat (size s)) (put s v u).
Proof.
  intros Hs Hu. destruct (shift_range s Hs). apply in_word_testbit; [lia| |].
  - unfold put. apply Z.lor_nonneg. split.
    + apply Z.land_nonneg. left. apply Hu.
    + apply Z.shiftl_nonneg, Z.land_nonneg. right. rewrite Z.ones_equiv. pose proof (Z.pow_pos_nonneg 2 (Z.of_nat (width s))). lia.
  - intros k Hk. rewrite put_testbit by (done || lia). rewrite decide_False by lia.
    apply (testbit_high (8 * Z.of_nat (size s))); [done|lia].
Qed.

(** What a store does to the bits of the buffer. *)
Lemma set_bits_spec s v m : slot_ok s -> Forall is_u8 m -> (unit s + size s <= length m)%nat -> exists m',
  set_bits s v m = Some m' /\ same_outside (unit s) (size s) m m' /\ Forall is_u8 m' /\
  (forall j, 0 <= j < Z.of_nat (width s) -> Z.testbit (byte m' (wire s j).1) (wire s j).2 = Z.testbit v j) /\
  (forall i b, 0 <= b < 8 -> (forall j, 0 <= j < Z.of_nat (width s) -> wire s j <> (i, b)) ->
    Z.testbit (byte m' i) b = Z.testbit (byte m i) b).
Proof.
  intros Hs Hm Hl. destruct (shift_range s Hs).
  destruct (ld_Some (size s) m (unit s) Hl) as [u Hu].
  destruct (st_Some (size s) (unit s) (put s v u) m Hl) as [m' Hm'].
  pose proof (st_outside _ _ _ _ _ Hm') as Hout. pose proof (st_u8 _ _ _ _ _ Hm Hm') as Hu8.
  pose proof (ld_st _ _ _ _ _ Hm') as Hld.
  rewrite wrap_small in Hld by (apply put_range; [done|exact (ld_range _ _ _ _ Hm Hu)]).
  exists m'. unfold set_bits. rewrite Hu. split_and!; [done..| |].
  - intros j Hj. cbn [wire fst snd]. rewrite <- (ld_testbit _ _ _ _ _ Hu8 Hld), put_testbit by (done || lia).
    rewrite decide_True by lia. f_equal. lia.
  - intros i b Hb Hno. destruct (decide (unit s <= i < unit s + size s)%nat) as [Hi|Hi].
    + set (k := 8 * Z.of_nat (if big_endian then unit s + size s - 1 - i else i - unit s)%nat + b).
      assert (k / 8 = Z.of_nat (if big_endian then unit s + size s - 1 - i else i - unit s)%nat /\ k mod 8 = b) as [Hq Hr].
      { subst k. generalize (if big_endian then unit s + size s - 1 - i else i - unit s)%nat as t.
        intros t. Z.to_euclidean_division_equations. lia. }
      assert (0 <= k < 8 * Z.of_nat (size s)) as Hk by (subst k; destruct big_endian; lia).
      assert (byte_of (size s) (unit s) k = i) as Hby.
      { unfold byte_of. rewrite Hq, Nat2Z.id. destruct big_endian; lia. }
      rewrite <- Hby, <- Hr, <- (ld_testbit _ _ _ _ _ Hu8 Hld), <- (ld_testbit _ _ _ _ _ Hm Hu), put_testbit by (done || lia).
      rewrite decide_False; [done|]. intros Hin. apply (Hno (k - shift s)); [lia|].
      unfold wire. replace (shift s + (k - shift s)) with k by lia. by rewrite Hby, Hr.
    + unfold byte. rewrite (proj2 Hout) by lia. done.
Qed.

(** A store leaves the fields alone that have no bit in common with it. *)
Lemma set_get_other s g v m m' : slot_ok s -> slot_ok g -> Forall is_u8 m ->
  (unit s + size s <= length m)%nat -> (unit g + size g <= length m)%nat ->
  (forall i j, 0 <= i < Z.of_nat (width s) -> 0 <= j < Z.of_nat (width g) -> wire s i <> wire g j) ->
  set_bits s v m = Some m' -> get_bits g m' = get_bits g m.
Proof.
  intros Hs Hg Hm Hl Hlg Hd Hset. destruct (set_bits_spec s v m Hs Hm Hl) as (m1 & Hm1 & [Hlen _] & Hu8 & _ & Hout).
  assert (m1 = m') as -> by congruence.
  destruct (get_bits_Some g m Hlg) as [x Hx], (get_bits_Some g m') as [y Hy]; [lia|].
  rewrite Hx, Hy. f_equal. apply Z.bits_inj'. intros j Hj.
  rewrite (get_testbit g m x), (get_testbit g m' y) by done.
  case_bool_decide; [|done]. cbn [andb]. apply Hout; [cbn; lia || (unfold wire; cbn; apply Z.mod_pos_bound; lia)|].
  intros i Hi E. apply (Hd i j); [done|lia|]. rewrite E. by destruct (wire g j).
Qed.

(** A store is read back. *)
Lemma set_get s v m m' : slot_ok s -> Forall is_u8 m -> (unit s + size s <= length m)%nat ->
  set_bits s v m = Some m' -> get_bits s m' = Some (v mod 2 ^ Z.of_nat (width s)).
Proof.
  intros Hs Hm Hl Hset. destruct (set_bits_spec s v m Hs Hm Hl) as (m1 & Hm1 & [Hlen _] & Hu8 & Hin & _).
  assert (m1 = m') as -> by congruence.
  destruct (get_bits_Some s m') as [y Hy]; [lia|]. rewrite Hy. f_equal.
  rewrite <- Z.land_ones by lia. apply Z.bits_inj'. intros j Hj.
  rewrite (get_testbit s m' y), land_ones_testbit by (done || lia). case_bool_decide; [|done]. cbn [andb].
  apply Hin. lia.
Qed.

Lemma get_bits_nonneg s m x : get_bits s m = Some x -> 0 <= x.
Proof.
  unfold get_bits. destruct (ld _ _ _); [|done]. intros [= <-]. apply Z.land_nonneg. right.
  rewrite Z.ones_equiv. pose proof (Z.pow_pos_nonneg 2 (Z.of_nat (width s))). lia.
Qed.
End wire.

Lemma bytes_ext m m' : Forall is_u8 m -> Forall is_u8 m' -> length m = length m' ->
  (forall i b, 0 <= b < 8 -> Z.testbit (byte m i) b = Z.testbit (byte m' i) b) -> m = m'.
Proof.
  intros Hm Hm' Hl H. apply list_eq. intros i. destruct (decide (i < length m)%nat) as [Hi|Hi].
  - destruct (lookup_lt_is_Some_2 m i Hi) as [x Hx], (lookup_lt_is_Some_2 m' i) as [y Hy]; [lia|].
    rewrite Hx, Hy. f_equal. pose proof (Forall_lookup_1 _ _ _ _ Hm Hx). pose proof (Forall_lookup_1 _ _ _ _ Hm' Hy).
    apply Z.bits_inj'. intros b Hb. destruct (decide (b < 8)).
    + specialize (H i b). unfold byte in H. rewrite Hx, Hy in H. apply H. lia.
    + by rewrite !(testbit_high 8) by (done || lia).
  - by rewrite !lookup_ge_None_2 by lia.
Qed.

Lemma named_elem {A} n (l : list (string * A)) a : named n l = Some a -> (n, a) ∈ l.
Proof.
  induction l as [|[m b] l IH]; cbn [named]; [done|]. destruct (String.eqb_spec n m) as [->|].
  - intros [= ->]. left.
  - intros H. right. auto.
Qed.

(** ** The two declarations *)

Definition little : ByteOrder := false.
Definition big : ByteOrder := true.

Definition wires (BO : ByteOrder) (s : slot) : list (nat * Z) := map (wire s) (seqZ 0 (Z.of_nat (width s))).

Lemma wires_lookup BO s j : 0 <= j < Z.of_nat (width s) -> wires BO s !! Z.to_nat j = Some (wire s j).
Proof.
  intros Hj. unfold wires. change (map (wire s)) with (fmap (M := list) (wire s)).
  rewrite list_lookup_fmap, lookup_seqZ_lt by lia. cbn. do 2 f_equal. lia.
Qed.

(** Two slots with the same bits, on hosts of different order. *)
Lemma same_wires_same_bits B1 B2 s1 s2 m v :
  @slot_ok s1 -> @slot_ok s2 -> width s1 = width s2 -> wires B1 s1 = wires B2 s2 ->
  Forall is_u8 m -> (unit s1 + size s1 <= length m)%nat -> (unit s2 + size s2 <= length m)%nat ->
  (exists x, @get_bits B1 s1 m = Some x /\ @get_bits B2 s2 m = Some x) /\
  (exists m', @set_bits B1 s1 v m = Some m' /\ @set_bits B2 s2 v m = Some m').
Proof.
  intros H1 H2 Hw Hwires Hm Hl1 Hl2.
  assert (forall j, 0 <= j < Z.of_nat (width s1) -> @wire B1 s1 j = @wire B2 s2 j) as Hj.
  { intros j Hj. apply (f_equal (.!! Z.to_nat j)) in Hwires.
    rewrite !wires_lookup in Hwires by lia. congruence. }
  split.
  - destruct (@get_bits_Some B1 s1 m Hl1) as [x Hx], (@get_bits_Some B2 s2 m Hl2) as [y Hy].
    exists x. split; [done|]. rewrite Hy. f_equal. apply Z.bits_inj'. intros j Hjn.
    rewrite (@get_testbit B2 s2 m y), (@get_testbit B1 s1 m x), Hw by done.
    case_bool_decide; [|done]. by rewrite Hj by lia.
  - destruct (@set_bits_spec B1 s1 v m H1 Hm Hl1) as (m1 & E1 & [Hlen1 _] & Hu1 & Hin1 & Hout1).
    destruct (@set_bits_spec B2 s2 v m H2 Hm Hl2) as (m2 & E2 & [Hlen2 _] & Hu2 & Hin2 & Hout2).
    exists m1. split; [done|]. rewrite E2. f_equal. apply bytes_ext; [done..|congruence|].
    intros i b Hb.
    destruct (decide ((i, b) ∈ wires B1 s1)) as [Hin|Hnin].
    + unfold wires in Hin. apply list_elem_of_fmap in Hin as (j & E & Hjs%elem_of_seqZ).
      pose proof (Hin1 j) as A1. pose proof (Hin2 j) as A2. rewrite <- Hj in A2 by lia.
      rewrite <- E in A1, A2. cbn [fst snd] in A1, A2. rewrite A1, A2 by lia. done.
    + assert (forall j, 0 <= j < Z.of_nat (width s1) -> @wire B1 s1 j <> (i, b)) as Hno.
      { intros j Hjr E. apply Hnin. rewrite <- E. apply list_elem_of_fmap_2, elem_of_seqZ. lia. }
      rewrite Hout1, Hout2 by (done || intros j Hjr; rewrite <- Hj by lia; apply Hno; lia). done.
Qed.

(** Fields whose two declarations do not agree: a field of 29 bits that is
    declared as two of 5 and 24, and two of a message to the host's own kernel. *)
Definition host_specific : list (string * string) := [
    ("icmpv6_nd_advt", "reserved"); ("rmnet_nl_msg_s", "crd"); ("rmnet_nl_msg_s", "reserved2")].

Definition slot_fits (n : nat) (s : slot) : bool :=
  bool_decide (first s + width s <= 8 * size s)%nat && bool_decide (unit s + size s <= n)%nat.

Definition field_check (n : string) (size : nat) (d' : members) (x : string * slot) : bool :=
  let '(f, s) := x in
  match named f (slots d') with
  | Some s' => slot_fits size s && slot_fits size s' &&
      eqb (bool_decide (width s = width s' /\ wires little s = wires big s')) (bool_decide ((n, f) ∉ host_specific))
  | None => true
  end.

Definition struct_check (x : string * members) : bool :=
  let '(n, d) := x in
  match named n (@structs big) with
  | Some d' => bool_decide (struct_size d' = struct_size d) && bool_decide (offsets d' 0 = offsets d 0) &&
      forallb (field_check n (struct_size d) d') (slots d)
  | None => false
  end.

Lemma structs_checked : forallb struct_check (@structs little) = true.
Proof. vm_compute. reflexivity. Qed.

Lemma slot_fits_spec n s : slot_fits n s = true -> slot_ok s /\ (unit s + size s <= n)%nat.
Proof. unfold slot_fits. rewrite andb_true_iff, !bool_decide_eq_true. done. Qed.

(** C10 (equivalence): each of the sixteen structures has one layout for all hosts:
    the same size, the same place for every other member, and each bit-field that
    both declarations have, but for the three named, is loaded from and stored to
    the same bits of the message on a little-endian and on a big-endian host. *)
Theorem same_on_wire n d d' f s s' m v :
  named n (@structs little) = Some d -> named n (@structs big) = Some d' ->
  named f (slots d) = Some s -> named f (slots d') = Some s' -> (n, f) ∉ host_specific ->
  Forall is_u8 m -> (struct_size d <= length m)%nat ->
  struct_size d' = struct_size d /\ offsets d' 0 = offsets d 0 /\
  (exists x, @get_bits little s m = Some x /\ @get_bits big s' m = Some x) /\
  (exists m', @set_bits little s v m = Some m' /\ @set_bits big s' v m = Some m').
Proof.
  intros Hd Hd' Hs Hs' Hno Hm Hl.
  pose proof structs_checked as H. rewrite forallb_forall in H.
  specialize (H (n, d) (proj1 (list_elem_of_In _ _) (named_elem _ _ _ Hd))). cbn [struct_check] in H.
  rewrite Hd', !andb_true_iff, !bool_decide_eq_true, forallb_forall in H. destruct H as [[Hsz Hoff] H].
  specialize (H (f, s) (proj1 (list_elem_of_In _ _) (named_elem _ _ _ Hs))). cbn [field_check] in H.
  rewrite Hs', !andb_true_iff in H. destruct H as [[H1 H2] H3].
  apply slot_fits_spec in H1 as [? ?], H2 as [? ?].
  rewrite (bool_decide_eq_true_2 _ Hno), eqb_true_iff, bool_decide_eq_true in H3. destruct H3 as [Hw Hwires].
  split_and!; [done..| |]; apply same_wires_same_bits with (v := v); (done || lia).
Qed.

Lemma same_on_wire_witness :
  let m := [0x45; 0; 0; 20; 0; 1; 0; 0; 64; 6; 0; 0; 10; 0; 0; 1; 10; 0; 0; 2] in
  named "version" (slots (@iphdr little)) = Some (mk_slot 0 1 4 4) /\
  named "version" (slots (@iphdr big)) = Some (mk_slot 0 1 0 4) /\
  (exists x, @get_bits little (mk_slot 0 1 4 4) m = Some x /\ @get_bits big (mk_slot 0 1 0 4) m = Some x).
Proof.
  cbv zeta. split_and!; [reflexivity..|].
  apply (same_on_wire "iphdr" (@iphdr little) (@iphdr big) "version" (mk_slot 0 1 4 4) (mk_slot 0 1 0 4)
    [0x45; 0; 0; 20; 0; 1; 0; 0; 64; 6; 0; 0; 10; 0; 0; 1; 10; 0; 0; 2] 6).
  - reflexivity.
  - reflexivity.
  - reflexivity.
  - reflexivity.
  - apply (bool_decide_unpack _). vm_compute. exact I.
  - apply (bool_decide_unpack _). vm_compute. exact I.
  - apply Nat.leb_le. reflexivity.
Defined.

(** ** Access to one field *)

Definition disjoint_check (BO : ByteOrder) (x y : string * slot) : bool :=
  String.eqb x.1 y.1 || bool_decide (Forall (fun w => w ∉ wires BO y.2) (wires BO x.2)).
Definition access_check (BO : ByteOrder) (x : string * members) : bool :=
  let l := slots x.2 in
  forallb (fun y => slot_fits (struct_size x.2) y.2) l && forallb (fun y => forallb (disjoint_check BO y) l) l.

Lemma access_checked BO : forallb (access_check BO) structs = true.
Proof. destruct BO; vm_compute; reflexivity. Qed.

Lemma disjoint_check_spec BO f s g s' : disjoint_check BO (f, s) (g, s') = true -> f <> g ->
  forall i j, 0 <= i < Z.of_nat (width s) -> 0 <= j < Z.of_nat (width s') -> wire s i <> wire s' j.
Proof.
  unfold disjoint_check. cbn [fst snd]. rewrite orb_true_iff, String.eqb_eq, bool_decide_eq_true.
  intros [?|H] ? i j Hi Hj E; [done|]. rewrite Forall_forall in H. apply (H (wire s i)).
  - apply list_elem_of_fmap_2, elem_of_seqZ. lia.
  - rewrite E. apply list_elem_of_fmap_2, elem_of_seqZ. lia.
Qed.

(** (functional): on every host, an assignment to a bit-field of one of the
    structures stays inside the unit of the field, is read back modulo the width
    of the field, and leaves every other bit-field of the structure as it is. *)
Theorem field_assigned (BO : ByteOrder) n d f s g s' m v :
  named n structs = Some d -> named f (slots d) = Some s -> named g (slots d) = Some s' -> f <> g ->
  Forall is_u8 m -> (struct_size d <= length m)%nat ->
  exists m', set_bits s v m = Some m' /\ Forall is_u8 m' /\ same_outside (unit s) (size s) m m' /\
    get_bits s m' = Some (v mod 2 ^ Z.of_nat (width s)) /\ get_bits s' m' = get_bits s' m.
Proof.
  intros Hd Hs Hs' Hfg Hm Hl.
  pose proof (access_checked BO) as H. rewrite forallb_forall in H.
  specialize (H (n, d) (proj1 (list_elem_of_In _ _) (named_elem _ _ _ Hd))). unfold access_check in H.
  cbn [snd] in H. rewrite andb_true_iff, !forallb_forall in H. destruct H as [Hfit Hdis].
  apply named_elem, list_elem_of_In in Hs, Hs'.
  pose proof (Hfit _ Hs) as [Hok Hb]%slot_fits_spec. pose proof (Hfit _ Hs') as [Hok' Hb']%slot_fits_spec.
  cbn [snd] in *. specialize (Hdis _ Hs). rewrite forallb_forall in Hdis. specialize (Hdis _ Hs').
  destruct (set_bits_spec s v m Hok Hm) as (m' & Hset & Hout & Hu8 & _); [lia|].
  exists m'. split_and!; [done..| |].
  - apply (set_get s v m m'); (done || lia).
  - apply (set_get_other s s' v m m'); try (done || lia). by apply (disjoint_check_spec BO f s g s').
Qed.

Lemma field_assigned_witness :
  exists m', @set_bits little (mk_slot 0 1 4 4) 6 [0x45; 0; 0; 20; 0; 1; 0; 0; 64; 6; 0; 0; 10; 0; 0; 1; 10; 0; 0; 2] =
      Some m' /\ Forall is_u8 m' /\
    @same_outside 0 1 [0x45; 0; 0; 20; 0; 1; 0; 0; 64; 6; 0; 0; 10; 0; 0; 1; 10; 0; 0; 2] m' /\
    @get_bits little (mk_slot 0 1 4 4) m' = Some 6 /\
    @get_bits little (mk_slot 0 1 0 4) m' =
      @get_bits little (mk_slot 0 1 0 4) [0x45; 0; 0; 20; 0; 1; 0; 0; 64; 6; 0; 0; 10; 0; 0; 1; 10; 0; 0; 2].
Proof.
  apply (field_assigned little "iphdr" (@iphdr little) "version" (mk_slot 0 1 4 4) "ihl" (mk_slot 0 1 0 4)
    [0x45; 0; 0; 20; 0; 1; 0; 0; 64; 6; 0; 0; 10; 0; 0; 1; 10; 0; 0; 2] 6).
  - reflexivity.
  - reflexivity.
  - reflexivity.
  - discriminate.
  - apply (bool_decide_unpack _). vm_compute. exact I.
  - apply Nat.leb_le. reflexivity.
Defined.

(** ** Flags of TCP

    [tcp_flag_word]: the fourth word of the header, to be tested with the masks
    of the enumeration below it. *)
Section tcp.
Context {BO : ByteOrder}.

Definition tcp_flag_word (tp : bytes) : option Z := ld 4 tp 12.

Definition __constant_cpu_to_be32 (x : Z) : Z :=
  if big_endian then BigEndian.__constant_cpu_to_be32 x else LittleEndian.__constant_cpu_to_be32 x.

Definition TCP_FLAGS : list (string * Z) := [
    ("cwr", __constant_cpu_to_be32 0x00800000); ("ece", __constant_cpu_to_be32 0x00400000);
    ("urg", __constant_cpu_to_be32 0x00200000); ("ack", __constant_cpu_to_be32 0x00100000);
    ("psh", __constant_cpu_to_be32 0x00080000); ("rst", __constant_cpu_to_be32 0x00040000);
    ("syn", __constant_cpu_to_be32 0x00020000); ("fin", __constant_cpu_to_be32 0x00010000);
    ("res1", __constant_cpu_to_be32 0x0F000000); ("doff", __constant_cpu_to_be32 0xF0000000)].

(** The bits of a mask of the word, as places in the message. *)
Definition mask_wires (mask : Z) : list (nat * Z) :=
  map (fun k => (byte_of 4 12 k, k mod 8)) (List.filter (Z.testbit mask) (seqZ 0 32)).

Definition flag_check (x : string * Z) : bool :=
  match named x.1 (slots tcphdr) with
  | Some s => slot_fits (struct_size tcphdr) s && bool_decide (0 <= x.2 < 2 ^ 32) &&
      bool_decide (mask_wires x.2 ⊆ wires BO s) && bool_decide (wires BO s ⊆ mask_wires x.2)
  | None => false
  end.
End tcp.

Lemma flags_checked BO : forallb flag_check (@TCP_FLAGS BO) = true.
Proof. destruct BO; vm_compute; reflexivity. Qed.

Lemma mask_wires_elem {BO : ByteOrder} mask w :
  w ∈ mask_wires mask <-> exists k, 0 <= k < 32 /\ Z.testbit mask k = true /\ w = (byte_of 4 12 k, k mod 8).
Proof.
  unfold mask_wires. generalize 32. intros n. rewrite list_elem_of_In, in_map_iff. split.
  - intros (k & <- & [Hk Hm]%filter_In). apply list_elem_of_In, elem_of_seqZ in Hk. exists k. split_and!; (lia || done).
  - intros (k & Hk & Hm & ->). exists k. split; [done|]. apply filter_In. split; [|done].
    apply list_elem_of_In, elem_of_seqZ. lia.
Qed.

Lemma wires_elem (BO : ByteOrder) s w :
  w ∈ wires BO s <-> exists j, 0 <= j < Z.of_nat (width s) /\ w = wire s j.
Proof.
  unfold wires. rewrite list_elem_of_In, in_map_iff. split.
  - intros (j & <- & Hj). apply list_elem_of_In, elem_of_seqZ in Hj. exists j. split; [lia|done].
  - intros (j & Hj & ->). exists j. split; [done|]. apply list_elem_of_In, elem_of_seqZ. lia.
Qed.

(** A word has a bit in common with a mask, in terms of bits. *)
Lemma land_nonzero x y : 0 <= x -> 0 <= y -> x &&& y <> 0 <-> exists k, 0 <= k /\ Z.testbit x k = true /\ Z.testbit y k = true.
Proof.
  intros Hx Hy. split.
  - intros Hne. pose proof (Z.land_nonneg x y) as Hnn.
    exists (Z.log2 (x &&& y)). split; [apply Z.log2_nonneg|]. rewrite <- andb_true_iff, <- Z.land_spec.
    apply Z.bit_log2. lia.
  - intros (k & Hk & H1 & H2) E. apply (f_equal (fun z => Z.testbit z k)) in E.
    rewrite Z.land_spec, H1, H2, Z.bits_0 in E. done.
Qed.

Lemma nonzero_bits x : 0 <= x -> x <> 0 <-> exists k, 0 <= k /\ Z.testbit x k = true.
Proof.
  intros Hx. split.
  - intros Hne. exists (Z.log2 x). split; [apply Z.log2_nonneg|]. apply Z.bit_log2. lia.
  - intros (k & Hk & H) ->. by rewrite Z.bits_0 in H.
Qed.

(** A mask of the word with the bits of a field tests the field. *)
Lemma mask_tests_field (BO : ByteOrder) s mask m w x :
  slot_ok s -> 0 <= mask < 2 ^ 32 -> mask_wires mask ⊆ wires BO s -> wires BO s ⊆ mask_wires mask ->
  Forall is_u8 m -> tcp_flag_word m = Some w -> 0 <= w -> get_bits s m = Some x -> 0 <= x ->
  w &&& mask <> 0 <-> x <> 0.
Proof.
  intros Hok Hmask H1 H2 Hm Hw Hw0 Hx Hx0. unfold tcp_flag_word in Hw.
  rewrite land_nonzero, nonzero_bits by lia. split.
  - intros (k & Hk & Hwk & Hmk).
    assert (k < 32) as Hk32.
    { destruct (decide (k < 32)); [done|]. rewrite (testbit_high 32 mask) in Hmk by (done || lia). done. }
    assert ((byte_of 4 12 k, k mod 8) ∈ wires BO s) as Hin by (apply H1, mask_wires_elem; eauto).
    apply wires_elem in Hin as (j & Hj & E). exists j. split; [lia|].
    rewrite (get_testbit s m x) by (done || lia). rewrite bool_decide_eq_true_2, <- E by lia. cbn [andb fst snd].
    by rewrite <- (ld_testbit 4 m 12 w) by (done || lia).
  - intros (j & Hj & Hxj). rewrite (get_testbit s m x) in Hxj by done.
    apply andb_true_iff in Hxj as [Hjw Hbit]. apply bool_decide_eq_true in Hjw.
    assert (wire s j ∈ mask_wires mask) as Hin by (apply H2, wires_elem; exists j; split; [lia|done]).
    apply mask_wires_elem in Hin as (k & Hk & Hmk & E). exists k. split_and!; [lia| |done].
    rewrite (ld_testbit 4 m 12 w) by (done || lia). rewrite E in Hbit. done.
Qed.

(** (equivalence): on every host, testing [tcp_flag_word] of a TCP header with
    one of the [TCP_FLAG_] masks, or with the masks for the reserved bits and the
    data offset, tests the bit-field of that name. *)
Theorem tcp_flags_are_fields (BO : ByteOrder) f mask m :
  (f, mask) ∈ TCP_FLAGS -> Forall is_u8 m -> (struct_size tcphdr <= length m)%nat ->
  exists s w x, named f (slots tcphdr) = Some s /\ tcp_flag_word m = Some w /\ get_bits s m = Some x /\
    (w &&& mask <> 0 <-> x <> 0).
Proof.
  intros Hf Hm Hl. pose proof (flags_checked BO) as H. rewrite forallb_forall in H.
  apply list_elem_of_In in Hf. specialize (H _ Hf). unfold flag_check in H. cbn [fst snd] in H.
  destruct (named f (slots tcphdr)) as [s|]; [|done].
  rewrite !andb_true_iff, !bool_decide_eq_true in H. destruct H as [[[Hs Hmask] H1] H2].
  apply slot_fits_spec in Hs as [Hok Hb].
  assert (struct_size tcphdr = 20%nat) as Hsz by (by destruct BO). rewrite Hsz in *.
  destruct (ld_Some 4 m 12) as [w Hw]; [lia|]. destruct (get_bits_Some s m) as [x Hx]; [lia|].
  exists s, w, x. split_and!; [done..|].
  pose proof (ld_range _ _ _ _ Hm Hw) as Hwr.
  assert (0 <= x) as Hxn by (apply (get_bits_nonneg s m); done).
  apply (mask_tests_field BO s mask m w x); try done. apply Hwr.
Qed.

Lemma tcp_flags_are_fields_witness :
  let m := replicate 12 0 ++ [0x50; 0x12; 0; 0; 0; 0; 0; 0] in
  exists s w x, named "syn" (slots (@tcphdr little)) = Some s /\ @tcp_flag_word little m = Some w /\
    @get_bits little s m = Some x /\ (w &&& 0x200 <> 0 <-> x <> 0).
Proof.
  cbv zeta. apply (tcp_flags_are_fields little "syn" 0x200 (replicate 12 0 ++ [0x50; 0x12; 0; 0; 0; 0; 0; 0])).
  - apply (list_elem_of_lookup_2 _ 6). reflexivity.
  - apply (bool_decide_unpack _). vm_compute. exact I.
  - apply Nat.leb_le. reflexivity.
Defined.
