(* ===== verification/Cpp.v ===== *)
(** * The preprocessor

    Headers that decide what to define are programs for the preprocessor. Here are the
    directives such headers use, what they do to the macros, and the frame property: a
    part of a header runs the same way whatever other macros are defined. What a line
    that is no directive means is a parameter. *)
From stdpp Require Import gmap.
From S2P Require Import Prelude.
#[local] Open Scope string_scope.
#[local] Open Scope list_scope.
#[local] Open Scope Z_scope.

(** ** Directives *)

Inductive body : Type :=
| Num (z : Z)                 (* 17 *)
| Name (n : string)           (* another macro *)
| Plus (n : string) (k : Z)   (* (name + 1) *)
| Blank.

#[export] Instance body_eq_dec : EqDecision body.
Proof. solve_decision. Defined.

Inductive cond : Type :=
| Bits (w : Z)                (* __BITS_PER_LONG == w *)
| Defined (n : string)
| NonZero (n : string)        (* #if n *)
| Neg (c : cond)
| Both (c d : cond)
| Either (c d : cond).

(** The lines of a header; [A] are those that are no directives. *)
Inductive line (A : Type) : Type :=
| Define (n : string) (b : body)
| Flag (n : string)           (* a macro without a body *)
| Undef (n : string)
| Emit (a : A)
| If (c : cond) (th el : list (line A)).
#[global] Arguments Define {A}.
#[global] Arguments Flag {A}.
#[global] Arguments Undef {A}.
#[global] Arguments Emit {A}.
#[global] Arguments If {A}.

Lemma line_nested_ind {A} (P : line A -> Prop) :
  (forall c th el, Forall P th -> Forall P el -> P (If c th el)) ->
  (forall l, match l with If _ _ _ => False | _ => True end -> P l) -> forall l, P l.
Proof.
  intros Hif Hrest. fix IH 1. intros l. specialize (Hrest l).
  destruct l as [| | | |c th el]; [exact (Hrest I)..|]. clear Hrest. apply Hif.
  - induction th; constructor; [apply IH | assumption].
  - induction el; constructor; [apply IH | assumption].
Qed.

(** ** Macros *)

(** The value of a macro used as a number: a name stands for its body, and chains
    of names are short. *)
Fixpoint eval (fuel : nat) (ms : gmap string body) (b : body) : option Z :=
  let name m := match fuel with O => None | S fuel => b' ← ms !! m; eval fuel ms b' end in
  match b with
  | Num z => Some z
  | Name m => name m
  | Plus m k => v ← name m; Some (v + k)
  | Blank => None
  end.

Definition value (ms : gmap string body) (n : string) : option Z := b ← ms !! n; eval 2 ms b.

Lemma body_mono fuel ms ms' m z :
  (forall b z, eval fuel ms b = Some z -> eval fuel ms' b = Some z) -> ms ⊆ ms' ->
  (b ← ms !! m; eval fuel ms b) = Some z -> (b ← ms' !! m; eval fuel ms' b) = Some z.
Proof.
  intros IH Hsub. destruct (ms !! m) as [b|] eqn:E; [|discriminate].
  rewrite (lookup_weaken _ _ _ _ E Hsub). apply IH.
Qed.

Lemma eval_mono fuel ms ms' b z : ms ⊆ ms' -> eval fuel ms b = Some z -> eval fuel ms' b = Some z.
Proof.
  intros Hsub. revert b z. induction fuel as [|fuel IH]; intros [y | m | m k |] z; try (cbn; congruence).
  - apply body_mono; assumption.
  - change ((v ← (b ← ms !! m; eval fuel ms b); Some (v + k)) = Some z ->
            (v ← (b ← ms' !! m; eval fuel ms' b); Some (v + k)) = Some z).
    destruct (b ← ms !! m; eval fuel ms b) as [v|] eqn:E; [|discriminate].
    rewrite (body_mono _ _ _ _ _ IH Hsub E). trivial.
Qed.

Lemma value_mono ms ms' n z : ms ⊆ ms' -> value ms n = Some z -> value ms' n = Some z.
Proof. intros Hsub. apply body_mono; [intros; eapply eval_mono | ]; eassumption. Qed.

(** ** Running a header *)

(** The macros, and what the header has made so far. *)
Record state (B : Type) : Type := mk_state { macros : gmap string body; made : list B }.
#[global] Arguments mk_state {B}.
#[global] Arguments macros {B}.
#[global] Arguments made {B}.

Section preprocess.
Context {A B : Type} (__BITS_PER_LONG : Z) (emit : A -> ST (state B) unit).

(** A macro that is tested as a number is not defined, which counts as 0, or has a
    number for its body; other bodies are not modelled. *)
Fixpoint holds (ms : gmap string body) (c : cond) : option bool :=
  match c with
  | Bits w => Some (__BITS_PER_LONG =? w)
  | Defined n => Some (bool_decide (is_Some (ms !! n)))
  | NonZero n =>
      match ms !! n with None => Some false | Some (Num z) => Some (negb (z =? 0)) | Some _ => None end
  | Neg c => b ← holds ms c; Some (negb b)
  | Both c d => b ← holds ms c; b' ← holds ms d; Some (b && b')
  | Either c d => b ← holds ms c; b' ← holds ms d; Some (b || b')
  end.

(** A macro may be defined again only with the same body. *)
Definition define (n : string) (b : body) : ST (state B) unit :=
  s ← st_get;
  match macros s !! n with
  | Some b' => if decide (b = b') then mret tt else st_lift None
  | None => st_modify (fun s => mk_state (<[n := b]> (macros s)) (made s))
  end.

Definition undef (n : string) : ST (state B) unit :=
  st_modify (fun s => mk_state (delete n (macros s)) (made s)).

Definition test (c : cond) (th el : ST (state B) unit) : ST (state B) unit :=
  s ← st_get; b ← st_lift (holds (macros s) c); if (b : bool) then th else el.

Fixpoint run_line (l : line A) : ST (state B) unit :=
  match l with
  | Define n b => define n b
  | Flag n => define n Blank
  | Undef n => undef n
  | Emit a => emit a
  | If c th el =>
      test c (foldr (fun l rest => run_line l;; rest) (mret tt) th)
             (foldr (fun l rest => run_line l;; rest) (mret tt) el)
  end.

Definition run_lines (ls : list (line A)) : ST (state B) unit :=
  foldr (fun l c => run_line l;; c) (mret tt) ls.

Lemma run_app a b s : run_lines (a ++ b) s = (run_lines a;; run_lines b) s.
Proof.
  unfold run_lines. revert s. induction a as [|l a IH]; intros s; [reflexivity|].
  cbn [foldr app]. rewrite st_bind_assoc. unfold mbind, st_bind. destruct (run_line l s) as [[[] t]|];
    [apply IH | reflexivity].
Qed.
End preprocess.

(** ** What a part of a header does not mention *)

Fixpoint tested (c : cond) : list string :=
  match c with
  | Bits _ => []
  | Defined n | NonZero n => [n]
  | Neg c => tested c
  | Both c d | Either c d => tested c ++ tested d
  end.

Section frame.
Context {A B : Type} (bits : Z) (emit : A -> ST (state B) unit) (mentions : A -> list string).

(** The macros a line defines, undefines or tests. *)
Fixpoint touches (l : line A) : list string :=
  match l with
  | Define n _ | Flag n | Undef n => [n]
  | Emit a => mentions a
  | If c th el => tested c ++ flat_map touches th ++ flat_map touches el
  end.

(** The state [s] with more macros, and with what was made earlier. *)
Definition over (f s : state B) : state B := mk_state (macros s ∪ macros f) (made f ++ made s).

Definition framed (f : state B) (c : ST (state B) unit) : Prop :=
  forall s t, c s = Some (tt, t) -> macros s ##ₘ macros f ->
  c (over f s) = Some (tt, over f t) /\ macros t ##ₘ macros f.

Lemma framed_ret f : framed f (mret tt).
Proof. intros s t [= <-] Hd. split; [reflexivity | assumption]. Qed.

Lemma framed_seq f c d : framed f c -> framed f d -> framed f (c;; d).
Proof.
  intros Hc Hd s t E Hs. unfold mbind, st_bind in *.
  destruct (c s) as [[[] s']|] eqn:Ec; [|discriminate].
  destruct (Hc _ _ Ec Hs) as [-> Hs']. apply Hd; assumption.
Qed.

Lemma holds_over f s c :
  (forall n, n ∈ tested c -> macros f !! n = None) -> holds bits (macros (over f s)) c = holds bits (macros s) c.
Proof.
  induction c as [w | n | n | c IH | c IHc d IHd | c IHc d IHd]; cbn [tested holds]; intros Hf;
    rewrite ?IH, ?IHc, ?IHd by (intros; apply Hf; rewrite ?elem_of_app; tauto); try reflexivity.
  all: cbn; rewrite lookup_union_l by (apply Hf, list_elem_of_singleton; reflexivity); reflexivity.
Qed.

Lemma framed_test f c d1 d2 :
  (forall n, n ∈ tested c -> macros f !! n = None) -> framed f d1 -> framed f d2 -> framed f (test bits c d1 d2).
Proof.
  intros Hc H1 H2 s t E Hs. unfold test in *. cbv [mbind st_bind st_get st_lift] in *. cbn -[over] in *.
  rewrite holds_over by assumption. destruct holds as [b|]; [|discriminate]. cbn -[over] in *. destruct b; auto.
Qed.

Lemma framed_define f n b : macros f !! n = None -> framed f (define n b).
Proof.
  intros Hn s t E Hs. unfold define in *. cbv [mbind st_bind st_get st_modify] in *. cbn in *.
  rewrite lookup_union_l by assumption. destruct (macros s !! n) as [b'|].
  - destruct decide; [injection E as <-; split; [reflexivity | assumption] | discriminate].
  - injection E as <-. cbn. unfold over. cbn. rewrite insert_union_l. split; [reflexivity|].
    apply map_disjoint_insert_l_2; assumption.
Qed.

Lemma framed_undef f n : macros f !! n = None -> framed f (undef n).
Proof.
  intros Hn s t [= <-] Hs. unfold undef, st_modify, over. cbn.
  rewrite delete_union, (delete_id (macros f)) by assumption. split; [reflexivity|].
  apply map_disjoint_delete_l, Hs.
Qed.

Context (f : state B).
Context (framed_emit : forall a, (forall n, n ∈ mentions a -> macros f !! n = None) -> framed f (emit a)).

Lemma framed_foldr ls :
  Forall (fun l => framed f (run_line bits emit l)) ls ->
  framed f (foldr (fun l rest => run_line bits emit l;; rest) (mret tt) ls).
Proof. induction 1; [apply framed_ret | apply framed_seq; assumption]. Qed.

Lemma framed_line l : (forall n, n ∈ touches l -> macros f !! n = None) -> framed f (run_line bits emit l).
Proof.
  induction l as [c th el Hth Hel | l Hl] using line_nested_ind.
  - intros Hf. cbn [run_line touches] in *.
    assert (forall ls, Forall (fun l => (forall n, n ∈ touches l -> macros f !! n = None) -> framed f (run_line bits emit l)) ls ->
      (forall n, n ∈ flat_map touches ls -> macros f !! n = None) ->
      framed f (foldr (fun l rest => run_line bits emit l;; rest) (mret tt) ls)) as Hls.
    { intros ls Hls Hn. apply framed_foldr, Forall_forall. intros l Hl. rewrite Forall_forall in Hls.
      apply Hls; [assumption|]. intros n Hin. apply Hn. rewrite list_elem_of_In, in_flat_map.
      exists l. rewrite <- !list_elem_of_In. auto. }
    apply framed_test; [intros; apply Hf; rewrite !elem_of_app; tauto | |]; apply Hls; try assumption;
      intros; apply Hf; rewrite !elem_of_app; tauto.
  - destruct l; [..|destruct Hl]; cbn [run_line touches]; intros Hf.
    + apply framed_define, Hf, list_elem_of_singleton. reflexivity.
    + apply framed_define, Hf, list_elem_of_singleton. reflexivity.
    + apply framed_undef, Hf, list_elem_of_singleton. reflexivity.
    + apply framed_emit, Hf.
Qed.

Lemma framed_lines ls :
  (forall n, n ∈ flat_map touches ls -> macros f !! n = None) -> framed f (run_lines bits emit ls).
Proof.
  intros Hf. apply framed_foldr, Forall_forall. intros l Hl. apply framed_line. intros n Hn. apply Hf.
  rewrite list_elem_of_In, in_flat_map. exists l. rewrite <- !list_elem_of_In. auto.
Qed.
End frame.

(** *** Running a part on the macros it mentions *)

Definition pick (ns : list string) (ms : gmap string body) : gmap string body :=
  list_to_map (omap (fun n => (fun b => (n, b)) <$> ms !! n) ns).

Definition others (ns : list string) (ms : gmap string body) : gmap string body :=
  filter (fun p => p.1 ∉ ns) ms.

Lemma pick_lookup ns ms n : pick ns ms !! n = if decide (n ∈ ns) then ms !! n else None.
Proof.
  unfold pick. induction ns as [|m ns IH].
  - rewrite decide_False by apply not_elem_of_nil. reflexivity.
  - cbn [omap list_omap]. destruct (ms !! m) as [b|] eqn:E; cbn [fmap option_fmap option_map]; rewrite ?list_to_map_cons.
    + destruct (decide (n = m)) as [->|Hn].
      * rewrite lookup_insert_eq, decide_True by left. congruence.
      * rewrite lookup_insert_ne by congruence. rewrite IH.
        apply decide_ext. rewrite elem_of_cons. tauto.
    + rewrite IH. destruct (decide (n ∈ ns)) as [Hin|Hin].
      * rewrite decide_True by (right; assumption). reflexivity.
      * destruct (decide (n = m)) as [->|Hn]; [rewrite decide_True by left; congruence|].
        rewrite decide_False; [reflexivity|]. rewrite elem_of_cons. tauto.
Qed.

Lemma others_lookup ns ms n : others ns ms !! n = if decide (n ∈ ns) then None else ms !! n.
Proof.
  unfold others. destruct (decide (n ∈ ns)) as [Hn|Hn].
  - apply map_lookup_filter_None. right. cbn. tauto.
  - destruct (ms !! n) as [b|] eqn:E.
    + apply map_lookup_filter_Some. auto.
    + apply map_lookup_filter_None. auto.
Qed.

Lemma pick_others ns ms : pick ns ms ∪ others ns ms = ms.
Proof.
  apply map_eq. intros n. rewrite lookup_union, pick_lookup, others_lookup.
  destruct (decide (n ∈ ns)); [apply (right_id_L None _) | apply (left_id_L None _)].
Qed.

Lemma pick_disjoint ns ms : pick ns ms ##ₘ others ns ms.
Proof.
  apply map_disjoint_spec. intros n b b'. rewrite pick_lookup, others_lookup. destruct (decide (n ∈ ns)); discriminate.
Qed.

(** *** Macros without a body, and the choices of them *)

Definition flags (fs : list string) : gmap string body := list_to_map (map (fun f => (f, Blank)) fs).

Lemma list_to_map_fun (f : string -> body) l n :
  (list_to_map (map (fun u => (u, f u)) l) : gmap string body) !! n = if decide (n ∈ l) then Some (f n) else None.
Proof.
  induction l as [|m l IH].
  - rewrite decide_False by apply not_elem_of_nil. reflexivity.
  - cbn [map]. rewrite list_to_map_cons. destruct (decide (n = m)) as [->|Hn].
    + rewrite lookup_insert_eq, decide_True by left. reflexivity.
    + rewrite lookup_insert_ne, IH by congruence. apply decide_ext. rewrite elem_of_cons. tauto.
Qed.

Lemma flags_lookup fs n : flags fs !! n = if decide (n ∈ fs) then Some Blank else None.
Proof. unfold flags. apply (list_to_map_fun (fun _ => Blank)). Qed.

Fixpoint subsets (l : list string) : list (list string) :=
  match l with [] => [[]] | x :: l => subsets l ++ map (cons x) (subsets l) end.

Lemma filter_subsets (f : string -> bool) l : In (List.filter f l) (subsets l).
Proof.
  induction l as [|x l IH]; [left; reflexivity|]. cbn [subsets List.filter]. apply in_app_iff.
  destruct (f x); [right; apply in_map, IH | left; exact IH].
Qed.

Lemma run_picked {A B} bits (emit : A -> ST (state B) unit) mentions ns ls s t :
  (forall f a, (forall n, n ∈ mentions a -> macros f !! n = None) -> framed f (emit a)) ->
  Forall (fun n => n ∈ ns) (flat_map (touches mentions) ls) ->
  run_lines bits emit ls (mk_state (pick ns (macros s)) []) = Some (tt, t) ->
  run_lines bits emit ls s = Some (tt, mk_state (macros t ∪ others ns (macros s)) (made s ++ made t)).
Proof.
  intros He Hns Hr. pose (f := mk_state (others ns (macros s)) (made s)).
  assert (over f (mk_state (pick ns (macros s)) []) = s) as <-.
  { unfold over. cbn. rewrite pick_others, app_nil_r. destruct s; reflexivity. }
  rewrite Forall_forall in Hns.
  destruct (framed_lines bits emit mentions f (He f) ls) with (s := mk_state (B := B) (pick ns (macros s)) []) (t := t) as [Hf _].
  - intros n Hn. cbn. rewrite others_lookup, decide_True by auto. reflexivity.
  - exact Hr.
  - apply pick_disjoint.
  - rewrite Hf. unfold over. cbn. rewrite pick_others, app_nil_r. reflexivity.
Qed.

Lemma st_bind_ret_unit {S} (c : ST S unit) s : (c;; mret tt) s = c s.
Proof. cbv [mbind st_bind mret st_ret]. destruct (c s) as [[[] t]|]; reflexivity. Qed.

Lemma run_test {A B} bits (emit : A -> ST (state B) unit) c th el s b :
  holds bits (macros s) c = Some b ->
  run_lines bits emit [If c th el] s = run_lines bits emit (if b then th else el) s.
Proof.
  intros H. unfold run_lines at 1. cbn [foldr run_line]. rewrite st_bind_ret_unit. unfold test.
  cbv [mbind st_bind st_get st_lift]. rewrite H. cbn. destruct b; reflexivity.
Qed.

Lemma run_flag {A B} bits (emit : A -> ST (state B) unit) n ls s :
  macros s !! n = None ->
  run_lines bits emit (Flag n :: ls) s = run_lines bits emit ls (mk_state (<[n := Blank]> (macros s)) (made s)).
Proof.
  intros H. unfold run_lines at 1. cbn [foldr run_line]. unfold define.
  cbv [mbind st_bind st_get st_modify]. rewrite H. reflexivity.
Qed.
