(* ===== verification/LibcCompat.v ===== *)
(** * Declarations shared with the C library

    [kernel-headers/linux/libc-compat.h] decides which of the declarations of
    [linux/if.h], [in.h], [in6.h], [ipv6.h] and [xattr.h] the C library has made already,
    by the headers of the library that were included before. Here are these headers as
    programs for the preprocessor, and what a program's list of includes declares.

    Of a group of declarations under one condition one stands for all; what the headers
    declare without a condition, and the other headers they include, which neither test
    nor define these macros, are left out.

    The headers of the C library are not in the repository. What [libc-compat.h] asks of
    them is in its comment: a declaration that conflicts with one of the kernel is made
    only under [#if !__UAPI_DEF_FOO]. Which declarations a library's headers have, under
    the features the program asks for, is a parameter: [libc-compat.h] does not ask. *)
From stdpp Require Import gmap.
From S2P Require Import Prelude.
From S2P Require Import Cpp.
#[local] Open Scope string_scope.
#[local] Open Scope list_scope.
#[local] Open Scope Z_scope.

#[local] Notation line := (line string).
#[local] Notation state := (state string).

(** A line that declares something. *)
Definition declare (d : string) : ST state unit := st_modify (fun s => mk_state (macros s) (made s ++ [d])).
Definition run : list line -> ST state unit := run_lines 64 declare.

(** ** [libc-compat.h] *)

Definition set_all (v : Z) (us : list string) : list line := map (fun u => Define u (Num v)) us.

Definition if_defs : list string :=
  ["__UAPI_DEF_IF_IFCONF"; "__UAPI_DEF_IF_IFMAP"; "__UAPI_DEF_IF_IFNAMSIZ"; "__UAPI_DEF_IF_IFREQ";
   "__UAPI_DEF_IF_NET_DEVICE_FLAGS"].
Definition lower_up : string := "__UAPI_DEF_IF_NET_DEVICE_FLAGS_LOWER_UP_DORMANT_ECHO".
Definition in_defs : list string :=
  ["__UAPI_DEF_IN_ADDR"; "__UAPI_DEF_IN_IPPROTO"; "__UAPI_DEF_IN_PKTINFO"; "__UAPI_DEF_IP_MREQ";
   "__UAPI_DEF_SOCKADDR_IN"; "__UAPI_DEF_IN_CLASS"; "__UAPI_DEF_IN6_ADDR"].
Definition in6_alt : string := "__UAPI_DEF_IN6_ADDR_ALT".
Definition in6_defs : list string :=
  ["__UAPI_DEF_SOCKADDR_IN6"; "__UAPI_DEF_IPV6_MREQ"; "__UAPI_DEF_IPPROTO_V6"; "__UAPI_DEF_IPV6_OPTIONS";
   "__UAPI_DEF_IN6_PKTINFO"; "__UAPI_DEF_IP6_MTUINFO"].
Definition xattr_def : string := "__UAPI_DEF_XATTR".

Definition all_defs : list string := if_defs ++ [lower_up] ++ in_defs ++ [in6_alt] ++ in6_defs ++ [xattr_def].

Definition libc_compat : list line := [
  If (Neg (Defined "_LIBC_COMPAT_H")) [
    Flag "_LIBC_COMPAT_H";
    If (Defined "__GLIBC__") [
      If (Both (Defined "_NET_IF_H") (Defined "__USE_MISC"))
        (set_all 0 if_defs ++ [If (Neg (Defined lower_up)) [Define lower_up (Num 1)] []])
        (set_all 1 (if_defs ++ [lower_up]));
      If (Defined "_NETINET_IN_H")
        (set_all 0 in_defs ++
         [If (Either (Defined "__USE_MISC") (Defined "__USE_GNU"))
            [Define in6_alt (Num 0)] [Define in6_alt (Num 1)]] ++
         set_all 0 in6_defs)
        (set_all 1 (in_defs ++ [in6_alt] ++ in6_defs));
      If (Defined "_SYS_XATTR_H") [Define xattr_def (Num 0)] [Define xattr_def (Num 1)]]
      (set_all 1 all_defs)] []].

(** ** The headers that include it *)

Definition provide (u d : string) : line := If (NonZero u) [Emit d] [].

(** [#ifndef guard], [#define guard], ..., [#endif] *)
Definition guarded (guard : string) (ls : list line) : list line :=
  [If (Neg (Defined guard)) (Flag guard :: ls) []].

Definition if_decls : list line := [
  provide "__UAPI_DEF_IF_IFNAMSIZ" "IFNAMSIZ";
  If (Either (NonZero lower_up) (NonZero "__UAPI_DEF_IF_NET_DEVICE_FLAGS")) [
    provide "__UAPI_DEF_IF_NET_DEVICE_FLAGS" "IFF_UP";
    provide lower_up "IFF_LOWER_UP"] [];
  provide "__UAPI_DEF_IF_NET_DEVICE_FLAGS" "#define IFF_UP";
  provide lower_up "#define IFF_LOWER_UP";
  provide "__UAPI_DEF_IF_IFMAP" "struct ifmap";
  provide "__UAPI_DEF_IF_IFREQ" "struct ifreq";
  provide "__UAPI_DEF_IF_IFCONF" "struct ifconf"].
Definition if_h : list line := guarded "_LINUX_IF_H" (libc_compat ++ if_decls).

Definition in_decls : list line := [
  provide "__UAPI_DEF_IN_IPPROTO" "IPPROTO_IP";
  provide "__UAPI_DEF_IN_ADDR" "struct in_addr";
  provide "__UAPI_DEF_IP_MREQ" "struct ip_mreq";
  provide "__UAPI_DEF_IN_PKTINFO" "struct in_pktinfo";
  provide "__UAPI_DEF_SOCKADDR_IN" "struct sockaddr_in";
  provide "__UAPI_DEF_IN_CLASS" "#define IN_CLASSA"].
Definition in_h : list line := guarded "_LINUX_IN_H" (libc_compat ++ in_decls).

Definition in6_decls : list line := [
  If (NonZero "__UAPI_DEF_IN6_ADDR") [Emit "struct in6_addr"; provide in6_alt "#define s6_addr16"] [];
  provide "__UAPI_DEF_SOCKADDR_IN6" "struct sockaddr_in6";
  provide "__UAPI_DEF_IPV6_MREQ" "struct ipv6_mreq";
  provide "__UAPI_DEF_IPPROTO_V6" "#define IPPROTO_HOPOPTS";
  provide "__UAPI_DEF_IPV6_OPTIONS" "#define IPV6_ADDRFORM"].
Definition in6_h : list line := guarded "_LINUX_IN6_H" (libc_compat ++ in6_decls).

Definition ipv6_decls : list line := [
  provide "__UAPI_DEF_IN6_PKTINFO" "struct in6_pktinfo";
  provide "__UAPI_DEF_IP6_MTUINFO" "struct ip6_mtuinfo"].
Definition ipv6_h : list line := guarded "_IPV6_H" (libc_compat ++ in6_h ++ ipv6_decls).

Definition xattr_decls : list line := [
  If (NonZero xattr_def) [Flag "__USE_KERNEL_XATTR_DEFS"; Emit "#define XATTR_CREATE"] []].
Definition xattr_h : list line := libc_compat ++ guarded "_LINUX_XATTR_H" xattr_decls.

Inductive kernel_header : Type := If_h | In_h | In6_h | Ipv6_h | Xattr_h.
Definition text (k : kernel_header) : list line :=
  match k with If_h => if_h | In_h => in_h | In6_h => in6_h | Ipv6_h => ipv6_h | Xattr_h => xattr_h end.
Definition kernel_guard (k : kernel_header) : string :=
  match k with
  | If_h => "_LINUX_IF_H" | In_h => "_LINUX_IN_H" | In6_h => "_LINUX_IN6_H" | Ipv6_h => "_IPV6_H"
  | Xattr_h => "_LINUX_XATTR_H"
  end.

(** ** The C library *)

Inductive libc_header : Type := Net_if | Netinet_in | Sys_xattr.
Definition libc_guard (c : libc_header) : string :=
  match c with Net_if => "_NET_IF_H" | Netinet_in => "_NETINET_IN_H" | Sys_xattr => "_SYS_XATTR_H" end.

#[export] Instance kernel_header_eq_dec : EqDecision kernel_header.
Proof. solve_decision. Defined.
#[export] Instance libc_header_eq_dec : EqDecision libc_header.
Proof. solve_decision. Defined.

(** A declaration, the macro it is made under, the kernel's header with it and the
    library's header, if there is one, that [libc-compat.h] takes to have it. *)
Record construct : Type := mk_construct { def : string; decl : string; kernel : kernel_header; libc : option libc_header }.

Definition constructs : list construct := [
  mk_construct "__UAPI_DEF_IF_IFNAMSIZ" "IFNAMSIZ" If_h (Some Net_if);
  mk_construct "__UAPI_DEF_IF_NET_DEVICE_FLAGS" "IFF_UP" If_h (Some Net_if);
  mk_construct lower_up "IFF_LOWER_UP" If_h None;
  mk_construct "__UAPI_DEF_IF_NET_DEVICE_FLAGS" "#define IFF_UP" If_h (Some Net_if);
  mk_construct lower_up "#define IFF_LOWER_UP" If_h None;
  mk_construct "__UAPI_DEF_IF_IFMAP" "struct ifmap" If_h (Some Net_if);
  mk_construct "__UAPI_DEF_IF_IFREQ" "struct ifreq" If_h (Some Net_if);
  mk_construct "__UAPI_DEF_IF_IFCONF" "struct ifconf" If_h (Some Net_if);
  mk_construct "__UAPI_DEF_IN_IPPROTO" "IPPROTO_IP" In_h (Some Netinet_in);
  mk_construct "__UAPI_DEF_IN_ADDR" "struct in_addr" In_h (Some Netinet_in);
  mk_construct "__UAPI_DEF_IP_MREQ" "struct ip_mreq" In_h (Some Netinet_in);
  mk_construct "__UAPI_DEF_IN_PKTINFO" "struct in_pktinfo" In_h (Some Netinet_in);
  mk_construct "__UAPI_DEF_SOCKADDR_IN" "struct sockaddr_in" In_h (Some Netinet_in);
  mk_construct "__UAPI_DEF_IN_CLASS" "#define IN_CLASSA" In_h (Some Netinet_in);
  mk_construct "__UAPI_DEF_IN6_ADDR" "struct in6_addr" In6_h (Some Netinet_in);
  mk_construct "__UAPI_DEF_IN6_ADDR" "#define s6_addr16" In6_h (Some Netinet_in);
  mk_construct "__UAPI_DEF_SOCKADDR_IN6" "struct sockaddr_in6" In6_h (Some Netinet_in);
  mk_construct "__UAPI_DEF_IPV6_MREQ" "struct ipv6_mreq" In6_h (Some Netinet_in);
  mk_construct "__UAPI_DEF_IPPROTO_V6" "#define IPPROTO_HOPOPTS" In6_h (Some Netinet_in);
  mk_construct "__UAPI_DEF_IPV6_OPTIONS" "#define IPV6_ADDRFORM" In6_h (Some Netinet_in);
  mk_construct "__UAPI_DEF_IN6_PKTINFO" "struct in6_pktinfo" Ipv6_h (Some Netinet_in);
  mk_construct "__UAPI_DEF_IP6_MTUINFO" "struct ip6_mtuinfo" Ipv6_h (Some Netinet_in);
  mk_construct xattr_def "#define XATTR_CREATE" Xattr_h (Some Sys_xattr)].

(** ** What one header does *)

Lemma declare_framed f d : framed f (declare d).
Proof. intros s t [= <-] Hd. unfold over. cbn. rewrite app_assoc. split; [reflexivity | assumption]. Qed.

Definition no_mentions (d : string) : list string := [].

Lemma run_part ns ls s t :
  forallb (fun n => existsb (String.eqb n) ns) (flat_map (touches no_mentions) ls) = true ->
  run ls (mk_state (pick ns (macros s)) []) = Some (tt, t) ->
  run ls s = Some (tt, mk_state (macros t ∪ others ns (macros s)) (made s ++ made t)).
Proof.
  intros Hns. apply run_picked with (mentions := no_mentions); [intros; apply declare_framed|].
  apply Forall_forall. intros n Hn%list_elem_of_In. rewrite forallb_forall in Hns.
  apply Hns, existsb_exists in Hn as (m & Hm & ->%String.eqb_eq). apply list_elem_of_In, Hm.
Qed.

Definition is_defined (ms : gmap string body) (n : string) : bool :=
  match ms !! n with Some _ => true | None => false end.

(** *** [libc-compat.h] *)

(** The value that is given to a macro: 0 if the library has made its declarations. *)
Definition verdict_of (glibc net_if use_misc netinet use_gnu xattr : bool) (u : string) : Z :=
  let given := existsb (String.eqb u) in
  if negb glibc then 1
  else if given if_defs then if net_if && use_misc then 0 else 1
  else if given (in_defs ++ in6_defs) then if netinet then 0 else 1
  else if (u =? in6_alt)%string then if netinet && (use_misc || use_gnu) then 0 else 1
  else if (u =? xattr_def)%string then if xattr then 0 else 1
  else 1.

Definition verdict (ms : gmap string body) (u : string) : Z :=
  let seen n := is_defined ms n in
  verdict_of (seen "__GLIBC__") (seen "_NET_IF_H") (seen "__USE_MISC") (seen "_NETINET_IN_H")
    (seen "__USE_GNU") (seen "_SYS_XATTR_H") u.

Definition library_macros : list string :=
  ["__GLIBC__"; "_NET_IF_H"; "__USE_MISC"; "_NETINET_IN_H"; "__USE_GNU"; "_SYS_XATTR_H"].

(** The header has not been included, and its macros are not defined. *)
Definition fresh (ms : gmap string body) : Prop :=
  ms !! "_LIBC_COMPAT_H" = None /\ Forall (fun u => ms !! u = None) all_defs.

Definition verdicts (ms : gmap string body) : gmap string body :=
  list_to_map (("_LIBC_COMPAT_H", Blank) :: map (fun u => (u, Num (verdict ms u))) all_defs).

(** What is defined of them is defined without a body. *)
Definition library_flags (ms : gmap string body) : Prop :=
  pick library_macros ms = flags (List.filter (is_defined ms) library_macros).

Definition same_macros (m1 m2 : gmap string body) : bool := bool_decide (map_to_list m1 = map_to_list m2).

Lemma same_macros_eq m1 m2 : same_macros m1 m2 = true -> m1 = m2.
Proof.
  intros H%bool_decide_eq_true. rewrite <- (list_to_map_to_list m1), <- (list_to_map_to_list m2), H. reflexivity.
Qed.

Definition check_compat (fs : list string) : bool :=
  match run libc_compat (mk_state (flags fs) []) with
  | Some (_, t) => same_macros (macros t) (verdicts (flags fs) ∪ flags fs) && match made t with [] => true | _ => false end
  | None => false
  end.

Lemma compat_checked : forallb check_compat (subsets library_macros) = true.
Proof. vm_compute. reflexivity. Qed.

Lemma in_bool (x : string) l : existsb (String.eqb x) l = true <-> x ∈ l.
Proof.
  rewrite existsb_exists. setoid_rewrite <- list_elem_of_In. split.
  - intros (y & Hy & ->%String.eqb_eq). assumption.
  - intros Hx. exists x. split; [assumption | apply String.eqb_refl].
Qed.

Lemma among (x : string) l : existsb (String.eqb x) l = true -> x ∈ l.
Proof. apply in_bool. Qed.

Lemma is_defined_pick ns ms n : n ∈ ns -> is_defined (pick ns ms) n = is_defined ms n.
Proof. intros Hn. unfold is_defined. rewrite pick_lookup, decide_True by assumption. reflexivity. Qed.

Lemma verdict_pick ms u : verdict (pick library_macros ms) u = verdict ms u.
Proof. unfold verdict. rewrite !is_defined_pick by (apply among; reflexivity). reflexivity. Qed.

Lemma verdicts_pick ms : verdicts (pick library_macros ms) = verdicts ms.
Proof. unfold verdicts. do 2 f_equal. apply map_ext. intros u. rewrite verdict_pick. reflexivity. Qed.

Lemma fresh_pick ms : fresh ms -> pick ("_LIBC_COMPAT_H" :: library_macros ++ all_defs) ms = pick library_macros ms.
Proof.
  intros [Hg Hu]. apply map_eq. intros n. rewrite !pick_lookup. destruct (decide (n ∈ library_macros)) as [Hn|Hn].
  - rewrite decide_True; [reflexivity|]. apply elem_of_cons. right. apply elem_of_app. auto.
  - destruct decide as [Hin|]; [|reflexivity]. apply elem_of_cons in Hin as [-> | [Hin | Hin]%elem_of_app];
      [assumption | contradiction|]. rewrite Forall_forall in Hu. auto.
Qed.

(** The state once [libc-compat.h] is included. *)
Definition compat (ms : gmap string body) : bool := is_defined ms "_LIBC_COMPAT_H".
Definition settle (s : state) : state :=
  if compat (macros s) then s else mk_state (verdicts (macros s) ∪ macros s) (made s).

Lemma holds_not_defined ms g : holds 64 ms (Neg (Defined g)) = Some (negb (is_defined ms g)).
Proof. cbn. unfold is_defined. destruct (ms !! g); reflexivity. Qed.

Lemma guarded_skip g ls s : is_defined (macros s) g = true -> run (guarded g ls) s = Some (tt, s).
Proof.
  intros H. unfold run, guarded. rewrite (run_test _ _ _ _ _ _ _ (holds_not_defined _ _)), H. reflexivity.
Qed.

Lemma guarded_enter g ls s : is_defined (macros s) g = false ->
  run (guarded g ls) s = run ls (mk_state (<[g := Blank]> (macros s)) (made s)).
Proof.
  intros H. unfold run, guarded. rewrite (run_test _ _ _ _ _ _ _ (holds_not_defined _ _)), H. cbn [negb].
  apply run_flag. unfold is_defined in H. destruct (macros s !! g); congruence.
Qed.

Lemma compat_runs s :
  (compat (macros s) = false -> fresh (macros s)) -> library_flags (macros s) ->
  run libc_compat s = Some (tt, settle s).
Proof.
  intros Hf Hl. unfold settle. destruct (compat (macros s)) eqn:Hc.
  - apply (guarded_skip "_LIBC_COMPAT_H"). exact Hc.
  - specialize (Hf eq_refl).
    pose proof compat_checked as C. rewrite forallb_forall in C.
    specialize (C _ (filter_subsets (is_defined (macros s)) library_macros)). unfold check_compat in C.
    rewrite <- Hl in C.
    destruct (run libc_compat (mk_state (pick library_macros (macros s)) [])) as [[[] t]|] eqn:E; [|discriminate].
    apply andb_true_iff in C as [Cm%same_macros_eq Cd].
    rewrite (run_part ("_LIBC_COMPAT_H" :: library_macros ++ all_defs) libc_compat s t);
      [| vm_compute; reflexivity | rewrite fresh_pick by assumption; exact E].
    unfold library_flags in Hl. rewrite <- Hl in Cm. rewrite Cm, verdicts_pick. destruct (made t); [|discriminate].
    rewrite app_nil_r. do 3 f_equal. rewrite <- (assoc_L (∪)). f_equal.
    rewrite <- (fresh_pick _ Hf). apply pick_others.
Qed.

(** *** The declarations of one header *)

Definition decls (k : kernel_header) : list line :=
  match k with
  | If_h => if_decls | In_h => in_decls | In6_h => in6_decls | Ipv6_h => ipv6_decls | Xattr_h => xattr_decls
  end.

Definition defs_of (k : kernel_header) : list string :=
  match k with
  | If_h => if_defs ++ [lower_up]
  | In_h => ["__UAPI_DEF_IN_ADDR"; "__UAPI_DEF_IN_IPPROTO"; "__UAPI_DEF_IN_PKTINFO"; "__UAPI_DEF_IP_MREQ";
             "__UAPI_DEF_SOCKADDR_IN"; "__UAPI_DEF_IN_CLASS"]
  | In6_h => ["__UAPI_DEF_IN6_ADDR"; in6_alt; "__UAPI_DEF_SOCKADDR_IN6"; "__UAPI_DEF_IPV6_MREQ";
              "__UAPI_DEF_IPPROTO_V6"; "__UAPI_DEF_IPV6_OPTIONS"]
  | Ipv6_h => ["__UAPI_DEF_IN6_PKTINFO"; "__UAPI_DEF_IP6_MTUINFO"]
  | Xattr_h => [xattr_def]
  end.

Definition xattr_flag : string := "__USE_KERNEL_XATTR_DEFS".

Definition wanted (ms : gmap string body) (u : string) : bool :=
  match ms !! u with Some (Num z) => z =? 1 | _ => false end.

Definition emitted (k : kernel_header) (ms : gmap string body) : list string :=
  map decl (List.filter (fun c => bool_decide (kernel c = k) && wanted ms (def c)) constructs).

Definition after (k : kernel_header) (ms : gmap string body) : gmap string body :=
  match k with Xattr_h => if wanted ms xattr_def then <[xattr_flag := Blank]> ms else ms | _ => ms end.

Fixpoint assignments (ns : list string) : list (gmap string body) :=
  match ns with
  | [] => [∅]
  | n :: ns => flat_map (fun m => [<[n := Num 0]> m; <[n := Num 1]> m]) (assignments ns)
  end.

(** Every macro has a number, and the additional members of [in6_addr] are wanted
    where the structure is. *)
Definition settled (ms : gmap string body) : Prop :=
  Forall (fun u => ms !! u = Some (Num 0) \/ ms !! u = Some (Num 1)) all_defs /\
  (wanted ms "__UAPI_DEF_IN6_ADDR" = true -> wanted ms in6_alt = true).

Definition check_decls (k : kernel_header) : bool :=
  forallb (fun m => negb (implb (wanted m "__UAPI_DEF_IN6_ADDR") (wanted m in6_alt)) ||
    match run (decls k) (mk_state m []) with
    | Some (_, t) => same_macros (macros t) (after k m) && bool_decide (made t = emitted k m)
    | None => false
    end) (assignments (defs_of k)).

Lemma decls_checked : forallb check_decls [If_h; In_h; In6_h; Ipv6_h; Xattr_h] = true.
Proof. vm_compute. reflexivity. Qed.

Lemma pick_assignment ns ms :
  Forall (fun u => ms !! u = Some (Num 0) \/ ms !! u = Some (Num 1)) ns -> In (pick ns ms) (assignments ns).
Proof.
  induction 1 as [|n ns Hn _ IH]; [left; reflexivity|]. cbn [assignments]. apply in_flat_map.
  exists (pick ns ms). split; [exact IH|]. unfold pick. cbn [omap list_omap].
  destruct Hn as [-> | ->]; cbn [fmap option_fmap option_map]; rewrite list_to_map_cons; [left | right; left]; reflexivity.
Qed.

Lemma settled_defs k ms : settled ms ->
  Forall (fun u => ms !! u = Some (Num 0) \/ ms !! u = Some (Num 1)) (defs_of k).
Proof.
  intros [H _]. rewrite Forall_forall in H |- *. intros u Hu. apply H. clear H. revert u Hu. apply Forall_forall.
  apply (bool_decide_unpack _). destruct k; vm_compute; exact I.
Qed.

Lemma wanted_pick ns ms u : u ∈ ns -> wanted (pick ns ms) u = wanted ms u.
Proof. intros Hu. unfold wanted. rewrite pick_lookup, decide_True by assumption. reflexivity. Qed.

Lemma construct_defs k : Forall (fun c => kernel c = k -> def c ∈ defs_of k) constructs.
Proof. apply (bool_decide_unpack _). destruct k; vm_compute; exact I. Qed.

Lemma emitted_pick k ms : emitted k (pick (defs_of k) ms) = emitted k ms.
Proof.
  apply (f_equal (map decl)), filter_ext_in. intros c Hc%list_elem_of_In.
  pose proof (construct_defs k) as H. rewrite Forall_forall in H. specialize (H c Hc).
  destruct (bool_decide_reflect (kernel c = k)) as [E|]; [rewrite wanted_pick by auto|]; reflexivity.
Qed.

Lemma wanted_pick_out ns ms u : u ∉ ns -> wanted (pick ns ms) u = false.
Proof. intros Hu. unfold wanted. rewrite pick_lookup, decide_False by assumption. reflexivity. Qed.

(** The macros the declarations of a header mention. *)
Definition mentioned (k : kernel_header) : list string :=
  match k with Xattr_h => [xattr_def; xattr_flag] | _ => defs_of k end.

Lemma pick_mentioned k ms : (k = Xattr_h -> ms !! xattr_flag = None) -> pick (mentioned k) ms = pick (defs_of k) ms.
Proof.
  destruct k; [reflexivity..|]. intros H. specialize (H eq_refl). apply map_eq. intros n.
  rewrite !pick_lookup. cbn [mentioned defs_of]. destruct (decide (n = xattr_flag)) as [->|Hn].
  - rewrite H. destruct decide, decide; reflexivity.
  - apply decide_ext. rewrite !elem_of_cons. tauto.
Qed.

Lemma decls_run k s : settled (macros s) -> (k = Xattr_h -> macros s !! xattr_flag = None) ->
  run (decls k) s = Some (tt, mk_state (after k (macros s)) (made s ++ emitted k (macros s))).
Proof.
  intros Hs Hx. pose proof decls_checked as C. rewrite forallb_forall in C.
  assert (In k [If_h; In_h; In6_h; Ipv6_h; Xattr_h]) as Hk by (destruct k; cbn; tauto).
  specialize (C k Hk). unfold check_decls in C. rewrite forallb_forall in C.
  specialize (C _ (pick_assignment _ _ (settled_defs k _ Hs))).
  assert (implb (wanted (pick (defs_of k) (macros s)) "__UAPI_DEF_IN6_ADDR")
                (wanted (pick (defs_of k) (macros s)) in6_alt) = true) as Ha.
  { destruct (decide ("__UAPI_DEF_IN6_ADDR" ∈ defs_of k)) as [Hin|Hout];
      [|rewrite (wanted_pick_out _ _ _ Hout); reflexivity].
    assert (k = In6_h) as -> by (destruct k; [| | reflexivity | |]; apply in_bool in Hin; discriminate Hin).
    rewrite !wanted_pick by (apply among; reflexivity). destruct Hs as [_ Ha].
    destruct (wanted _ "__UAPI_DEF_IN6_ADDR"); [rewrite Ha by reflexivity|]; reflexivity. }
  rewrite Ha in C. cbn [negb orb] in C.
  destruct (run (decls k) (mk_state (pick (defs_of k) (macros s)) [])) as [[[] t]|] eqn:E; [|discriminate].
  apply andb_true_iff in C as [Cm%same_macros_eq Cd%bool_decide_eq_true].
  rewrite (run_part (mentioned k) (decls k) s t);
    [| destruct k; vm_compute; reflexivity | rewrite pick_mentioned by assumption; exact E].
  pose proof (pick_others (mentioned k) (macros s)) as Eo. rewrite pick_mentioned in Eo by assumption.
  assert (after k (pick (defs_of k) (macros s)) ∪ others (mentioned k) (macros s) = after k (macros s)) as Ea.
  { destruct k; [exact Eo..|]. unfold after. rewrite wanted_pick by (apply among; reflexivity).
    destruct (wanted (macros s) xattr_def); [rewrite <- insert_union_l, Eo; reflexivity | exact Eo]. }
  rewrite Cm, Cd, Ea, emitted_pick. reflexivity.
Qed.

(** ** A program's includes *)

Definition nonzero (ms : gmap string body) (u : string) : bool :=
  match ms !! u with Some (Num z) => negb (z =? 0) | _ => false end.

Inductive header : Type := Kernel (k : kernel_header) | Libc (l : libc_header).

Definition seen (ms : gmap string body) (l : libc_header) : bool := is_defined ms (libc_guard l).
Definition included (ms : gmap string body) (k : kernel_header) : bool := is_defined ms (kernel_guard k).

(** Whether the library makes a declaration, when [offers] says what its headers
    have: [net/if.h] has its part only with [__USE_MISC], which [libc-compat.h] knows. *)
Definition provides (misc : bool) (offers : construct -> bool) (c : construct) : bool :=
  match libc c with
  | None => false
  | Some Net_if => misc && offers c
  | Some _ => offers c
  end.

(** [libc-compat.h] leaves a declaration to the library, when the program has
    included the library's headers [seen]. *)
Definition blamed_of (misc : bool) (seen : libc_header -> bool) (c : construct) : bool :=
  match libc c with
  | Some l => seen l && match l with Net_if => misc | _ => true end
  | None => false
  end.

(** What the verdicts mean for a program that asks for the features [misc] and [gnu]
    and has included the library's headers [seen]. *)
Definition agrees (misc gnu : bool) (seen : libc_header -> bool) (c : construct) : bool :=
  let glibc := seen Net_if || seen Netinet_in || seen Sys_xattr in
  Bool.eqb
    (verdict_of glibc (seen Net_if) (glibc && misc) (seen Netinet_in) (glibc && gnu) (seen Sys_xattr) (def c) =? 1)
    (negb (blamed_of misc seen c)).

Lemma verdicts_agree misc gnu seen c : c ∈ constructs -> agrees misc gnu seen c = true.
Proof.
  assert (forall n i x, seen Net_if = n -> seen Netinet_in = i -> seen Sys_xattr = x ->
    forallb (agrees misc gnu seen) constructs = true) as H.
  { intros n i x Hn Hi Hx. unfold agrees, blamed_of. cbv zeta.
    cbv [constructs forallb libc def]. rewrite Hn, Hi, Hx.
    destruct misc, gnu, n, i, x; vm_compute; reflexivity. }
  intros Hc. specialize (H _ _ _ eq_refl eq_refl eq_refl). rewrite forallb_forall in H.
  apply H, list_elem_of_In, Hc.
Qed.

Lemma blamed_seen misc offers seen c :
  blamed_of misc seen c = false -> match libc c with Some l => seen l && provides misc offers c | None => false end = false.
Proof.
  unfold blamed_of, provides. destruct (libc c) as [[]|]; [|rewrite andb_true_r; intros ->; reflexivity..|trivial].
  destruct (seen Net_if), misc; trivial; discriminate.
Qed.

Section includes.
(** The features of the library a program asks for, and what its headers have then. *)
Context (misc gnu : bool) (offers : construct -> bool).

Definition features : list string :=
  (if misc then ["__USE_MISC"] else []) ++ (if gnu then ["__USE_GNU"] else []).

(** A header of the library as [libc-compat.h] asks for: it is guarded, it makes its
    declarations under [#if !__UAPI_DEF_FOO], and the first one defines [__GLIBC__]
    and the features. *)
Definition library_effect (l : libc_header) (s : state) : state :=
  if seen (macros s) l then s
  else mk_state (macros s ∪ flags (libc_guard l :: "__GLIBC__" :: features))
         (made s ++ map decl (List.filter (fun c => bool_decide (libc c = Some l) && provides misc offers c &&
                                                    negb (nonzero (macros s) (def c))) constructs)).

Context (library : libc_header -> ST state unit).
Context (library_follows : forall l s, library l s = Some (tt, library_effect l s)).

Definition include (h : header) : ST state unit :=
  match h with Kernel k => run (text k) | Libc l => library l end.

Definition includes (hs : list header) : ST state unit := foldr (fun h rest => include h;; rest) (mret tt) hs.

(** *** The invariant *)

(** Whether a declaration has been made. *)
Definition declared (ms : gmap string body) (c : construct) : bool :=
  if compat ms then if wanted ms (def c) then included ms (kernel c) else provides misc offers c
  else match libc c with Some l => seen ms l && provides misc offers c | None => false end.

Record inv (s : state) : Prop := {
  inv_library : Forall (fun n => macros s !! n = None \/ macros s !! n = Some Blank) library_macros;
  inv_glibc : is_defined (macros s) "__GLIBC__" =
    seen (macros s) Net_if || seen (macros s) Netinet_in || seen (macros s) Sys_xattr;
  inv_misc : is_defined (macros s) "__USE_MISC" = is_defined (macros s) "__GLIBC__" && misc;
  inv_gnu : is_defined (macros s) "__USE_GNU" = is_defined (macros s) "__GLIBC__" && gnu;
  inv_fresh : compat (macros s) = false -> fresh (macros s) /\ forall k, included (macros s) k = false;
  inv_settled : compat (macros s) = true -> settled (macros s) /\
    Forall (fun c => wanted (macros s) (def c) = false -> blamed_of misc (seen (macros s)) c = true) constructs;
  inv_flag : included (macros s) Xattr_h = false -> macros s !! xattr_flag = None;
  inv_made : Forall (fun c => decl c ∈ made s <-> declared (macros s) c = true) constructs;
  inv_nodup : NoDup (made s)
}.

Lemma library_flags_of ms :
  Forall (fun n => ms !! n = None \/ ms !! n = Some Blank) library_macros -> library_flags ms.
Proof.
  unfold library_flags, pick, flags. induction 1 as [|n ns Hn _ IH]; [reflexivity|]. cbn [omap list_omap List.filter].
  unfold is_defined at 1. destruct Hn as [-> | ->]; cbn [fmap option_fmap option_map map]; [exact IH|].
  rewrite !list_to_map_cons. f_equal. exact IH.
Qed.

Lemma wanted_eq ms ms' u : ms !! u = ms' !! u -> wanted ms u = wanted ms' u.
Proof. unfold wanted. intros ->. reflexivity. Qed.

Lemma is_defined_eq ms ms' u : ms !! u = ms' !! u -> is_defined ms u = is_defined ms' u.
Proof. unfold is_defined. intros ->. reflexivity. Qed.

(** The invariant depends on the macros it mentions only. *)
Definition watched : list string :=
  library_macros ++ ["_LIBC_COMPAT_H"] ++ all_defs ++ [xattr_flag] ++ map kernel_guard [If_h; In_h; In6_h; Ipv6_h; Xattr_h].

Lemma guards_watched k : kernel_guard k ∈ watched.
Proof. apply among. destruct k; reflexivity. Qed.
Lemma libc_guards_watched l : libc_guard l ∈ library_macros.
Proof. apply among. destruct l; reflexivity. Qed.

Lemma kernel_guard_inj k k' : kernel_guard k = kernel_guard k' -> k = k'.
Proof. destruct k, k'; first [reflexivity | discriminate]. Qed.
Lemma libc_guard_inj l l' : libc_guard l = libc_guard l' -> l = l'.
Proof. destruct l, l'; first [reflexivity | discriminate]. Qed.

(** *** [libc-compat.h] *)

Lemma settle_lookup ms n : (verdicts ms ∪ ms) !! n =
  if decide (n = "_LIBC_COMPAT_H") then Some Blank
  else if decide (n ∈ all_defs) then Some (Num (verdict ms n)) else ms !! n.
Proof.
  unfold verdicts. rewrite list_to_map_cons, <- insert_union_l. destruct decide as [->|Hn].
  - apply lookup_insert_eq.
  - rewrite lookup_insert_ne, lookup_union, (list_to_map_fun (fun u => Num (verdict ms u))) by congruence.
    destruct decide; [destruct (ms !! n); reflexivity | apply (left_id_L None _)].
Qed.

Lemma verdict_bit ms u : verdict ms u = 0 \/ verdict ms u = 1.
Proof.
  unfold verdict, verdict_of. cbv zeta. repeat match goal with |- context [if ?b then _ else _] => destruct b end; auto.
Qed.



(** The names that [libc-compat.h] leaves alone. *)
Definition stable : list string :=
  library_macros ++ [xattr_flag] ++ map kernel_guard [If_h; In_h; In6_h; Ipv6_h; Xattr_h].

Lemma stable_names : Forall (fun n => n <> "_LIBC_COMPAT_H" /\ n ∉ all_defs) stable.
Proof. apply (bool_decide_unpack _). vm_compute. exact I. Qed.

Lemma guard_stable k : kernel_guard k ∈ stable.
Proof. apply among. destruct k; reflexivity. Qed.
Lemma libc_guard_stable l : libc_guard l ∈ stable.
Proof. apply among. destruct l; reflexivity. Qed.
Lemma library_stable n : n ∈ library_macros -> n ∈ stable.
Proof. intros Hn. apply elem_of_app. auto. Qed.

Lemma def_known c : c ∈ constructs -> def c ∈ all_defs.
Proof.
  revert c. apply Forall_forall. apply (bool_decide_unpack _). vm_compute. exact I.
Qed.

Lemma settle_stable ms n : n ∈ stable -> (verdicts ms ∪ ms) !! n = ms !! n.
Proof.
  intros Hn. pose proof stable_names as H. rewrite Forall_forall in H. destruct (H n Hn) as [H1 H2].
  rewrite settle_lookup, !decide_False by assumption. reflexivity.
Qed.

Lemma settle_def ms u : u ∈ all_defs -> (verdicts ms ∪ ms) !! u = Some (Num (verdict ms u)).
Proof.
  intros Hu. rewrite settle_lookup, decide_False, decide_True; [reflexivity | assumption|].
  intros ->. apply in_bool in Hu. discriminate.
Qed.

Lemma settle_wanted ms u : u ∈ all_defs -> wanted (verdicts ms ∪ ms) u = (verdict ms u =? 1).
Proof. intros Hu. unfold wanted. rewrite settle_def by assumption. reflexivity. Qed.

Lemma verdict_inv s u : inv s -> verdict (macros s) u =
  let glibc := seen (macros s) Net_if || seen (macros s) Netinet_in || seen (macros s) Sys_xattr in
  verdict_of glibc (seen (macros s) Net_if) (glibc && misc) (seen (macros s) Netinet_in) (glibc && gnu)
    (seen (macros s) Sys_xattr) u.
Proof.
  intros I. unfold verdict. cbv zeta. rewrite (inv_misc _ I), (inv_gnu _ I), (inv_glibc _ I). reflexivity.
Qed.

Lemma settled_macros ms : settled (verdicts ms ∪ ms).
Proof.
  split.
  - apply Forall_forall. intros u Hu. rewrite settle_def by assumption. destruct (verdict_bit ms u) as [-> | ->]; auto.
  - rewrite !settle_wanted by (apply among; reflexivity). unfold verdict.
    generalize (is_defined ms "__GLIBC__"), (is_defined ms "_NET_IF_H"), (is_defined ms "__USE_MISC"),
      (is_defined ms "_NETINET_IN_H"), (is_defined ms "__USE_GNU"), (is_defined ms "_SYS_XATTR_H").
    intros [] [] [] [] [] []; vm_compute; congruence.
Qed.

Lemma settle_inv s : inv s -> inv (settle s).
Proof.
  intros I. unfold settle. destruct (compat (macros s)) eqn:Hc; [exact I|].
  destruct (inv_fresh _ I Hc) as [Hf Hk]. set (ms := macros s) in *.
  assert (forall n, n ∈ stable -> is_defined (verdicts ms ∪ ms) n = is_defined ms n) as Hd
    by (intros; apply is_defined_eq, settle_stable; assumption).
  assert (forall l, seen (verdicts ms ∪ ms) l = seen ms l) as Hseen by (intros; apply Hd, libc_guard_stable).
  assert (compat (verdicts ms ∪ ms) = true) as Hc'
    by (unfold compat, is_defined; rewrite settle_lookup, decide_True by reflexivity; reflexivity).
  assert (forall c, c ∈ constructs -> (verdict ms (def c) =? 1) = negb (blamed_of misc (seen ms) c)) as Ha.
  { intros c Hin. pose proof (verdicts_agree misc gnu (seen ms) c Hin) as Ha. apply eqb_prop in Ha. rewrite <- Ha.
    subst ms. rewrite (verdict_inv s _ I). reflexivity. }
  constructor; cbn [macros made].
  - apply Forall_forall. intros n Hn. rewrite settle_stable by (apply library_stable, Hn).
    pose proof (inv_library _ I) as H. rewrite Forall_forall in H. apply H, Hn.
  - rewrite !Hseen, Hd by (apply among; reflexivity). apply (inv_glibc _ I).
  - rewrite !Hd by (apply among; reflexivity). apply (inv_misc _ I).
  - rewrite !Hd by (apply among; reflexivity). apply (inv_gnu _ I).
  - congruence.
  - intros _. split; [apply settled_macros|]. apply Forall_forall. intros c Hin.
    rewrite settle_wanted, Ha by (try apply def_known; exact Hin). intros Hv%negb_false_iff.
    unfold blamed_of in *. destruct (libc c); [rewrite Hseen|]; exact Hv.
  - intros _. rewrite settle_stable by (apply among; reflexivity). apply (inv_flag _ I), Hk.
  - apply Forall_forall. intros c Hin. pose proof (inv_made _ I) as Hm. rewrite Forall_forall in Hm.
    rewrite (Hm c Hin). fold ms.
    replace (declared (verdicts ms ∪ ms) c) with (declared ms c); [reflexivity|].
    unfold declared at 2. rewrite Hc', settle_wanted by (apply def_known, Hin). unfold included at 1.
    rewrite Hd by apply guard_stable. fold (included ms (kernel c)). rewrite Hk.
    rewrite (Ha c Hin). unfold declared. rewrite Hc. destruct (blamed_of misc (seen ms) c) eqn:Eb; cbn [negb].
    + unfold blamed_of in Eb. destruct (libc c) as [l|]; [|discriminate].
      apply andb_true_iff in Eb as [-> _]. reflexivity.
    + apply blamed_seen, Eb.
  - apply (inv_nodup _ I).
Qed.


(** *** The declarations of a header *)

Definition complete (k : kernel_header) (s : state) : state :=
  mk_state (<[kernel_guard k := Blank]> (after k (macros s))) (made s ++ emitted k (macros s)).

Lemma after_lookup k ms n : n <> xattr_flag -> after k ms !! n = ms !! n.
Proof.
  intros Hn. destruct k; [reflexivity..|]. unfold after. destruct wanted; [|reflexivity].
  apply lookup_insert_ne. congruence.
Qed.

(** Names that including a header of the kernel leaves alone. *)
Definition untouched : list string := "_LIBC_COMPAT_H" :: library_macros ++ all_defs.

Lemma untouched_names : Forall (fun n => n <> xattr_flag /\ forall k, n <> kernel_guard k) untouched.
Proof.
  assert (Forall (fun n => n <> xattr_flag /\ Forall (fun k => n <> kernel_guard k) [If_h; In_h; In6_h; Ipv6_h; Xattr_h]) untouched)
    as H by (apply (bool_decide_unpack _); vm_compute; exact I).
  eapply Forall_impl; [exact H|]. intros n [H1 H2]. split; [exact H1|]. intros k. rewrite Forall_forall in H2.
  apply H2, list_elem_of_In. destruct k; cbn; tauto.
Qed.

Lemma complete_untouched k s n : n ∈ untouched -> macros (complete k s) !! n = macros s !! n.
Proof.
  intros Hn. pose proof untouched_names as H. rewrite Forall_forall in H. destruct (H n Hn) as [H1 H2].
  unfold complete. cbn. rewrite lookup_insert_ne by (intros E; apply (H2 k); congruence). apply after_lookup, H1.
Qed.

Lemma library_untouched n : n ∈ library_macros -> n ∈ untouched.
Proof. intros Hn. right. apply elem_of_app. auto. Qed.
Lemma def_untouched u : u ∈ all_defs -> u ∈ untouched.
Proof. intros Hn. right. apply elem_of_app. auto. Qed.

Lemma complete_included k s k' :
  included (macros (complete k s)) k' = bool_decide (k = k') || included (macros s) k'.
Proof.
  unfold included, complete, is_defined. cbn. destruct (bool_decide_reflect (k = k')) as [->|Hk].
  - rewrite lookup_insert_eq. reflexivity.
  - rewrite lookup_insert_ne by (intros E%kernel_guard_inj; congruence). rewrite after_lookup; [reflexivity|].
    destruct k'; discriminate.
Qed.

Lemma construct_decls : NoDup (map decl constructs).
Proof. apply (bool_decide_unpack _). vm_compute. exact I. Qed.

Lemma decl_inj c c' : c ∈ constructs -> c' ∈ constructs -> decl c = decl c' -> c = c'.
Proof.
  intros Hc Hc' E. apply list_elem_of_lookup in Hc as [i Hi]. apply list_elem_of_lookup in Hc' as [j Hj].
  assert (i = j) as ->; [|congruence].
  eapply NoDup_lookup; [apply construct_decls | rewrite list_lookup_fmap, Hi; reflexivity |].
  rewrite list_lookup_fmap, Hj. cbn. congruence.
Qed.

(** The declarations of the constructs that [P] selects. *)
Lemma selected_elem (P : construct -> bool) c : c ∈ constructs ->
  decl c ∈ map decl (List.filter P constructs) <-> P c = true.
Proof.
  intros Hc. rewrite list_elem_of_In, in_map_iff. split.
  - intros (c' & E & Hc'%filter_In). destruct Hc' as [Hin HP]. rewrite <- list_elem_of_In in Hin.
    rewrite <- (decl_inj c' c Hin Hc E). exact HP.
  - intros HP. exists c. rewrite filter_In, <- list_elem_of_In. auto.
Qed.

Lemma selected_from (P : construct -> bool) d :
  d ∈ map decl (List.filter P constructs) -> exists c, c ∈ constructs /\ d = decl c /\ P c = true.
Proof.
  rewrite list_elem_of_In, in_map_iff. intros (c & <- & Hc%filter_In). exists c. rewrite list_elem_of_In. tauto.
Qed.

Lemma selected_nodup (P : construct -> bool) : NoDup (map decl (List.filter P constructs)).
Proof.
  pose proof construct_decls as H. revert H. generalize constructs. induction l as [|c l IH]; intros H; [constructor|].
  apply NoDup_cons in H as [Hc Hl]. cbn [List.filter]. destruct (P c); [|auto]. cbn [map]. constructor; [|auto].
  intros Hin. apply Hc. apply list_elem_of_In, in_map_iff in Hin as (c' & <- & Hc'%filter_In).
  apply list_elem_of_In, in_map. tauto.
Qed.

(** Making declarations that have not been made keeps the invariant on them. *)
Lemma made_more ms ms' l (P : construct -> bool) :
  Forall (fun c => decl c ∈ l <-> declared ms c = true) constructs -> NoDup l ->
  (forall c, c ∈ constructs -> declared ms' c = declared ms c || P c) ->
  (forall c, c ∈ constructs -> P c = true -> declared ms c = false) ->
  Forall (fun c => decl c ∈ l ++ map decl (List.filter P constructs) <-> declared ms' c = true) constructs /\
  NoDup (l ++ map decl (List.filter P constructs)).
Proof.
  rewrite !Forall_forall. intros Hm Hnd Hd Hnew. split.
  - intros c Hc. rewrite elem_of_app, selected_elem, (Hm c Hc), (Hd c Hc), orb_true_iff by assumption. reflexivity.
  - apply NoDup_app. split_and!; [assumption | | apply selected_nodup].
    intros d Hl (c & Hc & -> & HP)%selected_from. apply (Hm c Hc) in Hl. rewrite (Hnew c Hc HP) in Hl. discriminate.
Qed.

Lemma complete_inv k s : inv s -> compat (macros s) = true -> included (macros s) k = false -> inv (complete k s).
Proof.
  intros I Hc Hk. destruct (inv_settled _ I Hc) as [Hs Hb].
  assert (forall n, n ∈ untouched -> is_defined (macros (complete k s)) n = is_defined (macros s) n) as Hd
    by (intros; apply is_defined_eq, complete_untouched; assumption).
  assert (forall n, n ∈ library_macros -> is_defined (macros (complete k s)) n = is_defined (macros s) n) as Hdl
    by (intros; apply Hd, library_untouched; assumption).
  assert (forall l, seen (macros (complete k s)) l = seen (macros s) l) as Hseen
    by (intros; apply Hdl, libc_guards_watched).
  assert (compat (macros (complete k s)) = true) as Hc' by (unfold compat in *; rewrite Hd by left; exact Hc).
  assert (forall u, u ∈ all_defs -> wanted (macros (complete k s)) u = wanted (macros s) u) as Hw
    by (intros; apply wanted_eq, complete_untouched, def_untouched; assumption).
  destruct (made_more (macros s) (macros (complete k s)) (made s)
    (fun c => bool_decide (kernel c = k) && wanted (macros s) (def c))) as [Hm Hn].
  - apply (inv_made _ I).
  - apply (inv_nodup _ I).
  - intros c Hin. unfold declared. rewrite Hc, Hc', Hw, complete_included by (apply def_known, Hin).
    destruct (wanted (macros s) (def c)).
    + rewrite andb_true_r, orb_comm. f_equal. apply bool_decide_ext. split; congruence.
    + rewrite andb_false_r, orb_false_r. reflexivity.
  - intros c Hin [Ek Ew]%andb_true_iff. apply bool_decide_eq_true in Ek as <-. unfold declared. rewrite Hc, Ew. exact Hk.
  - constructor.
    + apply Forall_forall. intros n Hin. rewrite complete_untouched by (apply library_untouched, Hin).
      pose proof (inv_library _ I) as H. rewrite Forall_forall in H. apply H, Hin.
    + rewrite !Hseen, Hdl by (apply among; reflexivity). apply (inv_glibc _ I).
    + rewrite !Hdl by (apply among; reflexivity). apply (inv_misc _ I).
    + rewrite !Hdl by (apply among; reflexivity). apply (inv_gnu _ I).
    + congruence.
    + intros _. split.
      * destruct Hs as [H1 H2]. split.
        -- rewrite Forall_forall in H1 |- *. intros u Hu. rewrite complete_untouched by (apply def_untouched, Hu). auto.
        -- rewrite !Hw by (apply among; reflexivity). exact H2.
      * rewrite Forall_forall in Hb |- *. intros c Hin. rewrite Hw by (apply def_known, Hin). intros Hv.
        specialize (Hb c Hin Hv). unfold blamed_of in *. destruct (libc c); [rewrite Hseen|]; exact Hb.
    + rewrite complete_included. intros [Ek Ex]%orb_false_iff. apply bool_decide_eq_false in Ek.
      unfold complete. cbn. rewrite lookup_insert_ne by (destruct k; discriminate).
      destruct k; [apply (inv_flag _ I Ex)..|congruence].
    + exact Hm.
    + exact Hn.
Qed.

(** *** A header of the library *)

Definition library_names (l : libc_header) : list string := libc_guard l :: "__GLIBC__" :: features.

Lemma features_elem n : n ∈ features -> n ∈ ["__USE_MISC"; "__USE_GNU"].
Proof. unfold features. destruct misc, gnu; cbn [app]; rewrite !elem_of_cons; tauto. Qed.

Lemma library_names_in l n : n ∈ library_names l -> n ∈ library_macros.
Proof.
  unfold library_names. rewrite !elem_of_cons. intros [-> | [-> | Hn%features_elem]].
  - apply libc_guards_watched.
  - apply among. reflexivity.
  - rewrite !elem_of_cons in Hn. destruct Hn as [-> | [-> | []%elem_of_nil]]; apply among; reflexivity.
Qed.

Lemma flags_other ms l n : n ∉ library_macros -> (ms ∪ flags (library_names l)) !! n = ms !! n.
Proof.
  intros Hn. rewrite lookup_union, flags_lookup, decide_False by (intros H%library_names_in; contradiction).
  apply (right_id_L None _).
Qed.

Lemma flags_defined ms l n :
  is_defined (ms ∪ flags (library_names l)) n = is_defined ms n || bool_decide (n ∈ library_names l).
Proof.
  unfold is_defined. rewrite lookup_union, flags_lookup. destruct (decide (n ∈ library_names l)) as [H|H].
  - rewrite bool_decide_true by assumption. destruct (ms !! n); reflexivity.
  - rewrite bool_decide_false by assumption. destruct (ms !! n); reflexivity.
Qed.

Lemma flags_seen ms l l' : seen (ms ∪ flags (library_names l)) l' = seen ms l' || bool_decide (l = l').
Proof.
  unfold seen. rewrite flags_defined. f_equal. apply bool_decide_ext. unfold library_names. rewrite !elem_of_cons. split.
  - intros [E | [E | Hn%features_elem]].
    + symmetry. apply libc_guard_inj, E.
    + destruct l'; discriminate.
    + apply in_bool in Hn. destruct l'; discriminate.
  - intros ->. auto.
Qed.

Lemma feature_elem l (b : bool) n :
  n ∈ ["__USE_MISC"; "__USE_GNU"] -> (n ∈ features <-> b = true) -> bool_decide (n ∈ library_names l) = b.
Proof.
  intros Hn Hb. assert (n ∈ library_names l <-> b = true) as H.
  { rewrite <- Hb. unfold library_names. rewrite !elem_of_cons. split; [|auto]. intros [-> | [-> | H]]; [..|exact H].
    - apply in_bool in Hn. destruct l; discriminate.
    - apply in_bool in Hn. discriminate. }
  destruct (bool_decide_reflect (n ∈ library_names l)) as [H'|H'], b; intuition congruence.
Qed.

Lemma misc_feature l : bool_decide ("__USE_MISC" ∈ library_names l) = misc.
Proof.
  apply feature_elem; [apply among; reflexivity|]. rewrite <- in_bool. unfold features. destruct misc, gnu; cbn; intuition congruence.
Qed.
Lemma gnu_feature l : bool_decide ("__USE_GNU" ∈ library_names l) = gnu.
Proof.
  apply feature_elem; [apply among; reflexivity|]. rewrite <- in_bool. unfold features. destruct misc, gnu; cbn; intuition congruence.
Qed.

Lemma not_library n : n ∈ ["_LIBC_COMPAT_H"; xattr_flag] ++ all_defs ++ map kernel_guard [If_h; In_h; In6_h; Ipv6_h; Xattr_h] ->
  n ∉ library_macros.
Proof. revert n. apply Forall_forall. apply (bool_decide_unpack _). vm_compute. exact I. Qed.

Lemma def_not_library u : u ∈ all_defs -> u ∉ library_macros.
Proof. intros Hu. apply not_library. rewrite !elem_of_app. auto. Qed.
Lemma guard_not_library k : kernel_guard k ∉ library_macros.
Proof. apply not_library, among. destruct k; reflexivity. Qed.

Lemma blamed_more ms l c :
  blamed_of misc (seen ms) c = true -> blamed_of misc (seen (ms ∪ flags (library_names l))) c = true.
Proof.
  unfold blamed_of. destruct (libc c); [|trivial]. rewrite flags_seen. intros [-> ->]%andb_true_iff. reflexivity.
Qed.

Lemma settled_nonzero ms c :
  settled ms -> c ∈ constructs -> nonzero ms (def c) = false -> wanted ms (def c) = false.
Proof.
  intros [H _] Hc. rewrite Forall_forall in H. unfold nonzero, wanted.
  destruct (H _ (def_known c Hc)) as [-> | ->]; trivial; discriminate.
Qed.

(** What the library declares has not been declared. *)
Definition offered (l : libc_header) (ms : gmap string body) (c : construct) : bool :=
  bool_decide (libc c = Some l) && provides misc offers c && negb (nonzero ms (def c)).

Lemma offered_declared l s c : inv s -> seen (macros s) l = false -> c ∈ constructs ->
  declared (macros s ∪ flags (library_names l)) c = declared (macros s) c || offered l (macros s) c /\
  (offered l (macros s) c = true -> declared (macros s) c = false).
Proof.
  intros I Hl Hc. unfold declared. set (ms := macros s) in *. pose proof (def_known c Hc) as Hu.
  assert (compat (ms ∪ flags (library_names l)) = compat ms) as ->
    by (apply is_defined_eq, flags_other, not_library, among; reflexivity).
  rewrite (wanted_eq (ms ∪ _) ms) by (apply flags_other, def_not_library, Hu).
  assert (included (ms ∪ flags (library_names l)) (kernel c) = included ms (kernel c)) as ->
    by (apply is_defined_eq, flags_other, guard_not_library).
  destruct (compat ms) eqn:Ec.
  - assert (offered l ms c = false) as ->; [|rewrite orb_false_r; split; [reflexivity | discriminate]].
    unfold offered. destruct (bool_decide_reflect (libc c = Some l)) as [E|]; [|reflexivity].
    destruct (inv_settled _ I Ec) as [Hs Hb]. rewrite Forall_forall in Hb. fold ms in Hs, Hb.
    destruct (nonzero ms (def c)) eqn:En; [rewrite andb_false_r; reflexivity|].
    specialize (Hb c Hc (settled_nonzero _ _ Hs Hc En)). unfold blamed_of in Hb. rewrite E, Hl in Hb. discriminate.
  - assert (nonzero ms (def c) = false) as En.
    { destruct (inv_fresh _ I Ec) as [[_ Hf] _]. rewrite Forall_forall in Hf. unfold nonzero. fold ms in Hf.
      rewrite (Hf _ Hu). reflexivity. }
    unfold offered. rewrite En, andb_true_r. destruct (libc c) as [l'|]; [|split; [reflexivity | discriminate]].
    rewrite flags_seen. destruct (decide (l = l')) as [<-|Hn].
    + rewrite Hl, !bool_decide_true by reflexivity. split; [reflexivity | reflexivity].
    + rewrite !bool_decide_false by congruence. rewrite !orb_false_r. split; [reflexivity | discriminate].
Qed.

Lemma library_inv l s : inv s -> inv (library_effect l s).
Proof.
  intros I. unfold library_effect. destruct (seen (macros s) l) eqn:Hl; [exact I|]. fold (library_names l).
  set (ms := macros s) in *.
  destruct (made_more ms (ms ∪ flags (library_names l)) (made s) (offered l ms)) as [Hm Hn].
  - apply (inv_made _ I).
  - apply (inv_nodup _ I).
  - intros c Hc. apply offered_declared; assumption.
  - intros c Hc. apply offered_declared; assumption.
  - assert (forall n, n ∈ ["_LIBC_COMPAT_H"; xattr_flag] ++ all_defs ++ map kernel_guard [If_h; In_h; In6_h; Ipv6_h; Xattr_h] ->
      (ms ∪ flags (library_names l)) !! n = ms !! n) as Ho by (intros; apply flags_other, not_library; assumption).
    assert (forall u, u ∈ all_defs -> (ms ∪ flags (library_names l)) !! u = ms !! u) as Hu
      by (intros; apply flags_other, def_not_library; assumption).
    assert (forall k, included (ms ∪ flags (library_names l)) k = included ms k) as Hk
      by (intros; apply is_defined_eq, flags_other, guard_not_library).
    assert (compat (ms ∪ flags (library_names l)) = compat ms) as Hc
      by (apply is_defined_eq, Ho, among; reflexivity).
    assert (is_defined (ms ∪ flags (library_names l)) "__GLIBC__" = true) as Hg.
    { rewrite flags_defined, bool_decide_true by (right; left). apply orb_true_r. }
    constructor; cbn [macros made].
    + apply Forall_forall. intros n Hin. rewrite lookup_union, flags_lookup.
      pose proof (inv_library _ I) as H. rewrite Forall_forall in H. fold ms in H.
      destruct (H n Hin) as [-> | ->], decide; auto.
    + rewrite Hg, !flags_seen. destruct l, (seen ms Net_if), (seen ms Netinet_in), (seen ms Sys_xattr); reflexivity.
    + rewrite Hg, flags_defined, misc_feature. unfold ms. rewrite (inv_misc _ I), orb_comm, andb_comm. apply absorption_orb.
    + rewrite Hg, flags_defined, gnu_feature. unfold ms. rewrite (inv_gnu _ I), orb_comm, andb_comm. apply absorption_orb.
    + rewrite Hc. intros Ec. destruct (inv_fresh _ I Ec) as [[H1 H2] H3]. fold ms in H1, H2, H3. split; [split|].
      * rewrite Ho by (apply among; reflexivity). exact H1.
      * rewrite Forall_forall in H2 |- *. intros u Hin. rewrite Hu by exact Hin. auto.
      * intros k. rewrite Hk. apply H3.
    + rewrite Hc. intros Ec. destruct (inv_settled _ I Ec) as [[H1 H2] H3]. fold ms in H1, H2, H3. split; [split|].
      * rewrite Forall_forall in H1 |- *. intros u Hin. rewrite Hu by exact Hin. auto.
      * rewrite !(wanted_eq (ms ∪ _) ms) by (apply Hu, among; reflexivity). exact H2.
      * rewrite Forall_forall in H3 |- *. intros c Hin. rewrite (wanted_eq (ms ∪ _) ms) by (apply Hu, def_known, Hin).
        intros Hw. apply blamed_more. auto.
    + rewrite Hk, Ho by (apply among; reflexivity). apply (inv_flag _ I).
    + exact Hm.
    + exact Hn.
Qed.

(** *** A header of the kernel *)

Definition kernel_effect (k : kernel_header) (s : state) : state :=
  if included (macros s) k then s
  else complete k
    (match k with
     | Ipv6_h => let s' := settle s in if included (macros s') In6_h then s' else complete In6_h s'
     | _ => settle s
     end).

(** The state inside the guard of a header. *)
Definition put (k : kernel_header) (s : state) : state :=
  mk_state (<[kernel_guard k := Blank]> (macros s)) (made s).

Lemma put_lookup k s n : (forall k, n <> kernel_guard k) -> macros (put k s) !! n = macros s !! n.
Proof. intros Hn. apply lookup_insert_ne. intros E. apply (Hn k). congruence. Qed.

Lemma untouched_put k s n : n ∈ untouched -> macros (put k s) !! n = macros s !! n.
Proof.
  intros Hn. apply put_lookup. pose proof untouched_names as H. rewrite Forall_forall in H. apply (H n Hn).
Qed.

(** What [libc-compat.h] needs. *)
Definition ready (s : state) : Prop :=
  Forall (fun n => macros s !! n = None \/ macros s !! n = Some Blank) library_macros /\
  (compat (macros s) = false -> fresh (macros s)).

Lemma inv_ready s : inv s -> ready s.
Proof. intros I. split; [apply (inv_library _ I) | intros Hc; apply (inv_fresh _ I Hc)]. Qed.

Lemma put_ready k s : ready s -> ready (put k s).
Proof.
  intros [Hl Hf]. split.
  - rewrite Forall_forall in Hl |- *. intros n Hn. rewrite untouched_put by (apply library_untouched, Hn). auto.
  - unfold compat. rewrite (is_defined_eq _ (macros s)) by (apply untouched_put; left). intros Hc.
    destruct (Hf Hc) as [H1 H2]. split.
    + rewrite untouched_put by left. exact H1.
    + rewrite Forall_forall in H2 |- *. intros u Hu. rewrite untouched_put by (apply def_untouched, Hu). auto.
Qed.

Lemma settle_put k s : settle (put k s) = put k (settle s).
Proof.
  unfold settle, compat. rewrite (is_defined_eq (macros (put k s)) (macros s)) by (apply untouched_put; left).
  destruct is_defined; [reflexivity|].
  assert (verdicts (macros (put k s)) = verdicts (macros s)) as ->.
  { unfold verdicts. do 2 f_equal. apply map_ext. intros u. unfold verdict.
    rewrite !(is_defined_eq (macros (put k s)) (macros s)) by (apply untouched_put, library_untouched, among; reflexivity).
    reflexivity. }
  unfold put. cbn [macros made]. f_equal. symmetry. apply insert_union_r.
  pose proof untouched_names as H. rewrite Forall_forall in H.
  unfold verdicts. rewrite list_to_map_cons, lookup_insert_ne, (list_to_map_fun (fun u => Num (verdict (macros s) u))).
  - apply decide_False. intros Hin. apply (H _ (def_untouched _ Hin)) with (k := k). reflexivity.
  - intros E. apply (H "_LIBC_COMPAT_H") with (k := k); [left | exact E].
Qed.

Lemma run_compat s rest : ready s -> run (libc_compat ++ rest) s = run rest (settle s).
Proof.
  intros [Hl Hf]. unfold run. rewrite run_app. fold run. unfold mbind, st_bind.
  rewrite (compat_runs s Hf (library_flags_of _ Hl)). reflexivity.
Qed.

Lemma put_settled k s : settled (macros s) -> settled (macros (put k s)).
Proof.
  intros [H1 H2]. split.
  - rewrite Forall_forall in H1 |- *. intros u Hu. rewrite untouched_put by (apply def_untouched, Hu). auto.
  - rewrite !(wanted_eq (macros (put k s)) (macros s)) by (apply untouched_put, def_untouched, among; reflexivity). exact H2.
Qed.

Lemma after_put k k' s : after k (macros (put k' s)) = <[kernel_guard k' := Blank]> (after k (macros s)).
Proof.
  destruct k; [reflexivity..|]. unfold after.
  rewrite (wanted_eq (macros (put k' s)) (macros s)) by (apply untouched_put, def_untouched, among; reflexivity).
  destruct wanted; [|reflexivity]. cbn [put macros]. apply insert_insert_ne. destruct k'; discriminate.
Qed.

Lemma emitted_put k k' s : emitted k (macros (put k' s)) = emitted k (macros s).
Proof.
  apply (f_equal (map decl)), filter_ext_in. intros c Hc%list_elem_of_In. apply (f_equal (andb _)).
  apply wanted_eq, untouched_put, def_untouched, def_known, Hc.
Qed.

(** The declarations of a header of which the guard is defined. *)
Lemma decls_put k s : inv s -> compat (macros s) = true -> included (macros s) k = false ->
  run (decls k) (put k s) = Some (tt, complete k s).
Proof.
  intros I Hc Hk. destruct (inv_settled _ I Hc) as [Hs _]. rewrite decls_run.
  - rewrite after_put, emitted_put. reflexivity.
  - apply put_settled, Hs.
  - intros ->. rewrite put_lookup by (intros []; discriminate). apply (inv_flag _ I Hk).
Qed.

Lemma settle_compat s : compat (macros (settle s)) = true.
Proof.
  unfold settle. destruct (compat (macros s)) eqn:Hc; [exact Hc|]. cbn [macros]. unfold compat, is_defined.
  rewrite settle_lookup, decide_True by reflexivity. reflexivity.
Qed.

Lemma settle_included s k : included (macros (settle s)) k = included (macros s) k.
Proof.
  unfold settle. destruct (compat (macros s)); [reflexivity|]. apply is_defined_eq, settle_stable, guard_stable.
Qed.

Lemma included_put k k' s : k <> k' -> included (macros (put k' s)) k = included (macros s) k.
Proof.
  intros Hn. apply is_defined_eq. cbn. apply lookup_insert_ne. intros E%kernel_guard_inj. congruence.
Qed.

Lemma settle_id s : compat (macros s) = true -> settle s = s.
Proof. unfold settle. intros ->. reflexivity. Qed.

Lemma put_compat k s : compat (macros (put k s)) = compat (macros s).
Proof. apply is_defined_eq, untouched_put. left. Qed.

(** [in6.h] inside [ipv6.h] *)
Lemma in6_inside s : inv s -> compat (macros s) = true ->
  run in6_h (put Ipv6_h s) = Some (tt, put Ipv6_h (if included (macros s) In6_h then s else complete In6_h s)).
Proof.
  intros I Hc. unfold in6_h. pose proof (included_put In6_h Ipv6_h s ltac:(discriminate)) as Hi.
  destruct (included (macros s) In6_h) eqn:Hk; [apply guarded_skip, Hi|].
  rewrite (guarded_enter _ _ _ Hi). change (mk_state _ _) with (put In6_h (put Ipv6_h s)).
  rewrite run_compat by apply put_ready, put_ready, inv_ready, I.
  rewrite !settle_put, (settle_id s Hc).
  assert (put In6_h (put Ipv6_h s) = put Ipv6_h (put In6_h s)) as ->.
  { unfold put. cbn. f_equal. apply insert_insert_ne. discriminate. }
  destruct (inv_settled _ I Hc) as [Hs _].
  change in6_decls with (decls In6_h). rewrite decls_run; [| apply put_settled, put_settled, Hs | discriminate].
  rewrite emitted_put, emitted_put. reflexivity.
Qed.

Lemma kernel_runs k s : inv s -> run (text k) s = Some (tt, kernel_effect k s).
Proof.
  intros I. unfold kernel_effect. pose proof (settle_inv s I) as Is. pose proof (settle_compat s) as Cs.
  pose proof (settle_included s k) as Ei. destruct (included (macros s) k) eqn:Hk.
  { destruct k; [apply guarded_skip, Hk..|]. cbn [text]. unfold xattr_h. rewrite run_compat by apply inv_ready, I.
    rewrite settle_id; [apply guarded_skip, Hk|]. destruct (compat (macros s)) eqn:Hc; [reflexivity|].
    destruct (inv_fresh _ I Hc) as [_ H]. rewrite H in Hk. discriminate. }
  assert (forall g ls, kernel_guard k = g -> run (guarded g (libc_compat ++ ls)) s = run ls (put k (settle s))) as He.
  { intros g ls <-. rewrite guarded_enter by exact Hk. change (mk_state _ _) with (put k s).
    rewrite run_compat by apply put_ready, inv_ready, I. rewrite settle_put. reflexivity. }
  destruct k; cbn [text].
  - unfold if_h. rewrite He by reflexivity. apply (decls_put If_h); assumption.
  - unfold in_h. rewrite He by reflexivity. apply (decls_put In_h); assumption.
  - unfold in6_h. rewrite He by reflexivity. apply (decls_put In6_h); assumption.
  - unfold ipv6_h. rewrite He by reflexivity. unfold run. rewrite run_app. fold run. unfold mbind, st_bind.
    rewrite in6_inside by assumption. cbv zeta. destruct (included (macros (settle s)) In6_h) eqn:H6.
    + apply (decls_put Ipv6_h); assumption.
    + apply (decls_put Ipv6_h).
      * apply complete_inv; assumption.
      * etransitivity; [apply is_defined_eq, complete_untouched; left | exact Cs].
      * rewrite complete_included, bool_decide_false by discriminate. exact Ei.
  - unfold xattr_h. rewrite run_compat by apply inv_ready, I. rewrite guarded_enter by exact Ei.
    apply (decls_put Xattr_h); assumption.
Qed.

Lemma complete_compat k s : compat (macros s) = true -> compat (macros (complete k s)) = true.
Proof. intros H. etransitivity; [apply is_defined_eq, complete_untouched; left | exact H]. Qed.

Lemma kernel_inv k s : inv s -> inv (kernel_effect k s).
Proof.
  intros I. unfold kernel_effect. destruct (included (macros s) k) eqn:Hk; [exact I|].
  pose proof (settle_inv s I) as Is. pose proof (settle_compat s) as Cs. pose proof (settle_included s k) as Ei.
  rewrite Hk in Ei. destruct k; try (apply complete_inv; assumption).
  cbv zeta. destruct (included (macros (settle s)) In6_h) eqn:H6; [apply complete_inv; assumption|].
  apply complete_inv; [apply complete_inv; assumption | apply complete_compat, Cs |].
  rewrite complete_included, bool_decide_false by discriminate. exact Ei.
Qed.

(** *** A list of includes *)

Definition effect (h : header) : state -> state :=
  match h with Kernel k => kernel_effect k | Libc l => library_effect l end.

Lemma effect_inv h s : inv s -> inv (effect h s).
Proof. destruct h; [apply kernel_inv | apply library_inv]. Qed.

Lemma includes_run hs s : inv s -> includes hs s = Some (tt, foldl (fun s h => effect h s) s hs) /\
  inv (foldl (fun s h => effect h s) s hs).
Proof.
  revert s. induction hs as [|h hs IH]; intros s I; [auto|]. cbn [includes foldr foldl].
  assert (include h s = Some (tt, effect h s)) as E by (destruct h; [apply kernel_runs, I | apply library_follows]).
  unfold mbind, st_bind. rewrite E. apply (IH _ (effect_inv h s I)).
Qed.

Lemma effect_keeps h s k : included (macros s) k = true -> included (macros (effect h s)) k = true.
Proof.
  intros Hk. destruct h as [k'|l]; cbn [effect].
  - unfold kernel_effect. destruct (included (macros s) k'); [exact Hk|]. rewrite complete_included.
    assert (included (macros (settle s)) k = true) as Hs by (rewrite settle_included; exact Hk).
    apply orb_true_iff. right. destruct k'; try exact Hs. cbv zeta.
    destruct (included (macros (settle s)) In6_h); [exact Hs|]. rewrite complete_included, Hs. apply orb_true_r.
  - unfold library_effect. destruct seen; [exact Hk|]. cbn [macros]. fold (library_names l).
    unfold included. rewrite flags_defined. apply orb_true_iff. left. exact Hk.
Qed.

Lemma effect_includes k s : included (macros (effect (Kernel k) s)) k = true.
Proof.
  cbn [effect]. unfold kernel_effect. destruct (included (macros s) k) eqn:Hk; [exact Hk|].
  rewrite complete_included, bool_decide_true by reflexivity. reflexivity.
Qed.

Lemma includes_included hs s k :
  Kernel k ∈ hs \/ included (macros s) k = true -> included (macros (foldl (fun s h => effect h s) s hs)) k = true.
Proof.
  revert s. induction hs as [|h hs IH]; intros s; cbn [foldl].
  - intros [[]%elem_of_nil | H]; exact H.
  - rewrite elem_of_cons. intros [[<- | H] | H]; apply IH; [right; apply effect_includes | auto | right; apply effect_keeps, H].
Qed.

(** *** Who declares what *)

(** The headers of the library before the first one of the kernel. *)
Fixpoint before_kernel (hs : list header) : list libc_header :=
  match hs with Libc l :: hs => l :: before_kernel hs | _ => [] end.

Lemma blamed_ext f g c : (forall l, f l = g l) -> blamed_of misc f c = blamed_of misc g c.
Proof. intros E. unfold blamed_of. destruct (libc c); [rewrite E|]; reflexivity. Qed.

(** The verdicts stay what they are. *)
Lemma effect_wanted h s u : compat (macros s) = true -> u ∈ all_defs ->
  compat (macros (effect h s)) = true /\ wanted (macros (effect h s)) u = wanted (macros s) u.
Proof.
  intros Hc Hu. destruct h as [k|l]; cbn [effect].
  - assert (forall k s, compat (macros s) = true -> compat (macros (complete k s)) = true /\
      wanted (macros (complete k s)) u = wanted (macros s) u) as Hk.
    { intros k' s' H. split; [apply complete_compat, H|]. apply wanted_eq, complete_untouched, def_untouched, Hu. }
    unfold kernel_effect. rewrite settle_id by exact Hc. destruct (included (macros s) k); [auto|].
    destruct k; try (apply Hk; exact Hc). cbv zeta. destruct (included (macros s) In6_h); [apply Hk; exact Hc|].
    destruct (Hk In6_h s Hc) as [Hc' <-]. apply Hk, Hc'.
  - unfold library_effect. destruct (seen (macros s) l); [auto|]. cbn [macros]. fold (library_names l). split.
    + etransitivity; [apply is_defined_eq, flags_other, not_library, among; reflexivity | exact Hc].
    + apply wanted_eq, flags_other, def_not_library, Hu.
Qed.

Lemma includes_wanted hs s u : compat (macros s) = true -> u ∈ all_defs ->
  wanted (macros (foldl (fun s h => effect h s) s hs)) u = wanted (macros s) u.
Proof.
  revert s. induction hs as [|h hs IH]; intros s Hc Hu; cbn [foldl]; [reflexivity|].
  destruct (effect_wanted h s u Hc Hu) as [Hc' <-]. apply IH; assumption.
Qed.

(** The first header of the kernel fixes the verdicts. *)
Lemma first_kernel k s c : inv s -> compat (macros s) = false -> c ∈ constructs ->
  compat (macros (effect (Kernel k) s)) = true /\
  wanted (macros (effect (Kernel k) s)) (def c) = negb (blamed_of misc (seen (macros s)) c).
Proof.
  intros I Hc Hin. pose proof (def_known c Hin) as Hu. destruct (inv_fresh _ I Hc) as [_ Hk].
  assert (effect (Kernel k) s = effect (Kernel k) (settle s)) as ->.
  { cbn [effect]. unfold kernel_effect. rewrite settle_included, Hk, (settle_id (settle s)) by apply settle_compat.
    cbv zeta. rewrite !settle_included, !Hk. reflexivity. }
  destruct (effect_wanted (Kernel k) (settle s) (def c) (settle_compat s) Hu) as [H ->]. split; [exact H|].
  unfold settle. rewrite Hc. cbn [macros]. rewrite settle_wanted by exact Hu.
  pose proof (verdicts_agree misc gnu (seen (macros s)) c Hin) as Ha. apply eqb_prop in Ha. rewrite <- Ha.
  rewrite (verdict_inv s _ I). reflexivity.
Qed.

Lemma library_seen l l' s : seen (macros (effect (Libc l) s)) l' = seen (macros s) l' || bool_decide (l = l').
Proof.
  cbn [effect]. unfold library_effect. destruct (seen (macros s) l) eqn:Hl.
  - destruct (decide (l = l')) as [<-|]; [rewrite Hl; reflexivity|]. rewrite bool_decide_false by assumption.
    rewrite orb_false_r. reflexivity.
  - cbn [macros]. fold (library_names l). apply flags_seen.
Qed.

Lemma library_compat l s : compat (macros (effect (Libc l) s)) = compat (macros s).
Proof.
  cbn [effect]. unfold library_effect. destruct (seen (macros s) l); [reflexivity|].
  apply is_defined_eq, flags_other, not_library, among. reflexivity.
Qed.

Lemma wanted_after hs s c : inv s -> compat (macros s) = false -> c ∈ constructs -> (exists k, Kernel k ∈ hs) ->
  wanted (macros (foldl (fun s h => effect h s) s hs)) (def c) =
  negb (blamed_of misc (fun l => seen (macros s) l || bool_decide (l ∈ before_kernel hs)) c).
Proof.
  revert s. induction hs as [|[k|l] hs IH]; intros s I Hc Hin [k' Hk]; cbn [foldl before_kernel].
  - apply elem_of_nil in Hk as [].
  - destruct (first_kernel k s c I Hc Hin) as [Hc' E]. rewrite includes_wanted by (try apply def_known; assumption).
    rewrite E. f_equal. apply blamed_ext. intros l. rewrite bool_decide_false by apply not_elem_of_nil.
    symmetry. apply orb_false_r.
  - rewrite IH; [|apply effect_inv, I|rewrite library_compat; exact Hc|exact Hin|].
    + f_equal. apply blamed_ext. intros l'. rewrite library_seen, <- orb_assoc. f_equal.
      rewrite <- bool_decide_or. apply bool_decide_ext. rewrite elem_of_cons. intuition congruence.
    + exists k'. apply elem_of_cons in Hk as [|]; [discriminate|assumption].
Qed.

Lemma blamed_provides seen c : blamed_of misc seen c = true -> provides misc offers c = offers c.
Proof.
  unfold blamed_of, provides. destruct (libc c) as [[]|]; [|reflexivity..|discriminate].
  intros [_ ->]%andb_true_iff. reflexivity.
Qed.

Lemma inv_declared s c : inv s -> c ∈ constructs -> included (macros s) (kernel c) = true ->
  decl c ∈ made s <-> (wanted (macros s) (def c) = false -> provides misc offers c = true).
Proof.
  intros I Hc Hk. pose proof (inv_made _ I) as Hm. rewrite Forall_forall in Hm. rewrite (Hm c Hc).
  assert (compat (macros s) = true) as Ec.
  { destruct (compat (macros s)) eqn:Ec; [reflexivity|]. destruct (inv_fresh _ I Ec) as [_ H].
    rewrite H in Hk. discriminate. }
  unfold declared. rewrite Ec, Hk. destruct (wanted (macros s) (def c)); intuition discriminate.
Qed.

(** Before the first include. *)
Definition unwatched (ms : gmap string body) : Prop := Forall (fun n => ms !! n = None) watched.

Lemma start_inv ms : unwatched ms -> inv (mk_state ms []).
Proof.
  unfold unwatched. rewrite Forall_forall. intros H.
  assert (forall n, n ∈ watched -> is_defined ms n = false) as Hd
    by (intros n Hn; unfold is_defined; rewrite (H n Hn); reflexivity).
  assert (forall l, seen ms l = false) as Hl by (intros l; apply Hd, elem_of_app; left; apply libc_guards_watched).
  assert (forall u, u ∈ all_defs -> u ∈ watched) as Hu by (intros; unfold watched; rewrite !elem_of_app; auto).
  assert (forall k, included ms k = false) as Hk by (intros; apply Hd, guards_watched).
  assert (compat ms = false) as Hc by (apply Hd, among; reflexivity).
  constructor; cbn [macros made].
  - apply Forall_forall. intros n Hn. left. apply H, elem_of_app. auto.
  - rewrite !Hl. apply Hd, among. reflexivity.
  - rewrite !Hd by (apply among; reflexivity). reflexivity.
  - rewrite !Hd by (apply among; reflexivity). reflexivity.
  - intros _. split; [split|exact Hk].
    + apply H, among. reflexivity.
    + apply Forall_forall. auto.
  - congruence.
  - intros _. apply H, among. reflexivity.
  - apply Forall_forall. intros c _. unfold declared. rewrite Hc. split; [intros []%elem_of_nil|].
    destruct (libc c); [rewrite Hl|]; discriminate.
  - constructor.
Qed.

Lemma start_seen ms l : unwatched ms -> seen ms l = false.
Proof.
  unfold unwatched. rewrite Forall_forall. intros H. unfold seen, is_defined. rewrite H; [reflexivity|].
  apply elem_of_app. left. apply libc_guards_watched.
Qed.

Lemma start_compat ms : unwatched ms -> compat ms = false.
Proof.
  unfold unwatched. rewrite Forall_forall. intros H. unfold compat, is_defined. rewrite H; [reflexivity|].
  apply among. reflexivity.
Qed.
End includes.

(** ** Every declaration, once *)

(** The declarations left to the library, by its headers before the first of the
    kernel: those of [netinet/in.h] and [sys/xattr.h], and with [__USE_MISC] those of
    [net/if.h]. *)
Definition left_to_library (misc : bool) (hs : list header) : construct -> bool :=
  blamed_of misc (fun l => bool_decide (l ∈ before_kernel hs)).

(** C35. Whatever headers of the kernel and of the C library a program includes, in
    whatever order and however often, and whatever declarations the library's headers
    have under the features it asks for, if they follow the rule that [libc-compat.h]
    states: no macro is defined twice with different bodies, and nothing is declared
    twice. A declaration of a header of the kernel that was included is made, by that
    header or by the library's, exactly unless [libc-compat.h] left it to a header of the
    library, included before any of the kernel, that does not have it: the header does
    not ask for the features under which a library has a declaration. *)
Theorem includes_declare (misc gnu : bool) (offers : construct -> bool) (library : libc_header -> ST state unit)
    (hs : list header) (ms : gmap string body) :
  (forall l s, library l s = Some (tt, library_effect misc gnu offers l s)) -> unwatched ms ->
  exists t, includes library hs (mk_state ms []) = Some (tt, t) /\ NoDup (made t) /\
    forall c, c ∈ constructs -> Kernel (kernel c) ∈ hs ->
      decl c ∈ made t <-> (left_to_library misc hs c = true -> offers c = true).
Proof.
  intros Hl Hms. pose proof (start_inv misc gnu offers ms Hms) as I0.
  destruct (includes_run misc gnu offers library Hl hs _ I0) as [E I].
  eexists. split; [exact E|]. split; [apply (inv_nodup _ _ _ _ I)|]. intros c Hc Hk.
  rewrite (inv_declared _ _ _ _ _ I Hc) by (apply includes_included; auto).
  rewrite (wanted_after misc gnu offers hs _ c I0) by
    (try exact Hc; try (exists (kernel c); exact Hk); apply start_compat, Hms).
  rewrite negb_false_iff. fold (left_to_library misc hs c).
  assert (left_to_library misc hs c = blamed_of misc (fun l => seen ms l || bool_decide (l ∈ before_kernel hs)) c) as ->.
  { apply blamed_ext. intros l. rewrite start_seen by exact Hms. reflexivity. }
  split; intros H Hb; specialize (H Hb); rewrite (blamed_provides _ _ _ _ Hb) in *; exact H.
Qed.

(** A library whose headers have some of the declarations only under a feature. *)
Definition offers_like_glibc (misc gnu : bool) (c : construct) : bool :=
  if bool_decide (decl c ∈ ["struct in6_pktinfo"; "struct ip6_mtuinfo"]) then gnu
  else if bool_decide (decl c ∈ ["struct ip_mreq"; "struct in_pktinfo"; "#define s6_addr16"]) then misc
  else true.
Definition glibc (misc gnu : bool) (l : libc_header) : ST state unit :=
  fun s => Some (tt, library_effect misc gnu (offers_like_glibc misc gnu) l s).

Definition in6_pktinfo : construct := mk_construct "__UAPI_DEF_IN6_PKTINFO" "struct in6_pktinfo" Ipv6_h (Some Netinet_in).
Definition ifreq : construct := mk_construct "__UAPI_DEF_IF_IFREQ" "struct ifreq" If_h (Some Net_if).

(** With [__USE_MISC] alone: [ifreq] is declared, by the kernel's header, and
    [in6_pktinfo] by nobody, although a header of the kernel that has it was included. *)
Lemma includes_declare_witness : exists t,
  includes (glibc true false) [Libc Netinet_in; Kernel Ipv6_h; Kernel If_h; Libc Net_if; Kernel In_h] (mk_state ∅ [])
    = Some (tt, t) /\
  NoDup (made t) /\ "struct ifreq" ∈ made t /\ ~ "struct in6_pktinfo" ∈ made t.
Proof.
  destruct (includes_declare true false (offers_like_glibc true false) (glibc true false)
    [Libc Netinet_in; Kernel Ipv6_h; Kernel If_h; Libc Net_if; Kernel In_h] ∅) as (t & E & Hn & Hd).
  - reflexivity.
  - apply Forall_forall. intros. apply lookup_empty.
  - exists t. split; [exact E|]. split; [exact Hn|]. split.
    + apply (Hd ifreq); [apply list_elem_of_In; cbn; tauto|right; right; left|vm_compute; congruence].
    + intros H. apply (Hd in6_pktinfo) in H;
        [vm_compute in H; discriminate|apply list_elem_of_In; cbn; tauto|right; left|vm_compute; reflexivity].
Defined.

(** *** Where the rule does not give what the comment says *)

(** A header of the kernel that has nothing to do with [netinet/in.h] keeps it from
    declaring [in_addr], and the kernel's [in.h] is not there to do it. *)
Example xattr_hides_in_addr :
  match includes (glibc true true) [Kernel Xattr_h; Libc Netinet_in] (mk_state ∅ []) with
  | Some (_, t) => existsb (String.eqb "struct in_addr") (made t)
  | None => true
  end = false.
Proof. vm_compute. reflexivity. Qed.

(** Without the features, nobody defines the additional members of [in6_addr], although
    the macro for them is 1. *)
Example alt_members_undeclared :
  match includes (glibc false false) [Libc Netinet_in; Kernel In6_h] (mk_state ∅ []) with
  | Some (_, t) => wanted (macros t) in6_alt && negb (existsb (String.eqb "#define s6_addr16") (made t))
  | None => false
  end = true.
Proof. vm_compute. reflexivity. Qed.
