(* ===== verification/Syscalls.v ===== *)
(** * The system call table

    [kernel-headers/asm-generic/unistd.h] is a program for the preprocessor: from the
    word size and the macros of an architecture it makes the number of every system
    call, and, where [__SYSCALL] is defined, the table of the kernel. Here is that
    program, line by line, and what it makes for all architectures. *)
From stdpp Require Import gmap.
From S2P Require Import Prelude.
From S2P Require Import Cpp.
#[local] Open Scope string_scope.
#[local] Open Scope list_scope.
#[local] Open Scope Z_scope.

(** ** The lines of the header *)

Inductive call : Type :=
| Call (nr y : string)                   (* __SYSCALL *)
| Call_3264 (nr y32 y64 : string)        (* __SC_3264 *)
| Call_comp (nr sys comp : string)       (* __SC_COMP *)
| Call_comp_3264 (nr y32 y64 comp : string).

#[local] Notation Syscall nr y := (Emit (Call nr y)).
#[local] Notation Sc_3264 nr y32 y64 := (Emit (Call_3264 nr y32 y64)).
#[local] Notation Sc_comp nr sys comp := (Emit (Call_comp nr sys comp)).
#[local] Notation Sc_comp_3264 nr y32 y64 comp := (Emit (Call_comp_3264 nr y32 y64 comp)).
#[local] Notation line := (line call).

(** The uses of [__SYSCALL] so far: number and function. *)
#[local] Notation state := (state (Z * string)).
#[local] Notation table := (@made (Z * string)).

Definition __SYSCALL (nr y : string) : ST state unit :=
  s ← st_get; z ← st_lift (value (macros s) nr);
  st_modify (fun s => mk_state (macros s) (table s ++ [(z, y)])).

Section macros.
Context (__BITS_PER_LONG : Z).

Definition __SC_3264 (nr y32 y64 : string) : ST state unit :=
  test __BITS_PER_LONG (Either (Bits 32) (Defined "__SYSCALL_COMPAT")) (__SYSCALL nr y32) (__SYSCALL nr y64).

Definition __SC_COMP (nr sys comp : string) : ST state unit :=
  test __BITS_PER_LONG (Defined "__SYSCALL_COMPAT") (__SYSCALL nr comp) (__SYSCALL nr sys).

Definition __SC_COMP_3264 (nr y32 y64 comp : string) : ST state unit :=
  test __BITS_PER_LONG (Defined "__SYSCALL_COMPAT") (__SYSCALL nr comp) (__SC_3264 nr y32 y64).

Definition emit_call (c : call) : ST state unit :=
  match c with
  | Call nr y => __SYSCALL nr y
  | Call_3264 nr y32 y64 => __SC_3264 nr y32 y64
  | Call_comp nr sys comp => __SC_COMP nr sys comp
  | Call_comp_3264 nr y32 y64 comp => __SC_COMP_3264 nr y32 y64 comp
  end.
End macros.

Definition run_lines (bits : Z) (ls : list line) : ST state unit := Cpp.run_lines bits (emit_call bits) ls.

(** ** The header *)

Definition unistd_1 : list line := [
  Define "__NR_io_setup" (Num 0); Sc_comp "__NR_io_setup" "sys_io_setup" "compat_sys_io_setup";
  Define "__NR_io_destroy" (Num 1); Syscall "__NR_io_destroy" "sys_io_destroy";
  Define "__NR_io_submit" (Num 2);
  Sc_comp "__NR_io_submit" "sys_io_submit" "compat_sys_io_submit";
  Define "__NR_io_cancel" (Num 3); Syscall "__NR_io_cancel" "sys_io_cancel";
  Define "__NR_io_getevents" (Num 4);
  Sc_comp "__NR_io_getevents" "sys_io_getevents" "compat_sys_io_getevents";
  Define "__NR_setxattr" (Num 5); Syscall "__NR_setxattr" "sys_setxattr";
  Define "__NR_lsetxattr" (Num 6); Syscall "__NR_lsetxattr" "sys_lsetxattr";
  Define "__NR_fsetxattr" (Num 7); Syscall "__NR_fsetxattr" "sys_fsetxattr";
  Define "__NR_getxattr" (Num 8); Syscall "__NR_getxattr" "sys_getxattr";
  Define "__NR_lgetxattr" (Num 9); Syscall "__NR_lgetxattr" "sys_lgetxattr";
  Define "__NR_fgetxattr" (Num 10); Syscall "__NR_fgetxattr" "sys_fgetxattr";
  Define "__NR_listxattr" (Num 11); Syscall "__NR_listxattr" "sys_listxattr";
  Define "__NR_llistxattr" (Num 12); Syscall "__NR_llistxattr" "sys_llistxattr";
  Define "__NR_flistxattr" (Num 13); Syscall "__NR_flistxattr" "sys_flistxattr";
  Define "__NR_removexattr" (Num 14); Syscall "__NR_removexattr" "sys_removexattr";
  Define "__NR_lremovexattr" (Num 15); Syscall "__NR_lremovexattr" "sys_lremovexattr";
  Define "__NR_fremovexattr" (Num 16); Syscall "__NR_fremovexattr" "sys_fremovexattr";
  Define "__NR_getcwd" (Num 17); Syscall "__NR_getcwd" "sys_getcwd";
  Define "__NR_lookup_dcookie" (Num 18);
  Sc_comp "__NR_lookup_dcookie" "sys_lookup_dcookie" "compat_sys_lookup_dcookie";
  Define "__NR_eventfd2" (Num 19); Syscall "__NR_eventfd2" "sys_eventfd2";
  Define "__NR_epoll_create1" (Num 20); Syscall "__NR_epoll_create1" "sys_epoll_create1";
  Define "__NR_epoll_ctl" (Num 21); Syscall "__NR_epoll_ctl" "sys_epoll_ctl";
  Define "__NR_epoll_pwait" (Num 22);
  Sc_comp "__NR_epoll_pwait" "sys_epoll_pwait" "compat_sys_epoll_pwait";
  Define "__NR_dup" (Num 23); Syscall "__NR_dup" "sys_dup"; Define "__NR_dup3" (Num 24);
  Syscall "__NR_dup3" "sys_dup3"; Define "__NR3264_fcntl" (Num 25);
  Sc_comp_3264 "__NR3264_fcntl" "sys_fcntl64" "sys_fcntl" "compat_sys_fcntl64";
  Define "__NR_inotify_init1" (Num 26); Syscall "__NR_inotify_init1" "sys_inotify_init1";
  Define "__NR_inotify_add_watch" (Num 27);
  Syscall "__NR_inotify_add_watch" "sys_inotify_add_watch";
  Define "__NR_inotify_rm_watch" (Num 28);
  Syscall "__NR_inotify_rm_watch" "sys_inotify_rm_watch"; Define "__NR_ioctl" (Num 29);
  Sc_comp "__NR_ioctl" "sys_ioctl" "compat_sys_ioctl"; Define "__NR_ioprio_set" (Num 30);
  Syscall "__NR_ioprio_set" "sys_ioprio_set"; Define "__NR_ioprio_get" (Num 31);
  Syscall "__NR_ioprio_get" "sys_ioprio_get"; Define "__NR_flock" (Num 32);
  Syscall "__NR_flock" "sys_flock"; Define "__NR_mknodat" (Num 33);
  Syscall "__NR_mknodat" "sys_mknodat"; Define "__NR_mkdirat" (Num 34);
  Syscall "__NR_mkdirat" "sys_mkdirat"; Define "__NR_unlinkat" (Num 35);
  Syscall "__NR_unlinkat" "sys_unlinkat"; Define "__NR_symlinkat" (Num 36);
  Syscall "__NR_symlinkat" "sys_symlinkat"; Define "__NR_linkat" (Num 37);
  Syscall "__NR_linkat" "sys_linkat"; Define "__NR_renameat" (Num 38);
  Syscall "__NR_renameat" "sys_renameat"; Define "__NR_umount2" (Num 39);
  Syscall "__NR_umount2" "sys_umount"; Define "__NR_mount" (Num 40);
  Sc_comp "__NR_mount" "sys_mount" "compat_sys_mount"; Define "__NR_pivot_root" (Num 41);
  Syscall "__NR_pivot_root" "sys_pivot_root"; Define "__NR_nfsservctl" (Num 42);
  Syscall "__NR_nfsservctl" "sys_ni_syscall"; Define "__NR3264_statfs" (Num 43);
  Sc_comp_3264 "__NR3264_statfs" "sys_statfs64" "sys_statfs" "compat_sys_statfs64";
  Define "__NR3264_fstatfs" (Num 44);
  Sc_comp_3264 "__NR3264_fstatfs" "sys_fstatfs64" "sys_fstatfs" "compat_sys_fstatfs64";
  Define "__NR3264_truncate" (Num 45);
  Sc_comp_3264 "__NR3264_truncate" "sys_truncate64" "sys_truncate" "compat_sys_truncate64";
  Define "__NR3264_ftruncate" (Num 46);
  Sc_comp_3264 "__NR3264_ftruncate" "sys_ftruncate64" "sys_ftruncate" "compat_sys_ftruncate64";
  Define "__NR_fallocate" (Num 47);
  Sc_comp "__NR_fallocate" "sys_fallocate" "compat_sys_fallocate";
  Define "__NR_faccessat" (Num 48); Syscall "__NR_faccessat" "sys_faccessat";
  Define "__NR_chdir" (Num 49); Syscall "__NR_chdir" "sys_chdir"; Define "__NR_fchdir" (Num 50);
  Syscall "__NR_fchdir" "sys_fchdir"; Define "__NR_chroot" (Num 51);
  Syscall "__NR_chroot" "sys_chroot"; Define "__NR_fchmod" (Num 52);
  Syscall "__NR_fchmod" "sys_fchmod"; Define "__NR_fchmodat" (Num 53);
  Syscall "__NR_fchmodat" "sys_fchmodat"; Define "__NR_fchownat" (Num 54);
  Syscall "__NR_fchownat" "sys_fchownat"; Define "__NR_fchown" (Num 55);
  Syscall "__NR_fchown" "sys_fchown"; Define "__NR_openat" (Num 56);
  Sc_comp "__NR_openat" "sys_openat" "compat_sys_openat"; Define "__NR_close" (Num 57)].

Definition unistd_2 : list line := [
  Syscall "__NR_close" "sys_close"; Define "__NR_vhangup" (Num 58);
  Syscall "__NR_vhangup" "sys_vhangup"; Define "__NR_pipe2" (Num 59);
  Syscall "__NR_pipe2" "sys_pipe2"; Define "__NR_quotactl" (Num 60);
  Syscall "__NR_quotactl" "sys_quotactl"; Define "__NR_getdents64" (Num 61);
  Flag "__ARCH_WANT_COMPAT_SYS_GETDENTS64";
  Sc_comp "__NR_getdents64" "sys_getdents64" "compat_sys_getdents64";
  Define "__NR3264_lseek" (Num 62); Sc_3264 "__NR3264_lseek" "sys_llseek" "sys_lseek";
  Define "__NR_read" (Num 63); Syscall "__NR_read" "sys_read"; Define "__NR_write" (Num 64);
  Syscall "__NR_write" "sys_write"; Define "__NR_readv" (Num 65);
  Sc_comp "__NR_readv" "sys_readv" "compat_sys_readv"; Define "__NR_writev" (Num 66);
  Sc_comp "__NR_writev" "sys_writev" "compat_sys_writev"; Define "__NR_pread64" (Num 67);
  Sc_comp "__NR_pread64" "sys_pread64" "compat_sys_pread64"; Define "__NR_pwrite64" (Num 68);
  Sc_comp "__NR_pwrite64" "sys_pwrite64" "compat_sys_pwrite64"; Define "__NR_preadv" (Num 69);
  Sc_comp "__NR_preadv" "sys_preadv" "compat_sys_preadv"; Define "__NR_pwritev" (Num 70);
  Sc_comp "__NR_pwritev" "sys_pwritev" "compat_sys_pwritev"; Define "__NR3264_sendfile" (Num 71);
  Syscall "__NR3264_sendfile" "sys_sendfile64"; Define "__NR_pselect6" (Num 72);
  Sc_comp "__NR_pselect6" "sys_pselect6" "compat_sys_pselect6"; Define "__NR_ppoll" (Num 73);
  Sc_comp "__NR_ppoll" "sys_ppoll" "compat_sys_ppoll"; Define "__NR_signalfd4" (Num 74);
  Sc_comp "__NR_signalfd4" "sys_signalfd4" "compat_sys_signalfd4";
  Define "__NR_vmsplice" (Num 75); Sc_comp "__NR_vmsplice" "sys_vmsplice" "compat_sys_vmsplice";
  Define "__NR_splice" (Num 76); Syscall "__NR_splice" "sys_splice"; Define "__NR_tee" (Num 77);
  Syscall "__NR_tee" "sys_tee"; Define "__NR_readlinkat" (Num 78);
  Syscall "__NR_readlinkat" "sys_readlinkat"; Define "__NR3264_fstatat" (Num 79);
  Sc_3264 "__NR3264_fstatat" "sys_fstatat64" "sys_newfstatat"; Define "__NR3264_fstat" (Num 80);
  Sc_3264 "__NR3264_fstat" "sys_fstat64" "sys_newfstat"; Define "__NR_sync" (Num 81);
  Syscall "__NR_sync" "sys_sync"; Define "__NR_fsync" (Num 82); Syscall "__NR_fsync" "sys_fsync";
  Define "__NR_fdatasync" (Num 83); Syscall "__NR_fdatasync" "sys_fdatasync";
  If (Defined "__ARCH_WANT_SYNC_FILE_RANGE2") [
    Define "__NR_sync_file_range2" (Num 84);
    Sc_comp "__NR_sync_file_range2" "sys_sync_file_range2" "compat_sys_sync_file_range2"] [
    Define "__NR_sync_file_range" (Num 84);
    Sc_comp "__NR_sync_file_range" "sys_sync_file_range" "compat_sys_sync_file_range"];
  Define "__NR_timerfd_create" (Num 85); Syscall "__NR_timerfd_create" "sys_timerfd_create";
  Define "__NR_timerfd_settime" (Num 86);
  Sc_comp "__NR_timerfd_settime" "sys_timerfd_settime" "compat_sys_timerfd_settime";
  Define "__NR_timerfd_gettime" (Num 87);
  Sc_comp "__NR_timerfd_gettime" "sys_timerfd_gettime" "compat_sys_timerfd_gettime";
  Define "__NR_utimensat" (Num 88);
  Sc_comp "__NR_utimensat" "sys_utimensat" "compat_sys_utimensat"; Define "__NR_acct" (Num 89);
  Syscall "__NR_acct" "sys_acct"; Define "__NR_capget" (Num 90);
  Syscall "__NR_capget" "sys_capget"; Define "__NR_capset" (Num 91);
  Syscall "__NR_capset" "sys_capset"; Define "__NR_personality" (Num 92);
  Syscall "__NR_personality" "sys_personality"; Define "__NR_exit" (Num 93);
  Syscall "__NR_exit" "sys_exit"; Define "__NR_exit_group" (Num 94);
  Syscall "__NR_exit_group" "sys_exit_group"; Define "__NR_waitid" (Num 95);
  Sc_comp "__NR_waitid" "sys_waitid" "compat_sys_waitid"; Define "__NR_set_tid_address" (Num 96);
  Syscall "__NR_set_tid_address" "sys_set_tid_address"; Define "__NR_unshare" (Num 97);
  Syscall "__NR_unshare" "sys_unshare"; Define "__NR_futex" (Num 98);
  Sc_comp "__NR_futex" "sys_futex" "compat_sys_futex"; Define "__NR_set_robust_list" (Num 99);
  Sc_comp "__NR_set_robust_list" "sys_set_robust_list" "compat_sys_set_robust_list";
  Define "__NR_get_robust_list" (Num 100);
  Sc_comp "__NR_get_robust_list" "sys_get_robust_list" "compat_sys_get_robust_list";
  Define "__NR_nanosleep" (Num 101);
  Sc_comp "__NR_nanosleep" "sys_nanosleep" "compat_sys_nanosleep";
  Define "__NR_getitimer" (Num 102);
  Sc_comp "__NR_getitimer" "sys_getitimer" "compat_sys_getitimer";
  Define "__NR_setitimer" (Num 103);
  Sc_comp "__NR_setitimer" "sys_setitimer" "compat_sys_setitimer";
  Define "__NR_kexec_load" (Num 104)].

Definition unistd_3 : list line := [
  Sc_comp "__NR_kexec_load" "sys_kexec_load" "compat_sys_kexec_load";
  Define "__NR_init_module" (Num 105); Syscall "__NR_init_module" "sys_init_module";
  Define "__NR_delete_module" (Num 106); Syscall "__NR_delete_module" "sys_delete_module";
  Define "__NR_timer_create" (Num 107);
  Sc_comp "__NR_timer_create" "sys_timer_create" "compat_sys_timer_create";
  Define "__NR_timer_gettime" (Num 108);
  Sc_comp "__NR_timer_gettime" "sys_timer_gettime" "compat_sys_timer_gettime";
  Define "__NR_timer_getoverrun" (Num 109);
  Syscall "__NR_timer_getoverrun" "sys_timer_getoverrun"; Define "__NR_timer_settime" (Num 110);
  Sc_comp "__NR_timer_settime" "sys_timer_settime" "compat_sys_timer_settime";
  Define "__NR_timer_delete" (Num 111); Syscall "__NR_timer_delete" "sys_timer_delete";
  Define "__NR_clock_settime" (Num 112);
  Sc_comp "__NR_clock_settime" "sys_clock_settime" "compat_sys_clock_settime";
  Define "__NR_clock_gettime" (Num 113);
  Sc_comp "__NR_clock_gettime" "sys_clock_gettime" "compat_sys_clock_gettime";
  Define "__NR_clock_getres" (Num 114);
  Sc_comp "__NR_clock_getres" "sys_clock_getres" "compat_sys_clock_getres";
  Define "__NR_clock_nanosleep" (Num 115);
  Sc_comp "__NR_clock_nanosleep" "sys_clock_nanosleep" "compat_sys_clock_nanosleep";
  Define "__NR_syslog" (Num 116); Syscall "__NR_syslog" "sys_syslog";
  Define "__NR_ptrace" (Num 117); Syscall "__NR_ptrace" "sys_ptrace";
  Define "__NR_sched_setparam" (Num 118); Syscall "__NR_sched_setparam" "sys_sched_setparam";
  Define "__NR_sched_setscheduler" (Num 119);
  Syscall "__NR_sched_setscheduler" "sys_sched_setscheduler";
  Define "__NR_sched_getscheduler" (Num 120);
  Syscall "__NR_sched_getscheduler" "sys_sched_getscheduler";
  Define "__NR_sched_getparam" (Num 121); Syscall "__NR_sched_getparam" "sys_sched_getparam";
  Define "__NR_sched_setaffinity" (Num 122);
  Sc_comp "__NR_sched_setaffinity" "sys_sched_setaffinity" "compat_sys_sched_setaffinity";
  Define "__NR_sched_getaffinity" (Num 123);
  Sc_comp "__NR_sched_getaffinity" "sys_sched_getaffinity" "compat_sys_sched_getaffinity";
  Define "__NR_sched_yield" (Num 124); Syscall "__NR_sched_yield" "sys_sched_yield";
  Define "__NR_sched_get_priority_max" (Num 125);
  Syscall "__NR_sched_get_priority_max" "sys_sched_get_priority_max";
  Define "__NR_sched_get_priority_min" (Num 126);
  Syscall "__NR_sched_get_priority_min" "sys_sched_get_priority_min";
  Define "__NR_sched_rr_get_interval" (Num 127);
  Sc_comp "__NR_sched_rr_get_interval" "sys_sched_rr_get_interval" "compat_sys_sched_rr_get_interval";
  Define "__NR_restart_syscall" (Num 128); Syscall "__NR_restart_syscall" "sys_restart_syscall";
  Define "__NR_kill" (Num 129); Syscall "__NR_kill" "sys_kill"; Define "__NR_tkill" (Num 130);
  Syscall "__NR_tkill" "sys_tkill"; Define "__NR_tgkill" (Num 131);
  Syscall "__NR_tgkill" "sys_tgkill"; Define "__NR_sigaltstack" (Num 132);
  Sc_comp "__NR_sigaltstack" "sys_sigaltstack" "compat_sys_sigaltstack";
  Define "__NR_rt_sigsuspend" (Num 133);
  Sc_comp "__NR_rt_sigsuspend" "sys_rt_sigsuspend" "compat_sys_rt_sigsuspend";
  Define "__NR_rt_sigaction" (Num 134);
  Sc_comp "__NR_rt_sigaction" "sys_rt_sigaction" "compat_sys_rt_sigaction";
  Define "__NR_rt_sigprocmask" (Num 135);
  Sc_comp "__NR_rt_sigprocmask" "sys_rt_sigprocmask" "compat_sys_rt_sigprocmask";
  Define "__NR_rt_sigpending" (Num 136);
  Sc_comp "__NR_rt_sigpending" "sys_rt_sigpending" "compat_sys_rt_sigpending";
  Define "__NR_rt_sigtimedwait" (Num 137);
  Sc_comp "__NR_rt_sigtimedwait" "sys_rt_sigtimedwait" "compat_sys_rt_sigtimedwait";
  Define "__NR_rt_sigqueueinfo" (Num 138);
  Sc_comp "__NR_rt_sigqueueinfo" "sys_rt_sigqueueinfo" "compat_sys_rt_sigqueueinfo";
  Define "__NR_rt_sigreturn" (Num 139);
  Sc_comp "__NR_rt_sigreturn" "sys_rt_sigreturn" "compat_sys_rt_sigreturn";
  Define "__NR_setpriority" (Num 140); Syscall "__NR_setpriority" "sys_setpriority";
  Define "__NR_getpriority" (Num 141); Syscall "__NR_getpriority" "sys_getpriority";
  Define "__NR_reboot" (Num 142); Syscall "__NR_reboot" "sys_reboot";
  Define "__NR_setregid" (Num 143); Syscall "__NR_setregid" "sys_setregid";
  Define "__NR_setgid" (Num 144); Syscall "__NR_setgid" "sys_setgid";
  Define "__NR_setreuid" (Num 145); Syscall "__NR_setreuid" "sys_setreuid";
  Define "__NR_setuid" (Num 146); Syscall "__NR_setuid" "sys_setuid";
  Define "__NR_setresuid" (Num 147); Syscall "__NR_setresuid" "sys_setresuid";
  Define "__NR_getresuid" (Num 148); Syscall "__NR_getresuid" "sys_getresuid";
  Define "__NR_setresgid" (Num 149); Syscall "__NR_setresgid" "sys_setresgid";
  Define "__NR_getresgid" (Num 150); Syscall "__NR_getresgid" "sys_getresgid";
  Define "__NR_setfsuid" (Num 151); Syscall "__NR_setfsuid" "sys_setfsuid";
  Define "__NR_setfsgid" (Num 152); Syscall "__NR_setfsgid" "sys_setfsgid";
  Define "__NR_times" (Num 153); Sc_comp "__NR_times" "sys_times" "compat_sys_times";
  Define "__NR_setpgid" (Num 154); Syscall "__NR_setpgid" "sys_setpgid";
  Define "__NR_getpgid" (Num 155); Syscall "__NR_getpgid" "sys_getpgid";
  Define "__NR_getsid" (Num 156); Syscall "__NR_getsid" "sys_getsid";
  Define "__NR_setsid" (Num 157); Syscall "__NR_setsid" "sys_setsid";
  Define "__NR_getgroups" (Num 158); Syscall "__NR_getgroups" "sys_getgroups";
  Define "__NR_setgroups" (Num 159); Syscall "__NR_setgroups" "sys_setgroups";
  Define "__NR_uname" (Num 160); Syscall "__NR_uname" "sys_newuname";
  Define "__NR_sethostname" (Num 161); Syscall "__NR_sethostname" "sys_sethostname";
  Define "__NR_setdomainname" (Num 162); Syscall "__NR_setdomainname" "sys_setdomainname";
  Define "__NR_getrlimit" (Num 163);
  Sc_comp "__NR_getrlimit" "sys_getrlimit" "compat_sys_getrlimit";
  Define "__NR_setrlimit" (Num 164);
  Sc_comp "__NR_setrlimit" "sys_setrlimit" "compat_sys_setrlimit";
  Define "__NR_getrusage" (Num 165);
  Sc_comp "__NR_getrusage" "sys_getrusage" "compat_sys_getrusage"; Define "__NR_umask" (Num 166);
  Syscall "__NR_umask" "sys_umask"; Define "__NR_prctl" (Num 167);
  Syscall "__NR_prctl" "sys_prctl"; Define "__NR_getcpu" (Num 168)].

Definition unistd_4 : list line := [
  Syscall "__NR_getcpu" "sys_getcpu"; Define "__NR_gettimeofday" (Num 169);
  Sc_comp "__NR_gettimeofday" "sys_gettimeofday" "compat_sys_gettimeofday";
  Define "__NR_settimeofday" (Num 170);
  Sc_comp "__NR_settimeofday" "sys_settimeofday" "compat_sys_settimeofday";
  Define "__NR_adjtimex" (Num 171); Sc_comp "__NR_adjtimex" "sys_adjtimex" "compat_sys_adjtimex";
  Define "__NR_getpid" (Num 172); Syscall "__NR_getpid" "sys_getpid";
  Define "__NR_getppid" (Num 173); Syscall "__NR_getppid" "sys_getppid";
  Define "__NR_getuid" (Num 174); Syscall "__NR_getuid" "sys_getuid";
  Define "__NR_geteuid" (Num 175); Syscall "__NR_geteuid" "sys_geteuid";
  Define "__NR_getgid" (Num 176); Syscall "__NR_getgid" "sys_getgid";
  Define "__NR_getegid" (Num 177); Syscall "__NR_getegid" "sys_getegid";
  Define "__NR_gettid" (Num 178); Syscall "__NR_gettid" "sys_gettid";
  Define "__NR_sysinfo" (Num 179); Sc_comp "__NR_sysinfo" "sys_sysinfo" "compat_sys_sysinfo";
  Define "__NR_mq_open" (Num 180); Sc_comp "__NR_mq_open" "sys_mq_open" "compat_sys_mq_open";
  Define "__NR_mq_unlink" (Num 181); Syscall "__NR_mq_unlink" "sys_mq_unlink";
  Define "__NR_mq_timedsend" (Num 182);
  Sc_comp "__NR_mq_timedsend" "sys_mq_timedsend" "compat_sys_mq_timedsend";
  Define "__NR_mq_timedreceive" (Num 183);
  Sc_comp "__NR_mq_timedreceive" "sys_mq_timedreceive" "compat_sys_mq_timedreceive";
  Define "__NR_mq_notify" (Num 184);
  Sc_comp "__NR_mq_notify" "sys_mq_notify" "compat_sys_mq_notify";
  Define "__NR_mq_getsetattr" (Num 185);
  Sc_comp "__NR_mq_getsetattr" "sys_mq_getsetattr" "compat_sys_mq_getsetattr";
  Define "__NR_msgget" (Num 186); Syscall "__NR_msgget" "sys_msgget";
  Define "__NR_msgctl" (Num 187); Sc_comp "__NR_msgctl" "sys_msgctl" "compat_sys_msgctl";
  Define "__NR_msgrcv" (Num 188); Sc_comp "__NR_msgrcv" "sys_msgrcv" "compat_sys_msgrcv";
  Define "__NR_msgsnd" (Num 189); Sc_comp "__NR_msgsnd" "sys_msgsnd" "compat_sys_msgsnd";
  Define "__NR_semget" (Num 190); Syscall "__NR_semget" "sys_semget";
  Define "__NR_semctl" (Num 191); Sc_comp "__NR_semctl" "sys_semctl" "compat_sys_semctl";
  Define "__NR_semtimedop" (Num 192);
  Sc_comp "__NR_semtimedop" "sys_semtimedop" "compat_sys_semtimedop";
  Define "__NR_semop" (Num 193); Syscall "__NR_semop" "sys_semop";
  Define "__NR_shmget" (Num 194); Syscall "__NR_shmget" "sys_shmget";
  Define "__NR_shmctl" (Num 195); Sc_comp "__NR_shmctl" "sys_shmctl" "compat_sys_shmctl";
  Define "__NR_shmat" (Num 196); Sc_comp "__NR_shmat" "sys_shmat" "compat_sys_shmat";
  Define "__NR_shmdt" (Num 197); Syscall "__NR_shmdt" "sys_shmdt";
  Define "__NR_socket" (Num 198); Syscall "__NR_socket" "sys_socket";
  Define "__NR_socketpair" (Num 199); Syscall "__NR_socketpair" "sys_socketpair";
  Define "__NR_bind" (Num 200); Syscall "__NR_bind" "sys_bind"; Define "__NR_listen" (Num 201);
  Syscall "__NR_listen" "sys_listen"; Define "__NR_accept" (Num 202);
  Syscall "__NR_accept" "sys_accept"; Define "__NR_connect" (Num 203);
  Syscall "__NR_connect" "sys_connect"; Define "__NR_getsockname" (Num 204);
  Syscall "__NR_getsockname" "sys_getsockname"; Define "__NR_getpeername" (Num 205);
  Syscall "__NR_getpeername" "sys_getpeername"; Define "__NR_sendto" (Num 206);
  Syscall "__NR_sendto" "sys_sendto"; Define "__NR_recvfrom" (Num 207);
  Sc_comp "__NR_recvfrom" "sys_recvfrom" "compat_sys_recvfrom";
  Define "__NR_setsockopt" (Num 208);
  Sc_comp "__NR_setsockopt" "sys_setsockopt" "compat_sys_setsockopt";
  Define "__NR_getsockopt" (Num 209);
  Sc_comp "__NR_getsockopt" "sys_getsockopt" "compat_sys_getsockopt";
  Define "__NR_shutdown" (Num 210); Syscall "__NR_shutdown" "sys_shutdown";
  Define "__NR_sendmsg" (Num 211); Sc_comp "__NR_sendmsg" "sys_sendmsg" "compat_sys_sendmsg";
  Define "__NR_recvmsg" (Num 212); Sc_comp "__NR_recvmsg" "sys_recvmsg" "compat_sys_recvmsg";
  Define "__NR_readahead" (Num 213);
  Sc_comp "__NR_readahead" "sys_readahead" "compat_sys_readahead"; Define "__NR_brk" (Num 214);
  Syscall "__NR_brk" "sys_brk"; Define "__NR_munmap" (Num 215);
  Syscall "__NR_munmap" "sys_munmap"; Define "__NR_mremap" (Num 216);
  Syscall "__NR_mremap" "sys_mremap"; Define "__NR_add_key" (Num 217);
  Syscall "__NR_add_key" "sys_add_key"; Define "__NR_request_key" (Num 218);
  Syscall "__NR_request_key" "sys_request_key"; Define "__NR_keyctl" (Num 219);
  Sc_comp "__NR_keyctl" "sys_keyctl" "compat_sys_keyctl"; Define "__NR_clone" (Num 220);
  Syscall "__NR_clone" "sys_clone"; Define "__NR_execve" (Num 221);
  Sc_comp "__NR_execve" "sys_execve" "compat_sys_execve"; Define "__NR3264_mmap" (Num 222);
  Sc_3264 "__NR3264_mmap" "sys_mmap2" "sys_mmap"; Define "__NR3264_fadvise64" (Num 223);
  Sc_comp "__NR3264_fadvise64" "sys_fadvise64_64" "compat_sys_fadvise64_64"].

Definition unistd_5 : list line := [
  If (Neg (Defined "__ARCH_NOMMU")) [
    Define "__NR_swapon" (Num 224); Syscall "__NR_swapon" "sys_swapon";
    Define "__NR_swapoff" (Num 225); Syscall "__NR_swapoff" "sys_swapoff";
    Define "__NR_mprotect" (Num 226); Syscall "__NR_mprotect" "sys_mprotect";
    Define "__NR_msync" (Num 227); Syscall "__NR_msync" "sys_msync";
    Define "__NR_mlock" (Num 228); Syscall "__NR_mlock" "sys_mlock";
    Define "__NR_munlock" (Num 229); Syscall "__NR_munlock" "sys_munlock";
    Define "__NR_mlockall" (Num 230); Syscall "__NR_mlockall" "sys_mlockall";
    Define "__NR_munlockall" (Num 231); Syscall "__NR_munlockall" "sys_munlockall";
    Define "__NR_mincore" (Num 232); Syscall "__NR_mincore" "sys_mincore";
    Define "__NR_madvise" (Num 233); Syscall "__NR_madvise" "sys_madvise";
    Define "__NR_remap_file_pages" (Num 234);
    Syscall "__NR_remap_file_pages" "sys_remap_file_pages"; Define "__NR_mbind" (Num 235);
    Sc_comp "__NR_mbind" "sys_mbind" "compat_sys_mbind"; Define "__NR_get_mempolicy" (Num 236);
    Sc_comp "__NR_get_mempolicy" "sys_get_mempolicy" "compat_sys_get_mempolicy";
    Define "__NR_set_mempolicy" (Num 237);
    Sc_comp "__NR_set_mempolicy" "sys_set_mempolicy" "compat_sys_set_mempolicy";
    Define "__NR_migrate_pages" (Num 238);
    Sc_comp "__NR_migrate_pages" "sys_migrate_pages" "compat_sys_migrate_pages";
    Define "__NR_move_pages" (Num 239);
    Sc_comp "__NR_move_pages" "sys_move_pages" "compat_sys_move_pages"] [];
  Define "__NR_rt_tgsigqueueinfo" (Num 240);
  Sc_comp "__NR_rt_tgsigqueueinfo" "sys_rt_tgsigqueueinfo" "compat_sys_rt_tgsigqueueinfo";
  Define "__NR_perf_event_open" (Num 241); Syscall "__NR_perf_event_open" "sys_perf_event_open";
  Define "__NR_accept4" (Num 242); Syscall "__NR_accept4" "sys_accept4";
  Define "__NR_recvmmsg" (Num 243); Sc_comp "__NR_recvmmsg" "sys_recvmmsg" "compat_sys_recvmmsg";
  Define "__NR_arch_specific_syscall" (Num 244); Define "__NR_wait4" (Num 260);
  Sc_comp "__NR_wait4" "sys_wait4" "compat_sys_wait4"; Define "__NR_prlimit64" (Num 261);
  Syscall "__NR_prlimit64" "sys_prlimit64"; Define "__NR_fanotify_init" (Num 262);
  Syscall "__NR_fanotify_init" "sys_fanotify_init"; Define "__NR_fanotify_mark" (Num 263);
  Syscall "__NR_fanotify_mark" "sys_fanotify_mark"; Define "__NR_name_to_handle_at" (Num 264);
  Syscall "__NR_name_to_handle_at" "sys_name_to_handle_at";
  Define "__NR_open_by_handle_at" (Num 265);
  Sc_comp "__NR_open_by_handle_at" "sys_open_by_handle_at" "compat_sys_open_by_handle_at";
  Define "__NR_clock_adjtime" (Num 266);
  Sc_comp "__NR_clock_adjtime" "sys_clock_adjtime" "compat_sys_clock_adjtime";
  Define "__NR_syncfs" (Num 267); Syscall "__NR_syncfs" "sys_syncfs";
  Define "__NR_setns" (Num 268); Syscall "__NR_setns" "sys_setns";
  Define "__NR_sendmmsg" (Num 269); Sc_comp "__NR_sendmmsg" "sys_sendmmsg" "compat_sys_sendmmsg";
  Define "__NR_process_vm_readv" (Num 270);
  Sc_comp "__NR_process_vm_readv" "sys_process_vm_readv" "compat_sys_process_vm_readv";
  Define "__NR_process_vm_writev" (Num 271);
  Sc_comp "__NR_process_vm_writev" "sys_process_vm_writev" "compat_sys_process_vm_writev";
  Define "__NR_kcmp" (Num 272); Syscall "__NR_kcmp" "sys_kcmp";
  Define "__NR_finit_module" (Num 273); Syscall "__NR_finit_module" "sys_finit_module";
  Define "__NR_sched_setattr" (Num 274); Syscall "__NR_sched_setattr" "sys_sched_setattr";
  Define "__NR_sched_getattr" (Num 275); Syscall "__NR_sched_getattr" "sys_sched_getattr";
  Define "__NR_renameat2" (Num 276); Syscall "__NR_renameat2" "sys_renameat2";
  Define "__NR_seccomp" (Num 277); Syscall "__NR_seccomp" "sys_seccomp";
  Define "__NR_getrandom" (Num 278); Syscall "__NR_getrandom" "sys_getrandom";
  Define "__NR_memfd_create" (Num 279); Syscall "__NR_memfd_create" "sys_memfd_create";
  Define "__NR_bpf" (Num 280); Syscall "__NR_bpf" "sys_bpf"; Define "__NR_execveat" (Num 281);
  Sc_comp "__NR_execveat" "sys_execveat" "compat_sys_execveat";
  Define "__NR_userfaultfd" (Num 282); Syscall "__NR_userfaultfd" "sys_userfaultfd";
  Define "__NR_membarrier" (Num 283); Syscall "__NR_membarrier" "sys_membarrier";
  Define "__NR_mlock2" (Num 284); Syscall "__NR_mlock2" "sys_mlock2"; Undef "__NR_syscalls";
  Define "__NR_syscalls" (Num 285)].

Definition unistd_6 : list line := [
  If (Defined "__ARCH_WANT_SYSCALL_NO_AT") [
    Define "__NR_open" (Num 1024); Syscall "__NR_open" "sys_open"; Define "__NR_link" (Num 1025);
    Syscall "__NR_link" "sys_link"; Define "__NR_unlink" (Num 1026);
    Syscall "__NR_unlink" "sys_unlink"; Define "__NR_mknod" (Num 1027);
    Syscall "__NR_mknod" "sys_mknod"; Define "__NR_chmod" (Num 1028);
    Syscall "__NR_chmod" "sys_chmod"; Define "__NR_chown" (Num 1029);
    Syscall "__NR_chown" "sys_chown"; Define "__NR_mkdir" (Num 1030);
    Syscall "__NR_mkdir" "sys_mkdir"; Define "__NR_rmdir" (Num 1031);
    Syscall "__NR_rmdir" "sys_rmdir"; Define "__NR_lchown" (Num 1032);
    Syscall "__NR_lchown" "sys_lchown"; Define "__NR_access" (Num 1033);
    Syscall "__NR_access" "sys_access"; Define "__NR_rename" (Num 1034);
    Syscall "__NR_rename" "sys_rename"; Define "__NR_readlink" (Num 1035);
    Syscall "__NR_readlink" "sys_readlink"; Define "__NR_symlink" (Num 1036);
    Syscall "__NR_symlink" "sys_symlink"; Define "__NR_utimes" (Num 1037);
    Syscall "__NR_utimes" "sys_utimes"; Define "__NR3264_stat" (Num 1038);
    Sc_3264 "__NR3264_stat" "sys_stat64" "sys_newstat"; Define "__NR3264_lstat" (Num 1039);
    Sc_3264 "__NR3264_lstat" "sys_lstat64" "sys_newlstat"; Undef "__NR_syscalls";
    Define "__NR_syscalls" (Plus "__NR3264_lstat" 1)] [];
  If (Defined "__ARCH_WANT_SYSCALL_NO_FLAGS") [
    Define "__NR_pipe" (Num 1040); Syscall "__NR_pipe" "sys_pipe"; Define "__NR_dup2" (Num 1041);
    Syscall "__NR_dup2" "sys_dup2"; Define "__NR_epoll_create" (Num 1042);
    Syscall "__NR_epoll_create" "sys_epoll_create"; Define "__NR_inotify_init" (Num 1043);
    Syscall "__NR_inotify_init" "sys_inotify_init"; Define "__NR_eventfd" (Num 1044);
    Syscall "__NR_eventfd" "sys_eventfd"; Define "__NR_signalfd" (Num 1045);
    Syscall "__NR_signalfd" "sys_signalfd"; Undef "__NR_syscalls";
    Define "__NR_syscalls" (Plus "__NR_signalfd" 1)] [];
  If (Both (Either (Bits 32) (Defined "__SYSCALL_COMPAT")) (Defined "__ARCH_WANT_SYSCALL_OFF_T")) [
    Define "__NR_sendfile" (Num 1046); Syscall "__NR_sendfile" "sys_sendfile";
    Define "__NR_ftruncate" (Num 1047); Syscall "__NR_ftruncate" "sys_ftruncate";
    Define "__NR_truncate" (Num 1048); Syscall "__NR_truncate" "sys_truncate";
    Define "__NR_stat" (Num 1049); Syscall "__NR_stat" "sys_newstat";
    Define "__NR_lstat" (Num 1050); Syscall "__NR_lstat" "sys_newlstat";
    Define "__NR_fstat" (Num 1051); Syscall "__NR_fstat" "sys_newfstat";
    Define "__NR_fcntl" (Num 1052); Syscall "__NR_fcntl" "sys_fcntl";
    Define "__NR_fadvise64" (Num 1053); Flag "__ARCH_WANT_SYS_FADVISE64";
    Syscall "__NR_fadvise64" "sys_fadvise64"; Define "__NR_newfstatat" (Num 1054);
    Flag "__ARCH_WANT_SYS_NEWFSTATAT"; Syscall "__NR_newfstatat" "sys_newfstatat";
    Define "__NR_fstatfs" (Num 1055); Syscall "__NR_fstatfs" "sys_fstatfs";
    Define "__NR_statfs" (Num 1056); Syscall "__NR_statfs" "sys_statfs";
    Define "__NR_lseek" (Num 1057); Syscall "__NR_lseek" "sys_lseek";
    Define "__NR_mmap" (Num 1058); Syscall "__NR_mmap" "sys_mmap"; Undef "__NR_syscalls";
    Define "__NR_syscalls" (Plus "__NR_mmap" 1)] []].

Definition unistd_7 : list line := [
  If (Defined "__ARCH_WANT_SYSCALL_DEPRECATED") [
    Define "__NR_alarm" (Num 1059); Flag "__ARCH_WANT_SYS_ALARM";
    Syscall "__NR_alarm" "sys_alarm"; Define "__NR_getpgrp" (Num 1060);
    Flag "__ARCH_WANT_SYS_GETPGRP"; Syscall "__NR_getpgrp" "sys_getpgrp";
    Define "__NR_pause" (Num 1061); Flag "__ARCH_WANT_SYS_PAUSE";
    Syscall "__NR_pause" "sys_pause"; Define "__NR_time" (Num 1062); Flag "__ARCH_WANT_SYS_TIME";
    Flag "__ARCH_WANT_COMPAT_SYS_TIME"; Syscall "__NR_time" "sys_time";
    Define "__NR_utime" (Num 1063); Flag "__ARCH_WANT_SYS_UTIME";
    Syscall "__NR_utime" "sys_utime"; Define "__NR_creat" (Num 1064);
    Syscall "__NR_creat" "sys_creat"; Define "__NR_getdents" (Num 1065);
    Flag "__ARCH_WANT_SYS_GETDENTS"; Syscall "__NR_getdents" "sys_getdents";
    Define "__NR_futimesat" (Num 1066); Syscall "__NR_futimesat" "sys_futimesat";
    Define "__NR_select" (Num 1067); Flag "__ARCH_WANT_SYS_SELECT";
    Syscall "__NR_select" "sys_select"; Define "__NR_poll" (Num 1068);
    Syscall "__NR_poll" "sys_poll"; Define "__NR_epoll_wait" (Num 1069);
    Syscall "__NR_epoll_wait" "sys_epoll_wait"; Define "__NR_ustat" (Num 1070);
    Syscall "__NR_ustat" "sys_ustat"; Define "__NR_vfork" (Num 1071);
    Syscall "__NR_vfork" "sys_vfork"; Define "__NR_oldwait4" (Num 1072);
    Syscall "__NR_oldwait4" "sys_wait4"; Define "__NR_recv" (Num 1073);
    Syscall "__NR_recv" "sys_recv"; Define "__NR_send" (Num 1074);
    Syscall "__NR_send" "sys_send"; Define "__NR_bdflush" (Num 1075);
    Syscall "__NR_bdflush" "sys_bdflush"; Define "__NR_umount" (Num 1076);
    Syscall "__NR_umount" "sys_oldumount"; Flag "__ARCH_WANT_SYS_OLDUMOUNT";
    Define "__NR_uselib" (Num 1077); Syscall "__NR_uselib" "sys_uselib";
    Define "__NR__sysctl" (Num 1078); Syscall "__NR__sysctl" "sys_sysctl";
    Define "__NR_fork" (Num 1079);
    If (Defined "CONFIG_MMU") [
      Syscall "__NR_fork" "sys_fork"] [
      Syscall "__NR_fork" "sys_ni_syscall"];
    Undef "__NR_syscalls"; Define "__NR_syscalls" (Plus "__NR_fork" 1)] [];
  If (Both (Bits 64) (Neg (Defined "__SYSCALL_COMPAT"))) [
    Define "__NR_fcntl" (Name "__NR3264_fcntl"); Define "__NR_statfs" (Name "__NR3264_statfs");
    Define "__NR_fstatfs" (Name "__NR3264_fstatfs");
    Define "__NR_truncate" (Name "__NR3264_truncate");
    Define "__NR_ftruncate" (Name "__NR3264_ftruncate");
    Define "__NR_lseek" (Name "__NR3264_lseek");
    Define "__NR_sendfile" (Name "__NR3264_sendfile");
    Define "__NR_newfstatat" (Name "__NR3264_fstatat");
    Define "__NR_fstat" (Name "__NR3264_fstat"); Define "__NR_mmap" (Name "__NR3264_mmap");
    Define "__NR_fadvise64" (Name "__NR3264_fadvise64");
    If (Defined "__NR3264_stat") [
      Define "__NR_stat" (Name "__NR3264_stat"); Define "__NR_lstat" (Name "__NR3264_lstat")] []] [
    Define "__NR_fcntl64" (Name "__NR3264_fcntl");
    Define "__NR_statfs64" (Name "__NR3264_statfs");
    Define "__NR_fstatfs64" (Name "__NR3264_fstatfs");
    Define "__NR_truncate64" (Name "__NR3264_truncate");
    Define "__NR_ftruncate64" (Name "__NR3264_ftruncate");
    Define "__NR_llseek" (Name "__NR3264_lseek");
    Define "__NR_sendfile64" (Name "__NR3264_sendfile");
    Define "__NR_fstatat64" (Name "__NR3264_fstatat");
    Define "__NR_fstat64" (Name "__NR3264_fstat"); Define "__NR_mmap2" (Name "__NR3264_mmap");
    Define "__NR_fadvise64_64" (Name "__NR3264_fadvise64");
    If (Defined "__NR3264_stat") [
      Define "__NR_stat64" (Name "__NR3264_stat"); Define "__NR_lstat64" (Name "__NR3264_lstat")] []]].

(** The calls every architecture has, and the old ones behind a choice with the names
    that depend on the word size. *)
Definition unistd_common : list line := unistd_1 ++ unistd_2 ++ unistd_3 ++ unistd_4 ++ unistd_5.
Definition unistd_old : list line := unistd_6 ++ unistd_7.
Definition unistd : list line := unistd_common ++ unistd_old.

(** ** Architectures *)

(** The macros of an architecture or a configuration that each part tests. *)
Definition early : list string := ["__SYSCALL_COMPAT"; "__ARCH_WANT_SYNC_FILE_RANGE2"; "__ARCH_NOMMU"].
Definition late : list string :=
  ["__ARCH_WANT_SYSCALL_NO_AT"; "__ARCH_WANT_SYSCALL_NO_FLAGS"; "__ARCH_WANT_SYSCALL_OFF_T";
   "__ARCH_WANT_SYSCALL_DEPRECATED"; "CONFIG_MMU"].

(** An architecture: whether a [long] has 64 bits, and the macros it defines. *)
Record arch : Type := mk_arch { wide : bool; wants : string -> bool }.

Definition word (w : bool) : Z := if w then 64 else 32.
Definition wanted (a : arch) (fs : list string) : list string := filter (fun f => wants a f = true) fs.

Definition preprocess (a : arch) : option state :=
  snd <$> run_lines (word (wide a)) unistd (mk_state (flags (wanted a (early ++ late))) []).

(** Programs of the architecture have a [long] of 32 bits. *)
Definition abi32 (a : arch) : bool := negb (wide a) || wants a "__SYSCALL_COMPAT".

(** ** What the tables are *)

(** A table of [__NR_syscalls] entries has room for all calls, and no entry is
    given twice. *)
Definition fits (s : state) : Prop :=
  NoDup (map fst (table s)) /\
  exists n, value (macros s) "__NR_syscalls" = Some n /\ Forall (fun e => 0 <= e.1 < n) (table s).

(** A macro with a body is the number of an entry, but for two of them. *)
Definition special (n : string) : bool :=
  (n =? "__NR_syscalls")%string || (n =? "__NR_arch_specific_syscall")%string.

Definition served (s : state) : Prop :=
  forall n b, macros s !! n = Some b -> b <> Blank -> special n = false ->
  exists z, value (macros s) n = Some z /\ z ∈ map fst (table s).

(** No entry of a kernel's own table is a function for 32-bit programs. *)
Definition native (s : state) : Prop := Forall (fun e => String.prefix "compat_" e.2 = false) (table s).

(** ** What a part of the header does not mention *)

Definition mentions (c : call) : list string := match c with Call _ _ => [] | _ => ["__SYSCALL_COMPAT"] end.
Definition touches : line -> list string := Cpp.touches mentions.

Lemma framed_syscall f nr y : framed f (__SYSCALL nr y).
Proof.
  intros s t E Hs. unfold __SYSCALL in *. cbv [mbind st_bind st_get st_lift st_modify] in *. cbn in *.
  destruct (value (macros s) nr) as [z|] eqn:Ez; [|discriminate]. cbn in E. injection E as <-.
  rewrite (value_mono _ _ _ _ (map_union_subseteq_l _ _) Ez). cbn. unfold over. cbn.
  rewrite app_assoc. split; [reflexivity | assumption].
Qed.

Lemma framed_emit bits f c : (forall n, n ∈ mentions c -> macros f !! n = None) -> framed f (emit_call bits c).
Proof.
  destruct c; intros Hf; [apply framed_syscall|..]; cbn [emit_call mentions] in *; apply framed_test;
    try assumption; try apply framed_syscall.
  apply framed_test; [assumption | apply framed_syscall..].
Qed.

(** ** Checking a part *)

Definition ascending (l : list Z) : bool :=
  match l with [] => true | x :: l => snd (foldl (fun st y => (y, st.2 && (st.1 <? y))) (x, true) l) end.

Lemma foldl_ascending l x b :
  snd (foldl (fun st y => (y, st.2 && (st.1 <? y))) (x, b) l) = true ->
  b = true /\ NoDup (x :: l) /\ Forall (Z.lt x) l.
Proof.
  revert x b. induction l as [|y l IH]; intros x b H; cbn in H.
  - split_and!; [assumption | apply NoDup_singleton | constructor].
  - apply IH in H as (Hb & Hnd & Hlt). apply andb_true_iff in Hb as [Hb Hxy].
    apply Z.ltb_lt in Hxy. assert (Forall (Z.lt x) (y :: l)) as Hall
      by (constructor; [assumption | eapply Forall_impl; [exact Hlt | intros; lia]]).
    split_and!; [assumption | | assumption]. constructor; [|assumption].
    intros Hin. rewrite Forall_forall in Hall. specialize (Hall _ Hin). lia.
Qed.

Lemma ascending_NoDup l : ascending l = true -> NoDup l.
Proof. destruct l; [constructor | intros H; apply foldl_ascending in H; tauto]. Qed.

(** The macros of a state have the numbers [ref], and each call has an entry, in the
    table or among [more]. *)
Definition known (ref : gmap string Z) (more : list Z) (s : state) : Prop :=
  forall n b, macros s !! n = Some b -> b <> Blank ->
  exists z, eval 2 (macros s) b = Some z /\
    (special n = false -> z ∈ map fst (table s) ++ more) /\ (n <> "__NR_syscalls" -> ref !! n = Some z).

Definition numbered (lo hi : Z) (s : state) : Prop :=
  NoDup (map fst (table s)) /\ Forall (fun e => lo <= e.1 < hi) (table s).

Definition check_known (ref : gmap string Z) (more : list Z) (s : state) : bool :=
  let ns : gmap Z unit := list_to_map (map (fun z => (z, tt)) (map fst (table s) ++ more)) in
  forallb (fun p => match p.2, eval 2 (macros s) p.2 with
                    | Blank, _ => true
                    | _, Some z =>
                        (match ns !! z with Some _ => true | None => special p.1 end) &&
                        (match ref !! p.1 with Some z' => z =? z' | None => (p.1 =? "__NR_syscalls")%string end ||
                         (p.1 =? "__NR_syscalls")%string)
                    | _, None => false
                    end) (map_to_list (macros s)).

Definition check_numbers (lo hi : Z) (s : state) : bool :=
  ascending (map fst (table s)) && forallb (fun e => (lo <=? e.1) && (e.1 <? hi)) (table s).

Definition check_native (s : state) : bool := forallb (fun e => negb (String.prefix "compat_" e.2)) (table s).

Lemma check_known_sound ref more s : check_known ref more s = true -> known ref more s.
Proof.
  unfold check_known. rewrite forallb_forall. intros H n b Hn Hb.
  apply elem_of_map_to_list, list_elem_of_In, H in Hn. cbn [fst snd] in Hn.
  destruct (eval 2 (macros s) b) as [z|]; [|destruct b; congruence].
  exists z. split; [reflexivity|].
  assert (forall x : bool, match b with Blank => true | _ => x end = true -> x = true) as Hx
    by (intros x; destruct b; congruence).
  apply Hx, andb_true_iff in Hn as [Hz Hr]. split.
  - intros Hs. destruct (_ !! z) eqn:E; [|congruence].
    apply elem_of_list_to_map_2, list_elem_of_fmap in E as (y & [= ->] & Hy). assumption.
  - intros Hs. apply String.eqb_neq in Hs. rewrite Hs, orb_false_r in Hr.
    destruct (ref !! n); [apply Z.eqb_eq in Hr; congruence | discriminate].
Qed.

Lemma check_numbers_sound lo hi s : check_numbers lo hi s = true -> numbered lo hi s.
Proof.
  unfold check_numbers. rewrite andb_true_iff, forallb_forall. intros [Ha Hf].
  split; [apply ascending_NoDup, Ha|]. apply Forall_forall. intros e He%list_elem_of_In%Hf. lia.
Qed.

Lemma check_native_sound s : check_native s = true -> native s.
Proof.
  unfold check_native. rewrite forallb_forall. intros H. apply Forall_forall.
  intros e He. apply negb_true_iff, H, list_elem_of_In, He.
Qed.

(** ** The two parts *)

Definition after (w : bool) (ls : list line) (ms : gmap string body) : option state :=
  snd <$> run_lines (word w) ls (mk_state ms []).

Lemma run_parts bits a b s : run_lines bits (a ++ b) s = (run_lines bits a;; run_lines bits b) s.
Proof. apply run_app. Qed.

Lemma after_framed w ls f ms s :
  Forall (fun n => macros f !! n = None) (flat_map touches ls) ->
  after w ls ms = Some s -> ms ##ₘ macros f ->
  run_lines (word w) ls (over f (mk_state ms [])) = Some (tt, over f s) /\ macros s ##ₘ macros f.
Proof.
  intros Hf E Hd. unfold after in E.
  destruct (run_lines (word w) ls (mk_state ms [])) as [[[] s']|] eqn:Er; [|discriminate]. injection E as <-.
  refine (framed_lines (word w) (emit_call (word w)) mentions f _ ls _ _ _ Er Hd);
    [apply framed_emit | rewrite Forall_forall in Hf; exact Hf].
Qed.

(** The macros of the first part that the second uses. *)
Definition shared : list string :=
  ["__SYSCALL_COMPAT"; "__NR_syscalls"; "__NR3264_fcntl"; "__NR3264_statfs"; "__NR3264_fstatfs";
   "__NR3264_truncate"; "__NR3264_ftruncate"; "__NR3264_lseek"; "__NR3264_sendfile"; "__NR3264_fstatat";
   "__NR3264_fstat"; "__NR3264_mmap"; "__NR3264_fadvise64"].

Definition is_shared (n : string) : bool := existsb (String.eqb n) shared.
Definition kept (s : state) : gmap string body := filter (fun p => is_shared p.1 = true) (macros s).
Definition rest (s : state) : state := mk_state (filter (fun p => is_shared p.1 <> true) (macros s)) (table s).

Definition plain (b : body) : bool := match b with Num _ | Blank => true | _ => false end.

(** The shared macros after the first part, which are the same for all architectures
    but for the first of them. *)
Definition base (compat : bool) : gmap string body :=
  from_option kept ∅ (after true unistd_common (flags (if compat then ["__SYSCALL_COMPAT"] else []))).

Definition calls_of (ms : gmap string body) : list Z :=
  omap (fun p => match p.2 with Num z => if special p.1 then None else Some z | _ => None end)
    (map_to_list ms).

(** [ms] are the shared macros and [touched] the names of the second part. *)
Definition check_common (ref : gmap string Z) (ms : gmap string body) (touched : list string)
    (w compat : bool) (fs : list string) : bool :=
  match after w unistd_common (flags fs) with
  | Some s =>
      let others := macros (rest s) in
      check_known ref [] s && check_numbers 0 285 s && (compat || check_native s) &&
      bool_decide (kept s = ms) && forallb (fun p => plain p.2) (map_to_list (macros s)) &&
      forallb (fun n => match others !! n with None => true | Some _ => false end) touched
  | None => false
  end.

Definition check_old (ref : gmap string Z) (ms : gmap string body) (calls : list Z)
    (w compat : bool) (fs : list string) : bool :=
  match after w unistd_old (ms ∪ flags fs) with
  | Some t =>
      match value (macros t) "__NR_syscalls" with
      | Some n =>
          (285 <=? n) && check_known ref calls t && check_numbers 285 n t && (compat || check_native t)
      | None => false
      end
  | None => false
  end.

(** *** The finitely many choices *)

Lemma filtered_subsets (f : string -> bool) l : filter (fun x => f x = true) l ∈ subsets l.
Proof.
  induction l as [|x l IH]; [apply list_elem_of_singleton; reflexivity|].
  rewrite filter_cons. cbn [subsets]. apply elem_of_app.
  case_decide; [right; apply list_elem_of_fmap; eauto | left; assumption].
Qed.

Definition for_subsets (l : list string) (P : list string -> bool) : bool := forallb P (subsets l).

Lemma for_subsets_filter l P a : for_subsets l P = true -> P (wanted a l) = true.
Proof.
  unfold for_subsets. rewrite forallb_forall. intros H. apply H, list_elem_of_In, filtered_subsets.
Qed.

(** The numbers of all calls of the programs with a [long] of 32 or of 64 bits, from
    the architectures that have most of them. *)
Definition numbers_of (s : state) : gmap string Z :=
  delete "__NR_syscalls" (omap (eval 2 (macros s)) (macros s)).

Definition numbers (abi32 : bool) : gmap string Z :=
  let fs := ["__ARCH_WANT_SYSCALL_NO_AT"; "__ARCH_WANT_SYSCALL_NO_FLAGS"; "__ARCH_WANT_SYSCALL_OFF_T";
             "__ARCH_WANT_SYSCALL_DEPRECATED"] in
  let number fs := from_option numbers_of ∅ (after (negb abi32) unistd (flags fs)) in
  number fs ∪ number ("__ARCH_WANT_SYNC_FILE_RANGE2" :: fs).

Definition reference (n32 n64 : gmap string Z) (w compat : bool) : gmap string Z :=
  if negb w || compat then n32 else n64.

Definition check_arch (ref : gmap string Z) (ms : gmap string body) (calls : list Z) (touched : list string)
    (w compat : bool) : bool :=
  for_subsets (drop 1 early) (fun fs =>
    check_common ref ms touched w compat (if compat then "__SYSCALL_COMPAT" :: fs else fs)) &&
  for_subsets late (check_old ref ms calls w compat).

Definition check_all : bool :=
  let n32 := numbers true in let n64 := numbers false in
  let touched := flat_map touches unistd_old in
  forallb (fun compat =>
    let ms := base compat in let calls := calls_of ms in
    forallb (fun w => check_arch (reference n32 n64 w compat) ms calls touched w compat) [false; true])
    [false; true] &&
  forallb (fun n => negb (existsb (String.eqb n) late)) (flat_map touches unistd_common).

Lemma all_checked : check_all = true.
Proof. vm_compute. reflexivity. Qed.

(** ** The parts together *)

Lemma wanted_early a :
  wanted a early = (if wants a "__SYSCALL_COMPAT" then ["__SYSCALL_COMPAT"] else []) ++ wanted a (drop 1 early).
Proof.
  unfold wanted, early. rewrite filter_cons. cbn [drop].
  destruct (wants a "__SYSCALL_COMPAT") eqn:E; case_decide as H; first [reflexivity | congruence].
Qed.

Lemma flags_app xs ys : flags (xs ++ ys) = flags xs ∪ flags ys.
Proof. unfold flags. rewrite map_app, list_to_map_app. reflexivity. Qed.

Lemma flags_out xs n : n ∉ xs -> flags xs !! n = None.
Proof. intros Hn. rewrite flags_lookup. apply decide_False, Hn. Qed.

Lemma flags_disjoint xs ys : xs ## ys -> flags xs ##ₘ flags ys.
Proof.
  intros Hd. apply map_disjoint_spec. intros n b b' Hx Hy.
  destruct (decide (n ∈ xs)) as [Hin|Hn]; [|rewrite flags_out in Hx by assumption; discriminate].
  rewrite flags_out in Hy; [discriminate | intros Hin'; exact (Hd n Hin Hin')].
Qed.

(** *** What is checked of the two parts *)

Definition ref_of (a : arch) : gmap string Z := reference (numbers true) (numbers false) (wide a) (wants a "__SYSCALL_COMPAT").

Record common_part (a : arch) (s : state) : Prop := {
  common_runs : after (wide a) unistd_common (flags (wanted a early)) = Some s;
  common_known : known (ref_of a) [] s;
  common_numbers : numbered 0 285 s;
  common_native : wants a "__SYSCALL_COMPAT" = false -> native s;
  common_kept : kept s = base (wants a "__SYSCALL_COMPAT");
  common_plain : forall n b, macros s !! n = Some b -> plain b = true;
  common_frame : Forall (fun n => macros (rest s) !! n = None) (flat_map touches unistd_old)
}.

Record old_part (a : arch) (ms : gmap string body) (t : state) (n : Z) : Prop := {
  old_runs : after (wide a) unistd_old (ms ∪ flags (wanted a late)) = Some t;
  old_count : value (macros t) "__NR_syscalls" = Some n;
  old_enough : 285 <= n;
  old_known : known (ref_of a) (calls_of ms) t;
  old_numbers : numbered 285 n t;
  old_native : wants a "__SYSCALL_COMPAT" = false -> native t
}.

Lemma check_arch_holds a :
  check_arch (ref_of a) (base (wants a "__SYSCALL_COMPAT")) (calls_of (base (wants a "__SYSCALL_COMPAT")))
    (flat_map touches unistd_old) (wide a) (wants a "__SYSCALL_COMPAT") = true.
Proof.
  pose proof all_checked as H. unfold check_all in H. apply andb_true_iff in H as [H _].
  rewrite forallb_forall in H. specialize (H (wants a "__SYSCALL_COMPAT")).
  assert (forall b : bool, In b [false; true]) as Hb by (intros []; cbn; tauto).
  specialize (H (Hb _)). cbv zeta in H. rewrite forallb_forall in H. exact (H (wide a) (Hb _)).
Qed.

Lemma native_when (b : bool) s : b || check_native s = true -> b = false -> native s.
Proof. intros H ->. apply check_native_sound, H. Qed.

Lemma common_checked a : exists s, common_part a s.
Proof.
  pose proof (check_arch_holds a) as H. unfold check_arch in H. apply andb_true_iff in H as [H _].
  apply (for_subsets_filter _ _ a) in H. unfold check_common in H.
  replace (if wants a _ then _ else _) with (wanted a early) in H
    by (rewrite wanted_early; destruct (wants a "__SYSCALL_COMPAT"); reflexivity).
  destruct (after _ _ _) as [s|] eqn:E; [|discriminate]. exists s. cbv zeta in H.
  rewrite !andb_true_iff, bool_decide_eq_true, !forallb_forall in H.
  destruct H as [[[[[Hk Hn] Ha] Hb] Hp] Hf]. constructor.
  - assumption.
  - apply check_known_sound, Hk.
  - apply check_numbers_sound, Hn.
  - apply native_when, Ha.
  - assumption.
  - intros n b Hl%elem_of_map_to_list%list_elem_of_In%Hp. assumption.
  - apply Forall_forall. intros n Hl%list_elem_of_In%Hf. destruct (_ !! n); [discriminate | reflexivity].
Qed.

Lemma old_checked a : exists t n, old_part a (base (wants a "__SYSCALL_COMPAT")) t n.
Proof.
  pose proof (check_arch_holds a) as H. unfold check_arch in H. apply andb_true_iff in H as [_ H].
  apply (for_subsets_filter _ _ a) in H. unfold check_old in H.
  destruct (after _ _ _) as [t|] eqn:E; [|discriminate].
  destruct (value _ _) as [n|] eqn:En; [|discriminate].
  rewrite !andb_true_iff in H. destruct H as [[[Hc Hk] Hn] Ha]. exists t, n. constructor.
  - assumption.
  - assumption.
  - apply Z.leb_le, Hc.
  - apply check_known_sound, Hk.
  - apply check_numbers_sound, Hn.
  - apply native_when, Ha.
Qed.

Lemma kept_rest s : macros s = kept s ∪ macros (rest s) /\ kept s ##ₘ macros (rest s).
Proof.
  unfold kept, rest. cbn. split; [symmetry; apply map_filter_union_complement | apply map_disjoint_filter_complement].
Qed.

(** The second part runs in the state the first one leaves. *)
Lemma parts_run a s t n :
  common_part a s -> old_part a (kept s) t n -> preprocess a = Some (over (rest s) t).
Proof.
  intros Hs Ht. destruct (kept_rest s) as [Es Hd].
  assert (flags (wanted a early) ##ₘ flags (wanted a late)) as Hfl.
  { apply flags_disjoint. intros f [_ H1]%list_elem_of_filter [_ H2]%list_elem_of_filter.
    assert (Forall (fun f => f ∉ late) early) as H by (apply (bool_decide_unpack _); vm_compute; exact I).
    rewrite Forall_forall in H. exact (H f H1 H2). }
  destruct (after_framed (wide a) unistd_common (mk_state (flags (wanted a late)) [])
              (flags (wanted a early)) s) as [R1 D1]; [| apply (common_runs _ _ Hs) | exact Hfl |].
  { pose proof all_checked as H. unfold check_all in H. apply andb_true_iff in H as [_ H].
    rewrite forallb_forall in H. apply Forall_forall. intros f Hf. apply list_elem_of_In, H in Hf. apply flags_out.
    intros Hin. apply list_elem_of_filter, proj2 in Hin.
    assert (existsb (String.eqb f) late = true) as E
      by (apply existsb_exists; exists f; rewrite <- list_elem_of_In; split; [exact Hin | apply String.eqb_refl]).
    rewrite E in Hf. discriminate. }
  cbn in D1. rewrite Es in D1. apply map_disjoint_union_l in D1 as [D1 D2].
  destruct (after_framed (wide a) unistd_old (rest s) _ _ (common_frame _ _ Hs) (old_runs _ _ _ _ Ht)) as [R2 _].
  { apply map_disjoint_union_l. split; [exact Hd | symmetry; exact D2]. }
  unfold preprocess, unistd. unfold wanted. rewrite filter_app. fold (wanted a early) (wanted a late).
  rewrite flags_app, run_parts. unfold mbind, st_bind.
  match goal with |- context [run_lines ?w ?ls ?s] =>
    replace s with (over (mk_state (flags (wanted a late)) [] : state) (mk_state (flags (wanted a early)) []))
      by reflexivity end.
  rewrite R1. replace (over (mk_state (flags (wanted a late)) []) s)
    with (over (rest s) (mk_state (kept s ∪ flags (wanted a late)) [])); [rewrite R2; reflexivity|].
  assert (macros s ∪ flags (wanted a late) = kept s ∪ flags (wanted a late) ∪ macros (rest s)) as Em.
  { rewrite Es at 1. rewrite <- !(assoc_L (∪)). f_equal. apply map_union_comm, D2. }
  unfold over. cbn [macros table]. rewrite Em, app_nil_r. reflexivity.
Qed.

(** *** The whole header *)

(** The calls of the shared macros have entries in the first part of the table. *)
Lemma shared_calls a s z : common_part a s -> z ∈ calls_of (kept s) -> z ∈ map fst (table s).
Proof.
  intros Hs Hin. unfold calls_of in Hin. apply list_elem_of_omap in Hin as ([n b] & Hp & Hz). apply elem_of_map_to_list, map_lookup_filter_Some in Hp as [Hn _].
  destruct b as [y | | |]; try discriminate. cbn in Hz.
  destruct (special n) eqn:Hsp; [discriminate|]. injection Hz as ->.
  destruct (common_known _ _ Hs n _ Hn) as (z' & [= <-] & Hz & _); [discriminate|].
  rewrite app_nil_r in Hz. auto.
Qed.

Lemma whole_known a s t n :
  common_part a s -> old_part a (kept s) t n -> known (ref_of a) [] (over (rest s) t).
Proof.
  intros Hs Ht m b Hm Hb. cbn [over macros table rest] in *. rewrite app_nil_r, map_app.
  apply lookup_union_Some_raw in Hm as [Hm | [_ Hm]].
  - destruct (old_known _ _ _ _ Ht m b Hm Hb) as (z & Ez & Hz & Hr). exists z. split_and!; [|intros Hsp | exact Hr].
    + eapply eval_mono; [apply map_union_subseteq_l | exact Ez].
    + specialize (Hz Hsp). apply elem_of_app in Hz as [Hz | Hz]; apply elem_of_app; [right; exact Hz | left].
      eapply shared_calls; eassumption.
  - apply map_lookup_filter_Some in Hm as [Hm _].
    destruct (common_known _ _ Hs m b Hm Hb) as (z & Ez & Hz & Hr). exists z. split_and!; [|intros Hsp | exact Hr].
    + pose proof (common_plain _ _ Hs _ _ Hm). destruct b; try discriminate. exact Ez.
    + rewrite app_nil_r in Hz. apply elem_of_app. left. auto.
Qed.

Lemma whole_fits a s t n :
  common_part a s -> old_part a (kept s) t n -> fits (over (rest s) t).
Proof.
  intros Hs Ht. destruct (common_numbers _ _ Hs) as [N1 B1]. destruct (old_numbers _ _ _ _ Ht) as [N2 B2].
  pose proof (old_enough _ _ _ _ Ht). rewrite Forall_forall in B1, B2. split; cbn [over macros table rest].
  - rewrite map_app. apply NoDup_app. split_and!; [exact N1 | | exact N2].
    intros z (e & -> & He)%list_elem_of_fmap (e' & E & He')%list_elem_of_fmap.
    specialize (B1 _ He). specialize (B2 _ He'). lia.
  - exists n. split; [eapply value_mono; [apply map_union_subseteq_l | apply (old_count _ _ _ _ Ht)]|].
    apply Forall_app. split; apply Forall_forall; intros e He; [specialize (B1 _ He) | specialize (B2 _ He)]; lia.
Qed.

Lemma known_served ref s : known ref [] s -> served s.
Proof.
  intros H n b Hn Hb Hsp. destruct (H n b Hn Hb) as (z & Ez & Hz & _). rewrite app_nil_r in Hz.
  exists z. split; [unfold value; rewrite Hn; exact Ez | auto].
Qed.

Lemma known_value ref more s n x :
  known ref more s -> n <> "__NR_syscalls" -> value (macros s) n = Some x -> ref !! n = Some x.
Proof.
  intros H Hn Hx. unfold value in Hx. destruct (macros s !! n) as [b|] eqn:E; [|discriminate]. cbn [mbind option_bind] in Hx.
  destruct (H n b E) as (z & Ez & _ & Hr); [intros ->; discriminate|]. rewrite Hx in Ez. injection Ez as <-. auto.
Qed.

Lemma arch_sound a :
  exists s, preprocess a = Some s /\ fits s /\ known (ref_of a) [] s /\ (wants a "__SYSCALL_COMPAT" = false -> native s).
Proof.
  destruct (common_checked a) as [s Hs]. destruct (old_checked a) as (t & n & Ht).
  rewrite <- (common_kept _ _ Hs) in Ht. exists (over (rest s) t).
  split_and!; [eapply parts_run | eapply whole_fits | eapply whole_known |]; try eassumption.
  intros Hw. apply Forall_app. split; [apply (common_native _ _ Hs Hw) | apply (old_native _ _ _ _ Ht Hw)].
Qed.

(** C33 For every word size and every choice of the macros that architectures define,
    the header expands without an undefined or twice defined macro; the calls fit a
    table of [__NR_syscalls] entries, none is given twice, the name of each call has
    an entry, and a kernel's own table has no function for 32-bit programs. *)
Theorem tables_sound (a : arch) :
  exists s, preprocess a = Some s /\ fits s /\ served s /\ (wants a "__SYSCALL_COMPAT" = false -> native s).
Proof. destruct (arch_sound a) as (s & Hs & Hf & Hk & Hn). exists s. eauto using known_served. Qed.

(** C34 Two architectures whose programs have the same [long], a 32-bit one and the
    32-bit half of a 64-bit one included, give each call that both name the same
    number, whatever else they choose. *)
Theorem numbers_agree (a b : arch) (s t : state) (n : string) (x y : Z) :
  preprocess a = Some s -> preprocess b = Some t -> abi32 a = abi32 b -> n <> "__NR_syscalls" ->
  value (macros s) n = Some x -> value (macros t) n = Some y -> x = y.
Proof.
  intros Hs Ht Hab Hn Hx Hy.
  destruct (arch_sound a) as (s' & Hs' & _ & Ka & _). destruct (arch_sound b) as (t' & Ht' & _ & Kb & _).
  rewrite Hs in Hs'. rewrite Ht in Ht'. injection Hs' as <-. injection Ht' as <-.
  apply (known_value _ _ _ _ _ Ka Hn) in Hx. apply (known_value _ _ _ _ _ Kb Hn) in Hy.
  unfold ref_of, reference, abi32 in *. rewrite Hab in Hx. congruence.
Qed.

(** A 32-bit machine and the table of a 64-bit one for 32-bit programs. *)
Definition example_32 : arch := mk_arch false (fun _ => false).
Definition example_compat : arch :=
  mk_arch true (fun f => (f =? "__SYSCALL_COMPAT")%string || (f =? "__ARCH_WANT_SYSCALL_NO_AT")%string).

Lemma number_read a s n x :
  preprocess a = Some s -> (s ← preprocess a; value (macros s) n) = Some x -> value (macros s) n = Some x.
Proof. intros ->. trivial. Qed.

Lemma numbers_agree_witness :
  exists s t x y, preprocess example_32 = Some s /\ preprocess example_compat = Some t /\
    value (macros s) "__NR_fstat64" = Some x /\ value (macros t) "__NR_fstat64" = Some y /\ x = y.
Proof.
  destruct (arch_sound example_32) as (s & Hs & _). destruct (arch_sound example_compat) as (t & Ht & _).
  assert (value (macros s) "__NR_fstat64" = Some 80) as Hx by (apply (number_read _ _ _ _ Hs); vm_compute; reflexivity).
  assert (value (macros t) "__NR_fstat64" = Some 80) as Hy by (apply (number_read _ _ _ _ Ht); vm_compute; reflexivity).
  exists s, t, 80, 80. split_and!; [assumption..|].
  refine (numbers_agree example_32 example_compat s t "__NR_fstat64" 80 80 Hs Ht _ _ Hx Hy);
    [vm_compute; reflexivity | intros [=]].
Defined.
